(* ===== verification/_CoqProject ===== *)
-Q . S2P
Prelude.v
Buffer.v
StringInfo.v
Keywords.v
Unicode.v
Scansup.v
Quote.v
Enums.v
Nodes.v
DeparseNames.v
DeparseExpr.v
DeparseStmt.v
Lexical.v
Shape.v
Rules.v
DeparseSafe.v
DeparseSafeStmt.v
DeparseTheorems.v
ExprText.v
ExprRound.v
Scanner.v
Split.v
Scan.v
Normalize.v
Walker.v
WalkerProof.v
Array.v
Qsort.v
QsortProof.v
Udeescape.v
Lookahead.v
Lists.v
Bitmapset.v
Parse.v
EnumDefs.v
Messages.v
ProtobufOut.v
ProtobufRead.v
TreeCheck.v
CopyFuncs.v
CopyProof.v
EqualFuncs.v
EqualProof.v
EqualTheorems.v
ProtobufC.v
ProtobufCDesc.v
ProtobufCPack.v
ProtobufCUnpack.v
ProtobufTables.v
ProtobufCTheorems.v
ProtobufStruct.v
ProtobufRound.v
Protobuf.v
DeparseParts.v
DeparseTables.v
DeparseObjects.v
DeparseUtil.v
AgreeDeparse.v
AgreeStmt.v
AgreeUtil.v
DollarQuote.v
DeparseEntry.v
Json.v
JsonOut.v
JsonProof.v
JsonTheorems.v
Fingerprint.v
NodesMap.v
FingerprintDefs.v
WalkerTheorems.v
FingerprintExec.v
FingerprintCost.v
FingerprintNodes.v
FingerprintTheorems.v
Hashfn.v
SimpleHash.v
SimpleHashView.v
SimpleHashProof.v
SimpleHashInsert.v
SimpleHashTheorems.v
