(* ===== verification/Prelude.v ===== *)
(** * Verification of the SQL core: a development over [src/]

    The repository is an SQL optimizer in C++ ([src/src/optimizer]) on top of a
    copy of libpg_query: the parser of PostgreSQL cut out of the server
    ([src/src/postgres]) with functions that print, normalize, split, scan and
    fingerprint queries ([src/src/pg_query_*.c]).  This library models the hand-written
    C code of libpg_query and what it calls in the server; the functions and their
    parts keep the names of the C code, and a comment names the file.

    ** The parts and how they interact

    A query enters as a string.  The scanner turns it into tokens; [base_yylex]
    filters them for the parser, which returns a parse tree ([Nodes]).  Then:
    - [pg_query_split] and [pg_query_scan] work on the tokens alone;
    - [pg_query_normalize] walks the tree to record where constants are, scans the
      text again to see how long they are, and replaces them by [$n];
    - [pg_query_fingerprint] hashes the tree, without its constants;
    - [pg_query_parse] and [pg_query_parse_protobuf] return the tree as JSON and as a
      protocol buffer, and [pg_query_protobuf_to_nodes] reads the latter;
    - [pg_query_deparse_protobuf] prints the statements of a protocol buffer as a
      query; the optimizer prints what it has rewritten with it.
    All of them write into [StringInfo] buffers, use lists, bitmap sets, quicksort,
    the keyword table and the functions for UTF-8.

    ** The files

    Shared:
    - [Prelude]: C strings, results that may raise ([outcome]), integers.
    - [Array]: a block of memory as a list with checked access.
    - [Buffer]: the text of ["%d"] and ["%02x"]; the class [StringBuf] of appendable
      buffers with its laws, and [dep], programs that write to any of them.  It is the interface between the deparser
      and [stringinfo.c].

    The run-time library:
    - [StringInfo]: [postgres/src_common_stringinfo.c], [src_common_psprintf.c]; the
      struct [StringInfoData] as a record with its block; every operation.
    - [Qsort], [QsortProof]: [postgres/src_port_qsort.c].
    - [Lists]: [postgres/src_backend_nodes_list.c], on a store of list headers.
    - [Bitmapset]: [postgres/src_backend_nodes_bitmapset.c].
    - [Unicode]: UTF-8 in [postgres/src_common_wchar.c] and
      [src_backend_utils_mb_mbutils.c].

    Words and tokens:
    - [Keywords]: the keyword table, its perfect hash, [ScanKeywordLookup].
    - [Quote]: [quote_identifier], [deparseStringLiteral].
    - [Scansup]: [postgres/src_backend_parser_scansup.c].
    - [Scanner]: the scanner as an interface and the loop its drivers share.
    - [Lookahead], [Udeescape]: [postgres/src_backend_parser_parser.c].
    - [Split], [Scan]: [pg_query_split.c], [pg_query_scan.c].

    Trees:
    - [Enums], [Nodes]: the enumerations and the structs of [postgres/include/nodes]
      that occur in raw parse trees; [NodesMap]: maps over them; [TreeCheck]: tests
      of the fields of a tree by their types.
    - [Parse]: [pg_query_raw_parse], errors as values.
    - [CopyFuncs], [EqualFuncs]: [copyObjectImpl] and [equal] of
      [postgres/src_backend_nodes_copyfuncs.c] and [equalfuncs.c] on the structs of raw
      parse trees; [CopyProof], [EqualProof], [EqualTheorems]: the proofs.
    - [EnumDefs]: the enumerations as names and numbers.  [Messages]: the structs of
      [protobuf/pg_query.pb-c.h].  [ProtobufOut], [ProtobufRead]: the functions from
      structs to messages and back ([pg_query_outfuncs_protobuf.c],
      [pg_query_readfuncs_protobuf.c] and the generated files they include);
      [ProtobufRound]: the proof that trees come back; [Protobuf]: the entry points over
      a class [Wire] for the coding of messages.  [ProtobufStruct]: the messages as the
      structs of the packing library, read back without loss, and from these the
      instance of [Wire] whose codings are bytes.
    - The packing library, [vendor/protobuf-c/protobuf-c.c]: [ProtobufC] has its sizes,
      [protobuf_c_message_pack] and [protobuf_c_message_unpack] over descriptors as data
      and structs as lists of members; [ProtobufTables] has the descriptors of
      [protobuf/pg_query.pb-c.c]; [ProtobufCDesc] (numbers, descriptors, typed messages,
      the search for fields), [ProtobufCPack] (sizes and elements), [ProtobufCUnpack]
      (scan, counts, blocks, contents) and [ProtobufCTheorems] (bytes that may be anything,
      the theorems) have the proofs.
    - [JsonOut]: [pg_query_outfuncs_json.c] and [pg_query_json_helper.c], programs over
      the buffers of [Buffer]; [Json]: JSON values, their text and a reader, the
      specification; [JsonProof], [JsonTheorems]: the proofs and the entry point.
    - The deparser, [pg_query_deparse.c]: [DeparseNames], [DeparseExpr], [DeparseStmt]
      have [deparse], which prints expressions, tables, queries, INSERT, UPDATE and
      DELETE by recursion over the tree; [DeparseParts], [DeparseTables],
      [DeparseObjects], [DeparseUtil] have the other statements above it, up to
      [deparseStmt]; [DeparseEntry] has the entry point.
    - [Lexical], [Shape], [Rules], [DeparseSafe], [DeparseSafeStmt], [DeparseTheorems]: what [deparse] writes.
    - [AgreeDeparse], [AgreeStmt], [AgreeUtil]: the whole deparser does on any
      buffer what it does on strings, for all trees, by induction over the tree and
      rules for the programs of [Buffer].  [DollarQuote]: the bodies of functions.
    - [ExprText], [ExprRound]: the text of a condition is read back; the list
      builders of [postgres/src_backend_parser_gram.c] for AND, OR and NOT.
    - [Normalize], [Walker], [WalkerProof], [WalkerTheorems]: [pg_query_normalize.c]
      and [raw_expression_tree_walker] of [postgres/src_backend_nodes_nodeFuncs.c].
    - [Fingerprint], [FingerprintDefs]: [pg_query_fingerprint.c] and the three
      generated files it includes; [FingerprintExec],
      [FingerprintCost], [FingerprintNodes], [FingerprintTheorems]: the proofs.
    - [Hashfn]: [postgres/src_common_hashfn.c]; [SimpleHash]: the hash table template
      [postgres/include/lib/simplehash.h], of which the cache of list items is made;
      [SimpleHashView] (tables as functions on the integers, with the invariant of Robin
      Hood hashing), [SimpleHashProof], [SimpleHashInsert],
      [SimpleHashTheorems]: the proofs.

    ** What the theorems show

    - Buffers: any sequence of operations on a [StringInfo] is the same sequence on
      a string, within the limits of the allocator ([stringinfo_refines_string]).
    - Deparser: on a tree of the shape the parser builds the text is a sequence of
      complete tokens with matched brackets ([deparse_closed]), if that holds of the
      names in the five places where the code copies a name without quotes
      ([unquoted_names] shows what happens otherwise), whatever the other strings of
      the tree are; conditions are read back ([deparse_reads_back]),
      literals and identifiers of 1 to 63 bytes too, the bodies of functions but for the cases the
      theorems name ([deparseFuncAs_roundtrip], [do_body_roundtrip]).  On a
      [StringInfo] every statement is printed as on a string, errors included, unless
      the buffer is full ([deparseStmt_on_stringinfo]).  Where the text does not mean
      the tree a theorem shows it ([null_test_not_injective],
      [set_list_loses_columns], [lock_policy_glued], the examples of [DeparseEntry]).
    - The way around: parsing, sending over the wire and deparsing gives the texts of
      the statements ([parse_protobuf_deparse]); errors come back as values
      ([pg_query_deparse_protobuf_correct]).
    - Normalization: exactly the constants of the tree are replaced, by symbols
      without gap after the highest one of the query ([pg_query_normalize_correct]
      and what it is composed of).  [normalize_minus_comment] and [normalize_overflow]
      show what happens with a comment after a minus sign and with the parameter of
      number [INT_MAX], which the theorems leave out.
    - Splitting and scanning: the two passes agree, the slots are written once and
      in bounds, the statements are those of a reference definition.
    - The filter before the parser, a state machine with one token of look-ahead that
      patches the scan buffer, computes a function on the list of tokens
      ([base_yylex_filters]); the escapes of Unicode strings are decoded exactly
      where they are well formed.
    - Fingerprints: the hash of a text that is a function of the tree, in
      hexadecimal; without the constants; with the sorted lists as sets; at a cost
      the cache of list items keeps linear.
    - The wire: the protocol buffer of a query, down to its bytes, is read back as its
      tree, but for empty strings ([pg_query_parse_protobuf_roundtrip]); the JSON output is JSON whatever
      bytes the query holds ([pg_query_parse_json]).
    - The packing library, for the tables of this program: what is packed is unpacked
      again ([message_unpack_pack]), any bytes are unpacked or refused without an access out
      of bounds ([message_unpack_safe]), a message takes exactly the bytes that were computed
      ([message_packed_size]); the searches in the tables find their fields
      ([fields_are_found]).  Where a message field comes twice, merging loses numbers and
      refuses unions that are not set ([merge_drops_numbers], [merge_refuses_unset_union]).
    - The hash table: any sequence of operations answers as a finite map does, through
      all its growth ([simplehash_refines_map]), which is what [Fingerprint] takes the
      cache for.
    - Copies and comparisons: a copy is the tree itself, in every field
      ([copyObjectImpl_identity]); [equal] holds for exactly the trees that differ only in
      what the code leaves out, the locations and forms of words ([equal_correct]).
    - Keyword lookup, quicksort, hashing, lists, bitmap sets, UTF-8: each against a reference
      definition, with termination and bounds.

    ** Conventions

    A pointer that may be null is an [option], except for [List *], where the empty
    list is NIL.  A call outside the contract that the code states with [Assert] and
    [castNode] is [Undef], as is any access outside a block; [elog(ERROR)] is [Elog].
    Integers are [Z] with the wrap-around written where the code can reach it ([int]
    wraps, as [-fwrapv] has it).  Blocks of memory are modelled where the code
    computes their size ([StringInfo], [Lists], [Qsort], the normalized text, the
    output of [str_udeescape]).  The readers of the round trips follow the rules of
    the scanner where these matter: the end of a quoted identifier with its errors and
    its truncation ([identifier] in [Quote]), and the rule that cuts an operator
    ([scan_operator] in [ExprText]).

    Fuel: [grow_fuel] is 30, as a buffer doubles at most 30 times up to
    [MaxAllocSize]; a scan has one more unit than the input has bytes, as every token
    takes one; [pg_qsort] has [log2 n + 1] nested calls of [n + 1] rounds; [base_yylex]
    one more than there are tokens; [str_udeescape] one more than there are bytes.
    [protobuf_c_message_unpack] nests at most as deep as there are bytes, and its loops
    take a byte a round.  [SimpleHash] probes at most as many buckets as there are and grows at most 32 times.
    The theorems show that none of it runs out.  The bounds in statements are those
    of the code: 64-bit words in [Bitmapset], at most [2^25] of them so that the members are [int]s, at most [2^26] cells in a list (what
    [MaxAllocSize] allows), at most 40,000,000 constants in [Normalize].

    Parameters, each with its documented behaviour as a hypothesis and an instance
    that satisfies it: the generated scanner ([Scanner], [Lookahead]) and the grammar
    ([raw_parser]); [qsort] in [Normalize], which [QsortProof] discharges with the
    code; the hash library XXH3; [isupper] and [tolower]; [copyObjectImpl] in
    [Lists], of which [CopyProof] shows what is assumed.  The fingerprint is a parameter of
    [Walker] without any hypothesis; what the walk needs of a tree, [good], speaks of the
    fingerprints of its own targets and GROUP BY items, and the witnesses take
    [pg_query_fingerprint_node].  The theorems about the texts of fingerprints assume
    that no two of the texts hashed for the query at hand collide.

    ** Not modelled

    - [src_backend_parser_gram.c], [src_backend_parser_scan.c]: tables and actions
      generated by bison and flex, but for the three list builders, the rule for
      operators and the end of quoted identifiers.
    - Of the packing library: lack of memory and freeing, packing to a buffer, the tables
      of enumerations, services, and messages without an [init] function.  In [ProtobufStruct]
      a string that is empty is [protobuf_c_empty_string], as the macros of
      [pg_query_outfuncs_protobuf.c] leave a null one; an empty copy is packed alike.
    - Memory contexts, error stack, settings: the run-time system of the server.  Lack
      of memory is modelled only as the size check of [palloc]; the check of the depth
      of the C stack is not modelled.
    - PL/pgSQL: a second generated parser with its output.
    - The C++ optimizer.
    - The structs that raw parse trees do not hold (of analysis, planning, execution):
      [N_Other] stands for them, and what would look into one is [Undef].
    - Encodings other than UTF-8. *)
From stdpp Require Export base tactics list strings pretty.
From Stdlib Require Export ZArith Lia.
From Stdlib Require Export Ascii String.

#[global] Open Scope string_scope.

(** ** C strings

    A [char *] that is not NULL is a [string].  The C functions stop at the
    first zero byte, so a modelled string never contains one.  A [char *] that
    may be NULL is an [option string]. *)

(** The byte that ends a C string. *)
Definition NUL : ascii := "000"%char.

(** Character ranges, written as the C code writes them: the comparisons of a
    [char] with character constants. *)
Definition char_le (a b : ascii) : bool := (N_of_ascii a <=? N_of_ascii b)%N.
Definition in_range (lo hi c : ascii) : bool := char_le lo c && char_le c hi.

Fixpoint string_forall (p : ascii -> bool) (s : string) : bool :=
  match s with
  | EmptyString => true
  | String c s' => p c && string_forall p s'
  end.

Fixpoint string_map (f : ascii -> ascii) (s : string) : string :=
  match s with
  | EmptyString => EmptyString
  | String c s' => String (f c) (string_map f s')
  end.

Fixpoint string_existsb (p : ascii -> bool) (s : string) : bool :=
  match s with
  | EmptyString => false
  | String c s' => p c || string_existsb p s'
  end.

(** ** Results of calls that may raise

    [Ok] is a normal return, [Elog] an [elog(ERROR)] or [ereport(ERROR)] (which
    leaves the function through [siglongjmp]), and [Undef] a call outside the
    contract the C code states with [Assert] and [castNode]: [pg_config.h]
    leaves [USE_ASSERT_CHECKING] undefined, so the program does not check these
    conditions and its behaviour is not defined when one fails. *)
Inductive outcome (A : Type) : Type :=
| Ok (a : A)
| Elog (msg : string)
| Undef.
Arguments Ok {A}.
Arguments Elog {A}.
Arguments Undef {A}.

Definition obind {A B} (m : outcome A) (k : A -> outcome B) : outcome B :=
  match m with
  | Ok a => k a
  | Elog e => Elog e
  | Undef => Undef
  end.

Declare Scope outcome_scope.
Delimit Scope outcome_scope with outcome.
#[global] Open Scope outcome_scope.
Notation "'let*' x := m 'in' k" := (obind m (fun x => k))
  (at level 10, x pattern, m at level 100, k at level 200)
  : outcome_scope.

(** One call after the other on the elements of a list. *)
Definition mapo {A B} (f : A -> outcome B) : list A -> outcome (list B) :=
  fix go l :=
    match l with
    | [] => Ok []
    | x :: l' => let* y := f x in let* ys := go l' in Ok (y :: ys)
    end.

(** A C [int] is a [Z]; where the code can leave the range of the type the
    wrap-around is written with these. *)
Definition int_max : Z := 2147483647.
Definition int_min : Z := -2147483648.
Definition int32 (z : Z) : Z := ((z + 2147483648) mod 4294967296 - 2147483648)%Z.
Definition wrap32 (z : Z) : Z := (z mod 2 ^ 32)%Z.
Definition wrap64 (z : Z) : Z := (z mod 2 ^ 64)%Z.

(** [list_all] and [option_all]: a predicate on all elements, for the induction over
    types that are nested in lists and options. *)
Scheme All for list.
Scheme All for option.

(** ** Lemmas on integers *)

Lemma int32_small z : (int_min <= z <= int_max)%Z -> int32 z = z.
Proof. unfold int32, int_min, int_max. intros Hz. rewrite Z.mod_small by lia. lia. Qed.

Lemma int32_add_l a b : int32 (int32 a + b) = int32 (a + b).
Proof.
  unfold int32. f_equal. replace ((a + 2147483648) mod 4294967296 - 2147483648 + b + 2147483648)%Z
    with ((a + 2147483648) mod 4294967296 + b)%Z by lia.
  rewrite Z.add_mod_idemp_l by done. f_equal. lia.
Qed.

(** ** Lemmas on strings *)

Lemma string_app_cons c s1 s2 : String c s1 +:+ s2 = String c (s1 +:+ s2).
Proof. done. Qed.

Lemma string_app_nil_l s : "" +:+ s = s.
Proof. done. Qed.

Lemma string_app_nil_r s : s +:+ "" = s.
Proof. induction s as [|c s IH]; [done|]. by rewrite string_app_cons, IH. Qed.

Lemma string_app_assoc s1 s2 s3 : s1 +:+ (s2 +:+ s3) = (s1 +:+ s2) +:+ s3.
Proof. induction s1 as [|c s1 IH]; [done|]. by rewrite !string_app_cons, IH. Qed.

Lemma string_app_empty_inv s1 s2 : s1 +:+ s2 = "" -> s1 = "" /\ s2 = "".
Proof. by destruct s1. Qed.

Lemma string_length_app s1 s2 :
  String.length (s1 +:+ s2) = String.length s1 + String.length s2.
Proof. induction s1 as [|c s1 IH]; [done|]. rewrite string_app_cons. cbn. by rewrite IH. Qed.

Lemma string_app_inj_l s t1 t2 : s +:+ t1 = s +:+ t2 -> t1 = t2.
Proof. induction s as [|c s IH]; [done|]. rewrite !string_app_cons. intros [=]. auto. Qed.

Lemma string_forall_app p s1 s2 :
  string_forall p (s1 +:+ s2) = string_forall p s1 && string_forall p s2.
Proof. induction s1 as [|c s1 IH]; [done|]. rewrite string_app_cons. cbn. by rewrite IH, andb_assoc. Qed.

Lemma string_forall_impl (p q : ascii -> bool) s :
  (forall c, p c = true -> q c = true) ->
  string_forall p s = true -> string_forall q s = true.
Proof.
  intros Hpq. induction s as [|c s IH]; [done|]. cbn.
  rewrite !andb_true_iff. intros [Hc Hs]. auto.
Qed.

Lemma string_map_length f s : String.length (string_map f s) = String.length s.
Proof. induction s as [|c s IH]; cbn; congruence. Qed.

(** Facts about one character, by going through all 256 of them. *)
Lemma ascii_forall (p : ascii -> bool) :
  forallb (fun n => p (ascii_of_nat n)) (seq 0 256) = true ->
  forall c, p c = true.
Proof.
  intros H c. rewrite forallb_forall in H.
  rewrite <-(ascii_nat_embedding c). apply H, in_seq.
  pose proof (nat_ascii_bounded c). lia.
Qed.

(** [ascii_cases p] proves [p c = true] for the character [c] in scope by
    computing [p] on every character. *)
Ltac ascii_cases p := apply (ascii_forall p); vm_compute; reflexivity.

(** Splits a hypothesis [b1 && b2 = true] everywhere. *)
Ltac split_andb :=
  repeat match goal with
  | H : _ && _ = true |- _ => apply andb_true_iff in H as [? ?]
  | H : negb _ = true |- _ => apply negb_true_iff in H
  end.

Create Rewrite HintDb cstr.
#[export] Hint Rewrite string_app_nil_r string_app_cons string_length_app
  string_forall_app string_map_length : cstr.

(** [(n & (n - 1)) == 0] is the test for a power of two. *)
Lemma land_pred_power (n : Z) : (0 < n)%Z -> Z.land n (n - 1) = 0%Z <-> n = (2 ^ Z.log2 n)%Z.
Proof.
  intros Hn. pose proof (Z.log2_spec n Hn) as Hlog. pose proof (Z.log2_nonneg n) as Hk.
  rewrite Z.pow_succ_r in Hlog by done. split; [intros Hl|intros E].
  - destruct (Z.eq_dec n (2 ^ Z.log2 n)) as [E|Hne]; [done|]. exfalso.
    assert (E : Z.log2 (n - 1) = Z.log2 n).
    { apply Z.log2_unique; [done|]. rewrite Z.pow_succ_r by done. lia. }
    apply (f_equal (fun z => Z.testbit z (Z.log2 n))) in Hl. rewrite Z.land_spec, Z.bits_0 in Hl.
    rewrite <-E in Hl at 2. rewrite !Z.bit_log2 in Hl by (pose proof (Z.pow_pos_nonneg 2 (Z.log2 n)); lia). done.
  - rewrite E. change (2 ^ Z.log2 n - 1)%Z with (Z.pred (2 ^ Z.log2 n)).
    rewrite <-Z.ones_equiv, Z.land_ones by done. by apply Z.mod_same, Z.pow_nonzero.
Qed.

(** The constant a term starts with. *)
Ltac head_of d := lazymatch d with ?f _ => head_of f | _ => d end.
