(* ===== verification/Buffer.v ===== *)
(** * Numbers as text, and string buffers

    The text of ["%d"] ([pretty] of stdpp, as in [DeparseNames.fmt_d]): how it is
    read back and how long it can be; the text of ["%02x"] and ["%04x"]; then the
    interface [StringBuf] of the programs that write to a buffer. *)
From S2P Require Import Prelude.

Open Scope Z_scope.

(** ["%02x"] of a byte, and ["%04x"] of one. *)
Definition hex_digit (d : Z) : string :=
  match String.get (Z.to_nat d) "0123456789abcdef" with Some c => String c "" | None => "" end.
Definition fmt_02x (b : Z) : string := hex_digit (b / 16) +:+ hex_digit (b mod 16).
Definition fmt_04x (b : Z) : string := "00" +:+ fmt_02x b.

Definition is_digit (c : ascii) : bool := in_range "0" "9" c.
Definition digit_value (c : ascii) : Z := Z.of_N (N_of_ascii c) - 48.

(** The value of the digits of [s] after the value [acc]. *)
Fixpoint read_digits (acc : Z) (s : string) : option Z :=
  match s with
  | EmptyString => Some acc
  | String c s' => if is_digit c then read_digits (acc * 10 + digit_value c) s' else None
  end.

Definition read_natural (s : string) : option Z :=
  match s with EmptyString => None | _ => read_digits 0 s end.

Definition read_integer (s : string) : option Z :=
  match s with
  | String c s' => if Ascii.eqb c "-" then Z.opp <$> read_natural s' else read_natural s
  | EmptyString => None
  end.

Lemma read_digits_app acc s t :
  read_digits acc (s +:+ t) =
  match read_digits acc s with Some v => read_digits v t | None => None end.
Proof.
  revert acc. induction s as [|c s IH]; intros acc; [done|].
  rewrite string_app_cons. cbn. by destruct (is_digit c).
Qed.

Lemma pretty_N_char_digit (x : N) :
  (x < 10)%N -> is_digit (pretty_N_char x) = true /\ digit_value (pretty_N_char x) = Z.of_N x.
Proof.
  intros H. assert (x = 0 \/ x = 1 \/ x = 2 \/ x = 3 \/ x = 4 \/ x = 5 \/ x = 6 \/ x = 7 \/ x = 8
    \/ x = 9)%N as Hx by lia.
  repeat destruct Hx as [->|Hx]; try (by vm_compute); subst x; by vm_compute.
Qed.

(** The digits of a number. *)
Lemma pretty_N_go_spec (x : N) :
  exists d, (forall s, pretty_N_go x s = d +:+ s) /\
    read_digits 0 d = Some (Z.of_N x) /\ string_forall is_digit d = true /\
    (forall k, (x < 10 ^ N.of_nat k)%N -> (String.length d <= k)%nat) /\ (x <> 0%N -> d <> "").
Proof.
  induction (N.lt_wf_0 x) as [x _ IH].
  destruct (N.eq_dec x 0) as [->|Hx]; [exists ""; repeat split; (done || (intros; cbn; lia))|].
  assert (H0 : (0 < x)%N) by lia.
  destruct (IH (x `div` 10)%N) as (d & Hd & Hr & Hf & Hl & _); [by apply N.div_lt|].
  assert (Hm : (x `mod` 10 < 10)%N) by by apply N.mod_lt.
  destruct (pretty_N_char_digit _ Hm) as [Hc Hv].
  exists (d +:+ String (pretty_N_char (x `mod` 10)) "").
  repeat split.
  - intros s. rewrite pretty_N_go_step by done. by rewrite Hd, <-string_app_assoc.
  - rewrite read_digits_app, Hr. cbn -[Z.mul Z.add Z.of_N]. rewrite Hc, Hv. f_equal.
    pose proof (N.div_mod x 10). lia.
  - rewrite string_forall_app, Hf. cbn. by rewrite Hc.
  - intros [|k] Hk; [cbn in Hk; lia|]. rewrite string_length_app. cbn -[Nat.add].
    enough (String.length d <= k)%nat by lia. apply Hl.
    rewrite Nat2N.inj_succ, N.pow_succ_r' in Hk. by apply N.Div0.div_lt_upper_bound.
  - intros _. by destruct d.
Qed.

(** The first digit is not zero. *)
Lemma pretty_N_go_first (x : N) :
  x <> 0%N -> forall s, exists c d, pretty_N_go x s = String c (d +:+ s) /\ c <> "0"%char.
Proof.
  induction (N.lt_wf_0 x) as [x _ IH]. intros Hx s.
  assert (Hm : (x `mod` 10 < 10)%N) by by apply N.mod_lt.
  destruct (pretty_N_char_digit _ Hm) as [_ Hv].
  rewrite pretty_N_go_step by lia. destruct (decide (x `div` 10 = 0)%N) as [E|E].
  - assert (Hne : digit_value (pretty_N_char (x `mod` 10)) <> 0)
      by (rewrite Hv; pose proof (N.Div0.div_mod x 10) as D; rewrite E in D; lia).
    rewrite E. generalize dependent (pretty_N_char (x `mod` 10)%N). intros c _ Hc.
    exists c, "". split; [done|]. by intros ->.
  - assert (Hlt : (x `div` 10 < x)%N) by (apply N.div_lt; lia).
    destruct (IH _ Hlt E (String (pretty_N_char (x `mod` 10)) s)) as (c & d & E' & Hc).
    exists c, (d +:+ String (pretty_N_char (x `mod` 10)) ""). split; [|done].
    by rewrite E', <-string_app_assoc.
Qed.

Lemma pretty_N_spec (x : N) :
  exists d, pretty x = d /\ read_natural d = Some (Z.of_N x) /\ string_forall is_digit d = true /\
    (forall k, (0 < k)%nat -> (x < 10 ^ N.of_nat k)%N -> (String.length d <= k)%nat) /\ d <> "".
Proof.
  unfold pretty, pretty_N. case_decide as E.
  - subst. by exists "0".
  - destruct (pretty_N_go_spec x) as (d & Hd & Hr & Hf & Hl & Hne).
    exists d. rewrite Hd, string_app_nil_r. specialize (Hne E).
    repeat split; try done; [|by auto]. by destruct d.
Qed.

(** What ["%d"] prints is read back. *)
Lemma read_pretty (z : Z) : read_integer (pretty z) = Some z.
Proof.
  destruct z as [|p|p]; [done|..]; unfold pretty, pretty_Z, pretty, pretty_positive;
    destruct (pretty_N_spec (Npos p)) as (d & -> & Hr & Hf & _ & Hne).
  - destruct d as [|c d]; [done|]. unfold read_integer.
    destruct (Ascii.eqb_spec c "-") as [->|]; [done|]. done.
  - change ("-" +:+ d) with (String "-" d). cbn [read_integer].
    change (Ascii.eqb "-" "-") with true. cbv iota. by rewrite Hr.
Qed.

(** A number below [10 ^ k] takes at most [k] bytes. *)
Lemma pretty_length (z : Z) (k : nat) :
  0 <= z < 10 ^ Z.of_nat k -> (0 < k)%nat -> (1 <= String.length (pretty z) <= k)%nat.
Proof.
  intros Hz Hk. rewrite <-(Z2N.id z) by lia. set (x := Z.to_N z).
  assert (Hx : (x < 10 ^ N.of_nat k)%N) by (unfold x; lia).
  assert (E : pretty (Z.of_N x) = pretty x) by by destruct x.
  rewrite E. destruct (pretty_N_spec x) as (d & -> & _ & _ & Hl & Hne).
  specialize (Hl k Hk Hx). destruct d; [done|]. cbn in *. lia.
Qed.

(** * String buffers and programs that write to one

    The deparser and the JSON output only touch their [StringInfo] through four
    calls: [appendStringInfoString], [appendStringInfoChar], [appendStringInfo] with
    a format, and their own [removeTrailingSpace] and [removeTrailingDelimiter].  [StringBuf] is that interface;
    [StringBufLaws] is what it promises.  [StringInfo.v] discharges it for the
    growing buffer of [stringinfo.c], this file for a plain string.  A [dep] is
    a program that runs against any buffer. *)

(** ** The interface *)

Class StringBuf (B : Type) : Type := {
  sb_contents : B -> string;                            (* the bytes data[0..len-1] *)
  sb_valid : B -> Prop;                                 (* the invariant of the representation *)
  appendStringInfoString : string -> B -> outcome B;
  appendStringInfoChar : ascii -> B -> outcome B;
  appendStringInfo : string -> B -> outcome B;          (* the formatted text *)
  removeTrailing : ascii -> B -> outcome B              (* of this character *)
}.

(** [removeTrailing] on the contents: drop one final [x]. *)
Fixpoint drop_trailing (x : ascii) (s : string) : string :=
  match s with
  | EmptyString => EmptyString
  | String c EmptyString => if Ascii.eqb c x then EmptyString else s
  | String c s' => String c (drop_trailing x s')
  end.
Abbreviation drop_trailing_space := (drop_trailing " "%char).

(** [over limit z]: [z] bytes are more than the buffer can hold. *)
Definition over (limit : option Z) (z : Z) : Prop :=
  match limit with Some m => (m <= z)%Z | None => False end.

Definition strlen (s : string) : Z := Z.of_nat (String.length s).

(** [appends limit b t n r]: the call that started on buffer [b] and returned
    [r] has added [t]; it fails only if the buffer cannot hold [n] bytes more
    than it held. *)
Definition appends {B} `{StringBuf B} (limit : option Z) (b : B) (t : string) (n : Z)
    (r : outcome B) : Prop :=
  match r with
  | Ok b' => sb_valid b' /\ sb_contents b' = sb_contents b +:+ t
  | Elog _ | Undef => over limit (strlen (sb_contents b) + n)
  end.

(** The laws.  A formatted append asks for up to 32 bytes more than the text:
    it leaves room for the next one. *)
Class StringBufLaws (B : Type) `{StringBuf B} (limit : option Z) : Prop := {
  append_string_law s b :
    sb_valid b -> appends limit b s (strlen s) (appendStringInfoString s b);
  append_char_law c b :
    sb_valid b -> appends limit b (String c EmptyString) 1 (appendStringInfoChar c b);
  append_fmt_law s b :
    sb_valid b -> appends limit b s (strlen s + 32) (appendStringInfo s b);
  remove_law x b :
    sb_valid b ->
    exists b', removeTrailing x b = Ok b' /\ sb_valid b' /\
      sb_contents b' = drop_trailing x (sb_contents b)
}.

(** ** Programs over a buffer *)

Definition dep : Type := forall B : Type, StringBuf B -> B -> outcome B.

Definition skip : dep := fun _ _ b => Ok b.
Definition seqd (d1 d2 : dep) : dep := fun B S b => obind (d1 B S b) (d2 B S).
Definition str (s : string) : dep := fun _ _ b => appendStringInfoString s b.
Definition chr (c : ascii) : dep := fun _ _ b => appendStringInfoChar c b.
Definition fmt (s : string) : dep := fun _ _ b => appendStringInfo s b.
Definition rts : dep := fun _ _ b => removeTrailing " " b.
Definition rtd : dep := fun _ _ b => removeTrailing "," b.
Definition elog (msg : string) : dep := fun _ _ _ => Elog msg.
Definition undef : dep := fun _ _ _ => Undef.

(** [Assert(c)] *)
Definition assert_ (c : bool) : dep := if c then skip else undef.
(** [if (c) { d }] *)
Definition when (c : bool) (d : dep) : dep := if c then d else skip.
(** [if (p != NULL) { k(p) }] *)
Definition when_some {A} (p : option A) (k : A -> dep) : dep :=
  match p with Some x => k x | None => skip end.
(** A pointer the code dereferences without a test. *)
Definition deref {A} (p : option A) (k : A -> dep) : dep :=
  match p with Some x => k x | None => undef end.

Declare Scope dep_scope.
Delimit Scope dep_scope with dep.
Notation "a ;;; b" := (seqd a b) (at level 62, right associativity) : dep_scope.
Open Scope dep_scope.

(** [foreach(lc, l) { f(lfirst(lc)); if (lnext(l, lc)) sep; }] *)
Definition foreach_sep {A} (f : A -> dep) (sep : dep) : list A -> dep :=
  fix go l :=
    match l with
    | [] => skip
    | [x] => f x
    | x :: l' => f x ;;; sep ;;; go l'
    end.

(** [foreach(lc, l) { f(lfirst(lc)); }] *)
Definition foreach {A} (f : A -> dep) : list A -> dep :=
  fix go l :=
    match l with
    | [] => skip
    | x :: l' => f x ;;; go l'
    end.

(** ** The plain string as a buffer *)

#[export] Instance string_buf : StringBuf string := {
  sb_contents b := b;
  sb_valid _ := True;
  appendStringInfoString s b := Ok (b +:+ s);
  appendStringInfoChar c b := Ok (b +:+ String c EmptyString);
  appendStringInfo s b := Ok (b +:+ s);
  removeTrailing x b := Ok (drop_trailing x b)
}.

#[export] Instance string_buf_laws : StringBufLaws string None.
Proof. split; cbn; eauto. Qed.

(** The text a program writes to an empty buffer. *)
Definition text_of (d : dep) : outcome string := d string string_buf "".

(** ** Equality of programs

    Two programs are equal when they do the same on every buffer. *)
Definition deq (d1 d2 : dep) : Prop := forall B (HS : StringBuf B) b, d1 B HS b = d2 B HS b.

Infix "=d=" := deq (at level 70, no associativity) : dep_scope.

#[export] Instance deq_equivalence : Equivalence deq.
Proof.
  split; [done|by intros d d' H B HS b; rewrite H|].
  intros d1 d2 d3 H1 H2 B HS b. by rewrite H1, H2.
Qed.

#[export] Instance seqd_proper : Proper (deq ==> deq ==> deq) seqd.
Proof.
  intros d1 d1' H1 d2 d2' H2 B HS b. unfold seqd. rewrite H1. by destruct (d1' B HS b); cbn.
Qed.

Lemma seqd_assoc d1 d2 d3 : ((d1 ;;; d2) ;;; d3) =d= (d1 ;;; d2 ;;; d3).
Proof. intros B HS b. unfold seqd. by destruct (d1 B HS b). Qed.

Lemma seqd_skip_l d : (skip ;;; d) =d= d.
Proof. by intros B HS b. Qed.

Lemma seqd_skip_r d : (d ;;; skip) =d= d.
Proof. intros B HS b. unfold seqd. by destruct (d B HS b). Qed.

(** ** Lemmas *)

Lemma drop_trailing_app x s t :
  t <> "" -> drop_trailing x (s +:+ t) = s +:+ drop_trailing x t.
Proof.
  intros Ht. induction s as [|c s IH]; [done|].
  rewrite !string_app_cons, <-IH. cbn.
  destruct (s +:+ t) eqn:E; [|done].
  by apply string_app_empty_inv in E as [_ ?].
Qed.

Lemma drop_trailing_cases x t :
  drop_trailing x t = t \/ t = drop_trailing x t +:+ String x "".
Proof.
  induction t as [|c t IH]; [by left|]. cbn. destruct t as [|c' t].
  - destruct (Ascii.eqb_spec c x) as [->|]; [by right|by left].
  - rewrite string_app_cons. destruct IH as [IH|IH].
    + left. by rewrite IH.
    + right. by rewrite <-IH.
Qed.

Lemma strlen_app s1 s2 : strlen (s1 +:+ s2) = (strlen s1 + strlen s2)%Z.
Proof. unfold strlen. rewrite string_length_app. lia. Qed.

Lemma over_le limit z z' : over limit z -> (z <= z')%Z -> over limit z'.
Proof. destruct limit; cbn; [lia|done]. Qed.

Lemma appends_le {B} `{StringBuf B} limit b t n n' r :
  appends limit b t n r -> (n <= n')%Z -> appends limit b t n' r.
Proof. destruct r; cbn; [done|..]; intros Ho Hn; (eapply over_le; [exact Ho|lia]). Qed.

Lemma appends_seq {B} `{StringBuf B} limit (d2 : B -> outcome B) b t1 t2 n1 n2 r :
  appends limit b t1 n1 r -> (strlen t1 <= n1)%Z -> (0 <= n2)%Z ->
  (forall b', sb_valid b' -> appends limit b' t2 n2 (d2 b')) ->
  appends limit b (t1 +:+ t2) (n1 + n2) (obind r d2).
Proof.
  destruct r as [b'| |]; cbn; intros H1 Hn1 Hn2 H2;
    [|eapply over_le; [exact H1|lia]..].
  destruct H1 as [Hv Hc]. specialize (H2 b' Hv).
  destruct (d2 b'); cbn in *;
    [|rewrite Hc, strlen_app in H2; eapply over_le; [exact H2|lia]..].
  destruct H2 as [? ->]. by rewrite Hc, string_app_assoc.
Qed.

Lemma appends_skip {B} `{StringBuf B} limit b : sb_valid b -> appends limit b "" 0 (Ok b).
Proof. intros Hv. split; [done|]. by rewrite string_app_nil_r. Qed.
