(* ===== verification/StringInfo.v ===== *)
(** * The extensible string buffer of [src/postgres/src_common_stringinfo.c]

    [StringInfoData] as the C struct: an allocated block of [maxlen] bytes of
    which the first [len] are in use, followed by a zero byte.  Every access to
    the block is checked, and a signed addition or doubling that would leave
    the [int] range is [Undef]; the theorems show that neither happens, and
    that the operations are appends to a string ([StringBufLaws]). *)
From S2P Require Import Prelude Buffer.

Local Open Scope Z_scope.

(** [MaxAllocSize] of [utils/memutils.h]. *)
Definition MaxAllocSize : Z := 1073741823.

(** [palloc(size)] and [repalloc(p, size)]: the size check. *)
Definition alloc_size (size : Z) : outcome unit :=
  if (0 <=? size) && (size <=? MaxAllocSize) then Ok tt
  else Elog "invalid memory alloc request size".

Record StringInfoData : Type := mkStringInfo {
  data : list ascii;
  len : Z;
  maxlen : Z;
  cursor : Z
}.

(** The result of a signed [int] operation. *)
Definition cint (z : Z) : outcome Z :=
  if (int_min <=? z) && (z <=? int_max) then Ok z else Undef.

(** [data[off..] = bytes], inside the block or undefined. *)
Definition store (block : list ascii) (off : Z) (bytes : list ascii) : outcome (list ascii) :=
  if (0 <=? off) && (off + Z.of_nat (List.length bytes) <=? Z.of_nat (List.length block))
  then Ok (take (Z.to_nat off) block ++ bytes ++
           drop (Z.to_nat off + List.length bytes)%nat block)%list
  else Undef.

Section stringinfo.
(** What the allocator leaves in fresh memory. *)
Context (junk : ascii).

(** [palloc] and [repalloc] reject requests above [MaxAllocSize]. *)
Definition palloc (size : Z) : outcome (list ascii) :=
  if (0 <=? size) && (size <=? MaxAllocSize) then Ok (replicate (Z.to_nat size) junk)
  else Elog "invalid memory alloc request size".

Definition repalloc (block : list ascii) (size : Z) : outcome (list ascii) :=
  if (0 <=? size) && (size <=? MaxAllocSize)
  then Ok (take (Z.to_nat size)
             (block ++ replicate (Z.to_nat size - List.length block)%nat junk)%list)
  else Elog "invalid memory alloc request size".

Definition resetStringInfo (s : StringInfoData) : outcome StringInfoData :=
  let* d := store s.(data) 0 [NUL] in
  Ok (mkStringInfo d 0 s.(maxlen) 0).

Definition initStringInfo : outcome StringInfoData :=
  let size := 1024 in
  let* d := palloc size in
  resetStringInfo (mkStringInfo d 0 size 0).

(** [while (needed > newlen) newlen = 2 * newlen;] with fuel. *)
Fixpoint grow (fuel : nat) (needed newlen : Z) : outcome Z :=
  if needed >? newlen then
    match fuel with
    | O => Undef
    | S fuel' => let* n := cint (2 * newlen) in grow fuel' needed n
    end
  else Ok newlen.

(** Thirty doublings take any positive [int] past [MaxAllocSize]. *)
Definition grow_fuel : nat := 30.

Definition enlargeStringInfo (s : StringInfoData) (needed : Z) : outcome StringInfoData :=
  if needed <? 0 then Elog "invalid string enlargement request size: %d"
  else if wrap64 (MaxAllocSize - s.(len)) <=? needed then Elog "out of memory"
  else
    let* needed := cint (needed + s.(len)) in
    let* needed := cint (needed + 1) in
    if needed <=? s.(maxlen) then Ok s
    else
      let* newlen := cint (2 * s.(maxlen)) in
      let* newlen := grow grow_fuel needed newlen in
      let newlen := if newlen >? MaxAllocSize then MaxAllocSize else newlen in
      let* d := repalloc s.(data) newlen in
      Ok (mkStringInfo d s.(len) newlen s.(cursor)).

Definition appendBinaryStringInfo (s : StringInfoData) (bytes : list ascii) (datalen : Z) :
    outcome StringInfoData :=
  let* s := enlargeStringInfo s datalen in
  let* d := store s.(data) s.(len) (take (Z.to_nat datalen) bytes) in
  let* l := cint (s.(len) + datalen) in
  let* d := store d l [NUL] in
  Ok (mkStringInfo d l s.(maxlen) s.(cursor)).

(** [strlen(s)] is passed as an [int]: a string too long for that is outside
    the contract ([palloc] makes none). *)
Definition appendStringInfoString (s : StringInfoData) (t : string) : outcome StringInfoData :=
  let* datalen := cint (Z.of_nat (String.length t)) in
  appendBinaryStringInfo s (list_ascii_of_string t) datalen.

Definition appendStringInfoChar (s : StringInfoData) (ch : ascii) : outcome StringInfoData :=
  let* n := cint (s.(len) + 1) in
  let* s := (if n >=? s.(maxlen) then enlargeStringInfo s 1 else Ok s) in
  let* d := store s.(data) s.(len) [ch] in
  let* l := cint (s.(len) + 1) in
  let* d := store d l [NUL] in
  Ok (mkStringInfo d l s.(maxlen) s.(cursor)).

Definition appendStringInfoSpaces (s : StringInfoData) (count : Z) : outcome StringInfoData :=
  if count >? 0 then
    let* s := enlargeStringInfo s count in
    let* d := store s.(data) s.(len) (replicate (Z.to_nat count) " "%char) in
    let* l := cint (s.(len) + count) in
    let* d := store d l [NUL] in
    Ok (mkStringInfo d l s.(maxlen) s.(cursor))
  else Ok s.

(** [pvsnprintf] of [src_common_psprintf.c]: [text] is what the format and its
    arguments expand to; [vsnprintf] writes as much of it as fits, and a zero. *)
Definition pvsnprintf (block : list ascii) (off avail : Z) (text : list ascii) :
    outcome (list ascii * Z) :=
  let* nprinted := cint (Z.of_nat (List.length text)) in
  let* d := store block off (take (Z.to_nat (avail - 1)) text ++ [NUL])%list in
  if nprinted <? avail then Ok (d, nprinted)
  else if nprinted >? MaxAllocSize - 1 then Elog "out of memory"
  else Ok (d, nprinted + 1).

(** Returns the buffer and 0, or the buffer unchanged up to [len] and an
    estimate of the space needed. *)
Definition appendStringInfoVA (s : StringInfoData) (text : list ascii) :
    outcome (StringInfoData * Z) :=
  let avail := s.(maxlen) - s.(len) in
  if avail <? 16 then Ok (s, 32)
  else
    let* (d, nprinted) := pvsnprintf s.(data) s.(len) avail text in
    if nprinted <? avail
    then Ok (mkStringInfo d (s.(len) + nprinted) s.(maxlen) s.(cursor), 0)
    else
      let* d := store d s.(len) [NUL] in
      Ok (mkStringInfo d s.(len) s.(maxlen) s.(cursor), nprinted).

(** The [for (;;)] of [appendStringInfo]: three rounds are enough. *)
Fixpoint appendStringInfo_loop (fuel : nat) (s : StringInfoData) (text : list ascii) :
    outcome StringInfoData :=
  match fuel with
  | O => Undef
  | S fuel' =>
      let* (s, needed) := appendStringInfoVA s text in
      if needed =? 0 then Ok s
      else
        let* s := enlargeStringInfo s needed in
        appendStringInfo_loop fuel' s text
  end.

Definition appendStringInfo (s : StringInfoData) (text : string) : outcome StringInfoData :=
  appendStringInfo_loop 3 s (list_ascii_of_string text).

(** [removeTrailingSpace] of [pg_query_deparse.c] and [removeTrailingDelimiter] of
    [pg_query_json_helper.c]. *)
Definition removeTrailing (c : ascii) (s : StringInfoData) : outcome StringInfoData :=
  if (1 <=? s.(len)) && (nth (Z.to_nat (s.(len) - 1)) s.(data) NUL =? c)%char then
    let l := s.(len) - 1 in
    let* d := store s.(data) l [NUL] in
    Ok (mkStringInfo d l s.(maxlen) s.(cursor))
  else Ok s.

Definition removeTrailingSpace : StringInfoData -> outcome StringInfoData := removeTrailing " ".
Definition removeTrailingDelimiter : StringInfoData -> outcome StringInfoData := removeTrailing ",".

(** ** The invariant and the abstraction *)

Definition bytes_of (s : StringInfoData) : list ascii := take (Z.to_nat s.(len)) s.(data).
Definition contents (s : StringInfoData) : string := string_of_list_ascii (bytes_of s).

Definition valid (s : StringInfoData) : Prop :=
  0 <= s.(len) < s.(maxlen) /\ s.(maxlen) <= MaxAllocSize /\
  Z.of_nat (List.length s.(data)) = s.(maxlen) /\
  s.(data) !! Z.to_nat s.(len) = Some NUL.

End stringinfo.

(** ** The operations as a sequence of calls *)

Inductive op : Type :=
| OpString (t : string)
| OpChar (c : ascii)
| OpFormat (t : string)
| OpSpaces (n : Z)
| OpTrimSpace
| OpTrimDelimiter.

Definition run_op (junk : ascii) (o : op) (s : StringInfoData) : outcome StringInfoData :=
  match o with
  | OpString t => appendStringInfoString junk s t
  | OpChar c => appendStringInfoChar junk s c
  | OpFormat t => appendStringInfo junk s t
  | OpSpaces n => appendStringInfoSpaces junk s n
  | OpTrimSpace => removeTrailingSpace s
  | OpTrimDelimiter => removeTrailingDelimiter s
  end.

Fixpoint run_ops (junk : ascii) (os : list op) (s : StringInfoData) : outcome StringInfoData :=
  match os with
  | [] => Ok s
  | o :: os' => let* s' := run_op junk o s in run_ops junk os' s'
  end.

(** The same on a plain string. *)
Fixpoint spaces (n : nat) : string :=
  match n with O => "" | S n' => String " " (spaces n') end.

Definition op_effect (o : op) (c : string) : string :=
  match o with
  | OpString t | OpFormat t => c +:+ t
  | OpChar ch => c +:+ String ch ""
  | OpSpaces n => c +:+ spaces (Z.to_nat n)
  | OpTrimSpace => drop_trailing " " c
  | OpTrimDelimiter => drop_trailing "," c
  end.

(** How many bytes an operation asks [enlargeStringInfo] for at most. *)
Definition op_demand (o : op) : Z :=
  match o with
  | OpString t => Z.of_nat (String.length t)
  | OpChar _ => 1
  | OpFormat t => Z.max 32 (Z.of_nat (String.length t) + 1)
  | OpSpaces n => Z.max 0 n
  | OpTrimSpace | OpTrimDelimiter => 0
  end.

(** ** Lemmas on the block *)

Lemma cint_ok z : int_min <= z <= int_max -> cint z = Ok z.
Proof.
  intros H. unfold cint. rewrite !(proj2 (Z.leb_le _ _)) by lia. done.
Qed.

Lemma store_spec block off bytes :
  0 <= off -> off + Z.of_nat (List.length bytes) <= Z.of_nat (List.length block) ->
  exists d, store block off bytes = Ok d /\
    List.length d = List.length block /\
    take (Z.to_nat off + List.length bytes) d = (take (Z.to_nat off) block ++ bytes)%list.
Proof.
  intros H1 H2. unfold store.
  rewrite !(proj2 (Z.leb_le _ _)) by lia. cbn. eexists. split; [done|]. split.
  - rewrite !length_app, length_take, length_drop. lia.
  - rewrite app_assoc, take_app_le.
    + rewrite take_ge; [done|]. rewrite length_app, length_take. lia.
    + rewrite length_app, length_take. lia.
Qed.

Lemma take_take_le {A} (n m : nat) (l l' : list A) :
  (n <= m)%nat -> take m l = l' -> take n l = take n l'.
Proof. intros H <-. by rewrite take_take, Nat.min_l by lia. Qed.

Section proofs.
Context (junk : ascii).

(** Writing [bytes] and a zero after the bytes in use. *)
Lemma write_end s bytes :
  valid s -> s.(len) + Z.of_nat (List.length bytes) < s.(maxlen) ->
  exists d d', store s.(data) s.(len) bytes = Ok d /\
    store d (s.(len) + Z.of_nat (List.length bytes)) [NUL] = Ok d' /\
    let s' := mkStringInfo d' (s.(len) + Z.of_nat (List.length bytes)) s.(maxlen) s.(cursor) in
    valid s' /\ bytes_of s' = (bytes_of s ++ bytes)%list.
Proof.
  intros (Hl & Hm & Hd & Hz) Hroom.
  destruct (store_spec s.(data) s.(len) bytes) as (d & Hst & Hlen & Htk); [lia..|].
  destruct (store_spec d (s.(len) + Z.of_nat (List.length bytes)) [NUL])
    as (d' & Hst' & Hlen' & Htk'); [lia| cbn; lia|].
  exists d, d'. split; [done|]. split; [done|]. cbv zeta. split.
  - unfold valid. cbn. split; [lia|]. split; [lia|]. split; [lia|].
    rewrite <-(lookup_take_lt _ (Z.to_nat (s.(len) + Z.of_nat (List.length bytes)) + 1)%nat) by lia.
    cbn in Htk'. rewrite Htk'. rewrite lookup_app_r by (rewrite length_take; lia).
    rewrite length_take. by replace (_ - _)%nat with 0%nat by lia.
  - unfold bytes_of. cbn.
    apply (take_take_le (Z.to_nat (s.(len) + Z.of_nat (List.length bytes)))) in Htk'; [|lia].
    rewrite Htk', take_app_le by (rewrite length_take; lia).
    rewrite take_take, Nat.min_id.
    rewrite <-Htk. f_equal. lia.
Qed.

Lemma contents_app s s' t :
  bytes_of s' = (bytes_of s ++ list_ascii_of_string t)%list ->
  contents s' = contents s +:+ t.
Proof.
  unfold contents. intros ->. induction (bytes_of s) as [|c l IH]; cbn.
  - by rewrite string_of_list_ascii_of_string.
  - by rewrite string_app_cons, IH.
Qed.

Lemma length_list_ascii t : List.length (list_ascii_of_string t) = String.length t.
Proof. induction t; cbn; congruence. Qed.

Lemma grow_spec fuel needed newlen :
  1 <= newlen <= int_max -> needed <= MaxAllocSize -> needed <= newlen * 2 ^ Z.of_nat fuel ->
  exists n, grow fuel needed newlen = Ok n /\ needed <= n /\ newlen <= n /\
    (n = newlen \/ n <= 2 * MaxAllocSize).
Proof.
  revert newlen. induction fuel as [|fuel IH]; intros newlen Hn Hm Hf; cbn [grow].
  - rewrite Z.gtb_ltb, (proj2 (Z.ltb_ge _ _)) by lia. exists newlen. split_and!; [done|lia|lia|by left].
  - rewrite Z.gtb_ltb. destruct (Z.ltb_spec newlen needed) as [Hlt|Hge].
    + rewrite cint_ok by (unfold int_min, int_max, MaxAllocSize in *; lia). cbn [obind].
      destruct (IH (2 * newlen)) as (n & -> & ? & ? & Hc);
        [unfold int_max, MaxAllocSize in *; lia|done| |].
      { rewrite Nat2Z.inj_succ, Z.pow_succ_r in Hf by lia. lia. }
      exists n. split_and!; [done|lia|lia|]. right. destruct Hc as [->|?]; lia.
    + exists newlen. split_and!; [done|lia|lia|by left].
Qed.

(** What [enlargeStringInfo] guarantees when asked for [needed >= 0] more
    bytes: it raises exactly when the limit would be reached, and otherwise
    keeps the contents and makes room for them and the final zero. *)
Lemma enlarge_spec s needed :
  valid s -> 0 <= needed <= int_max ->
  (enlargeStringInfo junk s needed = Elog "out of memory" /\ MaxAllocSize <= s.(len) + needed) \/
  (exists s', enlargeStringInfo junk s needed = Ok s' /\ valid s' /\
     s'.(len) = s.(len) /\ bytes_of s' = bytes_of s /\ s.(len) + needed < s'.(maxlen)).
Proof.
  intros Hv Hn. pose proof Hv as (Hl & Hm & Hd & Hz). unfold enlargeStringInfo.
  rewrite (proj2 (Z.ltb_ge _ _)) by lia.
  unfold wrap64. rewrite Z.mod_small by (unfold MaxAllocSize in *; lia).
  destruct (Z.leb_spec (MaxAllocSize - s.(len)) needed) as [Hbig|Hfit]; [left; split; [done|lia]|].
  right. unfold MaxAllocSize in *.
  rewrite !cint_ok by (unfold int_min, int_max; lia). cbn [obind].
  rewrite !cint_ok by (unfold int_min, int_max; lia). cbn [obind].
  destruct (Z.leb_spec (needed + s.(len) + 1) s.(maxlen)) as [Hroom|Hgrow].
  { exists s. do 4 (split; [done|]). lia. }
  destruct (grow_spec grow_fuel (needed + s.(len) + 1) (2 * s.(maxlen)))
    as (n & -> & Hge & Hn2 & Hcap);
    [unfold int_max; lia|unfold MaxAllocSize; lia| |].
  { unfold grow_fuel. change (2 ^ Z.of_nat 30) with 1073741824. lia. }
  cbn [obind]. rewrite Z.gtb_ltb.
  set (newlen := if 1073741823 <? n then 1073741823 else n).
  assert (Hnl : needed + s.(len) + 1 <= newlen <= 1073741823 /\ s.(maxlen) <= newlen).
  { unfold newlen. destruct (Z.ltb_spec 1073741823 n); lia. }
  unfold repalloc, MaxAllocSize.
  rewrite !(proj2 (Z.leb_le _ _)) by lia. cbn [andb obind].
  assert (Hpre : forall k : nat, (k <= List.length s.(data))%nat ->
    take k (take (Z.to_nat newlen) (s.(data) ++
      replicate (Z.to_nat newlen - List.length s.(data)) junk)%list) = take k s.(data)).
  { intros k Hk. rewrite take_take, Nat.min_l by lia. by rewrite take_app_le. }
  eexists. split; [done|]. unfold bytes_of. cbn. split; [|split; [done|split; [apply Hpre; lia|lia]]].
  unfold valid, MaxAllocSize. cbn. split; [lia|]. split; [lia|]. split.
  - rewrite length_take, length_app, length_replicate. lia.
  - rewrite <-(lookup_take_lt _ (S (Z.to_nat s.(len)))) by lia.
    rewrite Hpre by lia. by rewrite lookup_take_lt by lia.
Qed.

(** The common end of the append operations: enlarge by [n], write [n] bytes
    and the zero. *)
Lemma append_after_enlarge s bytes n :
  valid s -> n = Z.of_nat (List.length bytes) -> n <= int_max ->
  let r := (let* s := enlargeStringInfo junk s n in
            let* d := store s.(data) s.(len) bytes in
            let* l := cint (s.(len) + n) in
            let* d := store d l [NUL] in
            Ok (mkStringInfo d l s.(maxlen) s.(cursor))) in
  (r = Elog "out of memory" /\ MaxAllocSize <= s.(len) + n) \/
  (exists s', r = Ok s' /\ valid s' /\ bytes_of s' = (bytes_of s ++ bytes)%list).
Proof.
  intros Hv -> Hn. cbv zeta.
  destruct (enlarge_spec s (Z.of_nat (List.length bytes)) Hv) as
    [[-> ?]|(s' & -> & Hv' & Hlen & Hb & Hroom)]; [lia|by left|]. right. cbn [obind].
  pose proof Hv' as (Hl' & Hm' & _).
  destruct (write_end s' bytes Hv') as (d & d' & -> & Hst' & Hv'' & Hb''); [lia|]. cbn [obind].
  rewrite cint_ok by (unfold int_min, int_max, MaxAllocSize in *; lia). cbn [obind].
  rewrite Hst'. cbn [obind]. eexists. split; [done|]. by rewrite <-Hb.
Qed.

Lemma take_list_ascii t :
  take (Z.to_nat (Z.of_nat (String.length t))) (list_ascii_of_string t) = list_ascii_of_string t.
Proof. apply take_ge. rewrite length_list_ascii. lia. Qed.

Lemma append_string_spec s t :
  valid s -> Z.of_nat (String.length t) <= int_max ->
  (appendStringInfoString junk s t = Elog "out of memory" /\
     MaxAllocSize <= s.(len) + Z.of_nat (String.length t)) \/
  (exists s', appendStringInfoString junk s t = Ok s' /\ valid s' /\
     contents s' = contents s +:+ t).
Proof.
  intros Hv Ht. unfold appendStringInfoString, appendBinaryStringInfo.
  rewrite cint_ok by (unfold int_min; lia). cbn [obind]. rewrite take_list_ascii.
  destruct (append_after_enlarge s (list_ascii_of_string t) (Z.of_nat (String.length t)) Hv)
    as [?|(s' & Hr & Hv' & Hb)]; [by rewrite length_list_ascii|done|by left|].
  right. exists s'. eauto using contents_app.
Qed.

Lemma append_char_spec s c :
  valid s ->
  (appendStringInfoChar junk s c = Elog "out of memory" /\ MaxAllocSize <= s.(len) + 1) \/
  (exists s', appendStringInfoChar junk s c = Ok s' /\ valid s' /\
     contents s' = contents s +:+ String c "").
Proof.
  intros Hv. pose proof Hv as (Hl & Hm & _). unfold appendStringInfoChar.
  rewrite cint_ok by (unfold int_min, int_max, MaxAllocSize in *; lia). cbn [obind].
  destruct (s.(len) + 1 >=? s.(maxlen)) eqn:Hge.
  - destruct (append_after_enlarge s [c] 1 Hv) as [?|(s' & Hr & Hv' & Hb)];
      [done|done|by left|]. right. exists s'. split; [done|]. split; [done|].
    by apply contents_app.
  - right. cbn [obind]. rewrite Z.geb_leb in Hge. apply Z.leb_gt in Hge.
    destruct (write_end s [c] Hv) as (d & d' & -> & Hst' & Hv'' & Hb''); [done|]. cbn [obind].
    rewrite cint_ok by (unfold int_min, int_max, MaxAllocSize in *; lia). cbn [obind].
    change (Z.of_nat (List.length [c])) with 1 in Hst'. rewrite Hst'. cbn [obind]. eexists. split; [done|]. split; [done|].
    by apply contents_app.
Qed.

Lemma list_ascii_spaces n : list_ascii_of_string (spaces n) = replicate n " "%char.
Proof. induction n; cbn; congruence. Qed.

Lemma append_spaces_spec s n :
  valid s -> n <= int_max ->
  (appendStringInfoSpaces junk s n = Elog "out of memory" /\ MaxAllocSize <= s.(len) + Z.max 0 n) \/
  (exists s', appendStringInfoSpaces junk s n = Ok s' /\ valid s' /\
     contents s' = contents s +:+ spaces (Z.to_nat n)).
Proof.
  intros Hv Hn. unfold appendStringInfoSpaces. rewrite Z.gtb_ltb. destruct (Z.ltb_spec 0 n).
  - destruct (append_after_enlarge s (replicate (Z.to_nat n) " "%char) n Hv)
      as [[? ?]|(s' & Hr & Hv' & Hb)]; [rewrite length_replicate; lia|done|left; split; [done|lia]|].
    right. exists s'. split; [done|]. split; [done|]. apply contents_app.
    by rewrite list_ascii_spaces.
  - right. exists s. replace (Z.to_nat n) with 0%nat by lia. by rewrite string_app_nil_r.
Qed.

(** Writing over the bytes after [len] keeps the bytes in use. *)
Lemma store_keeps s off bytes :
  valid s -> s.(len) <= off -> off + Z.of_nat (List.length bytes) <= s.(maxlen) ->
  exists d, store s.(data) off bytes = Ok d /\
    Z.of_nat (List.length d) = s.(maxlen) /\
    take (Z.to_nat s.(len)) d = bytes_of s /\
    take (Z.to_nat off + List.length bytes) d = (take (Z.to_nat off) s.(data) ++ bytes)%list.
Proof.
  intros (Hl & Hm & Hd & Hz) Ho Hb.
  destruct (store_spec s.(data) off bytes) as (d & -> & Hlen & Htk); [lia..|].
  exists d. split; [done|]. split; [lia|]. split; [|done].
  apply (take_take_le (Z.to_nat s.(len))) in Htk; [|lia]. rewrite Htk.
  rewrite take_app_le by (rewrite length_take; lia).
  by rewrite take_take, Nat.min_l by lia.
Qed.

Lemma va_enough s text :
  valid s -> 16 <= s.(maxlen) - s.(len) -> Z.of_nat (List.length text) < s.(maxlen) - s.(len) ->
  exists s', appendStringInfoVA s text = Ok (s', 0) /\ valid s' /\
    bytes_of s' = (bytes_of s ++ text)%list.
Proof.
  intros Hv Hav Ht. pose proof Hv as (Hl & Hm & Hd & _).
  unfold appendStringInfoVA, pvsnprintf. rewrite (proj2 (Z.ltb_ge _ _)) by lia.
  rewrite cint_ok by (unfold int_min, int_max, MaxAllocSize in *; lia). cbn [obind].
  rewrite take_ge by lia.
  destruct (store_keeps s s.(len) (text ++ [NUL])%list Hv) as (d & -> & Hd' & Hk & Htk);
    [lia|rewrite length_app; cbn; lia|].
  cbn [obind]. rewrite !(proj2 (Z.ltb_lt _ _)) by lia. cbn [obind].
  rewrite (proj2 (Z.ltb_lt _ _)) by lia.
  eexists. split; [done|]. rewrite length_app in Htk. cbn in Htk. split.
  - unfold valid. cbn. split; [lia|]. split; [lia|]. split; [lia|].
    rewrite <-(lookup_take_lt _ (Z.to_nat s.(len) + (List.length text + 1))%nat) by lia.
    rewrite Htk, app_assoc, lookup_app_r by (rewrite length_app, length_take; lia).
    rewrite length_app, length_take. by replace (_ - _)%nat with 0%nat by lia.
  - unfold bytes_of. cbn.
    apply (take_take_le (Z.to_nat (s.(len) + Z.of_nat (List.length text)))) in Htk; [|lia].
    rewrite Htk, app_assoc, take_app_le, take_ge; [done|..];
      rewrite length_app, length_take; lia.
Qed.

Lemma va_short s text :
  valid s -> Z.of_nat (List.length text) <= int_max ->
  s.(maxlen) - s.(len) <= Z.of_nat (List.length text) -> 16 <= s.(maxlen) - s.(len) ->
  (appendStringInfoVA s text = Elog "out of memory" /\
     MaxAllocSize <= Z.of_nat (List.length text)) \/
  (exists s', appendStringInfoVA s text = Ok (s', Z.of_nat (List.length text) + 1) /\ valid s' /\
     s'.(len) = s.(len) /\ s'.(maxlen) = s.(maxlen) /\ bytes_of s' = bytes_of s).
Proof.
  intros Hv Hi Ht Hav. pose proof Hv as (Hl & Hm & Hd & _).
  unfold appendStringInfoVA, pvsnprintf. rewrite (proj2 (Z.ltb_ge _ _)) by lia.
  rewrite cint_ok by (unfold int_min; lia). cbn [obind].
  destruct (store_keeps s s.(len) (take (Z.to_nat (s.(maxlen) - s.(len) - 1)) text ++ [NUL])%list Hv)
    as (d & -> & Hd' & Hk & _); [lia|rewrite length_app, length_take; cbn; lia|].
  cbn [obind]. rewrite (proj2 (Z.ltb_ge _ _)) by lia. rewrite Z.gtb_ltb.
  destruct (Z.ltb_spec (MaxAllocSize - 1) (Z.of_nat (List.length text))); [left; split; [done|lia]|].
  right. cbn [obind]. rewrite (proj2 (Z.ltb_ge _ _)) by lia.
  destruct (store_spec d s.(len) [NUL]) as (d' & -> & Hlen & Htk); [lia|cbn; lia|].
  cbn [obind]. eexists. split; [done|].
  assert (Hb : take (Z.to_nat s.(len)) d' = bytes_of s).
  { rewrite <-Hk. apply (take_take_le (Z.to_nat s.(len))) in Htk; [|lia].
    rewrite Htk, take_app_le, take_take, Nat.min_id by (rewrite length_take; lia). done. }
  split; [|done]. unfold valid. cbn. split; [lia|]. split; [lia|]. split; [lia|].
  rewrite <-(lookup_take_lt _ (Z.to_nat s.(len) + 1)%nat) by lia.
  cbn in Htk. rewrite Htk, lookup_app_r by (rewrite length_take; lia).
  rewrite length_take. by replace (_ - _)%nat with 0%nat by lia.
Qed.

Lemma fmt_loop_tight fuel s text :
  s.(maxlen) - s.(len) < 16 ->
  appendStringInfo_loop junk (S fuel) s text =
  (let* s := enlargeStringInfo junk s 32 in appendStringInfo_loop junk fuel s text).
Proof.
  intros H. cbn. unfold appendStringInfoVA. by rewrite (proj2 (Z.ltb_lt _ _)) by done.
Qed.

(** One round of the retry loop, once there are sixteen bytes of room. *)
Lemma fmt_loop_room fuel s text :
  valid s -> Z.of_nat (List.length text) < int_max -> 16 <= s.(maxlen) - s.(len) ->
  let r := appendStringInfo_loop junk (S (S fuel)) s text in
  (r = Elog "out of memory" /\ MaxAllocSize <= s.(len) + (Z.of_nat (List.length text) + 1)) \/
  (exists s', r = Ok s' /\ valid s' /\ bytes_of s' = (bytes_of s ++ text)%list).
Proof.
  intros Hv Hi Hav. cbv zeta. cbn [appendStringInfo_loop].
  destruct (Z.lt_ge_cases (Z.of_nat (List.length text)) (s.(maxlen) - s.(len))) as [Hlt|Hge].
  - right. destruct (va_enough s text) as (s' & -> & Hv' & Hb); [done..|]. cbn. eauto.
  - pose proof Hv as (Hl & _).
    destruct (va_short s text) as [[-> ?]|(s1 & -> & Hv1 & Hl1 & Hm1 & Hb1)]; [done|lia|lia|done|..].
    { left. split; [done|lia]. }
    cbn [obind]. rewrite (proj2 (Z.eqb_neq _ _)) by lia.
    destruct (enlarge_spec s1 (Z.of_nat (List.length text) + 1) Hv1) as
      [[-> ?]|(s2 & -> & Hv2 & Hl2 & Hb2 & Hr2)]; [lia|left; split; [done|lia]|].
    cbn [obind]. right.
    destruct (va_enough s2 text Hv2) as (s' & -> & Hv' & Hb); [lia..|]. cbn.
    exists s'. by rewrite Hb, Hb2, Hb1.
Qed.

Lemma append_fmt_spec s t :
  valid s -> Z.of_nat (String.length t) < int_max ->
  (appendStringInfo junk s t = Elog "out of memory" /\
     MaxAllocSize <= s.(len) + Z.max 32 (Z.of_nat (String.length t) + 1)) \/
  (exists s', appendStringInfo junk s t = Ok s' /\ valid s' /\
     contents s' = contents s +:+ t).
Proof.
  intros Hv Ht. unfold appendStringInfo. rewrite <-length_list_ascii in Ht |- *.
  assert (Hdone : forall s0 r,
    bytes_of s0 = bytes_of s -> s0.(len) = s.(len) ->
    (r = Elog "out of memory" /\
       MaxAllocSize <= s0.(len) + (Z.of_nat (List.length (list_ascii_of_string t)) + 1)) \/
    (exists s', r = Ok s' /\ valid s' /\ bytes_of s' = (bytes_of s0 ++ list_ascii_of_string t)%list) ->
    (r = Elog "out of memory" /\
       MaxAllocSize <= s.(len) + Z.max 32 (Z.of_nat (List.length (list_ascii_of_string t)) + 1)) \/
    (exists s', r = Ok s' /\ valid s' /\ contents s' = contents s +:+ t)).
  { intros s0 r Hb Hl [[-> ?]|(s' & -> & Hv' & Hb')]; [left; split; [done|lia]|].
    right. exists s'. split; [done|]. split; [done|]. apply contents_app. congruence. }
  destruct (Z.lt_ge_cases (s.(maxlen) - s.(len)) 16) as [Hlt|Hge].
  - rewrite fmt_loop_tight by done.
    destruct (enlarge_spec s 32 Hv) as [[-> ?]|(s1 & -> & Hv1 & Hl1 & Hb1 & Hr1)];
      [unfold int_max; lia|left; split; [done|lia]|]. cbn [obind].
    apply (Hdone s1); [done|done|]. apply (fmt_loop_room 0); [done|done|lia].
  - apply (Hdone s); [done|done|]. by apply (fmt_loop_room 1).
Qed.

Lemma nth_last_contents s c :
  valid s -> 1 <= s.(len) -> nth (Z.to_nat (s.(len) - 1)) s.(data) NUL = c ->
  bytes_of s = (take (Z.to_nat (s.(len) - 1)) s.(data) ++ [c])%list.
Proof.
  intros (Hl & Hm & Hd & _) H1 Hn. unfold bytes_of.
  replace (Z.to_nat s.(len)) with (S (Z.to_nat (s.(len) - 1))) by lia.
  apply take_S_r. rewrite <-Hn. rewrite nth_lookup.
  destruct (lookup_lt_is_Some_2 s.(data) (Z.to_nat (s.(len) - 1))) as [x ->]; [lia|done].
Qed.

Lemma string_of_list_app l1 l2 :
  string_of_list_ascii (l1 ++ l2) = string_of_list_ascii l1 +:+ string_of_list_ascii l2.
Proof. induction l1 as [|c l1 IH]; [done|]. cbn. by rewrite IH. Qed.

Lemma trim_spec c s :
  valid s ->
  exists s', removeTrailing c s = Ok s' /\ valid s' /\
    contents s' = drop_trailing c (contents s).
Proof.
  intros Hv. pose proof Hv as (Hl & Hm & Hd & Hz). unfold removeTrailing.
  destruct (Z.leb_spec 1 s.(len)) as [H1|H1]; cbn [andb].
  - pose proof (nth_last_contents s _ Hv H1 eq_refl) as Hb.
    destruct (Ascii.eqb_spec (nth (Z.to_nat (s.(len) - 1)) s.(data) NUL) c) as [Hsp|Hsp].
    + destruct (store_spec s.(data) (s.(len) - 1) [NUL]) as (d & -> & Hlen & Htk); [lia|cbn; lia|].
      cbn [obind]. eexists. split; [done|]. cbn in Htk.
      assert (Hpre : take (Z.to_nat (s.(len) - 1)) d = take (Z.to_nat (s.(len) - 1)) s.(data)).
      { apply (take_take_le (Z.to_nat (s.(len) - 1))) in Htk; [|lia].
        rewrite Htk, take_app_le, take_take, Nat.min_id by (rewrite length_take; lia). done. }
      split.
      * unfold valid. cbn. split; [lia|]. split; [lia|]. split; [lia|].
        rewrite <-(lookup_take_lt _ (Z.to_nat (s.(len) - 1) + 1)%nat) by lia.
        rewrite Htk, lookup_app_r by (rewrite length_take; lia).
        rewrite length_take. by replace (_ - _)%nat with 0%nat by lia.
      * unfold contents. rewrite Hb, Hsp, string_of_list_app, drop_trailing_app by done.
        cbn. rewrite Ascii.eqb_refl, string_app_nil_r. unfold bytes_of. cbn. by rewrite Hpre.
    + eexists. split; [done|]. split; [done|]. unfold contents.
      rewrite Hb, string_of_list_app, drop_trailing_app by done. cbn.
      by apply Ascii.eqb_neq in Hsp as ->.
  - exists s. split; [done|]. split; [done|]. unfold contents, bytes_of.
    by replace (Z.to_nat s.(len)) with 0%nat by lia.
Qed.

End proofs.

Section laws.
Context (junk : ascii).

Lemma run_op_cases o s :
  valid s -> op_demand o <= int_max ->
  (run_op junk o s = Elog "out of memory" /\ MaxAllocSize <= s.(len) + op_demand o) \/
  (exists s', run_op junk o s = Ok s' /\ valid s' /\ contents s' = op_effect o (contents s)).
Proof.
  intros Hv Hd. destruct o as [t|c|t|n| |]; cbn in *.
  - by apply append_string_spec.
  - by apply append_char_spec.
  - apply append_fmt_spec; [done|lia].
  - apply append_spaces_spec; [done|lia].
  - right. by apply trim_spec.
  - right. by apply trim_spec.
Qed.

Lemma contents_length s : valid s -> Z.of_nat (String.length (contents s)) = s.(len).
Proof.
  intros (Hl & Hm & Hd & _). unfold contents.
  rewrite <-length_list_ascii, list_ascii_of_string_of_list_ascii.
  unfold bytes_of. rewrite length_take. lia.
Qed.

Lemma spaces_length n : String.length (spaces n) = n.
Proof. induction n; cbn; congruence. Qed.

Lemma drop_trailing_length x c :
  (String.length (drop_trailing x c) <= String.length c)%nat.
Proof.
  destruct (drop_trailing_cases x c) as [->|H]; [done|].
  rewrite H at 2. rewrite string_length_app. lia.
Qed.

Lemma op_effect_length o c :
  Z.of_nat (String.length (op_effect o c)) <= Z.of_nat (String.length c) + op_demand o.
Proof.
  destruct o; cbn; rewrite ?string_length_app, ?spaces_length; cbn; try lia.
  all: match goal with |- context [drop_trailing ?x ?t] => pose proof (drop_trailing_length x t) end; lia.
Qed.

Lemma run_ops_cases os s :
  valid s -> Forall (fun o => op_demand o <= int_max) os ->
  (run_ops junk os s = Elog "out of memory" /\
     MaxAllocSize <= s.(len) + foldr (fun o a => op_demand o + a) 0 os) \/
  (exists s', run_ops junk os s = Ok s' /\ valid s' /\
     contents s' = foldl (fun c o => op_effect o c) (contents s) os).
Proof.
  intros Hv Hos. revert s Hv.
  assert (Hpos : forall os, 0 <= foldr (fun o a => op_demand o + a) 0 os).
  { intros l. induction l as [|[] l IH]; cbn; lia. }
  induction Hos as [|o os Ho Hos IH]; intros s Hv; cbn; [right; eauto|].
  pose proof (Hpos os) as Hp.
  destruct (run_op_cases o s Hv Ho) as [[-> ?]|(s1 & -> & Hv1 & Hc1)];
    [left; split; [done|lia]|]. cbn [obind].
  destruct (IH s1 Hv1) as [[-> ?]|(s' & -> & Hv' & Hc')].
  - left. split; [done|]. pose proof (contents_length s1 Hv1). pose proof (contents_length s Hv).
    pose proof (op_effect_length o (contents s)). rewrite <-Hc1 in *. lia.
  - right. exists s'. by rewrite Hc', Hc1.
Qed.

(** [stringinfo.c] as a [StringBuf]: appends may raise. *)
Definition stringinfo_buf : StringBuf StringInfoData := {|
  sb_contents := contents;
  sb_valid := valid;
  Buffer.appendStringInfoString t s := appendStringInfoString junk s t;
  Buffer.appendStringInfoChar c s := appendStringInfoChar junk s c;
  Buffer.appendStringInfo t s := appendStringInfo junk s t;
  Buffer.removeTrailing c s := removeTrailing c s
|}.

Lemma appends_of_cases {B} `{StringBuf B} limit b t n r e (P : Prop) :
  (r = Elog e /\ P) \/ (exists b', r = Ok b' /\ sb_valid b' /\ sb_contents b' = sb_contents b +:+ t) ->
  (P -> over limit (strlen (sb_contents b) + n)) -> appends limit b t n r.
Proof. intros [[-> HP]|(b' & -> & ? & ?)]; cbn; auto. Qed.

(** A string longer than an [int] can count never reaches the buffer. *)
Lemma long_string s t :
  int_max < Z.of_nat (String.length t) -> appendStringInfoString junk s t = Undef.
Proof.
  intros H. unfold appendStringInfoString, cint.
  rewrite (proj2 (Z.leb_gt _ int_max)) by done. by rewrite andb_false_r.
Qed.

Lemma va_too_long s text x :
  valid s -> MaxAllocSize <= Z.of_nat (List.length text) -> 16 <= s.(maxlen) - s.(len) ->
  appendStringInfoVA s text = Ok x -> False.
Proof.
  intros (Hl & Hm & _) Ht Hav. unfold appendStringInfoVA, pvsnprintf, cint.
  rewrite (proj2 (Z.ltb_ge _ _)) by lia.
  destruct (_ && _); cbn [obind]; [|done]. destruct (store _ _ _); cbn [obind]; [|done..].
  rewrite (proj2 (Z.ltb_ge _ _)) by lia. rewrite Z.gtb_ltb.
  by rewrite (proj2 (Z.ltb_lt _ _)) by lia.
Qed.

Lemma fmt_loop_too_long fuel s text s' :
  valid s -> MaxAllocSize <= Z.of_nat (List.length text) ->
  appendStringInfo_loop junk fuel s text = Ok s' -> False.
Proof.
  revert s. induction fuel as [|fuel IH]; intros s Hv Ht; [done|].
  destruct (Z.lt_ge_cases (s.(maxlen) - s.(len)) 16) as [Hlt|Hge].
  - rewrite fmt_loop_tight by done.
    destruct (enlarge_spec junk s 32 Hv) as [[-> ?]|(s1 & -> & Hv1 & _)];
      [unfold int_max; lia|done|]. cbn [obind]. eauto.
  - cbn. destruct (appendStringInfoVA s text) eqn:E; cbn; [|done..].
    exfalso. eauto using va_too_long.
Qed.

#[local] Existing Instance stringinfo_buf.

Lemma stringinfo_buf_laws : StringBufLaws StringInfoData (Some MaxAllocSize).
Proof.
  split; cbn.
  - intros t s Hv. pose proof (contents_length s Hv) as Hc.
    destruct (Z.le_gt_cases (Z.of_nat (String.length t)) int_max).
    + eapply appends_of_cases; [by apply append_string_spec|]. cbn. unfold strlen. lia.
    + rewrite long_string by done. cbn. unfold strlen, MaxAllocSize, int_max in *. lia.
  - intros c s Hv. pose proof (contents_length s Hv) as Hc.
    eapply appends_of_cases; [by apply append_char_spec|]. cbn. unfold strlen. lia.
  - intros t s Hv. pose proof (contents_length s Hv) as Hc.
    destruct (Z.lt_ge_cases (Z.of_nat (String.length t)) int_max).
    + eapply appends_of_cases; [by apply append_fmt_spec|]. cbn. unfold strlen. lia.
    + change (appends (Some MaxAllocSize) s t (strlen t + 32) (appendStringInfo junk s t)).
      destruct (appendStringInfo junk s t) as [s'| |] eqn:E;
        [|cbn; unfold strlen, MaxAllocSize, int_max in *; lia..].
      exfalso. eapply fmt_loop_too_long; [done| |apply E].
      rewrite length_list_ascii. unfold MaxAllocSize, int_max in *. lia.
  - intros c s Hv. by apply trim_spec.
Qed.

End laws.

Lemma initStringInfo_valid (junk : ascii) :
  exists s0, initStringInfo junk = Ok s0 /\ valid s0 /\ contents s0 = "".
Proof.
  set (block := replicate (Z.to_nat 1024) junk).
  destruct (store_spec block 0 [NUL]) as (d & Hst & Hlen & Htk);
    [lia|unfold block; rewrite length_replicate; cbn; lia|].
  change (initStringInfo junk) with
    (let* d := store block 0 [NUL] in Ok (mkStringInfo d 0 1024 0)).
  rewrite Hst. cbn [obind].
  assert (Hv : valid (mkStringInfo d 0 1024 0)).
  { unfold valid, MaxAllocSize. cbn [data len maxlen]. split; [lia|]. split; [lia|]. split.
    - rewrite Hlen. unfold block. rewrite length_replicate. lia.
    - rewrite <-(lookup_take_lt _ 1) by lia. change (take 1 d = [NUL]) in Htk. by rewrite Htk. }
  by eexists.
Qed.

(** ** Properties *)

(** C4. A buffer made by [initStringInfo] and driven by any sequence of
    appends ([appendStringInfoString], [appendStringInfoChar],
    [appendStringInfo], [appendStringInfoSpaces]), [removeTrailingSpace] and
    [removeTrailingDelimiter] behaves as a string: no access leaves the allocated block, no [int]
    overflows and every retry loop ends (the result is never [Undef]), the
    bytes in use are the concatenation the calls ask for and the block stays
    zero-terminated and within [MaxAllocSize].  The only failure is the "out
    of memory" error, and it needs requests that add up to [MaxAllocSize]. *)
Theorem stringinfo_refines_string (junk : ascii) (os : list op)
    (Hos : Forall (fun o => op_demand o <= int_max) os) :
  exists s0, initStringInfo junk = Ok s0 /\ valid s0 /\ contents s0 = "" /\
    ((run_ops junk os s0 = Elog "out of memory" /\
        MaxAllocSize <= foldr (fun o a => op_demand o + a) 0 os) \/
     (exists s', run_ops junk os s0 = Ok s' /\ valid s' /\
        contents s' = foldl (fun c o => op_effect o c) "" os)).
Proof.
  destruct (initStringInfo_valid junk) as (s0 & E & Hv & Hc). exists s0. split; [done|]. split; [done|].
  split; [done|]. assert (H0 : s0.(len) = 0) by (by rewrite <-(contents_length s0 Hv), Hc).
  destruct (run_ops_cases junk os _ Hv Hos) as [H|(s' & H1 & H2 & H3)]; [left; by rewrite H0 in H|right].
  exists s'. by rewrite H3, Hc.
Qed.

Lemma stringinfo_refines_string_witness :
  exists s0, initStringInfo "x" = Ok s0 /\ valid s0 /\ contents s0 = "" /\
    ((run_ops "x" [OpString "SELECT "; OpFormat "1"; OpChar " "; OpTrimSpace] s0 = Elog "out of memory" /\
        MaxAllocSize <= foldr (fun o a => op_demand o + a) 0
          [OpString "SELECT "; OpFormat "1"; OpChar " "; OpTrimSpace]) \/
     (exists s', run_ops "x" [OpString "SELECT "; OpFormat "1"; OpChar " "; OpTrimSpace] s0 = Ok s' /\
        valid s' /\ contents s' = "SELECT 1")).
Proof.
  apply (stringinfo_refines_string "x" [OpString "SELECT "; OpFormat "1"; OpChar " "; OpTrimSpace]).
  repeat constructor; vm_compute; discriminate.
Defined.

(** A buffer that has to grow twice, run on the concrete block. *)
Example run_growing :
  (let* s0 := initStringInfo "x" in
   let* s := run_ops "x" [OpSpaces 1000; OpFormat (spaces 3000); OpTrimSpace] s0 in
   Ok (s.(len), s.(maxlen))) = Ok (3999, 4096).
Proof. vm_compute. reflexivity. Qed.
