(* ===== verification/Keywords.v ===== *)
(** * SQL keywords: lookup by perfect hashing

    Models [src/postgres/src_common_kwlist_d.h] (the keyword text, the offsets
    into it and the generated hash function), the categories
    [src/postgres/src_common_keywords.c] collects from [parser/kwlist.h], and
    [ScanKeywordLookup] of [src/postgres/src_common_kwlookup.c].  The theorems
    compare the hashed lookup with a linear search of the keyword list. *)
From S2P Require Import Prelude.

Local Open Scope Z_scope.

(** ** Keyword categories ([common/keywords.h]) *)
Inductive KeywordCategory : Type :=
| UNRESERVED_KEYWORD
| COL_NAME_KEYWORD
| TYPE_FUNC_NAME_KEYWORD
| RESERVED_KEYWORD.

#[export] Instance KeywordCategory_eq_dec : EqDecision KeywordCategory.
Proof. solve_decision. Defined.

(** The keywords in the order of [kwlist.h]; every one of them is followed by
    a zero byte in the C literal. *)
Definition keyword_names : list string :=
  [
   "abort"; "absolute"; "access"; "action"; "add"; "admin"; "after";
   "aggregate"; "all"; "also"; "alter"; "always"; "analyse"; "analyze";
   "and"; "any"; "array"; "as"; "asc"; "assertion"; "assignment";
   "asymmetric"; "at"; "attach"; "attribute"; "authorization"; "backward";
   "before"; "begin"; "between"; "bigint"; "binary"; "bit"; "boolean";
   "both"; "by"; "cache"; "call"; "called"; "cascade"; "cascaded"; "case";
   "cast"; "catalog"; "chain"; "char"; "character"; "characteristics";
   "check"; "checkpoint"; "class"; "close"; "cluster"; "coalesce";
   "collate"; "collation"; "column"; "columns"; "comment"; "comments";
   "commit"; "committed"; "concurrently"; "configuration"; "conflict";
   "connection"; "constraint"; "constraints"; "content"; "continue";
   "conversion"; "copy"; "cost"; "create"; "cross"; "csv"; "cube";
   "current"; "current_catalog"; "current_date"; "current_role";
   "current_schema"; "current_time"; "current_timestamp"; "current_user";
   "cursor"; "cycle"; "data"; "database"; "day"; "deallocate"; "dec";
   "decimal"; "declare"; "default"; "defaults"; "deferrable"; "deferred";
   "definer"; "delete"; "delimiter"; "delimiters"; "depends"; "desc";
   "detach"; "dictionary"; "disable"; "discard"; "distinct"; "do";
   "document"; "domain"; "double"; "drop"; "each"; "else"; "enable";
   "encoding"; "encrypted"; "end"; "enum"; "escape"; "event"; "except";
   "exclude"; "excluding"; "exclusive"; "execute"; "exists"; "explain";
   "expression"; "extension"; "external"; "extract"; "false"; "family";
   "fetch"; "filter"; "first"; "float"; "following"; "for"; "force";
   "foreign"; "forward"; "freeze"; "from"; "full"; "function"; "functions";
   "generated"; "global"; "grant"; "granted"; "greatest"; "group";
   "grouping"; "groups"; "handler"; "having"; "header"; "hold"; "hour";
   "identity"; "if"; "ilike"; "immediate"; "immutable"; "implicit";
   "import"; "in"; "include"; "including"; "increment"; "index"; "indexes";
   "inherit"; "inherits"; "initially"; "inline"; "inner"; "inout"; "input";
   "insensitive"; "insert"; "instead"; "int"; "integer"; "intersect";
   "interval"; "into"; "invoker"; "is"; "isnull"; "isolation"; "join";
   "key"; "label"; "language"; "large"; "last"; "lateral"; "leading";
   "leakproof"; "least"; "left"; "level"; "like"; "limit"; "listen";
   "load"; "local"; "localtime"; "localtimestamp"; "location"; "lock";
   "locked"; "logged"; "mapping"; "match"; "materialized"; "maxvalue";
   "method"; "minute"; "minvalue"; "mode"; "month"; "move"; "name";
   "names"; "national"; "natural"; "nchar"; "new"; "next"; "nfc"; "nfd";
   "nfkc"; "nfkd"; "no"; "none"; "normalize"; "normalized"; "not";
   "nothing"; "notify"; "notnull"; "nowait"; "null"; "nullif"; "nulls";
   "numeric"; "object"; "of"; "off"; "offset"; "oids"; "old"; "on"; "only";
   "operator"; "option"; "options"; "or"; "order"; "ordinality"; "others";
   "out"; "outer"; "over"; "overlaps"; "overlay"; "overriding"; "owned";
   "owner"; "parallel"; "parser"; "partial"; "partition"; "passing";
   "password"; "placing"; "plans"; "policy"; "position"; "preceding";
   "precision"; "prepare"; "prepared"; "preserve"; "primary"; "prior";
   "privileges"; "procedural"; "procedure"; "procedures"; "program";
   "publication"; "quote"; "range"; "read"; "real"; "reassign"; "recheck";
   "recursive"; "ref"; "references"; "referencing"; "refresh"; "reindex";
   "relative"; "release"; "rename"; "repeatable"; "replace"; "replica";
   "reset"; "restart"; "restrict"; "returning"; "returns"; "revoke";
   "right"; "role"; "rollback"; "rollup"; "routine"; "routines"; "row";
   "rows"; "rule"; "savepoint"; "schema"; "schemas"; "scroll"; "search";
   "second"; "security"; "select"; "sequence"; "sequences"; "serializable";
   "server"; "session"; "session_user"; "set"; "setof"; "sets"; "share";
   "show"; "similar"; "simple"; "skip"; "smallint"; "snapshot"; "some";
   "sql"; "stable"; "standalone"; "start"; "statement"; "statistics";
   "stdin"; "stdout"; "storage"; "stored"; "strict"; "strip";
   "subscription"; "substring"; "support"; "symmetric"; "sysid"; "system";
   "table"; "tables"; "tablesample"; "tablespace"; "temp"; "template";
   "temporary"; "text"; "then"; "ties"; "time"; "timestamp"; "to";
   "trailing"; "transaction"; "transform"; "treat"; "trigger"; "trim";
   "true"; "truncate"; "trusted"; "type"; "types"; "uescape"; "unbounded";
   "uncommitted"; "unencrypted"; "union"; "unique"; "unknown"; "unlisten";
   "unlogged"; "until"; "update"; "user"; "using"; "vacuum"; "valid";
   "validate"; "validator"; "value"; "values"; "varchar"; "variadic";
   "varying"; "verbose"; "version"; "view"; "views"; "volatile"; "when";
   "where"; "whitespace"; "window"; "with"; "within"; "without"; "work";
   "wrapper"; "write"; "xml"; "xmlattributes"; "xmlconcat"; "xmlelement";
   "xmlexists"; "xmlforest"; "xmlnamespaces"; "xmlparse"; "xmlpi";
   "xmlroot"; "xmlserialize"; "xmltable"; "year"; "yes"; "zone"
  ]%string.

(** The third argument of each [PG_KEYWORD] line. *)
Definition ScanKeywordCategories : list KeywordCategory :=
  let U := UNRESERVED_KEYWORD in let C := COL_NAME_KEYWORD in
  let T := TYPE_FUNC_NAME_KEYWORD in let R := RESERVED_KEYWORD in
  [
   U; U; U; U; U; U; U; U; R; U; U; U; R; R; R; R; R; R; R; U; U; R; U; U;
   U; T; U; U; U; C; C; T; C; C; R; U; U; U; U; U; U; R; R; U; U; C; C; U;
   R; U; U; U; U; C; R; T; R; U; U; U; U; U; T; U; U; U; R; U; U; U; U; U;
   U; R; T; U; U; U; R; R; R; T; R; R; R; U; U; U; U; U; U; C; C; U; R; U;
   R; U; U; U; U; U; U; R; U; U; U; U; R; R; U; U; U; U; U; R; U; U; U; R;
   U; U; U; R; U; U; U; U; C; U; U; U; U; C; R; U; R; U; U; C; U; R; U; R;
   U; T; R; T; U; U; U; U; R; U; C; R; C; U; U; R; U; U; U; U; U; T; U; U;
   U; U; R; U; U; U; U; U; U; U; R; U; T; C; U; U; U; U; C; C; R; C; R; U;
   T; T; U; T; U; U; U; U; U; R; R; U; C; T; U; T; R; U; U; U; R; R; U; U;
   U; U; U; U; U; U; U; U; U; U; U; U; U; U; C; T; C; U; U; U; U; U; U; U;
   C; C; U; R; U; U; T; U; R; C; U; C; U; U; U; R; U; U; R; R; U; U; U; R;
   R; U; U; C; T; U; T; C; U; U; U; U; U; U; U; U; U; R; U; U; C; U; C; U;
   U; U; R; U; U; U; U; U; U; U; U; U; U; C; U; U; U; U; R; U; U; U; U; U;
   U; U; U; U; U; U; U; R; U; U; T; U; U; U; U; U; C; U; U; U; U; U; U; U;
   U; U; R; U; U; U; U; U; R; U; C; U; U; U; T; U; U; C; U; R; U; U; U; U;
   U; U; U; U; U; U; U; U; U; C; U; R; U; U; R; U; T; U; U; U; U; U; R; U;
   C; C; R; R; U; U; C; U; C; R; U; U; U; U; U; U; U; U; R; R; U; U; U; U;
   U; R; R; U; U; U; U; U; C; C; R; U; T; U; U; U; U; R; R; U; R; R; U; U;
   U; U; U; U; C; C; C; C; C; C; C; C; C; C; C; U; U; U
  ].

Definition ScanKeywords_kw_offsets : list Z :=
  [
   0; 6; 15; 22; 29; 33; 39; 45; 55; 59; 64; 70; 77; 85; 93; 97; 101; 107;
   110; 114; 124; 135; 146; 149; 156; 166; 180; 189; 196; 202; 210; 217;
   224; 228; 236; 241; 244; 250; 255; 262; 270; 279; 284; 289; 297; 303;
   308; 318; 334; 340; 351; 357; 363; 371; 380; 388; 398; 405; 413; 421;
   430; 437; 447; 460; 474; 483; 494; 505; 517; 525; 534; 545; 550; 555;
   562; 568; 572; 577; 585; 601; 614; 627; 642; 655; 673; 686; 693; 699;
   704; 713; 717; 728; 732; 740; 748; 756; 765; 776; 785; 793; 800; 810;
   821; 829; 834; 841; 852; 860; 868; 877; 880; 889; 896; 903; 908; 913;
   918; 925; 934; 944; 948; 953; 960; 966; 973; 981; 991; 1001; 1009; 1016;
   1024; 1035; 1045; 1054; 1062; 1068; 1075; 1081; 1088; 1094; 1100; 1110;
   1114; 1120; 1128; 1136; 1143; 1148; 1153; 1162; 1172; 1182; 1189; 1195;
   1203; 1212; 1218; 1227; 1234; 1242; 1249; 1256; 1261; 1266; 1275; 1278;
   1284; 1294; 1304; 1313; 1320; 1323; 1331; 1341; 1351; 1357; 1365; 1373;
   1382; 1392; 1399; 1405; 1411; 1417; 1429; 1436; 1444; 1448; 1456; 1466;
   1475; 1480; 1488; 1491; 1498; 1508; 1513; 1517; 1523; 1532; 1538; 1543;
   1551; 1559; 1569; 1575; 1580; 1586; 1591; 1597; 1604; 1609; 1615; 1625;
   1640; 1649; 1654; 1661; 1668; 1676; 1682; 1695; 1704; 1711; 1718; 1727;
   1732; 1738; 1743; 1748; 1754; 1763; 1771; 1777; 1781; 1786; 1790; 1794;
   1799; 1804; 1807; 1812; 1822; 1833; 1837; 1845; 1852; 1860; 1867; 1872;
   1879; 1885; 1893; 1900; 1903; 1907; 1914; 1919; 1923; 1926; 1931; 1940;
   1947; 1955; 1958; 1964; 1975; 1982; 1986; 1992; 1997; 2006; 2014; 2025;
   2031; 2037; 2046; 2053; 2061; 2071; 2079; 2088; 2096; 2102; 2109; 2118;
   2128; 2138; 2146; 2155; 2164; 2172; 2178; 2189; 2200; 2210; 2221; 2229;
   2241; 2247; 2253; 2258; 2263; 2272; 2280; 2290; 2294; 2305; 2317; 2325;
   2333; 2342; 2350; 2357; 2368; 2376; 2384; 2390; 2398; 2407; 2417; 2425;
   2432; 2438; 2443; 2452; 2459; 2467; 2476; 2480; 2485; 2490; 2500; 2507;
   2515; 2522; 2529; 2536; 2545; 2552; 2561; 2571; 2584; 2591; 2599; 2612;
   2616; 2622; 2627; 2633; 2638; 2646; 2653; 2658; 2667; 2676; 2681; 2685;
   2692; 2703; 2709; 2719; 2730; 2736; 2743; 2751; 2758; 2765; 2771; 2784;
   2794; 2802; 2812; 2818; 2825; 2831; 2838; 2850; 2861; 2866; 2875; 2885;
   2890; 2895; 2900; 2905; 2915; 2918; 2927; 2939; 2949; 2955; 2963; 2968;
   2973; 2982; 2990; 2995; 3001; 3009; 3019; 3031; 3043; 3049; 3056; 3064;
   3073; 3082; 3088; 3095; 3100; 3106; 3113; 3119; 3128; 3138; 3144; 3151;
   3159; 3168; 3176; 3184; 3192; 3197; 3203; 3212; 3217; 3223; 3234; 3241;
   3246; 3253; 3261; 3266; 3274; 3280; 3284; 3298; 3308; 3319; 3329; 3339;
   3353; 3362; 3368; 3376; 3389; 3398; 3403; 3407
  ].

Definition ScanKeywords_hash_table : list Z :=
  [
   (-172); 32767; 32767; 32767; 0; 56; 362; 32767; 0; 90; (-251); 332;
   32767; 66; 298; 0; 32767; 88; 27; 22; (-125); 317; 0; 32767; (-35); 0;
   32767; 32767; 32767; 52; 32767; 275; 32767; (-277); 32767; 32767; 316;
   177; 32767; 0; 398; 58; 272; (-88); 0; (-147); 242; 143; 401; 0; 32767;
   0; 293; 355; 0; 0; 303; 32767; 225; 580; 0; 378; 0; 0; 32767; (-25);
   (-312); 32767; (-210); 0; 32767; (-19); 32767; 91; 307; 354; 32767;
   32767; (-18); 36; 32767; 32767; 402; 292; 165; 274; 0; 32767; 10; (-20);
   32767; 294; 32767; (-622); 326; 32767; (-128); 0; 33; 32767; 32767; 325;
   32767; 276; 343; 32767; 96; 173; 32767; 32767; 32767; 0; 32767; 320;
   (-128); 32767; 357; 24; (-9); 427; 32767; 32767; 0; 32767; 0; 0; 32767;
   32767; 405; 32767; 125; 32767; 0; 32767; (-40); 32767; 0; 80; 0; 32767;
   0; 95; (-146); 0; 32767; 26; 165; 32767; 41; 32767; 418; 32767; 32767;
   40; 32767; 147; 32767; 32767; 32767; 91; 110; 9; 305; (-340); 32767;
   103; 32767; 0; 329; 32767; 32767; 310; 32767; 32767; 147; (-262); 422;
   393; 382; 136; 32767; 177; 0; 32767; 32767; 102; 0; 32767; 83; 141; 28;
   167; (-421); 32767; 38; 111; 0; 479; 32767; 32767; 29; 439; 32767; 427;
   (-6); 182; 32767; 74; 32767; 360; 236; 32767; 32767; 327; (-63); 162;
   154; 184; 90; 263; 115; 127; 539; 347; (-72); 32767; (-159); 32767;
   (-249); 152; 32767; 357; 404; (-110); 32767; 404; 345; 32767; 80; 352;
   422; 61; 32767; 32767; 32767; 243; 126; 117; 32767; 0; 32767; 32767;
   208; 32767; 32767; (-20); 430; (-195); 32767; 32767; 32767; 118; (-62);
   32767; 32767; 98; 136; 0; 0; 32767; 261; 32767; 0; 32767; 230; 37; 750;
   154; 32767; (-86); 87; 32767; 6; 61; 32767; 205; 32767; 517; 107; 66;
   304; 32767; 0; 32767; 32767; 32767; 333; 32767; 357; 239; 32767; 32767;
   437; (-26); 32767; 210; 0; 20; 369; 10; 32767; (-78); 616; 70; 0; 32767;
   86; 32767; 0; 32767; 14; 60; 32; 32767; 373; 32767; (-218); 320; 32767;
   268; 32767; 32767; 425; (-67); 0; 32767; 252; 32767; (-93); 193; (-362);
   (-140); 32767; (-328); 32767; 0; 319; 336; 32767; 121; 0; 32767; 207;
   32767; 481; (-176); 276; 47; 235; 32767; 0; 221; 32767; 228; 32767; 84;
   32767; 32767; 32767; 32767; 32767; 32767; 290; 32767; 32767; 84; (-170);
   82; 246; (-43); 201; 155; (-7); 299; 32767; 32767; 241; 32767; (-418);
   32767; 32767; (-303); 32767; 32767; (-40); 308; 32767; 0; 178; (-67);
   32767; 273; 32767; 0; 32767; 69; 387; 32767; 341; 0; 0; (-19); 324;
   (-88); 166; 32767; 6; 20; 32767; 17; 22; 359; 32767; 32767; 172; 0;
   32767; 0; 206; 88; 0; 32767; 35; 0; 275; 114; 339; 32767; 32767; 32767;
   32767; 32767; 524; 0; (-52); 191; (-115); 9; 200; 102; 0; 32767; 3; 0;
   0; 0; (-288); 0; (-132); 32767; 0; 32767; 300; 0; 0; 0; 212; 32767; 260;
   32767; (-279); 104; 506; 0; 640; 38; 268; 32767; 131; 32767; 32767;
   32767; 32767; 0; 0; 32767; 32767; 18; 100; 44; 67; 270; 245; 283; 224;
   (-66); 32767; 32767; 32767; (-67); 32767; 389; 32767; 0; 125; 354;
   32767; 32767; (-21); 124; 0; 204; 32767; 0; 99; 32767; 267; 32767; 0;
   32767; 32767; 231; 32767; (-129); (-113); 108; 23; 0; 0; 32767; 32767;
   0; 32767; 269; 32767; 32767; (-133); 32767; (-384); 32767; 32767; 0;
   32767; 32767; 32767; 0; 32767; 32767; 32767; 0; 322; 424; 117; (-29);
   32767; 32767; 145; 0; 0; 323; 119; 32767; 32767; 32767; 392; (-164);
   (-143); (-25); (-106); 0; 97; 32767; 32767; 235; 32767; 0; 32767; 411;
   363; 32767; 31; 32767; 443; 32767; 76; 29; 32767; 323; 32767; 142;
   32767; 0; 244; 0; 32767; 28; 32767; 0; 377; (-8); (-45); 32767; 37; 0;
   350; 0; 32767; 32767; 38; 416; 32767; 265; (-78); (-308); (-51); 705;
   32767; 32767; 0; 66; 0; 32767; 32767; 32767; 81; (-250); 32767; 1; 421;
   32767; 32767; 0; 32767; 401; 198; 32767; 256; 290; 210; 32767; 32767;
   32767; 32767; 0; 444; 211; (-99); 220; 64; 32767; 32767; 32767; 32767;
   190; 19; 0; 216; 32767; 262; 32767; 404; 562; (-222); 0; 0; (-162);
   32767; 192; 65; 32767; 150; 191; 0; 218; 267; 32767; 32767; 32767; 399;
   189; 356; 532; 0; 32767; 429; 32767; 32767; 54; 279; 151; 0; 353; 394;
   176; 215; 32767; 15; 153; 137; 92; 420; 47; 253; 0; 298; 32767; 32767;
   32767; 234; 164; 241; 32767; 0; 409; 0; 32767; 0; 32767; 0; 70; 32767;
   32767; 32767; 0; 32767; 32767; 32767; (-138); 32767; 32767; (-46);
   32767; 97; 32767; 0; (-126); 32767; 169; 322; 392; 32767; 0; 32767;
   32767; 0; 282; 296; 32767; 0; 403; 32767; (-24); 32767; (-34); 32767;
   32767; 32767; 418; 32767; 0; 97; 238; 32767; 144; 428; 32767; 2; 32767;
   32767; 32767; 194; (-182); 12; 32767; 391; 32767; 880; 32767; 32767; 50;
   331; 0; 0; 358; 20; 32767; 32767; 222; 317; 32767; 0; 125; 32767; 0;
   32767; 284; 32767; 32767; 197; 0; 63; 32767; 0; 188; 32767; 32767; 147;
   190; 344; 32767; (-42); 32767; 0; 187; 32767; 32767; 350; 32767; 0; 0;
   127; 32767; 32767; 161; 32767; 0; 0; 382; 32767; 32767; 316; 130; 32767;
   379; 32767; 383; 368; 93; (-195); 0; 233; 73; 32767; 100; 32767; 338;
   90; 32767; 258; 32767; 32767; 235; 175; 32767; 32767; 0; (-9); 0; 0;
   32767; 32767; 111; 417; 330; 0; 0; 225; 32767; 0; 0; 32767; 0; 64;
   32767; 32767; 16; 113; 29; 0; 32767; 32767; 0; 43; 0; 365; (-41);
   (-284); 0; 0; 0; 61; 314; 255; 0; 32767; 145; 32767; (-445); 32767;
   32767; 154
  ].

(** [static const char ScanKeywords_kw_string[]]: adjacent literals, each but
    the last ending in an explicit zero byte. *)
Fixpoint join_nul (l : list string) : string :=
  match l with
  | [] => ""
  | [s] => s
  | s :: l' => s +:+ String "000"%char (join_nul l')
  end.

Definition ScanKeywords_kw_string : string := join_nul keyword_names.

(** [ScanKeywords_hash_func]: [a] and [b] are [uint32]; the sum of two [int16]
    table entries is an [int]. *)
Definition hash_step (c : ascii) (ab : Z * Z) : Z * Z :=
  let u := Z.lor (Z.of_N (N_of_ascii c)) 32 in
  (wrap32 (fst ab * 31 + u), wrap32 (snd ab * 127 + u)).

Fixpoint hash_loop (key : string) (ab : Z * Z) : Z * Z :=
  match key with
  | EmptyString => ab
  | String c key' => hash_loop key' (hash_step c ab)
  end.

Definition hash_entry (i : Z) : Z := nth (Z.to_nat (i mod 901)) ScanKeywords_hash_table 0.

Definition ScanKeywords_hash_func (key : string) : Z :=
  let ab := hash_loop key (0, 3) in
  hash_entry (fst ab) + hash_entry (snd ab).

(** [ScanKeywordList] of [common/kwlookup.h]. *)
Record ScanKeywordList : Type := {
  kw_string : string;
  kw_offsets : list Z;
  kw_hash : string -> Z;
  num_keywords : Z;
  max_kw_len : Z
}.

Definition ScanKeywords : ScanKeywordList := {|
  kw_string := ScanKeywords_kw_string;
  kw_offsets := ScanKeywords_kw_offsets;
  kw_hash := ScanKeywords_hash_func;
  num_keywords := 450;
  max_kw_len := 17
|}.

(** [p + n] on a pointer into a string. *)
Fixpoint string_drop (n : nat) (s : string) : string :=
  match n, s with
  | O, _ => s
  | S n', EmptyString => EmptyString
  | S n', String _ s' => string_drop n' s'
  end.

(** [GetScanKeyword] of [common/kwlookup.h]: a pointer into [kw_string]. *)
Definition GetScanKeyword (n : Z) (keywords : ScanKeywordList) : string :=
  string_drop (Z.to_nat (nth (Z.to_nat n) (kw_offsets keywords) 0)) (kw_string keywords).

(** The ASCII-only downcasing in the comparison loop. *)
Definition ascii_downcase (ch : ascii) : ascii :=
  if in_range "A"%char "Z"%char ch
  then ascii_of_N (N_of_ascii ch + 32)%N
  else ch.

(** The [while] loop of [ScanKeywordLookup] and the test of [*kw] after it. *)
Fixpoint keyword_matches (str kw : string) : bool :=
  match str, kw with
  | EmptyString, EmptyString => true
  | EmptyString, String k _ => Ascii.eqb k "000"%char
  | String _ _, EmptyString => false
  | String ch str', String k kw' =>
      if Ascii.eqb (ascii_downcase ch) k then keyword_matches str' kw' else false
  end.

Definition ScanKeywordLookup (str : string) (keywords : ScanKeywordList) : Z :=
  if max_kw_len keywords <? Z.of_nat (String.length str) then -1
  else
    let h := kw_hash keywords str in
    if (h <? 0) || (num_keywords keywords <=? h) then -1
    else if keyword_matches str (GetScanKeyword h keywords) then h
    else -1.

(** [ScanKeywordCategories[kwnum]]. *)
Definition keyword_category (kwnum : Z) : KeywordCategory :=
  nth (Z.to_nat kwnum) ScanKeywordCategories UNRESERVED_KEYWORD.

(** ** Reference definition: linear search of the keyword list *)
Fixpoint index_of (s : string) (l : list string) (i : Z) : Z :=
  match l with
  | [] => -1
  | k :: l' => if String.eqb s k then i else index_of s l' (i + 1)
  end.

Definition downcase (s : string) : string := string_map ascii_downcase s.

Definition keyword_index (s : string) : Z := index_of (downcase s) keyword_names 0.

(** A modelled C string has no zero byte. *)
Definition no_nul (s : string) : bool :=
  string_forall (fun c => negb (Ascii.eqb c "000"%char)) s.

(** The C string that starts at a pointer: the bytes before the next zero. *)
Fixpoint c_string (p : string) : string :=
  match p with
  | EmptyString => EmptyString
  | String c p' => if Ascii.eqb c "000"%char then EmptyString else String c (c_string p')
  end.

(** What the generated tables have to satisfy, one keyword at a time. *)
Definition keyword_table_ok (ik : nat * string) : bool :=
  let '(i, k) := ik in
  String.eqb (c_string (GetScanKeyword (Z.of_nat i) ScanKeywords)) k &&
  (ScanKeywords_hash_func k =? Z.of_nat i) &&
  (Z.of_nat (String.length k) <=? max_kw_len ScanKeywords) &&
  (index_of k keyword_names 0 =? Z.of_nat i).

(** ** Lemmas *)

Lemma c_string_id s : no_nul s = true -> c_string s = s.
Proof.
  induction s as [|c s IH]; [done|]. unfold no_nul in *. cbn [string_forall c_string].
  intros [Hc Hs]%andb_true_iff. apply negb_true_iff in Hc. by rewrite Hc, IH.
Qed.

Lemma c_string_no_nul s : no_nul (c_string s) = true.
Proof.
  unfold no_nul. induction s as [|c s IH]; [done|]. cbn [c_string].
  destruct (Ascii.eqb c "000"%char) eqn:E; [done|]. cbn [string_forall]. by rewrite E, IH.
Qed.

Lemma ascii_downcase_nul c :
  negb (Ascii.eqb c "000"%char) = true -> negb (Ascii.eqb (ascii_downcase c) "000"%char) = true.
Proof.
  intros H. enough (E : implb (negb (Ascii.eqb c "000"%char))
      (negb (Ascii.eqb (ascii_downcase c) "000"%char)) = true) by (by rewrite H in E).
  ascii_cases (fun c => implb (negb (Ascii.eqb c "000"%char))
      (negb (Ascii.eqb (ascii_downcase c) "000"%char))).
Qed.

Lemma ascii_downcase_hash c :
  Z.lor (Z.of_N (N_of_ascii (ascii_downcase c))) 32 = Z.lor (Z.of_N (N_of_ascii c)) 32.
Proof.
  apply Z.eqb_eq.
  ascii_cases (fun c => Z.lor (Z.of_N (N_of_ascii (ascii_downcase c))) 32 =?
                        Z.lor (Z.of_N (N_of_ascii c)) 32).
Qed.

Lemma keyword_matches_spec str p :
  no_nul str = true -> keyword_matches str p = String.eqb (downcase str) (c_string p).
Proof.
  revert p. induction str as [|ch str IH]; intros [|k p] Hn; cbn in *; try done.
  - by destruct (Ascii.eqb k "000"%char).
  - apply andb_true_iff in Hn as [Hc Hn]. apply ascii_downcase_nul in Hc.
    destruct (Ascii.eqb_spec (ascii_downcase ch) k) as [<-|Hne].
    + rewrite IH by done. apply negb_true_iff in Hc. rewrite Hc. cbn.
      by rewrite Ascii.eqb_refl.
    + destruct (Ascii.eqb k "000"%char); [done|]. cbn.
      by apply Ascii.eqb_neq in Hne as ->.
Qed.

Lemma hash_loop_downcase s ab : hash_loop (downcase s) ab = hash_loop s ab.
Proof.
  revert ab. induction s as [|c s IH]; intros ab; [done|]. cbn.
  unfold downcase in IH. rewrite IH. f_equal. unfold hash_step.
  by rewrite ascii_downcase_hash.
Qed.

Lemma hash_downcase s : ScanKeywords_hash_func (downcase s) = ScanKeywords_hash_func s.
Proof. unfold ScanKeywords_hash_func. by rewrite hash_loop_downcase. Qed.

Lemma keyword_tables_ok :
  forallb keyword_table_ok (combine (seq 0 (List.length keyword_names)) keyword_names) = true.
Proof. vm_compute. reflexivity. Qed.

Lemma keyword_names_length : List.length keyword_names = 450%nat.
Proof. reflexivity. Qed.

Lemma keyword_table_at i k :
  keyword_names !! i = Some k ->
  c_string (GetScanKeyword (Z.of_nat i) ScanKeywords) = k /\
  ScanKeywords_hash_func k = Z.of_nat i /\
  Z.of_nat (String.length k) <= 17 /\
  index_of k keyword_names 0 = Z.of_nat i.
Proof.
  intros Hk. pose proof keyword_tables_ok as H. rewrite forallb_forall in H.
  assert (Hin : In (i, k) (combine (seq 0 (List.length keyword_names)) keyword_names)).
  { apply list_elem_of_In, list_elem_of_lookup. exists i.
    change (combine ?a ?b) with (zip_with pair a b).
    rewrite lookup_zip_with, lookup_seq_lt by (by eapply lookup_lt_Some).
    cbn. by rewrite Hk. }
  apply H in Hin. unfold keyword_table_ok in Hin. split_andb.
  rewrite <-String.eqb_eq, <-!Z.eqb_eq, <-Z.leb_le. done.
Qed.

Lemma index_of_range s l i : index_of s l i = -1 \/ i <= index_of s l i < i + Z.of_nat (List.length l).
Proof.
  revert i. induction l as [|k l IH]; intros i; cbn; [by left|].
  destruct (String.eqb s k); [right; lia|].
  destruct (IH (i + 1)) as [->|H]; [by left|right; lia].
Qed.

Lemma index_of_lookup s l i j :
  index_of s l i = j -> j <> -1 -> 0 <= i -> l !! Z.to_nat (j - i) = Some s.
Proof.
  revert i. induction l as [|k l IH]; cbn; intros i Hj Hne Hi; [done|].
  destruct (String.eqb_spec s k) as [->|Hsk].
  - subst j. by rewrite Z.sub_diag.
  - pose proof (index_of_range s l (i + 1)) as [?|?]; [congruence|].
    replace (Z.to_nat (j - i)) with (S (Z.to_nat (j - (i + 1)))) by lia.
    cbn. apply (IH (i + 1)); [done..|lia].
Qed.

Lemma downcase_length s : String.length (downcase s) = String.length s.
Proof. apply string_map_length. Qed.

(** The lookup by perfect hash (length test, generated hash, one comparison)
    and the linear search agree. *)
Lemma ScanKeywordLookup_index (str : string) :
  no_nul str = true -> ScanKeywordLookup str ScanKeywords = keyword_index str.
Proof.
  intros Hnul.
  unfold ScanKeywordLookup, keyword_index. cbn [max_kw_len kw_hash num_keywords ScanKeywords].
  destruct (decide (index_of (downcase str) keyword_names 0 = -1)) as [Hno|Hyes].
  - rewrite Hno. destruct (_ <? _); [done|].
    destruct ((_ <? 0) || _) eqn:Hr; [done|].
    apply orb_false_iff in Hr as [Hr1%Z.ltb_ge Hr2%Z.leb_gt].
    rewrite keyword_matches_spec by done.
    destruct (String.eqb_spec (downcase str)
      (c_string (GetScanKeyword (ScanKeywords_hash_func str) ScanKeywords))) as [Heq|]; [|done].
    assert (is_Some (keyword_names !! Z.to_nat (ScanKeywords_hash_func str))) as [k Hk].
    { apply lookup_lt_is_Some. rewrite keyword_names_length. lia. }
    apply keyword_table_at in Hk as (Hc & _ & _ & Hi).
    rewrite Z2Nat.id in Hc by lia. rewrite Z2Nat.id in Hi by lia.
    rewrite Hc in Heq. rewrite <-Heq in Hi. lia.
  - pose proof (index_of_lookup (downcase str) keyword_names 0 _ eq_refl Hyes ltac:(lia)) as Hk.
    pose proof (index_of_range (downcase str) keyword_names 0) as [|Hr]; [done|].
    rewrite Z.sub_0_r in Hk. pose proof Hk as (Hc & Hh & Hl & _)%keyword_table_at.
    rewrite Z2Nat.id in Hc by lia. rewrite Z2Nat.id in Hh by lia.
    rewrite downcase_length in Hl. rewrite hash_downcase in Hh.
    rewrite (proj2 (Z.ltb_ge _ _)) by lia. rewrite Hh.
    rewrite keyword_names_length in Hr.
    rewrite (proj2 (Z.ltb_ge _ _)) by lia. rewrite (proj2 (Z.leb_gt _ _)) by lia. cbn [orb].
    rewrite keyword_matches_spec, Hc, String.eqb_refl by done. done.
Qed.

Lemma index_of_none s l i : index_of s l i = -1 -> 0 <= i -> s ∉ l.
Proof.
  revert i. induction l as [|k l IH]; intros i; cbn; [intros _ _; apply not_elem_of_nil|].
  destruct (String.eqb_spec s k) as [->|Hne]; [lia|]. intros Hi H0.
  apply not_elem_of_cons. split; [done|]. apply (IH (i + 1)); [done|lia].
Qed.

Lemma keyword_index_of k i : keyword_names !! i = Some k -> index_of k keyword_names 0 = Z.of_nat i.
Proof. by intros (_ & _ & _ & ?)%keyword_table_at. Qed.

(** ** Properties *)

(** C28. [ScanKeywordLookup] returns [i] exactly when the downcased string is
    the [i]-th keyword, and -1 exactly when no keyword is spelled like it in any
    mix of cases. *)
Theorem ScanKeywordLookup_correct (str : string) (Hnul : no_nul str = true) :
  (forall i : nat, ScanKeywordLookup str ScanKeywords = Z.of_nat i <->
     keyword_names !! i = Some (downcase str)) /\
  (ScanKeywordLookup str ScanKeywords = -1 <-> downcase str ∉ keyword_names).
Proof.
  rewrite ScanKeywordLookup_index by done. unfold keyword_index.
  assert (Hfound : forall i : nat, index_of (downcase str) keyword_names 0 = Z.of_nat i <->
    keyword_names !! i = Some (downcase str)).
  { intros i. split; [|apply keyword_index_of]. intros Hi.
    pose proof (index_of_lookup _ _ _ _ Hi ltac:(lia) ltac:(lia)) as Hk.
    by rewrite Z.sub_0_r, Nat2Z.id in Hk. }
  split; [done|]. split; [by intros ?%index_of_none|].
  intros Hni. destruct (index_of_range (downcase str) keyword_names 0) as [|Hr]; [done|].
  exfalso. apply Hni, list_elem_of_lookup.
  exists (Z.to_nat (index_of (downcase str) keyword_names 0)). apply Hfound. lia.
Qed.

Lemma ScanKeywordLookup_correct_witness :
  no_nul "SeLeCt" = true /\
  (ScanKeywordLookup "SeLeCt" ScanKeywords = Z.of_nat 338 <->
     keyword_names !! 338%nat = Some (downcase "SeLeCt")).
Proof.
  split; [reflexivity|]. apply (ScanKeywordLookup_correct "SeLeCt"). reflexivity.
Defined.

Example lookup_select : ScanKeywordLookup "SeLeCt" ScanKeywords = 338.
Proof. vm_compute. reflexivity. Qed.
