(* ===== verification/Unicode.v ===== *)
(** * UTF-8

    The functions of [src/postgres/src_common_wchar.c] for the encoding that
    [pg_query_init] chooses, [PG_UTF8], with the row of [pg_wchar_table] that
    holds them, and the functions of [src_backend_utils_mb_mbutils.c] that go
    through the table: verification, length and clipping of a string.  The
    properties: the verifier accepts exactly the encodings of the Unicode scalar
    values, decoding and encoding are inverse, and a string is clipped between
    two characters, as far as the limit allows. *)
From S2P Require Import Prelude.

Local Open Scope Z_scope.

(** An [unsigned char] read, and one stored. *)
Definition byte (c : ascii) : Z := Z.of_N (N_of_ascii c).
Definition uchar (z : Z) : ascii := ascii_of_N (Z.to_N (z mod 256)).

(** ** Code points: the inline functions of [mb/pg_wchar.h] *)

Definition is_valid_unicode_codepoint (c : Z) : bool := (0 <? c) && (c <=? 0x10FFFF).

Definition is_utf16_surrogate_first (c : Z) : bool := (0xD800 <=? c) && (c <=? 0xDBFF).

Definition is_utf16_surrogate_second (c : Z) : bool := (0xDC00 <=? c) && (c <=? 0xDFFF).

Definition surrogate_pair_to_codepoint (first second : Z) : Z :=
  wrap32 (Z.shiftl (Z.land first 0x3FF) 10 + 0x10000 + Z.land second 0x3FF).

(** ** UTF-8 *)

(** The bytes stored at [utf8string]. *)
Definition unicode_to_utf8 (c : Z) : list ascii :=
  if c <=? 0x7F then [uchar c]
  else if c <=? 0x7FF then
    [uchar (Z.lor 0xC0 (Z.land (Z.shiftr c 6) 0x1F));
     uchar (Z.lor 0x80 (Z.land c 0x3F))]
  else if c <=? 0xFFFF then
    [uchar (Z.lor 0xE0 (Z.land (Z.shiftr c 12) 0x0F));
     uchar (Z.lor 0x80 (Z.land (Z.shiftr c 6) 0x3F));
     uchar (Z.lor 0x80 (Z.land c 0x3F))]
  else
    [uchar (Z.lor 0xF0 (Z.land (Z.shiftr c 18) 0x07));
     uchar (Z.lor 0x80 (Z.land (Z.shiftr c 12) 0x3F));
     uchar (Z.lor 0x80 (Z.land (Z.shiftr c 6) 0x3F));
     uchar (Z.lor 0x80 (Z.land c 0x3F))].

(** [pg_utf_mblen], by the first byte. *)
Definition pg_utf_mblen (s : ascii) : Z :=
  if Z.land (byte s) 0x80 =? 0 then 1
  else if Z.land (byte s) 0xe0 =? 0xc0 then 2
  else if Z.land (byte s) 0xf0 =? 0xe0 then 3
  else if Z.land (byte s) 0xf8 =? 0xf0 then 4
  else 1.

(** [pg_utf2wchar_with_len]; [from] is the [len] bytes. *)
Fixpoint pg_utf2wchar_with_len (from : list ascii) : list Z :=
  match from with
  | [] => []
  | a :: from1 =>
      let c1 := byte a in
      if c1 =? 0 then []
      else if Z.land c1 0x80 =? 0 then c1 :: pg_utf2wchar_with_len from1
      else if Z.land c1 0xe0 =? 0xc0 then
        match from1 with
        | b :: from2 =>
            Z.lor (Z.shiftl (Z.land c1 0x1f) 6) (Z.land (byte b) 0x3f) :: pg_utf2wchar_with_len from2
        | _ => []
        end
      else if Z.land c1 0xf0 =? 0xe0 then
        match from1 with
        | b :: c :: from3 =>
            Z.lor (Z.lor (Z.shiftl (Z.land c1 0x0f) 12) (Z.shiftl (Z.land (byte b) 0x3f) 6))
              (Z.land (byte c) 0x3f) :: pg_utf2wchar_with_len from3
        | _ => []
        end
      else if Z.land c1 0xf8 =? 0xf0 then
        match from1 with
        | b :: c :: d :: from4 =>
            Z.lor (Z.lor (Z.lor (Z.shiftl (Z.land c1 0x07) 18) (Z.shiftl (Z.land (byte b) 0x3f) 12))
              (Z.shiftl (Z.land (byte c) 0x3f) 6)) (Z.land (byte d) 0x3f) :: pg_utf2wchar_with_len from4
        | _ => []
        end
      else c1 :: pg_utf2wchar_with_len from1
  end.

(** [pg_wchar2utf_with_len]: [to] moves on by the length its first byte shows. *)
Fixpoint pg_wchar2utf_with_len (from : list Z) : list ascii :=
  match from with
  | [] => []
  | c :: from' =>
      if c =? 0 then []
      else
        let to := unicode_to_utf8 c in
        match to with
        | b :: _ => (take (Z.to_nat (pg_utf_mblen b)) to ++ pg_wchar2utf_with_len from')%list
        | [] => []
        end
  end.

(** The second byte of a character, by the first. *)
Definition second_islegal (first a : Z) : bool :=
  if first =? 0xE0 then negb ((a <? 0xA0) || (0xBF <? a))
  else if first =? 0xED then negb ((a <? 0x80) || (0x9F <? a))
  else if first =? 0xF0 then negb ((a <? 0x90) || (0xBF <? a))
  else if first =? 0xF4 then negb ((a <? 0x80) || (0x8F <? a))
  else negb ((a <? 0x80) || (0xBF <? a)).

Definition tail_islegal (a : Z) : bool := negb ((a <? 0x80) || (0xBF <? a)).

Definition first_islegal (a : Z) : bool := negb (((0x80 <=? a) && (a <? 0xC2)) || (0xF4 <? a)).

(** [pg_utf8_islegal]: the cases of the switch fall through to the shorter ones. *)
Definition pg_utf8_islegal (source : list ascii) (length : Z) : bool :=
  match source with
  | [] => false
  | a :: rest =>
      let b := byte (nth 0 rest NUL) in
      let c := byte (nth 1 rest NUL) in
      let d := byte (nth 2 rest NUL) in
      if length =? 4 then tail_islegal d && tail_islegal c && second_islegal (byte a) b && first_islegal (byte a)
      else if length =? 3 then tail_islegal c && second_islegal (byte a) b && first_islegal (byte a)
      else if length =? 2 then second_islegal (byte a) b && first_islegal (byte a)
      else if length =? 1 then first_islegal (byte a)
      else false
  end.

(** [pg_utf8_verifier]; [s] is the [len] bytes. *)
Definition pg_utf8_verifier (s : list ascii) : Z :=
  match s with
  | [] => -1
  | a :: _ =>
      let l := pg_utf_mblen a in
      if Z.of_nat (List.length s) <? l then -1
      else if pg_utf8_islegal s l then l
      else -1
  end.

(** ** The encoding table *)

(** A row of [pg_wchar_table], without the conversions and the display length. *)
Record pg_wchar_tbl : Type := mkWcharTbl {
  mblen : ascii -> Z;
  mbverify : list ascii -> Z;
  maxmblen : Z
}.

Definition PG_UTF8 : pg_wchar_tbl := mkWcharTbl pg_utf_mblen pg_utf8_verifier 4.

(** [pg_latin1_mblen] and [pg_latin1_verifier] of the single-byte encodings. *)
Definition pg_latin1_mblen (s : ascii) : Z := 1.
Definition pg_latin1_verifier (s : list ascii) : Z := 1.
Definition PG_LATIN1 : pg_wchar_tbl := mkWcharTbl pg_latin1_mblen pg_latin1_verifier 1.

Definition invalid_encoding : string := "invalid byte sequence for encoding".

(** [pg_verify_mbstr_len]; [mbstr] is the [len] bytes.  [fuel] bounds the
    characters. *)
Fixpoint verify_loop (fuel : nat) (encoding : pg_wchar_tbl) (noError : bool) (mbstr : list ascii)
    (mb_len : Z) : outcome Z :=
  match fuel with
  | O => Undef
  | S fuel =>
      match mbstr with
      | [] => Ok mb_len
      | a :: mbstr' =>
          if Z.land (byte a) 0x80 =? 0 then
            if byte a =? 0 then (if noError then Ok (-1) else Elog invalid_encoding)
            else verify_loop fuel encoding noError mbstr' (mb_len + 1)
          else
            let l := mbverify encoding mbstr in
            if l <? 0 then (if noError then Ok (-1) else Elog invalid_encoding)
            else verify_loop fuel encoding noError (drop (Z.to_nat l) mbstr) (mb_len + 1)
      end
  end.

Definition pg_verify_mbstr_len (encoding : pg_wchar_tbl) (mbstr : list ascii) (noError : bool) : outcome Z :=
  if maxmblen encoding <=? 1 then
    if existsb (fun a => byte a =? 0) mbstr then
      (if noError then Ok (-1) else Elog invalid_encoding)
    else Ok (Z.of_nat (List.length mbstr))
  else verify_loop (S (List.length mbstr)) encoding noError mbstr 0.

Definition pg_verifymbstr (mbstr : list ascii) (noError : bool) : outcome bool :=
  let* n := pg_verify_mbstr_len PG_UTF8 mbstr noError in Ok (0 <=? n).

(** [cliplen] *)
Fixpoint cliplen (str : list ascii) (len l : nat) : nat :=
  match len with
  | O => l
  | S len' =>
      match str with
      | a :: str' => if byte a =? 0 then l else cliplen str' len' (S l)
      | [] => l
      end
  end.

(** The loop of [pg_encoding_mbcliplen]; [mbstr] is the [len] bytes that are left. *)
Fixpoint mbcliplen_loop (fuel : nat) (encoding : pg_wchar_tbl) (mbstr : list ascii) (limit clen : Z) :
    outcome Z :=
  match fuel with
  | O => Undef
  | S fuel =>
      match mbstr with
      | [] => Ok clen
      | a :: _ =>
          if byte a =? 0 then Ok clen
          else
            let l := mblen encoding a in
            if limit <? clen + l then Ok clen
            else
              let clen := clen + l in
              if clen =? limit then Ok clen
              else mbcliplen_loop fuel encoding (drop (Z.to_nat l) mbstr) limit clen
      end
  end.

Definition pg_encoding_mbcliplen (encoding : pg_wchar_tbl) (mbstr : list ascii) (limit : Z) : outcome Z :=
  if maxmblen encoding =? 1 then
    Ok (Z.of_nat (cliplen mbstr (Nat.min (List.length mbstr) (Z.to_nat limit)) 0))
  else mbcliplen_loop (S (List.length mbstr)) encoding mbstr limit 0.

Definition pg_mbcliplen (mbstr : list ascii) (limit : Z) : outcome Z :=
  pg_encoding_mbcliplen PG_UTF8 mbstr limit.

(** [pg_mbstrlen_with_len]; [mbstr] is the [limit] bytes. *)
Fixpoint mbstrlen_loop (fuel : nat) (mbstr : list ascii) (len : Z) : outcome Z :=
  match fuel with
  | O => Undef
  | S fuel =>
      match mbstr with
      | [] => Ok len
      | a :: _ =>
          if byte a =? 0 then Ok len
          else mbstrlen_loop fuel (drop (Z.to_nat (pg_utf_mblen a)) mbstr) (len + 1)
      end
  end.

Definition pg_mbstrlen_with_len (mbstr : list ascii) : outcome Z :=
  mbstrlen_loop (S (List.length mbstr)) mbstr 0.

(** ** Arithmetic on the bits *)

Lemma byte_range a : 0 <= byte a < 256.
Proof. unfold byte. pose proof (N_ascii_bounded a). lia. Qed.

Lemma byte_uchar z : byte (uchar z) = z mod 256.
Proof.
  unfold byte, uchar. pose proof (Z.mod_pos_bound z 256 ltac:(lia)). rewrite N_ascii_embedding; lia.
Qed.

Lemma uchar_byte a : uchar (byte a) = a.
Proof.
  unfold byte, uchar. pose proof (N_ascii_bounded a). rewrite Z.mod_small by lia.
  rewrite N2Z.id. apply ascii_N_embedding.
Qed.

(** A disjunction with bits below is a sum. *)
Lemma lor_low hi x k : 0 <= k -> 0 <= x < 2 ^ k -> Z.lor (hi * 2 ^ k) x = hi * 2 ^ k + x.
Proof.
  intros Hk Hx. destruct (decide (x = 0)) as [->|]; [rewrite Z.lor_0_r; lia|].
  assert (Hl : Z.land (hi * 2 ^ k) x = 0).
  { apply Z.bits_inj'. intros i Hi. rewrite Z.land_spec, Z.bits_0. destruct (Z.ltb_spec i k).
    - by rewrite Z.mul_pow2_bits_low.
    - rewrite (Z.bits_above_log2 x i), andb_false_r; [done|lia|].
      apply Z.log2_lt_pow2; [lia|]. pose proof (Z.pow_le_mono_r 2 k i ltac:(lia) ltac:(lia)). lia. }
  by rewrite <-(Z.lxor_lor _ _ Hl), <-(Z.add_nocarry_lxor _ _ Hl).
Qed.

Lemma land_63 c : Z.land c 0x3F = c mod 64.
Proof. exact (Z.land_ones c 6 ltac:(lia)). Qed.
Lemma land_31 c : Z.land c 0x1F = c mod 32.
Proof. exact (Z.land_ones c 5 ltac:(lia)). Qed.
Lemma land_15 c : Z.land c 0x0F = c mod 16.
Proof. exact (Z.land_ones c 4 ltac:(lia)). Qed.
Lemma land_7 c : Z.land c 0x07 = c mod 8.
Proof. exact (Z.land_ones c 3 ltac:(lia)). Qed.
Lemma land_1023 c : Z.land c 0x3FF = c mod 1024.
Proof. exact (Z.land_ones c 10 ltac:(lia)). Qed.

(** The masks and shifts as arithmetic. *)
Ltac bits_tac :=
  rewrite ?land_63, ?land_31, ?land_15, ?land_7, ?land_1023;
  rewrite ?Z.shiftr_div_pow2, ?Z.shiftl_mul_pow2 by lia;
  change (2 ^ 6) with 64; change (2 ^ 12) with 4096; change (2 ^ 18) with 262144; change (2 ^ 10) with 1024.

Ltac div_lia := Z.div_mod_to_equations; lia.

(** The encoding in arithmetic. *)
Definition utf8 (c : Z) : list Z :=
  if c <? 0x80 then [c]
  else if c <? 0x800 then [0xC0 + c / 64; 0x80 + c mod 64]
  else if c <? 0x10000 then [0xE0 + c / 4096; 0x80 + (c / 64) mod 64; 0x80 + c mod 64]
  else [0xF0 + c / 262144; 0x80 + (c / 4096) mod 64; 0x80 + (c / 64) mod 64; 0x80 + c mod 64].

Lemma or_80 x : Z.lor 0x80 (x mod 64) = 0x80 + x mod 64.
Proof. apply (lor_low 2 (x mod 64) 6); [lia|]. change (2 ^ 6) with 64. div_lia. Qed.
Lemma or_C0 x : Z.lor 0xC0 (x mod 32) = 0xC0 + x mod 32.
Proof. apply (lor_low 6 (x mod 32) 5); [lia|]. change (2 ^ 5) with 32. div_lia. Qed.
Lemma or_E0 x : Z.lor 0xE0 (x mod 16) = 0xE0 + x mod 16.
Proof. apply (lor_low 14 (x mod 16) 4); [lia|]. change (2 ^ 4) with 16. div_lia. Qed.
Lemma or_F0 x : Z.lor 0xF0 (x mod 8) = 0xF0 + x mod 8.
Proof. apply (lor_low 30 (x mod 8) 3); [lia|]. change (2 ^ 3) with 8. div_lia. Qed.

Lemma unicode_to_utf8_bytes c : 0 <= c <= 0x10FFFF -> map byte (unicode_to_utf8 c) = utf8 c.
Proof.
  intros Hc. unfold unicode_to_utf8, utf8. bits_tac. rewrite !or_80, ?or_C0, ?or_E0, ?or_F0.
  destruct (Z.leb_spec c 0x7F); [rewrite (proj2 (Z.ltb_lt _ _)) by lia|rewrite (proj2 (Z.ltb_ge c 0x80)) by lia].
  { cbn [map]. rewrite byte_uchar. f_equal. div_lia. }
  destruct (Z.leb_spec c 0x7FF); [rewrite (proj2 (Z.ltb_lt _ _)) by lia|rewrite (proj2 (Z.ltb_ge c 0x800)) by lia].
  { cbn [map]. rewrite !byte_uchar. repeat f_equal; div_lia. }
  destruct (Z.leb_spec c 0xFFFF); [rewrite (proj2 (Z.ltb_lt _ _)) by lia|rewrite (proj2 (Z.ltb_ge c 0x10000)) by lia].
  { cbn [map]. rewrite !byte_uchar. repeat f_equal; div_lia. }
  cbn [map]. rewrite !byte_uchar. repeat f_equal; div_lia.
Qed.

(** What the first byte says, by its range. *)
Definition mblen_range (b : Z) : Z :=
  if b <? 0xC0 then 1 else if b <? 0xE0 then 2 else if b <? 0xF0 then 3 else if b <? 0xF8 then 4 else 1.

Lemma pg_utf_mblen_range a : pg_utf_mblen a = mblen_range (byte a).
Proof. apply Z.eqb_eq. ascii_cases (fun a => pg_utf_mblen a =? mblen_range (byte a)). Qed.

Lemma high_bit a : (Z.land (byte a) 0x80 =? 0) = (byte a <? 0x80).
Proof. apply eqb_prop. ascii_cases (fun a => Bool.eqb (Z.land (byte a) 0x80 =? 0) (byte a <? 0x80)). Qed.

Lemma lead2 a : (Z.land (byte a) 0xe0 =? 0xc0) = (0xC0 <=? byte a) && (byte a <? 0xE0).
Proof.
  apply eqb_prop.
  ascii_cases (fun a => Bool.eqb (Z.land (byte a) 0xe0 =? 0xc0) ((0xC0 <=? byte a) && (byte a <? 0xE0))).
Qed.

Lemma lead3 a : (Z.land (byte a) 0xf0 =? 0xe0) = (0xE0 <=? byte a) && (byte a <? 0xF0).
Proof.
  apply eqb_prop.
  ascii_cases (fun a => Bool.eqb (Z.land (byte a) 0xf0 =? 0xe0) ((0xE0 <=? byte a) && (byte a <? 0xF0))).
Qed.

Lemma lead4 a : (Z.land (byte a) 0xf8 =? 0xf0) = (0xF0 <=? byte a) && (byte a <? 0xF8).
Proof.
  apply eqb_prop.
  ascii_cases (fun a => Bool.eqb (Z.land (byte a) 0xf8 =? 0xf0) ((0xF0 <=? byte a) && (byte a <? 0xF8))).
Qed.

(** ** One character *)

(** A Unicode scalar value. *)
Definition scalar (c : Z) : Prop := 0 <= c <= 0x10FFFF /\ ~ (0xD800 <= c <= 0xDFFF).

(** What is read back from the bytes of a character. *)
Definition value (s : list Z) : Z :=
  match s with
  | [a] => a
  | [a; b] => (a - 0xC0) * 64 + (b - 0x80)
  | [a; b; c] => (a - 0xE0) * 4096 + (b - 0x80) * 64 + (c - 0x80)
  | [a; b; c; d] => (a - 0xF0) * 262144 + (b - 0x80) * 4096 + (c - 0x80) * 64 + (d - 0x80)
  | _ => 0
  end.

Lemma value_utf8 c : 0 <= c <= 0x10FFFF -> value (utf8 c) = c.
Proof.
  intros Hc. unfold utf8. destruct (Z.ltb_spec c 0x80); [done|]. destruct (Z.ltb_spec c 0x800); [cbn [value]; div_lia|].
  destruct (Z.ltb_spec c 0x10000); cbn [value]; div_lia.
Qed.

(** Splits the boolean conditions of the C code into comparisons. *)
Ltac cond_tac :=
  repeat match goal with
  | H : _ && _ = true |- _ => apply andb_true_iff in H as [? ?]
  | H : negb _ = true |- _ => apply negb_true_iff in H
  | H : _ || _ = false |- _ => apply orb_false_iff in H as [? ?]
  | H : (_ <? _) = true |- _ => apply Z.ltb_lt in H
  | H : (_ <? _) = false |- _ => apply Z.ltb_ge in H
  | H : (_ <=? _) = true |- _ => apply Z.leb_le in H
  | H : (_ <=? _) = false |- _ => apply Z.leb_gt in H
  | H : (_ =? _) = true |- _ => apply Z.eqb_eq in H
  | H : (_ =? _) = false |- _ => apply Z.eqb_neq in H
  end.

Ltac if_tac :=
  repeat match goal with |- context [if ?b then _ else _] => destruct b eqn:? end; cond_tac.

(** The second byte accepted with a first byte, by ranges. *)
Lemma second_range a b :
  second_islegal a b = true ->
  0x80 <= b <= 0xBF /\ (a = 0xE0 -> 0xA0 <= b) /\ (a = 0xED -> b <= 0x9F) /\ (a = 0xF0 -> 0x90 <= b) /\
  (a = 0xF4 -> b <= 0x8F).
Proof.
  unfold second_islegal. intros H.
  repeat match type of H with context [if ?b then _ else _] => destruct b eqn:? end; cond_tac; lia.
Qed.

Lemma first_range a : first_islegal a = true <-> (a < 0x80 \/ 0xC2 <= a) /\ a <= 0xF4.
Proof.
  unfold first_islegal. rewrite negb_true_iff, orb_false_iff, andb_false_iff, Z.leb_gt, !Z.ltb_ge. lia.
Qed.

Lemma tail_range a : tail_islegal a = true <-> 0x80 <= a <= 0xBF.
Proof. unfold tail_islegal. rewrite negb_true_iff, orb_false_iff, !Z.ltb_ge. lia. Qed.

Lemma second_islegal_true a b :
  0x80 <= b <= 0xBF -> (a = 0xE0 -> 0xA0 <= b) -> (a = 0xED -> b <= 0x9F) -> (a = 0xF0 -> 0x90 <= b) ->
  (a = 0xF4 -> b <= 0x8F) -> second_islegal a b = true.
Proof.
  intros. unfold second_islegal. if_tac; apply negb_true_iff, orb_false_iff; rewrite !Z.ltb_ge; lia.
Qed.

Lemma map_byte_inj s t : map byte s = map byte t -> s = t.
Proof.
  revert t. induction s as [|a s IH]; intros [|b t]; try done. cbn. intros [= Hab Hst].
  rewrite <-(uchar_byte a), <-(uchar_byte b), Hab. f_equal. auto.
Qed.

(** The bytes of a code point, by its size. *)
Inductive utf8_form (c : Z) : list ascii -> Prop :=
| form1 a : byte a = c -> c < 0x80 -> utf8_form c [a]
| form2 a b : byte a = 0xC0 + c / 64 -> byte b = 0x80 + c mod 64 -> 0x80 <= c < 0x800 -> utf8_form c [a; b]
| form3 a b d : byte a = 0xE0 + c / 4096 -> byte b = 0x80 + (c / 64) mod 64 -> byte d = 0x80 + c mod 64 ->
    0x800 <= c < 0x10000 -> utf8_form c [a; b; d]
| form4 a b d e : byte a = 0xF0 + c / 262144 -> byte b = 0x80 + (c / 4096) mod 64 ->
    byte d = 0x80 + (c / 64) mod 64 -> byte e = 0x80 + c mod 64 -> 0x10000 <= c -> utf8_form c [a; b; d; e].

Lemma unicode_to_utf8_form c : 0 <= c <= 0x10FFFF -> utf8_form c (unicode_to_utf8 c).
Proof.
  intros Hc. pose proof (unicode_to_utf8_bytes c Hc) as H. unfold utf8 in H.
  destruct (unicode_to_utf8 c) as [|a [|b [|d [|e [|? ?]]]]];
    destruct (Z.ltb_spec c 0x80); destruct (Z.ltb_spec c 0x800); destruct (Z.ltb_spec c 0x10000);
    simplify_eq H; intros; try lia; by constructor.
Qed.

Lemma utf8_form_unique c s : 0 <= c <= 0x10FFFF -> utf8_form c s -> s = unicode_to_utf8 c.
Proof.
  intros Hc Hf. apply map_byte_inj. rewrite unicode_to_utf8_bytes by done. unfold utf8.
  destruct Hf; repeat (rewrite (proj2 (Z.ltb_ge c _)) by lia); rewrite ?(proj2 (Z.ltb_lt c _)) by lia;
    cbn [map]; congruence.
Qed.

Definition char_len (c : Z) : nat := List.length (unicode_to_utf8 c).

Lemma mblen_form c s : 0 <= c <= 0x10FFFF -> utf8_form c s ->
  exists a s', s = a :: s' /\ pg_utf_mblen a = Z.of_nat (List.length s) /\ (1 <= List.length s <= 4)%nat.
Proof.
  intros Hc [a Ha|a b Ha|a b d Ha|a b d e Ha]; (eexists _, _; split; [done|]); rewrite pg_utf_mblen_range, Ha;
    (split; [|cbn; lia]); unfold mblen_range; cbn [List.length]; if_tac; div_lia.
Qed.

(** The length its first byte shows. *)
Lemma mblen_char c : 0 <= c <= 0x10FFFF ->
  exists a s, unicode_to_utf8 c = a :: s /\ pg_utf_mblen a = Z.of_nat (char_len c) /\ (1 <= char_len c <= 4)%nat.
Proof. intros Hc. by apply (mblen_form c), unicode_to_utf8_form. Qed.

(** Decides the comparisons between numerals. *)
Ltac eqb_tac :=
  repeat match goal with
  | |- context [?n =? ?m] => let b := eval vm_compute in (n =? m) in
      match b with true => idtac | false => idtac end; change (n =? m) with b
  | H : context [?n =? ?m] |- _ => let b := eval vm_compute in (n =? m) in
      match b with true => idtac | false => idtac end; change (n =? m) with b in H; cbv iota in H
  end; cbv iota.

Lemma islegal_form c s r : scalar c -> utf8_form c s ->
  pg_utf8_islegal (s ++ r) (Z.of_nat (List.length s)) = true.
Proof.
  intros [Hc Hs] [a Ha|a b Ha Hb|a b d Ha Hb Hd|a b d e Ha Hb Hd He];
    cbn [app pg_utf8_islegal List.length nth]; eqb_tac.
  all: rewrite ?andb_true_iff, ?tail_range, ?first_range.
  all: repeat split; try (apply second_islegal_true); try div_lia.
Qed.

Lemma verifier_complete c r : scalar c ->
  pg_utf8_verifier (unicode_to_utf8 c ++ r) = Z.of_nat (char_len c).
Proof.
  intros Hs. destruct (mblen_char c (proj1 Hs)) as (a & s & E & Hl & _).
  unfold pg_utf8_verifier. pose proof (islegal_form c _ r Hs (unicode_to_utf8_form c (proj1 Hs))) as Hleg.
  unfold char_len in *. rewrite E in *. cbn [app]. rewrite Hl. cbn [app] in Hleg. rewrite Hleg.
  rewrite (proj2 (Z.ltb_ge _ _)); [done|]. cbn [List.length]. rewrite length_app. lia.
Qed.

Lemma verifier_sound s : 0 <= pg_utf8_verifier s ->
  exists c, scalar c /\ take (Z.to_nat (pg_utf8_verifier s)) s = unicode_to_utf8 c /\
    pg_utf8_verifier s = Z.of_nat (char_len c).
Proof.
  unfold pg_utf8_verifier. destruct s as [|a s]; [done|].
  destruct (Z.ltb_spec (Z.of_nat (List.length (a :: s))) (pg_utf_mblen a)); [done|].
  destruct (pg_utf8_islegal (a :: s) (pg_utf_mblen a)) eqn:Hleg; [|done]. intros _.
  set (c := value (map byte (take (Z.to_nat (pg_utf_mblen a)) (a :: s)))).
  assert (H' : scalar c /\ utf8_form c (take (Z.to_nat (pg_utf_mblen a)) (a :: s)) /\ 0 <= pg_utf_mblen a).
  2:{ destruct H' as (Hs & Hf & H0). exists c. split; [done|].
      pose proof (utf8_form_unique c _ (proj1 Hs) Hf) as E. split; [done|].
      unfold char_len. rewrite <-E, length_take. lia. }
  unfold c. clear c. pose proof (byte_range a). rewrite pg_utf_mblen_range in *. unfold mblen_range, pg_utf8_islegal in *.
  repeat match goal with |- context [if ?b then _ else _] => destruct b eqn:? end; cond_tac;
    eqb_tac; cond_tac;
    repeat match goal with
    | H : tail_islegal _ = true |- _ => apply (proj1 (tail_range _)) in H
    | H : first_islegal _ = true |- _ => apply (proj1 (first_range _)) in H
    | H : second_islegal _ _ = true |- _ => apply second_range in H
    end.
  all: destruct s as [|b [|d [|e s]]]; cbn [List.length] in *; try lia.
  all: try change (Z.to_nat 1) with 1%nat; try change (Z.to_nat 2) with 2%nat;
    try change (Z.to_nat 3) with 3%nat; try change (Z.to_nat 4) with 4%nat; cbn [take map value nth] in *; rewrite ?take_0;
    cbn [map].
  all: unfold scalar; (split; [|split; [|lia]]).
  all: try lia.
  all: first [apply form1 | apply form2 | apply form3 | apply form4]; div_lia.
Qed.

(** ** Strings of characters *)

(** A character of a C string: a scalar value other than zero. *)
Definition character (c : Z) : Prop := scalar c /\ c <> 0.

Definition encode (cs : list Z) : list ascii := List.concat (map unicode_to_utf8 cs).

Lemma encode_cons c cs : encode (c :: cs) = (unicode_to_utf8 c ++ encode cs)%list.
Proof. done. Qed.

Lemma encode_app cs1 cs2 : encode (cs1 ++ cs2) = (encode cs1 ++ encode cs2)%list.
Proof. unfold encode. by rewrite map_app, List.concat_app. Qed.

Lemma take_char c r : take (char_len c) (unicode_to_utf8 c ++ r) = unicode_to_utf8 c.
Proof. unfold char_len. by rewrite take_app_length. Qed.

Lemma drop_char c r : drop (char_len c) (unicode_to_utf8 c ++ r) = r.
Proof. unfold char_len. by rewrite drop_app_length. Qed.

(** The disjunctions of a decoded character as sums. *)
Lemma or_6 x y : 0 <= y < 64 -> Z.lor (x * 64) y = x * 64 + y.
Proof. intros Hy. apply (lor_low x y 6); [lia|done]. Qed.
Lemma or_12 x y : 0 <= y < 4096 -> Z.lor (x * 4096) y = x * 4096 + y.
Proof. intros Hy. apply (lor_low x y 12); [lia|done]. Qed.
Lemma or_18 x y : 0 <= y < 262144 -> Z.lor (x * 262144) y = x * 262144 + y.
Proof. intros Hy. apply (lor_low x y 18); [lia|done]. Qed.
Lemma mod_64 x : 0 <= x mod 64 < 64.
Proof. by apply Z.mod_pos_bound. Qed.

Lemma cont_mod x : (0x80 + x mod 64) mod 64 = x mod 64.
Proof. div_lia. Qed.

Ltac or_tac c :=
  rewrite ?cont_mod; pose proof (mod_64 c); pose proof (mod_64 (c / 64)); pose proof (mod_64 (c / 4096));
  rewrite <-?Z.lor_assoc, or_6 by lia; rewrite ?or_12 by lia; rewrite ?or_18 by lia.

Lemma decode_char c r : 0 < c <= 0x10FFFF ->
  pg_utf2wchar_with_len (unicode_to_utf8 c ++ r) = c :: pg_utf2wchar_with_len r.
Proof.
  intros Hc. destruct (unicode_to_utf8_form c) as [a Ha|a b Ha Hb|a b d Ha Hb Hd|a b d e Ha Hb Hd He]; [lia|..];
    cbn [app pg_utf2wchar_with_len]; rewrite ?high_bit, ?lead2, ?lead3, ?lead4.
  - if_tac; try lia. by rewrite Ha.
  - assert (Hr : 0xC2 <= byte a < 0xE0) by div_lia. if_tac; try lia. f_equal. bits_tac. rewrite Ha, Hb.
    replace ((0xC0 + c / 64) mod 32) with (c / 64) by div_lia. or_tac c. div_lia.
  - assert (Hr : 0xE0 <= byte a < 0xF0) by div_lia. if_tac; try lia. f_equal. bits_tac. rewrite Ha, Hb, Hd.
    replace ((0xE0 + c / 4096) mod 16) with (c / 4096) by div_lia. or_tac c. div_lia.
  - assert (Hr : 0xF0 <= byte a < 0xF8) by div_lia. if_tac; try lia. f_equal. bits_tac. rewrite Ha, Hb, Hd, He.
    replace ((0xF0 + c / 262144) mod 8) with (c / 262144) by div_lia. or_tac c. div_lia.
Qed.

Lemma character_range c : character c -> 0 < c <= 0x10FFFF.
Proof. intros [[H _] H0]. lia. Qed.

Lemma decode_encode cs : Forall character cs -> pg_utf2wchar_with_len (encode cs) = cs.
Proof.
  induction 1 as [|c cs Hc Hcs IH]; [done|]. rewrite encode_cons, decode_char by by apply character_range.
  by rewrite IH.
Qed.

Lemma wchar2utf_encode cs : Forall (fun c => 0 < c <= 0x10FFFF) cs -> pg_wchar2utf_with_len cs = encode cs.
Proof.
  induction 1 as [|c cs Hc Hcs IH]; [done|]. cbn [pg_wchar2utf_with_len]. rewrite (proj2 (Z.eqb_neq _ _)) by lia.
  destruct (mblen_char c) as (a & s & E & Hl & _); [lia|]. rewrite encode_cons, E, Hl, Nat2Z.id, <-IH, <-E.
  f_equal. unfold char_len. by rewrite take_ge.
Qed.

Lemma encode_nil_inv cs : Forall character cs -> encode cs = [] -> cs = [].
Proof. intros H E. by rewrite <-(decode_encode cs H), E. Qed.

Lemma encode_cons_inv c r cs : character c -> Forall character cs ->
  (unicode_to_utf8 c ++ r)%list = encode cs -> exists cs', cs = c :: cs' /\ r = encode cs' /\ Forall character cs'.
Proof.
  intros Hc Hcs E. pose proof (decode_encode cs Hcs) as Hd.
  rewrite <-E, decode_char in Hd by by apply character_range. subst cs.
  exists (pg_utf2wchar_with_len r). split; [done|]. rewrite encode_cons in E. apply app_inv_head in E.
  by inversion Hcs.
Qed.

Lemma ascii_char a : byte a < 0x80 -> unicode_to_utf8 (byte a) = [a].
Proof.
  intros Ha. unfold unicode_to_utf8. rewrite (proj2 (Z.leb_le _ _)) by lia. by rewrite uchar_byte.
Qed.

Lemma ascii_character a : byte a < 0x80 -> byte a <> 0 -> character (byte a).
Proof. intros Ha H0. pose proof (byte_range a). unfold character, scalar. lia. Qed.

(** The verifier at the beginning of a string. *)
Lemma verifier_encode c r : character c -> pg_utf8_verifier (unicode_to_utf8 c ++ r) = Z.of_nat (char_len c).
Proof. intros [Hs _]. by apply verifier_complete. Qed.

Lemma encode_verifies a s cs : Forall character cs -> a :: s = encode cs -> 0 <= pg_utf8_verifier (a :: s).
Proof.
  intros Hcs E. destruct cs as [|c cs]; [done|]. rewrite E, encode_cons. inversion Hcs.
  rewrite verifier_encode by done. lia.
Qed.

Definition encoded (s : list ascii) : Prop := exists cs, Forall character cs /\ s = encode cs.

Lemma encoded_step c r : character c -> encoded (unicode_to_utf8 c ++ r) <-> encoded r.
Proof.
  intros Hc. split.
  - intros (cs & Hcs & E). destruct (encode_cons_inv c r cs Hc Hcs E) as (cs' & -> & -> & Hcs'). by exists cs'.
  - intros (cs & Hcs & ->). exists (c :: cs). split; [by constructor|done].
Qed.

(** The failures of the verification. *)
Definition verify_error (noError : bool) : outcome Z := if noError then Ok (-1) else Elog invalid_encoding.

Lemma verify_loop_spec fuel noError : forall s n,
  (List.length s < fuel)%nat ->
  (exists cs, Forall character cs /\ s = encode cs /\
     verify_loop fuel PG_UTF8 noError s n = Ok (n + Z.of_nat (List.length cs))) \/
  (~ encoded s /\ verify_loop fuel PG_UTF8 noError s n = verify_error noError).
Proof.
  induction fuel as [|fuel IH]; intros s n Hf; [lia|]. cbn [verify_loop]. destruct s as [|a s].
  { left. exists []. split; [done|]. split; [done|]. f_equal. cbn. lia. }
  (* one character and the rest *)
  assert (Hstep : forall c r, character c -> a :: s = (unicode_to_utf8 c ++ r)%list ->
    (exists cs, Forall character cs /\ a :: s = encode cs /\
       verify_loop fuel PG_UTF8 noError r (n + 1) = Ok (n + Z.of_nat (List.length cs))) \/
    (~ encoded (a :: s) /\ verify_loop fuel PG_UTF8 noError r (n + 1) = verify_error noError)).
  { intros c r Hc E. pose proof (character_range c Hc) as Hr. destruct (mblen_char c) as (_ & _ & _ & _ & Hl); [lia|].
    destruct (IH r (n + 1)) as [(cs & Hcs & -> & Ev)|[Hne Ev]].
    - apply (f_equal List.length) in E. rewrite length_app in E. unfold char_len in Hl. lia.
    - left. exists (c :: cs). split; [by constructor|]. split; [done|]. rewrite Ev. f_equal. cbn. lia.
    - right. split; [|done]. by rewrite E, encoded_step. }
  rewrite high_bit. destruct (Z.ltb_spec (byte a) 0x80) as [Hlo|Hhi].
  - destruct (Z.eqb_spec (byte a) 0) as [H0|H0].
    + right. split; [|done]. intros (cs & Hcs & E). pose proof (decode_encode cs Hcs) as Ed.
      rewrite <-E in Ed. cbn [pg_utf2wchar_with_len] in Ed. rewrite H0 in Ed. cbn in Ed. by subst cs.
    + apply (Hstep (byte a) s); [by apply ascii_character|]. by rewrite ascii_char.
  - cbn [mbverify PG_UTF8]. destruct (Z.ltb_spec (pg_utf8_verifier (a :: s)) 0) as [Hv|Hv].
    + right. split; [|done]. intros (cs & Hcs & E). pose proof (encode_verifies a s cs Hcs E). lia.
    + destruct (verifier_sound _ Hv) as (c & Hs & Ht & Hl).
      apply (Hstep c); [split; [done|]|].
      * intros ->. pose proof (byte_range a). rewrite Hl in Ht. injection Ht as Ha. rewrite Ha, byte_uchar, Zmod_0_l in Hhi. lia.
      * by rewrite <-Ht, take_drop.
Qed.

(** ** Clipping *)

Lemma mblen_pos a : 1 <= pg_utf_mblen a <= 4.
Proof. rewrite pg_utf_mblen_range. unfold mblen_range. if_tac; lia. Qed.

(** On any bytes: within the limit, and no read beyond the end. *)
Lemma mbcliplen_bounds fuel : forall s limit clen,
  (List.length s < fuel)%nat -> 0 <= clen <= limit ->
  exists n, mbcliplen_loop fuel PG_UTF8 s limit clen = Ok n /\ clen <= n <= limit.
Proof.
  induction fuel as [|fuel IH]; intros s limit clen Hf Hc; [lia|]. cbn [mbcliplen_loop].
  destruct s as [|a s]; [exists clen; split; [done|lia]|]. cbn [mblen PG_UTF8]. pose proof (mblen_pos a) as Hl.
  destruct (Z.eqb_spec (byte a) 0); [exists clen; split; [done|lia]|].
  destruct (Z.ltb_spec limit (clen + pg_utf_mblen a)); [exists clen; split; [done|lia]|].
  destruct (Z.eqb_spec (clen + pg_utf_mblen a) limit); [eexists; split; [done|lia]|].
  destruct (IH (drop (Z.to_nat (pg_utf_mblen a)) (a :: s)) limit (clen + pg_utf_mblen a)) as (n' & -> & Hn').
  - rewrite length_drop. cbn [List.length] in *. lia.
  - lia.
  - exists n'. split; [done|lia].
Qed.

Lemma first_char c r : character c ->
  exists a s, (unicode_to_utf8 c ++ r)%list = a :: s /\ byte a <> 0 /\ pg_utf_mblen a = Z.of_nat (char_len c).
Proof.
  intros Hc. pose proof (character_range c Hc) as Hr. destruct (mblen_char c) as (a & s & E & Hl & _); [lia|].
  exists a, (s ++ r)%list. rewrite E. split; [done|]. split; [|done].
  assert (Hf : utf8_form c (a :: s)) by (rewrite <-E; apply unicode_to_utf8_form; lia).
  inversion Hf; subst; div_lia.
Qed.

(** On characters: the most that the limit allows. *)
Lemma mbcliplen_chars fuel : forall cs limit clen,
  Forall character cs -> (List.length (encode cs) < fuel)%nat -> 0 <= clen < limit ->
  exists k, mbcliplen_loop fuel PG_UTF8 (encode cs) limit clen =
      Ok (clen + Z.of_nat (List.length (encode (take k cs)))) /\
    clen + Z.of_nat (List.length (encode (take k cs))) <= limit /\
    ((k < List.length cs)%nat -> limit < clen + Z.of_nat (List.length (encode (take (S k) cs)))) /\
    (k <= List.length cs)%nat.
Proof.
  induction fuel as [|fuel IH]; intros cs limit clen Hcs Hf Hc; [lia|]. cbn [mbcliplen_loop].
  destruct Hcs as [|c cs Hch Hcs].
  { exists 0%nat. cbn. split; [f_equal; lia|]. split; [lia|]. split; [lia|done]. }
  rewrite encode_cons in *. destruct (first_char c (encode cs) Hch) as (a & s & E & H0 & Hl).
  rewrite E. rewrite (proj2 (Z.eqb_neq _ _) H0). cbn [mblen PG_UTF8]. rewrite Hl, Nat2Z.id, <-E, drop_char.
  pose proof (mblen_pos a) as Hp. rewrite length_app in Hf. fold (char_len c) in Hf.
  destruct (Z.ltb_spec limit (clen + Z.of_nat (char_len c))).
  { exists 0%nat. cbn [take encode map List.concat List.length]. split; [f_equal; lia|]. split; [lia|].
    split; [|lia]. intros _. rewrite take_0, app_nil_r. done. }
  destruct (Z.eqb_spec (clen + Z.of_nat (char_len c)) limit) as [He|He].
  { exists 1%nat. cbn [take]. rewrite take_0, encode_cons, app_nil_r. fold (char_len c). split; [done|]. split; [lia|].
    split; [|cbn; lia]. intros Hk. destruct cs as [|c' cs]; [cbn in Hk; lia|]. cbn [take].
    rewrite !encode_cons, !length_app. fold (char_len c) (char_len c').
    inversion Hcs as [|? ? Hch' _]. pose proof (character_range c' Hch').
    destruct (mblen_char c') as (_ & _ & _ & _ & Hc'); lia. }
  destruct (IH cs limit (clen + Z.of_nat (char_len c)) Hcs) as (k & -> & Hk & Hnext & Hle); [lia..|].
  exists (S k). rewrite !firstn_cons, !encode_cons, !length_app. fold (char_len c). split; [f_equal; lia|]. split; [lia|].
  split; [|cbn; lia]. intros Hk'. cbn [List.length] in Hk'. specialize (Hnext ltac:(lia)). lia.
Qed.

Lemma mbstrlen_chars fuel : forall cs n,
  Forall character cs -> (List.length (encode cs) < fuel)%nat ->
  mbstrlen_loop fuel (encode cs) n = Ok (n + Z.of_nat (List.length cs)).
Proof.
  induction fuel as [|fuel IH]; intros cs n Hcs Hf; [lia|]. cbn [mbstrlen_loop].
  destruct Hcs as [|c cs Hch Hcs]; [cbn; f_equal; lia|].
  rewrite encode_cons in *. destruct (first_char c (encode cs) Hch) as (a & s & E & H0 & Hl).
  rewrite E, (proj2 (Z.eqb_neq _ _) H0), Hl, Nat2Z.id, <-E, drop_char. rewrite length_app in Hf.
  fold (char_len c) in Hf. pose proof (mblen_pos a).
  rewrite IH; [f_equal; cbn [List.length]; lia|done|lia].
Qed.

(** ** Properties *)

(** C34. Encoding and decoding are inverse: characters encode to a string that
    the verifier accepts, that has their number and that decodes to them, and a
    string the verifier accepts is the encoding of what it decodes to. *)
Theorem utf8_roundtrip (cs : list Z) (s : list ascii) :
  (Forall character cs ->
     pg_utf2wchar_with_len (pg_wchar2utf_with_len cs) = cs /\
     pg_verifymbstr (pg_wchar2utf_with_len cs) false = Ok true /\
     pg_mbstrlen_with_len (pg_wchar2utf_with_len cs) = Ok (Z.of_nat (List.length cs))) /\
  (pg_verifymbstr s false = Ok true -> pg_wchar2utf_with_len (pg_utf2wchar_with_len s) = s).
Proof.
  assert (He : forall cs, Forall character cs -> pg_wchar2utf_with_len cs = encode cs).
  { intros l Hl. apply wchar2utf_encode. eapply Forall_impl; [exact Hl|]. exact character_range. }
  unfold pg_verifymbstr, pg_verify_mbstr_len. cbn [maxmblen PG_UTF8]. eqb_tac. split.
  - intros Hcs. rewrite (He cs Hcs), decode_encode by done. split; [done|].
    split; [|unfold pg_mbstrlen_with_len; apply mbstrlen_chars; [done|lia]].
    change (4 <=? 1) with false. cbv iota.
    destruct (verify_loop_spec (S (List.length (encode cs))) false (encode cs) 0 ltac:(lia)) as
      [(cs' & _ & _ & ->)|[Hne _]]; [|destruct Hne; by exists cs]. cbn [obind]. f_equal. apply Z.leb_le. lia.
  - change (4 <=? 1) with false. cbv iota.
    destruct (verify_loop_spec (S (List.length s)) false s 0 ltac:(lia)) as [(cs' & Hcs & -> & _)|[_ ->]].
    + intros _. by rewrite decode_encode, He.
    + intros [=].
Qed.

(** Verification counts the characters of a string that is UTF-8 and rejects
    every other string, with [-1] or with an error as asked; so neither overlong
    forms, nor surrogates, nor code points above 10FFFF get through. *)
Theorem pg_verify_mbstr_len_correct (s : list ascii) (noError : bool) :
  (exists cs, Forall character cs /\ s = encode cs /\
     pg_verify_mbstr_len PG_UTF8 s noError = Ok (Z.of_nat (List.length cs))) \/
  (~ encoded s /\ pg_verify_mbstr_len PG_UTF8 s noError = verify_error noError).
Proof.
  unfold pg_verify_mbstr_len. cbn [maxmblen PG_UTF8]. change (4 <=? 1) with false. cbv iota.
  exact (verify_loop_spec (S (List.length s)) noError s 0 ltac:(lia)).
Qed.
