(* ===== verification/Scansup.v ===== *)
(** * Identifiers and white space of the scanner

    [src/postgres/src_backend_parser_scansup.c]: the folding of an unquoted
    identifier to lower case and its truncation to [NAMEDATALEN - 1] bytes.  The
    identifier is the list of its bytes before the terminating zero; [isupper]
    and [tolower] of the locale are parameters. *)
From S2P Require Import Prelude Unicode.

Local Open Scope Z_scope.

Definition NAMEDATALEN : Z := 64.

Definition scanner_isspace (ch : ascii) : bool :=
  (ch =? " ")%char || (ch =? "009")%char || (ch =? "010")%char || (ch =? "013")%char || (ch =? "012")%char.

(** [memcpy(buf, ident, len); buf[len] = '\0';] with [char buf[NAMEDATALEN]]. *)
Definition notice_text (ident : list ascii) (len : Z) : outcome (list ascii) :=
  if (0 <=? len) && (len <? NAMEDATALEN) then Ok (take (Z.to_nat len) ident) else Undef.

Definition truncate_identifier (ident : list ascii) (len : Z) (warn : bool) : outcome (list ascii) :=
  if NAMEDATALEN <=? len then
    let* len := pg_mbcliplen (take (Z.to_nat len) ident) (NAMEDATALEN - 1) in
    let* _ := if warn then notice_text ident len else Ok [] in
    Ok (take (Z.to_nat len) ident)
  else Ok ident.

Section downcase.
Context (isupper : ascii -> bool) (tolower : ascii -> ascii).

Definition downcase_char (enc_is_single_byte : bool) (ch : ascii) : ascii :=
  if in_range "A" "Z" ch then uchar (byte ch + 32)
  else if enc_is_single_byte && negb (Z.land (byte ch) 0x80 =? 0) && isupper ch then tolower ch
  else ch.

(** [ident] is the [len] bytes. *)
Definition downcase_identifier (ident : list ascii) (warn truncate : bool) : outcome (list ascii) :=
  let enc_is_single_byte := maxmblen PG_UTF8 =? 1 in
  let result := map (downcase_char enc_is_single_byte) ident in
  let i := Z.of_nat (List.length ident) in
  if (NAMEDATALEN <=? i) && truncate then truncate_identifier result i warn else Ok result.

Definition downcase_truncate_identifier (ident : list ascii) (warn : bool) : outcome (list ascii) :=
  downcase_identifier ident warn true.

(** ** Lemmas *)

(** The folding of a character. *)
Definition lower (c : Z) : Z := if (0x41 <=? c) && (c <=? 0x5A) then c + 32 else c.

Lemma downcase_byte ch :
  downcase_char false ch = if (0x41 <=? byte ch) && (byte ch <=? 0x5A) then uchar (byte ch + 32) else ch.
Proof.
  unfold downcase_char. cbn [andb].
  assert (in_range "A" "Z" ch = (0x41 <=? byte ch) && (byte ch <=? 0x5A)) as ->; [|done].
  apply eqb_prop. ascii_cases (fun ch => Bool.eqb (in_range "A" "Z" ch) ((0x41 <=? byte ch) && (byte ch <=? 0x5A))).
Qed.

Lemma downcase_high a : 0x80 <= byte a -> downcase_char false a = a.
Proof. intros Ha. rewrite downcase_byte. if_tac; [lia|done]. Qed.

Lemma downcase_one c : 0 <= c <= 0x10FFFF ->
  map (downcase_char false) (unicode_to_utf8 c) = unicode_to_utf8 (lower c).
Proof.
  intros Hc. destruct (unicode_to_utf8_form c Hc) as [a Ha|a b Ha Hb|a b d Ha Hb Hd|a b d e Ha Hb Hd He].
  - cbn [map]. rewrite downcase_byte, Ha. unfold lower. if_tac; cbn [unicode_to_utf8 map].
    + unfold unicode_to_utf8. by rewrite (proj2 (Z.leb_le _ _)) by lia.
    + rewrite <-Ha, ascii_char by lia. done.
  - cbn [map]. rewrite !downcase_high by div_lia. unfold lower. if_tac; [lia|]; by apply utf8_form_unique, form2.
  - cbn [map]. rewrite !downcase_high by div_lia. unfold lower. if_tac; [lia|]; by apply utf8_form_unique, form3.
  - cbn [map]. rewrite !downcase_high by div_lia. unfold lower. if_tac; [lia|]; by apply utf8_form_unique, form4.
Qed.

Lemma lower_character c : character c -> character (lower c).
Proof. unfold character, scalar, lower. intros [[H1 H2] H3]. if_tac; lia. Qed.

Lemma downcase_encode cs : Forall character cs ->
  map (downcase_char false) (encode cs) = encode (map lower cs) /\ Forall character (map lower cs).
Proof.
  induction 1 as [|c cs Hc Hcs [IH IH']]; [done|]. cbn [map]. rewrite !encode_cons, map_app, IH.
  rewrite downcase_one by (pose proof (character_range c Hc); lia). split; [done|].
  constructor; [by apply lower_character|done].
Qed.

(** An identifier with room in [NAMEDATALEN] bytes stays as it is. *)
Lemma truncate_short ident warn :
  Z.of_nat (List.length ident) < NAMEDATALEN ->
  truncate_identifier ident (Z.of_nat (List.length ident)) warn = Ok ident.
Proof. intros H. unfold truncate_identifier. by rewrite (proj2 (Z.leb_gt _ _)). Qed.

(** ** Properties *)

(** The longest prefix of [cs] that fits into an identifier. *)
Definition clipped (cs cs' : list Z) : Prop :=
  exists k, cs' = take k cs /\ Z.of_nat (List.length (encode cs')) <= NAMEDATALEN - 1 /\
    ((k < List.length cs)%nat -> NAMEDATALEN - 1 < Z.of_nat (List.length (encode (take (S k) cs)))).

Lemma truncate_chars cs warn : Forall character cs ->
  exists cs', truncate_identifier (encode cs) (Z.of_nat (List.length (encode cs))) warn = Ok (encode cs') /\
    clipped cs cs'.
Proof.
  intros Hcs. unfold truncate_identifier, clipped. destruct (Z.leb_spec NAMEDATALEN (Z.of_nat (List.length (encode cs)))).
  - rewrite Nat2Z.id, take_ge by done. unfold pg_mbcliplen, pg_encoding_mbcliplen. cbn [maxmblen PG_UTF8].
    change (4 =? 1) with false. cbv iota.
    destruct (mbcliplen_chars (S (List.length (encode cs))) cs (NAMEDATALEN - 1) 0 Hcs) as (k & -> & Hk & Hnext & _);
      [lia|unfold NAMEDATALEN; lia|].
    cbn [obind]. rewrite !Z.add_0_l in *. rewrite Nat2Z.id.
    assert (Htake : take (List.length (encode (take k cs))) (encode cs) = encode (take k cs)).
    { rewrite <-(take_drop k cs) at 2. by rewrite encode_app, take_app_length. }
    exists (take k cs). split.
    + unfold notice_text. rewrite (proj2 (Z.leb_le _ _)), (proj2 (Z.ltb_lt _ _)) by lia.
      by destruct warn; cbn [andb obind]; rewrite Htake.
    + exists k. split; [done|]. split; [done|exact Hnext].
  - exists cs. split; [done|]. exists (List.length cs). rewrite take_ge by done. split; [done|]. split; lia.
Qed.

(** The truncation of any bytes. *)
Lemma truncate_any s warn : exists n,
  truncate_identifier s (Z.of_nat (List.length s)) warn = Ok (take n s) /\
  Z.of_nat (List.length (take n s)) <= NAMEDATALEN - 1.
Proof.
  unfold truncate_identifier. destruct (Z.leb_spec NAMEDATALEN (Z.of_nat (List.length s))) as [Hge|Hlt].
  + rewrite Nat2Z.id, take_ge by done. unfold pg_mbcliplen, pg_encoding_mbcliplen. cbn [maxmblen PG_UTF8].
    change (4 =? 1) with false. cbv iota. unfold NAMEDATALEN in *.
    destruct (mbcliplen_bounds (S (List.length s)) s (64 - 1) 0) as (n & -> & Hn); [lia..|].
    exists (Z.to_nat n). cbn [obind]. rewrite length_take. split; [|lia].
    unfold notice_text, NAMEDATALEN. rewrite (proj2 (Z.leb_le _ _)), (proj2 (Z.ltb_lt _ _)) by lia. by destruct warn.
  + exists (List.length s). rewrite take_ge by done. split; [done|]. unfold NAMEDATALEN in *. lia.
Qed.

(** C38. An identifier keeps its longest prefix of whole characters of at most 63
    bytes; the identifier an unquoted one stands for is the clipped one of its
    folded characters.  On any other bytes the truncation still ends and
    leaves a prefix of at most 63 bytes. *)
Theorem truncate_identifier_correct (warn : bool) :
  (forall cs, Forall character cs ->
     exists cs', truncate_identifier (encode cs) (Z.of_nat (List.length (encode cs))) warn = Ok (encode cs') /\
       clipped cs cs') /\
  (forall cs, Forall character cs ->
     exists cs', downcase_truncate_identifier (encode cs) warn = Ok (encode cs') /\ clipped (map lower cs) cs') /\
  (forall s, exists n, truncate_identifier s (Z.of_nat (List.length s)) warn = Ok (take n s) /\
     Z.of_nat (List.length (take n s)) <= NAMEDATALEN - 1).
Proof.
  split; [intros cs; apply truncate_chars|]. split.
  - intros cs Hcs. unfold downcase_truncate_identifier, downcase_identifier. cbn [maxmblen PG_UTF8].
    change (4 =? 1) with false. destruct (downcase_encode cs Hcs) as [-> Hl].
    destruct (truncate_chars (map lower cs) warn Hl) as (cs' & E & Hc). exists cs'. split; [|done].
    assert (Hlen : List.length (encode cs) = List.length (encode (map lower cs))).
    { rewrite <-(proj1 (downcase_encode cs Hcs)). by rewrite length_map. }
    rewrite Hlen, andb_true_r. destruct (Z.leb_spec NAMEDATALEN (Z.of_nat (List.length (encode (map lower cs))))); [done|].
    unfold truncate_identifier in E. by rewrite (proj2 (Z.leb_gt _ _)) in E by lia.
  - intros s. apply truncate_any.
Qed.
End downcase.
