(* ===== verification/Quote.v ===== *)
(** * Quoting identifiers and string constants

    Models [quote_identifier] of [src/postgres/src_backend_utils_adt_ruleutils.c]
    and the lexical helpers at the head of [src/pg_query_deparse.c]
    ([deparseStringLiteral], [isReservedKeyword], [isOp]).  The reference
    readers [read_identifier] and [read_literal] say what the quoted text means
    in SQL; the theorems are the round trips. *)
From S2P Require Import Prelude Buffer Keywords Scansup.

Local Open Scope Z_scope.

Definition DQUOTE : ascii := "034"%char.
Definition SQUOTE : ascii := "039"%char.
Definition BACKSLASH : ascii := "092"%char.

(** ** [quote_identifier] *)

(** [bool quote_all_identifiers = false]: nothing in the sources sets it. *)
Definition quote_all_identifiers : bool := false.

(** The test inside the loop over [ident]. *)
Definition ident_char (ch : ascii) : bool :=
  in_range "a" "z" ch || in_range "0" "9" ch || Ascii.eqb ch "_".

(** The test of [ident[0]]; the first byte of an empty string is zero. *)
Definition ident_start (ident : string) : bool :=
  match ident with
  | EmptyString => false
  | String c _ => in_range "a" "z" c || Ascii.eqb c "_"
  end.

(** The loop: [safe] and [nquotes]. *)
Fixpoint ident_scan (ident : string) (safe : bool) (nquotes : nat) : bool * nat :=
  match ident with
  | EmptyString => (safe, nquotes)
  | String ch rest =>
      if ident_char ch then ident_scan rest safe nquotes
      else ident_scan rest false (if Ascii.eqb ch DQUOTE then S nquotes else nquotes)
  end.

Definition ident_is_safe (ident : string) : bool :=
  let safe := fst (ident_scan ident (ident_start ident) 0) in
  let safe := if quote_all_identifiers then false else safe in
  if safe then
    let kwnum := ScanKeywordLookup ident ScanKeywords in
    if (0 <=? kwnum) && negb (bool_decide (keyword_category kwnum = UNRESERVED_KEYWORD))
    then false else true
  else false.

(** The copying loop: a double quote is written twice. *)
Fixpoint double_quotes (ident : string) : string :=
  match ident with
  | EmptyString => EmptyString
  | String ch rest =>
      if Ascii.eqb ch DQUOTE then String DQUOTE (String ch (double_quotes rest))
      else String ch (double_quotes rest)
  end.

Definition quote_identifier (ident : string) : string :=
  if ident_is_safe ident then ident
  else String DQUOTE (double_quotes ident +:+ String DQUOTE EmptyString).

(** The size of the block [quote_identifier] allocates for the quoted form. *)
Definition quote_identifier_alloc (ident : string) : nat :=
  (String.length ident + snd (ident_scan ident (ident_start ident) 0) + 2 + 1)%nat.

(** ** Helpers of the deparser *)

(** [SQL_STR_DOUBLE(ch, true)] of [c.h]. *)
Definition SQL_STR_DOUBLE (ch : ascii) : bool :=
  Ascii.eqb ch SQUOTE || Ascii.eqb ch BACKSLASH.

Fixpoint deparseStringLiteral_loop (val : string) : dep :=
  match val with
  | EmptyString => skip
  | String ch rest =>
      when (SQL_STR_DOUBLE ch) (chr ch) ;;; chr ch ;;; deparseStringLiteral_loop rest
  end.

(** [strchr(val, '\\') != NULL] *)
Definition has_backslash (val : string) : bool := string_existsb (Ascii.eqb BACKSLASH) val.

Definition deparseStringLiteral (val : string) : dep :=
  when (has_backslash val) (chr "E") ;;;
  chr SQUOTE ;;;
  deparseStringLiteral_loop val ;;;
  chr SQUOTE.

Definition isReservedKeyword (val : string) : bool :=
  let kwnum := ScanKeywordLookup val ScanKeywords in
  let all_lower_case := string_forall ident_char val in
  all_lower_case && (0 <=? kwnum) && bool_decide (keyword_category kwnum = RESERVED_KEYWORD).

Definition op_char (c : ascii) : bool :=
  string_existsb (Ascii.eqb c) "~!@#^&|`?+-*/%<>=".

(** [Assert(strlen(val) > 0)] is the caller's business. *)
Definition isOp (val : string) : bool := string_forall op_char val.

(** The text [deparseStringLiteral] appends. *)
Fixpoint literal_body (val : string) : string :=
  match val with
  | EmptyString => EmptyString
  | String ch rest =>
      if SQL_STR_DOUBLE ch then String ch (String ch (literal_body rest))
      else String ch (literal_body rest)
  end.

Definition string_literal (val : string) : string :=
  (if has_backslash val then "E" else "") +:+
  String SQUOTE (literal_body val +:+ String SQUOTE EmptyString).

(** ** Reference readers

    What the SQL lexical rules make of a quoted text. *)

(** The rest of a quoted token: [q] doubled stands for [q], a single [q] ends
    the token, which has to be the end of the text. *)
Fixpoint read_quoted (q : ascii) (s : string) : option string :=
  match s with
  | EmptyString => None
  | String c rest =>
      if Ascii.eqb c q then
        match rest with
        | EmptyString => Some EmptyString
        | String c' rest' =>
            if Ascii.eqb c' q then String q <$> read_quoted q rest' else None
        end
      else String c <$> read_quoted q rest
  end.

(** The same inside [E'...'], where a backslash escapes the next character. *)
Definition unescape (c : ascii) : ascii :=
  if Ascii.eqb c "b" then "008"%char else if Ascii.eqb c "f" then "012"%char
  else if Ascii.eqb c "n" then "010"%char else if Ascii.eqb c "r" then "013"%char
  else if Ascii.eqb c "t" then "009"%char else c.

Fixpoint read_escaped (s : string) : option string :=
  match s with
  | EmptyString => None
  | String c rest =>
      if Ascii.eqb c BACKSLASH then
        match rest with
        | EmptyString => None
        | String c' rest' =>
            (* octal, hexadecimal and Unicode escapes are left out *)
            if string_existsb (Ascii.eqb c') "01234567xuU" then None
            else String (unescape c') <$> read_escaped rest'
        end
      else if Ascii.eqb c SQUOTE then
        match rest with
        | EmptyString => Some EmptyString
        | String c' rest' =>
            if Ascii.eqb c' SQUOTE then String SQUOTE <$> read_escaped rest' else None
        end
      else String c <$> read_escaped rest
  end.

Definition read_literal (s : string) : option string :=
  match s with
  | String c (String c' rest) =>
      if Ascii.eqb c "E" && Ascii.eqb c' SQUOTE then read_escaped rest
      else if Ascii.eqb c SQUOTE then read_quoted SQUOTE (String c' rest)
      else None
  | _ => None
  end.

(** What the scanner makes of the characters of an identifier, after the quotes
    are gone or the folding is done: none at all are an error ([zero-length
    delimited identifier]), and [NAMEDATALEN] bytes or more are truncated. *)
Definition identifier (s : string) : option string :=
  if String.eqb s "" then None
  else
    match truncate_identifier (list_ascii_of_string s) (strlen s) true with
    | Ok l => Some (string_of_list_ascii l)
    | _ => None
    end.

(** An identifier: quoted, or a bare word that the scanner downcases and that
    is no keyword, or an unreserved one. *)
Definition bare_word (s : string) : bool :=
  match s with
  | EmptyString => false
  | String c rest =>
      (in_range "a" "z" (ascii_downcase c) || Ascii.eqb c "_") &&
      string_forall (fun c => ident_char (ascii_downcase c)) rest
  end.

Definition read_identifier (s : string) : option string :=
  match s with
  | String c rest =>
      if Ascii.eqb c DQUOTE then
        match read_quoted DQUOTE rest with Some i => identifier i | None => None end
      else if bare_word s &&
        ((keyword_index s =? -1) ||
         bool_decide (keyword_category (keyword_index s) = UNRESERVED_KEYWORD))
      then identifier (downcase s) else None
  | EmptyString => None
  end.

(** ** Lemmas *)

Lemma ident_scan_spec ident safe n :
  ident_scan ident safe n =
  (safe && string_forall ident_char ident,
   (n + (String.length (double_quotes ident) - String.length ident))%nat) /\
  (String.length ident <= String.length (double_quotes ident))%nat.
Proof.
  revert safe n. induction ident as [|c s IH]; intros safe n; cbn.
  { split; [|lia]. by rewrite andb_true_r, Nat.add_0_r. }
  destruct (ident_char c) eqn:Hc.
  - destruct (Ascii.eqb_spec c DQUOTE) as [->|]; [done|].
    destruct (IH safe n) as [-> ?]. cbn. split; [done|lia].
  - destruct (IH false (if Ascii.eqb c DQUOTE then S n else n)) as [-> ?].
    rewrite andb_false_r. destruct (Ascii.eqb c DQUOTE); cbn; split; f_equal; lia.
Qed.

Lemma ident_is_safe_spec ident :
  no_nul ident = true ->
  ident_is_safe ident =
  ident_start ident && string_forall ident_char ident &&
  ((keyword_index ident =? -1) ||
   bool_decide (keyword_category (keyword_index ident) = UNRESERVED_KEYWORD)).
Proof.
  intros Hn. unfold ident_is_safe.
  rewrite (proj1 (ident_scan_spec _ _ _)), ScanKeywordLookup_index by done. cbn [fst quote_all_identifiers].
  destruct (ident_start ident && string_forall ident_char ident); [|done].
  assert (keyword_index ident = -1 \/ 0 <= keyword_index ident) as [->|?].
  { unfold keyword_index. destruct (index_of_range (downcase ident) keyword_names 0); [auto|lia]. }
  { done. }
  rewrite (proj2 (Z.leb_le _ _)), (proj2 (Z.eqb_neq _ _)) by lia.
  by destruct (bool_decide _).
Qed.

Lemma ident_char_downcase c : ident_char c = true -> ascii_downcase c = c.
Proof.
  intros H. apply Ascii.eqb_eq.
  enough (E : implb (ident_char c) (Ascii.eqb (ascii_downcase c) c) = true) by by rewrite H in E.
  ascii_cases (fun c => implb (ident_char c) (Ascii.eqb (ascii_downcase c) c)).
Qed.

Lemma ident_chars_downcase s : string_forall ident_char s = true -> downcase s = s.
Proof.
  induction s as [|c s IH]; [done|]. cbn. intros [Hc Hs]%andb_true_iff.
  unfold downcase in *. by rewrite IH, ident_char_downcase.
Qed.

Lemma safe_bare_word s :
  ident_start s = true -> string_forall ident_char s = true -> bare_word s = true.
Proof.
  destruct s as [|c s]; [done|]. cbn. intros Hc [Hc' Hs]%andb_true_iff.
  rewrite ident_char_downcase by done. rewrite Hc. cbn.
  eapply string_forall_impl, Hs. intros d Hd. by rewrite ident_char_downcase.
Qed.

Lemma read_quoted_double ident :
  read_quoted DQUOTE (double_quotes ident +:+ String DQUOTE EmptyString) = Some ident.
Proof.
  induction ident as [|c s IH]; [done|]. cbn [double_quotes].
  destruct (Ascii.eqb_spec c DQUOTE) as [->|Hne]; rewrite !string_app_cons; cbn -[String.append].
  - by rewrite IH.
  - apply Ascii.eqb_neq in Hne as ->. by rewrite IH.
Qed.

Lemma ident_start_not_dquote c s : ident_start (String c s) = true -> Ascii.eqb c DQUOTE = false.
Proof. destruct (Ascii.eqb_spec c DQUOTE) as [->|]; done. Qed.

Lemma strlen_list s : strlen s = Z.of_nat (List.length (list_ascii_of_string s)).
Proof. induction s as [|c s IH]; [done|]. unfold strlen in *. cbn [String.length list_ascii_of_string List.length]. lia. Qed.

Lemma identifier_short s : 0 < strlen s < NAMEDATALEN -> identifier s = Some s.
Proof.
  intros H. unfold identifier. destruct (String.eqb_spec s "") as [->|]; [by destruct H|].
  rewrite strlen_list in H |- *. rewrite truncate_short by lia. by rewrite string_of_list_ascii_of_string.
Qed.

Lemma identifier_long s : s <> "" ->
  exists s' n, identifier s = Some s' /\ strlen s' < NAMEDATALEN /\
    list_ascii_of_string s' = take n (list_ascii_of_string s).
Proof.
  intros Hs. unfold identifier. apply String.eqb_neq in Hs as ->. rewrite strlen_list.
  destruct (truncate_any (list_ascii_of_string s) true) as (n & -> & Hn).
  eexists _, n. rewrite strlen_list, list_ascii_of_string_of_list_ascii.
  split; [done|]. split; [lia|done].
Qed.

(** *** String constants *)

Lemma read_literal_plain val :
  has_backslash val = false ->
  read_quoted SQUOTE (literal_body val +:+ String SQUOTE EmptyString) = Some val.
Proof.
  induction val as [|c s IH]; [done|]. unfold has_backslash. cbn [string_existsb literal_body].
  intros [Hc Hs]%orb_false_iff. unfold SQL_STR_DOUBLE.
  rewrite (Ascii.eqb_sym c BACKSLASH), Hc, orb_false_r.
  destruct (Ascii.eqb_spec c SQUOTE) as [->|Hne]; rewrite !string_app_cons; cbn -[String.append].
  - by rewrite IH.
  - apply Ascii.eqb_neq in Hne as ->. by rewrite IH.
Qed.

Lemma read_literal_escaped val :
  read_escaped (literal_body val +:+ String SQUOTE EmptyString) = Some val.
Proof.
  induction val as [|c s IH]; [done|]. cbn [literal_body]. unfold SQL_STR_DOUBLE.
  destruct (Ascii.eqb_spec c SQUOTE) as [->|Hq]; cbn [orb].
  { rewrite !string_app_cons; cbn -[String.append]. by rewrite IH. }
  destruct (Ascii.eqb_spec c BACKSLASH) as [->|Hb]; rewrite !string_app_cons; cbn -[String.append].
  - by rewrite IH.
  - apply Ascii.eqb_neq in Hq as ->. apply Ascii.eqb_neq in Hb as ->. by rewrite IH.
Qed.

Lemma read_string_literal val : read_literal (string_literal val) = Some val.
Proof.
  unfold string_literal. destruct (has_backslash val) eqn:H.
  - rewrite string_app_cons, string_app_nil_l. cbn -[String.append]. apply read_literal_escaped.
  - rewrite string_app_nil_l. pose proof (read_literal_plain _ H) as E.
    cbn -[String.append]. destruct (literal_body val); [done|].
    by rewrite string_app_cons in *.
Qed.

(** The text the two loops append. *)
Lemma literal_loop_appends {B} `{HL : StringBufLaws B limit} val b :
  sb_valid b ->
  appends limit b (literal_body val) (strlen (literal_body val)) (deparseStringLiteral_loop val B _ b).
Proof.
  revert b. induction val as [|c s IH]; intros b Hv; [by apply appends_skip|].
  cbn [deparseStringLiteral_loop literal_body].
  replace (if SQL_STR_DOUBLE c then _ else _) with
    ((if SQL_STR_DOUBLE c then String c EmptyString else "") +:+ String c EmptyString +:+ literal_body s)
    by (by destruct (SQL_STR_DOUBLE c)).
  rewrite !strlen_app. apply appends_seq; [|done|unfold strlen; lia|].
  { destruct (SQL_STR_DOUBLE c); [by apply append_char_law|by apply appends_skip]. }
  clear b Hv. intros b Hv. apply appends_seq; [by apply append_char_law|done|unfold strlen; lia|]. auto.
Qed.

Lemma deparseStringLiteral_appends {B} `{HL : StringBufLaws B limit} val b :
  sb_valid b ->
  appends limit b (string_literal val) (strlen (string_literal val)) (deparseStringLiteral val B _ b).
Proof.
  intros Hv. unfold deparseStringLiteral, string_literal.
  change (String SQUOTE ?t) with (String SQUOTE EmptyString +:+ t). rewrite !strlen_app.
  apply appends_seq; [|done|unfold strlen; lia|].
  { destruct (has_backslash val); [by apply append_char_law|by apply appends_skip]. }
  clear b Hv. intros b Hv. apply appends_seq; [by apply append_char_law|done|unfold strlen; lia|].
  clear b Hv. intros b Hv. apply appends_seq; [by apply literal_loop_appends|done|unfold strlen; lia|].
  intros. by apply append_char_law.
Qed.

(** ** Properties *)

(** C22. Quoting an identifier and reading it back as the scanner does gives the
    identifier, if it has 1 to 63 bytes: what is left bare is a lower-case word
    that is no keyword, or an unreserved one, and everything else comes back out
    of the double quotes unchanged.  A longer identifier comes back truncated,
    and an empty one not at all: the scanner raises an error. *)
Theorem quote_identifier_roundtrip (ident : string) (Hnul : no_nul ident = true) :
  read_identifier (quote_identifier ident) = identifier ident /\
  (0 < strlen ident < NAMEDATALEN -> identifier ident = Some ident) /\
  (ident = "" -> identifier ident = None) /\
  (ident <> "" -> exists s n, identifier ident = Some s /\ strlen s < NAMEDATALEN /\
     list_ascii_of_string s = take n (list_ascii_of_string ident)).
Proof.
  split; [|split; [apply identifier_short|split; [by intros ->|apply identifier_long]]].
  unfold quote_identifier. rewrite ident_is_safe_spec by done.
  destruct (_ && _) eqn:H.
  - apply andb_true_iff in H as [[Hs Ha]%andb_true_iff Hk].
    destruct ident as [|c s]; [done|]. unfold read_identifier.
    by rewrite (ident_start_not_dquote _ _ Hs), safe_bare_word, Hk, ident_chars_downcase.
  - cbn -[String.append identifier]. by rewrite read_quoted_double.
Qed.

Lemma quote_identifier_roundtrip_witness :
  no_nul "Group By" = true /\
  read_identifier (quote_identifier "Group By") = Some "Group By".
Proof.
  split; [reflexivity|].
  destruct (quote_identifier_roundtrip "Group By") as (E & H & _); [reflexivity|].
  etransitivity; [exact E|]. apply H. unfold NAMEDATALEN, strlen. cbn. lia.
Defined.

(** The block [quote_identifier] allocates holds the quoted identifier and
    its final zero byte, and not a byte more. *)
Theorem quote_identifier_alloc_exact (ident : string) (Hq : ident_is_safe ident = false) :
  quote_identifier_alloc ident = S (String.length (quote_identifier ident)).
Proof.
  unfold quote_identifier_alloc, quote_identifier. rewrite Hq.
  destruct (ident_scan_spec ident (ident_start ident) 0) as [-> ?].
  cbn [snd String.length]. rewrite string_length_app. cbn. lia.
Qed.

Lemma quote_identifier_alloc_exact_witness :
  ident_is_safe "select" = false /\
  quote_identifier_alloc "select" = S (String.length (quote_identifier "select")).
Proof.
  split; [vm_compute; reflexivity|].
  apply (quote_identifier_alloc_exact "select"). vm_compute. reflexivity.
Defined.

(** C23. [deparseStringLiteral], on any buffer that keeps the laws, appends one
    text, failing only if the buffer cannot hold it, and reading that text as a
    SQL string constant ([E'...'] when it has a backslash) gives the value
    back. *)
Theorem deparseStringLiteral_roundtrip (val : string) :
  exists t, read_literal t = Some val /\
    forall (B : Type) (HS : StringBuf B) (limit : option Z) (HL : StringBufLaws B limit) (b : B),
      sb_valid b -> appends limit b t (strlen t) (deparseStringLiteral val B HS b).
Proof.
  exists (string_literal val). split; [apply read_string_literal|].
  intros. by apply deparseStringLiteral_appends.
Qed.

Lemma deparseStringLiteral_roundtrip_witness :
  exists t, read_literal t = Some "it's" /\ text_of (deparseStringLiteral "it's") = Ok t.
Proof.
  destruct (deparseStringLiteral_roundtrip "it's") as (t & Ht & H).
  exists t. split; [exact Ht|].
  specialize (H string string_buf None string_buf_laws "" I). unfold text_of.
  destruct (deparseStringLiteral "it's" string string_buf "") as [s| |]; [|easy|easy].
  destruct H as [_ H]. cbn in H. subst s. reflexivity.
Defined.
