(* ===== verification/Enums.v ===== *)
(** * The enumerations of parse trees

    One inductive type per C enum of [src/postgres/include/nodes/] that a struct
    of [Nodes] uses. *)
From S2P Require Import Prelude.

Inductive A_Expr_Kind : Type :=
| AEXPR_OP | AEXPR_OP_ANY | AEXPR_OP_ALL | AEXPR_DISTINCT
| AEXPR_NOT_DISTINCT | AEXPR_NULLIF | AEXPR_OF | AEXPR_IN | AEXPR_LIKE
| AEXPR_ILIKE | AEXPR_SIMILAR | AEXPR_BETWEEN | AEXPR_NOT_BETWEEN
| AEXPR_BETWEEN_SYM | AEXPR_NOT_BETWEEN_SYM | AEXPR_PAREN.
#[export] Instance A_Expr_Kind_eq_dec : EqDecision A_Expr_Kind.
Proof. solve_decision. Defined.

Inductive RoleSpecType : Type :=
| ROLESPEC_CSTRING | ROLESPEC_CURRENT_USER | ROLESPEC_SESSION_USER
| ROLESPEC_PUBLIC.
#[export] Instance RoleSpecType_eq_dec : EqDecision RoleSpecType.
Proof. solve_decision. Defined.

Inductive BoolExprType : Type :=
| AND_EXPR | OR_EXPR | NOT_EXPR.
#[export] Instance BoolExprType_eq_dec : EqDecision BoolExprType.
Proof. solve_decision. Defined.

Inductive SubLinkType : Type :=
| EXISTS_SUBLINK | ALL_SUBLINK | ANY_SUBLINK | ROWCOMPARE_SUBLINK
| EXPR_SUBLINK | MULTIEXPR_SUBLINK | ARRAY_SUBLINK | CTE_SUBLINK.
#[export] Instance SubLinkType_eq_dec : EqDecision SubLinkType.
Proof. solve_decision. Defined.

Inductive CoercionForm : Type :=
| COERCE_EXPLICIT_CALL | COERCE_EXPLICIT_CAST | COERCE_IMPLICIT_CAST.
#[export] Instance CoercionForm_eq_dec : EqDecision CoercionForm.
Proof. solve_decision. Defined.

Inductive MinMaxOp : Type :=
| IS_GREATEST | IS_LEAST.
#[export] Instance MinMaxOp_eq_dec : EqDecision MinMaxOp.
Proof. solve_decision. Defined.

Inductive SQLValueFunctionOp : Type :=
| SVFOP_CURRENT_DATE | SVFOP_CURRENT_TIME | SVFOP_CURRENT_TIME_N
| SVFOP_CURRENT_TIMESTAMP | SVFOP_CURRENT_TIMESTAMP_N | SVFOP_LOCALTIME
| SVFOP_LOCALTIME_N | SVFOP_LOCALTIMESTAMP | SVFOP_LOCALTIMESTAMP_N
| SVFOP_CURRENT_ROLE | SVFOP_CURRENT_USER | SVFOP_USER | SVFOP_SESSION_USER
| SVFOP_CURRENT_CATALOG | SVFOP_CURRENT_SCHEMA.
#[export] Instance SQLValueFunctionOp_eq_dec : EqDecision SQLValueFunctionOp.
Proof. solve_decision. Defined.

Inductive XmlExprOp : Type :=
| IS_XMLCONCAT | IS_XMLELEMENT | IS_XMLFOREST | IS_XMLPARSE | IS_XMLPI
| IS_XMLROOT | IS_XMLSERIALIZE | IS_DOCUMENT.
#[export] Instance XmlExprOp_eq_dec : EqDecision XmlExprOp.
Proof. solve_decision. Defined.

Inductive XmlOptionType : Type :=
| XMLOPTION_DOCUMENT | XMLOPTION_CONTENT.
#[export] Instance XmlOptionType_eq_dec : EqDecision XmlOptionType.
Proof. solve_decision. Defined.

Inductive NullTestType : Type :=
| IS_NULL | IS_NOT_NULL.
#[export] Instance NullTestType_eq_dec : EqDecision NullTestType.
Proof. solve_decision. Defined.

Inductive BoolTestType : Type :=
| IS_TRUE | IS_NOT_TRUE | IS_FALSE | IS_NOT_FALSE | IS_UNKNOWN
| IS_NOT_UNKNOWN.
#[export] Instance BoolTestType_eq_dec : EqDecision BoolTestType.
Proof. solve_decision. Defined.

Inductive SortByDir : Type :=
| SORTBY_DEFAULT | SORTBY_ASC | SORTBY_DESC | SORTBY_USING.
#[export] Instance SortByDir_eq_dec : EqDecision SortByDir.
Proof. solve_decision. Defined.

Inductive SortByNulls : Type :=
| SORTBY_NULLS_DEFAULT | SORTBY_NULLS_FIRST | SORTBY_NULLS_LAST.
#[export] Instance SortByNulls_eq_dec : EqDecision SortByNulls.
Proof. solve_decision. Defined.

Inductive DefElemAction : Type :=
| DEFELEM_UNSPEC | DEFELEM_SET | DEFELEM_ADD | DEFELEM_DROP.
#[export] Instance DefElemAction_eq_dec : EqDecision DefElemAction.
Proof. solve_decision. Defined.

Inductive ConstrType : Type :=
| CONSTR_NULL | CONSTR_NOTNULL | CONSTR_DEFAULT | CONSTR_IDENTITY
| CONSTR_GENERATED | CONSTR_CHECK | CONSTR_PRIMARY | CONSTR_UNIQUE
| CONSTR_EXCLUSION | CONSTR_FOREIGN | CONSTR_ATTR_DEFERRABLE
| CONSTR_ATTR_NOT_DEFERRABLE | CONSTR_ATTR_DEFERRED | CONSTR_ATTR_IMMEDIATE.
#[export] Instance ConstrType_eq_dec : EqDecision ConstrType.
Proof. solve_decision. Defined.

Inductive JoinType : Type :=
| JOIN_INNER | JOIN_LEFT | JOIN_FULL | JOIN_RIGHT | JOIN_SEMI | JOIN_ANTI
| JOIN_UNIQUE_OUTER | JOIN_UNIQUE_INNER.
#[export] Instance JoinType_eq_dec : EqDecision JoinType.
Proof. solve_decision. Defined.

Inductive CTEMaterialize : Type :=
| CTEMaterializeDefault | CTEMaterializeAlways | CTEMaterializeNever.
#[export] Instance CTEMaterialize_eq_dec : EqDecision CTEMaterialize.
Proof. solve_decision. Defined.

Inductive OnConflictAction : Type :=
| ONCONFLICT_NONE | ONCONFLICT_NOTHING | ONCONFLICT_UPDATE.
#[export] Instance OnConflictAction_eq_dec : EqDecision OnConflictAction.
Proof. solve_decision. Defined.

Inductive LockClauseStrength : Type :=
| LCS_NONE | LCS_FORKEYSHARE | LCS_FORSHARE | LCS_FORNOKEYUPDATE
| LCS_FORUPDATE.
#[export] Instance LockClauseStrength_eq_dec : EqDecision LockClauseStrength.
Proof. solve_decision. Defined.

Inductive LockWaitPolicy : Type :=
| LockWaitBlock | LockWaitSkip | LockWaitError.
#[export] Instance LockWaitPolicy_eq_dec : EqDecision LockWaitPolicy.
Proof. solve_decision. Defined.

Inductive GroupingSetKind : Type :=
| GROUPING_SET_EMPTY | GROUPING_SET_SIMPLE | GROUPING_SET_ROLLUP
| GROUPING_SET_CUBE | GROUPING_SET_SETS.
#[export] Instance GroupingSetKind_eq_dec : EqDecision GroupingSetKind.
Proof. solve_decision. Defined.

Inductive OnCommitAction : Type :=
| ONCOMMIT_NOOP | ONCOMMIT_PRESERVE_ROWS | ONCOMMIT_DELETE_ROWS
| ONCOMMIT_DROP.
#[export] Instance OnCommitAction_eq_dec : EqDecision OnCommitAction.
Proof. solve_decision. Defined.

Inductive LimitOption : Type :=
| LIMIT_OPTION_DEFAULT | LIMIT_OPTION_COUNT | LIMIT_OPTION_WITH_TIES.
#[export] Instance LimitOption_eq_dec : EqDecision LimitOption.
Proof. solve_decision. Defined.

Inductive SetOperation : Type :=
| SETOP_NONE | SETOP_UNION | SETOP_INTERSECT | SETOP_EXCEPT.
#[export] Instance SetOperation_eq_dec : EqDecision SetOperation.
Proof. solve_decision. Defined.

Inductive OverridingKind : Type :=
| OVERRIDING_NOT_SET | OVERRIDING_USER_VALUE | OVERRIDING_SYSTEM_VALUE.
#[export] Instance OverridingKind_eq_dec : EqDecision OverridingKind.
Proof. solve_decision. Defined.

Inductive DropBehavior : Type :=
| DROP_RESTRICT | DROP_CASCADE.
#[export] Instance DropBehavior_eq_dec : EqDecision DropBehavior.
Proof. solve_decision. Defined.

Inductive ObjectType : Type :=
| OBJECT_ACCESS_METHOD | OBJECT_AGGREGATE | OBJECT_AMOP | OBJECT_AMPROC
| OBJECT_ATTRIBUTE | OBJECT_CAST | OBJECT_COLUMN | OBJECT_COLLATION
| OBJECT_CONVERSION | OBJECT_DATABASE | OBJECT_DEFAULT | OBJECT_DEFACL
| OBJECT_DOMAIN | OBJECT_DOMCONSTRAINT | OBJECT_EVENT_TRIGGER
| OBJECT_EXTENSION | OBJECT_FDW | OBJECT_FOREIGN_SERVER
| OBJECT_FOREIGN_TABLE | OBJECT_FUNCTION | OBJECT_INDEX | OBJECT_LANGUAGE
| OBJECT_LARGEOBJECT | OBJECT_MATVIEW | OBJECT_OPCLASS | OBJECT_OPERATOR
| OBJECT_OPFAMILY | OBJECT_POLICY | OBJECT_PROCEDURE | OBJECT_PUBLICATION
| OBJECT_PUBLICATION_REL | OBJECT_ROLE | OBJECT_ROUTINE | OBJECT_RULE
| OBJECT_SCHEMA | OBJECT_SEQUENCE | OBJECT_SUBSCRIPTION
| OBJECT_STATISTIC_EXT | OBJECT_TABCONSTRAINT | OBJECT_TABLE
| OBJECT_TABLESPACE | OBJECT_TRANSFORM | OBJECT_TRIGGER
| OBJECT_TSCONFIGURATION | OBJECT_TSDICTIONARY | OBJECT_TSPARSER
| OBJECT_TSTEMPLATE | OBJECT_TYPE | OBJECT_USER_MAPPING | OBJECT_VIEW.
#[export] Instance ObjectType_eq_dec : EqDecision ObjectType.
Proof. solve_decision. Defined.

Inductive AlterSubscriptionType : Type :=
| ALTER_SUBSCRIPTION_OPTIONS | ALTER_SUBSCRIPTION_CONNECTION
| ALTER_SUBSCRIPTION_PUBLICATION | ALTER_SUBSCRIPTION_REFRESH
| ALTER_SUBSCRIPTION_ENABLED.
#[export] Instance AlterSubscriptionType_eq_dec : EqDecision AlterSubscriptionType.
Proof. solve_decision. Defined.

Inductive AlterTSConfigType : Type :=
| ALTER_TSCONFIG_ADD_MAPPING | ALTER_TSCONFIG_ALTER_MAPPING_FOR_TOKEN
| ALTER_TSCONFIG_REPLACE_DICT | ALTER_TSCONFIG_REPLACE_DICT_FOR_TOKEN
| ALTER_TSCONFIG_DROP_MAPPING.
#[export] Instance AlterTSConfigType_eq_dec : EqDecision AlterTSConfigType.
Proof. solve_decision. Defined.

Inductive AlterTableType : Type :=
| AT_AddColumn | AT_AddColumnRecurse | AT_AddColumnToView | AT_ColumnDefault
| AT_CookedColumnDefault | AT_DropNotNull | AT_SetNotNull
| AT_DropExpression | AT_CheckNotNull | AT_SetStatistics | AT_SetOptions
| AT_ResetOptions | AT_SetStorage | AT_DropColumn | AT_DropColumnRecurse
| AT_AddIndex | AT_ReAddIndex | AT_AddConstraint | AT_AddConstraintRecurse
| AT_ReAddConstraint | AT_ReAddDomainConstraint | AT_AlterConstraint
| AT_ValidateConstraint | AT_ValidateConstraintRecurse
| AT_AddIndexConstraint | AT_DropConstraint | AT_DropConstraintRecurse
| AT_ReAddComment | AT_AlterColumnType | AT_AlterColumnGenericOptions
| AT_ChangeOwner | AT_ClusterOn | AT_DropCluster | AT_SetLogged
| AT_SetUnLogged | AT_DropOids | AT_SetTableSpace | AT_SetRelOptions
| AT_ResetRelOptions | AT_ReplaceRelOptions | AT_EnableTrig
| AT_EnableAlwaysTrig | AT_EnableReplicaTrig | AT_DisableTrig
| AT_EnableTrigAll | AT_DisableTrigAll | AT_EnableTrigUser
| AT_DisableTrigUser | AT_EnableRule | AT_EnableAlwaysRule
| AT_EnableReplicaRule | AT_DisableRule | AT_AddInherit | AT_DropInherit
| AT_AddOf | AT_DropOf | AT_ReplicaIdentity | AT_EnableRowSecurity
| AT_DisableRowSecurity | AT_ForceRowSecurity | AT_NoForceRowSecurity
| AT_GenericOptions | AT_AttachPartition | AT_DetachPartition
| AT_AddIdentity | AT_SetIdentity | AT_DropIdentity.
#[export] Instance AlterTableType_eq_dec : EqDecision AlterTableType.
Proof. solve_decision. Defined.

Inductive CoercionContext : Type :=
| COERCION_IMPLICIT | COERCION_ASSIGNMENT | COERCION_EXPLICIT.
#[export] Instance CoercionContext_eq_dec : EqDecision CoercionContext.
Proof. solve_decision. Defined.

Inductive RoleStmtType : Type :=
| ROLESTMT_ROLE | ROLESTMT_USER | ROLESTMT_GROUP.
#[export] Instance RoleStmtType_eq_dec : EqDecision RoleStmtType.
Proof. solve_decision. Defined.

Inductive DiscardMode : Type :=
| DISCARD_ALL | DISCARD_PLANS | DISCARD_SEQUENCES | DISCARD_TEMP.
#[export] Instance DiscardMode_eq_dec : EqDecision DiscardMode.
Proof. solve_decision. Defined.

Inductive FetchDirection : Type :=
| FETCH_FORWARD | FETCH_BACKWARD | FETCH_ABSOLUTE | FETCH_RELATIVE.
#[export] Instance FetchDirection_eq_dec : EqDecision FetchDirection.
Proof. solve_decision. Defined.

Inductive FunctionParameterMode : Type :=
| FUNC_PARAM_IN | FUNC_PARAM_OUT | FUNC_PARAM_INOUT | FUNC_PARAM_VARIADIC
| FUNC_PARAM_TABLE.
#[export] Instance FunctionParameterMode_eq_dec : EqDecision FunctionParameterMode.
Proof. solve_decision. Defined.

Inductive GrantTargetType : Type :=
| ACL_TARGET_OBJECT | ACL_TARGET_ALL_IN_SCHEMA | ACL_TARGET_DEFAULTS.
#[export] Instance GrantTargetType_eq_dec : EqDecision GrantTargetType.
Proof. solve_decision. Defined.

Inductive ImportForeignSchemaType : Type :=
| FDW_IMPORT_SCHEMA_ALL | FDW_IMPORT_SCHEMA_LIMIT_TO
| FDW_IMPORT_SCHEMA_EXCEPT.
#[export] Instance ImportForeignSchemaType_eq_dec : EqDecision ImportForeignSchemaType.
Proof. solve_decision. Defined.

Inductive ReindexObjectType : Type :=
| REINDEX_OBJECT_INDEX | REINDEX_OBJECT_TABLE | REINDEX_OBJECT_SCHEMA
| REINDEX_OBJECT_SYSTEM | REINDEX_OBJECT_DATABASE.
#[export] Instance ReindexObjectType_eq_dec : EqDecision ReindexObjectType.
Proof. solve_decision. Defined.

Inductive CmdType : Type :=
| CMD_UNKNOWN | CMD_SELECT | CMD_UPDATE | CMD_INSERT | CMD_DELETE
| CMD_UTILITY | CMD_NOTHING.
#[export] Instance CmdType_eq_dec : EqDecision CmdType.
Proof. solve_decision. Defined.

Inductive TransactionStmtKind : Type :=
| TRANS_STMT_BEGIN | TRANS_STMT_START | TRANS_STMT_COMMIT
| TRANS_STMT_ROLLBACK | TRANS_STMT_SAVEPOINT | TRANS_STMT_RELEASE
| TRANS_STMT_ROLLBACK_TO | TRANS_STMT_PREPARE | TRANS_STMT_COMMIT_PREPARED
| TRANS_STMT_ROLLBACK_PREPARED.
#[export] Instance TransactionStmtKind_eq_dec : EqDecision TransactionStmtKind.
Proof. solve_decision. Defined.

Inductive VariableSetKind : Type :=
| VAR_SET_VALUE | VAR_SET_DEFAULT | VAR_SET_CURRENT | VAR_SET_MULTI
| VAR_RESET | VAR_RESET_ALL.
#[export] Instance VariableSetKind_eq_dec : EqDecision VariableSetKind.
Proof. solve_decision. Defined.

Inductive ViewCheckOption : Type :=
| NO_CHECK_OPTION | LOCAL_CHECK_OPTION | CASCADED_CHECK_OPTION.
#[export] Instance ViewCheckOption_eq_dec : EqDecision ViewCheckOption.
Proof. solve_decision. Defined.
