(* ===== verification/Nodes.v ===== *)
(** * Parse trees

    The node types of [src/postgres/include/nodes/] that occur in raw parse trees:
    one module per C struct, with a record [t] of all its fields, and [Node], the
    union the C code reads through the tag of a [Node *].  The types of the
    enumerations are in [Enums].

    A [List *] is a [list] ([NIL] is the empty list), a pointer to a struct or a
    [Node *] an [option], a [char *] an [option string], and the [NodeTag] or
    [Expr] at the head of a struct is the constructor of [Node].  The
    [SelectStmt *] operands of a set operation and the [Value *] of
    [AlterObjectDependsStmt] are stored as the [Node *] they are cast from.  A cell of a list of nodes that is a null pointer is the
    empty list, [N_List []].  Any other kind of node is an [N_Other] with its
    tag. *)
From S2P Require Import Prelude Buffer Enums.

Local Set Warnings "-register-all".

(** ** Values *)

(** [Value]: the [NodeTag] of the struct says which member of [val] is in use. *)
Inductive Value : Type :=
| Integer (ival : Z)
| Float (str : string)
| String_ (str : string)
| BitString (str : string)
| Null.

#[export] Instance Value_eq_dec : EqDecision Value.
Proof. solve_decision. Defined.

(** ** Structs *)


Module Alias.
Record t {Node : Type} : Type := mk {
  aliasname : option string;
  colnames : list Node
}.
Arguments t : clear implicits.
Arguments mk {Node}.
Scheme All for t.
End Alias.

Module RangeVar.
Record t {Node : Type} : Type := mk {
  catalogname : option string;
  schemaname : option string;
  relname : option string;
  inh : bool;
  relpersistence : ascii;
  alias : option (Alias.t Node);
  location : Z
}.
Arguments t : clear implicits.
Arguments mk {Node}.
Scheme All for t.
End RangeVar.

Module TypeName.
Record t {Node : Type} : Type := mk {
  names : list Node;
  typeOid : Z;
  setof : bool;
  pct_type : bool;
  typmods : list Node;
  typemod : Z;
  arrayBounds : list Node;
  location : Z
}.
Arguments t : clear implicits.
Arguments mk {Node}.
Scheme All for t.
End TypeName.

Module ColumnRef.
Record t {Node : Type} : Type := mk {
  fields : list Node;
  location : Z
}.
Arguments t : clear implicits.
Arguments mk {Node}.
Scheme All for t.
End ColumnRef.

Module ParamRef.
Record t {Node : Type} : Type := mk {
  number : Z;
  location : Z
}.
Arguments t : clear implicits.
Arguments mk {Node}.
Scheme All for t.
End ParamRef.

Module A_Expr.
Record t {Node : Type} : Type := mk {
  kind : A_Expr_Kind;
  name : list Node;
  lexpr : option Node;
  rexpr : option Node;
  location : Z
}.
Arguments t : clear implicits.
Arguments mk {Node}.
Scheme All for t.
End A_Expr.

Module A_Const.
Record t {Node : Type} : Type := mk {
  val : Value;
  location : Z
}.
Arguments t : clear implicits.
Arguments mk {Node}.
Scheme All for t.
End A_Const.

Module TypeCast.
Record t {Node : Type} : Type := mk {
  arg : option Node;
  typeName : option (TypeName.t Node);
  location : Z
}.
Arguments t : clear implicits.
Arguments mk {Node}.
Scheme All for t.
End TypeCast.

Module CollateClause.
Record t {Node : Type} : Type := mk {
  arg : option Node;
  collname : list Node;
  location : Z
}.
Arguments t : clear implicits.
Arguments mk {Node}.
Scheme All for t.
End CollateClause.

Module RoleSpec.
Record t {Node : Type} : Type := mk {
  roletype : RoleSpecType;
  rolename : option string;
  location : Z
}.
Arguments t : clear implicits.
Arguments mk {Node}.
Scheme All for t.
End RoleSpec.

Module WindowDef.
Record t {Node : Type} : Type := mk {
  name : option string;
  refname : option string;
  partitionClause : list Node;
  orderClause : list Node;
  frameOptions : Z;
  startOffset : option Node;
  endOffset : option Node;
  location : Z
}.
Arguments t : clear implicits.
Arguments mk {Node}.
Scheme All for t.
End WindowDef.

Module SortBy.
Record t {Node : Type} : Type := mk {
  node : option Node;
  sortby_dir : SortByDir;
  sortby_nulls : SortByNulls;
  useOp : list Node;
  location : Z
}.
Arguments t : clear implicits.
Arguments mk {Node}.
Scheme All for t.
End SortBy.

Module FuncCall.
Record t {Node : Type} : Type := mk {
  funcname : list Node;
  args : list Node;
  agg_order : list Node;
  agg_filter : option Node;
  agg_within_group : bool;
  agg_star : bool;
  agg_distinct : bool;
  func_variadic : bool;
  over : option (WindowDef.t Node);
  location : Z
}.
Arguments t : clear implicits.
Arguments mk {Node}.
Scheme All for t.
End FuncCall.

Module A_Star.
Record t {Node : Type} : Type := mk { }.
Arguments t : clear implicits.
Arguments mk {Node}.
Scheme All for t.
End A_Star.

Module A_Indices.
Record t {Node : Type} : Type := mk {
  is_slice : bool;
  lidx : option Node;
  uidx : option Node
}.
Arguments t : clear implicits.
Arguments mk {Node}.
Scheme All for t.
End A_Indices.

Module A_Indirection.
Record t {Node : Type} : Type := mk {
  arg : option Node;
  indirection : list Node
}.
Arguments t : clear implicits.
Arguments mk {Node}.
Scheme All for t.
End A_Indirection.

Module A_ArrayExpr.
Record t {Node : Type} : Type := mk {
  elements : list Node;
  location : Z
}.
Arguments t : clear implicits.
Arguments mk {Node}.
Scheme All for t.
End A_ArrayExpr.

Module ResTarget.
Record t {Node : Type} : Type := mk {
  name : option string;
  indirection : list Node;
  val : option Node;
  location : Z
}.
Arguments t : clear implicits.
Arguments mk {Node}.
Scheme All for t.
End ResTarget.

Module MultiAssignRef.
Record t {Node : Type} : Type := mk {
  source : option Node;
  colno : Z;
  ncolumns : Z
}.
Arguments t : clear implicits.
Arguments mk {Node}.
Scheme All for t.
End MultiAssignRef.

Module NamedArgExpr.
Record t {Node : Type} : Type := mk {
  arg : option Node;
  name : option string;
  argnumber : Z;
  location : Z
}.
Arguments t : clear implicits.
Arguments mk {Node}.
Scheme All for t.
End NamedArgExpr.

Module BoolExpr.
Record t {Node : Type} : Type := mk {
  boolop : BoolExprType;
  args : list Node;
  location : Z
}.
Arguments t : clear implicits.
Arguments mk {Node}.
Scheme All for t.
End BoolExpr.

Module SubLink.
Record t {Node : Type} : Type := mk {
  subLinkType : SubLinkType;
  subLinkId : Z;
  testexpr : option Node;
  operName : list Node;
  subselect : option Node;
  location : Z
}.
Arguments t : clear implicits.
Arguments mk {Node}.
Scheme All for t.
End SubLink.

Module CaseWhen.
Record t {Node : Type} : Type := mk {
  expr : option Node;
  result : option Node;
  location : Z
}.
Arguments t : clear implicits.
Arguments mk {Node}.
Scheme All for t.
End CaseWhen.

Module CaseExpr.
Record t {Node : Type} : Type := mk {
  casetype : Z;
  casecollid : Z;
  arg : option Node;
  args : list Node;
  defresult : option Node;
  location : Z
}.
Arguments t : clear implicits.
Arguments mk {Node}.
Scheme All for t.
End CaseExpr.

Module RowExpr.
Record t {Node : Type} : Type := mk {
  args : list Node;
  row_typeid : Z;
  row_format : CoercionForm;
  colnames : list Node;
  location : Z
}.
Arguments t : clear implicits.
Arguments mk {Node}.
Scheme All for t.
End RowExpr.

Module CoalesceExpr.
Record t {Node : Type} : Type := mk {
  coalescetype : Z;
  coalescecollid : Z;
  args : list Node;
  location : Z
}.
Arguments t : clear implicits.
Arguments mk {Node}.
Scheme All for t.
End CoalesceExpr.

Module MinMaxExpr.
Record t {Node : Type} : Type := mk {
  minmaxtype : Z;
  minmaxcollid : Z;
  inputcollid : Z;
  op : MinMaxOp;
  args : list Node;
  location : Z
}.
Arguments t : clear implicits.
Arguments mk {Node}.
Scheme All for t.
End MinMaxExpr.

Module SQLValueFunction.
Record t {Node : Type} : Type := mk {
  op : SQLValueFunctionOp;
  type_ : Z;
  typmod : Z;
  location : Z
}.
Arguments t : clear implicits.
Arguments mk {Node}.
Scheme All for t.
End SQLValueFunction.

Module XmlExpr.
Record t {Node : Type} : Type := mk {
  op : XmlExprOp;
  name : option string;
  named_args : list Node;
  arg_names : list Node;
  args : list Node;
  xmloption : XmlOptionType;
  type_ : Z;
  typmod : Z;
  location : Z
}.
Arguments t : clear implicits.
Arguments mk {Node}.
Scheme All for t.
End XmlExpr.

Module XmlSerialize.
Record t {Node : Type} : Type := mk {
  xmloption : XmlOptionType;
  expr : option Node;
  typeName : option (TypeName.t Node);
  location : Z
}.
Arguments t : clear implicits.
Arguments mk {Node}.
Scheme All for t.
End XmlSerialize.

Module NullTest.
Record t {Node : Type} : Type := mk {
  arg : option Node;
  nulltesttype : NullTestType;
  argisrow : bool;
  location : Z
}.
Arguments t : clear implicits.
Arguments mk {Node}.
Scheme All for t.
End NullTest.

Module BooleanTest.
Record t {Node : Type} : Type := mk {
  arg : option Node;
  booltesttype : BoolTestType;
  location : Z
}.
Arguments t : clear implicits.
Arguments mk {Node}.
Scheme All for t.
End BooleanTest.

Module SetToDefault.
Record t {Node : Type} : Type := mk {
  typeId : Z;
  typeMod : Z;
  collation : Z;
  location : Z
}.
Arguments t : clear implicits.
Arguments mk {Node}.
Scheme All for t.
End SetToDefault.

Module CurrentOfExpr.
Record t {Node : Type} : Type := mk {
  cvarno : Z;
  cursor_name : option string;
  cursor_param : Z
}.
Arguments t : clear implicits.
Arguments mk {Node}.
Scheme All for t.
End CurrentOfExpr.

Module GroupingFunc.
Record t {Node : Type} : Type := mk {
  args : list Node;
  refs : list Z;
  cols : list Z;
  agglevelsup : Z;
  location : Z
}.
Arguments t : clear implicits.
Arguments mk {Node}.
Scheme All for t.
End GroupingFunc.

Module DefElem.
Record t {Node : Type} : Type := mk {
  defnamespace : option string;
  defname : option string;
  arg : option Node;
  defaction : DefElemAction;
  location : Z
}.
Arguments t : clear implicits.
Arguments mk {Node}.
Scheme All for t.
End DefElem.

Module IndexElem.
Record t {Node : Type} : Type := mk {
  name : option string;
  expr : option Node;
  indexcolname : option string;
  collation : list Node;
  opclass : list Node;
  opclassopts : list Node;
  ordering : SortByDir;
  nulls_ordering : SortByNulls
}.
Arguments t : clear implicits.
Arguments mk {Node}.
Scheme All for t.
End IndexElem.

Module Constraint.
Record t {Node : Type} : Type := mk {
  contype : ConstrType;
  conname : option string;
  deferrable : bool;
  initdeferred : bool;
  location : Z;
  is_no_inherit : bool;
  raw_expr : option Node;
  cooked_expr : option string;
  generated_when : ascii;
  keys : list Node;
  including : list Node;
  exclusions : list Node;
  options : list Node;
  indexname : option string;
  indexspace : option string;
  reset_default_tblspc : bool;
  access_method : option string;
  where_clause : option Node;
  pktable : option (RangeVar.t Node);
  fk_attrs : list Node;
  pk_attrs : list Node;
  fk_matchtype : ascii;
  fk_upd_action : ascii;
  fk_del_action : ascii;
  old_conpfeqop : list Node;
  old_pktable_oid : Z;
  skip_validation : bool;
  initially_valid : bool
}.
Arguments t : clear implicits.
Arguments mk {Node}.
Scheme All for t.
End Constraint.

Module ColumnDef.
Record t {Node : Type} : Type := mk {
  colname : option string;
  typeName : option (TypeName.t Node);
  inhcount : Z;
  is_local : bool;
  is_not_null : bool;
  is_from_type : bool;
  storage : ascii;
  raw_default : option Node;
  cooked_default : option Node;
  identity : ascii;
  identitySequence : option (RangeVar.t Node);
  generated : ascii;
  collClause : option (CollateClause.t Node);
  collOid : Z;
  constraints : list Node;
  fdwoptions : list Node;
  location : Z
}.
Arguments t : clear implicits.
Arguments mk {Node}.
Scheme All for t.
End ColumnDef.

Module JoinExpr.
Record t {Node : Type} : Type := mk {
  jointype : JoinType;
  isNatural : bool;
  larg : option Node;
  rarg : option Node;
  usingClause : list Node;
  quals : option Node;
  alias : option (Alias.t Node);
  rtindex : Z
}.
Arguments t : clear implicits.
Arguments mk {Node}.
Scheme All for t.
End JoinExpr.

Module RangeSubselect.
Record t {Node : Type} : Type := mk {
  lateral : bool;
  subquery : option Node;
  alias : option (Alias.t Node)
}.
Arguments t : clear implicits.
Arguments mk {Node}.
Scheme All for t.
End RangeSubselect.

Module RangeFunction.
Record t {Node : Type} : Type := mk {
  lateral : bool;
  ordinality : bool;
  is_rowsfrom : bool;
  functions : list Node;
  alias : option (Alias.t Node);
  coldeflist : list Node
}.
Arguments t : clear implicits.
Arguments mk {Node}.
Scheme All for t.
End RangeFunction.

Module RangeTableFuncCol.
Record t {Node : Type} : Type := mk {
  colname : option string;
  typeName : option (TypeName.t Node);
  for_ordinality : bool;
  is_not_null : bool;
  colexpr : option Node;
  coldefexpr : option Node;
  location : Z
}.
Arguments t : clear implicits.
Arguments mk {Node}.
Scheme All for t.
End RangeTableFuncCol.

Module RangeTableFunc.
Record t {Node : Type} : Type := mk {
  lateral : bool;
  docexpr : option Node;
  rowexpr : option Node;
  namespaces : list Node;
  columns : list Node;
  alias : option (Alias.t Node);
  location : Z
}.
Arguments t : clear implicits.
Arguments mk {Node}.
Scheme All for t.
End RangeTableFunc.

Module RangeTableSample.
Record t {Node : Type} : Type := mk {
  relation : option Node;
  method : list Node;
  args : list Node;
  repeatable : option Node;
  location : Z
}.
Arguments t : clear implicits.
Arguments mk {Node}.
Scheme All for t.
End RangeTableSample.

Module CommonTableExpr.
Record t {Node : Type} : Type := mk {
  ctename : option string;
  aliascolnames : list Node;
  ctematerialized : CTEMaterialize;
  ctequery : option Node;
  location : Z;
  cterecursive : bool;
  cterefcount : Z;
  ctecolnames : list Node;
  ctecoltypes : list Z;
  ctecoltypmods : list Z;
  ctecolcollations : list Z
}.
Arguments t : clear implicits.
Arguments mk {Node}.
Scheme All for t.
End CommonTableExpr.

Module WithClause.
Record t {Node : Type} : Type := mk {
  ctes : list Node;
  recursive : bool;
  location : Z
}.
Arguments t : clear implicits.
Arguments mk {Node}.
Scheme All for t.
End WithClause.

Module InferClause.
Record t {Node : Type} : Type := mk {
  indexElems : list Node;
  whereClause : option Node;
  conname : option string;
  location : Z
}.
Arguments t : clear implicits.
Arguments mk {Node}.
Scheme All for t.
End InferClause.

Module OnConflictClause.
Record t {Node : Type} : Type := mk {
  action : OnConflictAction;
  infer : option (InferClause.t Node);
  targetList : list Node;
  whereClause : option Node;
  location : Z
}.
Arguments t : clear implicits.
Arguments mk {Node}.
Scheme All for t.
End OnConflictClause.

Module LockingClause.
Record t {Node : Type} : Type := mk {
  lockedRels : list Node;
  strength : LockClauseStrength;
  waitPolicy : LockWaitPolicy
}.
Arguments t : clear implicits.
Arguments mk {Node}.
Scheme All for t.
End LockingClause.

Module GroupingSet.
Record t {Node : Type} : Type := mk {
  kind : GroupingSetKind;
  content : list Node;
  location : Z
}.
Arguments t : clear implicits.
Arguments mk {Node}.
Scheme All for t.
End GroupingSet.

Module IntoClause.
Record t {Node : Type} : Type := mk {
  rel : option (RangeVar.t Node);
  colNames : list Node;
  accessMethod : option string;
  options : list Node;
  onCommit : OnCommitAction;
  tableSpaceName : option string;
  viewQuery : option Node;
  skipData : bool
}.
Arguments t : clear implicits.
Arguments mk {Node}.
Scheme All for t.
End IntoClause.

Module SelectStmt.
Record t {Node : Type} : Type := mk {
  distinctClause : list Node;
  intoClause : option (IntoClause.t Node);
  targetList : list Node;
  fromClause : list Node;
  whereClause : option Node;
  groupClause : list Node;
  havingClause : option Node;
  windowClause : list Node;
  valuesLists : list Node;
  sortClause : list Node;
  limitOffset : option Node;
  limitCount : option Node;
  limitOption : LimitOption;
  lockingClause : list Node;
  withClause : option (WithClause.t Node);
  op : SetOperation;
  all : bool;
  larg : option Node;
  rarg : option Node
}.
Arguments t : clear implicits.
Arguments mk {Node}.
Scheme All for t.
End SelectStmt.

Module InsertStmt.
Record t {Node : Type} : Type := mk {
  relation : option (RangeVar.t Node);
  cols : list Node;
  selectStmt : option Node;
  onConflictClause : option (OnConflictClause.t Node);
  returningList : list Node;
  withClause : option (WithClause.t Node);
  override : OverridingKind
}.
Arguments t : clear implicits.
Arguments mk {Node}.
Scheme All for t.
End InsertStmt.

Module UpdateStmt.
Record t {Node : Type} : Type := mk {
  relation : option (RangeVar.t Node);
  targetList : list Node;
  whereClause : option Node;
  fromClause : list Node;
  returningList : list Node;
  withClause : option (WithClause.t Node)
}.
Arguments t : clear implicits.
Arguments mk {Node}.
Scheme All for t.
End UpdateStmt.

Module DeleteStmt.
Record t {Node : Type} : Type := mk {
  relation : option (RangeVar.t Node);
  usingClause : list Node;
  whereClause : option Node;
  returningList : list Node;
  withClause : option (WithClause.t Node)
}.
Arguments t : clear implicits.
Arguments mk {Node}.
Scheme All for t.
End DeleteStmt.

Module RawStmt.
Record t {Node : Type} : Type := mk {
  stmt : option Node;
  stmt_location : Z;
  stmt_len : Z
}.
Arguments t : clear implicits.
Arguments mk {Node}.
Scheme All for t.
End RawStmt.

Module AlterTableCmd.
Record t {Node : Type} : Type := mk {
  subtype : AlterTableType;
  name : option string;
  num : Z;
  newowner : option (RoleSpec.t Node);
  def : option Node;
  behavior : DropBehavior;
  missing_ok : bool
}.
Arguments t : clear implicits.
Arguments mk {Node}.
Scheme All for t.
End AlterTableCmd.

Module PartitionBoundSpec.
Record t {Node : Type} : Type := mk {
  strategy : ascii;
  is_default : bool;
  modulus : Z;
  remainder : Z;
  listdatums : list Node;
  lowerdatums : list Node;
  upperdatums : list Node;
  location : Z
}.
Arguments t : clear implicits.
Arguments mk {Node}.
Scheme All for t.
End PartitionBoundSpec.

Module TableLikeClause.
Record t {Node : Type} : Type := mk {
  relation : option (RangeVar.t Node);
  options : Z;
  relationOid : Z
}.
Arguments t : clear implicits.
Arguments mk {Node}.
Scheme All for t.
End TableLikeClause.

Module PartitionElem.
Record t {Node : Type} : Type := mk {
  name : option string;
  expr : option Node;
  collation : list Node;
  opclass : list Node;
  location : Z
}.
Arguments t : clear implicits.
Arguments mk {Node}.
Scheme All for t.
End PartitionElem.

Module PartitionSpec.
Record t {Node : Type} : Type := mk {
  strategy : option string;
  partParams : list Node;
  location : Z
}.
Arguments t : clear implicits.
Arguments mk {Node}.
Scheme All for t.
End PartitionSpec.

Module PartitionCmd.
Record t {Node : Type} : Type := mk {
  name : option (RangeVar.t Node);
  bound : option (PartitionBoundSpec.t Node)
}.
Arguments t : clear implicits.
Arguments mk {Node}.
Scheme All for t.
End PartitionCmd.

Module TriggerTransition.
Record t {Node : Type} : Type := mk {
  name : option string;
  isNew : bool;
  isTable : bool
}.
Arguments t : clear implicits.
Arguments mk {Node}.
Scheme All for t.
End TriggerTransition.

Module CreateSchemaStmt.
Record t {Node : Type} : Type := mk {
  schemaname : option string;
  authrole : option (RoleSpec.t Node);
  schemaElts : list Node;
  if_not_exists : bool
}.
Arguments t : clear implicits.
Arguments mk {Node}.
Scheme All for t.
End CreateSchemaStmt.

Module AlterTableStmt.
Record t {Node : Type} : Type := mk {
  relation : option (RangeVar.t Node);
  cmds : list Node;
  relkind : ObjectType;
  missing_ok : bool
}.
Arguments t : clear implicits.
Arguments mk {Node}.
Scheme All for t.
End AlterTableStmt.

Module ReplicaIdentityStmt.
Record t {Node : Type} : Type := mk {
  identity_type : ascii;
  name : option string
}.
Arguments t : clear implicits.
Arguments mk {Node}.
Scheme All for t.
End ReplicaIdentityStmt.

Module AlterCollationStmt.
Record t {Node : Type} : Type := mk {
  collname : list Node
}.
Arguments t : clear implicits.
Arguments mk {Node}.
Scheme All for t.
End AlterCollationStmt.

Module AlterDomainStmt.
Record t {Node : Type} : Type := mk {
  subtype : ascii;
  typeName : list Node;
  name : option string;
  def : option Node;
  behavior : DropBehavior;
  missing_ok : bool
}.
Arguments t : clear implicits.
Arguments mk {Node}.
Scheme All for t.
End AlterDomainStmt.

Module GrantStmt.
Record t {Node : Type} : Type := mk {
  is_grant : bool;
  targtype : GrantTargetType;
  objtype : ObjectType;
  objects : list Node;
  privileges : list Node;
  grantees : list Node;
  grant_option : bool;
  behavior : DropBehavior
}.
Arguments t : clear implicits.
Arguments mk {Node}.
Scheme All for t.
End GrantStmt.

Module ObjectWithArgs.
Record t {Node : Type} : Type := mk {
  objname : list Node;
  objargs : list Node;
  args_unspecified : bool
}.
Arguments t : clear implicits.
Arguments mk {Node}.
Scheme All for t.
End ObjectWithArgs.

Module AccessPriv.
Record t {Node : Type} : Type := mk {
  priv_name : option string;
  cols : list Node
}.
Arguments t : clear implicits.
Arguments mk {Node}.
Scheme All for t.
End AccessPriv.

Module GrantRoleStmt.
Record t {Node : Type} : Type := mk {
  granted_roles : list Node;
  grantee_roles : list Node;
  is_grant : bool;
  admin_opt : bool;
  grantor : option (RoleSpec.t Node);
  behavior : DropBehavior
}.
Arguments t : clear implicits.
Arguments mk {Node}.
Scheme All for t.
End GrantRoleStmt.

Module AlterDefaultPrivilegesStmt.
Record t {Node : Type} : Type := mk {
  options : list Node;
  action : option (GrantStmt.t Node)
}.
Arguments t : clear implicits.
Arguments mk {Node}.
Scheme All for t.
End AlterDefaultPrivilegesStmt.

Module CopyStmt.
Record t {Node : Type} : Type := mk {
  relation : option (RangeVar.t Node);
  query : option Node;
  attlist : list Node;
  is_from : bool;
  is_program : bool;
  filename : option string;
  options : list Node;
  whereClause : option Node
}.
Arguments t : clear implicits.
Arguments mk {Node}.
Scheme All for t.
End CopyStmt.

Module VariableSetStmt.
Record t {Node : Type} : Type := mk {
  kind : VariableSetKind;
  name : option string;
  args : list Node;
  is_local : bool
}.
Arguments t : clear implicits.
Arguments mk {Node}.
Scheme All for t.
End VariableSetStmt.

Module VariableShowStmt.
Record t {Node : Type} : Type := mk {
  name : option string
}.
Arguments t : clear implicits.
Arguments mk {Node}.
Scheme All for t.
End VariableShowStmt.

Module CreateStmt.
Record t {Node : Type} : Type := mk {
  relation : option (RangeVar.t Node);
  tableElts : list Node;
  inhRelations : list Node;
  partbound : option (PartitionBoundSpec.t Node);
  partspec : option (PartitionSpec.t Node);
  ofTypename : option (TypeName.t Node);
  constraints : list Node;
  options : list Node;
  oncommit : OnCommitAction;
  tablespacename : option string;
  accessMethod : option string;
  if_not_exists : bool
}.
Arguments t : clear implicits.
Arguments mk {Node}.
Scheme All for t.
End CreateStmt.

Module CreateTableSpaceStmt.
Record t {Node : Type} : Type := mk {
  tablespacename : option string;
  owner : option (RoleSpec.t Node);
  location : option string;
  options : list Node
}.
Arguments t : clear implicits.
Arguments mk {Node}.
Scheme All for t.
End CreateTableSpaceStmt.

Module DropTableSpaceStmt.
Record t {Node : Type} : Type := mk {
  tablespacename : option string;
  missing_ok : bool
}.
Arguments t : clear implicits.
Arguments mk {Node}.
Scheme All for t.
End DropTableSpaceStmt.

Module AlterTableSpaceOptionsStmt.
Record t {Node : Type} : Type := mk {
  tablespacename : option string;
  options : list Node;
  isReset : bool
}.
Arguments t : clear implicits.
Arguments mk {Node}.
Scheme All for t.
End AlterTableSpaceOptionsStmt.

Module AlterTableMoveAllStmt.
Record t {Node : Type} : Type := mk {
  orig_tablespacename : option string;
  objtype : ObjectType;
  roles : list Node;
  new_tablespacename : option string;
  nowait : bool
}.
Arguments t : clear implicits.
Arguments mk {Node}.
Scheme All for t.
End AlterTableMoveAllStmt.

Module CreateExtensionStmt.
Record t {Node : Type} : Type := mk {
  extname : option string;
  if_not_exists : bool;
  options : list Node
}.
Arguments t : clear implicits.
Arguments mk {Node}.
Scheme All for t.
End CreateExtensionStmt.

Module AlterExtensionStmt.
Record t {Node : Type} : Type := mk {
  extname : option string;
  options : list Node
}.
Arguments t : clear implicits.
Arguments mk {Node}.
Scheme All for t.
End AlterExtensionStmt.

Module AlterExtensionContentsStmt.
Record t {Node : Type} : Type := mk {
  extname : option string;
  action : Z;
  objtype : ObjectType;
  object : option Node
}.
Arguments t : clear implicits.
Arguments mk {Node}.
Scheme All for t.
End AlterExtensionContentsStmt.

Module CreateFdwStmt.
Record t {Node : Type} : Type := mk {
  fdwname : option string;
  func_options : list Node;
  options : list Node
}.
Arguments t : clear implicits.
Arguments mk {Node}.
Scheme All for t.
End CreateFdwStmt.

Module AlterFdwStmt.
Record t {Node : Type} : Type := mk {
  fdwname : option string;
  func_options : list Node;
  options : list Node
}.
Arguments t : clear implicits.
Arguments mk {Node}.
Scheme All for t.
End AlterFdwStmt.

Module CreateForeignServerStmt.
Record t {Node : Type} : Type := mk {
  servername : option string;
  servertype : option string;
  version : option string;
  fdwname : option string;
  if_not_exists : bool;
  options : list Node
}.
Arguments t : clear implicits.
Arguments mk {Node}.
Scheme All for t.
End CreateForeignServerStmt.

Module AlterForeignServerStmt.
Record t {Node : Type} : Type := mk {
  servername : option string;
  version : option string;
  options : list Node;
  has_version : bool
}.
Arguments t : clear implicits.
Arguments mk {Node}.
Scheme All for t.
End AlterForeignServerStmt.

Module CreateForeignTableStmt.
Record t {Node : Type} : Type := mk {
  base : CreateStmt.t Node;
  servername : option string;
  options : list Node
}.
Arguments t : clear implicits.
Arguments mk {Node}.
Scheme All for t.
End CreateForeignTableStmt.

Module CreateUserMappingStmt.
Record t {Node : Type} : Type := mk {
  user : option (RoleSpec.t Node);
  servername : option string;
  if_not_exists : bool;
  options : list Node
}.
Arguments t : clear implicits.
Arguments mk {Node}.
Scheme All for t.
End CreateUserMappingStmt.

Module AlterUserMappingStmt.
Record t {Node : Type} : Type := mk {
  user : option (RoleSpec.t Node);
  servername : option string;
  options : list Node
}.
Arguments t : clear implicits.
Arguments mk {Node}.
Scheme All for t.
End AlterUserMappingStmt.

Module DropUserMappingStmt.
Record t {Node : Type} : Type := mk {
  user : option (RoleSpec.t Node);
  servername : option string;
  missing_ok : bool
}.
Arguments t : clear implicits.
Arguments mk {Node}.
Scheme All for t.
End DropUserMappingStmt.

Module ImportForeignSchemaStmt.
Record t {Node : Type} : Type := mk {
  server_name : option string;
  remote_schema : option string;
  local_schema : option string;
  list_type : ImportForeignSchemaType;
  table_list : list Node;
  options : list Node
}.
Arguments t : clear implicits.
Arguments mk {Node}.
Scheme All for t.
End ImportForeignSchemaStmt.

Module CreatePolicyStmt.
Record t {Node : Type} : Type := mk {
  policy_name : option string;
  table : option (RangeVar.t Node);
  cmd_name : option string;
  permissive : bool;
  roles : list Node;
  qual : option Node;
  with_check : option Node
}.
Arguments t : clear implicits.
Arguments mk {Node}.
Scheme All for t.
End CreatePolicyStmt.

Module AlterPolicyStmt.
Record t {Node : Type} : Type := mk {
  policy_name : option string;
  table : option (RangeVar.t Node);
  roles : list Node;
  qual : option Node;
  with_check : option Node
}.
Arguments t : clear implicits.
Arguments mk {Node}.
Scheme All for t.
End AlterPolicyStmt.

Module CreateAmStmt.
Record t {Node : Type} : Type := mk {
  amname : option string;
  handler_name : list Node;
  amtype : ascii
}.
Arguments t : clear implicits.
Arguments mk {Node}.
Scheme All for t.
End CreateAmStmt.

Module CreateTrigStmt.
Record t {Node : Type} : Type := mk {
  trigname : option string;
  relation : option (RangeVar.t Node);
  funcname : list Node;
  args : list Node;
  row : bool;
  timing : Z;
  events : Z;
  columns : list Node;
  whenClause : option Node;
  isconstraint : bool;
  transitionRels : list Node;
  deferrable : bool;
  initdeferred : bool;
  constrrel : option (RangeVar.t Node)
}.
Arguments t : clear implicits.
Arguments mk {Node}.
Scheme All for t.
End CreateTrigStmt.

Module CreateEventTrigStmt.
Record t {Node : Type} : Type := mk {
  trigname : option string;
  eventname : option string;
  whenclause : list Node;
  funcname : list Node
}.
Arguments t : clear implicits.
Arguments mk {Node}.
Scheme All for t.
End CreateEventTrigStmt.

Module AlterEventTrigStmt.
Record t {Node : Type} : Type := mk {
  trigname : option string;
  tgenabled : ascii
}.
Arguments t : clear implicits.
Arguments mk {Node}.
Scheme All for t.
End AlterEventTrigStmt.

Module CreatePLangStmt.
Record t {Node : Type} : Type := mk {
  replace : bool;
  plname : option string;
  plhandler : list Node;
  plinline : list Node;
  plvalidator : list Node;
  pltrusted : bool
}.
Arguments t : clear implicits.
Arguments mk {Node}.
Scheme All for t.
End CreatePLangStmt.

Module CreateRoleStmt.
Record t {Node : Type} : Type := mk {
  stmt_type : RoleStmtType;
  role : option string;
  options : list Node
}.
Arguments t : clear implicits.
Arguments mk {Node}.
Scheme All for t.
End CreateRoleStmt.

Module AlterRoleStmt.
Record t {Node : Type} : Type := mk {
  role : option (RoleSpec.t Node);
  options : list Node;
  action : Z
}.
Arguments t : clear implicits.
Arguments mk {Node}.
Scheme All for t.
End AlterRoleStmt.

Module AlterRoleSetStmt.
Record t {Node : Type} : Type := mk {
  role : option (RoleSpec.t Node);
  database : option string;
  setstmt : option (VariableSetStmt.t Node)
}.
Arguments t : clear implicits.
Arguments mk {Node}.
Scheme All for t.
End AlterRoleSetStmt.

Module DropRoleStmt.
Record t {Node : Type} : Type := mk {
  roles : list Node;
  missing_ok : bool
}.
Arguments t : clear implicits.
Arguments mk {Node}.
Scheme All for t.
End DropRoleStmt.

Module CreateSeqStmt.
Record t {Node : Type} : Type := mk {
  sequence : option (RangeVar.t Node);
  options : list Node;
  ownerId : Z;
  for_identity : bool;
  if_not_exists : bool
}.
Arguments t : clear implicits.
Arguments mk {Node}.
Scheme All for t.
End CreateSeqStmt.

Module AlterSeqStmt.
Record t {Node : Type} : Type := mk {
  sequence : option (RangeVar.t Node);
  options : list Node;
  for_identity : bool;
  missing_ok : bool
}.
Arguments t : clear implicits.
Arguments mk {Node}.
Scheme All for t.
End AlterSeqStmt.

Module DefineStmt.
Record t {Node : Type} : Type := mk {
  kind : ObjectType;
  oldstyle : bool;
  defnames : list Node;
  args : list Node;
  definition : list Node;
  if_not_exists : bool;
  replace : bool
}.
Arguments t : clear implicits.
Arguments mk {Node}.
Scheme All for t.
End DefineStmt.

Module CreateDomainStmt.
Record t {Node : Type} : Type := mk {
  domainname : list Node;
  typeName : option (TypeName.t Node);
  collClause : option (CollateClause.t Node);
  constraints : list Node
}.
Arguments t : clear implicits.
Arguments mk {Node}.
Scheme All for t.
End CreateDomainStmt.

Module CreateOpClassStmt.
Record t {Node : Type} : Type := mk {
  opclassname : list Node;
  opfamilyname : list Node;
  amname : option string;
  datatype : option (TypeName.t Node);
  items : list Node;
  isDefault : bool
}.
Arguments t : clear implicits.
Arguments mk {Node}.
Scheme All for t.
End CreateOpClassStmt.

Module CreateOpClassItem.
Record t {Node : Type} : Type := mk {
  itemtype : Z;
  name : option (ObjectWithArgs.t Node);
  number : Z;
  order_family : list Node;
  class_args : list Node;
  storedtype : option (TypeName.t Node)
}.
Arguments t : clear implicits.
Arguments mk {Node}.
Scheme All for t.
End CreateOpClassItem.

Module CreateOpFamilyStmt.
Record t {Node : Type} : Type := mk {
  opfamilyname : list Node;
  amname : option string
}.
Arguments t : clear implicits.
Arguments mk {Node}.
Scheme All for t.
End CreateOpFamilyStmt.

Module AlterOpFamilyStmt.
Record t {Node : Type} : Type := mk {
  opfamilyname : list Node;
  amname : option string;
  isDrop : bool;
  items : list Node
}.
Arguments t : clear implicits.
Arguments mk {Node}.
Scheme All for t.
End AlterOpFamilyStmt.

Module DropStmt.
Record t {Node : Type} : Type := mk {
  objects : list Node;
  removeType : ObjectType;
  behavior : DropBehavior;
  missing_ok : bool;
  concurrent : bool
}.
Arguments t : clear implicits.
Arguments mk {Node}.
Scheme All for t.
End DropStmt.

Module TruncateStmt.
Record t {Node : Type} : Type := mk {
  relations : list Node;
  restart_seqs : bool;
  behavior : DropBehavior
}.
Arguments t : clear implicits.
Arguments mk {Node}.
Scheme All for t.
End TruncateStmt.

Module CommentStmt.
Record t {Node : Type} : Type := mk {
  objtype : ObjectType;
  object : option Node;
  comment : option string
}.
Arguments t : clear implicits.
Arguments mk {Node}.
Scheme All for t.
End CommentStmt.

Module SecLabelStmt.
Record t {Node : Type} : Type := mk {
  objtype : ObjectType;
  object : option Node;
  provider : option string;
  label : option string
}.
Arguments t : clear implicits.
Arguments mk {Node}.
Scheme All for t.
End SecLabelStmt.

Module DeclareCursorStmt.
Record t {Node : Type} : Type := mk {
  portalname : option string;
  options : Z;
  query : option Node
}.
Arguments t : clear implicits.
Arguments mk {Node}.
Scheme All for t.
End DeclareCursorStmt.

Module ClosePortalStmt.
Record t {Node : Type} : Type := mk {
  portalname : option string
}.
Arguments t : clear implicits.
Arguments mk {Node}.
Scheme All for t.
End ClosePortalStmt.

Module FetchStmt.
Record t {Node : Type} : Type := mk {
  direction : FetchDirection;
  howMany : Z;
  portalname : option string;
  ismove : bool
}.
Arguments t : clear implicits.
Arguments mk {Node}.
Scheme All for t.
End FetchStmt.

Module IndexStmt.
Record t {Node : Type} : Type := mk {
  idxname : option string;
  relation : option (RangeVar.t Node);
  accessMethod : option string;
  tableSpace : option string;
  indexParams : list Node;
  indexIncludingParams : list Node;
  options : list Node;
  whereClause : option Node;
  excludeOpNames : list Node;
  idxcomment : option string;
  indexOid : Z;
  oldNode : Z;
  oldCreateSubid : Z;
  oldFirstRelfilenodeSubid : Z;
  unique : bool;
  primary : bool;
  isconstraint : bool;
  deferrable : bool;
  initdeferred : bool;
  transformed : bool;
  concurrent : bool;
  if_not_exists : bool;
  reset_default_tblspc : bool
}.
Arguments t : clear implicits.
Arguments mk {Node}.
Scheme All for t.
End IndexStmt.

Module CreateStatsStmt.
Record t {Node : Type} : Type := mk {
  defnames : list Node;
  stat_types : list Node;
  exprs : list Node;
  relations : list Node;
  stxcomment : option string;
  if_not_exists : bool
}.
Arguments t : clear implicits.
Arguments mk {Node}.
Scheme All for t.
End CreateStatsStmt.

Module AlterStatsStmt.
Record t {Node : Type} : Type := mk {
  defnames : list Node;
  stxstattarget : Z;
  missing_ok : bool
}.
Arguments t : clear implicits.
Arguments mk {Node}.
Scheme All for t.
End AlterStatsStmt.

Module CreateFunctionStmt.
Record t {Node : Type} : Type := mk {
  is_procedure : bool;
  replace : bool;
  funcname : list Node;
  parameters : list Node;
  returnType : option (TypeName.t Node);
  options : list Node
}.
Arguments t : clear implicits.
Arguments mk {Node}.
Scheme All for t.
End CreateFunctionStmt.

Module FunctionParameter.
Record t {Node : Type} : Type := mk {
  name : option string;
  argType : option (TypeName.t Node);
  mode : FunctionParameterMode;
  defexpr : option Node
}.
Arguments t : clear implicits.
Arguments mk {Node}.
Scheme All for t.
End FunctionParameter.

Module AlterFunctionStmt.
Record t {Node : Type} : Type := mk {
  objtype : ObjectType;
  func : option (ObjectWithArgs.t Node);
  actions : list Node
}.
Arguments t : clear implicits.
Arguments mk {Node}.
Scheme All for t.
End AlterFunctionStmt.

Module DoStmt.
Record t {Node : Type} : Type := mk {
  args : list Node
}.
Arguments t : clear implicits.
Arguments mk {Node}.
Scheme All for t.
End DoStmt.

Module FuncExpr.
Record t {Node : Type} : Type := mk {
  funcid : Z;
  funcresulttype : Z;
  funcretset : bool;
  funcvariadic : bool;
  funcformat : CoercionForm;
  funccollid : Z;
  inputcollid : Z;
  args : list Node;
  location : Z
}.
Arguments t : clear implicits.
Arguments mk {Node}.
Scheme All for t.
End FuncExpr.

Module CallStmt.
Record t {Node : Type} : Type := mk {
  funccall : option (FuncCall.t Node);
  funcexpr : option (FuncExpr.t Node)
}.
Arguments t : clear implicits.
Arguments mk {Node}.
Scheme All for t.
End CallStmt.

Module RenameStmt.
Record t {Node : Type} : Type := mk {
  renameType : ObjectType;
  relationType : ObjectType;
  relation : option (RangeVar.t Node);
  object : option Node;
  subname : option string;
  newname : option string;
  behavior : DropBehavior;
  missing_ok : bool
}.
Arguments t : clear implicits.
Arguments mk {Node}.
Scheme All for t.
End RenameStmt.

Module AlterObjectDependsStmt.
Record t {Node : Type} : Type := mk {
  objectType : ObjectType;
  relation : option (RangeVar.t Node);
  object : option Node;
  extname : option Node;
  remove : bool
}.
Arguments t : clear implicits.
Arguments mk {Node}.
Scheme All for t.
End AlterObjectDependsStmt.

Module AlterObjectSchemaStmt.
Record t {Node : Type} : Type := mk {
  objectType : ObjectType;
  relation : option (RangeVar.t Node);
  object : option Node;
  newschema : option string;
  missing_ok : bool
}.
Arguments t : clear implicits.
Arguments mk {Node}.
Scheme All for t.
End AlterObjectSchemaStmt.

Module AlterOwnerStmt.
Record t {Node : Type} : Type := mk {
  objectType : ObjectType;
  relation : option (RangeVar.t Node);
  object : option Node;
  newowner : option (RoleSpec.t Node)
}.
Arguments t : clear implicits.
Arguments mk {Node}.
Scheme All for t.
End AlterOwnerStmt.

Module AlterOperatorStmt.
Record t {Node : Type} : Type := mk {
  opername : option (ObjectWithArgs.t Node);
  options : list Node
}.
Arguments t : clear implicits.
Arguments mk {Node}.
Scheme All for t.
End AlterOperatorStmt.

Module AlterTypeStmt.
Record t {Node : Type} : Type := mk {
  typeName : list Node;
  options : list Node
}.
Arguments t : clear implicits.
Arguments mk {Node}.
Scheme All for t.
End AlterTypeStmt.

Module RuleStmt.
Record t {Node : Type} : Type := mk {
  relation : option (RangeVar.t Node);
  rulename : option string;
  whereClause : option Node;
  event : CmdType;
  instead : bool;
  actions : list Node;
  replace : bool
}.
Arguments t : clear implicits.
Arguments mk {Node}.
Scheme All for t.
End RuleStmt.

Module NotifyStmt.
Record t {Node : Type} : Type := mk {
  conditionname : option string;
  payload : option string
}.
Arguments t : clear implicits.
Arguments mk {Node}.
Scheme All for t.
End NotifyStmt.

Module ListenStmt.
Record t {Node : Type} : Type := mk {
  conditionname : option string
}.
Arguments t : clear implicits.
Arguments mk {Node}.
Scheme All for t.
End ListenStmt.

Module UnlistenStmt.
Record t {Node : Type} : Type := mk {
  conditionname : option string
}.
Arguments t : clear implicits.
Arguments mk {Node}.
Scheme All for t.
End UnlistenStmt.

Module TransactionStmt.
Record t {Node : Type} : Type := mk {
  kind : TransactionStmtKind;
  options : list Node;
  savepoint_name : option string;
  gid : option string;
  chain : bool
}.
Arguments t : clear implicits.
Arguments mk {Node}.
Scheme All for t.
End TransactionStmt.

Module CompositeTypeStmt.
Record t {Node : Type} : Type := mk {
  typevar : option (RangeVar.t Node);
  coldeflist : list Node
}.
Arguments t : clear implicits.
Arguments mk {Node}.
Scheme All for t.
End CompositeTypeStmt.

Module CreateEnumStmt.
Record t {Node : Type} : Type := mk {
  typeName : list Node;
  vals : list Node
}.
Arguments t : clear implicits.
Arguments mk {Node}.
Scheme All for t.
End CreateEnumStmt.

Module CreateRangeStmt.
Record t {Node : Type} : Type := mk {
  typeName : list Node;
  params : list Node
}.
Arguments t : clear implicits.
Arguments mk {Node}.
Scheme All for t.
End CreateRangeStmt.

Module AlterEnumStmt.
Record t {Node : Type} : Type := mk {
  typeName : list Node;
  oldVal : option string;
  newVal : option string;
  newValNeighbor : option string;
  newValIsAfter : bool;
  skipIfNewValExists : bool
}.
Arguments t : clear implicits.
Arguments mk {Node}.
Scheme All for t.
End AlterEnumStmt.

Module ViewStmt.
Record t {Node : Type} : Type := mk {
  view : option (RangeVar.t Node);
  aliases : list Node;
  query : option Node;
  replace : bool;
  options : list Node;
  withCheckOption : ViewCheckOption
}.
Arguments t : clear implicits.
Arguments mk {Node}.
Scheme All for t.
End ViewStmt.

Module LoadStmt.
Record t {Node : Type} : Type := mk {
  filename : option string
}.
Arguments t : clear implicits.
Arguments mk {Node}.
Scheme All for t.
End LoadStmt.

Module CreatedbStmt.
Record t {Node : Type} : Type := mk {
  dbname : option string;
  options : list Node
}.
Arguments t : clear implicits.
Arguments mk {Node}.
Scheme All for t.
End CreatedbStmt.

Module AlterDatabaseStmt.
Record t {Node : Type} : Type := mk {
  dbname : option string;
  options : list Node
}.
Arguments t : clear implicits.
Arguments mk {Node}.
Scheme All for t.
End AlterDatabaseStmt.

Module AlterDatabaseSetStmt.
Record t {Node : Type} : Type := mk {
  dbname : option string;
  setstmt : option (VariableSetStmt.t Node)
}.
Arguments t : clear implicits.
Arguments mk {Node}.
Scheme All for t.
End AlterDatabaseSetStmt.

Module DropdbStmt.
Record t {Node : Type} : Type := mk {
  dbname : option string;
  missing_ok : bool;
  options : list Node
}.
Arguments t : clear implicits.
Arguments mk {Node}.
Scheme All for t.
End DropdbStmt.

Module AlterSystemStmt.
Record t {Node : Type} : Type := mk {
  setstmt : option (VariableSetStmt.t Node)
}.
Arguments t : clear implicits.
Arguments mk {Node}.
Scheme All for t.
End AlterSystemStmt.

Module ClusterStmt.
Record t {Node : Type} : Type := mk {
  relation : option (RangeVar.t Node);
  indexname : option string;
  options : Z
}.
Arguments t : clear implicits.
Arguments mk {Node}.
Scheme All for t.
End ClusterStmt.

Module VacuumStmt.
Record t {Node : Type} : Type := mk {
  options : list Node;
  rels : list Node;
  is_vacuumcmd : bool
}.
Arguments t : clear implicits.
Arguments mk {Node}.
Scheme All for t.
End VacuumStmt.

Module VacuumRelation.
Record t {Node : Type} : Type := mk {
  relation : option (RangeVar.t Node);
  oid : Z;
  va_cols : list Node
}.
Arguments t : clear implicits.
Arguments mk {Node}.
Scheme All for t.
End VacuumRelation.

Module ExplainStmt.
Record t {Node : Type} : Type := mk {
  query : option Node;
  options : list Node
}.
Arguments t : clear implicits.
Arguments mk {Node}.
Scheme All for t.
End ExplainStmt.

Module CreateTableAsStmt.
Record t {Node : Type} : Type := mk {
  query : option Node;
  into : option (IntoClause.t Node);
  relkind : ObjectType;
  is_select_into : bool;
  if_not_exists : bool
}.
Arguments t : clear implicits.
Arguments mk {Node}.
Scheme All for t.
End CreateTableAsStmt.

Module RefreshMatViewStmt.
Record t {Node : Type} : Type := mk {
  concurrent : bool;
  skipData : bool;
  relation : option (RangeVar.t Node)
}.
Arguments t : clear implicits.
Arguments mk {Node}.
Scheme All for t.
End RefreshMatViewStmt.

Module CheckPointStmt.
Record t {Node : Type} : Type := mk { }.
Arguments t : clear implicits.
Arguments mk {Node}.
Scheme All for t.
End CheckPointStmt.

Module DiscardStmt.
Record t {Node : Type} : Type := mk {
  target : DiscardMode
}.
Arguments t : clear implicits.
Arguments mk {Node}.
Scheme All for t.
End DiscardStmt.

Module LockStmt.
Record t {Node : Type} : Type := mk {
  relations : list Node;
  mode : Z;
  nowait : bool
}.
Arguments t : clear implicits.
Arguments mk {Node}.
Scheme All for t.
End LockStmt.

Module ConstraintsSetStmt.
Record t {Node : Type} : Type := mk {
  constraints : list Node;
  deferred : bool
}.
Arguments t : clear implicits.
Arguments mk {Node}.
Scheme All for t.
End ConstraintsSetStmt.

Module ReindexStmt.
Record t {Node : Type} : Type := mk {
  kind : ReindexObjectType;
  relation : option (RangeVar.t Node);
  name : option string;
  options : Z;
  concurrent : bool
}.
Arguments t : clear implicits.
Arguments mk {Node}.
Scheme All for t.
End ReindexStmt.

Module CreateConversionStmt.
Record t {Node : Type} : Type := mk {
  conversion_name : list Node;
  for_encoding_name : option string;
  to_encoding_name : option string;
  func_name : list Node;
  def : bool
}.
Arguments t : clear implicits.
Arguments mk {Node}.
Scheme All for t.
End CreateConversionStmt.

Module CreateCastStmt.
Record t {Node : Type} : Type := mk {
  sourcetype : option (TypeName.t Node);
  targettype : option (TypeName.t Node);
  func : option (ObjectWithArgs.t Node);
  context : CoercionContext;
  inout : bool
}.
Arguments t : clear implicits.
Arguments mk {Node}.
Scheme All for t.
End CreateCastStmt.

Module CreateTransformStmt.
Record t {Node : Type} : Type := mk {
  replace : bool;
  type_name : option (TypeName.t Node);
  lang : option string;
  fromsql : option (ObjectWithArgs.t Node);
  tosql : option (ObjectWithArgs.t Node)
}.
Arguments t : clear implicits.
Arguments mk {Node}.
Scheme All for t.
End CreateTransformStmt.

Module PrepareStmt.
Record t {Node : Type} : Type := mk {
  name : option string;
  argtypes : list Node;
  query : option Node
}.
Arguments t : clear implicits.
Arguments mk {Node}.
Scheme All for t.
End PrepareStmt.

Module ExecuteStmt.
Record t {Node : Type} : Type := mk {
  name : option string;
  params : list Node
}.
Arguments t : clear implicits.
Arguments mk {Node}.
Scheme All for t.
End ExecuteStmt.

Module DeallocateStmt.
Record t {Node : Type} : Type := mk {
  name : option string
}.
Arguments t : clear implicits.
Arguments mk {Node}.
Scheme All for t.
End DeallocateStmt.

Module DropOwnedStmt.
Record t {Node : Type} : Type := mk {
  roles : list Node;
  behavior : DropBehavior
}.
Arguments t : clear implicits.
Arguments mk {Node}.
Scheme All for t.
End DropOwnedStmt.

Module ReassignOwnedStmt.
Record t {Node : Type} : Type := mk {
  roles : list Node;
  newrole : option (RoleSpec.t Node)
}.
Arguments t : clear implicits.
Arguments mk {Node}.
Scheme All for t.
End ReassignOwnedStmt.

Module AlterTSDictionaryStmt.
Record t {Node : Type} : Type := mk {
  dictname : list Node;
  options : list Node
}.
Arguments t : clear implicits.
Arguments mk {Node}.
Scheme All for t.
End AlterTSDictionaryStmt.

Module AlterTSConfigurationStmt.
Record t {Node : Type} : Type := mk {
  kind : AlterTSConfigType;
  cfgname : list Node;
  tokentype : list Node;
  dicts : list Node;
  override : bool;
  replace : bool;
  missing_ok : bool
}.
Arguments t : clear implicits.
Arguments mk {Node}.
Scheme All for t.
End AlterTSConfigurationStmt.

Module CreatePublicationStmt.
Record t {Node : Type} : Type := mk {
  pubname : option string;
  options : list Node;
  tables : list Node;
  for_all_tables : bool
}.
Arguments t : clear implicits.
Arguments mk {Node}.
Scheme All for t.
End CreatePublicationStmt.

Module AlterPublicationStmt.
Record t {Node : Type} : Type := mk {
  pubname : option string;
  options : list Node;
  tables : list Node;
  for_all_tables : bool;
  tableAction : DefElemAction
}.
Arguments t : clear implicits.
Arguments mk {Node}.
Scheme All for t.
End AlterPublicationStmt.

Module CreateSubscriptionStmt.
Record t {Node : Type} : Type := mk {
  subname : option string;
  conninfo : option string;
  publication : list Node;
  options : list Node
}.
Arguments t : clear implicits.
Arguments mk {Node}.
Scheme All for t.
End CreateSubscriptionStmt.

Module AlterSubscriptionStmt.
Record t {Node : Type} : Type := mk {
  kind : AlterSubscriptionType;
  subname : option string;
  conninfo : option string;
  publication : list Node;
  options : list Node
}.
Arguments t : clear implicits.
Arguments mk {Node}.
Scheme All for t.
End AlterSubscriptionStmt.

Module DropSubscriptionStmt.
Record t {Node : Type} : Type := mk {
  subname : option string;
  missing_ok : bool;
  behavior : DropBehavior
}.
Arguments t : clear implicits.
Arguments mk {Node}.
Scheme All for t.
End DropSubscriptionStmt.

(** ** Nodes *)

Inductive Node : Type :=
| N_List (l : list Node)
| N_Value (v : Value)
| N_RangeVar (x : RangeVar.t Node)
| N_Alias (x : Alias.t Node)
| N_TypeName (x : TypeName.t Node)
| N_ColumnRef (x : ColumnRef.t Node)
| N_ParamRef (x : ParamRef.t Node)
| N_A_Expr (x : A_Expr.t Node)
| N_A_Const (x : A_Const.t Node)
| N_TypeCast (x : TypeCast.t Node)
| N_CollateClause (x : CollateClause.t Node)
| N_RoleSpec (x : RoleSpec.t Node)
| N_WindowDef (x : WindowDef.t Node)
| N_SortBy (x : SortBy.t Node)
| N_FuncCall (x : FuncCall.t Node)
| N_A_Star (x : A_Star.t Node)
| N_A_Indices (x : A_Indices.t Node)
| N_A_Indirection (x : A_Indirection.t Node)
| N_A_ArrayExpr (x : A_ArrayExpr.t Node)
| N_ResTarget (x : ResTarget.t Node)
| N_MultiAssignRef (x : MultiAssignRef.t Node)
| N_NamedArgExpr (x : NamedArgExpr.t Node)
| N_BoolExpr (x : BoolExpr.t Node)
| N_SubLink (x : SubLink.t Node)
| N_CaseWhen (x : CaseWhen.t Node)
| N_CaseExpr (x : CaseExpr.t Node)
| N_RowExpr (x : RowExpr.t Node)
| N_CoalesceExpr (x : CoalesceExpr.t Node)
| N_MinMaxExpr (x : MinMaxExpr.t Node)
| N_SQLValueFunction (x : SQLValueFunction.t Node)
| N_XmlExpr (x : XmlExpr.t Node)
| N_XmlSerialize (x : XmlSerialize.t Node)
| N_NullTest (x : NullTest.t Node)
| N_BooleanTest (x : BooleanTest.t Node)
| N_SetToDefault (x : SetToDefault.t Node)
| N_CurrentOfExpr (x : CurrentOfExpr.t Node)
| N_GroupingFunc (x : GroupingFunc.t Node)
| N_DefElem (x : DefElem.t Node)
| N_IndexElem (x : IndexElem.t Node)
| N_Constraint (x : Constraint.t Node)
| N_ColumnDef (x : ColumnDef.t Node)
| N_JoinExpr (x : JoinExpr.t Node)
| N_RangeSubselect (x : RangeSubselect.t Node)
| N_RangeFunction (x : RangeFunction.t Node)
| N_RangeTableFuncCol (x : RangeTableFuncCol.t Node)
| N_RangeTableFunc (x : RangeTableFunc.t Node)
| N_RangeTableSample (x : RangeTableSample.t Node)
| N_CommonTableExpr (x : CommonTableExpr.t Node)
| N_WithClause (x : WithClause.t Node)
| N_InferClause (x : InferClause.t Node)
| N_OnConflictClause (x : OnConflictClause.t Node)
| N_LockingClause (x : LockingClause.t Node)
| N_GroupingSet (x : GroupingSet.t Node)
| N_IntoClause (x : IntoClause.t Node)
| N_SelectStmt (x : SelectStmt.t Node)
| N_InsertStmt (x : InsertStmt.t Node)
| N_UpdateStmt (x : UpdateStmt.t Node)
| N_DeleteStmt (x : DeleteStmt.t Node)
| N_RawStmt (x : RawStmt.t Node)
| N_AlterTableCmd (x : AlterTableCmd.t Node)
| N_PartitionBoundSpec (x : PartitionBoundSpec.t Node)
| N_TableLikeClause (x : TableLikeClause.t Node)
| N_PartitionElem (x : PartitionElem.t Node)
| N_PartitionSpec (x : PartitionSpec.t Node)
| N_PartitionCmd (x : PartitionCmd.t Node)
| N_TriggerTransition (x : TriggerTransition.t Node)
| N_CreateSchemaStmt (x : CreateSchemaStmt.t Node)
| N_AlterTableStmt (x : AlterTableStmt.t Node)
| N_ReplicaIdentityStmt (x : ReplicaIdentityStmt.t Node)
| N_AlterCollationStmt (x : AlterCollationStmt.t Node)
| N_AlterDomainStmt (x : AlterDomainStmt.t Node)
| N_GrantStmt (x : GrantStmt.t Node)
| N_ObjectWithArgs (x : ObjectWithArgs.t Node)
| N_AccessPriv (x : AccessPriv.t Node)
| N_GrantRoleStmt (x : GrantRoleStmt.t Node)
| N_AlterDefaultPrivilegesStmt (x : AlterDefaultPrivilegesStmt.t Node)
| N_CopyStmt (x : CopyStmt.t Node)
| N_VariableSetStmt (x : VariableSetStmt.t Node)
| N_VariableShowStmt (x : VariableShowStmt.t Node)
| N_CreateStmt (x : CreateStmt.t Node)
| N_CreateTableSpaceStmt (x : CreateTableSpaceStmt.t Node)
| N_DropTableSpaceStmt (x : DropTableSpaceStmt.t Node)
| N_AlterTableSpaceOptionsStmt (x : AlterTableSpaceOptionsStmt.t Node)
| N_AlterTableMoveAllStmt (x : AlterTableMoveAllStmt.t Node)
| N_CreateExtensionStmt (x : CreateExtensionStmt.t Node)
| N_AlterExtensionStmt (x : AlterExtensionStmt.t Node)
| N_AlterExtensionContentsStmt (x : AlterExtensionContentsStmt.t Node)
| N_CreateFdwStmt (x : CreateFdwStmt.t Node)
| N_AlterFdwStmt (x : AlterFdwStmt.t Node)
| N_CreateForeignServerStmt (x : CreateForeignServerStmt.t Node)
| N_AlterForeignServerStmt (x : AlterForeignServerStmt.t Node)
| N_CreateForeignTableStmt (x : CreateForeignTableStmt.t Node)
| N_CreateUserMappingStmt (x : CreateUserMappingStmt.t Node)
| N_AlterUserMappingStmt (x : AlterUserMappingStmt.t Node)
| N_DropUserMappingStmt (x : DropUserMappingStmt.t Node)
| N_ImportForeignSchemaStmt (x : ImportForeignSchemaStmt.t Node)
| N_CreatePolicyStmt (x : CreatePolicyStmt.t Node)
| N_AlterPolicyStmt (x : AlterPolicyStmt.t Node)
| N_CreateAmStmt (x : CreateAmStmt.t Node)
| N_CreateTrigStmt (x : CreateTrigStmt.t Node)
| N_CreateEventTrigStmt (x : CreateEventTrigStmt.t Node)
| N_AlterEventTrigStmt (x : AlterEventTrigStmt.t Node)
| N_CreatePLangStmt (x : CreatePLangStmt.t Node)
| N_CreateRoleStmt (x : CreateRoleStmt.t Node)
| N_AlterRoleStmt (x : AlterRoleStmt.t Node)
| N_AlterRoleSetStmt (x : AlterRoleSetStmt.t Node)
| N_DropRoleStmt (x : DropRoleStmt.t Node)
| N_CreateSeqStmt (x : CreateSeqStmt.t Node)
| N_AlterSeqStmt (x : AlterSeqStmt.t Node)
| N_DefineStmt (x : DefineStmt.t Node)
| N_CreateDomainStmt (x : CreateDomainStmt.t Node)
| N_CreateOpClassStmt (x : CreateOpClassStmt.t Node)
| N_CreateOpClassItem (x : CreateOpClassItem.t Node)
| N_CreateOpFamilyStmt (x : CreateOpFamilyStmt.t Node)
| N_AlterOpFamilyStmt (x : AlterOpFamilyStmt.t Node)
| N_DropStmt (x : DropStmt.t Node)
| N_TruncateStmt (x : TruncateStmt.t Node)
| N_CommentStmt (x : CommentStmt.t Node)
| N_SecLabelStmt (x : SecLabelStmt.t Node)
| N_DeclareCursorStmt (x : DeclareCursorStmt.t Node)
| N_ClosePortalStmt (x : ClosePortalStmt.t Node)
| N_FetchStmt (x : FetchStmt.t Node)
| N_IndexStmt (x : IndexStmt.t Node)
| N_CreateStatsStmt (x : CreateStatsStmt.t Node)
| N_AlterStatsStmt (x : AlterStatsStmt.t Node)
| N_CreateFunctionStmt (x : CreateFunctionStmt.t Node)
| N_FunctionParameter (x : FunctionParameter.t Node)
| N_AlterFunctionStmt (x : AlterFunctionStmt.t Node)
| N_DoStmt (x : DoStmt.t Node)
| N_CallStmt (x : CallStmt.t Node)
| N_RenameStmt (x : RenameStmt.t Node)
| N_AlterObjectDependsStmt (x : AlterObjectDependsStmt.t Node)
| N_AlterObjectSchemaStmt (x : AlterObjectSchemaStmt.t Node)
| N_AlterOwnerStmt (x : AlterOwnerStmt.t Node)
| N_AlterOperatorStmt (x : AlterOperatorStmt.t Node)
| N_AlterTypeStmt (x : AlterTypeStmt.t Node)
| N_RuleStmt (x : RuleStmt.t Node)
| N_NotifyStmt (x : NotifyStmt.t Node)
| N_ListenStmt (x : ListenStmt.t Node)
| N_UnlistenStmt (x : UnlistenStmt.t Node)
| N_TransactionStmt (x : TransactionStmt.t Node)
| N_CompositeTypeStmt (x : CompositeTypeStmt.t Node)
| N_CreateEnumStmt (x : CreateEnumStmt.t Node)
| N_CreateRangeStmt (x : CreateRangeStmt.t Node)
| N_AlterEnumStmt (x : AlterEnumStmt.t Node)
| N_ViewStmt (x : ViewStmt.t Node)
| N_LoadStmt (x : LoadStmt.t Node)
| N_CreatedbStmt (x : CreatedbStmt.t Node)
| N_AlterDatabaseStmt (x : AlterDatabaseStmt.t Node)
| N_AlterDatabaseSetStmt (x : AlterDatabaseSetStmt.t Node)
| N_DropdbStmt (x : DropdbStmt.t Node)
| N_AlterSystemStmt (x : AlterSystemStmt.t Node)
| N_ClusterStmt (x : ClusterStmt.t Node)
| N_VacuumStmt (x : VacuumStmt.t Node)
| N_VacuumRelation (x : VacuumRelation.t Node)
| N_ExplainStmt (x : ExplainStmt.t Node)
| N_CreateTableAsStmt (x : CreateTableAsStmt.t Node)
| N_RefreshMatViewStmt (x : RefreshMatViewStmt.t Node)
| N_CheckPointStmt (x : CheckPointStmt.t Node)
| N_DiscardStmt (x : DiscardStmt.t Node)
| N_LockStmt (x : LockStmt.t Node)
| N_ConstraintsSetStmt (x : ConstraintsSetStmt.t Node)
| N_ReindexStmt (x : ReindexStmt.t Node)
| N_CreateConversionStmt (x : CreateConversionStmt.t Node)
| N_CreateCastStmt (x : CreateCastStmt.t Node)
| N_CreateTransformStmt (x : CreateTransformStmt.t Node)
| N_PrepareStmt (x : PrepareStmt.t Node)
| N_ExecuteStmt (x : ExecuteStmt.t Node)
| N_DeallocateStmt (x : DeallocateStmt.t Node)
| N_DropOwnedStmt (x : DropOwnedStmt.t Node)
| N_ReassignOwnedStmt (x : ReassignOwnedStmt.t Node)
| N_AlterTSDictionaryStmt (x : AlterTSDictionaryStmt.t Node)
| N_AlterTSConfigurationStmt (x : AlterTSConfigurationStmt.t Node)
| N_CreatePublicationStmt (x : CreatePublicationStmt.t Node)
| N_AlterPublicationStmt (x : AlterPublicationStmt.t Node)
| N_CreateSubscriptionStmt (x : CreateSubscriptionStmt.t Node)
| N_AlterSubscriptionStmt (x : AlterSubscriptionStmt.t Node)
| N_DropSubscriptionStmt (x : DropSubscriptionStmt.t Node)
| N_FuncExpr (x : FuncExpr.t Node)
| N_Other (tag : Z).

(** The numeric tag, which the error messages print. *)
Definition nodeTag (n : Node) : Z :=
  match n with
  | N_List _ => 226
  | N_Value (Integer _) => 221 | N_Value (Float _) => 222 | N_Value (String_ _) => 223
  | N_Value (BitString _) => 224 | N_Value Null => 225
  | N_RangeVar _ => 103
  | N_Alias _ => 102
  | N_TypeName _ => 366
  | N_ColumnRef _ => 347
  | N_ParamRef _ => 348
  | N_A_Expr _ => 346
  | N_A_Const _ => 349
  | N_TypeCast _ => 357
  | N_CollateClause _ => 358
  | N_RoleSpec _ => 390
  | N_WindowDef _ => 360
  | N_SortBy _ => 359
  | N_FuncCall _ => 350
  | N_A_Star _ => 351
  | N_A_Indices _ => 352
  | N_A_Indirection _ => 353
  | N_A_ArrayExpr _ => 354
  | N_ResTarget _ => 355
  | N_MultiAssignRef _ => 356
  | N_NamedArgExpr _ => 114
  | N_BoolExpr _ => 119
  | N_SubLink _ => 120
  | N_CaseWhen _ => 131
  | N_CaseExpr _ => 130
  | N_RowExpr _ => 134
  | N_CoalesceExpr _ => 136
  | N_MinMaxExpr _ => 137
  | N_SQLValueFunction _ => 138
  | N_XmlExpr _ => 139
  | N_XmlSerialize _ => 385
  | N_NullTest _ => 140
  | N_BooleanTest _ => 141
  | N_SetToDefault _ => 144
  | N_CurrentOfExpr _ => 145
  | N_GroupingFunc _ => 110
  | N_DefElem _ => 370
  | N_IndexElem _ => 368
  | N_Constraint _ => 369
  | N_ColumnDef _ => 367
  | N_JoinExpr _ => 150
  | N_RangeSubselect _ => 361
  | N_RangeFunction _ => 362
  | N_RangeTableFuncCol _ => 365
  | N_RangeTableFunc _ => 364
  | N_RangeTableSample _ => 363
  | N_CommonTableExpr _ => 389
  | N_WithClause _ => 386
  | N_InferClause _ => 387
  | N_OnConflictClause _ => 388
  | N_LockingClause _ => 383
  | N_GroupingSet _ => 376
  | N_IntoClause _ => 153
  | N_SelectStmt _ => 236
  | N_InsertStmt _ => 233
  | N_UpdateStmt _ => 235
  | N_DeleteStmt _ => 234
  | N_RawStmt _ => 230
  | N_AlterTableCmd _ => 238
  | N_PartitionBoundSpec _ => 394
  | N_TableLikeClause _ => 381
  | N_PartitionElem _ => 392
  | N_PartitionSpec _ => 393
  | N_PartitionCmd _ => 396
  | N_TriggerTransition _ => 391
  | N_CreateSchemaStmt _ => 285
  | N_AlterTableStmt _ => 237
  | N_ReplicaIdentityStmt _ => 331
  | N_AlterCollationStmt _ => 343
  | N_AlterDomainStmt _ => 239
  | N_GrantStmt _ => 241
  | N_ObjectWithArgs _ => 378
  | N_AccessPriv _ => 379
  | N_GrantRoleStmt _ => 242
  | N_AlterDefaultPrivilegesStmt _ => 243
  | N_CopyStmt _ => 246
  | N_VariableSetStmt _ => 273
  | N_VariableShowStmt _ => 274
  | N_CreateStmt _ => 247
  | N_CreateTableSpaceStmt _ => 298
  | N_DropTableSpaceStmt _ => 299
  | N_AlterTableSpaceOptionsStmt _ => 320
  | N_AlterTableMoveAllStmt _ => 321
  | N_CreateExtensionStmt _ => 325
  | N_AlterExtensionStmt _ => 326
  | N_AlterExtensionContentsStmt _ => 327
  | N_CreateFdwStmt _ => 313
  | N_AlterFdwStmt _ => 314
  | N_CreateForeignServerStmt _ => 315
  | N_AlterForeignServerStmt _ => 316
  | N_CreateForeignTableStmt _ => 323
  | N_CreateUserMappingStmt _ => 317
  | N_AlterUserMappingStmt _ => 318
  | N_DropUserMappingStmt _ => 319
  | N_ImportForeignSchemaStmt _ => 324
  | N_CreatePolicyStmt _ => 333
  | N_AlterPolicyStmt _ => 334
  | N_CreateAmStmt _ => 336
  | N_CreateTrigStmt _ => 276
  | N_CreateEventTrigStmt _ => 328
  | N_AlterEventTrigStmt _ => 329
  | N_CreatePLangStmt _ => 277
  | N_CreateRoleStmt _ => 278
  | N_AlterRoleStmt _ => 279
  | N_AlterRoleSetStmt _ => 288
  | N_DropRoleStmt _ => 280
  | N_CreateSeqStmt _ => 271
  | N_AlterSeqStmt _ => 272
  | N_DefineStmt _ => 248
  | N_CreateDomainStmt _ => 265
  | N_CreateOpClassStmt _ => 291
  | N_CreateOpClassItem _ => 380
  | N_CreateOpFamilyStmt _ => 292
  | N_AlterOpFamilyStmt _ => 293
  | N_DropStmt _ => 249
  | N_TruncateStmt _ => 250
  | N_CommentStmt _ => 251
  | N_SecLabelStmt _ => 322
  | N_DeclareCursorStmt _ => 297
  | N_ClosePortalStmt _ => 244
  | N_FetchStmt _ => 252
  | N_IndexStmt _ => 253
  | N_CreateStatsStmt _ => 342
  | N_AlterStatsStmt _ => 345
  | N_CreateFunctionStmt _ => 254
  | N_FunctionParameter _ => 382
  | N_AlterFunctionStmt _ => 255
  | N_DoStmt _ => 256
  | N_CallStmt _ => 344
  | N_RenameStmt _ => 257
  | N_AlterObjectDependsStmt _ => 300
  | N_AlterObjectSchemaStmt _ => 301
  | N_AlterOwnerStmt _ => 302
  | N_AlterOperatorStmt _ => 303
  | N_AlterTypeStmt _ => 304
  | N_RuleStmt _ => 258
  | N_NotifyStmt _ => 259
  | N_ListenStmt _ => 260
  | N_UnlistenStmt _ => 261
  | N_TransactionStmt _ => 262
  | N_CompositeTypeStmt _ => 307
  | N_CreateEnumStmt _ => 308
  | N_CreateRangeStmt _ => 309
  | N_AlterEnumStmt _ => 310
  | N_ViewStmt _ => 263
  | N_LoadStmt _ => 264
  | N_CreatedbStmt _ => 266
  | N_AlterDatabaseStmt _ => 286
  | N_AlterDatabaseSetStmt _ => 287
  | N_DropdbStmt _ => 267
  | N_AlterSystemStmt _ => 332
  | N_ClusterStmt _ => 245
  | N_VacuumStmt _ => 268
  | N_VacuumRelation _ => 397
  | N_ExplainStmt _ => 269
  | N_CreateTableAsStmt _ => 270
  | N_RefreshMatViewStmt _ => 330
  | N_CheckPointStmt _ => 284
  | N_DiscardStmt _ => 275
  | N_LockStmt _ => 281
  | N_ConstraintsSetStmt _ => 282
  | N_ReindexStmt _ => 283
  | N_CreateConversionStmt _ => 289
  | N_CreateCastStmt _ => 290
  | N_CreateTransformStmt _ => 335
  | N_PrepareStmt _ => 294
  | N_ExecuteStmt _ => 295
  | N_DeallocateStmt _ => 296
  | N_DropOwnedStmt _ => 305
  | N_ReassignOwnedStmt _ => 306
  | N_AlterTSDictionaryStmt _ => 311
  | N_AlterTSConfigurationStmt _ => 312
  | N_CreatePublicationStmt _ => 337
  | N_AlterPublicationStmt _ => 338
  | N_CreateSubscriptionStmt _ => 339
  | N_AlterSubscriptionStmt _ => 340
  | N_DropSubscriptionStmt _ => 341
  | N_FuncExpr _ => 113
  | N_Other tag => tag
  end%Z.

(** ** [IsA] and [castNode]

    [IsA(NULL, _)] reads through a null pointer; a null cell ([N_List []]) is
    outside the contract of these tests, and no [IsA_*] holds of it.
    [castNode] is a plain cast when assertions are off: using it on a node of
    another kind is outside the contract ([undef]). *)
Definition IsA_List (n : Node) : bool := match n with N_List (_ :: _) => true | _ => false end.
Definition castNode_List (n : Node) (k : list Node -> dep) : dep :=
  match n with N_List l => k l | _ => undef end.

Definition IsA_RangeVar (n : Node) : bool := match n with N_RangeVar _ => true | _ => false end.
Definition IsA_Alias (n : Node) : bool := match n with N_Alias _ => true | _ => false end.
Definition IsA_TypeName (n : Node) : bool := match n with N_TypeName _ => true | _ => false end.
Definition IsA_ColumnRef (n : Node) : bool := match n with N_ColumnRef _ => true | _ => false end.
Definition IsA_ParamRef (n : Node) : bool := match n with N_ParamRef _ => true | _ => false end.
Definition IsA_A_Expr (n : Node) : bool := match n with N_A_Expr _ => true | _ => false end.
Definition IsA_A_Const (n : Node) : bool := match n with N_A_Const _ => true | _ => false end.
Definition IsA_TypeCast (n : Node) : bool := match n with N_TypeCast _ => true | _ => false end.
Definition IsA_CollateClause (n : Node) : bool := match n with N_CollateClause _ => true | _ => false end.
Definition IsA_RoleSpec (n : Node) : bool := match n with N_RoleSpec _ => true | _ => false end.
Definition IsA_WindowDef (n : Node) : bool := match n with N_WindowDef _ => true | _ => false end.
Definition IsA_SortBy (n : Node) : bool := match n with N_SortBy _ => true | _ => false end.
Definition IsA_FuncCall (n : Node) : bool := match n with N_FuncCall _ => true | _ => false end.
Definition IsA_A_Star (n : Node) : bool := match n with N_A_Star _ => true | _ => false end.
Definition IsA_A_Indices (n : Node) : bool := match n with N_A_Indices _ => true | _ => false end.
Definition IsA_A_Indirection (n : Node) : bool := match n with N_A_Indirection _ => true | _ => false end.
Definition IsA_A_ArrayExpr (n : Node) : bool := match n with N_A_ArrayExpr _ => true | _ => false end.
Definition IsA_ResTarget (n : Node) : bool := match n with N_ResTarget _ => true | _ => false end.
Definition IsA_MultiAssignRef (n : Node) : bool := match n with N_MultiAssignRef _ => true | _ => false end.
Definition IsA_NamedArgExpr (n : Node) : bool := match n with N_NamedArgExpr _ => true | _ => false end.
Definition IsA_BoolExpr (n : Node) : bool := match n with N_BoolExpr _ => true | _ => false end.
Definition IsA_SubLink (n : Node) : bool := match n with N_SubLink _ => true | _ => false end.
Definition IsA_CaseWhen (n : Node) : bool := match n with N_CaseWhen _ => true | _ => false end.
Definition IsA_CaseExpr (n : Node) : bool := match n with N_CaseExpr _ => true | _ => false end.
Definition IsA_RowExpr (n : Node) : bool := match n with N_RowExpr _ => true | _ => false end.
Definition IsA_CoalesceExpr (n : Node) : bool := match n with N_CoalesceExpr _ => true | _ => false end.
Definition IsA_MinMaxExpr (n : Node) : bool := match n with N_MinMaxExpr _ => true | _ => false end.
Definition IsA_SQLValueFunction (n : Node) : bool := match n with N_SQLValueFunction _ => true | _ => false end.
Definition IsA_XmlExpr (n : Node) : bool := match n with N_XmlExpr _ => true | _ => false end.
Definition IsA_XmlSerialize (n : Node) : bool := match n with N_XmlSerialize _ => true | _ => false end.
Definition IsA_NullTest (n : Node) : bool := match n with N_NullTest _ => true | _ => false end.
Definition IsA_BooleanTest (n : Node) : bool := match n with N_BooleanTest _ => true | _ => false end.
Definition IsA_SetToDefault (n : Node) : bool := match n with N_SetToDefault _ => true | _ => false end.
Definition IsA_CurrentOfExpr (n : Node) : bool := match n with N_CurrentOfExpr _ => true | _ => false end.
Definition IsA_GroupingFunc (n : Node) : bool := match n with N_GroupingFunc _ => true | _ => false end.
Definition IsA_DefElem (n : Node) : bool := match n with N_DefElem _ => true | _ => false end.
Definition IsA_IndexElem (n : Node) : bool := match n with N_IndexElem _ => true | _ => false end.
Definition IsA_Constraint (n : Node) : bool := match n with N_Constraint _ => true | _ => false end.
Definition IsA_ColumnDef (n : Node) : bool := match n with N_ColumnDef _ => true | _ => false end.
Definition IsA_JoinExpr (n : Node) : bool := match n with N_JoinExpr _ => true | _ => false end.
Definition IsA_RangeSubselect (n : Node) : bool := match n with N_RangeSubselect _ => true | _ => false end.
Definition IsA_RangeFunction (n : Node) : bool := match n with N_RangeFunction _ => true | _ => false end.
Definition IsA_RangeTableFuncCol (n : Node) : bool := match n with N_RangeTableFuncCol _ => true | _ => false end.
Definition IsA_RangeTableFunc (n : Node) : bool := match n with N_RangeTableFunc _ => true | _ => false end.
Definition IsA_RangeTableSample (n : Node) : bool := match n with N_RangeTableSample _ => true | _ => false end.
Definition IsA_CommonTableExpr (n : Node) : bool := match n with N_CommonTableExpr _ => true | _ => false end.
Definition IsA_WithClause (n : Node) : bool := match n with N_WithClause _ => true | _ => false end.
Definition IsA_InferClause (n : Node) : bool := match n with N_InferClause _ => true | _ => false end.
Definition IsA_OnConflictClause (n : Node) : bool := match n with N_OnConflictClause _ => true | _ => false end.
Definition IsA_LockingClause (n : Node) : bool := match n with N_LockingClause _ => true | _ => false end.
Definition IsA_GroupingSet (n : Node) : bool := match n with N_GroupingSet _ => true | _ => false end.
Definition IsA_IntoClause (n : Node) : bool := match n with N_IntoClause _ => true | _ => false end.
Definition IsA_SelectStmt (n : Node) : bool := match n with N_SelectStmt _ => true | _ => false end.
Definition IsA_InsertStmt (n : Node) : bool := match n with N_InsertStmt _ => true | _ => false end.
Definition IsA_UpdateStmt (n : Node) : bool := match n with N_UpdateStmt _ => true | _ => false end.
Definition IsA_DeleteStmt (n : Node) : bool := match n with N_DeleteStmt _ => true | _ => false end.
Definition IsA_RawStmt (n : Node) : bool := match n with N_RawStmt _ => true | _ => false end.
Definition IsA_AlterTableCmd (n : Node) : bool := match n with N_AlterTableCmd _ => true | _ => false end.
Definition IsA_PartitionBoundSpec (n : Node) : bool := match n with N_PartitionBoundSpec _ => true | _ => false end.
Definition IsA_TableLikeClause (n : Node) : bool := match n with N_TableLikeClause _ => true | _ => false end.
Definition IsA_PartitionElem (n : Node) : bool := match n with N_PartitionElem _ => true | _ => false end.
Definition IsA_PartitionSpec (n : Node) : bool := match n with N_PartitionSpec _ => true | _ => false end.
Definition IsA_PartitionCmd (n : Node) : bool := match n with N_PartitionCmd _ => true | _ => false end.
Definition IsA_TriggerTransition (n : Node) : bool := match n with N_TriggerTransition _ => true | _ => false end.
Definition IsA_CreateSchemaStmt (n : Node) : bool := match n with N_CreateSchemaStmt _ => true | _ => false end.
Definition IsA_AlterTableStmt (n : Node) : bool := match n with N_AlterTableStmt _ => true | _ => false end.
Definition IsA_ReplicaIdentityStmt (n : Node) : bool := match n with N_ReplicaIdentityStmt _ => true | _ => false end.
Definition IsA_AlterCollationStmt (n : Node) : bool := match n with N_AlterCollationStmt _ => true | _ => false end.
Definition IsA_AlterDomainStmt (n : Node) : bool := match n with N_AlterDomainStmt _ => true | _ => false end.
Definition IsA_GrantStmt (n : Node) : bool := match n with N_GrantStmt _ => true | _ => false end.
Definition IsA_ObjectWithArgs (n : Node) : bool := match n with N_ObjectWithArgs _ => true | _ => false end.
Definition IsA_AccessPriv (n : Node) : bool := match n with N_AccessPriv _ => true | _ => false end.
Definition IsA_GrantRoleStmt (n : Node) : bool := match n with N_GrantRoleStmt _ => true | _ => false end.
Definition IsA_AlterDefaultPrivilegesStmt (n : Node) : bool := match n with N_AlterDefaultPrivilegesStmt _ => true | _ => false end.
Definition IsA_CopyStmt (n : Node) : bool := match n with N_CopyStmt _ => true | _ => false end.
Definition IsA_VariableSetStmt (n : Node) : bool := match n with N_VariableSetStmt _ => true | _ => false end.
Definition IsA_VariableShowStmt (n : Node) : bool := match n with N_VariableShowStmt _ => true | _ => false end.
Definition IsA_CreateStmt (n : Node) : bool := match n with N_CreateStmt _ => true | _ => false end.
Definition IsA_CreateTableSpaceStmt (n : Node) : bool := match n with N_CreateTableSpaceStmt _ => true | _ => false end.
Definition IsA_DropTableSpaceStmt (n : Node) : bool := match n with N_DropTableSpaceStmt _ => true | _ => false end.
Definition IsA_AlterTableSpaceOptionsStmt (n : Node) : bool := match n with N_AlterTableSpaceOptionsStmt _ => true | _ => false end.
Definition IsA_AlterTableMoveAllStmt (n : Node) : bool := match n with N_AlterTableMoveAllStmt _ => true | _ => false end.
Definition IsA_CreateExtensionStmt (n : Node) : bool := match n with N_CreateExtensionStmt _ => true | _ => false end.
Definition IsA_AlterExtensionStmt (n : Node) : bool := match n with N_AlterExtensionStmt _ => true | _ => false end.
Definition IsA_AlterExtensionContentsStmt (n : Node) : bool := match n with N_AlterExtensionContentsStmt _ => true | _ => false end.
Definition IsA_CreateFdwStmt (n : Node) : bool := match n with N_CreateFdwStmt _ => true | _ => false end.
Definition IsA_AlterFdwStmt (n : Node) : bool := match n with N_AlterFdwStmt _ => true | _ => false end.
Definition IsA_CreateForeignServerStmt (n : Node) : bool := match n with N_CreateForeignServerStmt _ => true | _ => false end.
Definition IsA_AlterForeignServerStmt (n : Node) : bool := match n with N_AlterForeignServerStmt _ => true | _ => false end.
Definition IsA_CreateForeignTableStmt (n : Node) : bool := match n with N_CreateForeignTableStmt _ => true | _ => false end.
Definition IsA_CreateUserMappingStmt (n : Node) : bool := match n with N_CreateUserMappingStmt _ => true | _ => false end.
Definition IsA_AlterUserMappingStmt (n : Node) : bool := match n with N_AlterUserMappingStmt _ => true | _ => false end.
Definition IsA_DropUserMappingStmt (n : Node) : bool := match n with N_DropUserMappingStmt _ => true | _ => false end.
Definition IsA_ImportForeignSchemaStmt (n : Node) : bool := match n with N_ImportForeignSchemaStmt _ => true | _ => false end.
Definition IsA_CreatePolicyStmt (n : Node) : bool := match n with N_CreatePolicyStmt _ => true | _ => false end.
Definition IsA_AlterPolicyStmt (n : Node) : bool := match n with N_AlterPolicyStmt _ => true | _ => false end.
Definition IsA_CreateAmStmt (n : Node) : bool := match n with N_CreateAmStmt _ => true | _ => false end.
Definition IsA_CreateTrigStmt (n : Node) : bool := match n with N_CreateTrigStmt _ => true | _ => false end.
Definition IsA_CreateEventTrigStmt (n : Node) : bool := match n with N_CreateEventTrigStmt _ => true | _ => false end.
Definition IsA_AlterEventTrigStmt (n : Node) : bool := match n with N_AlterEventTrigStmt _ => true | _ => false end.
Definition IsA_CreatePLangStmt (n : Node) : bool := match n with N_CreatePLangStmt _ => true | _ => false end.
Definition IsA_CreateRoleStmt (n : Node) : bool := match n with N_CreateRoleStmt _ => true | _ => false end.
Definition IsA_AlterRoleStmt (n : Node) : bool := match n with N_AlterRoleStmt _ => true | _ => false end.
Definition IsA_AlterRoleSetStmt (n : Node) : bool := match n with N_AlterRoleSetStmt _ => true | _ => false end.
Definition IsA_DropRoleStmt (n : Node) : bool := match n with N_DropRoleStmt _ => true | _ => false end.
Definition IsA_CreateSeqStmt (n : Node) : bool := match n with N_CreateSeqStmt _ => true | _ => false end.
Definition IsA_AlterSeqStmt (n : Node) : bool := match n with N_AlterSeqStmt _ => true | _ => false end.
Definition IsA_DefineStmt (n : Node) : bool := match n with N_DefineStmt _ => true | _ => false end.
Definition IsA_CreateDomainStmt (n : Node) : bool := match n with N_CreateDomainStmt _ => true | _ => false end.
Definition IsA_CreateOpClassStmt (n : Node) : bool := match n with N_CreateOpClassStmt _ => true | _ => false end.
Definition IsA_CreateOpClassItem (n : Node) : bool := match n with N_CreateOpClassItem _ => true | _ => false end.
Definition IsA_CreateOpFamilyStmt (n : Node) : bool := match n with N_CreateOpFamilyStmt _ => true | _ => false end.
Definition IsA_AlterOpFamilyStmt (n : Node) : bool := match n with N_AlterOpFamilyStmt _ => true | _ => false end.
Definition IsA_DropStmt (n : Node) : bool := match n with N_DropStmt _ => true | _ => false end.
Definition IsA_TruncateStmt (n : Node) : bool := match n with N_TruncateStmt _ => true | _ => false end.
Definition IsA_CommentStmt (n : Node) : bool := match n with N_CommentStmt _ => true | _ => false end.
Definition IsA_SecLabelStmt (n : Node) : bool := match n with N_SecLabelStmt _ => true | _ => false end.
Definition IsA_DeclareCursorStmt (n : Node) : bool := match n with N_DeclareCursorStmt _ => true | _ => false end.
Definition IsA_ClosePortalStmt (n : Node) : bool := match n with N_ClosePortalStmt _ => true | _ => false end.
Definition IsA_FetchStmt (n : Node) : bool := match n with N_FetchStmt _ => true | _ => false end.
Definition IsA_IndexStmt (n : Node) : bool := match n with N_IndexStmt _ => true | _ => false end.
Definition IsA_CreateStatsStmt (n : Node) : bool := match n with N_CreateStatsStmt _ => true | _ => false end.
Definition IsA_AlterStatsStmt (n : Node) : bool := match n with N_AlterStatsStmt _ => true | _ => false end.
Definition IsA_CreateFunctionStmt (n : Node) : bool := match n with N_CreateFunctionStmt _ => true | _ => false end.
Definition IsA_FunctionParameter (n : Node) : bool := match n with N_FunctionParameter _ => true | _ => false end.
Definition IsA_AlterFunctionStmt (n : Node) : bool := match n with N_AlterFunctionStmt _ => true | _ => false end.
Definition IsA_DoStmt (n : Node) : bool := match n with N_DoStmt _ => true | _ => false end.
Definition IsA_CallStmt (n : Node) : bool := match n with N_CallStmt _ => true | _ => false end.
Definition IsA_RenameStmt (n : Node) : bool := match n with N_RenameStmt _ => true | _ => false end.
Definition IsA_AlterObjectDependsStmt (n : Node) : bool := match n with N_AlterObjectDependsStmt _ => true | _ => false end.
Definition IsA_AlterObjectSchemaStmt (n : Node) : bool := match n with N_AlterObjectSchemaStmt _ => true | _ => false end.
Definition IsA_AlterOwnerStmt (n : Node) : bool := match n with N_AlterOwnerStmt _ => true | _ => false end.
Definition IsA_AlterOperatorStmt (n : Node) : bool := match n with N_AlterOperatorStmt _ => true | _ => false end.
Definition IsA_AlterTypeStmt (n : Node) : bool := match n with N_AlterTypeStmt _ => true | _ => false end.
Definition IsA_RuleStmt (n : Node) : bool := match n with N_RuleStmt _ => true | _ => false end.
Definition IsA_NotifyStmt (n : Node) : bool := match n with N_NotifyStmt _ => true | _ => false end.
Definition IsA_ListenStmt (n : Node) : bool := match n with N_ListenStmt _ => true | _ => false end.
Definition IsA_UnlistenStmt (n : Node) : bool := match n with N_UnlistenStmt _ => true | _ => false end.
Definition IsA_TransactionStmt (n : Node) : bool := match n with N_TransactionStmt _ => true | _ => false end.
Definition IsA_CompositeTypeStmt (n : Node) : bool := match n with N_CompositeTypeStmt _ => true | _ => false end.
Definition IsA_CreateEnumStmt (n : Node) : bool := match n with N_CreateEnumStmt _ => true | _ => false end.
Definition IsA_CreateRangeStmt (n : Node) : bool := match n with N_CreateRangeStmt _ => true | _ => false end.
Definition IsA_AlterEnumStmt (n : Node) : bool := match n with N_AlterEnumStmt _ => true | _ => false end.
Definition IsA_ViewStmt (n : Node) : bool := match n with N_ViewStmt _ => true | _ => false end.
Definition IsA_LoadStmt (n : Node) : bool := match n with N_LoadStmt _ => true | _ => false end.
Definition IsA_CreatedbStmt (n : Node) : bool := match n with N_CreatedbStmt _ => true | _ => false end.
Definition IsA_AlterDatabaseStmt (n : Node) : bool := match n with N_AlterDatabaseStmt _ => true | _ => false end.
Definition IsA_AlterDatabaseSetStmt (n : Node) : bool := match n with N_AlterDatabaseSetStmt _ => true | _ => false end.
Definition IsA_DropdbStmt (n : Node) : bool := match n with N_DropdbStmt _ => true | _ => false end.
Definition IsA_AlterSystemStmt (n : Node) : bool := match n with N_AlterSystemStmt _ => true | _ => false end.
Definition IsA_ClusterStmt (n : Node) : bool := match n with N_ClusterStmt _ => true | _ => false end.
Definition IsA_VacuumStmt (n : Node) : bool := match n with N_VacuumStmt _ => true | _ => false end.
Definition IsA_VacuumRelation (n : Node) : bool := match n with N_VacuumRelation _ => true | _ => false end.
Definition IsA_ExplainStmt (n : Node) : bool := match n with N_ExplainStmt _ => true | _ => false end.
Definition IsA_CreateTableAsStmt (n : Node) : bool := match n with N_CreateTableAsStmt _ => true | _ => false end.
Definition IsA_RefreshMatViewStmt (n : Node) : bool := match n with N_RefreshMatViewStmt _ => true | _ => false end.
Definition IsA_CheckPointStmt (n : Node) : bool := match n with N_CheckPointStmt _ => true | _ => false end.
Definition IsA_DiscardStmt (n : Node) : bool := match n with N_DiscardStmt _ => true | _ => false end.
Definition IsA_LockStmt (n : Node) : bool := match n with N_LockStmt _ => true | _ => false end.
Definition IsA_ConstraintsSetStmt (n : Node) : bool := match n with N_ConstraintsSetStmt _ => true | _ => false end.
Definition IsA_ReindexStmt (n : Node) : bool := match n with N_ReindexStmt _ => true | _ => false end.
Definition IsA_CreateConversionStmt (n : Node) : bool := match n with N_CreateConversionStmt _ => true | _ => false end.
Definition IsA_CreateCastStmt (n : Node) : bool := match n with N_CreateCastStmt _ => true | _ => false end.
Definition IsA_CreateTransformStmt (n : Node) : bool := match n with N_CreateTransformStmt _ => true | _ => false end.
Definition IsA_PrepareStmt (n : Node) : bool := match n with N_PrepareStmt _ => true | _ => false end.
Definition IsA_ExecuteStmt (n : Node) : bool := match n with N_ExecuteStmt _ => true | _ => false end.
Definition IsA_DeallocateStmt (n : Node) : bool := match n with N_DeallocateStmt _ => true | _ => false end.
Definition IsA_DropOwnedStmt (n : Node) : bool := match n with N_DropOwnedStmt _ => true | _ => false end.
Definition IsA_ReassignOwnedStmt (n : Node) : bool := match n with N_ReassignOwnedStmt _ => true | _ => false end.
Definition IsA_AlterTSDictionaryStmt (n : Node) : bool := match n with N_AlterTSDictionaryStmt _ => true | _ => false end.
Definition IsA_AlterTSConfigurationStmt (n : Node) : bool := match n with N_AlterTSConfigurationStmt _ => true | _ => false end.
Definition IsA_CreatePublicationStmt (n : Node) : bool := match n with N_CreatePublicationStmt _ => true | _ => false end.
Definition IsA_AlterPublicationStmt (n : Node) : bool := match n with N_AlterPublicationStmt _ => true | _ => false end.
Definition IsA_CreateSubscriptionStmt (n : Node) : bool := match n with N_CreateSubscriptionStmt _ => true | _ => false end.
Definition IsA_AlterSubscriptionStmt (n : Node) : bool := match n with N_AlterSubscriptionStmt _ => true | _ => false end.
Definition IsA_DropSubscriptionStmt (n : Node) : bool := match n with N_DropSubscriptionStmt _ => true | _ => false end.
Definition IsA_FuncExpr (n : Node) : bool := match n with N_FuncExpr _ => true | _ => false end.

Definition castNode_RangeVar (n : Node) (k : RangeVar.t Node -> dep) : dep :=
  match n with N_RangeVar x => k x | _ => undef end.
Definition castNode_Alias (n : Node) (k : Alias.t Node -> dep) : dep :=
  match n with N_Alias x => k x | _ => undef end.
Definition castNode_TypeName (n : Node) (k : TypeName.t Node -> dep) : dep :=
  match n with N_TypeName x => k x | _ => undef end.
Definition castNode_ColumnRef (n : Node) (k : ColumnRef.t Node -> dep) : dep :=
  match n with N_ColumnRef x => k x | _ => undef end.
Definition castNode_ParamRef (n : Node) (k : ParamRef.t Node -> dep) : dep :=
  match n with N_ParamRef x => k x | _ => undef end.
Definition castNode_A_Expr (n : Node) (k : A_Expr.t Node -> dep) : dep :=
  match n with N_A_Expr x => k x | _ => undef end.
Definition castNode_A_Const (n : Node) (k : A_Const.t Node -> dep) : dep :=
  match n with N_A_Const x => k x | _ => undef end.
Definition castNode_TypeCast (n : Node) (k : TypeCast.t Node -> dep) : dep :=
  match n with N_TypeCast x => k x | _ => undef end.
Definition castNode_CollateClause (n : Node) (k : CollateClause.t Node -> dep) : dep :=
  match n with N_CollateClause x => k x | _ => undef end.
Definition castNode_RoleSpec (n : Node) (k : RoleSpec.t Node -> dep) : dep :=
  match n with N_RoleSpec x => k x | _ => undef end.
Definition castNode_WindowDef (n : Node) (k : WindowDef.t Node -> dep) : dep :=
  match n with N_WindowDef x => k x | _ => undef end.
Definition castNode_SortBy (n : Node) (k : SortBy.t Node -> dep) : dep :=
  match n with N_SortBy x => k x | _ => undef end.
Definition castNode_FuncCall (n : Node) (k : FuncCall.t Node -> dep) : dep :=
  match n with N_FuncCall x => k x | _ => undef end.
Definition castNode_A_Indices (n : Node) (k : A_Indices.t Node -> dep) : dep :=
  match n with N_A_Indices x => k x | _ => undef end.
Definition castNode_A_Indirection (n : Node) (k : A_Indirection.t Node -> dep) : dep :=
  match n with N_A_Indirection x => k x | _ => undef end.
Definition castNode_A_ArrayExpr (n : Node) (k : A_ArrayExpr.t Node -> dep) : dep :=
  match n with N_A_ArrayExpr x => k x | _ => undef end.
Definition castNode_ResTarget (n : Node) (k : ResTarget.t Node -> dep) : dep :=
  match n with N_ResTarget x => k x | _ => undef end.
Definition castNode_MultiAssignRef (n : Node) (k : MultiAssignRef.t Node -> dep) : dep :=
  match n with N_MultiAssignRef x => k x | _ => undef end.
Definition castNode_NamedArgExpr (n : Node) (k : NamedArgExpr.t Node -> dep) : dep :=
  match n with N_NamedArgExpr x => k x | _ => undef end.
Definition castNode_BoolExpr (n : Node) (k : BoolExpr.t Node -> dep) : dep :=
  match n with N_BoolExpr x => k x | _ => undef end.
Definition castNode_SubLink (n : Node) (k : SubLink.t Node -> dep) : dep :=
  match n with N_SubLink x => k x | _ => undef end.
Definition castNode_CaseWhen (n : Node) (k : CaseWhen.t Node -> dep) : dep :=
  match n with N_CaseWhen x => k x | _ => undef end.
Definition castNode_CaseExpr (n : Node) (k : CaseExpr.t Node -> dep) : dep :=
  match n with N_CaseExpr x => k x | _ => undef end.
Definition castNode_RowExpr (n : Node) (k : RowExpr.t Node -> dep) : dep :=
  match n with N_RowExpr x => k x | _ => undef end.
Definition castNode_CoalesceExpr (n : Node) (k : CoalesceExpr.t Node -> dep) : dep :=
  match n with N_CoalesceExpr x => k x | _ => undef end.
Definition castNode_MinMaxExpr (n : Node) (k : MinMaxExpr.t Node -> dep) : dep :=
  match n with N_MinMaxExpr x => k x | _ => undef end.
Definition castNode_SQLValueFunction (n : Node) (k : SQLValueFunction.t Node -> dep) : dep :=
  match n with N_SQLValueFunction x => k x | _ => undef end.
Definition castNode_XmlExpr (n : Node) (k : XmlExpr.t Node -> dep) : dep :=
  match n with N_XmlExpr x => k x | _ => undef end.
Definition castNode_XmlSerialize (n : Node) (k : XmlSerialize.t Node -> dep) : dep :=
  match n with N_XmlSerialize x => k x | _ => undef end.
Definition castNode_NullTest (n : Node) (k : NullTest.t Node -> dep) : dep :=
  match n with N_NullTest x => k x | _ => undef end.
Definition castNode_BooleanTest (n : Node) (k : BooleanTest.t Node -> dep) : dep :=
  match n with N_BooleanTest x => k x | _ => undef end.
Definition castNode_SetToDefault (n : Node) (k : SetToDefault.t Node -> dep) : dep :=
  match n with N_SetToDefault x => k x | _ => undef end.
Definition castNode_CurrentOfExpr (n : Node) (k : CurrentOfExpr.t Node -> dep) : dep :=
  match n with N_CurrentOfExpr x => k x | _ => undef end.
Definition castNode_GroupingFunc (n : Node) (k : GroupingFunc.t Node -> dep) : dep :=
  match n with N_GroupingFunc x => k x | _ => undef end.
Definition castNode_DefElem (n : Node) (k : DefElem.t Node -> dep) : dep :=
  match n with N_DefElem x => k x | _ => undef end.
Definition castNode_IndexElem (n : Node) (k : IndexElem.t Node -> dep) : dep :=
  match n with N_IndexElem x => k x | _ => undef end.
Definition castNode_Constraint (n : Node) (k : Constraint.t Node -> dep) : dep :=
  match n with N_Constraint x => k x | _ => undef end.
Definition castNode_ColumnDef (n : Node) (k : ColumnDef.t Node -> dep) : dep :=
  match n with N_ColumnDef x => k x | _ => undef end.
Definition castNode_JoinExpr (n : Node) (k : JoinExpr.t Node -> dep) : dep :=
  match n with N_JoinExpr x => k x | _ => undef end.
Definition castNode_RangeSubselect (n : Node) (k : RangeSubselect.t Node -> dep) : dep :=
  match n with N_RangeSubselect x => k x | _ => undef end.
Definition castNode_RangeFunction (n : Node) (k : RangeFunction.t Node -> dep) : dep :=
  match n with N_RangeFunction x => k x | _ => undef end.
Definition castNode_RangeTableFuncCol (n : Node) (k : RangeTableFuncCol.t Node -> dep) : dep :=
  match n with N_RangeTableFuncCol x => k x | _ => undef end.
Definition castNode_RangeTableFunc (n : Node) (k : RangeTableFunc.t Node -> dep) : dep :=
  match n with N_RangeTableFunc x => k x | _ => undef end.
Definition castNode_RangeTableSample (n : Node) (k : RangeTableSample.t Node -> dep) : dep :=
  match n with N_RangeTableSample x => k x | _ => undef end.
Definition castNode_CommonTableExpr (n : Node) (k : CommonTableExpr.t Node -> dep) : dep :=
  match n with N_CommonTableExpr x => k x | _ => undef end.
Definition castNode_WithClause (n : Node) (k : WithClause.t Node -> dep) : dep :=
  match n with N_WithClause x => k x | _ => undef end.
Definition castNode_InferClause (n : Node) (k : InferClause.t Node -> dep) : dep :=
  match n with N_InferClause x => k x | _ => undef end.
Definition castNode_OnConflictClause (n : Node) (k : OnConflictClause.t Node -> dep) : dep :=
  match n with N_OnConflictClause x => k x | _ => undef end.
Definition castNode_LockingClause (n : Node) (k : LockingClause.t Node -> dep) : dep :=
  match n with N_LockingClause x => k x | _ => undef end.
Definition castNode_GroupingSet (n : Node) (k : GroupingSet.t Node -> dep) : dep :=
  match n with N_GroupingSet x => k x | _ => undef end.
Definition castNode_IntoClause (n : Node) (k : IntoClause.t Node -> dep) : dep :=
  match n with N_IntoClause x => k x | _ => undef end.
Definition castNode_SelectStmt (n : Node) (k : SelectStmt.t Node -> dep) : dep :=
  match n with N_SelectStmt x => k x | _ => undef end.
Definition castNode_InsertStmt (n : Node) (k : InsertStmt.t Node -> dep) : dep :=
  match n with N_InsertStmt x => k x | _ => undef end.
Definition castNode_UpdateStmt (n : Node) (k : UpdateStmt.t Node -> dep) : dep :=
  match n with N_UpdateStmt x => k x | _ => undef end.
Definition castNode_DeleteStmt (n : Node) (k : DeleteStmt.t Node -> dep) : dep :=
  match n with N_DeleteStmt x => k x | _ => undef end.
Definition castNode_RawStmt (n : Node) (k : RawStmt.t Node -> dep) : dep :=
  match n with N_RawStmt x => k x | _ => undef end.
Definition castNode_AlterTableCmd (n : Node) (k : AlterTableCmd.t Node -> dep) : dep :=
  match n with N_AlterTableCmd x => k x | _ => undef end.
Definition castNode_PartitionBoundSpec (n : Node) (k : PartitionBoundSpec.t Node -> dep) : dep :=
  match n with N_PartitionBoundSpec x => k x | _ => undef end.
Definition castNode_TableLikeClause (n : Node) (k : TableLikeClause.t Node -> dep) : dep :=
  match n with N_TableLikeClause x => k x | _ => undef end.
Definition castNode_PartitionElem (n : Node) (k : PartitionElem.t Node -> dep) : dep :=
  match n with N_PartitionElem x => k x | _ => undef end.
Definition castNode_PartitionSpec (n : Node) (k : PartitionSpec.t Node -> dep) : dep :=
  match n with N_PartitionSpec x => k x | _ => undef end.
Definition castNode_PartitionCmd (n : Node) (k : PartitionCmd.t Node -> dep) : dep :=
  match n with N_PartitionCmd x => k x | _ => undef end.
Definition castNode_TriggerTransition (n : Node) (k : TriggerTransition.t Node -> dep) : dep :=
  match n with N_TriggerTransition x => k x | _ => undef end.
Definition castNode_CreateSchemaStmt (n : Node) (k : CreateSchemaStmt.t Node -> dep) : dep :=
  match n with N_CreateSchemaStmt x => k x | _ => undef end.
Definition castNode_AlterTableStmt (n : Node) (k : AlterTableStmt.t Node -> dep) : dep :=
  match n with N_AlterTableStmt x => k x | _ => undef end.
Definition castNode_ReplicaIdentityStmt (n : Node) (k : ReplicaIdentityStmt.t Node -> dep) : dep :=
  match n with N_ReplicaIdentityStmt x => k x | _ => undef end.
Definition castNode_AlterCollationStmt (n : Node) (k : AlterCollationStmt.t Node -> dep) : dep :=
  match n with N_AlterCollationStmt x => k x | _ => undef end.
Definition castNode_AlterDomainStmt (n : Node) (k : AlterDomainStmt.t Node -> dep) : dep :=
  match n with N_AlterDomainStmt x => k x | _ => undef end.
Definition castNode_GrantStmt (n : Node) (k : GrantStmt.t Node -> dep) : dep :=
  match n with N_GrantStmt x => k x | _ => undef end.
Definition castNode_ObjectWithArgs (n : Node) (k : ObjectWithArgs.t Node -> dep) : dep :=
  match n with N_ObjectWithArgs x => k x | _ => undef end.
Definition castNode_AccessPriv (n : Node) (k : AccessPriv.t Node -> dep) : dep :=
  match n with N_AccessPriv x => k x | _ => undef end.
Definition castNode_GrantRoleStmt (n : Node) (k : GrantRoleStmt.t Node -> dep) : dep :=
  match n with N_GrantRoleStmt x => k x | _ => undef end.
Definition castNode_AlterDefaultPrivilegesStmt (n : Node) (k : AlterDefaultPrivilegesStmt.t Node -> dep) : dep :=
  match n with N_AlterDefaultPrivilegesStmt x => k x | _ => undef end.
Definition castNode_CopyStmt (n : Node) (k : CopyStmt.t Node -> dep) : dep :=
  match n with N_CopyStmt x => k x | _ => undef end.
Definition castNode_VariableSetStmt (n : Node) (k : VariableSetStmt.t Node -> dep) : dep :=
  match n with N_VariableSetStmt x => k x | _ => undef end.
Definition castNode_VariableShowStmt (n : Node) (k : VariableShowStmt.t Node -> dep) : dep :=
  match n with N_VariableShowStmt x => k x | _ => undef end.
Definition castNode_CreateStmt (n : Node) (k : CreateStmt.t Node -> dep) : dep :=
  match n with N_CreateStmt x => k x | _ => undef end.
Definition castNode_CreateTableSpaceStmt (n : Node) (k : CreateTableSpaceStmt.t Node -> dep) : dep :=
  match n with N_CreateTableSpaceStmt x => k x | _ => undef end.
Definition castNode_DropTableSpaceStmt (n : Node) (k : DropTableSpaceStmt.t Node -> dep) : dep :=
  match n with N_DropTableSpaceStmt x => k x | _ => undef end.
Definition castNode_AlterTableSpaceOptionsStmt (n : Node) (k : AlterTableSpaceOptionsStmt.t Node -> dep) : dep :=
  match n with N_AlterTableSpaceOptionsStmt x => k x | _ => undef end.
Definition castNode_AlterTableMoveAllStmt (n : Node) (k : AlterTableMoveAllStmt.t Node -> dep) : dep :=
  match n with N_AlterTableMoveAllStmt x => k x | _ => undef end.
Definition castNode_CreateExtensionStmt (n : Node) (k : CreateExtensionStmt.t Node -> dep) : dep :=
  match n with N_CreateExtensionStmt x => k x | _ => undef end.
Definition castNode_AlterExtensionStmt (n : Node) (k : AlterExtensionStmt.t Node -> dep) : dep :=
  match n with N_AlterExtensionStmt x => k x | _ => undef end.
Definition castNode_AlterExtensionContentsStmt (n : Node) (k : AlterExtensionContentsStmt.t Node -> dep) : dep :=
  match n with N_AlterExtensionContentsStmt x => k x | _ => undef end.
Definition castNode_CreateFdwStmt (n : Node) (k : CreateFdwStmt.t Node -> dep) : dep :=
  match n with N_CreateFdwStmt x => k x | _ => undef end.
Definition castNode_AlterFdwStmt (n : Node) (k : AlterFdwStmt.t Node -> dep) : dep :=
  match n with N_AlterFdwStmt x => k x | _ => undef end.
Definition castNode_CreateForeignServerStmt (n : Node) (k : CreateForeignServerStmt.t Node -> dep) : dep :=
  match n with N_CreateForeignServerStmt x => k x | _ => undef end.
Definition castNode_AlterForeignServerStmt (n : Node) (k : AlterForeignServerStmt.t Node -> dep) : dep :=
  match n with N_AlterForeignServerStmt x => k x | _ => undef end.
Definition castNode_CreateForeignTableStmt (n : Node) (k : CreateForeignTableStmt.t Node -> dep) : dep :=
  match n with N_CreateForeignTableStmt x => k x | _ => undef end.
Definition castNode_CreateUserMappingStmt (n : Node) (k : CreateUserMappingStmt.t Node -> dep) : dep :=
  match n with N_CreateUserMappingStmt x => k x | _ => undef end.
Definition castNode_AlterUserMappingStmt (n : Node) (k : AlterUserMappingStmt.t Node -> dep) : dep :=
  match n with N_AlterUserMappingStmt x => k x | _ => undef end.
Definition castNode_DropUserMappingStmt (n : Node) (k : DropUserMappingStmt.t Node -> dep) : dep :=
  match n with N_DropUserMappingStmt x => k x | _ => undef end.
Definition castNode_ImportForeignSchemaStmt (n : Node) (k : ImportForeignSchemaStmt.t Node -> dep) : dep :=
  match n with N_ImportForeignSchemaStmt x => k x | _ => undef end.
Definition castNode_CreatePolicyStmt (n : Node) (k : CreatePolicyStmt.t Node -> dep) : dep :=
  match n with N_CreatePolicyStmt x => k x | _ => undef end.
Definition castNode_AlterPolicyStmt (n : Node) (k : AlterPolicyStmt.t Node -> dep) : dep :=
  match n with N_AlterPolicyStmt x => k x | _ => undef end.
Definition castNode_CreateAmStmt (n : Node) (k : CreateAmStmt.t Node -> dep) : dep :=
  match n with N_CreateAmStmt x => k x | _ => undef end.
Definition castNode_CreateTrigStmt (n : Node) (k : CreateTrigStmt.t Node -> dep) : dep :=
  match n with N_CreateTrigStmt x => k x | _ => undef end.
Definition castNode_CreateEventTrigStmt (n : Node) (k : CreateEventTrigStmt.t Node -> dep) : dep :=
  match n with N_CreateEventTrigStmt x => k x | _ => undef end.
Definition castNode_AlterEventTrigStmt (n : Node) (k : AlterEventTrigStmt.t Node -> dep) : dep :=
  match n with N_AlterEventTrigStmt x => k x | _ => undef end.
Definition castNode_CreatePLangStmt (n : Node) (k : CreatePLangStmt.t Node -> dep) : dep :=
  match n with N_CreatePLangStmt x => k x | _ => undef end.
Definition castNode_CreateRoleStmt (n : Node) (k : CreateRoleStmt.t Node -> dep) : dep :=
  match n with N_CreateRoleStmt x => k x | _ => undef end.
Definition castNode_AlterRoleStmt (n : Node) (k : AlterRoleStmt.t Node -> dep) : dep :=
  match n with N_AlterRoleStmt x => k x | _ => undef end.
Definition castNode_AlterRoleSetStmt (n : Node) (k : AlterRoleSetStmt.t Node -> dep) : dep :=
  match n with N_AlterRoleSetStmt x => k x | _ => undef end.
Definition castNode_DropRoleStmt (n : Node) (k : DropRoleStmt.t Node -> dep) : dep :=
  match n with N_DropRoleStmt x => k x | _ => undef end.
Definition castNode_CreateSeqStmt (n : Node) (k : CreateSeqStmt.t Node -> dep) : dep :=
  match n with N_CreateSeqStmt x => k x | _ => undef end.
Definition castNode_AlterSeqStmt (n : Node) (k : AlterSeqStmt.t Node -> dep) : dep :=
  match n with N_AlterSeqStmt x => k x | _ => undef end.
Definition castNode_DefineStmt (n : Node) (k : DefineStmt.t Node -> dep) : dep :=
  match n with N_DefineStmt x => k x | _ => undef end.
Definition castNode_CreateDomainStmt (n : Node) (k : CreateDomainStmt.t Node -> dep) : dep :=
  match n with N_CreateDomainStmt x => k x | _ => undef end.
Definition castNode_CreateOpClassStmt (n : Node) (k : CreateOpClassStmt.t Node -> dep) : dep :=
  match n with N_CreateOpClassStmt x => k x | _ => undef end.
Definition castNode_CreateOpClassItem (n : Node) (k : CreateOpClassItem.t Node -> dep) : dep :=
  match n with N_CreateOpClassItem x => k x | _ => undef end.
Definition castNode_CreateOpFamilyStmt (n : Node) (k : CreateOpFamilyStmt.t Node -> dep) : dep :=
  match n with N_CreateOpFamilyStmt x => k x | _ => undef end.
Definition castNode_AlterOpFamilyStmt (n : Node) (k : AlterOpFamilyStmt.t Node -> dep) : dep :=
  match n with N_AlterOpFamilyStmt x => k x | _ => undef end.
Definition castNode_DropStmt (n : Node) (k : DropStmt.t Node -> dep) : dep :=
  match n with N_DropStmt x => k x | _ => undef end.
Definition castNode_TruncateStmt (n : Node) (k : TruncateStmt.t Node -> dep) : dep :=
  match n with N_TruncateStmt x => k x | _ => undef end.
Definition castNode_CommentStmt (n : Node) (k : CommentStmt.t Node -> dep) : dep :=
  match n with N_CommentStmt x => k x | _ => undef end.
Definition castNode_SecLabelStmt (n : Node) (k : SecLabelStmt.t Node -> dep) : dep :=
  match n with N_SecLabelStmt x => k x | _ => undef end.
Definition castNode_DeclareCursorStmt (n : Node) (k : DeclareCursorStmt.t Node -> dep) : dep :=
  match n with N_DeclareCursorStmt x => k x | _ => undef end.
Definition castNode_ClosePortalStmt (n : Node) (k : ClosePortalStmt.t Node -> dep) : dep :=
  match n with N_ClosePortalStmt x => k x | _ => undef end.
Definition castNode_FetchStmt (n : Node) (k : FetchStmt.t Node -> dep) : dep :=
  match n with N_FetchStmt x => k x | _ => undef end.
Definition castNode_IndexStmt (n : Node) (k : IndexStmt.t Node -> dep) : dep :=
  match n with N_IndexStmt x => k x | _ => undef end.
Definition castNode_CreateStatsStmt (n : Node) (k : CreateStatsStmt.t Node -> dep) : dep :=
  match n with N_CreateStatsStmt x => k x | _ => undef end.
Definition castNode_AlterStatsStmt (n : Node) (k : AlterStatsStmt.t Node -> dep) : dep :=
  match n with N_AlterStatsStmt x => k x | _ => undef end.
Definition castNode_CreateFunctionStmt (n : Node) (k : CreateFunctionStmt.t Node -> dep) : dep :=
  match n with N_CreateFunctionStmt x => k x | _ => undef end.
Definition castNode_FunctionParameter (n : Node) (k : FunctionParameter.t Node -> dep) : dep :=
  match n with N_FunctionParameter x => k x | _ => undef end.
Definition castNode_AlterFunctionStmt (n : Node) (k : AlterFunctionStmt.t Node -> dep) : dep :=
  match n with N_AlterFunctionStmt x => k x | _ => undef end.
Definition castNode_DoStmt (n : Node) (k : DoStmt.t Node -> dep) : dep :=
  match n with N_DoStmt x => k x | _ => undef end.
Definition castNode_CallStmt (n : Node) (k : CallStmt.t Node -> dep) : dep :=
  match n with N_CallStmt x => k x | _ => undef end.
Definition castNode_RenameStmt (n : Node) (k : RenameStmt.t Node -> dep) : dep :=
  match n with N_RenameStmt x => k x | _ => undef end.
Definition castNode_AlterObjectDependsStmt (n : Node) (k : AlterObjectDependsStmt.t Node -> dep) : dep :=
  match n with N_AlterObjectDependsStmt x => k x | _ => undef end.
Definition castNode_AlterObjectSchemaStmt (n : Node) (k : AlterObjectSchemaStmt.t Node -> dep) : dep :=
  match n with N_AlterObjectSchemaStmt x => k x | _ => undef end.
Definition castNode_AlterOwnerStmt (n : Node) (k : AlterOwnerStmt.t Node -> dep) : dep :=
  match n with N_AlterOwnerStmt x => k x | _ => undef end.
Definition castNode_AlterOperatorStmt (n : Node) (k : AlterOperatorStmt.t Node -> dep) : dep :=
  match n with N_AlterOperatorStmt x => k x | _ => undef end.
Definition castNode_AlterTypeStmt (n : Node) (k : AlterTypeStmt.t Node -> dep) : dep :=
  match n with N_AlterTypeStmt x => k x | _ => undef end.
Definition castNode_RuleStmt (n : Node) (k : RuleStmt.t Node -> dep) : dep :=
  match n with N_RuleStmt x => k x | _ => undef end.
Definition castNode_NotifyStmt (n : Node) (k : NotifyStmt.t Node -> dep) : dep :=
  match n with N_NotifyStmt x => k x | _ => undef end.
Definition castNode_ListenStmt (n : Node) (k : ListenStmt.t Node -> dep) : dep :=
  match n with N_ListenStmt x => k x | _ => undef end.
Definition castNode_UnlistenStmt (n : Node) (k : UnlistenStmt.t Node -> dep) : dep :=
  match n with N_UnlistenStmt x => k x | _ => undef end.
Definition castNode_TransactionStmt (n : Node) (k : TransactionStmt.t Node -> dep) : dep :=
  match n with N_TransactionStmt x => k x | _ => undef end.
Definition castNode_CompositeTypeStmt (n : Node) (k : CompositeTypeStmt.t Node -> dep) : dep :=
  match n with N_CompositeTypeStmt x => k x | _ => undef end.
Definition castNode_CreateEnumStmt (n : Node) (k : CreateEnumStmt.t Node -> dep) : dep :=
  match n with N_CreateEnumStmt x => k x | _ => undef end.
Definition castNode_CreateRangeStmt (n : Node) (k : CreateRangeStmt.t Node -> dep) : dep :=
  match n with N_CreateRangeStmt x => k x | _ => undef end.
Definition castNode_AlterEnumStmt (n : Node) (k : AlterEnumStmt.t Node -> dep) : dep :=
  match n with N_AlterEnumStmt x => k x | _ => undef end.
Definition castNode_ViewStmt (n : Node) (k : ViewStmt.t Node -> dep) : dep :=
  match n with N_ViewStmt x => k x | _ => undef end.
Definition castNode_LoadStmt (n : Node) (k : LoadStmt.t Node -> dep) : dep :=
  match n with N_LoadStmt x => k x | _ => undef end.
Definition castNode_CreatedbStmt (n : Node) (k : CreatedbStmt.t Node -> dep) : dep :=
  match n with N_CreatedbStmt x => k x | _ => undef end.
Definition castNode_AlterDatabaseStmt (n : Node) (k : AlterDatabaseStmt.t Node -> dep) : dep :=
  match n with N_AlterDatabaseStmt x => k x | _ => undef end.
Definition castNode_AlterDatabaseSetStmt (n : Node) (k : AlterDatabaseSetStmt.t Node -> dep) : dep :=
  match n with N_AlterDatabaseSetStmt x => k x | _ => undef end.
Definition castNode_DropdbStmt (n : Node) (k : DropdbStmt.t Node -> dep) : dep :=
  match n with N_DropdbStmt x => k x | _ => undef end.
Definition castNode_AlterSystemStmt (n : Node) (k : AlterSystemStmt.t Node -> dep) : dep :=
  match n with N_AlterSystemStmt x => k x | _ => undef end.
Definition castNode_ClusterStmt (n : Node) (k : ClusterStmt.t Node -> dep) : dep :=
  match n with N_ClusterStmt x => k x | _ => undef end.
Definition castNode_VacuumStmt (n : Node) (k : VacuumStmt.t Node -> dep) : dep :=
  match n with N_VacuumStmt x => k x | _ => undef end.
Definition castNode_VacuumRelation (n : Node) (k : VacuumRelation.t Node -> dep) : dep :=
  match n with N_VacuumRelation x => k x | _ => undef end.
Definition castNode_ExplainStmt (n : Node) (k : ExplainStmt.t Node -> dep) : dep :=
  match n with N_ExplainStmt x => k x | _ => undef end.
Definition castNode_CreateTableAsStmt (n : Node) (k : CreateTableAsStmt.t Node -> dep) : dep :=
  match n with N_CreateTableAsStmt x => k x | _ => undef end.
Definition castNode_RefreshMatViewStmt (n : Node) (k : RefreshMatViewStmt.t Node -> dep) : dep :=
  match n with N_RefreshMatViewStmt x => k x | _ => undef end.
Definition castNode_DiscardStmt (n : Node) (k : DiscardStmt.t Node -> dep) : dep :=
  match n with N_DiscardStmt x => k x | _ => undef end.
Definition castNode_LockStmt (n : Node) (k : LockStmt.t Node -> dep) : dep :=
  match n with N_LockStmt x => k x | _ => undef end.
Definition castNode_ConstraintsSetStmt (n : Node) (k : ConstraintsSetStmt.t Node -> dep) : dep :=
  match n with N_ConstraintsSetStmt x => k x | _ => undef end.
Definition castNode_ReindexStmt (n : Node) (k : ReindexStmt.t Node -> dep) : dep :=
  match n with N_ReindexStmt x => k x | _ => undef end.
Definition castNode_CreateConversionStmt (n : Node) (k : CreateConversionStmt.t Node -> dep) : dep :=
  match n with N_CreateConversionStmt x => k x | _ => undef end.
Definition castNode_CreateCastStmt (n : Node) (k : CreateCastStmt.t Node -> dep) : dep :=
  match n with N_CreateCastStmt x => k x | _ => undef end.
Definition castNode_CreateTransformStmt (n : Node) (k : CreateTransformStmt.t Node -> dep) : dep :=
  match n with N_CreateTransformStmt x => k x | _ => undef end.
Definition castNode_PrepareStmt (n : Node) (k : PrepareStmt.t Node -> dep) : dep :=
  match n with N_PrepareStmt x => k x | _ => undef end.
Definition castNode_ExecuteStmt (n : Node) (k : ExecuteStmt.t Node -> dep) : dep :=
  match n with N_ExecuteStmt x => k x | _ => undef end.
Definition castNode_DeallocateStmt (n : Node) (k : DeallocateStmt.t Node -> dep) : dep :=
  match n with N_DeallocateStmt x => k x | _ => undef end.
Definition castNode_DropOwnedStmt (n : Node) (k : DropOwnedStmt.t Node -> dep) : dep :=
  match n with N_DropOwnedStmt x => k x | _ => undef end.
Definition castNode_ReassignOwnedStmt (n : Node) (k : ReassignOwnedStmt.t Node -> dep) : dep :=
  match n with N_ReassignOwnedStmt x => k x | _ => undef end.
Definition castNode_AlterTSDictionaryStmt (n : Node) (k : AlterTSDictionaryStmt.t Node -> dep) : dep :=
  match n with N_AlterTSDictionaryStmt x => k x | _ => undef end.
Definition castNode_AlterTSConfigurationStmt (n : Node) (k : AlterTSConfigurationStmt.t Node -> dep) : dep :=
  match n with N_AlterTSConfigurationStmt x => k x | _ => undef end.
Definition castNode_CreatePublicationStmt (n : Node) (k : CreatePublicationStmt.t Node -> dep) : dep :=
  match n with N_CreatePublicationStmt x => k x | _ => undef end.
Definition castNode_AlterPublicationStmt (n : Node) (k : AlterPublicationStmt.t Node -> dep) : dep :=
  match n with N_AlterPublicationStmt x => k x | _ => undef end.
Definition castNode_CreateSubscriptionStmt (n : Node) (k : CreateSubscriptionStmt.t Node -> dep) : dep :=
  match n with N_CreateSubscriptionStmt x => k x | _ => undef end.
Definition castNode_AlterSubscriptionStmt (n : Node) (k : AlterSubscriptionStmt.t Node -> dep) : dep :=
  match n with N_AlterSubscriptionStmt x => k x | _ => undef end.
Definition castNode_DropSubscriptionStmt (n : Node) (k : DropSubscriptionStmt.t Node -> dep) : dep :=
  match n with N_DropSubscriptionStmt x => k x | _ => undef end.
Definition castNode_FuncExpr (n : Node) (k : FuncExpr.t Node -> dep) : dep :=
  match n with N_FuncExpr x => k x | _ => undef end.

(** [strVal] and [intVal] read a member of the union. *)
Definition value_str (v : Value) (k : string -> dep) : dep :=
  match v with Float s | String_ s | BitString s => k s | _ => undef end.
Definition value_int (v : Value) (k : Z -> dep) : dep :=
  match v with Integer z => k z | _ => undef end.
Definition strVal (n : Node) (k : string -> dep) : dep :=
  match n with N_Value v => value_str v k | _ => undef end.
Definition intVal (n : Node) (k : Z -> dep) : dep :=
  match n with N_Value v => value_int v k | _ => undef end.

Definition IsA_String (n : Node) : bool :=
  match n with N_Value (String_ _) => true | _ => false end.
Definition IsA_Integer (n : Node) : bool :=
  match n with N_Value (Integer _) => true | _ => false end.

(** [linitial], [lsecond], ...: a cell past the end of the list is outside the
    contract. *)
Definition linitial {A} (l : list A) (k : A -> dep) : dep :=
  match l with x :: _ => k x | _ => undef end.
Definition lsecond {A} (l : list A) (k : A -> dep) : dep :=
  match l with _ :: x :: _ => k x | _ => undef end.
Definition lthird {A} (l : list A) (k : A -> dep) : dep :=
  match l with _ :: _ :: x :: _ => k x | _ => undef end.
Definition lfourth {A} (l : list A) (k : A -> dep) : dep :=
  match l with _ :: _ :: _ :: x :: _ => k x | _ => undef end.
Definition llast {A} (l : list A) (k : A -> dep) : dep :=
  match last l with Some x => k x | None => undef end.

(** [list_length(l) > 0] and [p != NULL]. *)
Definition nonempty {A} (l : list A) : bool := match l with [] => false | _ => true end.
Definition notnull {A} (p : option A) : bool := match p with None => false | _ => true end.

(** ** Induction over a tree

    [children P n]: [P] holds of every node directly below [n], through the
    structs between.  [her P n]: [P] holds of [n] and of all nodes below. *)
#[universes(polymorphic)]
Definition children@{s;u +|+} (P : Node -> Type@{s;u}) (n : Node) : Type :=
  match n with
  | N_List l => list_all Node P l
  | N_Value _ | N_Other _ => unit
  | N_RangeVar x => RangeVar.t_all Node P x
  | N_Alias x => Alias.t_all Node P x
  | N_TypeName x => TypeName.t_all Node P x
  | N_ColumnRef x => ColumnRef.t_all Node P x
  | N_ParamRef x => ParamRef.t_all Node P x
  | N_A_Expr x => A_Expr.t_all Node P x
  | N_A_Const x => A_Const.t_all Node P x
  | N_TypeCast x => TypeCast.t_all Node P x
  | N_CollateClause x => CollateClause.t_all Node P x
  | N_RoleSpec x => RoleSpec.t_all Node P x
  | N_WindowDef x => WindowDef.t_all Node P x
  | N_SortBy x => SortBy.t_all Node P x
  | N_FuncCall x => FuncCall.t_all Node P x
  | N_A_Star x => A_Star.t_all Node P x
  | N_A_Indices x => A_Indices.t_all Node P x
  | N_A_Indirection x => A_Indirection.t_all Node P x
  | N_A_ArrayExpr x => A_ArrayExpr.t_all Node P x
  | N_ResTarget x => ResTarget.t_all Node P x
  | N_MultiAssignRef x => MultiAssignRef.t_all Node P x
  | N_NamedArgExpr x => NamedArgExpr.t_all Node P x
  | N_BoolExpr x => BoolExpr.t_all Node P x
  | N_SubLink x => SubLink.t_all Node P x
  | N_CaseWhen x => CaseWhen.t_all Node P x
  | N_CaseExpr x => CaseExpr.t_all Node P x
  | N_RowExpr x => RowExpr.t_all Node P x
  | N_CoalesceExpr x => CoalesceExpr.t_all Node P x
  | N_MinMaxExpr x => MinMaxExpr.t_all Node P x
  | N_SQLValueFunction x => SQLValueFunction.t_all Node P x
  | N_XmlExpr x => XmlExpr.t_all Node P x
  | N_XmlSerialize x => XmlSerialize.t_all Node P x
  | N_NullTest x => NullTest.t_all Node P x
  | N_BooleanTest x => BooleanTest.t_all Node P x
  | N_SetToDefault x => SetToDefault.t_all Node P x
  | N_CurrentOfExpr x => CurrentOfExpr.t_all Node P x
  | N_GroupingFunc x => GroupingFunc.t_all Node P x
  | N_DefElem x => DefElem.t_all Node P x
  | N_IndexElem x => IndexElem.t_all Node P x
  | N_Constraint x => Constraint.t_all Node P x
  | N_ColumnDef x => ColumnDef.t_all Node P x
  | N_JoinExpr x => JoinExpr.t_all Node P x
  | N_RangeSubselect x => RangeSubselect.t_all Node P x
  | N_RangeFunction x => RangeFunction.t_all Node P x
  | N_RangeTableFuncCol x => RangeTableFuncCol.t_all Node P x
  | N_RangeTableFunc x => RangeTableFunc.t_all Node P x
  | N_RangeTableSample x => RangeTableSample.t_all Node P x
  | N_CommonTableExpr x => CommonTableExpr.t_all Node P x
  | N_WithClause x => WithClause.t_all Node P x
  | N_InferClause x => InferClause.t_all Node P x
  | N_OnConflictClause x => OnConflictClause.t_all Node P x
  | N_LockingClause x => LockingClause.t_all Node P x
  | N_GroupingSet x => GroupingSet.t_all Node P x
  | N_IntoClause x => IntoClause.t_all Node P x
  | N_SelectStmt x => SelectStmt.t_all Node P x
  | N_InsertStmt x => InsertStmt.t_all Node P x
  | N_UpdateStmt x => UpdateStmt.t_all Node P x
  | N_DeleteStmt x => DeleteStmt.t_all Node P x
  | N_RawStmt x => RawStmt.t_all Node P x
  | N_AlterTableCmd x => AlterTableCmd.t_all Node P x
  | N_PartitionBoundSpec x => PartitionBoundSpec.t_all Node P x
  | N_TableLikeClause x => TableLikeClause.t_all Node P x
  | N_PartitionElem x => PartitionElem.t_all Node P x
  | N_PartitionSpec x => PartitionSpec.t_all Node P x
  | N_PartitionCmd x => PartitionCmd.t_all Node P x
  | N_TriggerTransition x => TriggerTransition.t_all Node P x
  | N_CreateSchemaStmt x => CreateSchemaStmt.t_all Node P x
  | N_AlterTableStmt x => AlterTableStmt.t_all Node P x
  | N_ReplicaIdentityStmt x => ReplicaIdentityStmt.t_all Node P x
  | N_AlterCollationStmt x => AlterCollationStmt.t_all Node P x
  | N_AlterDomainStmt x => AlterDomainStmt.t_all Node P x
  | N_GrantStmt x => GrantStmt.t_all Node P x
  | N_ObjectWithArgs x => ObjectWithArgs.t_all Node P x
  | N_AccessPriv x => AccessPriv.t_all Node P x
  | N_GrantRoleStmt x => GrantRoleStmt.t_all Node P x
  | N_AlterDefaultPrivilegesStmt x => AlterDefaultPrivilegesStmt.t_all Node P x
  | N_CopyStmt x => CopyStmt.t_all Node P x
  | N_VariableSetStmt x => VariableSetStmt.t_all Node P x
  | N_VariableShowStmt x => VariableShowStmt.t_all Node P x
  | N_CreateStmt x => CreateStmt.t_all Node P x
  | N_CreateTableSpaceStmt x => CreateTableSpaceStmt.t_all Node P x
  | N_DropTableSpaceStmt x => DropTableSpaceStmt.t_all Node P x
  | N_AlterTableSpaceOptionsStmt x => AlterTableSpaceOptionsStmt.t_all Node P x
  | N_AlterTableMoveAllStmt x => AlterTableMoveAllStmt.t_all Node P x
  | N_CreateExtensionStmt x => CreateExtensionStmt.t_all Node P x
  | N_AlterExtensionStmt x => AlterExtensionStmt.t_all Node P x
  | N_AlterExtensionContentsStmt x => AlterExtensionContentsStmt.t_all Node P x
  | N_CreateFdwStmt x => CreateFdwStmt.t_all Node P x
  | N_AlterFdwStmt x => AlterFdwStmt.t_all Node P x
  | N_CreateForeignServerStmt x => CreateForeignServerStmt.t_all Node P x
  | N_AlterForeignServerStmt x => AlterForeignServerStmt.t_all Node P x
  | N_CreateForeignTableStmt x => CreateForeignTableStmt.t_all Node P x
  | N_CreateUserMappingStmt x => CreateUserMappingStmt.t_all Node P x
  | N_AlterUserMappingStmt x => AlterUserMappingStmt.t_all Node P x
  | N_DropUserMappingStmt x => DropUserMappingStmt.t_all Node P x
  | N_ImportForeignSchemaStmt x => ImportForeignSchemaStmt.t_all Node P x
  | N_CreatePolicyStmt x => CreatePolicyStmt.t_all Node P x
  | N_AlterPolicyStmt x => AlterPolicyStmt.t_all Node P x
  | N_CreateAmStmt x => CreateAmStmt.t_all Node P x
  | N_CreateTrigStmt x => CreateTrigStmt.t_all Node P x
  | N_CreateEventTrigStmt x => CreateEventTrigStmt.t_all Node P x
  | N_AlterEventTrigStmt x => AlterEventTrigStmt.t_all Node P x
  | N_CreatePLangStmt x => CreatePLangStmt.t_all Node P x
  | N_CreateRoleStmt x => CreateRoleStmt.t_all Node P x
  | N_AlterRoleStmt x => AlterRoleStmt.t_all Node P x
  | N_AlterRoleSetStmt x => AlterRoleSetStmt.t_all Node P x
  | N_DropRoleStmt x => DropRoleStmt.t_all Node P x
  | N_CreateSeqStmt x => CreateSeqStmt.t_all Node P x
  | N_AlterSeqStmt x => AlterSeqStmt.t_all Node P x
  | N_DefineStmt x => DefineStmt.t_all Node P x
  | N_CreateDomainStmt x => CreateDomainStmt.t_all Node P x
  | N_CreateOpClassStmt x => CreateOpClassStmt.t_all Node P x
  | N_CreateOpClassItem x => CreateOpClassItem.t_all Node P x
  | N_CreateOpFamilyStmt x => CreateOpFamilyStmt.t_all Node P x
  | N_AlterOpFamilyStmt x => AlterOpFamilyStmt.t_all Node P x
  | N_DropStmt x => DropStmt.t_all Node P x
  | N_TruncateStmt x => TruncateStmt.t_all Node P x
  | N_CommentStmt x => CommentStmt.t_all Node P x
  | N_SecLabelStmt x => SecLabelStmt.t_all Node P x
  | N_DeclareCursorStmt x => DeclareCursorStmt.t_all Node P x
  | N_ClosePortalStmt x => ClosePortalStmt.t_all Node P x
  | N_FetchStmt x => FetchStmt.t_all Node P x
  | N_IndexStmt x => IndexStmt.t_all Node P x
  | N_CreateStatsStmt x => CreateStatsStmt.t_all Node P x
  | N_AlterStatsStmt x => AlterStatsStmt.t_all Node P x
  | N_CreateFunctionStmt x => CreateFunctionStmt.t_all Node P x
  | N_FunctionParameter x => FunctionParameter.t_all Node P x
  | N_AlterFunctionStmt x => AlterFunctionStmt.t_all Node P x
  | N_DoStmt x => DoStmt.t_all Node P x
  | N_CallStmt x => CallStmt.t_all Node P x
  | N_RenameStmt x => RenameStmt.t_all Node P x
  | N_AlterObjectDependsStmt x => AlterObjectDependsStmt.t_all Node P x
  | N_AlterObjectSchemaStmt x => AlterObjectSchemaStmt.t_all Node P x
  | N_AlterOwnerStmt x => AlterOwnerStmt.t_all Node P x
  | N_AlterOperatorStmt x => AlterOperatorStmt.t_all Node P x
  | N_AlterTypeStmt x => AlterTypeStmt.t_all Node P x
  | N_RuleStmt x => RuleStmt.t_all Node P x
  | N_NotifyStmt x => NotifyStmt.t_all Node P x
  | N_ListenStmt x => ListenStmt.t_all Node P x
  | N_UnlistenStmt x => UnlistenStmt.t_all Node P x
  | N_TransactionStmt x => TransactionStmt.t_all Node P x
  | N_CompositeTypeStmt x => CompositeTypeStmt.t_all Node P x
  | N_CreateEnumStmt x => CreateEnumStmt.t_all Node P x
  | N_CreateRangeStmt x => CreateRangeStmt.t_all Node P x
  | N_AlterEnumStmt x => AlterEnumStmt.t_all Node P x
  | N_ViewStmt x => ViewStmt.t_all Node P x
  | N_LoadStmt x => LoadStmt.t_all Node P x
  | N_CreatedbStmt x => CreatedbStmt.t_all Node P x
  | N_AlterDatabaseStmt x => AlterDatabaseStmt.t_all Node P x
  | N_AlterDatabaseSetStmt x => AlterDatabaseSetStmt.t_all Node P x
  | N_DropdbStmt x => DropdbStmt.t_all Node P x
  | N_AlterSystemStmt x => AlterSystemStmt.t_all Node P x
  | N_ClusterStmt x => ClusterStmt.t_all Node P x
  | N_VacuumStmt x => VacuumStmt.t_all Node P x
  | N_VacuumRelation x => VacuumRelation.t_all Node P x
  | N_ExplainStmt x => ExplainStmt.t_all Node P x
  | N_CreateTableAsStmt x => CreateTableAsStmt.t_all Node P x
  | N_RefreshMatViewStmt x => RefreshMatViewStmt.t_all Node P x
  | N_CheckPointStmt x => CheckPointStmt.t_all Node P x
  | N_DiscardStmt x => DiscardStmt.t_all Node P x
  | N_LockStmt x => LockStmt.t_all Node P x
  | N_ConstraintsSetStmt x => ConstraintsSetStmt.t_all Node P x
  | N_ReindexStmt x => ReindexStmt.t_all Node P x
  | N_CreateConversionStmt x => CreateConversionStmt.t_all Node P x
  | N_CreateCastStmt x => CreateCastStmt.t_all Node P x
  | N_CreateTransformStmt x => CreateTransformStmt.t_all Node P x
  | N_PrepareStmt x => PrepareStmt.t_all Node P x
  | N_ExecuteStmt x => ExecuteStmt.t_all Node P x
  | N_DeallocateStmt x => DeallocateStmt.t_all Node P x
  | N_DropOwnedStmt x => DropOwnedStmt.t_all Node P x
  | N_ReassignOwnedStmt x => ReassignOwnedStmt.t_all Node P x
  | N_AlterTSDictionaryStmt x => AlterTSDictionaryStmt.t_all Node P x
  | N_AlterTSConfigurationStmt x => AlterTSConfigurationStmt.t_all Node P x
  | N_CreatePublicationStmt x => CreatePublicationStmt.t_all Node P x
  | N_AlterPublicationStmt x => AlterPublicationStmt.t_all Node P x
  | N_CreateSubscriptionStmt x => CreateSubscriptionStmt.t_all Node P x
  | N_AlterSubscriptionStmt x => AlterSubscriptionStmt.t_all Node P x
  | N_DropSubscriptionStmt x => DropSubscriptionStmt.t_all Node P x
  | N_FuncExpr x => FuncExpr.t_all Node P x
  end.

Inductive her (P : Node -> Type) : Node -> Type :=
| her_List l : list_all Node (her P) l -> P (N_List l) -> her P (N_List l)
| her_Value v : P (N_Value v) -> her P (N_Value v)
| her_Other tag : P (N_Other tag) -> her P (N_Other tag)
| her_RangeVar x : RangeVar.t_all Node (her P) x -> P (N_RangeVar x) -> her P (N_RangeVar x)
| her_Alias x : Alias.t_all Node (her P) x -> P (N_Alias x) -> her P (N_Alias x)
| her_TypeName x : TypeName.t_all Node (her P) x -> P (N_TypeName x) -> her P (N_TypeName x)
| her_ColumnRef x : ColumnRef.t_all Node (her P) x -> P (N_ColumnRef x) -> her P (N_ColumnRef x)
| her_ParamRef x : ParamRef.t_all Node (her P) x -> P (N_ParamRef x) -> her P (N_ParamRef x)
| her_A_Expr x : A_Expr.t_all Node (her P) x -> P (N_A_Expr x) -> her P (N_A_Expr x)
| her_A_Const x : A_Const.t_all Node (her P) x -> P (N_A_Const x) -> her P (N_A_Const x)
| her_TypeCast x : TypeCast.t_all Node (her P) x -> P (N_TypeCast x) -> her P (N_TypeCast x)
| her_CollateClause x : CollateClause.t_all Node (her P) x -> P (N_CollateClause x) -> her P (N_CollateClause x)
| her_RoleSpec x : RoleSpec.t_all Node (her P) x -> P (N_RoleSpec x) -> her P (N_RoleSpec x)
| her_WindowDef x : WindowDef.t_all Node (her P) x -> P (N_WindowDef x) -> her P (N_WindowDef x)
| her_SortBy x : SortBy.t_all Node (her P) x -> P (N_SortBy x) -> her P (N_SortBy x)
| her_FuncCall x : FuncCall.t_all Node (her P) x -> P (N_FuncCall x) -> her P (N_FuncCall x)
| her_A_Star x : A_Star.t_all Node (her P) x -> P (N_A_Star x) -> her P (N_A_Star x)
| her_A_Indices x : A_Indices.t_all Node (her P) x -> P (N_A_Indices x) -> her P (N_A_Indices x)
| her_A_Indirection x : A_Indirection.t_all Node (her P) x -> P (N_A_Indirection x) -> her P (N_A_Indirection x)
| her_A_ArrayExpr x : A_ArrayExpr.t_all Node (her P) x -> P (N_A_ArrayExpr x) -> her P (N_A_ArrayExpr x)
| her_ResTarget x : ResTarget.t_all Node (her P) x -> P (N_ResTarget x) -> her P (N_ResTarget x)
| her_MultiAssignRef x : MultiAssignRef.t_all Node (her P) x -> P (N_MultiAssignRef x) -> her P (N_MultiAssignRef x)
| her_NamedArgExpr x : NamedArgExpr.t_all Node (her P) x -> P (N_NamedArgExpr x) -> her P (N_NamedArgExpr x)
| her_BoolExpr x : BoolExpr.t_all Node (her P) x -> P (N_BoolExpr x) -> her P (N_BoolExpr x)
| her_SubLink x : SubLink.t_all Node (her P) x -> P (N_SubLink x) -> her P (N_SubLink x)
| her_CaseWhen x : CaseWhen.t_all Node (her P) x -> P (N_CaseWhen x) -> her P (N_CaseWhen x)
| her_CaseExpr x : CaseExpr.t_all Node (her P) x -> P (N_CaseExpr x) -> her P (N_CaseExpr x)
| her_RowExpr x : RowExpr.t_all Node (her P) x -> P (N_RowExpr x) -> her P (N_RowExpr x)
| her_CoalesceExpr x : CoalesceExpr.t_all Node (her P) x -> P (N_CoalesceExpr x) -> her P (N_CoalesceExpr x)
| her_MinMaxExpr x : MinMaxExpr.t_all Node (her P) x -> P (N_MinMaxExpr x) -> her P (N_MinMaxExpr x)
| her_SQLValueFunction x : SQLValueFunction.t_all Node (her P) x -> P (N_SQLValueFunction x) -> her P (N_SQLValueFunction x)
| her_XmlExpr x : XmlExpr.t_all Node (her P) x -> P (N_XmlExpr x) -> her P (N_XmlExpr x)
| her_XmlSerialize x : XmlSerialize.t_all Node (her P) x -> P (N_XmlSerialize x) -> her P (N_XmlSerialize x)
| her_NullTest x : NullTest.t_all Node (her P) x -> P (N_NullTest x) -> her P (N_NullTest x)
| her_BooleanTest x : BooleanTest.t_all Node (her P) x -> P (N_BooleanTest x) -> her P (N_BooleanTest x)
| her_SetToDefault x : SetToDefault.t_all Node (her P) x -> P (N_SetToDefault x) -> her P (N_SetToDefault x)
| her_CurrentOfExpr x : CurrentOfExpr.t_all Node (her P) x -> P (N_CurrentOfExpr x) -> her P (N_CurrentOfExpr x)
| her_GroupingFunc x : GroupingFunc.t_all Node (her P) x -> P (N_GroupingFunc x) -> her P (N_GroupingFunc x)
| her_DefElem x : DefElem.t_all Node (her P) x -> P (N_DefElem x) -> her P (N_DefElem x)
| her_IndexElem x : IndexElem.t_all Node (her P) x -> P (N_IndexElem x) -> her P (N_IndexElem x)
| her_Constraint x : Constraint.t_all Node (her P) x -> P (N_Constraint x) -> her P (N_Constraint x)
| her_ColumnDef x : ColumnDef.t_all Node (her P) x -> P (N_ColumnDef x) -> her P (N_ColumnDef x)
| her_JoinExpr x : JoinExpr.t_all Node (her P) x -> P (N_JoinExpr x) -> her P (N_JoinExpr x)
| her_RangeSubselect x : RangeSubselect.t_all Node (her P) x -> P (N_RangeSubselect x) -> her P (N_RangeSubselect x)
| her_RangeFunction x : RangeFunction.t_all Node (her P) x -> P (N_RangeFunction x) -> her P (N_RangeFunction x)
| her_RangeTableFuncCol x : RangeTableFuncCol.t_all Node (her P) x -> P (N_RangeTableFuncCol x) -> her P (N_RangeTableFuncCol x)
| her_RangeTableFunc x : RangeTableFunc.t_all Node (her P) x -> P (N_RangeTableFunc x) -> her P (N_RangeTableFunc x)
| her_RangeTableSample x : RangeTableSample.t_all Node (her P) x -> P (N_RangeTableSample x) -> her P (N_RangeTableSample x)
| her_CommonTableExpr x : CommonTableExpr.t_all Node (her P) x -> P (N_CommonTableExpr x) -> her P (N_CommonTableExpr x)
| her_WithClause x : WithClause.t_all Node (her P) x -> P (N_WithClause x) -> her P (N_WithClause x)
| her_InferClause x : InferClause.t_all Node (her P) x -> P (N_InferClause x) -> her P (N_InferClause x)
| her_OnConflictClause x : OnConflictClause.t_all Node (her P) x -> P (N_OnConflictClause x) -> her P (N_OnConflictClause x)
| her_LockingClause x : LockingClause.t_all Node (her P) x -> P (N_LockingClause x) -> her P (N_LockingClause x)
| her_GroupingSet x : GroupingSet.t_all Node (her P) x -> P (N_GroupingSet x) -> her P (N_GroupingSet x)
| her_IntoClause x : IntoClause.t_all Node (her P) x -> P (N_IntoClause x) -> her P (N_IntoClause x)
| her_SelectStmt x : SelectStmt.t_all Node (her P) x -> P (N_SelectStmt x) -> her P (N_SelectStmt x)
| her_InsertStmt x : InsertStmt.t_all Node (her P) x -> P (N_InsertStmt x) -> her P (N_InsertStmt x)
| her_UpdateStmt x : UpdateStmt.t_all Node (her P) x -> P (N_UpdateStmt x) -> her P (N_UpdateStmt x)
| her_DeleteStmt x : DeleteStmt.t_all Node (her P) x -> P (N_DeleteStmt x) -> her P (N_DeleteStmt x)
| her_RawStmt x : RawStmt.t_all Node (her P) x -> P (N_RawStmt x) -> her P (N_RawStmt x)
| her_AlterTableCmd x : AlterTableCmd.t_all Node (her P) x -> P (N_AlterTableCmd x) -> her P (N_AlterTableCmd x)
| her_PartitionBoundSpec x : PartitionBoundSpec.t_all Node (her P) x -> P (N_PartitionBoundSpec x) -> her P (N_PartitionBoundSpec x)
| her_TableLikeClause x : TableLikeClause.t_all Node (her P) x -> P (N_TableLikeClause x) -> her P (N_TableLikeClause x)
| her_PartitionElem x : PartitionElem.t_all Node (her P) x -> P (N_PartitionElem x) -> her P (N_PartitionElem x)
| her_PartitionSpec x : PartitionSpec.t_all Node (her P) x -> P (N_PartitionSpec x) -> her P (N_PartitionSpec x)
| her_PartitionCmd x : PartitionCmd.t_all Node (her P) x -> P (N_PartitionCmd x) -> her P (N_PartitionCmd x)
| her_TriggerTransition x : TriggerTransition.t_all Node (her P) x -> P (N_TriggerTransition x) -> her P (N_TriggerTransition x)
| her_CreateSchemaStmt x : CreateSchemaStmt.t_all Node (her P) x -> P (N_CreateSchemaStmt x) -> her P (N_CreateSchemaStmt x)
| her_AlterTableStmt x : AlterTableStmt.t_all Node (her P) x -> P (N_AlterTableStmt x) -> her P (N_AlterTableStmt x)
| her_ReplicaIdentityStmt x : ReplicaIdentityStmt.t_all Node (her P) x -> P (N_ReplicaIdentityStmt x) -> her P (N_ReplicaIdentityStmt x)
| her_AlterCollationStmt x : AlterCollationStmt.t_all Node (her P) x -> P (N_AlterCollationStmt x) -> her P (N_AlterCollationStmt x)
| her_AlterDomainStmt x : AlterDomainStmt.t_all Node (her P) x -> P (N_AlterDomainStmt x) -> her P (N_AlterDomainStmt x)
| her_GrantStmt x : GrantStmt.t_all Node (her P) x -> P (N_GrantStmt x) -> her P (N_GrantStmt x)
| her_ObjectWithArgs x : ObjectWithArgs.t_all Node (her P) x -> P (N_ObjectWithArgs x) -> her P (N_ObjectWithArgs x)
| her_AccessPriv x : AccessPriv.t_all Node (her P) x -> P (N_AccessPriv x) -> her P (N_AccessPriv x)
| her_GrantRoleStmt x : GrantRoleStmt.t_all Node (her P) x -> P (N_GrantRoleStmt x) -> her P (N_GrantRoleStmt x)
| her_AlterDefaultPrivilegesStmt x : AlterDefaultPrivilegesStmt.t_all Node (her P) x -> P (N_AlterDefaultPrivilegesStmt x) -> her P (N_AlterDefaultPrivilegesStmt x)
| her_CopyStmt x : CopyStmt.t_all Node (her P) x -> P (N_CopyStmt x) -> her P (N_CopyStmt x)
| her_VariableSetStmt x : VariableSetStmt.t_all Node (her P) x -> P (N_VariableSetStmt x) -> her P (N_VariableSetStmt x)
| her_VariableShowStmt x : VariableShowStmt.t_all Node (her P) x -> P (N_VariableShowStmt x) -> her P (N_VariableShowStmt x)
| her_CreateStmt x : CreateStmt.t_all Node (her P) x -> P (N_CreateStmt x) -> her P (N_CreateStmt x)
| her_CreateTableSpaceStmt x : CreateTableSpaceStmt.t_all Node (her P) x -> P (N_CreateTableSpaceStmt x) -> her P (N_CreateTableSpaceStmt x)
| her_DropTableSpaceStmt x : DropTableSpaceStmt.t_all Node (her P) x -> P (N_DropTableSpaceStmt x) -> her P (N_DropTableSpaceStmt x)
| her_AlterTableSpaceOptionsStmt x : AlterTableSpaceOptionsStmt.t_all Node (her P) x -> P (N_AlterTableSpaceOptionsStmt x) -> her P (N_AlterTableSpaceOptionsStmt x)
| her_AlterTableMoveAllStmt x : AlterTableMoveAllStmt.t_all Node (her P) x -> P (N_AlterTableMoveAllStmt x) -> her P (N_AlterTableMoveAllStmt x)
| her_CreateExtensionStmt x : CreateExtensionStmt.t_all Node (her P) x -> P (N_CreateExtensionStmt x) -> her P (N_CreateExtensionStmt x)
| her_AlterExtensionStmt x : AlterExtensionStmt.t_all Node (her P) x -> P (N_AlterExtensionStmt x) -> her P (N_AlterExtensionStmt x)
| her_AlterExtensionContentsStmt x : AlterExtensionContentsStmt.t_all Node (her P) x -> P (N_AlterExtensionContentsStmt x) -> her P (N_AlterExtensionContentsStmt x)
| her_CreateFdwStmt x : CreateFdwStmt.t_all Node (her P) x -> P (N_CreateFdwStmt x) -> her P (N_CreateFdwStmt x)
| her_AlterFdwStmt x : AlterFdwStmt.t_all Node (her P) x -> P (N_AlterFdwStmt x) -> her P (N_AlterFdwStmt x)
| her_CreateForeignServerStmt x : CreateForeignServerStmt.t_all Node (her P) x -> P (N_CreateForeignServerStmt x) -> her P (N_CreateForeignServerStmt x)
| her_AlterForeignServerStmt x : AlterForeignServerStmt.t_all Node (her P) x -> P (N_AlterForeignServerStmt x) -> her P (N_AlterForeignServerStmt x)
| her_CreateForeignTableStmt x : CreateForeignTableStmt.t_all Node (her P) x -> P (N_CreateForeignTableStmt x) -> her P (N_CreateForeignTableStmt x)
| her_CreateUserMappingStmt x : CreateUserMappingStmt.t_all Node (her P) x -> P (N_CreateUserMappingStmt x) -> her P (N_CreateUserMappingStmt x)
| her_AlterUserMappingStmt x : AlterUserMappingStmt.t_all Node (her P) x -> P (N_AlterUserMappingStmt x) -> her P (N_AlterUserMappingStmt x)
| her_DropUserMappingStmt x : DropUserMappingStmt.t_all Node (her P) x -> P (N_DropUserMappingStmt x) -> her P (N_DropUserMappingStmt x)
| her_ImportForeignSchemaStmt x : ImportForeignSchemaStmt.t_all Node (her P) x -> P (N_ImportForeignSchemaStmt x) -> her P (N_ImportForeignSchemaStmt x)
| her_CreatePolicyStmt x : CreatePolicyStmt.t_all Node (her P) x -> P (N_CreatePolicyStmt x) -> her P (N_CreatePolicyStmt x)
| her_AlterPolicyStmt x : AlterPolicyStmt.t_all Node (her P) x -> P (N_AlterPolicyStmt x) -> her P (N_AlterPolicyStmt x)
| her_CreateAmStmt x : CreateAmStmt.t_all Node (her P) x -> P (N_CreateAmStmt x) -> her P (N_CreateAmStmt x)
| her_CreateTrigStmt x : CreateTrigStmt.t_all Node (her P) x -> P (N_CreateTrigStmt x) -> her P (N_CreateTrigStmt x)
| her_CreateEventTrigStmt x : CreateEventTrigStmt.t_all Node (her P) x -> P (N_CreateEventTrigStmt x) -> her P (N_CreateEventTrigStmt x)
| her_AlterEventTrigStmt x : AlterEventTrigStmt.t_all Node (her P) x -> P (N_AlterEventTrigStmt x) -> her P (N_AlterEventTrigStmt x)
| her_CreatePLangStmt x : CreatePLangStmt.t_all Node (her P) x -> P (N_CreatePLangStmt x) -> her P (N_CreatePLangStmt x)
| her_CreateRoleStmt x : CreateRoleStmt.t_all Node (her P) x -> P (N_CreateRoleStmt x) -> her P (N_CreateRoleStmt x)
| her_AlterRoleStmt x : AlterRoleStmt.t_all Node (her P) x -> P (N_AlterRoleStmt x) -> her P (N_AlterRoleStmt x)
| her_AlterRoleSetStmt x : AlterRoleSetStmt.t_all Node (her P) x -> P (N_AlterRoleSetStmt x) -> her P (N_AlterRoleSetStmt x)
| her_DropRoleStmt x : DropRoleStmt.t_all Node (her P) x -> P (N_DropRoleStmt x) -> her P (N_DropRoleStmt x)
| her_CreateSeqStmt x : CreateSeqStmt.t_all Node (her P) x -> P (N_CreateSeqStmt x) -> her P (N_CreateSeqStmt x)
| her_AlterSeqStmt x : AlterSeqStmt.t_all Node (her P) x -> P (N_AlterSeqStmt x) -> her P (N_AlterSeqStmt x)
| her_DefineStmt x : DefineStmt.t_all Node (her P) x -> P (N_DefineStmt x) -> her P (N_DefineStmt x)
| her_CreateDomainStmt x : CreateDomainStmt.t_all Node (her P) x -> P (N_CreateDomainStmt x) -> her P (N_CreateDomainStmt x)
| her_CreateOpClassStmt x : CreateOpClassStmt.t_all Node (her P) x -> P (N_CreateOpClassStmt x) -> her P (N_CreateOpClassStmt x)
| her_CreateOpClassItem x : CreateOpClassItem.t_all Node (her P) x -> P (N_CreateOpClassItem x) -> her P (N_CreateOpClassItem x)
| her_CreateOpFamilyStmt x : CreateOpFamilyStmt.t_all Node (her P) x -> P (N_CreateOpFamilyStmt x) -> her P (N_CreateOpFamilyStmt x)
| her_AlterOpFamilyStmt x : AlterOpFamilyStmt.t_all Node (her P) x -> P (N_AlterOpFamilyStmt x) -> her P (N_AlterOpFamilyStmt x)
| her_DropStmt x : DropStmt.t_all Node (her P) x -> P (N_DropStmt x) -> her P (N_DropStmt x)
| her_TruncateStmt x : TruncateStmt.t_all Node (her P) x -> P (N_TruncateStmt x) -> her P (N_TruncateStmt x)
| her_CommentStmt x : CommentStmt.t_all Node (her P) x -> P (N_CommentStmt x) -> her P (N_CommentStmt x)
| her_SecLabelStmt x : SecLabelStmt.t_all Node (her P) x -> P (N_SecLabelStmt x) -> her P (N_SecLabelStmt x)
| her_DeclareCursorStmt x : DeclareCursorStmt.t_all Node (her P) x -> P (N_DeclareCursorStmt x) -> her P (N_DeclareCursorStmt x)
| her_ClosePortalStmt x : ClosePortalStmt.t_all Node (her P) x -> P (N_ClosePortalStmt x) -> her P (N_ClosePortalStmt x)
| her_FetchStmt x : FetchStmt.t_all Node (her P) x -> P (N_FetchStmt x) -> her P (N_FetchStmt x)
| her_IndexStmt x : IndexStmt.t_all Node (her P) x -> P (N_IndexStmt x) -> her P (N_IndexStmt x)
| her_CreateStatsStmt x : CreateStatsStmt.t_all Node (her P) x -> P (N_CreateStatsStmt x) -> her P (N_CreateStatsStmt x)
| her_AlterStatsStmt x : AlterStatsStmt.t_all Node (her P) x -> P (N_AlterStatsStmt x) -> her P (N_AlterStatsStmt x)
| her_CreateFunctionStmt x : CreateFunctionStmt.t_all Node (her P) x -> P (N_CreateFunctionStmt x) -> her P (N_CreateFunctionStmt x)
| her_FunctionParameter x : FunctionParameter.t_all Node (her P) x -> P (N_FunctionParameter x) -> her P (N_FunctionParameter x)
| her_AlterFunctionStmt x : AlterFunctionStmt.t_all Node (her P) x -> P (N_AlterFunctionStmt x) -> her P (N_AlterFunctionStmt x)
| her_DoStmt x : DoStmt.t_all Node (her P) x -> P (N_DoStmt x) -> her P (N_DoStmt x)
| her_CallStmt x : CallStmt.t_all Node (her P) x -> P (N_CallStmt x) -> her P (N_CallStmt x)
| her_RenameStmt x : RenameStmt.t_all Node (her P) x -> P (N_RenameStmt x) -> her P (N_RenameStmt x)
| her_AlterObjectDependsStmt x : AlterObjectDependsStmt.t_all Node (her P) x -> P (N_AlterObjectDependsStmt x) -> her P (N_AlterObjectDependsStmt x)
| her_AlterObjectSchemaStmt x : AlterObjectSchemaStmt.t_all Node (her P) x -> P (N_AlterObjectSchemaStmt x) -> her P (N_AlterObjectSchemaStmt x)
| her_AlterOwnerStmt x : AlterOwnerStmt.t_all Node (her P) x -> P (N_AlterOwnerStmt x) -> her P (N_AlterOwnerStmt x)
| her_AlterOperatorStmt x : AlterOperatorStmt.t_all Node (her P) x -> P (N_AlterOperatorStmt x) -> her P (N_AlterOperatorStmt x)
| her_AlterTypeStmt x : AlterTypeStmt.t_all Node (her P) x -> P (N_AlterTypeStmt x) -> her P (N_AlterTypeStmt x)
| her_RuleStmt x : RuleStmt.t_all Node (her P) x -> P (N_RuleStmt x) -> her P (N_RuleStmt x)
| her_NotifyStmt x : NotifyStmt.t_all Node (her P) x -> P (N_NotifyStmt x) -> her P (N_NotifyStmt x)
| her_ListenStmt x : ListenStmt.t_all Node (her P) x -> P (N_ListenStmt x) -> her P (N_ListenStmt x)
| her_UnlistenStmt x : UnlistenStmt.t_all Node (her P) x -> P (N_UnlistenStmt x) -> her P (N_UnlistenStmt x)
| her_TransactionStmt x : TransactionStmt.t_all Node (her P) x -> P (N_TransactionStmt x) -> her P (N_TransactionStmt x)
| her_CompositeTypeStmt x : CompositeTypeStmt.t_all Node (her P) x -> P (N_CompositeTypeStmt x) -> her P (N_CompositeTypeStmt x)
| her_CreateEnumStmt x : CreateEnumStmt.t_all Node (her P) x -> P (N_CreateEnumStmt x) -> her P (N_CreateEnumStmt x)
| her_CreateRangeStmt x : CreateRangeStmt.t_all Node (her P) x -> P (N_CreateRangeStmt x) -> her P (N_CreateRangeStmt x)
| her_AlterEnumStmt x : AlterEnumStmt.t_all Node (her P) x -> P (N_AlterEnumStmt x) -> her P (N_AlterEnumStmt x)
| her_ViewStmt x : ViewStmt.t_all Node (her P) x -> P (N_ViewStmt x) -> her P (N_ViewStmt x)
| her_LoadStmt x : LoadStmt.t_all Node (her P) x -> P (N_LoadStmt x) -> her P (N_LoadStmt x)
| her_CreatedbStmt x : CreatedbStmt.t_all Node (her P) x -> P (N_CreatedbStmt x) -> her P (N_CreatedbStmt x)
| her_AlterDatabaseStmt x : AlterDatabaseStmt.t_all Node (her P) x -> P (N_AlterDatabaseStmt x) -> her P (N_AlterDatabaseStmt x)
| her_AlterDatabaseSetStmt x : AlterDatabaseSetStmt.t_all Node (her P) x -> P (N_AlterDatabaseSetStmt x) -> her P (N_AlterDatabaseSetStmt x)
| her_DropdbStmt x : DropdbStmt.t_all Node (her P) x -> P (N_DropdbStmt x) -> her P (N_DropdbStmt x)
| her_AlterSystemStmt x : AlterSystemStmt.t_all Node (her P) x -> P (N_AlterSystemStmt x) -> her P (N_AlterSystemStmt x)
| her_ClusterStmt x : ClusterStmt.t_all Node (her P) x -> P (N_ClusterStmt x) -> her P (N_ClusterStmt x)
| her_VacuumStmt x : VacuumStmt.t_all Node (her P) x -> P (N_VacuumStmt x) -> her P (N_VacuumStmt x)
| her_VacuumRelation x : VacuumRelation.t_all Node (her P) x -> P (N_VacuumRelation x) -> her P (N_VacuumRelation x)
| her_ExplainStmt x : ExplainStmt.t_all Node (her P) x -> P (N_ExplainStmt x) -> her P (N_ExplainStmt x)
| her_CreateTableAsStmt x : CreateTableAsStmt.t_all Node (her P) x -> P (N_CreateTableAsStmt x) -> her P (N_CreateTableAsStmt x)
| her_RefreshMatViewStmt x : RefreshMatViewStmt.t_all Node (her P) x -> P (N_RefreshMatViewStmt x) -> her P (N_RefreshMatViewStmt x)
| her_CheckPointStmt x : CheckPointStmt.t_all Node (her P) x -> P (N_CheckPointStmt x) -> her P (N_CheckPointStmt x)
| her_DiscardStmt x : DiscardStmt.t_all Node (her P) x -> P (N_DiscardStmt x) -> her P (N_DiscardStmt x)
| her_LockStmt x : LockStmt.t_all Node (her P) x -> P (N_LockStmt x) -> her P (N_LockStmt x)
| her_ConstraintsSetStmt x : ConstraintsSetStmt.t_all Node (her P) x -> P (N_ConstraintsSetStmt x) -> her P (N_ConstraintsSetStmt x)
| her_ReindexStmt x : ReindexStmt.t_all Node (her P) x -> P (N_ReindexStmt x) -> her P (N_ReindexStmt x)
| her_CreateConversionStmt x : CreateConversionStmt.t_all Node (her P) x -> P (N_CreateConversionStmt x) -> her P (N_CreateConversionStmt x)
| her_CreateCastStmt x : CreateCastStmt.t_all Node (her P) x -> P (N_CreateCastStmt x) -> her P (N_CreateCastStmt x)
| her_CreateTransformStmt x : CreateTransformStmt.t_all Node (her P) x -> P (N_CreateTransformStmt x) -> her P (N_CreateTransformStmt x)
| her_PrepareStmt x : PrepareStmt.t_all Node (her P) x -> P (N_PrepareStmt x) -> her P (N_PrepareStmt x)
| her_ExecuteStmt x : ExecuteStmt.t_all Node (her P) x -> P (N_ExecuteStmt x) -> her P (N_ExecuteStmt x)
| her_DeallocateStmt x : DeallocateStmt.t_all Node (her P) x -> P (N_DeallocateStmt x) -> her P (N_DeallocateStmt x)
| her_DropOwnedStmt x : DropOwnedStmt.t_all Node (her P) x -> P (N_DropOwnedStmt x) -> her P (N_DropOwnedStmt x)
| her_ReassignOwnedStmt x : ReassignOwnedStmt.t_all Node (her P) x -> P (N_ReassignOwnedStmt x) -> her P (N_ReassignOwnedStmt x)
| her_AlterTSDictionaryStmt x : AlterTSDictionaryStmt.t_all Node (her P) x -> P (N_AlterTSDictionaryStmt x) -> her P (N_AlterTSDictionaryStmt x)
| her_AlterTSConfigurationStmt x : AlterTSConfigurationStmt.t_all Node (her P) x -> P (N_AlterTSConfigurationStmt x) -> her P (N_AlterTSConfigurationStmt x)
| her_CreatePublicationStmt x : CreatePublicationStmt.t_all Node (her P) x -> P (N_CreatePublicationStmt x) -> her P (N_CreatePublicationStmt x)
| her_AlterPublicationStmt x : AlterPublicationStmt.t_all Node (her P) x -> P (N_AlterPublicationStmt x) -> her P (N_AlterPublicationStmt x)
| her_CreateSubscriptionStmt x : CreateSubscriptionStmt.t_all Node (her P) x -> P (N_CreateSubscriptionStmt x) -> her P (N_CreateSubscriptionStmt x)
| her_AlterSubscriptionStmt x : AlterSubscriptionStmt.t_all Node (her P) x -> P (N_AlterSubscriptionStmt x) -> her P (N_AlterSubscriptionStmt x)
| her_DropSubscriptionStmt x : DropSubscriptionStmt.t_all Node (her P) x -> P (N_DropSubscriptionStmt x) -> her P (N_DropSubscriptionStmt x)
| her_FuncExpr x : FuncExpr.t_all Node (her P) x -> P (N_FuncExpr x) -> her P (N_FuncExpr x).

Lemma node_ind (P : Node -> Prop) : (forall n, children P n -> P n) -> forall n, P n.
Proof. intros H n. induction n; apply H; first [done | exact tt]. Qed.

Lemma her_here P n : her P n -> P n.
Proof. by destruct 1. Qed.

Lemma her_children P n : her P n -> children (her P) n.
Proof. by destruct 1. Qed.

Lemma her_intro P : (forall n, children (her P) n -> P n) -> forall n, her P n.
Proof. intros H n. induction n; constructor; try done; apply H; first [done | exact tt]. Qed.

(** Reduces the field of a record that is written out. *)
Ltac simpl_fields :=
  cbn [RangeVar.catalogname RangeVar.schemaname RangeVar.relname RangeVar.inh
    RangeVar.relpersistence RangeVar.alias RangeVar.location Alias.aliasname Alias.colnames
    TypeName.names TypeName.typeOid TypeName.setof TypeName.pct_type TypeName.typmods
    TypeName.typemod TypeName.arrayBounds TypeName.location ColumnRef.fields ColumnRef.location
    ParamRef.number ParamRef.location A_Expr.kind A_Expr.name A_Expr.lexpr A_Expr.rexpr
    A_Expr.location A_Const.val A_Const.location TypeCast.arg TypeCast.typeName
    TypeCast.location CollateClause.arg CollateClause.collname CollateClause.location
    RoleSpec.roletype RoleSpec.rolename RoleSpec.location WindowDef.name WindowDef.refname
    WindowDef.partitionClause WindowDef.orderClause WindowDef.frameOptions WindowDef.startOffset
    WindowDef.endOffset WindowDef.location SortBy.node SortBy.sortby_dir SortBy.sortby_nulls
    SortBy.useOp SortBy.location FuncCall.funcname FuncCall.args FuncCall.agg_order
    FuncCall.agg_filter FuncCall.agg_within_group FuncCall.agg_star FuncCall.agg_distinct
    FuncCall.func_variadic FuncCall.over FuncCall.location A_Indices.is_slice A_Indices.lidx
    A_Indices.uidx A_Indirection.arg A_Indirection.indirection A_ArrayExpr.elements
    A_ArrayExpr.location ResTarget.name ResTarget.indirection ResTarget.val ResTarget.location
    MultiAssignRef.source MultiAssignRef.colno MultiAssignRef.ncolumns NamedArgExpr.arg
    NamedArgExpr.name NamedArgExpr.argnumber NamedArgExpr.location BoolExpr.boolop BoolExpr.args
    BoolExpr.location SubLink.subLinkType SubLink.subLinkId SubLink.testexpr SubLink.operName
    SubLink.subselect SubLink.location CaseWhen.expr CaseWhen.result CaseWhen.location
    CaseExpr.casetype CaseExpr.casecollid CaseExpr.arg CaseExpr.args CaseExpr.defresult
    CaseExpr.location RowExpr.args RowExpr.row_typeid RowExpr.row_format RowExpr.colnames
    RowExpr.location CoalesceExpr.coalescetype CoalesceExpr.coalescecollid CoalesceExpr.args
    CoalesceExpr.location MinMaxExpr.minmaxtype MinMaxExpr.minmaxcollid MinMaxExpr.inputcollid
    MinMaxExpr.op MinMaxExpr.args MinMaxExpr.location SQLValueFunction.op SQLValueFunction.type_
    SQLValueFunction.typmod SQLValueFunction.location XmlExpr.op XmlExpr.name XmlExpr.named_args
    XmlExpr.arg_names XmlExpr.args XmlExpr.xmloption XmlExpr.type_ XmlExpr.typmod
    XmlExpr.location XmlSerialize.xmloption XmlSerialize.expr XmlSerialize.typeName
    XmlSerialize.location NullTest.arg NullTest.nulltesttype NullTest.argisrow NullTest.location
    BooleanTest.arg BooleanTest.booltesttype BooleanTest.location SetToDefault.typeId
    SetToDefault.typeMod SetToDefault.collation SetToDefault.location CurrentOfExpr.cvarno
    CurrentOfExpr.cursor_name CurrentOfExpr.cursor_param GroupingFunc.args GroupingFunc.refs
    GroupingFunc.cols GroupingFunc.agglevelsup GroupingFunc.location DefElem.defnamespace
    DefElem.defname DefElem.arg DefElem.defaction DefElem.location IndexElem.name IndexElem.expr
    IndexElem.indexcolname IndexElem.collation IndexElem.opclass IndexElem.opclassopts
    IndexElem.ordering IndexElem.nulls_ordering Constraint.contype Constraint.conname
    Constraint.deferrable Constraint.initdeferred Constraint.location Constraint.is_no_inherit
    Constraint.raw_expr Constraint.cooked_expr Constraint.generated_when Constraint.keys
    Constraint.including Constraint.exclusions Constraint.options Constraint.indexname
    Constraint.indexspace Constraint.reset_default_tblspc Constraint.access_method
    Constraint.where_clause Constraint.pktable Constraint.fk_attrs Constraint.pk_attrs
    Constraint.fk_matchtype Constraint.fk_upd_action Constraint.fk_del_action
    Constraint.old_conpfeqop Constraint.old_pktable_oid Constraint.skip_validation
    Constraint.initially_valid ColumnDef.colname ColumnDef.typeName ColumnDef.inhcount
    ColumnDef.is_local ColumnDef.is_not_null ColumnDef.is_from_type ColumnDef.storage
    ColumnDef.raw_default ColumnDef.cooked_default ColumnDef.identity ColumnDef.identitySequence
    ColumnDef.generated ColumnDef.collClause ColumnDef.collOid ColumnDef.constraints
    ColumnDef.fdwoptions ColumnDef.location JoinExpr.jointype JoinExpr.isNatural JoinExpr.larg
    JoinExpr.rarg JoinExpr.usingClause JoinExpr.quals JoinExpr.alias JoinExpr.rtindex
    RangeSubselect.lateral RangeSubselect.subquery RangeSubselect.alias RangeFunction.lateral
    RangeFunction.ordinality RangeFunction.is_rowsfrom RangeFunction.functions
    RangeFunction.alias RangeFunction.coldeflist RangeTableFuncCol.colname
    RangeTableFuncCol.typeName RangeTableFuncCol.for_ordinality RangeTableFuncCol.is_not_null
    RangeTableFuncCol.colexpr RangeTableFuncCol.coldefexpr RangeTableFuncCol.location
    RangeTableFunc.lateral RangeTableFunc.docexpr RangeTableFunc.rowexpr
    RangeTableFunc.namespaces RangeTableFunc.columns RangeTableFunc.alias
    RangeTableFunc.location RangeTableSample.relation RangeTableSample.method
    RangeTableSample.args RangeTableSample.repeatable RangeTableSample.location
    CommonTableExpr.ctename CommonTableExpr.aliascolnames CommonTableExpr.ctematerialized
    CommonTableExpr.ctequery CommonTableExpr.location CommonTableExpr.cterecursive
    CommonTableExpr.cterefcount CommonTableExpr.ctecolnames CommonTableExpr.ctecoltypes
    CommonTableExpr.ctecoltypmods CommonTableExpr.ctecolcollations WithClause.ctes
    WithClause.recursive WithClause.location InferClause.indexElems InferClause.whereClause
    InferClause.conname InferClause.location OnConflictClause.action OnConflictClause.infer
    OnConflictClause.targetList OnConflictClause.whereClause OnConflictClause.location
    LockingClause.lockedRels LockingClause.strength LockingClause.waitPolicy GroupingSet.kind
    GroupingSet.content GroupingSet.location IntoClause.rel IntoClause.colNames
    IntoClause.accessMethod IntoClause.options IntoClause.onCommit IntoClause.tableSpaceName
    IntoClause.viewQuery IntoClause.skipData SelectStmt.distinctClause SelectStmt.intoClause
    SelectStmt.targetList SelectStmt.fromClause SelectStmt.whereClause SelectStmt.groupClause
    SelectStmt.havingClause SelectStmt.windowClause SelectStmt.valuesLists SelectStmt.sortClause
    SelectStmt.limitOffset SelectStmt.limitCount SelectStmt.limitOption SelectStmt.lockingClause
    SelectStmt.withClause SelectStmt.op SelectStmt.all SelectStmt.larg SelectStmt.rarg
    InsertStmt.relation InsertStmt.cols InsertStmt.selectStmt InsertStmt.onConflictClause
    InsertStmt.returningList InsertStmt.withClause InsertStmt.override UpdateStmt.relation
    UpdateStmt.targetList UpdateStmt.whereClause UpdateStmt.fromClause UpdateStmt.returningList
    UpdateStmt.withClause DeleteStmt.relation DeleteStmt.usingClause DeleteStmt.whereClause
    DeleteStmt.returningList DeleteStmt.withClause RawStmt.stmt RawStmt.stmt_location
    RawStmt.stmt_len AlterTableCmd.subtype AlterTableCmd.name AlterTableCmd.num
    AlterTableCmd.newowner AlterTableCmd.def AlterTableCmd.behavior AlterTableCmd.missing_ok
    PartitionBoundSpec.strategy PartitionBoundSpec.is_default PartitionBoundSpec.modulus
    PartitionBoundSpec.remainder PartitionBoundSpec.listdatums PartitionBoundSpec.lowerdatums
    PartitionBoundSpec.upperdatums PartitionBoundSpec.location TableLikeClause.relation
    TableLikeClause.options TableLikeClause.relationOid PartitionElem.name PartitionElem.expr
    PartitionElem.collation PartitionElem.opclass PartitionElem.location PartitionSpec.strategy
    PartitionSpec.partParams PartitionSpec.location PartitionCmd.name PartitionCmd.bound
    TriggerTransition.name TriggerTransition.isNew TriggerTransition.isTable
    CreateSchemaStmt.schemaname CreateSchemaStmt.authrole CreateSchemaStmt.schemaElts
    CreateSchemaStmt.if_not_exists AlterTableStmt.relation AlterTableStmt.cmds
    AlterTableStmt.relkind AlterTableStmt.missing_ok ReplicaIdentityStmt.identity_type
    ReplicaIdentityStmt.name AlterCollationStmt.collname AlterDomainStmt.subtype
    AlterDomainStmt.typeName AlterDomainStmt.name AlterDomainStmt.def AlterDomainStmt.behavior
    AlterDomainStmt.missing_ok GrantStmt.is_grant GrantStmt.targtype GrantStmt.objtype
    GrantStmt.objects GrantStmt.privileges GrantStmt.grantees GrantStmt.grant_option
    GrantStmt.behavior ObjectWithArgs.objname ObjectWithArgs.objargs
    ObjectWithArgs.args_unspecified AccessPriv.priv_name AccessPriv.cols
    GrantRoleStmt.granted_roles GrantRoleStmt.grantee_roles GrantRoleStmt.is_grant
    GrantRoleStmt.admin_opt GrantRoleStmt.grantor GrantRoleStmt.behavior
    AlterDefaultPrivilegesStmt.options AlterDefaultPrivilegesStmt.action CopyStmt.relation
    CopyStmt.query CopyStmt.attlist CopyStmt.is_from CopyStmt.is_program CopyStmt.filename
    CopyStmt.options CopyStmt.whereClause VariableSetStmt.kind VariableSetStmt.name
    VariableSetStmt.args VariableSetStmt.is_local VariableShowStmt.name CreateStmt.relation
    CreateStmt.tableElts CreateStmt.inhRelations CreateStmt.partbound CreateStmt.partspec
    CreateStmt.ofTypename CreateStmt.constraints CreateStmt.options CreateStmt.oncommit
    CreateStmt.tablespacename CreateStmt.accessMethod CreateStmt.if_not_exists
    CreateTableSpaceStmt.tablespacename CreateTableSpaceStmt.owner CreateTableSpaceStmt.location
    CreateTableSpaceStmt.options DropTableSpaceStmt.tablespacename DropTableSpaceStmt.missing_ok
    AlterTableSpaceOptionsStmt.tablespacename AlterTableSpaceOptionsStmt.options
    AlterTableSpaceOptionsStmt.isReset AlterTableMoveAllStmt.orig_tablespacename
    AlterTableMoveAllStmt.objtype AlterTableMoveAllStmt.roles
    AlterTableMoveAllStmt.new_tablespacename AlterTableMoveAllStmt.nowait
    CreateExtensionStmt.extname CreateExtensionStmt.if_not_exists CreateExtensionStmt.options
    AlterExtensionStmt.extname AlterExtensionStmt.options AlterExtensionContentsStmt.extname
    AlterExtensionContentsStmt.action AlterExtensionContentsStmt.objtype
    AlterExtensionContentsStmt.object CreateFdwStmt.fdwname CreateFdwStmt.func_options
    CreateFdwStmt.options AlterFdwStmt.fdwname AlterFdwStmt.func_options AlterFdwStmt.options
    CreateForeignServerStmt.servername CreateForeignServerStmt.servertype
    CreateForeignServerStmt.version CreateForeignServerStmt.fdwname
    CreateForeignServerStmt.if_not_exists CreateForeignServerStmt.options
    AlterForeignServerStmt.servername AlterForeignServerStmt.version
    AlterForeignServerStmt.options AlterForeignServerStmt.has_version
    CreateForeignTableStmt.base CreateForeignTableStmt.servername CreateForeignTableStmt.options
    CreateUserMappingStmt.user CreateUserMappingStmt.servername
    CreateUserMappingStmt.if_not_exists CreateUserMappingStmt.options AlterUserMappingStmt.user
    AlterUserMappingStmt.servername AlterUserMappingStmt.options DropUserMappingStmt.user
    DropUserMappingStmt.servername DropUserMappingStmt.missing_ok
    ImportForeignSchemaStmt.server_name ImportForeignSchemaStmt.remote_schema
    ImportForeignSchemaStmt.local_schema ImportForeignSchemaStmt.list_type
    ImportForeignSchemaStmt.table_list ImportForeignSchemaStmt.options
    CreatePolicyStmt.policy_name CreatePolicyStmt.table CreatePolicyStmt.cmd_name
    CreatePolicyStmt.permissive CreatePolicyStmt.roles CreatePolicyStmt.qual
    CreatePolicyStmt.with_check AlterPolicyStmt.policy_name AlterPolicyStmt.table
    AlterPolicyStmt.roles AlterPolicyStmt.qual AlterPolicyStmt.with_check CreateAmStmt.amname
    CreateAmStmt.handler_name CreateAmStmt.amtype CreateTrigStmt.trigname
    CreateTrigStmt.relation CreateTrigStmt.funcname CreateTrigStmt.args CreateTrigStmt.row
    CreateTrigStmt.timing CreateTrigStmt.events CreateTrigStmt.columns CreateTrigStmt.whenClause
    CreateTrigStmt.isconstraint CreateTrigStmt.transitionRels CreateTrigStmt.deferrable
    CreateTrigStmt.initdeferred CreateTrigStmt.constrrel CreateEventTrigStmt.trigname
    CreateEventTrigStmt.eventname CreateEventTrigStmt.whenclause CreateEventTrigStmt.funcname
    AlterEventTrigStmt.trigname AlterEventTrigStmt.tgenabled CreatePLangStmt.replace
    CreatePLangStmt.plname CreatePLangStmt.plhandler CreatePLangStmt.plinline
    CreatePLangStmt.plvalidator CreatePLangStmt.pltrusted CreateRoleStmt.stmt_type
    CreateRoleStmt.role CreateRoleStmt.options AlterRoleStmt.role AlterRoleStmt.options
    AlterRoleStmt.action AlterRoleSetStmt.role AlterRoleSetStmt.database
    AlterRoleSetStmt.setstmt DropRoleStmt.roles DropRoleStmt.missing_ok CreateSeqStmt.sequence
    CreateSeqStmt.options CreateSeqStmt.ownerId CreateSeqStmt.for_identity
    CreateSeqStmt.if_not_exists AlterSeqStmt.sequence AlterSeqStmt.options
    AlterSeqStmt.for_identity AlterSeqStmt.missing_ok DefineStmt.kind DefineStmt.oldstyle
    DefineStmt.defnames DefineStmt.args DefineStmt.definition DefineStmt.if_not_exists
    DefineStmt.replace CreateDomainStmt.domainname CreateDomainStmt.typeName
    CreateDomainStmt.collClause CreateDomainStmt.constraints CreateOpClassStmt.opclassname
    CreateOpClassStmt.opfamilyname CreateOpClassStmt.amname CreateOpClassStmt.datatype
    CreateOpClassStmt.items CreateOpClassStmt.isDefault CreateOpClassItem.itemtype
    CreateOpClassItem.name CreateOpClassItem.number CreateOpClassItem.order_family
    CreateOpClassItem.class_args CreateOpClassItem.storedtype CreateOpFamilyStmt.opfamilyname
    CreateOpFamilyStmt.amname AlterOpFamilyStmt.opfamilyname AlterOpFamilyStmt.amname
    AlterOpFamilyStmt.isDrop AlterOpFamilyStmt.items DropStmt.objects DropStmt.removeType
    DropStmt.behavior DropStmt.missing_ok DropStmt.concurrent TruncateStmt.relations
    TruncateStmt.restart_seqs TruncateStmt.behavior CommentStmt.objtype CommentStmt.object
    CommentStmt.comment SecLabelStmt.objtype SecLabelStmt.object SecLabelStmt.provider
    SecLabelStmt.label DeclareCursorStmt.portalname DeclareCursorStmt.options
    DeclareCursorStmt.query ClosePortalStmt.portalname FetchStmt.direction FetchStmt.howMany
    FetchStmt.portalname FetchStmt.ismove IndexStmt.idxname IndexStmt.relation
    IndexStmt.accessMethod IndexStmt.tableSpace IndexStmt.indexParams
    IndexStmt.indexIncludingParams IndexStmt.options IndexStmt.whereClause
    IndexStmt.excludeOpNames IndexStmt.idxcomment IndexStmt.indexOid IndexStmt.oldNode
    IndexStmt.oldCreateSubid IndexStmt.oldFirstRelfilenodeSubid IndexStmt.unique
    IndexStmt.primary IndexStmt.isconstraint IndexStmt.deferrable IndexStmt.initdeferred
    IndexStmt.transformed IndexStmt.concurrent IndexStmt.if_not_exists
    IndexStmt.reset_default_tblspc CreateStatsStmt.defnames CreateStatsStmt.stat_types
    CreateStatsStmt.exprs CreateStatsStmt.relations CreateStatsStmt.stxcomment
    CreateStatsStmt.if_not_exists AlterStatsStmt.defnames AlterStatsStmt.stxstattarget
    AlterStatsStmt.missing_ok CreateFunctionStmt.is_procedure CreateFunctionStmt.replace
    CreateFunctionStmt.funcname CreateFunctionStmt.parameters CreateFunctionStmt.returnType
    CreateFunctionStmt.options FunctionParameter.name FunctionParameter.argType
    FunctionParameter.mode FunctionParameter.defexpr AlterFunctionStmt.objtype
    AlterFunctionStmt.func AlterFunctionStmt.actions DoStmt.args CallStmt.funccall
    CallStmt.funcexpr RenameStmt.renameType RenameStmt.relationType RenameStmt.relation
    RenameStmt.object RenameStmt.subname RenameStmt.newname RenameStmt.behavior
    RenameStmt.missing_ok AlterObjectDependsStmt.objectType AlterObjectDependsStmt.relation
    AlterObjectDependsStmt.object AlterObjectDependsStmt.extname AlterObjectDependsStmt.remove
    AlterObjectSchemaStmt.objectType AlterObjectSchemaStmt.relation AlterObjectSchemaStmt.object
    AlterObjectSchemaStmt.newschema AlterObjectSchemaStmt.missing_ok AlterOwnerStmt.objectType
    AlterOwnerStmt.relation AlterOwnerStmt.object AlterOwnerStmt.newowner
    AlterOperatorStmt.opername AlterOperatorStmt.options AlterTypeStmt.typeName
    AlterTypeStmt.options RuleStmt.relation RuleStmt.rulename RuleStmt.whereClause
    RuleStmt.event RuleStmt.instead RuleStmt.actions RuleStmt.replace NotifyStmt.conditionname
    NotifyStmt.payload ListenStmt.conditionname UnlistenStmt.conditionname TransactionStmt.kind
    TransactionStmt.options TransactionStmt.savepoint_name TransactionStmt.gid
    TransactionStmt.chain CompositeTypeStmt.typevar CompositeTypeStmt.coldeflist
    CreateEnumStmt.typeName CreateEnumStmt.vals CreateRangeStmt.typeName CreateRangeStmt.params
    AlterEnumStmt.typeName AlterEnumStmt.oldVal AlterEnumStmt.newVal
    AlterEnumStmt.newValNeighbor AlterEnumStmt.newValIsAfter AlterEnumStmt.skipIfNewValExists
    ViewStmt.view ViewStmt.aliases ViewStmt.query ViewStmt.replace ViewStmt.options
    ViewStmt.withCheckOption LoadStmt.filename CreatedbStmt.dbname CreatedbStmt.options
    AlterDatabaseStmt.dbname AlterDatabaseStmt.options AlterDatabaseSetStmt.dbname
    AlterDatabaseSetStmt.setstmt DropdbStmt.dbname DropdbStmt.missing_ok DropdbStmt.options
    AlterSystemStmt.setstmt ClusterStmt.relation ClusterStmt.indexname ClusterStmt.options
    VacuumStmt.options VacuumStmt.rels VacuumStmt.is_vacuumcmd VacuumRelation.relation
    VacuumRelation.oid VacuumRelation.va_cols ExplainStmt.query ExplainStmt.options
    CreateTableAsStmt.query CreateTableAsStmt.into CreateTableAsStmt.relkind
    CreateTableAsStmt.is_select_into CreateTableAsStmt.if_not_exists
    RefreshMatViewStmt.concurrent RefreshMatViewStmt.skipData RefreshMatViewStmt.relation
    DiscardStmt.target LockStmt.relations LockStmt.mode LockStmt.nowait
    ConstraintsSetStmt.constraints ConstraintsSetStmt.deferred ReindexStmt.kind
    ReindexStmt.relation ReindexStmt.name ReindexStmt.options ReindexStmt.concurrent
    CreateConversionStmt.conversion_name CreateConversionStmt.for_encoding_name
    CreateConversionStmt.to_encoding_name CreateConversionStmt.func_name
    CreateConversionStmt.def CreateCastStmt.sourcetype CreateCastStmt.targettype
    CreateCastStmt.func CreateCastStmt.context CreateCastStmt.inout CreateTransformStmt.replace
    CreateTransformStmt.type_name CreateTransformStmt.lang CreateTransformStmt.fromsql
    CreateTransformStmt.tosql PrepareStmt.name PrepareStmt.argtypes PrepareStmt.query
    ExecuteStmt.name ExecuteStmt.params DeallocateStmt.name DropOwnedStmt.roles
    DropOwnedStmt.behavior ReassignOwnedStmt.roles ReassignOwnedStmt.newrole
    AlterTSDictionaryStmt.dictname AlterTSDictionaryStmt.options AlterTSConfigurationStmt.kind
    AlterTSConfigurationStmt.cfgname AlterTSConfigurationStmt.tokentype
    AlterTSConfigurationStmt.dicts AlterTSConfigurationStmt.override
    AlterTSConfigurationStmt.replace AlterTSConfigurationStmt.missing_ok
    CreatePublicationStmt.pubname CreatePublicationStmt.options CreatePublicationStmt.tables
    CreatePublicationStmt.for_all_tables AlterPublicationStmt.pubname
    AlterPublicationStmt.options AlterPublicationStmt.tables AlterPublicationStmt.for_all_tables
    AlterPublicationStmt.tableAction CreateSubscriptionStmt.subname
    CreateSubscriptionStmt.conninfo CreateSubscriptionStmt.publication
    CreateSubscriptionStmt.options AlterSubscriptionStmt.kind AlterSubscriptionStmt.subname
    AlterSubscriptionStmt.conninfo AlterSubscriptionStmt.publication
    AlterSubscriptionStmt.options DropSubscriptionStmt.subname DropSubscriptionStmt.missing_ok
    DropSubscriptionStmt.behavior FuncExpr.funcid FuncExpr.funcresulttype FuncExpr.funcretset
    FuncExpr.funcvariadic FuncExpr.funcformat FuncExpr.funccollid FuncExpr.inputcollid
    FuncExpr.args FuncExpr.location] in *.
