(* ===== verification/DeparseNames.v ===== *)
(** * The deparser: names, operators, values

    The productions of [src/pg_query_deparse.c] that do not recurse into
    expressions: lists of names, operators, numbers and [Value]s.  Every C
    function is a definition of the same name; [foreach_sep] is the C loop that
    prints a separator while [lnext] is not NULL. *)
From S2P Require Import Prelude Buffer Keywords Quote Enums Nodes.

Inductive DeparseNodeContext : Type :=
| DEPARSE_NODE_CONTEXT_NONE
| DEPARSE_NODE_CONTEXT_INSERT_RELATION
| DEPARSE_NODE_CONTEXT_INSERT_ON_CONFLICT
| DEPARSE_NODE_CONTEXT_UPDATE
| DEPARSE_NODE_CONTEXT_RETURNING
| DEPARSE_NODE_CONTEXT_A_EXPR
| DEPARSE_NODE_CONTEXT_XMLATTRIBUTES
| DEPARSE_NODE_CONTEXT_XMLNAMESPACES
| DEPARSE_NODE_CONTEXT_CREATE_TYPE
| DEPARSE_NODE_CONTEXT_ALTER_TYPE
| DEPARSE_NODE_CONTEXT_IDENTIFIER
| DEPARSE_NODE_CONTEXT_CONSTANT.

#[export] Instance DeparseNodeContext_eq_dec : EqDecision DeparseNodeContext.
Proof. solve_decision. Defined.

(** ["%d"] *)
Definition fmt_d (z : Z) : string := pretty z.

(** ** Names *)

Definition deparseAnyName (parts : list Node) : dep :=
  foreach_sep (fun n => assert_ (IsA_String n) ;;; strVal n (fun s => str (quote_identifier s)))
    (chr ".") parts.

Definition deparseColId (s : string) : dep := str (quote_identifier s).
Definition deparseColLabel (s : string) : dep := str (quote_identifier s).

Definition deparseFuncName (func_name : list Node) : dep :=
  foreach_sep (fun n => strVal n (fun s => str (quote_identifier s))) (chr ".") func_name.

Definition deparseColumnList (columns : list Node) : dep :=
  foreach_sep (fun n => strVal n (fun s => str (quote_identifier s))) (str ", ") columns.

Definition deparseNameList (l : list Node) : dep :=
  foreach_sep (fun n => strVal n deparseColId) (str ", ") l.

Definition RELPERSISTENCE_PERMANENT : ascii := "p".
Definition RELPERSISTENCE_UNLOGGED : ascii := "u".
Definition RELPERSISTENCE_TEMP : ascii := "t".

Definition deparseOptTemp (relpersistence : ascii) : dep :=
  if Ascii.eqb relpersistence RELPERSISTENCE_PERMANENT then skip
  else if Ascii.eqb relpersistence RELPERSISTENCE_UNLOGGED then str "UNLOGGED "
  else if Ascii.eqb relpersistence RELPERSISTENCE_TEMP then str "TEMPORARY "
  else assert_ false.

Definition deparseOptCollate (l : list Node) : dep :=
  when (nonempty l) (str "COLLATE " ;;; deparseAnyName l ;;; chr " ").

Definition deparseAlias (alias : Alias.t Node) : dep :=
  deref alias.(Alias.aliasname) (fun aliasname => str (quote_identifier aliasname)) ;;;
  when (nonempty alias.(Alias.colnames))
    (chr "(" ;;; deparseNameList alias.(Alias.colnames) ;;; chr ")").

Definition deparseRangeVar (range_var : RangeVar.t Node) (context : DeparseNodeContext) : dep :=
  when (negb range_var.(RangeVar.inh) &&
        negb (bool_decide (context = DEPARSE_NODE_CONTEXT_CREATE_TYPE)) &&
        negb (bool_decide (context = DEPARSE_NODE_CONTEXT_ALTER_TYPE)))
    (str "ONLY ") ;;;
  when_some range_var.(RangeVar.catalogname) (fun s => str (quote_identifier s) ;;; chr ".") ;;;
  when_some range_var.(RangeVar.schemaname) (fun s => str (quote_identifier s) ;;; chr ".") ;;;
  deref range_var.(RangeVar.relname) (fun relname => str (quote_identifier relname)) ;;;
  chr " " ;;;
  when_some range_var.(RangeVar.alias) (fun alias =>
    when (bool_decide (context = DEPARSE_NODE_CONTEXT_INSERT_RELATION)) (str "AS ") ;;;
    deparseAlias alias ;;;
    chr " ") ;;;
  rts.

Definition deparseQualifiedNameList (l : list Node) : dep :=
  foreach_sep (fun n => castNode_RangeVar n (fun rv => deparseRangeVar rv DEPARSE_NODE_CONTEXT_NONE))
    (str ", ") l.

(** ** Operators *)

Definition deparseAnyOperator (op : list Node) : dep :=
  llast op (fun n => strVal n (fun s => assert_ (isOp s))) ;;;
  match op with
  | [o1; o2] =>
      strVal o1 (fun s => str (quote_identifier s)) ;;; chr "." ;;; strVal o2 str
  | [o] => strVal o str
  | _ => assert_ false
  end.

Definition deparseQualOp (op : list Node) : dep :=
  let qualified := str "OPERATOR(" ;;; deparseAnyOperator op ;;; str ")" in
  match op with
  | [o] => strVal o (fun s => if isOp s then str s else qualified)
  | _ => qualified
  end.

Definition deparseSubqueryOp (op : list Node) : dep :=
  let qualified := str "OPERATOR(" ;;; deparseAnyOperator op ;;; str ")" in
  match op with
  | [o] => strVal o (fun s =>
      if String.eqb s "~~" then str "LIKE"
      else if String.eqb s "!~~" then str "NOT LIKE"
      else if String.eqb s "~~*" then str "ILIKE"
      else if String.eqb s "!~~*" then str "NOT ILIKE"
      else if isOp s then str s
      else qualified)
  | _ => qualified
  end.

(** ** Values *)

Definition deparseSignedIconst (v : Value) : dep :=
  value_int v (fun z => fmt (fmt_d z)).

Definition deparseNumericOnly (value : Value) : dep :=
  match value with
  | Integer ival => fmt (fmt_d ival)
  | Float s => str s
  | _ => assert_ false
  end.

(** [value->val.str + 1] *)
Definition str_tail (s : string) : string :=
  match s with EmptyString => EmptyString | String _ s' => s' end.

Definition deparseValue (value : Value) (context : DeparseNodeContext) : dep :=
  match value with
  | Integer _ | Float _ => deparseNumericOnly value
  | String_ s =>
      if bool_decide (context = DEPARSE_NODE_CONTEXT_IDENTIFIER) then str (quote_identifier s)
      else if bool_decide (context = DEPARSE_NODE_CONTEXT_CONSTANT) then deparseStringLiteral s
      else str s
  | BitString (String "x" s) => chr "x" ;;; deparseStringLiteral s
  | BitString (String "b" s) => chr "b" ;;; deparseStringLiteral s
  | BitString _ => assert_ false
  | Null => str "NULL"
  end.

Definition deparseAConst (a_const : A_Const.t Node) : dep :=
  deparseValue a_const.(A_Const.val) DEPARSE_NODE_CONTEXT_CONSTANT.

Definition deparseParamRef (param_ref : ParamRef.t Node) : dep :=
  if (param_ref.(ParamRef.number) =? 0)%Z then chr "?"
  else fmt ("$" +:+ fmt_d param_ref.(ParamRef.number)).

Definition deparseSQLValueFunction (f : SQLValueFunction.t Node) : dep :=
  str match f.(SQLValueFunction.op) with
      | SVFOP_CURRENT_DATE => "current_date"
      | SVFOP_CURRENT_TIME => "current_time"
      | SVFOP_CURRENT_TIME_N => "current_time"
      | SVFOP_CURRENT_TIMESTAMP => "current_timestamp"
      | SVFOP_CURRENT_TIMESTAMP_N => "current_timestamp"
      | SVFOP_LOCALTIME => "localtime"
      | SVFOP_LOCALTIME_N => "localtime"
      | SVFOP_LOCALTIMESTAMP => "localtimestamp"
      | SVFOP_LOCALTIMESTAMP_N => "localtimestamp"
      | SVFOP_CURRENT_ROLE => "current_role"
      | SVFOP_CURRENT_USER => "current_user"
      | SVFOP_USER => "user"
      | SVFOP_SESSION_USER => "session_user"
      | SVFOP_CURRENT_CATALOG => "current_catalog"
      | SVFOP_CURRENT_SCHEMA => "current_schema"
      end ;;;
  when (negb (f.(SQLValueFunction.typmod) =? -1)%Z)
    (fmt ("(" +:+ fmt_d f.(SQLValueFunction.typmod) +:+ ")")).

Definition deparseAStar : dep := chr "*".
Definition deparseSetToDefault : dep := str "DEFAULT".

Definition deparseCurrentOfExpr (e : CurrentOfExpr.t Node) : dep :=
  str "CURRENT OF " ;;;
  deref e.(CurrentOfExpr.cursor_name) (fun s => str (quote_identifier s)).

Definition deparseLockingClause (locking_clause : LockingClause.t Node) : dep :=
  match locking_clause.(LockingClause.strength) with
  | LCS_NONE => assert_ false
  | LCS_FORKEYSHARE => str "FOR KEY SHARE "
  | LCS_FORSHARE => str "FOR SHARE "
  | LCS_FORNOKEYUPDATE => str "FOR NO KEY UPDATE "
  | LCS_FORUPDATE => str "FOR UPDATE "
  end ;;;
  when (nonempty locking_clause.(LockingClause.lockedRels))
    (str "OF " ;;; deparseQualifiedNameList locking_clause.(LockingClause.lockedRels)) ;;;
  match locking_clause.(LockingClause.waitPolicy) with
  | LockWaitError => str "NOWAIT"
  | LockWaitSkip => str "SKIP LOCKED"
  | LockWaitBlock => skip
  end ;;;
  rts.
