(* ===== verification/DeparseExpr.v ===== *)
(** * The deparser: expressions and type names

    The expression productions of [src/pg_query_deparse.c].  The C functions
    are mutually recursive; here they are written over [self], the deparser
    applied to the children of the node at hand, one [entry] per production
    that is called on a [Node *].  [DeparseStmt.v] ties the knot. *)
From S2P Require Import Prelude Buffer Keywords Quote Enums Nodes DeparseNames.

Inductive entry : Type :=
| E_Expr              (* deparseExpr *)
| E_CExpr             (* deparseCExpr *)
| E_TableRef          (* deparseTableRef *)
| E_SelectStmt        (* deparseSelectStmt, on castNode(SelectStmt, node) *)
| E_PreparableStmt    (* deparsePreparableStmt *)
| E_GroupByItem       (* the body of the loop of deparseGroupByList *)
| E_FuncExprWindowless (* deparseFuncExprWindowless *)
| E_IndexElem         (* deparseIndexElem, on castNode(IndexElem, node) *)
| E_ColumnDef.        (* deparseColumnDef, on castNode(ColumnDef, node) *)

Section deparse_expr.
Variable self : entry -> Node -> dep.

Definition deparseExpr_ (n : Node) : dep := self E_Expr n.
Definition deparseSelectStmt_ (n : Node) : dep := self E_SelectStmt n.

Definition deparseExprList (exprs : list Node) : dep :=
  foreach_sep deparseExpr_ (str ", ") exprs.

Definition parens_if (need_parens : bool) (d : dep) : dep :=
  when need_parens (chr "(") ;;; d ;;; when need_parens (chr ")").

(** ** Indirection and column references *)

Definition deparseAIndices (a_indices : A_Indices.t Node) : dep :=
  chr "[" ;;;
  when_some a_indices.(A_Indices.lidx) deparseExpr_ ;;;
  when a_indices.(A_Indices.is_slice) (chr ":") ;;;
  when_some a_indices.(A_Indices.uidx) deparseExpr_ ;;;
  chr "]".

Definition indirection_el (n : Node) : dep :=
  match n with
  | N_Value (String_ s) => chr "." ;;; deparseColLabel s
  | N_A_Star _ => str ".*"
  | N_A_Indices a_indices => deparseAIndices a_indices
  | _ => assert_ false
  end.

(** [for_each_from(lc, indirection, N)]: the cells from index [N] on. *)
Fixpoint deparseOptIndirection (indirection : list Node) (N : nat) : dep :=
  match indirection with
  | [] => skip
  | n :: rest =>
      match N with
      | O => indirection_el n ;;; deparseOptIndirection rest O
      | S N' => deparseOptIndirection rest N'
      end
  end.

Definition deparseColumnRef (column_ref : ColumnRef.t Node) : dep :=
  assert_ (nonempty column_ref.(ColumnRef.fields)) ;;;
  linitial column_ref.(ColumnRef.fields) (fun n =>
    match n with
    | N_A_Star _ => deparseAStar
    | N_Value (String_ s) => deparseColLabel s
    | _ => skip
    end) ;;;
  deparseOptIndirection column_ref.(ColumnRef.fields) 1.

(** ** Type names *)

(** [INTERVAL_MASK(b)] is [1 << b]. *)
Definition INTERVAL_MASK (b : Z) : Z := Z.shiftl 1 b.
Definition MONTH : Z := 1.
Definition YEAR : Z := 2.
Definition DAY : Z := 3.
Definition HOUR : Z := 10.
Definition MINUTE : Z := 11.
Definition SECOND : Z := 12.
Definition INTERVAL_FULL_RANGE : Z := 0x7FFF.
Definition INTERVAL_FULL_PRECISION : Z := 0xFFFF.

(** The [switch (fields)] of the interval branch: the text of each case; no
    case is [None]. *)
Definition interval_fields (fields : Z) : option string :=
  let mask l := foldr Z.lor 0%Z (map INTERVAL_MASK l) in
  if (fields =? mask [YEAR])%Z then Some " year"
  else if (fields =? mask [MONTH])%Z then Some " month"
  else if (fields =? mask [DAY])%Z then Some " day"
  else if (fields =? mask [HOUR])%Z then Some " hour"
  else if (fields =? mask [MINUTE])%Z then Some " minute"
  else if (fields =? mask [SECOND])%Z then Some " second"
  else if (fields =? mask [YEAR; MONTH])%Z then Some " year to month"
  else if (fields =? mask [DAY; HOUR])%Z then Some " day to hour"
  else if (fields =? mask [DAY; HOUR; MINUTE])%Z then Some " day to minute"
  else if (fields =? mask [DAY; HOUR; MINUTE; SECOND])%Z then Some " day to second"
  else if (fields =? mask [HOUR; MINUTE])%Z then Some " hour to minute"
  else if (fields =? mask [HOUR; MINUTE; SECOND])%Z then Some " hour to second"
  else if (fields =? mask [MINUTE; SECOND])%Z then Some " minute to second"
  else if (fields =? INTERVAL_FULL_RANGE)%Z then Some ""
  else None.

Definition const_int (n : Node) (k : Z -> dep) : dep :=
  castNode_A_Const n (fun c => value_int c.(A_Const.val) k).

Definition deparse_interval (typmods : list Node) : dep :=
  match typmods with
  | [] => str "interval"
  | t1 :: _ =>
      const_int t1 (fun fields =>
        str "interval" ;;;
        match interval_fields fields with
        | Some "" => skip
        | Some s => str s
        | None => assert_ false
        end) ;;;
      match typmods with
      | [_; t2] => const_int t2 (fun precision =>
          when (negb (precision =? INTERVAL_FULL_PRECISION)%Z)
            (fmt ("(" +:+ fmt_d precision +:+ ")")))
      | _ => skip
      end
  end.

(** [time] and [timestamp] [with time zone] *)
Definition deparse_tz (name : string) (typmods : list Node) : dep :=
  str name ;;;
  when (nonempty typmods)
    (chr "(" ;;;
     foreach_sep (fun n => castNode_A_Const n (fun c => deparseSignedIconst c.(A_Const.val)))
       (str ", ") typmods ;;;
     str ") ") ;;;
  str "with time zone".

(** The branch on [name] for a type of [pg_catalog]; it sets [skip_typmods]
    for the names of [pg_catalog_skips_typmods]. *)
Definition pg_catalog_skips_typmods (name : string) : bool :=
  String.eqb name "timetz" || String.eqb name "timestamptz" || String.eqb name "interval".

Definition deparse_pg_catalog_type (name : string) (typmods : list Node) : dep :=
  if String.eqb name "bpchar" then str "char"
  else if String.eqb name "varchar" then str "varchar"
  else if String.eqb name "numeric" then str "numeric"
  else if String.eqb name "bool" then str "boolean"
  else if String.eqb name "int2" then str "smallint"
  else if String.eqb name "int4" then str "int"
  else if String.eqb name "int8" then str "bigint"
  else if String.eqb name "real" || String.eqb name "float4" then str "real"
  else if String.eqb name "float8" then str "double precision"
  else if String.eqb name "time" then str "time"
  else if String.eqb name "timetz" then deparse_tz "time " typmods
  else if String.eqb name "timestamp" then str "timestamp"
  else if String.eqb name "timestamptz" then deparse_tz "timestamp " typmods
  else if String.eqb name "interval" then deparse_interval typmods
  else str "pg_catalog." ;;; str name.

Definition deparse_typmods (typmods : list Node) : dep :=
  when (nonempty typmods)
    (chr "(" ;;;
     foreach_sep (fun n =>
       match n with
       | N_A_Const c => deparseAConst c
       | N_ParamRef p => deparseParamRef p
       | N_ColumnRef c => deparseColumnRef c
       | _ => assert_ false
       end) (str ", ") typmods ;;;
     chr ")").

Definition deparse_array_bound (n : Node) : dep :=
  chr "[" ;;;
  match n with
  | N_Value (Integer z) => when (negb (z =? -1)%Z) (deparseSignedIconst (Integer z))
  | _ => skip
  end ;;;
  chr "]".

Definition deparseTypeName (type_name : TypeName.t Node) : dep :=
  let names := type_name.(TypeName.names) in
  let typmods := type_name.(TypeName.typmods) in
  let named := deparseAnyName names ;;; deparse_typmods typmods in
  when type_name.(TypeName.setof) (str "SETOF ") ;;;
  match names with
  | [n1; n2] =>
      strVal n1 (fun schema =>
        if String.eqb schema "pg_catalog" then
          strVal n2 (fun name =>
            deparse_pg_catalog_type name typmods ;;;
            when (negb (pg_catalog_skips_typmods name)) (deparse_typmods typmods))
        else named)
  | _ => named
  end ;;;
  foreach deparse_array_bound type_name.(TypeName.arrayBounds) ;;;
  when type_name.(TypeName.pct_type) (str "%type").

Definition deparseTypeList (type_list : list Node) : dep :=
  foreach_sep (fun n => castNode_TypeName n deparseTypeName) (str ", ") type_list.

(** ** Sorting and windows *)

Definition deparseSortBy (sort_by : SortBy.t Node) : dep :=
  deref sort_by.(SortBy.node) deparseExpr_ ;;;
  chr " " ;;;
  match sort_by.(SortBy.sortby_dir) with
  | SORTBY_DEFAULT => skip
  | SORTBY_ASC => str "ASC "
  | SORTBY_DESC => str "DESC "
  | SORTBY_USING => str "USING " ;;; deparseQualOp sort_by.(SortBy.useOp)
  end ;;;
  match sort_by.(SortBy.sortby_nulls) with
  | SORTBY_NULLS_DEFAULT => skip
  | SORTBY_NULLS_FIRST => str "NULLS FIRST "
  | SORTBY_NULLS_LAST => str "NULLS LAST "
  end ;;;
  rts.

Definition deparseOptSortClause (l : list Node) : dep :=
  when (nonempty l)
    (str "ORDER BY " ;;;
     foreach_sep (fun n => castNode_SortBy n deparseSortBy) (str ", ") l ;;;
     chr " ").

Definition FRAMEOPTION_NONDEFAULT : Z := 0x00001.
Definition FRAMEOPTION_RANGE : Z := 0x00002.
Definition FRAMEOPTION_ROWS : Z := 0x00004.
Definition FRAMEOPTION_GROUPS : Z := 0x00008.
Definition FRAMEOPTION_BETWEEN : Z := 0x00010.
Definition FRAMEOPTION_START_UNBOUNDED_PRECEDING : Z := 0x00020.
Definition FRAMEOPTION_END_UNBOUNDED_PRECEDING : Z := 0x00040.
Definition FRAMEOPTION_START_UNBOUNDED_FOLLOWING : Z := 0x00080.
Definition FRAMEOPTION_END_UNBOUNDED_FOLLOWING : Z := 0x00100.
Definition FRAMEOPTION_START_CURRENT_ROW : Z := 0x00200.
Definition FRAMEOPTION_END_CURRENT_ROW : Z := 0x00400.
Definition FRAMEOPTION_START_OFFSET_PRECEDING : Z := 0x00800.
Definition FRAMEOPTION_END_OFFSET_PRECEDING : Z := 0x01000.
Definition FRAMEOPTION_START_OFFSET_FOLLOWING : Z := 0x02000.
Definition FRAMEOPTION_END_OFFSET_FOLLOWING : Z := 0x04000.
Definition FRAMEOPTION_EXCLUDE_CURRENT_ROW : Z := 0x08000.
Definition FRAMEOPTION_EXCLUDE_GROUP : Z := 0x10000.
Definition FRAMEOPTION_EXCLUDE_TIES : Z := 0x20000.

(** [frameOptions & flag] as a condition *)
Definition flag (options bit : Z) : bool := negb (Z.land options bit =? 0)%Z.

(** [Assert(offset != NULL); deparseExpr(str, offset)] *)
Definition frame_offset (offset : option Node) : dep :=
  assert_ (notnull offset) ;;; deref offset deparseExpr_.

Definition frame_start (w : WindowDef.t Node) : dep :=
  let on := flag w.(WindowDef.frameOptions) in
  if on FRAMEOPTION_START_UNBOUNDED_PRECEDING then str "UNBOUNDED PRECEDING "
  else if on FRAMEOPTION_START_UNBOUNDED_FOLLOWING then assert_ false
  else if on FRAMEOPTION_START_CURRENT_ROW then str "CURRENT ROW "
  else if on FRAMEOPTION_START_OFFSET_PRECEDING then
    frame_offset w.(WindowDef.startOffset) ;;; str " PRECEDING "
  else when (on FRAMEOPTION_START_OFFSET_FOLLOWING)
    (frame_offset w.(WindowDef.startOffset) ;;; str " FOLLOWING ").

Definition frame_end (w : WindowDef.t Node) : dep :=
  let on := flag w.(WindowDef.frameOptions) in
  if on FRAMEOPTION_END_UNBOUNDED_PRECEDING then assert_ false
  else if on FRAMEOPTION_END_UNBOUNDED_FOLLOWING then str "UNBOUNDED FOLLOWING "
  else if on FRAMEOPTION_END_CURRENT_ROW then str "CURRENT ROW "
  else if on FRAMEOPTION_END_OFFSET_PRECEDING then
    frame_offset w.(WindowDef.endOffset) ;;; str " PRECEDING "
  else when (on FRAMEOPTION_END_OFFSET_FOLLOWING)
    (frame_offset w.(WindowDef.endOffset) ;;; str " FOLLOWING ").

Definition deparse_frame (w : WindowDef.t Node) : dep :=
  let on := flag w.(WindowDef.frameOptions) in
  when (on FRAMEOPTION_NONDEFAULT)
    ((if on FRAMEOPTION_RANGE then str "RANGE "
      else if on FRAMEOPTION_ROWS then str "ROWS "
      else when (on FRAMEOPTION_GROUPS) (str "GROUPS ")) ;;;
     when (on FRAMEOPTION_BETWEEN) (str "BETWEEN ") ;;;
     frame_start w ;;;
     when (on FRAMEOPTION_BETWEEN) (str "AND " ;;; frame_end w) ;;;
     (if on FRAMEOPTION_EXCLUDE_CURRENT_ROW then str "EXCLUDE CURRENT ROW "
      else if on FRAMEOPTION_EXCLUDE_GROUP then str "EXCLUDE GROUP "
      else when (on FRAMEOPTION_EXCLUDE_TIES) (str "EXCLUDE TIES "))).

Definition deparseWindowDef (window_def : WindowDef.t Node) : dep :=
  (chr "(" ;;;
   when_some window_def.(WindowDef.refname) (fun s => str (quote_identifier s) ;;; chr " ") ;;;
   when (nonempty window_def.(WindowDef.partitionClause))
     (str "PARTITION BY " ;;; deparseExprList window_def.(WindowDef.partitionClause) ;;; chr " ") ;;;
   deparseOptSortClause window_def.(WindowDef.orderClause) ;;;
   deparse_frame window_def ;;;
   rts) ;;;
  chr ")".

(** ** Function calls *)

Definition deparseFuncArgExpr (node : Node) : dep :=
  match node with
  | N_NamedArgExpr named_arg_expr =>
      deref named_arg_expr.(NamedArgExpr.name) str ;;;
      str " := " ;;;
      deref named_arg_expr.(NamedArgExpr.arg) deparseExpr_
  | _ => deparseExpr_ node
  end.

(** The loop over [func_call->args]; the last argument may be [VARIADIC]. *)
Fixpoint deparse_args (func_variadic : bool) (args : list Node) : dep :=
  match args with
  | [] => skip
  | [n] => when func_variadic (str "VARIADIC ") ;;; deparseFuncArgExpr n
  | n :: rest => deparseFuncArgExpr n ;;; str ", " ;;; deparse_args func_variadic rest
  end.

Definition is_overlay (func_call : FuncCall.t Node) : bool :=
  match func_call.(FuncCall.funcname), func_call.(FuncCall.args) with
  | [N_Value (String_ s1); N_Value (String_ s2)], [_; _; _; _] =>
      String.eqb s1 "pg_catalog" && String.eqb s2 "overlay"
  | _, _ => false
  end.

Definition deparse_overlay (args : list Node) : dep :=
  str "OVERLAY(" ;;;
  linitial args deparseExpr_ ;;;
  str " PLACING " ;;;
  lsecond args deparseExpr_ ;;;
  str " FROM " ;;;
  lthird args deparseExpr_ ;;;
  str " FOR " ;;;
  lfourth args deparseExpr_ ;;;
  chr ")".

Definition deparseFuncCall (func_call : FuncCall.t Node) : dep :=
  let within := func_call.(FuncCall.agg_within_group) in
  let agg_order := func_call.(FuncCall.agg_order) in
  assert_ (nonempty func_call.(FuncCall.funcname)) ;;;
  if is_overlay func_call then deparse_overlay func_call.(FuncCall.args)
  else
  (((deparseFuncName func_call.(FuncCall.funcname) ;;;
     chr "(" ;;;
     when func_call.(FuncCall.agg_distinct) (str "DISTINCT ") ;;;
     (if func_call.(FuncCall.agg_star) then chr "*"
      else when (nonempty func_call.(FuncCall.args))
        (deparse_args func_call.(FuncCall.func_variadic) func_call.(FuncCall.args))) ;;;
     chr " " ;;;
     when (nonempty agg_order && negb within) (deparseOptSortClause agg_order) ;;;
     rts) ;;;
    str ") " ;;;
    when (nonempty agg_order && within)
      ((str "WITHIN GROUP (" ;;; deparseOptSortClause agg_order ;;; rts) ;;; str ") ") ;;;
    when_some func_call.(FuncCall.agg_filter) (fun agg_filter =>
      str "FILTER (WHERE " ;;; deparseExpr_ agg_filter ;;; str ") ") ;;;
    when_some func_call.(FuncCall.over) (fun over =>
      str "OVER " ;;;
      match over.(WindowDef.name) with
      | Some name => str name
      | None => deparseWindowDef over
      end)) ;;;
   rts).

(** ** Operators and conditions *)

Definition deparseSubLink (sub_link : SubLink.t Node) : dep :=
  let subselect :=
    deref sub_link.(SubLink.subselect) deparseSelectStmt_ in
  let testexpr := deref sub_link.(SubLink.testexpr) deparseExpr_ in
  match sub_link.(SubLink.subLinkType) with
  | EXISTS_SUBLINK => str "EXISTS (" ;;; subselect ;;; chr ")"
  | ALL_SUBLINK =>
      testexpr ;;; chr " " ;;; deparseSubqueryOp sub_link.(SubLink.operName) ;;;
      str " ALL (" ;;; subselect ;;; chr ")"
  | ANY_SUBLINK =>
      testexpr ;;;
      (if nonempty sub_link.(SubLink.operName) then
         chr " " ;;; deparseSubqueryOp sub_link.(SubLink.operName) ;;; str " ANY "
       else str " IN ") ;;;
      chr "(" ;;; subselect ;;; chr ")"
  | ROWCOMPARE_SUBLINK => assert_ false
  | EXPR_SUBLINK => str "(" ;;; subselect ;;; chr ")"
  | MULTIEXPR_SUBLINK => assert_ false
  | ARRAY_SUBLINK => str "ARRAY(" ;;; subselect ;;; chr ")"
  | CTE_SUBLINK => assert_ false
  end.

(** [IsA(n, BoolExpr) || IsA(n, NullTest) || IsA(n, A_Expr)] *)
Definition needs_operand_parens (n : Node) : bool :=
  IsA_BoolExpr n || IsA_NullTest n || IsA_A_Expr n.

Definition operand (need_parens : bool) (n : option Node) : dep :=
  parens_if need_parens (deref n deparseExpr_).

(** [Assert(list_length(name) == 1); Assert(IsA(linitial(name), String))] and
    the string. *)
Definition the_name (name : list Node) (k : string -> dep) : dep :=
  assert_ (List.length name =? 1)%nat ;;;
  linitial name (fun n => assert_ (IsA_String n) ;;; strVal n k).

(** [Assert(IsA(rexpr, List))] and the list. *)
Definition the_list (rexpr : option Node) (k : list Node -> dep) : dep :=
  deref rexpr (fun n => assert_ (IsA_List n) ;;; castNode_List n k).

(** The [if (strcmp(name, pos) == 0) ... else if (strcmp(name, neg) == 0) ...]
    of the negatable operators. *)
Definition pos_neg (name pos neg t_pos t_neg : string) : dep :=
  if String.eqb name pos then str t_pos
  else if String.eqb name neg then str t_neg
  else assert_ false.

Definition similar_pattern (n : FuncCall.t Node) : dep :=
  assert_ (match n.(FuncCall.funcname) with
           | [N_Value (String_ s1); N_Value (String_ s2)] =>
               String.eqb s1 "pg_catalog" && String.eqb s2 "similar_to_escape"
           | _ => false
           end) ;;;
  match n.(FuncCall.args) with
  | [a] => deparseExpr_ a
  | [a; e] => deparseExpr_ a ;;; str " ESCAPE " ;;; deparseExpr_ e
  | _ => assert_ false
  end.

Definition deparseAExpr (a_expr : A_Expr.t Node) (context : DeparseNodeContext) : dep :=
  let name := a_expr.(A_Expr.name) in
  let lexpr := a_expr.(A_Expr.lexpr) in
  let rexpr := a_expr.(A_Expr.rexpr) in
  let need_lexpr_parens :=
    match lexpr with Some n => needs_operand_parens n | None => false end in
  let need_rexpr_parens :=
    match rexpr with Some n => needs_operand_parens n | None => false end in
  match a_expr.(A_Expr.kind) with
  | AEXPR_OP =>
      parens_if (bool_decide (context = DEPARSE_NODE_CONTEXT_A_EXPR))
        (when (notnull lexpr) (operand need_lexpr_parens lexpr ;;; chr " ") ;;;
         deparseQualOp name ;;;
         when (notnull rexpr) (chr " " ;;; operand need_rexpr_parens rexpr))
  | AEXPR_OP_ANY =>
      deref lexpr deparseExpr_ ;;; chr " " ;;; deparseSubqueryOp name ;;;
      str " ANY(" ;;; deref rexpr deparseExpr_ ;;; chr ")"
  | AEXPR_OP_ALL =>
      deref lexpr deparseExpr_ ;;; chr " " ;;; deparseSubqueryOp name ;;;
      str " ALL(" ;;; deref rexpr deparseExpr_ ;;; chr ")"
  | AEXPR_DISTINCT =>
      the_name name (fun s => assert_ (String.eqb s "=")) ;;;
      operand need_lexpr_parens lexpr ;;;
      str " IS DISTINCT FROM " ;;;
      operand need_rexpr_parens rexpr
  | AEXPR_NOT_DISTINCT =>
      the_name name (fun s => assert_ (String.eqb s "=")) ;;;
      deref lexpr deparseExpr_ ;;;
      str " IS NOT DISTINCT FROM " ;;;
      deref rexpr deparseExpr_
  | AEXPR_NULLIF =>
      the_name name (fun s => assert_ (String.eqb s "=")) ;;;
      str "NULLIF(" ;;; deref lexpr deparseExpr_ ;;; str ", " ;;;
      deref rexpr deparseExpr_ ;;; chr ")"
  | AEXPR_OF =>
      deref lexpr deparseExpr_ ;;; chr " " ;;;
      the_name name (fun s => pos_neg s "=" "<>" "IS OF " "IS NOT OF ") ;;;
      chr "(" ;;; the_list rexpr deparseTypeList ;;; chr ")"
  | AEXPR_IN =>
      deref lexpr deparseExpr_ ;;; chr " " ;;;
      the_name name (fun s => pos_neg s "=" "<>" "IN " "NOT IN ") ;;;
      chr "(" ;;;
      deref rexpr (fun n =>
        assert_ (IsA_List n) ;;;
        match n with
        | N_SubLink sub_link => deparseSubLink sub_link
        | _ => castNode_List n deparseExprList
        end) ;;;
      chr ")"
  | AEXPR_LIKE =>
      deref lexpr deparseExpr_ ;;; chr " " ;;;
      the_name name (fun s => pos_neg s "~~" "!~~" "LIKE " "NOT LIKE ") ;;;
      deref rexpr deparseExpr_
  | AEXPR_ILIKE =>
      deref lexpr deparseExpr_ ;;; chr " " ;;;
      the_name name (fun s => pos_neg s "~~*" "!~~*" "ILIKE " "NOT ILIKE ") ;;;
      deref rexpr deparseExpr_
  | AEXPR_SIMILAR =>
      deref lexpr deparseExpr_ ;;; chr " " ;;;
      the_name name (fun s => pos_neg s "~" "!~" "SIMILAR TO " "NOT SIMILAR TO ") ;;;
      deref rexpr (fun n => castNode_FuncCall n similar_pattern)
  | AEXPR_BETWEEN | AEXPR_NOT_BETWEEN | AEXPR_BETWEEN_SYM | AEXPR_NOT_BETWEEN_SYM =>
      deref lexpr deparseExpr_ ;;; chr " " ;;; the_name name str ;;; chr " " ;;;
      the_list rexpr (foreach_sep deparseExpr_ (str " AND "))
  | AEXPR_PAREN => assert_ false
  end.

(** [IsA(n, BoolExpr)] with [AND_EXPR] or [OR_EXPR] *)
Definition is_and_or (n : Node) : bool :=
  match n with
  | N_BoolExpr b =>
      bool_decide (b.(BoolExpr.boolop) = AND_EXPR) || bool_decide (b.(BoolExpr.boolop) = OR_EXPR)
  | _ => false
  end.

Definition bool_arg (n : Node) : dep := parens_if (is_and_or n) (deparseExpr_ n).

Definition deparseBoolExpr (bool_expr : BoolExpr.t Node) : dep :=
  match bool_expr.(BoolExpr.boolop) with
  | AND_EXPR => foreach_sep bool_arg (str " AND ") bool_expr.(BoolExpr.args)
  | OR_EXPR => foreach_sep bool_arg (str " OR ") bool_expr.(BoolExpr.args)
  | NOT_EXPR =>
      assert_ (List.length bool_expr.(BoolExpr.args) =? 1)%nat ;;;
      str "NOT " ;;; linitial bool_expr.(BoolExpr.args) bool_arg
  end.

Definition deparseCollateClause (collate_clause : CollateClause.t Node) : dep :=
  when_some collate_clause.(CollateClause.arg) (fun arg =>
    parens_if (IsA_A_Expr arg) (deparseExpr_ arg) ;;; chr " ") ;;;
  str "COLLATE " ;;;
  deparseAnyName collate_clause.(CollateClause.collname).

Definition deparseNullTest (null_test : NullTest.t Node) : dep :=
  assert_ (negb null_test.(NullTest.argisrow)) ;;;
  deref null_test.(NullTest.arg) deparseExpr_ ;;;
  match null_test.(NullTest.nulltesttype) with
  | IS_NULL => str " IS NULL"
  | IS_NOT_NULL => str " IS NOT NULL"
  end.

Definition deparseBooleanTest (boolean_test : BooleanTest.t Node) : dep :=
  deref boolean_test.(BooleanTest.arg) deparseExpr_ ;;;
  match boolean_test.(BooleanTest.booltesttype) with
  | IS_TRUE => str " IS TRUE"
  | IS_NOT_TRUE => str " IS NOT TRUE"
  | IS_FALSE => str " IS FALSE"
  | IS_NOT_FALSE => str " IS NOT FALSE"
  | IS_UNKNOWN => str " IS UNKNOWN"
  | IS_NOT_UNKNOWN => str " IS NOT UNKNOWN"
  end.

(** ** Constructors and conditional expressions *)

Definition deparseCaseWhen (case_when : CaseWhen.t Node) : dep :=
  str "WHEN " ;;; deref case_when.(CaseWhen.expr) deparseExpr_ ;;;
  str " THEN " ;;; deref case_when.(CaseWhen.result) deparseExpr_.

Definition deparseCaseExpr (case_expr : CaseExpr.t Node) : dep :=
  str "CASE " ;;;
  when_some case_expr.(CaseExpr.arg) (fun n => deparseExpr_ n ;;; chr " ") ;;;
  foreach (fun n => castNode_CaseWhen n deparseCaseWhen ;;; chr " ") case_expr.(CaseExpr.args) ;;;
  when_some case_expr.(CaseExpr.defresult) (fun n => str "ELSE " ;;; deparseExpr_ n ;;; chr " ") ;;;
  str "END".

Definition deparseCoalesceExpr (e : CoalesceExpr.t Node) : dep :=
  str "COALESCE(" ;;; deparseExprList e.(CoalesceExpr.args) ;;; chr ")".

Definition deparseMinMaxExpr (e : MinMaxExpr.t Node) : dep :=
  match e.(MinMaxExpr.op) with
  | IS_GREATEST => str "GREATEST("
  | IS_LEAST => str "LEAST("
  end ;;;
  deparseExprList e.(MinMaxExpr.args) ;;;
  chr ")".

Definition deparseGroupingFunc (e : GroupingFunc.t Node) : dep :=
  str "GROUPING(" ;;; deparseExprList e.(GroupingFunc.args) ;;; chr ")".

Definition deparseAArrayExpr (e : A_ArrayExpr.t Node) : dep :=
  str "ARRAY[" ;;; deparseExprList e.(A_ArrayExpr.elements) ;;; chr "]".

Definition deparseRowExpr (row_expr : RowExpr.t Node) : dep :=
  match row_expr.(RowExpr.row_format) with
  | COERCE_EXPLICIT_CALL => str "ROW"
  | COERCE_EXPLICIT_CAST => assert_ false
  | COERCE_IMPLICIT_CAST => skip
  end ;;;
  str "(" ;;; deparseExprList row_expr.(RowExpr.args) ;;; chr ")".

Definition deparseAIndirection (a_indirection : A_Indirection.t Node) : dep :=
  let indirection := a_indirection.(A_Indirection.indirection) in
  deref a_indirection.(A_Indirection.arg) (fun arg =>
    let parens (b : bool) := parens_if b (deparseExpr_ arg) in
    match arg with
    | N_A_Indirection _ | N_FuncCall _ | N_A_Expr _ | N_TypeCast _ | N_RowExpr _ => parens true
    | N_ColumnRef _ => linitial indirection (fun n => parens (negb (IsA_A_Indices n)))
    | _ => parens false
    end) ;;;
  deparseOptIndirection indirection 0.

(** ** Casts *)

(** What the branch on [A_Const] makes of a constant cast to a type of
    [pg_catalog]: the text that replaces the cast, if there is one. *)
Definition const_cast (typename : string) (typmods : list Node) (a_const : A_Const.t Node) :
    option dep :=
  if String.eqb typename "bpchar" && negb (nonempty typmods) then
    Some (str "char " ;;; deparseAConst a_const)
  else if String.eqb typename "bool" then
    match a_const.(A_Const.val) with
    | String_ const_val =>
        if String.eqb const_val "t" then Some (str "true")
        else if String.eqb const_val "f" then Some (str "false")
        else None
    | _ => None
    end
  else None.

(** "Ensure negative values have wrapping parentheses" *)
Definition const_needs_parens (v : Value) : bool :=
  match v with
  | Float _ => true
  | Integer z => (z <? 0)%Z
  | _ => false
  end.

Definition deparseTypeCast (type_cast : TypeCast.t Node) : dep :=
  deref type_cast.(TypeCast.typeName) (fun typeName =>
  deref type_cast.(TypeCast.arg) (fun arg =>
    let cast (need_parens : bool) :=
      parens_if need_parens (deparseExpr_ arg) ;;; str "::" ;;; deparseTypeName typeName in
    match arg with
    | N_A_Expr _ =>
        str "CAST(" ;;; deparseExpr_ arg ;;; str " AS " ;;; deparseTypeName typeName ;;; chr ")"
    | N_A_Const a_const =>
        let plain := cast (const_needs_parens a_const.(A_Const.val)) in
        match typeName.(TypeName.names) with
        | [n1; n2] =>
            strVal n1 (fun schema =>
              if String.eqb schema "pg_catalog" then
                strVal n2 (fun typename =>
                  match const_cast typename typeName.(TypeName.typmods) a_const with
                  | Some d => d
                  | None => plain
                  end)
              else plain)
        | _ => plain
        end
    | _ => cast false
    end)).

(** ** XML expressions *)

(** One element of the [ResTarget] lists of [deparseXmlAttributeList] and
    [deparseXmlNamespaceList], which only differ in [DEFAULT]. *)
Definition xml_target (default : dep) (n : Node) : dep :=
  castNode_ResTarget n (fun res_target =>
    assert_ (notnull res_target.(ResTarget.val)) ;;;
    when (negb (notnull res_target.(ResTarget.name))) default ;;;
    deref res_target.(ResTarget.val) deparseExpr_ ;;;
    when_some res_target.(ResTarget.name) (fun name =>
      str " AS " ;;; str (quote_identifier name))).

Definition deparseXmlAttributeList (l : list Node) : dep :=
  foreach_sep (xml_target skip) (str ", ") l.

Definition deparseXmlNamespaceList (l : list Node) : dep :=
  foreach_sep (xml_target (str "DEFAULT ")) (str ", ") l.

Definition deparse_xmloption (xmloption : XmlOptionType) : dep :=
  match xmloption with
  | XMLOPTION_DOCUMENT => str "document "
  | XMLOPTION_CONTENT => str "content "
  end.

Definition XML_STANDALONE_YES : Z := 0.
Definition XML_STANDALONE_NO : Z := 1.
Definition XML_STANDALONE_NO_VALUE : Z := 2.

Definition xml_standalone (z : Z) : dep :=
  if (z =? XML_STANDALONE_YES)%Z then str ", STANDALONE YES"
  else if (z =? XML_STANDALONE_NO)%Z then str ", STANDALONE NO"
  else when (z =? XML_STANDALONE_NO_VALUE)%Z (str ", STANDALONE NO VALUE").

Definition deparseXmlExpr (xml_expr : XmlExpr.t Node) : dep :=
  let args := xml_expr.(XmlExpr.args) in
  let xml_name := deref xml_expr.(XmlExpr.name) (fun s => str (quote_identifier s)) in
  match xml_expr.(XmlExpr.op) with
  | IS_XMLCONCAT => str "xmlconcat(" ;;; deparseExprList args ;;; chr ")"
  | IS_XMLELEMENT =>
      str "xmlelement(name " ;;;
      xml_name ;;;
      when (nonempty xml_expr.(XmlExpr.named_args))
        (str ", xmlattributes(" ;;;
         deparseXmlAttributeList xml_expr.(XmlExpr.named_args) ;;;
         str ")") ;;;
      when (nonempty args) (str ", " ;;; deparseExprList args) ;;;
      str ")"
  | IS_XMLFOREST =>
      str "xmlforest(" ;;; deparseXmlAttributeList xml_expr.(XmlExpr.named_args) ;;; chr ")"
  | IS_XMLPARSE =>
      assert_ (List.length args =? 2)%nat ;;;
      str "xmlparse(" ;;;
      deparse_xmloption xml_expr.(XmlExpr.xmloption) ;;;
      linitial args deparseExpr_ ;;;
      lsecond args (fun n => castNode_TypeCast n (fun c =>
        deref c.(TypeCast.arg) (fun a => castNode_A_Const a (fun a_const =>
          value_str a_const.(A_Const.val) (fun s =>
            when (String.eqb s "t") (str " PRESERVE WHITESPACE")))))) ;;;
      chr ")"
  | IS_XMLPI =>
      str "xmlpi(name " ;;;
      xml_name ;;;
      when (nonempty args) (str ", " ;;; linitial args deparseExpr_) ;;;
      chr ")"
  | IS_XMLROOT =>
      str "xmlroot(" ;;;
      linitial args deparseExpr_ ;;;
      str ", version " ;;;
      lsecond args (fun n =>
        (* [castNode(A_Const, lsecond(args))->val]: the version may be any
           expression; the C code reads the tag of the [Value] a constant
           would have at that place *)
        match n with
        | N_A_Const {| A_Const.val := Null |} => str "NO VALUE"
        | N_A_Const _ => deparseExpr_ n
        | _ => undef
        end) ;;;
      lthird args (fun n => const_int n xml_standalone) ;;;
      chr ")"
  | IS_XMLSERIALIZE => assert_ false
  | IS_DOCUMENT =>
      assert_ (List.length args =? 1)%nat ;;;
      linitial args deparseExpr_ ;;;
      str " IS DOCUMENT"
  end.

Definition deparseXmlSerialize (xml_serialize : XmlSerialize.t Node) : dep :=
  str "xmlserialize(" ;;;
  deparse_xmloption xml_serialize.(XmlSerialize.xmloption) ;;;
  deref xml_serialize.(XmlSerialize.expr) deparseExpr_ ;;;
  str " AS " ;;;
  deref xml_serialize.(XmlSerialize.typeName) deparseTypeName ;;;
  str ")".

(** ** The two expression productions *)

(** [elog(ERROR, "deparse: unpermitted node type in ...: %d", nodeTag(node))] *)
Definition unpermitted (where_ : string) (n : Node) : dep :=
  match n with
  | N_List [] => undef
  | _ => elog ("deparse: unpermitted node type in " +:+ where_ +:+ ": " +:+ fmt_d (nodeTag n))
  end.

Definition deparseExpr_body (node : Node) : dep :=
  match node with
  | N_FuncCall x => deparseFuncCall x
  | N_XmlExpr x => deparseXmlExpr x
  | N_TypeCast x => deparseTypeCast x
  | N_A_Const x => deparseAConst x
  | N_ColumnRef x => deparseColumnRef x
  | N_A_Expr x => deparseAExpr x DEPARSE_NODE_CONTEXT_NONE
  | N_CaseExpr x => deparseCaseExpr x
  | N_A_ArrayExpr x => deparseAArrayExpr x
  | N_NullTest x => deparseNullTest x
  | N_XmlSerialize x => deparseXmlSerialize x
  | N_ParamRef x => deparseParamRef x
  | N_BoolExpr x => deparseBoolExpr x
  | N_SubLink x => deparseSubLink x
  | N_RowExpr x => deparseRowExpr x
  | N_CoalesceExpr x => deparseCoalesceExpr x
  | N_SetToDefault _ => deparseSetToDefault
  | N_A_Indirection x => deparseAIndirection x
  | N_CollateClause x => deparseCollateClause x
  | N_CurrentOfExpr x => deparseCurrentOfExpr x
  | N_SQLValueFunction x => deparseSQLValueFunction x
  | N_MinMaxExpr x => deparseMinMaxExpr x
  | N_BooleanTest x => deparseBooleanTest x
  | N_GroupingFunc x => deparseGroupingFunc x
  | _ => unpermitted "a_expr/b_expr" node
  end.

Definition deparseCExpr_body (node : Node) : dep :=
  match node with
  | N_ColumnRef x => deparseColumnRef x
  | N_A_Const x => deparseAConst x
  | N_TypeCast x => deparseTypeCast x
  | N_A_Expr x => chr "(" ;;; deparseAExpr x DEPARSE_NODE_CONTEXT_NONE ;;; chr ")"
  | N_ParamRef x => deparseParamRef x
  | N_A_Indirection x => deparseAIndirection x
  | N_CaseExpr x => deparseCaseExpr x
  | N_FuncCall x => deparseFuncCall x
  | N_SubLink x => deparseSubLink x
  | N_A_ArrayExpr x => deparseAArrayExpr x
  | N_RowExpr x => deparseRowExpr x
  | N_GroupingFunc x => deparseGroupingFunc x
  | _ => unpermitted "c_expr" node
  end.

Definition deparseFuncExprWindowless_body (node : Node) : dep :=
  match node with
  | N_FuncCall x => deparseFuncCall x
  | N_SQLValueFunction x => deparseSQLValueFunction x
  | N_TypeCast x => deparseTypeCast x
  | N_CoalesceExpr x => deparseCoalesceExpr x
  | N_MinMaxExpr x => deparseMinMaxExpr x
  | N_XmlExpr x => deparseXmlExpr x
  | N_XmlSerialize x => deparseXmlSerialize x
  | _ => assert_ false
  end.
End deparse_expr.
