(* ===== verification/DeparseStmt.v ===== *)
(** * The deparser: FROM clauses and statements

    The table expressions, SELECT, INSERT, UPDATE and DELETE productions of
    [src/pg_query_deparse.c], with the constraints, options and index elements
    they reach, and the function [deparse] that closes the recursion. *)
From S2P Require Import Prelude Buffer Keywords Quote Enums Nodes DeparseNames DeparseExpr.

Section deparse_stmt.
Variable self : entry -> Node -> dep.

Abbreviation deparseExpr_ := (deparseExpr_ self).
Abbreviation deparseExprList := (deparseExprList self).
Abbreviation deparseTypeName := (deparseTypeName self).
Abbreviation deparseSelectStmt_ := (deparseSelectStmt_ self).
Definition deparseCExpr_ (n : Node) : dep := self E_CExpr n.
Definition deparseTableRef_ (n : Node) : dep := self E_TableRef n.
Definition deparsePreparableStmt_ (n : Node) : dep := self E_PreparableStmt n.
Definition deparseFuncExprWindowless_ (n : Node) : dep := self E_FuncExprWindowless n.
Definition deparseIndexElem_ (n : Node) : dep := self E_IndexElem n.
Definition deparseColumnDef_ (n : Node) : dep := self E_ColumnDef n.

(** ** Options *)

(** [deparseSeqOptElem]: the chain of [strcmp]s on [defname].  [cycle] is
    tested with [intVal(arg) == 1] and [== 0]. *)
Definition deparseSeqOptElem (def_elem : DefElem.t Node) : dep :=
  let arg := def_elem.(DefElem.arg) in
  let numeric := deref arg (fun n =>
    match n with N_Value v => deparseNumericOnly v | _ => assert_ false end) in
  let any_name := match arg with
    | Some n => castNode_List n deparseAnyName
    | None => skip
    end in
  deref def_elem.(DefElem.defname) (fun defname =>
    if String.eqb defname "as" then
      str "AS " ;;; deref arg (fun n => castNode_TypeName n deparseTypeName)
    else if String.eqb defname "cache" then str "CACHE " ;;; numeric
    else if String.eqb defname "cycle" then
      deref arg (fun n => intVal n (fun z =>
        if (z =? 1)%Z then str "CYCLE"
        else if (z =? 0)%Z then str "NO CYCLE"
        else assert_ false))
    else if String.eqb defname "increment" then str "INCREMENT " ;;; numeric
    else if String.eqb defname "maxvalue" then
      if notnull arg then str "MAXVALUE " ;;; numeric else str "NO MAXVALUE"
    else if String.eqb defname "minvalue" then
      if notnull arg then str "MINVALUE " ;;; numeric else str "NO MINVALUE"
    else if String.eqb defname "owned_by" then str "OWNED BY " ;;; any_name
    else if String.eqb defname "sequence_name" then str "SEQUENCE NAME " ;;; any_name
    else if String.eqb defname "start" then str "START " ;;; numeric
    else if String.eqb defname "restart" then
      if notnull arg then str "RESTART " ;;; numeric else str "RESTART"
    else assert_ false).

Definition deparseSeqOptList (options : list Node) : dep :=
  assert_ (nonempty options) ;;;
  foreach (fun n => castNode_DefElem n deparseSeqOptElem ;;; chr " ") options.

Definition deparseOptParenthesizedSeqOptList (options : list Node) : dep :=
  when (nonempty options) (chr "(" ;;; deparseSeqOptList options ;;; chr ")").

Definition deparseDefArg (arg : Node) (is_operator_def_arg : bool) : dep :=
  match arg with
  | N_TypeName type_name => deparseTypeName type_name
  | N_List [] => undef
  | N_List [o] => strVal o str
  | N_List [_; _] as l =>
      castNode_List l (fun l => str "OPERATOR(" ;;; deparseAnyOperator l ;;; chr ")")
  | N_List _ => assert_ false
  | N_Value (Float _ as v) | N_Value (Integer _ as v) => deparseValue v DEPARSE_NODE_CONTEXT_NONE
  | N_Value (String_ s) =>
      if negb is_operator_def_arg && String.eqb s "none" then str "NONE"
      else if isReservedKeyword s then str s
      else deparseStringLiteral s
  | _ => assert_ false
  end.

Definition deparseCreateGenericOptions (options : list Node) : dep :=
  when (nonempty options)
    (str "OPTIONS (" ;;;
     foreach_sep (fun n => castNode_DefElem n (fun def_elem =>
       deref def_elem.(DefElem.defname) (fun s => str (quote_identifier s)) ;;;
       chr " " ;;;
       deref def_elem.(DefElem.arg) (fun a => strVal a deparseStringLiteral)))
       (str ", ") options ;;;
     str ") ").

Definition rel_option (n : Node) : dep :=
  castNode_DefElem n (fun def_elem =>
    when_some def_elem.(DefElem.defnamespace) (fun s => str (quote_identifier s) ;;; chr ".") ;;;
    when_some def_elem.(DefElem.defname) (fun s => str (quote_identifier s)) ;;;
    when (notnull def_elem.(DefElem.defname) && notnull def_elem.(DefElem.arg)) (chr "=") ;;;
    when_some def_elem.(DefElem.arg) (fun arg => deparseDefArg arg false)).

Definition deparseRelOptions (l : list Node) : dep :=
  chr "(" ;;; foreach_sep rel_option (str ", ") l ;;; chr ")".

Definition deparseOptWith (l : list Node) : dep :=
  when (nonempty l) (str "WITH " ;;; deparseRelOptions l ;;; chr " ").

(** ** Lists of targets *)

Definition deparseTargetList (l : list Node) : dep :=
  foreach_sep (fun n => castNode_ResTarget n (fun res_target =>
    match res_target.(ResTarget.val) with
    | None => elog "deparse: error in deparseTargetList: ResTarget without val"
    | Some (N_ColumnRef c) => deparseColumnRef self c
    | Some val => deparseExpr_ val
    end ;;;
    when_some res_target.(ResTarget.name) (fun name =>
      str " AS " ;;; str (quote_identifier name))))
    (str ", ") l.

Definition deparseInsertColumnList (l : list Node) : dep :=
  foreach_sep (fun n => castNode_ResTarget n (fun res_target =>
    deref res_target.(ResTarget.name) (fun name => str (quote_identifier name)) ;;;
    deparseOptIndirection self res_target.(ResTarget.indirection) 0))
    (str ", ") l.

Definition deparseSetTarget (res_target : ResTarget.t Node) : dep :=
  deref res_target.(ResTarget.name) deparseColId ;;;
  deparseOptIndirection self res_target.(ResTarget.indirection) 0.

(** The inner loop of [deparseSetClauseList], over the cells from index [i] on:
    it stops after the cell of index [ncolumns - 1], counted in the whole
    list. *)
Fixpoint multi_assign_targets (ncolumns : Z) (i : Z) (l : list Node) : dep :=
  match l with
  | [] => skip
  | n :: rest =>
      castNode_ResTarget n deparseSetTarget ;;;
      if (i =? ncolumns - 1)%Z then skip
      else when (nonempty rest) (str ", ") ;;; multi_assign_targets ncolumns (i + 1) rest
  end.

(** The outer loop, with [skip_next_n_elems]. *)
Fixpoint set_clauses (i : Z) (skip_next_n_elems : Z) (l : list Node) : dep :=
  match l with
  | [] => skip
  | n :: rest =>
      if (0 <? skip_next_n_elems)%Z then set_clauses (i + 1) (skip_next_n_elems - 1) rest
      else
        when (negb (i =? 0)%Z) (str ", ") ;;;
        castNode_ResTarget n (fun res_target =>
          deref res_target.(ResTarget.val) (fun val =>
            if IsA_MultiAssignRef val then
              castNode_MultiAssignRef val (fun r =>
                str "(" ;;;
                multi_assign_targets r.(MultiAssignRef.ncolumns) i l ;;;
                str ") = " ;;;
                deref r.(MultiAssignRef.source) deparseExpr_ ;;;
                set_clauses (i + 1) (r.(MultiAssignRef.ncolumns) - 1) rest)
            else
              deparseSetTarget res_target ;;;
              str " = " ;;;
              deparseExpr_ val ;;;
              set_clauses (i + 1) 0 rest))
  end.

Definition deparseSetClauseList (target_list : list Node) : dep :=
  assert_ (nonempty target_list) ;;; set_clauses 0 0 target_list.

(** ** FROM, WHERE, GROUP BY *)

Definition deparseFromList (l : list Node) : dep := foreach_sep deparseTableRef_ (str ", ") l.

Definition deparseFromClause (l : list Node) : dep :=
  when (nonempty l) (str "FROM " ;;; deparseFromList l ;;; chr " ").

Definition deparseWhereClause (node : option Node) : dep :=
  when_some node (fun n => str "WHERE " ;;; deparseExpr_ n ;;; chr " ").

Definition deparseGroupByList (l : list Node) : dep :=
  foreach_sep (self E_GroupByItem) (str ", ") l.

Definition deparseGroupingSet (grouping_set : GroupingSet.t Node) : dep :=
  match grouping_set.(GroupingSet.kind) with
  | GROUPING_SET_EMPTY => str "()"
  | GROUPING_SET_SIMPLE => assert_ false
  | GROUPING_SET_ROLLUP =>
      str "ROLLUP (" ;;; deparseExprList grouping_set.(GroupingSet.content) ;;; chr ")"
  | GROUPING_SET_CUBE =>
      str "CUBE (" ;;; deparseExprList grouping_set.(GroupingSet.content) ;;; chr ")"
  | GROUPING_SET_SETS =>
      str "GROUPING SETS (" ;;; deparseGroupByList grouping_set.(GroupingSet.content) ;;; chr ")"
  end.

(** The body of the loop of [deparseGroupByList]. *)
Definition group_by_item (n : Node) : dep :=
  let expr := deparseExpr_body self n in
  match n with
  | N_GroupingSet grouping_set => deparseGroupingSet grouping_set
  | _ => expr
  end.

(** ** Index elements *)

Definition deparseIndexElem (index_elem : IndexElem.t Node) : dep :=
  match index_elem.(IndexElem.name), index_elem.(IndexElem.expr) with
  | Some name, _ => deparseColId name ;;; chr " "
  | None, Some expr =>
      match expr with
      | N_FuncCall _ | N_SQLValueFunction _ | N_TypeCast _ | N_CoalesceExpr _
      | N_MinMaxExpr _ | N_XmlExpr _ | N_XmlSerialize _ => deparseFuncExprWindowless_ expr
      | _ => chr "(" ;;; deparseExpr_ expr ;;; str ") "
      end
  | None, None => assert_ false
  end ;;;
  deparseOptCollate index_elem.(IndexElem.collation) ;;;
  when (nonempty index_elem.(IndexElem.opclass))
    (deparseAnyName index_elem.(IndexElem.opclass) ;;;
     when (nonempty index_elem.(IndexElem.opclassopts))
       (deparseRelOptions index_elem.(IndexElem.opclassopts)) ;;;
     chr " ") ;;;
  match index_elem.(IndexElem.ordering) with
  | SORTBY_DEFAULT => skip
  | SORTBY_ASC => str "ASC "
  | SORTBY_DESC => str "DESC "
  | SORTBY_USING => assert_ false
  end ;;;
  match index_elem.(IndexElem.nulls_ordering) with
  | SORTBY_NULLS_DEFAULT => skip
  | SORTBY_NULLS_FIRST => str "NULLS FIRST "
  | SORTBY_NULLS_LAST => str "NULLS LAST "
  end ;;;
  rts.

(** ** Constraints and column definitions *)

Definition ATTRIBUTE_IDENTITY_ALWAYS : ascii := "a".
Definition ATTRIBUTE_IDENTITY_BY_DEFAULT : ascii := "d".
Definition DEFAULT_INDEX_TYPE : string := "btree".

Definition in_parens_sp (d : dep) : dep := chr "(" ;;; d ;;; str ") ".

Definition exclusion_el (n : Node) : dep :=
  castNode_List n (fun exclusion =>
    assert_ (List.length exclusion =? 2)%nat ;;;
    linitial exclusion deparseIndexElem_ ;;;
    str " WITH " ;;;
    lsecond exclusion (fun o => castNode_List o deparseAnyOperator)).

Definition constraint_kind (constraint : Constraint.t Node) : dep :=
  let raw_expr := deref constraint.(Constraint.raw_expr) deparseExpr_ in
  match constraint.(Constraint.contype) with
  | CONSTR_NULL => str "NULL "
  | CONSTR_NOTNULL => str "NOT NULL "
  | CONSTR_DEFAULT => str "DEFAULT " ;;; raw_expr
  | CONSTR_IDENTITY =>
      str "GENERATED " ;;;
      (if Ascii.eqb constraint.(Constraint.generated_when) ATTRIBUTE_IDENTITY_ALWAYS
       then str "ALWAYS "
       else if Ascii.eqb constraint.(Constraint.generated_when) ATTRIBUTE_IDENTITY_BY_DEFAULT
       then str "BY DEFAULT "
       else assert_ false) ;;;
      str "AS IDENTITY " ;;;
      deparseOptParenthesizedSeqOptList constraint.(Constraint.options)
  | CONSTR_GENERATED =>
      assert_ (Ascii.eqb constraint.(Constraint.generated_when) ATTRIBUTE_IDENTITY_ALWAYS) ;;;
      str "GENERATED ALWAYS AS (" ;;; raw_expr ;;; str ") STORED "
  | CONSTR_CHECK => str "CHECK (" ;;; raw_expr ;;; str ") "
  | CONSTR_PRIMARY => str "PRIMARY KEY "
  | CONSTR_UNIQUE => str "UNIQUE "
  | CONSTR_EXCLUSION =>
      str "EXCLUDE " ;;;
      deref constraint.(Constraint.access_method) (fun access_method =>
        when (negb (String.eqb access_method DEFAULT_INDEX_TYPE))
          (str "USING " ;;; str (quote_identifier access_method) ;;; chr " ")) ;;;
      in_parens_sp (foreach_sep exclusion_el (str ", ") constraint.(Constraint.exclusions)) ;;;
      when_some constraint.(Constraint.where_clause) (fun n =>
        str "WHERE (" ;;; deparseExpr_ n ;;; str ") ")
  | CONSTR_FOREIGN => when (nonempty constraint.(Constraint.fk_attrs)) (str "FOREIGN KEY ")
  | CONSTR_ATTR_DEFERRABLE => str "DEFERRABLE "
  | CONSTR_ATTR_NOT_DEFERRABLE => str "NOT DEFERRABLE "
  | CONSTR_ATTR_DEFERRED => str "INITIALLY DEFERRED "
  | CONSTR_ATTR_IMMEDIATE => str "INITIALLY IMMEDIATE "
  end.

Definition column_list_sp (l : list Node) : dep :=
  when (nonempty l) (in_parens_sp (deparseColumnList l)).

(** The switches on [fk_upd_action] and [fk_del_action]. *)
Definition fk_action (event : string) (action : ascii) : dep :=
  if Ascii.eqb action "a" then skip                                        (* NOACTION *)
  else if Ascii.eqb action "r" then str ("ON " +:+ event +:+ " RESTRICT ")
  else if Ascii.eqb action "c" then str ("ON " +:+ event +:+ " CASCADE ")
  else if Ascii.eqb action "n" then str ("ON " +:+ event +:+ " SET NULL ")
  else if Ascii.eqb action "d" then str ("ON " +:+ event +:+ " SET DEFAULT ")
  else skip.

Definition fk_match (matchtype : ascii) : dep :=
  if Ascii.eqb matchtype "s" then skip                                     (* SIMPLE *)
  else if Ascii.eqb matchtype "f" then str "MATCH FULL "
  else if Ascii.eqb matchtype "p" then assert_ false                       (* PARTIAL *)
  else skip.

Definition constraint_references (constraint : Constraint.t Node) : dep :=
  when_some constraint.(Constraint.pktable) (fun pktable =>
    str "REFERENCES " ;;;
    deparseRangeVar pktable DEPARSE_NODE_CONTEXT_NONE ;;;
    chr " " ;;;
    column_list_sp constraint.(Constraint.pk_attrs)) ;;;
  fk_match constraint.(Constraint.fk_matchtype) ;;;
  fk_action "UPDATE" constraint.(Constraint.fk_upd_action) ;;;
  fk_action "DELETE" constraint.(Constraint.fk_del_action).

Definition constraint_attributes (constraint : Constraint.t Node) : dep :=
  when (nonempty constraint.(Constraint.including))
    (str "INCLUDE (" ;;; deparseColumnList constraint.(Constraint.including) ;;; str ") ") ;;;
  when_some constraint.(Constraint.indexname) (fun s =>
    fmt ("USING INDEX " +:+ quote_identifier s +:+ " ")) ;;;
  when_some constraint.(Constraint.indexspace) (fun s =>
    fmt ("USING INDEX TABLESPACE " +:+ quote_identifier s +:+ " ")) ;;;
  when constraint.(Constraint.deferrable) (str "DEFERRABLE ") ;;;
  when constraint.(Constraint.initdeferred) (str "INITIALLY DEFERRED ") ;;;
  when constraint.(Constraint.is_no_inherit) (str "NO INHERIT ") ;;;
  when constraint.(Constraint.skip_validation) (str "NOT VALID ").

Definition deparseConstraint (constraint : Constraint.t Node) : dep :=
  when_some constraint.(Constraint.conname) (fun conname =>
    str "CONSTRAINT " ;;; str conname ;;; chr " ") ;;;
  constraint_kind constraint ;;;
  column_list_sp constraint.(Constraint.keys) ;;;
  column_list_sp constraint.(Constraint.fk_attrs) ;;;
  constraint_references constraint ;;;
  constraint_attributes constraint ;;;
  rts.

Definition deparseColumnDef (column_def : ColumnDef.t Node) : dep :=
  when_some column_def.(ColumnDef.colname) (fun s => str s ;;; chr " ") ;;;
  when_some column_def.(ColumnDef.typeName) (fun t => deparseTypeName t ;;; chr " ") ;;;
  when_some column_def.(ColumnDef.raw_default) (fun n =>
    str "USING " ;;; deparseExpr_ n ;;; chr " ") ;;;
  when (nonempty column_def.(ColumnDef.fdwoptions))
    (deparseCreateGenericOptions column_def.(ColumnDef.fdwoptions) ;;; chr " ") ;;;
  foreach (fun n => castNode_Constraint n deparseConstraint ;;; chr " ")
    column_def.(ColumnDef.constraints) ;;;
  when_some column_def.(ColumnDef.collClause) (deparseCollateClause self) ;;;
  rts.

(** ** Table references *)

Definition deparseRangeTableSample (range_table_sample : RangeTableSample.t Node) : dep :=
  deref range_table_sample.(RangeTableSample.relation) (fun n =>
    castNode_RangeVar n (fun rv => deparseRangeVar rv DEPARSE_NODE_CONTEXT_NONE)) ;;;
  str " TABLESAMPLE " ;;;
  deparseFuncName range_table_sample.(RangeTableSample.method) ;;;
  chr "(" ;;;
  deparseExprList range_table_sample.(RangeTableSample.args) ;;;
  str ") " ;;;
  when_some range_table_sample.(RangeTableSample.repeatable) (fun n =>
    str "REPEATABLE (" ;;; deparseExpr_ n ;;; str ") ") ;;;
  rts.

Definition deparseRangeTableFuncCol (col : RangeTableFuncCol.t Node) : dep :=
  deref col.(RangeTableFuncCol.colname) (fun s => str (quote_identifier s)) ;;;
  chr " " ;;;
  (if col.(RangeTableFuncCol.for_ordinality) then str "FOR ORDINALITY "
   else
     deref col.(RangeTableFuncCol.typeName) deparseTypeName ;;;
     chr " " ;;;
     when_some col.(RangeTableFuncCol.colexpr) (fun n => str "PATH " ;;; deparseExpr_ n ;;; chr " ") ;;;
     when_some col.(RangeTableFuncCol.coldefexpr) (fun n =>
       str "DEFAULT " ;;; deparseExpr_ n ;;; chr " ") ;;;
     when col.(RangeTableFuncCol.is_not_null) (str "NOT NULL ")) ;;;
  rts.

Definition deparseRangeTableFunc (range_table_func : RangeTableFunc.t Node) : dep :=
  when range_table_func.(RangeTableFunc.lateral) (str "LATERAL ") ;;;
  str "xmltable(" ;;;
  when (nonempty range_table_func.(RangeTableFunc.namespaces))
    (str "xmlnamespaces(" ;;;
     deparseXmlNamespaceList self range_table_func.(RangeTableFunc.namespaces) ;;;
     str "), ") ;;;
  chr "(" ;;;
  deref range_table_func.(RangeTableFunc.rowexpr) deparseExpr_ ;;;
  chr ")" ;;;
  str " PASSING " ;;;
  deref range_table_func.(RangeTableFunc.docexpr) deparseExpr_ ;;;
  str " COLUMNS " ;;;
  foreach_sep (fun n => castNode_RangeTableFuncCol n deparseRangeTableFuncCol)
    (str ", ") range_table_func.(RangeTableFunc.columns) ;;;
  str ") " ;;;
  when_some range_table_func.(RangeTableFunc.alias) (fun alias => str "AS " ;;; deparseAlias alias) ;;;
  rts.

Definition deparseColumnDefList (l : list Node) : dep :=
  foreach_sep deparseColumnDef_ (str ", ") l.

(** One element of [ROWS FROM]: a function and its column definitions. *)
Definition rows_from_el (n : Node) : dep :=
  castNode_List n (fun lfunc =>
    assert_ (List.length lfunc =? 2)%nat ;;;
    linitial lfunc deparseFuncExprWindowless_ ;;;
    chr " " ;;;
    lsecond lfunc (fun c => castNode_List c (fun coldeflist =>
      when (nonempty coldeflist) (str "AS (" ;;; deparseColumnDefList coldeflist ;;; chr ")")))).

Definition deparseRangeFunction (range_func : RangeFunction.t Node) : dep :=
  when range_func.(RangeFunction.lateral) (str "LATERAL ") ;;;
  (if range_func.(RangeFunction.is_rowsfrom) then
     str "ROWS FROM " ;;;
     chr "(" ;;;
     foreach_sep rows_from_el (str ", ") range_func.(RangeFunction.functions) ;;;
     chr ")"
   else
     linitial range_func.(RangeFunction.functions) (fun n => castNode_List n (fun lfunc =>
       assert_ (List.length lfunc =? 2)%nat ;;;
       linitial lfunc deparseFuncExprWindowless_))) ;;;
  chr " " ;;;
  when range_func.(RangeFunction.ordinality) (str "WITH ORDINALITY ") ;;;
  when_some range_func.(RangeFunction.alias) (fun alias => deparseAlias alias ;;; chr " ") ;;;
  when (nonempty range_func.(RangeFunction.coldeflist))
    (when (negb (notnull range_func.(RangeFunction.alias))) (str "AS ") ;;;
     chr "(" ;;;
     deparseColumnDefList range_func.(RangeFunction.coldeflist) ;;;
     chr ")") ;;;
  rts.

Definition deparseRangeSubselect (range_subselect : RangeSubselect.t Node) : dep :=
  when range_subselect.(RangeSubselect.lateral) (str "LATERAL ") ;;;
  chr "(" ;;;
  deref range_subselect.(RangeSubselect.subquery) deparseSelectStmt_ ;;;
  chr ")" ;;;
  when_some range_subselect.(RangeSubselect.alias) (fun alias => chr " " ;;; deparseAlias alias).

Definition join_keyword (join_expr : JoinExpr.t Node) : dep :=
  match join_expr.(JoinExpr.jointype) with
  | JOIN_INNER =>
      when (negb join_expr.(JoinExpr.isNatural) && negb (notnull join_expr.(JoinExpr.quals)) &&
            negb (nonempty join_expr.(JoinExpr.usingClause)))
        (str "CROSS ")
  | JOIN_LEFT => str "LEFT "
  | JOIN_FULL => str "FULL "
  | JOIN_RIGHT => str "RIGHT "
  | JOIN_SEMI | JOIN_ANTI | JOIN_UNIQUE_OUTER | JOIN_UNIQUE_INNER => assert_ false
  end.

Definition is_unaliased_join (n : Node) : bool :=
  match n with
  | N_JoinExpr j => negb (notnull j.(JoinExpr.alias))
  | _ => false
  end.

Definition deparseJoinExpr (join_expr : JoinExpr.t Node) : dep :=
  let need_alias_parens := notnull join_expr.(JoinExpr.alias) in
  deref join_expr.(JoinExpr.rarg) (fun rarg =>
  when need_alias_parens (chr "(") ;;;
  deref join_expr.(JoinExpr.larg) deparseTableRef_ ;;;
  chr " " ;;;
  when join_expr.(JoinExpr.isNatural) (str "NATURAL ") ;;;
  join_keyword join_expr ;;;
  str "JOIN " ;;;
  parens_if (is_unaliased_join rarg) (deparseTableRef_ rarg) ;;;
  chr " " ;;;
  when_some join_expr.(JoinExpr.quals) (fun n => str "ON " ;;; deparseExpr_ n ;;; chr " ") ;;;
  when (nonempty join_expr.(JoinExpr.usingClause))
    (str "USING (" ;;; deparseNameList join_expr.(JoinExpr.usingClause) ;;; str ") ") ;;;
  when need_alias_parens (str ") ") ;;;
  when_some join_expr.(JoinExpr.alias) deparseAlias ;;;
  rts).

Definition deparseTableRef_body (node : Node) : dep :=
  match node with
  | N_RangeVar x => deparseRangeVar x DEPARSE_NODE_CONTEXT_NONE
  | N_RangeTableSample x => deparseRangeTableSample x
  | N_RangeFunction x => deparseRangeFunction x
  | N_RangeTableFunc x => deparseRangeTableFunc x
  | N_RangeSubselect x => deparseRangeSubselect x
  | N_JoinExpr x => deparseJoinExpr x
  | _ => assert_ false
  end.

(** ** WITH, INTO *)

Definition deparseCommonTableExpr (cte : CommonTableExpr.t Node) : dep :=
  deref cte.(CommonTableExpr.ctename) deparseColId ;;;
  when (nonempty cte.(CommonTableExpr.aliascolnames))
    (chr "(" ;;; deparseNameList cte.(CommonTableExpr.aliascolnames) ;;; chr ")") ;;;
  chr " " ;;;
  str "AS " ;;;
  match cte.(CommonTableExpr.ctematerialized) with
  | CTEMaterializeDefault => skip
  | CTEMaterializeAlways => str "MATERIALIZED "
  | CTEMaterializeNever => str "NOT MATERIALIZED "
  end ;;;
  chr "(" ;;;
  deref cte.(CommonTableExpr.ctequery) deparsePreparableStmt_ ;;;
  chr ")".

Definition deparseWithClause (with_clause : WithClause.t Node) : dep :=
  str "WITH " ;;;
  when with_clause.(WithClause.recursive) (str "RECURSIVE ") ;;;
  foreach_sep (fun n => castNode_CommonTableExpr n deparseCommonTableExpr)
    (str ", ") with_clause.(WithClause.ctes) ;;;
  rts.

Definition deparseIntoClause (into_clause : IntoClause.t Node) : dep :=
  deref into_clause.(IntoClause.rel) (fun rel => deparseRangeVar rel DEPARSE_NODE_CONTEXT_NONE) ;;;
  when (nonempty into_clause.(IntoClause.colNames))
    (chr "(" ;;; deparseColumnList into_clause.(IntoClause.colNames) ;;; chr ")") ;;;
  chr " " ;;;
  when_some into_clause.(IntoClause.accessMethod) (fun s =>
    str "USING " ;;; str (quote_identifier s) ;;; chr " ") ;;;
  deparseOptWith into_clause.(IntoClause.options) ;;;
  match into_clause.(IntoClause.onCommit) with
  | ONCOMMIT_NOOP => skip
  | ONCOMMIT_PRESERVE_ROWS => str "ON COMMIT PRESERVE ROWS "
  | ONCOMMIT_DELETE_ROWS => str "ON COMMIT DELETE ROWS "
  | ONCOMMIT_DROP => str "ON COMMIT DROP "
  end ;;;
  when_some into_clause.(IntoClause.tableSpaceName) (fun s =>
    str "TABLESPACE " ;;; str (quote_identifier s) ;;; chr " ") ;;;
  rts.

Definition deparse_with (with_clause : option (WithClause.t Node)) : dep :=
  when_some with_clause (fun w => deparseWithClause w ;;; chr " ").

(** ** SELECT *)

Definition values_row (n : Node) : dep :=
  chr "(" ;;; castNode_List n deparseExprList ;;; chr ")".

Definition distinct_clause (distinctClause : list Node) : dep :=
  match distinctClause with
  | [] => skip
  | n :: _ =>
      str "DISTINCT " ;;;
      match n with
      | N_List [] => skip                      (* linitial(distinctClause) == NULL *)
      | _ => str "ON (" ;;; deparseExprList distinctClause ;;; str ") "
      end
  end.

Definition window_clause_el (n : Node) : dep :=
  castNode_WindowDef n (fun window_def =>
    deref window_def.(WindowDef.name) str ;;;
    str " AS " ;;;
    deparseWindowDef self window_def).

(** The [SETOP_NONE] case after the test for VALUES. *)
Definition select_body (stmt : SelectStmt.t Node) : dep :=
  str "SELECT " ;;;
  when (nonempty stmt.(SelectStmt.targetList))
    (distinct_clause stmt.(SelectStmt.distinctClause) ;;;
     deparseTargetList stmt.(SelectStmt.targetList) ;;;
     chr " ") ;;;
  when_some stmt.(SelectStmt.intoClause) (fun into_clause =>
    str "INTO " ;;;
    deref into_clause.(IntoClause.rel) (fun rel => deparseOptTemp rel.(RangeVar.relpersistence)) ;;;
    deparseIntoClause into_clause ;;;
    chr " ") ;;;
  deparseFromClause stmt.(SelectStmt.fromClause) ;;;
  deparseWhereClause stmt.(SelectStmt.whereClause) ;;;
  when (nonempty stmt.(SelectStmt.groupClause))
    (str "GROUP BY " ;;; deparseGroupByList stmt.(SelectStmt.groupClause) ;;; chr " ") ;;;
  when_some stmt.(SelectStmt.havingClause) (fun n => str "HAVING " ;;; deparseExpr_ n ;;; chr " ") ;;;
  when (nonempty stmt.(SelectStmt.windowClause))
    (str "WINDOW " ;;;
     foreach_sep window_clause_el (str ", ") stmt.(SelectStmt.windowClause) ;;;
     chr " ").

(** [need_larg_parens], [need_rarg_parens] *)
Definition need_arg_parens (arg : SelectStmt.t Node) : bool :=
  nonempty arg.(SelectStmt.sortClause) ||
  notnull arg.(SelectStmt.limitOffset) ||
  notnull arg.(SelectStmt.limitCount) ||
  nonempty arg.(SelectStmt.lockingClause) ||
  notnull arg.(SelectStmt.withClause) ||
  negb (bool_decide (arg.(SelectStmt.op) = SETOP_NONE)).

Definition set_operand (arg : option Node) : dep :=
  deref arg (fun n =>
    castNode_SelectStmt n (fun s => parens_if (need_arg_parens s) (deparseSelectStmt_ n))).

Definition set_operation (op_text : string) (stmt : SelectStmt.t Node) : dep :=
  set_operand stmt.(SelectStmt.larg) ;;;
  str op_text ;;;
  when stmt.(SelectStmt.all) (str "ALL ") ;;;
  set_operand stmt.(SelectStmt.rarg) ;;;
  chr " ".

Definition limit_clause (stmt : SelectStmt.t Node) (limitCount : Node) : dep :=
  match stmt.(SelectStmt.limitOption) with
  | LIMIT_OPTION_COUNT => str "LIMIT "
  | LIMIT_OPTION_WITH_TIES => str "FETCH FIRST "
  | LIMIT_OPTION_DEFAULT => skip
  end ;;;
  match limitCount with
  | N_A_Const {| A_Const.val := Null |} => str "ALL"
  | _ => deparseCExpr_ limitCount
  end ;;;
  chr " " ;;;
  when (bool_decide (stmt.(SelectStmt.limitOption) = LIMIT_OPTION_WITH_TIES)) (str "ROWS WITH TIES ").

Definition deparseSelectStmt_body (stmt : SelectStmt.t Node) : dep :=
  deparse_with stmt.(SelectStmt.withClause) ;;;
  match stmt.(SelectStmt.op) with
  | SETOP_NONE =>
      if nonempty stmt.(SelectStmt.valuesLists) then
        str "VALUES " ;;;
        foreach_sep values_row (str ", ") stmt.(SelectStmt.valuesLists) ;;;
        chr " "
      else select_body stmt
  | SETOP_UNION => set_operation " UNION " stmt
  | SETOP_INTERSECT => set_operation " INTERSECT " stmt
  | SETOP_EXCEPT => set_operation " EXCEPT " stmt
  end ;;;
  deparseOptSortClause self stmt.(SelectStmt.sortClause) ;;;
  when_some stmt.(SelectStmt.limitCount) (limit_clause stmt) ;;;
  when_some stmt.(SelectStmt.limitOffset) (fun n => str "OFFSET " ;;; deparseExpr_ n ;;; chr " ") ;;;
  when (nonempty stmt.(SelectStmt.lockingClause))
    (foreach_sep (fun n => castNode_LockingClause n deparseLockingClause)
       (str " ") stmt.(SelectStmt.lockingClause) ;;;
     chr " ") ;;;
  rts.

(** ** INSERT, UPDATE, DELETE *)

Definition deparseInferClause (infer_clause : InferClause.t Node) : dep :=
  when (nonempty infer_clause.(InferClause.indexElems))
    (chr "(" ;;;
     foreach_sep deparseIndexElem_
       (str ", ") infer_clause.(InferClause.indexElems) ;;;
     str ") ") ;;;
  when_some infer_clause.(InferClause.conname) (fun s =>
    str "ON CONSTRAINT " ;;; str (quote_identifier s) ;;; chr " ") ;;;
  deparseWhereClause infer_clause.(InferClause.whereClause) ;;;
  rts.

Definition deparseOnConflictClause (on_conflict_clause : OnConflictClause.t Node) : dep :=
  str "ON CONFLICT " ;;;
  when_some on_conflict_clause.(OnConflictClause.infer) (fun infer =>
    deparseInferClause infer ;;; chr " ") ;;;
  match on_conflict_clause.(OnConflictClause.action) with
  | ONCONFLICT_NONE => assert_ false
  | ONCONFLICT_NOTHING => str "DO NOTHING "
  | ONCONFLICT_UPDATE => str "DO UPDATE "
  end ;;;
  when (nonempty on_conflict_clause.(OnConflictClause.targetList))
    (str "SET " ;;; deparseSetClauseList on_conflict_clause.(OnConflictClause.targetList) ;;;
     chr " ") ;;;
  deparseWhereClause on_conflict_clause.(OnConflictClause.whereClause) ;;;
  rts.

Definition returning (returningList : list Node) : dep :=
  when (nonempty returningList) (str "RETURNING " ;;; deparseTargetList returningList).

Definition deparseInsertStmt (insert_stmt : InsertStmt.t Node) : dep :=
  deparse_with insert_stmt.(InsertStmt.withClause) ;;;
  str "INSERT INTO " ;;;
  deref insert_stmt.(InsertStmt.relation) (fun rv =>
    deparseRangeVar rv DEPARSE_NODE_CONTEXT_INSERT_RELATION) ;;;
  chr " " ;;;
  when (nonempty insert_stmt.(InsertStmt.cols))
    (chr "(" ;;; deparseInsertColumnList insert_stmt.(InsertStmt.cols) ;;; str ") ") ;;;
  match insert_stmt.(InsertStmt.override) with
  | OVERRIDING_NOT_SET => skip
  | OVERRIDING_USER_VALUE => str "OVERRIDING USER VALUE "
  | OVERRIDING_SYSTEM_VALUE => str "OVERRIDING SYSTEM VALUE "
  end ;;;
  match insert_stmt.(InsertStmt.selectStmt) with
  | Some n => deparseSelectStmt_ n ;;; chr " "
  | None => str "DEFAULT VALUES "
  end ;;;
  when_some insert_stmt.(InsertStmt.onConflictClause) (fun c =>
    deparseOnConflictClause c ;;; chr " ") ;;;
  returning insert_stmt.(InsertStmt.returningList) ;;;
  rts.

Definition deparseUpdateStmt (update_stmt : UpdateStmt.t Node) : dep :=
  deparse_with update_stmt.(UpdateStmt.withClause) ;;;
  str "UPDATE " ;;;
  deref update_stmt.(UpdateStmt.relation) (fun rv => deparseRangeVar rv DEPARSE_NODE_CONTEXT_NONE) ;;;
  chr " " ;;;
  when (nonempty update_stmt.(UpdateStmt.targetList))
    (str "SET " ;;; deparseSetClauseList update_stmt.(UpdateStmt.targetList) ;;; chr " ") ;;;
  deparseFromClause update_stmt.(UpdateStmt.fromClause) ;;;
  deparseWhereClause update_stmt.(UpdateStmt.whereClause) ;;;
  returning update_stmt.(UpdateStmt.returningList) ;;;
  rts.

Definition deparseDeleteStmt (delete_stmt : DeleteStmt.t Node) : dep :=
  deparse_with delete_stmt.(DeleteStmt.withClause) ;;;
  str "DELETE FROM " ;;;
  deref delete_stmt.(DeleteStmt.relation) (fun rv => deparseRangeVar rv DEPARSE_NODE_CONTEXT_NONE) ;;;
  chr " " ;;;
  when (nonempty delete_stmt.(DeleteStmt.usingClause))
    (str "USING " ;;; deparseFromList delete_stmt.(DeleteStmt.usingClause) ;;; chr " ") ;;;
  deparseWhereClause delete_stmt.(DeleteStmt.whereClause) ;;;
  returning delete_stmt.(DeleteStmt.returningList) ;;;
  rts.

Definition deparsePreparableStmt_body (node : Node) : dep :=
  match node with
  | N_SelectStmt x => deparseSelectStmt_body x
  | N_InsertStmt x => deparseInsertStmt x
  | N_UpdateStmt x => deparseUpdateStmt x
  | N_DeleteStmt x => deparseDeleteStmt x
  | _ => assert_ false
  end.
End deparse_stmt.

(** ** The deparser *)

Fixpoint deparse (e : entry) (n : Node) {struct n} : dep :=
  match e with
  | E_Expr => deparseExpr_body deparse n
  | E_CExpr => deparseCExpr_body deparse n
  | E_TableRef => deparseTableRef_body deparse n
  | E_SelectStmt => castNode_SelectStmt n (deparseSelectStmt_body deparse)
  | E_PreparableStmt => deparsePreparableStmt_body deparse n
  | E_GroupByItem => group_by_item deparse n
  | E_FuncExprWindowless => deparseFuncExprWindowless_body deparse n
  | E_IndexElem => castNode_IndexElem n (deparseIndexElem deparse)
  | E_ColumnDef => castNode_ColumnDef n (deparseColumnDef deparse)
  end.

Definition deparseExpr : Node -> dep := deparse E_Expr.
Definition deparseCExpr : Node -> dep := deparse E_CExpr.
Definition deparseTableRef : Node -> dep := deparse E_TableRef.
Definition deparseSelectStmt (stmt : SelectStmt.t Node) : dep := deparseSelectStmt_body deparse stmt.
Definition deparsePreparableStmt : Node -> dep := deparse E_PreparableStmt.
