(* ===== verification/Lexical.v ===== *)
(** * A lexical specification of SQL text

    A reference automaton for the parts of the SQL lexer
    ([src/postgres/src_backend_parser_scan.c]) that decide where a token ends:
    string constants, quoted identifiers, brackets, comments, dollar quotes and
    the statement separator.  [closed_text] says that a text is a sequence of
    complete tokens with matching brackets, that holds no comment and no [;].
    The automaton rejects more than the lexer (a quote directly after a word, an
    isolated backslash or dollar sign), so what it accepts is accepted for a
    stronger reason.  [writes] is the judgement of the safety proofs of the
    deparser: what a program appends takes the automaton from one state to
    another. *)
From S2P Require Import Prelude Buffer Keywords Quote.

Inductive bracket : Type := Paren | Brack.

(** What the last character can begin. *)
Inductive prev : Type :=
| P0          (* a token may begin here; also after most operator characters *)
| PWord       (* inside a word or a number *)
| PE          (* after the word [E]: a quote begins an escape string *)
| PX          (* after the word [x], [b] or [n]: a quote begins a string *)
| PMinus      (* after [-] *)
| PSlash      (* after [/] *)
| PAmp        (* after [&], which could belong to [U&] *)
| PDollar.    (* after [$] *)

#[export] Instance prev_eq_dec : EqDecision prev.
Proof. solve_decision. Defined.

Inductive mode : Type :=
| Code (p : prev)
| SQuote | SQuoteEnd          (* in '...', after its last quote *)
| EQuote | EEsc | EQuoteEnd   (* in E'...', after its backslash, after its last quote *)
| DQuote | DQuoteEnd.         (* in a quoted identifier, after its last quote *)

Definition lexstate : Type := mode * list bracket.

Definition word_char (c : ascii) : bool :=
  in_range "a" "z" c || in_range "A" "Z" c || in_range "0" "9" c || Ascii.eqb c "_" ||
  char_le "128" c.

Definition one_of (s : string) (c : ascii) : bool := string_existsb (Ascii.eqb c) s.

(** A word character after [p]. *)
Definition word_after (p : prev) (c : ascii) : option prev :=
  match p with
  | PWord | PE | PX => Some PWord
  | PDollar => if in_range "0" "9" c then Some PWord else None
  | P0 | PMinus | PSlash | PAmp =>
      if one_of "Ee" c then Some PE else if one_of "xXbBnN" c then Some PX else Some PWord
  end.

Definition at_boundary (p : prev) : bool :=
  match p with P0 | PMinus | PSlash => true | _ => false end.

Definition code_step (p : prev) (stk : list bracket) (c : ascii) : option lexstate :=
  if word_char c then
    match word_after p c with Some p' => Some (Code p', stk) | None => None end
  else if bool_decide (p = PDollar) then None
  else if Ascii.eqb c SQUOTE then
    match p with
    | PE => Some (EQuote, stk)
    | PX => Some (SQuote, stk)
    | _ => if at_boundary p then Some (SQuote, stk) else None
    end
  else if Ascii.eqb c DQUOTE then
    if at_boundary p then Some (DQuote, stk) else None
  else if Ascii.eqb c "(" then Some (Code P0, Paren :: stk)
  else if Ascii.eqb c "[" then Some (Code P0, Brack :: stk)
  else if Ascii.eqb c ")" then
    match stk with Paren :: stk' => Some (Code P0, stk') | _ => None end
  else if Ascii.eqb c "]" then
    match stk with Brack :: stk' => Some (Code P0, stk') | _ => None end
  else if Ascii.eqb c "-" then
    match p with PMinus => None | _ => Some (Code PMinus, stk) end
  else if Ascii.eqb c "/" then Some (Code PSlash, stk)
  else if Ascii.eqb c "*" then
    match p with PSlash => None | _ => Some (Code P0, stk) end
  else if Ascii.eqb c "&" then Some (Code PAmp, stk)
  else if one_of "~!@#^|`?+%<>=" c then Some (Code P0, stk)
  else if Ascii.eqb c "$" then
    if at_boundary p then Some (Code PDollar, stk) else None
  else if one_of " ,.:" c then Some (Code P0, stk)
  else None.

(** After a closing quote the token is over, unless the quote is doubled. *)
Definition after_quote (q : ascii) (inside : mode) (stk : list bracket) (c : ascii) :
    option lexstate :=
  if Ascii.eqb c q then Some (inside, stk)
  else if word_char c || Ascii.eqb c SQUOTE || Ascii.eqb c DQUOTE || Ascii.eqb c "$" then None
  else code_step P0 stk c.

Definition lex_step (st : lexstate) (c : ascii) : option lexstate :=
  let '(m, stk) := st in
  match m with
  | Code p => code_step p stk c
  | SQuote => if Ascii.eqb c SQUOTE then Some (SQuoteEnd, stk) else Some (SQuote, stk)
  | SQuoteEnd => after_quote SQUOTE SQuote stk c
  | EQuote =>
      if Ascii.eqb c SQUOTE then Some (EQuoteEnd, stk)
      else if Ascii.eqb c BACKSLASH then Some (EEsc, stk)
      else Some (EQuote, stk)
  | EEsc => Some (EQuote, stk)
  | EQuoteEnd => after_quote SQUOTE EQuote stk c
  | DQuote => if Ascii.eqb c DQUOTE then Some (DQuoteEnd, stk) else Some (DQuote, stk)
  | DQuoteEnd => after_quote DQUOTE DQuote stk c
  end.

Fixpoint lex (st : lexstate) (s : string) : option lexstate :=
  match s with
  | EmptyString => Some st
  | String c s' => match lex_step st c with Some st' => lex st' s' | None => None end
  end.

(** States in which the last token is complete. *)
Definition ended (m : mode) : bool :=
  match m with
  | Code PDollar => false
  | Code _ | SQuoteEnd | EQuoteEnd | DQuoteEnd => true
  | _ => false
  end.

(** A text of complete tokens, brackets matched, no comment, no [;]. *)
Definition closed_text (s : string) : bool :=
  match lex (Code P0, []) s with
  | Some (m, []) => ended m
  | _ => false
  end.

(** A text that begins with something other than a space. *)
Definition solid (s : string) : bool :=
  match s with EmptyString => false | String c _ => negb (Ascii.eqb c " ") end.

(** Raw text the deparser copies from the tree without quoting: one or more
    complete tokens. *)
Definition raw_text (s : string) : bool := solid s && closed_text s.

Example closed_1 : closed_text "SELECT 'a;--' FROM (x)" = true. Proof. reflexivity. Qed.
Example closed_2 : closed_text "SELECT 'a' ; DROP" = false. Proof. reflexivity. Qed.
Example closed_3 : closed_text "1 -- c" = false. Proof. reflexivity. Qed.

(** ** The judgement *)

(** Where a piece of text may be put: at a token boundary, or after a complete
    token. *)
Inductive place : Type := Bnd | End.

Definition at_place (f : place) (m : mode) : Prop :=
  match f with Bnd => m = Code P0 | End => ended m = true end.

(** What is known of the first character of the text. *)
Inductive kind : Type := Any | Weak | Solid.

Definition has_kind (k : kind) (t : string) : Prop :=
  match k with
  | Any => True
  | Weak => t = "" \/ solid t = true
  | Solid => solid t = true
  end.

(** [d] appends [t], with a demand on the buffer that does not depend on it. *)
Definition writes_text (d : dep) (t : string) : Prop :=
  exists n, (strlen t <= n)%Z /\
    forall (B : Type) (HS : StringBuf B) (limit : option Z), StringBufLaws B limit ->
      forall b, sb_valid b -> appends limit b t n (d B HS b).

(** [writes k f pre d f' post]: against every buffer that keeps the laws, [d]
    appends one text [t] and does nothing else (and fails only if the buffer
    does), [t] is of kind [k], and reading [t] from [f] with [pre] on top of
    the bracket stack leads to [f'] with [post] in place of [pre]. *)
Definition writes (k : kind) (f : place) (pre : list bracket) (d : dep)
    (f' : place) (post : list bracket) : Prop :=
  exists t,
    writes_text d t /\
    has_kind k t /\
    forall m stk, at_place f m ->
      exists m', at_place f' m' /\ lex (m, pre ++ stk)%list t = Some (m', post ++ stk)%list.

(** The places a literal text may be put after a complete token. *)
Definition after_end (c : ascii) : bool := one_of " )],:.[(%=" c.

(** The effect of a literal text on an abstract state. *)
Definition lex_place (f : place) (pre : list bracket) (s : string) : option (place * list bracket) :=
  let run :=
    match f, s with
    | Bnd, _ => lex (Code P0, pre) s
    | End, String c _ => if after_end c then lex (Code P0, pre) s else None
    | End, EmptyString => None
    end in
  match run with
  | Some (Code P0, post) => Some (Bnd, post)
  | Some (m, post) => if ended m then Some (End, post) else None
  | None => None
  end.

(** ** Lemmas on the automaton *)

Lemma lex_app st s1 s2 :
  lex st (s1 +:+ s2) = match lex st s1 with Some st' => lex st' s2 | None => None end.
Proof.
  revert st. induction s1 as [|c s1 IH]; intros st; [done|].
  rewrite string_app_cons. cbn. destruct (lex_step st c); [apply IH|done].
Qed.

Lemma code_step_frame p stk1 c m stk2 stk :
  code_step p stk1 c = Some (m, stk2) -> code_step p (stk1 ++ stk) c = Some (m, stk2 ++ stk)%list.
Proof.
  unfold code_step. intros H.
  repeat match type of H with
  | context [if ?b then _ else _] => destruct b eqn:?
  | context [match ?x with _ => _ end] => destruct x eqn:?
  end; simplify_eq; done.
Qed.

Lemma lex_step_frame m stk1 c m' stk2 stk :
  lex_step (m, stk1) c = Some (m', stk2) ->
  lex_step (m, stk1 ++ stk)%list c = Some (m', stk2 ++ stk)%list.
Proof.
  unfold lex_step, after_quote. intros H.
  destruct m; try (by apply code_step_frame);
    repeat match type of H with
    | context [if ?b then _ else _] => destruct b eqn:?
    end; simplify_eq; try done; by apply code_step_frame.
Qed.

Lemma lex_frame m stk1 s m' stk2 stk :
  lex (m, stk1) s = Some (m', stk2) -> lex (m, stk1 ++ stk)%list s = Some (m', stk2 ++ stk)%list.
Proof.
  revert m stk1. induction s as [|c s IH]; intros m stk1; cbn [lex]; [by intros [= -> ->]|].
  destruct (lex_step (m, stk1) c) as [[m1 stk']|] eqn:E; [|done].
  intros H. by rewrite (lex_step_frame _ _ _ _ _ _ E), (IH _ _ H).
Qed.

(** A space is only read at the end of a token. *)
Lemma lex_space_inv m stk m' stk' :
  lex_step (m, stk) " " = Some (m', stk') -> ended m' = true -> ended m = true /\ stk' = stk.
Proof. destruct m as [[]| | | | | | |]; intros H He; vm_compute in H; by simplify_eq. Qed.

Lemma after_end_step m pre c :
  ended m = true -> after_end c = true -> lex_step (m, pre) c = code_step P0 pre c.
Proof.
  intros Hm Hc.
  unfold after_end, one_of in Hc. cbn in Hc. rewrite orb_false_r in Hc.
  repeat (apply orb_true_iff in Hc as [Hc|Hc]);
    apply Ascii.eqb_eq in Hc; subst c; destruct m as [[]| | | | | | |]; try done.
Qed.

Lemma lex_place_sound f pre s f' post m stk :
  lex_place f pre s = Some (f', post) -> at_place f m ->
  exists m', at_place f' m' /\ lex (m, pre ++ stk)%list s = Some (m', post ++ stk)%list.
Proof.
  unfold lex_place. intros H Hm.
  assert (exists m1 post1, lex (m, pre) s = Some (m1, post1) /\ at_place f' m1 /\ post1 = post)
    as (m1 & ? & Hl & Hf & ->).
  { destruct f.
    - cbn in Hm. subst m.
      destruct (lex (Code P0, pre) s) as [[m1 p1]|] eqn:E; [|done].
      exists m1, p1. split; [done|].
      destruct m1 as [[]| | | | | | |]; cbn in H; by simplify_eq.
    - destruct s as [|c s]; [done|]. destruct (after_end c) eqn:Hc; [|done].
      destruct (lex (Code P0, pre) (String c s)) as [[m1 p1]|] eqn:E; [|done].
      exists m1, p1. cbn [lex] in *. rewrite after_end_step by done.
      change (lex_step (Code P0, pre) c) with (code_step P0 pre c) in E.
      split; [done|]. destruct m1 as [[]| | | | | | |]; cbn in H; by simplify_eq. }
  exists m1. split; [done|]. by apply lex_frame.
Qed.

(** ** Rules of the judgement *)

Lemma T_skip : writes_text skip "".
Proof. exists 0%Z. split; [done|]. intros. by apply appends_skip. Qed.

Lemma T_str s : writes_text (str s) s.
Proof. exists (strlen s). split; [done|]. intros. by apply append_string_law. Qed.

Lemma T_chr c : writes_text (chr c) (String c EmptyString).
Proof. exists 1%Z. split; [done|]. intros. by apply append_char_law. Qed.

Lemma T_fmt s : writes_text (fmt s) s.
Proof. exists (strlen s + 32)%Z. split; [lia|]. intros. by apply append_fmt_law. Qed.

Lemma T_literal s : writes_text (deparseStringLiteral s) (string_literal s).
Proof.
  exists (strlen (string_literal s)). split; [done|]. intros. by apply deparseStringLiteral_appends.
Qed.

Lemma T_seq d1 d2 t1 t2 :
  writes_text d1 t1 -> writes_text d2 t2 -> writes_text (d1 ;;; d2) (t1 +:+ t2).
Proof.
  intros (n1 & Hn1 & H1) (n2 & Hn2 & H2). exists (n1 + n2)%Z. rewrite strlen_app. split; [lia|].
  intros. apply appends_seq; auto. unfold strlen in Hn2. lia.
Qed.

Lemma T_rts d t : t <> "" -> writes_text d t -> writes_text (d ;;; rts) (drop_trailing_space t).
Proof.
  intros Hne (n & Hn & H). exists n. split.
  { destruct (drop_trailing_cases " " t) as [-> |E]; [done|].
    rewrite E, strlen_app in Hn. unfold strlen in Hn. cbn in Hn. unfold strlen. lia. }
  intros B HS limit L b Hb. unfold seqd. specialize (H B HS limit L b Hb).
  destruct (d B HS b) as [b1| |]; cbn in *; [|done..]. destruct H as [Hv Hc].
  unfold rts. destruct (remove_law " " b1 Hv) as (b2 & -> & ? & E). cbn.
  split; [done|]. by rewrite E, Hc, drop_trailing_app.
Qed.

(** Programs that do the same on every buffer. *)
Lemma T_ext d d' t : (forall B HS b, d B HS b = d' B HS b) -> writes_text d t -> writes_text d' t.
Proof. intros E (n & Hn & H). exists n. split; [done|]. intros. rewrite <-E. auto. Qed.

(** The text on a plain string. *)
Lemma T_deq d d' t : (d =d= d')%dep -> writes_text d' t -> writes_text d t.
Proof. intros E. apply T_ext. intros. by rewrite E. Qed.

Lemma T_text d t : writes_text d t -> d string string_buf "" = Ok t.
Proof.
  intros (n & Hn & H). specialize (H string string_buf None string_buf_laws "" I).
  destruct (d string string_buf "") as [s| |]; [|done..].
  destruct H as [_ E]. cbn in E. by rewrite string_app_nil_l in E; subst.
Qed.

Definition kind_le (k k' : kind) : bool :=
  match k, k' with
  | _, Any | Solid, _ | Weak, Weak => true
  | _, _ => false
  end.

Lemma has_kind_le k k' t : kind_le k k' = true -> has_kind k t -> has_kind k' t.
Proof. destruct k, k'; cbn; try done; auto. Qed.

Definition place_le (f f' : place) : bool :=
  match f, f' with Bnd, _ | End, End => true | _, _ => false end.

Lemma at_place_le f f' m : place_le f f' = true -> at_place f m -> at_place f' m.
Proof. destruct f, f'; cbn; try done. by intros _ ->. Qed.

(** Use of a lemma [writes k f [] d f' []]: under any stack, weakened. *)
Lemma W_use k f d f' k1 f1 f1' pre :
  writes k f [] d f' [] ->
  kind_le k k1 = true -> place_le f1 f = true -> place_le f' f1' = true ->
  writes k1 f1 pre d f1' pre.
Proof.
  intros (t & Hd & Hk & Hl) Hk1 Hf1 Hf'. exists t. split; [done|].
  split; [by eapply has_kind_le|]. intros m stk Hm.
  destruct (Hl m (pre ++ stk)%list) as (m' & ? & ?); [by eapply at_place_le|].
  exists m'. split; [by eapply at_place_le|done].
Qed.

Lemma W_weaken k f pre d f' post k1 f1' :
  writes k f pre d f' post -> kind_le k k1 = true -> place_le f' f1' = true ->
  writes k1 f pre d f1' post.
Proof.
  intros (t & Hd & Hk & Hl) Hk1 Hf'. exists t. split; [done|].
  split; [by eapply has_kind_le|]. intros m stk Hm.
  destruct (Hl m stk Hm) as (m' & ? & ?). exists m'. split; [by eapply at_place_le|done].
Qed.

Lemma W_skip k f f' pre :
  kind_le Weak k = true -> place_le f f' = true -> writes k f pre skip f' pre.
Proof.
  intros Hk Hf. exists "". split; [apply T_skip|].
  split; [eapply has_kind_le; [done|by left]|]. intros m stk Hm.
  exists m. split; [by eapply at_place_le|done].
Qed.

Lemma W_seq_gen k1 k2 k f pre d1 f1 mid d2 f' post :
  writes k1 f pre d1 f1 mid -> writes k2 f1 mid d2 f' post ->
  (forall t1 t2, has_kind k1 t1 -> has_kind k2 t2 -> has_kind k (t1 +:+ t2)) ->
  writes k f pre (d1 ;;; d2) f' post.
Proof.
  intros (t1 & Hd1 & Hk1 & Hl1) (t2 & Hd2 & Hk2 & Hl2) Hk.
  exists (t1 +:+ t2). split; [by apply T_seq|split; [by apply Hk|]].
  - intros m stk Hm. destruct (Hl1 m stk Hm) as (m1 & Hf1 & E1).
    destruct (Hl2 m1 stk Hf1) as (m2 & Hf2 & E2). exists m2.
    split; [done|]. by rewrite lex_app, E1.
Qed.

Lemma solid_app t1 t2 : solid t1 = true -> solid (t1 +:+ t2) = true.
Proof. by destruct t1. Qed.

Lemma W_seq_solid k f pre d1 f1 mid d2 f' post :
  writes Solid f pre d1 f1 mid -> writes Any f1 mid d2 f' post ->
  writes k f pre (d1 ;;; d2) f' post.
Proof.
  intros H1 H2. eapply W_seq_gen; [done..|]. intros t1 t2 H _.
  apply (has_kind_le Solid); [by destruct k|]. by apply solid_app.
Qed.

Lemma W_seq_weak k f pre d1 f1 mid d2 f' post :
  writes Weak f pre d1 f1 mid -> writes k f1 mid d2 f' post ->
  writes k f pre (d1 ;;; d2) f' post.
Proof.
  intros H1 H2. eapply W_seq_gen; [done..|].
  intros t1 t2 [->|H] Hk; [done|]. destruct k; cbn; [done|right|]; by apply solid_app.
Qed.

Lemma W_seq_any f pre d1 f1 mid d2 f' post :
  writes Any f pre d1 f1 mid -> writes Any f1 mid d2 f' post ->
  writes Any f pre (d1 ;;; d2) f' post.
Proof. intros H1 H2. by eapply W_seq_gen. Qed.

Lemma W_text k f pre s f1 f' post :
  lex_place f pre s = Some (f1, post) -> place_le f1 f' = true ->
  kind_le (if solid s then Solid else Any) k = true ->
  writes k f pre (str s) f' post.
Proof.
  intros Hl Hf Hk. exists s. split; [apply T_str|].
  split. { eapply has_kind_le; [done|]. by destruct (solid s) eqn:E. }
  intros m stk Hm. destruct (lex_place_sound _ _ _ _ _ _ stk Hl Hm) as (m' & ? & ?).
  exists m'. split; [by eapply at_place_le|done].
Qed.

Lemma W_ext k f pre d d' f' post :
  (forall B HS b, d B HS b = d' B HS b) -> writes k f pre d f' post -> writes k f pre d' f' post.
Proof. intros E (t & Hd & H). exists t. split; [by eapply T_ext|done]. Qed.

(** Two programs that write one text. *)
Lemma W_same k f pre d d' s f' post :
  writes_text d s -> writes_text d' s -> writes k f pre d f' post -> writes k f pre d' f' post.
Proof.
  intros Hs Hs' (t & Hd & H). exists t. split; [|done].
  apply T_text in Hs. apply T_text in Hd. rewrite Hs in Hd. by injection Hd as <-.
Qed.

Lemma W_fmt k f pre s f' post : writes k f pre (str s) f' post -> writes k f pre (fmt s) f' post.
Proof. eapply W_same; [apply T_str|apply T_fmt]. Qed.

Lemma W_chr k f pre c f' post :
  writes k f pre (str (String c EmptyString)) f' post -> writes k f pre (chr c) f' post.
Proof. eapply W_same; [apply T_str|apply T_chr]. Qed.

Lemma solid_drop_space t : solid t = true -> solid (drop_trailing_space t) = true.
Proof.
  destruct t as [|c [|c' t]]; [done| |done].
  change (drop_trailing_space (String c "")) with (if Ascii.eqb c " " then "" else String c "").
  intros Hc. pose proof Hc as E. unfold solid in E. apply negb_true_iff in E. by rewrite E.
Qed.

(** [removeTrailingSpace] at the end of a text that began with something other
    than a space only drops a space of that text. *)
Lemma W_rts f pre d f1 f' post :
  writes Solid f pre d f1 post -> place_le End f' = true ->
  writes Solid f pre (d ;;; rts) f' post.
Proof.
  intros (t & Hd & Hk & Hl) Hf'. exists (drop_trailing_space t). cbn in Hk.
  assert (t <> "") as Hne by (by intros ->).
  split; [by apply T_rts|split].
  - by apply solid_drop_space.
  - intros m stk Hm. destruct (Hl m stk Hm) as (m' & Hm' & E).
    assert (ended m' = true) as Hend by (destruct f1; cbn in Hm'; [by subst|done]).
    destruct (drop_trailing_cases " " t) as [Ht|Ht].
    + exists m'. rewrite Ht. split; [by eapply at_place_le|done].
    + rewrite Ht, lex_app in E.
      destruct (lex (m, _) (drop_trailing_space t)) as [[m1 stk1]|]; [|done]. cbn [lex] in E.
      destruct (lex_step (m1, stk1) " ") as [[m2 stk2]|] eqn:E1; [|done].
      injection E as -> ->. destruct (lex_space_inv _ _ _ _ E1 Hend) as [? <-].
      exists m1. split; [|done]. by eapply at_place_le.
Qed.

Lemma W_seq_assoc k f pre d1 d2 d3 f' post :
  writes k f pre ((d1 ;;; d2) ;;; d3) f' post -> writes k f pre (d1 ;;; d2 ;;; d3) f' post.
Proof.
  apply W_ext. intros B HS b. unfold seqd. by destruct (d1 B HS b).
Qed.

(** *** Tokens written from the tree *)

Definition digit (c : ascii) : bool := in_range "0" "9" c.

Lemma word_char_step p c stk :
  word_char c = true -> p <> PDollar ->
  exists p', lex_step (Code p, stk) c = Some (Code p', stk) /\ p' <> PDollar.
Proof.
  intros Hc Hp. cbn. unfold code_step. rewrite Hc.
  destruct p; cbn; try done; repeat case_match; simplify_eq; eauto.
Qed.

Lemma lex_word p s stk :
  string_forall word_char s = true -> p <> PDollar ->
  exists p', lex (Code p, stk) s = Some (Code p', stk) /\ p' <> PDollar.
Proof.
  revert p. induction s as [|c s IH]; intros p Hs Hp; [by exists p|]. cbn in Hs.
  apply andb_true_iff in Hs as [Hc Hs].
  destruct (word_char_step p c stk Hc Hp) as (p1 & E & Hp1).
  destruct (IH p1 Hs Hp1) as (p' & E' & ?). exists p'. cbn [lex]. by rewrite E.
Qed.

Lemma digit_word c : digit c = true -> word_char c = true.
Proof. unfold word_char, digit. intros ->. by rewrite !orb_true_r. Qed.

Lemma lex_digits p s stk :
  string_forall digit s = true -> s <> "" ->
  exists p', lex (Code p, stk) s = Some (Code p', stk) /\ p' <> PDollar.
Proof.
  destruct s as [|c s]; [done|]. cbn [string_forall lex]. intros [Hc Hs]%andb_true_iff _.
  assert (exists p1, lex_step (Code p, stk) c = Some (Code p1, stk) /\ p1 <> PDollar) as (p1 & E & Hp1).
  { destruct (decide (p = PDollar)) as [->|Hp]; [|by apply word_char_step, Hp; apply digit_word].
    exists PWord. cbn [lex_step]. unfold code_step. rewrite digit_word by done.
    unfold word_after. unfold digit in Hc. by rewrite Hc. }
  rewrite E. apply lex_word; [|done]. eapply string_forall_impl, Hs. apply digit_word.
Qed.

Lemma ended_code p : p <> PDollar -> ended (Code p) = true.
Proof. by destruct p. Qed.

Lemma pretty_N_go_digits x s :
  string_forall digit s = true -> string_forall digit (pretty_N_go x s) = true.
Proof.
  revert s. induction (N.lt_wf_0 x) as [x _ IH]; intros s Hs.
  destruct (decide (x = 0)%N) as [->|]; [by rewrite pretty_N_go_0|].
  rewrite pretty_N_go_step by lia. apply IH; [by apply N.div_lt; lia|].
  cbn. rewrite Hs, andb_true_r. unfold pretty_N_char. by repeat case_match.
Qed.

Lemma pretty_N_go_nonempty x s : s <> "" \/ x <> 0%N -> pretty_N_go x s <> "".
Proof.
  revert s. induction (N.lt_wf_0 x) as [x _ IH]; intros s Hs.
  destruct (decide (x = 0)%N) as [->|]; [rewrite pretty_N_go_0; by destruct Hs|].
  rewrite pretty_N_go_step by lia. apply IH; [by apply N.div_lt; lia|by left].
Qed.

Lemma pretty_N_digits (x : N) : string_forall digit (pretty x) = true /\ pretty x <> "".
Proof.
  unfold pretty, pretty_N. case_decide; [done|].
  split; [by apply pretty_N_go_digits|by apply pretty_N_go_nonempty; right].
Qed.

Lemma solid_digits s : string_forall digit s = true -> s <> "" -> solid s = true.
Proof.
  destruct s as [|c s]; [done|]. cbn. intros [Hc _]%andb_true_iff _.
  by destruct (Ascii.eqb_spec c " ") as [->|].
Qed.

(** What [%d] prints: an optional sign and digits. *)
Lemma pretty_Z_cases (z : Z) :
  exists ds, string_forall digit ds = true /\ ds <> "" /\
    (pretty z = ds \/ ((z < 0)%Z /\ pretty z = String "-" ds)).
Proof.
  destruct z as [|p|p].
  - by exists "0"; auto.
  - exists (pretty (Npos p)). destruct (pretty_N_digits (Npos p)). auto.
  - exists (pretty (Npos p)). destruct (pretty_N_digits (Npos p)).
    split; [done|]. split; [done|]. right. by split; [lia|].
Qed.

Lemma lex_pretty_Z (z : Z) stk :
  exists p', lex (Code P0, stk) (pretty z) = Some (Code p', stk) /\ p' <> PDollar.
Proof.
  destruct (pretty_Z_cases z) as (ds & Hds & Hne & [->|[_ ->]]); [by apply lex_digits|].
  change (lex (Code P0, stk) (String "-" ds)) with (lex (Code PMinus, stk) ds).
  by apply lex_digits.
Qed.

Lemma solid_pretty_Z (z : Z) : solid (pretty z) = true.
Proof.
  destruct (pretty_Z_cases z) as (ds & Hds & Hne & [->|[_ ->]]); [by apply solid_digits|done].
Qed.

(** A text written from the tree: what has to be shown of it. *)
Lemma W_token s :
  solid s = true ->
  (forall stk, exists m', ended m' = true /\ lex (Code P0, stk) s = Some (m', stk)) ->
  writes Solid Bnd [] (str s) End [].
Proof.
  intros Hs Hl. exists s. split; [apply T_str|]. split; [done|].
  intros m stk Hm. cbn in Hm. subst m. destruct (Hl stk) as (m' & ? & ?). by exists m'.
Qed.

Lemma W_raw s : raw_text s = true -> writes Solid Bnd [] (str s) End [].
Proof.
  intros [Hs Hc]%andb_true_iff. apply W_token; [done|]. intros stk.
  unfold closed_text in Hc. destruct (lex (Code P0, []) s) as [[m' [|]]|] eqn:E; try done.
  exists m'. split; [done|]. by apply (lex_frame _ [] _ _ [] stk) in E.
Qed.

Lemma W_int (z : Z) : writes Solid Bnd [] (str (pretty z)) End [].
Proof.
  apply W_token; [apply solid_pretty_Z|]. intros stk.
  destruct (lex_pretty_Z z stk) as (p' & E & ?). exists (Code p'). by rewrite ended_code.
Qed.

Lemma W_param (z : Z) : (0 < z)%Z -> writes Solid Bnd [] (str ("$" +:+ pretty z)) End [].
Proof.
  intros Hz. apply W_token; [done|]. intros stk.
  destruct (pretty_Z_cases z) as (ds & Hds & Hne & [->|[? _]]); [|lia].
  rewrite lex_app. change (lex (Code P0, stk) "$") with (Some (Code PDollar, stk)).
  destruct (lex_digits PDollar ds stk Hds Hne) as (p' & -> & ?).
  exists (Code p'). by rewrite ended_code.
Qed.

Lemma lex_dquoted s stk :
  lex (DQuote, stk) (double_quotes s +:+ String DQUOTE EmptyString) = Some (DQuoteEnd, stk).
Proof.
  induction s as [|c s IH]; [done|]. cbn [double_quotes].
  destruct (Ascii.eqb_spec c DQUOTE) as [->|Hne]; rewrite !string_app_cons.
  - apply IH.
  - cbn [lex lex_step]. apply Ascii.eqb_neq in Hne as ->. apply IH.
Qed.

Lemma ident_char_word c : ident_char c = true -> word_char c = true.
Proof.
  unfold ident_char, word_char. intros H.
  destruct (in_range "a" "z" c), (in_range "0" "9" c), (Ascii.eqb c "_"); try done;
    by rewrite !orb_true_r.
Qed.

Lemma ident_safe_chars s :
  ident_is_safe s = true -> string_forall ident_char s = true /\ s <> "".
Proof.
  unfold ident_is_safe. cbn [quote_all_identifiers].
  rewrite (proj1 (ident_scan_spec _ _ _)). cbn [fst].
  destruct (ident_start s) eqn:Hs; [|done].
  destruct (string_forall ident_char s); [|done]. by destruct s.
Qed.

Lemma W_ident s : writes Solid Bnd [] (str (quote_identifier s)) End [].
Proof.
  unfold quote_identifier. destruct (ident_is_safe s) eqn:Hs.
  - apply ident_safe_chars in Hs as [Hc Hne].
    assert (string_forall word_char s = true) as Hw
      by (eapply string_forall_impl, Hc; apply ident_char_word).
    apply W_token.
    + destruct s as [|c s]; [done|]. cbn in *. apply andb_true_iff in Hw as [Hw _].
      by destruct (Ascii.eqb_spec c " ") as [->|].
    + intros stk. destruct (lex_word P0 s stk Hw) as (p' & E & ?); [done|].
      exists (Code p'). by rewrite ended_code.
  - apply W_token; [done|]. intros stk. exists DQuoteEnd. split; [done|]. apply lex_dquoted.
Qed.

Lemma lex_squoted s stk :
  has_backslash s = false ->
  lex (SQuote, stk) (literal_body s +:+ String SQUOTE EmptyString) = Some (SQuoteEnd, stk).
Proof.
  induction s as [|c s IH]; [done|]. unfold has_backslash. cbn [string_existsb literal_body].
  intros [Hc Hs]%orb_false_iff. unfold SQL_STR_DOUBLE. rewrite (Ascii.eqb_sym c BACKSLASH), Hc.
  rewrite orb_false_r.
  destruct (Ascii.eqb_spec c SQUOTE) as [->|Hne]; rewrite !string_app_cons.
  - by apply IH.
  - cbn [lex lex_step]. apply Ascii.eqb_neq in Hne as ->. by apply IH.
Qed.

Lemma lex_equoted s stk :
  lex (EQuote, stk) (literal_body s +:+ String SQUOTE EmptyString) = Some (EQuoteEnd, stk).
Proof.
  induction s as [|c s IH]; [done|]. cbn [literal_body]. unfold SQL_STR_DOUBLE.
  destruct (Ascii.eqb_spec c SQUOTE) as [->|Hq]; rewrite ?string_app_cons.
  { apply IH. }
  destruct (Ascii.eqb_spec c BACKSLASH) as [->|Hb]; cbn [orb]; rewrite !string_app_cons.
  { apply IH. }
  cbn [lex lex_step]. apply Ascii.eqb_neq in Hq as ->. apply Ascii.eqb_neq in Hb as ->. apply IH.
Qed.

Lemma string_app_head (b : bool) t :
  (if b then "E" else "") +:+ t = if b then String "E" t else t.
Proof. by destruct b. Qed.

Lemma W_literal s : writes Solid Bnd [] (deparseStringLiteral s) End [].
Proof.
  exists (string_literal s).
  split; [apply T_literal|].
  unfold string_literal. rewrite string_app_head.
  split; [by destruct (has_backslash s)|]. intros m stk Hm. cbn in Hm. subst m.
  destruct (has_backslash s) eqn:Hb.
  - exists EQuoteEnd. split; [done|]. apply lex_equoted.
  - exists SQuoteEnd. split; [done|]. by apply lex_squoted.
Qed.

(** [x'...'] and [b'...'] *)
Lemma W_bit_literal (c : ascii) s :
  one_of "xb" c = true -> has_backslash s = false ->
  writes Solid Bnd [] (chr c ;;; deparseStringLiteral s) End [].
Proof.
  intros Hc Hb. exists (String c (string_literal s)). split; [|split].
  - apply (T_seq _ _ (String c EmptyString)); [apply T_chr|apply T_literal].
  - cbn. by destruct (Ascii.eqb_spec c " ") as [->|].
  - intros m stk Hm. cbn in Hm. subst m. exists SQuoteEnd. split; [done|].
    unfold string_literal. rewrite Hb, string_app_nil_l.
    cbn in Hc. rewrite orb_false_r in Hc.
    apply orb_true_iff in Hc as [Hc|Hc]; apply Ascii.eqb_eq in Hc; subst c; by apply lex_squoted.
Qed.
