(* ===== verification/Shape.v ===== *)
(** * Well-shaped parse trees

    [wf e n] says that the tree [n] may be handed to the production [e] of the
    deparser: the fields the C code dereferences are there, lists and casts are
    of the kinds the code relies on without a test, no [Assert] fails, and the
    numbers and operators, which the deparser copies as they are, are complete
    tokens.  Five kinds of names are copied without quotes too (the name after
    [OVER] and of a window, of a named argument, of a constraint, of a column in
    its definition, of a type of [pg_catalog]); what is asked of those is a
    parameter, [RawNames].  The other conditions are the ones
    [gram.y] establishes, with the exceptions marked below, where the parser
    can build a tree that the deparser prints wrongly. *)
From S2P Require Import Prelude Buffer Keywords Quote Enums Nodes DeparseNames DeparseExpr.
From S2P Require Import DeparseStmt Lexical.

(** What is asked of a name that the deparser prints without quotes. *)
Class RawNames := raw_name : string -> bool.

(** With this module imported, that such a name is a closed text: complete tokens
    with matched brackets, no comment and no [;]. *)
Module ClosedNames.
#[export] Hint Extern 0 RawNames => exact raw_text : typeclass_instances.
End ClosedNames.

(** ** Helpers *)

Definition opt_ok {A} (p : A -> bool) (o : option A) : bool :=
  match o with Some x => p x | None => true end.
Definition some_ok {A} (p : A -> bool) (o : option A) : bool :=
  match o with Some x => p x | None => false end.
(** A condition on the string of a [Value] node. *)
Definition str_ok (p : string -> bool) (n : Node) : bool :=
  match n with N_Value (String_ s) => p s | _ => false end.
Definition any_str (s : string) : bool := true.
Definition names_ok (l : list Node) : bool := forallb (str_ok any_str) l.
Definition some_names (l : list Node) : bool := nonempty l && names_ok l.

Definition one_of_names (s : string) (l : list string) : bool := existsb (String.eqb s) l.

(** [c] implies [p]. *)
Definition if_ok (c p : bool) : bool := if c then p else true.

(** ** Names, operators, values *)

Definition ok_Alias (x : Alias.t Node) : bool :=
  notnull x.(Alias.aliasname) && names_ok x.(Alias.colnames).

Definition ok_RangeVar (x : RangeVar.t Node) : bool :=
  notnull x.(RangeVar.relname) && opt_ok ok_Alias x.(RangeVar.alias).

Definition ok_RangeVar_node (n : Node) : bool :=
  match n with N_RangeVar x => ok_RangeVar x | _ => false end.

(** An operator is one token that holds neither [--] nor [/*]. *)
Definition op_text (s : string) : bool := isOp s && raw_text s.

Definition ok_operator (op : list Node) : bool :=
  match op with
  | [o] => str_ok op_text o
  | [o1; o2] => str_ok any_str o1 && str_ok op_text o2
  | _ => false
  end.

Definition ok_number (v : Value) : bool :=
  match v with Integer _ => true | Float s => raw_text s | _ => false end.

Definition ok_number_node (n : Node) : bool :=
  match n with N_Value v => ok_number v | _ => false end.

Definition ok_const (v : Value) : bool :=
  match v with
  | Integer _ | Float _ => ok_number v
  | String_ _ | Null => true
  | BitString (String c s) => one_of "xb" c && negb (has_backslash s)
  | BitString EmptyString => false
  end.

Definition ok_A_Const (x : A_Const.t Node) : bool := ok_const x.(A_Const.val).

Definition ok_ParamRef (x : ParamRef.t Node) : bool := (0 <=? x.(ParamRef.number))%Z.

(** Exception: a wait policy after a list of relations is glued to the last
    name ([FOR UPDATE OF tNOWAIT]). *)
Definition ok_LockingClause (x : LockingClause.t Node) : bool :=
  negb (bool_decide (x.(LockingClause.strength) = LCS_NONE)) &&
  forallb ok_RangeVar_node x.(LockingClause.lockedRels) &&
  if_ok (nonempty x.(LockingClause.lockedRels))
    (bool_decide (x.(LockingClause.waitPolicy) = LockWaitBlock)).

Definition ok_CurrentOfExpr (x : CurrentOfExpr.t Node) : bool :=
  notnull x.(CurrentOfExpr.cursor_name).

(** ** Expressions *)

Section shape_expr.
Context {raw : RawNames}.
Variable self : entry -> Node -> bool.
Definition ok_expr (n : Node) : bool := self E_Expr n.
Definition ok_select (n : Node) : bool := self E_SelectStmt n.

Definition ok_A_Indices (x : A_Indices.t Node) : bool :=
  opt_ok ok_expr x.(A_Indices.lidx) && opt_ok ok_expr x.(A_Indices.uidx) &&
  if_ok (notnull x.(A_Indices.lidx)) x.(A_Indices.is_slice).

Definition ok_indirection_el (n : Node) : bool :=
  match n with
  | N_Value (String_ _) => true
  | N_A_Star _ => true
  | N_A_Indices x => ok_A_Indices x
  | _ => false
  end.

Definition ok_indirection (l : list Node) : bool := forallb ok_indirection_el l.

Definition ok_ColumnRef (x : ColumnRef.t Node) : bool :=
  match x.(ColumnRef.fields) with
  | N_Value (String_ _) :: l | N_A_Star _ :: l => ok_indirection l
  | _ => false
  end.

Definition const_integer (n : Node) : bool :=
  match n with N_A_Const {| A_Const.val := Integer _ |} => true | _ => false end.

Definition ok_interval (typmods : list Node) : bool :=
  match typmods with
  | [] => true
  | N_A_Const {| A_Const.val := Integer z |} :: rest =>
      notnull (interval_fields z) &&
      match rest with
      | [t2] => const_integer t2
      | _ => true
      end
  | _ => false
  end.

Definition ok_typmod (n : Node) : bool :=
  match n with
  | N_A_Const c => ok_A_Const c
  | N_ParamRef p => ok_ParamRef p
  | N_ColumnRef c => ok_ColumnRef c
  | _ => false
  end.

(** Exception: the name of a type of [pg_catalog] that has no short form is
    printed without quotes. *)
Definition ok_pg_catalog_type (name : string) (typmods : list Node) : bool :=
  if String.eqb name "timetz" || String.eqb name "timestamptz" then forallb const_integer typmods
  else if String.eqb name "interval" then ok_interval typmods
  else raw name && forallb ok_typmod typmods.

(** The name of a type written [pg_catalog.name]. *)
Definition pg_catalog_name (names : list Node) : option string :=
  match names with
  | [N_Value (String_ schema); N_Value (String_ name)] =>
      if String.eqb schema "pg_catalog" then Some name else None
  | _ => None
  end.

Definition ok_TypeName (x : TypeName.t Node) : bool :=
  some_names x.(TypeName.names) &&
  match pg_catalog_name x.(TypeName.names) with
  | Some name => ok_pg_catalog_type name x.(TypeName.typmods)
  | None => forallb ok_typmod x.(TypeName.typmods)
  end.

Definition ok_TypeName_node (n : Node) : bool :=
  match n with N_TypeName x => ok_TypeName x | _ => false end.

Definition ok_SortBy (n : Node) : bool :=
  match n with
  | N_SortBy x =>
      some_ok ok_expr x.(SortBy.node) &&
      if_ok (bool_decide (x.(SortBy.sortby_dir) = SORTBY_USING))
        (ok_operator x.(SortBy.useOp) &&
         (* exception: no space between the operator and NULLS FIRST *)
         bool_decide (x.(SortBy.sortby_nulls) = SORTBY_NULLS_DEFAULT))
  | _ => false
  end.

Definition ok_sort (l : list Node) : bool := forallb ok_SortBy l.

Definition ok_frame_start (x : WindowDef.t Node) : bool :=
  let on := flag x.(WindowDef.frameOptions) in
  if on FRAMEOPTION_START_UNBOUNDED_PRECEDING then true
  else if on FRAMEOPTION_START_UNBOUNDED_FOLLOWING then false
  else if on FRAMEOPTION_START_CURRENT_ROW then true
  else if_ok (on FRAMEOPTION_START_OFFSET_PRECEDING || on FRAMEOPTION_START_OFFSET_FOLLOWING)
    (some_ok ok_expr x.(WindowDef.startOffset)).

Definition ok_frame_end (x : WindowDef.t Node) : bool :=
  let on := flag x.(WindowDef.frameOptions) in
  if on FRAMEOPTION_END_UNBOUNDED_PRECEDING then false
  else if on FRAMEOPTION_END_UNBOUNDED_FOLLOWING then true
  else if on FRAMEOPTION_END_CURRENT_ROW then true
  else if_ok (on FRAMEOPTION_END_OFFSET_PRECEDING || on FRAMEOPTION_END_OFFSET_FOLLOWING)
    (some_ok ok_expr x.(WindowDef.endOffset)).

Definition ok_WindowDef (x : WindowDef.t Node) : bool :=
  forallb ok_expr x.(WindowDef.partitionClause) &&
  ok_sort x.(WindowDef.orderClause) &&
  if_ok (flag x.(WindowDef.frameOptions) FRAMEOPTION_NONDEFAULT)
    (ok_frame_start x &&
     if_ok (flag x.(WindowDef.frameOptions) FRAMEOPTION_BETWEEN) (ok_frame_end x)).

(** The name of a named argument is printed without quotes. *)
Definition ok_func_arg (n : Node) : bool :=
  match n with
  | N_NamedArgExpr x =>
      some_ok raw x.(NamedArgExpr.name) && some_ok ok_expr x.(NamedArgExpr.arg)
  | _ => ok_expr n
  end.

Definition ok_over (x : WindowDef.t Node) : bool :=
  match x.(WindowDef.name) with
  | Some name => raw name
  | None => ok_WindowDef x
  end.

Definition ok_FuncCall (x : FuncCall.t Node) : bool :=
  if is_overlay x then forallb ok_expr x.(FuncCall.args)
  else
    some_names x.(FuncCall.funcname) &&
    forallb ok_func_arg x.(FuncCall.args) &&
    ok_sort x.(FuncCall.agg_order) &&
    opt_ok ok_expr x.(FuncCall.agg_filter) &&
    opt_ok ok_over x.(FuncCall.over).

Definition ok_SubLink (x : SubLink.t Node) : bool :=
  some_ok ok_select x.(SubLink.subselect) &&
  match x.(SubLink.subLinkType) with
  | EXISTS_SUBLINK | EXPR_SUBLINK | ARRAY_SUBLINK => true
  | ALL_SUBLINK => some_ok ok_expr x.(SubLink.testexpr) && ok_operator x.(SubLink.operName)
  | ANY_SUBLINK =>
      some_ok ok_expr x.(SubLink.testexpr) &&
      if_ok (nonempty x.(SubLink.operName)) (ok_operator x.(SubLink.operName))
  | ROWCOMPARE_SUBLINK | MULTIEXPR_SUBLINK | CTE_SUBLINK => false
  end.

(** [name] is the one string [s1] or [s2]. *)
Definition name_is (s1 s2 : string) (name : list Node) : bool :=
  match name with
  | [N_Value (String_ s)] => String.eqb s s1 || String.eqb s s2
  | _ => false
  end.

Definition ok_similar (n : Node) : bool :=
  match n with
  | N_FuncCall x =>
      match x.(FuncCall.funcname), x.(FuncCall.args) with
      | [N_Value (String_ s1); N_Value (String_ s2)], ([_] | [_; _]) =>
          String.eqb s1 "pg_catalog" && String.eqb s2 "similar_to_escape" &&
          forallb ok_expr x.(FuncCall.args)
      | _, _ => false
      end
  | _ => false
  end.

Definition some_list (p : Node -> bool) (n : Node) : bool :=
  match n with N_List l => nonempty l && forallb p l | _ => false end.

Definition ok_A_Expr (x : A_Expr.t Node) : bool :=
  let name := x.(A_Expr.name) in
  let lexpr := x.(A_Expr.lexpr) in
  let rexpr := x.(A_Expr.rexpr) in
  match x.(A_Expr.kind) with
  | AEXPR_OP => opt_ok ok_expr lexpr && ok_operator name && opt_ok ok_expr rexpr
  | AEXPR_OP_ANY | AEXPR_OP_ALL => some_ok ok_expr lexpr && ok_operator name && some_ok ok_expr rexpr
  | AEXPR_DISTINCT | AEXPR_NOT_DISTINCT | AEXPR_NULLIF =>
      name_is "=" "=" name && some_ok ok_expr lexpr && some_ok ok_expr rexpr
  | AEXPR_OF =>
      name_is "=" "<>" name && some_ok ok_expr lexpr && some_ok (some_list ok_TypeName_node) rexpr
  | AEXPR_IN => name_is "=" "<>" name && some_ok ok_expr lexpr && some_ok (some_list ok_expr) rexpr
  | AEXPR_LIKE => name_is "~~" "!~~" name && some_ok ok_expr lexpr && some_ok ok_expr rexpr
  | AEXPR_ILIKE => name_is "~~*" "!~~*" name && some_ok ok_expr lexpr && some_ok ok_expr rexpr
  | AEXPR_SIMILAR => name_is "~" "!~" name && some_ok ok_expr lexpr && some_ok ok_similar rexpr
  | AEXPR_BETWEEN | AEXPR_NOT_BETWEEN | AEXPR_BETWEEN_SYM | AEXPR_NOT_BETWEEN_SYM =>
      match name with [n] => str_ok raw_text n | _ => false end &&
      some_ok ok_expr lexpr && some_ok (some_list ok_expr) rexpr
  | AEXPR_PAREN => false
  end.

Definition ok_BoolExpr (x : BoolExpr.t Node) : bool :=
  match x.(BoolExpr.boolop) with
  | AND_EXPR | OR_EXPR => nonempty x.(BoolExpr.args)
  | NOT_EXPR => (List.length x.(BoolExpr.args) =? 1)%nat
  end &&
  forallb ok_expr x.(BoolExpr.args).

Definition ok_CollateClause (x : CollateClause.t Node) : bool :=
  opt_ok ok_expr x.(CollateClause.arg) && some_names x.(CollateClause.collname).

Definition ok_NullTest (x : NullTest.t Node) : bool :=
  negb x.(NullTest.argisrow) && some_ok ok_expr x.(NullTest.arg).

Definition ok_BooleanTest (x : BooleanTest.t Node) : bool := some_ok ok_expr x.(BooleanTest.arg).

Definition ok_CaseWhen (n : Node) : bool :=
  match n with
  | N_CaseWhen x => some_ok ok_expr x.(CaseWhen.expr) && some_ok ok_expr x.(CaseWhen.result)
  | _ => false
  end.

Definition ok_CaseExpr (x : CaseExpr.t Node) : bool :=
  opt_ok ok_expr x.(CaseExpr.arg) && forallb ok_CaseWhen x.(CaseExpr.args) &&
  opt_ok ok_expr x.(CaseExpr.defresult).

Definition ok_CoalesceExpr (x : CoalesceExpr.t Node) : bool := forallb ok_expr x.(CoalesceExpr.args).
Definition ok_MinMaxExpr (x : MinMaxExpr.t Node) : bool := forallb ok_expr x.(MinMaxExpr.args).
Definition ok_GroupingFunc (x : GroupingFunc.t Node) : bool := forallb ok_expr x.(GroupingFunc.args).
Definition ok_A_ArrayExpr (x : A_ArrayExpr.t Node) : bool := forallb ok_expr x.(A_ArrayExpr.elements).

Definition ok_RowExpr (x : RowExpr.t Node) : bool :=
  negb (bool_decide (x.(RowExpr.row_format) = COERCE_EXPLICIT_CAST)) &&
  forallb ok_expr x.(RowExpr.args).

Definition ok_A_Indirection (x : A_Indirection.t Node) : bool :=
  some_ok ok_expr x.(A_Indirection.arg) &&
  nonempty x.(A_Indirection.indirection) && ok_indirection x.(A_Indirection.indirection).

Definition ok_TypeCast (x : TypeCast.t Node) : bool :=
  some_ok ok_TypeName x.(TypeCast.typeName) && some_ok ok_expr x.(TypeCast.arg).

Definition ok_xml_target (n : Node) : bool :=
  match n with N_ResTarget x => some_ok ok_expr x.(ResTarget.val) | _ => false end.

Definition const_string (n : Node) : bool :=
  match n with
  | N_TypeCast {| TypeCast.arg := Some (N_A_Const {| A_Const.val := String_ _ |}) |} => true
  | _ => false
  end.

Definition ok_XmlExpr (x : XmlExpr.t Node) : bool :=
  let args := x.(XmlExpr.args) in
  match x.(XmlExpr.op) with
  | IS_XMLCONCAT => forallb ok_expr args
  | IS_XMLELEMENT =>
      notnull x.(XmlExpr.name) && forallb ok_xml_target x.(XmlExpr.named_args) && forallb ok_expr args
  | IS_XMLFOREST => forallb ok_xml_target x.(XmlExpr.named_args)
  | IS_XMLPARSE => match args with [a; t] => ok_expr a && const_string t | _ => false end
  | IS_XMLPI => notnull x.(XmlExpr.name) && match args with [] => true | a :: _ => ok_expr a end
  | IS_XMLROOT =>
      match args with
      | a :: v :: s :: _ => ok_expr a && IsA_A_Const v && ok_expr v && const_integer s
      | _ => false
      end
  | IS_XMLSERIALIZE => false
  | IS_DOCUMENT => match args with [a] => ok_expr a | _ => false end
  end.

Definition ok_XmlSerialize (x : XmlSerialize.t Node) : bool :=
  some_ok ok_expr x.(XmlSerialize.expr) && some_ok ok_TypeName x.(XmlSerialize.typeName).

Definition ok_expr_body (n : Node) : bool :=
  match n with
  | N_FuncCall x => ok_FuncCall x
  | N_XmlExpr x => ok_XmlExpr x
  | N_TypeCast x => ok_TypeCast x
  | N_A_Const x => ok_A_Const x
  | N_ColumnRef x => ok_ColumnRef x
  | N_A_Expr x => ok_A_Expr x
  | N_CaseExpr x => ok_CaseExpr x
  | N_A_ArrayExpr x => ok_A_ArrayExpr x
  | N_NullTest x => ok_NullTest x
  | N_XmlSerialize x => ok_XmlSerialize x
  | N_ParamRef x => ok_ParamRef x
  | N_BoolExpr x => ok_BoolExpr x
  | N_SubLink x => ok_SubLink x
  | N_RowExpr x => ok_RowExpr x
  | N_CoalesceExpr x => ok_CoalesceExpr x
  | N_SetToDefault _ => true
  | N_A_Indirection x => ok_A_Indirection x
  | N_CollateClause x => ok_CollateClause x
  | N_CurrentOfExpr x => ok_CurrentOfExpr x
  | N_SQLValueFunction x => true
  | N_MinMaxExpr x => ok_MinMaxExpr x
  | N_BooleanTest x => ok_BooleanTest x
  | N_GroupingFunc x => ok_GroupingFunc x
  | _ => false
  end.

Definition ok_c_expr_body (n : Node) : bool :=
  match n with
  | N_ColumnRef _ | N_A_Const _ | N_TypeCast _ | N_A_Expr _ | N_ParamRef _ | N_A_Indirection _
  | N_CaseExpr _ | N_FuncCall _ | N_SubLink _ | N_A_ArrayExpr _ | N_RowExpr _ | N_GroupingFunc _ =>
      true
  | _ => false
  end && ok_expr_body n.

Definition ok_func_expr_body (n : Node) : bool :=
  match n with
  | N_FuncCall _ | N_SQLValueFunction _ | N_TypeCast _ | N_CoalesceExpr _ | N_MinMaxExpr _
  | N_XmlExpr _ | N_XmlSerialize _ => true
  | _ => false
  end && ok_expr_body n.
End shape_expr.

(** ** Table references and statements *)

Section shape_stmt.
Context {raw : RawNames}.
Variable self : entry -> Node -> bool.

Abbreviation ok_expr := (ok_expr self).
Abbreviation ok_TypeName := (ok_TypeName self).
Abbreviation ok_indirection := (ok_indirection self).

Definition ok_SeqOptElem (n : Node) : bool :=
  match n with
  | N_DefElem x =>
      some_ok (fun defname =>
        if String.eqb defname "as" then some_ok (ok_TypeName_node self) x.(DefElem.arg)
        else if String.eqb defname "cycle" then
          some_ok (fun a => match a with N_Value (Integer z) => (z =? 0)%Z || (z =? 1)%Z | _ => false end)
            x.(DefElem.arg)
        else if one_of_names defname ["cache"; "increment"; "start"] then
          some_ok ok_number_node x.(DefElem.arg)
        else if one_of_names defname ["maxvalue"; "minvalue"; "restart"] then
          opt_ok ok_number_node x.(DefElem.arg)
        else if one_of_names defname ["owned_by"; "sequence_name"] then
          some_ok (some_list (str_ok any_str)) x.(DefElem.arg)
        else false) x.(DefElem.defname)
  | _ => false
  end.

Definition ok_DefArg (n : Node) : bool :=
  match n with
  | N_TypeName x => ok_TypeName x
  | N_List [o] => str_ok raw_text o
  | N_List [o1; o2] => ok_operator [o1; o2]
  | N_Value (Integer _ as v) | N_Value (Float _ as v) => ok_number v
  | N_Value (String_ _) => true
  | _ => false
  end.

Definition ok_generic_option (n : Node) : bool :=
  match n with
  | N_DefElem x => notnull x.(DefElem.defname) && some_ok (str_ok any_str) x.(DefElem.arg)
  | _ => false
  end.

Definition ok_rel_option (n : Node) : bool :=
  match n with
  | N_DefElem x => notnull x.(DefElem.defname) && opt_ok ok_DefArg x.(DefElem.arg)
  | _ => false
  end.

Definition ok_target (n : Node) : bool :=
  match n with
  | N_ResTarget x => some_ok ok_expr x.(ResTarget.val)
  | _ => false
  end.

Definition ok_set_target (n : Node) : bool :=
  match n with
  | N_ResTarget x => notnull x.(ResTarget.name) && ok_indirection x.(ResTarget.indirection)
  | _ => false
  end.

Definition ok_set_clause (n : Node) : bool :=
  ok_set_target n &&
  match n with
  | N_ResTarget {| ResTarget.val := Some (N_MultiAssignRef r) |} =>
      some_ok ok_expr r.(MultiAssignRef.source)
  | N_ResTarget x => some_ok ok_expr x.(ResTarget.val)
  | _ => false
  end.

Definition ok_set_clauses (l : list Node) : bool := nonempty l && forallb ok_set_clause l.

Definition ok_GroupingSet (x : GroupingSet.t Node) : bool :=
  match x.(GroupingSet.kind) with
  | GROUPING_SET_EMPTY => true
  | GROUPING_SET_SIMPLE => false
  | GROUPING_SET_ROLLUP | GROUPING_SET_CUBE => forallb ok_expr x.(GroupingSet.content)
  | GROUPING_SET_SETS => forallb (self E_GroupByItem) x.(GroupingSet.content)
  end.

Definition ok_group_item (n : Node) : bool :=
  match n with N_GroupingSet x => ok_GroupingSet x | _ => false end || ok_expr_body self n.

(** Exception: an expression element is printed without a space after it: a collation,
    an operator class or an order would be glued to a cast. *)
Definition ok_IndexElem (x : IndexElem.t Node) : bool :=
  match x.(IndexElem.name), x.(IndexElem.expr) with
  | Some _, _ => true
  | None, Some e =>
      match e with
      | N_FuncCall _ | N_SQLValueFunction _ | N_TypeCast _ | N_CoalesceExpr _
      | N_MinMaxExpr _ | N_XmlExpr _ | N_XmlSerialize _ =>
          self E_FuncExprWindowless e &&
          negb (nonempty x.(IndexElem.collation)) && negb (nonempty x.(IndexElem.opclass)) &&
          bool_decide (x.(IndexElem.ordering) = SORTBY_DEFAULT) &&
          bool_decide (x.(IndexElem.nulls_ordering) = SORTBY_NULLS_DEFAULT)
      | _ => ok_expr e
      end
  | None, None => false
  end &&
  names_ok x.(IndexElem.collation) && names_ok x.(IndexElem.opclass) &&
  forallb ok_rel_option x.(IndexElem.opclassopts) &&
  negb (bool_decide (x.(IndexElem.ordering) = SORTBY_USING)).

Definition ok_exclusion (n : Node) : bool :=
  match n with
  | N_List [e; N_List op] =>
      IsA_IndexElem e && self E_IndexElem e &&
      match op with
      | [o] => str_ok op_text o
      | [o1; o2] => ok_operator op
      | _ => false
      end
  | _ => false
  end.

Definition ok_constraint_kind (x : Constraint.t Node) : bool :=
  match x.(Constraint.contype) with
  | CONSTR_DEFAULT | CONSTR_CHECK => some_ok ok_expr x.(Constraint.raw_expr)
  | CONSTR_IDENTITY =>
      one_of "ad" x.(Constraint.generated_when) && forallb ok_SeqOptElem x.(Constraint.options)
  | CONSTR_GENERATED =>
      Ascii.eqb x.(Constraint.generated_when) ATTRIBUTE_IDENTITY_ALWAYS &&
      some_ok ok_expr x.(Constraint.raw_expr)
  | CONSTR_EXCLUSION =>
      notnull x.(Constraint.access_method) && forallb ok_exclusion x.(Constraint.exclusions) &&
      opt_ok ok_expr x.(Constraint.where_clause)
  | CONSTR_FOREIGN => nonempty x.(Constraint.fk_attrs) || notnull x.(Constraint.pktable)
  | _ => true
  end.

(** The name of a constraint is printed without quotes, and nothing separates a
    default from what follows. *)
Definition ok_Constraint (n : Node) : bool :=
  match n with
  | N_Constraint x =>
      opt_ok raw x.(Constraint.conname) &&
      ok_constraint_kind x &&
      names_ok x.(Constraint.keys) && names_ok x.(Constraint.fk_attrs) &&
      opt_ok ok_RangeVar x.(Constraint.pktable) && names_ok x.(Constraint.pk_attrs) &&
      negb (Ascii.eqb x.(Constraint.fk_matchtype) "p") &&
      names_ok x.(Constraint.including) &&
      if_ok (bool_decide (x.(Constraint.contype) = CONSTR_DEFAULT))
        (negb (nonempty x.(Constraint.keys)) && negb (nonempty x.(Constraint.fk_attrs)) &&
         negb (notnull x.(Constraint.pktable)) && negb (one_of "f" x.(Constraint.fk_matchtype)) &&
         negb (one_of "rcnd" x.(Constraint.fk_upd_action)) &&
         negb (one_of "rcnd" x.(Constraint.fk_del_action)) &&
         negb (nonempty x.(Constraint.including)) && negb (notnull x.(Constraint.indexname)) &&
         negb (notnull x.(Constraint.indexspace)) && negb x.(Constraint.deferrable) &&
         negb x.(Constraint.initdeferred) && negb x.(Constraint.is_no_inherit) &&
         negb x.(Constraint.skip_validation))
  | _ => false
  end.

Definition ok_ColumnDef (x : ColumnDef.t Node) : bool :=
  some_ok raw x.(ColumnDef.colname) &&
  opt_ok ok_TypeName x.(ColumnDef.typeName) &&
  opt_ok ok_expr x.(ColumnDef.raw_default) &&
  forallb ok_generic_option x.(ColumnDef.fdwoptions) &&
  forallb ok_Constraint x.(ColumnDef.constraints) &&
  opt_ok (ok_CollateClause self) x.(ColumnDef.collClause).

Definition ok_column_defs (l : list Node) : bool := forallb (self E_ColumnDef) l.

Definition ok_RangeTableSample (x : RangeTableSample.t Node) : bool :=
  some_ok ok_RangeVar_node x.(RangeTableSample.relation) &&
  some_names x.(RangeTableSample.method) && forallb ok_expr x.(RangeTableSample.args) &&
  opt_ok ok_expr x.(RangeTableSample.repeatable).

Definition ok_RangeTableFuncCol (n : Node) : bool :=
  match n with
  | N_RangeTableFuncCol x =>
      notnull x.(RangeTableFuncCol.colname) &&
      if_ok (negb x.(RangeTableFuncCol.for_ordinality))
        (some_ok ok_TypeName x.(RangeTableFuncCol.typeName) &&
         opt_ok ok_expr x.(RangeTableFuncCol.colexpr) &&
         opt_ok ok_expr x.(RangeTableFuncCol.coldefexpr))
  | _ => false
  end.

Definition ok_RangeTableFunc (x : RangeTableFunc.t Node) : bool :=
  forallb (ok_xml_target self) x.(RangeTableFunc.namespaces) &&
  some_ok ok_expr x.(RangeTableFunc.rowexpr) && some_ok ok_expr x.(RangeTableFunc.docexpr) &&
  forallb ok_RangeTableFuncCol x.(RangeTableFunc.columns) &&
  opt_ok ok_Alias x.(RangeTableFunc.alias).

Definition ok_rows_from (n : Node) : bool :=
  match n with
  | N_List [f; N_List defs] => self E_FuncExprWindowless f && ok_column_defs defs
  | _ => false
  end.

Definition ok_RangeFunction (x : RangeFunction.t Node) : bool :=
  match x.(RangeFunction.functions) with
  | n :: l => ok_rows_from n && if_ok x.(RangeFunction.is_rowsfrom) (forallb ok_rows_from l)
  | [] => false
  end &&
  opt_ok ok_Alias x.(RangeFunction.alias) && ok_column_defs x.(RangeFunction.coldeflist).

Definition ok_RangeSubselect (x : RangeSubselect.t Node) : bool :=
  some_ok (self E_SelectStmt) x.(RangeSubselect.subquery) && opt_ok ok_Alias x.(RangeSubselect.alias).

Definition ok_jointype (t : JoinType) : bool :=
  match t with JOIN_INNER | JOIN_LEFT | JOIN_FULL | JOIN_RIGHT => true | _ => false end.

Definition ok_JoinExpr (x : JoinExpr.t Node) : bool :=
  ok_jointype x.(JoinExpr.jointype) &&
  some_ok (self E_TableRef) x.(JoinExpr.larg) && some_ok (self E_TableRef) x.(JoinExpr.rarg) &&
  opt_ok ok_expr x.(JoinExpr.quals) && names_ok x.(JoinExpr.usingClause) &&
  opt_ok ok_Alias x.(JoinExpr.alias).

Definition ok_table_ref_body (n : Node) : bool :=
  match n with
  | N_RangeVar x => ok_RangeVar x
  | N_RangeTableSample x => ok_RangeTableSample x
  | N_RangeFunction x => ok_RangeFunction x
  | N_RangeTableFunc x => ok_RangeTableFunc x
  | N_RangeSubselect x => ok_RangeSubselect x
  | N_JoinExpr x => ok_JoinExpr x
  | _ => false
  end.

Definition ok_CommonTableExpr (n : Node) : bool :=
  match n with
  | N_CommonTableExpr x =>
      notnull x.(CommonTableExpr.ctename) && names_ok x.(CommonTableExpr.aliascolnames) &&
      some_ok (self E_PreparableStmt) x.(CommonTableExpr.ctequery)
  | _ => false
  end.

Definition ok_WithClause (x : WithClause.t Node) : bool :=
  nonempty x.(WithClause.ctes) && forallb ok_CommonTableExpr x.(WithClause.ctes).

Definition ok_IntoClause (x : IntoClause.t Node) : bool :=
  some_ok (fun rel => ok_RangeVar rel && one_of "put" rel.(RangeVar.relpersistence)) x.(IntoClause.rel) &&
  names_ok x.(IntoClause.colNames) && forallb ok_rel_option x.(IntoClause.options).

Definition ok_values_row (n : Node) : bool :=
  match n with N_List l => forallb ok_expr l | _ => false end.

Definition ok_distinct (l : list Node) : bool :=
  match l with
  | [] | N_List [] :: _ => true
  | _ => forallb ok_expr l
  end.

Definition ok_window_clause_el (n : Node) : bool :=
  match n with
  | N_WindowDef x => some_ok raw x.(WindowDef.name) && ok_WindowDef self x
  | _ => false
  end.

Definition ok_select_body (x : SelectStmt.t Node) : bool :=
  ok_distinct x.(SelectStmt.distinctClause) && forallb ok_target x.(SelectStmt.targetList) &&
  opt_ok ok_IntoClause x.(SelectStmt.intoClause) &&
  forallb (self E_TableRef) x.(SelectStmt.fromClause) && opt_ok ok_expr x.(SelectStmt.whereClause) &&
  forallb (self E_GroupByItem) x.(SelectStmt.groupClause) &&
  opt_ok ok_expr x.(SelectStmt.havingClause) &&
  forallb ok_window_clause_el x.(SelectStmt.windowClause).

Definition ok_limit (n : Node) : bool :=
  match n with
  | N_A_Const {| A_Const.val := Null |} => true
  | _ => self E_CExpr n
  end.

Definition ok_lock_node (n : Node) : bool :=
  match n with N_LockingClause x => ok_LockingClause x | _ => false end.

Definition ok_SelectStmt (x : SelectStmt.t Node) : bool :=
  opt_ok ok_WithClause x.(SelectStmt.withClause) &&
  match x.(SelectStmt.op) with
  | SETOP_NONE =>
      if nonempty x.(SelectStmt.valuesLists) then forallb ok_values_row x.(SelectStmt.valuesLists)
      else ok_select_body x
  | _ => some_ok (self E_SelectStmt) x.(SelectStmt.larg) && some_ok (self E_SelectStmt) x.(SelectStmt.rarg)
  end &&
  ok_sort self x.(SelectStmt.sortClause) &&
  opt_ok ok_limit x.(SelectStmt.limitCount) && opt_ok ok_expr x.(SelectStmt.limitOffset) &&
  forallb ok_lock_node x.(SelectStmt.lockingClause).

Definition ok_InferClause (x : InferClause.t Node) : bool :=
  (nonempty x.(InferClause.indexElems) || notnull x.(InferClause.conname)) &&
  forallb (self E_IndexElem) x.(InferClause.indexElems) &&
  opt_ok ok_expr x.(InferClause.whereClause).

Definition ok_OnConflictClause (x : OnConflictClause.t Node) : bool :=
  negb (bool_decide (x.(OnConflictClause.action) = ONCONFLICT_NONE)) &&
  opt_ok ok_InferClause x.(OnConflictClause.infer) &&
  if_ok (nonempty x.(OnConflictClause.targetList)) (ok_set_clauses x.(OnConflictClause.targetList)) &&
  opt_ok ok_expr x.(OnConflictClause.whereClause).

Definition ok_InsertStmt (x : InsertStmt.t Node) : bool :=
  opt_ok ok_WithClause x.(InsertStmt.withClause) &&
  some_ok ok_RangeVar x.(InsertStmt.relation) && forallb ok_set_target x.(InsertStmt.cols) &&
  opt_ok (self E_SelectStmt) x.(InsertStmt.selectStmt) &&
  opt_ok ok_OnConflictClause x.(InsertStmt.onConflictClause) &&
  forallb ok_target x.(InsertStmt.returningList).

Definition ok_UpdateStmt (x : UpdateStmt.t Node) : bool :=
  opt_ok ok_WithClause x.(UpdateStmt.withClause) &&
  some_ok ok_RangeVar x.(UpdateStmt.relation) &&
  if_ok (nonempty x.(UpdateStmt.targetList)) (ok_set_clauses x.(UpdateStmt.targetList)) &&
  forallb (self E_TableRef) x.(UpdateStmt.fromClause) && opt_ok ok_expr x.(UpdateStmt.whereClause) &&
  forallb ok_target x.(UpdateStmt.returningList).

Definition ok_DeleteStmt (x : DeleteStmt.t Node) : bool :=
  opt_ok ok_WithClause x.(DeleteStmt.withClause) &&
  some_ok ok_RangeVar x.(DeleteStmt.relation) &&
  forallb (self E_TableRef) x.(DeleteStmt.usingClause) && opt_ok ok_expr x.(DeleteStmt.whereClause) &&
  forallb ok_target x.(DeleteStmt.returningList).

Definition ok_preparable_body (n : Node) : bool :=
  match n with
  | N_SelectStmt x => ok_SelectStmt x
  | N_InsertStmt x => ok_InsertStmt x
  | N_UpdateStmt x => ok_UpdateStmt x
  | N_DeleteStmt x => ok_DeleteStmt x
  | _ => false
  end.
End shape_stmt.

Fixpoint wf {raw : RawNames} (e : entry) (n : Node) {struct n} : bool :=
  match e with
  | E_Expr => ok_expr_body wf n
  | E_CExpr => ok_c_expr_body wf n
  | E_TableRef => ok_table_ref_body wf n
  | E_SelectStmt => match n with N_SelectStmt x => ok_SelectStmt wf x | _ => false end
  | E_PreparableStmt => ok_preparable_body wf n
  | E_GroupByItem => ok_group_item wf n
  | E_FuncExprWindowless => ok_func_expr_body wf n
  | E_IndexElem => match n with N_IndexElem x => ok_IndexElem wf x | _ => false end
  | E_ColumnDef => match n with N_ColumnDef x => ok_ColumnDef wf x | _ => false end
  end.
