(* ===== verification/Rules.v ===== *)
(** * Proof rules for programs over a buffer

    The rules of the judgement [writes] of [Lexical.v] for the combinators of
    [Buffer.v] and the helpers of [Nodes.v], and the tactic [writes_tac] that
    walks over a program.  The tactic goes forward: the place and the bracket
    stack after a piece of text are found by computing, the alternatives of a
    conditional have to agree on them. *)
From S2P Require Import Prelude Buffer Keywords Quote Enums Nodes DeparseNames DeparseExpr.
From S2P Require Import Lexical Shape.

(** ** Rules *)

Section lists.
Context {A : Type} (d : A -> dep) (sep : dep).

Lemma W_foreach_sep_cons k x l f mid :
  writes k Bnd [] (d x) f [] ->
  (l <> [] -> exists f1, writes Any f [] sep f1 [] /\
     writes Any f1 [] (foreach_sep d sep l) mid []) ->
  place_le f mid = true -> k <> Weak ->
  writes k Bnd [] (foreach_sep d sep (x :: l)) mid [].
Proof.
  intros Hx Hl Hm Hk. destruct l as [|y l].
  - by eapply W_weaken; [exact Hx|destruct k|].
  - destruct Hl as (f1 & Hs & Hl); [done|].
    change (foreach_sep d sep (x :: y :: l)) with (d x ;;; sep ;;; foreach_sep d sep (y :: l)).
    destruct k; [|done|].
    + eapply W_seq_any; [done|]. by eapply W_seq_any.
    + eapply W_seq_solid; [done|]. by eapply W_seq_any.
Qed.

Lemma W_list (l : list A) :
  Forall (fun x => writes Solid Bnd [] (d x) End []) l ->
  writes Any End [] sep Bnd [] ->
  nonempty l = true ->
  writes Solid Bnd [] (foreach_sep d sep l) End [].
Proof.
  intros Hl Hs Hne. destruct l as [|x l]; [done|]. clear Hne.
  revert x Hl. induction l as [|y l IH]; intros x [Hx Hl]%Forall_cons.
  - done.
  - apply (W_foreach_sep_cons Solid x (y :: l) End End); try done.
    intros _. exists Bnd. split; [done|]. eapply W_weaken; [by apply IH|done..].
Qed.

(** The same for a list that may be empty. *)
Lemma W_list0 (l : list A) :
  Forall (fun x => writes Solid Bnd [] (d x) End []) l ->
  writes Any End [] sep Bnd [] ->
  writes Weak Bnd [] (foreach_sep d sep l) End [].
Proof.
  intros Hl Hs. destruct l as [|x l]; [by apply W_skip|].
  eapply W_weaken; [by apply W_list|done..].
Qed.

Lemma W_each (l : list A) f :
  Forall (fun x => writes Solid f [] (d x) f []) l ->
  writes Weak f [] (foreach d l) f [].
Proof.
  intros Hl. induction l as [|x l IH]; [apply W_skip; by destruct f|].
  apply Forall_cons in Hl as [Hx Hl]. change (foreach d (x :: l)) with (d x ;;; foreach d l).
  apply (W_weaken Solid f _ _ f); [|done|by destruct f].
  apply (W_seq_solid Solid _ _ _ f []); [done|].
  apply (W_weaken Weak f _ _ f); [by apply IH|done|by destruct f].
Qed.
End lists.

(** Turning what the tree hypotheses say of the elements into the premise of the
    list rules. *)
Lemma Forall_tree {Q : Node -> Prop} {P : Node -> Type} (p : Node -> bool) (l : list Node) :
  list_all Node P l -> forallb p l = true -> (forall n, P n -> p n = true -> Q n) -> Forall Q l.
Proof.
  intros Hl. induction Hl as [|n Hn l Hl IH]; cbn; [done|].
  intros [Hp Hf]%andb_true_iff HQ. constructor; auto.
Qed.

Lemma Forall_plain {A} {Q : A -> Prop} (p : A -> bool) (l : list A) :
  forallb p l = true -> (forall n, p n = true -> Q n) -> Forall Q l.
Proof.
  intros Hf HQ. induction l as [|n l IH]; [done|]. cbn in Hf.
  apply andb_true_iff in Hf as [??]. constructor; auto.
Qed.

Lemma W_parens_if b d k f pre :
  kind_le Solid k = true ->
  writes Solid Bnd [] d f [] ->
  writes k Bnd pre (when b (chr "(") ;;; d ;;; when b (chr ")")) End pre.
Proof.
  intros Hk Hd. apply (W_weaken Solid Bnd pre _ End pre); [|exact Hk|done].
  assert (Hd' : forall pre, writes Solid Bnd pre d End pre)
    by (intros; eapply W_use; [exact Hd|done|done|by destruct f]).
  destruct b; cbn.
  - apply (W_seq_solid Solid _ _ _ Bnd (Paren :: pre)); [by apply W_chr; eapply W_text|].
    apply (W_seq_any _ _ _ End (Paren :: pre)); [by eapply W_weaken; [apply Hd'|..]|].
    by apply W_chr; eapply W_text.
  - apply (W_seq_weak _ _ _ _ Bnd pre); [by apply W_skip|].
    apply (W_seq_solid Solid _ _ _ End pre); [apply Hd'|by apply W_skip].
Qed.

(** ** The tactic *)

Lemma place_le_refl f : place_le f f = true.
Proof. by destruct f. Qed.

Lemma W_fmt_d z : writes Solid Bnd [] (str (fmt_d z)) End [].
Proof. apply W_int. Qed.

(** Lemmas for the pieces: [writes _ _ [] d _ []]. *)
Create HintDb writes discriminated.
#[export] Hint Constants Opaque : writes.
#[export] Hint Resolve W_ident W_raw W_fmt_d W_literal : writes.

Lemma str_ok_inv p n : str_ok p n = true -> exists s, n = N_Value (String_ s) /\ p s = true.
Proof. unfold str_ok. destruct n; try done. destruct v; try done. eauto. Qed.

(** The hypotheses on the tree, split and with the impossible cases gone. *)
Ltac simp_hyps :=
  repeat match goal with
  | H : ?x = ?x |- _ => clear H
  | H : false = true |- _ => discriminate H
  | H : true = false |- _ => discriminate H
  | H : andb _ _ = true |- _ => apply andb_true_iff in H; destruct H
  | H : negb _ = true |- _ => apply negb_true_iff in H
  | H : negb _ = false |- _ => apply negb_false_iff in H
  | H : bool_decide _ = true |- _ => apply bool_decide_eq_true in H
  | H : bool_decide _ = false |- _ => apply bool_decide_eq_false in H
  | H : if_ok (bool_decide ?P) _ = true |- _ =>
      let v := eval vm_compute in (bool_decide P) in
      lazymatch v with
      | true => change (bool_decide P) with true in H
      | false => clear H
      end
  | H : if_ok true _ = true |- _ => cbn [if_ok] in H
  | H : if_ok false _ = true |- _ => clear H
  | H : opt_ok _ (Some _) = true |- _ => cbn [opt_ok] in H
  | H : opt_ok _ None = true |- _ => clear H
  | H : some_ok _ (Some _) = true |- _ => cbn [some_ok] in H
  | H : some_ok _ None = true |- _ => discriminate H
  | H : notnull (Some _) = true |- _ => clear H
  | H : notnull None = true |- _ => discriminate H
  | H : notnull (Some _) = false |- _ => discriminate H
  | H : nonempty [] = true |- _ => discriminate H
  | H : nonempty (_ :: _) = false |- _ => discriminate H
  | H : nonempty (_ :: _) = true |- _ => clear H
  | H : option_all _ _ (Some _) |- _ => inversion_clear H
  | H : option_all _ _ None |- _ => clear H
  | H : list_all _ _ (_ :: _) |- _ => inversion_clear H
  | H : list_all _ _ [] |- _ => clear H
  | H : forallb _ (_ :: _) = true |- _ => cbn [forallb] in H
  | H : forallb _ [] = true |- _ => clear H
  | H : str_ok _ ?n = true |- _ => is_var n; apply str_ok_inv in H as (? & -> & ?)
  | H : ?x <> ?x |- _ => destruct (H eq_refl)
  | H : ?P, H' : ?P |- _ => lazymatch type of P with Prop => clear H' end
  | H : ?x = ?y |- _ => is_var x; subst x
  | H : _ = _ |- _ => discriminate H
  end.

(** Case analysis on [x], in the hypotheses too. *)
Ltac case_on x :=
  first
  [ is_var x; destruct x
  | let E := fresh "E" in destruct x eqn:E; repeat match goal with
      | H : context [x] |- _ => lazymatch H with E => fail | _ => rewrite E in H end end ];
  cbn [opt_ok some_ok if_ok nonempty notnull] in *; simp_hyps.

(** The case distinction at the head of a program. *)
Ltac case_head d :=
  lazymatch d with
  | when true _ => cbn [when]
  | when false _ => cbn [when]
  | when_some (Some _) _ => cbn [when_some]
  | when_some None _ => cbn [when_some]
  | deref (Some _) _ => cbn [deref]
  | assert_ true => cbn [assert_]
  | (if true then _ else _) => cbv iota
  | (if false then _ else _) => cbv iota
  | when ?c _ => case_on c; cbn [when]
  | when_some ?p _ => case_on p; cbn [when_some]
  | deref ?p _ => case_on p; cbn [deref]
  | assert_ ?c => case_on c; cbn [assert_]
  | str (match ?x with _ => _ end) => case_on x
  | match ?x with _ => _ end => case_on x
  end.

(** A literal text, by running the automaton on it; a text from the tree, by a
    lemma. *)
Ltac text_tac :=
  eapply W_text;
  [vm_compute; reflexivity | first [apply place_le_refl | reflexivity] | vm_compute; reflexivity].

Ltac piece_tac :=
  eapply W_use;
  [ solve [eauto with writes nocore] | reflexivity | reflexivity
  | first [apply place_le_refl | reflexivity] ].

(** Does the program end in [rts]? *)
Ltac ends_rts d :=
  lazymatch d with
  | ?a ;;; rts => idtac
  | ?a ;;; ?b => ends_rts b
  end.

Ltac with_place P :=
  match goal with |- writes ?k ?f ?pre ?d ?f' ?post => unify post pre; unify f' P end.

Ltac writes_tac :=
  lazymatch goal with
  | |- writes ?k ?f ?pre ?d ?f' ?post =>
    lazymatch d with
    | ?a ;;; rts =>
        eapply W_weaken; [eapply (W_rts f pre a _ End post); [writes_tac | reflexivity] | reflexivity
        | first [apply place_le_refl | reflexivity]]
    | when ?b (chr "(") ;;; _ ;;; when ?b (chr ")") =>
        eapply W_parens_if; [reflexivity | writes_tac]
    | ?a ;;; ?b =>
        tryif ends_rts b then (apply W_seq_assoc; writes_tac)
        else
          lazymatch k with
          | Any => eapply W_seq_any; [writes_tac | writes_tac]
          | _ =>
              first [ eapply W_seq_solid; [solve [writes_tac] | writes_tac]
                    | eapply W_seq_weak; [solve [writes_tac] | writes_tac] ]
          end
    | skip => apply W_skip; [reflexivity | first [apply place_le_refl | reflexivity]]
    | str (String _ _) => text_tac
    | chr _ => apply W_chr; text_tac
    | fmt _ => apply W_fmt; writes_tac
    | parens_if _ _ => eapply W_parens_if; [reflexivity | writes_tac]
    | _ =>
        first
        [ piece_tac
        | solve [with_place Bnd; case_head d; writes_tac]
        | solve [with_place End; case_head d; writes_tac]
        | solve [case_head d; writes_tac] ]
    end
  end.

(** Opens a node: only the kind of node the condition [Hok] allows is left, with
    what is known of its fields. *)
Ltac open_node n Hn Hok :=
  destruct n; try discriminate Hok; apply her_children in Hn; cbn [children] in Hn.

(** Opens a struct. *)
Ltac open_struct Hx := destruct Hx; simpl_fields; simp_hyps.
