(* ===== verification/DeparseSafe.v ===== *)
(** * What the deparser writes: names, values, expressions *)
From S2P Require Import Prelude Buffer Keywords Quote Enums Nodes DeparseNames DeparseExpr.
From S2P Require Import DeparseStmt Lexical Shape Rules.
Import ClosedNames.

(** ** Names, operators, values *)

Lemma names_list (d : string -> dep) sep l :
  names_ok l = true -> (forall s, writes Solid Bnd [] (d s) End []) ->
  writes Any End [] sep Bnd [] ->
  writes Weak Bnd [] (foreach_sep (fun n => strVal n d) sep l) End [].
Proof.
  intros Hl Hd Hs. apply W_list0; [|done]. eapply Forall_plain; [exact Hl|].
  intros n (s & -> & _)%str_ok_inv. apply Hd.
Qed.

Lemma names_list1 (d : string -> dep) sep l :
  some_names l = true -> (forall s, writes Solid Bnd [] (d s) End []) ->
  writes Any End [] sep Bnd [] ->
  writes Solid Bnd [] (foreach_sep (fun n => strVal n d) sep l) End [].
Proof.
  intros Hl Hd Hs. unfold some_names in Hl. simp_hyps. apply W_list; [|done..].
  eapply Forall_plain; [done|]. intros n (s & -> & _)%str_ok_inv. apply Hd.
Qed.

Lemma deparseNameList_writes l :
  names_ok l = true -> writes Weak Bnd [] (deparseNameList l) End [].
Proof. intros. apply names_list; [done|intros; apply W_ident|text_tac]. Qed.

Lemma deparseColumnList_writes l :
  names_ok l = true -> writes Weak Bnd [] (deparseColumnList l) End [].
Proof. intros. apply names_list; [done|intros; apply W_ident|text_tac]. Qed.

Lemma deparseFuncName_writes l :
  some_names l = true -> writes Solid Bnd [] (deparseFuncName l) End [].
Proof. intros. apply names_list1; [done|intros; apply W_ident|apply W_chr; text_tac]. Qed.

Lemma deparseAnyName_writes l :
  some_names l = true -> writes Solid Bnd [] (deparseAnyName l) End [].
Proof.
  intros Hl. unfold some_names in Hl. simp_hyps. apply W_list; [|apply W_chr; text_tac|done].
  eapply Forall_plain; [done|]. intros n (s & -> & _)%str_ok_inv.
  cbn [strVal value_str IsA_String]. writes_tac.
Qed.
#[export] Hint Resolve deparseNameList_writes deparseColumnList_writes deparseFuncName_writes
  deparseAnyName_writes : writes.

Lemma deparseAlias_writes x :
  ok_Alias x = true -> writes Solid Bnd [] (deparseAlias x) End [].
Proof. intros H. unfold ok_Alias, deparseAlias in *. simp_hyps. writes_tac. Qed.
#[export] Hint Resolve deparseAlias_writes : writes.

Lemma deparseRangeVar_writes x ctx :
  ok_RangeVar x = true -> writes Solid Bnd [] (deparseRangeVar x ctx) End [].
Proof. intros H. unfold ok_RangeVar, deparseRangeVar in *. simp_hyps. writes_tac. Qed.
#[export] Hint Resolve deparseRangeVar_writes : writes.

Lemma deparseQualifiedNameList_writes l :
  forallb ok_RangeVar_node l = true -> writes Weak Bnd [] (deparseQualifiedNameList l) End [].
Proof.
  intros Hl. apply W_list0; [|text_tac]. eapply Forall_plain; [done|].
  intros n Hn. destruct n; try discriminate Hn. by apply deparseRangeVar_writes.
Qed.
#[export] Hint Resolve deparseQualifiedNameList_writes : writes.

Lemma deparseOptCollate_writes l :
  names_ok l = true -> writes Weak Bnd [] (deparseOptCollate l) Bnd [].
Proof.
  intros Hl. unfold deparseOptCollate. destruct (nonempty l) eqn:Hne; cbn [when]; [|writes_tac].
  assert (some_names l = true) by (unfold some_names; by rewrite Hne). writes_tac.
Qed.

Fixpoint chars (s : string) (c : ascii) : Prop :=
  match s with EmptyString => False | String d s' => c = d \/ chars s' c end.

Lemma one_of_inv s c : one_of s c = true -> chars s c.
Proof.
  unfold one_of. induction s as [|d s IH]; cbn; [done|].
  intros [->%Ascii.eqb_eq|H]%orb_true_iff; auto.
Qed.

Lemma deparseOptTemp_writes c :
  one_of "put" c = true -> writes Weak Bnd [] (deparseOptTemp c) Bnd [].
Proof.
  intros H. apply one_of_inv in H. cbn [chars] in H.
  decompose [or] H; subst; try done; cbn; writes_tac.
Qed.
#[export] Hint Resolve deparseOptCollate_writes deparseOptTemp_writes : writes.

(** *** Operators *)

Lemma W_op s : op_text s = true -> writes Solid Bnd [] (str s) End [].
Proof. intros H. unfold op_text in H. simp_hyps. by apply W_raw. Qed.
#[export] Hint Resolve W_op : writes.

Lemma ok_operator_inv op :
  ok_operator op = true ->
  exists s, op_text s = true /\
    (op = [N_Value (String_ s)] \/ exists q, op = [N_Value (String_ q); N_Value (String_ s)]).
Proof.
  destruct op as [|o1 [|o2 [|]]]; cbn [ok_operator]; try done; intros H; simp_hyps; eauto.
Qed.

Lemma op_text_isOp s : op_text s = true -> isOp s = true.
Proof. by intros [? _]%andb_true_iff. Qed.

Lemma deparseAnyOperator_writes op :
  ok_operator op = true -> writes Solid Bnd [] (deparseAnyOperator op) End [].
Proof.
  intros (s & Hs & [->|[q ->]])%ok_operator_inv; unfold deparseAnyOperator;
    cbn [llast last strVal value_str]; rewrite (op_text_isOp _ Hs); cbn [assert_]; writes_tac.
Qed.
#[export] Hint Resolve deparseAnyOperator_writes : writes.

Lemma deparseQualOp_writes op :
  ok_operator op = true -> writes Solid Bnd [] (deparseQualOp op) End [].
Proof.
  intros H. pose proof (ok_operator_inv _ H) as (s & Hs & [->|[q ->]]); unfold deparseQualOp;
    cbn [strVal value_str]; rewrite ?(op_text_isOp _ Hs); cbv beta iota zeta; writes_tac.
Qed.

Lemma deparseSubqueryOp_writes op :
  ok_operator op = true -> writes Solid Bnd [] (deparseSubqueryOp op) End [].
Proof.
  intros H. pose proof (ok_operator_inv _ H) as (s & Hs & [->|[q ->]]); unfold deparseSubqueryOp;
    cbn [strVal value_str]; rewrite ?(op_text_isOp _ Hs); cbv beta iota zeta; [|writes_tac].
  repeat case_match; writes_tac.
Qed.
#[export] Hint Resolve deparseQualOp_writes deparseSubqueryOp_writes : writes.

(** *** Values *)

Lemma deparseNumericOnly_writes v :
  ok_number v = true -> writes Solid Bnd [] (deparseNumericOnly v) End [].
Proof. destruct v; try done; intros H; cbn [ok_number deparseNumericOnly] in *; writes_tac. Qed.
#[export] Hint Resolve deparseNumericOnly_writes : writes.

Lemma deparseAConst_writes x :
  ok_A_Const x = true -> writes Solid Bnd [] (deparseAConst x) End [].
Proof.
  unfold ok_A_Const, deparseAConst, deparseValue. destruct (A_Const.val x) as [z|s|s|[|c s]|]; intros H.
  - by apply deparseNumericOnly_writes.
  - by apply deparseNumericOnly_writes.
  - apply W_literal.
  - done.
  - unfold ok_const in H. simp_hyps.
    match goal with H : one_of _ _ = true |- _ => pose proof (one_of_inv _ _ H) as Hc end.
    cbn [chars] in Hc. decompose [or] Hc; subst; try done; by apply W_bit_literal.
  - writes_tac.
Qed.

Lemma deparseParamRef_writes x :
  ok_ParamRef x = true -> writes Solid Bnd [] (deparseParamRef x) End [].
Proof.
  unfold ok_ParamRef, deparseParamRef. intros H%Z.leb_le.
  destruct (_ =? 0)%Z eqn:E; [writes_tac|]. apply Z.eqb_neq in E.
  apply W_fmt, W_param. lia.
Qed.

Lemma deparse_precision_writes z pre :
  writes Any End pre (fmt ("(" +:+ fmt_d z +:+ ")")) End pre.
Proof.
  apply W_fmt.
  apply (W_same _ _ _ (str "(" ;;; str (fmt_d z) ;;; str ")") _ ("(" +:+ fmt_d z +:+ ")")).
  - apply (T_seq _ _ "("); [apply T_str|]. apply T_seq; apply T_str.
  - apply T_str.
  - writes_tac.
Qed.

Lemma deparseSQLValueFunction_writes x :
  writes Solid Bnd [] (deparseSQLValueFunction x) End [].
Proof.
  unfold deparseSQLValueFunction. apply (W_seq_solid Solid _ _ _ End []).
  - destruct (SQLValueFunction.op x); text_tac.
  - destruct (negb _); cbn [when]; [apply deparse_precision_writes|writes_tac].
Qed.

Lemma deparseLockingClause_writes x :
  ok_LockingClause x = true -> writes Solid Bnd [] (deparseLockingClause x) End [].
Proof.
  unfold ok_LockingClause, deparseLockingClause. intros H. destruct x. simpl_fields. simp_hyps.
  case_on (nonempty lockedRels); writes_tac.
Qed.

Lemma deparseCurrentOfExpr_writes x :
  ok_CurrentOfExpr x = true -> writes Solid Bnd [] (deparseCurrentOfExpr x) End [].
Proof. unfold ok_CurrentOfExpr, deparseCurrentOfExpr. intros H. writes_tac. Qed.

#[export] Hint Resolve deparseAConst_writes deparseParamRef_writes deparse_precision_writes
  deparseSQLValueFunction_writes deparseLockingClause_writes deparseCurrentOfExpr_writes : writes.

(** * What the deparser writes: expressions and type names

    One lemma per production of [DeparseExpr.v], under the induction hypothesis
    [printable] for the nodes below. *)

(** What is to be shown of every node: a well-shaped tree is written, from a
    token boundary to the end of a token, with every bracket closed. *)
Definition printable (n : Node) : Prop :=
  forall e, wf e n = true -> writes Solid Bnd [] (deparse e n) End [].

Abbreviation below := (her printable).

Lemma her_expr n :
  below n -> ok_expr wf n = true -> writes Solid Bnd [] (deparseExpr_ deparse n) End [].
Proof. intros H%her_here. apply H. Qed.

Lemma her_select n :
  below n -> ok_select wf n = true -> writes Solid Bnd [] (deparseSelectStmt_ deparse n) End [].
Proof. intros H%her_here. apply H. Qed.

Lemma deparseExprList_writes l :
  list_all Node below l -> forallb (ok_expr wf) l = true ->
  writes Weak Bnd [] (deparseExprList deparse l) End [].
Proof.
  intros Hl Hok. apply W_list0; [|text_tac]. eapply Forall_tree; [done..|]. apply her_expr.
Qed.

Lemma deparseExprList_writes1 l :
  list_all Node below l -> forallb (ok_expr wf) l = true -> nonempty l = true ->
  writes Solid Bnd [] (deparseExprList deparse l) End [].
Proof.
  intros Hl Hok. apply W_list; [|text_tac]. eapply Forall_tree; [done..|]. apply her_expr.
Qed.
#[export] Hint Resolve her_expr her_select deparseExprList_writes deparseExprList_writes1 : writes.

(** ** Indirection *)

Lemma deparseAIndices_writes x pre :
  A_Indices.t_all Node below x -> ok_A_Indices wf x = true ->
  writes Any End pre (deparseAIndices deparse x) End pre.
Proof.
  intros Hx Hok. unfold ok_A_Indices, deparseAIndices in *. open_struct Hx.
  case_on lidx; [|case_on is_slice]; writes_tac.
Qed.

Lemma indirection_el_writes n pre :
  below n -> ok_indirection_el wf n = true ->
  writes Any End pre (indirection_el deparse n) End pre.
Proof.
  intros Hn Hok. unfold ok_indirection_el, indirection_el in *.
  open_node n Hn Hok.
  - destruct v; try discriminate Hok. unfold deparseColLabel. writes_tac.
  - writes_tac.
  - by apply deparseAIndices_writes.
Qed.

Lemma deparseOptIndirection_writes l pre :
  list_all Node below l -> ok_indirection wf l = true ->
  writes Any End pre (deparseOptIndirection deparse l 0) End pre.
Proof.
  intros Hl. unfold ok_indirection. induction Hl as [|n Hn l Hl IH]; cbn [forallb]; intros Hok.
  - cbn. writes_tac.
  - simp_hyps. cbn [deparseOptIndirection]. eapply W_seq_any; [by apply indirection_el_writes|auto].
Qed.

Lemma deparseOptIndirection_from l : forall n,
  deparseOptIndirection deparse l n = deparseOptIndirection deparse (drop n l) 0.
Proof. induction l as [|x l IH]; intros [|n]; cbn; auto. Qed.

Lemma deparseColumnRef_writes x :
  ColumnRef.t_all Node below x -> ok_ColumnRef wf x = true ->
  writes Solid Bnd [] (deparseColumnRef deparse x) End [].
Proof.
  intros Hx Hok. unfold ok_ColumnRef, deparseColumnRef in *. open_struct Hx.
  destruct fields as [|n fs]; [done|]. rewrite deparseOptIndirection_from.
  cbn [nonempty linitial drop assert_]. simp_hyps.
  destruct n; try discriminate Hok; [destruct v; try discriminate Hok|].
  all: apply (W_seq_weak Solid _ _ _ Bnd []); [by apply W_skip|].
  all: eapply (W_seq_solid Solid _ _ _ End []); [|by apply deparseOptIndirection_writes].
  - apply W_ident.
  - unfold deparseAStar. writes_tac.
Qed.
#[export] Hint Resolve deparseAIndices_writes deparseOptIndirection_writes
  deparseColumnRef_writes : writes.

(** ** Type names *)

Lemma const_integer_inv n :
  const_integer n = true -> exists z, n = N_A_Const (A_Const.mk (Integer z) (A_Const.location
    (match n with N_A_Const c => c | _ => A_Const.mk Null 0%Z end))).
Proof.
  unfold const_integer. destruct n; try done. destruct x as [v loc]. destruct v; try done. eauto.
Qed.

Lemma deparse_interval_writes l :
  ok_interval l = true -> writes Solid Bnd [] (deparse_interval l) End [].
Proof.
  unfold ok_interval, deparse_interval. destruct l as [|t1 rest]; intros H; [writes_tac|].
  destruct t1; try discriminate H. destruct x as [v loc]. destruct v; try discriminate H.
  simp_hyps. cbn [const_int castNode_A_Const A_Const.val value_int].
  apply (W_seq_solid Solid _ _ _ End []).
  - apply (W_seq_solid Solid _ _ _ End []); [text_tac|].
    destruct (interval_fields ival) as [s|] eqn:E; [|done].
    unfold interval_fields in E. repeat case_match; simplify_eq; writes_tac.
  - destruct rest as [|t2 [|]]; [writes_tac| |writes_tac].
    apply const_integer_inv in H0 as [z ->]. cbn [const_int castNode_A_Const A_Const.val value_int].
    destruct (negb _); cbn [when]; [apply deparse_precision_writes|writes_tac].
Qed.

Lemma deparse_tz_writes name l :
  (name = "time " \/ name = "timestamp ") -> forallb const_integer l = true ->
  writes Solid Bnd [] (deparse_tz name l) End [].
Proof.
  intros Hn Hl. unfold deparse_tz.
  assert (Hlist : writes Weak Bnd [] (foreach_sep
    (fun n => castNode_A_Const n (fun c => deparseSignedIconst c.(A_Const.val))) (str ", ") l) End []).
  { apply W_list0; [|text_tac]. eapply Forall_plain; [done|].
    intros n [z ->]%const_integer_inv. cbn [castNode_A_Const A_Const.val deparseSignedIconst value_int].
    writes_tac. }
  destruct Hn as [-> | ->]; writes_tac.
Qed.

Lemma ok_typmod_writes n :
  below n -> ok_typmod wf n = true ->
  writes Solid Bnd [] (match n with
       | N_A_Const c => deparseAConst c
       | N_ParamRef p => deparseParamRef p
       | N_ColumnRef c => deparseColumnRef deparse c
       | _ => assert_ false
       end) End [].
Proof. intros Hn Hok. unfold ok_typmod in Hok. open_node n Hn Hok; eauto with writes nocore. Qed.

Lemma deparse_typmods_writes l pre :
  list_all Node below l -> forallb (ok_typmod wf) l = true ->
  writes Any End pre (deparse_typmods deparse l) End pre.
Proof.
  intros Hl Hok. unfold deparse_typmods.
  assert (Hlist : writes Weak Bnd [] (foreach_sep (fun n =>
       match n with
       | N_A_Const c => deparseAConst c
       | N_ParamRef p => deparseParamRef p
       | N_ColumnRef c => deparseColumnRef deparse c
       | _ => assert_ false
       end) (str ", ") l) End []).
  { apply W_list0; [|text_tac]. eapply Forall_tree; [done..|]. apply ok_typmod_writes. }
  writes_tac.
Qed.
#[export] Hint Resolve deparse_typmods_writes : writes.

Lemma deparse_array_bound_writes n pre :
  writes Solid End pre (deparse_array_bound n) End pre.
Proof.
  unfold deparse_array_bound.
  assert (H : writes Weak Bnd [] (match n with
    | N_Value (Integer z) => when (negb (z =? -1)%Z) (deparseSignedIconst (Integer z))
    | _ => skip
    end) End []).
  { destruct n; try writes_tac. destruct v; try writes_tac.
    unfold deparseSignedIconst. cbn [value_int]. writes_tac. }
  writes_tac.
Qed.

Lemma deparse_pg_catalog_type_writes name l :
  list_all Node below l -> ok_pg_catalog_type wf name l = true ->
  writes Solid Bnd [] (deparse_pg_catalog_type name l ;;;
    when (negb (pg_catalog_skips_typmods name)) (deparse_typmods deparse l)) End [].
Proof.
  intros Hl Hok. unfold ok_pg_catalog_type, pg_catalog_skips_typmods in *.
  destruct (String.eqb_spec name "timetz") as [->|H1].
  { apply (W_seq_solid Solid _ _ _ End []); [|writes_tac]. apply deparse_tz_writes; auto. }
  destruct (String.eqb_spec name "timestamptz") as [->|H2].
  { apply (W_seq_solid Solid _ _ _ End []); [|writes_tac]. apply deparse_tz_writes; auto. }
  destruct (String.eqb_spec name "interval") as [->|H3].
  { apply (W_seq_solid Solid _ _ _ End []); [|writes_tac]. by apply deparse_interval_writes. }
  cbn [orb negb when] in *. simp_hyps.
  apply (W_seq_solid Solid _ _ _ End []); [|writes_tac]. unfold deparse_pg_catalog_type.
  apply String.eqb_neq in H1, H2, H3. rewrite H1, H2, H3. writes_tac.
Qed.

Lemma deparseTypeName_writes x :
  TypeName.t_all Node below x -> ok_TypeName wf x = true ->
  writes Solid Bnd [] (deparseTypeName deparse x) End [].
Proof.
  intros Hx Hok. unfold ok_TypeName, deparseTypeName in *. open_struct Hx.
  assert (Hb : forall pre, writes Weak End pre (foreach deparse_array_bound arrayBounds) End pre).
  { intros pre. apply (W_use Weak End _ End); [|done..]. apply W_each, Forall_forall. intros.
    apply deparse_array_bound_writes. }
  set (d := match names with [] => _ | _ => _ end).
  assert (Hd : writes Solid Bnd [] d End []).
  { subst d. clear Hb. pose proof H as Hnames. unfold some_names in H. simp_hyps.
    assert (Hnamed : forallb (ok_typmod wf) typmods = true ->
      writes Solid Bnd [] (deparseAnyName names ;;; deparse_typmods deparse typmods) End [])
      by (intros ?; writes_tac).
    destruct names as [|n1 [|n2 [|]]]; unfold names_ok in *; cbn [forallb] in *; simp_hyps;
      cbn [strVal value_str pg_catalog_name] in *; try by apply Hnamed.
    destruct (String.eqb _ "pg_catalog").
    - by apply deparse_pg_catalog_type_writes.
    - by apply Hnamed. }
  clearbody d. writes_tac.
Qed.
#[export] Hint Resolve deparseTypeName_writes : writes.

(** ** Sorting and windows *)

Lemma sort_by_el n :
  below n -> ok_SortBy wf n = true ->
  writes Solid Bnd [] (castNode_SortBy n (deparseSortBy deparse)) End [].
Proof.
  intros Hn Hok. open_node n Hn Hok. cbn [castNode_SortBy].
  unfold ok_SortBy, deparseSortBy in *. open_struct Hn. case_on sortby_dir; writes_tac.
Qed.

Lemma deparseOptSortClause_writes l :
  list_all Node below l -> ok_sort wf l = true ->
  writes Weak Bnd [] (deparseOptSortClause deparse l) Bnd [].
Proof.
  intros Hl Hok. unfold deparseOptSortClause, ok_sort in *.
  assert (writes Weak Bnd [] (foreach_sep (fun n => castNode_SortBy n (deparseSortBy deparse))
    (str ", ") l) End []).
  { apply W_list0; [|text_tac]. eapply Forall_tree; [done..|]. apply sort_by_el. }
  writes_tac.
Qed.
#[export] Hint Resolve deparseOptSortClause_writes : writes.

(** An offset and the keyword after it. *)
Lemma frame_offset_writes o s :
  option_all Node below o -> some_ok (ok_expr wf) o = true ->
  (s = " PRECEDING " \/ s = " FOLLOWING ") ->
  writes Any Bnd [Paren] (frame_offset deparse o ;;; str s) Bnd [Paren].
Proof.
  intros Ho Hok Hs. unfold frame_offset. destruct o as [n|]; [|done]. simp_hyps.
  cbn [notnull assert_ deref]. destruct Hs as [-> | ->]; writes_tac.
Qed.

Lemma frame_start_writes x :
  WindowDef.t_all Node below x -> ok_frame_start wf x = true ->
  writes Any Bnd [Paren] (frame_start deparse x) Bnd [Paren].
Proof.
  intros Hx Hok. unfold ok_frame_start, frame_start in *. open_struct Hx.
  repeat match goal with
  | |- context [if ?b then _ else _] => destruct b eqn:?; try discriminate; try (by writes_tac)
  end; cbn [orb if_ok] in Hok; try (apply frame_offset_writes; auto; done).
  match goal with |- context [when ?b _] => case_on b; cbn [when] end; [|writes_tac].
  apply frame_offset_writes; auto.
Qed.

Lemma frame_end_writes x :
  WindowDef.t_all Node below x -> ok_frame_end wf x = true ->
  writes Any Bnd [Paren] (frame_end deparse x) Bnd [Paren].
Proof.
  intros Hx Hok. unfold ok_frame_end, frame_end in *. open_struct Hx.
  repeat match goal with
  | |- context [if ?b then _ else _] => destruct b eqn:?; try discriminate; try (by writes_tac)
  end; cbn [orb if_ok] in Hok; try (apply frame_offset_writes; auto; done).
  match goal with |- context [when ?b _] => case_on b; cbn [when] end; [|writes_tac].
  apply frame_offset_writes; auto.
Qed.

Lemma deparse_frame_writes x :
  WindowDef.t_all Node below x ->
  if_ok (flag x.(WindowDef.frameOptions) FRAMEOPTION_NONDEFAULT)
    (ok_frame_start wf x &&
     if_ok (flag x.(WindowDef.frameOptions) FRAMEOPTION_BETWEEN) (ok_frame_end wf x)) = true ->
  writes Any Bnd [Paren] (deparse_frame deparse x) Bnd [Paren].
Proof.
  intros Hx Hok. unfold deparse_frame.
  destruct (flag _ FRAMEOPTION_NONDEFAULT) eqn:E1; cbn [when if_ok] in *; [|writes_tac].
  simp_hyps. eapply (W_seq_any _ _ _ Bnd [Paren]); [writes_tac|].
  eapply (W_seq_any _ _ _ Bnd [Paren]); [writes_tac|].
  eapply (W_seq_any _ _ _ Bnd [Paren]); [by apply frame_start_writes|].
  eapply (W_seq_any _ _ _ Bnd [Paren]); [|writes_tac].
  destruct (flag _ FRAMEOPTION_BETWEEN) eqn:E2; cbn [when if_ok] in *; [|writes_tac].
  eapply (W_seq_any _ _ _ Bnd [Paren]); [text_tac|]. by apply frame_end_writes.
Qed.

Lemma deparseWindowDef_writes x :
  WindowDef.t_all Node below x -> ok_WindowDef wf x = true ->
  writes Solid Bnd [] (deparseWindowDef deparse x) End [].
Proof.
  intros Hx Hok. unfold ok_WindowDef in Hok. simp_hyps.
  pose proof (deparse_frame_writes x Hx) as Hf. unfold deparseWindowDef.
  generalize dependent (deparse_frame deparse x). intros frame Hf. open_struct Hx.
  specialize (Hf ltac:(done)).
  eapply (W_seq_solid Solid _ _ _ End [Paren]); [|writes_tac].
  repeat apply W_seq_assoc. apply (W_rts _ _ _ Bnd); [|done].
  eapply (W_seq_solid Solid _ _ _ Bnd [Paren]); [|exact Hf]. writes_tac.
Qed.
#[export] Hint Resolve deparseWindowDef_writes : writes.

(** ** Function calls *)

Lemma deparseFuncArgExpr_writes n :
  below n -> ok_func_arg wf n = true ->
  writes Solid Bnd [] (deparseFuncArgExpr deparse n) End [].
Proof.
  intros Hn Hok. unfold deparseFuncArgExpr, ok_func_arg in *.
  destruct n; try (by apply her_expr).
  apply her_children in Hn; cbn [children] in Hn. open_struct Hn. writes_tac.
Qed.

Lemma deparse_args_writes v l :
  list_all Node below l -> forallb (ok_func_arg wf) l = true ->
  writes Weak Bnd [] (deparse_args deparse v l) End [].
Proof.
  intros Hl. induction Hl as [|n Hn l Hl IH]; cbn [forallb]; intros Hok.
  { apply W_skip; done. }
  simp_hyps. pose proof (deparseFuncArgExpr_writes n Hn ltac:(done)) as Hd.
  destruct l as [|n' l']; [cbn [deparse_args]; writes_tac|].
  change (deparse_args deparse v (n :: n' :: l')) with
    (deparseFuncArgExpr deparse n ;;; str ", " ;;; deparse_args deparse v (n' :: l')).
  specialize (IH ltac:(done)).
  eapply W_seq_solid; [exact Hd|]. eapply W_seq_any; [text_tac|].
  eapply (W_weaken Weak Bnd); [exact IH|done..].
Qed.
#[export] Hint Resolve deparse_args_writes : writes.

Lemma deparse_overlay_writes l :
  list_all Node below l -> forallb (ok_expr wf) l = true -> List.length l = 4%nat ->
  writes Solid Bnd [] (deparse_overlay deparse l) End [].
Proof.
  intros Hl Hok Hlen. destruct l as [|a [|b [|c [|d [|]]]]]; try done.
  unfold deparse_overlay. cbn [linitial lsecond lthird lfourth]. simp_hyps. writes_tac.
Qed.

Lemma is_overlay_args x : is_overlay x = true -> List.length x.(FuncCall.args) = 4%nat.
Proof.
  unfold is_overlay. destruct x as [? args]. cbn [FuncCall.args FuncCall.funcname].
  destruct args as [|a [|b [|c [|d [|]]]]]; try done; by repeat case_match.
Qed.

Lemma some_names_nonempty l : some_names l = true -> nonempty l = true.
Proof. by intros [? _]%andb_true_iff. Qed.

Lemma is_overlay_name x : is_overlay x = true -> nonempty x.(FuncCall.funcname) = true.
Proof. unfold is_overlay. by destruct (FuncCall.funcname x). Qed.

Lemma deparseFuncCall_writes x :
  FuncCall.t_all Node below x -> ok_FuncCall wf x = true ->
  writes Solid Bnd [] (deparseFuncCall deparse x) End [].
Proof.
  intros Hx Hok. unfold deparseFuncCall, ok_FuncCall in *.
  destruct (is_overlay x) eqn:Ho.
  - rewrite (is_overlay_name x Ho). apply is_overlay_args in Ho.
    open_struct Hx. eapply (W_seq_weak Solid _ _ _ Bnd []); [writes_tac|].
    by apply deparse_overlay_writes.
  - clear Ho. open_struct Hx. pose proof (some_names_nonempty _ H) as ->.
    case_on agg_star; case_on agg_within_group; case_on over; unfold ok_over in *;
      try case_on (WindowDef.name x); writes_tac.
Qed.
#[export] Hint Resolve deparseFuncCall_writes : writes.

(** ** Operators and conditions *)

Lemma deparseSubLink_writes x :
  SubLink.t_all Node below x -> ok_SubLink wf x = true ->
  writes Solid Bnd [] (deparseSubLink deparse x) End [].
Proof.
  intros Hx Hok. unfold deparseSubLink, ok_SubLink in *. open_struct Hx.
  case_on subLinkType; writes_tac.
Qed.

Lemma W_operand n b :
  option_all Node below n -> some_ok (ok_expr wf) n = true ->
  writes Solid Bnd [] (operand deparse b n) End [].
Proof. intros Hn Hok. unfold operand. writes_tac. Qed.

Lemma name_is_inv s1 s2 l :
  name_is s1 s2 l = true -> exists s, l = [N_Value (String_ s)] /\ (s = s1 \/ s = s2).
Proof.
  unfold name_is. destruct l as [|n [|]]; try done; destruct n; try done; destruct v; try done.
  intros [->%String.eqb_eq| ->%String.eqb_eq]%orb_true_iff; eauto.
Qed.

(** The name of the operator and the words it is printed with. *)
Lemma the_name_writes name s1 s2 t1 t2 :
  name_is s1 s2 name = true ->
  (forall t, t = t1 \/ t = t2 -> writes Any Bnd [] (str t) Bnd []) ->
  writes Any Bnd [] (the_name name (fun s => pos_neg s s1 s2 t1 t2)) Bnd [].
Proof.
  intros (s & -> & Hs)%name_is_inv Ht. unfold the_name, pos_neg.
  cbn [List.length Nat.eqb assert_ linitial IsA_String strVal value_str].
  apply (W_seq_any _ _ _ Bnd []); [writes_tac|]. apply (W_seq_any _ _ _ Bnd []); [writes_tac|].
  destruct (String.eqb_spec s s1) as [->|]; [auto|].
  destruct (String.eqb_spec s s2) as [->|]; [auto|]. naive_solver.
Qed.

Lemma the_name_assert_writes name s0 :
  name_is s0 s0 name = true ->
  writes Weak Bnd [] (the_name name (fun s => assert_ (String.eqb s s0))) Bnd [].
Proof.
  intros (s & -> & Hs)%name_is_inv. assert (s = s0) as -> by naive_solver. unfold the_name.
  cbn [List.length Nat.eqb assert_ linitial IsA_String strVal value_str].
  rewrite String.eqb_refl. writes_tac.
Qed.

Lemma some_list_inv p n :
  some_list p n = true -> exists l, n = N_List l /\ nonempty l = true /\ forallb p l = true.
Proof. unfold some_list. destruct n; try done. intros [??]%andb_true_iff. eauto. Qed.

Lemma deparseTypeList_writes l :
  list_all Node below l -> forallb (ok_TypeName_node wf) l = true -> nonempty l = true ->
  writes Solid Bnd [] (deparseTypeList deparse l) End [].
Proof.
  intros Hl Hok. apply W_list; [|text_tac]. eapply Forall_tree; [done..|]. cbn beta.
  intros n Hn H. open_node n Hn H. by apply deparseTypeName_writes.
Qed.

(** A list operand: its elements are nodes below. *)
Lemma the_list_writes o p d :
  option_all Node below o -> some_ok (some_list p) o = true ->
  (forall l, list_all Node below l -> forallb p l = true -> nonempty l = true ->
     writes Solid Bnd [] (d l) End []) ->
  writes Solid Bnd [] (the_list o d) End [].
Proof.
  intros Ho Hok Hd. unfold the_list. destruct o as [n|]; [|done]. simp_hyps.
  match goal with H : some_list _ _ = true |- _ => apply some_list_inv in H as (l & -> & Hne & Hp) end.
  match goal with H : below _ |- _ => apply her_children in H; cbn [children] in H end.
  cbn [deref castNode_List]. destruct l as [|x l]; [done|]. cbn [IsA_List assert_].
  apply (W_seq_weak Solid _ _ _ Bnd []); [writes_tac|]. by apply Hd.
Qed.

Lemma in_operand_writes o :
  option_all Node below o -> some_ok (some_list (ok_expr wf)) o = true ->
  writes Solid Bnd [] (deref o (fun n =>
        assert_ (IsA_List n) ;;;
        match n with
        | N_SubLink sub_link => deparseSubLink deparse sub_link
        | _ => castNode_List n (deparseExprList deparse)
        end)) End [].
Proof.
  intros Ho Hok. destruct o as [n|]; [|done]. simp_hyps.
  match goal with H : some_list _ _ = true |- _ => apply some_list_inv in H as (l & -> & Hne & Hp) end.
  match goal with H : below _ |- _ => apply her_children in H; cbn [children] in H end.
  cbn [deref castNode_List]. destruct l as [|x l]; [done|]. cbn [IsA_List assert_].
  apply (W_seq_weak Solid _ _ _ Bnd []); [writes_tac|]. by apply deparseExprList_writes1.
Qed.

Lemma similar_writes o :
  option_all Node below o -> some_ok (ok_similar wf) o = true ->
  writes Solid Bnd [] (deref o (fun n => castNode_FuncCall n (similar_pattern deparse))) End [].
Proof.
  intros Ho Hok. destruct o as [n|]; [|done]. simp_hyps.
  match goal with H : below n |- _ => rename H into Hn end.
  cbn [deref]. open_node n Hn Hok. cbn [castNode_FuncCall]. unfold ok_similar, similar_pattern in *.
  open_struct Hn. destruct funcname as [|f1 [|f2 [|]]]; try done;
    destruct f1; try done; destruct v; try done; destruct f2; try done; destruct v; try done.
  destruct args as [|a [|b [|]]]; try done; simp_hyps;
    repeat match goal with H : _ = true |- context [assert_ _] => rewrite H end;
    cbn [andb assert_]; writes_tac.
Qed.

Lemma between_list_writes l :
  list_all Node below l -> forallb (ok_expr wf) l = true -> nonempty l = true ->
  writes Solid Bnd [] (foreach_sep (deparseExpr_ deparse) (str " AND ") l) End [].
Proof.
  intros Hl Hok. apply W_list; [|text_tac]. eapply Forall_tree; [done..|]. apply her_expr.
Qed.

Lemma the_name_raw_writes name :
  match name with [n] => str_ok raw_text n | _ => false end = true ->
  writes Solid Bnd [] (the_name name str) End [].
Proof.
  intros H. destruct name as [|n [|]]; try done. simp_hyps. unfold the_name.
  cbn [List.length Nat.eqb assert_ linitial IsA_String strVal value_str]. writes_tac.
Qed.

Lemma deparseAExpr_writes x ctx :
  A_Expr.t_all Node below x -> ok_A_Expr wf x = true ->
  writes Solid Bnd [] (deparseAExpr deparse x ctx) End [].
Proof.
  intros Hx Hok. unfold deparseAExpr, ok_A_Expr in *. open_struct Hx.
  assert (Hl : some_ok (ok_expr wf) lexpr = true -> forall b,
    writes Solid Bnd [] (operand deparse b lexpr) End []) by (intros; by apply W_operand).
  assert (Hr : some_ok (ok_expr wf) rexpr = true -> forall b,
    writes Solid Bnd [] (operand deparse b rexpr) End []) by (intros; by apply W_operand).
  destruct kind; simp_hyps; try discriminate Hok.
  - case_on lexpr; case_on rexpr; writes_tac.
  - writes_tac.
  - writes_tac.
  - pose proof (the_name_assert_writes name _ H). specialize (Hl H1). specialize (Hr H0). writes_tac.
  - pose proof (the_name_assert_writes name _ H). writes_tac.
  - pose proof (the_name_assert_writes name _ H). writes_tac.
  - pose proof (the_name_writes name "=" "<>" "IS OF " "IS NOT OF " H ltac:(intros ? [->| ->]; text_tac)).
    pose proof (the_list_writes rexpr _ _ o0 H0 deparseTypeList_writes). writes_tac.
  - pose proof (the_name_writes name "=" "<>" "IN " "NOT IN " H ltac:(intros ? [->| ->]; text_tac)).
    pose proof (in_operand_writes rexpr o0 H0) as Hin.
    generalize dependent (deref rexpr (fun n => assert_ (IsA_List n) ;;; match n with
        | N_SubLink sub_link => deparseSubLink deparse sub_link
        | _ => castNode_List n (deparseExprList deparse) end)). intros d Hin. writes_tac.
  - pose proof (the_name_writes name "~~" "!~~" "LIKE " "NOT LIKE " H ltac:(intros ? [->| ->]; text_tac)).
    writes_tac.
  - pose proof (the_name_writes name "~~*" "!~~*" "ILIKE " "NOT ILIKE " H ltac:(intros ? [->| ->]; text_tac)).
    writes_tac.
  - pose proof (the_name_writes name "~" "!~" "SIMILAR TO " "NOT SIMILAR TO " H ltac:(intros ? [->| ->]; text_tac)).
    pose proof (similar_writes rexpr o0 H0) as Hs.
    generalize dependent (deref rexpr (fun n => castNode_FuncCall n (similar_pattern deparse))).
    intros d Hs. writes_tac.
  - pose proof (the_name_raw_writes name H). pose proof (the_list_writes rexpr _ _ o0 H0 between_list_writes).
    writes_tac.
  - pose proof (the_name_raw_writes name H). pose proof (the_list_writes rexpr _ _ o0 H0 between_list_writes).
    writes_tac.
  - pose proof (the_name_raw_writes name H). pose proof (the_list_writes rexpr _ _ o0 H0 between_list_writes).
    writes_tac.
  - pose proof (the_name_raw_writes name H). pose proof (the_list_writes rexpr _ _ o0 H0 between_list_writes).
    writes_tac.
Qed.

Lemma bool_arg_writes n :
  below n -> ok_expr wf n = true -> writes Solid Bnd [] (bool_arg deparse n) End [].
Proof. intros Hn Hok. unfold bool_arg. writes_tac. Qed.
#[export] Hint Resolve deparseSubLink_writes deparseAExpr_writes bool_arg_writes : writes.

Lemma bool_list_writes l s :
  list_all Node below l -> forallb (ok_expr wf) l = true -> nonempty l = true ->
  s = " AND " \/ s = " OR " ->
  writes Solid Bnd [] (foreach_sep (bool_arg deparse) (str s) l) End [].
Proof.
  intros Hl Hok Hne Hs. apply W_list; [|by destruct Hs as [-> | ->]; text_tac|done].
  eapply Forall_tree; [done..|]. apply bool_arg_writes.
Qed.

Lemma deparseBoolExpr_writes x :
  BoolExpr.t_all Node below x -> ok_BoolExpr wf x = true ->
  writes Solid Bnd [] (deparseBoolExpr deparse x) End [].
Proof.
  intros Hx Hok. unfold deparseBoolExpr, ok_BoolExpr in *. open_struct Hx.
  destruct boolop; try (by apply bool_list_writes; auto).
  rewrite H. destruct args as [|n [|]]; try done. cbn [assert_ linitial]. simp_hyps. writes_tac.
Qed.

Lemma deparseCollateClause_writes x :
  CollateClause.t_all Node below x -> ok_CollateClause wf x = true ->
  writes Solid Bnd [] (deparseCollateClause deparse x) End [].
Proof. intros Hx Hok. unfold deparseCollateClause, ok_CollateClause in *. open_struct Hx. writes_tac. Qed.

Lemma deparseNullTest_writes x :
  NullTest.t_all Node below x -> ok_NullTest wf x = true ->
  writes Solid Bnd [] (deparseNullTest deparse x) End [].
Proof.
  intros Hx Hok. unfold deparseNullTest, ok_NullTest in *. open_struct Hx.
  cbn [negb assert_]. case_on nulltesttype; writes_tac.
Qed.

Lemma deparseBooleanTest_writes x :
  BooleanTest.t_all Node below x -> ok_BooleanTest wf x = true ->
  writes Solid Bnd [] (deparseBooleanTest deparse x) End [].
Proof.
  intros Hx Hok. unfold deparseBooleanTest, ok_BooleanTest in *. open_struct Hx.
  case_on booltesttype; writes_tac.
Qed.

(** ** Constructors and conditional expressions *)

Lemma case_when_el n :
  below n -> ok_CaseWhen wf n = true ->
  writes Solid Bnd [] (castNode_CaseWhen n (deparseCaseWhen deparse) ;;; chr " ") Bnd [].
Proof.
  intros Hn Hok. open_node n Hn Hok. cbn [castNode_CaseWhen].
  unfold deparseCaseWhen, ok_CaseWhen in *. open_struct Hn. writes_tac.
Qed.

Lemma deparseCaseExpr_writes x :
  CaseExpr.t_all Node below x -> ok_CaseExpr wf x = true ->
  writes Solid Bnd [] (deparseCaseExpr deparse x) End [].
Proof.
  intros Hx Hok. unfold deparseCaseExpr, ok_CaseExpr in *. open_struct Hx.
  assert (writes Weak Bnd [] (foreach (fun n => castNode_CaseWhen n (deparseCaseWhen deparse) ;;;
    chr " ") args) Bnd []).
  { apply W_each. eapply Forall_tree; [done..|]. apply case_when_el. }
  writes_tac.
Qed.

Lemma deparseCoalesceExpr_writes x :
  CoalesceExpr.t_all Node below x -> ok_CoalesceExpr wf x = true ->
  writes Solid Bnd [] (deparseCoalesceExpr deparse x) End [].
Proof. intros Hx Hok. unfold deparseCoalesceExpr, ok_CoalesceExpr in *. open_struct Hx. writes_tac. Qed.

Lemma deparseMinMaxExpr_writes x :
  MinMaxExpr.t_all Node below x -> ok_MinMaxExpr wf x = true ->
  writes Solid Bnd [] (deparseMinMaxExpr deparse x) End [].
Proof.
  intros Hx Hok. unfold deparseMinMaxExpr, ok_MinMaxExpr in *. open_struct Hx. case_on op; writes_tac.
Qed.

Lemma deparseGroupingFunc_writes x :
  GroupingFunc.t_all Node below x -> ok_GroupingFunc wf x = true ->
  writes Solid Bnd [] (deparseGroupingFunc deparse x) End [].
Proof. intros Hx Hok. unfold deparseGroupingFunc, ok_GroupingFunc in *. open_struct Hx. writes_tac. Qed.

Lemma deparseAArrayExpr_writes x :
  A_ArrayExpr.t_all Node below x -> ok_A_ArrayExpr wf x = true ->
  writes Solid Bnd [] (deparseAArrayExpr deparse x) End [].
Proof. intros Hx Hok. unfold deparseAArrayExpr, ok_A_ArrayExpr in *. open_struct Hx. writes_tac. Qed.

Lemma deparseRowExpr_writes x :
  RowExpr.t_all Node below x -> ok_RowExpr wf x = true ->
  writes Solid Bnd [] (deparseRowExpr deparse x) End [].
Proof.
  intros Hx Hok. unfold deparseRowExpr, ok_RowExpr in *. open_struct Hx.
  case_on row_format; writes_tac.
Qed.

Lemma deparseAIndirection_writes x :
  A_Indirection.t_all Node below x -> ok_A_Indirection wf x = true ->
  writes Solid Bnd [] (deparseAIndirection deparse x) End [].
Proof.
  intros Hx Hok. unfold deparseAIndirection, ok_A_Indirection in *. open_struct Hx.
  destruct arg as [n|]; [|done]. simp_hyps. cbn [deref].
  destruct indirection as [|i l']; [done|]. cbn [linitial].
  apply (W_seq_solid Solid _ _ _ End []); [|by apply deparseOptIndirection_writes].
  assert (forall b, writes Solid Bnd [] (parens_if b (deparseExpr_ deparse n)) End [])
    by (intros; writes_tac).
  destruct n; auto.
Qed.

(** ** Casts *)

Lemma const_cast_writes name l c d :
  ok_A_Const c = true -> const_cast name l c = Some d -> writes Solid Bnd [] d End [].
Proof.
  unfold const_cast. intros Hok H. repeat case_match; simplify_eq; writes_tac.
Qed.

Lemma deparseTypeCast_writes x :
  TypeCast.t_all Node below x -> ok_TypeCast wf x = true ->
  writes Solid Bnd [] (deparseTypeCast deparse x) End [].
Proof.
  intros Hx Hok. unfold deparseTypeCast, ok_TypeCast in *. open_struct Hx.
  destruct typeName as [t|]; [|done]. destruct arg as [n|]; [|done]. simp_hyps. cbn [deref].
  assert (Hcast : forall b, writes Solid Bnd []
    (parens_if b (deparseExpr_ deparse n) ;;; str "::" ;;; deparseTypeName deparse t) End [])
    by (intros; writes_tac).
  destruct n; try exact (Hcast false); [writes_tac|].
  pose proof (Hcast (const_needs_parens (A_Const.val x))) as Hplain.
  assert (Hc : ok_A_Const x = true) by done.
  match goal with H : ok_TypeName _ _ = true |- _ => unfold ok_TypeName in H end. simp_hyps.
  match goal with H : some_names _ = true |- _ => unfold some_names in H end. simp_hyps.
  destruct (TypeName.names t) as [|n1 [|n2 [|]]]; try exact Hplain.
  unfold names_ok in *. cbn [forallb] in *. simp_hyps. cbn [strVal value_str].
  destruct (String.eqb _ "pg_catalog"); [|exact Hplain].
  destruct (const_cast _ _ _) as [d|] eqn:Hd; [|exact Hplain]. by eapply const_cast_writes.
Qed.
#[export] Hint Resolve deparseBoolExpr_writes deparseCollateClause_writes deparseNullTest_writes
  deparseBooleanTest_writes deparseCaseExpr_writes deparseCoalesceExpr_writes
  deparseMinMaxExpr_writes deparseGroupingFunc_writes deparseAArrayExpr_writes
  deparseRowExpr_writes deparseAIndirection_writes deparseTypeCast_writes : writes.

(** ** XML *)

Lemma xml_target_el n d :
  below n -> ok_xml_target wf n = true -> (d = skip \/ d = str "DEFAULT ") ->
  writes Solid Bnd [] (xml_target deparse d n) End [].
Proof.
  intros Hn Hok Hd. open_node n Hn Hok. unfold xml_target, ok_xml_target in *.
  cbn [castNode_ResTarget]. open_struct Hn. destruct val as [v|]; [|done]. simp_hyps.
  cbn [notnull assert_ deref]. destruct Hd as [-> | ->]; case_on name; cbn [negb]; writes_tac.
Qed.

Lemma deparseXmlAttributeList_writes l :
  list_all Node below l -> forallb (ok_xml_target wf) l = true ->
  writes Weak Bnd [] (deparseXmlAttributeList deparse l) End [].
Proof.
  intros Hl Hok. apply W_list0; [|text_tac]. eapply Forall_tree; [done..|].
  intros. apply xml_target_el; auto.
Qed.

Lemma deparseXmlNamespaceList_writes l :
  list_all Node below l -> forallb (ok_xml_target wf) l = true ->
  writes Weak Bnd [] (deparseXmlNamespaceList deparse l) End [].
Proof.
  intros Hl Hok. apply W_list0; [|text_tac]. eapply Forall_tree; [done..|].
  intros. apply xml_target_el; auto.
Qed.
#[export] Hint Resolve deparseXmlAttributeList_writes deparseXmlNamespaceList_writes : writes.

Lemma xml_option_writes o pre : writes Any Bnd pre (deparse_xmloption o) Bnd pre.
Proof. unfold deparse_xmloption. destruct o; writes_tac. Qed.

Lemma xml_standalone_writes z pre : writes Any End pre (xml_standalone z) End pre.
Proof. unfold xml_standalone. writes_tac. Qed.
#[export] Hint Resolve xml_option_writes xml_standalone_writes : writes.

Lemma deparseXmlSerialize_writes x :
  XmlSerialize.t_all Node below x -> ok_XmlSerialize wf x = true ->
  writes Solid Bnd [] (deparseXmlSerialize deparse x) End [].
Proof. intros Hx Hok. unfold deparseXmlSerialize, ok_XmlSerialize in *. open_struct Hx. writes_tac. Qed.

Lemma xml_whitespace_writes t pre :
  const_string t = true ->
  writes Any End pre (castNode_TypeCast t (fun c =>
        deref c.(TypeCast.arg) (fun a => castNode_A_Const a (fun a_const =>
          value_str a_const.(A_Const.val) (fun s =>
            when (String.eqb s "t") (str " PRESERVE WHITESPACE")))))) End pre.
Proof.
  unfold const_string. destruct t; try done. destruct x as [a ? ?]. destruct a as [a|]; try done.
  destruct a; try done. destruct x as [v ?]. destruct v; try done. intros _.
  cbn [castNode_TypeCast TypeCast.arg deref castNode_A_Const A_Const.val value_str]. writes_tac.
Qed.

Lemma xml_version_writes v :
  below v -> IsA_A_Const v = true -> ok_expr wf v = true ->
  writes Solid Bnd [] (match v with
        | N_A_Const {| A_Const.val := Null |} => str "NO VALUE"
        | N_A_Const _ => deparseExpr_ deparse v
        | _ => undef
        end) End [].
Proof.
  intros Hv Hc Hok. destruct v; try done. destruct x as [v ?]. destruct v; try by apply her_expr.
  writes_tac.
Qed.

Lemma deparseXmlExpr_writes x :
  XmlExpr.t_all Node below x -> ok_XmlExpr wf x = true ->
  writes Solid Bnd [] (deparseXmlExpr deparse x) End [].
Proof.
  intros Hx Hok. unfold deparseXmlExpr, ok_XmlExpr in *. open_struct Hx.
  destruct op; simp_hyps; try discriminate Hok; try (by writes_tac).
  - destruct args as [|a [|t [|]]]; try done. simp_hyps. cbn [List.length Nat.eqb assert_ linitial lsecond].
    eapply (W_seq_weak Solid _ _ _ Bnd []); [writes_tac|].
    eapply (W_seq_solid Solid); [text_tac|]. eapply W_seq_any; [writes_tac|].
    eapply W_seq_any; [writes_tac|]. eapply W_seq_any; [by apply xml_whitespace_writes|writes_tac].
  - destruct args as [|a args]; cbn [nonempty when linitial]; simp_hyps; writes_tac.
  - destruct args as [|a [|v [|s l']]]; try done. simp_hyps. cbn [linitial lsecond lthird].
    match goal with H : const_integer s = true |- _ => apply const_integer_inv in H as [z Hz] end.
    eapply (W_seq_solid Solid); [text_tac|]. eapply W_seq_any; [writes_tac|].
    eapply W_seq_any; [text_tac|].
    eapply W_seq_any; [by apply (W_use Solid Bnd _ End Any Bnd End); [by apply xml_version_writes|..]|].
    rewrite Hz. cbn [const_int castNode_A_Const A_Const.val value_int]. writes_tac.
  - destruct args as [|a [|]]; try done. simp_hyps. cbn [List.length Nat.eqb assert_ linitial]. writes_tac.
Qed.
#[export] Hint Resolve deparseXmlSerialize_writes deparseXmlExpr_writes : writes.

(** ** The productions *)

Lemma deparseExpr_body_writes n :
  children below n -> ok_expr_body wf n = true ->
  writes Solid Bnd [] (deparseExpr_body deparse n) End [].
Proof.
  intros Hn Hok. unfold deparseExpr_body, ok_expr_body in *.
  destruct n; try discriminate Hok; cbn [children] in Hn; try (by eauto with writes nocore).
  unfold deparseSetToDefault. writes_tac.
Qed.

Lemma deparseCExpr_body_writes n :
  children below n -> ok_c_expr_body wf n = true ->
  writes Solid Bnd [] (deparseCExpr_body deparse n) End [].
Proof.
  intros Hn [Hk Hok]%andb_true_iff. unfold deparseCExpr_body, ok_expr_body in *.
  destruct n; try discriminate Hk; cbn [children] in Hn; try (by eauto with writes nocore).
  writes_tac.
Qed.

Lemma deparseFuncExprWindowless_body_writes n :
  children below n -> ok_func_expr_body wf n = true ->
  writes Solid Bnd [] (deparseFuncExprWindowless_body deparse n) End [].
Proof.
  intros Hn [Hk Hok]%andb_true_iff. unfold deparseFuncExprWindowless_body, ok_expr_body in *.
  destruct n; try discriminate Hk; cbn [children] in Hn; by eauto with writes nocore.
Qed.
