(* ===== verification/DeparseSafeStmt.v ===== *)
(** * What the deparser writes: table references and statements

    The lemmas for the productions of [DeparseStmt.v] and the theorem for the
    whole deparser. *)
From S2P Require Import Prelude Buffer Keywords Quote Enums Nodes DeparseNames DeparseExpr.
From S2P Require Import DeparseStmt Lexical Shape Rules DeparseSafe.
Import ClosedNames.

(** ** The recursive calls *)

Lemma her_table_ref n :
  below n -> wf E_TableRef n = true -> writes Solid Bnd [] (deparseTableRef_ deparse n) End [].
Proof. intros H%her_here. apply H. Qed.

Lemma her_c_expr n :
  below n -> wf E_CExpr n = true -> writes Solid Bnd [] (deparseCExpr_ deparse n) End [].
Proof. intros H%her_here. apply H. Qed.

Lemma her_preparable n :
  below n -> wf E_PreparableStmt n = true ->
  writes Solid Bnd [] (deparsePreparableStmt_ deparse n) End [].
Proof. intros H%her_here. apply H. Qed.

Lemma her_func_expr n :
  below n -> wf E_FuncExprWindowless n = true ->
  writes Solid Bnd [] (deparseFuncExprWindowless_ deparse n) End [].
Proof. intros H%her_here. apply H. Qed.

Lemma her_index_elem n :
  below n -> wf E_IndexElem n = true -> writes Solid Bnd [] (deparseIndexElem_ deparse n) End [].
Proof. intros H%her_here. apply H. Qed.

Lemma her_column_def n :
  below n -> wf E_ColumnDef n = true -> writes Solid Bnd [] (deparseColumnDef_ deparse n) End [].
Proof. intros H%her_here. apply H. Qed.

Lemma her_group_item n :
  below n -> wf E_GroupByItem n = true -> writes Solid Bnd [] (deparse E_GroupByItem n) End [].
Proof. intros H%her_here. apply H. Qed.

Lemma her_select_wf n :
  below n -> wf E_SelectStmt n = true -> writes Solid Bnd [] (deparseSelectStmt_ deparse n) End [].
Proof. intros H%her_here. apply H. Qed.
#[export] Hint Resolve her_table_ref her_c_expr her_preparable her_func_expr her_index_elem
  her_column_def her_group_item her_select_wf : writes.

(** A list of nodes, each written by [d]. *)
Lemma tree_list (d : Node -> dep) p l s :
  list_all Node below l -> forallb p l = true ->
  (forall n, below n -> p n = true -> writes Solid Bnd [] (d n) End []) ->
  writes Any End [] s Bnd [] ->
  writes Weak Bnd [] (foreach_sep d s l) End [].
Proof. intros Hl Hok Hd Hs. apply W_list0; [|done]. by eapply Forall_tree. Qed.

(** ** Options *)

Lemma number_node_writes a :
  some_ok ok_number_node a = true ->
  writes Solid Bnd [] (deref a (fun n =>
    match n with N_Value v => deparseNumericOnly v | _ => assert_ false end)) End [].
Proof.
  intros H. destruct a as [n|]; [|done]. cbn [deref some_ok] in *.
  destruct n; try done. by apply deparseNumericOnly_writes.
Qed.

Lemma one_of_names_inv s l : one_of_names s l = true -> In s l.
Proof.
  unfold one_of_names. intros (x & Hx & ->%String.eqb_eq)%existsb_exists. done.
Qed.

Lemma some_ok_list_inv p (o : option Node) :
  some_ok (some_list p) o = true ->
  exists l, o = Some (N_List l) /\ nonempty l = true /\ forallb p l = true.
Proof. destruct o as [n|]; [|done]. intros (l & -> & ?)%some_list_inv. eauto. Qed.

Lemma seq_opt_el n :
  below n -> ok_SeqOptElem wf n = true ->
  writes Solid Bnd [] (castNode_DefElem n (deparseSeqOptElem deparse) ;;; chr " ") Bnd [].
Proof.
  intros Hn Hok. open_node n Hn Hok. cbn [castNode_DefElem].
  unfold deparseSeqOptElem, ok_SeqOptElem in *. open_struct Hn. destruct defname as [s|]; [|done].
  simp_hyps. cbn [deref]. clear H0 || idtac.
  pose proof (number_node_writes arg) as Hnum.
  generalize dependent (deref arg (fun n =>
    match n with N_Value v => deparseNumericOnly v | _ => assert_ false end)).
  intros numeric Hnum.
  destruct (String.eqb_spec s "as") as [->|]; cbn [some_ok] in Hok.
  { destruct arg as [a|]; [|done]. simp_hyps. cbn [some_ok] in *. cbn [deref].
    destruct a; try discriminate. cbn [castNode_TypeName].
    match goal with H : below _ |- _ => apply her_children in H; cbn [children] in H end. writes_tac. }
  destruct (String.eqb_spec s "cycle") as [->|].
  { destruct arg as [[]|]; try discriminate Hok. destruct v; try discriminate Hok.
    cbn [some_ok deref intVal value_int] in *. cbn [String.eqb Ascii.eqb Bool.eqb].
    destruct (ival =? 1)%Z; [writes_tac|]. destruct (ival =? 0)%Z; [writes_tac|done]. }
  destruct (one_of_names s ["cache"; "increment"; "start"]) eqn:E1.
  { specialize (Hnum Hok). apply one_of_names_inv in E1. cbn [In] in E1.
    decompose [or] E1; subst; try done; cbn [String.eqb Ascii.eqb Bool.eqb]; writes_tac. }
  destruct (one_of_names s ["maxvalue"; "minvalue"; "restart"]) eqn:E2.
  { apply one_of_names_inv in E2. cbn [In] in E2.
    destruct arg as [a|]; [specialize (Hnum Hok)|];
    decompose [or] E2; subst; try done; cbn [String.eqb Ascii.eqb Bool.eqb notnull]; writes_tac. }
  destruct (one_of_names s ["owned_by"; "sequence_name"]) eqn:E3; [|done].
  apply some_ok_list_inv in Hok as (l & -> & Hne & Hl).
  assert (some_names l = true) by (unfold some_names; by rewrite Hne).
  apply one_of_names_inv in E3. cbn [In] in E3.
  decompose [or] E3; subst; try done; cbn [String.eqb Ascii.eqb Bool.eqb castNode_List]; writes_tac.
Qed.

Lemma deparseOptParenthesizedSeqOptList_writes l :
  list_all Node below l -> forallb (ok_SeqOptElem wf) l = true ->
  writes Weak Bnd [] (deparseOptParenthesizedSeqOptList deparse l) Bnd [].
Proof.
  intros Hl Hok. unfold deparseOptParenthesizedSeqOptList, deparseSeqOptList.
  assert (writes Weak Bnd [] (foreach (fun n => castNode_DefElem n (deparseSeqOptElem deparse) ;;;
    chr " ") l) Bnd []).
  { apply W_each. eapply Forall_tree; [done..|]. apply seq_opt_el. }
  destruct (nonempty l); cbn [when assert_]; writes_tac.
Qed.
#[export] Hint Resolve deparseOptParenthesizedSeqOptList_writes : writes.

Lemma reserved_keyword_raw s : isReservedKeyword s = true -> raw_text s = true.
Proof.
  unfold isReservedKeyword. intros H. simp_hyps.
  assert (string_forall word_char s = true) as Hw
    by (eapply string_forall_impl, H; apply ident_char_word).
  destruct s as [|c s]; [done|]. unfold raw_text. apply andb_true_iff. split.
  - cbn in H |- *. by destruct (Ascii.eqb_spec c " ") as [->|].
  - unfold closed_text. destruct (lex_word P0 _ [] Hw) as (p' & -> & ?); [done|]. by apply ended_code.
Qed.

Lemma deparseDefArg_writes n b :
  below n -> ok_DefArg wf n = true -> writes Solid Bnd [] (deparseDefArg deparse n b) End [].
Proof.
  intros Hn Hok. unfold deparseDefArg, ok_DefArg in *. open_node n Hn Hok.
  - destruct l as [|o1 [|o2 [|]]]; try discriminate Hok.
    + simp_hyps. cbn [strVal value_str]. writes_tac.
    + cbn [castNode_List]. writes_tac.
  - destruct v; try discriminate Hok.
    + by apply deparseNumericOnly_writes.
    + by apply deparseNumericOnly_writes.
    + destruct (_ && _); [writes_tac|]. destruct (isReservedKeyword str) eqn:E; [|writes_tac].
      apply reserved_keyword_raw in E. writes_tac.
  - writes_tac.
Qed.
#[export] Hint Resolve deparseDefArg_writes : writes.

Lemma generic_option_list l :
  forallb ok_generic_option l = true ->
  writes Weak Bnd [] (foreach_sep (fun n => castNode_DefElem n (fun def_elem =>
       deref def_elem.(DefElem.defname) (fun s => str (quote_identifier s)) ;;;
       chr " " ;;;
       deref def_elem.(DefElem.arg) (fun a => strVal a deparseStringLiteral)))
       (str ", ") l) End [].
Proof.
  intros Hok. apply W_list0; [|text_tac]. eapply Forall_plain; [done|]. intros n Hn.
  destruct n; try discriminate Hn. cbn [castNode_DefElem]. unfold ok_generic_option in Hn.
  destruct x. simpl_fields. simp_hyps. destruct arg as [a|]; [|done]. simp_hyps.
  cbn [deref strVal value_str]. writes_tac.
Qed.

Lemma deparseCreateGenericOptions_writes l :
  forallb ok_generic_option l = true ->
  writes Weak Bnd [] (deparseCreateGenericOptions l) Bnd [].
Proof.
  intros Hok. unfold deparseCreateGenericOptions. pose proof (generic_option_list l Hok). writes_tac.
Qed.
#[export] Hint Resolve deparseCreateGenericOptions_writes : writes.

Lemma rel_option_el n :
  below n -> ok_rel_option wf n = true -> writes Solid Bnd [] (rel_option deparse n) End [].
Proof.
  intros Hn Hok. open_node n Hn Hok. unfold rel_option, ok_rel_option in *.
  cbn [castNode_DefElem]. open_struct Hn. destruct defname as [s|]; [|done].
  case_on arg; cbn [andb]; writes_tac.
Qed.

Lemma deparseRelOptions_writes l pre :
  list_all Node below l -> forallb (ok_rel_option wf) l = true ->
  writes Solid End pre (deparseRelOptions deparse l) Bnd pre.
Proof.
  intros Hl Hok. unfold deparseRelOptions.
  pose proof (tree_list _ _ _ (str ", ") Hl Hok rel_option_el ltac:(text_tac)). writes_tac.
Qed.

#[export] Hint Resolve deparseRelOptions_writes : writes.

Lemma deparseOptWith_writes l :
  list_all Node below l -> forallb (ok_rel_option wf) l = true ->
  writes Weak Bnd [] (deparseOptWith deparse l) Bnd [].
Proof. intros Hl Hok. unfold deparseOptWith. writes_tac. Qed.
#[export] Hint Resolve deparseOptWith_writes : writes.

(** ** Lists of targets *)

Lemma deparseTargetList_writes l :
  list_all Node below l -> forallb (ok_target wf) l = true ->
  writes Weak Bnd [] (deparseTargetList deparse l) End [].
Proof.
  intros Hl Hok. unfold deparseTargetList. eapply tree_list; [done..| |text_tac].
  intros n Hn H. open_node n Hn H. cbn [castNode_ResTarget]. unfold ok_target in H. open_struct Hn.
  destruct val as [v|]; [|done]. simp_hyps.
  assert (writes Solid Bnd [] (match v with N_ColumnRef c => deparseColumnRef deparse c
    | _ => deparseExpr_ deparse v end) End []) as Hv.
  { destruct v; try by apply her_expr. 
    match goal with H : below _ |- _ => pose proof (her_children _ _ H) as Hc; cbn [children] in Hc end.
    by apply deparseColumnRef_writes. }
  apply (W_seq_solid Solid _ _ _ End []); [|writes_tac]. destruct v; exact Hv.
Qed.

Lemma set_target_el n :
  below n -> ok_set_target wf n = true ->
  writes Solid Bnd [] (castNode_ResTarget n (deparseSetTarget deparse)) End [].
Proof.
  intros Hn Hok. open_node n Hn Hok. cbn [castNode_ResTarget].
  unfold ok_set_target, deparseSetTarget, deparseColId in *. open_struct Hn.
  destruct name as [s|]; [|done]. cbn [deref].
  apply (W_seq_solid Solid _ _ _ End []); [apply W_ident|]. by apply deparseOptIndirection_writes.
Qed.

Lemma deparseInsertColumnList_writes l :
  list_all Node below l -> forallb (ok_set_target wf) l = true ->
  writes Weak Bnd [] (deparseInsertColumnList deparse l) End [].
Proof.
  intros Hl Hok. unfold deparseInsertColumnList. eapply tree_list; [done..| |text_tac].
  intros n Hn H. pose proof (set_target_el n Hn H) as Hs. by destruct n.
Qed.
#[export] Hint Resolve deparseTargetList_writes deparseInsertColumnList_writes set_target_el : writes.

Lemma multi_assign_writes l : forall nc i,
  list_all Node below l -> forallb (ok_set_target wf) l = true ->
  writes Weak Bnd [] (multi_assign_targets deparse nc i l) End [].
Proof.
  induction l as [|n l IH]; intros nc i Hl Hok; cbn [multi_assign_targets].
  { by apply W_skip. }
  simp_hyps. apply (W_seq_solid Weak _ _ _ End []); [by apply set_target_el|].
  destruct (i =? nc - 1)%Z; [by apply W_skip|].
  destruct l as [|n' l']; cbn [nonempty when].
  - cbn [multi_assign_targets]. writes_tac.
  - eapply W_seq_any; [text_tac|]. apply (W_weaken Weak Bnd _ _ End); [by apply IH|done..].
Qed.

Lemma ok_set_clause_target l :
  forallb (ok_set_clause wf) l = true -> forallb (ok_set_target wf) l = true.
Proof.
  induction l as [|n l IH]; [done|]. cbn [forallb]. intros H. simp_hyps.
  unfold ok_set_clause in H. simp_hyps. by rewrite H, IH.
Qed.

(** One item of the list, with what follows it. *)
Lemma set_item_writes n l i :
  below n -> list_all Node below l -> ok_set_clause wf n = true ->
  forallb (ok_set_target wf) (n :: l) = true ->
  (forall i' sk, (0 < i')%Z -> writes Any End [] (set_clauses deparse i' sk l) End []) -> (0 <= i)%Z ->
  writes Solid Bnd [] (castNode_ResTarget n (fun res_target =>
          deref res_target.(ResTarget.val) (fun val =>
            if IsA_MultiAssignRef val then
              castNode_MultiAssignRef val (fun r =>
                str "(" ;;;
                multi_assign_targets deparse r.(MultiAssignRef.ncolumns) i (n :: l) ;;;
                str ") = " ;;;
                deref r.(MultiAssignRef.source) (deparseExpr_ deparse) ;;;
                set_clauses deparse (i + 1) (r.(MultiAssignRef.ncolumns) - 1) l)
            else
              deparseSetTarget deparse res_target ;;;
              str " = " ;;;
              deparseExpr_ deparse val ;;;
              set_clauses deparse (i + 1) 0 l))) End [].
Proof.
  intros Hn Hl Hok Htgt Hrest Hi.
  assert (Hm : forall nc, writes Weak Bnd [] (multi_assign_targets deparse nc i (n :: l)) End []).
  { intros nc. apply multi_assign_writes; [by constructor|done]. }
  assert (Hr : forall sk, writes Any End [] (set_clauses deparse (i + 1) sk l) End [])
    by (intros sk; apply Hrest; lia).
  clear Hrest. unfold ok_set_clause in Hok. apply andb_true_iff in Hok as [Ht Hv].
  pose proof (set_target_el n Hn Ht) as Hst.
  open_node n Hn Ht. cbn [castNode_ResTarget] in *.
  generalize dependent (deparseSetTarget deparse x). intros target Hst.
  destruct Hn. cbn [ResTarget.val] in *.
  destruct val as [v|]; [|done]. cbn [deref].
  match goal with H : option_all _ _ (Some v) |- _ => inversion_clear H end.
  match goal with H : below v |- _ => rename H into Hv' end.
  assert (Hgen : ok_expr wf v = true -> writes Solid Bnd [] (target ;;; str " = " ;;;
    deparseExpr_ deparse v ;;; set_clauses deparse (i + 1) 0 l) End []).
  { intros Hv1. specialize (Hr 0%Z). generalize dependent (set_clauses deparse (i + 1) 0 l).
    intros rest Hr. writes_tac. }
  destruct v; cbn [IsA_MultiAssignRef castNode_MultiAssignRef]; try (by apply Hgen).
  apply her_children in Hv'; cbn [children] in Hv'.
  specialize (Hm (MultiAssignRef.ncolumns x)). specialize (Hr (MultiAssignRef.ncolumns x - 1)%Z).
  generalize dependent (set_clauses deparse (i + 1) (MultiAssignRef.ncolumns x - 1) l).
  intros rest Hr.
  generalize dependent (multi_assign_targets deparse (MultiAssignRef.ncolumns x) i).
  intros targets Hm. destruct Hv'. cbn [MultiAssignRef.source] in *. writes_tac.
Qed.

Lemma set_clauses_rest l : forall i sk,
  list_all Node below l -> forallb (ok_set_clause wf) l = true -> (0 < i)%Z ->
  writes Any End [] (set_clauses deparse i sk l) End [].
Proof.
  induction l as [|n l IH]; intros i sk Hl Hok Hi; cbn [set_clauses]; [by apply W_skip|].
  pose proof (ok_set_clause_target _ Hok) as Htgt. cbn [forallb] in Hok.
  apply andb_true_iff in Hok as [Hn Hok]. inversion_clear Hl.
  destruct (0 <? sk)%Z; [apply IH; [done..|lia]|].
  rewrite (proj2 (Z.eqb_neq _ _)) by lia. cbn [negb when].
  eapply W_seq_any; [text_tac|]. apply (W_weaken Solid Bnd _ _ End []); [|done..].
  apply set_item_writes; auto with lia.
Qed.

Lemma deparseSetClauseList_writes l :
  list_all Node below l -> ok_set_clauses wf l = true ->
  writes Solid Bnd [] (deparseSetClauseList deparse l) End [].
Proof.
  intros Hl [Hne Hok]%andb_true_iff. unfold deparseSetClauseList. rewrite Hne.
  destruct l as [|n l]; [done|]. cbn [nonempty assert_ set_clauses Z.ltb Z.eqb Z.compare negb when].
  pose proof (ok_set_clause_target _ Hok) as Htgt. cbn [forallb] in Hok.
  apply andb_true_iff in Hok as [Hn Hok]. inversion_clear Hl.
  apply (W_seq_weak Solid _ _ _ Bnd []); [writes_tac|].
  apply (W_seq_weak Solid _ _ _ Bnd []); [writes_tac|].
  apply set_item_writes; auto with lia. intros. by apply set_clauses_rest.
Qed.
#[export] Hint Resolve deparseSetClauseList_writes : writes.

(** ** FROM, WHERE, GROUP BY *)

Lemma deparseFromList_writes l :
  list_all Node below l -> forallb (wf E_TableRef) l = true ->
  writes Weak Bnd [] (deparseFromList deparse l) End [].
Proof. intros Hl Hok. eapply tree_list; [done..|apply her_table_ref|text_tac]. Qed.

Lemma deparseFromClause_writes l :
  list_all Node below l -> forallb (wf E_TableRef) l = true ->
  writes Weak Bnd [] (deparseFromClause deparse l) Bnd [].
Proof.
  intros Hl Hok. unfold deparseFromClause. pose proof (deparseFromList_writes l Hl Hok). writes_tac.
Qed.

Lemma deparseWhereClause_writes o :
  option_all Node below o -> opt_ok (ok_expr wf) o = true ->
  writes Weak Bnd [] (deparseWhereClause deparse o) Bnd [].
Proof. intros Ho Hok. unfold deparseWhereClause. writes_tac. Qed.

Lemma deparseGroupByList_writes l :
  list_all Node below l -> forallb (wf E_GroupByItem) l = true ->
  writes Weak Bnd [] (deparseGroupByList deparse l) End [].
Proof. intros Hl Hok. eapply tree_list; [done..|apply her_group_item|text_tac]. Qed.
#[export] Hint Resolve deparseFromList_writes deparseFromClause_writes deparseWhereClause_writes
  deparseGroupByList_writes : writes.

Lemma deparseGroupingSet_writes x :
  GroupingSet.t_all Node below x -> ok_GroupingSet wf x = true ->
  writes Solid Bnd [] (deparseGroupingSet deparse x) End [].
Proof.
  intros Hx Hok. unfold deparseGroupingSet, ok_GroupingSet in *. open_struct Hx.
  destruct kind; try discriminate Hok; writes_tac.
Qed.

Lemma group_by_item_writes n :
  children below n -> ok_group_item wf n = true ->
  writes Solid Bnd [] (group_by_item deparse n) End [].
Proof.
  intros Hn Hok. unfold group_by_item, ok_group_item in *.
  destruct n; try (by apply deparseExpr_body_writes; [done|exact Hok]).
  apply deparseGroupingSet_writes; [done|]. apply orb_true_iff in Hok as [Hok|Hok]; done.
Qed.

(** ** Index elements *)

(** What follows the column or the expression. *)
Definition index_elem_rest (x : IndexElem.t Node) (head : dep) : dep :=
  head ;;;
  deparseOptCollate x.(IndexElem.collation) ;;;
  when (nonempty x.(IndexElem.opclass))
    (deparseAnyName x.(IndexElem.opclass) ;;;
     when (nonempty x.(IndexElem.opclassopts))
       (deparseRelOptions deparse x.(IndexElem.opclassopts)) ;;;
     chr " ") ;;;
  match x.(IndexElem.ordering) with
  | SORTBY_DEFAULT => skip
  | SORTBY_ASC => str "ASC "
  | SORTBY_DESC => str "DESC "
  | SORTBY_USING => assert_ false
  end ;;;
  match x.(IndexElem.nulls_ordering) with
  | SORTBY_NULLS_DEFAULT => skip
  | SORTBY_NULLS_FIRST => str "NULLS FIRST "
  | SORTBY_NULLS_LAST => str "NULLS LAST "
  end ;;;
  rts.

Lemma index_elem_rest_writes x head :
  IndexElem.t_all Node below x -> writes Solid Bnd [] head Bnd [] ->
  names_ok x.(IndexElem.collation) = true -> names_ok x.(IndexElem.opclass) = true ->
  forallb (ok_rel_option wf) x.(IndexElem.opclassopts) = true ->
  x.(IndexElem.ordering) <> SORTBY_USING ->
  writes Solid Bnd [] (index_elem_rest x head) End [].
Proof.
  intros Hx Hh H1 H2 H3 H4. unfold index_elem_rest. open_struct Hx.
  assert (Hcl : nonempty opclass = true -> some_names opclass = true)
    by (intros E; unfold some_names; by rewrite E).
  case_on (nonempty opclass); [specialize (Hcl eq_refl)|clear Hcl]; writes_tac.
Qed.

Lemma index_elem_bare_writes x head :
  writes Solid Bnd [] head End [] ->
  nonempty x.(IndexElem.collation) = false -> nonempty x.(IndexElem.opclass) = false ->
  x.(IndexElem.ordering) = SORTBY_DEFAULT -> x.(IndexElem.nulls_ordering) = SORTBY_NULLS_DEFAULT ->
  writes Solid Bnd [] (index_elem_rest x head) End [].
Proof.
  intros Hh H1 H2 H3 H4. unfold index_elem_rest, deparseOptCollate. rewrite H1, H2, H3, H4.
  cbn [when]. writes_tac.
Qed.

Lemma deparseIndexElem_writes x :
  IndexElem.t_all Node below x -> ok_IndexElem wf x = true ->
  writes Solid Bnd [] (deparseIndexElem deparse x) End [].
Proof.
  intros Hx Hok. unfold ok_IndexElem in Hok.
  assert (Hexpr : option_all Node below (IndexElem.expr x)) by (by destruct Hx).
  change (deparseIndexElem deparse x) with (index_elem_rest x
    (match IndexElem.name x, IndexElem.expr x with
     | Some name, _ => deparseColId name ;;; chr " "
     | None, Some expr =>
      match expr with
      | N_FuncCall _ | N_SQLValueFunction _ | N_TypeCast _ | N_CoalesceExpr _
      | N_MinMaxExpr _ | N_XmlExpr _ | N_XmlSerialize _ => deparseFuncExprWindowless_ deparse expr
      | _ => chr "(" ;;; deparseExpr_ deparse expr ;;; str ") "
      end
     | None, None => assert_ false
     end)).
  destruct (IndexElem.name x) as [s|].
  { simp_hyps. apply index_elem_rest_writes; try done. unfold deparseColId. writes_tac. }
  destruct (IndexElem.expr x) as [e|]; [|done].
  apply andb_true_iff in Hok as [Hok H4]. apply andb_true_iff in Hok as [Hok H3].
  apply andb_true_iff in Hok as [Hok H2]. apply andb_true_iff in Hok as [Hok H1]. simp_hyps.
  assert (Hpar : ok_expr wf e = true -> writes Solid Bnd [] (chr "(" ;;; deparseExpr_ deparse e ;;;
    str ") ") Bnd []) by (intros; writes_tac).
  destruct e; try (apply index_elem_rest_writes; [done|by apply Hpar|done..]);
    simp_hyps; apply index_elem_bare_writes; try done; by apply her_func_expr.
Qed.

(** ** Constraints and column definitions *)

Lemma exclusion_el_writes n :
  below n -> ok_exclusion wf n = true -> writes Solid Bnd [] (exclusion_el deparse n) End [].
Proof.
  intros Hn Hok. open_node n Hn Hok. unfold exclusion_el. cbn [castNode_List].
  destruct l as [|e [|o [|]]]; try discriminate Hok; destruct o; try discriminate Hok.
  unfold ok_exclusion in Hok. simp_hyps.
  assert (ok_operator l = true) as Hop by (destruct l as [|? [|? [|]]]; done).
  cbn [List.length Nat.eqb assert_ linitial lsecond castNode_List]. writes_tac.
Qed.

Lemma in_parens_sp_writes d :
  writes Weak Bnd [] d End [] -> forall k, kind_le Solid k = true ->
  writes k Bnd [] (in_parens_sp d) Bnd [].
Proof.
  intros Hd k Hk. unfold in_parens_sp. apply (W_seq_solid k _ _ _ Bnd [Paren]); [writes_tac|].
  apply (W_seq_any _ _ _ End [Paren]); [by apply (W_use Weak Bnd _ End Any Bnd End)|writes_tac].
Qed.

Lemma column_list_sp_writes l :
  names_ok l = true -> writes Weak Bnd [] (column_list_sp l) Bnd [].
Proof.
  intros Hl. unfold column_list_sp. destruct (nonempty l); cbn [when]; [|writes_tac].
  apply in_parens_sp_writes; [by apply deparseColumnList_writes|done].
Qed.
#[export] Hint Resolve column_list_sp_writes : writes.

Lemma fk_action_writes e c :
  e = "UPDATE" \/ e = "DELETE" -> writes Weak Bnd [] (fk_action e c) Bnd [].
Proof. intros [-> | ->]; unfold fk_action; repeat case_match; first [writes_tac | text_tac]. Qed.

Lemma fk_match_writes c :
  Ascii.eqb c "p" = false -> writes Weak Bnd [] (fk_match c) Bnd [].
Proof. intros H. unfold fk_match. rewrite H. repeat case_match; writes_tac. Qed.

Lemma constraint_references_writes x :
  opt_ok ok_RangeVar x.(Constraint.pktable) = true -> names_ok x.(Constraint.pk_attrs) = true ->
  Ascii.eqb x.(Constraint.fk_matchtype) "p" = false ->
  writes (if notnull x.(Constraint.pktable) then Solid else Weak) Bnd [] (constraint_references x) Bnd [].
Proof.
  intros H1 H2 H3. unfold constraint_references. apply fk_match_writes in H3.
  pose proof (fk_action_writes "UPDATE" (Constraint.fk_upd_action x) ltac:(auto)).
  pose proof (fk_action_writes "DELETE" (Constraint.fk_del_action x) ltac:(auto)).
  destruct (Constraint.pktable x); simp_hyps; cbn [when_some notnull]; writes_tac.
Qed.

(** ["USING INDEX %s "] and the like, with a quoted name. *)
Lemma fmt_name_writes a s pre :
  a = "USING INDEX " \/ a = "USING INDEX TABLESPACE " ->
  writes Weak Bnd pre (fmt (a +:+ quote_identifier s +:+ " ")) Bnd pre.
Proof.
  intros Ha. apply W_fmt.
  apply (W_same _ _ _ (str a ;;; str (quote_identifier s) ;;; str " ") _
    (a +:+ quote_identifier s +:+ " ")).
  - apply T_seq; [apply T_str|]. apply T_seq; apply T_str.
  - apply T_str.
  - destruct Ha as [-> | ->]; writes_tac.
Qed.

Lemma constraint_attributes_writes x :
  names_ok x.(Constraint.including) = true ->
  writes Weak Bnd [] (constraint_attributes x) Bnd [].
Proof.
  intros H. unfold constraint_attributes.
  assert (Hi : forall s, writes Weak Bnd [] (fmt ("USING INDEX " +:+ quote_identifier s +:+ " ")) Bnd [])
    by (intros; apply fmt_name_writes; auto).
  assert (Ht : forall s, writes Weak Bnd []
    (fmt ("USING INDEX TABLESPACE " +:+ quote_identifier s +:+ " ")) Bnd [])
    by (intros; apply fmt_name_writes; auto).
  eapply (W_seq_weak Weak _ _ _ Bnd []); [writes_tac|].
  eapply (W_seq_weak Weak _ _ _ Bnd []).
  { destruct (Constraint.indexname x); cbn [when_some]; [apply Hi|writes_tac]. }
  eapply (W_seq_weak Weak _ _ _ Bnd []).
  { destruct (Constraint.indexspace x); cbn [when_some]; [apply Ht|writes_tac]. }
  clear Hi Ht. writes_tac.
Qed.

Lemma constraint_kind_writes x :
  Constraint.t_all Node below x -> ok_constraint_kind wf x = true ->
  match x.(Constraint.contype) with
  | CONSTR_DEFAULT => writes Solid Bnd [] (constraint_kind deparse x) End []
  | CONSTR_FOREIGN => writes (if nonempty x.(Constraint.fk_attrs) then Solid else Weak) Bnd []
      (constraint_kind deparse x) Bnd []
  | _ => writes Solid Bnd [] (constraint_kind deparse x) Bnd []
  end.
Proof.
  intros Hx Hok. unfold constraint_kind, ok_constraint_kind in *. open_struct Hx.
  destruct contype; simp_hyps; try (by writes_tac).
  - match goal with H : one_of _ _ = true |- _ => apply one_of_inv in H as Hc end. cbn [chars] in Hc.
    apply (W_seq_solid Solid _ _ _ Bnd []); [text_tac|].
    apply (W_seq_any _ _ _ Bnd []).
    + decompose [or] Hc; subst; try done; cbn; writes_tac.
    + apply (W_seq_any _ _ _ Bnd []); [text_tac|].
      eapply W_use; [by apply deparseOptParenthesizedSeqOptList_writes|done..].
  - destruct access_method as [m|]; [|done]. cbn [deref].
    assert (Hl : writes Weak Bnd [] (foreach_sep (exclusion_el deparse) (str ", ") exclusions) End [])
      by (eapply tree_list; [done..|apply exclusion_el_writes|text_tac]).
    pose proof (in_parens_sp_writes _ Hl Any eq_refl) as Hp. clear Hl.
    generalize dependent (in_parens_sp (foreach_sep (exclusion_el deparse) (str ", ") exclusions)).
    intros d Hp. writes_tac.
Qed.

(** What follows the kind of constraint. *)
Lemma deparseConstraint_tail_writes x :
  names_ok x.(Constraint.keys) = true -> names_ok x.(Constraint.fk_attrs) = true ->
  opt_ok ok_RangeVar x.(Constraint.pktable) = true -> names_ok x.(Constraint.pk_attrs) = true ->
  Ascii.eqb x.(Constraint.fk_matchtype) "p" = false -> names_ok x.(Constraint.including) = true ->
  writes (if notnull x.(Constraint.pktable) then Solid else Weak) Bnd []
    (column_list_sp x.(Constraint.keys) ;;; column_list_sp x.(Constraint.fk_attrs) ;;;
     constraint_references x ;;; constraint_attributes x) Bnd [].
Proof.
  intros. pose proof (constraint_references_writes x) as Hr.
  pose proof (constraint_attributes_writes x ltac:(done)) as Ha.
  eapply (W_seq_weak _ _ _ _ Bnd []); [by apply column_list_sp_writes|].
  eapply (W_seq_weak _ _ _ _ Bnd []); [by apply column_list_sp_writes|].
  destruct (notnull (Constraint.pktable x)).
  - apply (W_seq_solid _ _ _ _ Bnd []); [by apply Hr|]. by eapply W_weaken; [exact Ha|..].
  - apply (W_seq_weak _ _ _ _ Bnd []); [by apply Hr|done].
Qed.

Lemma W_tail k f pre d1 d2 d3 d4 d5 f' post :
  writes k f pre (d1 ;;; (d2 ;;; d3 ;;; d4 ;;; d5) ;;; rts) f' post ->
  writes k f pre (d1 ;;; d2 ;;; d3 ;;; d4 ;;; d5 ;;; rts) f' post.
Proof.
  apply W_ext. intros B HS b. unfold seqd.
  destruct (d1 B HS b) as [b1| |]; cbn [obind]; try done.
  destruct (d2 B HS b1) as [b2| |]; cbn [obind]; try done.
  destruct (d3 B HS b2) as [b3| |]; cbn [obind]; try done.
  by destruct (d4 B HS b3).
Qed.

(** Nothing follows a default. *)
Lemma default_tail_skip x :
  nonempty x.(Constraint.keys) = false -> nonempty x.(Constraint.fk_attrs) = false ->
  notnull x.(Constraint.pktable) = false -> one_of "f" x.(Constraint.fk_matchtype) = false ->
  Ascii.eqb x.(Constraint.fk_matchtype) "p" = false ->
  one_of "rcnd" x.(Constraint.fk_upd_action) = false ->
  one_of "rcnd" x.(Constraint.fk_del_action) = false ->
  nonempty x.(Constraint.including) = false -> notnull x.(Constraint.indexname) = false ->
  notnull x.(Constraint.indexspace) = false -> x.(Constraint.deferrable) = false ->
  x.(Constraint.initdeferred) = false -> x.(Constraint.is_no_inherit) = false ->
  x.(Constraint.skip_validation) = false ->
  writes Weak End [] (column_list_sp x.(Constraint.keys) ;;; column_list_sp x.(Constraint.fk_attrs) ;;;
    constraint_references x ;;; constraint_attributes x) End [].
Proof.
  intros H1 H2 H3 H4 H5 H6 H7 H8 H9 H10 H11 H12 H13 H14.
  unfold column_list_sp, constraint_references, constraint_attributes.
  rewrite H1, H2, H8, H11, H12, H13, H14.
  destruct (Constraint.pktable x), (Constraint.indexname x), (Constraint.indexspace x); try done.
  assert (Hact : forall e c, one_of "rcnd" c = false -> fk_action e c = skip).
  { intros e c Hc. unfold one_of in Hc. cbn [string_existsb] in Hc. rewrite orb_false_r in Hc.
    repeat (apply orb_false_iff in Hc as [? Hc]). unfold fk_action.
    repeat match goal with H : Ascii.eqb c _ = false |- _ => rewrite H; clear H end.
    by destruct (Ascii.eqb c "a"). }
  assert (fk_match (Constraint.fk_matchtype x) = skip) as ->.
  { unfold one_of in H4. cbn [string_existsb] in H4. rewrite orb_false_r in H4. unfold fk_match.
    rewrite H4, H5. by destruct (Ascii.eqb _ "s"). }
  rewrite !Hact by done. cbn [when when_some]. writes_tac.
Qed.

Lemma constraint_el n :
  below n -> ok_Constraint wf n = true ->
  writes Solid Bnd [] (castNode_Constraint n (deparseConstraint deparse) ;;; chr " ") Bnd [].
Proof.
  intros Hn Hok. open_node n Hn Hok. cbn [castNode_Constraint]. unfold ok_Constraint in Hok. simp_hyps.
  assert (writes Solid Bnd [] (deparseConstraint deparse x) End []) as Hx; [|writes_tac].
  pose proof (constraint_kind_writes x Hn ltac:(done)) as Hk. unfold deparseConstraint.
  set (nm := when_some (Constraint.conname x) _).
  assert (Hname : writes Weak Bnd [] nm Bnd []).
  { subst nm. destruct (Constraint.conname x) as [s|]; simp_hyps; cbn [when_some]; writes_tac. }
  clearbody nm. apply W_seq_assoc, W_tail.
  pose proof (deparseConstraint_tail_writes x ltac:(done) ltac:(done) ltac:(done) ltac:(done)
    ltac:(done) ltac:(done)) as Ht.
  pose proof (default_tail_skip x) as Hdef.
  generalize dependent (column_list_sp (Constraint.keys x) ;;; column_list_sp (Constraint.fk_attrs x) ;;;
    constraint_references x ;;; constraint_attributes x).
  intros tail Ht Hdef. generalize dependent (constraint_kind deparse x). intros kd Hk.
  assert (Ht' : writes Weak Bnd [] tail Bnd [])
    by (eapply W_weaken; [exact Ht|by destruct (notnull _)|done]).
  apply W_seq_assoc. apply (W_rts _ _ _ End); [|done].
  destruct (Constraint.contype x) eqn:Ec; try (clear Ht Hdef; by writes_tac).
  - (* CONSTR_DEFAULT *) simp_hyps.
    specialize (Hdef ltac:(done) ltac:(done) ltac:(done) ltac:(done) ltac:(done) ltac:(done) ltac:(done)
      ltac:(done) ltac:(done) ltac:(done) ltac:(done) ltac:(done) ltac:(done) ltac:(done)).
    clear Ht Ht'. writes_tac.
  - (* CONSTR_FOREIGN *)
    match goal with H : ok_constraint_kind _ _ = true |- _ => unfold ok_constraint_kind in H; rewrite Ec in H end.
    destruct (nonempty (Constraint.fk_attrs x)); [clear Ht; writes_tac|].
    match goal with H : false || _ = true |- _ => cbn [orb] in H; rewrite H in Ht end. 
    clear Ht'. writes_tac.
Qed.

Lemma deparseColumnDef_writes x :
  ColumnDef.t_all Node below x -> ok_ColumnDef wf x = true ->
  writes Solid Bnd [] (deparseColumnDef deparse x) End [].
Proof.
  intros Hx Hok. unfold deparseColumnDef, ok_ColumnDef in *. open_struct Hx.
  assert (writes Weak Bnd [] (foreach (fun n => castNode_Constraint n (deparseConstraint deparse) ;;;
    chr " ") constraints) Bnd []).
  { apply W_each. eapply Forall_tree; [done..|]. apply constraint_el. }
  destruct colname as [s|]; [|done]. simp_hyps. cbn [when_some]. writes_tac.
Qed.

(** ** Table references *)

Lemma range_var_node_writes o ctx :
  some_ok ok_RangeVar_node o = true ->
  writes Solid Bnd [] (deref o (fun n => castNode_RangeVar n (fun rv => deparseRangeVar rv ctx))) End [].
Proof.
  intros H. destruct o as [n|]; [|done]. cbn [some_ok deref] in *. destruct n; try done.
  by apply deparseRangeVar_writes.
Qed.

Lemma deparseRangeTableSample_writes x :
  RangeTableSample.t_all Node below x -> ok_RangeTableSample wf x = true ->
  writes Solid Bnd [] (deparseRangeTableSample deparse x) End [].
Proof.
  intros Hx Hok. unfold deparseRangeTableSample, ok_RangeTableSample in *. open_struct Hx.
  pose proof (range_var_node_writes relation DEPARSE_NODE_CONTEXT_NONE ltac:(done)) as Hr.
  generalize dependent (deref relation (fun n => castNode_RangeVar n
    (fun rv => deparseRangeVar rv DEPARSE_NODE_CONTEXT_NONE))). intros d Hr. writes_tac.
Qed.

Lemma range_table_func_col_el n :
  below n -> ok_RangeTableFuncCol wf n = true ->
  writes Solid Bnd [] (castNode_RangeTableFuncCol n (deparseRangeTableFuncCol deparse)) End [].
Proof.
  intros Hn Hok. open_node n Hn Hok. cbn [castNode_RangeTableFuncCol].
  unfold deparseRangeTableFuncCol, ok_RangeTableFuncCol in *. open_struct Hn.
  case_on for_ordinality; cbn [negb if_ok] in *; simp_hyps; writes_tac.
Qed.

Lemma deparseRangeTableFunc_writes x :
  RangeTableFunc.t_all Node below x -> ok_RangeTableFunc wf x = true ->
  writes Solid Bnd [] (deparseRangeTableFunc deparse x) End [].
Proof.
  intros Hx Hok. unfold deparseRangeTableFunc, ok_RangeTableFunc in *. open_struct Hx.
  assert (writes Weak Bnd [] (foreach_sep (fun n => castNode_RangeTableFuncCol n
    (deparseRangeTableFuncCol deparse)) (str ", ") columns) End [])
    by (eapply tree_list; [done..|apply range_table_func_col_el|text_tac]).
  writes_tac.
Qed.

Lemma deparseColumnDefList_writes l :
  list_all Node below l -> ok_column_defs wf l = true ->
  writes Weak Bnd [] (deparseColumnDefList deparse l) End [].
Proof. intros Hl Hok. eapply tree_list; [done|exact Hok|apply her_column_def|text_tac]. Qed.
#[export] Hint Resolve deparseColumnDefList_writes : writes.

Lemma rows_from_el_writes n :
  below n -> ok_rows_from wf n = true -> writes Solid Bnd [] (rows_from_el deparse n) End [].
Proof.
  intros Hn Hok. open_node n Hn Hok. unfold rows_from_el. cbn [castNode_List].
  destruct l as [|f [|c [|]]]; try discriminate Hok; destruct c; try discriminate Hok.
  unfold ok_rows_from in Hok. simp_hyps. cbn [List.length Nat.eqb assert_ linitial lsecond castNode_List].
  match goal with H : below (N_List _) |- _ => apply her_children in H; cbn [children] in H end.
  writes_tac.
Qed.

Lemma first_function_writes n :
  below n -> ok_rows_from wf n = true ->
  writes Solid Bnd [] (castNode_List n (fun lfunc =>
       assert_ (List.length lfunc =? 2)%nat ;;;
       linitial lfunc (deparseFuncExprWindowless_ deparse))) End [].
Proof.
  intros Hn Hok. open_node n Hn Hok. cbn [castNode_List].
  destruct l as [|f [|c [|]]]; try discriminate Hok; destruct c; try discriminate Hok.
  unfold ok_rows_from in Hok. simp_hyps. cbn [List.length Nat.eqb assert_ linitial]. writes_tac.
Qed.

Lemma deparseRangeFunction_writes x :
  RangeFunction.t_all Node below x -> ok_RangeFunction wf x = true ->
  writes Solid Bnd [] (deparseRangeFunction deparse x) End [].
Proof.
  intros Hx Hok. unfold deparseRangeFunction, ok_RangeFunction in *. open_struct Hx.
  destruct functions as [|n l']; [done|]. simp_hyps. cbn [linitial].
  pose proof (first_function_writes n ltac:(done) ltac:(done)) as Hf.
  assert (Hl : is_rowsfrom = true -> writes Weak Bnd []
    (foreach_sep (rows_from_el deparse) (str ", ") (n :: l')) End []).
  { intros ->. simp_hyps. eapply (tree_list _ (ok_rows_from wf)); [by constructor| |
      apply rows_from_el_writes|text_tac]. cbn [forallb].
    repeat match goal with H : _ = true |- _ => rewrite H; clear H end. done. }
  generalize dependent (foreach_sep (rows_from_el deparse) (str ", ") (n :: l')). intros rows Hl.
  generalize dependent (castNode_List n (fun lfunc =>
       assert_ (List.length lfunc =? 2)%nat ;;;
       linitial lfunc (deparseFuncExprWindowless_ deparse))). intros func Hf.
  case_on is_rowsfrom; [specialize (Hl eq_refl)|clear Hl]; case_on alias; case_on lateral;
    cbn [negb]; writes_tac.
Qed.

Lemma deparseRangeSubselect_writes x :
  RangeSubselect.t_all Node below x -> ok_RangeSubselect wf x = true ->
  writes Solid Bnd [] (deparseRangeSubselect deparse x) End [].
Proof.
  intros Hx Hok. unfold deparseRangeSubselect, ok_RangeSubselect in *. open_struct Hx. writes_tac.
Qed.

Lemma join_keyword_writes x :
  ok_jointype x.(JoinExpr.jointype) = true -> writes Weak Bnd [] (join_keyword x) Bnd [].
Proof. intros H. unfold join_keyword. destruct (JoinExpr.jointype x); try done; writes_tac. Qed.

Lemma deparseJoinExpr_writes x :
  JoinExpr.t_all Node below x -> ok_JoinExpr wf x = true ->
  writes Solid Bnd [] (deparseJoinExpr deparse x) End [].
Proof.
  intros Hx Hok. unfold deparseJoinExpr, ok_JoinExpr in *. simp_hyps.
  assert (Hj : writes Weak Bnd [] (join_keyword x) Bnd []) by by apply join_keyword_writes.
  generalize dependent (join_keyword x). intros kw Hj. open_struct Hx.
  destruct rarg as [r|]; [|done]. simp_hyps. cbn [deref].
  destruct alias as [a|]; simp_hyps; cbn [notnull when when_some]; writes_tac.
Qed.
#[export] Hint Resolve deparseColumnDef_writes deparseRangeTableSample_writes
  deparseRangeTableFunc_writes deparseRangeFunction_writes deparseRangeSubselect_writes
  deparseJoinExpr_writes : writes.

Lemma deparseTableRef_body_writes n :
  children below n -> ok_table_ref_body wf n = true ->
  writes Solid Bnd [] (deparseTableRef_body deparse n) End [].
Proof.
  intros Hn Hok. unfold deparseTableRef_body, ok_table_ref_body in *.
  destruct n; try discriminate Hok; cbn [children] in Hn; by eauto with writes nocore.
Qed.

(** ** WITH, INTO *)

Lemma cte_el n :
  below n -> ok_CommonTableExpr wf n = true ->
  writes Solid Bnd [] (castNode_CommonTableExpr n (deparseCommonTableExpr deparse)) End [].
Proof.
  intros Hn Hok. open_node n Hn Hok. cbn [castNode_CommonTableExpr].
  unfold deparseCommonTableExpr, deparseColId, ok_CommonTableExpr in *. open_struct Hn. writes_tac.
Qed.

Lemma deparse_with_writes o :
  option_all (WithClause.t Node) (WithClause.t_all Node below) o ->
  opt_ok (ok_WithClause wf) o = true ->
  writes Weak Bnd [] (deparse_with deparse o) Bnd [].
Proof.
  intros Ho Hok. unfold deparse_with. destruct o as [w|]; cbn [when_some]; [|writes_tac]. simp_hyps.
  assert (writes Solid Bnd [] (deparseWithClause deparse w) End []); [|writes_tac].
  match goal with H : WithClause.t_all _ _ _ |- _ => rename H into Hx end.
  unfold deparseWithClause, ok_WithClause in *. open_struct Hx.
  assert (writes Solid Bnd [] (foreach_sep (fun n => castNode_CommonTableExpr n
    (deparseCommonTableExpr deparse)) (str ", ") ctes) End []).
  { apply W_list; [|text_tac|done]. eapply Forall_tree; [done..|apply cte_el]. }
  writes_tac.
Qed.
#[export] Hint Resolve deparse_with_writes : writes.

Lemma deparseIntoClause_writes x :
  IntoClause.t_all Node below x -> ok_IntoClause wf x = true ->
  writes Solid Bnd [] (str "INTO " ;;;
    deref x.(IntoClause.rel) (fun rel => deparseOptTemp rel.(RangeVar.relpersistence)) ;;;
    deparseIntoClause deparse x ;;; chr " ") Bnd [].
Proof.
  intros Hx Hok. unfold deparseIntoClause, ok_IntoClause in *. open_struct Hx.
  destruct rel as [rv|]; [|done]. cbn [some_ok deref] in *. simp_hyps. writes_tac.
Qed.

(** ** SELECT *)

Lemma values_row_el n :
  below n -> ok_values_row wf n = true -> writes Solid Bnd [] (values_row deparse n) End [].
Proof.
  intros Hn Hok. open_node n Hn Hok. unfold values_row, ok_values_row in *. cbn [castNode_List].
  writes_tac.
Qed.

Lemma distinct_clause_writes l :
  list_all Node below l -> ok_distinct wf l = true ->
  writes Weak Bnd [] (distinct_clause deparse l) Bnd [].
Proof.
  intros Hl Hok. unfold distinct_clause, ok_distinct in *. destruct l as [|n l]; [writes_tac|].
  apply (W_seq_solid Weak _ _ _ Bnd []); [text_tac|].
  assert (Hon : forallb (ok_expr wf) (n :: l) = true -> writes Any Bnd [] (str "ON (" ;;;
    deparseExprList deparse (n :: l) ;;; str ") ") Bnd []) by (intros; writes_tac).
  destruct n; try by apply Hon. destruct l0; [writes_tac|by apply Hon].
Qed.

Lemma window_clause_el_writes n :
  below n -> ok_window_clause_el wf n = true ->
  writes Solid Bnd [] (window_clause_el deparse n) End [].
Proof.
  intros Hn Hok. open_node n Hn Hok. unfold window_clause_el, ok_window_clause_el in *.
  cbn [castNode_WindowDef]. simp_hyps. destruct (WindowDef.name x); [|done]. simp_hyps.
  cbn [deref]. writes_tac.
Qed.
#[export] Hint Resolve distinct_clause_writes : writes.

Lemma select_body_writes x :
  SelectStmt.t_all Node below x -> ok_select_body wf x = true ->
  writes Solid Bnd [] (select_body deparse x) Bnd [].
Proof.
  intros Hx Hok. unfold select_body, ok_select_body in *. open_struct Hx.
  assert (Hw : writes Weak Bnd [] (foreach_sep (window_clause_el deparse) (str ", ") windowClause) End [])
    by (eapply tree_list; [done..|apply window_clause_el_writes|text_tac]).
  assert (Hi : writes Weak Bnd [] (when_some intoClause (fun into_clause =>
    str "INTO " ;;;
    deref into_clause.(IntoClause.rel) (fun rel => deparseOptTemp rel.(RangeVar.relpersistence)) ;;;
    deparseIntoClause deparse into_clause ;;;
    chr " ")) Bnd []).
  { destruct intoClause as [i|]; cbn [when_some]; [|writes_tac]. simp_hyps.
    eapply W_weaken; [by apply deparseIntoClause_writes|done..]. }
  generalize dependent (when_some intoClause (fun into_clause =>
    str "INTO " ;;;
    deref into_clause.(IntoClause.rel) (fun rel => deparseOptTemp rel.(RangeVar.relpersistence)) ;;;
    deparseIntoClause deparse into_clause ;;;
    chr " ")). intros into Hi. writes_tac.
Qed.

Lemma set_operand_writes o :
  option_all Node below o -> some_ok (wf E_SelectStmt) o = true ->
  writes Solid Bnd [] (set_operand deparse o) End [].
Proof.
  intros Ho Hok. destruct o as [n|]; [|done]. simp_hyps. unfold set_operand. cbn [deref].
  match goal with H : below n |- _ => pose proof (her_select_wf n H Hok) as Hn end.
  destruct n; try discriminate Hok. cbn [castNode_SelectStmt]. by eapply W_parens_if.
Qed.

Lemma set_operation_writes x s :
  SelectStmt.t_all Node below x ->
  some_ok (wf E_SelectStmt) x.(SelectStmt.larg) = true ->
  some_ok (wf E_SelectStmt) x.(SelectStmt.rarg) = true ->
  (s = " UNION " \/ s = " INTERSECT " \/ s = " EXCEPT ") ->
  writes Solid Bnd [] (set_operation deparse s x) Bnd [].
Proof.
  intros Hx Hl Hr Hs. unfold set_operation. open_struct Hx.
  pose proof (set_operand_writes larg ltac:(done) ltac:(done)).
  pose proof (set_operand_writes rarg ltac:(done) ltac:(done)).
  destruct Hs as [-> |[-> | ->]]; writes_tac.
Qed.

Lemma limit_clause_writes x n :
  below n -> ok_limit wf n = true -> writes Weak Bnd [] (limit_clause deparse x n) Bnd [].
Proof.
  intros Hn Hok. unfold limit_clause.
  assert (H : writes Solid Bnd [] (match n with
    | N_A_Const {| A_Const.val := Null |} => str "ALL"
    | _ => deparseCExpr_ deparse n
    end) End []).
  { unfold ok_limit in Hok. destruct n; try by apply her_c_expr.
    destruct x0 as [v ?]. destruct v; try by apply her_c_expr. writes_tac. }
  generalize dependent (match n with
    | N_A_Const {| A_Const.val := Null |} => str "ALL"
    | _ => deparseCExpr_ deparse n
    end). intros d H. destruct (SelectStmt.limitOption x); writes_tac.
Qed.

Lemma locking_el n :
  ok_lock_node n = true ->
  writes Solid Bnd [] (castNode_LockingClause n deparseLockingClause) End [].
Proof. intros H. destruct n; try discriminate H. by apply deparseLockingClause_writes. Qed.

Lemma deparseSelectStmt_body_writes x :
  SelectStmt.t_all Node below x -> ok_SelectStmt wf x = true ->
  writes Solid Bnd [] (deparseSelectStmt_body deparse x) End [].
Proof.
  intros Hx Hok. unfold deparseSelectStmt_body, ok_SelectStmt in *. simp_hyps.
  match goal with H : match SelectStmt.op x with _ => _ end = true |- _ => rename H into Hop end.
  match goal with |- context [_ ;;; (?m ;;; deparseOptSortClause _ _ ;;; _)] => set (main := m) end.
  assert (Hm : writes Solid Bnd [] main Bnd []).
  { subst main. destruct (SelectStmt.op x); simp_hyps; try (apply set_operation_writes; auto).
    destruct (nonempty (SelectStmt.valuesLists x)) eqn:E; [|by apply select_body_writes].
    assert (list_all Node below (SelectStmt.valuesLists x)) as Hl by (by destruct Hx).
    assert (writes Solid Bnd [] (foreach_sep (values_row deparse) (str ", ")
      (SelectStmt.valuesLists x)) End []); [|writes_tac].
    apply W_list; [|text_tac|done]. eapply Forall_tree; [done..|apply values_row_el]. }
  clearbody main. clear Hop.
  assert (Hlim : writes Weak Bnd [] (when_some (SelectStmt.limitCount x) (limit_clause deparse x)) Bnd []).
  { assert (Ho : option_all Node below (SelectStmt.limitCount x)) by (by destruct Hx).
    destruct (SelectStmt.limitCount x); cbn [when_some]; [|writes_tac]. simp_hyps.
    by apply limit_clause_writes. }
  generalize dependent (when_some (SelectStmt.limitCount x) (limit_clause deparse x)).
  intros lim Hlim. open_struct Hx.
  assert (writes Weak Bnd [] (foreach_sep (fun n => castNode_LockingClause n deparseLockingClause)
    (str " ") lockingClause) End []).
  { apply W_list0; [|text_tac]. eapply Forall_plain; [done|apply locking_el]. }
  writes_tac.
Qed.

(** ** INSERT, UPDATE, DELETE *)

Lemma deparseInferClause_writes x :
  InferClause.t_all Node below x -> ok_InferClause wf x = true ->
  writes Solid Bnd [] (deparseInferClause deparse x) End [].
Proof.
  intros Hx Hok. unfold deparseInferClause, ok_InferClause in *. open_struct Hx.
  assert (writes Weak Bnd [] (foreach_sep (deparseIndexElem_ deparse) (str ", ") indexElems) End [])
    by (eapply tree_list; [done..|apply her_index_elem|text_tac]).
  case_on (nonempty indexElems); case_on conname; simp_hyps; writes_tac.
Qed.
#[export] Hint Resolve deparseInferClause_writes : writes.

Lemma deparseOnConflictClause_writes x :
  OnConflictClause.t_all Node below x -> ok_OnConflictClause wf x = true ->
  writes Solid Bnd [] (deparseOnConflictClause deparse x) End [].
Proof.
  intros Hx Hok. unfold deparseOnConflictClause, ok_OnConflictClause in *. open_struct Hx.
  case_on (nonempty targetList); writes_tac.
Qed.
#[export] Hint Resolve deparseOnConflictClause_writes : writes.

Lemma returning_writes l :
  list_all Node below l -> forallb (ok_target wf) l = true ->
  writes Weak Bnd [] (returning deparse l) End [].
Proof. intros Hl Hok. unfold returning. writes_tac. Qed.
#[export] Hint Resolve returning_writes : writes.

Lemma deparseInsertStmt_writes x :
  InsertStmt.t_all Node below x -> ok_InsertStmt wf x = true ->
  writes Solid Bnd [] (deparseInsertStmt deparse x) End [].
Proof.
  intros Hx Hok. unfold deparseInsertStmt, ok_InsertStmt in *. open_struct Hx. writes_tac.
Qed.

Lemma deparseUpdateStmt_writes x :
  UpdateStmt.t_all Node below x -> ok_UpdateStmt wf x = true ->
  writes Solid Bnd [] (deparseUpdateStmt deparse x) End [].
Proof.
  intros Hx Hok. unfold deparseUpdateStmt, ok_UpdateStmt in *. open_struct Hx.
  case_on (nonempty targetList); writes_tac.
Qed.

Lemma deparseDeleteStmt_writes x :
  DeleteStmt.t_all Node below x -> ok_DeleteStmt wf x = true ->
  writes Solid Bnd [] (deparseDeleteStmt deparse x) End [].
Proof.
  intros Hx Hok. unfold deparseDeleteStmt, ok_DeleteStmt in *. open_struct Hx. writes_tac.
Qed.

Lemma deparsePreparableStmt_body_writes n :
  children below n -> ok_preparable_body wf n = true ->
  writes Solid Bnd [] (deparsePreparableStmt_body deparse n) End [].
Proof.
  intros Hn Hok. unfold deparsePreparableStmt_body, ok_preparable_body in *.
  destruct n; try discriminate Hok; cbn [children] in Hn.
  - by apply deparseSelectStmt_body_writes.
  - by apply deparseInsertStmt_writes.
  - by apply deparseUpdateStmt_writes.
  - by apply deparseDeleteStmt_writes.
Qed.

(** ** The deparser *)

(** The equations of [wf] and [deparse]. *)
Lemma wf_eq e n :
  wf e n = match e with
  | E_Expr => ok_expr_body wf n
  | E_CExpr => ok_c_expr_body wf n
  | E_TableRef => ok_table_ref_body wf n
  | E_SelectStmt => match n with N_SelectStmt x => ok_SelectStmt wf x | _ => false end
  | E_PreparableStmt => ok_preparable_body wf n
  | E_GroupByItem => ok_group_item wf n
  | E_FuncExprWindowless => ok_func_expr_body wf n
  | E_IndexElem => match n with N_IndexElem x => ok_IndexElem wf x | _ => false end
  | E_ColumnDef => match n with N_ColumnDef x => ok_ColumnDef wf x | _ => false end
  end.
Proof. by destruct n. Qed.

Lemma deparse_eq e n :
  deparse e n = match e with
  | E_Expr => deparseExpr_body deparse n
  | E_CExpr => deparseCExpr_body deparse n
  | E_TableRef => deparseTableRef_body deparse n
  | E_SelectStmt => castNode_SelectStmt n (deparseSelectStmt_body deparse)
  | E_PreparableStmt => deparsePreparableStmt_body deparse n
  | E_GroupByItem => group_by_item deparse n
  | E_FuncExprWindowless => deparseFuncExprWindowless_body deparse n
  | E_IndexElem => castNode_IndexElem n (deparseIndexElem deparse)
  | E_ColumnDef => castNode_ColumnDef n (deparseColumnDef deparse)
  end.
Proof. by destruct n. Qed.

(** Every well-shaped tree is printable. *)
Lemma deparse_writes e n : wf e n = true -> writes Solid Bnd [] (deparse e n) End [].
Proof.
  revert e. change (printable n). apply her_here. revert n. apply (her_intro printable).
  intros n Hn e Hok. rewrite wf_eq in Hok. rewrite deparse_eq. destruct e.
  - by apply deparseExpr_body_writes.
  - by apply deparseCExpr_body_writes.
  - by apply deparseTableRef_body_writes.
  - destruct n; try discriminate Hok. by apply deparseSelectStmt_body_writes.
  - by apply deparsePreparableStmt_body_writes.
  - by apply group_by_item_writes.
  - by apply deparseFuncExprWindowless_body_writes.
  - destruct n; try discriminate Hok. by apply deparseIndexElem_writes.
  - destruct n; try discriminate Hok. by apply deparseColumnDef_writes.
Qed.

(** What the judgement says of the text written to an empty buffer. *)
Lemma writes_closed d :
  writes Solid Bnd [] d End [] ->
  exists t, text_of d = Ok t /\ raw_text t = true /\ writes_text d t.
Proof.
  intros (t & Hd & Hk & Hl). exists t. split; [by apply T_text|]. split; [|done].
  unfold raw_text, closed_text. cbn in Hk. rewrite Hk.
  destruct (Hl (Code P0) [] eq_refl) as (m' & Hm & E). cbn in E. by rewrite E.
Qed.
