(* ===== verification/DeparseTheorems.v ===== *)
(** * What the deparser promises

    The theorems about [deparse] as a whole: a well-shaped tree is printed, on
    every buffer, as one text made of complete tokens with matched brackets.
    That assumes it of the names the deparser copies without quotes, and
    [unquoted_names] shows what such a name can do.  The examples and the
    theorems at the end are trees whose text does not mean the tree. *)
From S2P Require Import Prelude Buffer StringInfo Keywords Quote Enums Nodes DeparseNames.
From S2P Require Import DeparseExpr DeparseStmt Lexical Shape Rules DeparseSafe.
From S2P Require Import DeparseSafe DeparseSafeStmt.
Import ClosedNames.
Open Scope Z_scope.

(** ** Sample trees *)

Definition name_ (s : string) : Node := N_Value (String_ s).
Definition col_ (s : string) : Node := N_ColumnRef (ColumnRef.mk [name_ s] 0).
Definition const_ (v : Value) : Node := N_A_Const (A_Const.mk v 0).
Definition op_ (o : string) (l r : Node) : Node :=
  N_A_Expr (A_Expr.mk AEXPR_OP [name_ o] (Some l) (Some r) 0).
Definition bool_ (o : BoolExprType) (args : list Node) : Node := N_BoolExpr (BoolExpr.mk o args 0).
Definition is_null_ (n : Node) : Node := N_NullTest (NullTest.mk (Some n) IS_NULL false 0).
Definition target_ (name : option string) (n : Node) : Node :=
  N_ResTarget (ResTarget.mk name [] (Some n) 0).
Definition table_ (s : string) : RangeVar.t Node :=
  RangeVar.mk None None (Some s) true RELPERSISTENCE_PERMANENT None 0.
Definition select_ (targets from : list Node) (where_ : option Node) (locking : list Node) :
    SelectStmt.t Node :=
  SelectStmt.mk [] None targets from where_ [] None [] [] [] None None LIMIT_OPTION_DEFAULT
    locking None SETOP_NONE false None None.

(** [SELECT "Group" AS x, 'it''s' FROM t WHERE a = 1 AND (b IS NULL OR NOT c)] *)
Definition sample_select : Node :=
  N_SelectStmt (select_
    [target_ (Some "x") (col_ "Group"); target_ None (const_ (String_ "it's"))]
    [N_RangeVar (table_ "t")]
    (Some (bool_ AND_EXPR
       [op_ "=" (col_ "a") (const_ (Integer 1));
        bool_ OR_EXPR [is_null_ (col_ "b"); bool_ NOT_EXPR [col_ "c"]]])) []).

Definition quoted_ (s : string) : string := String DQUOTE s +:+ String DQUOTE EmptyString.

Definition sample_text : string :=
  "SELECT " +:+ quoted_ "Group" +:+
  " AS x, 'it''s' FROM t WHERE a = 1 AND (b IS NULL OR NOT c)".

Example sample_deparse : text_of (deparsePreparableStmt sample_select) = Ok sample_text.
Proof. vm_compute. reflexivity. Qed.

(** [UPDATE t SET x = 1, (a, b) = source] *)
Definition multi_ (source : Node) (colno ncolumns : Z) (name : string) : Node :=
  target_ (Some name) (N_MultiAssignRef (MultiAssignRef.mk (Some source) colno ncolumns)).
Definition sample_update : Node :=
  N_UpdateStmt (UpdateStmt.mk (Some (table_ "t"))
    [target_ (Some "x") (const_ (Integer 1));
     multi_ (col_ "r") 1 2 "a"; multi_ (col_ "r") 2 2 "b"] None [] [] None).

(** [SELECT 1 FROM t FOR UPDATE OF t NOWAIT] *)
Definition sample_locking : Node :=
  N_SelectStmt (select_ [target_ None (const_ (Integer 1))] [N_RangeVar (table_ "t")] None
    [N_LockingClause (LockingClause.mk [N_RangeVar (table_ "t")] LCS_FORUPDATE LockWaitError)]).

(** ** Trees whose text means another tree *)

Example set_list_sample :
  text_of (deparsePreparableStmt sample_update) = Ok "UPDATE t SET x = 1, (a) = r".
Proof. by vm_compute. Qed.

Example lock_sample :
  text_of (deparsePreparableStmt sample_locking) = Ok "SELECT 1 FROM t FOR UPDATE OF tNOWAIT".
Proof. by vm_compute. Qed.

(** ** Properties *)

(** C1. The deparser is total and lexically closed on well-shaped trees: for
    every production [e] and every tree [n] it accepts, [deparse] returns a
    text (no [Assert], [castNode] or NULL pointer fails and no error is
    raised), and that text is a non-empty sequence of complete tokens with
    matched brackets, without a comment or a [;].  The names the deparser quotes
    and the string constants are arbitrary: nothing in them can end a token
    early, open a comment or a bracket, or start another statement.  The names of
    the five places where it copies a name without quotes are asked to be such a text
    themselves ([raw_text]); [unquoted_names] shows that this cannot be left out. *)
Theorem deparse_closed (e : entry) (n : Node) (Hwf : @wf raw_text e n = true) :
  exists t, text_of (deparse e n) = Ok t /\ raw_text t = true.
Proof. destruct (writes_closed _ (deparse_writes e n Hwf)) as (t & ? & ? & _). eauto. Qed.

Lemma deparse_closed_witness :
  @wf raw_text E_PreparableStmt sample_select = true /\
  exists t, text_of (deparse E_PreparableStmt sample_select) = Ok t /\ raw_text t = true.
Proof.
  split; [vm_compute; reflexivity|].
  apply (deparse_closed E_PreparableStmt sample_select). vm_compute. reflexivity.
Defined.

(** ** Names that are copied

    The five places where a name is printed without quotes, each in a tree that is
    well shaped but for that name: a window after [OVER], a named argument, a window
    of a [WINDOW] clause, a column and a constraint of a column definition, and a
    type of [pg_catalog]. *)
Definition call_ (args : list Node) (over_ : option (WindowDef.t Node)) : Node :=
  N_FuncCall (FuncCall.mk [name_ "f"] args [] None false false false false over_ 0).
Definition window_ (s : string) : WindowDef.t Node := WindowDef.mk (Some s) None [] [] 0 None None 0.
Definition over_name (s : string) : Node := call_ [] (Some (window_ s)).
Definition named_arg (s : string) : Node :=
  call_ [N_NamedArgExpr (NamedArgExpr.mk (Some (const_ (Integer 1))) (Some s) 0 0)] None.
Definition window_name (s : string) : Node :=
  N_SelectStmt (SelectStmt.mk [] None [target_ None (const_ (Integer 1))] [] None [] None
    [N_WindowDef (window_ s)] [] [] None None LIMIT_OPTION_DEFAULT [] None SETOP_NONE false None None).
Definition type_ (names : list Node) : TypeName.t Node := TypeName.mk names 0 false false [] (-1) [] 0.
Definition not_null_ (conname : option string) : Node :=
  N_Constraint (Constraint.mk CONSTR_NOTNULL conname false false 0 false None None "0" [] [] [] [] None None
    false None None None [] [] "0" "0" "0" [] 0 false false).
Definition column_def (s conname : string) : Node :=
  N_ColumnDef (ColumnDef.mk (Some s) (Some (type_ [name_ "t"])) 0 true false false "0" None None "0" None "0"
    None 0 [not_null_ (Some conname)] [] 0).
Definition cast_pg_catalog (s : string) : Node :=
  N_TypeCast (TypeCast.mk (Some (const_ (Integer 1))) (Some (type_ [name_ "pg_catalog"; name_ s])) 0).

Lemma drop_no_space s t : t <> "" -> drop_trailing_space t = t ->
  drop_trailing_space (s +:+ t) = s +:+ t.
Proof. intros Ht E. by rewrite drop_trailing_app, E. Qed.

Lemma no_frame s B (HS : StringBuf B) (b : B) : deparse_frame deparse (window_ s) B HS b = Ok b.
Proof. reflexivity. Qed.

(** Evaluates the printer on a tree that holds variable strings. *)
Ltac print_copied :=
  unfold text_of;
  do 3 (unfold select_body, deparseWindowDef, seqd;
        cbn -[String.append drop_trailing pretty];
        rewrite ?no_frame; cbn -[String.append drop_trailing pretty]);
  change (fmt_d 1) with "1";
  change (quote_identifier "f") with "f"; change (quote_identifier "t") with "t";
  change (pretty 1%positive) with "1";
  repeat (rewrite drop_trailing_app by done; cbn [drop_trailing Ascii.eqb Bool.eqb];
          rewrite ?string_app_nil_r);
  rewrite <-?string_app_assoc, ?string_app_nil_l; try reflexivity.

(** A name printed without quotes is in the text as it is, so it can be any text, a
    second statement included; whatever it is, the trees are well shaped but for it. *)
Theorem unquoted_names (s c : string) :
  (let raw := any_str : RawNames in
   wf E_Expr (over_name s) && wf E_Expr (named_arg s) && wf E_SelectStmt (window_name s) &&
   wf E_ColumnDef (column_def s c) && wf E_Expr (cast_pg_catalog "a;b") = true) /\
  text_of (deparse E_Expr (over_name s)) = Ok (drop_trailing_space ("f() OVER " +:+ s)) /\
  text_of (deparse E_Expr (named_arg s)) = Ok ("f(" +:+ s +:+ " := 1)") /\
  text_of (deparse E_SelectStmt (window_name s)) = Ok ("SELECT 1 WINDOW " +:+ s +:+ " AS ()") /\
  text_of (deparse E_ColumnDef (column_def s c)) =
    Ok (s +:+ " t CONSTRAINT " +:+ c +:+ " NOT NULL") /\
  text_of (deparse E_Expr (cast_pg_catalog "a;b")) = Ok "1::pg_catalog.a;b".
Proof.
  split; [reflexivity|]. repeat apply conj; [..|vm_compute; reflexivity].
  all: print_copied.
Qed.

(** [NOT] and [IS NULL] around an operand that is no AND or OR. *)
Lemma deparse_is_null a : deparse E_Expr (is_null_ a) =d= (deparse E_Expr a ;;; str " IS NULL").
Proof. intros B HS b. rewrite (deparse_eq E_Expr (is_null_ a)). reflexivity. Qed.

Lemma deparse_not a :
  is_and_or a = false ->
  deparse E_Expr (bool_ NOT_EXPR [a]) =d= (str "NOT " ;;; deparse E_Expr a).
Proof.
  intros Ha. rewrite (deparse_eq E_Expr (bool_ NOT_EXPR [a])).
  change (deparseExpr_body deparse (bool_ NOT_EXPR [a])) with
    (skip ;;; str "NOT " ;;; bool_arg deparse a).
  unfold bool_arg. rewrite Ha. unfold parens_if, when. by rewrite !seqd_skip_l, seqd_skip_r.
Qed.

(** C40. The text does not determine the tree: for every operand [a] that is no
    AND or OR, [(NOT a) IS NULL] and [NOT (a IS NULL)] are different trees and
    [deparseExpr] does the same on both, on every buffer, because
    [deparseNullTest] puts no parentheses around its argument. *)
Theorem null_test_not_injective (a : Node) (Ha : is_and_or a = false) :
  is_null_ (bool_ NOT_EXPR [a]) <> bool_ NOT_EXPR [is_null_ a] /\
  deparseExpr (is_null_ (bool_ NOT_EXPR [a])) =d= deparseExpr (bool_ NOT_EXPR [is_null_ a]).
Proof.
  split; [done|]. unfold deparseExpr.
  by rewrite deparse_is_null, !deparse_not, deparse_is_null, seqd_assoc by done.
Qed.

Lemma null_test_not_injective_witness :
  is_and_or (col_ "a") = false /\
  deparseExpr (is_null_ (bool_ NOT_EXPR [col_ "a"])) =d=
  deparseExpr (bool_ NOT_EXPR [is_null_ (col_ "a")]).
Proof. split; [reflexivity|]. apply (null_test_not_injective (col_ "a")). reflexivity. Defined.

Lemma set_list_text (self : entry -> Node -> dep) (x a b : string) (v r : Node) :
  IsA_MultiAssignRef v = false ->
  deparseSetClauseList self [target_ (Some x) v; multi_ r 1 2 a; multi_ r 2 2 b] =d=
  (str (quote_identifier x) ;;; str " = " ;;; self E_Expr v ;;;
   str ", " ;;; str "(" ;;; str (quote_identifier a) ;;; str ") = " ;;; self E_Expr r).
Proof.
  intros Hv. unfold deparseSetClauseList, set_clauses, multi_assign_targets, deparseSetTarget. cbn. rewrite Hv.
  change (0 + 1 =? 2 - 1) with true. change (0 <? 2 - 1) with true.
  change (negb (0 + 1 =? 0)) with true. cbn [when].
  unfold deparseExpr_, deparseColId. by rewrite !seqd_assoc, !seqd_skip_l, !seqd_skip_r.
Qed.

(** The set list [x = v IS NULL, (a, b) = r] is printed with [(a) = r], on every
    buffer and for all names [x], [a], [b] and expressions [v], [r]: the test that ends
    the column list compares the number of columns with an index into the whole list,
    here 1, the position of the first column. *)
Theorem set_list_loses_columns (x a b : string) (v r : Node) :
  deparseSetClauseList deparse
    [target_ (Some x) (is_null_ v); multi_ r 1 2 a; multi_ r 2 2 b] =d=
  (str (quote_identifier x) ;;; str " = " ;;; deparse E_Expr (is_null_ v) ;;;
   str ", " ;;; str "(" ;;; str (quote_identifier a) ;;; str ") = " ;;; deparse E_Expr r).
Proof. by apply set_list_text. Qed.

(** The locking clause [FOR UPDATE OF s NOWAIT] of one relation [s] is printed without a
    space between the relation and the policy.  When [s] needs no quotes the two read
    as one name; a quoted name still ends at its quote. *)
Theorem lock_policy_glued (s : string) :
  text_of (deparseLockingClause
    (LockingClause.mk [N_RangeVar (table_ s)] LCS_FORUPDATE LockWaitError)) =
  Ok ("FOR UPDATE OF " +:+ quote_identifier s +:+ "NOWAIT").
Proof.
  unfold text_of, deparseLockingClause, seqd.
  cbn -[drop_trailing String.append quote_identifier].
  rewrite drop_no_space, (drop_trailing_app _ _ " ") by done.
  cbn [drop_trailing]. change (drop_trailing_space " ") with "".
  rewrite string_app_nil_r, <-!string_app_assoc. reflexivity.
Qed.
