(* ===== verification/ExprText.v ===== *)
(** * The text of a condition and its reading

    A fragment of SQL expressions (columns, constants, operators, AND, OR, NOT,
    IS [NOT] NULL), its text with the parentheses the deparser uses, and a
    recursive-descent reader with the precedences of the grammar: OR, AND, NOT,
    IS, operators.  Like [makeAndExpr] and [makeOrExpr] of the grammar the
    reader collects [a AND b AND c] in one node.  The theorem of this file is
    that reading the text gives the expression. *)
From S2P Require Import Prelude Buffer Keywords Scansup Quote Lexical.

Local Set Warnings "-register-all".

Inductive sexpr : Type :=
| Col (name : string) (path : list string)
| Num (z : Z)
| Str (s : string)
| NullC
| Op (o : string) (l r : sexpr)
| And (l : list sexpr)
| Or (l : list sexpr)
| Not (e : sexpr)
| IsNull (is_null : bool) (e : sexpr).

Section sexpr_ind.
Context (P : sexpr -> Prop).
Hypothesis HCol : forall n p, P (Col n p).
Hypothesis HNum : forall z, P (Num z).
Hypothesis HStr : forall s, P (Str s).
Hypothesis HNull : P NullC.
Hypothesis HOp : forall o l r, P l -> P r -> P (Op o l r).
Hypothesis HAnd : forall l, Forall P l -> P (And l).
Hypothesis HOr : forall l, Forall P l -> P (Or l).
Hypothesis HNot : forall e, P e -> P (Not e).
Hypothesis HIsNull : forall b e, P e -> P (IsNull b e).

Fixpoint sexpr_ind' (e : sexpr) : P e :=
  let fix all (l : list sexpr) : Forall P l :=
    match l with
    | [] => Forall_nil_2 P
    | x :: l' => Forall_cons_2 P x l' (sexpr_ind' x) (all l')
    end in
  match e with
  | Col n p => HCol n p
  | Num z => HNum z
  | Str s => HStr s
  | NullC => HNull
  | Op o l r => HOp o l r (sexpr_ind' l) (sexpr_ind' r)
  | And l => HAnd l (all l)
  | Or l => HOr l (all l)
  | Not e => HNot e (sexpr_ind' e)
  | IsNull b e => HIsNull b e (sexpr_ind' e)
  end.
End sexpr_ind.

(** ** The text *)

Definition wrap (parens : bool) (s : string) : string := if parens then "(" +:+ s +:+ ")" else s.

Fixpoint join (sep : string) (l : list string) : string :=
  match l with
  | [] => ""
  | [x] => x
  | x :: l' => x +:+ sep +:+ join sep l'
  end.

Definition is_bool2 (e : sexpr) : bool := match e with And _ | Or _ => true | _ => false end.
Definition is_compound (e : sexpr) : bool :=
  match e with And _ | Or _ | Not _ | IsNull _ _ | Op _ _ _ => true | _ => false end.

Definition null_text (is_null : bool) : string := if is_null then " IS NULL" else " IS NOT NULL".

Fixpoint text (e : sexpr) : string :=
  match e with
  | Col n p => join "." (map quote_identifier (n :: p))
  | Num z => pretty z
  | Str s => string_literal s
  | NullC => "NULL"
  | Op o l r =>
      wrap (is_compound l) (text l) +:+ " " +:+ o +:+ " " +:+ wrap (is_compound r) (text r)
  | And l => join " AND " (map (fun e => wrap (is_bool2 e) (text e)) l)
  | Or l => join " OR " (map (fun e => wrap (is_bool2 e) (text e)) l)
  | Not e => "NOT " +:+ wrap (is_bool2 e) (text e)
  | IsNull b e => text e +:+ null_text b
  end.

(** ** Operators

    The rules of the scanner for operators.  [yytext] is the longest run of
    operator characters, not empty. *)

Definition yychar (yytext : string) (i : nat) : ascii :=
  match String.get i yytext with Some c => c | None => NUL end.

(** [strstr(yytext, "/*")], [strstr(yytext, "--")] and the earlier of the two. *)
Definition comment_start (yytext : string) : option nat :=
  match String.index 0 "/*" yytext, String.index 0 "--" yytext with
  | Some slashstar, Some dashdash => Some (if (dashdash <? slashstar)%nat then dashdash else slashstar)
  | None, dashdash => dashdash
  | slashstar, None => slashstar
  end.

(** The loop that looks for a qualifying character before position [ic + 1]. *)
Fixpoint qualifying (yytext : string) (n : nat) : bool :=
  match n with
  | O => false
  | S ic => one_of "~!@#^&|`?%" (yychar yytext ic) || qualifying yytext ic
  end.

(** [do nchars--; while (nchars > 1 && yytext[nchars - 1] is a sign);] *)
Fixpoint strip_signs (yytext : string) (nchars : nat) : nat :=
  match nchars with
  | O => O
  | S n =>
      if (1 <? n)%nat && one_of "+-" (yychar yytext (n - 1)) then strip_signs yytext n else n
  end.

(** How many of the characters belong to the token. *)
Definition operator_length (yytext : string) : nat :=
  let nchars := match comment_start yytext with Some n => n | None => String.length yytext end in
  let nchars :=
    if (1 <? nchars)%nat && one_of "+-" (yychar yytext (nchars - 1)) &&
       negb (qualifying yytext (nchars - 1))
    then strip_signs yytext nchars else nchars in
  let nchars :=
    if Ascii.eqb (yychar yytext 0) "?" &&
       forallb (fun op => negb (String.eqb yytext op))
         ["?<@"; "?@>"; "?~"; "?@"; "?|"; "?&"; "?#"; "?-"; "?-|"; "?||"]
    then 1%nat else nchars in
  if negb (Ascii.eqb (yychar yytext 0) "?") &&
     forallb (fun op => negb (String.eqb yytext op)) ["^?"; "#?"; "@?"]
  then match String.index 0 "?" yytext with Some n => n | None => nchars end
  else nchars.

Inductive operator_token : Type :=
| Self (c : ascii)
| EQUALS_GREATER | GREATER_EQUALS | LESS_EQUALS | NOT_EQUALS
| TOp (str : string).

(** The tokens of one and two characters, by their own rules or by the end of the
    operator rule. *)
Definition short_operator (text : string) : option operator_token :=
  if String.eqb text "=>" then Some EQUALS_GREATER
  else if String.eqb text ">=" then Some GREATER_EQUALS
  else if String.eqb text "<=" then Some LESS_EQUALS
  else if String.eqb text "<>" || String.eqb text "!=" then Some NOT_EQUALS
  else
    match text with
    | String c EmptyString => if one_of ",()[].;:+-*/%^<>=?" c then Some (Self c) else None
    | _ => None
    end.

(** The token, and the number of its characters; [None] is a comment, which
    begins with [/*] or [--], or the error [operator too long]. *)
Definition scan_operator (yytext : string) : option (operator_token * nat) :=
  let nchars := operator_length yytext in
  let text := String.substring 0 nchars yytext in
  if bool_decide (comment_start yytext = Some 0%nat) then None
  else
    match short_operator text with
    | Some t => Some (t, nchars)
    | None => if (64 <=? nchars)%nat then None else Some (TOp text, nchars)
    end.

(** The operator that the grammar makes of the token between two expressions.
    [=>] is none, and [?] is also the placeholder of a parameter, which is left
    out here. *)
Definition binary_operator (t : operator_token) : option string :=
  match t with
  | Self c => if one_of "+-*/%^<>=" c then Some (String c "") else None
  | EQUALS_GREATER => None
  | GREATER_EQUALS => Some ">="
  | LESS_EQUALS => Some "<="
  | NOT_EQUALS => Some "<>"
  | TOp str => Some str
  end.

(** The operator at the beginning of [yytext] and its length. *)
Definition operator_of (yytext : string) : option (string * nat) :=
  match scan_operator yytext with
  | Some (t, n) => match binary_operator t with Some o => Some (o, n) | None => None end
  | None => None
  end.

Example operators_sample :
  map operator_of ["="; "=-"; "*-"; "!="; "<>"; "@-"; "||/"; "+/*"; "?"; "->>"; "--"; "=>"] =
  [Some ("=", 1%nat); Some ("=", 1%nat); Some ("*", 1%nat); Some ("<>", 2%nat); Some ("<>", 2%nat);
   Some ("@-", 2%nat); Some ("||/", 3%nat); Some ("+", 1%nat); None; Some ("->>", 3%nat); None; None].
Proof. vm_compute. reflexivity. Qed.

(** ** Which expressions can be read back *)

(** The scanner takes the whole of [o] as one operator of this name. *)
Definition op_ok (o : string) : bool :=
  isOp o && negb (String.eqb o "") && bool_decide (operator_of o = Some (o, String.length o)).

(** A name that the scanner neither rejects nor truncates. *)
Definition name_ok (n : string) : bool :=
  no_nul n && (0 <? strlen n)%Z && (strlen n <? NAMEDATALEN)%Z.

Definition is_and (e : sexpr) : bool := match e with And _ => true | _ => false end.
Definition is_or (e : sexpr) : bool := match e with Or _ => true | _ => false end.

(** At least two elements, the first of which is not of the same kind. *)
Definition ok_list (same : sexpr -> bool) (l : list sexpr) : bool :=
  match l with x :: _ :: _ => negb (same x) | _ => false end.

(** A larger number is not an integer constant: the scanner makes a float of the
    digits, and the sign is put on later. *)
Definition int_constant (z : Z) : bool := (Z.abs z <=? 2147483647)%Z.

Fixpoint ok (e : sexpr) : bool :=
  match e with
  | Col n p => name_ok n && forallb name_ok p
  | Num z => int_constant z
  | Str _ | NullC => true
  | Op o l r => op_ok o && ok l && ok r
  | And l => ok_list is_and l && forallb ok l
  | Or l => ok_list is_or l && forallb ok l
  | Not e => ok e
  | IsNull _ e => negb (is_bool2 e) && negb (match e with Not _ => true | _ => false end) && ok e
  end.

(** ** The reader *)

(** The text after the prefix [p]. *)
Fixpoint strip (p s : string) : option string :=
  match p with
  | EmptyString => Some s
  | String c p' =>
      match s with
      | EmptyString => None
      | String d s' => if Ascii.eqb c d then strip p' s' else None
      end
  end.

Fixpoint span (p : ascii -> bool) (s : string) : string * string :=
  match s with
  | EmptyString => (EmptyString, EmptyString)
  | String c s' =>
      if p c then let '(w, rest) := span p s' in (String c w, rest) else (EmptyString, s)
  end.

Definition cons_fst (c : ascii) (r : string * string) : string * string := (String c (fst r), snd r).

(** A quoted token, after its first quote, and the text behind it. *)
Fixpoint read_quoted_to (q : ascii) (s : string) : option (string * string) :=
  match s with
  | EmptyString => None
  | String c rest =>
      if Ascii.eqb c q then
        match rest with
        | EmptyString => Some (EmptyString, rest)
        | String c' rest' =>
            if Ascii.eqb c' q then cons_fst q <$> read_quoted_to q rest' else Some (EmptyString, rest)
        end
      else cons_fst c <$> read_quoted_to q rest
  end.

(** The same for [E'...']. *)
Fixpoint read_escaped_to (s : string) : option (string * string) :=
  match s with
  | EmptyString => None
  | String c rest =>
      if Ascii.eqb c BACKSLASH then
        match rest with
        | EmptyString => None
        | String c' rest' =>
            if string_existsb (Ascii.eqb c') "01234567xuU" then None
            else cons_fst (unescape c') <$> read_escaped_to rest'
        end
      else if Ascii.eqb c SQUOTE then
        match rest with
        | EmptyString => Some (EmptyString, rest)
        | String c' rest' =>
            if Ascii.eqb c' SQUOTE then cons_fst SQUOTE <$> read_escaped_to rest'
            else Some (EmptyString, rest)
        end
      else cons_fst c <$> read_escaped_to rest
  end.

(** An identifier: quoted, or a word that is not a reserved keyword. *)
Definition read_name (s : string) : option (string * string) :=
  match s with
  | EmptyString => None
  | String c rest =>
      if Ascii.eqb c DQUOTE then
        match read_quoted_to DQUOTE rest with
        | Some (n, rest) => match identifier n with Some n => Some (n, rest) | None => None end
        | None => None
        end
      else
        let '(w, rest) := span word_char s in
        match read_identifier w with Some n => Some (n, rest) | None => None end
  end.

Fixpoint read_path (fuel : nat) (s : string) : option (list string * string) :=
  match fuel with
  | O => None
  | S fuel =>
      match strip "." s with
      | None => Some ([], s)
      | Some s' =>
          match read_name s' with
          | None => None
          | Some (n, s1) =>
              match read_path fuel s1 with Some (p, s2) => Some (n :: p, s2) | None => None end
          end
      end
  end.

Definition read_number (s : string) : option (Z * string) :=
  let '(sign, s') := match strip "-" s with Some s' => ("-", s') | None => ("", s) end in
  let '(w, rest) := span is_digit s' in
  match read_integer (sign +:+ w) with
  | Some z => if int_constant z then Some (z, rest) else None
  | None => None
  end.

(** [ op ] *)
Definition read_op (s : string) : option (string * string) :=
  match strip " " s with
  | None => None
  | Some s' =>
      let '(yytext, s1) := span op_char s' in
      if String.eqb yytext "" then None
      else
        match operator_of yytext with
        | Some (o, n) =>
            match strip " " (String.substring n (String.length yytext - n) yytext +:+ s1) with
            | Some s2 => Some (o, s2)
            | None => None
            end
        | None => None
        end
  end.

Definition mk_and (l r : sexpr) : sexpr :=
  match l with And ls => And (ls ++ [r]) | _ => And [l; r] end.
Definition mk_or (l r : sexpr) : sexpr :=
  match l with Or ls => Or (ls ++ [r]) | _ => Or [l; r] end.

(** What is to be read: an expression of a precedence level, or the rest of one
    whose beginning has been read. *)
Inductive goal : Type :=
| GOr | GAnd | GNot | GIs | GOp | GAtom
| ROr (e : sexpr) | RAnd (e : sexpr) | RIs (e : sexpr).

Fixpoint rd (fuel : nat) (g : goal) (s : string) : option (sexpr * string) :=
  match fuel with
  | O => None
  | S f =>
      match g with
      | GOr => match rd f GAnd s with Some (e, s1) => rd f (ROr e) s1 | None => None end
      | ROr e =>
          match strip " OR " s with
          | Some s1 => match rd f GAnd s1 with Some (e', s2) => rd f (ROr (mk_or e e')) s2 | None => None end
          | None => Some (e, s)
          end
      | GAnd => match rd f GNot s with Some (e, s1) => rd f (RAnd e) s1 | None => None end
      | RAnd e =>
          match strip " AND " s with
          | Some s1 => match rd f GNot s1 with Some (e', s2) => rd f (RAnd (mk_and e e')) s2 | None => None end
          | None => Some (e, s)
          end
      | GNot =>
          match strip "NOT " s with
          | Some s1 => match rd f GNot s1 with Some (e, s2) => Some (Not e, s2) | None => None end
          | None => rd f GIs s
          end
      | GIs => match rd f GOp s with Some (e, s1) => rd f (RIs e) s1 | None => None end
      | RIs e =>
          match strip " IS NULL" s with
          | Some s1 => rd f (RIs (IsNull true e)) s1
          | None =>
              match strip " IS NOT NULL" s with
              | Some s1 => rd f (RIs (IsNull false e)) s1
              | None => Some (e, s)
              end
          end
      | GOp =>
          match rd f GAtom s with
          | Some (l, s1) =>
              match read_op s1 with
              | Some (o, s2) =>
                  match rd f GAtom s2 with Some (r, s3) => Some (Op o l r, s3) | None => None end
              | None => Some (l, s1)
              end
          | None => None
          end
      | GAtom =>
          match s with
          | EmptyString => None
          | String c rest =>
              if Ascii.eqb c "(" then
                match rd f GOr rest with
                | Some (e, s1) => match strip ")" s1 with Some s2 => Some (e, s2) | None => None end
                | None => None
                end
              else if Ascii.eqb c SQUOTE then
                match read_quoted_to SQUOTE rest with Some (v, s1) => Some (Str v, s1) | None => None end
              else if Ascii.eqb c "E" then
                match strip "'" rest with
                | Some s1 =>
                    match read_escaped_to s1 with Some (v, s2) => Some (Str v, s2) | None => None end
                | None => None
                end
              else if is_digit c || Ascii.eqb c "-" then
                match read_number s with Some (z, s1) => Some (Num z, s1) | None => None end
              else
                match strip "NULL" s with
                | Some s1 => Some (NullC, s1)
                | None =>
                    match read_name s with
                    | Some (n, s1) =>
                        match read_path f s1 with Some (p, s2) => Some (Col n p, s2) | None => None end
                    | None => None
                    end
                end
          end
      end
  end.

(** The whole text. *)
Definition read_expr (fuel : nat) (s : string) : option sexpr :=
  match rd fuel GOr s with Some (e, EmptyString) => Some e | _ => None end.

Example read_1 :
  read_expr 50 "a.b = 1 AND (c IS NULL OR NOT d) AND 'x' || y = 'it''s'" = None.
Proof. vm_compute. reflexivity. Qed.

Example read_2 :
  read_expr 50 "a.b = 1 AND (c IS NULL OR NOT d) AND ('x' || y) = 'it''s'" =
  Some (And [Op "=" (Col "a" ["b"]) (Num 1);
             Or [IsNull true (Col "c" []); Not (Col "d" [])];
             Op "=" (Op "||" (Str "x") (Col "y" [])) (Str "it's")]).
Proof. vm_compute. reflexivity. Qed.

(** ** What may follow *)

(** The rest of the text after a name or a number. *)
Definition name_end (rest : string) : bool :=
  match rest with
  | EmptyString => true
  | String c _ => negb (word_char c || Ascii.eqb c DQUOTE)
  end.

Definition closes (rest : string) : Prop := rest = "" \/ exists r, rest = ")" +:+ r.
Definition after_and (rest : string) : Prop := closes rest \/ exists r, rest = " OR " +:+ r.
Definition after_is (rest : string) : Prop := after_and rest \/ exists r, rest = " AND " +:+ r.
Definition after_op (rest : string) : Prop := after_is rest \/ exists b r, rest = null_text b +:+ r.
Definition after_atom (rest : string) : Prop :=
  after_op rest \/ exists o r, op_ok o = true /\ rest = " " +:+ o +:+ " " +:+ r.

(** ** Lemmas: the parts of the reader *)

Lemma strip_app p s : strip p (p +:+ s) = Some s.
Proof. induction p as [|c p IH]; [done|]. rewrite string_app_cons. cbn. by rewrite Ascii.eqb_refl. Qed.

Lemma span_app p w rest :
  string_forall p w = true -> match rest with EmptyString => true | String c _ => negb (p c) end = true ->
  span p (w +:+ rest) = (w, rest).
Proof.
  intros Hw Hr. induction w as [|c w IH].
  - rewrite string_app_nil_l. destruct rest as [|c r]; [done|]. cbn. by destruct (p c).
  - cbn in Hw. apply andb_true_iff in Hw as [Hc Hw]. rewrite string_app_cons. cbn.
    by rewrite Hc, IH.
Qed.

Lemma substring_0 n s : String.substring n 0 s = "".
Proof. revert n. induction s as [|c s IH]; intros [|n]; cbn; auto. Qed.

(** The shapes of the rests, by their first characters. *)
Ltac rest_cases H :=
  repeat match type of H with
  | after_atom _ => destruct H as [H|(? & ? & ? & ->)]
  | after_op _ => destruct H as [H|(b & ? & ->)]
  | after_is _ => destruct H as [H|[? ->]]
  | after_and _ => destruct H as [H|[? ->]]
  | closes _ => destruct H as [->|[? ->]]
  end.

Lemma after_atom_name_end rest : after_atom rest -> name_end rest = true.
Proof. intros H. rest_cases H; try done. by destruct b. Qed.

Lemma after_atom_no_dot rest : after_atom rest -> strip "." rest = None.
Proof. intros H. rest_cases H; try done. by destruct b. Qed.

Lemma after_atom_not_digit rest :
  after_atom rest -> match rest with EmptyString => true | String c _ => negb (is_digit c) end = true.
Proof. intros H. rest_cases H; try done. by destruct b. Qed.

Lemma after_atom_not_quote rest :
  after_atom rest -> match rest with EmptyString => true | String c _ => negb (Ascii.eqb c SQUOTE) end = true.
Proof. intros H. rest_cases H; try done. by destruct b. Qed.

Lemma after_op_no_op rest : after_op rest -> read_op rest = None.
Proof. intros H. rest_cases H; try done. by destruct b. Qed.

Lemma after_is_no_null rest :
  after_is rest -> strip " IS NULL" rest = None /\ strip " IS NOT NULL" rest = None.
Proof. intros H. by rest_cases H. Qed.

Lemma after_and_no_and rest : after_and rest -> strip " AND " rest = None.
Proof. intros H. by rest_cases H. Qed.

Lemma closes_no_or rest : closes rest -> strip " OR " rest = None.
Proof. intros H. by rest_cases H. Qed.

Lemma read_op_app o rest : op_ok o = true -> read_op (" " +:+ o +:+ " " +:+ rest) = Some (o, rest).
Proof.
  intros Ho. unfold op_ok in Ho. apply andb_true_iff in Ho as [[Ho Hne]%andb_true_iff E%bool_decide_eq_true].
  unfold read_op. rewrite strip_app, span_app by done. apply negb_true_iff in Hne as ->.
  rewrite E, Nat.sub_diag, substring_0, string_app_nil_l. by rewrite strip_app.
Qed.

(** *** Names *)

Lemma read_quoted_to_double s rest :
  match rest with EmptyString => true | String c _ => negb (Ascii.eqb c DQUOTE) end = true ->
  read_quoted_to DQUOTE (double_quotes s +:+ String DQUOTE rest) = Some (s, rest).
Proof.
  intros Hr. induction s as [|c s IH].
  - rewrite string_app_nil_l. cbn. destruct rest as [|d r]; [done|]. by apply negb_true_iff in Hr as ->.
  - cbn [double_quotes]. destruct (Ascii.eqb_spec c DQUOTE) as [->|Hne]; rewrite !string_app_cons;
      cbn -[String.append].
    + by rewrite IH.
    + apply Ascii.eqb_neq in Hne as ->. by rewrite IH.
Qed.

Lemma ident_word c : ident_char c = true -> word_char c = true.
Proof.
  intros H. enough (E : implb (ident_char c) (word_char c) = true) by by rewrite H in E.
  ascii_cases (fun c => implb (ident_char c) (word_char c)).
Qed.

Lemma name_ok_identifier s : name_ok s = true -> no_nul s = true /\ identifier s = Some s.
Proof.
  unfold name_ok. rewrite !andb_true_iff, !Z.ltb_lt. intros [[Hn ?] ?].
  split; [done|]. by apply identifier_short.
Qed.

(** A bare identifier is a word and reads as itself. *)
Lemma quote_identifier_cases s :
  name_ok s = true ->
  (exists c r, s = String c r /\ quote_identifier s = s /\ Ascii.eqb c DQUOTE = false /\
     ident_start s = true /\ string_forall word_char s = true /\ read_identifier s = Some s) \/
  quote_identifier s = String DQUOTE (double_quotes s +:+ String DQUOTE EmptyString).
Proof.
  intros [Hn Hi]%name_ok_identifier. unfold quote_identifier. rewrite ident_is_safe_spec by done.
  destruct (_ && _) eqn:H; [left|by right].
  apply andb_true_iff in H as [[Hs Ha]%andb_true_iff Hk].
  destruct s as [|c s]; [done|]. exists c, s. split; [done|]. split; [done|].
  pose proof (ident_start_not_dquote _ _ Hs) as Hc. split; [done|]. split; [done|]. split.
  - eapply string_forall_impl, Ha. apply ident_word.
  - unfold read_identifier. by rewrite Hc, safe_bare_word, Hk, ident_chars_downcase.
Qed.

Lemma read_name_quote s rest :
  name_ok s = true -> name_end rest = true ->
  read_name (quote_identifier s +:+ rest) = Some (s, rest).
Proof.
  intros Hn Hr. destruct (quote_identifier_cases s Hn) as [(c & r & E & -> & Hc & _ & Hw & Hid)| ->].
  - subst s. unfold read_name. rewrite string_app_cons, Hc, <-string_app_cons, span_app, Hid; [done..|].
    destruct rest as [|d rest]; [done|]. cbn in Hr. apply negb_true_iff, orb_false_iff in Hr as [-> _]. done.
  - rewrite string_app_cons. unfold read_name. change (Ascii.eqb DQUOTE DQUOTE) with true. cbv iota.
    rewrite <-string_app_assoc. change (String DQUOTE "" +:+ rest) with (String DQUOTE rest).
    rewrite read_quoted_to_double; [by rewrite (proj2 (name_ok_identifier s Hn))|].
    destruct rest as [|d rest]; [done|]. cbn in Hr |- *. by apply negb_true_iff, orb_false_iff in Hr as [_ ->].
Qed.

Lemma read_path_join p rest :
  forallb name_ok p = true -> after_atom rest ->
  read_path (S (List.length p))
    (match p with [] => "" | _ => "." +:+ join "." (map quote_identifier p) end +:+ rest) = Some (p, rest).
Proof.
  intros Hp Hr. pose proof (after_atom_name_end _ Hr). pose proof (after_atom_no_dot _ Hr) as Hd.
  induction p as [|n p IH]; [cbn [read_path]; rewrite string_app_nil_l; by rewrite Hd|].
  cbn [forallb] in Hp. apply andb_true_iff in Hp as [Hn Hp]. specialize (IH Hp).
  cbn [List.length]. remember (S (List.length p)) as k. cbn [read_path map].
  destruct p as [|m p].
  - cbn [join map]. rewrite <-string_app_assoc, strip_app, read_name_quote by done. cbn [map] in IH.
    rewrite string_app_nil_l in IH. by rewrite IH.
  - change (join "." (quote_identifier n :: map quote_identifier (m :: p))) with
      (quote_identifier n +:+ "." +:+ join "." (map quote_identifier (m :: p))).
    rewrite <-!string_app_assoc, strip_app, read_name_quote by done.
    cbn [map] in IH |- *. rewrite <-string_app_assoc in IH. by rewrite IH.
Qed.

(** *** Constants *)

Lemma read_quoted_to_literal v rest :
  has_backslash v = false ->
  match rest with EmptyString => true | String c _ => negb (Ascii.eqb c SQUOTE) end = true ->
  read_quoted_to SQUOTE (literal_body v +:+ String SQUOTE rest) = Some (v, rest).
Proof.
  intros Hv Hr. induction v as [|c s IH].
  - rewrite string_app_nil_l. cbn. destruct rest as [|d r]; [done|]. by apply negb_true_iff in Hr as ->.
  - unfold has_backslash in *. cbn [string_existsb literal_body] in *.
    apply orb_false_iff in Hv as [Hc Hs]. unfold SQL_STR_DOUBLE.
    rewrite (Ascii.eqb_sym c BACKSLASH), Hc, orb_false_r.
    destruct (Ascii.eqb_spec c SQUOTE) as [->|Hne]; rewrite !string_app_cons; cbn -[String.append].
    + by rewrite IH.
    + apply Ascii.eqb_neq in Hne as ->. by rewrite IH.
Qed.

Lemma read_escaped_to_literal v rest :
  match rest with EmptyString => true | String c _ => negb (Ascii.eqb c SQUOTE) end = true ->
  read_escaped_to (literal_body v +:+ String SQUOTE rest) = Some (v, rest).
Proof.
  intros Hr. induction v as [|c s IH].
  - rewrite string_app_nil_l. cbn. destruct rest as [|d r]; [done|]. by apply negb_true_iff in Hr as ->.
  - cbn [literal_body]. unfold SQL_STR_DOUBLE.
    destruct (Ascii.eqb_spec c SQUOTE) as [->|Hq]; cbn [orb].
    { rewrite !string_app_cons; cbn -[String.append]. by rewrite IH. }
    destruct (Ascii.eqb_spec c BACKSLASH) as [->|Hb]; rewrite !string_app_cons; cbn -[String.append].
    + by rewrite IH.
    + apply Ascii.eqb_neq in Hq as ->. apply Ascii.eqb_neq in Hb as ->. by rewrite IH.
Qed.

Lemma pretty_digits (p : positive) :
  exists c s, pretty (Zpos p) = String c s /\ is_digit c = true /\
    string_forall is_digit (String c s) = true /\ pretty (Zneg p) = "-" +:+ pretty (Zpos p).
Proof.
  destruct (pretty_N_spec (Npos p)) as (d & E & _ & Hf & _ & Hne).
  assert (Ed : pretty (Zpos p) = d) by exact E. destruct d as [|c s]; [done|].
  exists c, s. rewrite Ed. split; [done|]. split; [by apply andb_true_iff in Hf as [? _]|].
  split; [done|]. change (pretty (Zneg p)) with ("-" +:+ pretty (Npos p)). by rewrite E.
Qed.

Lemma digit_not_other c d : is_digit c = true -> is_digit d = false -> Ascii.eqb c d = false.
Proof. intros Hc Hd. apply Ascii.eqb_neq. intros ->. congruence. Qed.

(** The text of a number: its first character and what reading gives. *)
Lemma read_number_pretty z rest :
  int_constant z = true ->
  match rest with EmptyString => true | String c _ => negb (is_digit c) end = true ->
  exists c s, pretty z = String c s /\ (is_digit c || Ascii.eqb c "-") = true /\
    Ascii.eqb c "(" = false /\ Ascii.eqb c SQUOTE = false /\ Ascii.eqb c "E" = false /\
    read_number (pretty z +:+ rest) = Some (z, rest).
Proof.
  intros Hi Hr. pose proof (read_pretty z) as Hz. destruct z as [|p|p].
  - exists "0"%char, "". repeat split. unfold read_number. change (pretty 0%Z) with "0".
    change (strip "-" ("0" +:+ rest)) with (@None string).
    cbv beta iota. by rewrite span_app.
  - destruct (pretty_digits p) as (c & s & E & Hc & Hf & _).
    exists c, s. rewrite E, Hc. repeat split; try (by apply digit_not_other). unfold read_number.
    assert (Hs : strip "-" (String c s +:+ rest) = None).
    { rewrite string_app_cons. cbn [strip]. by rewrite Ascii.eqb_sym, digit_not_other. }
    rewrite Hs, span_app by done. rewrite string_app_nil_l, <-E. by rewrite Hz, Hi.
  - destruct (pretty_digits p) as (c & s & E & Hc & Hf & En).
    exists "-"%char, (pretty (Zpos p)). rewrite En. repeat split. unfold read_number.
    rewrite <-string_app_assoc, strip_app. rewrite E, span_app by done.
    rewrite <-E, <-En. by rewrite Hz, Hi.
Qed.

(** ** Lemmas: the levels *)

Lemma read_path_mono f s r : read_path f s = Some r -> read_path (S f) s = Some r.
Proof.
  revert s r. induction f as [|f IH]; intros s r; [done|]. intros H.
  remember (S f) as f1. rewrite Heqf1 in H. cbn [read_path] in H |- *. subst f1.
  destruct (strip "." s) as [s'|]; [|done]. destruct (read_name s') as [[n s1]|]; [|done].
  destruct (read_path f s1) as [[p s2]|] eqn:E; [|done]. by rewrite (IH _ _ E).
Qed.

(** More fuel does not change what is read. *)
Lemma rd_mono f g s r : rd f g s = Some r -> rd (S f) g s = Some r.
Proof.
  revert g s r. induction f as [|f IH]; intros g s r; [done|]. intros H.
  remember (S f) as f1. rewrite Heqf1 in H. cbn [rd] in H |- *.
  subst f1.
  repeat (cbv beta iota in H |- *;
    match type of H with
    | context [match rd f ?g ?s with _ => _ end] =>
        let E := fresh in destruct (rd f g s) as [[? ?]|] eqn:E; [rewrite (IH _ _ _ E)|done]
    | context [match read_path f ?s with _ => _ end] =>
        let E := fresh in destruct (read_path f s) as [[? ?]|] eqn:E; [rewrite (read_path_mono _ _ _ E)|done]
    | match ?m with _ => _ end = _ => destruct m; try done
    end); auto.
Qed.

Lemma rd_le f f' g s r : (f <= f')%nat -> rd f g s = Some r -> rd f' g s = Some r.
Proof. induction 1; auto using rd_mono. Qed.

(** [reads g s r]: with enough fuel. *)
Definition reads (g : goal) (s : string) (r : sexpr * string) : Prop := exists f, rd f g s = Some r.

Lemma reads_2 g1 s1 r1 g2 s2 r2 :
  reads g1 s1 r1 -> reads g2 s2 r2 -> exists f, rd f g1 s1 = Some r1 /\ rd f g2 s2 = Some r2.
Proof.
  intros [f1 H1] [f2 H2]. exists (f1 + f2)%nat.
  split; eapply rd_le; [|done| |done]; lia.
Qed.

Lemma atom_op s e rest : reads GAtom s (e, rest) -> after_op rest -> reads GOp s (e, rest).
Proof. intros [f H] Hr. exists (S f). cbn [rd]. by rewrite H, after_op_no_op. Qed.

Lemma null_done e rest : after_is rest -> reads (RIs e) rest (e, rest).
Proof. intros Hr. exists 1%nat. cbn [rd]. by destruct (after_is_no_null rest Hr) as [-> ->]. Qed.

Lemma null_step e b rest r : reads (RIs (IsNull b e)) rest r -> reads (RIs e) (null_text b +:+ rest) r.
Proof.
  intros [f H]. exists (S f). destruct b; cbn [null_text rd].
  - by rewrite strip_app.
  - change (strip " IS NULL" (" IS NOT NULL" +:+ rest)) with (@None string). by rewrite strip_app.
Qed.

Lemma op_is s e rest rest' r :
  reads GOp s (e, rest') -> reads (RIs e) rest' r -> r = (fst r, rest) -> reads GIs s r.
Proof.
  intros H1 H2 _. destruct (reads_2 _ _ _ _ _ _ H1 H2) as (f & E1 & E2). exists (S f). cbn [rd].
  by rewrite E1.
Qed.

Lemma is_not s e rest : strip "NOT " s = None -> reads GIs s (e, rest) -> reads GNot s (e, rest).
Proof. intros Hs [f H]. exists (S f). cbn [rd]. by rewrite Hs. Qed.

Lemma not_and s e rest : reads GNot s (e, rest) -> after_and rest -> reads GAnd s (e, rest).
Proof.
  intros [f H] Hr. exists (S (S f)). remember (S f) as f1. cbn [rd]. subst f1.
  rewrite (rd_mono _ _ _ _ H). cbn [rd]. by rewrite after_and_no_and.
Qed.

Lemma and_or s e rest : reads GAnd s (e, rest) -> closes rest -> reads GOr s (e, rest).
Proof.
  intros [f H] Hr. exists (S (S f)). remember (S f) as f1. cbn [rd]. subst f1.
  rewrite (rd_mono _ _ _ _ H). cbn [rd]. by rewrite closes_no_or.
Qed.

Lemma parens_atom s e rest : reads GOr (s +:+ ")" +:+ rest) (e, ")" +:+ rest) ->
  reads GAtom ("(" +:+ s +:+ ")" +:+ rest) (e, rest).
Proof.
  intros [f H]. exists (S f). change ("(" +:+ ?x) with (String "(" x). cbn [rd].
  change (Ascii.eqb "(" "(") with true. cbv iota. by rewrite H, strip_app.
Qed.

(** ** Reading the text *)

Definition is_not_expr (e : sexpr) : bool := match e with Not _ => true | _ => false end.

(** What the text of [e] gives at each level, when what follows allows it. *)
Record readable (e : sexpr) : Prop := {
  as_or : forall rest, closes rest -> reads GOr (text e +:+ rest) (e, rest);
  as_not : is_bool2 e = false -> forall rest, after_is rest -> reads GNot (text e +:+ rest) (e, rest);
  as_is : is_bool2 e = false -> is_not_expr e = false ->
    forall rest r, after_op rest -> reads (RIs e) rest r -> reads GIs (text e +:+ rest) r;
  as_atom : is_compound e = false -> forall rest, after_atom rest -> reads GAtom (text e +:+ rest) (e, rest)
}.

(** *** Atoms *)

Lemma col_text n p :
  text (Col n p) =
  quote_identifier n +:+ match p with [] => "" | _ => "." +:+ join "." (map quote_identifier p) end.
Proof. destruct p as [|m p]; [by rewrite string_app_nil_r|done]. Qed.

(** The first character of an identifier. *)
Definition name_start (c : ascii) : bool :=
  negb (Ascii.eqb c "(" || Ascii.eqb c SQUOTE || Ascii.eqb c "E" || is_digit c || Ascii.eqb c "-" ||
        Ascii.eqb c "N").

Lemma ident_start_name_start c s : ident_start (String c s) = true -> name_start c = true.
Proof.
  cbn [ident_start]. intros H.
  match type of H with ?f = _ => enough (E : implb f (name_start c) = true) by by rewrite H in E end.
  clear H. destruct c as [[] [] [] [] [] [] [] []]; vm_compute; reflexivity.
Qed.

Lemma quote_identifier_start n :
  name_ok n = true -> exists c s, quote_identifier n = String c s /\ name_start c = true.
Proof.
  intros Hn. destruct (quote_identifier_cases n Hn) as [(c & r & E & -> & _ & Hs & _)| ->].
  - exists c, r. split; [done|]. subst n. by apply ident_start_name_start in Hs.
  - by eexists _, _.
Qed.

Ltac name_start_false H :=
  unfold name_start in H; apply negb_true_iff in H; repeat apply orb_false_iff in H as [H ?].

Lemma strip_first c d p s : Ascii.eqb c d = false -> strip (String c p) (String d s) = None.
Proof. intros H. cbn [strip]. by rewrite H. Qed.

Lemma number_start (z : Z) :
  exists c s, pretty z = String c s /\ Ascii.eqb "N" c = false.
Proof.
  destruct z as [|p|p]; [by eexists _, _|..];
    destruct (pretty_digits p) as (c & s & E & Hc & _ & En); [|rewrite En; by eexists _, _].
  exists c, s. split; [done|]. apply Ascii.eqb_neq. by intros <-.
Qed.

(** Only the text of a negation begins with [NOT ]. *)
Lemma no_not e rest :
  ok e = true -> is_bool2 e = false -> is_not_expr e = false -> strip "NOT " (text e +:+ rest) = None.
Proof.
  revert rest. induction e as [n p|z|s| |o l r IHl _|l _|l _|e _|b e IH] using sexpr_ind'; intros rest Hok H2 Hn;
    try discriminate.
  - cbn [ok] in Hok. apply andb_true_iff in Hok as [Hok _].
    rewrite col_text. destruct (quote_identifier_start n Hok) as (c & q & -> & Hc).
    rewrite !string_app_cons. apply strip_first. name_start_false Hc. by rewrite Ascii.eqb_sym.
  - cbn [text]. destruct (number_start z) as (c & s & -> & Hc). rewrite string_app_cons. by apply strip_first.
  - cbn [text]. unfold string_literal. by destruct (has_backslash s).
  - done.
  - cbn [ok] in Hok. apply andb_true_iff in Hok as [[_ Hl]%andb_true_iff _].
    cbn [text]. rewrite <-!string_app_assoc. destruct (is_compound l) eqn:Hc; [done|]. cbn [wrap].
    apply IHl; [done|..]; by destruct l.
  - cbn [ok] in Hok. apply andb_true_iff in Hok as [[Hb Hne]%andb_true_iff Hok].
    apply negb_true_iff in Hb, Hne. cbn [text]. rewrite <-!string_app_assoc. by apply IH.
Qed.

Lemma literal_app v rest :
  string_literal v +:+ rest =
  (if has_backslash v then "E" else "") +:+ String SQUOTE (literal_body v +:+ String SQUOTE rest).
Proof. unfold string_literal. by rewrite <-string_app_assoc, string_app_cons, <-string_app_assoc. Qed.

Lemma rd_quoted f s :
  rd (S f) GAtom (String SQUOTE s) =
  match read_quoted_to SQUOTE s with Some (v, s1) => Some (Str v, s1) | None => None end.
Proof. reflexivity. Qed.

Lemma rd_escaped f s :
  rd (S f) GAtom ("E" +:+ String SQUOTE s) =
  match read_escaped_to s with Some (v, s1) => Some (Str v, s1) | None => None end.
Proof. reflexivity. Qed.

Lemma atom_readable e rest :
  ok e = true -> is_compound e = false -> after_atom rest -> reads GAtom (text e +:+ rest) (e, rest).
Proof.
  intros Hok Hc Hr. pose proof (after_atom_not_digit _ Hr) as Hd. pose proof (after_atom_not_quote _ Hr) as Hq.
  destruct e as [n p|z|s| | | | | |]; try discriminate.
  - cbn [ok] in Hok. apply andb_true_iff in Hok as [Hn Hp]. rewrite col_text.
    exists (S (S (List.length p))). pose proof (read_path_join p rest Hp Hr) as Hj.
    remember (S (List.length p)) as k. cbn [rd].
    pose proof (read_name_quote n (match p with [] => "" | _ => "." +:+ join "." (map quote_identifier p) end +:+ rest) Hn) as Hname.
    rewrite <-string_app_assoc.
    destruct (quote_identifier_start n Hn) as (c & q & E & Hs). rewrite E in Hname |- *.
    rewrite (string_app_cons c q) in Hname |- *. name_start_false Hs.
    repeat match goal with H : Ascii.eqb c _ = false |- _ => rewrite H; clear H | H : is_digit c = false |- _ => rewrite H end.
    cbn [orb]. rewrite strip_first by (by rewrite Ascii.eqb_sym).
    rewrite Hname, Hj; [done|]. destruct p; [|done]. by apply after_atom_name_end.
  - destruct (read_number_pretty z rest Hok Hd) as (c & s & E & Hs & H1 & H2 & H3 & Hz).
    exists 1%nat. cbn [text rd]. rewrite E in Hz |- *. rewrite string_app_cons in Hz |- *.
    by rewrite H1, H2, H3, Hs, Hz.
  - exists 1%nat. cbn [text]. rewrite literal_app. destruct (has_backslash s) eqn:Hb.
    + by rewrite rd_escaped, read_escaped_to_literal.
    + by rewrite string_app_nil_l, rd_quoted, read_quoted_to_literal.
  - by exists 1%nat.
Qed.

(** *** From one level to the next *)

Lemma parens_not s e rest :
  (forall r, closes r -> reads GOr (s +:+ r) (e, r)) -> after_is rest ->
  reads GNot (wrap true s +:+ rest) (e, rest).
Proof.
  intros H Hr. unfold wrap. rewrite <-!string_app_assoc.
  apply is_not; [done|]. eapply (op_is _ e rest rest); [|by apply null_done|done].
  apply atom_op; [|by left]. apply parens_atom, H. right. by eexists.
Qed.

(** An operand of AND, OR and NOT. *)
Lemma operand_not e rest :
  readable e -> after_is rest -> reads GNot (wrap (is_bool2 e) (text e) +:+ rest) (e, rest).
Proof.
  intros He Hr. destruct (is_bool2 e) eqn:H2.
  - apply parens_not; [|done]. apply He.
  - by apply (as_not e He).
Qed.

(** An operand of an operator. *)
Lemma operand_atom e rest :
  readable e -> after_atom rest -> reads GAtom (wrap (is_compound e) (text e) +:+ rest) (e, rest).
Proof.
  intros He Hr. destruct (is_compound e) eqn:Hc.
  - unfold wrap. rewrite <-!string_app_assoc. apply parens_atom, (as_or e He). right. by eexists.
  - by apply (as_atom e He).
Qed.

(** The elements of a list after the first. *)
Definition tail_text (sep : string) (l : list string) : string := foldr (fun x acc => sep +:+ x +:+ acc) "" l.

Lemma join_tail sep x l : join sep (x :: l) = x +:+ tail_text sep l.
Proof.
  revert x. induction l as [|y l IH]; intros x; [by rewrite string_app_nil_r|].
  change (join sep (x :: y :: l)) with (x +:+ sep +:+ join sep (y :: l)). by rewrite IH.
Qed.

Definition operand_text (e : sexpr) : string := wrap (is_bool2 e) (text e).

Lemma after_and_tail l rest :
  after_and rest -> after_is (tail_text " AND " (map operand_text l) +:+ rest).
Proof.
  intros H. destruct l as [|x l]; [by left|]. right. cbn [map tail_text foldr].
  rewrite <-!string_app_assoc. by eexists.
Qed.

Lemma closes_tail l rest :
  closes rest -> after_and (tail_text " OR " (map operand_text l) +:+ rest).
Proof.
  intros H. destruct l as [|x l]; [by left|]. right. cbn [map tail_text foldr].
  rewrite <-!string_app_assoc. by eexists.
Qed.

Lemma and_loop l : forall acc rest, Forall readable l -> after_and rest ->
  reads (RAnd acc) (tail_text " AND " (map operand_text l) +:+ rest) (foldl mk_and acc l, rest).
Proof.
  induction l as [|x l IH]; intros acc rest Hl Hr.
  { exists 1%nat. cbn [rd]. change (tail_text _ _ +:+ rest) with rest. by rewrite after_and_no_and. }
  apply Forall_cons in Hl as [Hx Hl]. cbn [map tail_text foldr foldl]. rewrite <-!string_app_assoc.
  destruct (reads_2 _ _ _ _ _ _ (operand_not x _ Hx (after_and_tail l rest Hr)) (IH (mk_and acc x) rest Hl Hr))
    as (f & E1 & E2).
  exists (S f). cbn [rd]. rewrite strip_app. unfold operand_text at 1. unfold tail_text in E1, E2.
  by rewrite E1, E2.
Qed.

Lemma or_loop l : forall acc rest, Forall readable l -> closes rest ->
  reads (ROr acc) (tail_text " OR " (map operand_text l) +:+ rest) (foldl mk_or acc l, rest).
Proof.
  induction l as [|x l IH]; intros acc rest Hl Hr.
  { exists 1%nat. cbn [rd]. change (tail_text _ _ +:+ rest) with rest. by rewrite closes_no_or. }
  apply Forall_cons in Hl as [Hx Hl]. cbn [map tail_text foldr foldl]. rewrite <-!string_app_assoc.
  pose proof (closes_tail l rest Hr) as Ht.
  destruct (reads_2 _ _ _ _ _ _ (not_and _ _ _ (operand_not x _ Hx (or_introl Ht)) Ht) (IH (mk_or acc x) rest Hl Hr))
    as (f & E1 & E2).
  exists (S f). cbn [rd]. rewrite strip_app. unfold operand_text at 1. unfold tail_text in E1, E2.
  by rewrite E1, E2.
Qed.

Lemma foldl_mk_and ls l : foldl mk_and (And ls) l = And (ls ++ l).
Proof.
  revert ls. induction l as [|x l IH]; intros ls; [by rewrite app_nil_r|]. cbn [foldl mk_and].
  by rewrite IH, <-app_assoc.
Qed.

Lemma foldl_mk_or ls l : foldl mk_or (Or ls) l = Or (ls ++ l).
Proof.
  revert ls. induction l as [|x l IH]; intros ls; [by rewrite app_nil_r|]. cbn [foldl mk_or].
  by rewrite IH, <-app_assoc.
Qed.

(** Collecting a list that may be collected gives it back. *)
Lemma fold_and x l : ok_list is_and (x :: l) = true -> foldl mk_and x l = And (x :: l).
Proof.
  destruct l as [|y l]; [done|]. intros H. cbn [foldl].
  transitivity (foldl mk_and (And [x; y]) l); [by destruct x|apply foldl_mk_and].
Qed.

Lemma fold_or x l : ok_list is_or (x :: l) = true -> foldl mk_or x l = Or (x :: l).
Proof.
  destruct l as [|y l]; [done|]. intros H. cbn [foldl].
  transitivity (foldl mk_or (Or [x; y]) l); [by destruct x|apply foldl_mk_or].
Qed.

(** *** Every expression *)

(** What is left to show of an expression that is not a list. *)
Lemma readable_is e :
  ok e = true -> is_bool2 e = false -> is_not_expr e = false ->
  (forall rest r, after_op rest -> reads (RIs e) rest r -> reads GIs (text e +:+ rest) r) ->
  readable e.
Proof.
  intros Hok H2 Hn H.
  assert (Hnot : forall rest, after_is rest -> reads GNot (text e +:+ rest) (e, rest)).
  { intros rest Hr. apply is_not; [by apply no_not|]. apply H; [by left|by apply null_done]. }
  constructor; auto.
  - intros rest Hr. apply and_or; [apply not_and; [apply Hnot|]|]; unfold after_is, after_and; auto.
  - intros Hc rest Hr. by apply atom_readable.
Qed.

Lemma readable_atom e : ok e = true -> is_compound e = false -> readable e.
Proof.
  intros Hok Hc. apply readable_is; [done|by destruct e|by destruct e|].
  intros rest r Hr Hs. eapply (op_is _ e r.2 rest); [|done|by destruct r].
  apply atom_op; [|done]. apply atom_readable; [done..|by left].
Qed.

Lemma readable_op o l r :
  op_ok o = true -> ok (Op o l r) = true -> readable l -> readable r -> readable (Op o l r).
Proof.
  intros Ho Hok Hl Hr. apply readable_is; [done..|]. intros rest r0 Hrest Hs.
  eapply (op_is _ (Op o l r) r0.2 rest); [|done|by destruct r0].
  cbn [text]. rewrite <-!string_app_assoc.
  assert (Ha : after_atom (" " +:+ o +:+ " " +:+ wrap (is_compound r) (text r) +:+ rest)) by
    (right; by eexists _, _).
  destruct (reads_2 _ _ _ _ _ _ (operand_atom l _ Hl Ha) (operand_atom r rest Hr (or_introl Hrest)))
    as (f & E1 & E2).
  exists (S f). cbn [rd]. by rewrite E1, read_op_app, E2.
Qed.

Lemma readable_is_null b e :
  ok (IsNull b e) = true -> readable e -> readable (IsNull b e).
Proof.
  intros Hok He. apply readable_is; [done..|]. intros rest r Hr Hs.
  cbn [ok] in Hok. apply andb_true_iff in Hok as [[Hb Hn]%andb_true_iff Hok].
  apply negb_true_iff in Hb, Hn. cbn [text]. rewrite <-string_app_assoc. apply (as_is e He); [done..| |].
  - right. by eexists _, _.
  - by apply null_step.
Qed.

Lemma readable_not e : readable e -> readable (Not e).
Proof.
  intros He.
  assert (Hnot : forall rest, after_is rest -> reads GNot (text (Not e) +:+ rest) (Not e, rest)).
  { intros rest Hr. cbn [text]. rewrite <-string_app_assoc. destruct (operand_not e rest He Hr) as [f E].
    exists (S f). cbn [rd]. by rewrite strip_app, E. }
  constructor; try done. intros rest Hr.
  apply and_or; [apply not_and; [apply Hnot|]|]; unfold after_is, after_and; auto.
Qed.

Lemma readable_and l : ok_list is_and l = true -> Forall readable l -> readable (And l).
Proof.
  intros Hok Hl. constructor; try done. intros rest Hr. apply and_or; [|done].
  destruct l as [|x l]; [done|]. cbn [text map]. rewrite join_tail, <-string_app_assoc.
  apply Forall_cons in Hl as [Hx Hl].
  assert (Ha : after_and rest) by by left.
  destruct (reads_2 _ _ _ _ _ _ (operand_not x _ Hx (after_and_tail l rest Ha)) (and_loop l x rest Hl Ha))
    as (f & E1 & E2).
  exists (S f). cbn [rd]. unfold operand_text in E1, E2. by rewrite E1, E2, fold_and.
Qed.

Lemma readable_or l : ok_list is_or l = true -> Forall readable l -> readable (Or l).
Proof.
  intros Hok Hl. constructor; try done. intros rest Hr.
  destruct l as [|x l]; [done|]. cbn [text map]. rewrite join_tail, <-string_app_assoc.
  apply Forall_cons in Hl as [Hx Hl]. pose proof (closes_tail l rest Hr) as Ht.
  destruct (reads_2 _ _ _ _ _ _ (not_and _ _ _ (operand_not x _ Hx (or_introl Ht)) Ht) (or_loop l x rest Hl Hr))
    as (f & E1 & E2).
  exists (S f). cbn [rd]. unfold operand_text in E1, E2. by rewrite E1, E2, fold_or.
Qed.

Lemma forallb_readable l :
  forallb ok l = true -> Forall (fun e => ok e = true -> readable e) l -> Forall readable l.
Proof.
  induction 2 as [|x l Hx _ IH]; [done|]. cbn [forallb] in H. apply andb_true_iff in H as [? ?].
  constructor; auto.
Qed.

Lemma ok_readable e : ok e = true -> readable e.
Proof.
  induction e as [n p|z|s| |o l r IHl IHr|l Hl|l Hl|e IH|b e IH] using sexpr_ind'; intros Hok;
    try (by apply readable_atom); pose proof Hok as H; cbn [ok] in H; repeat rewrite andb_true_iff in H.
  - destruct H as [[? ?] ?]. apply readable_op; auto.
  - destruct H as [? ?]. apply readable_and; [done|]. by apply forallb_readable.
  - destruct H as [? ?]. apply readable_or; [done|]. by apply forallb_readable.
  - apply readable_not; auto.
  - destruct H as [? ?]. apply readable_is_null; auto.
Qed.

(** Reading the text of an expression gives the expression. *)
Lemma read_text e : ok e = true -> exists f0, forall f, (f0 <= f)%nat -> read_expr f (text e) = Some e.
Proof.
  intros Hok. destruct (as_or e (ok_readable e Hok) "" (or_introl eq_refl)) as [f0 E].
  exists f0. intros f Hf. unfold read_expr. rewrite string_app_nil_r in E. by rewrite (rd_le _ _ _ _ _ Hf E).
Qed.
