(* ===== verification/ExprRound.v ===== *)
(** * What the deparser prints of a condition is read back

    [of_node] is the condition a tree stands for, without the positions; the
    deparser prints its text ([ExprText.text]), so that reading what the deparser
    wrote gives the condition again.  [makeAndExpr], [makeOrExpr] and
    [makeNotExpr] of the grammar build on trees what the reader builds on
    conditions. *)
From S2P Require Import Prelude Buffer Keywords Quote Enums Nodes DeparseNames DeparseExpr.
From S2P Require Import DeparseStmt Lexical DeparseSafeStmt ExprText.

(** ** Building conditions *)

Definition makeBoolExpr (boolop : BoolExprType) (args : list Node) (location : Z) : Node :=
  N_BoolExpr (BoolExpr.mk boolop args location).

(** [while (IsA(lexp, A_Expr) && lexp->kind == AEXPR_PAREN) lexp = lexp->lexpr;]
    [IsA] reads the node, so a missing operand is undefined. *)
Fixpoint look_through_parens (lexp : Node) : option Node :=
  match lexp with
  | N_A_Expr a =>
      if bool_decide (a.(A_Expr.kind) = AEXPR_PAREN) then
        match a.(A_Expr.lexpr) with Some l => look_through_parens l | None => None end
      else Some lexp
  | _ => Some lexp
  end.

(** [IsA(n, BoolExpr) && n->boolop == op] and the node. *)
Definition as_BoolExpr (op : BoolExprType) (n : Node) : option (BoolExpr.t Node) :=
  match n with
  | N_BoolExpr b => if bool_decide (b.(BoolExpr.boolop) = op) then Some b else None
  | _ => None
  end.

(** The two functions are the same text but for the operator.  The list of
    [lexpr] is extended in place; the grammar does not use [lexpr] again. *)
Definition makeListExpr (op : BoolExprType) (lexpr rexpr : Node) (location : Z) : option Node :=
  match look_through_parens lexpr with
  | None => None
  | Some lexp =>
      match as_BoolExpr op lexp with
      | Some blexpr =>
          Some (makeBoolExpr op (blexpr.(BoolExpr.args) ++ [rexpr])%list blexpr.(BoolExpr.location))
      | None => Some (makeBoolExpr op [lexpr; rexpr] location)
      end
  end.

Definition makeAndExpr : Node -> Node -> Z -> option Node := makeListExpr AND_EXPR.
Definition makeOrExpr : Node -> Node -> Z -> option Node := makeListExpr OR_EXPR.
Definition makeNotExpr (expr : Node) (location : Z) : Node := makeBoolExpr NOT_EXPR [expr] location.

(** ** The condition of a tree *)

Definition name_of (n : Node) : option string :=
  match n with N_Value (String_ s) => Some s | _ => None end.

Definition of_value (v : Value) : option sexpr :=
  match v with
  | Integer z => Some (Num z)
  | String_ s => Some (Str s)
  | Null => Some NullC
  | Float _ | BitString _ => None
  end.

Definition is_null_of (t : NullTestType) : bool := match t with IS_NULL => true | IS_NOT_NULL => false end.

Definition all_some {A B} (f : A -> option B) : list A -> option (list B) :=
  fix go l :=
    match l with
    | [] => Some []
    | x :: l' =>
        match f x, go l' with Some y, Some ys => Some (y :: ys) | _, _ => None end
    end.

Fixpoint of_node (n : Node) : option sexpr :=
  match n with
  | N_ColumnRef c =>
      match all_some name_of c.(ColumnRef.fields) with Some (x :: p) => Some (Col x p) | _ => None end
  | N_A_Const c => of_value c.(A_Const.val)
  | N_A_Expr a =>
      match a.(A_Expr.kind), a.(A_Expr.name), a.(A_Expr.lexpr), a.(A_Expr.rexpr) with
      | AEXPR_OP, [N_Value (String_ o)], Some l, Some r =>
          if isOp o then
            match of_node l, of_node r with Some l', Some r' => Some (Op o l' r') | _, _ => None end
          else None
      | _, _, _, _ => None
      end
  | N_BoolExpr b =>
      match b.(BoolExpr.boolop), all_some of_node b.(BoolExpr.args) with
      | AND_EXPR, Some l => Some (And l)
      | OR_EXPR, Some l => Some (Or l)
      | NOT_EXPR, Some [e] => Some (Not e)
      | _, _ => None
      end
  | N_NullTest t =>
      match t.(NullTest.arg) with
      | Some a =>
          if t.(NullTest.argisrow) then None
          else IsNull (is_null_of t.(NullTest.nulltesttype)) <$> of_node a
      | None => None
      end
  | _ => None
  end.

(** ** Lemmas *)

Lemma all_some_Forall2 {A B} (f : A -> option B) l ys :
  all_some f l = Some ys -> Forall2 (fun x y => f x = Some y) l ys.
Proof.
  revert ys. induction l as [|x l IH]; intros ys; cbn; [by intros [= <-]|].
  destruct (f x) eqn:E; [|done]. destruct (all_some f l) as [ys'|]; [|done].
  intros [= <-]. constructor; auto.
Qed.

Lemma all_some_app {A B} (f : A -> option B) l x ys y :
  all_some f l = Some ys -> f x = Some y -> all_some f (l ++ [x])%list = Some (ys ++ [y])%list.
Proof.
  intros Hl Hx. revert ys Hl. induction l as [|z l IH]; intros ys; cbn.
  - intros [= <-]. by rewrite Hx.
  - destruct (f z); [|done]. destruct (all_some f l) as [ys'|]; [|done]. intros [= <-].
    by rewrite (IH ys').
Qed.

(** *** Texts *)

Lemma T_seq_skip d t : writes_text d t -> writes_text (d ;;; skip) t.
Proof. intros H. eapply T_deq, H. apply seqd_skip_r. Qed.

Lemma T_parens_if c d t : writes_text d t -> writes_text (parens_if c d) (wrap c t).
Proof.
  intros H. destruct c; [|exact (T_seq_skip _ _ H)].
  apply (T_seq (chr "(")); [apply T_chr|]. apply T_seq; [done|apply T_chr].
Qed.

Lemma T_foreach_join {A} (d : A -> dep) sep l ts :
  Forall2 (fun x t => writes_text (d x) t) l ts -> writes_text (foreach_sep d (str sep) l) (join sep ts).
Proof.
  induction 1 as [|x t l ts Hx Hl IH]; [apply T_skip|]. destruct Hl as [|y u l ts Hy Hl]; [done|].
  change (foreach_sep d (str sep) (x :: y :: l)) with (d x ;;; str sep ;;; foreach_sep d (str sep) (y :: l)).
  change (join sep (t :: u :: ts)) with (t +:+ sep +:+ join sep (u :: ts)).
  apply T_seq; [done|]. apply T_seq; [apply T_str|done].
Qed.

Lemma name_of_inv n s : name_of n = Some s -> n = N_Value (String_ s).
Proof. destruct n; try done. cbn. destruct v; try done. by intros [= ->]. Qed.

Lemma T_indirection p ns :
  Forall2 (fun n s => name_of n = Some s) ns p ->
  writes_text (deparseOptIndirection deparse ns 0) (tail_text "." (map quote_identifier p)).
Proof.
  induction 1 as [|n s ns p Hn%name_of_inv Hl IH]; [apply T_skip|]. subst n.
  cbn [map tail_text foldr]. rewrite string_app_assoc.
  apply (T_seq (chr "." ;;; deparseColLabel s)); [|exact IH].
  apply T_seq; [apply T_chr|apply T_str].
Qed.

Lemma T_column x p c :
  all_some name_of (ColumnRef.fields c) = Some (x :: p) ->
  writes_text (deparseColumnRef deparse c) (text (Col x p)).
Proof.
  intros H%all_some_Forall2. destruct c as [fields loc]. cbn in H.
  inversion H as [|n s ns ? Hn%name_of_inv Hl]; subst. cbn [text map]. rewrite join_tail.
  eapply (T_deq _ (str (quote_identifier x) ;;; deparseOptIndirection deparse ns 0)); [done|].
  apply T_seq; [apply T_str|by apply T_indirection].
Qed.

(** The operands that get parentheses. *)
Lemma of_node_kinds n e :
  of_node n = Some e -> is_and_or n = is_bool2 e /\ needs_operand_parens n = is_compound e.
Proof.
  destruct n; try done; cbn [of_node]; destruct x; simpl_fields.
  - destruct (all_some _ _) as [[|? ?]|]; [done|by intros [= <-]|done].
  - destruct kind; try done; destruct name as [|[] [|]]; try done; destruct v as [| |o| |]; try done.
    destruct lexpr as [l|], rexpr as [r|]; try done.
    destruct (isOp o); [|done]. destruct (of_node l), (of_node r); try done. by intros [= <-].
  - destruct val; try done; by intros [= <-].
  - destruct boolop, (all_some of_node args) as [[|? [|]]|]; try done; by intros [= <-].
  - destruct arg as [a|], argisrow; try done. destruct (of_node a); try done. by intros [= <-].
Qed.

(** [n] is printed as the condition it stands for. *)
Definition prints (n : Node) : Prop :=
  forall e, of_node n = Some e -> writes_text (deparse E_Expr n) (text e).

Lemma T_bool_arg n e :
  prints n -> of_node n = Some e -> writes_text (bool_arg deparse n) (operand_text e).
Proof.
  intros Hn He. unfold bool_arg, operand_text. destruct (of_node_kinds n e He) as [-> _].
  by apply T_parens_if, Hn.
Qed.

Lemma T_operand n e :
  prints n -> of_node n = Some e ->
  writes_text (operand deparse (needs_operand_parens n) (Some n)) (wrap (is_compound e) (text e)).
Proof.
  intros Hn He. unfold operand. destruct (of_node_kinds n e He) as [_ ->].
  by apply T_parens_if, Hn.
Qed.

Lemma T_bool_args sep l es :
  list_all Node (her prints) l -> Forall2 (fun n e => of_node n = Some e) l es ->
  writes_text (foreach_sep (bool_arg deparse) (str sep) l) (join sep (map operand_text es)).
Proof.
  intros Hl He. apply T_foreach_join. induction He as [|n e l es Hn He IH]; [constructor|].
  inversion Hl; subst. constructor; [apply T_bool_arg; [by apply her_here|done]|auto].
Qed.

Lemma T_AExpr a e :
  A_Expr.t_all Node (her prints) a -> of_node (N_A_Expr a) = Some e ->
  writes_text (deparseAExpr deparse a DEPARSE_NODE_CONTEXT_NONE) (text e).
Proof.
  intros Ha. destruct Ha as [kind name ? lx Hl rx Hr loc]. cbn [of_node]. simpl_fields.
  destruct kind; try done; destruct name as [|[] [|]]; try done; destruct v as [| |o| |]; try done.
  destruct lx as [lx|], rx as [rx|]; try done. destruct (isOp o) eqn:Ho; [|done].
  destruct (of_node lx) as [el|] eqn:El; [|done]. destruct (of_node rx) as [er|] eqn:Er; [|done].
  intros [= <-]. inversion Hl; inversion Hr; subst. cbn [text].
  eapply (T_deq _ ((operand deparse (needs_operand_parens lx) (Some lx) ;;; chr " ") ;;; str o ;;;
    chr " " ;;; operand deparse (needs_operand_parens rx) (Some rx))).
  - unfold deparseAExpr. simpl_fields. cbn [notnull when deparseQualOp strVal value_str]. rewrite Ho.
    unfold parens_if at 1. cbn [bool_decide decide_rel DeparseNodeContext_eq_dec].
    by rewrite seqd_skip_l, seqd_skip_r.
  - rewrite string_app_assoc. apply T_seq; [apply T_seq; [by apply T_operand; [apply her_here|]|apply T_chr]|].
    apply T_seq; [apply T_str|]. apply T_seq; [apply T_chr|by apply T_operand; [apply her_here|]].
Qed.

Lemma T_BoolExpr b e :
  BoolExpr.t_all Node (her prints) b -> of_node (N_BoolExpr b) = Some e ->
  writes_text (deparseBoolExpr deparse b) (text e).
Proof.
  intros Hb. destruct Hb as [op args Ha loc]. cbn [of_node]. simpl_fields.
  destruct (all_some of_node args) as [es|] eqn:E; [|by destruct op].
  pose proof (all_some_Forall2 _ _ _ E) as He. unfold deparseBoolExpr. simpl_fields.
  destruct op; [intros [= <-]; by apply T_bool_args..|].
  destruct es as [|x [|]]; try done. intros [= <-].
  inversion He as [|n ? ? ? Hn Hr]; subst. inversion Hr; subst. inversion Ha; subst. cbn [text].
  eapply (T_deq _ (str "NOT " ;;; bool_arg deparse n)); [done|].
  apply T_seq; [apply T_str|by apply T_bool_arg; [apply her_here|]].
Qed.

Lemma T_NullTest t e :
  NullTest.t_all Node (her prints) t -> of_node (N_NullTest t) = Some e ->
  writes_text (deparseNullTest deparse t) (text e).
Proof.
  intros Ht. destruct Ht as [arg Ha nt isrow loc]. cbn [of_node]. simpl_fields.
  destruct arg as [a|], isrow; try done. destruct (of_node a) as [ea|] eqn:Ea; [|done].
  intros [= <-]. inversion Ha; subst. cbn [text].
  eapply (T_deq _ (deparse E_Expr a ;;; str (null_text (is_null_of nt)))).
  - unfold deparseNullTest. simpl_fields. by destruct nt.
  - apply T_seq; [by apply (her_here prints)|apply T_str].
Qed.

Lemma T_value v e : of_value v = Some e -> writes_text (deparseValue v DEPARSE_NODE_CONTEXT_CONSTANT) (text e).
Proof.
  destruct v; cbn [of_value]; try done; intros [= <-].
  - apply T_fmt.
  - apply T_literal.
  - apply T_str.
Qed.

(** A tree that stands for a condition is printed as its text. *)
Lemma deparse_text n : prints n.
Proof.
  apply her_here. revert n. apply (her_intro prints). intros n Hn e He. rewrite deparse_eq.
  destruct n; try done; cbn [children] in Hn; cbn [deparseExpr_body].
  - cbn [of_node] in He. destruct (all_some name_of _) as [[|y p]|] eqn:E; try done.
    injection He as <-. by apply T_column.
  - by apply T_AExpr.
  - by apply T_value.
  - by apply T_BoolExpr.
  - by apply T_NullTest.
Qed.

(** *** Building *)

(** [x] is what [n] is without the parentheses around it. *)
Inductive under_parens : Node -> Node -> Prop :=
| no_parens n :
    (forall a, n = N_A_Expr a -> a.(A_Expr.kind) <> AEXPR_PAREN) -> under_parens n n
| parens a l x :
    a.(A_Expr.kind) = AEXPR_PAREN -> a.(A_Expr.lexpr) = Some l -> under_parens l x ->
    under_parens (N_A_Expr a) x.

Definition looks_through (n : Node) : Prop :=
  forall x, look_through_parens n = Some x -> under_parens n x.

Lemma look_through_sound n : looks_through n.
Proof.
  apply her_here. revert n. apply (her_intro looks_through). intros n Hn x.
  destruct n; try (intros [= <-]; by apply no_parens).
  cbn [children look_through_parens] in *. destruct Hn as [kind name ? lx Hl rx Hr loc]. simpl_fields.
  case_bool_decide as Hk.
  - destruct lx as [lx|]; [|done]. inversion Hl as [? H|]; subst. intros E.
    eapply parens; [done..|]. apply her_here in H. by apply H.
  - intros [= <-]. apply no_parens. by intros ? [= <-].
Qed.

Lemma look_through_iff n x : look_through_parens n = Some x <-> under_parens n x.
Proof.
  split; [apply look_through_sound|]. induction 1 as [n Hn|a l x Hk Hl _ IH].
  - destruct n; try done. cbn [look_through_parens]. by rewrite bool_decide_eq_false_2 by eauto.
  - cbn [look_through_parens]. by rewrite bool_decide_eq_true_2, Hl by done.
Qed.

(** The truth value of a condition in the logic of SQL, [None] being unknown; the
    parentheses mean nothing, and what is no condition has the value [atom]
    gives it. *)
Definition and3 (a b : option bool) : option bool :=
  match a, b with
  | Some false, _ | _, Some false => Some false
  | Some true, Some true => Some true
  | _, _ => None
  end.

Definition not3 (a : option bool) : option bool := negb <$> a.

Definition or3 (a b : option bool) : option bool := not3 (and3 (not3 a) (not3 b)).

Section truth.
Context (atom : Node -> option bool).

Fixpoint truth (n : Node) : option bool :=
  match n with
  | N_A_Expr a =>
      match a.(A_Expr.kind), a.(A_Expr.lexpr) with
      | AEXPR_PAREN, Some l => truth l
      | _, _ => atom n
      end
  | N_BoolExpr b =>
      match b.(BoolExpr.boolop), map truth b.(BoolExpr.args) with
      | AND_EXPR, vs => foldr and3 (Some true) vs
      | OR_EXPR, vs => foldr or3 (Some false) vs
      | NOT_EXPR, [v] => not3 v
      | NOT_EXPR, _ => atom n
      end
  | _ => atom n
  end.

Lemma truth_under_parens n x : under_parens n x -> truth n = truth x.
Proof. induction 1 as [|a l x Hk Hl _ IH]; [done|]. cbn [truth]. by rewrite Hk, Hl. Qed.
End truth.

Lemma and3_last vs v : foldr and3 (Some true) (vs ++ [v])%list = and3 (foldr and3 (Some true) vs) v.
Proof.
  induction vs as [|w vs IH]; cbn; [by destruct v as [[]|]|]. rewrite IH.
  generalize (foldr and3 (Some true) vs). intros u. by destruct w as [[]|], u as [[]|], v as [[]|].
Qed.

Lemma or3_last vs v : foldr or3 (Some false) (vs ++ [v])%list = or3 (foldr or3 (Some false) vs) v.
Proof.
  induction vs as [|w vs IH]; cbn; [by destruct v as [[]|]|]. rewrite IH.
  generalize (foldr or3 (Some false) vs). intros u. by destruct w as [[]|], u as [[]|], v as [[]|].
Qed.

(** ** Properties *)

(** What the list builders are to make of [l] and [r]: if [l], without the
    parentheses around it, is a list of the operator, that list with [r] at its
    end, which keeps its position; otherwise a list of the two, the
    parentheses around [l] included, with the position of the operator. *)
Inductive listed (op : BoolExprType) (l r : Node) (loc : Z) : Node -> Prop :=
| extended args loc' :
    under_parens l (N_BoolExpr (BoolExpr.mk op args loc')) ->
    listed op l r loc (N_BoolExpr (BoolExpr.mk op (args ++ [r]) loc'))
| listed_anew x :
    under_parens l x -> (forall args loc', x <> N_BoolExpr (BoolExpr.mk op args loc')) ->
    listed op l r loc (N_BoolExpr (BoolExpr.mk op [l; r] loc)).

Lemma makeListExpr_listed op l r loc n : makeListExpr op l r loc = Some n <-> listed op l r loc n.
Proof.
  unfold makeListExpr. split.
  - destruct (look_through_parens l) as [x|] eqn:E; [|done]. apply look_through_iff in E.
    destruct (as_BoolExpr op x) as [b|] eqn:Eb; intros [= <-].
    + destruct x; try done. cbn in Eb. case_bool_decide as Hop; [|done]. injection Eb as ->.
      destruct b as [op' args loc']. cbn in Hop. subst op'. by apply extended.
    + apply (listed_anew _ _ _ _ x); [done|]. intros args loc' ->. cbn in Eb.
      by rewrite bool_decide_eq_true_2 in Eb.
  - intros [args loc' ->%look_through_iff|x Hx%look_through_iff Hne].
    + cbn [as_BoolExpr]. by rewrite bool_decide_eq_true_2.
    + rewrite Hx. destruct (as_BoolExpr op x) as [b|] eqn:Eb; [|done].
      destruct x; try done. cbn in Eb. case_bool_decide as Hop; [|done]. injection Eb as ->.
      destruct b as [op' args loc']. cbn in Hop. subst op'. by destruct (Hne args loc').
Qed.

(** C30. The builders of lists of conditions in the grammar, for any operands:
    [makeAndExpr] and [makeOrExpr] return exactly the node of [listed], position
    included (and are undefined exactly if there is none, as the parentheses of
    [l] have no operand), its value in three-valued logic is the conjunction or
    disjunction of those of the operands, however the other expressions are
    evaluated, and [makeNotExpr] negates. *)
Theorem make_exprs_correct (l r : Node) (loc : Z) :
  (forall n, makeAndExpr l r loc = Some n <-> listed AND_EXPR l r loc n) /\
  (forall n, makeOrExpr l r loc = Some n <-> listed OR_EXPR l r loc n) /\
  (forall n atom, listed AND_EXPR l r loc n -> truth atom n = and3 (truth atom l) (truth atom r)) /\
  (forall n atom, listed OR_EXPR l r loc n -> truth atom n = or3 (truth atom l) (truth atom r)) /\
  (forall atom, truth atom (makeNotExpr r loc) = not3 (truth atom r)).
Proof.
  split; [intros n; apply makeListExpr_listed|]. split; [intros n; apply makeListExpr_listed|].
  split; [|split; [|done]].
  - intros n atom [args loc' H|x H _]; cbn [truth]; simpl_fields.
    + rewrite (truth_under_parens atom _ _ H), map_app. apply and3_last.
    + cbn [map foldr]. by destruct (truth atom l) as [[]|], (truth atom r) as [[]|].
  - intros n atom [args loc' H|x H _]; cbn [truth]; simpl_fields.
    + rewrite (truth_under_parens atom _ _ H), map_app. apply or3_last.
    + cbn [map foldr]. by destruct (truth atom l) as [[]|], (truth atom r) as [[]|].
Qed.

(** *** Samples, the positions at random *)
Definition column_ (s : string) : Node := N_ColumnRef (ColumnRef.mk [N_Value (String_ s)] 7).
Definition integer_ (z : Z) : Node := N_A_Const (A_Const.mk (Integer z) 11).
Definition equals_ (l r : Node) : Node :=
  N_A_Expr (A_Expr.mk AEXPR_OP [N_Value (String_ "=")] (Some l) (Some r) 9).
Definition isnull_ (n : Node) : Node := N_NullTest (NullTest.mk (Some n) IS_NULL false 3).

(** [a = 1 AND (Order IS NULL OR NOT (b = -2))], the second column being named
    by a reserved word. *)
Definition sample_condition : Node :=
  makeBoolExpr AND_EXPR
    [equals_ (column_ "a") (integer_ 1);
     makeBoolExpr OR_EXPR
       [isnull_ (column_ "order"); makeNotExpr (equals_ (column_ "b") (integer_ (-2))) 1] 5] 0.

Definition sample_sexpr : sexpr :=
  And [Op "=" (Col "a" []) (Num 1);
       Or [IsNull true (Col "order" []); Not (Op "=" (Col "b" []) (Num (-2)))]].

Example sample_of_node : of_node sample_condition = Some sample_sexpr.
Proof. vm_compute. reflexivity. Qed.

(** [(a AND b) AND c] is one list, with the position of the first [AND]. *)
Example parens_flattened :
  makeAndExpr (N_A_Expr (A_Expr.mk AEXPR_PAREN [] (Some (makeBoolExpr AND_EXPR [column_ "a"; column_ "b"] 3)) None 0))
    (column_ "c") 10 =
  Some (makeBoolExpr AND_EXPR [column_ "a"; column_ "b"; column_ "c"] 3).
Proof. vm_compute. reflexivity. Qed.

(** C5. What the deparser prints of a condition is read back: for every tree [n]
    that stands for a condition [e] of columns, constants, binary operators,
    [AND], [OR], [NOT] and [IS [NOT] NULL] ([ok e]: a name has 1 to 63 bytes, an
    integer has at most [INT_MAX] as absolute value, an operator is one that the
    scanner takes as one token of this name, a list has two elements or more
    and does not begin with a list of its own kind, and an operand of [IS NULL] is
    no [AND], [OR] or [NOT]), [deparseExpr] returns a text, and the reader with
    the precedences of the grammar gives [e] for it, with enough fuel and with
    any more.  So the parentheses that are left out can be left out, and the
    quoting makes every name and string come back. *)
Theorem deparse_reads_back (n : Node) (e : sexpr) (Hn : of_node n = Some e) (Hok : ok e = true) :
  exists t f0, text_of (deparseExpr n) = Ok t /\ forall f, (f0 <= f)%nat -> read_expr f t = Some e.
Proof.
  destruct (read_text e Hok) as [f0 Hf]. exists (text e), f0. split; [|done].
  by apply T_text, deparse_text.
Qed.

Lemma deparse_reads_back_witness :
  of_node sample_condition = Some sample_sexpr /\ ok sample_sexpr = true /\
  exists t f0, text_of (deparseExpr sample_condition) = Ok t /\
    forall f, (f0 <= f)%nat -> read_expr f t = Some sample_sexpr.
Proof.
  split; [vm_compute; reflexivity|]. split; [vm_compute; reflexivity|].
  apply (deparse_reads_back sample_condition sample_sexpr); vm_compute; reflexivity.
Defined.
