(* ===== verification/Scanner.v ===== *)
(** * The interface of the SQL scanner

    The flex scanner ([src/postgres/src_backend_parser_scan.c], generated from
    [scan.l]) is a parameter of the functions that drive it: a type of scanner
    states, [scanner_init] and [core_yylex].  [scans] and [scan_fails] say what
    a scanner delivers for an input, [positioned] what its locations promise.
    The loop the drivers share, [scan_fold], and the token codes of [gram.h]
    are here too. *)
From S2P Require Import Prelude Keywords.

Open Scope Z_scope.

(** What one call of [core_yylex] leaves behind: the token code, [*yylloc],
    [yyextra.yyllocend], [yyleng], and the offset in [scanbuf] of the zero byte
    flex keeps after the text it has matched. *)
Record token : Type := mkToken {
  tok : Z;
  yylloc : Z;
  yyllocend : Z;
  yyleng : Z;
  zero_at : Z
}.

Class Scanner (Y : Type) : Type := {
  scanner_init : string -> outcome Y;
  core_yylex : Y -> outcome (token * Y)
}.

(** ** Token codes *)

(** The codes of the keywords, in the order of [kwlist.h].  [gram.h] numbers
    them from 277 in the order of the [%token] lines of the grammar, where
    PRESERVE comes before PREPARE and SETS before SETOF. *)
Definition ScanKeywordTokens : list Z :=
  (map Z.of_nat (seq 277 287) ++ [565; 566; 564] ++ map Z.of_nat (seq 567 56) ++
   [624; 623] ++ map Z.of_nat (seq 625 102))%list.

Definition IDENT : Z := 258.
Definition SCONST : Z := 261.
Definition BCONST : Z := 263.
Definition XCONST : Z := 264.
Definition SQL_COMMENT : Z := 275.
Definition C_COMMENT : Z := 276.

(** [switch (tok) { case <every keyword>: ... }]: the place of the keyword. *)
Fixpoint token_index (t : Z) (l : list Z) (i : nat) : option nat :=
  match l with
  | [] => None
  | k :: l' => if t =? k then Some i else token_index t l' (S i)
  end.

Definition keyword_of_token (t : Z) : option nat := token_index t ScanKeywordTokens 0.

Definition is_keyword (t : Z) : bool :=
  match keyword_of_token t with Some _ => true | None => false end.

Definition PAREN_OPEN : Z := 40.
Definition PAREN_CLOSE : Z := 41.
Definition SEMICOLON : Z := 59.

Example keyword_tokens_count :
  List.length ScanKeywordTokens = List.length keyword_names /\
  forallb is_keyword ScanKeywordTokens = true /\
  forallb (fun t => negb (is_keyword t)) (map Z.of_nat (seq 0 277)) = true.
Proof. by vm_compute. Qed.

(** ** Driving the scanner *)

Section scanner.
Context {Y : Type} `{Scanner Y}.

(** [while (true) { tok = core_yylex(...); <step>; if (tok == 0) break; }] *)
Fixpoint scan_fold {S} (step : S -> token -> outcome S) (fuel : nat) (yy : Y) (st : S) : outcome S :=
  match fuel with
  | O => Undef
  | Datatypes.S fuel =>
      let* (t, yy') := core_yylex yy in
      let* st' := step st t in
      if tok t =? 0 then Ok st' else scan_fold step fuel yy' st'
  end.

(** The same in a [PG_TRY] block: an error comes with the state it leaves behind. *)
Fixpoint scan_try {S} (step : S -> token -> outcome S) (fuel : nat) (yy : Y) (st : S) :
    outcome (S * option string) :=
  match fuel with
  | O => Undef
  | Datatypes.S fuel =>
      match core_yylex yy with
      | Ok (t, yy') =>
          match step st t with
          | Ok st' => if tok t =? 0 then Ok (st', None) else scan_try step fuel yy' st'
          | Elog msg => Ok (st, Some msg)
          | Undef => Undef
          end
      | Elog msg => Ok (st, Some msg)
      | Undef => Undef
      end
  end.

(** The same over a list of tokens. *)
Fixpoint ofold {S} (step : S -> token -> outcome S) (st : S) (ts : list token) : outcome S :=
  match ts with
  | [] => Ok st
  | t :: ts' => let* st' := step st t in ofold step st' ts'
  end.

(** The tokens the scanner delivers, the last one being the end of the input. *)
Inductive scans : Y -> list token -> Prop :=
| scans_end yy t yy' : core_yylex yy = Ok (t, yy') -> tok t = 0 -> scans yy [t]
| scans_token yy t yy' ts :
    core_yylex yy = Ok (t, yy') -> tok t <> 0 -> scans yy' ts -> scans yy (t :: ts).

(** The scanner raises an error after the tokens [ts]. *)
Inductive scan_fails (msg : string) : Y -> list token -> Prop :=
| fails_now yy : core_yylex yy = Elog msg -> scan_fails msg yy []
| fails_later yy t yy' ts :
    core_yylex yy = Ok (t, yy') -> tok t <> 0 -> scan_fails msg yy' ts ->
    scan_fails msg yy (t :: ts).

(** Tokens lie one after the other in an input of [n] bytes. *)
Fixpoint positioned (from n : Z) (ts : list token) : Prop :=
  match ts with
  | [] => True
  | [t] => from <= yylloc t <= n
  | t :: ts' => from <= yylloc t < n /\ positioned (yylloc t + 1) n ts'
  end.

(** The loop bound of the drivers: no input has more tokens than bytes, apart
    from the end. *)
Definition scan_fuel (input : string) : nat := S (String.length input).

Lemma positioned_le from n ts :
  positioned from n ts -> Z.of_nat (List.length ts) <= Z.max 0 (n - from + 1).
Proof.
  revert from. induction ts as [|t [|t' ts] IH]; intros from; [cbn; lia|cbn; lia|].
  intros [Ht Hp]. specialize (IH _ Hp). cbn [List.length] in *. lia.
Qed.

Lemma positioned_range from n ts :
  positioned from n ts -> Forall (fun t => from <= yylloc t <= n) ts.
Proof.
  revert from. induction ts as [|t ts IH]; intros from Hp; [by apply Forall_nil_2|].
  destruct ts as [|t' ts]; [by apply Forall_singleton|].
  destruct Hp as [Ht Hp]. apply Forall_cons_2; [lia|].
  eapply Forall_impl; [by apply IH|]. cbn. lia.
Qed.

Lemma scans_last yy ts : scans yy ts -> exists l e, ts = (l ++ [e])%list /\ tok e = 0 /\
  Forall (fun t => tok t <> 0) l.
Proof.
  induction 1 as [yy t yy' Hl H0|yy t yy' ts Hl H0 _ (l & e & -> & He & Hl')].
  - exists [], t. auto.
  - exists (t :: l), e. auto.
Qed.

Lemma scan_fails_app msg yy ts : scan_fails msg yy ts -> Forall (fun t => tok t <> 0) ts.
Proof. induction 1; auto. Qed.

(** The loop is a fold over the tokens the scanner delivers. *)
Lemma scan_fold_scans {S} (step : S -> token -> outcome S) fuel yy ts st :
  scans yy ts -> (List.length ts <= fuel)%nat -> scan_fold step fuel yy st = ofold step st ts.
Proof.
  intros Hs. revert fuel st. induction Hs as [yy t yy' Hl H0|yy t yy' ts Hl H0 _ IH];
    intros [|fuel] st Hf; try (cbn in Hf; lia); cbn; rewrite Hl; cbn;
    destruct (step st t) as [st'| |]; cbn; try done.
  - by rewrite H0.
  - apply Z.eqb_neq in H0 as ->. apply IH. cbn in Hf. lia.
Qed.

Lemma scan_fold_fails {S} (step : S -> token -> outcome S) msg fuel yy ts st :
  scan_fails msg yy ts -> (List.length ts < fuel)%nat ->
  scan_fold step fuel yy st = let* _ := ofold step st ts in Elog msg.
Proof.
  intros Hs. revert fuel st. induction Hs as [yy Hl|yy t yy' ts Hl H0 _ IH];
    intros [|fuel] st Hf; try (cbn in Hf; lia); cbn; rewrite Hl; cbn; [done|].
  destruct (step st t) as [st'| |]; cbn; try done.
  apply Z.eqb_neq in H0 as ->. apply IH. cbn in Hf. lia.
Qed.

Lemma scan_try_scans {S} (step : S -> token -> outcome S) fuel yy ts st st' :
  scans yy ts -> (List.length ts <= fuel)%nat -> ofold step st ts = Ok st' ->
  scan_try step fuel yy st = Ok (st', None).
Proof.
  intros Hs. revert fuel st. induction Hs as [yy t yy' Hl H0|yy t yy' ts Hl H0 _ IH];
    intros [|fuel] st Hf; try (cbn in Hf; lia); cbn; rewrite Hl; cbn;
    destruct (step st t) as [st1| |]; cbn; try done.
  - intros [= ->]. by rewrite H0.
  - apply Z.eqb_neq in H0 as ->. apply IH. cbn in Hf. lia.
Qed.

Lemma scan_try_fails {S} (step : S -> token -> outcome S) msg fuel yy ts st st' :
  scan_fails msg yy ts -> (List.length ts < fuel)%nat -> ofold step st ts = Ok st' ->
  scan_try step fuel yy st = Ok (st', Some msg).
Proof.
  intros Hs. revert fuel st. induction Hs as [yy Hl|yy t yy' ts Hl H0 _ IH];
    intros [|fuel] st Hf; try (cbn in Hf; lia); cbn; rewrite Hl; cbn; [by intros [= ->]|].
  destruct (step st t) as [st1| |]; cbn; try done.
  apply Z.eqb_neq in H0 as ->. apply IH. cbn in Hf. lia.
Qed.

End scanner.

Lemma ofold_pure {S} (f : S -> token -> S) st ts :
  ofold (fun st t => Ok (f st t)) st ts = Ok (foldl f st ts).
Proof. revert st. induction ts as [|t ts IH]; intros st; [done|]. cbn. apply IH. Qed.

Lemma is_keyword_ge t : is_keyword t = true -> 277 <= t.
Proof.
  unfold is_keyword, keyword_of_token.
  assert (Hin : forall l i j, token_index t l i = Some j -> In t l).
  { induction l as [|k l IH]; intros i j; cbn; [done|].
    destruct (Z.eqb_spec t k) as [->|]; [auto|]. intros H. right. eauto. }
  destruct (token_index t ScanKeywordTokens 0) as [j|] eqn:E; [|done]. intros _.
  apply Hin in E. assert (H : forallb (fun t => 277 <=? t) ScanKeywordTokens = true) by done.
  rewrite forallb_forall in H. apply Z.leb_le. auto.
Qed.

(** A scanner that reads its tokens off a list: for examples. *)
Definition list_scanner (script : string -> outcome (list token)) : Scanner (outcome (list token)) := {|
  scanner_init s := Ok (script s);
  core_yylex yy :=
    match yy with
    | Ok (t :: ts) => Ok (t, Ok ts)
    | Ok [] => Elog "unterminated input"
    | Elog e => Elog e
    | Undef => Undef
    end
|}.
