(* ===== verification/Split.v ===== *)
(** * Splitting a query string into statements

    [src/pg_query_split.c].  [pg_query_split_with_scanner] runs the scanner
    twice, first to count the statements and then to fill an array of that
    size; [pg_query_split_with_parser] reads the positions off the raw parse
    trees.  The reference is [spans] of [chunks]: cut the tokens after every
    [;] (or the end) outside parentheses and keep the pieces that have a
    keyword. *)
From S2P Require Import Prelude Keywords Enums Nodes Scanner.

Open Scope Z_scope.

(** ** Splitting with the scanner *)

(** The variables of the first pass. *)
Record counter : Type := mkCounter {
  keyword_before_terminator : bool;
  open_parens : Z;                    (* size_t *)
  n_stmts : Z                         (* int *)
}.

Definition count_token (st : counter) (t : token) : counter :=
  let '(mkCounter kw parens n) := st in
  if is_keyword (tok t) then mkCounter true parens n
  else if tok t =? PAREN_OPEN then mkCounter kw (wrap64 (parens + 1)) n
  else if tok t =? PAREN_CLOSE then mkCounter kw (wrap64 (parens - 1)) n
  else if kw && (parens =? 0) && ((tok t =? SEMICOLON) || (tok t =? 0)) then
    mkCounter false parens (int32 (n + 1))
  else st.

(** [PgQuerySplitStmt] *)
Record PgQuerySplitStmt : Type := mkSplitStmt {
  stmt_location : Z;
  stmt_len : Z
}.

(** The variables of the second pass; a slot of [stmts] that was not assigned
    is [None]. *)
Record filler : Type := mkFiller {
  f_keyword_before_terminator : bool;
  f_open_parens : Z;
  stmtstart : Z;                      (* int *)
  curstmt : nat;                      (* size_t *)
  stmts : list (option PgQuerySplitStmt)
}.

(** [result.stmts[curstmt] = ...]: the block has as many slots as the first pass
    counted. *)
Definition set_stmt (l : list (option PgQuerySplitStmt)) (i : nat) (s : PgQuerySplitStmt) :
    outcome (list (option PgQuerySplitStmt)) :=
  if (i <? List.length l)%nat then Ok (<[i := Some s]> l) else Undef.

Definition fill_token (st : filler) (t : token) : outcome filler :=
  let '(mkFiller kw parens start cur l) := st in
  if is_keyword (tok t) then Ok (mkFiller true parens start cur l)
  else if tok t =? PAREN_OPEN then Ok (mkFiller kw (wrap64 (parens + 1)) start cur l)
  else if tok t =? PAREN_CLOSE then Ok (mkFiller kw (wrap64 (parens - 1)) start cur l)
  else if kw && (parens =? 0) && ((tok t =? SEMICOLON) || (tok t =? 0)) then
    let* l' := set_stmt l cur (mkSplitStmt start (int32 (yylloc t - start))) in
    Ok (mkFiller false parens (int32 (yylloc t + 1)) (S cur) l')
  else if (parens =? 0) && (tok t =? SEMICOLON) then
    Ok (mkFiller kw parens (int32 (yylloc t + 1)) cur l)
  else Ok st.

(** [PgQuerySplitResult]: the statements ([n_stmts] of them), or the error that
    the [PG_CATCH] block stores, with [n_stmts] and [stmts] as the block finds
    them: [stmts] is [None], a null pointer, until the first pass is over.
    ([result] is no [volatile] variable; that it keeps its value over the jump is
    what the code relies on.) *)
Inductive split_result : Type :=
| Split_ok (stmts : list (option PgQuerySplitStmt))
| Split_error (message : string) (n_stmts : Z) (stmts : option (list (option PgQuerySplitStmt)))
| Split_undef.

Definition pg_query_split_with_scanner {Y} `{Scanner Y} (input : string) : split_result :=
  match scanner_init input with
  | Undef => Split_undef
  | Elog msg => Split_error msg 0 None
  | Ok yyscanner =>
      match scan_try (fun st t => Ok (count_token st t)) (scan_fuel input) yyscanner
              (mkCounter false 0 0) with
      | Ok (c, Some msg) => Split_error msg (n_stmts c) None
      | Ok (c, None) =>
          let slots := replicate (Z.to_nat (n_stmts c)) None in
          match scanner_init input with
          | Undef => Split_undef
          | Elog msg => Split_error msg (n_stmts c) (Some slots)
          | Ok yyscanner =>
              match scan_try fill_token (scan_fuel input) yyscanner (mkFiller false 0 0 0 slots) with
              | Ok (f, None) => Split_ok (stmts f)
              | Ok (f, Some msg) => Split_error msg (n_stmts c) (Some (stmts f))
              | _ => Split_undef
              end
          end
      | _ => Split_undef
      end
  end.

(** ** Splitting with the parser *)

(** One element of the list of parse trees. *)
Definition raw_stmt_span (input : string) (n : Node) : outcome PgQuerySplitStmt :=
  match n with
  | N_RawStmt r =>
      Ok (mkSplitStmt (RawStmt.stmt_location r)
            (if RawStmt.stmt_len r =? 0
             then int32 (Z.of_nat (String.length input) - RawStmt.stmt_location r)
             else RawStmt.stmt_len r))
  | _ => Undef
  end.

(** [castNode] and the positions, for every tree. *)
Fixpoint raw_stmt_spans (input : string) (l : list Node) : outcome (list PgQuerySplitStmt) :=
  match l with
  | [] => Ok []
  | n :: l' =>
      let* s := raw_stmt_span input n in
      let* ss := raw_stmt_spans input l' in
      Ok (s :: ss)
  end.

(** The result of [pg_query_raw_parse]: the tree, or none and the error. *)
Record PgQueryInternalParsetreeAndError : Type := mkParsetreeAndError {
  tree : option (list Node);
  error : option string
}.

(** The statements and the error. *)
Definition pg_query_split_with_parser
    (pg_query_raw_parse : string -> PgQueryInternalParsetreeAndError) (input : string) :
    outcome (list PgQuerySplitStmt * option string) :=
  let parsetree_and_error := pg_query_raw_parse input in
  match tree parsetree_and_error with
  | Some l => let* ss := raw_stmt_spans input l in Ok (ss, error parsetree_and_error)
  | None => Ok ([], error parsetree_and_error)
  end.

(** ** Reference definition *)

Definition paren_delta (t : Z) : Z :=
  if t =? PAREN_OPEN then 1 else if t =? PAREN_CLOSE then -1 else 0.

Definition terminator (t : Z) : bool := (t =? SEMICOLON) || (t =? 0).

(** The tokens, cut after each terminator outside parentheses; [cur] is the
    piece at hand. *)
Fixpoint chunks (depth : Z) (cur ts : list token) : list (list token) :=
  match ts with
  | [] => []
  | t :: ts' =>
      let depth' := depth + paren_delta (tok t) in
      if terminator (tok t) && (depth' =? 0) then (cur ++ [t])%list :: chunks 0 [] ts'
      else chunks depth' (cur ++ [t])%list ts'
  end.

Definition has_keyword (c : list token) : bool := existsb (fun t => is_keyword (tok t)) c.

Definition end_of (c : list token) : Z := match last c with Some t => yylloc t | None => 0 end.

(** The pieces with a keyword, from after the terminator before them to their
    own. *)
Fixpoint spans (start : Z) (cs : list (list token)) : list PgQuerySplitStmt :=
  match cs with
  | [] => []
  | c :: cs' =>
      (if has_keyword c then [mkSplitStmt start (end_of c - start)] else []) ++
      spans (end_of c + 1) cs'
  end%list.

(** ** Lemmas *)

Lemma wrap64_add d k : wrap64 (wrap64 d + k) = wrap64 (d + k).
Proof. apply Zplus_mod_idemp_l. Qed.

Lemma wrap64_zero d : Z.abs d < 2 ^ 64 -> (wrap64 d =? 0) = (d =? 0).
Proof.
  intros Hd. destruct (Z.eqb_spec d 0) as [->|Hne]; [done|].
  apply Z.eqb_neq. unfold wrap64. intros H%Z.mod_divide; [|done].
  destruct H as [k ->]. assert (Z.abs k = 0 \/ 1 <= Z.abs k) as [H|H] by lia; [|lia].
  apply Hne. by replace k with 0 by lia.
Qed.

(** The three classes of tokens are disjoint. *)
Lemma keyword_plain t : is_keyword t = true ->
  (t =? PAREN_OPEN) = false /\ (t =? PAREN_CLOSE) = false /\ (t =? SEMICOLON) = false /\ (t =? 0) = false.
Proof.
  intros H%is_keyword_ge. unfold PAREN_OPEN, PAREN_CLOSE, SEMICOLON.
  repeat split; apply Z.eqb_neq; lia.
Qed.

Lemma terminator_plain t : terminator t = true -> is_keyword t = false /\ paren_delta t = 0.
Proof.
  unfold terminator, paren_delta. intros H. split.
  - destruct (is_keyword t) eqn:E; [|done]. destruct (keyword_plain t E) as (_ & _ & E1 & E2).
    by rewrite E1, E2 in H.
  - apply orb_true_iff in H as [H%Z.eqb_eq|H%Z.eqb_eq]; by subst t.
Qed.

(** One step of either pass, by what the token does to the pieces. *)
Lemma count_token_eq kw d n t :
  let d' := d + paren_delta (tok t) in
  Z.abs d < 2 ^ 64 ->
  count_token (mkCounter kw (wrap64 d) n) t =
  if terminator (tok t) && (d' =? 0)
  then mkCounter false (wrap64 0) (if kw then int32 (n + 1) else n)
  else mkCounter (kw || is_keyword (tok t)) (wrap64 d') n.
Proof.
  intros d' Hd. unfold d', count_token. rewrite <-(Z.add_opp_r (wrap64 d)), !wrap64_add. unfold terminator, paren_delta.
  destruct (is_keyword (tok t)) eqn:Hk.
  - destruct (keyword_plain _ Hk) as (-> & -> & -> & ->). cbn.
    by rewrite orb_true_r, Z.add_0_r.
  - rewrite orb_false_r. destruct (Z.eqb_spec (tok t) PAREN_OPEN) as [->|_]; [done|].
    destruct (Z.eqb_spec (tok t) PAREN_CLOSE) as [->|_]; [done|].
    rewrite Z.add_0_r, wrap64_zero by done.
    destruct (_ || _); cbn [andb]; [|by rewrite andb_false_r].
    rewrite andb_true_r. destruct (Z.eqb_spec d 0) as [->|]; destruct kw; done.
Qed.

Lemma fill_token_eq kw d start cur l t :
  let d' := d + paren_delta (tok t) in
  Z.abs d < 2 ^ 64 ->
  fill_token (mkFiller kw (wrap64 d) start cur l) t =
  if terminator (tok t) && (d' =? 0)
  then if kw then
         let* l' := set_stmt l cur (mkSplitStmt start (int32 (yylloc t - start))) in
         Ok (mkFiller false (wrap64 0) (int32 (yylloc t + 1)) (S cur) l')
       else Ok (mkFiller false (wrap64 0)
                  (if tok t =? SEMICOLON then int32 (yylloc t + 1) else start) cur l)
  else Ok (mkFiller (kw || is_keyword (tok t)) (wrap64 d') start cur l).
Proof.
  intros d' Hd. unfold d', fill_token. rewrite <-(Z.add_opp_r (wrap64 d)), !wrap64_add. unfold terminator, paren_delta.
  destruct (is_keyword (tok t)) eqn:Hk.
  - destruct (keyword_plain _ Hk) as (-> & -> & -> & ->). cbn.
    by rewrite orb_true_r, Z.add_0_r.
  - rewrite orb_false_r. destruct (Z.eqb_spec (tok t) PAREN_OPEN) as [->|_]; [done|].
    destruct (Z.eqb_spec (tok t) PAREN_CLOSE) as [->|_]; [done|].
    rewrite Z.add_0_r, wrap64_zero by done.
    destruct (Z.eqb_spec d 0) as [->|]; destruct kw;
      destruct (Z.eqb_spec (tok t) SEMICOLON) as [->|]; try done;
      destruct (tok t =? 0); done.
Qed.

Lemma has_keyword_snoc c t : has_keyword (c ++ [t])%list = has_keyword c || is_keyword (tok t).
Proof. unfold has_keyword. rewrite existsb_app. cbn. by rewrite orb_false_r. Qed.

Lemma end_of_snoc c t : end_of (c ++ [t])%list = yylloc t.
Proof. unfold end_of. by rewrite last_snoc. Qed.

Lemma spans_length_le start cs :
  (List.length (spans start cs) <= List.length cs)%nat.
Proof.
  revert start. induction cs as [|c cs IH]; intros start; [done|]. cbn.
  rewrite length_app. specialize (IH (end_of c + 1)). destruct (has_keyword c); cbn; lia.
Qed.

Lemma spans_length_start s s' cs : List.length (spans s cs) = List.length (spans s' cs).
Proof. destruct cs as [|c cs]; [done|]. cbn. rewrite !length_app. by destruct (has_keyword c). Qed.

Lemma chunks_length_le d cur ts : (List.length (chunks d cur ts) <= List.length ts)%nat.
Proof.
  revert d cur. induction ts as [|t ts IH]; intros d cur; [done|]. cbn.
  destruct (_ && _); cbn; [specialize (IH 0 [])|specialize (IH (d + paren_delta (tok t)) (cur ++ [t])%list)]; lia.
Qed.

(** The cut of one token. *)
Lemma spans_chunks_cons start d cur t ts :
  spans start (chunks d cur (t :: ts)) =
  if terminator (tok t) && (d + paren_delta (tok t) =? 0)
  then ((if has_keyword cur then [mkSplitStmt start (yylloc t - start)] else []) ++
        spans (yylloc t + 1) (chunks 0 [] ts))%list
  else spans start (chunks (d + paren_delta (tok t)) (cur ++ [t])%list ts).
Proof.
  cbn [chunks]. destruct (_ && _) eqn:E; [|done]. cbn [spans].
  apply andb_true_iff in E as [E _]. destruct (terminator_plain _ E) as [Hk _].
  by rewrite has_keyword_snoc, Hk, orb_false_r, end_of_snoc.
Qed.

Lemma paren_delta_abs t : Z.abs (paren_delta t) <= 1.
Proof. unfold paren_delta. destruct (_ =? _); [|destruct (_ =? _)]; lia. Qed.

(** The first pass counts the pieces with a keyword. *)
Lemma count_pass ts d cur n :
  Z.abs d + Z.of_nat (List.length ts) < 2 ^ 64 -> 0 <= n ->
  n + Z.of_nat (List.length ts) <= int_max ->
  n_stmts (foldl count_token (mkCounter (has_keyword cur) (wrap64 d) n) ts) =
  n + Z.of_nat (List.length (spans 0 (chunks d cur ts))).
Proof.
  revert d cur n. induction ts as [|t ts IH]; intros d cur n Hd Hn Hmax; [cbn; lia|].
  cbn [foldl]. rewrite count_token_eq by (cbn in Hd; lia). rewrite spans_chunks_cons.
  pose proof (paren_delta_abs (tok t)). cbn [List.length] in Hd, Hmax.
  destruct (_ && _).
  - rewrite length_app, (spans_length_start _ 0). specialize (IH 0 []). cbn [has_keyword existsb] in IH.
    destruct (has_keyword cur).
    + rewrite int32_small by (unfold int_min; lia). rewrite IH by lia. cbn [List.length]. lia.
    + rewrite IH by lia. cbn [List.length]. lia.
  - specialize (IH (d + paren_delta (tok t)) (cur ++ [t])%list n). rewrite has_keyword_snoc in IH.
    rewrite IH by lia. done.
Qed.

(** The end of the input comes last. *)
Definition eof_last (ts : list token) : Prop :=
  exists l e, ts = (l ++ [e])%list /\ tok e = 0 /\ Forall (fun t => tok t <> 0) l.

Lemma eof_last_cons t ts : eof_last (t :: ts) -> ts = [] \/ (tok t <> 0 /\ eof_last ts).
Proof.
  intros ([|u l] & e & [= -> ->] & He & Hl); [by left|]. right.
  inversion Hl; subst. split; [done|]. exists l, e. auto.
Qed.

(** The next free slot. *)
Lemma set_stmt_next done k s :
  set_stmt (map Some done ++ replicate (S k) None)%list (List.length done) s =
  Ok (map Some (done ++ [s]) ++ replicate k None)%list.
Proof.
  unfold set_stmt.
  rewrite (proj2 (Nat.ltb_lt _ _)) by (rewrite length_app, length_map; cbn; lia).
  f_equal. rewrite <-(length_map Some done) at 1. rewrite <-(Nat.add_0_r (List.length _)).
  rewrite insert_app_r. cbn. by rewrite map_app, <-app_assoc.
Qed.

(** The second pass writes the statements, each to the next free slot. *)
Lemma fill_pass ts d cur start from n done :
  Z.abs d + Z.of_nat (List.length ts) < 2 ^ 64 -> eof_last ts \/ ts = [] ->
  positioned from n ts -> 0 <= start <= from -> n < int_max ->
  let ss := spans start (chunks d cur ts) in
  exists f, ofold fill_token
      (mkFiller (has_keyword cur) (wrap64 d) start (List.length done)
         (map Some done ++ replicate (List.length ss) None)) ts = Ok f /\
    stmts f = map Some (done ++ ss).
Proof.
  revert d cur start from done.
  induction ts as [|t ts IH]; intros d cur start from done Hd He Hp Hs Hn.
  { eexists. split; [done|]. cbn. by rewrite !app_nil_r. }
  assert (Htl : eof_last ts \/ ts = []).
  { destruct He as [He|]; [|done]. destruct (eof_last_cons _ _ He) as [|[_ ?]]; auto. }
  assert (from <= yylloc t <= n /\ positioned (yylloc t + 1) n ts) as [Ht Hp'].
  { destruct ts; [done|]. destruct Hp. split; [lia|done]. }
  cbn [List.length] in Hd. pose proof (paren_delta_abs (tok t)).
  cbv zeta. rewrite spans_chunks_cons. cbn [ofold]. rewrite fill_token_eq by lia.
  destruct (terminator (tok t) && _) eqn:E.
  - assert (Hnext : forall done', exists f, ofold fill_token
        (mkFiller false (wrap64 0) (yylloc t + 1) (List.length done')
          (map Some done' ++ replicate (List.length (spans (yylloc t + 1) (chunks 0 [] ts))) None)) ts
        = Ok f /\ stmts f = map Some (done' ++ spans (yylloc t + 1) (chunks 0 [] ts))).
    { intros done'. apply (IH 0 [] _ (yylloc t + 1)); try done; lia. }
    rewrite (int32_small (yylloc t + 1)) by (unfold int_min; lia).
    destruct (has_keyword cur); cbn [app List.length].
    + rewrite set_stmt_next. cbn [obind]. rewrite int32_small by (unfold int_min; lia).
      destruct (Hnext (done ++ [mkSplitStmt start (yylloc t - start)])%list) as (f & Hf & Es).
      exists f. rewrite length_app, Nat.add_1_r in Hf. rewrite <-app_assoc in Es.
      split; [exact Hf|exact Es].
    + cbn [obind]. destruct (Z.eqb_spec (tok t) SEMICOLON); [apply Hnext|].
      destruct He as [He|]; [|done]. destruct (eof_last_cons _ _ He) as [->|[H0 _]].
      * eexists. split; [done|]. cbn. by rewrite !app_nil_r.
      * apply andb_true_iff in E as [[E|E]%orb_true_iff _]; by apply Z.eqb_eq in E.
  - cbn [obind]. specialize (IH (d + paren_delta (tok t)) (cur ++ [t])%list start (yylloc t + 1) done).
    rewrite has_keyword_snoc in IH. apply IH; try done; lia.
Qed.

(** ** What the spans are *)

(** Spans one after the other, each in what the one before leaves of the input. *)
Fixpoint laid_out (from n : Z) (ss : list PgQuerySplitStmt) : Prop :=
  match ss with
  | [] => True
  | s :: ss' =>
      from <= stmt_location s /\ 0 <= stmt_len s /\ stmt_location s + stmt_len s <= n /\
      laid_out (stmt_location s + stmt_len s + 1) n ss'
  end.

Lemma laid_out_weaken from from' n ss : from' <= from -> laid_out from n ss -> laid_out from' n ss.
Proof. destruct ss; [done|]. cbn. intuition lia. Qed.

Lemma spans_laid_out ts d cur start from n :
  positioned from n ts -> start <= from -> laid_out start n (spans start (chunks d cur ts)).
Proof.
  revert d cur start from. induction ts as [|t ts IH]; intros d cur start from Hp Hs; [done|].
  assert (from <= yylloc t <= n /\ positioned (yylloc t + 1) n ts) as [Ht Hp'].
  { destruct ts; [done|]. destruct Hp. split; [lia|done]. }
  rewrite spans_chunks_cons. destruct (_ && _).
  - assert (Hl : laid_out (yylloc t + 1) n (spans (yylloc t + 1) (chunks 0 [] ts))).
    { apply (IH _ _ _ _ Hp'). lia. }
    destruct (has_keyword cur); cbn [app laid_out stmt_location stmt_len].
    + repeat split; [lia..|]. by replace (start + (yylloc t - start) + 1) with (yylloc t + 1) by lia.
    + eapply laid_out_weaken, Hl. lia.
  - apply (IH _ _ _ _ Hp'). lia.
Qed.

(** A token lies in a statement if its first byte does. *)
Definition inside (t : token) (s : PgQuerySplitStmt) : Prop :=
  stmt_location s <= yylloc t < stmt_location s + stmt_len s.

Lemma terminator_not_keyword t : is_keyword t = true -> terminator t = false.
Proof. intros H. unfold terminator. by destruct (keyword_plain _ H) as (_ & _ & -> & ->). Qed.

Definition balance (ts : list token) : Z := foldr (fun t b => paren_delta (tok t) + b) 0 ts.

(** When the parentheses match at the end, every keyword is in a statement. *)
Lemma keyword_inside ts d cur start from n t :
  positioned from n ts -> eof_last ts -> d + balance ts = 0 ->
  Forall (fun u => start <= yylloc u < from) cur -> start <= from ->
  In t (cur ++ ts)%list -> is_keyword (tok t) = true ->
  exists s, In s (spans start (chunks d cur ts)) /\ inside t s.
Proof.
  revert d cur start from. induction ts as [|u ts IH];
    intros d cur start from Hp He Hb Hc Hs Hin Hk; [by destruct He as ([|] & ? & ? & _)|].
  assert (from <= yylloc u <= n /\ positioned (yylloc u + 1) n ts) as [Hu Hp'].
  { destruct ts; [done|]. destruct Hp. split; [lia|done]. }
  cbn [balance foldr] in Hb. fold (balance ts) in Hb.
  rewrite spans_chunks_cons. destruct (terminator (tok u) && _) eqn:E.
  - apply andb_true_iff in E as [Eu Ed]. apply Z.eqb_eq in Ed.
    apply in_app_or in Hin as [Hin|[<-|Hin]].
    + exists (mkSplitStmt start (yylloc u - start)). split.
      * unfold has_keyword. rewrite (proj2 (existsb_exists _ _)) by eauto. by left.
      * rewrite List.Forall_forall in Hc. specialize (Hc _ Hin). unfold inside. cbn. lia.
    + by rewrite terminator_not_keyword in Eu.
    + destruct (eof_last_cons _ _ He) as [->|[_ He']]; [done|].
      destruct (IH 0 [] (yylloc u + 1) (yylloc u + 1)) as (s & ? & ?); try done; try lia.
      exists s. split; [|done]. apply in_or_app. by right.
  - destruct (eof_last_cons _ _ He) as [->|[_ He']].
    + (* the last token ends the last statement *)
      destruct He as (l & e & El & He0 & _). destruct l as [|? [|]]; [|done..].
      injection El as ->. unfold terminator in E. rewrite He0 in E. cbn in E, Hb.
      rewrite He0 in Hb. cbn in Hb. by replace d with 0 in E by lia.
    + apply (IH _ _ _ (yylloc u + 1)); try done; try lia.
      * apply Forall_app. split; [|repeat constructor; lia].
        eapply Forall_impl; [done|]. cbn. lia.
      * by rewrite <-app_assoc.
Qed.

Lemma scans_eof_last {Y} `{Scanner Y} yy ts : scans yy ts -> eof_last ts.
Proof. apply scans_last. Qed.

(** ** Properties *)

Section properties.
Context {Y : Type} `{Scanner Y}.

Lemma split_with_scanner_spans input yy ts :
  scanner_init input = Ok yy -> scans yy ts ->
  positioned 0 (Z.of_nat (String.length input)) ts ->
  Z.of_nat (String.length input) < int_max ->
  pg_query_split_with_scanner input = Split_ok (map Some (spans 0 (chunks 0 [] ts))).
Proof.
  intros Hi Hs Hp Hn. pose proof (positioned_le _ _ _ Hp) as Hlen.
  assert (Hf : (List.length ts <= scan_fuel input)%nat) by (unfold scan_fuel; lia).
  unfold pg_query_split_with_scanner. rewrite Hi.
  erewrite scan_try_scans; [|done|done|apply ofold_pure].
  change (mkCounter false 0 0) with (mkCounter (has_keyword []) (wrap64 0) 0).
  unfold int_max in *.
  rewrite count_pass by (unfold int_max; lia). rewrite Z.add_0_l, Nat2Z.id.
  destruct (fill_pass ts 0 [] 0 0 (Z.of_nat (String.length input)) []) as (f & Hff & Ef);
    [cbn; lia|left; by eapply scans_eof_last|done|lia|unfold int_max; lia|].
  cbn [app map List.length has_keyword existsb] in Hff, Ef. change (wrap64 0) with 0 in Hff.
  erewrite scan_try_scans; [|done..]. by rewrite Ef.
Qed.

(** C9. [pg_query_split_with_scanner] on an input whose tokens are [ts]
    terminates, stays in the array the first pass sized (no slot is written out
    of bounds, and none is left unwritten), does not overflow an [int], and
    returns the reference split: the pieces between terminators outside
    parentheses that have a keyword. *)
Theorem split_with_scanner_correct (input : string) (yy : Y) (ts : list token)
    (Hinit : scanner_init input = Ok yy) (Hscan : scans yy ts)
    (Hpos : positioned 0 (Z.of_nat (String.length input)) ts)
    (Hlen : Z.of_nat (String.length input) < int_max) :
  pg_query_split_with_scanner input = Split_ok (map Some (spans 0 (chunks 0 [] ts))).
Proof. by apply (split_with_scanner_spans input yy). Qed.

(** C21. The statements come in the order of the text, do not overlap (between
    two of them there is the [;]) and lie within the input; and if its
    parentheses match, every keyword of the input is in one of them. *)
Theorem split_with_scanner_covers (input : string) (yy : Y) (ts : list token)
    (Hinit : scanner_init input = Ok yy) (Hscan : scans yy ts)
    (Hpos : positioned 0 (Z.of_nat (String.length input)) ts)
    (Hlen : Z.of_nat (String.length input) < int_max) :
  exists ss, pg_query_split_with_scanner input = Split_ok (map Some ss) /\
    laid_out 0 (Z.of_nat (String.length input)) ss /\
    (balance ts = 0 ->
     forall t, In t ts -> is_keyword (tok t) = true -> exists s, In s ss /\ inside t s).
Proof.
  exists (spans 0 (chunks 0 [] ts)). split; [by apply (split_with_scanner_spans input yy)|].
  split; [by apply (spans_laid_out _ _ _ _ _ _ Hpos)|].
  intros Hb t Hin Hk. eapply (keyword_inside ts 0 [] 0 0); try done.
  by eapply scans_eof_last.
Qed.

(** When the scanner raises an error, after the tokens [ts], the result has the
    error and no statements, but [n_stmts] is the number of the statements that
    were complete before. *)
Theorem split_with_scanner_error (input msg : string) (yy : Y) (ts : list token)
    (Hinit : scanner_init input = Ok yy) (Hscan : scan_fails msg yy ts)
    (Hlen : Z.of_nat (List.length ts) <= Z.of_nat (String.length input) < int_max) :
  pg_query_split_with_scanner input =
  Split_error msg (Z.of_nat (List.length (spans 0 (chunks 0 [] ts)))) None.
Proof.
  unfold pg_query_split_with_scanner. rewrite Hinit.
  erewrite scan_try_fails; [|done|unfold scan_fuel; lia|apply ofold_pure].
  change (mkCounter false 0 0) with (mkCounter (has_keyword []) (wrap64 0) 0).
  unfold int_max in *. rewrite count_pass by (unfold int_max; lia). by rewrite Z.add_0_l.
Qed.

End properties.

(** ** A concrete run *)

(** The tokens of the input below, as the scanner delivers them. *)
Definition sample_input : string := "; SELECT (1;2);x;BEGIN".

Definition sample_tokens : list token := [
  mkToken 59 0 0 1 1; mkToken 615 2 0 6 8; mkToken 40 9 0 1 10; mkToken 266 10 0 1 11; mkToken 59 11 0 1 12;
  mkToken 266 12 0 1 13; mkToken 41 13 0 1 14; mkToken 59 14 0 1 15; mkToken 258 15 16 1 16;
  mkToken 59 16 0 1 17; mkToken 305 17 0 5 22; mkToken 0 22 0 0 22].

Definition sample_scanner : Scanner (outcome (list token)) :=
  list_scanner (fun _ => Ok sample_tokens).

Lemma sample_scans : @scans _ sample_scanner (Ok sample_tokens) sample_tokens.
Proof.
  repeat (eapply scans_token; [reflexivity|cbn; lia|]).
  eapply scans_end; reflexivity.
Defined.

Lemma split_with_scanner_correct_witness :
  @pg_query_split_with_scanner _ sample_scanner sample_input =
  Split_ok [Some (mkSplitStmt 1 13); Some (mkSplitStmt 17 5)].
Proof.
  apply (@split_with_scanner_correct _ sample_scanner sample_input (Ok sample_tokens) sample_tokens).
  - reflexivity.
  - exact sample_scans.
  - cbn. lia.
  - cbn. unfold int_max. lia.
Defined.

Lemma split_with_scanner_covers_witness :
  exists ss, @pg_query_split_with_scanner _ sample_scanner sample_input = Split_ok (map Some ss) /\
    laid_out 0 22 ss /\
    (balance sample_tokens = 0 ->
     forall t, In t sample_tokens -> is_keyword (tok t) = true -> exists s, In s ss /\ inside t s).
Proof.
  apply (@split_with_scanner_covers _ sample_scanner sample_input (Ok sample_tokens) sample_tokens).
  - reflexivity.
  - exact sample_scans.
  - cbn. lia.
  - cbn. unfold int_max. lia.
Defined.

Definition failing_scanner : Scanner (outcome (list token)) :=
  list_scanner (fun _ => Ok
    [mkToken 615 0 0 6 6; mkToken 266 7 0 1 8; mkToken 59 8 0 1 9; mkToken 615 10 0 6 16]).

Lemma split_with_scanner_error_witness :
  @pg_query_split_with_scanner _ failing_scanner "SELECT 1; SELECT 'x" =
  Split_error "unterminated input" 1 None.
Proof.
  apply (@split_with_scanner_error _ failing_scanner "SELECT 1; SELECT 'x" "unterminated input"
           (Ok [mkToken 615 0 0 6 6; mkToken 266 7 0 1 8; mkToken 59 8 0 1 9; mkToken 615 10 0 6 16])
           [mkToken 615 0 0 6 6; mkToken 266 7 0 1 8; mkToken 59 8 0 1 9; mkToken 615 10 0 6 16]).
  - reflexivity.
  - do 4 (eapply fails_later; [reflexivity|cbn; lia|]). by apply fails_now.
  - cbn. unfold int_max. lia.
Defined.
