(* ===== verification/Scan.v ===== *)
(** * The token list of a query

    [pg_query_scan] of [src/pg_query_scan.c]: two runs of the scanner, the
    first to count the tokens, the second to write one [PgQuery__ScanToken] per
    token.  The packing of the result into a protocol buffer is not modelled. *)
From S2P Require Import Prelude Keywords Scanner.

Open Scope Z_scope.

Record ScanToken : Type := mkScanToken {
  st_start : Z;
  st_end : Z;
  st_token : Z;
  st_keyword_kind : Z
}.

(** The numbers of the categories ([common/keywords.h]). *)
Definition category_number (c : KeywordCategory) : Z :=
  match c with
  | UNRESERVED_KEYWORD => 0
  | COL_NAME_KEYWORD => 1
  | TYPE_FUNC_NAME_KEYWORD => 2
  | RESERVED_KEYWORD => 3
  end.

(** [switch (tok) { case b: keyword_kind = c + 1; ... default: keyword_kind = 0 }] *)
Definition keyword_kind (t : Z) : Z :=
  match keyword_of_token t with
  | Some i => category_number (keyword_category (Z.of_nat i)) + 1
  | None => 0
  end.

(** The tokens whose end the scanner reports itself. *)
Definition has_own_end (t : Z) : bool :=
  (t =? SCONST) || (t =? BCONST) || (t =? XCONST) || (t =? IDENT) || (t =? C_COMMENT).

Definition scan_token (t : token) : ScanToken :=
  mkScanToken (yylloc t)
    (if has_own_end (tok t) then yyllocend t else int32 (yylloc t + yyleng t))
    (tok t) (keyword_kind (tok t)).

(** The first loop stops at the end of the input before it counts. *)
Definition count_step (token_count : nat) (t : token) : nat :=
  if tok t =? 0 then token_count else S token_count.

(** [output_tokens[i] = ...; i++]: [output_tokens] has [token_count] slots. *)
Definition output_step (st : nat * list (option ScanToken)) (t : token) :
    outcome (nat * list (option ScanToken)) :=
  let '(i, output_tokens) := st in
  if tok t =? 0 then Ok st
  else if (i <? List.length output_tokens)%nat
  then Ok (S i, <[i := Some (scan_token t)]> output_tokens)
  else Undef.

(** The tokens, or the error of the [PG_CATCH] block. *)
Definition pg_query_scan {Y} `{Scanner Y} (input : string) : outcome (list (option ScanToken)) :=
  let* yyscanner := scanner_init input in
  let* token_count := scan_fold (fun n t => Ok (count_step n t)) (scan_fuel input) yyscanner O in
  let* yyscanner := scanner_init input in
  let* st := scan_fold output_step (scan_fuel input) yyscanner (O, replicate token_count None) in
  Ok (snd st).

(** ** Lemmas *)

Lemma count_tokens l e n :
  tok e = 0 -> Forall (fun t => tok t <> 0) l ->
  foldl count_step n (l ++ [e])%list = (n + List.length l)%nat.
Proof.
  intros He Hl. rewrite foldl_app. cbn. unfold count_step at 1. rewrite He. cbn.
  revert n. induction Hl as [|t l Ht _ IH]; intros n; cbn; [lia|].
  unfold count_step at 2. apply Z.eqb_neq in Ht as ->. rewrite IH. lia.
Qed.

Lemma output_tokens_spec l e done :
  tok e = 0 -> Forall (fun t => tok t <> 0) l ->
  ofold output_step
    (List.length done, map Some done ++ replicate (List.length l) None)%list (l ++ [e])%list =
  Ok ((List.length done + List.length l)%nat, map Some (done ++ map scan_token l))%list.
Proof.
  intros He Hl. revert done. induction Hl as [|t l Ht _ IH]; intros done; cbn [app ofold output_step List.length].
  - rewrite He. cbn. by rewrite !app_nil_r, Nat.add_0_r.
  - apply Z.eqb_neq in Ht as ->.
    rewrite (proj2 (Nat.ltb_lt (List.length done) _))
      by (rewrite length_app, length_map, length_replicate; lia).
    cbn [obind]. specialize (IH (done ++ [scan_token t])%list).
    rewrite length_app, Nat.add_1_r, map_app, <-!app_assoc in IH. cbn in IH.
    rewrite <-(length_map Some done) at 2. rewrite <-(Nat.add_0_r (List.length (map Some done))).
    rewrite insert_app_r. cbn. rewrite IH. f_equal. f_equal. lia.
Qed.

(** ** Properties *)

Section properties.
Context {Y : Type} `{Scanner Y}.

(** C29. [pg_query_scan] terminates and returns one entry per token of the input
    before its end, in order, with the token's own code, start, end and keyword
    kind; the second run writes every slot the first run counted and none
    beyond. *)
Theorem pg_query_scan_correct (input : string) (yy : Y) (ts : list token) (e : token)
    (Hinit : scanner_init input = Ok yy) (Hscan : scans yy (ts ++ [e]))
    (Hpos : positioned 0 (Z.of_nat (String.length input)) (ts ++ [e])) :
  pg_query_scan input = Ok (map (fun t => Some (scan_token t)) ts).
Proof.
  pose proof (positioned_le _ _ _ Hpos) as Hlen.
  assert (Hf : (List.length (ts ++ [e]) <= scan_fuel input)%nat) by (unfold scan_fuel; lia).
  destruct (scans_last _ _ Hscan) as (l & e' & E & He & Hl).
  apply app_inj_tail in E as [<- <-].
  unfold pg_query_scan. rewrite Hinit. cbn [obind].
  rewrite (scan_fold_scans _ _ _ _ _ Hscan Hf), ofold_pure. cbn [obind].
  rewrite (scan_fold_scans _ _ _ _ _ Hscan Hf), count_tokens by done.
  pose proof (output_tokens_spec ts e [] He Hl) as Ho. cbn [List.length map app Nat.add] in Ho.
  rewrite Nat.add_0_l, Ho. cbn. by rewrite map_map.
Qed.

End properties.

(** [SELECT 'a' -- c]: the end of the constant is the scanner's own. *)
Definition sample_query : string := "SELECT 'a'".
Definition sample_query_tokens : list token :=
  [mkToken 615 0 0 6 6; mkToken 261 7 10 1 10].
Definition sample_query_scanner : Scanner (outcome (list token)) :=
  list_scanner (fun _ => Ok (sample_query_tokens ++ [mkToken 0 10 0 0 10])%list).

Lemma pg_query_scan_correct_witness :
  @pg_query_scan _ sample_query_scanner sample_query =
  Ok [Some (mkScanToken 0 6 615 4); Some (mkScanToken 7 10 261 0)].
Proof.
  apply (@pg_query_scan_correct _ sample_query_scanner sample_query
           (Ok (sample_query_tokens ++ [mkToken 0 10 0 0 10])%list) sample_query_tokens (mkToken 0 10 0 0 10)).
  - reflexivity.
  - repeat (eapply scans_token; [reflexivity|cbn; lia|]). eapply scans_end; reflexivity.
  - cbn. lia.
Defined.
