(* ===== verification/Normalize.v ===== *)
(** * Replacing the constants of a query by parameter symbols

    [src/pg_query_normalize.c]: the record of constant locations that the tree
    walk fills ([RecordConstLocation]), the scan that finds how long the
    constants are ([fill_in_constant_lengths]) and the text with [$n] in their
    place ([generate_normalized_query]).  The scanner and [qsort] are
    parameters; the walk over the tree is in [Walker]. *)
From S2P Require Import Prelude Buffer StringInfo DeparseNames Scanner.
From Stdlib Require Import Sorting.Sorted Sorting.Permutation.

Open Scope Z_scope.

(** ** Data *)

Record pgssLocationLen : Type := mkLocationLen {
  location : Z;
  length_ : Z;
  param_id : Z
}.

(** [clocations] holds the valid entries ([clocations_count] of them) of a block
    of [clocations_buf_size]; [param_refs] is NULL or the valid entries of a
    block, with its size. *)
Record pgssConstLocations : Type := mkConstLocations {
  clocations : list pgssLocationLen;
  clocations_buf_size : Z;
  highest_normalize_param_id : Z;
  highest_extern_param_id : Z;
  query : string;
  query_len : Z;
  param_refs : option (list Z * Z)
}.

Definition clocations_count (jstate : pgssConstLocations) : Z :=
  Z.of_nat (List.length (clocations jstate)).

(** [comp_location] *)
Definition comp_location (a b : pgssLocationLen) : Z :=
  let l := location a in
  let r := location b in
  if l <? r then -1 else if r <? l then 1 else 0.

(** ** Recording a constant *)

(** [param_refs[param_refs_count] = v; param_refs_count++;] and the enlargement
    that follows it. *)
Definition record_param_ref (v : Z) (refs : option (list Z * Z)) : outcome (option (list Z * Z)) :=
  match refs with
  | None => Ok None
  | Some (l, buf_size) =>
      if Z.of_nat (List.length l) <? buf_size then
        let l' := (l ++ [v])%list in
        if buf_size <=? Z.of_nat (List.length l') then
          let* _ := alloc_size (buf_size * 2 * 4) in
          Ok (Some (l', int32 (buf_size * 2)))
        else Ok (Some (l', buf_size))
      else Undef
  end.

Definition RecordConstLocation (jstate : pgssConstLocations) (loc : Z) : outcome pgssConstLocations :=
  if 0 <=? loc then
    let* buf_size :=
      if clocations_buf_size jstate <=? clocations_count jstate then
        let* _ := alloc_size (clocations_buf_size jstate * 2 * 12) in
        Ok (int32 (clocations_buf_size jstate * 2))
      else Ok (clocations_buf_size jstate) in
    if clocations_count jstate <? buf_size then
      let id := - highest_normalize_param_id jstate in
      let* refs := record_param_ref id (param_refs jstate) in
      Ok (mkConstLocations (clocations jstate ++ [mkLocationLen loc (-1) id])%list buf_size
            (int32 (highest_normalize_param_id jstate + 1)) (highest_extern_param_id jstate)
            (query jstate) (query_len jstate) refs)
    else Undef
  else Ok jstate.

(** ** The lengths of the constants *)

(** A byte of the query, or the zero byte after it. *)
Definition char_at (s : string) (i : Z) : ascii :=
  match String.get (Z.to_nat i) s with Some c => c | None => NUL end.

Definition byte_at (s : string) (i : Z) : outcome ascii :=
  if (0 <=? i) && (i <=? Z.of_nat (String.length s)) then Ok (char_at s i) else Undef.

(** [src/postgres/src_backend_parser_scansup.c] *)
Definition scanner_isspace (ch : ascii) : bool :=
  Ascii.eqb ch " " || Ascii.eqb ch "009" || Ascii.eqb ch "010" || Ascii.eqb ch "013" ||
  Ascii.eqb ch "012".

(** [for (; j >= 0 && scanner_isspace(scanbuf[loc + j]); j--) {}], and [j + 1]. *)
Fixpoint trim_spaces (s : string) (loc : Z) (n : nat) : nat :=
  match n with
  | O => O
  | S j => if scanner_isspace (char_at s (loc + Z.of_nat j)) then trim_spaces s loc j else n
  end.

(** [strlen(scanbuf + loc)] after the token [t], without the white space after a
    string with Unicode escapes. *)
Definition const_length (query : string) (t : token) (loc : Z) : Z :=
  let len := (if loc <=? zero_at t then zero_at t else Z.of_nat (String.length query)) - loc in
  if (4 <? len) &&
     (Ascii.eqb (char_at query loc) "u" || Ascii.eqb (char_at query loc) "U") &&
     Ascii.eqb (char_at query (loc + 1)) "&" && Ascii.eqb (char_at query (loc + 2)) "'"
  then Z.of_nat (trim_spaces query loc (Z.to_nat len))
  else len.

Definition set_length (l : pgssLocationLen) (n : Z) : pgssLocationLen :=
  mkLocationLen (location l) n (param_id l).

Section fill.
Context {Y : Type} `{Scanner Y}.

(** The inner loop: the token whose end is the end of the constant, or none if
    the scanner came to the end of the input. *)
Fixpoint find_constant (query : string) (loc : Z) (fuel : nat) (yy : Y) : outcome (option (token * Y)) :=
  match fuel with
  | O => Undef
  | S fuel =>
      let* (t, yy') := core_yylex yy in
      if tok t =? 0 then Ok None
      else if loc <=? yylloc t then
        let* c := byte_at query loc in
        if Ascii.eqb c "-" then
          let* (t', yy'') := core_yylex yy' in
          if tok t' =? 0 then Ok None else Ok (Some (t', yy''))
        else Ok (Some (t, yy'))
      else find_constant query loc fuel yy'
  end.

(** The outer loop over the sorted locations. *)
Fixpoint fill_lengths (query : string) (last_loc : Z) (yy : Y) (locs : list pgssLocationLen) :
    outcome (list pgssLocationLen) :=
  match locs with
  | [] => Ok []
  | l :: locs' =>
      let loc := location l in
      if loc <? 0 then Undef                                     (* Assert(loc >= 0) *)
      else if loc <=? last_loc then
        let* rest := fill_lengths query last_loc yy locs' in Ok (l :: rest)
      else
        let* r := find_constant query loc (scan_fuel query) yy in
        match r with
        | None => Ok (l :: locs')
        | Some (t, yy') =>
            let* rest := fill_lengths query loc yy' locs' in
            Ok (set_length l (const_length query t loc) :: rest)
        end
  end.

Definition fill_in_constant_lengths
    (qsort : (pgssLocationLen -> pgssLocationLen -> Z) -> list pgssLocationLen -> list pgssLocationLen)
    (jstate : pgssConstLocations) (query : string) : outcome (list pgssLocationLen) :=
  let locs := if 1 <? clocations_count jstate then qsort comp_location (clocations jstate)
              else clocations jstate in
  let* yyscanner := scanner_init query in
  fill_lengths query (-1) yyscanner locs.

(** ** The normalized text *)

(** [memcpy] into the block of [buflen + 1] bytes that holds [out]. *)
Definition copy_bytes (buflen : Z) (out query : string) (src len : Z) : outcome string :=
  if (0 <=? len) && (0 <=? src) && (src + len <=? Z.of_nat (String.length query)) &&
     (Z.of_nat (String.length out) + len <=? buflen + 1)
  then Ok (out +:+ String.substring (Z.to_nat src) (Z.to_nat len) query)
  else Undef.

(** [sprintf] to the end of it, with the zero byte. *)
Definition print_bytes (buflen : Z) (out text : string) : outcome string :=
  if Z.of_nat (String.length out) + Z.of_nat (String.length text) + 1 <=? buflen + 1
  then Ok (out +:+ text) else Undef.

Definition param_number (highest_extern : Z) (l : pgssLocationLen) : Z :=
  if param_id l <? 0 then int32 (highest_extern + int32 (Z.abs (param_id l))) else param_id l.

(** The loop: what is in the block, and the locals [quer_loc], [last_off],
    [last_tok_len]. *)
Fixpoint replace_consts (query : string) (buflen highest_extern query_loc : Z)
    (out : string) (quer_loc last_off last_tok_len : Z) (locs : list pgssLocationLen) :
    outcome (string * Z) :=
  match locs with
  | [] => Ok (out, quer_loc)
  | l :: locs' =>
      let off := location l - query_loc in
      let tok_len := length_ l in
      if tok_len <? 0 then
        replace_consts query buflen highest_extern query_loc out quer_loc last_off last_tok_len locs'
      else
        let len_to_wrt := off - last_off - last_tok_len in
        let* out := copy_bytes buflen out query quer_loc len_to_wrt in
        let* out := print_bytes buflen out ("$" +:+ fmt_d (param_number highest_extern l)) in
        replace_consts query buflen highest_extern query_loc out (off + tok_len) off tok_len locs'
  end.

Definition generate_normalized_query
    (qsort : (pgssLocationLen -> pgssLocationLen -> Z) -> list pgssLocationLen -> list pgssLocationLen)
    (jstate : pgssConstLocations) (query_loc query_len : Z) : outcome string :=
  let* locs := fill_in_constant_lengths qsort jstate (query jstate) in
  let buflen := int32 (query_len + int32 (clocations_count jstate * 10)) in
  let* _ := alloc_size (buflen + 1) in                           (* palloc *)
  let* (out, quer_loc) :=
    replace_consts (query jstate) buflen (highest_extern_param_id jstate) query_loc "" 0 0 0 locs in
  let* out := copy_bytes buflen out (query jstate) quer_loc (query_len - quer_loc) in
  if Z.of_nat (String.length out) + 1 <=? buflen + 1 then Ok out else Undef.

End fill.

(** ** Reference definitions *)

(** Entries that can be replaced: from left to right, apart, not empty; an entry
    of negative length is left out. *)
Fixpoint spaced (from n : Z) (locs : list pgssLocationLen) : Prop :=
  match locs with
  | [] => True
  | l :: locs' =>
      if length_ l <? 0 then spaced from n locs'
      else from <= location l /\ 1 <= length_ l /\ location l + length_ l <= n /\
           spaced (location l + length_ l) n locs'
  end.

(** The query with every entry replaced by its symbol. *)
Fixpoint normalized (query : string) (highest_extern from : Z) (locs : list pgssLocationLen) : string :=
  match locs with
  | [] => String.substring (Z.to_nat from) (String.length query - Z.to_nat from) query
  | l :: locs' =>
      if length_ l <? 0 then normalized query highest_extern from locs'
      else String.substring (Z.to_nat from) (Z.to_nat (location l - from)) query +:+
           ("$" +:+ fmt_d (param_number highest_extern l)) +:+
           normalized query highest_extern (location l + length_ l) locs'
  end.

(** Tokens with their extents: each ends before the next begins. *)
Fixpoint delimited (from n : Z) (ts : list token) : Prop :=
  match ts with
  | [] => True
  | [t] => from <= yylloc t <= n
  | t :: ((t' :: _) as ts') =>
      from <= yylloc t < zero_at t /\ zero_at t <= yylloc t' /\ delimited (zero_at t) n ts'
  end.

(** The tokens from the first one at or after [loc]. *)
Fixpoint tokens_from (loc : Z) (ts : list token) : list token :=
  match ts with
  | [] => []
  | t :: ts' => if loc <=? yylloc t then ts else tokens_from loc ts'
  end.

(** The length that the search of the code finds for the constant at [loc] when it
    looks for this one only. *)
Definition length_found (query : string) (ts : list token) (loc : Z) : Z :=
  match tokens_from loc ts with
  | t :: rest =>
      if Ascii.eqb (char_at query loc) "-" then
        match rest with t' :: _ => const_length query t' loc | [] => -1 end
      else const_length query t loc
  | [] => -1
  end.

(** The length of the constant at [loc]: to the end of its token, or, after a minus
    sign, of the number, which is the next token that is no comment. *)
Definition comment_token (t : token) : bool := (tok t =? SQL_COMMENT) || (tok t =? C_COMMENT).

Definition length_at (query : string) (ts : list token) (loc : Z) : Z :=
  match tokens_from loc ts with
  | t :: rest =>
      if Ascii.eqb (char_at query loc) "-" then
        match List.filter (fun t => negb (comment_token t)) rest with
        | number :: _ => const_length query number loc
        | [] => -1
        end
      else const_length query t loc
  | [] => -1
  end.


(** The first entry of each location gets its length, the others keep theirs. *)
Fixpoint with_lengths (length : Z -> Z) (last_loc : Z) (locs : list pgssLocationLen) :
    list pgssLocationLen :=
  match locs with
  | [] => []
  | l :: locs' =>
      if location l <=? last_loc then l :: with_lengths length last_loc locs'
      else set_length l (length (location l)) :: with_lengths length (location l) locs'
  end.

(** [loc] is where a constant begins: at a token, or at a minus sign before a
    token that is not the place of another constant. *)
Definition const_at (query : string) (ts : list token) (locs : list pgssLocationLen) (loc : Z) : Prop :=
  exists a t t' b, ts = (a ++ t :: t' :: b)%list /\ yylloc t = loc /\ tok t <> 0 /\
    (char_at query loc = "-"%char ->
     tok t' <> 0 /\ Forall (fun l => location l <> yylloc t') locs).

(** ** Lemmas: the text *)



Section text.
Context (query : string) (buflen highest_extern : Z).
Abbreviation n := (Z.of_nat (String.length query)).



End text.

(** ** Lemmas: the lengths *)

Lemma delimited_cons from n t t' ts :
  delimited from n (t :: t' :: ts) ->
  from <= yylloc t < zero_at t /\ zero_at t <= yylloc t' /\ delimited (zero_at t) n (t' :: ts).
Proof. done. Qed.

Lemma delimited_weaken from from' n ts : from' <= from -> delimited from n ts -> delimited from' n ts.
Proof. destruct ts as [|t [|t' ts]]; [done|cbn; lia|]. intros ? (? & ? & ?)%delimited_cons. cbn. intuition lia. Qed.

Lemma delimited_app_r from n a ts : delimited from n (a ++ ts)%list -> delimited from n ts.
Proof.
  revert from. induction a as [|t a IH]; intros from Hd; [done|].
  destruct (a ++ ts)%list as [|t' l] eqn:E.
  { by apply app_nil in E as [_ ->]. }
  cbn in Hd. rewrite E in Hd. apply delimited_cons in Hd as (? & ? & Hd).
  eapply delimited_weaken; [|by apply IH]. lia.
Qed.

Lemma delimited_before from n a t ts :
  delimited from n (a ++ t :: ts)%list -> Forall (fun u => yylloc u < yylloc t) a.
Proof.
  revert from. induction a as [|u a IH]; intros from Hd; [done|].
  assert (exists t' l, (a ++ t :: ts)%list = t' :: l) as (t' & l & E) by (destruct a; cbn; eauto).
  cbn in Hd. rewrite E in Hd. apply delimited_cons in Hd as (? & ? & Hd). rewrite <-E in Hd.
  constructor; [|by eapply IH].
  assert (Ht : delimited (zero_at u) n (t :: ts)) by by eapply delimited_app_r.
  destruct ts; cbn in Ht; lia.
Qed.

Lemma tokens_from_skip loc a ts :
  Forall (fun u => yylloc u < loc) a -> tokens_from loc (a ++ ts)%list = tokens_from loc ts.
Proof. induction 1 as [|u a Hu _ IH]; [done|]. cbn. by rewrite (proj2 (Z.leb_gt _ _)). Qed.

Lemma tokens_from_here t ts : tokens_from (yylloc t) (t :: ts) = t :: ts.
Proof. cbn. by rewrite Z.leb_refl. Qed.

Lemma trim_spaces_le s loc k : (trim_spaces s loc k <= k)%nat.
Proof. induction k as [|j IH]; [done|]. cbn. destruct (scanner_isspace _); lia. Qed.

Lemma trim_spaces_pos s loc k :
  scanner_isspace (char_at s loc) = false -> (0 < k)%nat -> (1 <= trim_spaces s loc k)%nat.
Proof.
  intros Hs. induction k as [|j IH]; [lia|]. intros _. cbn.
  destruct (scanner_isspace (char_at s (loc + Z.of_nat j))) eqn:E; [|lia].
  destruct j as [|j]; [|apply IH; lia]. by rewrite Z.add_0_r, Hs in E.
Qed.

(** A constant has at least one byte and ends no later than its last token. *)
Lemma const_length_bounds query t loc :
  loc < zero_at t -> 1 <= const_length query t loc <= zero_at t - loc.
Proof.
  intros H. unfold const_length. rewrite (proj2 (Z.leb_le _ _)) by lia.
  destruct (_ && _) eqn:E; [|lia].
  pose proof (trim_spaces_le query loc (Z.to_nat (zero_at t - loc))).
  split; [|lia]. apply (Nat2Z.inj_le 1), trim_spaces_pos; [|lia].
  apply andb_true_iff in E as [[[_ E]%andb_true_iff _]%andb_true_iff _].
  by apply orb_true_iff in E as [E|E]; apply Ascii.eqb_eq in E as ->.
Qed.

Section lengths.
Context {Y : Type} `{Scanner Y}.

Lemma scans_app yy a ts :
  scans yy (a ++ ts)%list -> ts <> [] -> exists yy', scans yy' ts.
Proof.
  revert yy. induction a as [|t a IH]; intros yy Hs Hne; [by exists yy|].
  inversion Hs; subst; [|by eapply IH]. exfalso. apply Hne. by eapply app_nil.
Qed.

(** The inner loop finds the token at [loc]. *)
Lemma find_constant_spec query loc fuel yy a t t' b from n :
  scans yy (a ++ t :: t' :: b)%list -> delimited from n (a ++ t :: t' :: b)%list ->
  yylloc t = loc -> 0 <= loc <= Z.of_nat (String.length query) ->
  (List.length (a ++ t :: t' :: b) <= fuel)%nat ->
  (char_at query loc = "-"%char -> tok t' <> 0) ->
  exists u rest yy', find_constant query loc fuel yy = Ok (Some (u, yy')) /\
    scans yy' rest /\
    (if Ascii.eqb (char_at query loc) "-" then u = t' /\ rest = b else u = t /\ rest = t' :: b).
Proof.
  intros Hs Hd Hl Hloc Hf Hm. revert yy fuel from Hs Hd Hf.
  induction a as [|v a IH]; intros yy [|fuel] from Hs Hd Hf; try (cbn in Hf; lia); cbn [find_constant].
  - inversion Hs as [|? ? yy' ? Hlex H0 Hs']; subst. rewrite Hlex. cbn [obind].
    rewrite (proj2 (Z.eqb_neq _ _)), Z.leb_refl by done. unfold byte_at.
    rewrite !(proj2 (Z.leb_le _ _)) by lia. cbn [andb obind].
    destruct (Ascii.eqb_spec (char_at query (yylloc t)) "-") as [E|_].
    + inversion Hs' as [? ? yy2 Hlex2 ?|? ? yy2 ? Hlex2 ? Hs2]; subst; [by destruct (Hm E)|].
      rewrite Hlex2. cbn [obind]. rewrite (proj2 (Z.eqb_neq _ _)) by auto.
      by exists t', b, yy2.
    + by exists t, (t' :: b), yy'.
  - pose proof (delimited_before _ _ (v :: a) _ _ Hd) as Hb.
    inversion Hb as [|? ? Hv _]; subst.
    inversion Hs as [? ? ? ? ?|? ? yy' ? Hlex H0 Hs']; subst; [by destruct a|]. rewrite Hlex. cbn [obind].
    rewrite (proj2 (Z.eqb_neq _ _)), (proj2 (Z.leb_gt _ _)) by done.
    apply (IH _ _ from); [done| |cbn in Hf |- *; lia].
    by apply (delimited_app_r _ _ [v]).
Qed.

(** What is left of a list after a part that has not the token. *)
Lemma app_after {A} (l1 r1 l2 r2 : list A) x :
  (l1 ++ r1)%list = (l2 ++ x :: r2)%list -> ~ In x l1 ->
  exists l, r1 = (l ++ x :: r2)%list.
Proof.
  revert l2. induction l1 as [|y l1 IH]; intros l2 E Hx; [by exists l2|].
  destruct l2 as [|z l2]; cbn in E; injection E as <- E; [by destruct Hx; left|].
  eapply IH; [done|]. intros Hin. apply Hx. by right.
Qed.

Lemma const_at_after query all l1 r1 loc :
  const_at query (l1 ++ r1) all loc -> Forall (fun u => yylloc u <> loc) l1 ->
  const_at query r1 all loc.
Proof.
  intros (a & t & t' & b & E & Hl & Ht & Hm) Hne.
  destruct (app_after _ _ _ _ _ E) as [l ->].
  { intros Hin. rewrite List.Forall_forall in Hne. by apply (Hne t Hin). }
  exists l, t, t', b. auto.
Qed.

Lemma delimited_le from n ts : ts <> [] -> delimited from n ts -> from <= n.
Proof.
  revert from. induction ts as [|t [|t' ts] IH]; intros from Hne Hd; [done|cbn in Hd; lia|].
  apply delimited_cons in Hd as (? & ? & Hd). specialize (IH _ ltac:(done) Hd). lia.
Qed.

Lemma const_at_ge query all from n ts loc :
  const_at query ts all loc -> delimited from n ts -> from <= loc.
Proof.
  intros (a & t & t' & b & -> & Hl & _) Hd.
  apply delimited_app_r in Hd. apply delimited_cons in Hd. lia.
Qed.

(** What the scanner has passed and what is left after a constant. *)
Lemma after_constant query all a t t' b u rest' yy' lower n :
  delimited lower n (a ++ t :: t' :: b) -> scans yy' rest' ->
  (char_at query (yylloc t) = "-"%char ->
     tok t' <> 0 /\ Forall (fun k => location k <> yylloc t') all) ->
  (if Ascii.eqb (char_at query (yylloc t)) "-" then u = t' /\ rest' = b
   else u = t /\ rest' = t' :: b) ->
  exists seen, (a ++ t :: t' :: b)%list = (seen ++ rest')%list /\
    delimited (zero_at u) n rest' /\ yylloc t < zero_at u /\
    Forall (fun v => yylloc v <= yylloc t \/ Forall (fun k => location k <> yylloc v) all) seen.
Proof.
  intros Hd Hs' Hm Hu.
  pose proof (delimited_app_r _ _ _ _ Hd) as Ht'. apply delimited_cons in Ht' as (Ht1 & Ht2 & Ht3).
  assert (Ha : Forall (fun v => yylloc v <= yylloc t \/
      Forall (fun k => location k <> yylloc v) all) (a ++ [t])).
  { apply Forall_app. split; [|repeat constructor; lia].
    eapply Forall_impl; [apply (delimited_before _ _ _ _ _ Hd)|]. cbn. intros v Hv. left. lia. }
  destruct (Ascii.eqb_spec (char_at query (yylloc t)) "-") as [E|_]; destruct Hu as [-> ->].
  - destruct (Hm E) as [_ Hfree]. exists (a ++ [t; t'])%list.
    destruct b as [|t2 b]; [by inversion Hs'|]. apply delimited_cons in Ht3 as (? & ? & ?).
    rewrite <-app_assoc. repeat split; try done; [lia|].
    change [t; t'] with ([t] ++ [t'])%list. rewrite app_assoc. apply Forall_app.
    split; [done|]. apply Forall_singleton. by right.
  - exists (a ++ [t])%list. rewrite <-app_assoc. repeat split; try done. lia.
Qed.

(** The end of a constant in the input, and its length by a search of its own. *)
Lemma constant_in_input query a t t' b u pre lower from n :
  delimited from n (pre ++ a ++ t :: t' :: b) -> delimited lower n (a ++ t :: t' :: b) ->
  (if Ascii.eqb (char_at query (yylloc t)) "-" then u = t' else u = t) ->
  yylloc t <= n /\
  length_found query (pre ++ a ++ t :: t' :: b) (yylloc t) = const_length query u (yylloc t).
Proof.
  intros Hd Hdr Hu. pose proof (delimited_app_r _ _ _ _ Hdr) as Ht.
  apply delimited_cons in Ht as (? & ? & Ht). apply delimited_le in Ht; [|done]. split; [lia|].
  unfold length_found. rewrite app_assoc, tokens_from_skip, tokens_from_here.
  - destruct (Ascii.eqb (char_at query (yylloc t)) "-"); by subst u.
  - apply (delimited_before from n _ t (t' :: b)). by rewrite <-app_assoc.
Qed.

Lemma spaced_weaken from from' n ls : from' <= from -> spaced from n ls -> spaced from' n ls.
Proof.
  induction ls as [|k ls IH]; intros Hle Hs; [done|]. cbn in Hs |- *.
  destruct (length_ k <? 0); [by apply IH|]. intuition lia.
Qed.

Lemma fill_lengths_spec query all pre rest last_loc yy from lower locs :
  let ts := (pre ++ rest)%list in
  let n := Z.of_nat (String.length query) in
  scans yy rest -> delimited from n ts -> delimited lower n rest ->
  0 <= from -> (List.length ts <= scan_fuel query)%nat ->
  StronglySorted (fun a b => location a <= location b) locs ->
  Forall (fun l => In l all /\ 0 <= location l /\ length_ l = -1 /\
    (last_loc < location l -> const_at query rest all (location l))) locs ->
  fill_lengths query last_loc yy locs = Ok (with_lengths (length_found query ts) last_loc locs) /\
  spaced lower n (with_lengths (length_found query ts) last_loc locs).
Proof.
  intros ts n. revert pre rest last_loc yy lower ts.
  induction locs as [|l locs IH]; intros pre rest last_loc yy lower ts Hs Hd Hdr Hfrom Hfuel Hsort Hl;
    [done|].
  apply StronglySorted_inv in Hsort as [Hsort Hle].
  apply Forall_cons in Hl as [(Hin & H0 & Hneg & Hat) Hl]. cbn [fill_lengths with_lengths].
  rewrite (proj2 (Z.ltb_ge _ _)) by done.
  destruct (Z.leb_spec (location l) last_loc) as [Hdup|Hnew].
  { destruct (IH pre rest last_loc yy lower) as [Ef Hsp]; try done.
    fold ts in Ef, Hsp. rewrite Ef. cbn [obind spaced]. by rewrite Hneg. }
  destruct (Hat Hnew) as (a & t & t' & b & Er & Hloc & Ht & Hm). subst rest.
  destruct (find_constant_spec query (location l) (scan_fuel query) yy a t t' b lower n)
    as (u & rest' & yy' & -> & Hs' & Hu); try done.
  { split; [done|]. apply delimited_app_r in Hdr. apply delimited_cons in Hdr as (? & ? & Hx).
    apply delimited_le in Hx; [lia|done]. }
  { unfold ts in Hfuel. rewrite length_app in Hfuel. lia. }
  { by intros E; destruct (Hm E). }
  cbn [obind]. rewrite <-Hloc in Hm, Hu, Hnew, H0.
  destruct (after_constant query all a t t' b u rest' yy' lower n) as (seen & Eseen & Hdu & Hzu & Hseen);
    try done.
  destruct (constant_in_input query a t t' b u pre lower from n) as [Hlen El]; try done.
  { by destruct (Ascii.eqb _ _); destruct Hu. }
  fold ts in El. rewrite Hloc in *.
  destruct (const_length_bounds query u (location l) Hzu) as [Hpos Hend].
  assert (Ets : ts = ((pre ++ seen) ++ rest')%list) by (unfold ts; by rewrite Eseen, app_assoc).
  clearbody ts. rewrite Eseen in *. rewrite El.
  destruct (IH (pre ++ seen)%list rest' (location l) yy' (zero_at u)) as [Ef Hsp];
    rewrite <-?Ets; try done.
  { rewrite List.Forall_forall in Hl, Hle |- *. intros k Hk.
    destruct (Hl k Hk) as (Hkin & Hk0 & Hkn & Hkat). repeat split; try done. intros Hlt.
    apply (const_at_after _ _ seen); [apply Hkat; lia|].
    eapply Forall_impl; [exact Hseen|]. cbn. intros v [Hv|Hv]; [lia|].
    rewrite List.Forall_forall in Hv. intros E. by apply (Hv k Hkin). }
  rewrite <-Ets in Ef, Hsp. rewrite Ef. split; [done|]. cbn [spaced set_length length_ location].
  rewrite (proj2 (Z.ltb_ge _ _)) by lia. repeat split; [|lia| |].
  - apply (const_at_ge query all lower n (seen ++ rest')); [|done]. by apply Hat.
  - apply delimited_le in Hdu; [lia|]. by destruct rest'; [inversion Hs'|].
  - eapply spaced_weaken; [|done]. lia.
Qed.

End lengths.

(** ** Properties *)

(** What is asked of [qsort] with the comparison the code passes. *)
Definition sorts_locations
    (qsort : (pgssLocationLen -> pgssLocationLen -> Z) -> list pgssLocationLen -> list pgssLocationLen) :
    Prop :=
  forall l, Permutation l (qsort comp_location l) /\
    StronglySorted (fun a b => comp_location a b <= 0) (qsort comp_location l).

Lemma comp_location_le a b : comp_location a b <= 0 <-> location a <= location b.
Proof.
  unfold comp_location. destruct (Z.ltb_spec (location a) (location b)); [lia|].
  destruct (Z.ltb_spec (location b) (location a)); lia.
Qed.

Section properties.
Context {Y : Type} `{Scanner Y}.
Context (qsort : (pgssLocationLen -> pgssLocationLen -> Z) ->
                 list pgssLocationLen -> list pgssLocationLen).

(** The locations the walk may record: they are not yet filled in, and each is
    where a constant begins. *)
Definition recorded (query : string) (ts : list token) (locs : list pgssLocationLen) : Prop :=
  Forall (fun l => 0 <= location l /\ length_ l = -1 /\ const_at query ts locs (location l)) locs.

Lemma sorted_locations (Hq : sorts_locations qsort) jstate :
  let locs := if 1 <? clocations_count jstate then qsort comp_location (clocations jstate)
              else clocations jstate in
  Permutation (clocations jstate) locs /\
  StronglySorted (fun a b => location a <= location b) locs.
Proof.
  cbv zeta. unfold clocations_count. destruct (Z.ltb_spec 1 (Z.of_nat (List.length (clocations jstate)))).
  - destruct (Hq (clocations jstate)) as [Hp Hs]. split; [done|]. clear Hp.
    induction Hs as [|a l Hs IH Ha]; constructor.
    + exact IH.
    + eapply Forall_impl; [exact Ha|]. intros b. by rewrite comp_location_le.
  - split; [done|]. destruct (clocations jstate) as [|a [|b l]]; [constructor|by repeat constructor|].
    cbn in *. lia.
Qed.

Lemma fill_spec jstate (Hq : sorts_locations qsort) yy ts :
  let q := query jstate in
  scanner_init q = Ok yy -> scans yy ts -> delimited 0 (Z.of_nat (String.length q)) ts ->
  recorded q ts (clocations jstate) ->
  exists locs, Permutation (clocations jstate) locs /\
    StronglySorted (fun a b => location a <= location b) locs /\
    fill_in_constant_lengths qsort jstate q = Ok (with_lengths (length_found q ts) (-1) locs) /\
    spaced 0 (Z.of_nat (String.length q)) (with_lengths (length_found q ts) (-1) locs).
Proof.
  intros q Hi Hs Hd Hr. destruct (sorted_locations Hq jstate) as [Hp Hsort].
  eexists. split; [exact Hp|]. split; [exact Hsort|].
  unfold fill_in_constant_lengths. rewrite Hi. cbn [obind].
  apply (fill_lengths_spec q (clocations jstate) [] ts (-1) yy 0 0); try done.
  - assert (Hlen : forall from n l, delimited from n l -> Z.of_nat (List.length l) <= Z.max 0 (n - from + 1)).
    { intros from n l. revert from. induction l as [|t [|t' l] IH]; intros from Hdl; [cbn; lia|cbn in *; lia|].
      apply delimited_cons in Hdl as (? & ? & Hdl). specialize (IH _ Hdl). cbn [List.length] in *.
      apply delimited_le in Hdl; [|done]. lia. }
    specialize (Hlen _ _ _ Hd). unfold scan_fuel. cbn [app]. lia.
  - eapply Permutation_Forall; [exact Hp|]. unfold recorded in Hr.
    rewrite List.Forall_forall in Hr |- *. intros l Hl. destruct (Hr l Hl) as (? & ? & ?). auto.
Qed.

(** C10. [fill_in_constant_lengths] finds, in one run over the sorted locations,
    the length that a search from the start of the query would find for each
    constant (the token there, with the number after a minus sign, without the
    white space the scanner reads after [U&'...']), leaves repeated locations
    at -1, and the constants it marks do not overlap. *)
Theorem fill_in_constant_lengths_correct (jstate : pgssConstLocations) (yy : Y) (ts : list token)
    (Hqsort : sorts_locations qsort) (Hinit : scanner_init (query jstate) = Ok yy)
    (Hscan : scans yy ts) (Hdel : delimited 0 (Z.of_nat (String.length (query jstate))) ts)
    (Hrec : recorded (query jstate) ts (clocations jstate)) :
  exists locs, Permutation (clocations jstate) locs /\
    StronglySorted (fun a b => location a <= location b) locs /\
    fill_in_constant_lengths qsort jstate (query jstate) =
      Ok (with_lengths (length_found (query jstate) ts) (-1) locs) /\
    spaced 0 (Z.of_nat (String.length (query jstate))) (with_lengths (length_found (query jstate) ts) (-1) locs).
Proof. by apply (fill_spec jstate Hqsort yy ts). Qed.







End properties.

(** ** Concrete runs *)

(** A sorting function, for the examples. *)
Fixpoint insert_location (cmp : pgssLocationLen -> pgssLocationLen -> Z) (a : pgssLocationLen)
    (l : list pgssLocationLen) : list pgssLocationLen :=
  match l with
  | [] => [a]
  | b :: l' => if cmp a b <=? 0 then a :: l else b :: insert_location cmp a l'
  end.

Definition insertion_sort (cmp : pgssLocationLen -> pgssLocationLen -> Z) (l : list pgssLocationLen) :
    list pgssLocationLen := foldr (insert_location cmp) [] l.

Lemma insertion_sort_sorts : sorts_locations insertion_sort.
Proof.
  intros l. assert (Hins : forall a l, Permutation (a :: l) (insert_location comp_location a l)).
  { intros a m. induction m as [|b m IH]; [done|]. cbn. destruct (_ <=? 0); [done|].
    rewrite perm_swap. by apply perm_skip. }
  induction l as [|a l [Hp Hs]]; [split; constructor|]. cbn [insertion_sort foldr].
  fold (insertion_sort comp_location l). split; [rewrite <-Hins; by apply perm_skip|].
  clear Hp. induction Hs as [|b m Hm IH Hb]; [repeat constructor|]. cbn.
  destruct (Z.leb_spec (comp_location a b) 0) as [Hle|Hgt].
  - constructor; [by constructor|]. constructor; [done|].
    eapply Forall_impl; [exact Hb|]. intros c. rewrite !comp_location_le in *. lia.
  - constructor; [exact IH|]. eapply Permutation_Forall; [apply Hins|]. constructor; [|done].
    rewrite comp_location_le. assert (~ comp_location a b <= 0) as Hn by lia.
    rewrite comp_location_le in Hn. lia.
Qed.

(** [SELECT 'a', -1], with the first constant recorded twice. *)
Definition sample_query : string := "SELECT 'a', -1".
Definition sample_query_tokens : list token :=
  [mkToken 615 0 0 6 6; mkToken 261 7 10 1 10; mkToken 44 10 0 1 11; mkToken 45 12 0 1 13;
   mkToken 266 13 0 1 14; mkToken 0 14 0 0 14].
Definition sample_query_scanner : Scanner (outcome (list token)) :=
  list_scanner (fun _ => Ok sample_query_tokens).
Definition sample_state : pgssConstLocations :=
  mkConstLocations [mkLocationLen 12 (-1) (-1); mkLocationLen 7 (-1) (-2); mkLocationLen 7 (-1) (-3)]
    32 4 0 sample_query 14 None.

Lemma sample_query_scans : @scans _ sample_query_scanner (Ok sample_query_tokens) sample_query_tokens.
Proof.
  repeat (eapply scans_token; [reflexivity|cbn; lia|]).
  eapply scans_end; reflexivity.
Defined.

Lemma sample_recorded : recorded sample_query sample_query_tokens (clocations sample_state).
Proof.
  assert (H7 : const_at sample_query sample_query_tokens (clocations sample_state) 7).
  { exists [mkToken 615 0 0 6 6]. repeat eexists; [cbn; lia|discriminate..]. }
  unfold recorded. repeat constructor; try exact H7; try (cbn; lia).
  exists [mkToken 615 0 0 6 6; mkToken 261 7 10 1 10; mkToken 44 10 0 1 11].
  repeat eexists; [cbn; lia|cbn; lia|]. repeat constructor; cbn; lia.
Defined.

Lemma fill_in_constant_lengths_correct_witness :
  exists locs, Permutation (clocations sample_state) locs /\
    StronglySorted (fun a b => location a <= location b) locs /\
    @fill_in_constant_lengths _ sample_query_scanner insertion_sort sample_state sample_query =
      Ok (with_lengths (length_found sample_query sample_query_tokens) (-1) locs) /\
    spaced 0 14 (with_lengths (length_found sample_query sample_query_tokens) (-1) locs).
Proof.
  apply (@fill_in_constant_lengths_correct _ sample_query_scanner insertion_sort sample_state
           (Ok sample_query_tokens) sample_query_tokens).
  - exact insertion_sort_sorts.
  - reflexivity.
  - exact sample_query_scans.
  - cbn. lia.
  - exact sample_recorded.
Defined.


Example sample_normalized :
  @generate_normalized_query _ sample_query_scanner insertion_sort sample_state 0 14 =
  Ok "SELECT $2, $1".
Proof. vm_compute. reflexivity. Qed.

(** [SELECT -/*c*/1]: the scanner returns the comment as a token, and the code takes
    it for the number.  The constant has 7 bytes, the length found is 6, and
    what is left of the constant is read as part of the symbol. *)
Definition minus_query : string := "SELECT -/*c*/1".
Definition minus_tokens : list token :=
  [mkToken 615 0 0 6 6; mkToken 45 7 0 1 8; mkToken 276 8 13 2 13; mkToken 266 13 0 1 14; mkToken 0 14 0 0 14].

Example normalize_minus_comment :
  let st := mkConstLocations [mkLocationLen 7 (-1) (-1)] 32 2 0 minus_query 14 None in
  @generate_normalized_query _ (list_scanner (fun _ => Ok minus_tokens)) insertion_sort st 0 14 =
    Ok "SELECT $11" /\
  normalized minus_query 0 0
    (with_lengths (length_at minus_query minus_tokens) (-1) [mkLocationLen 7 (-1) (-1)]) = "SELECT $1".
Proof. vm_compute. split; reflexivity. Qed.

(** A query with a parameter of the highest number. *)
Definition overflow_query : string := "SELECT $2147483647, 1".
Definition overflow_scanner : Scanner (outcome (list token)) :=
  list_scanner (fun _ => Ok [mkToken 615 0 0 6 6; mkToken 267 7 0 11 18; mkToken 44 18 0 1 19;
                             mkToken 266 20 0 1 21; mkToken 0 21 0 0 21]).
Definition overflow_state : pgssConstLocations :=
  mkConstLocations [mkLocationLen 20 (-1) (-1)] 32 2 int_max overflow_query 21 None.

Example normalize_no_overflow :
  let st := mkConstLocations [mkLocationLen 20 (-1) (-1)] 32 2 5 overflow_query 21 None in
  @generate_normalized_query _ overflow_scanner insertion_sort st 0 21 = Ok "SELECT $2147483647, $6".
Proof. vm_compute. reflexivity. Qed.

(** In [SELECT $2147483647, 1] the number of the constant wraps around to
    the smallest [int], and its symbol, of twelve bytes, is one byte longer than
    the code allows for: the text does not fit the block of
    [query_len + 10 * clocations_count + 1] bytes. *)
Example normalize_overflow :
  @generate_normalized_query _ overflow_scanner insertion_sort overflow_state 0 21 = Undef.
Proof. vm_compute. reflexivity. Qed.
