(* ===== verification/Walker.v ===== *)
(** * The walk that records the constants of a query

    [const_record_walker] of [src/pg_query_normalize.c] and
    [raw_expression_tree_walker] of [src/postgres/src_backend_nodes_nodeFuncs.c].
    A walker is a function of the state that returns a boolean, raises an error
    (the state keeps what has been written to it: [PG_CATCH] goes on from there)
    or leaves the contract.  The fingerprint of a node is a parameter. *)
From S2P Require Import Prelude StringInfo Quote Enums Nodes Scanner Normalize.

Open Scope Z_scope.

(** ** Commands with early return and errors *)

Inductive fres : Type :=
| FRet (b : bool) (s : pgssConstLocations)
| FThrow (s : pgssConstLocations)
| FUndef.

(** A call [walker(node, jstate)]. *)
Definition fn : Type := pgssConstLocations -> fres.

Inductive cres (A : Type) : Type :=
| CNext (a : A) (s : pgssConstLocations)
| CReturn (b : bool) (s : pgssConstLocations)
| CThrow (s : pgssConstLocations)
| CUndef.
Arguments CNext {A}.
Arguments CReturn {A}.
Arguments CThrow {A}.
Arguments CUndef {A}.

(** The statements of a function body. *)
Definition cmd (A : Type) : Type := pgssConstLocations -> cres A.

Definition next {A} (a : A) : cmd A := fun s => CNext a s.
Definition cundef {A} : cmd A := fun _ => CUndef.
Definition get : cmd pgssConstLocations := fun s => CNext s s.
Definition bind {A B} (c : cmd A) (k : A -> cmd B) : cmd B := fun s =>
  match c s with
  | CNext a s' => k a s'
  | CReturn b s' => CReturn b s'
  | CThrow s' => CThrow s'
  | CUndef => CUndef
  end.

Declare Scope cmd_scope.
Delimit Scope cmd_scope with cmd.
Notation "'let!' x ':=' c 'in' d" := (bind c (fun x => d))
  (at level 10, x name, c at level 200, d at level 200) : cmd_scope.
Notation "c ';!' d" := (bind c (fun _ => d)) (at level 62, right associativity) : cmd_scope.
Open Scope cmd_scope.

(** The function with the body [c]; at its end it returns [false]. *)
Definition body (c : cmd unit) : fn := fun s =>
  match c s with
  | CNext _ s' => FRet false s'
  | CReturn b s' => FRet b s'
  | CThrow s' => FThrow s'
  | CUndef => FUndef
  end.

(** [if (walker(...)) return true;] *)
Definition if_return (f : fn) : cmd unit := fun s =>
  match f s with
  | FRet true s' => CReturn true s'
  | FRet false s' => CNext tt s'
  | FThrow s' => CThrow s'
  | FUndef => CUndef
  end.

(** [return walker(...);] *)
Definition return_call (f : fn) : cmd unit := fun s =>
  match f s with
  | FRet b s' => CReturn b s'
  | FThrow s' => CThrow s'
  | FUndef => CUndef
  end.

Definition return_false : fn := fun s => FRet false s.
Definition fundef : fn := fun _ => FUndef.

(** [elog(ERROR, "unrecognized node type: %d", ...)] *)
Definition unrecognized : fn := fun s => FThrow s.

(** [PG_TRY(); { return f; } PG_CATCH(); { ... } PG_END_TRY(); return false;] *)
Definition pg_try (f : fn) : fn := fun s =>
  match f s with
  | FThrow s' => FRet false s'
  | r => r
  end.

(** One [if (walker(...)) return true;] after the other, then [return false;] *)
Fixpoint each (fs : list fn) : cmd unit :=
  match fs with
  | [] => next tt
  | f :: fs' => if_return f ;! each fs'
  end.

(** ** The children of a node

    The [switch] of [raw_expression_tree_walker]: what is walked below a node, in
    order, or [None] for the kinds it does not know.  [X] is what a walk gives,
    [self] walks a node, [group xs] stands for a list, or for a struct the
    walker has no case of its own for, whose parts give [xs] (nothing, for a
    null pointer), and [bad] for a cell that is not of the expected kind. *)
Section children.
Context {X : Type} (self : Node -> X) (group : list X -> X) (bad : X).

Definition null : X := group [].
Definition opt (p : option Node) : X := match p with Some n => self n | None => null end.
Definition many (l : list Node) : X := group (map self l).
Definition struct {A} (v : A -> X) (p : option A) : X := match p with Some x => v x | None => null end.

Definition v_Alias (x : Alias.t Node) : X := group [].
Definition v_RangeVar (x : RangeVar.t Node) : X := group [struct v_Alias x.(RangeVar.alias)].
(** [const_record_walker] returns at once. *)
Definition v_TypeName (x : TypeName.t Node) : X := null.

Definition c_CollateClause (x : CollateClause.t Node) : list X := [opt x.(CollateClause.arg)].
Definition c_WindowDef (x : WindowDef.t Node) : list X :=
  [many x.(WindowDef.partitionClause); many x.(WindowDef.orderClause);
   opt x.(WindowDef.startOffset); opt x.(WindowDef.endOffset)].
Definition c_WithClause (x : WithClause.t Node) : list X := [many x.(WithClause.ctes)].
Definition c_InferClause (x : InferClause.t Node) : list X :=
  [many x.(InferClause.indexElems); opt x.(InferClause.whereClause)].
Definition c_OnConflictClause (x : OnConflictClause.t Node) : list X :=
  [struct (fun i => group (c_InferClause i)) x.(OnConflictClause.infer);
   many x.(OnConflictClause.targetList); opt x.(OnConflictClause.whereClause)].
Definition c_IntoClause (x : IntoClause.t Node) : list X :=
  [struct v_RangeVar x.(IntoClause.rel); opt x.(IntoClause.viewQuery)].

Definition v_CollateClause x : X := group (c_CollateClause x).
Definition v_WindowDef x : X := group (c_WindowDef x).
Definition v_WithClause x : X := group (c_WithClause x).
Definition v_OnConflictClause x : X := group (c_OnConflictClause x).
Definition v_IntoClause x : X := group (c_IntoClause x).

(** [lfirst_node(CaseWhen, temp)] *)
Definition c_CaseWhen (n : Node) : list X :=
  match n with
  | N_CaseWhen x => [opt x.(CaseWhen.expr); opt x.(CaseWhen.result)]
  | _ => [bad]
  end.

Definition c_SelectStmt (x : SelectStmt.t Node) : list X :=
  [many x.(SelectStmt.distinctClause); struct v_IntoClause x.(SelectStmt.intoClause);
   many x.(SelectStmt.targetList); many x.(SelectStmt.fromClause); opt x.(SelectStmt.whereClause);
   many x.(SelectStmt.groupClause); opt x.(SelectStmt.havingClause);
   many x.(SelectStmt.windowClause); many x.(SelectStmt.valuesLists);
   many x.(SelectStmt.sortClause); opt x.(SelectStmt.limitOffset); opt x.(SelectStmt.limitCount);
   many x.(SelectStmt.lockingClause); struct v_WithClause x.(SelectStmt.withClause);
   opt x.(SelectStmt.larg); opt x.(SelectStmt.rarg)].

(** The parts of a SELECT [const_record_walker] walks in the order of its own:
    before the target list, between it and GROUP BY, and after ORDER BY. *)
Definition select_head (x : SelectStmt.t Node) : list X :=
  [many x.(SelectStmt.distinctClause); struct v_IntoClause x.(SelectStmt.intoClause)].
Definition select_from (x : SelectStmt.t Node) : list X :=
  [many x.(SelectStmt.fromClause); opt x.(SelectStmt.whereClause)].
Definition select_tail (x : SelectStmt.t Node) : list X :=
  [opt x.(SelectStmt.havingClause); many x.(SelectStmt.windowClause);
   many x.(SelectStmt.valuesLists); opt x.(SelectStmt.limitOffset);
   opt x.(SelectStmt.limitCount); many x.(SelectStmt.lockingClause);
   struct v_WithClause x.(SelectStmt.withClause);
   opt x.(SelectStmt.larg); opt x.(SelectStmt.rarg)].

Definition raw_children (node : Node) : option (list X) :=
  match node with
  | N_SetToDefault _ | N_CurrentOfExpr _ | N_SQLValueFunction _ | N_Value _ | N_ParamRef _
  | N_A_Const _ | N_A_Star _ | N_Alias _ | N_ColumnRef _ => Some []
  | N_RangeVar x => Some [struct v_Alias x.(RangeVar.alias)]
  | N_GroupingFunc x => Some [many x.(GroupingFunc.args)]
  | N_SubLink x => Some [opt x.(SubLink.testexpr); opt x.(SubLink.subselect)]
  | N_CaseExpr x =>
      Some (opt x.(CaseExpr.arg) :: List.concat (map c_CaseWhen x.(CaseExpr.args)) ++
            [opt x.(CaseExpr.defresult)])%list
  | N_RowExpr x => Some [many x.(RowExpr.args)]
  | N_CoalesceExpr x => Some [many x.(CoalesceExpr.args)]
  | N_MinMaxExpr x => Some [many x.(MinMaxExpr.args)]
  | N_XmlExpr x => Some [many x.(XmlExpr.named_args); many x.(XmlExpr.args)]
  | N_NullTest x => Some [opt x.(NullTest.arg)]
  | N_BooleanTest x => Some [opt x.(BooleanTest.arg)]
  | N_JoinExpr x =>
      Some [opt x.(JoinExpr.larg); opt x.(JoinExpr.rarg); opt x.(JoinExpr.quals);
            struct v_Alias x.(JoinExpr.alias)]
  | N_IntoClause x => Some (c_IntoClause x)
  | N_List l => Some (map self l)
  | N_InsertStmt x =>
      Some [struct v_RangeVar x.(InsertStmt.relation); many x.(InsertStmt.cols);
            opt x.(InsertStmt.selectStmt); struct v_OnConflictClause x.(InsertStmt.onConflictClause);
            many x.(InsertStmt.returningList); struct v_WithClause x.(InsertStmt.withClause)]
  | N_DeleteStmt x =>
      Some [struct v_RangeVar x.(DeleteStmt.relation); many x.(DeleteStmt.usingClause);
            opt x.(DeleteStmt.whereClause); many x.(DeleteStmt.returningList);
            struct v_WithClause x.(DeleteStmt.withClause)]
  | N_UpdateStmt x =>
      Some [struct v_RangeVar x.(UpdateStmt.relation); many x.(UpdateStmt.targetList);
            opt x.(UpdateStmt.whereClause); many x.(UpdateStmt.fromClause);
            many x.(UpdateStmt.returningList); struct v_WithClause x.(UpdateStmt.withClause)]
  | N_SelectStmt x => Some (c_SelectStmt x)
  | N_A_Expr x => Some [opt x.(A_Expr.lexpr); opt x.(A_Expr.rexpr)]
  | N_BoolExpr x => Some [many x.(BoolExpr.args)]
  | N_FuncCall x =>
      Some [many x.(FuncCall.args); many x.(FuncCall.agg_order); opt x.(FuncCall.agg_filter);
            struct v_WindowDef x.(FuncCall.over)]
  | N_NamedArgExpr x => Some [opt x.(NamedArgExpr.arg)]
  | N_A_Indices x => Some [opt x.(A_Indices.lidx); opt x.(A_Indices.uidx)]
  | N_A_Indirection x => Some [opt x.(A_Indirection.arg); many x.(A_Indirection.indirection)]
  | N_A_ArrayExpr x => Some [many x.(A_ArrayExpr.elements)]
  | N_ResTarget x => Some [many x.(ResTarget.indirection); opt x.(ResTarget.val)]
  | N_MultiAssignRef x => Some [opt x.(MultiAssignRef.source)]
  | N_TypeCast x => Some [opt x.(TypeCast.arg); struct v_TypeName x.(TypeCast.typeName)]
  | N_CollateClause x => Some (c_CollateClause x)
  | N_SortBy x => Some [opt x.(SortBy.node)]
  | N_WindowDef x => Some (c_WindowDef x)
  | N_RangeSubselect x =>
      Some [opt x.(RangeSubselect.subquery); struct v_Alias x.(RangeSubselect.alias)]
  | N_RangeFunction x =>
      Some [many x.(RangeFunction.functions); struct v_Alias x.(RangeFunction.alias);
            many x.(RangeFunction.coldeflist)]
  | N_RangeTableSample x =>
      Some [opt x.(RangeTableSample.relation); many x.(RangeTableSample.args);
            opt x.(RangeTableSample.repeatable)]
  | N_RangeTableFunc x =>
      Some [opt x.(RangeTableFunc.docexpr); opt x.(RangeTableFunc.rowexpr);
            many x.(RangeTableFunc.namespaces); many x.(RangeTableFunc.columns);
            struct v_Alias x.(RangeTableFunc.alias)]
  | N_RangeTableFuncCol x =>
      Some [opt x.(RangeTableFuncCol.colexpr); opt x.(RangeTableFuncCol.coldefexpr)]
  | N_TypeName x => Some [many x.(TypeName.typmods); many x.(TypeName.arrayBounds)]
  | N_ColumnDef x =>
      Some [struct v_TypeName x.(ColumnDef.typeName); opt x.(ColumnDef.raw_default);
            struct v_CollateClause x.(ColumnDef.collClause)]
  | N_IndexElem x => Some [opt x.(IndexElem.expr)]
  | N_GroupingSet x => Some [many x.(GroupingSet.content)]
  | N_LockingClause x => Some [many x.(LockingClause.lockedRels)]
  | N_XmlSerialize x => Some [opt x.(XmlSerialize.expr); struct v_TypeName x.(XmlSerialize.typeName)]
  | N_WithClause x => Some (c_WithClause x)
  | N_InferClause x => Some (c_InferClause x)
  | N_OnConflictClause x => Some (c_OnConflictClause x)
  | N_CommonTableExpr x => Some [opt x.(CommonTableExpr.ctequery)]
  | _ => None
  end.
End children.

(** ** The recording walker *)

Definition set_param_refs (refs : option (list Z * Z)) (s : pgssConstLocations) : pgssConstLocations :=
  mkConstLocations (clocations s) (clocations_buf_size s) (highest_normalize_param_id s)
    (highest_extern_param_id s) (query s) (query_len s) refs.

(** A call that allocates.  When the allocation fails the code leaves a doubled
    size behind and may write beyond the block later: outside the contract. *)
Definition update (f : pgssConstLocations -> outcome pgssConstLocations) : cmd unit := fun s =>
  match f s with Ok s' => CNext tt s' | Elog _ | Undef => CUndef end.

Definition record (loc : Z) : cmd unit := update (fun s => RecordConstLocation s loc).

(** [case T_ParamRef] *)
Definition record_param (number : Z) (s : pgssConstLocations) : outcome pgssConstLocations :=
  let* refs := record_param_ref number (param_refs s) in
  Ok (mkConstLocations (clocations s) (clocations_buf_size s) (highest_normalize_param_id s)
        (if highest_extern_param_id s <? number then number else highest_extern_param_id s)
        (query s) (query_len s) refs).

(** The loop of [case T_DefElem]: the first quote from [i] on, among [n] bytes. *)
Fixpoint find_quote (query : string) (i : Z) (n : nat) : option Z :=
  match n with
  | O => None
  | S n => if Ascii.eqb (char_at query i) SQUOTE then Some i else find_quote query (i + 1) n
  end.

Definition record_quote (location : Z) : cmd unit :=
  let! s := get in
  if location <? 0 then cundef
  else match find_quote (query s) location (Z.to_nat (query_len s - location)) with
       | Some i => record i
       | None => next tt
       end.

Record FpAndParamRefs : Type := mkFp { fp : Z; fp_param_refs : list Z }.

(** The first entry with the fingerprint, and the list without it. *)
Fixpoint take_fp (x : Z) (l : list FpAndParamRefs) : option (FpAndParamRefs * list FpAndParamRefs) :=
  match l with
  | [] => None
  | f :: l' =>
      if x =? fp f then Some (f, l')
      else match take_fp x l' with Some (g, l'') => Some (g, f :: l'') | None => None end
  end.

(** [clocations[i].param_id = refs[i - prev]] for the entries from [prev] on. *)
Fixpoint set_param_ids (prev : nat) (refs : list Z) (locs : list pgssLocationLen) : list pgssLocationLen :=
  match prev, locs, refs with
  | S prev, l :: locs', _ => l :: set_param_ids prev refs locs'
  | O, l :: locs', r :: refs' => mkLocationLen (location l) (length_ l) r :: set_param_ids O refs' locs'
  | _, _, _ => locs
  end.

(** [IsA(n, A_Const) && IsA(&castNode(A_Const, n)->val, Integer)] *)
Definition is_integer_const (n : Node) : bool :=
  match n with
  | N_A_Const a => match a.(A_Const.val) with Integer _ => true | _ => false end
  | _ => false
  end.

(** [IsA] reads its argument. *)
Definition is_null (n : Node) : bool := match n with N_List [] => true | _ => false end.

Section walker.
Context (pg_query_fingerprint_node : option Node -> Z).

Section body.
Variable self : Node -> fn.

Definition group (fs : list fn) : fn := pg_try (body (each fs)).

Definition raw_expression_tree_walker (node : Node) : fn :=
  match raw_children self group fundef node with
  | Some fs => body (each fs)
  | None => unrecognized
  end.

(** The loop over the target list. *)
Fixpoint walk_targets (l : list Node) (fps : list FpAndParamRefs) : cmd (list FpAndParamRefs) :=
  match l with
  | [] => next fps
  | n :: l' =>
      match n with
      | N_ResTarget res_target =>
          update (fun s => Ok (set_param_refs (Some ([], 1)) s)) ;!
          if_return (self n) ;!
          let! s := get in
          let refs := match param_refs s with Some (r, _) => r | None => [] end in
          update (fun s => Ok (set_param_refs None s)) ;!
          walk_targets l' (fps ++ [mkFp (pg_query_fingerprint_node res_target.(ResTarget.val)) refs])%list
      | _ => cundef
      end
  end.

(** The assignment of the parameters of the target list. *)
Definition match_up (fppr : option FpAndParamRefs) (prev_cloc_count : Z) (s : pgssConstLocations) :
    pgssConstLocations :=
  match fppr with
  | Some f =>
      let count := Z.of_nat (List.length (fp_param_refs f)) in
      if count =? clocations_count s - prev_cloc_count then
        mkConstLocations (set_param_ids (Z.to_nat prev_cloc_count) (fp_param_refs f) (clocations s))
          (clocations_buf_size s) (int32 (highest_normalize_param_id s - count))
          (highest_extern_param_id s) (query s) (query_len s) (param_refs s)
      else s
  | None => s
  end.

(** The loop over [GROUP BY]. *)
Fixpoint walk_groups (l : list Node) (fps : list FpAndParamRefs) : cmd unit :=
  match l with
  | [] => next tt
  | n :: l' =>
      if is_null n then cundef
      else if is_integer_const n then walk_groups l' fps
      else
        let '(fppr, fps') :=
          match take_fp (pg_query_fingerprint_node (Some n)) fps with
          | Some (f, fps') => (Some f, fps')
          | None => (None, fps)
          end in
        let! s0 := get in
        if_return (self n) ;!
        update (fun s => Ok (match_up fppr (clocations_count s0) s)) ;!
        walk_groups l' fps'
  end.

(** The loop over [ORDER BY]. *)
Fixpoint walk_sorts (l : list Node) : cmd unit :=
  match l with
  | [] => next tt
  | n :: l' =>
      if is_null n then cundef
      else
        match n with
        | N_SortBy sort_by =>
            match sort_by.(SortBy.node) with
            | None => cundef
            | Some e =>
                if is_null e then cundef
                else if is_integer_const e then walk_sorts l' else if_return (self n) ;! walk_sorts l'
            end
        | _ => if_return (self n) ;! walk_sorts l'
        end
  end.

Definition walk_SelectStmt (stmt : SelectStmt.t Node) : fn :=
  body
    (each (select_head self group stmt) ;!
     let! fps := walk_targets stmt.(SelectStmt.targetList) [] in
     each (select_from self group stmt) ;!
     walk_groups stmt.(SelectStmt.groupClause) fps ;!
     walk_sorts stmt.(SelectStmt.sortClause) ;!
     each (select_tail self group stmt)).

Abbreviation ptr := (opt self group).
Abbreviation ptrs := (many self group).

Definition const_record_walker_body (node : Node) : fn :=
  match node with
  | N_List [] => return_false                                     (* node == NULL *)
  | N_A_Const x => body (record x.(A_Const.location))
  | N_ParamRef x => body (update (record_param x.(ParamRef.number)))
  | N_DefElem x =>
      match x.(DefElem.arg) with
      | Some (N_Value (String_ _)) =>
          body (record_quote x.(DefElem.location) ;! return_call (ptr x.(DefElem.arg)))
      | _ => ptr x.(DefElem.arg)
      end
  | N_RawStmt x => ptr x.(RawStmt.stmt)
  | N_VariableSetStmt x => ptrs x.(VariableSetStmt.args)
  | N_CopyStmt x => ptr x.(CopyStmt.query)
  | N_ExplainStmt x => ptr x.(ExplainStmt.query)
  | N_CreateRoleStmt x => ptrs x.(CreateRoleStmt.options)
  | N_AlterRoleStmt x => ptrs x.(AlterRoleStmt.options)
  | N_DeclareCursorStmt x => ptr x.(DeclareCursorStmt.query)
  | N_TypeName _ => return_false
  | N_SelectStmt x => walk_SelectStmt x
  | _ => pg_try (raw_expression_tree_walker node)
  end.
End body.

Fixpoint const_record_walker (node : Node) : fn := const_record_walker_body const_record_walker node.
End walker.

(** ** [pg_query_normalize]

    The parser, [qsort] and the fingerprint are parameters.  An error becomes the
    error of the result. *)

Definition initial_state (input : string) : pgssConstLocations :=
  mkConstLocations [] 32 1 0 input (Z.of_nat (String.length input)) None.

Definition pg_query_normalize `{Scanner Y} (raw_parser : string -> outcome (list Node))
    (qsort : (pgssLocationLen -> pgssLocationLen -> Z) -> list pgssLocationLen -> list pgssLocationLen)
    (fingerprint : option Node -> Z) (input : string) : outcome string :=
  let* tree := raw_parser input in
  match const_record_walker fingerprint (N_List tree) (initial_state input) with
  | FRet _ jstate => generate_normalized_query qsort jstate 0 (Z.of_nat (String.length input))
  | FThrow _ => Elog "unrecognized node type"
  | FUndef => Undef
  end.

(** ** Reference: what the walk meets

    The same tree, read as a list of events without any state. *)
Inductive event : Type :=
| EConst (location : Z)   (* a constant to record *)
| EParam (number : Z)     (* a parameter *)
| ESelect                 (* a SELECT with a target list *)
| EClash                  (* a GROUP BY item that holds a SELECT and has the fingerprint of a
                             target that holds none *)
| EBad.                   (* a node outside the contract *)

Definition has_select (es : list event) : bool :=
  existsb (fun e => match e with ESelect => true | _ => false end) es.

Section events.
Context (query : string) (query_len : Z).
Context (pg_query_fingerprint_node : option Node -> Z).

Section body.
Variable self : Node -> list event.

Definition cat (l : list (list event)) : list event := List.concat l.

Definition const_event (loc : Z) : list event := if 0 <=? loc then [EConst loc] else [].

Definition quote_event (location : Z) : list event :=
  if location <? 0 then [EBad]
  else match find_quote query location (Z.to_nat (query_len - location)) with
       | Some i => const_event i
       | None => []
       end.

Definition target_events (n : Node) : list event :=
  match n with N_ResTarget _ => self n | _ => [EBad] end.

(** The walk gives a GROUP BY item the parameters of a target with the same
    fingerprint.  It takes for granted that the two then hold the same
    constants: it does not when the fingerprints collide, or the trees differ
    only below the depth of 100, where the fingerprint ends. *)
Definition clash (targets : list Node) (n : Node) : bool :=
  has_select (self n) &&
  existsb (fun t =>
    match t with
    | N_ResTarget t =>
        negb (has_select (opt self cat t.(ResTarget.val))) &&
        (pg_query_fingerprint_node t.(ResTarget.val) =? pg_query_fingerprint_node (Some n))
    | _ => false
    end) targets.

Definition group_events (targets : list Node) (n : Node) : list event :=
  if is_null n then [EBad]
  else if is_integer_const n then []
  else ((if clash targets n then [EClash] else []) ++ self n)%list.

Definition sort_events (n : Node) : list event :=
  if is_null n then [EBad]
  else match n with
       | N_SortBy sort_by =>
           match sort_by.(SortBy.node) with
           | None => [EBad]
           | Some e => if is_null e then [EBad] else if is_integer_const e then [] else self n
           end
       | _ => self n
       end.

Definition select_events (stmt : SelectStmt.t Node) : list event :=
  (cat (select_head self cat stmt) ++
   match stmt.(SelectStmt.targetList) with [] => [] | _ => [ESelect] end ++
   cat (map target_events stmt.(SelectStmt.targetList)) ++
   cat (select_from self cat stmt) ++
   cat (map (group_events stmt.(SelectStmt.targetList)) stmt.(SelectStmt.groupClause)) ++
   cat (map sort_events stmt.(SelectStmt.sortClause)) ++
   cat (select_tail self cat stmt))%list.

Abbreviation ptr := (opt self cat).
Abbreviation ptrs := (many self cat).

Definition events_body (node : Node) : list event :=
  match node with
  | N_List [] | N_TypeName _ => []
  | N_A_Const x => const_event x.(A_Const.location)
  | N_ParamRef x => [EParam x.(ParamRef.number)]
  | N_DefElem x =>
      match x.(DefElem.arg) with
      | Some (N_Value (String_ _)) => quote_event x.(DefElem.location)
      | _ => ptr x.(DefElem.arg)
      end
  | N_RawStmt x => ptr x.(RawStmt.stmt)
  | N_VariableSetStmt x => ptrs x.(VariableSetStmt.args)
  | N_CopyStmt x => ptr x.(CopyStmt.query)
  | N_ExplainStmt x => ptr x.(ExplainStmt.query)
  | N_CreateRoleStmt x => ptrs x.(CreateRoleStmt.options)
  | N_AlterRoleStmt x => ptrs x.(AlterRoleStmt.options)
  | N_DeclareCursorStmt x => ptr x.(DeclareCursorStmt.query)
  | N_SelectStmt x => select_events x
  | _ =>
      match raw_children self cat [EBad] node with Some l => cat l | None => [] end
  end.
End body.

Fixpoint events (node : Node) : list event := events_body events node.
End events.

Definition const_of (e : event) : option Z := match e with EConst l => Some l | _ => None end.
Definition param_of (e : event) : option Z := match e with EParam n => Some n | _ => None end.
Definition consts (es : list event) : list Z := omap const_of es.
Definition params (es : list event) : list Z := omap param_of es.

(** How many entries the walk can write to a block. *)
Definition weight (es : list event) : Z :=
  Z.of_nat (List.length (consts es)) + Z.of_nat (List.length (params es)).

(** No node outside the contract and no clash; the grammar makes no negative
    parameter. *)
Definition good (es : list event) : bool :=
  forallb (fun e => match e with EBad | EClash => false | EParam n => 0 <=? n | _ => true end) es.
