(* ===== verification/WalkerProof.v ===== *)
(** * What the recording walk does

    The invariant of the state of [const_record_walker] and the judgement
    [walks]: from a state that keeps the invariant and has room, a call returns
    [false], keeps the invariant and adds to the state what the events of the
    node say.  The rules follow the commands of [Walker]; the proof about every
    tree is by induction over it. *)
From S2P Require Import Prelude StringInfo Quote Enums Nodes Scanner Normalize Walker.
From Stdlib Require Import Sorting.Sorted Sorting.Permutation.

Open Scope Z_scope.

Ltac int_lia := unfold int_min, int_max in *; lia.

(** ** The invariant of the recorded state *)

(** The entries are numbered one after the other. *)
Fixpoint numbered (first : Z) (locs : list Z) : list pgssLocationLen :=
  match locs with
  | [] => []
  | loc :: locs' => mkLocationLen loc (-1) (- first) :: numbered (first + 1) locs'
  end.

(** A parameter of the query, or a number given out. *)
Definition ref_ok (highest extern : Z) (v : Z) : Prop :=
  (v < 0 -> - v < highest) /\ (0 <= v -> v <= extern).

Record inv (s : pgssConstLocations) : Prop := {
  inv_buf : clocations_count s <= clocations_buf_size s <= Z.max 32 (2 * clocations_count s);
  inv_buf_min : 32 <= clocations_buf_size s;
  inv_highest : 1 <= highest_normalize_param_id s <= clocations_count s + 1;
  inv_ids : Forall (fun l => ref_ok (highest_normalize_param_id s) (highest_extern_param_id s) (param_id l))
              (clocations s);
  inv_gapless : forall k, 1 <= k < highest_normalize_param_id s ->
    exists l, In l (clocations s) /\ param_id l = - k;
  inv_refs : match param_refs s with
             | None => True
             | Some (r, b) =>
                 Z.of_nat (List.length r) < b <= Z.max 1 (2 * Z.of_nat (List.length r)) /\
                 Forall (ref_ok (highest_normalize_param_id s) (highest_extern_param_id s)) r
             end
}.

(** Room in the blocks for [w] more entries. *)
Definition max_entries : Z := 40000000.
Definition refs_length (refs : option (list Z * Z)) : Z :=
  match refs with Some (r, _) => Z.of_nat (List.length r) | None => 0 end.
Definition fits (w : Z) (s : pgssConstLocations) : Prop :=
  clocations_count s + w <= max_entries /\ refs_length (param_refs s) + w <= max_entries.

(** What a walk that meets [es] does.  Unless [shared], when a SELECT may have
    given numbers of its target list to its GROUP BY, the new entries are
    numbered one after the other. *)
Record ext (shared : bool) (es : list event) (s s' : pgssConstLocations) : Prop := {
  ext_new : exists new, clocations s' = (clocations s ++ new)%list /\
    map location new = consts es /\ Forall (fun l => length_ l = -1) new /\
    (shared = false -> new = numbered (highest_normalize_param_id s) (consts es));
  ext_query : query s' = query s /\ query_len s' = query_len s;
  ext_extern : highest_extern_param_id s' = foldl Z.max (highest_extern_param_id s) (params es);
  ext_highest : highest_normalize_param_id s <= highest_normalize_param_id s';
  ext_plain : shared = false ->
    highest_normalize_param_id s' = highest_normalize_param_id s + Z.of_nat (List.length (consts es));
  ext_select : shared = true -> param_refs s' = None;
  ext_refs : match param_refs s' with
             | None => True
             | Some (r', _) => exists r b, param_refs s = Some (r, b) /\
                 Z.of_nat (List.length r') <= Z.of_nat (List.length r) + weight es
             end
}.

(** ** Lemmas: events *)

Lemma consts_app es1 es2 : consts (es1 ++ es2)%list = (consts es1 ++ consts es2)%list.
Proof. apply omap_app. Qed.

Lemma params_app es1 es2 : params (es1 ++ es2)%list = (params es1 ++ params es2)%list.
Proof. apply omap_app. Qed.

Lemma has_select_app es1 es2 : has_select (es1 ++ es2)%list = has_select es1 || has_select es2.
Proof. apply existsb_app. Qed.

Lemma good_app es1 es2 : good (es1 ++ es2)%list = good es1 && good es2.
Proof. apply forallb_app. Qed.

Lemma weight_app es1 es2 : weight (es1 ++ es2)%list = weight es1 + weight es2.
Proof. unfold weight. rewrite consts_app, params_app, !List.length_app. lia. Qed.

Lemma weight_nonneg es : 0 <= weight es.
Proof. unfold weight. lia. Qed.

Lemma numbered_app h l1 l2 :
  numbered h (l1 ++ l2)%list = (numbered h l1 ++ numbered (h + Z.of_nat (List.length l1)) l2)%list.
Proof.
  revert h. induction l1 as [|x l1 IH]; intros h; [cbn; by rewrite Z.add_0_r|].
  cbn [numbered List.app List.length]. rewrite IH. do 3 f_equal. lia.
Qed.

Lemma numbered_location h l : map location (numbered h l) = l.
Proof. revert h. induction l as [|x l IH]; intros h; [done|]. cbn. by rewrite IH. Qed.

(** ** Lemmas: what walks do, composed *)

Lemma ext_count b es s s' : ext b es s s' ->
  clocations_count s' = clocations_count s + Z.of_nat (List.length (consts es)).
Proof.
  intros H. destruct (ext_new _ _ _ _ H) as (new & E & Hl & _). unfold clocations_count.
  rewrite E, List.length_app, <-Hl, List.length_map. lia.
Qed.

Lemma ext_refl s : ext false [] s s.
Proof.
  constructor; try done.
  - exists []. by rewrite app_nil_r.
  - cbn. lia.
  - destruct (param_refs s) as [[r b]|]; [|done]. exists r, b. change (weight []) with 0. split; [done|lia].
Qed.

Lemma ext_trans b1 b2 es1 es2 s s1 s2 :
  ext b1 es1 s s1 -> ext b2 es2 s1 s2 -> ext (b1 || b2) (es1 ++ es2)%list s s2.
Proof.
  intros H1 H2. pose proof (ext_plain _ _ _ _ H1) as Hp1. pose proof (ext_plain _ _ _ _ H2) as Hp2. constructor.
  - destruct (ext_new _ _ _ _ H1) as (n1 & E1 & L1 & F1 & N1).
    destruct (ext_new _ _ _ _ H2) as (n2 & E2 & L2 & F2 & N2).
    exists (n1 ++ n2)%list. rewrite E2, E1, app_assoc, map_app, consts_app, L1, L2. split; [done|].
    split; [done|]. split; [by apply Forall_app|]. intros [S1 S2]%orb_false_iff.
    rewrite numbered_app, N1, N2, Hp1 by done. done.
  - destruct (ext_query _ _ _ _ H1), (ext_query _ _ _ _ H2). split; congruence.
  - by rewrite (ext_extern _ _ _ _ H2), (ext_extern _ _ _ _ H1), params_app, foldl_app.
  - pose proof (ext_highest _ _ _ _ H1). pose proof (ext_highest _ _ _ _ H2). lia.
  - rewrite consts_app, List.length_app. intros [S1 S2]%orb_false_iff.
    rewrite Hp2, Hp1 by done. lia.
  - pose proof (ext_refs _ _ _ _ H2) as Hr. pose proof (ext_select _ _ _ _ H2) as Hs2.
    destruct b2; [intros _; by apply Hs2|]. intros S1. rewrite orb_false_r in S1.
    pose proof (ext_select _ _ _ _ H1 S1) as E1. destruct (param_refs s2) as [[r b]|]; [|done].
    destruct Hr as (? & ? & ? & _). congruence.
  - pose proof (ext_refs _ _ _ _ H1) as Hr1. pose proof (ext_refs _ _ _ _ H2) as Hr2.
    destruct (param_refs s2) as [[r2 c2]|]; [|done]. destruct Hr2 as (r1 & c1 & E1 & L2). rewrite E1 in Hr1.
    destruct Hr1 as (r & c & E & L1). exists r, c. split; [done|]. rewrite weight_app. lia.
Qed.

Lemma fits_step b es1 es2 s s1 :
  ext b es1 s s1 -> fits (weight (es1 ++ es2)%list) s -> fits (weight es2) s1.
Proof.
  intros H [F1 F2]. unfold fits. rewrite (ext_count _ _ _ _ H). rewrite weight_app in F1, F2.
  pose proof (ext_refs _ _ _ _ H) as Hr.
  assert (Hc : Z.of_nat (List.length (consts es1)) <= weight es1) by (unfold weight; lia).
  split; [lia|]. unfold refs_length in *. destruct (param_refs s1) as [[r1 b1]|].
  - destruct Hr as (r & c & E & L). rewrite E in F2. lia.
  - unfold clocations_count in F1. lia.
Qed.

Lemma fits_prefix es1 es2 s : fits (weight (es1 ++ es2)%list) s -> fits (weight es1) s.
Proof. unfold fits. rewrite weight_app. pose proof (weight_nonneg es2). lia. Qed.

(** The query does not change. *)
Definition on_query (q : string) (n : Z) (s : pgssConstLocations) : Prop := query s = q /\ query_len s = n.

Lemma on_query_ext q n b es s s' : ext b es s s' -> on_query q n s -> on_query q n s'.
Proof. intros H [E1 E2]. destruct (ext_query _ _ _ _ H) as [H1 H2]. split; congruence. Qed.

Section query.
Context (q : string) (qn : Z).

(** A call, and a command, that meets [es] and leaves [P]. *)
Definition walks (es : list event) (f : fn) : Prop :=
  good es = true -> forall s, inv s -> on_query q qn s -> fits (weight es) s ->
  exists s', f s = FRet false s' /\ inv s' /\ ext (has_select es) es s s'.

Definition does {A} (b : bool) (pre : pgssConstLocations -> Prop) (es : list event) (c : cmd A)
    (post : A -> pgssConstLocations -> Prop) : Prop :=
  good es = true -> forall s, inv s -> on_query q qn s -> fits (weight es) s -> pre s ->
  exists a s', c s = CNext a s' /\ inv s' /\ ext b es s s' /\ post a s'.

Definition any : pgssConstLocations -> Prop := fun _ => True.
Definition anyv {A} : A -> pgssConstLocations -> Prop := fun _ _ => True.

Lemma does_next {A} pre (a : A) (post : A -> pgssConstLocations -> Prop) :
  (forall s, pre s -> post a s) -> does false pre [] (next a) post.
Proof. intros H _ s Hi _ _ Hp. exists a, s. split; [done|]. split; [done|]. split; [apply ext_refl|auto]. Qed.

Lemma does_bind {A B} b1 b2 pre es1 es2 (c : cmd A) (k : A -> cmd B) mid post :
  does b1 pre es1 c mid -> (forall a, does b2 (mid a) es2 (k a) post) ->
  does (b1 || b2) pre (es1 ++ es2)%list (bind c k) post.
Proof.
  intros Hc Hk Hg s Hi Hq Hf Hp. rewrite good_app in Hg. apply andb_true_iff in Hg as [Hg1 Hg2].
  destruct (Hc Hg1 s Hi Hq (fits_prefix _ _ _ Hf) Hp) as (a & s1 & E1 & I1 & X1 & P1).
  destruct (Hk a Hg2 s1 I1 (on_query_ext _ _ _ _ _ _ X1 Hq) (fits_step _ _ _ _ _ X1 Hf) P1) as (b & s2 & E2 & I2 & X2 & P2).
  exists b, s2. unfold bind. rewrite E1. split; [done|]. split; [done|]. split; [|done].
  by eapply ext_trans.
Qed.

Lemma does_if_return es f : walks es f -> does (has_select es) any es (if_return f) anyv.
Proof.
  intros H Hg s Hi Hq Hf _. destruct (H Hg s Hi Hq Hf) as (s' & E & I & X). exists tt, s'. unfold if_return.
  by rewrite E.
Qed.

Lemma does_weaken {A} b pre pre' es (c : cmd A) post post' :
  does b pre es c post -> (forall s, pre' s -> pre s) -> (forall a s, post a s -> post' a s) ->
  does b pre' es c post'.
Proof.
  intros H Hpre Hpost Hg s Hi Hq Hf Hp. destruct (H Hg s Hi Hq Hf (Hpre s Hp)) as (a & s' & E & I & X & P).
  exists a, s'. auto.
Qed.

Lemma walks_body {A} pre es c post : (forall s, pre s) -> @does A (has_select es) pre es c post ->
  walks es (fun s => match c s with CNext _ s' => FRet false s' | CReturn b s' => FRet b s'
                     | CThrow s' => FThrow s' | CUndef => FUndef end).
Proof.
  intros Hp H Hg s Hi Hq Hf. destruct (H Hg s Hi Hq Hf (Hp s)) as (a & s' & E & I & X & _). exists s'.
  by rewrite E.
Qed.

Lemma does_each fs ess : Forall2 walks ess fs -> does (has_select (cat ess)) any (cat ess) (each fs) anyv.
Proof.
  induction 1 as [|es f ess fs Hf Hfs IH]; [by apply does_next|].
  cbn [each]. change (cat (es :: ess)) with (es ++ cat ess)%list. rewrite has_select_app.
  eapply does_bind; [by apply does_if_return|]. intros ?. eapply does_weaken; [exact IH|done..].
Qed.

Lemma walks_each fs ess : Forall2 walks ess fs -> walks (cat ess) (body (each fs)).
Proof. intros H. exact (walks_body any _ _ _ (fun _ => I) (does_each _ _ H)). Qed.

Lemma walks_try es f : walks es f -> walks es (pg_try f).
Proof.
  intros H Hg s Hi Hq Hf. destruct (H Hg s Hi Hq Hf) as (s' & E & ?). exists s'. unfold pg_try. by rewrite E.
Qed.

Lemma walks_group fs ess : Forall2 walks ess fs -> walks (cat ess) (group fs).
Proof. intros H. by apply walks_try, walks_each. Qed.

Lemma walks_return_false : walks [] return_false.
Proof. intros _ s Hi _ _. exists s. split; [done|]. split; [done|apply ext_refl]. Qed.

Lemma walks_unrecognized : walks [] (pg_try unrecognized).
Proof. exact walks_return_false. Qed.

Lemma walks_bad : walks [EBad] fundef.
Proof. done. Qed.

(** ** Lemmas: recording *)

Lemma alloc_size_ok n : 0 <= n <= 1000000000 -> alloc_size n = Ok tt.
Proof. intros H. unfold alloc_size, MaxAllocSize. by rewrite !(proj2 (Z.leb_le _ _)) by lia. Qed.

Definition refs_valid (highest extern : Z) (refs : option (list Z * Z)) : Prop :=
  match refs with
  | None => True
  | Some (r, b) =>
      Z.of_nat (List.length r) < b <= Z.max 1 (2 * Z.of_nat (List.length r)) /\
      Forall (ref_ok highest extern) r
  end.

Lemma ref_ok_le h e h' e' v : ref_ok h e v -> h <= h' -> e <= e' -> ref_ok h' e' v.
Proof. intros [H1 H2] ? ?. split; intros Hv; [specialize (H1 Hv)|specialize (H2 Hv)]; lia. Qed.

Lemma refs_ok_le h e h' e' r : Forall (ref_ok h e) r -> h <= h' -> e <= e' -> Forall (ref_ok h' e') r.
Proof. intros H ? ?. eapply Forall_impl; [exact H|]. intros v Hv. by eapply ref_ok_le. Qed.

Lemma refs_valid_le h e h' e' refs : refs_valid h e refs -> h <= h' -> e <= e' -> refs_valid h' e' refs.
Proof. destruct refs as [[r b]|]; [|done]. intros [H1 H2] ? ?. split; [done|]. by eapply refs_ok_le. Qed.

Lemma record_param_ref_ok h e refs v :
  refs_valid h e refs -> ref_ok h e v -> refs_length refs + 1 <= max_entries ->
  exists refs', record_param_ref v refs = Ok refs' /\ refs_valid h e refs' /\
    match refs' with
    | None => True
    | Some (r', _) => exists r b, refs = Some (r, b) /\ r' = (r ++ [v])%list
    end.
Proof.
  destruct refs as [[r b]|]; [|by exists None]. intros [Hb Hr] Hv Hl. cbn [refs_length] in Hl.
  unfold max_entries in Hl.
  unfold record_param_ref. rewrite (proj2 (Z.ltb_lt _ _)) by lia. rewrite List.length_app. cbn [List.length].
  assert (Hr' : Forall (ref_ok h e) (r ++ [v])%list) by (apply Forall_app; auto using Forall_cons_2, Forall_nil_2).
  destruct (Z.leb_spec b (Z.of_nat (List.length r + 1))) as [Hle|Hgt].
  - rewrite alloc_size_ok by lia. cbn [obind]. rewrite int32_small by int_lia.
    exists (Some ((r ++ [v])%list, b * 2)). split; [done|]. split; [|eauto].
    split; [rewrite List.length_app; cbn [List.length]; lia|done].
  - exists (Some ((r ++ [v])%list, b)). split; [done|]. split; [|eauto].
    split; [rewrite List.length_app; cbn [List.length]; lia|done].
Qed.

Lemma inv_refs_valid s :
  inv s -> refs_valid (highest_normalize_param_id s) (highest_extern_param_id s) (param_refs s).
Proof. intros H. exact (inv_refs s H). Qed.

Lemma clocations_grow buf_size count :
  count <= buf_size <= Z.max 32 (2 * count) -> 32 <= buf_size -> count < 40000000 ->
  exists b, (if buf_size <=? count then
      let* _ := alloc_size (buf_size * 2 * 12) in Ok (int32 (buf_size * 2)) else Ok buf_size) = Ok b /\
    count + 1 <= b <= Z.max 32 (2 * (count + 1)) /\ 32 <= b.
Proof.
  intros. destruct (Z.leb_spec buf_size count).
  - rewrite alloc_size_ok by lia. cbn [obind]. rewrite int32_small by int_lia. eexists. split; [done|]. lia.
  - eexists. split; [done|]. lia.
Qed.

Ltac state_fields :=
  cbn [clocations clocations_buf_size highest_normalize_param_id highest_extern_param_id
    query query_len param_refs].

Lemma RecordConstLocation_ok loc s :
  0 <= loc -> inv s -> fits 1 s ->
  exists s', RecordConstLocation s loc = Ok s' /\ inv s' /\ ext false [EConst loc] s s'.
Proof.
  intros Hloc Hi [F1 F2]. unfold RecordConstLocation. rewrite (proj2 (Z.leb_le _ _)) by lia.
  pose proof (inv_buf s Hi). pose proof (inv_buf_min s Hi). pose proof (inv_highest s Hi) as Hh.
  set (count := clocations_count s) in *. set (h := highest_normalize_param_id s) in *.
  unfold max_entries in F1, F2.
  destruct (clocations_grow (clocations_buf_size s) count) as (b & -> & Hb & Hbm); [lia..|]. cbn [obind]. rewrite (proj2 (Z.ltb_lt _ _)) by lia.
  pose proof (refs_valid_le _ _ (h + 1) (highest_extern_param_id s) _ (inv_refs_valid s Hi) ltac:(lia) ltac:(lia))
    as Hv.
  destruct (record_param_ref_ok _ _ _ (- h) Hv) as (refs & -> & Hv' & Hr); [split; lia|exact F2|].
  cbn [obind]. rewrite int32_small by int_lia. eexists. split; [done|]. split.
  - constructor; state_fields; unfold clocations_count; cbn [clocations]; rewrite ?List.length_app;
      fold count; cbn [List.length].
    + unfold count, clocations_count in *. lia.
    + lia.
    + unfold count, clocations_count in *. lia.
    + apply Forall_app. split; [|apply Forall_singleton; split; cbn; lia].
      eapply Forall_impl; [exact (inv_ids s Hi)|]. intros l Hl. by eapply ref_ok_le; [exact Hl|lia..].
    + intros k Hk. destruct (Z.eq_dec k h) as [->|].
      * eexists. split; [apply in_app_iff; right; by left|done].
      * destruct (inv_gapless s Hi k) as (l & Hl & E); [lia|]. exists l. split; [|done].
        apply in_app_iff. by left.
    + exact Hv'.
  - constructor; state_fields; try done; try lia.
    + eexists. by repeat split; repeat constructor.
    + destruct refs as [[r' b']|]; [|done]. destruct Hr as (r & b0 & E & ->). exists r, b0.
      split; [done|]. change (weight [EConst loc]) with 1. rewrite List.length_app. cbn [List.length]. lia.
Qed.

Lemma does_update es f :
  (good es = true -> forall s, inv s -> fits (weight es) s ->
   exists s', f s = Ok s' /\ inv s' /\ ext false es s s') ->
  does false any es (update f) anyv.
Proof.
  intros H Hg s Hi _ Hf _. destruct (H Hg s Hi Hf) as (s' & E & ? & ?). exists tt, s'. unfold update. by rewrite E.
Qed.

Lemma does_record loc : does false any (const_event loc) (record loc) anyv.
Proof.
  apply does_update. intros _ s Hi Hf. unfold const_event in *. destruct (Z.leb_spec 0 loc).
  - by apply RecordConstLocation_ok.
  - exists s. split; [|split; [done|apply ext_refl]]. unfold RecordConstLocation.
    by rewrite (proj2 (Z.leb_gt _ _)) by lia.
Qed.

Lemma does_record_param n : does false any [EParam n] (update (record_param n)) anyv.
Proof.
  apply does_update. intros Hg s Hi [F1 F2]. cbn in Hg. rewrite andb_true_r in Hg. apply Z.leb_le in Hg.
  set (e := highest_extern_param_id s). unfold record_param. fold e.
  assert (He : (if e <? n then n else e) = Z.max e n) by (destruct (Z.ltb_spec e n); lia).
  rewrite He. set (h := highest_normalize_param_id s).
  assert (Hv : refs_valid h (Z.max e n) (param_refs s)).
  { eapply refs_valid_le; [by apply inv_refs_valid|unfold h; lia|unfold e; lia]. }
  destruct (record_param_ref_ok _ _ _ n Hv) as (refs & -> & Hv' & Hr); [split; lia|exact F2|].
  cbn [obind]. eexists. split; [done|]. split.
  - destruct Hi as [Hb Hm Hh Hids Hgap _]. constructor; state_fields; try done.
    eapply Forall_impl; [exact Hids|]. intros l Hl. eapply ref_ok_le; [exact Hl|unfold h; lia|unfold e; lia].
  - constructor; state_fields; try done; try (unfold h; lia).
    + exists []. by rewrite app_nil_r.
    + intros _. cbn. unfold h. lia.
    + destruct refs as [[r' b']|]; [|done]. destruct Hr as (r & b0 & E & ->). exists r, b0.
      split; [done|]. change (weight [EParam n]) with 1. rewrite List.length_app. cbn [List.length]. lia.
Qed.

Lemma does_record_quote loc : does false any (quote_event q qn loc) (record_quote loc) anyv.
Proof.
  intros Hg s Hi Hq Hf _. unfold record_quote, bind, get, quote_event in *. pose proof Hq as [E1 E2]. rewrite E1, E2.
  destruct (loc <? 0); [done|]. destruct (find_quote _ _ _).
  - by apply does_record.
  - exists tt, s. split; [done|]. split; [done|]. split; [apply ext_refl|done].
Qed.

(** *** The children of a node *)

Section related.
Context (self : Node -> fn) (selfe : Node -> list event).
Abbreviation related := (fun n => walks (selfe n) (self n)).
Abbreviation below := (her related).

Lemma walks_here n : below n -> walks (selfe n) (self n).
Proof. exact (her_here related n). Qed.

Lemma walks_null : walks (null cat) (null group).
Proof. apply walks_group. constructor. Qed.

Lemma walks_opt p : option_all Node below p -> walks (opt selfe cat p) (opt self group p).
Proof. destruct 1; [by apply walks_here|]. apply walks_null. Qed.

Lemma walks_map l : list_all Node below l -> Forall2 walks (map selfe l) (map self l).
Proof. induction 1; constructor; auto using walks_here. Qed.

Lemma walks_many l : list_all Node below l -> walks (many selfe cat l) (many self group l).
Proof. intros H. by apply walks_group, walks_map. Qed.

Lemma walks_struct {A} (P : A -> Type) (ve : A -> list event) (v : A -> fn) p :
  (forall x, P x -> walks (ve x) (v x)) -> option_all A P p ->
  walks (struct cat ve p) (struct group v p).
Proof. intros Hv H. destruct H; [by apply Hv|]. apply walks_null. Qed.

Create HintDb walks discriminated.
#[local] Hint Constants Opaque : walks.
#[local] Hint Resolve walks_null walks_opt walks_many : walks.

(** The parts of a struct, one after the other. *)
Ltac parts_tac :=
  repeat first [apply Forall2_nil_2 | apply Forall2_cons_2]; try solve [eauto with walks nocore].

Lemma walks_Alias x : Alias.t_all Node below x -> walks (v_Alias cat x) (v_Alias group x).
Proof. intros _. apply walks_null. Qed.
Definition walks_struct_Alias p :=
  walks_struct _ _ _ p walks_Alias.
#[local] Hint Resolve walks_struct_Alias : walks.

Lemma walks_RangeVar x : RangeVar.t_all Node below x -> walks (v_RangeVar cat x) (v_RangeVar group x).
Proof. intros Hx. destruct Hx. apply walks_group. parts_tac. Qed.

Lemma walks_TypeName x : TypeName.t_all Node below x -> walks (v_TypeName cat x) (v_TypeName group x).
Proof. intros _. apply walks_null. Qed.

Lemma parts_CollateClause x :
  CollateClause.t_all Node below x -> Forall2 walks (c_CollateClause selfe cat x) (c_CollateClause self group x).
Proof. intros Hx. destruct Hx. parts_tac. Qed.

Lemma parts_WindowDef x :
  WindowDef.t_all Node below x -> Forall2 walks (c_WindowDef selfe cat x) (c_WindowDef self group x).
Proof. intros Hx. destruct Hx. parts_tac. Qed.

Lemma parts_WithClause x :
  WithClause.t_all Node below x -> Forall2 walks (c_WithClause selfe cat x) (c_WithClause self group x).
Proof. intros Hx. destruct Hx. parts_tac. Qed.

Lemma parts_InferClause x :
  InferClause.t_all Node below x -> Forall2 walks (c_InferClause selfe cat x) (c_InferClause self group x).
Proof. intros Hx. destruct Hx. parts_tac. Qed.

Definition walks_struct_InferClause p :=
  walks_struct _ _ _ p (fun x Hx => walks_group _ _ (parts_InferClause x Hx)).
Definition walks_struct_RangeVar p :=
  walks_struct _ _ _ p walks_RangeVar.
Definition walks_struct_TypeName p :=
  walks_struct _ _ _ p walks_TypeName.
#[local] Hint Resolve walks_struct_InferClause walks_struct_RangeVar walks_struct_TypeName : walks.

Lemma parts_OnConflictClause x :
  OnConflictClause.t_all Node below x ->
  Forall2 walks (c_OnConflictClause selfe cat x) (c_OnConflictClause self group x).
Proof. intros Hx. destruct Hx. parts_tac. Qed.

Lemma parts_IntoClause x :
  IntoClause.t_all Node below x -> Forall2 walks (c_IntoClause selfe cat x) (c_IntoClause self group x).
Proof. intros Hx. destruct Hx. parts_tac. Qed.

Definition walks_struct_CollateClause p :=
  walks_struct _ (v_CollateClause selfe cat) (v_CollateClause self group) p
    (fun x Hx => walks_group _ _ (parts_CollateClause x Hx)).
Definition walks_struct_WindowDef p :=
  walks_struct _ (v_WindowDef selfe cat) (v_WindowDef self group) p
    (fun x Hx => walks_group _ _ (parts_WindowDef x Hx)).
Definition walks_struct_WithClause p :=
  walks_struct _ (v_WithClause selfe cat) (v_WithClause self group) p
    (fun x Hx => walks_group _ _ (parts_WithClause x Hx)).
Definition walks_struct_OnConflictClause p :=
  walks_struct _ (v_OnConflictClause selfe cat) (v_OnConflictClause self group) p
    (fun x Hx => walks_group _ _ (parts_OnConflictClause x Hx)).
Definition walks_struct_IntoClause p :=
  walks_struct _ (v_IntoClause selfe cat) (v_IntoClause self group) p
    (fun x Hx => walks_group _ _ (parts_IntoClause x Hx)).
#[local] Hint Resolve walks_struct_CollateClause walks_struct_WindowDef walks_struct_WithClause
  walks_struct_OnConflictClause walks_struct_IntoClause : walks.

Lemma parts_CaseWhen n :
  below n -> Forall2 walks (c_CaseWhen selfe cat [EBad] n) (c_CaseWhen self group fundef n).
Proof.
  intros Hn. apply her_children in Hn. unfold c_CaseWhen.
  destruct n; try (constructor; [exact walks_bad|constructor]). destruct Hn. parts_tac.
Qed.

Lemma parts_CaseWhens l :
  list_all Node below l ->
  Forall2 walks (List.concat (map (c_CaseWhen selfe cat [EBad]) l))
    (List.concat (map (c_CaseWhen self group fundef) l)).
Proof. induction 1; [constructor|]. apply Forall2_app; [by apply parts_CaseWhen|done]. Qed.

Lemma parts_SelectStmt x :
  SelectStmt.t_all Node below x -> Forall2 walks (c_SelectStmt selfe cat x) (c_SelectStmt self group x).
Proof. intros Hx. destruct Hx. parts_tac. Qed.

(** The two readings of the [switch] agree. *)
Lemma walks_raw n :
  children below n ->
  match raw_children selfe cat [EBad] n, raw_children self group fundef n with
  | Some ess, Some fs => Forall2 walks ess fs
  | None, None => True
  | _, _ => False
  end.
Proof.
  intros Hn. destruct n; cbn [raw_children children] in *; try exact I;
    auto using parts_CollateClause, parts_WindowDef, parts_WithClause, parts_InferClause,
      parts_OnConflictClause, parts_IntoClause, parts_SelectStmt, walks_map;
    try (destruct Hn; parts_tac).
  apply Forall2_app; [by apply parts_CaseWhens|parts_tac].
Qed.

Lemma walks_try_raw n ess :
  children below n -> raw_children selfe cat [EBad] n = Some ess ->
  walks (cat ess) (pg_try (raw_expression_tree_walker self n)).
Proof.
  intros Hn E. pose proof (walks_raw n Hn) as H. rewrite E in H. unfold raw_expression_tree_walker.
  destruct (raw_children self group fundef n) as [fs|]; [|done]. by apply walks_try, walks_each.
Qed.

Lemma walks_try_unknown n :
  children below n -> raw_children selfe cat [EBad] n = None ->
  walks [] (pg_try (raw_expression_tree_walker self n)).
Proof.
  intros Hn E. pose proof (walks_raw n Hn) as H. rewrite E in H. unfold raw_expression_tree_walker.
  destruct (raw_children self group fundef n) as [fs|]; [done|]. exact walks_unrecognized.
Qed.

(** *** The target list *)

Context (fingerprint : option Node -> Z).

(** What is remembered of a target of [targets]. *)
Definition fp_ok (targets : list Node) (h e : Z) (f : FpAndParamRefs) : Prop :=
  Forall (ref_ok h e) (fp_param_refs f) /\
  (fp_param_refs f <> [] -> exists rt, In (N_ResTarget rt) targets /\
     fp f = fingerprint rt.(ResTarget.val) /\ has_select (opt selfe cat rt.(ResTarget.val)) = false).

Hypothesis selfe_target : forall rt,
  selfe (N_ResTarget rt) =
    cat [many selfe cat rt.(ResTarget.indirection); opt selfe cat rt.(ResTarget.val)].

Section targets.
Context (targets : list Node).

Definition fps_ok (fps : list FpAndParamRefs) (s : pgssConstLocations) : Prop :=
  Forall (fp_ok targets (highest_normalize_param_id s) (highest_extern_param_id s)) fps.

Lemma ext_extern_le b es s s' : ext b es s s' -> highest_extern_param_id s <= highest_extern_param_id s'.
Proof.
  intros H. rewrite (ext_extern _ _ _ _ H). generalize (highest_extern_param_id s).
  induction (params es) as [|p l IH]; intros z; cbn; [lia|]. specialize (IH (Z.max z p)). lia.
Qed.

Lemma fps_ok_ext b es s s' fps : ext b es s s' -> fps_ok fps s -> fps_ok fps s'.
Proof.
  intros H Hf. eapply Forall_impl; [exact Hf|]. intros f [H1 H2]. split; [|done].
  eapply refs_ok_le; [exact H1|exact (ext_highest _ _ _ _ H)|exact (ext_extern_le _ _ _ _ H)].
Qed.

Lemma inv_set_refs refs s :
  inv s -> refs_valid (highest_normalize_param_id s) (highest_extern_param_id s) refs ->
  inv (set_param_refs refs s).
Proof. intros [] H. by constructor. Qed.

(** Walking a target with a fresh record of parameters that is taken away
    afterwards. *)
Lemma ext_target b es refs s s1 :
  ext b es (set_param_refs refs s) s1 -> ext true es s (set_param_refs None s1).
Proof.
  intros [Hn Hq He Hh _ _ _]. cbn in *. constructor; state_fields; try done.
  destruct Hn as (new & ? & ? & ? & _). by exists new.
Qed.

Lemma target_step rt fps l s :
  walks (selfe (N_ResTarget rt)) (self (N_ResTarget rt)) ->
  good (selfe (N_ResTarget rt)) = true ->
  inv s -> on_query q qn s -> fits (weight (selfe (N_ResTarget rt))) s -> fps_ok fps s ->
  In (N_ResTarget rt) targets ->
  exists f s', walk_targets fingerprint self (N_ResTarget rt :: l) fps s =
      walk_targets fingerprint self l (fps ++ [f])%list s' /\
    inv s' /\ ext true (selfe (N_ResTarget rt)) s s' /\ fps_ok (fps ++ [f])%list s' /\ param_refs s' = None.
Proof.
  intros Hw Hg Hi Hq [F1 F2] Hfps Hin. set (s0 := set_param_refs (Some ([], 1)) s).
  destruct (Hw Hg s0) as (s1 & E & I1 & X).
  { apply inv_set_refs; [done|]. split; [cbn; lia|constructor]. }
  { exact Hq. }
  { split; [exact F1|]. cbn. unfold clocations_count in F1. lia. }
  pose proof (ext_target _ _ _ _ _ X) as X'.
  exists (mkFp (fingerprint rt.(ResTarget.val)) (match param_refs s1 with Some (r, _) => r | None => [] end)),
    (set_param_refs None s1).
  split.
  { cbn [walk_targets]. unfold bind, update, if_return, get. fold s0. rewrite E. reflexivity. }
  split; [by apply inv_set_refs|]. split; [done|]. split; [|done].
  apply Forall_app. split; [exact (fps_ok_ext _ _ _ _ _ X' Hfps)|]. apply Forall_singleton. split; cbn.
  - pose proof (inv_refs_valid s1 I1) as Hr. destruct (param_refs s1) as [[r b]|]; [by destruct Hr|constructor].
  - intros Hne. exists rt. split; [done|]. split; [done|].
    pose proof (ext_select _ _ _ _ X) as Hs. destruct (has_select (selfe (N_ResTarget rt))) eqn:Hsel.
    + by rewrite Hs in Hne.
    + rewrite selfe_target in Hsel. unfold cat in Hsel. cbn in Hsel. rewrite app_nil_r, has_select_app in Hsel.
      by apply orb_false_iff in Hsel as [_ ?].
Qed.

Lemma does_targets l fps :
  list_all Node below l -> l <> [] -> incl l targets ->
  does true (fps_ok fps) (cat (map (target_events selfe) l)) (walk_targets fingerprint self l fps)
    (fun fps' s => fps_ok fps' s /\ param_refs s = None).
Proof.
  intros Hl. revert fps. induction Hl as [|n Hn l Hl IH]; intros fps Hne Hsub; [done|].
  apply incl_cons_inv in Hsub as [Hin Hsub].
  change (cat (map (target_events selfe) (n :: l))) with
    (target_events selfe n ++ cat (map (target_events selfe) l))%list.
  intros Hg s Hi Hq Hf Hp. rewrite good_app in Hg. apply andb_true_iff in Hg as [Hg1 Hg2].
  destruct n; try discriminate Hg1. cbn [target_events] in *.
  destruct (target_step x fps l s (walks_here _ Hn) Hg1 Hi Hq (fits_prefix _ _ _ Hf) Hp Hin)
    as (f & s1 & E & I1 & X1 & P1 & R1).
  rewrite E. destruct l as [|m l].
  - exists (fps ++ [f])%list, s1. split; [done|]. split; [done|]. split; [|done].
    change (cat (map (target_events selfe) [])) with (@nil event). by rewrite app_nil_r.
  - destruct (IH (fps ++ [f])%list ltac:(done) Hsub Hg2 s1 I1 (on_query_ext _ _ _ _ _ _ X1 Hq)
      (fits_step _ _ _ _ _ X1 Hf) P1) as (fps' & s2 & E2 & I2 & X2 & P2).
    exists fps', s2. split; [done|]. split; [done|]. split; [|done].
    exact (ext_trans _ _ _ _ _ _ _ X1 X2).
Qed.

(** *** GROUP BY *)

Lemma ext_share b es s s' : ext b es s s' -> param_refs s' = None -> ext true es s s'.
Proof.
  intros [Hn Hq He Hh _ _ Hr] E. constructor; try done. destruct Hn as (new & ? & ? & ? & _). by exists new.
Qed.

Lemma ext_refs_none b es s s' : ext b es s s' -> param_refs s = None -> param_refs s' = None.
Proof.
  intros H E. pose proof (ext_refs _ _ _ _ H) as Hr. destruct (param_refs s') as [[r b']|]; [|done].
  destruct Hr as (? & ? & E' & _). congruence.
Qed.

Lemma set_param_ids_nil prev locs : set_param_ids prev [] locs = locs.
Proof. revert locs. induction prev as [|p IH]; intros [|l locs]; cbn; [done..|]. by rewrite IH. Qed.

Lemma set_param_ids_app refs old new :
  List.length refs = List.length new ->
  exists new', set_param_ids (List.length old) refs (old ++ new)%list = (old ++ new')%list /\
    map location new' = map location new /\ map param_id new' = refs /\
    (Forall (fun l => length_ l = -1) new -> Forall (fun l => length_ l = -1) new').
Proof.
  intros Hlen. induction old as [|l old (new' & E & ?)]; [|exists new'; cbn; by rewrite E].
  revert refs Hlen. induction new as [|l new IH]; intros [|r refs]; cbn; try done.
  - intros _. by exists [].
  - intros [= Hlen]. destruct (IH refs Hlen) as (new' & E & H1 & H2 & H3). cbn in E.
    destruct new as [|l' new]; destruct refs as [|r' refs]; try done.
    + exists [mkLocationLen (location l) (length_ l) r]. repeat split.
      intros [? _]%Forall_cons. by constructor.
    + exists (mkLocationLen (location l) (length_ l) r :: new'). cbn in *. rewrite E, H1, H2. repeat split.
      intros [? ?]%Forall_cons. constructor; auto.
Qed.

Lemma match_up_same s : inv s -> fits 0 s -> match_up (Some (mkFp 0 [])) (clocations_count s) s = s.
Proof.
  intros Hi [F _]. unfold match_up. cbn [fp_param_refs List.length]. rewrite Z.sub_diag. cbn [Z.of_nat].
  change (0 =? 0) with true. cbv iota. rewrite set_param_ids_nil, Z.sub_0_r. pose proof (inv_highest s Hi).
  unfold max_entries in F. rewrite int32_small by int_lia. by destruct s.
Qed.

Lemma match_up_renumber es s s1 f new :
  ext false es s s1 -> inv s -> inv s1 -> fits 0 s1 ->
  param_refs s = None -> fp_ok targets (highest_normalize_param_id s) (highest_extern_param_id s) f ->
  clocations s1 = (clocations s ++ new)%list -> List.length (fp_param_refs f) = List.length new ->
  inv (match_up (Some f) (clocations_count s) s1) /\ ext true es s (match_up (Some f) (clocations_count s) s1).
Proof.
  intros X Hi I1 [F _] Hr [Hf _] En Hlen. unfold match_up.
  pose proof (ext_refs_none _ _ _ _ X Hr) as Hr1. pose proof (inv_highest s Hi). pose proof (ext_count _ _ _ _ X).
  pose proof (ext_plain _ _ _ _ X eq_refl) as Hh. pose proof (ext_extern_le _ _ _ _ X) as He.
  destruct (ext_new _ _ _ _ X) as (new0 & E0 & Hloc & Hlen0 & _). rewrite En in E0.
  apply app_inv_head in E0 as <-.
  assert (Hc : List.length new = List.length (consts es)) by by rewrite <-Hloc, List.length_map.
  rewrite (proj2 (Z.eqb_eq _ _)) by lia. unfold max_entries in F.
  rewrite int32_small by (rewrite Hh, Hlen, Hc; int_lia).
  replace (Z.to_nat (clocations_count s)) with (List.length (clocations s)) by (unfold clocations_count; lia).
  rewrite En.
  destruct (set_param_ids_app (fp_param_refs f) (clocations s) new Hlen) as (new' & -> & H1 & H2 & H3).
  assert (Hh' : highest_normalize_param_id s1 - Z.of_nat (List.length (fp_param_refs f)) =
    highest_normalize_param_id s) by lia.
  assert (Hl' : List.length new' = List.length new) by by rewrite <-(List.length_map location), H1, List.length_map.
  rewrite Hh'. split.
  - destruct I1 as [B1 B2 _ _ _ _]. unfold clocations_count in *. rewrite En in *.
    constructor; state_fields; unfold clocations_count; cbn [clocations];
      rewrite ?List.length_app, ?Hl' in *; try done; try lia.
    + apply Forall_app. split.
      * eapply Forall_impl; [exact (inv_ids s Hi)|]. intros l Hl. eapply ref_ok_le; [exact Hl|lia|exact He].
      * apply (refs_ok_le _ _ (highest_normalize_param_id s) (highest_extern_param_id s1)) in Hf; [|lia|exact He].
        rewrite <-H2 in Hf. exact (proj1 (List.Forall_map _ _ _) Hf).
    + intros k Hk. destruct (inv_gapless s Hi k Hk) as (l & Hl & E). exists l. split; [|done].
      apply in_app_iff. by left.
    + by rewrite Hr1.
  - destruct X as [_ Hq Hex _ _ _ _]. constructor; state_fields; try done; try lia.
    + exists new'. rewrite H1. repeat split; [done|auto|done].
    + by rewrite Hr1.
Qed.

Lemma take_fp_some x l f l' (P : FpAndParamRefs -> Prop) :
  take_fp x l = Some (f, l') -> Forall P l -> x = fp f /\ P f /\ Forall P l'.
Proof.
  revert l'. induction l as [|g l IH]; intros l'; cbn [take_fp]; [done|].
  destruct (Z.eqb_spec x (fp g)) as [->|].
  - intros [= -> ->] [? ?]%Forall_cons. auto.
  - destruct (take_fp x l) as [[g' l'']|]; [|done]. intros [= -> <-] [? ?]%Forall_cons.
    destruct (IH l'' eq_refl) as (? & ? & ?); auto using Forall_cons_2.
Qed.

(** A target without a SELECT has not the fingerprint of an item with one. *)
Lemma no_clash rt n :
  clash fingerprint selfe targets n = false -> In (N_ResTarget rt) targets ->
  has_select (opt selfe cat rt.(ResTarget.val)) = false ->
  fingerprint (Some n) = fingerprint rt.(ResTarget.val) -> has_select (selfe n) = false.
Proof.
  unfold clash. intros [->|Hc]%andb_false_iff Hin Hs E; [done|].
  exfalso. revert Hc. rewrite <-not_true_iff_false. intros []. apply existsb_exists.
  exists (N_ResTarget rt). by rewrite Hs, E, Z.eqb_refl.
Qed.

Lemma match_up_ok n f s s1 :
  ext (has_select (selfe n)) (selfe n) s s1 -> inv s -> inv s1 -> fits 0 s1 -> param_refs s = None ->
  fp_ok targets (highest_normalize_param_id s) (highest_extern_param_id s) f ->
  fingerprint (Some n) = fp f -> clash fingerprint selfe targets n = false ->
  inv (match_up (Some f) (clocations_count s) s1) /\
  ext true (selfe n) s (match_up (Some f) (clocations_count s) s1).
Proof.
  intros X Hi I1 F1 Hr Hf Hfp Hno. pose proof (ext_count _ _ _ _ X) as Hc.
  pose proof (ext_share _ _ _ _ X (ext_refs_none _ _ _ _ X Hr)) as Xs.
  destruct (ext_new _ _ _ _ X) as (new & En & Hloc & _).
  assert (Hlen : List.length new = List.length (consts (selfe n))) by by rewrite <-Hloc, List.length_map.
  destruct (Z.eqb_spec (Z.of_nat (List.length (fp_param_refs f))) (clocations_count s1 - clocations_count s))
    as [Heq|Hne].
  - destruct Hf as [Hf1 Hf2]. destruct f as [x [|r refs]]; cbn [fp_param_refs fp] in *.
    + assert (E : clocations_count s = clocations_count s1) by (cbn in Heq; lia). rewrite E.
      pose proof (match_up_same s1 I1 F1) as M. unfold match_up in *. cbn [fp_param_refs] in *.
      by rewrite M.
    + destruct Hf2 as (rt & Hin & -> & Hval); [done|].
      rewrite (no_clash rt n Hno Hin Hval Hfp) in X.
      eapply match_up_renumber; try done; [|cbn [fp_param_refs]; lia].
      split; [done|]. intros _. by exists rt.
  - unfold match_up. apply Z.eqb_neq in Hne. cbv zeta. by rewrite Hne.
Qed.

Lemma group_step n l fps s :
  walks (selfe n) (self n) -> is_null n = false -> is_integer_const n = false ->
  clash fingerprint selfe targets n = false ->
  good (selfe n) = true -> inv s -> on_query q qn s -> fits (weight (selfe n)) s ->
  fps_ok fps s -> param_refs s = None ->
  exists fps' s', walk_groups fingerprint self (n :: l) fps s = walk_groups fingerprint self l fps' s' /\
    inv s' /\ ext true (selfe n) s s' /\ fps_ok fps' s' /\ param_refs s' = None.
Proof.
  intros Hw Hnull Hint Hno Hg Hi Hq Hf Hfps Hr. destruct (Hw Hg s Hi Hq Hf) as (s1 & E & I1 & X).
  pose proof (ext_refs_none _ _ _ _ X Hr) as Hr1. pose proof (ext_share _ _ _ _ X Hr1) as Xs.
  assert (F1 : fits 0 s1).
  { rewrite <-(app_nil_r (selfe n)) in Hf. exact (fits_step _ _ _ _ _ X Hf). }
  cbn [walk_groups]. rewrite Hnull, Hint. unfold bind, get, update, if_return.
  destruct (take_fp (fingerprint (Some n)) fps) as [[f fps']|] eqn:Et; rewrite E.
  - destruct (take_fp_some _ _ _ _ _ Et Hfps) as (Hfp & Hok & Hfps').
    destruct (match_up_ok n f s s1 X Hi I1 F1 Hr Hok Hfp Hno) as [I2 X2].
    eexists fps', _. split; [done|]. split; [done|]. split; [done|].
    split; [by eapply fps_ok_ext|exact (ext_refs_none _ _ _ _ X2 Hr)].
  - exists fps, s1. split; [done|]. split; [done|]. split; [done|]. split; [by eapply fps_ok_ext|done].
Qed.

Lemma does_groups_shared l fps :
  list_all Node below l ->
  does true (fun s => fps_ok fps s /\ param_refs s = None) (cat (map (group_events fingerprint selfe targets) l))
    (walk_groups fingerprint self l fps) (fun _ s => param_refs s = None).
Proof.
  intros Hl. revert fps. induction Hl as [|n Hn l Hl IH]; intros fps Hg s Hi Hq Hf [Hp Hr].
  { exists tt, s. split; [done|]. split; [done|]. split; [|done]. by apply (ext_share _ _ _ _ (ext_refl s)). }
  change (cat (map (group_events fingerprint selfe targets) (n :: l))) with
    (group_events fingerprint selfe targets n ++ cat (map (group_events fingerprint selfe targets) l))%list in *.
  rewrite good_app in Hg. apply andb_true_iff in Hg as [Hg1 Hg2]. unfold group_events in Hg1, Hf |- * at 1.
  destruct (is_null n) eqn:Hnull; [done|]. destruct (is_integer_const n) eqn:Hint.
  { destruct (IH fps Hg2 s Hi Hq Hf (conj Hp Hr)) as (a & s' & E & ?). exists a, s'.
    cbn [walk_groups]. by rewrite Hnull, Hint, E. }
  destruct (clash fingerprint selfe targets n) eqn:Hno; [done|]. cbn [List.app] in Hg1, Hf.
  destruct (group_step n l fps s (walks_here _ Hn) Hnull Hint Hno Hg1 Hi Hq (fits_prefix _ _ _ Hf) Hp Hr)
    as (fps' & s1 & E & I1 & X1 & P1 & R1).
  destruct (IH fps' Hg2 s1 I1 (on_query_ext _ _ _ _ _ _ X1 Hq) (fits_step _ _ _ _ _ X1 Hf) (conj P1 R1))
    as (a & s2 & E2 & I2 & X2 & P2).
  exists a, s2. rewrite E, E2. split; [done|]. split; [done|]. split; [|done].
  exact (ext_trans _ _ _ _ _ _ _ X1 X2).
Qed.

End targets.

(** Without a target list nothing is matched up. *)
Lemma does_groups l :
  list_all Node below l ->
  does (has_select (cat (map (group_events fingerprint selfe []) l))) any (cat (map (group_events fingerprint selfe []) l))
    (walk_groups fingerprint self l []) anyv.
Proof.
  intros Hl. induction Hl as [|n Hn l Hl IH]; [by apply does_next|].
  change (cat (map (group_events fingerprint selfe []) (n :: l))) with
    (group_events fingerprint selfe [] n ++ cat (map (group_events fingerprint selfe []) l))%list.
  rewrite has_select_app. cbn [walk_groups]. unfold group_events at 1 3.
  destruct (is_null n); [done|]. destruct (is_integer_const n); [exact IH|]. cbn [take_fp].
  unfold clash. cbn [existsb]. rewrite andb_false_r. cbn [List.app].
  intros Hg s Hi Hq Hf Hp.
  destruct (does_bind _ _ _ _ _ _ (fun _ => walk_groups fingerprint self l []) _ _
    (does_if_return _ _ (walks_here _ Hn)) (fun a => does_weaken _ _ (anyv a) _ _ _ _ IH (fun _ _ => I) (fun _ _ H => H))
    Hg s Hi Hq Hf Hp) as (a & s2 & E & H).
  exists a, s2. split; [|exact H]. unfold bind, get, update in *.
  by destruct (if_return (self n) s).
Qed.

(** *** ORDER BY *)

Lemma does_sorts l :
  list_all Node below l ->
  does (has_select (cat (map (sort_events selfe) l))) any (cat (map (sort_events selfe) l))
    (walk_sorts self l) anyv.
Proof.
  intros Hl. induction Hl as [|n Hn l Hl IH]; [by apply does_next|].
  change (cat (map (sort_events selfe) (n :: l))) with
    (sort_events selfe n ++ cat (map (sort_events selfe) l))%list.
  rewrite has_select_app. cbn [walk_sorts]. unfold sort_events at 1 3.
  destruct (is_null n) eqn:Hnull; [done|].
  assert (Hwalk : does (has_select (selfe n) || has_select (cat (map (sort_events selfe) l))) any
    (selfe n ++ cat (map (sort_events selfe) l))%list (if_return (self n) ;! walk_sorts self l) anyv).
  { eapply does_bind; [by apply does_if_return, walks_here|]. intros a. by eapply does_weaken; [exact IH|..]. }
  destruct n; try exact Hwalk. destruct (SortBy.node x) as [e|]; [|done].
  destruct (is_null e); [done|]. destruct (is_integer_const e); [exact IH|exact Hwalk].
Qed.

(** *** SELECT *)

Lemma does_seq {A} b1 b2 pre es1 es2 (c : cmd unit) (k : cmd A) post :
  does b1 pre es1 c anyv -> does b2 any es2 k post ->
  does (b1 || b2) pre (es1 ++ es2)%list (c ;! k) post.
Proof. intros Hc Hk. eapply does_bind; [exact Hc|]. intros a. by eapply does_weaken; [exact Hk|..]. Qed.

Lemma does_share {A} b pre es (c : cmd A) post :
  does b pre es c (fun a s => post a s /\ param_refs s = None) -> does true pre es c post.
Proof.
  intros H Hg s Hi Hq Hf Hp. destruct (H Hg s Hi Hq Hf Hp) as (a & s' & E & I & X & P & R).
  exists a, s'. split; [done|]. split; [done|]. split; [|done]. by eapply ext_share.
Qed.

Lemma does_select_head x :
  SelectStmt.t_all Node below x ->
  does (has_select (cat (select_head selfe cat x))) any (cat (select_head selfe cat x))
    (each (select_head self group x)) anyv.
Proof. intros Hx. apply does_each. destruct Hx. parts_tac. Qed.

Lemma does_select_from x :
  SelectStmt.t_all Node below x ->
  does (has_select (cat (select_from selfe cat x))) any (cat (select_from selfe cat x))
    (each (select_from self group x)) anyv.
Proof. intros Hx. apply does_each. destruct Hx. parts_tac. Qed.

Lemma does_select_end x :
  SelectStmt.t_all Node below x ->
  does (has_select (cat (map (sort_events selfe) x.(SelectStmt.sortClause)) ++ cat (select_tail selfe cat x))%list)
    any (cat (map (sort_events selfe) x.(SelectStmt.sortClause)) ++ cat (select_tail selfe cat x))%list
    (walk_sorts self x.(SelectStmt.sortClause) ;! each (select_tail self group x)) anyv.
Proof.
  intros Hx. rewrite has_select_app. apply does_seq.
  - apply does_sorts. by destruct Hx.
  - apply does_each. destruct Hx. parts_tac.
Qed.

(** A command that cannot make a record of parameters leaves none. *)
Lemma does_none {A} b pre es (c : cmd A) post :
  does b pre es c post ->
  does b (fun s => pre s /\ param_refs s = None) es c (fun a s => post a s /\ param_refs s = None).
Proof.
  intros H Hg s Hi Hq Hf [Hp Hr]. destruct (H Hg s Hi Hq Hf Hp) as (a & s' & E & I & X & P).
  exists a, s'. split; [done|]. split; [done|]. split; [done|]. split; [done|].
  exact (ext_refs_none _ _ _ _ X Hr).
Qed.

Lemma does_fps {A} targets b fps es (c : cmd A) :
  does b any es c anyv ->
  does b (fun s => fps_ok targets fps s /\ param_refs s = None) es c (fun _ s => fps_ok targets fps s /\ param_refs s = None).
Proof.
  intros H Hg s Hi Hq Hf [Hp Hr]. destruct (H Hg s Hi Hq Hf I) as (a & s' & E & I' & X & _).
  exists a, s'. split; [done|]. split; [done|]. split; [done|].
  split; [exact (fps_ok_ext _ _ _ _ _ _ X Hp)|exact (ext_refs_none _ _ _ _ X Hr)].
Qed.

Lemma does_ret {A B} b pre es (a : A) (k : A -> cmd B) post :
  does b pre es (k a) post -> does b pre es (bind (next a) k) post.
Proof. done. Qed.

(** The mark of a SELECT adds nothing. *)
Lemma does_select_event {A} pre es (c : cmd A) post :
  does true pre es c post -> does true pre ([ESelect] ++ es)%list c post.
Proof.
  intros H Hg s Hi Hq Hf Hp. destruct (H Hg s Hi Hq Hf Hp) as (a & s' & E & I' & X & P).
  exists a, s'. split; [done|]. split; [done|]. split; [|done]. by destruct X.
Qed.

Lemma walks_SelectStmt x :
  SelectStmt.t_all Node below x -> walks (select_events fingerprint selfe x) (walk_SelectStmt fingerprint self x).
Proof.
  intros Hx. unfold walk_SelectStmt, select_events. apply (walks_body any _ _ anyv (fun _ => I)).
  pose proof (does_select_head x Hx) as H1. pose proof (does_select_from x Hx) as H3.
  pose proof (does_select_end x Hx) as H5.
  assert (Ht : list_all Node below x.(SelectStmt.targetList)) by by destruct Hx.
  assert (Hg : list_all Node below x.(SelectStmt.groupClause)) by by destruct Hx.
  destruct (SelectStmt.targetList x) as [|t ts] eqn:Et.
  - cbn [map List.app walk_targets]. change (cat []) with (@nil event). cbn [List.app].
    rewrite !has_select_app. apply does_seq; [exact H1|]. apply does_ret. apply does_seq; [exact H3|].
    apply does_seq; [by apply does_groups|].
    rewrite <-has_select_app. exact H5.
  - assert (Hb : forall h r, has_select (h ++ [ESelect] ++ r)%list = true).
    { intros h r. rewrite has_select_app. apply orb_true_r. }
    rewrite Hb, (app_assoc [ESelect]). rewrite <-Et in *. eapply does_share, does_seq; [exact H1|].
    eapply does_bind.
    { eapply does_weaken; [apply does_select_event, (does_targets x.(SelectStmt.targetList) x.(SelectStmt.targetList) []);
        [done|by rewrite Et|apply incl_refl]|constructor|].
      intros fps s H. exact H. }
    intros fps.
    eapply does_bind; [by apply does_fps, H3|]. intros ?.
    eapply does_bind; [by apply does_groups_shared|]. intros ?.
    eapply does_weaken; [eapply does_none; exact H5|by split|done].
Qed.
End related.

(** *** Every tree *)

Section tree.
Context (fingerprint : option Node -> Z).
Abbreviation walker := (const_record_walker fingerprint).

Lemma events_target rt :
  events q qn fingerprint (N_ResTarget rt) =
    cat [many (events q qn fingerprint) cat rt.(ResTarget.indirection); opt (events q qn fingerprint) cat rt.(ResTarget.val)].
Proof. done. Qed.

Lemma walker_eq n : walker n = const_record_walker_body fingerprint walker n.
Proof. by destruct n. Qed.

Lemma events_eq n : events q qn fingerprint n = events_body q qn fingerprint (events q qn fingerprint) n.
Proof. by destruct n. Qed.

Lemma const_no_select loc : has_select (const_event loc) = false.
Proof. unfold const_event. by destruct (0 <=? loc). Qed.

Lemma walks_plain es (c : cmd unit) : has_select es = false -> does false any es c anyv -> walks es (body c).
Proof. intros E H. apply (walks_body any _ _ anyv (fun _ => I)). by rewrite E. Qed.

Lemma quote_no_select loc : has_select (quote_event q qn loc) = false.
Proof.
  unfold quote_event, const_event. destruct (loc <? 0); [done|].
  destruct (find_quote _ _ _) as [i|]; [|done]. by destruct (0 <=? i).
Qed.

Lemma walks_DefElem x :
  DefElem.t_all Node (her (fun n => walks (events q qn fingerprint n) (walker n))) x ->
  walks (events q qn fingerprint (N_DefElem x)) (walker (N_DefElem x)).
Proof.
  intros Hx. rewrite events_eq, walker_eq. cbn [events_body const_record_walker_body].
  assert (Ho : walks (opt (events q qn fingerprint) cat (DefElem.arg x)) (opt walker group (DefElem.arg x))).
  { apply walks_opt. by destruct Hx. }
  destruct (DefElem.arg x) as [[]|]; try exact Ho. destruct v; try exact Ho.
  intros Hg s Hi Hq Hf.
  destruct (does_record_quote _ Hg s Hi Hq Hf I) as (a & s1 & E & I1 & X & _).
  exists s1. unfold body, bind. rewrite E. split; [reflexivity|]. split; [done|].
  by rewrite quote_no_select.
Qed.

Lemma walker_walks n : walks (events q qn fingerprint n) (walker n).
Proof.
  apply (her_here (fun n => walks (events q qn fingerprint n) (walker n))). revert n.
  apply her_intro. intros n Hn.
  assert (Hdefault : events_body q qn fingerprint (events q qn fingerprint) n =
      match raw_children (events q qn fingerprint) cat [EBad] n with Some l => cat l | None => [] end ->
    const_record_walker_body fingerprint walker n = pg_try (raw_expression_tree_walker walker n) ->
    walks (events q qn fingerprint n) (walker n)).
  { intros E1 E2. rewrite events_eq, walker_eq, E1, E2.
    destruct (raw_children (events q qn fingerprint) cat [EBad] n) as [ess|] eqn:E.
    - by apply (walks_try_raw walker (events q qn fingerprint)).
    - by apply (walks_try_unknown walker (events q qn fingerprint)). }
  destruct n; try (by apply Hdefault); cbn [children] in Hn;
    try (apply (walks_opt walker (events q qn fingerprint)); by destruct Hn);
    try (apply (walks_many walker (events q qn fingerprint)); by destruct Hn).
  - destruct l; [exact walks_return_false|by apply Hdefault].
  - exact walks_return_false.
  - by apply walks_plain, does_record_param.
  - apply walks_plain; [apply const_no_select|apply does_record].
  - by apply walks_DefElem.
  - by apply walks_SelectStmt.
Qed.
End tree.
End query.
