(* ===== verification/Array.v ===== *)
(** * Arrays

    A block of memory as the list of its elements, with access by position: an
    access beyond the block is [Undef].  [within a n] relates two states of a
    block that differ only by the order of the [n] elements from position [a]
    on. *)
From S2P Require Import Prelude.

Section array.
Context {X : Type}.

Definition read (arr : list X) (i : nat) : outcome X :=
  match arr !! i with Some x => Ok x | None => Undef end.

Definition swap (arr : list X) (i j : nat) : outcome (list X) :=
  let* x := read arr i in
  let* y := read arr j in
  Ok (<[j := x]> (<[i := y]> arr)).

(** ** Lemmas *)

Lemma read_lt arr i : (i < List.length arr)%nat -> exists x, arr !! i = Some x /\ read arr i = Ok x.
Proof.
  intros H. destruct (lookup_lt_is_Some_2 arr i H) as [x E]. exists x. unfold read. by rewrite E.
Qed.

Lemma read_some arr i x : arr !! i = Some x -> read arr i = Ok x.
Proof. unfold read. by intros ->. Qed.

(** The positions [i] and [j] exchanged. *)
Definition exchanged (i j k : nat) : nat :=
  if decide (k = i) then j else if decide (k = j) then i else k.

Lemma swap_spec arr i j :
  (i < List.length arr)%nat -> (j < List.length arr)%nat ->
  exists arr', swap arr i j = Ok arr' /\ arr' ≡ₚ arr /\
    forall k, arr' !! k = arr !! exchanged i j k.
Proof.
  intros Hi Hj. destruct (read_lt arr i Hi) as (x & Ex & Rx). destruct (read_lt arr j Hj) as (y & Ey & Ry).
  exists (<[j := x]> (<[i := y]> arr)). split; [unfold swap; by rewrite Rx, Ry|]. split.
  - destruct (decide (i = j)) as [->|Hne].
    { assert (x = y) as -> by congruence. by rewrite list_insert_insert_eq, list_insert_id. }
    symmetry. apply Permutation_inj. split; [by rewrite !length_insert|].
    exists (exchanged i j). split.
    + intros k1 k2. unfold exchanged. repeat case_decide; congruence.
    + intros k. unfold exchanged. case_decide as Hk; [subst k|case_decide as Hk'; [subst k|]].
      * rewrite list_lookup_insert_eq; [done|by rewrite length_insert].
      * rewrite list_lookup_insert_ne, list_lookup_insert_eq by done. done.
      * by rewrite !list_lookup_insert_ne by done.
  - intros k. unfold exchanged. case_decide as Hk; [subst k|case_decide as Hk'; [subst k|]].
    + destruct (decide (i = j)) as [->|].
      * rewrite list_lookup_insert_eq by (by rewrite length_insert). by rewrite Ex.
      * rewrite list_lookup_insert_ne, list_lookup_insert_eq by done. done.
    + rewrite list_lookup_insert_eq by (by rewrite length_insert). done.
    + by rewrite !list_lookup_insert_ne by done.
Qed.

(** *** Changes within a range *)

Definition outside (a n k : nat) : Prop := (k < a \/ a + n <= k)%nat.

Definition within (a n : nat) (arr arr' : list X) : Prop :=
  arr ≡ₚ arr' /\ forall k, outside a n k -> arr' !! k = arr !! k.

Lemma within_refl a n arr : within a n arr arr.
Proof. by split. Qed.

Lemma within_trans a n arr1 arr2 arr3 : within a n arr1 arr2 -> within a n arr2 arr3 -> within a n arr1 arr3.
Proof. intros [P1 L1] [P2 L2]. split; [by etrans|]. intros k Hk. by rewrite L2, L1. Qed.

Lemma within_mono a n a' n' arr arr' :
  (a' <= a)%nat -> (a + n <= a' + n')%nat -> within a n arr arr' -> within a' n' arr arr'.
Proof. intros Ha Hn [P L]. split; [done|]. intros k Hk. apply L. unfold outside in *. lia. Qed.

Lemma within_length a n arr arr' : within a n arr arr' -> List.length arr' = List.length arr.
Proof. intros [P _]. by rewrite P. Qed.

Lemma swap_within a n arr i j :
  (a <= i < a + n)%nat -> (a <= j < a + n)%nat -> (a + n <= List.length arr)%nat ->
  exists arr', swap arr i j = Ok arr' /\ within a n arr arr' /\ forall k, arr' !! k = arr !! exchanged i j k.
Proof.
  intros Hi Hj Hn. destruct (swap_spec arr i j) as (arr' & E & P & L); [lia..|].
  exists arr'. split; [done|]. split; [|done]. split; [done|]. intros k Hk. rewrite L.
  unfold exchanged, outside in *. repeat case_decide; (done || lia).
Qed.

(** [P] holds of the [n] elements from [a] on. *)
Definition all_in (P : X -> Prop) (a n : nat) (arr : list X) : Prop :=
  forall k x, (a <= k < a + n)%nat -> arr !! k = Some x -> P x.

Lemma segments a n (arr : list X) :
  (a + n <= List.length arr)%nat -> arr = (take a arr ++ take n (drop a arr) ++ drop (a + n) arr)%list.
Proof. intros H. by rewrite <-drop_drop, take_drop, take_drop. Qed.

Lemma all_in_segment P a n arr :
  (a + n <= List.length arr)%nat -> all_in P a n arr <-> Forall P (take n (drop a arr)).
Proof.
  intros Hn. rewrite Forall_lookup. split.
  - intros H i x Hx. apply lookup_take_Some in Hx as [Hx Hi]. rewrite lookup_drop in Hx.
    apply (H (a + i)%nat); [lia|done].
  - intros H k x Hk Hx. apply (H (k - a)%nat). rewrite lookup_take_lt by lia. rewrite lookup_drop.
    by replace (a + (k - a))%nat with k by lia.
Qed.

Lemma within_segment a n (arr arr' : list X) :
  (a + n <= List.length arr)%nat -> within a n arr arr' ->
  take a arr' = take a arr /\ drop (a + n) arr' = drop (a + n) arr /\
  take n (drop a arr') ≡ₚ take n (drop a arr).
Proof.
  intros Hn HW. pose proof (within_length _ _ _ _ HW) as Hlen. destruct HW as [HP HL].
  assert (Ht : take a arr' = take a arr).
  { apply list_eq. intros i. destruct (decide (i < a)%nat).
    - rewrite !lookup_take_lt by done. apply HL. left. lia.
    - by rewrite !lookup_take_ge by lia. }
  assert (Hd : drop (a + n) arr' = drop (a + n) arr).
  { apply list_eq. intros i. rewrite !lookup_drop. apply HL. right. lia. }
  split; [done|]. split; [done|].
  rewrite (segments a n arr Hn), (segments a n arr') in HP by lia. rewrite Ht, Hd in HP.
  apply Permutation_app_inv_l in HP. apply Permutation_app_inv_r in HP. by symmetry.
Qed.

(** A change within a range keeps what holds of all its elements. *)
Lemma within_all_in P a n arr arr' :
  (a + n <= List.length arr)%nat -> within a n arr arr' -> all_in P a n arr -> all_in P a n arr'.
Proof.
  intros Hn HW H. pose proof (within_length _ _ _ _ HW) as Hlen.
  apply all_in_segment in H; [|done]. apply all_in_segment; [lia|].
  destruct (within_segment _ _ _ _ Hn HW) as (_ & _ & HP). eapply Permutation_Forall; [|exact H]. by symmetry.
Qed.

Lemma all_in_outside P a n b m arr arr' :
  within a n arr arr' -> (forall k, (b <= k < b + m)%nat -> outside a n k) ->
  all_in P b m arr -> all_in P b m arr'.
Proof. intros [_ HL] Ho H k x Hk Hx. rewrite HL in Hx by auto. eauto. Qed.

Lemma all_in_mono (P Q : X -> Prop) a n a' n' arr :
  (forall x, P x -> Q x) -> (a <= a')%nat -> (a' + n' <= a + n)%nat -> all_in P a n arr -> all_in Q a' n' arr.
Proof. intros HPQ Ha Hn H k x Hk Hx. apply HPQ, (H k); [lia|done]. Qed.
End array.
