(* ===== verification/Qsort.v ===== *)
(** * Quicksort

    [src/postgres/src_port_qsort.c]: Bentley and McIlroy's quicksort with the
    check for sorted input, recursing into the smaller part.  An array is a list
    and a pointer into it the position of an element ([char *] arithmetic in
    units of [es]); [swapfunc] and its variants for the alignment exchange
    elements.  Positions are [nat]: the code subtracts only from pointers that
    are large enough, which the bounds of [read] check at each access. *)
From S2P Require Import Prelude Array.

Section qsort.
Context {X : Type} (cmp : X -> X -> Z).

(** [cmp(pi, pj)] *)
Definition cmp_at (arr : list X) (i j : nat) : outcome Z :=
  let* x := read arr i in
  let* y := read arr j in
  Ok (cmp x y).

Definition med3 (arr : list X) (a b c : nat) : outcome nat :=
  let* r := cmp_at arr a b in
  if (r <? 0)%Z then
    let* r := cmp_at arr b c in
    if (r <? 0)%Z then Ok b
    else let* r := cmp_at arr a c in Ok (if (r <? 0)%Z then c else a)
  else
    let* r := cmp_at arr b c in
    if (r >? 0)%Z then Ok b
    else let* r := cmp_at arr a c in Ok (if (r <? 0)%Z then a else c).

(** [vecswap(a, b, n)] *)
Fixpoint vecswap (arr : list X) (a b n : nat) : outcome (list X) :=
  match n with
  | O => Ok arr
  | S n => let* arr := swap arr a b in vecswap arr (S a) (S b) n
  end.

(** [for (pl = pm; pl > a && cmp(pl - es, pl) > 0; pl -= es) swap(pl, pl - es)]
    with [pl = a + i]. *)
Fixpoint insert_back (arr : list X) (a i : nat) : outcome (list X) :=
  match i with
  | O => Ok arr
  | S i' =>
      let* r := cmp_at arr (a + i') (a + i) in
      if (r >? 0)%Z then
        let* arr := swap arr (a + i) (a + i') in
        insert_back arr a i'
      else Ok arr
  end.

(** The insertion sort for [n < 7]: [k] more elements, from [pm = a + i] on. *)
Fixpoint insertion (arr : list X) (a i k : nat) : outcome (list X) :=
  match k with
  | O => Ok arr
  | S k => let* arr := insert_back arr a i in insertion arr a (S i) k
  end.

(** The check for sorted input: [k] more elements, from [pm] on. *)
Fixpoint presorted (arr : list X) (pm k : nat) : outcome bool :=
  match k with
  | O => Ok true
  | S k =>
      let* r := cmp_at arr (pm - 1) pm in
      if (r >? 0)%Z then Ok false else presorted arr (S pm) k
  end.

(** The choice of the pivot. *)
Definition pivot (arr : list X) (a n : nat) : outcome nat :=
  let pm := (a + n / 2)%nat in
  if (7 <? n)%nat then
    let pl := a in
    let pn := (a + (n - 1))%nat in
    let* (pl, pm, pn) :=
      if (40 <? n)%nat then
        let d := (n / 8)%nat in
        let* pl := med3 arr pl (pl + d) (pl + 2 * d) in
        let* pm := med3 arr (pm - d) pm (pm + d) in
        let* pn := med3 arr (pn - 2 * d) (pn - d) pn in
        Ok (pl, pm, pn)
      else Ok (pl, pm, pn) in
    med3 arr pl pm pn
  else Ok pm.

(** [while (pb <= pc && (r = cmp(pb, a)) <= 0) { ... }] *)
Fixpoint scan_left (fuel : nat) (arr : list X) (a pa pb pc : nat) : outcome (list X * nat * nat) :=
  match fuel with
  | O => Undef
  | S fuel =>
      if (pb <=? pc)%nat then
        let* r := cmp_at arr pb a in
        if (r <=? 0)%Z then
          if (r =? 0)%Z then
            let* arr := swap arr pa pb in
            scan_left fuel arr a (S pa) (S pb) pc
          else scan_left fuel arr a pa (S pb) pc
        else Ok (arr, pa, pb)
      else Ok (arr, pa, pb)
  end.

(** [while (pb <= pc && (r = cmp(pc, a)) >= 0) { ... }] *)
Fixpoint scan_right (fuel : nat) (arr : list X) (a pb pc pd : nat) : outcome (list X * nat * nat) :=
  match fuel with
  | O => Undef
  | S fuel =>
      if (pb <=? pc)%nat then
        let* r := cmp_at arr pc a in
        if (0 <=? r)%Z then
          if (r =? 0)%Z then
            let* arr := swap arr pc pd in
            scan_right fuel arr a pb (pc - 1) (pd - 1)
          else scan_right fuel arr a pb (pc - 1) pd
        else Ok (arr, pc, pd)
      else Ok (arr, pc, pd)
  end.

(** The loop [for (;;) { ... }]. *)
Fixpoint partition (fuel : nat) (arr : list X) (a pa pb pc pd : nat) :
    outcome (list X * nat * nat * nat * nat) :=
  match fuel with
  | O => Undef
  | S fuel' =>
      let* (arr, pa, pb) := scan_left fuel arr a pa pb pc in
      let* (arr, pc, pd) := scan_right fuel arr a pb pc pd in
      if (pc <? pb)%nat then Ok (arr, pa, pb, pc, pd)
      else
        let* arr := swap arr pb pc in
        partition fuel' arr a pa (S pb) (pc - 1) pd
  end.

(** Pivot, partition and the exchanges that put the equal elements in the middle:
    the array and the sizes of the two parts. *)
Definition split_around (arr : list X) (a n : nat) : outcome (list X * nat * nat) :=
  let* pm := pivot arr a n in
  let* arr := swap arr a pm in
  let* (arr, pa, pb, pc, pd) := partition n arr a (a + 1) (a + 1) (a + (n - 1)) (a + (n - 1)) in
  let pn := (a + n)%nat in
  let d1 := Nat.min (pa - a) (pb - pa) in
  let* arr := vecswap arr a (pb - d1) d1 in
  let d1 := Nat.min (pd - pc) (pn - pd - 1) in
  let* arr := vecswap arr pb (pn - d1) d1 in
  Ok (arr, (pb - pa)%nat, (pd - pc)%nat).

(** [pg_qsort]: [depth] bounds the nested calls, [iter] the jumps to [loop]. *)
Fixpoint pg_qsort (depth : nat) : nat -> list X -> nat -> nat -> outcome (list X) :=
  fix loop (iter : nat) (arr : list X) (a n : nat) : outcome (list X) :=
    match depth, iter with
    | S depth', S iter' =>
        if (n <? 7)%nat then insertion arr a 1 (n - 1)
        else
          let* sorted := presorted arr (a + 1) (n - 1) in
          if sorted then Ok arr
          else
            let* (arr, d1, d2) := split_around arr a n in
            let pn := (a + n)%nat in
            if (d1 <=? d2)%nat then
              let* arr := if (1 <? d1)%nat then pg_qsort depth' d1 arr a d1 else Ok arr in
              if (1 <? d2)%nat then loop iter' arr (pn - d2)%nat d2 else Ok arr
            else
              let* arr := if (1 <? d2)%nat then pg_qsort depth' d2 arr (pn - d2)%nat d2 else Ok arr in
              if (1 <? d1)%nat then loop iter' arr a d1 else Ok arr
    | _, _ => Undef
    end.
End qsort.

Example qsort_1 :
  pg_qsort Z.sub 5 12 [5; 3; 9; 1; 5; 7; 2; 8; 5; 0; 4; 5]%Z 0 12 = Ok [0; 1; 2; 3; 4; 5; 5; 5; 5; 7; 8; 9]%Z.
Proof. vm_compute. reflexivity. Qed.
