(* ===== verification/QsortProof.v ===== *)
(** * Quicksort sorts

    Under a comparison that is a total preorder, [pg_qsort] returns a sorted
    permutation of the range it is given and leaves the rest of the array
    alone; the nested calls are at most logarithmic in the size, as the comment
    of the C code claims.  At the end the [qsort] of query normalization is
    instantiated with it. *)
From Stdlib Require Import Sorted.
From S2P Require Import Prelude Array Qsort Normalize.

(** What the callers promise of a comparison function. *)
Class Comparator {X : Type} (cmp : X -> X -> Z) : Prop := {
  cmp_flip : forall x y, (0 < cmp x y <-> cmp y x < 0)%Z;
  cmp_trans : forall x y z, (cmp x y <= 0 -> cmp y z <= 0 -> cmp x z <= 0)%Z
}.

Section proofs.
Context {X : Type} (cmp : X -> X -> Z) `{!Comparator cmp}.

Definition sorted (a n : nat) (arr : list X) : Prop :=
  forall j k x y, (a <= j < k)%nat -> (k < a + n)%nat ->
    arr !! j = Some x -> arr !! k = Some y -> (cmp x y <= 0)%Z.

Lemma cmp_eq_sym x y : cmp x y = 0%Z -> cmp y x = 0%Z.
Proof. intros H. pose proof (cmp_flip x y). pose proof (cmp_flip y x). lia. Qed.

Lemma cmp_gt_le x y : (0 < cmp x y)%Z -> (cmp y x <= 0)%Z.
Proof. intros H. pose proof (proj1 (cmp_flip x y) H). lia. Qed.

Lemma cmp_at_ok arr i j :
  (i < List.length arr)%nat -> (j < List.length arr)%nat ->
  exists x y, arr !! i = Some x /\ arr !! j = Some y /\ cmp_at cmp arr i j = Ok (cmp x y).
Proof.
  intros Hi Hj. destruct (read_lt arr i Hi) as (x & Ex & Rx). destruct (read_lt arr j Hj) as (y & Ey & Ry).
  exists x, y. unfold cmp_at. by rewrite Rx, Ry.
Qed.

(** Looks at the array after an exchange through the array before. *)
Ltac lookup_tac L Hx :=
  rewrite L in Hx; unfold exchanged in Hx; repeat case_decide.

(** ** Insertion sort *)

(** Sorted but for the element at [a + i], which is not above those after it. *)
Definition inserting (a m i : nat) (arr : list X) : Prop :=
  forall j k x y, (a <= j < k)%nat -> (k < a + m)%nat -> (k <> a + i)%nat ->
    arr !! j = Some x -> arr !! k = Some y -> (cmp x y <= 0)%Z.

Lemma insert_back_spec a m i arr :
  (i < m)%nat -> (a + m <= List.length arr)%nat -> inserting a m i arr ->
  exists arr', insert_back cmp arr a i = Ok arr' /\ within a m arr arr' /\ sorted a m arr'.
Proof.
  revert arr. induction i as [|i IH]; intros arr Hi Hlen Hins; cbn [insert_back].
  { exists arr. split; [done|]. split; [apply within_refl|]. intros j k x y Hj Hk. apply Hins; lia. }
  destruct (cmp_at_ok arr (a + i) (a + S i)) as (u & v & Eu & Ev & ->); [lia..|]. cbn [obind].
  destruct (Z.gtb_spec (cmp u v) 0) as [Hgt|Hle].
  - destruct (swap_within a m arr (a + S i) (a + i)) as (arr1 & -> & HW & L); [lia..|]. cbn [obind].
    destruct (IH arr1) as (arr' & -> & HW' & HS); [lia|by rewrite (within_length _ _ _ _ HW)| |].
    + intros j k x y Hj Hk Hne Hx Hy. apply cmp_gt_le in Hgt.
      lookup_tac L Hx; lookup_tac L Hy; try lia; try (eapply Hins; [..|exact Hx|exact Hy]; lia).
      congruence.
    + exists arr'. split; [done|]. split; [by eapply within_trans|done].
  - exists arr. split; [done|]. split; [apply within_refl|]. intros j k x y Hj Hk Hx Hy.
    destruct (decide (k = a + S i)%nat) as [->|]; [|by apply (Hins j k)].
    assert (y = v) as -> by congruence. destruct (decide (j = a + i)%nat) as [->|]; [congruence|].
    apply (cmp_trans x u v); [|done]. apply (Hins j (a + i)%nat); (done || lia).
Qed.

Lemma insertion_spec a k : forall i arr,
  (0 < i)%nat -> (a + (i + k) <= List.length arr)%nat -> sorted a i arr ->
  exists arr', insertion cmp arr a i k = Ok arr' /\ within a (i + k) arr arr' /\ sorted a (i + k) arr'.
Proof.
  induction k as [|k IH]; intros i arr Hi Hlen Hs; cbn [insertion].
  { exists arr. rewrite Nat.add_0_r. split; [done|]. split; [apply within_refl|done]. }
  destruct (insert_back_spec a (S i) i arr) as (arr1 & -> & HW & HS); [lia|lia| |].
  { intros j k' x y Hj Hk Hne. apply Hs; lia. }
  cbn [obind]. destruct (IH (S i) arr1) as (arr' & -> & HW' & HS'); [lia| |done|].
  { rewrite (within_length _ _ _ _ HW). lia. }
  replace (i + S k)%nat with (S i + k)%nat by lia. exists arr'. split; [done|]. split; [|done].
  eapply within_trans; [|exact HW']. eapply within_mono; [..|exact HW]; lia.
Qed.

(** ** The check for sorted input *)

Lemma sorted_adjacent a n arr :
  (a + n <= List.length arr)%nat ->
  (forall k x y, (a < k < a + n)%nat -> arr !! (k - 1)%nat = Some x -> arr !! k = Some y -> (cmp x y <= 0)%Z) ->
  sorted a n arr.
Proof.
  intros Hlen H j k x y Hj Hk Hx. revert y Hk. induction k as [|k IH]; intros y Hk Hy; [lia|].
  destruct (decide (j = k)) as [->|].
  - apply (H (S k)); [lia|by replace (S k - 1)%nat with k by lia|done].
  - destruct (read_lt arr k) as (z & Hz & _); [lia|]. apply (cmp_trans x z y).
    + apply IH; [lia..|done].
    + apply (H (S k)); [lia|by replace (S k - 1)%nat with k by lia|done].
Qed.

Lemma presorted_spec k : forall arr pm,
  (0 < pm)%nat -> (pm + k <= List.length arr)%nat ->
  exists b, presorted cmp arr pm k = Ok b /\
    (b = true -> forall i x y, (pm <= i < pm + k)%nat ->
       arr !! (i - 1)%nat = Some x -> arr !! i = Some y -> (cmp x y <= 0)%Z).
Proof.
  induction k as [|k IH]; intros arr pm Hpm Hlen; cbn [presorted].
  { exists true. split; [done|]. lia. }
  destruct (cmp_at_ok arr (pm - 1) pm) as (u & v & Eu & Ev & ->); [lia..|]. cbn [obind].
  destruct (Z.gtb_spec (cmp u v) 0) as [Hgt|Hle]; [by exists false|].
  destruct (IH arr (S pm)) as (b & -> & Hb); [lia..|]. exists b. split; [done|].
  intros -> i x y Hi Hx Hy. destruct (decide (i = pm)) as [->|]; [congruence|].
  apply (Hb eq_refl i); (done || lia).
Qed.

(** ** The pivot *)

Lemma med3_in (P : nat -> Prop) arr a b c :
  P a -> P b -> P c -> (forall i, P i -> i < List.length arr)%nat ->
  exists m, med3 cmp arr a b c = Ok m /\ P m.
Proof.
  intros Ha Hb Hc HP. unfold med3.
  destruct (cmp_at_ok arr a b) as (? & ? & _ & _ & ->); [auto..|]. cbn [obind].
  destruct (cmp_at_ok arr b c) as (? & ? & _ & _ & ->); [auto..|]. cbn [obind].
  destruct (cmp_at_ok arr a c) as (? & ? & _ & _ & ->); [auto..|]. cbn [obind].
  repeat case_match; eauto.
Qed.

Lemma pivot_spec arr a n :
  (0 < n)%nat -> (a + n <= List.length arr)%nat ->
  exists pm, pivot cmp arr a n = Ok pm /\ (a <= pm < a + n)%nat.
Proof.
  intros Hn Hlen. unfold pivot.
  pose proof (Nat.div_lt n 2 Hn ltac:(lia)) as H2. pose proof (Nat.Div0.mul_div_le n 8) as H8.
  pose proof (Nat.mul_succ_div_gt n 2 ltac:(lia)) as H2'.
  pose proof (Nat.Div0.mul_div_le n 2) as H3.
  destruct (Nat.ltb_spec 7 n); [|exists (a + n / 2)%nat; split; [done|lia]].
  assert (Hb : forall i, (a <= i < a + n)%nat -> (i < List.length arr)%nat) by (intros; lia).
  destruct (Nat.ltb_spec 40 n).
  - destruct (med3_in (fun i => a <= i < a + n)%nat arr a (a + n / 8) (a + 2 * (n / 8))) as (pl & -> & ?);
      [lia..|done|]. cbn [obind].
    destruct (med3_in (fun i => a <= i < a + n)%nat arr (a + n / 2 - n / 8) (a + n / 2) (a + n / 2 + n / 8))
      as (pm & -> & ?); [lia..|done|]. cbn [obind].
    destruct (med3_in (fun i => a <= i < a + n)%nat arr (a + (n - 1) - 2 * (n / 8)) (a + (n - 1) - n / 8)
      (a + (n - 1))) as (pn & -> & ?); [lia..|done|]. cbn [obind].
    by apply med3_in.
  - cbn [obind]. apply med3_in; (lia || done).
Qed.

(** ** The partition *)

Section partition.
Context (a n : nat) (p : X).

Abbreviation equal := (fun x => cmp x p = 0%Z).
Abbreviation below := (fun x => cmp x p < 0)%Z.
Abbreviation above := (fun x => 0 < cmp x p)%Z.

(** The pivot, the elements equal to it, those below, those not looked at from
    [pb] to [pc], those above, and those equal to it at the end. *)
Record parts (arr : list X) (pa pb pc pd : nat) : Prop := {
  parts_length : (a + n <= List.length arr)%nat;
  parts_pivot : arr !! a = Some p;
  parts_order : (a + 1 <= pa <= pb)%nat /\ (pb <= pc + 1)%nat /\ (pc <= pd < a + n)%nat;
  parts_equal1 : all_in equal (a + 1) (pa - (a + 1)) arr;
  parts_below : all_in below pa (pb - pa) arr;
  parts_above : all_in above (pc + 1) (pd - pc) arr;
  parts_equal2 : all_in equal (pd + 1) (a + n - (pd + 1)) arr
}.

(** Each part after an exchange, by the parts before. *)
Ltac part_tac L :=
  let k := fresh "k" in let x := fresh "x" in let Hk := fresh in let Hx := fresh "Hx" in
  intros k x Hk Hx; lookup_tac L Hx; subst;
  first [ lia | congruence
        | match goal with H : all_in _ _ _ _ |- _ => eapply H; [|exact Hx]; lia end
        | simplify_eq; (done || lia) ].

Lemma parts_left_equal arr pa pb pc pd x :
  parts arr pa pb pc pd -> (pb <= pc)%nat -> arr !! pb = Some x -> equal x ->
  exists arr', swap arr pa pb = Ok arr' /\ within a n arr arr' /\ parts arr' (S pa) (S pb) pc pd.
Proof.
  intros [Hlen Hp Ho H1 H2 H3 H4] Hle Hx Heq.
  destruct (swap_within a n arr pa pb) as (arr' & E & HW & L); [lia..|].
  exists arr'. split; [done|]. split; [done|]. constructor; try lia.
  - by rewrite (within_length _ _ _ _ HW).
  - rewrite L. unfold exchanged. by repeat (case_decide; try lia).
  - part_tac L.
  - part_tac L.
  - part_tac L.
  - part_tac L.
Qed.

Lemma parts_left_below arr pa pb pc pd x :
  parts arr pa pb pc pd -> (pb <= pc)%nat -> arr !! pb = Some x -> below x ->
  parts arr pa (S pb) pc pd.
Proof.
  intros [Hlen Hp Ho H1 H2 H3 H4] Hle Hx Hb. constructor; try done; try lia.
  intros k y Hk Hy. destruct (decide (k = pb)) as [->|]; [by simplify_eq|]. apply (H2 k); [lia|done].
Qed.

Lemma parts_right_equal arr pa pb pc pd x :
  parts arr pa pb pc pd -> (pb <= pc)%nat -> arr !! pc = Some x -> equal x ->
  exists arr', swap arr pc pd = Ok arr' /\ within a n arr arr' /\ parts arr' pa pb (pc - 1) (pd - 1).
Proof.
  intros [Hlen Hp Ho H1 H2 H3 H4] Hle Hx Heq.
  destruct (swap_within a n arr pc pd) as (arr' & E & HW & L); [lia..|].
  exists arr'. split; [done|]. split; [done|]. constructor; try lia.
  - by rewrite (within_length _ _ _ _ HW).
  - rewrite L. unfold exchanged. by repeat (case_decide; try lia).
  - part_tac L.
  - part_tac L.
  - part_tac L.
  - destruct (decide (pc = pd)) as [->|]; part_tac L.
Qed.

Lemma parts_right_above arr pa pb pc pd x :
  parts arr pa pb pc pd -> (pb <= pc)%nat -> arr !! pc = Some x -> above x ->
  parts arr pa pb (pc - 1) pd.
Proof.
  intros [Hlen Hp Ho H1 H2 H3 H4] Hle Hx Hb. constructor; try done; try lia.
  intros k y Hk Hy. destruct (decide (k = pc)) as [->|]; [by simplify_eq|]. apply (H3 k); [lia|done].
Qed.

Lemma parts_cross arr pa pb pc pd x y :
  parts arr pa pb pc pd -> (pb <= pc)%nat -> arr !! pb = Some x -> arr !! pc = Some y ->
  above x -> below y ->
  exists arr', swap arr pb pc = Ok arr' /\ within a n arr arr' /\ parts arr' pa (S pb) (pc - 1) pd /\ (pb < pc)%nat.
Proof.
  intros [Hlen Hp Ho H1 H2 H3 H4] Hle Hx Hy Ha Hb.
  assert (pb <> pc) by (intros ->; simplify_eq; lia).
  destruct (swap_within a n arr pb pc) as (arr' & E & HW & L); [lia..|].
  exists arr'. split; [done|]. split; [done|]. split; [|lia]. constructor; try lia.
  - by rewrite (within_length _ _ _ _ HW).
  - rewrite L. unfold exchanged. by repeat (case_decide; try lia).
  - part_tac L.
  - part_tac L.
  - part_tac L.
  - part_tac L.
Qed.

(** ** The scans *)

Lemma scan_left_spec fuel : forall arr pa pb pc pd,
  parts arr pa pb pc pd -> (pc + 1 - pb < fuel)%nat ->
  exists arr' pa' pb', scan_left cmp fuel arr a pa pb pc = Ok (arr', pa', pb') /\
    within a n arr arr' /\ parts arr' pa' pb' pc pd /\ (pb <= pb')%nat /\
    ((pb' <= pc)%nat -> exists x, arr' !! pb' = Some x /\ above x).
Proof.
  induction fuel as [|fuel IH]; intros arr pa pb pc pd HP Hf; [lia|]. cbn [scan_left].
  pose proof HP as [Hlen Hp Ho _ _ _ _].
  destruct (Nat.leb_spec pb pc) as [Hle|Hgt].
  2:{ exists arr, pa, pb. do 2 (split; [done || apply within_refl|]). split; [done|]. lia. }
  destruct (cmp_at_ok arr pb a) as (x & q & Hx & Hq & ->); [lia..|].
  assert (q = p) as -> by congruence. cbn [obind].
  destruct (Z.leb_spec (cmp x p) 0) as [Hr|Hr].
  2:{ exists arr, pa, pb. do 2 (split; [done || apply within_refl|]). split; [done|]. eauto. }
  destruct (Z.eqb_spec (cmp x p) 0) as [He|He].
  - destruct (parts_left_equal _ _ _ _ _ _ HP Hle Hx He) as (arr1 & -> & HW & HP1). cbn [obind].
    destruct (IH _ _ _ _ _ HP1 ltac:(lia)) as (arr' & pa' & pb' & -> & HW' & HP' & Hb & Hend).
    exists arr', pa', pb'. split; [done|]. split; [by eapply within_trans|]. split; [done|]. split; [lia|done].
  - assert (Hr' : (cmp x p < 0)%Z) by lia.
    destruct (IH _ _ _ _ _ (parts_left_below _ _ _ _ _ _ HP Hle Hx Hr') ltac:(lia))
      as (arr' & pa' & pb' & -> & HW' & HP' & Hb & Hend).
    exists arr', pa', pb'. split; [done|]. split; [done|]. split; [done|]. split; [lia|done].
Qed.

Lemma scan_right_spec fuel : forall arr pa pb pc pd,
  parts arr pa pb pc pd -> (pc + 1 - pb < fuel)%nat ->
  exists arr' pc' pd', scan_right cmp fuel arr a pb pc pd = Ok (arr', pc', pd') /\
    within a n arr arr' /\ parts arr' pa pb pc' pd' /\ (pc' <= pc)%nat /\
    ((pb <= pc')%nat -> arr' !! pb = arr !! pb /\ exists y, arr' !! pc' = Some y /\ below y).
Proof.
  induction fuel as [|fuel IH]; intros arr pa pb pc pd HP Hf; [lia|]. cbn [scan_right].
  pose proof HP as [Hlen Hp Ho _ _ _ _].
  destruct (Nat.leb_spec pb pc) as [Hle|Hgt].
  2:{ exists arr, pc, pd. do 2 (split; [done || apply within_refl|]). split; [done|]. lia. }
  destruct (cmp_at_ok arr pc a) as (x & q & Hx & Hq & ->); [lia..|].
  assert (q = p) as -> by congruence. cbn [obind].
  destruct (Z.leb_spec 0 (cmp x p)) as [Hr|Hr].
  2:{ exists arr, pc, pd. do 2 (split; [done || apply within_refl|]). split; [done|]. eauto. }
  destruct (Z.eqb_spec (cmp x p) 0) as [He|He].
  - destruct (parts_right_equal _ _ _ _ _ _ HP Hle Hx He) as (arr1 & Hs & HW & HP1). rewrite Hs. cbn [obind].
    destruct (IH _ _ _ _ _ HP1 ltac:(lia)) as (arr' & pc' & pd' & -> & HW' & HP' & Hb & Hend).
    exists arr', pc', pd'. split; [done|]. split; [by eapply within_trans|]. split; [done|]. split; [lia|].
    intros Hbc. destruct (Hend Hbc) as [-> Hy]. split; [|done].
    destruct (swap_within a n arr pc pd) as (arr2 & Hs2 & _ & L); [lia..|].
    assert (arr2 = arr1) as -> by congruence. rewrite L. unfold exchanged. by repeat (case_decide; try lia).
  - assert (Hr' : (0 < cmp x p)%Z) by lia.
    destruct (IH _ _ _ _ _ (parts_right_above _ _ _ _ _ _ HP Hle Hx Hr') ltac:(lia))
      as (arr' & pc' & pd' & -> & HW' & HP' & Hb & Hend).
    exists arr', pc', pd'. split; [done|]. split; [done|]. split; [done|]. split; [lia|done].
Qed.

Lemma partition_spec fuel : forall arr pa pb pc pd,
  parts arr pa pb pc pd -> (pc + 1 - pb < fuel)%nat ->
  exists arr' pa' pb' pc' pd', partition cmp fuel arr a pa pb pc pd = Ok (arr', pa', pb', pc', pd') /\
    within a n arr arr' /\ parts arr' pa' pb' pc' pd' /\ pb' = (pc' + 1)%nat.
Proof.
  induction fuel as [|fuel IH]; intros arr pa pb pc pd HP Hf; [lia|]. cbn [partition].
  destruct (scan_left_spec (S fuel) _ _ _ _ _ HP Hf) as (arr1 & pa1 & pb1 & -> & HW1 & HP1 & Hb1 & Hend1).
  cbn [obind].
  destruct (scan_right_spec (S fuel) _ _ _ _ _ HP1 ltac:(lia)) as (arr2 & pc2 & pd2 & -> & HW2 & HP2 & Hc2 & Hend2).
  cbn [obind]. pose proof (within_trans _ _ _ _ _ HW1 HW2) as HW.
  destruct (Nat.ltb_spec pc2 pb1) as [Hlt|Hge].
  - exists arr2, pa1, pb1, pc2, pd2. split; [done|]. split; [done|]. split; [done|].
    destruct HP2 as [_ _ Ho _ _ _ _]. lia.
  - destruct (Hend2 ltac:(lia)) as [Heq (y & Hy & Hbel)]. destruct (Hend1 ltac:(lia)) as (x & Hx & Hab).
    rewrite <-Heq in Hx.
    destruct (parts_cross _ _ _ _ _ _ _ HP2 Hge Hx Hy Hab Hbel) as (arr3 & -> & HW3 & HP3 & Hlt). cbn [obind].
    destruct (IH _ _ _ _ _ HP3 ltac:(lia)) as (arr' & pa' & pb' & pc' & pd' & -> & HW' & HP' & He).
    exists arr', pa', pb', pc', pd'. split; [done|]. split; [|done].
    eapply within_trans; [exact HW|]. by eapply within_trans.
Qed.
End partition.

(** ** The exchange of two parts *)

Lemma vecswap_spec m : forall (arr : list X) (a b : nat),
  (a + m <= b)%nat -> (b + m <= List.length arr)%nat ->
  exists arr', vecswap arr a b m = Ok arr' /\ arr ≡ₚ arr' /\
    forall k, arr' !! k = arr !! (if decide (a <= k < a + m)%nat then b + (k - a)
                                  else if decide (b <= k < b + m)%nat then a + (k - b) else k)%nat.
Proof.
  induction m as [|m IH]; intros arr a b Hab Hlen; cbn [vecswap].
  { exists arr. split; [done|]. split; [done|]. intros k. f_equal. repeat case_decide; lia. }
  destruct (swap_spec arr a b) as (arr1 & -> & P1 & L1); [lia..|]. cbn [obind].
  destruct (IH arr1 (S a) (S b)) as (arr' & -> & P & L); [lia|by rewrite P1; lia|].
  exists arr'. split; [done|]. split; [by rewrite <-P, P1|]. intros k. rewrite L, L1. f_equal.
  unfold exchanged. repeat case_decide; lia.
Qed.

(** Two adjacent parts change places. *)
Lemma exchange_parts (P Q : X -> Prop) arr a m e :
  (a <= m <= e)%nat -> (e <= List.length arr)%nat ->
  all_in P a (m - a) arr -> all_in Q m (e - m) arr ->
  let d := Nat.min (m - a) (e - m) in
  exists arr', vecswap arr a (e - d) d = Ok arr' /\ within a (e - a) arr arr' /\
    all_in Q a (e - m) arr' /\ all_in P (a + (e - m)) (m - a) arr'.
Proof.
  intros Ho Hlen HP HQ d. destruct (vecswap_spec d arr a (e - d)) as (arr' & -> & HPm & L); [lia..|].
  exists arr'. split; [done|]. split; [split; [done|]|split].
  - intros k Hk. rewrite L. f_equal. unfold outside in Hk. repeat case_decide; lia.
  - intros k x Hk Hx. rewrite L in Hx. eapply HQ; [|exact Hx]. repeat case_decide; lia.
  - intros k x Hk Hx. rewrite L in Hx. eapply HP; [|exact Hx]. repeat case_decide; lia.
Qed.

Lemma parts_start p arr a n :
  (0 < n)%nat -> (a + n <= List.length arr)%nat -> arr !! a = Some p ->
  parts a n p arr (a + 1) (a + 1) (a + (n - 1)) (a + (n - 1)).
Proof. intros Hn Hlen Hp. constructor; try done; try lia; intros k x Hk; lia. Qed.

(** The three parts of the result, for some element [p]. *)
Record three_parts (p : X) (a n d1 d2 : nat) (arr : list X) : Prop := {
  three_sizes : (d1 + d2 < n)%nat;
  three_below : all_in (fun x => cmp x p < 0)%Z a d1 arr;
  three_equal : all_in (fun x => cmp x p = 0)%Z (a + d1) (n - d1 - d2) arr;
  three_above : all_in (fun x => 0 < cmp x p)%Z (a + n - d2) d2 arr
}.

Lemma cmp_refl x : cmp x x = 0%Z.
Proof. pose proof (cmp_flip x x). lia. Qed.

Lemma three_of_parts p arr a n pa pb pc pd :
  parts a n p arr pa pb pc pd -> pb = (pc + 1)%nat ->
  let d1 := Nat.min (pa - a) (pb - pa) in let d2 := Nat.min (pd - pc) (a + n - pd - 1) in
  exists arr1 arr2, vecswap arr a (pb - d1) d1 = Ok arr1 /\ vecswap arr1 pb (a + n - d2) d2 = Ok arr2 /\
    within a n arr arr2 /\ three_parts p a n (pb - pa) (pd - pc) arr2.
Proof.
  intros [Hlen Hp Ho H1 H2 H3 H4] ->.
  assert (H0 : all_in (fun x => cmp x p = 0)%Z a (pa - a) arr).
  { intros k x Hk Hx. destruct (decide (k = a)) as [->|]; [|by apply (H1 k); [lia|]].
    assert (x = p) as -> by congruence. apply cmp_refl. }
  replace (a + n - pd - 1)%nat with (a + n - (pd + 1))%nat by lia.
  replace (pd - pc)%nat with (pd + 1 - (pc + 1))%nat by lia.
  destruct (exchange_parts _ _ arr a pa (pc + 1) ltac:(lia) ltac:(lia) H0 H2) as (arr1 & E1 & W1 & B1 & C1).
  pose proof (within_length _ _ _ _ W1) as Hl1.
  assert (A1 : all_in (fun x => 0 < cmp x p)%Z (pc + 1) (pd + 1 - (pc + 1)) arr1).
  { eapply all_in_outside; [exact W1| |eapply all_in_mono; [|..|exact H3]; (done || lia)].
    intros k Hk. right. lia. }
  assert (D1 : all_in (fun x => cmp x p = 0)%Z (pd + 1) (a + n - (pd + 1)) arr1).
  { eapply all_in_outside; [exact W1| |exact H4]. intros k Hk. right. lia. }
  destruct (exchange_parts _ _ arr1 (pc + 1) (pd + 1) (a + n) ltac:(lia) ltac:(lia) A1 D1)
    as (arr2 & E2 & W2 & B2 & C2).
  exists arr1, arr2. split; [done|]. split; [done|]. split.
  { eapply within_trans; (eapply within_mono; [..|eassumption]; lia). }
  constructor; [lia|..].
  - eapply all_in_outside; [exact W2| |exact B1]. intros k Hk. left. lia.
  - intros k x Hk Hx. destruct (decide (k < pc + 1)%nat).
    + destruct W2 as [_ L2]. rewrite L2 in Hx by (left; lia). apply (C1 k); [lia|done].
    + apply (B2 k); [lia|done].
  - eapply all_in_mono; [|..|exact C2]; (done || lia).
Qed.

Lemma split_around_spec arr a n :
  (0 < n)%nat -> (a + n <= List.length arr)%nat ->
  exists arr' d1 d2 p, split_around cmp arr a n = Ok (arr', d1, d2) /\
    within a n arr arr' /\ three_parts p a n d1 d2 arr'.
Proof.
  intros Hn Hlen. unfold split_around.
  destruct (pivot_spec arr a n Hn Hlen) as (pm & -> & Hpm). cbn [obind].
  destruct (swap_within a n arr a pm) as (arr0 & -> & W0 & _); [lia..|]. cbn [obind].
  pose proof (within_length _ _ _ _ W0) as Hl0.
  destruct (read_lt arr0 a) as (p & Hp & _); [lia|].
  destruct (partition_spec a n p n _ _ _ _ _ (parts_start p arr0 a n Hn ltac:(lia) Hp) ltac:(lia))
    as (arr1 & pa & pb & pc & pd & -> & W1 & HP & Hbc). cbn [obind].
  destruct (three_of_parts p arr1 a n pa pb pc pd HP Hbc) as (arr2 & arr3 & E2 & E3 & W3 & HT).
  cbv zeta in E2, E3. rewrite E2. cbn [obind]. rewrite E3. cbn [obind].
  exists arr3, (pb - pa)%nat, (pd - pc)%nat, p. split; [done|]. split; [|done].
  eapply within_trans; [exact W0|]. by eapply within_trans.
Qed.

(** ** The whole sort *)

Lemma sorted_outside a n b m arr arr' :
  within b m arr arr' -> (forall k, (a <= k < a + n)%nat -> outside b m k) -> sorted a n arr -> sorted a n arr'.
Proof.
  intros [_ L] Ho H j k x y Hj Hk Hx Hy. rewrite L in Hx by (apply Ho; lia). rewrite L in Hy by (apply Ho; lia).
  by apply (H j k).
Qed.

Lemma three_left p a n d1 d2 arr arr' :
  (a + n <= List.length arr)%nat -> within a d1 arr arr' ->
  three_parts p a n d1 d2 arr -> three_parts p a n d1 d2 arr'.
Proof.
  intros Hlen W [Hd Hb He Ha]. constructor; [done|..].
  - eapply within_all_in; [|exact W|done]. lia.
  - eapply all_in_outside; [exact W| |done]. intros k Hk. right. lia.
  - eapply all_in_outside; [exact W| |done]. intros k Hk. right. lia.
Qed.

Lemma three_right p a n d1 d2 arr arr' :
  (a + n <= List.length arr)%nat -> within (a + n - d2) d2 arr arr' ->
  three_parts p a n d1 d2 arr -> three_parts p a n d1 d2 arr'.
Proof.
  intros Hlen W [Hd Hb He Ha]. constructor; [done|..].
  - eapply all_in_outside; [exact W| |done]. intros k Hk. left. lia.
  - eapply all_in_outside; [exact W| |done]. intros k Hk. left. lia.
  - eapply within_all_in; [|exact W|done]. lia.
Qed.

Lemma three_sorted p a n d1 d2 arr :
  three_parts p a n d1 d2 arr -> sorted a d1 arr -> sorted (a + n - d2) d2 arr -> sorted a n arr.
Proof.
  intros [Hd Hb He Ha] Hs1 Hs2 j k x y Hj Hk Hx Hy.
  destruct (decide (k < a + d1)%nat). { apply (Hs1 j k); (done || lia). }
  destruct (decide (a + n - d2 <= j)%nat). { apply (Hs2 j k); (done || lia). }
  apply (cmp_trans x p y).
  - destruct (decide (j < a + d1)%nat).
    + pose proof (Hb j x ltac:(lia) Hx). cbn in *. lia.
    + pose proof (He j x ltac:(lia) Hx). cbn in *. lia.
  - destruct (decide (k < a + n - d2)%nat).
    + pose proof (cmp_eq_sym y p (He k y ltac:(lia) Hy)). lia.
    + apply cmp_gt_le, (Ha k); [lia|done].
Qed.

(** [r] is the array with the range sorted. *)
Definition sorts (r : outcome (list X)) (a n : nat) (arr : list X) : Prop :=
  exists arr', r = Ok arr' /\ within a n arr arr' /\ sorted a n arr'.

Lemma sorts_guard r a n arr :
  ((1 < n)%nat -> sorts r a n arr) -> sorts (if (1 <? n)%nat then r else Ok arr) a n arr.
Proof.
  intros H. destruct (Nat.ltb_spec 1 n); [auto|]. exists arr. split; [done|]. split; [apply within_refl|].
  intros j k x y Hj Hk. lia.
Qed.

(** The two parts sorted one after the other, in either order. *)
Lemma sorts_parts p a n d1 d2 arr r1 r2 :
  (a + n <= List.length arr)%nat -> three_parts p a n d1 d2 arr ->
  sorts r1 a d1 arr -> (forall arr1, r1 = Ok arr1 -> List.length arr1 = List.length arr -> sorts (r2 arr1) (a + n - d2) d2 arr1) ->
  sorts (obind r1 r2) a n arr.
Proof.
  intros Hlen HT (arr1 & -> & W1 & S1) H2. cbn [obind]. pose proof (three_sizes _ _ _ _ _ _ HT) as Hd.
  pose proof (within_length _ _ _ _ W1) as Hl1. destruct (H2 arr1 eq_refl Hl1) as (arr2 & -> & W2 & S2).
  exists arr2. split; [done|]. split.
  { eapply within_trans; (eapply within_mono; [..|eassumption]; lia). }
  apply (three_sorted p a n d1 d2); [| |done].
  - eapply three_right; [|exact W2|]; [lia|]. by eapply three_left.
  - eapply sorted_outside; [exact W2| |done]. intros k Hk. left. lia.
Qed.

Lemma sorts_parts_right p a n d1 d2 arr r1 r2 :
  (a + n <= List.length arr)%nat -> three_parts p a n d1 d2 arr ->
  sorts r2 (a + n - d2) d2 arr -> (forall arr1, r2 = Ok arr1 -> List.length arr1 = List.length arr -> sorts (r1 arr1) a d1 arr1) ->
  sorts (obind r2 r1) a n arr.
Proof.
  intros Hlen HT (arr1 & -> & W1 & S1) H2. cbn [obind]. pose proof (three_sizes _ _ _ _ _ _ HT) as Hd.
  pose proof (within_length _ _ _ _ W1) as Hl1. destruct (H2 arr1 eq_refl Hl1) as (arr2 & -> & W2 & S2).
  exists arr2. split; [done|]. split.
  { eapply within_trans; (eapply within_mono; [..|eassumption]; lia). }
  apply (three_sorted p a n d1 d2); [|done|].
  - eapply three_left; [|exact W2|]; [lia|]. by eapply three_right.
  - eapply sorted_outside; [exact W2| |done]. intros k Hk. right. lia.
Qed.

Lemma sorts_within r a n arr arr0 :
  within a n arr arr0 -> sorts r a n arr0 -> sorts r a n arr.
Proof. intros W (arr' & -> & W' & S). exists arr'. split; [done|]. split; [by eapply within_trans|done]. Qed.

Lemma pg_qsort_unfold depth iter arr a n :
  pg_qsort cmp (S depth) (S iter) arr a n =
  if (n <? 7)%nat then insertion cmp arr a 1 (n - 1)
  else
    let* sorted := presorted cmp arr (a + 1) (n - 1) in
    if sorted then Ok arr
    else
      let* (arr, d1, d2) := split_around cmp arr a n in
      if (d1 <=? d2)%nat then
        let* arr := if (1 <? d1)%nat then pg_qsort cmp depth d1 arr a d1 else Ok arr in
        if (1 <? d2)%nat then pg_qsort cmp (S depth) iter arr (a + n - d2)%nat d2 else Ok arr
      else
        let* arr := if (1 <? d2)%nat then pg_qsort cmp depth d2 arr (a + n - d2)%nat d2 else Ok arr in
        if (1 <? d1)%nat then pg_qsort cmp (S depth) iter arr a d1 else Ok arr.
Proof. reflexivity. Qed.

Lemma insertion_sorts arr a n :
  (a + n <= List.length arr)%nat -> sorts (insertion cmp arr a 1 (n - 1)) a n arr.
Proof.
  intros Hlen. destruct (decide (n = 0)%nat) as [->|].
  { exists arr. split; [done|]. split; [apply within_refl|]. intros j k x y Hj Hk. lia. }
  destruct (insertion_spec a (n - 1) 1 arr) as (arr' & -> & W & S); [lia..| |].
  { intros j k x y Hj Hk. lia. }
  replace (1 + (n - 1))%nat with n in * by lia. by exists arr'.
Qed.

Lemma half_power n d depth : (2 * d < n)%nat -> (n < 2 ^ S depth)%nat -> (d < 2 ^ depth)%nat.
Proof. intros H1 H2. cbn in H2. lia. Qed.

Lemma power_pos d depth : (1 < d)%nat -> (d < 2 ^ depth)%nat -> (0 < depth)%nat.
Proof. intros H1 H2. destruct depth; cbn in H2; lia. Qed.

Lemma pg_qsort_sorts depth : forall iter arr a n,
  (n < 2 ^ depth)%nat -> (n <= iter)%nat -> (0 < depth)%nat -> (0 < iter)%nat ->
  (a + n <= List.length arr)%nat -> sorts (pg_qsort cmp depth iter arr a n) a n arr.
Proof.
  induction depth as [|depth IHd]; [lia|]. induction iter as [|iter IHi]; [lia|].
  intros arr a n Hdepth Hiter _ _ Hlen. rewrite pg_qsort_unfold.
  destruct (Nat.ltb_spec n 7); [by apply insertion_sorts|].
  destruct (presorted_spec (n - 1) arr (a + 1)) as (b & -> & Hb); [lia..|]. cbn [obind].
  destruct b.
  { exists arr. split; [done|]. split; [apply within_refl|]. apply sorted_adjacent; [done|].
    intros k x y Hk. apply (Hb eq_refl). lia. }
  destruct (split_around_spec arr a n) as (arr0 & d1 & d2 & p & -> & W & HT); [lia..|]. cbn [obind].
  pose proof (three_sizes _ _ _ _ _ _ HT) as Hd. pose proof (within_length _ _ _ _ W) as Hl.
  apply (sorts_within _ _ _ _ _ W). destruct (Nat.leb_spec d1 d2).
  - apply (sorts_parts p a n d1 d2); [lia|done|apply sorts_guard|intros arr1 _ Hl1; apply sorts_guard]; intros H1.
    + pose proof (half_power n d1 depth ltac:(lia) Hdepth) as Hp.
      apply IHd; [done|lia|by eapply power_pos|lia..].
    + apply IHi; lia.
  - apply (sorts_parts_right p a n d1 d2); [lia|done|apply sorts_guard|intros arr1 _ Hl1; apply sorts_guard]; intros H1.
    + pose proof (half_power n d2 depth ltac:(lia) Hdepth) as Hp.
      apply IHd; [done|lia|by eapply power_pos|lia..].
    + apply IHi; lia.
Qed.
End proofs.

(** ** The comparison of query normalization *)

#[global] Instance comp_location_comparator : Comparator comp_location.
Proof.
  split; intros x y.
  - unfold comp_location. repeat case_match; lia.
  - intros z. rewrite !comp_location_le. lia.
Qed.

(** [port.h] makes [qsort] a name of [pg_qsort]. *)
Definition qsort_locations (cmp : pgssLocationLen -> pgssLocationLen -> Z) (l : list pgssLocationLen) :
    list pgssLocationLen :=
  let n := List.length l in
  match pg_qsort cmp (S (Nat.log2 n)) (S n) l 0 n with Ok l' => l' | _ => l end.

(** ** Properties *)

Section range.
Context {X : Type} (cmp : X -> X -> Z) `{!Comparator cmp}.

Lemma sorted_strongly a n (arr : list X) :
  sorted cmp a n arr -> StronglySorted (fun x y => cmp x y <= 0)%Z (take n (drop a arr)).
Proof.
  intros H. set (l := take n (drop a arr)).
  assert (Hl : forall i x, l !! i = Some x -> arr !! (a + i)%nat = Some x /\ (i < n)%nat).
  { intros i x Hx. apply lookup_take_Some in Hx as [Hx Hi]. by rewrite lookup_drop in Hx. }
  assert (Hs : forall i j x y, (i < j)%nat -> l !! i = Some x -> l !! j = Some y -> (cmp x y <= 0)%Z).
  { intros i j x y Hij Hx Hy. apply Hl in Hx as [Hx _]. apply Hl in Hy as [Hy Hj].
    apply (H (a + i) (a + j))%nat; (done || lia). }
  clearbody l. clear H Hl. induction l as [|x l IH]; constructor.
  - apply IH. intros i j u v Hij Hu Hv. apply (Hs (S i) (S j)); [lia|done..].
  - apply List.Forall_forall. intros y Hy. apply list_elem_of_In in Hy.
    apply list_elem_of_lookup in Hy as [j Hj]. by apply (Hs 0 (S j))%nat; [lia|..].
Qed.

Lemma pg_qsort_range a n arr :
  (a + n <= List.length arr)%nat -> sorts cmp (pg_qsort cmp (S (Nat.log2 n)) (S n) arr a n) a n arr.
Proof.
  intros Hlen. apply pg_qsort_sorts; [done| |lia..|done]. destruct n; [cbn; lia|].
  by apply Nat.log2_spec; lia.
Qed.

Lemma pg_qsort_whole (l : list X) :
  exists l', pg_qsort cmp (S (Nat.log2 (List.length l))) (S (List.length l)) l 0 (List.length l) = Ok l' /\
    l' ≡ₚ l /\ StronglySorted (fun x y => cmp x y <= 0)%Z l'.
Proof.
  destruct (pg_qsort_range 0 _ l (le_n _)) as (l' & E & W & HS). exists l'. split; [done|].
  destruct (within_segment 0 _ l l' (le_n _) W) as (_ & _ & HP). apply sorted_strongly in HS.
  rewrite !drop_0 in HP, HS. rewrite (take_ge l') in HP, HS by (by rewrite (within_length _ _ _ _ W)).
  rewrite take_ge in HP by done. by split.
Qed.

(** C31. [pg_qsort] ends, within the array, with the range sorted by the
    comparison, as a permutation of what it was, and the rest of the array as it
    was; the calls nest at most [log2 n] deep and one call jumps back at most [n]
    times, as the comment on the recursion into the smaller part claims. *)
Theorem pg_qsort_correct (arr : list X) (a n : nat) (Hn : (a + n <= List.length arr)%nat) :
  exists arr', pg_qsort cmp (S (Nat.log2 n)) (S n) arr a n = Ok arr' /\
    take a arr' = take a arr /\ drop (a + n) arr' = drop (a + n) arr /\
    take n (drop a arr') ≡ₚ take n (drop a arr) /\
    StronglySorted (fun x y => cmp x y <= 0)%Z (take n (drop a arr')).
Proof.
  destruct (pg_qsort_range a n arr Hn) as (arr' & E & HW & HS). exists arr'. split; [done|].
  destruct (within_segment a n arr arr' Hn HW) as (H1 & H2 & H3).
  do 3 (split; [done|]). by apply sorted_strongly.
Qed.

(** One pass of the partition: it ends and returns the sizes of the parts, at
    most [n - 1] elements together, so that every jump to [loop] has less to
    sort; the elements are those before, in the order: below some element [p],
    equal to it, above it. *)
Theorem split_around_correct (arr : list X) (a n : nat)
    (Hpos : (0 < n)%nat) (Hn : (a + n <= List.length arr)%nat) :
  exists arr' d1 d2 p, split_around cmp arr a n = Ok (arr', d1, d2) /\
    take a arr' = take a arr /\ drop (a + n) arr' = drop (a + n) arr /\
    take n (drop a arr') ≡ₚ take n (drop a arr) /\
    three_parts cmp p a n d1 d2 arr'.
Proof.
  destruct (split_around_spec cmp arr a n Hpos Hn) as (arr' & d1 & d2 & p & E & HW & HT).
  exists arr', d1, d2, p. split; [done|].
  destruct (within_segment a n arr arr' Hn HW) as (H1 & H2 & H3). by do 3 (split; [done|]).
Qed.
End range.

(** What normalization asks of [qsort] holds of [pg_qsort] with the comparison
    by location: the hypothesis of the theorems on the normalized query. *)
Theorem qsort_locations_sorts :
  (forall l, pg_qsort comp_location (S (Nat.log2 (List.length l))) (S (List.length l)) l 0 (List.length l)
     = Ok (qsort_locations comp_location l)) /\
  sorts_locations qsort_locations.
Proof.
  split; intros l; unfold qsort_locations; destruct (pg_qsort_whole comp_location l) as (l' & -> & HP & HS); [done|].
  by split.
Qed.

#[global] Instance sub_comparator : Comparator Z.sub.
Proof. split; intros x y; [|intros z]; lia. Qed.

Definition sort_me : list Z := [5; 3; 9; 1; 5; 7; 2; 8; 5; 0; 4; 5]%Z.

Theorem pg_qsort_correct_witness :
  exists arr', pg_qsort Z.sub 4 11 sort_me 1 10 = Ok arr' /\ take 1 arr' = [5]%Z /\ drop 11 arr' = [5]%Z.
Proof.
  assert (Hn : (1 + 10 <= List.length sort_me)%nat) by (vm_compute; lia).
  destruct (pg_qsort_correct Z.sub sort_me 1 10 Hn) as (arr' & E & H1 & H2 & _).
  exists arr'. split; [exact E|]. split; [exact H1|exact H2].
Defined.

Theorem split_around_correct_witness :
  exists arr' d1 d2 p, split_around Z.sub sort_me 0 12 = Ok (arr', d1, d2) /\ three_parts Z.sub p 0 12 d1 d2 arr'.
Proof.
  assert (Hpos : (0 < 12)%nat) by lia.
  assert (Hn : (0 + 12 <= List.length sort_me)%nat) by (vm_compute; lia).
  destruct (split_around_correct Z.sub sort_me 0 12 Hpos Hn) as (arr' & d1 & d2 & p & E & _ & _ & _ & HT).
  exists arr', d1, d2, p. by split.
Defined.
