(* ===== verification/Udeescape.v ===== *)
(** * Unicode escapes

    [str_udeescape] and its helpers ([src/postgres/src_backend_parser_parser.c])
    with [pg_unicode_to_server] ([src_backend_utils_mb_mbutils.c]): the text of
    a [U&'...'] or [U&"..."] token with its escapes replaced by the characters
    in UTF-8.  [unescapes] says which texts are well formed and what they stand
    for; the function computes exactly that, within the block it allocates
    first, and raises an error on every other text.

    A C string is the list of its bytes before the terminating zero, the block
    [new] the bytes written so far with its size; the callbacks that add a
    position to an error are left out. *)
From S2P Require Import Prelude StringInfo Unicode Scansup.

Open Scope Z_scope.

Definition isxdigit (c : ascii) : bool := in_range "0" "9" c || in_range "a" "f" c || in_range "A" "F" c.

Definition hexval (c : ascii) : outcome Z :=
  if in_range "0" "9" c then Ok (byte c - 48)
  else if in_range "a" "f" c then Ok (byte c - 97 + 0xA)
  else if in_range "A" "F" c then Ok (byte c - 65 + 0xA)
  else Elog "invalid hexadecimal digit".

Definition check_unicode_value (c : Z) : outcome unit :=
  if is_valid_unicode_codepoint c then Ok tt else Elog "invalid Unicode escape value".

Definition check_uescapechar (escape : ascii) : bool :=
  negb (isxdigit escape || (escape =? "+")%char || (escape =? "'")%char || (escape =? "034")%char ||
        scanner_isspace escape).

(** The bytes stored, with the zero at the end. *)
Definition pg_unicode_to_server (c : Z) : outcome (list ascii) :=
  if is_valid_unicode_codepoint c then
    if c <=? 0x7F then Ok [uchar c; NUL]
    else
      let s := unicode_to_utf8 c in
      match s with
      | a :: _ =>
          let l := Z.to_nat (pg_utf_mblen a) in
          Ok (take l s ++ NUL :: drop (S l) s)%list
      | [] => Undef
      end
  else Elog "invalid Unicode code point".

Fixpoint strlen (s : list ascii) : nat :=
  match s with
  | [] => 0
  | c :: s' => if (c =? NUL)%char then 0 else S (strlen s')
  end.

(** [in[k]] *)
Definition peek (inp : list ascii) (k : nat) : outcome ascii :=
  if (k <=? List.length inp)%nat then Ok (nth k inp NUL) else Undef.

(** [isxdigit(in[k]) && ... && isxdigit(in[k + n - 1])] *)
Fixpoint all_xdigits (inp : list ascii) (k n : nat) : outcome bool :=
  match n with
  | O => Ok true
  | S n' => let* c := peek inp k in if isxdigit c then all_xdigits inp (S k) n' else Ok false
  end.

(** [(hexval(in[k]) << 4 * (n - 1)) + ... + hexval(in[k + n - 1])] *)
Fixpoint hex_sum (inp : list ascii) (k n : nat) : outcome Z :=
  match n with
  | O => Ok 0
  | S n' =>
      let* c := peek inp k in
      let* h := hexval c in
      let* r := hex_sum inp (S k) n' in
      Ok (Z.shiftl h (4 * Z.of_nat n') + r)
  end.

Definition MAX_UNICODE_EQUIVALENT_STRING : Z := 16.

(** The block: [out - new] bytes written of [new_len]. *)
Record outbuf : Type := mkOut { written : list ascii; new_len : Z }.

(** [n] bytes stored at [out], which moves on by the first [k]. *)
Definition put (b : outbuf) (bytes : list ascii) (k : nat) : outcome outbuf :=
  if Z.of_nat (List.length (written b)) + Z.of_nat (List.length bytes) <=? new_len b then
    Ok (mkOut (written b ++ take k bytes)%list (new_len b))
  else Undef.

Definition enlarge_out (b : outbuf) : outcome outbuf :=
  let out_dist := Z.of_nat (List.length (written b)) in
  if new_len b - (MAX_UNICODE_EQUIVALENT_STRING + 1) <? out_dist then
    let* _ := alloc_size (new_len b * 2) in
    Ok (mkOut (written b) (new_len b * 2))
  else Ok b.

Definition invalid_pair : string := "invalid Unicode surrogate pair".

(** One code unit, of either form of the escape. *)
Definition unicode_unit (unicode pair_first : Z) (b : outbuf) : outcome (outbuf * Z) :=
  let* _ := check_unicode_value unicode in
  let* (unicode, pair_first) :=
    if negb (pair_first =? 0) then
      if is_utf16_surrogate_second unicode then Ok (surrogate_pair_to_codepoint pair_first unicode, 0)
      else Elog invalid_pair
    else if is_utf16_surrogate_second unicode then Elog invalid_pair
    else Ok (unicode, pair_first) in
  if is_utf16_surrogate_first unicode then Ok (b, unicode)
  else
    let* bytes := pg_unicode_to_server unicode in
    let* b := put b bytes (strlen bytes) in
    Ok (b, pair_first).

(** The loop and what follows it; [inp] is what is left at [in]. *)
Fixpoint unescape_loop (fuel : nat) (escape : ascii) (inp : list ascii) (b : outbuf) (pair_first : Z) :
    outcome (list ascii) :=
  match fuel with
  | O => Undef
  | S fuel =>
      match inp with
      | [] =>
          if negb (pair_first =? 0) then Elog invalid_pair
          else let* b := put b [NUL] 0 in Ok (written b)
      | c :: inp' =>
          let* b := enlarge_out b in
          if (c =? escape)%char then
            let* c1 := peek inp 1 in
            if (c1 =? escape)%char then
              if negb (pair_first =? 0) then Elog invalid_pair
              else let* b := put b [escape] 1 in unescape_loop fuel escape (drop 2 inp) b pair_first
            else
              let* four := all_xdigits inp 1 4 in
              if four then
                let* unicode := hex_sum inp 1 4 in
                let* (b, pair_first) := unicode_unit unicode pair_first b in
                unescape_loop fuel escape (drop 5 inp) b pair_first
              else
                let* six := if (c1 =? "+")%char then all_xdigits inp 2 6 else Ok false in
                if six then
                  let* unicode := hex_sum inp 2 6 in
                  let* (b, pair_first) := unicode_unit unicode pair_first b in
                  unescape_loop fuel escape (drop 8 inp) b pair_first
                else Elog "invalid Unicode escape"
          else if negb (pair_first =? 0) then Elog invalid_pair
          else let* b := put b [c] 1 in unescape_loop fuel escape inp' b pair_first
      end
  end.

Definition str_udeescape (str : list ascii) (escape : ascii) : outcome (list ascii) :=
  let new_len := Z.of_nat (List.length str) + MAX_UNICODE_EQUIVALENT_STRING + 1 in
  let* _ := alloc_size new_len in
  unescape_loop (S (List.length str)) escape str (mkOut [] new_len) 0.

(** [U&'d\0061t\+000061 \D83D\DE00!\\'] *)
Example udeescape_1 :
  str_udeescape (list_ascii_of_string "d\0061t\+000061 \D83D\DE00!\\") "\"%char =
    Ok (list_ascii_of_string "data " ++ map uchar [0xF0; 0x9F; 0x98; 0x80] ++ list_ascii_of_string "!\")%list.
Proof. by vm_compute. Qed.

(** ** What the texts stand for *)

Definition digit (c : ascii) : Z :=
  if in_range "0" "9" c then byte c - 48 else if in_range "a" "f" c then byte c - 87 else byte c - 55.

Definition hex_value (ds : list ascii) : Z := foldl (fun v c => v * 16 + digit c) 0 ds.

Definition xdigits (n : nat) (ds : list ascii) : Prop := List.length ds = n /\ forallb isxdigit ds = true.

(** The escapes of a code unit. *)
Inductive unit_escape (e : ascii) : list ascii -> Z -> Prop :=
| unit4 ds : xdigits 4 ds -> unit_escape e (e :: ds) (hex_value ds)
| unit6 ds : xdigits 6 ds -> unit_escape e (e :: "+"%char :: ds) (hex_value ds).

Inductive unescapes (e : ascii) : list ascii -> list ascii -> Prop :=
| unescapes_end : unescapes e [] []
| unescapes_plain c s out : c <> e -> unescapes e s out -> unescapes e (c :: s) (c :: out)
| unescapes_escape s out : unescapes e s out -> unescapes e (e :: e :: s) (e :: out)
| unescapes_char w u s out :
    unit_escape e w u -> character u -> unescapes e s out -> unescapes e (w ++ s) (unicode_to_utf8 u ++ out)
| unescapes_pair w1 u1 w2 u2 s out :
    unit_escape e w1 u1 -> unit_escape e w2 u2 -> is_utf16_surrogate_first u1 = true ->
    is_utf16_surrogate_second u2 = true -> unescapes e s out ->
    unescapes e (w1 ++ w2 ++ s) (unicode_to_utf8 (surrogate_pair_to_codepoint u1 u2) ++ out).

(** ** Hexadecimal digits *)

Lemma hexval_digit c : isxdigit c = true -> hexval c = Ok (digit c).
Proof.
  unfold isxdigit, hexval, digit. destruct (in_range "0" "9" c), (in_range "a" "f" c), (in_range "A" "F" c);
    cbn; intros H; try done; f_equal; lia.
Qed.

Lemma digit_range c : isxdigit c = true -> 0 <= digit c < 16.
Proof.
  intros H. assert (negb (isxdigit c) || ((0 <=? digit c) && (digit c <? 16)) = true) as E.
  { clear H. ascii_cases (fun c => negb (isxdigit c) || ((0 <=? digit c) && (digit c <? 16))). }
  rewrite H in E. cbn in E. cond_tac. lia.
Qed.

Lemma hex_value_cons c ds : hex_value (c :: ds) = digit c * 16 ^ Z.of_nat (List.length ds) + hex_value ds.
Proof.
  unfold hex_value. cbn [foldl]. rewrite Z.mul_0_l, Z.add_0_l.
  assert (H : forall ds v, foldl (fun v c => v * 16 + digit c) v ds =
    v * 16 ^ Z.of_nat (List.length ds) + foldl (fun v c => v * 16 + digit c) 0 ds).
  { clear. induction ds as [|c ds IH]; intros v; cbn [foldl List.length]; [cbn; lia|].
    rewrite IH, (IH (0 * 16 + digit c)). rewrite Nat2Z.inj_succ, Z.pow_succ_r by lia. ring. }
  apply H.
Qed.

Lemma hex_value_range ds : forallb isxdigit ds = true -> 0 <= hex_value ds < 16 ^ Z.of_nat (List.length ds).
Proof.
  induction ds as [|c ds IH]; [by vm_compute|]. cbn [forallb]. intros H. split_andb.
  rewrite hex_value_cons. cbn [List.length]. rewrite Nat2Z.inj_succ, Z.pow_succ_r by lia.
  pose proof (digit_range c ltac:(done)). specialize (IH ltac:(done)). nia.
Qed.

Lemma peek_drop inp k c s : drop k inp = c :: s -> peek inp k = Ok c /\ drop (S k) inp = s.
Proof.
  intros H. assert (Hk : (k < List.length inp)%nat).
  { apply (f_equal List.length) in H. rewrite length_drop in H. cbn in H. lia. }
  unfold peek. rewrite (proj2 (Nat.leb_le _ _)) by lia. split.
  - f_equal. rewrite <-(take_drop k inp), H at 1. rewrite app_nth2; rewrite length_take_le by lia; [|lia].
    by rewrite Nat.sub_diag.
  - rewrite <-Nat.add_1_r, <-drop_drop. by rewrite H.
Qed.

Lemma peek_end inp k : drop k inp = [] -> (k <= List.length inp)%nat -> peek inp k = Ok NUL.
Proof.
  intros H Hk. unfold peek. rewrite (proj2 (Nat.leb_le _ _)) by done. f_equal.
  apply nth_overflow. apply (f_equal List.length) in H. rewrite length_drop in H. cbn in H. lia.
Qed.

(** The test of [n] characters finds [n] digits or says that there are none. *)
Lemma all_xdigits_spec n : forall inp k, (k <= List.length inp)%nat ->
  (exists ds s, xdigits n ds /\ drop k inp = (ds ++ s)%list /\ all_xdigits inp k n = Ok true) \/
  ((forall ds s, xdigits n ds -> drop k inp <> (ds ++ s)%list) /\ all_xdigits inp k n = Ok false).
Proof.
  induction n as [|n IH]; intros inp k Hk; cbn [all_xdigits].
  { left. exists [], (drop k inp). by repeat split. }
  destruct (drop k inp) as [|c s] eqn:E.
  - rewrite (peek_end _ _ E Hk). right. split; [|done]. intros ds s [Hl Hx] Hd. by destruct ds.
  - destruct (peek_drop _ _ _ _ E) as [-> Es]. cbn [obind]. destruct (isxdigit c) eqn:Hc.
    + assert (Hk' : (S k <= List.length inp)%nat).
      { apply (f_equal List.length) in E. rewrite length_drop in E. cbn in E. lia. }
      destruct (IH inp (S k) Hk') as [(ds & r & [Hl Hx] & Hd & ->)|[Hno ->]]; rewrite Es in *.
      * left. exists (c :: ds), r. split; [split; [cbn; lia|cbn; by rewrite Hc]|]. split; [by rewrite Hd|done].
      * right. split; [|done]. intros [|d ds] r [Hl Hx] Hd; [done|]. cbn in Hl, Hx, Hd. split_andb.
        inversion Hd; subst. apply (Hno ds r); [split; [lia|done]|done].
    + right. split; [|done]. intros [|d ds] r [Hl Hx] Hd; [done|]. cbn in Hx. inversion Hd; subst. by rewrite Hc in Hx.
Qed.

Lemma hex_sum_spec ds : forall inp k s, forallb isxdigit ds = true -> drop k inp = (ds ++ s)%list ->
  hex_sum inp k (List.length ds) = Ok (hex_value ds).
Proof.
  induction ds as [|c ds IH]; intros inp k s Hx Hd; [done|]. cbn [forallb] in Hx. split_andb.
  cbn [List.length hex_sum app] in *. destruct (peek_drop _ _ _ _ Hd) as [-> Es]. cbn [obind].
  rewrite hexval_digit by done. cbn [obind]. rewrite (IH _ _ s) by done. cbn [obind]. f_equal.
  rewrite hex_value_cons, Z.shiftl_mul_pow2 by lia. f_equal. f_equal.
  by rewrite Z.pow_mul_r by lia.
Qed.

(** ** One code unit *)

Lemma strlen_char u : character u -> strlen (unicode_to_utf8 u ++ [NUL]) = char_len u.
Proof.
  intros Hu. pose proof (character_range u Hu) as Hr.
  assert (Hnz : Forall (fun a => (a =? NUL)%char = false) (unicode_to_utf8 u)).
  { assert (Hb : forall a, byte a <> 0 -> (a =? NUL)%char = false).
    { intros a Ha. apply Ascii.eqb_neq. by intros ->. }
    destruct (unicode_to_utf8_form u ltac:(lia)); repeat constructor; apply Hb; div_lia. }
  unfold char_len. clear -Hnz. induction Hnz as [|a s Ha Hs IH]; [done|]. cbn [app strlen]. rewrite Ha. cbn. by f_equal.
Qed.

Lemma character_valid u : character u -> is_valid_unicode_codepoint u = true.
Proof.
  intros Hu. pose proof (character_range u Hu). unfold is_valid_unicode_codepoint.
  by rewrite (proj2 (Z.ltb_lt _ _)), (proj2 (Z.leb_le _ _)) by lia.
Qed.

Lemma pg_unicode_to_server_spec u : character u ->
  pg_unicode_to_server u = Ok (unicode_to_utf8 u ++ [NUL])%list.
Proof.
  intros Hu. pose proof (character_range u Hu). unfold pg_unicode_to_server. rewrite character_valid by done.
  destruct (Z.leb_spec u 0x7F).
  - unfold unicode_to_utf8. by rewrite (proj2 (Z.leb_le _ _)) by lia.
  - destruct (mblen_char u) as (a & s & E & Hl & _); [lia|]. rewrite E, Hl, Nat2Z.id, <-E. unfold char_len.
    by rewrite firstn_all, drop_ge by lia.
Qed.

(** Where a pair stands: nothing read, or its first half. *)
Definition pair_state (p : Z) : Prop := p = 0 \/ is_utf16_surrogate_first p = true.

Lemma surrogate_first_range u : is_utf16_surrogate_first u = true <-> 0xD800 <= u <= 0xDBFF.
Proof. unfold is_utf16_surrogate_first. rewrite andb_true_iff, !Z.leb_le. lia. Qed.

Lemma surrogate_second_range u : is_utf16_surrogate_second u = true <-> 0xDC00 <= u <= 0xDFFF.
Proof. unfold is_utf16_surrogate_second. rewrite andb_true_iff, !Z.leb_le. lia. Qed.

Lemma pair_range u1 u2 :
  is_utf16_surrogate_first u1 = true -> is_utf16_surrogate_second u2 = true ->
  surrogate_pair_to_codepoint u1 u2 = (u1 - 0xD800) * 1024 + (u2 - 0xDC00) + 0x10000 /\
  0x10000 <= surrogate_pair_to_codepoint u1 u2 <= 0x10FFFF.
Proof.
  rewrite surrogate_first_range, surrogate_second_range. intros H1 H2.
  unfold surrogate_pair_to_codepoint, wrap32. bits_tac. change (2 ^ 32) with 4294967296. div_lia.
Qed.

Lemma pair_character u1 u2 :
  is_utf16_surrogate_first u1 = true -> is_utf16_surrogate_second u2 = true ->
  character (surrogate_pair_to_codepoint u1 u2).
Proof. intros H1 H2. destruct (pair_range u1 u2 H1 H2) as [_ H]. unfold character, scalar. lia. Qed.

Lemma not_first u : 0x10000 <= u -> is_utf16_surrogate_first u = false.
Proof. intros H. unfold is_utf16_surrogate_first. rewrite (proj2 (Z.leb_gt u _)) by lia. apply andb_false_r. Qed.

(** A character stored: its bytes fit, and the zero after them. *)
Lemma put_char u b n : character u ->
  Z.of_nat (List.length (written b)) + n + 17 <= new_len b -> 0 <= n ->
  put b (unicode_to_utf8 u ++ [NUL])%list (strlen (unicode_to_utf8 u ++ [NUL])%list) =
    Ok (mkOut (written b ++ unicode_to_utf8 u)%list (new_len b)).
Proof.
  intros Hu Hroom Hn. destruct (mblen_char u) as (_ & _ & _ & _ & Hl); [pose proof (character_range u Hu); lia|].
  rewrite strlen_char by done. unfold put. rewrite length_app. fold (char_len u).
  rewrite (proj2 (Z.leb_le _ _)) by (cbn [List.length]; lia). by rewrite take_char.
Qed.

(** The code units that may follow, and what they add to the text. *)
Inductive unit_result (p u : Z) (b : outbuf) : outcome (outbuf * Z) -> Prop :=
| result_first : p = 0 -> is_utf16_surrogate_first u = true -> unit_result p u b (Ok (b, u))
| result_char : p = 0 -> character u ->
    unit_result p u b (Ok (mkOut (written b ++ unicode_to_utf8 u)%list (new_len b), 0))
| result_second : p <> 0 -> is_utf16_surrogate_second u = true ->
    unit_result p u b
      (Ok (mkOut (written b ++ unicode_to_utf8 (surrogate_pair_to_codepoint p u))%list (new_len b), 0))
| result_error msg :
    (p = 0 -> ~ character u /\ is_utf16_surrogate_first u = false) ->
    (p <> 0 -> is_utf16_surrogate_second u = false) -> unit_result p u b (Elog msg).

Lemma unicode_unit_spec u p b n : pair_state p -> 0 <= u ->
  Z.of_nat (List.length (written b)) + n + 17 <= new_len b -> 0 <= n ->
  unit_result p u b (unicode_unit u p b).
Proof.
  intros Hp Hu Hroom Hn. unfold unicode_unit, check_unicode_value.
  destruct (is_valid_unicode_codepoint u) eqn:Hv; cbn [obind].
  2:{ unfold is_valid_unicode_codepoint in Hv. apply andb_false_iff in Hv. rewrite Z.ltb_ge, Z.leb_gt in Hv.
      constructor; intros _; [split; [unfold character, scalar; lia|]|]; apply not_true_iff_false.
      - rewrite surrogate_first_range. lia.
      - rewrite surrogate_second_range. lia. }
  unfold is_valid_unicode_codepoint in Hv. cond_tac. destruct (Z.eqb_spec p 0) as [->|Hp0]; cbn [negb].
  - destruct (is_utf16_surrogate_second u) eqn:Hs; cbn [obind].
    { pose proof (proj1 (surrogate_second_range u) Hs). constructor; [|done]. intros _.
      split; [unfold character, scalar; lia|]. apply not_true_iff_false. rewrite surrogate_first_range. lia. }
    destruct (is_utf16_surrogate_first u) eqn:Hf; cbn [obind]; [by apply result_first|].
    assert (Hu' : character u).
    { apply not_true_iff_false in Hs, Hf. rewrite surrogate_first_range in Hf. rewrite surrogate_second_range in Hs.
      unfold character, scalar. lia. }
    rewrite pg_unicode_to_server_spec by done. cbn [obind]. rewrite (put_char u b n) by done. cbn [obind].
    by apply result_char.
  - destruct Hp as [|Hp]; [done|]. destruct (is_utf16_surrogate_second u) eqn:Hs; cbn [obind].
    + pose proof (pair_character p u Hp Hs) as Hc. rewrite not_first by (by apply pair_range).
      rewrite pg_unicode_to_server_spec by done. cbn [obind]. rewrite (put_char _ b n) by done. cbn [obind].
      by apply result_second.
    + by constructor.
Qed.

(** ** The loop *)

Section loop.
Context (e : ascii) (He : check_uescapechar e = true) (HeN : e <> NUL).

Lemma escape_no_digit : isxdigit e = false /\ e <> "+"%char.
Proof.
  unfold check_uescapechar in He. apply negb_true_iff in He. rewrite !orb_false_iff in He.
  destruct He as [[[[H1 H2] _] _] _]. split; [done|]. intros ->. done.
Qed.

Lemma xdigits_app n ds1 s1 ds2 s2 :
  xdigits n ds1 -> xdigits n ds2 -> (ds1 ++ s1 = ds2 ++ s2)%list -> ds1 = ds2 /\ s1 = s2.
Proof. intros [H1 _] [H2 _] E. apply app_inj_1 in E; [done|congruence]. Qed.

Lemma plus_no_digits n ds s s' : xdigits (S n) ds -> (ds ++ s)%list <> "+"%char :: s'.
Proof. intros [Hl Hx] E. destruct ds as [|c ds]; [done|]. inversion E. by subst. Qed.

Lemma unit_unique w1 u1 s1 w2 u2 s2 :
  unit_escape e w1 u1 -> unit_escape e w2 u2 -> (w1 ++ s1 = w2 ++ s2)%list -> w1 = w2 /\ u1 = u2 /\ s1 = s2.
Proof.
  intros [ds1 H1|ds1 H1] [ds2 H2|ds2 H2] E; cbn [app] in E; injection E as E.
  - by destruct (xdigits_app _ _ _ _ _ H1 H2 E) as [-> ->].
  - by destruct (plus_no_digits _ _ _ _ H1 E).
  - by destruct (plus_no_digits _ _ _ _ H2 (eq_sym E)).
  - by destruct (xdigits_app _ _ _ _ _ H1 H2 E) as [-> ->].
Qed.

Lemma unit_head w u s : unit_escape e w u ->
  exists c s', (w ++ s)%list = e :: c :: s' /\ (isxdigit c = true \/ c = "+"%char).
Proof.
  intros [[|c ds] [Hl Hx]|ds _]; cbn [app] in *; [done|..]; (eexists _, _; split; [done|]); [|by right].
  cbn in Hx. split_andb. by left.
Qed.

Lemma unit_value w u : unit_escape e w u -> 0 <= u.
Proof. intros [ds [_ Hx]|ds [_ Hx]]; by apply hex_value_range. Qed.

(** What a text with a code unit at its head stands for. *)
Lemma unescapes_unit w u s out : unit_escape e w u -> unescapes e (w ++ s) out ->
  (character u /\ exists out', out = (unicode_to_utf8 u ++ out')%list /\ unescapes e s out') \/
  (is_utf16_surrogate_first u = true /\ exists w2 u2 s2 out2, unit_escape e w2 u2 /\
     is_utf16_surrogate_second u2 = true /\ s = (w2 ++ s2)%list /\
     out = (unicode_to_utf8 (surrogate_pair_to_codepoint u u2) ++ out2)%list /\ unescapes e s2 out2).
Proof.
  intros Hw H. destruct (unit_head w u s Hw) as (c & s' & E & Hc). destruct escape_no_digit as [Hx Hplus].
  remember (w ++ s)%list as t eqn:Ht. destruct H as [|c' t out Hne H|t out H|w' u' t out Hw' Hu' H|w1 u1 w2 u2 t out Hw1 Hw2 H1 H2 H].
  - done.
  - congruence.
  - assert (c = e) as -> by congruence. destruct Hc; congruence.
  - destruct (unit_unique _ _ _ _ _ _ Hw' Hw Ht) as (-> & -> & ->). left. split; [done|]. by exists out.
  - destruct (unit_unique _ _ _ _ _ _ Hw1 Hw Ht) as (-> & -> & <-). right. split; [done|].
    exists w2, u2, t, out. done.
Qed.

Lemma unescapes_escape_inv s out : unescapes e (e :: e :: s) out ->
  exists out', out = e :: out' /\ unescapes e s out'.
Proof.
  destruct escape_no_digit as [Hx Hplus].
  assert (Hno : forall w u s', unit_escape e w u -> (w ++ s')%list <> e :: e :: s).
  { intros w u s' Hw E. destruct (unit_head w u s' Hw) as (c & s2 & E2 & Hc). rewrite E2 in E.
    injection E as -> _. destruct Hc; congruence. }
  intros H. inversion H as [|? ? ? Hne|? out'|w u t out' Hw Hu H' E|w1 u1 w2 u2 t out' Hw1 Hw2 H1 H2 H' E]; subst.
  - done.
  - by exists out'.
  - by destruct (Hno _ _ _ Hw E).
  - by destruct (Hno _ _ _ Hw1 E).
Qed.

Lemma unescapes_plain_inv c s out : c <> e -> unescapes e (c :: s) out ->
  exists out', out = c :: out' /\ unescapes e s out'.
Proof.
  assert (Hno : forall w u s', unit_escape e w u -> (w ++ s')%list = c :: s -> c = e).
  { intros w u s' Hw E. destruct (unit_head w u s' Hw) as (c' & s2 & E2 & _). congruence. }
  intros Hc H. inversion H as [|? ? out'|? out'|w u t out' Hw Hu H' E|w1 u1 w2 u2 t out' Hw1 Hw2 H1 H2 H' E]; subst.
  - by exists out'.
  - done.
  - by destruct Hc; apply (Hno _ _ _ Hw E).
  - by destruct Hc; apply (Hno _ _ _ Hw1 E).
Qed.

(** The rest after the first half of a pair. *)
Definition rest_pair (p : Z) (s out : list ascii) : Prop :=
  exists w u s' out', unit_escape e w u /\ is_utf16_surrogate_second u = true /\ s = (w ++ s')%list /\
    out = (unicode_to_utf8 (surrogate_pair_to_codepoint p u) ++ out')%list /\ unescapes e s' out'.

(** What is left to stand for. *)
Definition rest (p : Z) (s out : list ascii) : Prop :=
  if decide (p = 0) then unescapes e s out else rest_pair p s out.

Lemma rest_0 s out : rest 0 s out = unescapes e s out.
Proof. unfold rest. by rewrite decide_True. Qed.

Lemma rest_ne p s out : p <> 0 -> rest p s out = rest_pair p s out.
Proof. intros Hp. unfold rest. by rewrite decide_False. Qed.

(** The result of the loop from a state on. *)
Definition answers (r : outcome (list ascii)) (b : outbuf) (p : Z) (s : list ascii) : Prop :=
  match r with
  | Ok out => exists t, out = (written b ++ t)%list /\ rest p s t /\ (List.length t <= List.length s)%nat
  | Elog _ => forall t, ~ rest p s t
  | Undef => False
  end.

(** One step of the loop, which adds [add]. *)
Lemma answers_step r b add n p p' s s' :
  (forall t, rest p' s' t -> rest p s (add ++ t)) ->
  (forall t, rest p s t -> exists t', rest p' s' t' /\ t = (add ++ t')%list) ->
  (List.length add + List.length s' <= List.length s)%nat ->
  answers r (mkOut (written b ++ add) n) p' s' -> answers r b p s.
Proof.
  intros H1 H2 Hl. destruct r as [out|msg|]; cbn; [|intros Hno t Ht|done].
  - intros (t & -> & Ht & Hlt). exists (add ++ t)%list. rewrite app_assoc. split; [done|]. split; [auto|].
    rewrite length_app. lia.
  - destruct (H2 t Ht) as (t' & Ht' & _). by apply (Hno t').
Qed.
(** Room for what is left and for one character. *)
Definition room (b : outbuf) (s : list ascii) : Prop :=
  Z.of_nat (List.length (written b)) + Z.of_nat (List.length s) + 17 <= new_len b.

Lemma unit_length w u : unit_escape e w u -> (5 <= List.length w)%nat.
Proof. intros [ds [Hl _]|ds [Hl _]]; cbn [List.length]; lia. Qed.

Lemma char_len_le u : character u -> (char_len u <= 4)%nat.
Proof.
  intros Hu. pose proof (character_range u Hu). destruct (mblen_char u) as (_ & _ & _ & _ & Hl); lia.
Qed.

Lemma answers_unit w u s p b k :
  unit_escape e w u -> pair_state p -> room b (w ++ s) ->
  (forall b' p', pair_state p' -> room b' s -> answers (k (b', p')) b' p' s) ->
  answers (let* r := unicode_unit u p b in k r) b p (w ++ s).
Proof.
  intros Hw Hp Hroom IH. pose proof (unit_length w u Hw) as Hlen. unfold room in *. rewrite length_app in Hroom.
  assert (Hstep : forall c, character c ->
    (forall t, rest 0 s t -> rest p (w ++ s) (unicode_to_utf8 c ++ t)) ->
    (forall t, rest p (w ++ s) t -> exists t', rest 0 s t' /\ t = (unicode_to_utf8 c ++ t')%list) ->
    answers (k (mkOut (written b ++ unicode_to_utf8 c) (new_len b), 0)) b p (w ++ s)).
  { intros c Hc H1 H2. pose proof (char_len_le c Hc) as Hl. eapply (answers_step _ b _ _ p 0 _ s H1 H2).
    - rewrite length_app. fold (char_len c). lia.
    - apply IH; [by left|]. unfold room. cbn [written new_len]. rewrite length_app. fold (char_len c). lia. }
  destruct (unicode_unit_spec u p b 0 Hp (unit_value w u Hw)) as [-> Hf | -> Hc | Hp0 Hs|msg H0 H1]; [lia|lia|..]; cbn [obind].
  - assert (Hu0 : u <> 0) by (apply surrogate_first_range in Hf; lia).
    eapply (answers_step _ b [] (new_len b) 0 u (w ++ s) s).
    + intros t. rewrite rest_0, rest_ne by done.
      intros (w2 & u2 & s2 & out & Hw2 & Hs2 & -> & -> & H). by apply unescapes_pair.
    + intros t. rewrite rest_0. intros H.
      destruct (unescapes_unit w u s t Hw H) as [[[Hc _] _]|(_ & w2 & u2 & s2 & out2 & ? & ? & ? & ? & ?)].
      * apply surrogate_first_range in Hf. unfold scalar in Hc. lia.
      * exists t. rewrite rest_ne by done. split; [|done]. by exists w2, u2, s2, out2.
    + rewrite length_app. cbn. lia.
    + rewrite app_nil_r. destruct b as [bw bn]. apply IH; [by right|]. cbn [written new_len] in *. lia.
  - apply (Hstep u Hc); intros t; rewrite !rest_0.
    + intros Ht. by apply (unescapes_char e w u).
    + intros H. destruct (unescapes_unit w u s t Hw H) as [(_ & out' & -> & Ho)|(Hf & _)].
      { exists out'. by rewrite rest_0. }
      apply surrogate_first_range in Hf. destruct Hc as [[_ Hc] _]. lia.
  - destruct Hp as [|Hp]; [done|]. apply (Hstep _ (pair_character p u Hp Hs)); intros t; rewrite ?rest_0, rest_ne by done.
    + intros Ht. by exists w, u, s, t.
    + intros (w2 & u2 & s2 & out & Hw2 & Hs2 & E & -> & H).
      destruct (unit_unique _ _ _ _ _ _ Hw Hw2 E) as (-> & -> & ->). exists out. by rewrite rest_0.
  - intros t. unfold rest. destruct (decide (p = 0)) as [Hz|Hnz].
    + intros H. destruct (H0 Hz) as [Hc Hf].
      destruct (unescapes_unit w u s t Hw H) as [[? _]|[Hf' _]]; [done|congruence].
    + intros (w2 & u2 & s2 & out & Hw2 & Hs2 & E & -> & H).
      destruct (unit_unique _ _ _ _ _ _ Hw Hw2 E) as (-> & -> & ->). rewrite (H1 Hnz) in Hs2. done.
Qed.
Lemma enlarge_room b s : room b s -> enlarge_out b = Ok b.
Proof.
  unfold room, enlarge_out, MAX_UNICODE_EQUIVALENT_STRING. intros H.
  by rewrite (proj2 (Z.ltb_ge _ _)) by lia.
Qed.

(** One byte stored. *)
Lemma answers_byte c p w s b k :
  (1 <= List.length w)%nat -> p = 0 -> room b (w ++ s) ->
  (forall t, unescapes e s t -> unescapes e (w ++ s) (c :: t)) ->
  (forall t, unescapes e (w ++ s) t -> exists t', t = c :: t' /\ unescapes e s t') ->
  (forall b', room b' s -> answers (k b') b' 0 s) ->
  answers (let* b := put b [c] 1 in k b) b p (w ++ s).
Proof.
  intros Hw -> Hroom H1 H2 IH. unfold room in *. rewrite length_app in Hroom. unfold put.
  rewrite (proj2 (Z.leb_le _ _)) by (cbn [List.length]; lia). cbn [obind take].
  apply (answers_step _ b [c] (new_len b) 0 0 (w ++ s) s).
  - intros t. rewrite !rest_0. apply H1.
  - intros t. rewrite rest_0. intros H. destruct (H2 t H) as (t' & -> & Ht'). exists t'. by rewrite rest_0.
  - rewrite length_app. cbn [List.length]. lia.
  - apply IH. cbn [written new_len]. rewrite length_app. cbn [List.length]. lia.
Qed.

(** After the first half of a pair only a code unit may follow. *)
Lemma no_pair c s p t : p <> 0 -> (forall w u s', unit_escape e w u -> (w ++ s')%list <> c :: s) -> ~ rest p (c :: s) t.
Proof.
  intros Hp Hno. rewrite rest_ne by done. intros (w & u & s' & out & Hw & _ & E & _). by apply (Hno w u s' Hw).
Qed.

Lemma not_unit_plain c s w u s' : c <> e -> unit_escape e w u -> (w ++ s')%list <> c :: s.
Proof. intros Hc Hw E. destruct (unit_head w u s' Hw) as (c' & s2 & E2 & _). congruence. Qed.

Lemma not_unit_escape s w u s' : unit_escape e w u -> (w ++ s')%list <> e :: e :: s.
Proof.
  intros Hw E. destruct (unit_head w u s' Hw) as (c' & s2 & E2 & Hc). destruct escape_no_digit as [Hx Hplus].
  rewrite E2 in E. injection E as -> _. destruct Hc; congruence.
Qed.

(** An escape that is neither doubled nor a code unit. *)
Lemma no_escape inp' p t :
  (forall s, inp' <> e :: s) -> (forall w u s', unit_escape e w u -> (w ++ s')%list <> e :: inp') ->
  ~ rest p (e :: inp') t.
Proof.
  intros Hesc Hno. destruct (decide (p = 0)) as [->|Hp]; [|by apply no_pair].
  rewrite rest_0. intros H. inversion H as [|? ? ? Hne|? out'|w u s' out' Hw Hu H' E|w1 u1 w2 u2 s' out' Hw1 Hw2 H1 H2 H' E].
  - done.
  - by destruct (Hesc s).
  - by destruct (Hno _ _ _ Hw E).
  - by destruct (Hno _ _ _ Hw1 E).
Qed.

Lemma drop_digits n k (ds s inp : list ascii) : drop k inp = (ds ++ s)%list -> List.length ds = n ->
  drop (k + n) inp = s.
Proof. intros H <-. by rewrite <-drop_drop, H, drop_app_length. Qed.

(** The end of the text. *)
Lemma loop_end fuel b p : pair_state p -> room b [] -> answers (unescape_loop (S fuel) e [] b p) b p [].
Proof.
  intros Hp Hroom. cbn [unescape_loop]. destruct (Z.eqb_spec p 0) as [->|Hp0]; cbn [negb].
  - unfold room in Hroom. unfold put. rewrite (proj2 (Z.leb_le _ _)) by (cbn [List.length] in *; lia).
    cbn [obind take written answers]. exists []. rewrite rest_0. split; [done|]. split; [constructor|done].
  - cbn [answers]. intros t. rewrite rest_ne by done. intros (w & u & s' & out & Hw & _ & E & _).
    destruct (unit_head w u s' Hw) as (? & ? & E2 & _). congruence.
Qed.

(** A byte that is not the escape character, and the escape character doubled. *)
Lemma loop_byte fuel c w s b p : (w = [c] /\ c <> e) \/ (w = [e; e] /\ c = e) -> room b (w ++ s) ->
  (forall b', room b' s -> answers (unescape_loop fuel e s b' 0) b' 0 s) ->
  answers (if negb (p =? 0) then Elog invalid_pair
           else let* b := put b [c] 1 in unescape_loop fuel e s b p) b p (w ++ s).
Proof.
  intros Hw Hroom IH. destruct (Z.eqb_spec p 0) as [->|Hp0]; cbn [negb].
  - destruct Hw as [[-> Hc]|[-> ->]]; (apply answers_byte; [cbn; lia|done|done|..|exact IH]); intros t.
    + by apply unescapes_plain.
    + by apply unescapes_plain_inv.
    + by apply unescapes_escape.
    + by apply unescapes_escape_inv.
  - intros t. destruct Hw as [[-> Hc]|[-> ->]]; (apply no_pair; [done|]); intros w u s'.
    + by apply not_unit_plain.
    + by apply not_unit_escape.
Qed.

(** An escape character before another one. *)
Lemma loop_escape fuel c1 inp' b p (inp := e :: c1 :: inp') : c1 <> e -> pair_state p -> room b inp ->
  (forall s b' p', (List.length s < List.length inp)%nat -> pair_state p' -> room b' s ->
     answers (unescape_loop fuel e s b' p') b' p' s) ->
  answers (unescape_loop (S fuel) e inp b p) b p inp.
Proof.
  intros Hc1 Hp Hroom IH. unfold inp at 1. cbn [unescape_loop]. fold inp. rewrite (enlarge_room b _ Hroom).
  cbn [obind]. rewrite Ascii.eqb_refl. change (peek inp 1) with (Ok c1). cbn [obind].
  rewrite (proj2 (Ascii.eqb_neq _ _) Hc1).
  assert (Hunit : forall w u s k, unit_escape e w u -> inp = (w ++ s)%list -> drop k inp = s ->
    answers (let* r := unicode_unit u p b in let '(b, p) := r in unescape_loop fuel e (drop k inp) b p) b p inp).
  { intros w u s k Hw E ->. pose proof (unit_length w u Hw). rewrite E.
    apply (answers_unit w u s p b (fun r => let '(b, p) := r in unescape_loop fuel e s b p)); [done|done|by rewrite <-E|].
    intros b' p' Hp' Hb'. apply IH; [|done|done]. rewrite E, length_app. lia. }
  destruct (all_xdigits_spec 4 inp 1) as [(ds & s & Hds & Hd & ->)|[Hno4 ->]]; [unfold inp; cbn [List.length]; lia|..];
    cbn [obind].
  { pose proof (hex_sum_spec ds inp 1 s (proj2 Hds) Hd) as Hh. rewrite (proj1 Hds) in Hh. rewrite Hh. cbn [obind].
    apply (Hunit (e :: ds) (hex_value ds) s 5%nat); [by constructor|cbn [app]; by rewrite <-Hd|].
    exact (drop_digits 4 1 ds s inp Hd (proj1 Hds)). }
  destruct (Ascii.eqb_spec c1 "+"%char) as [Hplus|Hplus].
  - destruct (all_xdigits_spec 6 inp 2) as [(ds & s & Hds & Hd & ->)|[Hno6 ->]]; [unfold inp; cbn [List.length]; lia|..];
      cbn [obind].
    + pose proof (hex_sum_spec ds inp 2 s (proj2 Hds) Hd) as Hh. rewrite (proj1 Hds) in Hh. rewrite Hh. cbn [obind].
      apply (Hunit (e :: "+"%char :: ds) (hex_value ds) s 8%nat); [by constructor| |].
      * cbn [app]. rewrite <-Hd. unfold inp. by rewrite Hplus.
      * exact (drop_digits 6 2 ds s inp Hd (proj1 Hds)).
    + intros t. apply no_escape; [intros s; congruence|]. intros w u s' [ds Hds|ds Hds] E; injection E.
      * intros E'. by apply (Hno4 ds s').
      * intros E' _. by apply (Hno6 ds s').
  - intros t. apply no_escape; [intros s; congruence|]. intros w u s' [ds Hds|ds Hds] E; injection E.
    + intros E'. by apply (Hno4 ds s').
    + congruence.
Qed.

Lemma loop_spec fuel : forall inp b p, (List.length inp < fuel)%nat -> pair_state p -> room b inp ->
  answers (unescape_loop fuel e inp b p) b p inp.
Proof.
  induction fuel as [|fuel IH]; intros inp b p Hf Hp Hroom; [lia|].
  destruct inp as [|c inp']; [by apply loop_end|]. cbn [List.length] in Hf.
  destruct (decide (c = e)) as [->|Hc].
  2:{ cbn [unescape_loop]. rewrite (enlarge_room b _ Hroom). cbn [obind]. rewrite (proj2 (Ascii.eqb_neq _ _) Hc).
      apply (loop_byte fuel c [c] inp'); [by left|done|]. intros b'. apply IH; [lia|by left]. }
  destruct inp' as [|c1 inp'].
  { cbn [unescape_loop]. rewrite (enlarge_room b _ Hroom). cbn [obind]. rewrite Ascii.eqb_refl.
    cbn [peek List.length Nat.leb nth obind]. rewrite (proj2 (Ascii.eqb_neq NUL e)) by done. cbn.
    intros t. apply no_escape; [done|]. intros w u s' Hw E. destruct (unit_head w u s' Hw) as (? & ? & E2 & _). congruence. }
  destruct (decide (c1 = e)) as [->|Hc1].
  - cbn [unescape_loop]. rewrite (enlarge_room b _ Hroom). cbn [obind]. rewrite Ascii.eqb_refl.
    change (peek (e :: e :: inp') 1) with (Ok e). cbn [obind]. rewrite Ascii.eqb_refl. cbn [drop].
    apply (loop_byte fuel e [e; e] inp'); [by right|done|]. intros b'. apply IH; [cbn [List.length] in Hf; lia|by left].
  - apply loop_escape; [done|done|done|]. intros s b' p' Hs. apply IH. cbn [List.length] in *. lia.
Qed.
End loop.

(** ** Property *)

(** C33. The text of a Unicode token is returned exactly when it is well formed,
    and is then what it stands for; every other text is an error.  The block
    allocated first is never enlarged, the result being no longer than the
    text, and is never left. *)
Theorem str_udeescape_correct (str : list ascii) (escape : ascii)
    (Hescape : check_uescapechar escape = true) (Hnul : escape <> NUL)
    (Hsize : Z.of_nat (List.length str) + 17 <= MaxAllocSize) :
  match str_udeescape str escape with
  | Ok out => unescapes escape str out /\ (List.length out <= List.length str)%nat
  | Elog _ => forall out, ~ unescapes escape str out
  | Undef => False
  end.
Proof.
  unfold str_udeescape, alloc_size, MAX_UNICODE_EQUIVALENT_STRING.
  rewrite (proj2 (Z.leb_le 0 _)), (proj2 (Z.leb_le _ MaxAllocSize)) by lia. cbn [andb obind].
  set (b := mkOut [] _).
  assert (H : answers escape (unescape_loop (S (List.length str)) escape str b 0) b 0 str).
  { apply loop_spec; [done|done|lia|by left|]. unfold room, b. cbn [written new_len List.length]. lia. }
  destruct (unescape_loop _ escape str b 0) as [out|msg|]; cbn [answers] in H.
  - destruct H as (t & -> & Ht & Hl). rewrite rest_0 in Ht. by split.
  - intros out Ho. apply (H out). by rewrite rest_0.
  - done.
Qed.

(** [U&'d\0061t\+000061' ] *)
Definition sample_escapes : list ascii := list_ascii_of_string "d\0061t\+000061".

Theorem str_udeescape_correct_witness :
  str_udeescape sample_escapes "\"%char = Ok (list_ascii_of_string "data") /\
  unescapes "\"%char sample_escapes (list_ascii_of_string "data").
Proof.
  assert (E : str_udeescape sample_escapes "\"%char = Ok (list_ascii_of_string "data")) by (vm_compute; reflexivity).
  split; [exact E|].
  assert (He : check_uescapechar "\"%char = true) by reflexivity.
  assert (HN : "\"%char <> NUL) by discriminate.
  assert (Hs : Z.of_nat (List.length sample_escapes) + 17 <= MaxAllocSize) by (vm_compute; discriminate).
  pose proof (str_udeescape_correct sample_escapes "\"%char He HN Hs) as H. rewrite E in H. exact (proj1 H).
Defined.
