(* ===== verification/Lookahead.v ===== *)
(** * The filter between scanner and parser

    [base_yylex] ([src/postgres/src_backend_parser_parser.c]): it drops comments,
    replaces NOT, NULLS and WITH by their look-ahead variants, and turns Unicode
    identifiers and strings into plain ones.  Its state is the [lookahead_*]
    fields of [base_yy_extra_type]; the scanner and its buffer, where the filter
    puts a zero after the current token, are the interface [CoreLexer].

    [filtered] is the filter as a function on the list of all tokens, without
    state; the property is that the calls the parser makes return its result.
    Where a comment stands between the two words the look-ahead fails, which
    [comment_hides_lookahead] shows. *)
From S2P Require Import Prelude StringInfo Unicode Scansup Udeescape Scanner.

Open Scope Z_scope.

(** ** Tokens *)

(** [core_YYSTYPE] *)
Inductive core_YYSTYPE : Type :=
| V_none
| V_ival (i : Z)
| V_str (s : list ascii)
| V_keyword (s : list ascii).

(** What a call returns, and what it stores at [lvalp] and [llocp]. *)
Record lexed : Type := mkLexed { code : Z; yylval : core_YYSTYPE; lloc : Z }.

Definition UIDENT : Z := 259.
Definition USCONST : Z := 262.
Definition BETWEEN : Z := 306.
Definition FIRST_P : Z := 415.
Definition ILIKE : Z := 442.
Definition IN_P : Z := 447.
Definition LAST_P : Z := 477.
Definition LIKE : Z := 484.
Definition NOT : Z := 520.
Definition NULLS_P : Z := 527.
Definition ORDINALITY : Z := 542.
Definition SIMILAR : Z := 627.
Definition TIME : Z := 661.
Definition UESCAPE : Z := 675.
Definition WITH : Z := 706.
Definition NOT_LA : Z := 727.
Definition NULLS_LA : Z := 728.
Definition WITH_LA : Z := 729.

(** [core_yylex] and [yyextra->core_yy_extra.scanbuf]. *)
Class CoreLexer (Y : Type) : Type := {
  core_yylex : Y -> outcome (lexed * Y);
  scanbuf : Y -> list ascii;
  set_scanbuf : Y -> list ascii -> Y
}.

Section filter.
Context {Y : Type} {lexer : CoreLexer Y}.

(** [yyscanner] with the fields of [base_yy_extra_type] that [base_yylex] uses;
    [lookahead] is the token, its value and its location. *)
Record base_yy_extra_type : Type := mkExtra {
  yyscanner : Y;
  have_lookahead : bool;
  lookahead : lexed;
  lookahead_end : Z;
  lookahead_hold_char : ascii
}.

(** [*p] and [*p = c] in the scan buffer. *)
Definition fetch (y : Y) (p : Z) : outcome ascii :=
  if 0 <=? p then match scanbuf y !! Z.to_nat p with Some c => Ok c | None => Undef end else Undef.

Definition set_char (y : Y) (p : Z) (c : ascii) : outcome Y :=
  let* _ := fetch y p in Ok (set_scanbuf y (<[Z.to_nat p := c]> (scanbuf y))).

(** The next token: the one looked at before, or a new one. *)
Definition get_token (st : base_yy_extra_type) : outcome (lexed * base_yy_extra_type) :=
  if have_lookahead st then
    let* y := set_char (yyscanner st) (lookahead_end st) (lookahead_hold_char st) in
    Ok (lookahead st, mkExtra y false (lookahead st) (lookahead_end st) (lookahead_hold_char st))
  else
    let* (t, y) := core_yylex (yyscanner st) in
    Ok (t, mkExtra y false (lookahead st) (lookahead_end st) (lookahead_hold_char st)).

(** [strlen(yyextra->core_yy_extra.scanbuf + *llocp)] *)
Definition strlen_at (y : Y) (p : Z) : outcome Z :=
  let s := drop (Z.to_nat p) (scanbuf y) in
  if (0 <=? p) && (strlen s <? List.length s)%nat then Ok (Z.of_nat (strlen s)) else Undef.

(** The token after the current one, which is [cur_token_length] bytes long. *)
Definition look_ahead (st : base_yy_extra_type) (cur : lexed) (cur_token_length : Z) :
    outcome (lexed * base_yy_extra_type) :=
  let endp := lloc cur + cur_token_length in
  let* c := fetch (yyscanner st) endp in
  if (c =? NUL)%char then                                              (* Assert *)
    let* (next, y) := core_yylex (yyscanner st) in
    let* hold := fetch y endp in
    let* y := set_char y endp NUL in
    Ok (next, mkExtra y true next endp hold)
  else Undef.

(** [case NOT: case NULLS_P: case WITH:] of the second switch. *)
Definition replace_token (cur_token next_token : Z) : Z :=
  if cur_token =? NOT then
    if (next_token =? BETWEEN) || (next_token =? IN_P) || (next_token =? LIKE) || (next_token =? ILIKE) ||
       (next_token =? SIMILAR) then NOT_LA else cur_token
  else if cur_token =? NULLS_P then
    if (next_token =? FIRST_P) || (next_token =? LAST_P) then NULLS_LA else cur_token
  else if cur_token =? WITH then
    if (next_token =? TIME) || (next_token =? ORDINALITY) then WITH_LA else cur_token
  else cur_token.

Definition str_of (v : core_YYSTYPE) : outcome (list ascii) :=
  match v with V_str s => Ok s | _ => Undef end.

(** The escape character of a third token. *)
Definition uescape_char (t : lexed) : outcome ascii :=
  if code t =? SCONST then
    let* escstr := str_of (yylval t) in
    match escstr with
    | [c] => if check_uescapechar c then Ok c else Elog "invalid Unicode escape character"
    | _ => Elog "invalid Unicode escape character"
    end
  else Elog "UESCAPE must be followed by a simple string literal".

(** The token that takes the place of a UIDENT or USCONST. *)
Definition plain_token (cur : lexed) (escape : ascii) : outcome lexed :=
  let* s := str_of (yylval cur) in
  let* s := str_udeescape s escape in
  if code cur =? UIDENT then
    let* s := truncate_identifier s (Z.of_nat (List.length s)) true in
    Ok (mkLexed IDENT (V_str s) (lloc cur))
  else Ok (mkLexed SCONST (V_str s) (lloc cur)).

(** [case UIDENT: case USCONST:] of the second switch, with [next] looked at. *)
Definition unicode_token (cur next : lexed) (st : base_yy_extra_type) : outcome (lexed * base_yy_extra_type) :=
  if code next =? UESCAPE then
    let* y := set_char (yyscanner st) (lookahead_end st) (lookahead_hold_char st) in
    let* (third, y) := core_yylex y in
    let* c := uescape_char third in
    let* t := plain_token cur c in
    Ok (t, mkExtra y false third (lookahead_end st) (lookahead_hold_char st))
  else
    let* t := plain_token cur "\"%char in
    Ok (t, st).

(** The fixed lengths of the first switch. *)
Definition token_length (c : Z) : option Z :=
  if c =? NOT then Some 3 else if c =? NULLS_P then Some 5 else if c =? WITH then Some 4 else None.

Definition is_comment (c : Z) : bool := (c =? SQL_COMMENT) || (c =? C_COMMENT).
Definition is_unicode (c : Z) : bool := (c =? UIDENT) || (c =? USCONST).

(** [fuel] bounds the comments before a token. *)
Fixpoint base_yylex (fuel : nat) (st : base_yy_extra_type) : outcome (lexed * base_yy_extra_type) :=
  match fuel with
  | O => Undef
  | S fuel =>
      let* (cur, st) := get_token st in
      match token_length (code cur) with
      | Some n =>
          let* (next, st) := look_ahead st cur n in
          Ok (mkLexed (replace_token (code cur) (code next)) (yylval cur) (lloc cur), st)
      | None =>
          if is_unicode (code cur) then
            let* n := strlen_at (yyscanner st) (lloc cur) in
            let* (next, st) := look_ahead st cur n in
            unicode_token cur next st
          else if is_comment (code cur) then base_yylex fuel st
          else Ok (cur, st)
      end
  end.

(** The state that [raw_parser] starts with. *)
Definition parser_start (y : Y) : base_yy_extra_type := mkExtra y false (mkLexed 0 V_none 0) 0 NUL.

(** The tokens the parser reads, up to the end. *)
Fixpoint parser_tokens (fuel : nat) (st : base_yy_extra_type) : outcome (list lexed) :=
  match fuel with
  | O => Undef
  | S fuel' =>
      let* (t, st) := base_yylex fuel st in
      if code t =? 0 then Ok [t]
      else let* ts := parser_tokens fuel' st in Ok (t :: ts)
  end.

(** ** The filter on the list of tokens *)

(** [fails] is the error the scanner raises after [ts], if it does not come to
    the end. *)
Fixpoint filtered (fails : option string) (ts : list lexed) : outcome (list lexed) :=
  let error := match fails with Some msg => Elog msg | None => Undef end in
  match ts with
  | [] => error
  | t :: ts' =>
      if code t =? 0 then Ok [t]
      else if is_comment (code t) then filtered fails ts'
      else if is_unicode (code t) then
        match ts' with
        | [] => error
        | n :: ts'' =>
            if code n =? UESCAPE then
              match ts'' with
              | [] => error
              | third :: rest =>
                  let* c := uescape_char third in
                  let* t := plain_token t c in
                  let* r := filtered fails rest in Ok (t :: r)
              end
            else
              let* t := plain_token t "\"%char in
              let* r := filtered fails ts' in Ok (t :: r)
        end
      else
        match token_length (code t), ts' with
        | Some _, [] => error
        | Some _, n :: _ =>
            let* r := filtered fails ts' in
            Ok (mkLexed (replace_token (code t) (code n)) (yylval t) (lloc t) :: r)
        | None, _ => let* r := filtered fails ts' in Ok (t :: r)
        end
  end.

(** ** The scanner *)

(** The buffer is part of the scanner's state, and a call keeps its size. *)
Class CoreLexerLaws : Prop := {
  scanbuf_set y b : List.length b = List.length (scanbuf y) -> scanbuf (set_scanbuf y b) = b;
  set_set y b b' : set_scanbuf (set_scanbuf y b) b' = set_scanbuf y b';
  set_same y : set_scanbuf y (scanbuf y) = y;
  lex_size y t y' : core_yylex y = Ok (t, y') -> List.length (scanbuf y') = List.length (scanbuf y)
}.

(** The scanner leaves a zero after the token. *)
Definition ended (t : lexed) (y : Y) : Prop :=
  match token_length (code t) with
  | Some n => fetch y (lloc t + n) = Ok NUL
  | None => is_unicode (code t) = true -> exists n, strlen_at y (lloc t) = Ok n
  end.

(** The tokens the scanner delivers: up to the end, or up to an error. *)
Inductive delivers : Y -> list lexed -> option string -> Prop :=
| delivers_end y t y' : core_yylex y = Ok (t, y') -> code t = 0 -> delivers y [t] None
| delivers_error y msg : core_yylex y = Elog msg -> delivers y [] (Some msg)
| delivers_token y t y' ts fails : core_yylex y = Ok (t, y') -> code t <> 0 -> ended t y' ->
    delivers y' ts fails -> delivers y (t :: ts) fails.

(** ** Lemmas *)

Context {laws : CoreLexerLaws}.

Lemma fetch_some y p c : fetch y p = Ok c -> 0 <= p /\ scanbuf y !! Z.to_nat p = Some c.
Proof.
  unfold fetch. destruct (Z.leb_spec 0 p); [|done]. destruct (scanbuf y !! Z.to_nat p); [|done]. by intros [= ->].
Qed.

Lemma fetch_size y y' p c : List.length (scanbuf y') = List.length (scanbuf y) -> fetch y p = Ok c ->
  exists c', fetch y' p = Ok c'.
Proof.
  intros Hl H1. apply fetch_some in H1 as [Hp Hc]. apply lookup_lt_Some in Hc.
  destruct (lookup_lt_is_Some_2 (scanbuf y') (Z.to_nat p)) as [c' Hc']; [lia|]. exists c'.
  unfold fetch. rewrite (proj2 (Z.leb_le _ _)) by done. by rewrite Hc'.
Qed.

(** What was overwritten with a zero is put back. *)
Lemma set_restore y p c : fetch y p = Ok c ->
  exists y0, set_char y p NUL = Ok y0 /\ set_char y0 p c = Ok y.
Proof.
  intros Hf. unfold set_char. rewrite Hf. cbn [obind]. eexists. split; [done|].
  apply fetch_some in Hf as [Hp Hc]. unfold fetch. rewrite (proj2 (Z.leb_le _ _)) by done.
  rewrite scanbuf_set by by rewrite length_insert. rewrite list_lookup_insert_eq by by apply lookup_lt_Some in Hc.
  cbn [obind]. by rewrite set_set, list_insert_insert_eq, list_insert_id, set_same.
Qed.

Lemma strlen_le s : (strlen s <= List.length s)%nat.
Proof. induction s as [|c s IH]; cbn; [lia|]. destruct (c =? NUL)%char; lia. Qed.

Lemma strlen_zero s : (strlen s < List.length s)%nat -> s !! strlen s = Some NUL.
Proof.
  induction s as [|c s IH]; cbn [strlen List.length]; [lia|]. destruct (Ascii.eqb_spec c NUL) as [->|]; [done|].
  intros Hl. cbn. apply IH. lia.
Qed.

Lemma strlen_at_fetch y p n : strlen_at y p = Ok n -> fetch y (p + n) = Ok NUL.
Proof.
  unfold strlen_at. destruct (Z.leb_spec 0 p) as [Hp|]; [|done]. cbn [andb].
  destruct (Nat.ltb_spec (strlen (drop (Z.to_nat p) (scanbuf y))) (List.length (drop (Z.to_nat p) (scanbuf y)))) as [Hl|]; [|done].
  intros [= <-]. apply strlen_zero in Hl. rewrite lookup_drop in Hl. unfold fetch.
  rewrite (proj2 (Z.leb_le _ _)) by lia.
  replace (Z.to_nat (p + _)) with (Z.to_nat p + strlen (drop (Z.to_nat p) (scanbuf y)))%nat by lia. by rewrite Hl.
Qed.

(** The tokens that are left, where the scanner stands right after [t]. *)
Definition after (t : lexed) (y : Y) (ts : list lexed) (fails : option string) : Prop :=
  if decide (code t = 0) then ts = [] /\ fails = None else ended t y /\ delivers y ts fails.

(** The tokens the filter has still to read. *)
Definition stands (st : base_yy_extra_type) (ts : list lexed) (fails : option string) : Prop :=
  if have_lookahead st then
    exists y ts', set_char (yyscanner st) (lookahead_end st) (lookahead_hold_char st) = Ok y /\
      ts = lookahead st :: ts' /\ after (lookahead st) y ts' fails
  else delivers (yyscanner st) ts fails.

Lemma core_yylex_spec y ts fails : delivers y ts fails ->
  match ts with
  | [] => exists msg, fails = Some msg /\ core_yylex y = Elog msg
  | t :: ts' => exists y', core_yylex y = Ok (t, y') /\ after t y' ts' fails
  end.
Proof.
  intros [y0 t y' E Hc|y0 msg E|y0 t y' ts' f E Hc He Hd].
  - exists y'. split; [done|]. unfold after. by rewrite decide_True.
  - by exists msg.
  - exists y'. split; [done|]. unfold after. by rewrite decide_False.
Qed.

Lemma get_token_spec st ts fails : stands st ts fails ->
  match ts with
  | [] => exists msg, fails = Some msg /\ get_token st = Elog msg
  | t :: ts' => exists st', get_token st = Ok (t, st') /\ have_lookahead st' = false /\ after t (yyscanner st') ts' fails
  end.
Proof.
  unfold stands, get_token. destruct (have_lookahead st).
  - intros (y & ts' & -> & -> & Ha). cbn [obind]. eexists. split; [done|]. by split.
  - intros Hd. pose proof (core_yylex_spec _ _ _ Hd) as Hs. destruct ts as [|t ts'].
    + destruct Hs as (msg & -> & ->). by exists msg.
    + destruct Hs as (y' & -> & Ha). cbn [obind]. eexists. split; [done|]. by split.
Qed.

Lemma look_ahead_spec st cur n ts fails :
  fetch (yyscanner st) (lloc cur + n) = Ok NUL -> delivers (yyscanner st) ts fails ->
  match ts with
  | [] => exists msg, fails = Some msg /\ look_ahead st cur n = Elog msg
  | t :: _ => exists st', look_ahead st cur n = Ok (t, st') /\ have_lookahead st' = true /\ stands st' ts fails
  end.
Proof.
  intros Hf Hd. unfold look_ahead. rewrite Hf. cbn [obind]. rewrite Ascii.eqb_refl.
  pose proof (core_yylex_spec _ _ _ Hd) as Hs. destruct ts as [|t ts'].
  - destruct Hs as (msg & -> & ->). by exists msg.
  - destruct Hs as (y' & E & Ha). rewrite E. cbn [obind].
    destruct (fetch_size _ y' _ _ (lex_size _ _ _ E) Hf) as [hold Eh]. rewrite Eh. cbn [obind].
    destruct (set_restore _ _ _ Eh) as (y0 & -> & Er). cbn [obind]. eexists. split; [done|]. split; [done|].
    unfold stands. cbn [have_lookahead]. exists y', ts'. by repeat split.
Qed.

(** What a call answers, by the filter on the list. *)
Definition yields (r : outcome (lexed * base_yy_extra_type)) (ts : list lexed) (fails : option string) : Prop :=
  match r with
  | Ok (t, st) =>
      if decide (code t = 0) then filtered fails ts = Ok [t]
      else exists ts', stands st ts' fails /\ (List.length ts' < List.length ts)%nat /\
        filtered fails ts = (let* r := filtered fails ts' in Ok (t :: r))
  | Elog msg => filtered fails ts = Elog msg
  | Undef => filtered fails ts = Undef
  end.

Lemma replace_nonzero c n : c <> 0 -> replace_token c n <> 0.
Proof. unfold replace_token. intros Hc. repeat case_match; done. Qed.

Lemma filtered_cons fails t ts : code t <> 0 -> is_comment (code t) = false -> is_unicode (code t) = false ->
  filtered fails (t :: ts) =
    match token_length (code t), ts with
    | Some _, [] => match fails with Some msg => Elog msg | None => Undef end
    | Some _, n :: _ =>
        let* r := filtered fails ts in
        Ok (mkLexed (replace_token (code t) (code n)) (yylval t) (lloc t) :: r)
    | None, _ => let* r := filtered fails ts in Ok (t :: r)
    end.
Proof. intros H0 Hc Hu. cbn [filtered]. by rewrite (proj2 (Z.eqb_neq _ _) H0), Hc, Hu. Qed.

Lemma filtered_unicode fails t ts : code t <> 0 -> is_comment (code t) = false -> is_unicode (code t) = true ->
  filtered fails (t :: ts) =
    match ts with
    | [] => match fails with Some msg => Elog msg | None => Undef end
    | n :: ts'' =>
        if code n =? UESCAPE then
          match ts'' with
          | [] => match fails with Some msg => Elog msg | None => Undef end
          | third :: rest =>
              let* c := uescape_char third in
              let* t := plain_token t c in
              let* r := filtered fails rest in Ok (t :: r)
          end
        else
          let* t := plain_token t "\"%char in
          let* r := filtered fails ts in Ok (t :: r)
    end.
Proof. intros H0 Hc Hu. cbn [filtered]. by rewrite (proj2 (Z.eqb_neq _ _) H0), Hc, Hu. Qed.

Lemma plain_nonzero cur c t : plain_token cur c = Ok t -> code t <> 0.
Proof.
  unfold plain_token. destruct (str_of _) as [s| |]; [|done..]. cbn [obind].
  destruct (str_udeescape s c) as [s'| |]; [|done..]. cbn [obind]. destruct (code cur =? UIDENT).
  - destruct (truncate_identifier _ _ _); [|done..]. by intros [= <-].
  - by intros [= <-].
Qed.

Lemma code_zero t : code t = 0 -> token_length (code t) = None /\ is_unicode (code t) = false /\ is_comment (code t) = false.
Proof. by intros ->. Qed.

(** A token that takes the place of a Unicode one. *)
Lemma yields_plain cur c st ts ts' fails :
  stands st ts' fails -> (List.length ts' < List.length ts)%nat ->
  filtered fails ts = (let* t := plain_token cur c in let* r := filtered fails ts' in Ok (t :: r)) ->
  yields (let* t := plain_token cur c in Ok (t, st)) ts fails.
Proof.
  intros Hst Hl Hf. destruct (plain_token cur c) as [t|msg|] eqn:E; cbn [obind yields] in *; [|done..].
  rewrite decide_False by by eapply plain_nonzero. by exists ts'.
Qed.

Lemma unicode_token_spec cur st n ts'' ts fails :
  have_lookahead st = true -> stands st (n :: ts'') fails -> ts = cur :: n :: ts'' ->
  code cur <> 0 -> is_comment (code cur) = false -> is_unicode (code cur) = true ->
  yields (unicode_token cur n st) ts fails.
Proof.
  intros Hh Hst -> H0 Hc Hu. unfold unicode_token. pose proof (filtered_unicode fails cur (n :: ts'') H0 Hc Hu) as Hf.
  cbv iota in Hf. revert Hf. destruct (Z.eqb_spec (code n) UESCAPE) as [Hn|Hn]; intros Hf.
  2:{ eapply yields_plain; [exact Hst|cbn; lia|exact Hf]. }
  unfold stands in Hst. rewrite Hh in Hst. destruct Hst as (y & ts' & -> & [= En <-] & Ha). cbn [obind].
  unfold after in Ha. rewrite <-En, decide_False in Ha by by rewrite Hn. destruct Ha as [_ Hd].
  pose proof (core_yylex_spec _ _ _ Hd) as Hs. destruct ts'' as [|third rest].
  - destruct Hs as (msg & -> & ->). exact Hf.
  - destruct Hs as (y' & -> & Ha). cbn [obind]. destruct (uescape_char third) as [c|msg|] eqn:Ec; cbn [obind] in *; [|done..].
    apply (yields_plain cur c _ _ rest); [|cbn; lia|exact Hf]. unfold stands. cbn [have_lookahead yyscanner].
    unfold after in Ha. rewrite decide_False in Ha; [tauto|]. intros Hz. unfold uescape_char in Ec. by rewrite Hz in Ec.
Qed.

(** NOT, NULLS and WITH. *)
Lemma yields_fixed st cur n ts fails :
  token_length (code cur) = Some n -> code cur <> 0 -> ended cur (yyscanner st) -> delivers (yyscanner st) ts fails ->
  yields (let* (next, st) := look_ahead st cur n in
          Ok (mkLexed (replace_token (code cur) (code next)) (yylval cur) (lloc cur), st)) (cur :: ts) fails.
Proof.
  intros Hn Hz He Hd. unfold ended in He. rewrite Hn in He.
  assert (Hcu : is_comment (code cur) = false /\ is_unicode (code cur) = false).
  { unfold token_length in Hn. unfold is_comment, is_unicode. repeat case_match; cond_tac; simplify_eq;
    match goal with E : code cur = _ |- _ => rewrite E; by split end. }
  destruct Hcu as [Hc Hu]. pose proof (filtered_cons fails cur ts Hz Hc Hu) as Hfil. rewrite Hn in Hfil.
  pose proof (look_ahead_spec st cur n ts fails He Hd) as Hla. destruct ts as [|next ts].
  - destruct Hla as (msg & -> & ->). exact Hfil.
  - destruct Hla as (st2 & -> & _ & Hst2). cbn [obind yields code]. rewrite decide_False by by apply replace_nonzero.
    exists (next :: ts). split; [done|]. split; [cbn; lia|exact Hfil].
Qed.

(** UIDENT and USCONST. *)
Lemma yields_unicode st cur ts fails :
  token_length (code cur) = None -> is_unicode (code cur) = true -> code cur <> 0 ->
  ended cur (yyscanner st) -> delivers (yyscanner st) ts fails ->
  yields (let* n := strlen_at (yyscanner st) (lloc cur) in
          let* (next, st) := look_ahead st cur n in unicode_token cur next st) (cur :: ts) fails.
Proof.
  intros Hn Hu Hz He Hd. unfold ended in He. rewrite Hn in He.
  assert (Hc : is_comment (code cur) = false).
  { unfold is_unicode in Hu. apply orb_true_iff in Hu as [Hu|Hu]; apply Z.eqb_eq in Hu; by rewrite Hu. }
  destruct (He Hu) as [n En]. rewrite En. cbn [obind].
  pose proof (look_ahead_spec st cur n ts fails (strlen_at_fetch _ _ _ En) Hd) as Hla.
  pose proof (filtered_unicode fails cur ts Hz Hc Hu) as Hfil. destruct ts as [|next ts].
  - destruct Hla as (msg & -> & ->). exact Hfil.
  - destruct Hla as (st2 & -> & Hh2 & Hst2). cbn [obind]. by eapply unicode_token_spec.
Qed.

Lemma base_yylex_spec fuel : forall st ts fails, stands st ts fails -> (List.length ts < fuel)%nat ->
  yields (base_yylex fuel st) ts fails.
Proof.
  induction fuel as [|fuel IH]; intros st ts fails Hst Hf; [lia|]. cbn [base_yylex].
  pose proof (get_token_spec _ _ _ Hst) as Hg. destruct ts as [|cur ts].
  { by destruct Hg as (msg & -> & ->). }
  destruct Hg as (st' & -> & Hh & Ha). cbn [obind]. unfold after in Ha. destruct (decide (code cur = 0)) as [Hz|Hz].
  { destruct (code_zero cur Hz) as (-> & -> & ->). cbn [yields]. rewrite decide_True by done.
    cbn [filtered]. by rewrite Hz. }
  destruct Ha as [He Hd]. assert (Hst' : stands st' ts fails) by (unfold stands; by rewrite Hh).
  destruct (token_length (code cur)) as [n|] eqn:Hn; [by apply yields_fixed|].
  destruct (is_unicode (code cur)) eqn:Hu; [by apply yields_unicode|].
  destruct (is_comment (code cur)) eqn:Hc.
  - specialize (IH st' ts fails Hst' ltac:(cbn [List.length] in Hf; lia)).
    assert (Efil : filtered fails (cur :: ts) = filtered fails ts).
    { cbn [filtered]. by rewrite (proj2 (Z.eqb_neq _ _) Hz), Hc. }
    unfold yields in *. rewrite Efil. destruct (base_yylex fuel st') as [[t st2]|msg|]; [|done..].
    destruct (decide (code t = 0)); [done|]. destruct IH as (ts' & ? & ? & ?). exists ts'. cbn. split_and!; (done || lia).
  - cbn [yields]. rewrite decide_False by done. exists ts. split; [done|]. split; [cbn; lia|].
    rewrite filtered_cons by done. by rewrite Hn.
Qed.

Lemma parser_tokens_spec fuel : forall st ts fails, stands st ts fails -> (List.length ts < fuel)%nat ->
  parser_tokens fuel st = filtered fails ts.
Proof.
  induction fuel as [|fuel IH]; intros st ts fails Hst Hf; [lia|]. cbn [parser_tokens].
  pose proof (base_yylex_spec (S fuel) st ts fails Hst Hf) as Hy. unfold yields in Hy.
  destruct (base_yylex (S fuel) st) as [[t st']|msg|]; cbn [obind]; [|done..].
  destruct (decide (code t = 0)) as [Hz|Hz].
  - by rewrite Hz.
  - rewrite (proj2 (Z.eqb_neq _ _) Hz). destruct Hy as (ts' & Hst' & Hl & ->). rewrite (IH st' ts' fails); [done|done|lia].
Qed.

(** ** Comments *)

Definition looks_ahead (c : Z) : bool :=
  match token_length c with Some _ => true | None => is_unicode c end.

Definition comment_first (ts : list lexed) : bool :=
  match ts with t :: _ => is_comment (code t) | [] => false end.

(** No comment stands where the filter looks for the next word. *)
Fixpoint separated (ts : list lexed) : bool :=
  match ts with
  | [] => true
  | t :: ts' =>
      negb (looks_ahead (code t) && comment_first ts') &&
      negb (is_unicode (code t) && match ts' with n :: ts'' => (code n =? UESCAPE) && comment_first ts'' | [] => false end) &&
      separated ts'
  end.

Definition without_comments (ts : list lexed) : list lexed :=
  List.filter (fun t => negb (is_comment (code t))) ts.

Lemma without_comment t ts : is_comment (code t) = false -> without_comments (t :: ts) = t :: without_comments ts.
Proof. intros Hc. unfold without_comments. cbn [List.filter]. by rewrite Hc. Qed.

Lemma looks_ahead_no_comment c : looks_ahead c = true -> is_comment c = false.
Proof.
  unfold looks_ahead, token_length, is_unicode, is_comment. intros Hl. apply orb_false_iff.
  repeat case_match; cond_tac; subst; simplify_eq; try by split.
  apply orb_true_iff in Hl as [Hl|Hl]; apply Z.eqb_eq in Hl; subst; by split.
Qed.

Lemma filtered_without n : forall fails ts, (List.length ts <= n)%nat -> separated ts = true ->
  filtered fails ts = filtered fails (without_comments ts).
Proof.
  induction n as [|n IH]; intros fails ts Hl Hs; [by destruct ts; [|cbn in Hl; lia]|].
  destruct ts as [|t ts]; [done|]. cbn [List.length separated] in *. split_andb.
  match goal with E : separated ts = true |- _ => pose proof (IH fails ts ltac:(lia) E) as IHt; rename E into Hts end.
  destruct (is_comment (code t)) eqn:Hc.
  { unfold without_comments. cbn [List.filter]. rewrite Hc. cbn [negb]. fold (without_comments ts). rewrite <-IHt.
    cbn [filtered]. rewrite Hc. destruct (Z.eqb_spec (code t) 0) as [Hz|]; [by rewrite Hz in Hc|done]. }
  rewrite without_comment by done. destruct (decide (code t = 0)) as [Hz|Hz]; [cbn [filtered]; by rewrite Hz|].
  unfold looks_ahead in *. destruct (is_unicode (code t)) eqn:Hu.
  - rewrite !filtered_unicode by done. destruct ts as [|n' ts'']; [done|].
    assert (Hn : is_comment (code n') = false) by (destruct (token_length (code t)); done).
    rewrite without_comment in * by done. cbn [andb comment_first] in *. destruct (code n' =? UESCAPE); [|by rewrite IHt].
    destruct ts'' as [|third rest]; [done|]. cbn [andb comment_first] in *. rewrite without_comment by done.
    cbn [separated List.length] in *. split_andb. by rewrite (IH fails rest) by (done || lia).
  - rewrite !filtered_cons by done. destruct (token_length (code t)); [|by rewrite IHt].
    destruct ts as [|n' ts'']; [done|]. cbn [andb comment_first] in *. rewrite without_comment in * by done. by rewrite IHt.
Qed.

(** ** Properties *)

(** C32. The calls the parser makes return the tokens of the filter on the list, or
    its error, for every scanner; the zeroes the filter puts into the scan
    buffer are taken back before the scanner runs again. *)
Theorem base_yylex_filters (y : Y) (ts : list lexed) (fails : option string) (Hscan : delivers y ts fails) :
  parser_tokens (S (List.length ts)) (parser_start y) = filtered fails ts.
Proof. by apply parser_tokens_spec; [|lia]. Qed.

(** Comments make no difference where none stands between a word and the one
    the filter looks for after it. *)
Theorem comments_make_no_difference (y y' : Y) (ts : list lexed) (fails : option string)
    (Hscan : delivers y ts fails) (Hscan' : delivers y' (without_comments ts) fails)
    (Hsep : separated ts = true) :
  parser_tokens (S (List.length ts)) (parser_start y) =
    parser_tokens (S (List.length (without_comments ts))) (parser_start y').
Proof.
  rewrite (parser_tokens_spec _ (parser_start y) ts fails Hscan),
    (parser_tokens_spec _ (parser_start y') (without_comments ts) fails Hscan') by lia.
  by apply (filtered_without (List.length ts)).
Qed.

(** C39. A comment between two words hides the second one: NOT, a comment and IN
    reach the parser as NOT and IN, where NOT and IN reach it as [NOT_LA] and
    IN. *)
Theorem comment_hides_lookahead (y y' : Y) (not cm in_p eof : lexed)
    (Hnot : code not = NOT) (Hcm : is_comment (code cm) = true) (Hin : code in_p = IN_P) (Heof : code eof = 0)
    (Hscan : delivers y [not; cm; in_p; eof] None) (Hscan' : delivers y' [not; in_p; eof] None) :
  parser_tokens 5 (parser_start y) = Ok [mkLexed NOT (yylval not) (lloc not); in_p; eof] /\
  parser_tokens 4 (parser_start y') = Ok [mkLexed NOT_LA (yylval not) (lloc not); in_p; eof].
Proof.
  rewrite (parser_tokens_spec 5 (parser_start y) _ _ Hscan), (parser_tokens_spec 4 (parser_start y') _ _ Hscan')
    by (cbn [List.length]; lia).
  assert (Hcm' : code cm =? 0 = false) by (destruct (Z.eqb_spec (code cm) 0) as [E|]; [by rewrite E in Hcm|done]).
  assert (Hlook : replace_token NOT (code cm) = NOT).
  { apply orb_true_iff in Hcm as [E|E]; apply Z.eqb_eq in E; by rewrite E. }
  cbn [filtered]. rewrite Hnot, Hin, Heof, Hcm, Hcm'. cbn -[replace_token]. rewrite Hlook. by split.
Qed.
End filter.

(** ** A scanner on a list of tokens

    Like flex it puts a zero after the token and takes it back at the next call. *)
Record list_lexer : Type := mkListLexer {
  tokens_left : list (lexed * nat);
  buf : list ascii;
  held : option (nat * ascii)
}.

Definition put_back (s : list_lexer) : list ascii :=
  match held s with Some (p, c) => <[p := c]> (buf s) | None => buf s end.

Definition list_core_yylex (s : list_lexer) : outcome (lexed * list_lexer) :=
  match tokens_left s with
  | [] => Elog "syntax error"
  | (t, z) :: r =>
      let b := put_back s in
      let hold := match b !! z with Some c => Some (z, c) | None => None end in
      Ok (t, mkListLexer r (<[z := NUL]> b) hold)
  end.

#[global] Instance list_core_lexer : CoreLexer list_lexer := {
  core_yylex := list_core_yylex;
  scanbuf := buf;
  set_scanbuf s b := mkListLexer (tokens_left s) b (held s)
}.

#[global] Instance list_core_lexer_laws : CoreLexerLaws.
Proof.
  split; [done|done|by intros []|]. intros s t s'. cbn. unfold list_core_yylex, put_back.
  destruct (tokens_left s) as [|[t' z] r]; [done|]. intros [= _ <-]. cbn. rewrite length_insert.
  destruct (held s) as [[p c]|]; [apply length_insert|done].
Qed.

Definition start_lexer (query : string) (ts : list (lexed * nat)) : list_lexer :=
  mkListLexer ts (list_ascii_of_string query ++ [NUL; NUL]) None.

(** [NOT/**/IN] and [NOT IN] *)
Definition t_not : lexed := mkLexed NOT (V_keyword (list_ascii_of_string "not")) 0.
Definition t_comment : lexed := mkLexed C_COMMENT V_none 3.
Definition t_in (loc : Z) : lexed := mkLexed IN_P (V_keyword (list_ascii_of_string "in")) loc.
Definition t_eof (loc : Z) : lexed := mkLexed 0 V_none loc.
Definition with_comment : list_lexer :=
  start_lexer "NOT/**/IN" [(t_not, 3%nat); (t_comment, 7%nat); (t_in 7, 9%nat); (t_eof 9, 9%nat)].
Definition with_space : list_lexer := start_lexer "NOT IN" [(t_not, 3%nat); (t_in 4, 6%nat); (t_eof 6, 6%nat)].
Definition with_space' : list_lexer := start_lexer "NOT    IN" [(t_not, 3%nat); (t_in 7, 9%nat); (t_eof 9, 9%nat)].

Ltac delivers_tac :=
  repeat first
    [ eapply delivers_end; [reflexivity|reflexivity]
    | eapply delivers_token;
        [reflexivity|discriminate|vm_compute; first [reflexivity | intros; discriminate | eexists; reflexivity]|] ].

Theorem comment_hides_lookahead_witness :
  parser_tokens 5 (parser_start with_comment) = Ok [t_not; t_in 7; t_eof 9] /\
  parser_tokens 4 (parser_start with_space') = Ok [mkLexed NOT_LA (yylval t_not) 0; t_in 7; t_eof 9].
Proof.
  assert (H1 : delivers with_comment [t_not; t_comment; t_in 7; t_eof 9] None) by delivers_tac.
  assert (H2 : delivers with_space' [t_not; t_in 7; t_eof 9] None) by delivers_tac.
  exact (comment_hides_lookahead with_comment with_space' t_not t_comment (t_in 7) (t_eof 9)
    eq_refl eq_refl eq_refl eq_refl H1 H2).
Defined.

(** [U&"d\0061" WITH TIME] *)
Definition t_uident : lexed := mkLexed UIDENT (V_str (list_ascii_of_string "d\0061")) 0.
Definition t_with : lexed := mkLexed WITH (V_keyword (list_ascii_of_string "with")) 10.
Definition t_time : lexed := mkLexed TIME (V_keyword (list_ascii_of_string "time")) 15.
Definition with_unicode : list_lexer :=
  mkListLexer [(t_uident, 9%nat); (t_with, 14%nat); (t_time, 19%nat); (t_eof 19, 19%nat)]
    (list_ascii_of_string "U&" ++ ["034"%char] ++ list_ascii_of_string "d\0061" ++ ["034"%char] ++
     list_ascii_of_string " WITH TIME" ++ [NUL; NUL]) None.

Theorem base_yylex_filters_witness :
  parser_tokens 5 (parser_start with_unicode) =
    Ok [mkLexed IDENT (V_str (list_ascii_of_string "da")) 0; mkLexed WITH_LA (yylval t_with) 10; t_time; t_eof 19].
Proof.
  assert (H1 : delivers with_unicode [t_uident; t_with; t_time; t_eof 19] None).
  { eapply delivers_token; [reflexivity|discriminate| |].
    { intros _. eexists. vm_compute. reflexivity. }
    delivers_tac. }
  rewrite (base_yylex_filters with_unicode _ _ H1 : parser_tokens 5 (parser_start with_unicode) = _).
  vm_compute. reflexivity.
Defined.

(** [NOT IN/**/] *)
Definition with_separated : list_lexer :=
  start_lexer "NOT IN/**/"
    [(t_not, 3%nat); (t_in 4, 6%nat); (mkLexed C_COMMENT V_none 6, 10%nat); (t_eof 6, 6%nat)].

Theorem comments_make_no_difference_witness :
  parser_tokens 5 (parser_start with_separated) = parser_tokens 4 (parser_start with_space) /\
  parser_tokens 4 (parser_start with_space) = Ok [mkLexed NOT_LA (yylval t_not) 0; t_in 4; t_eof 6].
Proof.
  assert (H1 : delivers with_separated [t_not; t_in 4; mkLexed C_COMMENT V_none 6; t_eof 6] None) by delivers_tac.
  assert (H2 : delivers with_space [t_not; t_in 4; t_eof 6] None) by delivers_tac.
  split; [|vm_compute; reflexivity].
  exact (comments_make_no_difference with_separated with_space
    [t_not; t_in 4; mkLexed C_COMMENT V_none 6; t_eof 6] None H1 H2 eq_refl).
Defined.
