(* ===== verification/Lists.v ===== *)
(** * Lists

    [src/postgres/src_backend_nodes_list.c]: a [List] is a header with an array
    of cells, first the one allocated with the header and then a block of its
    own.  The lists live in a store, so that an operation sees what another one
    did through a second pointer to the same list, as in [list_concat(l, l)];
    NIL is the null pointer and the only empty list.

    [represents] says which list of elements a pointer stands for.  The
    operations are proved against it: what they return, that lists they do not
    concern stay, and that every access is within the array. *)
From stdpp Require Import gmap.
From S2P Require Import Prelude StringInfo Array.

Open Scope Z_scope.

Inductive NodeTag : Type := T_List | T_IntList | T_OidList.

Definition tag_eqb (a b : NodeTag) : bool :=
  match a, b with
  | T_List, T_List | T_IntList, T_IntList | T_OidList, T_OidList => true
  | _, _ => false
  end.

(** ** [port/pg_bitutils.h] *)

(** [31 - __builtin_clz(word)] *)
Definition pg_leftmost_one_pos32 (word : Z) : outcome Z :=
  if word =? 0 then Undef else Ok (Z.log2 word).

Definition pg_nextpower2_32 (num : Z) : outcome Z :=
  if (0 <? num) && (num <=? 2147483648) then                            (* Assert *)
    if Z.land num (num - 1) =? 0 then Ok num
    else let* p := pg_leftmost_one_pos32 num in Ok (Z.shiftl 1 (p + 1))
  else Undef.

Section lists.
Context {V : Type}.

(** A cell, [None] as long as nothing is stored in it. *)
Abbreviation ListCell := (option V).

(** [inline] says that [elements] is [initial_elements]. *)
Record List : Type := mkList {
  type : NodeTag;
  length : Z;
  max_length : Z;
  elements : list ListCell;
  inline : bool
}.

(** The lists by address, and a [List *]. *)
Abbreviation store := (gmap nat List).
Abbreviation ptr := (option nat).

Definition deref (h : store) (a : nat) : outcome List :=
  match h !! a with Some l => Ok l | None => Undef end.

(** In units of [ListCell], of 8 bytes. *)
Definition LIST_HEADER_OVERHEAD : Z := 3.

Definition palloc_cells (n : Z) : outcome (list ListCell) :=
  if (0 <=? n * 8) && (n * 8 <=? MaxAllocSize) then Ok (replicate (Z.to_nat n) None)
  else Elog "invalid memory alloc request size".

(** [memcpy(&dst[off], src, n * sizeof(ListCell))] *)
Definition copy_cells (dst : list ListCell) (off : nat) (src : list ListCell) (n : nat) : outcome (list ListCell) :=
  if (off + n <=? List.length dst)%nat && (n <=? List.length src)%nat then
    Ok (take off dst ++ take n src ++ drop (off + n) dst)%list
  else Undef.

Definition store_cell (cells : list ListCell) (i : Z) (c : ListCell) : outcome (list ListCell) :=
  if (0 <=? i) && (i <? Z.of_nat (List.length cells)) then Ok (<[Z.to_nat i := c]> cells) else Undef.

(** ** Operations *)

Definition new_list (h : store) (t : NodeTag) (min_size : Z) : outcome (nat * store) :=
  if 0 <? min_size then                                                  (* Assert *)
    let* max_size := pg_nextpower2_32 (Z.max 8 (min_size + LIST_HEADER_OVERHEAD)) in
    let max_size := max_size - LIST_HEADER_OVERHEAD in
    let* cells := palloc_cells (LIST_HEADER_OVERHEAD + max_size) in
    let newlist := mkList t min_size max_size (drop (Z.to_nat LIST_HEADER_OVERHEAD) cells) true in
    let a := fresh (dom h) in
    Ok (a, <[a := newlist]> h)
  else Undef.

(** [enlarge_list]: both ways to the larger array keep the [length] cells in use;
    [repalloc] keeps the whole block. *)
Definition enlarge_list (l : List) (min_size : Z) : outcome List :=
  if max_length l <? min_size then                                       (* Assert *)
    let* new_max_len := pg_nextpower2_32 (Z.max 16 min_size) in
    let* cells := palloc_cells new_max_len in
    let* cells :=
      if inline l then copy_cells cells 0 (elements l) (Z.to_nat (length l))
      else copy_cells cells 0 (elements l) (List.length (elements l)) in
    Ok (mkList (type l) (length l) new_max_len cells false)
  else Undef.

Definition make_room (l : List) : outcome List :=
  if max_length l <=? length l then enlarge_list l (length l + 1) else Ok l.

Definition new_head_cell (l : List) : outcome List :=
  let* l := make_room l in
  let* cells := copy_cells (elements l) 1 (elements l) (Z.to_nat (length l)) in
  Ok (mkList (type l) (length l + 1) (max_length l) cells (inline l)).

Definition new_tail_cell (l : List) : outcome List :=
  let* l := make_room l in
  Ok (mkList (type l) (length l + 1) (max_length l) (elements l) (inline l)).

(** [lfirst(&list->elements[i]) = datum] *)
Definition set_nth (l : List) (i : Z) (datum : V) : outcome List :=
  let* cells := store_cell (elements l) i (Some datum) in
  Ok (mkList (type l) (length l) (max_length l) cells (inline l)).

Definition lappend (h : store) (list : ptr) (datum : V) : outcome (nat * store) :=
  let* (a, h) :=
    match list with
    | None => new_list h T_List 1
    | Some a =>
        let* l := deref h a in
        if tag_eqb (type l) T_List then                                  (* Assert *)
          let* l := new_tail_cell l in Ok (a, <[a := l]> h)
        else Undef
    end in
  let* l := deref h a in
  let* l := set_nth l (length l - 1) datum in
  Ok (a, <[a := l]> h).

Definition lcons (h : store) (datum : V) (list : ptr) : outcome (nat * store) :=
  let* (a, h) :=
    match list with
    | None => new_list h T_List 1
    | Some a =>
        let* l := deref h a in
        if tag_eqb (type l) T_List then                                  (* Assert *)
          let* l := new_head_cell l in Ok (a, <[a := l]> h)
        else Undef
    end in
  let* l := deref h a in
  let* l := set_nth l 0 datum in
  Ok (a, <[a := l]> h).

(** [list->elements[i] = datum; ...] from [i] on. *)
Fixpoint fill (l : List) (i : Z) (data : list V) : outcome List :=
  match data with
  | [] => Ok l
  | datum :: data => let* l := set_nth l i datum in fill l (i + 1) data
  end.

Definition list_make (h : store) (t : NodeTag) (data : list V) : outcome (nat * store) :=
  let* (a, h) := new_list h t (Z.of_nat (List.length data)) in
  let* l := deref h a in
  let* l := fill l 0 data in
  Ok (a, <[a := l]> h).

Definition list_make1_impl (h : store) (t : NodeTag) (datum1 : V) := list_make h t [datum1].
Definition list_make2_impl (h : store) (t : NodeTag) (datum1 datum2 : V) := list_make h t [datum1; datum2].
Definition list_make3_impl (h : store) (t : NodeTag) (datum1 datum2 datum3 : V) :=
  list_make h t [datum1; datum2; datum3].
Definition list_make4_impl (h : store) (t : NodeTag) (datum1 datum2 datum3 datum4 : V) :=
  list_make h t [datum1; datum2; datum3; datum4].

(** A new list of [n] cells copied from [src]. *)
Definition copy_list (h : store) (t : NodeTag) (src : list ListCell) (n : Z) : outcome (ptr * store) :=
  let* (a, h) := new_list h t n in
  let* l := deref h a in
  let* cells := copy_cells (elements l) 0 src (Z.to_nat (length l)) in
  Ok (Some a, <[a := mkList (type l) (length l) (max_length l) cells (inline l)]> h).

Definition list_copy (h : store) (oldlist : ptr) : outcome (ptr * store) :=
  match oldlist with
  | None => Ok (None, h)
  | Some a => let* l := deref h a in copy_list h (type l) (elements l) (length l)
  end.

Definition list_copy_tail (h : store) (oldlist : ptr) (nskip : Z) : outcome (ptr * store) :=
  let nskip := if nskip <? 0 then 0 else nskip in
  match oldlist with
  | None => Ok (None, h)
  | Some a =>
      let* l := deref h a in
      if length l <=? nskip then Ok (None, h)
      else copy_list h (type l) (drop (Z.to_nat nskip) (elements l)) (length l - nskip)
  end.

(** [list_copy_deep]; [copyObjectImpl], generated code, is a parameter. *)
Fixpoint fill_deep (copyObjectImpl : V -> outcome V) (l : List) (i : Z) (src : list ListCell) : outcome List :=
  match src with
  | [] => Ok l
  | None :: _ => Undef
  | Some x :: src =>
      let* y := copyObjectImpl x in
      let* l := set_nth l i y in
      fill_deep copyObjectImpl l (i + 1) src
  end.

Definition list_copy_deep (copyObjectImpl : V -> outcome V) (h : store) (oldlist : ptr) : outcome (ptr * store) :=
  match oldlist with
  | None => Ok (None, h)
  | Some a =>
      let* l := deref h a in
      if tag_eqb (type l) T_List then                                    (* Assert *)
        let* (b, h) := new_list h (type l) (length l) in
        let* newlist := deref h b in
        let* newlist := fill_deep copyObjectImpl newlist 0 (take (Z.to_nat (length l)) (elements l)) in
        Ok (Some b, <[b := newlist]> h)
      else Undef
  end.

(** After [enlarge_list] the code reads [list2] again, which may be [list1]. *)
Definition list_concat (h : store) (list1 list2 : ptr) : outcome (ptr * store) :=
  match list1, list2 with
  | None, _ => list_copy h list2
  | Some _, None => Ok (list1, h)
  | Some a1, Some a2 =>
      let* l1 := deref h a1 in
      let* l2 := deref h a2 in
      if tag_eqb (type l1) (type l2) then                                (* Assert *)
        let new_len := length l1 + length l2 in
        let* l1 := if max_length l1 <? new_len then enlarge_list l1 new_len else Ok l1 in
        let h := <[a1 := l1]> h in
        let* l2 := deref h a2 in
        let* cells := copy_cells (elements l1) (Z.to_nat (length l1)) (elements l2) (Z.to_nat (length l2)) in
        Ok (list1, <[a1 := mkList (type l1) new_len (max_length l1) cells (inline l1)]> h)
      else Undef
  end.

Definition list_truncate (h : store) (list : ptr) (new_size : Z) : outcome (ptr * store) :=
  if new_size <=? 0 then Ok (None, h)
  else
    match list with
    | None => Ok (None, h)
    | Some a =>
        let* l := deref h a in
        if new_size <? length l then
          Ok (list, <[a := mkList (type l) new_size (max_length l) (elements l) (inline l)]> h)
        else Ok (list, h)
    end.

Definition list_free (h : store) (list : ptr) : outcome store :=
  match list with
  | None => Ok h
  | Some a => let* _ := deref h a in Ok (delete a h)
  end.

(** [memmove(&elements[n], &elements[n + 1], (length - 1 - n) * sizeof(ListCell))] *)
Definition close_gap (cells : list ListCell) (n len : nat) : outcome (list ListCell) :=
  copy_cells cells n (drop (S n) cells) (len - 1 - n).

Definition list_delete_nth_cell (h : store) (list : nat) (n : Z) : outcome (ptr * store) :=
  let* l := deref h list in
  if (0 <=? n) && (n <? length l) then                                   (* Assert *)
    if length l =? 1 then let* h := list_free h (Some list) in Ok (None, h)
    else
      let* cells := close_gap (elements l) (Z.to_nat n) (Z.to_nat (length l)) in
      Ok (Some list, <[list := mkList (type l) (length l - 1) (max_length l) cells (inline l)]> h)
  else Undef.

(** A [ListCell *] is the index of the cell: [cell - list->elements]. *)
Definition list_delete_cell (h : store) (list : nat) (cell : Z) : outcome (ptr * store) :=
  list_delete_nth_cell h list cell.

(** [list_length] and [list_nth] of [pg_list.h]. *)
Definition list_length (h : store) (l : ptr) : outcome Z :=
  match l with None => Ok 0 | Some a => let* l := deref h a in Ok (length l) end.

Definition list_nth (h : store) (list : ptr) (n : Z) : outcome V :=
  match list with
  | None => Undef                                                        (* Assert *)
  | Some a =>
      let* l := deref h a in
      if (0 <=? n) && (n <? length l) then                               (* Assert *)
        match elements l !! Z.to_nat n with Some (Some v) => Ok v | _ => Undef end
      else Undef
  end.

(** ** What a pointer stands for *)

(** The longest list for which no allocation fails. *)
Definition max_cells : Z := 67108864.

Definition small (n : nat) : Prop := Z.of_nat n <= max_cells - 3.

(** The array of [l] begins with [xs]. *)
Record holds (l : List) (xs : list V) : Prop := {
  holds_length : length l = Z.of_nat (List.length xs);
  holds_room : length l <= max_length l;
  holds_block : Z.of_nat (List.length (elements l)) = max_length l;
  holds_cells : take (List.length xs) (elements l) = map Some xs
}.

Inductive represents (h : store) (t : NodeTag) : ptr -> list V -> Prop :=
| represents_nil : represents h t None []
| represents_list a l xs : h !! a = Some l -> type l = t -> holds l xs -> xs <> [] -> represents h t (Some a) xs.

(** The lists at other addresses stay as they are. *)
Definition keeps_others (p : ptr) (h h' : store) : Prop :=
  forall a l, p <> Some a -> h !! a = Some l -> h' !! a = Some l.

(** ** Powers of two *)

Lemma pg_nextpower2_32_ok n : 0 < n <= 2147483648 ->
  exists k, pg_nextpower2_32 n = Ok (2 ^ k) /\ n <= 2 ^ k < 2 * n /\ 0 <= k.
Proof.
  intros Hn. unfold pg_nextpower2_32. rewrite (proj2 (Z.ltb_lt _ _)), (proj2 (Z.leb_le _ _)) by lia. cbn [andb].
  pose proof (Z.log2_spec n ltac:(lia)) as Hlog. pose proof (Z.log2_nonneg n) as Hk.
  rewrite Z.pow_succ_r in Hlog by done. destruct (Z.eqb_spec (Z.land n (n - 1)) 0) as [Hl|Hl];
    rewrite land_pred_power in Hl by lia.
  - exists (Z.log2 n). rewrite <-Hl. split; [done|lia].
  - exists (Z.log2 n + 1). unfold pg_leftmost_one_pos32. rewrite (proj2 (Z.eqb_neq _ _)) by lia. cbn [obind].
    rewrite Z.shiftl_mul_pow2, Z.mul_1_l by lia. split; [done|]. rewrite Z.pow_add_r by lia. lia.
Qed.

(** The power of two is within what can be allocated. *)
Lemma nextpower2_cells n : 0 < n <= max_cells ->
  exists m, pg_nextpower2_32 n = Ok m /\ n <= m <= max_cells.
Proof.
  unfold max_cells. intros Hn. destruct (pg_nextpower2_32_ok n ltac:(lia)) as (k & -> & Hk & H0).
  exists (2 ^ k). split; [done|]. split; [lia|]. change 67108864 with (2 ^ 26).
  apply Z.pow_le_mono_r; [lia|]. apply Z.lt_succ_r. apply (Z.pow_lt_mono_r_iff 2); [lia|lia|].
  change (2 ^ Z.succ 26) with (2 * 67108864). lia.
Qed.

Lemma palloc_cells_ok n : 0 <= n <= max_cells -> palloc_cells n = Ok (replicate (Z.to_nat n) None).
Proof.
  unfold palloc_cells, max_cells, MaxAllocSize. intros Hn. by rewrite !(proj2 (Z.leb_le _ _)) by lia.
Qed.

(** ** The arrays *)

Lemma copy_cells_ok dst off src n :
  (off + n <= List.length dst)%nat -> (n <= List.length src)%nat ->
  copy_cells dst off src n = Ok (take off dst ++ take n src ++ drop (off + n) dst)%list.
Proof. intros H1 H2. unfold copy_cells. by rewrite !(proj2 (Nat.leb_le _ _)) by done. Qed.

Lemma take_insert_end {A} (l : list A) n c : (n < List.length l)%nat -> take (S n) (<[n:=c]> l) = (take n l ++ [c])%list.
Proof.
  intros Hn. rewrite (take_S_r _ n c) by (by rewrite list_lookup_insert_eq). by rewrite take_insert_ge by lia.
Qed.

Lemma enlarge_list_ok l xs m : holds l xs -> max_length l < m <= max_cells ->
  exists l', enlarge_list l m = Ok l' /\ holds l' xs /\ m <= max_length l' /\ type l' = type l.
Proof.
  intros [H1 H2 H3 H4] Hm. unfold enlarge_list. rewrite (proj2 (Z.ltb_lt _ _)) by lia.
  destruct (nextpower2_cells (Z.max 16 m)) as (n & -> & Hn); [unfold max_cells in *; lia|]. cbn [obind].
  rewrite palloc_cells_ok by lia. cbn [obind].
  set (k := if inline l then Z.to_nat (length l) else List.length (elements l)).
  assert (Hk : (List.length xs <= k <= List.length (elements l))%nat) by (unfold k; destruct (inline l); lia).
  assert (Hcopy : (if inline l then copy_cells (replicate (Z.to_nat n) None) 0 (elements l) (Z.to_nat (length l))
                   else copy_cells (replicate (Z.to_nat n) None) 0 (elements l) (List.length (elements l))) =
                  copy_cells (replicate (Z.to_nat n) None) 0 (elements l) k) by (unfold k; by destruct (inline l)).
  rewrite Hcopy, copy_cells_ok by (rewrite ?length_replicate; lia). rewrite take_0. cbn [obind app].
  eexists. split; [done|]. split; [|split; [cbn; lia|done]]. constructor; cbn [length max_length elements]; [done|lia|..].
  - rewrite length_app, length_take, length_drop, length_replicate. lia.
  - rewrite take_app_le by (rewrite length_take; lia). rewrite take_take, Nat.min_l by lia. done.
Qed.

Lemma make_room_ok l xs : holds l xs -> length l < max_cells ->
  exists l', make_room l = Ok l' /\ holds l' xs /\ length l' < max_length l' /\ type l' = type l.
Proof.
  intros H Hm. unfold make_room. pose proof (holds_room _ _ H). destruct (Z.leb_spec (max_length l) (length l)).
  - destruct (enlarge_list_ok l xs (length l + 1) H) as (l' & -> & H' & Hl' & Ht); [lia|].
    exists l'. split; [done|]. split; [done|]. split; [|done]. rewrite (holds_length _ _ H'), <-(holds_length _ _ H). lia.
  - by exists l.
Qed.

Lemma new_list_ok h t n : 0 < n <= max_cells - 3 ->
  exists a l, new_list h t n = Ok (a, <[a := l]> h) /\ h !! a = None /\ type l = t /\ length l = n /\
    n <= max_length l /\ Z.of_nat (List.length (elements l)) = max_length l.
Proof.
  intros Hn. unfold new_list, LIST_HEADER_OVERHEAD. rewrite (proj2 (Z.ltb_lt _ _)) by lia.
  destruct (nextpower2_cells (Z.max 8 (n + 3))) as (m & -> & Hm); [unfold max_cells in *; lia|]. cbn [obind].
  rewrite palloc_cells_ok by lia. cbn [obind]. eexists _, _. split; [done|].
  split; [apply not_elem_of_dom, is_fresh|]. cbn [type length max_length elements]. do 2 (split; [done|]).
  split; [lia|]. rewrite length_drop, length_replicate. lia.
Qed.

(** ** The operations *)

Lemma represents_room h t p xs : represents h t p xs -> forall a, p = Some a ->
  exists l, h !! a = Some l /\ type l = t /\ holds l xs /\ xs <> [].
Proof. intros []; [done|]. intros b [= <-]. by exists l. Qed.

Lemma keeps_insert p h a l : p = Some a \/ h !! a = None -> keeps_others p h (<[a := l]> h).
Proof.
  intros Ha b l' Hb Hl. rewrite lookup_insert_ne; [done|]. intros ->. destruct Ha as [->|Ha]; [done|congruence].
Qed.

Lemma keeps_trans p h1 h2 h3 : keeps_others p h1 h2 -> keeps_others p h2 h3 -> keeps_others p h1 h3.
Proof. intros H1 H2 a l Ha Hl. auto. Qed.

Lemma set_nth_ok l i x : 0 <= i < Z.of_nat (List.length (elements l)) ->
  set_nth l i x = Ok (mkList (type l) (length l) (max_length l) (<[Z.to_nat i := Some x]> (elements l)) (inline l)).
Proof.
  intros Hi. unfold set_nth, store_cell. by rewrite (proj2 (Z.leb_le _ _)), (proj2 (Z.ltb_lt _ _)) by lia.
Qed.

Lemma insert_twice h a (l l' : List) : <[a := l']> (<[a := l]> h) = (<[a := l']> h : store).
Proof. apply insert_insert_eq. Qed.

(** What an operation leaves behind: the list it returns, and the lists elsewhere. *)
Definition leaves (t : NodeTag) (p : ptr) (xs : list V) (h : store) (r : outcome (ptr * store)) : Prop :=
  exists p' h', r = Ok (p', h') /\ represents h' t p' xs /\ keeps_others p h h' /\
    (forall a, p' = Some a -> p = Some a \/ h !! a = None).

(** A list in place of the one at [a], or at a new address. *)
Lemma leaves_list t p xs h a l : type l = t -> holds l xs -> xs <> [] -> p = Some a \/ h !! a = None ->
  leaves t p xs h (Ok (Some a, <[a := l]> h)).
Proof.
  intros Ht Hl Hx Ha. exists (Some a), (<[a := l]> h). split; [done|]. split.
  - eapply represents_list; [apply lookup_insert_eq|done..].
  - split; [by apply keeps_insert|]. by intros b [= <-].
Qed.

Lemma leaves_nil t p h : leaves t p [] h (Ok (None, h)).
Proof. exists None, h. split; [done|]. split; [constructor|]. split; [by intros a l|done]. Qed.

Lemma leaves_same t p xs h : represents h t p xs -> leaves t p xs h (Ok (p, h)).
Proof. intros H. exists p, h. split; [done|]. split; [done|]. split; [by intros a l|]. intros a ->. by left. Qed.

Definition with_ptr (r : outcome (nat * store)) : outcome (ptr * store) :=
  let* (a, h) := r in Ok (Some a, h).

Lemma list_eqb_refl t : tag_eqb t t = true.
Proof. by destruct t. Qed.

Lemma lappend_ok h p xs x : represents h T_List p xs -> Z.of_nat (List.length xs) < max_cells ->
  leaves T_List p (xs ++ [x]) h (with_ptr (lappend h p x)).
Proof.
  intros Hp Hs. unfold lappend, with_ptr. destruct Hp as [|a l xs Ha Ht Hl Hx].
  - destruct (new_list_ok h T_List 1) as (a & l & -> & Hn & Ht & Hl & Hm & He); [unfold max_cells; lia|]. cbn [obind].
    unfold deref. rewrite lookup_insert_eq. cbn [obind]. rewrite set_nth_ok by lia. cbn [obind].
    rewrite insert_twice, Hl. change (Z.to_nat (1 - 1)) with 0%nat.
    apply leaves_list; [done| |done|by right]. constructor; cbn; [done|lia|by rewrite length_insert|].
    by rewrite take_insert_end by lia.
  - unfold deref. rewrite Ha. cbn [obind]. rewrite Ht. cbn [tag_eqb].
    destruct (make_room_ok l xs Hl) as (l' & E & [H1 H2 H3 H4] & Hr & Ht'); [by rewrite (holds_length _ _ Hl)|].
    unfold new_tail_cell. rewrite E. cbn [obind]. rewrite lookup_insert_eq. cbn [obind].
    rewrite set_nth_ok by (cbn; lia). cbn [obind type length max_length elements inline]. rewrite insert_twice.
    apply leaves_list; [cbn; congruence| |by destruct xs|by left].
    replace (Z.to_nat (length l' + 1 - 1)) with (List.length xs) by lia.
    constructor; cbn [length max_length elements]; [rewrite length_app; cbn; lia|lia|by rewrite length_insert|].
    rewrite length_app, Nat.add_1_r, take_insert_end, H4 by lia. by rewrite map_app.
Qed.

Lemma lcons_ok h p xs x : represents h T_List p xs -> Z.of_nat (List.length xs) < max_cells ->
  leaves T_List p (x :: xs) h (with_ptr (lcons h x p)).
Proof.
  intros Hp Hs. unfold lcons, with_ptr. destruct Hp as [|a l xs Ha Ht Hl Hx].
  - destruct (new_list_ok h T_List 1) as (a & l & -> & Hn & Ht & Hl & Hm & He); [unfold max_cells; lia|]. cbn [obind].
    unfold deref. rewrite lookup_insert_eq. cbn [obind]. rewrite set_nth_ok by lia. cbn [obind]. rewrite insert_twice.
    apply leaves_list; [done| |done|by right]. constructor; cbn; [done|lia|by rewrite length_insert|].
    by rewrite take_insert_end by lia.
  - unfold deref. rewrite Ha. cbn [obind]. rewrite Ht. cbn [tag_eqb].
    destruct (make_room_ok l xs Hl) as (l' & E & [H1 H2 H3 H4] & Hr & Ht'); [by rewrite (holds_length _ _ Hl)|].
    unfold new_head_cell. rewrite E. cbn [obind]. rewrite copy_cells_ok by lia. cbn [obind]. rewrite lookup_insert_eq.
    cbn [obind]. set (cells := (take 1 _ ++ _)%list).
    assert (Hc : List.length cells = List.length (elements l')).
    { unfold cells. rewrite !length_app, !length_take, length_drop. lia. }
    rewrite set_nth_ok by (cbn; lia). cbn [obind type length max_length elements inline]. rewrite insert_twice.
    apply leaves_list; [cbn; congruence| |done|by left]. change (Z.to_nat 0) with 0%nat.
    constructor; cbn [length max_length elements]; [cbn; lia|lia|by rewrite length_insert; lia|].
    unfold cells. destruct (elements l') as [|c e] eqn:Ee; [cbn in *; lia|]. rewrite <-Ee in *.
    replace (take 1 (elements l')) with [c] by (by rewrite Ee). cbn [app List.length insert list_insert].
    rewrite firstn_cons. cbn [map]. f_equal. rewrite take_app_le by (rewrite length_take; lia).
    rewrite take_take, Nat.min_l by lia. done.
Qed.

Lemma fill_ok data : forall l i, 0 <= i -> i + Z.of_nat (List.length data) <= Z.of_nat (List.length (elements l)) ->
  exists cells, fill l i data = Ok (mkList (type l) (length l) (max_length l) cells (inline l)) /\
    cells = (take (Z.to_nat i) (elements l) ++ map Some data ++ drop (Z.to_nat i + List.length data) (elements l))%list.
Proof.
  induction data as [|x data IH]; intros l i Hi Hl; cbn [fill List.length] in *.
  { exists (elements l). split; [by destruct l|]. cbn [map app]. by rewrite Nat.add_0_r, take_drop. }
  rewrite set_nth_ok by lia. cbn [obind]. eexists. destruct (IH (mkList (type l) (length l) (max_length l)
    (<[Z.to_nat i := Some x]> (elements l)) (inline l)) (i + 1)) as (cells & -> & ->); [lia|cbn; rewrite length_insert; lia|].
  split; [done|]. cbn [elements]. replace (Z.to_nat (i + 1)) with (S (Z.to_nat i)) by lia.
  rewrite take_insert_end, drop_insert_lt by lia. rewrite <-app_assoc. cbn [app map]. do 3 f_equal. f_equal. lia.
Qed.

(** [list_make1_impl] to [list_make4_impl] *)
Lemma list_make_ok h t xs : xs <> [] -> small (List.length xs) -> leaves t None xs h (with_ptr (list_make h t xs)).
Proof.
  intros Hx Hs. unfold list_make, with_ptr, small in *. assert (Hpos : (0 < List.length xs)%nat) by (destruct xs; cbn in *; [done|lia]).
  destruct (new_list_ok h t (Z.of_nat (List.length xs))) as (a & l & -> & Hna & Ht & Hl & Hm & He); [lia|]. cbn [obind].
  unfold deref. rewrite lookup_insert_eq. cbn [obind]. destruct (fill_ok xs l 0) as (cells & -> & ->); [lia|lia|].
  cbn [obind]. rewrite insert_twice. change (Z.to_nat 0) with 0%nat. rewrite take_0. cbn [app].
  apply leaves_list; [done| |done|by right]. constructor; cbn [length max_length elements]; [done|lia|..].
  - rewrite length_app, length_map, length_drop. lia.
  - by rewrite take_app_le, take_ge by (rewrite length_map; lia).
Qed.

Lemma copy_list_ok h t p src xs n :
  take (List.length xs) src = map Some xs -> (List.length xs <= List.length src)%nat -> xs <> [] ->
  n = Z.of_nat (List.length xs) -> n <= max_cells - 3 -> leaves t p xs h (copy_list h t src n).
Proof.
  intros Hsrc Hle Hx -> Hn. unfold copy_list. assert (Hpos : (0 < List.length xs)%nat) by (destruct xs; cbn in *; [done|lia]).
  destruct (new_list_ok h t (Z.of_nat (List.length xs))) as (a & l & -> & Hna & Ht & Hl & Hm & He); [lia|]. cbn [obind].
  unfold deref. rewrite lookup_insert_eq. cbn [obind]. rewrite Hl, Nat2Z.id, copy_cells_ok by lia.
  cbn [obind]. rewrite insert_twice, take_0. cbn [app].
  apply leaves_list; [done| |done|by right]. constructor; cbn [length max_length elements]; [done|lia|..].
  - rewrite length_app, length_take, length_drop. lia.
  - rewrite take_app_le by (rewrite length_take; lia). by rewrite take_take, Nat.min_id.
Qed.

Lemma list_copy_ok h t p xs : represents h t p xs -> Z.of_nat (List.length xs) <= max_cells - 3 ->
  leaves t None xs h (list_copy h p).
Proof.
  intros Hp Hs. unfold list_copy. destruct Hp as [|a l xs Ha Ht Hl Hx]; [apply leaves_nil|].
  unfold deref. rewrite Ha. cbn [obind]. rewrite Ht, (holds_length _ _ Hl).
  apply copy_list_ok; [apply Hl| |done|done|done]. pose proof (holds_block _ _ Hl). pose proof (holds_room _ _ Hl).
  rewrite (holds_length _ _ Hl) in *. lia.
Qed.

Lemma fill_deep_fill copyObjectImpl f xs : forall l i, Forall (fun x => copyObjectImpl x = Ok (f x)) xs ->
  fill_deep copyObjectImpl l i (map Some xs) = fill l i (map f xs).
Proof.
  induction xs as [|x xs IH]; intros l i Hc; [done|]. inversion Hc as [|? ? Hx Hxs]; subst. cbn [map fill_deep fill].
  rewrite Hx. cbn [obind]. destruct (set_nth l i (f x)); [|done..]. by apply IH.
Qed.

Lemma list_copy_deep_ok copyObjectImpl f h p xs : represents h T_List p xs -> small (List.length xs) ->
  Forall (fun x => copyObjectImpl x = Ok (f x)) xs -> leaves T_List None (map f xs) h (list_copy_deep copyObjectImpl h p).
Proof.
  intros Hp Hs Hc. unfold list_copy_deep. destruct Hp as [|a l xs Ha Ht Hl Hx]; [apply leaves_nil|].
  unfold deref at 1. rewrite Ha. cbn [obind]. rewrite Ht, (holds_length _ _ Hl). cbn [tag_eqb].
  pose proof (list_make_ok h T_List (map f xs) ltac:(by destruct xs) ltac:(by rewrite length_map)) as Hm.
  unfold with_ptr, list_make in Hm. rewrite length_map in Hm. rewrite Nat2Z.id, (holds_cells _ _ Hl).
  destruct (new_list h T_List (Z.of_nat (List.length xs))) as [[b h1]| |]; cbn [obind] in *; [|exact Hm..].
  destruct (deref h1 b) as [l1| |]; cbn [obind] in *; [|exact Hm..].
  rewrite (fill_deep_fill _ f) by done. destruct (fill l1 0 (map f xs)); exact Hm.
Qed.

Lemma drop_map_take (l : list ListCell) xs n : take (List.length xs) l = map Some xs ->
  take (List.length (drop n xs)) (drop n l) = map Some (drop n xs).
Proof.
  intros H. rewrite length_drop. rewrite <-skipn_map, <-H, skipn_firstn_comm. done.
Qed.

Lemma list_copy_tail_ok h t p xs nskip : represents h t p xs -> Z.of_nat (List.length xs) <= max_cells - 3 ->
  leaves t None (drop (Z.to_nat nskip) xs) h (list_copy_tail h p nskip).
Proof.
  intros Hp Hs. unfold list_copy_tail.
  assert (Hn : Z.to_nat (if nskip <? 0 then 0 else nskip) = Z.to_nat nskip) by (destruct (Z.ltb_spec nskip 0); lia).
  set (k := if nskip <? 0 then 0 else nskip) in *. assert (Hk : 0 <= k) by (unfold k; destruct (Z.ltb_spec nskip 0); lia).
  rewrite <-Hn. clearbody k. clear Hn nskip. destruct Hp as [|a l xs Ha Ht Hl Hx]; [rewrite drop_nil; apply leaves_nil|].
  unfold deref. rewrite Ha. cbn [obind]. rewrite (holds_length _ _ Hl).
  destruct (Z.leb_spec (Z.of_nat (List.length xs)) k); [rewrite drop_ge by lia; apply leaves_nil|].
  pose proof (holds_block _ _ Hl). pose proof (holds_room _ _ Hl). rewrite (holds_length _ _ Hl) in *. rewrite Ht.
  apply copy_list_ok.
  - apply drop_map_take, Hl.
  - rewrite !length_drop. lia.
  - intros E. apply (f_equal List.length) in E. rewrite length_drop in E. cbn in E. lia.
  - rewrite length_drop. lia.
  - lia.
Qed.

Lemma list_truncate_ok h t p xs n : represents h t p xs -> leaves t p (take (Z.to_nat n) xs) h (list_truncate h p n).
Proof.
  intros Hp. unfold list_truncate. destruct (Z.leb_spec n 0).
  { replace (Z.to_nat n) with 0%nat by lia. rewrite take_0. apply leaves_nil. }
  destruct Hp as [|a l xs Ha Ht Hl Hx]; [rewrite take_nil; apply leaves_nil|].
  unfold deref. rewrite Ha. cbn [obind]. rewrite (holds_length _ _ Hl).
  destruct (Z.ltb_spec n (Z.of_nat (List.length xs))).
  - destruct Hl as [H1 H2 H3 H4]. apply leaves_list; [done| | |by left].
    + constructor; cbn [length max_length elements]; [rewrite length_take; lia|lia|done|].
      by rewrite <-firstn_map, <-H4, take_take, length_take.
    + intros E. apply (f_equal List.length) in E. rewrite length_take in E. cbn in E. lia.
  - rewrite take_ge by lia. apply leaves_same. by eapply represents_list.
Qed.

Lemma list_delete_nth_cell_ok h t a xs n : represents h t (Some a) xs -> (n < List.length xs)%nat ->
  leaves t (Some a) (take n xs ++ drop (S n) xs) h (list_delete_nth_cell h a (Z.of_nat n)).
Proof.
  intros Hp Hn. inversion Hp as [|? l ? Ha Ht Hl Hx]; subst. unfold list_delete_nth_cell, deref. rewrite Ha. cbn [obind].
  rewrite (holds_length _ _ Hl), (proj2 (Z.leb_le _ _)), (proj2 (Z.ltb_lt _ _)) by lia. cbn [andb].
  destruct (Z.eqb_spec (Z.of_nat (List.length xs)) 1) as [H1|H1].
  - unfold list_free, deref. rewrite Ha. cbn [obind]. destruct xs as [|x [|]]; [done| |cbn in *; lia].
    replace n with 0%nat by (cbn in *; lia). exists None, (delete a h). split; [done|]. split; [constructor|].
    split; [|done]. intros b l' Hb Hl'. rewrite lookup_delete_ne; [done|]. by intros ->.
  - destruct Hl as [H2 H3 H4 H5]. unfold close_gap. rewrite !Nat2Z.id.
    rewrite copy_cells_ok by (rewrite ?length_drop; lia). cbn [obind].
    apply leaves_list; [done| | |by left].
    2:{ intros E. apply (f_equal List.length) in E. rewrite length_app, length_take, length_drop in E. cbn in E. lia. }
    constructor; cbn [length max_length elements];
      rewrite ?length_app, ?length_take, ?length_drop, ?length_app, ?length_take, ?length_drop; [lia..|].
    rewrite map_app, <-firstn_map, <-skipn_map, <-H5, take_take, Nat.min_l by lia.
    rewrite skipn_firstn_comm, app_assoc. rewrite take_app_le by (rewrite length_app, !length_take, length_drop; lia).
    rewrite take_ge by (rewrite length_app, !length_take, length_drop; lia).
    f_equal. f_equal. lia.
Qed.

(** [list2] may be [list1]. *)
Lemma list_concat_ok h t p1 p2 xs ys : represents h t p1 xs -> represents h t p2 ys ->
  Z.of_nat (List.length xs + List.length ys) <= max_cells - 3 -> leaves t p1 (xs ++ ys) h (list_concat h p1 p2).
Proof.
  intros Hp1 Hp2 Hs. destruct Hp1 as [|a1 l1 xs Ha1 Ht1 Hl1 Hx].
  { cbn [app]. destruct p2; apply (list_copy_ok h t); (done || cbn in Hs; lia). }
  destruct Hp2 as [|a2 l2 ys Ha2 Ht2 Hl2 Hy].
  { rewrite app_nil_r. apply leaves_same. by eapply represents_list. }
  unfold list_concat, deref. rewrite Ha1, Ha2. cbn [obind]. rewrite Ht1, Ht2, list_eqb_refl.
  assert (Hroom : exists l, (if max_length l1 <? length l1 + length l2 then enlarge_list l1 (length l1 + length l2)
      else Ok l1) = Ok l /\ holds l xs /\ length l1 + length l2 <= max_length l /\ type l = t).
  { rewrite (holds_length _ _ Hl1), (holds_length _ _ Hl2) in *. destruct (Z.ltb_spec (max_length l1)
      (Z.of_nat (List.length xs) + Z.of_nat (List.length ys))).
    - destruct (enlarge_list_ok l1 xs (Z.of_nat (List.length xs) + Z.of_nat (List.length ys)) Hl1) as (l & ? & ? & ? & ?);
        [lia|]. exists l. split_and!; (done || congruence).
    - exists l1. split_and!; (done || lia). }
  destruct Hroom as (l & -> & Hl & Hm & Ht). cbn [obind].
  assert (Hl2' : exists l', (<[a1 := l]> h) !! a2 = Some l' /\ holds l' ys).
  { destruct (decide (a1 = a2)) as [->|Hne]; [|exists l2; by rewrite lookup_insert_ne by done].
    exists l. rewrite lookup_insert_eq. split; [done|]. assert (l1 = l2) as -> by congruence.
    assert (Hlen : List.length xs = List.length ys).
    { pose proof (holds_length _ _ Hl1). pose proof (holds_length _ _ Hl2). lia. }
    assert (xs = ys) as <-; [|done]. apply (inj (map Some)).
    by rewrite <-(holds_cells _ _ Hl1), <-(holds_cells _ _ Hl2), Hlen. }
  destruct Hl2' as (l' & -> & Hl'). cbn [obind]. rewrite (holds_length _ _ Hl1), (holds_length _ _ Hl2) in *.
  rewrite (holds_length _ _ Hl), (holds_length _ _ Hl'), !Nat2Z.id. destruct Hl as [H1 H2 H3 H4]. destruct Hl' as [H1' H2' H3' H4'].
  rewrite copy_cells_ok by lia. cbn [obind]. rewrite insert_twice.
  apply leaves_list; [done| |by destruct xs|by left].
  constructor; cbn [length max_length elements]; [rewrite length_app; lia|lia|..].
  - rewrite !length_app, !length_take, length_drop. lia.
  - rewrite app_assoc, take_app_le by (rewrite !length_app, !length_take; lia).
    rewrite take_ge by (rewrite !length_app, !length_take; lia). by rewrite H4, H4', map_app.
Qed.

(** ** Programs on lists *)

(** A statement of a program whose variables hold lists; a variable is assigned
    what the operation returns, as the comments of the code ask for. *)
Inductive op : Type :=
| OCopyDeep (f : V -> V) (v w : nat)     (* v = list_copy_deep(w), where copyObjectImpl returns f(x) *)
| OMake (v : nat) (xs : list V)          (* v = list_make1(x1), ..., list_make4(x1, x2, x3, x4) *)
| OAppend (v : nat) (x : V)              (* v = lappend(v, x) *)
| OPrepend (v : nat) (x : V)             (* v = lcons(x, v) *)
| OConcat (v w : nat)                    (* v = list_concat(v, w) *)
| OCopy (v w : nat)                      (* v = list_copy(w) *)
| OCopyTail (v w : nat) (n : Z)          (* v = list_copy_tail(w, n) *)
| OTruncate (v : nat) (n : Z)            (* v = list_truncate(v, n) *)
| ODelete (v : nat) (n : nat).           (* v = list_delete_nth_cell(v, n) *)

Definition run_op (h : store) (vars : list ptr) (o : op) : outcome (store * list ptr) :=
  let assign v (r : outcome (ptr * store)) := let* (p, h) := r in Ok (h, <[v := p]> vars) in
  match o with
  | OCopyDeep f v w => let* q := read vars w in assign v (list_copy_deep (fun x => Ok (f x)) h q)
  | OMake v xs =>
      let* _ := read vars v in
      assign v (match xs with
                | [x1] => with_ptr (list_make1_impl h T_List x1)
                | [x1; x2] => with_ptr (list_make2_impl h T_List x1 x2)
                | [x1; x2; x3] => with_ptr (list_make3_impl h T_List x1 x2 x3)
                | [x1; x2; x3; x4] => with_ptr (list_make4_impl h T_List x1 x2 x3 x4)
                | _ => Undef
                end)
  | OAppend v x => let* p := read vars v in assign v (with_ptr (lappend h p x))
  | OPrepend v x => let* p := read vars v in assign v (with_ptr (lcons h x p))
  | OConcat v w => let* p := read vars v in let* q := read vars w in assign v (list_concat h p q)
  | OCopy v w => let* q := read vars w in assign v (list_copy h q)
  | OCopyTail v w n => let* q := read vars w in assign v (list_copy_tail h q n)
  | OTruncate v n => let* p := read vars v in assign v (list_truncate h p n)
  | ODelete v n =>
      let* p := read vars v in
      match p with Some a => assign v (list_delete_nth_cell h a (Z.of_nat n)) | None => Undef end
  end.

Fixpoint run_ops (h : store) (vars : list ptr) (os : list op) : outcome (store * list ptr) :=
  match os with
  | [] => Ok (h, vars)
  | o :: os => let* (h, vars) := run_op h vars o in run_ops h vars os
  end.

(** The same on values. *)
Definition val (vals : list (list V)) (v : nat) : list V := nth v vals [].

Definition op_effect (vals : list (list V)) (o : op) : list (list V) :=
  match o with
  | OCopyDeep f v w => <[v := map f (val vals w)]> vals
  | OMake v xs => <[v := xs]> vals
  | OAppend v x => <[v := (val vals v ++ [x])%list]> vals
  | OPrepend v x => <[v := x :: val vals v]> vals
  | OConcat v w => <[v := (val vals v ++ val vals w)%list]> vals
  | OCopy v w => <[v := val vals w]> vals
  | OCopyTail v w n => <[v := drop (Z.to_nat n) (val vals w)]> vals
  | OTruncate v n => <[v := take (Z.to_nat n) (val vals v)]> vals
  | ODelete v n => <[v := (take n (val vals v) ++ drop (S n) (val vals v))%list]> vals
  end.

(** Variables that exist, lists within the limit, and deletion within the list. *)
Definition admissible (vals : list (list V)) (o : op) : Prop :=
  let var v := (v < List.length vals)%nat in
  match o with
  | OMake v xs => var v /\ (1 <= List.length xs <= 4)%nat
  | OAppend v _ | OPrepend v _ => var v /\ small (S (List.length (val vals v)))
  | OConcat v w => var v /\ var w /\ small (List.length (val vals v) + List.length (val vals w))
  | OCopyDeep _ v w | OCopy v w | OCopyTail v w _ => var v /\ var w /\ small (List.length (val vals w))
  | OTruncate v _ => var v
  | ODelete v n => var v /\ (n < List.length (val vals v))%nat
  end.

Fixpoint all_admissible (vals : list (list V)) (os : list op) : Prop :=
  match os with
  | [] => True
  | o :: os => admissible vals o /\ all_admissible (op_effect vals o) os
  end.

(** The variables hold lists of their own with the values. *)
Record hold_values (h : store) (vars : list ptr) (vals : list (list V)) : Prop := {
  vars_length : List.length vars = List.length vals;
  vars_values v p : vars !! v = Some p -> represents h T_List p (val vals v);
  vars_distinct v w a : vars !! v = Some (Some a) -> vars !! w = Some (Some a) -> v = w
}.

Lemma represents_kept h h' t p q xs : represents h t q xs -> keeps_others p h h' -> (forall a, q = Some a -> p <> Some a) ->
  represents h' t q xs.
Proof.
  intros Hq Hk Hne. destruct Hq as [|a l xs Ha Ht Hl Hx]; [constructor|].
  eapply represents_list; [apply Hk; [by apply Hne|exact Ha]|done..].
Qed.

Lemma val_insert_eq vals v xs : (v < List.length vals)%nat -> val (<[v := xs]> vals) v = xs.
Proof. intros Hv. unfold val. apply nth_lookup_Some. by apply list_lookup_insert_eq. Qed.

Lemma val_insert_ne vals v w xs : v <> w -> val (<[v := xs]> vals) w = val vals w.
Proof. intros Hv. unfold val. rewrite !nth_lookup. by rewrite list_lookup_insert_ne. Qed.

(** An assignment of what an operation returns. *)
Lemma assign_ok h vars vals v p q xs r : hold_values h vars vals -> vars !! v = Some q -> p = q \/ p = None ->
  leaves T_List p xs h r ->
  exists h' vars', (let* (p, h) := r in Ok (h, <[v := p]> vars)) = Ok (h', vars') /\
    hold_values h' vars' (<[v := xs]> vals).
Proof.
  intros [Hl Hv Hd] Hq Hp (p' & h' & -> & Hr & Hk & Hfresh). cbn [obind]. exists h', (<[v := p']> vars). split; [done|].
  pose proof (lookup_lt_Some _ _ _ Hq) as Hlt.
  assert (Hother : forall w a, w <> v -> vars !! w = Some (Some a) -> p <> Some a /\ h !! a <> None).
  { intros w a Hw Ha. split.
    - intros ->. destruct Hp as [<-|]; [|done]. by apply Hw, (Hd _ _ a).
    - pose proof (Hv w _ Ha) as H. inversion H. congruence. }
  split.
  - by rewrite !length_insert.
  - intros w p0 Hw. destruct (decide (w = v)) as [->|Hne].
    + rewrite list_lookup_insert_eq in Hw by done. rewrite val_insert_eq by lia. by injection Hw as <-.    + rewrite list_lookup_insert_ne in Hw by done. rewrite val_insert_ne by done.
      eapply represents_kept; [by apply Hv|exact Hk|]. intros a ->. by apply (Hother w).
  - assert (Hnew : forall w a, w <> v -> <[v := p']> vars !! v = Some (Some a) -> vars !! w = Some (Some a) -> False).
    { intros w a Hne Ha Hw. rewrite list_lookup_insert_eq in Ha by done. injection Ha as ->.
      destruct (Hother w a Hne Hw) as [H1 H2]. by destruct (Hfresh a eq_refl). }
    intros w1 w2 a H1 H2. destruct (decide (w1 = v)) as [->|Hne1]; destruct (decide (w2 = v)) as [->|Hne2]; [done|..].
    + rewrite (list_lookup_insert_ne _ v w2) in H2 by done. by destruct (Hnew w2 a).
    + rewrite (list_lookup_insert_ne _ v w1) in H1 by done. by destruct (Hnew w1 a).
    + rewrite list_lookup_insert_ne in H1, H2 by done. by apply (Hd _ _ a).
Qed.

Lemma read_var h vars vals v : hold_values h vars vals -> (v < List.length vals)%nat ->
  exists p, vars !! v = Some p /\ read vars v = Ok p /\ represents h T_List p (val vals v).
Proof.
  intros [Hl Hv _] Hlt. destruct (read_lt vars v) as (p & Ep & Er); [lia|]. exists p. auto.
Qed.

Lemma run_op_ok h vars vals o : hold_values h vars vals -> admissible vals o ->
  exists h' vars', run_op h vars o = Ok (h', vars') /\ hold_values h' vars' (op_effect vals o).
Proof.
  intros Hh Ha. unfold max_cells, small in *. destruct o as [f v w|v xs|v x|v x|v w|v w|v w n|v n|v n]; cbn [admissible run_op op_effect] in *.
  - destruct Ha as (Hv & Hw & Hs). destruct (read_var _ _ _ _ Hh Hv) as (p & Ep & _ & _).
    destruct (read_var _ _ _ _ Hh Hw) as (q & Eq & -> & Hq). cbn [obind].
    eapply assign_ok; [done|exact Ep|by right|]. apply list_copy_deep_ok; [done|done|].
    by apply List.Forall_forall.
  - destruct Ha as [Hv Hxs]. destruct (read_var _ _ _ _ Hh Hv) as (p & Ep & -> & Hp). cbn [obind].
    assert (Hm : leaves T_List None xs h (with_ptr (list_make h T_List xs))).
    { apply list_make_ok; [by destruct xs; [cbn in Hxs; lia|]|unfold small, max_cells; lia]. }
    eapply assign_ok; [done|exact Ep|by right|].
    destruct xs as [|x1 [|x2 [|x3 [|x4 [|x5 xs]]]]]; cbn [List.length] in Hxs; [lia|exact Hm..|lia].
  - destruct Ha as [Hv Hs]. destruct (read_var _ _ _ _ Hh Hv) as (p & Ep & -> & Hp). cbn [obind].
    eapply assign_ok; [done|exact Ep|by left|]. apply lappend_ok; [done|]. unfold small, max_cells in *. lia.
  - destruct Ha as [Hv Hs]. destruct (read_var _ _ _ _ Hh Hv) as (p & Ep & -> & Hp). cbn [obind].
    eapply assign_ok; [done|exact Ep|by left|]. apply lcons_ok; [done|]. unfold small, max_cells in *. lia.
  - destruct Ha as (Hv & Hw & Hs). destruct (read_var _ _ _ _ Hh Hv) as (p & Ep & -> & Hp).
    destruct (read_var _ _ _ _ Hh Hw) as (q & Eq & -> & Hq). cbn [obind].
    eapply assign_ok; [done|exact Ep|by left|]. by eapply list_concat_ok.
  - destruct Ha as (Hv & Hw & Hs). destruct (read_var _ _ _ _ Hh Hv) as (p & Ep & _ & _).
    destruct (read_var _ _ _ _ Hh Hw) as (q & Eq & -> & Hq). cbn [obind].
    eapply assign_ok; [done|exact Ep|by right|]. by apply list_copy_ok.
  - destruct Ha as (Hv & Hw & Hs). destruct (read_var _ _ _ _ Hh Hv) as (p & Ep & _ & _).
    destruct (read_var _ _ _ _ Hh Hw) as (q & Eq & -> & Hq). cbn [obind].
    eapply assign_ok; [done|exact Ep|by right|]. by apply list_copy_tail_ok.
  - destruct (read_var _ _ _ _ Hh Ha) as (p & Ep & -> & Hp). cbn [obind].
    eapply assign_ok; [done|exact Ep|by left|]. by apply list_truncate_ok.
  - destruct Ha as [Hv Hn]. destruct (read_var _ _ _ _ Hh Hv) as (p & Ep & -> & Hp). cbn [obind].
    destruct p as [a|]; [|destruct (val vals v); [cbn in Hn; lia|inversion Hp]].
    eapply assign_ok; [done|exact Ep|by left|]. by apply list_delete_nth_cell_ok.
Qed.

(** ** Property *)

(** C35. A program on lists computes what it says on values: every operation
    returns a list with the right elements, in an array with room for them, and
    changes no list held by another variable; no access leaves an array, and no
    allocation fails below the limit.  A list may be appended to itself. *)
Theorem lists_refine_values (os : list op) (h : store) (vars : list ptr) (vals : list (list V))
    (Hstart : hold_values h vars vals) (Hops : all_admissible vals os) :
  exists h' vars', run_ops h vars os = Ok (h', vars') /\ hold_values h' vars' (foldl op_effect vals os).
Proof.
  revert h vars vals Hstart Hops. induction os as [|o os IH]; intros h vars vals Hstart Hops; cbn [run_ops foldl].
  { by exists h, vars. }
  destruct Hops as [Ho Hos]. destruct (run_op_ok _ _ _ _ Hstart Ho) as (h1 & vars1 & -> & H1). cbn [obind]. by apply IH.
Qed.
End lists.

Arguments op : clear implicits.

(** [a = list_make2(1, 2); a = list_concat(a, a); b = list_copy_tail(a, 1); ...] *)
Definition sample_ops : list (op Z) :=
  [OMake 0 [1; 2]; OConcat 0 0; OCopyTail 1 0 1; OPrepend 1 9; ODelete 0 2; OTruncate 1 3; OAppend 0 7].

Theorem lists_refine_values_witness :
  exists h vars, run_ops (V := Z) ∅ [None; None] sample_ops = Ok (h, vars) /\
    hold_values h vars [[1; 2; 2; 7]; [9; 2; 1]].
Proof.
  assert (H0 : hold_values (V := Z) ∅ [None; None] [[]; []]).
  { split; [reflexivity| |].
    - intros [|[|v]] p E; [injection E as <-; constructor..|done].
    - intros [|[|v]] w a E; done. }
  assert (Hops : all_admissible [[]; []] sample_ops).
  { repeat split; first [vm_compute; discriminate | vm_compute; lia]. }
  exact (lists_refine_values sample_ops ∅ [None; None] [[]; []] H0 Hops).
Defined.
