(* ===== verification/Bitmapset.v ===== *)
(** * Bitmap sets

    [src/postgres/src_backend_nodes_bitmapset.c]: a set of small integers as the
    bits of an array of 64-bit words; NULL is the empty set.  A [Bitmapset *] is
    an optional list of words, a word a [Z] below [2^64], at most [2^25] of them,
    as elements are of the type [int]; where an [int] can wrap it is written.  [members] lists the
    elements in order; the operations are proved against it. *)
From Stdlib Require Import Sorted.
From S2P Require Import Prelude.

Open Scope Z_scope.

Definition BITS_PER_BITMAPWORD : Z := 64.

Definition WORDNUM (x : Z) : Z := x / BITS_PER_BITMAPWORD.
Definition BITNUM (x : Z) : Z := x mod BITS_PER_BITMAPWORD.

(** The rightmost one-bit, in two's complement. *)
Definition RIGHTMOST_ONE (x : Z) : Z := wrap64 (Z.land x (- x)).

(** [__builtin_ctzl] and [__builtin_popcountl] *)
Fixpoint pos_ctz (p : positive) : Z :=
  match p with xO p => 1 + pos_ctz p | _ => 0 end.

Fixpoint pos_popcount (p : positive) : Z :=
  match p with xH => 1 | xO p => pos_popcount p | xI p => 1 + pos_popcount p end.

Definition pg_rightmost_one_pos64 (word : Z) : outcome Z :=
  match word with Zpos p => Ok (pos_ctz p) | _ => Undef end.

Definition pg_popcount64 (word : Z) : Z :=
  match word with Zpos p => pos_popcount p | _ => 0 end.

Definition Bitmapset : Type := list Z.

(** ** Operations *)

Definition bms_copy (a : option Bitmapset) : option Bitmapset :=
  match a with None => None | Some words => Some words end.

Fixpoint all_zero (words : list Z) : bool :=
  match words with
  | [] => true
  | w :: words => if negb (w =? 0) then false else all_zero words
  end.

Definition bms_is_empty (a : option Bitmapset) : bool :=
  match a with None => true | Some words => all_zero words end.

(** The two loops of [bms_equal]. *)
Fixpoint equal_words (shorter longer : list Z) : bool :=
  match shorter, longer with
  | w :: shorter, w' :: longer => if negb (w =? w') then false else equal_words shorter longer
  | _, _ => all_zero longer
  end.

Definition bms_equal (a b : option Bitmapset) : bool :=
  match a, b with
  | None, None => true
  | None, Some _ => bms_is_empty b
  | Some _, None => bms_is_empty a
  | Some wa, Some wb =>
      if (List.length wa <=? List.length wb)%nat then equal_words wa wb else equal_words wb wa
  end.

Fixpoint num_members_loop (words : list Z) (result : Z) : Z :=
  match words with
  | [] => result
  | w :: words => num_members_loop words (if negb (w =? 0) then int32 (result + pg_popcount64 w) else result)
  end.

Definition bms_num_members (a : option Bitmapset) : Z :=
  match a with None => 0 | Some words => num_members_loop words 0 end.

(** The words from [wordnum] on: those left behind, and the result. *)
Fixpoint first_member_loop (words : list Z) (wordnum : Z) : outcome (list Z * Z) :=
  match words with
  | [] => Ok ([], -1)
  | w :: words' =>
      if negb (w =? 0) then
        let r := RIGHTMOST_ONE w in
        let* p := pg_rightmost_one_pos64 r in
        Ok (Z.land w (Z.lnot r) :: words', int32 (wordnum * BITS_PER_BITMAPWORD + p))
      else
        let* (words', result) := first_member_loop words' (wordnum + 1) in
        Ok (w :: words', result)
  end.

Definition bms_first_member (a : option Bitmapset) : outcome (option Bitmapset * Z) :=
  match a with
  | None => Ok (None, -1)
  | Some words => let* (words, result) := first_member_loop words 0 in Ok (Some words, result)
  end.

Definition all_ones : Z := 18446744073709551615.

Fixpoint next_member_loop (words : list Z) (wordnum mask : Z) : outcome Z :=
  match words with
  | [] => Ok (-2)
  | w :: words =>
      let w := Z.land w mask in
      if negb (w =? 0) then
        let* p := pg_rightmost_one_pos64 w in Ok (int32 (wordnum * BITS_PER_BITMAPWORD + p))
      else next_member_loop words (wordnum + 1) all_ones
  end.

Definition bms_next_member (a : option Bitmapset) (prevbit : Z) : outcome Z :=
  match a with
  | None => Ok (-2)
  | Some words =>
      let prevbit := int32 (prevbit + 1) in
      if prevbit <? 0 then Undef                     (* a shift by, and an access at, less than 0 *)
      else
        let mask := wrap64 (Z.shiftl all_ones (BITNUM prevbit)) in
        next_member_loop (drop (Z.to_nat (WORDNUM prevbit)) words) (WORDNUM prevbit) mask
  end.

(** ** The elements *)

Definition bits (w : Z) : list Z := List.filter (Z.testbit w) (seqZ 0 64).

Fixpoint members_from (wordnum : Z) (words : list Z) : list Z :=
  match words with
  | [] => []
  | w :: words => (map (Z.add (wordnum * 64)) (bits w) ++ members_from (wordnum + 1) words)%list
  end.

Definition members (a : option Bitmapset) : list Z :=
  match a with None => [] | Some words => members_from 0 words end.

Definition word (w : Z) : Prop := 0 <= w < 2 ^ 64.

(** Elements are of the type [int]: so many words hold all that are not negative. *)
Definition max_words : Z := 2 ^ 25.

Definition well_formed (a : option Bitmapset) : Prop :=
  match a with None => True | Some words => Forall word words /\ Z.of_nat (List.length words) <= max_words end.

(** ** Bits of a word *)

Lemma elem_bits w i : In i (bits w) <-> 0 <= i < 64 /\ Z.testbit w i = true.
Proof. unfold bits. by rewrite filter_In, <-list_elem_of_In, elem_of_seqZ. Qed.

Lemma ctz_spec p : Z.testbit (Zpos p) (pos_ctz p) = true /\ 0 <= pos_ctz p /\
  forall j, 0 <= j < pos_ctz p -> Z.testbit (Zpos p) j = false.
Proof.
  induction p as [p _|p (IH1 & IH2 & IH3)|]; cbn [pos_ctz].
  - split; [done|]. split; [lia|]. intros; lia.
  - change (Zpos p~0) with (2 * Zpos p). rewrite Z.add_1_l. split; [by rewrite Z.double_bits_succ|].
    split; [lia|]. intros j Hj. destruct (decide (j = 0)) as [->|]; [by rewrite Z.testbit_even_0|].
    replace j with (Z.succ (j - 1)) by lia. rewrite Z.double_bits_succ. apply IH3. lia.
  - split; [done|]. split; [lia|]. intros; lia.
Qed.

Lemma ctz_unique p k : 0 <= k -> Z.testbit (Zpos p) k = true ->
  (forall j, 0 <= j < k -> Z.testbit (Zpos p) j = false) -> pos_ctz p = k.
Proof.
  intros Hk Ht Hl. destruct (ctz_spec p) as (H1 & H2 & H3).
  destruct (Z.lt_trichotomy (pos_ctz p) k) as [Hlt|[Heq|Hgt]]; [|done|].
  - by rewrite Hl in H1.
  - by rewrite H3 in Ht.
Qed.

Lemma ctz_range p : word (Zpos p) -> 0 <= pos_ctz p < 64.
Proof.
  intros [_ Hw]. destruct (ctz_spec p) as (H1 & H2 & _). split; [done|].
  destruct (Z.lt_ge_cases (pos_ctz p) 64); [done|]. rewrite Z.bits_above_log2 in H1; [done|lia|].
  pose proof (proj1 (Z.log2_lt_pow2 (Zpos p) 64 eq_refl) Hw). lia.
Qed.

Lemma land_double a b : Z.land (2 * a) (2 * b) = 2 * Z.land a b.
Proof. rewrite !(Z.mul_comm 2), <-!(Z.shiftl_mul_pow2 _ 1) by lia. by rewrite Z.shiftl_land. Qed.

Lemma land_neg p : Z.land (Zpos p) (- Zpos p) = 2 ^ pos_ctz p.
Proof.
  induction p as [p _|p IH|]; cbn [pos_ctz]; [|..|done].
  - apply Z.bits_inj'. intros i Hi. rewrite Z.land_spec, Z.pow2_bits_eqb by done.
    change (Zpos p~1) with (2 * Zpos p + 1). replace (- (2 * Zpos p + 1)) with (2 * Z.lnot (Zpos p) + 1) by (unfold Z.lnot; lia).
    destruct (decide (i = 0)) as [->|]; [by rewrite !Z.testbit_odd_0|].
    replace i with (Z.succ (i - 1)) by lia. rewrite !Z.testbit_odd_succ, Z.lnot_spec, andb_negb_r by lia.
    symmetry. apply Z.eqb_neq. lia.
  - change (Zpos p~0) with (2 * Zpos p). replace (- (2 * Zpos p)) with (2 * - Zpos p) by lia.
    rewrite land_double, IH, Z.pow_add_r; [lia|lia|]. by apply ctz_spec.
Qed.

Lemma RIGHTMOST_ONE_pow p : word (Zpos p) -> RIGHTMOST_ONE (Zpos p) = 2 ^ pos_ctz p.
Proof.
  intros Hw. pose proof (ctz_range p Hw). unfold RIGHTMOST_ONE, wrap64. rewrite land_neg.
  apply Z.mod_small. split; [by apply Z.pow_nonneg|]. apply Z.pow_lt_mono_r; lia.
Qed.

Lemma rightmost_pow k : 0 <= k -> pg_rightmost_one_pos64 (2 ^ k) = Ok k.
Proof.
  intros Hk. destruct (2 ^ k) as [|p|p] eqn:E; pose proof (Z.pow_pos_nonneg 2 k); [lia| |lia]. cbn. f_equal.
  apply ctz_unique; [done|..].
  - rewrite <-E. by rewrite Z.pow2_bits_eqb, Z.eqb_refl.
  - intros j Hj. rewrite <-E, Z.pow2_bits_eqb by done. apply Z.eqb_neq. lia.
Qed.

(** *** Sorted lists *)

Lemma seqZ_sorted m n : StronglySorted Z.lt (seqZ m n).
Proof.
  destruct (Z.le_gt_cases 0 n) as [Hn|Hn]; [|by rewrite seqZ_nil by lia; constructor].
  rewrite <-(Z2Nat.id n Hn). generalize (Z.to_nat n) as k. clear n Hn. intros k. revert m.
  induction k as [|k IH]; intros m; [by rewrite seqZ_nil by lia; constructor|].
  rewrite seqZ_cons by lia. constructor.
  - replace (Z.pred (Z.of_nat (S k))) with (Z.of_nat k) by lia. apply IH.
  - apply List.Forall_forall. intros x Hx. apply list_elem_of_In, elem_of_seqZ in Hx. lia.
Qed.

Lemma filter_sorted (p : Z -> bool) l : StronglySorted Z.lt l -> StronglySorted Z.lt (List.filter p l).
Proof.
  induction 1 as [|x l Hl IH Hx]; cbn; [constructor|]. destruct (p x); [|done]. constructor; [done|].
  rewrite List.Forall_forall in *. intros y Hy. apply filter_In in Hy as [Hy _]. auto.
Qed.

Lemma bits_sorted w : StronglySorted Z.lt (bits w).
Proof. apply filter_sorted, seqZ_sorted. Qed.

Lemma filter_id {A} (p : A -> bool) l : (forall x, In x l -> p x = true) -> List.filter p l = l.
Proof.
  induction l as [|x l IH]; intros H; [done|]. cbn. rewrite H by by left. f_equal. apply IH. intros y Hy. apply H. by right.
Qed.

(** The least element of a sorted list is its head. *)
Lemma sorted_head x l : StronglySorted Z.lt l -> In x l -> (forall y, In y l -> x <= y) ->
  l = x :: List.filter (fun y => negb (y =? x)) l.
Proof.
  intros Hs Hx Hle. destruct Hs as [|z l Hl Hz]; [done|]. rewrite List.Forall_forall in Hz.
  assert (z = x) as ->.
  { destruct Hx as [|Hx]; [done|]. pose proof (Hz x Hx). pose proof (Hle z (or_introl eq_refl)). lia. }
  cbn. rewrite Z.eqb_refl. cbn. f_equal. symmetry. apply filter_id. intros y Hy. specialize (Hz y Hy).
  apply negb_true_iff, Z.eqb_neq. lia.
Qed.

Lemma bits_filter w w' (q : Z -> bool) :
  (forall i, 0 <= i < 64 -> Z.testbit w' i = Z.testbit w i && q i) -> bits w' = List.filter q (bits w).
Proof.
  intros H. unfold bits. assert (Hin : forall i, In i (seqZ 0 64) -> 0 <= i < 64).
  { intros i Hi. apply list_elem_of_In, elem_of_seqZ in Hi. lia. }
  induction (seqZ 0 64) as [|i l IH]; [done|]. cbn. rewrite H by (apply Hin; by left).
  rewrite IH by (intros j Hj; apply Hin; by right). destruct (Z.testbit w i); cbn; [|done]. by destruct (q i).
Qed.

(** The rightmost bit is the first, and without it the others are left. *)
Lemma bits_rightmost p : word (Zpos p) ->
  bits (Zpos p) = pos_ctz p :: bits (Z.land (Zpos p) (Z.lnot (2 ^ pos_ctz p))).
Proof.
  intros Hw. destruct (ctz_spec p) as (H1 & H2 & H3). pose proof (ctz_range p Hw).
  rewrite (bits_filter (Zpos p) (Z.land (Zpos p) (Z.lnot (2 ^ pos_ctz p))) (fun y => negb (y =? pos_ctz p))).
  - apply sorted_head; [apply bits_sorted|apply elem_bits; by split|]. intros y Hy. apply elem_bits in Hy as [Hy Ht].
    destruct (Z.le_gt_cases (pos_ctz p) y); [done|]. rewrite H3 in Ht by lia. done.
  - intros i Hi. by rewrite Z.land_spec, Z.lnot_spec, Z.pow2_bits_eqb, (Z.eqb_sym (pos_ctz p)) by lia.
Qed.

Lemma bits_zero : bits 0 = [].
Proof. by vm_compute. Qed.

Lemma bits_empty w : word w -> bits w = [] <-> w = 0.
Proof.
  intros Hw. split; [|intros ->; apply bits_zero]. destruct w as [|p|p]; [done| |unfold word in Hw; lia].
  by rewrite bits_rightmost.
Qed.

Lemma bits_inj w w' : word w -> word w' -> bits w = bits w' -> w = w'.
Proof.
  intros Hw Hw' E. apply Z.bits_inj'. intros i Hi. destruct (Z.lt_ge_cases i 64) as [Hlt|Hge].
  - apply Bool.eq_iff_eq_true. pose proof (elem_bits w i) as H1. pose proof (elem_bits w' i) as H2.
    rewrite E in H1. tauto.
  - assert (Hhigh : forall v, word v -> Z.testbit v i = false); [|by rewrite !Hhigh].
    intros v Hv. destruct (decide (v = 0)) as [->|]; [apply Z.bits_0|]. apply Z.bits_above_log2; [apply Hv|].
    unfold word in Hv. pose proof (proj1 (Z.log2_lt_pow2 v 64 ltac:(lia)) ltac:(lia)). lia.
Qed.

(** *** Counting *)

Lemma length_filter_map {A B} (p : B -> bool) (f : A -> B) l :
  List.length (List.filter p (map f l)) = List.length (List.filter (fun x => p (f x)) l).
Proof. induction l as [|x l IH]; [done|]. cbn. destruct (p (f x)); cbn; by rewrite IH. Qed.

Lemma count_step (k : nat) w :
  List.length (List.filter (Z.testbit w) (seqZ 0 (Z.of_nat (S k)))) =
    ((if Z.testbit w 0 then 1 else 0) + List.length (List.filter (Z.testbit (w / 2)) (seqZ 0 (Z.of_nat k))))%nat.
Proof.
  rewrite seqZ_cons by lia. replace (Z.pred (Z.of_nat (S k))) with (Z.of_nat k) by lia.
  replace (seqZ (Z.succ 0) (Z.of_nat k)) with (map (Z.add 1) (seqZ 0 (Z.of_nat k))) by apply (fmap_add_seqZ 1 0).
  cbn [List.filter]. assert (E : List.length (List.filter (Z.testbit w) (map (Z.add 1) (seqZ 0 (Z.of_nat k)))) =
    List.length (List.filter (Z.testbit (w / 2)) (seqZ 0 (Z.of_nat k)))).
  { rewrite length_filter_map. f_equal. apply filter_ext_in. intros i Hi. apply list_elem_of_In, elem_of_seqZ in Hi.
    rewrite <-Z.div2_div, Z.div2_spec, Z.shiftr_spec by lia. f_equal. lia. }
  destruct (Z.testbit w 0); cbn; by rewrite E.
Qed.

Lemma popcount_count p : forall k, Zpos p < 2 ^ Z.of_nat k ->
  pos_popcount p = Z.of_nat (List.length (List.filter (Z.testbit (Zpos p)) (seqZ 0 (Z.of_nat k)))).
Proof.
  assert (H0 : forall k, List.length (List.filter (Z.testbit 0) (seqZ 0 (Z.of_nat k))) = 0%nat).
  { intros k. induction (seqZ 0 (Z.of_nat k)) as [|i l IH]; [done|]. cbn. by rewrite Z.bits_0. }
  induction p as [p IH|p IH|]; intros k Hk; (destruct k as [|k]; [cbn in Hk; lia|]);
    rewrite Nat2Z.inj_succ, Z.pow_succ_r in Hk by lia; rewrite count_step; cbn [pos_popcount].
  - change (Z.testbit (Zpos p~1) 0) with true. cbv iota. change (Zpos p~1) with (2 * Zpos p + 1) in *.
    replace ((2 * Zpos p + 1) / 2) with (Zpos p) by (Z.div_mod_to_equations; lia). rewrite (IH k) by lia. lia.
  - change (Z.testbit (Zpos p~0) 0) with false. cbv iota. change (Zpos p~0) with (2 * Zpos p) in *.
    replace ((2 * Zpos p) / 2) with (Zpos p) by (Z.div_mod_to_equations; lia). rewrite (IH k) by lia. lia.
  - change (1 / 2) with 0. rewrite H0. done.
Qed.

Lemma popcount_bits w : word w -> pg_popcount64 w = Z.of_nat (List.length (bits w)).
Proof.
  intros Hw. destruct w as [|p|p]; [by rewrite bits_zero| |unfold word in Hw; lia].
  apply (popcount_count p 64). apply Hw.
Qed.

(** *** The mask of [bms_next_member] *)

Lemma land_all_ones w : word w -> Z.land w all_ones = w.
Proof. intros Hw. change all_ones with (Z.ones 64). rewrite Z.land_ones by lia. by apply Z.mod_small. Qed.

Lemma land_word w m : word w -> word (Z.land w m).
Proof.
  intros Hw. split; [apply Z.land_nonneg; left; apply Hw|]. rewrite <-(land_all_ones w Hw).
  rewrite <-Z.land_assoc, (Z.land_comm all_ones m), Z.land_assoc. change all_ones with (Z.ones 64).
  rewrite Z.land_ones by lia. by apply Z.mod_pos_bound.
Qed.

Lemma mask_bits w n : word w -> 0 <= n < 64 ->
  bits (Z.land w (wrap64 (Z.shiftl all_ones n))) = List.filter (fun i => n <=? i) (bits w).
Proof.
  intros Hw Hn. apply bits_filter. intros i Hi. rewrite Z.land_spec. f_equal. unfold wrap64.
  rewrite Z.mod_pow2_bits_low by lia. rewrite Z.shiftl_spec by lia. change all_ones with (Z.ones 64).
  destruct (Z.leb_spec n i).
  - apply Z.ones_spec_low. lia.
  - apply Z.testbit_neg_r. lia.
Qed.

(** ** Arrays of words *)

Lemma word_of_nonzero w : word w -> w <> 0 -> exists p, w = Zpos p.
Proof. unfold word. intros Hw H0. destruct w as [|p|p]; [done|by exists p|lia]. Qed.

#[local] Opaque bits.

Lemma members_cons k w words :
  members_from k (w :: words) = (map (Z.add (k * 64)) (bits w) ++ members_from (k + 1) words)%list.
Proof. reflexivity. Qed.

Lemma members_bound words : forall k x, In x (members_from k words) -> k * 64 <= x.
Proof.
  induction words as [|w words IH]; intros k x Hx; [done|]. rewrite members_cons in Hx. apply in_app_or in Hx as [Hx|Hx].
  - apply in_map_iff in Hx as (i & <- & Hi). apply elem_bits in Hi. lia.
  - apply IH in Hx. lia.
Qed.

Lemma word_bound w k x : In x (map (Z.add (k * 64)) (bits w)) -> k * 64 <= x < (k + 1) * 64.
Proof. intros Hx. apply in_map_iff in Hx as (i & <- & Hi). apply elem_bits in Hi. lia. Qed.

Lemma sorted_app l l' : StronglySorted Z.lt l -> StronglySorted Z.lt l' ->
  (forall x y, In x l -> In y l' -> x < y) -> StronglySorted Z.lt (l ++ l').
Proof.
  intros Hl Hl' H. induction Hl as [|x l Hl IH Hx]; [done|]. cbn. constructor.
  - apply IH. intros y z Hy. apply H. by right.
  - apply List.Forall_forall. intros y Hy. apply in_app_or in Hy as [Hy|Hy].
    + rewrite List.Forall_forall in Hx. auto.
    + apply H; [by left|done].
Qed.

Lemma members_sorted words : forall k, StronglySorted Z.lt (members_from k words).
Proof.
  induction words as [|w words IH]; intros k; [constructor|]. rewrite members_cons. apply sorted_app; [|apply IH|].
  - pose proof (bits_sorted w) as H. induction H as [|i l Hl IH' Hi]; cbn; constructor; [done|].
    rewrite List.Forall_forall in *. intros y Hy. apply in_map_iff in Hy as (j & <- & Hj). specialize (Hi j Hj). lia.
  - intros x y Hx Hy. apply word_bound in Hx. apply members_bound in Hy. lia.
Qed.

Lemma all_zero_members words : Forall word words -> all_zero words = true <-> forall k, members_from k words = [].
Proof.
  induction 1 as [|w words Hw Hws IH]; [done|]. cbn [all_zero]. destruct (Z.eqb_spec w 0) as [->|H0]; cbn [negb].
  - rewrite IH. setoid_rewrite members_cons. rewrite bits_zero. cbn [map app]. split; intros H k; [done|].
    specialize (H (k - 1)). by replace (k - 1 + 1) with k in H by lia.
  - split; [done|]. intros H. specialize (H 0). rewrite members_cons in H. apply app_eq_nil in H as [H _].
    apply map_eq_nil in H. by apply bits_empty in H.
Qed.

Lemma filter_none {A} (p : A -> bool) l : (forall x, In x l -> p x = false) -> List.filter p l = [].
Proof.
  induction l as [|x l IH]; intros H; [done|]. cbn. rewrite H by by left. apply IH. intros y Hy. apply H. by right.
Qed.

(** The elements of the first word are those below the next word. *)
Lemma members_split w words w' words' k :
  (map (Z.add (k * 64)) (bits w) ++ members_from (k + 1) words)%list =
    (map (Z.add (k * 64)) (bits w') ++ members_from (k + 1) words')%list ->
  bits w = bits w' /\ members_from (k + 1) words = members_from (k + 1) words'.
Proof.
  intros E. assert (Hb : map (Z.add (k * 64)) (bits w) = map (Z.add (k * 64)) (bits w')).
  { assert (Hf : forall v vs, List.filter (fun x => x <? (k + 1) * 64)
      (map (Z.add (k * 64)) (bits v) ++ members_from (k + 1) vs) = map (Z.add (k * 64)) (bits v)).
    { intros v vs. rewrite List.filter_app, filter_id, filter_none, app_nil_r; [done|..].
      - intros x Hx. apply members_bound in Hx. apply Z.ltb_ge. lia.
      - intros x Hx. apply word_bound in Hx. apply Z.ltb_lt. lia. }
    by rewrite <-(Hf w words), <-(Hf w' words'), E. }
  rewrite Hb in E. apply app_inv_head in E. split; [|done].
  apply (f_equal (map (Z.add (- (k * 64))))) in Hb. rewrite !map_map in Hb.
  assert (Hid : forall l, map (fun x => - (k * 64) + (k * 64 + x)) l = l).
  { intros l. rewrite <-(map_id l) at 2. apply map_ext. intros x. lia. }
  by rewrite !Hid in Hb.
Qed.

Lemma equal_words_members shorter : forall longer, Forall word shorter -> Forall word longer ->
  (List.length shorter <= List.length longer)%nat ->
  equal_words shorter longer = true <-> forall k, members_from k shorter = members_from k longer.
Proof.
  induction shorter as [|w shorter IH]; intros longer Hs Hl Hle.
  { cbn [equal_words]. rewrite all_zero_members by done. split; intros H k; [by rewrite H|by rewrite <-H]. }
  destruct longer as [|w' longer]; [cbn in Hle; lia|]. cbn [List.length] in Hle. inversion Hs; inversion Hl; subst.
  cbn [equal_words]. setoid_rewrite members_cons. destruct (Z.eqb_spec w w') as [->|Hne]; cbn [negb].
  - rewrite IH by (done || lia). split; intros H' k; [by rewrite H'|]. specialize (H' (k - 1)).
    apply members_split in H' as [_ H']. by replace (k - 1 + 1) with k in H' by lia.
  - split; [done|]. intros H'. specialize (H' 0). apply members_split in H' as [H' _]. by apply bits_inj in H'.
Qed.

Lemma num_members_ok words : forall k r, Forall word words ->
  num_members_loop words (int32 r) = int32 (r + Z.of_nat (List.length (members_from k words))).
Proof.
  induction words as [|w words IH]; intros k r Hw; cbn [num_members_loop]; [cbn; by rewrite Z.add_0_r|rewrite members_cons].
  inversion Hw; subst. rewrite length_app, length_map.
  destruct (Z.eqb_spec w 0) as [->|]; cbn [negb].
  - rewrite (IH (k + 1)) by done. rewrite bits_zero. done.
  - rewrite int32_add_l, (IH (k + 1)), popcount_bits by done. f_equal. lia.
Qed.

(** The number of an element is an [int]. *)
Lemma element_int k p (words : list Z) w : word (Zpos w) -> 0 <= k -> k + Z.of_nat (S (List.length words)) <= max_words ->
  p = pos_ctz w -> int32 (k * BITS_PER_BITMAPWORD + p) = k * 64 + p.
Proof.
  intros Hw Hk Hl ->. pose proof (ctz_range w Hw). unfold max_words in Hl. apply int32_small.
  unfold int_min, int_max, BITS_PER_BITMAPWORD. lia.
Qed.

Lemma first_member_ok words : forall k, Forall word words -> 0 <= k -> k + Z.of_nat (List.length words) <= max_words ->
  match members_from k words with
  | [] => first_member_loop words k = Ok (words, -1)
  | x :: l => exists words', first_member_loop words k = Ok (words', x) /\ members_from k words' = l /\
      Forall word words' /\ List.length words' = List.length words
  end.
Proof.
  induction words as [|w words IH]; intros k Hw Hk Hl; cbn [first_member_loop]; [done|rewrite members_cons].
  cbn [List.length] in Hl. inversion Hw as [|? ? Hw1 Hws]; subst. destruct (Z.eqb_spec w 0) as [->|H0]; cbn [negb].
  - rewrite bits_zero. cbn [map app]. specialize (IH (k + 1) Hws ltac:(lia) ltac:(lia)). destruct (members_from (k + 1) words) as [|x l].
    + by rewrite IH.
    + destruct IH as (words' & -> & Hm & Hws' & Hlen). cbn [obind]. exists (0 :: words'). split; [done|].
      rewrite members_cons, bits_zero. cbn [map app List.length]. split_and!; [done|by constructor|lia].
  - destruct (word_of_nonzero w Hw1 H0) as [p ->]. rewrite RIGHTMOST_ONE_pow by done.
    destruct (ctz_spec p) as (_ & Hp & _). rewrite rightmost_pow by done. cbn [obind].
    rewrite (element_int k _ words p) by done. rewrite (bits_rightmost p Hw1). cbn [map app]. eexists. split; [done|].
    rewrite members_cons. split_and!; [done|constructor; [by apply land_word|done]|done].
Qed.

Definition head_or (l : list Z) : Z := match l with x :: _ => x | [] => -2 end.

Lemma next_all_ones words : forall k, Forall word words -> 0 <= k -> k + Z.of_nat (List.length words) <= max_words ->
  next_member_loop words k all_ones = Ok (head_or (members_from k words)).
Proof.
  induction words as [|w words IH]; intros k Hw Hk Hl; cbn [next_member_loop]; [done|]. rewrite members_cons.
  cbn [List.length] in Hl. inversion Hw as [|? ? Hw1 Hws]; subst. rewrite land_all_ones by done.
  destruct (Z.eqb_spec w 0) as [->|H0]; cbn [negb].
  - rewrite bits_zero. apply IH; (done || lia).
  - destruct (word_of_nonzero w Hw1 H0) as [p ->]. cbn [pg_rightmost_one_pos64 obind].
    rewrite (element_int k _ words p) by done. by rewrite (bits_rightmost p Hw1).
Qed.

Lemma filter_map {A B} (p : B -> bool) (f : A -> B) l :
  List.filter p (map f l) = map f (List.filter (fun x => p (f x)) l).
Proof. induction l as [|x l IH]; [done|]. cbn. destruct (p (f x)); cbn; by rewrite IH. Qed.

Lemma next_member_ok m words : forall k, Forall word words -> 0 <= k <= WORDNUM m ->
  k + Z.of_nat (List.length words) <= max_words ->
  next_member_loop (drop (Z.to_nat (WORDNUM m - k)) words) (WORDNUM m) (wrap64 (Z.shiftl all_ones (BITNUM m))) =
    Ok (head_or (List.filter (fun x => m <=? x) (members_from k words))).
Proof.
  assert (Hm : m = WORDNUM m * 64 + BITNUM m /\ 0 <= BITNUM m < 64).
  { unfold WORDNUM, BITNUM, BITS_PER_BITMAPWORD. Z.div_mod_to_equations. lia. }
  destruct Hm as [Hm Hb]. induction words as [|w words IH]; intros k Hw Hk Hl; [by rewrite drop_nil|]. cbn [List.length] in Hl.
  inversion Hw as [|? ? Hw1 Hws]; subst. rewrite members_cons, List.filter_app, filter_map.
  destruct (decide (k = WORDNUM m)) as [->|Hne].
  - rewrite Z.sub_diag. change (Z.to_nat 0) with 0%nat. cbn [drop next_member_loop].
    rewrite (filter_id _ (members_from _ _)) by (intros x Hx; apply members_bound in Hx; apply Z.leb_le; lia).
    rewrite (filter_ext_in _ (fun i => BITNUM m <=? i)).
    2:{ intros i _. apply Bool.eq_iff_eq_true. rewrite !Z.leb_le. lia. }
    rewrite <-(mask_bits w (BITNUM m) Hw1 Hb). pose proof (land_word w (wrap64 (Z.shiftl all_ones (BITNUM m))) Hw1) as Hland.
    set (v := Z.land w _) in *. clearbody v. destruct (Z.eqb_spec v 0) as [->|H0]; cbn [negb].
    + rewrite bits_zero. apply next_all_ones; (done || lia).
    + destruct (word_of_nonzero v Hland H0) as [p ->]. cbn [pg_rightmost_one_pos64 obind].
      rewrite (element_int _ _ words p) by (done || lia). by rewrite (bits_rightmost p Hland).
  - replace (Z.to_nat (WORDNUM m - k)) with (S (Z.to_nat (WORDNUM m - (k + 1)))) by lia. cbn [drop].
    rewrite (filter_none _ (bits w)); [|intros i Hi; apply elem_bits in Hi; apply Z.leb_gt; lia].
    apply IH; [done|lia|lia].
Qed.

(** ** Enumeration

    The two loops the comments of the code recommend. *)

(** [x = -1; while ((x = bms_next_member(inputset, x)) >= 0) process member x;] *)
Fixpoint next_member_iteration (fuel : nat) (a : option Bitmapset) (x : Z) : outcome (list Z) :=
  match fuel with
  | O => Undef
  | S fuel =>
      let* x := bms_next_member a x in
      if 0 <=? x then let* l := next_member_iteration fuel a x in Ok (x :: l) else Ok []
  end.

(** [while ((x = bms_first_member(inputset)) >= 0) process member x;] *)
Fixpoint first_member_iteration (fuel : nat) (a : option Bitmapset) : outcome (list Z) :=
  match fuel with
  | O => Undef
  | S fuel =>
      let* (a, x) := bms_first_member a in
      if 0 <=? x then let* l := first_member_iteration fuel a in Ok (x :: l) else Ok []
  end.

Lemma bms_next_member_ok a prevbit : well_formed a -> -1 <= prevbit < int_max ->
  bms_next_member a prevbit = Ok (head_or (List.filter (fun x => prevbit <? x) (members a))).
Proof.
  intros Ha Hp. destruct a as [words|]; [|done]. destruct Ha as [Ha Hl]. cbn [bms_next_member members].
  rewrite int32_small by (unfold int_min, int_max in *; lia). rewrite (proj2 (Z.ltb_ge _ _)) by lia.
  assert (Hk : 0 <= WORDNUM (prevbit + 1)) by (apply Z.div_pos; [lia|done]).
  pose proof (next_member_ok (prevbit + 1) words 0 Ha ltac:(lia) ltac:(lia)) as H. rewrite Z.sub_0_r in H. rewrite H.
  do 2 f_equal. apply filter_ext. intros x. apply Bool.eq_iff_eq_true. rewrite Z.leb_le, Z.ltb_lt. lia.
Qed.

Lemma members_below words : forall k x, In x (members_from k words) -> x < (k + Z.of_nat (List.length words)) * 64.
Proof.
  induction words as [|w words IH]; intros k x Hx; [done|]. rewrite members_cons in Hx. cbn [List.length].
  apply in_app_or in Hx as [Hx|Hx]; [apply word_bound in Hx; lia|]. apply IH in Hx. lia.
Qed.

Lemma members_in_int a x : well_formed a -> In x (members a) -> x <= int_max.
Proof.
  destruct a as [words|]; [|done]. intros [_ Hl] Hx%members_below. unfold max_words, int_max in *. lia.
Qed.

Lemma members_nonneg a x : In x (members a) -> 0 <= x.
Proof. destruct a; [|done]. intros Hx. apply members_bound in Hx. lia. Qed.

Lemma all_members_sorted a : StronglySorted Z.lt (members a).
Proof. destruct a; [apply members_sorted|constructor]. Qed.

Lemma next_iteration_ok a fuel : forall l0 l prevbit, well_formed a -> members a = (l0 ++ l)%list ->
  -1 <= prevbit < int_max -> (forall x, In x l0 -> x <= prevbit) -> (forall x, In x l -> prevbit < x < int_max) ->
  (List.length l < fuel)%nat -> next_member_iteration fuel a prevbit = Ok l.
Proof.
  induction fuel as [|fuel IH]; intros l0 l prevbit Ha Hm Hp H0 H1 Hf; [lia|]. cbn [next_member_iteration].
  rewrite bms_next_member_ok by done. cbn [obind]. rewrite Hm, List.filter_app, filter_none, filter_id.
  2:{ intros x Hx. apply Z.ltb_lt. specialize (H1 x Hx). lia. }
  2:{ intros x Hx. apply Z.ltb_ge, H0, Hx. }
  destruct l as [|x l]; cbn [app head_or]; [done|].
  assert (Hx : 0 <= x) by (apply (members_nonneg a); rewrite Hm; apply in_or_app; right; by left).
  rewrite (proj2 (Z.leb_le _ _)) by done. rewrite (IH (l0 ++ [x])%list l x); [done|done|by rewrite <-app_assoc|specialize (H1 x (or_introl eq_refl)); lia|..].
  - intros y Hy. apply in_app_or in Hy as [Hy|[->|[]]]; [|lia]. specialize (H0 y Hy).
    pose proof (H1 x (or_introl eq_refl)). lia.
  - intros y Hy. pose proof (all_members_sorted a) as Hs. rewrite Hm in Hs.
    split; [|by apply H1; right]. clear -Hs Hy.
    induction l0 as [|z l0 IH]; cbn in Hs; inversion Hs as [|? ? Hs' Hz]; subst; [|auto].
    rewrite List.Forall_forall in Hz. auto.
  - cbn [List.length] in Hf. lia.
Qed.

Lemma first_iteration_ok fuel : forall a, well_formed a -> (List.length (members a) < fuel)%nat ->
  first_member_iteration fuel a = Ok (members a).
Proof.
  induction fuel as [|fuel IH]; intros a Ha Hf; [lia|]. cbn [first_member_iteration].
  destruct a as [words|]; [|done]. cbn [bms_first_member members] in *. destruct Ha as [Ha Hl]. pose proof (first_member_ok words 0 Ha ltac:(lia) ltac:(lia)) as H.
  pose proof (members_bound words 0) as Hb. destruct (members_from 0 words) as [|x l].
  - by rewrite H.
  - destruct H as (words' & -> & Hm & Hw & Hlen). cbn [obind].
    specialize (Hb x (or_introl eq_refl)). rewrite (proj2 (Z.leb_le _ _)) by lia.
    rewrite (IH (Some words')); [cbn; by rewrite Hm|by split; [|rewrite Hlen]|]. cbn. rewrite Hm. cbn in Hf. lia.
Qed.

(** ** Properties *)

(** C36. The operations on bitmap sets are those on the sets of their elements:
    equality (whatever zero words follow), emptiness, cardinality (in an [int], so that
    only a set of all [2^31] of them is counted as [-2^31]), removal of the least
    element, and the least element above a bound; for the sets of at most [2^25] words,
    as the elements of larger ones are no [int]s. *)
Theorem bms_refines_sets (a b : option Bitmapset) (prevbit : Z)
    (Ha : well_formed a) (Hb : well_formed b) (Hprev : -1 <= prevbit < int_max) :
  (bms_equal a b = true <-> members a = members b) /\
  (bms_is_empty a = true <-> members a = []) /\
  bms_num_members a = int32 (Z.of_nat (List.length (members a))) /\
  (Z.of_nat (List.length (members a)) <= int_max -> bms_num_members a = Z.of_nat (List.length (members a))) /\
  match members a with
  | [] => bms_first_member a = Ok (a, -1)
  | x :: l => exists a', bms_first_member a = Ok (a', x) /\ members a' = l /\ well_formed a'
  end /\
  bms_next_member a prevbit = Ok (head_or (List.filter (fun x => prevbit <? x) (members a))).
Proof.
  assert (Hshift : forall ws ws', (forall k, members_from k ws = members_from k ws') <-> members_from 0 ws = members_from 0 ws').
  { intros ws ws'. split; [auto|]. intros E k. assert (Hmap : forall l j, members_from j l = map (Z.add (j * 64)) (members_from 0 l)).
    { clear. assert (Hg : forall l i j, members_from (i + j) l = map (Z.add (j * 64)) (members_from i l)).
      { induction l as [|w l IH]; intros i j; [done|]. rewrite !members_cons, map_app, map_map, <-IH.
        f_equal; [apply map_ext; intros x; lia|]. f_equal. lia. }
      intros l j. apply (Hg l 0 j). }
    by rewrite (Hmap ws), (Hmap ws'), E. }
  assert (Hempty : forall ws, Forall word ws -> all_zero ws = true <-> members_from 0 ws = []).
  { intros ws Hws. rewrite all_zero_members by done. exact (Hshift ws []). }
  assert (Hnum : bms_num_members a = int32 (Z.of_nat (List.length (members a)))).
  { destruct a as [wa|]; [|done]. exact (num_members_ok wa 0 0 (proj1 Ha)). }
  assert (Hwa : match a with None => True | Some ws => Forall word ws end) by (destruct a; [apply Ha|done]).
  assert (Hwb : match b with None => True | Some ws => Forall word ws end) by (destruct b; [apply Hb|done]).
  split_and!.
  - destruct a as [wa|], b as [wb|]; cbn [bms_equal bms_is_empty members].
    + destruct (Nat.leb_spec (List.length wa) (List.length wb)).
      * by rewrite equal_words_members, Hshift.
      * rewrite equal_words_members, Hshift by (done || lia). split; congruence.
    + by apply Hempty.
    + rewrite Hempty by done. split; congruence.
    + done.
  - destruct a as [wa|]; [by apply Hempty|done].
  - done.
  - intros Hl. rewrite Hnum. apply int32_small. unfold int_min. lia.
  - destruct a as [wa|]; [|done]. cbn [members bms_first_member].
    destruct Ha as [_ Hl]. pose proof (first_member_ok wa 0 Hwa ltac:(lia) ltac:(lia)) as H.
    destruct (members_from 0 wa) as [|x l]; [by rewrite H|]. destruct H as (wa' & -> & Hm & Hw & Hlen).
    exists (Some wa'). split; [done|]. split; [done|]. split; [done|by rewrite Hlen].
  - apply bms_next_member_ok; [done|lia].
Qed.

(** The loops that run through a set, by [bms_next_member] from [-1] on or by
    [bms_first_member], end and see every element once, in increasing order, unless the
    greatest [int] is one of them, from which the search would go on at [INT_MIN]. *)
Theorem bms_iterations_enumerate (a : option Bitmapset) (Ha : well_formed a) (Hmax : ~ In int_max (members a)) :
  next_member_iteration (S (List.length (members a))) a (-1) = Ok (members a) /\
  first_member_iteration (S (List.length (members a))) a = Ok (members a) /\
  StronglySorted Z.lt (members a).
Proof.
  split; [|split; [apply first_iteration_ok; [done|lia]|apply all_members_sorted]].
  apply (next_iteration_ok a _ [] (members a)); [done|done|by unfold int_max|done| |lia].
  intros x Hx. pose proof (members_nonneg a x Hx). pose proof (members_in_int a x Ha Hx).
  assert (x <> int_max) by (intros ->; done). lia.
Qed.

(** The set of 3, 64 and 130. *)
Definition sample_set : option Bitmapset := Some [8; 1; 4].

Lemma sample_well_formed : well_formed sample_set.
Proof. split; [repeat constructor; vm_compute; (discriminate || reflexivity)|by vm_compute]. Qed.

Theorem bms_refines_sets_witness :
  bms_equal sample_set (Some [8; 1; 4; 0]) = true /\ bms_next_member sample_set 3 = Ok 64.
Proof.
  assert (Hb : well_formed (Some [8; 1; 4; 0])) by (split; [repeat constructor; vm_compute; (discriminate || reflexivity)|by vm_compute]).
  assert (Hp : -1 <= 3 < int_max) by (unfold int_max; lia).
  destruct (bms_refines_sets sample_set (Some [8; 1; 4; 0]) 3 sample_well_formed Hb Hp) as (H1 & _ & _ & _ & _ & H2).
  split; [apply H1; vm_compute; reflexivity|exact H2].
Defined.

Theorem bms_iterations_enumerate_witness : next_member_iteration 4 sample_set (-1) = Ok [3; 64; 130].
Proof. refine (proj1 (bms_iterations_enumerate sample_set sample_well_formed _)). vm_compute. naive_solver. Defined.
