(* ===== verification/Parse.v ===== *)
(** * Parsing

    [pg_query_raw_parse] of [src/pg_query_parse.c]: the parser with its errors as
    values.  The parser itself, [raw_parser], is a parameter: it returns the
    statements or raises.  The redirection of the standard error is left out. *)
From S2P Require Import Prelude Keywords Buffer Enums Nodes.

(** The version of the server, which the results name. *)
Definition PG_VERSION_NUM : Z := 130003.

Record ErrorData : Type := mkErrorData {
  ed_message : string;
  ed_filename : string;
  ed_funcname : string;
  ed_lineno : Z;
  ed_cursorpos : Z
}.

Record PgQueryError : Type := mkPgQueryError {
  message : string;
  funcname : string;
  filename : string;
  lineno : Z;
  cursorpos : Z;
  context : option string
}.

Record PgQueryInternalParsetreeAndError : Type := mkParsetree {
  tree : list Node;
  parse_error : option PgQueryError
}.

(** [strdup] *)
Definition strdup (s : string) : string := c_string s.

Section parse.
Variable raw_parser : string -> ErrorData + list Node.

Definition pg_query_raw_parse (input : string) : PgQueryInternalParsetreeAndError :=
  match raw_parser input with
  | inr tree => mkParsetree tree None
  | inl e => mkParsetree [] (Some (mkPgQueryError e.(ed_message) e.(ed_funcname) e.(ed_filename)
                                     e.(ed_lineno) e.(ed_cursorpos) None))
  end.
End parse.
