(* ===== verification/EnumDefs.v ===== *)
(** * Names and numbers of enum values

    [src/pg_query_enum_defs.c], generated from the node definitions: the name of a
    value, for the JSON text and the fingerprint, and the number that stands for it
    in a protocol buffer.  The functions from numbers return a value for every
    [int]; for a number that stands for none they have an [Assert] that is off, and
    return the first value. *)
From S2P Require Import Prelude Enums.

Open Scope Z_scope.

(** ** Names *)

Definition _enumToStringA_Expr_Kind (value : A_Expr_Kind) : string :=
  match value with
  | AEXPR_OP => "AEXPR_OP" | AEXPR_OP_ANY => "AEXPR_OP_ANY" | AEXPR_OP_ALL => "AEXPR_OP_ALL"
  | AEXPR_DISTINCT => "AEXPR_DISTINCT" | AEXPR_NOT_DISTINCT => "AEXPR_NOT_DISTINCT"
  | AEXPR_NULLIF => "AEXPR_NULLIF" | AEXPR_OF => "AEXPR_OF" | AEXPR_IN => "AEXPR_IN"
  | AEXPR_LIKE => "AEXPR_LIKE" | AEXPR_ILIKE => "AEXPR_ILIKE" | AEXPR_SIMILAR => "AEXPR_SIMILAR"
  | AEXPR_BETWEEN => "AEXPR_BETWEEN" | AEXPR_NOT_BETWEEN => "AEXPR_NOT_BETWEEN"
  | AEXPR_BETWEEN_SYM => "AEXPR_BETWEEN_SYM" | AEXPR_NOT_BETWEEN_SYM => "AEXPR_NOT_BETWEEN_SYM"
  | AEXPR_PAREN => "AEXPR_PAREN"
  end.

Definition _enumToStringRoleSpecType (value : RoleSpecType) : string :=
  match value with
  | ROLESPEC_CSTRING => "ROLESPEC_CSTRING" | ROLESPEC_CURRENT_USER => "ROLESPEC_CURRENT_USER"
  | ROLESPEC_SESSION_USER => "ROLESPEC_SESSION_USER" | ROLESPEC_PUBLIC => "ROLESPEC_PUBLIC"
  end.

Definition _enumToStringBoolExprType (value : BoolExprType) : string :=
  match value with
  | AND_EXPR => "AND_EXPR" | OR_EXPR => "OR_EXPR" | NOT_EXPR => "NOT_EXPR"
  end.

Definition _enumToStringSubLinkType (value : SubLinkType) : string :=
  match value with
  | EXISTS_SUBLINK => "EXISTS_SUBLINK" | ALL_SUBLINK => "ALL_SUBLINK"
  | ANY_SUBLINK => "ANY_SUBLINK" | ROWCOMPARE_SUBLINK => "ROWCOMPARE_SUBLINK"
  | EXPR_SUBLINK => "EXPR_SUBLINK" | MULTIEXPR_SUBLINK => "MULTIEXPR_SUBLINK"
  | ARRAY_SUBLINK => "ARRAY_SUBLINK" | CTE_SUBLINK => "CTE_SUBLINK"
  end.

Definition _enumToStringCoercionForm (value : CoercionForm) : string :=
  match value with
  | COERCE_EXPLICIT_CALL => "COERCE_EXPLICIT_CALL" | COERCE_EXPLICIT_CAST => "COERCE_EXPLICIT_CAST"
  | COERCE_IMPLICIT_CAST => "COERCE_IMPLICIT_CAST"
  end.

Definition _enumToStringMinMaxOp (value : MinMaxOp) : string :=
  match value with
  | IS_GREATEST => "IS_GREATEST" | IS_LEAST => "IS_LEAST"
  end.

Definition _enumToStringSQLValueFunctionOp (value : SQLValueFunctionOp) : string :=
  match value with
  | SVFOP_CURRENT_DATE => "SVFOP_CURRENT_DATE" | SVFOP_CURRENT_TIME => "SVFOP_CURRENT_TIME"
  | SVFOP_CURRENT_TIME_N => "SVFOP_CURRENT_TIME_N"
  | SVFOP_CURRENT_TIMESTAMP => "SVFOP_CURRENT_TIMESTAMP"
  | SVFOP_CURRENT_TIMESTAMP_N => "SVFOP_CURRENT_TIMESTAMP_N" | SVFOP_LOCALTIME => "SVFOP_LOCALTIME"
  | SVFOP_LOCALTIME_N => "SVFOP_LOCALTIME_N" | SVFOP_LOCALTIMESTAMP => "SVFOP_LOCALTIMESTAMP"
  | SVFOP_LOCALTIMESTAMP_N => "SVFOP_LOCALTIMESTAMP_N" | SVFOP_CURRENT_ROLE => "SVFOP_CURRENT_ROLE"
  | SVFOP_CURRENT_USER => "SVFOP_CURRENT_USER" | SVFOP_USER => "SVFOP_USER"
  | SVFOP_SESSION_USER => "SVFOP_SESSION_USER" | SVFOP_CURRENT_CATALOG => "SVFOP_CURRENT_CATALOG"
  | SVFOP_CURRENT_SCHEMA => "SVFOP_CURRENT_SCHEMA"
  end.

Definition _enumToStringXmlExprOp (value : XmlExprOp) : string :=
  match value with
  | IS_XMLCONCAT => "IS_XMLCONCAT" | IS_XMLELEMENT => "IS_XMLELEMENT"
  | IS_XMLFOREST => "IS_XMLFOREST" | IS_XMLPARSE => "IS_XMLPARSE" | IS_XMLPI => "IS_XMLPI"
  | IS_XMLROOT => "IS_XMLROOT" | IS_XMLSERIALIZE => "IS_XMLSERIALIZE"
  | IS_DOCUMENT => "IS_DOCUMENT"
  end.

Definition _enumToStringXmlOptionType (value : XmlOptionType) : string :=
  match value with
  | XMLOPTION_DOCUMENT => "XMLOPTION_DOCUMENT" | XMLOPTION_CONTENT => "XMLOPTION_CONTENT"
  end.

Definition _enumToStringNullTestType (value : NullTestType) : string :=
  match value with
  | IS_NULL => "IS_NULL" | IS_NOT_NULL => "IS_NOT_NULL"
  end.

Definition _enumToStringBoolTestType (value : BoolTestType) : string :=
  match value with
  | IS_TRUE => "IS_TRUE" | IS_NOT_TRUE => "IS_NOT_TRUE" | IS_FALSE => "IS_FALSE"
  | IS_NOT_FALSE => "IS_NOT_FALSE" | IS_UNKNOWN => "IS_UNKNOWN"
  | IS_NOT_UNKNOWN => "IS_NOT_UNKNOWN"
  end.

Definition _enumToStringSortByDir (value : SortByDir) : string :=
  match value with
  | SORTBY_DEFAULT => "SORTBY_DEFAULT" | SORTBY_ASC => "SORTBY_ASC" | SORTBY_DESC => "SORTBY_DESC"
  | SORTBY_USING => "SORTBY_USING"
  end.

Definition _enumToStringSortByNulls (value : SortByNulls) : string :=
  match value with
  | SORTBY_NULLS_DEFAULT => "SORTBY_NULLS_DEFAULT" | SORTBY_NULLS_FIRST => "SORTBY_NULLS_FIRST"
  | SORTBY_NULLS_LAST => "SORTBY_NULLS_LAST"
  end.

Definition _enumToStringDefElemAction (value : DefElemAction) : string :=
  match value with
  | DEFELEM_UNSPEC => "DEFELEM_UNSPEC" | DEFELEM_SET => "DEFELEM_SET"
  | DEFELEM_ADD => "DEFELEM_ADD" | DEFELEM_DROP => "DEFELEM_DROP"
  end.

Definition _enumToStringConstrType (value : ConstrType) : string :=
  match value with
  | CONSTR_NULL => "CONSTR_NULL" | CONSTR_NOTNULL => "CONSTR_NOTNULL"
  | CONSTR_DEFAULT => "CONSTR_DEFAULT" | CONSTR_IDENTITY => "CONSTR_IDENTITY"
  | CONSTR_GENERATED => "CONSTR_GENERATED" | CONSTR_CHECK => "CONSTR_CHECK"
  | CONSTR_PRIMARY => "CONSTR_PRIMARY" | CONSTR_UNIQUE => "CONSTR_UNIQUE"
  | CONSTR_EXCLUSION => "CONSTR_EXCLUSION" | CONSTR_FOREIGN => "CONSTR_FOREIGN"
  | CONSTR_ATTR_DEFERRABLE => "CONSTR_ATTR_DEFERRABLE"
  | CONSTR_ATTR_NOT_DEFERRABLE => "CONSTR_ATTR_NOT_DEFERRABLE"
  | CONSTR_ATTR_DEFERRED => "CONSTR_ATTR_DEFERRED"
  | CONSTR_ATTR_IMMEDIATE => "CONSTR_ATTR_IMMEDIATE"
  end.

Definition _enumToStringJoinType (value : JoinType) : string :=
  match value with
  | JOIN_INNER => "JOIN_INNER" | JOIN_LEFT => "JOIN_LEFT" | JOIN_FULL => "JOIN_FULL"
  | JOIN_RIGHT => "JOIN_RIGHT" | JOIN_SEMI => "JOIN_SEMI" | JOIN_ANTI => "JOIN_ANTI"
  | JOIN_UNIQUE_OUTER => "JOIN_UNIQUE_OUTER" | JOIN_UNIQUE_INNER => "JOIN_UNIQUE_INNER"
  end.

Definition _enumToStringCTEMaterialize (value : CTEMaterialize) : string :=
  match value with
  | CTEMaterializeDefault => "CTEMaterializeDefault"
  | CTEMaterializeAlways => "CTEMaterializeAlways" | CTEMaterializeNever => "CTEMaterializeNever"
  end.

Definition _enumToStringOnConflictAction (value : OnConflictAction) : string :=
  match value with
  | ONCONFLICT_NONE => "ONCONFLICT_NONE" | ONCONFLICT_NOTHING => "ONCONFLICT_NOTHING"
  | ONCONFLICT_UPDATE => "ONCONFLICT_UPDATE"
  end.

Definition _enumToStringLockClauseStrength (value : LockClauseStrength) : string :=
  match value with
  | LCS_NONE => "LCS_NONE" | LCS_FORKEYSHARE => "LCS_FORKEYSHARE" | LCS_FORSHARE => "LCS_FORSHARE"
  | LCS_FORNOKEYUPDATE => "LCS_FORNOKEYUPDATE" | LCS_FORUPDATE => "LCS_FORUPDATE"
  end.

Definition _enumToStringLockWaitPolicy (value : LockWaitPolicy) : string :=
  match value with
  | LockWaitBlock => "LockWaitBlock" | LockWaitSkip => "LockWaitSkip"
  | LockWaitError => "LockWaitError"
  end.

Definition _enumToStringGroupingSetKind (value : GroupingSetKind) : string :=
  match value with
  | GROUPING_SET_EMPTY => "GROUPING_SET_EMPTY" | GROUPING_SET_SIMPLE => "GROUPING_SET_SIMPLE"
  | GROUPING_SET_ROLLUP => "GROUPING_SET_ROLLUP" | GROUPING_SET_CUBE => "GROUPING_SET_CUBE"
  | GROUPING_SET_SETS => "GROUPING_SET_SETS"
  end.

Definition _enumToStringOnCommitAction (value : OnCommitAction) : string :=
  match value with
  | ONCOMMIT_NOOP => "ONCOMMIT_NOOP" | ONCOMMIT_PRESERVE_ROWS => "ONCOMMIT_PRESERVE_ROWS"
  | ONCOMMIT_DELETE_ROWS => "ONCOMMIT_DELETE_ROWS" | ONCOMMIT_DROP => "ONCOMMIT_DROP"
  end.

Definition _enumToStringLimitOption (value : LimitOption) : string :=
  match value with
  | LIMIT_OPTION_DEFAULT => "LIMIT_OPTION_DEFAULT" | LIMIT_OPTION_COUNT => "LIMIT_OPTION_COUNT"
  | LIMIT_OPTION_WITH_TIES => "LIMIT_OPTION_WITH_TIES"
  end.

Definition _enumToStringSetOperation (value : SetOperation) : string :=
  match value with
  | SETOP_NONE => "SETOP_NONE" | SETOP_UNION => "SETOP_UNION"
  | SETOP_INTERSECT => "SETOP_INTERSECT" | SETOP_EXCEPT => "SETOP_EXCEPT"
  end.

Definition _enumToStringOverridingKind (value : OverridingKind) : string :=
  match value with
  | OVERRIDING_NOT_SET => "OVERRIDING_NOT_SET" | OVERRIDING_USER_VALUE => "OVERRIDING_USER_VALUE"
  | OVERRIDING_SYSTEM_VALUE => "OVERRIDING_SYSTEM_VALUE"
  end.

Definition _enumToStringDropBehavior (value : DropBehavior) : string :=
  match value with
  | DROP_RESTRICT => "DROP_RESTRICT" | DROP_CASCADE => "DROP_CASCADE"
  end.

Definition _enumToStringObjectType (value : ObjectType) : string :=
  match value with
  | OBJECT_ACCESS_METHOD => "OBJECT_ACCESS_METHOD" | OBJECT_AGGREGATE => "OBJECT_AGGREGATE"
  | OBJECT_AMOP => "OBJECT_AMOP" | OBJECT_AMPROC => "OBJECT_AMPROC"
  | OBJECT_ATTRIBUTE => "OBJECT_ATTRIBUTE" | OBJECT_CAST => "OBJECT_CAST"
  | OBJECT_COLUMN => "OBJECT_COLUMN" | OBJECT_COLLATION => "OBJECT_COLLATION"
  | OBJECT_CONVERSION => "OBJECT_CONVERSION" | OBJECT_DATABASE => "OBJECT_DATABASE"
  | OBJECT_DEFAULT => "OBJECT_DEFAULT" | OBJECT_DEFACL => "OBJECT_DEFACL"
  | OBJECT_DOMAIN => "OBJECT_DOMAIN" | OBJECT_DOMCONSTRAINT => "OBJECT_DOMCONSTRAINT"
  | OBJECT_EVENT_TRIGGER => "OBJECT_EVENT_TRIGGER" | OBJECT_EXTENSION => "OBJECT_EXTENSION"
  | OBJECT_FDW => "OBJECT_FDW" | OBJECT_FOREIGN_SERVER => "OBJECT_FOREIGN_SERVER"
  | OBJECT_FOREIGN_TABLE => "OBJECT_FOREIGN_TABLE" | OBJECT_FUNCTION => "OBJECT_FUNCTION"
  | OBJECT_INDEX => "OBJECT_INDEX" | OBJECT_LANGUAGE => "OBJECT_LANGUAGE"
  | OBJECT_LARGEOBJECT => "OBJECT_LARGEOBJECT" | OBJECT_MATVIEW => "OBJECT_MATVIEW"
  | OBJECT_OPCLASS => "OBJECT_OPCLASS" | OBJECT_OPERATOR => "OBJECT_OPERATOR"
  | OBJECT_OPFAMILY => "OBJECT_OPFAMILY" | OBJECT_POLICY => "OBJECT_POLICY"
  | OBJECT_PROCEDURE => "OBJECT_PROCEDURE" | OBJECT_PUBLICATION => "OBJECT_PUBLICATION"
  | OBJECT_PUBLICATION_REL => "OBJECT_PUBLICATION_REL" | OBJECT_ROLE => "OBJECT_ROLE"
  | OBJECT_ROUTINE => "OBJECT_ROUTINE" | OBJECT_RULE => "OBJECT_RULE"
  | OBJECT_SCHEMA => "OBJECT_SCHEMA" | OBJECT_SEQUENCE => "OBJECT_SEQUENCE"
  | OBJECT_SUBSCRIPTION => "OBJECT_SUBSCRIPTION" | OBJECT_STATISTIC_EXT => "OBJECT_STATISTIC_EXT"
  | OBJECT_TABCONSTRAINT => "OBJECT_TABCONSTRAINT" | OBJECT_TABLE => "OBJECT_TABLE"
  | OBJECT_TABLESPACE => "OBJECT_TABLESPACE" | OBJECT_TRANSFORM => "OBJECT_TRANSFORM"
  | OBJECT_TRIGGER => "OBJECT_TRIGGER" | OBJECT_TSCONFIGURATION => "OBJECT_TSCONFIGURATION"
  | OBJECT_TSDICTIONARY => "OBJECT_TSDICTIONARY" | OBJECT_TSPARSER => "OBJECT_TSPARSER"
  | OBJECT_TSTEMPLATE => "OBJECT_TSTEMPLATE" | OBJECT_TYPE => "OBJECT_TYPE"
  | OBJECT_USER_MAPPING => "OBJECT_USER_MAPPING" | OBJECT_VIEW => "OBJECT_VIEW"
  end.

Definition _enumToStringAlterSubscriptionType (value : AlterSubscriptionType) : string :=
  match value with
  | ALTER_SUBSCRIPTION_OPTIONS => "ALTER_SUBSCRIPTION_OPTIONS"
  | ALTER_SUBSCRIPTION_CONNECTION => "ALTER_SUBSCRIPTION_CONNECTION"
  | ALTER_SUBSCRIPTION_PUBLICATION => "ALTER_SUBSCRIPTION_PUBLICATION"
  | ALTER_SUBSCRIPTION_REFRESH => "ALTER_SUBSCRIPTION_REFRESH"
  | ALTER_SUBSCRIPTION_ENABLED => "ALTER_SUBSCRIPTION_ENABLED"
  end.

Definition _enumToStringAlterTSConfigType (value : AlterTSConfigType) : string :=
  match value with
  | ALTER_TSCONFIG_ADD_MAPPING => "ALTER_TSCONFIG_ADD_MAPPING"
  | ALTER_TSCONFIG_ALTER_MAPPING_FOR_TOKEN => "ALTER_TSCONFIG_ALTER_MAPPING_FOR_TOKEN"
  | ALTER_TSCONFIG_REPLACE_DICT => "ALTER_TSCONFIG_REPLACE_DICT"
  | ALTER_TSCONFIG_REPLACE_DICT_FOR_TOKEN => "ALTER_TSCONFIG_REPLACE_DICT_FOR_TOKEN"
  | ALTER_TSCONFIG_DROP_MAPPING => "ALTER_TSCONFIG_DROP_MAPPING"
  end.

Definition _enumToStringAlterTableType (value : AlterTableType) : string :=
  match value with
  | AT_AddColumn => "AT_AddColumn" | AT_AddColumnRecurse => "AT_AddColumnRecurse"
  | AT_AddColumnToView => "AT_AddColumnToView" | AT_ColumnDefault => "AT_ColumnDefault"
  | AT_CookedColumnDefault => "AT_CookedColumnDefault" | AT_DropNotNull => "AT_DropNotNull"
  | AT_SetNotNull => "AT_SetNotNull" | AT_DropExpression => "AT_DropExpression"
  | AT_CheckNotNull => "AT_CheckNotNull" | AT_SetStatistics => "AT_SetStatistics"
  | AT_SetOptions => "AT_SetOptions" | AT_ResetOptions => "AT_ResetOptions"
  | AT_SetStorage => "AT_SetStorage" | AT_DropColumn => "AT_DropColumn"
  | AT_DropColumnRecurse => "AT_DropColumnRecurse" | AT_AddIndex => "AT_AddIndex"
  | AT_ReAddIndex => "AT_ReAddIndex" | AT_AddConstraint => "AT_AddConstraint"
  | AT_AddConstraintRecurse => "AT_AddConstraintRecurse"
  | AT_ReAddConstraint => "AT_ReAddConstraint"
  | AT_ReAddDomainConstraint => "AT_ReAddDomainConstraint"
  | AT_AlterConstraint => "AT_AlterConstraint" | AT_ValidateConstraint => "AT_ValidateConstraint"
  | AT_ValidateConstraintRecurse => "AT_ValidateConstraintRecurse"
  | AT_AddIndexConstraint => "AT_AddIndexConstraint" | AT_DropConstraint => "AT_DropConstraint"
  | AT_DropConstraintRecurse => "AT_DropConstraintRecurse" | AT_ReAddComment => "AT_ReAddComment"
  | AT_AlterColumnType => "AT_AlterColumnType"
  | AT_AlterColumnGenericOptions => "AT_AlterColumnGenericOptions"
  | AT_ChangeOwner => "AT_ChangeOwner" | AT_ClusterOn => "AT_ClusterOn"
  | AT_DropCluster => "AT_DropCluster" | AT_SetLogged => "AT_SetLogged"
  | AT_SetUnLogged => "AT_SetUnLogged" | AT_DropOids => "AT_DropOids"
  | AT_SetTableSpace => "AT_SetTableSpace" | AT_SetRelOptions => "AT_SetRelOptions"
  | AT_ResetRelOptions => "AT_ResetRelOptions" | AT_ReplaceRelOptions => "AT_ReplaceRelOptions"
  | AT_EnableTrig => "AT_EnableTrig" | AT_EnableAlwaysTrig => "AT_EnableAlwaysTrig"
  | AT_EnableReplicaTrig => "AT_EnableReplicaTrig" | AT_DisableTrig => "AT_DisableTrig"
  | AT_EnableTrigAll => "AT_EnableTrigAll" | AT_DisableTrigAll => "AT_DisableTrigAll"
  | AT_EnableTrigUser => "AT_EnableTrigUser" | AT_DisableTrigUser => "AT_DisableTrigUser"
  | AT_EnableRule => "AT_EnableRule" | AT_EnableAlwaysRule => "AT_EnableAlwaysRule"
  | AT_EnableReplicaRule => "AT_EnableReplicaRule" | AT_DisableRule => "AT_DisableRule"
  | AT_AddInherit => "AT_AddInherit" | AT_DropInherit => "AT_DropInherit" | AT_AddOf => "AT_AddOf"
  | AT_DropOf => "AT_DropOf" | AT_ReplicaIdentity => "AT_ReplicaIdentity"
  | AT_EnableRowSecurity => "AT_EnableRowSecurity"
  | AT_DisableRowSecurity => "AT_DisableRowSecurity" | AT_ForceRowSecurity => "AT_ForceRowSecurity"
  | AT_NoForceRowSecurity => "AT_NoForceRowSecurity" | AT_GenericOptions => "AT_GenericOptions"
  | AT_AttachPartition => "AT_AttachPartition" | AT_DetachPartition => "AT_DetachPartition"
  | AT_AddIdentity => "AT_AddIdentity" | AT_SetIdentity => "AT_SetIdentity"
  | AT_DropIdentity => "AT_DropIdentity"
  end.

Definition _enumToStringCoercionContext (value : CoercionContext) : string :=
  match value with
  | COERCION_IMPLICIT => "COERCION_IMPLICIT" | COERCION_ASSIGNMENT => "COERCION_ASSIGNMENT"
  | COERCION_EXPLICIT => "COERCION_EXPLICIT"
  end.

Definition _enumToStringRoleStmtType (value : RoleStmtType) : string :=
  match value with
  | ROLESTMT_ROLE => "ROLESTMT_ROLE" | ROLESTMT_USER => "ROLESTMT_USER"
  | ROLESTMT_GROUP => "ROLESTMT_GROUP"
  end.

Definition _enumToStringDiscardMode (value : DiscardMode) : string :=
  match value with
  | DISCARD_ALL => "DISCARD_ALL" | DISCARD_PLANS => "DISCARD_PLANS"
  | DISCARD_SEQUENCES => "DISCARD_SEQUENCES" | DISCARD_TEMP => "DISCARD_TEMP"
  end.

Definition _enumToStringFetchDirection (value : FetchDirection) : string :=
  match value with
  | FETCH_FORWARD => "FETCH_FORWARD" | FETCH_BACKWARD => "FETCH_BACKWARD"
  | FETCH_ABSOLUTE => "FETCH_ABSOLUTE" | FETCH_RELATIVE => "FETCH_RELATIVE"
  end.

Definition _enumToStringFunctionParameterMode (value : FunctionParameterMode) : string :=
  match value with
  | FUNC_PARAM_IN => "FUNC_PARAM_IN" | FUNC_PARAM_OUT => "FUNC_PARAM_OUT"
  | FUNC_PARAM_INOUT => "FUNC_PARAM_INOUT" | FUNC_PARAM_VARIADIC => "FUNC_PARAM_VARIADIC"
  | FUNC_PARAM_TABLE => "FUNC_PARAM_TABLE"
  end.

Definition _enumToStringGrantTargetType (value : GrantTargetType) : string :=
  match value with
  | ACL_TARGET_OBJECT => "ACL_TARGET_OBJECT"
  | ACL_TARGET_ALL_IN_SCHEMA => "ACL_TARGET_ALL_IN_SCHEMA"
  | ACL_TARGET_DEFAULTS => "ACL_TARGET_DEFAULTS"
  end.

Definition _enumToStringImportForeignSchemaType (value : ImportForeignSchemaType) : string :=
  match value with
  | FDW_IMPORT_SCHEMA_ALL => "FDW_IMPORT_SCHEMA_ALL"
  | FDW_IMPORT_SCHEMA_LIMIT_TO => "FDW_IMPORT_SCHEMA_LIMIT_TO"
  | FDW_IMPORT_SCHEMA_EXCEPT => "FDW_IMPORT_SCHEMA_EXCEPT"
  end.

Definition _enumToStringReindexObjectType (value : ReindexObjectType) : string :=
  match value with
  | REINDEX_OBJECT_INDEX => "REINDEX_OBJECT_INDEX" | REINDEX_OBJECT_TABLE => "REINDEX_OBJECT_TABLE"
  | REINDEX_OBJECT_SCHEMA => "REINDEX_OBJECT_SCHEMA"
  | REINDEX_OBJECT_SYSTEM => "REINDEX_OBJECT_SYSTEM"
  | REINDEX_OBJECT_DATABASE => "REINDEX_OBJECT_DATABASE"
  end.

Definition _enumToStringCmdType (value : CmdType) : string :=
  match value with
  | CMD_UNKNOWN => "CMD_UNKNOWN" | CMD_SELECT => "CMD_SELECT" | CMD_UPDATE => "CMD_UPDATE"
  | CMD_INSERT => "CMD_INSERT" | CMD_DELETE => "CMD_DELETE" | CMD_UTILITY => "CMD_UTILITY"
  | CMD_NOTHING => "CMD_NOTHING"
  end.

Definition _enumToStringTransactionStmtKind (value : TransactionStmtKind) : string :=
  match value with
  | TRANS_STMT_BEGIN => "TRANS_STMT_BEGIN" | TRANS_STMT_START => "TRANS_STMT_START"
  | TRANS_STMT_COMMIT => "TRANS_STMT_COMMIT" | TRANS_STMT_ROLLBACK => "TRANS_STMT_ROLLBACK"
  | TRANS_STMT_SAVEPOINT => "TRANS_STMT_SAVEPOINT" | TRANS_STMT_RELEASE => "TRANS_STMT_RELEASE"
  | TRANS_STMT_ROLLBACK_TO => "TRANS_STMT_ROLLBACK_TO" | TRANS_STMT_PREPARE => "TRANS_STMT_PREPARE"
  | TRANS_STMT_COMMIT_PREPARED => "TRANS_STMT_COMMIT_PREPARED"
  | TRANS_STMT_ROLLBACK_PREPARED => "TRANS_STMT_ROLLBACK_PREPARED"
  end.

Definition _enumToStringVariableSetKind (value : VariableSetKind) : string :=
  match value with
  | VAR_SET_VALUE => "VAR_SET_VALUE" | VAR_SET_DEFAULT => "VAR_SET_DEFAULT"
  | VAR_SET_CURRENT => "VAR_SET_CURRENT" | VAR_SET_MULTI => "VAR_SET_MULTI"
  | VAR_RESET => "VAR_RESET" | VAR_RESET_ALL => "VAR_RESET_ALL"
  end.

Definition _enumToStringViewCheckOption (value : ViewCheckOption) : string :=
  match value with
  | NO_CHECK_OPTION => "NO_CHECK_OPTION" | LOCAL_CHECK_OPTION => "LOCAL_CHECK_OPTION"
  | CASCADED_CHECK_OPTION => "CASCADED_CHECK_OPTION"
  end.

(** ** Numbers *)

Definition _enumToIntA_Expr_Kind (value : A_Expr_Kind) : Z :=
  match value with
  | AEXPR_OP => 1 | AEXPR_OP_ANY => 2 | AEXPR_OP_ALL => 3 | AEXPR_DISTINCT => 4
  | AEXPR_NOT_DISTINCT => 5 | AEXPR_NULLIF => 6 | AEXPR_OF => 7 | AEXPR_IN => 8 | AEXPR_LIKE => 9
  | AEXPR_ILIKE => 10 | AEXPR_SIMILAR => 11 | AEXPR_BETWEEN => 12 | AEXPR_NOT_BETWEEN => 13
  | AEXPR_BETWEEN_SYM => 14 | AEXPR_NOT_BETWEEN_SYM => 15 | AEXPR_PAREN => 16
  end.

Definition _enumToIntRoleSpecType (value : RoleSpecType) : Z :=
  match value with
  | ROLESPEC_CSTRING => 1 | ROLESPEC_CURRENT_USER => 2 | ROLESPEC_SESSION_USER => 3
  | ROLESPEC_PUBLIC => 4
  end.

Definition _enumToIntBoolExprType (value : BoolExprType) : Z :=
  match value with
  | AND_EXPR => 1 | OR_EXPR => 2 | NOT_EXPR => 3
  end.

Definition _enumToIntSubLinkType (value : SubLinkType) : Z :=
  match value with
  | EXISTS_SUBLINK => 1 | ALL_SUBLINK => 2 | ANY_SUBLINK => 3 | ROWCOMPARE_SUBLINK => 4
  | EXPR_SUBLINK => 5 | MULTIEXPR_SUBLINK => 6 | ARRAY_SUBLINK => 7 | CTE_SUBLINK => 8
  end.

Definition _enumToIntCoercionForm (value : CoercionForm) : Z :=
  match value with
  | COERCE_EXPLICIT_CALL => 1 | COERCE_EXPLICIT_CAST => 2 | COERCE_IMPLICIT_CAST => 3
  end.

Definition _enumToIntMinMaxOp (value : MinMaxOp) : Z :=
  match value with
  | IS_GREATEST => 1 | IS_LEAST => 2
  end.

Definition _enumToIntSQLValueFunctionOp (value : SQLValueFunctionOp) : Z :=
  match value with
  | SVFOP_CURRENT_DATE => 1 | SVFOP_CURRENT_TIME => 2 | SVFOP_CURRENT_TIME_N => 3
  | SVFOP_CURRENT_TIMESTAMP => 4 | SVFOP_CURRENT_TIMESTAMP_N => 5 | SVFOP_LOCALTIME => 6
  | SVFOP_LOCALTIME_N => 7 | SVFOP_LOCALTIMESTAMP => 8 | SVFOP_LOCALTIMESTAMP_N => 9
  | SVFOP_CURRENT_ROLE => 10 | SVFOP_CURRENT_USER => 11 | SVFOP_USER => 12
  | SVFOP_SESSION_USER => 13 | SVFOP_CURRENT_CATALOG => 14 | SVFOP_CURRENT_SCHEMA => 15
  end.

Definition _enumToIntXmlExprOp (value : XmlExprOp) : Z :=
  match value with
  | IS_XMLCONCAT => 1 | IS_XMLELEMENT => 2 | IS_XMLFOREST => 3 | IS_XMLPARSE => 4 | IS_XMLPI => 5
  | IS_XMLROOT => 6 | IS_XMLSERIALIZE => 7 | IS_DOCUMENT => 8
  end.

Definition _enumToIntXmlOptionType (value : XmlOptionType) : Z :=
  match value with
  | XMLOPTION_DOCUMENT => 1 | XMLOPTION_CONTENT => 2
  end.

Definition _enumToIntNullTestType (value : NullTestType) : Z :=
  match value with
  | IS_NULL => 1 | IS_NOT_NULL => 2
  end.

Definition _enumToIntBoolTestType (value : BoolTestType) : Z :=
  match value with
  | IS_TRUE => 1 | IS_NOT_TRUE => 2 | IS_FALSE => 3 | IS_NOT_FALSE => 4 | IS_UNKNOWN => 5
  | IS_NOT_UNKNOWN => 6
  end.

Definition _enumToIntSortByDir (value : SortByDir) : Z :=
  match value with
  | SORTBY_DEFAULT => 1 | SORTBY_ASC => 2 | SORTBY_DESC => 3 | SORTBY_USING => 4
  end.

Definition _enumToIntSortByNulls (value : SortByNulls) : Z :=
  match value with
  | SORTBY_NULLS_DEFAULT => 1 | SORTBY_NULLS_FIRST => 2 | SORTBY_NULLS_LAST => 3
  end.

Definition _enumToIntDefElemAction (value : DefElemAction) : Z :=
  match value with
  | DEFELEM_UNSPEC => 1 | DEFELEM_SET => 2 | DEFELEM_ADD => 3 | DEFELEM_DROP => 4
  end.

Definition _enumToIntConstrType (value : ConstrType) : Z :=
  match value with
  | CONSTR_NULL => 1 | CONSTR_NOTNULL => 2 | CONSTR_DEFAULT => 3 | CONSTR_IDENTITY => 4
  | CONSTR_GENERATED => 5 | CONSTR_CHECK => 6 | CONSTR_PRIMARY => 7 | CONSTR_UNIQUE => 8
  | CONSTR_EXCLUSION => 9 | CONSTR_FOREIGN => 10 | CONSTR_ATTR_DEFERRABLE => 11
  | CONSTR_ATTR_NOT_DEFERRABLE => 12 | CONSTR_ATTR_DEFERRED => 13 | CONSTR_ATTR_IMMEDIATE => 14
  end.

Definition _enumToIntJoinType (value : JoinType) : Z :=
  match value with
  | JOIN_INNER => 1 | JOIN_LEFT => 2 | JOIN_FULL => 3 | JOIN_RIGHT => 4 | JOIN_SEMI => 5
  | JOIN_ANTI => 6 | JOIN_UNIQUE_OUTER => 7 | JOIN_UNIQUE_INNER => 8
  end.

Definition _enumToIntCTEMaterialize (value : CTEMaterialize) : Z :=
  match value with
  | CTEMaterializeDefault => 1 | CTEMaterializeAlways => 2 | CTEMaterializeNever => 3
  end.

Definition _enumToIntOnConflictAction (value : OnConflictAction) : Z :=
  match value with
  | ONCONFLICT_NONE => 1 | ONCONFLICT_NOTHING => 2 | ONCONFLICT_UPDATE => 3
  end.

Definition _enumToIntLockClauseStrength (value : LockClauseStrength) : Z :=
  match value with
  | LCS_NONE => 1 | LCS_FORKEYSHARE => 2 | LCS_FORSHARE => 3 | LCS_FORNOKEYUPDATE => 4
  | LCS_FORUPDATE => 5
  end.

Definition _enumToIntLockWaitPolicy (value : LockWaitPolicy) : Z :=
  match value with
  | LockWaitBlock => 1 | LockWaitSkip => 2 | LockWaitError => 3
  end.

Definition _enumToIntGroupingSetKind (value : GroupingSetKind) : Z :=
  match value with
  | GROUPING_SET_EMPTY => 1 | GROUPING_SET_SIMPLE => 2 | GROUPING_SET_ROLLUP => 3
  | GROUPING_SET_CUBE => 4 | GROUPING_SET_SETS => 5
  end.

Definition _enumToIntOnCommitAction (value : OnCommitAction) : Z :=
  match value with
  | ONCOMMIT_NOOP => 1 | ONCOMMIT_PRESERVE_ROWS => 2 | ONCOMMIT_DELETE_ROWS => 3
  | ONCOMMIT_DROP => 4
  end.

Definition _enumToIntLimitOption (value : LimitOption) : Z :=
  match value with
  | LIMIT_OPTION_DEFAULT => 1 | LIMIT_OPTION_COUNT => 2 | LIMIT_OPTION_WITH_TIES => 3
  end.

Definition _enumToIntSetOperation (value : SetOperation) : Z :=
  match value with
  | SETOP_NONE => 1 | SETOP_UNION => 2 | SETOP_INTERSECT => 3 | SETOP_EXCEPT => 4
  end.

Definition _enumToIntOverridingKind (value : OverridingKind) : Z :=
  match value with
  | OVERRIDING_NOT_SET => 1 | OVERRIDING_USER_VALUE => 2 | OVERRIDING_SYSTEM_VALUE => 3
  end.

Definition _enumToIntDropBehavior (value : DropBehavior) : Z :=
  match value with
  | DROP_RESTRICT => 1 | DROP_CASCADE => 2
  end.

Definition _enumToIntObjectType (value : ObjectType) : Z :=
  match value with
  | OBJECT_ACCESS_METHOD => 1 | OBJECT_AGGREGATE => 2 | OBJECT_AMOP => 3 | OBJECT_AMPROC => 4
  | OBJECT_ATTRIBUTE => 5 | OBJECT_CAST => 6 | OBJECT_COLUMN => 7 | OBJECT_COLLATION => 8
  | OBJECT_CONVERSION => 9 | OBJECT_DATABASE => 10 | OBJECT_DEFAULT => 11 | OBJECT_DEFACL => 12
  | OBJECT_DOMAIN => 13 | OBJECT_DOMCONSTRAINT => 14 | OBJECT_EVENT_TRIGGER => 15
  | OBJECT_EXTENSION => 16 | OBJECT_FDW => 17 | OBJECT_FOREIGN_SERVER => 18
  | OBJECT_FOREIGN_TABLE => 19 | OBJECT_FUNCTION => 20 | OBJECT_INDEX => 21 | OBJECT_LANGUAGE => 22
  | OBJECT_LARGEOBJECT => 23 | OBJECT_MATVIEW => 24 | OBJECT_OPCLASS => 25 | OBJECT_OPERATOR => 26
  | OBJECT_OPFAMILY => 27 | OBJECT_POLICY => 28 | OBJECT_PROCEDURE => 29 | OBJECT_PUBLICATION => 30
  | OBJECT_PUBLICATION_REL => 31 | OBJECT_ROLE => 32 | OBJECT_ROUTINE => 33 | OBJECT_RULE => 34
  | OBJECT_SCHEMA => 35 | OBJECT_SEQUENCE => 36 | OBJECT_SUBSCRIPTION => 37
  | OBJECT_STATISTIC_EXT => 38 | OBJECT_TABCONSTRAINT => 39 | OBJECT_TABLE => 40
  | OBJECT_TABLESPACE => 41 | OBJECT_TRANSFORM => 42 | OBJECT_TRIGGER => 43
  | OBJECT_TSCONFIGURATION => 44 | OBJECT_TSDICTIONARY => 45 | OBJECT_TSPARSER => 46
  | OBJECT_TSTEMPLATE => 47 | OBJECT_TYPE => 48 | OBJECT_USER_MAPPING => 49 | OBJECT_VIEW => 50
  end.

Definition _enumToIntAlterSubscriptionType (value : AlterSubscriptionType) : Z :=
  match value with
  | ALTER_SUBSCRIPTION_OPTIONS => 1 | ALTER_SUBSCRIPTION_CONNECTION => 2
  | ALTER_SUBSCRIPTION_PUBLICATION => 3 | ALTER_SUBSCRIPTION_REFRESH => 4
  | ALTER_SUBSCRIPTION_ENABLED => 5
  end.

Definition _enumToIntAlterTSConfigType (value : AlterTSConfigType) : Z :=
  match value with
  | ALTER_TSCONFIG_ADD_MAPPING => 1 | ALTER_TSCONFIG_ALTER_MAPPING_FOR_TOKEN => 2
  | ALTER_TSCONFIG_REPLACE_DICT => 3 | ALTER_TSCONFIG_REPLACE_DICT_FOR_TOKEN => 4
  | ALTER_TSCONFIG_DROP_MAPPING => 5
  end.

Definition _enumToIntAlterTableType (value : AlterTableType) : Z :=
  match value with
  | AT_AddColumn => 1 | AT_AddColumnRecurse => 2 | AT_AddColumnToView => 3 | AT_ColumnDefault => 4
  | AT_CookedColumnDefault => 5 | AT_DropNotNull => 6 | AT_SetNotNull => 7 | AT_DropExpression => 8
  | AT_CheckNotNull => 9 | AT_SetStatistics => 10 | AT_SetOptions => 11 | AT_ResetOptions => 12
  | AT_SetStorage => 13 | AT_DropColumn => 14 | AT_DropColumnRecurse => 15 | AT_AddIndex => 16
  | AT_ReAddIndex => 17 | AT_AddConstraint => 18 | AT_AddConstraintRecurse => 19
  | AT_ReAddConstraint => 20 | AT_ReAddDomainConstraint => 21 | AT_AlterConstraint => 22
  | AT_ValidateConstraint => 23 | AT_ValidateConstraintRecurse => 24 | AT_AddIndexConstraint => 25
  | AT_DropConstraint => 26 | AT_DropConstraintRecurse => 27 | AT_ReAddComment => 28
  | AT_AlterColumnType => 29 | AT_AlterColumnGenericOptions => 30 | AT_ChangeOwner => 31
  | AT_ClusterOn => 32 | AT_DropCluster => 33 | AT_SetLogged => 34 | AT_SetUnLogged => 35
  | AT_DropOids => 36 | AT_SetTableSpace => 37 | AT_SetRelOptions => 38 | AT_ResetRelOptions => 39
  | AT_ReplaceRelOptions => 40 | AT_EnableTrig => 41 | AT_EnableAlwaysTrig => 42
  | AT_EnableReplicaTrig => 43 | AT_DisableTrig => 44 | AT_EnableTrigAll => 45
  | AT_DisableTrigAll => 46 | AT_EnableTrigUser => 47 | AT_DisableTrigUser => 48
  | AT_EnableRule => 49 | AT_EnableAlwaysRule => 50 | AT_EnableReplicaRule => 51
  | AT_DisableRule => 52 | AT_AddInherit => 53 | AT_DropInherit => 54 | AT_AddOf => 55
  | AT_DropOf => 56 | AT_ReplicaIdentity => 57 | AT_EnableRowSecurity => 58
  | AT_DisableRowSecurity => 59 | AT_ForceRowSecurity => 60 | AT_NoForceRowSecurity => 61
  | AT_GenericOptions => 62 | AT_AttachPartition => 63 | AT_DetachPartition => 64
  | AT_AddIdentity => 65 | AT_SetIdentity => 66 | AT_DropIdentity => 67
  end.

Definition _enumToIntCoercionContext (value : CoercionContext) : Z :=
  match value with
  | COERCION_IMPLICIT => 1 | COERCION_ASSIGNMENT => 2 | COERCION_EXPLICIT => 3
  end.

Definition _enumToIntRoleStmtType (value : RoleStmtType) : Z :=
  match value with
  | ROLESTMT_ROLE => 1 | ROLESTMT_USER => 2 | ROLESTMT_GROUP => 3
  end.

Definition _enumToIntDiscardMode (value : DiscardMode) : Z :=
  match value with
  | DISCARD_ALL => 1 | DISCARD_PLANS => 2 | DISCARD_SEQUENCES => 3 | DISCARD_TEMP => 4
  end.

Definition _enumToIntFetchDirection (value : FetchDirection) : Z :=
  match value with
  | FETCH_FORWARD => 1 | FETCH_BACKWARD => 2 | FETCH_ABSOLUTE => 3 | FETCH_RELATIVE => 4
  end.

Definition _enumToIntFunctionParameterMode (value : FunctionParameterMode) : Z :=
  match value with
  | FUNC_PARAM_IN => 1 | FUNC_PARAM_OUT => 2 | FUNC_PARAM_INOUT => 3 | FUNC_PARAM_VARIADIC => 4
  | FUNC_PARAM_TABLE => 5
  end.

Definition _enumToIntGrantTargetType (value : GrantTargetType) : Z :=
  match value with
  | ACL_TARGET_OBJECT => 1 | ACL_TARGET_ALL_IN_SCHEMA => 2 | ACL_TARGET_DEFAULTS => 3
  end.

Definition _enumToIntImportForeignSchemaType (value : ImportForeignSchemaType) : Z :=
  match value with
  | FDW_IMPORT_SCHEMA_ALL => 1 | FDW_IMPORT_SCHEMA_LIMIT_TO => 2 | FDW_IMPORT_SCHEMA_EXCEPT => 3
  end.

Definition _enumToIntReindexObjectType (value : ReindexObjectType) : Z :=
  match value with
  | REINDEX_OBJECT_INDEX => 1 | REINDEX_OBJECT_TABLE => 2 | REINDEX_OBJECT_SCHEMA => 3
  | REINDEX_OBJECT_SYSTEM => 4 | REINDEX_OBJECT_DATABASE => 5
  end.

Definition _enumToIntCmdType (value : CmdType) : Z :=
  match value with
  | CMD_UNKNOWN => 1 | CMD_SELECT => 2 | CMD_UPDATE => 3 | CMD_INSERT => 4 | CMD_DELETE => 5
  | CMD_UTILITY => 6 | CMD_NOTHING => 7
  end.

Definition _enumToIntTransactionStmtKind (value : TransactionStmtKind) : Z :=
  match value with
  | TRANS_STMT_BEGIN => 1 | TRANS_STMT_START => 2 | TRANS_STMT_COMMIT => 3
  | TRANS_STMT_ROLLBACK => 4 | TRANS_STMT_SAVEPOINT => 5 | TRANS_STMT_RELEASE => 6
  | TRANS_STMT_ROLLBACK_TO => 7 | TRANS_STMT_PREPARE => 8 | TRANS_STMT_COMMIT_PREPARED => 9
  | TRANS_STMT_ROLLBACK_PREPARED => 10
  end.

Definition _enumToIntVariableSetKind (value : VariableSetKind) : Z :=
  match value with
  | VAR_SET_VALUE => 1 | VAR_SET_DEFAULT => 2 | VAR_SET_CURRENT => 3 | VAR_SET_MULTI => 4
  | VAR_RESET => 5 | VAR_RESET_ALL => 6
  end.

Definition _enumToIntViewCheckOption (value : ViewCheckOption) : Z :=
  match value with
  | NO_CHECK_OPTION => 1 | LOCAL_CHECK_OPTION => 2 | CASCADED_CHECK_OPTION => 3
  end.

Definition _intToEnumA_Expr_Kind (value : Z) : A_Expr_Kind :=
  match value with
  | 1 => AEXPR_OP | 2 => AEXPR_OP_ANY | 3 => AEXPR_OP_ALL | 4 => AEXPR_DISTINCT
  | 5 => AEXPR_NOT_DISTINCT | 6 => AEXPR_NULLIF | 7 => AEXPR_OF | 8 => AEXPR_IN | 9 => AEXPR_LIKE
  | 10 => AEXPR_ILIKE | 11 => AEXPR_SIMILAR | 12 => AEXPR_BETWEEN | 13 => AEXPR_NOT_BETWEEN
  | 14 => AEXPR_BETWEEN_SYM | 15 => AEXPR_NOT_BETWEEN_SYM | 16 => AEXPR_PAREN | _ => AEXPR_OP
  end.

Definition _intToEnumRoleSpecType (value : Z) : RoleSpecType :=
  match value with
  | 1 => ROLESPEC_CSTRING | 2 => ROLESPEC_CURRENT_USER | 3 => ROLESPEC_SESSION_USER
  | 4 => ROLESPEC_PUBLIC | _ => ROLESPEC_CSTRING
  end.

Definition _intToEnumBoolExprType (value : Z) : BoolExprType :=
  match value with
  | 1 => AND_EXPR | 2 => OR_EXPR | 3 => NOT_EXPR | _ => AND_EXPR
  end.

Definition _intToEnumSubLinkType (value : Z) : SubLinkType :=
  match value with
  | 1 => EXISTS_SUBLINK | 2 => ALL_SUBLINK | 3 => ANY_SUBLINK | 4 => ROWCOMPARE_SUBLINK
  | 5 => EXPR_SUBLINK | 6 => MULTIEXPR_SUBLINK | 7 => ARRAY_SUBLINK | 8 => CTE_SUBLINK
  | _ => EXISTS_SUBLINK
  end.

Definition _intToEnumCoercionForm (value : Z) : CoercionForm :=
  match value with
  | 1 => COERCE_EXPLICIT_CALL | 2 => COERCE_EXPLICIT_CAST | 3 => COERCE_IMPLICIT_CAST
  | _ => COERCE_EXPLICIT_CALL
  end.

Definition _intToEnumMinMaxOp (value : Z) : MinMaxOp :=
  match value with
  | 1 => IS_GREATEST | 2 => IS_LEAST | _ => IS_GREATEST
  end.

Definition _intToEnumSQLValueFunctionOp (value : Z) : SQLValueFunctionOp :=
  match value with
  | 1 => SVFOP_CURRENT_DATE | 2 => SVFOP_CURRENT_TIME | 3 => SVFOP_CURRENT_TIME_N
  | 4 => SVFOP_CURRENT_TIMESTAMP | 5 => SVFOP_CURRENT_TIMESTAMP_N | 6 => SVFOP_LOCALTIME
  | 7 => SVFOP_LOCALTIME_N | 8 => SVFOP_LOCALTIMESTAMP | 9 => SVFOP_LOCALTIMESTAMP_N
  | 10 => SVFOP_CURRENT_ROLE | 11 => SVFOP_CURRENT_USER | 12 => SVFOP_USER
  | 13 => SVFOP_SESSION_USER | 14 => SVFOP_CURRENT_CATALOG | 15 => SVFOP_CURRENT_SCHEMA
  | _ => SVFOP_CURRENT_DATE
  end.

Definition _intToEnumXmlExprOp (value : Z) : XmlExprOp :=
  match value with
  | 1 => IS_XMLCONCAT | 2 => IS_XMLELEMENT | 3 => IS_XMLFOREST | 4 => IS_XMLPARSE | 5 => IS_XMLPI
  | 6 => IS_XMLROOT | 7 => IS_XMLSERIALIZE | 8 => IS_DOCUMENT | _ => IS_XMLCONCAT
  end.

Definition _intToEnumXmlOptionType (value : Z) : XmlOptionType :=
  match value with
  | 1 => XMLOPTION_DOCUMENT | 2 => XMLOPTION_CONTENT | _ => XMLOPTION_DOCUMENT
  end.

Definition _intToEnumNullTestType (value : Z) : NullTestType :=
  match value with
  | 1 => IS_NULL | 2 => IS_NOT_NULL | _ => IS_NULL
  end.

Definition _intToEnumBoolTestType (value : Z) : BoolTestType :=
  match value with
  | 1 => IS_TRUE | 2 => IS_NOT_TRUE | 3 => IS_FALSE | 4 => IS_NOT_FALSE | 5 => IS_UNKNOWN
  | 6 => IS_NOT_UNKNOWN | _ => IS_TRUE
  end.

Definition _intToEnumSortByDir (value : Z) : SortByDir :=
  match value with
  | 1 => SORTBY_DEFAULT | 2 => SORTBY_ASC | 3 => SORTBY_DESC | 4 => SORTBY_USING
  | _ => SORTBY_DEFAULT
  end.

Definition _intToEnumSortByNulls (value : Z) : SortByNulls :=
  match value with
  | 1 => SORTBY_NULLS_DEFAULT | 2 => SORTBY_NULLS_FIRST | 3 => SORTBY_NULLS_LAST
  | _ => SORTBY_NULLS_DEFAULT
  end.

Definition _intToEnumDefElemAction (value : Z) : DefElemAction :=
  match value with
  | 1 => DEFELEM_UNSPEC | 2 => DEFELEM_SET | 3 => DEFELEM_ADD | 4 => DEFELEM_DROP
  | _ => DEFELEM_UNSPEC
  end.

Definition _intToEnumConstrType (value : Z) : ConstrType :=
  match value with
  | 1 => CONSTR_NULL | 2 => CONSTR_NOTNULL | 3 => CONSTR_DEFAULT | 4 => CONSTR_IDENTITY
  | 5 => CONSTR_GENERATED | 6 => CONSTR_CHECK | 7 => CONSTR_PRIMARY | 8 => CONSTR_UNIQUE
  | 9 => CONSTR_EXCLUSION | 10 => CONSTR_FOREIGN | 11 => CONSTR_ATTR_DEFERRABLE
  | 12 => CONSTR_ATTR_NOT_DEFERRABLE | 13 => CONSTR_ATTR_DEFERRED | 14 => CONSTR_ATTR_IMMEDIATE
  | _ => CONSTR_NULL
  end.

Definition _intToEnumJoinType (value : Z) : JoinType :=
  match value with
  | 1 => JOIN_INNER | 2 => JOIN_LEFT | 3 => JOIN_FULL | 4 => JOIN_RIGHT | 5 => JOIN_SEMI
  | 6 => JOIN_ANTI | 7 => JOIN_UNIQUE_OUTER | 8 => JOIN_UNIQUE_INNER | _ => JOIN_INNER
  end.

Definition _intToEnumCTEMaterialize (value : Z) : CTEMaterialize :=
  match value with
  | 1 => CTEMaterializeDefault | 2 => CTEMaterializeAlways | 3 => CTEMaterializeNever
  | _ => CTEMaterializeDefault
  end.

Definition _intToEnumOnConflictAction (value : Z) : OnConflictAction :=
  match value with
  | 1 => ONCONFLICT_NONE | 2 => ONCONFLICT_NOTHING | 3 => ONCONFLICT_UPDATE | _ => ONCONFLICT_NONE
  end.

Definition _intToEnumLockClauseStrength (value : Z) : LockClauseStrength :=
  match value with
  | 1 => LCS_NONE | 2 => LCS_FORKEYSHARE | 3 => LCS_FORSHARE | 4 => LCS_FORNOKEYUPDATE
  | 5 => LCS_FORUPDATE | _ => LCS_NONE
  end.

Definition _intToEnumLockWaitPolicy (value : Z) : LockWaitPolicy :=
  match value with
  | 1 => LockWaitBlock | 2 => LockWaitSkip | 3 => LockWaitError | _ => LockWaitBlock
  end.

Definition _intToEnumGroupingSetKind (value : Z) : GroupingSetKind :=
  match value with
  | 1 => GROUPING_SET_EMPTY | 2 => GROUPING_SET_SIMPLE | 3 => GROUPING_SET_ROLLUP
  | 4 => GROUPING_SET_CUBE | 5 => GROUPING_SET_SETS | _ => GROUPING_SET_EMPTY
  end.

Definition _intToEnumOnCommitAction (value : Z) : OnCommitAction :=
  match value with
  | 1 => ONCOMMIT_NOOP | 2 => ONCOMMIT_PRESERVE_ROWS | 3 => ONCOMMIT_DELETE_ROWS
  | 4 => ONCOMMIT_DROP | _ => ONCOMMIT_NOOP
  end.

Definition _intToEnumLimitOption (value : Z) : LimitOption :=
  match value with
  | 1 => LIMIT_OPTION_DEFAULT | 2 => LIMIT_OPTION_COUNT | 3 => LIMIT_OPTION_WITH_TIES
  | _ => LIMIT_OPTION_DEFAULT
  end.

Definition _intToEnumSetOperation (value : Z) : SetOperation :=
  match value with
  | 1 => SETOP_NONE | 2 => SETOP_UNION | 3 => SETOP_INTERSECT | 4 => SETOP_EXCEPT | _ => SETOP_NONE
  end.

Definition _intToEnumOverridingKind (value : Z) : OverridingKind :=
  match value with
  | 1 => OVERRIDING_NOT_SET | 2 => OVERRIDING_USER_VALUE | 3 => OVERRIDING_SYSTEM_VALUE
  | _ => OVERRIDING_NOT_SET
  end.

Definition _intToEnumDropBehavior (value : Z) : DropBehavior :=
  match value with
  | 1 => DROP_RESTRICT | 2 => DROP_CASCADE | _ => DROP_RESTRICT
  end.

Definition _intToEnumObjectType (value : Z) : ObjectType :=
  match value with
  | 1 => OBJECT_ACCESS_METHOD | 2 => OBJECT_AGGREGATE | 3 => OBJECT_AMOP | 4 => OBJECT_AMPROC
  | 5 => OBJECT_ATTRIBUTE | 6 => OBJECT_CAST | 7 => OBJECT_COLUMN | 8 => OBJECT_COLLATION
  | 9 => OBJECT_CONVERSION | 10 => OBJECT_DATABASE | 11 => OBJECT_DEFAULT | 12 => OBJECT_DEFACL
  | 13 => OBJECT_DOMAIN | 14 => OBJECT_DOMCONSTRAINT | 15 => OBJECT_EVENT_TRIGGER
  | 16 => OBJECT_EXTENSION | 17 => OBJECT_FDW | 18 => OBJECT_FOREIGN_SERVER
  | 19 => OBJECT_FOREIGN_TABLE | 20 => OBJECT_FUNCTION | 21 => OBJECT_INDEX | 22 => OBJECT_LANGUAGE
  | 23 => OBJECT_LARGEOBJECT | 24 => OBJECT_MATVIEW | 25 => OBJECT_OPCLASS | 26 => OBJECT_OPERATOR
  | 27 => OBJECT_OPFAMILY | 28 => OBJECT_POLICY | 29 => OBJECT_PROCEDURE | 30 => OBJECT_PUBLICATION
  | 31 => OBJECT_PUBLICATION_REL | 32 => OBJECT_ROLE | 33 => OBJECT_ROUTINE | 34 => OBJECT_RULE
  | 35 => OBJECT_SCHEMA | 36 => OBJECT_SEQUENCE | 37 => OBJECT_SUBSCRIPTION
  | 38 => OBJECT_STATISTIC_EXT | 39 => OBJECT_TABCONSTRAINT | 40 => OBJECT_TABLE
  | 41 => OBJECT_TABLESPACE | 42 => OBJECT_TRANSFORM | 43 => OBJECT_TRIGGER
  | 44 => OBJECT_TSCONFIGURATION | 45 => OBJECT_TSDICTIONARY | 46 => OBJECT_TSPARSER
  | 47 => OBJECT_TSTEMPLATE | 48 => OBJECT_TYPE | 49 => OBJECT_USER_MAPPING | 50 => OBJECT_VIEW
  | _ => OBJECT_ACCESS_METHOD
  end.

Definition _intToEnumAlterSubscriptionType (value : Z) : AlterSubscriptionType :=
  match value with
  | 1 => ALTER_SUBSCRIPTION_OPTIONS | 2 => ALTER_SUBSCRIPTION_CONNECTION
  | 3 => ALTER_SUBSCRIPTION_PUBLICATION | 4 => ALTER_SUBSCRIPTION_REFRESH
  | 5 => ALTER_SUBSCRIPTION_ENABLED | _ => ALTER_SUBSCRIPTION_OPTIONS
  end.

Definition _intToEnumAlterTSConfigType (value : Z) : AlterTSConfigType :=
  match value with
  | 1 => ALTER_TSCONFIG_ADD_MAPPING | 2 => ALTER_TSCONFIG_ALTER_MAPPING_FOR_TOKEN
  | 3 => ALTER_TSCONFIG_REPLACE_DICT | 4 => ALTER_TSCONFIG_REPLACE_DICT_FOR_TOKEN
  | 5 => ALTER_TSCONFIG_DROP_MAPPING | _ => ALTER_TSCONFIG_ADD_MAPPING
  end.

Definition _intToEnumAlterTableType (value : Z) : AlterTableType :=
  match value with
  | 1 => AT_AddColumn | 2 => AT_AddColumnRecurse | 3 => AT_AddColumnToView | 4 => AT_ColumnDefault
  | 5 => AT_CookedColumnDefault | 6 => AT_DropNotNull | 7 => AT_SetNotNull | 8 => AT_DropExpression
  | 9 => AT_CheckNotNull | 10 => AT_SetStatistics | 11 => AT_SetOptions | 12 => AT_ResetOptions
  | 13 => AT_SetStorage | 14 => AT_DropColumn | 15 => AT_DropColumnRecurse | 16 => AT_AddIndex
  | 17 => AT_ReAddIndex | 18 => AT_AddConstraint | 19 => AT_AddConstraintRecurse
  | 20 => AT_ReAddConstraint | 21 => AT_ReAddDomainConstraint | 22 => AT_AlterConstraint
  | 23 => AT_ValidateConstraint | 24 => AT_ValidateConstraintRecurse | 25 => AT_AddIndexConstraint
  | 26 => AT_DropConstraint | 27 => AT_DropConstraintRecurse | 28 => AT_ReAddComment
  | 29 => AT_AlterColumnType | 30 => AT_AlterColumnGenericOptions | 31 => AT_ChangeOwner
  | 32 => AT_ClusterOn | 33 => AT_DropCluster | 34 => AT_SetLogged | 35 => AT_SetUnLogged
  | 36 => AT_DropOids | 37 => AT_SetTableSpace | 38 => AT_SetRelOptions | 39 => AT_ResetRelOptions
  | 40 => AT_ReplaceRelOptions | 41 => AT_EnableTrig | 42 => AT_EnableAlwaysTrig
  | 43 => AT_EnableReplicaTrig | 44 => AT_DisableTrig | 45 => AT_EnableTrigAll
  | 46 => AT_DisableTrigAll | 47 => AT_EnableTrigUser | 48 => AT_DisableTrigUser
  | 49 => AT_EnableRule | 50 => AT_EnableAlwaysRule | 51 => AT_EnableReplicaRule
  | 52 => AT_DisableRule | 53 => AT_AddInherit | 54 => AT_DropInherit | 55 => AT_AddOf
  | 56 => AT_DropOf | 57 => AT_ReplicaIdentity | 58 => AT_EnableRowSecurity
  | 59 => AT_DisableRowSecurity | 60 => AT_ForceRowSecurity | 61 => AT_NoForceRowSecurity
  | 62 => AT_GenericOptions | 63 => AT_AttachPartition | 64 => AT_DetachPartition
  | 65 => AT_AddIdentity | 66 => AT_SetIdentity | 67 => AT_DropIdentity | _ => AT_AddColumn
  end.

Definition _intToEnumCoercionContext (value : Z) : CoercionContext :=
  match value with
  | 1 => COERCION_IMPLICIT | 2 => COERCION_ASSIGNMENT | 3 => COERCION_EXPLICIT
  | _ => COERCION_IMPLICIT
  end.

Definition _intToEnumRoleStmtType (value : Z) : RoleStmtType :=
  match value with
  | 1 => ROLESTMT_ROLE | 2 => ROLESTMT_USER | 3 => ROLESTMT_GROUP | _ => ROLESTMT_ROLE
  end.

Definition _intToEnumDiscardMode (value : Z) : DiscardMode :=
  match value with
  | 1 => DISCARD_ALL | 2 => DISCARD_PLANS | 3 => DISCARD_SEQUENCES | 4 => DISCARD_TEMP
  | _ => DISCARD_ALL
  end.

Definition _intToEnumFetchDirection (value : Z) : FetchDirection :=
  match value with
  | 1 => FETCH_FORWARD | 2 => FETCH_BACKWARD | 3 => FETCH_ABSOLUTE | 4 => FETCH_RELATIVE
  | _ => FETCH_FORWARD
  end.

Definition _intToEnumFunctionParameterMode (value : Z) : FunctionParameterMode :=
  match value with
  | 1 => FUNC_PARAM_IN | 2 => FUNC_PARAM_OUT | 3 => FUNC_PARAM_INOUT | 4 => FUNC_PARAM_VARIADIC
  | 5 => FUNC_PARAM_TABLE | _ => FUNC_PARAM_IN
  end.

Definition _intToEnumGrantTargetType (value : Z) : GrantTargetType :=
  match value with
  | 1 => ACL_TARGET_OBJECT | 2 => ACL_TARGET_ALL_IN_SCHEMA | 3 => ACL_TARGET_DEFAULTS
  | _ => ACL_TARGET_OBJECT
  end.

Definition _intToEnumImportForeignSchemaType (value : Z) : ImportForeignSchemaType :=
  match value with
  | 1 => FDW_IMPORT_SCHEMA_ALL | 2 => FDW_IMPORT_SCHEMA_LIMIT_TO | 3 => FDW_IMPORT_SCHEMA_EXCEPT
  | _ => FDW_IMPORT_SCHEMA_ALL
  end.

Definition _intToEnumReindexObjectType (value : Z) : ReindexObjectType :=
  match value with
  | 1 => REINDEX_OBJECT_INDEX | 2 => REINDEX_OBJECT_TABLE | 3 => REINDEX_OBJECT_SCHEMA
  | 4 => REINDEX_OBJECT_SYSTEM | 5 => REINDEX_OBJECT_DATABASE | _ => REINDEX_OBJECT_INDEX
  end.

Definition _intToEnumCmdType (value : Z) : CmdType :=
  match value with
  | 1 => CMD_UNKNOWN | 2 => CMD_SELECT | 3 => CMD_UPDATE | 4 => CMD_INSERT | 5 => CMD_DELETE
  | 6 => CMD_UTILITY | 7 => CMD_NOTHING | _ => CMD_UNKNOWN
  end.

Definition _intToEnumTransactionStmtKind (value : Z) : TransactionStmtKind :=
  match value with
  | 1 => TRANS_STMT_BEGIN | 2 => TRANS_STMT_START | 3 => TRANS_STMT_COMMIT
  | 4 => TRANS_STMT_ROLLBACK | 5 => TRANS_STMT_SAVEPOINT | 6 => TRANS_STMT_RELEASE
  | 7 => TRANS_STMT_ROLLBACK_TO | 8 => TRANS_STMT_PREPARE | 9 => TRANS_STMT_COMMIT_PREPARED
  | 10 => TRANS_STMT_ROLLBACK_PREPARED | _ => TRANS_STMT_BEGIN
  end.

Definition _intToEnumVariableSetKind (value : Z) : VariableSetKind :=
  match value with
  | 1 => VAR_SET_VALUE | 2 => VAR_SET_DEFAULT | 3 => VAR_SET_CURRENT | 4 => VAR_SET_MULTI
  | 5 => VAR_RESET | 6 => VAR_RESET_ALL | _ => VAR_SET_VALUE
  end.

Definition _intToEnumViewCheckOption (value : Z) : ViewCheckOption :=
  match value with
  | 1 => NO_CHECK_OPTION | 2 => LOCAL_CHECK_OPTION | 3 => CASCADED_CHECK_OPTION
  | _ => NO_CHECK_OPTION
  end.

Create Rewrite HintDb enums.

(** ** A value is read back from its number *)

Lemma _intToEnumA_Expr_Kind_toInt value : _intToEnumA_Expr_Kind (_enumToIntA_Expr_Kind value) = value.
Proof. by destruct value. Qed.

Lemma _intToEnumRoleSpecType_toInt value : _intToEnumRoleSpecType (_enumToIntRoleSpecType value) = value.
Proof. by destruct value. Qed.

Lemma _intToEnumBoolExprType_toInt value : _intToEnumBoolExprType (_enumToIntBoolExprType value) = value.
Proof. by destruct value. Qed.

Lemma _intToEnumSubLinkType_toInt value : _intToEnumSubLinkType (_enumToIntSubLinkType value) = value.
Proof. by destruct value. Qed.

Lemma _intToEnumCoercionForm_toInt value : _intToEnumCoercionForm (_enumToIntCoercionForm value) = value.
Proof. by destruct value. Qed.

Lemma _intToEnumMinMaxOp_toInt value : _intToEnumMinMaxOp (_enumToIntMinMaxOp value) = value.
Proof. by destruct value. Qed.

Lemma _intToEnumSQLValueFunctionOp_toInt value : _intToEnumSQLValueFunctionOp (_enumToIntSQLValueFunctionOp value) = value.
Proof. by destruct value. Qed.

Lemma _intToEnumXmlExprOp_toInt value : _intToEnumXmlExprOp (_enumToIntXmlExprOp value) = value.
Proof. by destruct value. Qed.

Lemma _intToEnumXmlOptionType_toInt value : _intToEnumXmlOptionType (_enumToIntXmlOptionType value) = value.
Proof. by destruct value. Qed.

Lemma _intToEnumNullTestType_toInt value : _intToEnumNullTestType (_enumToIntNullTestType value) = value.
Proof. by destruct value. Qed.

Lemma _intToEnumBoolTestType_toInt value : _intToEnumBoolTestType (_enumToIntBoolTestType value) = value.
Proof. by destruct value. Qed.

Lemma _intToEnumSortByDir_toInt value : _intToEnumSortByDir (_enumToIntSortByDir value) = value.
Proof. by destruct value. Qed.

Lemma _intToEnumSortByNulls_toInt value : _intToEnumSortByNulls (_enumToIntSortByNulls value) = value.
Proof. by destruct value. Qed.

Lemma _intToEnumDefElemAction_toInt value : _intToEnumDefElemAction (_enumToIntDefElemAction value) = value.
Proof. by destruct value. Qed.

Lemma _intToEnumConstrType_toInt value : _intToEnumConstrType (_enumToIntConstrType value) = value.
Proof. by destruct value. Qed.

Lemma _intToEnumJoinType_toInt value : _intToEnumJoinType (_enumToIntJoinType value) = value.
Proof. by destruct value. Qed.

Lemma _intToEnumCTEMaterialize_toInt value : _intToEnumCTEMaterialize (_enumToIntCTEMaterialize value) = value.
Proof. by destruct value. Qed.

Lemma _intToEnumOnConflictAction_toInt value : _intToEnumOnConflictAction (_enumToIntOnConflictAction value) = value.
Proof. by destruct value. Qed.

Lemma _intToEnumLockClauseStrength_toInt value : _intToEnumLockClauseStrength (_enumToIntLockClauseStrength value) = value.
Proof. by destruct value. Qed.

Lemma _intToEnumLockWaitPolicy_toInt value : _intToEnumLockWaitPolicy (_enumToIntLockWaitPolicy value) = value.
Proof. by destruct value. Qed.

Lemma _intToEnumGroupingSetKind_toInt value : _intToEnumGroupingSetKind (_enumToIntGroupingSetKind value) = value.
Proof. by destruct value. Qed.

Lemma _intToEnumOnCommitAction_toInt value : _intToEnumOnCommitAction (_enumToIntOnCommitAction value) = value.
Proof. by destruct value. Qed.

Lemma _intToEnumLimitOption_toInt value : _intToEnumLimitOption (_enumToIntLimitOption value) = value.
Proof. by destruct value. Qed.

Lemma _intToEnumSetOperation_toInt value : _intToEnumSetOperation (_enumToIntSetOperation value) = value.
Proof. by destruct value. Qed.

Lemma _intToEnumOverridingKind_toInt value : _intToEnumOverridingKind (_enumToIntOverridingKind value) = value.
Proof. by destruct value. Qed.

Lemma _intToEnumDropBehavior_toInt value : _intToEnumDropBehavior (_enumToIntDropBehavior value) = value.
Proof. by destruct value. Qed.

Lemma _intToEnumObjectType_toInt value : _intToEnumObjectType (_enumToIntObjectType value) = value.
Proof. by destruct value. Qed.

Lemma _intToEnumAlterSubscriptionType_toInt value : _intToEnumAlterSubscriptionType (_enumToIntAlterSubscriptionType value) = value.
Proof. by destruct value. Qed.

Lemma _intToEnumAlterTSConfigType_toInt value : _intToEnumAlterTSConfigType (_enumToIntAlterTSConfigType value) = value.
Proof. by destruct value. Qed.

Lemma _intToEnumAlterTableType_toInt value : _intToEnumAlterTableType (_enumToIntAlterTableType value) = value.
Proof. by destruct value. Qed.

Lemma _intToEnumCoercionContext_toInt value : _intToEnumCoercionContext (_enumToIntCoercionContext value) = value.
Proof. by destruct value. Qed.

Lemma _intToEnumRoleStmtType_toInt value : _intToEnumRoleStmtType (_enumToIntRoleStmtType value) = value.
Proof. by destruct value. Qed.

Lemma _intToEnumDiscardMode_toInt value : _intToEnumDiscardMode (_enumToIntDiscardMode value) = value.
Proof. by destruct value. Qed.

Lemma _intToEnumFetchDirection_toInt value : _intToEnumFetchDirection (_enumToIntFetchDirection value) = value.
Proof. by destruct value. Qed.

Lemma _intToEnumFunctionParameterMode_toInt value : _intToEnumFunctionParameterMode (_enumToIntFunctionParameterMode value) = value.
Proof. by destruct value. Qed.

Lemma _intToEnumGrantTargetType_toInt value : _intToEnumGrantTargetType (_enumToIntGrantTargetType value) = value.
Proof. by destruct value. Qed.

Lemma _intToEnumImportForeignSchemaType_toInt value : _intToEnumImportForeignSchemaType (_enumToIntImportForeignSchemaType value) = value.
Proof. by destruct value. Qed.

Lemma _intToEnumReindexObjectType_toInt value : _intToEnumReindexObjectType (_enumToIntReindexObjectType value) = value.
Proof. by destruct value. Qed.

Lemma _intToEnumCmdType_toInt value : _intToEnumCmdType (_enumToIntCmdType value) = value.
Proof. by destruct value. Qed.

Lemma _intToEnumTransactionStmtKind_toInt value : _intToEnumTransactionStmtKind (_enumToIntTransactionStmtKind value) = value.
Proof. by destruct value. Qed.

Lemma _intToEnumVariableSetKind_toInt value : _intToEnumVariableSetKind (_enumToIntVariableSetKind value) = value.
Proof. by destruct value. Qed.

Lemma _intToEnumViewCheckOption_toInt value : _intToEnumViewCheckOption (_enumToIntViewCheckOption value) = value.
Proof. by destruct value. Qed.

#[export] Hint Rewrite _intToEnumA_Expr_Kind_toInt
  _intToEnumRoleSpecType_toInt
  _intToEnumBoolExprType_toInt
  _intToEnumSubLinkType_toInt
  _intToEnumCoercionForm_toInt
  _intToEnumMinMaxOp_toInt
  _intToEnumSQLValueFunctionOp_toInt
  _intToEnumXmlExprOp_toInt
  _intToEnumXmlOptionType_toInt
  _intToEnumNullTestType_toInt
  _intToEnumBoolTestType_toInt
  _intToEnumSortByDir_toInt
  _intToEnumSortByNulls_toInt
  _intToEnumDefElemAction_toInt
  _intToEnumConstrType_toInt
  _intToEnumJoinType_toInt
  _intToEnumCTEMaterialize_toInt
  _intToEnumOnConflictAction_toInt
  _intToEnumLockClauseStrength_toInt
  _intToEnumLockWaitPolicy_toInt
  _intToEnumGroupingSetKind_toInt
  _intToEnumOnCommitAction_toInt
  _intToEnumLimitOption_toInt
  _intToEnumSetOperation_toInt
  _intToEnumOverridingKind_toInt
  _intToEnumDropBehavior_toInt
  _intToEnumObjectType_toInt
  _intToEnumAlterSubscriptionType_toInt
  _intToEnumAlterTSConfigType_toInt
  _intToEnumAlterTableType_toInt
  _intToEnumCoercionContext_toInt
  _intToEnumRoleStmtType_toInt
  _intToEnumDiscardMode_toInt
  _intToEnumFetchDirection_toInt
  _intToEnumFunctionParameterMode_toInt
  _intToEnumGrantTargetType_toInt
  _intToEnumImportForeignSchemaType_toInt
  _intToEnumReindexObjectType_toInt
  _intToEnumCmdType_toInt
  _intToEnumTransactionStmtKind_toInt
  _intToEnumVariableSetKind_toInt
  _intToEnumViewCheckOption_toInt : enums.
