(* ===== verification/Messages.v ===== *)
(** * The messages of a parse tree

    The structs of [src/protobuf/pg_query.pb-c.h] for the nodes of [Nodes]: a record
    per message, with the name of the C struct, and [PgQuery__Node], the [oneof] of
    all of them.  A repeated field is the list of its [n_] elements, a pointer to a
    message an [option].  A string is never null: the initial value of the field is
    the empty string.  The [PgQuery__SelectStmt *] operands of a set operation are
    stored as the [PgQuery__Node] of the message.  [Node_other] stands for the
    messages of structs that occur in no raw parse tree. *)
From S2P Require Import Prelude.

Local Set Warnings "-register-all".

Module PgQuery__Alias.
Record t {Node : Type} : Type := mk {
  aliasname : string;
  colnames : list Node
}.
Arguments t : clear implicits.
Arguments mk {Node}.
Scheme All for t.
End PgQuery__Alias.

Module PgQuery__RangeVar.
Record t {Node : Type} : Type := mk {
  catalogname : string;
  schemaname : string;
  relname : string;
  inh : bool;
  relpersistence : string;
  alias : option (PgQuery__Alias.t Node);
  location : Z
}.
Arguments t : clear implicits.
Arguments mk {Node}.
Scheme All for t.
End PgQuery__RangeVar.

Module PgQuery__TypeName.
Record t {Node : Type} : Type := mk {
  names : list Node;
  type_oid : Z;
  setof : bool;
  pct_type : bool;
  typmods : list Node;
  typemod : Z;
  array_bounds : list Node;
  location : Z
}.
Arguments t : clear implicits.
Arguments mk {Node}.
Scheme All for t.
End PgQuery__TypeName.

Module PgQuery__ColumnRef.
Record t {Node : Type} : Type := mk {
  fields : list Node;
  location : Z
}.
Arguments t : clear implicits.
Arguments mk {Node}.
Scheme All for t.
End PgQuery__ColumnRef.

Module PgQuery__ParamRef.
Record t {Node : Type} : Type := mk {
  number : Z;
  location : Z
}.
Arguments t : clear implicits.
Arguments mk {Node}.
Scheme All for t.
End PgQuery__ParamRef.

Module PgQuery__AExpr.
Record t {Node : Type} : Type := mk {
  kind : Z;
  name : list Node;
  lexpr : option Node;
  rexpr : option Node;
  location : Z
}.
Arguments t : clear implicits.
Arguments mk {Node}.
Scheme All for t.
End PgQuery__AExpr.

Module PgQuery__AConst.
Record t {Node : Type} : Type := mk {
  val : option Node;
  location : Z
}.
Arguments t : clear implicits.
Arguments mk {Node}.
Scheme All for t.
End PgQuery__AConst.

Module PgQuery__TypeCast.
Record t {Node : Type} : Type := mk {
  arg : option Node;
  type_name : option (PgQuery__TypeName.t Node);
  location : Z
}.
Arguments t : clear implicits.
Arguments mk {Node}.
Scheme All for t.
End PgQuery__TypeCast.

Module PgQuery__CollateClause.
Record t {Node : Type} : Type := mk {
  arg : option Node;
  collname : list Node;
  location : Z
}.
Arguments t : clear implicits.
Arguments mk {Node}.
Scheme All for t.
End PgQuery__CollateClause.

Module PgQuery__RoleSpec.
Record t {Node : Type} : Type := mk {
  roletype : Z;
  rolename : string;
  location : Z
}.
Arguments t : clear implicits.
Arguments mk {Node}.
Scheme All for t.
End PgQuery__RoleSpec.

Module PgQuery__WindowDef.
Record t {Node : Type} : Type := mk {
  name : string;
  refname : string;
  partition_clause : list Node;
  order_clause : list Node;
  frame_options : Z;
  start_offset : option Node;
  end_offset : option Node;
  location : Z
}.
Arguments t : clear implicits.
Arguments mk {Node}.
Scheme All for t.
End PgQuery__WindowDef.

Module PgQuery__SortBy.
Record t {Node : Type} : Type := mk {
  node : option Node;
  sortby_dir : Z;
  sortby_nulls : Z;
  use_op : list Node;
  location : Z
}.
Arguments t : clear implicits.
Arguments mk {Node}.
Scheme All for t.
End PgQuery__SortBy.

Module PgQuery__FuncCall.
Record t {Node : Type} : Type := mk {
  funcname : list Node;
  args : list Node;
  agg_order : list Node;
  agg_filter : option Node;
  agg_within_group : bool;
  agg_star : bool;
  agg_distinct : bool;
  func_variadic : bool;
  over : option (PgQuery__WindowDef.t Node);
  location : Z
}.
Arguments t : clear implicits.
Arguments mk {Node}.
Scheme All for t.
End PgQuery__FuncCall.

Module PgQuery__AStar.
Record t {Node : Type} : Type := mk { }.
Arguments t : clear implicits.
Arguments mk {Node}.
Scheme All for t.
End PgQuery__AStar.

Module PgQuery__AIndices.
Record t {Node : Type} : Type := mk {
  is_slice : bool;
  lidx : option Node;
  uidx : option Node
}.
Arguments t : clear implicits.
Arguments mk {Node}.
Scheme All for t.
End PgQuery__AIndices.

Module PgQuery__AIndirection.
Record t {Node : Type} : Type := mk {
  arg : option Node;
  indirection : list Node
}.
Arguments t : clear implicits.
Arguments mk {Node}.
Scheme All for t.
End PgQuery__AIndirection.

Module PgQuery__AArrayExpr.
Record t {Node : Type} : Type := mk {
  elements : list Node;
  location : Z
}.
Arguments t : clear implicits.
Arguments mk {Node}.
Scheme All for t.
End PgQuery__AArrayExpr.

Module PgQuery__ResTarget.
Record t {Node : Type} : Type := mk {
  name : string;
  indirection : list Node;
  val : option Node;
  location : Z
}.
Arguments t : clear implicits.
Arguments mk {Node}.
Scheme All for t.
End PgQuery__ResTarget.

Module PgQuery__MultiAssignRef.
Record t {Node : Type} : Type := mk {
  source : option Node;
  colno : Z;
  ncolumns : Z
}.
Arguments t : clear implicits.
Arguments mk {Node}.
Scheme All for t.
End PgQuery__MultiAssignRef.

Module PgQuery__NamedArgExpr.
Record t {Node : Type} : Type := mk {
  xpr : option Node;
  arg : option Node;
  name : string;
  argnumber : Z;
  location : Z
}.
Arguments t : clear implicits.
Arguments mk {Node}.
Scheme All for t.
End PgQuery__NamedArgExpr.

Module PgQuery__BoolExpr.
Record t {Node : Type} : Type := mk {
  xpr : option Node;
  boolop : Z;
  args : list Node;
  location : Z
}.
Arguments t : clear implicits.
Arguments mk {Node}.
Scheme All for t.
End PgQuery__BoolExpr.

Module PgQuery__SubLink.
Record t {Node : Type} : Type := mk {
  xpr : option Node;
  sub_link_type : Z;
  sub_link_id : Z;
  testexpr : option Node;
  oper_name : list Node;
  subselect : option Node;
  location : Z
}.
Arguments t : clear implicits.
Arguments mk {Node}.
Scheme All for t.
End PgQuery__SubLink.

Module PgQuery__CaseWhen.
Record t {Node : Type} : Type := mk {
  xpr : option Node;
  expr : option Node;
  result : option Node;
  location : Z
}.
Arguments t : clear implicits.
Arguments mk {Node}.
Scheme All for t.
End PgQuery__CaseWhen.

Module PgQuery__CaseExpr.
Record t {Node : Type} : Type := mk {
  xpr : option Node;
  casetype : Z;
  casecollid : Z;
  arg : option Node;
  args : list Node;
  defresult : option Node;
  location : Z
}.
Arguments t : clear implicits.
Arguments mk {Node}.
Scheme All for t.
End PgQuery__CaseExpr.

Module PgQuery__RowExpr.
Record t {Node : Type} : Type := mk {
  xpr : option Node;
  args : list Node;
  row_typeid : Z;
  row_format : Z;
  colnames : list Node;
  location : Z
}.
Arguments t : clear implicits.
Arguments mk {Node}.
Scheme All for t.
End PgQuery__RowExpr.

Module PgQuery__CoalesceExpr.
Record t {Node : Type} : Type := mk {
  xpr : option Node;
  coalescetype : Z;
  coalescecollid : Z;
  args : list Node;
  location : Z
}.
Arguments t : clear implicits.
Arguments mk {Node}.
Scheme All for t.
End PgQuery__CoalesceExpr.

Module PgQuery__MinMaxExpr.
Record t {Node : Type} : Type := mk {
  xpr : option Node;
  minmaxtype : Z;
  minmaxcollid : Z;
  inputcollid : Z;
  op : Z;
  args : list Node;
  location : Z
}.
Arguments t : clear implicits.
Arguments mk {Node}.
Scheme All for t.
End PgQuery__MinMaxExpr.

Module PgQuery__SQLValueFunction.
Record t {Node : Type} : Type := mk {
  xpr : option Node;
  op : Z;
  type_ : Z;
  typmod : Z;
  location : Z
}.
Arguments t : clear implicits.
Arguments mk {Node}.
Scheme All for t.
End PgQuery__SQLValueFunction.

Module PgQuery__XmlExpr.
Record t {Node : Type} : Type := mk {
  xpr : option Node;
  op : Z;
  name : string;
  named_args : list Node;
  arg_names : list Node;
  args : list Node;
  xmloption : Z;
  type_ : Z;
  typmod : Z;
  location : Z
}.
Arguments t : clear implicits.
Arguments mk {Node}.
Scheme All for t.
End PgQuery__XmlExpr.

Module PgQuery__XmlSerialize.
Record t {Node : Type} : Type := mk {
  xmloption : Z;
  expr : option Node;
  type_name : option (PgQuery__TypeName.t Node);
  location : Z
}.
Arguments t : clear implicits.
Arguments mk {Node}.
Scheme All for t.
End PgQuery__XmlSerialize.

Module PgQuery__NullTest.
Record t {Node : Type} : Type := mk {
  xpr : option Node;
  arg : option Node;
  nulltesttype : Z;
  argisrow : bool;
  location : Z
}.
Arguments t : clear implicits.
Arguments mk {Node}.
Scheme All for t.
End PgQuery__NullTest.

Module PgQuery__BooleanTest.
Record t {Node : Type} : Type := mk {
  xpr : option Node;
  arg : option Node;
  booltesttype : Z;
  location : Z
}.
Arguments t : clear implicits.
Arguments mk {Node}.
Scheme All for t.
End PgQuery__BooleanTest.

Module PgQuery__SetToDefault.
Record t {Node : Type} : Type := mk {
  xpr : option Node;
  type_id : Z;
  type_mod : Z;
  collation : Z;
  location : Z
}.
Arguments t : clear implicits.
Arguments mk {Node}.
Scheme All for t.
End PgQuery__SetToDefault.

Module PgQuery__CurrentOfExpr.
Record t {Node : Type} : Type := mk {
  xpr : option Node;
  cvarno : Z;
  cursor_name : string;
  cursor_param : Z
}.
Arguments t : clear implicits.
Arguments mk {Node}.
Scheme All for t.
End PgQuery__CurrentOfExpr.

Module PgQuery__GroupingFunc.
Record t {Node : Type} : Type := mk {
  xpr : option Node;
  args : list Node;
  refs : list Node;
  cols : list Node;
  agglevelsup : Z;
  location : Z
}.
Arguments t : clear implicits.
Arguments mk {Node}.
Scheme All for t.
End PgQuery__GroupingFunc.

Module PgQuery__DefElem.
Record t {Node : Type} : Type := mk {
  defnamespace : string;
  defname : string;
  arg : option Node;
  defaction : Z;
  location : Z
}.
Arguments t : clear implicits.
Arguments mk {Node}.
Scheme All for t.
End PgQuery__DefElem.

Module PgQuery__IndexElem.
Record t {Node : Type} : Type := mk {
  name : string;
  expr : option Node;
  indexcolname : string;
  collation : list Node;
  opclass : list Node;
  opclassopts : list Node;
  ordering : Z;
  nulls_ordering : Z
}.
Arguments t : clear implicits.
Arguments mk {Node}.
Scheme All for t.
End PgQuery__IndexElem.

Module PgQuery__Constraint.
Record t {Node : Type} : Type := mk {
  contype : Z;
  conname : string;
  deferrable : bool;
  initdeferred : bool;
  location : Z;
  is_no_inherit : bool;
  raw_expr : option Node;
  cooked_expr : string;
  generated_when : string;
  keys : list Node;
  including : list Node;
  exclusions : list Node;
  options : list Node;
  indexname : string;
  indexspace : string;
  reset_default_tblspc : bool;
  access_method : string;
  where_clause : option Node;
  pktable : option (PgQuery__RangeVar.t Node);
  fk_attrs : list Node;
  pk_attrs : list Node;
  fk_matchtype : string;
  fk_upd_action : string;
  fk_del_action : string;
  old_conpfeqop : list Node;
  old_pktable_oid : Z;
  skip_validation : bool;
  initially_valid : bool
}.
Arguments t : clear implicits.
Arguments mk {Node}.
Scheme All for t.
End PgQuery__Constraint.

Module PgQuery__ColumnDef.
Record t {Node : Type} : Type := mk {
  colname : string;
  type_name : option (PgQuery__TypeName.t Node);
  inhcount : Z;
  is_local : bool;
  is_not_null : bool;
  is_from_type : bool;
  storage : string;
  raw_default : option Node;
  cooked_default : option Node;
  identity : string;
  identity_sequence : option (PgQuery__RangeVar.t Node);
  generated : string;
  coll_clause : option (PgQuery__CollateClause.t Node);
  coll_oid : Z;
  constraints : list Node;
  fdwoptions : list Node;
  location : Z
}.
Arguments t : clear implicits.
Arguments mk {Node}.
Scheme All for t.
End PgQuery__ColumnDef.

Module PgQuery__JoinExpr.
Record t {Node : Type} : Type := mk {
  jointype : Z;
  is_natural : bool;
  larg : option Node;
  rarg : option Node;
  using_clause : list Node;
  quals : option Node;
  alias : option (PgQuery__Alias.t Node);
  rtindex : Z
}.
Arguments t : clear implicits.
Arguments mk {Node}.
Scheme All for t.
End PgQuery__JoinExpr.

Module PgQuery__RangeSubselect.
Record t {Node : Type} : Type := mk {
  lateral : bool;
  subquery : option Node;
  alias : option (PgQuery__Alias.t Node)
}.
Arguments t : clear implicits.
Arguments mk {Node}.
Scheme All for t.
End PgQuery__RangeSubselect.

Module PgQuery__RangeFunction.
Record t {Node : Type} : Type := mk {
  lateral : bool;
  ordinality : bool;
  is_rowsfrom : bool;
  functions : list Node;
  alias : option (PgQuery__Alias.t Node);
  coldeflist : list Node
}.
Arguments t : clear implicits.
Arguments mk {Node}.
Scheme All for t.
End PgQuery__RangeFunction.

Module PgQuery__RangeTableFuncCol.
Record t {Node : Type} : Type := mk {
  colname : string;
  type_name : option (PgQuery__TypeName.t Node);
  for_ordinality : bool;
  is_not_null : bool;
  colexpr : option Node;
  coldefexpr : option Node;
  location : Z
}.
Arguments t : clear implicits.
Arguments mk {Node}.
Scheme All for t.
End PgQuery__RangeTableFuncCol.

Module PgQuery__RangeTableFunc.
Record t {Node : Type} : Type := mk {
  lateral : bool;
  docexpr : option Node;
  rowexpr : option Node;
  namespaces : list Node;
  columns : list Node;
  alias : option (PgQuery__Alias.t Node);
  location : Z
}.
Arguments t : clear implicits.
Arguments mk {Node}.
Scheme All for t.
End PgQuery__RangeTableFunc.

Module PgQuery__RangeTableSample.
Record t {Node : Type} : Type := mk {
  relation : option Node;
  method : list Node;
  args : list Node;
  repeatable : option Node;
  location : Z
}.
Arguments t : clear implicits.
Arguments mk {Node}.
Scheme All for t.
End PgQuery__RangeTableSample.

Module PgQuery__CommonTableExpr.
Record t {Node : Type} : Type := mk {
  ctename : string;
  aliascolnames : list Node;
  ctematerialized : Z;
  ctequery : option Node;
  location : Z;
  cterecursive : bool;
  cterefcount : Z;
  ctecolnames : list Node;
  ctecoltypes : list Node;
  ctecoltypmods : list Node;
  ctecolcollations : list Node
}.
Arguments t : clear implicits.
Arguments mk {Node}.
Scheme All for t.
End PgQuery__CommonTableExpr.

Module PgQuery__WithClause.
Record t {Node : Type} : Type := mk {
  ctes : list Node;
  recursive : bool;
  location : Z
}.
Arguments t : clear implicits.
Arguments mk {Node}.
Scheme All for t.
End PgQuery__WithClause.

Module PgQuery__InferClause.
Record t {Node : Type} : Type := mk {
  index_elems : list Node;
  where_clause : option Node;
  conname : string;
  location : Z
}.
Arguments t : clear implicits.
Arguments mk {Node}.
Scheme All for t.
End PgQuery__InferClause.

Module PgQuery__OnConflictClause.
Record t {Node : Type} : Type := mk {
  action : Z;
  infer : option (PgQuery__InferClause.t Node);
  target_list : list Node;
  where_clause : option Node;
  location : Z
}.
Arguments t : clear implicits.
Arguments mk {Node}.
Scheme All for t.
End PgQuery__OnConflictClause.

Module PgQuery__LockingClause.
Record t {Node : Type} : Type := mk {
  locked_rels : list Node;
  strength : Z;
  wait_policy : Z
}.
Arguments t : clear implicits.
Arguments mk {Node}.
Scheme All for t.
End PgQuery__LockingClause.

Module PgQuery__GroupingSet.
Record t {Node : Type} : Type := mk {
  kind : Z;
  content : list Node;
  location : Z
}.
Arguments t : clear implicits.
Arguments mk {Node}.
Scheme All for t.
End PgQuery__GroupingSet.

Module PgQuery__IntoClause.
Record t {Node : Type} : Type := mk {
  rel : option (PgQuery__RangeVar.t Node);
  col_names : list Node;
  access_method : string;
  options : list Node;
  on_commit : Z;
  table_space_name : string;
  view_query : option Node;
  skip_data : bool
}.
Arguments t : clear implicits.
Arguments mk {Node}.
Scheme All for t.
End PgQuery__IntoClause.

Module PgQuery__SelectStmt.
Record t {Node : Type} : Type := mk {
  distinct_clause : list Node;
  into_clause : option (PgQuery__IntoClause.t Node);
  target_list : list Node;
  from_clause : list Node;
  where_clause : option Node;
  group_clause : list Node;
  having_clause : option Node;
  window_clause : list Node;
  values_lists : list Node;
  sort_clause : list Node;
  limit_offset : option Node;
  limit_count : option Node;
  limit_option : Z;
  locking_clause : list Node;
  with_clause : option (PgQuery__WithClause.t Node);
  op : Z;
  all : bool;
  larg : option Node;
  rarg : option Node
}.
Arguments t : clear implicits.
Arguments mk {Node}.
Scheme All for t.
End PgQuery__SelectStmt.

Module PgQuery__InsertStmt.
Record t {Node : Type} : Type := mk {
  relation : option (PgQuery__RangeVar.t Node);
  cols : list Node;
  select_stmt : option Node;
  on_conflict_clause : option (PgQuery__OnConflictClause.t Node);
  returning_list : list Node;
  with_clause : option (PgQuery__WithClause.t Node);
  override : Z
}.
Arguments t : clear implicits.
Arguments mk {Node}.
Scheme All for t.
End PgQuery__InsertStmt.

Module PgQuery__UpdateStmt.
Record t {Node : Type} : Type := mk {
  relation : option (PgQuery__RangeVar.t Node);
  target_list : list Node;
  where_clause : option Node;
  from_clause : list Node;
  returning_list : list Node;
  with_clause : option (PgQuery__WithClause.t Node)
}.
Arguments t : clear implicits.
Arguments mk {Node}.
Scheme All for t.
End PgQuery__UpdateStmt.

Module PgQuery__DeleteStmt.
Record t {Node : Type} : Type := mk {
  relation : option (PgQuery__RangeVar.t Node);
  using_clause : list Node;
  where_clause : option Node;
  returning_list : list Node;
  with_clause : option (PgQuery__WithClause.t Node)
}.
Arguments t : clear implicits.
Arguments mk {Node}.
Scheme All for t.
End PgQuery__DeleteStmt.

Module PgQuery__RawStmt.
Record t {Node : Type} : Type := mk {
  stmt : option Node;
  stmt_location : Z;
  stmt_len : Z
}.
Arguments t : clear implicits.
Arguments mk {Node}.
Scheme All for t.
End PgQuery__RawStmt.

Module PgQuery__AlterTableCmd.
Record t {Node : Type} : Type := mk {
  subtype : Z;
  name : string;
  num : Z;
  newowner : option (PgQuery__RoleSpec.t Node);
  def : option Node;
  behavior : Z;
  missing_ok : bool
}.
Arguments t : clear implicits.
Arguments mk {Node}.
Scheme All for t.
End PgQuery__AlterTableCmd.

Module PgQuery__PartitionBoundSpec.
Record t {Node : Type} : Type := mk {
  strategy : string;
  is_default : bool;
  modulus : Z;
  remainder : Z;
  listdatums : list Node;
  lowerdatums : list Node;
  upperdatums : list Node;
  location : Z
}.
Arguments t : clear implicits.
Arguments mk {Node}.
Scheme All for t.
End PgQuery__PartitionBoundSpec.

Module PgQuery__TableLikeClause.
Record t {Node : Type} : Type := mk {
  relation : option (PgQuery__RangeVar.t Node);
  options : Z;
  relation_oid : Z
}.
Arguments t : clear implicits.
Arguments mk {Node}.
Scheme All for t.
End PgQuery__TableLikeClause.

Module PgQuery__PartitionElem.
Record t {Node : Type} : Type := mk {
  name : string;
  expr : option Node;
  collation : list Node;
  opclass : list Node;
  location : Z
}.
Arguments t : clear implicits.
Arguments mk {Node}.
Scheme All for t.
End PgQuery__PartitionElem.

Module PgQuery__PartitionSpec.
Record t {Node : Type} : Type := mk {
  strategy : string;
  part_params : list Node;
  location : Z
}.
Arguments t : clear implicits.
Arguments mk {Node}.
Scheme All for t.
End PgQuery__PartitionSpec.

Module PgQuery__PartitionCmd.
Record t {Node : Type} : Type := mk {
  name : option (PgQuery__RangeVar.t Node);
  bound : option (PgQuery__PartitionBoundSpec.t Node)
}.
Arguments t : clear implicits.
Arguments mk {Node}.
Scheme All for t.
End PgQuery__PartitionCmd.

Module PgQuery__TriggerTransition.
Record t {Node : Type} : Type := mk {
  name : string;
  is_new : bool;
  is_table : bool
}.
Arguments t : clear implicits.
Arguments mk {Node}.
Scheme All for t.
End PgQuery__TriggerTransition.

Module PgQuery__CreateSchemaStmt.
Record t {Node : Type} : Type := mk {
  schemaname : string;
  authrole : option (PgQuery__RoleSpec.t Node);
  schema_elts : list Node;
  if_not_exists : bool
}.
Arguments t : clear implicits.
Arguments mk {Node}.
Scheme All for t.
End PgQuery__CreateSchemaStmt.

Module PgQuery__AlterTableStmt.
Record t {Node : Type} : Type := mk {
  relation : option (PgQuery__RangeVar.t Node);
  cmds : list Node;
  relkind : Z;
  missing_ok : bool
}.
Arguments t : clear implicits.
Arguments mk {Node}.
Scheme All for t.
End PgQuery__AlterTableStmt.

Module PgQuery__ReplicaIdentityStmt.
Record t {Node : Type} : Type := mk {
  identity_type : string;
  name : string
}.
Arguments t : clear implicits.
Arguments mk {Node}.
Scheme All for t.
End PgQuery__ReplicaIdentityStmt.

Module PgQuery__AlterCollationStmt.
Record t {Node : Type} : Type := mk {
  collname : list Node
}.
Arguments t : clear implicits.
Arguments mk {Node}.
Scheme All for t.
End PgQuery__AlterCollationStmt.

Module PgQuery__AlterDomainStmt.
Record t {Node : Type} : Type := mk {
  subtype : string;
  type_name : list Node;
  name : string;
  def : option Node;
  behavior : Z;
  missing_ok : bool
}.
Arguments t : clear implicits.
Arguments mk {Node}.
Scheme All for t.
End PgQuery__AlterDomainStmt.

Module PgQuery__GrantStmt.
Record t {Node : Type} : Type := mk {
  is_grant : bool;
  targtype : Z;
  objtype : Z;
  objects : list Node;
  privileges : list Node;
  grantees : list Node;
  grant_option : bool;
  behavior : Z
}.
Arguments t : clear implicits.
Arguments mk {Node}.
Scheme All for t.
End PgQuery__GrantStmt.

Module PgQuery__ObjectWithArgs.
Record t {Node : Type} : Type := mk {
  objname : list Node;
  objargs : list Node;
  args_unspecified : bool
}.
Arguments t : clear implicits.
Arguments mk {Node}.
Scheme All for t.
End PgQuery__ObjectWithArgs.

Module PgQuery__AccessPriv.
Record t {Node : Type} : Type := mk {
  priv_name : string;
  cols : list Node
}.
Arguments t : clear implicits.
Arguments mk {Node}.
Scheme All for t.
End PgQuery__AccessPriv.

Module PgQuery__GrantRoleStmt.
Record t {Node : Type} : Type := mk {
  granted_roles : list Node;
  grantee_roles : list Node;
  is_grant : bool;
  admin_opt : bool;
  grantor : option (PgQuery__RoleSpec.t Node);
  behavior : Z
}.
Arguments t : clear implicits.
Arguments mk {Node}.
Scheme All for t.
End PgQuery__GrantRoleStmt.

Module PgQuery__AlterDefaultPrivilegesStmt.
Record t {Node : Type} : Type := mk {
  options : list Node;
  action : option (PgQuery__GrantStmt.t Node)
}.
Arguments t : clear implicits.
Arguments mk {Node}.
Scheme All for t.
End PgQuery__AlterDefaultPrivilegesStmt.

Module PgQuery__CopyStmt.
Record t {Node : Type} : Type := mk {
  relation : option (PgQuery__RangeVar.t Node);
  query : option Node;
  attlist : list Node;
  is_from : bool;
  is_program : bool;
  filename : string;
  options : list Node;
  where_clause : option Node
}.
Arguments t : clear implicits.
Arguments mk {Node}.
Scheme All for t.
End PgQuery__CopyStmt.

Module PgQuery__VariableSetStmt.
Record t {Node : Type} : Type := mk {
  kind : Z;
  name : string;
  args : list Node;
  is_local : bool
}.
Arguments t : clear implicits.
Arguments mk {Node}.
Scheme All for t.
End PgQuery__VariableSetStmt.

Module PgQuery__VariableShowStmt.
Record t {Node : Type} : Type := mk {
  name : string
}.
Arguments t : clear implicits.
Arguments mk {Node}.
Scheme All for t.
End PgQuery__VariableShowStmt.

Module PgQuery__CreateStmt.
Record t {Node : Type} : Type := mk {
  relation : option (PgQuery__RangeVar.t Node);
  table_elts : list Node;
  inh_relations : list Node;
  partbound : option (PgQuery__PartitionBoundSpec.t Node);
  partspec : option (PgQuery__PartitionSpec.t Node);
  of_typename : option (PgQuery__TypeName.t Node);
  constraints : list Node;
  options : list Node;
  oncommit : Z;
  tablespacename : string;
  access_method : string;
  if_not_exists : bool
}.
Arguments t : clear implicits.
Arguments mk {Node}.
Scheme All for t.
End PgQuery__CreateStmt.

Module PgQuery__CreateTableSpaceStmt.
Record t {Node : Type} : Type := mk {
  tablespacename : string;
  owner : option (PgQuery__RoleSpec.t Node);
  location : string;
  options : list Node
}.
Arguments t : clear implicits.
Arguments mk {Node}.
Scheme All for t.
End PgQuery__CreateTableSpaceStmt.

Module PgQuery__DropTableSpaceStmt.
Record t {Node : Type} : Type := mk {
  tablespacename : string;
  missing_ok : bool
}.
Arguments t : clear implicits.
Arguments mk {Node}.
Scheme All for t.
End PgQuery__DropTableSpaceStmt.

Module PgQuery__AlterTableSpaceOptionsStmt.
Record t {Node : Type} : Type := mk {
  tablespacename : string;
  options : list Node;
  is_reset : bool
}.
Arguments t : clear implicits.
Arguments mk {Node}.
Scheme All for t.
End PgQuery__AlterTableSpaceOptionsStmt.

Module PgQuery__AlterTableMoveAllStmt.
Record t {Node : Type} : Type := mk {
  orig_tablespacename : string;
  objtype : Z;
  roles : list Node;
  new_tablespacename : string;
  nowait : bool
}.
Arguments t : clear implicits.
Arguments mk {Node}.
Scheme All for t.
End PgQuery__AlterTableMoveAllStmt.

Module PgQuery__CreateExtensionStmt.
Record t {Node : Type} : Type := mk {
  extname : string;
  if_not_exists : bool;
  options : list Node
}.
Arguments t : clear implicits.
Arguments mk {Node}.
Scheme All for t.
End PgQuery__CreateExtensionStmt.

Module PgQuery__AlterExtensionStmt.
Record t {Node : Type} : Type := mk {
  extname : string;
  options : list Node
}.
Arguments t : clear implicits.
Arguments mk {Node}.
Scheme All for t.
End PgQuery__AlterExtensionStmt.

Module PgQuery__AlterExtensionContentsStmt.
Record t {Node : Type} : Type := mk {
  extname : string;
  action : Z;
  objtype : Z;
  object : option Node
}.
Arguments t : clear implicits.
Arguments mk {Node}.
Scheme All for t.
End PgQuery__AlterExtensionContentsStmt.

Module PgQuery__CreateFdwStmt.
Record t {Node : Type} : Type := mk {
  fdwname : string;
  func_options : list Node;
  options : list Node
}.
Arguments t : clear implicits.
Arguments mk {Node}.
Scheme All for t.
End PgQuery__CreateFdwStmt.

Module PgQuery__AlterFdwStmt.
Record t {Node : Type} : Type := mk {
  fdwname : string;
  func_options : list Node;
  options : list Node
}.
Arguments t : clear implicits.
Arguments mk {Node}.
Scheme All for t.
End PgQuery__AlterFdwStmt.

Module PgQuery__CreateForeignServerStmt.
Record t {Node : Type} : Type := mk {
  servername : string;
  servertype : string;
  version : string;
  fdwname : string;
  if_not_exists : bool;
  options : list Node
}.
Arguments t : clear implicits.
Arguments mk {Node}.
Scheme All for t.
End PgQuery__CreateForeignServerStmt.

Module PgQuery__AlterForeignServerStmt.
Record t {Node : Type} : Type := mk {
  servername : string;
  version : string;
  options : list Node;
  has_version : bool
}.
Arguments t : clear implicits.
Arguments mk {Node}.
Scheme All for t.
End PgQuery__AlterForeignServerStmt.

Module PgQuery__CreateForeignTableStmt.
Record t {Node : Type} : Type := mk {
  base_stmt : option (PgQuery__CreateStmt.t Node);
  servername : string;
  options : list Node
}.
Arguments t : clear implicits.
Arguments mk {Node}.
Scheme All for t.
End PgQuery__CreateForeignTableStmt.

Module PgQuery__CreateUserMappingStmt.
Record t {Node : Type} : Type := mk {
  user : option (PgQuery__RoleSpec.t Node);
  servername : string;
  if_not_exists : bool;
  options : list Node
}.
Arguments t : clear implicits.
Arguments mk {Node}.
Scheme All for t.
End PgQuery__CreateUserMappingStmt.

Module PgQuery__AlterUserMappingStmt.
Record t {Node : Type} : Type := mk {
  user : option (PgQuery__RoleSpec.t Node);
  servername : string;
  options : list Node
}.
Arguments t : clear implicits.
Arguments mk {Node}.
Scheme All for t.
End PgQuery__AlterUserMappingStmt.

Module PgQuery__DropUserMappingStmt.
Record t {Node : Type} : Type := mk {
  user : option (PgQuery__RoleSpec.t Node);
  servername : string;
  missing_ok : bool
}.
Arguments t : clear implicits.
Arguments mk {Node}.
Scheme All for t.
End PgQuery__DropUserMappingStmt.

Module PgQuery__ImportForeignSchemaStmt.
Record t {Node : Type} : Type := mk {
  server_name : string;
  remote_schema : string;
  local_schema : string;
  list_type : Z;
  table_list : list Node;
  options : list Node
}.
Arguments t : clear implicits.
Arguments mk {Node}.
Scheme All for t.
End PgQuery__ImportForeignSchemaStmt.

Module PgQuery__CreatePolicyStmt.
Record t {Node : Type} : Type := mk {
  policy_name : string;
  table : option (PgQuery__RangeVar.t Node);
  cmd_name : string;
  permissive : bool;
  roles : list Node;
  qual : option Node;
  with_check : option Node
}.
Arguments t : clear implicits.
Arguments mk {Node}.
Scheme All for t.
End PgQuery__CreatePolicyStmt.

Module PgQuery__AlterPolicyStmt.
Record t {Node : Type} : Type := mk {
  policy_name : string;
  table : option (PgQuery__RangeVar.t Node);
  roles : list Node;
  qual : option Node;
  with_check : option Node
}.
Arguments t : clear implicits.
Arguments mk {Node}.
Scheme All for t.
End PgQuery__AlterPolicyStmt.

Module PgQuery__CreateAmStmt.
Record t {Node : Type} : Type := mk {
  amname : string;
  handler_name : list Node;
  amtype : string
}.
Arguments t : clear implicits.
Arguments mk {Node}.
Scheme All for t.
End PgQuery__CreateAmStmt.

Module PgQuery__CreateTrigStmt.
Record t {Node : Type} : Type := mk {
  trigname : string;
  relation : option (PgQuery__RangeVar.t Node);
  funcname : list Node;
  args : list Node;
  row : bool;
  timing : Z;
  events : Z;
  columns : list Node;
  when_clause : option Node;
  isconstraint : bool;
  transition_rels : list Node;
  deferrable : bool;
  initdeferred : bool;
  constrrel : option (PgQuery__RangeVar.t Node)
}.
Arguments t : clear implicits.
Arguments mk {Node}.
Scheme All for t.
End PgQuery__CreateTrigStmt.

Module PgQuery__CreateEventTrigStmt.
Record t {Node : Type} : Type := mk {
  trigname : string;
  eventname : string;
  whenclause : list Node;
  funcname : list Node
}.
Arguments t : clear implicits.
Arguments mk {Node}.
Scheme All for t.
End PgQuery__CreateEventTrigStmt.

Module PgQuery__AlterEventTrigStmt.
Record t {Node : Type} : Type := mk {
  trigname : string;
  tgenabled : string
}.
Arguments t : clear implicits.
Arguments mk {Node}.
Scheme All for t.
End PgQuery__AlterEventTrigStmt.

Module PgQuery__CreatePLangStmt.
Record t {Node : Type} : Type := mk {
  replace : bool;
  plname : string;
  plhandler : list Node;
  plinline : list Node;
  plvalidator : list Node;
  pltrusted : bool
}.
Arguments t : clear implicits.
Arguments mk {Node}.
Scheme All for t.
End PgQuery__CreatePLangStmt.

Module PgQuery__CreateRoleStmt.
Record t {Node : Type} : Type := mk {
  stmt_type : Z;
  role : string;
  options : list Node
}.
Arguments t : clear implicits.
Arguments mk {Node}.
Scheme All for t.
End PgQuery__CreateRoleStmt.

Module PgQuery__AlterRoleStmt.
Record t {Node : Type} : Type := mk {
  role : option (PgQuery__RoleSpec.t Node);
  options : list Node;
  action : Z
}.
Arguments t : clear implicits.
Arguments mk {Node}.
Scheme All for t.
End PgQuery__AlterRoleStmt.

Module PgQuery__AlterRoleSetStmt.
Record t {Node : Type} : Type := mk {
  role : option (PgQuery__RoleSpec.t Node);
  database : string;
  setstmt : option (PgQuery__VariableSetStmt.t Node)
}.
Arguments t : clear implicits.
Arguments mk {Node}.
Scheme All for t.
End PgQuery__AlterRoleSetStmt.

Module PgQuery__DropRoleStmt.
Record t {Node : Type} : Type := mk {
  roles : list Node;
  missing_ok : bool
}.
Arguments t : clear implicits.
Arguments mk {Node}.
Scheme All for t.
End PgQuery__DropRoleStmt.

Module PgQuery__CreateSeqStmt.
Record t {Node : Type} : Type := mk {
  sequence : option (PgQuery__RangeVar.t Node);
  options : list Node;
  owner_id : Z;
  for_identity : bool;
  if_not_exists : bool
}.
Arguments t : clear implicits.
Arguments mk {Node}.
Scheme All for t.
End PgQuery__CreateSeqStmt.

Module PgQuery__AlterSeqStmt.
Record t {Node : Type} : Type := mk {
  sequence : option (PgQuery__RangeVar.t Node);
  options : list Node;
  for_identity : bool;
  missing_ok : bool
}.
Arguments t : clear implicits.
Arguments mk {Node}.
Scheme All for t.
End PgQuery__AlterSeqStmt.

Module PgQuery__DefineStmt.
Record t {Node : Type} : Type := mk {
  kind : Z;
  oldstyle : bool;
  defnames : list Node;
  args : list Node;
  definition : list Node;
  if_not_exists : bool;
  replace : bool
}.
Arguments t : clear implicits.
Arguments mk {Node}.
Scheme All for t.
End PgQuery__DefineStmt.

Module PgQuery__CreateDomainStmt.
Record t {Node : Type} : Type := mk {
  domainname : list Node;
  type_name : option (PgQuery__TypeName.t Node);
  coll_clause : option (PgQuery__CollateClause.t Node);
  constraints : list Node
}.
Arguments t : clear implicits.
Arguments mk {Node}.
Scheme All for t.
End PgQuery__CreateDomainStmt.

Module PgQuery__CreateOpClassStmt.
Record t {Node : Type} : Type := mk {
  opclassname : list Node;
  opfamilyname : list Node;
  amname : string;
  datatype : option (PgQuery__TypeName.t Node);
  items : list Node;
  is_default : bool
}.
Arguments t : clear implicits.
Arguments mk {Node}.
Scheme All for t.
End PgQuery__CreateOpClassStmt.

Module PgQuery__CreateOpClassItem.
Record t {Node : Type} : Type := mk {
  itemtype : Z;
  name : option (PgQuery__ObjectWithArgs.t Node);
  number : Z;
  order_family : list Node;
  class_args : list Node;
  storedtype : option (PgQuery__TypeName.t Node)
}.
Arguments t : clear implicits.
Arguments mk {Node}.
Scheme All for t.
End PgQuery__CreateOpClassItem.

Module PgQuery__CreateOpFamilyStmt.
Record t {Node : Type} : Type := mk {
  opfamilyname : list Node;
  amname : string
}.
Arguments t : clear implicits.
Arguments mk {Node}.
Scheme All for t.
End PgQuery__CreateOpFamilyStmt.

Module PgQuery__AlterOpFamilyStmt.
Record t {Node : Type} : Type := mk {
  opfamilyname : list Node;
  amname : string;
  is_drop : bool;
  items : list Node
}.
Arguments t : clear implicits.
Arguments mk {Node}.
Scheme All for t.
End PgQuery__AlterOpFamilyStmt.

Module PgQuery__DropStmt.
Record t {Node : Type} : Type := mk {
  objects : list Node;
  remove_type : Z;
  behavior : Z;
  missing_ok : bool;
  concurrent : bool
}.
Arguments t : clear implicits.
Arguments mk {Node}.
Scheme All for t.
End PgQuery__DropStmt.

Module PgQuery__TruncateStmt.
Record t {Node : Type} : Type := mk {
  relations : list Node;
  restart_seqs : bool;
  behavior : Z
}.
Arguments t : clear implicits.
Arguments mk {Node}.
Scheme All for t.
End PgQuery__TruncateStmt.

Module PgQuery__CommentStmt.
Record t {Node : Type} : Type := mk {
  objtype : Z;
  object : option Node;
  comment : string
}.
Arguments t : clear implicits.
Arguments mk {Node}.
Scheme All for t.
End PgQuery__CommentStmt.

Module PgQuery__SecLabelStmt.
Record t {Node : Type} : Type := mk {
  objtype : Z;
  object : option Node;
  provider : string;
  label : string
}.
Arguments t : clear implicits.
Arguments mk {Node}.
Scheme All for t.
End PgQuery__SecLabelStmt.

Module PgQuery__DeclareCursorStmt.
Record t {Node : Type} : Type := mk {
  portalname : string;
  options : Z;
  query : option Node
}.
Arguments t : clear implicits.
Arguments mk {Node}.
Scheme All for t.
End PgQuery__DeclareCursorStmt.

Module PgQuery__ClosePortalStmt.
Record t {Node : Type} : Type := mk {
  portalname : string
}.
Arguments t : clear implicits.
Arguments mk {Node}.
Scheme All for t.
End PgQuery__ClosePortalStmt.

Module PgQuery__FetchStmt.
Record t {Node : Type} : Type := mk {
  direction : Z;
  how_many : Z;
  portalname : string;
  ismove : bool
}.
Arguments t : clear implicits.
Arguments mk {Node}.
Scheme All for t.
End PgQuery__FetchStmt.

Module PgQuery__IndexStmt.
Record t {Node : Type} : Type := mk {
  idxname : string;
  relation : option (PgQuery__RangeVar.t Node);
  access_method : string;
  table_space : string;
  index_params : list Node;
  index_including_params : list Node;
  options : list Node;
  where_clause : option Node;
  exclude_op_names : list Node;
  idxcomment : string;
  index_oid : Z;
  old_node : Z;
  old_create_subid : Z;
  old_first_relfilenode_subid : Z;
  unique : bool;
  primary : bool;
  isconstraint : bool;
  deferrable : bool;
  initdeferred : bool;
  transformed : bool;
  concurrent : bool;
  if_not_exists : bool;
  reset_default_tblspc : bool
}.
Arguments t : clear implicits.
Arguments mk {Node}.
Scheme All for t.
End PgQuery__IndexStmt.

Module PgQuery__CreateStatsStmt.
Record t {Node : Type} : Type := mk {
  defnames : list Node;
  stat_types : list Node;
  exprs : list Node;
  relations : list Node;
  stxcomment : string;
  if_not_exists : bool
}.
Arguments t : clear implicits.
Arguments mk {Node}.
Scheme All for t.
End PgQuery__CreateStatsStmt.

Module PgQuery__AlterStatsStmt.
Record t {Node : Type} : Type := mk {
  defnames : list Node;
  stxstattarget : Z;
  missing_ok : bool
}.
Arguments t : clear implicits.
Arguments mk {Node}.
Scheme All for t.
End PgQuery__AlterStatsStmt.

Module PgQuery__CreateFunctionStmt.
Record t {Node : Type} : Type := mk {
  is_procedure : bool;
  replace : bool;
  funcname : list Node;
  parameters : list Node;
  return_type : option (PgQuery__TypeName.t Node);
  options : list Node
}.
Arguments t : clear implicits.
Arguments mk {Node}.
Scheme All for t.
End PgQuery__CreateFunctionStmt.

Module PgQuery__FunctionParameter.
Record t {Node : Type} : Type := mk {
  name : string;
  arg_type : option (PgQuery__TypeName.t Node);
  mode : Z;
  defexpr : option Node
}.
Arguments t : clear implicits.
Arguments mk {Node}.
Scheme All for t.
End PgQuery__FunctionParameter.

Module PgQuery__AlterFunctionStmt.
Record t {Node : Type} : Type := mk {
  objtype : Z;
  func : option (PgQuery__ObjectWithArgs.t Node);
  actions : list Node
}.
Arguments t : clear implicits.
Arguments mk {Node}.
Scheme All for t.
End PgQuery__AlterFunctionStmt.

Module PgQuery__DoStmt.
Record t {Node : Type} : Type := mk {
  args : list Node
}.
Arguments t : clear implicits.
Arguments mk {Node}.
Scheme All for t.
End PgQuery__DoStmt.

Module PgQuery__FuncExpr.
Record t {Node : Type} : Type := mk {
  xpr : option Node;
  funcid : Z;
  funcresulttype : Z;
  funcretset : bool;
  funcvariadic : bool;
  funcformat : Z;
  funccollid : Z;
  inputcollid : Z;
  args : list Node;
  location : Z
}.
Arguments t : clear implicits.
Arguments mk {Node}.
Scheme All for t.
End PgQuery__FuncExpr.

Module PgQuery__CallStmt.
Record t {Node : Type} : Type := mk {
  funccall : option (PgQuery__FuncCall.t Node);
  funcexpr : option (PgQuery__FuncExpr.t Node)
}.
Arguments t : clear implicits.
Arguments mk {Node}.
Scheme All for t.
End PgQuery__CallStmt.

Module PgQuery__RenameStmt.
Record t {Node : Type} : Type := mk {
  rename_type : Z;
  relation_type : Z;
  relation : option (PgQuery__RangeVar.t Node);
  object : option Node;
  subname : string;
  newname : string;
  behavior : Z;
  missing_ok : bool
}.
Arguments t : clear implicits.
Arguments mk {Node}.
Scheme All for t.
End PgQuery__RenameStmt.

Module PgQuery__AlterObjectDependsStmt.
Record t {Node : Type} : Type := mk {
  object_type : Z;
  relation : option (PgQuery__RangeVar.t Node);
  object : option Node;
  extname : option Node;
  remove : bool
}.
Arguments t : clear implicits.
Arguments mk {Node}.
Scheme All for t.
End PgQuery__AlterObjectDependsStmt.

Module PgQuery__AlterObjectSchemaStmt.
Record t {Node : Type} : Type := mk {
  object_type : Z;
  relation : option (PgQuery__RangeVar.t Node);
  object : option Node;
  newschema : string;
  missing_ok : bool
}.
Arguments t : clear implicits.
Arguments mk {Node}.
Scheme All for t.
End PgQuery__AlterObjectSchemaStmt.

Module PgQuery__AlterOwnerStmt.
Record t {Node : Type} : Type := mk {
  object_type : Z;
  relation : option (PgQuery__RangeVar.t Node);
  object : option Node;
  newowner : option (PgQuery__RoleSpec.t Node)
}.
Arguments t : clear implicits.
Arguments mk {Node}.
Scheme All for t.
End PgQuery__AlterOwnerStmt.

Module PgQuery__AlterOperatorStmt.
Record t {Node : Type} : Type := mk {
  opername : option (PgQuery__ObjectWithArgs.t Node);
  options : list Node
}.
Arguments t : clear implicits.
Arguments mk {Node}.
Scheme All for t.
End PgQuery__AlterOperatorStmt.

Module PgQuery__AlterTypeStmt.
Record t {Node : Type} : Type := mk {
  type_name : list Node;
  options : list Node
}.
Arguments t : clear implicits.
Arguments mk {Node}.
Scheme All for t.
End PgQuery__AlterTypeStmt.

Module PgQuery__RuleStmt.
Record t {Node : Type} : Type := mk {
  relation : option (PgQuery__RangeVar.t Node);
  rulename : string;
  where_clause : option Node;
  event : Z;
  instead : bool;
  actions : list Node;
  replace : bool
}.
Arguments t : clear implicits.
Arguments mk {Node}.
Scheme All for t.
End PgQuery__RuleStmt.

Module PgQuery__NotifyStmt.
Record t {Node : Type} : Type := mk {
  conditionname : string;
  payload : string
}.
Arguments t : clear implicits.
Arguments mk {Node}.
Scheme All for t.
End PgQuery__NotifyStmt.

Module PgQuery__ListenStmt.
Record t {Node : Type} : Type := mk {
  conditionname : string
}.
Arguments t : clear implicits.
Arguments mk {Node}.
Scheme All for t.
End PgQuery__ListenStmt.

Module PgQuery__UnlistenStmt.
Record t {Node : Type} : Type := mk {
  conditionname : string
}.
Arguments t : clear implicits.
Arguments mk {Node}.
Scheme All for t.
End PgQuery__UnlistenStmt.

Module PgQuery__TransactionStmt.
Record t {Node : Type} : Type := mk {
  kind : Z;
  options : list Node;
  savepoint_name : string;
  gid : string;
  chain : bool
}.
Arguments t : clear implicits.
Arguments mk {Node}.
Scheme All for t.
End PgQuery__TransactionStmt.

Module PgQuery__CompositeTypeStmt.
Record t {Node : Type} : Type := mk {
  typevar : option (PgQuery__RangeVar.t Node);
  coldeflist : list Node
}.
Arguments t : clear implicits.
Arguments mk {Node}.
Scheme All for t.
End PgQuery__CompositeTypeStmt.

Module PgQuery__CreateEnumStmt.
Record t {Node : Type} : Type := mk {
  type_name : list Node;
  vals : list Node
}.
Arguments t : clear implicits.
Arguments mk {Node}.
Scheme All for t.
End PgQuery__CreateEnumStmt.

Module PgQuery__CreateRangeStmt.
Record t {Node : Type} : Type := mk {
  type_name : list Node;
  params : list Node
}.
Arguments t : clear implicits.
Arguments mk {Node}.
Scheme All for t.
End PgQuery__CreateRangeStmt.

Module PgQuery__AlterEnumStmt.
Record t {Node : Type} : Type := mk {
  type_name : list Node;
  old_val : string;
  new_val : string;
  new_val_neighbor : string;
  new_val_is_after : bool;
  skip_if_new_val_exists : bool
}.
Arguments t : clear implicits.
Arguments mk {Node}.
Scheme All for t.
End PgQuery__AlterEnumStmt.

Module PgQuery__ViewStmt.
Record t {Node : Type} : Type := mk {
  view : option (PgQuery__RangeVar.t Node);
  aliases : list Node;
  query : option Node;
  replace : bool;
  options : list Node;
  with_check_option : Z
}.
Arguments t : clear implicits.
Arguments mk {Node}.
Scheme All for t.
End PgQuery__ViewStmt.

Module PgQuery__LoadStmt.
Record t {Node : Type} : Type := mk {
  filename : string
}.
Arguments t : clear implicits.
Arguments mk {Node}.
Scheme All for t.
End PgQuery__LoadStmt.

Module PgQuery__CreatedbStmt.
Record t {Node : Type} : Type := mk {
  dbname : string;
  options : list Node
}.
Arguments t : clear implicits.
Arguments mk {Node}.
Scheme All for t.
End PgQuery__CreatedbStmt.

Module PgQuery__AlterDatabaseStmt.
Record t {Node : Type} : Type := mk {
  dbname : string;
  options : list Node
}.
Arguments t : clear implicits.
Arguments mk {Node}.
Scheme All for t.
End PgQuery__AlterDatabaseStmt.

Module PgQuery__AlterDatabaseSetStmt.
Record t {Node : Type} : Type := mk {
  dbname : string;
  setstmt : option (PgQuery__VariableSetStmt.t Node)
}.
Arguments t : clear implicits.
Arguments mk {Node}.
Scheme All for t.
End PgQuery__AlterDatabaseSetStmt.

Module PgQuery__DropdbStmt.
Record t {Node : Type} : Type := mk {
  dbname : string;
  missing_ok : bool;
  options : list Node
}.
Arguments t : clear implicits.
Arguments mk {Node}.
Scheme All for t.
End PgQuery__DropdbStmt.

Module PgQuery__AlterSystemStmt.
Record t {Node : Type} : Type := mk {
  setstmt : option (PgQuery__VariableSetStmt.t Node)
}.
Arguments t : clear implicits.
Arguments mk {Node}.
Scheme All for t.
End PgQuery__AlterSystemStmt.

Module PgQuery__ClusterStmt.
Record t {Node : Type} : Type := mk {
  relation : option (PgQuery__RangeVar.t Node);
  indexname : string;
  options : Z
}.
Arguments t : clear implicits.
Arguments mk {Node}.
Scheme All for t.
End PgQuery__ClusterStmt.

Module PgQuery__VacuumStmt.
Record t {Node : Type} : Type := mk {
  options : list Node;
  rels : list Node;
  is_vacuumcmd : bool
}.
Arguments t : clear implicits.
Arguments mk {Node}.
Scheme All for t.
End PgQuery__VacuumStmt.

Module PgQuery__VacuumRelation.
Record t {Node : Type} : Type := mk {
  relation : option (PgQuery__RangeVar.t Node);
  oid : Z;
  va_cols : list Node
}.
Arguments t : clear implicits.
Arguments mk {Node}.
Scheme All for t.
End PgQuery__VacuumRelation.

Module PgQuery__ExplainStmt.
Record t {Node : Type} : Type := mk {
  query : option Node;
  options : list Node
}.
Arguments t : clear implicits.
Arguments mk {Node}.
Scheme All for t.
End PgQuery__ExplainStmt.

Module PgQuery__CreateTableAsStmt.
Record t {Node : Type} : Type := mk {
  query : option Node;
  into : option (PgQuery__IntoClause.t Node);
  relkind : Z;
  is_select_into : bool;
  if_not_exists : bool
}.
Arguments t : clear implicits.
Arguments mk {Node}.
Scheme All for t.
End PgQuery__CreateTableAsStmt.

Module PgQuery__RefreshMatViewStmt.
Record t {Node : Type} : Type := mk {
  concurrent : bool;
  skip_data : bool;
  relation : option (PgQuery__RangeVar.t Node)
}.
Arguments t : clear implicits.
Arguments mk {Node}.
Scheme All for t.
End PgQuery__RefreshMatViewStmt.

Module PgQuery__CheckPointStmt.
Record t {Node : Type} : Type := mk { }.
Arguments t : clear implicits.
Arguments mk {Node}.
Scheme All for t.
End PgQuery__CheckPointStmt.

Module PgQuery__DiscardStmt.
Record t {Node : Type} : Type := mk {
  target : Z
}.
Arguments t : clear implicits.
Arguments mk {Node}.
Scheme All for t.
End PgQuery__DiscardStmt.

Module PgQuery__LockStmt.
Record t {Node : Type} : Type := mk {
  relations : list Node;
  mode : Z;
  nowait : bool
}.
Arguments t : clear implicits.
Arguments mk {Node}.
Scheme All for t.
End PgQuery__LockStmt.

Module PgQuery__ConstraintsSetStmt.
Record t {Node : Type} : Type := mk {
  constraints : list Node;
  deferred : bool
}.
Arguments t : clear implicits.
Arguments mk {Node}.
Scheme All for t.
End PgQuery__ConstraintsSetStmt.

Module PgQuery__ReindexStmt.
Record t {Node : Type} : Type := mk {
  kind : Z;
  relation : option (PgQuery__RangeVar.t Node);
  name : string;
  options : Z;
  concurrent : bool
}.
Arguments t : clear implicits.
Arguments mk {Node}.
Scheme All for t.
End PgQuery__ReindexStmt.

Module PgQuery__CreateConversionStmt.
Record t {Node : Type} : Type := mk {
  conversion_name : list Node;
  for_encoding_name : string;
  to_encoding_name : string;
  func_name : list Node;
  def : bool
}.
Arguments t : clear implicits.
Arguments mk {Node}.
Scheme All for t.
End PgQuery__CreateConversionStmt.

Module PgQuery__CreateCastStmt.
Record t {Node : Type} : Type := mk {
  sourcetype : option (PgQuery__TypeName.t Node);
  targettype : option (PgQuery__TypeName.t Node);
  func : option (PgQuery__ObjectWithArgs.t Node);
  context : Z;
  inout : bool
}.
Arguments t : clear implicits.
Arguments mk {Node}.
Scheme All for t.
End PgQuery__CreateCastStmt.

Module PgQuery__CreateTransformStmt.
Record t {Node : Type} : Type := mk {
  replace : bool;
  type_name : option (PgQuery__TypeName.t Node);
  lang : string;
  fromsql : option (PgQuery__ObjectWithArgs.t Node);
  tosql : option (PgQuery__ObjectWithArgs.t Node)
}.
Arguments t : clear implicits.
Arguments mk {Node}.
Scheme All for t.
End PgQuery__CreateTransformStmt.

Module PgQuery__PrepareStmt.
Record t {Node : Type} : Type := mk {
  name : string;
  argtypes : list Node;
  query : option Node
}.
Arguments t : clear implicits.
Arguments mk {Node}.
Scheme All for t.
End PgQuery__PrepareStmt.

Module PgQuery__ExecuteStmt.
Record t {Node : Type} : Type := mk {
  name : string;
  params : list Node
}.
Arguments t : clear implicits.
Arguments mk {Node}.
Scheme All for t.
End PgQuery__ExecuteStmt.

Module PgQuery__DeallocateStmt.
Record t {Node : Type} : Type := mk {
  name : string
}.
Arguments t : clear implicits.
Arguments mk {Node}.
Scheme All for t.
End PgQuery__DeallocateStmt.

Module PgQuery__DropOwnedStmt.
Record t {Node : Type} : Type := mk {
  roles : list Node;
  behavior : Z
}.
Arguments t : clear implicits.
Arguments mk {Node}.
Scheme All for t.
End PgQuery__DropOwnedStmt.

Module PgQuery__ReassignOwnedStmt.
Record t {Node : Type} : Type := mk {
  roles : list Node;
  newrole : option (PgQuery__RoleSpec.t Node)
}.
Arguments t : clear implicits.
Arguments mk {Node}.
Scheme All for t.
End PgQuery__ReassignOwnedStmt.

Module PgQuery__AlterTSDictionaryStmt.
Record t {Node : Type} : Type := mk {
  dictname : list Node;
  options : list Node
}.
Arguments t : clear implicits.
Arguments mk {Node}.
Scheme All for t.
End PgQuery__AlterTSDictionaryStmt.

Module PgQuery__AlterTSConfigurationStmt.
Record t {Node : Type} : Type := mk {
  kind : Z;
  cfgname : list Node;
  tokentype : list Node;
  dicts : list Node;
  override : bool;
  replace : bool;
  missing_ok : bool
}.
Arguments t : clear implicits.
Arguments mk {Node}.
Scheme All for t.
End PgQuery__AlterTSConfigurationStmt.

Module PgQuery__CreatePublicationStmt.
Record t {Node : Type} : Type := mk {
  pubname : string;
  options : list Node;
  tables : list Node;
  for_all_tables : bool
}.
Arguments t : clear implicits.
Arguments mk {Node}.
Scheme All for t.
End PgQuery__CreatePublicationStmt.

Module PgQuery__AlterPublicationStmt.
Record t {Node : Type} : Type := mk {
  pubname : string;
  options : list Node;
  tables : list Node;
  for_all_tables : bool;
  table_action : Z
}.
Arguments t : clear implicits.
Arguments mk {Node}.
Scheme All for t.
End PgQuery__AlterPublicationStmt.

Module PgQuery__CreateSubscriptionStmt.
Record t {Node : Type} : Type := mk {
  subname : string;
  conninfo : string;
  publication : list Node;
  options : list Node
}.
Arguments t : clear implicits.
Arguments mk {Node}.
Scheme All for t.
End PgQuery__CreateSubscriptionStmt.

Module PgQuery__AlterSubscriptionStmt.
Record t {Node : Type} : Type := mk {
  kind : Z;
  subname : string;
  conninfo : string;
  publication : list Node;
  options : list Node
}.
Arguments t : clear implicits.
Arguments mk {Node}.
Scheme All for t.
End PgQuery__AlterSubscriptionStmt.

Module PgQuery__DropSubscriptionStmt.
Record t {Node : Type} : Type := mk {
  subname : string;
  missing_ok : bool;
  behavior : Z
}.
Arguments t : clear implicits.
Arguments mk {Node}.
Scheme All for t.
End PgQuery__DropSubscriptionStmt.

(** [node_case] with the member of the union. *)
Inductive PgQuery__Node : Type :=
| Node_not_set
| Node_range_var (m : PgQuery__RangeVar.t PgQuery__Node)
| Node_alias (m : PgQuery__Alias.t PgQuery__Node)
| Node_type_name (m : PgQuery__TypeName.t PgQuery__Node)
| Node_column_ref (m : PgQuery__ColumnRef.t PgQuery__Node)
| Node_param_ref (m : PgQuery__ParamRef.t PgQuery__Node)
| Node_a_expr (m : PgQuery__AExpr.t PgQuery__Node)
| Node_a_const (m : PgQuery__AConst.t PgQuery__Node)
| Node_type_cast (m : PgQuery__TypeCast.t PgQuery__Node)
| Node_collate_clause (m : PgQuery__CollateClause.t PgQuery__Node)
| Node_role_spec (m : PgQuery__RoleSpec.t PgQuery__Node)
| Node_window_def (m : PgQuery__WindowDef.t PgQuery__Node)
| Node_sort_by (m : PgQuery__SortBy.t PgQuery__Node)
| Node_func_call (m : PgQuery__FuncCall.t PgQuery__Node)
| Node_a_star (m : PgQuery__AStar.t PgQuery__Node)
| Node_a_indices (m : PgQuery__AIndices.t PgQuery__Node)
| Node_a_indirection (m : PgQuery__AIndirection.t PgQuery__Node)
| Node_a_array_expr (m : PgQuery__AArrayExpr.t PgQuery__Node)
| Node_res_target (m : PgQuery__ResTarget.t PgQuery__Node)
| Node_multi_assign_ref (m : PgQuery__MultiAssignRef.t PgQuery__Node)
| Node_named_arg_expr (m : PgQuery__NamedArgExpr.t PgQuery__Node)
| Node_bool_expr (m : PgQuery__BoolExpr.t PgQuery__Node)
| Node_sub_link (m : PgQuery__SubLink.t PgQuery__Node)
| Node_case_when (m : PgQuery__CaseWhen.t PgQuery__Node)
| Node_case_expr (m : PgQuery__CaseExpr.t PgQuery__Node)
| Node_row_expr (m : PgQuery__RowExpr.t PgQuery__Node)
| Node_coalesce_expr (m : PgQuery__CoalesceExpr.t PgQuery__Node)
| Node_min_max_expr (m : PgQuery__MinMaxExpr.t PgQuery__Node)
| Node_sqlvalue_function (m : PgQuery__SQLValueFunction.t PgQuery__Node)
| Node_xml_expr (m : PgQuery__XmlExpr.t PgQuery__Node)
| Node_xml_serialize (m : PgQuery__XmlSerialize.t PgQuery__Node)
| Node_null_test (m : PgQuery__NullTest.t PgQuery__Node)
| Node_boolean_test (m : PgQuery__BooleanTest.t PgQuery__Node)
| Node_set_to_default (m : PgQuery__SetToDefault.t PgQuery__Node)
| Node_current_of_expr (m : PgQuery__CurrentOfExpr.t PgQuery__Node)
| Node_grouping_func (m : PgQuery__GroupingFunc.t PgQuery__Node)
| Node_def_elem (m : PgQuery__DefElem.t PgQuery__Node)
| Node_index_elem (m : PgQuery__IndexElem.t PgQuery__Node)
| Node_constraint (m : PgQuery__Constraint.t PgQuery__Node)
| Node_column_def (m : PgQuery__ColumnDef.t PgQuery__Node)
| Node_join_expr (m : PgQuery__JoinExpr.t PgQuery__Node)
| Node_range_subselect (m : PgQuery__RangeSubselect.t PgQuery__Node)
| Node_range_function (m : PgQuery__RangeFunction.t PgQuery__Node)
| Node_range_table_func_col (m : PgQuery__RangeTableFuncCol.t PgQuery__Node)
| Node_range_table_func (m : PgQuery__RangeTableFunc.t PgQuery__Node)
| Node_range_table_sample (m : PgQuery__RangeTableSample.t PgQuery__Node)
| Node_common_table_expr (m : PgQuery__CommonTableExpr.t PgQuery__Node)
| Node_with_clause (m : PgQuery__WithClause.t PgQuery__Node)
| Node_infer_clause (m : PgQuery__InferClause.t PgQuery__Node)
| Node_on_conflict_clause (m : PgQuery__OnConflictClause.t PgQuery__Node)
| Node_locking_clause (m : PgQuery__LockingClause.t PgQuery__Node)
| Node_grouping_set (m : PgQuery__GroupingSet.t PgQuery__Node)
| Node_into_clause (m : PgQuery__IntoClause.t PgQuery__Node)
| Node_select_stmt (m : PgQuery__SelectStmt.t PgQuery__Node)
| Node_insert_stmt (m : PgQuery__InsertStmt.t PgQuery__Node)
| Node_update_stmt (m : PgQuery__UpdateStmt.t PgQuery__Node)
| Node_delete_stmt (m : PgQuery__DeleteStmt.t PgQuery__Node)
| Node_raw_stmt (m : PgQuery__RawStmt.t PgQuery__Node)
| Node_alter_table_cmd (m : PgQuery__AlterTableCmd.t PgQuery__Node)
| Node_partition_bound_spec (m : PgQuery__PartitionBoundSpec.t PgQuery__Node)
| Node_table_like_clause (m : PgQuery__TableLikeClause.t PgQuery__Node)
| Node_partition_elem (m : PgQuery__PartitionElem.t PgQuery__Node)
| Node_partition_spec (m : PgQuery__PartitionSpec.t PgQuery__Node)
| Node_partition_cmd (m : PgQuery__PartitionCmd.t PgQuery__Node)
| Node_trigger_transition (m : PgQuery__TriggerTransition.t PgQuery__Node)
| Node_create_schema_stmt (m : PgQuery__CreateSchemaStmt.t PgQuery__Node)
| Node_alter_table_stmt (m : PgQuery__AlterTableStmt.t PgQuery__Node)
| Node_replica_identity_stmt (m : PgQuery__ReplicaIdentityStmt.t PgQuery__Node)
| Node_alter_collation_stmt (m : PgQuery__AlterCollationStmt.t PgQuery__Node)
| Node_alter_domain_stmt (m : PgQuery__AlterDomainStmt.t PgQuery__Node)
| Node_grant_stmt (m : PgQuery__GrantStmt.t PgQuery__Node)
| Node_object_with_args (m : PgQuery__ObjectWithArgs.t PgQuery__Node)
| Node_access_priv (m : PgQuery__AccessPriv.t PgQuery__Node)
| Node_grant_role_stmt (m : PgQuery__GrantRoleStmt.t PgQuery__Node)
| Node_alter_default_privileges_stmt (m : PgQuery__AlterDefaultPrivilegesStmt.t PgQuery__Node)
| Node_copy_stmt (m : PgQuery__CopyStmt.t PgQuery__Node)
| Node_variable_set_stmt (m : PgQuery__VariableSetStmt.t PgQuery__Node)
| Node_variable_show_stmt (m : PgQuery__VariableShowStmt.t PgQuery__Node)
| Node_create_stmt (m : PgQuery__CreateStmt.t PgQuery__Node)
| Node_create_table_space_stmt (m : PgQuery__CreateTableSpaceStmt.t PgQuery__Node)
| Node_drop_table_space_stmt (m : PgQuery__DropTableSpaceStmt.t PgQuery__Node)
| Node_alter_table_space_options_stmt (m : PgQuery__AlterTableSpaceOptionsStmt.t PgQuery__Node)
| Node_alter_table_move_all_stmt (m : PgQuery__AlterTableMoveAllStmt.t PgQuery__Node)
| Node_create_extension_stmt (m : PgQuery__CreateExtensionStmt.t PgQuery__Node)
| Node_alter_extension_stmt (m : PgQuery__AlterExtensionStmt.t PgQuery__Node)
| Node_alter_extension_contents_stmt (m : PgQuery__AlterExtensionContentsStmt.t PgQuery__Node)
| Node_create_fdw_stmt (m : PgQuery__CreateFdwStmt.t PgQuery__Node)
| Node_alter_fdw_stmt (m : PgQuery__AlterFdwStmt.t PgQuery__Node)
| Node_create_foreign_server_stmt (m : PgQuery__CreateForeignServerStmt.t PgQuery__Node)
| Node_alter_foreign_server_stmt (m : PgQuery__AlterForeignServerStmt.t PgQuery__Node)
| Node_create_foreign_table_stmt (m : PgQuery__CreateForeignTableStmt.t PgQuery__Node)
| Node_create_user_mapping_stmt (m : PgQuery__CreateUserMappingStmt.t PgQuery__Node)
| Node_alter_user_mapping_stmt (m : PgQuery__AlterUserMappingStmt.t PgQuery__Node)
| Node_drop_user_mapping_stmt (m : PgQuery__DropUserMappingStmt.t PgQuery__Node)
| Node_import_foreign_schema_stmt (m : PgQuery__ImportForeignSchemaStmt.t PgQuery__Node)
| Node_create_policy_stmt (m : PgQuery__CreatePolicyStmt.t PgQuery__Node)
| Node_alter_policy_stmt (m : PgQuery__AlterPolicyStmt.t PgQuery__Node)
| Node_create_am_stmt (m : PgQuery__CreateAmStmt.t PgQuery__Node)
| Node_create_trig_stmt (m : PgQuery__CreateTrigStmt.t PgQuery__Node)
| Node_create_event_trig_stmt (m : PgQuery__CreateEventTrigStmt.t PgQuery__Node)
| Node_alter_event_trig_stmt (m : PgQuery__AlterEventTrigStmt.t PgQuery__Node)
| Node_create_plang_stmt (m : PgQuery__CreatePLangStmt.t PgQuery__Node)
| Node_create_role_stmt (m : PgQuery__CreateRoleStmt.t PgQuery__Node)
| Node_alter_role_stmt (m : PgQuery__AlterRoleStmt.t PgQuery__Node)
| Node_alter_role_set_stmt (m : PgQuery__AlterRoleSetStmt.t PgQuery__Node)
| Node_drop_role_stmt (m : PgQuery__DropRoleStmt.t PgQuery__Node)
| Node_create_seq_stmt (m : PgQuery__CreateSeqStmt.t PgQuery__Node)
| Node_alter_seq_stmt (m : PgQuery__AlterSeqStmt.t PgQuery__Node)
| Node_define_stmt (m : PgQuery__DefineStmt.t PgQuery__Node)
| Node_create_domain_stmt (m : PgQuery__CreateDomainStmt.t PgQuery__Node)
| Node_create_op_class_stmt (m : PgQuery__CreateOpClassStmt.t PgQuery__Node)
| Node_create_op_class_item (m : PgQuery__CreateOpClassItem.t PgQuery__Node)
| Node_create_op_family_stmt (m : PgQuery__CreateOpFamilyStmt.t PgQuery__Node)
| Node_alter_op_family_stmt (m : PgQuery__AlterOpFamilyStmt.t PgQuery__Node)
| Node_drop_stmt (m : PgQuery__DropStmt.t PgQuery__Node)
| Node_truncate_stmt (m : PgQuery__TruncateStmt.t PgQuery__Node)
| Node_comment_stmt (m : PgQuery__CommentStmt.t PgQuery__Node)
| Node_sec_label_stmt (m : PgQuery__SecLabelStmt.t PgQuery__Node)
| Node_declare_cursor_stmt (m : PgQuery__DeclareCursorStmt.t PgQuery__Node)
| Node_close_portal_stmt (m : PgQuery__ClosePortalStmt.t PgQuery__Node)
| Node_fetch_stmt (m : PgQuery__FetchStmt.t PgQuery__Node)
| Node_index_stmt (m : PgQuery__IndexStmt.t PgQuery__Node)
| Node_create_stats_stmt (m : PgQuery__CreateStatsStmt.t PgQuery__Node)
| Node_alter_stats_stmt (m : PgQuery__AlterStatsStmt.t PgQuery__Node)
| Node_create_function_stmt (m : PgQuery__CreateFunctionStmt.t PgQuery__Node)
| Node_function_parameter (m : PgQuery__FunctionParameter.t PgQuery__Node)
| Node_alter_function_stmt (m : PgQuery__AlterFunctionStmt.t PgQuery__Node)
| Node_do_stmt (m : PgQuery__DoStmt.t PgQuery__Node)
| Node_call_stmt (m : PgQuery__CallStmt.t PgQuery__Node)
| Node_rename_stmt (m : PgQuery__RenameStmt.t PgQuery__Node)
| Node_alter_object_depends_stmt (m : PgQuery__AlterObjectDependsStmt.t PgQuery__Node)
| Node_alter_object_schema_stmt (m : PgQuery__AlterObjectSchemaStmt.t PgQuery__Node)
| Node_alter_owner_stmt (m : PgQuery__AlterOwnerStmt.t PgQuery__Node)
| Node_alter_operator_stmt (m : PgQuery__AlterOperatorStmt.t PgQuery__Node)
| Node_alter_type_stmt (m : PgQuery__AlterTypeStmt.t PgQuery__Node)
| Node_rule_stmt (m : PgQuery__RuleStmt.t PgQuery__Node)
| Node_notify_stmt (m : PgQuery__NotifyStmt.t PgQuery__Node)
| Node_listen_stmt (m : PgQuery__ListenStmt.t PgQuery__Node)
| Node_unlisten_stmt (m : PgQuery__UnlistenStmt.t PgQuery__Node)
| Node_transaction_stmt (m : PgQuery__TransactionStmt.t PgQuery__Node)
| Node_composite_type_stmt (m : PgQuery__CompositeTypeStmt.t PgQuery__Node)
| Node_create_enum_stmt (m : PgQuery__CreateEnumStmt.t PgQuery__Node)
| Node_create_range_stmt (m : PgQuery__CreateRangeStmt.t PgQuery__Node)
| Node_alter_enum_stmt (m : PgQuery__AlterEnumStmt.t PgQuery__Node)
| Node_view_stmt (m : PgQuery__ViewStmt.t PgQuery__Node)
| Node_load_stmt (m : PgQuery__LoadStmt.t PgQuery__Node)
| Node_createdb_stmt (m : PgQuery__CreatedbStmt.t PgQuery__Node)
| Node_alter_database_stmt (m : PgQuery__AlterDatabaseStmt.t PgQuery__Node)
| Node_alter_database_set_stmt (m : PgQuery__AlterDatabaseSetStmt.t PgQuery__Node)
| Node_dropdb_stmt (m : PgQuery__DropdbStmt.t PgQuery__Node)
| Node_alter_system_stmt (m : PgQuery__AlterSystemStmt.t PgQuery__Node)
| Node_cluster_stmt (m : PgQuery__ClusterStmt.t PgQuery__Node)
| Node_vacuum_stmt (m : PgQuery__VacuumStmt.t PgQuery__Node)
| Node_vacuum_relation (m : PgQuery__VacuumRelation.t PgQuery__Node)
| Node_explain_stmt (m : PgQuery__ExplainStmt.t PgQuery__Node)
| Node_create_table_as_stmt (m : PgQuery__CreateTableAsStmt.t PgQuery__Node)
| Node_refresh_mat_view_stmt (m : PgQuery__RefreshMatViewStmt.t PgQuery__Node)
| Node_check_point_stmt (m : PgQuery__CheckPointStmt.t PgQuery__Node)
| Node_discard_stmt (m : PgQuery__DiscardStmt.t PgQuery__Node)
| Node_lock_stmt (m : PgQuery__LockStmt.t PgQuery__Node)
| Node_constraints_set_stmt (m : PgQuery__ConstraintsSetStmt.t PgQuery__Node)
| Node_reindex_stmt (m : PgQuery__ReindexStmt.t PgQuery__Node)
| Node_create_conversion_stmt (m : PgQuery__CreateConversionStmt.t PgQuery__Node)
| Node_create_cast_stmt (m : PgQuery__CreateCastStmt.t PgQuery__Node)
| Node_create_transform_stmt (m : PgQuery__CreateTransformStmt.t PgQuery__Node)
| Node_prepare_stmt (m : PgQuery__PrepareStmt.t PgQuery__Node)
| Node_execute_stmt (m : PgQuery__ExecuteStmt.t PgQuery__Node)
| Node_deallocate_stmt (m : PgQuery__DeallocateStmt.t PgQuery__Node)
| Node_drop_owned_stmt (m : PgQuery__DropOwnedStmt.t PgQuery__Node)
| Node_reassign_owned_stmt (m : PgQuery__ReassignOwnedStmt.t PgQuery__Node)
| Node_alter_tsdictionary_stmt (m : PgQuery__AlterTSDictionaryStmt.t PgQuery__Node)
| Node_alter_tsconfiguration_stmt (m : PgQuery__AlterTSConfigurationStmt.t PgQuery__Node)
| Node_create_publication_stmt (m : PgQuery__CreatePublicationStmt.t PgQuery__Node)
| Node_alter_publication_stmt (m : PgQuery__AlterPublicationStmt.t PgQuery__Node)
| Node_create_subscription_stmt (m : PgQuery__CreateSubscriptionStmt.t PgQuery__Node)
| Node_alter_subscription_stmt (m : PgQuery__AlterSubscriptionStmt.t PgQuery__Node)
| Node_drop_subscription_stmt (m : PgQuery__DropSubscriptionStmt.t PgQuery__Node)
| Node_func_expr (m : PgQuery__FuncExpr.t PgQuery__Node)
| Node_integer (ival : Z)
| Node_float (str : string)
| Node_string (str : string)
| Node_bit_string (str : string)
| Node_null
| Node_list (items : list PgQuery__Node)
| Node_int_list (items : list PgQuery__Node)
| Node_oid_list (items : list PgQuery__Node)
| Node_other (node_case : Z).

Module PgQuery__ParseResult.
Record t : Type := mk {
  version : Z;
  stmts : list (PgQuery__RawStmt.t PgQuery__Node)
}.
End PgQuery__ParseResult.
