(* ===== verification/ProtobufOut.v ===== *)
(** * Trees to protocol buffers

    [src/pg_query_outfuncs_protobuf.c] with the generated files it includes,
    [src/pg_query_outfuncs_defs.c] and [src/pg_query_outfuncs_conds.c]: [_outX] fills
    the message of a struct from the struct, field by field, by the macros
    [WRITE_*_FIELD]. *)
From S2P Require Import Prelude Buffer Enums Nodes EnumDefs Messages.

Open Scope Z_scope.

(** ** From nodes to messages *)

(** [_outInteger], [_outFloat], [_outString], [_outBitString], [_outNull] *)
Definition _outValue (v : Value) : PgQuery__Node :=
  match v with
  | Integer ival => Node_integer ival
  | Float str => Node_float str
  | String_ str => Node_string str
  | BitString str => Node_bit_string str
  | Null => Node_null
  end.

Section outfuncs.
Variable _outNode : Node -> outcome PgQuery__Node.

(** A message starts with empty strings, null pointers and zeroes; a field of the
    node that is set is copied.  [WRITE_INT_FIELD], [WRITE_UINT_FIELD],
    [WRITE_LONG_FIELD] and [WRITE_BOOL_FIELD] are assignments between integers of
    the same width, [WRITE_ENUM_FIELD] calls [_enumToInt*]. *)
Definition WRITE_CHAR_FIELD (c : ascii) : string :=
  if bool_decide (c = NUL) then "" else String c "".
Definition WRITE_STRING_FIELD (s : option string) : string :=
  match s with Some s => s | None => "" end.
Definition WRITE_NODE_FIELD (v : Value) : option PgQuery__Node := Some (_outValue v).
Definition WRITE_LIST_FIELD (l : list Node) : outcome (list PgQuery__Node) := mapo _outNode l.
(** A list of integers has no pointers to follow. *)
Definition WRITE_INT_LIST_FIELD (l : list Z) : outcome (list PgQuery__Node) :=
  match l with [] => Ok [] | _ => Undef end.
Definition WRITE_SPECIFIC_NODE_PTR_FIELD {A M} (out : A -> outcome M) (p : option A) : outcome (option M) :=
  match p with Some x => let* m := out x in Ok (Some m) | None => Ok None end.
Definition WRITE_NODE_PTR_FIELD : option Node -> outcome (option PgQuery__Node) :=
  WRITE_SPECIFIC_NODE_PTR_FIELD _outNode.
(** [WRITE_SPECIFIC_NODE_PTR_FIELD(SelectStmt, ...)] *)
Definition WRITE_SELECT_PTR_FIELD (p : option Node) : outcome (option PgQuery__Node) :=
  match p with
  | Some n => if IsA_SelectStmt n then let* m := _outNode n in Ok (Some m) else Undef
  | None => Ok None
  end.


Definition _outAlias (node : Alias.t Node) : outcome (PgQuery__Alias.t PgQuery__Node) :=
  let* f1 := WRITE_LIST_FIELD node.(Alias.colnames) in
  Ok {| PgQuery__Alias.aliasname := WRITE_STRING_FIELD node.(Alias.aliasname);
        PgQuery__Alias.colnames := f1 |}.

Definition _outRangeVar (node : RangeVar.t Node) : outcome (PgQuery__RangeVar.t PgQuery__Node) :=
  let* f1 := WRITE_SPECIFIC_NODE_PTR_FIELD _outAlias node.(RangeVar.alias) in
  Ok {| PgQuery__RangeVar.catalogname := WRITE_STRING_FIELD node.(RangeVar.catalogname);
        PgQuery__RangeVar.schemaname := WRITE_STRING_FIELD node.(RangeVar.schemaname);
        PgQuery__RangeVar.relname := WRITE_STRING_FIELD node.(RangeVar.relname);
        PgQuery__RangeVar.inh := node.(RangeVar.inh);
        PgQuery__RangeVar.relpersistence := WRITE_CHAR_FIELD node.(RangeVar.relpersistence);
        PgQuery__RangeVar.alias := f1;
        PgQuery__RangeVar.location := node.(RangeVar.location) |}.

Definition _outTypeName (node : TypeName.t Node) : outcome (PgQuery__TypeName.t PgQuery__Node) :=
  let* f1 := WRITE_LIST_FIELD node.(TypeName.names) in
  let* f2 := WRITE_LIST_FIELD node.(TypeName.typmods) in
  let* f3 := WRITE_LIST_FIELD node.(TypeName.arrayBounds) in
  Ok {| PgQuery__TypeName.names := f1;
        PgQuery__TypeName.type_oid := node.(TypeName.typeOid);
        PgQuery__TypeName.setof := node.(TypeName.setof);
        PgQuery__TypeName.pct_type := node.(TypeName.pct_type);
        PgQuery__TypeName.typmods := f2;
        PgQuery__TypeName.typemod := node.(TypeName.typemod);
        PgQuery__TypeName.array_bounds := f3;
        PgQuery__TypeName.location := node.(TypeName.location) |}.

Definition _outColumnRef (node : ColumnRef.t Node) : outcome (PgQuery__ColumnRef.t PgQuery__Node) :=
  let* f1 := WRITE_LIST_FIELD node.(ColumnRef.fields) in
  Ok {| PgQuery__ColumnRef.fields := f1;
        PgQuery__ColumnRef.location := node.(ColumnRef.location) |}.

Definition _outParamRef (node : ParamRef.t Node) : outcome (PgQuery__ParamRef.t PgQuery__Node) :=
  Ok {| PgQuery__ParamRef.number := node.(ParamRef.number);
        PgQuery__ParamRef.location := node.(ParamRef.location) |}.

Definition _outAExpr (node : A_Expr.t Node) : outcome (PgQuery__AExpr.t PgQuery__Node) :=
  let* f1 := WRITE_LIST_FIELD node.(A_Expr.name) in
  let* f2 := WRITE_NODE_PTR_FIELD node.(A_Expr.lexpr) in
  let* f3 := WRITE_NODE_PTR_FIELD node.(A_Expr.rexpr) in
  Ok {| PgQuery__AExpr.kind := _enumToIntA_Expr_Kind node.(A_Expr.kind);
        PgQuery__AExpr.name := f1;
        PgQuery__AExpr.lexpr := f2;
        PgQuery__AExpr.rexpr := f3;
        PgQuery__AExpr.location := node.(A_Expr.location) |}.

Definition _outAConst (node : A_Const.t Node) : outcome (PgQuery__AConst.t PgQuery__Node) :=
  Ok {| PgQuery__AConst.val := WRITE_NODE_FIELD node.(A_Const.val);
        PgQuery__AConst.location := node.(A_Const.location) |}.

Definition _outTypeCast (node : TypeCast.t Node) : outcome (PgQuery__TypeCast.t PgQuery__Node) :=
  let* f1 := WRITE_NODE_PTR_FIELD node.(TypeCast.arg) in
  let* f2 := WRITE_SPECIFIC_NODE_PTR_FIELD _outTypeName node.(TypeCast.typeName) in
  Ok {| PgQuery__TypeCast.arg := f1;
        PgQuery__TypeCast.type_name := f2;
        PgQuery__TypeCast.location := node.(TypeCast.location) |}.

Definition _outCollateClause (node : CollateClause.t Node)
    : outcome (PgQuery__CollateClause.t PgQuery__Node) :=
  let* f1 := WRITE_NODE_PTR_FIELD node.(CollateClause.arg) in
  let* f2 := WRITE_LIST_FIELD node.(CollateClause.collname) in
  Ok {| PgQuery__CollateClause.arg := f1;
        PgQuery__CollateClause.collname := f2;
        PgQuery__CollateClause.location := node.(CollateClause.location) |}.

Definition _outRoleSpec (node : RoleSpec.t Node) : outcome (PgQuery__RoleSpec.t PgQuery__Node) :=
  Ok {| PgQuery__RoleSpec.roletype := _enumToIntRoleSpecType node.(RoleSpec.roletype);
        PgQuery__RoleSpec.rolename := WRITE_STRING_FIELD node.(RoleSpec.rolename);
        PgQuery__RoleSpec.location := node.(RoleSpec.location) |}.

Definition _outWindowDef (node : WindowDef.t Node) : outcome (PgQuery__WindowDef.t PgQuery__Node) :=
  let* f1 := WRITE_LIST_FIELD node.(WindowDef.partitionClause) in
  let* f2 := WRITE_LIST_FIELD node.(WindowDef.orderClause) in
  let* f3 := WRITE_NODE_PTR_FIELD node.(WindowDef.startOffset) in
  let* f4 := WRITE_NODE_PTR_FIELD node.(WindowDef.endOffset) in
  Ok {| PgQuery__WindowDef.name := WRITE_STRING_FIELD node.(WindowDef.name);
        PgQuery__WindowDef.refname := WRITE_STRING_FIELD node.(WindowDef.refname);
        PgQuery__WindowDef.partition_clause := f1;
        PgQuery__WindowDef.order_clause := f2;
        PgQuery__WindowDef.frame_options := node.(WindowDef.frameOptions);
        PgQuery__WindowDef.start_offset := f3;
        PgQuery__WindowDef.end_offset := f4;
        PgQuery__WindowDef.location := node.(WindowDef.location) |}.

Definition _outSortBy (node : SortBy.t Node) : outcome (PgQuery__SortBy.t PgQuery__Node) :=
  let* f1 := WRITE_NODE_PTR_FIELD node.(SortBy.node) in
  let* f2 := WRITE_LIST_FIELD node.(SortBy.useOp) in
  Ok {| PgQuery__SortBy.node := f1;
        PgQuery__SortBy.sortby_dir := _enumToIntSortByDir node.(SortBy.sortby_dir);
        PgQuery__SortBy.sortby_nulls := _enumToIntSortByNulls node.(SortBy.sortby_nulls);
        PgQuery__SortBy.use_op := f2;
        PgQuery__SortBy.location := node.(SortBy.location) |}.

Definition _outFuncCall (node : FuncCall.t Node) : outcome (PgQuery__FuncCall.t PgQuery__Node) :=
  let* f1 := WRITE_LIST_FIELD node.(FuncCall.funcname) in
  let* f2 := WRITE_LIST_FIELD node.(FuncCall.args) in
  let* f3 := WRITE_LIST_FIELD node.(FuncCall.agg_order) in
  let* f4 := WRITE_NODE_PTR_FIELD node.(FuncCall.agg_filter) in
  let* f5 := WRITE_SPECIFIC_NODE_PTR_FIELD _outWindowDef node.(FuncCall.over) in
  Ok {| PgQuery__FuncCall.funcname := f1;
        PgQuery__FuncCall.args := f2;
        PgQuery__FuncCall.agg_order := f3;
        PgQuery__FuncCall.agg_filter := f4;
        PgQuery__FuncCall.agg_within_group := node.(FuncCall.agg_within_group);
        PgQuery__FuncCall.agg_star := node.(FuncCall.agg_star);
        PgQuery__FuncCall.agg_distinct := node.(FuncCall.agg_distinct);
        PgQuery__FuncCall.func_variadic := node.(FuncCall.func_variadic);
        PgQuery__FuncCall.over := f5;
        PgQuery__FuncCall.location := node.(FuncCall.location) |}.

Definition _outAStar (node : A_Star.t Node) : outcome (PgQuery__AStar.t PgQuery__Node) :=
  Ok PgQuery__AStar.mk.

Definition _outAIndices (node : A_Indices.t Node) : outcome (PgQuery__AIndices.t PgQuery__Node) :=
  let* f1 := WRITE_NODE_PTR_FIELD node.(A_Indices.lidx) in
  let* f2 := WRITE_NODE_PTR_FIELD node.(A_Indices.uidx) in
  Ok {| PgQuery__AIndices.is_slice := node.(A_Indices.is_slice);
        PgQuery__AIndices.lidx := f1;
        PgQuery__AIndices.uidx := f2 |}.

Definition _outAIndirection (node : A_Indirection.t Node)
    : outcome (PgQuery__AIndirection.t PgQuery__Node) :=
  let* f1 := WRITE_NODE_PTR_FIELD node.(A_Indirection.arg) in
  let* f2 := WRITE_LIST_FIELD node.(A_Indirection.indirection) in
  Ok {| PgQuery__AIndirection.arg := f1;
        PgQuery__AIndirection.indirection := f2 |}.

Definition _outAArrayExpr (node : A_ArrayExpr.t Node)
    : outcome (PgQuery__AArrayExpr.t PgQuery__Node) :=
  let* f1 := WRITE_LIST_FIELD node.(A_ArrayExpr.elements) in
  Ok {| PgQuery__AArrayExpr.elements := f1;
        PgQuery__AArrayExpr.location := node.(A_ArrayExpr.location) |}.

Definition _outResTarget (node : ResTarget.t Node) : outcome (PgQuery__ResTarget.t PgQuery__Node) :=
  let* f1 := WRITE_LIST_FIELD node.(ResTarget.indirection) in
  let* f2 := WRITE_NODE_PTR_FIELD node.(ResTarget.val) in
  Ok {| PgQuery__ResTarget.name := WRITE_STRING_FIELD node.(ResTarget.name);
        PgQuery__ResTarget.indirection := f1;
        PgQuery__ResTarget.val := f2;
        PgQuery__ResTarget.location := node.(ResTarget.location) |}.

Definition _outMultiAssignRef (node : MultiAssignRef.t Node)
    : outcome (PgQuery__MultiAssignRef.t PgQuery__Node) :=
  let* f1 := WRITE_NODE_PTR_FIELD node.(MultiAssignRef.source) in
  Ok {| PgQuery__MultiAssignRef.source := f1;
        PgQuery__MultiAssignRef.colno := node.(MultiAssignRef.colno);
        PgQuery__MultiAssignRef.ncolumns := node.(MultiAssignRef.ncolumns) |}.

Definition _outNamedArgExpr (node : NamedArgExpr.t Node)
    : outcome (PgQuery__NamedArgExpr.t PgQuery__Node) :=
  let* f1 := WRITE_NODE_PTR_FIELD node.(NamedArgExpr.arg) in
  Ok {| PgQuery__NamedArgExpr.xpr := None;
        PgQuery__NamedArgExpr.arg := f1;
        PgQuery__NamedArgExpr.name := WRITE_STRING_FIELD node.(NamedArgExpr.name);
        PgQuery__NamedArgExpr.argnumber := node.(NamedArgExpr.argnumber);
        PgQuery__NamedArgExpr.location := node.(NamedArgExpr.location) |}.

Definition _outBoolExpr (node : BoolExpr.t Node) : outcome (PgQuery__BoolExpr.t PgQuery__Node) :=
  let* f1 := WRITE_LIST_FIELD node.(BoolExpr.args) in
  Ok {| PgQuery__BoolExpr.xpr := None;
        PgQuery__BoolExpr.boolop := _enumToIntBoolExprType node.(BoolExpr.boolop);
        PgQuery__BoolExpr.args := f1;
        PgQuery__BoolExpr.location := node.(BoolExpr.location) |}.

Definition _outSubLink (node : SubLink.t Node) : outcome (PgQuery__SubLink.t PgQuery__Node) :=
  let* f1 := WRITE_NODE_PTR_FIELD node.(SubLink.testexpr) in
  let* f2 := WRITE_LIST_FIELD node.(SubLink.operName) in
  let* f3 := WRITE_NODE_PTR_FIELD node.(SubLink.subselect) in
  Ok {| PgQuery__SubLink.xpr := None;
        PgQuery__SubLink.sub_link_type := _enumToIntSubLinkType node.(SubLink.subLinkType);
        PgQuery__SubLink.sub_link_id := node.(SubLink.subLinkId);
        PgQuery__SubLink.testexpr := f1;
        PgQuery__SubLink.oper_name := f2;
        PgQuery__SubLink.subselect := f3;
        PgQuery__SubLink.location := node.(SubLink.location) |}.

Definition _outCaseWhen (node : CaseWhen.t Node) : outcome (PgQuery__CaseWhen.t PgQuery__Node) :=
  let* f1 := WRITE_NODE_PTR_FIELD node.(CaseWhen.expr) in
  let* f2 := WRITE_NODE_PTR_FIELD node.(CaseWhen.result) in
  Ok {| PgQuery__CaseWhen.xpr := None;
        PgQuery__CaseWhen.expr := f1;
        PgQuery__CaseWhen.result := f2;
        PgQuery__CaseWhen.location := node.(CaseWhen.location) |}.

Definition _outCaseExpr (node : CaseExpr.t Node) : outcome (PgQuery__CaseExpr.t PgQuery__Node) :=
  let* f1 := WRITE_NODE_PTR_FIELD node.(CaseExpr.arg) in
  let* f2 := WRITE_LIST_FIELD node.(CaseExpr.args) in
  let* f3 := WRITE_NODE_PTR_FIELD node.(CaseExpr.defresult) in
  Ok {| PgQuery__CaseExpr.xpr := None;
        PgQuery__CaseExpr.casetype := node.(CaseExpr.casetype);
        PgQuery__CaseExpr.casecollid := node.(CaseExpr.casecollid);
        PgQuery__CaseExpr.arg := f1;
        PgQuery__CaseExpr.args := f2;
        PgQuery__CaseExpr.defresult := f3;
        PgQuery__CaseExpr.location := node.(CaseExpr.location) |}.

Definition _outRowExpr (node : RowExpr.t Node) : outcome (PgQuery__RowExpr.t PgQuery__Node) :=
  let* f1 := WRITE_LIST_FIELD node.(RowExpr.args) in
  let* f2 := WRITE_LIST_FIELD node.(RowExpr.colnames) in
  Ok {| PgQuery__RowExpr.xpr := None;
        PgQuery__RowExpr.args := f1;
        PgQuery__RowExpr.row_typeid := node.(RowExpr.row_typeid);
        PgQuery__RowExpr.row_format := _enumToIntCoercionForm node.(RowExpr.row_format);
        PgQuery__RowExpr.colnames := f2;
        PgQuery__RowExpr.location := node.(RowExpr.location) |}.

Definition _outCoalesceExpr (node : CoalesceExpr.t Node)
    : outcome (PgQuery__CoalesceExpr.t PgQuery__Node) :=
  let* f1 := WRITE_LIST_FIELD node.(CoalesceExpr.args) in
  Ok {| PgQuery__CoalesceExpr.xpr := None;
        PgQuery__CoalesceExpr.coalescetype := node.(CoalesceExpr.coalescetype);
        PgQuery__CoalesceExpr.coalescecollid := node.(CoalesceExpr.coalescecollid);
        PgQuery__CoalesceExpr.args := f1;
        PgQuery__CoalesceExpr.location := node.(CoalesceExpr.location) |}.

Definition _outMinMaxExpr (node : MinMaxExpr.t Node)
    : outcome (PgQuery__MinMaxExpr.t PgQuery__Node) :=
  let* f1 := WRITE_LIST_FIELD node.(MinMaxExpr.args) in
  Ok {| PgQuery__MinMaxExpr.xpr := None;
        PgQuery__MinMaxExpr.minmaxtype := node.(MinMaxExpr.minmaxtype);
        PgQuery__MinMaxExpr.minmaxcollid := node.(MinMaxExpr.minmaxcollid);
        PgQuery__MinMaxExpr.inputcollid := node.(MinMaxExpr.inputcollid);
        PgQuery__MinMaxExpr.op := _enumToIntMinMaxOp node.(MinMaxExpr.op);
        PgQuery__MinMaxExpr.args := f1;
        PgQuery__MinMaxExpr.location := node.(MinMaxExpr.location) |}.

Definition _outSQLValueFunction (node : SQLValueFunction.t Node)
    : outcome (PgQuery__SQLValueFunction.t PgQuery__Node) :=
  Ok {| PgQuery__SQLValueFunction.xpr := None;
        PgQuery__SQLValueFunction.op := _enumToIntSQLValueFunctionOp node.(SQLValueFunction.op);
        PgQuery__SQLValueFunction.type_ := node.(SQLValueFunction.type_);
        PgQuery__SQLValueFunction.typmod := node.(SQLValueFunction.typmod);
        PgQuery__SQLValueFunction.location := node.(SQLValueFunction.location) |}.

Definition _outXmlExpr (node : XmlExpr.t Node) : outcome (PgQuery__XmlExpr.t PgQuery__Node) :=
  let* f1 := WRITE_LIST_FIELD node.(XmlExpr.named_args) in
  let* f2 := WRITE_LIST_FIELD node.(XmlExpr.arg_names) in
  let* f3 := WRITE_LIST_FIELD node.(XmlExpr.args) in
  Ok {| PgQuery__XmlExpr.xpr := None;
        PgQuery__XmlExpr.op := _enumToIntXmlExprOp node.(XmlExpr.op);
        PgQuery__XmlExpr.name := WRITE_STRING_FIELD node.(XmlExpr.name);
        PgQuery__XmlExpr.named_args := f1;
        PgQuery__XmlExpr.arg_names := f2;
        PgQuery__XmlExpr.args := f3;
        PgQuery__XmlExpr.xmloption := _enumToIntXmlOptionType node.(XmlExpr.xmloption);
        PgQuery__XmlExpr.type_ := node.(XmlExpr.type_);
        PgQuery__XmlExpr.typmod := node.(XmlExpr.typmod);
        PgQuery__XmlExpr.location := node.(XmlExpr.location) |}.

Definition _outXmlSerialize (node : XmlSerialize.t Node)
    : outcome (PgQuery__XmlSerialize.t PgQuery__Node) :=
  let* f1 := WRITE_NODE_PTR_FIELD node.(XmlSerialize.expr) in
  let* f2 := WRITE_SPECIFIC_NODE_PTR_FIELD _outTypeName node.(XmlSerialize.typeName) in
  Ok {| PgQuery__XmlSerialize.xmloption := _enumToIntXmlOptionType node.(XmlSerialize.xmloption);
        PgQuery__XmlSerialize.expr := f1;
        PgQuery__XmlSerialize.type_name := f2;
        PgQuery__XmlSerialize.location := node.(XmlSerialize.location) |}.

Definition _outNullTest (node : NullTest.t Node) : outcome (PgQuery__NullTest.t PgQuery__Node) :=
  let* f1 := WRITE_NODE_PTR_FIELD node.(NullTest.arg) in
  Ok {| PgQuery__NullTest.xpr := None;
        PgQuery__NullTest.arg := f1;
        PgQuery__NullTest.nulltesttype := _enumToIntNullTestType node.(NullTest.nulltesttype);
        PgQuery__NullTest.argisrow := node.(NullTest.argisrow);
        PgQuery__NullTest.location := node.(NullTest.location) |}.

Definition _outBooleanTest (node : BooleanTest.t Node)
    : outcome (PgQuery__BooleanTest.t PgQuery__Node) :=
  let* f1 := WRITE_NODE_PTR_FIELD node.(BooleanTest.arg) in
  Ok {| PgQuery__BooleanTest.xpr := None;
        PgQuery__BooleanTest.arg := f1;
        PgQuery__BooleanTest.booltesttype := _enumToIntBoolTestType node.(BooleanTest.booltesttype);
        PgQuery__BooleanTest.location := node.(BooleanTest.location) |}.

Definition _outSetToDefault (node : SetToDefault.t Node)
    : outcome (PgQuery__SetToDefault.t PgQuery__Node) :=
  Ok {| PgQuery__SetToDefault.xpr := None;
        PgQuery__SetToDefault.type_id := node.(SetToDefault.typeId);
        PgQuery__SetToDefault.type_mod := node.(SetToDefault.typeMod);
        PgQuery__SetToDefault.collation := node.(SetToDefault.collation);
        PgQuery__SetToDefault.location := node.(SetToDefault.location) |}.

Definition _outCurrentOfExpr (node : CurrentOfExpr.t Node)
    : outcome (PgQuery__CurrentOfExpr.t PgQuery__Node) :=
  Ok {| PgQuery__CurrentOfExpr.xpr := None;
        PgQuery__CurrentOfExpr.cvarno := node.(CurrentOfExpr.cvarno);
        PgQuery__CurrentOfExpr.cursor_name := WRITE_STRING_FIELD node.(CurrentOfExpr.cursor_name);
        PgQuery__CurrentOfExpr.cursor_param := node.(CurrentOfExpr.cursor_param) |}.

Definition _outGroupingFunc (node : GroupingFunc.t Node)
    : outcome (PgQuery__GroupingFunc.t PgQuery__Node) :=
  let* f1 := WRITE_LIST_FIELD node.(GroupingFunc.args) in
  let* f2 := WRITE_INT_LIST_FIELD node.(GroupingFunc.refs) in
  let* f3 := WRITE_INT_LIST_FIELD node.(GroupingFunc.cols) in
  Ok {| PgQuery__GroupingFunc.xpr := None;
        PgQuery__GroupingFunc.args := f1;
        PgQuery__GroupingFunc.refs := f2;
        PgQuery__GroupingFunc.cols := f3;
        PgQuery__GroupingFunc.agglevelsup := node.(GroupingFunc.agglevelsup);
        PgQuery__GroupingFunc.location := node.(GroupingFunc.location) |}.

Definition _outDefElem (node : DefElem.t Node) : outcome (PgQuery__DefElem.t PgQuery__Node) :=
  let* f1 := WRITE_NODE_PTR_FIELD node.(DefElem.arg) in
  Ok {| PgQuery__DefElem.defnamespace := WRITE_STRING_FIELD node.(DefElem.defnamespace);
        PgQuery__DefElem.defname := WRITE_STRING_FIELD node.(DefElem.defname);
        PgQuery__DefElem.arg := f1;
        PgQuery__DefElem.defaction := _enumToIntDefElemAction node.(DefElem.defaction);
        PgQuery__DefElem.location := node.(DefElem.location) |}.

Definition _outIndexElem (node : IndexElem.t Node) : outcome (PgQuery__IndexElem.t PgQuery__Node) :=
  let* f1 := WRITE_NODE_PTR_FIELD node.(IndexElem.expr) in
  let* f2 := WRITE_LIST_FIELD node.(IndexElem.collation) in
  let* f3 := WRITE_LIST_FIELD node.(IndexElem.opclass) in
  let* f4 := WRITE_LIST_FIELD node.(IndexElem.opclassopts) in
  Ok {| PgQuery__IndexElem.name := WRITE_STRING_FIELD node.(IndexElem.name);
        PgQuery__IndexElem.expr := f1;
        PgQuery__IndexElem.indexcolname := WRITE_STRING_FIELD node.(IndexElem.indexcolname);
        PgQuery__IndexElem.collation := f2;
        PgQuery__IndexElem.opclass := f3;
        PgQuery__IndexElem.opclassopts := f4;
        PgQuery__IndexElem.ordering := _enumToIntSortByDir node.(IndexElem.ordering);
        PgQuery__IndexElem.nulls_ordering := _enumToIntSortByNulls node.(IndexElem.nulls_ordering) |}.

Definition _outConstraint (node : Constraint.t Node)
    : outcome (PgQuery__Constraint.t PgQuery__Node) :=
  let* f1 := WRITE_NODE_PTR_FIELD node.(Constraint.raw_expr) in
  let* f2 := WRITE_LIST_FIELD node.(Constraint.keys) in
  let* f3 := WRITE_LIST_FIELD node.(Constraint.including) in
  let* f4 := WRITE_LIST_FIELD node.(Constraint.exclusions) in
  let* f5 := WRITE_LIST_FIELD node.(Constraint.options) in
  let* f6 := WRITE_NODE_PTR_FIELD node.(Constraint.where_clause) in
  let* f7 := WRITE_SPECIFIC_NODE_PTR_FIELD _outRangeVar node.(Constraint.pktable) in
  let* f8 := WRITE_LIST_FIELD node.(Constraint.fk_attrs) in
  let* f9 := WRITE_LIST_FIELD node.(Constraint.pk_attrs) in
  let* f10 := WRITE_LIST_FIELD node.(Constraint.old_conpfeqop) in
  Ok {| PgQuery__Constraint.contype := _enumToIntConstrType node.(Constraint.contype);
        PgQuery__Constraint.conname := WRITE_STRING_FIELD node.(Constraint.conname);
        PgQuery__Constraint.deferrable := node.(Constraint.deferrable);
        PgQuery__Constraint.initdeferred := node.(Constraint.initdeferred);
        PgQuery__Constraint.location := node.(Constraint.location);
        PgQuery__Constraint.is_no_inherit := node.(Constraint.is_no_inherit);
        PgQuery__Constraint.raw_expr := f1;
        PgQuery__Constraint.cooked_expr := WRITE_STRING_FIELD node.(Constraint.cooked_expr);
        PgQuery__Constraint.generated_when := WRITE_CHAR_FIELD node.(Constraint.generated_when);
        PgQuery__Constraint.keys := f2;
        PgQuery__Constraint.including := f3;
        PgQuery__Constraint.exclusions := f4;
        PgQuery__Constraint.options := f5;
        PgQuery__Constraint.indexname := WRITE_STRING_FIELD node.(Constraint.indexname);
        PgQuery__Constraint.indexspace := WRITE_STRING_FIELD node.(Constraint.indexspace);
        PgQuery__Constraint.reset_default_tblspc := node.(Constraint.reset_default_tblspc);
        PgQuery__Constraint.access_method := WRITE_STRING_FIELD node.(Constraint.access_method);
        PgQuery__Constraint.where_clause := f6;
        PgQuery__Constraint.pktable := f7;
        PgQuery__Constraint.fk_attrs := f8;
        PgQuery__Constraint.pk_attrs := f9;
        PgQuery__Constraint.fk_matchtype := WRITE_CHAR_FIELD node.(Constraint.fk_matchtype);
        PgQuery__Constraint.fk_upd_action := WRITE_CHAR_FIELD node.(Constraint.fk_upd_action);
        PgQuery__Constraint.fk_del_action := WRITE_CHAR_FIELD node.(Constraint.fk_del_action);
        PgQuery__Constraint.old_conpfeqop := f10;
        PgQuery__Constraint.old_pktable_oid := node.(Constraint.old_pktable_oid);
        PgQuery__Constraint.skip_validation := node.(Constraint.skip_validation);
        PgQuery__Constraint.initially_valid := node.(Constraint.initially_valid) |}.

Definition _outColumnDef (node : ColumnDef.t Node) : outcome (PgQuery__ColumnDef.t PgQuery__Node) :=
  let* f1 := WRITE_SPECIFIC_NODE_PTR_FIELD _outTypeName node.(ColumnDef.typeName) in
  let* f2 := WRITE_NODE_PTR_FIELD node.(ColumnDef.raw_default) in
  let* f3 := WRITE_NODE_PTR_FIELD node.(ColumnDef.cooked_default) in
  let* f4 := WRITE_SPECIFIC_NODE_PTR_FIELD _outRangeVar node.(ColumnDef.identitySequence) in
  let* f5 := WRITE_SPECIFIC_NODE_PTR_FIELD _outCollateClause node.(ColumnDef.collClause) in
  let* f6 := WRITE_LIST_FIELD node.(ColumnDef.constraints) in
  let* f7 := WRITE_LIST_FIELD node.(ColumnDef.fdwoptions) in
  Ok {| PgQuery__ColumnDef.colname := WRITE_STRING_FIELD node.(ColumnDef.colname);
        PgQuery__ColumnDef.type_name := f1;
        PgQuery__ColumnDef.inhcount := node.(ColumnDef.inhcount);
        PgQuery__ColumnDef.is_local := node.(ColumnDef.is_local);
        PgQuery__ColumnDef.is_not_null := node.(ColumnDef.is_not_null);
        PgQuery__ColumnDef.is_from_type := node.(ColumnDef.is_from_type);
        PgQuery__ColumnDef.storage := WRITE_CHAR_FIELD node.(ColumnDef.storage);
        PgQuery__ColumnDef.raw_default := f2;
        PgQuery__ColumnDef.cooked_default := f3;
        PgQuery__ColumnDef.identity := WRITE_CHAR_FIELD node.(ColumnDef.identity);
        PgQuery__ColumnDef.identity_sequence := f4;
        PgQuery__ColumnDef.generated := WRITE_CHAR_FIELD node.(ColumnDef.generated);
        PgQuery__ColumnDef.coll_clause := f5;
        PgQuery__ColumnDef.coll_oid := node.(ColumnDef.collOid);
        PgQuery__ColumnDef.constraints := f6;
        PgQuery__ColumnDef.fdwoptions := f7;
        PgQuery__ColumnDef.location := node.(ColumnDef.location) |}.

Definition _outJoinExpr (node : JoinExpr.t Node) : outcome (PgQuery__JoinExpr.t PgQuery__Node) :=
  let* f1 := WRITE_NODE_PTR_FIELD node.(JoinExpr.larg) in
  let* f2 := WRITE_NODE_PTR_FIELD node.(JoinExpr.rarg) in
  let* f3 := WRITE_LIST_FIELD node.(JoinExpr.usingClause) in
  let* f4 := WRITE_NODE_PTR_FIELD node.(JoinExpr.quals) in
  let* f5 := WRITE_SPECIFIC_NODE_PTR_FIELD _outAlias node.(JoinExpr.alias) in
  Ok {| PgQuery__JoinExpr.jointype := _enumToIntJoinType node.(JoinExpr.jointype);
        PgQuery__JoinExpr.is_natural := node.(JoinExpr.isNatural);
        PgQuery__JoinExpr.larg := f1;
        PgQuery__JoinExpr.rarg := f2;
        PgQuery__JoinExpr.using_clause := f3;
        PgQuery__JoinExpr.quals := f4;
        PgQuery__JoinExpr.alias := f5;
        PgQuery__JoinExpr.rtindex := node.(JoinExpr.rtindex) |}.

Definition _outRangeSubselect (node : RangeSubselect.t Node)
    : outcome (PgQuery__RangeSubselect.t PgQuery__Node) :=
  let* f1 := WRITE_NODE_PTR_FIELD node.(RangeSubselect.subquery) in
  let* f2 := WRITE_SPECIFIC_NODE_PTR_FIELD _outAlias node.(RangeSubselect.alias) in
  Ok {| PgQuery__RangeSubselect.lateral := node.(RangeSubselect.lateral);
        PgQuery__RangeSubselect.subquery := f1;
        PgQuery__RangeSubselect.alias := f2 |}.

Definition _outRangeFunction (node : RangeFunction.t Node)
    : outcome (PgQuery__RangeFunction.t PgQuery__Node) :=
  let* f1 := WRITE_LIST_FIELD node.(RangeFunction.functions) in
  let* f2 := WRITE_SPECIFIC_NODE_PTR_FIELD _outAlias node.(RangeFunction.alias) in
  let* f3 := WRITE_LIST_FIELD node.(RangeFunction.coldeflist) in
  Ok {| PgQuery__RangeFunction.lateral := node.(RangeFunction.lateral);
        PgQuery__RangeFunction.ordinality := node.(RangeFunction.ordinality);
        PgQuery__RangeFunction.is_rowsfrom := node.(RangeFunction.is_rowsfrom);
        PgQuery__RangeFunction.functions := f1;
        PgQuery__RangeFunction.alias := f2;
        PgQuery__RangeFunction.coldeflist := f3 |}.

Definition _outRangeTableFuncCol (node : RangeTableFuncCol.t Node)
    : outcome (PgQuery__RangeTableFuncCol.t PgQuery__Node) :=
  let* f1 := WRITE_SPECIFIC_NODE_PTR_FIELD _outTypeName node.(RangeTableFuncCol.typeName) in
  let* f2 := WRITE_NODE_PTR_FIELD node.(RangeTableFuncCol.colexpr) in
  let* f3 := WRITE_NODE_PTR_FIELD node.(RangeTableFuncCol.coldefexpr) in
  Ok {| PgQuery__RangeTableFuncCol.colname := WRITE_STRING_FIELD node.(RangeTableFuncCol.colname);
        PgQuery__RangeTableFuncCol.type_name := f1;
        PgQuery__RangeTableFuncCol.for_ordinality := node.(RangeTableFuncCol.for_ordinality);
        PgQuery__RangeTableFuncCol.is_not_null := node.(RangeTableFuncCol.is_not_null);
        PgQuery__RangeTableFuncCol.colexpr := f2;
        PgQuery__RangeTableFuncCol.coldefexpr := f3;
        PgQuery__RangeTableFuncCol.location := node.(RangeTableFuncCol.location) |}.

Definition _outRangeTableFunc (node : RangeTableFunc.t Node)
    : outcome (PgQuery__RangeTableFunc.t PgQuery__Node) :=
  let* f1 := WRITE_NODE_PTR_FIELD node.(RangeTableFunc.docexpr) in
  let* f2 := WRITE_NODE_PTR_FIELD node.(RangeTableFunc.rowexpr) in
  let* f3 := WRITE_LIST_FIELD node.(RangeTableFunc.namespaces) in
  let* f4 := WRITE_LIST_FIELD node.(RangeTableFunc.columns) in
  let* f5 := WRITE_SPECIFIC_NODE_PTR_FIELD _outAlias node.(RangeTableFunc.alias) in
  Ok {| PgQuery__RangeTableFunc.lateral := node.(RangeTableFunc.lateral);
        PgQuery__RangeTableFunc.docexpr := f1;
        PgQuery__RangeTableFunc.rowexpr := f2;
        PgQuery__RangeTableFunc.namespaces := f3;
        PgQuery__RangeTableFunc.columns := f4;
        PgQuery__RangeTableFunc.alias := f5;
        PgQuery__RangeTableFunc.location := node.(RangeTableFunc.location) |}.

Definition _outRangeTableSample (node : RangeTableSample.t Node)
    : outcome (PgQuery__RangeTableSample.t PgQuery__Node) :=
  let* f1 := WRITE_NODE_PTR_FIELD node.(RangeTableSample.relation) in
  let* f2 := WRITE_LIST_FIELD node.(RangeTableSample.method) in
  let* f3 := WRITE_LIST_FIELD node.(RangeTableSample.args) in
  let* f4 := WRITE_NODE_PTR_FIELD node.(RangeTableSample.repeatable) in
  Ok {| PgQuery__RangeTableSample.relation := f1;
        PgQuery__RangeTableSample.method := f2;
        PgQuery__RangeTableSample.args := f3;
        PgQuery__RangeTableSample.repeatable := f4;
        PgQuery__RangeTableSample.location := node.(RangeTableSample.location) |}.

Definition _outCommonTableExpr (node : CommonTableExpr.t Node)
    : outcome (PgQuery__CommonTableExpr.t PgQuery__Node) :=
  let* f1 := WRITE_LIST_FIELD node.(CommonTableExpr.aliascolnames) in
  let* f2 := WRITE_NODE_PTR_FIELD node.(CommonTableExpr.ctequery) in
  let* f3 := WRITE_LIST_FIELD node.(CommonTableExpr.ctecolnames) in
  let* f4 := WRITE_INT_LIST_FIELD node.(CommonTableExpr.ctecoltypes) in
  let* f5 := WRITE_INT_LIST_FIELD node.(CommonTableExpr.ctecoltypmods) in
  let* f6 := WRITE_INT_LIST_FIELD node.(CommonTableExpr.ctecolcollations) in
  Ok {| PgQuery__CommonTableExpr.ctename := WRITE_STRING_FIELD node.(CommonTableExpr.ctename);
        PgQuery__CommonTableExpr.aliascolnames := f1;
        PgQuery__CommonTableExpr.ctematerialized := _enumToIntCTEMaterialize node.(CommonTableExpr.ctematerialized);
        PgQuery__CommonTableExpr.ctequery := f2;
        PgQuery__CommonTableExpr.location := node.(CommonTableExpr.location);
        PgQuery__CommonTableExpr.cterecursive := node.(CommonTableExpr.cterecursive);
        PgQuery__CommonTableExpr.cterefcount := node.(CommonTableExpr.cterefcount);
        PgQuery__CommonTableExpr.ctecolnames := f3;
        PgQuery__CommonTableExpr.ctecoltypes := f4;
        PgQuery__CommonTableExpr.ctecoltypmods := f5;
        PgQuery__CommonTableExpr.ctecolcollations := f6 |}.

Definition _outWithClause (node : WithClause.t Node)
    : outcome (PgQuery__WithClause.t PgQuery__Node) :=
  let* f1 := WRITE_LIST_FIELD node.(WithClause.ctes) in
  Ok {| PgQuery__WithClause.ctes := f1;
        PgQuery__WithClause.recursive := node.(WithClause.recursive);
        PgQuery__WithClause.location := node.(WithClause.location) |}.

Definition _outInferClause (node : InferClause.t Node)
    : outcome (PgQuery__InferClause.t PgQuery__Node) :=
  let* f1 := WRITE_LIST_FIELD node.(InferClause.indexElems) in
  let* f2 := WRITE_NODE_PTR_FIELD node.(InferClause.whereClause) in
  Ok {| PgQuery__InferClause.index_elems := f1;
        PgQuery__InferClause.where_clause := f2;
        PgQuery__InferClause.conname := WRITE_STRING_FIELD node.(InferClause.conname);
        PgQuery__InferClause.location := node.(InferClause.location) |}.

Definition _outOnConflictClause (node : OnConflictClause.t Node)
    : outcome (PgQuery__OnConflictClause.t PgQuery__Node) :=
  let* f1 := WRITE_SPECIFIC_NODE_PTR_FIELD _outInferClause node.(OnConflictClause.infer) in
  let* f2 := WRITE_LIST_FIELD node.(OnConflictClause.targetList) in
  let* f3 := WRITE_NODE_PTR_FIELD node.(OnConflictClause.whereClause) in
  Ok {| PgQuery__OnConflictClause.action := _enumToIntOnConflictAction node.(OnConflictClause.action);
        PgQuery__OnConflictClause.infer := f1;
        PgQuery__OnConflictClause.target_list := f2;
        PgQuery__OnConflictClause.where_clause := f3;
        PgQuery__OnConflictClause.location := node.(OnConflictClause.location) |}.

Definition _outLockingClause (node : LockingClause.t Node)
    : outcome (PgQuery__LockingClause.t PgQuery__Node) :=
  let* f1 := WRITE_LIST_FIELD node.(LockingClause.lockedRels) in
  Ok {| PgQuery__LockingClause.locked_rels := f1;
        PgQuery__LockingClause.strength := _enumToIntLockClauseStrength node.(LockingClause.strength);
        PgQuery__LockingClause.wait_policy := _enumToIntLockWaitPolicy node.(LockingClause.waitPolicy) |}.

Definition _outGroupingSet (node : GroupingSet.t Node)
    : outcome (PgQuery__GroupingSet.t PgQuery__Node) :=
  let* f1 := WRITE_LIST_FIELD node.(GroupingSet.content) in
  Ok {| PgQuery__GroupingSet.kind := _enumToIntGroupingSetKind node.(GroupingSet.kind);
        PgQuery__GroupingSet.content := f1;
        PgQuery__GroupingSet.location := node.(GroupingSet.location) |}.

Definition _outIntoClause (node : IntoClause.t Node)
    : outcome (PgQuery__IntoClause.t PgQuery__Node) :=
  let* f1 := WRITE_SPECIFIC_NODE_PTR_FIELD _outRangeVar node.(IntoClause.rel) in
  let* f2 := WRITE_LIST_FIELD node.(IntoClause.colNames) in
  let* f3 := WRITE_LIST_FIELD node.(IntoClause.options) in
  let* f4 := WRITE_NODE_PTR_FIELD node.(IntoClause.viewQuery) in
  Ok {| PgQuery__IntoClause.rel := f1;
        PgQuery__IntoClause.col_names := f2;
        PgQuery__IntoClause.access_method := WRITE_STRING_FIELD node.(IntoClause.accessMethod);
        PgQuery__IntoClause.options := f3;
        PgQuery__IntoClause.on_commit := _enumToIntOnCommitAction node.(IntoClause.onCommit);
        PgQuery__IntoClause.table_space_name := WRITE_STRING_FIELD node.(IntoClause.tableSpaceName);
        PgQuery__IntoClause.view_query := f4;
        PgQuery__IntoClause.skip_data := node.(IntoClause.skipData) |}.

Definition _outSelectStmt (node : SelectStmt.t Node)
    : outcome (PgQuery__SelectStmt.t PgQuery__Node) :=
  let* f1 := WRITE_LIST_FIELD node.(SelectStmt.distinctClause) in
  let* f2 := WRITE_SPECIFIC_NODE_PTR_FIELD _outIntoClause node.(SelectStmt.intoClause) in
  let* f3 := WRITE_LIST_FIELD node.(SelectStmt.targetList) in
  let* f4 := WRITE_LIST_FIELD node.(SelectStmt.fromClause) in
  let* f5 := WRITE_NODE_PTR_FIELD node.(SelectStmt.whereClause) in
  let* f6 := WRITE_LIST_FIELD node.(SelectStmt.groupClause) in
  let* f7 := WRITE_NODE_PTR_FIELD node.(SelectStmt.havingClause) in
  let* f8 := WRITE_LIST_FIELD node.(SelectStmt.windowClause) in
  let* f9 := WRITE_LIST_FIELD node.(SelectStmt.valuesLists) in
  let* f10 := WRITE_LIST_FIELD node.(SelectStmt.sortClause) in
  let* f11 := WRITE_NODE_PTR_FIELD node.(SelectStmt.limitOffset) in
  let* f12 := WRITE_NODE_PTR_FIELD node.(SelectStmt.limitCount) in
  let* f13 := WRITE_LIST_FIELD node.(SelectStmt.lockingClause) in
  let* f14 := WRITE_SPECIFIC_NODE_PTR_FIELD _outWithClause node.(SelectStmt.withClause) in
  let* f15 := WRITE_SELECT_PTR_FIELD node.(SelectStmt.larg) in
  let* f16 := WRITE_SELECT_PTR_FIELD node.(SelectStmt.rarg) in
  Ok {| PgQuery__SelectStmt.distinct_clause := f1;
        PgQuery__SelectStmt.into_clause := f2;
        PgQuery__SelectStmt.target_list := f3;
        PgQuery__SelectStmt.from_clause := f4;
        PgQuery__SelectStmt.where_clause := f5;
        PgQuery__SelectStmt.group_clause := f6;
        PgQuery__SelectStmt.having_clause := f7;
        PgQuery__SelectStmt.window_clause := f8;
        PgQuery__SelectStmt.values_lists := f9;
        PgQuery__SelectStmt.sort_clause := f10;
        PgQuery__SelectStmt.limit_offset := f11;
        PgQuery__SelectStmt.limit_count := f12;
        PgQuery__SelectStmt.limit_option := _enumToIntLimitOption node.(SelectStmt.limitOption);
        PgQuery__SelectStmt.locking_clause := f13;
        PgQuery__SelectStmt.with_clause := f14;
        PgQuery__SelectStmt.op := _enumToIntSetOperation node.(SelectStmt.op);
        PgQuery__SelectStmt.all := node.(SelectStmt.all);
        PgQuery__SelectStmt.larg := f15;
        PgQuery__SelectStmt.rarg := f16 |}.

Definition _outInsertStmt (node : InsertStmt.t Node)
    : outcome (PgQuery__InsertStmt.t PgQuery__Node) :=
  let* f1 := WRITE_SPECIFIC_NODE_PTR_FIELD _outRangeVar node.(InsertStmt.relation) in
  let* f2 := WRITE_LIST_FIELD node.(InsertStmt.cols) in
  let* f3 := WRITE_NODE_PTR_FIELD node.(InsertStmt.selectStmt) in
  let* f4 := WRITE_SPECIFIC_NODE_PTR_FIELD _outOnConflictClause node.(InsertStmt.onConflictClause) in
  let* f5 := WRITE_LIST_FIELD node.(InsertStmt.returningList) in
  let* f6 := WRITE_SPECIFIC_NODE_PTR_FIELD _outWithClause node.(InsertStmt.withClause) in
  Ok {| PgQuery__InsertStmt.relation := f1;
        PgQuery__InsertStmt.cols := f2;
        PgQuery__InsertStmt.select_stmt := f3;
        PgQuery__InsertStmt.on_conflict_clause := f4;
        PgQuery__InsertStmt.returning_list := f5;
        PgQuery__InsertStmt.with_clause := f6;
        PgQuery__InsertStmt.override := _enumToIntOverridingKind node.(InsertStmt.override) |}.

Definition _outUpdateStmt (node : UpdateStmt.t Node)
    : outcome (PgQuery__UpdateStmt.t PgQuery__Node) :=
  let* f1 := WRITE_SPECIFIC_NODE_PTR_FIELD _outRangeVar node.(UpdateStmt.relation) in
  let* f2 := WRITE_LIST_FIELD node.(UpdateStmt.targetList) in
  let* f3 := WRITE_NODE_PTR_FIELD node.(UpdateStmt.whereClause) in
  let* f4 := WRITE_LIST_FIELD node.(UpdateStmt.fromClause) in
  let* f5 := WRITE_LIST_FIELD node.(UpdateStmt.returningList) in
  let* f6 := WRITE_SPECIFIC_NODE_PTR_FIELD _outWithClause node.(UpdateStmt.withClause) in
  Ok {| PgQuery__UpdateStmt.relation := f1;
        PgQuery__UpdateStmt.target_list := f2;
        PgQuery__UpdateStmt.where_clause := f3;
        PgQuery__UpdateStmt.from_clause := f4;
        PgQuery__UpdateStmt.returning_list := f5;
        PgQuery__UpdateStmt.with_clause := f6 |}.

Definition _outDeleteStmt (node : DeleteStmt.t Node)
    : outcome (PgQuery__DeleteStmt.t PgQuery__Node) :=
  let* f1 := WRITE_SPECIFIC_NODE_PTR_FIELD _outRangeVar node.(DeleteStmt.relation) in
  let* f2 := WRITE_LIST_FIELD node.(DeleteStmt.usingClause) in
  let* f3 := WRITE_NODE_PTR_FIELD node.(DeleteStmt.whereClause) in
  let* f4 := WRITE_LIST_FIELD node.(DeleteStmt.returningList) in
  let* f5 := WRITE_SPECIFIC_NODE_PTR_FIELD _outWithClause node.(DeleteStmt.withClause) in
  Ok {| PgQuery__DeleteStmt.relation := f1;
        PgQuery__DeleteStmt.using_clause := f2;
        PgQuery__DeleteStmt.where_clause := f3;
        PgQuery__DeleteStmt.returning_list := f4;
        PgQuery__DeleteStmt.with_clause := f5 |}.

Definition _outRawStmt (node : RawStmt.t Node) : outcome (PgQuery__RawStmt.t PgQuery__Node) :=
  let* f1 := WRITE_NODE_PTR_FIELD node.(RawStmt.stmt) in
  Ok {| PgQuery__RawStmt.stmt := f1;
        PgQuery__RawStmt.stmt_location := node.(RawStmt.stmt_location);
        PgQuery__RawStmt.stmt_len := node.(RawStmt.stmt_len) |}.

Definition _outAlterTableCmd (node : AlterTableCmd.t Node)
    : outcome (PgQuery__AlterTableCmd.t PgQuery__Node) :=
  let* f1 := WRITE_SPECIFIC_NODE_PTR_FIELD _outRoleSpec node.(AlterTableCmd.newowner) in
  let* f2 := WRITE_NODE_PTR_FIELD node.(AlterTableCmd.def) in
  Ok {| PgQuery__AlterTableCmd.subtype := _enumToIntAlterTableType node.(AlterTableCmd.subtype);
        PgQuery__AlterTableCmd.name := WRITE_STRING_FIELD node.(AlterTableCmd.name);
        PgQuery__AlterTableCmd.num := node.(AlterTableCmd.num);
        PgQuery__AlterTableCmd.newowner := f1;
        PgQuery__AlterTableCmd.def := f2;
        PgQuery__AlterTableCmd.behavior := _enumToIntDropBehavior node.(AlterTableCmd.behavior);
        PgQuery__AlterTableCmd.missing_ok := node.(AlterTableCmd.missing_ok) |}.

Definition _outPartitionBoundSpec (node : PartitionBoundSpec.t Node)
    : outcome (PgQuery__PartitionBoundSpec.t PgQuery__Node) :=
  let* f1 := WRITE_LIST_FIELD node.(PartitionBoundSpec.listdatums) in
  let* f2 := WRITE_LIST_FIELD node.(PartitionBoundSpec.lowerdatums) in
  let* f3 := WRITE_LIST_FIELD node.(PartitionBoundSpec.upperdatums) in
  Ok {| PgQuery__PartitionBoundSpec.strategy := WRITE_CHAR_FIELD node.(PartitionBoundSpec.strategy);
        PgQuery__PartitionBoundSpec.is_default := node.(PartitionBoundSpec.is_default);
        PgQuery__PartitionBoundSpec.modulus := node.(PartitionBoundSpec.modulus);
        PgQuery__PartitionBoundSpec.remainder := node.(PartitionBoundSpec.remainder);
        PgQuery__PartitionBoundSpec.listdatums := f1;
        PgQuery__PartitionBoundSpec.lowerdatums := f2;
        PgQuery__PartitionBoundSpec.upperdatums := f3;
        PgQuery__PartitionBoundSpec.location := node.(PartitionBoundSpec.location) |}.

Definition _outTableLikeClause (node : TableLikeClause.t Node)
    : outcome (PgQuery__TableLikeClause.t PgQuery__Node) :=
  let* f1 := WRITE_SPECIFIC_NODE_PTR_FIELD _outRangeVar node.(TableLikeClause.relation) in
  Ok {| PgQuery__TableLikeClause.relation := f1;
        PgQuery__TableLikeClause.options := node.(TableLikeClause.options);
        PgQuery__TableLikeClause.relation_oid := node.(TableLikeClause.relationOid) |}.

Definition _outPartitionElem (node : PartitionElem.t Node)
    : outcome (PgQuery__PartitionElem.t PgQuery__Node) :=
  let* f1 := WRITE_NODE_PTR_FIELD node.(PartitionElem.expr) in
  let* f2 := WRITE_LIST_FIELD node.(PartitionElem.collation) in
  let* f3 := WRITE_LIST_FIELD node.(PartitionElem.opclass) in
  Ok {| PgQuery__PartitionElem.name := WRITE_STRING_FIELD node.(PartitionElem.name);
        PgQuery__PartitionElem.expr := f1;
        PgQuery__PartitionElem.collation := f2;
        PgQuery__PartitionElem.opclass := f3;
        PgQuery__PartitionElem.location := node.(PartitionElem.location) |}.

Definition _outPartitionSpec (node : PartitionSpec.t Node)
    : outcome (PgQuery__PartitionSpec.t PgQuery__Node) :=
  let* f1 := WRITE_LIST_FIELD node.(PartitionSpec.partParams) in
  Ok {| PgQuery__PartitionSpec.strategy := WRITE_STRING_FIELD node.(PartitionSpec.strategy);
        PgQuery__PartitionSpec.part_params := f1;
        PgQuery__PartitionSpec.location := node.(PartitionSpec.location) |}.

Definition _outPartitionCmd (node : PartitionCmd.t Node)
    : outcome (PgQuery__PartitionCmd.t PgQuery__Node) :=
  let* f1 := WRITE_SPECIFIC_NODE_PTR_FIELD _outRangeVar node.(PartitionCmd.name) in
  let* f2 := WRITE_SPECIFIC_NODE_PTR_FIELD _outPartitionBoundSpec node.(PartitionCmd.bound) in
  Ok {| PgQuery__PartitionCmd.name := f1;
        PgQuery__PartitionCmd.bound := f2 |}.

Definition _outTriggerTransition (node : TriggerTransition.t Node)
    : outcome (PgQuery__TriggerTransition.t PgQuery__Node) :=
  Ok {| PgQuery__TriggerTransition.name := WRITE_STRING_FIELD node.(TriggerTransition.name);
        PgQuery__TriggerTransition.is_new := node.(TriggerTransition.isNew);
        PgQuery__TriggerTransition.is_table := node.(TriggerTransition.isTable) |}.

Definition _outCreateSchemaStmt (node : CreateSchemaStmt.t Node)
    : outcome (PgQuery__CreateSchemaStmt.t PgQuery__Node) :=
  let* f1 := WRITE_SPECIFIC_NODE_PTR_FIELD _outRoleSpec node.(CreateSchemaStmt.authrole) in
  let* f2 := WRITE_LIST_FIELD node.(CreateSchemaStmt.schemaElts) in
  Ok {| PgQuery__CreateSchemaStmt.schemaname := WRITE_STRING_FIELD node.(CreateSchemaStmt.schemaname);
        PgQuery__CreateSchemaStmt.authrole := f1;
        PgQuery__CreateSchemaStmt.schema_elts := f2;
        PgQuery__CreateSchemaStmt.if_not_exists := node.(CreateSchemaStmt.if_not_exists) |}.

Definition _outAlterTableStmt (node : AlterTableStmt.t Node)
    : outcome (PgQuery__AlterTableStmt.t PgQuery__Node) :=
  let* f1 := WRITE_SPECIFIC_NODE_PTR_FIELD _outRangeVar node.(AlterTableStmt.relation) in
  let* f2 := WRITE_LIST_FIELD node.(AlterTableStmt.cmds) in
  Ok {| PgQuery__AlterTableStmt.relation := f1;
        PgQuery__AlterTableStmt.cmds := f2;
        PgQuery__AlterTableStmt.relkind := _enumToIntObjectType node.(AlterTableStmt.relkind);
        PgQuery__AlterTableStmt.missing_ok := node.(AlterTableStmt.missing_ok) |}.

Definition _outReplicaIdentityStmt (node : ReplicaIdentityStmt.t Node)
    : outcome (PgQuery__ReplicaIdentityStmt.t PgQuery__Node) :=
  Ok {| PgQuery__ReplicaIdentityStmt.identity_type := WRITE_CHAR_FIELD node.(ReplicaIdentityStmt.identity_type);
        PgQuery__ReplicaIdentityStmt.name := WRITE_STRING_FIELD node.(ReplicaIdentityStmt.name) |}.

Definition _outAlterCollationStmt (node : AlterCollationStmt.t Node)
    : outcome (PgQuery__AlterCollationStmt.t PgQuery__Node) :=
  let* f1 := WRITE_LIST_FIELD node.(AlterCollationStmt.collname) in
  Ok {| PgQuery__AlterCollationStmt.collname := f1 |}.

Definition _outAlterDomainStmt (node : AlterDomainStmt.t Node)
    : outcome (PgQuery__AlterDomainStmt.t PgQuery__Node) :=
  let* f1 := WRITE_LIST_FIELD node.(AlterDomainStmt.typeName) in
  let* f2 := WRITE_NODE_PTR_FIELD node.(AlterDomainStmt.def) in
  Ok {| PgQuery__AlterDomainStmt.subtype := WRITE_CHAR_FIELD node.(AlterDomainStmt.subtype);
        PgQuery__AlterDomainStmt.type_name := f1;
        PgQuery__AlterDomainStmt.name := WRITE_STRING_FIELD node.(AlterDomainStmt.name);
        PgQuery__AlterDomainStmt.def := f2;
        PgQuery__AlterDomainStmt.behavior := _enumToIntDropBehavior node.(AlterDomainStmt.behavior);
        PgQuery__AlterDomainStmt.missing_ok := node.(AlterDomainStmt.missing_ok) |}.

Definition _outGrantStmt (node : GrantStmt.t Node) : outcome (PgQuery__GrantStmt.t PgQuery__Node) :=
  let* f1 := WRITE_LIST_FIELD node.(GrantStmt.objects) in
  let* f2 := WRITE_LIST_FIELD node.(GrantStmt.privileges) in
  let* f3 := WRITE_LIST_FIELD node.(GrantStmt.grantees) in
  Ok {| PgQuery__GrantStmt.is_grant := node.(GrantStmt.is_grant);
        PgQuery__GrantStmt.targtype := _enumToIntGrantTargetType node.(GrantStmt.targtype);
        PgQuery__GrantStmt.objtype := _enumToIntObjectType node.(GrantStmt.objtype);
        PgQuery__GrantStmt.objects := f1;
        PgQuery__GrantStmt.privileges := f2;
        PgQuery__GrantStmt.grantees := f3;
        PgQuery__GrantStmt.grant_option := node.(GrantStmt.grant_option);
        PgQuery__GrantStmt.behavior := _enumToIntDropBehavior node.(GrantStmt.behavior) |}.

Definition _outObjectWithArgs (node : ObjectWithArgs.t Node)
    : outcome (PgQuery__ObjectWithArgs.t PgQuery__Node) :=
  let* f1 := WRITE_LIST_FIELD node.(ObjectWithArgs.objname) in
  let* f2 := WRITE_LIST_FIELD node.(ObjectWithArgs.objargs) in
  Ok {| PgQuery__ObjectWithArgs.objname := f1;
        PgQuery__ObjectWithArgs.objargs := f2;
        PgQuery__ObjectWithArgs.args_unspecified := node.(ObjectWithArgs.args_unspecified) |}.

Definition _outAccessPriv (node : AccessPriv.t Node)
    : outcome (PgQuery__AccessPriv.t PgQuery__Node) :=
  let* f1 := WRITE_LIST_FIELD node.(AccessPriv.cols) in
  Ok {| PgQuery__AccessPriv.priv_name := WRITE_STRING_FIELD node.(AccessPriv.priv_name);
        PgQuery__AccessPriv.cols := f1 |}.

Definition _outGrantRoleStmt (node : GrantRoleStmt.t Node)
    : outcome (PgQuery__GrantRoleStmt.t PgQuery__Node) :=
  let* f1 := WRITE_LIST_FIELD node.(GrantRoleStmt.granted_roles) in
  let* f2 := WRITE_LIST_FIELD node.(GrantRoleStmt.grantee_roles) in
  let* f3 := WRITE_SPECIFIC_NODE_PTR_FIELD _outRoleSpec node.(GrantRoleStmt.grantor) in
  Ok {| PgQuery__GrantRoleStmt.granted_roles := f1;
        PgQuery__GrantRoleStmt.grantee_roles := f2;
        PgQuery__GrantRoleStmt.is_grant := node.(GrantRoleStmt.is_grant);
        PgQuery__GrantRoleStmt.admin_opt := node.(GrantRoleStmt.admin_opt);
        PgQuery__GrantRoleStmt.grantor := f3;
        PgQuery__GrantRoleStmt.behavior := _enumToIntDropBehavior node.(GrantRoleStmt.behavior) |}.

Definition _outAlterDefaultPrivilegesStmt (node : AlterDefaultPrivilegesStmt.t Node)
    : outcome (PgQuery__AlterDefaultPrivilegesStmt.t PgQuery__Node) :=
  let* f1 := WRITE_LIST_FIELD node.(AlterDefaultPrivilegesStmt.options) in
  let* f2 := WRITE_SPECIFIC_NODE_PTR_FIELD _outGrantStmt node.(AlterDefaultPrivilegesStmt.action) in
  Ok {| PgQuery__AlterDefaultPrivilegesStmt.options := f1;
        PgQuery__AlterDefaultPrivilegesStmt.action := f2 |}.

Definition _outCopyStmt (node : CopyStmt.t Node) : outcome (PgQuery__CopyStmt.t PgQuery__Node) :=
  let* f1 := WRITE_SPECIFIC_NODE_PTR_FIELD _outRangeVar node.(CopyStmt.relation) in
  let* f2 := WRITE_NODE_PTR_FIELD node.(CopyStmt.query) in
  let* f3 := WRITE_LIST_FIELD node.(CopyStmt.attlist) in
  let* f4 := WRITE_LIST_FIELD node.(CopyStmt.options) in
  let* f5 := WRITE_NODE_PTR_FIELD node.(CopyStmt.whereClause) in
  Ok {| PgQuery__CopyStmt.relation := f1;
        PgQuery__CopyStmt.query := f2;
        PgQuery__CopyStmt.attlist := f3;
        PgQuery__CopyStmt.is_from := node.(CopyStmt.is_from);
        PgQuery__CopyStmt.is_program := node.(CopyStmt.is_program);
        PgQuery__CopyStmt.filename := WRITE_STRING_FIELD node.(CopyStmt.filename);
        PgQuery__CopyStmt.options := f4;
        PgQuery__CopyStmt.where_clause := f5 |}.

Definition _outVariableSetStmt (node : VariableSetStmt.t Node)
    : outcome (PgQuery__VariableSetStmt.t PgQuery__Node) :=
  let* f1 := WRITE_LIST_FIELD node.(VariableSetStmt.args) in
  Ok {| PgQuery__VariableSetStmt.kind := _enumToIntVariableSetKind node.(VariableSetStmt.kind);
        PgQuery__VariableSetStmt.name := WRITE_STRING_FIELD node.(VariableSetStmt.name);
        PgQuery__VariableSetStmt.args := f1;
        PgQuery__VariableSetStmt.is_local := node.(VariableSetStmt.is_local) |}.

Definition _outVariableShowStmt (node : VariableShowStmt.t Node)
    : outcome (PgQuery__VariableShowStmt.t PgQuery__Node) :=
  Ok {| PgQuery__VariableShowStmt.name := WRITE_STRING_FIELD node.(VariableShowStmt.name) |}.

Definition _outCreateStmt (node : CreateStmt.t Node)
    : outcome (PgQuery__CreateStmt.t PgQuery__Node) :=
  let* f1 := WRITE_SPECIFIC_NODE_PTR_FIELD _outRangeVar node.(CreateStmt.relation) in
  let* f2 := WRITE_LIST_FIELD node.(CreateStmt.tableElts) in
  let* f3 := WRITE_LIST_FIELD node.(CreateStmt.inhRelations) in
  let* f4 := WRITE_SPECIFIC_NODE_PTR_FIELD _outPartitionBoundSpec node.(CreateStmt.partbound) in
  let* f5 := WRITE_SPECIFIC_NODE_PTR_FIELD _outPartitionSpec node.(CreateStmt.partspec) in
  let* f6 := WRITE_SPECIFIC_NODE_PTR_FIELD _outTypeName node.(CreateStmt.ofTypename) in
  let* f7 := WRITE_LIST_FIELD node.(CreateStmt.constraints) in
  let* f8 := WRITE_LIST_FIELD node.(CreateStmt.options) in
  Ok {| PgQuery__CreateStmt.relation := f1;
        PgQuery__CreateStmt.table_elts := f2;
        PgQuery__CreateStmt.inh_relations := f3;
        PgQuery__CreateStmt.partbound := f4;
        PgQuery__CreateStmt.partspec := f5;
        PgQuery__CreateStmt.of_typename := f6;
        PgQuery__CreateStmt.constraints := f7;
        PgQuery__CreateStmt.options := f8;
        PgQuery__CreateStmt.oncommit := _enumToIntOnCommitAction node.(CreateStmt.oncommit);
        PgQuery__CreateStmt.tablespacename := WRITE_STRING_FIELD node.(CreateStmt.tablespacename);
        PgQuery__CreateStmt.access_method := WRITE_STRING_FIELD node.(CreateStmt.accessMethod);
        PgQuery__CreateStmt.if_not_exists := node.(CreateStmt.if_not_exists) |}.

Definition _outCreateTableSpaceStmt (node : CreateTableSpaceStmt.t Node)
    : outcome (PgQuery__CreateTableSpaceStmt.t PgQuery__Node) :=
  let* f1 := WRITE_SPECIFIC_NODE_PTR_FIELD _outRoleSpec node.(CreateTableSpaceStmt.owner) in
  let* f2 := WRITE_LIST_FIELD node.(CreateTableSpaceStmt.options) in
  Ok {| PgQuery__CreateTableSpaceStmt.tablespacename := WRITE_STRING_FIELD node.(CreateTableSpaceStmt.tablespacename);
        PgQuery__CreateTableSpaceStmt.owner := f1;
        PgQuery__CreateTableSpaceStmt.location := WRITE_STRING_FIELD node.(CreateTableSpaceStmt.location);
        PgQuery__CreateTableSpaceStmt.options := f2 |}.

Definition _outDropTableSpaceStmt (node : DropTableSpaceStmt.t Node)
    : outcome (PgQuery__DropTableSpaceStmt.t PgQuery__Node) :=
  Ok {| PgQuery__DropTableSpaceStmt.tablespacename := WRITE_STRING_FIELD node.(DropTableSpaceStmt.tablespacename);
        PgQuery__DropTableSpaceStmt.missing_ok := node.(DropTableSpaceStmt.missing_ok) |}.

Definition _outAlterTableSpaceOptionsStmt (node : AlterTableSpaceOptionsStmt.t Node)
    : outcome (PgQuery__AlterTableSpaceOptionsStmt.t PgQuery__Node) :=
  let* f1 := WRITE_LIST_FIELD node.(AlterTableSpaceOptionsStmt.options) in
  Ok {| PgQuery__AlterTableSpaceOptionsStmt.tablespacename := WRITE_STRING_FIELD node.(AlterTableSpaceOptionsStmt.tablespacename);
        PgQuery__AlterTableSpaceOptionsStmt.options := f1;
        PgQuery__AlterTableSpaceOptionsStmt.is_reset := node.(AlterTableSpaceOptionsStmt.isReset) |}.

Definition _outAlterTableMoveAllStmt (node : AlterTableMoveAllStmt.t Node)
    : outcome (PgQuery__AlterTableMoveAllStmt.t PgQuery__Node) :=
  let* f1 := WRITE_LIST_FIELD node.(AlterTableMoveAllStmt.roles) in
  Ok {| PgQuery__AlterTableMoveAllStmt.orig_tablespacename := WRITE_STRING_FIELD node.(AlterTableMoveAllStmt.orig_tablespacename);
        PgQuery__AlterTableMoveAllStmt.objtype := _enumToIntObjectType node.(AlterTableMoveAllStmt.objtype);
        PgQuery__AlterTableMoveAllStmt.roles := f1;
        PgQuery__AlterTableMoveAllStmt.new_tablespacename := WRITE_STRING_FIELD node.(AlterTableMoveAllStmt.new_tablespacename);
        PgQuery__AlterTableMoveAllStmt.nowait := node.(AlterTableMoveAllStmt.nowait) |}.

Definition _outCreateExtensionStmt (node : CreateExtensionStmt.t Node)
    : outcome (PgQuery__CreateExtensionStmt.t PgQuery__Node) :=
  let* f1 := WRITE_LIST_FIELD node.(CreateExtensionStmt.options) in
  Ok {| PgQuery__CreateExtensionStmt.extname := WRITE_STRING_FIELD node.(CreateExtensionStmt.extname);
        PgQuery__CreateExtensionStmt.if_not_exists := node.(CreateExtensionStmt.if_not_exists);
        PgQuery__CreateExtensionStmt.options := f1 |}.

Definition _outAlterExtensionStmt (node : AlterExtensionStmt.t Node)
    : outcome (PgQuery__AlterExtensionStmt.t PgQuery__Node) :=
  let* f1 := WRITE_LIST_FIELD node.(AlterExtensionStmt.options) in
  Ok {| PgQuery__AlterExtensionStmt.extname := WRITE_STRING_FIELD node.(AlterExtensionStmt.extname);
        PgQuery__AlterExtensionStmt.options := f1 |}.

Definition _outAlterExtensionContentsStmt (node : AlterExtensionContentsStmt.t Node)
    : outcome (PgQuery__AlterExtensionContentsStmt.t PgQuery__Node) :=
  let* f1 := WRITE_NODE_PTR_FIELD node.(AlterExtensionContentsStmt.object) in
  Ok {| PgQuery__AlterExtensionContentsStmt.extname := WRITE_STRING_FIELD node.(AlterExtensionContentsStmt.extname);
        PgQuery__AlterExtensionContentsStmt.action := node.(AlterExtensionContentsStmt.action);
        PgQuery__AlterExtensionContentsStmt.objtype := _enumToIntObjectType node.(AlterExtensionContentsStmt.objtype);
        PgQuery__AlterExtensionContentsStmt.object := f1 |}.

Definition _outCreateFdwStmt (node : CreateFdwStmt.t Node)
    : outcome (PgQuery__CreateFdwStmt.t PgQuery__Node) :=
  let* f1 := WRITE_LIST_FIELD node.(CreateFdwStmt.func_options) in
  let* f2 := WRITE_LIST_FIELD node.(CreateFdwStmt.options) in
  Ok {| PgQuery__CreateFdwStmt.fdwname := WRITE_STRING_FIELD node.(CreateFdwStmt.fdwname);
        PgQuery__CreateFdwStmt.func_options := f1;
        PgQuery__CreateFdwStmt.options := f2 |}.

Definition _outAlterFdwStmt (node : AlterFdwStmt.t Node)
    : outcome (PgQuery__AlterFdwStmt.t PgQuery__Node) :=
  let* f1 := WRITE_LIST_FIELD node.(AlterFdwStmt.func_options) in
  let* f2 := WRITE_LIST_FIELD node.(AlterFdwStmt.options) in
  Ok {| PgQuery__AlterFdwStmt.fdwname := WRITE_STRING_FIELD node.(AlterFdwStmt.fdwname);
        PgQuery__AlterFdwStmt.func_options := f1;
        PgQuery__AlterFdwStmt.options := f2 |}.

Definition _outCreateForeignServerStmt (node : CreateForeignServerStmt.t Node)
    : outcome (PgQuery__CreateForeignServerStmt.t PgQuery__Node) :=
  let* f1 := WRITE_LIST_FIELD node.(CreateForeignServerStmt.options) in
  Ok {| PgQuery__CreateForeignServerStmt.servername := WRITE_STRING_FIELD node.(CreateForeignServerStmt.servername);
        PgQuery__CreateForeignServerStmt.servertype := WRITE_STRING_FIELD node.(CreateForeignServerStmt.servertype);
        PgQuery__CreateForeignServerStmt.version := WRITE_STRING_FIELD node.(CreateForeignServerStmt.version);
        PgQuery__CreateForeignServerStmt.fdwname := WRITE_STRING_FIELD node.(CreateForeignServerStmt.fdwname);
        PgQuery__CreateForeignServerStmt.if_not_exists := node.(CreateForeignServerStmt.if_not_exists);
        PgQuery__CreateForeignServerStmt.options := f1 |}.

Definition _outAlterForeignServerStmt (node : AlterForeignServerStmt.t Node)
    : outcome (PgQuery__AlterForeignServerStmt.t PgQuery__Node) :=
  let* f1 := WRITE_LIST_FIELD node.(AlterForeignServerStmt.options) in
  Ok {| PgQuery__AlterForeignServerStmt.servername := WRITE_STRING_FIELD node.(AlterForeignServerStmt.servername);
        PgQuery__AlterForeignServerStmt.version := WRITE_STRING_FIELD node.(AlterForeignServerStmt.version);
        PgQuery__AlterForeignServerStmt.options := f1;
        PgQuery__AlterForeignServerStmt.has_version := node.(AlterForeignServerStmt.has_version) |}.

Definition _outCreateForeignTableStmt (node : CreateForeignTableStmt.t Node)
    : outcome (PgQuery__CreateForeignTableStmt.t PgQuery__Node) :=
  let* f1 := _outCreateStmt node.(CreateForeignTableStmt.base) in
  let* f2 := WRITE_LIST_FIELD node.(CreateForeignTableStmt.options) in
  Ok {| PgQuery__CreateForeignTableStmt.base_stmt := Some f1;
        PgQuery__CreateForeignTableStmt.servername := WRITE_STRING_FIELD node.(CreateForeignTableStmt.servername);
        PgQuery__CreateForeignTableStmt.options := f2 |}.

Definition _outCreateUserMappingStmt (node : CreateUserMappingStmt.t Node)
    : outcome (PgQuery__CreateUserMappingStmt.t PgQuery__Node) :=
  let* f1 := WRITE_SPECIFIC_NODE_PTR_FIELD _outRoleSpec node.(CreateUserMappingStmt.user) in
  let* f2 := WRITE_LIST_FIELD node.(CreateUserMappingStmt.options) in
  Ok {| PgQuery__CreateUserMappingStmt.user := f1;
        PgQuery__CreateUserMappingStmt.servername := WRITE_STRING_FIELD node.(CreateUserMappingStmt.servername);
        PgQuery__CreateUserMappingStmt.if_not_exists := node.(CreateUserMappingStmt.if_not_exists);
        PgQuery__CreateUserMappingStmt.options := f2 |}.

Definition _outAlterUserMappingStmt (node : AlterUserMappingStmt.t Node)
    : outcome (PgQuery__AlterUserMappingStmt.t PgQuery__Node) :=
  let* f1 := WRITE_SPECIFIC_NODE_PTR_FIELD _outRoleSpec node.(AlterUserMappingStmt.user) in
  let* f2 := WRITE_LIST_FIELD node.(AlterUserMappingStmt.options) in
  Ok {| PgQuery__AlterUserMappingStmt.user := f1;
        PgQuery__AlterUserMappingStmt.servername := WRITE_STRING_FIELD node.(AlterUserMappingStmt.servername);
        PgQuery__AlterUserMappingStmt.options := f2 |}.

Definition _outDropUserMappingStmt (node : DropUserMappingStmt.t Node)
    : outcome (PgQuery__DropUserMappingStmt.t PgQuery__Node) :=
  let* f1 := WRITE_SPECIFIC_NODE_PTR_FIELD _outRoleSpec node.(DropUserMappingStmt.user) in
  Ok {| PgQuery__DropUserMappingStmt.user := f1;
        PgQuery__DropUserMappingStmt.servername := WRITE_STRING_FIELD node.(DropUserMappingStmt.servername);
        PgQuery__DropUserMappingStmt.missing_ok := node.(DropUserMappingStmt.missing_ok) |}.

Definition _outImportForeignSchemaStmt (node : ImportForeignSchemaStmt.t Node)
    : outcome (PgQuery__ImportForeignSchemaStmt.t PgQuery__Node) :=
  let* f1 := WRITE_LIST_FIELD node.(ImportForeignSchemaStmt.table_list) in
  let* f2 := WRITE_LIST_FIELD node.(ImportForeignSchemaStmt.options) in
  Ok {| PgQuery__ImportForeignSchemaStmt.server_name := WRITE_STRING_FIELD node.(ImportForeignSchemaStmt.server_name);
        PgQuery__ImportForeignSchemaStmt.remote_schema := WRITE_STRING_FIELD node.(ImportForeignSchemaStmt.remote_schema);
        PgQuery__ImportForeignSchemaStmt.local_schema := WRITE_STRING_FIELD node.(ImportForeignSchemaStmt.local_schema);
        PgQuery__ImportForeignSchemaStmt.list_type := _enumToIntImportForeignSchemaType node.(ImportForeignSchemaStmt.list_type);
        PgQuery__ImportForeignSchemaStmt.table_list := f1;
        PgQuery__ImportForeignSchemaStmt.options := f2 |}.

Definition _outCreatePolicyStmt (node : CreatePolicyStmt.t Node)
    : outcome (PgQuery__CreatePolicyStmt.t PgQuery__Node) :=
  let* f1 := WRITE_SPECIFIC_NODE_PTR_FIELD _outRangeVar node.(CreatePolicyStmt.table) in
  let* f2 := WRITE_LIST_FIELD node.(CreatePolicyStmt.roles) in
  let* f3 := WRITE_NODE_PTR_FIELD node.(CreatePolicyStmt.qual) in
  let* f4 := WRITE_NODE_PTR_FIELD node.(CreatePolicyStmt.with_check) in
  Ok {| PgQuery__CreatePolicyStmt.policy_name := WRITE_STRING_FIELD node.(CreatePolicyStmt.policy_name);
        PgQuery__CreatePolicyStmt.table := f1;
        PgQuery__CreatePolicyStmt.cmd_name := WRITE_STRING_FIELD node.(CreatePolicyStmt.cmd_name);
        PgQuery__CreatePolicyStmt.permissive := node.(CreatePolicyStmt.permissive);
        PgQuery__CreatePolicyStmt.roles := f2;
        PgQuery__CreatePolicyStmt.qual := f3;
        PgQuery__CreatePolicyStmt.with_check := f4 |}.

Definition _outAlterPolicyStmt (node : AlterPolicyStmt.t Node)
    : outcome (PgQuery__AlterPolicyStmt.t PgQuery__Node) :=
  let* f1 := WRITE_SPECIFIC_NODE_PTR_FIELD _outRangeVar node.(AlterPolicyStmt.table) in
  let* f2 := WRITE_LIST_FIELD node.(AlterPolicyStmt.roles) in
  let* f3 := WRITE_NODE_PTR_FIELD node.(AlterPolicyStmt.qual) in
  let* f4 := WRITE_NODE_PTR_FIELD node.(AlterPolicyStmt.with_check) in
  Ok {| PgQuery__AlterPolicyStmt.policy_name := WRITE_STRING_FIELD node.(AlterPolicyStmt.policy_name);
        PgQuery__AlterPolicyStmt.table := f1;
        PgQuery__AlterPolicyStmt.roles := f2;
        PgQuery__AlterPolicyStmt.qual := f3;
        PgQuery__AlterPolicyStmt.with_check := f4 |}.

Definition _outCreateAmStmt (node : CreateAmStmt.t Node)
    : outcome (PgQuery__CreateAmStmt.t PgQuery__Node) :=
  let* f1 := WRITE_LIST_FIELD node.(CreateAmStmt.handler_name) in
  Ok {| PgQuery__CreateAmStmt.amname := WRITE_STRING_FIELD node.(CreateAmStmt.amname);
        PgQuery__CreateAmStmt.handler_name := f1;
        PgQuery__CreateAmStmt.amtype := WRITE_CHAR_FIELD node.(CreateAmStmt.amtype) |}.

Definition _outCreateTrigStmt (node : CreateTrigStmt.t Node)
    : outcome (PgQuery__CreateTrigStmt.t PgQuery__Node) :=
  let* f1 := WRITE_SPECIFIC_NODE_PTR_FIELD _outRangeVar node.(CreateTrigStmt.relation) in
  let* f2 := WRITE_LIST_FIELD node.(CreateTrigStmt.funcname) in
  let* f3 := WRITE_LIST_FIELD node.(CreateTrigStmt.args) in
  let* f4 := WRITE_LIST_FIELD node.(CreateTrigStmt.columns) in
  let* f5 := WRITE_NODE_PTR_FIELD node.(CreateTrigStmt.whenClause) in
  let* f6 := WRITE_LIST_FIELD node.(CreateTrigStmt.transitionRels) in
  let* f7 := WRITE_SPECIFIC_NODE_PTR_FIELD _outRangeVar node.(CreateTrigStmt.constrrel) in
  Ok {| PgQuery__CreateTrigStmt.trigname := WRITE_STRING_FIELD node.(CreateTrigStmt.trigname);
        PgQuery__CreateTrigStmt.relation := f1;
        PgQuery__CreateTrigStmt.funcname := f2;
        PgQuery__CreateTrigStmt.args := f3;
        PgQuery__CreateTrigStmt.row := node.(CreateTrigStmt.row);
        PgQuery__CreateTrigStmt.timing := node.(CreateTrigStmt.timing);
        PgQuery__CreateTrigStmt.events := node.(CreateTrigStmt.events);
        PgQuery__CreateTrigStmt.columns := f4;
        PgQuery__CreateTrigStmt.when_clause := f5;
        PgQuery__CreateTrigStmt.isconstraint := node.(CreateTrigStmt.isconstraint);
        PgQuery__CreateTrigStmt.transition_rels := f6;
        PgQuery__CreateTrigStmt.deferrable := node.(CreateTrigStmt.deferrable);
        PgQuery__CreateTrigStmt.initdeferred := node.(CreateTrigStmt.initdeferred);
        PgQuery__CreateTrigStmt.constrrel := f7 |}.

Definition _outCreateEventTrigStmt (node : CreateEventTrigStmt.t Node)
    : outcome (PgQuery__CreateEventTrigStmt.t PgQuery__Node) :=
  let* f1 := WRITE_LIST_FIELD node.(CreateEventTrigStmt.whenclause) in
  let* f2 := WRITE_LIST_FIELD node.(CreateEventTrigStmt.funcname) in
  Ok {| PgQuery__CreateEventTrigStmt.trigname := WRITE_STRING_FIELD node.(CreateEventTrigStmt.trigname);
        PgQuery__CreateEventTrigStmt.eventname := WRITE_STRING_FIELD node.(CreateEventTrigStmt.eventname);
        PgQuery__CreateEventTrigStmt.whenclause := f1;
        PgQuery__CreateEventTrigStmt.funcname := f2 |}.

Definition _outAlterEventTrigStmt (node : AlterEventTrigStmt.t Node)
    : outcome (PgQuery__AlterEventTrigStmt.t PgQuery__Node) :=
  Ok {| PgQuery__AlterEventTrigStmt.trigname := WRITE_STRING_FIELD node.(AlterEventTrigStmt.trigname);
        PgQuery__AlterEventTrigStmt.tgenabled := WRITE_CHAR_FIELD node.(AlterEventTrigStmt.tgenabled) |}.

Definition _outCreatePLangStmt (node : CreatePLangStmt.t Node)
    : outcome (PgQuery__CreatePLangStmt.t PgQuery__Node) :=
  let* f1 := WRITE_LIST_FIELD node.(CreatePLangStmt.plhandler) in
  let* f2 := WRITE_LIST_FIELD node.(CreatePLangStmt.plinline) in
  let* f3 := WRITE_LIST_FIELD node.(CreatePLangStmt.plvalidator) in
  Ok {| PgQuery__CreatePLangStmt.replace := node.(CreatePLangStmt.replace);
        PgQuery__CreatePLangStmt.plname := WRITE_STRING_FIELD node.(CreatePLangStmt.plname);
        PgQuery__CreatePLangStmt.plhandler := f1;
        PgQuery__CreatePLangStmt.plinline := f2;
        PgQuery__CreatePLangStmt.plvalidator := f3;
        PgQuery__CreatePLangStmt.pltrusted := node.(CreatePLangStmt.pltrusted) |}.

Definition _outCreateRoleStmt (node : CreateRoleStmt.t Node)
    : outcome (PgQuery__CreateRoleStmt.t PgQuery__Node) :=
  let* f1 := WRITE_LIST_FIELD node.(CreateRoleStmt.options) in
  Ok {| PgQuery__CreateRoleStmt.stmt_type := _enumToIntRoleStmtType node.(CreateRoleStmt.stmt_type);
        PgQuery__CreateRoleStmt.role := WRITE_STRING_FIELD node.(CreateRoleStmt.role);
        PgQuery__CreateRoleStmt.options := f1 |}.

Definition _outAlterRoleStmt (node : AlterRoleStmt.t Node)
    : outcome (PgQuery__AlterRoleStmt.t PgQuery__Node) :=
  let* f1 := WRITE_SPECIFIC_NODE_PTR_FIELD _outRoleSpec node.(AlterRoleStmt.role) in
  let* f2 := WRITE_LIST_FIELD node.(AlterRoleStmt.options) in
  Ok {| PgQuery__AlterRoleStmt.role := f1;
        PgQuery__AlterRoleStmt.options := f2;
        PgQuery__AlterRoleStmt.action := node.(AlterRoleStmt.action) |}.

Definition _outAlterRoleSetStmt (node : AlterRoleSetStmt.t Node)
    : outcome (PgQuery__AlterRoleSetStmt.t PgQuery__Node) :=
  let* f1 := WRITE_SPECIFIC_NODE_PTR_FIELD _outRoleSpec node.(AlterRoleSetStmt.role) in
  let* f2 := WRITE_SPECIFIC_NODE_PTR_FIELD _outVariableSetStmt node.(AlterRoleSetStmt.setstmt) in
  Ok {| PgQuery__AlterRoleSetStmt.role := f1;
        PgQuery__AlterRoleSetStmt.database := WRITE_STRING_FIELD node.(AlterRoleSetStmt.database);
        PgQuery__AlterRoleSetStmt.setstmt := f2 |}.

Definition _outDropRoleStmt (node : DropRoleStmt.t Node)
    : outcome (PgQuery__DropRoleStmt.t PgQuery__Node) :=
  let* f1 := WRITE_LIST_FIELD node.(DropRoleStmt.roles) in
  Ok {| PgQuery__DropRoleStmt.roles := f1;
        PgQuery__DropRoleStmt.missing_ok := node.(DropRoleStmt.missing_ok) |}.

Definition _outCreateSeqStmt (node : CreateSeqStmt.t Node)
    : outcome (PgQuery__CreateSeqStmt.t PgQuery__Node) :=
  let* f1 := WRITE_SPECIFIC_NODE_PTR_FIELD _outRangeVar node.(CreateSeqStmt.sequence) in
  let* f2 := WRITE_LIST_FIELD node.(CreateSeqStmt.options) in
  Ok {| PgQuery__CreateSeqStmt.sequence := f1;
        PgQuery__CreateSeqStmt.options := f2;
        PgQuery__CreateSeqStmt.owner_id := node.(CreateSeqStmt.ownerId);
        PgQuery__CreateSeqStmt.for_identity := node.(CreateSeqStmt.for_identity);
        PgQuery__CreateSeqStmt.if_not_exists := node.(CreateSeqStmt.if_not_exists) |}.

Definition _outAlterSeqStmt (node : AlterSeqStmt.t Node)
    : outcome (PgQuery__AlterSeqStmt.t PgQuery__Node) :=
  let* f1 := WRITE_SPECIFIC_NODE_PTR_FIELD _outRangeVar node.(AlterSeqStmt.sequence) in
  let* f2 := WRITE_LIST_FIELD node.(AlterSeqStmt.options) in
  Ok {| PgQuery__AlterSeqStmt.sequence := f1;
        PgQuery__AlterSeqStmt.options := f2;
        PgQuery__AlterSeqStmt.for_identity := node.(AlterSeqStmt.for_identity);
        PgQuery__AlterSeqStmt.missing_ok := node.(AlterSeqStmt.missing_ok) |}.

Definition _outDefineStmt (node : DefineStmt.t Node)
    : outcome (PgQuery__DefineStmt.t PgQuery__Node) :=
  let* f1 := WRITE_LIST_FIELD node.(DefineStmt.defnames) in
  let* f2 := WRITE_LIST_FIELD node.(DefineStmt.args) in
  let* f3 := WRITE_LIST_FIELD node.(DefineStmt.definition) in
  Ok {| PgQuery__DefineStmt.kind := _enumToIntObjectType node.(DefineStmt.kind);
        PgQuery__DefineStmt.oldstyle := node.(DefineStmt.oldstyle);
        PgQuery__DefineStmt.defnames := f1;
        PgQuery__DefineStmt.args := f2;
        PgQuery__DefineStmt.definition := f3;
        PgQuery__DefineStmt.if_not_exists := node.(DefineStmt.if_not_exists);
        PgQuery__DefineStmt.replace := node.(DefineStmt.replace) |}.

Definition _outCreateDomainStmt (node : CreateDomainStmt.t Node)
    : outcome (PgQuery__CreateDomainStmt.t PgQuery__Node) :=
  let* f1 := WRITE_LIST_FIELD node.(CreateDomainStmt.domainname) in
  let* f2 := WRITE_SPECIFIC_NODE_PTR_FIELD _outTypeName node.(CreateDomainStmt.typeName) in
  let* f3 := WRITE_SPECIFIC_NODE_PTR_FIELD _outCollateClause node.(CreateDomainStmt.collClause) in
  let* f4 := WRITE_LIST_FIELD node.(CreateDomainStmt.constraints) in
  Ok {| PgQuery__CreateDomainStmt.domainname := f1;
        PgQuery__CreateDomainStmt.type_name := f2;
        PgQuery__CreateDomainStmt.coll_clause := f3;
        PgQuery__CreateDomainStmt.constraints := f4 |}.

Definition _outCreateOpClassStmt (node : CreateOpClassStmt.t Node)
    : outcome (PgQuery__CreateOpClassStmt.t PgQuery__Node) :=
  let* f1 := WRITE_LIST_FIELD node.(CreateOpClassStmt.opclassname) in
  let* f2 := WRITE_LIST_FIELD node.(CreateOpClassStmt.opfamilyname) in
  let* f3 := WRITE_SPECIFIC_NODE_PTR_FIELD _outTypeName node.(CreateOpClassStmt.datatype) in
  let* f4 := WRITE_LIST_FIELD node.(CreateOpClassStmt.items) in
  Ok {| PgQuery__CreateOpClassStmt.opclassname := f1;
        PgQuery__CreateOpClassStmt.opfamilyname := f2;
        PgQuery__CreateOpClassStmt.amname := WRITE_STRING_FIELD node.(CreateOpClassStmt.amname);
        PgQuery__CreateOpClassStmt.datatype := f3;
        PgQuery__CreateOpClassStmt.items := f4;
        PgQuery__CreateOpClassStmt.is_default := node.(CreateOpClassStmt.isDefault) |}.

Definition _outCreateOpClassItem (node : CreateOpClassItem.t Node)
    : outcome (PgQuery__CreateOpClassItem.t PgQuery__Node) :=
  let* f1 := WRITE_SPECIFIC_NODE_PTR_FIELD _outObjectWithArgs node.(CreateOpClassItem.name) in
  let* f2 := WRITE_LIST_FIELD node.(CreateOpClassItem.order_family) in
  let* f3 := WRITE_LIST_FIELD node.(CreateOpClassItem.class_args) in
  let* f4 := WRITE_SPECIFIC_NODE_PTR_FIELD _outTypeName node.(CreateOpClassItem.storedtype) in
  Ok {| PgQuery__CreateOpClassItem.itemtype := node.(CreateOpClassItem.itemtype);
        PgQuery__CreateOpClassItem.name := f1;
        PgQuery__CreateOpClassItem.number := node.(CreateOpClassItem.number);
        PgQuery__CreateOpClassItem.order_family := f2;
        PgQuery__CreateOpClassItem.class_args := f3;
        PgQuery__CreateOpClassItem.storedtype := f4 |}.

Definition _outCreateOpFamilyStmt (node : CreateOpFamilyStmt.t Node)
    : outcome (PgQuery__CreateOpFamilyStmt.t PgQuery__Node) :=
  let* f1 := WRITE_LIST_FIELD node.(CreateOpFamilyStmt.opfamilyname) in
  Ok {| PgQuery__CreateOpFamilyStmt.opfamilyname := f1;
        PgQuery__CreateOpFamilyStmt.amname := WRITE_STRING_FIELD node.(CreateOpFamilyStmt.amname) |}.

Definition _outAlterOpFamilyStmt (node : AlterOpFamilyStmt.t Node)
    : outcome (PgQuery__AlterOpFamilyStmt.t PgQuery__Node) :=
  let* f1 := WRITE_LIST_FIELD node.(AlterOpFamilyStmt.opfamilyname) in
  let* f2 := WRITE_LIST_FIELD node.(AlterOpFamilyStmt.items) in
  Ok {| PgQuery__AlterOpFamilyStmt.opfamilyname := f1;
        PgQuery__AlterOpFamilyStmt.amname := WRITE_STRING_FIELD node.(AlterOpFamilyStmt.amname);
        PgQuery__AlterOpFamilyStmt.is_drop := node.(AlterOpFamilyStmt.isDrop);
        PgQuery__AlterOpFamilyStmt.items := f2 |}.

Definition _outDropStmt (node : DropStmt.t Node) : outcome (PgQuery__DropStmt.t PgQuery__Node) :=
  let* f1 := WRITE_LIST_FIELD node.(DropStmt.objects) in
  Ok {| PgQuery__DropStmt.objects := f1;
        PgQuery__DropStmt.remove_type := _enumToIntObjectType node.(DropStmt.removeType);
        PgQuery__DropStmt.behavior := _enumToIntDropBehavior node.(DropStmt.behavior);
        PgQuery__DropStmt.missing_ok := node.(DropStmt.missing_ok);
        PgQuery__DropStmt.concurrent := node.(DropStmt.concurrent) |}.

Definition _outTruncateStmt (node : TruncateStmt.t Node)
    : outcome (PgQuery__TruncateStmt.t PgQuery__Node) :=
  let* f1 := WRITE_LIST_FIELD node.(TruncateStmt.relations) in
  Ok {| PgQuery__TruncateStmt.relations := f1;
        PgQuery__TruncateStmt.restart_seqs := node.(TruncateStmt.restart_seqs);
        PgQuery__TruncateStmt.behavior := _enumToIntDropBehavior node.(TruncateStmt.behavior) |}.

Definition _outCommentStmt (node : CommentStmt.t Node)
    : outcome (PgQuery__CommentStmt.t PgQuery__Node) :=
  let* f1 := WRITE_NODE_PTR_FIELD node.(CommentStmt.object) in
  Ok {| PgQuery__CommentStmt.objtype := _enumToIntObjectType node.(CommentStmt.objtype);
        PgQuery__CommentStmt.object := f1;
        PgQuery__CommentStmt.comment := WRITE_STRING_FIELD node.(CommentStmt.comment) |}.

Definition _outSecLabelStmt (node : SecLabelStmt.t Node)
    : outcome (PgQuery__SecLabelStmt.t PgQuery__Node) :=
  let* f1 := WRITE_NODE_PTR_FIELD node.(SecLabelStmt.object) in
  Ok {| PgQuery__SecLabelStmt.objtype := _enumToIntObjectType node.(SecLabelStmt.objtype);
        PgQuery__SecLabelStmt.object := f1;
        PgQuery__SecLabelStmt.provider := WRITE_STRING_FIELD node.(SecLabelStmt.provider);
        PgQuery__SecLabelStmt.label := WRITE_STRING_FIELD node.(SecLabelStmt.label) |}.

Definition _outDeclareCursorStmt (node : DeclareCursorStmt.t Node)
    : outcome (PgQuery__DeclareCursorStmt.t PgQuery__Node) :=
  let* f1 := WRITE_NODE_PTR_FIELD node.(DeclareCursorStmt.query) in
  Ok {| PgQuery__DeclareCursorStmt.portalname := WRITE_STRING_FIELD node.(DeclareCursorStmt.portalname);
        PgQuery__DeclareCursorStmt.options := node.(DeclareCursorStmt.options);
        PgQuery__DeclareCursorStmt.query := f1 |}.

Definition _outClosePortalStmt (node : ClosePortalStmt.t Node)
    : outcome (PgQuery__ClosePortalStmt.t PgQuery__Node) :=
  Ok {| PgQuery__ClosePortalStmt.portalname := WRITE_STRING_FIELD node.(ClosePortalStmt.portalname) |}.

Definition _outFetchStmt (node : FetchStmt.t Node) : outcome (PgQuery__FetchStmt.t PgQuery__Node) :=
  Ok {| PgQuery__FetchStmt.direction := _enumToIntFetchDirection node.(FetchStmt.direction);
        PgQuery__FetchStmt.how_many := node.(FetchStmt.howMany);
        PgQuery__FetchStmt.portalname := WRITE_STRING_FIELD node.(FetchStmt.portalname);
        PgQuery__FetchStmt.ismove := node.(FetchStmt.ismove) |}.

Definition _outIndexStmt (node : IndexStmt.t Node) : outcome (PgQuery__IndexStmt.t PgQuery__Node) :=
  let* f1 := WRITE_SPECIFIC_NODE_PTR_FIELD _outRangeVar node.(IndexStmt.relation) in
  let* f2 := WRITE_LIST_FIELD node.(IndexStmt.indexParams) in
  let* f3 := WRITE_LIST_FIELD node.(IndexStmt.indexIncludingParams) in
  let* f4 := WRITE_LIST_FIELD node.(IndexStmt.options) in
  let* f5 := WRITE_NODE_PTR_FIELD node.(IndexStmt.whereClause) in
  let* f6 := WRITE_LIST_FIELD node.(IndexStmt.excludeOpNames) in
  Ok {| PgQuery__IndexStmt.idxname := WRITE_STRING_FIELD node.(IndexStmt.idxname);
        PgQuery__IndexStmt.relation := f1;
        PgQuery__IndexStmt.access_method := WRITE_STRING_FIELD node.(IndexStmt.accessMethod);
        PgQuery__IndexStmt.table_space := WRITE_STRING_FIELD node.(IndexStmt.tableSpace);
        PgQuery__IndexStmt.index_params := f2;
        PgQuery__IndexStmt.index_including_params := f3;
        PgQuery__IndexStmt.options := f4;
        PgQuery__IndexStmt.where_clause := f5;
        PgQuery__IndexStmt.exclude_op_names := f6;
        PgQuery__IndexStmt.idxcomment := WRITE_STRING_FIELD node.(IndexStmt.idxcomment);
        PgQuery__IndexStmt.index_oid := node.(IndexStmt.indexOid);
        PgQuery__IndexStmt.old_node := node.(IndexStmt.oldNode);
        PgQuery__IndexStmt.old_create_subid := node.(IndexStmt.oldCreateSubid);
        PgQuery__IndexStmt.old_first_relfilenode_subid := node.(IndexStmt.oldFirstRelfilenodeSubid);
        PgQuery__IndexStmt.unique := node.(IndexStmt.unique);
        PgQuery__IndexStmt.primary := node.(IndexStmt.primary);
        PgQuery__IndexStmt.isconstraint := node.(IndexStmt.isconstraint);
        PgQuery__IndexStmt.deferrable := node.(IndexStmt.deferrable);
        PgQuery__IndexStmt.initdeferred := node.(IndexStmt.initdeferred);
        PgQuery__IndexStmt.transformed := node.(IndexStmt.transformed);
        PgQuery__IndexStmt.concurrent := node.(IndexStmt.concurrent);
        PgQuery__IndexStmt.if_not_exists := node.(IndexStmt.if_not_exists);
        PgQuery__IndexStmt.reset_default_tblspc := node.(IndexStmt.reset_default_tblspc) |}.

Definition _outCreateStatsStmt (node : CreateStatsStmt.t Node)
    : outcome (PgQuery__CreateStatsStmt.t PgQuery__Node) :=
  let* f1 := WRITE_LIST_FIELD node.(CreateStatsStmt.defnames) in
  let* f2 := WRITE_LIST_FIELD node.(CreateStatsStmt.stat_types) in
  let* f3 := WRITE_LIST_FIELD node.(CreateStatsStmt.exprs) in
  let* f4 := WRITE_LIST_FIELD node.(CreateStatsStmt.relations) in
  Ok {| PgQuery__CreateStatsStmt.defnames := f1;
        PgQuery__CreateStatsStmt.stat_types := f2;
        PgQuery__CreateStatsStmt.exprs := f3;
        PgQuery__CreateStatsStmt.relations := f4;
        PgQuery__CreateStatsStmt.stxcomment := WRITE_STRING_FIELD node.(CreateStatsStmt.stxcomment);
        PgQuery__CreateStatsStmt.if_not_exists := node.(CreateStatsStmt.if_not_exists) |}.

Definition _outAlterStatsStmt (node : AlterStatsStmt.t Node)
    : outcome (PgQuery__AlterStatsStmt.t PgQuery__Node) :=
  let* f1 := WRITE_LIST_FIELD node.(AlterStatsStmt.defnames) in
  Ok {| PgQuery__AlterStatsStmt.defnames := f1;
        PgQuery__AlterStatsStmt.stxstattarget := node.(AlterStatsStmt.stxstattarget);
        PgQuery__AlterStatsStmt.missing_ok := node.(AlterStatsStmt.missing_ok) |}.

Definition _outCreateFunctionStmt (node : CreateFunctionStmt.t Node)
    : outcome (PgQuery__CreateFunctionStmt.t PgQuery__Node) :=
  let* f1 := WRITE_LIST_FIELD node.(CreateFunctionStmt.funcname) in
  let* f2 := WRITE_LIST_FIELD node.(CreateFunctionStmt.parameters) in
  let* f3 := WRITE_SPECIFIC_NODE_PTR_FIELD _outTypeName node.(CreateFunctionStmt.returnType) in
  let* f4 := WRITE_LIST_FIELD node.(CreateFunctionStmt.options) in
  Ok {| PgQuery__CreateFunctionStmt.is_procedure := node.(CreateFunctionStmt.is_procedure);
        PgQuery__CreateFunctionStmt.replace := node.(CreateFunctionStmt.replace);
        PgQuery__CreateFunctionStmt.funcname := f1;
        PgQuery__CreateFunctionStmt.parameters := f2;
        PgQuery__CreateFunctionStmt.return_type := f3;
        PgQuery__CreateFunctionStmt.options := f4 |}.

Definition _outFunctionParameter (node : FunctionParameter.t Node)
    : outcome (PgQuery__FunctionParameter.t PgQuery__Node) :=
  let* f1 := WRITE_SPECIFIC_NODE_PTR_FIELD _outTypeName node.(FunctionParameter.argType) in
  let* f2 := WRITE_NODE_PTR_FIELD node.(FunctionParameter.defexpr) in
  Ok {| PgQuery__FunctionParameter.name := WRITE_STRING_FIELD node.(FunctionParameter.name);
        PgQuery__FunctionParameter.arg_type := f1;
        PgQuery__FunctionParameter.mode := _enumToIntFunctionParameterMode node.(FunctionParameter.mode);
        PgQuery__FunctionParameter.defexpr := f2 |}.

Definition _outAlterFunctionStmt (node : AlterFunctionStmt.t Node)
    : outcome (PgQuery__AlterFunctionStmt.t PgQuery__Node) :=
  let* f1 := WRITE_SPECIFIC_NODE_PTR_FIELD _outObjectWithArgs node.(AlterFunctionStmt.func) in
  let* f2 := WRITE_LIST_FIELD node.(AlterFunctionStmt.actions) in
  Ok {| PgQuery__AlterFunctionStmt.objtype := _enumToIntObjectType node.(AlterFunctionStmt.objtype);
        PgQuery__AlterFunctionStmt.func := f1;
        PgQuery__AlterFunctionStmt.actions := f2 |}.

Definition _outDoStmt (node : DoStmt.t Node) : outcome (PgQuery__DoStmt.t PgQuery__Node) :=
  let* f1 := WRITE_LIST_FIELD node.(DoStmt.args) in
  Ok {| PgQuery__DoStmt.args := f1 |}.

Definition _outFuncExpr (node : FuncExpr.t Node) : outcome (PgQuery__FuncExpr.t PgQuery__Node) :=
  let* f1 := WRITE_LIST_FIELD node.(FuncExpr.args) in
  Ok {| PgQuery__FuncExpr.xpr := None;
        PgQuery__FuncExpr.funcid := node.(FuncExpr.funcid);
        PgQuery__FuncExpr.funcresulttype := node.(FuncExpr.funcresulttype);
        PgQuery__FuncExpr.funcretset := node.(FuncExpr.funcretset);
        PgQuery__FuncExpr.funcvariadic := node.(FuncExpr.funcvariadic);
        PgQuery__FuncExpr.funcformat := _enumToIntCoercionForm node.(FuncExpr.funcformat);
        PgQuery__FuncExpr.funccollid := node.(FuncExpr.funccollid);
        PgQuery__FuncExpr.inputcollid := node.(FuncExpr.inputcollid);
        PgQuery__FuncExpr.args := f1;
        PgQuery__FuncExpr.location := node.(FuncExpr.location) |}.

Definition _outCallStmt (node : CallStmt.t Node) : outcome (PgQuery__CallStmt.t PgQuery__Node) :=
  let* f1 := WRITE_SPECIFIC_NODE_PTR_FIELD _outFuncCall node.(CallStmt.funccall) in
  let* f2 := WRITE_SPECIFIC_NODE_PTR_FIELD _outFuncExpr node.(CallStmt.funcexpr) in
  Ok {| PgQuery__CallStmt.funccall := f1;
        PgQuery__CallStmt.funcexpr := f2 |}.

Definition _outRenameStmt (node : RenameStmt.t Node)
    : outcome (PgQuery__RenameStmt.t PgQuery__Node) :=
  let* f1 := WRITE_SPECIFIC_NODE_PTR_FIELD _outRangeVar node.(RenameStmt.relation) in
  let* f2 := WRITE_NODE_PTR_FIELD node.(RenameStmt.object) in
  Ok {| PgQuery__RenameStmt.rename_type := _enumToIntObjectType node.(RenameStmt.renameType);
        PgQuery__RenameStmt.relation_type := _enumToIntObjectType node.(RenameStmt.relationType);
        PgQuery__RenameStmt.relation := f1;
        PgQuery__RenameStmt.object := f2;
        PgQuery__RenameStmt.subname := WRITE_STRING_FIELD node.(RenameStmt.subname);
        PgQuery__RenameStmt.newname := WRITE_STRING_FIELD node.(RenameStmt.newname);
        PgQuery__RenameStmt.behavior := _enumToIntDropBehavior node.(RenameStmt.behavior);
        PgQuery__RenameStmt.missing_ok := node.(RenameStmt.missing_ok) |}.

Definition _outAlterObjectDependsStmt (node : AlterObjectDependsStmt.t Node)
    : outcome (PgQuery__AlterObjectDependsStmt.t PgQuery__Node) :=
  let* f1 := WRITE_SPECIFIC_NODE_PTR_FIELD _outRangeVar node.(AlterObjectDependsStmt.relation) in
  let* f2 := WRITE_NODE_PTR_FIELD node.(AlterObjectDependsStmt.object) in
  let* f3 := WRITE_NODE_PTR_FIELD node.(AlterObjectDependsStmt.extname) in
  Ok {| PgQuery__AlterObjectDependsStmt.object_type := _enumToIntObjectType node.(AlterObjectDependsStmt.objectType);
        PgQuery__AlterObjectDependsStmt.relation := f1;
        PgQuery__AlterObjectDependsStmt.object := f2;
        PgQuery__AlterObjectDependsStmt.extname := f3;
        PgQuery__AlterObjectDependsStmt.remove := node.(AlterObjectDependsStmt.remove) |}.

Definition _outAlterObjectSchemaStmt (node : AlterObjectSchemaStmt.t Node)
    : outcome (PgQuery__AlterObjectSchemaStmt.t PgQuery__Node) :=
  let* f1 := WRITE_SPECIFIC_NODE_PTR_FIELD _outRangeVar node.(AlterObjectSchemaStmt.relation) in
  let* f2 := WRITE_NODE_PTR_FIELD node.(AlterObjectSchemaStmt.object) in
  Ok {| PgQuery__AlterObjectSchemaStmt.object_type := _enumToIntObjectType node.(AlterObjectSchemaStmt.objectType);
        PgQuery__AlterObjectSchemaStmt.relation := f1;
        PgQuery__AlterObjectSchemaStmt.object := f2;
        PgQuery__AlterObjectSchemaStmt.newschema := WRITE_STRING_FIELD node.(AlterObjectSchemaStmt.newschema);
        PgQuery__AlterObjectSchemaStmt.missing_ok := node.(AlterObjectSchemaStmt.missing_ok) |}.

Definition _outAlterOwnerStmt (node : AlterOwnerStmt.t Node)
    : outcome (PgQuery__AlterOwnerStmt.t PgQuery__Node) :=
  let* f1 := WRITE_SPECIFIC_NODE_PTR_FIELD _outRangeVar node.(AlterOwnerStmt.relation) in
  let* f2 := WRITE_NODE_PTR_FIELD node.(AlterOwnerStmt.object) in
  let* f3 := WRITE_SPECIFIC_NODE_PTR_FIELD _outRoleSpec node.(AlterOwnerStmt.newowner) in
  Ok {| PgQuery__AlterOwnerStmt.object_type := _enumToIntObjectType node.(AlterOwnerStmt.objectType);
        PgQuery__AlterOwnerStmt.relation := f1;
        PgQuery__AlterOwnerStmt.object := f2;
        PgQuery__AlterOwnerStmt.newowner := f3 |}.

Definition _outAlterOperatorStmt (node : AlterOperatorStmt.t Node)
    : outcome (PgQuery__AlterOperatorStmt.t PgQuery__Node) :=
  let* f1 := WRITE_SPECIFIC_NODE_PTR_FIELD _outObjectWithArgs node.(AlterOperatorStmt.opername) in
  let* f2 := WRITE_LIST_FIELD node.(AlterOperatorStmt.options) in
  Ok {| PgQuery__AlterOperatorStmt.opername := f1;
        PgQuery__AlterOperatorStmt.options := f2 |}.

Definition _outAlterTypeStmt (node : AlterTypeStmt.t Node)
    : outcome (PgQuery__AlterTypeStmt.t PgQuery__Node) :=
  let* f1 := WRITE_LIST_FIELD node.(AlterTypeStmt.typeName) in
  let* f2 := WRITE_LIST_FIELD node.(AlterTypeStmt.options) in
  Ok {| PgQuery__AlterTypeStmt.type_name := f1;
        PgQuery__AlterTypeStmt.options := f2 |}.

Definition _outRuleStmt (node : RuleStmt.t Node) : outcome (PgQuery__RuleStmt.t PgQuery__Node) :=
  let* f1 := WRITE_SPECIFIC_NODE_PTR_FIELD _outRangeVar node.(RuleStmt.relation) in
  let* f2 := WRITE_NODE_PTR_FIELD node.(RuleStmt.whereClause) in
  let* f3 := WRITE_LIST_FIELD node.(RuleStmt.actions) in
  Ok {| PgQuery__RuleStmt.relation := f1;
        PgQuery__RuleStmt.rulename := WRITE_STRING_FIELD node.(RuleStmt.rulename);
        PgQuery__RuleStmt.where_clause := f2;
        PgQuery__RuleStmt.event := _enumToIntCmdType node.(RuleStmt.event);
        PgQuery__RuleStmt.instead := node.(RuleStmt.instead);
        PgQuery__RuleStmt.actions := f3;
        PgQuery__RuleStmt.replace := node.(RuleStmt.replace) |}.

Definition _outNotifyStmt (node : NotifyStmt.t Node)
    : outcome (PgQuery__NotifyStmt.t PgQuery__Node) :=
  Ok {| PgQuery__NotifyStmt.conditionname := WRITE_STRING_FIELD node.(NotifyStmt.conditionname);
        PgQuery__NotifyStmt.payload := WRITE_STRING_FIELD node.(NotifyStmt.payload) |}.

Definition _outListenStmt (node : ListenStmt.t Node)
    : outcome (PgQuery__ListenStmt.t PgQuery__Node) :=
  Ok {| PgQuery__ListenStmt.conditionname := WRITE_STRING_FIELD node.(ListenStmt.conditionname) |}.

Definition _outUnlistenStmt (node : UnlistenStmt.t Node)
    : outcome (PgQuery__UnlistenStmt.t PgQuery__Node) :=
  Ok {| PgQuery__UnlistenStmt.conditionname := WRITE_STRING_FIELD node.(UnlistenStmt.conditionname) |}.

Definition _outTransactionStmt (node : TransactionStmt.t Node)
    : outcome (PgQuery__TransactionStmt.t PgQuery__Node) :=
  let* f1 := WRITE_LIST_FIELD node.(TransactionStmt.options) in
  Ok {| PgQuery__TransactionStmt.kind := _enumToIntTransactionStmtKind node.(TransactionStmt.kind);
        PgQuery__TransactionStmt.options := f1;
        PgQuery__TransactionStmt.savepoint_name := WRITE_STRING_FIELD node.(TransactionStmt.savepoint_name);
        PgQuery__TransactionStmt.gid := WRITE_STRING_FIELD node.(TransactionStmt.gid);
        PgQuery__TransactionStmt.chain := node.(TransactionStmt.chain) |}.

Definition _outCompositeTypeStmt (node : CompositeTypeStmt.t Node)
    : outcome (PgQuery__CompositeTypeStmt.t PgQuery__Node) :=
  let* f1 := WRITE_SPECIFIC_NODE_PTR_FIELD _outRangeVar node.(CompositeTypeStmt.typevar) in
  let* f2 := WRITE_LIST_FIELD node.(CompositeTypeStmt.coldeflist) in
  Ok {| PgQuery__CompositeTypeStmt.typevar := f1;
        PgQuery__CompositeTypeStmt.coldeflist := f2 |}.

Definition _outCreateEnumStmt (node : CreateEnumStmt.t Node)
    : outcome (PgQuery__CreateEnumStmt.t PgQuery__Node) :=
  let* f1 := WRITE_LIST_FIELD node.(CreateEnumStmt.typeName) in
  let* f2 := WRITE_LIST_FIELD node.(CreateEnumStmt.vals) in
  Ok {| PgQuery__CreateEnumStmt.type_name := f1;
        PgQuery__CreateEnumStmt.vals := f2 |}.

Definition _outCreateRangeStmt (node : CreateRangeStmt.t Node)
    : outcome (PgQuery__CreateRangeStmt.t PgQuery__Node) :=
  let* f1 := WRITE_LIST_FIELD node.(CreateRangeStmt.typeName) in
  let* f2 := WRITE_LIST_FIELD node.(CreateRangeStmt.params) in
  Ok {| PgQuery__CreateRangeStmt.type_name := f1;
        PgQuery__CreateRangeStmt.params := f2 |}.

Definition _outAlterEnumStmt (node : AlterEnumStmt.t Node)
    : outcome (PgQuery__AlterEnumStmt.t PgQuery__Node) :=
  let* f1 := WRITE_LIST_FIELD node.(AlterEnumStmt.typeName) in
  Ok {| PgQuery__AlterEnumStmt.type_name := f1;
        PgQuery__AlterEnumStmt.old_val := WRITE_STRING_FIELD node.(AlterEnumStmt.oldVal);
        PgQuery__AlterEnumStmt.new_val := WRITE_STRING_FIELD node.(AlterEnumStmt.newVal);
        PgQuery__AlterEnumStmt.new_val_neighbor := WRITE_STRING_FIELD node.(AlterEnumStmt.newValNeighbor);
        PgQuery__AlterEnumStmt.new_val_is_after := node.(AlterEnumStmt.newValIsAfter);
        PgQuery__AlterEnumStmt.skip_if_new_val_exists := node.(AlterEnumStmt.skipIfNewValExists) |}.

Definition _outViewStmt (node : ViewStmt.t Node) : outcome (PgQuery__ViewStmt.t PgQuery__Node) :=
  let* f1 := WRITE_SPECIFIC_NODE_PTR_FIELD _outRangeVar node.(ViewStmt.view) in
  let* f2 := WRITE_LIST_FIELD node.(ViewStmt.aliases) in
  let* f3 := WRITE_NODE_PTR_FIELD node.(ViewStmt.query) in
  let* f4 := WRITE_LIST_FIELD node.(ViewStmt.options) in
  Ok {| PgQuery__ViewStmt.view := f1;
        PgQuery__ViewStmt.aliases := f2;
        PgQuery__ViewStmt.query := f3;
        PgQuery__ViewStmt.replace := node.(ViewStmt.replace);
        PgQuery__ViewStmt.options := f4;
        PgQuery__ViewStmt.with_check_option := _enumToIntViewCheckOption node.(ViewStmt.withCheckOption) |}.

Definition _outLoadStmt (node : LoadStmt.t Node) : outcome (PgQuery__LoadStmt.t PgQuery__Node) :=
  Ok {| PgQuery__LoadStmt.filename := WRITE_STRING_FIELD node.(LoadStmt.filename) |}.

Definition _outCreatedbStmt (node : CreatedbStmt.t Node)
    : outcome (PgQuery__CreatedbStmt.t PgQuery__Node) :=
  let* f1 := WRITE_LIST_FIELD node.(CreatedbStmt.options) in
  Ok {| PgQuery__CreatedbStmt.dbname := WRITE_STRING_FIELD node.(CreatedbStmt.dbname);
        PgQuery__CreatedbStmt.options := f1 |}.

Definition _outAlterDatabaseStmt (node : AlterDatabaseStmt.t Node)
    : outcome (PgQuery__AlterDatabaseStmt.t PgQuery__Node) :=
  let* f1 := WRITE_LIST_FIELD node.(AlterDatabaseStmt.options) in
  Ok {| PgQuery__AlterDatabaseStmt.dbname := WRITE_STRING_FIELD node.(AlterDatabaseStmt.dbname);
        PgQuery__AlterDatabaseStmt.options := f1 |}.

Definition _outAlterDatabaseSetStmt (node : AlterDatabaseSetStmt.t Node)
    : outcome (PgQuery__AlterDatabaseSetStmt.t PgQuery__Node) :=
  let* f1 := WRITE_SPECIFIC_NODE_PTR_FIELD _outVariableSetStmt node.(AlterDatabaseSetStmt.setstmt) in
  Ok {| PgQuery__AlterDatabaseSetStmt.dbname := WRITE_STRING_FIELD node.(AlterDatabaseSetStmt.dbname);
        PgQuery__AlterDatabaseSetStmt.setstmt := f1 |}.

Definition _outDropdbStmt (node : DropdbStmt.t Node)
    : outcome (PgQuery__DropdbStmt.t PgQuery__Node) :=
  let* f1 := WRITE_LIST_FIELD node.(DropdbStmt.options) in
  Ok {| PgQuery__DropdbStmt.dbname := WRITE_STRING_FIELD node.(DropdbStmt.dbname);
        PgQuery__DropdbStmt.missing_ok := node.(DropdbStmt.missing_ok);
        PgQuery__DropdbStmt.options := f1 |}.

Definition _outAlterSystemStmt (node : AlterSystemStmt.t Node)
    : outcome (PgQuery__AlterSystemStmt.t PgQuery__Node) :=
  let* f1 := WRITE_SPECIFIC_NODE_PTR_FIELD _outVariableSetStmt node.(AlterSystemStmt.setstmt) in
  Ok {| PgQuery__AlterSystemStmt.setstmt := f1 |}.

Definition _outClusterStmt (node : ClusterStmt.t Node)
    : outcome (PgQuery__ClusterStmt.t PgQuery__Node) :=
  let* f1 := WRITE_SPECIFIC_NODE_PTR_FIELD _outRangeVar node.(ClusterStmt.relation) in
  Ok {| PgQuery__ClusterStmt.relation := f1;
        PgQuery__ClusterStmt.indexname := WRITE_STRING_FIELD node.(ClusterStmt.indexname);
        PgQuery__ClusterStmt.options := node.(ClusterStmt.options) |}.

Definition _outVacuumStmt (node : VacuumStmt.t Node)
    : outcome (PgQuery__VacuumStmt.t PgQuery__Node) :=
  let* f1 := WRITE_LIST_FIELD node.(VacuumStmt.options) in
  let* f2 := WRITE_LIST_FIELD node.(VacuumStmt.rels) in
  Ok {| PgQuery__VacuumStmt.options := f1;
        PgQuery__VacuumStmt.rels := f2;
        PgQuery__VacuumStmt.is_vacuumcmd := node.(VacuumStmt.is_vacuumcmd) |}.

Definition _outVacuumRelation (node : VacuumRelation.t Node)
    : outcome (PgQuery__VacuumRelation.t PgQuery__Node) :=
  let* f1 := WRITE_SPECIFIC_NODE_PTR_FIELD _outRangeVar node.(VacuumRelation.relation) in
  let* f2 := WRITE_LIST_FIELD node.(VacuumRelation.va_cols) in
  Ok {| PgQuery__VacuumRelation.relation := f1;
        PgQuery__VacuumRelation.oid := node.(VacuumRelation.oid);
        PgQuery__VacuumRelation.va_cols := f2 |}.

Definition _outExplainStmt (node : ExplainStmt.t Node)
    : outcome (PgQuery__ExplainStmt.t PgQuery__Node) :=
  let* f1 := WRITE_NODE_PTR_FIELD node.(ExplainStmt.query) in
  let* f2 := WRITE_LIST_FIELD node.(ExplainStmt.options) in
  Ok {| PgQuery__ExplainStmt.query := f1;
        PgQuery__ExplainStmt.options := f2 |}.

Definition _outCreateTableAsStmt (node : CreateTableAsStmt.t Node)
    : outcome (PgQuery__CreateTableAsStmt.t PgQuery__Node) :=
  let* f1 := WRITE_NODE_PTR_FIELD node.(CreateTableAsStmt.query) in
  let* f2 := WRITE_SPECIFIC_NODE_PTR_FIELD _outIntoClause node.(CreateTableAsStmt.into) in
  Ok {| PgQuery__CreateTableAsStmt.query := f1;
        PgQuery__CreateTableAsStmt.into := f2;
        PgQuery__CreateTableAsStmt.relkind := _enumToIntObjectType node.(CreateTableAsStmt.relkind);
        PgQuery__CreateTableAsStmt.is_select_into := node.(CreateTableAsStmt.is_select_into);
        PgQuery__CreateTableAsStmt.if_not_exists := node.(CreateTableAsStmt.if_not_exists) |}.

Definition _outRefreshMatViewStmt (node : RefreshMatViewStmt.t Node)
    : outcome (PgQuery__RefreshMatViewStmt.t PgQuery__Node) :=
  let* f1 := WRITE_SPECIFIC_NODE_PTR_FIELD _outRangeVar node.(RefreshMatViewStmt.relation) in
  Ok {| PgQuery__RefreshMatViewStmt.concurrent := node.(RefreshMatViewStmt.concurrent);
        PgQuery__RefreshMatViewStmt.skip_data := node.(RefreshMatViewStmt.skipData);
        PgQuery__RefreshMatViewStmt.relation := f1 |}.

Definition _outCheckPointStmt (node : CheckPointStmt.t Node)
    : outcome (PgQuery__CheckPointStmt.t PgQuery__Node) :=
  Ok PgQuery__CheckPointStmt.mk.

Definition _outDiscardStmt (node : DiscardStmt.t Node)
    : outcome (PgQuery__DiscardStmt.t PgQuery__Node) :=
  Ok {| PgQuery__DiscardStmt.target := _enumToIntDiscardMode node.(DiscardStmt.target) |}.

Definition _outLockStmt (node : LockStmt.t Node) : outcome (PgQuery__LockStmt.t PgQuery__Node) :=
  let* f1 := WRITE_LIST_FIELD node.(LockStmt.relations) in
  Ok {| PgQuery__LockStmt.relations := f1;
        PgQuery__LockStmt.mode := node.(LockStmt.mode);
        PgQuery__LockStmt.nowait := node.(LockStmt.nowait) |}.

Definition _outConstraintsSetStmt (node : ConstraintsSetStmt.t Node)
    : outcome (PgQuery__ConstraintsSetStmt.t PgQuery__Node) :=
  let* f1 := WRITE_LIST_FIELD node.(ConstraintsSetStmt.constraints) in
  Ok {| PgQuery__ConstraintsSetStmt.constraints := f1;
        PgQuery__ConstraintsSetStmt.deferred := node.(ConstraintsSetStmt.deferred) |}.

Definition _outReindexStmt (node : ReindexStmt.t Node)
    : outcome (PgQuery__ReindexStmt.t PgQuery__Node) :=
  let* f1 := WRITE_SPECIFIC_NODE_PTR_FIELD _outRangeVar node.(ReindexStmt.relation) in
  Ok {| PgQuery__ReindexStmt.kind := _enumToIntReindexObjectType node.(ReindexStmt.kind);
        PgQuery__ReindexStmt.relation := f1;
        PgQuery__ReindexStmt.name := WRITE_STRING_FIELD node.(ReindexStmt.name);
        PgQuery__ReindexStmt.options := node.(ReindexStmt.options);
        PgQuery__ReindexStmt.concurrent := node.(ReindexStmt.concurrent) |}.

Definition _outCreateConversionStmt (node : CreateConversionStmt.t Node)
    : outcome (PgQuery__CreateConversionStmt.t PgQuery__Node) :=
  let* f1 := WRITE_LIST_FIELD node.(CreateConversionStmt.conversion_name) in
  let* f2 := WRITE_LIST_FIELD node.(CreateConversionStmt.func_name) in
  Ok {| PgQuery__CreateConversionStmt.conversion_name := f1;
        PgQuery__CreateConversionStmt.for_encoding_name := WRITE_STRING_FIELD node.(CreateConversionStmt.for_encoding_name);
        PgQuery__CreateConversionStmt.to_encoding_name := WRITE_STRING_FIELD node.(CreateConversionStmt.to_encoding_name);
        PgQuery__CreateConversionStmt.func_name := f2;
        PgQuery__CreateConversionStmt.def := node.(CreateConversionStmt.def) |}.

Definition _outCreateCastStmt (node : CreateCastStmt.t Node)
    : outcome (PgQuery__CreateCastStmt.t PgQuery__Node) :=
  let* f1 := WRITE_SPECIFIC_NODE_PTR_FIELD _outTypeName node.(CreateCastStmt.sourcetype) in
  let* f2 := WRITE_SPECIFIC_NODE_PTR_FIELD _outTypeName node.(CreateCastStmt.targettype) in
  let* f3 := WRITE_SPECIFIC_NODE_PTR_FIELD _outObjectWithArgs node.(CreateCastStmt.func) in
  Ok {| PgQuery__CreateCastStmt.sourcetype := f1;
        PgQuery__CreateCastStmt.targettype := f2;
        PgQuery__CreateCastStmt.func := f3;
        PgQuery__CreateCastStmt.context := _enumToIntCoercionContext node.(CreateCastStmt.context);
        PgQuery__CreateCastStmt.inout := node.(CreateCastStmt.inout) |}.

Definition _outCreateTransformStmt (node : CreateTransformStmt.t Node)
    : outcome (PgQuery__CreateTransformStmt.t PgQuery__Node) :=
  let* f1 := WRITE_SPECIFIC_NODE_PTR_FIELD _outTypeName node.(CreateTransformStmt.type_name) in
  let* f2 := WRITE_SPECIFIC_NODE_PTR_FIELD _outObjectWithArgs node.(CreateTransformStmt.fromsql) in
  let* f3 := WRITE_SPECIFIC_NODE_PTR_FIELD _outObjectWithArgs node.(CreateTransformStmt.tosql) in
  Ok {| PgQuery__CreateTransformStmt.replace := node.(CreateTransformStmt.replace);
        PgQuery__CreateTransformStmt.type_name := f1;
        PgQuery__CreateTransformStmt.lang := WRITE_STRING_FIELD node.(CreateTransformStmt.lang);
        PgQuery__CreateTransformStmt.fromsql := f2;
        PgQuery__CreateTransformStmt.tosql := f3 |}.

Definition _outPrepareStmt (node : PrepareStmt.t Node)
    : outcome (PgQuery__PrepareStmt.t PgQuery__Node) :=
  let* f1 := WRITE_LIST_FIELD node.(PrepareStmt.argtypes) in
  let* f2 := WRITE_NODE_PTR_FIELD node.(PrepareStmt.query) in
  Ok {| PgQuery__PrepareStmt.name := WRITE_STRING_FIELD node.(PrepareStmt.name);
        PgQuery__PrepareStmt.argtypes := f1;
        PgQuery__PrepareStmt.query := f2 |}.

Definition _outExecuteStmt (node : ExecuteStmt.t Node)
    : outcome (PgQuery__ExecuteStmt.t PgQuery__Node) :=
  let* f1 := WRITE_LIST_FIELD node.(ExecuteStmt.params) in
  Ok {| PgQuery__ExecuteStmt.name := WRITE_STRING_FIELD node.(ExecuteStmt.name);
        PgQuery__ExecuteStmt.params := f1 |}.

Definition _outDeallocateStmt (node : DeallocateStmt.t Node)
    : outcome (PgQuery__DeallocateStmt.t PgQuery__Node) :=
  Ok {| PgQuery__DeallocateStmt.name := WRITE_STRING_FIELD node.(DeallocateStmt.name) |}.

Definition _outDropOwnedStmt (node : DropOwnedStmt.t Node)
    : outcome (PgQuery__DropOwnedStmt.t PgQuery__Node) :=
  let* f1 := WRITE_LIST_FIELD node.(DropOwnedStmt.roles) in
  Ok {| PgQuery__DropOwnedStmt.roles := f1;
        PgQuery__DropOwnedStmt.behavior := _enumToIntDropBehavior node.(DropOwnedStmt.behavior) |}.

Definition _outReassignOwnedStmt (node : ReassignOwnedStmt.t Node)
    : outcome (PgQuery__ReassignOwnedStmt.t PgQuery__Node) :=
  let* f1 := WRITE_LIST_FIELD node.(ReassignOwnedStmt.roles) in
  let* f2 := WRITE_SPECIFIC_NODE_PTR_FIELD _outRoleSpec node.(ReassignOwnedStmt.newrole) in
  Ok {| PgQuery__ReassignOwnedStmt.roles := f1;
        PgQuery__ReassignOwnedStmt.newrole := f2 |}.

Definition _outAlterTSDictionaryStmt (node : AlterTSDictionaryStmt.t Node)
    : outcome (PgQuery__AlterTSDictionaryStmt.t PgQuery__Node) :=
  let* f1 := WRITE_LIST_FIELD node.(AlterTSDictionaryStmt.dictname) in
  let* f2 := WRITE_LIST_FIELD node.(AlterTSDictionaryStmt.options) in
  Ok {| PgQuery__AlterTSDictionaryStmt.dictname := f1;
        PgQuery__AlterTSDictionaryStmt.options := f2 |}.

Definition _outAlterTSConfigurationStmt (node : AlterTSConfigurationStmt.t Node)
    : outcome (PgQuery__AlterTSConfigurationStmt.t PgQuery__Node) :=
  let* f1 := WRITE_LIST_FIELD node.(AlterTSConfigurationStmt.cfgname) in
  let* f2 := WRITE_LIST_FIELD node.(AlterTSConfigurationStmt.tokentype) in
  let* f3 := WRITE_LIST_FIELD node.(AlterTSConfigurationStmt.dicts) in
  Ok {| PgQuery__AlterTSConfigurationStmt.kind := _enumToIntAlterTSConfigType node.(AlterTSConfigurationStmt.kind);
        PgQuery__AlterTSConfigurationStmt.cfgname := f1;
        PgQuery__AlterTSConfigurationStmt.tokentype := f2;
        PgQuery__AlterTSConfigurationStmt.dicts := f3;
        PgQuery__AlterTSConfigurationStmt.override := node.(AlterTSConfigurationStmt.override);
        PgQuery__AlterTSConfigurationStmt.replace := node.(AlterTSConfigurationStmt.replace);
        PgQuery__AlterTSConfigurationStmt.missing_ok := node.(AlterTSConfigurationStmt.missing_ok) |}.

Definition _outCreatePublicationStmt (node : CreatePublicationStmt.t Node)
    : outcome (PgQuery__CreatePublicationStmt.t PgQuery__Node) :=
  let* f1 := WRITE_LIST_FIELD node.(CreatePublicationStmt.options) in
  let* f2 := WRITE_LIST_FIELD node.(CreatePublicationStmt.tables) in
  Ok {| PgQuery__CreatePublicationStmt.pubname := WRITE_STRING_FIELD node.(CreatePublicationStmt.pubname);
        PgQuery__CreatePublicationStmt.options := f1;
        PgQuery__CreatePublicationStmt.tables := f2;
        PgQuery__CreatePublicationStmt.for_all_tables := node.(CreatePublicationStmt.for_all_tables) |}.

Definition _outAlterPublicationStmt (node : AlterPublicationStmt.t Node)
    : outcome (PgQuery__AlterPublicationStmt.t PgQuery__Node) :=
  let* f1 := WRITE_LIST_FIELD node.(AlterPublicationStmt.options) in
  let* f2 := WRITE_LIST_FIELD node.(AlterPublicationStmt.tables) in
  Ok {| PgQuery__AlterPublicationStmt.pubname := WRITE_STRING_FIELD node.(AlterPublicationStmt.pubname);
        PgQuery__AlterPublicationStmt.options := f1;
        PgQuery__AlterPublicationStmt.tables := f2;
        PgQuery__AlterPublicationStmt.for_all_tables := node.(AlterPublicationStmt.for_all_tables);
        PgQuery__AlterPublicationStmt.table_action := _enumToIntDefElemAction node.(AlterPublicationStmt.tableAction) |}.

Definition _outCreateSubscriptionStmt (node : CreateSubscriptionStmt.t Node)
    : outcome (PgQuery__CreateSubscriptionStmt.t PgQuery__Node) :=
  let* f1 := WRITE_LIST_FIELD node.(CreateSubscriptionStmt.publication) in
  let* f2 := WRITE_LIST_FIELD node.(CreateSubscriptionStmt.options) in
  Ok {| PgQuery__CreateSubscriptionStmt.subname := WRITE_STRING_FIELD node.(CreateSubscriptionStmt.subname);
        PgQuery__CreateSubscriptionStmt.conninfo := WRITE_STRING_FIELD node.(CreateSubscriptionStmt.conninfo);
        PgQuery__CreateSubscriptionStmt.publication := f1;
        PgQuery__CreateSubscriptionStmt.options := f2 |}.

Definition _outAlterSubscriptionStmt (node : AlterSubscriptionStmt.t Node)
    : outcome (PgQuery__AlterSubscriptionStmt.t PgQuery__Node) :=
  let* f1 := WRITE_LIST_FIELD node.(AlterSubscriptionStmt.publication) in
  let* f2 := WRITE_LIST_FIELD node.(AlterSubscriptionStmt.options) in
  Ok {| PgQuery__AlterSubscriptionStmt.kind := _enumToIntAlterSubscriptionType node.(AlterSubscriptionStmt.kind);
        PgQuery__AlterSubscriptionStmt.subname := WRITE_STRING_FIELD node.(AlterSubscriptionStmt.subname);
        PgQuery__AlterSubscriptionStmt.conninfo := WRITE_STRING_FIELD node.(AlterSubscriptionStmt.conninfo);
        PgQuery__AlterSubscriptionStmt.publication := f1;
        PgQuery__AlterSubscriptionStmt.options := f2 |}.

Definition _outDropSubscriptionStmt (node : DropSubscriptionStmt.t Node)
    : outcome (PgQuery__DropSubscriptionStmt.t PgQuery__Node) :=
  Ok {| PgQuery__DropSubscriptionStmt.subname := WRITE_STRING_FIELD node.(DropSubscriptionStmt.subname);
        PgQuery__DropSubscriptionStmt.missing_ok := node.(DropSubscriptionStmt.missing_ok);
        PgQuery__DropSubscriptionStmt.behavior := _enumToIntDropBehavior node.(DropSubscriptionStmt.behavior) |}.

(** The [switch] of [_outNode], with [src/pg_query_outfuncs_conds.c]. *)
Definition _outNode_body (obj : Node) : outcome PgQuery__Node :=
  match obj with
  | N_List [] => Ok Node_not_set        (* obj == NULL *)
  | N_List l => let* m := mapo _outNode l in Ok (Node_list m)
  | N_Value v => Ok (_outValue v)
  | N_RangeVar node => let* m := _outRangeVar node in Ok (Node_range_var m)
  | N_Alias node => let* m := _outAlias node in Ok (Node_alias m)
  | N_TypeName node => let* m := _outTypeName node in Ok (Node_type_name m)
  | N_ColumnRef node => let* m := _outColumnRef node in Ok (Node_column_ref m)
  | N_ParamRef node => let* m := _outParamRef node in Ok (Node_param_ref m)
  | N_A_Expr node => let* m := _outAExpr node in Ok (Node_a_expr m)
  | N_A_Const node => let* m := _outAConst node in Ok (Node_a_const m)
  | N_TypeCast node => let* m := _outTypeCast node in Ok (Node_type_cast m)
  | N_CollateClause node => let* m := _outCollateClause node in Ok (Node_collate_clause m)
  | N_RoleSpec node => let* m := _outRoleSpec node in Ok (Node_role_spec m)
  | N_WindowDef node => let* m := _outWindowDef node in Ok (Node_window_def m)
  | N_SortBy node => let* m := _outSortBy node in Ok (Node_sort_by m)
  | N_FuncCall node => let* m := _outFuncCall node in Ok (Node_func_call m)
  | N_A_Star node => let* m := _outAStar node in Ok (Node_a_star m)
  | N_A_Indices node => let* m := _outAIndices node in Ok (Node_a_indices m)
  | N_A_Indirection node => let* m := _outAIndirection node in Ok (Node_a_indirection m)
  | N_A_ArrayExpr node => let* m := _outAArrayExpr node in Ok (Node_a_array_expr m)
  | N_ResTarget node => let* m := _outResTarget node in Ok (Node_res_target m)
  | N_MultiAssignRef node => let* m := _outMultiAssignRef node in Ok (Node_multi_assign_ref m)
  | N_NamedArgExpr node => let* m := _outNamedArgExpr node in Ok (Node_named_arg_expr m)
  | N_BoolExpr node => let* m := _outBoolExpr node in Ok (Node_bool_expr m)
  | N_SubLink node => let* m := _outSubLink node in Ok (Node_sub_link m)
  | N_CaseWhen node => let* m := _outCaseWhen node in Ok (Node_case_when m)
  | N_CaseExpr node => let* m := _outCaseExpr node in Ok (Node_case_expr m)
  | N_RowExpr node => let* m := _outRowExpr node in Ok (Node_row_expr m)
  | N_CoalesceExpr node => let* m := _outCoalesceExpr node in Ok (Node_coalesce_expr m)
  | N_MinMaxExpr node => let* m := _outMinMaxExpr node in Ok (Node_min_max_expr m)
  | N_SQLValueFunction node => let* m := _outSQLValueFunction node in Ok (Node_sqlvalue_function m)
  | N_XmlExpr node => let* m := _outXmlExpr node in Ok (Node_xml_expr m)
  | N_XmlSerialize node => let* m := _outXmlSerialize node in Ok (Node_xml_serialize m)
  | N_NullTest node => let* m := _outNullTest node in Ok (Node_null_test m)
  | N_BooleanTest node => let* m := _outBooleanTest node in Ok (Node_boolean_test m)
  | N_SetToDefault node => let* m := _outSetToDefault node in Ok (Node_set_to_default m)
  | N_CurrentOfExpr node => let* m := _outCurrentOfExpr node in Ok (Node_current_of_expr m)
  | N_GroupingFunc node => let* m := _outGroupingFunc node in Ok (Node_grouping_func m)
  | N_DefElem node => let* m := _outDefElem node in Ok (Node_def_elem m)
  | N_IndexElem node => let* m := _outIndexElem node in Ok (Node_index_elem m)
  | N_Constraint node => let* m := _outConstraint node in Ok (Node_constraint m)
  | N_ColumnDef node => let* m := _outColumnDef node in Ok (Node_column_def m)
  | N_JoinExpr node => let* m := _outJoinExpr node in Ok (Node_join_expr m)
  | N_RangeSubselect node => let* m := _outRangeSubselect node in Ok (Node_range_subselect m)
  | N_RangeFunction node => let* m := _outRangeFunction node in Ok (Node_range_function m)
  | N_RangeTableFuncCol node => let* m := _outRangeTableFuncCol node in Ok (Node_range_table_func_col m)
  | N_RangeTableFunc node => let* m := _outRangeTableFunc node in Ok (Node_range_table_func m)
  | N_RangeTableSample node => let* m := _outRangeTableSample node in Ok (Node_range_table_sample m)
  | N_CommonTableExpr node => let* m := _outCommonTableExpr node in Ok (Node_common_table_expr m)
  | N_WithClause node => let* m := _outWithClause node in Ok (Node_with_clause m)
  | N_InferClause node => let* m := _outInferClause node in Ok (Node_infer_clause m)
  | N_OnConflictClause node => let* m := _outOnConflictClause node in Ok (Node_on_conflict_clause m)
  | N_LockingClause node => let* m := _outLockingClause node in Ok (Node_locking_clause m)
  | N_GroupingSet node => let* m := _outGroupingSet node in Ok (Node_grouping_set m)
  | N_IntoClause node => let* m := _outIntoClause node in Ok (Node_into_clause m)
  | N_SelectStmt node => let* m := _outSelectStmt node in Ok (Node_select_stmt m)
  | N_InsertStmt node => let* m := _outInsertStmt node in Ok (Node_insert_stmt m)
  | N_UpdateStmt node => let* m := _outUpdateStmt node in Ok (Node_update_stmt m)
  | N_DeleteStmt node => let* m := _outDeleteStmt node in Ok (Node_delete_stmt m)
  | N_RawStmt node => let* m := _outRawStmt node in Ok (Node_raw_stmt m)
  | N_AlterTableCmd node => let* m := _outAlterTableCmd node in Ok (Node_alter_table_cmd m)
  | N_PartitionBoundSpec node => let* m := _outPartitionBoundSpec node in Ok (Node_partition_bound_spec m)
  | N_TableLikeClause node => let* m := _outTableLikeClause node in Ok (Node_table_like_clause m)
  | N_PartitionElem node => let* m := _outPartitionElem node in Ok (Node_partition_elem m)
  | N_PartitionSpec node => let* m := _outPartitionSpec node in Ok (Node_partition_spec m)
  | N_PartitionCmd node => let* m := _outPartitionCmd node in Ok (Node_partition_cmd m)
  | N_TriggerTransition node => let* m := _outTriggerTransition node in Ok (Node_trigger_transition m)
  | N_CreateSchemaStmt node => let* m := _outCreateSchemaStmt node in Ok (Node_create_schema_stmt m)
  | N_AlterTableStmt node => let* m := _outAlterTableStmt node in Ok (Node_alter_table_stmt m)
  | N_ReplicaIdentityStmt node => let* m := _outReplicaIdentityStmt node in Ok (Node_replica_identity_stmt m)
  | N_AlterCollationStmt node => let* m := _outAlterCollationStmt node in Ok (Node_alter_collation_stmt m)
  | N_AlterDomainStmt node => let* m := _outAlterDomainStmt node in Ok (Node_alter_domain_stmt m)
  | N_GrantStmt node => let* m := _outGrantStmt node in Ok (Node_grant_stmt m)
  | N_ObjectWithArgs node => let* m := _outObjectWithArgs node in Ok (Node_object_with_args m)
  | N_AccessPriv node => let* m := _outAccessPriv node in Ok (Node_access_priv m)
  | N_GrantRoleStmt node => let* m := _outGrantRoleStmt node in Ok (Node_grant_role_stmt m)
  | N_AlterDefaultPrivilegesStmt node => let* m := _outAlterDefaultPrivilegesStmt node in Ok (Node_alter_default_privileges_stmt m)
  | N_CopyStmt node => let* m := _outCopyStmt node in Ok (Node_copy_stmt m)
  | N_VariableSetStmt node => let* m := _outVariableSetStmt node in Ok (Node_variable_set_stmt m)
  | N_VariableShowStmt node => let* m := _outVariableShowStmt node in Ok (Node_variable_show_stmt m)
  | N_CreateStmt node => let* m := _outCreateStmt node in Ok (Node_create_stmt m)
  | N_CreateTableSpaceStmt node => let* m := _outCreateTableSpaceStmt node in Ok (Node_create_table_space_stmt m)
  | N_DropTableSpaceStmt node => let* m := _outDropTableSpaceStmt node in Ok (Node_drop_table_space_stmt m)
  | N_AlterTableSpaceOptionsStmt node => let* m := _outAlterTableSpaceOptionsStmt node in Ok (Node_alter_table_space_options_stmt m)
  | N_AlterTableMoveAllStmt node => let* m := _outAlterTableMoveAllStmt node in Ok (Node_alter_table_move_all_stmt m)
  | N_CreateExtensionStmt node => let* m := _outCreateExtensionStmt node in Ok (Node_create_extension_stmt m)
  | N_AlterExtensionStmt node => let* m := _outAlterExtensionStmt node in Ok (Node_alter_extension_stmt m)
  | N_AlterExtensionContentsStmt node => let* m := _outAlterExtensionContentsStmt node in Ok (Node_alter_extension_contents_stmt m)
  | N_CreateFdwStmt node => let* m := _outCreateFdwStmt node in Ok (Node_create_fdw_stmt m)
  | N_AlterFdwStmt node => let* m := _outAlterFdwStmt node in Ok (Node_alter_fdw_stmt m)
  | N_CreateForeignServerStmt node => let* m := _outCreateForeignServerStmt node in Ok (Node_create_foreign_server_stmt m)
  | N_AlterForeignServerStmt node => let* m := _outAlterForeignServerStmt node in Ok (Node_alter_foreign_server_stmt m)
  | N_CreateForeignTableStmt node => let* m := _outCreateForeignTableStmt node in Ok (Node_create_foreign_table_stmt m)
  | N_CreateUserMappingStmt node => let* m := _outCreateUserMappingStmt node in Ok (Node_create_user_mapping_stmt m)
  | N_AlterUserMappingStmt node => let* m := _outAlterUserMappingStmt node in Ok (Node_alter_user_mapping_stmt m)
  | N_DropUserMappingStmt node => let* m := _outDropUserMappingStmt node in Ok (Node_drop_user_mapping_stmt m)
  | N_ImportForeignSchemaStmt node => let* m := _outImportForeignSchemaStmt node in Ok (Node_import_foreign_schema_stmt m)
  | N_CreatePolicyStmt node => let* m := _outCreatePolicyStmt node in Ok (Node_create_policy_stmt m)
  | N_AlterPolicyStmt node => let* m := _outAlterPolicyStmt node in Ok (Node_alter_policy_stmt m)
  | N_CreateAmStmt node => let* m := _outCreateAmStmt node in Ok (Node_create_am_stmt m)
  | N_CreateTrigStmt node => let* m := _outCreateTrigStmt node in Ok (Node_create_trig_stmt m)
  | N_CreateEventTrigStmt node => let* m := _outCreateEventTrigStmt node in Ok (Node_create_event_trig_stmt m)
  | N_AlterEventTrigStmt node => let* m := _outAlterEventTrigStmt node in Ok (Node_alter_event_trig_stmt m)
  | N_CreatePLangStmt node => let* m := _outCreatePLangStmt node in Ok (Node_create_plang_stmt m)
  | N_CreateRoleStmt node => let* m := _outCreateRoleStmt node in Ok (Node_create_role_stmt m)
  | N_AlterRoleStmt node => let* m := _outAlterRoleStmt node in Ok (Node_alter_role_stmt m)
  | N_AlterRoleSetStmt node => let* m := _outAlterRoleSetStmt node in Ok (Node_alter_role_set_stmt m)
  | N_DropRoleStmt node => let* m := _outDropRoleStmt node in Ok (Node_drop_role_stmt m)
  | N_CreateSeqStmt node => let* m := _outCreateSeqStmt node in Ok (Node_create_seq_stmt m)
  | N_AlterSeqStmt node => let* m := _outAlterSeqStmt node in Ok (Node_alter_seq_stmt m)
  | N_DefineStmt node => let* m := _outDefineStmt node in Ok (Node_define_stmt m)
  | N_CreateDomainStmt node => let* m := _outCreateDomainStmt node in Ok (Node_create_domain_stmt m)
  | N_CreateOpClassStmt node => let* m := _outCreateOpClassStmt node in Ok (Node_create_op_class_stmt m)
  | N_CreateOpClassItem node => let* m := _outCreateOpClassItem node in Ok (Node_create_op_class_item m)
  | N_CreateOpFamilyStmt node => let* m := _outCreateOpFamilyStmt node in Ok (Node_create_op_family_stmt m)
  | N_AlterOpFamilyStmt node => let* m := _outAlterOpFamilyStmt node in Ok (Node_alter_op_family_stmt m)
  | N_DropStmt node => let* m := _outDropStmt node in Ok (Node_drop_stmt m)
  | N_TruncateStmt node => let* m := _outTruncateStmt node in Ok (Node_truncate_stmt m)
  | N_CommentStmt node => let* m := _outCommentStmt node in Ok (Node_comment_stmt m)
  | N_SecLabelStmt node => let* m := _outSecLabelStmt node in Ok (Node_sec_label_stmt m)
  | N_DeclareCursorStmt node => let* m := _outDeclareCursorStmt node in Ok (Node_declare_cursor_stmt m)
  | N_ClosePortalStmt node => let* m := _outClosePortalStmt node in Ok (Node_close_portal_stmt m)
  | N_FetchStmt node => let* m := _outFetchStmt node in Ok (Node_fetch_stmt m)
  | N_IndexStmt node => let* m := _outIndexStmt node in Ok (Node_index_stmt m)
  | N_CreateStatsStmt node => let* m := _outCreateStatsStmt node in Ok (Node_create_stats_stmt m)
  | N_AlterStatsStmt node => let* m := _outAlterStatsStmt node in Ok (Node_alter_stats_stmt m)
  | N_CreateFunctionStmt node => let* m := _outCreateFunctionStmt node in Ok (Node_create_function_stmt m)
  | N_FunctionParameter node => let* m := _outFunctionParameter node in Ok (Node_function_parameter m)
  | N_AlterFunctionStmt node => let* m := _outAlterFunctionStmt node in Ok (Node_alter_function_stmt m)
  | N_DoStmt node => let* m := _outDoStmt node in Ok (Node_do_stmt m)
  | N_CallStmt node => let* m := _outCallStmt node in Ok (Node_call_stmt m)
  | N_RenameStmt node => let* m := _outRenameStmt node in Ok (Node_rename_stmt m)
  | N_AlterObjectDependsStmt node => let* m := _outAlterObjectDependsStmt node in Ok (Node_alter_object_depends_stmt m)
  | N_AlterObjectSchemaStmt node => let* m := _outAlterObjectSchemaStmt node in Ok (Node_alter_object_schema_stmt m)
  | N_AlterOwnerStmt node => let* m := _outAlterOwnerStmt node in Ok (Node_alter_owner_stmt m)
  | N_AlterOperatorStmt node => let* m := _outAlterOperatorStmt node in Ok (Node_alter_operator_stmt m)
  | N_AlterTypeStmt node => let* m := _outAlterTypeStmt node in Ok (Node_alter_type_stmt m)
  | N_RuleStmt node => let* m := _outRuleStmt node in Ok (Node_rule_stmt m)
  | N_NotifyStmt node => let* m := _outNotifyStmt node in Ok (Node_notify_stmt m)
  | N_ListenStmt node => let* m := _outListenStmt node in Ok (Node_listen_stmt m)
  | N_UnlistenStmt node => let* m := _outUnlistenStmt node in Ok (Node_unlisten_stmt m)
  | N_TransactionStmt node => let* m := _outTransactionStmt node in Ok (Node_transaction_stmt m)
  | N_CompositeTypeStmt node => let* m := _outCompositeTypeStmt node in Ok (Node_composite_type_stmt m)
  | N_CreateEnumStmt node => let* m := _outCreateEnumStmt node in Ok (Node_create_enum_stmt m)
  | N_CreateRangeStmt node => let* m := _outCreateRangeStmt node in Ok (Node_create_range_stmt m)
  | N_AlterEnumStmt node => let* m := _outAlterEnumStmt node in Ok (Node_alter_enum_stmt m)
  | N_ViewStmt node => let* m := _outViewStmt node in Ok (Node_view_stmt m)
  | N_LoadStmt node => let* m := _outLoadStmt node in Ok (Node_load_stmt m)
  | N_CreatedbStmt node => let* m := _outCreatedbStmt node in Ok (Node_createdb_stmt m)
  | N_AlterDatabaseStmt node => let* m := _outAlterDatabaseStmt node in Ok (Node_alter_database_stmt m)
  | N_AlterDatabaseSetStmt node => let* m := _outAlterDatabaseSetStmt node in Ok (Node_alter_database_set_stmt m)
  | N_DropdbStmt node => let* m := _outDropdbStmt node in Ok (Node_dropdb_stmt m)
  | N_AlterSystemStmt node => let* m := _outAlterSystemStmt node in Ok (Node_alter_system_stmt m)
  | N_ClusterStmt node => let* m := _outClusterStmt node in Ok (Node_cluster_stmt m)
  | N_VacuumStmt node => let* m := _outVacuumStmt node in Ok (Node_vacuum_stmt m)
  | N_VacuumRelation node => let* m := _outVacuumRelation node in Ok (Node_vacuum_relation m)
  | N_ExplainStmt node => let* m := _outExplainStmt node in Ok (Node_explain_stmt m)
  | N_CreateTableAsStmt node => let* m := _outCreateTableAsStmt node in Ok (Node_create_table_as_stmt m)
  | N_RefreshMatViewStmt node => let* m := _outRefreshMatViewStmt node in Ok (Node_refresh_mat_view_stmt m)
  | N_CheckPointStmt node => let* m := _outCheckPointStmt node in Ok (Node_check_point_stmt m)
  | N_DiscardStmt node => let* m := _outDiscardStmt node in Ok (Node_discard_stmt m)
  | N_LockStmt node => let* m := _outLockStmt node in Ok (Node_lock_stmt m)
  | N_ConstraintsSetStmt node => let* m := _outConstraintsSetStmt node in Ok (Node_constraints_set_stmt m)
  | N_ReindexStmt node => let* m := _outReindexStmt node in Ok (Node_reindex_stmt m)
  | N_CreateConversionStmt node => let* m := _outCreateConversionStmt node in Ok (Node_create_conversion_stmt m)
  | N_CreateCastStmt node => let* m := _outCreateCastStmt node in Ok (Node_create_cast_stmt m)
  | N_CreateTransformStmt node => let* m := _outCreateTransformStmt node in Ok (Node_create_transform_stmt m)
  | N_PrepareStmt node => let* m := _outPrepareStmt node in Ok (Node_prepare_stmt m)
  | N_ExecuteStmt node => let* m := _outExecuteStmt node in Ok (Node_execute_stmt m)
  | N_DeallocateStmt node => let* m := _outDeallocateStmt node in Ok (Node_deallocate_stmt m)
  | N_DropOwnedStmt node => let* m := _outDropOwnedStmt node in Ok (Node_drop_owned_stmt m)
  | N_ReassignOwnedStmt node => let* m := _outReassignOwnedStmt node in Ok (Node_reassign_owned_stmt m)
  | N_AlterTSDictionaryStmt node => let* m := _outAlterTSDictionaryStmt node in Ok (Node_alter_tsdictionary_stmt m)
  | N_AlterTSConfigurationStmt node => let* m := _outAlterTSConfigurationStmt node in Ok (Node_alter_tsconfiguration_stmt m)
  | N_CreatePublicationStmt node => let* m := _outCreatePublicationStmt node in Ok (Node_create_publication_stmt m)
  | N_AlterPublicationStmt node => let* m := _outAlterPublicationStmt node in Ok (Node_alter_publication_stmt m)
  | N_CreateSubscriptionStmt node => let* m := _outCreateSubscriptionStmt node in Ok (Node_create_subscription_stmt m)
  | N_AlterSubscriptionStmt node => let* m := _outAlterSubscriptionStmt node in Ok (Node_alter_subscription_stmt m)
  | N_DropSubscriptionStmt node => let* m := _outDropSubscriptionStmt node in Ok (Node_drop_subscription_stmt m)
  | N_FuncExpr node => let* m := _outFuncExpr node in Ok (Node_func_expr m)
  | N_Other _ => Undef
  end.
End outfuncs.

Fixpoint _outNode (obj : Node) : outcome PgQuery__Node := _outNode_body _outNode obj.
