(* ===== verification/ProtobufRead.v ===== *)
(** * Trees from protocol buffers

    [src/pg_query_readfuncs_protobuf.c] with the generated files it includes,
    [src/pg_query_readfuncs_defs.c] and [src/pg_query_readfuncs_conds.c]: [_readX]
    builds the struct of a message, field by field, by the macros [READ_*_FIELD]. *)
From S2P Require Import Prelude Buffer Enums Nodes DeparseNames EnumDefs Messages.

Open Scope Z_scope.

(** ** From messages to nodes *)

(** [elog(ERROR, "unsupported protobuf node type: %d", ...)] *)
Definition unsupported {A} (node_case : Z) : outcome A :=
  Elog ("unsupported protobuf node type: " +:+ fmt_d node_case).

(** A null pointer in place of the node. *)
Definition node_ptr (n : Node) : option Node :=
  match n with N_List [] => None | _ => Some n end.

Section readfuncs.
Variable _readNode : PgQuery__Node -> outcome Node.

(** [makeNode] zeroes the struct.  A string that is empty is not read. *)
Definition READ_CHAR_FIELD (s : string) : ascii := match s with String c _ => c | EmptyString => NUL end.
Definition READ_STRING_FIELD (s : string) : option string :=
  match s with String _ _ => Some s | EmptyString => None end.
Definition READ_LIST_FIELD (l : list PgQuery__Node) : outcome (list Node) := mapo _readNode l.
(** The lists of pointers that are read here are no lists of integers. *)
Definition READ_INT_LIST_FIELD (l : list PgQuery__Node) : outcome (list Z) :=
  match l with [] => Ok [] | _ => Undef end.
Definition READ_NODE_PTR_FIELD (p : option PgQuery__Node) : outcome (option Node) :=
  match p with Some m => let* n := _readNode m in Ok (node_ptr n) | None => Ok None end.
Definition READ_EXPR_PTR_FIELD : option PgQuery__Node -> outcome (option Node) := READ_NODE_PTR_FIELD.
Definition READ_VALUE_PTR_FIELD : option PgQuery__Node -> outcome (option Node) := READ_NODE_PTR_FIELD.
(** The struct is copied; it has no valid tag if there is no message. *)
Definition READ_VALUE_FIELD (p : option PgQuery__Node) : outcome Value :=
  match p with
  | Some m => let* n := _readNode m in match n with N_Value v => Ok v | _ => Undef end
  | None => Undef
  end.
Definition READ_SPECIFIC_NODE_FIELD {A M} (read : M -> outcome A) (p : option M) : outcome A :=
  match p with Some m => read m | None => Undef end.
Definition READ_SPECIFIC_NODE_PTR_FIELD {A M} (read : M -> outcome A) (p : option M) : outcome (option A) :=
  match p with Some m => let* x := read m in Ok (Some x) | None => Ok None end.
(** [READ_SPECIFIC_NODE_PTR_FIELD(SelectStmt, ...)] *)
Definition READ_SELECT_PTR_FIELD (p : option PgQuery__Node) : outcome (option Node) :=
  match p with
  | Some (Node_select_stmt _ as m) => let* n := _readNode m in Ok (Some n)
  | Some _ => Undef
  | None => Ok None
  end.

Definition _readList (items : list PgQuery__Node) : outcome (list Node) := mapo _readNode items.


Definition _readAlias (msg : PgQuery__Alias.t PgQuery__Node) : outcome (Alias.t Node) :=
  let* f1 := READ_LIST_FIELD msg.(PgQuery__Alias.colnames) in
  Ok {| Alias.aliasname := READ_STRING_FIELD msg.(PgQuery__Alias.aliasname);
        Alias.colnames := f1 |}.

Definition _readRangeVar (msg : PgQuery__RangeVar.t PgQuery__Node) : outcome (RangeVar.t Node) :=
  let* f1 := READ_SPECIFIC_NODE_PTR_FIELD _readAlias msg.(PgQuery__RangeVar.alias) in
  Ok {| RangeVar.catalogname := READ_STRING_FIELD msg.(PgQuery__RangeVar.catalogname);
        RangeVar.schemaname := READ_STRING_FIELD msg.(PgQuery__RangeVar.schemaname);
        RangeVar.relname := READ_STRING_FIELD msg.(PgQuery__RangeVar.relname);
        RangeVar.inh := msg.(PgQuery__RangeVar.inh);
        RangeVar.relpersistence := READ_CHAR_FIELD msg.(PgQuery__RangeVar.relpersistence);
        RangeVar.alias := f1;
        RangeVar.location := msg.(PgQuery__RangeVar.location) |}.

Definition _readTypeName (msg : PgQuery__TypeName.t PgQuery__Node) : outcome (TypeName.t Node) :=
  let* f1 := READ_LIST_FIELD msg.(PgQuery__TypeName.names) in
  let* f2 := READ_LIST_FIELD msg.(PgQuery__TypeName.typmods) in
  let* f3 := READ_LIST_FIELD msg.(PgQuery__TypeName.array_bounds) in
  Ok {| TypeName.names := f1;
        TypeName.typeOid := msg.(PgQuery__TypeName.type_oid);
        TypeName.setof := msg.(PgQuery__TypeName.setof);
        TypeName.pct_type := msg.(PgQuery__TypeName.pct_type);
        TypeName.typmods := f2;
        TypeName.typemod := msg.(PgQuery__TypeName.typemod);
        TypeName.arrayBounds := f3;
        TypeName.location := msg.(PgQuery__TypeName.location) |}.

Definition _readColumnRef (msg : PgQuery__ColumnRef.t PgQuery__Node) : outcome (ColumnRef.t Node) :=
  let* f1 := READ_LIST_FIELD msg.(PgQuery__ColumnRef.fields) in
  Ok {| ColumnRef.fields := f1;
        ColumnRef.location := msg.(PgQuery__ColumnRef.location) |}.

Definition _readParamRef (msg : PgQuery__ParamRef.t PgQuery__Node) : outcome (ParamRef.t Node) :=
  Ok {| ParamRef.number := msg.(PgQuery__ParamRef.number);
        ParamRef.location := msg.(PgQuery__ParamRef.location) |}.

Definition _readAExpr (msg : PgQuery__AExpr.t PgQuery__Node) : outcome (A_Expr.t Node) :=
  let* f1 := READ_LIST_FIELD msg.(PgQuery__AExpr.name) in
  let* f2 := READ_NODE_PTR_FIELD msg.(PgQuery__AExpr.lexpr) in
  let* f3 := READ_NODE_PTR_FIELD msg.(PgQuery__AExpr.rexpr) in
  Ok {| A_Expr.kind := _intToEnumA_Expr_Kind msg.(PgQuery__AExpr.kind);
        A_Expr.name := f1;
        A_Expr.lexpr := f2;
        A_Expr.rexpr := f3;
        A_Expr.location := msg.(PgQuery__AExpr.location) |}.

Definition _readAConst (msg : PgQuery__AConst.t PgQuery__Node) : outcome (A_Const.t Node) :=
  let* f1 := READ_VALUE_FIELD msg.(PgQuery__AConst.val) in
  Ok {| A_Const.val := f1;
        A_Const.location := msg.(PgQuery__AConst.location) |}.

Definition _readTypeCast (msg : PgQuery__TypeCast.t PgQuery__Node) : outcome (TypeCast.t Node) :=
  let* f1 := READ_NODE_PTR_FIELD msg.(PgQuery__TypeCast.arg) in
  let* f2 := READ_SPECIFIC_NODE_PTR_FIELD _readTypeName msg.(PgQuery__TypeCast.type_name) in
  Ok {| TypeCast.arg := f1;
        TypeCast.typeName := f2;
        TypeCast.location := msg.(PgQuery__TypeCast.location) |}.

Definition _readCollateClause (msg : PgQuery__CollateClause.t PgQuery__Node)
    : outcome (CollateClause.t Node) :=
  let* f1 := READ_NODE_PTR_FIELD msg.(PgQuery__CollateClause.arg) in
  let* f2 := READ_LIST_FIELD msg.(PgQuery__CollateClause.collname) in
  Ok {| CollateClause.arg := f1;
        CollateClause.collname := f2;
        CollateClause.location := msg.(PgQuery__CollateClause.location) |}.

Definition _readRoleSpec (msg : PgQuery__RoleSpec.t PgQuery__Node) : outcome (RoleSpec.t Node) :=
  Ok {| RoleSpec.roletype := _intToEnumRoleSpecType msg.(PgQuery__RoleSpec.roletype);
        RoleSpec.rolename := READ_STRING_FIELD msg.(PgQuery__RoleSpec.rolename);
        RoleSpec.location := msg.(PgQuery__RoleSpec.location) |}.

Definition _readWindowDef (msg : PgQuery__WindowDef.t PgQuery__Node) : outcome (WindowDef.t Node) :=
  let* f1 := READ_LIST_FIELD msg.(PgQuery__WindowDef.partition_clause) in
  let* f2 := READ_LIST_FIELD msg.(PgQuery__WindowDef.order_clause) in
  let* f3 := READ_NODE_PTR_FIELD msg.(PgQuery__WindowDef.start_offset) in
  let* f4 := READ_NODE_PTR_FIELD msg.(PgQuery__WindowDef.end_offset) in
  Ok {| WindowDef.name := READ_STRING_FIELD msg.(PgQuery__WindowDef.name);
        WindowDef.refname := READ_STRING_FIELD msg.(PgQuery__WindowDef.refname);
        WindowDef.partitionClause := f1;
        WindowDef.orderClause := f2;
        WindowDef.frameOptions := msg.(PgQuery__WindowDef.frame_options);
        WindowDef.startOffset := f3;
        WindowDef.endOffset := f4;
        WindowDef.location := msg.(PgQuery__WindowDef.location) |}.

Definition _readSortBy (msg : PgQuery__SortBy.t PgQuery__Node) : outcome (SortBy.t Node) :=
  let* f1 := READ_NODE_PTR_FIELD msg.(PgQuery__SortBy.node) in
  let* f2 := READ_LIST_FIELD msg.(PgQuery__SortBy.use_op) in
  Ok {| SortBy.node := f1;
        SortBy.sortby_dir := _intToEnumSortByDir msg.(PgQuery__SortBy.sortby_dir);
        SortBy.sortby_nulls := _intToEnumSortByNulls msg.(PgQuery__SortBy.sortby_nulls);
        SortBy.useOp := f2;
        SortBy.location := msg.(PgQuery__SortBy.location) |}.

Definition _readFuncCall (msg : PgQuery__FuncCall.t PgQuery__Node) : outcome (FuncCall.t Node) :=
  let* f1 := READ_LIST_FIELD msg.(PgQuery__FuncCall.funcname) in
  let* f2 := READ_LIST_FIELD msg.(PgQuery__FuncCall.args) in
  let* f3 := READ_LIST_FIELD msg.(PgQuery__FuncCall.agg_order) in
  let* f4 := READ_NODE_PTR_FIELD msg.(PgQuery__FuncCall.agg_filter) in
  let* f5 := READ_SPECIFIC_NODE_PTR_FIELD _readWindowDef msg.(PgQuery__FuncCall.over) in
  Ok {| FuncCall.funcname := f1;
        FuncCall.args := f2;
        FuncCall.agg_order := f3;
        FuncCall.agg_filter := f4;
        FuncCall.agg_within_group := msg.(PgQuery__FuncCall.agg_within_group);
        FuncCall.agg_star := msg.(PgQuery__FuncCall.agg_star);
        FuncCall.agg_distinct := msg.(PgQuery__FuncCall.agg_distinct);
        FuncCall.func_variadic := msg.(PgQuery__FuncCall.func_variadic);
        FuncCall.over := f5;
        FuncCall.location := msg.(PgQuery__FuncCall.location) |}.

Definition _readAStar (msg : PgQuery__AStar.t PgQuery__Node) : outcome (A_Star.t Node) :=
  Ok A_Star.mk.

Definition _readAIndices (msg : PgQuery__AIndices.t PgQuery__Node) : outcome (A_Indices.t Node) :=
  let* f1 := READ_NODE_PTR_FIELD msg.(PgQuery__AIndices.lidx) in
  let* f2 := READ_NODE_PTR_FIELD msg.(PgQuery__AIndices.uidx) in
  Ok {| A_Indices.is_slice := msg.(PgQuery__AIndices.is_slice);
        A_Indices.lidx := f1;
        A_Indices.uidx := f2 |}.

Definition _readAIndirection (msg : PgQuery__AIndirection.t PgQuery__Node)
    : outcome (A_Indirection.t Node) :=
  let* f1 := READ_NODE_PTR_FIELD msg.(PgQuery__AIndirection.arg) in
  let* f2 := READ_LIST_FIELD msg.(PgQuery__AIndirection.indirection) in
  Ok {| A_Indirection.arg := f1;
        A_Indirection.indirection := f2 |}.

Definition _readAArrayExpr (msg : PgQuery__AArrayExpr.t PgQuery__Node)
    : outcome (A_ArrayExpr.t Node) :=
  let* f1 := READ_LIST_FIELD msg.(PgQuery__AArrayExpr.elements) in
  Ok {| A_ArrayExpr.elements := f1;
        A_ArrayExpr.location := msg.(PgQuery__AArrayExpr.location) |}.

Definition _readResTarget (msg : PgQuery__ResTarget.t PgQuery__Node) : outcome (ResTarget.t Node) :=
  let* f1 := READ_LIST_FIELD msg.(PgQuery__ResTarget.indirection) in
  let* f2 := READ_NODE_PTR_FIELD msg.(PgQuery__ResTarget.val) in
  Ok {| ResTarget.name := READ_STRING_FIELD msg.(PgQuery__ResTarget.name);
        ResTarget.indirection := f1;
        ResTarget.val := f2;
        ResTarget.location := msg.(PgQuery__ResTarget.location) |}.

Definition _readMultiAssignRef (msg : PgQuery__MultiAssignRef.t PgQuery__Node)
    : outcome (MultiAssignRef.t Node) :=
  let* f1 := READ_NODE_PTR_FIELD msg.(PgQuery__MultiAssignRef.source) in
  Ok {| MultiAssignRef.source := f1;
        MultiAssignRef.colno := msg.(PgQuery__MultiAssignRef.colno);
        MultiAssignRef.ncolumns := msg.(PgQuery__MultiAssignRef.ncolumns) |}.

Definition _readNamedArgExpr (msg : PgQuery__NamedArgExpr.t PgQuery__Node)
    : outcome (NamedArgExpr.t Node) :=
  let* f1 := READ_EXPR_PTR_FIELD msg.(PgQuery__NamedArgExpr.arg) in
  Ok {| NamedArgExpr.arg := f1;
        NamedArgExpr.name := READ_STRING_FIELD msg.(PgQuery__NamedArgExpr.name);
        NamedArgExpr.argnumber := msg.(PgQuery__NamedArgExpr.argnumber);
        NamedArgExpr.location := msg.(PgQuery__NamedArgExpr.location) |}.

Definition _readBoolExpr (msg : PgQuery__BoolExpr.t PgQuery__Node) : outcome (BoolExpr.t Node) :=
  let* f1 := READ_LIST_FIELD msg.(PgQuery__BoolExpr.args) in
  Ok {| BoolExpr.boolop := _intToEnumBoolExprType msg.(PgQuery__BoolExpr.boolop);
        BoolExpr.args := f1;
        BoolExpr.location := msg.(PgQuery__BoolExpr.location) |}.

Definition _readSubLink (msg : PgQuery__SubLink.t PgQuery__Node) : outcome (SubLink.t Node) :=
  let* f1 := READ_NODE_PTR_FIELD msg.(PgQuery__SubLink.testexpr) in
  let* f2 := READ_LIST_FIELD msg.(PgQuery__SubLink.oper_name) in
  let* f3 := READ_NODE_PTR_FIELD msg.(PgQuery__SubLink.subselect) in
  Ok {| SubLink.subLinkType := _intToEnumSubLinkType msg.(PgQuery__SubLink.sub_link_type);
        SubLink.subLinkId := msg.(PgQuery__SubLink.sub_link_id);
        SubLink.testexpr := f1;
        SubLink.operName := f2;
        SubLink.subselect := f3;
        SubLink.location := msg.(PgQuery__SubLink.location) |}.

Definition _readCaseWhen (msg : PgQuery__CaseWhen.t PgQuery__Node) : outcome (CaseWhen.t Node) :=
  let* f1 := READ_EXPR_PTR_FIELD msg.(PgQuery__CaseWhen.expr) in
  let* f2 := READ_EXPR_PTR_FIELD msg.(PgQuery__CaseWhen.result) in
  Ok {| CaseWhen.expr := f1;
        CaseWhen.result := f2;
        CaseWhen.location := msg.(PgQuery__CaseWhen.location) |}.

Definition _readCaseExpr (msg : PgQuery__CaseExpr.t PgQuery__Node) : outcome (CaseExpr.t Node) :=
  let* f1 := READ_EXPR_PTR_FIELD msg.(PgQuery__CaseExpr.arg) in
  let* f2 := READ_LIST_FIELD msg.(PgQuery__CaseExpr.args) in
  let* f3 := READ_EXPR_PTR_FIELD msg.(PgQuery__CaseExpr.defresult) in
  Ok {| CaseExpr.casetype := msg.(PgQuery__CaseExpr.casetype);
        CaseExpr.casecollid := msg.(PgQuery__CaseExpr.casecollid);
        CaseExpr.arg := f1;
        CaseExpr.args := f2;
        CaseExpr.defresult := f3;
        CaseExpr.location := msg.(PgQuery__CaseExpr.location) |}.

Definition _readRowExpr (msg : PgQuery__RowExpr.t PgQuery__Node) : outcome (RowExpr.t Node) :=
  let* f1 := READ_LIST_FIELD msg.(PgQuery__RowExpr.args) in
  let* f2 := READ_LIST_FIELD msg.(PgQuery__RowExpr.colnames) in
  Ok {| RowExpr.args := f1;
        RowExpr.row_typeid := msg.(PgQuery__RowExpr.row_typeid);
        RowExpr.row_format := _intToEnumCoercionForm msg.(PgQuery__RowExpr.row_format);
        RowExpr.colnames := f2;
        RowExpr.location := msg.(PgQuery__RowExpr.location) |}.

Definition _readCoalesceExpr (msg : PgQuery__CoalesceExpr.t PgQuery__Node)
    : outcome (CoalesceExpr.t Node) :=
  let* f1 := READ_LIST_FIELD msg.(PgQuery__CoalesceExpr.args) in
  Ok {| CoalesceExpr.coalescetype := msg.(PgQuery__CoalesceExpr.coalescetype);
        CoalesceExpr.coalescecollid := msg.(PgQuery__CoalesceExpr.coalescecollid);
        CoalesceExpr.args := f1;
        CoalesceExpr.location := msg.(PgQuery__CoalesceExpr.location) |}.

Definition _readMinMaxExpr (msg : PgQuery__MinMaxExpr.t PgQuery__Node)
    : outcome (MinMaxExpr.t Node) :=
  let* f1 := READ_LIST_FIELD msg.(PgQuery__MinMaxExpr.args) in
  Ok {| MinMaxExpr.minmaxtype := msg.(PgQuery__MinMaxExpr.minmaxtype);
        MinMaxExpr.minmaxcollid := msg.(PgQuery__MinMaxExpr.minmaxcollid);
        MinMaxExpr.inputcollid := msg.(PgQuery__MinMaxExpr.inputcollid);
        MinMaxExpr.op := _intToEnumMinMaxOp msg.(PgQuery__MinMaxExpr.op);
        MinMaxExpr.args := f1;
        MinMaxExpr.location := msg.(PgQuery__MinMaxExpr.location) |}.

Definition _readSQLValueFunction (msg : PgQuery__SQLValueFunction.t PgQuery__Node)
    : outcome (SQLValueFunction.t Node) :=
  Ok {| SQLValueFunction.op := _intToEnumSQLValueFunctionOp msg.(PgQuery__SQLValueFunction.op);
        SQLValueFunction.type_ := msg.(PgQuery__SQLValueFunction.type_);
        SQLValueFunction.typmod := msg.(PgQuery__SQLValueFunction.typmod);
        SQLValueFunction.location := msg.(PgQuery__SQLValueFunction.location) |}.

Definition _readXmlExpr (msg : PgQuery__XmlExpr.t PgQuery__Node) : outcome (XmlExpr.t Node) :=
  let* f1 := READ_LIST_FIELD msg.(PgQuery__XmlExpr.named_args) in
  let* f2 := READ_LIST_FIELD msg.(PgQuery__XmlExpr.arg_names) in
  let* f3 := READ_LIST_FIELD msg.(PgQuery__XmlExpr.args) in
  Ok {| XmlExpr.op := _intToEnumXmlExprOp msg.(PgQuery__XmlExpr.op);
        XmlExpr.name := READ_STRING_FIELD msg.(PgQuery__XmlExpr.name);
        XmlExpr.named_args := f1;
        XmlExpr.arg_names := f2;
        XmlExpr.args := f3;
        XmlExpr.xmloption := _intToEnumXmlOptionType msg.(PgQuery__XmlExpr.xmloption);
        XmlExpr.type_ := msg.(PgQuery__XmlExpr.type_);
        XmlExpr.typmod := msg.(PgQuery__XmlExpr.typmod);
        XmlExpr.location := msg.(PgQuery__XmlExpr.location) |}.

Definition _readXmlSerialize (msg : PgQuery__XmlSerialize.t PgQuery__Node)
    : outcome (XmlSerialize.t Node) :=
  let* f1 := READ_NODE_PTR_FIELD msg.(PgQuery__XmlSerialize.expr) in
  let* f2 := READ_SPECIFIC_NODE_PTR_FIELD _readTypeName msg.(PgQuery__XmlSerialize.type_name) in
  Ok {| XmlSerialize.xmloption := _intToEnumXmlOptionType msg.(PgQuery__XmlSerialize.xmloption);
        XmlSerialize.expr := f1;
        XmlSerialize.typeName := f2;
        XmlSerialize.location := msg.(PgQuery__XmlSerialize.location) |}.

Definition _readNullTest (msg : PgQuery__NullTest.t PgQuery__Node) : outcome (NullTest.t Node) :=
  let* f1 := READ_EXPR_PTR_FIELD msg.(PgQuery__NullTest.arg) in
  Ok {| NullTest.arg := f1;
        NullTest.nulltesttype := _intToEnumNullTestType msg.(PgQuery__NullTest.nulltesttype);
        NullTest.argisrow := msg.(PgQuery__NullTest.argisrow);
        NullTest.location := msg.(PgQuery__NullTest.location) |}.

Definition _readBooleanTest (msg : PgQuery__BooleanTest.t PgQuery__Node)
    : outcome (BooleanTest.t Node) :=
  let* f1 := READ_EXPR_PTR_FIELD msg.(PgQuery__BooleanTest.arg) in
  Ok {| BooleanTest.arg := f1;
        BooleanTest.booltesttype := _intToEnumBoolTestType msg.(PgQuery__BooleanTest.booltesttype);
        BooleanTest.location := msg.(PgQuery__BooleanTest.location) |}.

Definition _readSetToDefault (msg : PgQuery__SetToDefault.t PgQuery__Node)
    : outcome (SetToDefault.t Node) :=
  Ok {| SetToDefault.typeId := msg.(PgQuery__SetToDefault.type_id);
        SetToDefault.typeMod := msg.(PgQuery__SetToDefault.type_mod);
        SetToDefault.collation := msg.(PgQuery__SetToDefault.collation);
        SetToDefault.location := msg.(PgQuery__SetToDefault.location) |}.

Definition _readCurrentOfExpr (msg : PgQuery__CurrentOfExpr.t PgQuery__Node)
    : outcome (CurrentOfExpr.t Node) :=
  Ok {| CurrentOfExpr.cvarno := msg.(PgQuery__CurrentOfExpr.cvarno);
        CurrentOfExpr.cursor_name := READ_STRING_FIELD msg.(PgQuery__CurrentOfExpr.cursor_name);
        CurrentOfExpr.cursor_param := msg.(PgQuery__CurrentOfExpr.cursor_param) |}.

Definition _readGroupingFunc (msg : PgQuery__GroupingFunc.t PgQuery__Node)
    : outcome (GroupingFunc.t Node) :=
  let* f1 := READ_LIST_FIELD msg.(PgQuery__GroupingFunc.args) in
  let* f2 := READ_INT_LIST_FIELD msg.(PgQuery__GroupingFunc.refs) in
  let* f3 := READ_INT_LIST_FIELD msg.(PgQuery__GroupingFunc.cols) in
  Ok {| GroupingFunc.args := f1;
        GroupingFunc.refs := f2;
        GroupingFunc.cols := f3;
        GroupingFunc.agglevelsup := msg.(PgQuery__GroupingFunc.agglevelsup);
        GroupingFunc.location := msg.(PgQuery__GroupingFunc.location) |}.

Definition _readDefElem (msg : PgQuery__DefElem.t PgQuery__Node) : outcome (DefElem.t Node) :=
  let* f1 := READ_NODE_PTR_FIELD msg.(PgQuery__DefElem.arg) in
  Ok {| DefElem.defnamespace := READ_STRING_FIELD msg.(PgQuery__DefElem.defnamespace);
        DefElem.defname := READ_STRING_FIELD msg.(PgQuery__DefElem.defname);
        DefElem.arg := f1;
        DefElem.defaction := _intToEnumDefElemAction msg.(PgQuery__DefElem.defaction);
        DefElem.location := msg.(PgQuery__DefElem.location) |}.

Definition _readIndexElem (msg : PgQuery__IndexElem.t PgQuery__Node) : outcome (IndexElem.t Node) :=
  let* f1 := READ_NODE_PTR_FIELD msg.(PgQuery__IndexElem.expr) in
  let* f2 := READ_LIST_FIELD msg.(PgQuery__IndexElem.collation) in
  let* f3 := READ_LIST_FIELD msg.(PgQuery__IndexElem.opclass) in
  let* f4 := READ_LIST_FIELD msg.(PgQuery__IndexElem.opclassopts) in
  Ok {| IndexElem.name := READ_STRING_FIELD msg.(PgQuery__IndexElem.name);
        IndexElem.expr := f1;
        IndexElem.indexcolname := READ_STRING_FIELD msg.(PgQuery__IndexElem.indexcolname);
        IndexElem.collation := f2;
        IndexElem.opclass := f3;
        IndexElem.opclassopts := f4;
        IndexElem.ordering := _intToEnumSortByDir msg.(PgQuery__IndexElem.ordering);
        IndexElem.nulls_ordering := _intToEnumSortByNulls msg.(PgQuery__IndexElem.nulls_ordering) |}.

Definition _readConstraint (msg : PgQuery__Constraint.t PgQuery__Node)
    : outcome (Constraint.t Node) :=
  let* f1 := READ_NODE_PTR_FIELD msg.(PgQuery__Constraint.raw_expr) in
  let* f2 := READ_LIST_FIELD msg.(PgQuery__Constraint.keys) in
  let* f3 := READ_LIST_FIELD msg.(PgQuery__Constraint.including) in
  let* f4 := READ_LIST_FIELD msg.(PgQuery__Constraint.exclusions) in
  let* f5 := READ_LIST_FIELD msg.(PgQuery__Constraint.options) in
  let* f6 := READ_NODE_PTR_FIELD msg.(PgQuery__Constraint.where_clause) in
  let* f7 := READ_SPECIFIC_NODE_PTR_FIELD _readRangeVar msg.(PgQuery__Constraint.pktable) in
  let* f8 := READ_LIST_FIELD msg.(PgQuery__Constraint.fk_attrs) in
  let* f9 := READ_LIST_FIELD msg.(PgQuery__Constraint.pk_attrs) in
  let* f10 := READ_LIST_FIELD msg.(PgQuery__Constraint.old_conpfeqop) in
  Ok {| Constraint.contype := _intToEnumConstrType msg.(PgQuery__Constraint.contype);
        Constraint.conname := READ_STRING_FIELD msg.(PgQuery__Constraint.conname);
        Constraint.deferrable := msg.(PgQuery__Constraint.deferrable);
        Constraint.initdeferred := msg.(PgQuery__Constraint.initdeferred);
        Constraint.location := msg.(PgQuery__Constraint.location);
        Constraint.is_no_inherit := msg.(PgQuery__Constraint.is_no_inherit);
        Constraint.raw_expr := f1;
        Constraint.cooked_expr := READ_STRING_FIELD msg.(PgQuery__Constraint.cooked_expr);
        Constraint.generated_when := READ_CHAR_FIELD msg.(PgQuery__Constraint.generated_when);
        Constraint.keys := f2;
        Constraint.including := f3;
        Constraint.exclusions := f4;
        Constraint.options := f5;
        Constraint.indexname := READ_STRING_FIELD msg.(PgQuery__Constraint.indexname);
        Constraint.indexspace := READ_STRING_FIELD msg.(PgQuery__Constraint.indexspace);
        Constraint.reset_default_tblspc := msg.(PgQuery__Constraint.reset_default_tblspc);
        Constraint.access_method := READ_STRING_FIELD msg.(PgQuery__Constraint.access_method);
        Constraint.where_clause := f6;
        Constraint.pktable := f7;
        Constraint.fk_attrs := f8;
        Constraint.pk_attrs := f9;
        Constraint.fk_matchtype := READ_CHAR_FIELD msg.(PgQuery__Constraint.fk_matchtype);
        Constraint.fk_upd_action := READ_CHAR_FIELD msg.(PgQuery__Constraint.fk_upd_action);
        Constraint.fk_del_action := READ_CHAR_FIELD msg.(PgQuery__Constraint.fk_del_action);
        Constraint.old_conpfeqop := f10;
        Constraint.old_pktable_oid := msg.(PgQuery__Constraint.old_pktable_oid);
        Constraint.skip_validation := msg.(PgQuery__Constraint.skip_validation);
        Constraint.initially_valid := msg.(PgQuery__Constraint.initially_valid) |}.

Definition _readColumnDef (msg : PgQuery__ColumnDef.t PgQuery__Node) : outcome (ColumnDef.t Node) :=
  let* f1 := READ_SPECIFIC_NODE_PTR_FIELD _readTypeName msg.(PgQuery__ColumnDef.type_name) in
  let* f2 := READ_NODE_PTR_FIELD msg.(PgQuery__ColumnDef.raw_default) in
  let* f3 := READ_NODE_PTR_FIELD msg.(PgQuery__ColumnDef.cooked_default) in
  let* f4 := READ_SPECIFIC_NODE_PTR_FIELD _readRangeVar msg.(PgQuery__ColumnDef.identity_sequence) in
  let* f5 := READ_SPECIFIC_NODE_PTR_FIELD _readCollateClause msg.(PgQuery__ColumnDef.coll_clause) in
  let* f6 := READ_LIST_FIELD msg.(PgQuery__ColumnDef.constraints) in
  let* f7 := READ_LIST_FIELD msg.(PgQuery__ColumnDef.fdwoptions) in
  Ok {| ColumnDef.colname := READ_STRING_FIELD msg.(PgQuery__ColumnDef.colname);
        ColumnDef.typeName := f1;
        ColumnDef.inhcount := msg.(PgQuery__ColumnDef.inhcount);
        ColumnDef.is_local := msg.(PgQuery__ColumnDef.is_local);
        ColumnDef.is_not_null := msg.(PgQuery__ColumnDef.is_not_null);
        ColumnDef.is_from_type := msg.(PgQuery__ColumnDef.is_from_type);
        ColumnDef.storage := READ_CHAR_FIELD msg.(PgQuery__ColumnDef.storage);
        ColumnDef.raw_default := f2;
        ColumnDef.cooked_default := f3;
        ColumnDef.identity := READ_CHAR_FIELD msg.(PgQuery__ColumnDef.identity);
        ColumnDef.identitySequence := f4;
        ColumnDef.generated := READ_CHAR_FIELD msg.(PgQuery__ColumnDef.generated);
        ColumnDef.collClause := f5;
        ColumnDef.collOid := msg.(PgQuery__ColumnDef.coll_oid);
        ColumnDef.constraints := f6;
        ColumnDef.fdwoptions := f7;
        ColumnDef.location := msg.(PgQuery__ColumnDef.location) |}.

Definition _readJoinExpr (msg : PgQuery__JoinExpr.t PgQuery__Node) : outcome (JoinExpr.t Node) :=
  let* f1 := READ_NODE_PTR_FIELD msg.(PgQuery__JoinExpr.larg) in
  let* f2 := READ_NODE_PTR_FIELD msg.(PgQuery__JoinExpr.rarg) in
  let* f3 := READ_LIST_FIELD msg.(PgQuery__JoinExpr.using_clause) in
  let* f4 := READ_NODE_PTR_FIELD msg.(PgQuery__JoinExpr.quals) in
  let* f5 := READ_SPECIFIC_NODE_PTR_FIELD _readAlias msg.(PgQuery__JoinExpr.alias) in
  Ok {| JoinExpr.jointype := _intToEnumJoinType msg.(PgQuery__JoinExpr.jointype);
        JoinExpr.isNatural := msg.(PgQuery__JoinExpr.is_natural);
        JoinExpr.larg := f1;
        JoinExpr.rarg := f2;
        JoinExpr.usingClause := f3;
        JoinExpr.quals := f4;
        JoinExpr.alias := f5;
        JoinExpr.rtindex := msg.(PgQuery__JoinExpr.rtindex) |}.

Definition _readRangeSubselect (msg : PgQuery__RangeSubselect.t PgQuery__Node)
    : outcome (RangeSubselect.t Node) :=
  let* f1 := READ_NODE_PTR_FIELD msg.(PgQuery__RangeSubselect.subquery) in
  let* f2 := READ_SPECIFIC_NODE_PTR_FIELD _readAlias msg.(PgQuery__RangeSubselect.alias) in
  Ok {| RangeSubselect.lateral := msg.(PgQuery__RangeSubselect.lateral);
        RangeSubselect.subquery := f1;
        RangeSubselect.alias := f2 |}.

Definition _readRangeFunction (msg : PgQuery__RangeFunction.t PgQuery__Node)
    : outcome (RangeFunction.t Node) :=
  let* f1 := READ_LIST_FIELD msg.(PgQuery__RangeFunction.functions) in
  let* f2 := READ_SPECIFIC_NODE_PTR_FIELD _readAlias msg.(PgQuery__RangeFunction.alias) in
  let* f3 := READ_LIST_FIELD msg.(PgQuery__RangeFunction.coldeflist) in
  Ok {| RangeFunction.lateral := msg.(PgQuery__RangeFunction.lateral);
        RangeFunction.ordinality := msg.(PgQuery__RangeFunction.ordinality);
        RangeFunction.is_rowsfrom := msg.(PgQuery__RangeFunction.is_rowsfrom);
        RangeFunction.functions := f1;
        RangeFunction.alias := f2;
        RangeFunction.coldeflist := f3 |}.

Definition _readRangeTableFuncCol (msg : PgQuery__RangeTableFuncCol.t PgQuery__Node)
    : outcome (RangeTableFuncCol.t Node) :=
  let* f1 := READ_SPECIFIC_NODE_PTR_FIELD _readTypeName msg.(PgQuery__RangeTableFuncCol.type_name) in
  let* f2 := READ_NODE_PTR_FIELD msg.(PgQuery__RangeTableFuncCol.colexpr) in
  let* f3 := READ_NODE_PTR_FIELD msg.(PgQuery__RangeTableFuncCol.coldefexpr) in
  Ok {| RangeTableFuncCol.colname := READ_STRING_FIELD msg.(PgQuery__RangeTableFuncCol.colname);
        RangeTableFuncCol.typeName := f1;
        RangeTableFuncCol.for_ordinality := msg.(PgQuery__RangeTableFuncCol.for_ordinality);
        RangeTableFuncCol.is_not_null := msg.(PgQuery__RangeTableFuncCol.is_not_null);
        RangeTableFuncCol.colexpr := f2;
        RangeTableFuncCol.coldefexpr := f3;
        RangeTableFuncCol.location := msg.(PgQuery__RangeTableFuncCol.location) |}.

Definition _readRangeTableFunc (msg : PgQuery__RangeTableFunc.t PgQuery__Node)
    : outcome (RangeTableFunc.t Node) :=
  let* f1 := READ_NODE_PTR_FIELD msg.(PgQuery__RangeTableFunc.docexpr) in
  let* f2 := READ_NODE_PTR_FIELD msg.(PgQuery__RangeTableFunc.rowexpr) in
  let* f3 := READ_LIST_FIELD msg.(PgQuery__RangeTableFunc.namespaces) in
  let* f4 := READ_LIST_FIELD msg.(PgQuery__RangeTableFunc.columns) in
  let* f5 := READ_SPECIFIC_NODE_PTR_FIELD _readAlias msg.(PgQuery__RangeTableFunc.alias) in
  Ok {| RangeTableFunc.lateral := msg.(PgQuery__RangeTableFunc.lateral);
        RangeTableFunc.docexpr := f1;
        RangeTableFunc.rowexpr := f2;
        RangeTableFunc.namespaces := f3;
        RangeTableFunc.columns := f4;
        RangeTableFunc.alias := f5;
        RangeTableFunc.location := msg.(PgQuery__RangeTableFunc.location) |}.

Definition _readRangeTableSample (msg : PgQuery__RangeTableSample.t PgQuery__Node)
    : outcome (RangeTableSample.t Node) :=
  let* f1 := READ_NODE_PTR_FIELD msg.(PgQuery__RangeTableSample.relation) in
  let* f2 := READ_LIST_FIELD msg.(PgQuery__RangeTableSample.method) in
  let* f3 := READ_LIST_FIELD msg.(PgQuery__RangeTableSample.args) in
  let* f4 := READ_NODE_PTR_FIELD msg.(PgQuery__RangeTableSample.repeatable) in
  Ok {| RangeTableSample.relation := f1;
        RangeTableSample.method := f2;
        RangeTableSample.args := f3;
        RangeTableSample.repeatable := f4;
        RangeTableSample.location := msg.(PgQuery__RangeTableSample.location) |}.

Definition _readCommonTableExpr (msg : PgQuery__CommonTableExpr.t PgQuery__Node)
    : outcome (CommonTableExpr.t Node) :=
  let* f1 := READ_LIST_FIELD msg.(PgQuery__CommonTableExpr.aliascolnames) in
  let* f2 := READ_NODE_PTR_FIELD msg.(PgQuery__CommonTableExpr.ctequery) in
  let* f3 := READ_LIST_FIELD msg.(PgQuery__CommonTableExpr.ctecolnames) in
  let* f4 := READ_INT_LIST_FIELD msg.(PgQuery__CommonTableExpr.ctecoltypes) in
  let* f5 := READ_INT_LIST_FIELD msg.(PgQuery__CommonTableExpr.ctecoltypmods) in
  let* f6 := READ_INT_LIST_FIELD msg.(PgQuery__CommonTableExpr.ctecolcollations) in
  Ok {| CommonTableExpr.ctename := READ_STRING_FIELD msg.(PgQuery__CommonTableExpr.ctename);
        CommonTableExpr.aliascolnames := f1;
        CommonTableExpr.ctematerialized := _intToEnumCTEMaterialize msg.(PgQuery__CommonTableExpr.ctematerialized);
        CommonTableExpr.ctequery := f2;
        CommonTableExpr.location := msg.(PgQuery__CommonTableExpr.location);
        CommonTableExpr.cterecursive := msg.(PgQuery__CommonTableExpr.cterecursive);
        CommonTableExpr.cterefcount := msg.(PgQuery__CommonTableExpr.cterefcount);
        CommonTableExpr.ctecolnames := f3;
        CommonTableExpr.ctecoltypes := f4;
        CommonTableExpr.ctecoltypmods := f5;
        CommonTableExpr.ctecolcollations := f6 |}.

Definition _readWithClause (msg : PgQuery__WithClause.t PgQuery__Node)
    : outcome (WithClause.t Node) :=
  let* f1 := READ_LIST_FIELD msg.(PgQuery__WithClause.ctes) in
  Ok {| WithClause.ctes := f1;
        WithClause.recursive := msg.(PgQuery__WithClause.recursive);
        WithClause.location := msg.(PgQuery__WithClause.location) |}.

Definition _readInferClause (msg : PgQuery__InferClause.t PgQuery__Node)
    : outcome (InferClause.t Node) :=
  let* f1 := READ_LIST_FIELD msg.(PgQuery__InferClause.index_elems) in
  let* f2 := READ_NODE_PTR_FIELD msg.(PgQuery__InferClause.where_clause) in
  Ok {| InferClause.indexElems := f1;
        InferClause.whereClause := f2;
        InferClause.conname := READ_STRING_FIELD msg.(PgQuery__InferClause.conname);
        InferClause.location := msg.(PgQuery__InferClause.location) |}.

Definition _readOnConflictClause (msg : PgQuery__OnConflictClause.t PgQuery__Node)
    : outcome (OnConflictClause.t Node) :=
  let* f1 := READ_SPECIFIC_NODE_PTR_FIELD _readInferClause msg.(PgQuery__OnConflictClause.infer) in
  let* f2 := READ_LIST_FIELD msg.(PgQuery__OnConflictClause.target_list) in
  let* f3 := READ_NODE_PTR_FIELD msg.(PgQuery__OnConflictClause.where_clause) in
  Ok {| OnConflictClause.action := _intToEnumOnConflictAction msg.(PgQuery__OnConflictClause.action);
        OnConflictClause.infer := f1;
        OnConflictClause.targetList := f2;
        OnConflictClause.whereClause := f3;
        OnConflictClause.location := msg.(PgQuery__OnConflictClause.location) |}.

Definition _readLockingClause (msg : PgQuery__LockingClause.t PgQuery__Node)
    : outcome (LockingClause.t Node) :=
  let* f1 := READ_LIST_FIELD msg.(PgQuery__LockingClause.locked_rels) in
  Ok {| LockingClause.lockedRels := f1;
        LockingClause.strength := _intToEnumLockClauseStrength msg.(PgQuery__LockingClause.strength);
        LockingClause.waitPolicy := _intToEnumLockWaitPolicy msg.(PgQuery__LockingClause.wait_policy) |}.

Definition _readGroupingSet (msg : PgQuery__GroupingSet.t PgQuery__Node)
    : outcome (GroupingSet.t Node) :=
  let* f1 := READ_LIST_FIELD msg.(PgQuery__GroupingSet.content) in
  Ok {| GroupingSet.kind := _intToEnumGroupingSetKind msg.(PgQuery__GroupingSet.kind);
        GroupingSet.content := f1;
        GroupingSet.location := msg.(PgQuery__GroupingSet.location) |}.

Definition _readIntoClause (msg : PgQuery__IntoClause.t PgQuery__Node)
    : outcome (IntoClause.t Node) :=
  let* f1 := READ_SPECIFIC_NODE_PTR_FIELD _readRangeVar msg.(PgQuery__IntoClause.rel) in
  let* f2 := READ_LIST_FIELD msg.(PgQuery__IntoClause.col_names) in
  let* f3 := READ_LIST_FIELD msg.(PgQuery__IntoClause.options) in
  let* f4 := READ_NODE_PTR_FIELD msg.(PgQuery__IntoClause.view_query) in
  Ok {| IntoClause.rel := f1;
        IntoClause.colNames := f2;
        IntoClause.accessMethod := READ_STRING_FIELD msg.(PgQuery__IntoClause.access_method);
        IntoClause.options := f3;
        IntoClause.onCommit := _intToEnumOnCommitAction msg.(PgQuery__IntoClause.on_commit);
        IntoClause.tableSpaceName := READ_STRING_FIELD msg.(PgQuery__IntoClause.table_space_name);
        IntoClause.viewQuery := f4;
        IntoClause.skipData := msg.(PgQuery__IntoClause.skip_data) |}.

Definition _readSelectStmt (msg : PgQuery__SelectStmt.t PgQuery__Node)
    : outcome (SelectStmt.t Node) :=
  let* f1 := READ_LIST_FIELD msg.(PgQuery__SelectStmt.distinct_clause) in
  let* f2 := READ_SPECIFIC_NODE_PTR_FIELD _readIntoClause msg.(PgQuery__SelectStmt.into_clause) in
  let* f3 := READ_LIST_FIELD msg.(PgQuery__SelectStmt.target_list) in
  let* f4 := READ_LIST_FIELD msg.(PgQuery__SelectStmt.from_clause) in
  let* f5 := READ_NODE_PTR_FIELD msg.(PgQuery__SelectStmt.where_clause) in
  let* f6 := READ_LIST_FIELD msg.(PgQuery__SelectStmt.group_clause) in
  let* f7 := READ_NODE_PTR_FIELD msg.(PgQuery__SelectStmt.having_clause) in
  let* f8 := READ_LIST_FIELD msg.(PgQuery__SelectStmt.window_clause) in
  let* f9 := READ_LIST_FIELD msg.(PgQuery__SelectStmt.values_lists) in
  let* f10 := READ_LIST_FIELD msg.(PgQuery__SelectStmt.sort_clause) in
  let* f11 := READ_NODE_PTR_FIELD msg.(PgQuery__SelectStmt.limit_offset) in
  let* f12 := READ_NODE_PTR_FIELD msg.(PgQuery__SelectStmt.limit_count) in
  let* f13 := READ_LIST_FIELD msg.(PgQuery__SelectStmt.locking_clause) in
  let* f14 := READ_SPECIFIC_NODE_PTR_FIELD _readWithClause msg.(PgQuery__SelectStmt.with_clause) in
  let* f15 := READ_SELECT_PTR_FIELD msg.(PgQuery__SelectStmt.larg) in
  let* f16 := READ_SELECT_PTR_FIELD msg.(PgQuery__SelectStmt.rarg) in
  Ok {| SelectStmt.distinctClause := f1;
        SelectStmt.intoClause := f2;
        SelectStmt.targetList := f3;
        SelectStmt.fromClause := f4;
        SelectStmt.whereClause := f5;
        SelectStmt.groupClause := f6;
        SelectStmt.havingClause := f7;
        SelectStmt.windowClause := f8;
        SelectStmt.valuesLists := f9;
        SelectStmt.sortClause := f10;
        SelectStmt.limitOffset := f11;
        SelectStmt.limitCount := f12;
        SelectStmt.limitOption := _intToEnumLimitOption msg.(PgQuery__SelectStmt.limit_option);
        SelectStmt.lockingClause := f13;
        SelectStmt.withClause := f14;
        SelectStmt.op := _intToEnumSetOperation msg.(PgQuery__SelectStmt.op);
        SelectStmt.all := msg.(PgQuery__SelectStmt.all);
        SelectStmt.larg := f15;
        SelectStmt.rarg := f16 |}.

Definition _readInsertStmt (msg : PgQuery__InsertStmt.t PgQuery__Node)
    : outcome (InsertStmt.t Node) :=
  let* f1 := READ_SPECIFIC_NODE_PTR_FIELD _readRangeVar msg.(PgQuery__InsertStmt.relation) in
  let* f2 := READ_LIST_FIELD msg.(PgQuery__InsertStmt.cols) in
  let* f3 := READ_NODE_PTR_FIELD msg.(PgQuery__InsertStmt.select_stmt) in
  let* f4 := READ_SPECIFIC_NODE_PTR_FIELD _readOnConflictClause msg.(PgQuery__InsertStmt.on_conflict_clause) in
  let* f5 := READ_LIST_FIELD msg.(PgQuery__InsertStmt.returning_list) in
  let* f6 := READ_SPECIFIC_NODE_PTR_FIELD _readWithClause msg.(PgQuery__InsertStmt.with_clause) in
  Ok {| InsertStmt.relation := f1;
        InsertStmt.cols := f2;
        InsertStmt.selectStmt := f3;
        InsertStmt.onConflictClause := f4;
        InsertStmt.returningList := f5;
        InsertStmt.withClause := f6;
        InsertStmt.override := _intToEnumOverridingKind msg.(PgQuery__InsertStmt.override) |}.

Definition _readUpdateStmt (msg : PgQuery__UpdateStmt.t PgQuery__Node)
    : outcome (UpdateStmt.t Node) :=
  let* f1 := READ_SPECIFIC_NODE_PTR_FIELD _readRangeVar msg.(PgQuery__UpdateStmt.relation) in
  let* f2 := READ_LIST_FIELD msg.(PgQuery__UpdateStmt.target_list) in
  let* f3 := READ_NODE_PTR_FIELD msg.(PgQuery__UpdateStmt.where_clause) in
  let* f4 := READ_LIST_FIELD msg.(PgQuery__UpdateStmt.from_clause) in
  let* f5 := READ_LIST_FIELD msg.(PgQuery__UpdateStmt.returning_list) in
  let* f6 := READ_SPECIFIC_NODE_PTR_FIELD _readWithClause msg.(PgQuery__UpdateStmt.with_clause) in
  Ok {| UpdateStmt.relation := f1;
        UpdateStmt.targetList := f2;
        UpdateStmt.whereClause := f3;
        UpdateStmt.fromClause := f4;
        UpdateStmt.returningList := f5;
        UpdateStmt.withClause := f6 |}.

Definition _readDeleteStmt (msg : PgQuery__DeleteStmt.t PgQuery__Node)
    : outcome (DeleteStmt.t Node) :=
  let* f1 := READ_SPECIFIC_NODE_PTR_FIELD _readRangeVar msg.(PgQuery__DeleteStmt.relation) in
  let* f2 := READ_LIST_FIELD msg.(PgQuery__DeleteStmt.using_clause) in
  let* f3 := READ_NODE_PTR_FIELD msg.(PgQuery__DeleteStmt.where_clause) in
  let* f4 := READ_LIST_FIELD msg.(PgQuery__DeleteStmt.returning_list) in
  let* f5 := READ_SPECIFIC_NODE_PTR_FIELD _readWithClause msg.(PgQuery__DeleteStmt.with_clause) in
  Ok {| DeleteStmt.relation := f1;
        DeleteStmt.usingClause := f2;
        DeleteStmt.whereClause := f3;
        DeleteStmt.returningList := f4;
        DeleteStmt.withClause := f5 |}.

Definition _readRawStmt (msg : PgQuery__RawStmt.t PgQuery__Node) : outcome (RawStmt.t Node) :=
  let* f1 := READ_NODE_PTR_FIELD msg.(PgQuery__RawStmt.stmt) in
  Ok {| RawStmt.stmt := f1;
        RawStmt.stmt_location := msg.(PgQuery__RawStmt.stmt_location);
        RawStmt.stmt_len := msg.(PgQuery__RawStmt.stmt_len) |}.

Definition _readAlterTableCmd (msg : PgQuery__AlterTableCmd.t PgQuery__Node)
    : outcome (AlterTableCmd.t Node) :=
  let* f1 := READ_SPECIFIC_NODE_PTR_FIELD _readRoleSpec msg.(PgQuery__AlterTableCmd.newowner) in
  let* f2 := READ_NODE_PTR_FIELD msg.(PgQuery__AlterTableCmd.def) in
  Ok {| AlterTableCmd.subtype := _intToEnumAlterTableType msg.(PgQuery__AlterTableCmd.subtype);
        AlterTableCmd.name := READ_STRING_FIELD msg.(PgQuery__AlterTableCmd.name);
        AlterTableCmd.num := msg.(PgQuery__AlterTableCmd.num);
        AlterTableCmd.newowner := f1;
        AlterTableCmd.def := f2;
        AlterTableCmd.behavior := _intToEnumDropBehavior msg.(PgQuery__AlterTableCmd.behavior);
        AlterTableCmd.missing_ok := msg.(PgQuery__AlterTableCmd.missing_ok) |}.

Definition _readPartitionBoundSpec (msg : PgQuery__PartitionBoundSpec.t PgQuery__Node)
    : outcome (PartitionBoundSpec.t Node) :=
  let* f1 := READ_LIST_FIELD msg.(PgQuery__PartitionBoundSpec.listdatums) in
  let* f2 := READ_LIST_FIELD msg.(PgQuery__PartitionBoundSpec.lowerdatums) in
  let* f3 := READ_LIST_FIELD msg.(PgQuery__PartitionBoundSpec.upperdatums) in
  Ok {| PartitionBoundSpec.strategy := READ_CHAR_FIELD msg.(PgQuery__PartitionBoundSpec.strategy);
        PartitionBoundSpec.is_default := msg.(PgQuery__PartitionBoundSpec.is_default);
        PartitionBoundSpec.modulus := msg.(PgQuery__PartitionBoundSpec.modulus);
        PartitionBoundSpec.remainder := msg.(PgQuery__PartitionBoundSpec.remainder);
        PartitionBoundSpec.listdatums := f1;
        PartitionBoundSpec.lowerdatums := f2;
        PartitionBoundSpec.upperdatums := f3;
        PartitionBoundSpec.location := msg.(PgQuery__PartitionBoundSpec.location) |}.

Definition _readTableLikeClause (msg : PgQuery__TableLikeClause.t PgQuery__Node)
    : outcome (TableLikeClause.t Node) :=
  let* f1 := READ_SPECIFIC_NODE_PTR_FIELD _readRangeVar msg.(PgQuery__TableLikeClause.relation) in
  Ok {| TableLikeClause.relation := f1;
        TableLikeClause.options := msg.(PgQuery__TableLikeClause.options);
        TableLikeClause.relationOid := msg.(PgQuery__TableLikeClause.relation_oid) |}.

Definition _readPartitionElem (msg : PgQuery__PartitionElem.t PgQuery__Node)
    : outcome (PartitionElem.t Node) :=
  let* f1 := READ_NODE_PTR_FIELD msg.(PgQuery__PartitionElem.expr) in
  let* f2 := READ_LIST_FIELD msg.(PgQuery__PartitionElem.collation) in
  let* f3 := READ_LIST_FIELD msg.(PgQuery__PartitionElem.opclass) in
  Ok {| PartitionElem.name := READ_STRING_FIELD msg.(PgQuery__PartitionElem.name);
        PartitionElem.expr := f1;
        PartitionElem.collation := f2;
        PartitionElem.opclass := f3;
        PartitionElem.location := msg.(PgQuery__PartitionElem.location) |}.

Definition _readPartitionSpec (msg : PgQuery__PartitionSpec.t PgQuery__Node)
    : outcome (PartitionSpec.t Node) :=
  let* f1 := READ_LIST_FIELD msg.(PgQuery__PartitionSpec.part_params) in
  Ok {| PartitionSpec.strategy := READ_STRING_FIELD msg.(PgQuery__PartitionSpec.strategy);
        PartitionSpec.partParams := f1;
        PartitionSpec.location := msg.(PgQuery__PartitionSpec.location) |}.

Definition _readPartitionCmd (msg : PgQuery__PartitionCmd.t PgQuery__Node)
    : outcome (PartitionCmd.t Node) :=
  let* f1 := READ_SPECIFIC_NODE_PTR_FIELD _readRangeVar msg.(PgQuery__PartitionCmd.name) in
  let* f2 := READ_SPECIFIC_NODE_PTR_FIELD _readPartitionBoundSpec msg.(PgQuery__PartitionCmd.bound) in
  Ok {| PartitionCmd.name := f1;
        PartitionCmd.bound := f2 |}.

Definition _readTriggerTransition (msg : PgQuery__TriggerTransition.t PgQuery__Node)
    : outcome (TriggerTransition.t Node) :=
  Ok {| TriggerTransition.name := READ_STRING_FIELD msg.(PgQuery__TriggerTransition.name);
        TriggerTransition.isNew := msg.(PgQuery__TriggerTransition.is_new);
        TriggerTransition.isTable := msg.(PgQuery__TriggerTransition.is_table) |}.

Definition _readCreateSchemaStmt (msg : PgQuery__CreateSchemaStmt.t PgQuery__Node)
    : outcome (CreateSchemaStmt.t Node) :=
  let* f1 := READ_SPECIFIC_NODE_PTR_FIELD _readRoleSpec msg.(PgQuery__CreateSchemaStmt.authrole) in
  let* f2 := READ_LIST_FIELD msg.(PgQuery__CreateSchemaStmt.schema_elts) in
  Ok {| CreateSchemaStmt.schemaname := READ_STRING_FIELD msg.(PgQuery__CreateSchemaStmt.schemaname);
        CreateSchemaStmt.authrole := f1;
        CreateSchemaStmt.schemaElts := f2;
        CreateSchemaStmt.if_not_exists := msg.(PgQuery__CreateSchemaStmt.if_not_exists) |}.

Definition _readAlterTableStmt (msg : PgQuery__AlterTableStmt.t PgQuery__Node)
    : outcome (AlterTableStmt.t Node) :=
  let* f1 := READ_SPECIFIC_NODE_PTR_FIELD _readRangeVar msg.(PgQuery__AlterTableStmt.relation) in
  let* f2 := READ_LIST_FIELD msg.(PgQuery__AlterTableStmt.cmds) in
  Ok {| AlterTableStmt.relation := f1;
        AlterTableStmt.cmds := f2;
        AlterTableStmt.relkind := _intToEnumObjectType msg.(PgQuery__AlterTableStmt.relkind);
        AlterTableStmt.missing_ok := msg.(PgQuery__AlterTableStmt.missing_ok) |}.

Definition _readReplicaIdentityStmt (msg : PgQuery__ReplicaIdentityStmt.t PgQuery__Node)
    : outcome (ReplicaIdentityStmt.t Node) :=
  Ok {| ReplicaIdentityStmt.identity_type := READ_CHAR_FIELD msg.(PgQuery__ReplicaIdentityStmt.identity_type);
        ReplicaIdentityStmt.name := READ_STRING_FIELD msg.(PgQuery__ReplicaIdentityStmt.name) |}.

Definition _readAlterCollationStmt (msg : PgQuery__AlterCollationStmt.t PgQuery__Node)
    : outcome (AlterCollationStmt.t Node) :=
  let* f1 := READ_LIST_FIELD msg.(PgQuery__AlterCollationStmt.collname) in
  Ok {| AlterCollationStmt.collname := f1 |}.

Definition _readAlterDomainStmt (msg : PgQuery__AlterDomainStmt.t PgQuery__Node)
    : outcome (AlterDomainStmt.t Node) :=
  let* f1 := READ_LIST_FIELD msg.(PgQuery__AlterDomainStmt.type_name) in
  let* f2 := READ_NODE_PTR_FIELD msg.(PgQuery__AlterDomainStmt.def) in
  Ok {| AlterDomainStmt.subtype := READ_CHAR_FIELD msg.(PgQuery__AlterDomainStmt.subtype);
        AlterDomainStmt.typeName := f1;
        AlterDomainStmt.name := READ_STRING_FIELD msg.(PgQuery__AlterDomainStmt.name);
        AlterDomainStmt.def := f2;
        AlterDomainStmt.behavior := _intToEnumDropBehavior msg.(PgQuery__AlterDomainStmt.behavior);
        AlterDomainStmt.missing_ok := msg.(PgQuery__AlterDomainStmt.missing_ok) |}.

Definition _readGrantStmt (msg : PgQuery__GrantStmt.t PgQuery__Node) : outcome (GrantStmt.t Node) :=
  let* f1 := READ_LIST_FIELD msg.(PgQuery__GrantStmt.objects) in
  let* f2 := READ_LIST_FIELD msg.(PgQuery__GrantStmt.privileges) in
  let* f3 := READ_LIST_FIELD msg.(PgQuery__GrantStmt.grantees) in
  Ok {| GrantStmt.is_grant := msg.(PgQuery__GrantStmt.is_grant);
        GrantStmt.targtype := _intToEnumGrantTargetType msg.(PgQuery__GrantStmt.targtype);
        GrantStmt.objtype := _intToEnumObjectType msg.(PgQuery__GrantStmt.objtype);
        GrantStmt.objects := f1;
        GrantStmt.privileges := f2;
        GrantStmt.grantees := f3;
        GrantStmt.grant_option := msg.(PgQuery__GrantStmt.grant_option);
        GrantStmt.behavior := _intToEnumDropBehavior msg.(PgQuery__GrantStmt.behavior) |}.

Definition _readObjectWithArgs (msg : PgQuery__ObjectWithArgs.t PgQuery__Node)
    : outcome (ObjectWithArgs.t Node) :=
  let* f1 := READ_LIST_FIELD msg.(PgQuery__ObjectWithArgs.objname) in
  let* f2 := READ_LIST_FIELD msg.(PgQuery__ObjectWithArgs.objargs) in
  Ok {| ObjectWithArgs.objname := f1;
        ObjectWithArgs.objargs := f2;
        ObjectWithArgs.args_unspecified := msg.(PgQuery__ObjectWithArgs.args_unspecified) |}.

Definition _readAccessPriv (msg : PgQuery__AccessPriv.t PgQuery__Node)
    : outcome (AccessPriv.t Node) :=
  let* f1 := READ_LIST_FIELD msg.(PgQuery__AccessPriv.cols) in
  Ok {| AccessPriv.priv_name := READ_STRING_FIELD msg.(PgQuery__AccessPriv.priv_name);
        AccessPriv.cols := f1 |}.

Definition _readGrantRoleStmt (msg : PgQuery__GrantRoleStmt.t PgQuery__Node)
    : outcome (GrantRoleStmt.t Node) :=
  let* f1 := READ_LIST_FIELD msg.(PgQuery__GrantRoleStmt.granted_roles) in
  let* f2 := READ_LIST_FIELD msg.(PgQuery__GrantRoleStmt.grantee_roles) in
  let* f3 := READ_SPECIFIC_NODE_PTR_FIELD _readRoleSpec msg.(PgQuery__GrantRoleStmt.grantor) in
  Ok {| GrantRoleStmt.granted_roles := f1;
        GrantRoleStmt.grantee_roles := f2;
        GrantRoleStmt.is_grant := msg.(PgQuery__GrantRoleStmt.is_grant);
        GrantRoleStmt.admin_opt := msg.(PgQuery__GrantRoleStmt.admin_opt);
        GrantRoleStmt.grantor := f3;
        GrantRoleStmt.behavior := _intToEnumDropBehavior msg.(PgQuery__GrantRoleStmt.behavior) |}.

Definition _readAlterDefaultPrivilegesStmt (msg : PgQuery__AlterDefaultPrivilegesStmt.t PgQuery__Node)
    : outcome (AlterDefaultPrivilegesStmt.t Node) :=
  let* f1 := READ_LIST_FIELD msg.(PgQuery__AlterDefaultPrivilegesStmt.options) in
  let* f2 := READ_SPECIFIC_NODE_PTR_FIELD _readGrantStmt msg.(PgQuery__AlterDefaultPrivilegesStmt.action) in
  Ok {| AlterDefaultPrivilegesStmt.options := f1;
        AlterDefaultPrivilegesStmt.action := f2 |}.

Definition _readCopyStmt (msg : PgQuery__CopyStmt.t PgQuery__Node) : outcome (CopyStmt.t Node) :=
  let* f1 := READ_SPECIFIC_NODE_PTR_FIELD _readRangeVar msg.(PgQuery__CopyStmt.relation) in
  let* f2 := READ_NODE_PTR_FIELD msg.(PgQuery__CopyStmt.query) in
  let* f3 := READ_LIST_FIELD msg.(PgQuery__CopyStmt.attlist) in
  let* f4 := READ_LIST_FIELD msg.(PgQuery__CopyStmt.options) in
  let* f5 := READ_NODE_PTR_FIELD msg.(PgQuery__CopyStmt.where_clause) in
  Ok {| CopyStmt.relation := f1;
        CopyStmt.query := f2;
        CopyStmt.attlist := f3;
        CopyStmt.is_from := msg.(PgQuery__CopyStmt.is_from);
        CopyStmt.is_program := msg.(PgQuery__CopyStmt.is_program);
        CopyStmt.filename := READ_STRING_FIELD msg.(PgQuery__CopyStmt.filename);
        CopyStmt.options := f4;
        CopyStmt.whereClause := f5 |}.

Definition _readVariableSetStmt (msg : PgQuery__VariableSetStmt.t PgQuery__Node)
    : outcome (VariableSetStmt.t Node) :=
  let* f1 := READ_LIST_FIELD msg.(PgQuery__VariableSetStmt.args) in
  Ok {| VariableSetStmt.kind := _intToEnumVariableSetKind msg.(PgQuery__VariableSetStmt.kind);
        VariableSetStmt.name := READ_STRING_FIELD msg.(PgQuery__VariableSetStmt.name);
        VariableSetStmt.args := f1;
        VariableSetStmt.is_local := msg.(PgQuery__VariableSetStmt.is_local) |}.

Definition _readVariableShowStmt (msg : PgQuery__VariableShowStmt.t PgQuery__Node)
    : outcome (VariableShowStmt.t Node) :=
  Ok {| VariableShowStmt.name := READ_STRING_FIELD msg.(PgQuery__VariableShowStmt.name) |}.

Definition _readCreateStmt (msg : PgQuery__CreateStmt.t PgQuery__Node)
    : outcome (CreateStmt.t Node) :=
  let* f1 := READ_SPECIFIC_NODE_PTR_FIELD _readRangeVar msg.(PgQuery__CreateStmt.relation) in
  let* f2 := READ_LIST_FIELD msg.(PgQuery__CreateStmt.table_elts) in
  let* f3 := READ_LIST_FIELD msg.(PgQuery__CreateStmt.inh_relations) in
  let* f4 := READ_SPECIFIC_NODE_PTR_FIELD _readPartitionBoundSpec msg.(PgQuery__CreateStmt.partbound) in
  let* f5 := READ_SPECIFIC_NODE_PTR_FIELD _readPartitionSpec msg.(PgQuery__CreateStmt.partspec) in
  let* f6 := READ_SPECIFIC_NODE_PTR_FIELD _readTypeName msg.(PgQuery__CreateStmt.of_typename) in
  let* f7 := READ_LIST_FIELD msg.(PgQuery__CreateStmt.constraints) in
  let* f8 := READ_LIST_FIELD msg.(PgQuery__CreateStmt.options) in
  Ok {| CreateStmt.relation := f1;
        CreateStmt.tableElts := f2;
        CreateStmt.inhRelations := f3;
        CreateStmt.partbound := f4;
        CreateStmt.partspec := f5;
        CreateStmt.ofTypename := f6;
        CreateStmt.constraints := f7;
        CreateStmt.options := f8;
        CreateStmt.oncommit := _intToEnumOnCommitAction msg.(PgQuery__CreateStmt.oncommit);
        CreateStmt.tablespacename := READ_STRING_FIELD msg.(PgQuery__CreateStmt.tablespacename);
        CreateStmt.accessMethod := READ_STRING_FIELD msg.(PgQuery__CreateStmt.access_method);
        CreateStmt.if_not_exists := msg.(PgQuery__CreateStmt.if_not_exists) |}.

Definition _readCreateTableSpaceStmt (msg : PgQuery__CreateTableSpaceStmt.t PgQuery__Node)
    : outcome (CreateTableSpaceStmt.t Node) :=
  let* f1 := READ_SPECIFIC_NODE_PTR_FIELD _readRoleSpec msg.(PgQuery__CreateTableSpaceStmt.owner) in
  let* f2 := READ_LIST_FIELD msg.(PgQuery__CreateTableSpaceStmt.options) in
  Ok {| CreateTableSpaceStmt.tablespacename := READ_STRING_FIELD msg.(PgQuery__CreateTableSpaceStmt.tablespacename);
        CreateTableSpaceStmt.owner := f1;
        CreateTableSpaceStmt.location := READ_STRING_FIELD msg.(PgQuery__CreateTableSpaceStmt.location);
        CreateTableSpaceStmt.options := f2 |}.

Definition _readDropTableSpaceStmt (msg : PgQuery__DropTableSpaceStmt.t PgQuery__Node)
    : outcome (DropTableSpaceStmt.t Node) :=
  Ok {| DropTableSpaceStmt.tablespacename := READ_STRING_FIELD msg.(PgQuery__DropTableSpaceStmt.tablespacename);
        DropTableSpaceStmt.missing_ok := msg.(PgQuery__DropTableSpaceStmt.missing_ok) |}.

Definition _readAlterTableSpaceOptionsStmt (msg : PgQuery__AlterTableSpaceOptionsStmt.t PgQuery__Node)
    : outcome (AlterTableSpaceOptionsStmt.t Node) :=
  let* f1 := READ_LIST_FIELD msg.(PgQuery__AlterTableSpaceOptionsStmt.options) in
  Ok {| AlterTableSpaceOptionsStmt.tablespacename := READ_STRING_FIELD msg.(PgQuery__AlterTableSpaceOptionsStmt.tablespacename);
        AlterTableSpaceOptionsStmt.options := f1;
        AlterTableSpaceOptionsStmt.isReset := msg.(PgQuery__AlterTableSpaceOptionsStmt.is_reset) |}.

Definition _readAlterTableMoveAllStmt (msg : PgQuery__AlterTableMoveAllStmt.t PgQuery__Node)
    : outcome (AlterTableMoveAllStmt.t Node) :=
  let* f1 := READ_LIST_FIELD msg.(PgQuery__AlterTableMoveAllStmt.roles) in
  Ok {| AlterTableMoveAllStmt.orig_tablespacename := READ_STRING_FIELD msg.(PgQuery__AlterTableMoveAllStmt.orig_tablespacename);
        AlterTableMoveAllStmt.objtype := _intToEnumObjectType msg.(PgQuery__AlterTableMoveAllStmt.objtype);
        AlterTableMoveAllStmt.roles := f1;
        AlterTableMoveAllStmt.new_tablespacename := READ_STRING_FIELD msg.(PgQuery__AlterTableMoveAllStmt.new_tablespacename);
        AlterTableMoveAllStmt.nowait := msg.(PgQuery__AlterTableMoveAllStmt.nowait) |}.

Definition _readCreateExtensionStmt (msg : PgQuery__CreateExtensionStmt.t PgQuery__Node)
    : outcome (CreateExtensionStmt.t Node) :=
  let* f1 := READ_LIST_FIELD msg.(PgQuery__CreateExtensionStmt.options) in
  Ok {| CreateExtensionStmt.extname := READ_STRING_FIELD msg.(PgQuery__CreateExtensionStmt.extname);
        CreateExtensionStmt.if_not_exists := msg.(PgQuery__CreateExtensionStmt.if_not_exists);
        CreateExtensionStmt.options := f1 |}.

Definition _readAlterExtensionStmt (msg : PgQuery__AlterExtensionStmt.t PgQuery__Node)
    : outcome (AlterExtensionStmt.t Node) :=
  let* f1 := READ_LIST_FIELD msg.(PgQuery__AlterExtensionStmt.options) in
  Ok {| AlterExtensionStmt.extname := READ_STRING_FIELD msg.(PgQuery__AlterExtensionStmt.extname);
        AlterExtensionStmt.options := f1 |}.

Definition _readAlterExtensionContentsStmt (msg : PgQuery__AlterExtensionContentsStmt.t PgQuery__Node)
    : outcome (AlterExtensionContentsStmt.t Node) :=
  let* f1 := READ_NODE_PTR_FIELD msg.(PgQuery__AlterExtensionContentsStmt.object) in
  Ok {| AlterExtensionContentsStmt.extname := READ_STRING_FIELD msg.(PgQuery__AlterExtensionContentsStmt.extname);
        AlterExtensionContentsStmt.action := msg.(PgQuery__AlterExtensionContentsStmt.action);
        AlterExtensionContentsStmt.objtype := _intToEnumObjectType msg.(PgQuery__AlterExtensionContentsStmt.objtype);
        AlterExtensionContentsStmt.object := f1 |}.

Definition _readCreateFdwStmt (msg : PgQuery__CreateFdwStmt.t PgQuery__Node)
    : outcome (CreateFdwStmt.t Node) :=
  let* f1 := READ_LIST_FIELD msg.(PgQuery__CreateFdwStmt.func_options) in
  let* f2 := READ_LIST_FIELD msg.(PgQuery__CreateFdwStmt.options) in
  Ok {| CreateFdwStmt.fdwname := READ_STRING_FIELD msg.(PgQuery__CreateFdwStmt.fdwname);
        CreateFdwStmt.func_options := f1;
        CreateFdwStmt.options := f2 |}.

Definition _readAlterFdwStmt (msg : PgQuery__AlterFdwStmt.t PgQuery__Node)
    : outcome (AlterFdwStmt.t Node) :=
  let* f1 := READ_LIST_FIELD msg.(PgQuery__AlterFdwStmt.func_options) in
  let* f2 := READ_LIST_FIELD msg.(PgQuery__AlterFdwStmt.options) in
  Ok {| AlterFdwStmt.fdwname := READ_STRING_FIELD msg.(PgQuery__AlterFdwStmt.fdwname);
        AlterFdwStmt.func_options := f1;
        AlterFdwStmt.options := f2 |}.

Definition _readCreateForeignServerStmt (msg : PgQuery__CreateForeignServerStmt.t PgQuery__Node)
    : outcome (CreateForeignServerStmt.t Node) :=
  let* f1 := READ_LIST_FIELD msg.(PgQuery__CreateForeignServerStmt.options) in
  Ok {| CreateForeignServerStmt.servername := READ_STRING_FIELD msg.(PgQuery__CreateForeignServerStmt.servername);
        CreateForeignServerStmt.servertype := READ_STRING_FIELD msg.(PgQuery__CreateForeignServerStmt.servertype);
        CreateForeignServerStmt.version := READ_STRING_FIELD msg.(PgQuery__CreateForeignServerStmt.version);
        CreateForeignServerStmt.fdwname := READ_STRING_FIELD msg.(PgQuery__CreateForeignServerStmt.fdwname);
        CreateForeignServerStmt.if_not_exists := msg.(PgQuery__CreateForeignServerStmt.if_not_exists);
        CreateForeignServerStmt.options := f1 |}.

Definition _readAlterForeignServerStmt (msg : PgQuery__AlterForeignServerStmt.t PgQuery__Node)
    : outcome (AlterForeignServerStmt.t Node) :=
  let* f1 := READ_LIST_FIELD msg.(PgQuery__AlterForeignServerStmt.options) in
  Ok {| AlterForeignServerStmt.servername := READ_STRING_FIELD msg.(PgQuery__AlterForeignServerStmt.servername);
        AlterForeignServerStmt.version := READ_STRING_FIELD msg.(PgQuery__AlterForeignServerStmt.version);
        AlterForeignServerStmt.options := f1;
        AlterForeignServerStmt.has_version := msg.(PgQuery__AlterForeignServerStmt.has_version) |}.

Definition _readCreateForeignTableStmt (msg : PgQuery__CreateForeignTableStmt.t PgQuery__Node)
    : outcome (CreateForeignTableStmt.t Node) :=
  let* f1 := READ_SPECIFIC_NODE_FIELD _readCreateStmt msg.(PgQuery__CreateForeignTableStmt.base_stmt) in
  let* f2 := READ_LIST_FIELD msg.(PgQuery__CreateForeignTableStmt.options) in
  Ok {| CreateForeignTableStmt.base := f1;
        CreateForeignTableStmt.servername := READ_STRING_FIELD msg.(PgQuery__CreateForeignTableStmt.servername);
        CreateForeignTableStmt.options := f2 |}.

Definition _readCreateUserMappingStmt (msg : PgQuery__CreateUserMappingStmt.t PgQuery__Node)
    : outcome (CreateUserMappingStmt.t Node) :=
  let* f1 := READ_SPECIFIC_NODE_PTR_FIELD _readRoleSpec msg.(PgQuery__CreateUserMappingStmt.user) in
  let* f2 := READ_LIST_FIELD msg.(PgQuery__CreateUserMappingStmt.options) in
  Ok {| CreateUserMappingStmt.user := f1;
        CreateUserMappingStmt.servername := READ_STRING_FIELD msg.(PgQuery__CreateUserMappingStmt.servername);
        CreateUserMappingStmt.if_not_exists := msg.(PgQuery__CreateUserMappingStmt.if_not_exists);
        CreateUserMappingStmt.options := f2 |}.

Definition _readAlterUserMappingStmt (msg : PgQuery__AlterUserMappingStmt.t PgQuery__Node)
    : outcome (AlterUserMappingStmt.t Node) :=
  let* f1 := READ_SPECIFIC_NODE_PTR_FIELD _readRoleSpec msg.(PgQuery__AlterUserMappingStmt.user) in
  let* f2 := READ_LIST_FIELD msg.(PgQuery__AlterUserMappingStmt.options) in
  Ok {| AlterUserMappingStmt.user := f1;
        AlterUserMappingStmt.servername := READ_STRING_FIELD msg.(PgQuery__AlterUserMappingStmt.servername);
        AlterUserMappingStmt.options := f2 |}.

Definition _readDropUserMappingStmt (msg : PgQuery__DropUserMappingStmt.t PgQuery__Node)
    : outcome (DropUserMappingStmt.t Node) :=
  let* f1 := READ_SPECIFIC_NODE_PTR_FIELD _readRoleSpec msg.(PgQuery__DropUserMappingStmt.user) in
  Ok {| DropUserMappingStmt.user := f1;
        DropUserMappingStmt.servername := READ_STRING_FIELD msg.(PgQuery__DropUserMappingStmt.servername);
        DropUserMappingStmt.missing_ok := msg.(PgQuery__DropUserMappingStmt.missing_ok) |}.

Definition _readImportForeignSchemaStmt (msg : PgQuery__ImportForeignSchemaStmt.t PgQuery__Node)
    : outcome (ImportForeignSchemaStmt.t Node) :=
  let* f1 := READ_LIST_FIELD msg.(PgQuery__ImportForeignSchemaStmt.table_list) in
  let* f2 := READ_LIST_FIELD msg.(PgQuery__ImportForeignSchemaStmt.options) in
  Ok {| ImportForeignSchemaStmt.server_name := READ_STRING_FIELD msg.(PgQuery__ImportForeignSchemaStmt.server_name);
        ImportForeignSchemaStmt.remote_schema := READ_STRING_FIELD msg.(PgQuery__ImportForeignSchemaStmt.remote_schema);
        ImportForeignSchemaStmt.local_schema := READ_STRING_FIELD msg.(PgQuery__ImportForeignSchemaStmt.local_schema);
        ImportForeignSchemaStmt.list_type := _intToEnumImportForeignSchemaType msg.(PgQuery__ImportForeignSchemaStmt.list_type);
        ImportForeignSchemaStmt.table_list := f1;
        ImportForeignSchemaStmt.options := f2 |}.

Definition _readCreatePolicyStmt (msg : PgQuery__CreatePolicyStmt.t PgQuery__Node)
    : outcome (CreatePolicyStmt.t Node) :=
  let* f1 := READ_SPECIFIC_NODE_PTR_FIELD _readRangeVar msg.(PgQuery__CreatePolicyStmt.table) in
  let* f2 := READ_LIST_FIELD msg.(PgQuery__CreatePolicyStmt.roles) in
  let* f3 := READ_NODE_PTR_FIELD msg.(PgQuery__CreatePolicyStmt.qual) in
  let* f4 := READ_NODE_PTR_FIELD msg.(PgQuery__CreatePolicyStmt.with_check) in
  Ok {| CreatePolicyStmt.policy_name := READ_STRING_FIELD msg.(PgQuery__CreatePolicyStmt.policy_name);
        CreatePolicyStmt.table := f1;
        CreatePolicyStmt.cmd_name := READ_STRING_FIELD msg.(PgQuery__CreatePolicyStmt.cmd_name);
        CreatePolicyStmt.permissive := msg.(PgQuery__CreatePolicyStmt.permissive);
        CreatePolicyStmt.roles := f2;
        CreatePolicyStmt.qual := f3;
        CreatePolicyStmt.with_check := f4 |}.

Definition _readAlterPolicyStmt (msg : PgQuery__AlterPolicyStmt.t PgQuery__Node)
    : outcome (AlterPolicyStmt.t Node) :=
  let* f1 := READ_SPECIFIC_NODE_PTR_FIELD _readRangeVar msg.(PgQuery__AlterPolicyStmt.table) in
  let* f2 := READ_LIST_FIELD msg.(PgQuery__AlterPolicyStmt.roles) in
  let* f3 := READ_NODE_PTR_FIELD msg.(PgQuery__AlterPolicyStmt.qual) in
  let* f4 := READ_NODE_PTR_FIELD msg.(PgQuery__AlterPolicyStmt.with_check) in
  Ok {| AlterPolicyStmt.policy_name := READ_STRING_FIELD msg.(PgQuery__AlterPolicyStmt.policy_name);
        AlterPolicyStmt.table := f1;
        AlterPolicyStmt.roles := f2;
        AlterPolicyStmt.qual := f3;
        AlterPolicyStmt.with_check := f4 |}.

Definition _readCreateAmStmt (msg : PgQuery__CreateAmStmt.t PgQuery__Node)
    : outcome (CreateAmStmt.t Node) :=
  let* f1 := READ_LIST_FIELD msg.(PgQuery__CreateAmStmt.handler_name) in
  Ok {| CreateAmStmt.amname := READ_STRING_FIELD msg.(PgQuery__CreateAmStmt.amname);
        CreateAmStmt.handler_name := f1;
        CreateAmStmt.amtype := READ_CHAR_FIELD msg.(PgQuery__CreateAmStmt.amtype) |}.

Definition _readCreateTrigStmt (msg : PgQuery__CreateTrigStmt.t PgQuery__Node)
    : outcome (CreateTrigStmt.t Node) :=
  let* f1 := READ_SPECIFIC_NODE_PTR_FIELD _readRangeVar msg.(PgQuery__CreateTrigStmt.relation) in
  let* f2 := READ_LIST_FIELD msg.(PgQuery__CreateTrigStmt.funcname) in
  let* f3 := READ_LIST_FIELD msg.(PgQuery__CreateTrigStmt.args) in
  let* f4 := READ_LIST_FIELD msg.(PgQuery__CreateTrigStmt.columns) in
  let* f5 := READ_NODE_PTR_FIELD msg.(PgQuery__CreateTrigStmt.when_clause) in
  let* f6 := READ_LIST_FIELD msg.(PgQuery__CreateTrigStmt.transition_rels) in
  let* f7 := READ_SPECIFIC_NODE_PTR_FIELD _readRangeVar msg.(PgQuery__CreateTrigStmt.constrrel) in
  Ok {| CreateTrigStmt.trigname := READ_STRING_FIELD msg.(PgQuery__CreateTrigStmt.trigname);
        CreateTrigStmt.relation := f1;
        CreateTrigStmt.funcname := f2;
        CreateTrigStmt.args := f3;
        CreateTrigStmt.row := msg.(PgQuery__CreateTrigStmt.row);
        CreateTrigStmt.timing := msg.(PgQuery__CreateTrigStmt.timing);
        CreateTrigStmt.events := msg.(PgQuery__CreateTrigStmt.events);
        CreateTrigStmt.columns := f4;
        CreateTrigStmt.whenClause := f5;
        CreateTrigStmt.isconstraint := msg.(PgQuery__CreateTrigStmt.isconstraint);
        CreateTrigStmt.transitionRels := f6;
        CreateTrigStmt.deferrable := msg.(PgQuery__CreateTrigStmt.deferrable);
        CreateTrigStmt.initdeferred := msg.(PgQuery__CreateTrigStmt.initdeferred);
        CreateTrigStmt.constrrel := f7 |}.

Definition _readCreateEventTrigStmt (msg : PgQuery__CreateEventTrigStmt.t PgQuery__Node)
    : outcome (CreateEventTrigStmt.t Node) :=
  let* f1 := READ_LIST_FIELD msg.(PgQuery__CreateEventTrigStmt.whenclause) in
  let* f2 := READ_LIST_FIELD msg.(PgQuery__CreateEventTrigStmt.funcname) in
  Ok {| CreateEventTrigStmt.trigname := READ_STRING_FIELD msg.(PgQuery__CreateEventTrigStmt.trigname);
        CreateEventTrigStmt.eventname := READ_STRING_FIELD msg.(PgQuery__CreateEventTrigStmt.eventname);
        CreateEventTrigStmt.whenclause := f1;
        CreateEventTrigStmt.funcname := f2 |}.

Definition _readAlterEventTrigStmt (msg : PgQuery__AlterEventTrigStmt.t PgQuery__Node)
    : outcome (AlterEventTrigStmt.t Node) :=
  Ok {| AlterEventTrigStmt.trigname := READ_STRING_FIELD msg.(PgQuery__AlterEventTrigStmt.trigname);
        AlterEventTrigStmt.tgenabled := READ_CHAR_FIELD msg.(PgQuery__AlterEventTrigStmt.tgenabled) |}.

Definition _readCreatePLangStmt (msg : PgQuery__CreatePLangStmt.t PgQuery__Node)
    : outcome (CreatePLangStmt.t Node) :=
  let* f1 := READ_LIST_FIELD msg.(PgQuery__CreatePLangStmt.plhandler) in
  let* f2 := READ_LIST_FIELD msg.(PgQuery__CreatePLangStmt.plinline) in
  let* f3 := READ_LIST_FIELD msg.(PgQuery__CreatePLangStmt.plvalidator) in
  Ok {| CreatePLangStmt.replace := msg.(PgQuery__CreatePLangStmt.replace);
        CreatePLangStmt.plname := READ_STRING_FIELD msg.(PgQuery__CreatePLangStmt.plname);
        CreatePLangStmt.plhandler := f1;
        CreatePLangStmt.plinline := f2;
        CreatePLangStmt.plvalidator := f3;
        CreatePLangStmt.pltrusted := msg.(PgQuery__CreatePLangStmt.pltrusted) |}.

Definition _readCreateRoleStmt (msg : PgQuery__CreateRoleStmt.t PgQuery__Node)
    : outcome (CreateRoleStmt.t Node) :=
  let* f1 := READ_LIST_FIELD msg.(PgQuery__CreateRoleStmt.options) in
  Ok {| CreateRoleStmt.stmt_type := _intToEnumRoleStmtType msg.(PgQuery__CreateRoleStmt.stmt_type);
        CreateRoleStmt.role := READ_STRING_FIELD msg.(PgQuery__CreateRoleStmt.role);
        CreateRoleStmt.options := f1 |}.

Definition _readAlterRoleStmt (msg : PgQuery__AlterRoleStmt.t PgQuery__Node)
    : outcome (AlterRoleStmt.t Node) :=
  let* f1 := READ_SPECIFIC_NODE_PTR_FIELD _readRoleSpec msg.(PgQuery__AlterRoleStmt.role) in
  let* f2 := READ_LIST_FIELD msg.(PgQuery__AlterRoleStmt.options) in
  Ok {| AlterRoleStmt.role := f1;
        AlterRoleStmt.options := f2;
        AlterRoleStmt.action := msg.(PgQuery__AlterRoleStmt.action) |}.

Definition _readAlterRoleSetStmt (msg : PgQuery__AlterRoleSetStmt.t PgQuery__Node)
    : outcome (AlterRoleSetStmt.t Node) :=
  let* f1 := READ_SPECIFIC_NODE_PTR_FIELD _readRoleSpec msg.(PgQuery__AlterRoleSetStmt.role) in
  let* f2 := READ_SPECIFIC_NODE_PTR_FIELD _readVariableSetStmt msg.(PgQuery__AlterRoleSetStmt.setstmt) in
  Ok {| AlterRoleSetStmt.role := f1;
        AlterRoleSetStmt.database := READ_STRING_FIELD msg.(PgQuery__AlterRoleSetStmt.database);
        AlterRoleSetStmt.setstmt := f2 |}.

Definition _readDropRoleStmt (msg : PgQuery__DropRoleStmt.t PgQuery__Node)
    : outcome (DropRoleStmt.t Node) :=
  let* f1 := READ_LIST_FIELD msg.(PgQuery__DropRoleStmt.roles) in
  Ok {| DropRoleStmt.roles := f1;
        DropRoleStmt.missing_ok := msg.(PgQuery__DropRoleStmt.missing_ok) |}.

Definition _readCreateSeqStmt (msg : PgQuery__CreateSeqStmt.t PgQuery__Node)
    : outcome (CreateSeqStmt.t Node) :=
  let* f1 := READ_SPECIFIC_NODE_PTR_FIELD _readRangeVar msg.(PgQuery__CreateSeqStmt.sequence) in
  let* f2 := READ_LIST_FIELD msg.(PgQuery__CreateSeqStmt.options) in
  Ok {| CreateSeqStmt.sequence := f1;
        CreateSeqStmt.options := f2;
        CreateSeqStmt.ownerId := msg.(PgQuery__CreateSeqStmt.owner_id);
        CreateSeqStmt.for_identity := msg.(PgQuery__CreateSeqStmt.for_identity);
        CreateSeqStmt.if_not_exists := msg.(PgQuery__CreateSeqStmt.if_not_exists) |}.

Definition _readAlterSeqStmt (msg : PgQuery__AlterSeqStmt.t PgQuery__Node)
    : outcome (AlterSeqStmt.t Node) :=
  let* f1 := READ_SPECIFIC_NODE_PTR_FIELD _readRangeVar msg.(PgQuery__AlterSeqStmt.sequence) in
  let* f2 := READ_LIST_FIELD msg.(PgQuery__AlterSeqStmt.options) in
  Ok {| AlterSeqStmt.sequence := f1;
        AlterSeqStmt.options := f2;
        AlterSeqStmt.for_identity := msg.(PgQuery__AlterSeqStmt.for_identity);
        AlterSeqStmt.missing_ok := msg.(PgQuery__AlterSeqStmt.missing_ok) |}.

Definition _readDefineStmt (msg : PgQuery__DefineStmt.t PgQuery__Node)
    : outcome (DefineStmt.t Node) :=
  let* f1 := READ_LIST_FIELD msg.(PgQuery__DefineStmt.defnames) in
  let* f2 := READ_LIST_FIELD msg.(PgQuery__DefineStmt.args) in
  let* f3 := READ_LIST_FIELD msg.(PgQuery__DefineStmt.definition) in
  Ok {| DefineStmt.kind := _intToEnumObjectType msg.(PgQuery__DefineStmt.kind);
        DefineStmt.oldstyle := msg.(PgQuery__DefineStmt.oldstyle);
        DefineStmt.defnames := f1;
        DefineStmt.args := f2;
        DefineStmt.definition := f3;
        DefineStmt.if_not_exists := msg.(PgQuery__DefineStmt.if_not_exists);
        DefineStmt.replace := msg.(PgQuery__DefineStmt.replace) |}.

Definition _readCreateDomainStmt (msg : PgQuery__CreateDomainStmt.t PgQuery__Node)
    : outcome (CreateDomainStmt.t Node) :=
  let* f1 := READ_LIST_FIELD msg.(PgQuery__CreateDomainStmt.domainname) in
  let* f2 := READ_SPECIFIC_NODE_PTR_FIELD _readTypeName msg.(PgQuery__CreateDomainStmt.type_name) in
  let* f3 := READ_SPECIFIC_NODE_PTR_FIELD _readCollateClause msg.(PgQuery__CreateDomainStmt.coll_clause) in
  let* f4 := READ_LIST_FIELD msg.(PgQuery__CreateDomainStmt.constraints) in
  Ok {| CreateDomainStmt.domainname := f1;
        CreateDomainStmt.typeName := f2;
        CreateDomainStmt.collClause := f3;
        CreateDomainStmt.constraints := f4 |}.

Definition _readCreateOpClassStmt (msg : PgQuery__CreateOpClassStmt.t PgQuery__Node)
    : outcome (CreateOpClassStmt.t Node) :=
  let* f1 := READ_LIST_FIELD msg.(PgQuery__CreateOpClassStmt.opclassname) in
  let* f2 := READ_LIST_FIELD msg.(PgQuery__CreateOpClassStmt.opfamilyname) in
  let* f3 := READ_SPECIFIC_NODE_PTR_FIELD _readTypeName msg.(PgQuery__CreateOpClassStmt.datatype) in
  let* f4 := READ_LIST_FIELD msg.(PgQuery__CreateOpClassStmt.items) in
  Ok {| CreateOpClassStmt.opclassname := f1;
        CreateOpClassStmt.opfamilyname := f2;
        CreateOpClassStmt.amname := READ_STRING_FIELD msg.(PgQuery__CreateOpClassStmt.amname);
        CreateOpClassStmt.datatype := f3;
        CreateOpClassStmt.items := f4;
        CreateOpClassStmt.isDefault := msg.(PgQuery__CreateOpClassStmt.is_default) |}.

Definition _readCreateOpClassItem (msg : PgQuery__CreateOpClassItem.t PgQuery__Node)
    : outcome (CreateOpClassItem.t Node) :=
  let* f1 := READ_SPECIFIC_NODE_PTR_FIELD _readObjectWithArgs msg.(PgQuery__CreateOpClassItem.name) in
  let* f2 := READ_LIST_FIELD msg.(PgQuery__CreateOpClassItem.order_family) in
  let* f3 := READ_LIST_FIELD msg.(PgQuery__CreateOpClassItem.class_args) in
  let* f4 := READ_SPECIFIC_NODE_PTR_FIELD _readTypeName msg.(PgQuery__CreateOpClassItem.storedtype) in
  Ok {| CreateOpClassItem.itemtype := msg.(PgQuery__CreateOpClassItem.itemtype);
        CreateOpClassItem.name := f1;
        CreateOpClassItem.number := msg.(PgQuery__CreateOpClassItem.number);
        CreateOpClassItem.order_family := f2;
        CreateOpClassItem.class_args := f3;
        CreateOpClassItem.storedtype := f4 |}.

Definition _readCreateOpFamilyStmt (msg : PgQuery__CreateOpFamilyStmt.t PgQuery__Node)
    : outcome (CreateOpFamilyStmt.t Node) :=
  let* f1 := READ_LIST_FIELD msg.(PgQuery__CreateOpFamilyStmt.opfamilyname) in
  Ok {| CreateOpFamilyStmt.opfamilyname := f1;
        CreateOpFamilyStmt.amname := READ_STRING_FIELD msg.(PgQuery__CreateOpFamilyStmt.amname) |}.

Definition _readAlterOpFamilyStmt (msg : PgQuery__AlterOpFamilyStmt.t PgQuery__Node)
    : outcome (AlterOpFamilyStmt.t Node) :=
  let* f1 := READ_LIST_FIELD msg.(PgQuery__AlterOpFamilyStmt.opfamilyname) in
  let* f2 := READ_LIST_FIELD msg.(PgQuery__AlterOpFamilyStmt.items) in
  Ok {| AlterOpFamilyStmt.opfamilyname := f1;
        AlterOpFamilyStmt.amname := READ_STRING_FIELD msg.(PgQuery__AlterOpFamilyStmt.amname);
        AlterOpFamilyStmt.isDrop := msg.(PgQuery__AlterOpFamilyStmt.is_drop);
        AlterOpFamilyStmt.items := f2 |}.

Definition _readDropStmt (msg : PgQuery__DropStmt.t PgQuery__Node) : outcome (DropStmt.t Node) :=
  let* f1 := READ_LIST_FIELD msg.(PgQuery__DropStmt.objects) in
  Ok {| DropStmt.objects := f1;
        DropStmt.removeType := _intToEnumObjectType msg.(PgQuery__DropStmt.remove_type);
        DropStmt.behavior := _intToEnumDropBehavior msg.(PgQuery__DropStmt.behavior);
        DropStmt.missing_ok := msg.(PgQuery__DropStmt.missing_ok);
        DropStmt.concurrent := msg.(PgQuery__DropStmt.concurrent) |}.

Definition _readTruncateStmt (msg : PgQuery__TruncateStmt.t PgQuery__Node)
    : outcome (TruncateStmt.t Node) :=
  let* f1 := READ_LIST_FIELD msg.(PgQuery__TruncateStmt.relations) in
  Ok {| TruncateStmt.relations := f1;
        TruncateStmt.restart_seqs := msg.(PgQuery__TruncateStmt.restart_seqs);
        TruncateStmt.behavior := _intToEnumDropBehavior msg.(PgQuery__TruncateStmt.behavior) |}.

Definition _readCommentStmt (msg : PgQuery__CommentStmt.t PgQuery__Node)
    : outcome (CommentStmt.t Node) :=
  let* f1 := READ_NODE_PTR_FIELD msg.(PgQuery__CommentStmt.object) in
  Ok {| CommentStmt.objtype := _intToEnumObjectType msg.(PgQuery__CommentStmt.objtype);
        CommentStmt.object := f1;
        CommentStmt.comment := READ_STRING_FIELD msg.(PgQuery__CommentStmt.comment) |}.

Definition _readSecLabelStmt (msg : PgQuery__SecLabelStmt.t PgQuery__Node)
    : outcome (SecLabelStmt.t Node) :=
  let* f1 := READ_NODE_PTR_FIELD msg.(PgQuery__SecLabelStmt.object) in
  Ok {| SecLabelStmt.objtype := _intToEnumObjectType msg.(PgQuery__SecLabelStmt.objtype);
        SecLabelStmt.object := f1;
        SecLabelStmt.provider := READ_STRING_FIELD msg.(PgQuery__SecLabelStmt.provider);
        SecLabelStmt.label := READ_STRING_FIELD msg.(PgQuery__SecLabelStmt.label) |}.

Definition _readDeclareCursorStmt (msg : PgQuery__DeclareCursorStmt.t PgQuery__Node)
    : outcome (DeclareCursorStmt.t Node) :=
  let* f1 := READ_NODE_PTR_FIELD msg.(PgQuery__DeclareCursorStmt.query) in
  Ok {| DeclareCursorStmt.portalname := READ_STRING_FIELD msg.(PgQuery__DeclareCursorStmt.portalname);
        DeclareCursorStmt.options := msg.(PgQuery__DeclareCursorStmt.options);
        DeclareCursorStmt.query := f1 |}.

Definition _readClosePortalStmt (msg : PgQuery__ClosePortalStmt.t PgQuery__Node)
    : outcome (ClosePortalStmt.t Node) :=
  Ok {| ClosePortalStmt.portalname := READ_STRING_FIELD msg.(PgQuery__ClosePortalStmt.portalname) |}.

Definition _readFetchStmt (msg : PgQuery__FetchStmt.t PgQuery__Node) : outcome (FetchStmt.t Node) :=
  Ok {| FetchStmt.direction := _intToEnumFetchDirection msg.(PgQuery__FetchStmt.direction);
        FetchStmt.howMany := msg.(PgQuery__FetchStmt.how_many);
        FetchStmt.portalname := READ_STRING_FIELD msg.(PgQuery__FetchStmt.portalname);
        FetchStmt.ismove := msg.(PgQuery__FetchStmt.ismove) |}.

Definition _readIndexStmt (msg : PgQuery__IndexStmt.t PgQuery__Node) : outcome (IndexStmt.t Node) :=
  let* f1 := READ_SPECIFIC_NODE_PTR_FIELD _readRangeVar msg.(PgQuery__IndexStmt.relation) in
  let* f2 := READ_LIST_FIELD msg.(PgQuery__IndexStmt.index_params) in
  let* f3 := READ_LIST_FIELD msg.(PgQuery__IndexStmt.index_including_params) in
  let* f4 := READ_LIST_FIELD msg.(PgQuery__IndexStmt.options) in
  let* f5 := READ_NODE_PTR_FIELD msg.(PgQuery__IndexStmt.where_clause) in
  let* f6 := READ_LIST_FIELD msg.(PgQuery__IndexStmt.exclude_op_names) in
  Ok {| IndexStmt.idxname := READ_STRING_FIELD msg.(PgQuery__IndexStmt.idxname);
        IndexStmt.relation := f1;
        IndexStmt.accessMethod := READ_STRING_FIELD msg.(PgQuery__IndexStmt.access_method);
        IndexStmt.tableSpace := READ_STRING_FIELD msg.(PgQuery__IndexStmt.table_space);
        IndexStmt.indexParams := f2;
        IndexStmt.indexIncludingParams := f3;
        IndexStmt.options := f4;
        IndexStmt.whereClause := f5;
        IndexStmt.excludeOpNames := f6;
        IndexStmt.idxcomment := READ_STRING_FIELD msg.(PgQuery__IndexStmt.idxcomment);
        IndexStmt.indexOid := msg.(PgQuery__IndexStmt.index_oid);
        IndexStmt.oldNode := msg.(PgQuery__IndexStmt.old_node);
        IndexStmt.oldCreateSubid := msg.(PgQuery__IndexStmt.old_create_subid);
        IndexStmt.oldFirstRelfilenodeSubid := msg.(PgQuery__IndexStmt.old_first_relfilenode_subid);
        IndexStmt.unique := msg.(PgQuery__IndexStmt.unique);
        IndexStmt.primary := msg.(PgQuery__IndexStmt.primary);
        IndexStmt.isconstraint := msg.(PgQuery__IndexStmt.isconstraint);
        IndexStmt.deferrable := msg.(PgQuery__IndexStmt.deferrable);
        IndexStmt.initdeferred := msg.(PgQuery__IndexStmt.initdeferred);
        IndexStmt.transformed := msg.(PgQuery__IndexStmt.transformed);
        IndexStmt.concurrent := msg.(PgQuery__IndexStmt.concurrent);
        IndexStmt.if_not_exists := msg.(PgQuery__IndexStmt.if_not_exists);
        IndexStmt.reset_default_tblspc := msg.(PgQuery__IndexStmt.reset_default_tblspc) |}.

Definition _readCreateStatsStmt (msg : PgQuery__CreateStatsStmt.t PgQuery__Node)
    : outcome (CreateStatsStmt.t Node) :=
  let* f1 := READ_LIST_FIELD msg.(PgQuery__CreateStatsStmt.defnames) in
  let* f2 := READ_LIST_FIELD msg.(PgQuery__CreateStatsStmt.stat_types) in
  let* f3 := READ_LIST_FIELD msg.(PgQuery__CreateStatsStmt.exprs) in
  let* f4 := READ_LIST_FIELD msg.(PgQuery__CreateStatsStmt.relations) in
  Ok {| CreateStatsStmt.defnames := f1;
        CreateStatsStmt.stat_types := f2;
        CreateStatsStmt.exprs := f3;
        CreateStatsStmt.relations := f4;
        CreateStatsStmt.stxcomment := READ_STRING_FIELD msg.(PgQuery__CreateStatsStmt.stxcomment);
        CreateStatsStmt.if_not_exists := msg.(PgQuery__CreateStatsStmt.if_not_exists) |}.

Definition _readAlterStatsStmt (msg : PgQuery__AlterStatsStmt.t PgQuery__Node)
    : outcome (AlterStatsStmt.t Node) :=
  let* f1 := READ_LIST_FIELD msg.(PgQuery__AlterStatsStmt.defnames) in
  Ok {| AlterStatsStmt.defnames := f1;
        AlterStatsStmt.stxstattarget := msg.(PgQuery__AlterStatsStmt.stxstattarget);
        AlterStatsStmt.missing_ok := msg.(PgQuery__AlterStatsStmt.missing_ok) |}.

Definition _readCreateFunctionStmt (msg : PgQuery__CreateFunctionStmt.t PgQuery__Node)
    : outcome (CreateFunctionStmt.t Node) :=
  let* f1 := READ_LIST_FIELD msg.(PgQuery__CreateFunctionStmt.funcname) in
  let* f2 := READ_LIST_FIELD msg.(PgQuery__CreateFunctionStmt.parameters) in
  let* f3 := READ_SPECIFIC_NODE_PTR_FIELD _readTypeName msg.(PgQuery__CreateFunctionStmt.return_type) in
  let* f4 := READ_LIST_FIELD msg.(PgQuery__CreateFunctionStmt.options) in
  Ok {| CreateFunctionStmt.is_procedure := msg.(PgQuery__CreateFunctionStmt.is_procedure);
        CreateFunctionStmt.replace := msg.(PgQuery__CreateFunctionStmt.replace);
        CreateFunctionStmt.funcname := f1;
        CreateFunctionStmt.parameters := f2;
        CreateFunctionStmt.returnType := f3;
        CreateFunctionStmt.options := f4 |}.

Definition _readFunctionParameter (msg : PgQuery__FunctionParameter.t PgQuery__Node)
    : outcome (FunctionParameter.t Node) :=
  let* f1 := READ_SPECIFIC_NODE_PTR_FIELD _readTypeName msg.(PgQuery__FunctionParameter.arg_type) in
  let* f2 := READ_NODE_PTR_FIELD msg.(PgQuery__FunctionParameter.defexpr) in
  Ok {| FunctionParameter.name := READ_STRING_FIELD msg.(PgQuery__FunctionParameter.name);
        FunctionParameter.argType := f1;
        FunctionParameter.mode := _intToEnumFunctionParameterMode msg.(PgQuery__FunctionParameter.mode);
        FunctionParameter.defexpr := f2 |}.

Definition _readAlterFunctionStmt (msg : PgQuery__AlterFunctionStmt.t PgQuery__Node)
    : outcome (AlterFunctionStmt.t Node) :=
  let* f1 := READ_SPECIFIC_NODE_PTR_FIELD _readObjectWithArgs msg.(PgQuery__AlterFunctionStmt.func) in
  let* f2 := READ_LIST_FIELD msg.(PgQuery__AlterFunctionStmt.actions) in
  Ok {| AlterFunctionStmt.objtype := _intToEnumObjectType msg.(PgQuery__AlterFunctionStmt.objtype);
        AlterFunctionStmt.func := f1;
        AlterFunctionStmt.actions := f2 |}.

Definition _readDoStmt (msg : PgQuery__DoStmt.t PgQuery__Node) : outcome (DoStmt.t Node) :=
  let* f1 := READ_LIST_FIELD msg.(PgQuery__DoStmt.args) in
  Ok {| DoStmt.args := f1 |}.

Definition _readFuncExpr (msg : PgQuery__FuncExpr.t PgQuery__Node) : outcome (FuncExpr.t Node) :=
  let* f1 := READ_LIST_FIELD msg.(PgQuery__FuncExpr.args) in
  Ok {| FuncExpr.funcid := msg.(PgQuery__FuncExpr.funcid);
        FuncExpr.funcresulttype := msg.(PgQuery__FuncExpr.funcresulttype);
        FuncExpr.funcretset := msg.(PgQuery__FuncExpr.funcretset);
        FuncExpr.funcvariadic := msg.(PgQuery__FuncExpr.funcvariadic);
        FuncExpr.funcformat := _intToEnumCoercionForm msg.(PgQuery__FuncExpr.funcformat);
        FuncExpr.funccollid := msg.(PgQuery__FuncExpr.funccollid);
        FuncExpr.inputcollid := msg.(PgQuery__FuncExpr.inputcollid);
        FuncExpr.args := f1;
        FuncExpr.location := msg.(PgQuery__FuncExpr.location) |}.

Definition _readCallStmt (msg : PgQuery__CallStmt.t PgQuery__Node) : outcome (CallStmt.t Node) :=
  let* f1 := READ_SPECIFIC_NODE_PTR_FIELD _readFuncCall msg.(PgQuery__CallStmt.funccall) in
  let* f2 := READ_SPECIFIC_NODE_PTR_FIELD _readFuncExpr msg.(PgQuery__CallStmt.funcexpr) in
  Ok {| CallStmt.funccall := f1;
        CallStmt.funcexpr := f2 |}.

Definition _readRenameStmt (msg : PgQuery__RenameStmt.t PgQuery__Node)
    : outcome (RenameStmt.t Node) :=
  let* f1 := READ_SPECIFIC_NODE_PTR_FIELD _readRangeVar msg.(PgQuery__RenameStmt.relation) in
  let* f2 := READ_NODE_PTR_FIELD msg.(PgQuery__RenameStmt.object) in
  Ok {| RenameStmt.renameType := _intToEnumObjectType msg.(PgQuery__RenameStmt.rename_type);
        RenameStmt.relationType := _intToEnumObjectType msg.(PgQuery__RenameStmt.relation_type);
        RenameStmt.relation := f1;
        RenameStmt.object := f2;
        RenameStmt.subname := READ_STRING_FIELD msg.(PgQuery__RenameStmt.subname);
        RenameStmt.newname := READ_STRING_FIELD msg.(PgQuery__RenameStmt.newname);
        RenameStmt.behavior := _intToEnumDropBehavior msg.(PgQuery__RenameStmt.behavior);
        RenameStmt.missing_ok := msg.(PgQuery__RenameStmt.missing_ok) |}.

Definition _readAlterObjectDependsStmt (msg : PgQuery__AlterObjectDependsStmt.t PgQuery__Node)
    : outcome (AlterObjectDependsStmt.t Node) :=
  let* f1 := READ_SPECIFIC_NODE_PTR_FIELD _readRangeVar msg.(PgQuery__AlterObjectDependsStmt.relation) in
  let* f2 := READ_NODE_PTR_FIELD msg.(PgQuery__AlterObjectDependsStmt.object) in
  let* f3 := READ_VALUE_PTR_FIELD msg.(PgQuery__AlterObjectDependsStmt.extname) in
  Ok {| AlterObjectDependsStmt.objectType := _intToEnumObjectType msg.(PgQuery__AlterObjectDependsStmt.object_type);
        AlterObjectDependsStmt.relation := f1;
        AlterObjectDependsStmt.object := f2;
        AlterObjectDependsStmt.extname := f3;
        AlterObjectDependsStmt.remove := msg.(PgQuery__AlterObjectDependsStmt.remove) |}.

Definition _readAlterObjectSchemaStmt (msg : PgQuery__AlterObjectSchemaStmt.t PgQuery__Node)
    : outcome (AlterObjectSchemaStmt.t Node) :=
  let* f1 := READ_SPECIFIC_NODE_PTR_FIELD _readRangeVar msg.(PgQuery__AlterObjectSchemaStmt.relation) in
  let* f2 := READ_NODE_PTR_FIELD msg.(PgQuery__AlterObjectSchemaStmt.object) in
  Ok {| AlterObjectSchemaStmt.objectType := _intToEnumObjectType msg.(PgQuery__AlterObjectSchemaStmt.object_type);
        AlterObjectSchemaStmt.relation := f1;
        AlterObjectSchemaStmt.object := f2;
        AlterObjectSchemaStmt.newschema := READ_STRING_FIELD msg.(PgQuery__AlterObjectSchemaStmt.newschema);
        AlterObjectSchemaStmt.missing_ok := msg.(PgQuery__AlterObjectSchemaStmt.missing_ok) |}.

Definition _readAlterOwnerStmt (msg : PgQuery__AlterOwnerStmt.t PgQuery__Node)
    : outcome (AlterOwnerStmt.t Node) :=
  let* f1 := READ_SPECIFIC_NODE_PTR_FIELD _readRangeVar msg.(PgQuery__AlterOwnerStmt.relation) in
  let* f2 := READ_NODE_PTR_FIELD msg.(PgQuery__AlterOwnerStmt.object) in
  let* f3 := READ_SPECIFIC_NODE_PTR_FIELD _readRoleSpec msg.(PgQuery__AlterOwnerStmt.newowner) in
  Ok {| AlterOwnerStmt.objectType := _intToEnumObjectType msg.(PgQuery__AlterOwnerStmt.object_type);
        AlterOwnerStmt.relation := f1;
        AlterOwnerStmt.object := f2;
        AlterOwnerStmt.newowner := f3 |}.

Definition _readAlterOperatorStmt (msg : PgQuery__AlterOperatorStmt.t PgQuery__Node)
    : outcome (AlterOperatorStmt.t Node) :=
  let* f1 := READ_SPECIFIC_NODE_PTR_FIELD _readObjectWithArgs msg.(PgQuery__AlterOperatorStmt.opername) in
  let* f2 := READ_LIST_FIELD msg.(PgQuery__AlterOperatorStmt.options) in
  Ok {| AlterOperatorStmt.opername := f1;
        AlterOperatorStmt.options := f2 |}.

Definition _readAlterTypeStmt (msg : PgQuery__AlterTypeStmt.t PgQuery__Node)
    : outcome (AlterTypeStmt.t Node) :=
  let* f1 := READ_LIST_FIELD msg.(PgQuery__AlterTypeStmt.type_name) in
  let* f2 := READ_LIST_FIELD msg.(PgQuery__AlterTypeStmt.options) in
  Ok {| AlterTypeStmt.typeName := f1;
        AlterTypeStmt.options := f2 |}.

Definition _readRuleStmt (msg : PgQuery__RuleStmt.t PgQuery__Node) : outcome (RuleStmt.t Node) :=
  let* f1 := READ_SPECIFIC_NODE_PTR_FIELD _readRangeVar msg.(PgQuery__RuleStmt.relation) in
  let* f2 := READ_NODE_PTR_FIELD msg.(PgQuery__RuleStmt.where_clause) in
  let* f3 := READ_LIST_FIELD msg.(PgQuery__RuleStmt.actions) in
  Ok {| RuleStmt.relation := f1;
        RuleStmt.rulename := READ_STRING_FIELD msg.(PgQuery__RuleStmt.rulename);
        RuleStmt.whereClause := f2;
        RuleStmt.event := _intToEnumCmdType msg.(PgQuery__RuleStmt.event);
        RuleStmt.instead := msg.(PgQuery__RuleStmt.instead);
        RuleStmt.actions := f3;
        RuleStmt.replace := msg.(PgQuery__RuleStmt.replace) |}.

Definition _readNotifyStmt (msg : PgQuery__NotifyStmt.t PgQuery__Node)
    : outcome (NotifyStmt.t Node) :=
  Ok {| NotifyStmt.conditionname := READ_STRING_FIELD msg.(PgQuery__NotifyStmt.conditionname);
        NotifyStmt.payload := READ_STRING_FIELD msg.(PgQuery__NotifyStmt.payload) |}.

Definition _readListenStmt (msg : PgQuery__ListenStmt.t PgQuery__Node)
    : outcome (ListenStmt.t Node) :=
  Ok {| ListenStmt.conditionname := READ_STRING_FIELD msg.(PgQuery__ListenStmt.conditionname) |}.

Definition _readUnlistenStmt (msg : PgQuery__UnlistenStmt.t PgQuery__Node)
    : outcome (UnlistenStmt.t Node) :=
  Ok {| UnlistenStmt.conditionname := READ_STRING_FIELD msg.(PgQuery__UnlistenStmt.conditionname) |}.

Definition _readTransactionStmt (msg : PgQuery__TransactionStmt.t PgQuery__Node)
    : outcome (TransactionStmt.t Node) :=
  let* f1 := READ_LIST_FIELD msg.(PgQuery__TransactionStmt.options) in
  Ok {| TransactionStmt.kind := _intToEnumTransactionStmtKind msg.(PgQuery__TransactionStmt.kind);
        TransactionStmt.options := f1;
        TransactionStmt.savepoint_name := READ_STRING_FIELD msg.(PgQuery__TransactionStmt.savepoint_name);
        TransactionStmt.gid := READ_STRING_FIELD msg.(PgQuery__TransactionStmt.gid);
        TransactionStmt.chain := msg.(PgQuery__TransactionStmt.chain) |}.

Definition _readCompositeTypeStmt (msg : PgQuery__CompositeTypeStmt.t PgQuery__Node)
    : outcome (CompositeTypeStmt.t Node) :=
  let* f1 := READ_SPECIFIC_NODE_PTR_FIELD _readRangeVar msg.(PgQuery__CompositeTypeStmt.typevar) in
  let* f2 := READ_LIST_FIELD msg.(PgQuery__CompositeTypeStmt.coldeflist) in
  Ok {| CompositeTypeStmt.typevar := f1;
        CompositeTypeStmt.coldeflist := f2 |}.

Definition _readCreateEnumStmt (msg : PgQuery__CreateEnumStmt.t PgQuery__Node)
    : outcome (CreateEnumStmt.t Node) :=
  let* f1 := READ_LIST_FIELD msg.(PgQuery__CreateEnumStmt.type_name) in
  let* f2 := READ_LIST_FIELD msg.(PgQuery__CreateEnumStmt.vals) in
  Ok {| CreateEnumStmt.typeName := f1;
        CreateEnumStmt.vals := f2 |}.

Definition _readCreateRangeStmt (msg : PgQuery__CreateRangeStmt.t PgQuery__Node)
    : outcome (CreateRangeStmt.t Node) :=
  let* f1 := READ_LIST_FIELD msg.(PgQuery__CreateRangeStmt.type_name) in
  let* f2 := READ_LIST_FIELD msg.(PgQuery__CreateRangeStmt.params) in
  Ok {| CreateRangeStmt.typeName := f1;
        CreateRangeStmt.params := f2 |}.

Definition _readAlterEnumStmt (msg : PgQuery__AlterEnumStmt.t PgQuery__Node)
    : outcome (AlterEnumStmt.t Node) :=
  let* f1 := READ_LIST_FIELD msg.(PgQuery__AlterEnumStmt.type_name) in
  Ok {| AlterEnumStmt.typeName := f1;
        AlterEnumStmt.oldVal := READ_STRING_FIELD msg.(PgQuery__AlterEnumStmt.old_val);
        AlterEnumStmt.newVal := READ_STRING_FIELD msg.(PgQuery__AlterEnumStmt.new_val);
        AlterEnumStmt.newValNeighbor := READ_STRING_FIELD msg.(PgQuery__AlterEnumStmt.new_val_neighbor);
        AlterEnumStmt.newValIsAfter := msg.(PgQuery__AlterEnumStmt.new_val_is_after);
        AlterEnumStmt.skipIfNewValExists := msg.(PgQuery__AlterEnumStmt.skip_if_new_val_exists) |}.

Definition _readViewStmt (msg : PgQuery__ViewStmt.t PgQuery__Node) : outcome (ViewStmt.t Node) :=
  let* f1 := READ_SPECIFIC_NODE_PTR_FIELD _readRangeVar msg.(PgQuery__ViewStmt.view) in
  let* f2 := READ_LIST_FIELD msg.(PgQuery__ViewStmt.aliases) in
  let* f3 := READ_NODE_PTR_FIELD msg.(PgQuery__ViewStmt.query) in
  let* f4 := READ_LIST_FIELD msg.(PgQuery__ViewStmt.options) in
  Ok {| ViewStmt.view := f1;
        ViewStmt.aliases := f2;
        ViewStmt.query := f3;
        ViewStmt.replace := msg.(PgQuery__ViewStmt.replace);
        ViewStmt.options := f4;
        ViewStmt.withCheckOption := _intToEnumViewCheckOption msg.(PgQuery__ViewStmt.with_check_option) |}.

Definition _readLoadStmt (msg : PgQuery__LoadStmt.t PgQuery__Node) : outcome (LoadStmt.t Node) :=
  Ok {| LoadStmt.filename := READ_STRING_FIELD msg.(PgQuery__LoadStmt.filename) |}.

Definition _readCreatedbStmt (msg : PgQuery__CreatedbStmt.t PgQuery__Node)
    : outcome (CreatedbStmt.t Node) :=
  let* f1 := READ_LIST_FIELD msg.(PgQuery__CreatedbStmt.options) in
  Ok {| CreatedbStmt.dbname := READ_STRING_FIELD msg.(PgQuery__CreatedbStmt.dbname);
        CreatedbStmt.options := f1 |}.

Definition _readAlterDatabaseStmt (msg : PgQuery__AlterDatabaseStmt.t PgQuery__Node)
    : outcome (AlterDatabaseStmt.t Node) :=
  let* f1 := READ_LIST_FIELD msg.(PgQuery__AlterDatabaseStmt.options) in
  Ok {| AlterDatabaseStmt.dbname := READ_STRING_FIELD msg.(PgQuery__AlterDatabaseStmt.dbname);
        AlterDatabaseStmt.options := f1 |}.

Definition _readAlterDatabaseSetStmt (msg : PgQuery__AlterDatabaseSetStmt.t PgQuery__Node)
    : outcome (AlterDatabaseSetStmt.t Node) :=
  let* f1 := READ_SPECIFIC_NODE_PTR_FIELD _readVariableSetStmt msg.(PgQuery__AlterDatabaseSetStmt.setstmt) in
  Ok {| AlterDatabaseSetStmt.dbname := READ_STRING_FIELD msg.(PgQuery__AlterDatabaseSetStmt.dbname);
        AlterDatabaseSetStmt.setstmt := f1 |}.

Definition _readDropdbStmt (msg : PgQuery__DropdbStmt.t PgQuery__Node)
    : outcome (DropdbStmt.t Node) :=
  let* f1 := READ_LIST_FIELD msg.(PgQuery__DropdbStmt.options) in
  Ok {| DropdbStmt.dbname := READ_STRING_FIELD msg.(PgQuery__DropdbStmt.dbname);
        DropdbStmt.missing_ok := msg.(PgQuery__DropdbStmt.missing_ok);
        DropdbStmt.options := f1 |}.

Definition _readAlterSystemStmt (msg : PgQuery__AlterSystemStmt.t PgQuery__Node)
    : outcome (AlterSystemStmt.t Node) :=
  let* f1 := READ_SPECIFIC_NODE_PTR_FIELD _readVariableSetStmt msg.(PgQuery__AlterSystemStmt.setstmt) in
  Ok {| AlterSystemStmt.setstmt := f1 |}.

Definition _readClusterStmt (msg : PgQuery__ClusterStmt.t PgQuery__Node)
    : outcome (ClusterStmt.t Node) :=
  let* f1 := READ_SPECIFIC_NODE_PTR_FIELD _readRangeVar msg.(PgQuery__ClusterStmt.relation) in
  Ok {| ClusterStmt.relation := f1;
        ClusterStmt.indexname := READ_STRING_FIELD msg.(PgQuery__ClusterStmt.indexname);
        ClusterStmt.options := msg.(PgQuery__ClusterStmt.options) |}.

Definition _readVacuumStmt (msg : PgQuery__VacuumStmt.t PgQuery__Node)
    : outcome (VacuumStmt.t Node) :=
  let* f1 := READ_LIST_FIELD msg.(PgQuery__VacuumStmt.options) in
  let* f2 := READ_LIST_FIELD msg.(PgQuery__VacuumStmt.rels) in
  Ok {| VacuumStmt.options := f1;
        VacuumStmt.rels := f2;
        VacuumStmt.is_vacuumcmd := msg.(PgQuery__VacuumStmt.is_vacuumcmd) |}.

Definition _readVacuumRelation (msg : PgQuery__VacuumRelation.t PgQuery__Node)
    : outcome (VacuumRelation.t Node) :=
  let* f1 := READ_SPECIFIC_NODE_PTR_FIELD _readRangeVar msg.(PgQuery__VacuumRelation.relation) in
  let* f2 := READ_LIST_FIELD msg.(PgQuery__VacuumRelation.va_cols) in
  Ok {| VacuumRelation.relation := f1;
        VacuumRelation.oid := msg.(PgQuery__VacuumRelation.oid);
        VacuumRelation.va_cols := f2 |}.

Definition _readExplainStmt (msg : PgQuery__ExplainStmt.t PgQuery__Node)
    : outcome (ExplainStmt.t Node) :=
  let* f1 := READ_NODE_PTR_FIELD msg.(PgQuery__ExplainStmt.query) in
  let* f2 := READ_LIST_FIELD msg.(PgQuery__ExplainStmt.options) in
  Ok {| ExplainStmt.query := f1;
        ExplainStmt.options := f2 |}.

Definition _readCreateTableAsStmt (msg : PgQuery__CreateTableAsStmt.t PgQuery__Node)
    : outcome (CreateTableAsStmt.t Node) :=
  let* f1 := READ_NODE_PTR_FIELD msg.(PgQuery__CreateTableAsStmt.query) in
  let* f2 := READ_SPECIFIC_NODE_PTR_FIELD _readIntoClause msg.(PgQuery__CreateTableAsStmt.into) in
  Ok {| CreateTableAsStmt.query := f1;
        CreateTableAsStmt.into := f2;
        CreateTableAsStmt.relkind := _intToEnumObjectType msg.(PgQuery__CreateTableAsStmt.relkind);
        CreateTableAsStmt.is_select_into := msg.(PgQuery__CreateTableAsStmt.is_select_into);
        CreateTableAsStmt.if_not_exists := msg.(PgQuery__CreateTableAsStmt.if_not_exists) |}.

Definition _readRefreshMatViewStmt (msg : PgQuery__RefreshMatViewStmt.t PgQuery__Node)
    : outcome (RefreshMatViewStmt.t Node) :=
  let* f1 := READ_SPECIFIC_NODE_PTR_FIELD _readRangeVar msg.(PgQuery__RefreshMatViewStmt.relation) in
  Ok {| RefreshMatViewStmt.concurrent := msg.(PgQuery__RefreshMatViewStmt.concurrent);
        RefreshMatViewStmt.skipData := msg.(PgQuery__RefreshMatViewStmt.skip_data);
        RefreshMatViewStmt.relation := f1 |}.

Definition _readCheckPointStmt (msg : PgQuery__CheckPointStmt.t PgQuery__Node)
    : outcome (CheckPointStmt.t Node) :=
  Ok CheckPointStmt.mk.

Definition _readDiscardStmt (msg : PgQuery__DiscardStmt.t PgQuery__Node)
    : outcome (DiscardStmt.t Node) :=
  Ok {| DiscardStmt.target := _intToEnumDiscardMode msg.(PgQuery__DiscardStmt.target) |}.

Definition _readLockStmt (msg : PgQuery__LockStmt.t PgQuery__Node) : outcome (LockStmt.t Node) :=
  let* f1 := READ_LIST_FIELD msg.(PgQuery__LockStmt.relations) in
  Ok {| LockStmt.relations := f1;
        LockStmt.mode := msg.(PgQuery__LockStmt.mode);
        LockStmt.nowait := msg.(PgQuery__LockStmt.nowait) |}.

Definition _readConstraintsSetStmt (msg : PgQuery__ConstraintsSetStmt.t PgQuery__Node)
    : outcome (ConstraintsSetStmt.t Node) :=
  let* f1 := READ_LIST_FIELD msg.(PgQuery__ConstraintsSetStmt.constraints) in
  Ok {| ConstraintsSetStmt.constraints := f1;
        ConstraintsSetStmt.deferred := msg.(PgQuery__ConstraintsSetStmt.deferred) |}.

Definition _readReindexStmt (msg : PgQuery__ReindexStmt.t PgQuery__Node)
    : outcome (ReindexStmt.t Node) :=
  let* f1 := READ_SPECIFIC_NODE_PTR_FIELD _readRangeVar msg.(PgQuery__ReindexStmt.relation) in
  Ok {| ReindexStmt.kind := _intToEnumReindexObjectType msg.(PgQuery__ReindexStmt.kind);
        ReindexStmt.relation := f1;
        ReindexStmt.name := READ_STRING_FIELD msg.(PgQuery__ReindexStmt.name);
        ReindexStmt.options := msg.(PgQuery__ReindexStmt.options);
        ReindexStmt.concurrent := msg.(PgQuery__ReindexStmt.concurrent) |}.

Definition _readCreateConversionStmt (msg : PgQuery__CreateConversionStmt.t PgQuery__Node)
    : outcome (CreateConversionStmt.t Node) :=
  let* f1 := READ_LIST_FIELD msg.(PgQuery__CreateConversionStmt.conversion_name) in
  let* f2 := READ_LIST_FIELD msg.(PgQuery__CreateConversionStmt.func_name) in
  Ok {| CreateConversionStmt.conversion_name := f1;
        CreateConversionStmt.for_encoding_name := READ_STRING_FIELD msg.(PgQuery__CreateConversionStmt.for_encoding_name);
        CreateConversionStmt.to_encoding_name := READ_STRING_FIELD msg.(PgQuery__CreateConversionStmt.to_encoding_name);
        CreateConversionStmt.func_name := f2;
        CreateConversionStmt.def := msg.(PgQuery__CreateConversionStmt.def) |}.

Definition _readCreateCastStmt (msg : PgQuery__CreateCastStmt.t PgQuery__Node)
    : outcome (CreateCastStmt.t Node) :=
  let* f1 := READ_SPECIFIC_NODE_PTR_FIELD _readTypeName msg.(PgQuery__CreateCastStmt.sourcetype) in
  let* f2 := READ_SPECIFIC_NODE_PTR_FIELD _readTypeName msg.(PgQuery__CreateCastStmt.targettype) in
  let* f3 := READ_SPECIFIC_NODE_PTR_FIELD _readObjectWithArgs msg.(PgQuery__CreateCastStmt.func) in
  Ok {| CreateCastStmt.sourcetype := f1;
        CreateCastStmt.targettype := f2;
        CreateCastStmt.func := f3;
        CreateCastStmt.context := _intToEnumCoercionContext msg.(PgQuery__CreateCastStmt.context);
        CreateCastStmt.inout := msg.(PgQuery__CreateCastStmt.inout) |}.

Definition _readCreateTransformStmt (msg : PgQuery__CreateTransformStmt.t PgQuery__Node)
    : outcome (CreateTransformStmt.t Node) :=
  let* f1 := READ_SPECIFIC_NODE_PTR_FIELD _readTypeName msg.(PgQuery__CreateTransformStmt.type_name) in
  let* f2 := READ_SPECIFIC_NODE_PTR_FIELD _readObjectWithArgs msg.(PgQuery__CreateTransformStmt.fromsql) in
  let* f3 := READ_SPECIFIC_NODE_PTR_FIELD _readObjectWithArgs msg.(PgQuery__CreateTransformStmt.tosql) in
  Ok {| CreateTransformStmt.replace := msg.(PgQuery__CreateTransformStmt.replace);
        CreateTransformStmt.type_name := f1;
        CreateTransformStmt.lang := READ_STRING_FIELD msg.(PgQuery__CreateTransformStmt.lang);
        CreateTransformStmt.fromsql := f2;
        CreateTransformStmt.tosql := f3 |}.

Definition _readPrepareStmt (msg : PgQuery__PrepareStmt.t PgQuery__Node)
    : outcome (PrepareStmt.t Node) :=
  let* f1 := READ_LIST_FIELD msg.(PgQuery__PrepareStmt.argtypes) in
  let* f2 := READ_NODE_PTR_FIELD msg.(PgQuery__PrepareStmt.query) in
  Ok {| PrepareStmt.name := READ_STRING_FIELD msg.(PgQuery__PrepareStmt.name);
        PrepareStmt.argtypes := f1;
        PrepareStmt.query := f2 |}.

Definition _readExecuteStmt (msg : PgQuery__ExecuteStmt.t PgQuery__Node)
    : outcome (ExecuteStmt.t Node) :=
  let* f1 := READ_LIST_FIELD msg.(PgQuery__ExecuteStmt.params) in
  Ok {| ExecuteStmt.name := READ_STRING_FIELD msg.(PgQuery__ExecuteStmt.name);
        ExecuteStmt.params := f1 |}.

Definition _readDeallocateStmt (msg : PgQuery__DeallocateStmt.t PgQuery__Node)
    : outcome (DeallocateStmt.t Node) :=
  Ok {| DeallocateStmt.name := READ_STRING_FIELD msg.(PgQuery__DeallocateStmt.name) |}.

Definition _readDropOwnedStmt (msg : PgQuery__DropOwnedStmt.t PgQuery__Node)
    : outcome (DropOwnedStmt.t Node) :=
  let* f1 := READ_LIST_FIELD msg.(PgQuery__DropOwnedStmt.roles) in
  Ok {| DropOwnedStmt.roles := f1;
        DropOwnedStmt.behavior := _intToEnumDropBehavior msg.(PgQuery__DropOwnedStmt.behavior) |}.

Definition _readReassignOwnedStmt (msg : PgQuery__ReassignOwnedStmt.t PgQuery__Node)
    : outcome (ReassignOwnedStmt.t Node) :=
  let* f1 := READ_LIST_FIELD msg.(PgQuery__ReassignOwnedStmt.roles) in
  let* f2 := READ_SPECIFIC_NODE_PTR_FIELD _readRoleSpec msg.(PgQuery__ReassignOwnedStmt.newrole) in
  Ok {| ReassignOwnedStmt.roles := f1;
        ReassignOwnedStmt.newrole := f2 |}.

Definition _readAlterTSDictionaryStmt (msg : PgQuery__AlterTSDictionaryStmt.t PgQuery__Node)
    : outcome (AlterTSDictionaryStmt.t Node) :=
  let* f1 := READ_LIST_FIELD msg.(PgQuery__AlterTSDictionaryStmt.dictname) in
  let* f2 := READ_LIST_FIELD msg.(PgQuery__AlterTSDictionaryStmt.options) in
  Ok {| AlterTSDictionaryStmt.dictname := f1;
        AlterTSDictionaryStmt.options := f2 |}.

Definition _readAlterTSConfigurationStmt (msg : PgQuery__AlterTSConfigurationStmt.t PgQuery__Node)
    : outcome (AlterTSConfigurationStmt.t Node) :=
  let* f1 := READ_LIST_FIELD msg.(PgQuery__AlterTSConfigurationStmt.cfgname) in
  let* f2 := READ_LIST_FIELD msg.(PgQuery__AlterTSConfigurationStmt.tokentype) in
  let* f3 := READ_LIST_FIELD msg.(PgQuery__AlterTSConfigurationStmt.dicts) in
  Ok {| AlterTSConfigurationStmt.kind := _intToEnumAlterTSConfigType msg.(PgQuery__AlterTSConfigurationStmt.kind);
        AlterTSConfigurationStmt.cfgname := f1;
        AlterTSConfigurationStmt.tokentype := f2;
        AlterTSConfigurationStmt.dicts := f3;
        AlterTSConfigurationStmt.override := msg.(PgQuery__AlterTSConfigurationStmt.override);
        AlterTSConfigurationStmt.replace := msg.(PgQuery__AlterTSConfigurationStmt.replace);
        AlterTSConfigurationStmt.missing_ok := msg.(PgQuery__AlterTSConfigurationStmt.missing_ok) |}.

Definition _readCreatePublicationStmt (msg : PgQuery__CreatePublicationStmt.t PgQuery__Node)
    : outcome (CreatePublicationStmt.t Node) :=
  let* f1 := READ_LIST_FIELD msg.(PgQuery__CreatePublicationStmt.options) in
  let* f2 := READ_LIST_FIELD msg.(PgQuery__CreatePublicationStmt.tables) in
  Ok {| CreatePublicationStmt.pubname := READ_STRING_FIELD msg.(PgQuery__CreatePublicationStmt.pubname);
        CreatePublicationStmt.options := f1;
        CreatePublicationStmt.tables := f2;
        CreatePublicationStmt.for_all_tables := msg.(PgQuery__CreatePublicationStmt.for_all_tables) |}.

Definition _readAlterPublicationStmt (msg : PgQuery__AlterPublicationStmt.t PgQuery__Node)
    : outcome (AlterPublicationStmt.t Node) :=
  let* f1 := READ_LIST_FIELD msg.(PgQuery__AlterPublicationStmt.options) in
  let* f2 := READ_LIST_FIELD msg.(PgQuery__AlterPublicationStmt.tables) in
  Ok {| AlterPublicationStmt.pubname := READ_STRING_FIELD msg.(PgQuery__AlterPublicationStmt.pubname);
        AlterPublicationStmt.options := f1;
        AlterPublicationStmt.tables := f2;
        AlterPublicationStmt.for_all_tables := msg.(PgQuery__AlterPublicationStmt.for_all_tables);
        AlterPublicationStmt.tableAction := _intToEnumDefElemAction msg.(PgQuery__AlterPublicationStmt.table_action) |}.

Definition _readCreateSubscriptionStmt (msg : PgQuery__CreateSubscriptionStmt.t PgQuery__Node)
    : outcome (CreateSubscriptionStmt.t Node) :=
  let* f1 := READ_LIST_FIELD msg.(PgQuery__CreateSubscriptionStmt.publication) in
  let* f2 := READ_LIST_FIELD msg.(PgQuery__CreateSubscriptionStmt.options) in
  Ok {| CreateSubscriptionStmt.subname := READ_STRING_FIELD msg.(PgQuery__CreateSubscriptionStmt.subname);
        CreateSubscriptionStmt.conninfo := READ_STRING_FIELD msg.(PgQuery__CreateSubscriptionStmt.conninfo);
        CreateSubscriptionStmt.publication := f1;
        CreateSubscriptionStmt.options := f2 |}.

Definition _readAlterSubscriptionStmt (msg : PgQuery__AlterSubscriptionStmt.t PgQuery__Node)
    : outcome (AlterSubscriptionStmt.t Node) :=
  let* f1 := READ_LIST_FIELD msg.(PgQuery__AlterSubscriptionStmt.publication) in
  let* f2 := READ_LIST_FIELD msg.(PgQuery__AlterSubscriptionStmt.options) in
  Ok {| AlterSubscriptionStmt.kind := _intToEnumAlterSubscriptionType msg.(PgQuery__AlterSubscriptionStmt.kind);
        AlterSubscriptionStmt.subname := READ_STRING_FIELD msg.(PgQuery__AlterSubscriptionStmt.subname);
        AlterSubscriptionStmt.conninfo := READ_STRING_FIELD msg.(PgQuery__AlterSubscriptionStmt.conninfo);
        AlterSubscriptionStmt.publication := f1;
        AlterSubscriptionStmt.options := f2 |}.

Definition _readDropSubscriptionStmt (msg : PgQuery__DropSubscriptionStmt.t PgQuery__Node)
    : outcome (DropSubscriptionStmt.t Node) :=
  Ok {| DropSubscriptionStmt.subname := READ_STRING_FIELD msg.(PgQuery__DropSubscriptionStmt.subname);
        DropSubscriptionStmt.missing_ok := msg.(PgQuery__DropSubscriptionStmt.missing_ok);
        DropSubscriptionStmt.behavior := _intToEnumDropBehavior msg.(PgQuery__DropSubscriptionStmt.behavior) |}.

(** The [switch] of [_readNode], with [src/pg_query_readfuncs_conds.c]. *)
Definition _readNode_body (msg : PgQuery__Node) : outcome Node :=
  match msg with
  | Node_range_var m => let* node := _readRangeVar m in Ok (N_RangeVar node)
  | Node_alias m => let* node := _readAlias m in Ok (N_Alias node)
  | Node_type_name m => let* node := _readTypeName m in Ok (N_TypeName node)
  | Node_column_ref m => let* node := _readColumnRef m in Ok (N_ColumnRef node)
  | Node_param_ref m => let* node := _readParamRef m in Ok (N_ParamRef node)
  | Node_a_expr m => let* node := _readAExpr m in Ok (N_A_Expr node)
  | Node_a_const m => let* node := _readAConst m in Ok (N_A_Const node)
  | Node_type_cast m => let* node := _readTypeCast m in Ok (N_TypeCast node)
  | Node_collate_clause m => let* node := _readCollateClause m in Ok (N_CollateClause node)
  | Node_role_spec m => let* node := _readRoleSpec m in Ok (N_RoleSpec node)
  | Node_window_def m => let* node := _readWindowDef m in Ok (N_WindowDef node)
  | Node_sort_by m => let* node := _readSortBy m in Ok (N_SortBy node)
  | Node_func_call m => let* node := _readFuncCall m in Ok (N_FuncCall node)
  | Node_a_star m => let* node := _readAStar m in Ok (N_A_Star node)
  | Node_a_indices m => let* node := _readAIndices m in Ok (N_A_Indices node)
  | Node_a_indirection m => let* node := _readAIndirection m in Ok (N_A_Indirection node)
  | Node_a_array_expr m => let* node := _readAArrayExpr m in Ok (N_A_ArrayExpr node)
  | Node_res_target m => let* node := _readResTarget m in Ok (N_ResTarget node)
  | Node_multi_assign_ref m => let* node := _readMultiAssignRef m in Ok (N_MultiAssignRef node)
  | Node_named_arg_expr m => let* node := _readNamedArgExpr m in Ok (N_NamedArgExpr node)
  | Node_bool_expr m => let* node := _readBoolExpr m in Ok (N_BoolExpr node)
  | Node_sub_link m => let* node := _readSubLink m in Ok (N_SubLink node)
  | Node_case_when m => let* node := _readCaseWhen m in Ok (N_CaseWhen node)
  | Node_case_expr m => let* node := _readCaseExpr m in Ok (N_CaseExpr node)
  | Node_row_expr m => let* node := _readRowExpr m in Ok (N_RowExpr node)
  | Node_coalesce_expr m => let* node := _readCoalesceExpr m in Ok (N_CoalesceExpr node)
  | Node_min_max_expr m => let* node := _readMinMaxExpr m in Ok (N_MinMaxExpr node)
  | Node_sqlvalue_function m => let* node := _readSQLValueFunction m in Ok (N_SQLValueFunction node)
  | Node_xml_expr m => let* node := _readXmlExpr m in Ok (N_XmlExpr node)
  | Node_xml_serialize m => let* node := _readXmlSerialize m in Ok (N_XmlSerialize node)
  | Node_null_test m => let* node := _readNullTest m in Ok (N_NullTest node)
  | Node_boolean_test m => let* node := _readBooleanTest m in Ok (N_BooleanTest node)
  | Node_set_to_default m => let* node := _readSetToDefault m in Ok (N_SetToDefault node)
  | Node_current_of_expr m => let* node := _readCurrentOfExpr m in Ok (N_CurrentOfExpr node)
  | Node_grouping_func m => let* node := _readGroupingFunc m in Ok (N_GroupingFunc node)
  | Node_def_elem m => let* node := _readDefElem m in Ok (N_DefElem node)
  | Node_index_elem m => let* node := _readIndexElem m in Ok (N_IndexElem node)
  | Node_constraint m => let* node := _readConstraint m in Ok (N_Constraint node)
  | Node_column_def m => let* node := _readColumnDef m in Ok (N_ColumnDef node)
  | Node_join_expr m => let* node := _readJoinExpr m in Ok (N_JoinExpr node)
  | Node_range_subselect m => let* node := _readRangeSubselect m in Ok (N_RangeSubselect node)
  | Node_range_function m => let* node := _readRangeFunction m in Ok (N_RangeFunction node)
  | Node_range_table_func_col m => let* node := _readRangeTableFuncCol m in Ok (N_RangeTableFuncCol node)
  | Node_range_table_func m => let* node := _readRangeTableFunc m in Ok (N_RangeTableFunc node)
  | Node_range_table_sample m => let* node := _readRangeTableSample m in Ok (N_RangeTableSample node)
  | Node_common_table_expr m => let* node := _readCommonTableExpr m in Ok (N_CommonTableExpr node)
  | Node_with_clause m => let* node := _readWithClause m in Ok (N_WithClause node)
  | Node_infer_clause m => let* node := _readInferClause m in Ok (N_InferClause node)
  | Node_on_conflict_clause m => let* node := _readOnConflictClause m in Ok (N_OnConflictClause node)
  | Node_locking_clause m => let* node := _readLockingClause m in Ok (N_LockingClause node)
  | Node_grouping_set m => let* node := _readGroupingSet m in Ok (N_GroupingSet node)
  | Node_into_clause m => let* node := _readIntoClause m in Ok (N_IntoClause node)
  | Node_select_stmt m => let* node := _readSelectStmt m in Ok (N_SelectStmt node)
  | Node_insert_stmt m => let* node := _readInsertStmt m in Ok (N_InsertStmt node)
  | Node_update_stmt m => let* node := _readUpdateStmt m in Ok (N_UpdateStmt node)
  | Node_delete_stmt m => let* node := _readDeleteStmt m in Ok (N_DeleteStmt node)
  | Node_raw_stmt m => let* node := _readRawStmt m in Ok (N_RawStmt node)
  | Node_alter_table_cmd m => let* node := _readAlterTableCmd m in Ok (N_AlterTableCmd node)
  | Node_partition_bound_spec m => let* node := _readPartitionBoundSpec m in Ok (N_PartitionBoundSpec node)
  | Node_table_like_clause m => let* node := _readTableLikeClause m in Ok (N_TableLikeClause node)
  | Node_partition_elem m => let* node := _readPartitionElem m in Ok (N_PartitionElem node)
  | Node_partition_spec m => let* node := _readPartitionSpec m in Ok (N_PartitionSpec node)
  | Node_partition_cmd m => let* node := _readPartitionCmd m in Ok (N_PartitionCmd node)
  | Node_trigger_transition m => let* node := _readTriggerTransition m in Ok (N_TriggerTransition node)
  | Node_create_schema_stmt m => let* node := _readCreateSchemaStmt m in Ok (N_CreateSchemaStmt node)
  | Node_alter_table_stmt m => let* node := _readAlterTableStmt m in Ok (N_AlterTableStmt node)
  | Node_replica_identity_stmt m => let* node := _readReplicaIdentityStmt m in Ok (N_ReplicaIdentityStmt node)
  | Node_alter_collation_stmt m => let* node := _readAlterCollationStmt m in Ok (N_AlterCollationStmt node)
  | Node_alter_domain_stmt m => let* node := _readAlterDomainStmt m in Ok (N_AlterDomainStmt node)
  | Node_grant_stmt m => let* node := _readGrantStmt m in Ok (N_GrantStmt node)
  | Node_object_with_args m => let* node := _readObjectWithArgs m in Ok (N_ObjectWithArgs node)
  | Node_access_priv m => let* node := _readAccessPriv m in Ok (N_AccessPriv node)
  | Node_grant_role_stmt m => let* node := _readGrantRoleStmt m in Ok (N_GrantRoleStmt node)
  | Node_alter_default_privileges_stmt m => let* node := _readAlterDefaultPrivilegesStmt m in Ok (N_AlterDefaultPrivilegesStmt node)
  | Node_copy_stmt m => let* node := _readCopyStmt m in Ok (N_CopyStmt node)
  | Node_variable_set_stmt m => let* node := _readVariableSetStmt m in Ok (N_VariableSetStmt node)
  | Node_variable_show_stmt m => let* node := _readVariableShowStmt m in Ok (N_VariableShowStmt node)
  | Node_create_stmt m => let* node := _readCreateStmt m in Ok (N_CreateStmt node)
  | Node_create_table_space_stmt m => let* node := _readCreateTableSpaceStmt m in Ok (N_CreateTableSpaceStmt node)
  | Node_drop_table_space_stmt m => let* node := _readDropTableSpaceStmt m in Ok (N_DropTableSpaceStmt node)
  | Node_alter_table_space_options_stmt m => let* node := _readAlterTableSpaceOptionsStmt m in Ok (N_AlterTableSpaceOptionsStmt node)
  | Node_alter_table_move_all_stmt m => let* node := _readAlterTableMoveAllStmt m in Ok (N_AlterTableMoveAllStmt node)
  | Node_create_extension_stmt m => let* node := _readCreateExtensionStmt m in Ok (N_CreateExtensionStmt node)
  | Node_alter_extension_stmt m => let* node := _readAlterExtensionStmt m in Ok (N_AlterExtensionStmt node)
  | Node_alter_extension_contents_stmt m => let* node := _readAlterExtensionContentsStmt m in Ok (N_AlterExtensionContentsStmt node)
  | Node_create_fdw_stmt m => let* node := _readCreateFdwStmt m in Ok (N_CreateFdwStmt node)
  | Node_alter_fdw_stmt m => let* node := _readAlterFdwStmt m in Ok (N_AlterFdwStmt node)
  | Node_create_foreign_server_stmt m => let* node := _readCreateForeignServerStmt m in Ok (N_CreateForeignServerStmt node)
  | Node_alter_foreign_server_stmt m => let* node := _readAlterForeignServerStmt m in Ok (N_AlterForeignServerStmt node)
  | Node_create_foreign_table_stmt m => let* node := _readCreateForeignTableStmt m in Ok (N_CreateForeignTableStmt node)
  | Node_create_user_mapping_stmt m => let* node := _readCreateUserMappingStmt m in Ok (N_CreateUserMappingStmt node)
  | Node_alter_user_mapping_stmt m => let* node := _readAlterUserMappingStmt m in Ok (N_AlterUserMappingStmt node)
  | Node_drop_user_mapping_stmt m => let* node := _readDropUserMappingStmt m in Ok (N_DropUserMappingStmt node)
  | Node_import_foreign_schema_stmt m => let* node := _readImportForeignSchemaStmt m in Ok (N_ImportForeignSchemaStmt node)
  | Node_create_policy_stmt m => let* node := _readCreatePolicyStmt m in Ok (N_CreatePolicyStmt node)
  | Node_alter_policy_stmt m => let* node := _readAlterPolicyStmt m in Ok (N_AlterPolicyStmt node)
  | Node_create_am_stmt m => let* node := _readCreateAmStmt m in Ok (N_CreateAmStmt node)
  | Node_create_trig_stmt m => let* node := _readCreateTrigStmt m in Ok (N_CreateTrigStmt node)
  | Node_create_event_trig_stmt m => let* node := _readCreateEventTrigStmt m in Ok (N_CreateEventTrigStmt node)
  | Node_alter_event_trig_stmt m => let* node := _readAlterEventTrigStmt m in Ok (N_AlterEventTrigStmt node)
  | Node_create_plang_stmt m => let* node := _readCreatePLangStmt m in Ok (N_CreatePLangStmt node)
  | Node_create_role_stmt m => let* node := _readCreateRoleStmt m in Ok (N_CreateRoleStmt node)
  | Node_alter_role_stmt m => let* node := _readAlterRoleStmt m in Ok (N_AlterRoleStmt node)
  | Node_alter_role_set_stmt m => let* node := _readAlterRoleSetStmt m in Ok (N_AlterRoleSetStmt node)
  | Node_drop_role_stmt m => let* node := _readDropRoleStmt m in Ok (N_DropRoleStmt node)
  | Node_create_seq_stmt m => let* node := _readCreateSeqStmt m in Ok (N_CreateSeqStmt node)
  | Node_alter_seq_stmt m => let* node := _readAlterSeqStmt m in Ok (N_AlterSeqStmt node)
  | Node_define_stmt m => let* node := _readDefineStmt m in Ok (N_DefineStmt node)
  | Node_create_domain_stmt m => let* node := _readCreateDomainStmt m in Ok (N_CreateDomainStmt node)
  | Node_create_op_class_stmt m => let* node := _readCreateOpClassStmt m in Ok (N_CreateOpClassStmt node)
  | Node_create_op_class_item m => let* node := _readCreateOpClassItem m in Ok (N_CreateOpClassItem node)
  | Node_create_op_family_stmt m => let* node := _readCreateOpFamilyStmt m in Ok (N_CreateOpFamilyStmt node)
  | Node_alter_op_family_stmt m => let* node := _readAlterOpFamilyStmt m in Ok (N_AlterOpFamilyStmt node)
  | Node_drop_stmt m => let* node := _readDropStmt m in Ok (N_DropStmt node)
  | Node_truncate_stmt m => let* node := _readTruncateStmt m in Ok (N_TruncateStmt node)
  | Node_comment_stmt m => let* node := _readCommentStmt m in Ok (N_CommentStmt node)
  | Node_sec_label_stmt m => let* node := _readSecLabelStmt m in Ok (N_SecLabelStmt node)
  | Node_declare_cursor_stmt m => let* node := _readDeclareCursorStmt m in Ok (N_DeclareCursorStmt node)
  | Node_close_portal_stmt m => let* node := _readClosePortalStmt m in Ok (N_ClosePortalStmt node)
  | Node_fetch_stmt m => let* node := _readFetchStmt m in Ok (N_FetchStmt node)
  | Node_index_stmt m => let* node := _readIndexStmt m in Ok (N_IndexStmt node)
  | Node_create_stats_stmt m => let* node := _readCreateStatsStmt m in Ok (N_CreateStatsStmt node)
  | Node_alter_stats_stmt m => let* node := _readAlterStatsStmt m in Ok (N_AlterStatsStmt node)
  | Node_create_function_stmt m => let* node := _readCreateFunctionStmt m in Ok (N_CreateFunctionStmt node)
  | Node_function_parameter m => let* node := _readFunctionParameter m in Ok (N_FunctionParameter node)
  | Node_alter_function_stmt m => let* node := _readAlterFunctionStmt m in Ok (N_AlterFunctionStmt node)
  | Node_do_stmt m => let* node := _readDoStmt m in Ok (N_DoStmt node)
  | Node_call_stmt m => let* node := _readCallStmt m in Ok (N_CallStmt node)
  | Node_rename_stmt m => let* node := _readRenameStmt m in Ok (N_RenameStmt node)
  | Node_alter_object_depends_stmt m => let* node := _readAlterObjectDependsStmt m in Ok (N_AlterObjectDependsStmt node)
  | Node_alter_object_schema_stmt m => let* node := _readAlterObjectSchemaStmt m in Ok (N_AlterObjectSchemaStmt node)
  | Node_alter_owner_stmt m => let* node := _readAlterOwnerStmt m in Ok (N_AlterOwnerStmt node)
  | Node_alter_operator_stmt m => let* node := _readAlterOperatorStmt m in Ok (N_AlterOperatorStmt node)
  | Node_alter_type_stmt m => let* node := _readAlterTypeStmt m in Ok (N_AlterTypeStmt node)
  | Node_rule_stmt m => let* node := _readRuleStmt m in Ok (N_RuleStmt node)
  | Node_notify_stmt m => let* node := _readNotifyStmt m in Ok (N_NotifyStmt node)
  | Node_listen_stmt m => let* node := _readListenStmt m in Ok (N_ListenStmt node)
  | Node_unlisten_stmt m => let* node := _readUnlistenStmt m in Ok (N_UnlistenStmt node)
  | Node_transaction_stmt m => let* node := _readTransactionStmt m in Ok (N_TransactionStmt node)
  | Node_composite_type_stmt m => let* node := _readCompositeTypeStmt m in Ok (N_CompositeTypeStmt node)
  | Node_create_enum_stmt m => let* node := _readCreateEnumStmt m in Ok (N_CreateEnumStmt node)
  | Node_create_range_stmt m => let* node := _readCreateRangeStmt m in Ok (N_CreateRangeStmt node)
  | Node_alter_enum_stmt m => let* node := _readAlterEnumStmt m in Ok (N_AlterEnumStmt node)
  | Node_view_stmt m => let* node := _readViewStmt m in Ok (N_ViewStmt node)
  | Node_load_stmt m => let* node := _readLoadStmt m in Ok (N_LoadStmt node)
  | Node_createdb_stmt m => let* node := _readCreatedbStmt m in Ok (N_CreatedbStmt node)
  | Node_alter_database_stmt m => let* node := _readAlterDatabaseStmt m in Ok (N_AlterDatabaseStmt node)
  | Node_alter_database_set_stmt m => let* node := _readAlterDatabaseSetStmt m in Ok (N_AlterDatabaseSetStmt node)
  | Node_dropdb_stmt m => let* node := _readDropdbStmt m in Ok (N_DropdbStmt node)
  | Node_alter_system_stmt m => let* node := _readAlterSystemStmt m in Ok (N_AlterSystemStmt node)
  | Node_cluster_stmt m => let* node := _readClusterStmt m in Ok (N_ClusterStmt node)
  | Node_vacuum_stmt m => let* node := _readVacuumStmt m in Ok (N_VacuumStmt node)
  | Node_vacuum_relation m => let* node := _readVacuumRelation m in Ok (N_VacuumRelation node)
  | Node_explain_stmt m => let* node := _readExplainStmt m in Ok (N_ExplainStmt node)
  | Node_create_table_as_stmt m => let* node := _readCreateTableAsStmt m in Ok (N_CreateTableAsStmt node)
  | Node_refresh_mat_view_stmt m => let* node := _readRefreshMatViewStmt m in Ok (N_RefreshMatViewStmt node)
  | Node_check_point_stmt m => let* node := _readCheckPointStmt m in Ok (N_CheckPointStmt node)
  | Node_discard_stmt m => let* node := _readDiscardStmt m in Ok (N_DiscardStmt node)
  | Node_lock_stmt m => let* node := _readLockStmt m in Ok (N_LockStmt node)
  | Node_constraints_set_stmt m => let* node := _readConstraintsSetStmt m in Ok (N_ConstraintsSetStmt node)
  | Node_reindex_stmt m => let* node := _readReindexStmt m in Ok (N_ReindexStmt node)
  | Node_create_conversion_stmt m => let* node := _readCreateConversionStmt m in Ok (N_CreateConversionStmt node)
  | Node_create_cast_stmt m => let* node := _readCreateCastStmt m in Ok (N_CreateCastStmt node)
  | Node_create_transform_stmt m => let* node := _readCreateTransformStmt m in Ok (N_CreateTransformStmt node)
  | Node_prepare_stmt m => let* node := _readPrepareStmt m in Ok (N_PrepareStmt node)
  | Node_execute_stmt m => let* node := _readExecuteStmt m in Ok (N_ExecuteStmt node)
  | Node_deallocate_stmt m => let* node := _readDeallocateStmt m in Ok (N_DeallocateStmt node)
  | Node_drop_owned_stmt m => let* node := _readDropOwnedStmt m in Ok (N_DropOwnedStmt node)
  | Node_reassign_owned_stmt m => let* node := _readReassignOwnedStmt m in Ok (N_ReassignOwnedStmt node)
  | Node_alter_tsdictionary_stmt m => let* node := _readAlterTSDictionaryStmt m in Ok (N_AlterTSDictionaryStmt node)
  | Node_alter_tsconfiguration_stmt m => let* node := _readAlterTSConfigurationStmt m in Ok (N_AlterTSConfigurationStmt node)
  | Node_create_publication_stmt m => let* node := _readCreatePublicationStmt m in Ok (N_CreatePublicationStmt node)
  | Node_alter_publication_stmt m => let* node := _readAlterPublicationStmt m in Ok (N_AlterPublicationStmt node)
  | Node_create_subscription_stmt m => let* node := _readCreateSubscriptionStmt m in Ok (N_CreateSubscriptionStmt node)
  | Node_alter_subscription_stmt m => let* node := _readAlterSubscriptionStmt m in Ok (N_AlterSubscriptionStmt node)
  | Node_drop_subscription_stmt m => let* node := _readDropSubscriptionStmt m in Ok (N_DropSubscriptionStmt node)
  | Node_func_expr m => let* node := _readFuncExpr m in Ok (N_FuncExpr node)
  | Node_integer ival => Ok (N_Value (Integer ival))
  | Node_float str => Ok (N_Value (Float str))
  | Node_string str => Ok (N_Value (String_ str))
  | Node_bit_string str => Ok (N_Value (BitString str))
  | Node_null => Ok (N_Value Null)
  | Node_list items => let* l := _readList items in Ok (N_List l)
  | Node_not_set => Ok (N_List [])        (* NULL *)
  | Node_int_list _ => unsupported 227
  | Node_oid_list _ => unsupported 228
  | Node_other _ => Undef
  end.
End readfuncs.

Fixpoint _readNode (msg : PgQuery__Node) : outcome Node := _readNode_body _readNode msg.
