(* ===== verification/TreeCheck.v ===== *)
(** * Conditions on the fields of a tree

    [check c n]: every field of the tree [n], in all its structs, passes the test
    that [c] has for its type, and all nodes are of kinds that occur in raw parse
    trees. *)
From S2P Require Import Prelude Buffer Enums Nodes.

Record field_checks : Type := mkChecks {
  check_string : option string -> bool;
  check_char : ascii -> bool;
  check_ints : list Z -> bool;
  nil_pointer : bool     (* whether a pointer to a node may point to an empty list *)
}.

Section check.
Variable c : field_checks.
Variable self : Node -> bool.

Definition check_list (l : list Node) : bool := forallb self l.
Definition check_struct {A} (f : A -> bool) (p : option A) : bool :=
  match p with Some x => f x | None => true end.
Definition check_ptr (p : option Node) : bool :=
  match p with Some (N_List []) => c.(nil_pointer) | Some n => self n | None => true end.
Definition check_select (p : option Node) : bool :=
  match p with Some n => IsA_SelectStmt n && self n | None => true end.


Definition check_Alias (x : Alias.t Node) : bool :=
  c.(check_string) x.(Alias.aliasname) && check_list x.(Alias.colnames).

Definition check_RangeVar (x : RangeVar.t Node) : bool :=
  c.(check_string) x.(RangeVar.catalogname) && c.(check_string) x.(RangeVar.schemaname) &&
  c.(check_string) x.(RangeVar.relname) && c.(check_char) x.(RangeVar.relpersistence) &&
  check_struct check_Alias x.(RangeVar.alias).

Definition check_TypeName (x : TypeName.t Node) : bool :=
  check_list x.(TypeName.names) && check_list x.(TypeName.typmods) &&
  check_list x.(TypeName.arrayBounds).

Definition check_ColumnRef (x : ColumnRef.t Node) : bool :=
  check_list x.(ColumnRef.fields).

Definition check_A_Expr (x : A_Expr.t Node) : bool :=
  check_list x.(A_Expr.name) && check_ptr x.(A_Expr.lexpr) && check_ptr x.(A_Expr.rexpr).

Definition check_TypeCast (x : TypeCast.t Node) : bool :=
  check_ptr x.(TypeCast.arg) && check_struct check_TypeName x.(TypeCast.typeName).

Definition check_CollateClause (x : CollateClause.t Node) : bool :=
  check_ptr x.(CollateClause.arg) && check_list x.(CollateClause.collname).

Definition check_RoleSpec (x : RoleSpec.t Node) : bool :=
  c.(check_string) x.(RoleSpec.rolename).

Definition check_WindowDef (x : WindowDef.t Node) : bool :=
  c.(check_string) x.(WindowDef.name) && c.(check_string) x.(WindowDef.refname) &&
  check_list x.(WindowDef.partitionClause) && check_list x.(WindowDef.orderClause) &&
  check_ptr x.(WindowDef.startOffset) && check_ptr x.(WindowDef.endOffset).

Definition check_SortBy (x : SortBy.t Node) : bool :=
  check_ptr x.(SortBy.node) && check_list x.(SortBy.useOp).

Definition check_FuncCall (x : FuncCall.t Node) : bool :=
  check_list x.(FuncCall.funcname) && check_list x.(FuncCall.args) &&
  check_list x.(FuncCall.agg_order) && check_ptr x.(FuncCall.agg_filter) &&
  check_struct check_WindowDef x.(FuncCall.over).

Definition check_A_Indices (x : A_Indices.t Node) : bool :=
  check_ptr x.(A_Indices.lidx) && check_ptr x.(A_Indices.uidx).

Definition check_A_Indirection (x : A_Indirection.t Node) : bool :=
  check_ptr x.(A_Indirection.arg) && check_list x.(A_Indirection.indirection).

Definition check_A_ArrayExpr (x : A_ArrayExpr.t Node) : bool :=
  check_list x.(A_ArrayExpr.elements).

Definition check_ResTarget (x : ResTarget.t Node) : bool :=
  c.(check_string) x.(ResTarget.name) && check_list x.(ResTarget.indirection) &&
  check_ptr x.(ResTarget.val).

Definition check_MultiAssignRef (x : MultiAssignRef.t Node) : bool :=
  check_ptr x.(MultiAssignRef.source).

Definition check_NamedArgExpr (x : NamedArgExpr.t Node) : bool :=
  check_ptr x.(NamedArgExpr.arg) && c.(check_string) x.(NamedArgExpr.name).

Definition check_BoolExpr (x : BoolExpr.t Node) : bool :=
  check_list x.(BoolExpr.args).

Definition check_SubLink (x : SubLink.t Node) : bool :=
  check_ptr x.(SubLink.testexpr) && check_list x.(SubLink.operName) &&
  check_ptr x.(SubLink.subselect).

Definition check_CaseWhen (x : CaseWhen.t Node) : bool :=
  check_ptr x.(CaseWhen.expr) && check_ptr x.(CaseWhen.result).

Definition check_CaseExpr (x : CaseExpr.t Node) : bool :=
  check_ptr x.(CaseExpr.arg) && check_list x.(CaseExpr.args) && check_ptr x.(CaseExpr.defresult).

Definition check_RowExpr (x : RowExpr.t Node) : bool :=
  check_list x.(RowExpr.args) && check_list x.(RowExpr.colnames).

Definition check_CoalesceExpr (x : CoalesceExpr.t Node) : bool :=
  check_list x.(CoalesceExpr.args).

Definition check_MinMaxExpr (x : MinMaxExpr.t Node) : bool :=
  check_list x.(MinMaxExpr.args).

Definition check_XmlExpr (x : XmlExpr.t Node) : bool :=
  c.(check_string) x.(XmlExpr.name) && check_list x.(XmlExpr.named_args) &&
  check_list x.(XmlExpr.arg_names) && check_list x.(XmlExpr.args).

Definition check_XmlSerialize (x : XmlSerialize.t Node) : bool :=
  check_ptr x.(XmlSerialize.expr) && check_struct check_TypeName x.(XmlSerialize.typeName).

Definition check_NullTest (x : NullTest.t Node) : bool :=
  check_ptr x.(NullTest.arg).

Definition check_BooleanTest (x : BooleanTest.t Node) : bool :=
  check_ptr x.(BooleanTest.arg).

Definition check_CurrentOfExpr (x : CurrentOfExpr.t Node) : bool :=
  c.(check_string) x.(CurrentOfExpr.cursor_name).

Definition check_GroupingFunc (x : GroupingFunc.t Node) : bool :=
  check_list x.(GroupingFunc.args) && c.(check_ints) x.(GroupingFunc.refs) &&
  c.(check_ints) x.(GroupingFunc.cols).

Definition check_DefElem (x : DefElem.t Node) : bool :=
  c.(check_string) x.(DefElem.defnamespace) && c.(check_string) x.(DefElem.defname) &&
  check_ptr x.(DefElem.arg).

Definition check_IndexElem (x : IndexElem.t Node) : bool :=
  c.(check_string) x.(IndexElem.name) && check_ptr x.(IndexElem.expr) &&
  c.(check_string) x.(IndexElem.indexcolname) && check_list x.(IndexElem.collation) &&
  check_list x.(IndexElem.opclass) && check_list x.(IndexElem.opclassopts).

Definition check_Constraint (x : Constraint.t Node) : bool :=
  c.(check_string) x.(Constraint.conname) && check_ptr x.(Constraint.raw_expr) &&
  c.(check_string) x.(Constraint.cooked_expr) && c.(check_char) x.(Constraint.generated_when) &&
  check_list x.(Constraint.keys) && check_list x.(Constraint.including) &&
  check_list x.(Constraint.exclusions) && check_list x.(Constraint.options) &&
  c.(check_string) x.(Constraint.indexname) && c.(check_string) x.(Constraint.indexspace) &&
  c.(check_string) x.(Constraint.access_method) && check_ptr x.(Constraint.where_clause) &&
  check_struct check_RangeVar x.(Constraint.pktable) && check_list x.(Constraint.fk_attrs) &&
  check_list x.(Constraint.pk_attrs) && c.(check_char) x.(Constraint.fk_matchtype) &&
  c.(check_char) x.(Constraint.fk_upd_action) && c.(check_char) x.(Constraint.fk_del_action) &&
  check_list x.(Constraint.old_conpfeqop).

Definition check_ColumnDef (x : ColumnDef.t Node) : bool :=
  c.(check_string) x.(ColumnDef.colname) && check_struct check_TypeName x.(ColumnDef.typeName) &&
  c.(check_char) x.(ColumnDef.storage) && check_ptr x.(ColumnDef.raw_default) &&
  check_ptr x.(ColumnDef.cooked_default) && c.(check_char) x.(ColumnDef.identity) &&
  check_struct check_RangeVar x.(ColumnDef.identitySequence) &&
  c.(check_char) x.(ColumnDef.generated) &&
  check_struct check_CollateClause x.(ColumnDef.collClause) &&
  check_list x.(ColumnDef.constraints) && check_list x.(ColumnDef.fdwoptions).

Definition check_JoinExpr (x : JoinExpr.t Node) : bool :=
  check_ptr x.(JoinExpr.larg) && check_ptr x.(JoinExpr.rarg) &&
  check_list x.(JoinExpr.usingClause) && check_ptr x.(JoinExpr.quals) &&
  check_struct check_Alias x.(JoinExpr.alias).

Definition check_RangeSubselect (x : RangeSubselect.t Node) : bool :=
  check_ptr x.(RangeSubselect.subquery) && check_struct check_Alias x.(RangeSubselect.alias).

Definition check_RangeFunction (x : RangeFunction.t Node) : bool :=
  check_list x.(RangeFunction.functions) && check_struct check_Alias x.(RangeFunction.alias) &&
  check_list x.(RangeFunction.coldeflist).

Definition check_RangeTableFuncCol (x : RangeTableFuncCol.t Node) : bool :=
  c.(check_string) x.(RangeTableFuncCol.colname) &&
  check_struct check_TypeName x.(RangeTableFuncCol.typeName) &&
  check_ptr x.(RangeTableFuncCol.colexpr) && check_ptr x.(RangeTableFuncCol.coldefexpr).

Definition check_RangeTableFunc (x : RangeTableFunc.t Node) : bool :=
  check_ptr x.(RangeTableFunc.docexpr) && check_ptr x.(RangeTableFunc.rowexpr) &&
  check_list x.(RangeTableFunc.namespaces) && check_list x.(RangeTableFunc.columns) &&
  check_struct check_Alias x.(RangeTableFunc.alias).

Definition check_RangeTableSample (x : RangeTableSample.t Node) : bool :=
  check_ptr x.(RangeTableSample.relation) && check_list x.(RangeTableSample.method) &&
  check_list x.(RangeTableSample.args) && check_ptr x.(RangeTableSample.repeatable).

Definition check_CommonTableExpr (x : CommonTableExpr.t Node) : bool :=
  c.(check_string) x.(CommonTableExpr.ctename) && check_list x.(CommonTableExpr.aliascolnames) &&
  check_ptr x.(CommonTableExpr.ctequery) && check_list x.(CommonTableExpr.ctecolnames) &&
  c.(check_ints) x.(CommonTableExpr.ctecoltypes) &&
  c.(check_ints) x.(CommonTableExpr.ctecoltypmods) &&
  c.(check_ints) x.(CommonTableExpr.ctecolcollations).

Definition check_WithClause (x : WithClause.t Node) : bool :=
  check_list x.(WithClause.ctes).

Definition check_InferClause (x : InferClause.t Node) : bool :=
  check_list x.(InferClause.indexElems) && check_ptr x.(InferClause.whereClause) &&
  c.(check_string) x.(InferClause.conname).

Definition check_OnConflictClause (x : OnConflictClause.t Node) : bool :=
  check_struct check_InferClause x.(OnConflictClause.infer) &&
  check_list x.(OnConflictClause.targetList) && check_ptr x.(OnConflictClause.whereClause).

Definition check_LockingClause (x : LockingClause.t Node) : bool :=
  check_list x.(LockingClause.lockedRels).

Definition check_GroupingSet (x : GroupingSet.t Node) : bool :=
  check_list x.(GroupingSet.content).

Definition check_IntoClause (x : IntoClause.t Node) : bool :=
  check_struct check_RangeVar x.(IntoClause.rel) && check_list x.(IntoClause.colNames) &&
  c.(check_string) x.(IntoClause.accessMethod) && check_list x.(IntoClause.options) &&
  c.(check_string) x.(IntoClause.tableSpaceName) && check_ptr x.(IntoClause.viewQuery).

Definition check_SelectStmt (x : SelectStmt.t Node) : bool :=
  check_list x.(SelectStmt.distinctClause) &&
  check_struct check_IntoClause x.(SelectStmt.intoClause) &&
  check_list x.(SelectStmt.targetList) && check_list x.(SelectStmt.fromClause) &&
  check_ptr x.(SelectStmt.whereClause) && check_list x.(SelectStmt.groupClause) &&
  check_ptr x.(SelectStmt.havingClause) && check_list x.(SelectStmt.windowClause) &&
  check_list x.(SelectStmt.valuesLists) && check_list x.(SelectStmt.sortClause) &&
  check_ptr x.(SelectStmt.limitOffset) && check_ptr x.(SelectStmt.limitCount) &&
  check_list x.(SelectStmt.lockingClause) &&
  check_struct check_WithClause x.(SelectStmt.withClause) && check_select x.(SelectStmt.larg) &&
  check_select x.(SelectStmt.rarg).

Definition check_InsertStmt (x : InsertStmt.t Node) : bool :=
  check_struct check_RangeVar x.(InsertStmt.relation) && check_list x.(InsertStmt.cols) &&
  check_ptr x.(InsertStmt.selectStmt) &&
  check_struct check_OnConflictClause x.(InsertStmt.onConflictClause) &&
  check_list x.(InsertStmt.returningList) &&
  check_struct check_WithClause x.(InsertStmt.withClause).

Definition check_UpdateStmt (x : UpdateStmt.t Node) : bool :=
  check_struct check_RangeVar x.(UpdateStmt.relation) && check_list x.(UpdateStmt.targetList) &&
  check_ptr x.(UpdateStmt.whereClause) && check_list x.(UpdateStmt.fromClause) &&
  check_list x.(UpdateStmt.returningList) &&
  check_struct check_WithClause x.(UpdateStmt.withClause).

Definition check_DeleteStmt (x : DeleteStmt.t Node) : bool :=
  check_struct check_RangeVar x.(DeleteStmt.relation) && check_list x.(DeleteStmt.usingClause) &&
  check_ptr x.(DeleteStmt.whereClause) && check_list x.(DeleteStmt.returningList) &&
  check_struct check_WithClause x.(DeleteStmt.withClause).

Definition check_RawStmt (x : RawStmt.t Node) : bool :=
  check_ptr x.(RawStmt.stmt).

Definition check_AlterTableCmd (x : AlterTableCmd.t Node) : bool :=
  c.(check_string) x.(AlterTableCmd.name) &&
  check_struct check_RoleSpec x.(AlterTableCmd.newowner) && check_ptr x.(AlterTableCmd.def).

Definition check_PartitionBoundSpec (x : PartitionBoundSpec.t Node) : bool :=
  c.(check_char) x.(PartitionBoundSpec.strategy) &&
  check_list x.(PartitionBoundSpec.listdatums) && check_list x.(PartitionBoundSpec.lowerdatums) &&
  check_list x.(PartitionBoundSpec.upperdatums).

Definition check_TableLikeClause (x : TableLikeClause.t Node) : bool :=
  check_struct check_RangeVar x.(TableLikeClause.relation).

Definition check_PartitionElem (x : PartitionElem.t Node) : bool :=
  c.(check_string) x.(PartitionElem.name) && check_ptr x.(PartitionElem.expr) &&
  check_list x.(PartitionElem.collation) && check_list x.(PartitionElem.opclass).

Definition check_PartitionSpec (x : PartitionSpec.t Node) : bool :=
  c.(check_string) x.(PartitionSpec.strategy) && check_list x.(PartitionSpec.partParams).

Definition check_PartitionCmd (x : PartitionCmd.t Node) : bool :=
  check_struct check_RangeVar x.(PartitionCmd.name) &&
  check_struct check_PartitionBoundSpec x.(PartitionCmd.bound).

Definition check_TriggerTransition (x : TriggerTransition.t Node) : bool :=
  c.(check_string) x.(TriggerTransition.name).

Definition check_CreateSchemaStmt (x : CreateSchemaStmt.t Node) : bool :=
  c.(check_string) x.(CreateSchemaStmt.schemaname) &&
  check_struct check_RoleSpec x.(CreateSchemaStmt.authrole) &&
  check_list x.(CreateSchemaStmt.schemaElts).

Definition check_AlterTableStmt (x : AlterTableStmt.t Node) : bool :=
  check_struct check_RangeVar x.(AlterTableStmt.relation) && check_list x.(AlterTableStmt.cmds).

Definition check_ReplicaIdentityStmt (x : ReplicaIdentityStmt.t Node) : bool :=
  c.(check_char) x.(ReplicaIdentityStmt.identity_type) &&
  c.(check_string) x.(ReplicaIdentityStmt.name).

Definition check_AlterCollationStmt (x : AlterCollationStmt.t Node) : bool :=
  check_list x.(AlterCollationStmt.collname).

Definition check_AlterDomainStmt (x : AlterDomainStmt.t Node) : bool :=
  c.(check_char) x.(AlterDomainStmt.subtype) && check_list x.(AlterDomainStmt.typeName) &&
  c.(check_string) x.(AlterDomainStmt.name) && check_ptr x.(AlterDomainStmt.def).

Definition check_GrantStmt (x : GrantStmt.t Node) : bool :=
  check_list x.(GrantStmt.objects) && check_list x.(GrantStmt.privileges) &&
  check_list x.(GrantStmt.grantees).

Definition check_ObjectWithArgs (x : ObjectWithArgs.t Node) : bool :=
  check_list x.(ObjectWithArgs.objname) && check_list x.(ObjectWithArgs.objargs).

Definition check_AccessPriv (x : AccessPriv.t Node) : bool :=
  c.(check_string) x.(AccessPriv.priv_name) && check_list x.(AccessPriv.cols).

Definition check_GrantRoleStmt (x : GrantRoleStmt.t Node) : bool :=
  check_list x.(GrantRoleStmt.granted_roles) && check_list x.(GrantRoleStmt.grantee_roles) &&
  check_struct check_RoleSpec x.(GrantRoleStmt.grantor).

Definition check_AlterDefaultPrivilegesStmt (x : AlterDefaultPrivilegesStmt.t Node) : bool :=
  check_list x.(AlterDefaultPrivilegesStmt.options) &&
  check_struct check_GrantStmt x.(AlterDefaultPrivilegesStmt.action).

Definition check_CopyStmt (x : CopyStmt.t Node) : bool :=
  check_struct check_RangeVar x.(CopyStmt.relation) && check_ptr x.(CopyStmt.query) &&
  check_list x.(CopyStmt.attlist) && c.(check_string) x.(CopyStmt.filename) &&
  check_list x.(CopyStmt.options) && check_ptr x.(CopyStmt.whereClause).

Definition check_VariableSetStmt (x : VariableSetStmt.t Node) : bool :=
  c.(check_string) x.(VariableSetStmt.name) && check_list x.(VariableSetStmt.args).

Definition check_VariableShowStmt (x : VariableShowStmt.t Node) : bool :=
  c.(check_string) x.(VariableShowStmt.name).

Definition check_CreateStmt (x : CreateStmt.t Node) : bool :=
  check_struct check_RangeVar x.(CreateStmt.relation) && check_list x.(CreateStmt.tableElts) &&
  check_list x.(CreateStmt.inhRelations) &&
  check_struct check_PartitionBoundSpec x.(CreateStmt.partbound) &&
  check_struct check_PartitionSpec x.(CreateStmt.partspec) &&
  check_struct check_TypeName x.(CreateStmt.ofTypename) &&
  check_list x.(CreateStmt.constraints) && check_list x.(CreateStmt.options) &&
  c.(check_string) x.(CreateStmt.tablespacename) && c.(check_string) x.(CreateStmt.accessMethod).

Definition check_CreateTableSpaceStmt (x : CreateTableSpaceStmt.t Node) : bool :=
  c.(check_string) x.(CreateTableSpaceStmt.tablespacename) &&
  check_struct check_RoleSpec x.(CreateTableSpaceStmt.owner) &&
  c.(check_string) x.(CreateTableSpaceStmt.location) &&
  check_list x.(CreateTableSpaceStmt.options).

Definition check_DropTableSpaceStmt (x : DropTableSpaceStmt.t Node) : bool :=
  c.(check_string) x.(DropTableSpaceStmt.tablespacename).

Definition check_AlterTableSpaceOptionsStmt (x : AlterTableSpaceOptionsStmt.t Node) : bool :=
  c.(check_string) x.(AlterTableSpaceOptionsStmt.tablespacename) &&
  check_list x.(AlterTableSpaceOptionsStmt.options).

Definition check_AlterTableMoveAllStmt (x : AlterTableMoveAllStmt.t Node) : bool :=
  c.(check_string) x.(AlterTableMoveAllStmt.orig_tablespacename) &&
  check_list x.(AlterTableMoveAllStmt.roles) &&
  c.(check_string) x.(AlterTableMoveAllStmt.new_tablespacename).

Definition check_CreateExtensionStmt (x : CreateExtensionStmt.t Node) : bool :=
  c.(check_string) x.(CreateExtensionStmt.extname) && check_list x.(CreateExtensionStmt.options).

Definition check_AlterExtensionStmt (x : AlterExtensionStmt.t Node) : bool :=
  c.(check_string) x.(AlterExtensionStmt.extname) && check_list x.(AlterExtensionStmt.options).

Definition check_AlterExtensionContentsStmt (x : AlterExtensionContentsStmt.t Node) : bool :=
  c.(check_string) x.(AlterExtensionContentsStmt.extname) &&
  check_ptr x.(AlterExtensionContentsStmt.object).

Definition check_CreateFdwStmt (x : CreateFdwStmt.t Node) : bool :=
  c.(check_string) x.(CreateFdwStmt.fdwname) && check_list x.(CreateFdwStmt.func_options) &&
  check_list x.(CreateFdwStmt.options).

Definition check_AlterFdwStmt (x : AlterFdwStmt.t Node) : bool :=
  c.(check_string) x.(AlterFdwStmt.fdwname) && check_list x.(AlterFdwStmt.func_options) &&
  check_list x.(AlterFdwStmt.options).

Definition check_CreateForeignServerStmt (x : CreateForeignServerStmt.t Node) : bool :=
  c.(check_string) x.(CreateForeignServerStmt.servername) &&
  c.(check_string) x.(CreateForeignServerStmt.servertype) &&
  c.(check_string) x.(CreateForeignServerStmt.version) &&
  c.(check_string) x.(CreateForeignServerStmt.fdwname) &&
  check_list x.(CreateForeignServerStmt.options).

Definition check_AlterForeignServerStmt (x : AlterForeignServerStmt.t Node) : bool :=
  c.(check_string) x.(AlterForeignServerStmt.servername) &&
  c.(check_string) x.(AlterForeignServerStmt.version) &&
  check_list x.(AlterForeignServerStmt.options).

Definition check_CreateForeignTableStmt (x : CreateForeignTableStmt.t Node) : bool :=
  check_CreateStmt x.(CreateForeignTableStmt.base) &&
  c.(check_string) x.(CreateForeignTableStmt.servername) &&
  check_list x.(CreateForeignTableStmt.options).

Definition check_CreateUserMappingStmt (x : CreateUserMappingStmt.t Node) : bool :=
  check_struct check_RoleSpec x.(CreateUserMappingStmt.user) &&
  c.(check_string) x.(CreateUserMappingStmt.servername) &&
  check_list x.(CreateUserMappingStmt.options).

Definition check_AlterUserMappingStmt (x : AlterUserMappingStmt.t Node) : bool :=
  check_struct check_RoleSpec x.(AlterUserMappingStmt.user) &&
  c.(check_string) x.(AlterUserMappingStmt.servername) &&
  check_list x.(AlterUserMappingStmt.options).

Definition check_DropUserMappingStmt (x : DropUserMappingStmt.t Node) : bool :=
  check_struct check_RoleSpec x.(DropUserMappingStmt.user) &&
  c.(check_string) x.(DropUserMappingStmt.servername).

Definition check_ImportForeignSchemaStmt (x : ImportForeignSchemaStmt.t Node) : bool :=
  c.(check_string) x.(ImportForeignSchemaStmt.server_name) &&
  c.(check_string) x.(ImportForeignSchemaStmt.remote_schema) &&
  c.(check_string) x.(ImportForeignSchemaStmt.local_schema) &&
  check_list x.(ImportForeignSchemaStmt.table_list) &&
  check_list x.(ImportForeignSchemaStmt.options).

Definition check_CreatePolicyStmt (x : CreatePolicyStmt.t Node) : bool :=
  c.(check_string) x.(CreatePolicyStmt.policy_name) &&
  check_struct check_RangeVar x.(CreatePolicyStmt.table) &&
  c.(check_string) x.(CreatePolicyStmt.cmd_name) && check_list x.(CreatePolicyStmt.roles) &&
  check_ptr x.(CreatePolicyStmt.qual) && check_ptr x.(CreatePolicyStmt.with_check).

Definition check_AlterPolicyStmt (x : AlterPolicyStmt.t Node) : bool :=
  c.(check_string) x.(AlterPolicyStmt.policy_name) &&
  check_struct check_RangeVar x.(AlterPolicyStmt.table) && check_list x.(AlterPolicyStmt.roles) &&
  check_ptr x.(AlterPolicyStmt.qual) && check_ptr x.(AlterPolicyStmt.with_check).

Definition check_CreateAmStmt (x : CreateAmStmt.t Node) : bool :=
  c.(check_string) x.(CreateAmStmt.amname) && check_list x.(CreateAmStmt.handler_name) &&
  c.(check_char) x.(CreateAmStmt.amtype).

Definition check_CreateTrigStmt (x : CreateTrigStmt.t Node) : bool :=
  c.(check_string) x.(CreateTrigStmt.trigname) &&
  check_struct check_RangeVar x.(CreateTrigStmt.relation) &&
  check_list x.(CreateTrigStmt.funcname) && check_list x.(CreateTrigStmt.args) &&
  check_list x.(CreateTrigStmt.columns) && check_ptr x.(CreateTrigStmt.whenClause) &&
  check_list x.(CreateTrigStmt.transitionRels) &&
  check_struct check_RangeVar x.(CreateTrigStmt.constrrel).

Definition check_CreateEventTrigStmt (x : CreateEventTrigStmt.t Node) : bool :=
  c.(check_string) x.(CreateEventTrigStmt.trigname) &&
  c.(check_string) x.(CreateEventTrigStmt.eventname) &&
  check_list x.(CreateEventTrigStmt.whenclause) && check_list x.(CreateEventTrigStmt.funcname).

Definition check_AlterEventTrigStmt (x : AlterEventTrigStmt.t Node) : bool :=
  c.(check_string) x.(AlterEventTrigStmt.trigname) &&
  c.(check_char) x.(AlterEventTrigStmt.tgenabled).

Definition check_CreatePLangStmt (x : CreatePLangStmt.t Node) : bool :=
  c.(check_string) x.(CreatePLangStmt.plname) && check_list x.(CreatePLangStmt.plhandler) &&
  check_list x.(CreatePLangStmt.plinline) && check_list x.(CreatePLangStmt.plvalidator).

Definition check_CreateRoleStmt (x : CreateRoleStmt.t Node) : bool :=
  c.(check_string) x.(CreateRoleStmt.role) && check_list x.(CreateRoleStmt.options).

Definition check_AlterRoleStmt (x : AlterRoleStmt.t Node) : bool :=
  check_struct check_RoleSpec x.(AlterRoleStmt.role) && check_list x.(AlterRoleStmt.options).

Definition check_AlterRoleSetStmt (x : AlterRoleSetStmt.t Node) : bool :=
  check_struct check_RoleSpec x.(AlterRoleSetStmt.role) &&
  c.(check_string) x.(AlterRoleSetStmt.database) &&
  check_struct check_VariableSetStmt x.(AlterRoleSetStmt.setstmt).

Definition check_DropRoleStmt (x : DropRoleStmt.t Node) : bool :=
  check_list x.(DropRoleStmt.roles).

Definition check_CreateSeqStmt (x : CreateSeqStmt.t Node) : bool :=
  check_struct check_RangeVar x.(CreateSeqStmt.sequence) && check_list x.(CreateSeqStmt.options).

Definition check_AlterSeqStmt (x : AlterSeqStmt.t Node) : bool :=
  check_struct check_RangeVar x.(AlterSeqStmt.sequence) && check_list x.(AlterSeqStmt.options).

Definition check_DefineStmt (x : DefineStmt.t Node) : bool :=
  check_list x.(DefineStmt.defnames) && check_list x.(DefineStmt.args) &&
  check_list x.(DefineStmt.definition).

Definition check_CreateDomainStmt (x : CreateDomainStmt.t Node) : bool :=
  check_list x.(CreateDomainStmt.domainname) &&
  check_struct check_TypeName x.(CreateDomainStmt.typeName) &&
  check_struct check_CollateClause x.(CreateDomainStmt.collClause) &&
  check_list x.(CreateDomainStmt.constraints).

Definition check_CreateOpClassStmt (x : CreateOpClassStmt.t Node) : bool :=
  check_list x.(CreateOpClassStmt.opclassname) && check_list x.(CreateOpClassStmt.opfamilyname) &&
  c.(check_string) x.(CreateOpClassStmt.amname) &&
  check_struct check_TypeName x.(CreateOpClassStmt.datatype) &&
  check_list x.(CreateOpClassStmt.items).

Definition check_CreateOpClassItem (x : CreateOpClassItem.t Node) : bool :=
  check_struct check_ObjectWithArgs x.(CreateOpClassItem.name) &&
  check_list x.(CreateOpClassItem.order_family) && check_list x.(CreateOpClassItem.class_args) &&
  check_struct check_TypeName x.(CreateOpClassItem.storedtype).

Definition check_CreateOpFamilyStmt (x : CreateOpFamilyStmt.t Node) : bool :=
  check_list x.(CreateOpFamilyStmt.opfamilyname) &&
  c.(check_string) x.(CreateOpFamilyStmt.amname).

Definition check_AlterOpFamilyStmt (x : AlterOpFamilyStmt.t Node) : bool :=
  check_list x.(AlterOpFamilyStmt.opfamilyname) &&
  c.(check_string) x.(AlterOpFamilyStmt.amname) && check_list x.(AlterOpFamilyStmt.items).

Definition check_DropStmt (x : DropStmt.t Node) : bool :=
  check_list x.(DropStmt.objects).

Definition check_TruncateStmt (x : TruncateStmt.t Node) : bool :=
  check_list x.(TruncateStmt.relations).

Definition check_CommentStmt (x : CommentStmt.t Node) : bool :=
  check_ptr x.(CommentStmt.object) && c.(check_string) x.(CommentStmt.comment).

Definition check_SecLabelStmt (x : SecLabelStmt.t Node) : bool :=
  check_ptr x.(SecLabelStmt.object) && c.(check_string) x.(SecLabelStmt.provider) &&
  c.(check_string) x.(SecLabelStmt.label).

Definition check_DeclareCursorStmt (x : DeclareCursorStmt.t Node) : bool :=
  c.(check_string) x.(DeclareCursorStmt.portalname) && check_ptr x.(DeclareCursorStmt.query).

Definition check_ClosePortalStmt (x : ClosePortalStmt.t Node) : bool :=
  c.(check_string) x.(ClosePortalStmt.portalname).

Definition check_FetchStmt (x : FetchStmt.t Node) : bool :=
  c.(check_string) x.(FetchStmt.portalname).

Definition check_IndexStmt (x : IndexStmt.t Node) : bool :=
  c.(check_string) x.(IndexStmt.idxname) && check_struct check_RangeVar x.(IndexStmt.relation) &&
  c.(check_string) x.(IndexStmt.accessMethod) && c.(check_string) x.(IndexStmt.tableSpace) &&
  check_list x.(IndexStmt.indexParams) && check_list x.(IndexStmt.indexIncludingParams) &&
  check_list x.(IndexStmt.options) && check_ptr x.(IndexStmt.whereClause) &&
  check_list x.(IndexStmt.excludeOpNames) && c.(check_string) x.(IndexStmt.idxcomment).

Definition check_CreateStatsStmt (x : CreateStatsStmt.t Node) : bool :=
  check_list x.(CreateStatsStmt.defnames) && check_list x.(CreateStatsStmt.stat_types) &&
  check_list x.(CreateStatsStmt.exprs) && check_list x.(CreateStatsStmt.relations) &&
  c.(check_string) x.(CreateStatsStmt.stxcomment).

Definition check_AlterStatsStmt (x : AlterStatsStmt.t Node) : bool :=
  check_list x.(AlterStatsStmt.defnames).

Definition check_CreateFunctionStmt (x : CreateFunctionStmt.t Node) : bool :=
  check_list x.(CreateFunctionStmt.funcname) && check_list x.(CreateFunctionStmt.parameters) &&
  check_struct check_TypeName x.(CreateFunctionStmt.returnType) &&
  check_list x.(CreateFunctionStmt.options).

Definition check_FunctionParameter (x : FunctionParameter.t Node) : bool :=
  c.(check_string) x.(FunctionParameter.name) &&
  check_struct check_TypeName x.(FunctionParameter.argType) &&
  check_ptr x.(FunctionParameter.defexpr).

Definition check_AlterFunctionStmt (x : AlterFunctionStmt.t Node) : bool :=
  check_struct check_ObjectWithArgs x.(AlterFunctionStmt.func) &&
  check_list x.(AlterFunctionStmt.actions).

Definition check_DoStmt (x : DoStmt.t Node) : bool :=
  check_list x.(DoStmt.args).

Definition check_FuncExpr (x : FuncExpr.t Node) : bool :=
  check_list x.(FuncExpr.args).

Definition check_CallStmt (x : CallStmt.t Node) : bool :=
  check_struct check_FuncCall x.(CallStmt.funccall) &&
  check_struct check_FuncExpr x.(CallStmt.funcexpr).

Definition check_RenameStmt (x : RenameStmt.t Node) : bool :=
  check_struct check_RangeVar x.(RenameStmt.relation) && check_ptr x.(RenameStmt.object) &&
  c.(check_string) x.(RenameStmt.subname) && c.(check_string) x.(RenameStmt.newname).

Definition check_AlterObjectDependsStmt (x : AlterObjectDependsStmt.t Node) : bool :=
  check_struct check_RangeVar x.(AlterObjectDependsStmt.relation) &&
  check_ptr x.(AlterObjectDependsStmt.object) && check_ptr x.(AlterObjectDependsStmt.extname).

Definition check_AlterObjectSchemaStmt (x : AlterObjectSchemaStmt.t Node) : bool :=
  check_struct check_RangeVar x.(AlterObjectSchemaStmt.relation) &&
  check_ptr x.(AlterObjectSchemaStmt.object) &&
  c.(check_string) x.(AlterObjectSchemaStmt.newschema).

Definition check_AlterOwnerStmt (x : AlterOwnerStmt.t Node) : bool :=
  check_struct check_RangeVar x.(AlterOwnerStmt.relation) &&
  check_ptr x.(AlterOwnerStmt.object) && check_struct check_RoleSpec x.(AlterOwnerStmt.newowner).

Definition check_AlterOperatorStmt (x : AlterOperatorStmt.t Node) : bool :=
  check_struct check_ObjectWithArgs x.(AlterOperatorStmt.opername) &&
  check_list x.(AlterOperatorStmt.options).

Definition check_AlterTypeStmt (x : AlterTypeStmt.t Node) : bool :=
  check_list x.(AlterTypeStmt.typeName) && check_list x.(AlterTypeStmt.options).

Definition check_RuleStmt (x : RuleStmt.t Node) : bool :=
  check_struct check_RangeVar x.(RuleStmt.relation) && c.(check_string) x.(RuleStmt.rulename) &&
  check_ptr x.(RuleStmt.whereClause) && check_list x.(RuleStmt.actions).

Definition check_NotifyStmt (x : NotifyStmt.t Node) : bool :=
  c.(check_string) x.(NotifyStmt.conditionname) && c.(check_string) x.(NotifyStmt.payload).

Definition check_ListenStmt (x : ListenStmt.t Node) : bool :=
  c.(check_string) x.(ListenStmt.conditionname).

Definition check_UnlistenStmt (x : UnlistenStmt.t Node) : bool :=
  c.(check_string) x.(UnlistenStmt.conditionname).

Definition check_TransactionStmt (x : TransactionStmt.t Node) : bool :=
  check_list x.(TransactionStmt.options) && c.(check_string) x.(TransactionStmt.savepoint_name) &&
  c.(check_string) x.(TransactionStmt.gid).

Definition check_CompositeTypeStmt (x : CompositeTypeStmt.t Node) : bool :=
  check_struct check_RangeVar x.(CompositeTypeStmt.typevar) &&
  check_list x.(CompositeTypeStmt.coldeflist).

Definition check_CreateEnumStmt (x : CreateEnumStmt.t Node) : bool :=
  check_list x.(CreateEnumStmt.typeName) && check_list x.(CreateEnumStmt.vals).

Definition check_CreateRangeStmt (x : CreateRangeStmt.t Node) : bool :=
  check_list x.(CreateRangeStmt.typeName) && check_list x.(CreateRangeStmt.params).

Definition check_AlterEnumStmt (x : AlterEnumStmt.t Node) : bool :=
  check_list x.(AlterEnumStmt.typeName) && c.(check_string) x.(AlterEnumStmt.oldVal) &&
  c.(check_string) x.(AlterEnumStmt.newVal) && c.(check_string) x.(AlterEnumStmt.newValNeighbor).

Definition check_ViewStmt (x : ViewStmt.t Node) : bool :=
  check_struct check_RangeVar x.(ViewStmt.view) && check_list x.(ViewStmt.aliases) &&
  check_ptr x.(ViewStmt.query) && check_list x.(ViewStmt.options).

Definition check_LoadStmt (x : LoadStmt.t Node) : bool :=
  c.(check_string) x.(LoadStmt.filename).

Definition check_CreatedbStmt (x : CreatedbStmt.t Node) : bool :=
  c.(check_string) x.(CreatedbStmt.dbname) && check_list x.(CreatedbStmt.options).

Definition check_AlterDatabaseStmt (x : AlterDatabaseStmt.t Node) : bool :=
  c.(check_string) x.(AlterDatabaseStmt.dbname) && check_list x.(AlterDatabaseStmt.options).

Definition check_AlterDatabaseSetStmt (x : AlterDatabaseSetStmt.t Node) : bool :=
  c.(check_string) x.(AlterDatabaseSetStmt.dbname) &&
  check_struct check_VariableSetStmt x.(AlterDatabaseSetStmt.setstmt).

Definition check_DropdbStmt (x : DropdbStmt.t Node) : bool :=
  c.(check_string) x.(DropdbStmt.dbname) && check_list x.(DropdbStmt.options).

Definition check_AlterSystemStmt (x : AlterSystemStmt.t Node) : bool :=
  check_struct check_VariableSetStmt x.(AlterSystemStmt.setstmt).

Definition check_ClusterStmt (x : ClusterStmt.t Node) : bool :=
  check_struct check_RangeVar x.(ClusterStmt.relation) &&
  c.(check_string) x.(ClusterStmt.indexname).

Definition check_VacuumStmt (x : VacuumStmt.t Node) : bool :=
  check_list x.(VacuumStmt.options) && check_list x.(VacuumStmt.rels).

Definition check_VacuumRelation (x : VacuumRelation.t Node) : bool :=
  check_struct check_RangeVar x.(VacuumRelation.relation) &&
  check_list x.(VacuumRelation.va_cols).

Definition check_ExplainStmt (x : ExplainStmt.t Node) : bool :=
  check_ptr x.(ExplainStmt.query) && check_list x.(ExplainStmt.options).

Definition check_CreateTableAsStmt (x : CreateTableAsStmt.t Node) : bool :=
  check_ptr x.(CreateTableAsStmt.query) &&
  check_struct check_IntoClause x.(CreateTableAsStmt.into).

Definition check_RefreshMatViewStmt (x : RefreshMatViewStmt.t Node) : bool :=
  check_struct check_RangeVar x.(RefreshMatViewStmt.relation).

Definition check_LockStmt (x : LockStmt.t Node) : bool :=
  check_list x.(LockStmt.relations).

Definition check_ConstraintsSetStmt (x : ConstraintsSetStmt.t Node) : bool :=
  check_list x.(ConstraintsSetStmt.constraints).

Definition check_ReindexStmt (x : ReindexStmt.t Node) : bool :=
  check_struct check_RangeVar x.(ReindexStmt.relation) && c.(check_string) x.(ReindexStmt.name).

Definition check_CreateConversionStmt (x : CreateConversionStmt.t Node) : bool :=
  check_list x.(CreateConversionStmt.conversion_name) &&
  c.(check_string) x.(CreateConversionStmt.for_encoding_name) &&
  c.(check_string) x.(CreateConversionStmt.to_encoding_name) &&
  check_list x.(CreateConversionStmt.func_name).

Definition check_CreateCastStmt (x : CreateCastStmt.t Node) : bool :=
  check_struct check_TypeName x.(CreateCastStmt.sourcetype) &&
  check_struct check_TypeName x.(CreateCastStmt.targettype) &&
  check_struct check_ObjectWithArgs x.(CreateCastStmt.func).

Definition check_CreateTransformStmt (x : CreateTransformStmt.t Node) : bool :=
  check_struct check_TypeName x.(CreateTransformStmt.type_name) &&
  c.(check_string) x.(CreateTransformStmt.lang) &&
  check_struct check_ObjectWithArgs x.(CreateTransformStmt.fromsql) &&
  check_struct check_ObjectWithArgs x.(CreateTransformStmt.tosql).

Definition check_PrepareStmt (x : PrepareStmt.t Node) : bool :=
  c.(check_string) x.(PrepareStmt.name) && check_list x.(PrepareStmt.argtypes) &&
  check_ptr x.(PrepareStmt.query).

Definition check_ExecuteStmt (x : ExecuteStmt.t Node) : bool :=
  c.(check_string) x.(ExecuteStmt.name) && check_list x.(ExecuteStmt.params).

Definition check_DeallocateStmt (x : DeallocateStmt.t Node) : bool :=
  c.(check_string) x.(DeallocateStmt.name).

Definition check_DropOwnedStmt (x : DropOwnedStmt.t Node) : bool :=
  check_list x.(DropOwnedStmt.roles).

Definition check_ReassignOwnedStmt (x : ReassignOwnedStmt.t Node) : bool :=
  check_list x.(ReassignOwnedStmt.roles) &&
  check_struct check_RoleSpec x.(ReassignOwnedStmt.newrole).

Definition check_AlterTSDictionaryStmt (x : AlterTSDictionaryStmt.t Node) : bool :=
  check_list x.(AlterTSDictionaryStmt.dictname) && check_list x.(AlterTSDictionaryStmt.options).

Definition check_AlterTSConfigurationStmt (x : AlterTSConfigurationStmt.t Node) : bool :=
  check_list x.(AlterTSConfigurationStmt.cfgname) &&
  check_list x.(AlterTSConfigurationStmt.tokentype) &&
  check_list x.(AlterTSConfigurationStmt.dicts).

Definition check_CreatePublicationStmt (x : CreatePublicationStmt.t Node) : bool :=
  c.(check_string) x.(CreatePublicationStmt.pubname) &&
  check_list x.(CreatePublicationStmt.options) && check_list x.(CreatePublicationStmt.tables).

Definition check_AlterPublicationStmt (x : AlterPublicationStmt.t Node) : bool :=
  c.(check_string) x.(AlterPublicationStmt.pubname) &&
  check_list x.(AlterPublicationStmt.options) && check_list x.(AlterPublicationStmt.tables).

Definition check_CreateSubscriptionStmt (x : CreateSubscriptionStmt.t Node) : bool :=
  c.(check_string) x.(CreateSubscriptionStmt.subname) &&
  c.(check_string) x.(CreateSubscriptionStmt.conninfo) &&
  check_list x.(CreateSubscriptionStmt.publication) &&
  check_list x.(CreateSubscriptionStmt.options).

Definition check_AlterSubscriptionStmt (x : AlterSubscriptionStmt.t Node) : bool :=
  c.(check_string) x.(AlterSubscriptionStmt.subname) &&
  c.(check_string) x.(AlterSubscriptionStmt.conninfo) &&
  check_list x.(AlterSubscriptionStmt.publication) &&
  check_list x.(AlterSubscriptionStmt.options).

Definition check_DropSubscriptionStmt (x : DropSubscriptionStmt.t Node) : bool :=
  c.(check_string) x.(DropSubscriptionStmt.subname).

Definition check_body (n : Node) : bool :=
  match n with
  | N_List l => check_list l
  | N_Value _ => true
  | N_RangeVar x => check_RangeVar x
  | N_Alias x => check_Alias x
  | N_TypeName x => check_TypeName x
  | N_ColumnRef x => check_ColumnRef x
  | N_ParamRef x => true
  | N_A_Expr x => check_A_Expr x
  | N_A_Const x => true
  | N_TypeCast x => check_TypeCast x
  | N_CollateClause x => check_CollateClause x
  | N_RoleSpec x => check_RoleSpec x
  | N_WindowDef x => check_WindowDef x
  | N_SortBy x => check_SortBy x
  | N_FuncCall x => check_FuncCall x
  | N_A_Star x => true
  | N_A_Indices x => check_A_Indices x
  | N_A_Indirection x => check_A_Indirection x
  | N_A_ArrayExpr x => check_A_ArrayExpr x
  | N_ResTarget x => check_ResTarget x
  | N_MultiAssignRef x => check_MultiAssignRef x
  | N_NamedArgExpr x => check_NamedArgExpr x
  | N_BoolExpr x => check_BoolExpr x
  | N_SubLink x => check_SubLink x
  | N_CaseWhen x => check_CaseWhen x
  | N_CaseExpr x => check_CaseExpr x
  | N_RowExpr x => check_RowExpr x
  | N_CoalesceExpr x => check_CoalesceExpr x
  | N_MinMaxExpr x => check_MinMaxExpr x
  | N_SQLValueFunction x => true
  | N_XmlExpr x => check_XmlExpr x
  | N_XmlSerialize x => check_XmlSerialize x
  | N_NullTest x => check_NullTest x
  | N_BooleanTest x => check_BooleanTest x
  | N_SetToDefault x => true
  | N_CurrentOfExpr x => check_CurrentOfExpr x
  | N_GroupingFunc x => check_GroupingFunc x
  | N_DefElem x => check_DefElem x
  | N_IndexElem x => check_IndexElem x
  | N_Constraint x => check_Constraint x
  | N_ColumnDef x => check_ColumnDef x
  | N_JoinExpr x => check_JoinExpr x
  | N_RangeSubselect x => check_RangeSubselect x
  | N_RangeFunction x => check_RangeFunction x
  | N_RangeTableFuncCol x => check_RangeTableFuncCol x
  | N_RangeTableFunc x => check_RangeTableFunc x
  | N_RangeTableSample x => check_RangeTableSample x
  | N_CommonTableExpr x => check_CommonTableExpr x
  | N_WithClause x => check_WithClause x
  | N_InferClause x => check_InferClause x
  | N_OnConflictClause x => check_OnConflictClause x
  | N_LockingClause x => check_LockingClause x
  | N_GroupingSet x => check_GroupingSet x
  | N_IntoClause x => check_IntoClause x
  | N_SelectStmt x => check_SelectStmt x
  | N_InsertStmt x => check_InsertStmt x
  | N_UpdateStmt x => check_UpdateStmt x
  | N_DeleteStmt x => check_DeleteStmt x
  | N_RawStmt x => check_RawStmt x
  | N_AlterTableCmd x => check_AlterTableCmd x
  | N_PartitionBoundSpec x => check_PartitionBoundSpec x
  | N_TableLikeClause x => check_TableLikeClause x
  | N_PartitionElem x => check_PartitionElem x
  | N_PartitionSpec x => check_PartitionSpec x
  | N_PartitionCmd x => check_PartitionCmd x
  | N_TriggerTransition x => check_TriggerTransition x
  | N_CreateSchemaStmt x => check_CreateSchemaStmt x
  | N_AlterTableStmt x => check_AlterTableStmt x
  | N_ReplicaIdentityStmt x => check_ReplicaIdentityStmt x
  | N_AlterCollationStmt x => check_AlterCollationStmt x
  | N_AlterDomainStmt x => check_AlterDomainStmt x
  | N_GrantStmt x => check_GrantStmt x
  | N_ObjectWithArgs x => check_ObjectWithArgs x
  | N_AccessPriv x => check_AccessPriv x
  | N_GrantRoleStmt x => check_GrantRoleStmt x
  | N_AlterDefaultPrivilegesStmt x => check_AlterDefaultPrivilegesStmt x
  | N_CopyStmt x => check_CopyStmt x
  | N_VariableSetStmt x => check_VariableSetStmt x
  | N_VariableShowStmt x => check_VariableShowStmt x
  | N_CreateStmt x => check_CreateStmt x
  | N_CreateTableSpaceStmt x => check_CreateTableSpaceStmt x
  | N_DropTableSpaceStmt x => check_DropTableSpaceStmt x
  | N_AlterTableSpaceOptionsStmt x => check_AlterTableSpaceOptionsStmt x
  | N_AlterTableMoveAllStmt x => check_AlterTableMoveAllStmt x
  | N_CreateExtensionStmt x => check_CreateExtensionStmt x
  | N_AlterExtensionStmt x => check_AlterExtensionStmt x
  | N_AlterExtensionContentsStmt x => check_AlterExtensionContentsStmt x
  | N_CreateFdwStmt x => check_CreateFdwStmt x
  | N_AlterFdwStmt x => check_AlterFdwStmt x
  | N_CreateForeignServerStmt x => check_CreateForeignServerStmt x
  | N_AlterForeignServerStmt x => check_AlterForeignServerStmt x
  | N_CreateForeignTableStmt x => check_CreateForeignTableStmt x
  | N_CreateUserMappingStmt x => check_CreateUserMappingStmt x
  | N_AlterUserMappingStmt x => check_AlterUserMappingStmt x
  | N_DropUserMappingStmt x => check_DropUserMappingStmt x
  | N_ImportForeignSchemaStmt x => check_ImportForeignSchemaStmt x
  | N_CreatePolicyStmt x => check_CreatePolicyStmt x
  | N_AlterPolicyStmt x => check_AlterPolicyStmt x
  | N_CreateAmStmt x => check_CreateAmStmt x
  | N_CreateTrigStmt x => check_CreateTrigStmt x
  | N_CreateEventTrigStmt x => check_CreateEventTrigStmt x
  | N_AlterEventTrigStmt x => check_AlterEventTrigStmt x
  | N_CreatePLangStmt x => check_CreatePLangStmt x
  | N_CreateRoleStmt x => check_CreateRoleStmt x
  | N_AlterRoleStmt x => check_AlterRoleStmt x
  | N_AlterRoleSetStmt x => check_AlterRoleSetStmt x
  | N_DropRoleStmt x => check_DropRoleStmt x
  | N_CreateSeqStmt x => check_CreateSeqStmt x
  | N_AlterSeqStmt x => check_AlterSeqStmt x
  | N_DefineStmt x => check_DefineStmt x
  | N_CreateDomainStmt x => check_CreateDomainStmt x
  | N_CreateOpClassStmt x => check_CreateOpClassStmt x
  | N_CreateOpClassItem x => check_CreateOpClassItem x
  | N_CreateOpFamilyStmt x => check_CreateOpFamilyStmt x
  | N_AlterOpFamilyStmt x => check_AlterOpFamilyStmt x
  | N_DropStmt x => check_DropStmt x
  | N_TruncateStmt x => check_TruncateStmt x
  | N_CommentStmt x => check_CommentStmt x
  | N_SecLabelStmt x => check_SecLabelStmt x
  | N_DeclareCursorStmt x => check_DeclareCursorStmt x
  | N_ClosePortalStmt x => check_ClosePortalStmt x
  | N_FetchStmt x => check_FetchStmt x
  | N_IndexStmt x => check_IndexStmt x
  | N_CreateStatsStmt x => check_CreateStatsStmt x
  | N_AlterStatsStmt x => check_AlterStatsStmt x
  | N_CreateFunctionStmt x => check_CreateFunctionStmt x
  | N_FunctionParameter x => check_FunctionParameter x
  | N_AlterFunctionStmt x => check_AlterFunctionStmt x
  | N_DoStmt x => check_DoStmt x
  | N_CallStmt x => check_CallStmt x
  | N_RenameStmt x => check_RenameStmt x
  | N_AlterObjectDependsStmt x => check_AlterObjectDependsStmt x
  | N_AlterObjectSchemaStmt x => check_AlterObjectSchemaStmt x
  | N_AlterOwnerStmt x => check_AlterOwnerStmt x
  | N_AlterOperatorStmt x => check_AlterOperatorStmt x
  | N_AlterTypeStmt x => check_AlterTypeStmt x
  | N_RuleStmt x => check_RuleStmt x
  | N_NotifyStmt x => check_NotifyStmt x
  | N_ListenStmt x => check_ListenStmt x
  | N_UnlistenStmt x => check_UnlistenStmt x
  | N_TransactionStmt x => check_TransactionStmt x
  | N_CompositeTypeStmt x => check_CompositeTypeStmt x
  | N_CreateEnumStmt x => check_CreateEnumStmt x
  | N_CreateRangeStmt x => check_CreateRangeStmt x
  | N_AlterEnumStmt x => check_AlterEnumStmt x
  | N_ViewStmt x => check_ViewStmt x
  | N_LoadStmt x => check_LoadStmt x
  | N_CreatedbStmt x => check_CreatedbStmt x
  | N_AlterDatabaseStmt x => check_AlterDatabaseStmt x
  | N_AlterDatabaseSetStmt x => check_AlterDatabaseSetStmt x
  | N_DropdbStmt x => check_DropdbStmt x
  | N_AlterSystemStmt x => check_AlterSystemStmt x
  | N_ClusterStmt x => check_ClusterStmt x
  | N_VacuumStmt x => check_VacuumStmt x
  | N_VacuumRelation x => check_VacuumRelation x
  | N_ExplainStmt x => check_ExplainStmt x
  | N_CreateTableAsStmt x => check_CreateTableAsStmt x
  | N_RefreshMatViewStmt x => check_RefreshMatViewStmt x
  | N_CheckPointStmt x => true
  | N_DiscardStmt x => true
  | N_LockStmt x => check_LockStmt x
  | N_ConstraintsSetStmt x => check_ConstraintsSetStmt x
  | N_ReindexStmt x => check_ReindexStmt x
  | N_CreateConversionStmt x => check_CreateConversionStmt x
  | N_CreateCastStmt x => check_CreateCastStmt x
  | N_CreateTransformStmt x => check_CreateTransformStmt x
  | N_PrepareStmt x => check_PrepareStmt x
  | N_ExecuteStmt x => check_ExecuteStmt x
  | N_DeallocateStmt x => check_DeallocateStmt x
  | N_DropOwnedStmt x => check_DropOwnedStmt x
  | N_ReassignOwnedStmt x => check_ReassignOwnedStmt x
  | N_AlterTSDictionaryStmt x => check_AlterTSDictionaryStmt x
  | N_AlterTSConfigurationStmt x => check_AlterTSConfigurationStmt x
  | N_CreatePublicationStmt x => check_CreatePublicationStmt x
  | N_AlterPublicationStmt x => check_AlterPublicationStmt x
  | N_CreateSubscriptionStmt x => check_CreateSubscriptionStmt x
  | N_AlterSubscriptionStmt x => check_AlterSubscriptionStmt x
  | N_DropSubscriptionStmt x => check_DropSubscriptionStmt x
  | N_FuncExpr x => check_FuncExpr x
  | N_Other _ => false
  end.
End check.

Fixpoint check (c : field_checks) (n : Node) : bool := check_body c (check c) n.
