(* ===== verification/CopyFuncs.v ===== *)
(** * Copies of trees

    [src/postgres/src_backend_nodes_copyfuncs.c]: [copyObjectImpl] and the function of
    every struct that occurs in raw parse trees, field by field in the order of the C
    code.  The tree is a value here, so that the copy shares no memory with it is left
    out; what is shown is that no field is forgotten. *)
From S2P Require Import Prelude Buffer Enums Nodes.

(** [_copyValue] *)
Definition _copyValue (from : Value) : Value :=
  match from with
  | Integer ival => Integer ival
  | Float str => Float str
  | String_ str => String_ str
  | BitString str => BitString str
  | Null => Null
  end.

Section copyfuncs.
Variable copyObjectImpl : Node -> outcome Node.

(** [COPY_NODE_FIELD] on a list is [list_copy_deep]; lists of integers are copied by
    [list_copy].  [COPY_SCALAR_FIELD] and [COPY_LOCATION_FIELD] are assignments. *)
Definition COPY_LIST_FIELD (l : list Node) : outcome (list Node) := mapo copyObjectImpl l.
Definition COPY_NODE_FIELD (p : option Node) : outcome (option Node) :=
  match p with Some n => let* n' := copyObjectImpl n in Ok (Some n') | None => Ok None end.
(** On a pointer to a struct, [copyObjectImpl] calls its function. *)
Definition COPY_STRUCT_FIELD {A} (copy : A -> outcome A) (p : option A) : outcome (option A) :=
  match p with Some x => let* x' := copy x in Ok (Some x') | None => Ok None end.
(** [pstrdup] of a string, which has no zero byte. *)
Definition COPY_STRING_FIELD (s : option string) : option string :=
  match s with Some s => Some s | None => None end.

Definition _copyAlias (from : Alias.t Node) : outcome (Alias.t Node) :=
  let* colnames' := COPY_LIST_FIELD from.(Alias.colnames) in
  Ok {| Alias.aliasname := COPY_STRING_FIELD from.(Alias.aliasname); Alias.colnames := colnames' |}.

Definition _copyRangeVar (from : RangeVar.t Node) : outcome (RangeVar.t Node) :=
  let* alias' := COPY_STRUCT_FIELD _copyAlias from.(RangeVar.alias) in
  Ok {| RangeVar.catalogname := COPY_STRING_FIELD from.(RangeVar.catalogname);
        RangeVar.schemaname := COPY_STRING_FIELD from.(RangeVar.schemaname);
        RangeVar.relname := COPY_STRING_FIELD from.(RangeVar.relname);
        RangeVar.inh := from.(RangeVar.inh);
        RangeVar.relpersistence := from.(RangeVar.relpersistence); RangeVar.alias := alias';
        RangeVar.location := from.(RangeVar.location) |}.

Definition _copyTypeName (from : TypeName.t Node) : outcome (TypeName.t Node) :=
  let* names' := COPY_LIST_FIELD from.(TypeName.names) in
  let* typmods' := COPY_LIST_FIELD from.(TypeName.typmods) in
  let* arrayBounds' := COPY_LIST_FIELD from.(TypeName.arrayBounds) in
  Ok {| TypeName.names := names'; TypeName.typeOid := from.(TypeName.typeOid);
        TypeName.setof := from.(TypeName.setof); TypeName.pct_type := from.(TypeName.pct_type);
        TypeName.typmods := typmods'; TypeName.typemod := from.(TypeName.typemod);
        TypeName.arrayBounds := arrayBounds'; TypeName.location := from.(TypeName.location) |}.

Definition _copyColumnRef (from : ColumnRef.t Node) : outcome (ColumnRef.t Node) :=
  let* fields' := COPY_LIST_FIELD from.(ColumnRef.fields) in
  Ok {| ColumnRef.fields := fields'; ColumnRef.location := from.(ColumnRef.location) |}.

Definition _copyParamRef (from : ParamRef.t Node) : outcome (ParamRef.t Node) :=
  Ok {| ParamRef.number := from.(ParamRef.number); ParamRef.location := from.(ParamRef.location) |}.

Definition _copyAExpr (from : A_Expr.t Node) : outcome (A_Expr.t Node) :=
  let* name' := COPY_LIST_FIELD from.(A_Expr.name) in
  let* lexpr' := COPY_NODE_FIELD from.(A_Expr.lexpr) in
  let* rexpr' := COPY_NODE_FIELD from.(A_Expr.rexpr) in
  Ok {| A_Expr.kind := from.(A_Expr.kind); A_Expr.name := name'; A_Expr.lexpr := lexpr';
        A_Expr.rexpr := rexpr'; A_Expr.location := from.(A_Expr.location) |}.

Definition _copyAConst (from : A_Const.t Node) : outcome (A_Const.t Node) :=
  Ok {| A_Const.val := _copyValue from.(A_Const.val); A_Const.location := from.(A_Const.location) |}.

Definition _copyTypeCast (from : TypeCast.t Node) : outcome (TypeCast.t Node) :=
  let* arg' := COPY_NODE_FIELD from.(TypeCast.arg) in
  let* typeName' := COPY_STRUCT_FIELD _copyTypeName from.(TypeCast.typeName) in
  Ok {| TypeCast.arg := arg'; TypeCast.typeName := typeName';
        TypeCast.location := from.(TypeCast.location) |}.

Definition _copyCollateClause (from : CollateClause.t Node) : outcome (CollateClause.t Node) :=
  let* arg' := COPY_NODE_FIELD from.(CollateClause.arg) in
  let* collname' := COPY_LIST_FIELD from.(CollateClause.collname) in
  Ok {| CollateClause.arg := arg'; CollateClause.collname := collname';
        CollateClause.location := from.(CollateClause.location) |}.

Definition _copyRoleSpec (from : RoleSpec.t Node) : outcome (RoleSpec.t Node) :=
  Ok {| RoleSpec.roletype := from.(RoleSpec.roletype);
        RoleSpec.rolename := COPY_STRING_FIELD from.(RoleSpec.rolename);
        RoleSpec.location := from.(RoleSpec.location) |}.

Definition _copyWindowDef (from : WindowDef.t Node) : outcome (WindowDef.t Node) :=
  let* partitionClause' := COPY_LIST_FIELD from.(WindowDef.partitionClause) in
  let* orderClause' := COPY_LIST_FIELD from.(WindowDef.orderClause) in
  let* startOffset' := COPY_NODE_FIELD from.(WindowDef.startOffset) in
  let* endOffset' := COPY_NODE_FIELD from.(WindowDef.endOffset) in
  Ok {| WindowDef.name := COPY_STRING_FIELD from.(WindowDef.name);
        WindowDef.refname := COPY_STRING_FIELD from.(WindowDef.refname);
        WindowDef.partitionClause := partitionClause'; WindowDef.orderClause := orderClause';
        WindowDef.frameOptions := from.(WindowDef.frameOptions);
        WindowDef.startOffset := startOffset'; WindowDef.endOffset := endOffset';
        WindowDef.location := from.(WindowDef.location) |}.

Definition _copySortBy (from : SortBy.t Node) : outcome (SortBy.t Node) :=
  let* node' := COPY_NODE_FIELD from.(SortBy.node) in
  let* useOp' := COPY_LIST_FIELD from.(SortBy.useOp) in
  Ok {| SortBy.node := node'; SortBy.sortby_dir := from.(SortBy.sortby_dir);
        SortBy.sortby_nulls := from.(SortBy.sortby_nulls); SortBy.useOp := useOp';
        SortBy.location := from.(SortBy.location) |}.

Definition _copyFuncCall (from : FuncCall.t Node) : outcome (FuncCall.t Node) :=
  let* funcname' := COPY_LIST_FIELD from.(FuncCall.funcname) in
  let* args' := COPY_LIST_FIELD from.(FuncCall.args) in
  let* agg_order' := COPY_LIST_FIELD from.(FuncCall.agg_order) in
  let* agg_filter' := COPY_NODE_FIELD from.(FuncCall.agg_filter) in
  let* over' := COPY_STRUCT_FIELD _copyWindowDef from.(FuncCall.over) in
  Ok {| FuncCall.funcname := funcname'; FuncCall.args := args'; FuncCall.agg_order := agg_order';
        FuncCall.agg_filter := agg_filter';
        FuncCall.agg_within_group := from.(FuncCall.agg_within_group);
        FuncCall.agg_star := from.(FuncCall.agg_star);
        FuncCall.agg_distinct := from.(FuncCall.agg_distinct);
        FuncCall.func_variadic := from.(FuncCall.func_variadic); FuncCall.over := over';
        FuncCall.location := from.(FuncCall.location) |}.

Definition _copyAStar (from : A_Star.t Node) : outcome (A_Star.t Node) :=
  Ok A_Star.mk.

Definition _copyAIndices (from : A_Indices.t Node) : outcome (A_Indices.t Node) :=
  let* lidx' := COPY_NODE_FIELD from.(A_Indices.lidx) in
  let* uidx' := COPY_NODE_FIELD from.(A_Indices.uidx) in
  Ok {| A_Indices.is_slice := from.(A_Indices.is_slice); A_Indices.lidx := lidx';
        A_Indices.uidx := uidx' |}.

Definition _copyA_Indirection (from : A_Indirection.t Node) : outcome (A_Indirection.t Node) :=
  let* arg' := COPY_NODE_FIELD from.(A_Indirection.arg) in
  let* indirection' := COPY_LIST_FIELD from.(A_Indirection.indirection) in
  Ok {| A_Indirection.arg := arg'; A_Indirection.indirection := indirection' |}.

Definition _copyA_ArrayExpr (from : A_ArrayExpr.t Node) : outcome (A_ArrayExpr.t Node) :=
  let* elements' := COPY_LIST_FIELD from.(A_ArrayExpr.elements) in
  Ok {| A_ArrayExpr.elements := elements'; A_ArrayExpr.location := from.(A_ArrayExpr.location) |}.

Definition _copyResTarget (from : ResTarget.t Node) : outcome (ResTarget.t Node) :=
  let* indirection' := COPY_LIST_FIELD from.(ResTarget.indirection) in
  let* val' := COPY_NODE_FIELD from.(ResTarget.val) in
  Ok {| ResTarget.name := COPY_STRING_FIELD from.(ResTarget.name);
        ResTarget.indirection := indirection'; ResTarget.val := val';
        ResTarget.location := from.(ResTarget.location) |}.

Definition _copyMultiAssignRef (from : MultiAssignRef.t Node) : outcome (MultiAssignRef.t Node) :=
  let* source' := COPY_NODE_FIELD from.(MultiAssignRef.source) in
  Ok {| MultiAssignRef.source := source'; MultiAssignRef.colno := from.(MultiAssignRef.colno);
        MultiAssignRef.ncolumns := from.(MultiAssignRef.ncolumns) |}.

Definition _copyNamedArgExpr (from : NamedArgExpr.t Node) : outcome (NamedArgExpr.t Node) :=
  let* arg' := COPY_NODE_FIELD from.(NamedArgExpr.arg) in
  Ok {| NamedArgExpr.arg := arg'; NamedArgExpr.name := COPY_STRING_FIELD from.(NamedArgExpr.name);
        NamedArgExpr.argnumber := from.(NamedArgExpr.argnumber);
        NamedArgExpr.location := from.(NamedArgExpr.location) |}.

Definition _copyBoolExpr (from : BoolExpr.t Node) : outcome (BoolExpr.t Node) :=
  let* args' := COPY_LIST_FIELD from.(BoolExpr.args) in
  Ok {| BoolExpr.boolop := from.(BoolExpr.boolop); BoolExpr.args := args';
        BoolExpr.location := from.(BoolExpr.location) |}.

Definition _copySubLink (from : SubLink.t Node) : outcome (SubLink.t Node) :=
  let* testexpr' := COPY_NODE_FIELD from.(SubLink.testexpr) in
  let* operName' := COPY_LIST_FIELD from.(SubLink.operName) in
  let* subselect' := COPY_NODE_FIELD from.(SubLink.subselect) in
  Ok {| SubLink.subLinkType := from.(SubLink.subLinkType);
        SubLink.subLinkId := from.(SubLink.subLinkId); SubLink.testexpr := testexpr';
        SubLink.operName := operName'; SubLink.subselect := subselect';
        SubLink.location := from.(SubLink.location) |}.

Definition _copyCaseWhen (from : CaseWhen.t Node) : outcome (CaseWhen.t Node) :=
  let* expr' := COPY_NODE_FIELD from.(CaseWhen.expr) in
  let* result' := COPY_NODE_FIELD from.(CaseWhen.result) in
  Ok {| CaseWhen.expr := expr'; CaseWhen.result := result';
        CaseWhen.location := from.(CaseWhen.location) |}.

Definition _copyCaseExpr (from : CaseExpr.t Node) : outcome (CaseExpr.t Node) :=
  let* arg' := COPY_NODE_FIELD from.(CaseExpr.arg) in
  let* args' := COPY_LIST_FIELD from.(CaseExpr.args) in
  let* defresult' := COPY_NODE_FIELD from.(CaseExpr.defresult) in
  Ok {| CaseExpr.casetype := from.(CaseExpr.casetype);
        CaseExpr.casecollid := from.(CaseExpr.casecollid); CaseExpr.arg := arg';
        CaseExpr.args := args'; CaseExpr.defresult := defresult';
        CaseExpr.location := from.(CaseExpr.location) |}.

Definition _copyRowExpr (from : RowExpr.t Node) : outcome (RowExpr.t Node) :=
  let* args' := COPY_LIST_FIELD from.(RowExpr.args) in
  let* colnames' := COPY_LIST_FIELD from.(RowExpr.colnames) in
  Ok {| RowExpr.args := args'; RowExpr.row_typeid := from.(RowExpr.row_typeid);
        RowExpr.row_format := from.(RowExpr.row_format); RowExpr.colnames := colnames';
        RowExpr.location := from.(RowExpr.location) |}.

Definition _copyCoalesceExpr (from : CoalesceExpr.t Node) : outcome (CoalesceExpr.t Node) :=
  let* args' := COPY_LIST_FIELD from.(CoalesceExpr.args) in
  Ok {| CoalesceExpr.coalescetype := from.(CoalesceExpr.coalescetype);
        CoalesceExpr.coalescecollid := from.(CoalesceExpr.coalescecollid);
        CoalesceExpr.args := args'; CoalesceExpr.location := from.(CoalesceExpr.location) |}.

Definition _copyMinMaxExpr (from : MinMaxExpr.t Node) : outcome (MinMaxExpr.t Node) :=
  let* args' := COPY_LIST_FIELD from.(MinMaxExpr.args) in
  Ok {| MinMaxExpr.minmaxtype := from.(MinMaxExpr.minmaxtype);
        MinMaxExpr.minmaxcollid := from.(MinMaxExpr.minmaxcollid);
        MinMaxExpr.inputcollid := from.(MinMaxExpr.inputcollid);
        MinMaxExpr.op := from.(MinMaxExpr.op); MinMaxExpr.args := args';
        MinMaxExpr.location := from.(MinMaxExpr.location) |}.

Definition _copySQLValueFunction (from : SQLValueFunction.t Node) : outcome (SQLValueFunction.t Node) :=
  Ok {| SQLValueFunction.op := from.(SQLValueFunction.op);
        SQLValueFunction.type_ := from.(SQLValueFunction.type_);
        SQLValueFunction.typmod := from.(SQLValueFunction.typmod);
        SQLValueFunction.location := from.(SQLValueFunction.location) |}.

Definition _copyXmlExpr (from : XmlExpr.t Node) : outcome (XmlExpr.t Node) :=
  let* named_args' := COPY_LIST_FIELD from.(XmlExpr.named_args) in
  let* arg_names' := COPY_LIST_FIELD from.(XmlExpr.arg_names) in
  let* args' := COPY_LIST_FIELD from.(XmlExpr.args) in
  Ok {| XmlExpr.op := from.(XmlExpr.op); XmlExpr.name := COPY_STRING_FIELD from.(XmlExpr.name);
        XmlExpr.named_args := named_args'; XmlExpr.arg_names := arg_names'; XmlExpr.args := args';
        XmlExpr.xmloption := from.(XmlExpr.xmloption); XmlExpr.type_ := from.(XmlExpr.type_);
        XmlExpr.typmod := from.(XmlExpr.typmod); XmlExpr.location := from.(XmlExpr.location) |}.

Definition _copyXmlSerialize (from : XmlSerialize.t Node) : outcome (XmlSerialize.t Node) :=
  let* expr' := COPY_NODE_FIELD from.(XmlSerialize.expr) in
  let* typeName' := COPY_STRUCT_FIELD _copyTypeName from.(XmlSerialize.typeName) in
  Ok {| XmlSerialize.xmloption := from.(XmlSerialize.xmloption); XmlSerialize.expr := expr';
        XmlSerialize.typeName := typeName'; XmlSerialize.location := from.(XmlSerialize.location) |}.

Definition _copyNullTest (from : NullTest.t Node) : outcome (NullTest.t Node) :=
  let* arg' := COPY_NODE_FIELD from.(NullTest.arg) in
  Ok {| NullTest.arg := arg'; NullTest.nulltesttype := from.(NullTest.nulltesttype);
        NullTest.argisrow := from.(NullTest.argisrow);
        NullTest.location := from.(NullTest.location) |}.

Definition _copyBooleanTest (from : BooleanTest.t Node) : outcome (BooleanTest.t Node) :=
  let* arg' := COPY_NODE_FIELD from.(BooleanTest.arg) in
  Ok {| BooleanTest.arg := arg'; BooleanTest.booltesttype := from.(BooleanTest.booltesttype);
        BooleanTest.location := from.(BooleanTest.location) |}.

Definition _copySetToDefault (from : SetToDefault.t Node) : outcome (SetToDefault.t Node) :=
  Ok {| SetToDefault.typeId := from.(SetToDefault.typeId);
        SetToDefault.typeMod := from.(SetToDefault.typeMod);
        SetToDefault.collation := from.(SetToDefault.collation);
        SetToDefault.location := from.(SetToDefault.location) |}.

Definition _copyCurrentOfExpr (from : CurrentOfExpr.t Node) : outcome (CurrentOfExpr.t Node) :=
  Ok {| CurrentOfExpr.cvarno := from.(CurrentOfExpr.cvarno);
        CurrentOfExpr.cursor_name := COPY_STRING_FIELD from.(CurrentOfExpr.cursor_name);
        CurrentOfExpr.cursor_param := from.(CurrentOfExpr.cursor_param) |}.

Definition _copyGroupingFunc (from : GroupingFunc.t Node) : outcome (GroupingFunc.t Node) :=
  let* args' := COPY_LIST_FIELD from.(GroupingFunc.args) in
  Ok {| GroupingFunc.args := args'; GroupingFunc.refs := from.(GroupingFunc.refs);
        GroupingFunc.cols := from.(GroupingFunc.cols);
        GroupingFunc.agglevelsup := from.(GroupingFunc.agglevelsup);
        GroupingFunc.location := from.(GroupingFunc.location) |}.

Definition _copyDefElem (from : DefElem.t Node) : outcome (DefElem.t Node) :=
  let* arg' := COPY_NODE_FIELD from.(DefElem.arg) in
  Ok {| DefElem.defnamespace := COPY_STRING_FIELD from.(DefElem.defnamespace);
        DefElem.defname := COPY_STRING_FIELD from.(DefElem.defname); DefElem.arg := arg';
        DefElem.defaction := from.(DefElem.defaction); DefElem.location := from.(DefElem.location) |}.

Definition _copyIndexElem (from : IndexElem.t Node) : outcome (IndexElem.t Node) :=
  let* expr' := COPY_NODE_FIELD from.(IndexElem.expr) in
  let* collation' := COPY_LIST_FIELD from.(IndexElem.collation) in
  let* opclass' := COPY_LIST_FIELD from.(IndexElem.opclass) in
  let* opclassopts' := COPY_LIST_FIELD from.(IndexElem.opclassopts) in
  Ok {| IndexElem.name := COPY_STRING_FIELD from.(IndexElem.name); IndexElem.expr := expr';
        IndexElem.indexcolname := COPY_STRING_FIELD from.(IndexElem.indexcolname);
        IndexElem.collation := collation'; IndexElem.opclass := opclass';
        IndexElem.opclassopts := opclassopts'; IndexElem.ordering := from.(IndexElem.ordering);
        IndexElem.nulls_ordering := from.(IndexElem.nulls_ordering) |}.

Definition _copyConstraint (from : Constraint.t Node) : outcome (Constraint.t Node) :=
  let* raw_expr' := COPY_NODE_FIELD from.(Constraint.raw_expr) in
  let* keys' := COPY_LIST_FIELD from.(Constraint.keys) in
  let* including' := COPY_LIST_FIELD from.(Constraint.including) in
  let* exclusions' := COPY_LIST_FIELD from.(Constraint.exclusions) in
  let* options' := COPY_LIST_FIELD from.(Constraint.options) in
  let* where_clause' := COPY_NODE_FIELD from.(Constraint.where_clause) in
  let* pktable' := COPY_STRUCT_FIELD _copyRangeVar from.(Constraint.pktable) in
  let* fk_attrs' := COPY_LIST_FIELD from.(Constraint.fk_attrs) in
  let* pk_attrs' := COPY_LIST_FIELD from.(Constraint.pk_attrs) in
  let* old_conpfeqop' := COPY_LIST_FIELD from.(Constraint.old_conpfeqop) in
  Ok {| Constraint.contype := from.(Constraint.contype);
        Constraint.conname := COPY_STRING_FIELD from.(Constraint.conname);
        Constraint.deferrable := from.(Constraint.deferrable);
        Constraint.initdeferred := from.(Constraint.initdeferred);
        Constraint.location := from.(Constraint.location);
        Constraint.is_no_inherit := from.(Constraint.is_no_inherit);
        Constraint.raw_expr := raw_expr';
        Constraint.cooked_expr := COPY_STRING_FIELD from.(Constraint.cooked_expr);
        Constraint.generated_when := from.(Constraint.generated_when); Constraint.keys := keys';
        Constraint.including := including'; Constraint.exclusions := exclusions';
        Constraint.options := options';
        Constraint.indexname := COPY_STRING_FIELD from.(Constraint.indexname);
        Constraint.indexspace := COPY_STRING_FIELD from.(Constraint.indexspace);
        Constraint.reset_default_tblspc := from.(Constraint.reset_default_tblspc);
        Constraint.access_method := COPY_STRING_FIELD from.(Constraint.access_method);
        Constraint.where_clause := where_clause'; Constraint.pktable := pktable';
        Constraint.fk_attrs := fk_attrs'; Constraint.pk_attrs := pk_attrs';
        Constraint.fk_matchtype := from.(Constraint.fk_matchtype);
        Constraint.fk_upd_action := from.(Constraint.fk_upd_action);
        Constraint.fk_del_action := from.(Constraint.fk_del_action);
        Constraint.old_conpfeqop := old_conpfeqop';
        Constraint.old_pktable_oid := from.(Constraint.old_pktable_oid);
        Constraint.skip_validation := from.(Constraint.skip_validation);
        Constraint.initially_valid := from.(Constraint.initially_valid) |}.

Definition _copyColumnDef (from : ColumnDef.t Node) : outcome (ColumnDef.t Node) :=
  let* typeName' := COPY_STRUCT_FIELD _copyTypeName from.(ColumnDef.typeName) in
  let* raw_default' := COPY_NODE_FIELD from.(ColumnDef.raw_default) in
  let* cooked_default' := COPY_NODE_FIELD from.(ColumnDef.cooked_default) in
  let* identitySequence' := COPY_STRUCT_FIELD _copyRangeVar from.(ColumnDef.identitySequence) in
  let* collClause' := COPY_STRUCT_FIELD _copyCollateClause from.(ColumnDef.collClause) in
  let* constraints' := COPY_LIST_FIELD from.(ColumnDef.constraints) in
  let* fdwoptions' := COPY_LIST_FIELD from.(ColumnDef.fdwoptions) in
  Ok {| ColumnDef.colname := COPY_STRING_FIELD from.(ColumnDef.colname);
        ColumnDef.typeName := typeName'; ColumnDef.inhcount := from.(ColumnDef.inhcount);
        ColumnDef.is_local := from.(ColumnDef.is_local);
        ColumnDef.is_not_null := from.(ColumnDef.is_not_null);
        ColumnDef.is_from_type := from.(ColumnDef.is_from_type);
        ColumnDef.storage := from.(ColumnDef.storage); ColumnDef.raw_default := raw_default';
        ColumnDef.cooked_default := cooked_default';
        ColumnDef.identity := from.(ColumnDef.identity);
        ColumnDef.identitySequence := identitySequence';
        ColumnDef.generated := from.(ColumnDef.generated); ColumnDef.collClause := collClause';
        ColumnDef.collOid := from.(ColumnDef.collOid); ColumnDef.constraints := constraints';
        ColumnDef.fdwoptions := fdwoptions'; ColumnDef.location := from.(ColumnDef.location) |}.

Definition _copyJoinExpr (from : JoinExpr.t Node) : outcome (JoinExpr.t Node) :=
  let* larg' := COPY_NODE_FIELD from.(JoinExpr.larg) in
  let* rarg' := COPY_NODE_FIELD from.(JoinExpr.rarg) in
  let* usingClause' := COPY_LIST_FIELD from.(JoinExpr.usingClause) in
  let* quals' := COPY_NODE_FIELD from.(JoinExpr.quals) in
  let* alias' := COPY_STRUCT_FIELD _copyAlias from.(JoinExpr.alias) in
  Ok {| JoinExpr.jointype := from.(JoinExpr.jointype);
        JoinExpr.isNatural := from.(JoinExpr.isNatural); JoinExpr.larg := larg';
        JoinExpr.rarg := rarg'; JoinExpr.usingClause := usingClause'; JoinExpr.quals := quals';
        JoinExpr.alias := alias'; JoinExpr.rtindex := from.(JoinExpr.rtindex) |}.

Definition _copyRangeSubselect (from : RangeSubselect.t Node) : outcome (RangeSubselect.t Node) :=
  let* subquery' := COPY_NODE_FIELD from.(RangeSubselect.subquery) in
  let* alias' := COPY_STRUCT_FIELD _copyAlias from.(RangeSubselect.alias) in
  Ok {| RangeSubselect.lateral := from.(RangeSubselect.lateral);
        RangeSubselect.subquery := subquery'; RangeSubselect.alias := alias' |}.

Definition _copyRangeFunction (from : RangeFunction.t Node) : outcome (RangeFunction.t Node) :=
  let* functions' := COPY_LIST_FIELD from.(RangeFunction.functions) in
  let* alias' := COPY_STRUCT_FIELD _copyAlias from.(RangeFunction.alias) in
  let* coldeflist' := COPY_LIST_FIELD from.(RangeFunction.coldeflist) in
  Ok {| RangeFunction.lateral := from.(RangeFunction.lateral);
        RangeFunction.ordinality := from.(RangeFunction.ordinality);
        RangeFunction.is_rowsfrom := from.(RangeFunction.is_rowsfrom);
        RangeFunction.functions := functions'; RangeFunction.alias := alias';
        RangeFunction.coldeflist := coldeflist' |}.

Definition _copyRangeTableFuncCol (from : RangeTableFuncCol.t Node) : outcome (RangeTableFuncCol.t Node) :=
  let* typeName' := COPY_STRUCT_FIELD _copyTypeName from.(RangeTableFuncCol.typeName) in
  let* colexpr' := COPY_NODE_FIELD from.(RangeTableFuncCol.colexpr) in
  let* coldefexpr' := COPY_NODE_FIELD from.(RangeTableFuncCol.coldefexpr) in
  Ok {| RangeTableFuncCol.colname := COPY_STRING_FIELD from.(RangeTableFuncCol.colname);
        RangeTableFuncCol.typeName := typeName';
        RangeTableFuncCol.for_ordinality := from.(RangeTableFuncCol.for_ordinality);
        RangeTableFuncCol.is_not_null := from.(RangeTableFuncCol.is_not_null);
        RangeTableFuncCol.colexpr := colexpr'; RangeTableFuncCol.coldefexpr := coldefexpr';
        RangeTableFuncCol.location := from.(RangeTableFuncCol.location) |}.

Definition _copyRangeTableFunc (from : RangeTableFunc.t Node) : outcome (RangeTableFunc.t Node) :=
  let* docexpr' := COPY_NODE_FIELD from.(RangeTableFunc.docexpr) in
  let* rowexpr' := COPY_NODE_FIELD from.(RangeTableFunc.rowexpr) in
  let* namespaces' := COPY_LIST_FIELD from.(RangeTableFunc.namespaces) in
  let* columns' := COPY_LIST_FIELD from.(RangeTableFunc.columns) in
  let* alias' := COPY_STRUCT_FIELD _copyAlias from.(RangeTableFunc.alias) in
  Ok {| RangeTableFunc.lateral := from.(RangeTableFunc.lateral);
        RangeTableFunc.docexpr := docexpr'; RangeTableFunc.rowexpr := rowexpr';
        RangeTableFunc.namespaces := namespaces'; RangeTableFunc.columns := columns';
        RangeTableFunc.alias := alias'; RangeTableFunc.location := from.(RangeTableFunc.location) |}.

Definition _copyRangeTableSample (from : RangeTableSample.t Node) : outcome (RangeTableSample.t Node) :=
  let* relation' := COPY_NODE_FIELD from.(RangeTableSample.relation) in
  let* method' := COPY_LIST_FIELD from.(RangeTableSample.method) in
  let* args' := COPY_LIST_FIELD from.(RangeTableSample.args) in
  let* repeatable' := COPY_NODE_FIELD from.(RangeTableSample.repeatable) in
  Ok {| RangeTableSample.relation := relation'; RangeTableSample.method := method';
        RangeTableSample.args := args'; RangeTableSample.repeatable := repeatable';
        RangeTableSample.location := from.(RangeTableSample.location) |}.

Definition _copyCommonTableExpr (from : CommonTableExpr.t Node) : outcome (CommonTableExpr.t Node) :=
  let* aliascolnames' := COPY_LIST_FIELD from.(CommonTableExpr.aliascolnames) in
  let* ctequery' := COPY_NODE_FIELD from.(CommonTableExpr.ctequery) in
  let* ctecolnames' := COPY_LIST_FIELD from.(CommonTableExpr.ctecolnames) in
  Ok {| CommonTableExpr.ctename := COPY_STRING_FIELD from.(CommonTableExpr.ctename);
        CommonTableExpr.aliascolnames := aliascolnames';
        CommonTableExpr.ctematerialized := from.(CommonTableExpr.ctematerialized);
        CommonTableExpr.ctequery := ctequery';
        CommonTableExpr.location := from.(CommonTableExpr.location);
        CommonTableExpr.cterecursive := from.(CommonTableExpr.cterecursive);
        CommonTableExpr.cterefcount := from.(CommonTableExpr.cterefcount);
        CommonTableExpr.ctecolnames := ctecolnames';
        CommonTableExpr.ctecoltypes := from.(CommonTableExpr.ctecoltypes);
        CommonTableExpr.ctecoltypmods := from.(CommonTableExpr.ctecoltypmods);
        CommonTableExpr.ctecolcollations := from.(CommonTableExpr.ctecolcollations) |}.

Definition _copyWithClause (from : WithClause.t Node) : outcome (WithClause.t Node) :=
  let* ctes' := COPY_LIST_FIELD from.(WithClause.ctes) in
  Ok {| WithClause.ctes := ctes'; WithClause.recursive := from.(WithClause.recursive);
        WithClause.location := from.(WithClause.location) |}.

Definition _copyInferClause (from : InferClause.t Node) : outcome (InferClause.t Node) :=
  let* indexElems' := COPY_LIST_FIELD from.(InferClause.indexElems) in
  let* whereClause' := COPY_NODE_FIELD from.(InferClause.whereClause) in
  Ok {| InferClause.indexElems := indexElems'; InferClause.whereClause := whereClause';
        InferClause.conname := COPY_STRING_FIELD from.(InferClause.conname);
        InferClause.location := from.(InferClause.location) |}.

Definition _copyOnConflictClause (from : OnConflictClause.t Node) : outcome (OnConflictClause.t Node) :=
  let* infer' := COPY_STRUCT_FIELD _copyInferClause from.(OnConflictClause.infer) in
  let* targetList' := COPY_LIST_FIELD from.(OnConflictClause.targetList) in
  let* whereClause' := COPY_NODE_FIELD from.(OnConflictClause.whereClause) in
  Ok {| OnConflictClause.action := from.(OnConflictClause.action);
        OnConflictClause.infer := infer'; OnConflictClause.targetList := targetList';
        OnConflictClause.whereClause := whereClause';
        OnConflictClause.location := from.(OnConflictClause.location) |}.

Definition _copyLockingClause (from : LockingClause.t Node) : outcome (LockingClause.t Node) :=
  let* lockedRels' := COPY_LIST_FIELD from.(LockingClause.lockedRels) in
  Ok {| LockingClause.lockedRels := lockedRels';
        LockingClause.strength := from.(LockingClause.strength);
        LockingClause.waitPolicy := from.(LockingClause.waitPolicy) |}.

Definition _copyGroupingSet (from : GroupingSet.t Node) : outcome (GroupingSet.t Node) :=
  let* content' := COPY_LIST_FIELD from.(GroupingSet.content) in
  Ok {| GroupingSet.kind := from.(GroupingSet.kind); GroupingSet.content := content';
        GroupingSet.location := from.(GroupingSet.location) |}.

Definition _copyIntoClause (from : IntoClause.t Node) : outcome (IntoClause.t Node) :=
  let* rel' := COPY_STRUCT_FIELD _copyRangeVar from.(IntoClause.rel) in
  let* colNames' := COPY_LIST_FIELD from.(IntoClause.colNames) in
  let* options' := COPY_LIST_FIELD from.(IntoClause.options) in
  let* viewQuery' := COPY_NODE_FIELD from.(IntoClause.viewQuery) in
  Ok {| IntoClause.rel := rel'; IntoClause.colNames := colNames';
        IntoClause.accessMethod := COPY_STRING_FIELD from.(IntoClause.accessMethod);
        IntoClause.options := options'; IntoClause.onCommit := from.(IntoClause.onCommit);
        IntoClause.tableSpaceName := COPY_STRING_FIELD from.(IntoClause.tableSpaceName);
        IntoClause.viewQuery := viewQuery'; IntoClause.skipData := from.(IntoClause.skipData) |}.

Definition _copySelectStmt (from : SelectStmt.t Node) : outcome (SelectStmt.t Node) :=
  let* distinctClause' := COPY_LIST_FIELD from.(SelectStmt.distinctClause) in
  let* intoClause' := COPY_STRUCT_FIELD _copyIntoClause from.(SelectStmt.intoClause) in
  let* targetList' := COPY_LIST_FIELD from.(SelectStmt.targetList) in
  let* fromClause' := COPY_LIST_FIELD from.(SelectStmt.fromClause) in
  let* whereClause' := COPY_NODE_FIELD from.(SelectStmt.whereClause) in
  let* groupClause' := COPY_LIST_FIELD from.(SelectStmt.groupClause) in
  let* havingClause' := COPY_NODE_FIELD from.(SelectStmt.havingClause) in
  let* windowClause' := COPY_LIST_FIELD from.(SelectStmt.windowClause) in
  let* valuesLists' := COPY_LIST_FIELD from.(SelectStmt.valuesLists) in
  let* sortClause' := COPY_LIST_FIELD from.(SelectStmt.sortClause) in
  let* limitOffset' := COPY_NODE_FIELD from.(SelectStmt.limitOffset) in
  let* limitCount' := COPY_NODE_FIELD from.(SelectStmt.limitCount) in
  let* lockingClause' := COPY_LIST_FIELD from.(SelectStmt.lockingClause) in
  let* withClause' := COPY_STRUCT_FIELD _copyWithClause from.(SelectStmt.withClause) in
  let* larg' := COPY_NODE_FIELD from.(SelectStmt.larg) in
  let* rarg' := COPY_NODE_FIELD from.(SelectStmt.rarg) in
  Ok {| SelectStmt.distinctClause := distinctClause'; SelectStmt.intoClause := intoClause';
        SelectStmt.targetList := targetList'; SelectStmt.fromClause := fromClause';
        SelectStmt.whereClause := whereClause'; SelectStmt.groupClause := groupClause';
        SelectStmt.havingClause := havingClause'; SelectStmt.windowClause := windowClause';
        SelectStmt.valuesLists := valuesLists'; SelectStmt.sortClause := sortClause';
        SelectStmt.limitOffset := limitOffset'; SelectStmt.limitCount := limitCount';
        SelectStmt.limitOption := from.(SelectStmt.limitOption);
        SelectStmt.lockingClause := lockingClause'; SelectStmt.withClause := withClause';
        SelectStmt.op := from.(SelectStmt.op); SelectStmt.all := from.(SelectStmt.all);
        SelectStmt.larg := larg'; SelectStmt.rarg := rarg' |}.

Definition _copyInsertStmt (from : InsertStmt.t Node) : outcome (InsertStmt.t Node) :=
  let* relation' := COPY_STRUCT_FIELD _copyRangeVar from.(InsertStmt.relation) in
  let* cols' := COPY_LIST_FIELD from.(InsertStmt.cols) in
  let* selectStmt' := COPY_NODE_FIELD from.(InsertStmt.selectStmt) in
  let* onConflictClause' := COPY_STRUCT_FIELD _copyOnConflictClause from.(InsertStmt.onConflictClause) in
  let* returningList' := COPY_LIST_FIELD from.(InsertStmt.returningList) in
  let* withClause' := COPY_STRUCT_FIELD _copyWithClause from.(InsertStmt.withClause) in
  Ok {| InsertStmt.relation := relation'; InsertStmt.cols := cols';
        InsertStmt.selectStmt := selectStmt'; InsertStmt.onConflictClause := onConflictClause';
        InsertStmt.returningList := returningList'; InsertStmt.withClause := withClause';
        InsertStmt.override := from.(InsertStmt.override) |}.

Definition _copyUpdateStmt (from : UpdateStmt.t Node) : outcome (UpdateStmt.t Node) :=
  let* relation' := COPY_STRUCT_FIELD _copyRangeVar from.(UpdateStmt.relation) in
  let* targetList' := COPY_LIST_FIELD from.(UpdateStmt.targetList) in
  let* whereClause' := COPY_NODE_FIELD from.(UpdateStmt.whereClause) in
  let* fromClause' := COPY_LIST_FIELD from.(UpdateStmt.fromClause) in
  let* returningList' := COPY_LIST_FIELD from.(UpdateStmt.returningList) in
  let* withClause' := COPY_STRUCT_FIELD _copyWithClause from.(UpdateStmt.withClause) in
  Ok {| UpdateStmt.relation := relation'; UpdateStmt.targetList := targetList';
        UpdateStmt.whereClause := whereClause'; UpdateStmt.fromClause := fromClause';
        UpdateStmt.returningList := returningList'; UpdateStmt.withClause := withClause' |}.

Definition _copyDeleteStmt (from : DeleteStmt.t Node) : outcome (DeleteStmt.t Node) :=
  let* relation' := COPY_STRUCT_FIELD _copyRangeVar from.(DeleteStmt.relation) in
  let* usingClause' := COPY_LIST_FIELD from.(DeleteStmt.usingClause) in
  let* whereClause' := COPY_NODE_FIELD from.(DeleteStmt.whereClause) in
  let* returningList' := COPY_LIST_FIELD from.(DeleteStmt.returningList) in
  let* withClause' := COPY_STRUCT_FIELD _copyWithClause from.(DeleteStmt.withClause) in
  Ok {| DeleteStmt.relation := relation'; DeleteStmt.usingClause := usingClause';
        DeleteStmt.whereClause := whereClause'; DeleteStmt.returningList := returningList';
        DeleteStmt.withClause := withClause' |}.

Definition _copyRawStmt (from : RawStmt.t Node) : outcome (RawStmt.t Node) :=
  let* stmt' := COPY_NODE_FIELD from.(RawStmt.stmt) in
  Ok {| RawStmt.stmt := stmt'; RawStmt.stmt_location := from.(RawStmt.stmt_location);
        RawStmt.stmt_len := from.(RawStmt.stmt_len) |}.

Definition _copyAlterTableCmd (from : AlterTableCmd.t Node) : outcome (AlterTableCmd.t Node) :=
  let* newowner' := COPY_STRUCT_FIELD _copyRoleSpec from.(AlterTableCmd.newowner) in
  let* def' := COPY_NODE_FIELD from.(AlterTableCmd.def) in
  Ok {| AlterTableCmd.subtype := from.(AlterTableCmd.subtype);
        AlterTableCmd.name := COPY_STRING_FIELD from.(AlterTableCmd.name);
        AlterTableCmd.num := from.(AlterTableCmd.num); AlterTableCmd.newowner := newowner';
        AlterTableCmd.def := def'; AlterTableCmd.behavior := from.(AlterTableCmd.behavior);
        AlterTableCmd.missing_ok := from.(AlterTableCmd.missing_ok) |}.

Definition _copyPartitionBoundSpec (from : PartitionBoundSpec.t Node) : outcome (PartitionBoundSpec.t Node) :=
  let* listdatums' := COPY_LIST_FIELD from.(PartitionBoundSpec.listdatums) in
  let* lowerdatums' := COPY_LIST_FIELD from.(PartitionBoundSpec.lowerdatums) in
  let* upperdatums' := COPY_LIST_FIELD from.(PartitionBoundSpec.upperdatums) in
  Ok {| PartitionBoundSpec.strategy := from.(PartitionBoundSpec.strategy);
        PartitionBoundSpec.is_default := from.(PartitionBoundSpec.is_default);
        PartitionBoundSpec.modulus := from.(PartitionBoundSpec.modulus);
        PartitionBoundSpec.remainder := from.(PartitionBoundSpec.remainder);
        PartitionBoundSpec.listdatums := listdatums';
        PartitionBoundSpec.lowerdatums := lowerdatums';
        PartitionBoundSpec.upperdatums := upperdatums';
        PartitionBoundSpec.location := from.(PartitionBoundSpec.location) |}.

Definition _copyTableLikeClause (from : TableLikeClause.t Node) : outcome (TableLikeClause.t Node) :=
  let* relation' := COPY_STRUCT_FIELD _copyRangeVar from.(TableLikeClause.relation) in
  Ok {| TableLikeClause.relation := relation';
        TableLikeClause.options := from.(TableLikeClause.options);
        TableLikeClause.relationOid := from.(TableLikeClause.relationOid) |}.

Definition _copyPartitionElem (from : PartitionElem.t Node) : outcome (PartitionElem.t Node) :=
  let* expr' := COPY_NODE_FIELD from.(PartitionElem.expr) in
  let* collation' := COPY_LIST_FIELD from.(PartitionElem.collation) in
  let* opclass' := COPY_LIST_FIELD from.(PartitionElem.opclass) in
  Ok {| PartitionElem.name := COPY_STRING_FIELD from.(PartitionElem.name);
        PartitionElem.expr := expr'; PartitionElem.collation := collation';
        PartitionElem.opclass := opclass'; PartitionElem.location := from.(PartitionElem.location) |}.

Definition _copyPartitionSpec (from : PartitionSpec.t Node) : outcome (PartitionSpec.t Node) :=
  let* partParams' := COPY_LIST_FIELD from.(PartitionSpec.partParams) in
  Ok {| PartitionSpec.strategy := COPY_STRING_FIELD from.(PartitionSpec.strategy);
        PartitionSpec.partParams := partParams';
        PartitionSpec.location := from.(PartitionSpec.location) |}.

Definition _copyPartitionCmd (from : PartitionCmd.t Node) : outcome (PartitionCmd.t Node) :=
  let* name' := COPY_STRUCT_FIELD _copyRangeVar from.(PartitionCmd.name) in
  let* bound' := COPY_STRUCT_FIELD _copyPartitionBoundSpec from.(PartitionCmd.bound) in
  Ok {| PartitionCmd.name := name'; PartitionCmd.bound := bound' |}.

Definition _copyTriggerTransition (from : TriggerTransition.t Node) : outcome (TriggerTransition.t Node) :=
  Ok {| TriggerTransition.name := COPY_STRING_FIELD from.(TriggerTransition.name);
        TriggerTransition.isNew := from.(TriggerTransition.isNew);
        TriggerTransition.isTable := from.(TriggerTransition.isTable) |}.

Definition _copyCreateSchemaStmt (from : CreateSchemaStmt.t Node) : outcome (CreateSchemaStmt.t Node) :=
  let* authrole' := COPY_STRUCT_FIELD _copyRoleSpec from.(CreateSchemaStmt.authrole) in
  let* schemaElts' := COPY_LIST_FIELD from.(CreateSchemaStmt.schemaElts) in
  Ok {| CreateSchemaStmt.schemaname := COPY_STRING_FIELD from.(CreateSchemaStmt.schemaname);
        CreateSchemaStmt.authrole := authrole'; CreateSchemaStmt.schemaElts := schemaElts';
        CreateSchemaStmt.if_not_exists := from.(CreateSchemaStmt.if_not_exists) |}.

Definition _copyAlterTableStmt (from : AlterTableStmt.t Node) : outcome (AlterTableStmt.t Node) :=
  let* relation' := COPY_STRUCT_FIELD _copyRangeVar from.(AlterTableStmt.relation) in
  let* cmds' := COPY_LIST_FIELD from.(AlterTableStmt.cmds) in
  Ok {| AlterTableStmt.relation := relation'; AlterTableStmt.cmds := cmds';
        AlterTableStmt.relkind := from.(AlterTableStmt.relkind);
        AlterTableStmt.missing_ok := from.(AlterTableStmt.missing_ok) |}.

Definition _copyReplicaIdentityStmt (from : ReplicaIdentityStmt.t Node) : outcome (ReplicaIdentityStmt.t Node) :=
  Ok {| ReplicaIdentityStmt.identity_type := from.(ReplicaIdentityStmt.identity_type);
        ReplicaIdentityStmt.name := COPY_STRING_FIELD from.(ReplicaIdentityStmt.name) |}.

Definition _copyAlterCollationStmt (from : AlterCollationStmt.t Node) : outcome (AlterCollationStmt.t Node) :=
  let* collname' := COPY_LIST_FIELD from.(AlterCollationStmt.collname) in
  Ok {| AlterCollationStmt.collname := collname' |}.

Definition _copyAlterDomainStmt (from : AlterDomainStmt.t Node) : outcome (AlterDomainStmt.t Node) :=
  let* typeName' := COPY_LIST_FIELD from.(AlterDomainStmt.typeName) in
  let* def' := COPY_NODE_FIELD from.(AlterDomainStmt.def) in
  Ok {| AlterDomainStmt.subtype := from.(AlterDomainStmt.subtype);
        AlterDomainStmt.typeName := typeName';
        AlterDomainStmt.name := COPY_STRING_FIELD from.(AlterDomainStmt.name);
        AlterDomainStmt.def := def'; AlterDomainStmt.behavior := from.(AlterDomainStmt.behavior);
        AlterDomainStmt.missing_ok := from.(AlterDomainStmt.missing_ok) |}.

Definition _copyGrantStmt (from : GrantStmt.t Node) : outcome (GrantStmt.t Node) :=
  let* objects' := COPY_LIST_FIELD from.(GrantStmt.objects) in
  let* privileges' := COPY_LIST_FIELD from.(GrantStmt.privileges) in
  let* grantees' := COPY_LIST_FIELD from.(GrantStmt.grantees) in
  Ok {| GrantStmt.is_grant := from.(GrantStmt.is_grant);
        GrantStmt.targtype := from.(GrantStmt.targtype);
        GrantStmt.objtype := from.(GrantStmt.objtype); GrantStmt.objects := objects';
        GrantStmt.privileges := privileges'; GrantStmt.grantees := grantees';
        GrantStmt.grant_option := from.(GrantStmt.grant_option);
        GrantStmt.behavior := from.(GrantStmt.behavior) |}.

Definition _copyObjectWithArgs (from : ObjectWithArgs.t Node) : outcome (ObjectWithArgs.t Node) :=
  let* objname' := COPY_LIST_FIELD from.(ObjectWithArgs.objname) in
  let* objargs' := COPY_LIST_FIELD from.(ObjectWithArgs.objargs) in
  Ok {| ObjectWithArgs.objname := objname'; ObjectWithArgs.objargs := objargs';
        ObjectWithArgs.args_unspecified := from.(ObjectWithArgs.args_unspecified) |}.

Definition _copyAccessPriv (from : AccessPriv.t Node) : outcome (AccessPriv.t Node) :=
  let* cols' := COPY_LIST_FIELD from.(AccessPriv.cols) in
  Ok {| AccessPriv.priv_name := COPY_STRING_FIELD from.(AccessPriv.priv_name);
        AccessPriv.cols := cols' |}.

Definition _copyGrantRoleStmt (from : GrantRoleStmt.t Node) : outcome (GrantRoleStmt.t Node) :=
  let* granted_roles' := COPY_LIST_FIELD from.(GrantRoleStmt.granted_roles) in
  let* grantee_roles' := COPY_LIST_FIELD from.(GrantRoleStmt.grantee_roles) in
  let* grantor' := COPY_STRUCT_FIELD _copyRoleSpec from.(GrantRoleStmt.grantor) in
  Ok {| GrantRoleStmt.granted_roles := granted_roles';
        GrantRoleStmt.grantee_roles := grantee_roles';
        GrantRoleStmt.is_grant := from.(GrantRoleStmt.is_grant);
        GrantRoleStmt.admin_opt := from.(GrantRoleStmt.admin_opt);
        GrantRoleStmt.grantor := grantor'; GrantRoleStmt.behavior := from.(GrantRoleStmt.behavior) |}.

Definition _copyAlterDefaultPrivilegesStmt (from : AlterDefaultPrivilegesStmt.t Node) : outcome (AlterDefaultPrivilegesStmt.t Node) :=
  let* options' := COPY_LIST_FIELD from.(AlterDefaultPrivilegesStmt.options) in
  let* action' := COPY_STRUCT_FIELD _copyGrantStmt from.(AlterDefaultPrivilegesStmt.action) in
  Ok {| AlterDefaultPrivilegesStmt.options := options';
        AlterDefaultPrivilegesStmt.action := action' |}.

Definition _copyCopyStmt (from : CopyStmt.t Node) : outcome (CopyStmt.t Node) :=
  let* relation' := COPY_STRUCT_FIELD _copyRangeVar from.(CopyStmt.relation) in
  let* query' := COPY_NODE_FIELD from.(CopyStmt.query) in
  let* attlist' := COPY_LIST_FIELD from.(CopyStmt.attlist) in
  let* options' := COPY_LIST_FIELD from.(CopyStmt.options) in
  let* whereClause' := COPY_NODE_FIELD from.(CopyStmt.whereClause) in
  Ok {| CopyStmt.relation := relation'; CopyStmt.query := query'; CopyStmt.attlist := attlist';
        CopyStmt.is_from := from.(CopyStmt.is_from);
        CopyStmt.is_program := from.(CopyStmt.is_program);
        CopyStmt.filename := COPY_STRING_FIELD from.(CopyStmt.filename);
        CopyStmt.options := options'; CopyStmt.whereClause := whereClause' |}.

Definition _copyVariableSetStmt (from : VariableSetStmt.t Node) : outcome (VariableSetStmt.t Node) :=
  let* args' := COPY_LIST_FIELD from.(VariableSetStmt.args) in
  Ok {| VariableSetStmt.kind := from.(VariableSetStmt.kind);
        VariableSetStmt.name := COPY_STRING_FIELD from.(VariableSetStmt.name);
        VariableSetStmt.args := args'; VariableSetStmt.is_local := from.(VariableSetStmt.is_local) |}.

Definition _copyVariableShowStmt (from : VariableShowStmt.t Node) : outcome (VariableShowStmt.t Node) :=
  Ok {| VariableShowStmt.name := COPY_STRING_FIELD from.(VariableShowStmt.name) |}.

Definition _copyCreateStmt (from : CreateStmt.t Node) : outcome (CreateStmt.t Node) :=
  let* relation' := COPY_STRUCT_FIELD _copyRangeVar from.(CreateStmt.relation) in
  let* tableElts' := COPY_LIST_FIELD from.(CreateStmt.tableElts) in
  let* inhRelations' := COPY_LIST_FIELD from.(CreateStmt.inhRelations) in
  let* partspec' := COPY_STRUCT_FIELD _copyPartitionSpec from.(CreateStmt.partspec) in
  let* partbound' := COPY_STRUCT_FIELD _copyPartitionBoundSpec from.(CreateStmt.partbound) in
  let* ofTypename' := COPY_STRUCT_FIELD _copyTypeName from.(CreateStmt.ofTypename) in
  let* constraints' := COPY_LIST_FIELD from.(CreateStmt.constraints) in
  let* options' := COPY_LIST_FIELD from.(CreateStmt.options) in
  Ok {| CreateStmt.relation := relation'; CreateStmt.tableElts := tableElts';
        CreateStmt.inhRelations := inhRelations'; CreateStmt.partspec := partspec';
        CreateStmt.partbound := partbound'; CreateStmt.ofTypename := ofTypename';
        CreateStmt.constraints := constraints'; CreateStmt.options := options';
        CreateStmt.oncommit := from.(CreateStmt.oncommit);
        CreateStmt.tablespacename := COPY_STRING_FIELD from.(CreateStmt.tablespacename);
        CreateStmt.accessMethod := COPY_STRING_FIELD from.(CreateStmt.accessMethod);
        CreateStmt.if_not_exists := from.(CreateStmt.if_not_exists) |}.

Definition _copyCreateTableSpaceStmt (from : CreateTableSpaceStmt.t Node) : outcome (CreateTableSpaceStmt.t Node) :=
  let* owner' := COPY_STRUCT_FIELD _copyRoleSpec from.(CreateTableSpaceStmt.owner) in
  let* options' := COPY_LIST_FIELD from.(CreateTableSpaceStmt.options) in
  Ok {| CreateTableSpaceStmt.tablespacename := COPY_STRING_FIELD from.(CreateTableSpaceStmt.tablespacename);
        CreateTableSpaceStmt.owner := owner';
        CreateTableSpaceStmt.location := COPY_STRING_FIELD from.(CreateTableSpaceStmt.location);
        CreateTableSpaceStmt.options := options' |}.

Definition _copyDropTableSpaceStmt (from : DropTableSpaceStmt.t Node) : outcome (DropTableSpaceStmt.t Node) :=
  Ok {| DropTableSpaceStmt.tablespacename := COPY_STRING_FIELD from.(DropTableSpaceStmt.tablespacename);
        DropTableSpaceStmt.missing_ok := from.(DropTableSpaceStmt.missing_ok) |}.

Definition _copyAlterTableSpaceOptionsStmt (from : AlterTableSpaceOptionsStmt.t Node) : outcome (AlterTableSpaceOptionsStmt.t Node) :=
  let* options' := COPY_LIST_FIELD from.(AlterTableSpaceOptionsStmt.options) in
  Ok {| AlterTableSpaceOptionsStmt.tablespacename := COPY_STRING_FIELD from.(AlterTableSpaceOptionsStmt.tablespacename);
        AlterTableSpaceOptionsStmt.options := options';
        AlterTableSpaceOptionsStmt.isReset := from.(AlterTableSpaceOptionsStmt.isReset) |}.

Definition _copyAlterTableMoveAllStmt (from : AlterTableMoveAllStmt.t Node) : outcome (AlterTableMoveAllStmt.t Node) :=
  let* roles' := COPY_LIST_FIELD from.(AlterTableMoveAllStmt.roles) in
  Ok {| AlterTableMoveAllStmt.orig_tablespacename := COPY_STRING_FIELD from.(AlterTableMoveAllStmt.orig_tablespacename);
        AlterTableMoveAllStmt.objtype := from.(AlterTableMoveAllStmt.objtype);
        AlterTableMoveAllStmt.roles := roles';
        AlterTableMoveAllStmt.new_tablespacename := COPY_STRING_FIELD from.(AlterTableMoveAllStmt.new_tablespacename);
        AlterTableMoveAllStmt.nowait := from.(AlterTableMoveAllStmt.nowait) |}.

Definition _copyCreateExtensionStmt (from : CreateExtensionStmt.t Node) : outcome (CreateExtensionStmt.t Node) :=
  let* options' := COPY_LIST_FIELD from.(CreateExtensionStmt.options) in
  Ok {| CreateExtensionStmt.extname := COPY_STRING_FIELD from.(CreateExtensionStmt.extname);
        CreateExtensionStmt.if_not_exists := from.(CreateExtensionStmt.if_not_exists);
        CreateExtensionStmt.options := options' |}.

Definition _copyAlterExtensionStmt (from : AlterExtensionStmt.t Node) : outcome (AlterExtensionStmt.t Node) :=
  let* options' := COPY_LIST_FIELD from.(AlterExtensionStmt.options) in
  Ok {| AlterExtensionStmt.extname := COPY_STRING_FIELD from.(AlterExtensionStmt.extname);
        AlterExtensionStmt.options := options' |}.

Definition _copyAlterExtensionContentsStmt (from : AlterExtensionContentsStmt.t Node) : outcome (AlterExtensionContentsStmt.t Node) :=
  let* object' := COPY_NODE_FIELD from.(AlterExtensionContentsStmt.object) in
  Ok {| AlterExtensionContentsStmt.extname := COPY_STRING_FIELD from.(AlterExtensionContentsStmt.extname);
        AlterExtensionContentsStmt.action := from.(AlterExtensionContentsStmt.action);
        AlterExtensionContentsStmt.objtype := from.(AlterExtensionContentsStmt.objtype);
        AlterExtensionContentsStmt.object := object' |}.

Definition _copyCreateFdwStmt (from : CreateFdwStmt.t Node) : outcome (CreateFdwStmt.t Node) :=
  let* func_options' := COPY_LIST_FIELD from.(CreateFdwStmt.func_options) in
  let* options' := COPY_LIST_FIELD from.(CreateFdwStmt.options) in
  Ok {| CreateFdwStmt.fdwname := COPY_STRING_FIELD from.(CreateFdwStmt.fdwname);
        CreateFdwStmt.func_options := func_options'; CreateFdwStmt.options := options' |}.

Definition _copyAlterFdwStmt (from : AlterFdwStmt.t Node) : outcome (AlterFdwStmt.t Node) :=
  let* func_options' := COPY_LIST_FIELD from.(AlterFdwStmt.func_options) in
  let* options' := COPY_LIST_FIELD from.(AlterFdwStmt.options) in
  Ok {| AlterFdwStmt.fdwname := COPY_STRING_FIELD from.(AlterFdwStmt.fdwname);
        AlterFdwStmt.func_options := func_options'; AlterFdwStmt.options := options' |}.

Definition _copyCreateForeignServerStmt (from : CreateForeignServerStmt.t Node) : outcome (CreateForeignServerStmt.t Node) :=
  let* options' := COPY_LIST_FIELD from.(CreateForeignServerStmt.options) in
  Ok {| CreateForeignServerStmt.servername := COPY_STRING_FIELD from.(CreateForeignServerStmt.servername);
        CreateForeignServerStmt.servertype := COPY_STRING_FIELD from.(CreateForeignServerStmt.servertype);
        CreateForeignServerStmt.version := COPY_STRING_FIELD from.(CreateForeignServerStmt.version);
        CreateForeignServerStmt.fdwname := COPY_STRING_FIELD from.(CreateForeignServerStmt.fdwname);
        CreateForeignServerStmt.if_not_exists := from.(CreateForeignServerStmt.if_not_exists);
        CreateForeignServerStmt.options := options' |}.

Definition _copyAlterForeignServerStmt (from : AlterForeignServerStmt.t Node) : outcome (AlterForeignServerStmt.t Node) :=
  let* options' := COPY_LIST_FIELD from.(AlterForeignServerStmt.options) in
  Ok {| AlterForeignServerStmt.servername := COPY_STRING_FIELD from.(AlterForeignServerStmt.servername);
        AlterForeignServerStmt.version := COPY_STRING_FIELD from.(AlterForeignServerStmt.version);
        AlterForeignServerStmt.options := options';
        AlterForeignServerStmt.has_version := from.(AlterForeignServerStmt.has_version) |}.

Definition _copyCreateForeignTableStmt (from : CreateForeignTableStmt.t Node) : outcome (CreateForeignTableStmt.t Node) :=
  let* base' := _copyCreateStmt from.(CreateForeignTableStmt.base) in
  let* options' := COPY_LIST_FIELD from.(CreateForeignTableStmt.options) in
  Ok {| CreateForeignTableStmt.base := base';
        CreateForeignTableStmt.servername := COPY_STRING_FIELD from.(CreateForeignTableStmt.servername);
        CreateForeignTableStmt.options := options' |}.

Definition _copyCreateUserMappingStmt (from : CreateUserMappingStmt.t Node) : outcome (CreateUserMappingStmt.t Node) :=
  let* user' := COPY_STRUCT_FIELD _copyRoleSpec from.(CreateUserMappingStmt.user) in
  let* options' := COPY_LIST_FIELD from.(CreateUserMappingStmt.options) in
  Ok {| CreateUserMappingStmt.user := user';
        CreateUserMappingStmt.servername := COPY_STRING_FIELD from.(CreateUserMappingStmt.servername);
        CreateUserMappingStmt.if_not_exists := from.(CreateUserMappingStmt.if_not_exists);
        CreateUserMappingStmt.options := options' |}.

Definition _copyAlterUserMappingStmt (from : AlterUserMappingStmt.t Node) : outcome (AlterUserMappingStmt.t Node) :=
  let* user' := COPY_STRUCT_FIELD _copyRoleSpec from.(AlterUserMappingStmt.user) in
  let* options' := COPY_LIST_FIELD from.(AlterUserMappingStmt.options) in
  Ok {| AlterUserMappingStmt.user := user';
        AlterUserMappingStmt.servername := COPY_STRING_FIELD from.(AlterUserMappingStmt.servername);
        AlterUserMappingStmt.options := options' |}.

Definition _copyDropUserMappingStmt (from : DropUserMappingStmt.t Node) : outcome (DropUserMappingStmt.t Node) :=
  let* user' := COPY_STRUCT_FIELD _copyRoleSpec from.(DropUserMappingStmt.user) in
  Ok {| DropUserMappingStmt.user := user';
        DropUserMappingStmt.servername := COPY_STRING_FIELD from.(DropUserMappingStmt.servername);
        DropUserMappingStmt.missing_ok := from.(DropUserMappingStmt.missing_ok) |}.

Definition _copyImportForeignSchemaStmt (from : ImportForeignSchemaStmt.t Node) : outcome (ImportForeignSchemaStmt.t Node) :=
  let* table_list' := COPY_LIST_FIELD from.(ImportForeignSchemaStmt.table_list) in
  let* options' := COPY_LIST_FIELD from.(ImportForeignSchemaStmt.options) in
  Ok {| ImportForeignSchemaStmt.server_name := COPY_STRING_FIELD from.(ImportForeignSchemaStmt.server_name);
        ImportForeignSchemaStmt.remote_schema := COPY_STRING_FIELD from.(ImportForeignSchemaStmt.remote_schema);
        ImportForeignSchemaStmt.local_schema := COPY_STRING_FIELD from.(ImportForeignSchemaStmt.local_schema);
        ImportForeignSchemaStmt.list_type := from.(ImportForeignSchemaStmt.list_type);
        ImportForeignSchemaStmt.table_list := table_list';
        ImportForeignSchemaStmt.options := options' |}.

Definition _copyCreatePolicyStmt (from : CreatePolicyStmt.t Node) : outcome (CreatePolicyStmt.t Node) :=
  let* table' := COPY_STRUCT_FIELD _copyRangeVar from.(CreatePolicyStmt.table) in
  let* roles' := COPY_LIST_FIELD from.(CreatePolicyStmt.roles) in
  let* qual' := COPY_NODE_FIELD from.(CreatePolicyStmt.qual) in
  let* with_check' := COPY_NODE_FIELD from.(CreatePolicyStmt.with_check) in
  Ok {| CreatePolicyStmt.policy_name := COPY_STRING_FIELD from.(CreatePolicyStmt.policy_name);
        CreatePolicyStmt.table := table';
        CreatePolicyStmt.cmd_name := COPY_STRING_FIELD from.(CreatePolicyStmt.cmd_name);
        CreatePolicyStmt.permissive := from.(CreatePolicyStmt.permissive);
        CreatePolicyStmt.roles := roles'; CreatePolicyStmt.qual := qual';
        CreatePolicyStmt.with_check := with_check' |}.

Definition _copyAlterPolicyStmt (from : AlterPolicyStmt.t Node) : outcome (AlterPolicyStmt.t Node) :=
  let* table' := COPY_STRUCT_FIELD _copyRangeVar from.(AlterPolicyStmt.table) in
  let* roles' := COPY_LIST_FIELD from.(AlterPolicyStmt.roles) in
  let* qual' := COPY_NODE_FIELD from.(AlterPolicyStmt.qual) in
  let* with_check' := COPY_NODE_FIELD from.(AlterPolicyStmt.with_check) in
  Ok {| AlterPolicyStmt.policy_name := COPY_STRING_FIELD from.(AlterPolicyStmt.policy_name);
        AlterPolicyStmt.table := table'; AlterPolicyStmt.roles := roles';
        AlterPolicyStmt.qual := qual'; AlterPolicyStmt.with_check := with_check' |}.

Definition _copyCreateAmStmt (from : CreateAmStmt.t Node) : outcome (CreateAmStmt.t Node) :=
  let* handler_name' := COPY_LIST_FIELD from.(CreateAmStmt.handler_name) in
  Ok {| CreateAmStmt.amname := COPY_STRING_FIELD from.(CreateAmStmt.amname);
        CreateAmStmt.handler_name := handler_name';
        CreateAmStmt.amtype := from.(CreateAmStmt.amtype) |}.

Definition _copyCreateTrigStmt (from : CreateTrigStmt.t Node) : outcome (CreateTrigStmt.t Node) :=
  let* relation' := COPY_STRUCT_FIELD _copyRangeVar from.(CreateTrigStmt.relation) in
  let* funcname' := COPY_LIST_FIELD from.(CreateTrigStmt.funcname) in
  let* args' := COPY_LIST_FIELD from.(CreateTrigStmt.args) in
  let* columns' := COPY_LIST_FIELD from.(CreateTrigStmt.columns) in
  let* whenClause' := COPY_NODE_FIELD from.(CreateTrigStmt.whenClause) in
  let* transitionRels' := COPY_LIST_FIELD from.(CreateTrigStmt.transitionRels) in
  let* constrrel' := COPY_STRUCT_FIELD _copyRangeVar from.(CreateTrigStmt.constrrel) in
  Ok {| CreateTrigStmt.trigname := COPY_STRING_FIELD from.(CreateTrigStmt.trigname);
        CreateTrigStmt.relation := relation'; CreateTrigStmt.funcname := funcname';
        CreateTrigStmt.args := args'; CreateTrigStmt.row := from.(CreateTrigStmt.row);
        CreateTrigStmt.timing := from.(CreateTrigStmt.timing);
        CreateTrigStmt.events := from.(CreateTrigStmt.events); CreateTrigStmt.columns := columns';
        CreateTrigStmt.whenClause := whenClause';
        CreateTrigStmt.isconstraint := from.(CreateTrigStmt.isconstraint);
        CreateTrigStmt.transitionRels := transitionRels';
        CreateTrigStmt.deferrable := from.(CreateTrigStmt.deferrable);
        CreateTrigStmt.initdeferred := from.(CreateTrigStmt.initdeferred);
        CreateTrigStmt.constrrel := constrrel' |}.

Definition _copyCreateEventTrigStmt (from : CreateEventTrigStmt.t Node) : outcome (CreateEventTrigStmt.t Node) :=
  let* whenclause' := COPY_LIST_FIELD from.(CreateEventTrigStmt.whenclause) in
  let* funcname' := COPY_LIST_FIELD from.(CreateEventTrigStmt.funcname) in
  Ok {| CreateEventTrigStmt.trigname := COPY_STRING_FIELD from.(CreateEventTrigStmt.trigname);
        CreateEventTrigStmt.eventname := COPY_STRING_FIELD from.(CreateEventTrigStmt.eventname);
        CreateEventTrigStmt.whenclause := whenclause'; CreateEventTrigStmt.funcname := funcname' |}.

Definition _copyAlterEventTrigStmt (from : AlterEventTrigStmt.t Node) : outcome (AlterEventTrigStmt.t Node) :=
  Ok {| AlterEventTrigStmt.trigname := COPY_STRING_FIELD from.(AlterEventTrigStmt.trigname);
        AlterEventTrigStmt.tgenabled := from.(AlterEventTrigStmt.tgenabled) |}.

Definition _copyCreatePLangStmt (from : CreatePLangStmt.t Node) : outcome (CreatePLangStmt.t Node) :=
  let* plhandler' := COPY_LIST_FIELD from.(CreatePLangStmt.plhandler) in
  let* plinline' := COPY_LIST_FIELD from.(CreatePLangStmt.plinline) in
  let* plvalidator' := COPY_LIST_FIELD from.(CreatePLangStmt.plvalidator) in
  Ok {| CreatePLangStmt.replace := from.(CreatePLangStmt.replace);
        CreatePLangStmt.plname := COPY_STRING_FIELD from.(CreatePLangStmt.plname);
        CreatePLangStmt.plhandler := plhandler'; CreatePLangStmt.plinline := plinline';
        CreatePLangStmt.plvalidator := plvalidator';
        CreatePLangStmt.pltrusted := from.(CreatePLangStmt.pltrusted) |}.

Definition _copyCreateRoleStmt (from : CreateRoleStmt.t Node) : outcome (CreateRoleStmt.t Node) :=
  let* options' := COPY_LIST_FIELD from.(CreateRoleStmt.options) in
  Ok {| CreateRoleStmt.stmt_type := from.(CreateRoleStmt.stmt_type);
        CreateRoleStmt.role := COPY_STRING_FIELD from.(CreateRoleStmt.role);
        CreateRoleStmt.options := options' |}.

Definition _copyAlterRoleStmt (from : AlterRoleStmt.t Node) : outcome (AlterRoleStmt.t Node) :=
  let* role' := COPY_STRUCT_FIELD _copyRoleSpec from.(AlterRoleStmt.role) in
  let* options' := COPY_LIST_FIELD from.(AlterRoleStmt.options) in
  Ok {| AlterRoleStmt.role := role'; AlterRoleStmt.options := options';
        AlterRoleStmt.action := from.(AlterRoleStmt.action) |}.

Definition _copyAlterRoleSetStmt (from : AlterRoleSetStmt.t Node) : outcome (AlterRoleSetStmt.t Node) :=
  let* role' := COPY_STRUCT_FIELD _copyRoleSpec from.(AlterRoleSetStmt.role) in
  let* setstmt' := COPY_STRUCT_FIELD _copyVariableSetStmt from.(AlterRoleSetStmt.setstmt) in
  Ok {| AlterRoleSetStmt.role := role';
        AlterRoleSetStmt.database := COPY_STRING_FIELD from.(AlterRoleSetStmt.database);
        AlterRoleSetStmt.setstmt := setstmt' |}.

Definition _copyDropRoleStmt (from : DropRoleStmt.t Node) : outcome (DropRoleStmt.t Node) :=
  let* roles' := COPY_LIST_FIELD from.(DropRoleStmt.roles) in
  Ok {| DropRoleStmt.roles := roles'; DropRoleStmt.missing_ok := from.(DropRoleStmt.missing_ok) |}.

Definition _copyCreateSeqStmt (from : CreateSeqStmt.t Node) : outcome (CreateSeqStmt.t Node) :=
  let* sequence' := COPY_STRUCT_FIELD _copyRangeVar from.(CreateSeqStmt.sequence) in
  let* options' := COPY_LIST_FIELD from.(CreateSeqStmt.options) in
  Ok {| CreateSeqStmt.sequence := sequence'; CreateSeqStmt.options := options';
        CreateSeqStmt.ownerId := from.(CreateSeqStmt.ownerId);
        CreateSeqStmt.for_identity := from.(CreateSeqStmt.for_identity);
        CreateSeqStmt.if_not_exists := from.(CreateSeqStmt.if_not_exists) |}.

Definition _copyAlterSeqStmt (from : AlterSeqStmt.t Node) : outcome (AlterSeqStmt.t Node) :=
  let* sequence' := COPY_STRUCT_FIELD _copyRangeVar from.(AlterSeqStmt.sequence) in
  let* options' := COPY_LIST_FIELD from.(AlterSeqStmt.options) in
  Ok {| AlterSeqStmt.sequence := sequence'; AlterSeqStmt.options := options';
        AlterSeqStmt.for_identity := from.(AlterSeqStmt.for_identity);
        AlterSeqStmt.missing_ok := from.(AlterSeqStmt.missing_ok) |}.

Definition _copyDefineStmt (from : DefineStmt.t Node) : outcome (DefineStmt.t Node) :=
  let* defnames' := COPY_LIST_FIELD from.(DefineStmt.defnames) in
  let* args' := COPY_LIST_FIELD from.(DefineStmt.args) in
  let* definition' := COPY_LIST_FIELD from.(DefineStmt.definition) in
  Ok {| DefineStmt.kind := from.(DefineStmt.kind);
        DefineStmt.oldstyle := from.(DefineStmt.oldstyle); DefineStmt.defnames := defnames';
        DefineStmt.args := args'; DefineStmt.definition := definition';
        DefineStmt.if_not_exists := from.(DefineStmt.if_not_exists);
        DefineStmt.replace := from.(DefineStmt.replace) |}.

Definition _copyCreateDomainStmt (from : CreateDomainStmt.t Node) : outcome (CreateDomainStmt.t Node) :=
  let* domainname' := COPY_LIST_FIELD from.(CreateDomainStmt.domainname) in
  let* typeName' := COPY_STRUCT_FIELD _copyTypeName from.(CreateDomainStmt.typeName) in
  let* collClause' := COPY_STRUCT_FIELD _copyCollateClause from.(CreateDomainStmt.collClause) in
  let* constraints' := COPY_LIST_FIELD from.(CreateDomainStmt.constraints) in
  Ok {| CreateDomainStmt.domainname := domainname'; CreateDomainStmt.typeName := typeName';
        CreateDomainStmt.collClause := collClause'; CreateDomainStmt.constraints := constraints' |}.

Definition _copyCreateOpClassStmt (from : CreateOpClassStmt.t Node) : outcome (CreateOpClassStmt.t Node) :=
  let* opclassname' := COPY_LIST_FIELD from.(CreateOpClassStmt.opclassname) in
  let* opfamilyname' := COPY_LIST_FIELD from.(CreateOpClassStmt.opfamilyname) in
  let* datatype' := COPY_STRUCT_FIELD _copyTypeName from.(CreateOpClassStmt.datatype) in
  let* items' := COPY_LIST_FIELD from.(CreateOpClassStmt.items) in
  Ok {| CreateOpClassStmt.opclassname := opclassname';
        CreateOpClassStmt.opfamilyname := opfamilyname';
        CreateOpClassStmt.amname := COPY_STRING_FIELD from.(CreateOpClassStmt.amname);
        CreateOpClassStmt.datatype := datatype'; CreateOpClassStmt.items := items';
        CreateOpClassStmt.isDefault := from.(CreateOpClassStmt.isDefault) |}.

Definition _copyCreateOpClassItem (from : CreateOpClassItem.t Node) : outcome (CreateOpClassItem.t Node) :=
  let* name' := COPY_STRUCT_FIELD _copyObjectWithArgs from.(CreateOpClassItem.name) in
  let* order_family' := COPY_LIST_FIELD from.(CreateOpClassItem.order_family) in
  let* class_args' := COPY_LIST_FIELD from.(CreateOpClassItem.class_args) in
  let* storedtype' := COPY_STRUCT_FIELD _copyTypeName from.(CreateOpClassItem.storedtype) in
  Ok {| CreateOpClassItem.itemtype := from.(CreateOpClassItem.itemtype);
        CreateOpClassItem.name := name';
        CreateOpClassItem.number := from.(CreateOpClassItem.number);
        CreateOpClassItem.order_family := order_family';
        CreateOpClassItem.class_args := class_args'; CreateOpClassItem.storedtype := storedtype' |}.

Definition _copyCreateOpFamilyStmt (from : CreateOpFamilyStmt.t Node) : outcome (CreateOpFamilyStmt.t Node) :=
  let* opfamilyname' := COPY_LIST_FIELD from.(CreateOpFamilyStmt.opfamilyname) in
  Ok {| CreateOpFamilyStmt.opfamilyname := opfamilyname';
        CreateOpFamilyStmt.amname := COPY_STRING_FIELD from.(CreateOpFamilyStmt.amname) |}.

Definition _copyAlterOpFamilyStmt (from : AlterOpFamilyStmt.t Node) : outcome (AlterOpFamilyStmt.t Node) :=
  let* opfamilyname' := COPY_LIST_FIELD from.(AlterOpFamilyStmt.opfamilyname) in
  let* items' := COPY_LIST_FIELD from.(AlterOpFamilyStmt.items) in
  Ok {| AlterOpFamilyStmt.opfamilyname := opfamilyname';
        AlterOpFamilyStmt.amname := COPY_STRING_FIELD from.(AlterOpFamilyStmt.amname);
        AlterOpFamilyStmt.isDrop := from.(AlterOpFamilyStmt.isDrop);
        AlterOpFamilyStmt.items := items' |}.

Definition _copyDropStmt (from : DropStmt.t Node) : outcome (DropStmt.t Node) :=
  let* objects' := COPY_LIST_FIELD from.(DropStmt.objects) in
  Ok {| DropStmt.objects := objects'; DropStmt.removeType := from.(DropStmt.removeType);
        DropStmt.behavior := from.(DropStmt.behavior);
        DropStmt.missing_ok := from.(DropStmt.missing_ok);
        DropStmt.concurrent := from.(DropStmt.concurrent) |}.

Definition _copyTruncateStmt (from : TruncateStmt.t Node) : outcome (TruncateStmt.t Node) :=
  let* relations' := COPY_LIST_FIELD from.(TruncateStmt.relations) in
  Ok {| TruncateStmt.relations := relations';
        TruncateStmt.restart_seqs := from.(TruncateStmt.restart_seqs);
        TruncateStmt.behavior := from.(TruncateStmt.behavior) |}.

Definition _copyCommentStmt (from : CommentStmt.t Node) : outcome (CommentStmt.t Node) :=
  let* object' := COPY_NODE_FIELD from.(CommentStmt.object) in
  Ok {| CommentStmt.objtype := from.(CommentStmt.objtype); CommentStmt.object := object';
        CommentStmt.comment := COPY_STRING_FIELD from.(CommentStmt.comment) |}.

Definition _copySecLabelStmt (from : SecLabelStmt.t Node) : outcome (SecLabelStmt.t Node) :=
  let* object' := COPY_NODE_FIELD from.(SecLabelStmt.object) in
  Ok {| SecLabelStmt.objtype := from.(SecLabelStmt.objtype); SecLabelStmt.object := object';
        SecLabelStmt.provider := COPY_STRING_FIELD from.(SecLabelStmt.provider);
        SecLabelStmt.label := COPY_STRING_FIELD from.(SecLabelStmt.label) |}.

Definition _copyDeclareCursorStmt (from : DeclareCursorStmt.t Node) : outcome (DeclareCursorStmt.t Node) :=
  let* query' := COPY_NODE_FIELD from.(DeclareCursorStmt.query) in
  Ok {| DeclareCursorStmt.portalname := COPY_STRING_FIELD from.(DeclareCursorStmt.portalname);
        DeclareCursorStmt.options := from.(DeclareCursorStmt.options);
        DeclareCursorStmt.query := query' |}.

Definition _copyClosePortalStmt (from : ClosePortalStmt.t Node) : outcome (ClosePortalStmt.t Node) :=
  Ok {| ClosePortalStmt.portalname := COPY_STRING_FIELD from.(ClosePortalStmt.portalname) |}.

Definition _copyFetchStmt (from : FetchStmt.t Node) : outcome (FetchStmt.t Node) :=
  Ok {| FetchStmt.direction := from.(FetchStmt.direction);
        FetchStmt.howMany := from.(FetchStmt.howMany);
        FetchStmt.portalname := COPY_STRING_FIELD from.(FetchStmt.portalname);
        FetchStmt.ismove := from.(FetchStmt.ismove) |}.

Definition _copyIndexStmt (from : IndexStmt.t Node) : outcome (IndexStmt.t Node) :=
  let* relation' := COPY_STRUCT_FIELD _copyRangeVar from.(IndexStmt.relation) in
  let* indexParams' := COPY_LIST_FIELD from.(IndexStmt.indexParams) in
  let* indexIncludingParams' := COPY_LIST_FIELD from.(IndexStmt.indexIncludingParams) in
  let* options' := COPY_LIST_FIELD from.(IndexStmt.options) in
  let* whereClause' := COPY_NODE_FIELD from.(IndexStmt.whereClause) in
  let* excludeOpNames' := COPY_LIST_FIELD from.(IndexStmt.excludeOpNames) in
  Ok {| IndexStmt.idxname := COPY_STRING_FIELD from.(IndexStmt.idxname);
        IndexStmt.relation := relation';
        IndexStmt.accessMethod := COPY_STRING_FIELD from.(IndexStmt.accessMethod);
        IndexStmt.tableSpace := COPY_STRING_FIELD from.(IndexStmt.tableSpace);
        IndexStmt.indexParams := indexParams';
        IndexStmt.indexIncludingParams := indexIncludingParams'; IndexStmt.options := options';
        IndexStmt.whereClause := whereClause'; IndexStmt.excludeOpNames := excludeOpNames';
        IndexStmt.idxcomment := COPY_STRING_FIELD from.(IndexStmt.idxcomment);
        IndexStmt.indexOid := from.(IndexStmt.indexOid);
        IndexStmt.oldNode := from.(IndexStmt.oldNode);
        IndexStmt.oldCreateSubid := from.(IndexStmt.oldCreateSubid);
        IndexStmt.oldFirstRelfilenodeSubid := from.(IndexStmt.oldFirstRelfilenodeSubid);
        IndexStmt.unique := from.(IndexStmt.unique);
        IndexStmt.primary := from.(IndexStmt.primary);
        IndexStmt.isconstraint := from.(IndexStmt.isconstraint);
        IndexStmt.deferrable := from.(IndexStmt.deferrable);
        IndexStmt.initdeferred := from.(IndexStmt.initdeferred);
        IndexStmt.transformed := from.(IndexStmt.transformed);
        IndexStmt.concurrent := from.(IndexStmt.concurrent);
        IndexStmt.if_not_exists := from.(IndexStmt.if_not_exists);
        IndexStmt.reset_default_tblspc := from.(IndexStmt.reset_default_tblspc) |}.

Definition _copyCreateStatsStmt (from : CreateStatsStmt.t Node) : outcome (CreateStatsStmt.t Node) :=
  let* defnames' := COPY_LIST_FIELD from.(CreateStatsStmt.defnames) in
  let* stat_types' := COPY_LIST_FIELD from.(CreateStatsStmt.stat_types) in
  let* exprs' := COPY_LIST_FIELD from.(CreateStatsStmt.exprs) in
  let* relations' := COPY_LIST_FIELD from.(CreateStatsStmt.relations) in
  Ok {| CreateStatsStmt.defnames := defnames'; CreateStatsStmt.stat_types := stat_types';
        CreateStatsStmt.exprs := exprs'; CreateStatsStmt.relations := relations';
        CreateStatsStmt.stxcomment := COPY_STRING_FIELD from.(CreateStatsStmt.stxcomment);
        CreateStatsStmt.if_not_exists := from.(CreateStatsStmt.if_not_exists) |}.

Definition _copyAlterStatsStmt (from : AlterStatsStmt.t Node) : outcome (AlterStatsStmt.t Node) :=
  let* defnames' := COPY_LIST_FIELD from.(AlterStatsStmt.defnames) in
  Ok {| AlterStatsStmt.defnames := defnames';
        AlterStatsStmt.stxstattarget := from.(AlterStatsStmt.stxstattarget);
        AlterStatsStmt.missing_ok := from.(AlterStatsStmt.missing_ok) |}.

Definition _copyCreateFunctionStmt (from : CreateFunctionStmt.t Node) : outcome (CreateFunctionStmt.t Node) :=
  let* funcname' := COPY_LIST_FIELD from.(CreateFunctionStmt.funcname) in
  let* parameters' := COPY_LIST_FIELD from.(CreateFunctionStmt.parameters) in
  let* returnType' := COPY_STRUCT_FIELD _copyTypeName from.(CreateFunctionStmt.returnType) in
  let* options' := COPY_LIST_FIELD from.(CreateFunctionStmt.options) in
  Ok {| CreateFunctionStmt.is_procedure := from.(CreateFunctionStmt.is_procedure);
        CreateFunctionStmt.replace := from.(CreateFunctionStmt.replace);
        CreateFunctionStmt.funcname := funcname'; CreateFunctionStmt.parameters := parameters';
        CreateFunctionStmt.returnType := returnType'; CreateFunctionStmt.options := options' |}.

Definition _copyFunctionParameter (from : FunctionParameter.t Node) : outcome (FunctionParameter.t Node) :=
  let* argType' := COPY_STRUCT_FIELD _copyTypeName from.(FunctionParameter.argType) in
  let* defexpr' := COPY_NODE_FIELD from.(FunctionParameter.defexpr) in
  Ok {| FunctionParameter.name := COPY_STRING_FIELD from.(FunctionParameter.name);
        FunctionParameter.argType := argType';
        FunctionParameter.mode := from.(FunctionParameter.mode);
        FunctionParameter.defexpr := defexpr' |}.

Definition _copyAlterFunctionStmt (from : AlterFunctionStmt.t Node) : outcome (AlterFunctionStmt.t Node) :=
  let* func' := COPY_STRUCT_FIELD _copyObjectWithArgs from.(AlterFunctionStmt.func) in
  let* actions' := COPY_LIST_FIELD from.(AlterFunctionStmt.actions) in
  Ok {| AlterFunctionStmt.objtype := from.(AlterFunctionStmt.objtype);
        AlterFunctionStmt.func := func'; AlterFunctionStmt.actions := actions' |}.

Definition _copyDoStmt (from : DoStmt.t Node) : outcome (DoStmt.t Node) :=
  let* args' := COPY_LIST_FIELD from.(DoStmt.args) in
  Ok {| DoStmt.args := args' |}.

Definition _copyFuncExpr (from : FuncExpr.t Node) : outcome (FuncExpr.t Node) :=
  let* args' := COPY_LIST_FIELD from.(FuncExpr.args) in
  Ok {| FuncExpr.funcid := from.(FuncExpr.funcid);
        FuncExpr.funcresulttype := from.(FuncExpr.funcresulttype);
        FuncExpr.funcretset := from.(FuncExpr.funcretset);
        FuncExpr.funcvariadic := from.(FuncExpr.funcvariadic);
        FuncExpr.funcformat := from.(FuncExpr.funcformat);
        FuncExpr.funccollid := from.(FuncExpr.funccollid);
        FuncExpr.inputcollid := from.(FuncExpr.inputcollid); FuncExpr.args := args';
        FuncExpr.location := from.(FuncExpr.location) |}.

Definition _copyCallStmt (from : CallStmt.t Node) : outcome (CallStmt.t Node) :=
  let* funccall' := COPY_STRUCT_FIELD _copyFuncCall from.(CallStmt.funccall) in
  let* funcexpr' := COPY_STRUCT_FIELD _copyFuncExpr from.(CallStmt.funcexpr) in
  Ok {| CallStmt.funccall := funccall'; CallStmt.funcexpr := funcexpr' |}.

Definition _copyRenameStmt (from : RenameStmt.t Node) : outcome (RenameStmt.t Node) :=
  let* relation' := COPY_STRUCT_FIELD _copyRangeVar from.(RenameStmt.relation) in
  let* object' := COPY_NODE_FIELD from.(RenameStmt.object) in
  Ok {| RenameStmt.renameType := from.(RenameStmt.renameType);
        RenameStmt.relationType := from.(RenameStmt.relationType);
        RenameStmt.relation := relation'; RenameStmt.object := object';
        RenameStmt.subname := COPY_STRING_FIELD from.(RenameStmt.subname);
        RenameStmt.newname := COPY_STRING_FIELD from.(RenameStmt.newname);
        RenameStmt.behavior := from.(RenameStmt.behavior);
        RenameStmt.missing_ok := from.(RenameStmt.missing_ok) |}.

Definition _copyAlterObjectDependsStmt (from : AlterObjectDependsStmt.t Node) : outcome (AlterObjectDependsStmt.t Node) :=
  let* relation' := COPY_STRUCT_FIELD _copyRangeVar from.(AlterObjectDependsStmt.relation) in
  let* object' := COPY_NODE_FIELD from.(AlterObjectDependsStmt.object) in
  let* extname' := COPY_NODE_FIELD from.(AlterObjectDependsStmt.extname) in
  Ok {| AlterObjectDependsStmt.objectType := from.(AlterObjectDependsStmt.objectType);
        AlterObjectDependsStmt.relation := relation'; AlterObjectDependsStmt.object := object';
        AlterObjectDependsStmt.extname := extname';
        AlterObjectDependsStmt.remove := from.(AlterObjectDependsStmt.remove) |}.

Definition _copyAlterObjectSchemaStmt (from : AlterObjectSchemaStmt.t Node) : outcome (AlterObjectSchemaStmt.t Node) :=
  let* relation' := COPY_STRUCT_FIELD _copyRangeVar from.(AlterObjectSchemaStmt.relation) in
  let* object' := COPY_NODE_FIELD from.(AlterObjectSchemaStmt.object) in
  Ok {| AlterObjectSchemaStmt.objectType := from.(AlterObjectSchemaStmt.objectType);
        AlterObjectSchemaStmt.relation := relation'; AlterObjectSchemaStmt.object := object';
        AlterObjectSchemaStmt.newschema := COPY_STRING_FIELD from.(AlterObjectSchemaStmt.newschema);
        AlterObjectSchemaStmt.missing_ok := from.(AlterObjectSchemaStmt.missing_ok) |}.

Definition _copyAlterOwnerStmt (from : AlterOwnerStmt.t Node) : outcome (AlterOwnerStmt.t Node) :=
  let* relation' := COPY_STRUCT_FIELD _copyRangeVar from.(AlterOwnerStmt.relation) in
  let* object' := COPY_NODE_FIELD from.(AlterOwnerStmt.object) in
  let* newowner' := COPY_STRUCT_FIELD _copyRoleSpec from.(AlterOwnerStmt.newowner) in
  Ok {| AlterOwnerStmt.objectType := from.(AlterOwnerStmt.objectType);
        AlterOwnerStmt.relation := relation'; AlterOwnerStmt.object := object';
        AlterOwnerStmt.newowner := newowner' |}.

Definition _copyAlterOperatorStmt (from : AlterOperatorStmt.t Node) : outcome (AlterOperatorStmt.t Node) :=
  let* opername' := COPY_STRUCT_FIELD _copyObjectWithArgs from.(AlterOperatorStmt.opername) in
  let* options' := COPY_LIST_FIELD from.(AlterOperatorStmt.options) in
  Ok {| AlterOperatorStmt.opername := opername'; AlterOperatorStmt.options := options' |}.

Definition _copyAlterTypeStmt (from : AlterTypeStmt.t Node) : outcome (AlterTypeStmt.t Node) :=
  let* typeName' := COPY_LIST_FIELD from.(AlterTypeStmt.typeName) in
  let* options' := COPY_LIST_FIELD from.(AlterTypeStmt.options) in
  Ok {| AlterTypeStmt.typeName := typeName'; AlterTypeStmt.options := options' |}.

Definition _copyRuleStmt (from : RuleStmt.t Node) : outcome (RuleStmt.t Node) :=
  let* relation' := COPY_STRUCT_FIELD _copyRangeVar from.(RuleStmt.relation) in
  let* whereClause' := COPY_NODE_FIELD from.(RuleStmt.whereClause) in
  let* actions' := COPY_LIST_FIELD from.(RuleStmt.actions) in
  Ok {| RuleStmt.relation := relation';
        RuleStmt.rulename := COPY_STRING_FIELD from.(RuleStmt.rulename);
        RuleStmt.whereClause := whereClause'; RuleStmt.event := from.(RuleStmt.event);
        RuleStmt.instead := from.(RuleStmt.instead); RuleStmt.actions := actions';
        RuleStmt.replace := from.(RuleStmt.replace) |}.

Definition _copyNotifyStmt (from : NotifyStmt.t Node) : outcome (NotifyStmt.t Node) :=
  Ok {| NotifyStmt.conditionname := COPY_STRING_FIELD from.(NotifyStmt.conditionname);
        NotifyStmt.payload := COPY_STRING_FIELD from.(NotifyStmt.payload) |}.

Definition _copyListenStmt (from : ListenStmt.t Node) : outcome (ListenStmt.t Node) :=
  Ok {| ListenStmt.conditionname := COPY_STRING_FIELD from.(ListenStmt.conditionname) |}.

Definition _copyUnlistenStmt (from : UnlistenStmt.t Node) : outcome (UnlistenStmt.t Node) :=
  Ok {| UnlistenStmt.conditionname := COPY_STRING_FIELD from.(UnlistenStmt.conditionname) |}.

Definition _copyTransactionStmt (from : TransactionStmt.t Node) : outcome (TransactionStmt.t Node) :=
  let* options' := COPY_LIST_FIELD from.(TransactionStmt.options) in
  Ok {| TransactionStmt.kind := from.(TransactionStmt.kind); TransactionStmt.options := options';
        TransactionStmt.savepoint_name := COPY_STRING_FIELD from.(TransactionStmt.savepoint_name);
        TransactionStmt.gid := COPY_STRING_FIELD from.(TransactionStmt.gid);
        TransactionStmt.chain := from.(TransactionStmt.chain) |}.

Definition _copyCompositeTypeStmt (from : CompositeTypeStmt.t Node) : outcome (CompositeTypeStmt.t Node) :=
  let* typevar' := COPY_STRUCT_FIELD _copyRangeVar from.(CompositeTypeStmt.typevar) in
  let* coldeflist' := COPY_LIST_FIELD from.(CompositeTypeStmt.coldeflist) in
  Ok {| CompositeTypeStmt.typevar := typevar'; CompositeTypeStmt.coldeflist := coldeflist' |}.

Definition _copyCreateEnumStmt (from : CreateEnumStmt.t Node) : outcome (CreateEnumStmt.t Node) :=
  let* typeName' := COPY_LIST_FIELD from.(CreateEnumStmt.typeName) in
  let* vals' := COPY_LIST_FIELD from.(CreateEnumStmt.vals) in
  Ok {| CreateEnumStmt.typeName := typeName'; CreateEnumStmt.vals := vals' |}.

Definition _copyCreateRangeStmt (from : CreateRangeStmt.t Node) : outcome (CreateRangeStmt.t Node) :=
  let* typeName' := COPY_LIST_FIELD from.(CreateRangeStmt.typeName) in
  let* params' := COPY_LIST_FIELD from.(CreateRangeStmt.params) in
  Ok {| CreateRangeStmt.typeName := typeName'; CreateRangeStmt.params := params' |}.

Definition _copyAlterEnumStmt (from : AlterEnumStmt.t Node) : outcome (AlterEnumStmt.t Node) :=
  let* typeName' := COPY_LIST_FIELD from.(AlterEnumStmt.typeName) in
  Ok {| AlterEnumStmt.typeName := typeName';
        AlterEnumStmt.oldVal := COPY_STRING_FIELD from.(AlterEnumStmt.oldVal);
        AlterEnumStmt.newVal := COPY_STRING_FIELD from.(AlterEnumStmt.newVal);
        AlterEnumStmt.newValNeighbor := COPY_STRING_FIELD from.(AlterEnumStmt.newValNeighbor);
        AlterEnumStmt.newValIsAfter := from.(AlterEnumStmt.newValIsAfter);
        AlterEnumStmt.skipIfNewValExists := from.(AlterEnumStmt.skipIfNewValExists) |}.

Definition _copyViewStmt (from : ViewStmt.t Node) : outcome (ViewStmt.t Node) :=
  let* view' := COPY_STRUCT_FIELD _copyRangeVar from.(ViewStmt.view) in
  let* aliases' := COPY_LIST_FIELD from.(ViewStmt.aliases) in
  let* query' := COPY_NODE_FIELD from.(ViewStmt.query) in
  let* options' := COPY_LIST_FIELD from.(ViewStmt.options) in
  Ok {| ViewStmt.view := view'; ViewStmt.aliases := aliases'; ViewStmt.query := query';
        ViewStmt.replace := from.(ViewStmt.replace); ViewStmt.options := options';
        ViewStmt.withCheckOption := from.(ViewStmt.withCheckOption) |}.

Definition _copyLoadStmt (from : LoadStmt.t Node) : outcome (LoadStmt.t Node) :=
  Ok {| LoadStmt.filename := COPY_STRING_FIELD from.(LoadStmt.filename) |}.

Definition _copyCreatedbStmt (from : CreatedbStmt.t Node) : outcome (CreatedbStmt.t Node) :=
  let* options' := COPY_LIST_FIELD from.(CreatedbStmt.options) in
  Ok {| CreatedbStmt.dbname := COPY_STRING_FIELD from.(CreatedbStmt.dbname);
        CreatedbStmt.options := options' |}.

Definition _copyAlterDatabaseStmt (from : AlterDatabaseStmt.t Node) : outcome (AlterDatabaseStmt.t Node) :=
  let* options' := COPY_LIST_FIELD from.(AlterDatabaseStmt.options) in
  Ok {| AlterDatabaseStmt.dbname := COPY_STRING_FIELD from.(AlterDatabaseStmt.dbname);
        AlterDatabaseStmt.options := options' |}.

Definition _copyAlterDatabaseSetStmt (from : AlterDatabaseSetStmt.t Node) : outcome (AlterDatabaseSetStmt.t Node) :=
  let* setstmt' := COPY_STRUCT_FIELD _copyVariableSetStmt from.(AlterDatabaseSetStmt.setstmt) in
  Ok {| AlterDatabaseSetStmt.dbname := COPY_STRING_FIELD from.(AlterDatabaseSetStmt.dbname);
        AlterDatabaseSetStmt.setstmt := setstmt' |}.

Definition _copyDropdbStmt (from : DropdbStmt.t Node) : outcome (DropdbStmt.t Node) :=
  let* options' := COPY_LIST_FIELD from.(DropdbStmt.options) in
  Ok {| DropdbStmt.dbname := COPY_STRING_FIELD from.(DropdbStmt.dbname);
        DropdbStmt.missing_ok := from.(DropdbStmt.missing_ok); DropdbStmt.options := options' |}.

Definition _copyAlterSystemStmt (from : AlterSystemStmt.t Node) : outcome (AlterSystemStmt.t Node) :=
  let* setstmt' := COPY_STRUCT_FIELD _copyVariableSetStmt from.(AlterSystemStmt.setstmt) in
  Ok {| AlterSystemStmt.setstmt := setstmt' |}.

Definition _copyClusterStmt (from : ClusterStmt.t Node) : outcome (ClusterStmt.t Node) :=
  let* relation' := COPY_STRUCT_FIELD _copyRangeVar from.(ClusterStmt.relation) in
  Ok {| ClusterStmt.relation := relation';
        ClusterStmt.indexname := COPY_STRING_FIELD from.(ClusterStmt.indexname);
        ClusterStmt.options := from.(ClusterStmt.options) |}.

Definition _copyVacuumStmt (from : VacuumStmt.t Node) : outcome (VacuumStmt.t Node) :=
  let* options' := COPY_LIST_FIELD from.(VacuumStmt.options) in
  let* rels' := COPY_LIST_FIELD from.(VacuumStmt.rels) in
  Ok {| VacuumStmt.options := options'; VacuumStmt.rels := rels';
        VacuumStmt.is_vacuumcmd := from.(VacuumStmt.is_vacuumcmd) |}.

Definition _copyVacuumRelation (from : VacuumRelation.t Node) : outcome (VacuumRelation.t Node) :=
  let* relation' := COPY_STRUCT_FIELD _copyRangeVar from.(VacuumRelation.relation) in
  let* va_cols' := COPY_LIST_FIELD from.(VacuumRelation.va_cols) in
  Ok {| VacuumRelation.relation := relation'; VacuumRelation.oid := from.(VacuumRelation.oid);
        VacuumRelation.va_cols := va_cols' |}.

Definition _copyExplainStmt (from : ExplainStmt.t Node) : outcome (ExplainStmt.t Node) :=
  let* query' := COPY_NODE_FIELD from.(ExplainStmt.query) in
  let* options' := COPY_LIST_FIELD from.(ExplainStmt.options) in
  Ok {| ExplainStmt.query := query'; ExplainStmt.options := options' |}.

Definition _copyCreateTableAsStmt (from : CreateTableAsStmt.t Node) : outcome (CreateTableAsStmt.t Node) :=
  let* query' := COPY_NODE_FIELD from.(CreateTableAsStmt.query) in
  let* into' := COPY_STRUCT_FIELD _copyIntoClause from.(CreateTableAsStmt.into) in
  Ok {| CreateTableAsStmt.query := query'; CreateTableAsStmt.into := into';
        CreateTableAsStmt.relkind := from.(CreateTableAsStmt.relkind);
        CreateTableAsStmt.is_select_into := from.(CreateTableAsStmt.is_select_into);
        CreateTableAsStmt.if_not_exists := from.(CreateTableAsStmt.if_not_exists) |}.

Definition _copyRefreshMatViewStmt (from : RefreshMatViewStmt.t Node) : outcome (RefreshMatViewStmt.t Node) :=
  let* relation' := COPY_STRUCT_FIELD _copyRangeVar from.(RefreshMatViewStmt.relation) in
  Ok {| RefreshMatViewStmt.concurrent := from.(RefreshMatViewStmt.concurrent);
        RefreshMatViewStmt.skipData := from.(RefreshMatViewStmt.skipData);
        RefreshMatViewStmt.relation := relation' |}.

Definition _copyDiscardStmt (from : DiscardStmt.t Node) : outcome (DiscardStmt.t Node) :=
  Ok {| DiscardStmt.target := from.(DiscardStmt.target) |}.

Definition _copyLockStmt (from : LockStmt.t Node) : outcome (LockStmt.t Node) :=
  let* relations' := COPY_LIST_FIELD from.(LockStmt.relations) in
  Ok {| LockStmt.relations := relations'; LockStmt.mode := from.(LockStmt.mode);
        LockStmt.nowait := from.(LockStmt.nowait) |}.

Definition _copyConstraintsSetStmt (from : ConstraintsSetStmt.t Node) : outcome (ConstraintsSetStmt.t Node) :=
  let* constraints' := COPY_LIST_FIELD from.(ConstraintsSetStmt.constraints) in
  Ok {| ConstraintsSetStmt.constraints := constraints';
        ConstraintsSetStmt.deferred := from.(ConstraintsSetStmt.deferred) |}.

Definition _copyReindexStmt (from : ReindexStmt.t Node) : outcome (ReindexStmt.t Node) :=
  let* relation' := COPY_STRUCT_FIELD _copyRangeVar from.(ReindexStmt.relation) in
  Ok {| ReindexStmt.kind := from.(ReindexStmt.kind); ReindexStmt.relation := relation';
        ReindexStmt.name := COPY_STRING_FIELD from.(ReindexStmt.name);
        ReindexStmt.options := from.(ReindexStmt.options);
        ReindexStmt.concurrent := from.(ReindexStmt.concurrent) |}.

Definition _copyCreateConversionStmt (from : CreateConversionStmt.t Node) : outcome (CreateConversionStmt.t Node) :=
  let* conversion_name' := COPY_LIST_FIELD from.(CreateConversionStmt.conversion_name) in
  let* func_name' := COPY_LIST_FIELD from.(CreateConversionStmt.func_name) in
  Ok {| CreateConversionStmt.conversion_name := conversion_name';
        CreateConversionStmt.for_encoding_name := COPY_STRING_FIELD from.(CreateConversionStmt.for_encoding_name);
        CreateConversionStmt.to_encoding_name := COPY_STRING_FIELD from.(CreateConversionStmt.to_encoding_name);
        CreateConversionStmt.func_name := func_name';
        CreateConversionStmt.def := from.(CreateConversionStmt.def) |}.

Definition _copyCreateCastStmt (from : CreateCastStmt.t Node) : outcome (CreateCastStmt.t Node) :=
  let* sourcetype' := COPY_STRUCT_FIELD _copyTypeName from.(CreateCastStmt.sourcetype) in
  let* targettype' := COPY_STRUCT_FIELD _copyTypeName from.(CreateCastStmt.targettype) in
  let* func' := COPY_STRUCT_FIELD _copyObjectWithArgs from.(CreateCastStmt.func) in
  Ok {| CreateCastStmt.sourcetype := sourcetype'; CreateCastStmt.targettype := targettype';
        CreateCastStmt.func := func'; CreateCastStmt.context := from.(CreateCastStmt.context);
        CreateCastStmt.inout := from.(CreateCastStmt.inout) |}.

Definition _copyCreateTransformStmt (from : CreateTransformStmt.t Node) : outcome (CreateTransformStmt.t Node) :=
  let* type_name' := COPY_STRUCT_FIELD _copyTypeName from.(CreateTransformStmt.type_name) in
  let* fromsql' := COPY_STRUCT_FIELD _copyObjectWithArgs from.(CreateTransformStmt.fromsql) in
  let* tosql' := COPY_STRUCT_FIELD _copyObjectWithArgs from.(CreateTransformStmt.tosql) in
  Ok {| CreateTransformStmt.replace := from.(CreateTransformStmt.replace);
        CreateTransformStmt.type_name := type_name';
        CreateTransformStmt.lang := COPY_STRING_FIELD from.(CreateTransformStmt.lang);
        CreateTransformStmt.fromsql := fromsql'; CreateTransformStmt.tosql := tosql' |}.

Definition _copyPrepareStmt (from : PrepareStmt.t Node) : outcome (PrepareStmt.t Node) :=
  let* argtypes' := COPY_LIST_FIELD from.(PrepareStmt.argtypes) in
  let* query' := COPY_NODE_FIELD from.(PrepareStmt.query) in
  Ok {| PrepareStmt.name := COPY_STRING_FIELD from.(PrepareStmt.name);
        PrepareStmt.argtypes := argtypes'; PrepareStmt.query := query' |}.

Definition _copyExecuteStmt (from : ExecuteStmt.t Node) : outcome (ExecuteStmt.t Node) :=
  let* params' := COPY_LIST_FIELD from.(ExecuteStmt.params) in
  Ok {| ExecuteStmt.name := COPY_STRING_FIELD from.(ExecuteStmt.name);
        ExecuteStmt.params := params' |}.

Definition _copyDeallocateStmt (from : DeallocateStmt.t Node) : outcome (DeallocateStmt.t Node) :=
  Ok {| DeallocateStmt.name := COPY_STRING_FIELD from.(DeallocateStmt.name) |}.

Definition _copyDropOwnedStmt (from : DropOwnedStmt.t Node) : outcome (DropOwnedStmt.t Node) :=
  let* roles' := COPY_LIST_FIELD from.(DropOwnedStmt.roles) in
  Ok {| DropOwnedStmt.roles := roles'; DropOwnedStmt.behavior := from.(DropOwnedStmt.behavior) |}.

Definition _copyReassignOwnedStmt (from : ReassignOwnedStmt.t Node) : outcome (ReassignOwnedStmt.t Node) :=
  let* roles' := COPY_LIST_FIELD from.(ReassignOwnedStmt.roles) in
  let* newrole' := COPY_STRUCT_FIELD _copyRoleSpec from.(ReassignOwnedStmt.newrole) in
  Ok {| ReassignOwnedStmt.roles := roles'; ReassignOwnedStmt.newrole := newrole' |}.

Definition _copyAlterTSDictionaryStmt (from : AlterTSDictionaryStmt.t Node) : outcome (AlterTSDictionaryStmt.t Node) :=
  let* dictname' := COPY_LIST_FIELD from.(AlterTSDictionaryStmt.dictname) in
  let* options' := COPY_LIST_FIELD from.(AlterTSDictionaryStmt.options) in
  Ok {| AlterTSDictionaryStmt.dictname := dictname'; AlterTSDictionaryStmt.options := options' |}.

Definition _copyAlterTSConfigurationStmt (from : AlterTSConfigurationStmt.t Node) : outcome (AlterTSConfigurationStmt.t Node) :=
  let* cfgname' := COPY_LIST_FIELD from.(AlterTSConfigurationStmt.cfgname) in
  let* tokentype' := COPY_LIST_FIELD from.(AlterTSConfigurationStmt.tokentype) in
  let* dicts' := COPY_LIST_FIELD from.(AlterTSConfigurationStmt.dicts) in
  Ok {| AlterTSConfigurationStmt.kind := from.(AlterTSConfigurationStmt.kind);
        AlterTSConfigurationStmt.cfgname := cfgname';
        AlterTSConfigurationStmt.tokentype := tokentype';
        AlterTSConfigurationStmt.dicts := dicts';
        AlterTSConfigurationStmt.override := from.(AlterTSConfigurationStmt.override);
        AlterTSConfigurationStmt.replace := from.(AlterTSConfigurationStmt.replace);
        AlterTSConfigurationStmt.missing_ok := from.(AlterTSConfigurationStmt.missing_ok) |}.

Definition _copyCreatePublicationStmt (from : CreatePublicationStmt.t Node) : outcome (CreatePublicationStmt.t Node) :=
  let* options' := COPY_LIST_FIELD from.(CreatePublicationStmt.options) in
  let* tables' := COPY_LIST_FIELD from.(CreatePublicationStmt.tables) in
  Ok {| CreatePublicationStmt.pubname := COPY_STRING_FIELD from.(CreatePublicationStmt.pubname);
        CreatePublicationStmt.options := options'; CreatePublicationStmt.tables := tables';
        CreatePublicationStmt.for_all_tables := from.(CreatePublicationStmt.for_all_tables) |}.

Definition _copyAlterPublicationStmt (from : AlterPublicationStmt.t Node) : outcome (AlterPublicationStmt.t Node) :=
  let* options' := COPY_LIST_FIELD from.(AlterPublicationStmt.options) in
  let* tables' := COPY_LIST_FIELD from.(AlterPublicationStmt.tables) in
  Ok {| AlterPublicationStmt.pubname := COPY_STRING_FIELD from.(AlterPublicationStmt.pubname);
        AlterPublicationStmt.options := options'; AlterPublicationStmt.tables := tables';
        AlterPublicationStmt.for_all_tables := from.(AlterPublicationStmt.for_all_tables);
        AlterPublicationStmt.tableAction := from.(AlterPublicationStmt.tableAction) |}.

Definition _copyCreateSubscriptionStmt (from : CreateSubscriptionStmt.t Node) : outcome (CreateSubscriptionStmt.t Node) :=
  let* publication' := COPY_LIST_FIELD from.(CreateSubscriptionStmt.publication) in
  let* options' := COPY_LIST_FIELD from.(CreateSubscriptionStmt.options) in
  Ok {| CreateSubscriptionStmt.subname := COPY_STRING_FIELD from.(CreateSubscriptionStmt.subname);
        CreateSubscriptionStmt.conninfo := COPY_STRING_FIELD from.(CreateSubscriptionStmt.conninfo);
        CreateSubscriptionStmt.publication := publication';
        CreateSubscriptionStmt.options := options' |}.

Definition _copyAlterSubscriptionStmt (from : AlterSubscriptionStmt.t Node) : outcome (AlterSubscriptionStmt.t Node) :=
  let* publication' := COPY_LIST_FIELD from.(AlterSubscriptionStmt.publication) in
  let* options' := COPY_LIST_FIELD from.(AlterSubscriptionStmt.options) in
  Ok {| AlterSubscriptionStmt.kind := from.(AlterSubscriptionStmt.kind);
        AlterSubscriptionStmt.subname := COPY_STRING_FIELD from.(AlterSubscriptionStmt.subname);
        AlterSubscriptionStmt.conninfo := COPY_STRING_FIELD from.(AlterSubscriptionStmt.conninfo);
        AlterSubscriptionStmt.publication := publication';
        AlterSubscriptionStmt.options := options' |}.

Definition _copyDropSubscriptionStmt (from : DropSubscriptionStmt.t Node) : outcome (DropSubscriptionStmt.t Node) :=
  Ok {| DropSubscriptionStmt.subname := COPY_STRING_FIELD from.(DropSubscriptionStmt.subname);
        DropSubscriptionStmt.missing_ok := from.(DropSubscriptionStmt.missing_ok);
        DropSubscriptionStmt.behavior := from.(DropSubscriptionStmt.behavior) |}.

(** The switch of [copyObjectImpl].  [T_CheckPointStmt] has no fields. *)
Definition copyObjectImpl_body (from : Node) : outcome Node :=
  match from with
  | N_List l => let* l' := COPY_LIST_FIELD l in Ok (N_List l')
  | N_Value v => Ok (N_Value (_copyValue v))
  | N_RangeVar x => let* x' := _copyRangeVar x in Ok (N_RangeVar x')
  | N_Alias x => let* x' := _copyAlias x in Ok (N_Alias x')
  | N_TypeName x => let* x' := _copyTypeName x in Ok (N_TypeName x')
  | N_ColumnRef x => let* x' := _copyColumnRef x in Ok (N_ColumnRef x')
  | N_ParamRef x => let* x' := _copyParamRef x in Ok (N_ParamRef x')
  | N_A_Expr x => let* x' := _copyAExpr x in Ok (N_A_Expr x')
  | N_A_Const x => let* x' := _copyAConst x in Ok (N_A_Const x')
  | N_TypeCast x => let* x' := _copyTypeCast x in Ok (N_TypeCast x')
  | N_CollateClause x => let* x' := _copyCollateClause x in Ok (N_CollateClause x')
  | N_RoleSpec x => let* x' := _copyRoleSpec x in Ok (N_RoleSpec x')
  | N_WindowDef x => let* x' := _copyWindowDef x in Ok (N_WindowDef x')
  | N_SortBy x => let* x' := _copySortBy x in Ok (N_SortBy x')
  | N_FuncCall x => let* x' := _copyFuncCall x in Ok (N_FuncCall x')
  | N_A_Star x => let* x' := _copyAStar x in Ok (N_A_Star x')
  | N_A_Indices x => let* x' := _copyAIndices x in Ok (N_A_Indices x')
  | N_A_Indirection x => let* x' := _copyA_Indirection x in Ok (N_A_Indirection x')
  | N_A_ArrayExpr x => let* x' := _copyA_ArrayExpr x in Ok (N_A_ArrayExpr x')
  | N_ResTarget x => let* x' := _copyResTarget x in Ok (N_ResTarget x')
  | N_MultiAssignRef x => let* x' := _copyMultiAssignRef x in Ok (N_MultiAssignRef x')
  | N_NamedArgExpr x => let* x' := _copyNamedArgExpr x in Ok (N_NamedArgExpr x')
  | N_BoolExpr x => let* x' := _copyBoolExpr x in Ok (N_BoolExpr x')
  | N_SubLink x => let* x' := _copySubLink x in Ok (N_SubLink x')
  | N_CaseWhen x => let* x' := _copyCaseWhen x in Ok (N_CaseWhen x')
  | N_CaseExpr x => let* x' := _copyCaseExpr x in Ok (N_CaseExpr x')
  | N_RowExpr x => let* x' := _copyRowExpr x in Ok (N_RowExpr x')
  | N_CoalesceExpr x => let* x' := _copyCoalesceExpr x in Ok (N_CoalesceExpr x')
  | N_MinMaxExpr x => let* x' := _copyMinMaxExpr x in Ok (N_MinMaxExpr x')
  | N_SQLValueFunction x => let* x' := _copySQLValueFunction x in Ok (N_SQLValueFunction x')
  | N_XmlExpr x => let* x' := _copyXmlExpr x in Ok (N_XmlExpr x')
  | N_XmlSerialize x => let* x' := _copyXmlSerialize x in Ok (N_XmlSerialize x')
  | N_NullTest x => let* x' := _copyNullTest x in Ok (N_NullTest x')
  | N_BooleanTest x => let* x' := _copyBooleanTest x in Ok (N_BooleanTest x')
  | N_SetToDefault x => let* x' := _copySetToDefault x in Ok (N_SetToDefault x')
  | N_CurrentOfExpr x => let* x' := _copyCurrentOfExpr x in Ok (N_CurrentOfExpr x')
  | N_GroupingFunc x => let* x' := _copyGroupingFunc x in Ok (N_GroupingFunc x')
  | N_DefElem x => let* x' := _copyDefElem x in Ok (N_DefElem x')
  | N_IndexElem x => let* x' := _copyIndexElem x in Ok (N_IndexElem x')
  | N_Constraint x => let* x' := _copyConstraint x in Ok (N_Constraint x')
  | N_ColumnDef x => let* x' := _copyColumnDef x in Ok (N_ColumnDef x')
  | N_JoinExpr x => let* x' := _copyJoinExpr x in Ok (N_JoinExpr x')
  | N_RangeSubselect x => let* x' := _copyRangeSubselect x in Ok (N_RangeSubselect x')
  | N_RangeFunction x => let* x' := _copyRangeFunction x in Ok (N_RangeFunction x')
  | N_RangeTableFuncCol x => let* x' := _copyRangeTableFuncCol x in Ok (N_RangeTableFuncCol x')
  | N_RangeTableFunc x => let* x' := _copyRangeTableFunc x in Ok (N_RangeTableFunc x')
  | N_RangeTableSample x => let* x' := _copyRangeTableSample x in Ok (N_RangeTableSample x')
  | N_CommonTableExpr x => let* x' := _copyCommonTableExpr x in Ok (N_CommonTableExpr x')
  | N_WithClause x => let* x' := _copyWithClause x in Ok (N_WithClause x')
  | N_InferClause x => let* x' := _copyInferClause x in Ok (N_InferClause x')
  | N_OnConflictClause x => let* x' := _copyOnConflictClause x in Ok (N_OnConflictClause x')
  | N_LockingClause x => let* x' := _copyLockingClause x in Ok (N_LockingClause x')
  | N_GroupingSet x => let* x' := _copyGroupingSet x in Ok (N_GroupingSet x')
  | N_IntoClause x => let* x' := _copyIntoClause x in Ok (N_IntoClause x')
  | N_SelectStmt x => let* x' := _copySelectStmt x in Ok (N_SelectStmt x')
  | N_InsertStmt x => let* x' := _copyInsertStmt x in Ok (N_InsertStmt x')
  | N_UpdateStmt x => let* x' := _copyUpdateStmt x in Ok (N_UpdateStmt x')
  | N_DeleteStmt x => let* x' := _copyDeleteStmt x in Ok (N_DeleteStmt x')
  | N_RawStmt x => let* x' := _copyRawStmt x in Ok (N_RawStmt x')
  | N_AlterTableCmd x => let* x' := _copyAlterTableCmd x in Ok (N_AlterTableCmd x')
  | N_PartitionBoundSpec x => let* x' := _copyPartitionBoundSpec x in Ok (N_PartitionBoundSpec x')
  | N_TableLikeClause x => let* x' := _copyTableLikeClause x in Ok (N_TableLikeClause x')
  | N_PartitionElem x => let* x' := _copyPartitionElem x in Ok (N_PartitionElem x')
  | N_PartitionSpec x => let* x' := _copyPartitionSpec x in Ok (N_PartitionSpec x')
  | N_PartitionCmd x => let* x' := _copyPartitionCmd x in Ok (N_PartitionCmd x')
  | N_TriggerTransition x => let* x' := _copyTriggerTransition x in Ok (N_TriggerTransition x')
  | N_CreateSchemaStmt x => let* x' := _copyCreateSchemaStmt x in Ok (N_CreateSchemaStmt x')
  | N_AlterTableStmt x => let* x' := _copyAlterTableStmt x in Ok (N_AlterTableStmt x')
  | N_ReplicaIdentityStmt x => let* x' := _copyReplicaIdentityStmt x in Ok (N_ReplicaIdentityStmt x')
  | N_AlterCollationStmt x => let* x' := _copyAlterCollationStmt x in Ok (N_AlterCollationStmt x')
  | N_AlterDomainStmt x => let* x' := _copyAlterDomainStmt x in Ok (N_AlterDomainStmt x')
  | N_GrantStmt x => let* x' := _copyGrantStmt x in Ok (N_GrantStmt x')
  | N_ObjectWithArgs x => let* x' := _copyObjectWithArgs x in Ok (N_ObjectWithArgs x')
  | N_AccessPriv x => let* x' := _copyAccessPriv x in Ok (N_AccessPriv x')
  | N_GrantRoleStmt x => let* x' := _copyGrantRoleStmt x in Ok (N_GrantRoleStmt x')
  | N_AlterDefaultPrivilegesStmt x => let* x' := _copyAlterDefaultPrivilegesStmt x in Ok (N_AlterDefaultPrivilegesStmt x')
  | N_CopyStmt x => let* x' := _copyCopyStmt x in Ok (N_CopyStmt x')
  | N_VariableSetStmt x => let* x' := _copyVariableSetStmt x in Ok (N_VariableSetStmt x')
  | N_VariableShowStmt x => let* x' := _copyVariableShowStmt x in Ok (N_VariableShowStmt x')
  | N_CreateStmt x => let* x' := _copyCreateStmt x in Ok (N_CreateStmt x')
  | N_CreateTableSpaceStmt x => let* x' := _copyCreateTableSpaceStmt x in Ok (N_CreateTableSpaceStmt x')
  | N_DropTableSpaceStmt x => let* x' := _copyDropTableSpaceStmt x in Ok (N_DropTableSpaceStmt x')
  | N_AlterTableSpaceOptionsStmt x => let* x' := _copyAlterTableSpaceOptionsStmt x in Ok (N_AlterTableSpaceOptionsStmt x')
  | N_AlterTableMoveAllStmt x => let* x' := _copyAlterTableMoveAllStmt x in Ok (N_AlterTableMoveAllStmt x')
  | N_CreateExtensionStmt x => let* x' := _copyCreateExtensionStmt x in Ok (N_CreateExtensionStmt x')
  | N_AlterExtensionStmt x => let* x' := _copyAlterExtensionStmt x in Ok (N_AlterExtensionStmt x')
  | N_AlterExtensionContentsStmt x => let* x' := _copyAlterExtensionContentsStmt x in Ok (N_AlterExtensionContentsStmt x')
  | N_CreateFdwStmt x => let* x' := _copyCreateFdwStmt x in Ok (N_CreateFdwStmt x')
  | N_AlterFdwStmt x => let* x' := _copyAlterFdwStmt x in Ok (N_AlterFdwStmt x')
  | N_CreateForeignServerStmt x => let* x' := _copyCreateForeignServerStmt x in Ok (N_CreateForeignServerStmt x')
  | N_AlterForeignServerStmt x => let* x' := _copyAlterForeignServerStmt x in Ok (N_AlterForeignServerStmt x')
  | N_CreateForeignTableStmt x => let* x' := _copyCreateForeignTableStmt x in Ok (N_CreateForeignTableStmt x')
  | N_CreateUserMappingStmt x => let* x' := _copyCreateUserMappingStmt x in Ok (N_CreateUserMappingStmt x')
  | N_AlterUserMappingStmt x => let* x' := _copyAlterUserMappingStmt x in Ok (N_AlterUserMappingStmt x')
  | N_DropUserMappingStmt x => let* x' := _copyDropUserMappingStmt x in Ok (N_DropUserMappingStmt x')
  | N_ImportForeignSchemaStmt x => let* x' := _copyImportForeignSchemaStmt x in Ok (N_ImportForeignSchemaStmt x')
  | N_CreatePolicyStmt x => let* x' := _copyCreatePolicyStmt x in Ok (N_CreatePolicyStmt x')
  | N_AlterPolicyStmt x => let* x' := _copyAlterPolicyStmt x in Ok (N_AlterPolicyStmt x')
  | N_CreateAmStmt x => let* x' := _copyCreateAmStmt x in Ok (N_CreateAmStmt x')
  | N_CreateTrigStmt x => let* x' := _copyCreateTrigStmt x in Ok (N_CreateTrigStmt x')
  | N_CreateEventTrigStmt x => let* x' := _copyCreateEventTrigStmt x in Ok (N_CreateEventTrigStmt x')
  | N_AlterEventTrigStmt x => let* x' := _copyAlterEventTrigStmt x in Ok (N_AlterEventTrigStmt x')
  | N_CreatePLangStmt x => let* x' := _copyCreatePLangStmt x in Ok (N_CreatePLangStmt x')
  | N_CreateRoleStmt x => let* x' := _copyCreateRoleStmt x in Ok (N_CreateRoleStmt x')
  | N_AlterRoleStmt x => let* x' := _copyAlterRoleStmt x in Ok (N_AlterRoleStmt x')
  | N_AlterRoleSetStmt x => let* x' := _copyAlterRoleSetStmt x in Ok (N_AlterRoleSetStmt x')
  | N_DropRoleStmt x => let* x' := _copyDropRoleStmt x in Ok (N_DropRoleStmt x')
  | N_CreateSeqStmt x => let* x' := _copyCreateSeqStmt x in Ok (N_CreateSeqStmt x')
  | N_AlterSeqStmt x => let* x' := _copyAlterSeqStmt x in Ok (N_AlterSeqStmt x')
  | N_DefineStmt x => let* x' := _copyDefineStmt x in Ok (N_DefineStmt x')
  | N_CreateDomainStmt x => let* x' := _copyCreateDomainStmt x in Ok (N_CreateDomainStmt x')
  | N_CreateOpClassStmt x => let* x' := _copyCreateOpClassStmt x in Ok (N_CreateOpClassStmt x')
  | N_CreateOpClassItem x => let* x' := _copyCreateOpClassItem x in Ok (N_CreateOpClassItem x')
  | N_CreateOpFamilyStmt x => let* x' := _copyCreateOpFamilyStmt x in Ok (N_CreateOpFamilyStmt x')
  | N_AlterOpFamilyStmt x => let* x' := _copyAlterOpFamilyStmt x in Ok (N_AlterOpFamilyStmt x')
  | N_DropStmt x => let* x' := _copyDropStmt x in Ok (N_DropStmt x')
  | N_TruncateStmt x => let* x' := _copyTruncateStmt x in Ok (N_TruncateStmt x')
  | N_CommentStmt x => let* x' := _copyCommentStmt x in Ok (N_CommentStmt x')
  | N_SecLabelStmt x => let* x' := _copySecLabelStmt x in Ok (N_SecLabelStmt x')
  | N_DeclareCursorStmt x => let* x' := _copyDeclareCursorStmt x in Ok (N_DeclareCursorStmt x')
  | N_ClosePortalStmt x => let* x' := _copyClosePortalStmt x in Ok (N_ClosePortalStmt x')
  | N_FetchStmt x => let* x' := _copyFetchStmt x in Ok (N_FetchStmt x')
  | N_IndexStmt x => let* x' := _copyIndexStmt x in Ok (N_IndexStmt x')
  | N_CreateStatsStmt x => let* x' := _copyCreateStatsStmt x in Ok (N_CreateStatsStmt x')
  | N_AlterStatsStmt x => let* x' := _copyAlterStatsStmt x in Ok (N_AlterStatsStmt x')
  | N_CreateFunctionStmt x => let* x' := _copyCreateFunctionStmt x in Ok (N_CreateFunctionStmt x')
  | N_FunctionParameter x => let* x' := _copyFunctionParameter x in Ok (N_FunctionParameter x')
  | N_AlterFunctionStmt x => let* x' := _copyAlterFunctionStmt x in Ok (N_AlterFunctionStmt x')
  | N_DoStmt x => let* x' := _copyDoStmt x in Ok (N_DoStmt x')
  | N_CallStmt x => let* x' := _copyCallStmt x in Ok (N_CallStmt x')
  | N_RenameStmt x => let* x' := _copyRenameStmt x in Ok (N_RenameStmt x')
  | N_AlterObjectDependsStmt x => let* x' := _copyAlterObjectDependsStmt x in Ok (N_AlterObjectDependsStmt x')
  | N_AlterObjectSchemaStmt x => let* x' := _copyAlterObjectSchemaStmt x in Ok (N_AlterObjectSchemaStmt x')
  | N_AlterOwnerStmt x => let* x' := _copyAlterOwnerStmt x in Ok (N_AlterOwnerStmt x')
  | N_AlterOperatorStmt x => let* x' := _copyAlterOperatorStmt x in Ok (N_AlterOperatorStmt x')
  | N_AlterTypeStmt x => let* x' := _copyAlterTypeStmt x in Ok (N_AlterTypeStmt x')
  | N_RuleStmt x => let* x' := _copyRuleStmt x in Ok (N_RuleStmt x')
  | N_NotifyStmt x => let* x' := _copyNotifyStmt x in Ok (N_NotifyStmt x')
  | N_ListenStmt x => let* x' := _copyListenStmt x in Ok (N_ListenStmt x')
  | N_UnlistenStmt x => let* x' := _copyUnlistenStmt x in Ok (N_UnlistenStmt x')
  | N_TransactionStmt x => let* x' := _copyTransactionStmt x in Ok (N_TransactionStmt x')
  | N_CompositeTypeStmt x => let* x' := _copyCompositeTypeStmt x in Ok (N_CompositeTypeStmt x')
  | N_CreateEnumStmt x => let* x' := _copyCreateEnumStmt x in Ok (N_CreateEnumStmt x')
  | N_CreateRangeStmt x => let* x' := _copyCreateRangeStmt x in Ok (N_CreateRangeStmt x')
  | N_AlterEnumStmt x => let* x' := _copyAlterEnumStmt x in Ok (N_AlterEnumStmt x')
  | N_ViewStmt x => let* x' := _copyViewStmt x in Ok (N_ViewStmt x')
  | N_LoadStmt x => let* x' := _copyLoadStmt x in Ok (N_LoadStmt x')
  | N_CreatedbStmt x => let* x' := _copyCreatedbStmt x in Ok (N_CreatedbStmt x')
  | N_AlterDatabaseStmt x => let* x' := _copyAlterDatabaseStmt x in Ok (N_AlterDatabaseStmt x')
  | N_AlterDatabaseSetStmt x => let* x' := _copyAlterDatabaseSetStmt x in Ok (N_AlterDatabaseSetStmt x')
  | N_DropdbStmt x => let* x' := _copyDropdbStmt x in Ok (N_DropdbStmt x')
  | N_AlterSystemStmt x => let* x' := _copyAlterSystemStmt x in Ok (N_AlterSystemStmt x')
  | N_ClusterStmt x => let* x' := _copyClusterStmt x in Ok (N_ClusterStmt x')
  | N_VacuumStmt x => let* x' := _copyVacuumStmt x in Ok (N_VacuumStmt x')
  | N_VacuumRelation x => let* x' := _copyVacuumRelation x in Ok (N_VacuumRelation x')
  | N_ExplainStmt x => let* x' := _copyExplainStmt x in Ok (N_ExplainStmt x')
  | N_CreateTableAsStmt x => let* x' := _copyCreateTableAsStmt x in Ok (N_CreateTableAsStmt x')
  | N_RefreshMatViewStmt x => let* x' := _copyRefreshMatViewStmt x in Ok (N_RefreshMatViewStmt x')
  | N_CheckPointStmt _ => Ok (N_CheckPointStmt CheckPointStmt.mk)
  | N_DiscardStmt x => let* x' := _copyDiscardStmt x in Ok (N_DiscardStmt x')
  | N_LockStmt x => let* x' := _copyLockStmt x in Ok (N_LockStmt x')
  | N_ConstraintsSetStmt x => let* x' := _copyConstraintsSetStmt x in Ok (N_ConstraintsSetStmt x')
  | N_ReindexStmt x => let* x' := _copyReindexStmt x in Ok (N_ReindexStmt x')
  | N_CreateConversionStmt x => let* x' := _copyCreateConversionStmt x in Ok (N_CreateConversionStmt x')
  | N_CreateCastStmt x => let* x' := _copyCreateCastStmt x in Ok (N_CreateCastStmt x')
  | N_CreateTransformStmt x => let* x' := _copyCreateTransformStmt x in Ok (N_CreateTransformStmt x')
  | N_PrepareStmt x => let* x' := _copyPrepareStmt x in Ok (N_PrepareStmt x')
  | N_ExecuteStmt x => let* x' := _copyExecuteStmt x in Ok (N_ExecuteStmt x')
  | N_DeallocateStmt x => let* x' := _copyDeallocateStmt x in Ok (N_DeallocateStmt x')
  | N_DropOwnedStmt x => let* x' := _copyDropOwnedStmt x in Ok (N_DropOwnedStmt x')
  | N_ReassignOwnedStmt x => let* x' := _copyReassignOwnedStmt x in Ok (N_ReassignOwnedStmt x')
  | N_AlterTSDictionaryStmt x => let* x' := _copyAlterTSDictionaryStmt x in Ok (N_AlterTSDictionaryStmt x')
  | N_AlterTSConfigurationStmt x => let* x' := _copyAlterTSConfigurationStmt x in Ok (N_AlterTSConfigurationStmt x')
  | N_CreatePublicationStmt x => let* x' := _copyCreatePublicationStmt x in Ok (N_CreatePublicationStmt x')
  | N_AlterPublicationStmt x => let* x' := _copyAlterPublicationStmt x in Ok (N_AlterPublicationStmt x')
  | N_CreateSubscriptionStmt x => let* x' := _copyCreateSubscriptionStmt x in Ok (N_CreateSubscriptionStmt x')
  | N_AlterSubscriptionStmt x => let* x' := _copyAlterSubscriptionStmt x in Ok (N_AlterSubscriptionStmt x')
  | N_DropSubscriptionStmt x => let* x' := _copyDropSubscriptionStmt x in Ok (N_DropSubscriptionStmt x')
  | N_FuncExpr x => let* x' := _copyFuncExpr x in Ok (N_FuncExpr x')
  | N_Other _ => Undef
  end.
End copyfuncs.

Fixpoint copyObjectImpl (from : Node) : outcome Node := copyObjectImpl_body copyObjectImpl from.
