(* ===== verification/CopyProof.v ===== *)
(** * Copies of trees: nothing is forgotten

    For every struct, and by induction for every tree of the parser. *)
From S2P Require Import Prelude Buffer Enums Nodes TreeCheck CopyFuncs.

(** The trees of the parser: without structs of analysis, planning and execution. *)
Definition any : field_checks := mkChecks (fun _ => true) (fun _ => true) (fun _ => true) true.
Abbreviation known := (check any).

Definition copied (n : Node) : Prop := known n = true -> copyObjectImpl n = Ok n.

Lemma copy_list l : list_all Node copied l -> check_list known l = true ->
  COPY_LIST_FIELD copyObjectImpl l = Ok l.
Proof.
  induction 1 as [|n Hn l _ IH]; [done|]. intros [Hk Hl]%andb_true_iff.
  unfold COPY_LIST_FIELD in *. cbn. by rewrite (Hn Hk), (IH Hl).
Qed.

Lemma copy_ptr p : option_all Node copied p -> check_ptr any known p = true ->
  COPY_NODE_FIELD copyObjectImpl p = Ok p.
Proof.
  intros [n Hn|] Hp; [|done]. assert (Hk : known n = true). { destruct n; try done. by destruct l. }
  cbn. by rewrite (Hn Hk).
Qed.

Lemma copy_select p : option_all Node copied p -> check_select known p = true ->
  COPY_NODE_FIELD copyObjectImpl p = Ok p.
Proof. intros [n Hn|] Hp; [|done]. apply andb_true_iff in Hp as [_ Hk]. cbn. by rewrite (Hn Hk). Qed.

Lemma copy_struct {A} (P : A -> Type) (k : A -> bool) (copy : A -> outcome A) p :
  (forall x, P x -> k x = true -> copy x = Ok x) -> option_all A P p -> check_struct k p = true ->
  COPY_STRUCT_FIELD copy p = Ok p.
Proof. intros Hc [x Hx|] Hk; [|done]. cbn. by rewrite Hc. Qed.

Lemma copy_plain {A} (P : A -> Type) (copy : A -> outcome A) p :
  (forall x, P x -> copy x = Ok x) -> option_all A P p -> COPY_STRUCT_FIELD copy p = Ok p.
Proof. intros Hc [x Hx|]; [|done]. cbn. by rewrite Hc. Qed.

Lemma copy_string s : COPY_STRING_FIELD s = s.
Proof. by destruct s. Qed.
Lemma copy_value v : _copyValue v = v.
Proof. by destruct v. Qed.

Create HintDb copy.

(** Goes over the fields of a struct. *)
Ltac copy_field :=
  lazymatch goal with
  | |- obind (COPY_LIST_FIELD _ ?l) _ = _ => rewrite (copy_list l) by assumption
  | |- obind (COPY_NODE_FIELD _ ?p) _ = _ =>
      first [rewrite (copy_ptr p) by assumption | rewrite (copy_select p) by assumption]
  | |- obind (COPY_STRUCT_FIELD ?c ?p) _ = _ =>
      first [rewrite (copy_struct _ _ c p ltac:(intros; solve [eauto with copy]) ltac:(eassumption))
               by eassumption
            |rewrite (copy_plain _ c p ltac:(intros; solve [eauto with copy])) by eassumption]
  | |- obind (?c ?x) _ = _ =>
      let H := fresh in assert (H : c x = Ok x) by eauto with copy; rewrite H; clear H
  end; cbn [obind].
Ltac copy_tac :=
  let H := fresh in let Hk := fresh in
  intros H;
  try (match goal with |- ?k = true -> _ => intros Hk; let k' := head_of k in unfold k' in Hk end);
  match goal with |- ?c _ = _ => let h := head_of c in unfold h end;
  destruct H; simpl_fields; cbn [any check_string check_char check_ints] in *; split_andb;
  repeat copy_field; rewrite ?copy_string, ?copy_value; reflexivity.

Lemma copy_Alias x : Alias.t_all Node copied x ->
  check_Alias any known x = true -> _copyAlias copyObjectImpl x = Ok x.
Proof. copy_tac. Qed.
#[local] Hint Resolve copy_Alias : copy.
Lemma copy_RangeVar x : RangeVar.t_all Node copied x ->
  check_RangeVar any known x = true -> _copyRangeVar copyObjectImpl x = Ok x.
Proof. copy_tac. Qed.
#[local] Hint Resolve copy_RangeVar : copy.
Lemma copy_TypeName x : TypeName.t_all Node copied x ->
  check_TypeName known x = true -> _copyTypeName copyObjectImpl x = Ok x.
Proof. copy_tac. Qed.
#[local] Hint Resolve copy_TypeName : copy.
Lemma copy_ColumnRef x : ColumnRef.t_all Node copied x ->
  check_ColumnRef known x = true -> _copyColumnRef copyObjectImpl x = Ok x.
Proof. copy_tac. Qed.
#[local] Hint Resolve copy_ColumnRef : copy.
Lemma copy_ParamRef x : ParamRef.t_all Node copied x ->
  _copyParamRef x = Ok x.
Proof. copy_tac. Qed.
#[local] Hint Resolve copy_ParamRef : copy.
Lemma copy_A_Expr x : A_Expr.t_all Node copied x ->
  check_A_Expr any known x = true -> _copyAExpr copyObjectImpl x = Ok x.
Proof. copy_tac. Qed.
#[local] Hint Resolve copy_A_Expr : copy.
Lemma copy_A_Const x : A_Const.t_all Node copied x ->
  _copyAConst x = Ok x.
Proof. copy_tac. Qed.
#[local] Hint Resolve copy_A_Const : copy.
Lemma copy_TypeCast x : TypeCast.t_all Node copied x ->
  check_TypeCast any known x = true -> _copyTypeCast copyObjectImpl x = Ok x.
Proof. copy_tac. Qed.
#[local] Hint Resolve copy_TypeCast : copy.
Lemma copy_CollateClause x : CollateClause.t_all Node copied x ->
  check_CollateClause any known x = true -> _copyCollateClause copyObjectImpl x = Ok x.
Proof. copy_tac. Qed.
#[local] Hint Resolve copy_CollateClause : copy.
Lemma copy_RoleSpec x : RoleSpec.t_all Node copied x ->
  check_RoleSpec any x = true -> _copyRoleSpec x = Ok x.
Proof. copy_tac. Qed.
#[local] Hint Resolve copy_RoleSpec : copy.
Lemma copy_WindowDef x : WindowDef.t_all Node copied x ->
  check_WindowDef any known x = true -> _copyWindowDef copyObjectImpl x = Ok x.
Proof. copy_tac. Qed.
#[local] Hint Resolve copy_WindowDef : copy.
Lemma copy_SortBy x : SortBy.t_all Node copied x ->
  check_SortBy any known x = true -> _copySortBy copyObjectImpl x = Ok x.
Proof. copy_tac. Qed.
#[local] Hint Resolve copy_SortBy : copy.
Lemma copy_FuncCall x : FuncCall.t_all Node copied x ->
  check_FuncCall any known x = true -> _copyFuncCall copyObjectImpl x = Ok x.
Proof. copy_tac. Qed.
#[local] Hint Resolve copy_FuncCall : copy.
Lemma copy_A_Star x : A_Star.t_all Node copied x ->
  _copyAStar x = Ok x.
Proof. copy_tac. Qed.
#[local] Hint Resolve copy_A_Star : copy.
Lemma copy_A_Indices x : A_Indices.t_all Node copied x ->
  check_A_Indices any known x = true -> _copyAIndices copyObjectImpl x = Ok x.
Proof. copy_tac. Qed.
#[local] Hint Resolve copy_A_Indices : copy.
Lemma copy_A_Indirection x : A_Indirection.t_all Node copied x ->
  check_A_Indirection any known x = true -> _copyA_Indirection copyObjectImpl x = Ok x.
Proof. copy_tac. Qed.
#[local] Hint Resolve copy_A_Indirection : copy.
Lemma copy_A_ArrayExpr x : A_ArrayExpr.t_all Node copied x ->
  check_A_ArrayExpr known x = true -> _copyA_ArrayExpr copyObjectImpl x = Ok x.
Proof. copy_tac. Qed.
#[local] Hint Resolve copy_A_ArrayExpr : copy.
Lemma copy_ResTarget x : ResTarget.t_all Node copied x ->
  check_ResTarget any known x = true -> _copyResTarget copyObjectImpl x = Ok x.
Proof. copy_tac. Qed.
#[local] Hint Resolve copy_ResTarget : copy.
Lemma copy_MultiAssignRef x : MultiAssignRef.t_all Node copied x ->
  check_MultiAssignRef any known x = true -> _copyMultiAssignRef copyObjectImpl x = Ok x.
Proof. copy_tac. Qed.
#[local] Hint Resolve copy_MultiAssignRef : copy.
Lemma copy_NamedArgExpr x : NamedArgExpr.t_all Node copied x ->
  check_NamedArgExpr any known x = true -> _copyNamedArgExpr copyObjectImpl x = Ok x.
Proof. copy_tac. Qed.
#[local] Hint Resolve copy_NamedArgExpr : copy.
Lemma copy_BoolExpr x : BoolExpr.t_all Node copied x ->
  check_BoolExpr known x = true -> _copyBoolExpr copyObjectImpl x = Ok x.
Proof. copy_tac. Qed.
#[local] Hint Resolve copy_BoolExpr : copy.
Lemma copy_SubLink x : SubLink.t_all Node copied x ->
  check_SubLink any known x = true -> _copySubLink copyObjectImpl x = Ok x.
Proof. copy_tac. Qed.
#[local] Hint Resolve copy_SubLink : copy.
Lemma copy_CaseWhen x : CaseWhen.t_all Node copied x ->
  check_CaseWhen any known x = true -> _copyCaseWhen copyObjectImpl x = Ok x.
Proof. copy_tac. Qed.
#[local] Hint Resolve copy_CaseWhen : copy.
Lemma copy_CaseExpr x : CaseExpr.t_all Node copied x ->
  check_CaseExpr any known x = true -> _copyCaseExpr copyObjectImpl x = Ok x.
Proof. copy_tac. Qed.
#[local] Hint Resolve copy_CaseExpr : copy.
Lemma copy_RowExpr x : RowExpr.t_all Node copied x ->
  check_RowExpr known x = true -> _copyRowExpr copyObjectImpl x = Ok x.
Proof. copy_tac. Qed.
#[local] Hint Resolve copy_RowExpr : copy.
Lemma copy_CoalesceExpr x : CoalesceExpr.t_all Node copied x ->
  check_CoalesceExpr known x = true -> _copyCoalesceExpr copyObjectImpl x = Ok x.
Proof. copy_tac. Qed.
#[local] Hint Resolve copy_CoalesceExpr : copy.
Lemma copy_MinMaxExpr x : MinMaxExpr.t_all Node copied x ->
  check_MinMaxExpr known x = true -> _copyMinMaxExpr copyObjectImpl x = Ok x.
Proof. copy_tac. Qed.
#[local] Hint Resolve copy_MinMaxExpr : copy.
Lemma copy_SQLValueFunction x : SQLValueFunction.t_all Node copied x ->
  _copySQLValueFunction x = Ok x.
Proof. copy_tac. Qed.
#[local] Hint Resolve copy_SQLValueFunction : copy.
Lemma copy_XmlExpr x : XmlExpr.t_all Node copied x ->
  check_XmlExpr any known x = true -> _copyXmlExpr copyObjectImpl x = Ok x.
Proof. copy_tac. Qed.
#[local] Hint Resolve copy_XmlExpr : copy.
Lemma copy_XmlSerialize x : XmlSerialize.t_all Node copied x ->
  check_XmlSerialize any known x = true -> _copyXmlSerialize copyObjectImpl x = Ok x.
Proof. copy_tac. Qed.
#[local] Hint Resolve copy_XmlSerialize : copy.
Lemma copy_NullTest x : NullTest.t_all Node copied x ->
  check_NullTest any known x = true -> _copyNullTest copyObjectImpl x = Ok x.
Proof. copy_tac. Qed.
#[local] Hint Resolve copy_NullTest : copy.
Lemma copy_BooleanTest x : BooleanTest.t_all Node copied x ->
  check_BooleanTest any known x = true -> _copyBooleanTest copyObjectImpl x = Ok x.
Proof. copy_tac. Qed.
#[local] Hint Resolve copy_BooleanTest : copy.
Lemma copy_SetToDefault x : SetToDefault.t_all Node copied x ->
  _copySetToDefault x = Ok x.
Proof. copy_tac. Qed.
#[local] Hint Resolve copy_SetToDefault : copy.
Lemma copy_CurrentOfExpr x : CurrentOfExpr.t_all Node copied x ->
  check_CurrentOfExpr any x = true -> _copyCurrentOfExpr x = Ok x.
Proof. copy_tac. Qed.
#[local] Hint Resolve copy_CurrentOfExpr : copy.
Lemma copy_GroupingFunc x : GroupingFunc.t_all Node copied x ->
  check_GroupingFunc any known x = true -> _copyGroupingFunc copyObjectImpl x = Ok x.
Proof. copy_tac. Qed.
#[local] Hint Resolve copy_GroupingFunc : copy.
Lemma copy_DefElem x : DefElem.t_all Node copied x ->
  check_DefElem any known x = true -> _copyDefElem copyObjectImpl x = Ok x.
Proof. copy_tac. Qed.
#[local] Hint Resolve copy_DefElem : copy.
Lemma copy_IndexElem x : IndexElem.t_all Node copied x ->
  check_IndexElem any known x = true -> _copyIndexElem copyObjectImpl x = Ok x.
Proof. copy_tac. Qed.
#[local] Hint Resolve copy_IndexElem : copy.
Lemma copy_Constraint x : Constraint.t_all Node copied x ->
  check_Constraint any known x = true -> _copyConstraint copyObjectImpl x = Ok x.
Proof. copy_tac. Qed.
#[local] Hint Resolve copy_Constraint : copy.
Lemma copy_ColumnDef x : ColumnDef.t_all Node copied x ->
  check_ColumnDef any known x = true -> _copyColumnDef copyObjectImpl x = Ok x.
Proof. copy_tac. Qed.
#[local] Hint Resolve copy_ColumnDef : copy.
Lemma copy_JoinExpr x : JoinExpr.t_all Node copied x ->
  check_JoinExpr any known x = true -> _copyJoinExpr copyObjectImpl x = Ok x.
Proof. copy_tac. Qed.
#[local] Hint Resolve copy_JoinExpr : copy.
Lemma copy_RangeSubselect x : RangeSubselect.t_all Node copied x ->
  check_RangeSubselect any known x = true -> _copyRangeSubselect copyObjectImpl x = Ok x.
Proof. copy_tac. Qed.
#[local] Hint Resolve copy_RangeSubselect : copy.
Lemma copy_RangeFunction x : RangeFunction.t_all Node copied x ->
  check_RangeFunction any known x = true -> _copyRangeFunction copyObjectImpl x = Ok x.
Proof. copy_tac. Qed.
#[local] Hint Resolve copy_RangeFunction : copy.
Lemma copy_RangeTableFuncCol x : RangeTableFuncCol.t_all Node copied x ->
  check_RangeTableFuncCol any known x = true -> _copyRangeTableFuncCol copyObjectImpl x = Ok x.
Proof. copy_tac. Qed.
#[local] Hint Resolve copy_RangeTableFuncCol : copy.
Lemma copy_RangeTableFunc x : RangeTableFunc.t_all Node copied x ->
  check_RangeTableFunc any known x = true -> _copyRangeTableFunc copyObjectImpl x = Ok x.
Proof. copy_tac. Qed.
#[local] Hint Resolve copy_RangeTableFunc : copy.
Lemma copy_RangeTableSample x : RangeTableSample.t_all Node copied x ->
  check_RangeTableSample any known x = true -> _copyRangeTableSample copyObjectImpl x = Ok x.
Proof. copy_tac. Qed.
#[local] Hint Resolve copy_RangeTableSample : copy.
Lemma copy_CommonTableExpr x : CommonTableExpr.t_all Node copied x ->
  check_CommonTableExpr any known x = true -> _copyCommonTableExpr copyObjectImpl x = Ok x.
Proof. copy_tac. Qed.
#[local] Hint Resolve copy_CommonTableExpr : copy.
Lemma copy_WithClause x : WithClause.t_all Node copied x ->
  check_WithClause known x = true -> _copyWithClause copyObjectImpl x = Ok x.
Proof. copy_tac. Qed.
#[local] Hint Resolve copy_WithClause : copy.
Lemma copy_InferClause x : InferClause.t_all Node copied x ->
  check_InferClause any known x = true -> _copyInferClause copyObjectImpl x = Ok x.
Proof. copy_tac. Qed.
#[local] Hint Resolve copy_InferClause : copy.
Lemma copy_OnConflictClause x : OnConflictClause.t_all Node copied x ->
  check_OnConflictClause any known x = true -> _copyOnConflictClause copyObjectImpl x = Ok x.
Proof. copy_tac. Qed.
#[local] Hint Resolve copy_OnConflictClause : copy.
Lemma copy_LockingClause x : LockingClause.t_all Node copied x ->
  check_LockingClause known x = true -> _copyLockingClause copyObjectImpl x = Ok x.
Proof. copy_tac. Qed.
#[local] Hint Resolve copy_LockingClause : copy.
Lemma copy_GroupingSet x : GroupingSet.t_all Node copied x ->
  check_GroupingSet known x = true -> _copyGroupingSet copyObjectImpl x = Ok x.
Proof. copy_tac. Qed.
#[local] Hint Resolve copy_GroupingSet : copy.
Lemma copy_IntoClause x : IntoClause.t_all Node copied x ->
  check_IntoClause any known x = true -> _copyIntoClause copyObjectImpl x = Ok x.
Proof. copy_tac. Qed.
#[local] Hint Resolve copy_IntoClause : copy.
Lemma copy_SelectStmt x : SelectStmt.t_all Node copied x ->
  check_SelectStmt any known x = true -> _copySelectStmt copyObjectImpl x = Ok x.
Proof. copy_tac. Qed.
#[local] Hint Resolve copy_SelectStmt : copy.
Lemma copy_InsertStmt x : InsertStmt.t_all Node copied x ->
  check_InsertStmt any known x = true -> _copyInsertStmt copyObjectImpl x = Ok x.
Proof. copy_tac. Qed.
#[local] Hint Resolve copy_InsertStmt : copy.
Lemma copy_UpdateStmt x : UpdateStmt.t_all Node copied x ->
  check_UpdateStmt any known x = true -> _copyUpdateStmt copyObjectImpl x = Ok x.
Proof. copy_tac. Qed.
#[local] Hint Resolve copy_UpdateStmt : copy.
Lemma copy_DeleteStmt x : DeleteStmt.t_all Node copied x ->
  check_DeleteStmt any known x = true -> _copyDeleteStmt copyObjectImpl x = Ok x.
Proof. copy_tac. Qed.
#[local] Hint Resolve copy_DeleteStmt : copy.
Lemma copy_RawStmt x : RawStmt.t_all Node copied x ->
  check_RawStmt any known x = true -> _copyRawStmt copyObjectImpl x = Ok x.
Proof. copy_tac. Qed.
#[local] Hint Resolve copy_RawStmt : copy.
Lemma copy_AlterTableCmd x : AlterTableCmd.t_all Node copied x ->
  check_AlterTableCmd any known x = true -> _copyAlterTableCmd copyObjectImpl x = Ok x.
Proof. copy_tac. Qed.
#[local] Hint Resolve copy_AlterTableCmd : copy.
Lemma copy_PartitionBoundSpec x : PartitionBoundSpec.t_all Node copied x ->
  check_PartitionBoundSpec any known x = true -> _copyPartitionBoundSpec copyObjectImpl x = Ok x.
Proof. copy_tac. Qed.
#[local] Hint Resolve copy_PartitionBoundSpec : copy.
Lemma copy_TableLikeClause x : TableLikeClause.t_all Node copied x ->
  check_TableLikeClause any known x = true -> _copyTableLikeClause copyObjectImpl x = Ok x.
Proof. copy_tac. Qed.
#[local] Hint Resolve copy_TableLikeClause : copy.
Lemma copy_PartitionElem x : PartitionElem.t_all Node copied x ->
  check_PartitionElem any known x = true -> _copyPartitionElem copyObjectImpl x = Ok x.
Proof. copy_tac. Qed.
#[local] Hint Resolve copy_PartitionElem : copy.
Lemma copy_PartitionSpec x : PartitionSpec.t_all Node copied x ->
  check_PartitionSpec any known x = true -> _copyPartitionSpec copyObjectImpl x = Ok x.
Proof. copy_tac. Qed.
#[local] Hint Resolve copy_PartitionSpec : copy.
Lemma copy_PartitionCmd x : PartitionCmd.t_all Node copied x ->
  check_PartitionCmd any known x = true -> _copyPartitionCmd copyObjectImpl x = Ok x.
Proof. copy_tac. Qed.
#[local] Hint Resolve copy_PartitionCmd : copy.
Lemma copy_TriggerTransition x : TriggerTransition.t_all Node copied x ->
  check_TriggerTransition any x = true -> _copyTriggerTransition x = Ok x.
Proof. copy_tac. Qed.
#[local] Hint Resolve copy_TriggerTransition : copy.
Lemma copy_CreateSchemaStmt x : CreateSchemaStmt.t_all Node copied x ->
  check_CreateSchemaStmt any known x = true -> _copyCreateSchemaStmt copyObjectImpl x = Ok x.
Proof. copy_tac. Qed.
#[local] Hint Resolve copy_CreateSchemaStmt : copy.
Lemma copy_AlterTableStmt x : AlterTableStmt.t_all Node copied x ->
  check_AlterTableStmt any known x = true -> _copyAlterTableStmt copyObjectImpl x = Ok x.
Proof. copy_tac. Qed.
#[local] Hint Resolve copy_AlterTableStmt : copy.
Lemma copy_ReplicaIdentityStmt x : ReplicaIdentityStmt.t_all Node copied x ->
  check_ReplicaIdentityStmt any x = true -> _copyReplicaIdentityStmt x = Ok x.
Proof. copy_tac. Qed.
#[local] Hint Resolve copy_ReplicaIdentityStmt : copy.
Lemma copy_AlterCollationStmt x : AlterCollationStmt.t_all Node copied x ->
  check_AlterCollationStmt known x = true -> _copyAlterCollationStmt copyObjectImpl x = Ok x.
Proof. copy_tac. Qed.
#[local] Hint Resolve copy_AlterCollationStmt : copy.
Lemma copy_AlterDomainStmt x : AlterDomainStmt.t_all Node copied x ->
  check_AlterDomainStmt any known x = true -> _copyAlterDomainStmt copyObjectImpl x = Ok x.
Proof. copy_tac. Qed.
#[local] Hint Resolve copy_AlterDomainStmt : copy.
Lemma copy_GrantStmt x : GrantStmt.t_all Node copied x ->
  check_GrantStmt known x = true -> _copyGrantStmt copyObjectImpl x = Ok x.
Proof. copy_tac. Qed.
#[local] Hint Resolve copy_GrantStmt : copy.
Lemma copy_ObjectWithArgs x : ObjectWithArgs.t_all Node copied x ->
  check_ObjectWithArgs known x = true -> _copyObjectWithArgs copyObjectImpl x = Ok x.
Proof. copy_tac. Qed.
#[local] Hint Resolve copy_ObjectWithArgs : copy.
Lemma copy_AccessPriv x : AccessPriv.t_all Node copied x ->
  check_AccessPriv any known x = true -> _copyAccessPriv copyObjectImpl x = Ok x.
Proof. copy_tac. Qed.
#[local] Hint Resolve copy_AccessPriv : copy.
Lemma copy_GrantRoleStmt x : GrantRoleStmt.t_all Node copied x ->
  check_GrantRoleStmt any known x = true -> _copyGrantRoleStmt copyObjectImpl x = Ok x.
Proof. copy_tac. Qed.
#[local] Hint Resolve copy_GrantRoleStmt : copy.
Lemma copy_AlterDefaultPrivilegesStmt x : AlterDefaultPrivilegesStmt.t_all Node copied x ->
  check_AlterDefaultPrivilegesStmt known x = true -> _copyAlterDefaultPrivilegesStmt copyObjectImpl x = Ok x.
Proof. copy_tac. Qed.
#[local] Hint Resolve copy_AlterDefaultPrivilegesStmt : copy.
Lemma copy_CopyStmt x : CopyStmt.t_all Node copied x ->
  check_CopyStmt any known x = true -> _copyCopyStmt copyObjectImpl x = Ok x.
Proof. copy_tac. Qed.
#[local] Hint Resolve copy_CopyStmt : copy.
Lemma copy_VariableSetStmt x : VariableSetStmt.t_all Node copied x ->
  check_VariableSetStmt any known x = true -> _copyVariableSetStmt copyObjectImpl x = Ok x.
Proof. copy_tac. Qed.
#[local] Hint Resolve copy_VariableSetStmt : copy.
Lemma copy_VariableShowStmt x : VariableShowStmt.t_all Node copied x ->
  check_VariableShowStmt any x = true -> _copyVariableShowStmt x = Ok x.
Proof. copy_tac. Qed.
#[local] Hint Resolve copy_VariableShowStmt : copy.
Lemma copy_CreateStmt x : CreateStmt.t_all Node copied x ->
  check_CreateStmt any known x = true -> _copyCreateStmt copyObjectImpl x = Ok x.
Proof. copy_tac. Qed.
#[local] Hint Resolve copy_CreateStmt : copy.
Lemma copy_CreateTableSpaceStmt x : CreateTableSpaceStmt.t_all Node copied x ->
  check_CreateTableSpaceStmt any known x = true -> _copyCreateTableSpaceStmt copyObjectImpl x = Ok x.
Proof. copy_tac. Qed.
#[local] Hint Resolve copy_CreateTableSpaceStmt : copy.
Lemma copy_DropTableSpaceStmt x : DropTableSpaceStmt.t_all Node copied x ->
  check_DropTableSpaceStmt any x = true -> _copyDropTableSpaceStmt x = Ok x.
Proof. copy_tac. Qed.
#[local] Hint Resolve copy_DropTableSpaceStmt : copy.
Lemma copy_AlterTableSpaceOptionsStmt x : AlterTableSpaceOptionsStmt.t_all Node copied x ->
  check_AlterTableSpaceOptionsStmt any known x = true -> _copyAlterTableSpaceOptionsStmt copyObjectImpl x = Ok x.
Proof. copy_tac. Qed.
#[local] Hint Resolve copy_AlterTableSpaceOptionsStmt : copy.
Lemma copy_AlterTableMoveAllStmt x : AlterTableMoveAllStmt.t_all Node copied x ->
  check_AlterTableMoveAllStmt any known x = true -> _copyAlterTableMoveAllStmt copyObjectImpl x = Ok x.
Proof. copy_tac. Qed.
#[local] Hint Resolve copy_AlterTableMoveAllStmt : copy.
Lemma copy_CreateExtensionStmt x : CreateExtensionStmt.t_all Node copied x ->
  check_CreateExtensionStmt any known x = true -> _copyCreateExtensionStmt copyObjectImpl x = Ok x.
Proof. copy_tac. Qed.
#[local] Hint Resolve copy_CreateExtensionStmt : copy.
Lemma copy_AlterExtensionStmt x : AlterExtensionStmt.t_all Node copied x ->
  check_AlterExtensionStmt any known x = true -> _copyAlterExtensionStmt copyObjectImpl x = Ok x.
Proof. copy_tac. Qed.
#[local] Hint Resolve copy_AlterExtensionStmt : copy.
Lemma copy_AlterExtensionContentsStmt x : AlterExtensionContentsStmt.t_all Node copied x ->
  check_AlterExtensionContentsStmt any known x = true -> _copyAlterExtensionContentsStmt copyObjectImpl x = Ok x.
Proof. copy_tac. Qed.
#[local] Hint Resolve copy_AlterExtensionContentsStmt : copy.
Lemma copy_CreateFdwStmt x : CreateFdwStmt.t_all Node copied x ->
  check_CreateFdwStmt any known x = true -> _copyCreateFdwStmt copyObjectImpl x = Ok x.
Proof. copy_tac. Qed.
#[local] Hint Resolve copy_CreateFdwStmt : copy.
Lemma copy_AlterFdwStmt x : AlterFdwStmt.t_all Node copied x ->
  check_AlterFdwStmt any known x = true -> _copyAlterFdwStmt copyObjectImpl x = Ok x.
Proof. copy_tac. Qed.
#[local] Hint Resolve copy_AlterFdwStmt : copy.
Lemma copy_CreateForeignServerStmt x : CreateForeignServerStmt.t_all Node copied x ->
  check_CreateForeignServerStmt any known x = true -> _copyCreateForeignServerStmt copyObjectImpl x = Ok x.
Proof. copy_tac. Qed.
#[local] Hint Resolve copy_CreateForeignServerStmt : copy.
Lemma copy_AlterForeignServerStmt x : AlterForeignServerStmt.t_all Node copied x ->
  check_AlterForeignServerStmt any known x = true -> _copyAlterForeignServerStmt copyObjectImpl x = Ok x.
Proof. copy_tac. Qed.
#[local] Hint Resolve copy_AlterForeignServerStmt : copy.
Lemma copy_CreateForeignTableStmt x : CreateForeignTableStmt.t_all Node copied x ->
  check_CreateForeignTableStmt any known x = true -> _copyCreateForeignTableStmt copyObjectImpl x = Ok x.
Proof. copy_tac. Qed.
#[local] Hint Resolve copy_CreateForeignTableStmt : copy.
Lemma copy_CreateUserMappingStmt x : CreateUserMappingStmt.t_all Node copied x ->
  check_CreateUserMappingStmt any known x = true -> _copyCreateUserMappingStmt copyObjectImpl x = Ok x.
Proof. copy_tac. Qed.
#[local] Hint Resolve copy_CreateUserMappingStmt : copy.
Lemma copy_AlterUserMappingStmt x : AlterUserMappingStmt.t_all Node copied x ->
  check_AlterUserMappingStmt any known x = true -> _copyAlterUserMappingStmt copyObjectImpl x = Ok x.
Proof. copy_tac. Qed.
#[local] Hint Resolve copy_AlterUserMappingStmt : copy.
Lemma copy_DropUserMappingStmt x : DropUserMappingStmt.t_all Node copied x ->
  check_DropUserMappingStmt any x = true -> _copyDropUserMappingStmt x = Ok x.
Proof. copy_tac. Qed.
#[local] Hint Resolve copy_DropUserMappingStmt : copy.
Lemma copy_ImportForeignSchemaStmt x : ImportForeignSchemaStmt.t_all Node copied x ->
  check_ImportForeignSchemaStmt any known x = true -> _copyImportForeignSchemaStmt copyObjectImpl x = Ok x.
Proof. copy_tac. Qed.
#[local] Hint Resolve copy_ImportForeignSchemaStmt : copy.
Lemma copy_CreatePolicyStmt x : CreatePolicyStmt.t_all Node copied x ->
  check_CreatePolicyStmt any known x = true -> _copyCreatePolicyStmt copyObjectImpl x = Ok x.
Proof. copy_tac. Qed.
#[local] Hint Resolve copy_CreatePolicyStmt : copy.
Lemma copy_AlterPolicyStmt x : AlterPolicyStmt.t_all Node copied x ->
  check_AlterPolicyStmt any known x = true -> _copyAlterPolicyStmt copyObjectImpl x = Ok x.
Proof. copy_tac. Qed.
#[local] Hint Resolve copy_AlterPolicyStmt : copy.
Lemma copy_CreateAmStmt x : CreateAmStmt.t_all Node copied x ->
  check_CreateAmStmt any known x = true -> _copyCreateAmStmt copyObjectImpl x = Ok x.
Proof. copy_tac. Qed.
#[local] Hint Resolve copy_CreateAmStmt : copy.
Lemma copy_CreateTrigStmt x : CreateTrigStmt.t_all Node copied x ->
  check_CreateTrigStmt any known x = true -> _copyCreateTrigStmt copyObjectImpl x = Ok x.
Proof. copy_tac. Qed.
#[local] Hint Resolve copy_CreateTrigStmt : copy.
Lemma copy_CreateEventTrigStmt x : CreateEventTrigStmt.t_all Node copied x ->
  check_CreateEventTrigStmt any known x = true -> _copyCreateEventTrigStmt copyObjectImpl x = Ok x.
Proof. copy_tac. Qed.
#[local] Hint Resolve copy_CreateEventTrigStmt : copy.
Lemma copy_AlterEventTrigStmt x : AlterEventTrigStmt.t_all Node copied x ->
  check_AlterEventTrigStmt any x = true -> _copyAlterEventTrigStmt x = Ok x.
Proof. copy_tac. Qed.
#[local] Hint Resolve copy_AlterEventTrigStmt : copy.
Lemma copy_CreatePLangStmt x : CreatePLangStmt.t_all Node copied x ->
  check_CreatePLangStmt any known x = true -> _copyCreatePLangStmt copyObjectImpl x = Ok x.
Proof. copy_tac. Qed.
#[local] Hint Resolve copy_CreatePLangStmt : copy.
Lemma copy_CreateRoleStmt x : CreateRoleStmt.t_all Node copied x ->
  check_CreateRoleStmt any known x = true -> _copyCreateRoleStmt copyObjectImpl x = Ok x.
Proof. copy_tac. Qed.
#[local] Hint Resolve copy_CreateRoleStmt : copy.
Lemma copy_AlterRoleStmt x : AlterRoleStmt.t_all Node copied x ->
  check_AlterRoleStmt any known x = true -> _copyAlterRoleStmt copyObjectImpl x = Ok x.
Proof. copy_tac. Qed.
#[local] Hint Resolve copy_AlterRoleStmt : copy.
Lemma copy_AlterRoleSetStmt x : AlterRoleSetStmt.t_all Node copied x ->
  check_AlterRoleSetStmt any known x = true -> _copyAlterRoleSetStmt copyObjectImpl x = Ok x.
Proof. copy_tac. Qed.
#[local] Hint Resolve copy_AlterRoleSetStmt : copy.
Lemma copy_DropRoleStmt x : DropRoleStmt.t_all Node copied x ->
  check_DropRoleStmt known x = true -> _copyDropRoleStmt copyObjectImpl x = Ok x.
Proof. copy_tac. Qed.
#[local] Hint Resolve copy_DropRoleStmt : copy.
Lemma copy_CreateSeqStmt x : CreateSeqStmt.t_all Node copied x ->
  check_CreateSeqStmt any known x = true -> _copyCreateSeqStmt copyObjectImpl x = Ok x.
Proof. copy_tac. Qed.
#[local] Hint Resolve copy_CreateSeqStmt : copy.
Lemma copy_AlterSeqStmt x : AlterSeqStmt.t_all Node copied x ->
  check_AlterSeqStmt any known x = true -> _copyAlterSeqStmt copyObjectImpl x = Ok x.
Proof. copy_tac. Qed.
#[local] Hint Resolve copy_AlterSeqStmt : copy.
Lemma copy_DefineStmt x : DefineStmt.t_all Node copied x ->
  check_DefineStmt known x = true -> _copyDefineStmt copyObjectImpl x = Ok x.
Proof. copy_tac. Qed.
#[local] Hint Resolve copy_DefineStmt : copy.
Lemma copy_CreateDomainStmt x : CreateDomainStmt.t_all Node copied x ->
  check_CreateDomainStmt any known x = true -> _copyCreateDomainStmt copyObjectImpl x = Ok x.
Proof. copy_tac. Qed.
#[local] Hint Resolve copy_CreateDomainStmt : copy.
Lemma copy_CreateOpClassStmt x : CreateOpClassStmt.t_all Node copied x ->
  check_CreateOpClassStmt any known x = true -> _copyCreateOpClassStmt copyObjectImpl x = Ok x.
Proof. copy_tac. Qed.
#[local] Hint Resolve copy_CreateOpClassStmt : copy.
Lemma copy_CreateOpClassItem x : CreateOpClassItem.t_all Node copied x ->
  check_CreateOpClassItem known x = true -> _copyCreateOpClassItem copyObjectImpl x = Ok x.
Proof. copy_tac. Qed.
#[local] Hint Resolve copy_CreateOpClassItem : copy.
Lemma copy_CreateOpFamilyStmt x : CreateOpFamilyStmt.t_all Node copied x ->
  check_CreateOpFamilyStmt any known x = true -> _copyCreateOpFamilyStmt copyObjectImpl x = Ok x.
Proof. copy_tac. Qed.
#[local] Hint Resolve copy_CreateOpFamilyStmt : copy.
Lemma copy_AlterOpFamilyStmt x : AlterOpFamilyStmt.t_all Node copied x ->
  check_AlterOpFamilyStmt any known x = true -> _copyAlterOpFamilyStmt copyObjectImpl x = Ok x.
Proof. copy_tac. Qed.
#[local] Hint Resolve copy_AlterOpFamilyStmt : copy.
Lemma copy_DropStmt x : DropStmt.t_all Node copied x ->
  check_DropStmt known x = true -> _copyDropStmt copyObjectImpl x = Ok x.
Proof. copy_tac. Qed.
#[local] Hint Resolve copy_DropStmt : copy.
Lemma copy_TruncateStmt x : TruncateStmt.t_all Node copied x ->
  check_TruncateStmt known x = true -> _copyTruncateStmt copyObjectImpl x = Ok x.
Proof. copy_tac. Qed.
#[local] Hint Resolve copy_TruncateStmt : copy.
Lemma copy_CommentStmt x : CommentStmt.t_all Node copied x ->
  check_CommentStmt any known x = true -> _copyCommentStmt copyObjectImpl x = Ok x.
Proof. copy_tac. Qed.
#[local] Hint Resolve copy_CommentStmt : copy.
Lemma copy_SecLabelStmt x : SecLabelStmt.t_all Node copied x ->
  check_SecLabelStmt any known x = true -> _copySecLabelStmt copyObjectImpl x = Ok x.
Proof. copy_tac. Qed.
#[local] Hint Resolve copy_SecLabelStmt : copy.
Lemma copy_DeclareCursorStmt x : DeclareCursorStmt.t_all Node copied x ->
  check_DeclareCursorStmt any known x = true -> _copyDeclareCursorStmt copyObjectImpl x = Ok x.
Proof. copy_tac. Qed.
#[local] Hint Resolve copy_DeclareCursorStmt : copy.
Lemma copy_ClosePortalStmt x : ClosePortalStmt.t_all Node copied x ->
  check_ClosePortalStmt any x = true -> _copyClosePortalStmt x = Ok x.
Proof. copy_tac. Qed.
#[local] Hint Resolve copy_ClosePortalStmt : copy.
Lemma copy_FetchStmt x : FetchStmt.t_all Node copied x ->
  check_FetchStmt any x = true -> _copyFetchStmt x = Ok x.
Proof. copy_tac. Qed.
#[local] Hint Resolve copy_FetchStmt : copy.
Lemma copy_IndexStmt x : IndexStmt.t_all Node copied x ->
  check_IndexStmt any known x = true -> _copyIndexStmt copyObjectImpl x = Ok x.
Proof. copy_tac. Qed.
#[local] Hint Resolve copy_IndexStmt : copy.
Lemma copy_CreateStatsStmt x : CreateStatsStmt.t_all Node copied x ->
  check_CreateStatsStmt any known x = true -> _copyCreateStatsStmt copyObjectImpl x = Ok x.
Proof. copy_tac. Qed.
#[local] Hint Resolve copy_CreateStatsStmt : copy.
Lemma copy_AlterStatsStmt x : AlterStatsStmt.t_all Node copied x ->
  check_AlterStatsStmt known x = true -> _copyAlterStatsStmt copyObjectImpl x = Ok x.
Proof. copy_tac. Qed.
#[local] Hint Resolve copy_AlterStatsStmt : copy.
Lemma copy_CreateFunctionStmt x : CreateFunctionStmt.t_all Node copied x ->
  check_CreateFunctionStmt known x = true -> _copyCreateFunctionStmt copyObjectImpl x = Ok x.
Proof. copy_tac. Qed.
#[local] Hint Resolve copy_CreateFunctionStmt : copy.
Lemma copy_FunctionParameter x : FunctionParameter.t_all Node copied x ->
  check_FunctionParameter any known x = true -> _copyFunctionParameter copyObjectImpl x = Ok x.
Proof. copy_tac. Qed.
#[local] Hint Resolve copy_FunctionParameter : copy.
Lemma copy_AlterFunctionStmt x : AlterFunctionStmt.t_all Node copied x ->
  check_AlterFunctionStmt known x = true -> _copyAlterFunctionStmt copyObjectImpl x = Ok x.
Proof. copy_tac. Qed.
#[local] Hint Resolve copy_AlterFunctionStmt : copy.
Lemma copy_DoStmt x : DoStmt.t_all Node copied x ->
  check_DoStmt known x = true -> _copyDoStmt copyObjectImpl x = Ok x.
Proof. copy_tac. Qed.
#[local] Hint Resolve copy_DoStmt : copy.
Lemma copy_FuncExpr x : FuncExpr.t_all Node copied x ->
  check_FuncExpr known x = true -> _copyFuncExpr copyObjectImpl x = Ok x.
Proof. copy_tac. Qed.
#[local] Hint Resolve copy_FuncExpr : copy.
Lemma copy_CallStmt x : CallStmt.t_all Node copied x ->
  check_CallStmt any known x = true -> _copyCallStmt copyObjectImpl x = Ok x.
Proof. copy_tac. Qed.
#[local] Hint Resolve copy_CallStmt : copy.
Lemma copy_RenameStmt x : RenameStmt.t_all Node copied x ->
  check_RenameStmt any known x = true -> _copyRenameStmt copyObjectImpl x = Ok x.
Proof. copy_tac. Qed.
#[local] Hint Resolve copy_RenameStmt : copy.
Lemma copy_AlterObjectDependsStmt x : AlterObjectDependsStmt.t_all Node copied x ->
  check_AlterObjectDependsStmt any known x = true -> _copyAlterObjectDependsStmt copyObjectImpl x = Ok x.
Proof. copy_tac. Qed.
#[local] Hint Resolve copy_AlterObjectDependsStmt : copy.
Lemma copy_AlterObjectSchemaStmt x : AlterObjectSchemaStmt.t_all Node copied x ->
  check_AlterObjectSchemaStmt any known x = true -> _copyAlterObjectSchemaStmt copyObjectImpl x = Ok x.
Proof. copy_tac. Qed.
#[local] Hint Resolve copy_AlterObjectSchemaStmt : copy.
Lemma copy_AlterOwnerStmt x : AlterOwnerStmt.t_all Node copied x ->
  check_AlterOwnerStmt any known x = true -> _copyAlterOwnerStmt copyObjectImpl x = Ok x.
Proof. copy_tac. Qed.
#[local] Hint Resolve copy_AlterOwnerStmt : copy.
Lemma copy_AlterOperatorStmt x : AlterOperatorStmt.t_all Node copied x ->
  check_AlterOperatorStmt known x = true -> _copyAlterOperatorStmt copyObjectImpl x = Ok x.
Proof. copy_tac. Qed.
#[local] Hint Resolve copy_AlterOperatorStmt : copy.
Lemma copy_AlterTypeStmt x : AlterTypeStmt.t_all Node copied x ->
  check_AlterTypeStmt known x = true -> _copyAlterTypeStmt copyObjectImpl x = Ok x.
Proof. copy_tac. Qed.
#[local] Hint Resolve copy_AlterTypeStmt : copy.
Lemma copy_RuleStmt x : RuleStmt.t_all Node copied x ->
  check_RuleStmt any known x = true -> _copyRuleStmt copyObjectImpl x = Ok x.
Proof. copy_tac. Qed.
#[local] Hint Resolve copy_RuleStmt : copy.
Lemma copy_NotifyStmt x : NotifyStmt.t_all Node copied x ->
  check_NotifyStmt any x = true -> _copyNotifyStmt x = Ok x.
Proof. copy_tac. Qed.
#[local] Hint Resolve copy_NotifyStmt : copy.
Lemma copy_ListenStmt x : ListenStmt.t_all Node copied x ->
  check_ListenStmt any x = true -> _copyListenStmt x = Ok x.
Proof. copy_tac. Qed.
#[local] Hint Resolve copy_ListenStmt : copy.
Lemma copy_UnlistenStmt x : UnlistenStmt.t_all Node copied x ->
  check_UnlistenStmt any x = true -> _copyUnlistenStmt x = Ok x.
Proof. copy_tac. Qed.
#[local] Hint Resolve copy_UnlistenStmt : copy.
Lemma copy_TransactionStmt x : TransactionStmt.t_all Node copied x ->
  check_TransactionStmt any known x = true -> _copyTransactionStmt copyObjectImpl x = Ok x.
Proof. copy_tac. Qed.
#[local] Hint Resolve copy_TransactionStmt : copy.
Lemma copy_CompositeTypeStmt x : CompositeTypeStmt.t_all Node copied x ->
  check_CompositeTypeStmt any known x = true -> _copyCompositeTypeStmt copyObjectImpl x = Ok x.
Proof. copy_tac. Qed.
#[local] Hint Resolve copy_CompositeTypeStmt : copy.
Lemma copy_CreateEnumStmt x : CreateEnumStmt.t_all Node copied x ->
  check_CreateEnumStmt known x = true -> _copyCreateEnumStmt copyObjectImpl x = Ok x.
Proof. copy_tac. Qed.
#[local] Hint Resolve copy_CreateEnumStmt : copy.
Lemma copy_CreateRangeStmt x : CreateRangeStmt.t_all Node copied x ->
  check_CreateRangeStmt known x = true -> _copyCreateRangeStmt copyObjectImpl x = Ok x.
Proof. copy_tac. Qed.
#[local] Hint Resolve copy_CreateRangeStmt : copy.
Lemma copy_AlterEnumStmt x : AlterEnumStmt.t_all Node copied x ->
  check_AlterEnumStmt any known x = true -> _copyAlterEnumStmt copyObjectImpl x = Ok x.
Proof. copy_tac. Qed.
#[local] Hint Resolve copy_AlterEnumStmt : copy.
Lemma copy_ViewStmt x : ViewStmt.t_all Node copied x ->
  check_ViewStmt any known x = true -> _copyViewStmt copyObjectImpl x = Ok x.
Proof. copy_tac. Qed.
#[local] Hint Resolve copy_ViewStmt : copy.
Lemma copy_LoadStmt x : LoadStmt.t_all Node copied x ->
  check_LoadStmt any x = true -> _copyLoadStmt x = Ok x.
Proof. copy_tac. Qed.
#[local] Hint Resolve copy_LoadStmt : copy.
Lemma copy_CreatedbStmt x : CreatedbStmt.t_all Node copied x ->
  check_CreatedbStmt any known x = true -> _copyCreatedbStmt copyObjectImpl x = Ok x.
Proof. copy_tac. Qed.
#[local] Hint Resolve copy_CreatedbStmt : copy.
Lemma copy_AlterDatabaseStmt x : AlterDatabaseStmt.t_all Node copied x ->
  check_AlterDatabaseStmt any known x = true -> _copyAlterDatabaseStmt copyObjectImpl x = Ok x.
Proof. copy_tac. Qed.
#[local] Hint Resolve copy_AlterDatabaseStmt : copy.
Lemma copy_AlterDatabaseSetStmt x : AlterDatabaseSetStmt.t_all Node copied x ->
  check_AlterDatabaseSetStmt any known x = true -> _copyAlterDatabaseSetStmt copyObjectImpl x = Ok x.
Proof. copy_tac. Qed.
#[local] Hint Resolve copy_AlterDatabaseSetStmt : copy.
Lemma copy_DropdbStmt x : DropdbStmt.t_all Node copied x ->
  check_DropdbStmt any known x = true -> _copyDropdbStmt copyObjectImpl x = Ok x.
Proof. copy_tac. Qed.
#[local] Hint Resolve copy_DropdbStmt : copy.
Lemma copy_AlterSystemStmt x : AlterSystemStmt.t_all Node copied x ->
  check_AlterSystemStmt any known x = true -> _copyAlterSystemStmt copyObjectImpl x = Ok x.
Proof. copy_tac. Qed.
#[local] Hint Resolve copy_AlterSystemStmt : copy.
Lemma copy_ClusterStmt x : ClusterStmt.t_all Node copied x ->
  check_ClusterStmt any known x = true -> _copyClusterStmt copyObjectImpl x = Ok x.
Proof. copy_tac. Qed.
#[local] Hint Resolve copy_ClusterStmt : copy.
Lemma copy_VacuumStmt x : VacuumStmt.t_all Node copied x ->
  check_VacuumStmt known x = true -> _copyVacuumStmt copyObjectImpl x = Ok x.
Proof. copy_tac. Qed.
#[local] Hint Resolve copy_VacuumStmt : copy.
Lemma copy_VacuumRelation x : VacuumRelation.t_all Node copied x ->
  check_VacuumRelation any known x = true -> _copyVacuumRelation copyObjectImpl x = Ok x.
Proof. copy_tac. Qed.
#[local] Hint Resolve copy_VacuumRelation : copy.
Lemma copy_ExplainStmt x : ExplainStmt.t_all Node copied x ->
  check_ExplainStmt any known x = true -> _copyExplainStmt copyObjectImpl x = Ok x.
Proof. copy_tac. Qed.
#[local] Hint Resolve copy_ExplainStmt : copy.
Lemma copy_CreateTableAsStmt x : CreateTableAsStmt.t_all Node copied x ->
  check_CreateTableAsStmt any known x = true -> _copyCreateTableAsStmt copyObjectImpl x = Ok x.
Proof. copy_tac. Qed.
#[local] Hint Resolve copy_CreateTableAsStmt : copy.
Lemma copy_RefreshMatViewStmt x : RefreshMatViewStmt.t_all Node copied x ->
  check_RefreshMatViewStmt any known x = true -> _copyRefreshMatViewStmt copyObjectImpl x = Ok x.
Proof. copy_tac. Qed.
#[local] Hint Resolve copy_RefreshMatViewStmt : copy.
Lemma copy_DiscardStmt x : DiscardStmt.t_all Node copied x ->
  _copyDiscardStmt x = Ok x.
Proof. copy_tac. Qed.
#[local] Hint Resolve copy_DiscardStmt : copy.
Lemma copy_LockStmt x : LockStmt.t_all Node copied x ->
  check_LockStmt known x = true -> _copyLockStmt copyObjectImpl x = Ok x.
Proof. copy_tac. Qed.
#[local] Hint Resolve copy_LockStmt : copy.
Lemma copy_ConstraintsSetStmt x : ConstraintsSetStmt.t_all Node copied x ->
  check_ConstraintsSetStmt known x = true -> _copyConstraintsSetStmt copyObjectImpl x = Ok x.
Proof. copy_tac. Qed.
#[local] Hint Resolve copy_ConstraintsSetStmt : copy.
Lemma copy_ReindexStmt x : ReindexStmt.t_all Node copied x ->
  check_ReindexStmt any known x = true -> _copyReindexStmt copyObjectImpl x = Ok x.
Proof. copy_tac. Qed.
#[local] Hint Resolve copy_ReindexStmt : copy.
Lemma copy_CreateConversionStmt x : CreateConversionStmt.t_all Node copied x ->
  check_CreateConversionStmt any known x = true -> _copyCreateConversionStmt copyObjectImpl x = Ok x.
Proof. copy_tac. Qed.
#[local] Hint Resolve copy_CreateConversionStmt : copy.
Lemma copy_CreateCastStmt x : CreateCastStmt.t_all Node copied x ->
  check_CreateCastStmt known x = true -> _copyCreateCastStmt copyObjectImpl x = Ok x.
Proof. copy_tac. Qed.
#[local] Hint Resolve copy_CreateCastStmt : copy.
Lemma copy_CreateTransformStmt x : CreateTransformStmt.t_all Node copied x ->
  check_CreateTransformStmt any known x = true -> _copyCreateTransformStmt copyObjectImpl x = Ok x.
Proof. copy_tac. Qed.
#[local] Hint Resolve copy_CreateTransformStmt : copy.
Lemma copy_PrepareStmt x : PrepareStmt.t_all Node copied x ->
  check_PrepareStmt any known x = true -> _copyPrepareStmt copyObjectImpl x = Ok x.
Proof. copy_tac. Qed.
#[local] Hint Resolve copy_PrepareStmt : copy.
Lemma copy_ExecuteStmt x : ExecuteStmt.t_all Node copied x ->
  check_ExecuteStmt any known x = true -> _copyExecuteStmt copyObjectImpl x = Ok x.
Proof. copy_tac. Qed.
#[local] Hint Resolve copy_ExecuteStmt : copy.
Lemma copy_DeallocateStmt x : DeallocateStmt.t_all Node copied x ->
  check_DeallocateStmt any x = true -> _copyDeallocateStmt x = Ok x.
Proof. copy_tac. Qed.
#[local] Hint Resolve copy_DeallocateStmt : copy.
Lemma copy_DropOwnedStmt x : DropOwnedStmt.t_all Node copied x ->
  check_DropOwnedStmt known x = true -> _copyDropOwnedStmt copyObjectImpl x = Ok x.
Proof. copy_tac. Qed.
#[local] Hint Resolve copy_DropOwnedStmt : copy.
Lemma copy_ReassignOwnedStmt x : ReassignOwnedStmt.t_all Node copied x ->
  check_ReassignOwnedStmt any known x = true -> _copyReassignOwnedStmt copyObjectImpl x = Ok x.
Proof. copy_tac. Qed.
#[local] Hint Resolve copy_ReassignOwnedStmt : copy.
Lemma copy_AlterTSDictionaryStmt x : AlterTSDictionaryStmt.t_all Node copied x ->
  check_AlterTSDictionaryStmt known x = true -> _copyAlterTSDictionaryStmt copyObjectImpl x = Ok x.
Proof. copy_tac. Qed.
#[local] Hint Resolve copy_AlterTSDictionaryStmt : copy.
Lemma copy_AlterTSConfigurationStmt x : AlterTSConfigurationStmt.t_all Node copied x ->
  check_AlterTSConfigurationStmt known x = true -> _copyAlterTSConfigurationStmt copyObjectImpl x = Ok x.
Proof. copy_tac. Qed.
#[local] Hint Resolve copy_AlterTSConfigurationStmt : copy.
Lemma copy_CreatePublicationStmt x : CreatePublicationStmt.t_all Node copied x ->
  check_CreatePublicationStmt any known x = true -> _copyCreatePublicationStmt copyObjectImpl x = Ok x.
Proof. copy_tac. Qed.
#[local] Hint Resolve copy_CreatePublicationStmt : copy.
Lemma copy_AlterPublicationStmt x : AlterPublicationStmt.t_all Node copied x ->
  check_AlterPublicationStmt any known x = true -> _copyAlterPublicationStmt copyObjectImpl x = Ok x.
Proof. copy_tac. Qed.
#[local] Hint Resolve copy_AlterPublicationStmt : copy.
Lemma copy_CreateSubscriptionStmt x : CreateSubscriptionStmt.t_all Node copied x ->
  check_CreateSubscriptionStmt any known x = true -> _copyCreateSubscriptionStmt copyObjectImpl x = Ok x.
Proof. copy_tac. Qed.
#[local] Hint Resolve copy_CreateSubscriptionStmt : copy.
Lemma copy_AlterSubscriptionStmt x : AlterSubscriptionStmt.t_all Node copied x ->
  check_AlterSubscriptionStmt any known x = true -> _copyAlterSubscriptionStmt copyObjectImpl x = Ok x.
Proof. copy_tac. Qed.
#[local] Hint Resolve copy_AlterSubscriptionStmt : copy.
Lemma copy_DropSubscriptionStmt x : DropSubscriptionStmt.t_all Node copied x ->
  check_DropSubscriptionStmt any x = true -> _copyDropSubscriptionStmt x = Ok x.
Proof. copy_tac. Qed.
#[local] Hint Resolve copy_DropSubscriptionStmt : copy.

(** ** Trees *)

Lemma copyObjectImpl_eq n : copyObjectImpl n = copyObjectImpl_body copyObjectImpl n.
Proof. by destruct n. Qed.

Lemma known_eq n : known n = check_body any known n.
Proof. by destruct n. Qed.

Lemma copy_copied n : copied n.
Proof.
  revert n. apply node_ind. intros n Hn. unfold copied. rewrite copyObjectImpl_eq, known_eq.
  destruct n; cbn [children] in Hn; cbn [copyObjectImpl_body check_body]; intros Hk; try done; try by (rewrite ?copy_list, ?copy_value).
  all: match goal with
       | |- obind (?c ?x) _ = _ =>
         let H := fresh in assert (H : c x = Ok x) by eauto with copy; by rewrite H
       | x : CheckPointStmt.t _ |- _ => by destruct x
       end.
Qed.
