(* ===== verification/EqualFuncs.v ===== *)
(** * Comparison of trees

    [src/postgres/src_backend_nodes_equalfuncs.c]: [equal] and the function of every
    struct that occurs in raw parse trees, with the early returns of the macros
    [COMPARE_*_FIELD] in the order of the C code.  The test of the two pointers for
    identity is left out: it only saves time, as [equal] is reflexive. *)
From S2P Require Import Prelude Buffer Enums Nodes.

Open Scope Z_scope.

(** [if (!a) return false; b] *)
Definition and_then (a b : outcome bool) : outcome bool := let* r := a in if r then b else Ok false.
Declare Scope compare_scope.
Notation "a &&& b" := (and_then a b) : compare_scope.
Open Scope compare_scope.

Definition same (c : bool) : outcome bool := Ok c.

(** [_equalValue], after the comparison of the tags. *)
Definition _equalValue (a b : Value) : bool :=
  match a, b with
  | Integer ival, Integer ival' => ival =? ival'
  | Float str, Float str' | String_ str, String_ str' | BitString str, BitString str' =>
      String.eqb str str'
  | Null, Null => true
  | _, _ => false
  end.

(** Is this pointer null?  NIL is. *)
Definition null_ptr (p : option Node) : bool :=
  match p with Some (N_List []) | None => true | _ => false end.

Definition COMPARE_SCALAR_FIELD {A} `{EqDecision A} (x y : A) : outcome bool :=
  Ok (bool_decide (x = y)).
(** [equalstr] *)
Definition COMPARE_STRING_FIELD (s t : option string) : outcome bool :=
  match s, t with
  | Some s, Some t => Ok (String.eqb s t)
  | None, None => Ok true
  | _, _ => Ok false
  end.
Definition COMPARE_LOCATION_FIELD : outcome bool := Ok true.
Definition COMPARE_COERCIONFORM_FIELD : outcome bool := Ok true.

Section equalfuncs.
Variable equal : Node -> Node -> outcome bool.

Fixpoint forboth (l l' : list Node) : outcome bool :=
  match l, l' with
  | x :: l, y :: l' => equal x y &&& forboth l l'
  | _, _ => Ok true
  end.

(** [_equalList] *)
Definition COMPARE_LIST_FIELD (l l' : list Node) : outcome bool :=
  if (List.length l =? List.length l')%nat then forboth l l' else Ok false.
Definition COMPARE_NODE_FIELD (p q : option Node) : outcome bool :=
  match p with
  | Some a =>
      if null_ptr p then Ok (null_ptr q)
      else match q with
           | Some b => if null_ptr q then Ok false else equal a b
           | None => Ok false
           end
  | None => Ok (null_ptr q)
  end.
(** On pointers to structs of one kind [equal] calls their function. *)
Definition COMPARE_STRUCT_FIELD {A} (equal_struct : A -> A -> outcome bool) (p q : option A) :
    outcome bool :=
  match p, q with
  | Some x, Some y => equal_struct x y
  | None, None => Ok true
  | _, _ => Ok false
  end.

Definition _equalAlias (a b : Alias.t Node) : outcome bool :=
  COMPARE_STRING_FIELD a.(Alias.aliasname) b.(Alias.aliasname) &&&
  COMPARE_LIST_FIELD a.(Alias.colnames) b.(Alias.colnames) &&& Ok true.

Definition _equalRangeVar (a b : RangeVar.t Node) : outcome bool :=
  COMPARE_STRING_FIELD a.(RangeVar.catalogname) b.(RangeVar.catalogname) &&&
  COMPARE_STRING_FIELD a.(RangeVar.schemaname) b.(RangeVar.schemaname) &&&
  COMPARE_STRING_FIELD a.(RangeVar.relname) b.(RangeVar.relname) &&&
  COMPARE_SCALAR_FIELD a.(RangeVar.inh) b.(RangeVar.inh) &&&
  COMPARE_SCALAR_FIELD a.(RangeVar.relpersistence) b.(RangeVar.relpersistence) &&&
  COMPARE_STRUCT_FIELD _equalAlias a.(RangeVar.alias) b.(RangeVar.alias) &&&
  COMPARE_LOCATION_FIELD &&& Ok true.

Definition _equalTypeName (a b : TypeName.t Node) : outcome bool :=
  COMPARE_LIST_FIELD a.(TypeName.names) b.(TypeName.names) &&&
  COMPARE_SCALAR_FIELD a.(TypeName.typeOid) b.(TypeName.typeOid) &&&
  COMPARE_SCALAR_FIELD a.(TypeName.setof) b.(TypeName.setof) &&&
  COMPARE_SCALAR_FIELD a.(TypeName.pct_type) b.(TypeName.pct_type) &&&
  COMPARE_LIST_FIELD a.(TypeName.typmods) b.(TypeName.typmods) &&&
  COMPARE_SCALAR_FIELD a.(TypeName.typemod) b.(TypeName.typemod) &&&
  COMPARE_LIST_FIELD a.(TypeName.arrayBounds) b.(TypeName.arrayBounds) &&&
  COMPARE_LOCATION_FIELD &&& Ok true.

Definition _equalColumnRef (a b : ColumnRef.t Node) : outcome bool :=
  COMPARE_LIST_FIELD a.(ColumnRef.fields) b.(ColumnRef.fields) &&& COMPARE_LOCATION_FIELD &&&
  Ok true.

Definition _equalParamRef (a b : ParamRef.t Node) : outcome bool :=
  COMPARE_SCALAR_FIELD a.(ParamRef.number) b.(ParamRef.number) &&& COMPARE_LOCATION_FIELD &&&
  Ok true.

Definition _equalAExpr (a b : A_Expr.t Node) : outcome bool :=
  COMPARE_SCALAR_FIELD a.(A_Expr.kind) b.(A_Expr.kind) &&&
  COMPARE_LIST_FIELD a.(A_Expr.name) b.(A_Expr.name) &&&
  COMPARE_NODE_FIELD a.(A_Expr.lexpr) b.(A_Expr.lexpr) &&&
  COMPARE_NODE_FIELD a.(A_Expr.rexpr) b.(A_Expr.rexpr) &&& COMPARE_LOCATION_FIELD &&& Ok true.

Definition _equalAConst (a b : A_Const.t Node) : outcome bool :=
  same (_equalValue a.(A_Const.val) b.(A_Const.val)) &&& COMPARE_LOCATION_FIELD &&& Ok true.

Definition _equalTypeCast (a b : TypeCast.t Node) : outcome bool :=
  COMPARE_NODE_FIELD a.(TypeCast.arg) b.(TypeCast.arg) &&&
  COMPARE_STRUCT_FIELD _equalTypeName a.(TypeCast.typeName) b.(TypeCast.typeName) &&&
  COMPARE_LOCATION_FIELD &&& Ok true.

Definition _equalCollateClause (a b : CollateClause.t Node) : outcome bool :=
  COMPARE_NODE_FIELD a.(CollateClause.arg) b.(CollateClause.arg) &&&
  COMPARE_LIST_FIELD a.(CollateClause.collname) b.(CollateClause.collname) &&&
  COMPARE_LOCATION_FIELD &&& Ok true.

Definition _equalRoleSpec (a b : RoleSpec.t Node) : outcome bool :=
  COMPARE_SCALAR_FIELD a.(RoleSpec.roletype) b.(RoleSpec.roletype) &&&
  COMPARE_STRING_FIELD a.(RoleSpec.rolename) b.(RoleSpec.rolename) &&& COMPARE_LOCATION_FIELD &&&
  Ok true.

Definition _equalWindowDef (a b : WindowDef.t Node) : outcome bool :=
  COMPARE_STRING_FIELD a.(WindowDef.name) b.(WindowDef.name) &&&
  COMPARE_STRING_FIELD a.(WindowDef.refname) b.(WindowDef.refname) &&&
  COMPARE_LIST_FIELD a.(WindowDef.partitionClause) b.(WindowDef.partitionClause) &&&
  COMPARE_LIST_FIELD a.(WindowDef.orderClause) b.(WindowDef.orderClause) &&&
  COMPARE_SCALAR_FIELD a.(WindowDef.frameOptions) b.(WindowDef.frameOptions) &&&
  COMPARE_NODE_FIELD a.(WindowDef.startOffset) b.(WindowDef.startOffset) &&&
  COMPARE_NODE_FIELD a.(WindowDef.endOffset) b.(WindowDef.endOffset) &&&
  COMPARE_LOCATION_FIELD &&& Ok true.

Definition _equalSortBy (a b : SortBy.t Node) : outcome bool :=
  COMPARE_NODE_FIELD a.(SortBy.node) b.(SortBy.node) &&&
  COMPARE_SCALAR_FIELD a.(SortBy.sortby_dir) b.(SortBy.sortby_dir) &&&
  COMPARE_SCALAR_FIELD a.(SortBy.sortby_nulls) b.(SortBy.sortby_nulls) &&&
  COMPARE_LIST_FIELD a.(SortBy.useOp) b.(SortBy.useOp) &&& COMPARE_LOCATION_FIELD &&& Ok true.

Definition _equalFuncCall (a b : FuncCall.t Node) : outcome bool :=
  COMPARE_LIST_FIELD a.(FuncCall.funcname) b.(FuncCall.funcname) &&&
  COMPARE_LIST_FIELD a.(FuncCall.args) b.(FuncCall.args) &&&
  COMPARE_LIST_FIELD a.(FuncCall.agg_order) b.(FuncCall.agg_order) &&&
  COMPARE_NODE_FIELD a.(FuncCall.agg_filter) b.(FuncCall.agg_filter) &&&
  COMPARE_SCALAR_FIELD a.(FuncCall.agg_within_group) b.(FuncCall.agg_within_group) &&&
  COMPARE_SCALAR_FIELD a.(FuncCall.agg_star) b.(FuncCall.agg_star) &&&
  COMPARE_SCALAR_FIELD a.(FuncCall.agg_distinct) b.(FuncCall.agg_distinct) &&&
  COMPARE_SCALAR_FIELD a.(FuncCall.func_variadic) b.(FuncCall.func_variadic) &&&
  COMPARE_STRUCT_FIELD _equalWindowDef a.(FuncCall.over) b.(FuncCall.over) &&&
  COMPARE_LOCATION_FIELD &&& Ok true.

Definition _equalAStar (a b : A_Star.t Node) : outcome bool :=
  Ok true.

Definition _equalAIndices (a b : A_Indices.t Node) : outcome bool :=
  COMPARE_SCALAR_FIELD a.(A_Indices.is_slice) b.(A_Indices.is_slice) &&&
  COMPARE_NODE_FIELD a.(A_Indices.lidx) b.(A_Indices.lidx) &&&
  COMPARE_NODE_FIELD a.(A_Indices.uidx) b.(A_Indices.uidx) &&& Ok true.

Definition _equalA_Indirection (a b : A_Indirection.t Node) : outcome bool :=
  COMPARE_NODE_FIELD a.(A_Indirection.arg) b.(A_Indirection.arg) &&&
  COMPARE_LIST_FIELD a.(A_Indirection.indirection) b.(A_Indirection.indirection) &&& Ok true.

Definition _equalA_ArrayExpr (a b : A_ArrayExpr.t Node) : outcome bool :=
  COMPARE_LIST_FIELD a.(A_ArrayExpr.elements) b.(A_ArrayExpr.elements) &&&
  COMPARE_LOCATION_FIELD &&& Ok true.

Definition _equalResTarget (a b : ResTarget.t Node) : outcome bool :=
  COMPARE_STRING_FIELD a.(ResTarget.name) b.(ResTarget.name) &&&
  COMPARE_LIST_FIELD a.(ResTarget.indirection) b.(ResTarget.indirection) &&&
  COMPARE_NODE_FIELD a.(ResTarget.val) b.(ResTarget.val) &&& COMPARE_LOCATION_FIELD &&& Ok true.

Definition _equalMultiAssignRef (a b : MultiAssignRef.t Node) : outcome bool :=
  COMPARE_NODE_FIELD a.(MultiAssignRef.source) b.(MultiAssignRef.source) &&&
  COMPARE_SCALAR_FIELD a.(MultiAssignRef.colno) b.(MultiAssignRef.colno) &&&
  COMPARE_SCALAR_FIELD a.(MultiAssignRef.ncolumns) b.(MultiAssignRef.ncolumns) &&& Ok true.

Definition _equalNamedArgExpr (a b : NamedArgExpr.t Node) : outcome bool :=
  COMPARE_NODE_FIELD a.(NamedArgExpr.arg) b.(NamedArgExpr.arg) &&&
  COMPARE_STRING_FIELD a.(NamedArgExpr.name) b.(NamedArgExpr.name) &&&
  COMPARE_SCALAR_FIELD a.(NamedArgExpr.argnumber) b.(NamedArgExpr.argnumber) &&&
  COMPARE_LOCATION_FIELD &&& Ok true.

Definition _equalBoolExpr (a b : BoolExpr.t Node) : outcome bool :=
  COMPARE_SCALAR_FIELD a.(BoolExpr.boolop) b.(BoolExpr.boolop) &&&
  COMPARE_LIST_FIELD a.(BoolExpr.args) b.(BoolExpr.args) &&& COMPARE_LOCATION_FIELD &&& Ok true.

Definition _equalSubLink (a b : SubLink.t Node) : outcome bool :=
  COMPARE_SCALAR_FIELD a.(SubLink.subLinkType) b.(SubLink.subLinkType) &&&
  COMPARE_SCALAR_FIELD a.(SubLink.subLinkId) b.(SubLink.subLinkId) &&&
  COMPARE_NODE_FIELD a.(SubLink.testexpr) b.(SubLink.testexpr) &&&
  COMPARE_LIST_FIELD a.(SubLink.operName) b.(SubLink.operName) &&&
  COMPARE_NODE_FIELD a.(SubLink.subselect) b.(SubLink.subselect) &&& COMPARE_LOCATION_FIELD &&&
  Ok true.

Definition _equalCaseWhen (a b : CaseWhen.t Node) : outcome bool :=
  COMPARE_NODE_FIELD a.(CaseWhen.expr) b.(CaseWhen.expr) &&&
  COMPARE_NODE_FIELD a.(CaseWhen.result) b.(CaseWhen.result) &&& COMPARE_LOCATION_FIELD &&&
  Ok true.

Definition _equalCaseExpr (a b : CaseExpr.t Node) : outcome bool :=
  COMPARE_SCALAR_FIELD a.(CaseExpr.casetype) b.(CaseExpr.casetype) &&&
  COMPARE_SCALAR_FIELD a.(CaseExpr.casecollid) b.(CaseExpr.casecollid) &&&
  COMPARE_NODE_FIELD a.(CaseExpr.arg) b.(CaseExpr.arg) &&&
  COMPARE_LIST_FIELD a.(CaseExpr.args) b.(CaseExpr.args) &&&
  COMPARE_NODE_FIELD a.(CaseExpr.defresult) b.(CaseExpr.defresult) &&& COMPARE_LOCATION_FIELD &&&
  Ok true.

Definition _equalRowExpr (a b : RowExpr.t Node) : outcome bool :=
  COMPARE_LIST_FIELD a.(RowExpr.args) b.(RowExpr.args) &&&
  COMPARE_SCALAR_FIELD a.(RowExpr.row_typeid) b.(RowExpr.row_typeid) &&&
  COMPARE_COERCIONFORM_FIELD &&& COMPARE_LIST_FIELD a.(RowExpr.colnames) b.(RowExpr.colnames) &&&
  COMPARE_LOCATION_FIELD &&& Ok true.

Definition _equalCoalesceExpr (a b : CoalesceExpr.t Node) : outcome bool :=
  COMPARE_SCALAR_FIELD a.(CoalesceExpr.coalescetype) b.(CoalesceExpr.coalescetype) &&&
  COMPARE_SCALAR_FIELD a.(CoalesceExpr.coalescecollid) b.(CoalesceExpr.coalescecollid) &&&
  COMPARE_LIST_FIELD a.(CoalesceExpr.args) b.(CoalesceExpr.args) &&& COMPARE_LOCATION_FIELD &&&
  Ok true.

Definition _equalMinMaxExpr (a b : MinMaxExpr.t Node) : outcome bool :=
  COMPARE_SCALAR_FIELD a.(MinMaxExpr.minmaxtype) b.(MinMaxExpr.minmaxtype) &&&
  COMPARE_SCALAR_FIELD a.(MinMaxExpr.minmaxcollid) b.(MinMaxExpr.minmaxcollid) &&&
  COMPARE_SCALAR_FIELD a.(MinMaxExpr.inputcollid) b.(MinMaxExpr.inputcollid) &&&
  COMPARE_SCALAR_FIELD a.(MinMaxExpr.op) b.(MinMaxExpr.op) &&&
  COMPARE_LIST_FIELD a.(MinMaxExpr.args) b.(MinMaxExpr.args) &&& COMPARE_LOCATION_FIELD &&&
  Ok true.

Definition _equalSQLValueFunction (a b : SQLValueFunction.t Node) : outcome bool :=
  COMPARE_SCALAR_FIELD a.(SQLValueFunction.op) b.(SQLValueFunction.op) &&&
  COMPARE_SCALAR_FIELD a.(SQLValueFunction.type_) b.(SQLValueFunction.type_) &&&
  COMPARE_SCALAR_FIELD a.(SQLValueFunction.typmod) b.(SQLValueFunction.typmod) &&&
  COMPARE_LOCATION_FIELD &&& Ok true.

Definition _equalXmlExpr (a b : XmlExpr.t Node) : outcome bool :=
  COMPARE_SCALAR_FIELD a.(XmlExpr.op) b.(XmlExpr.op) &&&
  COMPARE_STRING_FIELD a.(XmlExpr.name) b.(XmlExpr.name) &&&
  COMPARE_LIST_FIELD a.(XmlExpr.named_args) b.(XmlExpr.named_args) &&&
  COMPARE_LIST_FIELD a.(XmlExpr.arg_names) b.(XmlExpr.arg_names) &&&
  COMPARE_LIST_FIELD a.(XmlExpr.args) b.(XmlExpr.args) &&&
  COMPARE_SCALAR_FIELD a.(XmlExpr.xmloption) b.(XmlExpr.xmloption) &&&
  COMPARE_SCALAR_FIELD a.(XmlExpr.type_) b.(XmlExpr.type_) &&&
  COMPARE_SCALAR_FIELD a.(XmlExpr.typmod) b.(XmlExpr.typmod) &&& COMPARE_LOCATION_FIELD &&&
  Ok true.

Definition _equalXmlSerialize (a b : XmlSerialize.t Node) : outcome bool :=
  COMPARE_SCALAR_FIELD a.(XmlSerialize.xmloption) b.(XmlSerialize.xmloption) &&&
  COMPARE_NODE_FIELD a.(XmlSerialize.expr) b.(XmlSerialize.expr) &&&
  COMPARE_STRUCT_FIELD _equalTypeName a.(XmlSerialize.typeName) b.(XmlSerialize.typeName) &&&
  COMPARE_LOCATION_FIELD &&& Ok true.

Definition _equalNullTest (a b : NullTest.t Node) : outcome bool :=
  COMPARE_NODE_FIELD a.(NullTest.arg) b.(NullTest.arg) &&&
  COMPARE_SCALAR_FIELD a.(NullTest.nulltesttype) b.(NullTest.nulltesttype) &&&
  COMPARE_SCALAR_FIELD a.(NullTest.argisrow) b.(NullTest.argisrow) &&& COMPARE_LOCATION_FIELD &&&
  Ok true.

Definition _equalBooleanTest (a b : BooleanTest.t Node) : outcome bool :=
  COMPARE_NODE_FIELD a.(BooleanTest.arg) b.(BooleanTest.arg) &&&
  COMPARE_SCALAR_FIELD a.(BooleanTest.booltesttype) b.(BooleanTest.booltesttype) &&&
  COMPARE_LOCATION_FIELD &&& Ok true.

Definition _equalSetToDefault (a b : SetToDefault.t Node) : outcome bool :=
  COMPARE_SCALAR_FIELD a.(SetToDefault.typeId) b.(SetToDefault.typeId) &&&
  COMPARE_SCALAR_FIELD a.(SetToDefault.typeMod) b.(SetToDefault.typeMod) &&&
  COMPARE_SCALAR_FIELD a.(SetToDefault.collation) b.(SetToDefault.collation) &&&
  COMPARE_LOCATION_FIELD &&& Ok true.

Definition _equalCurrentOfExpr (a b : CurrentOfExpr.t Node) : outcome bool :=
  COMPARE_SCALAR_FIELD a.(CurrentOfExpr.cvarno) b.(CurrentOfExpr.cvarno) &&&
  COMPARE_STRING_FIELD a.(CurrentOfExpr.cursor_name) b.(CurrentOfExpr.cursor_name) &&&
  COMPARE_SCALAR_FIELD a.(CurrentOfExpr.cursor_param) b.(CurrentOfExpr.cursor_param) &&& Ok true.

Definition _equalGroupingFunc (a b : GroupingFunc.t Node) : outcome bool :=
  COMPARE_LIST_FIELD a.(GroupingFunc.args) b.(GroupingFunc.args) &&&
  COMPARE_SCALAR_FIELD a.(GroupingFunc.agglevelsup) b.(GroupingFunc.agglevelsup) &&&
  COMPARE_LOCATION_FIELD &&& Ok true.

Definition _equalDefElem (a b : DefElem.t Node) : outcome bool :=
  COMPARE_STRING_FIELD a.(DefElem.defnamespace) b.(DefElem.defnamespace) &&&
  COMPARE_STRING_FIELD a.(DefElem.defname) b.(DefElem.defname) &&&
  COMPARE_NODE_FIELD a.(DefElem.arg) b.(DefElem.arg) &&&
  COMPARE_SCALAR_FIELD a.(DefElem.defaction) b.(DefElem.defaction) &&& COMPARE_LOCATION_FIELD &&&
  Ok true.

Definition _equalIndexElem (a b : IndexElem.t Node) : outcome bool :=
  COMPARE_STRING_FIELD a.(IndexElem.name) b.(IndexElem.name) &&&
  COMPARE_NODE_FIELD a.(IndexElem.expr) b.(IndexElem.expr) &&&
  COMPARE_STRING_FIELD a.(IndexElem.indexcolname) b.(IndexElem.indexcolname) &&&
  COMPARE_LIST_FIELD a.(IndexElem.collation) b.(IndexElem.collation) &&&
  COMPARE_LIST_FIELD a.(IndexElem.opclass) b.(IndexElem.opclass) &&&
  COMPARE_LIST_FIELD a.(IndexElem.opclassopts) b.(IndexElem.opclassopts) &&&
  COMPARE_SCALAR_FIELD a.(IndexElem.ordering) b.(IndexElem.ordering) &&&
  COMPARE_SCALAR_FIELD a.(IndexElem.nulls_ordering) b.(IndexElem.nulls_ordering) &&& Ok true.

Definition _equalConstraint (a b : Constraint.t Node) : outcome bool :=
  COMPARE_SCALAR_FIELD a.(Constraint.contype) b.(Constraint.contype) &&&
  COMPARE_STRING_FIELD a.(Constraint.conname) b.(Constraint.conname) &&&
  COMPARE_SCALAR_FIELD a.(Constraint.deferrable) b.(Constraint.deferrable) &&&
  COMPARE_SCALAR_FIELD a.(Constraint.initdeferred) b.(Constraint.initdeferred) &&&
  COMPARE_LOCATION_FIELD &&&
  COMPARE_SCALAR_FIELD a.(Constraint.is_no_inherit) b.(Constraint.is_no_inherit) &&&
  COMPARE_NODE_FIELD a.(Constraint.raw_expr) b.(Constraint.raw_expr) &&&
  COMPARE_STRING_FIELD a.(Constraint.cooked_expr) b.(Constraint.cooked_expr) &&&
  COMPARE_SCALAR_FIELD a.(Constraint.generated_when) b.(Constraint.generated_when) &&&
  COMPARE_LIST_FIELD a.(Constraint.keys) b.(Constraint.keys) &&&
  COMPARE_LIST_FIELD a.(Constraint.including) b.(Constraint.including) &&&
  COMPARE_LIST_FIELD a.(Constraint.exclusions) b.(Constraint.exclusions) &&&
  COMPARE_LIST_FIELD a.(Constraint.options) b.(Constraint.options) &&&
  COMPARE_STRING_FIELD a.(Constraint.indexname) b.(Constraint.indexname) &&&
  COMPARE_STRING_FIELD a.(Constraint.indexspace) b.(Constraint.indexspace) &&&
  COMPARE_SCALAR_FIELD a.(Constraint.reset_default_tblspc) b.(Constraint.reset_default_tblspc) &&&
  COMPARE_STRING_FIELD a.(Constraint.access_method) b.(Constraint.access_method) &&&
  COMPARE_NODE_FIELD a.(Constraint.where_clause) b.(Constraint.where_clause) &&&
  COMPARE_STRUCT_FIELD _equalRangeVar a.(Constraint.pktable) b.(Constraint.pktable) &&&
  COMPARE_LIST_FIELD a.(Constraint.fk_attrs) b.(Constraint.fk_attrs) &&&
  COMPARE_LIST_FIELD a.(Constraint.pk_attrs) b.(Constraint.pk_attrs) &&&
  COMPARE_SCALAR_FIELD a.(Constraint.fk_matchtype) b.(Constraint.fk_matchtype) &&&
  COMPARE_SCALAR_FIELD a.(Constraint.fk_upd_action) b.(Constraint.fk_upd_action) &&&
  COMPARE_SCALAR_FIELD a.(Constraint.fk_del_action) b.(Constraint.fk_del_action) &&&
  COMPARE_LIST_FIELD a.(Constraint.old_conpfeqop) b.(Constraint.old_conpfeqop) &&&
  COMPARE_SCALAR_FIELD a.(Constraint.old_pktable_oid) b.(Constraint.old_pktable_oid) &&&
  COMPARE_SCALAR_FIELD a.(Constraint.skip_validation) b.(Constraint.skip_validation) &&&
  COMPARE_SCALAR_FIELD a.(Constraint.initially_valid) b.(Constraint.initially_valid) &&& Ok true.

Definition _equalColumnDef (a b : ColumnDef.t Node) : outcome bool :=
  COMPARE_STRING_FIELD a.(ColumnDef.colname) b.(ColumnDef.colname) &&&
  COMPARE_STRUCT_FIELD _equalTypeName a.(ColumnDef.typeName) b.(ColumnDef.typeName) &&&
  COMPARE_SCALAR_FIELD a.(ColumnDef.inhcount) b.(ColumnDef.inhcount) &&&
  COMPARE_SCALAR_FIELD a.(ColumnDef.is_local) b.(ColumnDef.is_local) &&&
  COMPARE_SCALAR_FIELD a.(ColumnDef.is_not_null) b.(ColumnDef.is_not_null) &&&
  COMPARE_SCALAR_FIELD a.(ColumnDef.is_from_type) b.(ColumnDef.is_from_type) &&&
  COMPARE_SCALAR_FIELD a.(ColumnDef.storage) b.(ColumnDef.storage) &&&
  COMPARE_NODE_FIELD a.(ColumnDef.raw_default) b.(ColumnDef.raw_default) &&&
  COMPARE_NODE_FIELD a.(ColumnDef.cooked_default) b.(ColumnDef.cooked_default) &&&
  COMPARE_SCALAR_FIELD a.(ColumnDef.identity) b.(ColumnDef.identity) &&&
  COMPARE_STRUCT_FIELD _equalRangeVar a.(ColumnDef.identitySequence) b.(ColumnDef.identitySequence) &&&
  COMPARE_SCALAR_FIELD a.(ColumnDef.generated) b.(ColumnDef.generated) &&&
  COMPARE_STRUCT_FIELD _equalCollateClause a.(ColumnDef.collClause) b.(ColumnDef.collClause) &&&
  COMPARE_SCALAR_FIELD a.(ColumnDef.collOid) b.(ColumnDef.collOid) &&&
  COMPARE_LIST_FIELD a.(ColumnDef.constraints) b.(ColumnDef.constraints) &&&
  COMPARE_LIST_FIELD a.(ColumnDef.fdwoptions) b.(ColumnDef.fdwoptions) &&&
  COMPARE_LOCATION_FIELD &&& Ok true.

Definition _equalJoinExpr (a b : JoinExpr.t Node) : outcome bool :=
  COMPARE_SCALAR_FIELD a.(JoinExpr.jointype) b.(JoinExpr.jointype) &&&
  COMPARE_SCALAR_FIELD a.(JoinExpr.isNatural) b.(JoinExpr.isNatural) &&&
  COMPARE_NODE_FIELD a.(JoinExpr.larg) b.(JoinExpr.larg) &&&
  COMPARE_NODE_FIELD a.(JoinExpr.rarg) b.(JoinExpr.rarg) &&&
  COMPARE_LIST_FIELD a.(JoinExpr.usingClause) b.(JoinExpr.usingClause) &&&
  COMPARE_NODE_FIELD a.(JoinExpr.quals) b.(JoinExpr.quals) &&&
  COMPARE_STRUCT_FIELD _equalAlias a.(JoinExpr.alias) b.(JoinExpr.alias) &&&
  COMPARE_SCALAR_FIELD a.(JoinExpr.rtindex) b.(JoinExpr.rtindex) &&& Ok true.

Definition _equalRangeSubselect (a b : RangeSubselect.t Node) : outcome bool :=
  COMPARE_SCALAR_FIELD a.(RangeSubselect.lateral) b.(RangeSubselect.lateral) &&&
  COMPARE_NODE_FIELD a.(RangeSubselect.subquery) b.(RangeSubselect.subquery) &&&
  COMPARE_STRUCT_FIELD _equalAlias a.(RangeSubselect.alias) b.(RangeSubselect.alias) &&& Ok true.

Definition _equalRangeFunction (a b : RangeFunction.t Node) : outcome bool :=
  COMPARE_SCALAR_FIELD a.(RangeFunction.lateral) b.(RangeFunction.lateral) &&&
  COMPARE_SCALAR_FIELD a.(RangeFunction.ordinality) b.(RangeFunction.ordinality) &&&
  COMPARE_SCALAR_FIELD a.(RangeFunction.is_rowsfrom) b.(RangeFunction.is_rowsfrom) &&&
  COMPARE_LIST_FIELD a.(RangeFunction.functions) b.(RangeFunction.functions) &&&
  COMPARE_STRUCT_FIELD _equalAlias a.(RangeFunction.alias) b.(RangeFunction.alias) &&&
  COMPARE_LIST_FIELD a.(RangeFunction.coldeflist) b.(RangeFunction.coldeflist) &&& Ok true.

Definition _equalRangeTableFuncCol (a b : RangeTableFuncCol.t Node) : outcome bool :=
  COMPARE_STRING_FIELD a.(RangeTableFuncCol.colname) b.(RangeTableFuncCol.colname) &&&
  COMPARE_STRUCT_FIELD _equalTypeName a.(RangeTableFuncCol.typeName) b.(RangeTableFuncCol.typeName) &&&
  COMPARE_SCALAR_FIELD a.(RangeTableFuncCol.for_ordinality) b.(RangeTableFuncCol.for_ordinality) &&&
  COMPARE_SCALAR_FIELD a.(RangeTableFuncCol.is_not_null) b.(RangeTableFuncCol.is_not_null) &&&
  COMPARE_NODE_FIELD a.(RangeTableFuncCol.colexpr) b.(RangeTableFuncCol.colexpr) &&&
  COMPARE_NODE_FIELD a.(RangeTableFuncCol.coldefexpr) b.(RangeTableFuncCol.coldefexpr) &&&
  COMPARE_LOCATION_FIELD &&& Ok true.

Definition _equalRangeTableFunc (a b : RangeTableFunc.t Node) : outcome bool :=
  COMPARE_SCALAR_FIELD a.(RangeTableFunc.lateral) b.(RangeTableFunc.lateral) &&&
  COMPARE_NODE_FIELD a.(RangeTableFunc.docexpr) b.(RangeTableFunc.docexpr) &&&
  COMPARE_NODE_FIELD a.(RangeTableFunc.rowexpr) b.(RangeTableFunc.rowexpr) &&&
  COMPARE_LIST_FIELD a.(RangeTableFunc.namespaces) b.(RangeTableFunc.namespaces) &&&
  COMPARE_LIST_FIELD a.(RangeTableFunc.columns) b.(RangeTableFunc.columns) &&&
  COMPARE_STRUCT_FIELD _equalAlias a.(RangeTableFunc.alias) b.(RangeTableFunc.alias) &&&
  COMPARE_LOCATION_FIELD &&& Ok true.

Definition _equalRangeTableSample (a b : RangeTableSample.t Node) : outcome bool :=
  COMPARE_NODE_FIELD a.(RangeTableSample.relation) b.(RangeTableSample.relation) &&&
  COMPARE_LIST_FIELD a.(RangeTableSample.method) b.(RangeTableSample.method) &&&
  COMPARE_LIST_FIELD a.(RangeTableSample.args) b.(RangeTableSample.args) &&&
  COMPARE_NODE_FIELD a.(RangeTableSample.repeatable) b.(RangeTableSample.repeatable) &&&
  COMPARE_LOCATION_FIELD &&& Ok true.

Definition _equalCommonTableExpr (a b : CommonTableExpr.t Node) : outcome bool :=
  COMPARE_STRING_FIELD a.(CommonTableExpr.ctename) b.(CommonTableExpr.ctename) &&&
  COMPARE_LIST_FIELD a.(CommonTableExpr.aliascolnames) b.(CommonTableExpr.aliascolnames) &&&
  COMPARE_SCALAR_FIELD a.(CommonTableExpr.ctematerialized) b.(CommonTableExpr.ctematerialized) &&&
  COMPARE_NODE_FIELD a.(CommonTableExpr.ctequery) b.(CommonTableExpr.ctequery) &&&
  COMPARE_LOCATION_FIELD &&&
  COMPARE_SCALAR_FIELD a.(CommonTableExpr.cterecursive) b.(CommonTableExpr.cterecursive) &&&
  COMPARE_SCALAR_FIELD a.(CommonTableExpr.cterefcount) b.(CommonTableExpr.cterefcount) &&&
  COMPARE_LIST_FIELD a.(CommonTableExpr.ctecolnames) b.(CommonTableExpr.ctecolnames) &&&
  COMPARE_SCALAR_FIELD a.(CommonTableExpr.ctecoltypes) b.(CommonTableExpr.ctecoltypes) &&&
  COMPARE_SCALAR_FIELD a.(CommonTableExpr.ctecoltypmods) b.(CommonTableExpr.ctecoltypmods) &&&
  COMPARE_SCALAR_FIELD a.(CommonTableExpr.ctecolcollations) b.(CommonTableExpr.ctecolcollations) &&&
  Ok true.

Definition _equalWithClause (a b : WithClause.t Node) : outcome bool :=
  COMPARE_LIST_FIELD a.(WithClause.ctes) b.(WithClause.ctes) &&&
  COMPARE_SCALAR_FIELD a.(WithClause.recursive) b.(WithClause.recursive) &&&
  COMPARE_LOCATION_FIELD &&& Ok true.

Definition _equalInferClause (a b : InferClause.t Node) : outcome bool :=
  COMPARE_LIST_FIELD a.(InferClause.indexElems) b.(InferClause.indexElems) &&&
  COMPARE_NODE_FIELD a.(InferClause.whereClause) b.(InferClause.whereClause) &&&
  COMPARE_STRING_FIELD a.(InferClause.conname) b.(InferClause.conname) &&&
  COMPARE_LOCATION_FIELD &&& Ok true.

Definition _equalOnConflictClause (a b : OnConflictClause.t Node) : outcome bool :=
  COMPARE_SCALAR_FIELD a.(OnConflictClause.action) b.(OnConflictClause.action) &&&
  COMPARE_STRUCT_FIELD _equalInferClause a.(OnConflictClause.infer) b.(OnConflictClause.infer) &&&
  COMPARE_LIST_FIELD a.(OnConflictClause.targetList) b.(OnConflictClause.targetList) &&&
  COMPARE_NODE_FIELD a.(OnConflictClause.whereClause) b.(OnConflictClause.whereClause) &&&
  COMPARE_LOCATION_FIELD &&& Ok true.

Definition _equalLockingClause (a b : LockingClause.t Node) : outcome bool :=
  COMPARE_LIST_FIELD a.(LockingClause.lockedRels) b.(LockingClause.lockedRels) &&&
  COMPARE_SCALAR_FIELD a.(LockingClause.strength) b.(LockingClause.strength) &&&
  COMPARE_SCALAR_FIELD a.(LockingClause.waitPolicy) b.(LockingClause.waitPolicy) &&& Ok true.

Definition _equalGroupingSet (a b : GroupingSet.t Node) : outcome bool :=
  COMPARE_SCALAR_FIELD a.(GroupingSet.kind) b.(GroupingSet.kind) &&&
  COMPARE_LIST_FIELD a.(GroupingSet.content) b.(GroupingSet.content) &&&
  COMPARE_LOCATION_FIELD &&& Ok true.

Definition _equalIntoClause (a b : IntoClause.t Node) : outcome bool :=
  COMPARE_STRUCT_FIELD _equalRangeVar a.(IntoClause.rel) b.(IntoClause.rel) &&&
  COMPARE_LIST_FIELD a.(IntoClause.colNames) b.(IntoClause.colNames) &&&
  COMPARE_STRING_FIELD a.(IntoClause.accessMethod) b.(IntoClause.accessMethod) &&&
  COMPARE_LIST_FIELD a.(IntoClause.options) b.(IntoClause.options) &&&
  COMPARE_SCALAR_FIELD a.(IntoClause.onCommit) b.(IntoClause.onCommit) &&&
  COMPARE_STRING_FIELD a.(IntoClause.tableSpaceName) b.(IntoClause.tableSpaceName) &&&
  COMPARE_NODE_FIELD a.(IntoClause.viewQuery) b.(IntoClause.viewQuery) &&&
  COMPARE_SCALAR_FIELD a.(IntoClause.skipData) b.(IntoClause.skipData) &&& Ok true.

Definition _equalSelectStmt (a b : SelectStmt.t Node) : outcome bool :=
  COMPARE_LIST_FIELD a.(SelectStmt.distinctClause) b.(SelectStmt.distinctClause) &&&
  COMPARE_STRUCT_FIELD _equalIntoClause a.(SelectStmt.intoClause) b.(SelectStmt.intoClause) &&&
  COMPARE_LIST_FIELD a.(SelectStmt.targetList) b.(SelectStmt.targetList) &&&
  COMPARE_LIST_FIELD a.(SelectStmt.fromClause) b.(SelectStmt.fromClause) &&&
  COMPARE_NODE_FIELD a.(SelectStmt.whereClause) b.(SelectStmt.whereClause) &&&
  COMPARE_LIST_FIELD a.(SelectStmt.groupClause) b.(SelectStmt.groupClause) &&&
  COMPARE_NODE_FIELD a.(SelectStmt.havingClause) b.(SelectStmt.havingClause) &&&
  COMPARE_LIST_FIELD a.(SelectStmt.windowClause) b.(SelectStmt.windowClause) &&&
  COMPARE_LIST_FIELD a.(SelectStmt.valuesLists) b.(SelectStmt.valuesLists) &&&
  COMPARE_LIST_FIELD a.(SelectStmt.sortClause) b.(SelectStmt.sortClause) &&&
  COMPARE_NODE_FIELD a.(SelectStmt.limitOffset) b.(SelectStmt.limitOffset) &&&
  COMPARE_NODE_FIELD a.(SelectStmt.limitCount) b.(SelectStmt.limitCount) &&&
  COMPARE_SCALAR_FIELD a.(SelectStmt.limitOption) b.(SelectStmt.limitOption) &&&
  COMPARE_LIST_FIELD a.(SelectStmt.lockingClause) b.(SelectStmt.lockingClause) &&&
  COMPARE_STRUCT_FIELD _equalWithClause a.(SelectStmt.withClause) b.(SelectStmt.withClause) &&&
  COMPARE_SCALAR_FIELD a.(SelectStmt.op) b.(SelectStmt.op) &&&
  COMPARE_SCALAR_FIELD a.(SelectStmt.all) b.(SelectStmt.all) &&&
  COMPARE_NODE_FIELD a.(SelectStmt.larg) b.(SelectStmt.larg) &&&
  COMPARE_NODE_FIELD a.(SelectStmt.rarg) b.(SelectStmt.rarg) &&& Ok true.

Definition _equalInsertStmt (a b : InsertStmt.t Node) : outcome bool :=
  COMPARE_STRUCT_FIELD _equalRangeVar a.(InsertStmt.relation) b.(InsertStmt.relation) &&&
  COMPARE_LIST_FIELD a.(InsertStmt.cols) b.(InsertStmt.cols) &&&
  COMPARE_NODE_FIELD a.(InsertStmt.selectStmt) b.(InsertStmt.selectStmt) &&&
  COMPARE_STRUCT_FIELD _equalOnConflictClause a.(InsertStmt.onConflictClause) b.(InsertStmt.onConflictClause) &&&
  COMPARE_LIST_FIELD a.(InsertStmt.returningList) b.(InsertStmt.returningList) &&&
  COMPARE_STRUCT_FIELD _equalWithClause a.(InsertStmt.withClause) b.(InsertStmt.withClause) &&&
  COMPARE_SCALAR_FIELD a.(InsertStmt.override) b.(InsertStmt.override) &&& Ok true.

Definition _equalUpdateStmt (a b : UpdateStmt.t Node) : outcome bool :=
  COMPARE_STRUCT_FIELD _equalRangeVar a.(UpdateStmt.relation) b.(UpdateStmt.relation) &&&
  COMPARE_LIST_FIELD a.(UpdateStmt.targetList) b.(UpdateStmt.targetList) &&&
  COMPARE_NODE_FIELD a.(UpdateStmt.whereClause) b.(UpdateStmt.whereClause) &&&
  COMPARE_LIST_FIELD a.(UpdateStmt.fromClause) b.(UpdateStmt.fromClause) &&&
  COMPARE_LIST_FIELD a.(UpdateStmt.returningList) b.(UpdateStmt.returningList) &&&
  COMPARE_STRUCT_FIELD _equalWithClause a.(UpdateStmt.withClause) b.(UpdateStmt.withClause) &&&
  Ok true.

Definition _equalDeleteStmt (a b : DeleteStmt.t Node) : outcome bool :=
  COMPARE_STRUCT_FIELD _equalRangeVar a.(DeleteStmt.relation) b.(DeleteStmt.relation) &&&
  COMPARE_LIST_FIELD a.(DeleteStmt.usingClause) b.(DeleteStmt.usingClause) &&&
  COMPARE_NODE_FIELD a.(DeleteStmt.whereClause) b.(DeleteStmt.whereClause) &&&
  COMPARE_LIST_FIELD a.(DeleteStmt.returningList) b.(DeleteStmt.returningList) &&&
  COMPARE_STRUCT_FIELD _equalWithClause a.(DeleteStmt.withClause) b.(DeleteStmt.withClause) &&&
  Ok true.

Definition _equalRawStmt (a b : RawStmt.t Node) : outcome bool :=
  COMPARE_NODE_FIELD a.(RawStmt.stmt) b.(RawStmt.stmt) &&& COMPARE_LOCATION_FIELD &&&
  COMPARE_SCALAR_FIELD a.(RawStmt.stmt_len) b.(RawStmt.stmt_len) &&& Ok true.

Definition _equalAlterTableCmd (a b : AlterTableCmd.t Node) : outcome bool :=
  COMPARE_SCALAR_FIELD a.(AlterTableCmd.subtype) b.(AlterTableCmd.subtype) &&&
  COMPARE_STRING_FIELD a.(AlterTableCmd.name) b.(AlterTableCmd.name) &&&
  COMPARE_SCALAR_FIELD a.(AlterTableCmd.num) b.(AlterTableCmd.num) &&&
  COMPARE_STRUCT_FIELD _equalRoleSpec a.(AlterTableCmd.newowner) b.(AlterTableCmd.newowner) &&&
  COMPARE_NODE_FIELD a.(AlterTableCmd.def) b.(AlterTableCmd.def) &&&
  COMPARE_SCALAR_FIELD a.(AlterTableCmd.behavior) b.(AlterTableCmd.behavior) &&&
  COMPARE_SCALAR_FIELD a.(AlterTableCmd.missing_ok) b.(AlterTableCmd.missing_ok) &&& Ok true.

Definition _equalPartitionBoundSpec (a b : PartitionBoundSpec.t Node) : outcome bool :=
  COMPARE_SCALAR_FIELD a.(PartitionBoundSpec.strategy) b.(PartitionBoundSpec.strategy) &&&
  COMPARE_SCALAR_FIELD a.(PartitionBoundSpec.is_default) b.(PartitionBoundSpec.is_default) &&&
  COMPARE_SCALAR_FIELD a.(PartitionBoundSpec.modulus) b.(PartitionBoundSpec.modulus) &&&
  COMPARE_SCALAR_FIELD a.(PartitionBoundSpec.remainder) b.(PartitionBoundSpec.remainder) &&&
  COMPARE_LIST_FIELD a.(PartitionBoundSpec.listdatums) b.(PartitionBoundSpec.listdatums) &&&
  COMPARE_LIST_FIELD a.(PartitionBoundSpec.lowerdatums) b.(PartitionBoundSpec.lowerdatums) &&&
  COMPARE_LIST_FIELD a.(PartitionBoundSpec.upperdatums) b.(PartitionBoundSpec.upperdatums) &&&
  COMPARE_LOCATION_FIELD &&& Ok true.

Definition _equalTableLikeClause (a b : TableLikeClause.t Node) : outcome bool :=
  COMPARE_STRUCT_FIELD _equalRangeVar a.(TableLikeClause.relation) b.(TableLikeClause.relation) &&&
  COMPARE_SCALAR_FIELD a.(TableLikeClause.options) b.(TableLikeClause.options) &&&
  COMPARE_SCALAR_FIELD a.(TableLikeClause.relationOid) b.(TableLikeClause.relationOid) &&&
  Ok true.

Definition _equalPartitionElem (a b : PartitionElem.t Node) : outcome bool :=
  COMPARE_STRING_FIELD a.(PartitionElem.name) b.(PartitionElem.name) &&&
  COMPARE_NODE_FIELD a.(PartitionElem.expr) b.(PartitionElem.expr) &&&
  COMPARE_LIST_FIELD a.(PartitionElem.collation) b.(PartitionElem.collation) &&&
  COMPARE_LIST_FIELD a.(PartitionElem.opclass) b.(PartitionElem.opclass) &&&
  COMPARE_LOCATION_FIELD &&& Ok true.

Definition _equalPartitionSpec (a b : PartitionSpec.t Node) : outcome bool :=
  COMPARE_STRING_FIELD a.(PartitionSpec.strategy) b.(PartitionSpec.strategy) &&&
  COMPARE_LIST_FIELD a.(PartitionSpec.partParams) b.(PartitionSpec.partParams) &&&
  COMPARE_LOCATION_FIELD &&& Ok true.

Definition _equalPartitionCmd (a b : PartitionCmd.t Node) : outcome bool :=
  COMPARE_STRUCT_FIELD _equalRangeVar a.(PartitionCmd.name) b.(PartitionCmd.name) &&&
  COMPARE_STRUCT_FIELD _equalPartitionBoundSpec a.(PartitionCmd.bound) b.(PartitionCmd.bound) &&&
  Ok true.

Definition _equalTriggerTransition (a b : TriggerTransition.t Node) : outcome bool :=
  COMPARE_STRING_FIELD a.(TriggerTransition.name) b.(TriggerTransition.name) &&&
  COMPARE_SCALAR_FIELD a.(TriggerTransition.isNew) b.(TriggerTransition.isNew) &&&
  COMPARE_SCALAR_FIELD a.(TriggerTransition.isTable) b.(TriggerTransition.isTable) &&& Ok true.

Definition _equalCreateSchemaStmt (a b : CreateSchemaStmt.t Node) : outcome bool :=
  COMPARE_STRING_FIELD a.(CreateSchemaStmt.schemaname) b.(CreateSchemaStmt.schemaname) &&&
  COMPARE_STRUCT_FIELD _equalRoleSpec a.(CreateSchemaStmt.authrole) b.(CreateSchemaStmt.authrole) &&&
  COMPARE_LIST_FIELD a.(CreateSchemaStmt.schemaElts) b.(CreateSchemaStmt.schemaElts) &&&
  COMPARE_SCALAR_FIELD a.(CreateSchemaStmt.if_not_exists) b.(CreateSchemaStmt.if_not_exists) &&&
  Ok true.

Definition _equalAlterTableStmt (a b : AlterTableStmt.t Node) : outcome bool :=
  COMPARE_STRUCT_FIELD _equalRangeVar a.(AlterTableStmt.relation) b.(AlterTableStmt.relation) &&&
  COMPARE_LIST_FIELD a.(AlterTableStmt.cmds) b.(AlterTableStmt.cmds) &&&
  COMPARE_SCALAR_FIELD a.(AlterTableStmt.relkind) b.(AlterTableStmt.relkind) &&&
  COMPARE_SCALAR_FIELD a.(AlterTableStmt.missing_ok) b.(AlterTableStmt.missing_ok) &&& Ok true.

Definition _equalReplicaIdentityStmt (a b : ReplicaIdentityStmt.t Node) : outcome bool :=
  COMPARE_SCALAR_FIELD a.(ReplicaIdentityStmt.identity_type) b.(ReplicaIdentityStmt.identity_type) &&&
  COMPARE_STRING_FIELD a.(ReplicaIdentityStmt.name) b.(ReplicaIdentityStmt.name) &&& Ok true.

Definition _equalAlterCollationStmt (a b : AlterCollationStmt.t Node) : outcome bool :=
  COMPARE_LIST_FIELD a.(AlterCollationStmt.collname) b.(AlterCollationStmt.collname) &&& Ok true.

Definition _equalAlterDomainStmt (a b : AlterDomainStmt.t Node) : outcome bool :=
  COMPARE_SCALAR_FIELD a.(AlterDomainStmt.subtype) b.(AlterDomainStmt.subtype) &&&
  COMPARE_LIST_FIELD a.(AlterDomainStmt.typeName) b.(AlterDomainStmt.typeName) &&&
  COMPARE_STRING_FIELD a.(AlterDomainStmt.name) b.(AlterDomainStmt.name) &&&
  COMPARE_NODE_FIELD a.(AlterDomainStmt.def) b.(AlterDomainStmt.def) &&&
  COMPARE_SCALAR_FIELD a.(AlterDomainStmt.behavior) b.(AlterDomainStmt.behavior) &&&
  COMPARE_SCALAR_FIELD a.(AlterDomainStmt.missing_ok) b.(AlterDomainStmt.missing_ok) &&& Ok true.

Definition _equalGrantStmt (a b : GrantStmt.t Node) : outcome bool :=
  COMPARE_SCALAR_FIELD a.(GrantStmt.is_grant) b.(GrantStmt.is_grant) &&&
  COMPARE_SCALAR_FIELD a.(GrantStmt.targtype) b.(GrantStmt.targtype) &&&
  COMPARE_SCALAR_FIELD a.(GrantStmt.objtype) b.(GrantStmt.objtype) &&&
  COMPARE_LIST_FIELD a.(GrantStmt.objects) b.(GrantStmt.objects) &&&
  COMPARE_LIST_FIELD a.(GrantStmt.privileges) b.(GrantStmt.privileges) &&&
  COMPARE_LIST_FIELD a.(GrantStmt.grantees) b.(GrantStmt.grantees) &&&
  COMPARE_SCALAR_FIELD a.(GrantStmt.grant_option) b.(GrantStmt.grant_option) &&&
  COMPARE_SCALAR_FIELD a.(GrantStmt.behavior) b.(GrantStmt.behavior) &&& Ok true.

Definition _equalObjectWithArgs (a b : ObjectWithArgs.t Node) : outcome bool :=
  COMPARE_LIST_FIELD a.(ObjectWithArgs.objname) b.(ObjectWithArgs.objname) &&&
  COMPARE_LIST_FIELD a.(ObjectWithArgs.objargs) b.(ObjectWithArgs.objargs) &&&
  COMPARE_SCALAR_FIELD a.(ObjectWithArgs.args_unspecified) b.(ObjectWithArgs.args_unspecified) &&&
  Ok true.

Definition _equalAccessPriv (a b : AccessPriv.t Node) : outcome bool :=
  COMPARE_STRING_FIELD a.(AccessPriv.priv_name) b.(AccessPriv.priv_name) &&&
  COMPARE_LIST_FIELD a.(AccessPriv.cols) b.(AccessPriv.cols) &&& Ok true.

Definition _equalGrantRoleStmt (a b : GrantRoleStmt.t Node) : outcome bool :=
  COMPARE_LIST_FIELD a.(GrantRoleStmt.granted_roles) b.(GrantRoleStmt.granted_roles) &&&
  COMPARE_LIST_FIELD a.(GrantRoleStmt.grantee_roles) b.(GrantRoleStmt.grantee_roles) &&&
  COMPARE_SCALAR_FIELD a.(GrantRoleStmt.is_grant) b.(GrantRoleStmt.is_grant) &&&
  COMPARE_SCALAR_FIELD a.(GrantRoleStmt.admin_opt) b.(GrantRoleStmt.admin_opt) &&&
  COMPARE_STRUCT_FIELD _equalRoleSpec a.(GrantRoleStmt.grantor) b.(GrantRoleStmt.grantor) &&&
  COMPARE_SCALAR_FIELD a.(GrantRoleStmt.behavior) b.(GrantRoleStmt.behavior) &&& Ok true.

Definition _equalAlterDefaultPrivilegesStmt (a b : AlterDefaultPrivilegesStmt.t Node) : outcome bool :=
  COMPARE_LIST_FIELD a.(AlterDefaultPrivilegesStmt.options) b.(AlterDefaultPrivilegesStmt.options) &&&
  COMPARE_STRUCT_FIELD _equalGrantStmt a.(AlterDefaultPrivilegesStmt.action) b.(AlterDefaultPrivilegesStmt.action) &&&
  Ok true.

Definition _equalCopyStmt (a b : CopyStmt.t Node) : outcome bool :=
  COMPARE_STRUCT_FIELD _equalRangeVar a.(CopyStmt.relation) b.(CopyStmt.relation) &&&
  COMPARE_NODE_FIELD a.(CopyStmt.query) b.(CopyStmt.query) &&&
  COMPARE_LIST_FIELD a.(CopyStmt.attlist) b.(CopyStmt.attlist) &&&
  COMPARE_SCALAR_FIELD a.(CopyStmt.is_from) b.(CopyStmt.is_from) &&&
  COMPARE_SCALAR_FIELD a.(CopyStmt.is_program) b.(CopyStmt.is_program) &&&
  COMPARE_STRING_FIELD a.(CopyStmt.filename) b.(CopyStmt.filename) &&&
  COMPARE_LIST_FIELD a.(CopyStmt.options) b.(CopyStmt.options) &&&
  COMPARE_NODE_FIELD a.(CopyStmt.whereClause) b.(CopyStmt.whereClause) &&& Ok true.

Definition _equalVariableSetStmt (a b : VariableSetStmt.t Node) : outcome bool :=
  COMPARE_SCALAR_FIELD a.(VariableSetStmt.kind) b.(VariableSetStmt.kind) &&&
  COMPARE_STRING_FIELD a.(VariableSetStmt.name) b.(VariableSetStmt.name) &&&
  COMPARE_LIST_FIELD a.(VariableSetStmt.args) b.(VariableSetStmt.args) &&&
  COMPARE_SCALAR_FIELD a.(VariableSetStmt.is_local) b.(VariableSetStmt.is_local) &&& Ok true.

Definition _equalVariableShowStmt (a b : VariableShowStmt.t Node) : outcome bool :=
  COMPARE_STRING_FIELD a.(VariableShowStmt.name) b.(VariableShowStmt.name) &&& Ok true.

Definition _equalCreateStmt (a b : CreateStmt.t Node) : outcome bool :=
  COMPARE_STRUCT_FIELD _equalRangeVar a.(CreateStmt.relation) b.(CreateStmt.relation) &&&
  COMPARE_LIST_FIELD a.(CreateStmt.tableElts) b.(CreateStmt.tableElts) &&&
  COMPARE_LIST_FIELD a.(CreateStmt.inhRelations) b.(CreateStmt.inhRelations) &&&
  COMPARE_STRUCT_FIELD _equalPartitionBoundSpec a.(CreateStmt.partbound) b.(CreateStmt.partbound) &&&
  COMPARE_STRUCT_FIELD _equalPartitionSpec a.(CreateStmt.partspec) b.(CreateStmt.partspec) &&&
  COMPARE_STRUCT_FIELD _equalTypeName a.(CreateStmt.ofTypename) b.(CreateStmt.ofTypename) &&&
  COMPARE_LIST_FIELD a.(CreateStmt.constraints) b.(CreateStmt.constraints) &&&
  COMPARE_LIST_FIELD a.(CreateStmt.options) b.(CreateStmt.options) &&&
  COMPARE_SCALAR_FIELD a.(CreateStmt.oncommit) b.(CreateStmt.oncommit) &&&
  COMPARE_STRING_FIELD a.(CreateStmt.tablespacename) b.(CreateStmt.tablespacename) &&&
  COMPARE_STRING_FIELD a.(CreateStmt.accessMethod) b.(CreateStmt.accessMethod) &&&
  COMPARE_SCALAR_FIELD a.(CreateStmt.if_not_exists) b.(CreateStmt.if_not_exists) &&& Ok true.

Definition _equalCreateTableSpaceStmt (a b : CreateTableSpaceStmt.t Node) : outcome bool :=
  COMPARE_STRING_FIELD a.(CreateTableSpaceStmt.tablespacename) b.(CreateTableSpaceStmt.tablespacename) &&&
  COMPARE_STRUCT_FIELD _equalRoleSpec a.(CreateTableSpaceStmt.owner) b.(CreateTableSpaceStmt.owner) &&&
  COMPARE_STRING_FIELD a.(CreateTableSpaceStmt.location) b.(CreateTableSpaceStmt.location) &&&
  COMPARE_LIST_FIELD a.(CreateTableSpaceStmt.options) b.(CreateTableSpaceStmt.options) &&&
  Ok true.

Definition _equalDropTableSpaceStmt (a b : DropTableSpaceStmt.t Node) : outcome bool :=
  COMPARE_STRING_FIELD a.(DropTableSpaceStmt.tablespacename) b.(DropTableSpaceStmt.tablespacename) &&&
  COMPARE_SCALAR_FIELD a.(DropTableSpaceStmt.missing_ok) b.(DropTableSpaceStmt.missing_ok) &&&
  Ok true.

Definition _equalAlterTableSpaceOptionsStmt (a b : AlterTableSpaceOptionsStmt.t Node) : outcome bool :=
  COMPARE_STRING_FIELD a.(AlterTableSpaceOptionsStmt.tablespacename) b.(AlterTableSpaceOptionsStmt.tablespacename) &&&
  COMPARE_LIST_FIELD a.(AlterTableSpaceOptionsStmt.options) b.(AlterTableSpaceOptionsStmt.options) &&&
  COMPARE_SCALAR_FIELD a.(AlterTableSpaceOptionsStmt.isReset) b.(AlterTableSpaceOptionsStmt.isReset) &&&
  Ok true.

Definition _equalAlterTableMoveAllStmt (a b : AlterTableMoveAllStmt.t Node) : outcome bool :=
  COMPARE_STRING_FIELD a.(AlterTableMoveAllStmt.orig_tablespacename) b.(AlterTableMoveAllStmt.orig_tablespacename) &&&
  COMPARE_SCALAR_FIELD a.(AlterTableMoveAllStmt.objtype) b.(AlterTableMoveAllStmt.objtype) &&&
  COMPARE_LIST_FIELD a.(AlterTableMoveAllStmt.roles) b.(AlterTableMoveAllStmt.roles) &&&
  COMPARE_STRING_FIELD a.(AlterTableMoveAllStmt.new_tablespacename) b.(AlterTableMoveAllStmt.new_tablespacename) &&&
  COMPARE_SCALAR_FIELD a.(AlterTableMoveAllStmt.nowait) b.(AlterTableMoveAllStmt.nowait) &&&
  Ok true.

Definition _equalCreateExtensionStmt (a b : CreateExtensionStmt.t Node) : outcome bool :=
  COMPARE_STRING_FIELD a.(CreateExtensionStmt.extname) b.(CreateExtensionStmt.extname) &&&
  COMPARE_SCALAR_FIELD a.(CreateExtensionStmt.if_not_exists) b.(CreateExtensionStmt.if_not_exists) &&&
  COMPARE_LIST_FIELD a.(CreateExtensionStmt.options) b.(CreateExtensionStmt.options) &&& Ok true.

Definition _equalAlterExtensionStmt (a b : AlterExtensionStmt.t Node) : outcome bool :=
  COMPARE_STRING_FIELD a.(AlterExtensionStmt.extname) b.(AlterExtensionStmt.extname) &&&
  COMPARE_LIST_FIELD a.(AlterExtensionStmt.options) b.(AlterExtensionStmt.options) &&& Ok true.

Definition _equalAlterExtensionContentsStmt (a b : AlterExtensionContentsStmt.t Node) : outcome bool :=
  COMPARE_STRING_FIELD a.(AlterExtensionContentsStmt.extname) b.(AlterExtensionContentsStmt.extname) &&&
  COMPARE_SCALAR_FIELD a.(AlterExtensionContentsStmt.action) b.(AlterExtensionContentsStmt.action) &&&
  COMPARE_SCALAR_FIELD a.(AlterExtensionContentsStmt.objtype) b.(AlterExtensionContentsStmt.objtype) &&&
  COMPARE_NODE_FIELD a.(AlterExtensionContentsStmt.object) b.(AlterExtensionContentsStmt.object) &&&
  Ok true.

Definition _equalCreateFdwStmt (a b : CreateFdwStmt.t Node) : outcome bool :=
  COMPARE_STRING_FIELD a.(CreateFdwStmt.fdwname) b.(CreateFdwStmt.fdwname) &&&
  COMPARE_LIST_FIELD a.(CreateFdwStmt.func_options) b.(CreateFdwStmt.func_options) &&&
  COMPARE_LIST_FIELD a.(CreateFdwStmt.options) b.(CreateFdwStmt.options) &&& Ok true.

Definition _equalAlterFdwStmt (a b : AlterFdwStmt.t Node) : outcome bool :=
  COMPARE_STRING_FIELD a.(AlterFdwStmt.fdwname) b.(AlterFdwStmt.fdwname) &&&
  COMPARE_LIST_FIELD a.(AlterFdwStmt.func_options) b.(AlterFdwStmt.func_options) &&&
  COMPARE_LIST_FIELD a.(AlterFdwStmt.options) b.(AlterFdwStmt.options) &&& Ok true.

Definition _equalCreateForeignServerStmt (a b : CreateForeignServerStmt.t Node) : outcome bool :=
  COMPARE_STRING_FIELD a.(CreateForeignServerStmt.servername) b.(CreateForeignServerStmt.servername) &&&
  COMPARE_STRING_FIELD a.(CreateForeignServerStmt.servertype) b.(CreateForeignServerStmt.servertype) &&&
  COMPARE_STRING_FIELD a.(CreateForeignServerStmt.version) b.(CreateForeignServerStmt.version) &&&
  COMPARE_STRING_FIELD a.(CreateForeignServerStmt.fdwname) b.(CreateForeignServerStmt.fdwname) &&&
  COMPARE_SCALAR_FIELD a.(CreateForeignServerStmt.if_not_exists) b.(CreateForeignServerStmt.if_not_exists) &&&
  COMPARE_LIST_FIELD a.(CreateForeignServerStmt.options) b.(CreateForeignServerStmt.options) &&&
  Ok true.

Definition _equalAlterForeignServerStmt (a b : AlterForeignServerStmt.t Node) : outcome bool :=
  COMPARE_STRING_FIELD a.(AlterForeignServerStmt.servername) b.(AlterForeignServerStmt.servername) &&&
  COMPARE_STRING_FIELD a.(AlterForeignServerStmt.version) b.(AlterForeignServerStmt.version) &&&
  COMPARE_LIST_FIELD a.(AlterForeignServerStmt.options) b.(AlterForeignServerStmt.options) &&&
  COMPARE_SCALAR_FIELD a.(AlterForeignServerStmt.has_version) b.(AlterForeignServerStmt.has_version) &&&
  Ok true.

Definition _equalCreateForeignTableStmt (a b : CreateForeignTableStmt.t Node) : outcome bool :=
  _equalCreateStmt a.(CreateForeignTableStmt.base) b.(CreateForeignTableStmt.base) &&&
  COMPARE_STRING_FIELD a.(CreateForeignTableStmt.servername) b.(CreateForeignTableStmt.servername) &&&
  COMPARE_LIST_FIELD a.(CreateForeignTableStmt.options) b.(CreateForeignTableStmt.options) &&&
  Ok true.

Definition _equalCreateUserMappingStmt (a b : CreateUserMappingStmt.t Node) : outcome bool :=
  COMPARE_STRUCT_FIELD _equalRoleSpec a.(CreateUserMappingStmt.user) b.(CreateUserMappingStmt.user) &&&
  COMPARE_STRING_FIELD a.(CreateUserMappingStmt.servername) b.(CreateUserMappingStmt.servername) &&&
  COMPARE_SCALAR_FIELD a.(CreateUserMappingStmt.if_not_exists) b.(CreateUserMappingStmt.if_not_exists) &&&
  COMPARE_LIST_FIELD a.(CreateUserMappingStmt.options) b.(CreateUserMappingStmt.options) &&&
  Ok true.

Definition _equalAlterUserMappingStmt (a b : AlterUserMappingStmt.t Node) : outcome bool :=
  COMPARE_STRUCT_FIELD _equalRoleSpec a.(AlterUserMappingStmt.user) b.(AlterUserMappingStmt.user) &&&
  COMPARE_STRING_FIELD a.(AlterUserMappingStmt.servername) b.(AlterUserMappingStmt.servername) &&&
  COMPARE_LIST_FIELD a.(AlterUserMappingStmt.options) b.(AlterUserMappingStmt.options) &&&
  Ok true.

Definition _equalDropUserMappingStmt (a b : DropUserMappingStmt.t Node) : outcome bool :=
  COMPARE_STRUCT_FIELD _equalRoleSpec a.(DropUserMappingStmt.user) b.(DropUserMappingStmt.user) &&&
  COMPARE_STRING_FIELD a.(DropUserMappingStmt.servername) b.(DropUserMappingStmt.servername) &&&
  COMPARE_SCALAR_FIELD a.(DropUserMappingStmt.missing_ok) b.(DropUserMappingStmt.missing_ok) &&&
  Ok true.

Definition _equalImportForeignSchemaStmt (a b : ImportForeignSchemaStmt.t Node) : outcome bool :=
  COMPARE_STRING_FIELD a.(ImportForeignSchemaStmt.server_name) b.(ImportForeignSchemaStmt.server_name) &&&
  COMPARE_STRING_FIELD a.(ImportForeignSchemaStmt.remote_schema) b.(ImportForeignSchemaStmt.remote_schema) &&&
  COMPARE_STRING_FIELD a.(ImportForeignSchemaStmt.local_schema) b.(ImportForeignSchemaStmt.local_schema) &&&
  COMPARE_SCALAR_FIELD a.(ImportForeignSchemaStmt.list_type) b.(ImportForeignSchemaStmt.list_type) &&&
  COMPARE_LIST_FIELD a.(ImportForeignSchemaStmt.table_list) b.(ImportForeignSchemaStmt.table_list) &&&
  COMPARE_LIST_FIELD a.(ImportForeignSchemaStmt.options) b.(ImportForeignSchemaStmt.options) &&&
  Ok true.

Definition _equalCreatePolicyStmt (a b : CreatePolicyStmt.t Node) : outcome bool :=
  COMPARE_STRING_FIELD a.(CreatePolicyStmt.policy_name) b.(CreatePolicyStmt.policy_name) &&&
  COMPARE_STRUCT_FIELD _equalRangeVar a.(CreatePolicyStmt.table) b.(CreatePolicyStmt.table) &&&
  COMPARE_STRING_FIELD a.(CreatePolicyStmt.cmd_name) b.(CreatePolicyStmt.cmd_name) &&&
  COMPARE_SCALAR_FIELD a.(CreatePolicyStmt.permissive) b.(CreatePolicyStmt.permissive) &&&
  COMPARE_LIST_FIELD a.(CreatePolicyStmt.roles) b.(CreatePolicyStmt.roles) &&&
  COMPARE_NODE_FIELD a.(CreatePolicyStmt.qual) b.(CreatePolicyStmt.qual) &&&
  COMPARE_NODE_FIELD a.(CreatePolicyStmt.with_check) b.(CreatePolicyStmt.with_check) &&& Ok true.

Definition _equalAlterPolicyStmt (a b : AlterPolicyStmt.t Node) : outcome bool :=
  COMPARE_STRING_FIELD a.(AlterPolicyStmt.policy_name) b.(AlterPolicyStmt.policy_name) &&&
  COMPARE_STRUCT_FIELD _equalRangeVar a.(AlterPolicyStmt.table) b.(AlterPolicyStmt.table) &&&
  COMPARE_LIST_FIELD a.(AlterPolicyStmt.roles) b.(AlterPolicyStmt.roles) &&&
  COMPARE_NODE_FIELD a.(AlterPolicyStmt.qual) b.(AlterPolicyStmt.qual) &&&
  COMPARE_NODE_FIELD a.(AlterPolicyStmt.with_check) b.(AlterPolicyStmt.with_check) &&& Ok true.

Definition _equalCreateAmStmt (a b : CreateAmStmt.t Node) : outcome bool :=
  COMPARE_STRING_FIELD a.(CreateAmStmt.amname) b.(CreateAmStmt.amname) &&&
  COMPARE_LIST_FIELD a.(CreateAmStmt.handler_name) b.(CreateAmStmt.handler_name) &&&
  COMPARE_SCALAR_FIELD a.(CreateAmStmt.amtype) b.(CreateAmStmt.amtype) &&& Ok true.

Definition _equalCreateTrigStmt (a b : CreateTrigStmt.t Node) : outcome bool :=
  COMPARE_STRING_FIELD a.(CreateTrigStmt.trigname) b.(CreateTrigStmt.trigname) &&&
  COMPARE_STRUCT_FIELD _equalRangeVar a.(CreateTrigStmt.relation) b.(CreateTrigStmt.relation) &&&
  COMPARE_LIST_FIELD a.(CreateTrigStmt.funcname) b.(CreateTrigStmt.funcname) &&&
  COMPARE_LIST_FIELD a.(CreateTrigStmt.args) b.(CreateTrigStmt.args) &&&
  COMPARE_SCALAR_FIELD a.(CreateTrigStmt.row) b.(CreateTrigStmt.row) &&&
  COMPARE_SCALAR_FIELD a.(CreateTrigStmt.timing) b.(CreateTrigStmt.timing) &&&
  COMPARE_SCALAR_FIELD a.(CreateTrigStmt.events) b.(CreateTrigStmt.events) &&&
  COMPARE_LIST_FIELD a.(CreateTrigStmt.columns) b.(CreateTrigStmt.columns) &&&
  COMPARE_NODE_FIELD a.(CreateTrigStmt.whenClause) b.(CreateTrigStmt.whenClause) &&&
  COMPARE_SCALAR_FIELD a.(CreateTrigStmt.isconstraint) b.(CreateTrigStmt.isconstraint) &&&
  COMPARE_LIST_FIELD a.(CreateTrigStmt.transitionRels) b.(CreateTrigStmt.transitionRels) &&&
  COMPARE_SCALAR_FIELD a.(CreateTrigStmt.deferrable) b.(CreateTrigStmt.deferrable) &&&
  COMPARE_SCALAR_FIELD a.(CreateTrigStmt.initdeferred) b.(CreateTrigStmt.initdeferred) &&&
  COMPARE_STRUCT_FIELD _equalRangeVar a.(CreateTrigStmt.constrrel) b.(CreateTrigStmt.constrrel) &&&
  Ok true.

Definition _equalCreateEventTrigStmt (a b : CreateEventTrigStmt.t Node) : outcome bool :=
  COMPARE_STRING_FIELD a.(CreateEventTrigStmt.trigname) b.(CreateEventTrigStmt.trigname) &&&
  COMPARE_STRING_FIELD a.(CreateEventTrigStmt.eventname) b.(CreateEventTrigStmt.eventname) &&&
  COMPARE_LIST_FIELD a.(CreateEventTrigStmt.whenclause) b.(CreateEventTrigStmt.whenclause) &&&
  COMPARE_LIST_FIELD a.(CreateEventTrigStmt.funcname) b.(CreateEventTrigStmt.funcname) &&&
  Ok true.

Definition _equalAlterEventTrigStmt (a b : AlterEventTrigStmt.t Node) : outcome bool :=
  COMPARE_STRING_FIELD a.(AlterEventTrigStmt.trigname) b.(AlterEventTrigStmt.trigname) &&&
  COMPARE_SCALAR_FIELD a.(AlterEventTrigStmt.tgenabled) b.(AlterEventTrigStmt.tgenabled) &&&
  Ok true.

Definition _equalCreatePLangStmt (a b : CreatePLangStmt.t Node) : outcome bool :=
  COMPARE_SCALAR_FIELD a.(CreatePLangStmt.replace) b.(CreatePLangStmt.replace) &&&
  COMPARE_STRING_FIELD a.(CreatePLangStmt.plname) b.(CreatePLangStmt.plname) &&&
  COMPARE_LIST_FIELD a.(CreatePLangStmt.plhandler) b.(CreatePLangStmt.plhandler) &&&
  COMPARE_LIST_FIELD a.(CreatePLangStmt.plinline) b.(CreatePLangStmt.plinline) &&&
  COMPARE_LIST_FIELD a.(CreatePLangStmt.plvalidator) b.(CreatePLangStmt.plvalidator) &&&
  COMPARE_SCALAR_FIELD a.(CreatePLangStmt.pltrusted) b.(CreatePLangStmt.pltrusted) &&& Ok true.

Definition _equalCreateRoleStmt (a b : CreateRoleStmt.t Node) : outcome bool :=
  COMPARE_SCALAR_FIELD a.(CreateRoleStmt.stmt_type) b.(CreateRoleStmt.stmt_type) &&&
  COMPARE_STRING_FIELD a.(CreateRoleStmt.role) b.(CreateRoleStmt.role) &&&
  COMPARE_LIST_FIELD a.(CreateRoleStmt.options) b.(CreateRoleStmt.options) &&& Ok true.

Definition _equalAlterRoleStmt (a b : AlterRoleStmt.t Node) : outcome bool :=
  COMPARE_STRUCT_FIELD _equalRoleSpec a.(AlterRoleStmt.role) b.(AlterRoleStmt.role) &&&
  COMPARE_LIST_FIELD a.(AlterRoleStmt.options) b.(AlterRoleStmt.options) &&&
  COMPARE_SCALAR_FIELD a.(AlterRoleStmt.action) b.(AlterRoleStmt.action) &&& Ok true.

Definition _equalAlterRoleSetStmt (a b : AlterRoleSetStmt.t Node) : outcome bool :=
  COMPARE_STRUCT_FIELD _equalRoleSpec a.(AlterRoleSetStmt.role) b.(AlterRoleSetStmt.role) &&&
  COMPARE_STRING_FIELD a.(AlterRoleSetStmt.database) b.(AlterRoleSetStmt.database) &&&
  COMPARE_STRUCT_FIELD _equalVariableSetStmt a.(AlterRoleSetStmt.setstmt) b.(AlterRoleSetStmt.setstmt) &&&
  Ok true.

Definition _equalDropRoleStmt (a b : DropRoleStmt.t Node) : outcome bool :=
  COMPARE_LIST_FIELD a.(DropRoleStmt.roles) b.(DropRoleStmt.roles) &&&
  COMPARE_SCALAR_FIELD a.(DropRoleStmt.missing_ok) b.(DropRoleStmt.missing_ok) &&& Ok true.

Definition _equalCreateSeqStmt (a b : CreateSeqStmt.t Node) : outcome bool :=
  COMPARE_STRUCT_FIELD _equalRangeVar a.(CreateSeqStmt.sequence) b.(CreateSeqStmt.sequence) &&&
  COMPARE_LIST_FIELD a.(CreateSeqStmt.options) b.(CreateSeqStmt.options) &&&
  COMPARE_SCALAR_FIELD a.(CreateSeqStmt.ownerId) b.(CreateSeqStmt.ownerId) &&&
  COMPARE_SCALAR_FIELD a.(CreateSeqStmt.for_identity) b.(CreateSeqStmt.for_identity) &&&
  COMPARE_SCALAR_FIELD a.(CreateSeqStmt.if_not_exists) b.(CreateSeqStmt.if_not_exists) &&&
  Ok true.

Definition _equalAlterSeqStmt (a b : AlterSeqStmt.t Node) : outcome bool :=
  COMPARE_STRUCT_FIELD _equalRangeVar a.(AlterSeqStmt.sequence) b.(AlterSeqStmt.sequence) &&&
  COMPARE_LIST_FIELD a.(AlterSeqStmt.options) b.(AlterSeqStmt.options) &&&
  COMPARE_SCALAR_FIELD a.(AlterSeqStmt.for_identity) b.(AlterSeqStmt.for_identity) &&&
  COMPARE_SCALAR_FIELD a.(AlterSeqStmt.missing_ok) b.(AlterSeqStmt.missing_ok) &&& Ok true.

Definition _equalDefineStmt (a b : DefineStmt.t Node) : outcome bool :=
  COMPARE_SCALAR_FIELD a.(DefineStmt.kind) b.(DefineStmt.kind) &&&
  COMPARE_SCALAR_FIELD a.(DefineStmt.oldstyle) b.(DefineStmt.oldstyle) &&&
  COMPARE_LIST_FIELD a.(DefineStmt.defnames) b.(DefineStmt.defnames) &&&
  COMPARE_LIST_FIELD a.(DefineStmt.args) b.(DefineStmt.args) &&&
  COMPARE_LIST_FIELD a.(DefineStmt.definition) b.(DefineStmt.definition) &&&
  COMPARE_SCALAR_FIELD a.(DefineStmt.if_not_exists) b.(DefineStmt.if_not_exists) &&&
  COMPARE_SCALAR_FIELD a.(DefineStmt.replace) b.(DefineStmt.replace) &&& Ok true.

Definition _equalCreateDomainStmt (a b : CreateDomainStmt.t Node) : outcome bool :=
  COMPARE_LIST_FIELD a.(CreateDomainStmt.domainname) b.(CreateDomainStmt.domainname) &&&
  COMPARE_STRUCT_FIELD _equalTypeName a.(CreateDomainStmt.typeName) b.(CreateDomainStmt.typeName) &&&
  COMPARE_STRUCT_FIELD _equalCollateClause a.(CreateDomainStmt.collClause) b.(CreateDomainStmt.collClause) &&&
  COMPARE_LIST_FIELD a.(CreateDomainStmt.constraints) b.(CreateDomainStmt.constraints) &&&
  Ok true.

Definition _equalCreateOpClassStmt (a b : CreateOpClassStmt.t Node) : outcome bool :=
  COMPARE_LIST_FIELD a.(CreateOpClassStmt.opclassname) b.(CreateOpClassStmt.opclassname) &&&
  COMPARE_LIST_FIELD a.(CreateOpClassStmt.opfamilyname) b.(CreateOpClassStmt.opfamilyname) &&&
  COMPARE_STRING_FIELD a.(CreateOpClassStmt.amname) b.(CreateOpClassStmt.amname) &&&
  COMPARE_STRUCT_FIELD _equalTypeName a.(CreateOpClassStmt.datatype) b.(CreateOpClassStmt.datatype) &&&
  COMPARE_LIST_FIELD a.(CreateOpClassStmt.items) b.(CreateOpClassStmt.items) &&&
  COMPARE_SCALAR_FIELD a.(CreateOpClassStmt.isDefault) b.(CreateOpClassStmt.isDefault) &&&
  Ok true.

Definition _equalCreateOpClassItem (a b : CreateOpClassItem.t Node) : outcome bool :=
  COMPARE_SCALAR_FIELD a.(CreateOpClassItem.itemtype) b.(CreateOpClassItem.itemtype) &&&
  COMPARE_STRUCT_FIELD _equalObjectWithArgs a.(CreateOpClassItem.name) b.(CreateOpClassItem.name) &&&
  COMPARE_SCALAR_FIELD a.(CreateOpClassItem.number) b.(CreateOpClassItem.number) &&&
  COMPARE_LIST_FIELD a.(CreateOpClassItem.order_family) b.(CreateOpClassItem.order_family) &&&
  COMPARE_LIST_FIELD a.(CreateOpClassItem.class_args) b.(CreateOpClassItem.class_args) &&&
  COMPARE_STRUCT_FIELD _equalTypeName a.(CreateOpClassItem.storedtype) b.(CreateOpClassItem.storedtype) &&&
  Ok true.

Definition _equalCreateOpFamilyStmt (a b : CreateOpFamilyStmt.t Node) : outcome bool :=
  COMPARE_LIST_FIELD a.(CreateOpFamilyStmt.opfamilyname) b.(CreateOpFamilyStmt.opfamilyname) &&&
  COMPARE_STRING_FIELD a.(CreateOpFamilyStmt.amname) b.(CreateOpFamilyStmt.amname) &&& Ok true.

Definition _equalAlterOpFamilyStmt (a b : AlterOpFamilyStmt.t Node) : outcome bool :=
  COMPARE_LIST_FIELD a.(AlterOpFamilyStmt.opfamilyname) b.(AlterOpFamilyStmt.opfamilyname) &&&
  COMPARE_STRING_FIELD a.(AlterOpFamilyStmt.amname) b.(AlterOpFamilyStmt.amname) &&&
  COMPARE_SCALAR_FIELD a.(AlterOpFamilyStmt.isDrop) b.(AlterOpFamilyStmt.isDrop) &&&
  COMPARE_LIST_FIELD a.(AlterOpFamilyStmt.items) b.(AlterOpFamilyStmt.items) &&& Ok true.

Definition _equalDropStmt (a b : DropStmt.t Node) : outcome bool :=
  COMPARE_LIST_FIELD a.(DropStmt.objects) b.(DropStmt.objects) &&&
  COMPARE_SCALAR_FIELD a.(DropStmt.removeType) b.(DropStmt.removeType) &&&
  COMPARE_SCALAR_FIELD a.(DropStmt.behavior) b.(DropStmt.behavior) &&&
  COMPARE_SCALAR_FIELD a.(DropStmt.missing_ok) b.(DropStmt.missing_ok) &&&
  COMPARE_SCALAR_FIELD a.(DropStmt.concurrent) b.(DropStmt.concurrent) &&& Ok true.

Definition _equalTruncateStmt (a b : TruncateStmt.t Node) : outcome bool :=
  COMPARE_LIST_FIELD a.(TruncateStmt.relations) b.(TruncateStmt.relations) &&&
  COMPARE_SCALAR_FIELD a.(TruncateStmt.restart_seqs) b.(TruncateStmt.restart_seqs) &&&
  COMPARE_SCALAR_FIELD a.(TruncateStmt.behavior) b.(TruncateStmt.behavior) &&& Ok true.

Definition _equalCommentStmt (a b : CommentStmt.t Node) : outcome bool :=
  COMPARE_SCALAR_FIELD a.(CommentStmt.objtype) b.(CommentStmt.objtype) &&&
  COMPARE_NODE_FIELD a.(CommentStmt.object) b.(CommentStmt.object) &&&
  COMPARE_STRING_FIELD a.(CommentStmt.comment) b.(CommentStmt.comment) &&& Ok true.

Definition _equalSecLabelStmt (a b : SecLabelStmt.t Node) : outcome bool :=
  COMPARE_SCALAR_FIELD a.(SecLabelStmt.objtype) b.(SecLabelStmt.objtype) &&&
  COMPARE_NODE_FIELD a.(SecLabelStmt.object) b.(SecLabelStmt.object) &&&
  COMPARE_STRING_FIELD a.(SecLabelStmt.provider) b.(SecLabelStmt.provider) &&&
  COMPARE_STRING_FIELD a.(SecLabelStmt.label) b.(SecLabelStmt.label) &&& Ok true.

Definition _equalDeclareCursorStmt (a b : DeclareCursorStmt.t Node) : outcome bool :=
  COMPARE_STRING_FIELD a.(DeclareCursorStmt.portalname) b.(DeclareCursorStmt.portalname) &&&
  COMPARE_SCALAR_FIELD a.(DeclareCursorStmt.options) b.(DeclareCursorStmt.options) &&&
  COMPARE_NODE_FIELD a.(DeclareCursorStmt.query) b.(DeclareCursorStmt.query) &&& Ok true.

Definition _equalClosePortalStmt (a b : ClosePortalStmt.t Node) : outcome bool :=
  COMPARE_STRING_FIELD a.(ClosePortalStmt.portalname) b.(ClosePortalStmt.portalname) &&& Ok true.

Definition _equalFetchStmt (a b : FetchStmt.t Node) : outcome bool :=
  COMPARE_SCALAR_FIELD a.(FetchStmt.direction) b.(FetchStmt.direction) &&&
  COMPARE_SCALAR_FIELD a.(FetchStmt.howMany) b.(FetchStmt.howMany) &&&
  COMPARE_STRING_FIELD a.(FetchStmt.portalname) b.(FetchStmt.portalname) &&&
  COMPARE_SCALAR_FIELD a.(FetchStmt.ismove) b.(FetchStmt.ismove) &&& Ok true.

Definition _equalIndexStmt (a b : IndexStmt.t Node) : outcome bool :=
  COMPARE_STRING_FIELD a.(IndexStmt.idxname) b.(IndexStmt.idxname) &&&
  COMPARE_STRUCT_FIELD _equalRangeVar a.(IndexStmt.relation) b.(IndexStmt.relation) &&&
  COMPARE_STRING_FIELD a.(IndexStmt.accessMethod) b.(IndexStmt.accessMethod) &&&
  COMPARE_STRING_FIELD a.(IndexStmt.tableSpace) b.(IndexStmt.tableSpace) &&&
  COMPARE_LIST_FIELD a.(IndexStmt.indexParams) b.(IndexStmt.indexParams) &&&
  COMPARE_LIST_FIELD a.(IndexStmt.indexIncludingParams) b.(IndexStmt.indexIncludingParams) &&&
  COMPARE_LIST_FIELD a.(IndexStmt.options) b.(IndexStmt.options) &&&
  COMPARE_NODE_FIELD a.(IndexStmt.whereClause) b.(IndexStmt.whereClause) &&&
  COMPARE_LIST_FIELD a.(IndexStmt.excludeOpNames) b.(IndexStmt.excludeOpNames) &&&
  COMPARE_STRING_FIELD a.(IndexStmt.idxcomment) b.(IndexStmt.idxcomment) &&&
  COMPARE_SCALAR_FIELD a.(IndexStmt.indexOid) b.(IndexStmt.indexOid) &&&
  COMPARE_SCALAR_FIELD a.(IndexStmt.oldNode) b.(IndexStmt.oldNode) &&&
  COMPARE_SCALAR_FIELD a.(IndexStmt.oldCreateSubid) b.(IndexStmt.oldCreateSubid) &&&
  COMPARE_SCALAR_FIELD a.(IndexStmt.oldFirstRelfilenodeSubid) b.(IndexStmt.oldFirstRelfilenodeSubid) &&&
  COMPARE_SCALAR_FIELD a.(IndexStmt.unique) b.(IndexStmt.unique) &&&
  COMPARE_SCALAR_FIELD a.(IndexStmt.primary) b.(IndexStmt.primary) &&&
  COMPARE_SCALAR_FIELD a.(IndexStmt.isconstraint) b.(IndexStmt.isconstraint) &&&
  COMPARE_SCALAR_FIELD a.(IndexStmt.deferrable) b.(IndexStmt.deferrable) &&&
  COMPARE_SCALAR_FIELD a.(IndexStmt.initdeferred) b.(IndexStmt.initdeferred) &&&
  COMPARE_SCALAR_FIELD a.(IndexStmt.transformed) b.(IndexStmt.transformed) &&&
  COMPARE_SCALAR_FIELD a.(IndexStmt.concurrent) b.(IndexStmt.concurrent) &&&
  COMPARE_SCALAR_FIELD a.(IndexStmt.if_not_exists) b.(IndexStmt.if_not_exists) &&&
  COMPARE_SCALAR_FIELD a.(IndexStmt.reset_default_tblspc) b.(IndexStmt.reset_default_tblspc) &&&
  Ok true.

Definition _equalCreateStatsStmt (a b : CreateStatsStmt.t Node) : outcome bool :=
  COMPARE_LIST_FIELD a.(CreateStatsStmt.defnames) b.(CreateStatsStmt.defnames) &&&
  COMPARE_LIST_FIELD a.(CreateStatsStmt.stat_types) b.(CreateStatsStmt.stat_types) &&&
  COMPARE_LIST_FIELD a.(CreateStatsStmt.exprs) b.(CreateStatsStmt.exprs) &&&
  COMPARE_LIST_FIELD a.(CreateStatsStmt.relations) b.(CreateStatsStmt.relations) &&&
  COMPARE_STRING_FIELD a.(CreateStatsStmt.stxcomment) b.(CreateStatsStmt.stxcomment) &&&
  COMPARE_SCALAR_FIELD a.(CreateStatsStmt.if_not_exists) b.(CreateStatsStmt.if_not_exists) &&&
  Ok true.

Definition _equalAlterStatsStmt (a b : AlterStatsStmt.t Node) : outcome bool :=
  COMPARE_LIST_FIELD a.(AlterStatsStmt.defnames) b.(AlterStatsStmt.defnames) &&&
  COMPARE_SCALAR_FIELD a.(AlterStatsStmt.stxstattarget) b.(AlterStatsStmt.stxstattarget) &&&
  COMPARE_SCALAR_FIELD a.(AlterStatsStmt.missing_ok) b.(AlterStatsStmt.missing_ok) &&& Ok true.

Definition _equalCreateFunctionStmt (a b : CreateFunctionStmt.t Node) : outcome bool :=
  COMPARE_SCALAR_FIELD a.(CreateFunctionStmt.is_procedure) b.(CreateFunctionStmt.is_procedure) &&&
  COMPARE_SCALAR_FIELD a.(CreateFunctionStmt.replace) b.(CreateFunctionStmt.replace) &&&
  COMPARE_LIST_FIELD a.(CreateFunctionStmt.funcname) b.(CreateFunctionStmt.funcname) &&&
  COMPARE_LIST_FIELD a.(CreateFunctionStmt.parameters) b.(CreateFunctionStmt.parameters) &&&
  COMPARE_STRUCT_FIELD _equalTypeName a.(CreateFunctionStmt.returnType) b.(CreateFunctionStmt.returnType) &&&
  COMPARE_LIST_FIELD a.(CreateFunctionStmt.options) b.(CreateFunctionStmt.options) &&& Ok true.

Definition _equalFunctionParameter (a b : FunctionParameter.t Node) : outcome bool :=
  COMPARE_STRING_FIELD a.(FunctionParameter.name) b.(FunctionParameter.name) &&&
  COMPARE_STRUCT_FIELD _equalTypeName a.(FunctionParameter.argType) b.(FunctionParameter.argType) &&&
  COMPARE_SCALAR_FIELD a.(FunctionParameter.mode) b.(FunctionParameter.mode) &&&
  COMPARE_NODE_FIELD a.(FunctionParameter.defexpr) b.(FunctionParameter.defexpr) &&& Ok true.

Definition _equalAlterFunctionStmt (a b : AlterFunctionStmt.t Node) : outcome bool :=
  COMPARE_SCALAR_FIELD a.(AlterFunctionStmt.objtype) b.(AlterFunctionStmt.objtype) &&&
  COMPARE_STRUCT_FIELD _equalObjectWithArgs a.(AlterFunctionStmt.func) b.(AlterFunctionStmt.func) &&&
  COMPARE_LIST_FIELD a.(AlterFunctionStmt.actions) b.(AlterFunctionStmt.actions) &&& Ok true.

Definition _equalDoStmt (a b : DoStmt.t Node) : outcome bool :=
  COMPARE_LIST_FIELD a.(DoStmt.args) b.(DoStmt.args) &&& Ok true.

Definition _equalFuncExpr (a b : FuncExpr.t Node) : outcome bool :=
  COMPARE_SCALAR_FIELD a.(FuncExpr.funcid) b.(FuncExpr.funcid) &&&
  COMPARE_SCALAR_FIELD a.(FuncExpr.funcresulttype) b.(FuncExpr.funcresulttype) &&&
  COMPARE_SCALAR_FIELD a.(FuncExpr.funcretset) b.(FuncExpr.funcretset) &&&
  COMPARE_SCALAR_FIELD a.(FuncExpr.funcvariadic) b.(FuncExpr.funcvariadic) &&&
  COMPARE_COERCIONFORM_FIELD &&&
  COMPARE_SCALAR_FIELD a.(FuncExpr.funccollid) b.(FuncExpr.funccollid) &&&
  COMPARE_SCALAR_FIELD a.(FuncExpr.inputcollid) b.(FuncExpr.inputcollid) &&&
  COMPARE_LIST_FIELD a.(FuncExpr.args) b.(FuncExpr.args) &&& COMPARE_LOCATION_FIELD &&& Ok true.

Definition _equalCallStmt (a b : CallStmt.t Node) : outcome bool :=
  COMPARE_STRUCT_FIELD _equalFuncCall a.(CallStmt.funccall) b.(CallStmt.funccall) &&&
  COMPARE_STRUCT_FIELD _equalFuncExpr a.(CallStmt.funcexpr) b.(CallStmt.funcexpr) &&& Ok true.

Definition _equalRenameStmt (a b : RenameStmt.t Node) : outcome bool :=
  COMPARE_SCALAR_FIELD a.(RenameStmt.renameType) b.(RenameStmt.renameType) &&&
  COMPARE_SCALAR_FIELD a.(RenameStmt.relationType) b.(RenameStmt.relationType) &&&
  COMPARE_STRUCT_FIELD _equalRangeVar a.(RenameStmt.relation) b.(RenameStmt.relation) &&&
  COMPARE_NODE_FIELD a.(RenameStmt.object) b.(RenameStmt.object) &&&
  COMPARE_STRING_FIELD a.(RenameStmt.subname) b.(RenameStmt.subname) &&&
  COMPARE_STRING_FIELD a.(RenameStmt.newname) b.(RenameStmt.newname) &&&
  COMPARE_SCALAR_FIELD a.(RenameStmt.behavior) b.(RenameStmt.behavior) &&&
  COMPARE_SCALAR_FIELD a.(RenameStmt.missing_ok) b.(RenameStmt.missing_ok) &&& Ok true.

Definition _equalAlterObjectDependsStmt (a b : AlterObjectDependsStmt.t Node) : outcome bool :=
  COMPARE_SCALAR_FIELD a.(AlterObjectDependsStmt.objectType) b.(AlterObjectDependsStmt.objectType) &&&
  COMPARE_STRUCT_FIELD _equalRangeVar a.(AlterObjectDependsStmt.relation) b.(AlterObjectDependsStmt.relation) &&&
  COMPARE_NODE_FIELD a.(AlterObjectDependsStmt.object) b.(AlterObjectDependsStmt.object) &&&
  COMPARE_NODE_FIELD a.(AlterObjectDependsStmt.extname) b.(AlterObjectDependsStmt.extname) &&&
  COMPARE_SCALAR_FIELD a.(AlterObjectDependsStmt.remove) b.(AlterObjectDependsStmt.remove) &&&
  Ok true.

Definition _equalAlterObjectSchemaStmt (a b : AlterObjectSchemaStmt.t Node) : outcome bool :=
  COMPARE_SCALAR_FIELD a.(AlterObjectSchemaStmt.objectType) b.(AlterObjectSchemaStmt.objectType) &&&
  COMPARE_STRUCT_FIELD _equalRangeVar a.(AlterObjectSchemaStmt.relation) b.(AlterObjectSchemaStmt.relation) &&&
  COMPARE_NODE_FIELD a.(AlterObjectSchemaStmt.object) b.(AlterObjectSchemaStmt.object) &&&
  COMPARE_STRING_FIELD a.(AlterObjectSchemaStmt.newschema) b.(AlterObjectSchemaStmt.newschema) &&&
  COMPARE_SCALAR_FIELD a.(AlterObjectSchemaStmt.missing_ok) b.(AlterObjectSchemaStmt.missing_ok) &&&
  Ok true.

Definition _equalAlterOwnerStmt (a b : AlterOwnerStmt.t Node) : outcome bool :=
  COMPARE_SCALAR_FIELD a.(AlterOwnerStmt.objectType) b.(AlterOwnerStmt.objectType) &&&
  COMPARE_STRUCT_FIELD _equalRangeVar a.(AlterOwnerStmt.relation) b.(AlterOwnerStmt.relation) &&&
  COMPARE_NODE_FIELD a.(AlterOwnerStmt.object) b.(AlterOwnerStmt.object) &&&
  COMPARE_STRUCT_FIELD _equalRoleSpec a.(AlterOwnerStmt.newowner) b.(AlterOwnerStmt.newowner) &&&
  Ok true.

Definition _equalAlterOperatorStmt (a b : AlterOperatorStmt.t Node) : outcome bool :=
  COMPARE_STRUCT_FIELD _equalObjectWithArgs a.(AlterOperatorStmt.opername) b.(AlterOperatorStmt.opername) &&&
  COMPARE_LIST_FIELD a.(AlterOperatorStmt.options) b.(AlterOperatorStmt.options) &&& Ok true.

Definition _equalAlterTypeStmt (a b : AlterTypeStmt.t Node) : outcome bool :=
  COMPARE_LIST_FIELD a.(AlterTypeStmt.typeName) b.(AlterTypeStmt.typeName) &&&
  COMPARE_LIST_FIELD a.(AlterTypeStmt.options) b.(AlterTypeStmt.options) &&& Ok true.

Definition _equalRuleStmt (a b : RuleStmt.t Node) : outcome bool :=
  COMPARE_STRUCT_FIELD _equalRangeVar a.(RuleStmt.relation) b.(RuleStmt.relation) &&&
  COMPARE_STRING_FIELD a.(RuleStmt.rulename) b.(RuleStmt.rulename) &&&
  COMPARE_NODE_FIELD a.(RuleStmt.whereClause) b.(RuleStmt.whereClause) &&&
  COMPARE_SCALAR_FIELD a.(RuleStmt.event) b.(RuleStmt.event) &&&
  COMPARE_SCALAR_FIELD a.(RuleStmt.instead) b.(RuleStmt.instead) &&&
  COMPARE_LIST_FIELD a.(RuleStmt.actions) b.(RuleStmt.actions) &&&
  COMPARE_SCALAR_FIELD a.(RuleStmt.replace) b.(RuleStmt.replace) &&& Ok true.

Definition _equalNotifyStmt (a b : NotifyStmt.t Node) : outcome bool :=
  COMPARE_STRING_FIELD a.(NotifyStmt.conditionname) b.(NotifyStmt.conditionname) &&&
  COMPARE_STRING_FIELD a.(NotifyStmt.payload) b.(NotifyStmt.payload) &&& Ok true.

Definition _equalListenStmt (a b : ListenStmt.t Node) : outcome bool :=
  COMPARE_STRING_FIELD a.(ListenStmt.conditionname) b.(ListenStmt.conditionname) &&& Ok true.

Definition _equalUnlistenStmt (a b : UnlistenStmt.t Node) : outcome bool :=
  COMPARE_STRING_FIELD a.(UnlistenStmt.conditionname) b.(UnlistenStmt.conditionname) &&& Ok true.

Definition _equalTransactionStmt (a b : TransactionStmt.t Node) : outcome bool :=
  COMPARE_SCALAR_FIELD a.(TransactionStmt.kind) b.(TransactionStmt.kind) &&&
  COMPARE_LIST_FIELD a.(TransactionStmt.options) b.(TransactionStmt.options) &&&
  COMPARE_STRING_FIELD a.(TransactionStmt.savepoint_name) b.(TransactionStmt.savepoint_name) &&&
  COMPARE_STRING_FIELD a.(TransactionStmt.gid) b.(TransactionStmt.gid) &&&
  COMPARE_SCALAR_FIELD a.(TransactionStmt.chain) b.(TransactionStmt.chain) &&& Ok true.

Definition _equalCompositeTypeStmt (a b : CompositeTypeStmt.t Node) : outcome bool :=
  COMPARE_STRUCT_FIELD _equalRangeVar a.(CompositeTypeStmt.typevar) b.(CompositeTypeStmt.typevar) &&&
  COMPARE_LIST_FIELD a.(CompositeTypeStmt.coldeflist) b.(CompositeTypeStmt.coldeflist) &&&
  Ok true.

Definition _equalCreateEnumStmt (a b : CreateEnumStmt.t Node) : outcome bool :=
  COMPARE_LIST_FIELD a.(CreateEnumStmt.typeName) b.(CreateEnumStmt.typeName) &&&
  COMPARE_LIST_FIELD a.(CreateEnumStmt.vals) b.(CreateEnumStmt.vals) &&& Ok true.

Definition _equalCreateRangeStmt (a b : CreateRangeStmt.t Node) : outcome bool :=
  COMPARE_LIST_FIELD a.(CreateRangeStmt.typeName) b.(CreateRangeStmt.typeName) &&&
  COMPARE_LIST_FIELD a.(CreateRangeStmt.params) b.(CreateRangeStmt.params) &&& Ok true.

Definition _equalAlterEnumStmt (a b : AlterEnumStmt.t Node) : outcome bool :=
  COMPARE_LIST_FIELD a.(AlterEnumStmt.typeName) b.(AlterEnumStmt.typeName) &&&
  COMPARE_STRING_FIELD a.(AlterEnumStmt.oldVal) b.(AlterEnumStmt.oldVal) &&&
  COMPARE_STRING_FIELD a.(AlterEnumStmt.newVal) b.(AlterEnumStmt.newVal) &&&
  COMPARE_STRING_FIELD a.(AlterEnumStmt.newValNeighbor) b.(AlterEnumStmt.newValNeighbor) &&&
  COMPARE_SCALAR_FIELD a.(AlterEnumStmt.newValIsAfter) b.(AlterEnumStmt.newValIsAfter) &&&
  COMPARE_SCALAR_FIELD a.(AlterEnumStmt.skipIfNewValExists) b.(AlterEnumStmt.skipIfNewValExists) &&&
  Ok true.

Definition _equalViewStmt (a b : ViewStmt.t Node) : outcome bool :=
  COMPARE_STRUCT_FIELD _equalRangeVar a.(ViewStmt.view) b.(ViewStmt.view) &&&
  COMPARE_LIST_FIELD a.(ViewStmt.aliases) b.(ViewStmt.aliases) &&&
  COMPARE_NODE_FIELD a.(ViewStmt.query) b.(ViewStmt.query) &&&
  COMPARE_SCALAR_FIELD a.(ViewStmt.replace) b.(ViewStmt.replace) &&&
  COMPARE_LIST_FIELD a.(ViewStmt.options) b.(ViewStmt.options) &&&
  COMPARE_SCALAR_FIELD a.(ViewStmt.withCheckOption) b.(ViewStmt.withCheckOption) &&& Ok true.

Definition _equalLoadStmt (a b : LoadStmt.t Node) : outcome bool :=
  COMPARE_STRING_FIELD a.(LoadStmt.filename) b.(LoadStmt.filename) &&& Ok true.

Definition _equalCreatedbStmt (a b : CreatedbStmt.t Node) : outcome bool :=
  COMPARE_STRING_FIELD a.(CreatedbStmt.dbname) b.(CreatedbStmt.dbname) &&&
  COMPARE_LIST_FIELD a.(CreatedbStmt.options) b.(CreatedbStmt.options) &&& Ok true.

Definition _equalAlterDatabaseStmt (a b : AlterDatabaseStmt.t Node) : outcome bool :=
  COMPARE_STRING_FIELD a.(AlterDatabaseStmt.dbname) b.(AlterDatabaseStmt.dbname) &&&
  COMPARE_LIST_FIELD a.(AlterDatabaseStmt.options) b.(AlterDatabaseStmt.options) &&& Ok true.

Definition _equalAlterDatabaseSetStmt (a b : AlterDatabaseSetStmt.t Node) : outcome bool :=
  COMPARE_STRING_FIELD a.(AlterDatabaseSetStmt.dbname) b.(AlterDatabaseSetStmt.dbname) &&&
  COMPARE_STRUCT_FIELD _equalVariableSetStmt a.(AlterDatabaseSetStmt.setstmt) b.(AlterDatabaseSetStmt.setstmt) &&&
  Ok true.

Definition _equalDropdbStmt (a b : DropdbStmt.t Node) : outcome bool :=
  COMPARE_STRING_FIELD a.(DropdbStmt.dbname) b.(DropdbStmt.dbname) &&&
  COMPARE_SCALAR_FIELD a.(DropdbStmt.missing_ok) b.(DropdbStmt.missing_ok) &&&
  COMPARE_LIST_FIELD a.(DropdbStmt.options) b.(DropdbStmt.options) &&& Ok true.

Definition _equalAlterSystemStmt (a b : AlterSystemStmt.t Node) : outcome bool :=
  COMPARE_STRUCT_FIELD _equalVariableSetStmt a.(AlterSystemStmt.setstmt) b.(AlterSystemStmt.setstmt) &&&
  Ok true.

Definition _equalClusterStmt (a b : ClusterStmt.t Node) : outcome bool :=
  COMPARE_STRUCT_FIELD _equalRangeVar a.(ClusterStmt.relation) b.(ClusterStmt.relation) &&&
  COMPARE_STRING_FIELD a.(ClusterStmt.indexname) b.(ClusterStmt.indexname) &&&
  COMPARE_SCALAR_FIELD a.(ClusterStmt.options) b.(ClusterStmt.options) &&& Ok true.

Definition _equalVacuumStmt (a b : VacuumStmt.t Node) : outcome bool :=
  COMPARE_LIST_FIELD a.(VacuumStmt.options) b.(VacuumStmt.options) &&&
  COMPARE_LIST_FIELD a.(VacuumStmt.rels) b.(VacuumStmt.rels) &&&
  COMPARE_SCALAR_FIELD a.(VacuumStmt.is_vacuumcmd) b.(VacuumStmt.is_vacuumcmd) &&& Ok true.

Definition _equalVacuumRelation (a b : VacuumRelation.t Node) : outcome bool :=
  COMPARE_STRUCT_FIELD _equalRangeVar a.(VacuumRelation.relation) b.(VacuumRelation.relation) &&&
  COMPARE_SCALAR_FIELD a.(VacuumRelation.oid) b.(VacuumRelation.oid) &&&
  COMPARE_LIST_FIELD a.(VacuumRelation.va_cols) b.(VacuumRelation.va_cols) &&& Ok true.

Definition _equalExplainStmt (a b : ExplainStmt.t Node) : outcome bool :=
  COMPARE_NODE_FIELD a.(ExplainStmt.query) b.(ExplainStmt.query) &&&
  COMPARE_LIST_FIELD a.(ExplainStmt.options) b.(ExplainStmt.options) &&& Ok true.

Definition _equalCreateTableAsStmt (a b : CreateTableAsStmt.t Node) : outcome bool :=
  COMPARE_NODE_FIELD a.(CreateTableAsStmt.query) b.(CreateTableAsStmt.query) &&&
  COMPARE_STRUCT_FIELD _equalIntoClause a.(CreateTableAsStmt.into) b.(CreateTableAsStmt.into) &&&
  COMPARE_SCALAR_FIELD a.(CreateTableAsStmt.relkind) b.(CreateTableAsStmt.relkind) &&&
  COMPARE_SCALAR_FIELD a.(CreateTableAsStmt.is_select_into) b.(CreateTableAsStmt.is_select_into) &&&
  COMPARE_SCALAR_FIELD a.(CreateTableAsStmt.if_not_exists) b.(CreateTableAsStmt.if_not_exists) &&&
  Ok true.

Definition _equalRefreshMatViewStmt (a b : RefreshMatViewStmt.t Node) : outcome bool :=
  COMPARE_SCALAR_FIELD a.(RefreshMatViewStmt.concurrent) b.(RefreshMatViewStmt.concurrent) &&&
  COMPARE_SCALAR_FIELD a.(RefreshMatViewStmt.skipData) b.(RefreshMatViewStmt.skipData) &&&
  COMPARE_STRUCT_FIELD _equalRangeVar a.(RefreshMatViewStmt.relation) b.(RefreshMatViewStmt.relation) &&&
  Ok true.

Definition _equalDiscardStmt (a b : DiscardStmt.t Node) : outcome bool :=
  COMPARE_SCALAR_FIELD a.(DiscardStmt.target) b.(DiscardStmt.target) &&& Ok true.

Definition _equalLockStmt (a b : LockStmt.t Node) : outcome bool :=
  COMPARE_LIST_FIELD a.(LockStmt.relations) b.(LockStmt.relations) &&&
  COMPARE_SCALAR_FIELD a.(LockStmt.mode) b.(LockStmt.mode) &&&
  COMPARE_SCALAR_FIELD a.(LockStmt.nowait) b.(LockStmt.nowait) &&& Ok true.

Definition _equalConstraintsSetStmt (a b : ConstraintsSetStmt.t Node) : outcome bool :=
  COMPARE_LIST_FIELD a.(ConstraintsSetStmt.constraints) b.(ConstraintsSetStmt.constraints) &&&
  COMPARE_SCALAR_FIELD a.(ConstraintsSetStmt.deferred) b.(ConstraintsSetStmt.deferred) &&&
  Ok true.

Definition _equalReindexStmt (a b : ReindexStmt.t Node) : outcome bool :=
  COMPARE_SCALAR_FIELD a.(ReindexStmt.kind) b.(ReindexStmt.kind) &&&
  COMPARE_STRUCT_FIELD _equalRangeVar a.(ReindexStmt.relation) b.(ReindexStmt.relation) &&&
  COMPARE_STRING_FIELD a.(ReindexStmt.name) b.(ReindexStmt.name) &&&
  COMPARE_SCALAR_FIELD a.(ReindexStmt.options) b.(ReindexStmt.options) &&&
  COMPARE_SCALAR_FIELD a.(ReindexStmt.concurrent) b.(ReindexStmt.concurrent) &&& Ok true.

Definition _equalCreateConversionStmt (a b : CreateConversionStmt.t Node) : outcome bool :=
  COMPARE_LIST_FIELD a.(CreateConversionStmt.conversion_name) b.(CreateConversionStmt.conversion_name) &&&
  COMPARE_STRING_FIELD a.(CreateConversionStmt.for_encoding_name) b.(CreateConversionStmt.for_encoding_name) &&&
  COMPARE_STRING_FIELD a.(CreateConversionStmt.to_encoding_name) b.(CreateConversionStmt.to_encoding_name) &&&
  COMPARE_LIST_FIELD a.(CreateConversionStmt.func_name) b.(CreateConversionStmt.func_name) &&&
  COMPARE_SCALAR_FIELD a.(CreateConversionStmt.def) b.(CreateConversionStmt.def) &&& Ok true.

Definition _equalCreateCastStmt (a b : CreateCastStmt.t Node) : outcome bool :=
  COMPARE_STRUCT_FIELD _equalTypeName a.(CreateCastStmt.sourcetype) b.(CreateCastStmt.sourcetype) &&&
  COMPARE_STRUCT_FIELD _equalTypeName a.(CreateCastStmt.targettype) b.(CreateCastStmt.targettype) &&&
  COMPARE_STRUCT_FIELD _equalObjectWithArgs a.(CreateCastStmt.func) b.(CreateCastStmt.func) &&&
  COMPARE_SCALAR_FIELD a.(CreateCastStmt.context) b.(CreateCastStmt.context) &&&
  COMPARE_SCALAR_FIELD a.(CreateCastStmt.inout) b.(CreateCastStmt.inout) &&& Ok true.

Definition _equalCreateTransformStmt (a b : CreateTransformStmt.t Node) : outcome bool :=
  COMPARE_SCALAR_FIELD a.(CreateTransformStmt.replace) b.(CreateTransformStmt.replace) &&&
  COMPARE_STRUCT_FIELD _equalTypeName a.(CreateTransformStmt.type_name) b.(CreateTransformStmt.type_name) &&&
  COMPARE_STRING_FIELD a.(CreateTransformStmt.lang) b.(CreateTransformStmt.lang) &&&
  COMPARE_STRUCT_FIELD _equalObjectWithArgs a.(CreateTransformStmt.fromsql) b.(CreateTransformStmt.fromsql) &&&
  COMPARE_STRUCT_FIELD _equalObjectWithArgs a.(CreateTransformStmt.tosql) b.(CreateTransformStmt.tosql) &&&
  Ok true.

Definition _equalPrepareStmt (a b : PrepareStmt.t Node) : outcome bool :=
  COMPARE_STRING_FIELD a.(PrepareStmt.name) b.(PrepareStmt.name) &&&
  COMPARE_LIST_FIELD a.(PrepareStmt.argtypes) b.(PrepareStmt.argtypes) &&&
  COMPARE_NODE_FIELD a.(PrepareStmt.query) b.(PrepareStmt.query) &&& Ok true.

Definition _equalExecuteStmt (a b : ExecuteStmt.t Node) : outcome bool :=
  COMPARE_STRING_FIELD a.(ExecuteStmt.name) b.(ExecuteStmt.name) &&&
  COMPARE_LIST_FIELD a.(ExecuteStmt.params) b.(ExecuteStmt.params) &&& Ok true.

Definition _equalDeallocateStmt (a b : DeallocateStmt.t Node) : outcome bool :=
  COMPARE_STRING_FIELD a.(DeallocateStmt.name) b.(DeallocateStmt.name) &&& Ok true.

Definition _equalDropOwnedStmt (a b : DropOwnedStmt.t Node) : outcome bool :=
  COMPARE_LIST_FIELD a.(DropOwnedStmt.roles) b.(DropOwnedStmt.roles) &&&
  COMPARE_SCALAR_FIELD a.(DropOwnedStmt.behavior) b.(DropOwnedStmt.behavior) &&& Ok true.

Definition _equalReassignOwnedStmt (a b : ReassignOwnedStmt.t Node) : outcome bool :=
  COMPARE_LIST_FIELD a.(ReassignOwnedStmt.roles) b.(ReassignOwnedStmt.roles) &&&
  COMPARE_STRUCT_FIELD _equalRoleSpec a.(ReassignOwnedStmt.newrole) b.(ReassignOwnedStmt.newrole) &&&
  Ok true.

Definition _equalAlterTSDictionaryStmt (a b : AlterTSDictionaryStmt.t Node) : outcome bool :=
  COMPARE_LIST_FIELD a.(AlterTSDictionaryStmt.dictname) b.(AlterTSDictionaryStmt.dictname) &&&
  COMPARE_LIST_FIELD a.(AlterTSDictionaryStmt.options) b.(AlterTSDictionaryStmt.options) &&&
  Ok true.

Definition _equalAlterTSConfigurationStmt (a b : AlterTSConfigurationStmt.t Node) : outcome bool :=
  COMPARE_SCALAR_FIELD a.(AlterTSConfigurationStmt.kind) b.(AlterTSConfigurationStmt.kind) &&&
  COMPARE_LIST_FIELD a.(AlterTSConfigurationStmt.cfgname) b.(AlterTSConfigurationStmt.cfgname) &&&
  COMPARE_LIST_FIELD a.(AlterTSConfigurationStmt.tokentype) b.(AlterTSConfigurationStmt.tokentype) &&&
  COMPARE_LIST_FIELD a.(AlterTSConfigurationStmt.dicts) b.(AlterTSConfigurationStmt.dicts) &&&
  COMPARE_SCALAR_FIELD a.(AlterTSConfigurationStmt.override) b.(AlterTSConfigurationStmt.override) &&&
  COMPARE_SCALAR_FIELD a.(AlterTSConfigurationStmt.replace) b.(AlterTSConfigurationStmt.replace) &&&
  COMPARE_SCALAR_FIELD a.(AlterTSConfigurationStmt.missing_ok) b.(AlterTSConfigurationStmt.missing_ok) &&&
  Ok true.

Definition _equalCreatePublicationStmt (a b : CreatePublicationStmt.t Node) : outcome bool :=
  COMPARE_STRING_FIELD a.(CreatePublicationStmt.pubname) b.(CreatePublicationStmt.pubname) &&&
  COMPARE_LIST_FIELD a.(CreatePublicationStmt.options) b.(CreatePublicationStmt.options) &&&
  COMPARE_LIST_FIELD a.(CreatePublicationStmt.tables) b.(CreatePublicationStmt.tables) &&&
  COMPARE_SCALAR_FIELD a.(CreatePublicationStmt.for_all_tables) b.(CreatePublicationStmt.for_all_tables) &&&
  Ok true.

Definition _equalAlterPublicationStmt (a b : AlterPublicationStmt.t Node) : outcome bool :=
  COMPARE_STRING_FIELD a.(AlterPublicationStmt.pubname) b.(AlterPublicationStmt.pubname) &&&
  COMPARE_LIST_FIELD a.(AlterPublicationStmt.options) b.(AlterPublicationStmt.options) &&&
  COMPARE_LIST_FIELD a.(AlterPublicationStmt.tables) b.(AlterPublicationStmt.tables) &&&
  COMPARE_SCALAR_FIELD a.(AlterPublicationStmt.for_all_tables) b.(AlterPublicationStmt.for_all_tables) &&&
  COMPARE_SCALAR_FIELD a.(AlterPublicationStmt.tableAction) b.(AlterPublicationStmt.tableAction) &&&
  Ok true.

Definition _equalCreateSubscriptionStmt (a b : CreateSubscriptionStmt.t Node) : outcome bool :=
  COMPARE_STRING_FIELD a.(CreateSubscriptionStmt.subname) b.(CreateSubscriptionStmt.subname) &&&
  COMPARE_STRING_FIELD a.(CreateSubscriptionStmt.conninfo) b.(CreateSubscriptionStmt.conninfo) &&&
  COMPARE_LIST_FIELD a.(CreateSubscriptionStmt.publication) b.(CreateSubscriptionStmt.publication) &&&
  COMPARE_LIST_FIELD a.(CreateSubscriptionStmt.options) b.(CreateSubscriptionStmt.options) &&&
  Ok true.

Definition _equalAlterSubscriptionStmt (a b : AlterSubscriptionStmt.t Node) : outcome bool :=
  COMPARE_SCALAR_FIELD a.(AlterSubscriptionStmt.kind) b.(AlterSubscriptionStmt.kind) &&&
  COMPARE_STRING_FIELD a.(AlterSubscriptionStmt.subname) b.(AlterSubscriptionStmt.subname) &&&
  COMPARE_STRING_FIELD a.(AlterSubscriptionStmt.conninfo) b.(AlterSubscriptionStmt.conninfo) &&&
  COMPARE_LIST_FIELD a.(AlterSubscriptionStmt.publication) b.(AlterSubscriptionStmt.publication) &&&
  COMPARE_LIST_FIELD a.(AlterSubscriptionStmt.options) b.(AlterSubscriptionStmt.options) &&&
  Ok true.

Definition _equalDropSubscriptionStmt (a b : DropSubscriptionStmt.t Node) : outcome bool :=
  COMPARE_STRING_FIELD a.(DropSubscriptionStmt.subname) b.(DropSubscriptionStmt.subname) &&&
  COMPARE_SCALAR_FIELD a.(DropSubscriptionStmt.missing_ok) b.(DropSubscriptionStmt.missing_ok) &&&
  COMPARE_SCALAR_FIELD a.(DropSubscriptionStmt.behavior) b.(DropSubscriptionStmt.behavior) &&&
  Ok true.

(** The switch of [equal], after the comparison of the tags: [with_X b k] is false for a
    node [b] of another kind. *)
Definition with_RangeVar (b : Node) (k : RangeVar.t Node -> outcome bool) : outcome bool :=
  match b with N_RangeVar y => k y | _ => Ok false end.
Definition with_Alias (b : Node) (k : Alias.t Node -> outcome bool) : outcome bool :=
  match b with N_Alias y => k y | _ => Ok false end.
Definition with_TypeName (b : Node) (k : TypeName.t Node -> outcome bool) : outcome bool :=
  match b with N_TypeName y => k y | _ => Ok false end.
Definition with_ColumnRef (b : Node) (k : ColumnRef.t Node -> outcome bool) : outcome bool :=
  match b with N_ColumnRef y => k y | _ => Ok false end.
Definition with_ParamRef (b : Node) (k : ParamRef.t Node -> outcome bool) : outcome bool :=
  match b with N_ParamRef y => k y | _ => Ok false end.
Definition with_A_Expr (b : Node) (k : A_Expr.t Node -> outcome bool) : outcome bool :=
  match b with N_A_Expr y => k y | _ => Ok false end.
Definition with_A_Const (b : Node) (k : A_Const.t Node -> outcome bool) : outcome bool :=
  match b with N_A_Const y => k y | _ => Ok false end.
Definition with_TypeCast (b : Node) (k : TypeCast.t Node -> outcome bool) : outcome bool :=
  match b with N_TypeCast y => k y | _ => Ok false end.
Definition with_CollateClause (b : Node) (k : CollateClause.t Node -> outcome bool) : outcome bool :=
  match b with N_CollateClause y => k y | _ => Ok false end.
Definition with_RoleSpec (b : Node) (k : RoleSpec.t Node -> outcome bool) : outcome bool :=
  match b with N_RoleSpec y => k y | _ => Ok false end.
Definition with_WindowDef (b : Node) (k : WindowDef.t Node -> outcome bool) : outcome bool :=
  match b with N_WindowDef y => k y | _ => Ok false end.
Definition with_SortBy (b : Node) (k : SortBy.t Node -> outcome bool) : outcome bool :=
  match b with N_SortBy y => k y | _ => Ok false end.
Definition with_FuncCall (b : Node) (k : FuncCall.t Node -> outcome bool) : outcome bool :=
  match b with N_FuncCall y => k y | _ => Ok false end.
Definition with_A_Star (b : Node) (k : A_Star.t Node -> outcome bool) : outcome bool :=
  match b with N_A_Star y => k y | _ => Ok false end.
Definition with_A_Indices (b : Node) (k : A_Indices.t Node -> outcome bool) : outcome bool :=
  match b with N_A_Indices y => k y | _ => Ok false end.
Definition with_A_Indirection (b : Node) (k : A_Indirection.t Node -> outcome bool) : outcome bool :=
  match b with N_A_Indirection y => k y | _ => Ok false end.
Definition with_A_ArrayExpr (b : Node) (k : A_ArrayExpr.t Node -> outcome bool) : outcome bool :=
  match b with N_A_ArrayExpr y => k y | _ => Ok false end.
Definition with_ResTarget (b : Node) (k : ResTarget.t Node -> outcome bool) : outcome bool :=
  match b with N_ResTarget y => k y | _ => Ok false end.
Definition with_MultiAssignRef (b : Node) (k : MultiAssignRef.t Node -> outcome bool) : outcome bool :=
  match b with N_MultiAssignRef y => k y | _ => Ok false end.
Definition with_NamedArgExpr (b : Node) (k : NamedArgExpr.t Node -> outcome bool) : outcome bool :=
  match b with N_NamedArgExpr y => k y | _ => Ok false end.
Definition with_BoolExpr (b : Node) (k : BoolExpr.t Node -> outcome bool) : outcome bool :=
  match b with N_BoolExpr y => k y | _ => Ok false end.
Definition with_SubLink (b : Node) (k : SubLink.t Node -> outcome bool) : outcome bool :=
  match b with N_SubLink y => k y | _ => Ok false end.
Definition with_CaseWhen (b : Node) (k : CaseWhen.t Node -> outcome bool) : outcome bool :=
  match b with N_CaseWhen y => k y | _ => Ok false end.
Definition with_CaseExpr (b : Node) (k : CaseExpr.t Node -> outcome bool) : outcome bool :=
  match b with N_CaseExpr y => k y | _ => Ok false end.
Definition with_RowExpr (b : Node) (k : RowExpr.t Node -> outcome bool) : outcome bool :=
  match b with N_RowExpr y => k y | _ => Ok false end.
Definition with_CoalesceExpr (b : Node) (k : CoalesceExpr.t Node -> outcome bool) : outcome bool :=
  match b with N_CoalesceExpr y => k y | _ => Ok false end.
Definition with_MinMaxExpr (b : Node) (k : MinMaxExpr.t Node -> outcome bool) : outcome bool :=
  match b with N_MinMaxExpr y => k y | _ => Ok false end.
Definition with_SQLValueFunction (b : Node) (k : SQLValueFunction.t Node -> outcome bool) : outcome bool :=
  match b with N_SQLValueFunction y => k y | _ => Ok false end.
Definition with_XmlExpr (b : Node) (k : XmlExpr.t Node -> outcome bool) : outcome bool :=
  match b with N_XmlExpr y => k y | _ => Ok false end.
Definition with_XmlSerialize (b : Node) (k : XmlSerialize.t Node -> outcome bool) : outcome bool :=
  match b with N_XmlSerialize y => k y | _ => Ok false end.
Definition with_NullTest (b : Node) (k : NullTest.t Node -> outcome bool) : outcome bool :=
  match b with N_NullTest y => k y | _ => Ok false end.
Definition with_BooleanTest (b : Node) (k : BooleanTest.t Node -> outcome bool) : outcome bool :=
  match b with N_BooleanTest y => k y | _ => Ok false end.
Definition with_SetToDefault (b : Node) (k : SetToDefault.t Node -> outcome bool) : outcome bool :=
  match b with N_SetToDefault y => k y | _ => Ok false end.
Definition with_CurrentOfExpr (b : Node) (k : CurrentOfExpr.t Node -> outcome bool) : outcome bool :=
  match b with N_CurrentOfExpr y => k y | _ => Ok false end.
Definition with_GroupingFunc (b : Node) (k : GroupingFunc.t Node -> outcome bool) : outcome bool :=
  match b with N_GroupingFunc y => k y | _ => Ok false end.
Definition with_DefElem (b : Node) (k : DefElem.t Node -> outcome bool) : outcome bool :=
  match b with N_DefElem y => k y | _ => Ok false end.
Definition with_IndexElem (b : Node) (k : IndexElem.t Node -> outcome bool) : outcome bool :=
  match b with N_IndexElem y => k y | _ => Ok false end.
Definition with_Constraint (b : Node) (k : Constraint.t Node -> outcome bool) : outcome bool :=
  match b with N_Constraint y => k y | _ => Ok false end.
Definition with_ColumnDef (b : Node) (k : ColumnDef.t Node -> outcome bool) : outcome bool :=
  match b with N_ColumnDef y => k y | _ => Ok false end.
Definition with_JoinExpr (b : Node) (k : JoinExpr.t Node -> outcome bool) : outcome bool :=
  match b with N_JoinExpr y => k y | _ => Ok false end.
Definition with_RangeSubselect (b : Node) (k : RangeSubselect.t Node -> outcome bool) : outcome bool :=
  match b with N_RangeSubselect y => k y | _ => Ok false end.
Definition with_RangeFunction (b : Node) (k : RangeFunction.t Node -> outcome bool) : outcome bool :=
  match b with N_RangeFunction y => k y | _ => Ok false end.
Definition with_RangeTableFuncCol (b : Node) (k : RangeTableFuncCol.t Node -> outcome bool) : outcome bool :=
  match b with N_RangeTableFuncCol y => k y | _ => Ok false end.
Definition with_RangeTableFunc (b : Node) (k : RangeTableFunc.t Node -> outcome bool) : outcome bool :=
  match b with N_RangeTableFunc y => k y | _ => Ok false end.
Definition with_RangeTableSample (b : Node) (k : RangeTableSample.t Node -> outcome bool) : outcome bool :=
  match b with N_RangeTableSample y => k y | _ => Ok false end.
Definition with_CommonTableExpr (b : Node) (k : CommonTableExpr.t Node -> outcome bool) : outcome bool :=
  match b with N_CommonTableExpr y => k y | _ => Ok false end.
Definition with_WithClause (b : Node) (k : WithClause.t Node -> outcome bool) : outcome bool :=
  match b with N_WithClause y => k y | _ => Ok false end.
Definition with_InferClause (b : Node) (k : InferClause.t Node -> outcome bool) : outcome bool :=
  match b with N_InferClause y => k y | _ => Ok false end.
Definition with_OnConflictClause (b : Node) (k : OnConflictClause.t Node -> outcome bool) : outcome bool :=
  match b with N_OnConflictClause y => k y | _ => Ok false end.
Definition with_LockingClause (b : Node) (k : LockingClause.t Node -> outcome bool) : outcome bool :=
  match b with N_LockingClause y => k y | _ => Ok false end.
Definition with_GroupingSet (b : Node) (k : GroupingSet.t Node -> outcome bool) : outcome bool :=
  match b with N_GroupingSet y => k y | _ => Ok false end.
Definition with_IntoClause (b : Node) (k : IntoClause.t Node -> outcome bool) : outcome bool :=
  match b with N_IntoClause y => k y | _ => Ok false end.
Definition with_SelectStmt (b : Node) (k : SelectStmt.t Node -> outcome bool) : outcome bool :=
  match b with N_SelectStmt y => k y | _ => Ok false end.
Definition with_InsertStmt (b : Node) (k : InsertStmt.t Node -> outcome bool) : outcome bool :=
  match b with N_InsertStmt y => k y | _ => Ok false end.
Definition with_UpdateStmt (b : Node) (k : UpdateStmt.t Node -> outcome bool) : outcome bool :=
  match b with N_UpdateStmt y => k y | _ => Ok false end.
Definition with_DeleteStmt (b : Node) (k : DeleteStmt.t Node -> outcome bool) : outcome bool :=
  match b with N_DeleteStmt y => k y | _ => Ok false end.
Definition with_RawStmt (b : Node) (k : RawStmt.t Node -> outcome bool) : outcome bool :=
  match b with N_RawStmt y => k y | _ => Ok false end.
Definition with_AlterTableCmd (b : Node) (k : AlterTableCmd.t Node -> outcome bool) : outcome bool :=
  match b with N_AlterTableCmd y => k y | _ => Ok false end.
Definition with_PartitionBoundSpec (b : Node) (k : PartitionBoundSpec.t Node -> outcome bool) : outcome bool :=
  match b with N_PartitionBoundSpec y => k y | _ => Ok false end.
Definition with_TableLikeClause (b : Node) (k : TableLikeClause.t Node -> outcome bool) : outcome bool :=
  match b with N_TableLikeClause y => k y | _ => Ok false end.
Definition with_PartitionElem (b : Node) (k : PartitionElem.t Node -> outcome bool) : outcome bool :=
  match b with N_PartitionElem y => k y | _ => Ok false end.
Definition with_PartitionSpec (b : Node) (k : PartitionSpec.t Node -> outcome bool) : outcome bool :=
  match b with N_PartitionSpec y => k y | _ => Ok false end.
Definition with_PartitionCmd (b : Node) (k : PartitionCmd.t Node -> outcome bool) : outcome bool :=
  match b with N_PartitionCmd y => k y | _ => Ok false end.
Definition with_TriggerTransition (b : Node) (k : TriggerTransition.t Node -> outcome bool) : outcome bool :=
  match b with N_TriggerTransition y => k y | _ => Ok false end.
Definition with_CreateSchemaStmt (b : Node) (k : CreateSchemaStmt.t Node -> outcome bool) : outcome bool :=
  match b with N_CreateSchemaStmt y => k y | _ => Ok false end.
Definition with_AlterTableStmt (b : Node) (k : AlterTableStmt.t Node -> outcome bool) : outcome bool :=
  match b with N_AlterTableStmt y => k y | _ => Ok false end.
Definition with_ReplicaIdentityStmt (b : Node) (k : ReplicaIdentityStmt.t Node -> outcome bool) : outcome bool :=
  match b with N_ReplicaIdentityStmt y => k y | _ => Ok false end.
Definition with_AlterCollationStmt (b : Node) (k : AlterCollationStmt.t Node -> outcome bool) : outcome bool :=
  match b with N_AlterCollationStmt y => k y | _ => Ok false end.
Definition with_AlterDomainStmt (b : Node) (k : AlterDomainStmt.t Node -> outcome bool) : outcome bool :=
  match b with N_AlterDomainStmt y => k y | _ => Ok false end.
Definition with_GrantStmt (b : Node) (k : GrantStmt.t Node -> outcome bool) : outcome bool :=
  match b with N_GrantStmt y => k y | _ => Ok false end.
Definition with_ObjectWithArgs (b : Node) (k : ObjectWithArgs.t Node -> outcome bool) : outcome bool :=
  match b with N_ObjectWithArgs y => k y | _ => Ok false end.
Definition with_AccessPriv (b : Node) (k : AccessPriv.t Node -> outcome bool) : outcome bool :=
  match b with N_AccessPriv y => k y | _ => Ok false end.
Definition with_GrantRoleStmt (b : Node) (k : GrantRoleStmt.t Node -> outcome bool) : outcome bool :=
  match b with N_GrantRoleStmt y => k y | _ => Ok false end.
Definition with_AlterDefaultPrivilegesStmt (b : Node) (k : AlterDefaultPrivilegesStmt.t Node -> outcome bool) : outcome bool :=
  match b with N_AlterDefaultPrivilegesStmt y => k y | _ => Ok false end.
Definition with_CopyStmt (b : Node) (k : CopyStmt.t Node -> outcome bool) : outcome bool :=
  match b with N_CopyStmt y => k y | _ => Ok false end.
Definition with_VariableSetStmt (b : Node) (k : VariableSetStmt.t Node -> outcome bool) : outcome bool :=
  match b with N_VariableSetStmt y => k y | _ => Ok false end.
Definition with_VariableShowStmt (b : Node) (k : VariableShowStmt.t Node -> outcome bool) : outcome bool :=
  match b with N_VariableShowStmt y => k y | _ => Ok false end.
Definition with_CreateStmt (b : Node) (k : CreateStmt.t Node -> outcome bool) : outcome bool :=
  match b with N_CreateStmt y => k y | _ => Ok false end.
Definition with_CreateTableSpaceStmt (b : Node) (k : CreateTableSpaceStmt.t Node -> outcome bool) : outcome bool :=
  match b with N_CreateTableSpaceStmt y => k y | _ => Ok false end.
Definition with_DropTableSpaceStmt (b : Node) (k : DropTableSpaceStmt.t Node -> outcome bool) : outcome bool :=
  match b with N_DropTableSpaceStmt y => k y | _ => Ok false end.
Definition with_AlterTableSpaceOptionsStmt (b : Node) (k : AlterTableSpaceOptionsStmt.t Node -> outcome bool) : outcome bool :=
  match b with N_AlterTableSpaceOptionsStmt y => k y | _ => Ok false end.
Definition with_AlterTableMoveAllStmt (b : Node) (k : AlterTableMoveAllStmt.t Node -> outcome bool) : outcome bool :=
  match b with N_AlterTableMoveAllStmt y => k y | _ => Ok false end.
Definition with_CreateExtensionStmt (b : Node) (k : CreateExtensionStmt.t Node -> outcome bool) : outcome bool :=
  match b with N_CreateExtensionStmt y => k y | _ => Ok false end.
Definition with_AlterExtensionStmt (b : Node) (k : AlterExtensionStmt.t Node -> outcome bool) : outcome bool :=
  match b with N_AlterExtensionStmt y => k y | _ => Ok false end.
Definition with_AlterExtensionContentsStmt (b : Node) (k : AlterExtensionContentsStmt.t Node -> outcome bool) : outcome bool :=
  match b with N_AlterExtensionContentsStmt y => k y | _ => Ok false end.
Definition with_CreateFdwStmt (b : Node) (k : CreateFdwStmt.t Node -> outcome bool) : outcome bool :=
  match b with N_CreateFdwStmt y => k y | _ => Ok false end.
Definition with_AlterFdwStmt (b : Node) (k : AlterFdwStmt.t Node -> outcome bool) : outcome bool :=
  match b with N_AlterFdwStmt y => k y | _ => Ok false end.
Definition with_CreateForeignServerStmt (b : Node) (k : CreateForeignServerStmt.t Node -> outcome bool) : outcome bool :=
  match b with N_CreateForeignServerStmt y => k y | _ => Ok false end.
Definition with_AlterForeignServerStmt (b : Node) (k : AlterForeignServerStmt.t Node -> outcome bool) : outcome bool :=
  match b with N_AlterForeignServerStmt y => k y | _ => Ok false end.
Definition with_CreateForeignTableStmt (b : Node) (k : CreateForeignTableStmt.t Node -> outcome bool) : outcome bool :=
  match b with N_CreateForeignTableStmt y => k y | _ => Ok false end.
Definition with_CreateUserMappingStmt (b : Node) (k : CreateUserMappingStmt.t Node -> outcome bool) : outcome bool :=
  match b with N_CreateUserMappingStmt y => k y | _ => Ok false end.
Definition with_AlterUserMappingStmt (b : Node) (k : AlterUserMappingStmt.t Node -> outcome bool) : outcome bool :=
  match b with N_AlterUserMappingStmt y => k y | _ => Ok false end.
Definition with_DropUserMappingStmt (b : Node) (k : DropUserMappingStmt.t Node -> outcome bool) : outcome bool :=
  match b with N_DropUserMappingStmt y => k y | _ => Ok false end.
Definition with_ImportForeignSchemaStmt (b : Node) (k : ImportForeignSchemaStmt.t Node -> outcome bool) : outcome bool :=
  match b with N_ImportForeignSchemaStmt y => k y | _ => Ok false end.
Definition with_CreatePolicyStmt (b : Node) (k : CreatePolicyStmt.t Node -> outcome bool) : outcome bool :=
  match b with N_CreatePolicyStmt y => k y | _ => Ok false end.
Definition with_AlterPolicyStmt (b : Node) (k : AlterPolicyStmt.t Node -> outcome bool) : outcome bool :=
  match b with N_AlterPolicyStmt y => k y | _ => Ok false end.
Definition with_CreateAmStmt (b : Node) (k : CreateAmStmt.t Node -> outcome bool) : outcome bool :=
  match b with N_CreateAmStmt y => k y | _ => Ok false end.
Definition with_CreateTrigStmt (b : Node) (k : CreateTrigStmt.t Node -> outcome bool) : outcome bool :=
  match b with N_CreateTrigStmt y => k y | _ => Ok false end.
Definition with_CreateEventTrigStmt (b : Node) (k : CreateEventTrigStmt.t Node -> outcome bool) : outcome bool :=
  match b with N_CreateEventTrigStmt y => k y | _ => Ok false end.
Definition with_AlterEventTrigStmt (b : Node) (k : AlterEventTrigStmt.t Node -> outcome bool) : outcome bool :=
  match b with N_AlterEventTrigStmt y => k y | _ => Ok false end.
Definition with_CreatePLangStmt (b : Node) (k : CreatePLangStmt.t Node -> outcome bool) : outcome bool :=
  match b with N_CreatePLangStmt y => k y | _ => Ok false end.
Definition with_CreateRoleStmt (b : Node) (k : CreateRoleStmt.t Node -> outcome bool) : outcome bool :=
  match b with N_CreateRoleStmt y => k y | _ => Ok false end.
Definition with_AlterRoleStmt (b : Node) (k : AlterRoleStmt.t Node -> outcome bool) : outcome bool :=
  match b with N_AlterRoleStmt y => k y | _ => Ok false end.
Definition with_AlterRoleSetStmt (b : Node) (k : AlterRoleSetStmt.t Node -> outcome bool) : outcome bool :=
  match b with N_AlterRoleSetStmt y => k y | _ => Ok false end.
Definition with_DropRoleStmt (b : Node) (k : DropRoleStmt.t Node -> outcome bool) : outcome bool :=
  match b with N_DropRoleStmt y => k y | _ => Ok false end.
Definition with_CreateSeqStmt (b : Node) (k : CreateSeqStmt.t Node -> outcome bool) : outcome bool :=
  match b with N_CreateSeqStmt y => k y | _ => Ok false end.
Definition with_AlterSeqStmt (b : Node) (k : AlterSeqStmt.t Node -> outcome bool) : outcome bool :=
  match b with N_AlterSeqStmt y => k y | _ => Ok false end.
Definition with_DefineStmt (b : Node) (k : DefineStmt.t Node -> outcome bool) : outcome bool :=
  match b with N_DefineStmt y => k y | _ => Ok false end.
Definition with_CreateDomainStmt (b : Node) (k : CreateDomainStmt.t Node -> outcome bool) : outcome bool :=
  match b with N_CreateDomainStmt y => k y | _ => Ok false end.
Definition with_CreateOpClassStmt (b : Node) (k : CreateOpClassStmt.t Node -> outcome bool) : outcome bool :=
  match b with N_CreateOpClassStmt y => k y | _ => Ok false end.
Definition with_CreateOpClassItem (b : Node) (k : CreateOpClassItem.t Node -> outcome bool) : outcome bool :=
  match b with N_CreateOpClassItem y => k y | _ => Ok false end.
Definition with_CreateOpFamilyStmt (b : Node) (k : CreateOpFamilyStmt.t Node -> outcome bool) : outcome bool :=
  match b with N_CreateOpFamilyStmt y => k y | _ => Ok false end.
Definition with_AlterOpFamilyStmt (b : Node) (k : AlterOpFamilyStmt.t Node -> outcome bool) : outcome bool :=
  match b with N_AlterOpFamilyStmt y => k y | _ => Ok false end.
Definition with_DropStmt (b : Node) (k : DropStmt.t Node -> outcome bool) : outcome bool :=
  match b with N_DropStmt y => k y | _ => Ok false end.
Definition with_TruncateStmt (b : Node) (k : TruncateStmt.t Node -> outcome bool) : outcome bool :=
  match b with N_TruncateStmt y => k y | _ => Ok false end.
Definition with_CommentStmt (b : Node) (k : CommentStmt.t Node -> outcome bool) : outcome bool :=
  match b with N_CommentStmt y => k y | _ => Ok false end.
Definition with_SecLabelStmt (b : Node) (k : SecLabelStmt.t Node -> outcome bool) : outcome bool :=
  match b with N_SecLabelStmt y => k y | _ => Ok false end.
Definition with_DeclareCursorStmt (b : Node) (k : DeclareCursorStmt.t Node -> outcome bool) : outcome bool :=
  match b with N_DeclareCursorStmt y => k y | _ => Ok false end.
Definition with_ClosePortalStmt (b : Node) (k : ClosePortalStmt.t Node -> outcome bool) : outcome bool :=
  match b with N_ClosePortalStmt y => k y | _ => Ok false end.
Definition with_FetchStmt (b : Node) (k : FetchStmt.t Node -> outcome bool) : outcome bool :=
  match b with N_FetchStmt y => k y | _ => Ok false end.
Definition with_IndexStmt (b : Node) (k : IndexStmt.t Node -> outcome bool) : outcome bool :=
  match b with N_IndexStmt y => k y | _ => Ok false end.
Definition with_CreateStatsStmt (b : Node) (k : CreateStatsStmt.t Node -> outcome bool) : outcome bool :=
  match b with N_CreateStatsStmt y => k y | _ => Ok false end.
Definition with_AlterStatsStmt (b : Node) (k : AlterStatsStmt.t Node -> outcome bool) : outcome bool :=
  match b with N_AlterStatsStmt y => k y | _ => Ok false end.
Definition with_CreateFunctionStmt (b : Node) (k : CreateFunctionStmt.t Node -> outcome bool) : outcome bool :=
  match b with N_CreateFunctionStmt y => k y | _ => Ok false end.
Definition with_FunctionParameter (b : Node) (k : FunctionParameter.t Node -> outcome bool) : outcome bool :=
  match b with N_FunctionParameter y => k y | _ => Ok false end.
Definition with_AlterFunctionStmt (b : Node) (k : AlterFunctionStmt.t Node -> outcome bool) : outcome bool :=
  match b with N_AlterFunctionStmt y => k y | _ => Ok false end.
Definition with_DoStmt (b : Node) (k : DoStmt.t Node -> outcome bool) : outcome bool :=
  match b with N_DoStmt y => k y | _ => Ok false end.
Definition with_CallStmt (b : Node) (k : CallStmt.t Node -> outcome bool) : outcome bool :=
  match b with N_CallStmt y => k y | _ => Ok false end.
Definition with_RenameStmt (b : Node) (k : RenameStmt.t Node -> outcome bool) : outcome bool :=
  match b with N_RenameStmt y => k y | _ => Ok false end.
Definition with_AlterObjectDependsStmt (b : Node) (k : AlterObjectDependsStmt.t Node -> outcome bool) : outcome bool :=
  match b with N_AlterObjectDependsStmt y => k y | _ => Ok false end.
Definition with_AlterObjectSchemaStmt (b : Node) (k : AlterObjectSchemaStmt.t Node -> outcome bool) : outcome bool :=
  match b with N_AlterObjectSchemaStmt y => k y | _ => Ok false end.
Definition with_AlterOwnerStmt (b : Node) (k : AlterOwnerStmt.t Node -> outcome bool) : outcome bool :=
  match b with N_AlterOwnerStmt y => k y | _ => Ok false end.
Definition with_AlterOperatorStmt (b : Node) (k : AlterOperatorStmt.t Node -> outcome bool) : outcome bool :=
  match b with N_AlterOperatorStmt y => k y | _ => Ok false end.
Definition with_AlterTypeStmt (b : Node) (k : AlterTypeStmt.t Node -> outcome bool) : outcome bool :=
  match b with N_AlterTypeStmt y => k y | _ => Ok false end.
Definition with_RuleStmt (b : Node) (k : RuleStmt.t Node -> outcome bool) : outcome bool :=
  match b with N_RuleStmt y => k y | _ => Ok false end.
Definition with_NotifyStmt (b : Node) (k : NotifyStmt.t Node -> outcome bool) : outcome bool :=
  match b with N_NotifyStmt y => k y | _ => Ok false end.
Definition with_ListenStmt (b : Node) (k : ListenStmt.t Node -> outcome bool) : outcome bool :=
  match b with N_ListenStmt y => k y | _ => Ok false end.
Definition with_UnlistenStmt (b : Node) (k : UnlistenStmt.t Node -> outcome bool) : outcome bool :=
  match b with N_UnlistenStmt y => k y | _ => Ok false end.
Definition with_TransactionStmt (b : Node) (k : TransactionStmt.t Node -> outcome bool) : outcome bool :=
  match b with N_TransactionStmt y => k y | _ => Ok false end.
Definition with_CompositeTypeStmt (b : Node) (k : CompositeTypeStmt.t Node -> outcome bool) : outcome bool :=
  match b with N_CompositeTypeStmt y => k y | _ => Ok false end.
Definition with_CreateEnumStmt (b : Node) (k : CreateEnumStmt.t Node -> outcome bool) : outcome bool :=
  match b with N_CreateEnumStmt y => k y | _ => Ok false end.
Definition with_CreateRangeStmt (b : Node) (k : CreateRangeStmt.t Node -> outcome bool) : outcome bool :=
  match b with N_CreateRangeStmt y => k y | _ => Ok false end.
Definition with_AlterEnumStmt (b : Node) (k : AlterEnumStmt.t Node -> outcome bool) : outcome bool :=
  match b with N_AlterEnumStmt y => k y | _ => Ok false end.
Definition with_ViewStmt (b : Node) (k : ViewStmt.t Node -> outcome bool) : outcome bool :=
  match b with N_ViewStmt y => k y | _ => Ok false end.
Definition with_LoadStmt (b : Node) (k : LoadStmt.t Node -> outcome bool) : outcome bool :=
  match b with N_LoadStmt y => k y | _ => Ok false end.
Definition with_CreatedbStmt (b : Node) (k : CreatedbStmt.t Node -> outcome bool) : outcome bool :=
  match b with N_CreatedbStmt y => k y | _ => Ok false end.
Definition with_AlterDatabaseStmt (b : Node) (k : AlterDatabaseStmt.t Node -> outcome bool) : outcome bool :=
  match b with N_AlterDatabaseStmt y => k y | _ => Ok false end.
Definition with_AlterDatabaseSetStmt (b : Node) (k : AlterDatabaseSetStmt.t Node -> outcome bool) : outcome bool :=
  match b with N_AlterDatabaseSetStmt y => k y | _ => Ok false end.
Definition with_DropdbStmt (b : Node) (k : DropdbStmt.t Node -> outcome bool) : outcome bool :=
  match b with N_DropdbStmt y => k y | _ => Ok false end.
Definition with_AlterSystemStmt (b : Node) (k : AlterSystemStmt.t Node -> outcome bool) : outcome bool :=
  match b with N_AlterSystemStmt y => k y | _ => Ok false end.
Definition with_ClusterStmt (b : Node) (k : ClusterStmt.t Node -> outcome bool) : outcome bool :=
  match b with N_ClusterStmt y => k y | _ => Ok false end.
Definition with_VacuumStmt (b : Node) (k : VacuumStmt.t Node -> outcome bool) : outcome bool :=
  match b with N_VacuumStmt y => k y | _ => Ok false end.
Definition with_VacuumRelation (b : Node) (k : VacuumRelation.t Node -> outcome bool) : outcome bool :=
  match b with N_VacuumRelation y => k y | _ => Ok false end.
Definition with_ExplainStmt (b : Node) (k : ExplainStmt.t Node -> outcome bool) : outcome bool :=
  match b with N_ExplainStmt y => k y | _ => Ok false end.
Definition with_CreateTableAsStmt (b : Node) (k : CreateTableAsStmt.t Node -> outcome bool) : outcome bool :=
  match b with N_CreateTableAsStmt y => k y | _ => Ok false end.
Definition with_RefreshMatViewStmt (b : Node) (k : RefreshMatViewStmt.t Node -> outcome bool) : outcome bool :=
  match b with N_RefreshMatViewStmt y => k y | _ => Ok false end.
Definition with_CheckPointStmt (b : Node) (k : CheckPointStmt.t Node -> outcome bool) : outcome bool :=
  match b with N_CheckPointStmt y => k y | _ => Ok false end.
Definition with_DiscardStmt (b : Node) (k : DiscardStmt.t Node -> outcome bool) : outcome bool :=
  match b with N_DiscardStmt y => k y | _ => Ok false end.
Definition with_LockStmt (b : Node) (k : LockStmt.t Node -> outcome bool) : outcome bool :=
  match b with N_LockStmt y => k y | _ => Ok false end.
Definition with_ConstraintsSetStmt (b : Node) (k : ConstraintsSetStmt.t Node -> outcome bool) : outcome bool :=
  match b with N_ConstraintsSetStmt y => k y | _ => Ok false end.
Definition with_ReindexStmt (b : Node) (k : ReindexStmt.t Node -> outcome bool) : outcome bool :=
  match b with N_ReindexStmt y => k y | _ => Ok false end.
Definition with_CreateConversionStmt (b : Node) (k : CreateConversionStmt.t Node -> outcome bool) : outcome bool :=
  match b with N_CreateConversionStmt y => k y | _ => Ok false end.
Definition with_CreateCastStmt (b : Node) (k : CreateCastStmt.t Node -> outcome bool) : outcome bool :=
  match b with N_CreateCastStmt y => k y | _ => Ok false end.
Definition with_CreateTransformStmt (b : Node) (k : CreateTransformStmt.t Node -> outcome bool) : outcome bool :=
  match b with N_CreateTransformStmt y => k y | _ => Ok false end.
Definition with_PrepareStmt (b : Node) (k : PrepareStmt.t Node -> outcome bool) : outcome bool :=
  match b with N_PrepareStmt y => k y | _ => Ok false end.
Definition with_ExecuteStmt (b : Node) (k : ExecuteStmt.t Node -> outcome bool) : outcome bool :=
  match b with N_ExecuteStmt y => k y | _ => Ok false end.
Definition with_DeallocateStmt (b : Node) (k : DeallocateStmt.t Node -> outcome bool) : outcome bool :=
  match b with N_DeallocateStmt y => k y | _ => Ok false end.
Definition with_DropOwnedStmt (b : Node) (k : DropOwnedStmt.t Node -> outcome bool) : outcome bool :=
  match b with N_DropOwnedStmt y => k y | _ => Ok false end.
Definition with_ReassignOwnedStmt (b : Node) (k : ReassignOwnedStmt.t Node -> outcome bool) : outcome bool :=
  match b with N_ReassignOwnedStmt y => k y | _ => Ok false end.
Definition with_AlterTSDictionaryStmt (b : Node) (k : AlterTSDictionaryStmt.t Node -> outcome bool) : outcome bool :=
  match b with N_AlterTSDictionaryStmt y => k y | _ => Ok false end.
Definition with_AlterTSConfigurationStmt (b : Node) (k : AlterTSConfigurationStmt.t Node -> outcome bool) : outcome bool :=
  match b with N_AlterTSConfigurationStmt y => k y | _ => Ok false end.
Definition with_CreatePublicationStmt (b : Node) (k : CreatePublicationStmt.t Node -> outcome bool) : outcome bool :=
  match b with N_CreatePublicationStmt y => k y | _ => Ok false end.
Definition with_AlterPublicationStmt (b : Node) (k : AlterPublicationStmt.t Node -> outcome bool) : outcome bool :=
  match b with N_AlterPublicationStmt y => k y | _ => Ok false end.
Definition with_CreateSubscriptionStmt (b : Node) (k : CreateSubscriptionStmt.t Node -> outcome bool) : outcome bool :=
  match b with N_CreateSubscriptionStmt y => k y | _ => Ok false end.
Definition with_AlterSubscriptionStmt (b : Node) (k : AlterSubscriptionStmt.t Node -> outcome bool) : outcome bool :=
  match b with N_AlterSubscriptionStmt y => k y | _ => Ok false end.
Definition with_DropSubscriptionStmt (b : Node) (k : DropSubscriptionStmt.t Node -> outcome bool) : outcome bool :=
  match b with N_DropSubscriptionStmt y => k y | _ => Ok false end.
Definition with_FuncExpr (b : Node) (k : FuncExpr.t Node -> outcome bool) : outcome bool :=
  match b with N_FuncExpr y => k y | _ => Ok false end.

Definition equal_body (a b : Node) : outcome bool :=
  match a with
  | N_List l => match b with N_List l' => COMPARE_LIST_FIELD l l' | _ => Ok false end
  | N_Value v => match b with N_Value v' => same (_equalValue v v') | _ => Ok false end
  | N_RangeVar x => with_RangeVar b (_equalRangeVar x)
  | N_Alias x => with_Alias b (_equalAlias x)
  | N_TypeName x => with_TypeName b (_equalTypeName x)
  | N_ColumnRef x => with_ColumnRef b (_equalColumnRef x)
  | N_ParamRef x => with_ParamRef b (_equalParamRef x)
  | N_A_Expr x => with_A_Expr b (_equalAExpr x)
  | N_A_Const x => with_A_Const b (_equalAConst x)
  | N_TypeCast x => with_TypeCast b (_equalTypeCast x)
  | N_CollateClause x => with_CollateClause b (_equalCollateClause x)
  | N_RoleSpec x => with_RoleSpec b (_equalRoleSpec x)
  | N_WindowDef x => with_WindowDef b (_equalWindowDef x)
  | N_SortBy x => with_SortBy b (_equalSortBy x)
  | N_FuncCall x => with_FuncCall b (_equalFuncCall x)
  | N_A_Star x => with_A_Star b (_equalAStar x)
  | N_A_Indices x => with_A_Indices b (_equalAIndices x)
  | N_A_Indirection x => with_A_Indirection b (_equalA_Indirection x)
  | N_A_ArrayExpr x => with_A_ArrayExpr b (_equalA_ArrayExpr x)
  | N_ResTarget x => with_ResTarget b (_equalResTarget x)
  | N_MultiAssignRef x => with_MultiAssignRef b (_equalMultiAssignRef x)
  | N_NamedArgExpr x => with_NamedArgExpr b (_equalNamedArgExpr x)
  | N_BoolExpr x => with_BoolExpr b (_equalBoolExpr x)
  | N_SubLink x => with_SubLink b (_equalSubLink x)
  | N_CaseWhen x => with_CaseWhen b (_equalCaseWhen x)
  | N_CaseExpr x => with_CaseExpr b (_equalCaseExpr x)
  | N_RowExpr x => with_RowExpr b (_equalRowExpr x)
  | N_CoalesceExpr x => with_CoalesceExpr b (_equalCoalesceExpr x)
  | N_MinMaxExpr x => with_MinMaxExpr b (_equalMinMaxExpr x)
  | N_SQLValueFunction x => with_SQLValueFunction b (_equalSQLValueFunction x)
  | N_XmlExpr x => with_XmlExpr b (_equalXmlExpr x)
  | N_XmlSerialize x => with_XmlSerialize b (_equalXmlSerialize x)
  | N_NullTest x => with_NullTest b (_equalNullTest x)
  | N_BooleanTest x => with_BooleanTest b (_equalBooleanTest x)
  | N_SetToDefault x => with_SetToDefault b (_equalSetToDefault x)
  | N_CurrentOfExpr x => with_CurrentOfExpr b (_equalCurrentOfExpr x)
  | N_GroupingFunc x => with_GroupingFunc b (_equalGroupingFunc x)
  | N_DefElem x => with_DefElem b (_equalDefElem x)
  | N_IndexElem x => with_IndexElem b (_equalIndexElem x)
  | N_Constraint x => with_Constraint b (_equalConstraint x)
  | N_ColumnDef x => with_ColumnDef b (_equalColumnDef x)
  | N_JoinExpr x => with_JoinExpr b (_equalJoinExpr x)
  | N_RangeSubselect x => with_RangeSubselect b (_equalRangeSubselect x)
  | N_RangeFunction x => with_RangeFunction b (_equalRangeFunction x)
  | N_RangeTableFuncCol x => with_RangeTableFuncCol b (_equalRangeTableFuncCol x)
  | N_RangeTableFunc x => with_RangeTableFunc b (_equalRangeTableFunc x)
  | N_RangeTableSample x => with_RangeTableSample b (_equalRangeTableSample x)
  | N_CommonTableExpr x => with_CommonTableExpr b (_equalCommonTableExpr x)
  | N_WithClause x => with_WithClause b (_equalWithClause x)
  | N_InferClause x => with_InferClause b (_equalInferClause x)
  | N_OnConflictClause x => with_OnConflictClause b (_equalOnConflictClause x)
  | N_LockingClause x => with_LockingClause b (_equalLockingClause x)
  | N_GroupingSet x => with_GroupingSet b (_equalGroupingSet x)
  | N_IntoClause x => with_IntoClause b (_equalIntoClause x)
  | N_SelectStmt x => with_SelectStmt b (_equalSelectStmt x)
  | N_InsertStmt x => with_InsertStmt b (_equalInsertStmt x)
  | N_UpdateStmt x => with_UpdateStmt b (_equalUpdateStmt x)
  | N_DeleteStmt x => with_DeleteStmt b (_equalDeleteStmt x)
  | N_RawStmt x => with_RawStmt b (_equalRawStmt x)
  | N_AlterTableCmd x => with_AlterTableCmd b (_equalAlterTableCmd x)
  | N_PartitionBoundSpec x => with_PartitionBoundSpec b (_equalPartitionBoundSpec x)
  | N_TableLikeClause x => with_TableLikeClause b (_equalTableLikeClause x)
  | N_PartitionElem x => with_PartitionElem b (_equalPartitionElem x)
  | N_PartitionSpec x => with_PartitionSpec b (_equalPartitionSpec x)
  | N_PartitionCmd x => with_PartitionCmd b (_equalPartitionCmd x)
  | N_TriggerTransition x => with_TriggerTransition b (_equalTriggerTransition x)
  | N_CreateSchemaStmt x => with_CreateSchemaStmt b (_equalCreateSchemaStmt x)
  | N_AlterTableStmt x => with_AlterTableStmt b (_equalAlterTableStmt x)
  | N_ReplicaIdentityStmt x => with_ReplicaIdentityStmt b (_equalReplicaIdentityStmt x)
  | N_AlterCollationStmt x => with_AlterCollationStmt b (_equalAlterCollationStmt x)
  | N_AlterDomainStmt x => with_AlterDomainStmt b (_equalAlterDomainStmt x)
  | N_GrantStmt x => with_GrantStmt b (_equalGrantStmt x)
  | N_ObjectWithArgs x => with_ObjectWithArgs b (_equalObjectWithArgs x)
  | N_AccessPriv x => with_AccessPriv b (_equalAccessPriv x)
  | N_GrantRoleStmt x => with_GrantRoleStmt b (_equalGrantRoleStmt x)
  | N_AlterDefaultPrivilegesStmt x => with_AlterDefaultPrivilegesStmt b (_equalAlterDefaultPrivilegesStmt x)
  | N_CopyStmt x => with_CopyStmt b (_equalCopyStmt x)
  | N_VariableSetStmt x => with_VariableSetStmt b (_equalVariableSetStmt x)
  | N_VariableShowStmt x => with_VariableShowStmt b (_equalVariableShowStmt x)
  | N_CreateStmt x => with_CreateStmt b (_equalCreateStmt x)
  | N_CreateTableSpaceStmt x => with_CreateTableSpaceStmt b (_equalCreateTableSpaceStmt x)
  | N_DropTableSpaceStmt x => with_DropTableSpaceStmt b (_equalDropTableSpaceStmt x)
  | N_AlterTableSpaceOptionsStmt x => with_AlterTableSpaceOptionsStmt b (_equalAlterTableSpaceOptionsStmt x)
  | N_AlterTableMoveAllStmt x => with_AlterTableMoveAllStmt b (_equalAlterTableMoveAllStmt x)
  | N_CreateExtensionStmt x => with_CreateExtensionStmt b (_equalCreateExtensionStmt x)
  | N_AlterExtensionStmt x => with_AlterExtensionStmt b (_equalAlterExtensionStmt x)
  | N_AlterExtensionContentsStmt x => with_AlterExtensionContentsStmt b (_equalAlterExtensionContentsStmt x)
  | N_CreateFdwStmt x => with_CreateFdwStmt b (_equalCreateFdwStmt x)
  | N_AlterFdwStmt x => with_AlterFdwStmt b (_equalAlterFdwStmt x)
  | N_CreateForeignServerStmt x => with_CreateForeignServerStmt b (_equalCreateForeignServerStmt x)
  | N_AlterForeignServerStmt x => with_AlterForeignServerStmt b (_equalAlterForeignServerStmt x)
  | N_CreateForeignTableStmt x => with_CreateForeignTableStmt b (_equalCreateForeignTableStmt x)
  | N_CreateUserMappingStmt x => with_CreateUserMappingStmt b (_equalCreateUserMappingStmt x)
  | N_AlterUserMappingStmt x => with_AlterUserMappingStmt b (_equalAlterUserMappingStmt x)
  | N_DropUserMappingStmt x => with_DropUserMappingStmt b (_equalDropUserMappingStmt x)
  | N_ImportForeignSchemaStmt x => with_ImportForeignSchemaStmt b (_equalImportForeignSchemaStmt x)
  | N_CreatePolicyStmt x => with_CreatePolicyStmt b (_equalCreatePolicyStmt x)
  | N_AlterPolicyStmt x => with_AlterPolicyStmt b (_equalAlterPolicyStmt x)
  | N_CreateAmStmt x => with_CreateAmStmt b (_equalCreateAmStmt x)
  | N_CreateTrigStmt x => with_CreateTrigStmt b (_equalCreateTrigStmt x)
  | N_CreateEventTrigStmt x => with_CreateEventTrigStmt b (_equalCreateEventTrigStmt x)
  | N_AlterEventTrigStmt x => with_AlterEventTrigStmt b (_equalAlterEventTrigStmt x)
  | N_CreatePLangStmt x => with_CreatePLangStmt b (_equalCreatePLangStmt x)
  | N_CreateRoleStmt x => with_CreateRoleStmt b (_equalCreateRoleStmt x)
  | N_AlterRoleStmt x => with_AlterRoleStmt b (_equalAlterRoleStmt x)
  | N_AlterRoleSetStmt x => with_AlterRoleSetStmt b (_equalAlterRoleSetStmt x)
  | N_DropRoleStmt x => with_DropRoleStmt b (_equalDropRoleStmt x)
  | N_CreateSeqStmt x => with_CreateSeqStmt b (_equalCreateSeqStmt x)
  | N_AlterSeqStmt x => with_AlterSeqStmt b (_equalAlterSeqStmt x)
  | N_DefineStmt x => with_DefineStmt b (_equalDefineStmt x)
  | N_CreateDomainStmt x => with_CreateDomainStmt b (_equalCreateDomainStmt x)
  | N_CreateOpClassStmt x => with_CreateOpClassStmt b (_equalCreateOpClassStmt x)
  | N_CreateOpClassItem x => with_CreateOpClassItem b (_equalCreateOpClassItem x)
  | N_CreateOpFamilyStmt x => with_CreateOpFamilyStmt b (_equalCreateOpFamilyStmt x)
  | N_AlterOpFamilyStmt x => with_AlterOpFamilyStmt b (_equalAlterOpFamilyStmt x)
  | N_DropStmt x => with_DropStmt b (_equalDropStmt x)
  | N_TruncateStmt x => with_TruncateStmt b (_equalTruncateStmt x)
  | N_CommentStmt x => with_CommentStmt b (_equalCommentStmt x)
  | N_SecLabelStmt x => with_SecLabelStmt b (_equalSecLabelStmt x)
  | N_DeclareCursorStmt x => with_DeclareCursorStmt b (_equalDeclareCursorStmt x)
  | N_ClosePortalStmt x => with_ClosePortalStmt b (_equalClosePortalStmt x)
  | N_FetchStmt x => with_FetchStmt b (_equalFetchStmt x)
  | N_IndexStmt x => with_IndexStmt b (_equalIndexStmt x)
  | N_CreateStatsStmt x => with_CreateStatsStmt b (_equalCreateStatsStmt x)
  | N_AlterStatsStmt x => with_AlterStatsStmt b (_equalAlterStatsStmt x)
  | N_CreateFunctionStmt x => with_CreateFunctionStmt b (_equalCreateFunctionStmt x)
  | N_FunctionParameter x => with_FunctionParameter b (_equalFunctionParameter x)
  | N_AlterFunctionStmt x => with_AlterFunctionStmt b (_equalAlterFunctionStmt x)
  | N_DoStmt x => with_DoStmt b (_equalDoStmt x)
  | N_CallStmt x => with_CallStmt b (_equalCallStmt x)
  | N_RenameStmt x => with_RenameStmt b (_equalRenameStmt x)
  | N_AlterObjectDependsStmt x => with_AlterObjectDependsStmt b (_equalAlterObjectDependsStmt x)
  | N_AlterObjectSchemaStmt x => with_AlterObjectSchemaStmt b (_equalAlterObjectSchemaStmt x)
  | N_AlterOwnerStmt x => with_AlterOwnerStmt b (_equalAlterOwnerStmt x)
  | N_AlterOperatorStmt x => with_AlterOperatorStmt b (_equalAlterOperatorStmt x)
  | N_AlterTypeStmt x => with_AlterTypeStmt b (_equalAlterTypeStmt x)
  | N_RuleStmt x => with_RuleStmt b (_equalRuleStmt x)
  | N_NotifyStmt x => with_NotifyStmt b (_equalNotifyStmt x)
  | N_ListenStmt x => with_ListenStmt b (_equalListenStmt x)
  | N_UnlistenStmt x => with_UnlistenStmt b (_equalUnlistenStmt x)
  | N_TransactionStmt x => with_TransactionStmt b (_equalTransactionStmt x)
  | N_CompositeTypeStmt x => with_CompositeTypeStmt b (_equalCompositeTypeStmt x)
  | N_CreateEnumStmt x => with_CreateEnumStmt b (_equalCreateEnumStmt x)
  | N_CreateRangeStmt x => with_CreateRangeStmt b (_equalCreateRangeStmt x)
  | N_AlterEnumStmt x => with_AlterEnumStmt b (_equalAlterEnumStmt x)
  | N_ViewStmt x => with_ViewStmt b (_equalViewStmt x)
  | N_LoadStmt x => with_LoadStmt b (_equalLoadStmt x)
  | N_CreatedbStmt x => with_CreatedbStmt b (_equalCreatedbStmt x)
  | N_AlterDatabaseStmt x => with_AlterDatabaseStmt b (_equalAlterDatabaseStmt x)
  | N_AlterDatabaseSetStmt x => with_AlterDatabaseSetStmt b (_equalAlterDatabaseSetStmt x)
  | N_DropdbStmt x => with_DropdbStmt b (_equalDropdbStmt x)
  | N_AlterSystemStmt x => with_AlterSystemStmt b (_equalAlterSystemStmt x)
  | N_ClusterStmt x => with_ClusterStmt b (_equalClusterStmt x)
  | N_VacuumStmt x => with_VacuumStmt b (_equalVacuumStmt x)
  | N_VacuumRelation x => with_VacuumRelation b (_equalVacuumRelation x)
  | N_ExplainStmt x => with_ExplainStmt b (_equalExplainStmt x)
  | N_CreateTableAsStmt x => with_CreateTableAsStmt b (_equalCreateTableAsStmt x)
  | N_RefreshMatViewStmt x => with_RefreshMatViewStmt b (_equalRefreshMatViewStmt x)
  | N_CheckPointStmt x => with_CheckPointStmt b (fun _ => Ok true)
  | N_DiscardStmt x => with_DiscardStmt b (_equalDiscardStmt x)
  | N_LockStmt x => with_LockStmt b (_equalLockStmt x)
  | N_ConstraintsSetStmt x => with_ConstraintsSetStmt b (_equalConstraintsSetStmt x)
  | N_ReindexStmt x => with_ReindexStmt b (_equalReindexStmt x)
  | N_CreateConversionStmt x => with_CreateConversionStmt b (_equalCreateConversionStmt x)
  | N_CreateCastStmt x => with_CreateCastStmt b (_equalCreateCastStmt x)
  | N_CreateTransformStmt x => with_CreateTransformStmt b (_equalCreateTransformStmt x)
  | N_PrepareStmt x => with_PrepareStmt b (_equalPrepareStmt x)
  | N_ExecuteStmt x => with_ExecuteStmt b (_equalExecuteStmt x)
  | N_DeallocateStmt x => with_DeallocateStmt b (_equalDeallocateStmt x)
  | N_DropOwnedStmt x => with_DropOwnedStmt b (_equalDropOwnedStmt x)
  | N_ReassignOwnedStmt x => with_ReassignOwnedStmt b (_equalReassignOwnedStmt x)
  | N_AlterTSDictionaryStmt x => with_AlterTSDictionaryStmt b (_equalAlterTSDictionaryStmt x)
  | N_AlterTSConfigurationStmt x => with_AlterTSConfigurationStmt b (_equalAlterTSConfigurationStmt x)
  | N_CreatePublicationStmt x => with_CreatePublicationStmt b (_equalCreatePublicationStmt x)
  | N_AlterPublicationStmt x => with_AlterPublicationStmt b (_equalAlterPublicationStmt x)
  | N_CreateSubscriptionStmt x => with_CreateSubscriptionStmt b (_equalCreateSubscriptionStmt x)
  | N_AlterSubscriptionStmt x => with_AlterSubscriptionStmt b (_equalAlterSubscriptionStmt x)
  | N_DropSubscriptionStmt x => with_DropSubscriptionStmt b (_equalDropSubscriptionStmt x)
  | N_FuncExpr x => with_FuncExpr b (_equalFuncExpr x)
  | N_Other _ => Undef
  end.
End equalfuncs.

Fixpoint equal (a b : Node) {struct a} : outcome bool := equal_body equal a b.

(** ** What is compared

    [erase] makes a tree of the same shape without what [equal] does not look at: the
    locations, the forms of a row and of a coercion, the lists of [GroupingFunc] that
    analysis fills in.  A pointer to NIL is null. *)
Section erase.
Variable erase : Node -> Node.

Definition erase_ptr (p : option Node) : option Node :=
  match p with Some n => if null_ptr p then None else Some (erase n) | None => None end.

Definition erase_Alias (x : Alias.t Node) : Alias.t Node :=
  Alias.mk x.(Alias.aliasname) (map erase x.(Alias.colnames)).
Definition erase_RangeVar (x : RangeVar.t Node) : RangeVar.t Node :=
  RangeVar.mk x.(RangeVar.catalogname) x.(RangeVar.schemaname) x.(RangeVar.relname)
    x.(RangeVar.inh) x.(RangeVar.relpersistence) (option_map erase_Alias x.(RangeVar.alias)) 0.
Definition erase_TypeName (x : TypeName.t Node) : TypeName.t Node :=
  TypeName.mk (map erase x.(TypeName.names)) x.(TypeName.typeOid) x.(TypeName.setof)
    x.(TypeName.pct_type) (map erase x.(TypeName.typmods)) x.(TypeName.typemod)
    (map erase x.(TypeName.arrayBounds)) 0.
Definition erase_ColumnRef (x : ColumnRef.t Node) : ColumnRef.t Node :=
  ColumnRef.mk (map erase x.(ColumnRef.fields)) 0.
Definition erase_ParamRef (x : ParamRef.t Node) : ParamRef.t Node :=
  ParamRef.mk x.(ParamRef.number) 0.
Definition erase_A_Expr (x : A_Expr.t Node) : A_Expr.t Node :=
  A_Expr.mk x.(A_Expr.kind) (map erase x.(A_Expr.name)) (erase_ptr x.(A_Expr.lexpr))
    (erase_ptr x.(A_Expr.rexpr)) 0.
Definition erase_A_Const (x : A_Const.t Node) : A_Const.t Node :=
  A_Const.mk x.(A_Const.val) 0.
Definition erase_TypeCast (x : TypeCast.t Node) : TypeCast.t Node :=
  TypeCast.mk (erase_ptr x.(TypeCast.arg)) (option_map erase_TypeName x.(TypeCast.typeName)) 0.
Definition erase_CollateClause (x : CollateClause.t Node) : CollateClause.t Node :=
  CollateClause.mk (erase_ptr x.(CollateClause.arg)) (map erase x.(CollateClause.collname)) 0.
Definition erase_RoleSpec (x : RoleSpec.t Node) : RoleSpec.t Node :=
  RoleSpec.mk x.(RoleSpec.roletype) x.(RoleSpec.rolename) 0.
Definition erase_WindowDef (x : WindowDef.t Node) : WindowDef.t Node :=
  WindowDef.mk x.(WindowDef.name) x.(WindowDef.refname) (map erase x.(WindowDef.partitionClause))
    (map erase x.(WindowDef.orderClause)) x.(WindowDef.frameOptions)
    (erase_ptr x.(WindowDef.startOffset)) (erase_ptr x.(WindowDef.endOffset)) 0.
Definition erase_SortBy (x : SortBy.t Node) : SortBy.t Node :=
  SortBy.mk (erase_ptr x.(SortBy.node)) x.(SortBy.sortby_dir) x.(SortBy.sortby_nulls)
    (map erase x.(SortBy.useOp)) 0.
Definition erase_FuncCall (x : FuncCall.t Node) : FuncCall.t Node :=
  FuncCall.mk (map erase x.(FuncCall.funcname)) (map erase x.(FuncCall.args))
    (map erase x.(FuncCall.agg_order)) (erase_ptr x.(FuncCall.agg_filter))
    x.(FuncCall.agg_within_group) x.(FuncCall.agg_star) x.(FuncCall.agg_distinct)
    x.(FuncCall.func_variadic) (option_map erase_WindowDef x.(FuncCall.over)) 0.
Definition erase_A_Star (x : A_Star.t Node) : A_Star.t Node :=
  A_Star.mk.
Definition erase_A_Indices (x : A_Indices.t Node) : A_Indices.t Node :=
  A_Indices.mk x.(A_Indices.is_slice) (erase_ptr x.(A_Indices.lidx))
    (erase_ptr x.(A_Indices.uidx)).
Definition erase_A_Indirection (x : A_Indirection.t Node) : A_Indirection.t Node :=
  A_Indirection.mk (erase_ptr x.(A_Indirection.arg)) (map erase x.(A_Indirection.indirection)).
Definition erase_A_ArrayExpr (x : A_ArrayExpr.t Node) : A_ArrayExpr.t Node :=
  A_ArrayExpr.mk (map erase x.(A_ArrayExpr.elements)) 0.
Definition erase_ResTarget (x : ResTarget.t Node) : ResTarget.t Node :=
  ResTarget.mk x.(ResTarget.name) (map erase x.(ResTarget.indirection))
    (erase_ptr x.(ResTarget.val)) 0.
Definition erase_MultiAssignRef (x : MultiAssignRef.t Node) : MultiAssignRef.t Node :=
  MultiAssignRef.mk (erase_ptr x.(MultiAssignRef.source)) x.(MultiAssignRef.colno)
    x.(MultiAssignRef.ncolumns).
Definition erase_NamedArgExpr (x : NamedArgExpr.t Node) : NamedArgExpr.t Node :=
  NamedArgExpr.mk (erase_ptr x.(NamedArgExpr.arg)) x.(NamedArgExpr.name)
    x.(NamedArgExpr.argnumber) 0.
Definition erase_BoolExpr (x : BoolExpr.t Node) : BoolExpr.t Node :=
  BoolExpr.mk x.(BoolExpr.boolop) (map erase x.(BoolExpr.args)) 0.
Definition erase_SubLink (x : SubLink.t Node) : SubLink.t Node :=
  SubLink.mk x.(SubLink.subLinkType) x.(SubLink.subLinkId) (erase_ptr x.(SubLink.testexpr))
    (map erase x.(SubLink.operName)) (erase_ptr x.(SubLink.subselect)) 0.
Definition erase_CaseWhen (x : CaseWhen.t Node) : CaseWhen.t Node :=
  CaseWhen.mk (erase_ptr x.(CaseWhen.expr)) (erase_ptr x.(CaseWhen.result)) 0.
Definition erase_CaseExpr (x : CaseExpr.t Node) : CaseExpr.t Node :=
  CaseExpr.mk x.(CaseExpr.casetype) x.(CaseExpr.casecollid) (erase_ptr x.(CaseExpr.arg))
    (map erase x.(CaseExpr.args)) (erase_ptr x.(CaseExpr.defresult)) 0.
Definition erase_RowExpr (x : RowExpr.t Node) : RowExpr.t Node :=
  RowExpr.mk (map erase x.(RowExpr.args)) x.(RowExpr.row_typeid) COERCE_EXPLICIT_CALL
    (map erase x.(RowExpr.colnames)) 0.
Definition erase_CoalesceExpr (x : CoalesceExpr.t Node) : CoalesceExpr.t Node :=
  CoalesceExpr.mk x.(CoalesceExpr.coalescetype) x.(CoalesceExpr.coalescecollid)
    (map erase x.(CoalesceExpr.args)) 0.
Definition erase_MinMaxExpr (x : MinMaxExpr.t Node) : MinMaxExpr.t Node :=
  MinMaxExpr.mk x.(MinMaxExpr.minmaxtype) x.(MinMaxExpr.minmaxcollid) x.(MinMaxExpr.inputcollid)
    x.(MinMaxExpr.op) (map erase x.(MinMaxExpr.args)) 0.
Definition erase_SQLValueFunction (x : SQLValueFunction.t Node) : SQLValueFunction.t Node :=
  SQLValueFunction.mk x.(SQLValueFunction.op) x.(SQLValueFunction.type_)
    x.(SQLValueFunction.typmod) 0.
Definition erase_XmlExpr (x : XmlExpr.t Node) : XmlExpr.t Node :=
  XmlExpr.mk x.(XmlExpr.op) x.(XmlExpr.name) (map erase x.(XmlExpr.named_args))
    (map erase x.(XmlExpr.arg_names)) (map erase x.(XmlExpr.args)) x.(XmlExpr.xmloption)
    x.(XmlExpr.type_) x.(XmlExpr.typmod) 0.
Definition erase_XmlSerialize (x : XmlSerialize.t Node) : XmlSerialize.t Node :=
  XmlSerialize.mk x.(XmlSerialize.xmloption) (erase_ptr x.(XmlSerialize.expr))
    (option_map erase_TypeName x.(XmlSerialize.typeName)) 0.
Definition erase_NullTest (x : NullTest.t Node) : NullTest.t Node :=
  NullTest.mk (erase_ptr x.(NullTest.arg)) x.(NullTest.nulltesttype) x.(NullTest.argisrow) 0.
Definition erase_BooleanTest (x : BooleanTest.t Node) : BooleanTest.t Node :=
  BooleanTest.mk (erase_ptr x.(BooleanTest.arg)) x.(BooleanTest.booltesttype) 0.
Definition erase_SetToDefault (x : SetToDefault.t Node) : SetToDefault.t Node :=
  SetToDefault.mk x.(SetToDefault.typeId) x.(SetToDefault.typeMod) x.(SetToDefault.collation) 0.
Definition erase_CurrentOfExpr (x : CurrentOfExpr.t Node) : CurrentOfExpr.t Node :=
  CurrentOfExpr.mk x.(CurrentOfExpr.cvarno) x.(CurrentOfExpr.cursor_name)
    x.(CurrentOfExpr.cursor_param).
Definition erase_GroupingFunc (x : GroupingFunc.t Node) : GroupingFunc.t Node :=
  GroupingFunc.mk (map erase x.(GroupingFunc.args)) [] [] x.(GroupingFunc.agglevelsup) 0.
Definition erase_DefElem (x : DefElem.t Node) : DefElem.t Node :=
  DefElem.mk x.(DefElem.defnamespace) x.(DefElem.defname) (erase_ptr x.(DefElem.arg))
    x.(DefElem.defaction) 0.
Definition erase_IndexElem (x : IndexElem.t Node) : IndexElem.t Node :=
  IndexElem.mk x.(IndexElem.name) (erase_ptr x.(IndexElem.expr)) x.(IndexElem.indexcolname)
    (map erase x.(IndexElem.collation)) (map erase x.(IndexElem.opclass))
    (map erase x.(IndexElem.opclassopts)) x.(IndexElem.ordering) x.(IndexElem.nulls_ordering).
Definition erase_Constraint (x : Constraint.t Node) : Constraint.t Node :=
  Constraint.mk x.(Constraint.contype) x.(Constraint.conname) x.(Constraint.deferrable)
    x.(Constraint.initdeferred) 0 x.(Constraint.is_no_inherit) (erase_ptr x.(Constraint.raw_expr))
    x.(Constraint.cooked_expr) x.(Constraint.generated_when) (map erase x.(Constraint.keys))
    (map erase x.(Constraint.including)) (map erase x.(Constraint.exclusions))
    (map erase x.(Constraint.options)) x.(Constraint.indexname) x.(Constraint.indexspace)
    x.(Constraint.reset_default_tblspc) x.(Constraint.access_method)
    (erase_ptr x.(Constraint.where_clause)) (option_map erase_RangeVar x.(Constraint.pktable))
    (map erase x.(Constraint.fk_attrs)) (map erase x.(Constraint.pk_attrs))
    x.(Constraint.fk_matchtype) x.(Constraint.fk_upd_action) x.(Constraint.fk_del_action)
    (map erase x.(Constraint.old_conpfeqop)) x.(Constraint.old_pktable_oid)
    x.(Constraint.skip_validation) x.(Constraint.initially_valid).
Definition erase_ColumnDef (x : ColumnDef.t Node) : ColumnDef.t Node :=
  ColumnDef.mk x.(ColumnDef.colname) (option_map erase_TypeName x.(ColumnDef.typeName))
    x.(ColumnDef.inhcount) x.(ColumnDef.is_local) x.(ColumnDef.is_not_null)
    x.(ColumnDef.is_from_type) x.(ColumnDef.storage) (erase_ptr x.(ColumnDef.raw_default))
    (erase_ptr x.(ColumnDef.cooked_default)) x.(ColumnDef.identity)
    (option_map erase_RangeVar x.(ColumnDef.identitySequence)) x.(ColumnDef.generated)
    (option_map erase_CollateClause x.(ColumnDef.collClause)) x.(ColumnDef.collOid)
    (map erase x.(ColumnDef.constraints)) (map erase x.(ColumnDef.fdwoptions)) 0.
Definition erase_JoinExpr (x : JoinExpr.t Node) : JoinExpr.t Node :=
  JoinExpr.mk x.(JoinExpr.jointype) x.(JoinExpr.isNatural) (erase_ptr x.(JoinExpr.larg))
    (erase_ptr x.(JoinExpr.rarg)) (map erase x.(JoinExpr.usingClause))
    (erase_ptr x.(JoinExpr.quals)) (option_map erase_Alias x.(JoinExpr.alias))
    x.(JoinExpr.rtindex).
Definition erase_RangeSubselect (x : RangeSubselect.t Node) : RangeSubselect.t Node :=
  RangeSubselect.mk x.(RangeSubselect.lateral) (erase_ptr x.(RangeSubselect.subquery))
    (option_map erase_Alias x.(RangeSubselect.alias)).
Definition erase_RangeFunction (x : RangeFunction.t Node) : RangeFunction.t Node :=
  RangeFunction.mk x.(RangeFunction.lateral) x.(RangeFunction.ordinality)
    x.(RangeFunction.is_rowsfrom) (map erase x.(RangeFunction.functions))
    (option_map erase_Alias x.(RangeFunction.alias)) (map erase x.(RangeFunction.coldeflist)).
Definition erase_RangeTableFuncCol (x : RangeTableFuncCol.t Node) : RangeTableFuncCol.t Node :=
  RangeTableFuncCol.mk x.(RangeTableFuncCol.colname)
    (option_map erase_TypeName x.(RangeTableFuncCol.typeName))
    x.(RangeTableFuncCol.for_ordinality) x.(RangeTableFuncCol.is_not_null)
    (erase_ptr x.(RangeTableFuncCol.colexpr)) (erase_ptr x.(RangeTableFuncCol.coldefexpr)) 0.
Definition erase_RangeTableFunc (x : RangeTableFunc.t Node) : RangeTableFunc.t Node :=
  RangeTableFunc.mk x.(RangeTableFunc.lateral) (erase_ptr x.(RangeTableFunc.docexpr))
    (erase_ptr x.(RangeTableFunc.rowexpr)) (map erase x.(RangeTableFunc.namespaces))
    (map erase x.(RangeTableFunc.columns)) (option_map erase_Alias x.(RangeTableFunc.alias)) 0.
Definition erase_RangeTableSample (x : RangeTableSample.t Node) : RangeTableSample.t Node :=
  RangeTableSample.mk (erase_ptr x.(RangeTableSample.relation))
    (map erase x.(RangeTableSample.method)) (map erase x.(RangeTableSample.args))
    (erase_ptr x.(RangeTableSample.repeatable)) 0.
Definition erase_CommonTableExpr (x : CommonTableExpr.t Node) : CommonTableExpr.t Node :=
  CommonTableExpr.mk x.(CommonTableExpr.ctename) (map erase x.(CommonTableExpr.aliascolnames))
    x.(CommonTableExpr.ctematerialized) (erase_ptr x.(CommonTableExpr.ctequery)) 0
    x.(CommonTableExpr.cterecursive) x.(CommonTableExpr.cterefcount)
    (map erase x.(CommonTableExpr.ctecolnames)) x.(CommonTableExpr.ctecoltypes)
    x.(CommonTableExpr.ctecoltypmods) x.(CommonTableExpr.ctecolcollations).
Definition erase_WithClause (x : WithClause.t Node) : WithClause.t Node :=
  WithClause.mk (map erase x.(WithClause.ctes)) x.(WithClause.recursive) 0.
Definition erase_InferClause (x : InferClause.t Node) : InferClause.t Node :=
  InferClause.mk (map erase x.(InferClause.indexElems)) (erase_ptr x.(InferClause.whereClause))
    x.(InferClause.conname) 0.
Definition erase_OnConflictClause (x : OnConflictClause.t Node) : OnConflictClause.t Node :=
  OnConflictClause.mk x.(OnConflictClause.action)
    (option_map erase_InferClause x.(OnConflictClause.infer))
    (map erase x.(OnConflictClause.targetList)) (erase_ptr x.(OnConflictClause.whereClause)) 0.
Definition erase_LockingClause (x : LockingClause.t Node) : LockingClause.t Node :=
  LockingClause.mk (map erase x.(LockingClause.lockedRels)) x.(LockingClause.strength)
    x.(LockingClause.waitPolicy).
Definition erase_GroupingSet (x : GroupingSet.t Node) : GroupingSet.t Node :=
  GroupingSet.mk x.(GroupingSet.kind) (map erase x.(GroupingSet.content)) 0.
Definition erase_IntoClause (x : IntoClause.t Node) : IntoClause.t Node :=
  IntoClause.mk (option_map erase_RangeVar x.(IntoClause.rel)) (map erase x.(IntoClause.colNames))
    x.(IntoClause.accessMethod) (map erase x.(IntoClause.options)) x.(IntoClause.onCommit)
    x.(IntoClause.tableSpaceName) (erase_ptr x.(IntoClause.viewQuery)) x.(IntoClause.skipData).
Definition erase_SelectStmt (x : SelectStmt.t Node) : SelectStmt.t Node :=
  SelectStmt.mk (map erase x.(SelectStmt.distinctClause))
    (option_map erase_IntoClause x.(SelectStmt.intoClause)) (map erase x.(SelectStmt.targetList))
    (map erase x.(SelectStmt.fromClause)) (erase_ptr x.(SelectStmt.whereClause))
    (map erase x.(SelectStmt.groupClause)) (erase_ptr x.(SelectStmt.havingClause))
    (map erase x.(SelectStmt.windowClause)) (map erase x.(SelectStmt.valuesLists))
    (map erase x.(SelectStmt.sortClause)) (erase_ptr x.(SelectStmt.limitOffset))
    (erase_ptr x.(SelectStmt.limitCount)) x.(SelectStmt.limitOption)
    (map erase x.(SelectStmt.lockingClause))
    (option_map erase_WithClause x.(SelectStmt.withClause)) x.(SelectStmt.op) x.(SelectStmt.all)
    (erase_ptr x.(SelectStmt.larg)) (erase_ptr x.(SelectStmt.rarg)).
Definition erase_InsertStmt (x : InsertStmt.t Node) : InsertStmt.t Node :=
  InsertStmt.mk (option_map erase_RangeVar x.(InsertStmt.relation))
    (map erase x.(InsertStmt.cols)) (erase_ptr x.(InsertStmt.selectStmt))
    (option_map erase_OnConflictClause x.(InsertStmt.onConflictClause))
    (map erase x.(InsertStmt.returningList))
    (option_map erase_WithClause x.(InsertStmt.withClause)) x.(InsertStmt.override).
Definition erase_UpdateStmt (x : UpdateStmt.t Node) : UpdateStmt.t Node :=
  UpdateStmt.mk (option_map erase_RangeVar x.(UpdateStmt.relation))
    (map erase x.(UpdateStmt.targetList)) (erase_ptr x.(UpdateStmt.whereClause))
    (map erase x.(UpdateStmt.fromClause)) (map erase x.(UpdateStmt.returningList))
    (option_map erase_WithClause x.(UpdateStmt.withClause)).
Definition erase_DeleteStmt (x : DeleteStmt.t Node) : DeleteStmt.t Node :=
  DeleteStmt.mk (option_map erase_RangeVar x.(DeleteStmt.relation))
    (map erase x.(DeleteStmt.usingClause)) (erase_ptr x.(DeleteStmt.whereClause))
    (map erase x.(DeleteStmt.returningList))
    (option_map erase_WithClause x.(DeleteStmt.withClause)).
Definition erase_RawStmt (x : RawStmt.t Node) : RawStmt.t Node :=
  RawStmt.mk (erase_ptr x.(RawStmt.stmt)) 0 x.(RawStmt.stmt_len).
Definition erase_AlterTableCmd (x : AlterTableCmd.t Node) : AlterTableCmd.t Node :=
  AlterTableCmd.mk x.(AlterTableCmd.subtype) x.(AlterTableCmd.name) x.(AlterTableCmd.num)
    (option_map erase_RoleSpec x.(AlterTableCmd.newowner)) (erase_ptr x.(AlterTableCmd.def))
    x.(AlterTableCmd.behavior) x.(AlterTableCmd.missing_ok).
Definition erase_PartitionBoundSpec (x : PartitionBoundSpec.t Node) : PartitionBoundSpec.t Node :=
  PartitionBoundSpec.mk x.(PartitionBoundSpec.strategy) x.(PartitionBoundSpec.is_default)
    x.(PartitionBoundSpec.modulus) x.(PartitionBoundSpec.remainder)
    (map erase x.(PartitionBoundSpec.listdatums)) (map erase x.(PartitionBoundSpec.lowerdatums))
    (map erase x.(PartitionBoundSpec.upperdatums)) 0.
Definition erase_TableLikeClause (x : TableLikeClause.t Node) : TableLikeClause.t Node :=
  TableLikeClause.mk (option_map erase_RangeVar x.(TableLikeClause.relation))
    x.(TableLikeClause.options) x.(TableLikeClause.relationOid).
Definition erase_PartitionElem (x : PartitionElem.t Node) : PartitionElem.t Node :=
  PartitionElem.mk x.(PartitionElem.name) (erase_ptr x.(PartitionElem.expr))
    (map erase x.(PartitionElem.collation)) (map erase x.(PartitionElem.opclass)) 0.
Definition erase_PartitionSpec (x : PartitionSpec.t Node) : PartitionSpec.t Node :=
  PartitionSpec.mk x.(PartitionSpec.strategy) (map erase x.(PartitionSpec.partParams)) 0.
Definition erase_PartitionCmd (x : PartitionCmd.t Node) : PartitionCmd.t Node :=
  PartitionCmd.mk (option_map erase_RangeVar x.(PartitionCmd.name))
    (option_map erase_PartitionBoundSpec x.(PartitionCmd.bound)).
Definition erase_TriggerTransition (x : TriggerTransition.t Node) : TriggerTransition.t Node :=
  TriggerTransition.mk x.(TriggerTransition.name) x.(TriggerTransition.isNew)
    x.(TriggerTransition.isTable).
Definition erase_CreateSchemaStmt (x : CreateSchemaStmt.t Node) : CreateSchemaStmt.t Node :=
  CreateSchemaStmt.mk x.(CreateSchemaStmt.schemaname)
    (option_map erase_RoleSpec x.(CreateSchemaStmt.authrole))
    (map erase x.(CreateSchemaStmt.schemaElts)) x.(CreateSchemaStmt.if_not_exists).
Definition erase_AlterTableStmt (x : AlterTableStmt.t Node) : AlterTableStmt.t Node :=
  AlterTableStmt.mk (option_map erase_RangeVar x.(AlterTableStmt.relation))
    (map erase x.(AlterTableStmt.cmds)) x.(AlterTableStmt.relkind) x.(AlterTableStmt.missing_ok).
Definition erase_ReplicaIdentityStmt (x : ReplicaIdentityStmt.t Node) : ReplicaIdentityStmt.t Node :=
  ReplicaIdentityStmt.mk x.(ReplicaIdentityStmt.identity_type) x.(ReplicaIdentityStmt.name).
Definition erase_AlterCollationStmt (x : AlterCollationStmt.t Node) : AlterCollationStmt.t Node :=
  AlterCollationStmt.mk (map erase x.(AlterCollationStmt.collname)).
Definition erase_AlterDomainStmt (x : AlterDomainStmt.t Node) : AlterDomainStmt.t Node :=
  AlterDomainStmt.mk x.(AlterDomainStmt.subtype) (map erase x.(AlterDomainStmt.typeName))
    x.(AlterDomainStmt.name) (erase_ptr x.(AlterDomainStmt.def)) x.(AlterDomainStmt.behavior)
    x.(AlterDomainStmt.missing_ok).
Definition erase_GrantStmt (x : GrantStmt.t Node) : GrantStmt.t Node :=
  GrantStmt.mk x.(GrantStmt.is_grant) x.(GrantStmt.targtype) x.(GrantStmt.objtype)
    (map erase x.(GrantStmt.objects)) (map erase x.(GrantStmt.privileges))
    (map erase x.(GrantStmt.grantees)) x.(GrantStmt.grant_option) x.(GrantStmt.behavior).
Definition erase_ObjectWithArgs (x : ObjectWithArgs.t Node) : ObjectWithArgs.t Node :=
  ObjectWithArgs.mk (map erase x.(ObjectWithArgs.objname)) (map erase x.(ObjectWithArgs.objargs))
    x.(ObjectWithArgs.args_unspecified).
Definition erase_AccessPriv (x : AccessPriv.t Node) : AccessPriv.t Node :=
  AccessPriv.mk x.(AccessPriv.priv_name) (map erase x.(AccessPriv.cols)).
Definition erase_GrantRoleStmt (x : GrantRoleStmt.t Node) : GrantRoleStmt.t Node :=
  GrantRoleStmt.mk (map erase x.(GrantRoleStmt.granted_roles))
    (map erase x.(GrantRoleStmt.grantee_roles)) x.(GrantRoleStmt.is_grant)
    x.(GrantRoleStmt.admin_opt) (option_map erase_RoleSpec x.(GrantRoleStmt.grantor))
    x.(GrantRoleStmt.behavior).
Definition erase_AlterDefaultPrivilegesStmt (x : AlterDefaultPrivilegesStmt.t Node) : AlterDefaultPrivilegesStmt.t Node :=
  AlterDefaultPrivilegesStmt.mk (map erase x.(AlterDefaultPrivilegesStmt.options))
    (option_map erase_GrantStmt x.(AlterDefaultPrivilegesStmt.action)).
Definition erase_CopyStmt (x : CopyStmt.t Node) : CopyStmt.t Node :=
  CopyStmt.mk (option_map erase_RangeVar x.(CopyStmt.relation)) (erase_ptr x.(CopyStmt.query))
    (map erase x.(CopyStmt.attlist)) x.(CopyStmt.is_from) x.(CopyStmt.is_program)
    x.(CopyStmt.filename) (map erase x.(CopyStmt.options)) (erase_ptr x.(CopyStmt.whereClause)).
Definition erase_VariableSetStmt (x : VariableSetStmt.t Node) : VariableSetStmt.t Node :=
  VariableSetStmt.mk x.(VariableSetStmt.kind) x.(VariableSetStmt.name)
    (map erase x.(VariableSetStmt.args)) x.(VariableSetStmt.is_local).
Definition erase_VariableShowStmt (x : VariableShowStmt.t Node) : VariableShowStmt.t Node :=
  VariableShowStmt.mk x.(VariableShowStmt.name).
Definition erase_CreateStmt (x : CreateStmt.t Node) : CreateStmt.t Node :=
  CreateStmt.mk (option_map erase_RangeVar x.(CreateStmt.relation))
    (map erase x.(CreateStmt.tableElts)) (map erase x.(CreateStmt.inhRelations))
    (option_map erase_PartitionBoundSpec x.(CreateStmt.partbound))
    (option_map erase_PartitionSpec x.(CreateStmt.partspec))
    (option_map erase_TypeName x.(CreateStmt.ofTypename)) (map erase x.(CreateStmt.constraints))
    (map erase x.(CreateStmt.options)) x.(CreateStmt.oncommit) x.(CreateStmt.tablespacename)
    x.(CreateStmt.accessMethod) x.(CreateStmt.if_not_exists).
Definition erase_CreateTableSpaceStmt (x : CreateTableSpaceStmt.t Node) : CreateTableSpaceStmt.t Node :=
  CreateTableSpaceStmt.mk x.(CreateTableSpaceStmt.tablespacename)
    (option_map erase_RoleSpec x.(CreateTableSpaceStmt.owner)) x.(CreateTableSpaceStmt.location)
    (map erase x.(CreateTableSpaceStmt.options)).
Definition erase_DropTableSpaceStmt (x : DropTableSpaceStmt.t Node) : DropTableSpaceStmt.t Node :=
  DropTableSpaceStmt.mk x.(DropTableSpaceStmt.tablespacename) x.(DropTableSpaceStmt.missing_ok).
Definition erase_AlterTableSpaceOptionsStmt (x : AlterTableSpaceOptionsStmt.t Node) : AlterTableSpaceOptionsStmt.t Node :=
  AlterTableSpaceOptionsStmt.mk x.(AlterTableSpaceOptionsStmt.tablespacename)
    (map erase x.(AlterTableSpaceOptionsStmt.options)) x.(AlterTableSpaceOptionsStmt.isReset).
Definition erase_AlterTableMoveAllStmt (x : AlterTableMoveAllStmt.t Node) : AlterTableMoveAllStmt.t Node :=
  AlterTableMoveAllStmt.mk x.(AlterTableMoveAllStmt.orig_tablespacename)
    x.(AlterTableMoveAllStmt.objtype) (map erase x.(AlterTableMoveAllStmt.roles))
    x.(AlterTableMoveAllStmt.new_tablespacename) x.(AlterTableMoveAllStmt.nowait).
Definition erase_CreateExtensionStmt (x : CreateExtensionStmt.t Node) : CreateExtensionStmt.t Node :=
  CreateExtensionStmt.mk x.(CreateExtensionStmt.extname) x.(CreateExtensionStmt.if_not_exists)
    (map erase x.(CreateExtensionStmt.options)).
Definition erase_AlterExtensionStmt (x : AlterExtensionStmt.t Node) : AlterExtensionStmt.t Node :=
  AlterExtensionStmt.mk x.(AlterExtensionStmt.extname) (map erase x.(AlterExtensionStmt.options)).
Definition erase_AlterExtensionContentsStmt (x : AlterExtensionContentsStmt.t Node) : AlterExtensionContentsStmt.t Node :=
  AlterExtensionContentsStmt.mk x.(AlterExtensionContentsStmt.extname)
    x.(AlterExtensionContentsStmt.action) x.(AlterExtensionContentsStmt.objtype)
    (erase_ptr x.(AlterExtensionContentsStmt.object)).
Definition erase_CreateFdwStmt (x : CreateFdwStmt.t Node) : CreateFdwStmt.t Node :=
  CreateFdwStmt.mk x.(CreateFdwStmt.fdwname) (map erase x.(CreateFdwStmt.func_options))
    (map erase x.(CreateFdwStmt.options)).
Definition erase_AlterFdwStmt (x : AlterFdwStmt.t Node) : AlterFdwStmt.t Node :=
  AlterFdwStmt.mk x.(AlterFdwStmt.fdwname) (map erase x.(AlterFdwStmt.func_options))
    (map erase x.(AlterFdwStmt.options)).
Definition erase_CreateForeignServerStmt (x : CreateForeignServerStmt.t Node) : CreateForeignServerStmt.t Node :=
  CreateForeignServerStmt.mk x.(CreateForeignServerStmt.servername)
    x.(CreateForeignServerStmt.servertype) x.(CreateForeignServerStmt.version)
    x.(CreateForeignServerStmt.fdwname) x.(CreateForeignServerStmt.if_not_exists)
    (map erase x.(CreateForeignServerStmt.options)).
Definition erase_AlterForeignServerStmt (x : AlterForeignServerStmt.t Node) : AlterForeignServerStmt.t Node :=
  AlterForeignServerStmt.mk x.(AlterForeignServerStmt.servername)
    x.(AlterForeignServerStmt.version) (map erase x.(AlterForeignServerStmt.options))
    x.(AlterForeignServerStmt.has_version).
Definition erase_CreateForeignTableStmt (x : CreateForeignTableStmt.t Node) : CreateForeignTableStmt.t Node :=
  CreateForeignTableStmt.mk (erase_CreateStmt x.(CreateForeignTableStmt.base))
    x.(CreateForeignTableStmt.servername) (map erase x.(CreateForeignTableStmt.options)).
Definition erase_CreateUserMappingStmt (x : CreateUserMappingStmt.t Node) : CreateUserMappingStmt.t Node :=
  CreateUserMappingStmt.mk (option_map erase_RoleSpec x.(CreateUserMappingStmt.user))
    x.(CreateUserMappingStmt.servername) x.(CreateUserMappingStmt.if_not_exists)
    (map erase x.(CreateUserMappingStmt.options)).
Definition erase_AlterUserMappingStmt (x : AlterUserMappingStmt.t Node) : AlterUserMappingStmt.t Node :=
  AlterUserMappingStmt.mk (option_map erase_RoleSpec x.(AlterUserMappingStmt.user))
    x.(AlterUserMappingStmt.servername) (map erase x.(AlterUserMappingStmt.options)).
Definition erase_DropUserMappingStmt (x : DropUserMappingStmt.t Node) : DropUserMappingStmt.t Node :=
  DropUserMappingStmt.mk (option_map erase_RoleSpec x.(DropUserMappingStmt.user))
    x.(DropUserMappingStmt.servername) x.(DropUserMappingStmt.missing_ok).
Definition erase_ImportForeignSchemaStmt (x : ImportForeignSchemaStmt.t Node) : ImportForeignSchemaStmt.t Node :=
  ImportForeignSchemaStmt.mk x.(ImportForeignSchemaStmt.server_name)
    x.(ImportForeignSchemaStmt.remote_schema) x.(ImportForeignSchemaStmt.local_schema)
    x.(ImportForeignSchemaStmt.list_type) (map erase x.(ImportForeignSchemaStmt.table_list))
    (map erase x.(ImportForeignSchemaStmt.options)).
Definition erase_CreatePolicyStmt (x : CreatePolicyStmt.t Node) : CreatePolicyStmt.t Node :=
  CreatePolicyStmt.mk x.(CreatePolicyStmt.policy_name)
    (option_map erase_RangeVar x.(CreatePolicyStmt.table)) x.(CreatePolicyStmt.cmd_name)
    x.(CreatePolicyStmt.permissive) (map erase x.(CreatePolicyStmt.roles))
    (erase_ptr x.(CreatePolicyStmt.qual)) (erase_ptr x.(CreatePolicyStmt.with_check)).
Definition erase_AlterPolicyStmt (x : AlterPolicyStmt.t Node) : AlterPolicyStmt.t Node :=
  AlterPolicyStmt.mk x.(AlterPolicyStmt.policy_name)
    (option_map erase_RangeVar x.(AlterPolicyStmt.table)) (map erase x.(AlterPolicyStmt.roles))
    (erase_ptr x.(AlterPolicyStmt.qual)) (erase_ptr x.(AlterPolicyStmt.with_check)).
Definition erase_CreateAmStmt (x : CreateAmStmt.t Node) : CreateAmStmt.t Node :=
  CreateAmStmt.mk x.(CreateAmStmt.amname) (map erase x.(CreateAmStmt.handler_name))
    x.(CreateAmStmt.amtype).
Definition erase_CreateTrigStmt (x : CreateTrigStmt.t Node) : CreateTrigStmt.t Node :=
  CreateTrigStmt.mk x.(CreateTrigStmt.trigname)
    (option_map erase_RangeVar x.(CreateTrigStmt.relation))
    (map erase x.(CreateTrigStmt.funcname)) (map erase x.(CreateTrigStmt.args))
    x.(CreateTrigStmt.row) x.(CreateTrigStmt.timing) x.(CreateTrigStmt.events)
    (map erase x.(CreateTrigStmt.columns)) (erase_ptr x.(CreateTrigStmt.whenClause))
    x.(CreateTrigStmt.isconstraint) (map erase x.(CreateTrigStmt.transitionRels))
    x.(CreateTrigStmt.deferrable) x.(CreateTrigStmt.initdeferred)
    (option_map erase_RangeVar x.(CreateTrigStmt.constrrel)).
Definition erase_CreateEventTrigStmt (x : CreateEventTrigStmt.t Node) : CreateEventTrigStmt.t Node :=
  CreateEventTrigStmt.mk x.(CreateEventTrigStmt.trigname) x.(CreateEventTrigStmt.eventname)
    (map erase x.(CreateEventTrigStmt.whenclause)) (map erase x.(CreateEventTrigStmt.funcname)).
Definition erase_AlterEventTrigStmt (x : AlterEventTrigStmt.t Node) : AlterEventTrigStmt.t Node :=
  AlterEventTrigStmt.mk x.(AlterEventTrigStmt.trigname) x.(AlterEventTrigStmt.tgenabled).
Definition erase_CreatePLangStmt (x : CreatePLangStmt.t Node) : CreatePLangStmt.t Node :=
  CreatePLangStmt.mk x.(CreatePLangStmt.replace) x.(CreatePLangStmt.plname)
    (map erase x.(CreatePLangStmt.plhandler)) (map erase x.(CreatePLangStmt.plinline))
    (map erase x.(CreatePLangStmt.plvalidator)) x.(CreatePLangStmt.pltrusted).
Definition erase_CreateRoleStmt (x : CreateRoleStmt.t Node) : CreateRoleStmt.t Node :=
  CreateRoleStmt.mk x.(CreateRoleStmt.stmt_type) x.(CreateRoleStmt.role)
    (map erase x.(CreateRoleStmt.options)).
Definition erase_AlterRoleStmt (x : AlterRoleStmt.t Node) : AlterRoleStmt.t Node :=
  AlterRoleStmt.mk (option_map erase_RoleSpec x.(AlterRoleStmt.role))
    (map erase x.(AlterRoleStmt.options)) x.(AlterRoleStmt.action).
Definition erase_AlterRoleSetStmt (x : AlterRoleSetStmt.t Node) : AlterRoleSetStmt.t Node :=
  AlterRoleSetStmt.mk (option_map erase_RoleSpec x.(AlterRoleSetStmt.role))
    x.(AlterRoleSetStmt.database) (option_map erase_VariableSetStmt x.(AlterRoleSetStmt.setstmt)).
Definition erase_DropRoleStmt (x : DropRoleStmt.t Node) : DropRoleStmt.t Node :=
  DropRoleStmt.mk (map erase x.(DropRoleStmt.roles)) x.(DropRoleStmt.missing_ok).
Definition erase_CreateSeqStmt (x : CreateSeqStmt.t Node) : CreateSeqStmt.t Node :=
  CreateSeqStmt.mk (option_map erase_RangeVar x.(CreateSeqStmt.sequence))
    (map erase x.(CreateSeqStmt.options)) x.(CreateSeqStmt.ownerId) x.(CreateSeqStmt.for_identity)
    x.(CreateSeqStmt.if_not_exists).
Definition erase_AlterSeqStmt (x : AlterSeqStmt.t Node) : AlterSeqStmt.t Node :=
  AlterSeqStmt.mk (option_map erase_RangeVar x.(AlterSeqStmt.sequence))
    (map erase x.(AlterSeqStmt.options)) x.(AlterSeqStmt.for_identity)
    x.(AlterSeqStmt.missing_ok).
Definition erase_DefineStmt (x : DefineStmt.t Node) : DefineStmt.t Node :=
  DefineStmt.mk x.(DefineStmt.kind) x.(DefineStmt.oldstyle) (map erase x.(DefineStmt.defnames))
    (map erase x.(DefineStmt.args)) (map erase x.(DefineStmt.definition))
    x.(DefineStmt.if_not_exists) x.(DefineStmt.replace).
Definition erase_CreateDomainStmt (x : CreateDomainStmt.t Node) : CreateDomainStmt.t Node :=
  CreateDomainStmt.mk (map erase x.(CreateDomainStmt.domainname))
    (option_map erase_TypeName x.(CreateDomainStmt.typeName))
    (option_map erase_CollateClause x.(CreateDomainStmt.collClause))
    (map erase x.(CreateDomainStmt.constraints)).
Definition erase_CreateOpClassStmt (x : CreateOpClassStmt.t Node) : CreateOpClassStmt.t Node :=
  CreateOpClassStmt.mk (map erase x.(CreateOpClassStmt.opclassname))
    (map erase x.(CreateOpClassStmt.opfamilyname)) x.(CreateOpClassStmt.amname)
    (option_map erase_TypeName x.(CreateOpClassStmt.datatype))
    (map erase x.(CreateOpClassStmt.items)) x.(CreateOpClassStmt.isDefault).
Definition erase_CreateOpClassItem (x : CreateOpClassItem.t Node) : CreateOpClassItem.t Node :=
  CreateOpClassItem.mk x.(CreateOpClassItem.itemtype)
    (option_map erase_ObjectWithArgs x.(CreateOpClassItem.name)) x.(CreateOpClassItem.number)
    (map erase x.(CreateOpClassItem.order_family)) (map erase x.(CreateOpClassItem.class_args))
    (option_map erase_TypeName x.(CreateOpClassItem.storedtype)).
Definition erase_CreateOpFamilyStmt (x : CreateOpFamilyStmt.t Node) : CreateOpFamilyStmt.t Node :=
  CreateOpFamilyStmt.mk (map erase x.(CreateOpFamilyStmt.opfamilyname))
    x.(CreateOpFamilyStmt.amname).
Definition erase_AlterOpFamilyStmt (x : AlterOpFamilyStmt.t Node) : AlterOpFamilyStmt.t Node :=
  AlterOpFamilyStmt.mk (map erase x.(AlterOpFamilyStmt.opfamilyname)) x.(AlterOpFamilyStmt.amname)
    x.(AlterOpFamilyStmt.isDrop) (map erase x.(AlterOpFamilyStmt.items)).
Definition erase_DropStmt (x : DropStmt.t Node) : DropStmt.t Node :=
  DropStmt.mk (map erase x.(DropStmt.objects)) x.(DropStmt.removeType) x.(DropStmt.behavior)
    x.(DropStmt.missing_ok) x.(DropStmt.concurrent).
Definition erase_TruncateStmt (x : TruncateStmt.t Node) : TruncateStmt.t Node :=
  TruncateStmt.mk (map erase x.(TruncateStmt.relations)) x.(TruncateStmt.restart_seqs)
    x.(TruncateStmt.behavior).
Definition erase_CommentStmt (x : CommentStmt.t Node) : CommentStmt.t Node :=
  CommentStmt.mk x.(CommentStmt.objtype) (erase_ptr x.(CommentStmt.object))
    x.(CommentStmt.comment).
Definition erase_SecLabelStmt (x : SecLabelStmt.t Node) : SecLabelStmt.t Node :=
  SecLabelStmt.mk x.(SecLabelStmt.objtype) (erase_ptr x.(SecLabelStmt.object))
    x.(SecLabelStmt.provider) x.(SecLabelStmt.label).
Definition erase_DeclareCursorStmt (x : DeclareCursorStmt.t Node) : DeclareCursorStmt.t Node :=
  DeclareCursorStmt.mk x.(DeclareCursorStmt.portalname) x.(DeclareCursorStmt.options)
    (erase_ptr x.(DeclareCursorStmt.query)).
Definition erase_ClosePortalStmt (x : ClosePortalStmt.t Node) : ClosePortalStmt.t Node :=
  ClosePortalStmt.mk x.(ClosePortalStmt.portalname).
Definition erase_FetchStmt (x : FetchStmt.t Node) : FetchStmt.t Node :=
  FetchStmt.mk x.(FetchStmt.direction) x.(FetchStmt.howMany) x.(FetchStmt.portalname)
    x.(FetchStmt.ismove).
Definition erase_IndexStmt (x : IndexStmt.t Node) : IndexStmt.t Node :=
  IndexStmt.mk x.(IndexStmt.idxname) (option_map erase_RangeVar x.(IndexStmt.relation))
    x.(IndexStmt.accessMethod) x.(IndexStmt.tableSpace) (map erase x.(IndexStmt.indexParams))
    (map erase x.(IndexStmt.indexIncludingParams)) (map erase x.(IndexStmt.options))
    (erase_ptr x.(IndexStmt.whereClause)) (map erase x.(IndexStmt.excludeOpNames))
    x.(IndexStmt.idxcomment) x.(IndexStmt.indexOid) x.(IndexStmt.oldNode)
    x.(IndexStmt.oldCreateSubid) x.(IndexStmt.oldFirstRelfilenodeSubid) x.(IndexStmt.unique)
    x.(IndexStmt.primary) x.(IndexStmt.isconstraint) x.(IndexStmt.deferrable)
    x.(IndexStmt.initdeferred) x.(IndexStmt.transformed) x.(IndexStmt.concurrent)
    x.(IndexStmt.if_not_exists) x.(IndexStmt.reset_default_tblspc).
Definition erase_CreateStatsStmt (x : CreateStatsStmt.t Node) : CreateStatsStmt.t Node :=
  CreateStatsStmt.mk (map erase x.(CreateStatsStmt.defnames))
    (map erase x.(CreateStatsStmt.stat_types)) (map erase x.(CreateStatsStmt.exprs))
    (map erase x.(CreateStatsStmt.relations)) x.(CreateStatsStmt.stxcomment)
    x.(CreateStatsStmt.if_not_exists).
Definition erase_AlterStatsStmt (x : AlterStatsStmt.t Node) : AlterStatsStmt.t Node :=
  AlterStatsStmt.mk (map erase x.(AlterStatsStmt.defnames)) x.(AlterStatsStmt.stxstattarget)
    x.(AlterStatsStmt.missing_ok).
Definition erase_CreateFunctionStmt (x : CreateFunctionStmt.t Node) : CreateFunctionStmt.t Node :=
  CreateFunctionStmt.mk x.(CreateFunctionStmt.is_procedure) x.(CreateFunctionStmt.replace)
    (map erase x.(CreateFunctionStmt.funcname)) (map erase x.(CreateFunctionStmt.parameters))
    (option_map erase_TypeName x.(CreateFunctionStmt.returnType))
    (map erase x.(CreateFunctionStmt.options)).
Definition erase_FunctionParameter (x : FunctionParameter.t Node) : FunctionParameter.t Node :=
  FunctionParameter.mk x.(FunctionParameter.name)
    (option_map erase_TypeName x.(FunctionParameter.argType)) x.(FunctionParameter.mode)
    (erase_ptr x.(FunctionParameter.defexpr)).
Definition erase_AlterFunctionStmt (x : AlterFunctionStmt.t Node) : AlterFunctionStmt.t Node :=
  AlterFunctionStmt.mk x.(AlterFunctionStmt.objtype)
    (option_map erase_ObjectWithArgs x.(AlterFunctionStmt.func))
    (map erase x.(AlterFunctionStmt.actions)).
Definition erase_DoStmt (x : DoStmt.t Node) : DoStmt.t Node :=
  DoStmt.mk (map erase x.(DoStmt.args)).
Definition erase_FuncExpr (x : FuncExpr.t Node) : FuncExpr.t Node :=
  FuncExpr.mk x.(FuncExpr.funcid) x.(FuncExpr.funcresulttype) x.(FuncExpr.funcretset)
    x.(FuncExpr.funcvariadic) COERCE_EXPLICIT_CALL x.(FuncExpr.funccollid)
    x.(FuncExpr.inputcollid) (map erase x.(FuncExpr.args)) 0.
Definition erase_CallStmt (x : CallStmt.t Node) : CallStmt.t Node :=
  CallStmt.mk (option_map erase_FuncCall x.(CallStmt.funccall))
    (option_map erase_FuncExpr x.(CallStmt.funcexpr)).
Definition erase_RenameStmt (x : RenameStmt.t Node) : RenameStmt.t Node :=
  RenameStmt.mk x.(RenameStmt.renameType) x.(RenameStmt.relationType)
    (option_map erase_RangeVar x.(RenameStmt.relation)) (erase_ptr x.(RenameStmt.object))
    x.(RenameStmt.subname) x.(RenameStmt.newname) x.(RenameStmt.behavior)
    x.(RenameStmt.missing_ok).
Definition erase_AlterObjectDependsStmt (x : AlterObjectDependsStmt.t Node) : AlterObjectDependsStmt.t Node :=
  AlterObjectDependsStmt.mk x.(AlterObjectDependsStmt.objectType)
    (option_map erase_RangeVar x.(AlterObjectDependsStmt.relation))
    (erase_ptr x.(AlterObjectDependsStmt.object)) (erase_ptr x.(AlterObjectDependsStmt.extname))
    x.(AlterObjectDependsStmt.remove).
Definition erase_AlterObjectSchemaStmt (x : AlterObjectSchemaStmt.t Node) : AlterObjectSchemaStmt.t Node :=
  AlterObjectSchemaStmt.mk x.(AlterObjectSchemaStmt.objectType)
    (option_map erase_RangeVar x.(AlterObjectSchemaStmt.relation))
    (erase_ptr x.(AlterObjectSchemaStmt.object)) x.(AlterObjectSchemaStmt.newschema)
    x.(AlterObjectSchemaStmt.missing_ok).
Definition erase_AlterOwnerStmt (x : AlterOwnerStmt.t Node) : AlterOwnerStmt.t Node :=
  AlterOwnerStmt.mk x.(AlterOwnerStmt.objectType)
    (option_map erase_RangeVar x.(AlterOwnerStmt.relation)) (erase_ptr x.(AlterOwnerStmt.object))
    (option_map erase_RoleSpec x.(AlterOwnerStmt.newowner)).
Definition erase_AlterOperatorStmt (x : AlterOperatorStmt.t Node) : AlterOperatorStmt.t Node :=
  AlterOperatorStmt.mk (option_map erase_ObjectWithArgs x.(AlterOperatorStmt.opername))
    (map erase x.(AlterOperatorStmt.options)).
Definition erase_AlterTypeStmt (x : AlterTypeStmt.t Node) : AlterTypeStmt.t Node :=
  AlterTypeStmt.mk (map erase x.(AlterTypeStmt.typeName)) (map erase x.(AlterTypeStmt.options)).
Definition erase_RuleStmt (x : RuleStmt.t Node) : RuleStmt.t Node :=
  RuleStmt.mk (option_map erase_RangeVar x.(RuleStmt.relation)) x.(RuleStmt.rulename)
    (erase_ptr x.(RuleStmt.whereClause)) x.(RuleStmt.event) x.(RuleStmt.instead)
    (map erase x.(RuleStmt.actions)) x.(RuleStmt.replace).
Definition erase_NotifyStmt (x : NotifyStmt.t Node) : NotifyStmt.t Node :=
  NotifyStmt.mk x.(NotifyStmt.conditionname) x.(NotifyStmt.payload).
Definition erase_ListenStmt (x : ListenStmt.t Node) : ListenStmt.t Node :=
  ListenStmt.mk x.(ListenStmt.conditionname).
Definition erase_UnlistenStmt (x : UnlistenStmt.t Node) : UnlistenStmt.t Node :=
  UnlistenStmt.mk x.(UnlistenStmt.conditionname).
Definition erase_TransactionStmt (x : TransactionStmt.t Node) : TransactionStmt.t Node :=
  TransactionStmt.mk x.(TransactionStmt.kind) (map erase x.(TransactionStmt.options))
    x.(TransactionStmt.savepoint_name) x.(TransactionStmt.gid) x.(TransactionStmt.chain).
Definition erase_CompositeTypeStmt (x : CompositeTypeStmt.t Node) : CompositeTypeStmt.t Node :=
  CompositeTypeStmt.mk (option_map erase_RangeVar x.(CompositeTypeStmt.typevar))
    (map erase x.(CompositeTypeStmt.coldeflist)).
Definition erase_CreateEnumStmt (x : CreateEnumStmt.t Node) : CreateEnumStmt.t Node :=
  CreateEnumStmt.mk (map erase x.(CreateEnumStmt.typeName)) (map erase x.(CreateEnumStmt.vals)).
Definition erase_CreateRangeStmt (x : CreateRangeStmt.t Node) : CreateRangeStmt.t Node :=
  CreateRangeStmt.mk (map erase x.(CreateRangeStmt.typeName))
    (map erase x.(CreateRangeStmt.params)).
Definition erase_AlterEnumStmt (x : AlterEnumStmt.t Node) : AlterEnumStmt.t Node :=
  AlterEnumStmt.mk (map erase x.(AlterEnumStmt.typeName)) x.(AlterEnumStmt.oldVal)
    x.(AlterEnumStmt.newVal) x.(AlterEnumStmt.newValNeighbor) x.(AlterEnumStmt.newValIsAfter)
    x.(AlterEnumStmt.skipIfNewValExists).
Definition erase_ViewStmt (x : ViewStmt.t Node) : ViewStmt.t Node :=
  ViewStmt.mk (option_map erase_RangeVar x.(ViewStmt.view)) (map erase x.(ViewStmt.aliases))
    (erase_ptr x.(ViewStmt.query)) x.(ViewStmt.replace) (map erase x.(ViewStmt.options))
    x.(ViewStmt.withCheckOption).
Definition erase_LoadStmt (x : LoadStmt.t Node) : LoadStmt.t Node :=
  LoadStmt.mk x.(LoadStmt.filename).
Definition erase_CreatedbStmt (x : CreatedbStmt.t Node) : CreatedbStmt.t Node :=
  CreatedbStmt.mk x.(CreatedbStmt.dbname) (map erase x.(CreatedbStmt.options)).
Definition erase_AlterDatabaseStmt (x : AlterDatabaseStmt.t Node) : AlterDatabaseStmt.t Node :=
  AlterDatabaseStmt.mk x.(AlterDatabaseStmt.dbname) (map erase x.(AlterDatabaseStmt.options)).
Definition erase_AlterDatabaseSetStmt (x : AlterDatabaseSetStmt.t Node) : AlterDatabaseSetStmt.t Node :=
  AlterDatabaseSetStmt.mk x.(AlterDatabaseSetStmt.dbname)
    (option_map erase_VariableSetStmt x.(AlterDatabaseSetStmt.setstmt)).
Definition erase_DropdbStmt (x : DropdbStmt.t Node) : DropdbStmt.t Node :=
  DropdbStmt.mk x.(DropdbStmt.dbname) x.(DropdbStmt.missing_ok)
    (map erase x.(DropdbStmt.options)).
Definition erase_AlterSystemStmt (x : AlterSystemStmt.t Node) : AlterSystemStmt.t Node :=
  AlterSystemStmt.mk (option_map erase_VariableSetStmt x.(AlterSystemStmt.setstmt)).
Definition erase_ClusterStmt (x : ClusterStmt.t Node) : ClusterStmt.t Node :=
  ClusterStmt.mk (option_map erase_RangeVar x.(ClusterStmt.relation)) x.(ClusterStmt.indexname)
    x.(ClusterStmt.options).
Definition erase_VacuumStmt (x : VacuumStmt.t Node) : VacuumStmt.t Node :=
  VacuumStmt.mk (map erase x.(VacuumStmt.options)) (map erase x.(VacuumStmt.rels))
    x.(VacuumStmt.is_vacuumcmd).
Definition erase_VacuumRelation (x : VacuumRelation.t Node) : VacuumRelation.t Node :=
  VacuumRelation.mk (option_map erase_RangeVar x.(VacuumRelation.relation)) x.(VacuumRelation.oid)
    (map erase x.(VacuumRelation.va_cols)).
Definition erase_ExplainStmt (x : ExplainStmt.t Node) : ExplainStmt.t Node :=
  ExplainStmt.mk (erase_ptr x.(ExplainStmt.query)) (map erase x.(ExplainStmt.options)).
Definition erase_CreateTableAsStmt (x : CreateTableAsStmt.t Node) : CreateTableAsStmt.t Node :=
  CreateTableAsStmt.mk (erase_ptr x.(CreateTableAsStmt.query))
    (option_map erase_IntoClause x.(CreateTableAsStmt.into)) x.(CreateTableAsStmt.relkind)
    x.(CreateTableAsStmt.is_select_into) x.(CreateTableAsStmt.if_not_exists).
Definition erase_RefreshMatViewStmt (x : RefreshMatViewStmt.t Node) : RefreshMatViewStmt.t Node :=
  RefreshMatViewStmt.mk x.(RefreshMatViewStmt.concurrent) x.(RefreshMatViewStmt.skipData)
    (option_map erase_RangeVar x.(RefreshMatViewStmt.relation)).
Definition erase_DiscardStmt (x : DiscardStmt.t Node) : DiscardStmt.t Node :=
  DiscardStmt.mk x.(DiscardStmt.target).
Definition erase_LockStmt (x : LockStmt.t Node) : LockStmt.t Node :=
  LockStmt.mk (map erase x.(LockStmt.relations)) x.(LockStmt.mode) x.(LockStmt.nowait).
Definition erase_ConstraintsSetStmt (x : ConstraintsSetStmt.t Node) : ConstraintsSetStmt.t Node :=
  ConstraintsSetStmt.mk (map erase x.(ConstraintsSetStmt.constraints))
    x.(ConstraintsSetStmt.deferred).
Definition erase_ReindexStmt (x : ReindexStmt.t Node) : ReindexStmt.t Node :=
  ReindexStmt.mk x.(ReindexStmt.kind) (option_map erase_RangeVar x.(ReindexStmt.relation))
    x.(ReindexStmt.name) x.(ReindexStmt.options) x.(ReindexStmt.concurrent).
Definition erase_CreateConversionStmt (x : CreateConversionStmt.t Node) : CreateConversionStmt.t Node :=
  CreateConversionStmt.mk (map erase x.(CreateConversionStmt.conversion_name))
    x.(CreateConversionStmt.for_encoding_name) x.(CreateConversionStmt.to_encoding_name)
    (map erase x.(CreateConversionStmt.func_name)) x.(CreateConversionStmt.def).
Definition erase_CreateCastStmt (x : CreateCastStmt.t Node) : CreateCastStmt.t Node :=
  CreateCastStmt.mk (option_map erase_TypeName x.(CreateCastStmt.sourcetype))
    (option_map erase_TypeName x.(CreateCastStmt.targettype))
    (option_map erase_ObjectWithArgs x.(CreateCastStmt.func)) x.(CreateCastStmt.context)
    x.(CreateCastStmt.inout).
Definition erase_CreateTransformStmt (x : CreateTransformStmt.t Node) : CreateTransformStmt.t Node :=
  CreateTransformStmt.mk x.(CreateTransformStmt.replace)
    (option_map erase_TypeName x.(CreateTransformStmt.type_name)) x.(CreateTransformStmt.lang)
    (option_map erase_ObjectWithArgs x.(CreateTransformStmt.fromsql))
    (option_map erase_ObjectWithArgs x.(CreateTransformStmt.tosql)).
Definition erase_PrepareStmt (x : PrepareStmt.t Node) : PrepareStmt.t Node :=
  PrepareStmt.mk x.(PrepareStmt.name) (map erase x.(PrepareStmt.argtypes))
    (erase_ptr x.(PrepareStmt.query)).
Definition erase_ExecuteStmt (x : ExecuteStmt.t Node) : ExecuteStmt.t Node :=
  ExecuteStmt.mk x.(ExecuteStmt.name) (map erase x.(ExecuteStmt.params)).
Definition erase_DeallocateStmt (x : DeallocateStmt.t Node) : DeallocateStmt.t Node :=
  DeallocateStmt.mk x.(DeallocateStmt.name).
Definition erase_DropOwnedStmt (x : DropOwnedStmt.t Node) : DropOwnedStmt.t Node :=
  DropOwnedStmt.mk (map erase x.(DropOwnedStmt.roles)) x.(DropOwnedStmt.behavior).
Definition erase_ReassignOwnedStmt (x : ReassignOwnedStmt.t Node) : ReassignOwnedStmt.t Node :=
  ReassignOwnedStmt.mk (map erase x.(ReassignOwnedStmt.roles))
    (option_map erase_RoleSpec x.(ReassignOwnedStmt.newrole)).
Definition erase_AlterTSDictionaryStmt (x : AlterTSDictionaryStmt.t Node) : AlterTSDictionaryStmt.t Node :=
  AlterTSDictionaryStmt.mk (map erase x.(AlterTSDictionaryStmt.dictname))
    (map erase x.(AlterTSDictionaryStmt.options)).
Definition erase_AlterTSConfigurationStmt (x : AlterTSConfigurationStmt.t Node) : AlterTSConfigurationStmt.t Node :=
  AlterTSConfigurationStmt.mk x.(AlterTSConfigurationStmt.kind)
    (map erase x.(AlterTSConfigurationStmt.cfgname))
    (map erase x.(AlterTSConfigurationStmt.tokentype))
    (map erase x.(AlterTSConfigurationStmt.dicts)) x.(AlterTSConfigurationStmt.override)
    x.(AlterTSConfigurationStmt.replace) x.(AlterTSConfigurationStmt.missing_ok).
Definition erase_CreatePublicationStmt (x : CreatePublicationStmt.t Node) : CreatePublicationStmt.t Node :=
  CreatePublicationStmt.mk x.(CreatePublicationStmt.pubname)
    (map erase x.(CreatePublicationStmt.options)) (map erase x.(CreatePublicationStmt.tables))
    x.(CreatePublicationStmt.for_all_tables).
Definition erase_AlterPublicationStmt (x : AlterPublicationStmt.t Node) : AlterPublicationStmt.t Node :=
  AlterPublicationStmt.mk x.(AlterPublicationStmt.pubname)
    (map erase x.(AlterPublicationStmt.options)) (map erase x.(AlterPublicationStmt.tables))
    x.(AlterPublicationStmt.for_all_tables) x.(AlterPublicationStmt.tableAction).
Definition erase_CreateSubscriptionStmt (x : CreateSubscriptionStmt.t Node) : CreateSubscriptionStmt.t Node :=
  CreateSubscriptionStmt.mk x.(CreateSubscriptionStmt.subname) x.(CreateSubscriptionStmt.conninfo)
    (map erase x.(CreateSubscriptionStmt.publication))
    (map erase x.(CreateSubscriptionStmt.options)).
Definition erase_AlterSubscriptionStmt (x : AlterSubscriptionStmt.t Node) : AlterSubscriptionStmt.t Node :=
  AlterSubscriptionStmt.mk x.(AlterSubscriptionStmt.kind) x.(AlterSubscriptionStmt.subname)
    x.(AlterSubscriptionStmt.conninfo) (map erase x.(AlterSubscriptionStmt.publication))
    (map erase x.(AlterSubscriptionStmt.options)).
Definition erase_DropSubscriptionStmt (x : DropSubscriptionStmt.t Node) : DropSubscriptionStmt.t Node :=
  DropSubscriptionStmt.mk x.(DropSubscriptionStmt.subname) x.(DropSubscriptionStmt.missing_ok)
    x.(DropSubscriptionStmt.behavior).
End erase.

Fixpoint erase (n : Node) : Node :=
  match n with
  | N_List l => N_List (map erase l)
  | N_Value v => N_Value v
  | N_RangeVar x => N_RangeVar (erase_RangeVar erase x)
  | N_Alias x => N_Alias (erase_Alias erase x)
  | N_TypeName x => N_TypeName (erase_TypeName erase x)
  | N_ColumnRef x => N_ColumnRef (erase_ColumnRef erase x)
  | N_ParamRef x => N_ParamRef (erase_ParamRef x)
  | N_A_Expr x => N_A_Expr (erase_A_Expr erase x)
  | N_A_Const x => N_A_Const (erase_A_Const x)
  | N_TypeCast x => N_TypeCast (erase_TypeCast erase x)
  | N_CollateClause x => N_CollateClause (erase_CollateClause erase x)
  | N_RoleSpec x => N_RoleSpec (erase_RoleSpec x)
  | N_WindowDef x => N_WindowDef (erase_WindowDef erase x)
  | N_SortBy x => N_SortBy (erase_SortBy erase x)
  | N_FuncCall x => N_FuncCall (erase_FuncCall erase x)
  | N_A_Star x => N_A_Star (erase_A_Star x)
  | N_A_Indices x => N_A_Indices (erase_A_Indices erase x)
  | N_A_Indirection x => N_A_Indirection (erase_A_Indirection erase x)
  | N_A_ArrayExpr x => N_A_ArrayExpr (erase_A_ArrayExpr erase x)
  | N_ResTarget x => N_ResTarget (erase_ResTarget erase x)
  | N_MultiAssignRef x => N_MultiAssignRef (erase_MultiAssignRef erase x)
  | N_NamedArgExpr x => N_NamedArgExpr (erase_NamedArgExpr erase x)
  | N_BoolExpr x => N_BoolExpr (erase_BoolExpr erase x)
  | N_SubLink x => N_SubLink (erase_SubLink erase x)
  | N_CaseWhen x => N_CaseWhen (erase_CaseWhen erase x)
  | N_CaseExpr x => N_CaseExpr (erase_CaseExpr erase x)
  | N_RowExpr x => N_RowExpr (erase_RowExpr erase x)
  | N_CoalesceExpr x => N_CoalesceExpr (erase_CoalesceExpr erase x)
  | N_MinMaxExpr x => N_MinMaxExpr (erase_MinMaxExpr erase x)
  | N_SQLValueFunction x => N_SQLValueFunction (erase_SQLValueFunction x)
  | N_XmlExpr x => N_XmlExpr (erase_XmlExpr erase x)
  | N_XmlSerialize x => N_XmlSerialize (erase_XmlSerialize erase x)
  | N_NullTest x => N_NullTest (erase_NullTest erase x)
  | N_BooleanTest x => N_BooleanTest (erase_BooleanTest erase x)
  | N_SetToDefault x => N_SetToDefault (erase_SetToDefault x)
  | N_CurrentOfExpr x => N_CurrentOfExpr (erase_CurrentOfExpr x)
  | N_GroupingFunc x => N_GroupingFunc (erase_GroupingFunc erase x)
  | N_DefElem x => N_DefElem (erase_DefElem erase x)
  | N_IndexElem x => N_IndexElem (erase_IndexElem erase x)
  | N_Constraint x => N_Constraint (erase_Constraint erase x)
  | N_ColumnDef x => N_ColumnDef (erase_ColumnDef erase x)
  | N_JoinExpr x => N_JoinExpr (erase_JoinExpr erase x)
  | N_RangeSubselect x => N_RangeSubselect (erase_RangeSubselect erase x)
  | N_RangeFunction x => N_RangeFunction (erase_RangeFunction erase x)
  | N_RangeTableFuncCol x => N_RangeTableFuncCol (erase_RangeTableFuncCol erase x)
  | N_RangeTableFunc x => N_RangeTableFunc (erase_RangeTableFunc erase x)
  | N_RangeTableSample x => N_RangeTableSample (erase_RangeTableSample erase x)
  | N_CommonTableExpr x => N_CommonTableExpr (erase_CommonTableExpr erase x)
  | N_WithClause x => N_WithClause (erase_WithClause erase x)
  | N_InferClause x => N_InferClause (erase_InferClause erase x)
  | N_OnConflictClause x => N_OnConflictClause (erase_OnConflictClause erase x)
  | N_LockingClause x => N_LockingClause (erase_LockingClause erase x)
  | N_GroupingSet x => N_GroupingSet (erase_GroupingSet erase x)
  | N_IntoClause x => N_IntoClause (erase_IntoClause erase x)
  | N_SelectStmt x => N_SelectStmt (erase_SelectStmt erase x)
  | N_InsertStmt x => N_InsertStmt (erase_InsertStmt erase x)
  | N_UpdateStmt x => N_UpdateStmt (erase_UpdateStmt erase x)
  | N_DeleteStmt x => N_DeleteStmt (erase_DeleteStmt erase x)
  | N_RawStmt x => N_RawStmt (erase_RawStmt erase x)
  | N_AlterTableCmd x => N_AlterTableCmd (erase_AlterTableCmd erase x)
  | N_PartitionBoundSpec x => N_PartitionBoundSpec (erase_PartitionBoundSpec erase x)
  | N_TableLikeClause x => N_TableLikeClause (erase_TableLikeClause erase x)
  | N_PartitionElem x => N_PartitionElem (erase_PartitionElem erase x)
  | N_PartitionSpec x => N_PartitionSpec (erase_PartitionSpec erase x)
  | N_PartitionCmd x => N_PartitionCmd (erase_PartitionCmd erase x)
  | N_TriggerTransition x => N_TriggerTransition (erase_TriggerTransition x)
  | N_CreateSchemaStmt x => N_CreateSchemaStmt (erase_CreateSchemaStmt erase x)
  | N_AlterTableStmt x => N_AlterTableStmt (erase_AlterTableStmt erase x)
  | N_ReplicaIdentityStmt x => N_ReplicaIdentityStmt (erase_ReplicaIdentityStmt x)
  | N_AlterCollationStmt x => N_AlterCollationStmt (erase_AlterCollationStmt erase x)
  | N_AlterDomainStmt x => N_AlterDomainStmt (erase_AlterDomainStmt erase x)
  | N_GrantStmt x => N_GrantStmt (erase_GrantStmt erase x)
  | N_ObjectWithArgs x => N_ObjectWithArgs (erase_ObjectWithArgs erase x)
  | N_AccessPriv x => N_AccessPriv (erase_AccessPriv erase x)
  | N_GrantRoleStmt x => N_GrantRoleStmt (erase_GrantRoleStmt erase x)
  | N_AlterDefaultPrivilegesStmt x => N_AlterDefaultPrivilegesStmt (erase_AlterDefaultPrivilegesStmt erase x)
  | N_CopyStmt x => N_CopyStmt (erase_CopyStmt erase x)
  | N_VariableSetStmt x => N_VariableSetStmt (erase_VariableSetStmt erase x)
  | N_VariableShowStmt x => N_VariableShowStmt (erase_VariableShowStmt x)
  | N_CreateStmt x => N_CreateStmt (erase_CreateStmt erase x)
  | N_CreateTableSpaceStmt x => N_CreateTableSpaceStmt (erase_CreateTableSpaceStmt erase x)
  | N_DropTableSpaceStmt x => N_DropTableSpaceStmt (erase_DropTableSpaceStmt x)
  | N_AlterTableSpaceOptionsStmt x => N_AlterTableSpaceOptionsStmt (erase_AlterTableSpaceOptionsStmt erase x)
  | N_AlterTableMoveAllStmt x => N_AlterTableMoveAllStmt (erase_AlterTableMoveAllStmt erase x)
  | N_CreateExtensionStmt x => N_CreateExtensionStmt (erase_CreateExtensionStmt erase x)
  | N_AlterExtensionStmt x => N_AlterExtensionStmt (erase_AlterExtensionStmt erase x)
  | N_AlterExtensionContentsStmt x => N_AlterExtensionContentsStmt (erase_AlterExtensionContentsStmt erase x)
  | N_CreateFdwStmt x => N_CreateFdwStmt (erase_CreateFdwStmt erase x)
  | N_AlterFdwStmt x => N_AlterFdwStmt (erase_AlterFdwStmt erase x)
  | N_CreateForeignServerStmt x => N_CreateForeignServerStmt (erase_CreateForeignServerStmt erase x)
  | N_AlterForeignServerStmt x => N_AlterForeignServerStmt (erase_AlterForeignServerStmt erase x)
  | N_CreateForeignTableStmt x => N_CreateForeignTableStmt (erase_CreateForeignTableStmt erase x)
  | N_CreateUserMappingStmt x => N_CreateUserMappingStmt (erase_CreateUserMappingStmt erase x)
  | N_AlterUserMappingStmt x => N_AlterUserMappingStmt (erase_AlterUserMappingStmt erase x)
  | N_DropUserMappingStmt x => N_DropUserMappingStmt (erase_DropUserMappingStmt x)
  | N_ImportForeignSchemaStmt x => N_ImportForeignSchemaStmt (erase_ImportForeignSchemaStmt erase x)
  | N_CreatePolicyStmt x => N_CreatePolicyStmt (erase_CreatePolicyStmt erase x)
  | N_AlterPolicyStmt x => N_AlterPolicyStmt (erase_AlterPolicyStmt erase x)
  | N_CreateAmStmt x => N_CreateAmStmt (erase_CreateAmStmt erase x)
  | N_CreateTrigStmt x => N_CreateTrigStmt (erase_CreateTrigStmt erase x)
  | N_CreateEventTrigStmt x => N_CreateEventTrigStmt (erase_CreateEventTrigStmt erase x)
  | N_AlterEventTrigStmt x => N_AlterEventTrigStmt (erase_AlterEventTrigStmt x)
  | N_CreatePLangStmt x => N_CreatePLangStmt (erase_CreatePLangStmt erase x)
  | N_CreateRoleStmt x => N_CreateRoleStmt (erase_CreateRoleStmt erase x)
  | N_AlterRoleStmt x => N_AlterRoleStmt (erase_AlterRoleStmt erase x)
  | N_AlterRoleSetStmt x => N_AlterRoleSetStmt (erase_AlterRoleSetStmt erase x)
  | N_DropRoleStmt x => N_DropRoleStmt (erase_DropRoleStmt erase x)
  | N_CreateSeqStmt x => N_CreateSeqStmt (erase_CreateSeqStmt erase x)
  | N_AlterSeqStmt x => N_AlterSeqStmt (erase_AlterSeqStmt erase x)
  | N_DefineStmt x => N_DefineStmt (erase_DefineStmt erase x)
  | N_CreateDomainStmt x => N_CreateDomainStmt (erase_CreateDomainStmt erase x)
  | N_CreateOpClassStmt x => N_CreateOpClassStmt (erase_CreateOpClassStmt erase x)
  | N_CreateOpClassItem x => N_CreateOpClassItem (erase_CreateOpClassItem erase x)
  | N_CreateOpFamilyStmt x => N_CreateOpFamilyStmt (erase_CreateOpFamilyStmt erase x)
  | N_AlterOpFamilyStmt x => N_AlterOpFamilyStmt (erase_AlterOpFamilyStmt erase x)
  | N_DropStmt x => N_DropStmt (erase_DropStmt erase x)
  | N_TruncateStmt x => N_TruncateStmt (erase_TruncateStmt erase x)
  | N_CommentStmt x => N_CommentStmt (erase_CommentStmt erase x)
  | N_SecLabelStmt x => N_SecLabelStmt (erase_SecLabelStmt erase x)
  | N_DeclareCursorStmt x => N_DeclareCursorStmt (erase_DeclareCursorStmt erase x)
  | N_ClosePortalStmt x => N_ClosePortalStmt (erase_ClosePortalStmt x)
  | N_FetchStmt x => N_FetchStmt (erase_FetchStmt x)
  | N_IndexStmt x => N_IndexStmt (erase_IndexStmt erase x)
  | N_CreateStatsStmt x => N_CreateStatsStmt (erase_CreateStatsStmt erase x)
  | N_AlterStatsStmt x => N_AlterStatsStmt (erase_AlterStatsStmt erase x)
  | N_CreateFunctionStmt x => N_CreateFunctionStmt (erase_CreateFunctionStmt erase x)
  | N_FunctionParameter x => N_FunctionParameter (erase_FunctionParameter erase x)
  | N_AlterFunctionStmt x => N_AlterFunctionStmt (erase_AlterFunctionStmt erase x)
  | N_DoStmt x => N_DoStmt (erase_DoStmt erase x)
  | N_CallStmt x => N_CallStmt (erase_CallStmt erase x)
  | N_RenameStmt x => N_RenameStmt (erase_RenameStmt erase x)
  | N_AlterObjectDependsStmt x => N_AlterObjectDependsStmt (erase_AlterObjectDependsStmt erase x)
  | N_AlterObjectSchemaStmt x => N_AlterObjectSchemaStmt (erase_AlterObjectSchemaStmt erase x)
  | N_AlterOwnerStmt x => N_AlterOwnerStmt (erase_AlterOwnerStmt erase x)
  | N_AlterOperatorStmt x => N_AlterOperatorStmt (erase_AlterOperatorStmt erase x)
  | N_AlterTypeStmt x => N_AlterTypeStmt (erase_AlterTypeStmt erase x)
  | N_RuleStmt x => N_RuleStmt (erase_RuleStmt erase x)
  | N_NotifyStmt x => N_NotifyStmt (erase_NotifyStmt x)
  | N_ListenStmt x => N_ListenStmt (erase_ListenStmt x)
  | N_UnlistenStmt x => N_UnlistenStmt (erase_UnlistenStmt x)
  | N_TransactionStmt x => N_TransactionStmt (erase_TransactionStmt erase x)
  | N_CompositeTypeStmt x => N_CompositeTypeStmt (erase_CompositeTypeStmt erase x)
  | N_CreateEnumStmt x => N_CreateEnumStmt (erase_CreateEnumStmt erase x)
  | N_CreateRangeStmt x => N_CreateRangeStmt (erase_CreateRangeStmt erase x)
  | N_AlterEnumStmt x => N_AlterEnumStmt (erase_AlterEnumStmt erase x)
  | N_ViewStmt x => N_ViewStmt (erase_ViewStmt erase x)
  | N_LoadStmt x => N_LoadStmt (erase_LoadStmt x)
  | N_CreatedbStmt x => N_CreatedbStmt (erase_CreatedbStmt erase x)
  | N_AlterDatabaseStmt x => N_AlterDatabaseStmt (erase_AlterDatabaseStmt erase x)
  | N_AlterDatabaseSetStmt x => N_AlterDatabaseSetStmt (erase_AlterDatabaseSetStmt erase x)
  | N_DropdbStmt x => N_DropdbStmt (erase_DropdbStmt erase x)
  | N_AlterSystemStmt x => N_AlterSystemStmt (erase_AlterSystemStmt erase x)
  | N_ClusterStmt x => N_ClusterStmt (erase_ClusterStmt erase x)
  | N_VacuumStmt x => N_VacuumStmt (erase_VacuumStmt erase x)
  | N_VacuumRelation x => N_VacuumRelation (erase_VacuumRelation erase x)
  | N_ExplainStmt x => N_ExplainStmt (erase_ExplainStmt erase x)
  | N_CreateTableAsStmt x => N_CreateTableAsStmt (erase_CreateTableAsStmt erase x)
  | N_RefreshMatViewStmt x => N_RefreshMatViewStmt (erase_RefreshMatViewStmt erase x)
  | N_CheckPointStmt x => N_CheckPointStmt x
  | N_DiscardStmt x => N_DiscardStmt (erase_DiscardStmt x)
  | N_LockStmt x => N_LockStmt (erase_LockStmt erase x)
  | N_ConstraintsSetStmt x => N_ConstraintsSetStmt (erase_ConstraintsSetStmt erase x)
  | N_ReindexStmt x => N_ReindexStmt (erase_ReindexStmt erase x)
  | N_CreateConversionStmt x => N_CreateConversionStmt (erase_CreateConversionStmt erase x)
  | N_CreateCastStmt x => N_CreateCastStmt (erase_CreateCastStmt erase x)
  | N_CreateTransformStmt x => N_CreateTransformStmt (erase_CreateTransformStmt erase x)
  | N_PrepareStmt x => N_PrepareStmt (erase_PrepareStmt erase x)
  | N_ExecuteStmt x => N_ExecuteStmt (erase_ExecuteStmt erase x)
  | N_DeallocateStmt x => N_DeallocateStmt (erase_DeallocateStmt x)
  | N_DropOwnedStmt x => N_DropOwnedStmt (erase_DropOwnedStmt erase x)
  | N_ReassignOwnedStmt x => N_ReassignOwnedStmt (erase_ReassignOwnedStmt erase x)
  | N_AlterTSDictionaryStmt x => N_AlterTSDictionaryStmt (erase_AlterTSDictionaryStmt erase x)
  | N_AlterTSConfigurationStmt x => N_AlterTSConfigurationStmt (erase_AlterTSConfigurationStmt erase x)
  | N_CreatePublicationStmt x => N_CreatePublicationStmt (erase_CreatePublicationStmt erase x)
  | N_AlterPublicationStmt x => N_AlterPublicationStmt (erase_AlterPublicationStmt erase x)
  | N_CreateSubscriptionStmt x => N_CreateSubscriptionStmt (erase_CreateSubscriptionStmt erase x)
  | N_AlterSubscriptionStmt x => N_AlterSubscriptionStmt (erase_AlterSubscriptionStmt erase x)
  | N_DropSubscriptionStmt x => N_DropSubscriptionStmt (erase_DropSubscriptionStmt x)
  | N_FuncExpr x => N_FuncExpr (erase_FuncExpr erase x)
  | N_Other tag => N_Other tag
  end.
