(* ===== verification/EqualProof.v ===== *)
(** * Comparison of trees: what it decides, for structs and for all kinds of nodes *)
From S2P Require Import Prelude Buffer Enums Nodes TreeCheck CopyProof EqualFuncs.

(** The comparison [r] returns, and tells whether [P] holds. *)
Definition decides (r : outcome bool) (P : Prop) : Prop := exists b, r = Ok b /\ (b = true <-> P).

Lemma decides_iff r P Q : decides r P -> (P <-> Q) -> decides r Q.
Proof. intros (b & E & Hb) HPQ. exists b. by rewrite <-HPQ. Qed.
Lemma decides_true : decides (Ok true) True.
Proof. by exists true. Qed.
Lemma decides_false (P : Prop) : ~ P -> decides (Ok false) P.
Proof. intros HP. exists false. by split. Qed.
Lemma decides_and r s P Q : decides r P -> decides s Q -> decides (r &&& s) (P /\ Q).
Proof.
  intros (b & -> & Hb) (c & -> & Hc). unfold and_then. cbn [obind]. destruct b.
  - exists c. split; [done|]. tauto.
  - exists false. split; [done|]. split; [done|]. intros [HP _]. by apply Hb in HP.
Qed.

Lemma decides_scalar {A} `{EqDecision A} (x y : A) : decides (COMPARE_SCALAR_FIELD x y) (x = y).
Proof. eexists. split; [done|]. apply bool_decide_eq_true. Qed.
Lemma decides_string s t : decides (COMPARE_STRING_FIELD s t) (s = t).
Proof.
  destruct s as [s|], t as [t|]; cbn; try (by apply decides_false); [|by exists true].
  eexists. split; [done|]. rewrite String.eqb_eq. split; intros; congruence.
Qed.
Lemma decides_value v v' : decides (same (_equalValue v v')) (v = v').
Proof.
  eexists. split; [done|]. destruct v, v'; cbn; rewrite ?Z.eqb_eq, ?String.eqb_eq; split; intros; congruence.
Qed.

(** ** Fields *)

Definition compares {A} (eqf : A -> A -> outcome bool) (erase_x : A -> A) (x : A) : Prop :=
  forall y, decides (eqf x y) (erase_x x = erase_x y).
Definition compared (n : Node) : Prop := known n = true -> compares equal erase n.

Lemma decides_forboth l : list_all Node compared l -> check_list known l = true -> forall l',
  List.length l = List.length l' -> decides (forboth equal l l') (map erase l = map erase l').
Proof.
  induction 1 as [|n Hn l _ IH]; intros Hk [|m l'] Hl; try done; [by exists true|].
  apply andb_true_iff in Hk as [Hk Hks]. injection Hl as Hl.
  eapply decides_iff; [apply decides_and; [apply (Hn Hk)|by apply IH]|]. cbn. split; [by intros [-> ->]|by intros [= -> ->]].
Qed.

Lemma decides_list l l' : list_all Node compared l -> check_list known l = true ->
  decides (COMPARE_LIST_FIELD equal l l') (map erase l = map erase l').
Proof.
  intros Hl Hk. unfold COMPARE_LIST_FIELD. destruct (Nat.eqb_spec (List.length l) (List.length l')) as [E|E].
  - by apply decides_forboth.
  - apply decides_false. intros Hm. apply E. by rewrite <-(length_map erase l), Hm, length_map.
Qed.

Lemma decides_ptr p q : option_all Node compared p -> (forall n, p = Some n -> null_ptr p = false -> known n = true) ->
  decides (COMPARE_NODE_FIELD equal p q) (erase_ptr erase p = erase_ptr erase q).
Proof.
  intros Hp Hk. unfold COMPARE_NODE_FIELD, erase_ptr.
  assert (Hq : forall r, r = Ok (null_ptr q) ->
    decides r (None = match q with Some n => if null_ptr q then None else Some (erase n) | None => None end)).
  { intros r ->. eexists. split; [done|]. destruct q as [m|]; [|by split]. by destruct (null_ptr (Some m)). }
  destruct Hp as [n Hn|]; [|by apply Hq]. destruct (null_ptr (Some n)) eqn:E; [by apply Hq|].
  destruct q as [m|]; [|by apply decides_false]. destruct (null_ptr (Some m)); [by apply decides_false|].
  eapply decides_iff; [apply (Hn (Hk n eq_refl eq_refl))|]. split; intros; congruence.
Qed.

Lemma decides_node p q : option_all Node compared p -> check_ptr any known p = true ->
  decides (COMPARE_NODE_FIELD equal p q) (erase_ptr erase p = erase_ptr erase q).
Proof.
  intros Hp Hk. apply decides_ptr; [done|]. intros n -> Hn. destruct n; try done. by destruct l.
Qed.

Lemma decides_select p q : option_all Node compared p -> check_select known p = true ->
  decides (COMPARE_NODE_FIELD equal p q) (erase_ptr erase p = erase_ptr erase q).
Proof. intros Hp Hk. apply decides_ptr; [done|]. intros n -> _. by apply andb_true_iff in Hk as [_ Hk]. Qed.

Lemma decides_plain {A} (P : A -> Type) eqf erase_x (p q : option A) :
  (forall x, P x -> compares eqf erase_x x) -> option_all A P p ->
  decides (COMPARE_STRUCT_FIELD eqf p q) (option_map erase_x p = option_map erase_x q).
Proof.
  intros Hc [x Hx|]; destruct q as [y|]; cbn; try (by apply decides_false); [|by exists true].
  eapply decides_iff; [by apply Hc|]. split; intros; congruence.
Qed.

Lemma decides_struct {A} (P : A -> Type) (k : A -> bool) eqf erase_x (p q : option A) :
  (forall x, P x -> k x = true -> compares eqf erase_x x) -> option_all A P p -> check_struct k p = true ->
  decides (COMPARE_STRUCT_FIELD eqf p q) (option_map erase_x p = option_map erase_x q).
Proof.
  intros Hc [x Hx|]; destruct q as [y|]; cbn; intros Hk; try (by apply decides_false); [|by exists true].
  eapply decides_iff; [by apply Hc|]. split; intros; congruence.
Qed.

Create HintDb compare.

(** ** Structs *)

Ltac compare_field :=
  lazymatch goal with
  | |- decides (_ &&& _) _ => eapply decides_and; compare_field
  | |- decides (COMPARE_SCALAR_FIELD _ _) _ => apply decides_scalar
  | |- decides (COMPARE_STRING_FIELD _ _) _ => apply decides_string
  | |- decides (same (_equalValue _ _)) _ => apply decides_value
  | |- decides COMPARE_LOCATION_FIELD _ => apply decides_true
  | |- decides COMPARE_COERCIONFORM_FIELD _ => apply decides_true
  | |- decides (COMPARE_LIST_FIELD _ _ _) _ => apply decides_list; assumption
  | |- decides (COMPARE_NODE_FIELD _ _ _) _ => first [apply decides_node; assumption | apply decides_select; assumption]
  | |- decides (COMPARE_STRUCT_FIELD _ _ _) _ =>
      first [eapply decides_struct; [|eassumption|eassumption]; cbn beta; intros; solve [eauto with compare]
            |eapply decides_plain; [|eassumption]; cbn beta; intros; solve [eauto with compare]]
  | |- decides (Ok true) _ => apply decides_true
  | |- decides (?f ?x ?y) _ =>
      let H := fresh in eassert (H : compares f _ x) by eauto with compare; apply H
  end.
Ltac compare_tac :=
  let H := fresh in let Hk := fresh in let y := fresh "y" in
  intros H;
  try (match goal with |- ?k = true -> _ => intros Hk; let k' := head_of k in unfold k' in Hk end);
  intros y;
  match goal with |- decides (?f _ y) (?e _ = _) =>
    let f' := head_of f in let e' := head_of e in unfold f', e' end;
  destruct H, y; simpl_fields; cbn [any check_string check_char check_ints] in *; split_andb;
  eapply decides_iff; [compare_field|];
  split; [intros; destruct_and?; f_equal; assumption
         |let E := fresh in intros E; try (injection E; clear E; intros); repeat split;
          first [assumption | match goal with |- ?e = _ => let h := head_of e in unfold h; f_equal; assumption end]].

Lemma eq_Alias x : Alias.t_all Node compared x ->
  check_Alias any known x = true ->
  compares (_equalAlias equal) (erase_Alias erase) x.
Proof. compare_tac. Qed.
#[export] Hint Resolve eq_Alias : compare.
Lemma eq_RangeVar x : RangeVar.t_all Node compared x ->
  check_RangeVar any known x = true ->
  compares (_equalRangeVar equal) (erase_RangeVar erase) x.
Proof. compare_tac. Qed.
#[export] Hint Resolve eq_RangeVar : compare.
Lemma eq_TypeName x : TypeName.t_all Node compared x ->
  check_TypeName known x = true ->
  compares (_equalTypeName equal) (erase_TypeName erase) x.
Proof. compare_tac. Qed.
#[export] Hint Resolve eq_TypeName : compare.
Lemma eq_ColumnRef x : ColumnRef.t_all Node compared x ->
  check_ColumnRef known x = true ->
  compares (_equalColumnRef equal) (erase_ColumnRef erase) x.
Proof. compare_tac. Qed.
#[export] Hint Resolve eq_ColumnRef : compare.
Lemma eq_ParamRef x : ParamRef.t_all Node compared x ->
  compares _equalParamRef erase_ParamRef x.
Proof. compare_tac. Qed.
#[export] Hint Resolve eq_ParamRef : compare.
Lemma eq_A_Expr x : A_Expr.t_all Node compared x ->
  check_A_Expr any known x = true ->
  compares (_equalAExpr equal) (erase_A_Expr erase) x.
Proof. compare_tac. Qed.
#[export] Hint Resolve eq_A_Expr : compare.
Lemma eq_A_Const x : A_Const.t_all Node compared x ->
  compares _equalAConst erase_A_Const x.
Proof. compare_tac. Qed.
#[export] Hint Resolve eq_A_Const : compare.
Lemma eq_TypeCast x : TypeCast.t_all Node compared x ->
  check_TypeCast any known x = true ->
  compares (_equalTypeCast equal) (erase_TypeCast erase) x.
Proof. compare_tac. Qed.
#[export] Hint Resolve eq_TypeCast : compare.
Lemma eq_CollateClause x : CollateClause.t_all Node compared x ->
  check_CollateClause any known x = true ->
  compares (_equalCollateClause equal) (erase_CollateClause erase) x.
Proof. compare_tac. Qed.
#[export] Hint Resolve eq_CollateClause : compare.
Lemma eq_RoleSpec x : RoleSpec.t_all Node compared x ->
  check_RoleSpec any x = true ->
  compares _equalRoleSpec erase_RoleSpec x.
Proof. compare_tac. Qed.
#[export] Hint Resolve eq_RoleSpec : compare.
Lemma eq_WindowDef x : WindowDef.t_all Node compared x ->
  check_WindowDef any known x = true ->
  compares (_equalWindowDef equal) (erase_WindowDef erase) x.
Proof. compare_tac. Qed.
#[export] Hint Resolve eq_WindowDef : compare.
Lemma eq_SortBy x : SortBy.t_all Node compared x ->
  check_SortBy any known x = true ->
  compares (_equalSortBy equal) (erase_SortBy erase) x.
Proof. compare_tac. Qed.
#[export] Hint Resolve eq_SortBy : compare.
Lemma eq_FuncCall x : FuncCall.t_all Node compared x ->
  check_FuncCall any known x = true ->
  compares (_equalFuncCall equal) (erase_FuncCall erase) x.
Proof. compare_tac. Qed.
#[export] Hint Resolve eq_FuncCall : compare.
Lemma eq_A_Star x : A_Star.t_all Node compared x ->
  compares _equalAStar erase_A_Star x.
Proof. compare_tac. Qed.
#[export] Hint Resolve eq_A_Star : compare.
Lemma eq_A_Indices x : A_Indices.t_all Node compared x ->
  check_A_Indices any known x = true ->
  compares (_equalAIndices equal) (erase_A_Indices erase) x.
Proof. compare_tac. Qed.
#[export] Hint Resolve eq_A_Indices : compare.
Lemma eq_A_Indirection x : A_Indirection.t_all Node compared x ->
  check_A_Indirection any known x = true ->
  compares (_equalA_Indirection equal) (erase_A_Indirection erase) x.
Proof. compare_tac. Qed.
#[export] Hint Resolve eq_A_Indirection : compare.
Lemma eq_A_ArrayExpr x : A_ArrayExpr.t_all Node compared x ->
  check_A_ArrayExpr known x = true ->
  compares (_equalA_ArrayExpr equal) (erase_A_ArrayExpr erase) x.
Proof. compare_tac. Qed.
#[export] Hint Resolve eq_A_ArrayExpr : compare.
Lemma eq_ResTarget x : ResTarget.t_all Node compared x ->
  check_ResTarget any known x = true ->
  compares (_equalResTarget equal) (erase_ResTarget erase) x.
Proof. compare_tac. Qed.
#[export] Hint Resolve eq_ResTarget : compare.
Lemma eq_MultiAssignRef x : MultiAssignRef.t_all Node compared x ->
  check_MultiAssignRef any known x = true ->
  compares (_equalMultiAssignRef equal) (erase_MultiAssignRef erase) x.
Proof. compare_tac. Qed.
#[export] Hint Resolve eq_MultiAssignRef : compare.
Lemma eq_NamedArgExpr x : NamedArgExpr.t_all Node compared x ->
  check_NamedArgExpr any known x = true ->
  compares (_equalNamedArgExpr equal) (erase_NamedArgExpr erase) x.
Proof. compare_tac. Qed.
#[export] Hint Resolve eq_NamedArgExpr : compare.
Lemma eq_BoolExpr x : BoolExpr.t_all Node compared x ->
  check_BoolExpr known x = true ->
  compares (_equalBoolExpr equal) (erase_BoolExpr erase) x.
Proof. compare_tac. Qed.
#[export] Hint Resolve eq_BoolExpr : compare.
Lemma eq_SubLink x : SubLink.t_all Node compared x ->
  check_SubLink any known x = true ->
  compares (_equalSubLink equal) (erase_SubLink erase) x.
Proof. compare_tac. Qed.
#[export] Hint Resolve eq_SubLink : compare.
Lemma eq_CaseWhen x : CaseWhen.t_all Node compared x ->
  check_CaseWhen any known x = true ->
  compares (_equalCaseWhen equal) (erase_CaseWhen erase) x.
Proof. compare_tac. Qed.
#[export] Hint Resolve eq_CaseWhen : compare.
Lemma eq_CaseExpr x : CaseExpr.t_all Node compared x ->
  check_CaseExpr any known x = true ->
  compares (_equalCaseExpr equal) (erase_CaseExpr erase) x.
Proof. compare_tac. Qed.
#[export] Hint Resolve eq_CaseExpr : compare.
Lemma eq_RowExpr x : RowExpr.t_all Node compared x ->
  check_RowExpr known x = true ->
  compares (_equalRowExpr equal) (erase_RowExpr erase) x.
Proof. compare_tac. Qed.
#[export] Hint Resolve eq_RowExpr : compare.
Lemma eq_CoalesceExpr x : CoalesceExpr.t_all Node compared x ->
  check_CoalesceExpr known x = true ->
  compares (_equalCoalesceExpr equal) (erase_CoalesceExpr erase) x.
Proof. compare_tac. Qed.
#[export] Hint Resolve eq_CoalesceExpr : compare.
Lemma eq_MinMaxExpr x : MinMaxExpr.t_all Node compared x ->
  check_MinMaxExpr known x = true ->
  compares (_equalMinMaxExpr equal) (erase_MinMaxExpr erase) x.
Proof. compare_tac. Qed.
#[export] Hint Resolve eq_MinMaxExpr : compare.
Lemma eq_SQLValueFunction x : SQLValueFunction.t_all Node compared x ->
  compares _equalSQLValueFunction erase_SQLValueFunction x.
Proof. compare_tac. Qed.
#[export] Hint Resolve eq_SQLValueFunction : compare.
Lemma eq_XmlExpr x : XmlExpr.t_all Node compared x ->
  check_XmlExpr any known x = true ->
  compares (_equalXmlExpr equal) (erase_XmlExpr erase) x.
Proof. compare_tac. Qed.
#[export] Hint Resolve eq_XmlExpr : compare.
Lemma eq_XmlSerialize x : XmlSerialize.t_all Node compared x ->
  check_XmlSerialize any known x = true ->
  compares (_equalXmlSerialize equal) (erase_XmlSerialize erase) x.
Proof. compare_tac. Qed.
#[export] Hint Resolve eq_XmlSerialize : compare.
Lemma eq_NullTest x : NullTest.t_all Node compared x ->
  check_NullTest any known x = true ->
  compares (_equalNullTest equal) (erase_NullTest erase) x.
Proof. compare_tac. Qed.
#[export] Hint Resolve eq_NullTest : compare.
Lemma eq_BooleanTest x : BooleanTest.t_all Node compared x ->
  check_BooleanTest any known x = true ->
  compares (_equalBooleanTest equal) (erase_BooleanTest erase) x.
Proof. compare_tac. Qed.
#[export] Hint Resolve eq_BooleanTest : compare.
Lemma eq_SetToDefault x : SetToDefault.t_all Node compared x ->
  compares _equalSetToDefault erase_SetToDefault x.
Proof. compare_tac. Qed.
#[export] Hint Resolve eq_SetToDefault : compare.
Lemma eq_CurrentOfExpr x : CurrentOfExpr.t_all Node compared x ->
  check_CurrentOfExpr any x = true ->
  compares _equalCurrentOfExpr erase_CurrentOfExpr x.
Proof. compare_tac. Qed.
#[export] Hint Resolve eq_CurrentOfExpr : compare.
Lemma eq_GroupingFunc x : GroupingFunc.t_all Node compared x ->
  check_GroupingFunc any known x = true ->
  compares (_equalGroupingFunc equal) (erase_GroupingFunc erase) x.
Proof. compare_tac. Qed.
#[export] Hint Resolve eq_GroupingFunc : compare.
Lemma eq_DefElem x : DefElem.t_all Node compared x ->
  check_DefElem any known x = true ->
  compares (_equalDefElem equal) (erase_DefElem erase) x.
Proof. compare_tac. Qed.
#[export] Hint Resolve eq_DefElem : compare.
Lemma eq_IndexElem x : IndexElem.t_all Node compared x ->
  check_IndexElem any known x = true ->
  compares (_equalIndexElem equal) (erase_IndexElem erase) x.
Proof. compare_tac. Qed.
#[export] Hint Resolve eq_IndexElem : compare.
Lemma eq_Constraint x : Constraint.t_all Node compared x ->
  check_Constraint any known x = true ->
  compares (_equalConstraint equal) (erase_Constraint erase) x.
Proof. compare_tac. Qed.
#[export] Hint Resolve eq_Constraint : compare.
Lemma eq_ColumnDef x : ColumnDef.t_all Node compared x ->
  check_ColumnDef any known x = true ->
  compares (_equalColumnDef equal) (erase_ColumnDef erase) x.
Proof. compare_tac. Qed.
#[export] Hint Resolve eq_ColumnDef : compare.
Lemma eq_JoinExpr x : JoinExpr.t_all Node compared x ->
  check_JoinExpr any known x = true ->
  compares (_equalJoinExpr equal) (erase_JoinExpr erase) x.
Proof. compare_tac. Qed.
#[export] Hint Resolve eq_JoinExpr : compare.
Lemma eq_RangeSubselect x : RangeSubselect.t_all Node compared x ->
  check_RangeSubselect any known x = true ->
  compares (_equalRangeSubselect equal) (erase_RangeSubselect erase) x.
Proof. compare_tac. Qed.
#[export] Hint Resolve eq_RangeSubselect : compare.
Lemma eq_RangeFunction x : RangeFunction.t_all Node compared x ->
  check_RangeFunction any known x = true ->
  compares (_equalRangeFunction equal) (erase_RangeFunction erase) x.
Proof. compare_tac. Qed.
#[export] Hint Resolve eq_RangeFunction : compare.
Lemma eq_RangeTableFuncCol x : RangeTableFuncCol.t_all Node compared x ->
  check_RangeTableFuncCol any known x = true ->
  compares (_equalRangeTableFuncCol equal) (erase_RangeTableFuncCol erase) x.
Proof. compare_tac. Qed.
#[export] Hint Resolve eq_RangeTableFuncCol : compare.
Lemma eq_RangeTableFunc x : RangeTableFunc.t_all Node compared x ->
  check_RangeTableFunc any known x = true ->
  compares (_equalRangeTableFunc equal) (erase_RangeTableFunc erase) x.
Proof. compare_tac. Qed.
#[export] Hint Resolve eq_RangeTableFunc : compare.
Lemma eq_RangeTableSample x : RangeTableSample.t_all Node compared x ->
  check_RangeTableSample any known x = true ->
  compares (_equalRangeTableSample equal) (erase_RangeTableSample erase) x.
Proof. compare_tac. Qed.
#[export] Hint Resolve eq_RangeTableSample : compare.
Lemma eq_CommonTableExpr x : CommonTableExpr.t_all Node compared x ->
  check_CommonTableExpr any known x = true ->
  compares (_equalCommonTableExpr equal) (erase_CommonTableExpr erase) x.
Proof. compare_tac. Qed.
#[export] Hint Resolve eq_CommonTableExpr : compare.
Lemma eq_WithClause x : WithClause.t_all Node compared x ->
  check_WithClause known x = true ->
  compares (_equalWithClause equal) (erase_WithClause erase) x.
Proof. compare_tac. Qed.
#[export] Hint Resolve eq_WithClause : compare.
Lemma eq_InferClause x : InferClause.t_all Node compared x ->
  check_InferClause any known x = true ->
  compares (_equalInferClause equal) (erase_InferClause erase) x.
Proof. compare_tac. Qed.
#[export] Hint Resolve eq_InferClause : compare.
Lemma eq_OnConflictClause x : OnConflictClause.t_all Node compared x ->
  check_OnConflictClause any known x = true ->
  compares (_equalOnConflictClause equal) (erase_OnConflictClause erase) x.
Proof. compare_tac. Qed.
#[export] Hint Resolve eq_OnConflictClause : compare.
Lemma eq_LockingClause x : LockingClause.t_all Node compared x ->
  check_LockingClause known x = true ->
  compares (_equalLockingClause equal) (erase_LockingClause erase) x.
Proof. compare_tac. Qed.
#[export] Hint Resolve eq_LockingClause : compare.
Lemma eq_GroupingSet x : GroupingSet.t_all Node compared x ->
  check_GroupingSet known x = true ->
  compares (_equalGroupingSet equal) (erase_GroupingSet erase) x.
Proof. compare_tac. Qed.
#[export] Hint Resolve eq_GroupingSet : compare.
Lemma eq_IntoClause x : IntoClause.t_all Node compared x ->
  check_IntoClause any known x = true ->
  compares (_equalIntoClause equal) (erase_IntoClause erase) x.
Proof. compare_tac. Qed.
#[export] Hint Resolve eq_IntoClause : compare.
Lemma eq_SelectStmt x : SelectStmt.t_all Node compared x ->
  check_SelectStmt any known x = true ->
  compares (_equalSelectStmt equal) (erase_SelectStmt erase) x.
Proof. compare_tac. Qed.
#[export] Hint Resolve eq_SelectStmt : compare.
Lemma eq_InsertStmt x : InsertStmt.t_all Node compared x ->
  check_InsertStmt any known x = true ->
  compares (_equalInsertStmt equal) (erase_InsertStmt erase) x.
Proof. compare_tac. Qed.
#[export] Hint Resolve eq_InsertStmt : compare.
Lemma eq_UpdateStmt x : UpdateStmt.t_all Node compared x ->
  check_UpdateStmt any known x = true ->
  compares (_equalUpdateStmt equal) (erase_UpdateStmt erase) x.
Proof. compare_tac. Qed.
#[export] Hint Resolve eq_UpdateStmt : compare.
Lemma eq_DeleteStmt x : DeleteStmt.t_all Node compared x ->
  check_DeleteStmt any known x = true ->
  compares (_equalDeleteStmt equal) (erase_DeleteStmt erase) x.
Proof. compare_tac. Qed.
#[export] Hint Resolve eq_DeleteStmt : compare.
Lemma eq_RawStmt x : RawStmt.t_all Node compared x ->
  check_RawStmt any known x = true ->
  compares (_equalRawStmt equal) (erase_RawStmt erase) x.
Proof. compare_tac. Qed.
#[export] Hint Resolve eq_RawStmt : compare.
Lemma eq_AlterTableCmd x : AlterTableCmd.t_all Node compared x ->
  check_AlterTableCmd any known x = true ->
  compares (_equalAlterTableCmd equal) (erase_AlterTableCmd erase) x.
Proof. compare_tac. Qed.
#[export] Hint Resolve eq_AlterTableCmd : compare.
Lemma eq_PartitionBoundSpec x : PartitionBoundSpec.t_all Node compared x ->
  check_PartitionBoundSpec any known x = true ->
  compares (_equalPartitionBoundSpec equal) (erase_PartitionBoundSpec erase) x.
Proof. compare_tac. Qed.
#[export] Hint Resolve eq_PartitionBoundSpec : compare.
Lemma eq_TableLikeClause x : TableLikeClause.t_all Node compared x ->
  check_TableLikeClause any known x = true ->
  compares (_equalTableLikeClause equal) (erase_TableLikeClause erase) x.
Proof. compare_tac. Qed.
#[export] Hint Resolve eq_TableLikeClause : compare.
Lemma eq_PartitionElem x : PartitionElem.t_all Node compared x ->
  check_PartitionElem any known x = true ->
  compares (_equalPartitionElem equal) (erase_PartitionElem erase) x.
Proof. compare_tac. Qed.
#[export] Hint Resolve eq_PartitionElem : compare.
Lemma eq_PartitionSpec x : PartitionSpec.t_all Node compared x ->
  check_PartitionSpec any known x = true ->
  compares (_equalPartitionSpec equal) (erase_PartitionSpec erase) x.
Proof. compare_tac. Qed.
#[export] Hint Resolve eq_PartitionSpec : compare.
Lemma eq_PartitionCmd x : PartitionCmd.t_all Node compared x ->
  check_PartitionCmd any known x = true ->
  compares (_equalPartitionCmd equal) (erase_PartitionCmd erase) x.
Proof. compare_tac. Qed.
#[export] Hint Resolve eq_PartitionCmd : compare.
Lemma eq_TriggerTransition x : TriggerTransition.t_all Node compared x ->
  check_TriggerTransition any x = true ->
  compares _equalTriggerTransition erase_TriggerTransition x.
Proof. compare_tac. Qed.
#[export] Hint Resolve eq_TriggerTransition : compare.
Lemma eq_CreateSchemaStmt x : CreateSchemaStmt.t_all Node compared x ->
  check_CreateSchemaStmt any known x = true ->
  compares (_equalCreateSchemaStmt equal) (erase_CreateSchemaStmt erase) x.
Proof. compare_tac. Qed.
#[export] Hint Resolve eq_CreateSchemaStmt : compare.
Lemma eq_AlterTableStmt x : AlterTableStmt.t_all Node compared x ->
  check_AlterTableStmt any known x = true ->
  compares (_equalAlterTableStmt equal) (erase_AlterTableStmt erase) x.
Proof. compare_tac. Qed.
#[export] Hint Resolve eq_AlterTableStmt : compare.
Lemma eq_ReplicaIdentityStmt x : ReplicaIdentityStmt.t_all Node compared x ->
  check_ReplicaIdentityStmt any x = true ->
  compares _equalReplicaIdentityStmt erase_ReplicaIdentityStmt x.
Proof. compare_tac. Qed.
#[export] Hint Resolve eq_ReplicaIdentityStmt : compare.
Lemma eq_AlterCollationStmt x : AlterCollationStmt.t_all Node compared x ->
  check_AlterCollationStmt known x = true ->
  compares (_equalAlterCollationStmt equal) (erase_AlterCollationStmt erase) x.
Proof. compare_tac. Qed.
#[export] Hint Resolve eq_AlterCollationStmt : compare.
Lemma eq_AlterDomainStmt x : AlterDomainStmt.t_all Node compared x ->
  check_AlterDomainStmt any known x = true ->
  compares (_equalAlterDomainStmt equal) (erase_AlterDomainStmt erase) x.
Proof. compare_tac. Qed.
#[export] Hint Resolve eq_AlterDomainStmt : compare.
Lemma eq_GrantStmt x : GrantStmt.t_all Node compared x ->
  check_GrantStmt known x = true ->
  compares (_equalGrantStmt equal) (erase_GrantStmt erase) x.
Proof. compare_tac. Qed.
#[export] Hint Resolve eq_GrantStmt : compare.
Lemma eq_ObjectWithArgs x : ObjectWithArgs.t_all Node compared x ->
  check_ObjectWithArgs known x = true ->
  compares (_equalObjectWithArgs equal) (erase_ObjectWithArgs erase) x.
Proof. compare_tac. Qed.
#[export] Hint Resolve eq_ObjectWithArgs : compare.
Lemma eq_AccessPriv x : AccessPriv.t_all Node compared x ->
  check_AccessPriv any known x = true ->
  compares (_equalAccessPriv equal) (erase_AccessPriv erase) x.
Proof. compare_tac. Qed.
#[export] Hint Resolve eq_AccessPriv : compare.
Lemma eq_GrantRoleStmt x : GrantRoleStmt.t_all Node compared x ->
  check_GrantRoleStmt any known x = true ->
  compares (_equalGrantRoleStmt equal) (erase_GrantRoleStmt erase) x.
Proof. compare_tac. Qed.
#[export] Hint Resolve eq_GrantRoleStmt : compare.
Lemma eq_AlterDefaultPrivilegesStmt x : AlterDefaultPrivilegesStmt.t_all Node compared x ->
  check_AlterDefaultPrivilegesStmt known x = true ->
  compares (_equalAlterDefaultPrivilegesStmt equal) (erase_AlterDefaultPrivilegesStmt erase) x.
Proof. compare_tac. Qed.
#[export] Hint Resolve eq_AlterDefaultPrivilegesStmt : compare.
Lemma eq_CopyStmt x : CopyStmt.t_all Node compared x ->
  check_CopyStmt any known x = true ->
  compares (_equalCopyStmt equal) (erase_CopyStmt erase) x.
Proof. compare_tac. Qed.
#[export] Hint Resolve eq_CopyStmt : compare.
Lemma eq_VariableSetStmt x : VariableSetStmt.t_all Node compared x ->
  check_VariableSetStmt any known x = true ->
  compares (_equalVariableSetStmt equal) (erase_VariableSetStmt erase) x.
Proof. compare_tac. Qed.
#[export] Hint Resolve eq_VariableSetStmt : compare.
Lemma eq_VariableShowStmt x : VariableShowStmt.t_all Node compared x ->
  check_VariableShowStmt any x = true ->
  compares _equalVariableShowStmt erase_VariableShowStmt x.
Proof. compare_tac. Qed.
#[export] Hint Resolve eq_VariableShowStmt : compare.
Lemma eq_CreateStmt x : CreateStmt.t_all Node compared x ->
  check_CreateStmt any known x = true ->
  compares (_equalCreateStmt equal) (erase_CreateStmt erase) x.
Proof. compare_tac. Qed.
#[export] Hint Resolve eq_CreateStmt : compare.
Lemma eq_CreateTableSpaceStmt x : CreateTableSpaceStmt.t_all Node compared x ->
  check_CreateTableSpaceStmt any known x = true ->
  compares (_equalCreateTableSpaceStmt equal) (erase_CreateTableSpaceStmt erase) x.
Proof. compare_tac. Qed.
#[export] Hint Resolve eq_CreateTableSpaceStmt : compare.
Lemma eq_DropTableSpaceStmt x : DropTableSpaceStmt.t_all Node compared x ->
  check_DropTableSpaceStmt any x = true ->
  compares _equalDropTableSpaceStmt erase_DropTableSpaceStmt x.
Proof. compare_tac. Qed.
#[export] Hint Resolve eq_DropTableSpaceStmt : compare.
Lemma eq_AlterTableSpaceOptionsStmt x : AlterTableSpaceOptionsStmt.t_all Node compared x ->
  check_AlterTableSpaceOptionsStmt any known x = true ->
  compares (_equalAlterTableSpaceOptionsStmt equal) (erase_AlterTableSpaceOptionsStmt erase) x.
Proof. compare_tac. Qed.
#[export] Hint Resolve eq_AlterTableSpaceOptionsStmt : compare.
Lemma eq_AlterTableMoveAllStmt x : AlterTableMoveAllStmt.t_all Node compared x ->
  check_AlterTableMoveAllStmt any known x = true ->
  compares (_equalAlterTableMoveAllStmt equal) (erase_AlterTableMoveAllStmt erase) x.
Proof. compare_tac. Qed.
#[export] Hint Resolve eq_AlterTableMoveAllStmt : compare.
Lemma eq_CreateExtensionStmt x : CreateExtensionStmt.t_all Node compared x ->
  check_CreateExtensionStmt any known x = true ->
  compares (_equalCreateExtensionStmt equal) (erase_CreateExtensionStmt erase) x.
Proof. compare_tac. Qed.
#[export] Hint Resolve eq_CreateExtensionStmt : compare.
Lemma eq_AlterExtensionStmt x : AlterExtensionStmt.t_all Node compared x ->
  check_AlterExtensionStmt any known x = true ->
  compares (_equalAlterExtensionStmt equal) (erase_AlterExtensionStmt erase) x.
Proof. compare_tac. Qed.
#[export] Hint Resolve eq_AlterExtensionStmt : compare.
Lemma eq_AlterExtensionContentsStmt x : AlterExtensionContentsStmt.t_all Node compared x ->
  check_AlterExtensionContentsStmt any known x = true ->
  compares (_equalAlterExtensionContentsStmt equal) (erase_AlterExtensionContentsStmt erase) x.
Proof. compare_tac. Qed.
#[export] Hint Resolve eq_AlterExtensionContentsStmt : compare.
Lemma eq_CreateFdwStmt x : CreateFdwStmt.t_all Node compared x ->
  check_CreateFdwStmt any known x = true ->
  compares (_equalCreateFdwStmt equal) (erase_CreateFdwStmt erase) x.
Proof. compare_tac. Qed.
#[export] Hint Resolve eq_CreateFdwStmt : compare.
Lemma eq_AlterFdwStmt x : AlterFdwStmt.t_all Node compared x ->
  check_AlterFdwStmt any known x = true ->
  compares (_equalAlterFdwStmt equal) (erase_AlterFdwStmt erase) x.
Proof. compare_tac. Qed.
#[export] Hint Resolve eq_AlterFdwStmt : compare.
Lemma eq_CreateForeignServerStmt x : CreateForeignServerStmt.t_all Node compared x ->
  check_CreateForeignServerStmt any known x = true ->
  compares (_equalCreateForeignServerStmt equal) (erase_CreateForeignServerStmt erase) x.
Proof. compare_tac. Qed.
#[export] Hint Resolve eq_CreateForeignServerStmt : compare.
Lemma eq_AlterForeignServerStmt x : AlterForeignServerStmt.t_all Node compared x ->
  check_AlterForeignServerStmt any known x = true ->
  compares (_equalAlterForeignServerStmt equal) (erase_AlterForeignServerStmt erase) x.
Proof. compare_tac. Qed.
#[export] Hint Resolve eq_AlterForeignServerStmt : compare.
Lemma eq_CreateForeignTableStmt x : CreateForeignTableStmt.t_all Node compared x ->
  check_CreateForeignTableStmt any known x = true ->
  compares (_equalCreateForeignTableStmt equal) (erase_CreateForeignTableStmt erase) x.
Proof. compare_tac. Qed.
#[export] Hint Resolve eq_CreateForeignTableStmt : compare.
Lemma eq_CreateUserMappingStmt x : CreateUserMappingStmt.t_all Node compared x ->
  check_CreateUserMappingStmt any known x = true ->
  compares (_equalCreateUserMappingStmt equal) (erase_CreateUserMappingStmt erase) x.
Proof. compare_tac. Qed.
#[export] Hint Resolve eq_CreateUserMappingStmt : compare.
Lemma eq_AlterUserMappingStmt x : AlterUserMappingStmt.t_all Node compared x ->
  check_AlterUserMappingStmt any known x = true ->
  compares (_equalAlterUserMappingStmt equal) (erase_AlterUserMappingStmt erase) x.
Proof. compare_tac. Qed.
#[export] Hint Resolve eq_AlterUserMappingStmt : compare.
Lemma eq_DropUserMappingStmt x : DropUserMappingStmt.t_all Node compared x ->
  check_DropUserMappingStmt any x = true ->
  compares _equalDropUserMappingStmt erase_DropUserMappingStmt x.
Proof. compare_tac. Qed.
#[export] Hint Resolve eq_DropUserMappingStmt : compare.
Lemma eq_ImportForeignSchemaStmt x : ImportForeignSchemaStmt.t_all Node compared x ->
  check_ImportForeignSchemaStmt any known x = true ->
  compares (_equalImportForeignSchemaStmt equal) (erase_ImportForeignSchemaStmt erase) x.
Proof. compare_tac. Qed.
#[export] Hint Resolve eq_ImportForeignSchemaStmt : compare.
Lemma eq_CreatePolicyStmt x : CreatePolicyStmt.t_all Node compared x ->
  check_CreatePolicyStmt any known x = true ->
  compares (_equalCreatePolicyStmt equal) (erase_CreatePolicyStmt erase) x.
Proof. compare_tac. Qed.
#[export] Hint Resolve eq_CreatePolicyStmt : compare.
Lemma eq_AlterPolicyStmt x : AlterPolicyStmt.t_all Node compared x ->
  check_AlterPolicyStmt any known x = true ->
  compares (_equalAlterPolicyStmt equal) (erase_AlterPolicyStmt erase) x.
Proof. compare_tac. Qed.
#[export] Hint Resolve eq_AlterPolicyStmt : compare.
Lemma eq_CreateAmStmt x : CreateAmStmt.t_all Node compared x ->
  check_CreateAmStmt any known x = true ->
  compares (_equalCreateAmStmt equal) (erase_CreateAmStmt erase) x.
Proof. compare_tac. Qed.
#[export] Hint Resolve eq_CreateAmStmt : compare.
Lemma eq_CreateTrigStmt x : CreateTrigStmt.t_all Node compared x ->
  check_CreateTrigStmt any known x = true ->
  compares (_equalCreateTrigStmt equal) (erase_CreateTrigStmt erase) x.
Proof. compare_tac. Qed.
#[export] Hint Resolve eq_CreateTrigStmt : compare.
Lemma eq_CreateEventTrigStmt x : CreateEventTrigStmt.t_all Node compared x ->
  check_CreateEventTrigStmt any known x = true ->
  compares (_equalCreateEventTrigStmt equal) (erase_CreateEventTrigStmt erase) x.
Proof. compare_tac. Qed.
#[export] Hint Resolve eq_CreateEventTrigStmt : compare.
Lemma eq_AlterEventTrigStmt x : AlterEventTrigStmt.t_all Node compared x ->
  check_AlterEventTrigStmt any x = true ->
  compares _equalAlterEventTrigStmt erase_AlterEventTrigStmt x.
Proof. compare_tac. Qed.
#[export] Hint Resolve eq_AlterEventTrigStmt : compare.
Lemma eq_CreatePLangStmt x : CreatePLangStmt.t_all Node compared x ->
  check_CreatePLangStmt any known x = true ->
  compares (_equalCreatePLangStmt equal) (erase_CreatePLangStmt erase) x.
Proof. compare_tac. Qed.
#[export] Hint Resolve eq_CreatePLangStmt : compare.
Lemma eq_CreateRoleStmt x : CreateRoleStmt.t_all Node compared x ->
  check_CreateRoleStmt any known x = true ->
  compares (_equalCreateRoleStmt equal) (erase_CreateRoleStmt erase) x.
Proof. compare_tac. Qed.
#[export] Hint Resolve eq_CreateRoleStmt : compare.
Lemma eq_AlterRoleStmt x : AlterRoleStmt.t_all Node compared x ->
  check_AlterRoleStmt any known x = true ->
  compares (_equalAlterRoleStmt equal) (erase_AlterRoleStmt erase) x.
Proof. compare_tac. Qed.
#[export] Hint Resolve eq_AlterRoleStmt : compare.
Lemma eq_AlterRoleSetStmt x : AlterRoleSetStmt.t_all Node compared x ->
  check_AlterRoleSetStmt any known x = true ->
  compares (_equalAlterRoleSetStmt equal) (erase_AlterRoleSetStmt erase) x.
Proof. compare_tac. Qed.
#[export] Hint Resolve eq_AlterRoleSetStmt : compare.
Lemma eq_DropRoleStmt x : DropRoleStmt.t_all Node compared x ->
  check_DropRoleStmt known x = true ->
  compares (_equalDropRoleStmt equal) (erase_DropRoleStmt erase) x.
Proof. compare_tac. Qed.
#[export] Hint Resolve eq_DropRoleStmt : compare.
Lemma eq_CreateSeqStmt x : CreateSeqStmt.t_all Node compared x ->
  check_CreateSeqStmt any known x = true ->
  compares (_equalCreateSeqStmt equal) (erase_CreateSeqStmt erase) x.
Proof. compare_tac. Qed.
#[export] Hint Resolve eq_CreateSeqStmt : compare.
Lemma eq_AlterSeqStmt x : AlterSeqStmt.t_all Node compared x ->
  check_AlterSeqStmt any known x = true ->
  compares (_equalAlterSeqStmt equal) (erase_AlterSeqStmt erase) x.
Proof. compare_tac. Qed.
#[export] Hint Resolve eq_AlterSeqStmt : compare.
Lemma eq_DefineStmt x : DefineStmt.t_all Node compared x ->
  check_DefineStmt known x = true ->
  compares (_equalDefineStmt equal) (erase_DefineStmt erase) x.
Proof. compare_tac. Qed.
#[export] Hint Resolve eq_DefineStmt : compare.
Lemma eq_CreateDomainStmt x : CreateDomainStmt.t_all Node compared x ->
  check_CreateDomainStmt any known x = true ->
  compares (_equalCreateDomainStmt equal) (erase_CreateDomainStmt erase) x.
Proof. compare_tac. Qed.
#[export] Hint Resolve eq_CreateDomainStmt : compare.
Lemma eq_CreateOpClassStmt x : CreateOpClassStmt.t_all Node compared x ->
  check_CreateOpClassStmt any known x = true ->
  compares (_equalCreateOpClassStmt equal) (erase_CreateOpClassStmt erase) x.
Proof. compare_tac. Qed.
#[export] Hint Resolve eq_CreateOpClassStmt : compare.
Lemma eq_CreateOpClassItem x : CreateOpClassItem.t_all Node compared x ->
  check_CreateOpClassItem known x = true ->
  compares (_equalCreateOpClassItem equal) (erase_CreateOpClassItem erase) x.
Proof. compare_tac. Qed.
#[export] Hint Resolve eq_CreateOpClassItem : compare.
Lemma eq_CreateOpFamilyStmt x : CreateOpFamilyStmt.t_all Node compared x ->
  check_CreateOpFamilyStmt any known x = true ->
  compares (_equalCreateOpFamilyStmt equal) (erase_CreateOpFamilyStmt erase) x.
Proof. compare_tac. Qed.
#[export] Hint Resolve eq_CreateOpFamilyStmt : compare.
Lemma eq_AlterOpFamilyStmt x : AlterOpFamilyStmt.t_all Node compared x ->
  check_AlterOpFamilyStmt any known x = true ->
  compares (_equalAlterOpFamilyStmt equal) (erase_AlterOpFamilyStmt erase) x.
Proof. compare_tac. Qed.
#[export] Hint Resolve eq_AlterOpFamilyStmt : compare.
Lemma eq_DropStmt x : DropStmt.t_all Node compared x ->
  check_DropStmt known x = true ->
  compares (_equalDropStmt equal) (erase_DropStmt erase) x.
Proof. compare_tac. Qed.
#[export] Hint Resolve eq_DropStmt : compare.
Lemma eq_TruncateStmt x : TruncateStmt.t_all Node compared x ->
  check_TruncateStmt known x = true ->
  compares (_equalTruncateStmt equal) (erase_TruncateStmt erase) x.
Proof. compare_tac. Qed.
#[export] Hint Resolve eq_TruncateStmt : compare.
Lemma eq_CommentStmt x : CommentStmt.t_all Node compared x ->
  check_CommentStmt any known x = true ->
  compares (_equalCommentStmt equal) (erase_CommentStmt erase) x.
Proof. compare_tac. Qed.
#[export] Hint Resolve eq_CommentStmt : compare.
Lemma eq_SecLabelStmt x : SecLabelStmt.t_all Node compared x ->
  check_SecLabelStmt any known x = true ->
  compares (_equalSecLabelStmt equal) (erase_SecLabelStmt erase) x.
Proof. compare_tac. Qed.
#[export] Hint Resolve eq_SecLabelStmt : compare.
Lemma eq_DeclareCursorStmt x : DeclareCursorStmt.t_all Node compared x ->
  check_DeclareCursorStmt any known x = true ->
  compares (_equalDeclareCursorStmt equal) (erase_DeclareCursorStmt erase) x.
Proof. compare_tac. Qed.
#[export] Hint Resolve eq_DeclareCursorStmt : compare.
Lemma eq_ClosePortalStmt x : ClosePortalStmt.t_all Node compared x ->
  check_ClosePortalStmt any x = true ->
  compares _equalClosePortalStmt erase_ClosePortalStmt x.
Proof. compare_tac. Qed.
#[export] Hint Resolve eq_ClosePortalStmt : compare.
Lemma eq_FetchStmt x : FetchStmt.t_all Node compared x ->
  check_FetchStmt any x = true ->
  compares _equalFetchStmt erase_FetchStmt x.
Proof. compare_tac. Qed.
#[export] Hint Resolve eq_FetchStmt : compare.
Lemma eq_IndexStmt x : IndexStmt.t_all Node compared x ->
  check_IndexStmt any known x = true ->
  compares (_equalIndexStmt equal) (erase_IndexStmt erase) x.
Proof. compare_tac. Qed.
#[export] Hint Resolve eq_IndexStmt : compare.
Lemma eq_CreateStatsStmt x : CreateStatsStmt.t_all Node compared x ->
  check_CreateStatsStmt any known x = true ->
  compares (_equalCreateStatsStmt equal) (erase_CreateStatsStmt erase) x.
Proof. compare_tac. Qed.
#[export] Hint Resolve eq_CreateStatsStmt : compare.
Lemma eq_AlterStatsStmt x : AlterStatsStmt.t_all Node compared x ->
  check_AlterStatsStmt known x = true ->
  compares (_equalAlterStatsStmt equal) (erase_AlterStatsStmt erase) x.
Proof. compare_tac. Qed.
#[export] Hint Resolve eq_AlterStatsStmt : compare.
Lemma eq_CreateFunctionStmt x : CreateFunctionStmt.t_all Node compared x ->
  check_CreateFunctionStmt known x = true ->
  compares (_equalCreateFunctionStmt equal) (erase_CreateFunctionStmt erase) x.
Proof. compare_tac. Qed.
#[export] Hint Resolve eq_CreateFunctionStmt : compare.
Lemma eq_FunctionParameter x : FunctionParameter.t_all Node compared x ->
  check_FunctionParameter any known x = true ->
  compares (_equalFunctionParameter equal) (erase_FunctionParameter erase) x.
Proof. compare_tac. Qed.
#[export] Hint Resolve eq_FunctionParameter : compare.
Lemma eq_AlterFunctionStmt x : AlterFunctionStmt.t_all Node compared x ->
  check_AlterFunctionStmt known x = true ->
  compares (_equalAlterFunctionStmt equal) (erase_AlterFunctionStmt erase) x.
Proof. compare_tac. Qed.
#[export] Hint Resolve eq_AlterFunctionStmt : compare.
Lemma eq_DoStmt x : DoStmt.t_all Node compared x ->
  check_DoStmt known x = true ->
  compares (_equalDoStmt equal) (erase_DoStmt erase) x.
Proof. compare_tac. Qed.
#[export] Hint Resolve eq_DoStmt : compare.
Lemma eq_FuncExpr x : FuncExpr.t_all Node compared x ->
  check_FuncExpr known x = true ->
  compares (_equalFuncExpr equal) (erase_FuncExpr erase) x.
Proof. compare_tac. Qed.
#[export] Hint Resolve eq_FuncExpr : compare.
Lemma eq_CallStmt x : CallStmt.t_all Node compared x ->
  check_CallStmt any known x = true ->
  compares (_equalCallStmt equal) (erase_CallStmt erase) x.
Proof. compare_tac. Qed.
#[export] Hint Resolve eq_CallStmt : compare.
Lemma eq_RenameStmt x : RenameStmt.t_all Node compared x ->
  check_RenameStmt any known x = true ->
  compares (_equalRenameStmt equal) (erase_RenameStmt erase) x.
Proof. compare_tac. Qed.
#[export] Hint Resolve eq_RenameStmt : compare.
Lemma eq_AlterObjectDependsStmt x : AlterObjectDependsStmt.t_all Node compared x ->
  check_AlterObjectDependsStmt any known x = true ->
  compares (_equalAlterObjectDependsStmt equal) (erase_AlterObjectDependsStmt erase) x.
Proof. compare_tac. Qed.
#[export] Hint Resolve eq_AlterObjectDependsStmt : compare.
Lemma eq_AlterObjectSchemaStmt x : AlterObjectSchemaStmt.t_all Node compared x ->
  check_AlterObjectSchemaStmt any known x = true ->
  compares (_equalAlterObjectSchemaStmt equal) (erase_AlterObjectSchemaStmt erase) x.
Proof. compare_tac. Qed.
#[export] Hint Resolve eq_AlterObjectSchemaStmt : compare.
Lemma eq_AlterOwnerStmt x : AlterOwnerStmt.t_all Node compared x ->
  check_AlterOwnerStmt any known x = true ->
  compares (_equalAlterOwnerStmt equal) (erase_AlterOwnerStmt erase) x.
Proof. compare_tac. Qed.
#[export] Hint Resolve eq_AlterOwnerStmt : compare.
Lemma eq_AlterOperatorStmt x : AlterOperatorStmt.t_all Node compared x ->
  check_AlterOperatorStmt known x = true ->
  compares (_equalAlterOperatorStmt equal) (erase_AlterOperatorStmt erase) x.
Proof. compare_tac. Qed.
#[export] Hint Resolve eq_AlterOperatorStmt : compare.
Lemma eq_AlterTypeStmt x : AlterTypeStmt.t_all Node compared x ->
  check_AlterTypeStmt known x = true ->
  compares (_equalAlterTypeStmt equal) (erase_AlterTypeStmt erase) x.
Proof. compare_tac. Qed.
#[export] Hint Resolve eq_AlterTypeStmt : compare.
Lemma eq_RuleStmt x : RuleStmt.t_all Node compared x ->
  check_RuleStmt any known x = true ->
  compares (_equalRuleStmt equal) (erase_RuleStmt erase) x.
Proof. compare_tac. Qed.
#[export] Hint Resolve eq_RuleStmt : compare.
Lemma eq_NotifyStmt x : NotifyStmt.t_all Node compared x ->
  check_NotifyStmt any x = true ->
  compares _equalNotifyStmt erase_NotifyStmt x.
Proof. compare_tac. Qed.
#[export] Hint Resolve eq_NotifyStmt : compare.
Lemma eq_ListenStmt x : ListenStmt.t_all Node compared x ->
  check_ListenStmt any x = true ->
  compares _equalListenStmt erase_ListenStmt x.
Proof. compare_tac. Qed.
#[export] Hint Resolve eq_ListenStmt : compare.
Lemma eq_UnlistenStmt x : UnlistenStmt.t_all Node compared x ->
  check_UnlistenStmt any x = true ->
  compares _equalUnlistenStmt erase_UnlistenStmt x.
Proof. compare_tac. Qed.
#[export] Hint Resolve eq_UnlistenStmt : compare.
Lemma eq_TransactionStmt x : TransactionStmt.t_all Node compared x ->
  check_TransactionStmt any known x = true ->
  compares (_equalTransactionStmt equal) (erase_TransactionStmt erase) x.
Proof. compare_tac. Qed.
#[export] Hint Resolve eq_TransactionStmt : compare.
Lemma eq_CompositeTypeStmt x : CompositeTypeStmt.t_all Node compared x ->
  check_CompositeTypeStmt any known x = true ->
  compares (_equalCompositeTypeStmt equal) (erase_CompositeTypeStmt erase) x.
Proof. compare_tac. Qed.
#[export] Hint Resolve eq_CompositeTypeStmt : compare.
Lemma eq_CreateEnumStmt x : CreateEnumStmt.t_all Node compared x ->
  check_CreateEnumStmt known x = true ->
  compares (_equalCreateEnumStmt equal) (erase_CreateEnumStmt erase) x.
Proof. compare_tac. Qed.
#[export] Hint Resolve eq_CreateEnumStmt : compare.
Lemma eq_CreateRangeStmt x : CreateRangeStmt.t_all Node compared x ->
  check_CreateRangeStmt known x = true ->
  compares (_equalCreateRangeStmt equal) (erase_CreateRangeStmt erase) x.
Proof. compare_tac. Qed.
#[export] Hint Resolve eq_CreateRangeStmt : compare.
Lemma eq_AlterEnumStmt x : AlterEnumStmt.t_all Node compared x ->
  check_AlterEnumStmt any known x = true ->
  compares (_equalAlterEnumStmt equal) (erase_AlterEnumStmt erase) x.
Proof. compare_tac. Qed.
#[export] Hint Resolve eq_AlterEnumStmt : compare.
Lemma eq_ViewStmt x : ViewStmt.t_all Node compared x ->
  check_ViewStmt any known x = true ->
  compares (_equalViewStmt equal) (erase_ViewStmt erase) x.
Proof. compare_tac. Qed.
#[export] Hint Resolve eq_ViewStmt : compare.
Lemma eq_LoadStmt x : LoadStmt.t_all Node compared x ->
  check_LoadStmt any x = true ->
  compares _equalLoadStmt erase_LoadStmt x.
Proof. compare_tac. Qed.
#[export] Hint Resolve eq_LoadStmt : compare.
Lemma eq_CreatedbStmt x : CreatedbStmt.t_all Node compared x ->
  check_CreatedbStmt any known x = true ->
  compares (_equalCreatedbStmt equal) (erase_CreatedbStmt erase) x.
Proof. compare_tac. Qed.
#[export] Hint Resolve eq_CreatedbStmt : compare.
Lemma eq_AlterDatabaseStmt x : AlterDatabaseStmt.t_all Node compared x ->
  check_AlterDatabaseStmt any known x = true ->
  compares (_equalAlterDatabaseStmt equal) (erase_AlterDatabaseStmt erase) x.
Proof. compare_tac. Qed.
#[export] Hint Resolve eq_AlterDatabaseStmt : compare.
Lemma eq_AlterDatabaseSetStmt x : AlterDatabaseSetStmt.t_all Node compared x ->
  check_AlterDatabaseSetStmt any known x = true ->
  compares (_equalAlterDatabaseSetStmt equal) (erase_AlterDatabaseSetStmt erase) x.
Proof. compare_tac. Qed.
#[export] Hint Resolve eq_AlterDatabaseSetStmt : compare.
Lemma eq_DropdbStmt x : DropdbStmt.t_all Node compared x ->
  check_DropdbStmt any known x = true ->
  compares (_equalDropdbStmt equal) (erase_DropdbStmt erase) x.
Proof. compare_tac. Qed.
#[export] Hint Resolve eq_DropdbStmt : compare.
Lemma eq_AlterSystemStmt x : AlterSystemStmt.t_all Node compared x ->
  check_AlterSystemStmt any known x = true ->
  compares (_equalAlterSystemStmt equal) (erase_AlterSystemStmt erase) x.
Proof. compare_tac. Qed.
#[export] Hint Resolve eq_AlterSystemStmt : compare.
Lemma eq_ClusterStmt x : ClusterStmt.t_all Node compared x ->
  check_ClusterStmt any known x = true ->
  compares (_equalClusterStmt equal) (erase_ClusterStmt erase) x.
Proof. compare_tac. Qed.
#[export] Hint Resolve eq_ClusterStmt : compare.
Lemma eq_VacuumStmt x : VacuumStmt.t_all Node compared x ->
  check_VacuumStmt known x = true ->
  compares (_equalVacuumStmt equal) (erase_VacuumStmt erase) x.
Proof. compare_tac. Qed.
#[export] Hint Resolve eq_VacuumStmt : compare.
Lemma eq_VacuumRelation x : VacuumRelation.t_all Node compared x ->
  check_VacuumRelation any known x = true ->
  compares (_equalVacuumRelation equal) (erase_VacuumRelation erase) x.
Proof. compare_tac. Qed.
#[export] Hint Resolve eq_VacuumRelation : compare.
Lemma eq_ExplainStmt x : ExplainStmt.t_all Node compared x ->
  check_ExplainStmt any known x = true ->
  compares (_equalExplainStmt equal) (erase_ExplainStmt erase) x.
Proof. compare_tac. Qed.
#[export] Hint Resolve eq_ExplainStmt : compare.
Lemma eq_CreateTableAsStmt x : CreateTableAsStmt.t_all Node compared x ->
  check_CreateTableAsStmt any known x = true ->
  compares (_equalCreateTableAsStmt equal) (erase_CreateTableAsStmt erase) x.
Proof. compare_tac. Qed.
#[export] Hint Resolve eq_CreateTableAsStmt : compare.
Lemma eq_RefreshMatViewStmt x : RefreshMatViewStmt.t_all Node compared x ->
  check_RefreshMatViewStmt any known x = true ->
  compares (_equalRefreshMatViewStmt equal) (erase_RefreshMatViewStmt erase) x.
Proof. compare_tac. Qed.
#[export] Hint Resolve eq_RefreshMatViewStmt : compare.
Lemma eq_DiscardStmt x : DiscardStmt.t_all Node compared x ->
  compares _equalDiscardStmt erase_DiscardStmt x.
Proof. compare_tac. Qed.
#[export] Hint Resolve eq_DiscardStmt : compare.
Lemma eq_LockStmt x : LockStmt.t_all Node compared x ->
  check_LockStmt known x = true ->
  compares (_equalLockStmt equal) (erase_LockStmt erase) x.
Proof. compare_tac. Qed.
#[export] Hint Resolve eq_LockStmt : compare.
Lemma eq_ConstraintsSetStmt x : ConstraintsSetStmt.t_all Node compared x ->
  check_ConstraintsSetStmt known x = true ->
  compares (_equalConstraintsSetStmt equal) (erase_ConstraintsSetStmt erase) x.
Proof. compare_tac. Qed.
#[export] Hint Resolve eq_ConstraintsSetStmt : compare.
Lemma eq_ReindexStmt x : ReindexStmt.t_all Node compared x ->
  check_ReindexStmt any known x = true ->
  compares (_equalReindexStmt equal) (erase_ReindexStmt erase) x.
Proof. compare_tac. Qed.
#[export] Hint Resolve eq_ReindexStmt : compare.
Lemma eq_CreateConversionStmt x : CreateConversionStmt.t_all Node compared x ->
  check_CreateConversionStmt any known x = true ->
  compares (_equalCreateConversionStmt equal) (erase_CreateConversionStmt erase) x.
Proof. compare_tac. Qed.
#[export] Hint Resolve eq_CreateConversionStmt : compare.
Lemma eq_CreateCastStmt x : CreateCastStmt.t_all Node compared x ->
  check_CreateCastStmt known x = true ->
  compares (_equalCreateCastStmt equal) (erase_CreateCastStmt erase) x.
Proof. compare_tac. Qed.
#[export] Hint Resolve eq_CreateCastStmt : compare.
Lemma eq_CreateTransformStmt x : CreateTransformStmt.t_all Node compared x ->
  check_CreateTransformStmt any known x = true ->
  compares (_equalCreateTransformStmt equal) (erase_CreateTransformStmt erase) x.
Proof. compare_tac. Qed.
#[export] Hint Resolve eq_CreateTransformStmt : compare.
Lemma eq_PrepareStmt x : PrepareStmt.t_all Node compared x ->
  check_PrepareStmt any known x = true ->
  compares (_equalPrepareStmt equal) (erase_PrepareStmt erase) x.
Proof. compare_tac. Qed.
#[export] Hint Resolve eq_PrepareStmt : compare.
Lemma eq_ExecuteStmt x : ExecuteStmt.t_all Node compared x ->
  check_ExecuteStmt any known x = true ->
  compares (_equalExecuteStmt equal) (erase_ExecuteStmt erase) x.
Proof. compare_tac. Qed.
#[export] Hint Resolve eq_ExecuteStmt : compare.
Lemma eq_DeallocateStmt x : DeallocateStmt.t_all Node compared x ->
  check_DeallocateStmt any x = true ->
  compares _equalDeallocateStmt erase_DeallocateStmt x.
Proof. compare_tac. Qed.
#[export] Hint Resolve eq_DeallocateStmt : compare.
Lemma eq_DropOwnedStmt x : DropOwnedStmt.t_all Node compared x ->
  check_DropOwnedStmt known x = true ->
  compares (_equalDropOwnedStmt equal) (erase_DropOwnedStmt erase) x.
Proof. compare_tac. Qed.
#[export] Hint Resolve eq_DropOwnedStmt : compare.
Lemma eq_ReassignOwnedStmt x : ReassignOwnedStmt.t_all Node compared x ->
  check_ReassignOwnedStmt any known x = true ->
  compares (_equalReassignOwnedStmt equal) (erase_ReassignOwnedStmt erase) x.
Proof. compare_tac. Qed.
#[export] Hint Resolve eq_ReassignOwnedStmt : compare.
Lemma eq_AlterTSDictionaryStmt x : AlterTSDictionaryStmt.t_all Node compared x ->
  check_AlterTSDictionaryStmt known x = true ->
  compares (_equalAlterTSDictionaryStmt equal) (erase_AlterTSDictionaryStmt erase) x.
Proof. compare_tac. Qed.
#[export] Hint Resolve eq_AlterTSDictionaryStmt : compare.
Lemma eq_AlterTSConfigurationStmt x : AlterTSConfigurationStmt.t_all Node compared x ->
  check_AlterTSConfigurationStmt known x = true ->
  compares (_equalAlterTSConfigurationStmt equal) (erase_AlterTSConfigurationStmt erase) x.
Proof. compare_tac. Qed.
#[export] Hint Resolve eq_AlterTSConfigurationStmt : compare.
Lemma eq_CreatePublicationStmt x : CreatePublicationStmt.t_all Node compared x ->
  check_CreatePublicationStmt any known x = true ->
  compares (_equalCreatePublicationStmt equal) (erase_CreatePublicationStmt erase) x.
Proof. compare_tac. Qed.
#[export] Hint Resolve eq_CreatePublicationStmt : compare.
Lemma eq_AlterPublicationStmt x : AlterPublicationStmt.t_all Node compared x ->
  check_AlterPublicationStmt any known x = true ->
  compares (_equalAlterPublicationStmt equal) (erase_AlterPublicationStmt erase) x.
Proof. compare_tac. Qed.
#[export] Hint Resolve eq_AlterPublicationStmt : compare.
Lemma eq_CreateSubscriptionStmt x : CreateSubscriptionStmt.t_all Node compared x ->
  check_CreateSubscriptionStmt any known x = true ->
  compares (_equalCreateSubscriptionStmt equal) (erase_CreateSubscriptionStmt erase) x.
Proof. compare_tac. Qed.
#[export] Hint Resolve eq_CreateSubscriptionStmt : compare.
Lemma eq_AlterSubscriptionStmt x : AlterSubscriptionStmt.t_all Node compared x ->
  check_AlterSubscriptionStmt any known x = true ->
  compares (_equalAlterSubscriptionStmt equal) (erase_AlterSubscriptionStmt erase) x.
Proof. compare_tac. Qed.
#[export] Hint Resolve eq_AlterSubscriptionStmt : compare.
Lemma eq_DropSubscriptionStmt x : DropSubscriptionStmt.t_all Node compared x ->
  check_DropSubscriptionStmt any x = true ->
  compares _equalDropSubscriptionStmt erase_DropSubscriptionStmt x.
Proof. compare_tac. Qed.
#[export] Hint Resolve eq_DropSubscriptionStmt : compare.

(** * Comparison of trees: all kinds of nodes

    [equal] tells whether two trees are the same but for what [erase] takes away, for
    all trees of the parser. *)

(** The node [b] is a [c], or [f], which is [with_X b], is false and its kind is another. *)
Definition picks {A} (b : Node) (c : A -> Node) (f : (A -> outcome bool) -> outcome bool)
    (other : Prop) : Prop :=
  (exists y, b = c y) \/ (other /\ forall k, f k = Ok false).

(** From the comparison of structs to that of their nodes. *)
Ltac node_tac lem pick :=
  let y := fresh "y" in let Hk := fresh "Hk" in let Hw := fresh "Hw" in let E := fresh "E" in
  intros; destruct pick as [[y ->]|[Hk Hw]];
  [ eapply decides_iff; [apply lem; assumption|];
    split; [intros E; apply (f_equal _ E)|intros E; cbn [erase] in E; congruence]
  | rewrite Hw; apply decides_false; intros E; rewrite <-E in Hk; exact Hk ].

Lemma pick_RangeVar b : picks b N_RangeVar (with_RangeVar b) (match erase b with N_RangeVar _ => False | _ => True end).
Proof. exact (match b with N_RangeVar y => or_introl (ex_intro _ y eq_refl) | _ => or_intror (conj I (fun k => eq_refl)) end). Qed.
Lemma node_RangeVar x b : RangeVar.t_all Node compared x ->
  check_RangeVar any known x = true ->
  decides (with_RangeVar b (_equalRangeVar equal x)) (N_RangeVar (erase_RangeVar erase x) = erase b).
Proof. node_tac (eq_RangeVar x) (pick_RangeVar b). Qed.
#[local] Hint Resolve node_RangeVar : compare.

Lemma pick_Alias b : picks b N_Alias (with_Alias b) (match erase b with N_Alias _ => False | _ => True end).
Proof. exact (match b with N_Alias y => or_introl (ex_intro _ y eq_refl) | _ => or_intror (conj I (fun k => eq_refl)) end). Qed.
Lemma node_Alias x b : Alias.t_all Node compared x ->
  check_Alias any known x = true ->
  decides (with_Alias b (_equalAlias equal x)) (N_Alias (erase_Alias erase x) = erase b).
Proof. node_tac (eq_Alias x) (pick_Alias b). Qed.
#[local] Hint Resolve node_Alias : compare.

Lemma pick_TypeName b : picks b N_TypeName (with_TypeName b) (match erase b with N_TypeName _ => False | _ => True end).
Proof. exact (match b with N_TypeName y => or_introl (ex_intro _ y eq_refl) | _ => or_intror (conj I (fun k => eq_refl)) end). Qed.
Lemma node_TypeName x b : TypeName.t_all Node compared x ->
  check_TypeName known x = true ->
  decides (with_TypeName b (_equalTypeName equal x)) (N_TypeName (erase_TypeName erase x) = erase b).
Proof. node_tac (eq_TypeName x) (pick_TypeName b). Qed.
#[local] Hint Resolve node_TypeName : compare.

Lemma pick_ColumnRef b : picks b N_ColumnRef (with_ColumnRef b) (match erase b with N_ColumnRef _ => False | _ => True end).
Proof. exact (match b with N_ColumnRef y => or_introl (ex_intro _ y eq_refl) | _ => or_intror (conj I (fun k => eq_refl)) end). Qed.
Lemma node_ColumnRef x b : ColumnRef.t_all Node compared x ->
  check_ColumnRef known x = true ->
  decides (with_ColumnRef b (_equalColumnRef equal x)) (N_ColumnRef (erase_ColumnRef erase x) = erase b).
Proof. node_tac (eq_ColumnRef x) (pick_ColumnRef b). Qed.
#[local] Hint Resolve node_ColumnRef : compare.

Lemma pick_ParamRef b : picks b N_ParamRef (with_ParamRef b) (match erase b with N_ParamRef _ => False | _ => True end).
Proof. exact (match b with N_ParamRef y => or_introl (ex_intro _ y eq_refl) | _ => or_intror (conj I (fun k => eq_refl)) end). Qed.
Lemma node_ParamRef x b : ParamRef.t_all Node compared x ->
  decides (with_ParamRef b (_equalParamRef x)) (N_ParamRef (erase_ParamRef x) = erase b).
Proof. node_tac (eq_ParamRef x) (pick_ParamRef b). Qed.
#[local] Hint Resolve node_ParamRef : compare.

Lemma pick_A_Expr b : picks b N_A_Expr (with_A_Expr b) (match erase b with N_A_Expr _ => False | _ => True end).
Proof. exact (match b with N_A_Expr y => or_introl (ex_intro _ y eq_refl) | _ => or_intror (conj I (fun k => eq_refl)) end). Qed.
Lemma node_A_Expr x b : A_Expr.t_all Node compared x ->
  check_A_Expr any known x = true ->
  decides (with_A_Expr b (_equalAExpr equal x)) (N_A_Expr (erase_A_Expr erase x) = erase b).
Proof. node_tac (eq_A_Expr x) (pick_A_Expr b). Qed.
#[local] Hint Resolve node_A_Expr : compare.

Lemma pick_A_Const b : picks b N_A_Const (with_A_Const b) (match erase b with N_A_Const _ => False | _ => True end).
Proof. exact (match b with N_A_Const y => or_introl (ex_intro _ y eq_refl) | _ => or_intror (conj I (fun k => eq_refl)) end). Qed.
Lemma node_A_Const x b : A_Const.t_all Node compared x ->
  decides (with_A_Const b (_equalAConst x)) (N_A_Const (erase_A_Const x) = erase b).
Proof. node_tac (eq_A_Const x) (pick_A_Const b). Qed.
#[local] Hint Resolve node_A_Const : compare.

Lemma pick_TypeCast b : picks b N_TypeCast (with_TypeCast b) (match erase b with N_TypeCast _ => False | _ => True end).
Proof. exact (match b with N_TypeCast y => or_introl (ex_intro _ y eq_refl) | _ => or_intror (conj I (fun k => eq_refl)) end). Qed.
Lemma node_TypeCast x b : TypeCast.t_all Node compared x ->
  check_TypeCast any known x = true ->
  decides (with_TypeCast b (_equalTypeCast equal x)) (N_TypeCast (erase_TypeCast erase x) = erase b).
Proof. node_tac (eq_TypeCast x) (pick_TypeCast b). Qed.
#[local] Hint Resolve node_TypeCast : compare.

Lemma pick_CollateClause b : picks b N_CollateClause (with_CollateClause b) (match erase b with N_CollateClause _ => False | _ => True end).
Proof. exact (match b with N_CollateClause y => or_introl (ex_intro _ y eq_refl) | _ => or_intror (conj I (fun k => eq_refl)) end). Qed.
Lemma node_CollateClause x b : CollateClause.t_all Node compared x ->
  check_CollateClause any known x = true ->
  decides (with_CollateClause b (_equalCollateClause equal x)) (N_CollateClause (erase_CollateClause erase x) = erase b).
Proof. node_tac (eq_CollateClause x) (pick_CollateClause b). Qed.
#[local] Hint Resolve node_CollateClause : compare.

Lemma pick_RoleSpec b : picks b N_RoleSpec (with_RoleSpec b) (match erase b with N_RoleSpec _ => False | _ => True end).
Proof. exact (match b with N_RoleSpec y => or_introl (ex_intro _ y eq_refl) | _ => or_intror (conj I (fun k => eq_refl)) end). Qed.
Lemma node_RoleSpec x b : RoleSpec.t_all Node compared x ->
  check_RoleSpec any x = true ->
  decides (with_RoleSpec b (_equalRoleSpec x)) (N_RoleSpec (erase_RoleSpec x) = erase b).
Proof. node_tac (eq_RoleSpec x) (pick_RoleSpec b). Qed.
#[local] Hint Resolve node_RoleSpec : compare.

Lemma pick_WindowDef b : picks b N_WindowDef (with_WindowDef b) (match erase b with N_WindowDef _ => False | _ => True end).
Proof. exact (match b with N_WindowDef y => or_introl (ex_intro _ y eq_refl) | _ => or_intror (conj I (fun k => eq_refl)) end). Qed.
Lemma node_WindowDef x b : WindowDef.t_all Node compared x ->
  check_WindowDef any known x = true ->
  decides (with_WindowDef b (_equalWindowDef equal x)) (N_WindowDef (erase_WindowDef erase x) = erase b).
Proof. node_tac (eq_WindowDef x) (pick_WindowDef b). Qed.
#[local] Hint Resolve node_WindowDef : compare.

Lemma pick_SortBy b : picks b N_SortBy (with_SortBy b) (match erase b with N_SortBy _ => False | _ => True end).
Proof. exact (match b with N_SortBy y => or_introl (ex_intro _ y eq_refl) | _ => or_intror (conj I (fun k => eq_refl)) end). Qed.
Lemma node_SortBy x b : SortBy.t_all Node compared x ->
  check_SortBy any known x = true ->
  decides (with_SortBy b (_equalSortBy equal x)) (N_SortBy (erase_SortBy erase x) = erase b).
Proof. node_tac (eq_SortBy x) (pick_SortBy b). Qed.
#[local] Hint Resolve node_SortBy : compare.

Lemma pick_FuncCall b : picks b N_FuncCall (with_FuncCall b) (match erase b with N_FuncCall _ => False | _ => True end).
Proof. exact (match b with N_FuncCall y => or_introl (ex_intro _ y eq_refl) | _ => or_intror (conj I (fun k => eq_refl)) end). Qed.
Lemma node_FuncCall x b : FuncCall.t_all Node compared x ->
  check_FuncCall any known x = true ->
  decides (with_FuncCall b (_equalFuncCall equal x)) (N_FuncCall (erase_FuncCall erase x) = erase b).
Proof. node_tac (eq_FuncCall x) (pick_FuncCall b). Qed.
#[local] Hint Resolve node_FuncCall : compare.

Lemma pick_A_Star b : picks b N_A_Star (with_A_Star b) (match erase b with N_A_Star _ => False | _ => True end).
Proof. exact (match b with N_A_Star y => or_introl (ex_intro _ y eq_refl) | _ => or_intror (conj I (fun k => eq_refl)) end). Qed.
Lemma node_A_Star x b : A_Star.t_all Node compared x ->
  decides (with_A_Star b (_equalAStar x)) (N_A_Star (erase_A_Star x) = erase b).
Proof. node_tac (eq_A_Star x) (pick_A_Star b). Qed.
#[local] Hint Resolve node_A_Star : compare.

Lemma pick_A_Indices b : picks b N_A_Indices (with_A_Indices b) (match erase b with N_A_Indices _ => False | _ => True end).
Proof. exact (match b with N_A_Indices y => or_introl (ex_intro _ y eq_refl) | _ => or_intror (conj I (fun k => eq_refl)) end). Qed.
Lemma node_A_Indices x b : A_Indices.t_all Node compared x ->
  check_A_Indices any known x = true ->
  decides (with_A_Indices b (_equalAIndices equal x)) (N_A_Indices (erase_A_Indices erase x) = erase b).
Proof. node_tac (eq_A_Indices x) (pick_A_Indices b). Qed.
#[local] Hint Resolve node_A_Indices : compare.

Lemma pick_A_Indirection b : picks b N_A_Indirection (with_A_Indirection b) (match erase b with N_A_Indirection _ => False | _ => True end).
Proof. exact (match b with N_A_Indirection y => or_introl (ex_intro _ y eq_refl) | _ => or_intror (conj I (fun k => eq_refl)) end). Qed.
Lemma node_A_Indirection x b : A_Indirection.t_all Node compared x ->
  check_A_Indirection any known x = true ->
  decides (with_A_Indirection b (_equalA_Indirection equal x)) (N_A_Indirection (erase_A_Indirection erase x) = erase b).
Proof. node_tac (eq_A_Indirection x) (pick_A_Indirection b). Qed.
#[local] Hint Resolve node_A_Indirection : compare.

Lemma pick_A_ArrayExpr b : picks b N_A_ArrayExpr (with_A_ArrayExpr b) (match erase b with N_A_ArrayExpr _ => False | _ => True end).
Proof. exact (match b with N_A_ArrayExpr y => or_introl (ex_intro _ y eq_refl) | _ => or_intror (conj I (fun k => eq_refl)) end). Qed.
Lemma node_A_ArrayExpr x b : A_ArrayExpr.t_all Node compared x ->
  check_A_ArrayExpr known x = true ->
  decides (with_A_ArrayExpr b (_equalA_ArrayExpr equal x)) (N_A_ArrayExpr (erase_A_ArrayExpr erase x) = erase b).
Proof. node_tac (eq_A_ArrayExpr x) (pick_A_ArrayExpr b). Qed.
#[local] Hint Resolve node_A_ArrayExpr : compare.

Lemma pick_ResTarget b : picks b N_ResTarget (with_ResTarget b) (match erase b with N_ResTarget _ => False | _ => True end).
Proof. exact (match b with N_ResTarget y => or_introl (ex_intro _ y eq_refl) | _ => or_intror (conj I (fun k => eq_refl)) end). Qed.
Lemma node_ResTarget x b : ResTarget.t_all Node compared x ->
  check_ResTarget any known x = true ->
  decides (with_ResTarget b (_equalResTarget equal x)) (N_ResTarget (erase_ResTarget erase x) = erase b).
Proof. node_tac (eq_ResTarget x) (pick_ResTarget b). Qed.
#[local] Hint Resolve node_ResTarget : compare.

Lemma pick_MultiAssignRef b : picks b N_MultiAssignRef (with_MultiAssignRef b) (match erase b with N_MultiAssignRef _ => False | _ => True end).
Proof. exact (match b with N_MultiAssignRef y => or_introl (ex_intro _ y eq_refl) | _ => or_intror (conj I (fun k => eq_refl)) end). Qed.
Lemma node_MultiAssignRef x b : MultiAssignRef.t_all Node compared x ->
  check_MultiAssignRef any known x = true ->
  decides (with_MultiAssignRef b (_equalMultiAssignRef equal x)) (N_MultiAssignRef (erase_MultiAssignRef erase x) = erase b).
Proof. node_tac (eq_MultiAssignRef x) (pick_MultiAssignRef b). Qed.
#[local] Hint Resolve node_MultiAssignRef : compare.

Lemma pick_NamedArgExpr b : picks b N_NamedArgExpr (with_NamedArgExpr b) (match erase b with N_NamedArgExpr _ => False | _ => True end).
Proof. exact (match b with N_NamedArgExpr y => or_introl (ex_intro _ y eq_refl) | _ => or_intror (conj I (fun k => eq_refl)) end). Qed.
Lemma node_NamedArgExpr x b : NamedArgExpr.t_all Node compared x ->
  check_NamedArgExpr any known x = true ->
  decides (with_NamedArgExpr b (_equalNamedArgExpr equal x)) (N_NamedArgExpr (erase_NamedArgExpr erase x) = erase b).
Proof. node_tac (eq_NamedArgExpr x) (pick_NamedArgExpr b). Qed.
#[local] Hint Resolve node_NamedArgExpr : compare.

Lemma pick_BoolExpr b : picks b N_BoolExpr (with_BoolExpr b) (match erase b with N_BoolExpr _ => False | _ => True end).
Proof. exact (match b with N_BoolExpr y => or_introl (ex_intro _ y eq_refl) | _ => or_intror (conj I (fun k => eq_refl)) end). Qed.
Lemma node_BoolExpr x b : BoolExpr.t_all Node compared x ->
  check_BoolExpr known x = true ->
  decides (with_BoolExpr b (_equalBoolExpr equal x)) (N_BoolExpr (erase_BoolExpr erase x) = erase b).
Proof. node_tac (eq_BoolExpr x) (pick_BoolExpr b). Qed.
#[local] Hint Resolve node_BoolExpr : compare.

Lemma pick_SubLink b : picks b N_SubLink (with_SubLink b) (match erase b with N_SubLink _ => False | _ => True end).
Proof. exact (match b with N_SubLink y => or_introl (ex_intro _ y eq_refl) | _ => or_intror (conj I (fun k => eq_refl)) end). Qed.
Lemma node_SubLink x b : SubLink.t_all Node compared x ->
  check_SubLink any known x = true ->
  decides (with_SubLink b (_equalSubLink equal x)) (N_SubLink (erase_SubLink erase x) = erase b).
Proof. node_tac (eq_SubLink x) (pick_SubLink b). Qed.
#[local] Hint Resolve node_SubLink : compare.

Lemma pick_CaseWhen b : picks b N_CaseWhen (with_CaseWhen b) (match erase b with N_CaseWhen _ => False | _ => True end).
Proof. exact (match b with N_CaseWhen y => or_introl (ex_intro _ y eq_refl) | _ => or_intror (conj I (fun k => eq_refl)) end). Qed.
Lemma node_CaseWhen x b : CaseWhen.t_all Node compared x ->
  check_CaseWhen any known x = true ->
  decides (with_CaseWhen b (_equalCaseWhen equal x)) (N_CaseWhen (erase_CaseWhen erase x) = erase b).
Proof. node_tac (eq_CaseWhen x) (pick_CaseWhen b). Qed.
#[local] Hint Resolve node_CaseWhen : compare.

Lemma pick_CaseExpr b : picks b N_CaseExpr (with_CaseExpr b) (match erase b with N_CaseExpr _ => False | _ => True end).
Proof. exact (match b with N_CaseExpr y => or_introl (ex_intro _ y eq_refl) | _ => or_intror (conj I (fun k => eq_refl)) end). Qed.
Lemma node_CaseExpr x b : CaseExpr.t_all Node compared x ->
  check_CaseExpr any known x = true ->
  decides (with_CaseExpr b (_equalCaseExpr equal x)) (N_CaseExpr (erase_CaseExpr erase x) = erase b).
Proof. node_tac (eq_CaseExpr x) (pick_CaseExpr b). Qed.
#[local] Hint Resolve node_CaseExpr : compare.

Lemma pick_RowExpr b : picks b N_RowExpr (with_RowExpr b) (match erase b with N_RowExpr _ => False | _ => True end).
Proof. exact (match b with N_RowExpr y => or_introl (ex_intro _ y eq_refl) | _ => or_intror (conj I (fun k => eq_refl)) end). Qed.
Lemma node_RowExpr x b : RowExpr.t_all Node compared x ->
  check_RowExpr known x = true ->
  decides (with_RowExpr b (_equalRowExpr equal x)) (N_RowExpr (erase_RowExpr erase x) = erase b).
Proof. node_tac (eq_RowExpr x) (pick_RowExpr b). Qed.
#[local] Hint Resolve node_RowExpr : compare.

Lemma pick_CoalesceExpr b : picks b N_CoalesceExpr (with_CoalesceExpr b) (match erase b with N_CoalesceExpr _ => False | _ => True end).
Proof. exact (match b with N_CoalesceExpr y => or_introl (ex_intro _ y eq_refl) | _ => or_intror (conj I (fun k => eq_refl)) end). Qed.
Lemma node_CoalesceExpr x b : CoalesceExpr.t_all Node compared x ->
  check_CoalesceExpr known x = true ->
  decides (with_CoalesceExpr b (_equalCoalesceExpr equal x)) (N_CoalesceExpr (erase_CoalesceExpr erase x) = erase b).
Proof. node_tac (eq_CoalesceExpr x) (pick_CoalesceExpr b). Qed.
#[local] Hint Resolve node_CoalesceExpr : compare.

Lemma pick_MinMaxExpr b : picks b N_MinMaxExpr (with_MinMaxExpr b) (match erase b with N_MinMaxExpr _ => False | _ => True end).
Proof. exact (match b with N_MinMaxExpr y => or_introl (ex_intro _ y eq_refl) | _ => or_intror (conj I (fun k => eq_refl)) end). Qed.
Lemma node_MinMaxExpr x b : MinMaxExpr.t_all Node compared x ->
  check_MinMaxExpr known x = true ->
  decides (with_MinMaxExpr b (_equalMinMaxExpr equal x)) (N_MinMaxExpr (erase_MinMaxExpr erase x) = erase b).
Proof. node_tac (eq_MinMaxExpr x) (pick_MinMaxExpr b). Qed.
#[local] Hint Resolve node_MinMaxExpr : compare.

Lemma pick_SQLValueFunction b : picks b N_SQLValueFunction (with_SQLValueFunction b) (match erase b with N_SQLValueFunction _ => False | _ => True end).
Proof. exact (match b with N_SQLValueFunction y => or_introl (ex_intro _ y eq_refl) | _ => or_intror (conj I (fun k => eq_refl)) end). Qed.
Lemma node_SQLValueFunction x b : SQLValueFunction.t_all Node compared x ->
  decides (with_SQLValueFunction b (_equalSQLValueFunction x)) (N_SQLValueFunction (erase_SQLValueFunction x) = erase b).
Proof. node_tac (eq_SQLValueFunction x) (pick_SQLValueFunction b). Qed.
#[local] Hint Resolve node_SQLValueFunction : compare.

Lemma pick_XmlExpr b : picks b N_XmlExpr (with_XmlExpr b) (match erase b with N_XmlExpr _ => False | _ => True end).
Proof. exact (match b with N_XmlExpr y => or_introl (ex_intro _ y eq_refl) | _ => or_intror (conj I (fun k => eq_refl)) end). Qed.
Lemma node_XmlExpr x b : XmlExpr.t_all Node compared x ->
  check_XmlExpr any known x = true ->
  decides (with_XmlExpr b (_equalXmlExpr equal x)) (N_XmlExpr (erase_XmlExpr erase x) = erase b).
Proof. node_tac (eq_XmlExpr x) (pick_XmlExpr b). Qed.
#[local] Hint Resolve node_XmlExpr : compare.

Lemma pick_XmlSerialize b : picks b N_XmlSerialize (with_XmlSerialize b) (match erase b with N_XmlSerialize _ => False | _ => True end).
Proof. exact (match b with N_XmlSerialize y => or_introl (ex_intro _ y eq_refl) | _ => or_intror (conj I (fun k => eq_refl)) end). Qed.
Lemma node_XmlSerialize x b : XmlSerialize.t_all Node compared x ->
  check_XmlSerialize any known x = true ->
  decides (with_XmlSerialize b (_equalXmlSerialize equal x)) (N_XmlSerialize (erase_XmlSerialize erase x) = erase b).
Proof. node_tac (eq_XmlSerialize x) (pick_XmlSerialize b). Qed.
#[local] Hint Resolve node_XmlSerialize : compare.

Lemma pick_NullTest b : picks b N_NullTest (with_NullTest b) (match erase b with N_NullTest _ => False | _ => True end).
Proof. exact (match b with N_NullTest y => or_introl (ex_intro _ y eq_refl) | _ => or_intror (conj I (fun k => eq_refl)) end). Qed.
Lemma node_NullTest x b : NullTest.t_all Node compared x ->
  check_NullTest any known x = true ->
  decides (with_NullTest b (_equalNullTest equal x)) (N_NullTest (erase_NullTest erase x) = erase b).
Proof. node_tac (eq_NullTest x) (pick_NullTest b). Qed.
#[local] Hint Resolve node_NullTest : compare.

Lemma pick_BooleanTest b : picks b N_BooleanTest (with_BooleanTest b) (match erase b with N_BooleanTest _ => False | _ => True end).
Proof. exact (match b with N_BooleanTest y => or_introl (ex_intro _ y eq_refl) | _ => or_intror (conj I (fun k => eq_refl)) end). Qed.
Lemma node_BooleanTest x b : BooleanTest.t_all Node compared x ->
  check_BooleanTest any known x = true ->
  decides (with_BooleanTest b (_equalBooleanTest equal x)) (N_BooleanTest (erase_BooleanTest erase x) = erase b).
Proof. node_tac (eq_BooleanTest x) (pick_BooleanTest b). Qed.
#[local] Hint Resolve node_BooleanTest : compare.

Lemma pick_SetToDefault b : picks b N_SetToDefault (with_SetToDefault b) (match erase b with N_SetToDefault _ => False | _ => True end).
Proof. exact (match b with N_SetToDefault y => or_introl (ex_intro _ y eq_refl) | _ => or_intror (conj I (fun k => eq_refl)) end). Qed.
Lemma node_SetToDefault x b : SetToDefault.t_all Node compared x ->
  decides (with_SetToDefault b (_equalSetToDefault x)) (N_SetToDefault (erase_SetToDefault x) = erase b).
Proof. node_tac (eq_SetToDefault x) (pick_SetToDefault b). Qed.
#[local] Hint Resolve node_SetToDefault : compare.

Lemma pick_CurrentOfExpr b : picks b N_CurrentOfExpr (with_CurrentOfExpr b) (match erase b with N_CurrentOfExpr _ => False | _ => True end).
Proof. exact (match b with N_CurrentOfExpr y => or_introl (ex_intro _ y eq_refl) | _ => or_intror (conj I (fun k => eq_refl)) end). Qed.
Lemma node_CurrentOfExpr x b : CurrentOfExpr.t_all Node compared x ->
  check_CurrentOfExpr any x = true ->
  decides (with_CurrentOfExpr b (_equalCurrentOfExpr x)) (N_CurrentOfExpr (erase_CurrentOfExpr x) = erase b).
Proof. node_tac (eq_CurrentOfExpr x) (pick_CurrentOfExpr b). Qed.
#[local] Hint Resolve node_CurrentOfExpr : compare.

Lemma pick_GroupingFunc b : picks b N_GroupingFunc (with_GroupingFunc b) (match erase b with N_GroupingFunc _ => False | _ => True end).
Proof. exact (match b with N_GroupingFunc y => or_introl (ex_intro _ y eq_refl) | _ => or_intror (conj I (fun k => eq_refl)) end). Qed.
Lemma node_GroupingFunc x b : GroupingFunc.t_all Node compared x ->
  check_GroupingFunc any known x = true ->
  decides (with_GroupingFunc b (_equalGroupingFunc equal x)) (N_GroupingFunc (erase_GroupingFunc erase x) = erase b).
Proof. node_tac (eq_GroupingFunc x) (pick_GroupingFunc b). Qed.
#[local] Hint Resolve node_GroupingFunc : compare.

Lemma pick_DefElem b : picks b N_DefElem (with_DefElem b) (match erase b with N_DefElem _ => False | _ => True end).
Proof. exact (match b with N_DefElem y => or_introl (ex_intro _ y eq_refl) | _ => or_intror (conj I (fun k => eq_refl)) end). Qed.
Lemma node_DefElem x b : DefElem.t_all Node compared x ->
  check_DefElem any known x = true ->
  decides (with_DefElem b (_equalDefElem equal x)) (N_DefElem (erase_DefElem erase x) = erase b).
Proof. node_tac (eq_DefElem x) (pick_DefElem b). Qed.
#[local] Hint Resolve node_DefElem : compare.

Lemma pick_IndexElem b : picks b N_IndexElem (with_IndexElem b) (match erase b with N_IndexElem _ => False | _ => True end).
Proof. exact (match b with N_IndexElem y => or_introl (ex_intro _ y eq_refl) | _ => or_intror (conj I (fun k => eq_refl)) end). Qed.
Lemma node_IndexElem x b : IndexElem.t_all Node compared x ->
  check_IndexElem any known x = true ->
  decides (with_IndexElem b (_equalIndexElem equal x)) (N_IndexElem (erase_IndexElem erase x) = erase b).
Proof. node_tac (eq_IndexElem x) (pick_IndexElem b). Qed.
#[local] Hint Resolve node_IndexElem : compare.

Lemma pick_Constraint b : picks b N_Constraint (with_Constraint b) (match erase b with N_Constraint _ => False | _ => True end).
Proof. exact (match b with N_Constraint y => or_introl (ex_intro _ y eq_refl) | _ => or_intror (conj I (fun k => eq_refl)) end). Qed.
Lemma node_Constraint x b : Constraint.t_all Node compared x ->
  check_Constraint any known x = true ->
  decides (with_Constraint b (_equalConstraint equal x)) (N_Constraint (erase_Constraint erase x) = erase b).
Proof. node_tac (eq_Constraint x) (pick_Constraint b). Qed.
#[local] Hint Resolve node_Constraint : compare.

Lemma pick_ColumnDef b : picks b N_ColumnDef (with_ColumnDef b) (match erase b with N_ColumnDef _ => False | _ => True end).
Proof. exact (match b with N_ColumnDef y => or_introl (ex_intro _ y eq_refl) | _ => or_intror (conj I (fun k => eq_refl)) end). Qed.
Lemma node_ColumnDef x b : ColumnDef.t_all Node compared x ->
  check_ColumnDef any known x = true ->
  decides (with_ColumnDef b (_equalColumnDef equal x)) (N_ColumnDef (erase_ColumnDef erase x) = erase b).
Proof. node_tac (eq_ColumnDef x) (pick_ColumnDef b). Qed.
#[local] Hint Resolve node_ColumnDef : compare.

Lemma pick_JoinExpr b : picks b N_JoinExpr (with_JoinExpr b) (match erase b with N_JoinExpr _ => False | _ => True end).
Proof. exact (match b with N_JoinExpr y => or_introl (ex_intro _ y eq_refl) | _ => or_intror (conj I (fun k => eq_refl)) end). Qed.
Lemma node_JoinExpr x b : JoinExpr.t_all Node compared x ->
  check_JoinExpr any known x = true ->
  decides (with_JoinExpr b (_equalJoinExpr equal x)) (N_JoinExpr (erase_JoinExpr erase x) = erase b).
Proof. node_tac (eq_JoinExpr x) (pick_JoinExpr b). Qed.
#[local] Hint Resolve node_JoinExpr : compare.

Lemma pick_RangeSubselect b : picks b N_RangeSubselect (with_RangeSubselect b) (match erase b with N_RangeSubselect _ => False | _ => True end).
Proof. exact (match b with N_RangeSubselect y => or_introl (ex_intro _ y eq_refl) | _ => or_intror (conj I (fun k => eq_refl)) end). Qed.
Lemma node_RangeSubselect x b : RangeSubselect.t_all Node compared x ->
  check_RangeSubselect any known x = true ->
  decides (with_RangeSubselect b (_equalRangeSubselect equal x)) (N_RangeSubselect (erase_RangeSubselect erase x) = erase b).
Proof. node_tac (eq_RangeSubselect x) (pick_RangeSubselect b). Qed.
#[local] Hint Resolve node_RangeSubselect : compare.

Lemma pick_RangeFunction b : picks b N_RangeFunction (with_RangeFunction b) (match erase b with N_RangeFunction _ => False | _ => True end).
Proof. exact (match b with N_RangeFunction y => or_introl (ex_intro _ y eq_refl) | _ => or_intror (conj I (fun k => eq_refl)) end). Qed.
Lemma node_RangeFunction x b : RangeFunction.t_all Node compared x ->
  check_RangeFunction any known x = true ->
  decides (with_RangeFunction b (_equalRangeFunction equal x)) (N_RangeFunction (erase_RangeFunction erase x) = erase b).
Proof. node_tac (eq_RangeFunction x) (pick_RangeFunction b). Qed.
#[local] Hint Resolve node_RangeFunction : compare.

Lemma pick_RangeTableFuncCol b : picks b N_RangeTableFuncCol (with_RangeTableFuncCol b) (match erase b with N_RangeTableFuncCol _ => False | _ => True end).
Proof. exact (match b with N_RangeTableFuncCol y => or_introl (ex_intro _ y eq_refl) | _ => or_intror (conj I (fun k => eq_refl)) end). Qed.
Lemma node_RangeTableFuncCol x b : RangeTableFuncCol.t_all Node compared x ->
  check_RangeTableFuncCol any known x = true ->
  decides (with_RangeTableFuncCol b (_equalRangeTableFuncCol equal x)) (N_RangeTableFuncCol (erase_RangeTableFuncCol erase x) = erase b).
Proof. node_tac (eq_RangeTableFuncCol x) (pick_RangeTableFuncCol b). Qed.
#[local] Hint Resolve node_RangeTableFuncCol : compare.

Lemma pick_RangeTableFunc b : picks b N_RangeTableFunc (with_RangeTableFunc b) (match erase b with N_RangeTableFunc _ => False | _ => True end).
Proof. exact (match b with N_RangeTableFunc y => or_introl (ex_intro _ y eq_refl) | _ => or_intror (conj I (fun k => eq_refl)) end). Qed.
Lemma node_RangeTableFunc x b : RangeTableFunc.t_all Node compared x ->
  check_RangeTableFunc any known x = true ->
  decides (with_RangeTableFunc b (_equalRangeTableFunc equal x)) (N_RangeTableFunc (erase_RangeTableFunc erase x) = erase b).
Proof. node_tac (eq_RangeTableFunc x) (pick_RangeTableFunc b). Qed.
#[local] Hint Resolve node_RangeTableFunc : compare.

Lemma pick_RangeTableSample b : picks b N_RangeTableSample (with_RangeTableSample b) (match erase b with N_RangeTableSample _ => False | _ => True end).
Proof. exact (match b with N_RangeTableSample y => or_introl (ex_intro _ y eq_refl) | _ => or_intror (conj I (fun k => eq_refl)) end). Qed.
Lemma node_RangeTableSample x b : RangeTableSample.t_all Node compared x ->
  check_RangeTableSample any known x = true ->
  decides (with_RangeTableSample b (_equalRangeTableSample equal x)) (N_RangeTableSample (erase_RangeTableSample erase x) = erase b).
Proof. node_tac (eq_RangeTableSample x) (pick_RangeTableSample b). Qed.
#[local] Hint Resolve node_RangeTableSample : compare.

Lemma pick_CommonTableExpr b : picks b N_CommonTableExpr (with_CommonTableExpr b) (match erase b with N_CommonTableExpr _ => False | _ => True end).
Proof. exact (match b with N_CommonTableExpr y => or_introl (ex_intro _ y eq_refl) | _ => or_intror (conj I (fun k => eq_refl)) end). Qed.
Lemma node_CommonTableExpr x b : CommonTableExpr.t_all Node compared x ->
  check_CommonTableExpr any known x = true ->
  decides (with_CommonTableExpr b (_equalCommonTableExpr equal x)) (N_CommonTableExpr (erase_CommonTableExpr erase x) = erase b).
Proof. node_tac (eq_CommonTableExpr x) (pick_CommonTableExpr b). Qed.
#[local] Hint Resolve node_CommonTableExpr : compare.

Lemma pick_WithClause b : picks b N_WithClause (with_WithClause b) (match erase b with N_WithClause _ => False | _ => True end).
Proof. exact (match b with N_WithClause y => or_introl (ex_intro _ y eq_refl) | _ => or_intror (conj I (fun k => eq_refl)) end). Qed.
Lemma node_WithClause x b : WithClause.t_all Node compared x ->
  check_WithClause known x = true ->
  decides (with_WithClause b (_equalWithClause equal x)) (N_WithClause (erase_WithClause erase x) = erase b).
Proof. node_tac (eq_WithClause x) (pick_WithClause b). Qed.
#[local] Hint Resolve node_WithClause : compare.

Lemma pick_InferClause b : picks b N_InferClause (with_InferClause b) (match erase b with N_InferClause _ => False | _ => True end).
Proof. exact (match b with N_InferClause y => or_introl (ex_intro _ y eq_refl) | _ => or_intror (conj I (fun k => eq_refl)) end). Qed.
Lemma node_InferClause x b : InferClause.t_all Node compared x ->
  check_InferClause any known x = true ->
  decides (with_InferClause b (_equalInferClause equal x)) (N_InferClause (erase_InferClause erase x) = erase b).
Proof. node_tac (eq_InferClause x) (pick_InferClause b). Qed.
#[local] Hint Resolve node_InferClause : compare.

Lemma pick_OnConflictClause b : picks b N_OnConflictClause (with_OnConflictClause b) (match erase b with N_OnConflictClause _ => False | _ => True end).
Proof. exact (match b with N_OnConflictClause y => or_introl (ex_intro _ y eq_refl) | _ => or_intror (conj I (fun k => eq_refl)) end). Qed.
Lemma node_OnConflictClause x b : OnConflictClause.t_all Node compared x ->
  check_OnConflictClause any known x = true ->
  decides (with_OnConflictClause b (_equalOnConflictClause equal x)) (N_OnConflictClause (erase_OnConflictClause erase x) = erase b).
Proof. node_tac (eq_OnConflictClause x) (pick_OnConflictClause b). Qed.
#[local] Hint Resolve node_OnConflictClause : compare.

Lemma pick_LockingClause b : picks b N_LockingClause (with_LockingClause b) (match erase b with N_LockingClause _ => False | _ => True end).
Proof. exact (match b with N_LockingClause y => or_introl (ex_intro _ y eq_refl) | _ => or_intror (conj I (fun k => eq_refl)) end). Qed.
Lemma node_LockingClause x b : LockingClause.t_all Node compared x ->
  check_LockingClause known x = true ->
  decides (with_LockingClause b (_equalLockingClause equal x)) (N_LockingClause (erase_LockingClause erase x) = erase b).
Proof. node_tac (eq_LockingClause x) (pick_LockingClause b). Qed.
#[local] Hint Resolve node_LockingClause : compare.

Lemma pick_GroupingSet b : picks b N_GroupingSet (with_GroupingSet b) (match erase b with N_GroupingSet _ => False | _ => True end).
Proof. exact (match b with N_GroupingSet y => or_introl (ex_intro _ y eq_refl) | _ => or_intror (conj I (fun k => eq_refl)) end). Qed.
Lemma node_GroupingSet x b : GroupingSet.t_all Node compared x ->
  check_GroupingSet known x = true ->
  decides (with_GroupingSet b (_equalGroupingSet equal x)) (N_GroupingSet (erase_GroupingSet erase x) = erase b).
Proof. node_tac (eq_GroupingSet x) (pick_GroupingSet b). Qed.
#[local] Hint Resolve node_GroupingSet : compare.

Lemma pick_IntoClause b : picks b N_IntoClause (with_IntoClause b) (match erase b with N_IntoClause _ => False | _ => True end).
Proof. exact (match b with N_IntoClause y => or_introl (ex_intro _ y eq_refl) | _ => or_intror (conj I (fun k => eq_refl)) end). Qed.
Lemma node_IntoClause x b : IntoClause.t_all Node compared x ->
  check_IntoClause any known x = true ->
  decides (with_IntoClause b (_equalIntoClause equal x)) (N_IntoClause (erase_IntoClause erase x) = erase b).
Proof. node_tac (eq_IntoClause x) (pick_IntoClause b). Qed.
#[local] Hint Resolve node_IntoClause : compare.

Lemma pick_SelectStmt b : picks b N_SelectStmt (with_SelectStmt b) (match erase b with N_SelectStmt _ => False | _ => True end).
Proof. exact (match b with N_SelectStmt y => or_introl (ex_intro _ y eq_refl) | _ => or_intror (conj I (fun k => eq_refl)) end). Qed.
Lemma node_SelectStmt x b : SelectStmt.t_all Node compared x ->
  check_SelectStmt any known x = true ->
  decides (with_SelectStmt b (_equalSelectStmt equal x)) (N_SelectStmt (erase_SelectStmt erase x) = erase b).
Proof. node_tac (eq_SelectStmt x) (pick_SelectStmt b). Qed.
#[local] Hint Resolve node_SelectStmt : compare.

Lemma pick_InsertStmt b : picks b N_InsertStmt (with_InsertStmt b) (match erase b with N_InsertStmt _ => False | _ => True end).
Proof. exact (match b with N_InsertStmt y => or_introl (ex_intro _ y eq_refl) | _ => or_intror (conj I (fun k => eq_refl)) end). Qed.
Lemma node_InsertStmt x b : InsertStmt.t_all Node compared x ->
  check_InsertStmt any known x = true ->
  decides (with_InsertStmt b (_equalInsertStmt equal x)) (N_InsertStmt (erase_InsertStmt erase x) = erase b).
Proof. node_tac (eq_InsertStmt x) (pick_InsertStmt b). Qed.
#[local] Hint Resolve node_InsertStmt : compare.

Lemma pick_UpdateStmt b : picks b N_UpdateStmt (with_UpdateStmt b) (match erase b with N_UpdateStmt _ => False | _ => True end).
Proof. exact (match b with N_UpdateStmt y => or_introl (ex_intro _ y eq_refl) | _ => or_intror (conj I (fun k => eq_refl)) end). Qed.
Lemma node_UpdateStmt x b : UpdateStmt.t_all Node compared x ->
  check_UpdateStmt any known x = true ->
  decides (with_UpdateStmt b (_equalUpdateStmt equal x)) (N_UpdateStmt (erase_UpdateStmt erase x) = erase b).
Proof. node_tac (eq_UpdateStmt x) (pick_UpdateStmt b). Qed.
#[local] Hint Resolve node_UpdateStmt : compare.

Lemma pick_DeleteStmt b : picks b N_DeleteStmt (with_DeleteStmt b) (match erase b with N_DeleteStmt _ => False | _ => True end).
Proof. exact (match b with N_DeleteStmt y => or_introl (ex_intro _ y eq_refl) | _ => or_intror (conj I (fun k => eq_refl)) end). Qed.
Lemma node_DeleteStmt x b : DeleteStmt.t_all Node compared x ->
  check_DeleteStmt any known x = true ->
  decides (with_DeleteStmt b (_equalDeleteStmt equal x)) (N_DeleteStmt (erase_DeleteStmt erase x) = erase b).
Proof. node_tac (eq_DeleteStmt x) (pick_DeleteStmt b). Qed.
#[local] Hint Resolve node_DeleteStmt : compare.

Lemma pick_RawStmt b : picks b N_RawStmt (with_RawStmt b) (match erase b with N_RawStmt _ => False | _ => True end).
Proof. exact (match b with N_RawStmt y => or_introl (ex_intro _ y eq_refl) | _ => or_intror (conj I (fun k => eq_refl)) end). Qed.
Lemma node_RawStmt x b : RawStmt.t_all Node compared x ->
  check_RawStmt any known x = true ->
  decides (with_RawStmt b (_equalRawStmt equal x)) (N_RawStmt (erase_RawStmt erase x) = erase b).
Proof. node_tac (eq_RawStmt x) (pick_RawStmt b). Qed.
#[local] Hint Resolve node_RawStmt : compare.

Lemma pick_AlterTableCmd b : picks b N_AlterTableCmd (with_AlterTableCmd b) (match erase b with N_AlterTableCmd _ => False | _ => True end).
Proof. exact (match b with N_AlterTableCmd y => or_introl (ex_intro _ y eq_refl) | _ => or_intror (conj I (fun k => eq_refl)) end). Qed.
Lemma node_AlterTableCmd x b : AlterTableCmd.t_all Node compared x ->
  check_AlterTableCmd any known x = true ->
  decides (with_AlterTableCmd b (_equalAlterTableCmd equal x)) (N_AlterTableCmd (erase_AlterTableCmd erase x) = erase b).
Proof. node_tac (eq_AlterTableCmd x) (pick_AlterTableCmd b). Qed.
#[local] Hint Resolve node_AlterTableCmd : compare.

Lemma pick_PartitionBoundSpec b : picks b N_PartitionBoundSpec (with_PartitionBoundSpec b) (match erase b with N_PartitionBoundSpec _ => False | _ => True end).
Proof. exact (match b with N_PartitionBoundSpec y => or_introl (ex_intro _ y eq_refl) | _ => or_intror (conj I (fun k => eq_refl)) end). Qed.
Lemma node_PartitionBoundSpec x b : PartitionBoundSpec.t_all Node compared x ->
  check_PartitionBoundSpec any known x = true ->
  decides (with_PartitionBoundSpec b (_equalPartitionBoundSpec equal x)) (N_PartitionBoundSpec (erase_PartitionBoundSpec erase x) = erase b).
Proof. node_tac (eq_PartitionBoundSpec x) (pick_PartitionBoundSpec b). Qed.
#[local] Hint Resolve node_PartitionBoundSpec : compare.

Lemma pick_TableLikeClause b : picks b N_TableLikeClause (with_TableLikeClause b) (match erase b with N_TableLikeClause _ => False | _ => True end).
Proof. exact (match b with N_TableLikeClause y => or_introl (ex_intro _ y eq_refl) | _ => or_intror (conj I (fun k => eq_refl)) end). Qed.
Lemma node_TableLikeClause x b : TableLikeClause.t_all Node compared x ->
  check_TableLikeClause any known x = true ->
  decides (with_TableLikeClause b (_equalTableLikeClause equal x)) (N_TableLikeClause (erase_TableLikeClause erase x) = erase b).
Proof. node_tac (eq_TableLikeClause x) (pick_TableLikeClause b). Qed.
#[local] Hint Resolve node_TableLikeClause : compare.

Lemma pick_PartitionElem b : picks b N_PartitionElem (with_PartitionElem b) (match erase b with N_PartitionElem _ => False | _ => True end).
Proof. exact (match b with N_PartitionElem y => or_introl (ex_intro _ y eq_refl) | _ => or_intror (conj I (fun k => eq_refl)) end). Qed.
Lemma node_PartitionElem x b : PartitionElem.t_all Node compared x ->
  check_PartitionElem any known x = true ->
  decides (with_PartitionElem b (_equalPartitionElem equal x)) (N_PartitionElem (erase_PartitionElem erase x) = erase b).
Proof. node_tac (eq_PartitionElem x) (pick_PartitionElem b). Qed.
#[local] Hint Resolve node_PartitionElem : compare.

Lemma pick_PartitionSpec b : picks b N_PartitionSpec (with_PartitionSpec b) (match erase b with N_PartitionSpec _ => False | _ => True end).
Proof. exact (match b with N_PartitionSpec y => or_introl (ex_intro _ y eq_refl) | _ => or_intror (conj I (fun k => eq_refl)) end). Qed.
Lemma node_PartitionSpec x b : PartitionSpec.t_all Node compared x ->
  check_PartitionSpec any known x = true ->
  decides (with_PartitionSpec b (_equalPartitionSpec equal x)) (N_PartitionSpec (erase_PartitionSpec erase x) = erase b).
Proof. node_tac (eq_PartitionSpec x) (pick_PartitionSpec b). Qed.
#[local] Hint Resolve node_PartitionSpec : compare.

Lemma pick_PartitionCmd b : picks b N_PartitionCmd (with_PartitionCmd b) (match erase b with N_PartitionCmd _ => False | _ => True end).
Proof. exact (match b with N_PartitionCmd y => or_introl (ex_intro _ y eq_refl) | _ => or_intror (conj I (fun k => eq_refl)) end). Qed.
Lemma node_PartitionCmd x b : PartitionCmd.t_all Node compared x ->
  check_PartitionCmd any known x = true ->
  decides (with_PartitionCmd b (_equalPartitionCmd equal x)) (N_PartitionCmd (erase_PartitionCmd erase x) = erase b).
Proof. node_tac (eq_PartitionCmd x) (pick_PartitionCmd b). Qed.
#[local] Hint Resolve node_PartitionCmd : compare.

Lemma pick_TriggerTransition b : picks b N_TriggerTransition (with_TriggerTransition b) (match erase b with N_TriggerTransition _ => False | _ => True end).
Proof. exact (match b with N_TriggerTransition y => or_introl (ex_intro _ y eq_refl) | _ => or_intror (conj I (fun k => eq_refl)) end). Qed.
Lemma node_TriggerTransition x b : TriggerTransition.t_all Node compared x ->
  check_TriggerTransition any x = true ->
  decides (with_TriggerTransition b (_equalTriggerTransition x)) (N_TriggerTransition (erase_TriggerTransition x) = erase b).
Proof. node_tac (eq_TriggerTransition x) (pick_TriggerTransition b). Qed.
#[local] Hint Resolve node_TriggerTransition : compare.

Lemma pick_CreateSchemaStmt b : picks b N_CreateSchemaStmt (with_CreateSchemaStmt b) (match erase b with N_CreateSchemaStmt _ => False | _ => True end).
Proof. exact (match b with N_CreateSchemaStmt y => or_introl (ex_intro _ y eq_refl) | _ => or_intror (conj I (fun k => eq_refl)) end). Qed.
Lemma node_CreateSchemaStmt x b : CreateSchemaStmt.t_all Node compared x ->
  check_CreateSchemaStmt any known x = true ->
  decides (with_CreateSchemaStmt b (_equalCreateSchemaStmt equal x)) (N_CreateSchemaStmt (erase_CreateSchemaStmt erase x) = erase b).
Proof. node_tac (eq_CreateSchemaStmt x) (pick_CreateSchemaStmt b). Qed.
#[local] Hint Resolve node_CreateSchemaStmt : compare.

Lemma pick_AlterTableStmt b : picks b N_AlterTableStmt (with_AlterTableStmt b) (match erase b with N_AlterTableStmt _ => False | _ => True end).
Proof. exact (match b with N_AlterTableStmt y => or_introl (ex_intro _ y eq_refl) | _ => or_intror (conj I (fun k => eq_refl)) end). Qed.
Lemma node_AlterTableStmt x b : AlterTableStmt.t_all Node compared x ->
  check_AlterTableStmt any known x = true ->
  decides (with_AlterTableStmt b (_equalAlterTableStmt equal x)) (N_AlterTableStmt (erase_AlterTableStmt erase x) = erase b).
Proof. node_tac (eq_AlterTableStmt x) (pick_AlterTableStmt b). Qed.
#[local] Hint Resolve node_AlterTableStmt : compare.

Lemma pick_ReplicaIdentityStmt b : picks b N_ReplicaIdentityStmt (with_ReplicaIdentityStmt b) (match erase b with N_ReplicaIdentityStmt _ => False | _ => True end).
Proof. exact (match b with N_ReplicaIdentityStmt y => or_introl (ex_intro _ y eq_refl) | _ => or_intror (conj I (fun k => eq_refl)) end). Qed.
Lemma node_ReplicaIdentityStmt x b : ReplicaIdentityStmt.t_all Node compared x ->
  check_ReplicaIdentityStmt any x = true ->
  decides (with_ReplicaIdentityStmt b (_equalReplicaIdentityStmt x)) (N_ReplicaIdentityStmt (erase_ReplicaIdentityStmt x) = erase b).
Proof. node_tac (eq_ReplicaIdentityStmt x) (pick_ReplicaIdentityStmt b). Qed.
#[local] Hint Resolve node_ReplicaIdentityStmt : compare.

Lemma pick_AlterCollationStmt b : picks b N_AlterCollationStmt (with_AlterCollationStmt b) (match erase b with N_AlterCollationStmt _ => False | _ => True end).
Proof. exact (match b with N_AlterCollationStmt y => or_introl (ex_intro _ y eq_refl) | _ => or_intror (conj I (fun k => eq_refl)) end). Qed.
Lemma node_AlterCollationStmt x b : AlterCollationStmt.t_all Node compared x ->
  check_AlterCollationStmt known x = true ->
  decides (with_AlterCollationStmt b (_equalAlterCollationStmt equal x)) (N_AlterCollationStmt (erase_AlterCollationStmt erase x) = erase b).
Proof. node_tac (eq_AlterCollationStmt x) (pick_AlterCollationStmt b). Qed.
#[local] Hint Resolve node_AlterCollationStmt : compare.

Lemma pick_AlterDomainStmt b : picks b N_AlterDomainStmt (with_AlterDomainStmt b) (match erase b with N_AlterDomainStmt _ => False | _ => True end).
Proof. exact (match b with N_AlterDomainStmt y => or_introl (ex_intro _ y eq_refl) | _ => or_intror (conj I (fun k => eq_refl)) end). Qed.
Lemma node_AlterDomainStmt x b : AlterDomainStmt.t_all Node compared x ->
  check_AlterDomainStmt any known x = true ->
  decides (with_AlterDomainStmt b (_equalAlterDomainStmt equal x)) (N_AlterDomainStmt (erase_AlterDomainStmt erase x) = erase b).
Proof. node_tac (eq_AlterDomainStmt x) (pick_AlterDomainStmt b). Qed.
#[local] Hint Resolve node_AlterDomainStmt : compare.

Lemma pick_GrantStmt b : picks b N_GrantStmt (with_GrantStmt b) (match erase b with N_GrantStmt _ => False | _ => True end).
Proof. exact (match b with N_GrantStmt y => or_introl (ex_intro _ y eq_refl) | _ => or_intror (conj I (fun k => eq_refl)) end). Qed.
Lemma node_GrantStmt x b : GrantStmt.t_all Node compared x ->
  check_GrantStmt known x = true ->
  decides (with_GrantStmt b (_equalGrantStmt equal x)) (N_GrantStmt (erase_GrantStmt erase x) = erase b).
Proof. node_tac (eq_GrantStmt x) (pick_GrantStmt b). Qed.
#[local] Hint Resolve node_GrantStmt : compare.

Lemma pick_ObjectWithArgs b : picks b N_ObjectWithArgs (with_ObjectWithArgs b) (match erase b with N_ObjectWithArgs _ => False | _ => True end).
Proof. exact (match b with N_ObjectWithArgs y => or_introl (ex_intro _ y eq_refl) | _ => or_intror (conj I (fun k => eq_refl)) end). Qed.
Lemma node_ObjectWithArgs x b : ObjectWithArgs.t_all Node compared x ->
  check_ObjectWithArgs known x = true ->
  decides (with_ObjectWithArgs b (_equalObjectWithArgs equal x)) (N_ObjectWithArgs (erase_ObjectWithArgs erase x) = erase b).
Proof. node_tac (eq_ObjectWithArgs x) (pick_ObjectWithArgs b). Qed.
#[local] Hint Resolve node_ObjectWithArgs : compare.

Lemma pick_AccessPriv b : picks b N_AccessPriv (with_AccessPriv b) (match erase b with N_AccessPriv _ => False | _ => True end).
Proof. exact (match b with N_AccessPriv y => or_introl (ex_intro _ y eq_refl) | _ => or_intror (conj I (fun k => eq_refl)) end). Qed.
Lemma node_AccessPriv x b : AccessPriv.t_all Node compared x ->
  check_AccessPriv any known x = true ->
  decides (with_AccessPriv b (_equalAccessPriv equal x)) (N_AccessPriv (erase_AccessPriv erase x) = erase b).
Proof. node_tac (eq_AccessPriv x) (pick_AccessPriv b). Qed.
#[local] Hint Resolve node_AccessPriv : compare.

Lemma pick_GrantRoleStmt b : picks b N_GrantRoleStmt (with_GrantRoleStmt b) (match erase b with N_GrantRoleStmt _ => False | _ => True end).
Proof. exact (match b with N_GrantRoleStmt y => or_introl (ex_intro _ y eq_refl) | _ => or_intror (conj I (fun k => eq_refl)) end). Qed.
Lemma node_GrantRoleStmt x b : GrantRoleStmt.t_all Node compared x ->
  check_GrantRoleStmt any known x = true ->
  decides (with_GrantRoleStmt b (_equalGrantRoleStmt equal x)) (N_GrantRoleStmt (erase_GrantRoleStmt erase x) = erase b).
Proof. node_tac (eq_GrantRoleStmt x) (pick_GrantRoleStmt b). Qed.
#[local] Hint Resolve node_GrantRoleStmt : compare.

Lemma pick_AlterDefaultPrivilegesStmt b : picks b N_AlterDefaultPrivilegesStmt (with_AlterDefaultPrivilegesStmt b) (match erase b with N_AlterDefaultPrivilegesStmt _ => False | _ => True end).
Proof. exact (match b with N_AlterDefaultPrivilegesStmt y => or_introl (ex_intro _ y eq_refl) | _ => or_intror (conj I (fun k => eq_refl)) end). Qed.
Lemma node_AlterDefaultPrivilegesStmt x b : AlterDefaultPrivilegesStmt.t_all Node compared x ->
  check_AlterDefaultPrivilegesStmt known x = true ->
  decides (with_AlterDefaultPrivilegesStmt b (_equalAlterDefaultPrivilegesStmt equal x)) (N_AlterDefaultPrivilegesStmt (erase_AlterDefaultPrivilegesStmt erase x) = erase b).
Proof. node_tac (eq_AlterDefaultPrivilegesStmt x) (pick_AlterDefaultPrivilegesStmt b). Qed.
#[local] Hint Resolve node_AlterDefaultPrivilegesStmt : compare.

Lemma pick_CopyStmt b : picks b N_CopyStmt (with_CopyStmt b) (match erase b with N_CopyStmt _ => False | _ => True end).
Proof. exact (match b with N_CopyStmt y => or_introl (ex_intro _ y eq_refl) | _ => or_intror (conj I (fun k => eq_refl)) end). Qed.
Lemma node_CopyStmt x b : CopyStmt.t_all Node compared x ->
  check_CopyStmt any known x = true ->
  decides (with_CopyStmt b (_equalCopyStmt equal x)) (N_CopyStmt (erase_CopyStmt erase x) = erase b).
Proof. node_tac (eq_CopyStmt x) (pick_CopyStmt b). Qed.
#[local] Hint Resolve node_CopyStmt : compare.

Lemma pick_VariableSetStmt b : picks b N_VariableSetStmt (with_VariableSetStmt b) (match erase b with N_VariableSetStmt _ => False | _ => True end).
Proof. exact (match b with N_VariableSetStmt y => or_introl (ex_intro _ y eq_refl) | _ => or_intror (conj I (fun k => eq_refl)) end). Qed.
Lemma node_VariableSetStmt x b : VariableSetStmt.t_all Node compared x ->
  check_VariableSetStmt any known x = true ->
  decides (with_VariableSetStmt b (_equalVariableSetStmt equal x)) (N_VariableSetStmt (erase_VariableSetStmt erase x) = erase b).
Proof. node_tac (eq_VariableSetStmt x) (pick_VariableSetStmt b). Qed.
#[local] Hint Resolve node_VariableSetStmt : compare.

Lemma pick_VariableShowStmt b : picks b N_VariableShowStmt (with_VariableShowStmt b) (match erase b with N_VariableShowStmt _ => False | _ => True end).
Proof. exact (match b with N_VariableShowStmt y => or_introl (ex_intro _ y eq_refl) | _ => or_intror (conj I (fun k => eq_refl)) end). Qed.
Lemma node_VariableShowStmt x b : VariableShowStmt.t_all Node compared x ->
  check_VariableShowStmt any x = true ->
  decides (with_VariableShowStmt b (_equalVariableShowStmt x)) (N_VariableShowStmt (erase_VariableShowStmt x) = erase b).
Proof. node_tac (eq_VariableShowStmt x) (pick_VariableShowStmt b). Qed.
#[local] Hint Resolve node_VariableShowStmt : compare.

Lemma pick_CreateStmt b : picks b N_CreateStmt (with_CreateStmt b) (match erase b with N_CreateStmt _ => False | _ => True end).
Proof. exact (match b with N_CreateStmt y => or_introl (ex_intro _ y eq_refl) | _ => or_intror (conj I (fun k => eq_refl)) end). Qed.
Lemma node_CreateStmt x b : CreateStmt.t_all Node compared x ->
  check_CreateStmt any known x = true ->
  decides (with_CreateStmt b (_equalCreateStmt equal x)) (N_CreateStmt (erase_CreateStmt erase x) = erase b).
Proof. node_tac (eq_CreateStmt x) (pick_CreateStmt b). Qed.
#[local] Hint Resolve node_CreateStmt : compare.

Lemma pick_CreateTableSpaceStmt b : picks b N_CreateTableSpaceStmt (with_CreateTableSpaceStmt b) (match erase b with N_CreateTableSpaceStmt _ => False | _ => True end).
Proof. exact (match b with N_CreateTableSpaceStmt y => or_introl (ex_intro _ y eq_refl) | _ => or_intror (conj I (fun k => eq_refl)) end). Qed.
Lemma node_CreateTableSpaceStmt x b : CreateTableSpaceStmt.t_all Node compared x ->
  check_CreateTableSpaceStmt any known x = true ->
  decides (with_CreateTableSpaceStmt b (_equalCreateTableSpaceStmt equal x)) (N_CreateTableSpaceStmt (erase_CreateTableSpaceStmt erase x) = erase b).
Proof. node_tac (eq_CreateTableSpaceStmt x) (pick_CreateTableSpaceStmt b). Qed.
#[local] Hint Resolve node_CreateTableSpaceStmt : compare.

Lemma pick_DropTableSpaceStmt b : picks b N_DropTableSpaceStmt (with_DropTableSpaceStmt b) (match erase b with N_DropTableSpaceStmt _ => False | _ => True end).
Proof. exact (match b with N_DropTableSpaceStmt y => or_introl (ex_intro _ y eq_refl) | _ => or_intror (conj I (fun k => eq_refl)) end). Qed.
Lemma node_DropTableSpaceStmt x b : DropTableSpaceStmt.t_all Node compared x ->
  check_DropTableSpaceStmt any x = true ->
  decides (with_DropTableSpaceStmt b (_equalDropTableSpaceStmt x)) (N_DropTableSpaceStmt (erase_DropTableSpaceStmt x) = erase b).
Proof. node_tac (eq_DropTableSpaceStmt x) (pick_DropTableSpaceStmt b). Qed.
#[local] Hint Resolve node_DropTableSpaceStmt : compare.

Lemma pick_AlterTableSpaceOptionsStmt b : picks b N_AlterTableSpaceOptionsStmt (with_AlterTableSpaceOptionsStmt b) (match erase b with N_AlterTableSpaceOptionsStmt _ => False | _ => True end).
Proof. exact (match b with N_AlterTableSpaceOptionsStmt y => or_introl (ex_intro _ y eq_refl) | _ => or_intror (conj I (fun k => eq_refl)) end). Qed.
Lemma node_AlterTableSpaceOptionsStmt x b : AlterTableSpaceOptionsStmt.t_all Node compared x ->
  check_AlterTableSpaceOptionsStmt any known x = true ->
  decides (with_AlterTableSpaceOptionsStmt b (_equalAlterTableSpaceOptionsStmt equal x)) (N_AlterTableSpaceOptionsStmt (erase_AlterTableSpaceOptionsStmt erase x) = erase b).
Proof. node_tac (eq_AlterTableSpaceOptionsStmt x) (pick_AlterTableSpaceOptionsStmt b). Qed.
#[local] Hint Resolve node_AlterTableSpaceOptionsStmt : compare.

Lemma pick_AlterTableMoveAllStmt b : picks b N_AlterTableMoveAllStmt (with_AlterTableMoveAllStmt b) (match erase b with N_AlterTableMoveAllStmt _ => False | _ => True end).
Proof. exact (match b with N_AlterTableMoveAllStmt y => or_introl (ex_intro _ y eq_refl) | _ => or_intror (conj I (fun k => eq_refl)) end). Qed.
Lemma node_AlterTableMoveAllStmt x b : AlterTableMoveAllStmt.t_all Node compared x ->
  check_AlterTableMoveAllStmt any known x = true ->
  decides (with_AlterTableMoveAllStmt b (_equalAlterTableMoveAllStmt equal x)) (N_AlterTableMoveAllStmt (erase_AlterTableMoveAllStmt erase x) = erase b).
Proof. node_tac (eq_AlterTableMoveAllStmt x) (pick_AlterTableMoveAllStmt b). Qed.
#[local] Hint Resolve node_AlterTableMoveAllStmt : compare.

Lemma pick_CreateExtensionStmt b : picks b N_CreateExtensionStmt (with_CreateExtensionStmt b) (match erase b with N_CreateExtensionStmt _ => False | _ => True end).
Proof. exact (match b with N_CreateExtensionStmt y => or_introl (ex_intro _ y eq_refl) | _ => or_intror (conj I (fun k => eq_refl)) end). Qed.
Lemma node_CreateExtensionStmt x b : CreateExtensionStmt.t_all Node compared x ->
  check_CreateExtensionStmt any known x = true ->
  decides (with_CreateExtensionStmt b (_equalCreateExtensionStmt equal x)) (N_CreateExtensionStmt (erase_CreateExtensionStmt erase x) = erase b).
Proof. node_tac (eq_CreateExtensionStmt x) (pick_CreateExtensionStmt b). Qed.
#[local] Hint Resolve node_CreateExtensionStmt : compare.

Lemma pick_AlterExtensionStmt b : picks b N_AlterExtensionStmt (with_AlterExtensionStmt b) (match erase b with N_AlterExtensionStmt _ => False | _ => True end).
Proof. exact (match b with N_AlterExtensionStmt y => or_introl (ex_intro _ y eq_refl) | _ => or_intror (conj I (fun k => eq_refl)) end). Qed.
Lemma node_AlterExtensionStmt x b : AlterExtensionStmt.t_all Node compared x ->
  check_AlterExtensionStmt any known x = true ->
  decides (with_AlterExtensionStmt b (_equalAlterExtensionStmt equal x)) (N_AlterExtensionStmt (erase_AlterExtensionStmt erase x) = erase b).
Proof. node_tac (eq_AlterExtensionStmt x) (pick_AlterExtensionStmt b). Qed.
#[local] Hint Resolve node_AlterExtensionStmt : compare.

Lemma pick_AlterExtensionContentsStmt b : picks b N_AlterExtensionContentsStmt (with_AlterExtensionContentsStmt b) (match erase b with N_AlterExtensionContentsStmt _ => False | _ => True end).
Proof. exact (match b with N_AlterExtensionContentsStmt y => or_introl (ex_intro _ y eq_refl) | _ => or_intror (conj I (fun k => eq_refl)) end). Qed.
Lemma node_AlterExtensionContentsStmt x b : AlterExtensionContentsStmt.t_all Node compared x ->
  check_AlterExtensionContentsStmt any known x = true ->
  decides (with_AlterExtensionContentsStmt b (_equalAlterExtensionContentsStmt equal x)) (N_AlterExtensionContentsStmt (erase_AlterExtensionContentsStmt erase x) = erase b).
Proof. node_tac (eq_AlterExtensionContentsStmt x) (pick_AlterExtensionContentsStmt b). Qed.
#[local] Hint Resolve node_AlterExtensionContentsStmt : compare.

Lemma pick_CreateFdwStmt b : picks b N_CreateFdwStmt (with_CreateFdwStmt b) (match erase b with N_CreateFdwStmt _ => False | _ => True end).
Proof. exact (match b with N_CreateFdwStmt y => or_introl (ex_intro _ y eq_refl) | _ => or_intror (conj I (fun k => eq_refl)) end). Qed.
Lemma node_CreateFdwStmt x b : CreateFdwStmt.t_all Node compared x ->
  check_CreateFdwStmt any known x = true ->
  decides (with_CreateFdwStmt b (_equalCreateFdwStmt equal x)) (N_CreateFdwStmt (erase_CreateFdwStmt erase x) = erase b).
Proof. node_tac (eq_CreateFdwStmt x) (pick_CreateFdwStmt b). Qed.
#[local] Hint Resolve node_CreateFdwStmt : compare.

Lemma pick_AlterFdwStmt b : picks b N_AlterFdwStmt (with_AlterFdwStmt b) (match erase b with N_AlterFdwStmt _ => False | _ => True end).
Proof. exact (match b with N_AlterFdwStmt y => or_introl (ex_intro _ y eq_refl) | _ => or_intror (conj I (fun k => eq_refl)) end). Qed.
Lemma node_AlterFdwStmt x b : AlterFdwStmt.t_all Node compared x ->
  check_AlterFdwStmt any known x = true ->
  decides (with_AlterFdwStmt b (_equalAlterFdwStmt equal x)) (N_AlterFdwStmt (erase_AlterFdwStmt erase x) = erase b).
Proof. node_tac (eq_AlterFdwStmt x) (pick_AlterFdwStmt b). Qed.
#[local] Hint Resolve node_AlterFdwStmt : compare.

Lemma pick_CreateForeignServerStmt b : picks b N_CreateForeignServerStmt (with_CreateForeignServerStmt b) (match erase b with N_CreateForeignServerStmt _ => False | _ => True end).
Proof. exact (match b with N_CreateForeignServerStmt y => or_introl (ex_intro _ y eq_refl) | _ => or_intror (conj I (fun k => eq_refl)) end). Qed.
Lemma node_CreateForeignServerStmt x b : CreateForeignServerStmt.t_all Node compared x ->
  check_CreateForeignServerStmt any known x = true ->
  decides (with_CreateForeignServerStmt b (_equalCreateForeignServerStmt equal x)) (N_CreateForeignServerStmt (erase_CreateForeignServerStmt erase x) = erase b).
Proof. node_tac (eq_CreateForeignServerStmt x) (pick_CreateForeignServerStmt b). Qed.
#[local] Hint Resolve node_CreateForeignServerStmt : compare.

Lemma pick_AlterForeignServerStmt b : picks b N_AlterForeignServerStmt (with_AlterForeignServerStmt b) (match erase b with N_AlterForeignServerStmt _ => False | _ => True end).
Proof. exact (match b with N_AlterForeignServerStmt y => or_introl (ex_intro _ y eq_refl) | _ => or_intror (conj I (fun k => eq_refl)) end). Qed.
Lemma node_AlterForeignServerStmt x b : AlterForeignServerStmt.t_all Node compared x ->
  check_AlterForeignServerStmt any known x = true ->
  decides (with_AlterForeignServerStmt b (_equalAlterForeignServerStmt equal x)) (N_AlterForeignServerStmt (erase_AlterForeignServerStmt erase x) = erase b).
Proof. node_tac (eq_AlterForeignServerStmt x) (pick_AlterForeignServerStmt b). Qed.
#[local] Hint Resolve node_AlterForeignServerStmt : compare.

Lemma pick_CreateForeignTableStmt b : picks b N_CreateForeignTableStmt (with_CreateForeignTableStmt b) (match erase b with N_CreateForeignTableStmt _ => False | _ => True end).
Proof. exact (match b with N_CreateForeignTableStmt y => or_introl (ex_intro _ y eq_refl) | _ => or_intror (conj I (fun k => eq_refl)) end). Qed.
Lemma node_CreateForeignTableStmt x b : CreateForeignTableStmt.t_all Node compared x ->
  check_CreateForeignTableStmt any known x = true ->
  decides (with_CreateForeignTableStmt b (_equalCreateForeignTableStmt equal x)) (N_CreateForeignTableStmt (erase_CreateForeignTableStmt erase x) = erase b).
Proof. node_tac (eq_CreateForeignTableStmt x) (pick_CreateForeignTableStmt b). Qed.
#[local] Hint Resolve node_CreateForeignTableStmt : compare.

Lemma pick_CreateUserMappingStmt b : picks b N_CreateUserMappingStmt (with_CreateUserMappingStmt b) (match erase b with N_CreateUserMappingStmt _ => False | _ => True end).
Proof. exact (match b with N_CreateUserMappingStmt y => or_introl (ex_intro _ y eq_refl) | _ => or_intror (conj I (fun k => eq_refl)) end). Qed.
Lemma node_CreateUserMappingStmt x b : CreateUserMappingStmt.t_all Node compared x ->
  check_CreateUserMappingStmt any known x = true ->
  decides (with_CreateUserMappingStmt b (_equalCreateUserMappingStmt equal x)) (N_CreateUserMappingStmt (erase_CreateUserMappingStmt erase x) = erase b).
Proof. node_tac (eq_CreateUserMappingStmt x) (pick_CreateUserMappingStmt b). Qed.
#[local] Hint Resolve node_CreateUserMappingStmt : compare.

Lemma pick_AlterUserMappingStmt b : picks b N_AlterUserMappingStmt (with_AlterUserMappingStmt b) (match erase b with N_AlterUserMappingStmt _ => False | _ => True end).
Proof. exact (match b with N_AlterUserMappingStmt y => or_introl (ex_intro _ y eq_refl) | _ => or_intror (conj I (fun k => eq_refl)) end). Qed.
Lemma node_AlterUserMappingStmt x b : AlterUserMappingStmt.t_all Node compared x ->
  check_AlterUserMappingStmt any known x = true ->
  decides (with_AlterUserMappingStmt b (_equalAlterUserMappingStmt equal x)) (N_AlterUserMappingStmt (erase_AlterUserMappingStmt erase x) = erase b).
Proof. node_tac (eq_AlterUserMappingStmt x) (pick_AlterUserMappingStmt b). Qed.
#[local] Hint Resolve node_AlterUserMappingStmt : compare.

Lemma pick_DropUserMappingStmt b : picks b N_DropUserMappingStmt (with_DropUserMappingStmt b) (match erase b with N_DropUserMappingStmt _ => False | _ => True end).
Proof. exact (match b with N_DropUserMappingStmt y => or_introl (ex_intro _ y eq_refl) | _ => or_intror (conj I (fun k => eq_refl)) end). Qed.
Lemma node_DropUserMappingStmt x b : DropUserMappingStmt.t_all Node compared x ->
  check_DropUserMappingStmt any x = true ->
  decides (with_DropUserMappingStmt b (_equalDropUserMappingStmt x)) (N_DropUserMappingStmt (erase_DropUserMappingStmt x) = erase b).
Proof. node_tac (eq_DropUserMappingStmt x) (pick_DropUserMappingStmt b). Qed.
#[local] Hint Resolve node_DropUserMappingStmt : compare.

Lemma pick_ImportForeignSchemaStmt b : picks b N_ImportForeignSchemaStmt (with_ImportForeignSchemaStmt b) (match erase b with N_ImportForeignSchemaStmt _ => False | _ => True end).
Proof. exact (match b with N_ImportForeignSchemaStmt y => or_introl (ex_intro _ y eq_refl) | _ => or_intror (conj I (fun k => eq_refl)) end). Qed.
Lemma node_ImportForeignSchemaStmt x b : ImportForeignSchemaStmt.t_all Node compared x ->
  check_ImportForeignSchemaStmt any known x = true ->
  decides (with_ImportForeignSchemaStmt b (_equalImportForeignSchemaStmt equal x)) (N_ImportForeignSchemaStmt (erase_ImportForeignSchemaStmt erase x) = erase b).
Proof. node_tac (eq_ImportForeignSchemaStmt x) (pick_ImportForeignSchemaStmt b). Qed.
#[local] Hint Resolve node_ImportForeignSchemaStmt : compare.

Lemma pick_CreatePolicyStmt b : picks b N_CreatePolicyStmt (with_CreatePolicyStmt b) (match erase b with N_CreatePolicyStmt _ => False | _ => True end).
Proof. exact (match b with N_CreatePolicyStmt y => or_introl (ex_intro _ y eq_refl) | _ => or_intror (conj I (fun k => eq_refl)) end). Qed.
Lemma node_CreatePolicyStmt x b : CreatePolicyStmt.t_all Node compared x ->
  check_CreatePolicyStmt any known x = true ->
  decides (with_CreatePolicyStmt b (_equalCreatePolicyStmt equal x)) (N_CreatePolicyStmt (erase_CreatePolicyStmt erase x) = erase b).
Proof. node_tac (eq_CreatePolicyStmt x) (pick_CreatePolicyStmt b). Qed.
#[local] Hint Resolve node_CreatePolicyStmt : compare.

Lemma pick_AlterPolicyStmt b : picks b N_AlterPolicyStmt (with_AlterPolicyStmt b) (match erase b with N_AlterPolicyStmt _ => False | _ => True end).
Proof. exact (match b with N_AlterPolicyStmt y => or_introl (ex_intro _ y eq_refl) | _ => or_intror (conj I (fun k => eq_refl)) end). Qed.
Lemma node_AlterPolicyStmt x b : AlterPolicyStmt.t_all Node compared x ->
  check_AlterPolicyStmt any known x = true ->
  decides (with_AlterPolicyStmt b (_equalAlterPolicyStmt equal x)) (N_AlterPolicyStmt (erase_AlterPolicyStmt erase x) = erase b).
Proof. node_tac (eq_AlterPolicyStmt x) (pick_AlterPolicyStmt b). Qed.
#[local] Hint Resolve node_AlterPolicyStmt : compare.

Lemma pick_CreateAmStmt b : picks b N_CreateAmStmt (with_CreateAmStmt b) (match erase b with N_CreateAmStmt _ => False | _ => True end).
Proof. exact (match b with N_CreateAmStmt y => or_introl (ex_intro _ y eq_refl) | _ => or_intror (conj I (fun k => eq_refl)) end). Qed.
Lemma node_CreateAmStmt x b : CreateAmStmt.t_all Node compared x ->
  check_CreateAmStmt any known x = true ->
  decides (with_CreateAmStmt b (_equalCreateAmStmt equal x)) (N_CreateAmStmt (erase_CreateAmStmt erase x) = erase b).
Proof. node_tac (eq_CreateAmStmt x) (pick_CreateAmStmt b). Qed.
#[local] Hint Resolve node_CreateAmStmt : compare.

Lemma pick_CreateTrigStmt b : picks b N_CreateTrigStmt (with_CreateTrigStmt b) (match erase b with N_CreateTrigStmt _ => False | _ => True end).
Proof. exact (match b with N_CreateTrigStmt y => or_introl (ex_intro _ y eq_refl) | _ => or_intror (conj I (fun k => eq_refl)) end). Qed.
Lemma node_CreateTrigStmt x b : CreateTrigStmt.t_all Node compared x ->
  check_CreateTrigStmt any known x = true ->
  decides (with_CreateTrigStmt b (_equalCreateTrigStmt equal x)) (N_CreateTrigStmt (erase_CreateTrigStmt erase x) = erase b).
Proof. node_tac (eq_CreateTrigStmt x) (pick_CreateTrigStmt b). Qed.
#[local] Hint Resolve node_CreateTrigStmt : compare.

Lemma pick_CreateEventTrigStmt b : picks b N_CreateEventTrigStmt (with_CreateEventTrigStmt b) (match erase b with N_CreateEventTrigStmt _ => False | _ => True end).
Proof. exact (match b with N_CreateEventTrigStmt y => or_introl (ex_intro _ y eq_refl) | _ => or_intror (conj I (fun k => eq_refl)) end). Qed.
Lemma node_CreateEventTrigStmt x b : CreateEventTrigStmt.t_all Node compared x ->
  check_CreateEventTrigStmt any known x = true ->
  decides (with_CreateEventTrigStmt b (_equalCreateEventTrigStmt equal x)) (N_CreateEventTrigStmt (erase_CreateEventTrigStmt erase x) = erase b).
Proof. node_tac (eq_CreateEventTrigStmt x) (pick_CreateEventTrigStmt b). Qed.
#[local] Hint Resolve node_CreateEventTrigStmt : compare.

Lemma pick_AlterEventTrigStmt b : picks b N_AlterEventTrigStmt (with_AlterEventTrigStmt b) (match erase b with N_AlterEventTrigStmt _ => False | _ => True end).
Proof. exact (match b with N_AlterEventTrigStmt y => or_introl (ex_intro _ y eq_refl) | _ => or_intror (conj I (fun k => eq_refl)) end). Qed.
Lemma node_AlterEventTrigStmt x b : AlterEventTrigStmt.t_all Node compared x ->
  check_AlterEventTrigStmt any x = true ->
  decides (with_AlterEventTrigStmt b (_equalAlterEventTrigStmt x)) (N_AlterEventTrigStmt (erase_AlterEventTrigStmt x) = erase b).
Proof. node_tac (eq_AlterEventTrigStmt x) (pick_AlterEventTrigStmt b). Qed.
#[local] Hint Resolve node_AlterEventTrigStmt : compare.

Lemma pick_CreatePLangStmt b : picks b N_CreatePLangStmt (with_CreatePLangStmt b) (match erase b with N_CreatePLangStmt _ => False | _ => True end).
Proof. exact (match b with N_CreatePLangStmt y => or_introl (ex_intro _ y eq_refl) | _ => or_intror (conj I (fun k => eq_refl)) end). Qed.
Lemma node_CreatePLangStmt x b : CreatePLangStmt.t_all Node compared x ->
  check_CreatePLangStmt any known x = true ->
  decides (with_CreatePLangStmt b (_equalCreatePLangStmt equal x)) (N_CreatePLangStmt (erase_CreatePLangStmt erase x) = erase b).
Proof. node_tac (eq_CreatePLangStmt x) (pick_CreatePLangStmt b). Qed.
#[local] Hint Resolve node_CreatePLangStmt : compare.

Lemma pick_CreateRoleStmt b : picks b N_CreateRoleStmt (with_CreateRoleStmt b) (match erase b with N_CreateRoleStmt _ => False | _ => True end).
Proof. exact (match b with N_CreateRoleStmt y => or_introl (ex_intro _ y eq_refl) | _ => or_intror (conj I (fun k => eq_refl)) end). Qed.
Lemma node_CreateRoleStmt x b : CreateRoleStmt.t_all Node compared x ->
  check_CreateRoleStmt any known x = true ->
  decides (with_CreateRoleStmt b (_equalCreateRoleStmt equal x)) (N_CreateRoleStmt (erase_CreateRoleStmt erase x) = erase b).
Proof. node_tac (eq_CreateRoleStmt x) (pick_CreateRoleStmt b). Qed.
#[local] Hint Resolve node_CreateRoleStmt : compare.

Lemma pick_AlterRoleStmt b : picks b N_AlterRoleStmt (with_AlterRoleStmt b) (match erase b with N_AlterRoleStmt _ => False | _ => True end).
Proof. exact (match b with N_AlterRoleStmt y => or_introl (ex_intro _ y eq_refl) | _ => or_intror (conj I (fun k => eq_refl)) end). Qed.
Lemma node_AlterRoleStmt x b : AlterRoleStmt.t_all Node compared x ->
  check_AlterRoleStmt any known x = true ->
  decides (with_AlterRoleStmt b (_equalAlterRoleStmt equal x)) (N_AlterRoleStmt (erase_AlterRoleStmt erase x) = erase b).
Proof. node_tac (eq_AlterRoleStmt x) (pick_AlterRoleStmt b). Qed.
#[local] Hint Resolve node_AlterRoleStmt : compare.

Lemma pick_AlterRoleSetStmt b : picks b N_AlterRoleSetStmt (with_AlterRoleSetStmt b) (match erase b with N_AlterRoleSetStmt _ => False | _ => True end).
Proof. exact (match b with N_AlterRoleSetStmt y => or_introl (ex_intro _ y eq_refl) | _ => or_intror (conj I (fun k => eq_refl)) end). Qed.
Lemma node_AlterRoleSetStmt x b : AlterRoleSetStmt.t_all Node compared x ->
  check_AlterRoleSetStmt any known x = true ->
  decides (with_AlterRoleSetStmt b (_equalAlterRoleSetStmt equal x)) (N_AlterRoleSetStmt (erase_AlterRoleSetStmt erase x) = erase b).
Proof. node_tac (eq_AlterRoleSetStmt x) (pick_AlterRoleSetStmt b). Qed.
#[local] Hint Resolve node_AlterRoleSetStmt : compare.

Lemma pick_DropRoleStmt b : picks b N_DropRoleStmt (with_DropRoleStmt b) (match erase b with N_DropRoleStmt _ => False | _ => True end).
Proof. exact (match b with N_DropRoleStmt y => or_introl (ex_intro _ y eq_refl) | _ => or_intror (conj I (fun k => eq_refl)) end). Qed.
Lemma node_DropRoleStmt x b : DropRoleStmt.t_all Node compared x ->
  check_DropRoleStmt known x = true ->
  decides (with_DropRoleStmt b (_equalDropRoleStmt equal x)) (N_DropRoleStmt (erase_DropRoleStmt erase x) = erase b).
Proof. node_tac (eq_DropRoleStmt x) (pick_DropRoleStmt b). Qed.
#[local] Hint Resolve node_DropRoleStmt : compare.

Lemma pick_CreateSeqStmt b : picks b N_CreateSeqStmt (with_CreateSeqStmt b) (match erase b with N_CreateSeqStmt _ => False | _ => True end).
Proof. exact (match b with N_CreateSeqStmt y => or_introl (ex_intro _ y eq_refl) | _ => or_intror (conj I (fun k => eq_refl)) end). Qed.
Lemma node_CreateSeqStmt x b : CreateSeqStmt.t_all Node compared x ->
  check_CreateSeqStmt any known x = true ->
  decides (with_CreateSeqStmt b (_equalCreateSeqStmt equal x)) (N_CreateSeqStmt (erase_CreateSeqStmt erase x) = erase b).
Proof. node_tac (eq_CreateSeqStmt x) (pick_CreateSeqStmt b). Qed.
#[local] Hint Resolve node_CreateSeqStmt : compare.

Lemma pick_AlterSeqStmt b : picks b N_AlterSeqStmt (with_AlterSeqStmt b) (match erase b with N_AlterSeqStmt _ => False | _ => True end).
Proof. exact (match b with N_AlterSeqStmt y => or_introl (ex_intro _ y eq_refl) | _ => or_intror (conj I (fun k => eq_refl)) end). Qed.
Lemma node_AlterSeqStmt x b : AlterSeqStmt.t_all Node compared x ->
  check_AlterSeqStmt any known x = true ->
  decides (with_AlterSeqStmt b (_equalAlterSeqStmt equal x)) (N_AlterSeqStmt (erase_AlterSeqStmt erase x) = erase b).
Proof. node_tac (eq_AlterSeqStmt x) (pick_AlterSeqStmt b). Qed.
#[local] Hint Resolve node_AlterSeqStmt : compare.

Lemma pick_DefineStmt b : picks b N_DefineStmt (with_DefineStmt b) (match erase b with N_DefineStmt _ => False | _ => True end).
Proof. exact (match b with N_DefineStmt y => or_introl (ex_intro _ y eq_refl) | _ => or_intror (conj I (fun k => eq_refl)) end). Qed.
Lemma node_DefineStmt x b : DefineStmt.t_all Node compared x ->
  check_DefineStmt known x = true ->
  decides (with_DefineStmt b (_equalDefineStmt equal x)) (N_DefineStmt (erase_DefineStmt erase x) = erase b).
Proof. node_tac (eq_DefineStmt x) (pick_DefineStmt b). Qed.
#[local] Hint Resolve node_DefineStmt : compare.

Lemma pick_CreateDomainStmt b : picks b N_CreateDomainStmt (with_CreateDomainStmt b) (match erase b with N_CreateDomainStmt _ => False | _ => True end).
Proof. exact (match b with N_CreateDomainStmt y => or_introl (ex_intro _ y eq_refl) | _ => or_intror (conj I (fun k => eq_refl)) end). Qed.
Lemma node_CreateDomainStmt x b : CreateDomainStmt.t_all Node compared x ->
  check_CreateDomainStmt any known x = true ->
  decides (with_CreateDomainStmt b (_equalCreateDomainStmt equal x)) (N_CreateDomainStmt (erase_CreateDomainStmt erase x) = erase b).
Proof. node_tac (eq_CreateDomainStmt x) (pick_CreateDomainStmt b). Qed.
#[local] Hint Resolve node_CreateDomainStmt : compare.

Lemma pick_CreateOpClassStmt b : picks b N_CreateOpClassStmt (with_CreateOpClassStmt b) (match erase b with N_CreateOpClassStmt _ => False | _ => True end).
Proof. exact (match b with N_CreateOpClassStmt y => or_introl (ex_intro _ y eq_refl) | _ => or_intror (conj I (fun k => eq_refl)) end). Qed.
Lemma node_CreateOpClassStmt x b : CreateOpClassStmt.t_all Node compared x ->
  check_CreateOpClassStmt any known x = true ->
  decides (with_CreateOpClassStmt b (_equalCreateOpClassStmt equal x)) (N_CreateOpClassStmt (erase_CreateOpClassStmt erase x) = erase b).
Proof. node_tac (eq_CreateOpClassStmt x) (pick_CreateOpClassStmt b). Qed.
#[local] Hint Resolve node_CreateOpClassStmt : compare.

Lemma pick_CreateOpClassItem b : picks b N_CreateOpClassItem (with_CreateOpClassItem b) (match erase b with N_CreateOpClassItem _ => False | _ => True end).
Proof. exact (match b with N_CreateOpClassItem y => or_introl (ex_intro _ y eq_refl) | _ => or_intror (conj I (fun k => eq_refl)) end). Qed.
Lemma node_CreateOpClassItem x b : CreateOpClassItem.t_all Node compared x ->
  check_CreateOpClassItem known x = true ->
  decides (with_CreateOpClassItem b (_equalCreateOpClassItem equal x)) (N_CreateOpClassItem (erase_CreateOpClassItem erase x) = erase b).
Proof. node_tac (eq_CreateOpClassItem x) (pick_CreateOpClassItem b). Qed.
#[local] Hint Resolve node_CreateOpClassItem : compare.

Lemma pick_CreateOpFamilyStmt b : picks b N_CreateOpFamilyStmt (with_CreateOpFamilyStmt b) (match erase b with N_CreateOpFamilyStmt _ => False | _ => True end).
Proof. exact (match b with N_CreateOpFamilyStmt y => or_introl (ex_intro _ y eq_refl) | _ => or_intror (conj I (fun k => eq_refl)) end). Qed.
Lemma node_CreateOpFamilyStmt x b : CreateOpFamilyStmt.t_all Node compared x ->
  check_CreateOpFamilyStmt any known x = true ->
  decides (with_CreateOpFamilyStmt b (_equalCreateOpFamilyStmt equal x)) (N_CreateOpFamilyStmt (erase_CreateOpFamilyStmt erase x) = erase b).
Proof. node_tac (eq_CreateOpFamilyStmt x) (pick_CreateOpFamilyStmt b). Qed.
#[local] Hint Resolve node_CreateOpFamilyStmt : compare.

Lemma pick_AlterOpFamilyStmt b : picks b N_AlterOpFamilyStmt (with_AlterOpFamilyStmt b) (match erase b with N_AlterOpFamilyStmt _ => False | _ => True end).
Proof. exact (match b with N_AlterOpFamilyStmt y => or_introl (ex_intro _ y eq_refl) | _ => or_intror (conj I (fun k => eq_refl)) end). Qed.
Lemma node_AlterOpFamilyStmt x b : AlterOpFamilyStmt.t_all Node compared x ->
  check_AlterOpFamilyStmt any known x = true ->
  decides (with_AlterOpFamilyStmt b (_equalAlterOpFamilyStmt equal x)) (N_AlterOpFamilyStmt (erase_AlterOpFamilyStmt erase x) = erase b).
Proof. node_tac (eq_AlterOpFamilyStmt x) (pick_AlterOpFamilyStmt b). Qed.
#[local] Hint Resolve node_AlterOpFamilyStmt : compare.

Lemma pick_DropStmt b : picks b N_DropStmt (with_DropStmt b) (match erase b with N_DropStmt _ => False | _ => True end).
Proof. exact (match b with N_DropStmt y => or_introl (ex_intro _ y eq_refl) | _ => or_intror (conj I (fun k => eq_refl)) end). Qed.
Lemma node_DropStmt x b : DropStmt.t_all Node compared x ->
  check_DropStmt known x = true ->
  decides (with_DropStmt b (_equalDropStmt equal x)) (N_DropStmt (erase_DropStmt erase x) = erase b).
Proof. node_tac (eq_DropStmt x) (pick_DropStmt b). Qed.
#[local] Hint Resolve node_DropStmt : compare.

Lemma pick_TruncateStmt b : picks b N_TruncateStmt (with_TruncateStmt b) (match erase b with N_TruncateStmt _ => False | _ => True end).
Proof. exact (match b with N_TruncateStmt y => or_introl (ex_intro _ y eq_refl) | _ => or_intror (conj I (fun k => eq_refl)) end). Qed.
Lemma node_TruncateStmt x b : TruncateStmt.t_all Node compared x ->
  check_TruncateStmt known x = true ->
  decides (with_TruncateStmt b (_equalTruncateStmt equal x)) (N_TruncateStmt (erase_TruncateStmt erase x) = erase b).
Proof. node_tac (eq_TruncateStmt x) (pick_TruncateStmt b). Qed.
#[local] Hint Resolve node_TruncateStmt : compare.

Lemma pick_CommentStmt b : picks b N_CommentStmt (with_CommentStmt b) (match erase b with N_CommentStmt _ => False | _ => True end).
Proof. exact (match b with N_CommentStmt y => or_introl (ex_intro _ y eq_refl) | _ => or_intror (conj I (fun k => eq_refl)) end). Qed.
Lemma node_CommentStmt x b : CommentStmt.t_all Node compared x ->
  check_CommentStmt any known x = true ->
  decides (with_CommentStmt b (_equalCommentStmt equal x)) (N_CommentStmt (erase_CommentStmt erase x) = erase b).
Proof. node_tac (eq_CommentStmt x) (pick_CommentStmt b). Qed.
#[local] Hint Resolve node_CommentStmt : compare.

Lemma pick_SecLabelStmt b : picks b N_SecLabelStmt (with_SecLabelStmt b) (match erase b with N_SecLabelStmt _ => False | _ => True end).
Proof. exact (match b with N_SecLabelStmt y => or_introl (ex_intro _ y eq_refl) | _ => or_intror (conj I (fun k => eq_refl)) end). Qed.
Lemma node_SecLabelStmt x b : SecLabelStmt.t_all Node compared x ->
  check_SecLabelStmt any known x = true ->
  decides (with_SecLabelStmt b (_equalSecLabelStmt equal x)) (N_SecLabelStmt (erase_SecLabelStmt erase x) = erase b).
Proof. node_tac (eq_SecLabelStmt x) (pick_SecLabelStmt b). Qed.
#[local] Hint Resolve node_SecLabelStmt : compare.

Lemma pick_DeclareCursorStmt b : picks b N_DeclareCursorStmt (with_DeclareCursorStmt b) (match erase b with N_DeclareCursorStmt _ => False | _ => True end).
Proof. exact (match b with N_DeclareCursorStmt y => or_introl (ex_intro _ y eq_refl) | _ => or_intror (conj I (fun k => eq_refl)) end). Qed.
Lemma node_DeclareCursorStmt x b : DeclareCursorStmt.t_all Node compared x ->
  check_DeclareCursorStmt any known x = true ->
  decides (with_DeclareCursorStmt b (_equalDeclareCursorStmt equal x)) (N_DeclareCursorStmt (erase_DeclareCursorStmt erase x) = erase b).
Proof. node_tac (eq_DeclareCursorStmt x) (pick_DeclareCursorStmt b). Qed.
#[local] Hint Resolve node_DeclareCursorStmt : compare.

Lemma pick_ClosePortalStmt b : picks b N_ClosePortalStmt (with_ClosePortalStmt b) (match erase b with N_ClosePortalStmt _ => False | _ => True end).
Proof. exact (match b with N_ClosePortalStmt y => or_introl (ex_intro _ y eq_refl) | _ => or_intror (conj I (fun k => eq_refl)) end). Qed.
Lemma node_ClosePortalStmt x b : ClosePortalStmt.t_all Node compared x ->
  check_ClosePortalStmt any x = true ->
  decides (with_ClosePortalStmt b (_equalClosePortalStmt x)) (N_ClosePortalStmt (erase_ClosePortalStmt x) = erase b).
Proof. node_tac (eq_ClosePortalStmt x) (pick_ClosePortalStmt b). Qed.
#[local] Hint Resolve node_ClosePortalStmt : compare.

Lemma pick_FetchStmt b : picks b N_FetchStmt (with_FetchStmt b) (match erase b with N_FetchStmt _ => False | _ => True end).
Proof. exact (match b with N_FetchStmt y => or_introl (ex_intro _ y eq_refl) | _ => or_intror (conj I (fun k => eq_refl)) end). Qed.
Lemma node_FetchStmt x b : FetchStmt.t_all Node compared x ->
  check_FetchStmt any x = true ->
  decides (with_FetchStmt b (_equalFetchStmt x)) (N_FetchStmt (erase_FetchStmt x) = erase b).
Proof. node_tac (eq_FetchStmt x) (pick_FetchStmt b). Qed.
#[local] Hint Resolve node_FetchStmt : compare.

Lemma pick_IndexStmt b : picks b N_IndexStmt (with_IndexStmt b) (match erase b with N_IndexStmt _ => False | _ => True end).
Proof. exact (match b with N_IndexStmt y => or_introl (ex_intro _ y eq_refl) | _ => or_intror (conj I (fun k => eq_refl)) end). Qed.
Lemma node_IndexStmt x b : IndexStmt.t_all Node compared x ->
  check_IndexStmt any known x = true ->
  decides (with_IndexStmt b (_equalIndexStmt equal x)) (N_IndexStmt (erase_IndexStmt erase x) = erase b).
Proof. node_tac (eq_IndexStmt x) (pick_IndexStmt b). Qed.
#[local] Hint Resolve node_IndexStmt : compare.

Lemma pick_CreateStatsStmt b : picks b N_CreateStatsStmt (with_CreateStatsStmt b) (match erase b with N_CreateStatsStmt _ => False | _ => True end).
Proof. exact (match b with N_CreateStatsStmt y => or_introl (ex_intro _ y eq_refl) | _ => or_intror (conj I (fun k => eq_refl)) end). Qed.
Lemma node_CreateStatsStmt x b : CreateStatsStmt.t_all Node compared x ->
  check_CreateStatsStmt any known x = true ->
  decides (with_CreateStatsStmt b (_equalCreateStatsStmt equal x)) (N_CreateStatsStmt (erase_CreateStatsStmt erase x) = erase b).
Proof. node_tac (eq_CreateStatsStmt x) (pick_CreateStatsStmt b). Qed.
#[local] Hint Resolve node_CreateStatsStmt : compare.

Lemma pick_AlterStatsStmt b : picks b N_AlterStatsStmt (with_AlterStatsStmt b) (match erase b with N_AlterStatsStmt _ => False | _ => True end).
Proof. exact (match b with N_AlterStatsStmt y => or_introl (ex_intro _ y eq_refl) | _ => or_intror (conj I (fun k => eq_refl)) end). Qed.
Lemma node_AlterStatsStmt x b : AlterStatsStmt.t_all Node compared x ->
  check_AlterStatsStmt known x = true ->
  decides (with_AlterStatsStmt b (_equalAlterStatsStmt equal x)) (N_AlterStatsStmt (erase_AlterStatsStmt erase x) = erase b).
Proof. node_tac (eq_AlterStatsStmt x) (pick_AlterStatsStmt b). Qed.
#[local] Hint Resolve node_AlterStatsStmt : compare.

Lemma pick_CreateFunctionStmt b : picks b N_CreateFunctionStmt (with_CreateFunctionStmt b) (match erase b with N_CreateFunctionStmt _ => False | _ => True end).
Proof. exact (match b with N_CreateFunctionStmt y => or_introl (ex_intro _ y eq_refl) | _ => or_intror (conj I (fun k => eq_refl)) end). Qed.
Lemma node_CreateFunctionStmt x b : CreateFunctionStmt.t_all Node compared x ->
  check_CreateFunctionStmt known x = true ->
  decides (with_CreateFunctionStmt b (_equalCreateFunctionStmt equal x)) (N_CreateFunctionStmt (erase_CreateFunctionStmt erase x) = erase b).
Proof. node_tac (eq_CreateFunctionStmt x) (pick_CreateFunctionStmt b). Qed.
#[local] Hint Resolve node_CreateFunctionStmt : compare.

Lemma pick_FunctionParameter b : picks b N_FunctionParameter (with_FunctionParameter b) (match erase b with N_FunctionParameter _ => False | _ => True end).
Proof. exact (match b with N_FunctionParameter y => or_introl (ex_intro _ y eq_refl) | _ => or_intror (conj I (fun k => eq_refl)) end). Qed.
Lemma node_FunctionParameter x b : FunctionParameter.t_all Node compared x ->
  check_FunctionParameter any known x = true ->
  decides (with_FunctionParameter b (_equalFunctionParameter equal x)) (N_FunctionParameter (erase_FunctionParameter erase x) = erase b).
Proof. node_tac (eq_FunctionParameter x) (pick_FunctionParameter b). Qed.
#[local] Hint Resolve node_FunctionParameter : compare.

Lemma pick_AlterFunctionStmt b : picks b N_AlterFunctionStmt (with_AlterFunctionStmt b) (match erase b with N_AlterFunctionStmt _ => False | _ => True end).
Proof. exact (match b with N_AlterFunctionStmt y => or_introl (ex_intro _ y eq_refl) | _ => or_intror (conj I (fun k => eq_refl)) end). Qed.
Lemma node_AlterFunctionStmt x b : AlterFunctionStmt.t_all Node compared x ->
  check_AlterFunctionStmt known x = true ->
  decides (with_AlterFunctionStmt b (_equalAlterFunctionStmt equal x)) (N_AlterFunctionStmt (erase_AlterFunctionStmt erase x) = erase b).
Proof. node_tac (eq_AlterFunctionStmt x) (pick_AlterFunctionStmt b). Qed.
#[local] Hint Resolve node_AlterFunctionStmt : compare.

Lemma pick_DoStmt b : picks b N_DoStmt (with_DoStmt b) (match erase b with N_DoStmt _ => False | _ => True end).
Proof. exact (match b with N_DoStmt y => or_introl (ex_intro _ y eq_refl) | _ => or_intror (conj I (fun k => eq_refl)) end). Qed.
Lemma node_DoStmt x b : DoStmt.t_all Node compared x ->
  check_DoStmt known x = true ->
  decides (with_DoStmt b (_equalDoStmt equal x)) (N_DoStmt (erase_DoStmt erase x) = erase b).
Proof. node_tac (eq_DoStmt x) (pick_DoStmt b). Qed.
#[local] Hint Resolve node_DoStmt : compare.

Lemma pick_CallStmt b : picks b N_CallStmt (with_CallStmt b) (match erase b with N_CallStmt _ => False | _ => True end).
Proof. exact (match b with N_CallStmt y => or_introl (ex_intro _ y eq_refl) | _ => or_intror (conj I (fun k => eq_refl)) end). Qed.
Lemma node_CallStmt x b : CallStmt.t_all Node compared x ->
  check_CallStmt any known x = true ->
  decides (with_CallStmt b (_equalCallStmt equal x)) (N_CallStmt (erase_CallStmt erase x) = erase b).
Proof. node_tac (eq_CallStmt x) (pick_CallStmt b). Qed.
#[local] Hint Resolve node_CallStmt : compare.

Lemma pick_RenameStmt b : picks b N_RenameStmt (with_RenameStmt b) (match erase b with N_RenameStmt _ => False | _ => True end).
Proof. exact (match b with N_RenameStmt y => or_introl (ex_intro _ y eq_refl) | _ => or_intror (conj I (fun k => eq_refl)) end). Qed.
Lemma node_RenameStmt x b : RenameStmt.t_all Node compared x ->
  check_RenameStmt any known x = true ->
  decides (with_RenameStmt b (_equalRenameStmt equal x)) (N_RenameStmt (erase_RenameStmt erase x) = erase b).
Proof. node_tac (eq_RenameStmt x) (pick_RenameStmt b). Qed.
#[local] Hint Resolve node_RenameStmt : compare.

Lemma pick_AlterObjectDependsStmt b : picks b N_AlterObjectDependsStmt (with_AlterObjectDependsStmt b) (match erase b with N_AlterObjectDependsStmt _ => False | _ => True end).
Proof. exact (match b with N_AlterObjectDependsStmt y => or_introl (ex_intro _ y eq_refl) | _ => or_intror (conj I (fun k => eq_refl)) end). Qed.
Lemma node_AlterObjectDependsStmt x b : AlterObjectDependsStmt.t_all Node compared x ->
  check_AlterObjectDependsStmt any known x = true ->
  decides (with_AlterObjectDependsStmt b (_equalAlterObjectDependsStmt equal x)) (N_AlterObjectDependsStmt (erase_AlterObjectDependsStmt erase x) = erase b).
Proof. node_tac (eq_AlterObjectDependsStmt x) (pick_AlterObjectDependsStmt b). Qed.
#[local] Hint Resolve node_AlterObjectDependsStmt : compare.

Lemma pick_AlterObjectSchemaStmt b : picks b N_AlterObjectSchemaStmt (with_AlterObjectSchemaStmt b) (match erase b with N_AlterObjectSchemaStmt _ => False | _ => True end).
Proof. exact (match b with N_AlterObjectSchemaStmt y => or_introl (ex_intro _ y eq_refl) | _ => or_intror (conj I (fun k => eq_refl)) end). Qed.
Lemma node_AlterObjectSchemaStmt x b : AlterObjectSchemaStmt.t_all Node compared x ->
  check_AlterObjectSchemaStmt any known x = true ->
  decides (with_AlterObjectSchemaStmt b (_equalAlterObjectSchemaStmt equal x)) (N_AlterObjectSchemaStmt (erase_AlterObjectSchemaStmt erase x) = erase b).
Proof. node_tac (eq_AlterObjectSchemaStmt x) (pick_AlterObjectSchemaStmt b). Qed.
#[local] Hint Resolve node_AlterObjectSchemaStmt : compare.

Lemma pick_AlterOwnerStmt b : picks b N_AlterOwnerStmt (with_AlterOwnerStmt b) (match erase b with N_AlterOwnerStmt _ => False | _ => True end).
Proof. exact (match b with N_AlterOwnerStmt y => or_introl (ex_intro _ y eq_refl) | _ => or_intror (conj I (fun k => eq_refl)) end). Qed.
Lemma node_AlterOwnerStmt x b : AlterOwnerStmt.t_all Node compared x ->
  check_AlterOwnerStmt any known x = true ->
  decides (with_AlterOwnerStmt b (_equalAlterOwnerStmt equal x)) (N_AlterOwnerStmt (erase_AlterOwnerStmt erase x) = erase b).
Proof. node_tac (eq_AlterOwnerStmt x) (pick_AlterOwnerStmt b). Qed.
#[local] Hint Resolve node_AlterOwnerStmt : compare.

Lemma pick_AlterOperatorStmt b : picks b N_AlterOperatorStmt (with_AlterOperatorStmt b) (match erase b with N_AlterOperatorStmt _ => False | _ => True end).
Proof. exact (match b with N_AlterOperatorStmt y => or_introl (ex_intro _ y eq_refl) | _ => or_intror (conj I (fun k => eq_refl)) end). Qed.
Lemma node_AlterOperatorStmt x b : AlterOperatorStmt.t_all Node compared x ->
  check_AlterOperatorStmt known x = true ->
  decides (with_AlterOperatorStmt b (_equalAlterOperatorStmt equal x)) (N_AlterOperatorStmt (erase_AlterOperatorStmt erase x) = erase b).
Proof. node_tac (eq_AlterOperatorStmt x) (pick_AlterOperatorStmt b). Qed.
#[local] Hint Resolve node_AlterOperatorStmt : compare.

Lemma pick_AlterTypeStmt b : picks b N_AlterTypeStmt (with_AlterTypeStmt b) (match erase b with N_AlterTypeStmt _ => False | _ => True end).
Proof. exact (match b with N_AlterTypeStmt y => or_introl (ex_intro _ y eq_refl) | _ => or_intror (conj I (fun k => eq_refl)) end). Qed.
Lemma node_AlterTypeStmt x b : AlterTypeStmt.t_all Node compared x ->
  check_AlterTypeStmt known x = true ->
  decides (with_AlterTypeStmt b (_equalAlterTypeStmt equal x)) (N_AlterTypeStmt (erase_AlterTypeStmt erase x) = erase b).
Proof. node_tac (eq_AlterTypeStmt x) (pick_AlterTypeStmt b). Qed.
#[local] Hint Resolve node_AlterTypeStmt : compare.

Lemma pick_RuleStmt b : picks b N_RuleStmt (with_RuleStmt b) (match erase b with N_RuleStmt _ => False | _ => True end).
Proof. exact (match b with N_RuleStmt y => or_introl (ex_intro _ y eq_refl) | _ => or_intror (conj I (fun k => eq_refl)) end). Qed.
Lemma node_RuleStmt x b : RuleStmt.t_all Node compared x ->
  check_RuleStmt any known x = true ->
  decides (with_RuleStmt b (_equalRuleStmt equal x)) (N_RuleStmt (erase_RuleStmt erase x) = erase b).
Proof. node_tac (eq_RuleStmt x) (pick_RuleStmt b). Qed.
#[local] Hint Resolve node_RuleStmt : compare.

Lemma pick_NotifyStmt b : picks b N_NotifyStmt (with_NotifyStmt b) (match erase b with N_NotifyStmt _ => False | _ => True end).
Proof. exact (match b with N_NotifyStmt y => or_introl (ex_intro _ y eq_refl) | _ => or_intror (conj I (fun k => eq_refl)) end). Qed.
Lemma node_NotifyStmt x b : NotifyStmt.t_all Node compared x ->
  check_NotifyStmt any x = true ->
  decides (with_NotifyStmt b (_equalNotifyStmt x)) (N_NotifyStmt (erase_NotifyStmt x) = erase b).
Proof. node_tac (eq_NotifyStmt x) (pick_NotifyStmt b). Qed.
#[local] Hint Resolve node_NotifyStmt : compare.

Lemma pick_ListenStmt b : picks b N_ListenStmt (with_ListenStmt b) (match erase b with N_ListenStmt _ => False | _ => True end).
Proof. exact (match b with N_ListenStmt y => or_introl (ex_intro _ y eq_refl) | _ => or_intror (conj I (fun k => eq_refl)) end). Qed.
Lemma node_ListenStmt x b : ListenStmt.t_all Node compared x ->
  check_ListenStmt any x = true ->
  decides (with_ListenStmt b (_equalListenStmt x)) (N_ListenStmt (erase_ListenStmt x) = erase b).
Proof. node_tac (eq_ListenStmt x) (pick_ListenStmt b). Qed.
#[local] Hint Resolve node_ListenStmt : compare.

Lemma pick_UnlistenStmt b : picks b N_UnlistenStmt (with_UnlistenStmt b) (match erase b with N_UnlistenStmt _ => False | _ => True end).
Proof. exact (match b with N_UnlistenStmt y => or_introl (ex_intro _ y eq_refl) | _ => or_intror (conj I (fun k => eq_refl)) end). Qed.
Lemma node_UnlistenStmt x b : UnlistenStmt.t_all Node compared x ->
  check_UnlistenStmt any x = true ->
  decides (with_UnlistenStmt b (_equalUnlistenStmt x)) (N_UnlistenStmt (erase_UnlistenStmt x) = erase b).
Proof. node_tac (eq_UnlistenStmt x) (pick_UnlistenStmt b). Qed.
#[local] Hint Resolve node_UnlistenStmt : compare.

Lemma pick_TransactionStmt b : picks b N_TransactionStmt (with_TransactionStmt b) (match erase b with N_TransactionStmt _ => False | _ => True end).
Proof. exact (match b with N_TransactionStmt y => or_introl (ex_intro _ y eq_refl) | _ => or_intror (conj I (fun k => eq_refl)) end). Qed.
Lemma node_TransactionStmt x b : TransactionStmt.t_all Node compared x ->
  check_TransactionStmt any known x = true ->
  decides (with_TransactionStmt b (_equalTransactionStmt equal x)) (N_TransactionStmt (erase_TransactionStmt erase x) = erase b).
Proof. node_tac (eq_TransactionStmt x) (pick_TransactionStmt b). Qed.
#[local] Hint Resolve node_TransactionStmt : compare.

Lemma pick_CompositeTypeStmt b : picks b N_CompositeTypeStmt (with_CompositeTypeStmt b) (match erase b with N_CompositeTypeStmt _ => False | _ => True end).
Proof. exact (match b with N_CompositeTypeStmt y => or_introl (ex_intro _ y eq_refl) | _ => or_intror (conj I (fun k => eq_refl)) end). Qed.
Lemma node_CompositeTypeStmt x b : CompositeTypeStmt.t_all Node compared x ->
  check_CompositeTypeStmt any known x = true ->
  decides (with_CompositeTypeStmt b (_equalCompositeTypeStmt equal x)) (N_CompositeTypeStmt (erase_CompositeTypeStmt erase x) = erase b).
Proof. node_tac (eq_CompositeTypeStmt x) (pick_CompositeTypeStmt b). Qed.
#[local] Hint Resolve node_CompositeTypeStmt : compare.

Lemma pick_CreateEnumStmt b : picks b N_CreateEnumStmt (with_CreateEnumStmt b) (match erase b with N_CreateEnumStmt _ => False | _ => True end).
Proof. exact (match b with N_CreateEnumStmt y => or_introl (ex_intro _ y eq_refl) | _ => or_intror (conj I (fun k => eq_refl)) end). Qed.
Lemma node_CreateEnumStmt x b : CreateEnumStmt.t_all Node compared x ->
  check_CreateEnumStmt known x = true ->
  decides (with_CreateEnumStmt b (_equalCreateEnumStmt equal x)) (N_CreateEnumStmt (erase_CreateEnumStmt erase x) = erase b).
Proof. node_tac (eq_CreateEnumStmt x) (pick_CreateEnumStmt b). Qed.
#[local] Hint Resolve node_CreateEnumStmt : compare.

Lemma pick_CreateRangeStmt b : picks b N_CreateRangeStmt (with_CreateRangeStmt b) (match erase b with N_CreateRangeStmt _ => False | _ => True end).
Proof. exact (match b with N_CreateRangeStmt y => or_introl (ex_intro _ y eq_refl) | _ => or_intror (conj I (fun k => eq_refl)) end). Qed.
Lemma node_CreateRangeStmt x b : CreateRangeStmt.t_all Node compared x ->
  check_CreateRangeStmt known x = true ->
  decides (with_CreateRangeStmt b (_equalCreateRangeStmt equal x)) (N_CreateRangeStmt (erase_CreateRangeStmt erase x) = erase b).
Proof. node_tac (eq_CreateRangeStmt x) (pick_CreateRangeStmt b). Qed.
#[local] Hint Resolve node_CreateRangeStmt : compare.

Lemma pick_AlterEnumStmt b : picks b N_AlterEnumStmt (with_AlterEnumStmt b) (match erase b with N_AlterEnumStmt _ => False | _ => True end).
Proof. exact (match b with N_AlterEnumStmt y => or_introl (ex_intro _ y eq_refl) | _ => or_intror (conj I (fun k => eq_refl)) end). Qed.
Lemma node_AlterEnumStmt x b : AlterEnumStmt.t_all Node compared x ->
  check_AlterEnumStmt any known x = true ->
  decides (with_AlterEnumStmt b (_equalAlterEnumStmt equal x)) (N_AlterEnumStmt (erase_AlterEnumStmt erase x) = erase b).
Proof. node_tac (eq_AlterEnumStmt x) (pick_AlterEnumStmt b). Qed.
#[local] Hint Resolve node_AlterEnumStmt : compare.

Lemma pick_ViewStmt b : picks b N_ViewStmt (with_ViewStmt b) (match erase b with N_ViewStmt _ => False | _ => True end).
Proof. exact (match b with N_ViewStmt y => or_introl (ex_intro _ y eq_refl) | _ => or_intror (conj I (fun k => eq_refl)) end). Qed.
Lemma node_ViewStmt x b : ViewStmt.t_all Node compared x ->
  check_ViewStmt any known x = true ->
  decides (with_ViewStmt b (_equalViewStmt equal x)) (N_ViewStmt (erase_ViewStmt erase x) = erase b).
Proof. node_tac (eq_ViewStmt x) (pick_ViewStmt b). Qed.
#[local] Hint Resolve node_ViewStmt : compare.

Lemma pick_LoadStmt b : picks b N_LoadStmt (with_LoadStmt b) (match erase b with N_LoadStmt _ => False | _ => True end).
Proof. exact (match b with N_LoadStmt y => or_introl (ex_intro _ y eq_refl) | _ => or_intror (conj I (fun k => eq_refl)) end). Qed.
Lemma node_LoadStmt x b : LoadStmt.t_all Node compared x ->
  check_LoadStmt any x = true ->
  decides (with_LoadStmt b (_equalLoadStmt x)) (N_LoadStmt (erase_LoadStmt x) = erase b).
Proof. node_tac (eq_LoadStmt x) (pick_LoadStmt b). Qed.
#[local] Hint Resolve node_LoadStmt : compare.

Lemma pick_CreatedbStmt b : picks b N_CreatedbStmt (with_CreatedbStmt b) (match erase b with N_CreatedbStmt _ => False | _ => True end).
Proof. exact (match b with N_CreatedbStmt y => or_introl (ex_intro _ y eq_refl) | _ => or_intror (conj I (fun k => eq_refl)) end). Qed.
Lemma node_CreatedbStmt x b : CreatedbStmt.t_all Node compared x ->
  check_CreatedbStmt any known x = true ->
  decides (with_CreatedbStmt b (_equalCreatedbStmt equal x)) (N_CreatedbStmt (erase_CreatedbStmt erase x) = erase b).
Proof. node_tac (eq_CreatedbStmt x) (pick_CreatedbStmt b). Qed.
#[local] Hint Resolve node_CreatedbStmt : compare.

Lemma pick_AlterDatabaseStmt b : picks b N_AlterDatabaseStmt (with_AlterDatabaseStmt b) (match erase b with N_AlterDatabaseStmt _ => False | _ => True end).
Proof. exact (match b with N_AlterDatabaseStmt y => or_introl (ex_intro _ y eq_refl) | _ => or_intror (conj I (fun k => eq_refl)) end). Qed.
Lemma node_AlterDatabaseStmt x b : AlterDatabaseStmt.t_all Node compared x ->
  check_AlterDatabaseStmt any known x = true ->
  decides (with_AlterDatabaseStmt b (_equalAlterDatabaseStmt equal x)) (N_AlterDatabaseStmt (erase_AlterDatabaseStmt erase x) = erase b).
Proof. node_tac (eq_AlterDatabaseStmt x) (pick_AlterDatabaseStmt b). Qed.
#[local] Hint Resolve node_AlterDatabaseStmt : compare.

Lemma pick_AlterDatabaseSetStmt b : picks b N_AlterDatabaseSetStmt (with_AlterDatabaseSetStmt b) (match erase b with N_AlterDatabaseSetStmt _ => False | _ => True end).
Proof. exact (match b with N_AlterDatabaseSetStmt y => or_introl (ex_intro _ y eq_refl) | _ => or_intror (conj I (fun k => eq_refl)) end). Qed.
Lemma node_AlterDatabaseSetStmt x b : AlterDatabaseSetStmt.t_all Node compared x ->
  check_AlterDatabaseSetStmt any known x = true ->
  decides (with_AlterDatabaseSetStmt b (_equalAlterDatabaseSetStmt equal x)) (N_AlterDatabaseSetStmt (erase_AlterDatabaseSetStmt erase x) = erase b).
Proof. node_tac (eq_AlterDatabaseSetStmt x) (pick_AlterDatabaseSetStmt b). Qed.
#[local] Hint Resolve node_AlterDatabaseSetStmt : compare.

Lemma pick_DropdbStmt b : picks b N_DropdbStmt (with_DropdbStmt b) (match erase b with N_DropdbStmt _ => False | _ => True end).
Proof. exact (match b with N_DropdbStmt y => or_introl (ex_intro _ y eq_refl) | _ => or_intror (conj I (fun k => eq_refl)) end). Qed.
Lemma node_DropdbStmt x b : DropdbStmt.t_all Node compared x ->
  check_DropdbStmt any known x = true ->
  decides (with_DropdbStmt b (_equalDropdbStmt equal x)) (N_DropdbStmt (erase_DropdbStmt erase x) = erase b).
Proof. node_tac (eq_DropdbStmt x) (pick_DropdbStmt b). Qed.
#[local] Hint Resolve node_DropdbStmt : compare.

Lemma pick_AlterSystemStmt b : picks b N_AlterSystemStmt (with_AlterSystemStmt b) (match erase b with N_AlterSystemStmt _ => False | _ => True end).
Proof. exact (match b with N_AlterSystemStmt y => or_introl (ex_intro _ y eq_refl) | _ => or_intror (conj I (fun k => eq_refl)) end). Qed.
Lemma node_AlterSystemStmt x b : AlterSystemStmt.t_all Node compared x ->
  check_AlterSystemStmt any known x = true ->
  decides (with_AlterSystemStmt b (_equalAlterSystemStmt equal x)) (N_AlterSystemStmt (erase_AlterSystemStmt erase x) = erase b).
Proof. node_tac (eq_AlterSystemStmt x) (pick_AlterSystemStmt b). Qed.
#[local] Hint Resolve node_AlterSystemStmt : compare.

Lemma pick_ClusterStmt b : picks b N_ClusterStmt (with_ClusterStmt b) (match erase b with N_ClusterStmt _ => False | _ => True end).
Proof. exact (match b with N_ClusterStmt y => or_introl (ex_intro _ y eq_refl) | _ => or_intror (conj I (fun k => eq_refl)) end). Qed.
Lemma node_ClusterStmt x b : ClusterStmt.t_all Node compared x ->
  check_ClusterStmt any known x = true ->
  decides (with_ClusterStmt b (_equalClusterStmt equal x)) (N_ClusterStmt (erase_ClusterStmt erase x) = erase b).
Proof. node_tac (eq_ClusterStmt x) (pick_ClusterStmt b). Qed.
#[local] Hint Resolve node_ClusterStmt : compare.

Lemma pick_VacuumStmt b : picks b N_VacuumStmt (with_VacuumStmt b) (match erase b with N_VacuumStmt _ => False | _ => True end).
Proof. exact (match b with N_VacuumStmt y => or_introl (ex_intro _ y eq_refl) | _ => or_intror (conj I (fun k => eq_refl)) end). Qed.
Lemma node_VacuumStmt x b : VacuumStmt.t_all Node compared x ->
  check_VacuumStmt known x = true ->
  decides (with_VacuumStmt b (_equalVacuumStmt equal x)) (N_VacuumStmt (erase_VacuumStmt erase x) = erase b).
Proof. node_tac (eq_VacuumStmt x) (pick_VacuumStmt b). Qed.
#[local] Hint Resolve node_VacuumStmt : compare.

Lemma pick_VacuumRelation b : picks b N_VacuumRelation (with_VacuumRelation b) (match erase b with N_VacuumRelation _ => False | _ => True end).
Proof. exact (match b with N_VacuumRelation y => or_introl (ex_intro _ y eq_refl) | _ => or_intror (conj I (fun k => eq_refl)) end). Qed.
Lemma node_VacuumRelation x b : VacuumRelation.t_all Node compared x ->
  check_VacuumRelation any known x = true ->
  decides (with_VacuumRelation b (_equalVacuumRelation equal x)) (N_VacuumRelation (erase_VacuumRelation erase x) = erase b).
Proof. node_tac (eq_VacuumRelation x) (pick_VacuumRelation b). Qed.
#[local] Hint Resolve node_VacuumRelation : compare.

Lemma pick_ExplainStmt b : picks b N_ExplainStmt (with_ExplainStmt b) (match erase b with N_ExplainStmt _ => False | _ => True end).
Proof. exact (match b with N_ExplainStmt y => or_introl (ex_intro _ y eq_refl) | _ => or_intror (conj I (fun k => eq_refl)) end). Qed.
Lemma node_ExplainStmt x b : ExplainStmt.t_all Node compared x ->
  check_ExplainStmt any known x = true ->
  decides (with_ExplainStmt b (_equalExplainStmt equal x)) (N_ExplainStmt (erase_ExplainStmt erase x) = erase b).
Proof. node_tac (eq_ExplainStmt x) (pick_ExplainStmt b). Qed.
#[local] Hint Resolve node_ExplainStmt : compare.

Lemma pick_CreateTableAsStmt b : picks b N_CreateTableAsStmt (with_CreateTableAsStmt b) (match erase b with N_CreateTableAsStmt _ => False | _ => True end).
Proof. exact (match b with N_CreateTableAsStmt y => or_introl (ex_intro _ y eq_refl) | _ => or_intror (conj I (fun k => eq_refl)) end). Qed.
Lemma node_CreateTableAsStmt x b : CreateTableAsStmt.t_all Node compared x ->
  check_CreateTableAsStmt any known x = true ->
  decides (with_CreateTableAsStmt b (_equalCreateTableAsStmt equal x)) (N_CreateTableAsStmt (erase_CreateTableAsStmt erase x) = erase b).
Proof. node_tac (eq_CreateTableAsStmt x) (pick_CreateTableAsStmt b). Qed.
#[local] Hint Resolve node_CreateTableAsStmt : compare.

Lemma pick_RefreshMatViewStmt b : picks b N_RefreshMatViewStmt (with_RefreshMatViewStmt b) (match erase b with N_RefreshMatViewStmt _ => False | _ => True end).
Proof. exact (match b with N_RefreshMatViewStmt y => or_introl (ex_intro _ y eq_refl) | _ => or_intror (conj I (fun k => eq_refl)) end). Qed.
Lemma node_RefreshMatViewStmt x b : RefreshMatViewStmt.t_all Node compared x ->
  check_RefreshMatViewStmt any known x = true ->
  decides (with_RefreshMatViewStmt b (_equalRefreshMatViewStmt equal x)) (N_RefreshMatViewStmt (erase_RefreshMatViewStmt erase x) = erase b).
Proof. node_tac (eq_RefreshMatViewStmt x) (pick_RefreshMatViewStmt b). Qed.
#[local] Hint Resolve node_RefreshMatViewStmt : compare.

Lemma pick_CheckPointStmt b : picks b N_CheckPointStmt (with_CheckPointStmt b) (match erase b with N_CheckPointStmt _ => False | _ => True end).
Proof. exact (match b with N_CheckPointStmt y => or_introl (ex_intro _ y eq_refl) | _ => or_intror (conj I (fun k => eq_refl)) end). Qed.
Lemma pick_DiscardStmt b : picks b N_DiscardStmt (with_DiscardStmt b) (match erase b with N_DiscardStmt _ => False | _ => True end).
Proof. exact (match b with N_DiscardStmt y => or_introl (ex_intro _ y eq_refl) | _ => or_intror (conj I (fun k => eq_refl)) end). Qed.
Lemma node_DiscardStmt x b : DiscardStmt.t_all Node compared x ->
  decides (with_DiscardStmt b (_equalDiscardStmt x)) (N_DiscardStmt (erase_DiscardStmt x) = erase b).
Proof. node_tac (eq_DiscardStmt x) (pick_DiscardStmt b). Qed.
#[local] Hint Resolve node_DiscardStmt : compare.

Lemma pick_LockStmt b : picks b N_LockStmt (with_LockStmt b) (match erase b with N_LockStmt _ => False | _ => True end).
Proof. exact (match b with N_LockStmt y => or_introl (ex_intro _ y eq_refl) | _ => or_intror (conj I (fun k => eq_refl)) end). Qed.
Lemma node_LockStmt x b : LockStmt.t_all Node compared x ->
  check_LockStmt known x = true ->
  decides (with_LockStmt b (_equalLockStmt equal x)) (N_LockStmt (erase_LockStmt erase x) = erase b).
Proof. node_tac (eq_LockStmt x) (pick_LockStmt b). Qed.
#[local] Hint Resolve node_LockStmt : compare.

Lemma pick_ConstraintsSetStmt b : picks b N_ConstraintsSetStmt (with_ConstraintsSetStmt b) (match erase b with N_ConstraintsSetStmt _ => False | _ => True end).
Proof. exact (match b with N_ConstraintsSetStmt y => or_introl (ex_intro _ y eq_refl) | _ => or_intror (conj I (fun k => eq_refl)) end). Qed.
Lemma node_ConstraintsSetStmt x b : ConstraintsSetStmt.t_all Node compared x ->
  check_ConstraintsSetStmt known x = true ->
  decides (with_ConstraintsSetStmt b (_equalConstraintsSetStmt equal x)) (N_ConstraintsSetStmt (erase_ConstraintsSetStmt erase x) = erase b).
Proof. node_tac (eq_ConstraintsSetStmt x) (pick_ConstraintsSetStmt b). Qed.
#[local] Hint Resolve node_ConstraintsSetStmt : compare.

Lemma pick_ReindexStmt b : picks b N_ReindexStmt (with_ReindexStmt b) (match erase b with N_ReindexStmt _ => False | _ => True end).
Proof. exact (match b with N_ReindexStmt y => or_introl (ex_intro _ y eq_refl) | _ => or_intror (conj I (fun k => eq_refl)) end). Qed.
Lemma node_ReindexStmt x b : ReindexStmt.t_all Node compared x ->
  check_ReindexStmt any known x = true ->
  decides (with_ReindexStmt b (_equalReindexStmt equal x)) (N_ReindexStmt (erase_ReindexStmt erase x) = erase b).
Proof. node_tac (eq_ReindexStmt x) (pick_ReindexStmt b). Qed.
#[local] Hint Resolve node_ReindexStmt : compare.

Lemma pick_CreateConversionStmt b : picks b N_CreateConversionStmt (with_CreateConversionStmt b) (match erase b with N_CreateConversionStmt _ => False | _ => True end).
Proof. exact (match b with N_CreateConversionStmt y => or_introl (ex_intro _ y eq_refl) | _ => or_intror (conj I (fun k => eq_refl)) end). Qed.
Lemma node_CreateConversionStmt x b : CreateConversionStmt.t_all Node compared x ->
  check_CreateConversionStmt any known x = true ->
  decides (with_CreateConversionStmt b (_equalCreateConversionStmt equal x)) (N_CreateConversionStmt (erase_CreateConversionStmt erase x) = erase b).
Proof. node_tac (eq_CreateConversionStmt x) (pick_CreateConversionStmt b). Qed.
#[local] Hint Resolve node_CreateConversionStmt : compare.

Lemma pick_CreateCastStmt b : picks b N_CreateCastStmt (with_CreateCastStmt b) (match erase b with N_CreateCastStmt _ => False | _ => True end).
Proof. exact (match b with N_CreateCastStmt y => or_introl (ex_intro _ y eq_refl) | _ => or_intror (conj I (fun k => eq_refl)) end). Qed.
Lemma node_CreateCastStmt x b : CreateCastStmt.t_all Node compared x ->
  check_CreateCastStmt known x = true ->
  decides (with_CreateCastStmt b (_equalCreateCastStmt equal x)) (N_CreateCastStmt (erase_CreateCastStmt erase x) = erase b).
Proof. node_tac (eq_CreateCastStmt x) (pick_CreateCastStmt b). Qed.
#[local] Hint Resolve node_CreateCastStmt : compare.

Lemma pick_CreateTransformStmt b : picks b N_CreateTransformStmt (with_CreateTransformStmt b) (match erase b with N_CreateTransformStmt _ => False | _ => True end).
Proof. exact (match b with N_CreateTransformStmt y => or_introl (ex_intro _ y eq_refl) | _ => or_intror (conj I (fun k => eq_refl)) end). Qed.
Lemma node_CreateTransformStmt x b : CreateTransformStmt.t_all Node compared x ->
  check_CreateTransformStmt any known x = true ->
  decides (with_CreateTransformStmt b (_equalCreateTransformStmt equal x)) (N_CreateTransformStmt (erase_CreateTransformStmt erase x) = erase b).
Proof. node_tac (eq_CreateTransformStmt x) (pick_CreateTransformStmt b). Qed.
#[local] Hint Resolve node_CreateTransformStmt : compare.

Lemma pick_PrepareStmt b : picks b N_PrepareStmt (with_PrepareStmt b) (match erase b with N_PrepareStmt _ => False | _ => True end).
Proof. exact (match b with N_PrepareStmt y => or_introl (ex_intro _ y eq_refl) | _ => or_intror (conj I (fun k => eq_refl)) end). Qed.
Lemma node_PrepareStmt x b : PrepareStmt.t_all Node compared x ->
  check_PrepareStmt any known x = true ->
  decides (with_PrepareStmt b (_equalPrepareStmt equal x)) (N_PrepareStmt (erase_PrepareStmt erase x) = erase b).
Proof. node_tac (eq_PrepareStmt x) (pick_PrepareStmt b). Qed.
#[local] Hint Resolve node_PrepareStmt : compare.

Lemma pick_ExecuteStmt b : picks b N_ExecuteStmt (with_ExecuteStmt b) (match erase b with N_ExecuteStmt _ => False | _ => True end).
Proof. exact (match b with N_ExecuteStmt y => or_introl (ex_intro _ y eq_refl) | _ => or_intror (conj I (fun k => eq_refl)) end). Qed.
Lemma node_ExecuteStmt x b : ExecuteStmt.t_all Node compared x ->
  check_ExecuteStmt any known x = true ->
  decides (with_ExecuteStmt b (_equalExecuteStmt equal x)) (N_ExecuteStmt (erase_ExecuteStmt erase x) = erase b).
Proof. node_tac (eq_ExecuteStmt x) (pick_ExecuteStmt b). Qed.
#[local] Hint Resolve node_ExecuteStmt : compare.

Lemma pick_DeallocateStmt b : picks b N_DeallocateStmt (with_DeallocateStmt b) (match erase b with N_DeallocateStmt _ => False | _ => True end).
Proof. exact (match b with N_DeallocateStmt y => or_introl (ex_intro _ y eq_refl) | _ => or_intror (conj I (fun k => eq_refl)) end). Qed.
Lemma node_DeallocateStmt x b : DeallocateStmt.t_all Node compared x ->
  check_DeallocateStmt any x = true ->
  decides (with_DeallocateStmt b (_equalDeallocateStmt x)) (N_DeallocateStmt (erase_DeallocateStmt x) = erase b).
Proof. node_tac (eq_DeallocateStmt x) (pick_DeallocateStmt b). Qed.
#[local] Hint Resolve node_DeallocateStmt : compare.

Lemma pick_DropOwnedStmt b : picks b N_DropOwnedStmt (with_DropOwnedStmt b) (match erase b with N_DropOwnedStmt _ => False | _ => True end).
Proof. exact (match b with N_DropOwnedStmt y => or_introl (ex_intro _ y eq_refl) | _ => or_intror (conj I (fun k => eq_refl)) end). Qed.
Lemma node_DropOwnedStmt x b : DropOwnedStmt.t_all Node compared x ->
  check_DropOwnedStmt known x = true ->
  decides (with_DropOwnedStmt b (_equalDropOwnedStmt equal x)) (N_DropOwnedStmt (erase_DropOwnedStmt erase x) = erase b).
Proof. node_tac (eq_DropOwnedStmt x) (pick_DropOwnedStmt b). Qed.
#[local] Hint Resolve node_DropOwnedStmt : compare.

Lemma pick_ReassignOwnedStmt b : picks b N_ReassignOwnedStmt (with_ReassignOwnedStmt b) (match erase b with N_ReassignOwnedStmt _ => False | _ => True end).
Proof. exact (match b with N_ReassignOwnedStmt y => or_introl (ex_intro _ y eq_refl) | _ => or_intror (conj I (fun k => eq_refl)) end). Qed.
Lemma node_ReassignOwnedStmt x b : ReassignOwnedStmt.t_all Node compared x ->
  check_ReassignOwnedStmt any known x = true ->
  decides (with_ReassignOwnedStmt b (_equalReassignOwnedStmt equal x)) (N_ReassignOwnedStmt (erase_ReassignOwnedStmt erase x) = erase b).
Proof. node_tac (eq_ReassignOwnedStmt x) (pick_ReassignOwnedStmt b). Qed.
#[local] Hint Resolve node_ReassignOwnedStmt : compare.

Lemma pick_AlterTSDictionaryStmt b : picks b N_AlterTSDictionaryStmt (with_AlterTSDictionaryStmt b) (match erase b with N_AlterTSDictionaryStmt _ => False | _ => True end).
Proof. exact (match b with N_AlterTSDictionaryStmt y => or_introl (ex_intro _ y eq_refl) | _ => or_intror (conj I (fun k => eq_refl)) end). Qed.
Lemma node_AlterTSDictionaryStmt x b : AlterTSDictionaryStmt.t_all Node compared x ->
  check_AlterTSDictionaryStmt known x = true ->
  decides (with_AlterTSDictionaryStmt b (_equalAlterTSDictionaryStmt equal x)) (N_AlterTSDictionaryStmt (erase_AlterTSDictionaryStmt erase x) = erase b).
Proof. node_tac (eq_AlterTSDictionaryStmt x) (pick_AlterTSDictionaryStmt b). Qed.
#[local] Hint Resolve node_AlterTSDictionaryStmt : compare.

Lemma pick_AlterTSConfigurationStmt b : picks b N_AlterTSConfigurationStmt (with_AlterTSConfigurationStmt b) (match erase b with N_AlterTSConfigurationStmt _ => False | _ => True end).
Proof. exact (match b with N_AlterTSConfigurationStmt y => or_introl (ex_intro _ y eq_refl) | _ => or_intror (conj I (fun k => eq_refl)) end). Qed.
Lemma node_AlterTSConfigurationStmt x b : AlterTSConfigurationStmt.t_all Node compared x ->
  check_AlterTSConfigurationStmt known x = true ->
  decides (with_AlterTSConfigurationStmt b (_equalAlterTSConfigurationStmt equal x)) (N_AlterTSConfigurationStmt (erase_AlterTSConfigurationStmt erase x) = erase b).
Proof. node_tac (eq_AlterTSConfigurationStmt x) (pick_AlterTSConfigurationStmt b). Qed.
#[local] Hint Resolve node_AlterTSConfigurationStmt : compare.

Lemma pick_CreatePublicationStmt b : picks b N_CreatePublicationStmt (with_CreatePublicationStmt b) (match erase b with N_CreatePublicationStmt _ => False | _ => True end).
Proof. exact (match b with N_CreatePublicationStmt y => or_introl (ex_intro _ y eq_refl) | _ => or_intror (conj I (fun k => eq_refl)) end). Qed.
Lemma node_CreatePublicationStmt x b : CreatePublicationStmt.t_all Node compared x ->
  check_CreatePublicationStmt any known x = true ->
  decides (with_CreatePublicationStmt b (_equalCreatePublicationStmt equal x)) (N_CreatePublicationStmt (erase_CreatePublicationStmt erase x) = erase b).
Proof. node_tac (eq_CreatePublicationStmt x) (pick_CreatePublicationStmt b). Qed.
#[local] Hint Resolve node_CreatePublicationStmt : compare.

Lemma pick_AlterPublicationStmt b : picks b N_AlterPublicationStmt (with_AlterPublicationStmt b) (match erase b with N_AlterPublicationStmt _ => False | _ => True end).
Proof. exact (match b with N_AlterPublicationStmt y => or_introl (ex_intro _ y eq_refl) | _ => or_intror (conj I (fun k => eq_refl)) end). Qed.
Lemma node_AlterPublicationStmt x b : AlterPublicationStmt.t_all Node compared x ->
  check_AlterPublicationStmt any known x = true ->
  decides (with_AlterPublicationStmt b (_equalAlterPublicationStmt equal x)) (N_AlterPublicationStmt (erase_AlterPublicationStmt erase x) = erase b).
Proof. node_tac (eq_AlterPublicationStmt x) (pick_AlterPublicationStmt b). Qed.
#[local] Hint Resolve node_AlterPublicationStmt : compare.

Lemma pick_CreateSubscriptionStmt b : picks b N_CreateSubscriptionStmt (with_CreateSubscriptionStmt b) (match erase b with N_CreateSubscriptionStmt _ => False | _ => True end).
Proof. exact (match b with N_CreateSubscriptionStmt y => or_introl (ex_intro _ y eq_refl) | _ => or_intror (conj I (fun k => eq_refl)) end). Qed.
Lemma node_CreateSubscriptionStmt x b : CreateSubscriptionStmt.t_all Node compared x ->
  check_CreateSubscriptionStmt any known x = true ->
  decides (with_CreateSubscriptionStmt b (_equalCreateSubscriptionStmt equal x)) (N_CreateSubscriptionStmt (erase_CreateSubscriptionStmt erase x) = erase b).
Proof. node_tac (eq_CreateSubscriptionStmt x) (pick_CreateSubscriptionStmt b). Qed.
#[local] Hint Resolve node_CreateSubscriptionStmt : compare.

Lemma pick_AlterSubscriptionStmt b : picks b N_AlterSubscriptionStmt (with_AlterSubscriptionStmt b) (match erase b with N_AlterSubscriptionStmt _ => False | _ => True end).
Proof. exact (match b with N_AlterSubscriptionStmt y => or_introl (ex_intro _ y eq_refl) | _ => or_intror (conj I (fun k => eq_refl)) end). Qed.
Lemma node_AlterSubscriptionStmt x b : AlterSubscriptionStmt.t_all Node compared x ->
  check_AlterSubscriptionStmt any known x = true ->
  decides (with_AlterSubscriptionStmt b (_equalAlterSubscriptionStmt equal x)) (N_AlterSubscriptionStmt (erase_AlterSubscriptionStmt erase x) = erase b).
Proof. node_tac (eq_AlterSubscriptionStmt x) (pick_AlterSubscriptionStmt b). Qed.
#[local] Hint Resolve node_AlterSubscriptionStmt : compare.

Lemma pick_DropSubscriptionStmt b : picks b N_DropSubscriptionStmt (with_DropSubscriptionStmt b) (match erase b with N_DropSubscriptionStmt _ => False | _ => True end).
Proof. exact (match b with N_DropSubscriptionStmt y => or_introl (ex_intro _ y eq_refl) | _ => or_intror (conj I (fun k => eq_refl)) end). Qed.
Lemma node_DropSubscriptionStmt x b : DropSubscriptionStmt.t_all Node compared x ->
  check_DropSubscriptionStmt any x = true ->
  decides (with_DropSubscriptionStmt b (_equalDropSubscriptionStmt x)) (N_DropSubscriptionStmt (erase_DropSubscriptionStmt x) = erase b).
Proof. node_tac (eq_DropSubscriptionStmt x) (pick_DropSubscriptionStmt b). Qed.
#[local] Hint Resolve node_DropSubscriptionStmt : compare.

Lemma pick_FuncExpr b : picks b N_FuncExpr (with_FuncExpr b) (match erase b with N_FuncExpr _ => False | _ => True end).
Proof. exact (match b with N_FuncExpr y => or_introl (ex_intro _ y eq_refl) | _ => or_intror (conj I (fun k => eq_refl)) end). Qed.
Lemma node_FuncExpr x b : FuncExpr.t_all Node compared x ->
  check_FuncExpr known x = true ->
  decides (with_FuncExpr b (_equalFuncExpr equal x)) (N_FuncExpr (erase_FuncExpr erase x) = erase b).
Proof. node_tac (eq_FuncExpr x) (pick_FuncExpr b). Qed.
#[local] Hint Resolve node_FuncExpr : compare.

(** ** Trees *)

Lemma equal_eq a b : equal a b = equal_body equal a b.
Proof. by destruct a. Qed.

Lemma compare_all n : compared n.
Proof.
  revert n. apply node_ind. intros n Hn Hk m. rewrite equal_eq. rewrite known_eq in Hk.
  destruct n; cbn [children] in Hn; cbn [check_body] in Hk; cbn [equal_body erase];
    try (by eauto with compare); try discriminate Hk.
  - destruct m; try (by apply decides_false). eapply decides_iff; [by apply decides_list|].
    split; [by intros ->|intros [=]; done].
  - destruct m; try (by apply decides_false). eapply decides_iff; [apply decides_value|].
    split; [by intros ->|intros [=]; done].
  - destruct (pick_CheckPointStmt m) as [[y ->]|[Ho Hw]].
    + exists true. by destruct x, y.
    + rewrite Hw. apply decides_false. intros E. by rewrite <-E in Ho.
Qed.
