(* ===== verification/EqualTheorems.v ===== *)
(** * Copies and comparison of trees: the theorems *)
From S2P Require Import Prelude Buffer Enums Nodes TreeCheck CopyFuncs CopyProof.
From S2P Require Import EqualFuncs EqualProof.

(** ** Sample trees *)

(** [SELECT a] as the parser returns it, for a query with [a] at the byte [loc]. *)
Definition select_column (name : string) (loc : Z) : Node :=
  N_SelectStmt (SelectStmt.mk [] None
    [N_ResTarget (ResTarget.mk None [] (Some (N_ColumnRef (ColumnRef.mk [N_Value (String_ name)] loc))) loc)]
    [] None [] None [] [] [] None None LIMIT_OPTION_DEFAULT [] None SETOP_NONE false None None).

(** ** Lemmas *)

Lemma equal_decides a b : known a = true -> exists r, equal a b = Ok r /\ (r = true <-> erase a = erase b).
Proof. intros Ha. exact (compare_all a Ha b). Qed.

(** ** Properties *)

(** C26. [equal] decides equality of trees up to what it is documented to ignore: on a
    tree of the parser, whatever the other one, it returns (there is no kind of node that
    it does not know), and it returns true exactly if the two trees have the same kinds
    of nodes and the same values in all fields but the locations, the forms of rows and
    coercions and the lists of [GroupingFunc]: no field is forgotten in any of the 177
    structs. *)
Theorem equal_correct (a b : Node) (Ha : known a = true) :
  exists r, equal a b = Ok r /\ (r = true <-> erase a = erase b).
Proof. by apply equal_decides. Qed.

Lemma equal_correct_witness :
  known (select_column "a" 7) = true /\
  exists r, equal (select_column "a" 7) (select_column "a" 9) = Ok r /\
    (r = true <-> erase (select_column "a" 7) = erase (select_column "a" 9)).
Proof. split; [reflexivity|]. apply (equal_correct (select_column "a" 7) (select_column "a" 9)). reflexivity. Defined.

Example equal_samples :
  equal (select_column "a" 7) (select_column "a" 9) = Ok true /\
  equal (select_column "a" 7) (select_column "b" 7) = Ok false.
Proof. split; vm_compute; reflexivity. Qed.

(** On the trees of the parser [equal] is an equivalence relation: reflexive,
    symmetric and transitive. *)
Theorem equal_equivalence (a b c : Node)
    (Ha : known a = true) (Hb : known b = true) (Hc : known c = true) :
  equal a a = Ok true /\ equal b a = equal a b /\
  (equal a b = Ok true -> equal b c = Ok true -> equal a c = Ok true).
Proof.
  destruct (equal_decides a a Ha) as (r & -> & Hr), (equal_decides a b Ha) as (s & -> & Hs),
    (equal_decides b a Hb) as (s' & -> & Hs'), (equal_decides b c Hb) as (t & -> & Ht),
    (equal_decides a c Ha) as (u & -> & Hu).
  split; [f_equal; by apply Hr|]. split.
  - f_equal. apply eq_bool_prop_intro. rewrite !Is_true_true, Hs, Hs'. by split.
  - intros [= ->] [= ->]. f_equal. apply Hu. etrans; [by apply Hs|by apply Ht].
Qed.

Lemma equal_equivalence_witness :
  let a := select_column "a" in
  equal (a 1%Z) (a 1%Z) = Ok true /\ equal (a 2%Z) (a 1%Z) = equal (a 1%Z) (a 2%Z) /\
  (equal (a 1%Z) (a 2%Z) = Ok true -> equal (a 2%Z) (a 3%Z) = Ok true -> equal (a 1%Z) (a 3%Z) = Ok true).
Proof.
  intros a. apply (equal_equivalence (a 1%Z) (a 2%Z) (a 3%Z)); reflexivity.
Defined.

(** C27. [copyObjectImpl] returns a tree for every tree of the parser, and the copy is the
    tree: no struct lacks its function and no function forgets a field, locations
    included. *)
Theorem copyObjectImpl_identity (n : Node) (Hn : known n = true) : copyObjectImpl n = Ok n.
Proof. exact (copy_copied n Hn). Qed.

Lemma copyObjectImpl_identity_witness :
  known (select_column "a" 7) = true /\ copyObjectImpl (select_column "a" 7) = Ok (select_column "a" 7).
Proof. split; [reflexivity|]. apply (copyObjectImpl_identity (select_column "a" 7)). reflexivity. Defined.
