(* ===== verification/ProtobufC.v ===== *)
(** * The protocol-buffer library

    [src/vendor/protobuf-c/protobuf-c.c]: [protobuf_c_message_get_packed_size],
    [protobuf_c_message_pack] and [protobuf_c_message_unpack] with all they call, over
    descriptors as data.

    The struct of a message is the list of its members, and an offset the position of a
    member in it, from 1 on; 0 is the offset of the base, as [sizeof(ProtobufCMessage)] is
    not 0.  The members of a union share an offset.  What the code writes to [out] is the
    list of the bytes from [out] on, whose length is the number the code returns.  A
    pointer with a length is the list of the bytes it points to, and reading beyond them,
    or reading a member at another type than it has, is [Undef].  Memory is not freed and
    allocation does not fail. *)
From S2P Require Import Prelude Keywords.

Open Scope Z_scope.

(** ** Bytes and machine integers *)

Abbreviation bytes := (list ascii).

(** A byte as [uint8_t], and the conversion to it. *)
Definition ub (a : ascii) : Z := Z.of_N (N_of_ascii a).
Definition byte (z : Z) : ascii := ascii_of_N (Z.to_N (z mod 256)).

(** [data[i]] *)
Definition at_ (data : bytes) (i : nat) : outcome Z :=
  match data !! i with Some b => Ok (ub b) | None => Undef end.

(** The conversions to [int32_t] and [int64_t]. *)
Definition signed32 (z : Z) : Z := let u := wrap32 z in if u <? 2 ^ 31 then u else u - 2 ^ 32.
Definition signed64 (z : Z) : Z := let u := wrap64 z in if u <? 2 ^ 63 then u else u - 2 ^ 64.

Definition INT_MAX : Z := 2147483647.

(** ** Descriptors *)

Inductive ProtobufCLabel : Type :=
| PROTOBUF_C_LABEL_REQUIRED | PROTOBUF_C_LABEL_OPTIONAL
| PROTOBUF_C_LABEL_REPEATED | PROTOBUF_C_LABEL_NONE.

Inductive ProtobufCType : Type :=
| PROTOBUF_C_TYPE_INT32 | PROTOBUF_C_TYPE_SINT32 | PROTOBUF_C_TYPE_SFIXED32
| PROTOBUF_C_TYPE_INT64 | PROTOBUF_C_TYPE_SINT64 | PROTOBUF_C_TYPE_SFIXED64
| PROTOBUF_C_TYPE_UINT32 | PROTOBUF_C_TYPE_FIXED32
| PROTOBUF_C_TYPE_UINT64 | PROTOBUF_C_TYPE_FIXED64
| PROTOBUF_C_TYPE_FLOAT | PROTOBUF_C_TYPE_DOUBLE
| PROTOBUF_C_TYPE_BOOL | PROTOBUF_C_TYPE_ENUM
| PROTOBUF_C_TYPE_STRING | PROTOBUF_C_TYPE_BYTES | PROTOBUF_C_TYPE_MESSAGE.

(** [ProtobufCWireType] *)
Definition PROTOBUF_C_WIRE_TYPE_VARINT : Z := 0.
Definition PROTOBUF_C_WIRE_TYPE_64BIT : Z := 1.
Definition PROTOBUF_C_WIRE_TYPE_LENGTH_PREFIXED : Z := 2.
Definition PROTOBUF_C_WIRE_TYPE_32BIT : Z := 5.

(** [ProtobufCFieldFlag], as the two bits that are tested. *)
Record ProtobufCFieldFlag : Type := mkFlags {
  PROTOBUF_C_FIELD_FLAG_PACKED : bool;
  PROTOBUF_C_FIELD_FLAG_ONEOF : bool
}.

(** A [char *]: null, the address of [protobuf_c_empty_string], or a block of its own. *)
Inductive cstring : Type :=
| NULL_string
| protobuf_c_empty_string
| heap_string (s : string).

#[export] Instance cstring_eq_dec : EqDecision cstring.
Proof. solve_decision. Defined.

(** [strlen] reads this. *)
Definition chars (p : cstring) : string :=
  match p with heap_string s => s | _ => "" end.

(** The range of field numbers from [start_value] on; the next range of the array has the
    index of the first field after it. *)
Record ProtobufCIntRange : Type := mkRange { start_value : Z; orig_index : Z }.

(** Descriptors point to one another; [D] is the type of pointers to descriptors of
    messages.  Descriptors of enumerations, which the code below does not look into, are
    left out. *)
Record ProtobufCFieldDescriptor {D : Type} : Type := mkField {
  name : string;
  id : Z;
  label : ProtobufCLabel;
  type : ProtobufCType;
  quantifier_offset : nat;
  offset : nat;
  descriptor : option D;
  default_value : cstring;
  flags : ProtobufCFieldFlag
}.
Arguments ProtobufCFieldDescriptor : clear implicits.
Arguments mkField {D}.

(** ** Messages *)

(** The contents of a member: memory set to 0, memory not written yet, a number (also a
    boolean, an enumerator, the bits of a float or the [n_] of a repeated member), a
    string, a [ProtobufCBinaryData], a message, or an array. *)
Record unknown_field : Type := mkUnknown { u_tag : Z; u_wire_type : Z; u_data : bytes }.

Inductive message {D : Type} : Type :=
| Message (d : D) (members : list cell) (unknown_fields : list unknown_field)
with cell {D : Type} : Type :=
| Zeroed
| Garbage
| Int (z : Z)
| Str (p : cstring)
| Bytes (len : Z) (data : option bytes)
| Msg (p : option message)
| Arr (p : option (list cell)).
Arguments message : clear implicits.
Arguments cell : clear implicits.

(** [message_init] is the struct that the function of the descriptor initialises to; it
    is not null in generated code.  The magic number, the other names and the reserved
    members are left out, and the size is the number of members. *)
Record ProtobufCMessageDescriptor {D : Type} : Type := mkDescriptor {
  desc_name : string;
  fields : list (ProtobufCFieldDescriptor D);
  fields_sorted_by_name : list nat;
  field_ranges : list ProtobufCIntRange;
  message_init : list (cell D)
}.
Arguments ProtobufCMessageDescriptor : clear implicits.
Arguments mkDescriptor {D}.

Definition message_descriptor {D} (m : message D) : D := let 'Message d _ _ := m in d.
Definition message_members {D} (m : message D) : list (cell D) := let 'Message _ ms _ := m in ms.
Definition message_unknown {D} (m : message D) : list unknown_field := let 'Message _ _ us := m in us.

(** The member at an offset: [k] is what is done with it. *)
Definition at_member {D A} (k : cell D -> outcome A) : list (cell D) -> nat -> outcome A :=
  fix go l o {struct l} :=
    match l, o with
    | c :: _, 1%nat => k c
    | _ :: l', S o' => go l' o'
    | _, _ => Undef
    end.

(** [*(const uint32_t * ) member] and the other ways to read a member. *)
Definition get_int {D} (c : cell D) : outcome Z :=
  match c with Int z => Ok z | Zeroed => Ok 0 | _ => Undef end.
Definition get_str {D} (c : cell D) : outcome cstring :=
  match c with Str p => Ok p | Zeroed => Ok NULL_string | _ => Undef end.
Definition get_bytes {D} (c : cell D) : outcome (Z * option bytes) :=
  match c with Bytes len data => Ok (len, data) | Zeroed => Ok (0, None) | _ => Undef end.
Definition get_arr {D} (c : cell D) : outcome (option (list (cell D))) :=
  match c with Arr p => Ok p | Zeroed => Ok None | _ => Undef end.

(** The bytes of a [ProtobufCBinaryData]. *)
Definition memory (len : Z) (data : option bytes) : outcome bytes :=
  let bs := match data with Some bs => bs | None => [] end in
  if len =? Z.of_nat (List.length bs) then Ok bs else Undef.

(** ** Sizes *)

Definition get_tag_size (number : Z) : Z :=
  if number <? 2 ^ 4 then 1
  else if number <? 2 ^ 11 then 2
  else if number <? 2 ^ 18 then 3
  else if number <? 2 ^ 25 then 4
  else 5.

Definition uint32_size (v : Z) : Z :=
  if v <? 2 ^ 7 then 1
  else if v <? 2 ^ 14 then 2
  else if v <? 2 ^ 21 then 3
  else if v <? 2 ^ 28 then 4
  else 5.

Definition int32_size (v : Z) : Z :=
  if v <? 0 then 10
  else if v <? 2 ^ 7 then 1
  else if v <? 2 ^ 14 then 2
  else if v <? 2 ^ 21 then 3
  else if v <? 2 ^ 28 then 4
  else 5.

(** Of an [int32_t] and an [int64_t]; the right shift is arithmetic. *)
Definition zigzag32 (v : Z) : Z := Z.lxor (wrap32 (Z.shiftl (wrap32 v) 1)) (wrap32 (Z.shiftr v 31)).
Definition zigzag64 (v : Z) : Z := Z.lxor (wrap64 (Z.shiftl (wrap64 v) 1)) (wrap64 (Z.shiftr v 63)).

Definition sint32_size (v : Z) : Z := uint32_size (zigzag32 v).

Definition uint64_size (v : Z) : Z :=
  let upper_v := Z.shiftr v 32 in
  if upper_v =? 0 then uint32_size (wrap32 v)
  else if upper_v <? 2 ^ 3 then 5
  else if upper_v <? 2 ^ 10 then 6
  else if upper_v <? 2 ^ 17 then 7
  else if upper_v <? 2 ^ 24 then 8
  else if upper_v <? 2 ^ 31 then 9
  else 10.

Definition sint64_size (v : Z) : Z := uint64_size (zigzag64 v).

(** ** Writing numbers *)

Definition uint32_pack (value : Z) : bytes :=
  if 128 <=? value then
    byte (Z.lor value 128) ::
    (let value := Z.shiftr value 7 in
     if 128 <=? value then
       byte (Z.lor value 128) ::
       (let value := Z.shiftr value 7 in
        if 128 <=? value then
          byte (Z.lor value 128) ::
          (let value := Z.shiftr value 7 in
           if 128 <=? value then
             byte (Z.lor value 128) :: [byte (Z.shiftr value 7)]
           else [byte value])
        else [byte value])
     else [byte value])
  else [byte value].

Definition int32_pack (value : Z) : bytes :=
  if value <? 0 then
    [byte (Z.lor value 128);
     byte (Z.lor (Z.shiftr value 7) 128);
     byte (Z.lor (Z.shiftr value 14) 128);
     byte (Z.lor (Z.shiftr value 21) 128);
     byte (Z.lor (Z.shiftr value 28) 128);
     byte 255; byte 255; byte 255; byte 255;
     byte 1]
  else uint32_pack value.

Definition sint32_pack (value : Z) : bytes := uint32_pack (zigzag32 value).

(** [while (hi >= 128)]; [hi] has at most 29 bits. *)
Fixpoint uint64_pack_loop (fuel : nat) (hi : Z) : bytes :=
  match fuel with
  | O => [byte hi]
  | S fuel => if 128 <=? hi then byte (Z.lor hi 128) :: uint64_pack_loop fuel (Z.shiftr hi 7) else [byte hi]
  end.

Definition uint64_pack (value : Z) : bytes :=
  let hi := wrap32 (Z.shiftr value 32) in
  let lo := wrap32 value in
  if hi =? 0 then uint32_pack lo
  else
   ([byte (Z.lor lo 128);
     byte (Z.lor (Z.shiftr lo 7) 128);
     byte (Z.lor (Z.shiftr lo 14) 128);
     byte (Z.lor (Z.shiftr lo 21) 128)] ++
    (if hi <? 8 then [byte (Z.lor (Z.shiftl hi 4) (Z.shiftr lo 28))]
     else byte (Z.lor (Z.lor (Z.shiftl (Z.land hi 7) 4) (Z.shiftr lo 28)) 128) ::
          uint64_pack_loop 4 (Z.shiftr hi 3)))%list.

Definition sint64_pack (value : Z) : bytes := uint64_pack (zigzag64 value).

(** The memory of a [uint32_t] or [uint64_t] of a little-endian machine. *)
Fixpoint little_endian (n : nat) (value : Z) : bytes :=
  match n with O => [] | S n => byte value :: little_endian n (Z.shiftr value 8) end.
Definition fixed32_pack (value : Z) : bytes := little_endian 4 value.
Definition fixed64_pack (value : Z) : bytes := little_endian 8 value.

Definition boolean_pack (value : Z) : bytes := [byte (if value =? 0 then 0 else 1)].

(** [len] is converted to [uint32_t] for the prefix. *)
Definition prefixed (bs : bytes) : bytes :=
  (uint32_pack (wrap32 (Z.of_nat (List.length bs))) ++ bs)%list.

Definition string_pack (str : cstring) : bytes :=
  match str with
  | NULL_string => [byte 0]
  | _ => prefixed (list_ascii_of_string (chars str))
  end.

Definition binary_data_pack (bd : Z * option bytes) : outcome bytes :=
  let* bs := memory (fst bd) (snd bd) in Ok (prefixed bs).

Definition tag_pack (id : Z) : bytes :=
  if id <? 2 ^ 29 then uint32_pack (wrap32 (Z.shiftl id 3)) else uint64_pack (Z.shiftl id 3).

(** [out[0] |= wire_type] *)
Definition or_first (bs : bytes) (wire_type : Z) : bytes :=
  match bs with b :: bs => byte (Z.lor (ub b) wire_type) :: bs | [] => [] end.

(** [rv = tag_pack(id, out); out[0] |= wire_type; return rv + ..._pack(..., out + rv)] *)
Definition tagged (id wire_type : Z) (payload : bytes) : bytes :=
  (or_first (tag_pack id) wire_type ++ payload)%list.

(** ** The size of a message *)

Section library.
Context {D : Type}.
Abbreviation message := (message D).
Abbreviation cell := (cell D).
Abbreviation field := (ProtobufCFieldDescriptor D).

(** What a pointer to a descriptor points to. *)
Variable desc : D -> ProtobufCMessageDescriptor D.

(** [&& (field->flags & PROTOBUF_C_FIELD_FLAG_ONEOF)] after the test of the label. *)
Definition is_oneof (f : field) : bool :=
  match label f with
  | PROTOBUF_C_LABEL_OPTIONAL | PROTOBUF_C_LABEL_NONE => PROTOBUF_C_FIELD_FLAG_ONEOF (flags f)
  | _ => false
  end.

(** [ptr == NULL || ptr == field->default_value], for messages and strings. *)
Definition unset_pointer (f : field) (c : cell) : outcome bool :=
  match type f with
  | PROTOBUF_C_TYPE_MESSAGE =>
      match c with Msg (Some _) => Ok false | Msg None | Zeroed => Ok true | _ => Undef end
  | _ =>
      let* p := get_str c in
      Ok (bool_decide (p = NULL_string) || bool_decide (p = default_value f))
  end.
Definition is_pointer (f : field) : bool :=
  match type f with PROTOBUF_C_TYPE_MESSAGE | PROTOBUF_C_TYPE_STRING => true | _ => false end.

Definition field_is_zeroish (f : field) (c : cell) : outcome bool :=
  match type f with
  | PROTOBUF_C_TYPE_BOOL
  | PROTOBUF_C_TYPE_ENUM | PROTOBUF_C_TYPE_SINT32 | PROTOBUF_C_TYPE_INT32
  | PROTOBUF_C_TYPE_UINT32 | PROTOBUF_C_TYPE_SFIXED32 | PROTOBUF_C_TYPE_FIXED32 =>
      let* z := get_int c in Ok (wrap32 z =? 0)
  | PROTOBUF_C_TYPE_SINT64 | PROTOBUF_C_TYPE_INT64 | PROTOBUF_C_TYPE_UINT64
  | PROTOBUF_C_TYPE_SFIXED64 | PROTOBUF_C_TYPE_FIXED64 =>
      let* z := get_int c in Ok (wrap64 z =? 0)
  | PROTOBUF_C_TYPE_FLOAT =>                         (* 0 and -0 are equal *)
      let* z := get_int c in Ok (Z.land (wrap32 z) (2 ^ 31 - 1) =? 0)
  | PROTOBUF_C_TYPE_DOUBLE =>
      let* z := get_int c in Ok (Z.land (wrap64 z) (2 ^ 63 - 1) =? 0)
  | PROTOBUF_C_TYPE_STRING =>
      let* p := get_str c in Ok (bool_decide (p = NULL_string) || String.eqb (chars p) "")
  | PROTOBUF_C_TYPE_BYTES =>                         (* the first word of the struct, [len] *)
      let* bd := get_bytes c in Ok (fst bd =? 0)
  | PROTOBUF_C_TYPE_MESSAGE =>
      match c with Msg (Some _) => Ok false | Msg None | Zeroed => Ok true | _ => Undef end
  end.

(** [for (i = 0; i < count; i++) rv += ...] over an array. *)
Definition sum_array (f : cell -> outcome Z) : nat -> list cell -> outcome Z :=
  fix go count l {struct l} :=
    match count, l with
    | O, _ => Ok 0
    | S count, c :: l => let* n := f c in let* rv := go count l in Ok (n + rv)
    | S _, [] => Undef
    end.

Section sizes.
Variable message_size : message -> outcome Z.

(** [strlen] is written out for a null pointer, which only required members may hold. *)
Definition required_field_get_packed_size (f : field) (c : cell) : outcome Z :=
  let rv := get_tag_size (id f) in
  match type f with
  | PROTOBUF_C_TYPE_SINT32 => let* z := get_int c in Ok (rv + sint32_size (signed32 z))
  | PROTOBUF_C_TYPE_ENUM | PROTOBUF_C_TYPE_INT32 => let* z := get_int c in Ok (rv + int32_size (signed32 z))
  | PROTOBUF_C_TYPE_UINT32 => let* z := get_int c in Ok (rv + uint32_size (wrap32 z))
  | PROTOBUF_C_TYPE_SINT64 => let* z := get_int c in Ok (rv + sint64_size (signed64 z))
  | PROTOBUF_C_TYPE_INT64 | PROTOBUF_C_TYPE_UINT64 => let* z := get_int c in Ok (rv + uint64_size (wrap64 z))
  | PROTOBUF_C_TYPE_SFIXED32 | PROTOBUF_C_TYPE_FIXED32 => Ok (rv + 4)
  | PROTOBUF_C_TYPE_SFIXED64 | PROTOBUF_C_TYPE_FIXED64 => Ok (rv + 8)
  | PROTOBUF_C_TYPE_BOOL => Ok (rv + 1)
  | PROTOBUF_C_TYPE_FLOAT => Ok (rv + 4)
  | PROTOBUF_C_TYPE_DOUBLE => Ok (rv + 8)
  | PROTOBUF_C_TYPE_STRING =>
      let* str := get_str c in
      let len := Z.of_nat (String.length (chars str)) in
      Ok (rv + uint32_size (wrap32 len) + len)
  | PROTOBUF_C_TYPE_BYTES => let* bd := get_bytes c in Ok (rv + uint32_size (wrap32 (fst bd)) + fst bd)
  | PROTOBUF_C_TYPE_MESSAGE =>
      let* subrv := match c with Msg (Some msg) => message_size msg | Msg None | Zeroed => Ok 0 | _ => Undef end in
      Ok (rv + uint32_size (wrap32 subrv) + subrv)
  end.

Definition oneof_field_get_packed_size (f : field) (oneof_case : Z) (c : cell) : outcome Z :=
  if negb (oneof_case =? id f) then Ok 0
  else
    let* unset := if is_pointer f then unset_pointer f c else Ok false in
    if unset then Ok 0 else required_field_get_packed_size f c.

Definition optional_field_get_packed_size (f : field) (has : outcome Z) (c : cell) : outcome Z :=
  let* unset := if is_pointer f then unset_pointer f c else let* h := has in Ok (h =? 0) in
  if unset then Ok 0 else required_field_get_packed_size f c.

Definition unlabeled_field_get_packed_size (f : field) (c : cell) : outcome Z :=
  let* zeroish := field_is_zeroish f c in
  if zeroish then Ok 0 else required_field_get_packed_size f c.

(** The size of an element of an array, without its tag. *)
Definition element_size (f : field) (c : cell) : outcome Z :=
  match type f with
  | PROTOBUF_C_TYPE_SINT32 => let* z := get_int c in Ok (sint32_size (signed32 z))
  | PROTOBUF_C_TYPE_ENUM | PROTOBUF_C_TYPE_INT32 => let* z := get_int c in Ok (int32_size (signed32 z))
  | PROTOBUF_C_TYPE_UINT32 => let* z := get_int c in Ok (uint32_size (wrap32 z))
  | PROTOBUF_C_TYPE_SINT64 => let* z := get_int c in Ok (sint64_size (signed64 z))
  | PROTOBUF_C_TYPE_INT64 | PROTOBUF_C_TYPE_UINT64 => let* z := get_int c in Ok (uint64_size (wrap64 z))
  | PROTOBUF_C_TYPE_SFIXED32 | PROTOBUF_C_TYPE_FIXED32 | PROTOBUF_C_TYPE_FLOAT => Ok 4
  | PROTOBUF_C_TYPE_SFIXED64 | PROTOBUF_C_TYPE_FIXED64 | PROTOBUF_C_TYPE_DOUBLE => Ok 8
  | PROTOBUF_C_TYPE_BOOL => Ok 1
  | PROTOBUF_C_TYPE_STRING =>
      let* str := get_str c in
      let len := Z.of_nat (String.length (chars str)) in
      if bool_decide (str = NULL_string) then Undef else Ok (uint32_size (wrap32 len) + len)
  | PROTOBUF_C_TYPE_BYTES => let* bd := get_bytes c in Ok (uint32_size (wrap32 (fst bd)) + fst bd)
  | PROTOBUF_C_TYPE_MESSAGE =>
      match c with
      | Msg (Some msg) => let* len := message_size msg in Ok (uint32_size (wrap32 len) + len)
      | _ => Undef
      end
  end.

Definition repeated_field_get_packed_size (f : field) (count : Z) (c : cell) : outcome Z :=
  if count =? 0 then Ok 0
  else
    let packed := PROTOBUF_C_FIELD_FLAG_PACKED (flags f) in
    let header_size := get_tag_size (id f) in
    let header_size := if packed then header_size else header_size * count in
    let* rv :=
      match c with
      | Arr (Some array) => sum_array (element_size f) (Z.to_nat count) array
      | _ => Undef
      end in
    let header_size := if packed then header_size + uint32_size (wrap32 rv) else header_size in
    Ok (header_size + rv).
End sizes.

Definition unknown_field_get_packed_size (u : unknown_field) : Z :=
  get_tag_size (u_tag u) + Z.of_nat (List.length (u_data u)).

(** [for (i = 0; i < n_fields; i++) rv += ...] *)
Definition sum_fields (size : field -> outcome Z) : list field -> outcome Z :=
  fix go fs :=
    match fs with
    | [] => Ok 0
    | f :: fs => let* n := size f in let* rv := go fs in Ok (n + rv)
    end.

Fixpoint protobuf_c_message_get_packed_size (m : message) : outcome Z :=
  let 'Message d members unknown_fields := m in
  let* rv :=
    sum_fields (fun f =>
      let qmember := at_member get_int members (quantifier_offset f) in
      at_member (fun c =>
        match label f with
        | PROTOBUF_C_LABEL_REQUIRED =>
            required_field_get_packed_size protobuf_c_message_get_packed_size f c
        | PROTOBUF_C_LABEL_REPEATED =>
            let* count := qmember in
            repeated_field_get_packed_size protobuf_c_message_get_packed_size f count c
        | l =>
            if is_oneof f then
              let* oneof_case := qmember in
              oneof_field_get_packed_size protobuf_c_message_get_packed_size f oneof_case c
            else if match l with PROTOBUF_C_LABEL_OPTIONAL => true | _ => false end then
              optional_field_get_packed_size protobuf_c_message_get_packed_size f qmember c
            else unlabeled_field_get_packed_size protobuf_c_message_get_packed_size f c
        end) members (offset f)) (fields (desc d)) in
  Ok (rv + foldr (fun u n => unknown_field_get_packed_size u + n) 0 unknown_fields).

(** ** Packing *)

Section packing.
Variable message_pack : message -> outcome bytes.

(** The message is packed one byte behind [out], and moved when its length takes more
    than the one byte. *)
Definition prefixed_message_pack (c : cell) : outcome bytes :=
  match c with
  | Msg (Some msg) => let* bs := message_pack msg in Ok (prefixed bs)
  | Msg None | Zeroed => Ok [byte 0]
  | _ => Undef
  end.

Definition required_field_pack (f : field) (c : cell) : outcome bytes :=
  match type f with
  | PROTOBUF_C_TYPE_SINT32 =>
      let* z := get_int c in Ok (tagged (id f) PROTOBUF_C_WIRE_TYPE_VARINT (sint32_pack (signed32 z)))
  | PROTOBUF_C_TYPE_ENUM | PROTOBUF_C_TYPE_INT32 =>
      let* z := get_int c in Ok (tagged (id f) PROTOBUF_C_WIRE_TYPE_VARINT (int32_pack (signed32 z)))
  | PROTOBUF_C_TYPE_UINT32 =>
      let* z := get_int c in Ok (tagged (id f) PROTOBUF_C_WIRE_TYPE_VARINT (uint32_pack (wrap32 z)))
  | PROTOBUF_C_TYPE_SINT64 =>
      let* z := get_int c in Ok (tagged (id f) PROTOBUF_C_WIRE_TYPE_VARINT (sint64_pack (signed64 z)))
  | PROTOBUF_C_TYPE_INT64 | PROTOBUF_C_TYPE_UINT64 =>
      let* z := get_int c in Ok (tagged (id f) PROTOBUF_C_WIRE_TYPE_VARINT (uint64_pack (wrap64 z)))
  | PROTOBUF_C_TYPE_SFIXED32 | PROTOBUF_C_TYPE_FIXED32 | PROTOBUF_C_TYPE_FLOAT =>
      let* z := get_int c in Ok (tagged (id f) PROTOBUF_C_WIRE_TYPE_32BIT (fixed32_pack (wrap32 z)))
  | PROTOBUF_C_TYPE_SFIXED64 | PROTOBUF_C_TYPE_FIXED64 | PROTOBUF_C_TYPE_DOUBLE =>
      let* z := get_int c in Ok (tagged (id f) PROTOBUF_C_WIRE_TYPE_64BIT (fixed64_pack (wrap64 z)))
  | PROTOBUF_C_TYPE_BOOL =>
      let* z := get_int c in Ok (tagged (id f) PROTOBUF_C_WIRE_TYPE_VARINT (boolean_pack z))
  | PROTOBUF_C_TYPE_STRING =>
      let* str := get_str c in Ok (tagged (id f) PROTOBUF_C_WIRE_TYPE_LENGTH_PREFIXED (string_pack str))
  | PROTOBUF_C_TYPE_BYTES =>
      let* bd := get_bytes c in
      let* bs := binary_data_pack bd in
      Ok (tagged (id f) PROTOBUF_C_WIRE_TYPE_LENGTH_PREFIXED bs)
  | PROTOBUF_C_TYPE_MESSAGE =>
      let* bs := prefixed_message_pack c in
      Ok (tagged (id f) PROTOBUF_C_WIRE_TYPE_LENGTH_PREFIXED bs)
  end.

Definition oneof_field_pack (f : field) (oneof_case : Z) (c : cell) : outcome bytes :=
  if negb (oneof_case =? id f) then Ok []
  else
    let* unset := if is_pointer f then unset_pointer f c else Ok false in
    if unset then Ok [] else required_field_pack f c.

Definition optional_field_pack (f : field) (has : outcome Z) (c : cell) : outcome bytes :=
  let* unset := if is_pointer f then unset_pointer f c else let* h := has in Ok (h =? 0) in
  if unset then Ok [] else required_field_pack f c.

Definition unlabeled_field_pack (f : field) (c : cell) : outcome bytes :=
  let* zeroish := field_is_zeroish f c in
  if zeroish then Ok [] else required_field_pack f c.

Definition get_type_min_size (t : ProtobufCType) : Z :=
  match t with
  | PROTOBUF_C_TYPE_SFIXED32 | PROTOBUF_C_TYPE_FIXED32 | PROTOBUF_C_TYPE_FLOAT => 4
  | PROTOBUF_C_TYPE_SFIXED64 | PROTOBUF_C_TYPE_FIXED64 | PROTOBUF_C_TYPE_DOUBLE => 8
  | _ => 1
  end.

(** One element of a packed array. *)
Definition packed_element (f : field) (c : cell) : outcome bytes :=
  match type f with
  | PROTOBUF_C_TYPE_SFIXED32 | PROTOBUF_C_TYPE_FIXED32 | PROTOBUF_C_TYPE_FLOAT =>
      let* z := get_int c in Ok (fixed32_pack (wrap32 z))
  | PROTOBUF_C_TYPE_SFIXED64 | PROTOBUF_C_TYPE_FIXED64 | PROTOBUF_C_TYPE_DOUBLE =>
      let* z := get_int c in Ok (fixed64_pack (wrap64 z))
  | PROTOBUF_C_TYPE_ENUM | PROTOBUF_C_TYPE_INT32 => let* z := get_int c in Ok (int32_pack (signed32 z))
  | PROTOBUF_C_TYPE_SINT32 => let* z := get_int c in Ok (sint32_pack (signed32 z))
  | PROTOBUF_C_TYPE_SINT64 => let* z := get_int c in Ok (sint64_pack (signed64 z))
  | PROTOBUF_C_TYPE_UINT32 => let* z := get_int c in Ok (uint32_pack (wrap32 z))
  | PROTOBUF_C_TYPE_INT64 | PROTOBUF_C_TYPE_UINT64 => let* z := get_int c in Ok (uint64_pack (wrap64 z))
  | PROTOBUF_C_TYPE_BOOL => let* z := get_int c in Ok (boolean_pack z)
  | _ => Undef                                       (* PROTOBUF_C__ASSERT_NOT_REACHED() *)
  end.

(** [for (i = 0; i < count; i++) rv += ..._pack(array[i], out + rv)] *)
Definition pack_array (pack : cell -> outcome bytes) : nat -> list cell -> outcome bytes :=
  fix go count l {struct l} :=
    match count, l with
    | O, _ => Ok []
    | S count, c :: l => let* bs := pack c in let* rv := go count l in Ok (bs ++ rv)%list
    | S _, [] => Undef
    end.

(** The array as the member holds it; with no elements it is not looked at. *)
Definition with_array {A} (k : list cell -> outcome A) (c : cell) : outcome A :=
  match c with Arr (Some array) => k array | Arr None | Zeroed => k [] | _ => Undef end.

(** The payload of a packed array is written where it starts if the length takes as many
    bytes as for elements of the smallest size; if it takes one more the payload is moved,
    and more than that the code takes for impossible.  [payload_len] is an [unsigned]. *)
Definition repeated_field_pack (f : field) (count : Z) (c : cell) : outcome bytes :=
  if PROTOBUF_C_FIELD_FLAG_PACKED (flags f) then
    if count =? 0 then Ok []
    else
      let* payload := with_array (pack_array (packed_element f) (Z.to_nat count)) c in
      let payload_len := wrap32 (Z.of_nat (List.length payload)) in
      let length_size_min := uint32_size (wrap32 (get_type_min_size (type f) * count)) in
      let actual_length_size := uint32_size payload_len in
      if (length_size_min =? actual_length_size) || (actual_length_size =? length_size_min + 1)
      then Ok (tagged (id f) PROTOBUF_C_WIRE_TYPE_LENGTH_PREFIXED (uint32_pack payload_len ++ payload)%list)
      else Undef                                     (* assert *)
  else with_array (pack_array (required_field_pack f) (Z.to_nat count)) c.
End packing.

Definition unknown_field_pack (u : unknown_field) : bytes :=
  tagged (u_tag u) (u_wire_type u) (u_data u).

Definition pack_fields (pack : field -> outcome bytes) : list field -> outcome bytes :=
  fix go fs :=
    match fs with
    | [] => Ok []
    | f :: fs => let* bs := pack f in let* rv := go fs in Ok (bs ++ rv)%list
    end.

Fixpoint protobuf_c_message_pack (m : message) : outcome bytes :=
  let 'Message d members unknown_fields := m in
  let* rv :=
    pack_fields (fun f =>
      let qmember := at_member get_int members (quantifier_offset f) in
      at_member (fun c =>
        match label f with
        | PROTOBUF_C_LABEL_REQUIRED => required_field_pack protobuf_c_message_pack f c
        | PROTOBUF_C_LABEL_REPEATED =>
            let* count := qmember in repeated_field_pack protobuf_c_message_pack f count c
        | l =>
            if is_oneof f then
              let* oneof_case := qmember in oneof_field_pack protobuf_c_message_pack f oneof_case c
            else if match l with PROTOBUF_C_LABEL_OPTIONAL => true | _ => false end then
              optional_field_pack protobuf_c_message_pack f qmember c
            else unlabeled_field_pack protobuf_c_message_pack f c
        end) members (offset f)) (fields (desc d)) in
  Ok (rv ++ List.concat (map unknown_field_pack unknown_fields))%list.
(** ** Reading numbers *)

(** [ranges[i]] *)
Definition range_at (ranges : list ProtobufCIntRange) (i : Z) : outcome ProtobufCIntRange :=
  if i <? 0 then Undef
  else match ranges !! Z.to_nat i with Some r => Ok r | None => Undef end.

(** [while (n > 1)]; [n] gets smaller in every round. *)
Fixpoint range_loop (fuel : nat) (ranges : list ProtobufCIntRange) (value start n : Z) : outcome (Z + Z * Z) :=
  match fuel with
  | O => Undef
  | S fuel =>
      if n <=? 1 then Ok (inr (start, n))
      else
        let mid := start + n / 2 in
        let* r := range_at ranges mid in
        if value <? start_value r then range_loop fuel ranges value start (mid - start)
        else
          let* r' := range_at ranges (mid + 1) in
          if start_value r + (orig_index r' - orig_index r) <=? value then
            let new_start := mid + 1 in
            range_loop fuel ranges value new_start (start + n - new_start)
          else Ok (inl (value - start_value r + orig_index r))
  end.

(** [n_ranges] is the length of the array without its last element. *)
Definition int_range_lookup (ranges : list ProtobufCIntRange) (value : Z) : outcome Z :=
  let n_ranges := Z.of_nat (List.length ranges) - 1 in
  if n_ranges <=? 0 then Ok (-1)
  else
    let* found := range_loop (List.length ranges) ranges value 0 n_ranges in
    match found with
    | inl i => Ok i
    | inr (start, n) =>
        if 0 <? n then
          let* r := range_at ranges start in
          let* r' := range_at ranges (start + 1) in
          let range_size := orig_index r' - orig_index r in
          if (start_value r <=? value) && (value <? start_value r + range_size)
          then Ok (value - start_value r + orig_index r)
          else Ok (-1)
        else Ok (-1)
    end.

(** [for (rv = 1; rv < max_rv; rv++)] *)
Fixpoint tag_loop (rounds : nat) (data : bytes) (rv : nat) (tag shift : Z) : outcome (option (nat * Z)) :=
  match rounds with
  | O => Ok None
  | S rounds =>
      let* b := at_ data rv in
      if Z.testbit b 7 then
        tag_loop rounds data (S rv) (wrap32 (Z.lor tag (Z.shiftl (Z.land b 127) shift))) (shift + 7)
      else Ok (Some (S rv, wrap32 (Z.lor tag (Z.shiftl b shift))))
  end.

(** The number of bytes read, the tag and the wire type; [None] is the return of 0. *)
Definition parse_tag_and_wiretype (data : bytes) : outcome (option (nat * Z * Z)) :=
  let max_rv := Nat.min (List.length data) 5 in
  let* b := at_ data 0 in
  let tag := Z.shiftr (Z.land b 127) 3 in
  if Z.land b 248 =? 0 then Ok None
  else
    let wiretype := Z.land b 7 in
    if negb (Z.testbit b 7) then Ok (Some (1%nat, tag, wiretype))
    else
      let* r := tag_loop (max_rv - 1) data 1 tag 4 in
      match r with
      | Some (rv, tag) => Ok (Some (rv, tag, wiretype))
      | None => Ok None
      end.

(** [for (i = 0; i < hdr_max; i++)]: the index at the end and the value. *)
Fixpoint prefix_loop (rounds : nat) (data : bytes) (i : nat) (val shift : Z) : outcome (nat * Z) :=
  match rounds with
  | O => Ok (i, val)
  | S rounds =>
      let* b := at_ data i in
      let val := Z.lor val (Z.shiftl (Z.land b 127) shift) in
      if negb (Z.testbit b 7) then Ok (i, val) else prefix_loop rounds data (S i) val (shift + 7)
  end.

(** The length with the prefix, and the length of the prefix; [None] is an error. *)
Definition scan_length_prefixed_data (data : bytes) : outcome (option (nat * nat)) :=
  let len := List.length data in
  let hdr_max := Nat.min len 5 in
  let* r := prefix_loop hdr_max data 0 0 0 in
  let '(i, val) := r in
  if (i =? hdr_max)%nat then Ok None
  else
    let hdr_len := S i in
    if INT_MAX <? val then Ok None
    else if Z.of_nat len <? Z.of_nat hdr_len + val then Ok None
    else Ok (Some ((hdr_len + Z.to_nat val)%nat, hdr_len)).

Fixpoint max_b128_numbers (data : bytes) : Z :=
  match data with
  | [] => 0
  | b :: data => (if Z.testbit (ub b) 7 then 0 else 1) + max_b128_numbers data
  end.

Definition count_packed_elements (t : ProtobufCType) (data : bytes) : option Z :=
  let len := Z.of_nat (List.length data) in
  match t with
  | PROTOBUF_C_TYPE_SFIXED32 | PROTOBUF_C_TYPE_FIXED32 | PROTOBUF_C_TYPE_FLOAT =>
      if negb (len mod 4 =? 0) then None else Some (len / 4)
  | PROTOBUF_C_TYPE_SFIXED64 | PROTOBUF_C_TYPE_FIXED64 | PROTOBUF_C_TYPE_DOUBLE =>
      if negb (len mod 8 =? 0) then None else Some (len / 8)
  | PROTOBUF_C_TYPE_ENUM | PROTOBUF_C_TYPE_INT32 | PROTOBUF_C_TYPE_SINT32 | PROTOBUF_C_TYPE_UINT32
  | PROTOBUF_C_TYPE_INT64 | PROTOBUF_C_TYPE_SINT64 | PROTOBUF_C_TYPE_UINT64 => Some (max_b128_numbers data)
  | PROTOBUF_C_TYPE_BOOL => Some len
  | PROTOBUF_C_TYPE_STRING | PROTOBUF_C_TYPE_BYTES | PROTOBUF_C_TYPE_MESSAGE => None
  end.

Definition parse_uint32 (len : nat) (data : bytes) : outcome Z :=
  let* b0 := at_ data 0 in
  let rv := Z.land b0 127 in
  if (len <=? 1)%nat then Ok rv
  else
    let* b1 := at_ data 1 in
    let rv := Z.lor rv (Z.shiftl (Z.land b1 127) 7) in
    if (len <=? 2)%nat then Ok rv
    else
      let* b2 := at_ data 2 in
      let rv := Z.lor rv (Z.shiftl (Z.land b2 127) 14) in
      if (len <=? 3)%nat then Ok rv
      else
        let* b3 := at_ data 3 in
        let rv := Z.lor rv (Z.shiftl (Z.land b3 127) 21) in
        if (len <=? 4)%nat then Ok rv
        else
          let* b4 := at_ data 4 in
          Ok (wrap32 (Z.lor rv (Z.shiftl b4 28))).

Definition parse_int32 (len : nat) (data : bytes) : outcome Z := parse_uint32 len data.

(** Of a [uint32_t] and a [uint64_t]. *)
Definition unzigzag32 (v : Z) : Z := signed32 (Z.lxor (Z.shiftr v 1) (wrap32 (Z.lnot (Z.land v 1) + 1))).
Definition unzigzag64 (v : Z) : Z := signed64 (Z.lxor (Z.shiftr v 1) (wrap64 (Z.lnot (Z.land v 1) + 1))).

(** The value in memory that [memcpy] copies. *)
Fixpoint from_little_endian (n : nat) (data : bytes) : outcome Z :=
  match n with
  | O => Ok 0
  | S n => let* b := at_ data 0 in let* v := from_little_endian n (drop 1 data) in Ok (b + 256 * v)
  end.
Definition parse_fixed_uint32 (data : bytes) : outcome Z := from_little_endian 4 data.
Definition parse_fixed_uint64 (data : bytes) : outcome Z := from_little_endian 8 data.

(** [for (i = 4; i < len; i++)] *)
Fixpoint uint64_loop (rounds : nat) (data : bytes) (i : nat) (rv shift : Z) : outcome Z :=
  match rounds with
  | O => Ok rv
  | S rounds =>
      let* b := at_ data i in
      uint64_loop rounds data (S i) (wrap64 (Z.lor rv (Z.shiftl (Z.land b 127) shift))) (shift + 7)
  end.

Definition parse_uint64 (len : nat) (data : bytes) : outcome Z :=
  if (len <? 5)%nat then parse_uint32 len data
  else
    let* b0 := at_ data 0 in
    let* b1 := at_ data 1 in
    let* b2 := at_ data 2 in
    let* b3 := at_ data 3 in
    let rv := Z.lor (Z.lor (Z.lor (Z.land b0 127) (Z.shiftl (Z.land b1 127) 7))
                      (Z.shiftl (Z.land b2 127) 14)) (Z.shiftl (Z.land b3 127) 21) in
    uint64_loop (len - 4) data 4 rv 28.

(** [for (i = 0; i < len; i++)], on the [len] bytes of [data]. *)
Fixpoint parse_boolean (data : bytes) : Z :=
  match data with
  | [] => 0
  | b :: data => if Z.land (ub b) 127 =? 0 then parse_boolean data else 1
  end.

(** [for (i = 0; i < len; i++) if ((data[i] & 0x80) == 0) break;] *)
Fixpoint varint_loop (rounds : nat) (data : bytes) (i : nat) : outcome nat :=
  match rounds with
  | O => Ok i
  | S rounds =>
      let* b := at_ data i in if negb (Z.testbit b 7) then Ok i else varint_loop rounds data (S i)
  end.

(** The length of a varint, 0 if it does not end. *)
Definition scan_varint (data : bytes) : outcome nat :=
  let len := Nat.min (List.length data) 10 in
  let* i := varint_loop len data 0 in
  Ok (if (i =? len)%nat then O else S i).

Definition is_packable_type (t : ProtobufCType) : bool :=
  match t with
  | PROTOBUF_C_TYPE_STRING | PROTOBUF_C_TYPE_BYTES | PROTOBUF_C_TYPE_MESSAGE => false
  | _ => true
  end.
(** ** Merging *)

(** The members of a struct in memory. *)
Definition member (members : list cell) (o : nat) : outcome cell := at_member Ok members o.
Definition set_member (members : list cell) (o : nat) (c : cell) : outcome (list cell) :=
  match o with
  | S o' => if (o' <? List.length members)%nat then Ok (<[o' := c]> members) else Undef
  | O => Undef
  end.

(** The [n] elements of an array. *)
Definition array_elements (n : Z) (arr : option (list cell)) : outcome (list cell) :=
  let l := match arr with Some l => l | None => [] end in
  if n <=? Z.of_nat (List.length l) then Ok (take (Z.to_nat n) l) else Undef.

(** The two structs, while they are merged. *)
Definition merging : Type := list cell * list cell.

(** A repeated member. *)
Definition merge_repeated (f : field) (s : merging) : outcome merging :=
  let '(earlier, latter) := s in
  let* n_earlier := at_member get_int earlier (quantifier_offset f) in
  let* n_latter := at_member get_int latter (quantifier_offset f) in
  if n_earlier <=? 0 then Ok s
  else
    let* p_earlier := at_member get_arr earlier (offset f) in
    let* p_latter := at_member get_arr latter (offset f) in
    let* latter :=
      if 0 <? n_latter then
        let* l := array_elements n_earlier p_earlier in
        let* l' := array_elements n_latter p_latter in
        let* latter := set_member latter (offset f) (Arr (Some (l ++ l')%list)) in
        set_member latter (quantifier_offset f) (Int (n_earlier + n_latter))
      else
        let* latter := set_member latter (quantifier_offset f) (Int n_earlier) in
        set_member latter (offset f) (Arr p_earlier) in
    let* earlier := set_member earlier (quantifier_offset f) (Int 0) in
    let* earlier := set_member earlier (offset f) (Arr None) in
    Ok (earlier, latter).

(** The field to look at, [None] if there is nothing to do; [inr tt] is the return of
    FALSE. *)
Definition merge_field (d : D) (f : field) (s : merging) : outcome (option field + unit) :=
  if PROTOBUF_C_FIELD_FLAG_ONEOF (flags f) then
    let* latter_case := at_member get_int (snd s) (quantifier_offset f) in
    if latter_case =? 0 then
      let* earlier_case := at_member get_int (fst s) (quantifier_offset f) in
      let* field_index := int_range_lookup (field_ranges (desc d)) (signed32 earlier_case) in
      if field_index <? 0 then Ok (inr tt)
      else match fields (desc d) !! Z.to_nat field_index with
           | Some f' => Ok (inl (Some f'))
           | None => Undef
           end
    else Ok (inl None)
  else Ok (inl (Some f)).

(** [need_to_merge] for members that are not messages.  Without a quantifier the words
    compared at offset 0 are of the pointer to the descriptor, the same in both messages:
    not both tests hold. *)
Definition need_to_merge (f : field) (q : nat) (s : merging) (earlier_elem latter_elem : cell) : outcome bool :=
  match type f with
  | PROTOBUF_C_TYPE_BYTES =>
      let* e := get_bytes earlier_elem in
      let* l := get_bytes latter_elem in
      Ok (bool_decide (snd e <> None) && bool_decide (snd l = None))
  | PROTOBUF_C_TYPE_STRING =>
      let* e_str := get_str earlier_elem in
      let* l_str := get_str latter_elem in
      Ok (negb (bool_decide (e_str = default_value f)) && bool_decide (l_str = default_value f))
  | _ =>
      match q with
      | O => Ok false
      | _ =>
          let* earlier_case := at_member get_int (fst s) q in
          let* latter_case := at_member get_int (snd s) q in
          Ok (negb (earlier_case =? 0) && (latter_case =? 0))
      end
  end.

(** [if (need_to_merge)]; [q] is the quantifier of the field of the loop. *)
Definition move_member (f : field) (q : nat) (s : merging) (earlier_elem : cell) : outcome merging :=
  let* latter := set_member (snd s) (offset f) earlier_elem in
  let* earlier := set_member (fst s) (offset f) Zeroed in
  match quantifier_offset f with
  | O => Ok (earlier, latter)
  | _ =>
      let* earlier_case := at_member get_int earlier q in
      let* latter := set_member latter q (Int earlier_case) in
      let* earlier := set_member earlier q (Int 0) in
      Ok (earlier, latter)
  end.

(** The loop over the fields; [None] is the return of FALSE. *)
Definition merge_loop (step : field -> merging -> outcome (option merging)) :
    list field -> merging -> outcome (option merging) :=
  fix go fs s :=
    match fs with
    | [] => Ok (Some s)
    | f :: fs =>
        let* r := step f s in
        match r with Some s => go fs s | None => Ok None end
    end.

Section merge_step.
Variable merge_messages : message -> message -> outcome (option (message * message)).

Definition merge_member (d : D) (f : field) (s : merging) : outcome (option merging) :=
  match label f with
  | PROTOBUF_C_LABEL_REPEATED => let* s := merge_repeated f s in Ok (Some s)
  | PROTOBUF_C_LABEL_REQUIRED => Ok (Some s)
  | _ =>
      let* found := merge_field d f s in
      match found with
      | inr _ => Ok None
      | inl None => Ok (Some s)
      | inl (Some f') =>
          let* earlier_elem := member (fst s) (offset f') in
          let* latter_elem := member (snd s) (offset f') in
          match type f' with
          | PROTOBUF_C_TYPE_MESSAGE =>
              match earlier_elem, latter_elem with
              | Msg (Some em), Msg (Some lm) =>
                  let* r := merge_messages em lm in
                  match r with
                  | None => Ok None
                  | Some (em, lm) =>
                      let* earlier := set_member (fst s) (offset f') (Msg (Some em)) in
                      let* latter := set_member (snd s) (offset f') (Msg (Some lm)) in
                      Ok (Some (earlier, latter))
                  end
              | Msg (Some _), (Msg None | Zeroed) =>
                  let* s := move_member f' (quantifier_offset f) s earlier_elem in Ok (Some s)
              | (Msg None | Zeroed), (Msg _ | Zeroed) => Ok (Some s)
              | _, _ => Undef
              end
          | _ =>
              let* need := need_to_merge f' (quantifier_offset f) s earlier_elem latter_elem in
              if need then let* s := move_member f' (quantifier_offset f) s earlier_elem in Ok (Some s)
              else Ok (Some s)
          end
      end
  end.
End merge_step.

(** The two messages after the call; both are of the type of [latter_msg]. *)
Fixpoint merge_messages (depth : nat) (earlier_msg latter_msg : message) : outcome (option (message * message)) :=
  match depth with
  | O => Undef
  | S depth =>
      let 'Message d1 earlier u1 := earlier_msg in
      let 'Message d latter u := latter_msg in
      let* r := merge_loop (merge_member (merge_messages depth) d) (fields (desc d)) (earlier, latter) in
      match r with
      | None => Ok None
      | Some (earlier, latter) => Ok (Some (Message d1 earlier u1, Message d latter u))
      end
  end.

(** The nesting of a message, which bounds that of the calls. *)
Fixpoint message_depth (m : message) : nat :=
  let 'Message _ members _ := m in S (foldr (fun c n => Nat.max (cell_depth c) n) O members)
with cell_depth (c : cell) : nat :=
  match c with
  | Msg (Some m) => message_depth m
  | Arr (Some l) => foldr (fun c n => Nat.max (cell_depth c) n) O l
  | _ => O
  end.
(** ** Unpacking *)

(** [data] has the [len] bytes of the member, with the prefix of its length. *)
Record ScannedMember : Type := mkScanned {
  tag : Z;
  wire_type : Z;
  length_prefix_len : nat;
  sm_field : option field;
  data : bytes
}.

Definition sm_len (sm : ScannedMember) : nat := List.length (data sm).
Definition sm_payload (sm : ScannedMember) : bytes := drop (length_prefix_len sm) (data sm).

(** The message that is filled: its members, the unknown fields read so far, and for how
    many there is room. *)
Record filling : Type := mkFilling {
  members : list cell;
  unknown_fields : list unknown_field;
  room : nat
}.
Definition set_members (st : filling) (ms : list cell) : filling :=
  mkFilling ms (unknown_fields st) (room st).

Section parsing.
(** [protobuf_c_message_unpack] on the payload of a member; [None] is the null pointer. *)
Variable message_unpack : D -> bytes -> outcome (option message).

(** The new contents of the member; [None] is the return of FALSE.  [maybe_clear] says
    that the member has contents, which are freed, or merged if they are a message. *)
Definition parse_required_member (sm : ScannedMember) (f : field) (c : cell) (maybe_clear : bool) :
    outcome (option cell) :=
  let len := sm_len sm in
  let wire t (r : outcome cell) := if wire_type sm =? t then let* c := r in Ok (Some c) else Ok None in
  match type f with
  | PROTOBUF_C_TYPE_ENUM | PROTOBUF_C_TYPE_INT32 =>
      wire PROTOBUF_C_WIRE_TYPE_VARINT (let* z := parse_int32 len (data sm) in Ok (Int (signed32 z)))
  | PROTOBUF_C_TYPE_UINT32 =>
      wire PROTOBUF_C_WIRE_TYPE_VARINT (let* z := parse_uint32 len (data sm) in Ok (Int z))
  | PROTOBUF_C_TYPE_SINT32 =>
      wire PROTOBUF_C_WIRE_TYPE_VARINT (let* z := parse_uint32 len (data sm) in Ok (Int (unzigzag32 z)))
  | PROTOBUF_C_TYPE_SFIXED32 =>
      wire PROTOBUF_C_WIRE_TYPE_32BIT (let* z := parse_fixed_uint32 (data sm) in Ok (Int (signed32 z)))
  | PROTOBUF_C_TYPE_FIXED32 | PROTOBUF_C_TYPE_FLOAT =>
      wire PROTOBUF_C_WIRE_TYPE_32BIT (let* z := parse_fixed_uint32 (data sm) in Ok (Int z))
  | PROTOBUF_C_TYPE_INT64 =>
      wire PROTOBUF_C_WIRE_TYPE_VARINT (let* z := parse_uint64 len (data sm) in Ok (Int (signed64 z)))
  | PROTOBUF_C_TYPE_UINT64 =>
      wire PROTOBUF_C_WIRE_TYPE_VARINT (let* z := parse_uint64 len (data sm) in Ok (Int z))
  | PROTOBUF_C_TYPE_SINT64 =>
      wire PROTOBUF_C_WIRE_TYPE_VARINT (let* z := parse_uint64 len (data sm) in Ok (Int (unzigzag64 z)))
  | PROTOBUF_C_TYPE_SFIXED64 =>
      wire PROTOBUF_C_WIRE_TYPE_64BIT (let* z := parse_fixed_uint64 (data sm) in Ok (Int (signed64 z)))
  | PROTOBUF_C_TYPE_FIXED64 | PROTOBUF_C_TYPE_DOUBLE =>
      wire PROTOBUF_C_WIRE_TYPE_64BIT (let* z := parse_fixed_uint64 (data sm) in Ok (Int z))
  | PROTOBUF_C_TYPE_BOOL => Ok (Some (Int (parse_boolean (data sm))))     (* any wire type *)
  | PROTOBUF_C_TYPE_STRING =>
      wire PROTOBUF_C_WIRE_TYPE_LENGTH_PREFIXED
        (let* _ := if maybe_clear then get_str c else Ok NULL_string in
         Ok (Str (heap_string (c_string (string_of_list_ascii (sm_payload sm))))))
  | PROTOBUF_C_TYPE_BYTES =>
      wire PROTOBUF_C_WIRE_TYPE_LENGTH_PREFIXED
        (let* _ := if maybe_clear then get_bytes c else Ok (0, None) in
         let bs := sm_payload sm in
         Ok (Bytes (Z.of_nat (List.length bs))
               (if (length_prefix_len sm <? len)%nat then Some bs else None)))
  | PROTOBUF_C_TYPE_MESSAGE =>
      if negb (wire_type sm =? PROTOBUF_C_WIRE_TYPE_LENGTH_PREFIXED) then Ok None
      else
        match descriptor f with
        | None => Undef
        | Some d =>
            let* subm := message_unpack d (sm_payload sm) in
            let* before :=
              if maybe_clear then match c with Msg p => Ok p | Zeroed => Ok None | _ => Undef end else Ok None in
            match subm, before with
            | None, _ => Ok None
            | Some subm, None => Ok (Some (Msg (Some subm)))
            | Some subm, Some before =>
                let* r := merge_messages (message_depth before) before subm in
                match r with
                | None => Ok None
                | Some (_, subm) => Ok (Some (Msg (Some subm)))
                end
            end
        end
  end.

(** What is read of the member at the type of the field that it had, to free it. *)
Definition free_oneof (old_field : field) (c : cell) : outcome unit :=
  match type old_field with
  | PROTOBUF_C_TYPE_STRING => let* _ := get_str c in Ok tt
  | PROTOBUF_C_TYPE_BYTES => let* _ := get_bytes c in Ok tt
  | PROTOBUF_C_TYPE_MESSAGE => match c with Msg _ | Zeroed => Ok tt | _ => Undef end
  | _ => Ok tt
  end.

(** [None] is the return of FALSE, here and below. *)
Definition parse_oneof_member (d : D) (sm : ScannedMember) (f : field) (ms : list cell) :
    outcome (option (list cell)) :=
  let* oneof_case := at_member get_int ms (quantifier_offset f) in
  let* cleared :=
    if oneof_case =? 0 then Ok (Some ms)
    else
      let* field_index := int_range_lookup (field_ranges (desc d)) (signed32 oneof_case) in
      if field_index <? 0 then Ok None
      else
        match fields (desc d) !! Z.to_nat field_index with
        | None => Undef
        | Some old_field =>
            let* c := member ms (offset f) in
            let* _ := free_oneof old_field c in
            let* ms := set_member ms (offset f) Zeroed in
            Ok (Some ms)
        end in
  match cleared with
  | None => Ok None
  | Some ms =>
      let* c := member ms (offset f) in
      let* r := parse_required_member sm f c true in
      match r with
      | None => Ok None
      | Some c =>
          let* ms := set_member ms (offset f) c in
          let* ms := set_member ms (quantifier_offset f) (Int (tag sm)) in
          Ok (Some ms)
      end
  end.

Definition parse_optional_member (sm : ScannedMember) (f : field) (ms : list cell) : outcome (option (list cell)) :=
  let* c := member ms (offset f) in
  let* r := parse_required_member sm f c true in
  match r with
  | None => Ok None
  | Some c =>
      let* ms := set_member ms (offset f) c in
      match quantifier_offset f with
      | O => Ok (Some ms)
      | q => let* ms := set_member ms q (Int 1) in Ok (Some ms)
      end
  end.

(** [array[i] = c], within the block that was allocated. *)
Definition set_element (array : list cell) (i : nat) (c : cell) : outcome (list cell) :=
  if (i <? List.length array)%nat then Ok (<[i := c]> array) else Undef.

(** The number of elements of a repeated member and its block. *)
Definition repeated_member (f : field) (ms : list cell) : outcome (Z * list cell) :=
  let* n := at_member get_int ms (quantifier_offset f) in
  let* p := at_member get_arr ms (offset f) in
  Ok (n, match p with Some l => l | None => [] end).

(** A repeated member after elements have been written to its block. *)
Definition set_repeated (f : field) (ms : list cell) (n : Z) (array : list cell) : outcome (list cell) :=
  let* ms := set_member ms (offset f) (Arr (Some array)) in
  set_member ms (quantifier_offset f) (Int n).

Definition parse_repeated_member (sm : ScannedMember) (f : field) (ms : list cell) : outcome (option (list cell)) :=
  let* r := repeated_member f ms in
  let '(n, array) := r in
  let* c := parse_required_member sm f Garbage false in
  match c with
  | None => Ok None
  | Some c =>
      let* array := set_element array (Z.to_nat n) c in
      let* ms := set_repeated f ms (n + 1) array in
      Ok (Some ms)
  end.

(** [while (rem > 0)]: every round takes at least a byte of [at]. *)
Fixpoint packed_loop (fuel : nat) (parse : nat -> bytes -> outcome Z) (at' : bytes) (array : list cell) (count : nat) :
    outcome (option (nat * list cell)) :=
  match at', fuel with
  | [], _ => Ok (Some (count, array))
  | _, O => Undef
  | _, S fuel =>
      let* s := scan_varint at' in
      match s with
      | O => Ok None
      | _ =>
          let* z := parse s at' in
          let* array := set_element array count (Int z) in
          packed_loop fuel parse (drop s at') array (S count)
      end
  end.

(** [memcpy(array, at, count * siz)] *)
Fixpoint copy_loop (count : nat) (siz : nat) (parse : bytes -> outcome Z) (at' : bytes) (array : list cell) (i : nat) :
    outcome (list cell) :=
  match count with
  | O => Ok array
  | S count =>
      let* z := parse at' in
      let* array := set_element array i (Int z) in
      copy_loop count siz parse (drop siz at') array (S i)
  end.

Definition parse_packed_repeated_member (sm : ScannedMember) (f : field) (ms : list cell) :
    outcome (option (list cell)) :=
  let* r := repeated_member f ms in
  let '(n, array) := r in
  let at' := sm_payload sm in
  let rem := List.length at' in
  let varints parse :=
    let* r := packed_loop (S rem) parse at' array (Z.to_nat n) in
    match r with
    | None => Ok None
    | Some (n, array) => let* ms := set_repeated f ms (Z.of_nat n) array in Ok (Some ms)
    end in
  let copied siz parse :=
    let count := (rem / siz)%nat in
    let* array := copy_loop count siz parse at' array (Z.to_nat n) in
    let* ms := set_repeated f ms (n + Z.of_nat count) array in
    Ok (Some ms) in
  match type f with
  | PROTOBUF_C_TYPE_SFIXED32 => copied 4%nat (fun at' => let* z := parse_fixed_uint32 at' in Ok (signed32 z))
  | PROTOBUF_C_TYPE_FIXED32 | PROTOBUF_C_TYPE_FLOAT => copied 4%nat parse_fixed_uint32
  | PROTOBUF_C_TYPE_SFIXED64 => copied 8%nat (fun at' => let* z := parse_fixed_uint64 at' in Ok (signed64 z))
  | PROTOBUF_C_TYPE_FIXED64 | PROTOBUF_C_TYPE_DOUBLE => copied 8%nat parse_fixed_uint64
  | PROTOBUF_C_TYPE_ENUM | PROTOBUF_C_TYPE_INT32 =>
      varints (fun s at' => let* z := parse_int32 s at' in Ok (signed32 z))
  | PROTOBUF_C_TYPE_SINT32 => varints (fun s at' => let* z := parse_uint32 s at' in Ok (unzigzag32 z))
  | PROTOBUF_C_TYPE_UINT32 => varints parse_uint32
  | PROTOBUF_C_TYPE_SINT64 => varints (fun s at' => let* z := parse_uint64 s at' in Ok (unzigzag64 z))
  | PROTOBUF_C_TYPE_INT64 => varints (fun s at' => let* z := parse_uint64 s at' in Ok (signed64 z))
  | PROTOBUF_C_TYPE_UINT64 => varints parse_uint64
  | PROTOBUF_C_TYPE_BOOL => varints (fun s at' => Ok (parse_boolean (take s at')))
  | _ => Undef                                       (* PROTOBUF_C__ASSERT_NOT_REACHED() *)
  end.

(** The member is read as a packed array. *)
Definition is_packed (f : field) (wire_type : Z) : bool :=
  (wire_type =? PROTOBUF_C_WIRE_TYPE_LENGTH_PREFIXED) &&
  (PROTOBUF_C_FIELD_FLAG_PACKED (flags f) || is_packable_type (type f)).

Definition parse_member (d : D) (sm : ScannedMember) (st : filling) : outcome (option filling) :=
  match sm_field sm with
  | None =>
      if (List.length (unknown_fields st) <? room st)%nat then
        Ok (Some (mkFilling (members st)
              (unknown_fields st ++ [mkUnknown (tag sm) (wire_type sm) (data sm)])%list (room st)))
      else Undef
  | Some f =>
      let* r :=
        match label f with
        | PROTOBUF_C_LABEL_REQUIRED =>
            let* c := member (members st) (offset f) in
            let* r := parse_required_member sm f c true in
            match r with
            | None => Ok None
            | Some c => let* ms := set_member (members st) (offset f) c in Ok (Some ms)
            end
        | PROTOBUF_C_LABEL_REPEATED =>
            if is_packed f (wire_type sm) then parse_packed_repeated_member sm f (members st)
            else parse_repeated_member sm f (members st)
        | _ =>
            if PROTOBUF_C_FIELD_FLAG_ONEOF (flags f) then parse_oneof_member d sm f (members st)
            else parse_optional_member sm f (members st)
        end in
      match r with
      | None => Ok None
      | Some ms => Ok (Some (set_members st ms))
      end
  end.

Fixpoint parse_members (d : D) (sms : list ScannedMember) (st : filling) : outcome (option filling) :=
  match sms with
  | [] => Ok (Some st)
  | sm :: sms =>
      let* r := parse_member d sm st in
      match r with Some st => parse_members d sms st | None => Ok None end
  end.
End parsing.
(** *** The scan *)

(** The slabs that hold the scanned members. *)
Definition FIRST_SCANNED_MEMBER_SLAB_SIZE_LOG2 : Z := 4.
Definition MAX_SCANNED_MEMBER_SLAB : Z := 32 - 1 - 5 - FIRST_SCANNED_MEMBER_SLAB_SIZE_LOG2.

(** The local variables of the loop [while (rem > 0)].  [required_fields_bitmap] is the
    list of the indices that are set, [sms] has the last member first. *)
Record scanning : Type := mkScanning {
  rv : list cell;
  last_field : option nat;
  required_fields_bitmap : list nat;
  n_unknown : nat;
  which_slab : Z;
  in_slab_index : Z;
  sms : list ScannedMember
}.

(** The index of the field of a tag, by the one found last or by the table. *)
Definition lookup_field (d : D) (last_field : option nat) (tag : Z) : outcome (option nat) :=
  let lookup :=
    let* i := int_range_lookup (field_ranges (desc d)) (signed32 tag) in
    Ok (if i <? 0 then None else Some (Z.to_nat i)) in
  match last_field with
  | Some i =>
      match fields (desc d) !! i with
      | Some f => if id f =? tag then Ok (Some i) else lookup
      | None => Undef
      end
  | None => lookup
  end.

(** [tmp.len] and [tmp.length_prefix_len] by the wire type; [None] is a jump to
    [error_cleanup_during_scan]. *)
Definition scan_member (wire_type : Z) (at' : bytes) : outcome (option (nat * nat)) :=
  let rem := List.length at' in
  if wire_type =? PROTOBUF_C_WIRE_TYPE_VARINT then
    let max_len := Nat.min rem 10 in
    let* i := varint_loop max_len at' 0 in
    Ok (if (i =? max_len)%nat then None else Some (S i, O))
  else if wire_type =? PROTOBUF_C_WIRE_TYPE_64BIT then
    Ok (if (rem <? 8)%nat then None else Some (8%nat, O))
  else if wire_type =? PROTOBUF_C_WIRE_TYPE_LENGTH_PREFIXED then scan_length_prefixed_data at'
  else if wire_type =? PROTOBUF_C_WIRE_TYPE_32BIT then
    Ok (if (rem <? 4)%nat then None else Some (4%nat, O))
  else Ok None.

(** The slab and the index in it for the next member. *)
Definition next_slot (which_slab in_slab_index : Z) : option (Z * Z) :=
  if in_slab_index =? 2 ^ (which_slab + FIRST_SCANNED_MEMBER_SLAB_SIZE_LOG2) then
    if which_slab =? MAX_SCANNED_MEMBER_SLAB then None else Some (which_slab + 1, 0)
  else Some (which_slab, in_slab_index).

(** [*n += count]; [None] is the error of [count_packed_elements]. *)
Definition count_member (f : field) (sm : ScannedMember) (ms : list cell) : outcome (option (list cell)) :=
  match label f with
  | PROTOBUF_C_LABEL_REPEATED =>
      let count :=
        if is_packed f (wire_type sm) then count_packed_elements (type f) (sm_payload sm) else Some 1 in
      match count with
      | None => Ok None
      | Some count =>
          let* n := at_member get_int ms (quantifier_offset f) in
          let* ms := set_member ms (quantifier_offset f) (Int (n + count)) in
          Ok (Some ms)
      end
  | _ => Ok (Some ms)
  end.

(** One round: the state after it and the rest of the data. *)
Definition scan_round (d : D) (at' : bytes) (s : scanning) : outcome (option (bytes * scanning)) :=
  let* header := parse_tag_and_wiretype at' in
  match header with
  | None => Ok None
  | Some (used, tag, wire_type) =>
      let* field_index := lookup_field d (last_field s) tag in
      let* f :=
        match field_index with
        | None => Ok None
        | Some i => match fields (desc d) !! i with Some f => Ok (Some f) | None => Undef end
        end in
      let bitmap :=
        match f, field_index with
        | Some f, Some i =>
            match label f with
            | PROTOBUF_C_LABEL_REQUIRED => i :: required_fields_bitmap s
            | _ => required_fields_bitmap s
            end
        | _, _ => required_fields_bitmap s
        end in
      let at' := drop used at' in
      let* lens := scan_member wire_type at' in
      match lens, next_slot (which_slab s) (in_slab_index s) with
      | Some (len, pref_len), Some (which_slab, in_slab_index) =>
          if (List.length at' <? len)%nat then Undef
          else
            let tmp := mkScanned tag wire_type pref_len f (take len at') in
            let* counted := match f with Some f => count_member f tmp (rv s) | None => Ok (Some (rv s)) end in
            match counted with
            | None => Ok None
            | Some ms =>
                Ok (Some (drop len at',
                  mkScanning ms
                    (match field_index with Some i => Some i | None => last_field s end)
                    bitmap
                    (match f with None => S (n_unknown s) | Some _ => n_unknown s end)
                    which_slab (in_slab_index + 1) (tmp :: sms s)))
            end
      | _, _ => Ok None
      end
  end.

Fixpoint scan_loop (fuel : nat) (d : D) (at' : bytes) (s : scanning) : outcome (option scanning) :=
  match at', fuel with
  | [], _ => Ok (Some s)
  | _, O => Undef
  | _, S fuel =>
      let* r := scan_round d at' s in
      match r with
      | None => Ok None
      | Some (at', s) => scan_loop fuel d at' s
      end
  end.

(** [for (f = 0; f < desc->n_fields; f++)]: blocks for the repeated members, and is every
    required field there?  [n] is an [unsigned]. *)
Fixpoint allocate (bitmap : list nat) (i : nat) (fs : list field) (ms : list cell) : outcome (option (list cell)) :=
  match fs with
  | [] => Ok (Some ms)
  | f :: fs =>
      match label f with
      | PROTOBUF_C_LABEL_REPEATED =>
          let* n := at_member get_int ms (quantifier_offset f) in
          let* ms :=
            if n =? 0 then Ok ms
            else
              let* ms := set_member ms (quantifier_offset f) (Int 0) in
              set_member ms (offset f) (Arr (Some (replicate (Z.to_nat (wrap32 n)) Garbage))) in
          allocate bitmap (S i) fs ms
      | PROTOBUF_C_LABEL_REQUIRED =>
          if bool_decide (default_value f = NULL_string) && negb (existsb (Nat.eqb i) bitmap)
          then Ok None
          else allocate bitmap (S i) fs ms
      | _ => allocate bitmap (S i) fs ms
      end
  end.

(** *** The function *)

(** [fuel] bounds the nesting of the calls. *)
Fixpoint message_unpack (fuel : nat) (d : D) (data : bytes) : outcome (option message) :=
  match fuel with
  | O => Undef
  | S fuel =>
      let last_field := match fields (desc d) with [] => None | _ => Some O end in
      let start := mkScanning (message_init (desc d)) last_field [] O 0 0 [] in
      let* scanned := scan_loop (List.length data) d data start in
      match scanned with
      | None => Ok None
      | Some s =>
          let* allocated := allocate (required_fields_bitmap s) O (fields (desc d)) (rv s) in
          match allocated with
          | None => Ok None
          | Some ms =>
              let* r := parse_members (message_unpack fuel) d (rev (sms s)) (mkFilling ms [] (n_unknown s)) in
              match r with
              | None => Ok None
              | Some st => Ok (Some (Message d (members st) (unknown_fields st)))
              end
          end
      end
  end.

(** A message in a message is shorter by two bytes at least. *)
Definition protobuf_c_message_unpack (d : D) (data : bytes) : outcome (option message) :=
  message_unpack (S (List.length data)) d data.
End library.
