(* ===== verification/ProtobufCDesc.v ===== *)
(** * Numbers, descriptors and typed messages of the protocol-buffer library

    What the functions of [ProtobufC] write for a number and what they read; what makes a
    descriptor right, and the search for a field by number; when a message fits its
    descriptor; and the search for a field by name. *)
From S2P Require Import Prelude ProtobufC Keywords.

Open Scope Z_scope.
Open Scope list_scope.

(** ** Bytes *)

Lemma ub_range a : 0 <= ub a < 256.
Proof. unfold ub. pose proof (N_ascii_bounded a). lia. Qed.

Lemma ub_byte z : ub (byte z) = z mod 256.
Proof.
  unfold ub, byte. pose proof (Z.mod_pos_bound z 256).
  rewrite N_ascii_embedding by lia. rewrite Z2N.id; lia.
Qed.

Lemma byte_ub a : byte (ub a) = a.
Proof.
  unfold ub, byte. rewrite Z.mod_small by (pose proof (N_ascii_bounded a); lia).
  by rewrite N2Z.id, ascii_N_embedding.
Qed.

Lemma byte_mod z w : z mod 256 = w mod 256 -> byte z = byte w.
Proof. unfold byte. by intros ->. Qed.

Lemma lor_add a b k : 0 <= k -> 0 <= a < 2 ^ k -> 0 <= b -> Z.lor a (Z.shiftl b k) = a + b * 2 ^ k.
Proof.
  intros Hk Ha Hb. assert (H : Z.land a (Z.shiftl b k) = 0).
  { apply Z.bits_inj'. intros n Hn. rewrite Z.land_spec, Z.bits_0, Z.shiftl_spec by done.
    destruct (decide (n < k)) as [Hlt|Hge]; [rewrite (Z.testbit_neg_r b) by lia; apply andb_false_r|].
    destruct (decide (a = 0)) as [->|Hne]; [by rewrite Z.bits_0|].
    rewrite (Z.bits_above_log2 a n); [done|lia|].
    apply Z.log2_lt_pow2; [lia|]. eapply Z.lt_le_trans; [apply Ha|]. apply Z.pow_le_mono_r; lia. }
  by rewrite <-Z.shiftl_mul_pow2, Z.add_nocarry_lxor, Z.lxor_lor.
Qed.

Lemma land_127 b : Z.land b 127 = b mod 128.
Proof. change 127 with (Z.ones 7). by rewrite Z.land_ones. Qed.

Lemma low_bits_7 b : Z.land b 7 = b mod 8.
Proof. change 7 with (Z.ones 3). by rewrite Z.land_ones. Qed.

Lemma testbit_7 b : 0 <= b < 256 -> Z.testbit b 7 = (128 <=? b).
Proof.
  intros Hb. rewrite Z.testbit_eqb by done. change (2 ^ 7) with 128. destruct (Z.leb_spec 128 b).
  - apply Z.eqb_eq. Z.to_euclidean_division_equations. lia.
  - apply Z.eqb_neq. Z.to_euclidean_division_equations. lia.
Qed.

(** A byte with the bit that says that more follow. *)
Lemma ub_more v : ub (byte (Z.lor v 128)) = v mod 128 + 128.
Proof.
  rewrite ub_byte. change 256 with (2 ^ 8). rewrite <-Z.land_ones by done.
  rewrite Z.land_lor_distr_l. change (Z.land 128 (Z.ones 8)) with (Z.shiftl 1 7).
  replace (Z.lor (Z.land v (Z.ones 8)) (Z.shiftl 1 7)) with (Z.lor (v mod 128) (Z.shiftl 1 7)).
  { rewrite lor_add; [lia|done|apply Z.mod_pos_bound; lia|done]. }
  change 128 with (2 ^ 7). rewrite <-Z.land_ones by done.
  apply Z.bits_inj'. intros n Hn. rewrite !Z.lor_spec, !Z.land_spec, Z.shiftl_spec by done.
  destruct (decide (n < 7)); [by rewrite !Z.ones_spec_low by lia|].
  destruct (decide (n = 7)) as [->|]; [by rewrite !orb_true_r|].
  by rewrite !Z.ones_spec_high by lia.
Qed.

Lemma ub_last v : 0 <= v < 256 -> ub (byte v) = v.
Proof. intros Hv. rewrite ub_byte. by apply Z.mod_small. Qed.

Lemma shiftr_7 v : Z.shiftr v 7 = v / 128.
Proof. by rewrite Z.shiftr_div_pow2. Qed.

(** ** Varints *)

(** Seven bits to a byte, the low ones first; all bytes but the last have the bit 7. *)
Inductive varint : bytes -> Z -> Prop :=
| varint_last b : ub b < 128 -> varint [b] (ub b)
| varint_more b bs v : 128 <= ub b -> varint bs v -> varint (b :: bs) (ub b - 128 + 128 * v).

Lemma varint_end v : 0 <= v < 128 -> varint [byte v] v.
Proof. intros Hv. rewrite <-(ub_last v) at 2 by lia. constructor. rewrite ub_last; lia. Qed.

Lemma varint_step v bs : varint bs (v / 128) -> varint (byte (Z.lor v 128) :: bs) v.
Proof.
  intros H. replace v with (ub (byte (Z.lor v 128)) - 128 + 128 * (v / 128)) at 2.
  { constructor; [|done]. rewrite ub_more. pose proof (Z.mod_pos_bound v 128). lia. }
  rewrite ub_more. Z.to_euclidean_division_equations. lia.
Qed.

(** The byte is the one of another number with the same low bits. *)
Lemma varint_step' w v bs : w mod 128 = v mod 128 -> varint bs (v / 128) -> varint (byte (Z.lor w 128) :: bs) v.
Proof.
  intros E H. replace (byte (Z.lor w 128)) with (byte (Z.lor v 128)); [by apply varint_step|].
  rewrite <-(byte_ub (byte (Z.lor w 128))), <-(byte_ub (byte (Z.lor v 128))). by rewrite !ub_more, E.
Qed.

Lemma varint_range bs v : varint bs v -> 0 <= v < 2 ^ (7 * Z.of_nat (List.length bs)).
Proof.
  induction 1 as [b Hb|b bs v Hb H IH]; cbn [List.length].
  - pose proof (ub_range b). change (2 ^ (7 * Z.of_nat 1)) with 128. lia.
  - pose proof (ub_range b). replace (7 * Z.of_nat (S (List.length bs))) with (7 * Z.of_nat (List.length bs) + 7) by lia.
    rewrite Z.pow_add_r by lia. change (2 ^ 7) with 128. lia.
Qed.

Lemma varint_nonempty bs v : varint bs v -> (1 <= List.length bs)%nat.
Proof. destruct 1; cbn; lia. Qed.

(** *** What is written is one *)

Lemma uint32_pack_varint v : 0 <= v < 2 ^ 32 -> varint (uint32_pack v) v.
Proof.
  intros Hv. unfold uint32_pack. rewrite !shiftr_7.
  assert (0 <= v / 128 / 128 / 128 / 128 < 128).
  { rewrite !Z.div_div by lia. split; [apply Z.div_pos; lia|apply Z.div_lt_upper_bound; lia]. }
  repeat (case_match; [apply varint_step|apply varint_end; split; [|lia]; repeat apply Z.div_pos; lia]).
  by apply varint_end.
Qed.

Lemma uint64_loop_varint fuel hi :
  0 <= hi < 128 ^ (Z.of_nat fuel + 1) -> varint (uint64_pack_loop fuel hi) hi.
Proof.
  revert hi. induction fuel as [|fuel IH]; intros hi Hh; cbn [uint64_pack_loop].
  { apply varint_end. by change (128 ^ (Z.of_nat 0 + 1)) with 128 in Hh. }
  case_match; [|apply varint_end; lia]. rewrite shiftr_7. apply varint_step, IH. split; [apply Z.div_pos; lia|].
  apply Z.div_lt_upper_bound; [lia|]. rewrite <-Z.pow_succ_r by lia.
  replace (Z.succ (Z.of_nat fuel + 1)) with (Z.of_nat (S fuel) + 1) by lia. lia.
Qed.

(** The bits of a word above and below the 32nd. *)
Lemma halves v : 0 <= v < 2 ^ 64 ->
  v = wrap32 v + 2 ^ 32 * wrap32 (Z.shiftr v 32) /\ 0 <= wrap32 v < 2 ^ 32 /\ 0 <= wrap32 (Z.shiftr v 32) < 2 ^ 32.
Proof.
  intros Hv. unfold wrap32. rewrite Z.shiftr_div_pow2 by done.
  rewrite (Z.mod_small (v / 2 ^ 32)) by (split; [apply Z.div_pos; lia|apply Z.div_lt_upper_bound; lia]).
  pose proof (Z.mod_pos_bound v (2 ^ 32)). split; [|split; [lia|]].
  - rewrite Z.add_comm. by apply Z.div_mod.
  - split; [apply Z.div_pos; lia|apply Z.div_lt_upper_bound; lia].
Qed.

Lemma uint64_pack_varint v : 0 <= v < 2 ^ 64 -> varint (uint64_pack v) v.
Proof.
  intros Hv. destruct (halves v Hv) as (E & Hl & Hh). unfold uint64_pack.
  set (lo := wrap32 v) in *. set (hi := wrap32 (Z.shiftr v 32)) in *. clearbody lo hi. subst v.
  rewrite !Z.shiftr_div_pow2, !Z.shiftl_mul_pow2 by done.
  case_match; [by replace (lo + 2 ^ 32 * hi) with lo by lia; apply uint32_pack_varint|].
  assert (El : lo / 2 ^ 28 < 16) by (apply Z.div_lt_upper_bound; lia).
  assert (El' : 0 <= lo / 2 ^ 28) by (apply Z.div_pos; lia).
  cbn [app]. do 4 (apply varint_step'; [Z.to_euclidean_division_equations; lia|]).
  rewrite !Z.div_div by lia. change (128 * (128 * (128 * 128))) with (2 ^ 28).
  replace ((lo + 2 ^ 32 * hi) / 2 ^ 28) with (lo / 2 ^ 28 + 16 * hi)
    by (replace (lo + 2 ^ 32 * hi) with (lo + 16 * hi * 2 ^ 28) by lia; by rewrite Z.div_add).
  rewrite !(Z.lor_comm _ (lo / 2 ^ 28)), <-!(Z.shiftl_mul_pow2 _ 4), low_bits_7 by done.
  pose proof (Z.mod_pos_bound hi 8).
  rewrite !(lor_add _ _ 4) by lia. case_match; [|].
  - replace (lo / 2 ^ 28 + hi * 2 ^ 4) with (lo / 2 ^ 28 + 16 * hi) by lia. apply varint_end. lia.
  - apply varint_step'; [Z.to_euclidean_division_equations; lia|].
    replace ((lo / 2 ^ 28 + 16 * hi) / 128) with (hi / 8) by (Z.to_euclidean_division_equations; lia).
    apply uint64_loop_varint. change (128 ^ (Z.of_nat 4 + 1)) with (2 ^ 35). change (2 ^ 3) with 8.
    split; [apply Z.div_pos; lia|apply Z.div_lt_upper_bound; lia].
Qed.

(** A negative number is written as its two's complement of 64 bits. *)
Lemma int32_pack_varint v : - 2 ^ 31 <= v < 2 ^ 31 -> varint (int32_pack v) (v mod 2 ^ 64).
Proof.
  intros Hv. unfold int32_pack. case_match; [|rewrite Z.mod_small by lia; apply uint32_pack_varint; lia].
  replace (v mod 2 ^ 64) with (v + 2 ^ 64) by (apply Z.mod_unique with (-1); lia).
  set (u := v + 2 ^ 64). rewrite !Z.shiftr_div_pow2 by done.
  assert (Hd : forall k m, 0 < k -> 2 ^ 64 = 128 * m * k -> (v / k) mod 128 = (u / k) mod 128).
  { intros k m Hk E. unfold u. rewrite E, Z.div_add by lia.
    by rewrite (Z.mul_comm 128), Z.mod_add by lia. }
  assert (Hh : forall k m, 2 ^ 31 <= k -> 2 ^ 64 = m * k -> u / k = m - 1).
  { intros k m Hk E. symmetry. apply Z.div_unique with (k + v); unfold u; lia. }
  replace (byte 255) with (byte (Z.lor 127 128)) by done.
  replace (byte 1) with (byte (u / 2 ^ 63)) by (by rewrite (Hh _ 2)).
  apply varint_step'; [rewrite <-(Z.div_1_r v), <-(Z.div_1_r u); by apply (Hd 1 (2 ^ 57))|].
  do 4 (apply varint_step'; [rewrite ?Z.div_div by lia; lazymatch goal with |- _ = (_ / ?k) mod _ => by apply (Hd k (2 ^ 57 / k)) end|]).
  do 4 (apply varint_step'; [rewrite ?Z.div_div by lia; lazymatch goal with |- _ = (_ / ?k) mod _ => by rewrite (Hh k (2 ^ 64 / k)) end|]).
  rewrite !Z.div_div by lia. apply varint_end. by rewrite (Hh _ 2).
Qed.

(** *** What is read of one *)

Lemma at_middle pre b l : at_ (pre ++ b :: l) (List.length pre) = Ok (ub b).
Proof. unfold at_. by rewrite list_lookup_middle. Qed.

Lemma snoc_middle {A} (pre : list A) b l : (pre ++ b :: l = (pre ++ [b]) ++ l)%list.
Proof. by rewrite <-app_assoc. Qed.

(** The byte at [pre] in the lemmas below. *)
Ltac at_byte := rewrite at_middle; cbn [obind]; rewrite ?testbit_7 by apply ub_range.

Lemma length_snoc {A} (pre : list A) b : List.length (pre ++ [b]) = S (List.length pre).
Proof. rewrite length_app. cbn. lia. Qed.

Lemma varint_loop_spec bs v rounds pre rest : varint bs v -> (List.length bs <= rounds)%nat ->
  varint_loop rounds (pre ++ bs ++ rest) (List.length pre) = Ok (List.length pre + List.length bs - 1)%nat.
Proof.
  intros H. revert rounds pre. induction H as [b Hb|b bs v Hb H IH]; intros [|rounds] pre Hr; cbn [List.length] in *; try lia;
    cbn [app varint_loop]; at_byte.
  - destruct (Z.leb_spec 128 (ub b)); [lia|]. cbn. f_equal. lia.
  - destruct (Z.leb_spec 128 (ub b)); [|lia]. cbn [negb]. rewrite snoc_middle, <-length_snoc with (b := b).
    rewrite IH by lia. rewrite length_snoc. pose proof (varint_nonempty _ _ H). f_equal. lia.
Qed.

Lemma scan_varint_spec bs v rest : varint bs v -> (List.length bs <= 10)%nat ->
  scan_varint (bs ++ rest) = Ok (List.length bs).
Proof.
  intros H Hl. unfold scan_varint. pose proof (varint_nonempty _ _ H). rewrite length_app.
  rewrite (varint_loop_spec bs v _ [] rest H) by lia. cbn [obind List.length].
  destruct (Nat.eqb_spec (0 + List.length bs - 1) (Nat.min (List.length bs + List.length rest) 10)); [lia|].
  f_equal. lia.
Qed.

(** The digit of a byte, and the sum that the loops build. *)
Lemma digit b : 0 <= b < 256 -> Z.land b 127 = if 128 <=? b then b - 128 else b.
Proof.
  intros Hb. rewrite land_127. destruct (Z.leb_spec 128 b); [|apply Z.mod_small; lia].
  symmetry. apply Z.mod_unique with 1; lia.
Qed.

Lemma lor_digit val b shift : 0 <= shift -> 0 <= val < 2 ^ shift -> 0 <= b ->
  Z.lor val (Z.shiftl b shift) = val + b * 2 ^ shift.
Proof. intros. by apply lor_add. Qed.

Lemma shift_more val b shift : 0 <= shift -> 0 <= val < 2 ^ shift -> 0 <= b < 128 ->
  0 <= val + b * 2 ^ shift < 2 ^ (shift + 7).
Proof. intros. rewrite Z.pow_add_r by lia. change (2 ^ 7) with 128. nia. Qed.

Lemma sum_more val b v shift : 0 <= shift -> val + b * 2 ^ shift + v * 2 ^ (shift + 7) = val + (b + 128 * v) * 2 ^ shift.
Proof. intros. rewrite Z.pow_add_r by lia. change (2 ^ 7) with 128. ring. Qed.

Lemma prefix_loop_spec bs v rounds pre rest val shift : varint bs v -> (List.length bs <= rounds)%nat ->
  0 <= shift -> 0 <= val < 2 ^ shift ->
  prefix_loop rounds (pre ++ bs ++ rest) (List.length pre) val shift =
    Ok ((List.length pre + List.length bs - 1)%nat, val + v * 2 ^ shift).
Proof.
  intros H. revert rounds pre val shift.
  induction H as [b Hb|b bs v Hb H IH]; intros [|rounds] pre val shift Hr Hs Hv; cbn [List.length] in *; try lia;
    cbn [app prefix_loop]; pose proof (ub_range b); at_byte; rewrite digit by done;
    destruct (Z.leb_spec 128 (ub b)); try lia; rewrite lor_digit by lia; cbn [negb].
  - do 2 f_equal. lia.
  - rewrite snoc_middle, <-length_snoc with (b := b). rewrite IH; [|lia|lia|apply shift_more; lia].
    rewrite length_snoc, sum_more by done. pose proof (varint_nonempty _ _ H). do 2 f_equal. lia.
Qed.

Lemma tag_loop_spec bs v rounds pre rest val shift : varint bs v -> (List.length bs <= rounds)%nat ->
  0 <= shift -> 0 <= val < 2 ^ shift -> val + v * 2 ^ shift < 2 ^ 32 ->
  tag_loop rounds (pre ++ bs ++ rest) (List.length pre) val shift =
    Ok (Some ((List.length pre + List.length bs)%nat, val + v * 2 ^ shift)).
Proof.
  intros H. revert rounds pre val shift.
  induction H as [b Hb|b bs v Hb H IH]; intros [|rounds] pre val shift Hr Hs Hv Hm; cbn [List.length] in *; try lia;
    cbn [app tag_loop]; pose proof (ub_range b); at_byte; try rewrite digit by done;
    destruct (Z.leb_spec 128 (ub b)); try lia; rewrite lor_digit by lia; unfold wrap32.
  - rewrite Z.mod_small by lia. do 3 f_equal. lia.
  - pose proof (varint_range _ _ H). rewrite <-sum_more in Hm by done.
    pose proof (shift_more val (ub b - 128) shift). pose proof (Z.pow_pos_nonneg 2 (shift + 7)).
    rewrite Z.mod_small by nia. rewrite snoc_middle, <-length_snoc with (b := b).
    rewrite IH; [|lia..]. rewrite length_snoc, sum_more by done. do 3 f_equal. lia.
Qed.

Lemma uint64_loop_spec bs v pre val shift : varint bs v -> 0 <= shift -> 0 <= val < 2 ^ shift ->
  val + v * 2 ^ shift < 2 ^ 64 ->
  uint64_loop (List.length bs) (pre ++ bs) (List.length pre) val shift = Ok (val + v * 2 ^ shift).
Proof.
  intros H. revert pre val shift.
  induction H as [b Hb|b bs v Hb H IH]; intros pre val shift Hs Hv Hm; cbn [List.length] in *;
    cbn [app uint64_loop]; pose proof (ub_range b); at_byte; rewrite digit by done;
    destruct (Z.leb_spec 128 (ub b)); try lia; rewrite lor_digit by lia; unfold wrap64.
  - rewrite Z.mod_small by lia. done.
  - pose proof (varint_range _ _ H). rewrite <-sum_more in Hm by done.
    pose proof (shift_more val (ub b - 128) shift). pose proof (Z.pow_pos_nonneg 2 (shift + 7)).
    rewrite Z.mod_small by nia. rewrite snoc_middle, <-length_snoc with (b := b).
    rewrite IH; [|lia..]. by rewrite sum_more.
Qed.

Lemma varint_inv b bs v : varint (b :: bs) v ->
  (bs = [] /\ ub b < 128 /\ v = ub b) \/ (exists w, 128 <= ub b /\ varint bs w /\ v = ub b - 128 + 128 * w).
Proof. inversion 1; subst; [by left|right; eauto]. Qed.

Lemma digit_more b : 128 <= ub b -> Z.land (ub b) 127 = ub b - 128.
Proof. intros H. pose proof (ub_range b). rewrite digit by done. destruct (Z.leb_spec 128 (ub b)); lia. Qed.
Lemma digit_last b : ub b < 128 -> Z.land (ub b) 127 = ub b.
Proof. intros H. pose proof (ub_range b). rewrite digit by done. destruct (Z.leb_spec 128 (ub b)); lia. Qed.

(** The bytes of a list with known elements, as digits. *)
Ltac read_bytes :=
  cbn [at_ lookup list_lookup obind List.length Nat.leb];
  rewrite ?digit_more, ?digit_last by done.

(** Innermost first. *)
Ltac add_digits :=
  repeat match goal with
  | |- context [Z.lor ?a (Z.shiftl ?b ?k)] => rewrite (lor_add a b k) by lia
  end.

(** Splits the first byte off a varint. *)
Ltac first_byte H bs :=
  let b := fresh "b" in destruct bs as [|b bs]; [by inversion H|];
  let R := fresh "R" in pose proof (ub_range b) as R;
  apply varint_inv in H as [(-> & ? & ->)|(? & ? & H & ->)].

Lemma parse_uint32_spec bs v : varint bs v -> parse_uint32 (List.length bs) bs = Ok (wrap32 v).
Proof.
  assert (Hw : forall z, 0 <= z < 2 ^ 32 -> Ok z = Ok (wrap32 z)) by (intros; unfold wrap32; by rewrite Z.mod_small).
  intros H. unfold parse_uint32.
  do 4 (first_byte H bs; [read_bytes; add_digits; rewrite Hw by lia; apply f_equal, f_equal; lia|]).
  first_byte H bs; read_bytes; add_digits.
  - apply f_equal, f_equal. lia.
  - apply f_equal. unfold wrap32. rewrite <-(Z.mod_add _ (8 * x - 8) (2 ^ 32)) by done. f_equal. lia.
Qed.

Lemma parse_uint64_spec bs v : varint bs v -> v < 2 ^ 64 -> parse_uint64 (List.length bs) bs = Ok v.
Proof.
  intros H Hv. pose proof (varint_range _ _ H) as Hr. unfold parse_uint64. case_match eqn:Hl.
  { apply Nat.ltb_lt in Hl. rewrite (parse_uint32_spec _ _ H). unfold wrap32. rewrite Z.mod_small; [done|].
    split; [lia|]. eapply Z.lt_le_trans; [apply Hr|]. apply Z.pow_le_mono_r; lia. }
  apply Nat.ltb_ge in Hl. clear Hr.
  do 4 (first_byte H bs; [cbn in Hl; lia|]). read_bytes. add_digits.
  replace (S (S (S (S (List.length bs)))) - 4)%nat with (List.length bs) by lia.
  rewrite (uint64_loop_spec bs _ [b; b0; b1; b2] _ _ H); [apply f_equal; lia|lia..].
Qed.

(** ** Lengths and tags *)

Lemma scan_length_prefixed_spec bs v rest : varint bs v -> (List.length bs <= 5)%nat -> v <= INT_MAX ->
  v <= Z.of_nat (List.length rest) ->
  scan_length_prefixed_data (bs ++ rest) = Ok (Some ((List.length bs + Z.to_nat v)%nat, List.length bs)).
Proof.
  intros H Hl Hm Hr. pose proof (varint_nonempty _ _ H). pose proof (varint_range _ _ H).
  unfold scan_length_prefixed_data. rewrite length_app.
  rewrite (prefix_loop_spec bs v _ [] rest _ _ H) by lia. cbn [obind List.length].
  replace (0 + v * 2 ^ 0) with v by lia.
  destruct (Nat.eqb_spec (0 + List.length bs - 1) (Nat.min (List.length bs + List.length rest) 5)); [lia|].
  destruct (Z.ltb_spec INT_MAX v); [lia|].
  replace (S (0 + List.length bs - 1)) with (List.length bs) by lia.
  by destruct (Z.ltb_spec (Z.of_nat (List.length bs + List.length rest)) (Z.of_nat (List.length bs) + v)); [lia|].
Qed.

(** The tag of a field with a wire type. *)
Lemma tag_varint id : 0 < id < 2 ^ 29 -> exists bs,
  tag_pack id = bs /\ varint bs (8 * id) /\ (List.length bs <= 5)%nat.
Proof.
  intros Hi. unfold tag_pack. destruct (Z.ltb_spec id (2 ^ 29)); [|lia]. eexists. split; [done|].
  assert (E : wrap32 (Z.shiftl id 3) = 8 * id).
  { unfold wrap32. rewrite Z.shiftl_mul_pow2, Z.mod_small by lia. lia. }
  rewrite E. split; [apply uint32_pack_varint; lia|]. unfold uint32_pack. repeat case_match; cbn; lia.
Qed.

Lemma lor_wire b wt : ub b mod 8 = 0 -> 0 <= wt < 8 -> ub (byte (Z.lor (ub b) wt)) = ub b + wt.
Proof.
  intros Hb Hw. pose proof (ub_range b). replace (ub b) with (Z.shiftl (ub b / 8) 3) at 1
    by (rewrite Z.shiftl_mul_pow2 by lia; Z.to_euclidean_division_equations; lia).
  rewrite Z.lor_comm, lor_add by (lia || (split; [lia|]; change (2 ^ 3) with 8; lia) || (apply Z.div_pos; lia)).
  rewrite ub_byte, Z.mod_small; Z.to_euclidean_division_equations; lia.
Qed.

Lemma land_248 c : Z.land (ub c) 248 = 8 * (ub c / 8).
Proof. apply Z.eqb_eq. ascii_cases (fun c => Z.land (ub c) 248 =? 8 * (ub c / 8)). Qed.

Lemma parse_tag_spec id wt rest : 0 < id < 2 ^ 29 -> 0 <= wt < 8 ->
  parse_tag_and_wiretype (or_first (tag_pack id) wt ++ rest) =
    Ok (Some (List.length (tag_pack id), id, wt)).
Proof.
  intros Hi Hw. destruct (tag_varint id Hi) as (bs & -> & H & Hl).
  destruct bs as [|b bs]; [inversion H|]. pose proof (ub_range b). cbn [or_first app List.length] in *.
  apply varint_inv in H as H'. assert (Hb : ub b mod 8 = 0).
  { destruct H' as [(_ & _ & <-)|(w & _ & _ & E)]; [rewrite Z.mul_comm; by apply Z.mod_mul|].
    replace (ub b) with ((id + 16 - 16 * w) * 8) by lia. by apply Z.mod_mul. }
  unfold parse_tag_and_wiretype. cbn [at_ lookup list_lookup obind].
  rewrite land_248, lor_wire, testbit_7, low_bits_7, land_127 by (done || Z.to_euclidean_division_equations; lia).
  assert (E7 : (ub b + wt) mod 8 = wt) by (Z.to_euclidean_division_equations; lia).
  assert (E8 : 8 * ((ub b + wt) / 8) = ub b) by (Z.to_euclidean_division_equations; lia).
  rewrite E7, E8, Z.shiftr_div_pow2 by done. change (2 ^ 3) with 8.
  destruct H' as [(-> & Hs & E)|(w & Hs & H' & E)].
  - destruct (Z.eqb_spec (ub b) 0); [lia|]. destruct (Z.leb_spec 128 (ub b + wt));
      [Z.to_euclidean_division_equations; lia|]. cbn. do 4 f_equal. Z.to_euclidean_division_equations; lia.
  - destruct (Z.eqb_spec (ub b) 0); [lia|]. destruct (Z.leb_spec 128 (ub b + wt)); [|lia].
    cbn [negb]. pose proof (tag_loop_spec bs w (Nat.min (S (List.length (bs ++ rest))) 5 - 1)
      [byte (Z.lor (ub b) wt)] rest ((ub b + wt) mod 128 / 8) 4 H') as Ht.
    assert (Et : (ub b + wt) mod 128 / 8 + w * 2 ^ 4 = id) by (Z.to_euclidean_division_equations; lia).
    cbn [app List.length] in *. rewrite Ht; [cbn [obind]; rewrite Et; done|rewrite length_app; lia|done| |lia].
    Z.to_euclidean_division_equations; lia.
Qed.

(** ** Machine integers *)

Lemma wrap32_range z : 0 <= wrap32 z < 2 ^ 32.
Proof. unfold wrap32. by apply Z.mod_pos_bound. Qed.
Lemma wrap64_range z : 0 <= wrap64 z < 2 ^ 64.
Proof. unfold wrap64. by apply Z.mod_pos_bound. Qed.
Lemma signed32_range z : - 2 ^ 31 <= signed32 z < 2 ^ 31.
Proof. unfold signed32. pose proof (wrap32_range z). destruct (Z.ltb_spec (wrap32 z) (2 ^ 31)); lia. Qed.
Lemma signed64_range z : - 2 ^ 63 <= signed64 z < 2 ^ 63.
Proof. unfold signed64. pose proof (wrap64_range z). destruct (Z.ltb_spec (wrap64 z) (2 ^ 63)); lia. Qed.

Lemma wrap32_id z : 0 <= z < 2 ^ 32 -> wrap32 z = z.
Proof. apply Z.mod_small. Qed.
Lemma wrap64_id z : 0 <= z < 2 ^ 64 -> wrap64 z = z.
Proof. apply Z.mod_small. Qed.

(** A number with the low bits of one that the type has. *)
Lemma signed32_of z w : - 2 ^ 31 <= z < 2 ^ 31 -> wrap32 w = wrap32 z -> signed32 w = z.
Proof.
  intros Hz E. unfold signed32. rewrite E. unfold wrap32.
  destruct (Z.ltb_spec (z mod 2 ^ 32) (2 ^ 31)); Z.to_euclidean_division_equations; lia.
Qed.
Lemma signed64_of z w : - 2 ^ 63 <= z < 2 ^ 63 -> wrap64 w = wrap64 z -> signed64 w = z.
Proof.
  intros Hz E. unfold signed64. rewrite E. unfold wrap64.
  destruct (Z.ltb_spec (z mod 2 ^ 64) (2 ^ 63)); Z.to_euclidean_division_equations; lia.
Qed.
Lemma signed32_id z : - 2 ^ 31 <= z < 2 ^ 31 -> signed32 z = z.
Proof. intros. by apply signed32_of. Qed.
Lemma signed64_id z : - 2 ^ 63 <= z < 2 ^ 63 -> signed64 z = z.
Proof. intros. by apply signed64_of. Qed.

(** *** Zigzag *)

Lemma lxor_ones x k : 0 <= k -> 0 <= x < 2 ^ k -> Z.lxor x (2 ^ k - 1) = 2 ^ k - 1 - x.
Proof.
  intros Hk Hx. replace (2 ^ k - 1 - x) with (Z.lnot x mod 2 ^ k).
  2: { unfold Z.lnot. symmetry. apply Z.mod_unique with (-1); lia. }
  replace (2 ^ k - 1) with (Z.ones k) by (rewrite Z.ones_equiv; lia).
  rewrite <-Z.land_ones by done. apply Z.bits_inj'. intros n Hn.
  rewrite Z.lxor_spec, Z.land_spec, Z.lnot_spec by done.
  destruct (decide (n < k)).
  - rewrite Z.ones_spec_low by lia. by destruct (Z.testbit x n).
  - rewrite Z.ones_spec_high by lia. rewrite andb_false_r, xorb_false_r.
    destruct (decide (x = 0)) as [->|]; [apply Z.bits_0|].
    apply Z.bits_above_log2; [lia|]. apply Z.log2_lt_pow2; [lia|].
    eapply Z.lt_le_trans; [apply Hx|]. apply Z.pow_le_mono_r; lia.
Qed.

(** The functions of both widths, [k] being the number of bits. *)
Lemma zigzag_spec k v : 1 <= k -> - 2 ^ (k - 1) <= v < 2 ^ (k - 1) ->
  Z.lxor (Z.shiftl (v mod 2 ^ k) 1 mod 2 ^ k) (Z.shiftr v (k - 1) mod 2 ^ k) =
    if v <? 0 then - 2 * v - 1 else 2 * v.
Proof.
  intros Hk Hv. assert (E : 2 ^ k = 2 * 2 ^ (k - 1)).
  { rewrite <-(Z.pow_succ_r 2 (k - 1)) by lia. f_equal. lia. }
  pose proof (Z.pow_pos_nonneg 2 (k - 1)). rewrite Z.shiftl_mul_pow2, Z.shiftr_div_pow2 by lia. change (2 ^ 1) with 2.
  destruct (Z.ltb_spec v 0).
  - replace (v / 2 ^ (k - 1)) with (-1) by (apply Z.div_unique with (v + 2 ^ (k - 1)); lia).
    replace (-1 mod 2 ^ k) with (2 ^ k - 1) by (apply Z.mod_unique with (-1); lia).
    replace ((v mod 2 ^ k * 2) mod 2 ^ k) with (2 * v + 2 ^ k).
    { rewrite lxor_ones by lia. lia. }
    replace (v mod 2 ^ k) with (v + 2 ^ k) by (apply Z.mod_unique with (-1); lia).
    apply Z.mod_unique with 1; lia.
  - rewrite (Z.div_small v) by lia. rewrite (Z.mod_small v), Z.mod_0_l, Z.lxor_0_r by lia.
    rewrite Z.mod_small; lia.
Qed.

Lemma unzigzag_spec k u : 1 <= k -> 0 <= u < 2 ^ k ->
  Z.lxor (Z.shiftr u 1) ((Z.lnot (Z.land u 1) + 1) mod 2 ^ k) =
    if Z.even u then u / 2 else 2 ^ k - 1 - u / 2.
Proof.
  intros Hk Hu. rewrite Z.shiftr_div_pow2 by done. change 1 with (Z.ones 1) at 2. rewrite Z.land_ones by done.
  change (2 ^ 1) with 2. rewrite Zmod_odd, <-Z.negb_even. unfold Z.lnot.
  assert (2 ^ 1 <= 2 ^ k) by (apply Z.pow_le_mono_r; lia).
  destruct (Z.even u); cbn [negb].
  - change (Z.pred (- 0) + 1) with 0. by rewrite Z.mod_0_l, Z.lxor_0_r by lia.
  - change (Z.pred (Z.opp 1) + 1) with (-1). replace (-1 mod 2 ^ k) with (2 ^ k - 1) by (apply Z.mod_unique with (-1); lia).
    apply lxor_ones; [lia|]. Z.to_euclidean_division_equations; lia.
Qed.

Lemma zigzag_range k v z : - 2 ^ (k - 1) <= v < 2 ^ (k - 1) -> 2 ^ k = 2 * 2 ^ (k - 1) ->
  z = (if v <? 0 then - 2 * v - 1 else 2 * v) -> 0 <= z < 2 ^ k.
Proof. intros Hv E ->. destruct (Z.ltb_spec v 0); lia. Qed.

Lemma zigzag32_range v : - 2 ^ 31 <= v < 2 ^ 31 -> 0 <= zigzag32 v < 2 ^ 32.
Proof. intros Hv. apply (zigzag_range 32 v); [done..|]. by apply (zigzag_spec 32). Qed.
Lemma zigzag64_range v : - 2 ^ 63 <= v < 2 ^ 63 -> 0 <= zigzag64 v < 2 ^ 64.
Proof. intros Hv. apply (zigzag_range 64 v); [done..|]. by apply (zigzag_spec 64). Qed.

Lemma unzigzag_zigzag k v u : 1 <= k -> - 2 ^ (k - 1) <= v < 2 ^ (k - 1) -> 2 ^ k = 2 * 2 ^ (k - 1) ->
  u = (if v <? 0 then - 2 * v - 1 else 2 * v) ->
  Z.lxor (Z.shiftr u 1) ((Z.lnot (Z.land u 1) + 1) mod 2 ^ k) = v mod 2 ^ k.
Proof.
  intros Hk Hv E Hu. pose proof (zigzag_range k v u Hv E Hu). rewrite unzigzag_spec by done. subst u.
  destruct (Z.ltb_spec v 0).
  - replace (- 2 * v - 1) with (1 + 2 * (- v - 1)) by lia. rewrite Z.even_add_mul_2. cbn [Z.even].
    rewrite (Z.mul_comm 2), Z.div_add by done. change (1 / 2) with 0.
    apply Z.mod_unique with (-1); lia.
  - rewrite Z.even_mul. cbn [Z.even orb]. rewrite (Z.mul_comm 2), Z.div_mul by done. symmetry. apply Z.mod_small. lia.
Qed.

Lemma unzigzag32_zigzag32 v : - 2 ^ 31 <= v < 2 ^ 31 -> unzigzag32 (zigzag32 v) = v.
Proof.
  intros Hv. apply signed32_of; [done|]. unfold wrap32 at 2 3.
  rewrite (unzigzag_zigzag 32 v); [|done..|by apply (zigzag_spec 32)]. apply Z.mod_mod. done.
Qed.
Lemma unzigzag64_zigzag64 v : - 2 ^ 63 <= v < 2 ^ 63 -> unzigzag64 (zigzag64 v) = v.
Proof.
  intros Hv. apply signed64_of; [done|]. unfold wrap64 at 2 3.
  rewrite (unzigzag_zigzag 64 v); [|done..|by apply (zigzag_spec 64)]. apply Z.mod_mod. done.
Qed.

(** *** Fixed size *)

Lemma little_endian_length n v : List.length (little_endian n v) = n.
Proof. revert v. induction n as [|n IH]; intros v; cbn; [done|]. by rewrite IH. Qed.

Lemma from_little_endian_spec n v rest :
  from_little_endian n (little_endian n v ++ rest) = Ok (v mod 256 ^ Z.of_nat n).
Proof.
  revert v. induction n as [|n IH]; intros v; [cbn; by rewrite Z.mod_1_r|].
  cbn [little_endian from_little_endian app at_ lookup list_lookup obind drop]. rewrite drop_0, IH. cbn [obind].
  rewrite ub_byte, Z.shiftr_div_pow2 by done. change (2 ^ 8) with 256.
  rewrite Nat2Z.inj_succ, Z.pow_succ_r by lia. rewrite Z.rem_mul_r by lia. apply f_equal. lia.
Qed.

(** ** Sizes *)

Lemma uint32_pack_length v : 0 <= v < 2 ^ 32 -> Z.of_nat (List.length (uint32_pack v)) = uint32_size v.
Proof.
  intros Hv. unfold uint32_pack, uint32_size. rewrite !shiftr_7, !Z.div_div by done.
  repeat match goal with
  | |- context [128 <=? ?x] => destruct (Z.leb_spec 128 x)
  | |- context [v <? ?x] => destruct (Z.ltb_spec v x)
  end; cbn; try done; exfalso; Z.to_euclidean_division_equations; lia.
Qed.

Lemma int32_pack_length v : - 2 ^ 31 <= v < 2 ^ 31 -> Z.of_nat (List.length (int32_pack v)) = int32_size v.
Proof.
  intros Hv. unfold int32_pack, int32_size. case_match; [done|]. rewrite uint32_pack_length by lia. done.
Qed.

Lemma sint32_pack_length v : - 2 ^ 31 <= v < 2 ^ 31 -> Z.of_nat (List.length (sint32_pack v)) = sint32_size v.
Proof. intros Hv. by apply uint32_pack_length, zigzag32_range. Qed.

Lemma uint64_pack_length v : 0 <= v < 2 ^ 64 -> Z.of_nat (List.length (uint64_pack v)) = uint64_size v.
Proof.
  intros Hv. unfold uint64_pack, uint64_size. pose proof (halves v Hv) as (_ & Hl & Hh).
  assert (E : wrap32 (Z.shiftr v 32) = Z.shiftr v 32).
  { apply Z.mod_small. rewrite Z.shiftr_div_pow2 by done.
    split; [apply Z.div_pos; lia|apply Z.div_lt_upper_bound; lia]. }
  rewrite E in *. set (hi := Z.shiftr v 32) in *. case_match; [by apply uint32_pack_length|].
  change (2 ^ 3) with 8. cbn [app List.length]. case_match; [done|]. cbn [List.length uint64_pack_loop].
  rewrite !shiftr_7, ?(Z.shiftr_div_pow2 hi 3), !Z.div_div by done.
  repeat match goal with
  | |- context [128 <=? ?x] => destruct (Z.leb_spec 128 x)
  | |- context [hi <? ?x] => destruct (Z.ltb_spec hi x)
  end; cbn; try done; exfalso; Z.to_euclidean_division_equations; lia.
Qed.

Lemma sint64_pack_length v : - 2 ^ 63 <= v < 2 ^ 63 -> Z.of_nat (List.length (sint64_pack v)) = sint64_size v.
Proof. intros Hv. by apply uint64_pack_length, zigzag64_range. Qed.

Lemma tag_pack_length id : 0 <= id < 2 ^ 32 -> Z.of_nat (List.length (tag_pack id)) = get_tag_size id.
Proof.
  intros Hi. unfold tag_pack, get_tag_size. destruct (Z.ltb_spec id (2 ^ 29)).
  - rewrite wrap32_id, uint32_pack_length by (rewrite Z.shiftl_mul_pow2 by done; lia).
    unfold uint32_size. rewrite Z.shiftl_mul_pow2 by done. change (2 ^ 3) with 8.
    repeat case_match; try done; exfalso; lia.
  - rewrite uint64_pack_length by (rewrite Z.shiftl_mul_pow2 by done; lia). unfold uint64_size.
    rewrite Z.shiftl_mul_pow2, Z.shiftr_div_pow2 by done. change (2 ^ 3) with 8.
    assert (id * 8 / 2 ^ 32 < 8) by (apply Z.div_lt_upper_bound; lia).
    assert (1 <= id * 8 / 2 ^ 32) by (apply Z.div_le_lower_bound; lia).
    repeat case_match; try done; exfalso; lia.
Qed.

Lemma or_first_length bs wt : List.length (or_first bs wt) = List.length bs.
Proof. by destruct bs. Qed.

Lemma tagged_length id wt bs : 0 <= id < 2 ^ 32 ->
  Z.of_nat (List.length (tagged id wt bs)) = get_tag_size id + Z.of_nat (List.length bs).
Proof. intros. unfold tagged. rewrite length_app, or_first_length, Nat2Z.inj_add. by rewrite tag_pack_length. Qed.

Lemma prefixed_length bs :
  Z.of_nat (List.length (prefixed bs)) =
    uint32_size (wrap32 (Z.of_nat (List.length bs))) + Z.of_nat (List.length bs).
Proof. unfold prefixed. rewrite length_app, Nat2Z.inj_add, uint32_pack_length; [done|apply wrap32_range]. Qed.

(** * Descriptors and structs

    What makes a descriptor right ([wf_descriptor], which the tables are checked
    against), the search for the field of a number, and lemmas on the members of a
    struct. *)

Open Scope Z_scope.
Open Scope list_scope.

(** ** The members of a struct *)

Section members.
Context {D : Type}.
Implicit Types (ms : list (cell D)) (c : cell D) (o : nat).

Definition at_slot ms o : option (cell D) := match o with O => None | S k => ms !! k end.
Definition put ms o c : list (cell D) := match o with O => ms | S k => <[k := c]> ms end.

Lemma at_member_eq {A} (k : cell D -> outcome A) ms o :
  at_member k ms o = match at_slot ms o with Some c => k c | None => Undef end.
Proof.
  revert o. induction ms as [|c ms IH]; intros [|[|o]]; cbn; try done.
Qed.

Lemma at_member_some {A} (k : cell D -> outcome A) ms o c : at_slot ms o = Some c -> at_member k ms o = k c.
Proof. rewrite at_member_eq. by intros ->. Qed.

Lemma member_some ms o c : at_slot ms o = Some c -> member ms o = Ok c.
Proof. apply at_member_some. Qed.

Lemma set_member_some ms o c c' : at_slot ms o = Some c -> set_member ms o c' = Ok (put ms o c').
Proof.
  destruct o as [|o]; [done|]. unfold at_slot, set_member, put. intros H%lookup_lt_Some.
  destruct (Nat.ltb_spec o (List.length ms)); [reflexivity|lia].
Qed.

Lemma length_put ms o c : List.length (put ms o c) = List.length ms.
Proof. destruct o; [done|]. apply length_insert. Qed.

Lemma at_slot_put ms o c c' : at_slot ms o = Some c -> at_slot (put ms o c') o = Some c'.
Proof. destruct o as [|o]; [done|]. cbn. intros H%lookup_lt_Some. by apply list_lookup_insert_eq. Qed.

Lemma at_slot_put_ne ms o o' c : o <> o' -> at_slot (put ms o c) o' = at_slot ms o'.
Proof. destruct o, o'; cbn; try done. intros H. apply list_lookup_insert_ne. lia. Qed.

Lemma at_slot_eq ms ms' : List.length ms = List.length ms' ->
  (forall o, (1 <= o <= List.length ms)%nat -> at_slot ms o = at_slot ms' o) -> ms = ms'.
Proof.
  intros Hl H. apply list_eq. intros i. destruct (decide (i < List.length ms)%nat).
  - apply (H (S i)). lia.
  - rewrite !lookup_ge_None_2 by lia. done.
Qed.

Lemma at_slot_lt ms o : (1 <= o <= List.length ms)%nat -> exists c, at_slot ms o = Some c.
Proof. destruct o as [|o]; [lia|]. cbn. intros H. apply lookup_lt_is_Some_2. lia. Qed.

Lemma at_slot_Some_lt ms o c : at_slot ms o = Some c -> (1 <= o <= List.length ms)%nat.
Proof. destruct o as [|o]; [done|]. cbn. intros H%lookup_lt_Some. lia. Qed.
End members.

(** ** The search for a number *)

(** Every range but the last, which only ends the array, has the consecutive numbers of
    the fields from its index to that of the next range. *)
Fixpoint ranges_ok (ids : list Z) (index low : Z) (ranges : list ProtobufCIntRange) : bool :=
  match ranges with
  | [] => match ids with [] => true | _ => false end
  | r :: rest =>
      match rest with
      | [] => match ids with [] => orig_index r =? index | _ => false end
      | r' :: _ =>
          let size := Z.to_nat (orig_index r' - orig_index r) in
          (orig_index r =? index) && (orig_index r <? orig_index r') && (low <=? start_value r) &&
          bool_decide (take size ids = map (fun k => start_value r + Z.of_nat k) (seq 0 size)) &&
          ranges_ok (drop size ids) (orig_index r') (start_value r + (orig_index r' - orig_index r)) rest
      end
  end.

(** The [j]th range. *)
Definition range_of (ranges : list ProtobufCIntRange) (j : nat) (lo hi i : Z) : Prop :=
  exists r r', ranges !! j = Some r /\ ranges !! S j = Some r' /\
    lo = start_value r /\ hi = start_value r + (orig_index r' - orig_index r) /\ i = orig_index r.

Lemma range_of_tail r ranges j lo hi i : range_of (r :: ranges) (S j) lo hi i <-> range_of ranges j lo hi i.
Proof. done. Qed.

Lemma ranges_ok_low ids index low ranges j lo hi i :
  ranges_ok ids index low ranges = true -> range_of ranges j lo hi i -> low <= lo < hi /\ index <= i.
Proof.
  revert ids index low j. induction ranges as [|r ranges IH]; intros ids index low j; [by intros _ (? & ? & ? & _)|].
  cbn [ranges_ok]. destruct ranges as [|r' ranges]; [by intros _ (? & ? & _ & H & _); destruct j|].
  intros H. split_andb. destruct j as [|j].
  - intros (? & ? & [= <-] & [= <-] & -> & -> & ->). lia.
  - rewrite range_of_tail. intros Hr. eapply IH in Hr; [|eassumption]. lia.
Qed.

(** Later ranges are higher. *)
Lemma ranges_ok_sorted ids index low ranges j k lo hi i lo' hi' i' :
  ranges_ok ids index low ranges = true -> (j < k)%nat ->
  range_of ranges j lo hi i -> range_of ranges k lo' hi' i' -> hi <= lo'.
Proof.
  revert ids index low j k. induction ranges as [|r ranges IH]; intros ids index low j k; [by intros _ _ (? & ? & ? & _)|].
  cbn [ranges_ok]. destruct ranges as [|r' ranges]; [by intros _ _ (? & ? & _ & H & _); destruct j|].
  intros H Hjk. split_andb. destruct j as [|j], k as [|k]; [lia| |lia|].
  - intros (? & ? & [= <-] & [= <-] & -> & -> & ->). rewrite range_of_tail. intros Hr.
    eapply ranges_ok_low in Hr; [|eassumption]. lia.
  - rewrite !range_of_tail. eapply IH; [eassumption|lia].
Qed.

(** A range has the numbers of its fields. *)
Lemma ranges_ok_ids ids index low ranges j lo hi i v :
  ranges_ok ids index low ranges = true -> range_of ranges j lo hi i -> lo <= v < hi ->
  index <= i /\ ids !! Z.to_nat (i + (v - lo) - index) = Some v.
Proof.
  revert ids index low j. induction ranges as [|r ranges IH]; intros ids index low j; [by intros _ (? & ? & ? & _)|].
  cbn [ranges_ok]. destruct ranges as [|r' ranges]; [by intros _ (? & ? & _ & H & _); destruct j|].
  intros H. split_andb.
  match goal with H : bool_decide _ = true |- _ => apply bool_decide_eq_true in H; rename H into Ht end.
  destruct j as [|j].
  - intros (? & ? & [= <-] & [= <-] & -> & -> & ->) Hv. split; [lia|].
    replace (Z.to_nat (orig_index r + (v - start_value r) - index)) with (Z.to_nat (v - start_value r)) by lia.
    apply (f_equal (fun l => l !! Z.to_nat (v - start_value r))) in Ht.
    rewrite lookup_take_lt in Ht by lia. rewrite Ht, list_lookup_fmap, lookup_seq_lt by lia. cbn. f_equal. lia.
  - rewrite range_of_tail. intros Hr Hv. eapply IH in Hr as [Hi Hl]; [|eassumption|done]. split; [lia|].
    rewrite lookup_drop in Hl. rewrite <-Hl. f_equal. lia.
Qed.

(** Every field is in a range. *)
Lemma ranges_ok_all ids index low ranges k v :
  ranges_ok ids index low ranges = true -> ids !! k = Some v ->
  exists j lo hi i, range_of ranges j lo hi i /\ lo <= v < hi /\ i + (v - lo) = index + Z.of_nat k.
Proof.
  revert ids index low k. induction ranges as [|r ranges IH]; intros ids index low k; [by destruct ids|].
  cbn [ranges_ok]. destruct ranges as [|r' ranges]; [by destruct ids|]. intros H Hk. split_andb.
  match goal with H : bool_decide _ = true |- _ => apply bool_decide_eq_true in H; rename H into Ht end.
  destruct (decide (k < Z.to_nat (orig_index r' - orig_index r))%nat) as [Hlt|Hge].
  - exists 0%nat, (start_value r), (start_value r + (orig_index r' - orig_index r)), (orig_index r).
    apply (f_equal (fun l => l !! k)) in Ht. rewrite lookup_take_lt, Hk in Ht by lia.
    rewrite list_lookup_fmap, lookup_seq_lt in Ht by lia. cbn in Ht. injection Ht as ->.
    split; [by exists r, r'|]. lia.
  - destruct (IH (drop (Z.to_nat (orig_index r' - orig_index r)) ids) (orig_index r')
      (start_value r + (orig_index r' - orig_index r)) (k - Z.to_nat (orig_index r' - orig_index r))%nat)
      as (j & lo & hi & i & Hr & Hv & E); [done|rewrite lookup_drop, <-Hk; f_equal; lia|].
    exists (S j), lo, hi, i. split; [done|]. split; [done|]. lia.
Qed.

Lemma range_of_lt ranges j : (S j < List.length ranges)%nat -> exists lo hi i, range_of ranges j lo hi i.
Proof.
  intros Hj. destruct (lookup_lt_is_Some_2 ranges j) as [r Hr]; [lia|].
  destruct (lookup_lt_is_Some_2 ranges (S j)) as [r' Hr']; [lia|]. do 3 eexists. by exists r, r'.
Qed.

Lemma range_of_length ranges j lo hi i : range_of ranges j lo hi i -> (S j < List.length ranges)%nat.
Proof. intros (r & r' & _ & H%lookup_lt_Some & _). done. Qed.

Lemma range_at_some ranges j r : ranges !! j = Some r -> range_at ranges (Z.of_nat j) = Ok r.
Proof. intros H. unfold range_at. destruct (Z.ltb_spec (Z.of_nat j) 0); [lia|]. by rewrite Nat2Z.id, H. Qed.

Section search.
Context (ids : list Z) (ranges : list ProtobufCIntRange) (low value : Z).
Hypothesis Hok : ranges_ok ids 0 low ranges = true.

(** Where the range of [value] can still be. *)
Definition between (start n : nat) : Prop :=
  (start + n < List.length ranges)%nat /\
  (forall j lo hi i, range_of ranges j lo hi i -> (j < start)%nat -> hi <= value) /\
  (forall j lo hi i, range_of ranges j lo hi i -> (start + n <= j)%nat -> value < lo).

Definition found (r : Z) : Prop :=
  exists j lo hi i, range_of ranges j lo hi i /\ lo <= value < hi /\ r = i + (value - lo).

Lemma range_loop_spec fuel start n : (n < fuel)%nat -> between start n ->
  exists r, range_loop fuel ranges value (Z.of_nat start) (Z.of_nat n) = Ok r /\
    match r with
    | inl i => found i
    | inr (s, k) => exists start' n', s = Z.of_nat start' /\ k = Z.of_nat n' /\ (n' <= 1)%nat /\ between start' n'
    end.
Proof.
  revert start n. induction fuel as [|fuel IH]; intros start n Hf Hb; [lia|]. cbn [range_loop].
  destruct (Z.leb_spec (Z.of_nat n) 1).
  { eexists. split; [done|]. exists start, n. split; [done|]. split; [done|]. split; [lia|done]. }
  destruct Hb as (Hl & Hlo & Hhi).
  assert (Em : Z.of_nat start + Z.of_nat n / 2 = Z.of_nat (start + n / 2)) by (rewrite Nat2Z.inj_add, Nat2Z.inj_div; done).
  pose proof (Nat.div_lt n 2). set (mid := (start + n / 2)%nat) in *.
  destruct (range_of_lt ranges mid) as (lo & hi & i & Hr); [lia|]. pose proof Hr as (r & r' & E & E' & El & Eh & Ei).
  rewrite Em, (range_at_some _ _ _ E). cbn [obind].
  destruct (Z.ltb_spec value (start_value r)).
  - replace (Z.of_nat mid - Z.of_nat start) with (Z.of_nat (mid - start)) by lia. apply IH; [lia|].
    split; [lia|]. split; [done|]. intros j lo' hi' i' Hr' Hj.
    destruct (decide (j = mid)) as [->|Hne].
    + destruct Hr' as (r1 & r1' & E1 & E1' & -> & _). rewrite E in E1. injection E1 as <-. done.
    + pose proof (ranges_ok_sorted _ _ _ _ mid j _ _ _ _ _ _ Hok ltac:(lia) Hr Hr').
      pose proof (ranges_ok_low _ _ _ _ _ _ _ _ Hok Hr). lia.
  - replace (Z.of_nat mid + 1) with (Z.of_nat (S mid)) by lia. rewrite (range_at_some _ _ _ E'). cbn [obind].
    destruct (Z.leb_spec (start_value r + (orig_index r' - orig_index r)) value).
    + replace (Z.of_nat start + Z.of_nat n - Z.of_nat (S mid)) with (Z.of_nat (start + n - S mid)) by lia.
      apply IH; [lia|]. split; [lia|]. split; [|intros j lo' hi' i' Hr' Hj; apply (Hhi _ _ _ _ Hr'); lia].
      intros j lo' hi' i' Hr' Hj. destruct (decide (j = mid)) as [->|Hne].
      * destruct Hr' as (r1 & r1' & E1 & E1' & _ & -> & _). rewrite E in E1. rewrite E' in E1'. by injection E1 as <-; injection E1' as <-.
      * pose proof (ranges_ok_sorted _ _ _ _ j mid _ _ _ _ _ _ Hok ltac:(lia) Hr' Hr).
        lia.
    + eexists. split; [done|]. exists mid, lo, hi, i. split; [done|]. lia.
Qed.

(** The search finds the field of the number, or that there is none. *)
Lemma int_range_lookup_cases : exists r, int_range_lookup ranges value = Ok r /\
  (found r \/ (r = -1 /\ forall j lo hi i, range_of ranges j lo hi i -> ~ lo <= value < hi)).
Proof.
  unfold int_range_lookup. destruct (Z.leb_spec (Z.of_nat (List.length ranges) - 1) 0).
  { exists (-1). split; [done|]. right. split; [done|]. intros j lo hi i Hr%range_of_length. lia. }
  replace (Z.of_nat (List.length ranges) - 1) with (Z.of_nat (List.length ranges - 1)) by lia.
  destruct (range_loop_spec (List.length ranges) 0 (List.length ranges - 1)) as (r & E0 & Hr); [lia| |].
  { split; [lia|]. split; [lia|]. intros j lo hi i Hj%range_of_length. lia. }
  change (Z.of_nat 0) with 0 in E0. rewrite E0. cbn [obind]. destruct r as [i|[s k]]; [eauto|]. destruct Hr as (start & n & -> & -> & Hn & Hl & Hlo & Hhi).
  destruct (Z.ltb_spec 0 (Z.of_nat n)).
  - destruct (range_of_lt ranges start) as (lo & hi & i & Hr); [lia|].
    pose proof Hr as (r & r' & E & E' & -> & -> & ->).
    replace (Z.of_nat start + 1) with (Z.of_nat (S start)) by lia.
    rewrite (range_at_some _ _ _ E). cbn [obind]. rewrite (range_at_some _ _ _ E'). cbn [obind].
    case_match eqn:Hc.
    + split_andb. eexists. split; [done|]. left. do 4 eexists. split; [exact Hr|]. lia.
    + apply andb_false_iff in Hc. eexists. split; [done|]. right. split; [done|]. intros j lo hi i Hr' Hv.
      destruct (decide (j < start)%nat) as [Hj|Hj]; [specialize (Hlo _ _ _ _ Hr' Hj); lia|].
      destruct (decide (j = start)) as [->|]; [|specialize (Hhi _ _ _ _ Hr' ltac:(lia)); lia].
      destruct Hr' as (r1 & r1' & E1 & E1' & -> & -> & _). rewrite E in E1. rewrite E' in E1'.
      injection E1 as <-. injection E1' as <-. lia.
  - eexists. split; [done|]. right. split; [done|]. intros j lo hi i Hr Hv.
    destruct (decide (j < start)%nat) as [Hj|Hj]; [specialize (Hlo _ _ _ _ Hr Hj)|specialize (Hhi _ _ _ _ Hr ltac:(lia))]; lia.
Qed.

Lemma int_range_lookup_total : exists r, int_range_lookup ranges value = Ok r /\
  (r = -1 \/ 0 <= r /\ ids !! Z.to_nat r = Some value).
Proof.
  destruct int_range_lookup_cases as (r & -> & [(j & lo & hi & i & Hr & Hv & ->)|[-> _]]); [|by exists (-1); auto].
  eexists. split; [done|]. right. pose proof (ranges_ok_low _ _ _ _ _ _ _ _ Hok Hr). split; [lia|].
  destruct (ranges_ok_ids _ _ _ _ _ _ _ _ _ Hok Hr Hv) as [_ E]. by rewrite Z.sub_0_r in E.
Qed.

Lemma int_range_lookup_hit k : ids !! k = Some value -> int_range_lookup ranges value = Ok (Z.of_nat k).
Proof.
  intros Hk. destruct (ranges_ok_all _ _ _ _ _ _ Hok Hk) as (j & lo & hi & i & Hr & Hv & E).
  destruct int_range_lookup_cases as (r & -> & [(j' & lo' & hi' & i' & Hr' & Hv' & ->)|[_ Hn]]); [|by destruct (Hn _ _ _ _ Hr)].
  apply f_equal. assert (j = j') as <-.
  { destruct (lt_eq_lt_dec j j') as [[Hlt|]|Hlt]; [|done|];
      pose proof (ranges_ok_sorted _ _ _ _ _ _ _ _ _ _ _ _ Hok Hlt ltac:(eassumption) ltac:(eassumption)); lia. }
  destruct Hr as (r1 & r1' & E1 & E1' & -> & -> & ->). destruct Hr' as (r2 & r2' & E2 & E2' & -> & -> & ->).
  rewrite E1 in E2. injection E2 as <-. lia.
Qed.

Lemma ids_inj k k' : ids !! k = Some value -> ids !! k' = Some value -> k = k'.
Proof. intros H%int_range_lookup_hit H'%int_range_lookup_hit. rewrite H in H'. injection H'. lia. Qed.
End search.

(** ** Descriptors of proto3 *)

Section wf.
Context {D : Type}.
Implicit Types (f g : ProtobufCFieldDescriptor D).

Definition is_repeated f : bool := match label f with PROTOBUF_C_LABEL_REPEATED => true | _ => false end.

(** The members that belong to a field. *)
Definition slots f : list nat :=
  if is_repeated f || is_oneof f then [quantifier_offset f; offset f] else [offset f].

(** The value of a member that is not set. *)
Definition init_cell (t : ProtobufCType) : cell D :=
  match t with
  | PROTOBUF_C_TYPE_STRING => Str protobuf_c_empty_string
  | PROTOBUF_C_TYPE_BYTES => Bytes 0 None
  | PROTOBUF_C_TYPE_MESSAGE => Msg None
  | _ => Int 0
  end.
Definition is_init_cell (t : ProtobufCType) (c : cell D) : bool :=
  match t, c with
  | PROTOBUF_C_TYPE_STRING, Str protobuf_c_empty_string => true
  | PROTOBUF_C_TYPE_BYTES, Bytes len None => len =? 0
  | PROTOBUF_C_TYPE_MESSAGE, Msg None => true
  | PROTOBUF_C_TYPE_STRING, _ | PROTOBUF_C_TYPE_BYTES, _ | PROTOBUF_C_TYPE_MESSAGE, _ => false
  | _, Int z => z =? 0
  | _, _ => false
  end.

Definition holds_at (p : cell D -> bool) (ms : list (cell D)) (o : nat) : bool :=
  match at_member (fun c => Ok (p c)) ms o with Ok b => b | _ => false end.

Definition is_zero (c : cell D) : bool := match c with Int z => z =? 0 | _ => false end.
Definition is_null_array (c : cell D) : bool := match c with Arr None => true | _ => false end.
Definition is_zeroed (c : cell D) : bool := match c with Zeroed => true | _ => false end.

(** The member of a field is not set. *)
Definition unset f (ms : list (cell D)) : bool :=
  if is_repeated f then holds_at is_zero ms (quantifier_offset f) && holds_at is_null_array ms (offset f)
  else if is_oneof f then holds_at is_zero ms (quantifier_offset f) && holds_at is_zeroed ms (offset f)
  else holds_at (is_init_cell (type f)) ms (offset f).

(** Only repeated fields have a quantifier, and those of the union; a number fits the five
    bytes of a tag; only numbers are packed. *)
Definition field_ok (init : list (cell D)) f : bool :=
  (0 <? id f) && (id f <? 2 ^ 29) &&
  match label f with
  | PROTOBUF_C_LABEL_NONE =>
      negb (PROTOBUF_C_FIELD_FLAG_PACKED (flags f)) &&
      (PROTOBUF_C_FIELD_FLAG_ONEOF (flags f) || (quantifier_offset f =? 0)%nat)
  | PROTOBUF_C_LABEL_REPEATED =>
      negb (PROTOBUF_C_FIELD_FLAG_PACKED (flags f)) || is_packable_type (type f)
  | _ => false
  end &&
  match type f with
  | PROTOBUF_C_TYPE_MESSAGE =>
      match descriptor f with Some _ => true | None => false end && bool_decide (default_value f = NULL_string)
  | PROTOBUF_C_TYPE_STRING =>
      is_repeated f || is_oneof f || bool_decide (default_value f = protobuf_c_empty_string)
  | _ => true
  end &&
  match default_value f with heap_string _ => false | _ => true end &&
  negb (quantifier_offset f =? offset f)%nat &&
  unset f init.

(** Two fields share no member, unless they are of the union. *)
Definition one_union f g : bool :=
  is_oneof f && is_oneof g && (quantifier_offset f =? quantifier_offset g)%nat && (offset f =? offset g)%nat.
Definition apart f g : bool :=
  one_union f g || forallb (fun o => negb (existsb (Nat.eqb o) (slots g))) (slots f).

Fixpoint all_apart (fs : list (ProtobufCFieldDescriptor D)) : bool :=
  match fs with [] => true | f :: fs => forallb (apart f) fs && all_apart fs end.

Definition wf_descriptor (d : ProtobufCMessageDescriptor D) : bool :=
  ranges_ok (map id (fields d)) 0 1 (field_ranges d) &&
  forallb (field_ok (message_init d)) (fields d) &&
  all_apart (fields d) &&
  forallb (fun o => existsb (fun f => existsb (Nat.eqb o) (slots f)) (fields d))
    (seq 1 (List.length (message_init d))).

(** *** Lemmas *)

Lemma holds_at_spec p ms o : holds_at p ms o = true <-> exists c, at_slot ms o = Some c /\ p c = true.
Proof.
  unfold holds_at. rewrite at_member_eq. destruct (at_slot ms o) as [c|]; [|by split; [|intros (? & ? & _)]].
  split; [eauto|]. by intros (? & [= <-] & ?).
Qed.

Lemma is_init_cell_spec t c : is_init_cell t c = true <-> c = init_cell t.
Proof.
  split.
  - destruct t, c as [| |z|p|len data|p|p]; try done; cbn; try (intros ->%Z.eqb_eq; done); try by destruct p.
    destruct data; [done|]. by intros ->%Z.eqb_eq.
  - intros ->. by destruct t.
Qed.

Lemma existsb_in o l : existsb (Nat.eqb o) l = true <-> o ∈ l.
Proof.
  rewrite existsb_exists. setoid_rewrite <-list_elem_of_In. setoid_rewrite Nat.eqb_eq. naive_solver.
Qed.

Lemma one_union_comm f g : one_union f g = one_union g f.
Proof. unfold one_union. rewrite (Nat.eqb_sym (offset f)), (Nat.eqb_sym (quantifier_offset f)). by destruct (is_oneof f), (is_oneof g). Qed.

Lemma apart_spec f g : apart f g = true <-> one_union f g = true \/ forall o, o ∈ slots f -> o ∉ slots g.
Proof.
  unfold apart. rewrite orb_true_iff. apply or_iff_compat_l. rewrite forallb_forall.
  split; intros H o; specialize (H o); rewrite <-list_elem_of_In, negb_true_iff, <-not_true_iff_false, existsb_in in *; auto.
Qed.

Lemma apart_sym f g : apart f g = true -> apart g f = true.
Proof. rewrite !apart_spec, one_union_comm. intros [?|H]; [by left|right]. intros o Ho Hf. by apply (H o Hf). Qed.

Lemma all_apart_lookup fs i j f g : all_apart fs = true -> fs !! i = Some f -> fs !! j = Some g -> i <> j ->
  apart f g = true.
Proof.
  revert i j f g. induction fs as [|h fs IH]; [done|]. intros i j f g. cbn [all_apart]. intros [Hh Ha]%andb_true_iff.
  rewrite forallb_forall in Hh. destruct i as [|i], j as [|j]; cbn; intros Hf Hg Hn; try done.
  - injection Hf as <-. apply Hh, list_elem_of_In. by eapply list_elem_of_lookup_2.
  - injection Hg as <-. apply apart_sym, Hh, list_elem_of_In. by eapply list_elem_of_lookup_2.
  - eapply IH; [done..|lia].
Qed.
End wf.

Section wf_lemmas.
Context {D : Type} (desc : D -> ProtobufCMessageDescriptor D) (d : D).
Hypothesis Hwf : wf_descriptor (desc d) = true.

Lemma wf_ranges : ranges_ok (map id (fields (desc d))) 0 1 (field_ranges (desc d)) = true.
Proof. unfold wf_descriptor in Hwf. by split_andb. Qed.

Lemma wf_field f : f ∈ fields (desc d) -> field_ok (message_init (desc d)) f = true.
Proof.
  unfold wf_descriptor in Hwf. split_andb. intros Hf.
  match goal with H : forallb (field_ok _) _ = true |- _ => rewrite forallb_forall in H; by apply H, list_elem_of_In end.
Qed.

Lemma wf_apart i j f g : fields (desc d) !! i = Some f -> fields (desc d) !! j = Some g -> i <> j -> apart f g = true.
Proof. unfold wf_descriptor in Hwf. split_andb. by apply all_apart_lookup. Qed.

Lemma wf_cover o : (1 <= o <= List.length (message_init (desc d)))%nat ->
  exists f, f ∈ fields (desc d) /\ o ∈ slots f.
Proof.
  unfold wf_descriptor in Hwf. split_andb. intros Ho.
  match goal with H : forallb _ (seq _ _) = true |- _ => rewrite forallb_forall in H; specialize (H o) end.
  rewrite in_seq in *. match goal with H : _ -> existsb _ _ = true |- _ => specialize (H ltac:(lia)); apply existsb_exists in H as (f & Hf & Hs) end.
  exists f. rewrite list_elem_of_In, <-existsb_in. done.
Qed.

Lemma wf_id f : f ∈ fields (desc d) -> 0 < id f < 2 ^ 29.
Proof. intros Hf. apply wf_field in Hf. unfold field_ok in Hf. split_andb. lia. Qed.

Lemma signed32_small z : 0 <= z < 2 ^ 31 -> signed32 z = z.
Proof. intros. apply signed32_id. lia. Qed.

Lemma wf_lookup i f : fields (desc d) !! i = Some f ->
  int_range_lookup (field_ranges (desc d)) (signed32 (id f)) = Ok (Z.of_nat i).
Proof.
  intros Hi. pose proof (wf_id f (list_elem_of_lookup_2 _ _ _ Hi)). rewrite signed32_small by lia.
  eapply int_range_lookup_hit; [apply wf_ranges|]. by rewrite list_lookup_fmap, Hi.
Qed.

Lemma wf_unique i j f g : fields (desc d) !! i = Some f -> fields (desc d) !! j = Some g -> id f = id g -> i = j.
Proof.
  intros Hi Hj E. apply (ids_inj _ _ _ (id f) wf_ranges); rewrite list_lookup_fmap.
  - by rewrite Hi.
  - by rewrite Hj, E.
Qed.

(** For a number that comes from the data. *)
Lemma wf_lookup_total tag : exists r,
  int_range_lookup (field_ranges (desc d)) (signed32 tag) = Ok r /\
  (r = -1 \/ 0 <= r /\ exists f, fields (desc d) !! Z.to_nat r = Some f /\ id f = signed32 tag).
Proof.
  destruct (int_range_lookup_total _ _ _ (signed32 tag) wf_ranges) as (r & -> & [->|[Hr H]]); [by exists (-1); auto|].
  exists r. split; [done|]. right. split; [done|]. rewrite list_lookup_fmap in H.
  destruct (fields (desc d) !! Z.to_nat r) as [f|]; [|done]. injection H as <-. eauto.
Qed.
End wf_lemmas.

(** * Messages that fit their descriptors

    [well_typed num str m]: every member of the message has what the descriptor says, its
    numbers pass [num] and its strings [str].  A member that is not set has its initial
    value, so that two messages with the same contents are equal. *)

Open Scope Z_scope.
Open Scope list_scope.

(** The numbers that a member of a type can hold.  The float -0 is not packed as a member,
    as it is equal to 0. *)
Definition in_type (t : ProtobufCType) (z : Z) : bool :=
  match t with
  | PROTOBUF_C_TYPE_INT32 | PROTOBUF_C_TYPE_SINT32 | PROTOBUF_C_TYPE_SFIXED32 | PROTOBUF_C_TYPE_ENUM =>
      (- 2 ^ 31 <=? z) && (z <? 2 ^ 31)
  | PROTOBUF_C_TYPE_INT64 | PROTOBUF_C_TYPE_SINT64 | PROTOBUF_C_TYPE_SFIXED64 =>
      (- 2 ^ 63 <=? z) && (z <? 2 ^ 63)
  | PROTOBUF_C_TYPE_UINT32 | PROTOBUF_C_TYPE_FIXED32 => (0 <=? z) && (z <? 2 ^ 32)
  | PROTOBUF_C_TYPE_FLOAT => (0 <=? z) && (z <? 2 ^ 32) && negb (z =? 2 ^ 31)
  | PROTOBUF_C_TYPE_UINT64 | PROTOBUF_C_TYPE_FIXED64 => (0 <=? z) && (z <? 2 ^ 64)
  | PROTOBUF_C_TYPE_DOUBLE => (0 <=? z) && (z <? 2 ^ 64) && negb (z =? 2 ^ 63)
  | PROTOBUF_C_TYPE_BOOL => (z =? 0) || (z =? 1)
  | _ => false
  end.

Definition is_nil {A} (l : list A) : bool := match l with [] => true | _ => false end.

Section typed.
Context {D : Type} `{EqDecision D} (desc : D -> ProtobufCMessageDescriptor D).
Variable num : ProtobufCType -> Z -> bool.
Variable str : string -> bool.

Section field.
Variable message_typed : message D -> bool.

(** A member that is set, or an element of an array. *)
Definition typed_element (f : ProtobufCFieldDescriptor D) (c : cell D) : bool :=
  match type f, c with
  | PROTOBUF_C_TYPE_STRING, Str (heap_string s) => str s
  | PROTOBUF_C_TYPE_BYTES, Bytes len (Some bs) => (len =? Z.of_nat (List.length bs)) && (0 <? len)
  | PROTOBUF_C_TYPE_BYTES, Bytes len None => len =? 0
  | PROTOBUF_C_TYPE_MESSAGE, Msg (Some m) =>
      bool_decide (descriptor f = Some (message_descriptor m)) && message_typed m
  | (PROTOBUF_C_TYPE_STRING | PROTOBUF_C_TYPE_BYTES | PROTOBUF_C_TYPE_MESSAGE), _ => false
  | t, Int z => num t z
  | _, _ => false
  end.

(** It is not the empty string. *)
Definition nonempty (c : cell D) : bool :=
  match c with Str (heap_string s) => negb (String.eqb s "") | _ => true end.

Definition has_value (z : Z) (c : cell D) : bool := match c with Int k => k =? z | _ => false end.

Definition typed_member (f : ProtobufCFieldDescriptor D) (ms : list (cell D)) : bool :=
  if is_repeated f then
    holds_at (fun c =>
      match c with
      | Arr None => holds_at is_zero ms (quantifier_offset f)
      | Arr (Some l) =>
          negb (is_nil l) && holds_at (has_value (Z.of_nat (List.length l))) ms (quantifier_offset f) &&
          forallb (typed_element f) l
      | _ => false
      end) ms (offset f)
  else if is_oneof f then
    if holds_at (has_value (id f)) ms (quantifier_offset f) then holds_at (typed_element f) ms (offset f) else true
  else holds_at (fun c => is_init_cell (type f) c || (typed_element f c && nonempty c)) ms (offset f).
End field.

(** The union has a member of the field that its case names. *)
Definition union_set (ms : list (cell D)) (fs : list (ProtobufCFieldDescriptor D)) (f : ProtobufCFieldDescriptor D) : bool :=
  negb (is_oneof f) || unset f ms ||
  existsb (fun g => one_union f g && holds_at (has_value (id g)) ms (quantifier_offset f)) fs.

Fixpoint well_typed (m : message D) : bool :=
  let 'Message d ms us := m in
  (List.length ms =? List.length (message_init (desc d)))%nat &&
  is_nil us &&
  forallb (fun f => typed_member well_typed f ms) (fields (desc d)) &&
  forallb (union_set ms (fields (desc d))) (fields (desc d)).
End typed.

(** The messages that are packed and unpacked without loss. *)
Definition fits {D} `{EqDecision D} (desc : D -> ProtobufCMessageDescriptor D) : message D -> bool :=
  well_typed desc in_type no_nul.

(** ** What the members are *)

Section slot_lemmas.
Context {D : Type}.
Implicit Types (f : ProtobufCFieldDescriptor D) (ms : list (cell D)).

Lemma has_value_spec z (c : cell D) : has_value z c = true <-> c = Int z.
Proof. destruct c; cbn; try done. rewrite Z.eqb_eq. naive_solver. Qed.

Lemma holds_has_value z ms o : holds_at (has_value z) ms o = true <-> at_slot ms o = Some (Int z).
Proof. rewrite holds_at_spec. setoid_rewrite has_value_spec. naive_solver. Qed.

Lemma holds_is_zero ms o : holds_at is_zero ms o = true <-> at_slot ms o = Some (Int 0).
Proof. apply (holds_has_value 0). Qed.

Lemma holds_initial t ms o : holds_at (is_init_cell t) ms o = true <-> at_slot ms o = Some (init_cell t).
Proof. rewrite holds_at_spec. setoid_rewrite is_init_cell_spec. naive_solver. Qed.

Lemma holds_null_array ms o : holds_at is_null_array ms o = true <-> at_slot ms o = Some (Arr None).
Proof.
  rewrite holds_at_spec. split; [|intros H; by exists (Arr None)]. intros (c & H & Hc). by destruct c as [| | | | | |[?|]].
Qed.

Lemma holds_zeroed ms o : holds_at is_zeroed ms o = true <-> at_slot ms o = Some Zeroed.
Proof. rewrite holds_at_spec. split; [|intros H; by exists Zeroed]. intros (c & H & Hc). by destruct c. Qed.

Lemma unset_repeated f ms : is_repeated f = true ->
  unset f ms = true <-> at_slot ms (quantifier_offset f) = Some (Int 0) /\ at_slot ms (offset f) = Some (Arr None).
Proof. intros H. unfold unset. by rewrite H, andb_true_iff, holds_is_zero, holds_null_array. Qed.

Lemma unset_oneof f ms : is_repeated f = false -> is_oneof f = true ->
  unset f ms = true <-> at_slot ms (quantifier_offset f) = Some (Int 0) /\ at_slot ms (offset f) = Some Zeroed.
Proof. intros H H'. unfold unset. by rewrite H, H', andb_true_iff, holds_is_zero, holds_zeroed. Qed.

Lemma unset_single f ms : is_repeated f = false -> is_oneof f = false ->
  unset f ms = true <-> at_slot ms (offset f) = Some (init_cell (type f)).
Proof. intros H H'. unfold unset. by rewrite H, H', holds_initial. Qed.

Lemma one_union_slots f g : one_union f g = true ->
  is_oneof g = true /\ quantifier_offset g = quantifier_offset f /\ offset g = offset f.
Proof. unfold one_union. intros H. split_andb. rewrite !Nat.eqb_eq in *. done. Qed.

Lemma oneof_not_repeated f : is_oneof f = true -> is_repeated f = false.
Proof. unfold is_oneof, is_repeated. by destruct (label f). Qed.

(** The case of the union: nothing, or a field of the message. *)
Lemma union_cases ms fs f : is_repeated f = false -> is_oneof f = true -> union_set ms fs f = true ->
  unset f ms = true \/
  exists g, g ∈ fs /\ one_union f g = true /\ at_slot ms (quantifier_offset f) = Some (Int (id g)).
Proof.
  intros Hr Ho. unfold union_set. rewrite Ho. cbn. intros [H|H]%orb_true_iff; [by left|right].
  apply existsb_exists in H as (g & Hg & H). split_andb. exists g. rewrite list_elem_of_In, <-holds_has_value. done.
Qed.
End slot_lemmas.

Section lemmas.
Context {D : Type} `{EqDecision D}.
Context (num : ProtobufCType -> Z -> bool) (str : string -> bool) (P : message D -> bool).
Implicit Types (f : ProtobufCFieldDescriptor D) (ms : list (cell D)).

Lemma typed_repeated f ms : is_repeated f = true -> typed_member num str P f ms = true ->
  unset f ms = true \/
  exists l, l <> [] /\ at_slot ms (quantifier_offset f) = Some (Int (Z.of_nat (List.length l))) /\
    at_slot ms (offset f) = Some (Arr (Some l)) /\ Forall (fun c => typed_element num str P f c = true) l.
Proof.
  intros Hr. unfold typed_member. rewrite Hr. intros (c & Ho & Hc)%holds_at_spec.
  destruct c as [| | | | | |[l|]]; try done.
  - right. split_andb. exists l. rewrite holds_has_value in *. rewrite forallb_forall in *.
    split; [by intros ->|]. split; [done|]. split; [done|]. apply Forall_forall. intros x Hx. by apply H0, list_elem_of_In.
  - left. apply unset_repeated; [done|]. by rewrite holds_is_zero in Hc.
Qed.

Lemma typed_single f ms : is_repeated f = false -> is_oneof f = false -> typed_member num str P f ms = true ->
  unset f ms = true \/
  exists c, at_slot ms (offset f) = Some c /\ typed_element num str P f c = true /\ nonempty c = true /\
    is_init_cell (type f) c = false.
Proof.
  intros Hr Ho. unfold typed_member. rewrite Hr, Ho. intros (c & Hs & Hc)%holds_at_spec.
  destruct (is_init_cell (type f) c) eqn:Hi; [left|right].
  - apply unset_single; [done..|]. apply is_init_cell_spec in Hi. by subst.
  - cbn in Hc. split_andb. eauto.
Qed.

Lemma typed_oneof f ms : is_repeated f = false -> is_oneof f = true -> typed_member num str P f ms = true ->
  at_slot ms (quantifier_offset f) = Some (Int (id f)) ->
  exists c, at_slot ms (offset f) = Some c /\ typed_element num str P f c = true.
Proof.
  intros Hr Ho. unfold typed_member. rewrite Hr, Ho. intros Ht Hq%holds_has_value. rewrite Hq in Ht.
  by apply holds_at_spec.
Qed.
End lemmas.

(** * Fields by name and by number

    [protobuf_c_message_descriptor_get_field_by_name] and
    [protobuf_c_message_descriptor_get_field]. *)

Open Scope Z_scope.

(** ** Operations *)

Section lookup.
Context {D : Type}.
Implicit Types (desc : ProtobufCMessageDescriptor D).

(** [strcmp] of two strings of the program: the bytes are compared as unsigned. *)
Definition strcmp (s t : string) : comparison := String.compare s t.

(** [desc->fields + desc->fields_sorted_by_name[i]] *)
Definition sorted_field desc (i : nat) : outcome (ProtobufCFieldDescriptor D) :=
  match fields_sorted_by_name desc !! i with
  | None => Undef
  | Some k => match fields desc !! k with Some f => Ok f | None => Undef end
  end.

(** [while (count > 1)] and the test after it; [count] gets smaller in every round. *)
Fixpoint name_loop (fuel : nat) desc (name : string) (start count : nat) :
    outcome (option (ProtobufCFieldDescriptor D)) :=
  match fuel with
  | O => Undef
  | S fuel =>
      if (1 <? count)%nat then
        let mid := (start + count / 2)%nat in
        let* field := sorted_field desc mid in
        match strcmp (ProtobufC.name field) name with
        | Eq => Ok (Some field)
        | Lt => name_loop fuel desc name (mid + 1) (start + count - (mid + 1))
        | Gt => name_loop fuel desc name start (mid - start)
        end
      else if (count =? 0)%nat then Ok None
      else
        let* field := sorted_field desc start in
        match strcmp (ProtobufC.name field) name with Eq => Ok (Some field) | _ => Ok None end
  end.

(** The array of the indices is null if there are no fields. *)
Definition protobuf_c_message_descriptor_get_field_by_name desc (name : string) :
    outcome (option (ProtobufCFieldDescriptor D)) :=
  match fields_sorted_by_name desc with
  | [] => Ok None
  | _ => name_loop (S (List.length (fields desc))) desc name 0 (List.length (fields desc))
  end.

(** [value] is converted to [int] for the search. *)
Definition protobuf_c_message_descriptor_get_field desc (value : Z) :
    outcome (option (ProtobufCFieldDescriptor D)) :=
  let* rv := int_range_lookup (field_ranges desc) (signed32 value) in
  if rv <? 0 then Ok None
  else match fields desc !! Z.to_nat rv with Some f => Ok (Some f) | None => Undef end.

(** ** By name *)

(** The fields in the order of their names, which is strict; every field is there. *)
Definition by_name desc : list (ProtobufCFieldDescriptor D) :=
  omap (fun i => fields desc !! i) (fields_sorted_by_name desc).
Fixpoint strictly_sorted (names : list string) : bool :=
  match names with
  | [] => true
  | a :: names => forallb (fun b => match strcmp a b with Lt => true | _ => false end) names && strictly_sorted names
  end.
Definition names_ok desc : bool :=
  (List.length (by_name desc) =? List.length (fields desc))%nat &&
  (List.length (fields_sorted_by_name desc) =? List.length (fields desc))%nat &&
  strictly_sorted (map ProtobufC.name (by_name desc)) &&
  forallb (fun k => existsb (Nat.eqb k) (fields_sorted_by_name desc)) (seq 0 (List.length (fields desc))).
End lookup.

Lemma strcmp_eq s t : strcmp s t = Eq <-> s = t.
Proof. split; [apply String.compare_eq_iff|intros ->]. unfold strcmp. pose proof (String.compare_antisym t t). destruct (String.compare t t); done. Qed.

Lemma strcmp_cons a s b t : strcmp (String a s) (String b t) =
  match (N_of_ascii a ?= N_of_ascii b)%N with Eq => strcmp s t | c => c end.
Proof. reflexivity. Qed.

Lemma strcmp_trans s t u : strcmp s t = Lt -> strcmp t u = Lt -> strcmp s u = Lt.
Proof.
  revert t u. induction s as [|a s IH]; intros [|b t] [|c u]; try done. rewrite !strcmp_cons.
  destruct (N.compare_spec (N_of_ascii a) (N_of_ascii b)), (N.compare_spec (N_of_ascii b) (N_of_ascii c)),
    (N.compare_spec (N_of_ascii a) (N_of_ascii c)); try done; try lia. apply IH.
Qed.

Lemma strcmp_sym s t : strcmp s t = Gt <-> strcmp t s = Lt.
Proof. unfold strcmp. rewrite (String.compare_antisym s t). by destruct (String.compare t s). Qed.

Section by_name.
Context {D : Type} (desc : ProtobufCMessageDescriptor D).
Hypothesis Hok : names_ok desc = true.
Implicit Types (f : ProtobufCFieldDescriptor D).

Lemma sorted_lookup names i j a b : strictly_sorted names = true -> (i < j)%nat ->
  names !! i = Some a -> names !! j = Some b -> strcmp a b = Lt.
Proof.
  revert i j. induction names as [|c names IH]; intros i j; [done|]. cbn [strictly_sorted].
  intros [Hc Hs]%andb_true_iff Hij Hi Hj. destruct i as [|i], j as [|j]; try lia; cbn in *; [|apply (IH i j); (done || lia)].
  injection Hi as ->. rewrite forallb_forall in Hc. specialize (Hc b). rewrite <-list_elem_of_In in Hc.
  specialize (Hc (list_elem_of_lookup_2 _ _ _ Hj)). by destruct (strcmp a b).
Qed.

(** With as many results as indices, every index leads to a field. *)
Lemma omap_full {A B} (g : A -> option B) l : List.length (omap g l) = List.length l ->
  forall i x, l !! i = Some x -> exists y, g x = Some y /\ omap g l !! i = Some y.
Proof.
  assert (Hle : forall l, (List.length (omap g l) <= List.length l)%nat).
  { intros l'. induction l' as [|x l' IH]; cbn; [lia|]. destruct (g x); cbn; lia. }
  induction l as [|x l IH]; [done|]. cbn. intros Hl i z. destruct (g x) as [y|] eqn:E; cbn in *.
  - destruct i as [|i]; cbn; [intros [= <-]; eauto|]. apply IH. lia.
  - specialize (Hle l). lia.
Qed.

Lemma names_ok_inv : List.length (by_name desc) = List.length (fields desc) /\
  List.length (fields_sorted_by_name desc) = List.length (fields desc) /\
  strictly_sorted (map ProtobufC.name (by_name desc)) = true /\
  forall k, (k < List.length (fields desc))%nat -> k ∈ fields_sorted_by_name desc.
Proof.
  unfold names_ok in Hok. split_andb. rewrite !Nat.eqb_eq in *. split; [done|]. split; [done|]. split; [done|].
  intros k Hk. match goal with H : forallb _ (seq _ _) = true |- _ => rewrite forallb_forall in H; specialize (H k) end.
  rewrite in_seq, existsb_in in *. auto with lia.
Qed.

Lemma sorted_field_some i : (i < List.length (fields desc))%nat -> exists f,
  sorted_field desc i = Ok f /\ by_name desc !! i = Some f.
Proof.
  destruct names_ok_inv as (Hl & Hl' & _ & _). rewrite <-Hl'. intros [k Hk]%lookup_lt_is_Some_2.
  destruct (omap_full (fun i => fields desc !! i) (fields_sorted_by_name desc)) with (i := i) (x := k) as (f & E & Ef); [|done|].
  { unfold by_name in Hl. congruence. }
  exists f. unfold sorted_field. by rewrite Hk, E.
Qed.

(** A field is somewhere in the order. *)
Lemma by_name_elem f : f ∈ by_name desc <-> f ∈ fields desc.
Proof.
  destruct names_ok_inv as (_ & _ & _ & Hin). unfold by_name. rewrite list_elem_of_omap. split.
  - intros (k & _ & E). by eapply list_elem_of_lookup_2.
  - intros [k Hk]%list_elem_of_lookup. exists k. split; [|done]. by eapply Hin, lookup_lt_Some.
Qed.

Lemma name_loop_spec name fuel start count : (count < fuel)%nat -> (start + count <= List.length (fields desc))%nat ->
  (forall i f, by_name desc !! i = Some f -> (i < start)%nat -> strcmp (ProtobufC.name f) name = Lt) ->
  (forall i f, by_name desc !! i = Some f -> (start + count <= i)%nat -> strcmp (ProtobufC.name f) name = Gt) ->
  exists r, name_loop fuel desc name start count = Ok r /\
    match r with
    | Some f => f ∈ fields desc /\ ProtobufC.name f = name
    | None => forall f, f ∈ fields desc -> ProtobufC.name f <> name
    end.
Proof.
  destruct names_ok_inv as (_ & _ & Hs & _).
  assert (Hord : forall i j f g, (i < j)%nat -> by_name desc !! i = Some f -> by_name desc !! j = Some g ->
    strcmp (ProtobufC.name f) (ProtobufC.name g) = Lt).
  { intros i j f g Hij Hf Hg. eapply (sorted_lookup _ i j); [exact Hs|done|..]; rewrite list_lookup_fmap; [by rewrite Hf|by rewrite Hg]. }
  revert start count. induction fuel as [|fuel IH]; intros start count Hf Hl Hlo Hhi; [lia|]. cbn [name_loop].
  destruct (Nat.ltb_spec 1 count).
  - pose proof (Nat.div_lt count 2). pose proof (Nat.div_str_pos count 2). set (mid := (start + count / 2)%nat) in *.
    destruct (sorted_field_some mid) as (f & -> & Hm); [lia|]. cbn [obind].
    destruct (strcmp (ProtobufC.name f) name) eqn:E.
    + eexists. split; [done|]. split; [|by apply strcmp_eq]. apply by_name_elem. by eapply list_elem_of_lookup_2.
    + apply IH; [lia|lia| |intros i g Hg Hi; apply (Hhi i g Hg); lia]. intros i g Hg Hi.
      destruct (decide (i = mid)) as [->|]; [congruence|]. eapply strcmp_trans; [|exact E]. apply (Hord i mid); (done || lia).
    + apply IH; [lia|lia|done|]. intros i g Hg Hi.
      destruct (decide (i = mid)) as [->|]; [congruence|]. apply strcmp_sym. apply strcmp_sym in E.
      eapply strcmp_trans; [exact E|]. apply (Hord mid i); (done || lia).
  - assert (Hnone : forall i, (forall f, by_name desc !! i = Some f -> (start <= i < start + count)%nat ->
        ProtobufC.name f <> name) -> forall f, by_name desc !! i = Some f -> ProtobufC.name f <> name).
    { intros i Hi f Hbf En%strcmp_eq. destruct (decide (i < start)%nat); [by rewrite (Hlo i f) in En|].
      destruct (decide (start + count <= i)%nat); [by rewrite (Hhi i f) in En|]. apply strcmp_eq in En.
      by apply (Hi f); [|lia|]. }
    destruct (Nat.eqb_spec count 0).
    + eexists. split; [done|]. intros f [i Hi]%by_name_elem%list_elem_of_lookup. apply (Hnone i); [lia|done].
    + destruct (sorted_field_some start) as (f & -> & Hm); [lia|]. cbn [obind].
      destruct (strcmp (ProtobufC.name f) name) eqn:E.
      { eexists. split; [done|]. split; [|by apply strcmp_eq]. apply by_name_elem. by eapply list_elem_of_lookup_2. }
      all: eexists; (split; [done|]); intros g [i Hi]%by_name_elem%list_elem_of_lookup; apply (Hnone i); [|done];
        intros h Hh Hr; (replace i with start in Hh by lia); rewrite Hm in Hh; injection Hh as <-; intros En%strcmp_eq; congruence.
Qed.

Lemma get_field_by_name_spec name : exists r,
  protobuf_c_message_descriptor_get_field_by_name desc name = Ok r /\
  match r with
  | Some f => f ∈ fields desc /\ ProtobufC.name f = name
  | None => forall f, f ∈ fields desc -> ProtobufC.name f <> name
  end.
Proof.
  unfold protobuf_c_message_descriptor_get_field_by_name. destruct (fields_sorted_by_name desc) as [|k l] eqn:E.
  - exists None. split; [done|]. intros f. destruct names_ok_inv as (_ & Hl & _). rewrite E in Hl.
    destruct (fields desc); [by intros ?%elem_of_nil|done].
  - apply name_loop_spec; [lia|lia|lia|]. intros i f Hi%lookup_lt_Some. destruct names_ok_inv as (Hl & _). lia.
Qed.
End by_name.

(** ** By number *)

Lemma get_field_spec {D} (desc : ProtobufCMessageDescriptor D) value : wf_descriptor desc = true ->
  exists r, protobuf_c_message_descriptor_get_field desc value = Ok r /\
    match r with
    | Some f => f ∈ fields desc /\ id f = signed32 value
    | None => forall f, f ∈ fields desc -> id f <> signed32 value
    end.
Proof.
  intros Hwf. assert (Hr : ranges_ok (map id (fields desc)) 0 1 (field_ranges desc) = true).
  { unfold wf_descriptor in Hwf. by split_andb. }
  unfold protobuf_c_message_descriptor_get_field.
  destruct (int_range_lookup_cases _ _ _ (signed32 value) Hr) as (r & E & Hc). rewrite E. cbn [obind].
  destruct (int_range_lookup_total _ _ _ (signed32 value) Hr) as (r' & E' & Hr'). rewrite E in E'. injection E' as <-.
  destruct Hc as [(j & lo & hi & i & Hj & Hv & ->)|[-> Hn]].
  - destruct Hr' as [Hneg|[Hpos Hid]]; [pose proof (ranges_ok_low _ _ _ _ _ _ _ _ Hr Hj); lia|].
    destruct (Z.ltb_spec (i + (signed32 value - lo)) 0); [lia|]. rewrite list_lookup_fmap in Hid.
    destruct (fields desc !! Z.to_nat (i + (signed32 value - lo))) as [f|] eqn:Ef; [|done]. injection Hid as Hid.
    exists (Some f). split; [done|]. split; [by eapply list_elem_of_lookup_2|done].
  - exists None. split; [done|]. intros f [k Hk]%list_elem_of_lookup Hid.
    destruct (ranges_ok_all _ _ _ _ k (signed32 value) Hr) as (j & lo & hi & i & Hj & Hv & _);
      [by rewrite list_lookup_fmap, Hk, <-Hid|]. by apply (Hn _ _ _ _ Hj).
Qed.
