(* ===== verification/ProtobufCPack.v ===== *)
(** * Packing: sizes and elements

    A message that fits its descriptor is packed, and takes as many bytes as
    [protobuf_c_message_get_packed_size] says, which is what its callers allocate; then
    one element of a message, written and read. *)
From S2P Require Import Prelude Keywords ProtobufC ProtobufCDesc.

Open Scope Z_scope.
Open Scope list_scope.

(** ** The functions by field *)

Section equations.
Context {D : Type} (desc : D -> ProtobufCMessageDescriptor D).

Definition field_pack (message_pack : message D -> outcome bytes) (ms : list (cell D))
    (f : ProtobufCFieldDescriptor D) : outcome bytes :=
  at_member (fun c =>
    match label f with
    | PROTOBUF_C_LABEL_REQUIRED => required_field_pack message_pack f c
    | PROTOBUF_C_LABEL_REPEATED =>
        let* count := at_member get_int ms (quantifier_offset f) in repeated_field_pack message_pack f count c
    | l =>
        if is_oneof f then
          let* oneof_case := at_member get_int ms (quantifier_offset f) in oneof_field_pack message_pack f oneof_case c
        else if match l with PROTOBUF_C_LABEL_OPTIONAL => true | _ => false end then
          optional_field_pack message_pack f (at_member get_int ms (quantifier_offset f)) c
        else unlabeled_field_pack message_pack f c
    end) ms (offset f).

Lemma message_pack_eq d ms us :
  protobuf_c_message_pack desc (Message d ms us) =
    (let* rv := pack_fields (field_pack (protobuf_c_message_pack desc) ms) (fields (desc d)) in
     Ok (rv ++ List.concat (map unknown_field_pack us))).
Proof. reflexivity. Qed.

Definition field_size (message_size : message D -> outcome Z) (ms : list (cell D))
    (f : ProtobufCFieldDescriptor D) : outcome Z :=
  at_member (fun c =>
    match label f with
    | PROTOBUF_C_LABEL_REQUIRED => required_field_get_packed_size message_size f c
    | PROTOBUF_C_LABEL_REPEATED =>
        let* count := at_member get_int ms (quantifier_offset f) in
        repeated_field_get_packed_size message_size f count c
    | l =>
        if is_oneof f then
          let* oneof_case := at_member get_int ms (quantifier_offset f) in
          oneof_field_get_packed_size message_size f oneof_case c
        else if match l with PROTOBUF_C_LABEL_OPTIONAL => true | _ => false end then
          optional_field_get_packed_size message_size f (at_member get_int ms (quantifier_offset f)) c
        else unlabeled_field_get_packed_size message_size f c
    end) ms (offset f).

Lemma message_size_eq d ms us :
  protobuf_c_message_get_packed_size desc (Message d ms us) =
    (let* rv := sum_fields (field_size (protobuf_c_message_get_packed_size desc) ms) (fields (desc d)) in
     Ok (rv + foldr (fun u n => unknown_field_get_packed_size u + n) 0 us)).
Proof. reflexivity. Qed.

Lemma pack_fields_cons (pack : ProtobufCFieldDescriptor D -> outcome bytes) f fs :
  pack_fields pack (f :: fs) = (let* bs := pack f in let* rv := pack_fields pack fs in Ok (bs ++ rv)).
Proof. reflexivity. Qed.

Lemma sum_fields_cons (size : ProtobufCFieldDescriptor D -> outcome Z) f fs :
  sum_fields size (f :: fs) = (let* n := size f in let* rv := sum_fields size fs in Ok (n + rv)).
Proof. reflexivity. Qed.

(** *** Nesting *)

Definition cells_depth (l : list (cell D)) : nat := foldr (fun c n => Nat.max (cell_depth c) n) O l.

Lemma cells_depth_in l c : c ∈ l -> (cell_depth c <= cells_depth l)%nat.
Proof.
  induction 1 as [c l|c c' l H IH].
  - change (cells_depth (c :: l)) with (Nat.max (cell_depth c) (cells_depth l)). lia.
  - change (cells_depth (c' :: l)) with (Nat.max (cell_depth c') (cells_depth l)). lia.
Qed.

Lemma member_depth (d : D) ms us o m : at_slot ms o = Some (Msg (Some m)) ->
  (message_depth m < message_depth (Message d ms us))%nat.
Proof.
  destruct o as [|o]; [done|]. intros H%list_elem_of_lookup_2%cells_depth_in.
  change (message_depth (Message d ms us)) with (S (cells_depth ms)).
  change (cell_depth (Msg (Some m))) with (message_depth m) in H. lia.
Qed.

Lemma element_depth (d : D) ms us o l m : at_slot ms o = Some (Arr (Some l)) -> Msg (Some m) ∈ l ->
  (message_depth m < message_depth (Message d ms us))%nat.
Proof.
  destruct o as [|o]; [done|]. intros H%list_elem_of_lookup_2%cells_depth_in Hm%cells_depth_in.
  change (message_depth (Message d ms us)) with (S (cells_depth ms)).
  change (cell_depth (Msg (Some m))) with (message_depth m) in Hm.
  change (cell_depth (Arr (Some l))) with (cells_depth l) in H. lia.
Qed.
End equations.

(** ** Sizes *)

(** The size is there, and if it is below 4 GiB so are as many bytes. *)
Definition sized (packed : outcome bytes) (size : outcome Z) : Prop :=
  exists n, size = Ok n /\ 0 <= n /\ (n < 2 ^ 32 -> exists bs, packed = Ok bs /\ Z.of_nat (List.length bs) = n).

Lemma sized_ok bs n : Z.of_nat (List.length bs) = n -> sized (Ok bs) (Ok n).
Proof. intros <-. eexists. split; [done|]. split; [lia|]. intros _. by exists bs. Qed.

Lemma string_length_list s : List.length (list_ascii_of_string s) = String.length s.
Proof. induction s as [|c s IH]; cbn; [done|]. by rewrite IH. Qed.

(** What follows the tag of a member, and the wire type in the tag. *)
Definition payload {D} (message_pack : message D -> outcome bytes) (f : ProtobufCFieldDescriptor D) (c : cell D) :
    outcome (Z * bytes) :=
  match type f with
  | PROTOBUF_C_TYPE_SINT32 => let* z := get_int c in Ok (PROTOBUF_C_WIRE_TYPE_VARINT, sint32_pack (signed32 z))
  | PROTOBUF_C_TYPE_ENUM | PROTOBUF_C_TYPE_INT32 =>
      let* z := get_int c in Ok (PROTOBUF_C_WIRE_TYPE_VARINT, int32_pack (signed32 z))
  | PROTOBUF_C_TYPE_UINT32 => let* z := get_int c in Ok (PROTOBUF_C_WIRE_TYPE_VARINT, uint32_pack (wrap32 z))
  | PROTOBUF_C_TYPE_SINT64 => let* z := get_int c in Ok (PROTOBUF_C_WIRE_TYPE_VARINT, sint64_pack (signed64 z))
  | PROTOBUF_C_TYPE_INT64 | PROTOBUF_C_TYPE_UINT64 =>
      let* z := get_int c in Ok (PROTOBUF_C_WIRE_TYPE_VARINT, uint64_pack (wrap64 z))
  | PROTOBUF_C_TYPE_SFIXED32 | PROTOBUF_C_TYPE_FIXED32 | PROTOBUF_C_TYPE_FLOAT =>
      let* z := get_int c in Ok (PROTOBUF_C_WIRE_TYPE_32BIT, fixed32_pack (wrap32 z))
  | PROTOBUF_C_TYPE_SFIXED64 | PROTOBUF_C_TYPE_FIXED64 | PROTOBUF_C_TYPE_DOUBLE =>
      let* z := get_int c in Ok (PROTOBUF_C_WIRE_TYPE_64BIT, fixed64_pack (wrap64 z))
  | PROTOBUF_C_TYPE_BOOL => let* z := get_int c in Ok (PROTOBUF_C_WIRE_TYPE_VARINT, boolean_pack z)
  | PROTOBUF_C_TYPE_STRING => let* p := get_str c in Ok (PROTOBUF_C_WIRE_TYPE_LENGTH_PREFIXED, string_pack p)
  | PROTOBUF_C_TYPE_BYTES =>
      let* bd := get_bytes c in
      let* bs := binary_data_pack bd in Ok (PROTOBUF_C_WIRE_TYPE_LENGTH_PREFIXED, bs)
  | PROTOBUF_C_TYPE_MESSAGE =>
      let* bs := prefixed_message_pack message_pack c in Ok (PROTOBUF_C_WIRE_TYPE_LENGTH_PREFIXED, bs)
  end.

Lemma required_field_payload {D} (message_pack : message D -> outcome bytes) f c wt p :
  payload message_pack f c = Ok (wt, p) -> required_field_pack message_pack f c = Ok (tagged (id f) wt p).
Proof.
  unfold payload, required_field_pack.
  destruct (type f);
    repeat (match goal with |- obind ?m _ = _ -> _ => destruct m end; cbn [obind]; try done); by intros [= <- <-].
Qed.

Lemma packed_element_payload {D} (message_pack : message D -> outcome bytes) f c wt p :
  is_packable_type (type f) = true -> payload message_pack f c = Ok (wt, p) -> packed_element f c = Ok p.
Proof.
  intros Hp. unfold payload, packed_element.
  destruct (type f); try done; destruct (get_int c); cbn [obind]; try done; by intros [= <- <-].
Qed.

Section sizes.
Context {D : Type} `{EqDecision D} (num : ProtobufCType -> Z -> bool) (str : string -> bool) (P : message D -> bool).
Context (message_pack : message D -> outcome bytes) (message_size : message D -> outcome Z).
Implicit Types (f : ProtobufCFieldDescriptor D) (c : cell D) (ms : list (cell D)).

(** The messages in a member are packed with their size. *)
Definition sized_in (c : cell D) : Prop :=
  forall m, c = Msg (Some m) -> P m = true -> sized (message_pack m) (message_size m).

#[local] Hint Resolve wrap32_range wrap64_range signed32_range signed64_range : core.

(** The number of bytes that follow the tag. *)
Definition payload_size (f : ProtobufCFieldDescriptor D) (c : cell D) (n : Z) : Prop :=
  element_size message_size f c = Ok n /\ 0 <= n /\
  required_field_get_packed_size message_size f c = Ok (get_tag_size (id f) + n) /\
  (n < 2 ^ 32 -> exists wt p, payload message_pack f c = Ok (wt, p) /\ Z.of_nat (List.length p) = n).

Lemma payload_size_ok f c wt p : payload message_pack f c = Ok (wt, p) ->
  element_size message_size f c = Ok (Z.of_nat (List.length p)) ->
  required_field_get_packed_size message_size f c = Ok (get_tag_size (id f) + Z.of_nat (List.length p)) ->
  exists n, payload_size f c n.
Proof. intros H1 H2 H3. eexists. split; [exact H2|]. split; [lia|]. split; [done|]. intros _. by exists wt, p. Qed.

Lemma prefix_size_pos n : 0 < uint32_size n.
Proof. unfold uint32_size. repeat case_match; lia. Qed.

Lemma payload_sized f c : typed_element num str P f c = true -> sized_in c -> exists n, payload_size f c n.
Proof.
  intros Ht Hc. unfold typed_element in Ht. destruct (type f) eqn:Ef, c as [| |z|[| |s]|len [bs|]|[m|]|]; try done;
    try (eapply payload_size_ok; unfold payload, element_size, required_field_get_packed_size; rewrite Ef;
         cbn [get_int obind]; [reflexivity|..]; unfold fixed32_pack, fixed64_pack;
         rewrite ?sint32_pack_length, ?int32_pack_length, ?uint32_pack_length, ?sint64_pack_length, ?uint64_pack_length,
           ?little_endian_length by auto; done).
  - eapply payload_size_ok; unfold payload, element_size, required_field_get_packed_size; rewrite Ef;
      cbn [get_str obind chars]; [reflexivity|..]; rewrite ?bool_decide_eq_false_2 by done; cbn [string_pack chars];
      by rewrite prefixed_length, string_length_list, ?Z.add_assoc.
  - apply andb_true_iff in Ht as [E _]. eapply payload_size_ok; unfold payload, element_size, required_field_get_packed_size, binary_data_pack, memory;
      rewrite Ef; cbn [get_bytes obind fst snd]; rewrite ?E; [reflexivity|..];
      rewrite prefixed_length, ?Z.add_assoc; by apply Z.eqb_eq in E as <-.
  - apply Z.eqb_eq in Ht as ->. eapply payload_size_ok; unfold payload, element_size, required_field_get_packed_size, binary_data_pack, memory;
      rewrite Ef; cbn [get_bytes obind fst snd]; [reflexivity|..]; by rewrite prefixed_length, ?Z.add_assoc.
  - split_andb. destruct (Hc m eq_refl) as (n & E & Hn & Hb); [done|]. exists (uint32_size (wrap32 n) + n).
    pose proof (prefix_size_pos (wrap32 n)).
    unfold payload_size, payload, element_size, required_field_get_packed_size. rewrite Ef, E. cbn [obind].
    split; [done|]. split; [lia|]. split; [by rewrite Z.add_assoc|]. intros Hlt. destruct Hb as (bs & E' & <-); [lia|].
    cbn [prefixed_message_pack]. rewrite E'. cbn [obind]. do 2 eexists. split; [reflexivity|]. apply prefixed_length.
Qed.

(** Elements of packed arrays take up to ten times the smallest size. *)
Lemma payload_bounds f c wt p : is_packable_type (type f) = true -> payload message_pack f c = Ok (wt, p) ->
  get_type_min_size (type f) <= Z.of_nat (List.length p) <= 10 * get_type_min_size (type f).
Proof.
  assert (H32 : forall v, 0 <= v < 2 ^ 32 -> 1 <= Z.of_nat (List.length (uint32_pack v)) <= 10).
  { intros v Hv. rewrite uint32_pack_length by done. unfold uint32_size. repeat case_match; lia. }
  assert (H64 : forall v, 0 <= v < 2 ^ 64 -> 1 <= Z.of_nat (List.length (uint64_pack v)) <= 10).
  { intros v Hv. rewrite uint64_pack_length by done. unfold uint64_size, uint32_size. repeat case_match; lia. }
  intros Hp. unfold payload. destruct (type f) eqn:Ef; try done; destruct (get_int c) as [z| |]; try done;
    cbn [obind get_type_min_size]; intros [= <- <-]; unfold fixed32_pack, fixed64_pack; rewrite ?little_endian_length; try lia;
    try (apply H32; by auto); try (apply H64; by auto).
  - rewrite int32_pack_length by auto. unfold int32_size. repeat case_match; lia.
  - by apply H32, zigzag32_range.
  - by apply H64, zigzag64_range.
  - cbn. lia.
  - rewrite int32_pack_length by auto. unfold int32_size. repeat case_match; lia.
Qed.

(** *** Arrays *)

Lemma sum_array_cons (size : cell D -> outcome Z) n c l :
  sum_array size (S n) (c :: l) = (let* k := size c in let* rv := sum_array size n l in Ok (k + rv)).
Proof. reflexivity. Qed.

Lemma pack_array_cons (pack : cell D -> outcome bytes) n c l :
  pack_array pack (S n) (c :: l) = (let* bs := pack c in let* rv := pack_array pack n l in Ok (bs ++ rv)).
Proof. reflexivity. Qed.

Lemma array_sizes f l : Forall (fun c => exists n, payload_size f c n) l -> exists n,
  sum_array (element_size message_size f) (List.length l) l = Ok n /\ 0 <= n /\
  (n < 2 ^ 32 -> exists wps, Forall2 (fun c wp => payload message_pack f c = Ok wp) l wps /\
     Z.of_nat (List.length (List.concat (map snd wps))) = n).
Proof.
  induction 1 as [|c l (n & En & Hn & _ & Hp) Hl (m & Em & Hm & Hps)].
  { exists 0. split; [done|]. split; [done|]. intros _. exists []. by split; [constructor|]. }
  exists (n + m). cbn [List.length]. rewrite sum_array_cons, En. cbn [obind]. rewrite Em. split; [done|]. split; [lia|]. intros Hlt. destruct Hp as (wt & p & E & <-); [lia|].
  destruct Hps as (wps & Hw & <-); [lia|]. exists ((wt, p) :: wps). split; [by constructor|].
  cbn. rewrite length_app. lia.
Qed.

Lemma pack_array_required f l wps : Forall2 (fun c wp => payload message_pack f c = Ok wp) l wps ->
  pack_array (required_field_pack message_pack f) (List.length l) l =
    Ok (List.concat (map (fun wp => tagged (id f) (fst wp) (snd wp)) wps)).
Proof.
  induction 1 as [|c [wt p] l wps E _ IH]; [done|]. cbn [List.length].
  rewrite pack_array_cons, (required_field_payload _ _ _ _ _ E). cbn [obind]. by rewrite IH.
Qed.

Lemma pack_array_elements f l wps : is_packable_type (type f) = true ->
  Forall2 (fun c wp => payload message_pack f c = Ok wp) l wps ->
  pack_array (packed_element f) (List.length l) l = Ok (List.concat (map snd wps)).
Proof.
  intros Hp. induction 1 as [|c [wt p] l wps E _ IH]; [done|]. cbn [List.length].
  rewrite pack_array_cons, (packed_element_payload _ _ _ _ _ Hp E). cbn [obind]. by rewrite IH.
Qed.

Lemma tagged_all_length i (wps : list (Z * bytes)) : 0 <= i < 2 ^ 32 ->
  Z.of_nat (List.length (List.concat (map (fun wp => tagged i (fst wp) (snd wp)) wps))) =
    get_tag_size i * Z.of_nat (List.length wps) + Z.of_nat (List.length (List.concat (map snd wps))).
Proof.
  intros Hi. induction wps as [|[wt p] wps IH]; cbn [map List.concat List.length fst snd]; [cbn; lia|].
  rewrite !length_app, !Nat2Z.inj_add, IH, tagged_length by done. lia.
Qed.

Lemma array_bounds f l wps : is_packable_type (type f) = true ->
  Forall2 (fun c wp => payload message_pack f c = Ok wp) l wps ->
  let L := Z.of_nat (List.length (List.concat (map snd wps))) in
  let a := get_type_min_size (type f) * Z.of_nat (List.length l) in a <= L <= 10 * a.
Proof.
  intros Hp. induction 1 as [|c [wt p] l wps E _ IH]; cbn [map List.concat List.length snd]; [cbn; lia|].
  rewrite length_app. pose proof (payload_bounds _ _ _ _ Hp E). cbn in IH. nia.
Qed.

(** The assertion of [repeated_field_pack]. *)
Lemma length_size_step a L : 0 < a -> a <= L <= 10 * a -> L < 2 ^ 32 ->
  (uint32_size a =? uint32_size L) || (uint32_size L =? uint32_size a + 1) = true.
Proof.
  intros Ha HL Hm. unfold uint32_size.
  repeat match goal with |- context [?x <? ?y] => destruct (Z.ltb_spec x y) end; (reflexivity || (exfalso; lia)).
Qed.

(** *** Members *)

Lemma repeated_label f : is_repeated f = true -> label f = PROTOBUF_C_LABEL_REPEATED.
Proof. unfold is_repeated. by destruct (label f). Qed.

Lemma none_label init f : field_ok init f = true -> is_repeated f = false -> label f = PROTOBUF_C_LABEL_NONE.
Proof. unfold field_ok, is_repeated. intros H. split_andb. by destruct (label f). Qed.

(** The two functions on a member, by the kind of the field. *)
Lemma repeated_eq f ms n c : is_repeated f = true -> at_slot ms (quantifier_offset f) = Some (Int n) ->
  at_slot ms (offset f) = Some c ->
  field_pack message_pack ms f = repeated_field_pack message_pack f n c /\
  field_size message_size ms f = repeated_field_get_packed_size message_size f n c.
Proof.
  intros Hr Hq Ho. unfold field_pack, field_size. by rewrite !at_member_eq, Ho, Hq, (repeated_label _ Hr).
Qed.

Lemma oneof_eq init f ms n c : field_ok init f = true -> is_repeated f = false -> is_oneof f = true ->
  at_slot ms (quantifier_offset f) = Some (Int n) -> at_slot ms (offset f) = Some c ->
  field_pack message_pack ms f = oneof_field_pack message_pack f n c /\
  field_size message_size ms f = oneof_field_get_packed_size message_size f n c.
Proof.
  intros Hk Hr Hf Hq Ho. unfold field_pack, field_size. by rewrite !at_member_eq, Ho, Hq, (none_label _ _ Hk Hr), Hf.
Qed.

Lemma single_eq init f ms c : field_ok init f = true -> is_repeated f = false -> is_oneof f = false ->
  at_slot ms (offset f) = Some c ->
  field_pack message_pack ms f = unlabeled_field_pack message_pack f c /\
  field_size message_size ms f = unlabeled_field_get_packed_size message_size f c.
Proof.
  intros Hk Hr Hf Ho. unfold field_pack, field_size. by rewrite !at_member_eq, Ho, (none_label _ _ Hk Hr), Hf.
Qed.

(** An element of the union is not taken for unset. *)
Lemma oneof_set init f c : field_ok init f = true -> typed_element num str P f c = true ->
  (if is_pointer f then unset_pointer f c else Ok false) = Ok false.
Proof.
  unfold field_ok, is_pointer, typed_element. intros Hk Ht. split_andb.
  destruct (type f) eqn:Ef, c as [| |z|[| |s]|len bs|[m|]|]; try done; unfold unset_pointer; rewrite Ef; [|done].
  cbn [get_str obind]. destruct (default_value f); done.
Qed.

(** What is written for a field that is not set, or that another of the union displaces. *)
Lemma unset_field init f ms : field_ok init f = true -> unset f ms = true ->
  field_pack message_pack ms f = Ok [] /\ field_size message_size ms f = Ok 0.
Proof.
  intros Hk Hu. destruct (is_repeated f) eqn:Hr.
  { apply unset_repeated in Hu as [Hq Ho]; [|done]. destruct (repeated_eq f ms 0 _ Hr Hq Ho) as [-> ->].
    unfold repeated_field_pack, repeated_field_get_packed_size. cbn. by case_match. }
  destruct (is_oneof f) eqn:Hf.
  { apply unset_oneof in Hu as [Hq Ho]; [|done..]. destruct (oneof_eq init f ms 0 _ Hk Hr Hf Hq Ho) as [-> ->].
    unfold oneof_field_pack, oneof_field_get_packed_size.
    unfold field_ok in Hk. split_andb. destruct (Z.eqb_spec 0 (id f)); [lia|done]. }
  apply unset_single in Hu; [|done..]. destruct (single_eq init f ms _ Hk Hr Hf Hu) as [-> ->].
  unfold unlabeled_field_pack, unlabeled_field_get_packed_size, field_is_zeroish. by destruct (type f).
Qed.

Lemma other_field init f ms n c : field_ok init f = true -> is_oneof f = true -> n <> id f ->
  at_slot ms (quantifier_offset f) = Some (Int n) -> at_slot ms (offset f) = Some c ->
  field_pack message_pack ms f = Ok [] /\ field_size message_size ms f = Ok 0.
Proof.
  intros Hk Hf Hn Hq Ho. destruct (oneof_eq init f ms n c Hk (oneof_not_repeated f Hf) Hf Hq Ho) as [-> ->].
  unfold oneof_field_pack, oneof_field_get_packed_size. by destruct (Z.eqb_spec n (id f)).
Qed.

Lemma zeroish_total f c : typed_element num str P f c = true -> exists b, field_is_zeroish f c = Ok b.
Proof.
  unfold typed_element, field_is_zeroish. destruct (type f), c as [| |z|[| |s]|len bs|[m|]|]; try done; eauto.
Qed.

Lemma sized_required f c : 0 <= id f < 2 ^ 32 -> (exists n, payload_size f c n) ->
  sized (required_field_pack message_pack f c) (required_field_get_packed_size message_size f c).
Proof.
  intros Hi (n & _ & Hn & E & Hp). eexists. split; [exact E|]. rewrite <-tag_pack_length in * by done.
  split; [lia|]. intros Hlt. destruct Hp as (wt & p & E' & <-); [lia|]. rewrite (required_field_payload _ _ _ _ _ E').
  eexists. split; [done|]. by rewrite tagged_length, <-tag_pack_length.
Qed.

Lemma sized_zero : sized (Ok []) (Ok 0).
Proof. by apply sized_ok. Qed.

Lemma array_pack_packed f l wps : PROTOBUF_C_FIELD_FLAG_PACKED (flags f) = true -> is_packable_type (type f) = true ->
  l <> [] -> Forall2 (fun c wp => payload message_pack f c = Ok wp) l wps ->
  Z.of_nat (List.length (List.concat (map snd wps))) < 2 ^ 32 ->
  repeated_field_pack message_pack f (Z.of_nat (List.length l)) (Arr (Some l)) =
    Ok (tagged (id f) PROTOBUF_C_WIRE_TYPE_LENGTH_PREFIXED (prefixed (List.concat (map snd wps)))).
Proof.
  intros Hp Hk Hl Hw Hm. unfold repeated_field_pack. rewrite Hp.
  assert (1 <= Z.of_nat (List.length l)) by (destruct l; cbn; [done|lia]).
  destruct (Z.eqb_spec (Z.of_nat (List.length l)) 0); [lia|]. rewrite Nat2Z.id. cbn [with_array].
  rewrite (pack_array_elements _ _ _ Hk Hw). cbn [obind].
  pose proof (array_bounds f l wps Hk Hw) as Hb. cbn zeta in Hb.
  assert (1 <= get_type_min_size (type f)) by (by destruct (type f)).
  rewrite !wrap32_id, length_size_step by nia. unfold prefixed. by rewrite wrap32_id by lia.
Qed.

Lemma array_pack_unpacked f l wps : PROTOBUF_C_FIELD_FLAG_PACKED (flags f) = false ->
  Forall2 (fun c wp => payload message_pack f c = Ok wp) l wps ->
  repeated_field_pack message_pack f (Z.of_nat (List.length l)) (Arr (Some l)) =
    Ok (List.concat (map (fun wp => tagged (id f) (fst wp) (snd wp)) wps)).
Proof.
  intros Hp Hw. unfold repeated_field_pack. rewrite Hp, Nat2Z.id. cbn [with_array]. by apply pack_array_required.
Qed.

Lemma array_sized init f l : field_ok init f = true -> is_repeated f = true -> l <> [] ->
  Forall (fun c => exists n, payload_size f c n) l ->
  sized (repeated_field_pack message_pack f (Z.of_nat (List.length l)) (Arr (Some l)))
    (repeated_field_get_packed_size message_size f (Z.of_nat (List.length l)) (Arr (Some l))).
Proof.
  intros Hk Hr Hl Hs. destruct (array_sizes f l Hs) as (n & En & Hn & Hp).
  assert (Hi : 0 <= id f < 2 ^ 32) by (unfold field_ok in Hk; split_andb; lia).
  assert (1 <= Z.of_nat (List.length l)) by (destruct l; cbn; [done|lia]).
  assert (0 < get_tag_size (id f)) by (unfold get_tag_size; repeat case_match; lia).
  unfold repeated_field_get_packed_size. destruct (Z.eqb_spec (Z.of_nat (List.length l)) 0); [lia|].
  rewrite Nat2Z.id, En. cbn [obind]. pose proof (prefix_size_pos (wrap32 n)).
  eexists. split; [done|]. destruct (PROTOBUF_C_FIELD_FLAG_PACKED (flags f)) eqn:Hf; (split; [nia|]); intros Hlt.
  - destruct Hp as (wps & Hw & E); [lia|]. rewrite (array_pack_packed f l wps); [|done| |done..|lia].
    2: { unfold field_ok in Hk. rewrite (repeated_label f Hr), Hf in Hk. by split_andb. }
    eexists. split; [done|]. rewrite tagged_length, prefixed_length, E by done. lia.
  - destruct Hp as (wps & Hw & E); [nia|]. rewrite (array_pack_unpacked f l wps) by done.
    eexists. split; [done|]. rewrite tagged_all_length, E, (Forall2_length _ _ _ Hw) by done. lia.
Qed.

Lemma field_sized init fs f ms : field_ok init f = true -> typed_member num str P f ms = true ->
  union_set ms fs f = true -> (is_oneof f = true -> exists c, at_slot ms (offset f) = Some c) ->
  (forall c, at_slot ms (offset f) = Some c -> sized_in c) ->
  (forall l c, at_slot ms (offset f) = Some (Arr (Some l)) -> c ∈ l -> sized_in c) ->
  sized (field_pack message_pack ms f) (field_size message_size ms f).
Proof.
  intros Hk Ht Hu Hslot Hc Hl.
  assert (Hi : 0 <= id f < 2 ^ 32) by (unfold field_ok in Hk; split_andb; lia).
  destruct (unset f ms) eqn:Hs. { destruct (unset_field _ _ _ Hk Hs) as [-> ->]. apply sized_zero. }
  destruct (is_repeated f) eqn:Hr.
  { destruct (typed_repeated _ _ _ f ms Hr Ht) as [?|(l & Hne & Hq & Ho & Hl')]; [congruence|].
    destruct (repeated_eq f ms _ _ Hr Hq Ho) as [-> ->]. eapply array_sized; [done..|].
    rewrite Forall_forall in *. intros c Hin. eapply payload_sized; eauto. }
  destruct (is_oneof f) eqn:Hf.
  { destruct (union_cases ms fs f Hr Hf Hu) as [?|(g & Hg & Hone & Hq)]; [congruence|].
    destruct (Hslot eq_refl) as (c & Ho). destruct (decide (id g = id f)) as [E|Hne].
    - rewrite E in Hq. destruct (typed_oneof _ _ _ f ms Hr Hf Ht Hq) as (c' & Ho' & Ht').
      destruct (oneof_eq init f ms _ _ Hk Hr Hf Hq Ho') as [-> ->].
      unfold oneof_field_pack, oneof_field_get_packed_size. rewrite Z.eqb_refl, (oneof_set init f c' Hk Ht').
      cbn [negb obind]. apply sized_required, payload_sized; eauto.
    - destruct (other_field init f ms _ c Hk Hf Hne Hq Ho) as [-> ->]. apply sized_zero. }
  destruct (typed_single _ _ _ f ms Hr Hf Ht) as [?|(c & Ho & Ht' & _)]; [congruence|].
  destruct (single_eq init f ms c Hk Hr Hf Ho) as [-> ->].
  unfold unlabeled_field_pack, unlabeled_field_get_packed_size.
  destruct (zeroish_total f c Ht') as [[] ->]; cbn [obind]; [apply sized_zero|].
  apply sized_required, payload_sized; eauto.
Qed.

Lemma fields_sized (pack : ProtobufCFieldDescriptor D -> outcome bytes) size fs :
  (forall f, f ∈ fs -> sized (pack f) (size f)) -> sized (pack_fields pack fs) (sum_fields size fs).
Proof.
  induction fs as [|f fs IH]; intros H; [apply sized_zero|]. rewrite pack_fields_cons, sum_fields_cons.
  destruct (H f) as (n & -> & Hn & Hp); [by left|].
  destruct IH as (m & E & Hm & Hq); [intros g Hg; apply H; by right|]. cbn [obind]. rewrite E.
  eexists. split; [done|]. split; [lia|]. intros Hlt. destruct Hp as (bs & -> & <-); [lia|].
  destruct Hq as (bs' & E' & <-); [lia|]. cbn [obind]. rewrite E'.
  eexists. split; [done|]. rewrite length_app. lia.
Qed.
End sizes.

(** ** Messages *)

Section message_sizes.
Context {D : Type} `{EqDecision D} (desc : D -> ProtobufCMessageDescriptor D).
Hypothesis Hwf : forall d, wf_descriptor (desc d) = true.
Context (num : ProtobufCType -> Z -> bool) (str : string -> bool).

Lemma well_typed_inv d ms us : well_typed desc num str (Message d ms us) = true ->
  List.length ms = List.length (message_init (desc d)) /\ us = [] /\
  (forall f, f ∈ fields (desc d) -> typed_member num str (well_typed desc num str) f ms = true) /\
  (forall f, f ∈ fields (desc d) -> union_set ms (fields (desc d)) f = true).
Proof.
  cbn. intros H. split_andb. rewrite forallb_forall in *. setoid_rewrite list_elem_of_In.
  split; [by apply Nat.eqb_eq|]. split; [by destruct us|]. by split.
Qed.

(** The members that a field names are there. *)
Lemma slot_there d (ms : list (cell D)) f o : List.length ms = List.length (message_init (desc d)) -> f ∈ fields (desc d) ->
  o ∈ slots f -> exists c, at_slot ms o = Some c.
Proof.
  intros Hl Hf Ho. apply wf_field in Hf; [|apply Hwf]. unfold field_ok in Hf. split_andb.
  apply at_slot_lt. rewrite Hl. unfold slots in Ho. unfold unset in *.
  destruct (is_repeated f), (is_oneof f); cbn [orb] in Ho; split_andb;
    repeat match goal with H : holds_at _ _ _ = true |- _ => apply holds_at_spec in H as (? & ?%at_slot_Some_lt & _) end;
    apply list_elem_of_In in Ho; cbn in Ho; naive_solver.
Qed.

Lemma offset_slot (f : ProtobufCFieldDescriptor D) : offset f ∈ slots f.
Proof. unfold slots. case_match; [right|]; by left. Qed.

Lemma message_sized m : well_typed desc num str m = true ->
  sized (protobuf_c_message_pack desc m) (protobuf_c_message_get_packed_size desc m).
Proof.
  remember (message_depth m) as n eqn:En. assert (Hn : (message_depth m <= n)%nat) by lia. clear En.
  revert m Hn. induction n as [|n IH]; intros [d ms us] Hn Ht; [cbn in Hn; lia|].
  apply well_typed_inv in Ht as (Hl & -> & Hm & Hu). rewrite message_pack_eq, message_size_eq.
  destruct (fields_sized (field_pack (protobuf_c_message_pack desc) ms)
    (field_size (protobuf_c_message_get_packed_size desc) ms) (fields (desc d))) as (k & -> & Hk & Hp).
  - intros f Hf. eapply field_sized; [by apply wf_field|by apply Hm|by apply Hu|..].
    + intros _. eapply slot_there; [done..|apply offset_slot].
    + intros c Ho m' -> Hm'. apply IH; [|done]. pose proof (member_depth d ms [] _ _ Ho). lia.
    + intros l c Ho Hin m' -> Hm'. apply IH; [|done]. pose proof (element_depth d ms [] _ _ _ Ho Hin). lia.
  - cbn [obind foldr map List.concat]. eexists. split; [done|]. split; [lia|].
    intros Hlt. destruct Hp as (bs & -> & <-); [lia|]. cbn [obind]. rewrite app_nil_r. eexists. split; [done|]. lia.
Qed.
End message_sizes.

(** * One element, written and read

    The bytes that [payload] gives for the contents of a member are scanned in their
    length and parsed to the same contents, alone and as an element of a packed array. *)

Open Scope Z_scope.
Open Scope list_scope.

(** ** Reading in a longer block *)

Lemma at_before data rest i : (i < List.length data)%nat -> at_ (data ++ rest) i = at_ data i.
Proof. intros H. unfold at_. by rewrite lookup_app_l. Qed.

Lemma parse_uint32_app data rest n : (1 <= n <= List.length data)%nat ->
  parse_uint32 n (data ++ rest) = parse_uint32 n data.
Proof.
  intros H. unfold parse_uint32. rewrite at_before by lia.
  destruct n as [|[|[|[|[|n]]]]]; try lia; cbn [Nat.leb]; rewrite ?at_before by lia; done.
Qed.

Lemma uint64_loop_app data rest n i val shift : (i + n <= List.length data)%nat ->
  uint64_loop n (data ++ rest) i val shift = uint64_loop n data i val shift.
Proof.
  revert i val shift. induction n as [|n IH]; intros i val shift H; [done|]. cbn [uint64_loop].
  rewrite at_before by lia. destruct (at_ data i); cbn [obind]; try done. apply IH. lia.
Qed.

Lemma parse_uint64_app data rest n : (1 <= n <= List.length data)%nat ->
  parse_uint64 n (data ++ rest) = parse_uint64 n data.
Proof.
  intros H. unfold parse_uint64. case_match eqn:Hn; [by apply parse_uint32_app|]. apply Nat.ltb_ge in Hn.
  rewrite !at_before by lia. destruct (at_ data 0), (at_ data 1), (at_ data 2), (at_ data 3); cbn [obind]; try done.
  apply uint64_loop_app. lia.
Qed.

(** ** Strings of bytes *)

Lemma string_of_list_ascii_of s : string_of_list_ascii (list_ascii_of_string s) = s.
Proof. apply string_of_list_ascii_of_string. Qed.

Lemma drop_uint32_pack v (bs : bytes) : drop (List.length (uint32_pack v)) (uint32_pack v ++ bs) = bs.
Proof. apply drop_app_length. Qed.

(** What [prefixed] writes is scanned as a block. *)
Lemma scan_prefixed bs rest : Z.of_nat (List.length bs) <= INT_MAX ->
  exists pref, scan_member PROTOBUF_C_WIRE_TYPE_LENGTH_PREFIXED (prefixed bs ++ rest) =
      Ok (Some (List.length (prefixed bs), pref)) /\
    drop pref (prefixed bs) = bs /\ List.length (prefixed bs) = (pref + List.length bs)%nat.
Proof.
  intros Hl. unfold INT_MAX in Hl. exists (List.length (uint32_pack (Z.of_nat (List.length bs)))).
  unfold prefixed. rewrite wrap32_id, drop_uint32_pack, length_app by lia. split; [|done].
  unfold scan_member. cbn [PROTOBUF_C_WIRE_TYPE_LENGTH_PREFIXED PROTOBUF_C_WIRE_TYPE_VARINT PROTOBUF_C_WIRE_TYPE_64BIT Z.eqb Pos.eqb].
  rewrite <-app_assoc. erewrite scan_length_prefixed_spec; [by rewrite Nat2Z.id|apply uint32_pack_varint; lia| |done|].
  - unfold uint32_pack. repeat case_match; cbn; lia.
  - rewrite length_app. lia.
Qed.

Lemma scan_varint_member bs v rest : varint bs v -> (List.length bs <= 10)%nat ->
  scan_member PROTOBUF_C_WIRE_TYPE_VARINT (bs ++ rest) = Ok (Some (List.length bs, O)).
Proof.
  intros H Hl. pose proof (varint_nonempty _ _ H). unfold scan_member. cbn [PROTOBUF_C_WIRE_TYPE_VARINT Z.eqb].
  rewrite length_app, (varint_loop_spec bs v _ [] rest H) by lia. cbn [obind List.length].
  destruct (Nat.eqb_spec (0 + List.length bs - 1) (Nat.min (List.length bs + List.length rest) 10)); [lia|].
  do 3 f_equal. lia.
Qed.

Lemma scan_fixed32 v rest :
  scan_member PROTOBUF_C_WIRE_TYPE_32BIT (fixed32_pack v ++ rest) = Ok (Some (List.length (fixed32_pack v), O)).
Proof. unfold scan_member. rewrite length_app. unfold fixed32_pack at 2 3. by rewrite little_endian_length. Qed.

Lemma scan_fixed64 v rest :
  scan_member PROTOBUF_C_WIRE_TYPE_64BIT (fixed64_pack v ++ rest) = Ok (Some (List.length (fixed64_pack v), O)).
Proof. unfold scan_member. rewrite length_app. unfold fixed64_pack at 2 3. by rewrite little_endian_length. Qed.

(** ** Numbers *)

(** How a number of a type is read: the type of [data] with the number of bytes. *)
Definition read_number (t : ProtobufCType) (len : nat) (data : bytes) : outcome Z :=
  match t with
  | PROTOBUF_C_TYPE_ENUM | PROTOBUF_C_TYPE_INT32 => let* z := parse_int32 len data in Ok (signed32 z)
  | PROTOBUF_C_TYPE_UINT32 => parse_uint32 len data
  | PROTOBUF_C_TYPE_SINT32 => let* z := parse_uint32 len data in Ok (unzigzag32 z)
  | PROTOBUF_C_TYPE_SFIXED32 => let* z := parse_fixed_uint32 data in Ok (signed32 z)
  | PROTOBUF_C_TYPE_FIXED32 | PROTOBUF_C_TYPE_FLOAT => parse_fixed_uint32 data
  | PROTOBUF_C_TYPE_INT64 => let* z := parse_uint64 len data in Ok (signed64 z)
  | PROTOBUF_C_TYPE_UINT64 => parse_uint64 len data
  | PROTOBUF_C_TYPE_SINT64 => let* z := parse_uint64 len data in Ok (unzigzag64 z)
  | PROTOBUF_C_TYPE_SFIXED64 => let* z := parse_fixed_uint64 data in Ok (signed64 z)
  | PROTOBUF_C_TYPE_FIXED64 | PROTOBUF_C_TYPE_DOUBLE => parse_fixed_uint64 data
  | PROTOBUF_C_TYPE_BOOL => Ok (parse_boolean (take len data))
  | _ => Undef
  end.

(** How a number is laid out: a varint or a block of fixed size. *)
Inductive layout : Type := Varint | Fixed (n : nat).
Definition layout_of (t : ProtobufCType) : layout :=
  match t with
  | PROTOBUF_C_TYPE_SFIXED32 | PROTOBUF_C_TYPE_FIXED32 | PROTOBUF_C_TYPE_FLOAT => Fixed 4
  | PROTOBUF_C_TYPE_SFIXED64 | PROTOBUF_C_TYPE_FIXED64 | PROTOBUF_C_TYPE_DOUBLE => Fixed 8
  | _ => Varint
  end.
Definition laid_out (l : layout) (p : bytes) : Prop :=
  match l with
  | Varint => (exists v, varint p v) /\ (List.length p <= 10)%nat
  | Fixed n => List.length p = n
  end.

Lemma varint_read32 p v rest : varint p v -> parse_uint32 (List.length p) (p ++ rest) = Ok (wrap32 v).
Proof.
  intros H. pose proof (varint_nonempty _ _ H). rewrite parse_uint32_app by lia. by apply parse_uint32_spec.
Qed.
Lemma varint_read64 p v rest : varint p v -> v < 2 ^ 64 -> parse_uint64 (List.length p) (p ++ rest) = Ok v.
Proof.
  intros H Hv. pose proof (varint_nonempty _ _ H). rewrite parse_uint64_app by lia. by apply parse_uint64_spec.
Qed.

Lemma short32 v : 0 <= v < 2 ^ 32 -> (List.length (uint32_pack v) <= 10)%nat.
Proof. intros Hv. unfold uint32_pack. repeat case_match; cbn; lia. Qed.
Lemma short64 v : 0 <= v < 2 ^ 64 -> (List.length (uint64_pack v) <= 10)%nat.
Proof.
  intros Hv. pose proof (uint64_pack_length v Hv) as E. unfold uint64_size, uint32_size in E.
  repeat case_match; lia.
Qed.
Lemma short_int32 v : - 2 ^ 31 <= v < 2 ^ 31 -> (List.length (int32_pack v) <= 10)%nat.
Proof. intros Hv. unfold int32_pack. case_match; [done|]. apply short32. lia. Qed.

Lemma wrap32_wrap64 v : wrap32 (v mod 2 ^ 64) = wrap32 v.
Proof. unfold wrap32. change (2 ^ 64) with (2 ^ 32 * 2 ^ 32). by rewrite Z.rem_mul_r, Z.mul_comm, Z.mod_add, Z.mod_mod. Qed.

(** A number in a varint: [V] says that it is one, [S] that it is short, [R] reads it. *)
Ltac as_varint V S R :=
  split; [split; [eexists; apply V; lia|apply S; lia]|split; [done|intros rest]];
  erewrite R by (first [apply V; lia|lia]); cbn [obind]; apply f_equal.
(** A number of fixed size. *)
Ltac as_fixed :=
  split; [apply little_endian_length|split; [done|intros rest]];
  rewrite from_little_endian_spec; cbn [obind]; apply f_equal.

(** A number, written by [payload] and read again. *)
Lemma number_roundtrip {D} (pk : message D -> outcome bytes) f z : in_type (type f) z = true ->
  exists wt p, payload pk f (Int z) = Ok (wt, p) /\ laid_out (layout_of (type f)) p /\
    (wt = match layout_of (type f) with
          | Varint => PROTOBUF_C_WIRE_TYPE_VARINT
          | Fixed 4 => PROTOBUF_C_WIRE_TYPE_32BIT
          | _ => PROTOBUF_C_WIRE_TYPE_64BIT
          end) /\
    forall rest, read_number (type f) (List.length p) (p ++ rest) = Ok z.
Proof.
  unfold in_type, payload, read_number, parse_int32, parse_fixed_uint32, parse_fixed_uint64, fixed32_pack, fixed64_pack.
  intros Hz. pose proof (zigzag32_range z) as Hz32. pose proof (zigzag64_range z) as Hz64. pose proof (wrap64_range z) as Hw.
  destruct (type f); try done; split_andb; cbn [get_int obind]; do 2 eexists; (split; [reflexivity|]);
    rewrite ?signed32_id, ?signed64_id by lia; cbn [layout_of laid_out].
  - as_varint int32_pack_varint short_int32 varint_read32. apply signed32_of; [lia|].
    rewrite (wrap32_id (wrap32 _)) by apply wrap32_range. apply wrap32_wrap64.
  - as_varint uint32_pack_varint short32 varint_read32. rewrite wrap32_id by lia. apply unzigzag32_zigzag32. lia.
  - as_fixed. apply signed32_of; [lia|]. rewrite (Z.mod_small (wrap32 z)) by apply (wrap32_range z). apply wrap32_id, wrap32_range.
  - as_varint uint64_pack_varint short64 varint_read64. apply signed64_of; [lia|]. apply wrap64_id. lia.
  - as_varint uint64_pack_varint short64 varint_read64. apply unzigzag64_zigzag64. lia.
  - as_fixed. apply signed64_of; [lia|]. rewrite (Z.mod_small (wrap64 z)) by apply (wrap64_range z). apply wrap64_id, wrap64_range.
  - rewrite wrap32_id by lia. as_varint uint32_pack_varint short32 varint_read32. apply wrap32_id. lia.
  - as_fixed. rewrite wrap32_id by lia. apply Z.mod_small. cbn. lia.
  - rewrite wrap64_id by lia. as_varint uint64_pack_varint short64 varint_read64. done.
  - as_fixed. rewrite wrap64_id by lia. apply Z.mod_small. cbn. lia.
  - as_fixed. rewrite wrap32_id by lia. apply Z.mod_small. cbn. lia.
  - as_fixed. rewrite wrap64_id by lia. apply Z.mod_small. cbn. lia.
  - assert (E : forall rest, take (List.length (boolean_pack z)) (boolean_pack z ++ rest) = boolean_pack z)
      by (intros; apply take_app_length).
    unfold boolean_pack in *. split; [split; [eexists; apply varint_end; case_match; lia|cbn; lia]|]. split; [done|].
    intros rest. rewrite E. cbn [parse_boolean]. rewrite ub_last by (case_match; lia).
    apply orb_true_iff in Hz as [->%Z.eqb_eq| ->%Z.eqb_eq]; done.
  - as_varint int32_pack_varint short_int32 varint_read32. apply signed32_of; [lia|].
    rewrite (wrap32_id (wrap32 _)) by apply wrap32_range. apply wrap32_wrap64.
Qed.

(** ** Elements *)

Section element.
Context {D : Type} `{EqDecision D} (desc : D -> ProtobufCMessageDescriptor D) (P : message D -> bool).
Context (message_pack : message D -> outcome bytes) (message_unpack : D -> bytes -> outcome (option (message D))).
Implicit Types (f : ProtobufCFieldDescriptor D) (c : cell D).

(** A member that holds nothing. *)
Definition clear f c : Prop := c = init_cell (type f) \/ c = Zeroed.

(** A message in the member is read back. *)
Definition reads_back (c : cell D) (p : bytes) : Prop :=
  forall m bs, c = Msg (Some m) -> P m = true -> message_pack m = Ok bs -> (List.length bs < List.length p)%nat ->
    message_unpack (message_descriptor m) bs = Ok (Some m).

Lemma parse_required_number f z p wt pref sf c0 clr : in_type (type f) z = true ->
  payload message_pack f (Int z) = Ok (wt, p) ->
  parse_required_member desc message_unpack (mkScanned (id f) wt pref sf p) f c0 clr = Ok (Some (Int z)).
Proof.
  intros Hz Hp. destruct (number_roundtrip message_pack f z Hz) as (wt' & p' & E & _ & Hwt & Hr).
  rewrite Hp in E. injection E as <- <-. specialize (Hr []). rewrite app_nil_r in Hr.
  unfold parse_required_member, sm_len. cbn [data wire_type]. unfold in_type in Hz.
  destruct (type f); try done; cbn [layout_of read_number] in *; subst wt;
    cbn [PROTOBUF_C_WIRE_TYPE_VARINT PROTOBUF_C_WIRE_TYPE_32BIT PROTOBUF_C_WIRE_TYPE_64BIT Z.eqb Pos.eqb];
    repeat match type of Hr with obind ?m _ = _ => destruct m; cbn [obind] in * end; rewrite ?firstn_all in Hr;
    try congruence; by rewrite Hr.
Qed.

(** What [payload] gives for contents that fit: it is scanned in its length and parsed to
    the contents. *)
Definition element_read f c (wt : Z) (p : bytes) : Prop :=
  0 <= wt < 8 /\
  exists pref, (forall rest, scan_member wt (p ++ rest) = Ok (Some (List.length p, pref))) /\
    forall sf c0 clr, (clr = true -> clear f c0) ->
      parse_required_member desc message_unpack (mkScanned (id f) wt pref sf p) f c0 clr = Ok (Some c).

Lemma scan_number f z wt p rest : in_type (type f) z = true -> payload message_pack f (Int z) = Ok (wt, p) ->
  0 <= wt < 8 /\ scan_member wt (p ++ rest) = Ok (Some (List.length p, O)).
Proof.
  intros Hz Hp. destruct (number_roundtrip message_pack f z Hz) as (wt' & p' & E & Hl & Hwt & _).
  rewrite Hp in E. injection E as <- <-. unfold payload in Hp. unfold in_type in Hz.
  destruct (type f); try done; cbn [get_int obind layout_of laid_out] in *; subst wt; (split; [done|]);
    injection Hp as <-; try apply scan_fixed32; try apply scan_fixed64;
    destruct Hl as [[v Hv] Hs]; by eapply scan_varint_member.
Qed.

Lemma number_read f z wt p : in_type (type f) z = true -> payload message_pack f (Int z) = Ok (wt, p) ->
  element_read f (Int z) wt p.
Proof.
  intros Hz Hp. destruct (scan_number f z wt p [] Hz Hp) as [Hw _]. split; [done|]. exists O. split.
  - intros rest. by destruct (scan_number f z wt p rest Hz Hp).
  - intros sf c0 clr _. by apply parse_required_number.
Qed.

(** A block with its length in front. *)
Lemma block_read f c bs : Z.of_nat (List.length bs) <= INT_MAX ->
  (forall pref sf c0 clr, drop pref (prefixed bs) = bs -> List.length (prefixed bs) = (pref + List.length bs)%nat ->
     (clr = true -> clear f c0) ->
     parse_required_member desc message_unpack
       (mkScanned (id f) PROTOBUF_C_WIRE_TYPE_LENGTH_PREFIXED pref sf (prefixed bs)) f c0 clr = Ok (Some c)) ->
  element_read f c PROTOBUF_C_WIRE_TYPE_LENGTH_PREFIXED (prefixed bs).
Proof.
  intros Hl Hp. split; [done|]. destruct (scan_prefixed bs [] Hl) as (pref & E & Hd & Hlen). exists pref. split.
  - intros rest. destruct (scan_prefixed bs rest Hl) as (pref' & E' & _ & Hlen'). rewrite E'. do 3 f_equal. lia.
  - intros sf c0 clr Hc. by apply Hp.
Qed.

Lemma element_roundtrip f c wt p : typed_element in_type no_nul P f c = true -> payload message_pack f c = Ok (wt, p) ->
  Z.of_nat (List.length p) <= INT_MAX -> reads_back c p -> element_read f c wt p.
Proof.
  intros Ht Hp Hl Hr. unfold typed_element in Ht.
  assert (Hpl : forall bs, (List.length bs <= List.length (prefixed bs))%nat).
  { intros bs. unfold prefixed. rewrite length_app. lia. }
  destruct (type f) eqn:Ef, c as [| |z|[| |s]|len [bs|]|[m|]|]; try done; try (by apply number_read; rewrite ?Ef);
    unfold payload in Hp; rewrite Ef in Hp; cbn [get_str get_bytes obind string_pack chars prefixed_message_pack] in Hp.
  - injection Hp as <- <-. specialize (Hpl (list_ascii_of_string s)). apply block_read; [lia|].
    intros pref sf c0 clr Hd _ Hc. unfold parse_required_member, sm_payload. rewrite Ef. cbn [wire_type data length_prefix_len].
    rewrite Hd, string_of_list_ascii_of, c_string_id by done. cbn [Z.eqb Pos.eqb PROTOBUF_C_WIRE_TYPE_LENGTH_PREFIXED].
    destruct clr; [|done]. destruct (Hc eq_refl) as [->| ->]; unfold init_cell; rewrite ?Ef; done.
  - apply andb_true_iff in Ht as [E Hlen]. unfold binary_data_pack, memory in Hp. cbn [fst snd] in Hp. rewrite E in Hp.
    injection Hp as <- <-. apply Z.eqb_eq in E. specialize (Hpl bs). apply block_read; [lia|].
    intros pref sf c0 clr Hd Hlp Hc. unfold parse_required_member, sm_payload, sm_len. rewrite Ef. cbn [wire_type data length_prefix_len].
    rewrite Hd, Hlp, <-E. destruct (Nat.ltb_spec pref (pref + List.length bs)); [|lia].
    cbn [Z.eqb Pos.eqb PROTOBUF_C_WIRE_TYPE_LENGTH_PREFIXED].
    destruct clr; [|done]. destruct (Hc eq_refl) as [->| ->]; unfold init_cell; rewrite ?Ef; done.
  - apply Z.eqb_eq in Ht as ->. cbn in Hp. injection Hp as <- <-. apply (block_read f _ []); [done|].
    intros pref sf c0 clr Hd Hlp Hc. unfold parse_required_member, sm_payload, sm_len. rewrite Ef. cbn [wire_type data length_prefix_len].
    rewrite Hd, Hlp. destruct (Nat.ltb_spec pref (pref + List.length (@nil ascii))); [cbn in *; lia|].
    cbn [Z.eqb Pos.eqb PROTOBUF_C_WIRE_TYPE_LENGTH_PREFIXED].
    destruct clr; [|done]. destruct (Hc eq_refl) as [->| ->]; unfold init_cell; rewrite ?Ef; done.
  - apply andb_true_iff in Ht as [Hd Hm]. apply bool_decide_eq_true in Hd.
    destruct (message_pack m) as [bs| |] eqn:E; cbn [obind] in Hp; try done. injection Hp as <- <-.
    specialize (Hpl bs). apply block_read; [lia|]. intros pref sf c0 clr Hdr Hlp Hc.
    unfold parse_required_member, sm_payload. rewrite Ef, Hd. cbn [wire_type data length_prefix_len].
    rewrite Hdr. cbn [Z.eqb Pos.eqb PROTOBUF_C_WIRE_TYPE_LENGTH_PREFIXED negb].
    rewrite (Hr m bs eq_refl Hm E) by (pose proof (prefix_size_pos 0); unfold prefixed; rewrite length_app;
      pose proof (uint32_pack_length (wrap32 (Z.of_nat (List.length bs))) (wrap32_range _)) as El;
      pose proof (prefix_size_pos (wrap32 (Z.of_nat (List.length bs)))); lia).
    cbn [obind]. destruct clr; [|done]. destruct (Hc eq_refl) as [->| ->]; unfold init_cell; rewrite ?Ef; done.
Qed.
End element.
