(* ===== verification/ProtobufCUnpack.v ===== *)
(** * Unpacking what was packed

    The members that the scan finds in what [field_pack] writes; how they fill the struct,
    field by field; and the whole message. *)
From S2P Require Import Prelude Keywords ProtobufC ProtobufCDesc ProtobufCPack.

Open Scope Z_scope.
Open Scope list_scope.

Section scan.
Context {D : Type} (desc : D -> ProtobufCMessageDescriptor D) (d : D).
Hypothesis Hwf : wf_descriptor (desc d) = true.
Implicit Types (f : ProtobufCFieldDescriptor D) (ms : list (cell D)).

(** ** Members *)

(** A member as it is written: the field, the wire type, the length of its prefix and the
    bytes after the tag. *)
Definition sm_of f (wt : Z) (pref : nat) (p : bytes) : ScannedMember := mkScanned (id f) wt pref (Some f) p.

(** The member is written, and its bytes are found again. *)
Definition written (sm : ScannedMember (D := D)) : Prop :=
  exists f, f ∈ fields (desc d) /\ sm_field sm = Some f /\ tag sm = id f /\ 0 <= wire_type sm < 8 /\
    forall rest, scan_member (wire_type sm) (data sm ++ rest) = Ok (Some (List.length (data sm), length_prefix_len sm)).

Definition raw (sm : ScannedMember (D := D)) : bytes := tagged (tag sm) (wire_type sm) (data sm).
Definition raws (l : list ScannedMember) : bytes := List.concat (map raw l).

(** The counts of the members, one after the other. *)
Fixpoint count_members (l : list ScannedMember) (ms : list (cell D)) : outcome (option (list (cell D))) :=
  match l with
  | [] => Ok (Some ms)
  | sm :: l =>
      match sm_field sm with
      | None => count_members l ms
      | Some f =>
          let* r := count_member f sm ms in
          match r with Some ms => count_members l ms | None => Ok None end
      end
  end.

(** ** The slabs *)

(** The number of members in the slabs. *)
Definition used (which_slab in_slab_index : Z) : Z := 16 * (2 ^ which_slab - 1) + in_slab_index.
Definition slabs_ok (w k : Z) : Prop := 0 <= w <= MAX_SCANNED_MEMBER_SLAB /\ 0 <= k <= 2 ^ (w + 4).
Definition max_members : Z := 2 ^ 27 - 16.

Lemma next_slot_ok w k : slabs_ok w k -> used w k < max_members ->
  exists w' k', next_slot w k = Some (w', k') /\ slabs_ok w' (k' + 1) /\ used w' (k' + 1) = used w k + 1.
Proof.
  unfold slabs_ok, used, max_members, next_slot, FIRST_SCANNED_MEMBER_SLAB_SIZE_LOG2.
  change MAX_SCANNED_MEMBER_SLAB with 22. intros [Hw Hk] Hu.
  assert (E : 2 ^ (w + 4) = 16 * 2 ^ w) by (rewrite Z.pow_add_r by lia; lia).
  assert (0 < 2 ^ w) by (apply Z.pow_pos_nonneg; lia).
  destruct (Z.eqb_spec k (2 ^ (w + 4))).
  - destruct (Z.eqb_spec w 22) as [->|]; [change (2 ^ 22) with 4194304 in *; lia|].
    do 2 eexists. split; [done|]. rewrite !Z.pow_add_r by lia. change (2 ^ 1) with 2. change (2 ^ 4) with 16. lia.
  - do 2 eexists. split; [done|]. lia.
Qed.

(** ** The loop *)

Definition last_ok (s : scanning (D := D)) : Prop :=
  forall i, last_field s = Some i -> (i < List.length (fields (desc d)))%nat.

Lemma lookup_field_hit last i f : (forall j, last = Some j -> (j < List.length (fields (desc d)))%nat) ->
  fields (desc d) !! i = Some f -> lookup_field desc d last (id f) = Ok (Some i).
Proof.
  intros Hl Hf. unfold lookup_field. rewrite (wf_lookup desc d Hwf i f Hf). cbn [obind].
  assert (E : (if Z.of_nat i <? 0 then None else Some (Z.to_nat (Z.of_nat i))) = Some i).
  { destruct (Z.ltb_spec (Z.of_nat i) 0); [lia|]. by rewrite Nat2Z.id. }
  destruct last as [j|]; [|by rewrite E]. destruct (lookup_lt_is_Some_2 (fields (desc d)) j) as [g Hg]; [by apply Hl|].
  rewrite Hg. destruct (Z.eqb_spec (id g) (id f)); [|by rewrite E].
  by rewrite (wf_unique desc d Hwf j i g f Hg Hf).
Qed.

Lemma wf_not_required f : f ∈ fields (desc d) -> label f = PROTOBUF_C_LABEL_REPEATED \/ label f = PROTOBUF_C_LABEL_NONE.
Proof. intros Hf. apply wf_field in Hf; [|done]. unfold field_ok in Hf. split_andb. destruct (label f); auto; done. Qed.

Lemma scan_round_written sm rest s : written sm -> last_ok s -> slabs_ok (which_slab s) (in_slab_index s) ->
  used (which_slab s) (in_slab_index s) < max_members ->
  forall f ms, sm_field sm = Some f -> count_member f sm (rv s) = Ok (Some ms) ->
  exists s', scan_round desc d (raw sm ++ rest) s = Ok (Some (rest, s')) /\
    rv s' = ms /\ last_ok s' /\ slabs_ok (which_slab s') (in_slab_index s') /\
    used (which_slab s') (in_slab_index s') = used (which_slab s) (in_slab_index s) + 1 /\
    n_unknown s' = n_unknown s /\ sms s' = sm :: sms s.
Proof.
  intros (f & Hf & Es & Et & Hw & Hscan) Hlast Hsl Hu f' ms Ef Hc. rewrite Es in Ef. injection Ef as <-.
  pose proof (wf_id desc d Hwf f Hf) as Hi. pose proof Hf as [i Hf']%list_elem_of_lookup.
  destruct (next_slot_ok _ _ Hsl Hu) as (w' & k' & En & Hs' & Hu').
  unfold scan_round, raw, tagged. rewrite Et, <-app_assoc, parse_tag_spec by lia. cbn [obind].
  rewrite (lookup_field_hit _ i f Hlast Hf'). cbn [obind]. rewrite Hf'. cbn [obind].
  rewrite <-(or_first_length _ (wire_type sm)), drop_app_length, Hscan. cbn [obind]. rewrite En.
  destruct (Nat.ltb_spec (List.length (data sm ++ rest)) (List.length (data sm))) as [Hlt|_]; [rewrite length_app in Hlt; lia|].
  rewrite take_app_length, drop_app_length.
  replace (mkScanned (id f) (wire_type sm) (length_prefix_len sm) (Some f) (data sm)) with sm
    by (destruct sm; cbn in *; congruence).
  rewrite Hc. cbn [obind]. eexists. split; [reflexivity|]. cbn. split; [done|]. split.
  { intros j [= <-]. by eapply lookup_lt_Some. }
  done.
Qed.

Lemma raw_nonempty sm : written sm -> exists b bs, raw sm = b :: bs.
Proof.
  intros (f & Hf & _ & Et & _ & _). pose proof (wf_id desc d Hwf f Hf) as Hi. unfold raw, tagged. rewrite Et.
  destruct (tag_varint (id f) Hi) as (bs & -> & Hv & _). destruct bs as [|b bs]; [inversion Hv|]. cbn. eauto.
Qed.

Lemma scan_written l : forall fuel s ms, Forall written l -> last_ok s -> slabs_ok (which_slab s) (in_slab_index s) ->
  used (which_slab s) (in_slab_index s) + Z.of_nat (List.length l) <= max_members ->
  (List.length (raws l) <= fuel)%nat -> count_members l (rv s) = Ok (Some ms) ->
  exists s', scan_loop desc fuel d (raws l) s = Ok (Some s') /\ rv s' = ms /\ n_unknown s' = n_unknown s /\
    sms s' = rev l ++ sms s.
Proof.
  induction l as [|sm l IH]; intros fuel s ms Hl Hlast Hsl Hu Hf Hc.
  { exists s. cbn in *. injection Hc as ->. by destruct fuel. }
  apply Forall_cons in Hl as [Hsm Hl]. pose proof Hsm as (f & _ & Ef & _).
  cbn [count_members] in Hc. rewrite Ef in Hc. destruct (count_member f sm (rv s)) as [[ms'|]| |] eqn:Em; try done.
  cbn [obind] in Hc. cbn [List.length] in Hu.
  destruct (scan_round_written sm (raws l) s Hsm Hlast Hsl ltac:(lia) f ms' Ef Em) as (s1 & E1 & Hr1 & Hl1 & Hs1 & Hu1 & Hn1 & Hm1).
  change (raws (sm :: l)) with (raw sm ++ raws l) in *. destruct (raw_nonempty sm Hsm) as (b & bs & Eb).
  rewrite length_app, Eb in Hf. cbn [List.length] in Hf. destruct fuel as [|fuel]; [lia|].
  destruct (IH fuel s1 ms) as (s2 & E2 & Hr2 & Hn2 & Hm2); [done|done|done|lia|lia|by rewrite Hr1|].
  exists s2. split; [|split; [done|]; split; [congruence|]; rewrite Hm2, Hm1; cbn; by rewrite <-app_assoc].
  rewrite Eb in *. cbn [app scan_loop]. change (b :: bs ++ raws l) with ((b :: bs) ++ raws l). rewrite E1. cbn [obind]. exact E2.
Qed.
End scan.

(** * Filling the members of a message

    The members of one field, as [field_pack] writes them, put its contents into a struct
    whose members of that field are not set yet, and touch no other member. *)

Open Scope Z_scope.
Open Scope list_scope.

(** ** Changes to a struct *)

Section frame.
Context {D : Type}.
Implicit Types (ms : list (cell D)).

(** Only the members of [foot] change. *)
Definition frame (foot : list nat) ms ms' : Prop :=
  List.length ms' = List.length ms /\ forall o, o ∉ foot -> at_slot ms' o = at_slot ms o.

Lemma frame_refl foot ms : frame foot ms ms.
Proof. done. Qed.

Lemma frame_trans foot ms ms' ms'' : frame foot ms ms' -> frame foot ms' ms'' -> frame foot ms ms''.
Proof. intros [H1 H2] [H3 H4]. split; [congruence|]. intros o Ho. by rewrite H4, H2. Qed.

Lemma frame_put foot ms o c : o ∈ foot -> frame foot ms (put ms o c).
Proof. intros Ho. split; [apply length_put|]. intros o' Ho'. apply at_slot_put_ne. by intros ->. Qed.

Lemma frame_mono foot foot' ms ms' : (forall o, o ∈ foot -> o ∈ foot') -> frame foot ms ms' -> frame foot' ms ms'.
Proof. intros H [H1 H2]. split; [done|]. intros o Ho. apply H2. auto. Qed.

Lemma set_repeated_eq (f : ProtobufCFieldDescriptor D) ms n array c c' :
  quantifier_offset f <> offset f ->
  at_slot ms (offset f) = Some c -> at_slot ms (quantifier_offset f) = Some c' ->
  exists ms', set_repeated f ms n array = Ok ms' /\ at_slot ms' (quantifier_offset f) = Some (Int n) /\
    at_slot ms' (offset f) = Some (Arr (Some array)) /\ frame [quantifier_offset f; offset f] ms ms'.
Proof.
  intros Hne Ho Hq. unfold set_repeated. rewrite (set_member_some _ _ _ _ Ho). cbn [obind].
  rewrite (set_member_some _ _ c'); [|by rewrite at_slot_put_ne]. eexists. split; [done|].
  split; [eapply at_slot_put; by rewrite at_slot_put_ne|]. split.
  - rewrite at_slot_put_ne by done. by eapply at_slot_put.
  - eapply frame_trans; apply frame_put; [right|]; by left.
Qed.
End frame.

(** ** Arrays *)

Section arrays.
Context {D : Type}.

Lemma set_element_next (l : list (cell D)) k c :
  set_element (l ++ replicate (S k) Garbage) (List.length l) c = Ok ((l ++ [c]) ++ replicate k Garbage).
Proof.
  unfold set_element. rewrite length_app, length_replicate.
  destruct (Nat.ltb_spec (List.length l) (List.length l + S k)); [|lia]. cbn [replicate].
  by rewrite insert_app_r_alt, Nat.sub_diag, <-app_assoc by lia.
Qed.

(** Numbers in varints. *)
Lemma packed_loop_spec t zs ps : Forall2 (fun z p => laid_out Varint p /\
    forall rest, read_number t (List.length p) (p ++ rest) = Ok z) zs ps ->
  forall fuel (l : list (cell D)), (List.length (List.concat ps) < fuel)%nat ->
    packed_loop fuel (read_number t) (List.concat ps) (l ++ replicate (List.length zs) Garbage) (List.length l) =
      Ok (Some ((List.length l + List.length zs)%nat, l ++ map Int zs)).
Proof.
  induction 1 as [|z p zs ps [[[v Hv] Hs] Hr] _ IH]; intros fuel l Hf.
  { cbn. rewrite Nat.add_0_r. by destruct fuel. }
  pose proof (varint_nonempty _ _ Hv) as Hne. cbn [List.concat] in *. rewrite length_app in Hf.
  destruct fuel as [|fuel]; [lia|]. destruct p as [|b p]; [cbn in Hne; lia|].
  cbn [app packed_loop]. change (b :: p ++ List.concat ps) with ((b :: p) ++ List.concat ps).
  rewrite (scan_varint_spec _ _ _ Hv Hs). cbn [obind]. rewrite Hr. cbn [obind List.length].
  rewrite set_element_next. cbn [obind]. change (S (List.length p)) with (List.length (b :: p)).
  rewrite drop_app_length. replace (S (List.length l)) with (List.length (l ++ [Int z])) by (rewrite length_app; cbn; lia).
  rewrite IH by (cbn in *; lia). rewrite length_app, <-app_assoc. cbn. do 3 f_equal. lia.
Qed.

(** Numbers of a fixed size. *)
Lemma copy_loop_spec siz (parse : bytes -> outcome Z) zs ps :
  Forall2 (fun z p => List.length p = siz /\ forall rest, parse (p ++ rest) = Ok z) zs ps ->
  forall l : list (cell D),
    copy_loop (List.length zs) siz parse (List.concat ps) (l ++ replicate (List.length zs) Garbage) (List.length l) =
      Ok (l ++ map Int zs).
Proof.
  induction 1 as [|z p zs ps [Hl Hr] _ IH]; intros l; [done|]. cbn [List.concat List.length copy_loop].
  rewrite Hr. cbn [obind]. rewrite set_element_next. cbn [obind]. replace (drop siz (p ++ List.concat ps)) with (List.concat ps) by (rewrite <-Hl; symmetry; apply drop_app_length).
  replace (S (List.length l)) with (List.length (l ++ [Int z])) by (rewrite length_app; cbn; lia).
  rewrite IH, <-app_assoc. done.
Qed.

(** The counts. *)
Lemma varint_count p v rest : varint p v -> max_b128_numbers (p ++ rest) = 1 + max_b128_numbers rest.
Proof.
  induction 1 as [b Hb|b bs v Hb _ IH]; cbn [app max_b128_numbers]; pose proof (ub_range b);
    rewrite testbit_7 by done; destruct (Z.leb_spec 128 (ub b)); try lia.
Qed.

Lemma varints_count (ps : list bytes) : Forall (fun p => laid_out Varint p) ps ->
  max_b128_numbers (List.concat ps) = Z.of_nat (List.length ps).
Proof.
  induction 1 as [|p ps [[v Hv] _] _ IH]; [done|]. cbn [List.concat List.length].
  rewrite (varint_count _ _ _ Hv), IH. lia.
Qed.

Lemma fixed_length siz (ps : list bytes) : Forall (fun p => List.length p = siz) ps ->
  List.length (List.concat ps) = (siz * List.length ps)%nat.
Proof. induction 1 as [|p ps Hp _ IH]; cbn; [lia|]. rewrite length_app, IH, Hp. lia. Qed.
End arrays.

(** ** The members of a field *)

Section fill.
Context {D : Type} `{EqDecision D} (desc : D -> ProtobufCMessageDescriptor D) (d : D).
Hypothesis Hwf : wf_descriptor (desc d) = true.
Context (P : message D -> bool) (message_pack : message D -> outcome bytes).
Context (message_unpack : D -> bytes -> outcome (option (message D))).
Implicit Types (f : ProtobufCFieldDescriptor D) (c : cell D) (ms : list (cell D)).

(** Ready to be filled with what [ms] has: not set, or for a repeated field with a block
    of the right size. *)
Definition allocated f ms ms' : Prop :=
  if is_repeated f then
    exists n, at_slot ms (quantifier_offset f) = Some (Int (Z.of_nat n)) /\
      at_slot ms' (quantifier_offset f) = Some (Int 0) /\
      at_slot ms' (offset f) = Some (Arr (Some (replicate n Garbage)))
  else unset f ms' = true.

Definition count_foot f : list nat := if is_repeated f then [quantifier_offset f] else [].

(** The members [l] are counted and put what [ms] has for [f] into another struct. *)
Definition fills f ms (l : list (ScannedMember (D := D))) : Prop :=
  Forall (written desc d) l /\
  (forall ms', (is_repeated f = true -> at_slot ms' (quantifier_offset f) = Some (Int 0)) ->
     exists ms'', count_members l ms' = Ok (Some ms'') /\
       (is_repeated f = true -> at_slot ms'' (quantifier_offset f) = at_slot ms (quantifier_offset f)) /\
       frame (count_foot f) ms' ms'') /\
  (forall ms' us room, allocated f ms ms' ->
     exists ms'', parse_members desc message_unpack d l (mkFilling ms' us room) =
         Ok (Some (mkFilling ms'' us room)) /\
       (forall o, o ∈ slots f -> at_slot ms'' o = at_slot ms o) /\ frame (slots f) ms' ms'').

Lemma sm_written f wt pref p : f ∈ fields (desc d) -> 0 <= wt < 8 ->
  (forall rest, scan_member wt (p ++ rest) = Ok (Some (List.length p, pref))) -> written desc d (sm_of f wt pref p).
Proof. intros Hf Hw Hs. exists f. done. Qed.

(** *** Fields that are not repeated *)

Lemma count_none f wt pref p ms : is_repeated f = false -> count_members [sm_of f wt pref p] ms = Ok (Some ms).
Proof.
  unfold is_repeated. intros Hr. cbn. unfold count_member. by destruct (label f).
Qed.

Lemma parse_members_one sm st st' : parse_member desc message_unpack d sm st = Ok (Some st') ->
  parse_members desc message_unpack d [sm] st = Ok (Some st').
Proof. cbn. by intros ->. Qed.

Lemma single_fills f ms c wt p : f ∈ fields (desc d) -> is_repeated f = false -> is_oneof f = false ->
  at_slot ms (offset f) = Some c -> element_read desc message_unpack f c wt p ->
  exists pref, fills f ms [sm_of f wt pref p].
Proof.
  intros Hf Hr Ho Hc (Hw & pref & Hs & Hp). exists pref. split; [|split].
  - constructor; [by apply sm_written|constructor].
  - intros ms' _. exists ms'. split; [by apply count_none|]. split; [by rewrite Hr|apply frame_refl].
  - intros ms' us room. unfold allocated. rewrite Hr. intros Hu. apply unset_single in Hu; [|done..].
    exists (put ms' (offset f) c). assert (Hsl : slots f = [offset f]) by (unfold slots; by rewrite Hr, Ho). split; [|split].
    + apply parse_members_one. unfold parse_member, sm_of. cbn [sm_field members tag].
      pose proof (wf_field desc d Hwf f Hf) as Hk. rewrite (none_label _ f Hk Hr).
      unfold field_ok in Hk. rewrite (none_label _ f Hk Hr) in Hk. split_andb.
      unfold is_oneof in Ho. rewrite (none_label _ f (wf_field desc d Hwf f Hf) Hr) in Ho. rewrite Ho in *.
      unfold parse_optional_member. rewrite (member_some _ _ _ Hu). cbn [obind].
      rewrite Hp by (intros _; by left). cbn [obind]. rewrite (set_member_some _ _ _ _ Hu). cbn [obind].
      by destruct (quantifier_offset f).
    + rewrite Hsl. intros o ->%list_elem_of_singleton. rewrite Hc. by eapply at_slot_put.
    + rewrite Hsl. apply frame_put. by left.
Qed.

Lemma oneof_fills f ms c wt p : f ∈ fields (desc d) -> is_oneof f = true ->
  at_slot ms (quantifier_offset f) = Some (Int (id f)) ->
  at_slot ms (offset f) = Some c -> element_read desc message_unpack f c wt p ->
  exists pref, fills f ms [sm_of f wt pref p].
Proof.
  intros Hf Ho Hq Hc (Hw & pref & Hs & Hp). exists pref. pose proof (oneof_not_repeated f Ho) as Hr. split; [|split].
  - constructor; [by apply sm_written|constructor].
  - intros ms' _. exists ms'. split; [by apply count_none|]. split; [by rewrite Hr|apply frame_refl].
  - intros ms' us room. unfold allocated. rewrite Hr. intros Hu. apply unset_oneof in Hu as [Hq' Hu]; [|done..].
    pose proof (wf_field desc d Hwf f Hf) as Hk.
    assert (Hne : quantifier_offset f <> offset f) by (unfold field_ok in Hk; split_andb; by apply Nat.eqb_neq).
    assert (Hsl : slots f = [quantifier_offset f; offset f]) by (unfold slots; by rewrite Hr, Ho).
    assert (Hq2 : at_slot (put ms' (offset f) c) (quantifier_offset f) = Some (Int 0)) by (by rewrite at_slot_put_ne).
    exists (put (put ms' (offset f) c) (quantifier_offset f) (Int (id f))). split; [|split].
    + apply parse_members_one. unfold parse_member, sm_of. cbn [sm_field members tag].
      rewrite (none_label _ f Hk Hr). unfold is_oneof in Ho. rewrite (none_label _ f Hk Hr) in Ho. rewrite Ho.
      unfold parse_oneof_member. rewrite (at_member_some _ _ _ _ Hq'). cbn [get_int obind Z.eqb].
      rewrite (member_some _ _ _ Hu). cbn [obind]. rewrite Hp by (intros _; by right). cbn [obind].
      rewrite (set_member_some _ _ _ _ Hu). cbn [obind]. by rewrite (set_member_some _ _ _ _ Hq2).
    + rewrite Hsl. intros o Hin. apply list_elem_of_In in Hin. destruct Hin as [<-|[<-|[]]].
      * rewrite Hq. by eapply at_slot_put.
      * rewrite Hc, at_slot_put_ne by done. by eapply at_slot_put.
    + rewrite Hsl. eapply frame_trans; apply frame_put; [right|]; by left.
Qed.

(** *** Repeated fields *)

Lemma wf_slots f : f ∈ fields (desc d) -> quantifier_offset f <> offset f.
Proof. intros Hf%(wf_field desc d Hwf). unfold field_ok in Hf. split_andb. by apply Nat.eqb_neq. Qed.

Lemma repeated_slots f : is_repeated f = true -> slots f = [quantifier_offset f; offset f].
Proof. unfold slots. by intros ->. Qed.

(** A member that holds one element. *)
Definition reads_element f c (sm : ScannedMember (D := D)) : Prop :=
  written desc d sm /\ sm_field sm = Some f /\ is_packed f (wire_type sm) = false /\
  parse_required_member desc message_unpack sm f Garbage false = Ok (Some c).

Lemma count_elements f l sms : is_repeated f = true -> Forall2 (reads_element f) l sms -> forall ms' k,
  at_slot ms' (quantifier_offset f) = Some (Int k) -> exists ms'',
    count_members sms ms' = Ok (Some ms'') /\
    at_slot ms'' (quantifier_offset f) = Some (Int (k + Z.of_nat (List.length l))) /\
    frame (count_foot f) ms' ms''.
Proof.
  intros Hr. induction 1 as [|c sm l sms (_ & Hf & Hk & _) _ IH]; intros ms' k Hq.
  { exists ms'. split; [done|]. split; [rewrite Hq; do 2 f_equal; cbn; lia|apply frame_refl]. }
  destruct (IH (put ms' (quantifier_offset f) (Int (k + 1))) (k + 1)) as (ms'' & E & Hq' & Hfr).
  { by eapply at_slot_put. }
  exists ms''. cbn [count_members]. rewrite Hf. unfold count_member. rewrite (repeated_label f Hr), Hk.
  rewrite (at_member_some _ _ _ _ Hq). cbn [get_int obind]. rewrite (set_member_some _ _ _ _ Hq). cbn [obind].
  split; [done|]. split; [rewrite Hq'; do 2 f_equal; cbn; lia|].
  eapply frame_trans; [|exact Hfr]. apply frame_put. unfold count_foot. rewrite Hr. by left.
Qed.

Lemma parse_elements f l sms : f ∈ fields (desc d) -> is_repeated f = true -> Forall2 (reads_element f) l sms ->
  forall before ms' us room, at_slot ms' (quantifier_offset f) = Some (Int (Z.of_nat (List.length before))) ->
    at_slot ms' (offset f) = Some (Arr (Some (before ++ replicate (List.length l) Garbage))) -> exists ms'',
    parse_members desc message_unpack d sms (mkFilling ms' us room) = Ok (Some (mkFilling ms'' us room)) /\
    at_slot ms'' (quantifier_offset f) = Some (Int (Z.of_nat (List.length before + List.length l))) /\
    at_slot ms'' (offset f) = Some (Arr (Some (before ++ l))) /\ frame (slots f) ms' ms''.
Proof.
  intros Hf Hr. induction 1 as [|c sm l sms (_ & Hsf & Hk & Hp) _ IH]; intros before ms' us room Hq Ho.
  { exists ms'. cbn in *. rewrite app_nil_r in *. split; [done|]. split; [rewrite Hq; do 3 f_equal; lia|]. done. }
  cbn [List.length] in *.
  destruct (set_repeated_eq f ms' (Z.of_nat (List.length before) + 1) ((before ++ [c]) ++ replicate (List.length l) Garbage) _ _
    (wf_slots f Hf) Ho Hq) as (ms1 & E1 & Hq1 & Ho1 & Hf1).
  destruct (IH (before ++ [c]) ms1 us room) as (ms2 & E2 & Hq2 & Ho2 & Hf2).
  { rewrite Hq1, length_app. do 2 f_equal. cbn. lia. }
  { done. }
  exists ms2. split.
  - cbn [parse_members]. unfold parse_member at 1. rewrite Hsf. cbn [members]. rewrite (repeated_label f Hr), Hk.
    unfold parse_repeated_member, repeated_member. rewrite (at_member_some _ _ _ _ Hq), (at_member_some _ _ _ _ Ho).
    cbn [get_int get_arr obind]. rewrite Hp. cbn [obind]. rewrite Nat2Z.id, set_element_next. cbn [obind].
    rewrite E1. cbn [obind]. exact E2.
  - split; [rewrite Hq2, length_app; do 3 f_equal; cbn; lia|]. split; [by rewrite Ho2, <-app_assoc|].
    eapply frame_trans; [|exact Hf2]. by rewrite repeated_slots.
Qed.

Lemma repeated_fills f ms l sms : f ∈ fields (desc d) -> is_repeated f = true ->
  at_slot ms (quantifier_offset f) = Some (Int (Z.of_nat (List.length l))) ->
  at_slot ms (offset f) = Some (Arr (Some l)) -> Forall2 (reads_element f) l sms -> fills f ms sms.
Proof.
  intros Hf Hr Hq Ho Hs. split; [|split].
  - clear -Hs. induction Hs as [|c sm l sms (Hw & _) _ IH]; by constructor.
  - intros ms' Hc. destruct (count_elements f l sms Hr Hs ms' 0 (Hc Hr)) as (ms'' & E & Hq' & Hfr).
    exists ms''. split; [done|]. split; [|done]. intros _. by rewrite Hq', Hq.
  - intros ms' us room. unfold allocated. rewrite Hr. intros (n & Hn & Hq' & Ho'). rewrite Hq in Hn.
    injection Hn as Hn. apply Nat2Z.inj in Hn. subst n.
    destruct (parse_elements f l sms Hf Hr Hs [] ms' us room Hq' Ho') as (ms'' & E & Hq2 & Ho2 & Hfr).
    exists ms''. split; [done|]. split; [|done]. rewrite (repeated_slots f Hr). intros o Hin.
    apply list_elem_of_In in Hin. destruct Hin as [<-|[<-|[]]]; [by rewrite Hq2, Hq|by rewrite Ho2, Ho].
Qed.

(** *** Packed fields *)

Lemma Forall2_with {A B} (R S : A -> B -> Prop) (Q : B -> Prop) l k :
  Forall2 R l k -> Forall Q k -> (forall x y, R x y -> Q y -> S x y) -> Forall2 S l k.
Proof. intros H HQ HS. induction H; inversion HQ; subst; constructor; auto. Qed.

(** The bytes of a number of the type. *)
Definition number_bytes (t : ProtobufCType) (p : bytes) : Prop :=
  laid_out (layout_of t) p /\ (t = PROTOBUF_C_TYPE_BOOL -> List.length p = 1%nat).

Lemma packed_count f (ps : list bytes) sf pref p : is_packable_type (type f) = true ->
  Forall (number_bytes (type f)) ps -> drop pref p = List.concat ps ->
  count_packed_elements (type f)
    (sm_payload (mkScanned (D := D) (id f) PROTOBUF_C_WIRE_TYPE_LENGTH_PREFIXED pref sf p)) =
    Some (Z.of_nat (List.length ps)).
Proof.
  intros Hk Hl Hd. unfold sm_payload. cbn [data length_prefix_len]. rewrite Hd. unfold count_packed_elements.
  assert (Hfix : forall siz, Forall (fun p => List.length p = siz) ps ->
    Z.of_nat (List.length (List.concat ps)) = Z.of_nat (List.length ps) * Z.of_nat siz)
    by (intros siz H; rewrite (fixed_length siz) by done; lia).
  destruct (type f); try done;
    try (rewrite varints_count; [done|]; eapply Forall_impl; [exact Hl|by intros x []]);
    try (rewrite (Hfix 4%nat) by (eapply Forall_impl; [exact Hl|by intros x []]); change (Z.of_nat 4) with 4;
         by rewrite Z.mod_mul, Z.div_mul by done);
    try (rewrite (Hfix 8%nat) by (eapply Forall_impl; [exact Hl|by intros x []]); change (Z.of_nat 8) with 8;
         by rewrite Z.mod_mul, Z.div_mul by done).
  rewrite (Hfix 1%nat); [f_equal; lia|]. eapply Forall_impl; [exact Hl|]. intros x [_ H]. by apply H.
Qed.

(** The loop that the type calls for, on a block for all elements. *)
Lemma packed_parse f zs (ps : list bytes) wt pref sf p ms :
  is_packable_type (type f) = true -> Forall (number_bytes (type f)) ps ->
  Forall2 (fun z p => forall rest, read_number (type f) (List.length p) (p ++ rest) = Ok z) zs ps ->
  drop pref p = List.concat ps -> quantifier_offset f <> offset f ->
  at_slot ms (quantifier_offset f) = Some (Int 0) ->
  at_slot ms (offset f) = Some (Arr (Some (replicate (List.length zs) Garbage))) ->
  parse_packed_repeated_member (mkScanned (D := D) (id f) wt pref sf p) f ms =
    (let* ms := set_repeated f ms (Z.of_nat (List.length zs)) (map Int zs) in Ok (Some ms)).
Proof.
  intros Hk Hl Hr Hd Hne Hq Ho. unfold parse_packed_repeated_member, repeated_member, sm_payload. cbn [data length_prefix_len].
  rewrite (at_member_some _ _ _ _ Hq), (at_member_some _ _ _ _ Ho). cbn [get_int get_arr obind]. rewrite Hd.
  assert (Hv : layout_of (type f) = Varint ->
    packed_loop (S (List.length (List.concat ps))) (read_number (type f)) (List.concat ps)
      (replicate (List.length zs) (@Garbage D)) 0 = Ok (Some (List.length zs, map Int zs))).
  { intros Hlay. apply (packed_loop_spec (type f) zs ps) with (l := []); [|lia].
    eapply Forall2_with; [exact Hr|exact Hl|]. intros z x Hz [Hx _]. by rewrite Hlay in Hx. }
  assert (Hf : forall siz parse, layout_of (type f) = Fixed siz -> (0 < siz)%nat ->
    (forall len p, read_number (type f) len p = parse p) ->
    copy_loop (List.length (List.concat ps) / siz) siz parse (List.concat ps)
      (replicate (List.length zs) (@Garbage D)) 0 = Ok (map Int zs) /\
    (List.length (List.concat ps) / siz)%nat = List.length zs).
  { intros siz parse Hlay Hpos Hpar. assert (E : (List.length (List.concat ps) / siz)%nat = List.length zs).
    { rewrite (fixed_length siz), Nat.mul_comm, Nat.div_mul, (Forall2_length _ _ _ Hr); [done|lia|].
      eapply Forall_impl; [exact Hl|]. intros x [Hx _]. by rewrite Hlay in Hx. }
    split; [|done]. rewrite E. apply (copy_loop_spec siz parse zs ps) with (l := []).
    eapply Forall2_with; [exact Hr|exact Hl|]. intros z x Hz [Hx _].
    rewrite Hlay in Hx. split; [done|]. intros rest. by rewrite <-(Hpar (List.length x)). }
  cbv zeta beta. change (Z.to_nat 0) with 0%nat. destruct (type f); try done;
    try (lazymatch goal with |- context [packed_loop _ ?b _ _ _] =>
           lazymatch type of Hv with _ -> packed_loop _ ?b' _ _ _ = _ => change b with b' end end;
         rewrite Hv by done; reflexivity);
    (lazymatch goal with |- context [copy_loop _ ?siz ?parse _ _ _] =>
       destruct (Hf siz parse eq_refl ltac:(lia) ltac:(reflexivity)) as [E E'] end;
     rewrite E; cbn [obind]; by rewrite E').
Qed.

(** The elements of a packed array are numbers, and so are their bytes. *)
Lemma packed_numbers f l wps : is_packable_type (type f) = true ->
  Forall (fun c => typed_element in_type no_nul P f c = true) l ->
  Forall2 (fun c wp => payload message_pack f c = Ok wp) l wps ->
  exists zs, l = map Int zs /\ Forall (number_bytes (type f)) (map snd wps) /\
    Forall2 (fun z p => forall rest, read_number (type f) (List.length p) (p ++ rest) = Ok z) zs (map snd wps).
Proof.
  intros Hk Ht Hp. induction Hp as [|c [wt p] l wps E _ IH]; [by exists []|].
  apply Forall_cons in Ht as [Hc Hl]. destruct (IH Hl) as (zs & -> & Hb & Hr).
  assert (Hz : exists z, c = Int z /\ in_type (type f) z = true).
  { unfold typed_element in Hc. destruct (type f), c; try done; eauto. }
  destruct Hz as (z & -> & Hz). destruct (number_roundtrip message_pack f z Hz) as (wt' & p' & E' & Hlay & _ & Hread).
  rewrite E in E'. injection E' as <- <-. exists (z :: zs). split; [done|]. split; [|by constructor].
  constructor; [|done]. split; [done|]. intros Eb. unfold payload in E. rewrite Eb in E. cbn in E. by injection E as <- <-.
Qed.

Lemma packed_fills f ms l wps : f ∈ fields (desc d) -> is_repeated f = true -> l <> [] ->
  PROTOBUF_C_FIELD_FLAG_PACKED (flags f) = true -> is_packable_type (type f) = true ->
  at_slot ms (quantifier_offset f) = Some (Int (Z.of_nat (List.length l))) ->
  at_slot ms (offset f) = Some (Arr (Some l)) ->
  Forall (fun c => typed_element in_type no_nul P f c = true) l ->
  Forall2 (fun c wp => payload message_pack f c = Ok wp) l wps ->
  Z.of_nat (List.length (List.concat (map snd wps))) <= INT_MAX ->
  exists pref, fills f ms [sm_of f PROTOBUF_C_WIRE_TYPE_LENGTH_PREFIXED pref (prefixed (List.concat (map snd wps)))].
Proof.
  intros Hf Hr Hne Hpk Hk Hq Ho Ht Hp Hm. destruct (packed_numbers f l wps Hk Ht Hp) as (zs & -> & Hb & Hread).
  destruct (scan_prefixed (List.concat (map snd wps)) [] Hm) as (pref & _ & Hd & Hlen). exists pref.
  assert (Hisp : is_packed f PROTOBUF_C_WIRE_TYPE_LENGTH_PREFIXED = true) by (unfold is_packed; by rewrite Hpk).
  rewrite length_map in Hq. split; [|split].
  - constructor; [|constructor]. apply sm_written; [done|done|]. intros rest.
    destruct (scan_prefixed (List.concat (map snd wps)) rest Hm) as (pref' & E & _ & Hlen').
    rewrite E. do 3 f_equal. lia.
  - intros ms' Hq'. specialize (Hq' Hr). exists (put ms' (quantifier_offset f) (Int (Z.of_nat (List.length zs)))).
    split; [|split; [intros _; rewrite Hq; by eapply at_slot_put|apply frame_put; unfold count_foot; rewrite Hr; by left]].
    unfold sm_of. cbn [count_members sm_field]. unfold count_member. rewrite (repeated_label f Hr). cbn [wire_type]. rewrite Hisp.
    rewrite (packed_count f _ _ _ _ Hk Hb Hd), <-(Forall2_length _ _ _ Hread), (at_member_some _ _ _ _ Hq').
    cbn [get_int obind]. by rewrite (set_member_some _ _ _ _ Hq').
  - intros ms' us room. unfold allocated. rewrite Hr. intros (n & Hn & Hq' & Ho'). rewrite Hq in Hn.
    injection Hn as Hn. apply Nat2Z.inj in Hn. subst n.
    destruct (set_repeated_eq f ms' (Z.of_nat (List.length zs)) (map Int zs) _ _ (wf_slots f Hf) Ho' Hq')
      as (ms'' & E & Hq2 & Ho2 & Hfr).
    exists ms''. split; [|split; [|by rewrite repeated_slots]].
    + apply parse_members_one. unfold parse_member, sm_of. cbn [sm_field members wire_type].
      rewrite (repeated_label f Hr), Hisp.
      rewrite (packed_parse f zs (map snd wps)) by (done || by apply wf_slots). by rewrite E.
    + rewrite (repeated_slots f Hr). intros o Hin.
      apply list_elem_of_In in Hin. destruct Hin as [<-|[<-|[]]]; [by rewrite Hq2, Hq|by rewrite Ho2, Ho].
Qed.
End fill.

(** * Packing and unpacking

    A message that fits its descriptor is read back from its bytes, for all descriptors
    of proto3. *)

Open Scope Z_scope.
Open Scope list_scope.

(** ** What is written for a field *)

Section field.
Context {D : Type} `{EqDecision D} (desc : D -> ProtobufCMessageDescriptor D) (d : D).
Hypothesis Hwf : wf_descriptor (desc d) = true.
Context (P : message D -> bool) (message_pack : message D -> outcome bytes).
Context (message_unpack : D -> bytes -> outcome (option (message D))).
Implicit Types (f : ProtobufCFieldDescriptor D) (c : cell D) (ms : list (cell D)).

(** Anything is written for the field. *)
Definition writes ms f : bool :=
  if is_oneof f then holds_at (has_value (id f)) ms (quantifier_offset f) else negb (unset f ms).

Lemma required_inv f c bs : required_field_pack message_pack f c = Ok bs ->
  exists wt p, payload message_pack f c = Ok (wt, p) /\ bs = tagged (id f) wt p.
Proof.
  unfold required_field_pack, payload. destruct (type f);
    repeat (match goal with |- obind ?m _ = _ -> _ => destruct m end; cbn [obind]; try done); intros [= <-]; eauto.
Qed.

Lemma array_inv f l bs : pack_array (required_field_pack message_pack f) (List.length l) l = Ok bs ->
  exists wps, Forall2 (fun c wp => payload message_pack f c = Ok wp) l wps /\
    bs = List.concat (map (fun wp => tagged (id f) (fst wp) (snd wp)) wps).
Proof.
  revert bs. induction l as [|c l IH]; intros bs; [intros [= <-]; by exists []|]. cbn [List.length].
  rewrite pack_array_cons. destruct (required_field_pack message_pack f c) as [b| |] eqn:E; try done. cbn [obind].
  destruct (pack_array (required_field_pack message_pack f) (List.length l) l) as [rv| |]; try done. cbn [obind].
  intros [= <-]. destruct (IH rv eq_refl) as (wps & Hw & ->). destruct (required_inv _ _ _ E) as (wt & p & Ep & ->).
  exists ((wt, p) :: wps). split; [by constructor|done].
Qed.

(** A member with contents is not taken for one without. *)
Lemma not_zeroish f c : typed_element in_type no_nul P f c = true -> nonempty c = true ->
  is_init_cell (type f) c = false -> field_is_zeroish f c = Ok false.
Proof.
  intros Ht Hn Hi. unfold typed_element in Ht. unfold field_is_zeroish.
  destruct (type f), c as [| |z|[| |s]|len [bs|]|[m|]|]; try done; cbn [is_init_cell in_type nonempty get_int get_str get_bytes obind chars] in *;
    try (split_andb; apply f_equal, Z.eqb_neq; apply Z.eqb_neq in Hi; unfold wrap32, wrap64; Z.to_euclidean_division_equations; lia).
  - apply f_equal, Z.eqb_neq. apply Z.eqb_neq in Hi. split_andb. rewrite wrap32_id by lia. change (2 ^ 31 - 1) with (Z.ones 31).
    rewrite Z.land_ones by done. Z.to_euclidean_division_equations; lia.
  - apply f_equal, Z.eqb_neq. apply Z.eqb_neq in Hi. split_andb. rewrite wrap64_id by lia. change (2 ^ 63 - 1) with (Z.ones 63).
    rewrite Z.land_ones by done. Z.to_euclidean_division_equations; lia.
  - rewrite bool_decide_eq_false_2 by done. apply negb_true_iff in Hn. by rewrite Hn.
  - split_andb. apply f_equal, Z.eqb_neq. cbn. lia.
Qed.

(** *** The members that a field writes *)

Context (limit : nat).
Hypothesis Hback : forall m bs, P m = true -> message_pack m = Ok bs -> (List.length bs < limit)%nat ->
  message_unpack (message_descriptor m) bs = Ok (Some m).

Definition element_ok f c (wp : Z * bytes) : Prop :=
  typed_element in_type no_nul P f c = true /\ payload message_pack f c = Ok wp /\
  (List.length (snd wp) <= limit)%nat /\ Z.of_nat (List.length (snd wp)) <= INT_MAX.

Lemma element_ok_read f c wt p : element_ok f c (wt, p) -> element_read desc message_unpack f c wt p.
Proof.
  intros (Ht & Hp & Hl & Hm). cbn [fst snd] in *. eapply element_roundtrip; [exact Ht|exact Hp|done|].
  intros m bs -> Hm' E Hlt. apply Hback; [done..|lia].
Qed.

(** An element outside of a packed array is not taken for one. *)
Lemma not_packed f c wt p : PROTOBUF_C_FIELD_FLAG_PACKED (flags f) = false ->
  typed_element in_type no_nul P f c = true -> payload message_pack f c = Ok (wt, p) -> is_packed f wt = false.
Proof.
  intros Hf Ht Hp. unfold is_packed. rewrite Hf. cbn [orb]. unfold typed_element in Ht. unfold payload in Hp.
  destruct (type f), c; try done; cbn [get_int obind is_packable_type] in *;
    try (injection Hp as <- <-; reflexivity); by rewrite andb_false_r.
Qed.

Lemma elements_sms f l wps : f ∈ fields (desc d) -> PROTOBUF_C_FIELD_FLAG_PACKED (flags f) = false ->
  Forall2 (element_ok f) l wps -> exists sms,
    Forall2 (reads_element desc d message_unpack f) l sms /\
    raws sms = List.concat (map (fun wp => tagged (id f) (fst wp) (snd wp)) wps).
Proof.
  intros Hf Hk. induction 1 as [|c [wt p] l wps Hc _ (sms & Hs & E)]; [by exists []|].
  destruct (element_ok_read _ _ _ _ Hc) as (Hw & pref & Hscan & Hp). destruct Hc as (Ht & Hpl & _).
  exists (sm_of f wt pref p :: sms). split.
  - constructor; [|done]. split; [by eapply sm_written|]. split; [done|]. split; [by eapply not_packed|].
    apply Hp. done.
  - change (raws (sm_of f wt pref p :: sms)) with (raw (sm_of f wt pref p) ++ raws sms). by rewrite E.
Qed.

(** The pieces of a list of bytes are not longer than it. *)
Lemma pieces_short f l wps : Forall2 (fun c wp => payload message_pack f c = Ok wp) l wps ->
  Forall (fun c => typed_element in_type no_nul P f c = true) l -> forall n,
  (List.length (List.concat (map snd wps)) <= n)%nat -> (n <= limit)%nat -> Z.of_nat n <= INT_MAX ->
  Forall2 (element_ok f) l wps.
Proof.
  induction 1 as [|c [wt p] l wps E _ IH]; intros Ht n Hn Hl Hm; [constructor|]. cbn [map List.concat snd] in Hn.
  rewrite length_app in Hn. apply Forall_cons in Ht as [Hc Ht]. constructor; [|by apply (IH Ht n); lia].
  split; [done|]. split; [done|]. cbn. lia.
Qed.

Lemma tagged_longer i wt p : (List.length p <= List.length (tagged i wt p))%nat.
Proof. unfold tagged. rewrite length_app. lia. Qed.

Lemma concat_longer i (wps : list (Z * bytes)) :
  (List.length (List.concat (map snd wps)) <= List.length (List.concat (map (fun wp => tagged i (fst wp) (snd wp)) wps)))%nat.
Proof.
  induction wps as [|[wt p] wps IH]; cbn [map List.concat fst snd]; [done|]. rewrite !length_app.
  pose proof (tagged_longer i wt p). lia.
Qed.

(** Every number has a payload. *)
Lemma numbers_payload f l : is_packable_type (type f) = true ->
  Forall (fun c => typed_element in_type no_nul P f c = true) l ->
  exists wps, Forall2 (fun c wp => payload message_pack f c = Ok wp) l wps.
Proof.
  intros Hk. induction 1 as [|c l Hc _ (wps & IH)]; [by exists []|].
  assert (Hz : exists z, c = Int z /\ in_type (type f) z = true).
  { unfold typed_element in Hc. destruct (type f), c; try done; eauto. }
  destruct Hz as (z & -> & Hz). destruct (number_roundtrip message_pack f z Hz) as (wt & p & E & _).
  exists ((wt, p) :: wps). by constructor.
Qed.

Lemma repeated_case f ms l bs : f ∈ fields (desc d) -> is_repeated f = true -> l <> [] ->
  at_slot ms (quantifier_offset f) = Some (Int (Z.of_nat (List.length l))) ->
  at_slot ms (offset f) = Some (Arr (Some l)) -> Forall (fun c => typed_element in_type no_nul P f c = true) l ->
  repeated_field_pack message_pack f (Z.of_nat (List.length l)) (Arr (Some l)) = Ok bs ->
  (List.length bs <= limit)%nat -> Z.of_nat (List.length bs) <= INT_MAX ->
  exists sms, bs = raws sms /\ fills desc d message_unpack f ms sms.
Proof.
  intros Hf Hr Hne Hq Ho Ht Hp Hl Hm. pose proof (wf_field desc d Hwf f Hf) as Hk.
  destruct (PROTOBUF_C_FIELD_FLAG_PACKED (flags f)) eqn:Hpk.
  - assert (Hty : is_packable_type (type f) = true).
    { unfold field_ok in Hk. rewrite (repeated_label f Hr), Hpk in Hk. by split_andb. }
    destruct (numbers_payload f l Hty Ht) as (wps & Hw).
    assert (Hlen : (List.length (List.concat (map snd wps)) <= List.length bs)%nat).
    { unfold repeated_field_pack in Hp. rewrite Hpk, Nat2Z.id in Hp.
      destruct (Z.eqb_spec (Z.of_nat (List.length l)) 0); [by destruct l|]. cbn [with_array] in Hp.
      rewrite (pack_array_elements _ _ _ _ Hty Hw) in Hp. cbn [obind] in Hp. case_match; [|done]. injection Hp as <-.
      unfold tagged. rewrite !length_app. lia. }
    unfold INT_MAX in *. rewrite (array_pack_packed message_pack f l wps) in Hp by (done || lia). injection Hp as <-.
    destruct (packed_fills desc d Hwf P message_pack message_unpack f ms l wps) as (pref & Hfill); try done.
    { unfold INT_MAX. lia. }
    eexists. split; [|exact Hfill]. unfold raws, raw. cbn. by rewrite app_nil_r.
  - unfold repeated_field_pack in Hp. rewrite Hpk, Nat2Z.id in Hp. cbn [with_array] in Hp.
    apply array_inv in Hp as (wps & Hw & ->). pose proof (concat_longer (id f) wps) as Hlen.
    assert (Hok : Forall2 (element_ok f) l wps) by (eapply (pieces_short f l wps Hw Ht); [exact Hlen|done|done]).
    destruct (elements_sms f l wps Hf Hpk Hok) as (sms & Hs & E). exists sms. split; [done|].
    by eapply repeated_fills.
Qed.

Lemma field_case fs ms f bs : f ∈ fields (desc d) -> typed_member in_type no_nul P f ms = true ->
  union_set ms fs f = true -> (exists c, at_slot ms (offset f) = Some c) ->
  field_pack message_pack ms f = Ok bs -> (List.length bs <= limit)%nat -> Z.of_nat (List.length bs) <= INT_MAX ->
  if writes ms f then exists sms, bs = raws sms /\ fills desc d message_unpack f ms sms else bs = [].
Proof.
  intros Hf Ht Hu (c0 & Hc0) Hp Hl Hm. pose proof (wf_field desc d Hwf f Hf) as Hk. unfold writes.
  destruct (is_oneof f) eqn:Ho.
  - pose proof (oneof_not_repeated f Ho) as Hr. destruct (holds_at (has_value (id f)) ms (quantifier_offset f)) eqn:Hq.
    + apply holds_has_value in Hq. destruct (typed_oneof _ _ _ f ms Hr Ho Ht Hq) as (c & Hc & Htc).
      rewrite (proj1 (oneof_eq _ (fun _ => Undef) _ f ms _ _ Hk Hr Ho Hq Hc)) in Hp. unfold oneof_field_pack in Hp.
      rewrite Z.eqb_refl, (oneof_set _ _ _ _ f c Hk Htc) in Hp. cbn [negb obind] in Hp.
      apply required_inv in Hp as (wt & p & Hp & ->). pose proof (tagged_longer (id f) wt p).
      destruct (oneof_fills desc d Hwf message_unpack f ms c wt p Hf Ho Hq Hc) as (pref & Hfill).
      { apply element_ok_read. split; [done|]. split; [done|]. cbn. lia. }
      eexists. split; [|exact Hfill]. unfold raws, raw. cbn. by rewrite app_nil_r.
    + destruct (union_cases ms fs f Hr Ho Hu) as [Hs|(g & Hg & Hone & Hqg)].
      * rewrite (proj1 (unset_field _ (fun _ => Undef) _ f ms Hk Hs)) in Hp. by injection Hp.
      * assert (id g <> id f) by (intros E; rewrite E in Hqg; by apply holds_has_value in Hqg; congruence).
        rewrite (proj1 (other_field _ (fun _ => Undef) _ f ms _ _ Hk Ho H Hqg Hc0)) in Hp. by injection Hp.
  - destruct (unset f ms) eqn:Hs; cbn [negb].
    { rewrite (proj1 (unset_field _ (fun _ => Undef) _ f ms Hk Hs)) in Hp. by injection Hp. }
    destruct (is_repeated f) eqn:Hr.
    + destruct (typed_repeated _ _ _ f ms Hr Ht) as [?|(l & Hne & Hq & Hc & Hty)]; [congruence|].
      rewrite (proj1 (repeated_eq _ (fun _ => Undef) f ms _ _ Hr Hq Hc)) in Hp. by eapply repeated_case.
    + destruct (typed_single _ _ _ f ms Hr Ho Ht) as [?|(c & Hc & Htc & Hn & Hi)]; [congruence|].
      rewrite (proj1 (single_eq _ (fun _ => Undef) _ f ms _ Hk Hr Ho Hc)) in Hp. unfold unlabeled_field_pack in Hp.
      rewrite (not_zeroish f c Htc Hn Hi) in Hp. cbn [obind] in Hp.
      apply required_inv in Hp as (wt & p & Hp & ->). pose proof (tagged_longer (id f) wt p).
      destruct (single_fills desc d Hwf message_unpack f ms c wt p Hf Hr Ho Hc) as (pref & Hfill).
      { apply element_ok_read. split; [done|]. split; [done|]. cbn. lia. }
      eexists. split; [|exact Hfill]. unfold raws, raw. cbn. by rewrite app_nil_r.
Qed.
End field.

(** * Unpacking what was packed

    The members of all fields of a message, one after the other: they are counted, blocks
    are allocated, and they are put where they came from. *)

Open Scope Z_scope.
Open Scope list_scope.

(** ** Lists of members *)

Section lists.
Context {D : Type} (desc : D -> ProtobufCMessageDescriptor D) (d : D).
Context (message_unpack : D -> bytes -> outcome (option (message D))).
Implicit Types (f : ProtobufCFieldDescriptor D) (ms : list (cell D)) (l : list (ScannedMember (D := D))).

Lemma count_members_app l l' ms ms' : count_members l ms = Ok (Some ms') ->
  count_members (l ++ l') ms = count_members l' ms'.
Proof.
  revert ms. induction l as [|sm l IH]; intros ms; cbn [app count_members]; [by intros [= ->]|].
  destruct (sm_field sm) as [f|]; [|apply IH]. destruct (count_member f sm ms) as [[ms1|]| |]; try done. apply IH.
Qed.

Lemma parse_members_app l l' st st' : parse_members desc message_unpack d l st = Ok (Some st') ->
  parse_members desc message_unpack d (l ++ l') st = parse_members desc message_unpack d l' st'.
Proof.
  revert st. induction l as [|sm l IH]; intros st; cbn [app parse_members]; [by intros [= ->]|].
  destruct (parse_member desc message_unpack d sm st) as [[st1|]| |]; try done. apply IH.
Qed.

Lemma raws_app l l' : raws (l ++ l') = raws l ++ raws l'.
Proof. unfold raws. by rewrite map_app, concat_app. Qed.

Lemma raws_length l : Forall (written desc d) l -> wf_descriptor (desc d) = true ->
  (List.length l <= List.length (raws l))%nat.
Proof.
  intros Hl Hwf. induction Hl as [|sm l Hsm _ IH]; [done|].
  change (raws (sm :: l)) with (raw sm ++ raws l). destruct (raw_nonempty desc d Hwf sm Hsm) as (b & bs & ->).
  rewrite length_app. cbn. lia.
Qed.

(** *** The elements of an array are as many as the bytes at most *)

Lemma pack_array_count (pack : cell D -> outcome bytes) cs bs :
  (forall c p, pack c = Ok p -> p <> []) -> pack_array pack (List.length cs) cs = Ok bs ->
  (List.length cs <= List.length bs)%nat.
Proof.
  intros Hne. revert bs. induction cs as [|c cs IH]; intros bs; [cbn; lia|]. cbn [List.length]. rewrite pack_array_cons.
  destruct (pack c) as [p| |] eqn:E; try done. cbn [obind].
  destruct (pack_array pack (List.length cs) cs) as [rv| |]; try done. cbn [obind]. intros [= <-].
  specialize (IH rv eq_refl). apply Hne in E. destruct p; [done|]. rewrite length_app. cbn. lia.
Qed.

Lemma uint32_nonempty z : uint32_pack z <> [].
Proof. unfold uint32_pack. by destruct (128 <=? z). Qed.
Lemma uint64_nonempty z : uint64_pack z <> [].
Proof. unfold uint64_pack. destruct (_ =? 0); [apply uint32_nonempty|done]. Qed.
Lemma int32_nonempty z : int32_pack z <> [].
Proof. unfold int32_pack. destruct (_ <? 0); [done|apply uint32_nonempty]. Qed.

Lemma tagged_nonempty i wt p : tagged i wt p <> [].
Proof.
  assert (H : tag_pack i <> []) by (unfold tag_pack; case_match; [apply uint32_nonempty|apply uint64_nonempty]).
  unfold tagged. by destruct (tag_pack i).
Qed.

Lemma required_nonempty pk f c p : required_field_pack (D := D) pk f c = Ok p -> p <> [].
Proof. intros (wt & q & _ & ->)%required_inv. apply tagged_nonempty. Qed.

Lemma packed_element_nonempty f (c : cell D) p : packed_element f c = Ok p -> p <> [].
Proof.
  unfold packed_element. destruct (type f); try done; destruct (get_int c) as [z| |]; try done; cbn [obind]; intros [= <-];
    by apply int32_nonempty || apply uint32_nonempty || apply uint64_nonempty || done.
Qed.

Lemma repeated_count pk f cs bs :
  repeated_field_pack (D := D) pk f (Z.of_nat (List.length cs)) (Arr (Some cs)) = Ok bs ->
  (List.length cs <= List.length bs)%nat.
Proof.
  unfold repeated_field_pack. rewrite Nat2Z.id. cbn [with_array]. case_match.
  - destruct (Z.eqb_spec (Z.of_nat (List.length cs)) 0); [intros; lia|].
    destruct (pack_array (packed_element f) (List.length cs) cs) as [p| |] eqn:E; try done. cbn [obind].
    apply pack_array_count in E; [|apply packed_element_nonempty]. case_match; [|done]. intros [= <-].
    unfold tagged. rewrite !length_app. lia.
  - apply pack_array_count. apply required_nonempty.
Qed.
End lists.

(** ** Fields that share nothing *)

Section runs.
Context {D : Type} `{EqDecision D} (desc : D -> ProtobufCMessageDescriptor D) (d : D).
Hypothesis Hwf : wf_descriptor (desc d) = true.
Context (message_unpack : D -> bytes -> outcome (option (message D))) (ms : list (cell D)).
Implicit Types (f g : ProtobufCFieldDescriptor D) (W : list (ProtobufCFieldDescriptor D)) (ms : list (cell D)).

Definition disjoint_fields f g : Prop := forall o, o ∈ slots f -> o ∉ slots g.

Definition foot_of (foot : ProtobufCFieldDescriptor D -> list nat) W : list nat := List.concat (map foot W).

Lemma in_foot foot W o : o ∈ foot_of foot W <-> exists f, f ∈ W /\ o ∈ foot f.
Proof.
  unfold foot_of. rewrite list_elem_of_In, in_concat. setoid_rewrite in_map_iff. setoid_rewrite list_elem_of_In.
  split; [intros (l & (f & <- & Hf) & Ho)|intros (f & Hf & Ho)]; eauto.
Qed.

Lemma foot_cons foot f W o : o ∉ foot_of foot (f :: W) <-> (o ∉ foot f) /\ (o ∉ foot_of foot W).
Proof. unfold foot_of. cbn. rewrite not_elem_of_app. done. Qed.

Lemma count_slots f o : o ∈ count_foot f -> o ∈ slots f.
Proof. unfold count_foot, slots. destruct (is_repeated f); cbn; [|by intros ?%elem_of_nil]. intros ->%list_elem_of_singleton; by left. Qed.

Lemma quantifier_slot f : is_repeated f = true -> quantifier_offset f ∈ slots f.
Proof. intros Hr. rewrite repeated_slots by done. by left. Qed.

(** What the fields after the first do leaves the first alone. *)
Lemma foot_apart f W o : Forall (disjoint_fields f) W -> o ∈ slots f -> o ∉ foot_of slots W.
Proof.
  intros H Ho (g & Hg & Ho')%in_foot. rewrite Forall_forall in H. by apply (H g Hg o).
Qed.

Lemma foot_smaller W o : o ∉ foot_of slots W -> o ∉ foot_of count_foot W.
Proof. intros H (g & Hg & Ho%count_slots)%in_foot. apply H, in_foot. eauto. Qed.

(** *** The counts *)

Lemma count_run W runs : ForallOrdPairs disjoint_fields W -> Forall2 (fun f l => fills desc d message_unpack f ms l) W runs ->
  forall ms', (forall f, f ∈ W -> is_repeated f = true -> at_slot ms' (quantifier_offset f) = Some (Int 0)) ->
  exists ms'', count_members (List.concat runs) ms' = Ok (Some ms'') /\
    (forall f, f ∈ W -> is_repeated f = true -> at_slot ms'' (quantifier_offset f) = at_slot ms (quantifier_offset f)) /\
    frame (foot_of count_foot W) ms' ms''.
Proof.
  intros Hd Hf. induction Hf as [|f l W runs (_ & Hc & _) _ IH]; intros ms' Hq.
  { exists ms'. split; [done|]. split; [by intros f ?%elem_of_nil|apply frame_refl]. }
  inversion Hd as [|? ? Hfw Hd']; subst. destruct (Hc ms') as (ms1 & E1 & Hq1 & Hf1); [apply Hq; by left|].
  destruct (IH Hd' ms1) as (ms2 & E2 & Hq2 & Hf2).
  { intros g Hg Hr. rewrite (proj2 Hf1); [apply Hq; [by right|done]|]. intros Hin%count_slots.
    rewrite Forall_forall in Hfw. by apply (Hfw g Hg _ Hin), quantifier_slot. }
  exists ms2. cbn [List.concat]. rewrite (count_members_app _ _ _ _ E1). split; [done|]. split.
  - intros g Hg Hr. apply elem_of_cons in Hg as [->|Hg]; [|by apply Hq2]. rewrite (proj2 Hf2); [by apply Hq1|].
    by eapply foot_smaller, foot_apart, quantifier_slot.
  - split; [rewrite (proj1 Hf2); apply Hf1|]. intros o [Ho Ho']%foot_cons. by rewrite (proj2 Hf2), (proj2 Hf1).
Qed.

(** *** The contents *)

Lemma unset_slots f ms1 ms2 : (forall o, o ∈ slots f -> at_slot ms1 o = at_slot ms2 o) -> unset f ms1 = unset f ms2.
Proof.
  unfold unset, slots, holds_at. rewrite !at_member_eq. destruct (is_repeated f), (is_oneof f); cbn [orb]; intros H;
    rewrite ?(H (offset f)) by (repeat (left || right)); rewrite ?(H (quantifier_offset f)) by (repeat (left || right)); done.
Qed.

Lemma allocated_slots f ms1 ms2 : (forall o, o ∈ slots f -> at_slot ms1 o = at_slot ms2 o) ->
  allocated f ms ms2 -> allocated f ms ms1.
Proof.
  intros H. unfold allocated. rewrite (unset_slots f ms1 ms2 H). destruct (is_repeated f) eqn:Hr; [|done].
  rewrite !(H _ (quantifier_slot f Hr)), (H (offset f)) by (apply offset_slot). done.
Qed.

Lemma parse_run W runs : ForallOrdPairs disjoint_fields W -> Forall2 (fun f l => fills desc d message_unpack f ms l) W runs ->
  forall ms' us room, (forall f, f ∈ W -> allocated f ms ms') ->
  exists ms'', parse_members desc message_unpack d (List.concat runs) (mkFilling ms' us room) =
      Ok (Some (mkFilling ms'' us room)) /\
    (forall f o, f ∈ W -> o ∈ slots f -> at_slot ms'' o = at_slot ms o) /\ frame (foot_of slots W) ms' ms''.
Proof.
  intros Hd Hf. induction Hf as [|f l W runs (_ & _ & Hp) _ IH]; intros ms' us room Ha.
  { exists ms'. split; [done|]. split; [by intros f o ?%elem_of_nil|apply frame_refl]. }
  inversion Hd as [|? ? Hfw Hd']; subst. destruct (Hp ms' us room) as (ms1 & E1 & Hs1 & Hf1); [apply Ha; by left|].
  destruct (IH Hd' ms1 us room) as (ms2 & E2 & Hs2 & Hf2).
  { intros g Hg. apply (allocated_slots g _ ms'); [|apply Ha; by right]. intros o Ho. apply (proj2 Hf1).
    intros Ho'. rewrite Forall_forall in Hfw. by apply (Hfw g Hg o). }
  exists ms2. cbn [List.concat]. rewrite (parse_members_app _ _ _ _ _ _ _ E1). split; [done|]. split.
  - intros g o Hg Ho. apply elem_of_cons in Hg as [->|Hg]; [|by eapply Hs2]. rewrite (proj2 Hf2); [by apply Hs1|].
    by eapply foot_apart.
  - split; [rewrite (proj1 Hf2); apply Hf1|]. intros o [Ho Ho']%foot_cons. by rewrite (proj2 Hf2), (proj2 Hf1).
Qed.

(** *** The blocks *)

Definition counted f ms' : Prop :=
  exists n c, at_slot ms' (quantifier_offset f) = Some (Int (Z.of_nat n)) /\ Z.of_nat n < 2 ^ 32 /\
    at_slot ms' (offset f) = Some c.

(** The blocks of the fields with members, and nothing else. *)
Definition with_blocks W ms' (ms'' : list (cell D)) : Prop :=
  (forall f n, f ∈ W -> is_repeated f = true -> at_slot ms' (quantifier_offset f) = Some (Int (Z.of_nat n)) -> n <> O ->
     at_slot ms'' (quantifier_offset f) = Some (Int 0) /\
     at_slot ms'' (offset f) = Some (Arr (Some (replicate n Garbage)))) /\
  List.length ms'' = List.length ms' /\
  (forall o, (forall f, f ∈ W -> is_repeated f = true -> at_slot ms' (quantifier_offset f) <> Some (Int 0) -> o ∉ slots f) ->
     at_slot ms'' o = at_slot ms' o).

Lemma apart_repeated f g : apart f g = true -> is_repeated f = true -> disjoint_fields f g.
Proof.
  intros [Hu|H]%apart_spec Hr; [|exact H]. unfold one_union in Hu. split_andb.
  match goal with H : is_oneof f = true |- _ => apply oneof_not_repeated in H; congruence end.
Qed.

Lemma with_blocks_skip f W ms' ms'' :
  (is_repeated f = true -> at_slot ms' (quantifier_offset f) = Some (Int 0)) ->
  with_blocks W ms' ms'' -> with_blocks (f :: W) ms' ms''.
Proof.
  intros Hz (H1 & H2 & H3). split; [|split; [done|]].
  - intros g n Hg Hr Hq Hn. apply elem_of_cons in Hg as [->|Hg]; [|by eapply H1]. rewrite Hz in Hq by done.
    injection Hq as Hq. lia.
  - intros o Ho. apply H3. intros g Hg. apply Ho. by right.
Qed.

(** The block of one field. *)
Lemma allocate_block f n c ms' : is_repeated f = true -> quantifier_offset f <> offset f ->
  at_slot ms' (quantifier_offset f) = Some (Int (Z.of_nat n)) -> at_slot ms' (offset f) = Some c ->
  exists ms1,
    (let* ms2 := set_member ms' (quantifier_offset f) (Int 0) in
     set_member ms2 (offset f) (Arr (Some (replicate n Garbage)))) = Ok ms1 /\
    frame (slots f) ms' ms1 /\ at_slot ms1 (quantifier_offset f) = Some (Int 0) /\
    at_slot ms1 (offset f) = Some (Arr (Some (replicate n Garbage))).
Proof.
  intros Hr Hne Hq Ho. rewrite (set_member_some _ _ _ _ Hq). cbn [obind].
  rewrite (set_member_some _ _ c) by (by rewrite at_slot_put_ne). eexists. split; [done|]. split.
  - rewrite repeated_slots by done. eapply frame_trans; apply frame_put; [by left|right; by left].
  - split; [rewrite at_slot_put_ne by done; by eapply at_slot_put|]. eapply at_slot_put. by rewrite at_slot_put_ne.
Qed.

(** The block of the first field with those of the others. *)
Lemma with_blocks_cons f n W ms' ms1 ms2 : is_repeated f = true -> n <> O ->
  at_slot ms' (quantifier_offset f) = Some (Int (Z.of_nat n)) -> (forall g, g ∈ W -> disjoint_fields f g) ->
  frame (slots f) ms' ms1 -> at_slot ms1 (quantifier_offset f) = Some (Int 0) ->
  at_slot ms1 (offset f) = Some (Arr (Some (replicate n Garbage))) -> with_blocks W ms1 ms2 ->
  with_blocks (f :: W) ms' ms2.
Proof.
  intros Hr Hn Hq Hdis [Hl Hk] Hq1 Ho1 (Hb1 & Hb2 & Hb3).
  assert (Hsame : forall g o, g ∈ W -> o ∈ slots g -> at_slot ms1 o = at_slot ms' o).
  { intros g o Hg Ho. apply Hk. intros Hs. by apply (Hdis g Hg o). }
  assert (Hstay : forall o, o ∈ slots f -> at_slot ms2 o = at_slot ms1 o).
  { intros o Ho. apply Hb3. intros g Hg _ _. by apply (Hdis g Hg). }
  split; [|split; [congruence|]].
  - intros g n' Hg Hrg Hq' Hn'. apply elem_of_cons in Hg as [->|Hg].
    + rewrite Hq in Hq'. injection Hq' as ->%Nat2Z.inj. rewrite !Hstay by (by apply quantifier_slot || apply offset_slot). done.
    + apply Hb1; [done..| |done]. by rewrite (Hsame g) by (done || by apply quantifier_slot).
  - intros o Ho. rewrite Hb3.
    + apply Hk, Ho; [by left|done|]. rewrite Hq. intros [= ?]. lia.
    + intros g Hg Hrg Hne. apply Ho; [by right|done|]. by rewrite <-(Hsame g) by (done || by apply quantifier_slot).
Qed.

Lemma allocate_spec W : forall ms', (forall f, f ∈ W -> f ∈ fields (desc d)) -> all_apart W = true ->
  (forall f, f ∈ W -> is_repeated f = true -> counted f ms') ->
  exists ms'', (forall bitmap i, allocate bitmap i W ms' = Ok (Some ms'')) /\ with_blocks W ms' ms''.
Proof.
  induction W as [|f W IH]; intros ms' Hin Hap Hc.
  { exists ms'. split; [done|]. split; [by intros f n ?%elem_of_nil|done]. }
  cbn [all_apart] in Hap. apply andb_true_iff in Hap as [Hfw Hap]. rewrite forallb_forall in Hfw.
  assert (Hin' : forall g, g ∈ W -> g ∈ fields (desc d)) by (intros; apply Hin; by right).
  assert (Hc' : forall g, g ∈ W -> is_repeated g = true -> counted g ms') by (intros; apply Hc; [by right|done]).
  destruct (wf_not_required desc d Hwf f) as [Hl|Hl]; [apply Hin; by left| |].
  - assert (Hr : is_repeated f = true) by (unfold is_repeated; by rewrite Hl).
    destruct (Hc f) as (n & c & Hq & Hn & Ho); [by left|done|].     destruct (decide (n = O)) as [->|En].
    { destruct (IH ms' Hin' Hap Hc') as (ms2 & E2 & Hb). exists ms2. split.
      { intros bitmap i. cbn [allocate]. rewrite Hl, (at_member_some _ _ _ _ Hq). apply E2. }
      by apply with_blocks_skip. }
    destruct (allocate_block f n c ms' Hr) as (ms1 & E1 & Hf & Hq1 & Ho1); [eapply wf_slots; [done|apply Hin; by left]|done..|].
    assert (Hdis : forall g, g ∈ W -> disjoint_fields f g).
    { intros g Hg. apply apart_repeated; [|done]. by apply Hfw, list_elem_of_In. }
    destruct (IH ms1 Hin' Hap) as (ms2 & E2 & Hb).
    { intros g Hg Hrg. destruct (Hc' g Hg Hrg) as (n' & c' & Hq' & Hn' & Ho'). exists n', c'.
      rewrite !(proj2 Hf) by (intros Hs; by eapply (Hdis g Hg _ Hs), quantifier_slot || by apply (Hdis g Hg _ Hs), offset_slot). done. }
    exists ms2. split; [|by apply (with_blocks_cons f n W ms' ms1 ms2)]. intros bitmap i. cbn [allocate].
    rewrite Hl, (at_member_some _ _ _ _ Hq). cbn [get_int obind].
    destruct (Z.eqb_spec (Z.of_nat n) 0); [lia|]. rewrite wrap32_id, Nat2Z.id, E1 by lia. apply E2.
  - assert (Hr : is_repeated f = false) by (unfold is_repeated; by rewrite Hl).
    destruct (IH ms' Hin' Hap Hc') as (ms2 & E2 & Hb). exists ms2. split.
    { intros bitmap i. cbn [allocate]. rewrite Hl. apply E2. }
    apply with_blocks_skip; [|done]. by rewrite Hr.
Qed.
End runs.

(** ** A message *)

Section message.
Context {D : Type} `{EqDecision D} (desc : D -> ProtobufCMessageDescriptor D) (d : D).
Hypothesis Hwf : forall d, wf_descriptor (desc d) = true.
Context (P : message D -> bool) (message_pack : message D -> outcome bytes).
Context (message_unpack : D -> bytes -> outcome (option (message D))) (ms : list (cell D)).
Hypothesis Hlen : List.length ms = List.length (message_init (desc d)).
Hypothesis Hty : forall f, f ∈ fields (desc d) -> typed_member in_type no_nul P f ms = true.
Hypothesis Hun : forall f, f ∈ fields (desc d) -> union_set ms (fields (desc d)) f = true.
Implicit Types (f g : ProtobufCFieldDescriptor D).

(** The fields that are written. *)
Definition written_fields : list (ProtobufCFieldDescriptor D) := List.filter (writes ms) (fields (desc d)).

Lemma in_written f : f ∈ written_fields <-> f ∈ fields (desc d) /\ writes ms f = true.
Proof. unfold written_fields. by rewrite !list_elem_of_In, filter_In. Qed.

(** A field of a union that is written is the one that its case names. *)
Lemma writes_oneof f : is_oneof f = true -> writes ms f = true ->
  at_slot ms (quantifier_offset f) = Some (Int (id f)).
Proof. unfold writes. intros ->. apply holds_has_value. Qed.

(** *** The written fields are apart *)

Lemma one_union_same f g : one_union f g = true -> writes ms f = true -> writes ms g = true -> id f = id g.
Proof.
  intros Hu Hf Hg. pose proof (one_union_slots f g Hu) as (Hog & Hq & _). unfold one_union in Hu. split_andb.
  apply writes_oneof in Hf; [|done]. apply writes_oneof in Hg; [|done]. rewrite Hq, Hf in Hg. by injection Hg.
Qed.

Lemma filter_pairs (R : ProtobufCFieldDescriptor D -> ProtobufCFieldDescriptor D -> Prop) p fs :
  (forall i j f g, (i < j)%nat -> fs !! i = Some f -> fs !! j = Some g -> p f = true -> p g = true -> R f g) ->
  ForallOrdPairs R (List.filter p fs).
Proof.
  induction fs as [|f fs IH]; intros HR; [constructor|]. cbn.
  assert (Hfs : ForallOrdPairs R (List.filter p fs)) by (apply IH; intros i j g h Hij; apply (HR (S i) (S j)); lia).
  destruct (p f) eqn:Hp; [|done]. constructor; [|done]. apply Forall_forall. intros g Hg.
  apply list_elem_of_In, filter_In in Hg as [Hg Hpg]. apply list_elem_of_In, list_elem_of_lookup in Hg as [j Hj].
  apply (HR O (S j)); (done || lia).
Qed.

Lemma written_apart : ForallOrdPairs (disjoint_fields (D := D)) written_fields.
Proof.
  apply filter_pairs. intros i j f g Hij Hf Hg Hwf' Hwg.
  destruct (proj1 (apart_spec f g) (wf_apart desc d (Hwf d) i j f g Hf Hg ltac:(lia))) as [Hu|H]; [|exact H].
  pose proof (wf_unique desc d (Hwf d) i j f g Hf Hg (one_union_same f g Hu Hwf' Hwg)). lia.
Qed.

(** *** The bytes are those of the written fields *)

Lemma pack_runs limit bs :
  (forall m bs, P m = true -> message_pack m = Ok bs -> (List.length bs < limit)%nat ->
     message_unpack (message_descriptor m) bs = Ok (Some m)) ->
  pack_fields (field_pack message_pack ms) (fields (desc d)) = Ok bs ->
  (List.length bs <= limit)%nat -> Z.of_nat (List.length bs) <= INT_MAX ->
  exists runs, bs = raws (List.concat runs) /\
    Forall2 (fun f l => fills desc d message_unpack f ms l) written_fields runs.
Proof.
  intros Hback. unfold written_fields. assert (Hin : forall f, f ∈ fields (desc d) -> f ∈ fields (desc d)) by done.
  revert Hin bs. generalize (fields (desc d)) at 1 3 4. intros fs. induction fs as [|f fs IH]; intros Hin bs.
  { intros [= <-] _ _. by exists []. }
  rewrite pack_fields_cons. destruct (field_pack message_pack ms f) as [p| |] eqn:E; try done. cbn [obind].
  destruct (pack_fields (field_pack message_pack ms) fs) as [rv| |]; try done. cbn [obind]. intros [= <-].
  rewrite length_app. intros Hl Hm. destruct (IH ltac:(intros g Hg; apply Hin; by right) rv eq_refl) as (runs & -> & Hr); [lia..|].
  assert (Hf : f ∈ fields (desc d)) by (apply Hin; by left).
  pose proof (field_case desc d (Hwf d) P message_pack message_unpack limit Hback (fields (desc d)) ms f p Hf (Hty f Hf) (Hun f Hf)) as Hcase.
  specialize (Hcase (slot_there desc Hwf d ms f _ Hlen Hf (offset_slot f)) E ltac:(lia) ltac:(lia)). cbn. destruct (writes ms f).
  - destruct Hcase as (sms & -> & Hfill). exists (sms :: runs). split; [|by constructor].
    change (List.concat (sms :: runs)) with (sms ++ List.concat runs). by rewrite raws_app.
  - subst p. by exists runs.
Qed.

(** *** What the other fields have *)

Lemma init_unset f : f ∈ fields (desc d) -> unset f (message_init (desc d)) = true.
Proof. intros Hf. apply wf_field in Hf; [|apply Hwf]. unfold field_ok in Hf. by split_andb. Qed.

Lemma unset_agree f ms1 ms2 o : unset f ms1 = true -> unset f ms2 = true -> o ∈ slots f ->
  at_slot ms1 o = at_slot ms2 o.
Proof.
  unfold slots. destruct (is_repeated f) eqn:Hr; cbn [orb]; [|destruct (is_oneof f) eqn:Ho].
  - intros [Hq Hc]%unset_repeated [Hq' Hc']%unset_repeated Hs; [|done..].
    apply list_elem_of_In in Hs as [<-|[<-|[]]]; congruence.
  - intros [Hq Hc]%unset_oneof [Hq' Hc']%unset_oneof Hs; [|done..].
    apply list_elem_of_In in Hs as [<-|[<-|[]]]; congruence.
  - intros Hc%unset_single Hc'%unset_single Hs; [|done..]. apply list_elem_of_singleton in Hs as ->. congruence.
Qed.

(** Two fields are apart unless they are members of the same union. *)
Lemma fields_apart f g : f ∈ fields (desc d) -> g ∈ fields (desc d) -> f <> g -> apart f g = true.
Proof.
  intros [i Hi]%list_elem_of_lookup [j Hj]%list_elem_of_lookup Hne. eapply (wf_apart desc d (Hwf d) i j); [done..|].
  intros ->. congruence.
Qed.

Lemma unwritten_apart f o : f ∈ fields (desc d) -> writes ms f = false -> unset f ms = true -> o ∈ slots f ->
  o ∉ foot_of slots written_fields.
Proof.
  intros Hf Hw Hu Ho (g & [Hg Hwg]%in_written & Ho')%in_foot.
  destruct (proj1 (apart_spec f g)) as [Hone|H]; [apply fields_apart; [done..|congruence]| |by apply (H o)].
  pose proof (one_union_slots f g Hone) as (Hog & Hq & _). apply writes_oneof in Hwg; [|done].
  unfold one_union in Hone. split_andb. apply unset_oneof in Hu as [Hu _]; [|by apply oneof_not_repeated|done].
  rewrite Hq, Hu in Hwg. injection Hwg as E. pose proof (wf_id desc d (Hwf d) g Hg). lia.
Qed.

(** A field without contents is written by no field, and its members have their initial
    values; the members of any other field are those of a field that is written. *)
Lemma slot_cases o : (1 <= o <= List.length ms)%nat ->
  (exists f, f ∈ written_fields /\ o ∈ slots f) \/
  (exists f, f ∈ fields (desc d) /\ writes ms f = false /\ unset f ms = true /\ o ∈ slots f).
Proof.
  rewrite Hlen. intros Ho. destruct (wf_cover desc d (Hwf d) o Ho) as (f & Hf & Hs).
  destruct (writes ms f) eqn:Hw; [left; exists f; by rewrite in_written|].
  destruct (unset f ms) eqn:Hu; [right; by exists f|left].
  destruct (is_oneof f) eqn:Hof; [|unfold writes in Hw; rewrite Hof, Hu in Hw; done].
  pose proof (oneof_not_repeated f Hof) as Hr.
  destruct (union_cases ms _ f Hr Hof (Hun f Hf)) as [|(g & Hg & Hone & Hq)]; [congruence|].
  pose proof (one_union_slots f g Hone) as (Hog & Eq & Eo). exists g. rewrite in_written. split; [split; [done|]|].
  - unfold writes. rewrite Hog, Eq. by apply holds_has_value.
  - unfold slots in *. rewrite Hof, orb_true_r in Hs. by rewrite Hog, orb_true_r, Eq, Eo.
Qed.

Lemma unwritten_repeated f : f ∈ fields (desc d) -> is_repeated f = true -> writes ms f = false -> unset f ms = true.
Proof.
  intros Hf Hr. unfold writes. destruct (is_oneof f) eqn:Ho; [by rewrite (oneof_not_repeated f Ho) in Hr|].
  by intros ->%negb_false_iff.
Qed.

(** *** The stages *)

Section stages.
Context (bs : bytes).
Hypothesis Hpack : pack_fields (field_pack message_pack ms) (fields (desc d)) = Ok bs.
Hypothesis Hbound : Z.of_nat (List.length bs) <= max_members.

Lemma pack_fields_part f fs rv : f ∈ fs -> pack_fields (field_pack message_pack ms) fs = Ok rv ->
  exists p, field_pack message_pack ms f = Ok p /\ (List.length p <= List.length rv)%nat.
Proof.
  revert rv. induction fs as [|g fs IH]; intros rv Hf; [by apply elem_of_nil in Hf|]. rewrite pack_fields_cons.
  destruct (field_pack message_pack ms g) as [p| |] eqn:E; try done. cbn [obind].
  destruct (pack_fields (field_pack message_pack ms) fs) as [rv'| |]; try done. cbn [obind]. intros [= <-].
  rewrite length_app. apply elem_of_cons in Hf as [->|Hf]; [exists p; split; [done|lia]|].
  destruct (IH rv' Hf eq_refl) as (q & ? & ?). exists q. split; [done|lia].
Qed.

(** The array of a repeated field that is written. *)
Lemma written_array f : f ∈ written_fields -> is_repeated f = true -> exists l : list (cell D), l <> [] /\
  at_slot ms (quantifier_offset f) = Some (Int (Z.of_nat (List.length l))) /\
  (List.length l <= List.length bs)%nat.
Proof.
  intros [Hf Hw]%in_written Hr. destruct (typed_repeated _ _ _ f ms Hr (Hty f Hf)) as [Hu|(l & Hne & Hq & Hc & _)].
  - unfold writes in Hw. rewrite Hu in Hw. destruct (is_oneof f) eqn:Ho; [|done]. by rewrite (oneof_not_repeated f Ho) in Hr.
  - exists l. split; [done|]. split; [done|]. destruct (pack_fields_part f _ _ Hf Hpack) as (p & Hp & Hl).
    rewrite (proj1 (repeated_eq _ (fun _ => Undef) f ms _ _ Hr Hq Hc)) in Hp. apply repeated_count in Hp. lia.
Qed.

(** The counts. *)
Definition counts_ok (ms1 : list (cell D)) : Prop :=
  (forall f, f ∈ written_fields -> is_repeated f = true -> at_slot ms1 (quantifier_offset f) = at_slot ms (quantifier_offset f)) /\
  frame (foot_of count_foot written_fields) (message_init (desc d)) ms1.

Lemma counts_zero f ms1 : counts_ok ms1 -> f ∈ fields (desc d) -> is_repeated f = true -> writes ms f = false ->
  at_slot ms1 (quantifier_offset f) = Some (Int 0).
Proof.
  intros [_ Hfr] Hf Hr Hw. rewrite (proj2 Hfr).
  - by apply unset_repeated; [|apply init_unset].
  - apply foot_smaller. apply (unwritten_apart f); [done..|by apply unwritten_repeated|by apply quantifier_slot].
Qed.

Lemma counts_counted f ms1 : counts_ok ms1 -> f ∈ fields (desc d) -> is_repeated f = true -> counted f ms1.
Proof.
  intros Hc Hf Hr. pose proof Hc as [Hq Hfr].
  assert (Ho : exists c, at_slot ms1 (offset f) = Some c).
  { apply (slot_there desc Hwf d ms1 f); [by rewrite (proj1 Hfr)|done|apply offset_slot]. }
  destruct Ho as (c & Ho). destruct (writes ms f) eqn:Hw.
  - assert (Hin : f ∈ written_fields) by (by apply in_written). destruct (written_array f Hin Hr) as (l & _ & El & Hl).
    exists (List.length l), c. unfold max_members in Hbound. split; [by rewrite (Hq f Hin Hr)|]. split; [lia|done].
  - exists O, c. split; [by apply counts_zero|]. by split.
Qed.

Lemma blocks_allocated f ms1 ms2 : counts_ok ms1 -> with_blocks (fields (desc d)) ms1 ms2 -> f ∈ written_fields ->
  allocated f ms ms2.
Proof.
  intros Hc (Hb1 & _ & Hb3) Hin. pose proof Hin as [Hf Hw]%in_written. pose proof Hc as [Hq Hfr]. unfold allocated.
  destruct (is_repeated f) eqn:Hr.
  - destruct (written_array f Hin Hr) as (l & Hne & El & _). exists (List.length l). split; [done|].
    apply Hb1; [done..|by rewrite (Hq f Hin Hr)|]. by destruct l.
  - rewrite <-(init_unset f Hf). apply unset_slots. intros o Ho.
    assert (Hrep : forall g, g ∈ fields (desc d) -> is_repeated g = true -> o ∉ slots g).
    { intros g Hg Hrg Ho'. apply (apart_repeated g f) in Ho'; [by apply Ho'| |done]. apply fields_apart; [done..|congruence]. }
    rewrite Hb3 by (intros g Hg Hrg _; by apply Hrep). apply (proj2 Hfr).
    intros (g & [Hg _]%in_written & Ho')%in_foot. pose proof (count_slots g o Ho'). unfold count_foot in Ho'.
    destruct (is_repeated g) eqn:Hrg; [by apply (Hrep g)|by apply elem_of_nil in Ho'].
Qed.

(** All members are as they were. *)
Lemma members_back ms1 ms2 ms3 : counts_ok ms1 -> with_blocks (fields (desc d)) ms1 ms2 ->
  (forall f o, f ∈ written_fields -> o ∈ slots f -> at_slot ms3 o = at_slot ms o) ->
  frame (foot_of slots written_fields) ms2 ms3 -> ms3 = ms.
Proof.
  intros Hc (_ & Hb2 & Hb3) Hs Hf. pose proof Hc as [_ Hfr].
  assert (Hl : List.length ms3 = List.length ms) by (by rewrite (proj1 Hf), Hb2, (proj1 Hfr), Hlen).
  apply at_slot_eq; [done|]. intros o Ho. rewrite Hl in Ho. destruct (slot_cases o Ho) as [(f & Hin & Hso)|(f & Hin & Hw & Hu & Hso)].
  - by apply (Hs f).
  - pose proof (unwritten_apart f o Hin Hw Hu Hso) as Hout. rewrite (proj2 Hf) by done.
    rewrite Hb3; [rewrite (proj2 Hfr) by (by apply foot_smaller)|].
    + by apply (unset_agree f); [apply init_unset|..].
    + intros g Hg Hr Hq Ho'. destruct (writes ms g) eqn:Hwg; [|by apply Hq, counts_zero].
      apply Hout, in_foot. exists g. by rewrite in_written.
Qed.
End stages.

(** The stages, one after the other. *)
Lemma stages limit bs :
  (forall m bs, P m = true -> message_pack m = Ok bs -> (List.length bs < limit)%nat ->
     message_unpack (message_descriptor m) bs = Ok (Some m)) ->
  pack_fields (field_pack message_pack ms) (fields (desc d)) = Ok bs ->
  (List.length bs <= limit)%nat -> Z.of_nat (List.length bs) <= max_members ->
  exists l ms1 ms2, bs = raws l /\ Forall (written desc d) l /\
    count_members l (message_init (desc d)) = Ok (Some ms1) /\
    (forall bitmap, allocate bitmap 0 (fields (desc d)) ms1 = Ok (Some ms2)) /\
    parse_members desc message_unpack d l (mkFilling ms2 [] 0) = Ok (Some (mkFilling ms [] 0)).
Proof.
  intros Hback Hpack Hl Hb. unfold max_members in Hb.
  destruct (pack_runs limit bs Hback Hpack Hl) as (runs & -> & Hr); [unfold INT_MAX; lia|].
  destruct (count_run desc d message_unpack ms written_fields runs written_apart Hr (message_init (desc d)))
    as (ms1 & E1 & Hc).
  { intros f [Hf _]%in_written Hrep. by apply unset_repeated; [|apply init_unset]. }
  destruct (allocate_spec desc d (Hwf d) (fields (desc d)) ms1) as (ms2 & E2 & Hbl); [done| | |].
  { unfold wf_descriptor in Hwf. pose proof (Hwf d). by split_andb. }
  { intros f Hf Hrep. by eapply counts_counted. }
  destruct (parse_run desc d message_unpack ms written_fields runs written_apart Hr ms2 [] 0) as (ms3 & E3 & Hs & Hf).
  { intros f Hf. by eapply blocks_allocated. }
  rewrite (members_back ms1 ms2 ms3 Hc Hbl Hs Hf) in E3.
  exists (List.concat runs), ms1, ms2. split; [done|]. split.
  { clear -Hr. induction Hr as [|f l W runs (Hw & _) _ IH]; [constructor|]. by apply Forall_app. }
  by split.
Qed.
End message.

(** ** The round trip *)

Section roundtrip.
Context {D : Type} `{EqDecision D} (desc : D -> ProtobufCMessageDescriptor D).
Hypothesis Hwf : forall d, wf_descriptor (desc d) = true.

(** With fuel for its bytes a message is read back. *)
Lemma unpack_packed fuel : forall m bs, fits desc m = true -> protobuf_c_message_pack desc m = Ok bs ->
  (List.length bs < fuel)%nat -> Z.of_nat (List.length bs) <= max_members ->
  message_unpack desc fuel (message_descriptor m) bs = Ok (Some m).
Proof.
  induction fuel as [|fuel IH]; intros [d ms us] bs Hfit Hp Hl Hb; [lia|].
  apply well_typed_inv in Hfit as (Hlen & -> & Hty & Hun). rewrite message_pack_eq in Hp.
  destruct (pack_fields _ _) as [rv| |] eqn:E; try done. cbn [obind] in Hp. rewrite app_nil_r in Hp. injection Hp as ->.
  destruct (stages desc d Hwf (well_typed desc in_type no_nul) (protobuf_c_message_pack desc) (message_unpack desc fuel) ms
    Hlen Hty Hun (List.length bs) bs) as (l & ms1 & ms2 & -> & Hw & Hc & Ha & Hparse); [|done|done|done|].
  { intros m bs' Hm Hpm Hlt. apply (IH m bs' Hm Hpm); lia. }
  cbn [message_unpack message_descriptor]. pose proof (raws_length desc d l Hw (Hwf d)) as Hn.
  destruct (scan_written desc d (Hwf d) l (List.length (raws l))
    (mkScanning (message_init (desc d)) (match fields (desc d) with [] => None | _ => Some O end) [] O 0 0 []) ms1)
    as (s & -> & Hrv & Hun' & Hs); [done| | | |done|done|].
  - intros i. cbn. destruct (fields (desc d)); [done|]. intros [= <-]. cbn. lia.
  - cbn. unfold slabs_ok. by cbn.
  - unfold used. cbn. lia.
  - cbn [obind]. rewrite Hrv, Ha, Hun', Hs. cbn [obind n_unknown sms]. rewrite app_nil_r, rev_involutive, Hparse. done.
Qed.

Lemma pack_unpack m bs : fits desc m = true -> protobuf_c_message_pack desc m = Ok bs ->
  Z.of_nat (List.length bs) <= max_members ->
  protobuf_c_message_unpack desc (message_descriptor m) bs = Ok (Some m).
Proof. intros Hf Hp Hb. apply unpack_packed; (done || lia). Qed.
End roundtrip.
