(* ===== verification/ProtobufCTheorems.v ===== *)
(** * The protocol-buffer library: any bytes, and the theorems

    First, unpacking bytes that may be anything: the lengths and counts of the scan, the
    shape of a struct that the code relies on, merging, and the members, one after the
    other.  Then the theorems over the tables of the messages: what is packed is unpacked
    again, any bytes are unpacked or refused, the size that is computed is the number of
    bytes written, and fields are found by number and name. *)
From S2P Require Import Prelude Keywords ProtobufC ProtobufCDesc ProtobufCPack.
From S2P Require Import ProtobufCUnpack ProtobufTables.

Open Scope Z_scope.
Open Scope list_scope.

(** ** Any bytes *)

Lemma at_total data i : (i < List.length data)%nat -> exists b, at_ data i = Ok b /\ 0 <= b < 256.
Proof.
  intros Hi. unfold at_. destruct (lookup_lt_is_Some_2 data i Hi) as [c ->]. eexists. split; [done|]. apply ub_range.
Qed.

Lemma wrap32_bounds z : 0 <= wrap32 z < 2 ^ 32.
Proof. apply Z.mod_pos_bound. lia. Qed.

Lemma tag_loop_total rounds : forall data rv tag shift, (rv + rounds <= List.length data)%nat ->
  exists r, tag_loop rounds data rv tag shift = Ok r /\
    forall rv' tag', r = Some (rv', tag') -> (rv < rv' <= List.length data)%nat /\ 0 <= tag' < 2 ^ 32.
Proof.
  induction rounds as [|rounds IH]; intros data rv tag shift Hr; [by exists None|].
  destruct (at_total data rv) as (b & E & _); [lia|]. cbn [tag_loop]. rewrite E. cbn [obind].
  destruct (Z.testbit b 7).
  - edestruct IH as (r & -> & H); [|exists r; split; [done|]]; [lia|]. intros rv' tag' ->.
    destruct (H _ _ eq_refl). split; [lia|done].
  - eexists. split; [done|]. intros rv' tag' [= <- <-]. split; [lia|apply wrap32_bounds].
Qed.

Lemma parse_tag_total data : data <> [] ->
  exists r, parse_tag_and_wiretype data = Ok r /\
    forall used tag wt, r = Some (used, tag, wt) -> (1 <= used <= List.length data)%nat /\ 0 <= tag < 2 ^ 32.
Proof.
  intros Hd. assert (0 < List.length data)%nat by (destruct data; cbn; [done|lia]).
  destruct (at_total data 0) as (b & E & Hb); [done|]. unfold parse_tag_and_wiretype. rewrite E. cbn [obind].
  destruct (_ =? _); [by exists None|]. destruct (negb _).
  - eexists. split; [done|]. intros ? ? ? [= <- <- <-]. split; [lia|].
    change 127 with (Z.ones 7). rewrite Z.shiftr_div_pow2, Z.land_ones by lia. pose proof (Z.mod_pos_bound b (2 ^ 7)). split.
    + apply Z.div_pos; lia.
    + apply Z.div_lt_upper_bound; lia.
  - destruct (tag_loop_total (Nat.min (List.length data) 5 - 1) data 1 (Z.shiftr (Z.land b 127) 3) 4) as (r & -> & Ht); [lia|].
    cbn [obind]. destruct r as [[rv tag]|]; [|by exists None]. eexists. split; [done|].
    intros ? ? ? [= <- <- <-]. destruct (Ht _ _ eq_refl). split; [lia|done].
Qed.

Lemma varint_loop_total rounds : forall data i, (i + rounds <= List.length data)%nat ->
  exists j, varint_loop rounds data i = Ok j /\ (i <= j <= i + rounds)%nat.
Proof.
  induction rounds as [|rounds IH]; intros data i Hi; [exists i; split; [done|lia]|].
  destruct (at_total data i) as (b & E & _); [lia|]. cbn [varint_loop]. rewrite E. cbn [obind].
  destruct (negb _); [exists i; split; [done|lia]|]. destruct (IH data (S i)) as (j & -> & Hj); [lia|].
  exists j. split; [done|lia].
Qed.

Lemma scan_varint_total data : exists n, scan_varint data = Ok n /\ (n <= List.length data)%nat.
Proof.
  unfold scan_varint. destruct (varint_loop_total (Nat.min (List.length data) 10) data 0) as (j & -> & Hj); [lia|].
  cbn [obind]. eexists. split; [done|]. case_match eqn:E; [lia|]. apply Nat.eqb_neq in E. lia.
Qed.

Lemma prefix_loop_total rounds : forall data i val shift, (i + rounds <= List.length data)%nat -> 0 <= val ->
  0 <= shift -> exists j val', prefix_loop rounds data i val shift = Ok (j, val') /\ (i <= j <= i + rounds)%nat /\ 0 <= val'.
Proof.
  induction rounds as [|rounds IH]; intros data i val shift Hi Hv Hs; [exists i, val; split; [done|lia]|].
  destruct (at_total data i) as (b & E & Hb); [lia|]. cbn [prefix_loop]. rewrite E. cbn [obind].
  assert (0 <= Z.lor val (Z.shiftl (Z.land b 127) shift)).
  { apply Z.lor_nonneg. split; [done|]. apply Z.shiftl_nonneg, Z.land_nonneg. lia. }
  destruct (negb _); [do 2 eexists; split; [done|lia]|].
  edestruct IH as (j & val' & -> & Hj); [| | |exists j, val'; split; [done|]]; lia.
Qed.

Lemma scan_prefixed_total data : exists r, scan_length_prefixed_data data = Ok r /\
  forall len pref, r = Some (len, pref) -> (pref <= len <= List.length data)%nat.
Proof.
  unfold scan_length_prefixed_data.
  destruct (prefix_loop_total (Nat.min (List.length data) 5) data 0 0 0) as (j & val & -> & Hj & Hv); [lia..|].
  cbn [obind]. repeat case_match; eexists; (split; [done|]); try done. intros ? ? [= <- <-].
  repeat match goal with H : (_ <? _) = false |- _ => apply Z.ltb_ge in H end. lia.
Qed.

(** The lengths of a member that the scan found. *)
Definition sm_sized {D} (sm : ScannedMember (D := D)) : Prop :=
  (length_prefix_len sm <= sm_len sm)%nat /\
  (wire_type sm = PROTOBUF_C_WIRE_TYPE_VARINT -> (1 <= sm_len sm)%nat) /\
  (wire_type sm = PROTOBUF_C_WIRE_TYPE_64BIT -> sm_len sm = 8%nat) /\
  (wire_type sm = PROTOBUF_C_WIRE_TYPE_32BIT -> sm_len sm = 4%nat).

Lemma scan_member_total {D} wt data : exists r, scan_member wt data = Ok r /\
  forall len pref, r = Some (len, pref) -> (len <= List.length data)%nat /\
    forall tag (f : option (ProtobufCFieldDescriptor D)), sm_sized (mkScanned tag wt pref f (take len data)).
Proof.
  unfold scan_member, sm_sized, sm_len. cbn [length_prefix_len wire_type ProtobufC.data].
  destruct (Z.eqb_spec wt PROTOBUF_C_WIRE_TYPE_VARINT) as [->|].
  { destruct (varint_loop_total (Nat.min (List.length data) 10) data 0) as (j & -> & Hj); [lia|]. cbn [obind].
    eexists. split; [done|]. intros len pref. case_match eqn:E; [done|]. apply Nat.eqb_neq in E. intros [= <- <-].
    split; [lia|]. intros _ _. rewrite length_take. split_and!; [lia|lia|done..]. }
  destruct (Z.eqb_spec wt PROTOBUF_C_WIRE_TYPE_64BIT) as [->|].
  { eexists. split; [done|]. intros len pref. case_match eqn:E; [done|]. apply Nat.ltb_ge in E. intros [= <- <-].
    split; [lia|]. intros _ _. rewrite length_take. split_and!; [lia|done|lia|done]. }
  destruct (Z.eqb_spec wt PROTOBUF_C_WIRE_TYPE_LENGTH_PREFIXED) as [->|].
  { destruct (scan_prefixed_total data) as (r & -> & H). exists r. split; [done|]. intros len pref ->.
    specialize (H _ _ eq_refl). split; [lia|]. intros _ _. rewrite length_take. split_and!; [lia|done..]. }
  destruct (Z.eqb_spec wt PROTOBUF_C_WIRE_TYPE_32BIT) as [->|]; [|by exists None].
  eexists. split; [done|]. intros len pref. case_match eqn:E; [done|]. apply Nat.ltb_ge in E. intros [= <- <-].
  split; [lia|]. intros _ _. rewrite length_take. split_and!; [lia|done|done|lia].
Qed.

(** *** Numbers *)

Ltac read_byte i := match goal with |- context [at_ ?data i] =>
  let b := fresh "b" in let E := fresh "E" in
  destruct (at_total data i) as (b & E & _); [lia|]; rewrite E; cbn [obind] end.

Lemma parse_uint32_total len data : (1 <= len <= List.length data)%nat -> exists z, parse_uint32 len data = Ok z.
Proof.
  intros Hl. unfold parse_uint32. read_byte 0%nat. destruct (Nat.leb_spec len 1); [eauto|].
  read_byte 1%nat. destruct (Nat.leb_spec len 2); [eauto|]. read_byte 2%nat. destruct (Nat.leb_spec len 3); [eauto|].
  read_byte 3%nat. destruct (Nat.leb_spec len 4); [eauto|]. read_byte 4%nat. eauto.
Qed.

Lemma uint64_loop_total rounds : forall data i z shift, (i + rounds <= List.length data)%nat ->
  exists z', uint64_loop rounds data i z shift = Ok z'.
Proof.
  induction rounds as [|rounds IH]; intros data i z shift Hi; [eauto|]. cbn [uint64_loop]. read_byte i. apply IH. lia.
Qed.

Lemma parse_uint64_total len data : (1 <= len <= List.length data)%nat -> exists z, parse_uint64 len data = Ok z.
Proof.
  intros Hl. unfold parse_uint64. destruct (Nat.ltb_spec len 5); [by apply parse_uint32_total|].
  read_byte 0%nat. read_byte 1%nat. read_byte 2%nat. read_byte 3%nat. apply uint64_loop_total. lia.
Qed.

Lemma little_endian_total n : forall data, (n <= List.length data)%nat -> exists z, from_little_endian n data = Ok z.
Proof.
  induction n as [|n IH]; intros data Hn; [eauto|]. cbn [from_little_endian]. read_byte 0%nat.
  destruct (IH (drop 1 data)) as [z ->]; [rewrite length_drop; lia|]. cbn. eauto.
Qed.

(** *** The elements of a packed array *)

Lemma numbers_drop rounds : forall data i j, varint_loop rounds data i = Ok j -> (j < i + rounds)%nat ->
  max_b128_numbers (drop i data) = 1 + max_b128_numbers (drop (S j) data).
Proof.
  induction rounds as [|rounds IH]; intros data i j; cbn [varint_loop]; [intros [= ->]; lia|].
  unfold at_. destruct (data !! i) as [c|] eqn:E; [|done]. cbn [obind]. intros H Hj.
  rewrite (drop_S _ _ _ E). cbn [max_b128_numbers].
  destruct (Z.testbit (ub c) 7); cbn [negb] in H; [|by injection H as <-]. rewrite (IH data (S i) j) by (done || lia). lia.
Qed.

Lemma numbers_of_varint data k : scan_varint data = Ok (S k) -> (S k <= List.length data)%nat /\
  max_b128_numbers data = 1 + max_b128_numbers (drop (S k) data).
Proof.
  intros H. destruct (scan_varint_total data) as (n & E & Hn). rewrite H in E. injection E as <-. split; [done|].
  unfold scan_varint in H. destruct (varint_loop _ data 0) as [j| |] eqn:E; try done. cbn [obind] in H.
  case_match eqn:Ej; [done|]. injection H as <-. apply Nat.eqb_neq in Ej.
  destruct (varint_loop_total (Nat.min (List.length data) 10) data 0) as (j' & E' & Hj'); [lia|].
  rewrite E in E'. injection E' as <-. apply (numbers_drop _ data 0 j) in E; [exact E|lia].
Qed.

Lemma numbers_bounds data : 0 <= max_b128_numbers data <= Z.of_nat (List.length data).
Proof. induction data as [|b data IH]; cbn [max_b128_numbers List.length]; [lia|]. destruct (Z.testbit _ _); lia. Qed.

Section elements.
Context {D : Type} (T : cell D -> Prop).

Lemma set_element_total (l : list (cell D)) i c : (i < List.length l)%nat -> Forall T (take i l) -> T c ->
  exists l', set_element l i c = Ok l' /\ List.length l' = List.length l /\ Forall T (take (S i) l').
Proof.
  intros Hi Hl Hc. unfold set_element. destruct (Nat.ltb_spec i (List.length l)); [|lia]. eexists. split; [done|].
  split; [apply length_insert|]. rewrite (take_S_r _ _ c) by (apply list_lookup_insert_eq; lia).
  rewrite take_insert_ge by lia. apply Forall_app_2; [done|by apply Forall_singleton].
Qed.

Hypothesis Tint : forall z, T (Int z).

Lemma packed_loop_total parse : (forall s at', (1 <= s <= List.length at')%nat -> exists z, parse s at' = Ok z) ->
  forall fuel at' l count, (List.length at' < fuel)%nat ->
  Z.of_nat count + max_b128_numbers at' <= Z.of_nat (List.length l) -> Forall T (take count l) ->
  exists r, packed_loop fuel parse at' l count = Ok r /\
    forall n l', r = Some (n, l') -> List.length l' = List.length l /\ Forall T (take n l') /\
      Z.of_nat n <= Z.of_nat count + max_b128_numbers at'.
Proof.
  intros Hp. induction fuel as [|fuel IH]; intros at' l count Hf Hc Hl; [lia|]. destruct at' as [|b bs] eqn:Eat.
  { eexists. split; [done|]. intros ? ? [= <- <-]. cbn. split; [done|]. split; [done|lia]. }
  cbn [packed_loop]. rewrite <-Eat in *. clear Eat. destruct (scan_varint_total at') as (s & E & Hs). rewrite E. cbn [obind].
  destruct s as [|k]; [by exists None|]. destruct (numbers_of_varint _ _ E) as [Hk En].
  pose proof (numbers_bounds (drop (S k) at')).
  destruct (Hp (S k) at') as [z ->]; [lia|]. cbn [obind].
  destruct (set_element_total l count (Int z)) as (l' & -> & Hlen & Hl'); [lia|done..|]. cbn [obind].
  destruct (IH (drop (S k) at') l' (S count)) as (r & -> & Hr); [rewrite length_drop; lia|lia|done|].
  eexists. split; [done|]. intros n l'' ->. destruct (Hr _ _ eq_refl) as (? & ? & ?). split; [lia|]. split; [done|]. lia.
Qed.

Lemma copy_loop_total siz parse : (forall at', (siz <= List.length at')%nat -> exists z, parse at' = Ok z) ->
  forall count at' l i, (count * siz <= List.length at')%nat -> (i + count <= List.length l)%nat -> Forall T (take i l) ->
  exists l', copy_loop count siz parse at' l i = Ok l' /\ List.length l' = List.length l /\ Forall T (take (i + count) l').
Proof.
  intros Hp. induction count as [|count IH]; intros at' l i Ha Hi Hl.
  { exists l. split; [done|]. split; [done|]. by rewrite Nat.add_0_r. }
  cbn [copy_loop]. destruct (Hp at') as [z ->]; [lia|]. cbn [obind].
  destruct (set_element_total l i (Int z)) as (l' & -> & Hlen & Hl'); [lia|done..|]. cbn [obind].
  destruct (IH (drop siz at') l' (S i)) as (l'' & -> & Hlen' & Hl''); [rewrite length_drop; lia|lia|done|].
  exists l''. split; [done|]. split; [lia|]. by replace (i + S count)%nat with (S i + count)%nat by lia.
Qed.
End elements.

(** *** The shape of a struct

    What the code relies on when it reads a struct: every member holds what its field
    says, or nothing; an array has the elements that are counted; a union has the member
    of its case. *)

Section shape.
Context {D : Type} `{EqDecision D}.
Implicit Types (f g : ProtobufCFieldDescriptor D) (ms : list (cell D)).

Section of_message.
Variable P : message D -> bool.

Definition is_element f : cell D -> bool := typed_element (fun _ _ => true) (fun _ => true) P f.
Definition is_member f (c : cell D) : bool := is_zeroed c || is_init_cell (type f) c || is_element f c.

(** The first [n] elements. *)
Definition all_first (T : cell D -> bool) : nat -> list (cell D) -> bool :=
  fix go n l {struct l} := match l, n with c :: l, S n => T c && go n l | _, _ => true end.

Definition is_array f (n : Z) (p : option (list (cell D))) : bool :=
  match p with
  | Some l => (0 <=? n) && (n <=? Z.of_nat (List.length l)) && all_first (is_element f) (Z.to_nat n) l
  | None => n =? 0
  end.

Definition is_union_of (fs : list (ProtobufCFieldDescriptor D)) f (z : Z) (c : cell D) : bool :=
  (z =? 0) && is_zeroed c || existsb (fun g => one_union f g && (id g =? z) && is_member g c) fs.

(** The contents of two members together. *)
Definition hold_at (p : Z -> cell D -> bool) ms (q o : nat) : bool :=
  match at_member (fun c => match c with Int z => Ok z | _ => Undef end) ms q with Ok z => holds_at (p z) ms o | _ => false end.

Definition shaped_member fs f ms : bool :=
  if is_repeated f then
    hold_at (fun n c => match c with Arr p => is_array f n p | _ => false end) ms (quantifier_offset f) (offset f)
  else if is_oneof f then hold_at (is_union_of fs f) ms (quantifier_offset f) (offset f)
  else holds_at (is_member f) ms (offset f).
End of_message.

Context (desc : D -> ProtobufCMessageDescriptor D).

Fixpoint shaped (m : message D) : bool :=
  let 'Message d ms _ := m in
  forallb (fun f => shaped_member shaped (fields (desc d)) f ms) (fields (desc d)).
End shape.

Lemma all_first_spec {D} (T : cell D -> bool) n l : all_first T n l = true <-> Forall (fun c => T c = true) (take n l).
Proof.
  revert n. induction l as [|c l IH]; intros [|n]; cbn; try (split; [constructor|done]).
  rewrite andb_true_iff, Forall_cons, IH. done.
Qed.

Definition elements {D} (p : option (list (cell D))) : list (cell D) := match p with Some l => l | None => [] end.

Section room.
Context {D : Type} `{EqDecision D} (desc : D -> ProtobufCMessageDescriptor D).
Hypothesis Hwf : forall d, wf_descriptor (desc d) = true.
Implicit Types (f g : ProtobufCFieldDescriptor D) (ms : list (cell D)).

(** The same with room for [cap] more elements behind an array. *)
Definition member_with_room (d : D) (cap : Z) f ms : Prop :=
  if is_repeated f then
    exists n p, at_slot ms (quantifier_offset f) = Some (Int n) /\ at_slot ms (offset f) = Some (Arr p) /\
      0 <= n /\ n + cap <= Z.of_nat (List.length (elements p)) /\
      Forall (fun c => is_element (shaped desc) f c = true) (take (Z.to_nat n) (elements p))
  else if is_oneof f then
    exists z c, at_slot ms (quantifier_offset f) = Some (Int z) /\ at_slot ms (offset f) = Some c /\
      ((z = 0 /\ c = Zeroed) \/
       exists g, g ∈ fields (desc d) /\ one_union f g = true /\ id g = z /\ is_member (shaped desc) g c = true)
  else exists c, at_slot ms (offset f) = Some c /\ is_member (shaped desc) f c = true.

Lemma hold_at_spec p ms q o : hold_at p ms q o = true <->
  exists z c, at_slot ms q = Some (Int z) /\ at_slot ms o = Some c /\ p z c = true.
Proof.
  unfold hold_at. rewrite at_member_eq. split.
  - destruct (at_slot ms q) as [[]|]; try done. intros (c & Ho & Hp)%holds_at_spec. eauto.
  - intros (z & c & -> & Ho & Hp). apply holds_at_spec. eauto.
Qed.

Definition struct_with_room (d : D) (cap : ProtobufCFieldDescriptor D -> Z) ms : Prop :=
  forall f, f ∈ fields (desc d) -> member_with_room d (cap f) f ms.

Lemma is_array_spec f n (p : option (list (cell D))) : is_array (shaped desc) f n p = true <->
  0 <= n /\ n <= Z.of_nat (List.length (elements p)) /\
  Forall (fun c => is_element (shaped desc) f c = true) (take (Z.to_nat n) (elements p)).
Proof.
  unfold is_array. destruct p as [l|]; cbn [elements List.length].
  - rewrite !andb_true_iff, all_first_spec, !Z.leb_le. tauto.
  - rewrite Z.eqb_eq, take_nil. split; [intros ->; split_and!; try done; constructor|lia].
Qed.

Lemma is_union_of_spec fs f z c : is_union_of (shaped desc) fs f z c = true <->
  (z = 0 /\ c = Zeroed) \/
  exists g, g ∈ fs /\ one_union f g = true /\ id g = z /\ is_member (shaped desc) g c = true.
Proof.
  unfold is_union_of. rewrite orb_true_iff, andb_true_iff, existsb_exists, Z.eqb_eq.
  assert (is_zeroed c = true <-> c = Zeroed) as -> by (by destruct c). apply or_iff_compat_l.
  split; intros (g & Hg & H); exists g; rewrite !andb_true_iff, Z.eqb_eq, <-list_elem_of_In in *; tauto.
Qed.

Lemma shaped_member_spec d f ms : shaped_member (shaped desc) (fields (desc d)) f ms = true <-> member_with_room d 0 f ms.
Proof.
  unfold shaped_member, member_with_room. destruct (is_repeated f); [|destruct (is_oneof f)].
  - rewrite hold_at_spec. setoid_rewrite Z.add_0_r. split.
    + intros (n & c & Hq & Ho & Hc). destruct c; try done. apply is_array_spec in Hc. eauto 10.
    + intros (n & p & Hq & Ho & Hp). exists n, (Arr p). by rewrite is_array_spec.
  - rewrite hold_at_spec. by setoid_rewrite is_union_of_spec.
  - apply holds_at_spec.
Qed.

Lemma shaped_spec d ms us : shaped desc (Message d ms us) = true <-> struct_with_room d (fun _ => 0) ms.
Proof.
  cbn. rewrite forallb_forall. unfold struct_with_room. setoid_rewrite <-list_elem_of_In. setoid_rewrite shaped_member_spec. done.
Qed.

(** A change to the members of a field leaves the others as they are. *)
Lemma fields_unique d f g : f ∈ fields (desc d) -> g ∈ fields (desc d) -> id f = id g -> f = g.
Proof.
  intros [i Hi]%list_elem_of_lookup [j Hj]%list_elem_of_lookup E.
  pose proof (wf_unique desc d (Hwf d) i j f g Hi Hj E) as <-. congruence.
Qed.

Lemma fields_apart' d f g : f ∈ fields (desc d) -> g ∈ fields (desc d) -> f <> g -> apart f g = true.
Proof.
  intros [i Hi]%list_elem_of_lookup [j Hj]%list_elem_of_lookup Hne. eapply (wf_apart desc d (Hwf d) i j); [done..|].
  intros ->. congruence.
Qed.

Lemma member_with_room_slots d cap f ms ms' : (forall o, o ∈ slots f -> at_slot ms' o = at_slot ms o) ->
  member_with_room d cap f ms -> member_with_room d cap f ms'.
Proof.
  unfold member_with_room, slots. destruct (is_repeated f); [|destruct (is_oneof f)]; cbn [orb]; intros H;
    rewrite ?(H (quantifier_offset f)), (H (offset f)) by (repeat first [by left | right]); done.
Qed.

Lemma one_union_trans f g h : one_union f g = true -> one_union f h = true -> one_union g h = true.
Proof.
  unfold one_union. intros H1 H2. split_andb. rewrite !Nat.eqb_eq in *. rewrite !andb_true_iff, !Nat.eqb_eq. split_and!; congruence.
Qed.

Lemma struct_update d cap cap' f ms ms' : f ∈ fields (desc d) -> struct_with_room d cap ms ->
  (forall g, g ∈ fields (desc d) -> id g <> id f -> cap' g = cap g) -> frame (slots f) ms ms' -> member_with_room d (cap' f) f ms' ->
  struct_with_room d cap' ms'.
Proof.
  intros Hf Hs Hcap Hfr Hm g Hg. destruct (decide (id g = id f)) as [E|Hne].
  { by rewrite (fields_unique d g f Hg Hf E). }
  rewrite Hcap by done. specialize (Hs g Hg). pose proof (fields_apart' d f g Hf Hg ltac:(congruence)) as Ha.
  apply apart_spec in Ha as [Hu|Hd].
  - pose proof (one_union_slots f g Hu) as (Ho & Eq & Eo). unfold member_with_room in *.
    assert (is_oneof f = true) by (unfold one_union in Hu; by split_andb).
    rewrite (oneof_not_repeated f), (oneof_not_repeated g) in * by done. rewrite Ho, Eq, Eo.
    destruct (is_oneof f); [|done]. destruct Hm as (z & c & Hq & Hc & Hcase). exists z, c. split; [done|]. split; [done|].
    destruct Hcase as [?|(h & Hh & Hu' & ?)]; [by left|right]. exists h. split; [done|]. split; [|done].
    by eapply one_union_trans.
  - eapply member_with_room_slots; [|exact Hs]. intros o Ho. apply Hfr. intros Ho'. by apply (Hd o).
Qed.
End room.

Section merging.
Context {D : Type} `{EqDecision D} (desc : D -> ProtobufCMessageDescriptor D).
Hypothesis Hwf : forall d, wf_descriptor (desc d) = true.
Implicit Types (f g : ProtobufCFieldDescriptor D) (ms : list (cell D)).

(** *** Updates *)

Definition single f : Prop := is_repeated f = false /\ is_oneof f = false.

Lemma single_quantifier d f : f ∈ fields (desc d) -> single f -> quantifier_offset f = O.
Proof.
  intros Hf [Hr Ho]. pose proof (wf_not_required desc d (Hwf d) f Hf) as Hl. apply wf_field in Hf; [|apply Hwf].
  unfold is_repeated, is_oneof in *. unfold field_ok in Hf. split_andb. destruct Hl as [E|E]; rewrite E in *; [done|].
  split_andb. rewrite Ho in *. by apply Nat.eqb_eq.
Qed.

Lemma room_single d cap f ms : single f ->
  member_with_room desc d cap f ms <-> exists c, at_slot ms (offset f) = Some c /\ is_member (shaped desc) f c = true.
Proof. intros [Hr Ho]. unfold member_with_room. by rewrite Hr, Ho. Qed.

Lemma update_single d cap f ms c : f ∈ fields (desc d) -> single f -> struct_with_room desc d cap ms ->
  is_member (shaped desc) f c = true -> struct_with_room desc d cap (put ms (offset f) c).
Proof.
  intros Hf Hs Hms Hc. eapply (struct_update desc Hwf d cap cap f); [done..|apply frame_put, offset_slot|].
  apply room_single; [done|]. pose proof (Hms f Hf) as (c0 & Ho & _)%room_single; [|done]. exists c. split; [|done].
  by eapply at_slot_put.
Qed.

Lemma quantifier_in_slots f : is_repeated f = true \/ is_oneof f = true -> quantifier_offset f ∈ slots f.
Proof. intros [H|H]; unfold slots; rewrite H, ?orb_true_r; by left. Qed.

(** Both members of a field at once. *)
Definition put2 f ms (n : Z) c : list (cell D) := put (put ms (offset f) c) (quantifier_offset f) (Int n).

Lemma put2_slots f ms n c c0 c1 : quantifier_offset f <> offset f ->
  at_slot ms (quantifier_offset f) = Some c0 -> at_slot ms (offset f) = Some c1 ->
  at_slot (put2 f ms n c) (quantifier_offset f) = Some (Int n) /\ at_slot (put2 f ms n c) (offset f) = Some c.
Proof.
  intros Hne Hq Ho. unfold put2. split.
  - eapply at_slot_put. by rewrite at_slot_put_ne.
  - rewrite at_slot_put_ne by done. by eapply at_slot_put.
Qed.

Lemma put2_frame f ms n c : is_repeated f = true \/ is_oneof f = true -> frame (slots f) ms (put2 f ms n c).
Proof.
  intros Hq%quantifier_in_slots. eapply frame_trans; apply frame_put; [apply offset_slot|done].
Qed.

Lemma put2_union d cap f g ms n c : f ∈ fields (desc d) -> is_oneof f = true -> struct_with_room desc d cap ms ->
  (n = 0 /\ c = Zeroed \/ g ∈ fields (desc d) /\ one_union f g = true /\ id g = n /\ is_member (shaped desc) g c = true) ->
  struct_with_room desc d cap (put2 f ms n c).
Proof.
  intros Hf Hu Hms Hc. eapply (struct_update desc Hwf d cap cap f); [done..|apply put2_frame; by right|].
  pose proof (Hms f Hf) as Hm. unfold member_with_room in *. rewrite (oneof_not_repeated f Hu), Hu in *.
  destruct Hm as (z & c0 & Hq & Ho & _).
  destruct (put2_slots f ms n c _ _ (wf_slots desc d (Hwf d) f Hf) Hq Ho). exists n, c. split; [done|]. split; [done|].
  destruct Hc as [?|(? & ? & ? & ?)]; [by left|right]. by exists g.
Qed.

Lemma put2_array d cap cap' f ms n p : f ∈ fields (desc d) -> is_repeated f = true -> struct_with_room desc d cap ms ->
  (forall g, g ∈ fields (desc d) -> id g <> id f -> cap' g = cap g) ->
  0 <= n -> n + cap' f <= Z.of_nat (List.length (elements p)) ->
  Forall (fun c => is_element (shaped desc) f c = true) (take (Z.to_nat n) (elements p)) ->
  struct_with_room desc d cap' (put2 f ms n (Arr p)).
Proof.
  intros Hf Hr Hms Hcap Hn Hl Hp. eapply (struct_update desc Hwf d cap cap' f); [done..|apply put2_frame; by left|].
  pose proof (Hms f Hf) as Hm. unfold member_with_room in *. rewrite Hr in *. destruct Hm as (z & c0 & Hq & Ho & _).
  destruct (put2_slots f ms n (Arr p) _ _ (wf_slots desc d (Hwf d) f Hf) Hq Ho). by exists n, p.
Qed.

(** *** Nesting *)

Lemma cells_depth_le (l : list (cell D)) k : (cells_depth l <= k)%nat <-> Forall (fun c => (cell_depth c <= k)%nat) l.
Proof.
  induction l as [|c l IH]; cbn; [split; [constructor|lia]|]. rewrite Forall_cons, <-IH. unfold cells_depth. lia.
Qed.

Lemma cells_depth_put ms o c k : (cells_depth ms <= k)%nat -> (cell_depth c <= k)%nat -> (cells_depth (put ms o c) <= k)%nat.
Proof. rewrite !cells_depth_le. intros Hms Hc. destruct o as [|o]; [done|]. by apply Forall_insert. Qed.

Lemma slot_depth ms o c : at_slot ms o = Some c -> (cell_depth c <= cells_depth ms)%nat.
Proof. destruct o as [|o]; [done|]. intros H%list_elem_of_lookup_2. by apply cells_depth_in. Qed.
End merging.

Section merge.
Context {D : Type} `{EqDecision D} (desc : D -> ProtobufCMessageDescriptor D).
Hypothesis Hwf : forall d, wf_descriptor (desc d) = true.
Implicit Types (f g : ProtobufCFieldDescriptor D) (ms : list (cell D)).

(** *** Merging *)

Abbreviation fits_struct d := (struct_with_room desc d (fun _ => 0)).

Lemma put_comm ms o o' c c' : o <> o' -> put (put ms o c) o' c' = put (put ms o' c') o c.
Proof. intros Hne. destruct o as [|o], o' as [|o']; cbn; try done. apply list_insert_insert_ne. congruence. Qed.

Lemma set_o_then_q f ms n c c0 c1 : quantifier_offset f <> offset f ->
  at_slot ms (quantifier_offset f) = Some c0 -> at_slot ms (offset f) = Some c1 ->
  set_member ms (offset f) c = Ok (put ms (offset f) c) /\
  set_member (put ms (offset f) c) (quantifier_offset f) (Int n) = Ok (put2 f ms n c).
Proof.
  intros Hne Hq Ho. split; [by eapply set_member_some|]. eapply set_member_some. by rewrite at_slot_put_ne.
Qed.

Lemma set_q_then_o f ms n c c0 c1 : quantifier_offset f <> offset f ->
  at_slot ms (quantifier_offset f) = Some c0 -> at_slot ms (offset f) = Some c1 ->
  set_member ms (quantifier_offset f) (Int n) = Ok (put ms (quantifier_offset f) (Int n)) /\
  set_member (put ms (quantifier_offset f) (Int n)) (offset f) c = Ok (put2 f ms n c).
Proof.
  intros Hne Hq Ho. split; [by eapply set_member_some|]. unfold put2. rewrite (put_comm _ (offset f)) by done.
  eapply set_member_some. by rewrite at_slot_put_ne.
Qed.

Lemma is_member_cases f (c : cell D) : is_member (shaped desc) f c = true ->
  match type f with
  | PROTOBUF_C_TYPE_STRING => exists p, get_str c = Ok p
  | PROTOBUF_C_TYPE_BYTES => exists b, get_bytes c = Ok b
  | PROTOBUF_C_TYPE_MESSAGE => c = Zeroed \/ c = Msg None \/
      exists m, c = Msg (Some m) /\ descriptor f = Some (message_descriptor m) /\ shaped desc m = true
  | _ => exists z, get_int c = Ok z
  end.
Proof.
  unfold is_member. intros [[Hz|Hi]%orb_true_iff|He]%orb_true_iff.
  - destruct c; try done. destruct (type f); cbn; eauto.
  - apply is_init_cell_spec in Hi as ->. destruct (type f); cbn; eauto.
  - unfold is_element, typed_element in He. destruct (type f), c as [| |z|p|len bs|m|p]; try done; cbn; eauto.
    + destruct m as [m|]; [|done]. apply andb_true_iff in He as [Hd%bool_decide_eq_true Hm]. eauto 10.
Qed.

Definition merge_inv (d : D) (k : nat) (s : merging (D := D)) : Prop :=
  fits_struct d (fst s) /\ fits_struct d (snd s) /\ (cells_depth (fst s) <= k)%nat.

Lemma merge_repeated_total d k f s : f ∈ fields (desc d) -> is_repeated f = true -> merge_inv d k s ->
  exists s', merge_repeated f s = Ok s' /\ merge_inv d k s'.
Proof.
  intros Hf Hr Hs. pose proof Hs as (He & Hl & Hk). destruct s as [e l]. cbn [fst snd] in *.
  pose proof (He f Hf) as H1. pose proof (Hl f Hf) as H2. unfold member_with_room in H1, H2. rewrite Hr in H1, H2.
  destruct H1 as (n & p & Hq & Ho & Hn & Hlen & Hp), H2 as (n' & p' & Hq' & Ho' & Hn' & Hlen' & Hp').
  pose proof (wf_slots desc d (Hwf d) f Hf) as Hne. rewrite Z.add_0_r in *.
  unfold merge_repeated. rewrite (at_member_some _ _ _ _ Hq), (at_member_some _ _ _ _ Hq'). cbn [get_int obind].
  destruct (Z.leb_spec n 0); [by exists (e, l)|].
  rewrite (at_member_some _ _ _ _ Ho), (at_member_some _ _ _ _ Ho'). cbn [get_arr obind].
  destruct (set_q_then_o f e 0 (Arr None) _ _ Hne Hq Ho) as [E1 E2].
  assert (Hz : fits_struct d (put2 f e 0 (Arr None))).
  { eapply put2_array; [done..|cbn; lia|constructor]. }
  assert (Hkz : (cells_depth (put2 f e 0 (Arr None)) <= k)%nat) by (apply cells_depth_put; [by apply cells_depth_put; [|cbn; lia]|cbn; lia]).
  destruct (Z.ltb_spec 0 n') as [Hn0|Hn0].
  - unfold array_elements. change (match p with Some l => l | None => [] end) with (elements p).
    change (match p' with Some l => l | None => [] end) with (elements p').
    destruct (Z.leb_spec n (Z.of_nat (List.length (elements p)))); [|lia].
    destruct (Z.leb_spec n' (Z.of_nat (List.length (elements p')))); [|lia]. cbn [obind].
    set (joined := take (Z.to_nat n) (elements p) ++ take (Z.to_nat n') (elements p')).
    destruct (set_o_then_q f l (n + n') (Arr (Some joined)) _ _ Hne Hq' Ho') as [E3 E4].
    rewrite E3. cbn [obind]. rewrite E4. cbn [obind]. rewrite E1. cbn [obind]. rewrite E2. cbn [obind].
    eexists. split; [done|]. split; [done|]. split; [|done]. cbn [snd].
    assert (Ej : List.length joined = Z.to_nat (n + n')) by (subst joined; rewrite length_app, !length_take; lia).
    eapply put2_array; [done..|lia|cbn [elements]; lia|]. cbn [elements]. rewrite take_ge by lia. by apply Forall_app_2.
  - destruct (set_q_then_o f l n (Arr p) _ _ Hne Hq' Ho') as [E3 E4].
    rewrite E3. cbn [obind]. rewrite E4. cbn [obind]. rewrite E1. cbn [obind]. rewrite E2. cbn [obind].
    eexists. split; [done|]. split; [done|]. split; [|done]. cbn [snd]. eapply put2_array; [done..|lia|done].
Qed.

Lemma message_element f m : type f = PROTOBUF_C_TYPE_MESSAGE -> descriptor f = Some (message_descriptor m) ->
  shaped desc m = true -> is_element (shaped desc) f (Msg (Some m)) = true.
Proof.
  intros Ht Hd Hm. unfold is_element, typed_element. by rewrite Ht, Hm, bool_decide_eq_true_2.
Qed.

Lemma message_member f m : type f = PROTOBUF_C_TYPE_MESSAGE -> descriptor f = Some (message_descriptor m) ->
  shaped desc m = true -> is_member (shaped desc) f (Msg (Some m)) = true.
Proof. intros. unfold is_member. rewrite message_element by done. apply orb_true_r. Qed.

(** What [merge_field] finds: the field itself, or the one of the union that is set in the
    earlier message only. *)
Definition mergeable (d : D) f (s : merging (D := D)) f' : Prop :=
  f' ∈ fields (desc d) /\ is_repeated f' = false /\ quantifier_offset f' = quantifier_offset f /\
  (is_oneof f' = true -> at_slot (fst s) (quantifier_offset f') = Some (Int (id f')) /\
     at_slot (snd s) (quantifier_offset f') = Some (Int 0) /\ at_slot (snd s) (offset f') = Some Zeroed) /\
  exists ec lc, at_slot (fst s) (offset f') = Some ec /\ at_slot (snd s) (offset f') = Some lc /\
    is_member (shaped desc) f' ec = true /\ is_member (shaped desc) f' lc = true.

Lemma none_oneof d f : f ∈ fields (desc d) -> is_repeated f = false ->
  label f = PROTOBUF_C_LABEL_NONE /\ PROTOBUF_C_FIELD_FLAG_ONEOF (flags f) = is_oneof f.
Proof.
  intros Hf Hr. destruct (wf_not_required desc d (Hwf d) f Hf) as [E|E]; unfold is_repeated, is_oneof in *; by rewrite E in *.
Qed.

Lemma merge_field_total d k f s : f ∈ fields (desc d) -> is_repeated f = false -> merge_inv d k s ->
  exists r, merge_field desc d f s = Ok r /\ forall f', r = inl (Some f') -> mergeable d f s f'.
Proof.
  intros Hf Hr (He & Hl & _). unfold merge_field. destruct (none_oneof d f Hf Hr) as [_ ->].
  pose proof (He f Hf) as H1. pose proof (Hl f Hf) as H2. unfold member_with_room in H1, H2. rewrite Hr in H1, H2.
  destruct (is_oneof f) eqn:Hu.
  - destruct H1 as (z & c & Hq & Ho & Hc), H2 as (z' & c' & Hq' & Ho' & Hc').
    rewrite (at_member_some _ _ _ _ Hq'). cbn [get_int obind]. destruct (Z.eqb_spec z' 0) as [->|]; [|by eexists].
    rewrite (at_member_some _ _ _ _ Hq). cbn [get_int obind].
    destruct Hc as [[-> ->]|(g & Hg & Hfg & <- & Hm)].
    + destruct (wf_lookup_total desc d (Hwf d) 0) as (r & -> & Hlook). cbn [obind].
      destruct (Z.ltb_spec r 0); [by eexists|]. destruct Hlook as [->|(_ & g & Hg & E)]; [lia|].
      apply list_elem_of_lookup_2, (wf_id desc d (Hwf d)) in Hg. rewrite E in Hg. change (signed32 0) with 0 in Hg. lia.
    + pose proof Hg as [i Hi]%list_elem_of_lookup. rewrite (wf_lookup desc d (Hwf d) i g Hi). cbn [obind].
      destruct (Z.ltb_spec (Z.of_nat i) 0); [lia|]. rewrite Nat2Z.id, Hi. eexists. split; [done|]. intros f' [= <-].
      destruct (one_union_slots f g Hfg) as (Hug & Eq & Eo). split; [done|]. split; [by apply oneof_not_repeated|].
      split; [done|]. rewrite Eq, Eo. destruct Hc' as [[_ ->]|(h & Hh & _ & E & _)].
      { split; [done|]. by exists c, Zeroed. }
      apply (wf_id desc d (Hwf d)) in Hh. lia.
  - destruct H1 as (c & Ho & Hc), H2 as (c' & Ho' & Hc'). eexists. split; [done|]. intros f' [= <-].
    split; [done|]. split; [done|]. split; [done|]. split; [by rewrite Hu|]. by exists c, c'.
Qed.

Lemma move_total d k f s f' ec : merge_inv d k s -> mergeable d f s f' -> at_slot (fst s) (offset f') = Some ec ->
  is_member (shaped desc) f' ec = true ->
  exists s', move_member f' (quantifier_offset f) s ec = Ok s' /\ merge_inv d k s'.
Proof.
  intros (He & Hl & Hk) (Hf & Hr & Hq & Hu & ec' & lc & Ho & Ho' & _ & _) Hoc Hc. rewrite Hoc in Ho. injection Ho as <-.
  unfold move_member. rewrite <-Hq, (set_member_some _ _ _ _ Ho'). cbn [obind]. rewrite (set_member_some _ _ _ _ Hoc). cbn [obind].
  pose proof (slot_depth _ _ _ Hoc) as Hd. destruct (is_oneof f') eqn:Hone.
  - destruct (Hu eq_refl) as (Hqe & Hql & _). pose proof (wf_slots desc d (Hwf d) f' Hf) as Hne.
    destruct (quantifier_offset f') as [|q] eqn:Eq; [done|]. rewrite <-Eq in *.
    rewrite (at_member_some _ _ _ (Int (id f'))) by (by rewrite at_slot_put_ne). cbn [get_int obind].
    destruct (set_o_then_q f' (snd s) (id f') ec _ _ Hne Hql Ho') as [_ ->]. cbn [obind].
    destruct (set_o_then_q f' (fst s) 0 Zeroed _ _ Hne Hqe Hoc) as [_ ->]. cbn [obind].
    eexists. split; [done|]. split_and!; cbn [fst snd].
    + apply (put2_union desc Hwf d _ f' f'); auto.
    + apply (put2_union desc Hwf d _ f' f'); auto. right. split_and!; try done. unfold one_union. by rewrite Hone, !Nat.eqb_refl.
    + apply cells_depth_put; [by apply cells_depth_put; [|cbn; lia]|cbn; lia].
  - assert (Hs : single f') by done. rewrite (single_quantifier desc Hwf d f' Hf Hs). eexists. split; [done|]. split_and!; cbn [fst snd].
    + by apply update_single.
    + by apply update_single.
    + apply cells_depth_put; [done|cbn; lia].
Qed.

Lemma need_total d f s f' ec lc : mergeable d f s f' -> type f' <> PROTOBUF_C_TYPE_MESSAGE ->
  is_member (shaped desc) f' ec = true -> is_member (shaped desc) f' lc = true ->
  exists b, need_to_merge f' (quantifier_offset f) s ec lc = Ok b.
Proof.
  intros (Hf & Hr & Hq & Hu & _) Ht He%is_member_cases Hl%is_member_cases. unfold need_to_merge. rewrite <-Hq.
  assert (Hn : exists b, match quantifier_offset f' with O => Ok false | S _ =>
    let* earlier_case := at_member get_int (fst s) (quantifier_offset f') in
    let* latter_case := at_member get_int (snd s) (quantifier_offset f') in
    Ok (negb (earlier_case =? 0) && (latter_case =? 0)) end = Ok b).
  { destruct (is_oneof f') eqn:Hone.
    - destruct (Hu eq_refl) as (Hqe & Hql & _). rewrite (at_member_some _ _ _ _ Hqe), (at_member_some _ _ _ _ Hql). cbn [get_int obind].
      destruct (quantifier_offset f'); eauto.
    - rewrite (single_quantifier desc Hwf d f' Hf); [eauto|done]. }
  destruct (type f'); try done; destruct He as [b ->], Hl as [b' ->]; cbn; eauto.
Qed.

Section step.
Variable merge : message D -> message D -> outcome (option (message D * message D)).
Variable k : nat.

(** The messages that come back are of the same types, and the first is no deeper. *)
Definition merges_to (em lm : message D) (r : option (message D * message D)) : Prop :=
  forall em' lm', r = Some (em', lm') ->
    message_descriptor em' = message_descriptor em /\ message_descriptor lm' = message_descriptor lm /\
    shaped desc em' = true /\ shaped desc lm' = true /\ (message_depth em' <= k)%nat.

Hypothesis Hmerge : forall em lm, message_descriptor em = message_descriptor lm -> shaped desc em = true ->
  shaped desc lm = true -> (message_depth em <= k)%nat -> exists r, merge em lm = Ok r /\ merges_to em lm r.

Lemma merge_found d f f' s ec lc : merge_inv d k s -> mergeable d f s f' ->
  at_slot (fst s) (offset f') = Some ec -> at_slot (snd s) (offset f') = Some lc ->
  is_member (shaped desc) f' ec = true -> is_member (shaped desc) f' lc = true ->
  type f' = PROTOBUF_C_TYPE_MESSAGE -> forall em lm, ec = Msg (Some em) -> lc = Msg (Some lm) ->
  exists r, merge em lm = Ok r /\ forall em' lm', r = Some (em', lm') -> exists e l,
    set_member (fst s) (offset f') (Msg (Some em')) = Ok e /\ set_member (snd s) (offset f') (Msg (Some lm')) = Ok l /\
    merge_inv d k (e, l).
Proof.
  intros (He & Hl & Hk) (Hf & Hr & _ & Hu & _) Ho Ho' Hec Hlc Ht em lm -> ->.
  apply is_member_cases in Hec, Hlc. rewrite Ht in Hec, Hlc.
  destruct Hec as [?|[?|(? & [= <-] & Hde & Hse)]]; [done..|]. destruct Hlc as [?|[?|(? & [= <-] & Hdl & Hsl)]]; [done..|].
  assert (Hs : single f').
  { split; [done|]. destruct (is_oneof f'); [|done]. destruct (Hu eq_refl) as (_ & _ & E). by rewrite E in Ho'. }
  assert (Hd : message_descriptor em = message_descriptor lm) by congruence.
  pose proof (slot_depth _ _ _ Ho) as Hdep. change (cell_depth (Msg (Some em))) with (message_depth em) in Hdep.
  destruct (Hmerge em lm Hd Hse Hsl) as (r & E & Hres); [lia|]. exists r. split; [done|]. intros em' lm' ->.
  destruct (Hres em' lm' eq_refl) as (Ede & Edl & Hse' & Hsl' & Hk').
  do 2 eexists. rewrite (set_member_some _ _ _ _ Ho), (set_member_some _ _ _ _ Ho'). split; [done|]. split; [done|].
  split_and!; cbn [fst snd].
  - apply update_single; [done..|]. apply message_member; congruence.
  - apply update_single; [done..|]. apply message_member; congruence.
  - by apply cells_depth_put.
Qed.

Lemma merge_member_total d f s : f ∈ fields (desc d) -> merge_inv d k s ->
  exists r, merge_member desc merge d f s = Ok r /\ forall s', r = Some s' -> merge_inv d k s'.
Proof.
  intros Hf Hs. unfold merge_member. destruct (is_repeated f) eqn:Hr.
  { rewrite (repeated_label f Hr). destruct (merge_repeated_total d k f s Hf Hr Hs) as (s' & -> & Hs').
    eexists. split; [done|]. by intros ? [= <-]. }
  destruct (none_oneof d f Hf Hr) as [-> _]. destruct (merge_field_total d k f s Hf Hr Hs) as (r & -> & Hfound).
  cbn [obind]. destruct r as [[f'|]|]; [|eexists; split; [done|]; by intros ? [= <-]|by eexists].
  specialize (Hfound f' eq_refl). pose proof Hfound as (_ & _ & _ & _ & ec & lc & Ho & Ho' & Hec & Hlc).
  rewrite (member_some _ _ _ Ho), (member_some _ _ _ Ho'). cbn [obind].
  assert (Hmove : exists r, (let* s := move_member f' (quantifier_offset f) s ec in Ok (Some s)) = Ok r /\
    forall s', r = Some s' -> merge_inv d k s').
  { destruct (move_total d k f s f' ec Hs Hfound Ho Hec) as (s' & -> & Hs'). eexists. split; [done|]. by intros ? [= <-]. }
  assert (Hsame : exists r, Ok (Some s) = Ok r /\ forall s', r = Some s' -> merge_inv d k s').
  { eexists. split; [done|]. by intros ? [= <-]. }
  assert (type f' = PROTOBUF_C_TYPE_MESSAGE \/ type f' <> PROTOBUF_C_TYPE_MESSAGE) as [Ht|Ht]
    by (destruct (type f'); auto).
  - pose proof (merge_found d f f' s ec lc Hs Hfound Ho Ho' Hec Hlc Ht) as Hm. rewrite Ht.
    apply is_member_cases in Hec, Hlc. rewrite Ht in Hec, Hlc.
    destruct Hec as [->|[->|(em & -> & _)]], Hlc as [->|[->|(lm & -> & _)]]; try done.
    destruct (Hm em lm eq_refl eq_refl) as (r & -> & Hres). cbn [obind].
    destruct r as [[em' lm']|]; [|by eexists]. destruct (Hres em' lm' eq_refl) as (e & l & -> & -> & Hinv). cbn [obind].
    eexists. split; [done|]. by intros ? [= <-].
  - destruct (need_total d f s f' ec lc Hfound Ht Hec Hlc) as [b Hb].
    assert (Hb' : exists r, (let* need := need_to_merge f' (quantifier_offset f) s ec lc in
      if need then let* s := move_member f' (quantifier_offset f) s ec in Ok (Some s) else Ok (Some s)) = Ok r /\
      forall s', r = Some s' -> merge_inv d k s') by (rewrite Hb; cbn [obind]; by destruct b).
    destruct (type f'); done.
Qed.

Lemma merge_loop_total d fs : (forall f, f ∈ fs -> f ∈ fields (desc d)) -> forall s, merge_inv d k s ->
  exists r, merge_loop (merge_member desc merge d) fs s = Ok r /\ forall s', r = Some s' -> merge_inv d k s'.
Proof.
  induction fs as [|f fs IH]; intros Hfs s Hs; cbn [merge_loop]; [eexists; split; [done|]; by intros ? [= <-]|].
  destruct (merge_member_total d f s) as (r & -> & Hr); [apply Hfs; by left|done|]. cbn [obind].
  destruct r as [s'|]; [|by eexists]. apply IH; [|by apply Hr]. intros g Hg. apply Hfs. by right.
Qed.
End step.

(** Merging two structs of one type comes to an end, and makes structs of that type. *)
Lemma merge_total depth : forall em lm, message_descriptor em = message_descriptor lm -> shaped desc em = true ->
  shaped desc lm = true -> (message_depth em <= depth)%nat ->
  exists r, merge_messages desc depth em lm = Ok r /\ merges_to depth em lm r.
Proof.
  induction depth as [|k IH]; intros [d1 e u1] [d l u] Hd He Hl Hk; [by change (S (cells_depth e) <= 0)%nat in Hk; lia|].
  cbn in Hd. subst d1. change (S (cells_depth e) <= S k)%nat in Hk. cbn [merge_messages].
  apply shaped_spec in He, Hl.
  destruct (merge_loop_total _ k IH d (fields (desc d)) ltac:(done) (e, l)) as (r & E & Hr); [split; [done|]; split; [done|]; cbn [fst]; lia|].
  rewrite E. cbn [obind]. destruct r as [[e' l']|]; [|by eexists]. eexists. split; [done|].
  intros em' lm' [= <- <-]. destruct (Hr _ eq_refl) as (He' & Hl' & Hk'). cbn [fst snd] in *.
  split_and!; [done..|by apply shaped_spec|by apply shaped_spec|]. change (S (cells_depth e') <= S k)%nat. lia.
Qed.
End merge.

Section members.
Context {D : Type} `{EqDecision D} (desc : D -> ProtobufCMessageDescriptor D).
Hypothesis Hwf : forall d, wf_descriptor (desc d) = true.
Implicit Types (f g : ProtobufCFieldDescriptor D) (ms : list (cell D)).

(** *** The members that the scan found *)

Definition count_of f (sm : ScannedMember (D := D)) : option Z :=
  if is_packed f (wire_type sm) then count_packed_elements (type f) (sm_payload sm) else Some 1.

(** How many elements of the array of [f] a member holds at most. *)
Definition taken f (sm : ScannedMember (D := D)) : Z :=
  match sm_field sm with
  | Some g => if id g =? id f then match count_of f sm with Some n => n | None => 0 end else 0
  | None => 0
  end.
Definition total f (l : list (ScannedMember (D := D))) : Z := foldr (fun sm n => taken f sm + n) 0 l.

Definition sm_ok (d : D) (N : nat) (sm : ScannedMember (D := D)) : Prop :=
  sm_sized sm /\ (sm_len sm < N)%nat /\
  forall f, sm_field sm = Some f -> f ∈ fields (desc d) /\ tag sm = id f /\
    (is_repeated f = true -> exists n, count_of f sm = Some n).

Lemma count_bounds t bs n : count_packed_elements t bs = Some n -> 0 <= n <= Z.of_nat (List.length bs).
Proof.
  unfold count_packed_elements. pose proof (numbers_bounds bs).
  destruct t; try done; try (intros [= <-]; lia);
    (case_match; [done|]; intros [= <-]; split; [apply Z.div_pos; lia|]; apply Z.div_le_upper_bound; lia).
Qed.

Lemma taken_nonneg f sm : 0 <= taken f sm.
Proof.
  unfold taken, count_of. destruct (sm_field sm) as [g|]; [|lia]. destruct (_ =? _); [|lia].
  destruct (is_packed _ _); [|lia]. destruct (count_packed_elements _ _) as [n|] eqn:E; [|lia]. apply count_bounds in E. lia.
Qed.

Lemma total_cons f sm l : total f (sm :: l) = taken f sm + total f l.
Proof. done. Qed.

Lemma total_nonneg f l : 0 <= total f l.
Proof. induction l as [|sm l IH]; [done|]. rewrite total_cons. pose proof (taken_nonneg f sm). lia. Qed.

Lemma total_app f l l' : total f (l ++ l') = total f l + total f l'.
Proof. induction l as [|sm l IH]; [done|]. cbn [app]. rewrite !total_cons, IH. lia. Qed.

Lemma total_rev f l : total f (rev l) = total f l.
Proof. induction l as [|sm l IH]; [done|]. cbn [rev]. rewrite total_app, IH, !total_cons. cbn. lia. Qed.

(** *** One member *)

Section reading.
Variable unpack : D -> bytes -> outcome (option (message D)).
Variable N : nat.
Hypothesis Hunpack : forall d bs, (List.length bs < N)%nat -> exists r, unpack d bs = Ok r /\
  forall m, r = Some m -> message_descriptor m = d /\ shaped desc m = true.

Lemma number_element f z : is_packable_type (type f) = true -> is_element (shaped desc) f (Int z) = true.
Proof. unfold is_element, typed_element. by destruct (type f). Qed.

Lemma payload_length (sm : ScannedMember (D := D)) : (List.length (sm_payload sm) <= sm_len sm)%nat.
Proof. unfold sm_payload, sm_len. rewrite length_drop. lia. Qed.

Definition reads f (r : outcome (option (cell D))) : Prop :=
  exists c, r = Ok c /\ forall c', c = Some c' -> is_element (shaped desc) f c' = true.

Lemma reads_number (sm : ScannedMember (D := D)) f t (r : outcome Z) : is_packable_type (type f) = true ->
  (wire_type sm = t -> exists z, r = Ok z) -> forall conv : Z -> Z,
  reads f (if wire_type sm =? t then let* c := (let* z := r in Ok (Int (conv z))) in Ok (Some c) else Ok None).
Proof.
  intros Ht Hr conv. destruct (Z.eqb_spec (wire_type sm) t) as [E|]; [|by exists None].
  destruct (Hr E) as [z ->]. cbn. eexists. split; [done|]. intros c' [= <-]. by apply number_element.
Qed.

(** The part of messages: unpacked, and merged with the one before. *)
Lemma message_read_total d f (c : cell D) clr bs : f ∈ fields (desc d) -> type f = PROTOBUF_C_TYPE_MESSAGE ->
  (List.length bs < N)%nat -> (clr = true -> is_member (shaped desc) f c = true) ->
  reads f match descriptor f with
    | None => Undef
    | Some d =>
        let* subm := unpack d bs in
        let* before := if clr then match c with Msg p => Ok p | Zeroed => Ok None | _ => Undef end else Ok None in
        match subm, before with
        | None, _ => Ok None
        | Some subm, None => Ok (Some (Msg (Some subm)))
        | Some subm, Some before =>
            let* r := merge_messages desc (message_depth before) before subm in
            match r with None => Ok None | Some (_, subm) => Ok (Some (Msg (Some subm))) end
        end
    end.
Proof.
  intros Hf Et HN Hclr.
  pose proof (wf_field desc d (Hwf d) f Hf) as Hok. unfold field_ok in Hok. rewrite Et in Hok. split_andb.
  destruct (descriptor f) as [d'|] eqn:Ed; [|done].
  destruct (Hunpack d' bs) as (r & -> & Hr); [lia|]. cbn [obind].
  assert (exists b, (if clr then match c with Msg p => Ok p | Zeroed => Ok None | _ => Undef end else Ok None) = Ok b /\
    forall m, b = Some m -> message_descriptor m = d' /\ shaped desc m = true) as (b & -> & Hb).
  { destruct clr; [|by exists None]. specialize (Hclr eq_refl). apply is_member_cases in Hclr. rewrite Et, Ed in Hclr.
    destruct Hclr as [->|[->|(m & -> & [= E] & Hm)]]; [by exists None..|]. eexists. split; [done|].
    intros ? [= <-]. by rewrite E. }
  cbn [obind]. destruct r as [subm|]; [|by exists None]. destruct (Hr _ eq_refl) as [<- Hsub].
  assert (Hmsg : forall m, message_descriptor m = message_descriptor subm -> shaped desc m = true ->
    reads f (Ok (Some (Msg (Some m))))).
  { intros m Em Hm. eexists. split; [done|]. intros c' [= <-].
    apply message_element; congruence. }
  destruct b as [before|]; [|by apply Hmsg]. destruct (Hb _ eq_refl) as [Ebd Hbs].
  destruct (merge_total desc Hwf (message_depth before) before subm) as (r & -> & Hres); [done..|]. cbn [obind].
  destruct r as [[em lm]|]; [|by exists None]. destruct (Hres em lm eq_refl) as (_ & ? & _ & ? & _). by apply Hmsg.
Qed.

Lemma parse_required_total d (sm : ScannedMember (D := D)) f c clr : f ∈ fields (desc d) -> sm_sized sm -> (sm_len sm < N)%nat ->
  (clr = true -> is_member (shaped desc) f c = true) -> reads f (parse_required_member desc unpack sm f c clr).
Proof.
  intros Hf (Hpre & Hv & H64 & H32) HN Hclr. unfold parse_required_member.
  pose proof (payload_length sm) as Hpay.
  assert (H1 : wire_type sm = PROTOBUF_C_WIRE_TYPE_VARINT -> exists z, parse_uint32 (sm_len sm) (data sm) = Ok z).
  { intros E. apply parse_uint32_total. specialize (Hv E). unfold sm_len in *. lia. }
  assert (H2 : wire_type sm = PROTOBUF_C_WIRE_TYPE_VARINT -> exists z, parse_uint64 (sm_len sm) (data sm) = Ok z).
  { intros E. apply parse_uint64_total. specialize (Hv E). unfold sm_len in *. lia. }
  assert (H3 : wire_type sm = PROTOBUF_C_WIRE_TYPE_32BIT -> exists z, parse_fixed_uint32 (data sm) = Ok z).
  { intros E. apply little_endian_total. specialize (H32 E). unfold sm_len in *. lia. }
  assert (H4 : wire_type sm = PROTOBUF_C_WIRE_TYPE_64BIT -> exists z, parse_fixed_uint64 (data sm) = Ok z).
  { intros E. apply little_endian_total. specialize (H64 E). unfold sm_len in *. lia. }
  assert (Hcell : clr = true -> match type f with
    | PROTOBUF_C_TYPE_STRING => exists p, get_str c = Ok p
    | PROTOBUF_C_TYPE_BYTES => exists b, get_bytes c = Ok b
    | PROTOBUF_C_TYPE_MESSAGE => c = Zeroed \/ c = Msg None \/
        exists m, c = Msg (Some m) /\ descriptor f = Some (message_descriptor m) /\ shaped desc m = true
    | _ => exists z, get_int c = Ok z end) by (intros E; by apply is_member_cases, Hclr).
  assert (Hn : is_packable_type (type f) = true -> reads f (Ok (Some (Int (parse_boolean (data sm)))))).
  { intros Ht. eexists. split; [done|]. intros c' [= <-]. by apply number_element. }
  destruct (type f) eqn:Et; try (apply Hn; reflexivity);
    try (apply (reads_number sm f); [by rewrite Et|done]);
    try (apply (reads_number sm f _ _) with (conv := fun z => z); [by rewrite Et|done]).
  - destruct (wire_type sm =? _); [|by exists None].
    assert (exists p, (if clr then get_str c else Ok NULL_string) = Ok p) as [p ->].
    { destruct clr; [|eauto]. specialize (Hcell eq_refl). by rewrite ?Et in Hcell. }
    cbn. eexists. split; [done|]. intros c' [= <-]. unfold is_element, typed_element. by rewrite Et.
  - destruct (wire_type sm =? _); [|by exists None].
    assert (exists p, (if clr then get_bytes c else Ok (0, None)) = Ok p) as [p ->].
    { destruct clr; [|eauto]. specialize (Hcell eq_refl). by rewrite ?Et in Hcell. }
    cbn [obind]. eexists. split; [done|]. intros c' [= <-]. unfold is_element, typed_element. rewrite Et.
    assert (El : List.length (sm_payload sm) = (sm_len sm - length_prefix_len sm)%nat) by (unfold sm_payload, sm_len; by rewrite length_drop).
    destruct (Nat.ltb_spec (length_prefix_len sm) (sm_len sm)); rewrite ?Z.eqb_refl, ?El; [apply Z.ltb_lt|apply Z.eqb_eq]; lia.
  - destruct (wire_type sm =? _); [|by exists None]. cbn [negb].
    apply (message_read_total d f c clr); (done || lia).
Qed.

(** *** Arrays *)

Definition reads_members d (cap : ProtobufCFieldDescriptor D -> Z) (r : outcome (option (list (cell D)))) : Prop :=
  exists o, r = Ok o /\ forall ms', o = Some ms' -> struct_with_room desc d cap ms'.

Lemma taken_own f sm n : sm_field sm = Some f -> count_of f sm = Some n -> taken f sm = n.
Proof. intros E E'. unfold taken. by rewrite E, Z.eqb_refl, E'. Qed.

Lemma taken_other f g sm : sm_field sm = Some f -> id g <> id f -> taken g sm = 0.
Proof. intros E Hne. unfold taken. rewrite E. destruct (Z.eqb_spec (id f) (id g)); [congruence|done]. Qed.

(** An array with [k] elements and room for [n] and for the members of [l], and what
    follows if it has [n'] of them. *)
Definition ready d f l ms (k : nat) (n : Z) (array : list (cell D)) : Prop :=
  Z.of_nat k + n + total f l <= Z.of_nat (List.length array) /\
  Forall (fun c => is_element (shaped desc) f c = true) (take k array) /\
  forall n' array', List.length array' = List.length array -> 0 <= n' <= Z.of_nat k + n ->
    Forall (fun c => is_element (shaped desc) f c = true) (take (Z.to_nat n') array') ->
    exists ms', set_repeated f ms n' array' = Ok ms' /\ struct_with_room desc d (fun g => total g l) ms'.

Lemma array_step d f sm l ms n : f ∈ fields (desc d) -> is_repeated f = true -> sm_field sm = Some f -> count_of f sm = Some n ->
  struct_with_room desc d (fun g => total g (sm :: l)) ms ->
  exists k array, repeated_member f ms = Ok (Z.of_nat k, array) /\ ready d f l ms k n array.
Proof.
  intros Hf Hr Es Ec Hms. pose proof (Hms f Hf) as Hm. unfold member_with_room in Hm. rewrite Hr in Hm.
  destruct Hm as (k & p & Hq & Ho & Hk & Hlen & Hp). rewrite total_cons, (taken_own f sm n) in Hlen by done.
  exists (Z.to_nat k), (elements p). unfold repeated_member. rewrite (at_member_some _ _ _ _ Hq), (at_member_some _ _ _ _ Ho).
  cbn [get_int get_arr obind]. rewrite Z2Nat.id by done. split; [done|]. split; [lia|]. split; [done|].
  intros n' array' Hl Hn' Ha. unfold set_repeated. pose proof (wf_slots desc d (Hwf d) f Hf) as Hne.
  destruct (set_o_then_q f ms n' (Arr (Some array')) _ _ Hne Hq Ho) as [-> E]. cbn [obind]. rewrite E. eexists. split; [done|].
  eapply (put2_array desc Hwf d (fun g => total g (sm :: l))); [done..| |lia| |done].
  - intros g _ Hg. by rewrite total_cons, (taken_other f).
  - cbn [elements]. lia.
Qed.

Lemma repeated_total d f sm l ms : f ∈ fields (desc d) -> is_repeated f = true -> sm_ok d N sm -> sm_field sm = Some f ->
  is_packed f (wire_type sm) = false -> struct_with_room desc d (fun g => total g (sm :: l)) ms ->
  reads_members d (fun g => total g l) (parse_repeated_member desc unpack sm f ms).
Proof.
  intros Hf Hr (Hsz & HN & _) Es Hpk Hms. assert (Ec : count_of f sm = Some 1) by (unfold count_of; by rewrite Hpk).
  destruct (array_step d f sm l ms 1 Hf Hr Es Ec Hms) as (k & array & E & Hlen & Ha & Hset).
  unfold parse_repeated_member. rewrite E. cbn [obind]. pose proof (total_nonneg f l).
  destruct (parse_required_total d sm f Garbage false Hf Hsz HN ltac:(done)) as (c & -> & Hc). cbn [obind].
  destruct c as [c|]; [|by exists None]. rewrite Nat2Z.id.
  destruct (set_element_total (fun c => is_element (shaped desc) f c = true) array k c) as (array' & -> & Hl & Ha'); [lia|done|by apply Hc|].
  cbn [obind]. destruct (Hset (Z.of_nat k + 1) array') as (ms' & -> & Hms'); [done|lia| |].
  - by replace (Z.to_nat (Z.of_nat k + 1)) with (S k) by lia.
  - cbn [obind]. eexists. split; [done|]. by intros ? [= <-].
Qed.

Lemma varints_total d f l ms k n array parse bs : is_packable_type (type f) = true -> ready d f l ms k n array ->
  max_b128_numbers bs <= n -> (forall s at', (1 <= s <= List.length at')%nat -> exists z, parse s at' = Ok z) ->
  reads_members d (fun g => total g l)
    (let* r := packed_loop (S (List.length bs)) parse bs array k in
     match r with None => Ok None | Some (n, array) => let* ms := set_repeated f ms (Z.of_nat n) array in Ok (Some ms) end).
Proof.
  intros Ht (Hlen & Ha & Hset) Hn Hparse. pose proof (total_nonneg f l).
  destruct (packed_loop_total (fun c => is_element (shaped desc) f c = true) (fun z => number_element f z Ht) parse Hparse
    (S (List.length bs)) bs array k) as (r & -> & Hres); [lia|lia|done|]. cbn [obind].
  destruct r as [[n' array']|]; [|by exists None]. destruct (Hres _ _ eq_refl) as (Hl & Ha' & Hn').
  destruct (Hset (Z.of_nat n') array') as (ms' & -> & Hms'); [done|lia|by rewrite Nat2Z.id|]. cbn [obind].
  eexists. split; [done|]. by intros ? [= <-].
Qed.

Lemma copied_total d f l ms k n array siz parse bs : is_packable_type (type f) = true -> ready d f l ms k n array ->
  Z.of_nat (List.length bs) / Z.of_nat siz <= n -> (forall at', (siz <= List.length at')%nat -> exists z, parse at' = Ok z) ->
  reads_members d (fun g => total g l)
    (let* array := copy_loop (List.length bs / siz) siz parse bs array k in
     let* ms := set_repeated f ms (Z.of_nat k + Z.of_nat (List.length bs / siz)) array in Ok (Some ms)).
Proof.
  intros Ht (Hlen & Ha & Hset) Hn Hparse. pose proof (total_nonneg f l). rewrite <-Nat2Z.inj_div in Hn.
  set (count := (List.length bs / siz)%nat) in *.
  assert (count * siz <= List.length bs)%nat by (rewrite Nat.mul_comm; apply Nat.Div0.mul_div_le).
  destruct (copy_loop_total (fun c => is_element (shaped desc) f c = true) (fun z => number_element f z Ht) siz parse Hparse
    count bs array k) as (array' & -> & Hl & Ha'); [done|lia|done|]. cbn [obind].
  destruct (Hset (Z.of_nat k + Z.of_nat count) array') as (ms' & -> & Hms'); [done|lia| |].
  - by replace (Z.to_nat (Z.of_nat k + Z.of_nat count)) with (k + count)%nat by lia.
  - cbn [obind]. eexists. split; [done|]. by intros ? [= <-].
Qed.

Lemma uint32_conv (conv : Z -> Z) s at' : (1 <= s <= List.length at')%nat ->
  exists z, (let* z := parse_uint32 s at' in Ok (conv z)) = Ok z.
Proof. intros Hs. destruct (parse_uint32_total s at' Hs) as [z ->]. cbn. eauto. Qed.
Lemma uint64_conv (conv : Z -> Z) s at' : (1 <= s <= List.length at')%nat ->
  exists z, (let* z := parse_uint64 s at' in Ok (conv z)) = Ok z.
Proof. intros Hs. destruct (parse_uint64_total s at' Hs) as [z ->]. cbn. eauto. Qed.
Lemma fixed_conv (conv : Z -> Z) siz at' : (siz <= List.length at')%nat ->
  exists z, (let* z := from_little_endian siz at' in Ok (conv z)) = Ok z.
Proof. intros Hs. destruct (little_endian_total siz at' Hs) as [z ->]. cbn. eauto. Qed.

Lemma fixed_count a b n : (if negb (a mod b =? 0) then None else Some (a / b)) = Some n -> a / b <= n.
Proof. destruct (negb _); intros [=]. lia. Qed.

Lemma packed_total d f sm l ms : f ∈ fields (desc d) -> is_repeated f = true -> sm_ok d N sm -> sm_field sm = Some f ->
  is_packed f (wire_type sm) = true -> struct_with_room desc d (fun g => total g (sm :: l)) ms ->
  reads_members d (fun g => total g l) (parse_packed_repeated_member sm f ms).
Proof.
  intros Hf Hr (_ & _ & Hfield) Es Hpk Hms. destruct (Hfield f Es) as (_ & _ & Hcount). destruct (Hcount Hr) as [n Ec].
  destruct (array_step d f sm l ms n Hf Hr Es Ec Hms) as (k & array & E & Hready).
  unfold parse_packed_repeated_member. rewrite E. cbn [obind]. cbv zeta. rewrite Nat2Z.id.
  unfold count_of in Ec. rewrite Hpk in Ec. unfold count_packed_elements in Ec. pose proof (numbers_bounds (sm_payload sm)).
  destruct (type f) eqn:Et; try done;
    try (eapply copied_total; [by rewrite Et|exact Hready|by eapply fixed_count|];
         intros at'; apply fixed_conv || apply little_endian_total);
    (eapply varints_total; [by rewrite Et|exact Hready|injection Ec as <-; lia|intros s at' Hs]);
    first [by apply uint32_conv | by apply uint64_conv | by apply parse_uint32_total | by apply parse_uint64_total | eauto].
Qed.

(** *** Other members *)

Lemma put_put ms o c c' : put (put ms o c) o c' = put ms o c'.
Proof. destruct o as [|o]; [done|]. apply list_insert_insert_eq. Qed.

Lemma struct_weaken d (cap cap' : ProtobufCFieldDescriptor D -> Z) ms : (forall f, cap' f <= cap f) ->
  struct_with_room desc d cap ms -> struct_with_room desc d cap' ms.
Proof.
  intros Hc Hms f Hf. specialize (Hms f Hf). unfold member_with_room in *. destruct (is_repeated f); [|done].
  destruct Hms as (n & p & ? & ? & ? & ? & ?). exists n, p. specialize (Hc f). split_and!; (done || lia).
Qed.

Lemma room_step d sm l ms : struct_with_room desc d (fun g => total g (sm :: l)) ms ->
  struct_with_room desc d (fun g => total g l) ms.
Proof. apply struct_weaken. intros f. rewrite total_cons. pose proof (taken_nonneg f sm). lia. Qed.

Lemma element_member f c : is_element (shaped desc) f c = true -> is_member (shaped desc) f c = true.
Proof. intros H. unfold is_member. rewrite H. apply orb_true_r. Qed.

Lemma optional_total d f sm cap ms : f ∈ fields (desc d) -> single f -> sm_ok d N sm -> struct_with_room desc d cap ms ->
  reads_members d cap (parse_optional_member desc unpack sm f ms).
Proof.
  intros Hf Hs (Hsz & HN & _) Hms. pose proof (Hms f Hf) as Hm. apply room_single in Hm as (c & Ho & Hc); [|done].
  unfold parse_optional_member. rewrite (member_some _ _ _ Ho). cbn [obind].
  destruct (parse_required_total d sm f c true Hf Hsz HN ltac:(done)) as (r & -> & Hr). cbn [obind].
  destruct r as [c'|]; [|by exists None]. rewrite (set_member_some _ _ _ _ Ho). cbn [obind].
  rewrite (single_quantifier desc Hwf d f Hf Hs). eexists. split; [done|]. intros ms' [= <-].
  apply update_single; [done..|]. by apply element_member, Hr.
Qed.

Lemma oneof_total d f sm cap ms : f ∈ fields (desc d) -> is_oneof f = true -> sm_ok d N sm -> tag sm = id f ->
  struct_with_room desc d cap ms -> reads_members d cap (parse_oneof_member desc unpack d sm f ms).
Proof.
  intros Hf Hu (Hsz & HN & _) Ht Hms. pose proof (Hms f Hf) as Hm. unfold member_with_room in Hm.
  rewrite (oneof_not_repeated f Hu), Hu in Hm. destruct Hm as (z & c & Hq & Ho & Hc).
  pose proof (wf_slots desc d (Hwf d) f Hf) as Hne.
  assert (Hrest : forall ms1, (ms1 = ms \/ ms1 = put ms (offset f) Zeroed) -> at_slot ms1 (offset f) = Some Zeroed ->
    reads_members d cap (let* c := member ms1 (offset f) in let* r := parse_required_member desc unpack sm f c true in
      match r with None => Ok None | Some c => let* ms := set_member ms1 (offset f) c in
        let* ms := set_member ms (quantifier_offset f) (Int (tag sm)) in Ok (Some ms) end)).
  { intros ms1 H1 Ho1. rewrite (member_some _ _ _ Ho1). cbn [obind].
    destruct (parse_required_total d sm f Zeroed true Hf Hsz HN ltac:(done)) as (r & -> & Hr). cbn [obind].
    destruct r as [c'|]; [|by exists None].
    assert (Hq1 : at_slot ms1 (quantifier_offset f) = Some (Int z)) by (destruct H1 as [-> | ->]; [done|by rewrite at_slot_put_ne]).
    destruct (set_o_then_q f ms1 (tag sm) c' _ _ Hne Hq1 Ho1) as [-> E]. cbn [obind]. rewrite E. cbn [obind].
    eexists. split; [done|]. intros ms' [= <-].
    assert (put2 f ms1 (tag sm) c' = put2 f ms (tag sm) c') as ->.
    { destruct H1 as [-> | ->]; [done|]. unfold put2. by rewrite put_put. }
    apply (put2_union desc Hwf d cap f f); [done..|]. right. split; [done|]. split; [|split; [done|by apply element_member, Hr]].
    unfold one_union. by rewrite Hu, !Nat.eqb_refl. }
  unfold parse_oneof_member. rewrite (at_member_some _ _ _ _ Hq). cbn [get_int obind].
  destruct Hc as [[-> ->]|(g & Hg & Hfg & <- & Hm)].
  - rewrite Z.eqb_refl. cbn [obind]. apply Hrest; [by left|done].
  - pose proof (wf_id desc d (Hwf d) g Hg). destruct (Z.eqb_spec (id g) 0); [lia|].
    pose proof Hg as [i Hi]%list_elem_of_lookup. rewrite (wf_lookup desc d (Hwf d) i g Hi). cbn [obind].
    destruct (Z.ltb_spec (Z.of_nat i) 0); [lia|]. rewrite Nat2Z.id, Hi, (member_some _ _ _ Ho). cbn [obind].
    assert (free_oneof g c = Ok tt) as ->.
    { apply is_member_cases in Hm. unfold free_oneof. destruct (type g); try done; [destruct Hm as [? ->]..|]; try done.
      by destruct Hm as [->|[->|(? & -> & _)]]. }
    cbn [obind]. rewrite (set_member_some _ _ _ _ Ho). cbn [obind]. apply Hrest; [by right|by eapply at_slot_put].
Qed.

Definition unknown_count (l : list (ScannedMember (D := D))) : nat :=
  foldr (fun sm n => match sm_field sm with None => S n | Some _ => n end) O l.

Definition filling_ok d (l : list (ScannedMember (D := D))) (st : filling (D := D)) : Prop :=
  struct_with_room desc d (fun g => total g l) (members st) /\
  (List.length (unknown_fields st) + unknown_count l <= room st)%nat.

Lemma parse_member_total d sm l st : sm_ok d N sm -> filling_ok d (sm :: l) st ->
  exists r, parse_member desc unpack d sm st = Ok r /\ forall st', r = Some st' -> filling_ok d l st'.
Proof.
  intros Hsm [Hms Hroom]. unfold parse_member. cbn [unknown_count foldr] in Hroom.
  pose proof Hsm as (_ & _ & Hfield). destruct (sm_field sm) as [f|] eqn:Es.
  - destruct (Hfield f eq_refl) as (Hf & Ht & _).
    assert (Hdone : forall r, reads_members d (fun g => total g l) r -> exists r', (let* r := r in
      match r with None => Ok None | Some ms => Ok (Some (set_members st ms)) end) = Ok r' /\
      forall st', r' = Some st' -> filling_ok d l st').
    { intros r (o & -> & Ho). cbn [obind]. destruct o as [ms|]; [|by exists None]. eexists. split; [done|].
      intros st' [= <-]. split; [by apply Ho|exact Hroom]. }
    apply Hdone. destruct (is_repeated f) eqn:Hr.
    + rewrite (repeated_label f Hr). destruct (is_packed f (wire_type sm)) eqn:Hp; [by apply packed_total|by apply repeated_total].
    + destruct (none_oneof desc Hwf d f Hf Hr) as [-> ->]. apply room_step in Hms.
      destruct (is_oneof f) eqn:Hu; [by apply oneof_total|by apply optional_total].
  - destruct (Nat.ltb_spec (List.length (unknown_fields st)) (room st)); [|lia]. eexists. split; [done|].
    intros st' [= <-]. split; [by eapply room_step|]. cbn. rewrite length_app. cbn. fold (unknown_count l) in Hroom. lia.
Qed.

Lemma parse_members_total d l : forall st, Forall (sm_ok d N) l -> filling_ok d l st ->
  exists r, parse_members desc unpack d l st = Ok r /\ forall st', r = Some st' -> filling_ok d [] st'.
Proof.
  induction l as [|sm l IH]; intros st Hl Hst; cbn [parse_members]; [eexists; split; [done|]; by intros ? [= <-]|].
  apply Forall_cons in Hl as [Hsm Hl]. destruct (parse_member_total d sm l st Hsm Hst) as (r & -> & Hr). cbn [obind].
  destruct r as [st'|]; [|by exists None]. by apply IH, Hr.
Qed.
End reading.
End members.

Section scan.
Context {D : Type} `{EqDecision D} (desc : D -> ProtobufCMessageDescriptor D).
Hypothesis Hwf : forall d, wf_descriptor (desc d) = true.
Implicit Types (f g : ProtobufCFieldDescriptor D) (ms : list (cell D)).

(** *** The scan *)

(** A struct during the scan: as it was initialised, but for the counts. *)
Definition counts_struct (d : D) (l : list (ScannedMember (D := D))) ms : Prop :=
  forall f, f ∈ fields (desc d) ->
    if is_repeated f then
      at_slot ms (quantifier_offset f) = Some (Int (total f l)) /\ at_slot ms (offset f) = Some (Arr None)
    else member_with_room desc d 0 f ms.

Lemma init_counts d : counts_struct d [] (message_init (desc d)).
Proof.
  intros f Hf. apply (wf_field desc d (Hwf d)) in Hf. unfold field_ok in Hf. split_andb.
  match goal with H : unset f _ = true |- _ => rename H into Hu end. unfold member_with_room.
  destruct (is_repeated f) eqn:Hr; [by apply unset_repeated|]. destruct (is_oneof f) eqn:Ho.
  - apply unset_oneof in Hu as [? ?]; [|done..]. exists 0, Zeroed. split; [done|]. split; [done|]. by left.
  - apply unset_single in Hu; [|done..]. eexists. split; [done|]. unfold is_member. by rewrite (proj2 (is_init_cell_spec _ _) eq_refl), orb_true_r.
Qed.

(** What the scan has read so far of [consumed] bytes. *)
Definition scan_ok (d : D) (consumed : nat) (s : scanning (D := D)) : Prop :=
  last_ok desc d s /\ counts_struct d (sms s) (rv s) /\ Forall (sm_ok desc d consumed) (sms s) /\
  (forall f, total f (sms s) <= Z.of_nat consumed) /\ n_unknown s = unknown_count (sms s).

Lemma lookup_total d last tag : (forall i, last = Some i -> (i < List.length (fields (desc d)))%nat) -> 0 <= tag < 2 ^ 32 ->
  exists r, lookup_field desc d last tag = Ok r /\
    forall i, r = Some i -> exists f, fields (desc d) !! i = Some f /\ tag = id f.
Proof.
  intros Hl Ht. unfold lookup_field.
  assert (Hlook : exists r, (let* i := int_range_lookup (field_ranges (desc d)) (signed32 tag) in
    Ok (if i <? 0 then None else Some (Z.to_nat i))) = Ok r /\
    forall i, r = Some i -> exists f, fields (desc d) !! i = Some f /\ tag = id f).
  { destruct (wf_lookup_total desc d (Hwf d) tag) as (r & -> & Hr). cbn [obind]. eexists. split; [done|].
    intros i. destruct (Z.ltb_spec r 0); [done|]. intros [= <-]. destruct Hr as [->|(_ & f & Hf & E)]; [lia|].
    exists f. split; [done|]. pose proof (list_elem_of_lookup_2 _ _ _ Hf) as Hin. apply (wf_id desc d (Hwf d)) in Hin.
    unfold signed32 in E. rewrite wrap32_id in E by lia. case_match; lia. }
  destruct last as [i|]; [|exact Hlook]. destruct (lookup_lt_is_Some_2 (fields (desc d)) i (Hl i eq_refl)) as [f Hf].
  rewrite Hf. destruct (Z.eqb_spec (id f) tag) as [E|]; [|exact Hlook]. eexists. split; [done|]. intros j [= <-]. by exists f.
Qed.

Lemma sm_ok_mono d N N' sm : (N <= N')%nat -> sm_ok desc d N sm -> sm_ok desc d N' sm.
Proof. intros Hle (? & ? & ?). split; [done|]. split; [lia|done]. Qed.

(** Counting a member. *)
Lemma count_total d f sm l ms : f ∈ fields (desc d) -> sm_field sm = Some f -> counts_struct d l ms ->
  exists r, count_member f sm ms = Ok r /\ forall ms', r = Some ms' ->
    counts_struct d (sm :: l) ms' /\ (is_repeated f = true -> exists n, count_of f sm = Some n).
Proof.
  intros Hf Es Hms. pose proof (Hms f Hf) as Hm. destruct (is_repeated f) eqn:Hr.
  - destruct Hm as [Hq Ho]. unfold count_member. rewrite (repeated_label f Hr). fold (count_of f sm).
    destruct (count_of f sm) as [n|] eqn:Ec; [|by exists None]. rewrite (at_member_some _ _ _ _ Hq). cbn [get_int obind].
    rewrite (set_member_some _ _ _ _ Hq). cbn [obind]. eexists. split; [done|]. intros ms' [= <-]. split; [|by exists n].
    pose proof (wf_slots desc d (Hwf d) f Hf) as Hne.
    intros g Hg. destruct (decide (id g = id f)) as [E|Hgf].
    + rewrite (fields_unique desc Hwf d g f Hg Hf E), Hr, total_cons, (taken_own f sm n) by done. split.
      * rewrite Z.add_comm. by eapply at_slot_put.
      * by rewrite at_slot_put_ne.
    + pose proof (fields_apart' desc Hwf d f g Hf Hg ltac:(congruence)) as Ha. apply apart_repeated in Ha; [|done].
      assert (Hsame : forall o, o ∈ slots g -> at_slot (put ms (quantifier_offset f) (Int (total f l + n))) o = at_slot ms o).
      { intros o Hg'. apply at_slot_put_ne. intros <-. eapply Ha; [|exact Hg']. apply quantifier_in_slots. by left. }
      specialize (Hms g Hg). destruct (is_repeated g) eqn:Hrg; [|by eapply member_with_room_slots].
      rewrite !Hsame by first [by apply offset_slot | apply quantifier_in_slots; by left].
      by rewrite total_cons, (taken_other f).
  - destruct (none_oneof desc Hwf d f Hf Hr) as [El _]. unfold count_member. rewrite El. eexists. split; [done|].
    intros ms' [= <-]. split; [|done]. intros g Hg. specialize (Hms g Hg). destruct (is_repeated g) eqn:Hrg; [|done].
    rewrite total_cons, (taken_other f); [done..|]. intros E. rewrite (fields_unique desc Hwf d g f Hg Hf E) in Hrg. congruence.
Qed.

Lemma taken_le f (sm : ScannedMember (D := D)) : taken f sm <= Z.of_nat (S (sm_len sm)).
Proof.
  unfold taken. destruct (sm_field sm) as [g|]; [|lia]. destruct (_ =? _); [|lia].
  destruct (count_of f sm) as [n|] eqn:E; [|lia]. unfold count_of in E. destruct (is_packed f _); [|injection E; lia].
  apply count_bounds in E. pose proof (payload_length sm). lia.
Qed.

Lemma scan_round_total d at' s c : at' <> [] -> scan_ok d c s ->
  exists r, scan_round desc d at' s = Ok r /\ forall rest s', r = Some (rest, s') ->
    (List.length rest < List.length at')%nat /\ scan_ok d (c + (List.length at' - List.length rest)) s'.
Proof.
  intros Hat (Hlast & Hcounts & Hsms & Htotal & Hunk). unfold scan_round.
  destruct (parse_tag_total at' Hat) as (h & -> & Hh). cbn [obind]. destruct h as [[[used tag] wt]|]; [|by exists None].
  destruct (Hh _ _ _ eq_refl) as [Hused Htag]. clear Hh.
  destruct (lookup_total d (last_field s) tag Hlast Htag) as (idx & -> & Hidx). cbn [obind].
  set (field := match idx with Some i => fields (desc d) !! i | None => None end).
  assert (Hfield : match idx with None => Ok None | Some i =>
    match fields (desc d) !! i with Some f => Ok (Some f) | None => Undef end end = Ok field /\
    (forall f, field = Some f -> f ∈ fields (desc d) /\ tag = id f)).
  { subst field. destruct idx as [i|]; [|done]. destruct (Hidx i eq_refl) as (f & Hf & Et). rewrite Hf. split; [done|].
    intros ? [= <-]. split; [by eapply list_elem_of_lookup_2|done]. }
  destruct Hfield as [-> Hfield]. cbn [obind].
  destruct (scan_member_total (D := D) wt (drop used at')) as (lens & -> & Hlens). cbn [obind].
  destruct lens as [[len pref]|]; [|by exists None]. destruct (next_slot _ _) as [[w k]|]; [|by exists None].
  destruct (Hlens _ _ eq_refl) as [Hlen Hsized]. clear Hlens.
  destruct (Nat.ltb_spec (List.length (drop used at')) len); [lia|].
  set (tmp := mkScanned tag wt pref field (take len (drop used at'))).
  assert (Hcounted : exists r, match field with Some f => count_member f tmp (rv s) | None => Ok (Some (rv s)) end = Ok r /\
    forall ms, r = Some ms -> counts_struct d (tmp :: sms s) ms /\
    forall f, field = Some f -> is_repeated f = true -> exists n, count_of f tmp = Some n).
  { destruct field as [f|] eqn:Ef.
    - destruct (Hfield f eq_refl) as [Hf _]. destruct (count_total d f tmp (sms s) (rv s) Hf eq_refl Hcounts) as (r & E & Hr).
      exists r. split; [done|]. intros ms E'. destruct (Hr ms E') as [? Hn]. split; [done|]. by intros ? [= <-].
    - eexists. split; [done|]. intros ms [= <-]. by split. }
  destruct Hcounted as (r & -> & Hr). cbn [obind]. destruct r as [ms|]; [|by exists None].
  destruct (Hr ms eq_refl) as [Hms Hn]. eexists. split; [done|]. intros rest s' [= <- <-]. rewrite !length_drop in *.
  split; [lia|]. assert (Elen : sm_len tmp = len) by (unfold sm_len; cbn [tmp data]; rewrite length_take, length_drop; lia).
  split_and!; cbn [sms rv last_field n_unknown].
  - intros i. destruct idx as [j|]; [|by apply Hlast]. intros [= <-]. destruct (Hidx j eq_refl) as (f & Hf & _). by eapply lookup_lt_Some.
  - exact Hms.
  - constructor; [|eapply Forall_impl; [exact Hsms|]; intros sm; apply sm_ok_mono; lia].
    split; [apply Hsized|]. split; [lia|]. intros f E. destruct (Hfield f E). split; [done|]. split; [done|]. by apply Hn.
  - intros f. rewrite total_cons. specialize (Htotal f). pose proof (taken_le f tmp). lia.
  - cbn. rewrite Hunk. by destruct field.
Qed.

Lemma scan_loop_total d : forall fuel at' s c, (List.length at' <= fuel)%nat -> scan_ok d c s ->
  exists r, scan_loop desc fuel d at' s = Ok r /\ forall s', r = Some s' -> scan_ok d (c + List.length at') s'.
Proof.
  induction fuel as [|fuel IH]; intros at' s c Hf Hs.
  { destruct at'; [|cbn in Hf; lia]. eexists. split; [done|]. intros ? [= <-]. by rewrite Nat.add_0_r. }
  destruct at' as [|b bs] eqn:E. { eexists. split; [done|]. intros ? [= <-]. by rewrite Nat.add_0_r. }
  cbn [scan_loop]. rewrite <-E in *. destruct (scan_round_total d at' s c ltac:(congruence) Hs) as (r & -> & Hr). cbn [obind].
  destruct r as [[rest s1]|]; [|by exists None]. destruct (Hr _ _ eq_refl) as [Hlt Hs1].
  destruct (IH rest s1 _ ltac:(lia) Hs1) as (r' & -> & Hr'). eexists. split; [done|]. intros s' ->.
  specialize (Hr' _ eq_refl). by replace (c + List.length at')%nat with (c + (List.length at' - List.length rest) + List.length rest)%nat by lia.
Qed.

(** *** The blocks *)

Lemma allocate_total d l bitmap ms : counts_struct d l ms -> (forall f, total f l < 2 ^ 32) ->
  exists ms', allocate bitmap O (fields (desc d)) ms = Ok (Some ms') /\ struct_with_room desc d (fun f => total f l) ms'.
Proof.
  intros Hms Hl. pose proof (Hwf d) as Hd. unfold wf_descriptor in Hd. split_andb.
  destruct (allocate_spec desc d (Hwf d) (fields (desc d)) ms) as (ms' & E & Hb); [done|done| |].
  { intros f Hf Hr. specialize (Hms f Hf). rewrite Hr in Hms. destruct Hms as [Hq Ho]. pose proof (total_nonneg f l).
    exists (Z.to_nat (total f l)), (Arr None). rewrite Z2Nat.id by done. split; [done|]. split; [apply Hl|done]. }
  exists ms'. split; [apply E|]. destruct Hb as (Hb1 & _ & Hb3). intros f Hf. pose proof (Hms f Hf) as Hm. unfold member_with_room.
  assert (Hstay : (forall o, o ∈ slots f -> forall g, g ∈ fields (desc d) -> is_repeated g = true ->
    at_slot ms (quantifier_offset g) <> Some (Int 0) -> o ∉ slots g) -> forall o, o ∈ slots f -> at_slot ms' o = at_slot ms o).
  { intros Hd' o Ho. apply Hb3. eauto. }
  assert (Hdis : forall g, g ∈ fields (desc d) -> is_repeated g = true -> id g <> id f -> forall o, o ∈ slots f -> o ∉ slots g).
  { intros g Hg Hrg Hne o Ho Ho'. pose proof (fields_apart' desc Hwf d g f Hg Hf ltac:(congruence)) as Ha.
    apply apart_repeated in Ha; [|done]. by apply (Ha o). }
  destruct (is_repeated f) eqn:Hr.
  - destruct Hm as [Hq Ho]. pose proof (total_nonneg f l). destruct (decide (total f l = 0)) as [Ez|Hz].
    + assert (Hsame : forall o, o ∈ slots f -> at_slot ms' o = at_slot ms o).
      { apply Hstay. intros o Hof g Hg Hrg Hne. destruct (decide (id g = id f)) as [Eg|]; [|by apply Hdis].
        rewrite (fields_unique desc Hwf d g f Hg Hf Eg), Hq, Ez in Hne. done. }
      exists 0, None. rewrite !Hsame by first [by apply offset_slot | apply quantifier_in_slots; by left].
      rewrite Hq, Ez. by split_and!.
    + destruct (Hb1 f (Z.to_nat (total f l)) Hf Hr) as [Hq' Ho']; [by rewrite Z2Nat.id|lia|].
      exists 0, (Some (replicate (Z.to_nat (total f l)) Garbage)). split_and!; try done.
      cbn [elements]. rewrite length_replicate. lia.
  - change (member_with_room desc d 0 f ms) in Hm.
    assert (Hm' : member_with_room desc d 0 f ms').
    { eapply member_with_room_slots; [|exact Hm]. apply Hstay. intros o Hof g Hg Hrg _. apply Hdis; [done..| |done].
      intros Eg. rewrite (fields_unique desc Hwf d g f Hg Hf Eg) in Hrg. congruence. }
    unfold member_with_room in Hm'. by rewrite Hr in Hm'.
Qed.

(** *** The function *)

Lemma unknown_count_app (l l' : list (ScannedMember (D := D))) : unknown_count (l ++ l') = (unknown_count l + unknown_count l')%nat.
Proof. induction l as [|sm l IH]; [done|]. cbn [app unknown_count foldr]. fold (unknown_count (l ++ l')) (unknown_count l). destruct (sm_field sm); lia. Qed.

Lemma unknown_count_rev (l : list (ScannedMember (D := D))) : unknown_count (rev l) = unknown_count l.
Proof.
  induction l as [|sm l IH]; [done|]. cbn [rev]. rewrite unknown_count_app, IH. cbn. fold (unknown_count l).
  destruct (sm_field sm); lia.
Qed.

Lemma unpack_total fuel : forall d bs, (List.length bs < fuel)%nat -> Z.of_nat (List.length bs) < 2 ^ 32 ->
  exists r, message_unpack desc fuel d bs = Ok r /\ forall m, r = Some m -> message_descriptor m = d /\ shaped desc m = true.
Proof.
  induction fuel as [|fuel IH]; intros d bs Hf Hbs; [lia|]. cbn [message_unpack]. cbv zeta.
  edestruct (scan_loop_total d (List.length bs) bs) as (r & E & Hr); [done| |rewrite E; cbn [obind]].
  { instantiate (1 := O). split_and!; cbn [sms rv last_field n_unknown]; [|apply init_counts|constructor|done|done].
    intros i. cbn [last_field]. destruct (fields (desc d)); [done|]. intros [= <-]. cbn. lia. }
  destruct r as [s|]; [|by exists None]. destruct (Hr s eq_refl) as (_ & Hcounts & Hsms & Htotal & Hunk). cbn [Nat.add] in *.
  destruct (allocate_total d (sms s) (required_fields_bitmap s) (rv s) Hcounts) as (ms & -> & Hms).
  { intros f. specialize (Htotal f). lia. }
  cbn [obind].
  destruct (parse_members_total desc Hwf (message_unpack desc fuel) (List.length bs)) with (d := d) (l := rev (sms s))
    (st := mkFilling ms [] (n_unknown s)) as (r & -> & Hr').
  { intros d' bs' Hl. apply IH; lia. }
  { by apply Forall_rev. }
  { split; cbn [members unknown_fields room].
    - eapply struct_weaken; [|exact Hms]. intros f. rewrite total_rev. lia.
    - rewrite unknown_count_rev, Hunk. cbn. lia. }
  cbn [obind]. destruct r as [st|]; [|by exists None]. destruct (Hr' st eq_refl) as [Hst _]. eexists. split; [done|].
  intros m [= <-]. split; [done|]. apply shaped_spec. exact Hst.
Qed.
End scan.

(** * The theorems *)

(** C16. A message whose members fit the table of its type (numbers in the range of
    their type, no float -0, no zero byte in a string) is packed in as many bytes
    as [protobuf_c_message_get_packed_size] says, and [protobuf_c_message_unpack]
    makes the same message of them: every field, repeated, packed, or member of the
    union, and all messages in it; up to 2^27 - 16 bytes, as every member needs a
    place in the slabs of the scan. *)
Theorem message_unpack_pack m n : fits descriptors m = true ->
  protobuf_c_message_get_packed_size descriptors m = Ok n -> n <= max_members ->
  exists bs, protobuf_c_message_pack descriptors m = Ok bs /\ Z.of_nat (List.length bs) = n /\
    protobuf_c_message_unpack descriptors (message_descriptor m) bs = Ok (Some m).
Proof.
  intros Hfit Hs Hn. destruct (message_sized descriptors descriptors_wf _ _ m Hfit) as (k & E & Hk & Hp).
  rewrite Hs in E. injection E as <-. unfold max_members in Hn. destruct Hp as (bs & E & Hl); [lia|].
  exists bs. split; [done|]. split; [done|]. apply pack_unpack; (done || exact descriptors_wf || (unfold max_members; lia)).
Qed.

(** The type of a cast. *)
Definition cast (m : message Descriptor) : message Descriptor :=
  Message pg_query__type_cast__descriptor [Msg None; Msg (Some m); Int 0] [].
Definition type_named (setof pct_type : Z) : message Descriptor :=
  Message pg_query__type_name__descriptor
    [Int 0; Arr None; Int 0; Int setof; Int pct_type; Int 0; Arr None; Int 0; Int 0; Arr None; Int 0] [].

(** A target that is an alias: unions in unions and in arrays, a string, numbers below 0. *)
Definition node (case : Z) (m : message Descriptor) : message Descriptor :=
  Message pg_query__node__descriptor [Int case; Msg (Some m)] [].
Definition sample_target : message Descriptor :=
  node 176 (Message pg_query__res_target__descriptor
    [Str protobuf_c_empty_string; Int 0; Arr None;
     Msg (Some (node 1 (Message pg_query__alias__descriptor
       [Str (heap_string "x"); Int 2; Arr (Some [Msg (Some (node 221 (Message pg_query__integer__descriptor [Int (-5)] [])));
         Msg (Some (node 222 (Message pg_query__float__descriptor [Str (heap_string "1.5")] [])))])] [])));
     Int 7] []).

Lemma message_unpack_pack_witness : exists bs, protobuf_c_message_pack descriptors sample_target = Ok bs /\
  Z.of_nat (List.length bs) = 38 /\
  protobuf_c_message_unpack descriptors pg_query__node__descriptor bs = Ok (Some sample_target).
Proof. apply (message_unpack_pack sample_target); by vm_compute. Defined.

(** C17. Whatever the bytes are, if they are less than 2^32, [protobuf_c_message_unpack]
    comes to an end, without an access outside its input, outside a block or to a member
    as something it is not, in the scan, the counting, the filling and the merging; it
    refuses the bytes or returns a struct of the type that was asked for, of which every
    member holds what its field says, every array the elements that are counted and
    every union the member of its case. *)
Theorem message_unpack_safe d bs : Z.of_nat (List.length bs) < 2 ^ 32 ->
  exists r, protobuf_c_message_unpack descriptors d bs = Ok r /\
    forall m, r = Some m -> message_descriptor m = d /\ shaped descriptors m = true.
Proof. intros Hbs. apply (unpack_total descriptors descriptors_wf); [lia|done]. Qed.

(** A message field that comes twice, and a field that the table does not have. *)
Definition packed (m : message Descriptor) : bytes :=
  match protobuf_c_message_pack descriptors m with Ok bs => bs | _ => [] end.
Definition stray_bytes : bytes :=
  packed (cast (type_named 1 0)) ++ packed (cast (type_named 0 1)) ++ map byte [250; 1; 0].

Lemma message_unpack_safe_witness : exists r,
  protobuf_c_message_unpack descriptors pg_query__type_cast__descriptor stray_bytes = Ok r /\
  forall m, r = Some m -> message_descriptor m = pg_query__type_cast__descriptor /\ shaped descriptors m = true.
Proof. apply (message_unpack_safe pg_query__type_cast__descriptor stray_bytes). reflexivity. Defined.

(** C18. For every message that has the members of its table, with any numbers and
    strings, the size is computed, and if it is less than 2^32 the message is packed
    in exactly so many bytes: no assertion of [repeated_field_pack] fails, and
    nothing is written behind the buffer that the caller allocates. *)
Theorem message_packed_size m : well_typed descriptors (fun _ _ => true) (fun _ => true) m = true ->
  exists n, protobuf_c_message_get_packed_size descriptors m = Ok n /\ 0 <= n /\
    (n < 2 ^ 32 -> exists bs, protobuf_c_message_pack descriptors m = Ok bs /\ Z.of_nat (List.length bs) = n).
Proof. apply message_sized, descriptors_wf. Qed.

Lemma message_packed_size_witness :
  exists n, protobuf_c_message_get_packed_size descriptors sample_target = Ok n /\ 0 <= n /\
    (n < 2 ^ 32 -> exists bs, protobuf_c_message_pack descriptors sample_target = Ok bs /\ Z.of_nat (List.length bs) = n).
Proof. apply (message_packed_size sample_target). reflexivity. Defined.

(** In every table both searches find a field if and only if it is there: the
    one by name over the order of the names, and the one by number over the ranges. *)
Theorem fields_are_found d s value :
  exists by_name by_number,
    protobuf_c_message_descriptor_get_field_by_name (descriptors d) s = Ok by_name /\
    protobuf_c_message_descriptor_get_field (descriptors d) value = Ok by_number /\
    match by_name with
    | Some f => f ∈ fields (descriptors d) /\ name f = s
    | None => forall f, f ∈ fields (descriptors d) -> name f <> s
    end /\
    match by_number with
    | Some f => f ∈ fields (descriptors d) /\ id f = signed32 value
    | None => forall f, f ∈ fields (descriptors d) -> id f <> signed32 value
    end.
Proof.
  destruct (get_field_by_name_spec (descriptors d) (descriptors_names d) s) as (r & E & H).
  destruct (get_field_spec (descriptors d) value (descriptors_wf d)) as (r' & E' & H'). by exists r, r'.
Qed.

(** *** Members that come twice *)

(** The bytes of two messages, one behind the other, are a message in which the second is
    merged into the first; a number that only the first sets is lost, as [merge_messages]
    takes a member without a [has_] for one that need not be merged. *)
Definition concatenated (m m' : message Descriptor) : outcome (option (message Descriptor)) :=
  let* bs := protobuf_c_message_pack descriptors m in
  let* bs' := protobuf_c_message_pack descriptors m' in
  protobuf_c_message_unpack descriptors (message_descriptor m) (bs ++ bs').

Example merge_drops_numbers : concatenated (cast (type_named 1 0)) (cast (type_named 0 1)) = Ok (Some (cast (type_named 0 1))).
Proof. by vm_compute. Qed.

(** And a message whose union is not set is refused if it comes twice. *)
Definition unset_node : message Descriptor := Message pg_query__node__descriptor [Int 0; Zeroed] [].
Definition cast_of (m : message Descriptor) : message Descriptor :=
  Message pg_query__type_cast__descriptor [Msg (Some m); Msg None; Int 0] [].
Example merge_refuses_unset_union :
  concatenated (cast_of unset_node) (cast_of unset_node) = Ok None.
Proof. by vm_compute. Qed.
