(* ===== verification/ProtobufStruct.v ===== *)
(** * Messages as structs and as bytes

    The messages of [Messages], a record each, in the memory of the protocol-buffer
    library: the members of the struct of [pg_query.pb-c.h] in their order, a string that
    is empty as [protobuf_c_empty_string], a repeated field as its [n_] and its block, the
    union as its case and the pointer.  [to_] makes the struct, [of_] reads it; reading a
    struct of another type than the code takes it for is [Undef].  The operands of a set
    operation are the structs without the union, which [of_node] reads too.  A struct
    that is made of a message is read back as it; so the library is a coding of
    messages in bytes, an instance of the class [Wire] that the entry points take. *)
From S2P Require Import Prelude Parse Messages ProtobufC ProtobufCDesc ProtobufCPack ProtobufCUnpack.
From S2P Require Import ProtobufTables.

Open Scope Z_scope.
Open Scope list_scope.

Abbreviation struct := (message Descriptor).
Abbreviation scell := (cell Descriptor).

(** ** Members *)

Definition c_str (s : string) : scell :=
  Str (match s with EmptyString => protobuf_c_empty_string | _ => heap_string s end).
Definition c_int (z : Z) : scell := Int z.
Definition c_bool (b : bool) : scell := Int (if b then 1 else 0).
Definition c_array {A} (elem : A -> struct) (l : list A) : scell :=
  Arr (match l with [] => None | _ => Some (map (fun x => Msg (Some (elem x))) l) end).
Definition c_count {A} (l : list A) : scell := Int (Z.of_nat (List.length l)).
Definition c_ptr {A} (elem : A -> struct) (p : option A) : scell := Msg (option_map elem p).

Definition r_str (c : scell) : outcome string :=
  match c with Str NULL_string => Undef | Str p => Ok (chars p) | _ => Undef end.
Definition r_int (c : scell) : outcome Z := get_int c.
Definition r_bool (c : scell) : outcome bool := let* z := get_int c in Ok (negb (z =? 0)).
Definition r_elem {A} (elem : struct -> outcome A) (c : scell) : outcome A :=
  match c with Msg (Some m) => elem m | _ => Undef end.
Definition r_array {A} (elem : struct -> outcome A) (count array : scell) : outcome (list A) :=
  let* n := get_int count in
  match array with
  | Arr None => if n =? 0 then Ok [] else Undef
  | Arr (Some l) => let* xs := mapo (r_elem elem) l in if n =? Z.of_nat (List.length xs) then Ok xs else Undef
  | _ => Undef
  end.
Definition r_ptr {A} (elem : struct -> outcome A) (c : scell) : outcome (option A) :=
  match c with Msg None => Ok None | Msg (Some m) => let* x := elem m in Ok (Some x) | _ => Undef end.

(** A struct of a type. *)
Definition s_msg {A} (d : Descriptor) (to : A -> list scell) (x : A) : struct := Message d (to x) [].
Definition o_msg {A} (d : Descriptor) (read : list scell -> outcome A) (m : struct) : outcome A :=
  match m with Message d' ms _ => if decide (d' = d) then read ms else Undef end.

(** The operand of a set operation: the struct in the union, without the union. *)
Definition union_member (m : struct) : struct :=
  match m with Message _ [_; Msg (Some m')] _ => m' | _ => m end.
Definition s_select (to_node : PgQuery__Node -> struct) (n : PgQuery__Node) : struct :=
  match n with Node_select_stmt _ => union_member (to_node n) | _ => to_node n end.
Section structs.
Variable to_node : PgQuery__Node -> struct.
Variable of_node : struct -> outcome PgQuery__Node.

(** ** Structs *)

Definition to_Alias (x : PgQuery__Alias.t PgQuery__Node) : list scell :=
  [c_str x.(PgQuery__Alias.aliasname);
   c_count x.(PgQuery__Alias.colnames);
   c_array to_node x.(PgQuery__Alias.colnames)].
Definition of_Alias (ms : list scell) : outcome (PgQuery__Alias.t PgQuery__Node) :=
  match ms with
  | [c1; c2; c3] =>
      let* f1 := r_str c1 in
      let* f2 := r_array of_node c2 c3 in
      Ok {| PgQuery__Alias.aliasname := f1;
            PgQuery__Alias.colnames := f2 |}
  | _ => Undef
  end.

Definition to_RangeVar (x : PgQuery__RangeVar.t PgQuery__Node) : list scell :=
  [c_str x.(PgQuery__RangeVar.catalogname);
   c_str x.(PgQuery__RangeVar.schemaname);
   c_str x.(PgQuery__RangeVar.relname);
   c_bool x.(PgQuery__RangeVar.inh);
   c_str x.(PgQuery__RangeVar.relpersistence);
   c_ptr (s_msg pg_query__alias__descriptor to_Alias) x.(PgQuery__RangeVar.alias);
   c_int x.(PgQuery__RangeVar.location)].
Definition of_RangeVar (ms : list scell) : outcome (PgQuery__RangeVar.t PgQuery__Node) :=
  match ms with
  | [c1; c2; c3; c4; c5; c6; c7] =>
      let* f1 := r_str c1 in
      let* f2 := r_str c2 in
      let* f3 := r_str c3 in
      let* f4 := r_bool c4 in
      let* f5 := r_str c5 in
      let* f6 := r_ptr (o_msg pg_query__alias__descriptor of_Alias) c6 in
      let* f7 := r_int c7 in
      Ok {| PgQuery__RangeVar.catalogname := f1;
            PgQuery__RangeVar.schemaname := f2;
            PgQuery__RangeVar.relname := f3;
            PgQuery__RangeVar.inh := f4;
            PgQuery__RangeVar.relpersistence := f5;
            PgQuery__RangeVar.alias := f6;
            PgQuery__RangeVar.location := f7 |}
  | _ => Undef
  end.

Definition to_TypeName (x : PgQuery__TypeName.t PgQuery__Node) : list scell :=
  [c_count x.(PgQuery__TypeName.names);
   c_array to_node x.(PgQuery__TypeName.names);
   c_int x.(PgQuery__TypeName.type_oid);
   c_bool x.(PgQuery__TypeName.setof);
   c_bool x.(PgQuery__TypeName.pct_type);
   c_count x.(PgQuery__TypeName.typmods);
   c_array to_node x.(PgQuery__TypeName.typmods);
   c_int x.(PgQuery__TypeName.typemod);
   c_count x.(PgQuery__TypeName.array_bounds);
   c_array to_node x.(PgQuery__TypeName.array_bounds);
   c_int x.(PgQuery__TypeName.location)].
Definition of_TypeName (ms : list scell) : outcome (PgQuery__TypeName.t PgQuery__Node) :=
  match ms with
  | [c1; c2; c3; c4; c5; c6; c7; c8; c9; c10; c11] =>
      let* f1 := r_array of_node c1 c2 in
      let* f2 := r_int c3 in
      let* f3 := r_bool c4 in
      let* f4 := r_bool c5 in
      let* f5 := r_array of_node c6 c7 in
      let* f6 := r_int c8 in
      let* f7 := r_array of_node c9 c10 in
      let* f8 := r_int c11 in
      Ok {| PgQuery__TypeName.names := f1;
            PgQuery__TypeName.type_oid := f2;
            PgQuery__TypeName.setof := f3;
            PgQuery__TypeName.pct_type := f4;
            PgQuery__TypeName.typmods := f5;
            PgQuery__TypeName.typemod := f6;
            PgQuery__TypeName.array_bounds := f7;
            PgQuery__TypeName.location := f8 |}
  | _ => Undef
  end.

Definition to_ColumnRef (x : PgQuery__ColumnRef.t PgQuery__Node) : list scell :=
  [c_count x.(PgQuery__ColumnRef.fields);
   c_array to_node x.(PgQuery__ColumnRef.fields);
   c_int x.(PgQuery__ColumnRef.location)].
Definition of_ColumnRef (ms : list scell) : outcome (PgQuery__ColumnRef.t PgQuery__Node) :=
  match ms with
  | [c1; c2; c3] =>
      let* f1 := r_array of_node c1 c2 in
      let* f2 := r_int c3 in
      Ok {| PgQuery__ColumnRef.fields := f1;
            PgQuery__ColumnRef.location := f2 |}
  | _ => Undef
  end.

Definition to_ParamRef (x : PgQuery__ParamRef.t PgQuery__Node) : list scell :=
  [c_int x.(PgQuery__ParamRef.number);
   c_int x.(PgQuery__ParamRef.location)].
Definition of_ParamRef (ms : list scell) : outcome (PgQuery__ParamRef.t PgQuery__Node) :=
  match ms with
  | [c1; c2] =>
      let* f1 := r_int c1 in
      let* f2 := r_int c2 in
      Ok {| PgQuery__ParamRef.number := f1;
            PgQuery__ParamRef.location := f2 |}
  | _ => Undef
  end.

Definition to_AExpr (x : PgQuery__AExpr.t PgQuery__Node) : list scell :=
  [c_int x.(PgQuery__AExpr.kind);
   c_count x.(PgQuery__AExpr.name);
   c_array to_node x.(PgQuery__AExpr.name);
   c_ptr to_node x.(PgQuery__AExpr.lexpr);
   c_ptr to_node x.(PgQuery__AExpr.rexpr);
   c_int x.(PgQuery__AExpr.location)].
Definition of_AExpr (ms : list scell) : outcome (PgQuery__AExpr.t PgQuery__Node) :=
  match ms with
  | [c1; c2; c3; c4; c5; c6] =>
      let* f1 := r_int c1 in
      let* f2 := r_array of_node c2 c3 in
      let* f3 := r_ptr of_node c4 in
      let* f4 := r_ptr of_node c5 in
      let* f5 := r_int c6 in
      Ok {| PgQuery__AExpr.kind := f1;
            PgQuery__AExpr.name := f2;
            PgQuery__AExpr.lexpr := f3;
            PgQuery__AExpr.rexpr := f4;
            PgQuery__AExpr.location := f5 |}
  | _ => Undef
  end.

Definition to_AConst (x : PgQuery__AConst.t PgQuery__Node) : list scell :=
  [c_ptr to_node x.(PgQuery__AConst.val);
   c_int x.(PgQuery__AConst.location)].
Definition of_AConst (ms : list scell) : outcome (PgQuery__AConst.t PgQuery__Node) :=
  match ms with
  | [c1; c2] =>
      let* f1 := r_ptr of_node c1 in
      let* f2 := r_int c2 in
      Ok {| PgQuery__AConst.val := f1;
            PgQuery__AConst.location := f2 |}
  | _ => Undef
  end.

Definition to_TypeCast (x : PgQuery__TypeCast.t PgQuery__Node) : list scell :=
  [c_ptr to_node x.(PgQuery__TypeCast.arg);
   c_ptr (s_msg pg_query__type_name__descriptor to_TypeName) x.(PgQuery__TypeCast.type_name);
   c_int x.(PgQuery__TypeCast.location)].
Definition of_TypeCast (ms : list scell) : outcome (PgQuery__TypeCast.t PgQuery__Node) :=
  match ms with
  | [c1; c2; c3] =>
      let* f1 := r_ptr of_node c1 in
      let* f2 := r_ptr (o_msg pg_query__type_name__descriptor of_TypeName) c2 in
      let* f3 := r_int c3 in
      Ok {| PgQuery__TypeCast.arg := f1;
            PgQuery__TypeCast.type_name := f2;
            PgQuery__TypeCast.location := f3 |}
  | _ => Undef
  end.

Definition to_CollateClause (x : PgQuery__CollateClause.t PgQuery__Node) : list scell :=
  [c_ptr to_node x.(PgQuery__CollateClause.arg);
   c_count x.(PgQuery__CollateClause.collname);
   c_array to_node x.(PgQuery__CollateClause.collname);
   c_int x.(PgQuery__CollateClause.location)].
Definition of_CollateClause (ms : list scell) : outcome (PgQuery__CollateClause.t PgQuery__Node) :=
  match ms with
  | [c1; c2; c3; c4] =>
      let* f1 := r_ptr of_node c1 in
      let* f2 := r_array of_node c2 c3 in
      let* f3 := r_int c4 in
      Ok {| PgQuery__CollateClause.arg := f1;
            PgQuery__CollateClause.collname := f2;
            PgQuery__CollateClause.location := f3 |}
  | _ => Undef
  end.

Definition to_RoleSpec (x : PgQuery__RoleSpec.t PgQuery__Node) : list scell :=
  [c_int x.(PgQuery__RoleSpec.roletype);
   c_str x.(PgQuery__RoleSpec.rolename);
   c_int x.(PgQuery__RoleSpec.location)].
Definition of_RoleSpec (ms : list scell) : outcome (PgQuery__RoleSpec.t PgQuery__Node) :=
  match ms with
  | [c1; c2; c3] =>
      let* f1 := r_int c1 in
      let* f2 := r_str c2 in
      let* f3 := r_int c3 in
      Ok {| PgQuery__RoleSpec.roletype := f1;
            PgQuery__RoleSpec.rolename := f2;
            PgQuery__RoleSpec.location := f3 |}
  | _ => Undef
  end.

Definition to_WindowDef (x : PgQuery__WindowDef.t PgQuery__Node) : list scell :=
  [c_str x.(PgQuery__WindowDef.name);
   c_str x.(PgQuery__WindowDef.refname);
   c_count x.(PgQuery__WindowDef.partition_clause);
   c_array to_node x.(PgQuery__WindowDef.partition_clause);
   c_count x.(PgQuery__WindowDef.order_clause);
   c_array to_node x.(PgQuery__WindowDef.order_clause);
   c_int x.(PgQuery__WindowDef.frame_options);
   c_ptr to_node x.(PgQuery__WindowDef.start_offset);
   c_ptr to_node x.(PgQuery__WindowDef.end_offset);
   c_int x.(PgQuery__WindowDef.location)].
Definition of_WindowDef (ms : list scell) : outcome (PgQuery__WindowDef.t PgQuery__Node) :=
  match ms with
  | [c1; c2; c3; c4; c5; c6; c7; c8; c9; c10] =>
      let* f1 := r_str c1 in
      let* f2 := r_str c2 in
      let* f3 := r_array of_node c3 c4 in
      let* f4 := r_array of_node c5 c6 in
      let* f5 := r_int c7 in
      let* f6 := r_ptr of_node c8 in
      let* f7 := r_ptr of_node c9 in
      let* f8 := r_int c10 in
      Ok {| PgQuery__WindowDef.name := f1;
            PgQuery__WindowDef.refname := f2;
            PgQuery__WindowDef.partition_clause := f3;
            PgQuery__WindowDef.order_clause := f4;
            PgQuery__WindowDef.frame_options := f5;
            PgQuery__WindowDef.start_offset := f6;
            PgQuery__WindowDef.end_offset := f7;
            PgQuery__WindowDef.location := f8 |}
  | _ => Undef
  end.

Definition to_SortBy (x : PgQuery__SortBy.t PgQuery__Node) : list scell :=
  [c_ptr to_node x.(PgQuery__SortBy.node);
   c_int x.(PgQuery__SortBy.sortby_dir);
   c_int x.(PgQuery__SortBy.sortby_nulls);
   c_count x.(PgQuery__SortBy.use_op);
   c_array to_node x.(PgQuery__SortBy.use_op);
   c_int x.(PgQuery__SortBy.location)].
Definition of_SortBy (ms : list scell) : outcome (PgQuery__SortBy.t PgQuery__Node) :=
  match ms with
  | [c1; c2; c3; c4; c5; c6] =>
      let* f1 := r_ptr of_node c1 in
      let* f2 := r_int c2 in
      let* f3 := r_int c3 in
      let* f4 := r_array of_node c4 c5 in
      let* f5 := r_int c6 in
      Ok {| PgQuery__SortBy.node := f1;
            PgQuery__SortBy.sortby_dir := f2;
            PgQuery__SortBy.sortby_nulls := f3;
            PgQuery__SortBy.use_op := f4;
            PgQuery__SortBy.location := f5 |}
  | _ => Undef
  end.

Definition to_FuncCall (x : PgQuery__FuncCall.t PgQuery__Node) : list scell :=
  [c_count x.(PgQuery__FuncCall.funcname);
   c_array to_node x.(PgQuery__FuncCall.funcname);
   c_count x.(PgQuery__FuncCall.args);
   c_array to_node x.(PgQuery__FuncCall.args);
   c_count x.(PgQuery__FuncCall.agg_order);
   c_array to_node x.(PgQuery__FuncCall.agg_order);
   c_ptr to_node x.(PgQuery__FuncCall.agg_filter);
   c_bool x.(PgQuery__FuncCall.agg_within_group);
   c_bool x.(PgQuery__FuncCall.agg_star);
   c_bool x.(PgQuery__FuncCall.agg_distinct);
   c_bool x.(PgQuery__FuncCall.func_variadic);
   c_ptr (s_msg pg_query__window_def__descriptor to_WindowDef) x.(PgQuery__FuncCall.over);
   c_int x.(PgQuery__FuncCall.location)].
Definition of_FuncCall (ms : list scell) : outcome (PgQuery__FuncCall.t PgQuery__Node) :=
  match ms with
  | [c1; c2; c3; c4; c5; c6; c7; c8; c9; c10; c11; c12; c13] =>
      let* f1 := r_array of_node c1 c2 in
      let* f2 := r_array of_node c3 c4 in
      let* f3 := r_array of_node c5 c6 in
      let* f4 := r_ptr of_node c7 in
      let* f5 := r_bool c8 in
      let* f6 := r_bool c9 in
      let* f7 := r_bool c10 in
      let* f8 := r_bool c11 in
      let* f9 := r_ptr (o_msg pg_query__window_def__descriptor of_WindowDef) c12 in
      let* f10 := r_int c13 in
      Ok {| PgQuery__FuncCall.funcname := f1;
            PgQuery__FuncCall.args := f2;
            PgQuery__FuncCall.agg_order := f3;
            PgQuery__FuncCall.agg_filter := f4;
            PgQuery__FuncCall.agg_within_group := f5;
            PgQuery__FuncCall.agg_star := f6;
            PgQuery__FuncCall.agg_distinct := f7;
            PgQuery__FuncCall.func_variadic := f8;
            PgQuery__FuncCall.over := f9;
            PgQuery__FuncCall.location := f10 |}
  | _ => Undef
  end.

Definition to_AStar (x : PgQuery__AStar.t PgQuery__Node) : list scell := [].
Definition of_AStar (ms : list scell) : outcome (PgQuery__AStar.t PgQuery__Node) :=
  match ms with [] => Ok PgQuery__AStar.mk | _ => Undef end.

Definition to_AIndices (x : PgQuery__AIndices.t PgQuery__Node) : list scell :=
  [c_bool x.(PgQuery__AIndices.is_slice);
   c_ptr to_node x.(PgQuery__AIndices.lidx);
   c_ptr to_node x.(PgQuery__AIndices.uidx)].
Definition of_AIndices (ms : list scell) : outcome (PgQuery__AIndices.t PgQuery__Node) :=
  match ms with
  | [c1; c2; c3] =>
      let* f1 := r_bool c1 in
      let* f2 := r_ptr of_node c2 in
      let* f3 := r_ptr of_node c3 in
      Ok {| PgQuery__AIndices.is_slice := f1;
            PgQuery__AIndices.lidx := f2;
            PgQuery__AIndices.uidx := f3 |}
  | _ => Undef
  end.

Definition to_AIndirection (x : PgQuery__AIndirection.t PgQuery__Node) : list scell :=
  [c_ptr to_node x.(PgQuery__AIndirection.arg);
   c_count x.(PgQuery__AIndirection.indirection);
   c_array to_node x.(PgQuery__AIndirection.indirection)].
Definition of_AIndirection (ms : list scell) : outcome (PgQuery__AIndirection.t PgQuery__Node) :=
  match ms with
  | [c1; c2; c3] =>
      let* f1 := r_ptr of_node c1 in
      let* f2 := r_array of_node c2 c3 in
      Ok {| PgQuery__AIndirection.arg := f1;
            PgQuery__AIndirection.indirection := f2 |}
  | _ => Undef
  end.

Definition to_AArrayExpr (x : PgQuery__AArrayExpr.t PgQuery__Node) : list scell :=
  [c_count x.(PgQuery__AArrayExpr.elements);
   c_array to_node x.(PgQuery__AArrayExpr.elements);
   c_int x.(PgQuery__AArrayExpr.location)].
Definition of_AArrayExpr (ms : list scell) : outcome (PgQuery__AArrayExpr.t PgQuery__Node) :=
  match ms with
  | [c1; c2; c3] =>
      let* f1 := r_array of_node c1 c2 in
      let* f2 := r_int c3 in
      Ok {| PgQuery__AArrayExpr.elements := f1;
            PgQuery__AArrayExpr.location := f2 |}
  | _ => Undef
  end.

Definition to_ResTarget (x : PgQuery__ResTarget.t PgQuery__Node) : list scell :=
  [c_str x.(PgQuery__ResTarget.name);
   c_count x.(PgQuery__ResTarget.indirection);
   c_array to_node x.(PgQuery__ResTarget.indirection);
   c_ptr to_node x.(PgQuery__ResTarget.val);
   c_int x.(PgQuery__ResTarget.location)].
Definition of_ResTarget (ms : list scell) : outcome (PgQuery__ResTarget.t PgQuery__Node) :=
  match ms with
  | [c1; c2; c3; c4; c5] =>
      let* f1 := r_str c1 in
      let* f2 := r_array of_node c2 c3 in
      let* f3 := r_ptr of_node c4 in
      let* f4 := r_int c5 in
      Ok {| PgQuery__ResTarget.name := f1;
            PgQuery__ResTarget.indirection := f2;
            PgQuery__ResTarget.val := f3;
            PgQuery__ResTarget.location := f4 |}
  | _ => Undef
  end.

Definition to_MultiAssignRef (x : PgQuery__MultiAssignRef.t PgQuery__Node) : list scell :=
  [c_ptr to_node x.(PgQuery__MultiAssignRef.source);
   c_int x.(PgQuery__MultiAssignRef.colno);
   c_int x.(PgQuery__MultiAssignRef.ncolumns)].
Definition of_MultiAssignRef (ms : list scell) : outcome (PgQuery__MultiAssignRef.t PgQuery__Node) :=
  match ms with
  | [c1; c2; c3] =>
      let* f1 := r_ptr of_node c1 in
      let* f2 := r_int c2 in
      let* f3 := r_int c3 in
      Ok {| PgQuery__MultiAssignRef.source := f1;
            PgQuery__MultiAssignRef.colno := f2;
            PgQuery__MultiAssignRef.ncolumns := f3 |}
  | _ => Undef
  end.

Definition to_NamedArgExpr (x : PgQuery__NamedArgExpr.t PgQuery__Node) : list scell :=
  [c_ptr to_node x.(PgQuery__NamedArgExpr.xpr);
   c_ptr to_node x.(PgQuery__NamedArgExpr.arg);
   c_str x.(PgQuery__NamedArgExpr.name);
   c_int x.(PgQuery__NamedArgExpr.argnumber);
   c_int x.(PgQuery__NamedArgExpr.location)].
Definition of_NamedArgExpr (ms : list scell) : outcome (PgQuery__NamedArgExpr.t PgQuery__Node) :=
  match ms with
  | [c1; c2; c3; c4; c5] =>
      let* f1 := r_ptr of_node c1 in
      let* f2 := r_ptr of_node c2 in
      let* f3 := r_str c3 in
      let* f4 := r_int c4 in
      let* f5 := r_int c5 in
      Ok {| PgQuery__NamedArgExpr.xpr := f1;
            PgQuery__NamedArgExpr.arg := f2;
            PgQuery__NamedArgExpr.name := f3;
            PgQuery__NamedArgExpr.argnumber := f4;
            PgQuery__NamedArgExpr.location := f5 |}
  | _ => Undef
  end.

Definition to_BoolExpr (x : PgQuery__BoolExpr.t PgQuery__Node) : list scell :=
  [c_ptr to_node x.(PgQuery__BoolExpr.xpr);
   c_int x.(PgQuery__BoolExpr.boolop);
   c_count x.(PgQuery__BoolExpr.args);
   c_array to_node x.(PgQuery__BoolExpr.args);
   c_int x.(PgQuery__BoolExpr.location)].
Definition of_BoolExpr (ms : list scell) : outcome (PgQuery__BoolExpr.t PgQuery__Node) :=
  match ms with
  | [c1; c2; c3; c4; c5] =>
      let* f1 := r_ptr of_node c1 in
      let* f2 := r_int c2 in
      let* f3 := r_array of_node c3 c4 in
      let* f4 := r_int c5 in
      Ok {| PgQuery__BoolExpr.xpr := f1;
            PgQuery__BoolExpr.boolop := f2;
            PgQuery__BoolExpr.args := f3;
            PgQuery__BoolExpr.location := f4 |}
  | _ => Undef
  end.

Definition to_SubLink (x : PgQuery__SubLink.t PgQuery__Node) : list scell :=
  [c_ptr to_node x.(PgQuery__SubLink.xpr);
   c_int x.(PgQuery__SubLink.sub_link_type);
   c_int x.(PgQuery__SubLink.sub_link_id);
   c_ptr to_node x.(PgQuery__SubLink.testexpr);
   c_count x.(PgQuery__SubLink.oper_name);
   c_array to_node x.(PgQuery__SubLink.oper_name);
   c_ptr to_node x.(PgQuery__SubLink.subselect);
   c_int x.(PgQuery__SubLink.location)].
Definition of_SubLink (ms : list scell) : outcome (PgQuery__SubLink.t PgQuery__Node) :=
  match ms with
  | [c1; c2; c3; c4; c5; c6; c7; c8] =>
      let* f1 := r_ptr of_node c1 in
      let* f2 := r_int c2 in
      let* f3 := r_int c3 in
      let* f4 := r_ptr of_node c4 in
      let* f5 := r_array of_node c5 c6 in
      let* f6 := r_ptr of_node c7 in
      let* f7 := r_int c8 in
      Ok {| PgQuery__SubLink.xpr := f1;
            PgQuery__SubLink.sub_link_type := f2;
            PgQuery__SubLink.sub_link_id := f3;
            PgQuery__SubLink.testexpr := f4;
            PgQuery__SubLink.oper_name := f5;
            PgQuery__SubLink.subselect := f6;
            PgQuery__SubLink.location := f7 |}
  | _ => Undef
  end.

Definition to_CaseWhen (x : PgQuery__CaseWhen.t PgQuery__Node) : list scell :=
  [c_ptr to_node x.(PgQuery__CaseWhen.xpr);
   c_ptr to_node x.(PgQuery__CaseWhen.expr);
   c_ptr to_node x.(PgQuery__CaseWhen.result);
   c_int x.(PgQuery__CaseWhen.location)].
Definition of_CaseWhen (ms : list scell) : outcome (PgQuery__CaseWhen.t PgQuery__Node) :=
  match ms with
  | [c1; c2; c3; c4] =>
      let* f1 := r_ptr of_node c1 in
      let* f2 := r_ptr of_node c2 in
      let* f3 := r_ptr of_node c3 in
      let* f4 := r_int c4 in
      Ok {| PgQuery__CaseWhen.xpr := f1;
            PgQuery__CaseWhen.expr := f2;
            PgQuery__CaseWhen.result := f3;
            PgQuery__CaseWhen.location := f4 |}
  | _ => Undef
  end.

Definition to_CaseExpr (x : PgQuery__CaseExpr.t PgQuery__Node) : list scell :=
  [c_ptr to_node x.(PgQuery__CaseExpr.xpr);
   c_int x.(PgQuery__CaseExpr.casetype);
   c_int x.(PgQuery__CaseExpr.casecollid);
   c_ptr to_node x.(PgQuery__CaseExpr.arg);
   c_count x.(PgQuery__CaseExpr.args);
   c_array to_node x.(PgQuery__CaseExpr.args);
   c_ptr to_node x.(PgQuery__CaseExpr.defresult);
   c_int x.(PgQuery__CaseExpr.location)].
Definition of_CaseExpr (ms : list scell) : outcome (PgQuery__CaseExpr.t PgQuery__Node) :=
  match ms with
  | [c1; c2; c3; c4; c5; c6; c7; c8] =>
      let* f1 := r_ptr of_node c1 in
      let* f2 := r_int c2 in
      let* f3 := r_int c3 in
      let* f4 := r_ptr of_node c4 in
      let* f5 := r_array of_node c5 c6 in
      let* f6 := r_ptr of_node c7 in
      let* f7 := r_int c8 in
      Ok {| PgQuery__CaseExpr.xpr := f1;
            PgQuery__CaseExpr.casetype := f2;
            PgQuery__CaseExpr.casecollid := f3;
            PgQuery__CaseExpr.arg := f4;
            PgQuery__CaseExpr.args := f5;
            PgQuery__CaseExpr.defresult := f6;
            PgQuery__CaseExpr.location := f7 |}
  | _ => Undef
  end.

Definition to_RowExpr (x : PgQuery__RowExpr.t PgQuery__Node) : list scell :=
  [c_ptr to_node x.(PgQuery__RowExpr.xpr);
   c_count x.(PgQuery__RowExpr.args);
   c_array to_node x.(PgQuery__RowExpr.args);
   c_int x.(PgQuery__RowExpr.row_typeid);
   c_int x.(PgQuery__RowExpr.row_format);
   c_count x.(PgQuery__RowExpr.colnames);
   c_array to_node x.(PgQuery__RowExpr.colnames);
   c_int x.(PgQuery__RowExpr.location)].
Definition of_RowExpr (ms : list scell) : outcome (PgQuery__RowExpr.t PgQuery__Node) :=
  match ms with
  | [c1; c2; c3; c4; c5; c6; c7; c8] =>
      let* f1 := r_ptr of_node c1 in
      let* f2 := r_array of_node c2 c3 in
      let* f3 := r_int c4 in
      let* f4 := r_int c5 in
      let* f5 := r_array of_node c6 c7 in
      let* f6 := r_int c8 in
      Ok {| PgQuery__RowExpr.xpr := f1;
            PgQuery__RowExpr.args := f2;
            PgQuery__RowExpr.row_typeid := f3;
            PgQuery__RowExpr.row_format := f4;
            PgQuery__RowExpr.colnames := f5;
            PgQuery__RowExpr.location := f6 |}
  | _ => Undef
  end.

Definition to_CoalesceExpr (x : PgQuery__CoalesceExpr.t PgQuery__Node) : list scell :=
  [c_ptr to_node x.(PgQuery__CoalesceExpr.xpr);
   c_int x.(PgQuery__CoalesceExpr.coalescetype);
   c_int x.(PgQuery__CoalesceExpr.coalescecollid);
   c_count x.(PgQuery__CoalesceExpr.args);
   c_array to_node x.(PgQuery__CoalesceExpr.args);
   c_int x.(PgQuery__CoalesceExpr.location)].
Definition of_CoalesceExpr (ms : list scell) : outcome (PgQuery__CoalesceExpr.t PgQuery__Node) :=
  match ms with
  | [c1; c2; c3; c4; c5; c6] =>
      let* f1 := r_ptr of_node c1 in
      let* f2 := r_int c2 in
      let* f3 := r_int c3 in
      let* f4 := r_array of_node c4 c5 in
      let* f5 := r_int c6 in
      Ok {| PgQuery__CoalesceExpr.xpr := f1;
            PgQuery__CoalesceExpr.coalescetype := f2;
            PgQuery__CoalesceExpr.coalescecollid := f3;
            PgQuery__CoalesceExpr.args := f4;
            PgQuery__CoalesceExpr.location := f5 |}
  | _ => Undef
  end.

Definition to_MinMaxExpr (x : PgQuery__MinMaxExpr.t PgQuery__Node) : list scell :=
  [c_ptr to_node x.(PgQuery__MinMaxExpr.xpr);
   c_int x.(PgQuery__MinMaxExpr.minmaxtype);
   c_int x.(PgQuery__MinMaxExpr.minmaxcollid);
   c_int x.(PgQuery__MinMaxExpr.inputcollid);
   c_int x.(PgQuery__MinMaxExpr.op);
   c_count x.(PgQuery__MinMaxExpr.args);
   c_array to_node x.(PgQuery__MinMaxExpr.args);
   c_int x.(PgQuery__MinMaxExpr.location)].
Definition of_MinMaxExpr (ms : list scell) : outcome (PgQuery__MinMaxExpr.t PgQuery__Node) :=
  match ms with
  | [c1; c2; c3; c4; c5; c6; c7; c8] =>
      let* f1 := r_ptr of_node c1 in
      let* f2 := r_int c2 in
      let* f3 := r_int c3 in
      let* f4 := r_int c4 in
      let* f5 := r_int c5 in
      let* f6 := r_array of_node c6 c7 in
      let* f7 := r_int c8 in
      Ok {| PgQuery__MinMaxExpr.xpr := f1;
            PgQuery__MinMaxExpr.minmaxtype := f2;
            PgQuery__MinMaxExpr.minmaxcollid := f3;
            PgQuery__MinMaxExpr.inputcollid := f4;
            PgQuery__MinMaxExpr.op := f5;
            PgQuery__MinMaxExpr.args := f6;
            PgQuery__MinMaxExpr.location := f7 |}
  | _ => Undef
  end.

Definition to_SQLValueFunction (x : PgQuery__SQLValueFunction.t PgQuery__Node) : list scell :=
  [c_ptr to_node x.(PgQuery__SQLValueFunction.xpr);
   c_int x.(PgQuery__SQLValueFunction.op);
   c_int x.(PgQuery__SQLValueFunction.type_);
   c_int x.(PgQuery__SQLValueFunction.typmod);
   c_int x.(PgQuery__SQLValueFunction.location)].
Definition of_SQLValueFunction (ms : list scell) : outcome (PgQuery__SQLValueFunction.t PgQuery__Node) :=
  match ms with
  | [c1; c2; c3; c4; c5] =>
      let* f1 := r_ptr of_node c1 in
      let* f2 := r_int c2 in
      let* f3 := r_int c3 in
      let* f4 := r_int c4 in
      let* f5 := r_int c5 in
      Ok {| PgQuery__SQLValueFunction.xpr := f1;
            PgQuery__SQLValueFunction.op := f2;
            PgQuery__SQLValueFunction.type_ := f3;
            PgQuery__SQLValueFunction.typmod := f4;
            PgQuery__SQLValueFunction.location := f5 |}
  | _ => Undef
  end.

Definition to_XmlExpr (x : PgQuery__XmlExpr.t PgQuery__Node) : list scell :=
  [c_ptr to_node x.(PgQuery__XmlExpr.xpr);
   c_int x.(PgQuery__XmlExpr.op);
   c_str x.(PgQuery__XmlExpr.name);
   c_count x.(PgQuery__XmlExpr.named_args);
   c_array to_node x.(PgQuery__XmlExpr.named_args);
   c_count x.(PgQuery__XmlExpr.arg_names);
   c_array to_node x.(PgQuery__XmlExpr.arg_names);
   c_count x.(PgQuery__XmlExpr.args);
   c_array to_node x.(PgQuery__XmlExpr.args);
   c_int x.(PgQuery__XmlExpr.xmloption);
   c_int x.(PgQuery__XmlExpr.type_);
   c_int x.(PgQuery__XmlExpr.typmod);
   c_int x.(PgQuery__XmlExpr.location)].
Definition of_XmlExpr (ms : list scell) : outcome (PgQuery__XmlExpr.t PgQuery__Node) :=
  match ms with
  | [c1; c2; c3; c4; c5; c6; c7; c8; c9; c10; c11; c12; c13] =>
      let* f1 := r_ptr of_node c1 in
      let* f2 := r_int c2 in
      let* f3 := r_str c3 in
      let* f4 := r_array of_node c4 c5 in
      let* f5 := r_array of_node c6 c7 in
      let* f6 := r_array of_node c8 c9 in
      let* f7 := r_int c10 in
      let* f8 := r_int c11 in
      let* f9 := r_int c12 in
      let* f10 := r_int c13 in
      Ok {| PgQuery__XmlExpr.xpr := f1;
            PgQuery__XmlExpr.op := f2;
            PgQuery__XmlExpr.name := f3;
            PgQuery__XmlExpr.named_args := f4;
            PgQuery__XmlExpr.arg_names := f5;
            PgQuery__XmlExpr.args := f6;
            PgQuery__XmlExpr.xmloption := f7;
            PgQuery__XmlExpr.type_ := f8;
            PgQuery__XmlExpr.typmod := f9;
            PgQuery__XmlExpr.location := f10 |}
  | _ => Undef
  end.

Definition to_XmlSerialize (x : PgQuery__XmlSerialize.t PgQuery__Node) : list scell :=
  [c_int x.(PgQuery__XmlSerialize.xmloption);
   c_ptr to_node x.(PgQuery__XmlSerialize.expr);
   c_ptr (s_msg pg_query__type_name__descriptor to_TypeName) x.(PgQuery__XmlSerialize.type_name);
   c_int x.(PgQuery__XmlSerialize.location)].
Definition of_XmlSerialize (ms : list scell) : outcome (PgQuery__XmlSerialize.t PgQuery__Node) :=
  match ms with
  | [c1; c2; c3; c4] =>
      let* f1 := r_int c1 in
      let* f2 := r_ptr of_node c2 in
      let* f3 := r_ptr (o_msg pg_query__type_name__descriptor of_TypeName) c3 in
      let* f4 := r_int c4 in
      Ok {| PgQuery__XmlSerialize.xmloption := f1;
            PgQuery__XmlSerialize.expr := f2;
            PgQuery__XmlSerialize.type_name := f3;
            PgQuery__XmlSerialize.location := f4 |}
  | _ => Undef
  end.

Definition to_NullTest (x : PgQuery__NullTest.t PgQuery__Node) : list scell :=
  [c_ptr to_node x.(PgQuery__NullTest.xpr);
   c_ptr to_node x.(PgQuery__NullTest.arg);
   c_int x.(PgQuery__NullTest.nulltesttype);
   c_bool x.(PgQuery__NullTest.argisrow);
   c_int x.(PgQuery__NullTest.location)].
Definition of_NullTest (ms : list scell) : outcome (PgQuery__NullTest.t PgQuery__Node) :=
  match ms with
  | [c1; c2; c3; c4; c5] =>
      let* f1 := r_ptr of_node c1 in
      let* f2 := r_ptr of_node c2 in
      let* f3 := r_int c3 in
      let* f4 := r_bool c4 in
      let* f5 := r_int c5 in
      Ok {| PgQuery__NullTest.xpr := f1;
            PgQuery__NullTest.arg := f2;
            PgQuery__NullTest.nulltesttype := f3;
            PgQuery__NullTest.argisrow := f4;
            PgQuery__NullTest.location := f5 |}
  | _ => Undef
  end.

Definition to_BooleanTest (x : PgQuery__BooleanTest.t PgQuery__Node) : list scell :=
  [c_ptr to_node x.(PgQuery__BooleanTest.xpr);
   c_ptr to_node x.(PgQuery__BooleanTest.arg);
   c_int x.(PgQuery__BooleanTest.booltesttype);
   c_int x.(PgQuery__BooleanTest.location)].
Definition of_BooleanTest (ms : list scell) : outcome (PgQuery__BooleanTest.t PgQuery__Node) :=
  match ms with
  | [c1; c2; c3; c4] =>
      let* f1 := r_ptr of_node c1 in
      let* f2 := r_ptr of_node c2 in
      let* f3 := r_int c3 in
      let* f4 := r_int c4 in
      Ok {| PgQuery__BooleanTest.xpr := f1;
            PgQuery__BooleanTest.arg := f2;
            PgQuery__BooleanTest.booltesttype := f3;
            PgQuery__BooleanTest.location := f4 |}
  | _ => Undef
  end.

Definition to_SetToDefault (x : PgQuery__SetToDefault.t PgQuery__Node) : list scell :=
  [c_ptr to_node x.(PgQuery__SetToDefault.xpr);
   c_int x.(PgQuery__SetToDefault.type_id);
   c_int x.(PgQuery__SetToDefault.type_mod);
   c_int x.(PgQuery__SetToDefault.collation);
   c_int x.(PgQuery__SetToDefault.location)].
Definition of_SetToDefault (ms : list scell) : outcome (PgQuery__SetToDefault.t PgQuery__Node) :=
  match ms with
  | [c1; c2; c3; c4; c5] =>
      let* f1 := r_ptr of_node c1 in
      let* f2 := r_int c2 in
      let* f3 := r_int c3 in
      let* f4 := r_int c4 in
      let* f5 := r_int c5 in
      Ok {| PgQuery__SetToDefault.xpr := f1;
            PgQuery__SetToDefault.type_id := f2;
            PgQuery__SetToDefault.type_mod := f3;
            PgQuery__SetToDefault.collation := f4;
            PgQuery__SetToDefault.location := f5 |}
  | _ => Undef
  end.

Definition to_CurrentOfExpr (x : PgQuery__CurrentOfExpr.t PgQuery__Node) : list scell :=
  [c_ptr to_node x.(PgQuery__CurrentOfExpr.xpr);
   c_int x.(PgQuery__CurrentOfExpr.cvarno);
   c_str x.(PgQuery__CurrentOfExpr.cursor_name);
   c_int x.(PgQuery__CurrentOfExpr.cursor_param)].
Definition of_CurrentOfExpr (ms : list scell) : outcome (PgQuery__CurrentOfExpr.t PgQuery__Node) :=
  match ms with
  | [c1; c2; c3; c4] =>
      let* f1 := r_ptr of_node c1 in
      let* f2 := r_int c2 in
      let* f3 := r_str c3 in
      let* f4 := r_int c4 in
      Ok {| PgQuery__CurrentOfExpr.xpr := f1;
            PgQuery__CurrentOfExpr.cvarno := f2;
            PgQuery__CurrentOfExpr.cursor_name := f3;
            PgQuery__CurrentOfExpr.cursor_param := f4 |}
  | _ => Undef
  end.

Definition to_GroupingFunc (x : PgQuery__GroupingFunc.t PgQuery__Node) : list scell :=
  [c_ptr to_node x.(PgQuery__GroupingFunc.xpr);
   c_count x.(PgQuery__GroupingFunc.args);
   c_array to_node x.(PgQuery__GroupingFunc.args);
   c_count x.(PgQuery__GroupingFunc.refs);
   c_array to_node x.(PgQuery__GroupingFunc.refs);
   c_count x.(PgQuery__GroupingFunc.cols);
   c_array to_node x.(PgQuery__GroupingFunc.cols);
   c_int x.(PgQuery__GroupingFunc.agglevelsup);
   c_int x.(PgQuery__GroupingFunc.location)].
Definition of_GroupingFunc (ms : list scell) : outcome (PgQuery__GroupingFunc.t PgQuery__Node) :=
  match ms with
  | [c1; c2; c3; c4; c5; c6; c7; c8; c9] =>
      let* f1 := r_ptr of_node c1 in
      let* f2 := r_array of_node c2 c3 in
      let* f3 := r_array of_node c4 c5 in
      let* f4 := r_array of_node c6 c7 in
      let* f5 := r_int c8 in
      let* f6 := r_int c9 in
      Ok {| PgQuery__GroupingFunc.xpr := f1;
            PgQuery__GroupingFunc.args := f2;
            PgQuery__GroupingFunc.refs := f3;
            PgQuery__GroupingFunc.cols := f4;
            PgQuery__GroupingFunc.agglevelsup := f5;
            PgQuery__GroupingFunc.location := f6 |}
  | _ => Undef
  end.

Definition to_DefElem (x : PgQuery__DefElem.t PgQuery__Node) : list scell :=
  [c_str x.(PgQuery__DefElem.defnamespace);
   c_str x.(PgQuery__DefElem.defname);
   c_ptr to_node x.(PgQuery__DefElem.arg);
   c_int x.(PgQuery__DefElem.defaction);
   c_int x.(PgQuery__DefElem.location)].
Definition of_DefElem (ms : list scell) : outcome (PgQuery__DefElem.t PgQuery__Node) :=
  match ms with
  | [c1; c2; c3; c4; c5] =>
      let* f1 := r_str c1 in
      let* f2 := r_str c2 in
      let* f3 := r_ptr of_node c3 in
      let* f4 := r_int c4 in
      let* f5 := r_int c5 in
      Ok {| PgQuery__DefElem.defnamespace := f1;
            PgQuery__DefElem.defname := f2;
            PgQuery__DefElem.arg := f3;
            PgQuery__DefElem.defaction := f4;
            PgQuery__DefElem.location := f5 |}
  | _ => Undef
  end.

Definition to_IndexElem (x : PgQuery__IndexElem.t PgQuery__Node) : list scell :=
  [c_str x.(PgQuery__IndexElem.name);
   c_ptr to_node x.(PgQuery__IndexElem.expr);
   c_str x.(PgQuery__IndexElem.indexcolname);
   c_count x.(PgQuery__IndexElem.collation);
   c_array to_node x.(PgQuery__IndexElem.collation);
   c_count x.(PgQuery__IndexElem.opclass);
   c_array to_node x.(PgQuery__IndexElem.opclass);
   c_count x.(PgQuery__IndexElem.opclassopts);
   c_array to_node x.(PgQuery__IndexElem.opclassopts);
   c_int x.(PgQuery__IndexElem.ordering);
   c_int x.(PgQuery__IndexElem.nulls_ordering)].
Definition of_IndexElem (ms : list scell) : outcome (PgQuery__IndexElem.t PgQuery__Node) :=
  match ms with
  | [c1; c2; c3; c4; c5; c6; c7; c8; c9; c10; c11] =>
      let* f1 := r_str c1 in
      let* f2 := r_ptr of_node c2 in
      let* f3 := r_str c3 in
      let* f4 := r_array of_node c4 c5 in
      let* f5 := r_array of_node c6 c7 in
      let* f6 := r_array of_node c8 c9 in
      let* f7 := r_int c10 in
      let* f8 := r_int c11 in
      Ok {| PgQuery__IndexElem.name := f1;
            PgQuery__IndexElem.expr := f2;
            PgQuery__IndexElem.indexcolname := f3;
            PgQuery__IndexElem.collation := f4;
            PgQuery__IndexElem.opclass := f5;
            PgQuery__IndexElem.opclassopts := f6;
            PgQuery__IndexElem.ordering := f7;
            PgQuery__IndexElem.nulls_ordering := f8 |}
  | _ => Undef
  end.

Definition to_Constraint (x : PgQuery__Constraint.t PgQuery__Node) : list scell :=
  [c_int x.(PgQuery__Constraint.contype);
   c_str x.(PgQuery__Constraint.conname);
   c_bool x.(PgQuery__Constraint.deferrable);
   c_bool x.(PgQuery__Constraint.initdeferred);
   c_int x.(PgQuery__Constraint.location);
   c_bool x.(PgQuery__Constraint.is_no_inherit);
   c_ptr to_node x.(PgQuery__Constraint.raw_expr);
   c_str x.(PgQuery__Constraint.cooked_expr);
   c_str x.(PgQuery__Constraint.generated_when);
   c_count x.(PgQuery__Constraint.keys);
   c_array to_node x.(PgQuery__Constraint.keys);
   c_count x.(PgQuery__Constraint.including);
   c_array to_node x.(PgQuery__Constraint.including);
   c_count x.(PgQuery__Constraint.exclusions);
   c_array to_node x.(PgQuery__Constraint.exclusions);
   c_count x.(PgQuery__Constraint.options);
   c_array to_node x.(PgQuery__Constraint.options);
   c_str x.(PgQuery__Constraint.indexname);
   c_str x.(PgQuery__Constraint.indexspace);
   c_bool x.(PgQuery__Constraint.reset_default_tblspc);
   c_str x.(PgQuery__Constraint.access_method);
   c_ptr to_node x.(PgQuery__Constraint.where_clause);
   c_ptr (s_msg pg_query__range_var__descriptor to_RangeVar) x.(PgQuery__Constraint.pktable);
   c_count x.(PgQuery__Constraint.fk_attrs);
   c_array to_node x.(PgQuery__Constraint.fk_attrs);
   c_count x.(PgQuery__Constraint.pk_attrs);
   c_array to_node x.(PgQuery__Constraint.pk_attrs);
   c_str x.(PgQuery__Constraint.fk_matchtype);
   c_str x.(PgQuery__Constraint.fk_upd_action);
   c_str x.(PgQuery__Constraint.fk_del_action);
   c_count x.(PgQuery__Constraint.old_conpfeqop);
   c_array to_node x.(PgQuery__Constraint.old_conpfeqop);
   c_int x.(PgQuery__Constraint.old_pktable_oid);
   c_bool x.(PgQuery__Constraint.skip_validation);
   c_bool x.(PgQuery__Constraint.initially_valid)].
Definition of_Constraint (ms : list scell) : outcome (PgQuery__Constraint.t PgQuery__Node) :=
  match ms with
  | [c1; c2; c3; c4; c5; c6; c7; c8; c9; c10; c11; c12; c13; c14; c15; c16; c17; c18; c19; c20; c21; c22; c23; c24; c25; c26; c27; c28; c29; c30; c31; c32; c33; c34; c35] =>
      let* f1 := r_int c1 in
      let* f2 := r_str c2 in
      let* f3 := r_bool c3 in
      let* f4 := r_bool c4 in
      let* f5 := r_int c5 in
      let* f6 := r_bool c6 in
      let* f7 := r_ptr of_node c7 in
      let* f8 := r_str c8 in
      let* f9 := r_str c9 in
      let* f10 := r_array of_node c10 c11 in
      let* f11 := r_array of_node c12 c13 in
      let* f12 := r_array of_node c14 c15 in
      let* f13 := r_array of_node c16 c17 in
      let* f14 := r_str c18 in
      let* f15 := r_str c19 in
      let* f16 := r_bool c20 in
      let* f17 := r_str c21 in
      let* f18 := r_ptr of_node c22 in
      let* f19 := r_ptr (o_msg pg_query__range_var__descriptor of_RangeVar) c23 in
      let* f20 := r_array of_node c24 c25 in
      let* f21 := r_array of_node c26 c27 in
      let* f22 := r_str c28 in
      let* f23 := r_str c29 in
      let* f24 := r_str c30 in
      let* f25 := r_array of_node c31 c32 in
      let* f26 := r_int c33 in
      let* f27 := r_bool c34 in
      let* f28 := r_bool c35 in
      Ok {| PgQuery__Constraint.contype := f1;
            PgQuery__Constraint.conname := f2;
            PgQuery__Constraint.deferrable := f3;
            PgQuery__Constraint.initdeferred := f4;
            PgQuery__Constraint.location := f5;
            PgQuery__Constraint.is_no_inherit := f6;
            PgQuery__Constraint.raw_expr := f7;
            PgQuery__Constraint.cooked_expr := f8;
            PgQuery__Constraint.generated_when := f9;
            PgQuery__Constraint.keys := f10;
            PgQuery__Constraint.including := f11;
            PgQuery__Constraint.exclusions := f12;
            PgQuery__Constraint.options := f13;
            PgQuery__Constraint.indexname := f14;
            PgQuery__Constraint.indexspace := f15;
            PgQuery__Constraint.reset_default_tblspc := f16;
            PgQuery__Constraint.access_method := f17;
            PgQuery__Constraint.where_clause := f18;
            PgQuery__Constraint.pktable := f19;
            PgQuery__Constraint.fk_attrs := f20;
            PgQuery__Constraint.pk_attrs := f21;
            PgQuery__Constraint.fk_matchtype := f22;
            PgQuery__Constraint.fk_upd_action := f23;
            PgQuery__Constraint.fk_del_action := f24;
            PgQuery__Constraint.old_conpfeqop := f25;
            PgQuery__Constraint.old_pktable_oid := f26;
            PgQuery__Constraint.skip_validation := f27;
            PgQuery__Constraint.initially_valid := f28 |}
  | _ => Undef
  end.

Definition to_ColumnDef (x : PgQuery__ColumnDef.t PgQuery__Node) : list scell :=
  [c_str x.(PgQuery__ColumnDef.colname);
   c_ptr (s_msg pg_query__type_name__descriptor to_TypeName) x.(PgQuery__ColumnDef.type_name);
   c_int x.(PgQuery__ColumnDef.inhcount);
   c_bool x.(PgQuery__ColumnDef.is_local);
   c_bool x.(PgQuery__ColumnDef.is_not_null);
   c_bool x.(PgQuery__ColumnDef.is_from_type);
   c_str x.(PgQuery__ColumnDef.storage);
   c_ptr to_node x.(PgQuery__ColumnDef.raw_default);
   c_ptr to_node x.(PgQuery__ColumnDef.cooked_default);
   c_str x.(PgQuery__ColumnDef.identity);
   c_ptr (s_msg pg_query__range_var__descriptor to_RangeVar) x.(PgQuery__ColumnDef.identity_sequence);
   c_str x.(PgQuery__ColumnDef.generated);
   c_ptr (s_msg pg_query__collate_clause__descriptor to_CollateClause) x.(PgQuery__ColumnDef.coll_clause);
   c_int x.(PgQuery__ColumnDef.coll_oid);
   c_count x.(PgQuery__ColumnDef.constraints);
   c_array to_node x.(PgQuery__ColumnDef.constraints);
   c_count x.(PgQuery__ColumnDef.fdwoptions);
   c_array to_node x.(PgQuery__ColumnDef.fdwoptions);
   c_int x.(PgQuery__ColumnDef.location)].
Definition of_ColumnDef (ms : list scell) : outcome (PgQuery__ColumnDef.t PgQuery__Node) :=
  match ms with
  | [c1; c2; c3; c4; c5; c6; c7; c8; c9; c10; c11; c12; c13; c14; c15; c16; c17; c18; c19] =>
      let* f1 := r_str c1 in
      let* f2 := r_ptr (o_msg pg_query__type_name__descriptor of_TypeName) c2 in
      let* f3 := r_int c3 in
      let* f4 := r_bool c4 in
      let* f5 := r_bool c5 in
      let* f6 := r_bool c6 in
      let* f7 := r_str c7 in
      let* f8 := r_ptr of_node c8 in
      let* f9 := r_ptr of_node c9 in
      let* f10 := r_str c10 in
      let* f11 := r_ptr (o_msg pg_query__range_var__descriptor of_RangeVar) c11 in
      let* f12 := r_str c12 in
      let* f13 := r_ptr (o_msg pg_query__collate_clause__descriptor of_CollateClause) c13 in
      let* f14 := r_int c14 in
      let* f15 := r_array of_node c15 c16 in
      let* f16 := r_array of_node c17 c18 in
      let* f17 := r_int c19 in
      Ok {| PgQuery__ColumnDef.colname := f1;
            PgQuery__ColumnDef.type_name := f2;
            PgQuery__ColumnDef.inhcount := f3;
            PgQuery__ColumnDef.is_local := f4;
            PgQuery__ColumnDef.is_not_null := f5;
            PgQuery__ColumnDef.is_from_type := f6;
            PgQuery__ColumnDef.storage := f7;
            PgQuery__ColumnDef.raw_default := f8;
            PgQuery__ColumnDef.cooked_default := f9;
            PgQuery__ColumnDef.identity := f10;
            PgQuery__ColumnDef.identity_sequence := f11;
            PgQuery__ColumnDef.generated := f12;
            PgQuery__ColumnDef.coll_clause := f13;
            PgQuery__ColumnDef.coll_oid := f14;
            PgQuery__ColumnDef.constraints := f15;
            PgQuery__ColumnDef.fdwoptions := f16;
            PgQuery__ColumnDef.location := f17 |}
  | _ => Undef
  end.

Definition to_JoinExpr (x : PgQuery__JoinExpr.t PgQuery__Node) : list scell :=
  [c_int x.(PgQuery__JoinExpr.jointype);
   c_bool x.(PgQuery__JoinExpr.is_natural);
   c_ptr to_node x.(PgQuery__JoinExpr.larg);
   c_ptr to_node x.(PgQuery__JoinExpr.rarg);
   c_count x.(PgQuery__JoinExpr.using_clause);
   c_array to_node x.(PgQuery__JoinExpr.using_clause);
   c_ptr to_node x.(PgQuery__JoinExpr.quals);
   c_ptr (s_msg pg_query__alias__descriptor to_Alias) x.(PgQuery__JoinExpr.alias);
   c_int x.(PgQuery__JoinExpr.rtindex)].
Definition of_JoinExpr (ms : list scell) : outcome (PgQuery__JoinExpr.t PgQuery__Node) :=
  match ms with
  | [c1; c2; c3; c4; c5; c6; c7; c8; c9] =>
      let* f1 := r_int c1 in
      let* f2 := r_bool c2 in
      let* f3 := r_ptr of_node c3 in
      let* f4 := r_ptr of_node c4 in
      let* f5 := r_array of_node c5 c6 in
      let* f6 := r_ptr of_node c7 in
      let* f7 := r_ptr (o_msg pg_query__alias__descriptor of_Alias) c8 in
      let* f8 := r_int c9 in
      Ok {| PgQuery__JoinExpr.jointype := f1;
            PgQuery__JoinExpr.is_natural := f2;
            PgQuery__JoinExpr.larg := f3;
            PgQuery__JoinExpr.rarg := f4;
            PgQuery__JoinExpr.using_clause := f5;
            PgQuery__JoinExpr.quals := f6;
            PgQuery__JoinExpr.alias := f7;
            PgQuery__JoinExpr.rtindex := f8 |}
  | _ => Undef
  end.

Definition to_RangeSubselect (x : PgQuery__RangeSubselect.t PgQuery__Node) : list scell :=
  [c_bool x.(PgQuery__RangeSubselect.lateral);
   c_ptr to_node x.(PgQuery__RangeSubselect.subquery);
   c_ptr (s_msg pg_query__alias__descriptor to_Alias) x.(PgQuery__RangeSubselect.alias)].
Definition of_RangeSubselect (ms : list scell) : outcome (PgQuery__RangeSubselect.t PgQuery__Node) :=
  match ms with
  | [c1; c2; c3] =>
      let* f1 := r_bool c1 in
      let* f2 := r_ptr of_node c2 in
      let* f3 := r_ptr (o_msg pg_query__alias__descriptor of_Alias) c3 in
      Ok {| PgQuery__RangeSubselect.lateral := f1;
            PgQuery__RangeSubselect.subquery := f2;
            PgQuery__RangeSubselect.alias := f3 |}
  | _ => Undef
  end.

Definition to_RangeFunction (x : PgQuery__RangeFunction.t PgQuery__Node) : list scell :=
  [c_bool x.(PgQuery__RangeFunction.lateral);
   c_bool x.(PgQuery__RangeFunction.ordinality);
   c_bool x.(PgQuery__RangeFunction.is_rowsfrom);
   c_count x.(PgQuery__RangeFunction.functions);
   c_array to_node x.(PgQuery__RangeFunction.functions);
   c_ptr (s_msg pg_query__alias__descriptor to_Alias) x.(PgQuery__RangeFunction.alias);
   c_count x.(PgQuery__RangeFunction.coldeflist);
   c_array to_node x.(PgQuery__RangeFunction.coldeflist)].
Definition of_RangeFunction (ms : list scell) : outcome (PgQuery__RangeFunction.t PgQuery__Node) :=
  match ms with
  | [c1; c2; c3; c4; c5; c6; c7; c8] =>
      let* f1 := r_bool c1 in
      let* f2 := r_bool c2 in
      let* f3 := r_bool c3 in
      let* f4 := r_array of_node c4 c5 in
      let* f5 := r_ptr (o_msg pg_query__alias__descriptor of_Alias) c6 in
      let* f6 := r_array of_node c7 c8 in
      Ok {| PgQuery__RangeFunction.lateral := f1;
            PgQuery__RangeFunction.ordinality := f2;
            PgQuery__RangeFunction.is_rowsfrom := f3;
            PgQuery__RangeFunction.functions := f4;
            PgQuery__RangeFunction.alias := f5;
            PgQuery__RangeFunction.coldeflist := f6 |}
  | _ => Undef
  end.

Definition to_RangeTableFuncCol (x : PgQuery__RangeTableFuncCol.t PgQuery__Node) : list scell :=
  [c_str x.(PgQuery__RangeTableFuncCol.colname);
   c_ptr (s_msg pg_query__type_name__descriptor to_TypeName) x.(PgQuery__RangeTableFuncCol.type_name);
   c_bool x.(PgQuery__RangeTableFuncCol.for_ordinality);
   c_bool x.(PgQuery__RangeTableFuncCol.is_not_null);
   c_ptr to_node x.(PgQuery__RangeTableFuncCol.colexpr);
   c_ptr to_node x.(PgQuery__RangeTableFuncCol.coldefexpr);
   c_int x.(PgQuery__RangeTableFuncCol.location)].
Definition of_RangeTableFuncCol (ms : list scell) : outcome (PgQuery__RangeTableFuncCol.t PgQuery__Node) :=
  match ms with
  | [c1; c2; c3; c4; c5; c6; c7] =>
      let* f1 := r_str c1 in
      let* f2 := r_ptr (o_msg pg_query__type_name__descriptor of_TypeName) c2 in
      let* f3 := r_bool c3 in
      let* f4 := r_bool c4 in
      let* f5 := r_ptr of_node c5 in
      let* f6 := r_ptr of_node c6 in
      let* f7 := r_int c7 in
      Ok {| PgQuery__RangeTableFuncCol.colname := f1;
            PgQuery__RangeTableFuncCol.type_name := f2;
            PgQuery__RangeTableFuncCol.for_ordinality := f3;
            PgQuery__RangeTableFuncCol.is_not_null := f4;
            PgQuery__RangeTableFuncCol.colexpr := f5;
            PgQuery__RangeTableFuncCol.coldefexpr := f6;
            PgQuery__RangeTableFuncCol.location := f7 |}
  | _ => Undef
  end.

Definition to_RangeTableFunc (x : PgQuery__RangeTableFunc.t PgQuery__Node) : list scell :=
  [c_bool x.(PgQuery__RangeTableFunc.lateral);
   c_ptr to_node x.(PgQuery__RangeTableFunc.docexpr);
   c_ptr to_node x.(PgQuery__RangeTableFunc.rowexpr);
   c_count x.(PgQuery__RangeTableFunc.namespaces);
   c_array to_node x.(PgQuery__RangeTableFunc.namespaces);
   c_count x.(PgQuery__RangeTableFunc.columns);
   c_array to_node x.(PgQuery__RangeTableFunc.columns);
   c_ptr (s_msg pg_query__alias__descriptor to_Alias) x.(PgQuery__RangeTableFunc.alias);
   c_int x.(PgQuery__RangeTableFunc.location)].
Definition of_RangeTableFunc (ms : list scell) : outcome (PgQuery__RangeTableFunc.t PgQuery__Node) :=
  match ms with
  | [c1; c2; c3; c4; c5; c6; c7; c8; c9] =>
      let* f1 := r_bool c1 in
      let* f2 := r_ptr of_node c2 in
      let* f3 := r_ptr of_node c3 in
      let* f4 := r_array of_node c4 c5 in
      let* f5 := r_array of_node c6 c7 in
      let* f6 := r_ptr (o_msg pg_query__alias__descriptor of_Alias) c8 in
      let* f7 := r_int c9 in
      Ok {| PgQuery__RangeTableFunc.lateral := f1;
            PgQuery__RangeTableFunc.docexpr := f2;
            PgQuery__RangeTableFunc.rowexpr := f3;
            PgQuery__RangeTableFunc.namespaces := f4;
            PgQuery__RangeTableFunc.columns := f5;
            PgQuery__RangeTableFunc.alias := f6;
            PgQuery__RangeTableFunc.location := f7 |}
  | _ => Undef
  end.

Definition to_RangeTableSample (x : PgQuery__RangeTableSample.t PgQuery__Node) : list scell :=
  [c_ptr to_node x.(PgQuery__RangeTableSample.relation);
   c_count x.(PgQuery__RangeTableSample.method);
   c_array to_node x.(PgQuery__RangeTableSample.method);
   c_count x.(PgQuery__RangeTableSample.args);
   c_array to_node x.(PgQuery__RangeTableSample.args);
   c_ptr to_node x.(PgQuery__RangeTableSample.repeatable);
   c_int x.(PgQuery__RangeTableSample.location)].
Definition of_RangeTableSample (ms : list scell) : outcome (PgQuery__RangeTableSample.t PgQuery__Node) :=
  match ms with
  | [c1; c2; c3; c4; c5; c6; c7] =>
      let* f1 := r_ptr of_node c1 in
      let* f2 := r_array of_node c2 c3 in
      let* f3 := r_array of_node c4 c5 in
      let* f4 := r_ptr of_node c6 in
      let* f5 := r_int c7 in
      Ok {| PgQuery__RangeTableSample.relation := f1;
            PgQuery__RangeTableSample.method := f2;
            PgQuery__RangeTableSample.args := f3;
            PgQuery__RangeTableSample.repeatable := f4;
            PgQuery__RangeTableSample.location := f5 |}
  | _ => Undef
  end.

Definition to_CommonTableExpr (x : PgQuery__CommonTableExpr.t PgQuery__Node) : list scell :=
  [c_str x.(PgQuery__CommonTableExpr.ctename);
   c_count x.(PgQuery__CommonTableExpr.aliascolnames);
   c_array to_node x.(PgQuery__CommonTableExpr.aliascolnames);
   c_int x.(PgQuery__CommonTableExpr.ctematerialized);
   c_ptr to_node x.(PgQuery__CommonTableExpr.ctequery);
   c_int x.(PgQuery__CommonTableExpr.location);
   c_bool x.(PgQuery__CommonTableExpr.cterecursive);
   c_int x.(PgQuery__CommonTableExpr.cterefcount);
   c_count x.(PgQuery__CommonTableExpr.ctecolnames);
   c_array to_node x.(PgQuery__CommonTableExpr.ctecolnames);
   c_count x.(PgQuery__CommonTableExpr.ctecoltypes);
   c_array to_node x.(PgQuery__CommonTableExpr.ctecoltypes);
   c_count x.(PgQuery__CommonTableExpr.ctecoltypmods);
   c_array to_node x.(PgQuery__CommonTableExpr.ctecoltypmods);
   c_count x.(PgQuery__CommonTableExpr.ctecolcollations);
   c_array to_node x.(PgQuery__CommonTableExpr.ctecolcollations)].
Definition of_CommonTableExpr (ms : list scell) : outcome (PgQuery__CommonTableExpr.t PgQuery__Node) :=
  match ms with
  | [c1; c2; c3; c4; c5; c6; c7; c8; c9; c10; c11; c12; c13; c14; c15; c16] =>
      let* f1 := r_str c1 in
      let* f2 := r_array of_node c2 c3 in
      let* f3 := r_int c4 in
      let* f4 := r_ptr of_node c5 in
      let* f5 := r_int c6 in
      let* f6 := r_bool c7 in
      let* f7 := r_int c8 in
      let* f8 := r_array of_node c9 c10 in
      let* f9 := r_array of_node c11 c12 in
      let* f10 := r_array of_node c13 c14 in
      let* f11 := r_array of_node c15 c16 in
      Ok {| PgQuery__CommonTableExpr.ctename := f1;
            PgQuery__CommonTableExpr.aliascolnames := f2;
            PgQuery__CommonTableExpr.ctematerialized := f3;
            PgQuery__CommonTableExpr.ctequery := f4;
            PgQuery__CommonTableExpr.location := f5;
            PgQuery__CommonTableExpr.cterecursive := f6;
            PgQuery__CommonTableExpr.cterefcount := f7;
            PgQuery__CommonTableExpr.ctecolnames := f8;
            PgQuery__CommonTableExpr.ctecoltypes := f9;
            PgQuery__CommonTableExpr.ctecoltypmods := f10;
            PgQuery__CommonTableExpr.ctecolcollations := f11 |}
  | _ => Undef
  end.

Definition to_WithClause (x : PgQuery__WithClause.t PgQuery__Node) : list scell :=
  [c_count x.(PgQuery__WithClause.ctes);
   c_array to_node x.(PgQuery__WithClause.ctes);
   c_bool x.(PgQuery__WithClause.recursive);
   c_int x.(PgQuery__WithClause.location)].
Definition of_WithClause (ms : list scell) : outcome (PgQuery__WithClause.t PgQuery__Node) :=
  match ms with
  | [c1; c2; c3; c4] =>
      let* f1 := r_array of_node c1 c2 in
      let* f2 := r_bool c3 in
      let* f3 := r_int c4 in
      Ok {| PgQuery__WithClause.ctes := f1;
            PgQuery__WithClause.recursive := f2;
            PgQuery__WithClause.location := f3 |}
  | _ => Undef
  end.

Definition to_InferClause (x : PgQuery__InferClause.t PgQuery__Node) : list scell :=
  [c_count x.(PgQuery__InferClause.index_elems);
   c_array to_node x.(PgQuery__InferClause.index_elems);
   c_ptr to_node x.(PgQuery__InferClause.where_clause);
   c_str x.(PgQuery__InferClause.conname);
   c_int x.(PgQuery__InferClause.location)].
Definition of_InferClause (ms : list scell) : outcome (PgQuery__InferClause.t PgQuery__Node) :=
  match ms with
  | [c1; c2; c3; c4; c5] =>
      let* f1 := r_array of_node c1 c2 in
      let* f2 := r_ptr of_node c3 in
      let* f3 := r_str c4 in
      let* f4 := r_int c5 in
      Ok {| PgQuery__InferClause.index_elems := f1;
            PgQuery__InferClause.where_clause := f2;
            PgQuery__InferClause.conname := f3;
            PgQuery__InferClause.location := f4 |}
  | _ => Undef
  end.

Definition to_OnConflictClause (x : PgQuery__OnConflictClause.t PgQuery__Node) : list scell :=
  [c_int x.(PgQuery__OnConflictClause.action);
   c_ptr (s_msg pg_query__infer_clause__descriptor to_InferClause) x.(PgQuery__OnConflictClause.infer);
   c_count x.(PgQuery__OnConflictClause.target_list);
   c_array to_node x.(PgQuery__OnConflictClause.target_list);
   c_ptr to_node x.(PgQuery__OnConflictClause.where_clause);
   c_int x.(PgQuery__OnConflictClause.location)].
Definition of_OnConflictClause (ms : list scell) : outcome (PgQuery__OnConflictClause.t PgQuery__Node) :=
  match ms with
  | [c1; c2; c3; c4; c5; c6] =>
      let* f1 := r_int c1 in
      let* f2 := r_ptr (o_msg pg_query__infer_clause__descriptor of_InferClause) c2 in
      let* f3 := r_array of_node c3 c4 in
      let* f4 := r_ptr of_node c5 in
      let* f5 := r_int c6 in
      Ok {| PgQuery__OnConflictClause.action := f1;
            PgQuery__OnConflictClause.infer := f2;
            PgQuery__OnConflictClause.target_list := f3;
            PgQuery__OnConflictClause.where_clause := f4;
            PgQuery__OnConflictClause.location := f5 |}
  | _ => Undef
  end.

Definition to_LockingClause (x : PgQuery__LockingClause.t PgQuery__Node) : list scell :=
  [c_count x.(PgQuery__LockingClause.locked_rels);
   c_array to_node x.(PgQuery__LockingClause.locked_rels);
   c_int x.(PgQuery__LockingClause.strength);
   c_int x.(PgQuery__LockingClause.wait_policy)].
Definition of_LockingClause (ms : list scell) : outcome (PgQuery__LockingClause.t PgQuery__Node) :=
  match ms with
  | [c1; c2; c3; c4] =>
      let* f1 := r_array of_node c1 c2 in
      let* f2 := r_int c3 in
      let* f3 := r_int c4 in
      Ok {| PgQuery__LockingClause.locked_rels := f1;
            PgQuery__LockingClause.strength := f2;
            PgQuery__LockingClause.wait_policy := f3 |}
  | _ => Undef
  end.

Definition to_GroupingSet (x : PgQuery__GroupingSet.t PgQuery__Node) : list scell :=
  [c_int x.(PgQuery__GroupingSet.kind);
   c_count x.(PgQuery__GroupingSet.content);
   c_array to_node x.(PgQuery__GroupingSet.content);
   c_int x.(PgQuery__GroupingSet.location)].
Definition of_GroupingSet (ms : list scell) : outcome (PgQuery__GroupingSet.t PgQuery__Node) :=
  match ms with
  | [c1; c2; c3; c4] =>
      let* f1 := r_int c1 in
      let* f2 := r_array of_node c2 c3 in
      let* f3 := r_int c4 in
      Ok {| PgQuery__GroupingSet.kind := f1;
            PgQuery__GroupingSet.content := f2;
            PgQuery__GroupingSet.location := f3 |}
  | _ => Undef
  end.

Definition to_IntoClause (x : PgQuery__IntoClause.t PgQuery__Node) : list scell :=
  [c_ptr (s_msg pg_query__range_var__descriptor to_RangeVar) x.(PgQuery__IntoClause.rel);
   c_count x.(PgQuery__IntoClause.col_names);
   c_array to_node x.(PgQuery__IntoClause.col_names);
   c_str x.(PgQuery__IntoClause.access_method);
   c_count x.(PgQuery__IntoClause.options);
   c_array to_node x.(PgQuery__IntoClause.options);
   c_int x.(PgQuery__IntoClause.on_commit);
   c_str x.(PgQuery__IntoClause.table_space_name);
   c_ptr to_node x.(PgQuery__IntoClause.view_query);
   c_bool x.(PgQuery__IntoClause.skip_data)].
Definition of_IntoClause (ms : list scell) : outcome (PgQuery__IntoClause.t PgQuery__Node) :=
  match ms with
  | [c1; c2; c3; c4; c5; c6; c7; c8; c9; c10] =>
      let* f1 := r_ptr (o_msg pg_query__range_var__descriptor of_RangeVar) c1 in
      let* f2 := r_array of_node c2 c3 in
      let* f3 := r_str c4 in
      let* f4 := r_array of_node c5 c6 in
      let* f5 := r_int c7 in
      let* f6 := r_str c8 in
      let* f7 := r_ptr of_node c9 in
      let* f8 := r_bool c10 in
      Ok {| PgQuery__IntoClause.rel := f1;
            PgQuery__IntoClause.col_names := f2;
            PgQuery__IntoClause.access_method := f3;
            PgQuery__IntoClause.options := f4;
            PgQuery__IntoClause.on_commit := f5;
            PgQuery__IntoClause.table_space_name := f6;
            PgQuery__IntoClause.view_query := f7;
            PgQuery__IntoClause.skip_data := f8 |}
  | _ => Undef
  end.

Definition to_SelectStmt (x : PgQuery__SelectStmt.t PgQuery__Node) : list scell :=
  [c_count x.(PgQuery__SelectStmt.distinct_clause);
   c_array to_node x.(PgQuery__SelectStmt.distinct_clause);
   c_ptr (s_msg pg_query__into_clause__descriptor to_IntoClause) x.(PgQuery__SelectStmt.into_clause);
   c_count x.(PgQuery__SelectStmt.target_list);
   c_array to_node x.(PgQuery__SelectStmt.target_list);
   c_count x.(PgQuery__SelectStmt.from_clause);
   c_array to_node x.(PgQuery__SelectStmt.from_clause);
   c_ptr to_node x.(PgQuery__SelectStmt.where_clause);
   c_count x.(PgQuery__SelectStmt.group_clause);
   c_array to_node x.(PgQuery__SelectStmt.group_clause);
   c_ptr to_node x.(PgQuery__SelectStmt.having_clause);
   c_count x.(PgQuery__SelectStmt.window_clause);
   c_array to_node x.(PgQuery__SelectStmt.window_clause);
   c_count x.(PgQuery__SelectStmt.values_lists);
   c_array to_node x.(PgQuery__SelectStmt.values_lists);
   c_count x.(PgQuery__SelectStmt.sort_clause);
   c_array to_node x.(PgQuery__SelectStmt.sort_clause);
   c_ptr to_node x.(PgQuery__SelectStmt.limit_offset);
   c_ptr to_node x.(PgQuery__SelectStmt.limit_count);
   c_int x.(PgQuery__SelectStmt.limit_option);
   c_count x.(PgQuery__SelectStmt.locking_clause);
   c_array to_node x.(PgQuery__SelectStmt.locking_clause);
   c_ptr (s_msg pg_query__with_clause__descriptor to_WithClause) x.(PgQuery__SelectStmt.with_clause);
   c_int x.(PgQuery__SelectStmt.op);
   c_bool x.(PgQuery__SelectStmt.all);
   c_ptr (s_select to_node) x.(PgQuery__SelectStmt.larg);
   c_ptr (s_select to_node) x.(PgQuery__SelectStmt.rarg)].
Definition of_SelectStmt (of_select : struct -> outcome PgQuery__Node) (ms : list scell) : outcome (PgQuery__SelectStmt.t PgQuery__Node) :=
  match ms with
  | [c1; c2; c3; c4; c5; c6; c7; c8; c9; c10; c11; c12; c13; c14; c15; c16; c17; c18; c19; c20; c21; c22; c23; c24; c25; c26; c27] =>
      let* f1 := r_array of_node c1 c2 in
      let* f2 := r_ptr (o_msg pg_query__into_clause__descriptor of_IntoClause) c3 in
      let* f3 := r_array of_node c4 c5 in
      let* f4 := r_array of_node c6 c7 in
      let* f5 := r_ptr of_node c8 in
      let* f6 := r_array of_node c9 c10 in
      let* f7 := r_ptr of_node c11 in
      let* f8 := r_array of_node c12 c13 in
      let* f9 := r_array of_node c14 c15 in
      let* f10 := r_array of_node c16 c17 in
      let* f11 := r_ptr of_node c18 in
      let* f12 := r_ptr of_node c19 in
      let* f13 := r_int c20 in
      let* f14 := r_array of_node c21 c22 in
      let* f15 := r_ptr (o_msg pg_query__with_clause__descriptor of_WithClause) c23 in
      let* f16 := r_int c24 in
      let* f17 := r_bool c25 in
      let* f18 := r_ptr of_select c26 in
      let* f19 := r_ptr of_select c27 in
      Ok {| PgQuery__SelectStmt.distinct_clause := f1;
            PgQuery__SelectStmt.into_clause := f2;
            PgQuery__SelectStmt.target_list := f3;
            PgQuery__SelectStmt.from_clause := f4;
            PgQuery__SelectStmt.where_clause := f5;
            PgQuery__SelectStmt.group_clause := f6;
            PgQuery__SelectStmt.having_clause := f7;
            PgQuery__SelectStmt.window_clause := f8;
            PgQuery__SelectStmt.values_lists := f9;
            PgQuery__SelectStmt.sort_clause := f10;
            PgQuery__SelectStmt.limit_offset := f11;
            PgQuery__SelectStmt.limit_count := f12;
            PgQuery__SelectStmt.limit_option := f13;
            PgQuery__SelectStmt.locking_clause := f14;
            PgQuery__SelectStmt.with_clause := f15;
            PgQuery__SelectStmt.op := f16;
            PgQuery__SelectStmt.all := f17;
            PgQuery__SelectStmt.larg := f18;
            PgQuery__SelectStmt.rarg := f19 |}
  | _ => Undef
  end.

Definition to_InsertStmt (x : PgQuery__InsertStmt.t PgQuery__Node) : list scell :=
  [c_ptr (s_msg pg_query__range_var__descriptor to_RangeVar) x.(PgQuery__InsertStmt.relation);
   c_count x.(PgQuery__InsertStmt.cols);
   c_array to_node x.(PgQuery__InsertStmt.cols);
   c_ptr to_node x.(PgQuery__InsertStmt.select_stmt);
   c_ptr (s_msg pg_query__on_conflict_clause__descriptor to_OnConflictClause) x.(PgQuery__InsertStmt.on_conflict_clause);
   c_count x.(PgQuery__InsertStmt.returning_list);
   c_array to_node x.(PgQuery__InsertStmt.returning_list);
   c_ptr (s_msg pg_query__with_clause__descriptor to_WithClause) x.(PgQuery__InsertStmt.with_clause);
   c_int x.(PgQuery__InsertStmt.override)].
Definition of_InsertStmt (ms : list scell) : outcome (PgQuery__InsertStmt.t PgQuery__Node) :=
  match ms with
  | [c1; c2; c3; c4; c5; c6; c7; c8; c9] =>
      let* f1 := r_ptr (o_msg pg_query__range_var__descriptor of_RangeVar) c1 in
      let* f2 := r_array of_node c2 c3 in
      let* f3 := r_ptr of_node c4 in
      let* f4 := r_ptr (o_msg pg_query__on_conflict_clause__descriptor of_OnConflictClause) c5 in
      let* f5 := r_array of_node c6 c7 in
      let* f6 := r_ptr (o_msg pg_query__with_clause__descriptor of_WithClause) c8 in
      let* f7 := r_int c9 in
      Ok {| PgQuery__InsertStmt.relation := f1;
            PgQuery__InsertStmt.cols := f2;
            PgQuery__InsertStmt.select_stmt := f3;
            PgQuery__InsertStmt.on_conflict_clause := f4;
            PgQuery__InsertStmt.returning_list := f5;
            PgQuery__InsertStmt.with_clause := f6;
            PgQuery__InsertStmt.override := f7 |}
  | _ => Undef
  end.

Definition to_UpdateStmt (x : PgQuery__UpdateStmt.t PgQuery__Node) : list scell :=
  [c_ptr (s_msg pg_query__range_var__descriptor to_RangeVar) x.(PgQuery__UpdateStmt.relation);
   c_count x.(PgQuery__UpdateStmt.target_list);
   c_array to_node x.(PgQuery__UpdateStmt.target_list);
   c_ptr to_node x.(PgQuery__UpdateStmt.where_clause);
   c_count x.(PgQuery__UpdateStmt.from_clause);
   c_array to_node x.(PgQuery__UpdateStmt.from_clause);
   c_count x.(PgQuery__UpdateStmt.returning_list);
   c_array to_node x.(PgQuery__UpdateStmt.returning_list);
   c_ptr (s_msg pg_query__with_clause__descriptor to_WithClause) x.(PgQuery__UpdateStmt.with_clause)].
Definition of_UpdateStmt (ms : list scell) : outcome (PgQuery__UpdateStmt.t PgQuery__Node) :=
  match ms with
  | [c1; c2; c3; c4; c5; c6; c7; c8; c9] =>
      let* f1 := r_ptr (o_msg pg_query__range_var__descriptor of_RangeVar) c1 in
      let* f2 := r_array of_node c2 c3 in
      let* f3 := r_ptr of_node c4 in
      let* f4 := r_array of_node c5 c6 in
      let* f5 := r_array of_node c7 c8 in
      let* f6 := r_ptr (o_msg pg_query__with_clause__descriptor of_WithClause) c9 in
      Ok {| PgQuery__UpdateStmt.relation := f1;
            PgQuery__UpdateStmt.target_list := f2;
            PgQuery__UpdateStmt.where_clause := f3;
            PgQuery__UpdateStmt.from_clause := f4;
            PgQuery__UpdateStmt.returning_list := f5;
            PgQuery__UpdateStmt.with_clause := f6 |}
  | _ => Undef
  end.

Definition to_DeleteStmt (x : PgQuery__DeleteStmt.t PgQuery__Node) : list scell :=
  [c_ptr (s_msg pg_query__range_var__descriptor to_RangeVar) x.(PgQuery__DeleteStmt.relation);
   c_count x.(PgQuery__DeleteStmt.using_clause);
   c_array to_node x.(PgQuery__DeleteStmt.using_clause);
   c_ptr to_node x.(PgQuery__DeleteStmt.where_clause);
   c_count x.(PgQuery__DeleteStmt.returning_list);
   c_array to_node x.(PgQuery__DeleteStmt.returning_list);
   c_ptr (s_msg pg_query__with_clause__descriptor to_WithClause) x.(PgQuery__DeleteStmt.with_clause)].
Definition of_DeleteStmt (ms : list scell) : outcome (PgQuery__DeleteStmt.t PgQuery__Node) :=
  match ms with
  | [c1; c2; c3; c4; c5; c6; c7] =>
      let* f1 := r_ptr (o_msg pg_query__range_var__descriptor of_RangeVar) c1 in
      let* f2 := r_array of_node c2 c3 in
      let* f3 := r_ptr of_node c4 in
      let* f4 := r_array of_node c5 c6 in
      let* f5 := r_ptr (o_msg pg_query__with_clause__descriptor of_WithClause) c7 in
      Ok {| PgQuery__DeleteStmt.relation := f1;
            PgQuery__DeleteStmt.using_clause := f2;
            PgQuery__DeleteStmt.where_clause := f3;
            PgQuery__DeleteStmt.returning_list := f4;
            PgQuery__DeleteStmt.with_clause := f5 |}
  | _ => Undef
  end.

Definition to_RawStmt (x : PgQuery__RawStmt.t PgQuery__Node) : list scell :=
  [c_ptr to_node x.(PgQuery__RawStmt.stmt);
   c_int x.(PgQuery__RawStmt.stmt_location);
   c_int x.(PgQuery__RawStmt.stmt_len)].
Definition of_RawStmt (ms : list scell) : outcome (PgQuery__RawStmt.t PgQuery__Node) :=
  match ms with
  | [c1; c2; c3] =>
      let* f1 := r_ptr of_node c1 in
      let* f2 := r_int c2 in
      let* f3 := r_int c3 in
      Ok {| PgQuery__RawStmt.stmt := f1;
            PgQuery__RawStmt.stmt_location := f2;
            PgQuery__RawStmt.stmt_len := f3 |}
  | _ => Undef
  end.

Definition to_AlterTableCmd (x : PgQuery__AlterTableCmd.t PgQuery__Node) : list scell :=
  [c_int x.(PgQuery__AlterTableCmd.subtype);
   c_str x.(PgQuery__AlterTableCmd.name);
   c_int x.(PgQuery__AlterTableCmd.num);
   c_ptr (s_msg pg_query__role_spec__descriptor to_RoleSpec) x.(PgQuery__AlterTableCmd.newowner);
   c_ptr to_node x.(PgQuery__AlterTableCmd.def);
   c_int x.(PgQuery__AlterTableCmd.behavior);
   c_bool x.(PgQuery__AlterTableCmd.missing_ok)].
Definition of_AlterTableCmd (ms : list scell) : outcome (PgQuery__AlterTableCmd.t PgQuery__Node) :=
  match ms with
  | [c1; c2; c3; c4; c5; c6; c7] =>
      let* f1 := r_int c1 in
      let* f2 := r_str c2 in
      let* f3 := r_int c3 in
      let* f4 := r_ptr (o_msg pg_query__role_spec__descriptor of_RoleSpec) c4 in
      let* f5 := r_ptr of_node c5 in
      let* f6 := r_int c6 in
      let* f7 := r_bool c7 in
      Ok {| PgQuery__AlterTableCmd.subtype := f1;
            PgQuery__AlterTableCmd.name := f2;
            PgQuery__AlterTableCmd.num := f3;
            PgQuery__AlterTableCmd.newowner := f4;
            PgQuery__AlterTableCmd.def := f5;
            PgQuery__AlterTableCmd.behavior := f6;
            PgQuery__AlterTableCmd.missing_ok := f7 |}
  | _ => Undef
  end.

Definition to_PartitionBoundSpec (x : PgQuery__PartitionBoundSpec.t PgQuery__Node) : list scell :=
  [c_str x.(PgQuery__PartitionBoundSpec.strategy);
   c_bool x.(PgQuery__PartitionBoundSpec.is_default);
   c_int x.(PgQuery__PartitionBoundSpec.modulus);
   c_int x.(PgQuery__PartitionBoundSpec.remainder);
   c_count x.(PgQuery__PartitionBoundSpec.listdatums);
   c_array to_node x.(PgQuery__PartitionBoundSpec.listdatums);
   c_count x.(PgQuery__PartitionBoundSpec.lowerdatums);
   c_array to_node x.(PgQuery__PartitionBoundSpec.lowerdatums);
   c_count x.(PgQuery__PartitionBoundSpec.upperdatums);
   c_array to_node x.(PgQuery__PartitionBoundSpec.upperdatums);
   c_int x.(PgQuery__PartitionBoundSpec.location)].
Definition of_PartitionBoundSpec (ms : list scell) : outcome (PgQuery__PartitionBoundSpec.t PgQuery__Node) :=
  match ms with
  | [c1; c2; c3; c4; c5; c6; c7; c8; c9; c10; c11] =>
      let* f1 := r_str c1 in
      let* f2 := r_bool c2 in
      let* f3 := r_int c3 in
      let* f4 := r_int c4 in
      let* f5 := r_array of_node c5 c6 in
      let* f6 := r_array of_node c7 c8 in
      let* f7 := r_array of_node c9 c10 in
      let* f8 := r_int c11 in
      Ok {| PgQuery__PartitionBoundSpec.strategy := f1;
            PgQuery__PartitionBoundSpec.is_default := f2;
            PgQuery__PartitionBoundSpec.modulus := f3;
            PgQuery__PartitionBoundSpec.remainder := f4;
            PgQuery__PartitionBoundSpec.listdatums := f5;
            PgQuery__PartitionBoundSpec.lowerdatums := f6;
            PgQuery__PartitionBoundSpec.upperdatums := f7;
            PgQuery__PartitionBoundSpec.location := f8 |}
  | _ => Undef
  end.

Definition to_TableLikeClause (x : PgQuery__TableLikeClause.t PgQuery__Node) : list scell :=
  [c_ptr (s_msg pg_query__range_var__descriptor to_RangeVar) x.(PgQuery__TableLikeClause.relation);
   c_int x.(PgQuery__TableLikeClause.options);
   c_int x.(PgQuery__TableLikeClause.relation_oid)].
Definition of_TableLikeClause (ms : list scell) : outcome (PgQuery__TableLikeClause.t PgQuery__Node) :=
  match ms with
  | [c1; c2; c3] =>
      let* f1 := r_ptr (o_msg pg_query__range_var__descriptor of_RangeVar) c1 in
      let* f2 := r_int c2 in
      let* f3 := r_int c3 in
      Ok {| PgQuery__TableLikeClause.relation := f1;
            PgQuery__TableLikeClause.options := f2;
            PgQuery__TableLikeClause.relation_oid := f3 |}
  | _ => Undef
  end.

Definition to_PartitionElem (x : PgQuery__PartitionElem.t PgQuery__Node) : list scell :=
  [c_str x.(PgQuery__PartitionElem.name);
   c_ptr to_node x.(PgQuery__PartitionElem.expr);
   c_count x.(PgQuery__PartitionElem.collation);
   c_array to_node x.(PgQuery__PartitionElem.collation);
   c_count x.(PgQuery__PartitionElem.opclass);
   c_array to_node x.(PgQuery__PartitionElem.opclass);
   c_int x.(PgQuery__PartitionElem.location)].
Definition of_PartitionElem (ms : list scell) : outcome (PgQuery__PartitionElem.t PgQuery__Node) :=
  match ms with
  | [c1; c2; c3; c4; c5; c6; c7] =>
      let* f1 := r_str c1 in
      let* f2 := r_ptr of_node c2 in
      let* f3 := r_array of_node c3 c4 in
      let* f4 := r_array of_node c5 c6 in
      let* f5 := r_int c7 in
      Ok {| PgQuery__PartitionElem.name := f1;
            PgQuery__PartitionElem.expr := f2;
            PgQuery__PartitionElem.collation := f3;
            PgQuery__PartitionElem.opclass := f4;
            PgQuery__PartitionElem.location := f5 |}
  | _ => Undef
  end.

Definition to_PartitionSpec (x : PgQuery__PartitionSpec.t PgQuery__Node) : list scell :=
  [c_str x.(PgQuery__PartitionSpec.strategy);
   c_count x.(PgQuery__PartitionSpec.part_params);
   c_array to_node x.(PgQuery__PartitionSpec.part_params);
   c_int x.(PgQuery__PartitionSpec.location)].
Definition of_PartitionSpec (ms : list scell) : outcome (PgQuery__PartitionSpec.t PgQuery__Node) :=
  match ms with
  | [c1; c2; c3; c4] =>
      let* f1 := r_str c1 in
      let* f2 := r_array of_node c2 c3 in
      let* f3 := r_int c4 in
      Ok {| PgQuery__PartitionSpec.strategy := f1;
            PgQuery__PartitionSpec.part_params := f2;
            PgQuery__PartitionSpec.location := f3 |}
  | _ => Undef
  end.

Definition to_PartitionCmd (x : PgQuery__PartitionCmd.t PgQuery__Node) : list scell :=
  [c_ptr (s_msg pg_query__range_var__descriptor to_RangeVar) x.(PgQuery__PartitionCmd.name);
   c_ptr (s_msg pg_query__partition_bound_spec__descriptor to_PartitionBoundSpec) x.(PgQuery__PartitionCmd.bound)].
Definition of_PartitionCmd (ms : list scell) : outcome (PgQuery__PartitionCmd.t PgQuery__Node) :=
  match ms with
  | [c1; c2] =>
      let* f1 := r_ptr (o_msg pg_query__range_var__descriptor of_RangeVar) c1 in
      let* f2 := r_ptr (o_msg pg_query__partition_bound_spec__descriptor of_PartitionBoundSpec) c2 in
      Ok {| PgQuery__PartitionCmd.name := f1;
            PgQuery__PartitionCmd.bound := f2 |}
  | _ => Undef
  end.

Definition to_TriggerTransition (x : PgQuery__TriggerTransition.t PgQuery__Node) : list scell :=
  [c_str x.(PgQuery__TriggerTransition.name);
   c_bool x.(PgQuery__TriggerTransition.is_new);
   c_bool x.(PgQuery__TriggerTransition.is_table)].
Definition of_TriggerTransition (ms : list scell) : outcome (PgQuery__TriggerTransition.t PgQuery__Node) :=
  match ms with
  | [c1; c2; c3] =>
      let* f1 := r_str c1 in
      let* f2 := r_bool c2 in
      let* f3 := r_bool c3 in
      Ok {| PgQuery__TriggerTransition.name := f1;
            PgQuery__TriggerTransition.is_new := f2;
            PgQuery__TriggerTransition.is_table := f3 |}
  | _ => Undef
  end.

Definition to_CreateSchemaStmt (x : PgQuery__CreateSchemaStmt.t PgQuery__Node) : list scell :=
  [c_str x.(PgQuery__CreateSchemaStmt.schemaname);
   c_ptr (s_msg pg_query__role_spec__descriptor to_RoleSpec) x.(PgQuery__CreateSchemaStmt.authrole);
   c_count x.(PgQuery__CreateSchemaStmt.schema_elts);
   c_array to_node x.(PgQuery__CreateSchemaStmt.schema_elts);
   c_bool x.(PgQuery__CreateSchemaStmt.if_not_exists)].
Definition of_CreateSchemaStmt (ms : list scell) : outcome (PgQuery__CreateSchemaStmt.t PgQuery__Node) :=
  match ms with
  | [c1; c2; c3; c4; c5] =>
      let* f1 := r_str c1 in
      let* f2 := r_ptr (o_msg pg_query__role_spec__descriptor of_RoleSpec) c2 in
      let* f3 := r_array of_node c3 c4 in
      let* f4 := r_bool c5 in
      Ok {| PgQuery__CreateSchemaStmt.schemaname := f1;
            PgQuery__CreateSchemaStmt.authrole := f2;
            PgQuery__CreateSchemaStmt.schema_elts := f3;
            PgQuery__CreateSchemaStmt.if_not_exists := f4 |}
  | _ => Undef
  end.

Definition to_AlterTableStmt (x : PgQuery__AlterTableStmt.t PgQuery__Node) : list scell :=
  [c_ptr (s_msg pg_query__range_var__descriptor to_RangeVar) x.(PgQuery__AlterTableStmt.relation);
   c_count x.(PgQuery__AlterTableStmt.cmds);
   c_array to_node x.(PgQuery__AlterTableStmt.cmds);
   c_int x.(PgQuery__AlterTableStmt.relkind);
   c_bool x.(PgQuery__AlterTableStmt.missing_ok)].
Definition of_AlterTableStmt (ms : list scell) : outcome (PgQuery__AlterTableStmt.t PgQuery__Node) :=
  match ms with
  | [c1; c2; c3; c4; c5] =>
      let* f1 := r_ptr (o_msg pg_query__range_var__descriptor of_RangeVar) c1 in
      let* f2 := r_array of_node c2 c3 in
      let* f3 := r_int c4 in
      let* f4 := r_bool c5 in
      Ok {| PgQuery__AlterTableStmt.relation := f1;
            PgQuery__AlterTableStmt.cmds := f2;
            PgQuery__AlterTableStmt.relkind := f3;
            PgQuery__AlterTableStmt.missing_ok := f4 |}
  | _ => Undef
  end.

Definition to_ReplicaIdentityStmt (x : PgQuery__ReplicaIdentityStmt.t PgQuery__Node) : list scell :=
  [c_str x.(PgQuery__ReplicaIdentityStmt.identity_type);
   c_str x.(PgQuery__ReplicaIdentityStmt.name)].
Definition of_ReplicaIdentityStmt (ms : list scell) : outcome (PgQuery__ReplicaIdentityStmt.t PgQuery__Node) :=
  match ms with
  | [c1; c2] =>
      let* f1 := r_str c1 in
      let* f2 := r_str c2 in
      Ok {| PgQuery__ReplicaIdentityStmt.identity_type := f1;
            PgQuery__ReplicaIdentityStmt.name := f2 |}
  | _ => Undef
  end.

Definition to_AlterCollationStmt (x : PgQuery__AlterCollationStmt.t PgQuery__Node) : list scell :=
  [c_count x.(PgQuery__AlterCollationStmt.collname);
   c_array to_node x.(PgQuery__AlterCollationStmt.collname)].
Definition of_AlterCollationStmt (ms : list scell) : outcome (PgQuery__AlterCollationStmt.t PgQuery__Node) :=
  match ms with
  | [c1; c2] =>
      let* f1 := r_array of_node c1 c2 in
      Ok {| PgQuery__AlterCollationStmt.collname := f1 |}
  | _ => Undef
  end.

Definition to_AlterDomainStmt (x : PgQuery__AlterDomainStmt.t PgQuery__Node) : list scell :=
  [c_str x.(PgQuery__AlterDomainStmt.subtype);
   c_count x.(PgQuery__AlterDomainStmt.type_name);
   c_array to_node x.(PgQuery__AlterDomainStmt.type_name);
   c_str x.(PgQuery__AlterDomainStmt.name);
   c_ptr to_node x.(PgQuery__AlterDomainStmt.def);
   c_int x.(PgQuery__AlterDomainStmt.behavior);
   c_bool x.(PgQuery__AlterDomainStmt.missing_ok)].
Definition of_AlterDomainStmt (ms : list scell) : outcome (PgQuery__AlterDomainStmt.t PgQuery__Node) :=
  match ms with
  | [c1; c2; c3; c4; c5; c6; c7] =>
      let* f1 := r_str c1 in
      let* f2 := r_array of_node c2 c3 in
      let* f3 := r_str c4 in
      let* f4 := r_ptr of_node c5 in
      let* f5 := r_int c6 in
      let* f6 := r_bool c7 in
      Ok {| PgQuery__AlterDomainStmt.subtype := f1;
            PgQuery__AlterDomainStmt.type_name := f2;
            PgQuery__AlterDomainStmt.name := f3;
            PgQuery__AlterDomainStmt.def := f4;
            PgQuery__AlterDomainStmt.behavior := f5;
            PgQuery__AlterDomainStmt.missing_ok := f6 |}
  | _ => Undef
  end.

Definition to_GrantStmt (x : PgQuery__GrantStmt.t PgQuery__Node) : list scell :=
  [c_bool x.(PgQuery__GrantStmt.is_grant);
   c_int x.(PgQuery__GrantStmt.targtype);
   c_int x.(PgQuery__GrantStmt.objtype);
   c_count x.(PgQuery__GrantStmt.objects);
   c_array to_node x.(PgQuery__GrantStmt.objects);
   c_count x.(PgQuery__GrantStmt.privileges);
   c_array to_node x.(PgQuery__GrantStmt.privileges);
   c_count x.(PgQuery__GrantStmt.grantees);
   c_array to_node x.(PgQuery__GrantStmt.grantees);
   c_bool x.(PgQuery__GrantStmt.grant_option);
   c_int x.(PgQuery__GrantStmt.behavior)].
Definition of_GrantStmt (ms : list scell) : outcome (PgQuery__GrantStmt.t PgQuery__Node) :=
  match ms with
  | [c1; c2; c3; c4; c5; c6; c7; c8; c9; c10; c11] =>
      let* f1 := r_bool c1 in
      let* f2 := r_int c2 in
      let* f3 := r_int c3 in
      let* f4 := r_array of_node c4 c5 in
      let* f5 := r_array of_node c6 c7 in
      let* f6 := r_array of_node c8 c9 in
      let* f7 := r_bool c10 in
      let* f8 := r_int c11 in
      Ok {| PgQuery__GrantStmt.is_grant := f1;
            PgQuery__GrantStmt.targtype := f2;
            PgQuery__GrantStmt.objtype := f3;
            PgQuery__GrantStmt.objects := f4;
            PgQuery__GrantStmt.privileges := f5;
            PgQuery__GrantStmt.grantees := f6;
            PgQuery__GrantStmt.grant_option := f7;
            PgQuery__GrantStmt.behavior := f8 |}
  | _ => Undef
  end.

Definition to_ObjectWithArgs (x : PgQuery__ObjectWithArgs.t PgQuery__Node) : list scell :=
  [c_count x.(PgQuery__ObjectWithArgs.objname);
   c_array to_node x.(PgQuery__ObjectWithArgs.objname);
   c_count x.(PgQuery__ObjectWithArgs.objargs);
   c_array to_node x.(PgQuery__ObjectWithArgs.objargs);
   c_bool x.(PgQuery__ObjectWithArgs.args_unspecified)].
Definition of_ObjectWithArgs (ms : list scell) : outcome (PgQuery__ObjectWithArgs.t PgQuery__Node) :=
  match ms with
  | [c1; c2; c3; c4; c5] =>
      let* f1 := r_array of_node c1 c2 in
      let* f2 := r_array of_node c3 c4 in
      let* f3 := r_bool c5 in
      Ok {| PgQuery__ObjectWithArgs.objname := f1;
            PgQuery__ObjectWithArgs.objargs := f2;
            PgQuery__ObjectWithArgs.args_unspecified := f3 |}
  | _ => Undef
  end.

Definition to_AccessPriv (x : PgQuery__AccessPriv.t PgQuery__Node) : list scell :=
  [c_str x.(PgQuery__AccessPriv.priv_name);
   c_count x.(PgQuery__AccessPriv.cols);
   c_array to_node x.(PgQuery__AccessPriv.cols)].
Definition of_AccessPriv (ms : list scell) : outcome (PgQuery__AccessPriv.t PgQuery__Node) :=
  match ms with
  | [c1; c2; c3] =>
      let* f1 := r_str c1 in
      let* f2 := r_array of_node c2 c3 in
      Ok {| PgQuery__AccessPriv.priv_name := f1;
            PgQuery__AccessPriv.cols := f2 |}
  | _ => Undef
  end.

Definition to_GrantRoleStmt (x : PgQuery__GrantRoleStmt.t PgQuery__Node) : list scell :=
  [c_count x.(PgQuery__GrantRoleStmt.granted_roles);
   c_array to_node x.(PgQuery__GrantRoleStmt.granted_roles);
   c_count x.(PgQuery__GrantRoleStmt.grantee_roles);
   c_array to_node x.(PgQuery__GrantRoleStmt.grantee_roles);
   c_bool x.(PgQuery__GrantRoleStmt.is_grant);
   c_bool x.(PgQuery__GrantRoleStmt.admin_opt);
   c_ptr (s_msg pg_query__role_spec__descriptor to_RoleSpec) x.(PgQuery__GrantRoleStmt.grantor);
   c_int x.(PgQuery__GrantRoleStmt.behavior)].
Definition of_GrantRoleStmt (ms : list scell) : outcome (PgQuery__GrantRoleStmt.t PgQuery__Node) :=
  match ms with
  | [c1; c2; c3; c4; c5; c6; c7; c8] =>
      let* f1 := r_array of_node c1 c2 in
      let* f2 := r_array of_node c3 c4 in
      let* f3 := r_bool c5 in
      let* f4 := r_bool c6 in
      let* f5 := r_ptr (o_msg pg_query__role_spec__descriptor of_RoleSpec) c7 in
      let* f6 := r_int c8 in
      Ok {| PgQuery__GrantRoleStmt.granted_roles := f1;
            PgQuery__GrantRoleStmt.grantee_roles := f2;
            PgQuery__GrantRoleStmt.is_grant := f3;
            PgQuery__GrantRoleStmt.admin_opt := f4;
            PgQuery__GrantRoleStmt.grantor := f5;
            PgQuery__GrantRoleStmt.behavior := f6 |}
  | _ => Undef
  end.

Definition to_AlterDefaultPrivilegesStmt (x : PgQuery__AlterDefaultPrivilegesStmt.t PgQuery__Node) : list scell :=
  [c_count x.(PgQuery__AlterDefaultPrivilegesStmt.options);
   c_array to_node x.(PgQuery__AlterDefaultPrivilegesStmt.options);
   c_ptr (s_msg pg_query__grant_stmt__descriptor to_GrantStmt) x.(PgQuery__AlterDefaultPrivilegesStmt.action)].
Definition of_AlterDefaultPrivilegesStmt (ms : list scell) : outcome (PgQuery__AlterDefaultPrivilegesStmt.t PgQuery__Node) :=
  match ms with
  | [c1; c2; c3] =>
      let* f1 := r_array of_node c1 c2 in
      let* f2 := r_ptr (o_msg pg_query__grant_stmt__descriptor of_GrantStmt) c3 in
      Ok {| PgQuery__AlterDefaultPrivilegesStmt.options := f1;
            PgQuery__AlterDefaultPrivilegesStmt.action := f2 |}
  | _ => Undef
  end.

Definition to_CopyStmt (x : PgQuery__CopyStmt.t PgQuery__Node) : list scell :=
  [c_ptr (s_msg pg_query__range_var__descriptor to_RangeVar) x.(PgQuery__CopyStmt.relation);
   c_ptr to_node x.(PgQuery__CopyStmt.query);
   c_count x.(PgQuery__CopyStmt.attlist);
   c_array to_node x.(PgQuery__CopyStmt.attlist);
   c_bool x.(PgQuery__CopyStmt.is_from);
   c_bool x.(PgQuery__CopyStmt.is_program);
   c_str x.(PgQuery__CopyStmt.filename);
   c_count x.(PgQuery__CopyStmt.options);
   c_array to_node x.(PgQuery__CopyStmt.options);
   c_ptr to_node x.(PgQuery__CopyStmt.where_clause)].
Definition of_CopyStmt (ms : list scell) : outcome (PgQuery__CopyStmt.t PgQuery__Node) :=
  match ms with
  | [c1; c2; c3; c4; c5; c6; c7; c8; c9; c10] =>
      let* f1 := r_ptr (o_msg pg_query__range_var__descriptor of_RangeVar) c1 in
      let* f2 := r_ptr of_node c2 in
      let* f3 := r_array of_node c3 c4 in
      let* f4 := r_bool c5 in
      let* f5 := r_bool c6 in
      let* f6 := r_str c7 in
      let* f7 := r_array of_node c8 c9 in
      let* f8 := r_ptr of_node c10 in
      Ok {| PgQuery__CopyStmt.relation := f1;
            PgQuery__CopyStmt.query := f2;
            PgQuery__CopyStmt.attlist := f3;
            PgQuery__CopyStmt.is_from := f4;
            PgQuery__CopyStmt.is_program := f5;
            PgQuery__CopyStmt.filename := f6;
            PgQuery__CopyStmt.options := f7;
            PgQuery__CopyStmt.where_clause := f8 |}
  | _ => Undef
  end.

Definition to_VariableSetStmt (x : PgQuery__VariableSetStmt.t PgQuery__Node) : list scell :=
  [c_int x.(PgQuery__VariableSetStmt.kind);
   c_str x.(PgQuery__VariableSetStmt.name);
   c_count x.(PgQuery__VariableSetStmt.args);
   c_array to_node x.(PgQuery__VariableSetStmt.args);
   c_bool x.(PgQuery__VariableSetStmt.is_local)].
Definition of_VariableSetStmt (ms : list scell) : outcome (PgQuery__VariableSetStmt.t PgQuery__Node) :=
  match ms with
  | [c1; c2; c3; c4; c5] =>
      let* f1 := r_int c1 in
      let* f2 := r_str c2 in
      let* f3 := r_array of_node c3 c4 in
      let* f4 := r_bool c5 in
      Ok {| PgQuery__VariableSetStmt.kind := f1;
            PgQuery__VariableSetStmt.name := f2;
            PgQuery__VariableSetStmt.args := f3;
            PgQuery__VariableSetStmt.is_local := f4 |}
  | _ => Undef
  end.

Definition to_VariableShowStmt (x : PgQuery__VariableShowStmt.t PgQuery__Node) : list scell :=
  [c_str x.(PgQuery__VariableShowStmt.name)].
Definition of_VariableShowStmt (ms : list scell) : outcome (PgQuery__VariableShowStmt.t PgQuery__Node) :=
  match ms with
  | [c1] =>
      let* f1 := r_str c1 in
      Ok {| PgQuery__VariableShowStmt.name := f1 |}
  | _ => Undef
  end.

Definition to_CreateStmt (x : PgQuery__CreateStmt.t PgQuery__Node) : list scell :=
  [c_ptr (s_msg pg_query__range_var__descriptor to_RangeVar) x.(PgQuery__CreateStmt.relation);
   c_count x.(PgQuery__CreateStmt.table_elts);
   c_array to_node x.(PgQuery__CreateStmt.table_elts);
   c_count x.(PgQuery__CreateStmt.inh_relations);
   c_array to_node x.(PgQuery__CreateStmt.inh_relations);
   c_ptr (s_msg pg_query__partition_bound_spec__descriptor to_PartitionBoundSpec) x.(PgQuery__CreateStmt.partbound);
   c_ptr (s_msg pg_query__partition_spec__descriptor to_PartitionSpec) x.(PgQuery__CreateStmt.partspec);
   c_ptr (s_msg pg_query__type_name__descriptor to_TypeName) x.(PgQuery__CreateStmt.of_typename);
   c_count x.(PgQuery__CreateStmt.constraints);
   c_array to_node x.(PgQuery__CreateStmt.constraints);
   c_count x.(PgQuery__CreateStmt.options);
   c_array to_node x.(PgQuery__CreateStmt.options);
   c_int x.(PgQuery__CreateStmt.oncommit);
   c_str x.(PgQuery__CreateStmt.tablespacename);
   c_str x.(PgQuery__CreateStmt.access_method);
   c_bool x.(PgQuery__CreateStmt.if_not_exists)].
Definition of_CreateStmt (ms : list scell) : outcome (PgQuery__CreateStmt.t PgQuery__Node) :=
  match ms with
  | [c1; c2; c3; c4; c5; c6; c7; c8; c9; c10; c11; c12; c13; c14; c15; c16] =>
      let* f1 := r_ptr (o_msg pg_query__range_var__descriptor of_RangeVar) c1 in
      let* f2 := r_array of_node c2 c3 in
      let* f3 := r_array of_node c4 c5 in
      let* f4 := r_ptr (o_msg pg_query__partition_bound_spec__descriptor of_PartitionBoundSpec) c6 in
      let* f5 := r_ptr (o_msg pg_query__partition_spec__descriptor of_PartitionSpec) c7 in
      let* f6 := r_ptr (o_msg pg_query__type_name__descriptor of_TypeName) c8 in
      let* f7 := r_array of_node c9 c10 in
      let* f8 := r_array of_node c11 c12 in
      let* f9 := r_int c13 in
      let* f10 := r_str c14 in
      let* f11 := r_str c15 in
      let* f12 := r_bool c16 in
      Ok {| PgQuery__CreateStmt.relation := f1;
            PgQuery__CreateStmt.table_elts := f2;
            PgQuery__CreateStmt.inh_relations := f3;
            PgQuery__CreateStmt.partbound := f4;
            PgQuery__CreateStmt.partspec := f5;
            PgQuery__CreateStmt.of_typename := f6;
            PgQuery__CreateStmt.constraints := f7;
            PgQuery__CreateStmt.options := f8;
            PgQuery__CreateStmt.oncommit := f9;
            PgQuery__CreateStmt.tablespacename := f10;
            PgQuery__CreateStmt.access_method := f11;
            PgQuery__CreateStmt.if_not_exists := f12 |}
  | _ => Undef
  end.

Definition to_CreateTableSpaceStmt (x : PgQuery__CreateTableSpaceStmt.t PgQuery__Node) : list scell :=
  [c_str x.(PgQuery__CreateTableSpaceStmt.tablespacename);
   c_ptr (s_msg pg_query__role_spec__descriptor to_RoleSpec) x.(PgQuery__CreateTableSpaceStmt.owner);
   c_str x.(PgQuery__CreateTableSpaceStmt.location);
   c_count x.(PgQuery__CreateTableSpaceStmt.options);
   c_array to_node x.(PgQuery__CreateTableSpaceStmt.options)].
Definition of_CreateTableSpaceStmt (ms : list scell) : outcome (PgQuery__CreateTableSpaceStmt.t PgQuery__Node) :=
  match ms with
  | [c1; c2; c3; c4; c5] =>
      let* f1 := r_str c1 in
      let* f2 := r_ptr (o_msg pg_query__role_spec__descriptor of_RoleSpec) c2 in
      let* f3 := r_str c3 in
      let* f4 := r_array of_node c4 c5 in
      Ok {| PgQuery__CreateTableSpaceStmt.tablespacename := f1;
            PgQuery__CreateTableSpaceStmt.owner := f2;
            PgQuery__CreateTableSpaceStmt.location := f3;
            PgQuery__CreateTableSpaceStmt.options := f4 |}
  | _ => Undef
  end.

Definition to_DropTableSpaceStmt (x : PgQuery__DropTableSpaceStmt.t PgQuery__Node) : list scell :=
  [c_str x.(PgQuery__DropTableSpaceStmt.tablespacename);
   c_bool x.(PgQuery__DropTableSpaceStmt.missing_ok)].
Definition of_DropTableSpaceStmt (ms : list scell) : outcome (PgQuery__DropTableSpaceStmt.t PgQuery__Node) :=
  match ms with
  | [c1; c2] =>
      let* f1 := r_str c1 in
      let* f2 := r_bool c2 in
      Ok {| PgQuery__DropTableSpaceStmt.tablespacename := f1;
            PgQuery__DropTableSpaceStmt.missing_ok := f2 |}
  | _ => Undef
  end.

Definition to_AlterTableSpaceOptionsStmt (x : PgQuery__AlterTableSpaceOptionsStmt.t PgQuery__Node) : list scell :=
  [c_str x.(PgQuery__AlterTableSpaceOptionsStmt.tablespacename);
   c_count x.(PgQuery__AlterTableSpaceOptionsStmt.options);
   c_array to_node x.(PgQuery__AlterTableSpaceOptionsStmt.options);
   c_bool x.(PgQuery__AlterTableSpaceOptionsStmt.is_reset)].
Definition of_AlterTableSpaceOptionsStmt (ms : list scell) : outcome (PgQuery__AlterTableSpaceOptionsStmt.t PgQuery__Node) :=
  match ms with
  | [c1; c2; c3; c4] =>
      let* f1 := r_str c1 in
      let* f2 := r_array of_node c2 c3 in
      let* f3 := r_bool c4 in
      Ok {| PgQuery__AlterTableSpaceOptionsStmt.tablespacename := f1;
            PgQuery__AlterTableSpaceOptionsStmt.options := f2;
            PgQuery__AlterTableSpaceOptionsStmt.is_reset := f3 |}
  | _ => Undef
  end.

Definition to_AlterTableMoveAllStmt (x : PgQuery__AlterTableMoveAllStmt.t PgQuery__Node) : list scell :=
  [c_str x.(PgQuery__AlterTableMoveAllStmt.orig_tablespacename);
   c_int x.(PgQuery__AlterTableMoveAllStmt.objtype);
   c_count x.(PgQuery__AlterTableMoveAllStmt.roles);
   c_array to_node x.(PgQuery__AlterTableMoveAllStmt.roles);
   c_str x.(PgQuery__AlterTableMoveAllStmt.new_tablespacename);
   c_bool x.(PgQuery__AlterTableMoveAllStmt.nowait)].
Definition of_AlterTableMoveAllStmt (ms : list scell) : outcome (PgQuery__AlterTableMoveAllStmt.t PgQuery__Node) :=
  match ms with
  | [c1; c2; c3; c4; c5; c6] =>
      let* f1 := r_str c1 in
      let* f2 := r_int c2 in
      let* f3 := r_array of_node c3 c4 in
      let* f4 := r_str c5 in
      let* f5 := r_bool c6 in
      Ok {| PgQuery__AlterTableMoveAllStmt.orig_tablespacename := f1;
            PgQuery__AlterTableMoveAllStmt.objtype := f2;
            PgQuery__AlterTableMoveAllStmt.roles := f3;
            PgQuery__AlterTableMoveAllStmt.new_tablespacename := f4;
            PgQuery__AlterTableMoveAllStmt.nowait := f5 |}
  | _ => Undef
  end.

Definition to_CreateExtensionStmt (x : PgQuery__CreateExtensionStmt.t PgQuery__Node) : list scell :=
  [c_str x.(PgQuery__CreateExtensionStmt.extname);
   c_bool x.(PgQuery__CreateExtensionStmt.if_not_exists);
   c_count x.(PgQuery__CreateExtensionStmt.options);
   c_array to_node x.(PgQuery__CreateExtensionStmt.options)].
Definition of_CreateExtensionStmt (ms : list scell) : outcome (PgQuery__CreateExtensionStmt.t PgQuery__Node) :=
  match ms with
  | [c1; c2; c3; c4] =>
      let* f1 := r_str c1 in
      let* f2 := r_bool c2 in
      let* f3 := r_array of_node c3 c4 in
      Ok {| PgQuery__CreateExtensionStmt.extname := f1;
            PgQuery__CreateExtensionStmt.if_not_exists := f2;
            PgQuery__CreateExtensionStmt.options := f3 |}
  | _ => Undef
  end.

Definition to_AlterExtensionStmt (x : PgQuery__AlterExtensionStmt.t PgQuery__Node) : list scell :=
  [c_str x.(PgQuery__AlterExtensionStmt.extname);
   c_count x.(PgQuery__AlterExtensionStmt.options);
   c_array to_node x.(PgQuery__AlterExtensionStmt.options)].
Definition of_AlterExtensionStmt (ms : list scell) : outcome (PgQuery__AlterExtensionStmt.t PgQuery__Node) :=
  match ms with
  | [c1; c2; c3] =>
      let* f1 := r_str c1 in
      let* f2 := r_array of_node c2 c3 in
      Ok {| PgQuery__AlterExtensionStmt.extname := f1;
            PgQuery__AlterExtensionStmt.options := f2 |}
  | _ => Undef
  end.

Definition to_AlterExtensionContentsStmt (x : PgQuery__AlterExtensionContentsStmt.t PgQuery__Node) : list scell :=
  [c_str x.(PgQuery__AlterExtensionContentsStmt.extname);
   c_int x.(PgQuery__AlterExtensionContentsStmt.action);
   c_int x.(PgQuery__AlterExtensionContentsStmt.objtype);
   c_ptr to_node x.(PgQuery__AlterExtensionContentsStmt.object)].
Definition of_AlterExtensionContentsStmt (ms : list scell) : outcome (PgQuery__AlterExtensionContentsStmt.t PgQuery__Node) :=
  match ms with
  | [c1; c2; c3; c4] =>
      let* f1 := r_str c1 in
      let* f2 := r_int c2 in
      let* f3 := r_int c3 in
      let* f4 := r_ptr of_node c4 in
      Ok {| PgQuery__AlterExtensionContentsStmt.extname := f1;
            PgQuery__AlterExtensionContentsStmt.action := f2;
            PgQuery__AlterExtensionContentsStmt.objtype := f3;
            PgQuery__AlterExtensionContentsStmt.object := f4 |}
  | _ => Undef
  end.

Definition to_CreateFdwStmt (x : PgQuery__CreateFdwStmt.t PgQuery__Node) : list scell :=
  [c_str x.(PgQuery__CreateFdwStmt.fdwname);
   c_count x.(PgQuery__CreateFdwStmt.func_options);
   c_array to_node x.(PgQuery__CreateFdwStmt.func_options);
   c_count x.(PgQuery__CreateFdwStmt.options);
   c_array to_node x.(PgQuery__CreateFdwStmt.options)].
Definition of_CreateFdwStmt (ms : list scell) : outcome (PgQuery__CreateFdwStmt.t PgQuery__Node) :=
  match ms with
  | [c1; c2; c3; c4; c5] =>
      let* f1 := r_str c1 in
      let* f2 := r_array of_node c2 c3 in
      let* f3 := r_array of_node c4 c5 in
      Ok {| PgQuery__CreateFdwStmt.fdwname := f1;
            PgQuery__CreateFdwStmt.func_options := f2;
            PgQuery__CreateFdwStmt.options := f3 |}
  | _ => Undef
  end.

Definition to_AlterFdwStmt (x : PgQuery__AlterFdwStmt.t PgQuery__Node) : list scell :=
  [c_str x.(PgQuery__AlterFdwStmt.fdwname);
   c_count x.(PgQuery__AlterFdwStmt.func_options);
   c_array to_node x.(PgQuery__AlterFdwStmt.func_options);
   c_count x.(PgQuery__AlterFdwStmt.options);
   c_array to_node x.(PgQuery__AlterFdwStmt.options)].
Definition of_AlterFdwStmt (ms : list scell) : outcome (PgQuery__AlterFdwStmt.t PgQuery__Node) :=
  match ms with
  | [c1; c2; c3; c4; c5] =>
      let* f1 := r_str c1 in
      let* f2 := r_array of_node c2 c3 in
      let* f3 := r_array of_node c4 c5 in
      Ok {| PgQuery__AlterFdwStmt.fdwname := f1;
            PgQuery__AlterFdwStmt.func_options := f2;
            PgQuery__AlterFdwStmt.options := f3 |}
  | _ => Undef
  end.

Definition to_CreateForeignServerStmt (x : PgQuery__CreateForeignServerStmt.t PgQuery__Node) : list scell :=
  [c_str x.(PgQuery__CreateForeignServerStmt.servername);
   c_str x.(PgQuery__CreateForeignServerStmt.servertype);
   c_str x.(PgQuery__CreateForeignServerStmt.version);
   c_str x.(PgQuery__CreateForeignServerStmt.fdwname);
   c_bool x.(PgQuery__CreateForeignServerStmt.if_not_exists);
   c_count x.(PgQuery__CreateForeignServerStmt.options);
   c_array to_node x.(PgQuery__CreateForeignServerStmt.options)].
Definition of_CreateForeignServerStmt (ms : list scell) : outcome (PgQuery__CreateForeignServerStmt.t PgQuery__Node) :=
  match ms with
  | [c1; c2; c3; c4; c5; c6; c7] =>
      let* f1 := r_str c1 in
      let* f2 := r_str c2 in
      let* f3 := r_str c3 in
      let* f4 := r_str c4 in
      let* f5 := r_bool c5 in
      let* f6 := r_array of_node c6 c7 in
      Ok {| PgQuery__CreateForeignServerStmt.servername := f1;
            PgQuery__CreateForeignServerStmt.servertype := f2;
            PgQuery__CreateForeignServerStmt.version := f3;
            PgQuery__CreateForeignServerStmt.fdwname := f4;
            PgQuery__CreateForeignServerStmt.if_not_exists := f5;
            PgQuery__CreateForeignServerStmt.options := f6 |}
  | _ => Undef
  end.

Definition to_AlterForeignServerStmt (x : PgQuery__AlterForeignServerStmt.t PgQuery__Node) : list scell :=
  [c_str x.(PgQuery__AlterForeignServerStmt.servername);
   c_str x.(PgQuery__AlterForeignServerStmt.version);
   c_count x.(PgQuery__AlterForeignServerStmt.options);
   c_array to_node x.(PgQuery__AlterForeignServerStmt.options);
   c_bool x.(PgQuery__AlterForeignServerStmt.has_version)].
Definition of_AlterForeignServerStmt (ms : list scell) : outcome (PgQuery__AlterForeignServerStmt.t PgQuery__Node) :=
  match ms with
  | [c1; c2; c3; c4; c5] =>
      let* f1 := r_str c1 in
      let* f2 := r_str c2 in
      let* f3 := r_array of_node c3 c4 in
      let* f4 := r_bool c5 in
      Ok {| PgQuery__AlterForeignServerStmt.servername := f1;
            PgQuery__AlterForeignServerStmt.version := f2;
            PgQuery__AlterForeignServerStmt.options := f3;
            PgQuery__AlterForeignServerStmt.has_version := f4 |}
  | _ => Undef
  end.

Definition to_CreateForeignTableStmt (x : PgQuery__CreateForeignTableStmt.t PgQuery__Node) : list scell :=
  [c_ptr (s_msg pg_query__create_stmt__descriptor to_CreateStmt) x.(PgQuery__CreateForeignTableStmt.base_stmt);
   c_str x.(PgQuery__CreateForeignTableStmt.servername);
   c_count x.(PgQuery__CreateForeignTableStmt.options);
   c_array to_node x.(PgQuery__CreateForeignTableStmt.options)].
Definition of_CreateForeignTableStmt (ms : list scell) : outcome (PgQuery__CreateForeignTableStmt.t PgQuery__Node) :=
  match ms with
  | [c1; c2; c3; c4] =>
      let* f1 := r_ptr (o_msg pg_query__create_stmt__descriptor of_CreateStmt) c1 in
      let* f2 := r_str c2 in
      let* f3 := r_array of_node c3 c4 in
      Ok {| PgQuery__CreateForeignTableStmt.base_stmt := f1;
            PgQuery__CreateForeignTableStmt.servername := f2;
            PgQuery__CreateForeignTableStmt.options := f3 |}
  | _ => Undef
  end.

Definition to_CreateUserMappingStmt (x : PgQuery__CreateUserMappingStmt.t PgQuery__Node) : list scell :=
  [c_ptr (s_msg pg_query__role_spec__descriptor to_RoleSpec) x.(PgQuery__CreateUserMappingStmt.user);
   c_str x.(PgQuery__CreateUserMappingStmt.servername);
   c_bool x.(PgQuery__CreateUserMappingStmt.if_not_exists);
   c_count x.(PgQuery__CreateUserMappingStmt.options);
   c_array to_node x.(PgQuery__CreateUserMappingStmt.options)].
Definition of_CreateUserMappingStmt (ms : list scell) : outcome (PgQuery__CreateUserMappingStmt.t PgQuery__Node) :=
  match ms with
  | [c1; c2; c3; c4; c5] =>
      let* f1 := r_ptr (o_msg pg_query__role_spec__descriptor of_RoleSpec) c1 in
      let* f2 := r_str c2 in
      let* f3 := r_bool c3 in
      let* f4 := r_array of_node c4 c5 in
      Ok {| PgQuery__CreateUserMappingStmt.user := f1;
            PgQuery__CreateUserMappingStmt.servername := f2;
            PgQuery__CreateUserMappingStmt.if_not_exists := f3;
            PgQuery__CreateUserMappingStmt.options := f4 |}
  | _ => Undef
  end.

Definition to_AlterUserMappingStmt (x : PgQuery__AlterUserMappingStmt.t PgQuery__Node) : list scell :=
  [c_ptr (s_msg pg_query__role_spec__descriptor to_RoleSpec) x.(PgQuery__AlterUserMappingStmt.user);
   c_str x.(PgQuery__AlterUserMappingStmt.servername);
   c_count x.(PgQuery__AlterUserMappingStmt.options);
   c_array to_node x.(PgQuery__AlterUserMappingStmt.options)].
Definition of_AlterUserMappingStmt (ms : list scell) : outcome (PgQuery__AlterUserMappingStmt.t PgQuery__Node) :=
  match ms with
  | [c1; c2; c3; c4] =>
      let* f1 := r_ptr (o_msg pg_query__role_spec__descriptor of_RoleSpec) c1 in
      let* f2 := r_str c2 in
      let* f3 := r_array of_node c3 c4 in
      Ok {| PgQuery__AlterUserMappingStmt.user := f1;
            PgQuery__AlterUserMappingStmt.servername := f2;
            PgQuery__AlterUserMappingStmt.options := f3 |}
  | _ => Undef
  end.

Definition to_DropUserMappingStmt (x : PgQuery__DropUserMappingStmt.t PgQuery__Node) : list scell :=
  [c_ptr (s_msg pg_query__role_spec__descriptor to_RoleSpec) x.(PgQuery__DropUserMappingStmt.user);
   c_str x.(PgQuery__DropUserMappingStmt.servername);
   c_bool x.(PgQuery__DropUserMappingStmt.missing_ok)].
Definition of_DropUserMappingStmt (ms : list scell) : outcome (PgQuery__DropUserMappingStmt.t PgQuery__Node) :=
  match ms with
  | [c1; c2; c3] =>
      let* f1 := r_ptr (o_msg pg_query__role_spec__descriptor of_RoleSpec) c1 in
      let* f2 := r_str c2 in
      let* f3 := r_bool c3 in
      Ok {| PgQuery__DropUserMappingStmt.user := f1;
            PgQuery__DropUserMappingStmt.servername := f2;
            PgQuery__DropUserMappingStmt.missing_ok := f3 |}
  | _ => Undef
  end.

Definition to_ImportForeignSchemaStmt (x : PgQuery__ImportForeignSchemaStmt.t PgQuery__Node) : list scell :=
  [c_str x.(PgQuery__ImportForeignSchemaStmt.server_name);
   c_str x.(PgQuery__ImportForeignSchemaStmt.remote_schema);
   c_str x.(PgQuery__ImportForeignSchemaStmt.local_schema);
   c_int x.(PgQuery__ImportForeignSchemaStmt.list_type);
   c_count x.(PgQuery__ImportForeignSchemaStmt.table_list);
   c_array to_node x.(PgQuery__ImportForeignSchemaStmt.table_list);
   c_count x.(PgQuery__ImportForeignSchemaStmt.options);
   c_array to_node x.(PgQuery__ImportForeignSchemaStmt.options)].
Definition of_ImportForeignSchemaStmt (ms : list scell) : outcome (PgQuery__ImportForeignSchemaStmt.t PgQuery__Node) :=
  match ms with
  | [c1; c2; c3; c4; c5; c6; c7; c8] =>
      let* f1 := r_str c1 in
      let* f2 := r_str c2 in
      let* f3 := r_str c3 in
      let* f4 := r_int c4 in
      let* f5 := r_array of_node c5 c6 in
      let* f6 := r_array of_node c7 c8 in
      Ok {| PgQuery__ImportForeignSchemaStmt.server_name := f1;
            PgQuery__ImportForeignSchemaStmt.remote_schema := f2;
            PgQuery__ImportForeignSchemaStmt.local_schema := f3;
            PgQuery__ImportForeignSchemaStmt.list_type := f4;
            PgQuery__ImportForeignSchemaStmt.table_list := f5;
            PgQuery__ImportForeignSchemaStmt.options := f6 |}
  | _ => Undef
  end.

Definition to_CreatePolicyStmt (x : PgQuery__CreatePolicyStmt.t PgQuery__Node) : list scell :=
  [c_str x.(PgQuery__CreatePolicyStmt.policy_name);
   c_ptr (s_msg pg_query__range_var__descriptor to_RangeVar) x.(PgQuery__CreatePolicyStmt.table);
   c_str x.(PgQuery__CreatePolicyStmt.cmd_name);
   c_bool x.(PgQuery__CreatePolicyStmt.permissive);
   c_count x.(PgQuery__CreatePolicyStmt.roles);
   c_array to_node x.(PgQuery__CreatePolicyStmt.roles);
   c_ptr to_node x.(PgQuery__CreatePolicyStmt.qual);
   c_ptr to_node x.(PgQuery__CreatePolicyStmt.with_check)].
Definition of_CreatePolicyStmt (ms : list scell) : outcome (PgQuery__CreatePolicyStmt.t PgQuery__Node) :=
  match ms with
  | [c1; c2; c3; c4; c5; c6; c7; c8] =>
      let* f1 := r_str c1 in
      let* f2 := r_ptr (o_msg pg_query__range_var__descriptor of_RangeVar) c2 in
      let* f3 := r_str c3 in
      let* f4 := r_bool c4 in
      let* f5 := r_array of_node c5 c6 in
      let* f6 := r_ptr of_node c7 in
      let* f7 := r_ptr of_node c8 in
      Ok {| PgQuery__CreatePolicyStmt.policy_name := f1;
            PgQuery__CreatePolicyStmt.table := f2;
            PgQuery__CreatePolicyStmt.cmd_name := f3;
            PgQuery__CreatePolicyStmt.permissive := f4;
            PgQuery__CreatePolicyStmt.roles := f5;
            PgQuery__CreatePolicyStmt.qual := f6;
            PgQuery__CreatePolicyStmt.with_check := f7 |}
  | _ => Undef
  end.

Definition to_AlterPolicyStmt (x : PgQuery__AlterPolicyStmt.t PgQuery__Node) : list scell :=
  [c_str x.(PgQuery__AlterPolicyStmt.policy_name);
   c_ptr (s_msg pg_query__range_var__descriptor to_RangeVar) x.(PgQuery__AlterPolicyStmt.table);
   c_count x.(PgQuery__AlterPolicyStmt.roles);
   c_array to_node x.(PgQuery__AlterPolicyStmt.roles);
   c_ptr to_node x.(PgQuery__AlterPolicyStmt.qual);
   c_ptr to_node x.(PgQuery__AlterPolicyStmt.with_check)].
Definition of_AlterPolicyStmt (ms : list scell) : outcome (PgQuery__AlterPolicyStmt.t PgQuery__Node) :=
  match ms with
  | [c1; c2; c3; c4; c5; c6] =>
      let* f1 := r_str c1 in
      let* f2 := r_ptr (o_msg pg_query__range_var__descriptor of_RangeVar) c2 in
      let* f3 := r_array of_node c3 c4 in
      let* f4 := r_ptr of_node c5 in
      let* f5 := r_ptr of_node c6 in
      Ok {| PgQuery__AlterPolicyStmt.policy_name := f1;
            PgQuery__AlterPolicyStmt.table := f2;
            PgQuery__AlterPolicyStmt.roles := f3;
            PgQuery__AlterPolicyStmt.qual := f4;
            PgQuery__AlterPolicyStmt.with_check := f5 |}
  | _ => Undef
  end.

Definition to_CreateAmStmt (x : PgQuery__CreateAmStmt.t PgQuery__Node) : list scell :=
  [c_str x.(PgQuery__CreateAmStmt.amname);
   c_count x.(PgQuery__CreateAmStmt.handler_name);
   c_array to_node x.(PgQuery__CreateAmStmt.handler_name);
   c_str x.(PgQuery__CreateAmStmt.amtype)].
Definition of_CreateAmStmt (ms : list scell) : outcome (PgQuery__CreateAmStmt.t PgQuery__Node) :=
  match ms with
  | [c1; c2; c3; c4] =>
      let* f1 := r_str c1 in
      let* f2 := r_array of_node c2 c3 in
      let* f3 := r_str c4 in
      Ok {| PgQuery__CreateAmStmt.amname := f1;
            PgQuery__CreateAmStmt.handler_name := f2;
            PgQuery__CreateAmStmt.amtype := f3 |}
  | _ => Undef
  end.

Definition to_CreateTrigStmt (x : PgQuery__CreateTrigStmt.t PgQuery__Node) : list scell :=
  [c_str x.(PgQuery__CreateTrigStmt.trigname);
   c_ptr (s_msg pg_query__range_var__descriptor to_RangeVar) x.(PgQuery__CreateTrigStmt.relation);
   c_count x.(PgQuery__CreateTrigStmt.funcname);
   c_array to_node x.(PgQuery__CreateTrigStmt.funcname);
   c_count x.(PgQuery__CreateTrigStmt.args);
   c_array to_node x.(PgQuery__CreateTrigStmt.args);
   c_bool x.(PgQuery__CreateTrigStmt.row);
   c_int x.(PgQuery__CreateTrigStmt.timing);
   c_int x.(PgQuery__CreateTrigStmt.events);
   c_count x.(PgQuery__CreateTrigStmt.columns);
   c_array to_node x.(PgQuery__CreateTrigStmt.columns);
   c_ptr to_node x.(PgQuery__CreateTrigStmt.when_clause);
   c_bool x.(PgQuery__CreateTrigStmt.isconstraint);
   c_count x.(PgQuery__CreateTrigStmt.transition_rels);
   c_array to_node x.(PgQuery__CreateTrigStmt.transition_rels);
   c_bool x.(PgQuery__CreateTrigStmt.deferrable);
   c_bool x.(PgQuery__CreateTrigStmt.initdeferred);
   c_ptr (s_msg pg_query__range_var__descriptor to_RangeVar) x.(PgQuery__CreateTrigStmt.constrrel)].
Definition of_CreateTrigStmt (ms : list scell) : outcome (PgQuery__CreateTrigStmt.t PgQuery__Node) :=
  match ms with
  | [c1; c2; c3; c4; c5; c6; c7; c8; c9; c10; c11; c12; c13; c14; c15; c16; c17; c18] =>
      let* f1 := r_str c1 in
      let* f2 := r_ptr (o_msg pg_query__range_var__descriptor of_RangeVar) c2 in
      let* f3 := r_array of_node c3 c4 in
      let* f4 := r_array of_node c5 c6 in
      let* f5 := r_bool c7 in
      let* f6 := r_int c8 in
      let* f7 := r_int c9 in
      let* f8 := r_array of_node c10 c11 in
      let* f9 := r_ptr of_node c12 in
      let* f10 := r_bool c13 in
      let* f11 := r_array of_node c14 c15 in
      let* f12 := r_bool c16 in
      let* f13 := r_bool c17 in
      let* f14 := r_ptr (o_msg pg_query__range_var__descriptor of_RangeVar) c18 in
      Ok {| PgQuery__CreateTrigStmt.trigname := f1;
            PgQuery__CreateTrigStmt.relation := f2;
            PgQuery__CreateTrigStmt.funcname := f3;
            PgQuery__CreateTrigStmt.args := f4;
            PgQuery__CreateTrigStmt.row := f5;
            PgQuery__CreateTrigStmt.timing := f6;
            PgQuery__CreateTrigStmt.events := f7;
            PgQuery__CreateTrigStmt.columns := f8;
            PgQuery__CreateTrigStmt.when_clause := f9;
            PgQuery__CreateTrigStmt.isconstraint := f10;
            PgQuery__CreateTrigStmt.transition_rels := f11;
            PgQuery__CreateTrigStmt.deferrable := f12;
            PgQuery__CreateTrigStmt.initdeferred := f13;
            PgQuery__CreateTrigStmt.constrrel := f14 |}
  | _ => Undef
  end.

Definition to_CreateEventTrigStmt (x : PgQuery__CreateEventTrigStmt.t PgQuery__Node) : list scell :=
  [c_str x.(PgQuery__CreateEventTrigStmt.trigname);
   c_str x.(PgQuery__CreateEventTrigStmt.eventname);
   c_count x.(PgQuery__CreateEventTrigStmt.whenclause);
   c_array to_node x.(PgQuery__CreateEventTrigStmt.whenclause);
   c_count x.(PgQuery__CreateEventTrigStmt.funcname);
   c_array to_node x.(PgQuery__CreateEventTrigStmt.funcname)].
Definition of_CreateEventTrigStmt (ms : list scell) : outcome (PgQuery__CreateEventTrigStmt.t PgQuery__Node) :=
  match ms with
  | [c1; c2; c3; c4; c5; c6] =>
      let* f1 := r_str c1 in
      let* f2 := r_str c2 in
      let* f3 := r_array of_node c3 c4 in
      let* f4 := r_array of_node c5 c6 in
      Ok {| PgQuery__CreateEventTrigStmt.trigname := f1;
            PgQuery__CreateEventTrigStmt.eventname := f2;
            PgQuery__CreateEventTrigStmt.whenclause := f3;
            PgQuery__CreateEventTrigStmt.funcname := f4 |}
  | _ => Undef
  end.

Definition to_AlterEventTrigStmt (x : PgQuery__AlterEventTrigStmt.t PgQuery__Node) : list scell :=
  [c_str x.(PgQuery__AlterEventTrigStmt.trigname);
   c_str x.(PgQuery__AlterEventTrigStmt.tgenabled)].
Definition of_AlterEventTrigStmt (ms : list scell) : outcome (PgQuery__AlterEventTrigStmt.t PgQuery__Node) :=
  match ms with
  | [c1; c2] =>
      let* f1 := r_str c1 in
      let* f2 := r_str c2 in
      Ok {| PgQuery__AlterEventTrigStmt.trigname := f1;
            PgQuery__AlterEventTrigStmt.tgenabled := f2 |}
  | _ => Undef
  end.

Definition to_CreatePLangStmt (x : PgQuery__CreatePLangStmt.t PgQuery__Node) : list scell :=
  [c_bool x.(PgQuery__CreatePLangStmt.replace);
   c_str x.(PgQuery__CreatePLangStmt.plname);
   c_count x.(PgQuery__CreatePLangStmt.plhandler);
   c_array to_node x.(PgQuery__CreatePLangStmt.plhandler);
   c_count x.(PgQuery__CreatePLangStmt.plinline);
   c_array to_node x.(PgQuery__CreatePLangStmt.plinline);
   c_count x.(PgQuery__CreatePLangStmt.plvalidator);
   c_array to_node x.(PgQuery__CreatePLangStmt.plvalidator);
   c_bool x.(PgQuery__CreatePLangStmt.pltrusted)].
Definition of_CreatePLangStmt (ms : list scell) : outcome (PgQuery__CreatePLangStmt.t PgQuery__Node) :=
  match ms with
  | [c1; c2; c3; c4; c5; c6; c7; c8; c9] =>
      let* f1 := r_bool c1 in
      let* f2 := r_str c2 in
      let* f3 := r_array of_node c3 c4 in
      let* f4 := r_array of_node c5 c6 in
      let* f5 := r_array of_node c7 c8 in
      let* f6 := r_bool c9 in
      Ok {| PgQuery__CreatePLangStmt.replace := f1;
            PgQuery__CreatePLangStmt.plname := f2;
            PgQuery__CreatePLangStmt.plhandler := f3;
            PgQuery__CreatePLangStmt.plinline := f4;
            PgQuery__CreatePLangStmt.plvalidator := f5;
            PgQuery__CreatePLangStmt.pltrusted := f6 |}
  | _ => Undef
  end.

Definition to_CreateRoleStmt (x : PgQuery__CreateRoleStmt.t PgQuery__Node) : list scell :=
  [c_int x.(PgQuery__CreateRoleStmt.stmt_type);
   c_str x.(PgQuery__CreateRoleStmt.role);
   c_count x.(PgQuery__CreateRoleStmt.options);
   c_array to_node x.(PgQuery__CreateRoleStmt.options)].
Definition of_CreateRoleStmt (ms : list scell) : outcome (PgQuery__CreateRoleStmt.t PgQuery__Node) :=
  match ms with
  | [c1; c2; c3; c4] =>
      let* f1 := r_int c1 in
      let* f2 := r_str c2 in
      let* f3 := r_array of_node c3 c4 in
      Ok {| PgQuery__CreateRoleStmt.stmt_type := f1;
            PgQuery__CreateRoleStmt.role := f2;
            PgQuery__CreateRoleStmt.options := f3 |}
  | _ => Undef
  end.

Definition to_AlterRoleStmt (x : PgQuery__AlterRoleStmt.t PgQuery__Node) : list scell :=
  [c_ptr (s_msg pg_query__role_spec__descriptor to_RoleSpec) x.(PgQuery__AlterRoleStmt.role);
   c_count x.(PgQuery__AlterRoleStmt.options);
   c_array to_node x.(PgQuery__AlterRoleStmt.options);
   c_int x.(PgQuery__AlterRoleStmt.action)].
Definition of_AlterRoleStmt (ms : list scell) : outcome (PgQuery__AlterRoleStmt.t PgQuery__Node) :=
  match ms with
  | [c1; c2; c3; c4] =>
      let* f1 := r_ptr (o_msg pg_query__role_spec__descriptor of_RoleSpec) c1 in
      let* f2 := r_array of_node c2 c3 in
      let* f3 := r_int c4 in
      Ok {| PgQuery__AlterRoleStmt.role := f1;
            PgQuery__AlterRoleStmt.options := f2;
            PgQuery__AlterRoleStmt.action := f3 |}
  | _ => Undef
  end.

Definition to_AlterRoleSetStmt (x : PgQuery__AlterRoleSetStmt.t PgQuery__Node) : list scell :=
  [c_ptr (s_msg pg_query__role_spec__descriptor to_RoleSpec) x.(PgQuery__AlterRoleSetStmt.role);
   c_str x.(PgQuery__AlterRoleSetStmt.database);
   c_ptr (s_msg pg_query__variable_set_stmt__descriptor to_VariableSetStmt) x.(PgQuery__AlterRoleSetStmt.setstmt)].
Definition of_AlterRoleSetStmt (ms : list scell) : outcome (PgQuery__AlterRoleSetStmt.t PgQuery__Node) :=
  match ms with
  | [c1; c2; c3] =>
      let* f1 := r_ptr (o_msg pg_query__role_spec__descriptor of_RoleSpec) c1 in
      let* f2 := r_str c2 in
      let* f3 := r_ptr (o_msg pg_query__variable_set_stmt__descriptor of_VariableSetStmt) c3 in
      Ok {| PgQuery__AlterRoleSetStmt.role := f1;
            PgQuery__AlterRoleSetStmt.database := f2;
            PgQuery__AlterRoleSetStmt.setstmt := f3 |}
  | _ => Undef
  end.

Definition to_DropRoleStmt (x : PgQuery__DropRoleStmt.t PgQuery__Node) : list scell :=
  [c_count x.(PgQuery__DropRoleStmt.roles);
   c_array to_node x.(PgQuery__DropRoleStmt.roles);
   c_bool x.(PgQuery__DropRoleStmt.missing_ok)].
Definition of_DropRoleStmt (ms : list scell) : outcome (PgQuery__DropRoleStmt.t PgQuery__Node) :=
  match ms with
  | [c1; c2; c3] =>
      let* f1 := r_array of_node c1 c2 in
      let* f2 := r_bool c3 in
      Ok {| PgQuery__DropRoleStmt.roles := f1;
            PgQuery__DropRoleStmt.missing_ok := f2 |}
  | _ => Undef
  end.

Definition to_CreateSeqStmt (x : PgQuery__CreateSeqStmt.t PgQuery__Node) : list scell :=
  [c_ptr (s_msg pg_query__range_var__descriptor to_RangeVar) x.(PgQuery__CreateSeqStmt.sequence);
   c_count x.(PgQuery__CreateSeqStmt.options);
   c_array to_node x.(PgQuery__CreateSeqStmt.options);
   c_int x.(PgQuery__CreateSeqStmt.owner_id);
   c_bool x.(PgQuery__CreateSeqStmt.for_identity);
   c_bool x.(PgQuery__CreateSeqStmt.if_not_exists)].
Definition of_CreateSeqStmt (ms : list scell) : outcome (PgQuery__CreateSeqStmt.t PgQuery__Node) :=
  match ms with
  | [c1; c2; c3; c4; c5; c6] =>
      let* f1 := r_ptr (o_msg pg_query__range_var__descriptor of_RangeVar) c1 in
      let* f2 := r_array of_node c2 c3 in
      let* f3 := r_int c4 in
      let* f4 := r_bool c5 in
      let* f5 := r_bool c6 in
      Ok {| PgQuery__CreateSeqStmt.sequence := f1;
            PgQuery__CreateSeqStmt.options := f2;
            PgQuery__CreateSeqStmt.owner_id := f3;
            PgQuery__CreateSeqStmt.for_identity := f4;
            PgQuery__CreateSeqStmt.if_not_exists := f5 |}
  | _ => Undef
  end.

Definition to_AlterSeqStmt (x : PgQuery__AlterSeqStmt.t PgQuery__Node) : list scell :=
  [c_ptr (s_msg pg_query__range_var__descriptor to_RangeVar) x.(PgQuery__AlterSeqStmt.sequence);
   c_count x.(PgQuery__AlterSeqStmt.options);
   c_array to_node x.(PgQuery__AlterSeqStmt.options);
   c_bool x.(PgQuery__AlterSeqStmt.for_identity);
   c_bool x.(PgQuery__AlterSeqStmt.missing_ok)].
Definition of_AlterSeqStmt (ms : list scell) : outcome (PgQuery__AlterSeqStmt.t PgQuery__Node) :=
  match ms with
  | [c1; c2; c3; c4; c5] =>
      let* f1 := r_ptr (o_msg pg_query__range_var__descriptor of_RangeVar) c1 in
      let* f2 := r_array of_node c2 c3 in
      let* f3 := r_bool c4 in
      let* f4 := r_bool c5 in
      Ok {| PgQuery__AlterSeqStmt.sequence := f1;
            PgQuery__AlterSeqStmt.options := f2;
            PgQuery__AlterSeqStmt.for_identity := f3;
            PgQuery__AlterSeqStmt.missing_ok := f4 |}
  | _ => Undef
  end.

Definition to_DefineStmt (x : PgQuery__DefineStmt.t PgQuery__Node) : list scell :=
  [c_int x.(PgQuery__DefineStmt.kind);
   c_bool x.(PgQuery__DefineStmt.oldstyle);
   c_count x.(PgQuery__DefineStmt.defnames);
   c_array to_node x.(PgQuery__DefineStmt.defnames);
   c_count x.(PgQuery__DefineStmt.args);
   c_array to_node x.(PgQuery__DefineStmt.args);
   c_count x.(PgQuery__DefineStmt.definition);
   c_array to_node x.(PgQuery__DefineStmt.definition);
   c_bool x.(PgQuery__DefineStmt.if_not_exists);
   c_bool x.(PgQuery__DefineStmt.replace)].
Definition of_DefineStmt (ms : list scell) : outcome (PgQuery__DefineStmt.t PgQuery__Node) :=
  match ms with
  | [c1; c2; c3; c4; c5; c6; c7; c8; c9; c10] =>
      let* f1 := r_int c1 in
      let* f2 := r_bool c2 in
      let* f3 := r_array of_node c3 c4 in
      let* f4 := r_array of_node c5 c6 in
      let* f5 := r_array of_node c7 c8 in
      let* f6 := r_bool c9 in
      let* f7 := r_bool c10 in
      Ok {| PgQuery__DefineStmt.kind := f1;
            PgQuery__DefineStmt.oldstyle := f2;
            PgQuery__DefineStmt.defnames := f3;
            PgQuery__DefineStmt.args := f4;
            PgQuery__DefineStmt.definition := f5;
            PgQuery__DefineStmt.if_not_exists := f6;
            PgQuery__DefineStmt.replace := f7 |}
  | _ => Undef
  end.

Definition to_CreateDomainStmt (x : PgQuery__CreateDomainStmt.t PgQuery__Node) : list scell :=
  [c_count x.(PgQuery__CreateDomainStmt.domainname);
   c_array to_node x.(PgQuery__CreateDomainStmt.domainname);
   c_ptr (s_msg pg_query__type_name__descriptor to_TypeName) x.(PgQuery__CreateDomainStmt.type_name);
   c_ptr (s_msg pg_query__collate_clause__descriptor to_CollateClause) x.(PgQuery__CreateDomainStmt.coll_clause);
   c_count x.(PgQuery__CreateDomainStmt.constraints);
   c_array to_node x.(PgQuery__CreateDomainStmt.constraints)].
Definition of_CreateDomainStmt (ms : list scell) : outcome (PgQuery__CreateDomainStmt.t PgQuery__Node) :=
  match ms with
  | [c1; c2; c3; c4; c5; c6] =>
      let* f1 := r_array of_node c1 c2 in
      let* f2 := r_ptr (o_msg pg_query__type_name__descriptor of_TypeName) c3 in
      let* f3 := r_ptr (o_msg pg_query__collate_clause__descriptor of_CollateClause) c4 in
      let* f4 := r_array of_node c5 c6 in
      Ok {| PgQuery__CreateDomainStmt.domainname := f1;
            PgQuery__CreateDomainStmt.type_name := f2;
            PgQuery__CreateDomainStmt.coll_clause := f3;
            PgQuery__CreateDomainStmt.constraints := f4 |}
  | _ => Undef
  end.

Definition to_CreateOpClassStmt (x : PgQuery__CreateOpClassStmt.t PgQuery__Node) : list scell :=
  [c_count x.(PgQuery__CreateOpClassStmt.opclassname);
   c_array to_node x.(PgQuery__CreateOpClassStmt.opclassname);
   c_count x.(PgQuery__CreateOpClassStmt.opfamilyname);
   c_array to_node x.(PgQuery__CreateOpClassStmt.opfamilyname);
   c_str x.(PgQuery__CreateOpClassStmt.amname);
   c_ptr (s_msg pg_query__type_name__descriptor to_TypeName) x.(PgQuery__CreateOpClassStmt.datatype);
   c_count x.(PgQuery__CreateOpClassStmt.items);
   c_array to_node x.(PgQuery__CreateOpClassStmt.items);
   c_bool x.(PgQuery__CreateOpClassStmt.is_default)].
Definition of_CreateOpClassStmt (ms : list scell) : outcome (PgQuery__CreateOpClassStmt.t PgQuery__Node) :=
  match ms with
  | [c1; c2; c3; c4; c5; c6; c7; c8; c9] =>
      let* f1 := r_array of_node c1 c2 in
      let* f2 := r_array of_node c3 c4 in
      let* f3 := r_str c5 in
      let* f4 := r_ptr (o_msg pg_query__type_name__descriptor of_TypeName) c6 in
      let* f5 := r_array of_node c7 c8 in
      let* f6 := r_bool c9 in
      Ok {| PgQuery__CreateOpClassStmt.opclassname := f1;
            PgQuery__CreateOpClassStmt.opfamilyname := f2;
            PgQuery__CreateOpClassStmt.amname := f3;
            PgQuery__CreateOpClassStmt.datatype := f4;
            PgQuery__CreateOpClassStmt.items := f5;
            PgQuery__CreateOpClassStmt.is_default := f6 |}
  | _ => Undef
  end.

Definition to_CreateOpClassItem (x : PgQuery__CreateOpClassItem.t PgQuery__Node) : list scell :=
  [c_int x.(PgQuery__CreateOpClassItem.itemtype);
   c_ptr (s_msg pg_query__object_with_args__descriptor to_ObjectWithArgs) x.(PgQuery__CreateOpClassItem.name);
   c_int x.(PgQuery__CreateOpClassItem.number);
   c_count x.(PgQuery__CreateOpClassItem.order_family);
   c_array to_node x.(PgQuery__CreateOpClassItem.order_family);
   c_count x.(PgQuery__CreateOpClassItem.class_args);
   c_array to_node x.(PgQuery__CreateOpClassItem.class_args);
   c_ptr (s_msg pg_query__type_name__descriptor to_TypeName) x.(PgQuery__CreateOpClassItem.storedtype)].
Definition of_CreateOpClassItem (ms : list scell) : outcome (PgQuery__CreateOpClassItem.t PgQuery__Node) :=
  match ms with
  | [c1; c2; c3; c4; c5; c6; c7; c8] =>
      let* f1 := r_int c1 in
      let* f2 := r_ptr (o_msg pg_query__object_with_args__descriptor of_ObjectWithArgs) c2 in
      let* f3 := r_int c3 in
      let* f4 := r_array of_node c4 c5 in
      let* f5 := r_array of_node c6 c7 in
      let* f6 := r_ptr (o_msg pg_query__type_name__descriptor of_TypeName) c8 in
      Ok {| PgQuery__CreateOpClassItem.itemtype := f1;
            PgQuery__CreateOpClassItem.name := f2;
            PgQuery__CreateOpClassItem.number := f3;
            PgQuery__CreateOpClassItem.order_family := f4;
            PgQuery__CreateOpClassItem.class_args := f5;
            PgQuery__CreateOpClassItem.storedtype := f6 |}
  | _ => Undef
  end.

Definition to_CreateOpFamilyStmt (x : PgQuery__CreateOpFamilyStmt.t PgQuery__Node) : list scell :=
  [c_count x.(PgQuery__CreateOpFamilyStmt.opfamilyname);
   c_array to_node x.(PgQuery__CreateOpFamilyStmt.opfamilyname);
   c_str x.(PgQuery__CreateOpFamilyStmt.amname)].
Definition of_CreateOpFamilyStmt (ms : list scell) : outcome (PgQuery__CreateOpFamilyStmt.t PgQuery__Node) :=
  match ms with
  | [c1; c2; c3] =>
      let* f1 := r_array of_node c1 c2 in
      let* f2 := r_str c3 in
      Ok {| PgQuery__CreateOpFamilyStmt.opfamilyname := f1;
            PgQuery__CreateOpFamilyStmt.amname := f2 |}
  | _ => Undef
  end.

Definition to_AlterOpFamilyStmt (x : PgQuery__AlterOpFamilyStmt.t PgQuery__Node) : list scell :=
  [c_count x.(PgQuery__AlterOpFamilyStmt.opfamilyname);
   c_array to_node x.(PgQuery__AlterOpFamilyStmt.opfamilyname);
   c_str x.(PgQuery__AlterOpFamilyStmt.amname);
   c_bool x.(PgQuery__AlterOpFamilyStmt.is_drop);
   c_count x.(PgQuery__AlterOpFamilyStmt.items);
   c_array to_node x.(PgQuery__AlterOpFamilyStmt.items)].
Definition of_AlterOpFamilyStmt (ms : list scell) : outcome (PgQuery__AlterOpFamilyStmt.t PgQuery__Node) :=
  match ms with
  | [c1; c2; c3; c4; c5; c6] =>
      let* f1 := r_array of_node c1 c2 in
      let* f2 := r_str c3 in
      let* f3 := r_bool c4 in
      let* f4 := r_array of_node c5 c6 in
      Ok {| PgQuery__AlterOpFamilyStmt.opfamilyname := f1;
            PgQuery__AlterOpFamilyStmt.amname := f2;
            PgQuery__AlterOpFamilyStmt.is_drop := f3;
            PgQuery__AlterOpFamilyStmt.items := f4 |}
  | _ => Undef
  end.

Definition to_DropStmt (x : PgQuery__DropStmt.t PgQuery__Node) : list scell :=
  [c_count x.(PgQuery__DropStmt.objects);
   c_array to_node x.(PgQuery__DropStmt.objects);
   c_int x.(PgQuery__DropStmt.remove_type);
   c_int x.(PgQuery__DropStmt.behavior);
   c_bool x.(PgQuery__DropStmt.missing_ok);
   c_bool x.(PgQuery__DropStmt.concurrent)].
Definition of_DropStmt (ms : list scell) : outcome (PgQuery__DropStmt.t PgQuery__Node) :=
  match ms with
  | [c1; c2; c3; c4; c5; c6] =>
      let* f1 := r_array of_node c1 c2 in
      let* f2 := r_int c3 in
      let* f3 := r_int c4 in
      let* f4 := r_bool c5 in
      let* f5 := r_bool c6 in
      Ok {| PgQuery__DropStmt.objects := f1;
            PgQuery__DropStmt.remove_type := f2;
            PgQuery__DropStmt.behavior := f3;
            PgQuery__DropStmt.missing_ok := f4;
            PgQuery__DropStmt.concurrent := f5 |}
  | _ => Undef
  end.

Definition to_TruncateStmt (x : PgQuery__TruncateStmt.t PgQuery__Node) : list scell :=
  [c_count x.(PgQuery__TruncateStmt.relations);
   c_array to_node x.(PgQuery__TruncateStmt.relations);
   c_bool x.(PgQuery__TruncateStmt.restart_seqs);
   c_int x.(PgQuery__TruncateStmt.behavior)].
Definition of_TruncateStmt (ms : list scell) : outcome (PgQuery__TruncateStmt.t PgQuery__Node) :=
  match ms with
  | [c1; c2; c3; c4] =>
      let* f1 := r_array of_node c1 c2 in
      let* f2 := r_bool c3 in
      let* f3 := r_int c4 in
      Ok {| PgQuery__TruncateStmt.relations := f1;
            PgQuery__TruncateStmt.restart_seqs := f2;
            PgQuery__TruncateStmt.behavior := f3 |}
  | _ => Undef
  end.

Definition to_CommentStmt (x : PgQuery__CommentStmt.t PgQuery__Node) : list scell :=
  [c_int x.(PgQuery__CommentStmt.objtype);
   c_ptr to_node x.(PgQuery__CommentStmt.object);
   c_str x.(PgQuery__CommentStmt.comment)].
Definition of_CommentStmt (ms : list scell) : outcome (PgQuery__CommentStmt.t PgQuery__Node) :=
  match ms with
  | [c1; c2; c3] =>
      let* f1 := r_int c1 in
      let* f2 := r_ptr of_node c2 in
      let* f3 := r_str c3 in
      Ok {| PgQuery__CommentStmt.objtype := f1;
            PgQuery__CommentStmt.object := f2;
            PgQuery__CommentStmt.comment := f3 |}
  | _ => Undef
  end.

Definition to_SecLabelStmt (x : PgQuery__SecLabelStmt.t PgQuery__Node) : list scell :=
  [c_int x.(PgQuery__SecLabelStmt.objtype);
   c_ptr to_node x.(PgQuery__SecLabelStmt.object);
   c_str x.(PgQuery__SecLabelStmt.provider);
   c_str x.(PgQuery__SecLabelStmt.label)].
Definition of_SecLabelStmt (ms : list scell) : outcome (PgQuery__SecLabelStmt.t PgQuery__Node) :=
  match ms with
  | [c1; c2; c3; c4] =>
      let* f1 := r_int c1 in
      let* f2 := r_ptr of_node c2 in
      let* f3 := r_str c3 in
      let* f4 := r_str c4 in
      Ok {| PgQuery__SecLabelStmt.objtype := f1;
            PgQuery__SecLabelStmt.object := f2;
            PgQuery__SecLabelStmt.provider := f3;
            PgQuery__SecLabelStmt.label := f4 |}
  | _ => Undef
  end.

Definition to_DeclareCursorStmt (x : PgQuery__DeclareCursorStmt.t PgQuery__Node) : list scell :=
  [c_str x.(PgQuery__DeclareCursorStmt.portalname);
   c_int x.(PgQuery__DeclareCursorStmt.options);
   c_ptr to_node x.(PgQuery__DeclareCursorStmt.query)].
Definition of_DeclareCursorStmt (ms : list scell) : outcome (PgQuery__DeclareCursorStmt.t PgQuery__Node) :=
  match ms with
  | [c1; c2; c3] =>
      let* f1 := r_str c1 in
      let* f2 := r_int c2 in
      let* f3 := r_ptr of_node c3 in
      Ok {| PgQuery__DeclareCursorStmt.portalname := f1;
            PgQuery__DeclareCursorStmt.options := f2;
            PgQuery__DeclareCursorStmt.query := f3 |}
  | _ => Undef
  end.

Definition to_ClosePortalStmt (x : PgQuery__ClosePortalStmt.t PgQuery__Node) : list scell :=
  [c_str x.(PgQuery__ClosePortalStmt.portalname)].
Definition of_ClosePortalStmt (ms : list scell) : outcome (PgQuery__ClosePortalStmt.t PgQuery__Node) :=
  match ms with
  | [c1] =>
      let* f1 := r_str c1 in
      Ok {| PgQuery__ClosePortalStmt.portalname := f1 |}
  | _ => Undef
  end.

Definition to_FetchStmt (x : PgQuery__FetchStmt.t PgQuery__Node) : list scell :=
  [c_int x.(PgQuery__FetchStmt.direction);
   c_int x.(PgQuery__FetchStmt.how_many);
   c_str x.(PgQuery__FetchStmt.portalname);
   c_bool x.(PgQuery__FetchStmt.ismove)].
Definition of_FetchStmt (ms : list scell) : outcome (PgQuery__FetchStmt.t PgQuery__Node) :=
  match ms with
  | [c1; c2; c3; c4] =>
      let* f1 := r_int c1 in
      let* f2 := r_int c2 in
      let* f3 := r_str c3 in
      let* f4 := r_bool c4 in
      Ok {| PgQuery__FetchStmt.direction := f1;
            PgQuery__FetchStmt.how_many := f2;
            PgQuery__FetchStmt.portalname := f3;
            PgQuery__FetchStmt.ismove := f4 |}
  | _ => Undef
  end.

Definition to_IndexStmt (x : PgQuery__IndexStmt.t PgQuery__Node) : list scell :=
  [c_str x.(PgQuery__IndexStmt.idxname);
   c_ptr (s_msg pg_query__range_var__descriptor to_RangeVar) x.(PgQuery__IndexStmt.relation);
   c_str x.(PgQuery__IndexStmt.access_method);
   c_str x.(PgQuery__IndexStmt.table_space);
   c_count x.(PgQuery__IndexStmt.index_params);
   c_array to_node x.(PgQuery__IndexStmt.index_params);
   c_count x.(PgQuery__IndexStmt.index_including_params);
   c_array to_node x.(PgQuery__IndexStmt.index_including_params);
   c_count x.(PgQuery__IndexStmt.options);
   c_array to_node x.(PgQuery__IndexStmt.options);
   c_ptr to_node x.(PgQuery__IndexStmt.where_clause);
   c_count x.(PgQuery__IndexStmt.exclude_op_names);
   c_array to_node x.(PgQuery__IndexStmt.exclude_op_names);
   c_str x.(PgQuery__IndexStmt.idxcomment);
   c_int x.(PgQuery__IndexStmt.index_oid);
   c_int x.(PgQuery__IndexStmt.old_node);
   c_int x.(PgQuery__IndexStmt.old_create_subid);
   c_int x.(PgQuery__IndexStmt.old_first_relfilenode_subid);
   c_bool x.(PgQuery__IndexStmt.unique);
   c_bool x.(PgQuery__IndexStmt.primary);
   c_bool x.(PgQuery__IndexStmt.isconstraint);
   c_bool x.(PgQuery__IndexStmt.deferrable);
   c_bool x.(PgQuery__IndexStmt.initdeferred);
   c_bool x.(PgQuery__IndexStmt.transformed);
   c_bool x.(PgQuery__IndexStmt.concurrent);
   c_bool x.(PgQuery__IndexStmt.if_not_exists);
   c_bool x.(PgQuery__IndexStmt.reset_default_tblspc)].
Definition of_IndexStmt (ms : list scell) : outcome (PgQuery__IndexStmt.t PgQuery__Node) :=
  match ms with
  | [c1; c2; c3; c4; c5; c6; c7; c8; c9; c10; c11; c12; c13; c14; c15; c16; c17; c18; c19; c20; c21; c22; c23; c24; c25; c26; c27] =>
      let* f1 := r_str c1 in
      let* f2 := r_ptr (o_msg pg_query__range_var__descriptor of_RangeVar) c2 in
      let* f3 := r_str c3 in
      let* f4 := r_str c4 in
      let* f5 := r_array of_node c5 c6 in
      let* f6 := r_array of_node c7 c8 in
      let* f7 := r_array of_node c9 c10 in
      let* f8 := r_ptr of_node c11 in
      let* f9 := r_array of_node c12 c13 in
      let* f10 := r_str c14 in
      let* f11 := r_int c15 in
      let* f12 := r_int c16 in
      let* f13 := r_int c17 in
      let* f14 := r_int c18 in
      let* f15 := r_bool c19 in
      let* f16 := r_bool c20 in
      let* f17 := r_bool c21 in
      let* f18 := r_bool c22 in
      let* f19 := r_bool c23 in
      let* f20 := r_bool c24 in
      let* f21 := r_bool c25 in
      let* f22 := r_bool c26 in
      let* f23 := r_bool c27 in
      Ok {| PgQuery__IndexStmt.idxname := f1;
            PgQuery__IndexStmt.relation := f2;
            PgQuery__IndexStmt.access_method := f3;
            PgQuery__IndexStmt.table_space := f4;
            PgQuery__IndexStmt.index_params := f5;
            PgQuery__IndexStmt.index_including_params := f6;
            PgQuery__IndexStmt.options := f7;
            PgQuery__IndexStmt.where_clause := f8;
            PgQuery__IndexStmt.exclude_op_names := f9;
            PgQuery__IndexStmt.idxcomment := f10;
            PgQuery__IndexStmt.index_oid := f11;
            PgQuery__IndexStmt.old_node := f12;
            PgQuery__IndexStmt.old_create_subid := f13;
            PgQuery__IndexStmt.old_first_relfilenode_subid := f14;
            PgQuery__IndexStmt.unique := f15;
            PgQuery__IndexStmt.primary := f16;
            PgQuery__IndexStmt.isconstraint := f17;
            PgQuery__IndexStmt.deferrable := f18;
            PgQuery__IndexStmt.initdeferred := f19;
            PgQuery__IndexStmt.transformed := f20;
            PgQuery__IndexStmt.concurrent := f21;
            PgQuery__IndexStmt.if_not_exists := f22;
            PgQuery__IndexStmt.reset_default_tblspc := f23 |}
  | _ => Undef
  end.

Definition to_CreateStatsStmt (x : PgQuery__CreateStatsStmt.t PgQuery__Node) : list scell :=
  [c_count x.(PgQuery__CreateStatsStmt.defnames);
   c_array to_node x.(PgQuery__CreateStatsStmt.defnames);
   c_count x.(PgQuery__CreateStatsStmt.stat_types);
   c_array to_node x.(PgQuery__CreateStatsStmt.stat_types);
   c_count x.(PgQuery__CreateStatsStmt.exprs);
   c_array to_node x.(PgQuery__CreateStatsStmt.exprs);
   c_count x.(PgQuery__CreateStatsStmt.relations);
   c_array to_node x.(PgQuery__CreateStatsStmt.relations);
   c_str x.(PgQuery__CreateStatsStmt.stxcomment);
   c_bool x.(PgQuery__CreateStatsStmt.if_not_exists)].
Definition of_CreateStatsStmt (ms : list scell) : outcome (PgQuery__CreateStatsStmt.t PgQuery__Node) :=
  match ms with
  | [c1; c2; c3; c4; c5; c6; c7; c8; c9; c10] =>
      let* f1 := r_array of_node c1 c2 in
      let* f2 := r_array of_node c3 c4 in
      let* f3 := r_array of_node c5 c6 in
      let* f4 := r_array of_node c7 c8 in
      let* f5 := r_str c9 in
      let* f6 := r_bool c10 in
      Ok {| PgQuery__CreateStatsStmt.defnames := f1;
            PgQuery__CreateStatsStmt.stat_types := f2;
            PgQuery__CreateStatsStmt.exprs := f3;
            PgQuery__CreateStatsStmt.relations := f4;
            PgQuery__CreateStatsStmt.stxcomment := f5;
            PgQuery__CreateStatsStmt.if_not_exists := f6 |}
  | _ => Undef
  end.

Definition to_AlterStatsStmt (x : PgQuery__AlterStatsStmt.t PgQuery__Node) : list scell :=
  [c_count x.(PgQuery__AlterStatsStmt.defnames);
   c_array to_node x.(PgQuery__AlterStatsStmt.defnames);
   c_int x.(PgQuery__AlterStatsStmt.stxstattarget);
   c_bool x.(PgQuery__AlterStatsStmt.missing_ok)].
Definition of_AlterStatsStmt (ms : list scell) : outcome (PgQuery__AlterStatsStmt.t PgQuery__Node) :=
  match ms with
  | [c1; c2; c3; c4] =>
      let* f1 := r_array of_node c1 c2 in
      let* f2 := r_int c3 in
      let* f3 := r_bool c4 in
      Ok {| PgQuery__AlterStatsStmt.defnames := f1;
            PgQuery__AlterStatsStmt.stxstattarget := f2;
            PgQuery__AlterStatsStmt.missing_ok := f3 |}
  | _ => Undef
  end.

Definition to_CreateFunctionStmt (x : PgQuery__CreateFunctionStmt.t PgQuery__Node) : list scell :=
  [c_bool x.(PgQuery__CreateFunctionStmt.is_procedure);
   c_bool x.(PgQuery__CreateFunctionStmt.replace);
   c_count x.(PgQuery__CreateFunctionStmt.funcname);
   c_array to_node x.(PgQuery__CreateFunctionStmt.funcname);
   c_count x.(PgQuery__CreateFunctionStmt.parameters);
   c_array to_node x.(PgQuery__CreateFunctionStmt.parameters);
   c_ptr (s_msg pg_query__type_name__descriptor to_TypeName) x.(PgQuery__CreateFunctionStmt.return_type);
   c_count x.(PgQuery__CreateFunctionStmt.options);
   c_array to_node x.(PgQuery__CreateFunctionStmt.options)].
Definition of_CreateFunctionStmt (ms : list scell) : outcome (PgQuery__CreateFunctionStmt.t PgQuery__Node) :=
  match ms with
  | [c1; c2; c3; c4; c5; c6; c7; c8; c9] =>
      let* f1 := r_bool c1 in
      let* f2 := r_bool c2 in
      let* f3 := r_array of_node c3 c4 in
      let* f4 := r_array of_node c5 c6 in
      let* f5 := r_ptr (o_msg pg_query__type_name__descriptor of_TypeName) c7 in
      let* f6 := r_array of_node c8 c9 in
      Ok {| PgQuery__CreateFunctionStmt.is_procedure := f1;
            PgQuery__CreateFunctionStmt.replace := f2;
            PgQuery__CreateFunctionStmt.funcname := f3;
            PgQuery__CreateFunctionStmt.parameters := f4;
            PgQuery__CreateFunctionStmt.return_type := f5;
            PgQuery__CreateFunctionStmt.options := f6 |}
  | _ => Undef
  end.

Definition to_FunctionParameter (x : PgQuery__FunctionParameter.t PgQuery__Node) : list scell :=
  [c_str x.(PgQuery__FunctionParameter.name);
   c_ptr (s_msg pg_query__type_name__descriptor to_TypeName) x.(PgQuery__FunctionParameter.arg_type);
   c_int x.(PgQuery__FunctionParameter.mode);
   c_ptr to_node x.(PgQuery__FunctionParameter.defexpr)].
Definition of_FunctionParameter (ms : list scell) : outcome (PgQuery__FunctionParameter.t PgQuery__Node) :=
  match ms with
  | [c1; c2; c3; c4] =>
      let* f1 := r_str c1 in
      let* f2 := r_ptr (o_msg pg_query__type_name__descriptor of_TypeName) c2 in
      let* f3 := r_int c3 in
      let* f4 := r_ptr of_node c4 in
      Ok {| PgQuery__FunctionParameter.name := f1;
            PgQuery__FunctionParameter.arg_type := f2;
            PgQuery__FunctionParameter.mode := f3;
            PgQuery__FunctionParameter.defexpr := f4 |}
  | _ => Undef
  end.

Definition to_AlterFunctionStmt (x : PgQuery__AlterFunctionStmt.t PgQuery__Node) : list scell :=
  [c_int x.(PgQuery__AlterFunctionStmt.objtype);
   c_ptr (s_msg pg_query__object_with_args__descriptor to_ObjectWithArgs) x.(PgQuery__AlterFunctionStmt.func);
   c_count x.(PgQuery__AlterFunctionStmt.actions);
   c_array to_node x.(PgQuery__AlterFunctionStmt.actions)].
Definition of_AlterFunctionStmt (ms : list scell) : outcome (PgQuery__AlterFunctionStmt.t PgQuery__Node) :=
  match ms with
  | [c1; c2; c3; c4] =>
      let* f1 := r_int c1 in
      let* f2 := r_ptr (o_msg pg_query__object_with_args__descriptor of_ObjectWithArgs) c2 in
      let* f3 := r_array of_node c3 c4 in
      Ok {| PgQuery__AlterFunctionStmt.objtype := f1;
            PgQuery__AlterFunctionStmt.func := f2;
            PgQuery__AlterFunctionStmt.actions := f3 |}
  | _ => Undef
  end.

Definition to_DoStmt (x : PgQuery__DoStmt.t PgQuery__Node) : list scell :=
  [c_count x.(PgQuery__DoStmt.args);
   c_array to_node x.(PgQuery__DoStmt.args)].
Definition of_DoStmt (ms : list scell) : outcome (PgQuery__DoStmt.t PgQuery__Node) :=
  match ms with
  | [c1; c2] =>
      let* f1 := r_array of_node c1 c2 in
      Ok {| PgQuery__DoStmt.args := f1 |}
  | _ => Undef
  end.

Definition to_FuncExpr (x : PgQuery__FuncExpr.t PgQuery__Node) : list scell :=
  [c_ptr to_node x.(PgQuery__FuncExpr.xpr);
   c_int x.(PgQuery__FuncExpr.funcid);
   c_int x.(PgQuery__FuncExpr.funcresulttype);
   c_bool x.(PgQuery__FuncExpr.funcretset);
   c_bool x.(PgQuery__FuncExpr.funcvariadic);
   c_int x.(PgQuery__FuncExpr.funcformat);
   c_int x.(PgQuery__FuncExpr.funccollid);
   c_int x.(PgQuery__FuncExpr.inputcollid);
   c_count x.(PgQuery__FuncExpr.args);
   c_array to_node x.(PgQuery__FuncExpr.args);
   c_int x.(PgQuery__FuncExpr.location)].
Definition of_FuncExpr (ms : list scell) : outcome (PgQuery__FuncExpr.t PgQuery__Node) :=
  match ms with
  | [c1; c2; c3; c4; c5; c6; c7; c8; c9; c10; c11] =>
      let* f1 := r_ptr of_node c1 in
      let* f2 := r_int c2 in
      let* f3 := r_int c3 in
      let* f4 := r_bool c4 in
      let* f5 := r_bool c5 in
      let* f6 := r_int c6 in
      let* f7 := r_int c7 in
      let* f8 := r_int c8 in
      let* f9 := r_array of_node c9 c10 in
      let* f10 := r_int c11 in
      Ok {| PgQuery__FuncExpr.xpr := f1;
            PgQuery__FuncExpr.funcid := f2;
            PgQuery__FuncExpr.funcresulttype := f3;
            PgQuery__FuncExpr.funcretset := f4;
            PgQuery__FuncExpr.funcvariadic := f5;
            PgQuery__FuncExpr.funcformat := f6;
            PgQuery__FuncExpr.funccollid := f7;
            PgQuery__FuncExpr.inputcollid := f8;
            PgQuery__FuncExpr.args := f9;
            PgQuery__FuncExpr.location := f10 |}
  | _ => Undef
  end.

Definition to_CallStmt (x : PgQuery__CallStmt.t PgQuery__Node) : list scell :=
  [c_ptr (s_msg pg_query__func_call__descriptor to_FuncCall) x.(PgQuery__CallStmt.funccall);
   c_ptr (s_msg pg_query__func_expr__descriptor to_FuncExpr) x.(PgQuery__CallStmt.funcexpr)].
Definition of_CallStmt (ms : list scell) : outcome (PgQuery__CallStmt.t PgQuery__Node) :=
  match ms with
  | [c1; c2] =>
      let* f1 := r_ptr (o_msg pg_query__func_call__descriptor of_FuncCall) c1 in
      let* f2 := r_ptr (o_msg pg_query__func_expr__descriptor of_FuncExpr) c2 in
      Ok {| PgQuery__CallStmt.funccall := f1;
            PgQuery__CallStmt.funcexpr := f2 |}
  | _ => Undef
  end.

Definition to_RenameStmt (x : PgQuery__RenameStmt.t PgQuery__Node) : list scell :=
  [c_int x.(PgQuery__RenameStmt.rename_type);
   c_int x.(PgQuery__RenameStmt.relation_type);
   c_ptr (s_msg pg_query__range_var__descriptor to_RangeVar) x.(PgQuery__RenameStmt.relation);
   c_ptr to_node x.(PgQuery__RenameStmt.object);
   c_str x.(PgQuery__RenameStmt.subname);
   c_str x.(PgQuery__RenameStmt.newname);
   c_int x.(PgQuery__RenameStmt.behavior);
   c_bool x.(PgQuery__RenameStmt.missing_ok)].
Definition of_RenameStmt (ms : list scell) : outcome (PgQuery__RenameStmt.t PgQuery__Node) :=
  match ms with
  | [c1; c2; c3; c4; c5; c6; c7; c8] =>
      let* f1 := r_int c1 in
      let* f2 := r_int c2 in
      let* f3 := r_ptr (o_msg pg_query__range_var__descriptor of_RangeVar) c3 in
      let* f4 := r_ptr of_node c4 in
      let* f5 := r_str c5 in
      let* f6 := r_str c6 in
      let* f7 := r_int c7 in
      let* f8 := r_bool c8 in
      Ok {| PgQuery__RenameStmt.rename_type := f1;
            PgQuery__RenameStmt.relation_type := f2;
            PgQuery__RenameStmt.relation := f3;
            PgQuery__RenameStmt.object := f4;
            PgQuery__RenameStmt.subname := f5;
            PgQuery__RenameStmt.newname := f6;
            PgQuery__RenameStmt.behavior := f7;
            PgQuery__RenameStmt.missing_ok := f8 |}
  | _ => Undef
  end.

Definition to_AlterObjectDependsStmt (x : PgQuery__AlterObjectDependsStmt.t PgQuery__Node) : list scell :=
  [c_int x.(PgQuery__AlterObjectDependsStmt.object_type);
   c_ptr (s_msg pg_query__range_var__descriptor to_RangeVar) x.(PgQuery__AlterObjectDependsStmt.relation);
   c_ptr to_node x.(PgQuery__AlterObjectDependsStmt.object);
   c_ptr to_node x.(PgQuery__AlterObjectDependsStmt.extname);
   c_bool x.(PgQuery__AlterObjectDependsStmt.remove)].
Definition of_AlterObjectDependsStmt (ms : list scell) : outcome (PgQuery__AlterObjectDependsStmt.t PgQuery__Node) :=
  match ms with
  | [c1; c2; c3; c4; c5] =>
      let* f1 := r_int c1 in
      let* f2 := r_ptr (o_msg pg_query__range_var__descriptor of_RangeVar) c2 in
      let* f3 := r_ptr of_node c3 in
      let* f4 := r_ptr of_node c4 in
      let* f5 := r_bool c5 in
      Ok {| PgQuery__AlterObjectDependsStmt.object_type := f1;
            PgQuery__AlterObjectDependsStmt.relation := f2;
            PgQuery__AlterObjectDependsStmt.object := f3;
            PgQuery__AlterObjectDependsStmt.extname := f4;
            PgQuery__AlterObjectDependsStmt.remove := f5 |}
  | _ => Undef
  end.

Definition to_AlterObjectSchemaStmt (x : PgQuery__AlterObjectSchemaStmt.t PgQuery__Node) : list scell :=
  [c_int x.(PgQuery__AlterObjectSchemaStmt.object_type);
   c_ptr (s_msg pg_query__range_var__descriptor to_RangeVar) x.(PgQuery__AlterObjectSchemaStmt.relation);
   c_ptr to_node x.(PgQuery__AlterObjectSchemaStmt.object);
   c_str x.(PgQuery__AlterObjectSchemaStmt.newschema);
   c_bool x.(PgQuery__AlterObjectSchemaStmt.missing_ok)].
Definition of_AlterObjectSchemaStmt (ms : list scell) : outcome (PgQuery__AlterObjectSchemaStmt.t PgQuery__Node) :=
  match ms with
  | [c1; c2; c3; c4; c5] =>
      let* f1 := r_int c1 in
      let* f2 := r_ptr (o_msg pg_query__range_var__descriptor of_RangeVar) c2 in
      let* f3 := r_ptr of_node c3 in
      let* f4 := r_str c4 in
      let* f5 := r_bool c5 in
      Ok {| PgQuery__AlterObjectSchemaStmt.object_type := f1;
            PgQuery__AlterObjectSchemaStmt.relation := f2;
            PgQuery__AlterObjectSchemaStmt.object := f3;
            PgQuery__AlterObjectSchemaStmt.newschema := f4;
            PgQuery__AlterObjectSchemaStmt.missing_ok := f5 |}
  | _ => Undef
  end.

Definition to_AlterOwnerStmt (x : PgQuery__AlterOwnerStmt.t PgQuery__Node) : list scell :=
  [c_int x.(PgQuery__AlterOwnerStmt.object_type);
   c_ptr (s_msg pg_query__range_var__descriptor to_RangeVar) x.(PgQuery__AlterOwnerStmt.relation);
   c_ptr to_node x.(PgQuery__AlterOwnerStmt.object);
   c_ptr (s_msg pg_query__role_spec__descriptor to_RoleSpec) x.(PgQuery__AlterOwnerStmt.newowner)].
Definition of_AlterOwnerStmt (ms : list scell) : outcome (PgQuery__AlterOwnerStmt.t PgQuery__Node) :=
  match ms with
  | [c1; c2; c3; c4] =>
      let* f1 := r_int c1 in
      let* f2 := r_ptr (o_msg pg_query__range_var__descriptor of_RangeVar) c2 in
      let* f3 := r_ptr of_node c3 in
      let* f4 := r_ptr (o_msg pg_query__role_spec__descriptor of_RoleSpec) c4 in
      Ok {| PgQuery__AlterOwnerStmt.object_type := f1;
            PgQuery__AlterOwnerStmt.relation := f2;
            PgQuery__AlterOwnerStmt.object := f3;
            PgQuery__AlterOwnerStmt.newowner := f4 |}
  | _ => Undef
  end.

Definition to_AlterOperatorStmt (x : PgQuery__AlterOperatorStmt.t PgQuery__Node) : list scell :=
  [c_ptr (s_msg pg_query__object_with_args__descriptor to_ObjectWithArgs) x.(PgQuery__AlterOperatorStmt.opername);
   c_count x.(PgQuery__AlterOperatorStmt.options);
   c_array to_node x.(PgQuery__AlterOperatorStmt.options)].
Definition of_AlterOperatorStmt (ms : list scell) : outcome (PgQuery__AlterOperatorStmt.t PgQuery__Node) :=
  match ms with
  | [c1; c2; c3] =>
      let* f1 := r_ptr (o_msg pg_query__object_with_args__descriptor of_ObjectWithArgs) c1 in
      let* f2 := r_array of_node c2 c3 in
      Ok {| PgQuery__AlterOperatorStmt.opername := f1;
            PgQuery__AlterOperatorStmt.options := f2 |}
  | _ => Undef
  end.

Definition to_AlterTypeStmt (x : PgQuery__AlterTypeStmt.t PgQuery__Node) : list scell :=
  [c_count x.(PgQuery__AlterTypeStmt.type_name);
   c_array to_node x.(PgQuery__AlterTypeStmt.type_name);
   c_count x.(PgQuery__AlterTypeStmt.options);
   c_array to_node x.(PgQuery__AlterTypeStmt.options)].
Definition of_AlterTypeStmt (ms : list scell) : outcome (PgQuery__AlterTypeStmt.t PgQuery__Node) :=
  match ms with
  | [c1; c2; c3; c4] =>
      let* f1 := r_array of_node c1 c2 in
      let* f2 := r_array of_node c3 c4 in
      Ok {| PgQuery__AlterTypeStmt.type_name := f1;
            PgQuery__AlterTypeStmt.options := f2 |}
  | _ => Undef
  end.

Definition to_RuleStmt (x : PgQuery__RuleStmt.t PgQuery__Node) : list scell :=
  [c_ptr (s_msg pg_query__range_var__descriptor to_RangeVar) x.(PgQuery__RuleStmt.relation);
   c_str x.(PgQuery__RuleStmt.rulename);
   c_ptr to_node x.(PgQuery__RuleStmt.where_clause);
   c_int x.(PgQuery__RuleStmt.event);
   c_bool x.(PgQuery__RuleStmt.instead);
   c_count x.(PgQuery__RuleStmt.actions);
   c_array to_node x.(PgQuery__RuleStmt.actions);
   c_bool x.(PgQuery__RuleStmt.replace)].
Definition of_RuleStmt (ms : list scell) : outcome (PgQuery__RuleStmt.t PgQuery__Node) :=
  match ms with
  | [c1; c2; c3; c4; c5; c6; c7; c8] =>
      let* f1 := r_ptr (o_msg pg_query__range_var__descriptor of_RangeVar) c1 in
      let* f2 := r_str c2 in
      let* f3 := r_ptr of_node c3 in
      let* f4 := r_int c4 in
      let* f5 := r_bool c5 in
      let* f6 := r_array of_node c6 c7 in
      let* f7 := r_bool c8 in
      Ok {| PgQuery__RuleStmt.relation := f1;
            PgQuery__RuleStmt.rulename := f2;
            PgQuery__RuleStmt.where_clause := f3;
            PgQuery__RuleStmt.event := f4;
            PgQuery__RuleStmt.instead := f5;
            PgQuery__RuleStmt.actions := f6;
            PgQuery__RuleStmt.replace := f7 |}
  | _ => Undef
  end.

Definition to_NotifyStmt (x : PgQuery__NotifyStmt.t PgQuery__Node) : list scell :=
  [c_str x.(PgQuery__NotifyStmt.conditionname);
   c_str x.(PgQuery__NotifyStmt.payload)].
Definition of_NotifyStmt (ms : list scell) : outcome (PgQuery__NotifyStmt.t PgQuery__Node) :=
  match ms with
  | [c1; c2] =>
      let* f1 := r_str c1 in
      let* f2 := r_str c2 in
      Ok {| PgQuery__NotifyStmt.conditionname := f1;
            PgQuery__NotifyStmt.payload := f2 |}
  | _ => Undef
  end.

Definition to_ListenStmt (x : PgQuery__ListenStmt.t PgQuery__Node) : list scell :=
  [c_str x.(PgQuery__ListenStmt.conditionname)].
Definition of_ListenStmt (ms : list scell) : outcome (PgQuery__ListenStmt.t PgQuery__Node) :=
  match ms with
  | [c1] =>
      let* f1 := r_str c1 in
      Ok {| PgQuery__ListenStmt.conditionname := f1 |}
  | _ => Undef
  end.

Definition to_UnlistenStmt (x : PgQuery__UnlistenStmt.t PgQuery__Node) : list scell :=
  [c_str x.(PgQuery__UnlistenStmt.conditionname)].
Definition of_UnlistenStmt (ms : list scell) : outcome (PgQuery__UnlistenStmt.t PgQuery__Node) :=
  match ms with
  | [c1] =>
      let* f1 := r_str c1 in
      Ok {| PgQuery__UnlistenStmt.conditionname := f1 |}
  | _ => Undef
  end.

Definition to_TransactionStmt (x : PgQuery__TransactionStmt.t PgQuery__Node) : list scell :=
  [c_int x.(PgQuery__TransactionStmt.kind);
   c_count x.(PgQuery__TransactionStmt.options);
   c_array to_node x.(PgQuery__TransactionStmt.options);
   c_str x.(PgQuery__TransactionStmt.savepoint_name);
   c_str x.(PgQuery__TransactionStmt.gid);
   c_bool x.(PgQuery__TransactionStmt.chain)].
Definition of_TransactionStmt (ms : list scell) : outcome (PgQuery__TransactionStmt.t PgQuery__Node) :=
  match ms with
  | [c1; c2; c3; c4; c5; c6] =>
      let* f1 := r_int c1 in
      let* f2 := r_array of_node c2 c3 in
      let* f3 := r_str c4 in
      let* f4 := r_str c5 in
      let* f5 := r_bool c6 in
      Ok {| PgQuery__TransactionStmt.kind := f1;
            PgQuery__TransactionStmt.options := f2;
            PgQuery__TransactionStmt.savepoint_name := f3;
            PgQuery__TransactionStmt.gid := f4;
            PgQuery__TransactionStmt.chain := f5 |}
  | _ => Undef
  end.

Definition to_CompositeTypeStmt (x : PgQuery__CompositeTypeStmt.t PgQuery__Node) : list scell :=
  [c_ptr (s_msg pg_query__range_var__descriptor to_RangeVar) x.(PgQuery__CompositeTypeStmt.typevar);
   c_count x.(PgQuery__CompositeTypeStmt.coldeflist);
   c_array to_node x.(PgQuery__CompositeTypeStmt.coldeflist)].
Definition of_CompositeTypeStmt (ms : list scell) : outcome (PgQuery__CompositeTypeStmt.t PgQuery__Node) :=
  match ms with
  | [c1; c2; c3] =>
      let* f1 := r_ptr (o_msg pg_query__range_var__descriptor of_RangeVar) c1 in
      let* f2 := r_array of_node c2 c3 in
      Ok {| PgQuery__CompositeTypeStmt.typevar := f1;
            PgQuery__CompositeTypeStmt.coldeflist := f2 |}
  | _ => Undef
  end.

Definition to_CreateEnumStmt (x : PgQuery__CreateEnumStmt.t PgQuery__Node) : list scell :=
  [c_count x.(PgQuery__CreateEnumStmt.type_name);
   c_array to_node x.(PgQuery__CreateEnumStmt.type_name);
   c_count x.(PgQuery__CreateEnumStmt.vals);
   c_array to_node x.(PgQuery__CreateEnumStmt.vals)].
Definition of_CreateEnumStmt (ms : list scell) : outcome (PgQuery__CreateEnumStmt.t PgQuery__Node) :=
  match ms with
  | [c1; c2; c3; c4] =>
      let* f1 := r_array of_node c1 c2 in
      let* f2 := r_array of_node c3 c4 in
      Ok {| PgQuery__CreateEnumStmt.type_name := f1;
            PgQuery__CreateEnumStmt.vals := f2 |}
  | _ => Undef
  end.

Definition to_CreateRangeStmt (x : PgQuery__CreateRangeStmt.t PgQuery__Node) : list scell :=
  [c_count x.(PgQuery__CreateRangeStmt.type_name);
   c_array to_node x.(PgQuery__CreateRangeStmt.type_name);
   c_count x.(PgQuery__CreateRangeStmt.params);
   c_array to_node x.(PgQuery__CreateRangeStmt.params)].
Definition of_CreateRangeStmt (ms : list scell) : outcome (PgQuery__CreateRangeStmt.t PgQuery__Node) :=
  match ms with
  | [c1; c2; c3; c4] =>
      let* f1 := r_array of_node c1 c2 in
      let* f2 := r_array of_node c3 c4 in
      Ok {| PgQuery__CreateRangeStmt.type_name := f1;
            PgQuery__CreateRangeStmt.params := f2 |}
  | _ => Undef
  end.

Definition to_AlterEnumStmt (x : PgQuery__AlterEnumStmt.t PgQuery__Node) : list scell :=
  [c_count x.(PgQuery__AlterEnumStmt.type_name);
   c_array to_node x.(PgQuery__AlterEnumStmt.type_name);
   c_str x.(PgQuery__AlterEnumStmt.old_val);
   c_str x.(PgQuery__AlterEnumStmt.new_val);
   c_str x.(PgQuery__AlterEnumStmt.new_val_neighbor);
   c_bool x.(PgQuery__AlterEnumStmt.new_val_is_after);
   c_bool x.(PgQuery__AlterEnumStmt.skip_if_new_val_exists)].
Definition of_AlterEnumStmt (ms : list scell) : outcome (PgQuery__AlterEnumStmt.t PgQuery__Node) :=
  match ms with
  | [c1; c2; c3; c4; c5; c6; c7] =>
      let* f1 := r_array of_node c1 c2 in
      let* f2 := r_str c3 in
      let* f3 := r_str c4 in
      let* f4 := r_str c5 in
      let* f5 := r_bool c6 in
      let* f6 := r_bool c7 in
      Ok {| PgQuery__AlterEnumStmt.type_name := f1;
            PgQuery__AlterEnumStmt.old_val := f2;
            PgQuery__AlterEnumStmt.new_val := f3;
            PgQuery__AlterEnumStmt.new_val_neighbor := f4;
            PgQuery__AlterEnumStmt.new_val_is_after := f5;
            PgQuery__AlterEnumStmt.skip_if_new_val_exists := f6 |}
  | _ => Undef
  end.

Definition to_ViewStmt (x : PgQuery__ViewStmt.t PgQuery__Node) : list scell :=
  [c_ptr (s_msg pg_query__range_var__descriptor to_RangeVar) x.(PgQuery__ViewStmt.view);
   c_count x.(PgQuery__ViewStmt.aliases);
   c_array to_node x.(PgQuery__ViewStmt.aliases);
   c_ptr to_node x.(PgQuery__ViewStmt.query);
   c_bool x.(PgQuery__ViewStmt.replace);
   c_count x.(PgQuery__ViewStmt.options);
   c_array to_node x.(PgQuery__ViewStmt.options);
   c_int x.(PgQuery__ViewStmt.with_check_option)].
Definition of_ViewStmt (ms : list scell) : outcome (PgQuery__ViewStmt.t PgQuery__Node) :=
  match ms with
  | [c1; c2; c3; c4; c5; c6; c7; c8] =>
      let* f1 := r_ptr (o_msg pg_query__range_var__descriptor of_RangeVar) c1 in
      let* f2 := r_array of_node c2 c3 in
      let* f3 := r_ptr of_node c4 in
      let* f4 := r_bool c5 in
      let* f5 := r_array of_node c6 c7 in
      let* f6 := r_int c8 in
      Ok {| PgQuery__ViewStmt.view := f1;
            PgQuery__ViewStmt.aliases := f2;
            PgQuery__ViewStmt.query := f3;
            PgQuery__ViewStmt.replace := f4;
            PgQuery__ViewStmt.options := f5;
            PgQuery__ViewStmt.with_check_option := f6 |}
  | _ => Undef
  end.

Definition to_LoadStmt (x : PgQuery__LoadStmt.t PgQuery__Node) : list scell :=
  [c_str x.(PgQuery__LoadStmt.filename)].
Definition of_LoadStmt (ms : list scell) : outcome (PgQuery__LoadStmt.t PgQuery__Node) :=
  match ms with
  | [c1] =>
      let* f1 := r_str c1 in
      Ok {| PgQuery__LoadStmt.filename := f1 |}
  | _ => Undef
  end.

Definition to_CreatedbStmt (x : PgQuery__CreatedbStmt.t PgQuery__Node) : list scell :=
  [c_str x.(PgQuery__CreatedbStmt.dbname);
   c_count x.(PgQuery__CreatedbStmt.options);
   c_array to_node x.(PgQuery__CreatedbStmt.options)].
Definition of_CreatedbStmt (ms : list scell) : outcome (PgQuery__CreatedbStmt.t PgQuery__Node) :=
  match ms with
  | [c1; c2; c3] =>
      let* f1 := r_str c1 in
      let* f2 := r_array of_node c2 c3 in
      Ok {| PgQuery__CreatedbStmt.dbname := f1;
            PgQuery__CreatedbStmt.options := f2 |}
  | _ => Undef
  end.

Definition to_AlterDatabaseStmt (x : PgQuery__AlterDatabaseStmt.t PgQuery__Node) : list scell :=
  [c_str x.(PgQuery__AlterDatabaseStmt.dbname);
   c_count x.(PgQuery__AlterDatabaseStmt.options);
   c_array to_node x.(PgQuery__AlterDatabaseStmt.options)].
Definition of_AlterDatabaseStmt (ms : list scell) : outcome (PgQuery__AlterDatabaseStmt.t PgQuery__Node) :=
  match ms with
  | [c1; c2; c3] =>
      let* f1 := r_str c1 in
      let* f2 := r_array of_node c2 c3 in
      Ok {| PgQuery__AlterDatabaseStmt.dbname := f1;
            PgQuery__AlterDatabaseStmt.options := f2 |}
  | _ => Undef
  end.

Definition to_AlterDatabaseSetStmt (x : PgQuery__AlterDatabaseSetStmt.t PgQuery__Node) : list scell :=
  [c_str x.(PgQuery__AlterDatabaseSetStmt.dbname);
   c_ptr (s_msg pg_query__variable_set_stmt__descriptor to_VariableSetStmt) x.(PgQuery__AlterDatabaseSetStmt.setstmt)].
Definition of_AlterDatabaseSetStmt (ms : list scell) : outcome (PgQuery__AlterDatabaseSetStmt.t PgQuery__Node) :=
  match ms with
  | [c1; c2] =>
      let* f1 := r_str c1 in
      let* f2 := r_ptr (o_msg pg_query__variable_set_stmt__descriptor of_VariableSetStmt) c2 in
      Ok {| PgQuery__AlterDatabaseSetStmt.dbname := f1;
            PgQuery__AlterDatabaseSetStmt.setstmt := f2 |}
  | _ => Undef
  end.

Definition to_DropdbStmt (x : PgQuery__DropdbStmt.t PgQuery__Node) : list scell :=
  [c_str x.(PgQuery__DropdbStmt.dbname);
   c_bool x.(PgQuery__DropdbStmt.missing_ok);
   c_count x.(PgQuery__DropdbStmt.options);
   c_array to_node x.(PgQuery__DropdbStmt.options)].
Definition of_DropdbStmt (ms : list scell) : outcome (PgQuery__DropdbStmt.t PgQuery__Node) :=
  match ms with
  | [c1; c2; c3; c4] =>
      let* f1 := r_str c1 in
      let* f2 := r_bool c2 in
      let* f3 := r_array of_node c3 c4 in
      Ok {| PgQuery__DropdbStmt.dbname := f1;
            PgQuery__DropdbStmt.missing_ok := f2;
            PgQuery__DropdbStmt.options := f3 |}
  | _ => Undef
  end.

Definition to_AlterSystemStmt (x : PgQuery__AlterSystemStmt.t PgQuery__Node) : list scell :=
  [c_ptr (s_msg pg_query__variable_set_stmt__descriptor to_VariableSetStmt) x.(PgQuery__AlterSystemStmt.setstmt)].
Definition of_AlterSystemStmt (ms : list scell) : outcome (PgQuery__AlterSystemStmt.t PgQuery__Node) :=
  match ms with
  | [c1] =>
      let* f1 := r_ptr (o_msg pg_query__variable_set_stmt__descriptor of_VariableSetStmt) c1 in
      Ok {| PgQuery__AlterSystemStmt.setstmt := f1 |}
  | _ => Undef
  end.

Definition to_ClusterStmt (x : PgQuery__ClusterStmt.t PgQuery__Node) : list scell :=
  [c_ptr (s_msg pg_query__range_var__descriptor to_RangeVar) x.(PgQuery__ClusterStmt.relation);
   c_str x.(PgQuery__ClusterStmt.indexname);
   c_int x.(PgQuery__ClusterStmt.options)].
Definition of_ClusterStmt (ms : list scell) : outcome (PgQuery__ClusterStmt.t PgQuery__Node) :=
  match ms with
  | [c1; c2; c3] =>
      let* f1 := r_ptr (o_msg pg_query__range_var__descriptor of_RangeVar) c1 in
      let* f2 := r_str c2 in
      let* f3 := r_int c3 in
      Ok {| PgQuery__ClusterStmt.relation := f1;
            PgQuery__ClusterStmt.indexname := f2;
            PgQuery__ClusterStmt.options := f3 |}
  | _ => Undef
  end.

Definition to_VacuumStmt (x : PgQuery__VacuumStmt.t PgQuery__Node) : list scell :=
  [c_count x.(PgQuery__VacuumStmt.options);
   c_array to_node x.(PgQuery__VacuumStmt.options);
   c_count x.(PgQuery__VacuumStmt.rels);
   c_array to_node x.(PgQuery__VacuumStmt.rels);
   c_bool x.(PgQuery__VacuumStmt.is_vacuumcmd)].
Definition of_VacuumStmt (ms : list scell) : outcome (PgQuery__VacuumStmt.t PgQuery__Node) :=
  match ms with
  | [c1; c2; c3; c4; c5] =>
      let* f1 := r_array of_node c1 c2 in
      let* f2 := r_array of_node c3 c4 in
      let* f3 := r_bool c5 in
      Ok {| PgQuery__VacuumStmt.options := f1;
            PgQuery__VacuumStmt.rels := f2;
            PgQuery__VacuumStmt.is_vacuumcmd := f3 |}
  | _ => Undef
  end.

Definition to_VacuumRelation (x : PgQuery__VacuumRelation.t PgQuery__Node) : list scell :=
  [c_ptr (s_msg pg_query__range_var__descriptor to_RangeVar) x.(PgQuery__VacuumRelation.relation);
   c_int x.(PgQuery__VacuumRelation.oid);
   c_count x.(PgQuery__VacuumRelation.va_cols);
   c_array to_node x.(PgQuery__VacuumRelation.va_cols)].
Definition of_VacuumRelation (ms : list scell) : outcome (PgQuery__VacuumRelation.t PgQuery__Node) :=
  match ms with
  | [c1; c2; c3; c4] =>
      let* f1 := r_ptr (o_msg pg_query__range_var__descriptor of_RangeVar) c1 in
      let* f2 := r_int c2 in
      let* f3 := r_array of_node c3 c4 in
      Ok {| PgQuery__VacuumRelation.relation := f1;
            PgQuery__VacuumRelation.oid := f2;
            PgQuery__VacuumRelation.va_cols := f3 |}
  | _ => Undef
  end.

Definition to_ExplainStmt (x : PgQuery__ExplainStmt.t PgQuery__Node) : list scell :=
  [c_ptr to_node x.(PgQuery__ExplainStmt.query);
   c_count x.(PgQuery__ExplainStmt.options);
   c_array to_node x.(PgQuery__ExplainStmt.options)].
Definition of_ExplainStmt (ms : list scell) : outcome (PgQuery__ExplainStmt.t PgQuery__Node) :=
  match ms with
  | [c1; c2; c3] =>
      let* f1 := r_ptr of_node c1 in
      let* f2 := r_array of_node c2 c3 in
      Ok {| PgQuery__ExplainStmt.query := f1;
            PgQuery__ExplainStmt.options := f2 |}
  | _ => Undef
  end.

Definition to_CreateTableAsStmt (x : PgQuery__CreateTableAsStmt.t PgQuery__Node) : list scell :=
  [c_ptr to_node x.(PgQuery__CreateTableAsStmt.query);
   c_ptr (s_msg pg_query__into_clause__descriptor to_IntoClause) x.(PgQuery__CreateTableAsStmt.into);
   c_int x.(PgQuery__CreateTableAsStmt.relkind);
   c_bool x.(PgQuery__CreateTableAsStmt.is_select_into);
   c_bool x.(PgQuery__CreateTableAsStmt.if_not_exists)].
Definition of_CreateTableAsStmt (ms : list scell) : outcome (PgQuery__CreateTableAsStmt.t PgQuery__Node) :=
  match ms with
  | [c1; c2; c3; c4; c5] =>
      let* f1 := r_ptr of_node c1 in
      let* f2 := r_ptr (o_msg pg_query__into_clause__descriptor of_IntoClause) c2 in
      let* f3 := r_int c3 in
      let* f4 := r_bool c4 in
      let* f5 := r_bool c5 in
      Ok {| PgQuery__CreateTableAsStmt.query := f1;
            PgQuery__CreateTableAsStmt.into := f2;
            PgQuery__CreateTableAsStmt.relkind := f3;
            PgQuery__CreateTableAsStmt.is_select_into := f4;
            PgQuery__CreateTableAsStmt.if_not_exists := f5 |}
  | _ => Undef
  end.

Definition to_RefreshMatViewStmt (x : PgQuery__RefreshMatViewStmt.t PgQuery__Node) : list scell :=
  [c_bool x.(PgQuery__RefreshMatViewStmt.concurrent);
   c_bool x.(PgQuery__RefreshMatViewStmt.skip_data);
   c_ptr (s_msg pg_query__range_var__descriptor to_RangeVar) x.(PgQuery__RefreshMatViewStmt.relation)].
Definition of_RefreshMatViewStmt (ms : list scell) : outcome (PgQuery__RefreshMatViewStmt.t PgQuery__Node) :=
  match ms with
  | [c1; c2; c3] =>
      let* f1 := r_bool c1 in
      let* f2 := r_bool c2 in
      let* f3 := r_ptr (o_msg pg_query__range_var__descriptor of_RangeVar) c3 in
      Ok {| PgQuery__RefreshMatViewStmt.concurrent := f1;
            PgQuery__RefreshMatViewStmt.skip_data := f2;
            PgQuery__RefreshMatViewStmt.relation := f3 |}
  | _ => Undef
  end.

Definition to_CheckPointStmt (x : PgQuery__CheckPointStmt.t PgQuery__Node) : list scell := [].
Definition of_CheckPointStmt (ms : list scell) : outcome (PgQuery__CheckPointStmt.t PgQuery__Node) :=
  match ms with [] => Ok PgQuery__CheckPointStmt.mk | _ => Undef end.

Definition to_DiscardStmt (x : PgQuery__DiscardStmt.t PgQuery__Node) : list scell :=
  [c_int x.(PgQuery__DiscardStmt.target)].
Definition of_DiscardStmt (ms : list scell) : outcome (PgQuery__DiscardStmt.t PgQuery__Node) :=
  match ms with
  | [c1] =>
      let* f1 := r_int c1 in
      Ok {| PgQuery__DiscardStmt.target := f1 |}
  | _ => Undef
  end.

Definition to_LockStmt (x : PgQuery__LockStmt.t PgQuery__Node) : list scell :=
  [c_count x.(PgQuery__LockStmt.relations);
   c_array to_node x.(PgQuery__LockStmt.relations);
   c_int x.(PgQuery__LockStmt.mode);
   c_bool x.(PgQuery__LockStmt.nowait)].
Definition of_LockStmt (ms : list scell) : outcome (PgQuery__LockStmt.t PgQuery__Node) :=
  match ms with
  | [c1; c2; c3; c4] =>
      let* f1 := r_array of_node c1 c2 in
      let* f2 := r_int c3 in
      let* f3 := r_bool c4 in
      Ok {| PgQuery__LockStmt.relations := f1;
            PgQuery__LockStmt.mode := f2;
            PgQuery__LockStmt.nowait := f3 |}
  | _ => Undef
  end.

Definition to_ConstraintsSetStmt (x : PgQuery__ConstraintsSetStmt.t PgQuery__Node) : list scell :=
  [c_count x.(PgQuery__ConstraintsSetStmt.constraints);
   c_array to_node x.(PgQuery__ConstraintsSetStmt.constraints);
   c_bool x.(PgQuery__ConstraintsSetStmt.deferred)].
Definition of_ConstraintsSetStmt (ms : list scell) : outcome (PgQuery__ConstraintsSetStmt.t PgQuery__Node) :=
  match ms with
  | [c1; c2; c3] =>
      let* f1 := r_array of_node c1 c2 in
      let* f2 := r_bool c3 in
      Ok {| PgQuery__ConstraintsSetStmt.constraints := f1;
            PgQuery__ConstraintsSetStmt.deferred := f2 |}
  | _ => Undef
  end.

Definition to_ReindexStmt (x : PgQuery__ReindexStmt.t PgQuery__Node) : list scell :=
  [c_int x.(PgQuery__ReindexStmt.kind);
   c_ptr (s_msg pg_query__range_var__descriptor to_RangeVar) x.(PgQuery__ReindexStmt.relation);
   c_str x.(PgQuery__ReindexStmt.name);
   c_int x.(PgQuery__ReindexStmt.options);
   c_bool x.(PgQuery__ReindexStmt.concurrent)].
Definition of_ReindexStmt (ms : list scell) : outcome (PgQuery__ReindexStmt.t PgQuery__Node) :=
  match ms with
  | [c1; c2; c3; c4; c5] =>
      let* f1 := r_int c1 in
      let* f2 := r_ptr (o_msg pg_query__range_var__descriptor of_RangeVar) c2 in
      let* f3 := r_str c3 in
      let* f4 := r_int c4 in
      let* f5 := r_bool c5 in
      Ok {| PgQuery__ReindexStmt.kind := f1;
            PgQuery__ReindexStmt.relation := f2;
            PgQuery__ReindexStmt.name := f3;
            PgQuery__ReindexStmt.options := f4;
            PgQuery__ReindexStmt.concurrent := f5 |}
  | _ => Undef
  end.

Definition to_CreateConversionStmt (x : PgQuery__CreateConversionStmt.t PgQuery__Node) : list scell :=
  [c_count x.(PgQuery__CreateConversionStmt.conversion_name);
   c_array to_node x.(PgQuery__CreateConversionStmt.conversion_name);
   c_str x.(PgQuery__CreateConversionStmt.for_encoding_name);
   c_str x.(PgQuery__CreateConversionStmt.to_encoding_name);
   c_count x.(PgQuery__CreateConversionStmt.func_name);
   c_array to_node x.(PgQuery__CreateConversionStmt.func_name);
   c_bool x.(PgQuery__CreateConversionStmt.def)].
Definition of_CreateConversionStmt (ms : list scell) : outcome (PgQuery__CreateConversionStmt.t PgQuery__Node) :=
  match ms with
  | [c1; c2; c3; c4; c5; c6; c7] =>
      let* f1 := r_array of_node c1 c2 in
      let* f2 := r_str c3 in
      let* f3 := r_str c4 in
      let* f4 := r_array of_node c5 c6 in
      let* f5 := r_bool c7 in
      Ok {| PgQuery__CreateConversionStmt.conversion_name := f1;
            PgQuery__CreateConversionStmt.for_encoding_name := f2;
            PgQuery__CreateConversionStmt.to_encoding_name := f3;
            PgQuery__CreateConversionStmt.func_name := f4;
            PgQuery__CreateConversionStmt.def := f5 |}
  | _ => Undef
  end.

Definition to_CreateCastStmt (x : PgQuery__CreateCastStmt.t PgQuery__Node) : list scell :=
  [c_ptr (s_msg pg_query__type_name__descriptor to_TypeName) x.(PgQuery__CreateCastStmt.sourcetype);
   c_ptr (s_msg pg_query__type_name__descriptor to_TypeName) x.(PgQuery__CreateCastStmt.targettype);
   c_ptr (s_msg pg_query__object_with_args__descriptor to_ObjectWithArgs) x.(PgQuery__CreateCastStmt.func);
   c_int x.(PgQuery__CreateCastStmt.context);
   c_bool x.(PgQuery__CreateCastStmt.inout)].
Definition of_CreateCastStmt (ms : list scell) : outcome (PgQuery__CreateCastStmt.t PgQuery__Node) :=
  match ms with
  | [c1; c2; c3; c4; c5] =>
      let* f1 := r_ptr (o_msg pg_query__type_name__descriptor of_TypeName) c1 in
      let* f2 := r_ptr (o_msg pg_query__type_name__descriptor of_TypeName) c2 in
      let* f3 := r_ptr (o_msg pg_query__object_with_args__descriptor of_ObjectWithArgs) c3 in
      let* f4 := r_int c4 in
      let* f5 := r_bool c5 in
      Ok {| PgQuery__CreateCastStmt.sourcetype := f1;
            PgQuery__CreateCastStmt.targettype := f2;
            PgQuery__CreateCastStmt.func := f3;
            PgQuery__CreateCastStmt.context := f4;
            PgQuery__CreateCastStmt.inout := f5 |}
  | _ => Undef
  end.

Definition to_CreateTransformStmt (x : PgQuery__CreateTransformStmt.t PgQuery__Node) : list scell :=
  [c_bool x.(PgQuery__CreateTransformStmt.replace);
   c_ptr (s_msg pg_query__type_name__descriptor to_TypeName) x.(PgQuery__CreateTransformStmt.type_name);
   c_str x.(PgQuery__CreateTransformStmt.lang);
   c_ptr (s_msg pg_query__object_with_args__descriptor to_ObjectWithArgs) x.(PgQuery__CreateTransformStmt.fromsql);
   c_ptr (s_msg pg_query__object_with_args__descriptor to_ObjectWithArgs) x.(PgQuery__CreateTransformStmt.tosql)].
Definition of_CreateTransformStmt (ms : list scell) : outcome (PgQuery__CreateTransformStmt.t PgQuery__Node) :=
  match ms with
  | [c1; c2; c3; c4; c5] =>
      let* f1 := r_bool c1 in
      let* f2 := r_ptr (o_msg pg_query__type_name__descriptor of_TypeName) c2 in
      let* f3 := r_str c3 in
      let* f4 := r_ptr (o_msg pg_query__object_with_args__descriptor of_ObjectWithArgs) c4 in
      let* f5 := r_ptr (o_msg pg_query__object_with_args__descriptor of_ObjectWithArgs) c5 in
      Ok {| PgQuery__CreateTransformStmt.replace := f1;
            PgQuery__CreateTransformStmt.type_name := f2;
            PgQuery__CreateTransformStmt.lang := f3;
            PgQuery__CreateTransformStmt.fromsql := f4;
            PgQuery__CreateTransformStmt.tosql := f5 |}
  | _ => Undef
  end.

Definition to_PrepareStmt (x : PgQuery__PrepareStmt.t PgQuery__Node) : list scell :=
  [c_str x.(PgQuery__PrepareStmt.name);
   c_count x.(PgQuery__PrepareStmt.argtypes);
   c_array to_node x.(PgQuery__PrepareStmt.argtypes);
   c_ptr to_node x.(PgQuery__PrepareStmt.query)].
Definition of_PrepareStmt (ms : list scell) : outcome (PgQuery__PrepareStmt.t PgQuery__Node) :=
  match ms with
  | [c1; c2; c3; c4] =>
      let* f1 := r_str c1 in
      let* f2 := r_array of_node c2 c3 in
      let* f3 := r_ptr of_node c4 in
      Ok {| PgQuery__PrepareStmt.name := f1;
            PgQuery__PrepareStmt.argtypes := f2;
            PgQuery__PrepareStmt.query := f3 |}
  | _ => Undef
  end.

Definition to_ExecuteStmt (x : PgQuery__ExecuteStmt.t PgQuery__Node) : list scell :=
  [c_str x.(PgQuery__ExecuteStmt.name);
   c_count x.(PgQuery__ExecuteStmt.params);
   c_array to_node x.(PgQuery__ExecuteStmt.params)].
Definition of_ExecuteStmt (ms : list scell) : outcome (PgQuery__ExecuteStmt.t PgQuery__Node) :=
  match ms with
  | [c1; c2; c3] =>
      let* f1 := r_str c1 in
      let* f2 := r_array of_node c2 c3 in
      Ok {| PgQuery__ExecuteStmt.name := f1;
            PgQuery__ExecuteStmt.params := f2 |}
  | _ => Undef
  end.

Definition to_DeallocateStmt (x : PgQuery__DeallocateStmt.t PgQuery__Node) : list scell :=
  [c_str x.(PgQuery__DeallocateStmt.name)].
Definition of_DeallocateStmt (ms : list scell) : outcome (PgQuery__DeallocateStmt.t PgQuery__Node) :=
  match ms with
  | [c1] =>
      let* f1 := r_str c1 in
      Ok {| PgQuery__DeallocateStmt.name := f1 |}
  | _ => Undef
  end.

Definition to_DropOwnedStmt (x : PgQuery__DropOwnedStmt.t PgQuery__Node) : list scell :=
  [c_count x.(PgQuery__DropOwnedStmt.roles);
   c_array to_node x.(PgQuery__DropOwnedStmt.roles);
   c_int x.(PgQuery__DropOwnedStmt.behavior)].
Definition of_DropOwnedStmt (ms : list scell) : outcome (PgQuery__DropOwnedStmt.t PgQuery__Node) :=
  match ms with
  | [c1; c2; c3] =>
      let* f1 := r_array of_node c1 c2 in
      let* f2 := r_int c3 in
      Ok {| PgQuery__DropOwnedStmt.roles := f1;
            PgQuery__DropOwnedStmt.behavior := f2 |}
  | _ => Undef
  end.

Definition to_ReassignOwnedStmt (x : PgQuery__ReassignOwnedStmt.t PgQuery__Node) : list scell :=
  [c_count x.(PgQuery__ReassignOwnedStmt.roles);
   c_array to_node x.(PgQuery__ReassignOwnedStmt.roles);
   c_ptr (s_msg pg_query__role_spec__descriptor to_RoleSpec) x.(PgQuery__ReassignOwnedStmt.newrole)].
Definition of_ReassignOwnedStmt (ms : list scell) : outcome (PgQuery__ReassignOwnedStmt.t PgQuery__Node) :=
  match ms with
  | [c1; c2; c3] =>
      let* f1 := r_array of_node c1 c2 in
      let* f2 := r_ptr (o_msg pg_query__role_spec__descriptor of_RoleSpec) c3 in
      Ok {| PgQuery__ReassignOwnedStmt.roles := f1;
            PgQuery__ReassignOwnedStmt.newrole := f2 |}
  | _ => Undef
  end.

Definition to_AlterTSDictionaryStmt (x : PgQuery__AlterTSDictionaryStmt.t PgQuery__Node) : list scell :=
  [c_count x.(PgQuery__AlterTSDictionaryStmt.dictname);
   c_array to_node x.(PgQuery__AlterTSDictionaryStmt.dictname);
   c_count x.(PgQuery__AlterTSDictionaryStmt.options);
   c_array to_node x.(PgQuery__AlterTSDictionaryStmt.options)].
Definition of_AlterTSDictionaryStmt (ms : list scell) : outcome (PgQuery__AlterTSDictionaryStmt.t PgQuery__Node) :=
  match ms with
  | [c1; c2; c3; c4] =>
      let* f1 := r_array of_node c1 c2 in
      let* f2 := r_array of_node c3 c4 in
      Ok {| PgQuery__AlterTSDictionaryStmt.dictname := f1;
            PgQuery__AlterTSDictionaryStmt.options := f2 |}
  | _ => Undef
  end.

Definition to_AlterTSConfigurationStmt (x : PgQuery__AlterTSConfigurationStmt.t PgQuery__Node) : list scell :=
  [c_int x.(PgQuery__AlterTSConfigurationStmt.kind);
   c_count x.(PgQuery__AlterTSConfigurationStmt.cfgname);
   c_array to_node x.(PgQuery__AlterTSConfigurationStmt.cfgname);
   c_count x.(PgQuery__AlterTSConfigurationStmt.tokentype);
   c_array to_node x.(PgQuery__AlterTSConfigurationStmt.tokentype);
   c_count x.(PgQuery__AlterTSConfigurationStmt.dicts);
   c_array to_node x.(PgQuery__AlterTSConfigurationStmt.dicts);
   c_bool x.(PgQuery__AlterTSConfigurationStmt.override);
   c_bool x.(PgQuery__AlterTSConfigurationStmt.replace);
   c_bool x.(PgQuery__AlterTSConfigurationStmt.missing_ok)].
Definition of_AlterTSConfigurationStmt (ms : list scell) : outcome (PgQuery__AlterTSConfigurationStmt.t PgQuery__Node) :=
  match ms with
  | [c1; c2; c3; c4; c5; c6; c7; c8; c9; c10] =>
      let* f1 := r_int c1 in
      let* f2 := r_array of_node c2 c3 in
      let* f3 := r_array of_node c4 c5 in
      let* f4 := r_array of_node c6 c7 in
      let* f5 := r_bool c8 in
      let* f6 := r_bool c9 in
      let* f7 := r_bool c10 in
      Ok {| PgQuery__AlterTSConfigurationStmt.kind := f1;
            PgQuery__AlterTSConfigurationStmt.cfgname := f2;
            PgQuery__AlterTSConfigurationStmt.tokentype := f3;
            PgQuery__AlterTSConfigurationStmt.dicts := f4;
            PgQuery__AlterTSConfigurationStmt.override := f5;
            PgQuery__AlterTSConfigurationStmt.replace := f6;
            PgQuery__AlterTSConfigurationStmt.missing_ok := f7 |}
  | _ => Undef
  end.

Definition to_CreatePublicationStmt (x : PgQuery__CreatePublicationStmt.t PgQuery__Node) : list scell :=
  [c_str x.(PgQuery__CreatePublicationStmt.pubname);
   c_count x.(PgQuery__CreatePublicationStmt.options);
   c_array to_node x.(PgQuery__CreatePublicationStmt.options);
   c_count x.(PgQuery__CreatePublicationStmt.tables);
   c_array to_node x.(PgQuery__CreatePublicationStmt.tables);
   c_bool x.(PgQuery__CreatePublicationStmt.for_all_tables)].
Definition of_CreatePublicationStmt (ms : list scell) : outcome (PgQuery__CreatePublicationStmt.t PgQuery__Node) :=
  match ms with
  | [c1; c2; c3; c4; c5; c6] =>
      let* f1 := r_str c1 in
      let* f2 := r_array of_node c2 c3 in
      let* f3 := r_array of_node c4 c5 in
      let* f4 := r_bool c6 in
      Ok {| PgQuery__CreatePublicationStmt.pubname := f1;
            PgQuery__CreatePublicationStmt.options := f2;
            PgQuery__CreatePublicationStmt.tables := f3;
            PgQuery__CreatePublicationStmt.for_all_tables := f4 |}
  | _ => Undef
  end.

Definition to_AlterPublicationStmt (x : PgQuery__AlterPublicationStmt.t PgQuery__Node) : list scell :=
  [c_str x.(PgQuery__AlterPublicationStmt.pubname);
   c_count x.(PgQuery__AlterPublicationStmt.options);
   c_array to_node x.(PgQuery__AlterPublicationStmt.options);
   c_count x.(PgQuery__AlterPublicationStmt.tables);
   c_array to_node x.(PgQuery__AlterPublicationStmt.tables);
   c_bool x.(PgQuery__AlterPublicationStmt.for_all_tables);
   c_int x.(PgQuery__AlterPublicationStmt.table_action)].
Definition of_AlterPublicationStmt (ms : list scell) : outcome (PgQuery__AlterPublicationStmt.t PgQuery__Node) :=
  match ms with
  | [c1; c2; c3; c4; c5; c6; c7] =>
      let* f1 := r_str c1 in
      let* f2 := r_array of_node c2 c3 in
      let* f3 := r_array of_node c4 c5 in
      let* f4 := r_bool c6 in
      let* f5 := r_int c7 in
      Ok {| PgQuery__AlterPublicationStmt.pubname := f1;
            PgQuery__AlterPublicationStmt.options := f2;
            PgQuery__AlterPublicationStmt.tables := f3;
            PgQuery__AlterPublicationStmt.for_all_tables := f4;
            PgQuery__AlterPublicationStmt.table_action := f5 |}
  | _ => Undef
  end.

Definition to_CreateSubscriptionStmt (x : PgQuery__CreateSubscriptionStmt.t PgQuery__Node) : list scell :=
  [c_str x.(PgQuery__CreateSubscriptionStmt.subname);
   c_str x.(PgQuery__CreateSubscriptionStmt.conninfo);
   c_count x.(PgQuery__CreateSubscriptionStmt.publication);
   c_array to_node x.(PgQuery__CreateSubscriptionStmt.publication);
   c_count x.(PgQuery__CreateSubscriptionStmt.options);
   c_array to_node x.(PgQuery__CreateSubscriptionStmt.options)].
Definition of_CreateSubscriptionStmt (ms : list scell) : outcome (PgQuery__CreateSubscriptionStmt.t PgQuery__Node) :=
  match ms with
  | [c1; c2; c3; c4; c5; c6] =>
      let* f1 := r_str c1 in
      let* f2 := r_str c2 in
      let* f3 := r_array of_node c3 c4 in
      let* f4 := r_array of_node c5 c6 in
      Ok {| PgQuery__CreateSubscriptionStmt.subname := f1;
            PgQuery__CreateSubscriptionStmt.conninfo := f2;
            PgQuery__CreateSubscriptionStmt.publication := f3;
            PgQuery__CreateSubscriptionStmt.options := f4 |}
  | _ => Undef
  end.

Definition to_AlterSubscriptionStmt (x : PgQuery__AlterSubscriptionStmt.t PgQuery__Node) : list scell :=
  [c_int x.(PgQuery__AlterSubscriptionStmt.kind);
   c_str x.(PgQuery__AlterSubscriptionStmt.subname);
   c_str x.(PgQuery__AlterSubscriptionStmt.conninfo);
   c_count x.(PgQuery__AlterSubscriptionStmt.publication);
   c_array to_node x.(PgQuery__AlterSubscriptionStmt.publication);
   c_count x.(PgQuery__AlterSubscriptionStmt.options);
   c_array to_node x.(PgQuery__AlterSubscriptionStmt.options)].
Definition of_AlterSubscriptionStmt (ms : list scell) : outcome (PgQuery__AlterSubscriptionStmt.t PgQuery__Node) :=
  match ms with
  | [c1; c2; c3; c4; c5; c6; c7] =>
      let* f1 := r_int c1 in
      let* f2 := r_str c2 in
      let* f3 := r_str c3 in
      let* f4 := r_array of_node c4 c5 in
      let* f5 := r_array of_node c6 c7 in
      Ok {| PgQuery__AlterSubscriptionStmt.kind := f1;
            PgQuery__AlterSubscriptionStmt.subname := f2;
            PgQuery__AlterSubscriptionStmt.conninfo := f3;
            PgQuery__AlterSubscriptionStmt.publication := f4;
            PgQuery__AlterSubscriptionStmt.options := f5 |}
  | _ => Undef
  end.

Definition to_DropSubscriptionStmt (x : PgQuery__DropSubscriptionStmt.t PgQuery__Node) : list scell :=
  [c_str x.(PgQuery__DropSubscriptionStmt.subname);
   c_bool x.(PgQuery__DropSubscriptionStmt.missing_ok);
   c_int x.(PgQuery__DropSubscriptionStmt.behavior)].
Definition of_DropSubscriptionStmt (ms : list scell) : outcome (PgQuery__DropSubscriptionStmt.t PgQuery__Node) :=
  match ms with
  | [c1; c2; c3] =>
      let* f1 := r_str c1 in
      let* f2 := r_bool c2 in
      let* f3 := r_int c3 in
      Ok {| PgQuery__DropSubscriptionStmt.subname := f1;
            PgQuery__DropSubscriptionStmt.missing_ok := f2;
            PgQuery__DropSubscriptionStmt.behavior := f3 |}
  | _ => Undef
  end.

Definition to_ParseResult (x : PgQuery__ParseResult.t) : list scell :=
  [c_int x.(PgQuery__ParseResult.version);
   c_count x.(PgQuery__ParseResult.stmts);
   c_array (s_msg pg_query__raw_stmt__descriptor to_RawStmt) x.(PgQuery__ParseResult.stmts)].
Definition of_ParseResult (ms : list scell) : outcome (PgQuery__ParseResult.t) :=
  match ms with
  | [c1; c2; c3] =>
      let* f1 := r_int c1 in
      let* f2 := r_array (o_msg pg_query__raw_stmt__descriptor of_RawStmt) c2 c3 in
      Ok {| PgQuery__ParseResult.version := f1;
            PgQuery__ParseResult.stmts := f2 |}
  | _ => Undef
  end.

(** ** The union *)

Definition s_node (node_case : Z) (m : option struct) : struct :=
  Message pg_query__node__descriptor
    [Int node_case; match m with Some m => Msg (Some m) | None => Zeroed end] [].

Definition to_union (n : PgQuery__Node) : struct :=
  match n with
  | Node_not_set => s_node 0 None
  | Node_range_var m => s_node 2 (Some (s_msg pg_query__range_var__descriptor (to_RangeVar) m))
  | Node_alias m => s_node 1 (Some (s_msg pg_query__alias__descriptor (to_Alias) m))
  | Node_type_name m => s_node 187 (Some (s_msg pg_query__type_name__descriptor (to_TypeName) m))
  | Node_column_ref m => s_node 168 (Some (s_msg pg_query__column_ref__descriptor (to_ColumnRef) m))
  | Node_param_ref m => s_node 169 (Some (s_msg pg_query__param_ref__descriptor (to_ParamRef) m))
  | Node_a_expr m => s_node 167 (Some (s_msg pg_query__a__expr__descriptor (to_AExpr) m))
  | Node_a_const m => s_node 170 (Some (s_msg pg_query__a__const__descriptor (to_AConst) m))
  | Node_type_cast m => s_node 178 (Some (s_msg pg_query__type_cast__descriptor (to_TypeCast) m))
  | Node_collate_clause m => s_node 179 (Some (s_msg pg_query__collate_clause__descriptor (to_CollateClause) m))
  | Node_role_spec m => s_node 211 (Some (s_msg pg_query__role_spec__descriptor (to_RoleSpec) m))
  | Node_window_def m => s_node 181 (Some (s_msg pg_query__window_def__descriptor (to_WindowDef) m))
  | Node_sort_by m => s_node 180 (Some (s_msg pg_query__sort_by__descriptor (to_SortBy) m))
  | Node_func_call m => s_node 171 (Some (s_msg pg_query__func_call__descriptor (to_FuncCall) m))
  | Node_a_star m => s_node 172 (Some (s_msg pg_query__a__star__descriptor (to_AStar) m))
  | Node_a_indices m => s_node 173 (Some (s_msg pg_query__a__indices__descriptor (to_AIndices) m))
  | Node_a_indirection m => s_node 174 (Some (s_msg pg_query__a__indirection__descriptor (to_AIndirection) m))
  | Node_a_array_expr m => s_node 175 (Some (s_msg pg_query__a__array_expr__descriptor (to_AArrayExpr) m))
  | Node_res_target m => s_node 176 (Some (s_msg pg_query__res_target__descriptor (to_ResTarget) m))
  | Node_multi_assign_ref m => s_node 177 (Some (s_msg pg_query__multi_assign_ref__descriptor (to_MultiAssignRef) m))
  | Node_named_arg_expr m => s_node 12 (Some (s_msg pg_query__named_arg_expr__descriptor (to_NamedArgExpr) m))
  | Node_bool_expr m => s_node 17 (Some (s_msg pg_query__bool_expr__descriptor (to_BoolExpr) m))
  | Node_sub_link m => s_node 18 (Some (s_msg pg_query__sub_link__descriptor (to_SubLink) m))
  | Node_case_when m => s_node 29 (Some (s_msg pg_query__case_when__descriptor (to_CaseWhen) m))
  | Node_case_expr m => s_node 28 (Some (s_msg pg_query__case_expr__descriptor (to_CaseExpr) m))
  | Node_row_expr m => s_node 32 (Some (s_msg pg_query__row_expr__descriptor (to_RowExpr) m))
  | Node_coalesce_expr m => s_node 34 (Some (s_msg pg_query__coalesce_expr__descriptor (to_CoalesceExpr) m))
  | Node_min_max_expr m => s_node 35 (Some (s_msg pg_query__min_max_expr__descriptor (to_MinMaxExpr) m))
  | Node_sqlvalue_function m => s_node 36 (Some (s_msg pg_query__sqlvalue_function__descriptor (to_SQLValueFunction) m))
  | Node_xml_expr m => s_node 37 (Some (s_msg pg_query__xml_expr__descriptor (to_XmlExpr) m))
  | Node_xml_serialize m => s_node 206 (Some (s_msg pg_query__xml_serialize__descriptor (to_XmlSerialize) m))
  | Node_null_test m => s_node 38 (Some (s_msg pg_query__null_test__descriptor (to_NullTest) m))
  | Node_boolean_test m => s_node 39 (Some (s_msg pg_query__boolean_test__descriptor (to_BooleanTest) m))
  | Node_set_to_default m => s_node 42 (Some (s_msg pg_query__set_to_default__descriptor (to_SetToDefault) m))
  | Node_current_of_expr m => s_node 43 (Some (s_msg pg_query__current_of_expr__descriptor (to_CurrentOfExpr) m))
  | Node_grouping_func m => s_node 8 (Some (s_msg pg_query__grouping_func__descriptor (to_GroupingFunc) m))
  | Node_def_elem m => s_node 191 (Some (s_msg pg_query__def_elem__descriptor (to_DefElem) m))
  | Node_index_elem m => s_node 189 (Some (s_msg pg_query__index_elem__descriptor (to_IndexElem) m))
  | Node_constraint m => s_node 190 (Some (s_msg pg_query__constraint__descriptor (to_Constraint) m))
  | Node_column_def m => s_node 188 (Some (s_msg pg_query__column_def__descriptor (to_ColumnDef) m))
  | Node_join_expr m => s_node 48 (Some (s_msg pg_query__join_expr__descriptor (to_JoinExpr) m))
  | Node_range_subselect m => s_node 182 (Some (s_msg pg_query__range_subselect__descriptor (to_RangeSubselect) m))
  | Node_range_function m => s_node 183 (Some (s_msg pg_query__range_function__descriptor (to_RangeFunction) m))
  | Node_range_table_func_col m => s_node 186 (Some (s_msg pg_query__range_table_func_col__descriptor (to_RangeTableFuncCol) m))
  | Node_range_table_func m => s_node 185 (Some (s_msg pg_query__range_table_func__descriptor (to_RangeTableFunc) m))
  | Node_range_table_sample m => s_node 184 (Some (s_msg pg_query__range_table_sample__descriptor (to_RangeTableSample) m))
  | Node_common_table_expr m => s_node 210 (Some (s_msg pg_query__common_table_expr__descriptor (to_CommonTableExpr) m))
  | Node_with_clause m => s_node 207 (Some (s_msg pg_query__with_clause__descriptor (to_WithClause) m))
  | Node_infer_clause m => s_node 208 (Some (s_msg pg_query__infer_clause__descriptor (to_InferClause) m))
  | Node_on_conflict_clause m => s_node 209 (Some (s_msg pg_query__on_conflict_clause__descriptor (to_OnConflictClause) m))
  | Node_locking_clause m => s_node 204 (Some (s_msg pg_query__locking_clause__descriptor (to_LockingClause) m))
  | Node_grouping_set m => s_node 197 (Some (s_msg pg_query__grouping_set__descriptor (to_GroupingSet) m))
  | Node_into_clause m => s_node 51 (Some (s_msg pg_query__into_clause__descriptor (to_IntoClause) m))
  | Node_select_stmt m => s_node 57 (Some (s_msg pg_query__select_stmt__descriptor (to_SelectStmt) m))
  | Node_insert_stmt m => s_node 54 (Some (s_msg pg_query__insert_stmt__descriptor (to_InsertStmt) m))
  | Node_update_stmt m => s_node 56 (Some (s_msg pg_query__update_stmt__descriptor (to_UpdateStmt) m))
  | Node_delete_stmt m => s_node 55 (Some (s_msg pg_query__delete_stmt__descriptor (to_DeleteStmt) m))
  | Node_raw_stmt m => s_node 52 (Some (s_msg pg_query__raw_stmt__descriptor (to_RawStmt) m))
  | Node_alter_table_cmd m => s_node 59 (Some (s_msg pg_query__alter_table_cmd__descriptor (to_AlterTableCmd) m))
  | Node_partition_bound_spec m => s_node 215 (Some (s_msg pg_query__partition_bound_spec__descriptor (to_PartitionBoundSpec) m))
  | Node_table_like_clause m => s_node 202 (Some (s_msg pg_query__table_like_clause__descriptor (to_TableLikeClause) m))
  | Node_partition_elem m => s_node 213 (Some (s_msg pg_query__partition_elem__descriptor (to_PartitionElem) m))
  | Node_partition_spec m => s_node 214 (Some (s_msg pg_query__partition_spec__descriptor (to_PartitionSpec) m))
  | Node_partition_cmd m => s_node 217 (Some (s_msg pg_query__partition_cmd__descriptor (to_PartitionCmd) m))
  | Node_trigger_transition m => s_node 212 (Some (s_msg pg_query__trigger_transition__descriptor (to_TriggerTransition) m))
  | Node_create_schema_stmt m => s_node 106 (Some (s_msg pg_query__create_schema_stmt__descriptor (to_CreateSchemaStmt) m))
  | Node_alter_table_stmt m => s_node 58 (Some (s_msg pg_query__alter_table_stmt__descriptor (to_AlterTableStmt) m))
  | Node_replica_identity_stmt m => s_node 152 (Some (s_msg pg_query__replica_identity_stmt__descriptor (to_ReplicaIdentityStmt) m))
  | Node_alter_collation_stmt m => s_node 164 (Some (s_msg pg_query__alter_collation_stmt__descriptor (to_AlterCollationStmt) m))
  | Node_alter_domain_stmt m => s_node 60 (Some (s_msg pg_query__alter_domain_stmt__descriptor (to_AlterDomainStmt) m))
  | Node_grant_stmt m => s_node 62 (Some (s_msg pg_query__grant_stmt__descriptor (to_GrantStmt) m))
  | Node_object_with_args m => s_node 199 (Some (s_msg pg_query__object_with_args__descriptor (to_ObjectWithArgs) m))
  | Node_access_priv m => s_node 200 (Some (s_msg pg_query__access_priv__descriptor (to_AccessPriv) m))
  | Node_grant_role_stmt m => s_node 63 (Some (s_msg pg_query__grant_role_stmt__descriptor (to_GrantRoleStmt) m))
  | Node_alter_default_privileges_stmt m => s_node 64 (Some (s_msg pg_query__alter_default_privileges_stmt__descriptor (to_AlterDefaultPrivilegesStmt) m))
  | Node_copy_stmt m => s_node 67 (Some (s_msg pg_query__copy_stmt__descriptor (to_CopyStmt) m))
  | Node_variable_set_stmt m => s_node 94 (Some (s_msg pg_query__variable_set_stmt__descriptor (to_VariableSetStmt) m))
  | Node_variable_show_stmt m => s_node 95 (Some (s_msg pg_query__variable_show_stmt__descriptor (to_VariableShowStmt) m))
  | Node_create_stmt m => s_node 68 (Some (s_msg pg_query__create_stmt__descriptor (to_CreateStmt) m))
  | Node_create_table_space_stmt m => s_node 119 (Some (s_msg pg_query__create_table_space_stmt__descriptor (to_CreateTableSpaceStmt) m))
  | Node_drop_table_space_stmt m => s_node 120 (Some (s_msg pg_query__drop_table_space_stmt__descriptor (to_DropTableSpaceStmt) m))
  | Node_alter_table_space_options_stmt m => s_node 141 (Some (s_msg pg_query__alter_table_space_options_stmt__descriptor (to_AlterTableSpaceOptionsStmt) m))
  | Node_alter_table_move_all_stmt m => s_node 142 (Some (s_msg pg_query__alter_table_move_all_stmt__descriptor (to_AlterTableMoveAllStmt) m))
  | Node_create_extension_stmt m => s_node 146 (Some (s_msg pg_query__create_extension_stmt__descriptor (to_CreateExtensionStmt) m))
  | Node_alter_extension_stmt m => s_node 147 (Some (s_msg pg_query__alter_extension_stmt__descriptor (to_AlterExtensionStmt) m))
  | Node_alter_extension_contents_stmt m => s_node 148 (Some (s_msg pg_query__alter_extension_contents_stmt__descriptor (to_AlterExtensionContentsStmt) m))
  | Node_create_fdw_stmt m => s_node 134 (Some (s_msg pg_query__create_fdw_stmt__descriptor (to_CreateFdwStmt) m))
  | Node_alter_fdw_stmt m => s_node 135 (Some (s_msg pg_query__alter_fdw_stmt__descriptor (to_AlterFdwStmt) m))
  | Node_create_foreign_server_stmt m => s_node 136 (Some (s_msg pg_query__create_foreign_server_stmt__descriptor (to_CreateForeignServerStmt) m))
  | Node_alter_foreign_server_stmt m => s_node 137 (Some (s_msg pg_query__alter_foreign_server_stmt__descriptor (to_AlterForeignServerStmt) m))
  | Node_create_foreign_table_stmt m => s_node 144 (Some (s_msg pg_query__create_foreign_table_stmt__descriptor (to_CreateForeignTableStmt) m))
  | Node_create_user_mapping_stmt m => s_node 138 (Some (s_msg pg_query__create_user_mapping_stmt__descriptor (to_CreateUserMappingStmt) m))
  | Node_alter_user_mapping_stmt m => s_node 139 (Some (s_msg pg_query__alter_user_mapping_stmt__descriptor (to_AlterUserMappingStmt) m))
  | Node_drop_user_mapping_stmt m => s_node 140 (Some (s_msg pg_query__drop_user_mapping_stmt__descriptor (to_DropUserMappingStmt) m))
  | Node_import_foreign_schema_stmt m => s_node 145 (Some (s_msg pg_query__import_foreign_schema_stmt__descriptor (to_ImportForeignSchemaStmt) m))
  | Node_create_policy_stmt m => s_node 154 (Some (s_msg pg_query__create_policy_stmt__descriptor (to_CreatePolicyStmt) m))
  | Node_alter_policy_stmt m => s_node 155 (Some (s_msg pg_query__alter_policy_stmt__descriptor (to_AlterPolicyStmt) m))
  | Node_create_am_stmt m => s_node 157 (Some (s_msg pg_query__create_am_stmt__descriptor (to_CreateAmStmt) m))
  | Node_create_trig_stmt m => s_node 97 (Some (s_msg pg_query__create_trig_stmt__descriptor (to_CreateTrigStmt) m))
  | Node_create_event_trig_stmt m => s_node 149 (Some (s_msg pg_query__create_event_trig_stmt__descriptor (to_CreateEventTrigStmt) m))
  | Node_alter_event_trig_stmt m => s_node 150 (Some (s_msg pg_query__alter_event_trig_stmt__descriptor (to_AlterEventTrigStmt) m))
  | Node_create_plang_stmt m => s_node 98 (Some (s_msg pg_query__create_plang_stmt__descriptor (to_CreatePLangStmt) m))
  | Node_create_role_stmt m => s_node 99 (Some (s_msg pg_query__create_role_stmt__descriptor (to_CreateRoleStmt) m))
  | Node_alter_role_stmt m => s_node 100 (Some (s_msg pg_query__alter_role_stmt__descriptor (to_AlterRoleStmt) m))
  | Node_alter_role_set_stmt m => s_node 109 (Some (s_msg pg_query__alter_role_set_stmt__descriptor (to_AlterRoleSetStmt) m))
  | Node_drop_role_stmt m => s_node 101 (Some (s_msg pg_query__drop_role_stmt__descriptor (to_DropRoleStmt) m))
  | Node_create_seq_stmt m => s_node 92 (Some (s_msg pg_query__create_seq_stmt__descriptor (to_CreateSeqStmt) m))
  | Node_alter_seq_stmt m => s_node 93 (Some (s_msg pg_query__alter_seq_stmt__descriptor (to_AlterSeqStmt) m))
  | Node_define_stmt m => s_node 69 (Some (s_msg pg_query__define_stmt__descriptor (to_DefineStmt) m))
  | Node_create_domain_stmt m => s_node 86 (Some (s_msg pg_query__create_domain_stmt__descriptor (to_CreateDomainStmt) m))
  | Node_create_op_class_stmt m => s_node 112 (Some (s_msg pg_query__create_op_class_stmt__descriptor (to_CreateOpClassStmt) m))
  | Node_create_op_class_item m => s_node 201 (Some (s_msg pg_query__create_op_class_item__descriptor (to_CreateOpClassItem) m))
  | Node_create_op_family_stmt m => s_node 113 (Some (s_msg pg_query__create_op_family_stmt__descriptor (to_CreateOpFamilyStmt) m))
  | Node_alter_op_family_stmt m => s_node 114 (Some (s_msg pg_query__alter_op_family_stmt__descriptor (to_AlterOpFamilyStmt) m))
  | Node_drop_stmt m => s_node 70 (Some (s_msg pg_query__drop_stmt__descriptor (to_DropStmt) m))
  | Node_truncate_stmt m => s_node 71 (Some (s_msg pg_query__truncate_stmt__descriptor (to_TruncateStmt) m))
  | Node_comment_stmt m => s_node 72 (Some (s_msg pg_query__comment_stmt__descriptor (to_CommentStmt) m))
  | Node_sec_label_stmt m => s_node 143 (Some (s_msg pg_query__sec_label_stmt__descriptor (to_SecLabelStmt) m))
  | Node_declare_cursor_stmt m => s_node 118 (Some (s_msg pg_query__declare_cursor_stmt__descriptor (to_DeclareCursorStmt) m))
  | Node_close_portal_stmt m => s_node 65 (Some (s_msg pg_query__close_portal_stmt__descriptor (to_ClosePortalStmt) m))
  | Node_fetch_stmt m => s_node 73 (Some (s_msg pg_query__fetch_stmt__descriptor (to_FetchStmt) m))
  | Node_index_stmt m => s_node 74 (Some (s_msg pg_query__index_stmt__descriptor (to_IndexStmt) m))
  | Node_create_stats_stmt m => s_node 163 (Some (s_msg pg_query__create_stats_stmt__descriptor (to_CreateStatsStmt) m))
  | Node_alter_stats_stmt m => s_node 166 (Some (s_msg pg_query__alter_stats_stmt__descriptor (to_AlterStatsStmt) m))
  | Node_create_function_stmt m => s_node 75 (Some (s_msg pg_query__create_function_stmt__descriptor (to_CreateFunctionStmt) m))
  | Node_function_parameter m => s_node 203 (Some (s_msg pg_query__function_parameter__descriptor (to_FunctionParameter) m))
  | Node_alter_function_stmt m => s_node 76 (Some (s_msg pg_query__alter_function_stmt__descriptor (to_AlterFunctionStmt) m))
  | Node_do_stmt m => s_node 77 (Some (s_msg pg_query__do_stmt__descriptor (to_DoStmt) m))
  | Node_call_stmt m => s_node 165 (Some (s_msg pg_query__call_stmt__descriptor (to_CallStmt) m))
  | Node_rename_stmt m => s_node 78 (Some (s_msg pg_query__rename_stmt__descriptor (to_RenameStmt) m))
  | Node_alter_object_depends_stmt m => s_node 121 (Some (s_msg pg_query__alter_object_depends_stmt__descriptor (to_AlterObjectDependsStmt) m))
  | Node_alter_object_schema_stmt m => s_node 122 (Some (s_msg pg_query__alter_object_schema_stmt__descriptor (to_AlterObjectSchemaStmt) m))
  | Node_alter_owner_stmt m => s_node 123 (Some (s_msg pg_query__alter_owner_stmt__descriptor (to_AlterOwnerStmt) m))
  | Node_alter_operator_stmt m => s_node 124 (Some (s_msg pg_query__alter_operator_stmt__descriptor (to_AlterOperatorStmt) m))
  | Node_alter_type_stmt m => s_node 125 (Some (s_msg pg_query__alter_type_stmt__descriptor (to_AlterTypeStmt) m))
  | Node_rule_stmt m => s_node 79 (Some (s_msg pg_query__rule_stmt__descriptor (to_RuleStmt) m))
  | Node_notify_stmt m => s_node 80 (Some (s_msg pg_query__notify_stmt__descriptor (to_NotifyStmt) m))
  | Node_listen_stmt m => s_node 81 (Some (s_msg pg_query__listen_stmt__descriptor (to_ListenStmt) m))
  | Node_unlisten_stmt m => s_node 82 (Some (s_msg pg_query__unlisten_stmt__descriptor (to_UnlistenStmt) m))
  | Node_transaction_stmt m => s_node 83 (Some (s_msg pg_query__transaction_stmt__descriptor (to_TransactionStmt) m))
  | Node_composite_type_stmt m => s_node 128 (Some (s_msg pg_query__composite_type_stmt__descriptor (to_CompositeTypeStmt) m))
  | Node_create_enum_stmt m => s_node 129 (Some (s_msg pg_query__create_enum_stmt__descriptor (to_CreateEnumStmt) m))
  | Node_create_range_stmt m => s_node 130 (Some (s_msg pg_query__create_range_stmt__descriptor (to_CreateRangeStmt) m))
  | Node_alter_enum_stmt m => s_node 131 (Some (s_msg pg_query__alter_enum_stmt__descriptor (to_AlterEnumStmt) m))
  | Node_view_stmt m => s_node 84 (Some (s_msg pg_query__view_stmt__descriptor (to_ViewStmt) m))
  | Node_load_stmt m => s_node 85 (Some (s_msg pg_query__load_stmt__descriptor (to_LoadStmt) m))
  | Node_createdb_stmt m => s_node 87 (Some (s_msg pg_query__createdb_stmt__descriptor (to_CreatedbStmt) m))
  | Node_alter_database_stmt m => s_node 107 (Some (s_msg pg_query__alter_database_stmt__descriptor (to_AlterDatabaseStmt) m))
  | Node_alter_database_set_stmt m => s_node 108 (Some (s_msg pg_query__alter_database_set_stmt__descriptor (to_AlterDatabaseSetStmt) m))
  | Node_dropdb_stmt m => s_node 88 (Some (s_msg pg_query__dropdb_stmt__descriptor (to_DropdbStmt) m))
  | Node_alter_system_stmt m => s_node 153 (Some (s_msg pg_query__alter_system_stmt__descriptor (to_AlterSystemStmt) m))
  | Node_cluster_stmt m => s_node 66 (Some (s_msg pg_query__cluster_stmt__descriptor (to_ClusterStmt) m))
  | Node_vacuum_stmt m => s_node 89 (Some (s_msg pg_query__vacuum_stmt__descriptor (to_VacuumStmt) m))
  | Node_vacuum_relation m => s_node 218 (Some (s_msg pg_query__vacuum_relation__descriptor (to_VacuumRelation) m))
  | Node_explain_stmt m => s_node 90 (Some (s_msg pg_query__explain_stmt__descriptor (to_ExplainStmt) m))
  | Node_create_table_as_stmt m => s_node 91 (Some (s_msg pg_query__create_table_as_stmt__descriptor (to_CreateTableAsStmt) m))
  | Node_refresh_mat_view_stmt m => s_node 151 (Some (s_msg pg_query__refresh_mat_view_stmt__descriptor (to_RefreshMatViewStmt) m))
  | Node_check_point_stmt m => s_node 105 (Some (s_msg pg_query__check_point_stmt__descriptor (to_CheckPointStmt) m))
  | Node_discard_stmt m => s_node 96 (Some (s_msg pg_query__discard_stmt__descriptor (to_DiscardStmt) m))
  | Node_lock_stmt m => s_node 102 (Some (s_msg pg_query__lock_stmt__descriptor (to_LockStmt) m))
  | Node_constraints_set_stmt m => s_node 103 (Some (s_msg pg_query__constraints_set_stmt__descriptor (to_ConstraintsSetStmt) m))
  | Node_reindex_stmt m => s_node 104 (Some (s_msg pg_query__reindex_stmt__descriptor (to_ReindexStmt) m))
  | Node_create_conversion_stmt m => s_node 110 (Some (s_msg pg_query__create_conversion_stmt__descriptor (to_CreateConversionStmt) m))
  | Node_create_cast_stmt m => s_node 111 (Some (s_msg pg_query__create_cast_stmt__descriptor (to_CreateCastStmt) m))
  | Node_create_transform_stmt m => s_node 156 (Some (s_msg pg_query__create_transform_stmt__descriptor (to_CreateTransformStmt) m))
  | Node_prepare_stmt m => s_node 115 (Some (s_msg pg_query__prepare_stmt__descriptor (to_PrepareStmt) m))
  | Node_execute_stmt m => s_node 116 (Some (s_msg pg_query__execute_stmt__descriptor (to_ExecuteStmt) m))
  | Node_deallocate_stmt m => s_node 117 (Some (s_msg pg_query__deallocate_stmt__descriptor (to_DeallocateStmt) m))
  | Node_drop_owned_stmt m => s_node 126 (Some (s_msg pg_query__drop_owned_stmt__descriptor (to_DropOwnedStmt) m))
  | Node_reassign_owned_stmt m => s_node 127 (Some (s_msg pg_query__reassign_owned_stmt__descriptor (to_ReassignOwnedStmt) m))
  | Node_alter_tsdictionary_stmt m => s_node 132 (Some (s_msg pg_query__alter_tsdictionary_stmt__descriptor (to_AlterTSDictionaryStmt) m))
  | Node_alter_tsconfiguration_stmt m => s_node 133 (Some (s_msg pg_query__alter_tsconfiguration_stmt__descriptor (to_AlterTSConfigurationStmt) m))
  | Node_create_publication_stmt m => s_node 158 (Some (s_msg pg_query__create_publication_stmt__descriptor (to_CreatePublicationStmt) m))
  | Node_alter_publication_stmt m => s_node 159 (Some (s_msg pg_query__alter_publication_stmt__descriptor (to_AlterPublicationStmt) m))
  | Node_create_subscription_stmt m => s_node 160 (Some (s_msg pg_query__create_subscription_stmt__descriptor (to_CreateSubscriptionStmt) m))
  | Node_alter_subscription_stmt m => s_node 161 (Some (s_msg pg_query__alter_subscription_stmt__descriptor (to_AlterSubscriptionStmt) m))
  | Node_drop_subscription_stmt m => s_node 162 (Some (s_msg pg_query__drop_subscription_stmt__descriptor (to_DropSubscriptionStmt) m))
  | Node_func_expr m => s_node 11 (Some (s_msg pg_query__func_expr__descriptor (to_FuncExpr) m))
  | Node_integer ival => s_node 221 (Some (Message pg_query__integer__descriptor [c_int ival] []))
  | Node_float str => s_node 222 (Some (Message pg_query__float__descriptor [c_str str] []))
  | Node_string str => s_node 223 (Some (Message pg_query__string__descriptor [c_str str] []))
  | Node_bit_string str => s_node 224 (Some (Message pg_query__bit_string__descriptor [c_str str] []))
  | Node_null => s_node 225 (Some (Message pg_query__null__descriptor [] []))
  | Node_list items => s_node 226 (Some (Message pg_query__list__descriptor [c_count items; c_array to_node items] []))
  | Node_int_list items => s_node 227 (Some (Message pg_query__int_list__descriptor [c_count items; c_array to_node items] []))
  | Node_oid_list items => s_node 228 (Some (Message pg_query__oid_list__descriptor [c_count items; c_array to_node items] []))
  | Node_other node_case => Message pg_query__node__descriptor [Int node_case; Msg None] []
  end.

(** The member of the union that a case names; the struct must be of its type. *)
Definition of_union (of_select : struct -> outcome PgQuery__Node) (node_case : Z) (d : Descriptor) (ms : list scell) : outcome PgQuery__Node :=
  let at_case {A} (k : Z) (r : outcome A) (node : A -> PgQuery__Node) : outcome PgQuery__Node :=
    if node_case =? k then let* x := r in Ok (node x) else Undef in
  match d with
  | pg_query__range_var__descriptor => at_case 2 (of_RangeVar ms) Node_range_var
  | pg_query__alias__descriptor => at_case 1 (of_Alias ms) Node_alias
  | pg_query__type_name__descriptor => at_case 187 (of_TypeName ms) Node_type_name
  | pg_query__column_ref__descriptor => at_case 168 (of_ColumnRef ms) Node_column_ref
  | pg_query__param_ref__descriptor => at_case 169 (of_ParamRef ms) Node_param_ref
  | pg_query__a__expr__descriptor => at_case 167 (of_AExpr ms) Node_a_expr
  | pg_query__a__const__descriptor => at_case 170 (of_AConst ms) Node_a_const
  | pg_query__type_cast__descriptor => at_case 178 (of_TypeCast ms) Node_type_cast
  | pg_query__collate_clause__descriptor => at_case 179 (of_CollateClause ms) Node_collate_clause
  | pg_query__role_spec__descriptor => at_case 211 (of_RoleSpec ms) Node_role_spec
  | pg_query__window_def__descriptor => at_case 181 (of_WindowDef ms) Node_window_def
  | pg_query__sort_by__descriptor => at_case 180 (of_SortBy ms) Node_sort_by
  | pg_query__func_call__descriptor => at_case 171 (of_FuncCall ms) Node_func_call
  | pg_query__a__star__descriptor => at_case 172 (of_AStar ms) Node_a_star
  | pg_query__a__indices__descriptor => at_case 173 (of_AIndices ms) Node_a_indices
  | pg_query__a__indirection__descriptor => at_case 174 (of_AIndirection ms) Node_a_indirection
  | pg_query__a__array_expr__descriptor => at_case 175 (of_AArrayExpr ms) Node_a_array_expr
  | pg_query__res_target__descriptor => at_case 176 (of_ResTarget ms) Node_res_target
  | pg_query__multi_assign_ref__descriptor => at_case 177 (of_MultiAssignRef ms) Node_multi_assign_ref
  | pg_query__named_arg_expr__descriptor => at_case 12 (of_NamedArgExpr ms) Node_named_arg_expr
  | pg_query__bool_expr__descriptor => at_case 17 (of_BoolExpr ms) Node_bool_expr
  | pg_query__sub_link__descriptor => at_case 18 (of_SubLink ms) Node_sub_link
  | pg_query__case_when__descriptor => at_case 29 (of_CaseWhen ms) Node_case_when
  | pg_query__case_expr__descriptor => at_case 28 (of_CaseExpr ms) Node_case_expr
  | pg_query__row_expr__descriptor => at_case 32 (of_RowExpr ms) Node_row_expr
  | pg_query__coalesce_expr__descriptor => at_case 34 (of_CoalesceExpr ms) Node_coalesce_expr
  | pg_query__min_max_expr__descriptor => at_case 35 (of_MinMaxExpr ms) Node_min_max_expr
  | pg_query__sqlvalue_function__descriptor => at_case 36 (of_SQLValueFunction ms) Node_sqlvalue_function
  | pg_query__xml_expr__descriptor => at_case 37 (of_XmlExpr ms) Node_xml_expr
  | pg_query__xml_serialize__descriptor => at_case 206 (of_XmlSerialize ms) Node_xml_serialize
  | pg_query__null_test__descriptor => at_case 38 (of_NullTest ms) Node_null_test
  | pg_query__boolean_test__descriptor => at_case 39 (of_BooleanTest ms) Node_boolean_test
  | pg_query__set_to_default__descriptor => at_case 42 (of_SetToDefault ms) Node_set_to_default
  | pg_query__current_of_expr__descriptor => at_case 43 (of_CurrentOfExpr ms) Node_current_of_expr
  | pg_query__grouping_func__descriptor => at_case 8 (of_GroupingFunc ms) Node_grouping_func
  | pg_query__def_elem__descriptor => at_case 191 (of_DefElem ms) Node_def_elem
  | pg_query__index_elem__descriptor => at_case 189 (of_IndexElem ms) Node_index_elem
  | pg_query__constraint__descriptor => at_case 190 (of_Constraint ms) Node_constraint
  | pg_query__column_def__descriptor => at_case 188 (of_ColumnDef ms) Node_column_def
  | pg_query__join_expr__descriptor => at_case 48 (of_JoinExpr ms) Node_join_expr
  | pg_query__range_subselect__descriptor => at_case 182 (of_RangeSubselect ms) Node_range_subselect
  | pg_query__range_function__descriptor => at_case 183 (of_RangeFunction ms) Node_range_function
  | pg_query__range_table_func_col__descriptor => at_case 186 (of_RangeTableFuncCol ms) Node_range_table_func_col
  | pg_query__range_table_func__descriptor => at_case 185 (of_RangeTableFunc ms) Node_range_table_func
  | pg_query__range_table_sample__descriptor => at_case 184 (of_RangeTableSample ms) Node_range_table_sample
  | pg_query__common_table_expr__descriptor => at_case 210 (of_CommonTableExpr ms) Node_common_table_expr
  | pg_query__with_clause__descriptor => at_case 207 (of_WithClause ms) Node_with_clause
  | pg_query__infer_clause__descriptor => at_case 208 (of_InferClause ms) Node_infer_clause
  | pg_query__on_conflict_clause__descriptor => at_case 209 (of_OnConflictClause ms) Node_on_conflict_clause
  | pg_query__locking_clause__descriptor => at_case 204 (of_LockingClause ms) Node_locking_clause
  | pg_query__grouping_set__descriptor => at_case 197 (of_GroupingSet ms) Node_grouping_set
  | pg_query__into_clause__descriptor => at_case 51 (of_IntoClause ms) Node_into_clause
  | pg_query__select_stmt__descriptor => at_case 57 (of_SelectStmt of_select ms) Node_select_stmt
  | pg_query__insert_stmt__descriptor => at_case 54 (of_InsertStmt ms) Node_insert_stmt
  | pg_query__update_stmt__descriptor => at_case 56 (of_UpdateStmt ms) Node_update_stmt
  | pg_query__delete_stmt__descriptor => at_case 55 (of_DeleteStmt ms) Node_delete_stmt
  | pg_query__raw_stmt__descriptor => at_case 52 (of_RawStmt ms) Node_raw_stmt
  | pg_query__alter_table_cmd__descriptor => at_case 59 (of_AlterTableCmd ms) Node_alter_table_cmd
  | pg_query__partition_bound_spec__descriptor => at_case 215 (of_PartitionBoundSpec ms) Node_partition_bound_spec
  | pg_query__table_like_clause__descriptor => at_case 202 (of_TableLikeClause ms) Node_table_like_clause
  | pg_query__partition_elem__descriptor => at_case 213 (of_PartitionElem ms) Node_partition_elem
  | pg_query__partition_spec__descriptor => at_case 214 (of_PartitionSpec ms) Node_partition_spec
  | pg_query__partition_cmd__descriptor => at_case 217 (of_PartitionCmd ms) Node_partition_cmd
  | pg_query__trigger_transition__descriptor => at_case 212 (of_TriggerTransition ms) Node_trigger_transition
  | pg_query__create_schema_stmt__descriptor => at_case 106 (of_CreateSchemaStmt ms) Node_create_schema_stmt
  | pg_query__alter_table_stmt__descriptor => at_case 58 (of_AlterTableStmt ms) Node_alter_table_stmt
  | pg_query__replica_identity_stmt__descriptor => at_case 152 (of_ReplicaIdentityStmt ms) Node_replica_identity_stmt
  | pg_query__alter_collation_stmt__descriptor => at_case 164 (of_AlterCollationStmt ms) Node_alter_collation_stmt
  | pg_query__alter_domain_stmt__descriptor => at_case 60 (of_AlterDomainStmt ms) Node_alter_domain_stmt
  | pg_query__grant_stmt__descriptor => at_case 62 (of_GrantStmt ms) Node_grant_stmt
  | pg_query__object_with_args__descriptor => at_case 199 (of_ObjectWithArgs ms) Node_object_with_args
  | pg_query__access_priv__descriptor => at_case 200 (of_AccessPriv ms) Node_access_priv
  | pg_query__grant_role_stmt__descriptor => at_case 63 (of_GrantRoleStmt ms) Node_grant_role_stmt
  | pg_query__alter_default_privileges_stmt__descriptor => at_case 64 (of_AlterDefaultPrivilegesStmt ms) Node_alter_default_privileges_stmt
  | pg_query__copy_stmt__descriptor => at_case 67 (of_CopyStmt ms) Node_copy_stmt
  | pg_query__variable_set_stmt__descriptor => at_case 94 (of_VariableSetStmt ms) Node_variable_set_stmt
  | pg_query__variable_show_stmt__descriptor => at_case 95 (of_VariableShowStmt ms) Node_variable_show_stmt
  | pg_query__create_stmt__descriptor => at_case 68 (of_CreateStmt ms) Node_create_stmt
  | pg_query__create_table_space_stmt__descriptor => at_case 119 (of_CreateTableSpaceStmt ms) Node_create_table_space_stmt
  | pg_query__drop_table_space_stmt__descriptor => at_case 120 (of_DropTableSpaceStmt ms) Node_drop_table_space_stmt
  | pg_query__alter_table_space_options_stmt__descriptor => at_case 141 (of_AlterTableSpaceOptionsStmt ms) Node_alter_table_space_options_stmt
  | pg_query__alter_table_move_all_stmt__descriptor => at_case 142 (of_AlterTableMoveAllStmt ms) Node_alter_table_move_all_stmt
  | pg_query__create_extension_stmt__descriptor => at_case 146 (of_CreateExtensionStmt ms) Node_create_extension_stmt
  | pg_query__alter_extension_stmt__descriptor => at_case 147 (of_AlterExtensionStmt ms) Node_alter_extension_stmt
  | pg_query__alter_extension_contents_stmt__descriptor => at_case 148 (of_AlterExtensionContentsStmt ms) Node_alter_extension_contents_stmt
  | pg_query__create_fdw_stmt__descriptor => at_case 134 (of_CreateFdwStmt ms) Node_create_fdw_stmt
  | pg_query__alter_fdw_stmt__descriptor => at_case 135 (of_AlterFdwStmt ms) Node_alter_fdw_stmt
  | pg_query__create_foreign_server_stmt__descriptor => at_case 136 (of_CreateForeignServerStmt ms) Node_create_foreign_server_stmt
  | pg_query__alter_foreign_server_stmt__descriptor => at_case 137 (of_AlterForeignServerStmt ms) Node_alter_foreign_server_stmt
  | pg_query__create_foreign_table_stmt__descriptor => at_case 144 (of_CreateForeignTableStmt ms) Node_create_foreign_table_stmt
  | pg_query__create_user_mapping_stmt__descriptor => at_case 138 (of_CreateUserMappingStmt ms) Node_create_user_mapping_stmt
  | pg_query__alter_user_mapping_stmt__descriptor => at_case 139 (of_AlterUserMappingStmt ms) Node_alter_user_mapping_stmt
  | pg_query__drop_user_mapping_stmt__descriptor => at_case 140 (of_DropUserMappingStmt ms) Node_drop_user_mapping_stmt
  | pg_query__import_foreign_schema_stmt__descriptor => at_case 145 (of_ImportForeignSchemaStmt ms) Node_import_foreign_schema_stmt
  | pg_query__create_policy_stmt__descriptor => at_case 154 (of_CreatePolicyStmt ms) Node_create_policy_stmt
  | pg_query__alter_policy_stmt__descriptor => at_case 155 (of_AlterPolicyStmt ms) Node_alter_policy_stmt
  | pg_query__create_am_stmt__descriptor => at_case 157 (of_CreateAmStmt ms) Node_create_am_stmt
  | pg_query__create_trig_stmt__descriptor => at_case 97 (of_CreateTrigStmt ms) Node_create_trig_stmt
  | pg_query__create_event_trig_stmt__descriptor => at_case 149 (of_CreateEventTrigStmt ms) Node_create_event_trig_stmt
  | pg_query__alter_event_trig_stmt__descriptor => at_case 150 (of_AlterEventTrigStmt ms) Node_alter_event_trig_stmt
  | pg_query__create_plang_stmt__descriptor => at_case 98 (of_CreatePLangStmt ms) Node_create_plang_stmt
  | pg_query__create_role_stmt__descriptor => at_case 99 (of_CreateRoleStmt ms) Node_create_role_stmt
  | pg_query__alter_role_stmt__descriptor => at_case 100 (of_AlterRoleStmt ms) Node_alter_role_stmt
  | pg_query__alter_role_set_stmt__descriptor => at_case 109 (of_AlterRoleSetStmt ms) Node_alter_role_set_stmt
  | pg_query__drop_role_stmt__descriptor => at_case 101 (of_DropRoleStmt ms) Node_drop_role_stmt
  | pg_query__create_seq_stmt__descriptor => at_case 92 (of_CreateSeqStmt ms) Node_create_seq_stmt
  | pg_query__alter_seq_stmt__descriptor => at_case 93 (of_AlterSeqStmt ms) Node_alter_seq_stmt
  | pg_query__define_stmt__descriptor => at_case 69 (of_DefineStmt ms) Node_define_stmt
  | pg_query__create_domain_stmt__descriptor => at_case 86 (of_CreateDomainStmt ms) Node_create_domain_stmt
  | pg_query__create_op_class_stmt__descriptor => at_case 112 (of_CreateOpClassStmt ms) Node_create_op_class_stmt
  | pg_query__create_op_class_item__descriptor => at_case 201 (of_CreateOpClassItem ms) Node_create_op_class_item
  | pg_query__create_op_family_stmt__descriptor => at_case 113 (of_CreateOpFamilyStmt ms) Node_create_op_family_stmt
  | pg_query__alter_op_family_stmt__descriptor => at_case 114 (of_AlterOpFamilyStmt ms) Node_alter_op_family_stmt
  | pg_query__drop_stmt__descriptor => at_case 70 (of_DropStmt ms) Node_drop_stmt
  | pg_query__truncate_stmt__descriptor => at_case 71 (of_TruncateStmt ms) Node_truncate_stmt
  | pg_query__comment_stmt__descriptor => at_case 72 (of_CommentStmt ms) Node_comment_stmt
  | pg_query__sec_label_stmt__descriptor => at_case 143 (of_SecLabelStmt ms) Node_sec_label_stmt
  | pg_query__declare_cursor_stmt__descriptor => at_case 118 (of_DeclareCursorStmt ms) Node_declare_cursor_stmt
  | pg_query__close_portal_stmt__descriptor => at_case 65 (of_ClosePortalStmt ms) Node_close_portal_stmt
  | pg_query__fetch_stmt__descriptor => at_case 73 (of_FetchStmt ms) Node_fetch_stmt
  | pg_query__index_stmt__descriptor => at_case 74 (of_IndexStmt ms) Node_index_stmt
  | pg_query__create_stats_stmt__descriptor => at_case 163 (of_CreateStatsStmt ms) Node_create_stats_stmt
  | pg_query__alter_stats_stmt__descriptor => at_case 166 (of_AlterStatsStmt ms) Node_alter_stats_stmt
  | pg_query__create_function_stmt__descriptor => at_case 75 (of_CreateFunctionStmt ms) Node_create_function_stmt
  | pg_query__function_parameter__descriptor => at_case 203 (of_FunctionParameter ms) Node_function_parameter
  | pg_query__alter_function_stmt__descriptor => at_case 76 (of_AlterFunctionStmt ms) Node_alter_function_stmt
  | pg_query__do_stmt__descriptor => at_case 77 (of_DoStmt ms) Node_do_stmt
  | pg_query__call_stmt__descriptor => at_case 165 (of_CallStmt ms) Node_call_stmt
  | pg_query__rename_stmt__descriptor => at_case 78 (of_RenameStmt ms) Node_rename_stmt
  | pg_query__alter_object_depends_stmt__descriptor => at_case 121 (of_AlterObjectDependsStmt ms) Node_alter_object_depends_stmt
  | pg_query__alter_object_schema_stmt__descriptor => at_case 122 (of_AlterObjectSchemaStmt ms) Node_alter_object_schema_stmt
  | pg_query__alter_owner_stmt__descriptor => at_case 123 (of_AlterOwnerStmt ms) Node_alter_owner_stmt
  | pg_query__alter_operator_stmt__descriptor => at_case 124 (of_AlterOperatorStmt ms) Node_alter_operator_stmt
  | pg_query__alter_type_stmt__descriptor => at_case 125 (of_AlterTypeStmt ms) Node_alter_type_stmt
  | pg_query__rule_stmt__descriptor => at_case 79 (of_RuleStmt ms) Node_rule_stmt
  | pg_query__notify_stmt__descriptor => at_case 80 (of_NotifyStmt ms) Node_notify_stmt
  | pg_query__listen_stmt__descriptor => at_case 81 (of_ListenStmt ms) Node_listen_stmt
  | pg_query__unlisten_stmt__descriptor => at_case 82 (of_UnlistenStmt ms) Node_unlisten_stmt
  | pg_query__transaction_stmt__descriptor => at_case 83 (of_TransactionStmt ms) Node_transaction_stmt
  | pg_query__composite_type_stmt__descriptor => at_case 128 (of_CompositeTypeStmt ms) Node_composite_type_stmt
  | pg_query__create_enum_stmt__descriptor => at_case 129 (of_CreateEnumStmt ms) Node_create_enum_stmt
  | pg_query__create_range_stmt__descriptor => at_case 130 (of_CreateRangeStmt ms) Node_create_range_stmt
  | pg_query__alter_enum_stmt__descriptor => at_case 131 (of_AlterEnumStmt ms) Node_alter_enum_stmt
  | pg_query__view_stmt__descriptor => at_case 84 (of_ViewStmt ms) Node_view_stmt
  | pg_query__load_stmt__descriptor => at_case 85 (of_LoadStmt ms) Node_load_stmt
  | pg_query__createdb_stmt__descriptor => at_case 87 (of_CreatedbStmt ms) Node_createdb_stmt
  | pg_query__alter_database_stmt__descriptor => at_case 107 (of_AlterDatabaseStmt ms) Node_alter_database_stmt
  | pg_query__alter_database_set_stmt__descriptor => at_case 108 (of_AlterDatabaseSetStmt ms) Node_alter_database_set_stmt
  | pg_query__dropdb_stmt__descriptor => at_case 88 (of_DropdbStmt ms) Node_dropdb_stmt
  | pg_query__alter_system_stmt__descriptor => at_case 153 (of_AlterSystemStmt ms) Node_alter_system_stmt
  | pg_query__cluster_stmt__descriptor => at_case 66 (of_ClusterStmt ms) Node_cluster_stmt
  | pg_query__vacuum_stmt__descriptor => at_case 89 (of_VacuumStmt ms) Node_vacuum_stmt
  | pg_query__vacuum_relation__descriptor => at_case 218 (of_VacuumRelation ms) Node_vacuum_relation
  | pg_query__explain_stmt__descriptor => at_case 90 (of_ExplainStmt ms) Node_explain_stmt
  | pg_query__create_table_as_stmt__descriptor => at_case 91 (of_CreateTableAsStmt ms) Node_create_table_as_stmt
  | pg_query__refresh_mat_view_stmt__descriptor => at_case 151 (of_RefreshMatViewStmt ms) Node_refresh_mat_view_stmt
  | pg_query__check_point_stmt__descriptor => at_case 105 (of_CheckPointStmt ms) Node_check_point_stmt
  | pg_query__discard_stmt__descriptor => at_case 96 (of_DiscardStmt ms) Node_discard_stmt
  | pg_query__lock_stmt__descriptor => at_case 102 (of_LockStmt ms) Node_lock_stmt
  | pg_query__constraints_set_stmt__descriptor => at_case 103 (of_ConstraintsSetStmt ms) Node_constraints_set_stmt
  | pg_query__reindex_stmt__descriptor => at_case 104 (of_ReindexStmt ms) Node_reindex_stmt
  | pg_query__create_conversion_stmt__descriptor => at_case 110 (of_CreateConversionStmt ms) Node_create_conversion_stmt
  | pg_query__create_cast_stmt__descriptor => at_case 111 (of_CreateCastStmt ms) Node_create_cast_stmt
  | pg_query__create_transform_stmt__descriptor => at_case 156 (of_CreateTransformStmt ms) Node_create_transform_stmt
  | pg_query__prepare_stmt__descriptor => at_case 115 (of_PrepareStmt ms) Node_prepare_stmt
  | pg_query__execute_stmt__descriptor => at_case 116 (of_ExecuteStmt ms) Node_execute_stmt
  | pg_query__deallocate_stmt__descriptor => at_case 117 (of_DeallocateStmt ms) Node_deallocate_stmt
  | pg_query__drop_owned_stmt__descriptor => at_case 126 (of_DropOwnedStmt ms) Node_drop_owned_stmt
  | pg_query__reassign_owned_stmt__descriptor => at_case 127 (of_ReassignOwnedStmt ms) Node_reassign_owned_stmt
  | pg_query__alter_tsdictionary_stmt__descriptor => at_case 132 (of_AlterTSDictionaryStmt ms) Node_alter_tsdictionary_stmt
  | pg_query__alter_tsconfiguration_stmt__descriptor => at_case 133 (of_AlterTSConfigurationStmt ms) Node_alter_tsconfiguration_stmt
  | pg_query__create_publication_stmt__descriptor => at_case 158 (of_CreatePublicationStmt ms) Node_create_publication_stmt
  | pg_query__alter_publication_stmt__descriptor => at_case 159 (of_AlterPublicationStmt ms) Node_alter_publication_stmt
  | pg_query__create_subscription_stmt__descriptor => at_case 160 (of_CreateSubscriptionStmt ms) Node_create_subscription_stmt
  | pg_query__alter_subscription_stmt__descriptor => at_case 161 (of_AlterSubscriptionStmt ms) Node_alter_subscription_stmt
  | pg_query__drop_subscription_stmt__descriptor => at_case 162 (of_DropSubscriptionStmt ms) Node_drop_subscription_stmt
  | pg_query__func_expr__descriptor => at_case 11 (of_FuncExpr ms) Node_func_expr
  | pg_query__integer__descriptor => at_case 221 (match ms with [c] => r_int c | _ => Undef end) Node_integer
  | pg_query__float__descriptor => at_case 222 (match ms with [c] => r_str c | _ => Undef end) Node_float
  | pg_query__string__descriptor => at_case 223 (match ms with [c] => r_str c | _ => Undef end) Node_string
  | pg_query__bit_string__descriptor => at_case 224 (match ms with [c] => r_str c | _ => Undef end) Node_bit_string
  | pg_query__null__descriptor => at_case 225 (match ms with [] => Ok tt | _ => Undef end) (fun _ => Node_null)
  | pg_query__list__descriptor => at_case 226 (match ms with [n; l] => r_array of_node n l | _ => Undef end) Node_list
  | pg_query__int_list__descriptor => at_case 227 (match ms with [n; l] => r_array of_node n l | _ => Undef end) Node_int_list
  | pg_query__oid_list__descriptor => at_case 228 (match ms with [n; l] => r_array of_node n l | _ => Undef end) Node_oid_list
  | _ => Ok (Node_other node_case)
  end.
End structs.

Fixpoint to_node (n : PgQuery__Node) : struct := to_union to_node n.

(** Messages that are not modelled keep their case only, as does a pointer that is null. *)
Fixpoint of_node (m : struct) : outcome PgQuery__Node :=
  match m with
  | Message pg_query__node__descriptor [Int node_case; c] _ =>
      match c with
      | Zeroed => Ok (if node_case =? 0 then Node_not_set else Node_other node_case)
      | Msg None => Ok (Node_other node_case)
      | Msg (Some (Message d ms _)) => of_union of_node of_node node_case d ms
      | _ => Undef
      end
  | Message pg_query__select_stmt__descriptor ms _ => let* x := of_SelectStmt of_node of_node ms in Ok (Node_select_stmt x)
  | _ => Undef
  end.

(** ** A struct is read back *)

Definition back (n : PgQuery__Node) : Prop := of_node (to_node n) = Ok n.

Lemma back_str s : r_str (c_str s) = Ok s.
Proof. by destruct s. Qed.

Lemma back_int z : r_int (c_int z) = Ok z.
Proof. done. Qed.

Lemma back_bool b : r_bool (c_bool b) = Ok b.
Proof. by destruct b. Qed.

Lemma back_array {A} (to : A -> struct) (read : struct -> outcome A) l :
  Forall (fun x => read (to x) = Ok x) l -> r_array read (c_count l) (c_array to l) = Ok l.
Proof.
  intros Hl. unfold r_array, c_count. cbn [get_int obind]. destruct l as [|x l]; [done|].
  unfold c_array. generalize dependent (x :: l). clear x l. intros l Hl.
  assert (E : mapo (r_elem read) (map (fun x => Msg (Some (to x))) l) = Ok l).
  { induction Hl as [|x l Hx _ IH]; [done|]. cbn. by rewrite Hx, IH. }
  rewrite E. cbn [obind]. by rewrite Z.eqb_refl.
Qed.

Lemma back_nodes l : list_all PgQuery__Node back l -> r_array of_node (c_count l) (c_array to_node l) = Ok l.
Proof. intros Hl. apply back_array. by induction Hl; constructor. Qed.

Lemma back_ptr {A} (P : A -> Type) (to : A -> struct) (read : struct -> outcome A) p :
  (forall x, P x -> read (to x) = Ok x) -> option_all A P p -> r_ptr read (c_ptr to p) = Ok p.
Proof. intros Hr [x Hx|]; [|done]. cbn. by rewrite (Hr x Hx). Qed.

Lemma back_node_ptr (to : PgQuery__Node -> struct) p : (forall n, back n -> of_node (to n) = Ok n) ->
  option_all PgQuery__Node back p -> r_ptr of_node (c_ptr to p) = Ok p.
Proof. intros Hr [n Hn|]; [|done]. cbn. by rewrite (Hr n Hn). Qed.

Lemma back_msg {A} d (to : A -> list scell) read x : read (to x) = Ok x -> o_msg d read (s_msg d to x) = Ok x.
Proof. intros H. cbn. by rewrite decide_True. Qed.

Lemma back_node n : back n -> of_node (to_node n) = Ok n.
Proof. done. Qed.

Lemma back_select n : back n -> of_node (s_select to_node n) = Ok n.
Proof.
  destruct n; intros H; exact H.
Qed.

Create HintDb back.
#[local] Hint Resolve back_msg back_node back_select : back.

(** The fields of a struct, one after the other. *)
Lemma back_bind {A B} (r : outcome A) x (k : A -> outcome B) y : r = Ok x -> k x = y -> obind r k = y.
Proof. by intros -> <-. Qed.

Ltac back_field :=
  match goal with
  | |- r_str _ = _ => apply back_str
  | |- r_int _ = _ => apply back_int
  | |- r_bool _ = _ => apply back_bool
  | |- r_array of_node _ _ = _ => apply back_nodes; assumption
  | |- r_ptr of_node (c_ptr ?to ?p) = _ => apply (back_node_ptr to p ltac:(eauto with back)); assumption
  | |- r_ptr ?read (c_ptr ?to ?p) = _ => eapply (back_ptr _ to read p); [by eauto with back|eassumption]
  end.
Ltac head_of t := match t with ?f _ => head_of f | _ => t end.
Ltac back_struct :=
  intros Hx; match goal with |- ?r (?w) = Ok ?x => let r' := head_of r in let w' := head_of w in unfold r', w' end;
  destruct Hx; cbn -[r_str r_int r_bool r_array r_ptr c_str c_int c_bool c_count c_array c_ptr obind];
  repeat (eapply back_bind; [back_field|]; cbv beta); reflexivity.

Arguments r_str : simpl never.

Lemma back_Alias x : PgQuery__Alias.t_all PgQuery__Node back x ->
  of_Alias of_node (to_Alias to_node x) = Ok x.
Proof. back_struct. Qed.
#[local] Hint Resolve back_Alias : back.

Lemma back_RangeVar x : PgQuery__RangeVar.t_all PgQuery__Node back x ->
  of_RangeVar of_node (to_RangeVar to_node x) = Ok x.
Proof. back_struct. Qed.
#[local] Hint Resolve back_RangeVar : back.

Lemma back_TypeName x : PgQuery__TypeName.t_all PgQuery__Node back x ->
  of_TypeName of_node (to_TypeName to_node x) = Ok x.
Proof. back_struct. Qed.
#[local] Hint Resolve back_TypeName : back.

Lemma back_ColumnRef x : PgQuery__ColumnRef.t_all PgQuery__Node back x ->
  of_ColumnRef of_node (to_ColumnRef to_node x) = Ok x.
Proof. back_struct. Qed.
#[local] Hint Resolve back_ColumnRef : back.

Lemma back_ParamRef x : PgQuery__ParamRef.t_all PgQuery__Node back x -> of_ParamRef (to_ParamRef x) = Ok x.
Proof. back_struct. Qed.
#[local] Hint Resolve back_ParamRef : back.

Lemma back_AExpr x : PgQuery__AExpr.t_all PgQuery__Node back x ->
  of_AExpr of_node (to_AExpr to_node x) = Ok x.
Proof. back_struct. Qed.
#[local] Hint Resolve back_AExpr : back.

Lemma back_AConst x : PgQuery__AConst.t_all PgQuery__Node back x ->
  of_AConst of_node (to_AConst to_node x) = Ok x.
Proof. back_struct. Qed.
#[local] Hint Resolve back_AConst : back.

Lemma back_TypeCast x : PgQuery__TypeCast.t_all PgQuery__Node back x ->
  of_TypeCast of_node (to_TypeCast to_node x) = Ok x.
Proof. back_struct. Qed.
#[local] Hint Resolve back_TypeCast : back.

Lemma back_CollateClause x : PgQuery__CollateClause.t_all PgQuery__Node back x ->
  of_CollateClause of_node (to_CollateClause to_node x) = Ok x.
Proof. back_struct. Qed.
#[local] Hint Resolve back_CollateClause : back.

Lemma back_RoleSpec x : PgQuery__RoleSpec.t_all PgQuery__Node back x -> of_RoleSpec (to_RoleSpec x) = Ok x.
Proof. back_struct. Qed.
#[local] Hint Resolve back_RoleSpec : back.

Lemma back_WindowDef x : PgQuery__WindowDef.t_all PgQuery__Node back x ->
  of_WindowDef of_node (to_WindowDef to_node x) = Ok x.
Proof. back_struct. Qed.
#[local] Hint Resolve back_WindowDef : back.

Lemma back_SortBy x : PgQuery__SortBy.t_all PgQuery__Node back x ->
  of_SortBy of_node (to_SortBy to_node x) = Ok x.
Proof. back_struct. Qed.
#[local] Hint Resolve back_SortBy : back.

Lemma back_FuncCall x : PgQuery__FuncCall.t_all PgQuery__Node back x ->
  of_FuncCall of_node (to_FuncCall to_node x) = Ok x.
Proof. back_struct. Qed.
#[local] Hint Resolve back_FuncCall : back.

Lemma back_AStar x : PgQuery__AStar.t_all PgQuery__Node back x -> of_AStar (to_AStar x) = Ok x.
Proof. back_struct. Qed.
#[local] Hint Resolve back_AStar : back.

Lemma back_AIndices x : PgQuery__AIndices.t_all PgQuery__Node back x ->
  of_AIndices of_node (to_AIndices to_node x) = Ok x.
Proof. back_struct. Qed.
#[local] Hint Resolve back_AIndices : back.

Lemma back_AIndirection x : PgQuery__AIndirection.t_all PgQuery__Node back x ->
  of_AIndirection of_node (to_AIndirection to_node x) = Ok x.
Proof. back_struct. Qed.
#[local] Hint Resolve back_AIndirection : back.

Lemma back_AArrayExpr x : PgQuery__AArrayExpr.t_all PgQuery__Node back x ->
  of_AArrayExpr of_node (to_AArrayExpr to_node x) = Ok x.
Proof. back_struct. Qed.
#[local] Hint Resolve back_AArrayExpr : back.

Lemma back_ResTarget x : PgQuery__ResTarget.t_all PgQuery__Node back x ->
  of_ResTarget of_node (to_ResTarget to_node x) = Ok x.
Proof. back_struct. Qed.
#[local] Hint Resolve back_ResTarget : back.

Lemma back_MultiAssignRef x : PgQuery__MultiAssignRef.t_all PgQuery__Node back x ->
  of_MultiAssignRef of_node (to_MultiAssignRef to_node x) = Ok x.
Proof. back_struct. Qed.
#[local] Hint Resolve back_MultiAssignRef : back.

Lemma back_NamedArgExpr x : PgQuery__NamedArgExpr.t_all PgQuery__Node back x ->
  of_NamedArgExpr of_node (to_NamedArgExpr to_node x) = Ok x.
Proof. back_struct. Qed.
#[local] Hint Resolve back_NamedArgExpr : back.

Lemma back_BoolExpr x : PgQuery__BoolExpr.t_all PgQuery__Node back x ->
  of_BoolExpr of_node (to_BoolExpr to_node x) = Ok x.
Proof. back_struct. Qed.
#[local] Hint Resolve back_BoolExpr : back.

Lemma back_SubLink x : PgQuery__SubLink.t_all PgQuery__Node back x ->
  of_SubLink of_node (to_SubLink to_node x) = Ok x.
Proof. back_struct. Qed.
#[local] Hint Resolve back_SubLink : back.

Lemma back_CaseWhen x : PgQuery__CaseWhen.t_all PgQuery__Node back x ->
  of_CaseWhen of_node (to_CaseWhen to_node x) = Ok x.
Proof. back_struct. Qed.
#[local] Hint Resolve back_CaseWhen : back.

Lemma back_CaseExpr x : PgQuery__CaseExpr.t_all PgQuery__Node back x ->
  of_CaseExpr of_node (to_CaseExpr to_node x) = Ok x.
Proof. back_struct. Qed.
#[local] Hint Resolve back_CaseExpr : back.

Lemma back_RowExpr x : PgQuery__RowExpr.t_all PgQuery__Node back x ->
  of_RowExpr of_node (to_RowExpr to_node x) = Ok x.
Proof. back_struct. Qed.
#[local] Hint Resolve back_RowExpr : back.

Lemma back_CoalesceExpr x : PgQuery__CoalesceExpr.t_all PgQuery__Node back x ->
  of_CoalesceExpr of_node (to_CoalesceExpr to_node x) = Ok x.
Proof. back_struct. Qed.
#[local] Hint Resolve back_CoalesceExpr : back.

Lemma back_MinMaxExpr x : PgQuery__MinMaxExpr.t_all PgQuery__Node back x ->
  of_MinMaxExpr of_node (to_MinMaxExpr to_node x) = Ok x.
Proof. back_struct. Qed.
#[local] Hint Resolve back_MinMaxExpr : back.

Lemma back_SQLValueFunction x : PgQuery__SQLValueFunction.t_all PgQuery__Node back x ->
  of_SQLValueFunction of_node (to_SQLValueFunction to_node x) = Ok x.
Proof. back_struct. Qed.
#[local] Hint Resolve back_SQLValueFunction : back.

Lemma back_XmlExpr x : PgQuery__XmlExpr.t_all PgQuery__Node back x ->
  of_XmlExpr of_node (to_XmlExpr to_node x) = Ok x.
Proof. back_struct. Qed.
#[local] Hint Resolve back_XmlExpr : back.

Lemma back_XmlSerialize x : PgQuery__XmlSerialize.t_all PgQuery__Node back x ->
  of_XmlSerialize of_node (to_XmlSerialize to_node x) = Ok x.
Proof. back_struct. Qed.
#[local] Hint Resolve back_XmlSerialize : back.

Lemma back_NullTest x : PgQuery__NullTest.t_all PgQuery__Node back x ->
  of_NullTest of_node (to_NullTest to_node x) = Ok x.
Proof. back_struct. Qed.
#[local] Hint Resolve back_NullTest : back.

Lemma back_BooleanTest x : PgQuery__BooleanTest.t_all PgQuery__Node back x ->
  of_BooleanTest of_node (to_BooleanTest to_node x) = Ok x.
Proof. back_struct. Qed.
#[local] Hint Resolve back_BooleanTest : back.

Lemma back_SetToDefault x : PgQuery__SetToDefault.t_all PgQuery__Node back x ->
  of_SetToDefault of_node (to_SetToDefault to_node x) = Ok x.
Proof. back_struct. Qed.
#[local] Hint Resolve back_SetToDefault : back.

Lemma back_CurrentOfExpr x : PgQuery__CurrentOfExpr.t_all PgQuery__Node back x ->
  of_CurrentOfExpr of_node (to_CurrentOfExpr to_node x) = Ok x.
Proof. back_struct. Qed.
#[local] Hint Resolve back_CurrentOfExpr : back.

Lemma back_GroupingFunc x : PgQuery__GroupingFunc.t_all PgQuery__Node back x ->
  of_GroupingFunc of_node (to_GroupingFunc to_node x) = Ok x.
Proof. back_struct. Qed.
#[local] Hint Resolve back_GroupingFunc : back.

Lemma back_DefElem x : PgQuery__DefElem.t_all PgQuery__Node back x ->
  of_DefElem of_node (to_DefElem to_node x) = Ok x.
Proof. back_struct. Qed.
#[local] Hint Resolve back_DefElem : back.

Lemma back_IndexElem x : PgQuery__IndexElem.t_all PgQuery__Node back x ->
  of_IndexElem of_node (to_IndexElem to_node x) = Ok x.
Proof. back_struct. Qed.
#[local] Hint Resolve back_IndexElem : back.

Lemma back_Constraint x : PgQuery__Constraint.t_all PgQuery__Node back x ->
  of_Constraint of_node (to_Constraint to_node x) = Ok x.
Proof. back_struct. Qed.
#[local] Hint Resolve back_Constraint : back.

Lemma back_ColumnDef x : PgQuery__ColumnDef.t_all PgQuery__Node back x ->
  of_ColumnDef of_node (to_ColumnDef to_node x) = Ok x.
Proof. back_struct. Qed.
#[local] Hint Resolve back_ColumnDef : back.

Lemma back_JoinExpr x : PgQuery__JoinExpr.t_all PgQuery__Node back x ->
  of_JoinExpr of_node (to_JoinExpr to_node x) = Ok x.
Proof. back_struct. Qed.
#[local] Hint Resolve back_JoinExpr : back.

Lemma back_RangeSubselect x : PgQuery__RangeSubselect.t_all PgQuery__Node back x ->
  of_RangeSubselect of_node (to_RangeSubselect to_node x) = Ok x.
Proof. back_struct. Qed.
#[local] Hint Resolve back_RangeSubselect : back.

Lemma back_RangeFunction x : PgQuery__RangeFunction.t_all PgQuery__Node back x ->
  of_RangeFunction of_node (to_RangeFunction to_node x) = Ok x.
Proof. back_struct. Qed.
#[local] Hint Resolve back_RangeFunction : back.

Lemma back_RangeTableFuncCol x : PgQuery__RangeTableFuncCol.t_all PgQuery__Node back x ->
  of_RangeTableFuncCol of_node (to_RangeTableFuncCol to_node x) = Ok x.
Proof. back_struct. Qed.
#[local] Hint Resolve back_RangeTableFuncCol : back.

Lemma back_RangeTableFunc x : PgQuery__RangeTableFunc.t_all PgQuery__Node back x ->
  of_RangeTableFunc of_node (to_RangeTableFunc to_node x) = Ok x.
Proof. back_struct. Qed.
#[local] Hint Resolve back_RangeTableFunc : back.

Lemma back_RangeTableSample x : PgQuery__RangeTableSample.t_all PgQuery__Node back x ->
  of_RangeTableSample of_node (to_RangeTableSample to_node x) = Ok x.
Proof. back_struct. Qed.
#[local] Hint Resolve back_RangeTableSample : back.

Lemma back_CommonTableExpr x : PgQuery__CommonTableExpr.t_all PgQuery__Node back x ->
  of_CommonTableExpr of_node (to_CommonTableExpr to_node x) = Ok x.
Proof. back_struct. Qed.
#[local] Hint Resolve back_CommonTableExpr : back.

Lemma back_WithClause x : PgQuery__WithClause.t_all PgQuery__Node back x ->
  of_WithClause of_node (to_WithClause to_node x) = Ok x.
Proof. back_struct. Qed.
#[local] Hint Resolve back_WithClause : back.

Lemma back_InferClause x : PgQuery__InferClause.t_all PgQuery__Node back x ->
  of_InferClause of_node (to_InferClause to_node x) = Ok x.
Proof. back_struct. Qed.
#[local] Hint Resolve back_InferClause : back.

Lemma back_OnConflictClause x : PgQuery__OnConflictClause.t_all PgQuery__Node back x ->
  of_OnConflictClause of_node (to_OnConflictClause to_node x) = Ok x.
Proof. back_struct. Qed.
#[local] Hint Resolve back_OnConflictClause : back.

Lemma back_LockingClause x : PgQuery__LockingClause.t_all PgQuery__Node back x ->
  of_LockingClause of_node (to_LockingClause to_node x) = Ok x.
Proof. back_struct. Qed.
#[local] Hint Resolve back_LockingClause : back.

Lemma back_GroupingSet x : PgQuery__GroupingSet.t_all PgQuery__Node back x ->
  of_GroupingSet of_node (to_GroupingSet to_node x) = Ok x.
Proof. back_struct. Qed.
#[local] Hint Resolve back_GroupingSet : back.

Lemma back_IntoClause x : PgQuery__IntoClause.t_all PgQuery__Node back x ->
  of_IntoClause of_node (to_IntoClause to_node x) = Ok x.
Proof. back_struct. Qed.
#[local] Hint Resolve back_IntoClause : back.

Lemma back_SelectStmt x : PgQuery__SelectStmt.t_all PgQuery__Node back x ->
  of_SelectStmt of_node of_node (to_SelectStmt to_node x) = Ok x.
Proof. back_struct. Qed.
#[local] Hint Resolve back_SelectStmt : back.

Lemma back_InsertStmt x : PgQuery__InsertStmt.t_all PgQuery__Node back x ->
  of_InsertStmt of_node (to_InsertStmt to_node x) = Ok x.
Proof. back_struct. Qed.
#[local] Hint Resolve back_InsertStmt : back.

Lemma back_UpdateStmt x : PgQuery__UpdateStmt.t_all PgQuery__Node back x ->
  of_UpdateStmt of_node (to_UpdateStmt to_node x) = Ok x.
Proof. back_struct. Qed.
#[local] Hint Resolve back_UpdateStmt : back.

Lemma back_DeleteStmt x : PgQuery__DeleteStmt.t_all PgQuery__Node back x ->
  of_DeleteStmt of_node (to_DeleteStmt to_node x) = Ok x.
Proof. back_struct. Qed.
#[local] Hint Resolve back_DeleteStmt : back.

Lemma back_RawStmt x : PgQuery__RawStmt.t_all PgQuery__Node back x ->
  of_RawStmt of_node (to_RawStmt to_node x) = Ok x.
Proof. back_struct. Qed.
#[local] Hint Resolve back_RawStmt : back.

Lemma back_AlterTableCmd x : PgQuery__AlterTableCmd.t_all PgQuery__Node back x ->
  of_AlterTableCmd of_node (to_AlterTableCmd to_node x) = Ok x.
Proof. back_struct. Qed.
#[local] Hint Resolve back_AlterTableCmd : back.

Lemma back_PartitionBoundSpec x : PgQuery__PartitionBoundSpec.t_all PgQuery__Node back x ->
  of_PartitionBoundSpec of_node (to_PartitionBoundSpec to_node x) = Ok x.
Proof. back_struct. Qed.
#[local] Hint Resolve back_PartitionBoundSpec : back.

Lemma back_TableLikeClause x : PgQuery__TableLikeClause.t_all PgQuery__Node back x ->
  of_TableLikeClause of_node (to_TableLikeClause to_node x) = Ok x.
Proof. back_struct. Qed.
#[local] Hint Resolve back_TableLikeClause : back.

Lemma back_PartitionElem x : PgQuery__PartitionElem.t_all PgQuery__Node back x ->
  of_PartitionElem of_node (to_PartitionElem to_node x) = Ok x.
Proof. back_struct. Qed.
#[local] Hint Resolve back_PartitionElem : back.

Lemma back_PartitionSpec x : PgQuery__PartitionSpec.t_all PgQuery__Node back x ->
  of_PartitionSpec of_node (to_PartitionSpec to_node x) = Ok x.
Proof. back_struct. Qed.
#[local] Hint Resolve back_PartitionSpec : back.

Lemma back_PartitionCmd x : PgQuery__PartitionCmd.t_all PgQuery__Node back x ->
  of_PartitionCmd of_node (to_PartitionCmd to_node x) = Ok x.
Proof. back_struct. Qed.
#[local] Hint Resolve back_PartitionCmd : back.

Lemma back_TriggerTransition x : PgQuery__TriggerTransition.t_all PgQuery__Node back x ->
  of_TriggerTransition (to_TriggerTransition x) = Ok x.
Proof. back_struct. Qed.
#[local] Hint Resolve back_TriggerTransition : back.

Lemma back_CreateSchemaStmt x : PgQuery__CreateSchemaStmt.t_all PgQuery__Node back x ->
  of_CreateSchemaStmt of_node (to_CreateSchemaStmt to_node x) = Ok x.
Proof. back_struct. Qed.
#[local] Hint Resolve back_CreateSchemaStmt : back.

Lemma back_AlterTableStmt x : PgQuery__AlterTableStmt.t_all PgQuery__Node back x ->
  of_AlterTableStmt of_node (to_AlterTableStmt to_node x) = Ok x.
Proof. back_struct. Qed.
#[local] Hint Resolve back_AlterTableStmt : back.

Lemma back_ReplicaIdentityStmt x : PgQuery__ReplicaIdentityStmt.t_all PgQuery__Node back x ->
  of_ReplicaIdentityStmt (to_ReplicaIdentityStmt x) = Ok x.
Proof. back_struct. Qed.
#[local] Hint Resolve back_ReplicaIdentityStmt : back.

Lemma back_AlterCollationStmt x : PgQuery__AlterCollationStmt.t_all PgQuery__Node back x ->
  of_AlterCollationStmt of_node (to_AlterCollationStmt to_node x) = Ok x.
Proof. back_struct. Qed.
#[local] Hint Resolve back_AlterCollationStmt : back.

Lemma back_AlterDomainStmt x : PgQuery__AlterDomainStmt.t_all PgQuery__Node back x ->
  of_AlterDomainStmt of_node (to_AlterDomainStmt to_node x) = Ok x.
Proof. back_struct. Qed.
#[local] Hint Resolve back_AlterDomainStmt : back.

Lemma back_GrantStmt x : PgQuery__GrantStmt.t_all PgQuery__Node back x ->
  of_GrantStmt of_node (to_GrantStmt to_node x) = Ok x.
Proof. back_struct. Qed.
#[local] Hint Resolve back_GrantStmt : back.

Lemma back_ObjectWithArgs x : PgQuery__ObjectWithArgs.t_all PgQuery__Node back x ->
  of_ObjectWithArgs of_node (to_ObjectWithArgs to_node x) = Ok x.
Proof. back_struct. Qed.
#[local] Hint Resolve back_ObjectWithArgs : back.

Lemma back_AccessPriv x : PgQuery__AccessPriv.t_all PgQuery__Node back x ->
  of_AccessPriv of_node (to_AccessPriv to_node x) = Ok x.
Proof. back_struct. Qed.
#[local] Hint Resolve back_AccessPriv : back.

Lemma back_GrantRoleStmt x : PgQuery__GrantRoleStmt.t_all PgQuery__Node back x ->
  of_GrantRoleStmt of_node (to_GrantRoleStmt to_node x) = Ok x.
Proof. back_struct. Qed.
#[local] Hint Resolve back_GrantRoleStmt : back.

Lemma back_AlterDefaultPrivilegesStmt x : PgQuery__AlterDefaultPrivilegesStmt.t_all PgQuery__Node back x ->
  of_AlterDefaultPrivilegesStmt of_node (to_AlterDefaultPrivilegesStmt to_node x) = Ok x.
Proof. back_struct. Qed.
#[local] Hint Resolve back_AlterDefaultPrivilegesStmt : back.

Lemma back_CopyStmt x : PgQuery__CopyStmt.t_all PgQuery__Node back x ->
  of_CopyStmt of_node (to_CopyStmt to_node x) = Ok x.
Proof. back_struct. Qed.
#[local] Hint Resolve back_CopyStmt : back.

Lemma back_VariableSetStmt x : PgQuery__VariableSetStmt.t_all PgQuery__Node back x ->
  of_VariableSetStmt of_node (to_VariableSetStmt to_node x) = Ok x.
Proof. back_struct. Qed.
#[local] Hint Resolve back_VariableSetStmt : back.

Lemma back_VariableShowStmt x : PgQuery__VariableShowStmt.t_all PgQuery__Node back x ->
  of_VariableShowStmt (to_VariableShowStmt x) = Ok x.
Proof. back_struct. Qed.
#[local] Hint Resolve back_VariableShowStmt : back.

Lemma back_CreateStmt x : PgQuery__CreateStmt.t_all PgQuery__Node back x ->
  of_CreateStmt of_node (to_CreateStmt to_node x) = Ok x.
Proof. back_struct. Qed.
#[local] Hint Resolve back_CreateStmt : back.

Lemma back_CreateTableSpaceStmt x : PgQuery__CreateTableSpaceStmt.t_all PgQuery__Node back x ->
  of_CreateTableSpaceStmt of_node (to_CreateTableSpaceStmt to_node x) = Ok x.
Proof. back_struct. Qed.
#[local] Hint Resolve back_CreateTableSpaceStmt : back.

Lemma back_DropTableSpaceStmt x : PgQuery__DropTableSpaceStmt.t_all PgQuery__Node back x ->
  of_DropTableSpaceStmt (to_DropTableSpaceStmt x) = Ok x.
Proof. back_struct. Qed.
#[local] Hint Resolve back_DropTableSpaceStmt : back.

Lemma back_AlterTableSpaceOptionsStmt x : PgQuery__AlterTableSpaceOptionsStmt.t_all PgQuery__Node back x ->
  of_AlterTableSpaceOptionsStmt of_node (to_AlterTableSpaceOptionsStmt to_node x) = Ok x.
Proof. back_struct. Qed.
#[local] Hint Resolve back_AlterTableSpaceOptionsStmt : back.

Lemma back_AlterTableMoveAllStmt x : PgQuery__AlterTableMoveAllStmt.t_all PgQuery__Node back x ->
  of_AlterTableMoveAllStmt of_node (to_AlterTableMoveAllStmt to_node x) = Ok x.
Proof. back_struct. Qed.
#[local] Hint Resolve back_AlterTableMoveAllStmt : back.

Lemma back_CreateExtensionStmt x : PgQuery__CreateExtensionStmt.t_all PgQuery__Node back x ->
  of_CreateExtensionStmt of_node (to_CreateExtensionStmt to_node x) = Ok x.
Proof. back_struct. Qed.
#[local] Hint Resolve back_CreateExtensionStmt : back.

Lemma back_AlterExtensionStmt x : PgQuery__AlterExtensionStmt.t_all PgQuery__Node back x ->
  of_AlterExtensionStmt of_node (to_AlterExtensionStmt to_node x) = Ok x.
Proof. back_struct. Qed.
#[local] Hint Resolve back_AlterExtensionStmt : back.

Lemma back_AlterExtensionContentsStmt x : PgQuery__AlterExtensionContentsStmt.t_all PgQuery__Node back x ->
  of_AlterExtensionContentsStmt of_node (to_AlterExtensionContentsStmt to_node x) = Ok x.
Proof. back_struct. Qed.
#[local] Hint Resolve back_AlterExtensionContentsStmt : back.

Lemma back_CreateFdwStmt x : PgQuery__CreateFdwStmt.t_all PgQuery__Node back x ->
  of_CreateFdwStmt of_node (to_CreateFdwStmt to_node x) = Ok x.
Proof. back_struct. Qed.
#[local] Hint Resolve back_CreateFdwStmt : back.

Lemma back_AlterFdwStmt x : PgQuery__AlterFdwStmt.t_all PgQuery__Node back x ->
  of_AlterFdwStmt of_node (to_AlterFdwStmt to_node x) = Ok x.
Proof. back_struct. Qed.
#[local] Hint Resolve back_AlterFdwStmt : back.

Lemma back_CreateForeignServerStmt x : PgQuery__CreateForeignServerStmt.t_all PgQuery__Node back x ->
  of_CreateForeignServerStmt of_node (to_CreateForeignServerStmt to_node x) = Ok x.
Proof. back_struct. Qed.
#[local] Hint Resolve back_CreateForeignServerStmt : back.

Lemma back_AlterForeignServerStmt x : PgQuery__AlterForeignServerStmt.t_all PgQuery__Node back x ->
  of_AlterForeignServerStmt of_node (to_AlterForeignServerStmt to_node x) = Ok x.
Proof. back_struct. Qed.
#[local] Hint Resolve back_AlterForeignServerStmt : back.

Lemma back_CreateForeignTableStmt x : PgQuery__CreateForeignTableStmt.t_all PgQuery__Node back x ->
  of_CreateForeignTableStmt of_node (to_CreateForeignTableStmt to_node x) = Ok x.
Proof. back_struct. Qed.
#[local] Hint Resolve back_CreateForeignTableStmt : back.

Lemma back_CreateUserMappingStmt x : PgQuery__CreateUserMappingStmt.t_all PgQuery__Node back x ->
  of_CreateUserMappingStmt of_node (to_CreateUserMappingStmt to_node x) = Ok x.
Proof. back_struct. Qed.
#[local] Hint Resolve back_CreateUserMappingStmt : back.

Lemma back_AlterUserMappingStmt x : PgQuery__AlterUserMappingStmt.t_all PgQuery__Node back x ->
  of_AlterUserMappingStmt of_node (to_AlterUserMappingStmt to_node x) = Ok x.
Proof. back_struct. Qed.
#[local] Hint Resolve back_AlterUserMappingStmt : back.

Lemma back_DropUserMappingStmt x : PgQuery__DropUserMappingStmt.t_all PgQuery__Node back x ->
  of_DropUserMappingStmt (to_DropUserMappingStmt x) = Ok x.
Proof. back_struct. Qed.
#[local] Hint Resolve back_DropUserMappingStmt : back.

Lemma back_ImportForeignSchemaStmt x : PgQuery__ImportForeignSchemaStmt.t_all PgQuery__Node back x ->
  of_ImportForeignSchemaStmt of_node (to_ImportForeignSchemaStmt to_node x) = Ok x.
Proof. back_struct. Qed.
#[local] Hint Resolve back_ImportForeignSchemaStmt : back.

Lemma back_CreatePolicyStmt x : PgQuery__CreatePolicyStmt.t_all PgQuery__Node back x ->
  of_CreatePolicyStmt of_node (to_CreatePolicyStmt to_node x) = Ok x.
Proof. back_struct. Qed.
#[local] Hint Resolve back_CreatePolicyStmt : back.

Lemma back_AlterPolicyStmt x : PgQuery__AlterPolicyStmt.t_all PgQuery__Node back x ->
  of_AlterPolicyStmt of_node (to_AlterPolicyStmt to_node x) = Ok x.
Proof. back_struct. Qed.
#[local] Hint Resolve back_AlterPolicyStmt : back.

Lemma back_CreateAmStmt x : PgQuery__CreateAmStmt.t_all PgQuery__Node back x ->
  of_CreateAmStmt of_node (to_CreateAmStmt to_node x) = Ok x.
Proof. back_struct. Qed.
#[local] Hint Resolve back_CreateAmStmt : back.

Lemma back_CreateTrigStmt x : PgQuery__CreateTrigStmt.t_all PgQuery__Node back x ->
  of_CreateTrigStmt of_node (to_CreateTrigStmt to_node x) = Ok x.
Proof. back_struct. Qed.
#[local] Hint Resolve back_CreateTrigStmt : back.

Lemma back_CreateEventTrigStmt x : PgQuery__CreateEventTrigStmt.t_all PgQuery__Node back x ->
  of_CreateEventTrigStmt of_node (to_CreateEventTrigStmt to_node x) = Ok x.
Proof. back_struct. Qed.
#[local] Hint Resolve back_CreateEventTrigStmt : back.

Lemma back_AlterEventTrigStmt x : PgQuery__AlterEventTrigStmt.t_all PgQuery__Node back x ->
  of_AlterEventTrigStmt (to_AlterEventTrigStmt x) = Ok x.
Proof. back_struct. Qed.
#[local] Hint Resolve back_AlterEventTrigStmt : back.

Lemma back_CreatePLangStmt x : PgQuery__CreatePLangStmt.t_all PgQuery__Node back x ->
  of_CreatePLangStmt of_node (to_CreatePLangStmt to_node x) = Ok x.
Proof. back_struct. Qed.
#[local] Hint Resolve back_CreatePLangStmt : back.

Lemma back_CreateRoleStmt x : PgQuery__CreateRoleStmt.t_all PgQuery__Node back x ->
  of_CreateRoleStmt of_node (to_CreateRoleStmt to_node x) = Ok x.
Proof. back_struct. Qed.
#[local] Hint Resolve back_CreateRoleStmt : back.

Lemma back_AlterRoleStmt x : PgQuery__AlterRoleStmt.t_all PgQuery__Node back x ->
  of_AlterRoleStmt of_node (to_AlterRoleStmt to_node x) = Ok x.
Proof. back_struct. Qed.
#[local] Hint Resolve back_AlterRoleStmt : back.

Lemma back_AlterRoleSetStmt x : PgQuery__AlterRoleSetStmt.t_all PgQuery__Node back x ->
  of_AlterRoleSetStmt of_node (to_AlterRoleSetStmt to_node x) = Ok x.
Proof. back_struct. Qed.
#[local] Hint Resolve back_AlterRoleSetStmt : back.

Lemma back_DropRoleStmt x : PgQuery__DropRoleStmt.t_all PgQuery__Node back x ->
  of_DropRoleStmt of_node (to_DropRoleStmt to_node x) = Ok x.
Proof. back_struct. Qed.
#[local] Hint Resolve back_DropRoleStmt : back.

Lemma back_CreateSeqStmt x : PgQuery__CreateSeqStmt.t_all PgQuery__Node back x ->
  of_CreateSeqStmt of_node (to_CreateSeqStmt to_node x) = Ok x.
Proof. back_struct. Qed.
#[local] Hint Resolve back_CreateSeqStmt : back.

Lemma back_AlterSeqStmt x : PgQuery__AlterSeqStmt.t_all PgQuery__Node back x ->
  of_AlterSeqStmt of_node (to_AlterSeqStmt to_node x) = Ok x.
Proof. back_struct. Qed.
#[local] Hint Resolve back_AlterSeqStmt : back.

Lemma back_DefineStmt x : PgQuery__DefineStmt.t_all PgQuery__Node back x ->
  of_DefineStmt of_node (to_DefineStmt to_node x) = Ok x.
Proof. back_struct. Qed.
#[local] Hint Resolve back_DefineStmt : back.

Lemma back_CreateDomainStmt x : PgQuery__CreateDomainStmt.t_all PgQuery__Node back x ->
  of_CreateDomainStmt of_node (to_CreateDomainStmt to_node x) = Ok x.
Proof. back_struct. Qed.
#[local] Hint Resolve back_CreateDomainStmt : back.

Lemma back_CreateOpClassStmt x : PgQuery__CreateOpClassStmt.t_all PgQuery__Node back x ->
  of_CreateOpClassStmt of_node (to_CreateOpClassStmt to_node x) = Ok x.
Proof. back_struct. Qed.
#[local] Hint Resolve back_CreateOpClassStmt : back.

Lemma back_CreateOpClassItem x : PgQuery__CreateOpClassItem.t_all PgQuery__Node back x ->
  of_CreateOpClassItem of_node (to_CreateOpClassItem to_node x) = Ok x.
Proof. back_struct. Qed.
#[local] Hint Resolve back_CreateOpClassItem : back.

Lemma back_CreateOpFamilyStmt x : PgQuery__CreateOpFamilyStmt.t_all PgQuery__Node back x ->
  of_CreateOpFamilyStmt of_node (to_CreateOpFamilyStmt to_node x) = Ok x.
Proof. back_struct. Qed.
#[local] Hint Resolve back_CreateOpFamilyStmt : back.

Lemma back_AlterOpFamilyStmt x : PgQuery__AlterOpFamilyStmt.t_all PgQuery__Node back x ->
  of_AlterOpFamilyStmt of_node (to_AlterOpFamilyStmt to_node x) = Ok x.
Proof. back_struct. Qed.
#[local] Hint Resolve back_AlterOpFamilyStmt : back.

Lemma back_DropStmt x : PgQuery__DropStmt.t_all PgQuery__Node back x ->
  of_DropStmt of_node (to_DropStmt to_node x) = Ok x.
Proof. back_struct. Qed.
#[local] Hint Resolve back_DropStmt : back.

Lemma back_TruncateStmt x : PgQuery__TruncateStmt.t_all PgQuery__Node back x ->
  of_TruncateStmt of_node (to_TruncateStmt to_node x) = Ok x.
Proof. back_struct. Qed.
#[local] Hint Resolve back_TruncateStmt : back.

Lemma back_CommentStmt x : PgQuery__CommentStmt.t_all PgQuery__Node back x ->
  of_CommentStmt of_node (to_CommentStmt to_node x) = Ok x.
Proof. back_struct. Qed.
#[local] Hint Resolve back_CommentStmt : back.

Lemma back_SecLabelStmt x : PgQuery__SecLabelStmt.t_all PgQuery__Node back x ->
  of_SecLabelStmt of_node (to_SecLabelStmt to_node x) = Ok x.
Proof. back_struct. Qed.
#[local] Hint Resolve back_SecLabelStmt : back.

Lemma back_DeclareCursorStmt x : PgQuery__DeclareCursorStmt.t_all PgQuery__Node back x ->
  of_DeclareCursorStmt of_node (to_DeclareCursorStmt to_node x) = Ok x.
Proof. back_struct. Qed.
#[local] Hint Resolve back_DeclareCursorStmt : back.

Lemma back_ClosePortalStmt x : PgQuery__ClosePortalStmt.t_all PgQuery__Node back x ->
  of_ClosePortalStmt (to_ClosePortalStmt x) = Ok x.
Proof. back_struct. Qed.
#[local] Hint Resolve back_ClosePortalStmt : back.

Lemma back_FetchStmt x : PgQuery__FetchStmt.t_all PgQuery__Node back x ->
  of_FetchStmt (to_FetchStmt x) = Ok x.
Proof. back_struct. Qed.
#[local] Hint Resolve back_FetchStmt : back.

Lemma back_IndexStmt x : PgQuery__IndexStmt.t_all PgQuery__Node back x ->
  of_IndexStmt of_node (to_IndexStmt to_node x) = Ok x.
Proof. back_struct. Qed.
#[local] Hint Resolve back_IndexStmt : back.

Lemma back_CreateStatsStmt x : PgQuery__CreateStatsStmt.t_all PgQuery__Node back x ->
  of_CreateStatsStmt of_node (to_CreateStatsStmt to_node x) = Ok x.
Proof. back_struct. Qed.
#[local] Hint Resolve back_CreateStatsStmt : back.

Lemma back_AlterStatsStmt x : PgQuery__AlterStatsStmt.t_all PgQuery__Node back x ->
  of_AlterStatsStmt of_node (to_AlterStatsStmt to_node x) = Ok x.
Proof. back_struct. Qed.
#[local] Hint Resolve back_AlterStatsStmt : back.

Lemma back_CreateFunctionStmt x : PgQuery__CreateFunctionStmt.t_all PgQuery__Node back x ->
  of_CreateFunctionStmt of_node (to_CreateFunctionStmt to_node x) = Ok x.
Proof. back_struct. Qed.
#[local] Hint Resolve back_CreateFunctionStmt : back.

Lemma back_FunctionParameter x : PgQuery__FunctionParameter.t_all PgQuery__Node back x ->
  of_FunctionParameter of_node (to_FunctionParameter to_node x) = Ok x.
Proof. back_struct. Qed.
#[local] Hint Resolve back_FunctionParameter : back.

Lemma back_AlterFunctionStmt x : PgQuery__AlterFunctionStmt.t_all PgQuery__Node back x ->
  of_AlterFunctionStmt of_node (to_AlterFunctionStmt to_node x) = Ok x.
Proof. back_struct. Qed.
#[local] Hint Resolve back_AlterFunctionStmt : back.

Lemma back_DoStmt x : PgQuery__DoStmt.t_all PgQuery__Node back x ->
  of_DoStmt of_node (to_DoStmt to_node x) = Ok x.
Proof. back_struct. Qed.
#[local] Hint Resolve back_DoStmt : back.

Lemma back_FuncExpr x : PgQuery__FuncExpr.t_all PgQuery__Node back x ->
  of_FuncExpr of_node (to_FuncExpr to_node x) = Ok x.
Proof. back_struct. Qed.
#[local] Hint Resolve back_FuncExpr : back.

Lemma back_CallStmt x : PgQuery__CallStmt.t_all PgQuery__Node back x ->
  of_CallStmt of_node (to_CallStmt to_node x) = Ok x.
Proof. back_struct. Qed.
#[local] Hint Resolve back_CallStmt : back.

Lemma back_RenameStmt x : PgQuery__RenameStmt.t_all PgQuery__Node back x ->
  of_RenameStmt of_node (to_RenameStmt to_node x) = Ok x.
Proof. back_struct. Qed.
#[local] Hint Resolve back_RenameStmt : back.

Lemma back_AlterObjectDependsStmt x : PgQuery__AlterObjectDependsStmt.t_all PgQuery__Node back x ->
  of_AlterObjectDependsStmt of_node (to_AlterObjectDependsStmt to_node x) = Ok x.
Proof. back_struct. Qed.
#[local] Hint Resolve back_AlterObjectDependsStmt : back.

Lemma back_AlterObjectSchemaStmt x : PgQuery__AlterObjectSchemaStmt.t_all PgQuery__Node back x ->
  of_AlterObjectSchemaStmt of_node (to_AlterObjectSchemaStmt to_node x) = Ok x.
Proof. back_struct. Qed.
#[local] Hint Resolve back_AlterObjectSchemaStmt : back.

Lemma back_AlterOwnerStmt x : PgQuery__AlterOwnerStmt.t_all PgQuery__Node back x ->
  of_AlterOwnerStmt of_node (to_AlterOwnerStmt to_node x) = Ok x.
Proof. back_struct. Qed.
#[local] Hint Resolve back_AlterOwnerStmt : back.

Lemma back_AlterOperatorStmt x : PgQuery__AlterOperatorStmt.t_all PgQuery__Node back x ->
  of_AlterOperatorStmt of_node (to_AlterOperatorStmt to_node x) = Ok x.
Proof. back_struct. Qed.
#[local] Hint Resolve back_AlterOperatorStmt : back.

Lemma back_AlterTypeStmt x : PgQuery__AlterTypeStmt.t_all PgQuery__Node back x ->
  of_AlterTypeStmt of_node (to_AlterTypeStmt to_node x) = Ok x.
Proof. back_struct. Qed.
#[local] Hint Resolve back_AlterTypeStmt : back.

Lemma back_RuleStmt x : PgQuery__RuleStmt.t_all PgQuery__Node back x ->
  of_RuleStmt of_node (to_RuleStmt to_node x) = Ok x.
Proof. back_struct. Qed.
#[local] Hint Resolve back_RuleStmt : back.

Lemma back_NotifyStmt x : PgQuery__NotifyStmt.t_all PgQuery__Node back x ->
  of_NotifyStmt (to_NotifyStmt x) = Ok x.
Proof. back_struct. Qed.
#[local] Hint Resolve back_NotifyStmt : back.

Lemma back_ListenStmt x : PgQuery__ListenStmt.t_all PgQuery__Node back x ->
  of_ListenStmt (to_ListenStmt x) = Ok x.
Proof. back_struct. Qed.
#[local] Hint Resolve back_ListenStmt : back.

Lemma back_UnlistenStmt x : PgQuery__UnlistenStmt.t_all PgQuery__Node back x ->
  of_UnlistenStmt (to_UnlistenStmt x) = Ok x.
Proof. back_struct. Qed.
#[local] Hint Resolve back_UnlistenStmt : back.

Lemma back_TransactionStmt x : PgQuery__TransactionStmt.t_all PgQuery__Node back x ->
  of_TransactionStmt of_node (to_TransactionStmt to_node x) = Ok x.
Proof. back_struct. Qed.
#[local] Hint Resolve back_TransactionStmt : back.

Lemma back_CompositeTypeStmt x : PgQuery__CompositeTypeStmt.t_all PgQuery__Node back x ->
  of_CompositeTypeStmt of_node (to_CompositeTypeStmt to_node x) = Ok x.
Proof. back_struct. Qed.
#[local] Hint Resolve back_CompositeTypeStmt : back.

Lemma back_CreateEnumStmt x : PgQuery__CreateEnumStmt.t_all PgQuery__Node back x ->
  of_CreateEnumStmt of_node (to_CreateEnumStmt to_node x) = Ok x.
Proof. back_struct. Qed.
#[local] Hint Resolve back_CreateEnumStmt : back.

Lemma back_CreateRangeStmt x : PgQuery__CreateRangeStmt.t_all PgQuery__Node back x ->
  of_CreateRangeStmt of_node (to_CreateRangeStmt to_node x) = Ok x.
Proof. back_struct. Qed.
#[local] Hint Resolve back_CreateRangeStmt : back.

Lemma back_AlterEnumStmt x : PgQuery__AlterEnumStmt.t_all PgQuery__Node back x ->
  of_AlterEnumStmt of_node (to_AlterEnumStmt to_node x) = Ok x.
Proof. back_struct. Qed.
#[local] Hint Resolve back_AlterEnumStmt : back.

Lemma back_ViewStmt x : PgQuery__ViewStmt.t_all PgQuery__Node back x ->
  of_ViewStmt of_node (to_ViewStmt to_node x) = Ok x.
Proof. back_struct. Qed.
#[local] Hint Resolve back_ViewStmt : back.

Lemma back_LoadStmt x : PgQuery__LoadStmt.t_all PgQuery__Node back x -> of_LoadStmt (to_LoadStmt x) = Ok x.
Proof. back_struct. Qed.
#[local] Hint Resolve back_LoadStmt : back.

Lemma back_CreatedbStmt x : PgQuery__CreatedbStmt.t_all PgQuery__Node back x ->
  of_CreatedbStmt of_node (to_CreatedbStmt to_node x) = Ok x.
Proof. back_struct. Qed.
#[local] Hint Resolve back_CreatedbStmt : back.

Lemma back_AlterDatabaseStmt x : PgQuery__AlterDatabaseStmt.t_all PgQuery__Node back x ->
  of_AlterDatabaseStmt of_node (to_AlterDatabaseStmt to_node x) = Ok x.
Proof. back_struct. Qed.
#[local] Hint Resolve back_AlterDatabaseStmt : back.

Lemma back_AlterDatabaseSetStmt x : PgQuery__AlterDatabaseSetStmt.t_all PgQuery__Node back x ->
  of_AlterDatabaseSetStmt of_node (to_AlterDatabaseSetStmt to_node x) = Ok x.
Proof. back_struct. Qed.
#[local] Hint Resolve back_AlterDatabaseSetStmt : back.

Lemma back_DropdbStmt x : PgQuery__DropdbStmt.t_all PgQuery__Node back x ->
  of_DropdbStmt of_node (to_DropdbStmt to_node x) = Ok x.
Proof. back_struct. Qed.
#[local] Hint Resolve back_DropdbStmt : back.

Lemma back_AlterSystemStmt x : PgQuery__AlterSystemStmt.t_all PgQuery__Node back x ->
  of_AlterSystemStmt of_node (to_AlterSystemStmt to_node x) = Ok x.
Proof. back_struct. Qed.
#[local] Hint Resolve back_AlterSystemStmt : back.

Lemma back_ClusterStmt x : PgQuery__ClusterStmt.t_all PgQuery__Node back x ->
  of_ClusterStmt of_node (to_ClusterStmt to_node x) = Ok x.
Proof. back_struct. Qed.
#[local] Hint Resolve back_ClusterStmt : back.

Lemma back_VacuumStmt x : PgQuery__VacuumStmt.t_all PgQuery__Node back x ->
  of_VacuumStmt of_node (to_VacuumStmt to_node x) = Ok x.
Proof. back_struct. Qed.
#[local] Hint Resolve back_VacuumStmt : back.

Lemma back_VacuumRelation x : PgQuery__VacuumRelation.t_all PgQuery__Node back x ->
  of_VacuumRelation of_node (to_VacuumRelation to_node x) = Ok x.
Proof. back_struct. Qed.
#[local] Hint Resolve back_VacuumRelation : back.

Lemma back_ExplainStmt x : PgQuery__ExplainStmt.t_all PgQuery__Node back x ->
  of_ExplainStmt of_node (to_ExplainStmt to_node x) = Ok x.
Proof. back_struct. Qed.
#[local] Hint Resolve back_ExplainStmt : back.

Lemma back_CreateTableAsStmt x : PgQuery__CreateTableAsStmt.t_all PgQuery__Node back x ->
  of_CreateTableAsStmt of_node (to_CreateTableAsStmt to_node x) = Ok x.
Proof. back_struct. Qed.
#[local] Hint Resolve back_CreateTableAsStmt : back.

Lemma back_RefreshMatViewStmt x : PgQuery__RefreshMatViewStmt.t_all PgQuery__Node back x ->
  of_RefreshMatViewStmt of_node (to_RefreshMatViewStmt to_node x) = Ok x.
Proof. back_struct. Qed.
#[local] Hint Resolve back_RefreshMatViewStmt : back.

Lemma back_CheckPointStmt x : PgQuery__CheckPointStmt.t_all PgQuery__Node back x ->
  of_CheckPointStmt (to_CheckPointStmt x) = Ok x.
Proof. back_struct. Qed.
#[local] Hint Resolve back_CheckPointStmt : back.

Lemma back_DiscardStmt x : PgQuery__DiscardStmt.t_all PgQuery__Node back x ->
  of_DiscardStmt (to_DiscardStmt x) = Ok x.
Proof. back_struct. Qed.
#[local] Hint Resolve back_DiscardStmt : back.

Lemma back_LockStmt x : PgQuery__LockStmt.t_all PgQuery__Node back x ->
  of_LockStmt of_node (to_LockStmt to_node x) = Ok x.
Proof. back_struct. Qed.
#[local] Hint Resolve back_LockStmt : back.

Lemma back_ConstraintsSetStmt x : PgQuery__ConstraintsSetStmt.t_all PgQuery__Node back x ->
  of_ConstraintsSetStmt of_node (to_ConstraintsSetStmt to_node x) = Ok x.
Proof. back_struct. Qed.
#[local] Hint Resolve back_ConstraintsSetStmt : back.

Lemma back_ReindexStmt x : PgQuery__ReindexStmt.t_all PgQuery__Node back x ->
  of_ReindexStmt of_node (to_ReindexStmt to_node x) = Ok x.
Proof. back_struct. Qed.
#[local] Hint Resolve back_ReindexStmt : back.

Lemma back_CreateConversionStmt x : PgQuery__CreateConversionStmt.t_all PgQuery__Node back x ->
  of_CreateConversionStmt of_node (to_CreateConversionStmt to_node x) = Ok x.
Proof. back_struct. Qed.
#[local] Hint Resolve back_CreateConversionStmt : back.

Lemma back_CreateCastStmt x : PgQuery__CreateCastStmt.t_all PgQuery__Node back x ->
  of_CreateCastStmt of_node (to_CreateCastStmt to_node x) = Ok x.
Proof. back_struct. Qed.
#[local] Hint Resolve back_CreateCastStmt : back.

Lemma back_CreateTransformStmt x : PgQuery__CreateTransformStmt.t_all PgQuery__Node back x ->
  of_CreateTransformStmt of_node (to_CreateTransformStmt to_node x) = Ok x.
Proof. back_struct. Qed.
#[local] Hint Resolve back_CreateTransformStmt : back.

Lemma back_PrepareStmt x : PgQuery__PrepareStmt.t_all PgQuery__Node back x ->
  of_PrepareStmt of_node (to_PrepareStmt to_node x) = Ok x.
Proof. back_struct. Qed.
#[local] Hint Resolve back_PrepareStmt : back.

Lemma back_ExecuteStmt x : PgQuery__ExecuteStmt.t_all PgQuery__Node back x ->
  of_ExecuteStmt of_node (to_ExecuteStmt to_node x) = Ok x.
Proof. back_struct. Qed.
#[local] Hint Resolve back_ExecuteStmt : back.

Lemma back_DeallocateStmt x : PgQuery__DeallocateStmt.t_all PgQuery__Node back x ->
  of_DeallocateStmt (to_DeallocateStmt x) = Ok x.
Proof. back_struct. Qed.
#[local] Hint Resolve back_DeallocateStmt : back.

Lemma back_DropOwnedStmt x : PgQuery__DropOwnedStmt.t_all PgQuery__Node back x ->
  of_DropOwnedStmt of_node (to_DropOwnedStmt to_node x) = Ok x.
Proof. back_struct. Qed.
#[local] Hint Resolve back_DropOwnedStmt : back.

Lemma back_ReassignOwnedStmt x : PgQuery__ReassignOwnedStmt.t_all PgQuery__Node back x ->
  of_ReassignOwnedStmt of_node (to_ReassignOwnedStmt to_node x) = Ok x.
Proof. back_struct. Qed.
#[local] Hint Resolve back_ReassignOwnedStmt : back.

Lemma back_AlterTSDictionaryStmt x : PgQuery__AlterTSDictionaryStmt.t_all PgQuery__Node back x ->
  of_AlterTSDictionaryStmt of_node (to_AlterTSDictionaryStmt to_node x) = Ok x.
Proof. back_struct. Qed.
#[local] Hint Resolve back_AlterTSDictionaryStmt : back.

Lemma back_AlterTSConfigurationStmt x : PgQuery__AlterTSConfigurationStmt.t_all PgQuery__Node back x ->
  of_AlterTSConfigurationStmt of_node (to_AlterTSConfigurationStmt to_node x) = Ok x.
Proof. back_struct. Qed.
#[local] Hint Resolve back_AlterTSConfigurationStmt : back.

Lemma back_CreatePublicationStmt x : PgQuery__CreatePublicationStmt.t_all PgQuery__Node back x ->
  of_CreatePublicationStmt of_node (to_CreatePublicationStmt to_node x) = Ok x.
Proof. back_struct. Qed.
#[local] Hint Resolve back_CreatePublicationStmt : back.

Lemma back_AlterPublicationStmt x : PgQuery__AlterPublicationStmt.t_all PgQuery__Node back x ->
  of_AlterPublicationStmt of_node (to_AlterPublicationStmt to_node x) = Ok x.
Proof. back_struct. Qed.
#[local] Hint Resolve back_AlterPublicationStmt : back.

Lemma back_CreateSubscriptionStmt x : PgQuery__CreateSubscriptionStmt.t_all PgQuery__Node back x ->
  of_CreateSubscriptionStmt of_node (to_CreateSubscriptionStmt to_node x) = Ok x.
Proof. back_struct. Qed.
#[local] Hint Resolve back_CreateSubscriptionStmt : back.

Lemma back_AlterSubscriptionStmt x : PgQuery__AlterSubscriptionStmt.t_all PgQuery__Node back x ->
  of_AlterSubscriptionStmt of_node (to_AlterSubscriptionStmt to_node x) = Ok x.
Proof. back_struct. Qed.
#[local] Hint Resolve back_AlterSubscriptionStmt : back.

Lemma back_DropSubscriptionStmt x : PgQuery__DropSubscriptionStmt.t_all PgQuery__Node back x ->
  of_DropSubscriptionStmt (to_DropSubscriptionStmt x) = Ok x.
Proof. back_struct. Qed.
#[local] Hint Resolve back_DropSubscriptionStmt : back.

Lemma to_node_eq n : to_node n = to_union to_node n.
Proof. by destruct n. Qed.

Lemma of_node_eq node_case d ms us us' :
  of_node (Message pg_query__node__descriptor [Int node_case; Msg (Some (Message d ms us))] us') =
  of_union of_node of_node node_case d ms.
Proof. done. Qed.

Lemma back_case {A} (r : outcome A) (node : A -> PgQuery__Node) x : r = Ok x -> (let* y := r in Ok (node y)) = Ok (node x).
Proof. by intros ->. Qed.

Ltac back_union :=
  unfold back; rewrite to_node_eq; unfold to_union, s_node, s_msg; rewrite of_node_eq; unfold of_union;
  cbv beta iota zeta; match goal with |- context [?a =? ?b] => change (a =? b) with true end; cbv beta iota; apply back_case.

(** Every message is read back. *)
Lemma back_all n : back n.
Proof.
  induction n; try (back_union; first [by eauto with back | apply back_str | by apply back_nodes]); done.
Qed.

Definition parse_result (m : PgQuery__ParseResult.t) : struct :=
  s_msg pg_query__parse_result__descriptor (to_ParseResult to_node) m.

Lemma back_parse_result m :
  o_msg pg_query__parse_result__descriptor (of_ParseResult of_node) (parse_result m) = Ok m.
Proof.
  apply back_msg. destruct m as [version stmts]. unfold of_ParseResult, to_ParseResult.
  eapply back_bind; [by apply back_int|]. eapply back_bind; [|reflexivity].
  apply back_array, Forall_forall. intros x _. apply back_msg, back_RawStmt.
  destruct x as [[n|] ? ?]; repeat constructor; apply back_all.
Qed.

(** ** The coding of messages *)

(** What the entry points need of a coding in [W]: [carries] tells the messages that it
    does not change. *)
Class Wire (W : Type) : Type := {
  parse_result__pack : PgQuery__ParseResult.t -> outcome W;
  parse_result__unpack : W -> outcome (option PgQuery__ParseResult.t);
  carries : PgQuery__ParseResult.t -> bool
}.

Class WireLaws (W : Type) `{Wire W} : Prop := {
  unpack_pack m : carries m = true ->
    exists w, parse_result__pack m = Ok w /\ parse_result__unpack w = Ok (Some m);
  carries_nothing : carries (PgQuery__ParseResult.mk PG_VERSION_NUM []) = true
}.

(** The message as its own coding. *)
#[export] Instance message_wire : Wire PgQuery__ParseResult.t := {
  parse_result__pack m := Ok m;
  parse_result__unpack m := Ok (Some m);
  carries m := true
}.
#[export] Instance message_wire_laws : WireLaws PgQuery__ParseResult.t.
Proof. split; [|done]. intros m _. by exists m. Qed.

(** ** The bytes of the library *)

Definition pg_query__parse_result__get_packed_size (m : PgQuery__ParseResult.t) : outcome Z :=
  protobuf_c_message_get_packed_size descriptors (parse_result m).
Definition pg_query__parse_result__pack (m : PgQuery__ParseResult.t) : outcome bytes :=
  protobuf_c_message_pack descriptors (parse_result m).
Definition pg_query__parse_result__unpack (data : bytes) : outcome (option PgQuery__ParseResult.t) :=
  let* m := protobuf_c_message_unpack descriptors pg_query__parse_result__descriptor data in
  match m with
  | Some m =>
      let* result := o_msg pg_query__parse_result__descriptor (of_ParseResult of_node) m in Ok (Some result)
  | None => Ok None
  end.

(** Strings without a zero byte, numbers in the range of their type, and not too many
    bytes for the slabs of the scan. *)
Definition packable (m : PgQuery__ParseResult.t) : bool :=
  fits descriptors (parse_result m) &&
  match pg_query__parse_result__get_packed_size m with Ok n => n <=? max_members | _ => false end.

#[export] Instance bytes_wire : Wire bytes := {
  parse_result__pack := pg_query__parse_result__pack;
  parse_result__unpack := pg_query__parse_result__unpack;
  carries := packable
}.

Lemma parse_result_unpack_pack m : packable m = true ->
  exists bs, pg_query__parse_result__pack m = Ok bs /\ pg_query__parse_result__unpack bs = Ok (Some m).
Proof.
  unfold packable, pg_query__parse_result__get_packed_size. intros [Hfit Hs]%andb_prop.
  destruct (message_sized descriptors descriptors_wf _ _ _ Hfit) as (n & E & Hn & Hp).
  rewrite E in Hs. apply Z.leb_le in Hs. pose proof Hs as Hs'. unfold max_members in Hs'.
  destruct Hp as (bs & Ebs & Hl); [lia|]. exists bs. split; [done|].
  unfold pg_query__parse_result__unpack. rewrite <- Hl in Hs.
  pose proof (pack_unpack descriptors descriptors_wf _ _ Hfit Ebs Hs) as E'. cbn [parse_result s_msg message_descriptor] in E'.
  rewrite E'. cbn [obind]. by rewrite back_parse_result.
Qed.

#[export] Instance bytes_wire_laws : WireLaws bytes.
Proof. split; [exact parse_result_unpack_pack|by vm_compute]. Qed.
