(* ===== verification/ProtobufRound.v ===== *)
(** * A tree is read back from its message

    [round out read x]: [out] makes a message of [x] and [read] makes [x] of the
    message.  For every field macro, and by induction for every [kept] tree. *)
From S2P Require Import Prelude Buffer Enums Nodes EnumDefs Messages ProtobufOut ProtobufRead TreeCheck.

Definition round {A M} (out : A -> outcome M) (read : M -> outcome A) (x : A) : Prop :=
  exists m, out x = Ok m /\ read m = Ok x.

(** [kept n]: the tree [n] has no empty string in a field (where the message has an
    empty string for a null pointer), no list of integers and no pointer to NIL. *)
Definition kept_string (s : option string) : bool :=
  match s with Some EmptyString => false | _ => true end.
Definition kept_ints (l : list Z) : bool := match l with [] => true | _ => false end.
Definition keep : field_checks := mkChecks kept_string (fun _ => true) kept_ints false.
Abbreviation kept := (check keep).

Definition good (n : Node) : Prop := kept n = true -> round _outNode _readNode n.

(** ** Fields *)

Lemma round_char c : READ_CHAR_FIELD (WRITE_CHAR_FIELD c) = c.
Proof. unfold WRITE_CHAR_FIELD. by case_bool_decide as E; [subst c|]. Qed.

Lemma round_string s : kept_string s = true -> READ_STRING_FIELD (WRITE_STRING_FIELD s) = s.
Proof. by destruct s as [[]|]. Qed.

Lemma round_ints l : kept_ints l = true -> round WRITE_INT_LIST_FIELD READ_INT_LIST_FIELD l.
Proof. destruct l; [|done]. intros _. by exists []. Qed.

Lemma round_value v : READ_VALUE_FIELD _readNode (WRITE_NODE_FIELD v) = Ok v.
Proof. by destruct v. Qed.

Lemma round_list l : list_all Node good l -> check_list kept l = true ->
  round (WRITE_LIST_FIELD _outNode) (READ_LIST_FIELD _readNode) l.
Proof.
  induction 1 as [|n Hn l _ IH]; [by exists []|].
  intros [Hk Hl]%andb_true_iff. destruct (Hn Hk) as (m & E1 & E2). destruct (IH Hl) as (ms & E3 & E4).
  unfold WRITE_LIST_FIELD, READ_LIST_FIELD in *. exists (m :: ms). cbn.
  by rewrite E1, E2; cbn; rewrite E3, E4.
Qed.

Lemma round_ptr p : option_all Node good p -> check_ptr keep kept p = true ->
  round (WRITE_NODE_PTR_FIELD _outNode) (READ_NODE_PTR_FIELD _readNode) p.
Proof.
  intros [n Hn|] Hp; [|by exists None].
  assert (Hk : kept n = true /\ node_ptr n = Some n).
  { destruct n; try done. by destruct l. }
  destruct Hk as [Hk Hs]. destruct (Hn Hk) as (m & E1 & E2). exists (Some m). cbn.
  rewrite E1, E2. cbn. by rewrite Hs.
Qed.

Lemma round_select p : option_all Node good p -> check_select kept p = true ->
  round (WRITE_SELECT_PTR_FIELD _outNode) (READ_SELECT_PTR_FIELD _readNode) p.
Proof.
  intros [n Hn|] Hp; [|by exists None]. apply andb_true_iff in Hp as [Hs Hk].
  destruct (Hn Hk) as (m & E1 & E2). exists (Some m). cbn. rewrite Hs, E1. split; [done|].
  destruct n; try done. cbn in E1. destruct (_outSelectStmt _ _); try done. injection E1 as <-. by rewrite E2.
Qed.

Lemma round_struct {A M} (P : A -> Type) (k : A -> bool) (out : A -> outcome M) (read : M -> outcome A) p :
  (forall x, P x -> k x = true -> round out read x) -> option_all A P p -> check_struct k p = true ->
  round (WRITE_SPECIFIC_NODE_PTR_FIELD out) (READ_SPECIFIC_NODE_PTR_FIELD read) p.
Proof.
  intros Hr [x Hx|] Hk; [|by exists None]. destruct (Hr x Hx Hk) as (m & E1 & E2).
  exists (Some m). cbn. by rewrite E1, E2.
Qed.

Lemma round_plain {A M} (P : A -> Type) (out : A -> outcome M) (read : M -> outcome A) p :
  (forall x, P x -> round out read x) -> option_all A P p ->
  round (WRITE_SPECIFIC_NODE_PTR_FIELD out) (READ_SPECIFIC_NODE_PTR_FIELD read) p.
Proof. intros Hr Hp. apply (round_struct P (fun _ => true)); auto. by destruct p. Qed.

(** ** Structs *)

Create HintDb round.

Ltac simpl_messages :=
  cbn [PgQuery__Alias.aliasname PgQuery__Alias.colnames PgQuery__RangeVar.catalogname
    PgQuery__RangeVar.schemaname PgQuery__RangeVar.relname PgQuery__RangeVar.inh
    PgQuery__RangeVar.relpersistence PgQuery__RangeVar.alias PgQuery__RangeVar.location
    PgQuery__TypeName.names PgQuery__TypeName.type_oid PgQuery__TypeName.setof
    PgQuery__TypeName.pct_type PgQuery__TypeName.typmods PgQuery__TypeName.typemod
    PgQuery__TypeName.array_bounds PgQuery__TypeName.location PgQuery__ColumnRef.fields
    PgQuery__ColumnRef.location PgQuery__ParamRef.number PgQuery__ParamRef.location
    PgQuery__AExpr.kind PgQuery__AExpr.name PgQuery__AExpr.lexpr PgQuery__AExpr.rexpr
    PgQuery__AExpr.location PgQuery__AConst.val PgQuery__AConst.location PgQuery__TypeCast.arg
    PgQuery__TypeCast.type_name PgQuery__TypeCast.location PgQuery__CollateClause.arg
    PgQuery__CollateClause.collname PgQuery__CollateClause.location PgQuery__RoleSpec.roletype
    PgQuery__RoleSpec.rolename PgQuery__RoleSpec.location PgQuery__WindowDef.name
    PgQuery__WindowDef.refname PgQuery__WindowDef.partition_clause
    PgQuery__WindowDef.order_clause PgQuery__WindowDef.frame_options
    PgQuery__WindowDef.start_offset PgQuery__WindowDef.end_offset PgQuery__WindowDef.location
    PgQuery__SortBy.node PgQuery__SortBy.sortby_dir PgQuery__SortBy.sortby_nulls
    PgQuery__SortBy.use_op PgQuery__SortBy.location PgQuery__FuncCall.funcname
    PgQuery__FuncCall.args PgQuery__FuncCall.agg_order PgQuery__FuncCall.agg_filter
    PgQuery__FuncCall.agg_within_group PgQuery__FuncCall.agg_star PgQuery__FuncCall.agg_distinct
    PgQuery__FuncCall.func_variadic PgQuery__FuncCall.over PgQuery__FuncCall.location
    PgQuery__AIndices.is_slice PgQuery__AIndices.lidx PgQuery__AIndices.uidx
    PgQuery__AIndirection.arg PgQuery__AIndirection.indirection PgQuery__AArrayExpr.elements
    PgQuery__AArrayExpr.location PgQuery__ResTarget.name PgQuery__ResTarget.indirection
    PgQuery__ResTarget.val PgQuery__ResTarget.location PgQuery__MultiAssignRef.source
    PgQuery__MultiAssignRef.colno PgQuery__MultiAssignRef.ncolumns PgQuery__NamedArgExpr.xpr
    PgQuery__NamedArgExpr.arg PgQuery__NamedArgExpr.name PgQuery__NamedArgExpr.argnumber
    PgQuery__NamedArgExpr.location PgQuery__BoolExpr.xpr PgQuery__BoolExpr.boolop
    PgQuery__BoolExpr.args PgQuery__BoolExpr.location PgQuery__SubLink.xpr
    PgQuery__SubLink.sub_link_type PgQuery__SubLink.sub_link_id PgQuery__SubLink.testexpr
    PgQuery__SubLink.oper_name PgQuery__SubLink.subselect PgQuery__SubLink.location
    PgQuery__CaseWhen.xpr PgQuery__CaseWhen.expr PgQuery__CaseWhen.result
    PgQuery__CaseWhen.location PgQuery__CaseExpr.xpr PgQuery__CaseExpr.casetype
    PgQuery__CaseExpr.casecollid PgQuery__CaseExpr.arg PgQuery__CaseExpr.args
    PgQuery__CaseExpr.defresult PgQuery__CaseExpr.location PgQuery__RowExpr.xpr
    PgQuery__RowExpr.args PgQuery__RowExpr.row_typeid PgQuery__RowExpr.row_format
    PgQuery__RowExpr.colnames PgQuery__RowExpr.location PgQuery__CoalesceExpr.xpr
    PgQuery__CoalesceExpr.coalescetype PgQuery__CoalesceExpr.coalescecollid
    PgQuery__CoalesceExpr.args PgQuery__CoalesceExpr.location PgQuery__MinMaxExpr.xpr
    PgQuery__MinMaxExpr.minmaxtype PgQuery__MinMaxExpr.minmaxcollid
    PgQuery__MinMaxExpr.inputcollid PgQuery__MinMaxExpr.op PgQuery__MinMaxExpr.args
    PgQuery__MinMaxExpr.location PgQuery__SQLValueFunction.xpr PgQuery__SQLValueFunction.op
    PgQuery__SQLValueFunction.type_ PgQuery__SQLValueFunction.typmod
    PgQuery__SQLValueFunction.location PgQuery__XmlExpr.xpr PgQuery__XmlExpr.op
    PgQuery__XmlExpr.name PgQuery__XmlExpr.named_args PgQuery__XmlExpr.arg_names
    PgQuery__XmlExpr.args PgQuery__XmlExpr.xmloption PgQuery__XmlExpr.type_
    PgQuery__XmlExpr.typmod PgQuery__XmlExpr.location PgQuery__XmlSerialize.xmloption
    PgQuery__XmlSerialize.expr PgQuery__XmlSerialize.type_name PgQuery__XmlSerialize.location
    PgQuery__NullTest.xpr PgQuery__NullTest.arg PgQuery__NullTest.nulltesttype
    PgQuery__NullTest.argisrow PgQuery__NullTest.location PgQuery__BooleanTest.xpr
    PgQuery__BooleanTest.arg PgQuery__BooleanTest.booltesttype PgQuery__BooleanTest.location
    PgQuery__SetToDefault.xpr PgQuery__SetToDefault.type_id PgQuery__SetToDefault.type_mod
    PgQuery__SetToDefault.collation PgQuery__SetToDefault.location PgQuery__CurrentOfExpr.xpr
    PgQuery__CurrentOfExpr.cvarno PgQuery__CurrentOfExpr.cursor_name
    PgQuery__CurrentOfExpr.cursor_param PgQuery__GroupingFunc.xpr PgQuery__GroupingFunc.args
    PgQuery__GroupingFunc.refs PgQuery__GroupingFunc.cols PgQuery__GroupingFunc.agglevelsup
    PgQuery__GroupingFunc.location PgQuery__DefElem.defnamespace PgQuery__DefElem.defname
    PgQuery__DefElem.arg PgQuery__DefElem.defaction PgQuery__DefElem.location
    PgQuery__IndexElem.name PgQuery__IndexElem.expr PgQuery__IndexElem.indexcolname
    PgQuery__IndexElem.collation PgQuery__IndexElem.opclass PgQuery__IndexElem.opclassopts
    PgQuery__IndexElem.ordering PgQuery__IndexElem.nulls_ordering PgQuery__Constraint.contype
    PgQuery__Constraint.conname PgQuery__Constraint.deferrable PgQuery__Constraint.initdeferred
    PgQuery__Constraint.location PgQuery__Constraint.is_no_inherit PgQuery__Constraint.raw_expr
    PgQuery__Constraint.cooked_expr PgQuery__Constraint.generated_when PgQuery__Constraint.keys
    PgQuery__Constraint.including PgQuery__Constraint.exclusions PgQuery__Constraint.options
    PgQuery__Constraint.indexname PgQuery__Constraint.indexspace
    PgQuery__Constraint.reset_default_tblspc PgQuery__Constraint.access_method
    PgQuery__Constraint.where_clause PgQuery__Constraint.pktable PgQuery__Constraint.fk_attrs
    PgQuery__Constraint.pk_attrs PgQuery__Constraint.fk_matchtype
    PgQuery__Constraint.fk_upd_action PgQuery__Constraint.fk_del_action
    PgQuery__Constraint.old_conpfeqop PgQuery__Constraint.old_pktable_oid
    PgQuery__Constraint.skip_validation PgQuery__Constraint.initially_valid
    PgQuery__ColumnDef.colname PgQuery__ColumnDef.type_name PgQuery__ColumnDef.inhcount
    PgQuery__ColumnDef.is_local PgQuery__ColumnDef.is_not_null PgQuery__ColumnDef.is_from_type
    PgQuery__ColumnDef.storage PgQuery__ColumnDef.raw_default PgQuery__ColumnDef.cooked_default
    PgQuery__ColumnDef.identity PgQuery__ColumnDef.identity_sequence
    PgQuery__ColumnDef.generated PgQuery__ColumnDef.coll_clause PgQuery__ColumnDef.coll_oid
    PgQuery__ColumnDef.constraints PgQuery__ColumnDef.fdwoptions PgQuery__ColumnDef.location
    PgQuery__JoinExpr.jointype PgQuery__JoinExpr.is_natural PgQuery__JoinExpr.larg
    PgQuery__JoinExpr.rarg PgQuery__JoinExpr.using_clause PgQuery__JoinExpr.quals
    PgQuery__JoinExpr.alias PgQuery__JoinExpr.rtindex PgQuery__RangeSubselect.lateral
    PgQuery__RangeSubselect.subquery PgQuery__RangeSubselect.alias
    PgQuery__RangeFunction.lateral PgQuery__RangeFunction.ordinality
    PgQuery__RangeFunction.is_rowsfrom PgQuery__RangeFunction.functions
    PgQuery__RangeFunction.alias PgQuery__RangeFunction.coldeflist
    PgQuery__RangeTableFuncCol.colname PgQuery__RangeTableFuncCol.type_name
    PgQuery__RangeTableFuncCol.for_ordinality PgQuery__RangeTableFuncCol.is_not_null
    PgQuery__RangeTableFuncCol.colexpr PgQuery__RangeTableFuncCol.coldefexpr
    PgQuery__RangeTableFuncCol.location PgQuery__RangeTableFunc.lateral
    PgQuery__RangeTableFunc.docexpr PgQuery__RangeTableFunc.rowexpr
    PgQuery__RangeTableFunc.namespaces PgQuery__RangeTableFunc.columns
    PgQuery__RangeTableFunc.alias PgQuery__RangeTableFunc.location
    PgQuery__RangeTableSample.relation PgQuery__RangeTableSample.method
    PgQuery__RangeTableSample.args PgQuery__RangeTableSample.repeatable
    PgQuery__RangeTableSample.location PgQuery__CommonTableExpr.ctename
    PgQuery__CommonTableExpr.aliascolnames PgQuery__CommonTableExpr.ctematerialized
    PgQuery__CommonTableExpr.ctequery PgQuery__CommonTableExpr.location
    PgQuery__CommonTableExpr.cterecursive PgQuery__CommonTableExpr.cterefcount
    PgQuery__CommonTableExpr.ctecolnames PgQuery__CommonTableExpr.ctecoltypes
    PgQuery__CommonTableExpr.ctecoltypmods PgQuery__CommonTableExpr.ctecolcollations
    PgQuery__WithClause.ctes PgQuery__WithClause.recursive PgQuery__WithClause.location
    PgQuery__InferClause.index_elems PgQuery__InferClause.where_clause
    PgQuery__InferClause.conname PgQuery__InferClause.location PgQuery__OnConflictClause.action
    PgQuery__OnConflictClause.infer PgQuery__OnConflictClause.target_list
    PgQuery__OnConflictClause.where_clause PgQuery__OnConflictClause.location
    PgQuery__LockingClause.locked_rels PgQuery__LockingClause.strength
    PgQuery__LockingClause.wait_policy PgQuery__GroupingSet.kind PgQuery__GroupingSet.content
    PgQuery__GroupingSet.location PgQuery__IntoClause.rel PgQuery__IntoClause.col_names
    PgQuery__IntoClause.access_method PgQuery__IntoClause.options PgQuery__IntoClause.on_commit
    PgQuery__IntoClause.table_space_name PgQuery__IntoClause.view_query
    PgQuery__IntoClause.skip_data PgQuery__SelectStmt.distinct_clause
    PgQuery__SelectStmt.into_clause PgQuery__SelectStmt.target_list
    PgQuery__SelectStmt.from_clause PgQuery__SelectStmt.where_clause
    PgQuery__SelectStmt.group_clause PgQuery__SelectStmt.having_clause
    PgQuery__SelectStmt.window_clause PgQuery__SelectStmt.values_lists
    PgQuery__SelectStmt.sort_clause PgQuery__SelectStmt.limit_offset
    PgQuery__SelectStmt.limit_count PgQuery__SelectStmt.limit_option
    PgQuery__SelectStmt.locking_clause PgQuery__SelectStmt.with_clause PgQuery__SelectStmt.op
    PgQuery__SelectStmt.all PgQuery__SelectStmt.larg PgQuery__SelectStmt.rarg
    PgQuery__InsertStmt.relation PgQuery__InsertStmt.cols PgQuery__InsertStmt.select_stmt
    PgQuery__InsertStmt.on_conflict_clause PgQuery__InsertStmt.returning_list
    PgQuery__InsertStmt.with_clause PgQuery__InsertStmt.override PgQuery__UpdateStmt.relation
    PgQuery__UpdateStmt.target_list PgQuery__UpdateStmt.where_clause
    PgQuery__UpdateStmt.from_clause PgQuery__UpdateStmt.returning_list
    PgQuery__UpdateStmt.with_clause PgQuery__DeleteStmt.relation
    PgQuery__DeleteStmt.using_clause PgQuery__DeleteStmt.where_clause
    PgQuery__DeleteStmt.returning_list PgQuery__DeleteStmt.with_clause PgQuery__RawStmt.stmt
    PgQuery__RawStmt.stmt_location PgQuery__RawStmt.stmt_len PgQuery__AlterTableCmd.subtype
    PgQuery__AlterTableCmd.name PgQuery__AlterTableCmd.num PgQuery__AlterTableCmd.newowner
    PgQuery__AlterTableCmd.def PgQuery__AlterTableCmd.behavior PgQuery__AlterTableCmd.missing_ok
    PgQuery__PartitionBoundSpec.strategy PgQuery__PartitionBoundSpec.is_default
    PgQuery__PartitionBoundSpec.modulus PgQuery__PartitionBoundSpec.remainder
    PgQuery__PartitionBoundSpec.listdatums PgQuery__PartitionBoundSpec.lowerdatums
    PgQuery__PartitionBoundSpec.upperdatums PgQuery__PartitionBoundSpec.location
    PgQuery__TableLikeClause.relation PgQuery__TableLikeClause.options
    PgQuery__TableLikeClause.relation_oid PgQuery__PartitionElem.name
    PgQuery__PartitionElem.expr PgQuery__PartitionElem.collation PgQuery__PartitionElem.opclass
    PgQuery__PartitionElem.location PgQuery__PartitionSpec.strategy
    PgQuery__PartitionSpec.part_params PgQuery__PartitionSpec.location
    PgQuery__PartitionCmd.name PgQuery__PartitionCmd.bound PgQuery__TriggerTransition.name
    PgQuery__TriggerTransition.is_new PgQuery__TriggerTransition.is_table
    PgQuery__CreateSchemaStmt.schemaname PgQuery__CreateSchemaStmt.authrole
    PgQuery__CreateSchemaStmt.schema_elts PgQuery__CreateSchemaStmt.if_not_exists
    PgQuery__AlterTableStmt.relation PgQuery__AlterTableStmt.cmds
    PgQuery__AlterTableStmt.relkind PgQuery__AlterTableStmt.missing_ok
    PgQuery__ReplicaIdentityStmt.identity_type PgQuery__ReplicaIdentityStmt.name
    PgQuery__AlterCollationStmt.collname PgQuery__AlterDomainStmt.subtype
    PgQuery__AlterDomainStmt.type_name PgQuery__AlterDomainStmt.name
    PgQuery__AlterDomainStmt.def PgQuery__AlterDomainStmt.behavior
    PgQuery__AlterDomainStmt.missing_ok PgQuery__GrantStmt.is_grant PgQuery__GrantStmt.targtype
    PgQuery__GrantStmt.objtype PgQuery__GrantStmt.objects PgQuery__GrantStmt.privileges
    PgQuery__GrantStmt.grantees PgQuery__GrantStmt.grant_option PgQuery__GrantStmt.behavior
    PgQuery__ObjectWithArgs.objname PgQuery__ObjectWithArgs.objargs
    PgQuery__ObjectWithArgs.args_unspecified PgQuery__AccessPriv.priv_name
    PgQuery__AccessPriv.cols PgQuery__GrantRoleStmt.granted_roles
    PgQuery__GrantRoleStmt.grantee_roles PgQuery__GrantRoleStmt.is_grant
    PgQuery__GrantRoleStmt.admin_opt PgQuery__GrantRoleStmt.grantor
    PgQuery__GrantRoleStmt.behavior PgQuery__AlterDefaultPrivilegesStmt.options
    PgQuery__AlterDefaultPrivilegesStmt.action PgQuery__CopyStmt.relation
    PgQuery__CopyStmt.query PgQuery__CopyStmt.attlist PgQuery__CopyStmt.is_from
    PgQuery__CopyStmt.is_program PgQuery__CopyStmt.filename PgQuery__CopyStmt.options
    PgQuery__CopyStmt.where_clause PgQuery__VariableSetStmt.kind PgQuery__VariableSetStmt.name
    PgQuery__VariableSetStmt.args PgQuery__VariableSetStmt.is_local
    PgQuery__VariableShowStmt.name PgQuery__CreateStmt.relation PgQuery__CreateStmt.table_elts
    PgQuery__CreateStmt.inh_relations PgQuery__CreateStmt.partbound PgQuery__CreateStmt.partspec
    PgQuery__CreateStmt.of_typename PgQuery__CreateStmt.constraints PgQuery__CreateStmt.options
    PgQuery__CreateStmt.oncommit PgQuery__CreateStmt.tablespacename
    PgQuery__CreateStmt.access_method PgQuery__CreateStmt.if_not_exists
    PgQuery__CreateTableSpaceStmt.tablespacename PgQuery__CreateTableSpaceStmt.owner
    PgQuery__CreateTableSpaceStmt.location PgQuery__CreateTableSpaceStmt.options
    PgQuery__DropTableSpaceStmt.tablespacename PgQuery__DropTableSpaceStmt.missing_ok
    PgQuery__AlterTableSpaceOptionsStmt.tablespacename
    PgQuery__AlterTableSpaceOptionsStmt.options PgQuery__AlterTableSpaceOptionsStmt.is_reset
    PgQuery__AlterTableMoveAllStmt.orig_tablespacename PgQuery__AlterTableMoveAllStmt.objtype
    PgQuery__AlterTableMoveAllStmt.roles PgQuery__AlterTableMoveAllStmt.new_tablespacename
    PgQuery__AlterTableMoveAllStmt.nowait PgQuery__CreateExtensionStmt.extname
    PgQuery__CreateExtensionStmt.if_not_exists PgQuery__CreateExtensionStmt.options
    PgQuery__AlterExtensionStmt.extname PgQuery__AlterExtensionStmt.options
    PgQuery__AlterExtensionContentsStmt.extname PgQuery__AlterExtensionContentsStmt.action
    PgQuery__AlterExtensionContentsStmt.objtype PgQuery__AlterExtensionContentsStmt.object
    PgQuery__CreateFdwStmt.fdwname PgQuery__CreateFdwStmt.func_options
    PgQuery__CreateFdwStmt.options PgQuery__AlterFdwStmt.fdwname
    PgQuery__AlterFdwStmt.func_options PgQuery__AlterFdwStmt.options
    PgQuery__CreateForeignServerStmt.servername PgQuery__CreateForeignServerStmt.servertype
    PgQuery__CreateForeignServerStmt.version PgQuery__CreateForeignServerStmt.fdwname
    PgQuery__CreateForeignServerStmt.if_not_exists PgQuery__CreateForeignServerStmt.options
    PgQuery__AlterForeignServerStmt.servername PgQuery__AlterForeignServerStmt.version
    PgQuery__AlterForeignServerStmt.options PgQuery__AlterForeignServerStmt.has_version
    PgQuery__CreateForeignTableStmt.base_stmt PgQuery__CreateForeignTableStmt.servername
    PgQuery__CreateForeignTableStmt.options PgQuery__CreateUserMappingStmt.user
    PgQuery__CreateUserMappingStmt.servername PgQuery__CreateUserMappingStmt.if_not_exists
    PgQuery__CreateUserMappingStmt.options PgQuery__AlterUserMappingStmt.user
    PgQuery__AlterUserMappingStmt.servername PgQuery__AlterUserMappingStmt.options
    PgQuery__DropUserMappingStmt.user PgQuery__DropUserMappingStmt.servername
    PgQuery__DropUserMappingStmt.missing_ok PgQuery__ImportForeignSchemaStmt.server_name
    PgQuery__ImportForeignSchemaStmt.remote_schema PgQuery__ImportForeignSchemaStmt.local_schema
    PgQuery__ImportForeignSchemaStmt.list_type PgQuery__ImportForeignSchemaStmt.table_list
    PgQuery__ImportForeignSchemaStmt.options PgQuery__CreatePolicyStmt.policy_name
    PgQuery__CreatePolicyStmt.table PgQuery__CreatePolicyStmt.cmd_name
    PgQuery__CreatePolicyStmt.permissive PgQuery__CreatePolicyStmt.roles
    PgQuery__CreatePolicyStmt.qual PgQuery__CreatePolicyStmt.with_check
    PgQuery__AlterPolicyStmt.policy_name PgQuery__AlterPolicyStmt.table
    PgQuery__AlterPolicyStmt.roles PgQuery__AlterPolicyStmt.qual
    PgQuery__AlterPolicyStmt.with_check PgQuery__CreateAmStmt.amname
    PgQuery__CreateAmStmt.handler_name PgQuery__CreateAmStmt.amtype
    PgQuery__CreateTrigStmt.trigname PgQuery__CreateTrigStmt.relation
    PgQuery__CreateTrigStmt.funcname PgQuery__CreateTrigStmt.args PgQuery__CreateTrigStmt.row
    PgQuery__CreateTrigStmt.timing PgQuery__CreateTrigStmt.events
    PgQuery__CreateTrigStmt.columns PgQuery__CreateTrigStmt.when_clause
    PgQuery__CreateTrigStmt.isconstraint PgQuery__CreateTrigStmt.transition_rels
    PgQuery__CreateTrigStmt.deferrable PgQuery__CreateTrigStmt.initdeferred
    PgQuery__CreateTrigStmt.constrrel PgQuery__CreateEventTrigStmt.trigname
    PgQuery__CreateEventTrigStmt.eventname PgQuery__CreateEventTrigStmt.whenclause
    PgQuery__CreateEventTrigStmt.funcname PgQuery__AlterEventTrigStmt.trigname
    PgQuery__AlterEventTrigStmt.tgenabled PgQuery__CreatePLangStmt.replace
    PgQuery__CreatePLangStmt.plname PgQuery__CreatePLangStmt.plhandler
    PgQuery__CreatePLangStmt.plinline PgQuery__CreatePLangStmt.plvalidator
    PgQuery__CreatePLangStmt.pltrusted PgQuery__CreateRoleStmt.stmt_type
    PgQuery__CreateRoleStmt.role PgQuery__CreateRoleStmt.options PgQuery__AlterRoleStmt.role
    PgQuery__AlterRoleStmt.options PgQuery__AlterRoleStmt.action PgQuery__AlterRoleSetStmt.role
    PgQuery__AlterRoleSetStmt.database PgQuery__AlterRoleSetStmt.setstmt
    PgQuery__DropRoleStmt.roles PgQuery__DropRoleStmt.missing_ok PgQuery__CreateSeqStmt.sequence
    PgQuery__CreateSeqStmt.options PgQuery__CreateSeqStmt.owner_id
    PgQuery__CreateSeqStmt.for_identity PgQuery__CreateSeqStmt.if_not_exists
    PgQuery__AlterSeqStmt.sequence PgQuery__AlterSeqStmt.options
    PgQuery__AlterSeqStmt.for_identity PgQuery__AlterSeqStmt.missing_ok PgQuery__DefineStmt.kind
    PgQuery__DefineStmt.oldstyle PgQuery__DefineStmt.defnames PgQuery__DefineStmt.args
    PgQuery__DefineStmt.definition PgQuery__DefineStmt.if_not_exists PgQuery__DefineStmt.replace
    PgQuery__CreateDomainStmt.domainname PgQuery__CreateDomainStmt.type_name
    PgQuery__CreateDomainStmt.coll_clause PgQuery__CreateDomainStmt.constraints
    PgQuery__CreateOpClassStmt.opclassname PgQuery__CreateOpClassStmt.opfamilyname
    PgQuery__CreateOpClassStmt.amname PgQuery__CreateOpClassStmt.datatype
    PgQuery__CreateOpClassStmt.items PgQuery__CreateOpClassStmt.is_default
    PgQuery__CreateOpClassItem.itemtype PgQuery__CreateOpClassItem.name
    PgQuery__CreateOpClassItem.number PgQuery__CreateOpClassItem.order_family
    PgQuery__CreateOpClassItem.class_args PgQuery__CreateOpClassItem.storedtype
    PgQuery__CreateOpFamilyStmt.opfamilyname PgQuery__CreateOpFamilyStmt.amname
    PgQuery__AlterOpFamilyStmt.opfamilyname PgQuery__AlterOpFamilyStmt.amname
    PgQuery__AlterOpFamilyStmt.is_drop PgQuery__AlterOpFamilyStmt.items
    PgQuery__DropStmt.objects PgQuery__DropStmt.remove_type PgQuery__DropStmt.behavior
    PgQuery__DropStmt.missing_ok PgQuery__DropStmt.concurrent PgQuery__TruncateStmt.relations
    PgQuery__TruncateStmt.restart_seqs PgQuery__TruncateStmt.behavior
    PgQuery__CommentStmt.objtype PgQuery__CommentStmt.object PgQuery__CommentStmt.comment
    PgQuery__SecLabelStmt.objtype PgQuery__SecLabelStmt.object PgQuery__SecLabelStmt.provider
    PgQuery__SecLabelStmt.label PgQuery__DeclareCursorStmt.portalname
    PgQuery__DeclareCursorStmt.options PgQuery__DeclareCursorStmt.query
    PgQuery__ClosePortalStmt.portalname PgQuery__FetchStmt.direction PgQuery__FetchStmt.how_many
    PgQuery__FetchStmt.portalname PgQuery__FetchStmt.ismove PgQuery__IndexStmt.idxname
    PgQuery__IndexStmt.relation PgQuery__IndexStmt.access_method PgQuery__IndexStmt.table_space
    PgQuery__IndexStmt.index_params PgQuery__IndexStmt.index_including_params
    PgQuery__IndexStmt.options PgQuery__IndexStmt.where_clause
    PgQuery__IndexStmt.exclude_op_names PgQuery__IndexStmt.idxcomment
    PgQuery__IndexStmt.index_oid PgQuery__IndexStmt.old_node PgQuery__IndexStmt.old_create_subid
    PgQuery__IndexStmt.old_first_relfilenode_subid PgQuery__IndexStmt.unique
    PgQuery__IndexStmt.primary PgQuery__IndexStmt.isconstraint PgQuery__IndexStmt.deferrable
    PgQuery__IndexStmt.initdeferred PgQuery__IndexStmt.transformed PgQuery__IndexStmt.concurrent
    PgQuery__IndexStmt.if_not_exists PgQuery__IndexStmt.reset_default_tblspc
    PgQuery__CreateStatsStmt.defnames PgQuery__CreateStatsStmt.stat_types
    PgQuery__CreateStatsStmt.exprs PgQuery__CreateStatsStmt.relations
    PgQuery__CreateStatsStmt.stxcomment PgQuery__CreateStatsStmt.if_not_exists
    PgQuery__AlterStatsStmt.defnames PgQuery__AlterStatsStmt.stxstattarget
    PgQuery__AlterStatsStmt.missing_ok PgQuery__CreateFunctionStmt.is_procedure
    PgQuery__CreateFunctionStmt.replace PgQuery__CreateFunctionStmt.funcname
    PgQuery__CreateFunctionStmt.parameters PgQuery__CreateFunctionStmt.return_type
    PgQuery__CreateFunctionStmt.options PgQuery__FunctionParameter.name
    PgQuery__FunctionParameter.arg_type PgQuery__FunctionParameter.mode
    PgQuery__FunctionParameter.defexpr PgQuery__AlterFunctionStmt.objtype
    PgQuery__AlterFunctionStmt.func PgQuery__AlterFunctionStmt.actions PgQuery__DoStmt.args
    PgQuery__FuncExpr.xpr PgQuery__FuncExpr.funcid PgQuery__FuncExpr.funcresulttype
    PgQuery__FuncExpr.funcretset PgQuery__FuncExpr.funcvariadic PgQuery__FuncExpr.funcformat
    PgQuery__FuncExpr.funccollid PgQuery__FuncExpr.inputcollid PgQuery__FuncExpr.args
    PgQuery__FuncExpr.location PgQuery__CallStmt.funccall PgQuery__CallStmt.funcexpr
    PgQuery__RenameStmt.rename_type PgQuery__RenameStmt.relation_type
    PgQuery__RenameStmt.relation PgQuery__RenameStmt.object PgQuery__RenameStmt.subname
    PgQuery__RenameStmt.newname PgQuery__RenameStmt.behavior PgQuery__RenameStmt.missing_ok
    PgQuery__AlterObjectDependsStmt.object_type PgQuery__AlterObjectDependsStmt.relation
    PgQuery__AlterObjectDependsStmt.object PgQuery__AlterObjectDependsStmt.extname
    PgQuery__AlterObjectDependsStmt.remove PgQuery__AlterObjectSchemaStmt.object_type
    PgQuery__AlterObjectSchemaStmt.relation PgQuery__AlterObjectSchemaStmt.object
    PgQuery__AlterObjectSchemaStmt.newschema PgQuery__AlterObjectSchemaStmt.missing_ok
    PgQuery__AlterOwnerStmt.object_type PgQuery__AlterOwnerStmt.relation
    PgQuery__AlterOwnerStmt.object PgQuery__AlterOwnerStmt.newowner
    PgQuery__AlterOperatorStmt.opername PgQuery__AlterOperatorStmt.options
    PgQuery__AlterTypeStmt.type_name PgQuery__AlterTypeStmt.options PgQuery__RuleStmt.relation
    PgQuery__RuleStmt.rulename PgQuery__RuleStmt.where_clause PgQuery__RuleStmt.event
    PgQuery__RuleStmt.instead PgQuery__RuleStmt.actions PgQuery__RuleStmt.replace
    PgQuery__NotifyStmt.conditionname PgQuery__NotifyStmt.payload
    PgQuery__ListenStmt.conditionname PgQuery__UnlistenStmt.conditionname
    PgQuery__TransactionStmt.kind PgQuery__TransactionStmt.options
    PgQuery__TransactionStmt.savepoint_name PgQuery__TransactionStmt.gid
    PgQuery__TransactionStmt.chain PgQuery__CompositeTypeStmt.typevar
    PgQuery__CompositeTypeStmt.coldeflist PgQuery__CreateEnumStmt.type_name
    PgQuery__CreateEnumStmt.vals PgQuery__CreateRangeStmt.type_name
    PgQuery__CreateRangeStmt.params PgQuery__AlterEnumStmt.type_name
    PgQuery__AlterEnumStmt.old_val PgQuery__AlterEnumStmt.new_val
    PgQuery__AlterEnumStmt.new_val_neighbor PgQuery__AlterEnumStmt.new_val_is_after
    PgQuery__AlterEnumStmt.skip_if_new_val_exists PgQuery__ViewStmt.view
    PgQuery__ViewStmt.aliases PgQuery__ViewStmt.query PgQuery__ViewStmt.replace
    PgQuery__ViewStmt.options PgQuery__ViewStmt.with_check_option PgQuery__LoadStmt.filename
    PgQuery__CreatedbStmt.dbname PgQuery__CreatedbStmt.options PgQuery__AlterDatabaseStmt.dbname
    PgQuery__AlterDatabaseStmt.options PgQuery__AlterDatabaseSetStmt.dbname
    PgQuery__AlterDatabaseSetStmt.setstmt PgQuery__DropdbStmt.dbname
    PgQuery__DropdbStmt.missing_ok PgQuery__DropdbStmt.options PgQuery__AlterSystemStmt.setstmt
    PgQuery__ClusterStmt.relation PgQuery__ClusterStmt.indexname PgQuery__ClusterStmt.options
    PgQuery__VacuumStmt.options PgQuery__VacuumStmt.rels PgQuery__VacuumStmt.is_vacuumcmd
    PgQuery__VacuumRelation.relation PgQuery__VacuumRelation.oid PgQuery__VacuumRelation.va_cols
    PgQuery__ExplainStmt.query PgQuery__ExplainStmt.options PgQuery__CreateTableAsStmt.query
    PgQuery__CreateTableAsStmt.into PgQuery__CreateTableAsStmt.relkind
    PgQuery__CreateTableAsStmt.is_select_into PgQuery__CreateTableAsStmt.if_not_exists
    PgQuery__RefreshMatViewStmt.concurrent PgQuery__RefreshMatViewStmt.skip_data
    PgQuery__RefreshMatViewStmt.relation PgQuery__DiscardStmt.target PgQuery__LockStmt.relations
    PgQuery__LockStmt.mode PgQuery__LockStmt.nowait PgQuery__ConstraintsSetStmt.constraints
    PgQuery__ConstraintsSetStmt.deferred PgQuery__ReindexStmt.kind PgQuery__ReindexStmt.relation
    PgQuery__ReindexStmt.name PgQuery__ReindexStmt.options PgQuery__ReindexStmt.concurrent
    PgQuery__CreateConversionStmt.conversion_name
    PgQuery__CreateConversionStmt.for_encoding_name
    PgQuery__CreateConversionStmt.to_encoding_name PgQuery__CreateConversionStmt.func_name
    PgQuery__CreateConversionStmt.def PgQuery__CreateCastStmt.sourcetype
    PgQuery__CreateCastStmt.targettype PgQuery__CreateCastStmt.func
    PgQuery__CreateCastStmt.context PgQuery__CreateCastStmt.inout
    PgQuery__CreateTransformStmt.replace PgQuery__CreateTransformStmt.type_name
    PgQuery__CreateTransformStmt.lang PgQuery__CreateTransformStmt.fromsql
    PgQuery__CreateTransformStmt.tosql PgQuery__PrepareStmt.name PgQuery__PrepareStmt.argtypes
    PgQuery__PrepareStmt.query PgQuery__ExecuteStmt.name PgQuery__ExecuteStmt.params
    PgQuery__DeallocateStmt.name PgQuery__DropOwnedStmt.roles PgQuery__DropOwnedStmt.behavior
    PgQuery__ReassignOwnedStmt.roles PgQuery__ReassignOwnedStmt.newrole
    PgQuery__AlterTSDictionaryStmt.dictname PgQuery__AlterTSDictionaryStmt.options
    PgQuery__AlterTSConfigurationStmt.kind PgQuery__AlterTSConfigurationStmt.cfgname
    PgQuery__AlterTSConfigurationStmt.tokentype PgQuery__AlterTSConfigurationStmt.dicts
    PgQuery__AlterTSConfigurationStmt.override PgQuery__AlterTSConfigurationStmt.replace
    PgQuery__AlterTSConfigurationStmt.missing_ok PgQuery__CreatePublicationStmt.pubname
    PgQuery__CreatePublicationStmt.options PgQuery__CreatePublicationStmt.tables
    PgQuery__CreatePublicationStmt.for_all_tables PgQuery__AlterPublicationStmt.pubname
    PgQuery__AlterPublicationStmt.options PgQuery__AlterPublicationStmt.tables
    PgQuery__AlterPublicationStmt.for_all_tables PgQuery__AlterPublicationStmt.table_action
    PgQuery__CreateSubscriptionStmt.subname PgQuery__CreateSubscriptionStmt.conninfo
    PgQuery__CreateSubscriptionStmt.publication PgQuery__CreateSubscriptionStmt.options
    PgQuery__AlterSubscriptionStmt.kind PgQuery__AlterSubscriptionStmt.subname
    PgQuery__AlterSubscriptionStmt.conninfo PgQuery__AlterSubscriptionStmt.publication
    PgQuery__AlterSubscriptionStmt.options PgQuery__DropSubscriptionStmt.subname
    PgQuery__DropSubscriptionStmt.missing_ok PgQuery__DropSubscriptionStmt.behavior
    PgQuery__ParseResult.version PgQuery__ParseResult.stmts].

(** The message of the next field that takes a call, with what reads it back. *)
Ltac round_call lem := let m := fresh "m" in let E1 := fresh "E" in let E2 := fresh "E" in
  destruct lem as (m & E1 & E2); rewrite E1; cbn [obind].
Ltac round_field :=
  match goal with
  | |- exists _, obind ?c _ = _ /\ _ =>
      match c with
      | WRITE_LIST_FIELD _outNode ?l => round_call (round_list l ltac:(assumption) ltac:(assumption))
      | WRITE_INT_LIST_FIELD ?l => round_call (round_ints l ltac:(assumption))
      | WRITE_NODE_PTR_FIELD _outNode ?p => round_call (round_ptr p ltac:(assumption) ltac:(assumption))
      | WRITE_SELECT_PTR_FIELD _outNode ?p => round_call (round_select p ltac:(assumption) ltac:(assumption))
      | WRITE_SPECIFIC_NODE_PTR_FIELD ?out ?p =>
          let H := fresh "H" in
          eassert (H : round (WRITE_SPECIFIC_NODE_PTR_FIELD out) _ p) by
            first [eapply round_struct; [|eassumption|eassumption]; cbn beta; intros; solve [eauto with round]
                  |eapply round_plain; [|eassumption]; cbn beta; intros; solve [eauto with round]];
          round_call H
      | ?out ?x =>
          let H := fresh "H" in
          eassert (H : round out _ x) by eauto with round; round_call H
      end
  end.

(** Goes over the fields of a struct. *)
Ltac round_head t := match t with ?f _ => round_head f | _ => t end.
Ltac round_struct_tac :=
  intros Hx;
  try (let Hk := fresh "Hk" in
       match goal with |- ?k = true -> _ => intros Hk; let k' := round_head k in unfold k' in Hk end);
  match goal with |- round ?out ?read ?x =>
    let o := round_head out in let r := round_head read in unfold round; unfold o;
    destruct Hx; simpl_fields; cbn [keep check_string check_char check_ints] in *; split_andb; repeat round_field;
    eexists; split; [reflexivity|]; unfold r; simpl_messages
  end;
  unfold READ_EXPR_PTR_FIELD, READ_VALUE_PTR_FIELD, READ_SPECIFIC_NODE_FIELD;
  rewrite ?round_value; repeat match goal with E : _ = Ok _ |- _ => rewrite E; clear E; cbn [obind] end;
  autorewrite with enums; rewrite ?round_char, ?round_string by assumption; reflexivity.


Lemma round_Alias x : Alias.t_all Node good x -> check_Alias keep kept x = true -> round (_outAlias _outNode) (_readAlias _readNode) x.
Proof. round_struct_tac. Qed.
#[local] Hint Resolve round_Alias : round.

Lemma round_RangeVar x : RangeVar.t_all Node good x -> check_RangeVar keep kept x = true -> round (_outRangeVar _outNode) (_readRangeVar _readNode) x.
Proof. round_struct_tac. Qed.
#[local] Hint Resolve round_RangeVar : round.

Lemma round_TypeName x : TypeName.t_all Node good x -> check_TypeName kept x = true -> round (_outTypeName _outNode) (_readTypeName _readNode) x.
Proof. round_struct_tac. Qed.
#[local] Hint Resolve round_TypeName : round.

Lemma round_CollateClause x : CollateClause.t_all Node good x -> check_CollateClause keep kept x = true -> round (_outCollateClause _outNode) (_readCollateClause _readNode) x.
Proof. round_struct_tac. Qed.
#[local] Hint Resolve round_CollateClause : round.

Lemma round_RoleSpec x : RoleSpec.t_all Node good x -> check_RoleSpec keep x = true -> round _outRoleSpec _readRoleSpec x.
Proof. round_struct_tac. Qed.
#[local] Hint Resolve round_RoleSpec : round.

Lemma round_WindowDef x : WindowDef.t_all Node good x -> check_WindowDef keep kept x = true -> round (_outWindowDef _outNode) (_readWindowDef _readNode) x.
Proof. round_struct_tac. Qed.
#[local] Hint Resolve round_WindowDef : round.

Lemma round_FuncCall x : FuncCall.t_all Node good x -> check_FuncCall keep kept x = true -> round (_outFuncCall _outNode) (_readFuncCall _readNode) x.
Proof. round_struct_tac. Qed.
#[local] Hint Resolve round_FuncCall : round.

Lemma round_WithClause x : WithClause.t_all Node good x -> check_WithClause kept x = true -> round (_outWithClause _outNode) (_readWithClause _readNode) x.
Proof. round_struct_tac. Qed.
#[local] Hint Resolve round_WithClause : round.

Lemma round_InferClause x : InferClause.t_all Node good x -> check_InferClause keep kept x = true -> round (_outInferClause _outNode) (_readInferClause _readNode) x.
Proof. round_struct_tac. Qed.
#[local] Hint Resolve round_InferClause : round.

Lemma round_OnConflictClause x : OnConflictClause.t_all Node good x -> check_OnConflictClause keep kept x = true -> round (_outOnConflictClause _outNode) (_readOnConflictClause _readNode) x.
Proof. round_struct_tac. Qed.
#[local] Hint Resolve round_OnConflictClause : round.

Lemma round_IntoClause x : IntoClause.t_all Node good x -> check_IntoClause keep kept x = true -> round (_outIntoClause _outNode) (_readIntoClause _readNode) x.
Proof. round_struct_tac. Qed.
#[local] Hint Resolve round_IntoClause : round.

Lemma round_PartitionBoundSpec x : PartitionBoundSpec.t_all Node good x -> check_PartitionBoundSpec keep kept x = true -> round (_outPartitionBoundSpec _outNode) (_readPartitionBoundSpec _readNode) x.
Proof. round_struct_tac. Qed.
#[local] Hint Resolve round_PartitionBoundSpec : round.

Lemma round_PartitionSpec x : PartitionSpec.t_all Node good x -> check_PartitionSpec keep kept x = true -> round (_outPartitionSpec _outNode) (_readPartitionSpec _readNode) x.
Proof. round_struct_tac. Qed.
#[local] Hint Resolve round_PartitionSpec : round.

Lemma round_GrantStmt x : GrantStmt.t_all Node good x -> check_GrantStmt kept x = true -> round (_outGrantStmt _outNode) (_readGrantStmt _readNode) x.
Proof. round_struct_tac. Qed.
#[local] Hint Resolve round_GrantStmt : round.

Lemma round_ObjectWithArgs x : ObjectWithArgs.t_all Node good x -> check_ObjectWithArgs kept x = true -> round (_outObjectWithArgs _outNode) (_readObjectWithArgs _readNode) x.
Proof. round_struct_tac. Qed.
#[local] Hint Resolve round_ObjectWithArgs : round.

Lemma round_VariableSetStmt x : VariableSetStmt.t_all Node good x -> check_VariableSetStmt keep kept x = true -> round (_outVariableSetStmt _outNode) (_readVariableSetStmt _readNode) x.
Proof. round_struct_tac. Qed.
#[local] Hint Resolve round_VariableSetStmt : round.

Lemma round_CreateStmt x : CreateStmt.t_all Node good x -> check_CreateStmt keep kept x = true -> round (_outCreateStmt _outNode) (_readCreateStmt _readNode) x.
Proof. round_struct_tac. Qed.
#[local] Hint Resolve round_CreateStmt : round.

Lemma round_FuncExpr x : FuncExpr.t_all Node good x -> check_FuncExpr kept x = true -> round (_outFuncExpr _outNode) (_readFuncExpr _readNode) x.
Proof. round_struct_tac. Qed.
#[local] Hint Resolve round_FuncExpr : round.

(** ** Every tree *)

Lemma round_wrap {A M} (out : A -> outcome M) (read : M -> outcome A) (c : M -> PgQuery__Node) (k : A -> Node) x :
  (forall m, _readNode (c m) = obind (read m) (fun y => Ok (k y))) -> round out read x ->
  exists m, obind (out x) (fun m => Ok (c m)) = Ok m /\ _readNode m = Ok (k x).
Proof. intros Hc (m & E1 & E2). exists (c m). rewrite E1, Hc, E2. done. Qed.

Lemma kept_good n : good n.
Proof.
  revert n. apply (node_ind good). intros n Hn Hk.
  destruct n; cbn [children] in Hn; unfold round; cbn [_outNode _outNode_body]; cbn [check check_body] in Hk.
  all: try (eapply round_wrap; [intros m; cbn [_readNode _readNode_body]; reflexivity|]).
  all: try solve [eauto with round].
  all: try (revert Hk; revert Hn; solve [round_struct_tac]).
  all: try (revert Hn; solve [round_struct_tac]).
  - destruct l as [|n l]; [by exists Node_not_set|].
    destruct (round_list (n :: l) Hn Hk) as (m & E1 & E2). exists (Node_list m).
    unfold WRITE_LIST_FIELD, READ_LIST_FIELD in *. rewrite E1. split; [done|].
    cbn [_readNode _readNode_body]. unfold _readList. by rewrite E2.
  - by destruct v; eexists.
  - done.
Qed.
