(* ===== verification/Protobuf.v ===== *)
(** * Parse trees over the wire

    [pg_query_nodes_to_protobuf], [pg_query_protobuf_to_nodes] and
    [pg_query_parse_protobuf]: the statements of a query as bytes, and back, over a
    coding of messages, the class [Wire]; its instance [bytes_wire] is the library
    protobuf-c. *)
From S2P Require Import ProtobufC ProtobufStruct.
From S2P Require Import Prelude Buffer Enums Nodes Parse EnumDefs Messages ProtobufOut.
From S2P Require Import ProtobufRead TreeCheck ProtobufRound.

Open Scope Z_scope.

(** ** Operations *)

(** [_outRawStmt(parse_result.stmts[i], lfirst(lc))], without a test of the tag. *)
Definition out_stmt (n : Node) : outcome (PgQuery__RawStmt.t PgQuery__Node) :=
  match n with N_RawStmt x => _outRawStmt _outNode x | _ => Undef end.
Definition read_stmt (m : PgQuery__RawStmt.t PgQuery__Node) : outcome Node :=
  let* x := _readRawStmt _readNode m in Ok (N_RawStmt x).

(** The message of a list of statements. *)
Definition parse_result_of (obj : list Node) : outcome PgQuery__ParseResult.t :=
  let* stmts := mapo out_stmt obj in
  Ok {| PgQuery__ParseResult.version := PG_VERSION_NUM; PgQuery__ParseResult.stmts := stmts |}.

Section protobuf.
Context {W : Type} `{Wire W}.

Definition pg_query_nodes_to_protobuf (obj : list Node) : outcome W :=
  let* parse_result := parse_result_of obj in
  parse_result__pack parse_result.

Definition pg_query_protobuf_to_nodes (protobuf : W) : outcome (list Node) :=
  let* result := parse_result__unpack protobuf in
  match result with
  | None => Undef                                  (* Assert(result != NULL) *)
  | Some result =>
      if result.(PgQuery__ParseResult.version) =? PG_VERSION_NUM
      then mapo read_stmt result.(PgQuery__ParseResult.stmts)
      else Undef                                   (* Assert(result->version == PG_VERSION_NUM) *)
  end.

Record PgQueryProtobufParseResult : Type := mkProtobufParseResult {
  parse_tree : W;
  protobuf_error : option PgQueryError
}.

Definition pg_query_parse_protobuf (raw_parser : string -> ErrorData + list Node) (input : string) :
    outcome PgQueryProtobufParseResult :=
  let parsetree_and_error := pg_query_raw_parse raw_parser input in
  let* parse_tree := pg_query_nodes_to_protobuf parsetree_and_error.(tree) in
  Ok (mkProtobufParseResult parse_tree parsetree_and_error.(parse_error)).

(** ** Proofs *)

Lemma stmts_round l : forallb IsA_RawStmt l = true -> forallb kept l = true -> round (mapo out_stmt) (mapo read_stmt) l.
Proof.
  induction l as [|n l IH]; [by exists []|]. cbn [forallb]. intros Hr Hk. split_andb.
  destruct n; try done. destruct IH as (ms & E1 & E2); [done..|].
  destruct (kept_good (N_RawStmt x)) as (m & E3 & E4); [done|]. cbn in E3.
  destruct (_outRawStmt _outNode x) as [r| |] eqn:E; try done. injection E3 as <-. cbn in E4.
  exists (r :: ms). cbn [mapo out_stmt]. rewrite E. cbn. rewrite E1. split; [done|].
  unfold read_stmt at 1. rewrite E4. cbn. by rewrite E2.
Qed.

(** The coding does not change the message of these statements. *)
Definition transmits (l : list Node) : bool :=
  match parse_result_of l with Ok m => carries m | _ => false end.

Lemma protobuf_round `{!WireLaws W} l : forallb IsA_RawStmt l = true -> forallb kept l = true -> transmits l = true ->
  round pg_query_nodes_to_protobuf pg_query_protobuf_to_nodes l.
Proof.
  unfold round, pg_query_nodes_to_protobuf, transmits, parse_result_of.
  intros Hr Hk Hw. destruct (stmts_round l Hr Hk) as (ms & E1 & E2). rewrite E1 in *.
  destruct (unpack_pack _ Hw) as (w & Ep & Eu). exists w. split; [exact Ep|].
  unfold pg_query_protobuf_to_nodes. by rewrite Eu.
Qed.
End protobuf.
Arguments transmits W {H} l.
Arguments PgQueryProtobufParseResult : clear implicits.

(** * Parse trees over the wire: the theorems *)

Open Scope Z_scope.

(** C15. What [pg_query_parse_protobuf] returns for a query that parses is, without
    an error, the coding of a message from which [pg_query_protobuf_to_nodes]
    builds the tree of the query again, field by field, for every kind of statement,
    as long as no string in a field of the tree is empty and the coding can carry the
    message, for the bytes of protobuf-c: its numbers are in the range of their types,
    its strings without zero bytes, its size at most 2^27 - 16; for a query that does
    not parse it is the coding of no statements, with the error. *)
Theorem pg_query_parse_protobuf_roundtrip {W} `{WireLaws W} raw_parser input :
  (forall l, raw_parser input = inr l -> 
     forallb IsA_RawStmt l = true /\ forallb kept l = true /\ transmits W l = true) ->
  exists result, pg_query_parse_protobuf (W := W) raw_parser input = Ok result /\
    match raw_parser input with
    | inr l => result.(protobuf_error) = None /\
               pg_query_protobuf_to_nodes result.(parse_tree) = Ok l
    | inl e => option_map message result.(protobuf_error) = Some e.(ed_message) /\
               pg_query_protobuf_to_nodes result.(parse_tree) = Ok []
    end.
Proof.
  intros Hl. unfold pg_query_parse_protobuf, pg_query_raw_parse.
  destruct (raw_parser input) as [e|l]; cbn [tree parse_error].
  - destruct (protobuf_round (W := W) [] eq_refl eq_refl carries_nothing) as (m & -> & E). eexists. split; [reflexivity|]. done.
  - destruct (Hl l eq_refl) as (Hr & Hk & Hw). destruct (protobuf_round (W := W) l Hr Hk Hw) as (m & -> & E).
    eexists. split; [reflexivity|]. done.
Qed.

(** [COMMENT ON TABLE t IS comment], and the same for a statement list. *)
Definition comment_on (comment : option string) : Node :=
  N_CommentStmt (CommentStmt.mk OBJECT_TABLE (Some (N_List [N_Value (String_ "t")])) comment).
Definition sample_parser (input : string) : ErrorData + list Node :=
  if (input =? "")%string then inl (mkErrorData "no query" "" "" 0 0)
  else inr [N_RawStmt (RawStmt.mk (Some (comment_on (Some input))) 0 0)].

Lemma pg_query_parse_protobuf_roundtrip_witness :
  exists result, pg_query_parse_protobuf (W := bytes) sample_parser "note" = Ok result /\
    result.(protobuf_error) = None /\
    pg_query_protobuf_to_nodes result.(parse_tree) =
      Ok [N_RawStmt (RawStmt.mk (Some (comment_on (Some "note"))) 0 0)].
Proof.
  apply (pg_query_parse_protobuf_roundtrip (W := bytes) sample_parser "note").
  intros l [= <-]. split_and!; vm_compute; reflexivity.
Defined.

(** An empty string does not survive the way to the protocol buffer and back: the
    message of a field that is a null pointer is the same, and is read as such.
    So a comment that is set to the empty string reads back as one that is dropped. *)
Theorem empty_comment_is_dropped :
  exists m, _outNode (comment_on (Some "")) = Ok m /\ _outNode (comment_on None) = Ok m /\
    _readNode m = Ok (comment_on None).
Proof. by eexists. Qed.
