(* ===== verification/DeparseParts.v ===== *)
(** * The deparser: parts of utility statements

    The productions of [src/pg_query_deparse.c] that the utility statements share:
    roles, option lists, types of functions and operators, [SET].  They sit above the
    closed function [deparse] of [DeparseStmt.v], as no expression contains one.
    Every definition has the name of its C function; a helper whose name is not
    that of a function is a loop or a branch of the one below it. *)
From S2P Require Import Prelude Buffer Keywords Quote Enums Nodes DeparseNames DeparseExpr DeparseStmt.
From S2P Require Import Scansup.

(** ** The productions of the other files, at [deparse] *)

Abbreviation deparseExprList := (DeparseExpr.deparseExprList deparse).
Abbreviation deparseTypeName := (DeparseExpr.deparseTypeName deparse).
Abbreviation deparseTypeList := (DeparseExpr.deparseTypeList deparse).
Abbreviation deparseFuncCall := (DeparseExpr.deparseFuncCall deparse).
Abbreviation deparseCollateClause := (DeparseExpr.deparseCollateClause deparse).
Abbreviation deparseSeqOptElem := (DeparseStmt.deparseSeqOptElem deparse).
Abbreviation deparseSeqOptList := (DeparseStmt.deparseSeqOptList deparse).
Abbreviation deparseDefArg := (DeparseStmt.deparseDefArg deparse).
Abbreviation deparseRelOptions := (DeparseStmt.deparseRelOptions deparse).
Abbreviation deparseOptWith := (DeparseStmt.deparseOptWith deparse).
Abbreviation deparseFromList := (DeparseStmt.deparseFromList deparse).
Abbreviation deparseWhereClause := (DeparseStmt.deparseWhereClause deparse).
Abbreviation deparseIndexElem := (DeparseStmt.deparseIndexElem deparse).
Abbreviation deparseConstraint := (DeparseStmt.deparseConstraint deparse).
Abbreviation deparseColumnDef := (DeparseStmt.deparseColumnDef deparse).
Abbreviation deparseIntoClause := (DeparseStmt.deparseIntoClause deparse).
Abbreviation deparseInsertStmt := (DeparseStmt.deparseInsertStmt deparse).
Abbreviation deparseUpdateStmt := (DeparseStmt.deparseUpdateStmt deparse).
Abbreviation deparseDeleteStmt := (DeparseStmt.deparseDeleteStmt deparse).

(** ** Casts and tests *)

Definition IsA_Float (n : Node) : bool :=
  match n with N_Value (Float _) => true | _ => false end.
(** The tests of the tag of a [Value] that a struct holds. *)
Definition value_is_Integer (v : Value) : bool := match v with Integer _ => true | _ => false end.
Definition value_is_Float (v : Value) : bool := match v with Float _ => true | _ => false end.
Definition value_is_String (v : Value) : bool := match v with String_ _ => true | _ => false end.

(** A [Node] cast to [Value]. *)
Definition as_Value (n : Node) (k : Value -> dep) : dep :=
  match n with N_Value v => k v | _ => undef end.

(** [castNode(List, p)], where the null pointer is the empty list. *)
Definition castList (p : option Node) (k : list Node -> dep) : dep :=
  match p with Some n => castNode_List n k | None => k [] end.

(** [appendStringInfoString(str, quote_identifier(p))], and the same of
    [strVal(lfirst(lc))]. *)
Definition quoted (p : option string) : dep := deref p (fun s => str (quote_identifier s)).
Definition quoted_cell (n : Node) : dep := strVal n (fun s => str (quote_identifier s)).

(** The two branches on an integer that is 1 or 0. *)
Definition yes_no_int (yes no : dep) (z : Z) : dep :=
  if (z =? 1)%Z then yes else if (z =? 0)%Z then no else assert_ false.
Definition yes_no (arg : option Node) (yes no : dep) : dep :=
  deref arg (fun n => intVal n (yes_no_int yes no)).

(** A [char] as the [int] it is promoted to. *)
Definition char_code (c : ascii) : Z := Z.of_N (N_of_ascii c).

(** [strstr(s, t) != NULL] *)
Definition strstr (s t : string) : bool :=
  match String.index 0 t s with Some _ => true | None => false end.

(** In the C locale no byte above 127 is a letter. *)
Definition pg_toupper (ch : ascii) : ascii :=
  if in_range "a" "z" ch then ascii_of_N (N_of_ascii ch - 32) else ch.

(** ** Constants of the parse trees *)

Definition REPLICA_IDENTITY_DEFAULT : ascii := "d".
Definition REPLICA_IDENTITY_NOTHING : ascii := "n".
Definition REPLICA_IDENTITY_FULL : ascii := "f".
Definition REPLICA_IDENTITY_INDEX : ascii := "i".

(** ** Productions *)

Definition deparseAnyNameSkipFirst (parts : list Node) : dep :=
  foreach_sep (fun n => assert_ (IsA_String n) ;;; quoted_cell n) (chr ".") (tl parts).

Definition deparseAnyNameSkipLast (parts : list Node) : dep :=
  foreach_sep quoted_cell (chr ".") (removelast parts).

Definition deparseRoleSpec (role_spec : RoleSpec.t Node) : dep :=
  match role_spec.(RoleSpec.roletype) with
  | ROLESPEC_CSTRING =>
      assert_ (notnull role_spec.(RoleSpec.rolename)) ;;;
      quoted role_spec.(RoleSpec.rolename)
  | ROLESPEC_CURRENT_USER => str "CURRENT_USER"
  | ROLESPEC_SESSION_USER => str "SESSION_USER"
  | ROLESPEC_PUBLIC => str "public"
  end.

Definition deparseRoleList (roles : list Node) : dep :=
  foreach_sep (fun n => castNode_RoleSpec n deparseRoleSpec) (str ", ") roles.

Definition deparseSimpleTypename (node : Node) : dep :=
  castNode_TypeName node deparseTypeName.

Definition deparseNumericOnlyList (l : list Node) : dep :=
  foreach_sep (fun n => as_Value n deparseNumericOnly) (str ", ") l.

Definition deparseOptSeqOptList (options : list Node) : dep :=
  when (nonempty options) (deparseSeqOptList options).

Definition deparseOptDropBehavior (behavior : DropBehavior) : dep :=
  match behavior with
  | DROP_RESTRICT => skip
  | DROP_CASCADE => str "CASCADE "
  end.

Definition deparseGenericDefElemName (val : string) : dep := str (string_map pg_toupper val).

Definition deparseDefinition (options : list Node) : dep :=
  chr "(" ;;;
  foreach_sep (fun n =>
      castNode_DefElem n (fun def_elem =>
        quoted def_elem.(DefElem.defname) ;;;
        when_some def_elem.(DefElem.arg) (fun arg => str " = " ;;; deparseDefArg arg false)))
    (str ", ") options ;;;
  chr ")".

Definition deparseOptDefinition (options : list Node) : dep :=
  when (nonempty options) (str "WITH " ;;; deparseDefinition options).

Definition deparseVarName (s : string) : dep :=
  deparseColId s.

Definition deparseNonReservedWordOrSconst (val : string) : dep :=
  if (String.length val =? 0)%nat then str "''"
  else if (NAMEDATALEN <=? strlen val)%Z then deparseStringLiteral val
  else str (quote_identifier val).

Definition deparseOptBooleanOrString (s : option string) : dep :=
  match s with
  | None => skip
  | Some s =>
      if String.eqb s "true" then str "TRUE"
      else if String.eqb s "false" then str "FALSE"
      else if String.eqb s "on" then str "ON"
      else if String.eqb s "off" then str "OFF"
      else deparseNonReservedWordOrSconst s
  end.

Definition deparseVarList (l : list Node) : dep :=
  foreach_sep (fun n =>
      if IsA_ParamRef n then castNode_ParamRef n deparseParamRef
      else if IsA_A_Const n then
        castNode_A_Const n (fun a_const =>
          if value_is_Integer a_const.(A_Const.val) || value_is_Float a_const.(A_Const.val) then
            deparseNumericOnly a_const.(A_Const.val)
          else if value_is_String a_const.(A_Const.val) then
            value_str a_const.(A_Const.val) (fun s => deparseOptBooleanOrString (Some s))
          else assert_ false)
      else assert_ false)
    (str ", ") l.

Definition isolation_level (s : string) : dep :=
  if String.eqb s "read uncommitted" then str "READ UNCOMMITTED"
  else if String.eqb s "read committed" then str "READ COMMITTED"
  else if String.eqb s "repeatable read" then str "REPEATABLE READ"
  else if String.eqb s "serializable" then str "SERIALIZABLE"
  else assert_ false.

Definition deparseTransactionModeList (l : list Node) : dep :=
  foreach_sep (fun n =>
      castNode_DefElem n (fun def_elem =>
        deref def_elem.(DefElem.defname) (fun defname =>
          let const := deref def_elem.(DefElem.arg) in
          if String.eqb defname "transaction_isolation" then
            const (fun n => castNode_A_Const n (fun a_const =>
              value_str a_const.(A_Const.val) (fun s => str "ISOLATION LEVEL " ;;; isolation_level s)))
          else if String.eqb defname "transaction_read_only" then
            const (fun n => const_int n (yes_no_int (str "READ ONLY") (str "READ WRITE")))
          else if String.eqb defname "transaction_deferrable" then
            const (fun n => const_int n (yes_no_int (str "DEFERRABLE") (str "NOT DEFERRABLE")))
          else assert_ false)))
    (str ", ") l.

(** The branch for [SET TRANSACTION] and its like. *)
Definition set_multi (variable_set_stmt : VariableSetStmt.t Node) : dep :=
  deref variable_set_stmt.(VariableSetStmt.name) (fun name =>
    if String.eqb name "TRANSACTION" then
      str "TRANSACTION " ;;; deparseTransactionModeList variable_set_stmt.(VariableSetStmt.args)
    else if String.eqb name "SESSION CHARACTERISTICS" then
      str "SESSION CHARACTERISTICS AS TRANSACTION " ;;;
      deparseTransactionModeList variable_set_stmt.(VariableSetStmt.args)
    else if String.eqb name "TRANSACTION SNAPSHOT" then
      str "TRANSACTION SNAPSHOT " ;;;
      linitial variable_set_stmt.(VariableSetStmt.args) (fun n =>
        castNode_A_Const n (fun a_const => value_str a_const.(A_Const.val) deparseStringLiteral))
    else assert_ false).

Definition deparseVariableSetStmt (variable_set_stmt : VariableSetStmt.t Node) : dep :=
  let set_ := str "SET " ;;; when variable_set_stmt.(VariableSetStmt.is_local) (str "LOCAL ") in
  let name := deref variable_set_stmt.(VariableSetStmt.name) deparseVarName in
  match variable_set_stmt.(VariableSetStmt.kind) with
  | VAR_SET_VALUE =>
      set_ ;;; name ;;; str " TO " ;;; deparseVarList variable_set_stmt.(VariableSetStmt.args)
  | VAR_SET_DEFAULT => set_ ;;; name ;;; str " TO DEFAULT"
  | VAR_SET_CURRENT => set_ ;;; name ;;; str " FROM CURRENT"
  | VAR_SET_MULTI =>
      assert_ (notnull variable_set_stmt.(VariableSetStmt.name)) ;;;
      set_ ;;; set_multi variable_set_stmt
  | VAR_RESET => str "RESET " ;;; name
  | VAR_RESET_ALL => str "RESET ALL"
  end.

Definition deparseCommonFuncOptItem (def_elem : DefElem.t Node) : dep :=
  let arg := def_elem.(DefElem.arg) in
  let value := deref arg (fun n => as_Value n (fun v => deparseValue v DEPARSE_NODE_CONTEXT_NONE)) in
  deref def_elem.(DefElem.defname) (fun defname =>
    if String.eqb defname "strict" then
      yes_no arg (str "RETURNS NULL ON NULL INPUT") (str "CALLED ON NULL INPUT")
    else if String.eqb defname "volatility" then
      deref arg (fun n => strVal n (fun s =>
        if String.eqb s "immutable" then str "IMMUTABLE"
        else if String.eqb s "stable" then str "STABLE"
        else if String.eqb s "volatile" then str "VOLATILE"
        else assert_ false))
    else if String.eqb defname "security" then
      yes_no arg (str "SECURITY DEFINER") (str "SECURITY INVOKER")
    else if String.eqb defname "leakproof" then
      yes_no arg (str "LEAKPROOF") (str "NOT LEAKPROOF")
    else if String.eqb defname "cost" then str "COST " ;;; value
    else if String.eqb defname "rows" then str "ROWS " ;;; value
    else if String.eqb defname "support" then str "SUPPORT " ;;; castList arg deparseAnyName
    else if String.eqb defname "set" then
      deref arg (fun n =>
        match n with
        | N_VariableSetStmt x => deparseVariableSetStmt x
        | _ => assert_ false
        end)
    else if String.eqb defname "parallel" then
      str "PARALLEL " ;;; deref arg quoted_cell
    else assert_ false).

Definition deparseFuncAs (l : list Node) : dep :=
  foreach_sep (fun n =>
      strVal n (fun strval =>
        if negb (strstr strval "$$") then str "$$" ;;; str strval ;;; str "$$"
        else deparseStringLiteral strval))
    (str ", ") l.

Definition deparseCreateFuncOptItem (def_elem : DefElem.t Node) : dep :=
  deref def_elem.(DefElem.defname) (fun defname =>
    if String.eqb defname "as" then
      str "AS " ;;;
      castList def_elem.(DefElem.arg) deparseFuncAs
    else if String.eqb defname "language" then
      str "LANGUAGE " ;;;
      deref def_elem.(DefElem.arg) (fun arg => strVal arg deparseNonReservedWordOrSconst)
    else if String.eqb defname "transform" then
      castList def_elem.(DefElem.arg) (fun l =>
        str "TRANSFORM " ;;;
        foreach_sep (fun n =>
            str "FOR TYPE " ;;;
            castNode_TypeName n deparseTypeName)
          (str ", ") l)
    else if String.eqb defname "window" then str "WINDOW"
    else deparseCommonFuncOptItem def_elem).

Definition deparseAlterGenericOptions (options : list Node) : dep :=
  str "OPTIONS (" ;;;
  foreach_sep (fun n =>
      castNode_DefElem n (fun def_elem =>
        match def_elem.(DefElem.defaction) with
        | DEFELEM_UNSPEC =>
            quoted def_elem.(DefElem.defname) ;;;
            chr " " ;;;
            deref def_elem.(DefElem.arg) (fun arg => strVal arg deparseStringLiteral)
        | DEFELEM_SET =>
            str "SET " ;;;
            quoted def_elem.(DefElem.defname) ;;;
            chr " " ;;;
            deref def_elem.(DefElem.arg) (fun arg => strVal arg deparseStringLiteral)
        | DEFELEM_ADD =>
            str "ADD " ;;;
            quoted def_elem.(DefElem.defname) ;;;
            chr " " ;;;
            deref def_elem.(DefElem.arg) (fun arg => strVal arg deparseStringLiteral)
        | DEFELEM_DROP =>
            str "DROP " ;;;
            quoted def_elem.(DefElem.defname)
        end))
    (str ", ") options ;;;
  str ") ".

Definition deparseFunctionParameter (function_parameter : FunctionParameter.t Node) : dep :=
  match function_parameter.(FunctionParameter.mode) with
  | FUNC_PARAM_IN => skip
  | FUNC_PARAM_OUT => str "OUT "
  | FUNC_PARAM_INOUT => str "INOUT "
  | FUNC_PARAM_VARIADIC => str "VARIADIC "
  | FUNC_PARAM_TABLE => skip
  end ;;;
  when_some function_parameter.(FunctionParameter.name) (fun name => str name ;;; chr " ") ;;;
  deref function_parameter.(FunctionParameter.argType) deparseTypeName ;;;
  chr " " ;;;
  when_some function_parameter.(FunctionParameter.defexpr) (fun defexpr =>
    str "= " ;;; deparseExpr defexpr) ;;;
  rts.

Definition deparseFunctionWithArgtypes (object_with_args : ObjectWithArgs.t Node) : dep :=
  deparseFuncName object_with_args.(ObjectWithArgs.objname) ;;;
  when (negb object_with_args.(ObjectWithArgs.args_unspecified))
    (chr "(" ;;;
     foreach_sep (fun n =>
         if IsA_TypeName n then castNode_TypeName n deparseTypeName
         else castNode_FunctionParameter n deparseFunctionParameter)
       (str ", ") object_with_args.(ObjectWithArgs.objargs) ;;;
     chr ")").

Definition deparseFunctionWithArgtypesList (l : list Node) : dep :=
  foreach_sep (fun n => castNode_ObjectWithArgs n deparseFunctionWithArgtypes) (str ", ") l.

Definition operator_arg (n : Node) : dep :=
  match n with
  | N_List [] => str "NONE"                          (* a null cell *)
  | _ => castNode_TypeName n deparseTypeName
  end.

Definition deparseOperatorWithArgtypes (object_with_args : ObjectWithArgs.t Node) : dep :=
  deparseAnyOperator object_with_args.(ObjectWithArgs.objname) ;;;
  assert_ (List.length object_with_args.(ObjectWithArgs.objargs) =? 2)%nat ;;;
  chr "(" ;;;
  linitial object_with_args.(ObjectWithArgs.objargs) operator_arg ;;;
  str ", " ;;;
  lsecond object_with_args.(ObjectWithArgs.objargs) operator_arg ;;;
  chr ")".

(** The loop over the arguments, from index [i] on. *)
Fixpoint aggr_args_loop (order_by_pos i : Z) (args : list Node) : dep :=
  match args with
  | [] => skip
  | n :: rest =>
      (if (i =? order_by_pos)%Z then when (0 <? i)%Z (chr " ") ;;; str "ORDER BY "
       else when (0 <? i)%Z (str ", ")) ;;;
      castNode_FunctionParameter n deparseFunctionParameter ;;;
      aggr_args_loop order_by_pos (i + 1) rest
  end.

Definition deparseAggrArgs (aggr_args : list Node) : dep :=
  assert_ (List.length aggr_args =? 2)%nat ;;;
  linitial aggr_args (fun n => castNode_List n (fun args =>
    lsecond aggr_args (fun n1 => intVal n1 (fun order_by_pos =>
      chr "(" ;;;
      (if nonempty args then
         aggr_args_loop order_by_pos 0 args ;;;
         when (order_by_pos =? Z.of_nat (List.length args))%Z
           (str " ORDER BY " ;;;
            llast args (fun n => castNode_FunctionParameter n deparseFunctionParameter))
       else chr "*") ;;;
      chr ")")))).

Definition deparseAggregateWithArgtypes (object_with_args : ObjectWithArgs.t Node) : dep :=
  deparseFuncName object_with_args.(ObjectWithArgs.objname) ;;;
  chr "(" ;;;
  (if negb (nonempty object_with_args.(ObjectWithArgs.objargs)) then chr "*"
   else
     foreach_sep (fun n => castNode_TypeName n deparseTypeName) (str ", ")
       object_with_args.(ObjectWithArgs.objargs)) ;;;
  chr ")".

Definition deparseRelationExprList (relation_exprs : list Node) : dep :=
  foreach_sep (fun n =>
      castNode_RangeVar n (fun range_var => deparseRangeVar range_var DEPARSE_NODE_CONTEXT_NONE))
    (str ", ") relation_exprs.

Definition deparseHandlerName (handler_name : list Node) : dep :=
  foreach_sep quoted_cell (chr ".") handler_name.

Definition deparseFdwOptions (fdw_options : list Node) : dep :=
  foreach_sep (fun n =>
      castNode_DefElem n (fun def_elem =>
        deref def_elem.(DefElem.defname) (fun defname =>
          if String.eqb defname "handler" && notnull def_elem.(DefElem.arg) then
            str "HANDLER " ;;;
            castList def_elem.(DefElem.arg) deparseHandlerName
          else if String.eqb defname "handler" && negb (notnull def_elem.(DefElem.arg)) then
            str "NO HANDLER "
          else if String.eqb defname "validator" && notnull def_elem.(DefElem.arg) then
            str "VALIDATOR " ;;;
            castList def_elem.(DefElem.arg) deparseHandlerName
          else if String.eqb defname "validator" && negb (notnull def_elem.(DefElem.arg)) then
            str "NO VALIDATOR "
          else assert_ false)))
    (chr " ") fdw_options.

Definition deparseAlterIdentityColumnOptionList (l : list Node) : dep :=
  foreach_sep (fun n =>
      castNode_DefElem n (fun def_elem =>
        deref def_elem.(DefElem.defname) (fun defname =>
          if String.eqb defname "restart" then
            match def_elem.(DefElem.arg) with
            | None => str "RESTART"
            | Some arg => str "RESTART " ;;; as_Value arg deparseNumericOnly
            end
          else if String.eqb defname "generated" then
            str "SET GENERATED " ;;;
            deref def_elem.(DefElem.arg) (fun arg => intVal arg (fun z =>
              if (z =? char_code ATTRIBUTE_IDENTITY_ALWAYS)%Z then str "ALWAYS"
              else if (z =? char_code ATTRIBUTE_IDENTITY_BY_DEFAULT)%Z then str "BY DEFAULT"
              else assert_ false))
          else str "SET " ;;; deparseSeqOptElem def_elem)))
    (chr " ") l.

Definition deparseAnyNameList (l : list Node) : dep :=
  foreach_sep (fun n => castNode_List n deparseAnyName) (str ", ") l.

Definition deparseFuncExprWindowless : Node -> dep := deparse E_FuncExprWindowless.

Definition deparseOptInherit (l : list Node) : dep :=
  when (nonempty l) (str "INHERITS (" ;;; deparseQualifiedNameList l ;;; str ") ").

Definition deparsePrivilegeTarget (targtype : GrantTargetType) (objtype : ObjectType) (objs : list Node) :
    dep :=
  match targtype with
  | ACL_TARGET_OBJECT =>
      match objtype with
      | OBJECT_TABLE => deparseQualifiedNameList objs
      | OBJECT_SEQUENCE => str "SEQUENCE " ;;; deparseQualifiedNameList objs
      | OBJECT_FDW =>
          str "FOREIGN DATA WRAPPER " ;;;
          deparseNameList objs
      | OBJECT_FOREIGN_SERVER => str "FOREIGN SERVER " ;;; deparseNameList objs
      | OBJECT_FUNCTION =>
          str "FUNCTION " ;;;
          deparseFunctionWithArgtypesList objs
      | OBJECT_PROCEDURE =>
          str "PROCEDURE " ;;;
          deparseFunctionWithArgtypesList objs
      | OBJECT_ROUTINE =>
          str "ROUTINE " ;;;
          deparseFunctionWithArgtypesList objs
      | OBJECT_DATABASE => str "DATABASE " ;;; deparseNameList objs
      | OBJECT_DOMAIN => str "DOMAIN " ;;; deparseAnyNameList objs
      | OBJECT_LANGUAGE => str "LANGUAGE " ;;; deparseNameList objs
      | OBJECT_LARGEOBJECT =>
          str "LARGE OBJECT " ;;;
          deparseNumericOnlyList objs
      | OBJECT_SCHEMA => str "SCHEMA " ;;; deparseNameList objs
      | OBJECT_TABLESPACE => str "TABLESPACE " ;;; deparseNameList objs
      | OBJECT_TYPE => str "TYPE " ;;; deparseAnyNameList objs
      | _ => assert_ false
      end
  | ACL_TARGET_ALL_IN_SCHEMA =>
      match objtype with
      | OBJECT_TABLE =>
          str "ALL TABLES IN SCHEMA " ;;;
          deparseNameList objs
      | OBJECT_SEQUENCE =>
          str "ALL SEQUENCES IN SCHEMA " ;;;
          deparseNameList objs
      | OBJECT_FUNCTION =>
          str "ALL FUNCTIONS IN SCHEMA " ;;;
          deparseNameList objs
      | OBJECT_PROCEDURE =>
          str "ALL PROCEDURES IN SCHEMA " ;;;
          deparseNameList objs
      | OBJECT_ROUTINE =>
          str "ALL ROUTINES IN SCHEMA " ;;;
          deparseNameList objs
      | _ => assert_ false
      end
  | ACL_TARGET_DEFAULTS =>
      match objtype with
      | OBJECT_TABLE => str "TABLES"
      | OBJECT_FUNCTION => str "FUNCTIONS"
      | OBJECT_SEQUENCE => str "SEQUENCES"
      | OBJECT_TYPE => str "TYPES"
      | OBJECT_SCHEMA => str "SCHEMAS"
      | _ => assert_ false
      end
  end.

Definition deparseCreatedbOptList (l : list Node) : dep :=
  foreach_sep (fun n =>
      castNode_DefElem n (fun def_elem =>
        deref def_elem.(DefElem.defname) (fun defname =>
          if String.eqb defname "connection_limit" then str "CONNECTION LIMIT"
          else deparseGenericDefElemName defname) ;;;
        chr " " ;;;
        match def_elem.(DefElem.arg) with
        | Some arg =>
            if IsA_Integer arg then as_Value arg deparseSignedIconst
            else when (IsA_String arg) (strVal arg (fun s => deparseOptBooleanOrString (Some s)))
        | None => str "DEFAULT"
        end))
    (chr " ") l.

Definition deparseAccessPriv (access_priv : AccessPriv.t Node) : dep :=
  match access_priv.(AccessPriv.priv_name) with
  | Some priv_name =>
      if String.eqb priv_name "select" then str "select"
      else if String.eqb priv_name "references" then str "references"
      else if String.eqb priv_name "create" then str "create"
      else str (quote_identifier priv_name)
  | None => str "ALL"
  end ;;;
  chr " " ;;;
  when (nonempty access_priv.(AccessPriv.cols))
    (chr "(" ;;;
     deparseColumnList access_priv.(AccessPriv.cols) ;;;
     chr ")") ;;;
  rts.

Definition deparseAlterRoleElem (def_elem : DefElem.t Node) : dep :=
  let arg := def_elem.(DefElem.arg) in
  deref def_elem.(DefElem.defname) (fun defname =>
    if String.eqb defname "password" then
      str "PASSWORD " ;;;
      match arg with
      | None => str "NULL"
      | Some (N_ParamRef p) => deparseParamRef p
      | Some (N_Value (String_ s)) => deparseStringLiteral s
      | Some _ => assert_ false
      end
    else if String.eqb defname "connectionlimit" then
      deref arg (fun n => intVal n (fun z => fmt ("CONNECTION LIMIT " +:+ fmt_d z)))
    else if String.eqb defname "validUntil" then
      str "VALID UNTIL " ;;; deref arg (fun n => strVal n deparseStringLiteral)
    else if String.eqb defname "superuser" then yes_no arg (str "SUPERUSER") (str "NOSUPERUSER")
    else if String.eqb defname "createrole" then yes_no arg (str "CREATEROLE") (str "NOCREATEROLE")
    else if String.eqb defname "isreplication" then
      yes_no arg (str "REPLICATION") (str "NOREPLICATION")
    else if String.eqb defname "createdb" then yes_no arg (str "CREATEDB") (str "NOCREATEDB")
    else if String.eqb defname "canlogin" then yes_no arg (str "LOGIN") (str "NOLOGIN")
    else if String.eqb defname "bypassrls" then yes_no arg (str "BYPASSRLS") (str "NOBYPASSRLS")
    else if String.eqb defname "inherit" then yes_no arg (str "INHERIT") (str "NOINHERIT")
    else assert_ false).

Definition deparseCreateRoleElem (def_elem : DefElem.t Node) : dep :=
  deref def_elem.(DefElem.defname) (fun defname =>
    if String.eqb defname "sysid" then
      deref def_elem.(DefElem.arg) (fun arg => intVal arg (fun z => fmt ("SYSID " +:+ fmt_d z)))
    else if String.eqb defname "adminmembers" then
      str "ADMIN " ;;;
      castList def_elem.(DefElem.arg) deparseRoleList
    else if String.eqb defname "rolemembers" then
      str "ROLE " ;;;
      castList def_elem.(DefElem.arg) deparseRoleList
    else if String.eqb defname "addroleto" then
      str "IN ROLE " ;;;
      castList def_elem.(DefElem.arg) deparseRoleList
    else deparseAlterRoleElem def_elem).

Definition deparseReplicaIdentityStmt (replica_identity_stmt : ReplicaIdentityStmt.t Node) :
    dep :=
  if Ascii.eqb replica_identity_stmt.(ReplicaIdentityStmt.identity_type) REPLICA_IDENTITY_NOTHING then
    str "NOTHING "
  else if Ascii.eqb replica_identity_stmt.(ReplicaIdentityStmt.identity_type) REPLICA_IDENTITY_FULL then
    str "FULL "
  else if Ascii.eqb replica_identity_stmt.(ReplicaIdentityStmt.identity_type) REPLICA_IDENTITY_DEFAULT then
    str "DEFAULT "
  else if Ascii.eqb replica_identity_stmt.(ReplicaIdentityStmt.identity_type) REPLICA_IDENTITY_INDEX then
    assert_ (notnull replica_identity_stmt.(ReplicaIdentityStmt.name)) ;;;
    str "USING INDEX " ;;;
    quoted replica_identity_stmt.(ReplicaIdentityStmt.name)
  else skip.

Definition deparseOperatorDefList (defs : list Node) : dep :=
  foreach_sep (fun n =>
      castNode_DefElem n (fun def_elem =>
        quoted def_elem.(DefElem.defname) ;;;
        str " = " ;;;
        match def_elem.(DefElem.arg) with
        | Some arg => deparseDefArg arg true
        | None => str "NONE"
        end))
    (str ", ") defs.

(** A loop that appends a comma between the elements and a space after each. *)
Definition comma_list (f : Node -> dep) (l : list Node) : dep :=
  foreach_sep f (chr "," ;;; chr " ") l ;;; when (nonempty l) (chr " ").
