(* ===== verification/DeparseTables.v ===== *)
(** * The deparser: statements that define objects

    [CREATE] and [ALTER] of tables and what belongs to them, views, indexes, types,
    functions, triggers, policies, foreign data, text search and the like:
    productions of [src/pg_query_deparse.c] under the names of their functions. *)
From S2P Require Import Prelude Buffer Keywords Quote Enums Nodes DeparseNames DeparseExpr DeparseStmt.
From S2P Require Import DeparseParts.

(** ** Constants of the parse trees *)

Definition CREATE_TABLE_LIKE_COMMENTS : Z := Z.shiftl 1 0.
Definition CREATE_TABLE_LIKE_CONSTRAINTS : Z := Z.shiftl 1 1.
Definition CREATE_TABLE_LIKE_DEFAULTS : Z := Z.shiftl 1 2.
Definition CREATE_TABLE_LIKE_GENERATED : Z := Z.shiftl 1 3.
Definition CREATE_TABLE_LIKE_IDENTITY : Z := Z.shiftl 1 4.
Definition CREATE_TABLE_LIKE_INDEXES : Z := Z.shiftl 1 5.
Definition CREATE_TABLE_LIKE_STATISTICS : Z := Z.shiftl 1 6.
Definition CREATE_TABLE_LIKE_STORAGE : Z := Z.shiftl 1 7.
Definition CREATE_TABLE_LIKE_ALL : Z := int_max.

Definition PARTITION_STRATEGY_HASH : ascii := "h".
Definition PARTITION_STRATEGY_LIST : ascii := "l".
Definition PARTITION_STRATEGY_RANGE : ascii := "r".

Definition OPCLASS_ITEM_OPERATOR : Z := 1.
Definition OPCLASS_ITEM_FUNCTION : Z := 2.
Definition OPCLASS_ITEM_STORAGETYPE : Z := 3.

Definition AMTYPE_INDEX : ascii := "i".
Definition AMTYPE_TABLE : ascii := "t".

Definition TRIGGER_TYPE_BEFORE : Z := Z.shiftl 1 1.
Definition TRIGGER_TYPE_INSERT : Z := Z.shiftl 1 2.
Definition TRIGGER_TYPE_DELETE : Z := Z.shiftl 1 3.
Definition TRIGGER_TYPE_UPDATE : Z := Z.shiftl 1 4.
Definition TRIGGER_TYPE_TRUNCATE : Z := Z.shiftl 1 5.
Definition TRIGGER_TYPE_INSTEAD : Z := Z.shiftl 1 6.
Definition TRIGGER_TYPE_AFTER : Z := 0.
Definition TRIGGER_FOR_INSERT (type : Z) : bool := flag type TRIGGER_TYPE_INSERT.
Definition TRIGGER_FOR_DELETE (type : Z) : bool := flag type TRIGGER_TYPE_DELETE.
Definition TRIGGER_FOR_UPDATE (type : Z) : bool := flag type TRIGGER_TYPE_UPDATE.
Definition TRIGGER_FOR_TRUNCATE (type : Z) : bool := flag type TRIGGER_TYPE_TRUNCATE.

Definition TRIGGER_FIRES_ON_ORIGIN : ascii := "O".
Definition TRIGGER_FIRES_ALWAYS : ascii := "A".
Definition TRIGGER_FIRES_ON_REPLICA : ascii := "R".
Definition TRIGGER_DISABLED : ascii := "D".

(** ** Productions *)

Definition deparseCreateOpClassItem (create_op_class_item : CreateOpClassItem.t Node) : dep :=
  if (create_op_class_item.(CreateOpClassItem.itemtype) =? OPCLASS_ITEM_OPERATOR)%Z then
    str "OPERATOR " ;;;
    fmt (fmt_d create_op_class_item.(CreateOpClassItem.number) +:+ " ") ;;;
    when_some create_op_class_item.(CreateOpClassItem.name) (fun name =>
      (if nonempty name.(ObjectWithArgs.objargs) then deparseOperatorWithArgtypes name
       else deparseAnyOperator name.(ObjectWithArgs.objname)) ;;;
      chr " ") ;;;
    when (nonempty create_op_class_item.(CreateOpClassItem.order_family))
      (str "FOR ORDER BY " ;;;
       deparseAnyName create_op_class_item.(CreateOpClassItem.order_family)) ;;;
    when (nonempty create_op_class_item.(CreateOpClassItem.class_args))
      (chr "(" ;;;
       deparseTypeList create_op_class_item.(CreateOpClassItem.class_args) ;;;
       chr ")") ;;;
    rts
  else if (create_op_class_item.(CreateOpClassItem.itemtype) =? OPCLASS_ITEM_FUNCTION)%Z then
    str "FUNCTION " ;;;
    fmt (fmt_d create_op_class_item.(CreateOpClassItem.number) +:+ " ") ;;;
    when (nonempty create_op_class_item.(CreateOpClassItem.class_args))
      (chr "(" ;;;
       deparseTypeList create_op_class_item.(CreateOpClassItem.class_args) ;;;
       str ") ") ;;;
    when_some create_op_class_item.(CreateOpClassItem.name) deparseFunctionWithArgtypes ;;;
    rts
  else if (create_op_class_item.(CreateOpClassItem.itemtype) =? OPCLASS_ITEM_STORAGETYPE)%Z then
    str "STORAGE " ;;;
    deref create_op_class_item.(CreateOpClassItem.storedtype) deparseTypeName
  else assert_ false.

Definition deparseOpclassItemList (items : list Node) : dep :=
  foreach_sep (fun n => castNode_CreateOpClassItem n deparseCreateOpClassItem) (str ", ") items.

Definition deparseCreateCastStmt (create_cast_stmt : CreateCastStmt.t Node) : dep :=
  str "CREATE CAST (" ;;;
  deref create_cast_stmt.(CreateCastStmt.sourcetype) deparseTypeName ;;;
  str " AS " ;;;
  deref create_cast_stmt.(CreateCastStmt.targettype) deparseTypeName ;;;
  str ") " ;;;
  match create_cast_stmt.(CreateCastStmt.func) with
  | Some func =>
      str "WITH FUNCTION " ;;;
      deparseFunctionWithArgtypes func ;;;
      chr " "
  | None =>
      if create_cast_stmt.(CreateCastStmt.inout) then str "WITH INOUT "
      else str "WITHOUT FUNCTION "
  end ;;;
  match create_cast_stmt.(CreateCastStmt.context) with
  | COERCION_IMPLICIT => str "AS IMPLICIT"
  | COERCION_ASSIGNMENT => str "AS ASSIGNMENT"
  | COERCION_EXPLICIT => skip
  end.

Definition deparseCreateOpClassStmt (create_op_class_stmt : CreateOpClassStmt.t Node) : dep :=
  str "CREATE OPERATOR CLASS " ;;;
  deparseAnyName create_op_class_stmt.(CreateOpClassStmt.opclassname) ;;;
  chr " " ;;;
  when create_op_class_stmt.(CreateOpClassStmt.isDefault) (str "DEFAULT ") ;;;
  str "FOR TYPE " ;;;
  deref create_op_class_stmt.(CreateOpClassStmt.datatype) deparseTypeName ;;;
  chr " " ;;;
  str "USING " ;;;
  quoted create_op_class_stmt.(CreateOpClassStmt.amname) ;;;
  chr " " ;;;
  when (nonempty create_op_class_stmt.(CreateOpClassStmt.opfamilyname))
    (str "FAMILY " ;;;
     deparseAnyName create_op_class_stmt.(CreateOpClassStmt.opfamilyname) ;;;
     chr " ") ;;;
  str "AS " ;;;
  deparseOpclassItemList create_op_class_stmt.(CreateOpClassStmt.items).

Definition deparseCreateOpFamilyStmt (create_op_family_stmt : CreateOpFamilyStmt.t Node) : dep :=
  str "CREATE OPERATOR FAMILY " ;;;
  deparseAnyName create_op_family_stmt.(CreateOpFamilyStmt.opfamilyname) ;;;
  chr " " ;;;
  str "USING " ;;;
  quoted create_op_family_stmt.(CreateOpFamilyStmt.amname).

Definition deparseTableLikeClause (table_like_clause : TableLikeClause.t Node) : dep :=
  str "LIKE " ;;;
  deref table_like_clause.(TableLikeClause.relation) (fun relation =>
    deparseRangeVar relation DEPARSE_NODE_CONTEXT_NONE) ;;;
  chr " " ;;;
  (if (table_like_clause.(TableLikeClause.options) =? CREATE_TABLE_LIKE_ALL)%Z then
     str "INCLUDING ALL "
   else
     when (flag table_like_clause.(TableLikeClause.options) CREATE_TABLE_LIKE_COMMENTS)
       (str "INCLUDING COMMENTS ") ;;;
     when (flag table_like_clause.(TableLikeClause.options) CREATE_TABLE_LIKE_CONSTRAINTS)
       (str "INCLUDING CONSTRAINTS ") ;;;
     when (flag table_like_clause.(TableLikeClause.options) CREATE_TABLE_LIKE_DEFAULTS)
       (str "INCLUDING DEFAULTS ") ;;;
     when (flag table_like_clause.(TableLikeClause.options) CREATE_TABLE_LIKE_IDENTITY)
       (str "INCLUDING IDENTITY ") ;;;
     when (flag table_like_clause.(TableLikeClause.options) CREATE_TABLE_LIKE_GENERATED)
       (str "INCLUDING GENERATED ") ;;;
     when (flag table_like_clause.(TableLikeClause.options) CREATE_TABLE_LIKE_INDEXES)
       (str "INCLUDING INDEXES ") ;;;
     when (flag table_like_clause.(TableLikeClause.options) CREATE_TABLE_LIKE_STATISTICS)
       (str "INCLUDING STATISTICS ") ;;;
     when (flag table_like_clause.(TableLikeClause.options) CREATE_TABLE_LIKE_STORAGE)
       (str "INCLUDING STORAGE ")) ;;;
  rts.

Definition deparseCreateDomainStmt (create_domain_stmt : CreateDomainStmt.t Node) : dep :=
  assert_ (notnull create_domain_stmt.(CreateDomainStmt.typeName)) ;;;
  str "CREATE DOMAIN " ;;;
  deparseAnyName create_domain_stmt.(CreateDomainStmt.domainname) ;;;
  str " AS " ;;;
  deref create_domain_stmt.(CreateDomainStmt.typeName) deparseTypeName ;;;
  chr " " ;;;
  when_some create_domain_stmt.(CreateDomainStmt.collClause) (fun collClause =>
    deparseCollateClause collClause ;;; chr " ") ;;;
  foreach (fun n =>
      castNode_Constraint n deparseConstraint ;;; chr " ")
    create_domain_stmt.(CreateDomainStmt.constraints) ;;;
  rts.

Definition deparseCreateExtensionStmt (create_extension_stmt : CreateExtensionStmt.t Node) :
    dep :=
  str "CREATE EXTENSION " ;;;
  when create_extension_stmt.(CreateExtensionStmt.if_not_exists) (str "IF NOT EXISTS ") ;;;
  deref create_extension_stmt.(CreateExtensionStmt.extname) deparseColId ;;;
  chr " " ;;;
  foreach (fun n =>
      castNode_DefElem n (fun def_elem =>
        deref def_elem.(DefElem.defname) (fun defname =>
          if String.eqb defname "schema" then
            str "SCHEMA " ;;;
            deref def_elem.(DefElem.arg) (fun arg => strVal arg deparseColId)
          else if String.eqb defname "new_version" then
            str "VERSION " ;;;
            deref def_elem.(DefElem.arg) (fun arg => strVal arg deparseNonReservedWordOrSconst)
          else if String.eqb defname "cascade" then str "CASCADE"
          else assert_ false) ;;;
        chr " "))
    create_extension_stmt.(CreateExtensionStmt.options) ;;;
  rts.

Definition is_table_param (p : FunctionParameter.t Node) : bool :=
  bool_decide (p.(FunctionParameter.mode) = FUNC_PARAM_TABLE).

(** The loop over the parameters that are not columns of a result table. *)
Fixpoint function_params (l : list Node) : dep :=
  match l with
  | [] => skip
  | n :: rest =>
      castNode_FunctionParameter n (fun p =>
        when (negb (is_table_param p))
          (deparseFunctionParameter p ;;;
           match rest with
           | [] => skip
           | next :: _ => castNode_FunctionParameter next (fun p' =>
               when (negb (is_table_param p')) (str ", "))
           end)) ;;;
      function_params rest
  end.

(** [tableFunc] after the first loop. *)
Definition table_func (l : list Node) : bool :=
  existsb (fun n => match n with N_FunctionParameter p => is_table_param p | _ => false end) l.

(** The loop over the columns. *)
Fixpoint table_params (l : list Node) : dep :=
  match l with
  | [] => skip
  | n :: rest =>
      castNode_FunctionParameter n (fun p =>
        when (is_table_param p) (deparseFunctionParameter p ;;; when (nonempty rest) (str ", "))) ;;;
      table_params rest
  end.

Definition deparseCreateFunctionStmt (create_function_stmt : CreateFunctionStmt.t Node) : dep :=
  str "CREATE " ;;;
  when create_function_stmt.(CreateFunctionStmt.replace) (str "OR REPLACE ") ;;;
  (if create_function_stmt.(CreateFunctionStmt.is_procedure) then str "PROCEDURE "
   else str "FUNCTION ") ;;;
  deparseFuncName create_function_stmt.(CreateFunctionStmt.funcname) ;;;
  chr "(" ;;;
  function_params create_function_stmt.(CreateFunctionStmt.parameters) ;;;
  str ") " ;;;
  (if table_func create_function_stmt.(CreateFunctionStmt.parameters) then
     str "RETURNS TABLE (" ;;;
     table_params create_function_stmt.(CreateFunctionStmt.parameters) ;;;
     str ") "
   else
     when_some create_function_stmt.(CreateFunctionStmt.returnType) (fun returnType =>
       str "RETURNS " ;;; deparseTypeName returnType ;;; chr " ")) ;;;
  foreach (fun n => castNode_DefElem n deparseCreateFuncOptItem ;;; chr " ")
    create_function_stmt.(CreateFunctionStmt.options) ;;;
  rts.

Definition deparseTableElement (node : Node) : dep :=
  match node with
  | N_ColumnDef x => deparseColumnDef x
  | N_TableLikeClause x => deparseTableLikeClause x
  | N_Constraint x => deparseConstraint x
  | _ => assert_ false
  end.

Definition deparsePartitionBoundSpec (partition_bound_spec : PartitionBoundSpec.t Node) : dep :=
  if partition_bound_spec.(PartitionBoundSpec.is_default) then str "DEFAULT"
  else
    str "FOR VALUES " ;;;
    (if Ascii.eqb partition_bound_spec.(PartitionBoundSpec.strategy) PARTITION_STRATEGY_HASH then
       fmt ("WITH (MODULUS " +:+ fmt_d partition_bound_spec.(PartitionBoundSpec.modulus) +:+ ", REMAINDER " +:+ fmt_d partition_bound_spec.(PartitionBoundSpec.remainder) +:+ ")")
     else if Ascii.eqb partition_bound_spec.(PartitionBoundSpec.strategy) PARTITION_STRATEGY_LIST then
       str "IN (" ;;;
       deparseExprList partition_bound_spec.(PartitionBoundSpec.listdatums) ;;;
       chr ")"
     else if Ascii.eqb partition_bound_spec.(PartitionBoundSpec.strategy) PARTITION_STRATEGY_RANGE then
       str "FROM (" ;;;
       deparseExprList partition_bound_spec.(PartitionBoundSpec.lowerdatums) ;;;
       str ") TO (" ;;;
       deparseExprList partition_bound_spec.(PartitionBoundSpec.upperdatums) ;;;
       chr ")"
     else assert_ false).

Definition deparsePartitionElem (partition_elem : PartitionElem.t Node) : dep :=
  match partition_elem.(PartitionElem.name) with
  | Some name => deparseColId name ;;; chr " "
  | None =>
      when_some partition_elem.(PartitionElem.expr) (fun expr =>
        chr "(" ;;; deparseExpr expr ;;; str ") ")
  end ;;;
  deparseOptCollate partition_elem.(PartitionElem.collation) ;;;
  deparseAnyName partition_elem.(PartitionElem.opclass) ;;;
  rts.

Definition deparsePartitionSpec (partition_spec : PartitionSpec.t Node) : dep :=
  str "PARTITION BY " ;;;
  deref partition_spec.(PartitionSpec.strategy) str ;;;
  chr "(" ;;;
  foreach_sep (fun n => castNode_PartitionElem n deparsePartitionElem) (str ", ")
    partition_spec.(PartitionSpec.partParams) ;;;
  chr ")".

Definition deparseCreateStmt (create_stmt : CreateStmt.t Node) (is_foreign_table : bool) : dep :=
  str "CREATE " ;;;
  when is_foreign_table (str "FOREIGN ") ;;;
  deref create_stmt.(CreateStmt.relation) (fun relation =>
    deparseOptTemp relation.(RangeVar.relpersistence)) ;;;
  str "TABLE " ;;;
  when create_stmt.(CreateStmt.if_not_exists) (str "IF NOT EXISTS ") ;;;
  deref create_stmt.(CreateStmt.relation) (fun relation =>
    deparseRangeVar relation DEPARSE_NODE_CONTEXT_NONE) ;;;
  chr " " ;;;
  when_some create_stmt.(CreateStmt.ofTypename) (fun ofTypename =>
    str "OF " ;;; deparseTypeName ofTypename ;;; chr " ") ;;;
  when (notnull create_stmt.(CreateStmt.partbound))
    (assert_ (List.length create_stmt.(CreateStmt.inhRelations) =? 1)%nat ;;;
     str "PARTITION OF " ;;;
     linitial create_stmt.(CreateStmt.inhRelations) (fun n =>
       castNode_RangeVar n (fun range_var => deparseRangeVar range_var DEPARSE_NODE_CONTEXT_NONE)) ;;;
     chr " ") ;;;
  (if nonempty create_stmt.(CreateStmt.tableElts) then
     chr "(" ;;;
     foreach_sep deparseTableElement (str ", ") create_stmt.(CreateStmt.tableElts) ;;;
     str ") "
   else
     when (negb (notnull create_stmt.(CreateStmt.partbound)) && negb (notnull create_stmt.(CreateStmt.ofTypename)))
       (str "() ")) ;;;
  match create_stmt.(CreateStmt.partbound) with
  | Some partbound => deparsePartitionBoundSpec partbound ;;; chr " "
  | None => deparseOptInherit create_stmt.(CreateStmt.inhRelations)
  end ;;;
  when_some create_stmt.(CreateStmt.partspec) (fun partspec =>
    deparsePartitionSpec partspec ;;; chr " ") ;;;
  when_some create_stmt.(CreateStmt.accessMethod) (fun accessMethod =>
    str "USING " ;;; str (quote_identifier accessMethod)) ;;;
  deparseOptWith create_stmt.(CreateStmt.options) ;;;
  match create_stmt.(CreateStmt.oncommit) with
  | ONCOMMIT_NOOP => skip
  | ONCOMMIT_PRESERVE_ROWS => str "ON COMMIT PRESERVE ROWS "
  | ONCOMMIT_DELETE_ROWS => str "ON COMMIT DELETE ROWS "
  | ONCOMMIT_DROP => str "ON COMMIT DROP "
  end ;;;
  when_some create_stmt.(CreateStmt.tablespacename) (fun tablespacename =>
    str "TABLESPACE " ;;;
    str (quote_identifier tablespacename)) ;;;
  rts.

Definition deparseIndexStmt (index_stmt : IndexStmt.t Node) : dep :=
  str "CREATE " ;;;
  when index_stmt.(IndexStmt.unique) (str "UNIQUE ") ;;;
  str "INDEX " ;;;
  when index_stmt.(IndexStmt.concurrent) (str "CONCURRENTLY ") ;;;
  when index_stmt.(IndexStmt.if_not_exists) (str "IF NOT EXISTS ") ;;;
  when_some index_stmt.(IndexStmt.idxname) (fun idxname => str idxname ;;; chr " ") ;;;
  str "ON " ;;;
  deref index_stmt.(IndexStmt.relation) (fun relation =>
    deparseRangeVar relation DEPARSE_NODE_CONTEXT_NONE) ;;;
  chr " " ;;;
  when_some index_stmt.(IndexStmt.accessMethod) (fun accessMethod =>
    str "USING " ;;;
    str (quote_identifier accessMethod) ;;;
    chr " ") ;;;
  chr "(" ;;;
  foreach_sep (fun n => castNode_IndexElem n deparseIndexElem) (str ", ")
    index_stmt.(IndexStmt.indexParams) ;;;
  str ") " ;;;
  when (nonempty index_stmt.(IndexStmt.indexIncludingParams))
    (str "INCLUDE (" ;;;
     foreach_sep (fun n => castNode_IndexElem n deparseIndexElem) (str ", ")
       index_stmt.(IndexStmt.indexIncludingParams) ;;;
     str ") ") ;;;
  deparseOptWith index_stmt.(IndexStmt.options) ;;;
  when_some index_stmt.(IndexStmt.tableSpace) (fun tableSpace =>
    str "TABLESPACE " ;;;
    str (quote_identifier tableSpace) ;;;
    chr " ") ;;;
  deparseWhereClause index_stmt.(IndexStmt.whereClause) ;;;
  rts.

Definition deparseCreateSeqStmt (create_seq_stmt : CreateSeqStmt.t Node) : dep :=
  str "CREATE " ;;;
  deref create_seq_stmt.(CreateSeqStmt.sequence) (fun sequence =>
    deparseOptTemp sequence.(RangeVar.relpersistence)) ;;;
  str "SEQUENCE " ;;;
  when create_seq_stmt.(CreateSeqStmt.if_not_exists) (str "IF NOT EXISTS ") ;;;
  deref create_seq_stmt.(CreateSeqStmt.sequence) (fun sequence =>
    deparseRangeVar sequence DEPARSE_NODE_CONTEXT_NONE) ;;;
  chr " " ;;;
  deparseOptSeqOptList create_seq_stmt.(CreateSeqStmt.options) ;;;
  rts.

(** The four tests of [events]; [skip_events_or] is whether none held before. *)
Definition trigger_events (events : Z) (columns : list Node) : dep :=
  let insert := TRIGGER_FOR_INSERT events in
  let delete := TRIGGER_FOR_DELETE events in
  let update := TRIGGER_FOR_UPDATE events in
  when insert (str "INSERT ") ;;;
  when delete (when insert (str "OR ") ;;; str "DELETE ") ;;;
  when update
    (when (insert || delete) (str "OR ") ;;;
     str "UPDATE " ;;;
     when (nonempty columns) (str "OF " ;;; deparseColumnList columns ;;; chr " ")) ;;;
  when (TRIGGER_FOR_TRUNCATE events) (when (insert || delete || update) (str "OR ") ;;; str "TRUNCATE ").

Definition deparseTriggerTransition (trigger_transition : TriggerTransition.t Node) : dep :=
  (if trigger_transition.(TriggerTransition.isNew) then str "NEW "
   else str "OLD ") ;;;
  (if trigger_transition.(TriggerTransition.isTable) then str "TABLE "
   else str "ROW ") ;;;
  quoted trigger_transition.(TriggerTransition.name).

Definition deparseCreateTrigStmt (create_trig_stmt : CreateTrigStmt.t Node) : dep :=
  str "CREATE " ;;;
  when create_trig_stmt.(CreateTrigStmt.isconstraint) (str "CONSTRAINT ") ;;;
  str "TRIGGER " ;;;
  quoted create_trig_stmt.(CreateTrigStmt.trigname) ;;;
  chr " " ;;;
  (if (create_trig_stmt.(CreateTrigStmt.timing) =? TRIGGER_TYPE_BEFORE)%Z then str "BEFORE "
   else if (create_trig_stmt.(CreateTrigStmt.timing) =? TRIGGER_TYPE_AFTER)%Z then str "AFTER "
   else if (create_trig_stmt.(CreateTrigStmt.timing) =? TRIGGER_TYPE_INSTEAD)%Z then str "INSTEAD OF "
   else assert_ false) ;;;
  trigger_events create_trig_stmt.(CreateTrigStmt.events) create_trig_stmt.(CreateTrigStmt.columns) ;;;
  str "ON " ;;;
  deref create_trig_stmt.(CreateTrigStmt.relation) (fun relation =>
    deparseRangeVar relation DEPARSE_NODE_CONTEXT_NONE) ;;;
  chr " " ;;;
  when (nonempty create_trig_stmt.(CreateTrigStmt.transitionRels))
    (str "REFERENCING " ;;;
     foreach (fun n => castNode_TriggerTransition n deparseTriggerTransition ;;; chr " ")
       create_trig_stmt.(CreateTrigStmt.transitionRels)) ;;;
  when_some create_trig_stmt.(CreateTrigStmt.constrrel) (fun constrrel =>
    str "FROM " ;;; deparseRangeVar constrrel DEPARSE_NODE_CONTEXT_NONE ;;; chr " ") ;;;
  when create_trig_stmt.(CreateTrigStmt.deferrable) (str "DEFERRABLE ") ;;;
  when create_trig_stmt.(CreateTrigStmt.initdeferred) (str "INITIALLY DEFERRED ") ;;;
  when create_trig_stmt.(CreateTrigStmt.row) (str "FOR EACH ROW ") ;;;
  when_some create_trig_stmt.(CreateTrigStmt.whenClause) (fun whenClause =>
    str "WHEN (" ;;; deparseExpr whenClause ;;; str ") ") ;;;
  str "EXECUTE FUNCTION " ;;;
  deparseFuncName create_trig_stmt.(CreateTrigStmt.funcname) ;;;
  chr "(" ;;;
  foreach_sep (fun n => strVal n deparseStringLiteral) (str ", ")
    create_trig_stmt.(CreateTrigStmt.args) ;;;
  chr ")".

Definition deparseGrantStmt (grant_stmt : GrantStmt.t Node) : dep :=
  let is_grant := grant_stmt.(GrantStmt.is_grant) in
  (if is_grant then str "GRANT " else str "REVOKE ") ;;;
  when (negb is_grant && grant_stmt.(GrantStmt.grant_option)) (str "GRANT OPTION FOR ") ;;;
  (if nonempty grant_stmt.(GrantStmt.privileges) then
     foreach_sep (fun n => castNode_AccessPriv n deparseAccessPriv) (str ", ")
       grant_stmt.(GrantStmt.privileges) ;;;
     chr " "
   else str "ALL ") ;;;
  str "ON " ;;;
  deparsePrivilegeTarget grant_stmt.(GrantStmt.targtype) grant_stmt.(GrantStmt.objtype)
    grant_stmt.(GrantStmt.objects) ;;;
  chr " " ;;;
  (if is_grant then str "TO " else str "FROM ") ;;;
  comma_list (fun n => castNode_RoleSpec n deparseRoleSpec) grant_stmt.(GrantStmt.grantees) ;;;
  when (is_grant && grant_stmt.(GrantStmt.grant_option)) (str "WITH GRANT OPTION ") ;;;
  deparseOptDropBehavior grant_stmt.(GrantStmt.behavior) ;;;
  rts.

Definition deparseViewStmt (view_stmt : ViewStmt.t Node) : dep :=
  str "CREATE " ;;;
  when view_stmt.(ViewStmt.replace) (str "OR REPLACE ") ;;;
  deref view_stmt.(ViewStmt.view) (fun view_ => deparseOptTemp view_.(RangeVar.relpersistence)) ;;;
  str "VIEW " ;;;
  deref view_stmt.(ViewStmt.view) (fun view_ => deparseRangeVar view_ DEPARSE_NODE_CONTEXT_NONE) ;;;
  chr " " ;;;
  when (nonempty view_stmt.(ViewStmt.aliases))
    (chr "(" ;;;
     deparseColumnList view_stmt.(ViewStmt.aliases) ;;;
     str ") ") ;;;
  deparseOptWith view_stmt.(ViewStmt.options) ;;;
  str "AS " ;;;
  deref view_stmt.(ViewStmt.query) (fun query => castNode_SelectStmt query deparseSelectStmt) ;;;
  chr " " ;;;
  match view_stmt.(ViewStmt.withCheckOption) with
  | NO_CHECK_OPTION => skip
  | LOCAL_CHECK_OPTION => str "WITH LOCAL CHECK OPTION "
  | CASCADED_CHECK_OPTION => str "WITH CHECK OPTION "
  end ;;;
  rts.

Definition deparseSchemaStmt (node : Node) : dep :=
  match node with
  | N_CreateStmt x => deparseCreateStmt x false
  | N_IndexStmt x => deparseIndexStmt x
  | N_CreateSeqStmt x => deparseCreateSeqStmt x
  | N_CreateTrigStmt x => deparseCreateTrigStmt x
  | N_GrantStmt x => deparseGrantStmt x
  | N_ViewStmt x => deparseViewStmt x
  | _ => assert_ false
  end.

Definition deparseCreateSchemaStmt (create_schema_stmt : CreateSchemaStmt.t Node) : dep :=
  str "CREATE SCHEMA " ;;;
  when create_schema_stmt.(CreateSchemaStmt.if_not_exists) (str "IF NOT EXISTS ") ;;;
  when_some create_schema_stmt.(CreateSchemaStmt.schemaname) (fun schemaname =>
    deparseColId schemaname ;;; chr " ") ;;;
  when_some create_schema_stmt.(CreateSchemaStmt.authrole) (fun authrole =>
    str "AUTHORIZATION " ;;;
    deparseRoleSpec authrole ;;;
    chr " ") ;;;
  foreach_sep deparseSchemaStmt (chr " ") create_schema_stmt.(CreateSchemaStmt.schemaElts) ;;;
  rts.

Definition deparseCreateConversionStmt (create_conversion_stmt : CreateConversionStmt.t Node) :
    dep :=
  str "CREATE " ;;;
  when create_conversion_stmt.(CreateConversionStmt.def) (str "DEFAULT ") ;;;
  str "CONVERSION " ;;;
  deparseAnyName create_conversion_stmt.(CreateConversionStmt.conversion_name) ;;;
  chr " " ;;;
  str "FOR " ;;;
  deref create_conversion_stmt.(CreateConversionStmt.for_encoding_name) deparseStringLiteral ;;;
  str " TO " ;;;
  deref create_conversion_stmt.(CreateConversionStmt.to_encoding_name) deparseStringLiteral ;;;
  str "FROM " ;;;
  deparseAnyName create_conversion_stmt.(CreateConversionStmt.func_name).

Definition deparsePartitionCmd (partition_cmd : PartitionCmd.t Node) : dep :=
  deref partition_cmd.(PartitionCmd.name) (fun name =>
    deparseRangeVar name DEPARSE_NODE_CONTEXT_NONE) ;;;
  when_some partition_cmd.(PartitionCmd.bound) (fun bound =>
    chr " " ;;; deparsePartitionBoundSpec bound).

Definition deparseCreateFdwStmt (create_fdw_stmt : CreateFdwStmt.t Node) : dep :=
  str "CREATE FOREIGN DATA WRAPPER " ;;;
  quoted create_fdw_stmt.(CreateFdwStmt.fdwname) ;;;
  chr " " ;;;
  when (nonempty create_fdw_stmt.(CreateFdwStmt.func_options))
    (deparseFdwOptions create_fdw_stmt.(CreateFdwStmt.func_options) ;;;
     chr " ") ;;;
  deparseCreateGenericOptions create_fdw_stmt.(CreateFdwStmt.options) ;;;
  rts.

Definition deparseAlterFdwStmt (alter_fdw_stmt : AlterFdwStmt.t Node) : dep :=
  str "ALTER FOREIGN DATA WRAPPER " ;;;
  quoted alter_fdw_stmt.(AlterFdwStmt.fdwname) ;;;
  chr " " ;;;
  when (nonempty alter_fdw_stmt.(AlterFdwStmt.func_options))
    (deparseFdwOptions alter_fdw_stmt.(AlterFdwStmt.func_options) ;;;
     chr " ") ;;;
  when (nonempty alter_fdw_stmt.(AlterFdwStmt.options))
    (deparseAlterGenericOptions alter_fdw_stmt.(AlterFdwStmt.options)) ;;;
  rts.

Definition deparseCreateForeignServerStmt (create_foreign_server_stmt : CreateForeignServerStmt.t Node) :
    dep :=
  str "CREATE SERVER " ;;;
  when create_foreign_server_stmt.(CreateForeignServerStmt.if_not_exists) (str "IF NOT EXISTS ") ;;;
  quoted create_foreign_server_stmt.(CreateForeignServerStmt.servername) ;;;
  chr " " ;;;
  when_some create_foreign_server_stmt.(CreateForeignServerStmt.servertype) (fun servertype =>
    str "TYPE " ;;;
    deparseStringLiteral servertype ;;;
    chr " ") ;;;
  when_some create_foreign_server_stmt.(CreateForeignServerStmt.version) (fun version =>
    str "VERSION " ;;;
    deparseStringLiteral version ;;;
    chr " ") ;;;
  str "FOREIGN DATA WRAPPER " ;;;
  quoted create_foreign_server_stmt.(CreateForeignServerStmt.fdwname) ;;;
  chr " " ;;;
  deparseCreateGenericOptions create_foreign_server_stmt.(CreateForeignServerStmt.options) ;;;
  rts.

Definition deparseAlterForeignServerStmt (alter_foreign_server_stmt : AlterForeignServerStmt.t Node) :
    dep :=
  str "ALTER SERVER " ;;;
  quoted alter_foreign_server_stmt.(AlterForeignServerStmt.servername) ;;;
  chr " " ;;;
  when alter_foreign_server_stmt.(AlterForeignServerStmt.has_version)
    (str "VERSION " ;;;
     match alter_foreign_server_stmt.(AlterForeignServerStmt.version) with
     | Some version => deparseStringLiteral version
     | None => str "NULL"
     end ;;;
     chr " ") ;;;
  when (nonempty alter_foreign_server_stmt.(AlterForeignServerStmt.options))
    (deparseAlterGenericOptions alter_foreign_server_stmt.(AlterForeignServerStmt.options)) ;;;
  rts.

Definition deparseCreateUserMappingStmt (create_user_mapping_stmt : CreateUserMappingStmt.t Node) :
    dep :=
  str "CREATE USER MAPPING " ;;;
  when create_user_mapping_stmt.(CreateUserMappingStmt.if_not_exists) (str "IF NOT EXISTS ") ;;;
  str "FOR " ;;;
  deref create_user_mapping_stmt.(CreateUserMappingStmt.user) deparseRoleSpec ;;;
  chr " " ;;;
  str "SERVER " ;;;
  quoted create_user_mapping_stmt.(CreateUserMappingStmt.servername) ;;;
  chr " " ;;;
  deparseCreateGenericOptions create_user_mapping_stmt.(CreateUserMappingStmt.options) ;;;
  rts.

Definition deparseAlterUserMappingStmt (alter_user_mapping_stmt : AlterUserMappingStmt.t Node) :
    dep :=
  str "ALTER USER MAPPING FOR " ;;;
  deref alter_user_mapping_stmt.(AlterUserMappingStmt.user) deparseRoleSpec ;;;
  chr " " ;;;
  str "SERVER " ;;;
  quoted alter_user_mapping_stmt.(AlterUserMappingStmt.servername) ;;;
  chr " " ;;;
  deparseAlterGenericOptions alter_user_mapping_stmt.(AlterUserMappingStmt.options) ;;;
  rts.

Definition deparseDropUserMappingStmt (drop_user_mapping_stmt : DropUserMappingStmt.t Node) :
    dep :=
  str "DROP USER MAPPING " ;;;
  when drop_user_mapping_stmt.(DropUserMappingStmt.missing_ok) (str "IF EXISTS ") ;;;
  str "FOR " ;;;
  deref drop_user_mapping_stmt.(DropUserMappingStmt.user) deparseRoleSpec ;;;
  chr " " ;;;
  str "SERVER " ;;;
  quoted drop_user_mapping_stmt.(DropUserMappingStmt.servername).

Definition deparseCreateForeignTableStmt (create_foreign_table_stmt : CreateForeignTableStmt.t Node) :
    dep :=
  deparseCreateStmt create_foreign_table_stmt.(CreateForeignTableStmt.base) true ;;;
  str " SERVER " ;;;
  quoted create_foreign_table_stmt.(CreateForeignTableStmt.servername) ;;;
  chr " " ;;;
  when (nonempty create_foreign_table_stmt.(CreateForeignTableStmt.options))
    (deparseAlterGenericOptions create_foreign_table_stmt.(CreateForeignTableStmt.options)) ;;;
  rts.

Definition deparseImportForeignSchemaStmt (import_foreign_schema_stmt : ImportForeignSchemaStmt.t Node) :
    dep :=
  str "IMPORT FOREIGN SCHEMA " ;;;
  deref import_foreign_schema_stmt.(ImportForeignSchemaStmt.remote_schema) str ;;;
  chr " " ;;;
  match import_foreign_schema_stmt.(ImportForeignSchemaStmt.list_type) with
  | FDW_IMPORT_SCHEMA_ALL => skip
  | FDW_IMPORT_SCHEMA_LIMIT_TO =>
      str "LIMIT TO (" ;;;
      deparseRelationExprList import_foreign_schema_stmt.(ImportForeignSchemaStmt.table_list) ;;;
      str ") "
  | FDW_IMPORT_SCHEMA_EXCEPT =>
      str "EXCEPT (" ;;;
      deparseRelationExprList import_foreign_schema_stmt.(ImportForeignSchemaStmt.table_list) ;;;
      str ") "
  end ;;;
  str "FROM SERVER " ;;;
  quoted import_foreign_schema_stmt.(ImportForeignSchemaStmt.server_name) ;;;
  chr " " ;;;
  str "INTO " ;;;
  quoted import_foreign_schema_stmt.(ImportForeignSchemaStmt.local_schema) ;;;
  chr " " ;;;
  deparseCreateGenericOptions import_foreign_schema_stmt.(ImportForeignSchemaStmt.options) ;;;
  rts.

Definition deparseExecuteStmt (execute_stmt : ExecuteStmt.t Node) : dep :=
  str "EXECUTE " ;;;
  quoted execute_stmt.(ExecuteStmt.name) ;;;
  when (nonempty execute_stmt.(ExecuteStmt.params))
    (chr "(" ;;;
     deparseExprList execute_stmt.(ExecuteStmt.params) ;;;
     chr ")").

Definition deparseCreateTableAsStmt (create_table_as_stmt : CreateTableAsStmt.t Node) : dep :=
  str "CREATE " ;;;
  deref create_table_as_stmt.(CreateTableAsStmt.into) (fun into =>
    deref into.(IntoClause.rel) (fun rel => deparseOptTemp rel.(RangeVar.relpersistence)) ;;;
    match create_table_as_stmt.(CreateTableAsStmt.relkind) with
    | OBJECT_TABLE => str "TABLE "
    | OBJECT_MATVIEW => str "MATERIALIZED VIEW "
    | _ => assert_ false
    end ;;;
    when create_table_as_stmt.(CreateTableAsStmt.if_not_exists) (str "IF NOT EXISTS ") ;;;
    deparseIntoClause into ;;;
    chr " " ;;;
    str "AS " ;;;
    deref create_table_as_stmt.(CreateTableAsStmt.query) (fun query =>
      if IsA_ExecuteStmt query then castNode_ExecuteStmt query deparseExecuteStmt
      else castNode_SelectStmt query deparseSelectStmt) ;;;
    chr " " ;;;
    when into.(IntoClause.skipData) (str "WITH NO DATA ") ;;;
    rts).

(** The first switch of [deparseAlterTableCmd]: what it appends. *)
Definition at_keywords (cmd : AlterTableCmd.t Node) (context : DeparseNodeContext) : dep :=
  let alter_type := bool_decide (context = DEPARSE_NODE_CONTEXT_ALTER_TYPE) in
  match cmd.(AlterTableCmd.subtype) with
  | AT_AddColumn => str (if alter_type then "ADD ATTRIBUTE " else "ADD COLUMN ")
  | AT_ColumnDefault | AT_DropNotNull | AT_SetNotNull | AT_DropExpression | AT_SetStatistics
  | AT_SetOptions | AT_ResetOptions | AT_SetStorage | AT_AlterColumnGenericOptions
  | AT_DropIdentity => str "ALTER COLUMN "
  | AT_DropColumn => str (if alter_type then "DROP ATTRIBUTE " else "DROP ")
  | AT_AddIndex => str "ADD INDEX "
  | AT_AddConstraint => str "ADD "
  | AT_AlterConstraint | AT_AddIdentity | AT_SetIdentity => str "ALTER "
  | AT_ValidateConstraint => str "VALIDATE CONSTRAINT "
  | AT_DropConstraint => str "DROP CONSTRAINT "
  | AT_AlterColumnType => str (if alter_type then "ALTER ATTRIBUTE " else "ALTER COLUMN ")
  | AT_ChangeOwner => str "OWNER TO " ;;; deref cmd.(AlterTableCmd.newowner) deparseRoleSpec
  | AT_ClusterOn => str "CLUSTER ON "
  | AT_DropCluster => str "SET WITHOUT CLUSTER "
  | AT_SetLogged => str "SET LOGGED "
  | AT_SetUnLogged => str "SET UNLOGGED "
  | AT_DropOids => str "SET WITHOUT OIDS "
  | AT_SetTableSpace => str "SET TABLESPACE "
  | AT_SetRelOptions => str "SET "
  | AT_ResetRelOptions => str "RESET "
  | AT_EnableTrig | AT_EnableTrigAll => str "ENABLE TRIGGER "
  | AT_EnableAlwaysTrig => str "ENABLE ALWAYS TRIGGER "
  | AT_EnableReplicaTrig => str "ENABLE REPLICA TRIGGER "
  | AT_DisableTrig => str "DISABLE TRIGGER "
  | AT_DisableTrigAll => str "DISABLE TRIGGER ALL "
  | AT_EnableTrigUser => str "ENABLE TRIGGER USER "
  | AT_DisableTrigUser => str "DISABLE TRIGGER USER "
  | AT_EnableRule => str "ENABLE RULE "
  | AT_EnableAlwaysRule => str "ENABLE ALWAYS RULE "
  | AT_EnableReplicaRule => str "ENABLE REPLICA RULE "
  | AT_DisableRule => str "DISABLE RULE "
  | AT_AddInherit => str "INHERIT "
  | AT_DropInherit => str "NO INHERIT "
  | AT_AddOf => str "OF "
  | AT_DropOf => str "NOT OF "
  | AT_ReplicaIdentity => str "REPLICA IDENTITY "
  | AT_EnableRowSecurity => str "ENABLE ROW LEVEL SECURITY "
  | AT_DisableRowSecurity => str "DISABLE ROW LEVEL SECURITY "
  | AT_ForceRowSecurity => str "FORCE ROW LEVEL SECURITY "
  | AT_NoForceRowSecurity => str "NO FORCE ROW LEVEL SECURITY "
  | AT_GenericOptions => skip
  | AT_AttachPartition => str "ATTACH PARTITION "
  | AT_DetachPartition => str "DETACH PARTITION "
  | AT_AddColumnRecurse | AT_AddColumnToView | AT_CookedColumnDefault | AT_CheckNotNull
  | AT_DropColumnRecurse | AT_ReAddIndex | AT_AddConstraintRecurse | AT_ReAddConstraint
  | AT_ReAddDomainConstraint | AT_ValidateConstraintRecurse | AT_AddIndexConstraint
  | AT_DropConstraintRecurse | AT_ReAddComment | AT_ReplaceRelOptions => assert_ false
  end.

(** The value of [trailing_missing_ok]. *)
Definition at_trailing (cmd : AlterTableCmd.t Node) : bool :=
  match cmd.(AlterTableCmd.subtype) with
  | AT_DropExpression | AT_DropIdentity => true
  | _ => false
  end.

(** The value of [options] after the switch. *)
Definition at_options (cmd : AlterTableCmd.t Node) : option string :=
  match cmd.(AlterTableCmd.subtype) with
  | AT_ColumnDefault =>
      Some (if notnull cmd.(AlterTableCmd.def) then "SET DEFAULT" else "DROP DEFAULT")
  | AT_DropNotNull => Some "DROP NOT NULL"
  | AT_SetNotNull => Some "SET NOT NULL"
  | AT_DropExpression => Some "DROP EXPRESSION"
  | AT_SetStatistics => Some "SET STATISTICS"
  | AT_SetOptions => Some "SET"
  | AT_ResetOptions => Some "RESET"
  | AT_SetStorage => Some "SET STORAGE"
  | AT_AlterColumnType => Some "TYPE"
  | AT_AddIdentity => Some "ADD"
  | AT_DropIdentity => Some "DROP IDENTITY"
  | _ => None
  end.

(** The second switch. *)
Definition at_def (cmd : AlterTableCmd.t Node) : dep :=
  let def := cmd.(AlterTableCmd.def) in
  match cmd.(AlterTableCmd.subtype) with
  | AT_AttachPartition | AT_DetachPartition =>
      deref def (fun n => castNode_PartitionCmd n deparsePartitionCmd) ;;; chr " "
  | AT_AddColumn | AT_AlterColumnType =>
      deref def (fun n => castNode_ColumnDef n deparseColumnDef) ;;; chr " "
  | AT_ColumnDefault => when_some def (fun n => deparseExpr n ;;; chr " ")
  | AT_SetStatistics => deref def (fun n => as_Value n deparseSignedIconst) ;;; chr " "
  | AT_SetOptions | AT_ResetOptions | AT_SetRelOptions | AT_ResetRelOptions =>
      castList def deparseRelOptions ;;; chr " "
  | AT_SetStorage => deref def (fun n => strVal n deparseColId) ;;; chr " "
  | AT_AddIdentity | AT_AddConstraint | AT_AlterConstraint =>
      deref def (fun n => castNode_Constraint n deparseConstraint) ;;; chr " "
  | AT_SetIdentity => castList def deparseAlterIdentityColumnOptionList ;;; chr " "
  | AT_AlterColumnGenericOptions | AT_GenericOptions =>
      castList def deparseAlterGenericOptions ;;; chr " "
  | AT_AddInherit | AT_DropInherit =>
      deref def (fun n =>
        castNode_RangeVar n (fun rv => deparseRangeVar rv DEPARSE_NODE_CONTEXT_NONE)) ;;;
      chr " "
  | AT_AddOf => deref def (fun n => castNode_TypeName n deparseTypeName) ;;; chr " "
  | AT_ReplicaIdentity =>
      deref def (fun n => castNode_ReplicaIdentityStmt n deparseReplicaIdentityStmt) ;;; chr " "
  | _ => assert_ (negb (notnull def))
  end.

Definition deparseAlterTableCmd (alter_table_cmd : AlterTableCmd.t Node)
    (context : DeparseNodeContext) : dep :=
  at_keywords alter_table_cmd context ;;;
  when (alter_table_cmd.(AlterTableCmd.missing_ok) && negb (at_trailing alter_table_cmd))
    (str (if bool_decide (alter_table_cmd.(AlterTableCmd.subtype) = AT_AddColumn)
          then "IF NOT EXISTS " else "IF EXISTS ")) ;;;
  when_some alter_table_cmd.(AlterTableCmd.name) (fun name =>
    str (quote_identifier name) ;;; chr " ") ;;;
  when (0 <? alter_table_cmd.(AlterTableCmd.num))%Z
    (fmt (fmt_d alter_table_cmd.(AlterTableCmd.num) +:+ " ")) ;;;
  when_some (at_options alter_table_cmd) (fun options => str options ;;; chr " ") ;;;
  when (alter_table_cmd.(AlterTableCmd.missing_ok) && at_trailing alter_table_cmd)
    (str "IF EXISTS ") ;;;
  at_def alter_table_cmd ;;;
  deparseOptDropBehavior alter_table_cmd.(AlterTableCmd.behavior) ;;;
  rts.

Definition deparseAlterTableStmt (alter_table_stmt : AlterTableStmt.t Node) : dep :=
  str "ALTER " ;;;
  match alter_table_stmt.(AlterTableStmt.relkind) with
  | OBJECT_TABLE => str "TABLE "
  | OBJECT_FOREIGN_TABLE => str "FOREIGN TABLE "
  | OBJECT_INDEX => str "INDEX "
  | OBJECT_SEQUENCE => str "SEQUENCE "
  | OBJECT_VIEW => str "VIEW "
  | OBJECT_MATVIEW => str "MATERIALIZED VIEW "
  | OBJECT_TYPE => str "TYPE "
  | _ => assert_ false
  end ;;;
  when alter_table_stmt.(AlterTableStmt.missing_ok) (str "IF EXISTS ") ;;;
  deref alter_table_stmt.(AlterTableStmt.relation) (fun relation =>
    deparseRangeVar relation DEPARSE_NODE_CONTEXT_NONE) ;;;
  chr " " ;;;
  foreach_sep (fun n =>
      castNode_AlterTableCmd n (fun alter_table_cmd =>
        deparseAlterTableCmd alter_table_cmd DEPARSE_NODE_CONTEXT_NONE))
    (str ", ") alter_table_stmt.(AlterTableStmt.cmds).

Definition deparseAlterDomainStmt (alter_domain_stmt : AlterDomainStmt.t Node) : dep :=
  str "ALTER DOMAIN " ;;;
  deparseAnyName alter_domain_stmt.(AlterDomainStmt.typeName) ;;;
  chr " " ;;;
  (if Ascii.eqb alter_domain_stmt.(AlterDomainStmt.subtype) "T" then
     match alter_domain_stmt.(AlterDomainStmt.def) with
     | Some def => str "SET DEFAULT " ;;; deparseExpr def
     | None => str "DROP DEFAULT"
     end
   else if Ascii.eqb alter_domain_stmt.(AlterDomainStmt.subtype) "N" then str "DROP NOT NULL"
   else if Ascii.eqb alter_domain_stmt.(AlterDomainStmt.subtype) "O" then str "SET NOT NULL"
   else if Ascii.eqb alter_domain_stmt.(AlterDomainStmt.subtype) "C" then
     str "ADD " ;;;
     deref alter_domain_stmt.(AlterDomainStmt.def) (fun def =>
       castNode_Constraint def deparseConstraint)
   else if Ascii.eqb alter_domain_stmt.(AlterDomainStmt.subtype) "X" then
     str "DROP CONSTRAINT " ;;;
     when alter_domain_stmt.(AlterDomainStmt.missing_ok) (str "IF EXISTS ") ;;;
     quoted alter_domain_stmt.(AlterDomainStmt.name) ;;;
     when (bool_decide (alter_domain_stmt.(AlterDomainStmt.behavior) = DROP_CASCADE))
       (str " CASCADE")
   else if Ascii.eqb alter_domain_stmt.(AlterDomainStmt.subtype) "V" then
     str "VALIDATE CONSTRAINT " ;;;
     quoted alter_domain_stmt.(AlterDomainStmt.name)
   else assert_ false).

Definition deparseCompositeTypeStmt (composite_type_stmt : CompositeTypeStmt.t Node) : dep :=
  str "CREATE TYPE " ;;;
  deref composite_type_stmt.(CompositeTypeStmt.typevar) (fun typevar =>
    deparseRangeVar typevar DEPARSE_NODE_CONTEXT_CREATE_TYPE) ;;;
  str " AS (" ;;;
  foreach_sep (fun n => castNode_ColumnDef n deparseColumnDef) (str ", ")
    composite_type_stmt.(CompositeTypeStmt.coldeflist) ;;;
  chr ")".

Definition deparseCreateEnumStmt (create_enum_stmt : CreateEnumStmt.t Node) : dep :=
  str "CREATE TYPE " ;;;
  deparseAnyName create_enum_stmt.(CreateEnumStmt.typeName) ;;;
  str " AS ENUM (" ;;;
  foreach_sep (fun n => strVal n deparseStringLiteral) (str ", ")
    create_enum_stmt.(CreateEnumStmt.vals) ;;;
  chr ")".

Definition deparseCreateRangeStmt (create_range_stmt : CreateRangeStmt.t Node) : dep :=
  str "CREATE TYPE " ;;;
  deparseAnyName create_range_stmt.(CreateRangeStmt.typeName) ;;;
  str " AS RANGE " ;;;
  deparseDefinition create_range_stmt.(CreateRangeStmt.params).

Definition deparseAlterEnumStmt (alter_enum_stmt : AlterEnumStmt.t Node) : dep :=
  str "ALTER TYPE " ;;;
  deparseAnyName alter_enum_stmt.(AlterEnumStmt.typeName) ;;;
  chr " " ;;;
  match alter_enum_stmt.(AlterEnumStmt.oldVal) with
  | Some oldVal =>
      str "RENAME VALUE " ;;;
      deparseStringLiteral oldVal ;;;
      str " TO " ;;;
      deref alter_enum_stmt.(AlterEnumStmt.newVal) deparseStringLiteral
  | None =>
      str "ADD VALUE " ;;;
      when alter_enum_stmt.(AlterEnumStmt.skipIfNewValExists) (str "IF NOT EXISTS ") ;;;
      deref alter_enum_stmt.(AlterEnumStmt.newVal) deparseStringLiteral ;;;
      chr " " ;;;
      when_some alter_enum_stmt.(AlterEnumStmt.newValNeighbor) (fun newValNeighbor =>
        (if alter_enum_stmt.(AlterEnumStmt.newValIsAfter) then str "AFTER "
         else str "BEFORE ") ;;;
        deparseStringLiteral newValNeighbor)
  end ;;;
  rts.

Definition deparseAlterExtensionStmt (alter_extension_stmt : AlterExtensionStmt.t Node) : dep :=
  str "ALTER EXTENSION " ;;;
  deref alter_extension_stmt.(AlterExtensionStmt.extname) deparseColId ;;;
  str " UPDATE " ;;;
  foreach (fun n =>
      castNode_DefElem n (fun def_elem =>
        deref def_elem.(DefElem.defname) (fun defname =>
          if String.eqb defname "new_version" then
            str "TO " ;;;
            deref def_elem.(DefElem.arg) (fun arg => strVal arg deparseNonReservedWordOrSconst)
          else assert_ false) ;;;
        chr " "))
    alter_extension_stmt.(AlterExtensionStmt.options) ;;;
  rts.

Definition deparseAlterOpFamilyStmt (alter_op_family_stmt : AlterOpFamilyStmt.t Node) : dep :=
  str "ALTER OPERATOR FAMILY " ;;;
  deparseAnyName alter_op_family_stmt.(AlterOpFamilyStmt.opfamilyname) ;;;
  chr " " ;;;
  str "USING " ;;;
  quoted alter_op_family_stmt.(AlterOpFamilyStmt.amname) ;;;
  chr " " ;;;
  (if alter_op_family_stmt.(AlterOpFamilyStmt.isDrop) then str "DROP "
   else str "ADD ") ;;;
  deparseOpclassItemList alter_op_family_stmt.(AlterOpFamilyStmt.items).

Definition deparseCreatePLangStmt (create_p_lang_stmt : CreatePLangStmt.t Node) : dep :=
  str "CREATE " ;;;
  when create_p_lang_stmt.(CreatePLangStmt.replace) (str "OR REPLACE ") ;;;
  when create_p_lang_stmt.(CreatePLangStmt.pltrusted) (str "TRUSTED ") ;;;
  str "LANGUAGE " ;;;
  deref create_p_lang_stmt.(CreatePLangStmt.plname) deparseNonReservedWordOrSconst ;;;
  chr " " ;;;
  str "HANDLER " ;;;
  deparseHandlerName create_p_lang_stmt.(CreatePLangStmt.plhandler) ;;;
  chr " " ;;;
  when (nonempty create_p_lang_stmt.(CreatePLangStmt.plinline))
    (str "INLINE " ;;;
     deparseHandlerName create_p_lang_stmt.(CreatePLangStmt.plinline) ;;;
     chr " ") ;;;
  when (nonempty create_p_lang_stmt.(CreatePLangStmt.plvalidator))
    (str "VALIDATOR " ;;;
     deparseHandlerName create_p_lang_stmt.(CreatePLangStmt.plvalidator) ;;;
     chr " ") ;;;
  rts.

Definition deparseNotifyStmt (notify_stmt : NotifyStmt.t Node) : dep :=
  str "NOTIFY " ;;;
  quoted notify_stmt.(NotifyStmt.conditionname) ;;;
  when_some notify_stmt.(NotifyStmt.payload) (fun payload =>
    str ", " ;;; deparseStringLiteral payload).

Definition deparseRuleActionStmt (node : Node) : dep :=
  match node with
  | N_SelectStmt x => deparseSelectStmt x
  | N_InsertStmt x => deparseInsertStmt x
  | N_UpdateStmt x => deparseUpdateStmt x
  | N_DeleteStmt x => deparseDeleteStmt x
  | N_NotifyStmt x => deparseNotifyStmt x
  | _ => assert_ false
  end.

Definition deparseRuleStmt (rule_stmt : RuleStmt.t Node) : dep :=
  str "CREATE " ;;;
  when rule_stmt.(RuleStmt.replace) (str "OR REPLACE ") ;;;
  str "RULE " ;;;
  quoted rule_stmt.(RuleStmt.rulename) ;;;
  str " AS ON " ;;;
  match rule_stmt.(RuleStmt.event) with
  | CMD_UNKNOWN | CMD_UTILITY | CMD_NOTHING => assert_ false
  | CMD_SELECT => str "SELECT "
  | CMD_UPDATE => str "UPDATE "
  | CMD_INSERT => str "INSERT "
  | CMD_DELETE => str "DELETE "
  end ;;;
  str "TO " ;;;
  deref rule_stmt.(RuleStmt.relation) (fun relation =>
    deparseRangeVar relation DEPARSE_NODE_CONTEXT_NONE) ;;;
  chr " " ;;;
  deparseWhereClause rule_stmt.(RuleStmt.whereClause) ;;;
  str "DO " ;;;
  when rule_stmt.(RuleStmt.instead) (str "INSTEAD ") ;;;
  (if negb (nonempty rule_stmt.(RuleStmt.actions)) then str "NOTHING"
   else if (List.length rule_stmt.(RuleStmt.actions) =? 1)%nat then
     linitial rule_stmt.(RuleStmt.actions) deparseRuleActionStmt
   else
     chr "(" ;;;
     foreach_sep deparseRuleActionStmt (str "; ") rule_stmt.(RuleStmt.actions) ;;;
     chr ")").

Definition deparseAlterFunctionStmt (alter_function_stmt : AlterFunctionStmt.t Node) : dep :=
  str "ALTER " ;;;
  match alter_function_stmt.(AlterFunctionStmt.objtype) with
  | OBJECT_FUNCTION => str "FUNCTION "
  | OBJECT_PROCEDURE => str "PROCEDURE "
  | OBJECT_ROUTINE => str "ROUTINE "
  | _ => assert_ false
  end ;;;
  deref alter_function_stmt.(AlterFunctionStmt.func) deparseFunctionWithArgtypes ;;;
  chr " " ;;;
  foreach_sep (fun n => castNode_DefElem n deparseCommonFuncOptItem) (chr " ")
    alter_function_stmt.(AlterFunctionStmt.actions).

Definition deparseTruncateStmt (truncate_stmt : TruncateStmt.t Node) : dep :=
  str "TRUNCATE " ;;;
  deparseRelationExprList truncate_stmt.(TruncateStmt.relations) ;;;
  chr " " ;;;
  when truncate_stmt.(TruncateStmt.restart_seqs) (str "RESTART IDENTITY ") ;;;
  deparseOptDropBehavior truncate_stmt.(TruncateStmt.behavior) ;;;
  rts.

Definition deparseCreateEventTrigStmt (create_event_trig_stmt : CreateEventTrigStmt.t Node) :
    dep :=
  str "CREATE EVENT TRIGGER " ;;;
  quoted create_event_trig_stmt.(CreateEventTrigStmt.trigname) ;;;
  chr " " ;;;
  str "ON " ;;;
  quoted create_event_trig_stmt.(CreateEventTrigStmt.eventname) ;;;
  chr " " ;;;
  when (nonempty create_event_trig_stmt.(CreateEventTrigStmt.whenclause))
    (str "WHEN " ;;;
     foreach_sep (fun n =>
         castNode_DefElem n (fun def_elem =>
           castList def_elem.(DefElem.arg) (fun l =>
             quoted def_elem.(DefElem.defname) ;;;
             str " IN (" ;;;
             foreach_sep (fun n1 => strVal n1 deparseStringLiteral) (str ", ") l ;;;
             chr ")")))
       (str " AND ") create_event_trig_stmt.(CreateEventTrigStmt.whenclause) ;;;
     chr " ") ;;;
  str "EXECUTE FUNCTION " ;;;
  deparseFuncName create_event_trig_stmt.(CreateEventTrigStmt.funcname) ;;;
  str "()".

Definition deparseAlterEventTrigStmt (alter_event_trig_stmt : AlterEventTrigStmt.t Node) : dep :=
  str "ALTER EVENT TRIGGER " ;;;
  quoted alter_event_trig_stmt.(AlterEventTrigStmt.trigname) ;;;
  chr " " ;;;
  (if Ascii.eqb alter_event_trig_stmt.(AlterEventTrigStmt.tgenabled) TRIGGER_FIRES_ON_ORIGIN then
     str "ENABLE"
   else if Ascii.eqb alter_event_trig_stmt.(AlterEventTrigStmt.tgenabled) TRIGGER_FIRES_ON_REPLICA then
     str "ENABLE REPLICA"
   else if Ascii.eqb alter_event_trig_stmt.(AlterEventTrigStmt.tgenabled) TRIGGER_FIRES_ALWAYS then
     str "ENABLE ALWAYS"
   else if Ascii.eqb alter_event_trig_stmt.(AlterEventTrigStmt.tgenabled) TRIGGER_DISABLED then
     str "DISABLE"
   else skip).

Definition deparseRefreshMatViewStmt (refresh_mat_view_stmt : RefreshMatViewStmt.t Node) : dep :=
  str "REFRESH MATERIALIZED VIEW " ;;;
  when refresh_mat_view_stmt.(RefreshMatViewStmt.concurrent) (str "CONCURRENTLY ") ;;;
  deref refresh_mat_view_stmt.(RefreshMatViewStmt.relation) (fun relation =>
    deparseRangeVar relation DEPARSE_NODE_CONTEXT_NONE) ;;;
  chr " " ;;;
  when refresh_mat_view_stmt.(RefreshMatViewStmt.skipData) (str "WITH NO DATA ") ;;;
  rts.

Definition deparseCreatePolicyStmt (create_policy_stmt : CreatePolicyStmt.t Node) : dep :=
  str "CREATE POLICY " ;;;
  deref create_policy_stmt.(CreatePolicyStmt.policy_name) deparseColId ;;;
  str " ON " ;;;
  deref create_policy_stmt.(CreatePolicyStmt.table) (fun table_ =>
    deparseRangeVar table_ DEPARSE_NODE_CONTEXT_NONE) ;;;
  chr " " ;;;
  when (negb create_policy_stmt.(CreatePolicyStmt.permissive)) (str "AS RESTRICTIVE ") ;;;
  deref create_policy_stmt.(CreatePolicyStmt.cmd_name) (fun cmd_name =>
    if String.eqb cmd_name "all" then assert_ true
    else if String.eqb cmd_name "select" then str "FOR SELECT "
    else if String.eqb cmd_name "insert" then str "FOR INSERT "
    else if String.eqb cmd_name "update" then str "FOR UPDATE "
    else if String.eqb cmd_name "delete" then str "FOR DELETE "
    else assert_ false) ;;;
  str "TO " ;;;
  deparseRoleList create_policy_stmt.(CreatePolicyStmt.roles) ;;;
  chr " " ;;;
  when_some create_policy_stmt.(CreatePolicyStmt.qual) (fun qual =>
    str "USING (" ;;; deparseExpr qual ;;; str ") ") ;;;
  when_some create_policy_stmt.(CreatePolicyStmt.with_check) (fun with_check =>
    str "WITH CHECK (" ;;;
    deparseExpr with_check ;;;
    str ") ").

Definition deparseAlterPolicyStmt (alter_policy_stmt : AlterPolicyStmt.t Node) : dep :=
  str "ALTER POLICY " ;;;
  quoted alter_policy_stmt.(AlterPolicyStmt.policy_name) ;;;
  str " ON " ;;;
  deref alter_policy_stmt.(AlterPolicyStmt.table) (fun table_ =>
    deparseRangeVar table_ DEPARSE_NODE_CONTEXT_NONE) ;;;
  chr " " ;;;
  when (nonempty alter_policy_stmt.(AlterPolicyStmt.roles))
    (str "TO " ;;;
     deparseRoleList alter_policy_stmt.(AlterPolicyStmt.roles) ;;;
     chr " ") ;;;
  when_some alter_policy_stmt.(AlterPolicyStmt.qual) (fun qual =>
    str "USING (" ;;; deparseExpr qual ;;; str ") ") ;;;
  when_some alter_policy_stmt.(AlterPolicyStmt.with_check) (fun with_check =>
    str "WITH CHECK (" ;;;
    deparseExpr with_check ;;;
    str ") ").

Definition deparseCreateTransformStmt (create_transform_stmt : CreateTransformStmt.t Node) :
    dep :=
  str "CREATE " ;;;
  when create_transform_stmt.(CreateTransformStmt.replace) (str "OR REPLACE ") ;;;
  str "TRANSFORM FOR " ;;;
  deref create_transform_stmt.(CreateTransformStmt.type_name) deparseTypeName ;;;
  chr " " ;;;
  str "LANGUAGE " ;;;
  quoted create_transform_stmt.(CreateTransformStmt.lang) ;;;
  chr " " ;;;
  chr "(" ;;;
  when_some create_transform_stmt.(CreateTransformStmt.fromsql) (fun fromsql =>
    str "FROM SQL WITH FUNCTION " ;;;
    deparseFunctionWithArgtypes fromsql) ;;;
  when (notnull create_transform_stmt.(CreateTransformStmt.fromsql) && notnull create_transform_stmt.(CreateTransformStmt.tosql))
    (str ", ") ;;;
  when_some create_transform_stmt.(CreateTransformStmt.tosql) (fun tosql =>
    str "TO SQL WITH FUNCTION " ;;;
    deparseFunctionWithArgtypes tosql) ;;;
  chr ")".

Definition deparseCreateAmStmt (create_am_stmt : CreateAmStmt.t Node) : dep :=
  str "CREATE ACCESS METHOD " ;;;
  quoted create_am_stmt.(CreateAmStmt.amname) ;;;
  chr " " ;;;
  str "TYPE " ;;;
  (if Ascii.eqb create_am_stmt.(CreateAmStmt.amtype) AMTYPE_INDEX then str "INDEX "
   else if Ascii.eqb create_am_stmt.(CreateAmStmt.amtype) AMTYPE_TABLE then str "TABLE "
   else skip) ;;;
  str "HANDLER " ;;;
  deparseHandlerName create_am_stmt.(CreateAmStmt.handler_name).

Definition deparseCreatePublicationStmt (create_publication_stmt : CreatePublicationStmt.t Node) :
    dep :=
  str "CREATE PUBLICATION " ;;;
  quoted create_publication_stmt.(CreatePublicationStmt.pubname) ;;;
  chr " " ;;;
  (if nonempty create_publication_stmt.(CreatePublicationStmt.tables) then
     str "FOR TABLE " ;;;
     deparseRelationExprList create_publication_stmt.(CreatePublicationStmt.tables) ;;;
     chr " "
   else when create_publication_stmt.(CreatePublicationStmt.for_all_tables) (str "FOR ALL TABLES ")) ;;;
  deparseOptDefinition create_publication_stmt.(CreatePublicationStmt.options) ;;;
  rts.

Definition deparseAlterPublicationStmt (alter_publication_stmt : AlterPublicationStmt.t Node) :
    dep :=
  str "ALTER PUBLICATION " ;;;
  deref alter_publication_stmt.(AlterPublicationStmt.pubname) deparseColId ;;;
  chr " " ;;;
  (if nonempty alter_publication_stmt.(AlterPublicationStmt.tables) then
     match alter_publication_stmt.(AlterPublicationStmt.tableAction) with
     | DEFELEM_SET => str "SET TABLE "
     | DEFELEM_ADD => str "ADD TABLE "
     | DEFELEM_DROP => str "DROP TABLE "
     | DEFELEM_UNSPEC => assert_ false
     end ;;;
     deparseRelationExprList alter_publication_stmt.(AlterPublicationStmt.tables)
   else if nonempty alter_publication_stmt.(AlterPublicationStmt.options) then
     str "SET " ;;;
     deparseDefinition alter_publication_stmt.(AlterPublicationStmt.options)
   else assert_ false).

Definition deparseAlterSeqStmt (alter_seq_stmt : AlterSeqStmt.t Node) : dep :=
  str "ALTER SEQUENCE " ;;;
  when alter_seq_stmt.(AlterSeqStmt.missing_ok) (str "IF EXISTS ") ;;;
  deref alter_seq_stmt.(AlterSeqStmt.sequence) (fun sequence =>
    deparseRangeVar sequence DEPARSE_NODE_CONTEXT_NONE) ;;;
  chr " " ;;;
  deparseSeqOptList alter_seq_stmt.(AlterSeqStmt.options) ;;;
  rts.

Definition deparseCreateStatsStmt (create_stats_stmt : CreateStatsStmt.t Node) : dep :=
  str "CREATE STATISTICS " ;;;
  when create_stats_stmt.(CreateStatsStmt.if_not_exists) (str "IF NOT EXISTS ") ;;;
  deparseAnyName create_stats_stmt.(CreateStatsStmt.defnames) ;;;
  chr " " ;;;
  when (nonempty create_stats_stmt.(CreateStatsStmt.stat_types))
    (chr "(" ;;;
     deparseNameList create_stats_stmt.(CreateStatsStmt.stat_types) ;;;
     str ") ") ;;;
  str "ON " ;;;
  deparseExprList create_stats_stmt.(CreateStatsStmt.exprs) ;;;
  str " FROM " ;;;
  deparseFromList create_stats_stmt.(CreateStatsStmt.relations).

Definition deparseAlterCollationStmt (alter_collation_stmt : AlterCollationStmt.t Node) : dep :=
  str "ALTER COLLATION " ;;;
  deparseAnyName alter_collation_stmt.(AlterCollationStmt.collname) ;;;
  str " REFRESH VERSION".

Definition deparseAlterStatsStmt (alter_stats_stmt : AlterStatsStmt.t Node) : dep :=
  str "ALTER STATISTICS " ;;;
  when alter_stats_stmt.(AlterStatsStmt.missing_ok) (str "IF EXISTS ") ;;;
  deparseAnyName alter_stats_stmt.(AlterStatsStmt.defnames) ;;;
  chr " " ;;;
  fmt ("SET STATISTICS " +:+ fmt_d alter_stats_stmt.(AlterStatsStmt.stxstattarget)).

Definition deparseAlterTSDictionaryStmt (alter_ts_dictionary_stmt : AlterTSDictionaryStmt.t Node) :
    dep :=
  str "ALTER TEXT SEARCH DICTIONARY " ;;;
  deparseAnyName alter_ts_dictionary_stmt.(AlterTSDictionaryStmt.dictname) ;;;
  chr " " ;;;
  deparseDefinition alter_ts_dictionary_stmt.(AlterTSDictionaryStmt.options).

Definition deparseAlterTSConfigurationStmt (alter_ts_configuration_stmt : AlterTSConfigurationStmt.t Node) :
    dep :=
  str "ALTER TEXT SEARCH CONFIGURATION " ;;;
  deparseAnyName alter_ts_configuration_stmt.(AlterTSConfigurationStmt.cfgname) ;;;
  chr " " ;;;
  match alter_ts_configuration_stmt.(AlterTSConfigurationStmt.kind) with
  | ALTER_TSCONFIG_ADD_MAPPING =>
      str "ADD MAPPING FOR " ;;;
      deparseNameList alter_ts_configuration_stmt.(AlterTSConfigurationStmt.tokentype) ;;;
      str " WITH " ;;;
      deparseAnyNameList alter_ts_configuration_stmt.(AlterTSConfigurationStmt.dicts)
  | ALTER_TSCONFIG_ALTER_MAPPING_FOR_TOKEN =>
      str "ALTER MAPPING FOR " ;;;
      deparseNameList alter_ts_configuration_stmt.(AlterTSConfigurationStmt.tokentype) ;;;
      str " WITH " ;;;
      deparseAnyNameList alter_ts_configuration_stmt.(AlterTSConfigurationStmt.dicts)
  | ALTER_TSCONFIG_REPLACE_DICT =>
      str "ALTER MAPPING REPLACE " ;;;
      linitial alter_ts_configuration_stmt.(AlterTSConfigurationStmt.dicts) (fun n =>
        castNode_List n deparseAnyName) ;;;
      str " WITH " ;;;
      lsecond alter_ts_configuration_stmt.(AlterTSConfigurationStmt.dicts) (fun n =>
        castNode_List n deparseAnyName)
  | ALTER_TSCONFIG_REPLACE_DICT_FOR_TOKEN =>
      str "ALTER MAPPING FOR " ;;;
      deparseNameList alter_ts_configuration_stmt.(AlterTSConfigurationStmt.tokentype) ;;;
      str " REPLACE " ;;;
      linitial alter_ts_configuration_stmt.(AlterTSConfigurationStmt.dicts) (fun n =>
        castNode_List n deparseAnyName) ;;;
      str " WITH " ;;;
      lsecond alter_ts_configuration_stmt.(AlterTSConfigurationStmt.dicts) (fun n =>
        castNode_List n deparseAnyName)
  | ALTER_TSCONFIG_DROP_MAPPING =>
      str "DROP MAPPING " ;;;
      when alter_ts_configuration_stmt.(AlterTSConfigurationStmt.missing_ok) (str "IF EXISTS ") ;;;
      str "FOR " ;;;
      deparseNameList alter_ts_configuration_stmt.(AlterTSConfigurationStmt.tokentype)
  end.

Definition deparseCreateSubscriptionStmt (create_subscription_stmt : CreateSubscriptionStmt.t Node) :
    dep :=
  str "CREATE SUBSCRIPTION " ;;;
  quoted create_subscription_stmt.(CreateSubscriptionStmt.subname) ;;;
  str " CONNECTION " ;;;
  match create_subscription_stmt.(CreateSubscriptionStmt.conninfo) with
  | Some conninfo => deparseStringLiteral conninfo
  | None => str "''"
  end ;;;
  str " PUBLICATION " ;;;
  foreach_sep (fun n => strVal n deparseColLabel) (str ", ")
    create_subscription_stmt.(CreateSubscriptionStmt.publication) ;;;
  chr " " ;;;
  deparseOptDefinition create_subscription_stmt.(CreateSubscriptionStmt.options) ;;;
  rts.

Definition subscription_enabled (options : list Node) : dep :=
  assert_ (List.length options =? 1)%nat ;;;
  linitial options (fun n => castNode_DefElem n (fun defelem =>
    deref defelem.(DefElem.defname) (fun defname => assert_ (String.eqb defname "enabled")) ;;;
    yes_no defelem.(DefElem.arg) (str " ENABLE ") (str " DISABLE "))).

Definition deparseAlterSubscriptionStmt (alter_subscription_stmt : AlterSubscriptionStmt.t Node) : dep :=
  let options := alter_subscription_stmt.(AlterSubscriptionStmt.options) in
  str "ALTER SUBSCRIPTION " ;;;
  quoted alter_subscription_stmt.(AlterSubscriptionStmt.subname) ;;;
  chr " " ;;;
  match alter_subscription_stmt.(AlterSubscriptionStmt.kind) with
  | ALTER_SUBSCRIPTION_OPTIONS => str "SET " ;;; deparseDefinition options
  | ALTER_SUBSCRIPTION_CONNECTION =>
      str "CONNECTION " ;;;
      deref alter_subscription_stmt.(AlterSubscriptionStmt.conninfo) deparseStringLiteral ;;;
      chr " "
  | ALTER_SUBSCRIPTION_REFRESH => str "REFRESH PUBLICATION " ;;; deparseOptDefinition options
  | ALTER_SUBSCRIPTION_PUBLICATION =>
      str "SET PUBLICATION " ;;;
      foreach_sep (fun n => strVal n deparseColLabel) (str ", ")
        alter_subscription_stmt.(AlterSubscriptionStmt.publication) ;;;
      chr " " ;;;
      deparseOptDefinition options
  | ALTER_SUBSCRIPTION_ENABLED => subscription_enabled options
  end ;;;
  rts.

Definition deparseDropSubscriptionStmt (drop_subscription_stmt : DropSubscriptionStmt.t Node) :
    dep :=
  str "DROP SUBSCRIPTION " ;;;
  when drop_subscription_stmt.(DropSubscriptionStmt.missing_ok) (str "IF EXISTS ") ;;;
  deref drop_subscription_stmt.(DropSubscriptionStmt.subname) str.

Definition deparseAlterOperatorStmt (alter_operator_stmt : AlterOperatorStmt.t Node) : dep :=
  str "ALTER OPERATOR " ;;;
  deref alter_operator_stmt.(AlterOperatorStmt.opername) deparseOperatorWithArgtypes ;;;
  str " SET (" ;;;
  deparseOperatorDefList alter_operator_stmt.(AlterOperatorStmt.options) ;;;
  chr ")".

Definition deparseAlterTypeStmt (alter_type_stmt : AlterTypeStmt.t Node) : dep :=
  str "ALTER TYPE " ;;;
  deparseAnyName alter_type_stmt.(AlterTypeStmt.typeName) ;;;
  str " SET (" ;;;
  deparseOperatorDefList alter_type_stmt.(AlterTypeStmt.options) ;;;
  chr ")".
