(* ===== verification/DeparseObjects.v ===== *)
(** * The deparser: statements on any kind of object

    [DROP], [ALTER ... RENAME], [OWNER TO], [SET SCHEMA], [DEPENDS], [COMMENT],
    [SECURITY LABEL], the contents of an extension and [CREATE] of the objects that
    [DefineStmt] stands for: the productions of [src/pg_query_deparse.c] that
    switch on an [ObjectType]. *)
From S2P Require Import Prelude Buffer Keywords Quote Enums Nodes DeparseNames DeparseExpr DeparseStmt.
From S2P Require Import DeparseParts.

Definition deparseSecLabelStmt (sec_label_stmt : SecLabelStmt.t Node) : dep :=
  str "SECURITY LABEL " ;;;
  when_some sec_label_stmt.(SecLabelStmt.provider) (fun provider =>
    str "FOR " ;;;
    str (quote_identifier provider) ;;;
    chr " ") ;;;
  str "ON " ;;;
  match sec_label_stmt.(SecLabelStmt.objtype) with
  | OBJECT_COLUMN =>
      str "COLUMN " ;;;
      castList sec_label_stmt.(SecLabelStmt.object) deparseAnyName
  | OBJECT_FOREIGN_TABLE =>
      str "FOREIGN TABLE " ;;;
      castList sec_label_stmt.(SecLabelStmt.object) deparseAnyName
  | OBJECT_SEQUENCE =>
      str "SEQUENCE " ;;;
      castList sec_label_stmt.(SecLabelStmt.object) deparseAnyName
  | OBJECT_TABLE =>
      str "TABLE " ;;;
      castList sec_label_stmt.(SecLabelStmt.object) deparseAnyName
  | OBJECT_VIEW =>
      str "VIEW " ;;;
      castList sec_label_stmt.(SecLabelStmt.object) deparseAnyName
  | OBJECT_MATVIEW =>
      str "MATERIALIZED VIEW " ;;;
      castList sec_label_stmt.(SecLabelStmt.object) deparseAnyName
  | OBJECT_DATABASE =>
      str "DATABASE " ;;;
      deref sec_label_stmt.(SecLabelStmt.object) quoted_cell
  | OBJECT_EVENT_TRIGGER =>
      str "EVENT TRIGGER " ;;;
      deref sec_label_stmt.(SecLabelStmt.object) quoted_cell
  | OBJECT_LANGUAGE =>
      str "LANGUAGE " ;;;
      deref sec_label_stmt.(SecLabelStmt.object) quoted_cell
  | OBJECT_PUBLICATION =>
      str "PUBLICATION " ;;;
      deref sec_label_stmt.(SecLabelStmt.object) quoted_cell
  | OBJECT_ROLE =>
      str "ROLE " ;;;
      deref sec_label_stmt.(SecLabelStmt.object) quoted_cell
  | OBJECT_SCHEMA =>
      str "SCHEMA " ;;;
      deref sec_label_stmt.(SecLabelStmt.object) quoted_cell
  | OBJECT_SUBSCRIPTION =>
      str "SUBSCRIPTION " ;;;
      deref sec_label_stmt.(SecLabelStmt.object) quoted_cell
  | OBJECT_TABLESPACE =>
      str "TABLESPACE " ;;;
      deref sec_label_stmt.(SecLabelStmt.object) quoted_cell
  | OBJECT_TYPE =>
      str "TYPE " ;;;
      deref sec_label_stmt.(SecLabelStmt.object) (fun object =>
        castNode_TypeName object deparseTypeName)
  | OBJECT_DOMAIN =>
      str "DOMAIN " ;;;
      deref sec_label_stmt.(SecLabelStmt.object) (fun object =>
        castNode_TypeName object deparseTypeName)
  | OBJECT_AGGREGATE =>
      str "AGGREGATE " ;;;
      deref sec_label_stmt.(SecLabelStmt.object) (fun object =>
        castNode_ObjectWithArgs object deparseAggregateWithArgtypes)
  | OBJECT_FUNCTION =>
      str "FUNCTION " ;;;
      deref sec_label_stmt.(SecLabelStmt.object) (fun object =>
        castNode_ObjectWithArgs object deparseFunctionWithArgtypes)
  | OBJECT_LARGEOBJECT =>
      str "LARGE OBJECT " ;;;
      deref sec_label_stmt.(SecLabelStmt.object) (fun object =>
        as_Value object (fun v => deparseValue v DEPARSE_NODE_CONTEXT_CONSTANT))
  | OBJECT_PROCEDURE =>
      str "PROCEDURE " ;;;
      deref sec_label_stmt.(SecLabelStmt.object) (fun object =>
        castNode_ObjectWithArgs object deparseFunctionWithArgtypes)
  | OBJECT_ROUTINE =>
      str "ROUTINE " ;;;
      deref sec_label_stmt.(SecLabelStmt.object) (fun object =>
        castNode_ObjectWithArgs object deparseFunctionWithArgtypes)
  | _ => assert_ false
  end ;;;
  str " IS " ;;;
  match sec_label_stmt.(SecLabelStmt.label) with
  | Some label => deparseStringLiteral label
  | None => str "NULL"
  end.

Definition deparseDropStmt (drop_stmt : DropStmt.t Node) : dep :=
  str "DROP " ;;;
  match drop_stmt.(DropStmt.removeType) with
  | OBJECT_ACCESS_METHOD => str "ACCESS METHOD "
  | OBJECT_AGGREGATE => str "AGGREGATE "
  | OBJECT_CAST => str "CAST "
  | OBJECT_COLLATION => str "COLLATION "
  | OBJECT_CONVERSION => str "CONVERSION "
  | OBJECT_DOMAIN => str "DOMAIN "
  | OBJECT_EVENT_TRIGGER => str "EVENT TRIGGER "
  | OBJECT_EXTENSION => str "EXTENSION "
  | OBJECT_FDW => str "FOREIGN DATA WRAPPER "
  | OBJECT_FOREIGN_SERVER => str "SERVER "
  | OBJECT_FOREIGN_TABLE => str "FOREIGN TABLE "
  | OBJECT_FUNCTION => str "FUNCTION "
  | OBJECT_INDEX => str "INDEX "
  | OBJECT_LANGUAGE => str "LANGUAGE "
  | OBJECT_MATVIEW => str "MATERIALIZED VIEW "
  | OBJECT_OPCLASS => str "OPERATOR CLASS "
  | OBJECT_OPERATOR => str "OPERATOR "
  | OBJECT_OPFAMILY => str "OPERATOR FAMILY "
  | OBJECT_POLICY => str "POLICY "
  | OBJECT_PROCEDURE => str "PROCEDURE "
  | OBJECT_PUBLICATION => str "PUBLICATION "
  | OBJECT_ROUTINE => str "ROUTINE "
  | OBJECT_RULE => str "RULE "
  | OBJECT_SCHEMA => str "SCHEMA "
  | OBJECT_SEQUENCE => str "SEQUENCE "
  | OBJECT_STATISTIC_EXT => str "STATISTICS "
  | OBJECT_TABLE => str "TABLE "
  | OBJECT_TRANSFORM => str "TRANSFORM "
  | OBJECT_TRIGGER => str "TRIGGER "
  | OBJECT_TSCONFIGURATION => str "TEXT SEARCH CONFIGURATION "
  | OBJECT_TSDICTIONARY => str "TEXT SEARCH DICTIONARY "
  | OBJECT_TSPARSER => str "TEXT SEARCH PARSER "
  | OBJECT_TSTEMPLATE => str "TEXT SEARCH TEMPLATE "
  | OBJECT_TYPE => str "TYPE "
  | OBJECT_VIEW => str "VIEW "
  | _ => assert_ false
  end ;;;
  when drop_stmt.(DropStmt.concurrent) (str "CONCURRENTLY ") ;;;
  when drop_stmt.(DropStmt.missing_ok) (str "IF EXISTS ") ;;;
  match drop_stmt.(DropStmt.removeType) with
  | OBJECT_TABLE | OBJECT_SEQUENCE | OBJECT_VIEW | OBJECT_MATVIEW | OBJECT_INDEX |
    OBJECT_FOREIGN_TABLE | OBJECT_COLLATION | OBJECT_CONVERSION | OBJECT_STATISTIC_EXT |
    OBJECT_TSPARSER | OBJECT_TSDICTIONARY | OBJECT_TSTEMPLATE | OBJECT_TSCONFIGURATION =>
      deparseAnyNameList drop_stmt.(DropStmt.objects) ;;;
      chr " "
  | OBJECT_ACCESS_METHOD | OBJECT_EVENT_TRIGGER | OBJECT_EXTENSION | OBJECT_FDW |
    OBJECT_PUBLICATION | OBJECT_SCHEMA | OBJECT_FOREIGN_SERVER =>
      deparseNameList drop_stmt.(DropStmt.objects) ;;;
      chr " "
  | OBJECT_POLICY | OBJECT_RULE | OBJECT_TRIGGER =>
      assert_ (List.length drop_stmt.(DropStmt.objects) =? 1)%nat ;;;
      linitial drop_stmt.(DropStmt.objects) (fun n =>
        castNode_List n (fun l =>
          llast l (fun n1 => strVal n1 deparseColId) ;;;
          str " ON " ;;;
          deparseAnyNameSkipLast l ;;;
          chr " "))
  | OBJECT_CAST =>
      assert_ (List.length drop_stmt.(DropStmt.objects) =? 1)%nat ;;;
      linitial drop_stmt.(DropStmt.objects) (fun n =>
        castNode_List n (fun l =>
          assert_ (List.length l =? 2)%nat ;;;
          chr "(" ;;;
          linitial l (fun n1 => castNode_TypeName n1 deparseTypeName) ;;;
          str " AS " ;;;
          lsecond l (fun n1 => castNode_TypeName n1 deparseTypeName) ;;;
          chr ")" ;;;
          chr " "))
  | OBJECT_OPFAMILY | OBJECT_OPCLASS =>
      assert_ (List.length drop_stmt.(DropStmt.objects) =? 1)%nat ;;;
      linitial drop_stmt.(DropStmt.objects) (fun n =>
        castNode_List n (fun l =>
          deparseAnyNameSkipFirst l ;;;
          str " USING " ;;;
          linitial l (fun n1 => strVal n1 deparseColId) ;;;
          chr " "))
  | OBJECT_TRANSFORM =>
      assert_ (List.length drop_stmt.(DropStmt.objects) =? 1)%nat ;;;
      linitial drop_stmt.(DropStmt.objects) (fun n =>
        castNode_List n (fun l =>
          str "FOR " ;;;
          linitial l (fun n1 => castNode_TypeName n1 deparseTypeName) ;;;
          str " LANGUAGE " ;;;
          lsecond l (fun n1 => strVal n1 deparseColId) ;;;
          chr " "))
  | OBJECT_LANGUAGE =>
      linitial drop_stmt.(DropStmt.objects) (fun n => strVal n deparseStringLiteral) ;;;
      chr " "
  | OBJECT_TYPE | OBJECT_DOMAIN =>
      foreach_sep (fun n => castNode_TypeName n deparseTypeName) (str ", ")
        drop_stmt.(DropStmt.objects) ;;;
      chr " "
  | OBJECT_AGGREGATE =>
      foreach_sep (fun n => castNode_ObjectWithArgs n deparseAggregateWithArgtypes) (str ", ")
        drop_stmt.(DropStmt.objects) ;;;
      chr " "
  | OBJECT_FUNCTION | OBJECT_PROCEDURE | OBJECT_ROUTINE =>
      foreach_sep (fun n => castNode_ObjectWithArgs n deparseFunctionWithArgtypes) (str ", ")
        drop_stmt.(DropStmt.objects) ;;;
      chr " "
  | OBJECT_OPERATOR =>
      foreach_sep (fun n => castNode_ObjectWithArgs n deparseOperatorWithArgtypes) (str ", ")
        drop_stmt.(DropStmt.objects) ;;;
      chr " "
  | _ => assert_ false
  end ;;;
  deparseOptDropBehavior drop_stmt.(DropStmt.behavior) ;;;
  rts.

Definition deparseAlterObjectDependsStmt (alter_object_depends_stmt : AlterObjectDependsStmt.t Node) :
    dep :=
  str "ALTER " ;;;
  match alter_object_depends_stmt.(AlterObjectDependsStmt.objectType) with
  | OBJECT_FUNCTION =>
      str "FUNCTION " ;;;
      deref alter_object_depends_stmt.(AlterObjectDependsStmt.object) (fun object =>
        castNode_ObjectWithArgs object deparseFunctionWithArgtypes)
  | OBJECT_PROCEDURE =>
      str "PROCEDURE " ;;;
      deref alter_object_depends_stmt.(AlterObjectDependsStmt.object) (fun object =>
        castNode_ObjectWithArgs object deparseFunctionWithArgtypes)
  | OBJECT_ROUTINE =>
      str "ROUTINE " ;;;
      deref alter_object_depends_stmt.(AlterObjectDependsStmt.object) (fun object =>
        castNode_ObjectWithArgs object deparseFunctionWithArgtypes)
  | OBJECT_TRIGGER =>
      str "TRIGGER " ;;;
      castList alter_object_depends_stmt.(AlterObjectDependsStmt.object) (fun l =>
        linitial l (fun n => strVal n deparseColId)) ;;;
      str " ON " ;;;
      deref alter_object_depends_stmt.(AlterObjectDependsStmt.relation) (fun relation =>
        deparseRangeVar relation DEPARSE_NODE_CONTEXT_NONE)
  | OBJECT_MATVIEW =>
      str "MATERIALIZED VIEW " ;;;
      deref alter_object_depends_stmt.(AlterObjectDependsStmt.relation) (fun relation =>
        deparseRangeVar relation DEPARSE_NODE_CONTEXT_NONE)
  | OBJECT_INDEX =>
      str "INDEX " ;;;
      deref alter_object_depends_stmt.(AlterObjectDependsStmt.relation) (fun relation =>
        deparseRangeVar relation DEPARSE_NODE_CONTEXT_NONE)
  | _ => assert_ false
  end ;;;
  chr " " ;;;
  when alter_object_depends_stmt.(AlterObjectDependsStmt.remove) (str "NO ") ;;;
  str "DEPENDS ON EXTENSION " ;;;
  deref alter_object_depends_stmt.(AlterObjectDependsStmt.extname) (fun extname =>
    strVal extname deparseColId).

Definition deparseAlterObjectSchemaStmt (alter_object_schema_stmt : AlterObjectSchemaStmt.t Node) :
    dep :=
  str "ALTER " ;;;
  match alter_object_schema_stmt.(AlterObjectSchemaStmt.objectType) with
  | OBJECT_AGGREGATE =>
      str "AGGREGATE " ;;;
      deref alter_object_schema_stmt.(AlterObjectSchemaStmt.object) (fun object =>
        castNode_ObjectWithArgs object deparseAggregateWithArgtypes)
  | OBJECT_COLLATION =>
      str "COLLATION " ;;;
      castList alter_object_schema_stmt.(AlterObjectSchemaStmt.object) deparseAnyName
  | OBJECT_CONVERSION =>
      str "CONVERSION " ;;;
      castList alter_object_schema_stmt.(AlterObjectSchemaStmt.object) deparseAnyName
  | OBJECT_DOMAIN =>
      str "DOMAIN " ;;;
      castList alter_object_schema_stmt.(AlterObjectSchemaStmt.object) deparseAnyName
  | OBJECT_EXTENSION =>
      str "EXTENSION " ;;;
      deref alter_object_schema_stmt.(AlterObjectSchemaStmt.object) quoted_cell
  | OBJECT_FUNCTION =>
      str "FUNCTION " ;;;
      deref alter_object_schema_stmt.(AlterObjectSchemaStmt.object) (fun object =>
        castNode_ObjectWithArgs object deparseFunctionWithArgtypes)
  | OBJECT_OPERATOR =>
      str "OPERATOR " ;;;
      deref alter_object_schema_stmt.(AlterObjectSchemaStmt.object) (fun object =>
        castNode_ObjectWithArgs object deparseOperatorWithArgtypes)
  | OBJECT_OPCLASS =>
      castList alter_object_schema_stmt.(AlterObjectSchemaStmt.object) (fun l =>
        str "OPERATOR CLASS " ;;;
        deparseAnyNameSkipFirst l ;;;
        str " USING " ;;;
        linitial l quoted_cell)
  | OBJECT_OPFAMILY =>
      castList alter_object_schema_stmt.(AlterObjectSchemaStmt.object) (fun l =>
        str "OPERATOR FAMILY " ;;;
        deparseAnyNameSkipFirst l ;;;
        str " USING " ;;;
        linitial l quoted_cell)
  | OBJECT_PROCEDURE =>
      str "PROCEDURE " ;;;
      deref alter_object_schema_stmt.(AlterObjectSchemaStmt.object) (fun object =>
        castNode_ObjectWithArgs object deparseFunctionWithArgtypes)
  | OBJECT_ROUTINE =>
      str "ROUTINE " ;;;
      deref alter_object_schema_stmt.(AlterObjectSchemaStmt.object) (fun object =>
        castNode_ObjectWithArgs object deparseFunctionWithArgtypes)
  | OBJECT_TABLE =>
      str "TABLE " ;;;
      when alter_object_schema_stmt.(AlterObjectSchemaStmt.missing_ok) (str "IF EXISTS ") ;;;
      deref alter_object_schema_stmt.(AlterObjectSchemaStmt.relation) (fun relation =>
        deparseRangeVar relation DEPARSE_NODE_CONTEXT_NONE)
  | OBJECT_STATISTIC_EXT =>
      str "STATISTICS " ;;;
      castList alter_object_schema_stmt.(AlterObjectSchemaStmt.object) deparseAnyName
  | OBJECT_TSPARSER =>
      str "TEXT SEARCH PARSER " ;;;
      castList alter_object_schema_stmt.(AlterObjectSchemaStmt.object) deparseAnyName
  | OBJECT_TSDICTIONARY =>
      str "TEXT SEARCH DICTIONARY " ;;;
      castList alter_object_schema_stmt.(AlterObjectSchemaStmt.object) deparseAnyName
  | OBJECT_TSTEMPLATE =>
      str "TEXT SEARCH TEMPLATE " ;;;
      castList alter_object_schema_stmt.(AlterObjectSchemaStmt.object) deparseAnyName
  | OBJECT_TSCONFIGURATION =>
      str "TEXT SEARCH CONFIGURATION " ;;;
      castList alter_object_schema_stmt.(AlterObjectSchemaStmt.object) deparseAnyName
  | OBJECT_SEQUENCE =>
      str "SEQUENCE " ;;;
      when alter_object_schema_stmt.(AlterObjectSchemaStmt.missing_ok) (str "IF EXISTS ") ;;;
      deref alter_object_schema_stmt.(AlterObjectSchemaStmt.relation) (fun relation =>
        deparseRangeVar relation DEPARSE_NODE_CONTEXT_NONE)
  | OBJECT_VIEW =>
      str "VIEW " ;;;
      when alter_object_schema_stmt.(AlterObjectSchemaStmt.missing_ok) (str "IF EXISTS ") ;;;
      deref alter_object_schema_stmt.(AlterObjectSchemaStmt.relation) (fun relation =>
        deparseRangeVar relation DEPARSE_NODE_CONTEXT_NONE)
  | OBJECT_MATVIEW =>
      str "MATERIALIZED VIEW " ;;;
      when alter_object_schema_stmt.(AlterObjectSchemaStmt.missing_ok) (str "IF EXISTS ") ;;;
      deref alter_object_schema_stmt.(AlterObjectSchemaStmt.relation) (fun relation =>
        deparseRangeVar relation DEPARSE_NODE_CONTEXT_NONE)
  | OBJECT_FOREIGN_TABLE =>
      str "FOREIGN TABLE " ;;;
      when alter_object_schema_stmt.(AlterObjectSchemaStmt.missing_ok) (str "IF EXISTS ") ;;;
      deref alter_object_schema_stmt.(AlterObjectSchemaStmt.relation) (fun relation =>
        deparseRangeVar relation DEPARSE_NODE_CONTEXT_NONE)
  | OBJECT_TYPE =>
      str "TYPE " ;;;
      castList alter_object_schema_stmt.(AlterObjectSchemaStmt.object) deparseAnyName
  | _ => assert_ false
  end ;;;
  str " SET SCHEMA " ;;;
  quoted alter_object_schema_stmt.(AlterObjectSchemaStmt.newschema).

Definition deparseRenameStmt (rename_stmt : RenameStmt.t Node) : dep :=
  str "ALTER " ;;;
  match rename_stmt.(RenameStmt.renameType) with
  | OBJECT_AGGREGATE => str "AGGREGATE "
  | OBJECT_COLLATION => str "COLLATION "
  | OBJECT_CONVERSION => str "CONVERSION "
  | OBJECT_DATABASE => str "DATABASE "
  | OBJECT_DOMAIN | OBJECT_DOMCONSTRAINT => str "DOMAIN "
  | OBJECT_FDW => str "FOREIGN DATA WRAPPER "
  | OBJECT_FUNCTION => str "FUNCTION "
  | OBJECT_ROLE => str "ROLE "
  | OBJECT_LANGUAGE => str "LANGUAGE "
  | OBJECT_OPCLASS => str "OPERATOR CLASS "
  | OBJECT_OPFAMILY => str "OPERATOR FAMILY "
  | OBJECT_POLICY => str "POLICY "
  | OBJECT_PROCEDURE => str "PROCEDURE "
  | OBJECT_PUBLICATION => str "PUBLICATION "
  | OBJECT_ROUTINE => str "ROUTINE "
  | OBJECT_SCHEMA => str "SCHEMA "
  | OBJECT_FOREIGN_SERVER => str "SERVER "
  | OBJECT_SUBSCRIPTION => str "SUBSCRIPTION "
  | OBJECT_TABLE | OBJECT_TABCONSTRAINT => str "TABLE "
  | OBJECT_COLUMN =>
      match rename_stmt.(RenameStmt.relationType) with
      | OBJECT_TABLE => str "TABLE "
      | OBJECT_FOREIGN_TABLE => str "FOREIGN TABLE "
      | OBJECT_VIEW => str "VIEW "
      | OBJECT_MATVIEW => str "MATERIALIZED VIEW "
      | _ => assert_ false
      end
  | OBJECT_SEQUENCE => str "SEQUENCE "
  | OBJECT_VIEW => str "VIEW "
  | OBJECT_MATVIEW => str "MATERIALIZED VIEW "
  | OBJECT_INDEX => str "INDEX "
  | OBJECT_FOREIGN_TABLE => str "FOREIGN TABLE "
  | OBJECT_RULE => str "RULE "
  | OBJECT_TRIGGER => str "TRIGGER "
  | OBJECT_EVENT_TRIGGER => str "EVENT TRIGGER "
  | OBJECT_TABLESPACE => str "TABLESPACE "
  | OBJECT_STATISTIC_EXT => str "STATISTICS "
  | OBJECT_TSPARSER => str "TEXT SEARCH PARSER "
  | OBJECT_TSDICTIONARY => str "TEXT SEARCH DICTIONARY "
  | OBJECT_TSTEMPLATE => str "TEXT SEARCH TEMPLATE "
  | OBJECT_TSCONFIGURATION => str "TEXT SEARCH CONFIGURATION "
  | OBJECT_TYPE | OBJECT_ATTRIBUTE => str "TYPE "
  | _ => assert_ false
  end ;;;
  when rename_stmt.(RenameStmt.missing_ok) (str "IF EXISTS ") ;;;
  match rename_stmt.(RenameStmt.renameType) with
  | OBJECT_AGGREGATE =>
      deref rename_stmt.(RenameStmt.object) (fun object =>
        castNode_ObjectWithArgs object deparseAggregateWithArgtypes) ;;;
      str " RENAME "
  | OBJECT_DOMCONSTRAINT =>
      castList rename_stmt.(RenameStmt.object) deparseAnyName ;;;
      str " RENAME CONSTRAINT " ;;;
      quoted rename_stmt.(RenameStmt.subname) ;;;
      chr " "
  | OBJECT_OPCLASS | OBJECT_OPFAMILY =>
      castList rename_stmt.(RenameStmt.object) (fun l =>
        deparseAnyNameSkipFirst l ;;;
        str " USING " ;;;
        linitial l quoted_cell ;;;
        str " RENAME ")
  | OBJECT_POLICY =>
      quoted rename_stmt.(RenameStmt.subname) ;;;
      str " ON " ;;;
      deref rename_stmt.(RenameStmt.relation) (fun relation =>
        deparseRangeVar relation DEPARSE_NODE_CONTEXT_NONE) ;;;
      str " RENAME "
  | OBJECT_FUNCTION | OBJECT_PROCEDURE | OBJECT_ROUTINE =>
      deref rename_stmt.(RenameStmt.object) (fun object =>
        castNode_ObjectWithArgs object deparseFunctionWithArgtypes) ;;;
      str " RENAME "
  | OBJECT_SUBSCRIPTION =>
      deref rename_stmt.(RenameStmt.object) (fun object => strVal object deparseColId) ;;;
      str " RENAME "
  | OBJECT_TABLE | OBJECT_SEQUENCE | OBJECT_VIEW | OBJECT_MATVIEW | OBJECT_INDEX |
    OBJECT_FOREIGN_TABLE =>
      deref rename_stmt.(RenameStmt.relation) (fun relation =>
        deparseRangeVar relation DEPARSE_NODE_CONTEXT_NONE) ;;;
      str " RENAME "
  | OBJECT_COLUMN =>
      deref rename_stmt.(RenameStmt.relation) (fun relation =>
        deparseRangeVar relation DEPARSE_NODE_CONTEXT_NONE) ;;;
      str " RENAME COLUMN " ;;;
      quoted rename_stmt.(RenameStmt.subname) ;;;
      chr " "
  | OBJECT_TABCONSTRAINT =>
      deref rename_stmt.(RenameStmt.relation) (fun relation =>
        deparseRangeVar relation DEPARSE_NODE_CONTEXT_NONE) ;;;
      str " RENAME CONSTRAINT " ;;;
      quoted rename_stmt.(RenameStmt.subname) ;;;
      chr " "
  | OBJECT_RULE | OBJECT_TRIGGER =>
      quoted rename_stmt.(RenameStmt.subname) ;;;
      str " ON " ;;;
      deref rename_stmt.(RenameStmt.relation) (fun relation =>
        deparseRangeVar relation DEPARSE_NODE_CONTEXT_NONE) ;;;
      str " RENAME "
  | OBJECT_FDW | OBJECT_LANGUAGE | OBJECT_PUBLICATION | OBJECT_FOREIGN_SERVER |
    OBJECT_EVENT_TRIGGER =>
      deref rename_stmt.(RenameStmt.object) quoted_cell ;;;
      str " RENAME "
  | OBJECT_DATABASE | OBJECT_ROLE | OBJECT_SCHEMA | OBJECT_TABLESPACE =>
      quoted rename_stmt.(RenameStmt.subname) ;;;
      str " RENAME "
  | OBJECT_COLLATION | OBJECT_CONVERSION | OBJECT_DOMAIN | OBJECT_STATISTIC_EXT |
    OBJECT_TSPARSER | OBJECT_TSDICTIONARY | OBJECT_TSTEMPLATE | OBJECT_TSCONFIGURATION |
    OBJECT_TYPE =>
      castList rename_stmt.(RenameStmt.object) deparseAnyName ;;;
      str " RENAME "
  | OBJECT_ATTRIBUTE =>
      deref rename_stmt.(RenameStmt.relation) (fun relation =>
        deparseRangeVar relation DEPARSE_NODE_CONTEXT_ALTER_TYPE) ;;;
      str " RENAME ATTRIBUTE " ;;;
      quoted rename_stmt.(RenameStmt.subname) ;;;
      chr " "
  | _ => assert_ false
  end ;;;
  str "TO " ;;;
  quoted rename_stmt.(RenameStmt.newname) ;;;
  chr " " ;;;
  deparseOptDropBehavior rename_stmt.(RenameStmt.behavior) ;;;
  rts.

Definition define_kind (kind : ObjectType) : dep :=
  match kind with
  | OBJECT_AGGREGATE => str "AGGREGATE "
  | OBJECT_OPERATOR => str "OPERATOR "
  | OBJECT_TYPE => str "TYPE "
  | OBJECT_TSPARSER => str "TEXT SEARCH PARSER "
  | OBJECT_TSDICTIONARY => str "TEXT SEARCH DICTIONARY "
  | OBJECT_TSTEMPLATE => str "TEXT SEARCH TEMPLATE "
  | OBJECT_TSCONFIGURATION => str "TEXT SEARCH CONFIGURATION "
  | OBJECT_COLLATION => str "COLLATION "
  | _ => assert_ false
  end.

Definition define_name (define_stmt : DefineStmt.t Node) : dep :=
  match define_stmt.(DefineStmt.kind) with
  | OBJECT_AGGREGATE => deparseFuncName define_stmt.(DefineStmt.defnames)
  | OBJECT_OPERATOR => deparseAnyOperator define_stmt.(DefineStmt.defnames)
  | OBJECT_TYPE | OBJECT_TSPARSER | OBJECT_TSDICTIONARY | OBJECT_TSTEMPLATE
  | OBJECT_TSCONFIGURATION | OBJECT_COLLATION => deparseAnyName define_stmt.(DefineStmt.defnames)
  | _ => assert_ false
  end.

Definition define_definition (define_stmt : DefineStmt.t Node) : dep :=
  let definition := when (nonempty define_stmt.(DefineStmt.definition))
    (deparseDefinition define_stmt.(DefineStmt.definition)) in
  match define_stmt.(DefineStmt.kind), define_stmt.(DefineStmt.definition) with
  | OBJECT_COLLATION, [n] =>
      castNode_DefElem n (fun def_elem => deref def_elem.(DefElem.defname) (fun defname =>
        if String.eqb defname "from" then
          str "FROM " ;;; castList def_elem.(DefElem.arg) deparseAnyName
        else definition))
  | _, _ => definition
  end.

Definition deparseDefineStmt (define_stmt : DefineStmt.t Node) : dep :=
  str "CREATE " ;;;
  when define_stmt.(DefineStmt.replace) (str "OR REPLACE ") ;;;
  define_kind define_stmt.(DefineStmt.kind) ;;;
  when define_stmt.(DefineStmt.if_not_exists) (str "IF NOT EXISTS ") ;;;
  define_name define_stmt ;;;
  chr " " ;;;
  when (negb define_stmt.(DefineStmt.oldstyle) &&
        bool_decide (define_stmt.(DefineStmt.kind) = OBJECT_AGGREGATE))
    (deparseAggrArgs define_stmt.(DefineStmt.args) ;;; chr " ") ;;;
  define_definition define_stmt ;;;
  rts.

Definition deparseAlterExtensionContentsStmt (alter_extension_contents_stmt : AlterExtensionContentsStmt.t Node) :
    dep :=
  str "ALTER EXTENSION " ;;;
  deref alter_extension_contents_stmt.(AlterExtensionContentsStmt.extname) deparseColId ;;;
  chr " " ;;;
  (if (alter_extension_contents_stmt.(AlterExtensionContentsStmt.action) =? 1)%Z then str "ADD "
   else if (alter_extension_contents_stmt.(AlterExtensionContentsStmt.action) =? (-1))%Z then
     str "DROP "
   else assert_ false) ;;;
  match alter_extension_contents_stmt.(AlterExtensionContentsStmt.objtype) with
  | OBJECT_ACCESS_METHOD => str "ACCESS METHOD "
  | OBJECT_AGGREGATE => str "AGGREGATE "
  | OBJECT_CAST => str "CAST "
  | OBJECT_COLLATION => str "COLLATION "
  | OBJECT_CONVERSION => str "CONVERSION "
  | OBJECT_DOMAIN => str "DOMAIN "
  | OBJECT_FUNCTION => str "FUNCTION "
  | OBJECT_LANGUAGE => str "LANGUAGE "
  | OBJECT_OPERATOR => str "OPERATOR "
  | OBJECT_OPCLASS => str "OPERATOR CLASS "
  | OBJECT_OPFAMILY => str "OPERATOR FAMILY "
  | OBJECT_PROCEDURE => str "PROCEDURE "
  | OBJECT_ROUTINE => str "ROUTINE "
  | OBJECT_SCHEMA => str "SCHEMA "
  | OBJECT_EVENT_TRIGGER => str "EVENT TRIGGER "
  | OBJECT_TABLE => str "TABLE "
  | OBJECT_TSPARSER => str "TEXT SEARCH PARSER "
  | OBJECT_TSDICTIONARY => str "TEXT SEARCH DICTIONARY "
  | OBJECT_TSTEMPLATE => str "TEXT SEARCH TEMPLATE "
  | OBJECT_TSCONFIGURATION => str "TEXT SEARCH CONFIGURATION "
  | OBJECT_SEQUENCE => str "SEQUENCE "
  | OBJECT_VIEW => str "VIEW "
  | OBJECT_MATVIEW => str "MATERIALIZED VIEW "
  | OBJECT_FOREIGN_TABLE => str "FOREIGN TABLE "
  | OBJECT_FDW => str "FOREIGN DATA WRAPPER "
  | OBJECT_FOREIGN_SERVER => str "SERVER "
  | OBJECT_TRANSFORM => str "TRANSFORM "
  | OBJECT_TYPE => str "TYPE "
  | _ => assert_ false
  end ;;;
  match alter_extension_contents_stmt.(AlterExtensionContentsStmt.objtype) with
  | OBJECT_COLLATION | OBJECT_CONVERSION | OBJECT_TABLE | OBJECT_TSPARSER |
    OBJECT_TSDICTIONARY | OBJECT_TSTEMPLATE | OBJECT_TSCONFIGURATION | OBJECT_SEQUENCE |
    OBJECT_VIEW | OBJECT_MATVIEW | OBJECT_FOREIGN_TABLE =>
      castList alter_extension_contents_stmt.(AlterExtensionContentsStmt.object) deparseAnyName
  | OBJECT_ACCESS_METHOD | OBJECT_LANGUAGE | OBJECT_SCHEMA | OBJECT_EVENT_TRIGGER | OBJECT_FDW |
    OBJECT_FOREIGN_SERVER =>
      deref alter_extension_contents_stmt.(AlterExtensionContentsStmt.object) (fun object =>
        strVal object deparseColId)
  | OBJECT_AGGREGATE =>
      deref alter_extension_contents_stmt.(AlterExtensionContentsStmt.object) (fun object =>
        castNode_ObjectWithArgs object deparseAggregateWithArgtypes)
  | OBJECT_CAST =>
      castList alter_extension_contents_stmt.(AlterExtensionContentsStmt.object) (fun l =>
        assert_ (List.length l =? 2)%nat ;;;
        chr "(" ;;;
        linitial l (fun n => castNode_TypeName n deparseTypeName) ;;;
        str " AS " ;;;
        lsecond l (fun n => castNode_TypeName n deparseTypeName) ;;;
        chr ")")
  | OBJECT_DOMAIN | OBJECT_TYPE =>
      deref alter_extension_contents_stmt.(AlterExtensionContentsStmt.object) (fun object =>
        castNode_TypeName object deparseTypeName)
  | OBJECT_FUNCTION | OBJECT_PROCEDURE | OBJECT_ROUTINE =>
      deref alter_extension_contents_stmt.(AlterExtensionContentsStmt.object) (fun object =>
        castNode_ObjectWithArgs object deparseFunctionWithArgtypes)
  | OBJECT_OPERATOR =>
      deref alter_extension_contents_stmt.(AlterExtensionContentsStmt.object) (fun object =>
        castNode_ObjectWithArgs object deparseOperatorWithArgtypes)
  | OBJECT_OPFAMILY | OBJECT_OPCLASS =>
      castList alter_extension_contents_stmt.(AlterExtensionContentsStmt.object) (fun l =>
        assert_ (List.length l =? 2)%nat ;;;
        deparseAnyNameSkipFirst l ;;;
        str " USING " ;;;
        linitial l (fun n => strVal n deparseColId))
  | OBJECT_TRANSFORM =>
      castList alter_extension_contents_stmt.(AlterExtensionContentsStmt.object) (fun l =>
        str "FOR " ;;;
        linitial l (fun n => castNode_TypeName n deparseTypeName) ;;;
        str " LANGUAGE " ;;;
        lsecond l (fun n => strVal n deparseColId))
  | _ => assert_ false
  end.

Definition deparseCommentStmt (comment_stmt : CommentStmt.t Node) : dep :=
  str "COMMENT ON " ;;;
  match comment_stmt.(CommentStmt.objtype) with
  | OBJECT_COLUMN => str "COLUMN "
  | OBJECT_INDEX => str "INDEX "
  | OBJECT_SEQUENCE => str "SEQUENCE "
  | OBJECT_STATISTIC_EXT => str "STATISTICS "
  | OBJECT_TABLE => str "TABLE "
  | OBJECT_VIEW => str "VIEW "
  | OBJECT_MATVIEW => str "MATERIALIZED VIEW "
  | OBJECT_COLLATION => str "COLLATION "
  | OBJECT_CONVERSION => str "CONVERSION "
  | OBJECT_FOREIGN_TABLE => str "FOREIGN TABLE "
  | OBJECT_TSCONFIGURATION => str "TEXT SEARCH CONFIGURATION "
  | OBJECT_TSDICTIONARY => str "TEXT SEARCH DICTIONARY "
  | OBJECT_TSPARSER => str "TEXT SEARCH PARSER "
  | OBJECT_TSTEMPLATE => str "TEXT SEARCH TEMPLATE "
  | OBJECT_ACCESS_METHOD => str "ACCESS METHOD "
  | OBJECT_DATABASE => str "DATABASE "
  | OBJECT_EVENT_TRIGGER => str "EVENT TRIGGER "
  | OBJECT_EXTENSION => str "EXTENSION "
  | OBJECT_FDW => str "FOREIGN DATA WRAPPER "
  | OBJECT_LANGUAGE => str "LANGUAGE "
  | OBJECT_PUBLICATION => str "PUBLICATION "
  | OBJECT_ROLE => str "ROLE "
  | OBJECT_SCHEMA => str "SCHEMA "
  | OBJECT_FOREIGN_SERVER => str "SERVER "
  | OBJECT_SUBSCRIPTION => str "SUBSCRIPTION "
  | OBJECT_TABLESPACE => str "TABLESPACE "
  | OBJECT_TYPE => str "TYPE "
  | OBJECT_DOMAIN => str "DOMAIN "
  | OBJECT_AGGREGATE => str "AGGREGATE "
  | OBJECT_FUNCTION => str "FUNCTION "
  | OBJECT_OPERATOR => str "OPERATOR "
  | OBJECT_TABCONSTRAINT => str "CONSTRAINT "
  | OBJECT_DOMCONSTRAINT => str "CONSTRAINT "
  | OBJECT_POLICY => str "POLICY "
  | OBJECT_PROCEDURE => str "PROCEDURE "
  | OBJECT_ROUTINE => str "ROUTINE "
  | OBJECT_RULE => str "RULE "
  | OBJECT_TRANSFORM => str "TRANSFORM "
  | OBJECT_TRIGGER => str "TRIGGER "
  | OBJECT_OPCLASS => str "OPERATOR CLASS "
  | OBJECT_OPFAMILY => str "OPERATOR FAMILY "
  | OBJECT_LARGEOBJECT => str "LARGE OBJECT "
  | OBJECT_CAST => str "CAST "
  | _ => assert_ false
  end ;;;
  match comment_stmt.(CommentStmt.objtype) with
  | OBJECT_COLUMN | OBJECT_INDEX | OBJECT_SEQUENCE | OBJECT_STATISTIC_EXT | OBJECT_TABLE |
    OBJECT_VIEW | OBJECT_MATVIEW | OBJECT_COLLATION | OBJECT_CONVERSION | OBJECT_FOREIGN_TABLE |
    OBJECT_TSCONFIGURATION | OBJECT_TSDICTIONARY | OBJECT_TSPARSER | OBJECT_TSTEMPLATE =>
      castList comment_stmt.(CommentStmt.object) deparseAnyName
  | OBJECT_ACCESS_METHOD | OBJECT_DATABASE | OBJECT_EVENT_TRIGGER | OBJECT_EXTENSION |
    OBJECT_FDW | OBJECT_LANGUAGE | OBJECT_PUBLICATION | OBJECT_ROLE | OBJECT_SCHEMA |
    OBJECT_FOREIGN_SERVER | OBJECT_SUBSCRIPTION | OBJECT_TABLESPACE =>
      deref comment_stmt.(CommentStmt.object) quoted_cell
  | OBJECT_TYPE | OBJECT_DOMAIN =>
      deref comment_stmt.(CommentStmt.object) (fun object =>
        castNode_TypeName object deparseTypeName)
  | OBJECT_AGGREGATE =>
      deref comment_stmt.(CommentStmt.object) (fun object =>
        castNode_ObjectWithArgs object deparseAggregateWithArgtypes)
  | OBJECT_FUNCTION | OBJECT_PROCEDURE | OBJECT_ROUTINE =>
      deref comment_stmt.(CommentStmt.object) (fun object =>
        castNode_ObjectWithArgs object deparseFunctionWithArgtypes)
  | OBJECT_OPERATOR =>
      deref comment_stmt.(CommentStmt.object) (fun object =>
        castNode_ObjectWithArgs object deparseOperatorWithArgtypes)
  | OBJECT_TABCONSTRAINT | OBJECT_POLICY | OBJECT_RULE | OBJECT_TRIGGER =>
      castList comment_stmt.(CommentStmt.object) (fun l =>
        llast l quoted_cell ;;;
        str " ON " ;;;
        deparseAnyNameSkipLast l)
  | OBJECT_DOMCONSTRAINT =>
      castList comment_stmt.(CommentStmt.object) (fun l =>
        llast l quoted_cell ;;;
        str " ON DOMAIN " ;;;
        linitial l (fun n => castNode_TypeName n deparseTypeName))
  | OBJECT_TRANSFORM =>
      castList comment_stmt.(CommentStmt.object) (fun l =>
        str "FOR " ;;;
        linitial l (fun n => castNode_TypeName n deparseTypeName) ;;;
        str " LANGUAGE " ;;;
        lsecond l quoted_cell)
  | OBJECT_OPCLASS | OBJECT_OPFAMILY =>
      castList comment_stmt.(CommentStmt.object) (fun l =>
        deparseAnyNameSkipFirst l ;;;
        str " USING " ;;;
        linitial l quoted_cell)
  | OBJECT_LARGEOBJECT =>
      deref comment_stmt.(CommentStmt.object) (fun object =>
        as_Value object (fun v => deparseValue v DEPARSE_NODE_CONTEXT_NONE))
  | OBJECT_CAST =>
      castList comment_stmt.(CommentStmt.object) (fun l =>
        chr "(" ;;;
        linitial l (fun n => castNode_TypeName n deparseTypeName) ;;;
        str " AS " ;;;
        lsecond l (fun n => castNode_TypeName n deparseTypeName) ;;;
        chr ")")
  | _ => assert_ false
  end ;;;
  str " IS " ;;;
  match comment_stmt.(CommentStmt.comment) with
  | Some comment => deparseStringLiteral comment
  | None => str "NULL"
  end.

Definition deparseAlterOwnerStmt (alter_owner_stmt : AlterOwnerStmt.t Node) : dep :=
  str "ALTER " ;;;
  match alter_owner_stmt.(AlterOwnerStmt.objectType) with
  | OBJECT_AGGREGATE =>
      str "AGGREGATE " ;;;
      deref alter_owner_stmt.(AlterOwnerStmt.object) (fun object =>
        castNode_ObjectWithArgs object deparseAggregateWithArgtypes)
  | OBJECT_COLLATION =>
      str "COLLATION " ;;;
      castList alter_owner_stmt.(AlterOwnerStmt.object) deparseAnyName
  | OBJECT_CONVERSION =>
      str "CONVERSION " ;;;
      castList alter_owner_stmt.(AlterOwnerStmt.object) deparseAnyName
  | OBJECT_DATABASE =>
      str "DATABASE " ;;;
      deref alter_owner_stmt.(AlterOwnerStmt.object) (fun object => strVal object deparseColId)
  | OBJECT_DOMAIN =>
      str "DOMAIN " ;;;
      castList alter_owner_stmt.(AlterOwnerStmt.object) deparseAnyName
  | OBJECT_FUNCTION =>
      str "FUNCTION " ;;;
      deref alter_owner_stmt.(AlterOwnerStmt.object) (fun object =>
        castNode_ObjectWithArgs object deparseFunctionWithArgtypes)
  | OBJECT_LANGUAGE =>
      str "LANGUAGE " ;;;
      deref alter_owner_stmt.(AlterOwnerStmt.object) (fun object => strVal object deparseColId)
  | OBJECT_LARGEOBJECT =>
      str "LARGE OBJECT " ;;;
      deref alter_owner_stmt.(AlterOwnerStmt.object) (fun object =>
        as_Value object deparseNumericOnly)
  | OBJECT_OPERATOR =>
      str "OPERATOR " ;;;
      deref alter_owner_stmt.(AlterOwnerStmt.object) (fun object =>
        castNode_ObjectWithArgs object deparseOperatorWithArgtypes)
  | OBJECT_OPCLASS =>
      castList alter_owner_stmt.(AlterOwnerStmt.object) (fun l =>
        str "OPERATOR CLASS " ;;;
        deparseAnyNameSkipFirst l ;;;
        str " USING " ;;;
        linitial l (fun n => strVal n deparseColId))
  | OBJECT_OPFAMILY =>
      castList alter_owner_stmt.(AlterOwnerStmt.object) (fun l =>
        str "OPERATOR FAMILY " ;;;
        deparseAnyNameSkipFirst l ;;;
        str " USING " ;;;
        linitial l (fun n => strVal n deparseColId))
  | OBJECT_PROCEDURE =>
      str "PROCEDURE " ;;;
      deref alter_owner_stmt.(AlterOwnerStmt.object) (fun object =>
        castNode_ObjectWithArgs object deparseFunctionWithArgtypes)
  | OBJECT_ROUTINE =>
      str "ROUTINE " ;;;
      deref alter_owner_stmt.(AlterOwnerStmt.object) (fun object =>
        castNode_ObjectWithArgs object deparseFunctionWithArgtypes)
  | OBJECT_SCHEMA =>
      str "SCHEMA " ;;;
      deref alter_owner_stmt.(AlterOwnerStmt.object) (fun object => strVal object deparseColId)
  | OBJECT_TYPE =>
      str "TYPE " ;;;
      castList alter_owner_stmt.(AlterOwnerStmt.object) deparseAnyName
  | OBJECT_TABLESPACE =>
      str "TABLESPACE " ;;;
      deref alter_owner_stmt.(AlterOwnerStmt.object) (fun object => strVal object deparseColId)
  | OBJECT_STATISTIC_EXT =>
      str "STATISTICS " ;;;
      castList alter_owner_stmt.(AlterOwnerStmt.object) deparseAnyName
  | OBJECT_TSDICTIONARY =>
      str "TEXT SEARCH DICTIONARY " ;;;
      castList alter_owner_stmt.(AlterOwnerStmt.object) deparseAnyName
  | OBJECT_TSCONFIGURATION =>
      str "TEXT SEARCH CONFIGURATION " ;;;
      castList alter_owner_stmt.(AlterOwnerStmt.object) deparseAnyName
  | OBJECT_FDW =>
      str "FOREIGN DATA WRAPPER " ;;;
      deref alter_owner_stmt.(AlterOwnerStmt.object) (fun object => strVal object deparseColId)
  | OBJECT_FOREIGN_SERVER =>
      str "SERVER " ;;;
      deref alter_owner_stmt.(AlterOwnerStmt.object) (fun object => strVal object deparseColId)
  | OBJECT_EVENT_TRIGGER =>
      str "EVENT TRIGGER " ;;;
      deref alter_owner_stmt.(AlterOwnerStmt.object) (fun object => strVal object deparseColId)
  | OBJECT_PUBLICATION =>
      str "PUBLICATION " ;;;
      deref alter_owner_stmt.(AlterOwnerStmt.object) (fun object => strVal object deparseColId)
  | OBJECT_SUBSCRIPTION =>
      str "SUBSCRIPTION " ;;;
      deref alter_owner_stmt.(AlterOwnerStmt.object) (fun object => strVal object deparseColId)
  | _ => assert_ false
  end ;;;
  str " OWNER TO " ;;;
  deref alter_owner_stmt.(AlterOwnerStmt.newowner) deparseRoleSpec.
