(* ===== verification/DeparseUtil.v ===== *)
(** * The deparser: the other statements, and all statements

    Transactions, [COPY], [EXPLAIN], roles and privileges, cursors, maintenance; the
    switch [deparseStmt] over all kinds of statements and the entry point
    [pg_query_deparse_protobuf] of [src/pg_query_deparse.c]. *)
From S2P Require Import Prelude Buffer Keywords Quote Enums Nodes DeparseNames DeparseExpr.
From S2P Require Import DeparseStmt DeparseParts DeparseTables DeparseObjects.

(** ** Constants of the parse trees *)

Definition AccessShareLock : Z := 1.
Definition RowShareLock : Z := 2.
Definition RowExclusiveLock : Z := 3.
Definition ShareUpdateExclusiveLock : Z := 4.
Definition ShareLock : Z := 5.
Definition ShareRowExclusiveLock : Z := 6.
Definition ExclusiveLock : Z := 7.
Definition AccessExclusiveLock : Z := 8.

Definition CURSOR_OPT_BINARY : Z := 0x0001.
Definition CURSOR_OPT_SCROLL : Z := 0x0002.
Definition CURSOR_OPT_NO_SCROLL : Z := 0x0004.
Definition CURSOR_OPT_INSENSITIVE : Z := 0x0008.
Definition CURSOR_OPT_HOLD : Z := 0x0010.

(** [LONG_MAX] *)
Definition FETCH_ALL : Z := 2 ^ 63 - 1.

Definition CLUOPT_VERBOSE : Z := Z.shiftl 1 1.
Definition REINDEXOPT_VERBOSE : Z := Z.shiftl 1 0.

(** ** Productions *)

Definition deparseCheckPointStmt (check_point_stmt : CheckPointStmt.t Node) : dep :=
  str "CHECKPOINT".

Definition deparseAlterRoleSetStmt (alter_role_set_stmt : AlterRoleSetStmt.t Node) : dep :=
  str "ALTER ROLE " ;;;
  match alter_role_set_stmt.(AlterRoleSetStmt.role) with
  | Some role => deparseRoleSpec role
  | None => str "ALL"
  end ;;;
  chr " " ;;;
  when_some alter_role_set_stmt.(AlterRoleSetStmt.database) (fun database =>
    str "IN DATABASE " ;;;
    str (quote_identifier database) ;;;
    chr " ") ;;;
  deref alter_role_set_stmt.(AlterRoleSetStmt.setstmt) deparseVariableSetStmt.

Definition deparseCreatedbStmt (createdb_stmt : CreatedbStmt.t Node) : dep :=
  str "CREATE DATABASE " ;;;
  deref createdb_stmt.(CreatedbStmt.dbname) deparseColId ;;;
  chr " " ;;;
  deparseCreatedbOptList createdb_stmt.(CreatedbStmt.options) ;;;
  rts.

Definition deparseDropTableSpaceStmt (drop_table_space_stmt : DropTableSpaceStmt.t Node) : dep :=
  str "DROP TABLESPACE " ;;;
  when drop_table_space_stmt.(DropTableSpaceStmt.missing_ok) (str "IF EXISTS ") ;;;
  deref drop_table_space_stmt.(DropTableSpaceStmt.tablespacename) str.

Definition deparseAlterTableSpaceOptionsStmt (alter_table_space_options_stmt : AlterTableSpaceOptionsStmt.t Node) :
    dep :=
  str "ALTER TABLESPACE " ;;;
  deref alter_table_space_options_stmt.(AlterTableSpaceOptionsStmt.tablespacename) deparseColId ;;;
  chr " " ;;;
  (if alter_table_space_options_stmt.(AlterTableSpaceOptionsStmt.isReset) then str "RESET "
   else str "SET ") ;;;
  deparseRelOptions alter_table_space_options_stmt.(AlterTableSpaceOptionsStmt.options).

Definition deparseTransactionStmt (transaction_stmt : TransactionStmt.t Node) : dep :=
  match transaction_stmt.(TransactionStmt.kind) with
  | TRANS_STMT_BEGIN =>
      str "BEGIN " ;;;
      deparseTransactionModeList transaction_stmt.(TransactionStmt.options)
  | TRANS_STMT_START =>
      str "START TRANSACTION " ;;;
      deparseTransactionModeList transaction_stmt.(TransactionStmt.options)
  | TRANS_STMT_COMMIT =>
      str "COMMIT " ;;;
      when transaction_stmt.(TransactionStmt.chain) (str "AND CHAIN ")
  | TRANS_STMT_ROLLBACK =>
      str "ROLLBACK " ;;;
      when transaction_stmt.(TransactionStmt.chain) (str "AND CHAIN ")
  | TRANS_STMT_SAVEPOINT =>
      str "SAVEPOINT " ;;;
      quoted transaction_stmt.(TransactionStmt.savepoint_name)
  | TRANS_STMT_RELEASE =>
      str "RELEASE " ;;;
      quoted transaction_stmt.(TransactionStmt.savepoint_name)
  | TRANS_STMT_ROLLBACK_TO =>
      str "ROLLBACK " ;;;
      str "TO SAVEPOINT " ;;;
      quoted transaction_stmt.(TransactionStmt.savepoint_name)
  | TRANS_STMT_PREPARE =>
      str "PREPARE TRANSACTION " ;;;
      deref transaction_stmt.(TransactionStmt.gid) deparseStringLiteral
  | TRANS_STMT_COMMIT_PREPARED =>
      str "COMMIT PREPARED " ;;;
      deref transaction_stmt.(TransactionStmt.gid) deparseStringLiteral
  | TRANS_STMT_ROLLBACK_PREPARED =>
      str "ROLLBACK PREPARED " ;;;
      deref transaction_stmt.(TransactionStmt.gid) deparseStringLiteral
  end ;;;
  rts.

Definition deparseDropdbStmt (dropdb_stmt : DropdbStmt.t Node) : dep :=
  str "DROP DATABASE " ;;;
  when dropdb_stmt.(DropdbStmt.missing_ok) (str "IF EXISTS ") ;;;
  quoted dropdb_stmt.(DropdbStmt.dbname) ;;;
  chr " " ;;;
  when (nonempty dropdb_stmt.(DropdbStmt.options))
    (chr "(" ;;;
     foreach_sep (fun n =>
         castNode_DefElem n (fun def_elem =>
           deref def_elem.(DefElem.defname) (fun defname =>
             if String.eqb defname "force" then str "FORCE"
             else assert_ false)))
       (str ", ") dropdb_stmt.(DropdbStmt.options) ;;;
     chr ")") ;;;
  rts.

Definition deparseVacuumStmt (vacuum_stmt : VacuumStmt.t Node) : dep :=
  (if vacuum_stmt.(VacuumStmt.is_vacuumcmd) then str "VACUUM "
   else str "ANALYZE ") ;;;
  when (nonempty vacuum_stmt.(VacuumStmt.options))
    (chr "(" ;;;
     foreach_sep (fun n =>
         castNode_DefElem n (fun def_elem =>
           deref def_elem.(DefElem.defname) deparseGenericDefElemName ;;;
           when_some def_elem.(DefElem.arg) (fun arg =>
             chr " " ;;;
             (if IsA_Integer arg || IsA_Float arg then as_Value arg deparseNumericOnly
              else if IsA_String arg then strVal arg (fun s => deparseOptBooleanOrString (Some s))
              else assert_ false))))
       (str ", ") vacuum_stmt.(VacuumStmt.options) ;;;
     str ") ") ;;;
  foreach_sep (fun n =>
      assert_ (IsA_VacuumRelation n) ;;;
      castNode_VacuumRelation n (fun vacuum_relation =>
        deref vacuum_relation.(VacuumRelation.relation) (fun relation =>
          deparseRangeVar relation DEPARSE_NODE_CONTEXT_NONE) ;;;
        when (nonempty vacuum_relation.(VacuumRelation.va_cols))
          (chr "(" ;;;
           foreach_sep quoted_cell (str ", ")
             vacuum_relation.(VacuumRelation.va_cols) ;;;
           chr ")")))
    (str ", ") vacuum_stmt.(VacuumStmt.rels) ;;;
  rts.

Definition deparseLoadStmt (load_stmt : LoadStmt.t Node) : dep :=
  str "LOAD " ;;;
  deref load_stmt.(LoadStmt.filename) deparseStringLiteral.

Definition deparseLockStmt (lock_stmt : LockStmt.t Node) : dep :=
  str "LOCK TABLE " ;;;
  deparseRelationExprList lock_stmt.(LockStmt.relations) ;;;
  chr " " ;;;
  when (negb (lock_stmt.(LockStmt.mode) =? AccessExclusiveLock)%Z)
    (str "IN " ;;;
     (if (lock_stmt.(LockStmt.mode) =? AccessShareLock)%Z then str "ACCESS SHARE "
      else if (lock_stmt.(LockStmt.mode) =? RowShareLock)%Z then str "ROW SHARE "
      else if (lock_stmt.(LockStmt.mode) =? RowExclusiveLock)%Z then str "ROW EXCLUSIVE "
      else if (lock_stmt.(LockStmt.mode) =? ShareUpdateExclusiveLock)%Z then
        str "SHARE UPDATE EXCLUSIVE "
      else if (lock_stmt.(LockStmt.mode) =? ShareLock)%Z then str "SHARE "
      else if (lock_stmt.(LockStmt.mode) =? ShareRowExclusiveLock)%Z then
        str "SHARE ROW EXCLUSIVE "
      else if (lock_stmt.(LockStmt.mode) =? ExclusiveLock)%Z then str "EXCLUSIVE "
      else if (lock_stmt.(LockStmt.mode) =? AccessExclusiveLock)%Z then str "ACCESS EXCLUSIVE "
      else assert_ false) ;;;
     str "MODE ") ;;;
  when lock_stmt.(LockStmt.nowait) (str "NOWAIT ") ;;;
  rts.

Definition deparseConstraintsSetStmt (constraints_set_stmt : ConstraintsSetStmt.t Node) : dep :=
  str "SET CONSTRAINTS " ;;;
  (if nonempty constraints_set_stmt.(ConstraintsSetStmt.constraints) then
     deparseQualifiedNameList constraints_set_stmt.(ConstraintsSetStmt.constraints) ;;;
     chr " "
   else str "ALL ") ;;;
  (if constraints_set_stmt.(ConstraintsSetStmt.deferred) then str "DEFERRED"
   else str "IMMEDIATE").

Definition deparseDeclareCursorStmt (declare_cursor_stmt : DeclareCursorStmt.t Node) : dep :=
  str "DECLARE " ;;;
  quoted declare_cursor_stmt.(DeclareCursorStmt.portalname) ;;;
  chr " " ;;;
  when (flag declare_cursor_stmt.(DeclareCursorStmt.options) CURSOR_OPT_BINARY) (str "BINARY ") ;;;
  when (flag declare_cursor_stmt.(DeclareCursorStmt.options) CURSOR_OPT_SCROLL) (str "SCROLL ") ;;;
  when (flag declare_cursor_stmt.(DeclareCursorStmt.options) CURSOR_OPT_NO_SCROLL)
    (str "NO SCROLL ") ;;;
  when (flag declare_cursor_stmt.(DeclareCursorStmt.options) CURSOR_OPT_INSENSITIVE)
    (str "INSENSITIVE ") ;;;
  str "CURSOR " ;;;
  when (flag declare_cursor_stmt.(DeclareCursorStmt.options) CURSOR_OPT_HOLD) (str "WITH HOLD ") ;;;
  str "FOR " ;;;
  deref declare_cursor_stmt.(DeclareCursorStmt.query) (fun query =>
    castNode_SelectStmt query deparseSelectStmt).

Definition deparseExplainableStmt (node : Node) : dep :=
  match node with
  | N_SelectStmt x => deparseSelectStmt x
  | N_InsertStmt x => deparseInsertStmt x
  | N_UpdateStmt x => deparseUpdateStmt x
  | N_DeleteStmt x => deparseDeleteStmt x
  | N_DeclareCursorStmt x => deparseDeclareCursorStmt x
  | N_CreateTableAsStmt x => deparseCreateTableAsStmt x
  | N_RefreshMatViewStmt x => deparseRefreshMatViewStmt x
  | N_ExecuteStmt x => deparseExecuteStmt x
  | _ => assert_ false
  end.

Definition deparseExplainStmt (explain_stmt : ExplainStmt.t Node) : dep :=
  str "EXPLAIN " ;;;
  when (nonempty explain_stmt.(ExplainStmt.options))
    (chr "(" ;;;
     foreach_sep (fun n =>
         castNode_DefElem n (fun def_elem =>
           deref def_elem.(DefElem.defname) deparseGenericDefElemName ;;;
           when_some def_elem.(DefElem.arg) (fun arg =>
             if IsA_String arg then
               chr " " ;;; strVal arg (fun s => deparseOptBooleanOrString (Some s))
             else when (IsA_Integer arg || IsA_Float arg)
               (chr " " ;;; as_Value arg deparseNumericOnly))))
       (str ", ") explain_stmt.(ExplainStmt.options) ;;;
     str ") ") ;;;
  deref explain_stmt.(ExplainStmt.query) deparseExplainableStmt.

(** The last branch of the loop over the options of [COPY]. *)
Definition copy_generic_option (defname : string) (arg : option Node) : dep :=
  str (quote_identifier defname) ;;;
  when (notnull arg) (chr " ") ;;;
  when_some arg (fun n =>
    if IsA_String n then strVal n (fun s => deparseOptBooleanOrString (Some s))
    else if IsA_Integer n || IsA_Float n then as_Value n deparseNumericOnly
    else if IsA_A_Star n then deparseAStar
    else when (IsA_List n)
      (castNode_List n (fun l =>
         chr "(" ;;;
         foreach_sep (fun n1 => strVal n1 (fun s => deparseOptBooleanOrString (Some s))) (str ", ") l ;;;
         chr ")"))).

(** [freeze] and [header]: the keyword without a value or with 1; any other value
    falls through to the last branch. *)
Definition copy_flag (keyword : string) (defname : string) (arg : option Node) : dep :=
  match arg with
  | None => str keyword
  | Some n => intVal n (fun z =>
      if (z =? 1)%Z then str keyword ;;; str " 1" else copy_generic_option defname arg)
  end.

Definition copy_option (def_elem : DefElem.t Node) : dep :=
  let arg := def_elem.(DefElem.arg) in
  let literal keyword := str keyword ;;; deref arg (fun n => strVal n deparseStringLiteral) in
  deref def_elem.(DefElem.defname) (fun defname =>
    if String.eqb defname "format" then
      str "FORMAT " ;;;
      deref arg (fun n => strVal n (fun format =>
        if String.eqb format "binary" then str "BINARY"
        else if String.eqb format "csv" then str "CSV"
        else assert_ false))
    else if String.eqb defname "freeze" then copy_flag "FREEZE" defname arg
    else if String.eqb defname "delimiter" then literal "DELIMITER "
    else if String.eqb defname "null" then literal "NULL "
    else if String.eqb defname "header" then copy_flag "HEADER" defname arg
    else if String.eqb defname "quote" then literal "QUOTE "
    else if String.eqb defname "escape" then literal "ESCAPE "
    else if String.eqb defname "force_quote" then
      str "FORCE_QUOTE " ;;;
      deref arg (fun n =>
        if IsA_A_Star n then chr "*"
        else if IsA_List n then castNode_List n (fun l => chr "(" ;;; deparseColumnList l ;;; chr ")")
        else assert_ false)
    else if String.eqb defname "force_not_null" then
      str "FORCE_NOT_NULL (" ;;; castList arg deparseColumnList ;;; chr ")"
    else if String.eqb defname "force_null" then
      str "FORCE_NULL (" ;;; castList arg deparseColumnList ;;; chr ")"
    else if String.eqb defname "encoding" then literal "ENCODING "
    else copy_generic_option defname arg).

Definition deparseCopyStmt (copy_stmt : CopyStmt.t Node) : dep :=
  str "COPY " ;;;
  when_some copy_stmt.(CopyStmt.relation) (fun relation =>
    deparseRangeVar relation DEPARSE_NODE_CONTEXT_NONE ;;;
    when (nonempty copy_stmt.(CopyStmt.attlist))
      (chr "(" ;;; deparseColumnList copy_stmt.(CopyStmt.attlist) ;;; chr ")") ;;;
    chr " ") ;;;
  when_some copy_stmt.(CopyStmt.query) (fun query =>
    chr "(" ;;; deparsePreparableStmt query ;;; str ") ") ;;;
  (if copy_stmt.(CopyStmt.is_from) then str "FROM " else str "TO ") ;;;
  when copy_stmt.(CopyStmt.is_program) (str "PROGRAM ") ;;;
  match copy_stmt.(CopyStmt.filename) with
  | Some filename => deparseStringLiteral filename ;;; chr " "
  | None => if copy_stmt.(CopyStmt.is_from) then str "STDIN " else str "STDOUT "
  end ;;;
  when (nonempty copy_stmt.(CopyStmt.options))
    (str "WITH (" ;;;
     foreach_sep (fun n => castNode_DefElem n copy_option) (str ", ") copy_stmt.(CopyStmt.options) ;;;
     str ") ") ;;;
  deparseWhereClause copy_stmt.(CopyStmt.whereClause) ;;;
  rts.

Definition do_body (strval : string) : dep :=
  let delim := if strstr strval "$$" then "$outer$" else "$$" in
  str delim ;;; str strval ;;; str delim ;;; chr " ".

Definition deparseDoStmt (do_stmt : DoStmt.t Node) : dep :=
  str "DO " ;;;
  foreach (fun n =>
      castNode_DefElem n (fun defel =>
        deref defel.(DefElem.defname) (fun defname =>
          if String.eqb defname "language" then
            str "LANGUAGE " ;;; deref defel.(DefElem.arg) quoted_cell ;;; chr " "
          else when (String.eqb defname "as")
            (deref defel.(DefElem.arg) (fun n1 => strVal n1 do_body)))))
    do_stmt.(DoStmt.args) ;;;
  rts.

Definition deparseDiscardStmt (discard_stmt : DiscardStmt.t Node) : dep :=
  str "DISCARD " ;;;
  match discard_stmt.(DiscardStmt.target) with
  | DISCARD_ALL => str "ALL"
  | DISCARD_PLANS => str "PLANS"
  | DISCARD_SEQUENCES => str "SEQUENCES"
  | DISCARD_TEMP => str "TEMP"
  end.

Definition deparseGrantRoleStmt (grant_role_stmt : GrantRoleStmt.t Node) : dep :=
  let is_grant := grant_role_stmt.(GrantRoleStmt.is_grant) in
  (if is_grant then str "GRANT " else str "REVOKE ") ;;;
  comma_list (fun n => castNode_AccessPriv n deparseAccessPriv)
    grant_role_stmt.(GrantRoleStmt.granted_roles) ;;;
  (if is_grant then str "TO " else str "FROM ") ;;;
  deparseRoleList grant_role_stmt.(GrantRoleStmt.grantee_roles) ;;;
  chr " " ;;;
  when grant_role_stmt.(GrantRoleStmt.admin_opt) (str "WITH ADMIN OPTION ") ;;;
  rts.

Definition deparseDropRoleStmt (drop_role_stmt : DropRoleStmt.t Node) : dep :=
  str "DROP ROLE " ;;;
  when drop_role_stmt.(DropRoleStmt.missing_ok) (str "IF EXISTS ") ;;;
  deparseRoleList drop_role_stmt.(DropRoleStmt.roles).

Definition deparsePrepareStmt (prepare_stmt : PrepareStmt.t Node) : dep :=
  str "PREPARE " ;;;
  deref prepare_stmt.(PrepareStmt.name) deparseColId ;;;
  when (nonempty prepare_stmt.(PrepareStmt.argtypes))
    (chr "(" ;;;
     deparseTypeList prepare_stmt.(PrepareStmt.argtypes) ;;;
     chr ")") ;;;
  str " AS " ;;;
  deref prepare_stmt.(PrepareStmt.query) deparsePreparableStmt.

Definition deparseDeallocateStmt (deallocate_stmt : DeallocateStmt.t Node) : dep :=
  str "DEALLOCATE " ;;;
  match deallocate_stmt.(DeallocateStmt.name) with
  | Some name => str (quote_identifier name)
  | None => str "ALL"
  end.

Definition deparseCreateRoleStmt (create_role_stmt : CreateRoleStmt.t Node) : dep :=
  str "CREATE " ;;;
  match create_role_stmt.(CreateRoleStmt.stmt_type) with
  | ROLESTMT_ROLE => str "ROLE "
  | ROLESTMT_USER => str "USER "
  | ROLESTMT_GROUP => str "GROUP "
  end ;;;
  quoted create_role_stmt.(CreateRoleStmt.role) ;;;
  chr " " ;;;
  when (nonempty create_role_stmt.(CreateRoleStmt.options))
    (str "WITH " ;;;
     foreach (fun n =>
         castNode_DefElem n deparseCreateRoleElem ;;;
         chr " ")
       create_role_stmt.(CreateRoleStmt.options)) ;;;
  rts.

Definition alter_role_options (alter_role_stmt : AlterRoleStmt.t Node) : dep :=
  str "ROLE " ;;;
  deref alter_role_stmt.(AlterRoleStmt.role) deparseRoleSpec ;;;
  chr " " ;;;
  str "WITH " ;;;
  foreach (fun n => castNode_DefElem n deparseAlterRoleElem ;;; chr " ")
    alter_role_stmt.(AlterRoleStmt.options).

Definition deparseAlterRoleStmt (alter_role_stmt : AlterRoleStmt.t Node) : dep :=
  str "ALTER " ;;;
  match alter_role_stmt.(AlterRoleStmt.options) with
  | [n] =>
      castNode_DefElem n (fun def_elem => deref def_elem.(DefElem.defname) (fun defname =>
        if String.eqb defname "rolemembers" then
          str "GROUP " ;;;
          deref alter_role_stmt.(AlterRoleStmt.role) deparseRoleSpec ;;;
          chr " " ;;;
          (if (alter_role_stmt.(AlterRoleStmt.action) =? 1)%Z then str "ADD USER "
           else if (alter_role_stmt.(AlterRoleStmt.action) =? -1)%Z then str "DROP USER "
           else assert_ false) ;;;
          castList def_elem.(DefElem.arg) deparseRoleList
        else alter_role_options alter_role_stmt))
  | _ => alter_role_options alter_role_stmt
  end ;;;
  rts.

Definition deparseFetchStmt (fetch_stmt : FetchStmt.t Node) : dep :=
  (if fetch_stmt.(FetchStmt.ismove) then str "MOVE "
   else str "FETCH ") ;;;
  match fetch_stmt.(FetchStmt.direction) with
  | FETCH_FORWARD =>
      if (fetch_stmt.(FetchStmt.howMany) =? 1)%Z then skip
      else if (fetch_stmt.(FetchStmt.howMany) =? FETCH_ALL)%Z then str "ALL "
      else fmt ("FORWARD " +:+ fmt_d fetch_stmt.(FetchStmt.howMany) +:+ " ")
  | FETCH_BACKWARD =>
      if (fetch_stmt.(FetchStmt.howMany) =? 1)%Z then str "PRIOR "
      else if (fetch_stmt.(FetchStmt.howMany) =? FETCH_ALL)%Z then str "BACKWARD ALL "
      else fmt ("BACKWARD " +:+ fmt_d fetch_stmt.(FetchStmt.howMany) +:+ " ")
  | FETCH_ABSOLUTE =>
      if (fetch_stmt.(FetchStmt.howMany) =? 1)%Z then str "FIRST "
      else if (fetch_stmt.(FetchStmt.howMany) =? (-1))%Z then str "LAST "
      else fmt ("ABSOLUTE " +:+ fmt_d fetch_stmt.(FetchStmt.howMany) +:+ " ")
  | FETCH_RELATIVE => fmt ("RELATIVE " +:+ fmt_d fetch_stmt.(FetchStmt.howMany) +:+ " ")
  end ;;;
  deref fetch_stmt.(FetchStmt.portalname) str.

Definition deparseAlterDefaultPrivilegesStmt (alter_default_privileges_stmt : AlterDefaultPrivilegesStmt.t Node) :
    dep :=
  str "ALTER DEFAULT PRIVILEGES " ;;;
  foreach (fun n =>
      castNode_DefElem n (fun def_elem =>
        deref def_elem.(DefElem.defname) (fun defname =>
          if String.eqb defname "schemas" then
            str "IN SCHEMA " ;;;
            castList def_elem.(DefElem.arg) deparseNameList ;;;
            chr " "
          else if String.eqb defname "roles" then
            str "FOR ROLE " ;;;
            castList def_elem.(DefElem.arg) deparseRoleList ;;;
            chr " "
          else assert_ false)))
    alter_default_privileges_stmt.(AlterDefaultPrivilegesStmt.options) ;;;
  deref alter_default_privileges_stmt.(AlterDefaultPrivilegesStmt.action) deparseGrantStmt.

Definition deparseReindexStmt (reindex_stmt : ReindexStmt.t Node) : dep :=
  str "REINDEX " ;;;
  when (flag reindex_stmt.(ReindexStmt.options) REINDEXOPT_VERBOSE) (str "(VERBOSE) ") ;;;
  match reindex_stmt.(ReindexStmt.kind) with
  | REINDEX_OBJECT_INDEX => str "INDEX "
  | REINDEX_OBJECT_TABLE => str "TABLE "
  | REINDEX_OBJECT_SCHEMA => str "SCHEMA "
  | REINDEX_OBJECT_SYSTEM => str "SYSTEM "
  | REINDEX_OBJECT_DATABASE => str "DATABASE "
  end ;;;
  when reindex_stmt.(ReindexStmt.concurrent) (str "CONCURRENTLY ") ;;;
  match reindex_stmt.(ReindexStmt.relation) with
  | Some relation => deparseRangeVar relation DEPARSE_NODE_CONTEXT_NONE
  | None => when_some reindex_stmt.(ReindexStmt.name) (fun name => str (quote_identifier name))
  end.

Definition deparseListenStmt (listen_stmt : ListenStmt.t Node) : dep :=
  str "LISTEN " ;;;
  quoted listen_stmt.(ListenStmt.conditionname).

Definition deparseUnlistenStmt (unlisten_stmt : UnlistenStmt.t Node) : dep :=
  str "UNLISTEN " ;;;
  match unlisten_stmt.(UnlistenStmt.conditionname) with
  | Some conditionname => str (quote_identifier conditionname)
  | None => str "*"
  end.

Definition deparseCreateTableSpaceStmt (create_table_space_stmt : CreateTableSpaceStmt.t Node) :
    dep :=
  str "CREATE TABLESPACE " ;;;
  deref create_table_space_stmt.(CreateTableSpaceStmt.tablespacename) deparseColId ;;;
  chr " " ;;;
  when_some create_table_space_stmt.(CreateTableSpaceStmt.owner) (fun owner =>
    str "OWNER " ;;; deparseRoleSpec owner ;;; chr " ") ;;;
  str "LOCATION " ;;;
  deref create_table_space_stmt.(CreateTableSpaceStmt.location) deparseStringLiteral ;;;
  chr " " ;;;
  deparseOptWith create_table_space_stmt.(CreateTableSpaceStmt.options) ;;;
  rts.

Definition deparseAlterSystemStmt (alter_system_stmt : AlterSystemStmt.t Node) : dep :=
  str "ALTER SYSTEM " ;;;
  deref alter_system_stmt.(AlterSystemStmt.setstmt) deparseVariableSetStmt.

Definition deparseAlterDatabaseStmt (alter_database_stmt : AlterDatabaseStmt.t Node) : dep :=
  str "ALTER DATABASE " ;;;
  deref alter_database_stmt.(AlterDatabaseStmt.dbname) deparseColId ;;;
  chr " " ;;;
  deparseCreatedbOptList alter_database_stmt.(AlterDatabaseStmt.options) ;;;
  rts.

Definition deparseAlterDatabaseSetStmt (alter_database_set_stmt : AlterDatabaseSetStmt.t Node) :
    dep :=
  str "ALTER DATABASE " ;;;
  deref alter_database_set_stmt.(AlterDatabaseSetStmt.dbname) deparseColId ;;;
  chr " " ;;;
  deref alter_database_set_stmt.(AlterDatabaseSetStmt.setstmt) deparseVariableSetStmt.

Definition deparseVariableShowStmt (variable_show_stmt : VariableShowStmt.t Node) : dep :=
  str "SHOW " ;;;
  deref variable_show_stmt.(VariableShowStmt.name) (fun name =>
    if String.eqb name "timezone" then str "TIME ZONE"
    else if String.eqb name "transaction_isolation" then str "TRANSACTION ISOLATION LEVEL"
    else if String.eqb name "session_authorization" then str "SESSION AUTHORIZATION"
    else if String.eqb name "all" then str "SESSION ALL"
    else str name).

Definition deparseCallStmt (call_stmt : CallStmt.t Node) : dep :=
  str "CALL " ;;;
  deref call_stmt.(CallStmt.funccall) deparseFuncCall.

Definition deparseDropOwnedStmt (drop_owned_stmt : DropOwnedStmt.t Node) : dep :=
  str "DROP OWNED BY " ;;;
  deparseRoleList drop_owned_stmt.(DropOwnedStmt.roles) ;;;
  chr " " ;;;
  deparseOptDropBehavior drop_owned_stmt.(DropOwnedStmt.behavior) ;;;
  rts.

Definition deparseReassignOwnedStmt (reassigned_owned_stmt : ReassignOwnedStmt.t Node) : dep :=
  str "REASSIGN OWNED BY " ;;;
  deparseRoleList reassigned_owned_stmt.(ReassignOwnedStmt.roles) ;;;
  chr " " ;;;
  str "TO " ;;;
  deref reassigned_owned_stmt.(ReassignOwnedStmt.newrole) deparseRoleSpec.

Definition deparseClosePortalStmt (close_portal_stmt : ClosePortalStmt.t Node) : dep :=
  str "CLOSE " ;;;
  match close_portal_stmt.(ClosePortalStmt.portalname) with
  | Some portalname => str (quote_identifier portalname)
  | None => str "ALL"
  end.

Definition deparseClusterStmt (cluster_stmt : ClusterStmt.t Node) : dep :=
  str "CLUSTER " ;;;
  when (flag cluster_stmt.(ClusterStmt.options) CLUOPT_VERBOSE) (str "VERBOSE ") ;;;
  when_some cluster_stmt.(ClusterStmt.relation) (fun relation =>
    deparseRangeVar relation DEPARSE_NODE_CONTEXT_NONE ;;;
    chr " ") ;;;
  when_some cluster_stmt.(ClusterStmt.indexname) (fun indexname =>
    str "USING " ;;;
    str (quote_identifier indexname) ;;;
    chr " ") ;;;
  rts.

Definition deparseStmt (node : Node) : dep :=
  match node with
  | N_AlterEventTrigStmt x => deparseAlterEventTrigStmt x
  | N_AlterCollationStmt x => deparseAlterCollationStmt x
  | N_AlterDatabaseStmt x => deparseAlterDatabaseStmt x
  | N_AlterDatabaseSetStmt x => deparseAlterDatabaseSetStmt x
  | N_AlterDefaultPrivilegesStmt x => deparseAlterDefaultPrivilegesStmt x
  | N_AlterDomainStmt x => deparseAlterDomainStmt x
  | N_AlterEnumStmt x => deparseAlterEnumStmt x
  | N_AlterExtensionStmt x => deparseAlterExtensionStmt x
  | N_AlterExtensionContentsStmt x => deparseAlterExtensionContentsStmt x
  | N_AlterFdwStmt x => deparseAlterFdwStmt x
  | N_AlterForeignServerStmt x => deparseAlterForeignServerStmt x
  | N_AlterFunctionStmt x => deparseAlterFunctionStmt x
  | N_AlterObjectDependsStmt x => deparseAlterObjectDependsStmt x
  | N_AlterObjectSchemaStmt x => deparseAlterObjectSchemaStmt x
  | N_AlterOwnerStmt x => deparseAlterOwnerStmt x
  | N_AlterOperatorStmt x => deparseAlterOperatorStmt x
  | N_AlterTypeStmt x => deparseAlterTypeStmt x
  | N_AlterPolicyStmt x => deparseAlterPolicyStmt x
  | N_AlterSeqStmt x => deparseAlterSeqStmt x
  | N_AlterSystemStmt x => deparseAlterSystemStmt x
  | N_AlterTableStmt x => deparseAlterTableStmt x
  | N_AlterTableSpaceOptionsStmt x => deparseAlterTableSpaceOptionsStmt x
  | N_AlterPublicationStmt x => deparseAlterPublicationStmt x
  | N_AlterRoleSetStmt x => deparseAlterRoleSetStmt x
  | N_AlterRoleStmt x => deparseAlterRoleStmt x
  | N_AlterSubscriptionStmt x => deparseAlterSubscriptionStmt x
  | N_AlterStatsStmt x => deparseAlterStatsStmt x
  | N_AlterTSConfigurationStmt x => deparseAlterTSConfigurationStmt x
  | N_AlterTSDictionaryStmt x => deparseAlterTSDictionaryStmt x
  | N_AlterUserMappingStmt x => deparseAlterUserMappingStmt x
  | N_CallStmt x => deparseCallStmt x
  | N_CheckPointStmt x => deparseCheckPointStmt x
  | N_ClosePortalStmt x => deparseClosePortalStmt x
  | N_ClusterStmt x => deparseClusterStmt x
  | N_CommentStmt x => deparseCommentStmt x
  | N_ConstraintsSetStmt x => deparseConstraintsSetStmt x
  | N_CopyStmt x => deparseCopyStmt x
  | N_CreateAmStmt x => deparseCreateAmStmt x
  | N_CreateTableAsStmt x => deparseCreateTableAsStmt x
  | N_CreateCastStmt x => deparseCreateCastStmt x
  | N_CreateConversionStmt x => deparseCreateConversionStmt x
  | N_CreateDomainStmt x => deparseCreateDomainStmt x
  | N_CreateExtensionStmt x => deparseCreateExtensionStmt x
  | N_CreateFdwStmt x => deparseCreateFdwStmt x
  | N_CreateForeignServerStmt x => deparseCreateForeignServerStmt x
  | N_CreateForeignTableStmt x => deparseCreateForeignTableStmt x
  | N_CreateFunctionStmt x => deparseCreateFunctionStmt x
  | N_CreateOpClassStmt x => deparseCreateOpClassStmt x
  | N_CreateOpFamilyStmt x => deparseCreateOpFamilyStmt x
  | N_CreatePublicationStmt x => deparseCreatePublicationStmt x
  | N_AlterOpFamilyStmt x => deparseAlterOpFamilyStmt x
  | N_CreatePolicyStmt x => deparseCreatePolicyStmt x
  | N_CreatePLangStmt x => deparseCreatePLangStmt x
  | N_CreateSchemaStmt x => deparseCreateSchemaStmt x
  | N_CreateSeqStmt x => deparseCreateSeqStmt x
  | N_CreateStmt x => deparseCreateStmt x false
  | N_CreateSubscriptionStmt x => deparseCreateSubscriptionStmt x
  | N_CreateStatsStmt x => deparseCreateStatsStmt x
  | N_CreateTableSpaceStmt x => deparseCreateTableSpaceStmt x
  | N_CreateTransformStmt x => deparseCreateTransformStmt x
  | N_CreateTrigStmt x => deparseCreateTrigStmt x
  | N_CreateEventTrigStmt x => deparseCreateEventTrigStmt x
  | N_CreateRoleStmt x => deparseCreateRoleStmt x
  | N_CreateUserMappingStmt x => deparseCreateUserMappingStmt x
  | N_CreatedbStmt x => deparseCreatedbStmt x
  | N_DeallocateStmt x => deparseDeallocateStmt x
  | N_DeclareCursorStmt x => deparseDeclareCursorStmt x
  | N_DefineStmt x => deparseDefineStmt x
  | N_DeleteStmt x => deparseDeleteStmt x
  | N_DiscardStmt x => deparseDiscardStmt x
  | N_DoStmt x => deparseDoStmt x
  | N_DropOwnedStmt x => deparseDropOwnedStmt x
  | N_DropStmt x => deparseDropStmt x
  | N_DropSubscriptionStmt x => deparseDropSubscriptionStmt x
  | N_DropTableSpaceStmt x => deparseDropTableSpaceStmt x
  | N_DropRoleStmt x => deparseDropRoleStmt x
  | N_DropUserMappingStmt x => deparseDropUserMappingStmt x
  | N_DropdbStmt x => deparseDropdbStmt x
  | N_ExecuteStmt x => deparseExecuteStmt x
  | N_ExplainStmt x => deparseExplainStmt x
  | N_FetchStmt x => deparseFetchStmt x
  | N_GrantStmt x => deparseGrantStmt x
  | N_GrantRoleStmt x => deparseGrantRoleStmt x
  | N_ImportForeignSchemaStmt x => deparseImportForeignSchemaStmt x
  | N_IndexStmt x => deparseIndexStmt x
  | N_InsertStmt x => deparseInsertStmt x
  | N_ListenStmt x => deparseListenStmt x
  | N_RefreshMatViewStmt x => deparseRefreshMatViewStmt x
  | N_LoadStmt x => deparseLoadStmt x
  | N_LockStmt x => deparseLockStmt x
  | N_NotifyStmt x => deparseNotifyStmt x
  | N_PrepareStmt x => deparsePrepareStmt x
  | N_ReassignOwnedStmt x => deparseReassignOwnedStmt x
  | N_ReindexStmt x => deparseReindexStmt x
  | N_RenameStmt x => deparseRenameStmt x
  | N_RuleStmt x => deparseRuleStmt x
  | N_SecLabelStmt x => deparseSecLabelStmt x
  | N_SelectStmt x => deparseSelectStmt x
  | N_TransactionStmt x => deparseTransactionStmt x
  | N_TruncateStmt x => deparseTruncateStmt x
  | N_UnlistenStmt x => deparseUnlistenStmt x
  | N_UpdateStmt x => deparseUpdateStmt x
  | N_VacuumStmt x => deparseVacuumStmt x
  | N_VariableSetStmt x => deparseVariableSetStmt x
  | N_VariableShowStmt x => deparseVariableShowStmt x
  | N_ViewStmt x => deparseViewStmt x
  | N_CompositeTypeStmt x => deparseCompositeTypeStmt x
  | N_CreateEnumStmt x => deparseCreateEnumStmt x
  | N_CreateRangeStmt x => deparseCreateRangeStmt x
  | _ => elog ("deparse: unsupported top-level node type: " +:+ fmt_d (nodeTag node))
  end.
