(* ===== verification/AgreeDeparse.v ===== *)
(** * Programs do not depend on their buffer, and the deparser is such a program

    A program of type [dep] only uses the interface [StringBuf], so what it does on
    the growing buffers of [stringinfo.c] is what it does on strings, errors
    included.  [capped] is the reference: a string that refuses to grow beyond a
    limit.  [uniform d] says that [d] does on any lawful buffer what it does on the
    reference, unless the reference is full; the rules show it of every combinator
    and [uniform_tac] of every program made of them, whatever tree it prints. *)
From S2P Require Import Prelude Buffer Enums Nodes Keywords Quote DeparseNames DeparseExpr.
From S2P Require Import DeparseStmt Shape Rules DeparseSafeStmt.

(** ** The reference *)

Definition full : string := "full".

(** [demand] bytes more fit below [limit]. *)
Definition fits (limit : option Z) (b : string) (demand : Z) : bool :=
  match limit with Some m => (strlen b + demand <? m)%Z | None => true end.

Definition grow_by (limit : option Z) (b t : string) (demand : Z) : outcome string :=
  if fits limit b demand then Ok (b +:+ t) else Elog full.

Definition capped (limit : option Z) : StringBuf string := {|
  sb_contents b := b;
  sb_valid _ := True;
  appendStringInfoString s b := grow_by limit b s (strlen s);
  appendStringInfoChar c b := grow_by limit b (String c EmptyString) 1;
  appendStringInfo s b := grow_by limit b s (strlen s + 32);
  removeTrailing x b := Ok (drop_trailing x b)
|}.

(** [r], on the reference, tells what [r'] is on another buffer. *)
Definition agrees {B} `{StringBuf B} (r : outcome string) (r' : outcome B) : Prop :=
  match r with
  | Ok t => exists b, r' = Ok b /\ sb_valid b /\ sb_contents b = t
  | Elog msg => msg = full \/ r' = Elog msg
  | Undef => r' = Undef
  end.

Definition uniform (d : dep) : Prop :=
  forall B (HS : StringBuf B) limit (HL : StringBufLaws B limit) b, sb_valid b ->
    agrees (d string (capped limit) (sb_contents b)) (d B HS b).

(** The limit does not matter to a string. *)
Lemma string_buf_any_limit limit : StringBufLaws string limit.
Proof. split; cbn; eauto. Qed.

(** [d], started on a string [b] that may not grow beyond [limit], runs out of room. *)
Definition runs_full (limit : option Z) (d : dep) (b : string) : Prop :=
  d string (capped limit) b = Elog full.

(** What a program does on a buffer, told by what it does on a string. *)
Definition same_result {B} `{StringBuf B} (r : outcome string) (r' : outcome B) : Prop :=
  match r with
  | Ok t => exists b, r' = Ok b /\ sb_valid b /\ sb_contents b = t
  | Elog msg => r' = Elog msg
  | Undef => r' = Undef
  end.

Lemma uniform_same d {B} (HS : StringBuf B) limit (HL : StringBufLaws B limit) b :
  uniform d -> sb_valid b ->
  runs_full limit d (sb_contents b) \/
  same_result (d string string_buf (sb_contents b)) (d B HS b).
Proof.
  intros Hd Hv. pose proof (Hd B HS limit HL b Hv) as H1.
  pose proof (Hd string string_buf limit (string_buf_any_limit limit) (sb_contents b) I) as H2.
  unfold runs_full. cbn [string_buf sb_contents] in H2. cbn in H2.
  destruct (d string (capped limit) (sb_contents b)) as [t|msg|]; cbn in H1, H2.
  - right. destruct H2 as (t' & -> & _ & ->). exact H1.
  - destruct H1 as [->|H1]; [by left|]. destruct H2 as [->|H2]; [by left|]. right. by rewrite H2.
  - right. by rewrite H2.
Qed.

(** ** The calls of the interface *)

Lemma fits_over limit b demand : fits limit b demand = true -> ~ over limit (strlen b + demand).
Proof. destruct limit; cbn; [lia|tauto]. Qed.

Lemma grow_by_agrees {B} {HS : StringBuf B} limit b t demand r :
  appends limit b t demand r -> agrees (grow_by limit (sb_contents b) t demand) r.
Proof.
  unfold grow_by. destruct (fits _ _ _) eqn:E; [|by left].
  apply fits_over in E. destruct r as [b'| |]; [|by intros ?..]. intros [Hv Hc]. by exists b'.
Qed.

Lemma uniform_str s : uniform (str s).
Proof. intros B HS limit HL b Hv. apply grow_by_agrees. by apply append_string_law. Qed.
Lemma uniform_chr c : uniform (chr c).
Proof. intros B HS limit HL b Hv. apply grow_by_agrees. by apply append_char_law. Qed.
Lemma uniform_fmt s : uniform (fmt s).
Proof. intros B HS limit HL b Hv. apply grow_by_agrees. by apply append_fmt_law. Qed.

Lemma uniform_remove x : uniform (fun B HS b => removeTrailing x b).
Proof.
  intros B HS limit HL b Hv. destruct (remove_law x b Hv) as (b' & E & Hv' & Hc). by exists b'.
Qed.
Lemma uniform_rts : uniform rts. Proof. apply uniform_remove. Qed.
Lemma uniform_rtd : uniform rtd. Proof. apply uniform_remove. Qed.

(** ** The combinators *)

Lemma uniform_skip : uniform skip. Proof. intros B HS limit HL b Hv. by exists b. Qed.
Lemma uniform_undef : uniform undef. Proof. by intros B HS limit HL b Hv. Qed.
Lemma uniform_elog msg : uniform (elog msg). Proof. intros B HS limit HL b Hv. by right. Qed.

Lemma uniform_seqd d1 d2 : uniform d1 -> uniform d2 -> uniform (d1 ;;; d2).
Proof.
  intros H1 H2 B HS limit HL b Hv. specialize (H1 B HS limit HL b Hv). unfold seqd.
  destruct (d1 string _ _) as [t|msg|]; cbn in *.
  - destruct H1 as (b' & -> & Hv' & <-). by apply (H2 B HS limit HL b' Hv').
  - destruct H1 as [->|H1]; [by left|right]. by rewrite H1.
  - by rewrite H1.
Qed.

Section lists.
Context {A : Type} (f : A -> dep).

Lemma uniform_foreach l : Forall (fun x => uniform (f x)) l -> uniform (foreach f l).
Proof.
  induction 1 as [|x l Hx Hl IH]; [apply uniform_skip|].
  change (foreach f (x :: l)) with (f x ;;; foreach f l). by apply uniform_seqd.
Qed.

Lemma uniform_foreach_sep sep l :
  Forall (fun x => uniform (f x)) l -> uniform sep -> uniform (foreach_sep f sep l).
Proof.
  intros Hl Hs. induction Hl as [|x l Hx Hl IH]; [apply uniform_skip|].
  destruct l as [|y l]; [done|].
  change (foreach_sep f sep (x :: y :: l)) with (f x ;;; sep ;;; foreach_sep f sep (y :: l)).
  by repeat apply uniform_seqd.
Qed.
End lists.

(** ** The tactic *)

Create HintDb uniform discriminated.
#[export] Hint Constants Opaque : uniform.
#[export] Hint Resolve uniform_str uniform_chr uniform_fmt uniform_rts uniform_rtd uniform_skip
  uniform_undef uniform_elog : uniform.

(** One step: a rule, a case distinction, or the definition of the program. *)
Ltac uniform_step :=
  lazymatch goal with
  | |- uniform (_ ;;; _) => apply uniform_seqd
  | |- uniform (foreach _ _) => apply uniform_foreach; first [assumption | apply Forall_true; intros ?]
  | |- uniform (foreach_sep _ _ _) =>
      apply uniform_foreach_sep; [first [assumption | apply Forall_true; intros ?]|]
  | |- uniform (match ?x with _ => _ end) => destruct x
  | |- uniform (let x := _ in _) => cbv zeta
  | |- uniform ((fun _ => _) _) => cbv beta
  | |- uniform ?d => let h := head_of d in unfold h
  end.

Ltac uniform_tac :=
  cbv zeta beta;
  repeat (first [solve [eauto 1 with uniform nocore] | uniform_step; cbv zeta beta]).

(** * The deparser does not depend on its buffer

    [uniform] of every production of [DeparseNames.v], [DeparseExpr.v] and
    [DeparseStmt.v], by induction over the tree, for all trees. *)

(** What is to be shown of every node. *)
Definition even (n : Node) : Prop := forall e, uniform (deparse e n).
Abbreviation below := (her even).

Lemma below_entry e n : below n -> uniform (deparse e n).
Proof. intros H%her_here. apply H. Qed.

Lemma uniform_parens_if b d : uniform d -> uniform (parens_if b d).
Proof.
  intros Hd. unfold parens_if.
  repeat apply uniform_seqd; [destruct b; uniform_tac|done|destruct b; uniform_tac].
Qed.

Lemma below_parens b e n : below n -> uniform (parens_if b (deparse e n)).
Proof. intros Hn. by apply uniform_parens_if, below_entry. Qed.

Lemma Forall_below f l :
  list_all Node below l -> (forall n, below n -> uniform (f n)) -> Forall (fun n => uniform (f n)) l.
Proof. intros Hl Hf. induction Hl; constructor; auto. Qed.

(** Opens what is known of the nodes below. *)
Ltac open_below :=
  repeat match goal with
  | H : ?P Node below ?x |- _ =>
      is_var x; lazymatch P with list_all => fail | option_all => fail | _ => destruct H; simpl_fields end
  | H : option_all _ _ (Some _) |- _ => inversion_clear H
  | H : list_all Node _ (_ :: _) |- _ => inversion_clear H
  end.

(** The scrutinee of a [match], reduced when it is a field. *)
Ltac reduce_var x :=
  tryif is_var x then idtac
  else (let y := eval hnf in x in tryif is_var y then change x with y else idtac).

Ltac below_step :=
  lazymatch goal with
  | |- uniform (_ ;;; _) => apply uniform_seqd
  | |- uniform (deparse _ ?n) => apply below_entry; assumption
  | |- uniform (parens_if _ _) => apply uniform_parens_if
  | |- uniform (foreach _ _) =>
      apply uniform_foreach;
      first [eapply Forall_below; [eassumption|intros ? ?] | apply Forall_true; intros ?]
  | |- uniform (foreach_sep _ _ _) =>
      apply uniform_foreach_sep;
      [first [eapply Forall_below; [eassumption|intros ? ?] | apply Forall_true; intros ?]|]
  | |- uniform (match ?x with _ => _ end) =>
      reduce_var x; lazymatch goal with
      | |- uniform (match ?x with _ => _ end) =>
      lazymatch goal with
      | H : below x |- _ =>
          let H' := fresh in
          pose proof H as H'; destruct x; cbv beta iota zeta;
          lazymatch goal with
          | |- uniform undef => exact uniform_undef
          | |- uniform (deparse _ _) => exact (below_entry _ _ H')
          | |- uniform (parens_if _ (deparseExpr_ deparse _)) => exact (below_parens _ E_Expr _ H')
          | _ => apply her_children in H; cbn [children] in H; open_below
          end
      | _ => destruct x; open_below
      end
      | _ => idtac
      end
  | |- uniform ?d => let h := head_of d in unfold h
  end; cbv zeta beta.

Ltac below_tac :=
  open_below; cbv zeta beta; repeat (first [solve [eauto 2 with uniform nocore] | below_step]).

(** ** Literals, names, values *)

Lemma deparseStringLiteral_loop_uniform s : uniform (deparseStringLiteral_loop s).
Proof.
  induction s as [|c s IH]; [apply uniform_skip|]. cbn [deparseStringLiteral_loop].
  apply uniform_seqd; [uniform_tac|]. apply uniform_seqd; [uniform_tac|done].
Qed.
#[export] Hint Resolve deparseStringLiteral_loop_uniform : uniform.

Lemma deparseStringLiteral_uniform s : uniform (deparseStringLiteral s).
Proof. uniform_tac. Qed.
#[export] Hint Resolve deparseStringLiteral_uniform : uniform.

Lemma strVal_uniform n k : (forall s, uniform (k s)) -> uniform (strVal n k).
Proof.
  intros Hk. unfold strVal, value_str. destruct n; try exact uniform_undef.
  destruct v; auto with uniform.
Qed.
Lemma intVal_uniform n k : (forall z, uniform (k z)) -> uniform (intVal n k).
Proof.
  intros Hk. unfold intVal, value_int. destruct n; try exact uniform_undef.
  destruct v; auto with uniform.
Qed.


Section names.
Context (l : list Node).

Lemma deparseAnyName_uniform : uniform (deparseAnyName l). Proof. uniform_tac. Qed.
Lemma deparseFuncName_uniform : uniform (deparseFuncName l). Proof. uniform_tac. Qed.
Lemma deparseColumnList_uniform : uniform (deparseColumnList l). Proof. uniform_tac. Qed.
Lemma deparseNameList_uniform : uniform (deparseNameList l). Proof. uniform_tac. Qed.
Lemma deparseQualifiedNameList_uniform : uniform (deparseQualifiedNameList l).
Proof. uniform_tac. Qed.
Lemma deparseAnyOperator_uniform : uniform (deparseAnyOperator l). Proof. uniform_tac. Qed.
End names.
#[export] Hint Resolve deparseAnyName_uniform deparseFuncName_uniform deparseColumnList_uniform
  deparseNameList_uniform deparseQualifiedNameList_uniform deparseAnyOperator_uniform : uniform.

Lemma deparseQualOp_uniform l : uniform (deparseQualOp l). Proof. uniform_tac. Qed.
Lemma deparseSubqueryOp_uniform l : uniform (deparseSubqueryOp l). Proof. uniform_tac. Qed.
Lemma deparseRangeVar_uniform x context : uniform (deparseRangeVar x context). Proof. uniform_tac. Qed.
Lemma deparseAlias_uniform x : uniform (deparseAlias x). Proof. uniform_tac. Qed.
Lemma deparseValue_uniform v context : uniform (deparseValue v context). Proof. uniform_tac. Qed.
Lemma deparseOptCollate_uniform l : uniform (deparseOptCollate l). Proof. uniform_tac. Qed.
#[export] Hint Resolve deparseQualOp_uniform deparseSubqueryOp_uniform deparseRangeVar_uniform
  deparseAlias_uniform deparseValue_uniform deparseOptCollate_uniform : uniform.

(** ** Expressions *)

Lemma deparseOptIndirection_uniform l N :
  list_all Node below l -> uniform (deparseOptIndirection deparse l N).
Proof.
  intros Hl. revert N. induction Hl as [|n Hn l Hl IH]; intros N; [apply uniform_skip|].
  destruct N as [|N]; cbn [deparseOptIndirection]; [|apply IH].
  apply uniform_seqd; [|apply IH]. below_tac.
Qed.

Lemma deparse_args_uniform variadic l :
  list_all Node below l -> uniform (deparse_args deparse variadic l).
Proof.
  intros Hl. induction Hl as [|n Hn l Hl IH]; [apply uniform_skip|].
  destruct l as [|m l]; [below_tac|]. change (deparse_args deparse variadic (n :: m :: l))
    with (deparseFuncArgExpr deparse n ;;; str ", " ;;; deparse_args deparse variadic (m :: l)).
  below_tac.
Qed.
#[export] Hint Resolve deparseOptIndirection_uniform deparse_args_uniform : uniform.

Lemma deparseColumnRef_uniform x : ColumnRef.t_all Node below x -> uniform (deparseColumnRef deparse x).
Proof. intros Hx. below_tac. Qed.
#[export] Hint Resolve deparseColumnRef_uniform : uniform.

(** ** Expressions and type names *)

Lemma deparseExprList_uniform (exprs : list Node) :
  list_all Node below exprs -> uniform (deparseExprList deparse exprs).
Proof. intros. below_tac. Qed.
#[export] Hint Resolve deparseExprList_uniform : uniform.
Lemma deparseAIndices_uniform (a_indices : A_Indices.t Node) :
  A_Indices.t_all Node below a_indices -> uniform (deparseAIndices deparse a_indices).
Proof. intros. below_tac. Qed.
#[export] Hint Resolve deparseAIndices_uniform : uniform.
Lemma deparse_interval_uniform (typmods : list Node) :
  list_all Node below typmods -> uniform (deparse_interval typmods).
Proof. intros. below_tac. Qed.
#[export] Hint Resolve deparse_interval_uniform : uniform.
Lemma deparse_tz_uniform (name : string) (typmods : list Node) :
  list_all Node below typmods -> uniform (deparse_tz name typmods).
Proof. intros. below_tac. Qed.
#[export] Hint Resolve deparse_tz_uniform : uniform.
Lemma deparse_pg_catalog_type_uniform (name : string) (typmods : list Node) :
  list_all Node below typmods -> uniform (deparse_pg_catalog_type name typmods).
Proof. intros. below_tac. Qed.
#[export] Hint Resolve deparse_pg_catalog_type_uniform : uniform.
Lemma deparse_typmods_uniform (typmods : list Node) :
  list_all Node below typmods -> uniform (deparse_typmods deparse typmods).
Proof. intros. below_tac. Qed.
#[export] Hint Resolve deparse_typmods_uniform : uniform.
Lemma deparseTypeName_uniform (x : TypeName.t Node) :
  TypeName.t_all Node below x -> uniform (deparseTypeName deparse x).
Proof. intros. below_tac. Qed.
#[export] Hint Resolve deparseTypeName_uniform : uniform.
Lemma deparseTypeList_uniform (type_list : list Node) :
  list_all Node below type_list -> uniform (deparseTypeList deparse type_list).
Proof. intros. below_tac. Qed.
#[export] Hint Resolve deparseTypeList_uniform : uniform.
Lemma deparseSortBy_uniform (sort_by : SortBy.t Node) :
  SortBy.t_all Node below sort_by -> uniform (deparseSortBy deparse sort_by).
Proof. intros. below_tac. Qed.
#[export] Hint Resolve deparseSortBy_uniform : uniform.
Lemma deparseOptSortClause_uniform (l : list Node) :
  list_all Node below l -> uniform (deparseOptSortClause deparse l).
Proof. intros. below_tac. Qed.
#[export] Hint Resolve deparseOptSortClause_uniform : uniform.
Lemma frame_start_uniform (w : WindowDef.t Node) :
  WindowDef.t_all Node below w -> uniform (frame_start deparse w).
Proof. intros. below_tac. Qed.
#[export] Hint Resolve frame_start_uniform : uniform.
Lemma frame_end_uniform (w : WindowDef.t Node) :
  WindowDef.t_all Node below w -> uniform (frame_end deparse w).
Proof. intros. below_tac. Qed.
#[export] Hint Resolve frame_end_uniform : uniform.
Lemma deparseWindowDef_uniform (window_def : WindowDef.t Node) :
  WindowDef.t_all Node below window_def -> uniform (deparseWindowDef deparse window_def).
Proof. intros. below_tac. Qed.
#[export] Hint Resolve deparseWindowDef_uniform : uniform.
Lemma deparseFuncArgExpr_uniform (node : Node) :
  below node -> uniform (deparseFuncArgExpr deparse node).
Proof. intros. below_tac. Qed.
#[export] Hint Resolve deparseFuncArgExpr_uniform : uniform.
Lemma deparse_overlay_uniform (args : list Node) :
  list_all Node below args -> uniform (deparse_overlay deparse args).
Proof. intros. below_tac. Qed.
#[export] Hint Resolve deparse_overlay_uniform : uniform.
Lemma deparseFuncCall_uniform (func_call : FuncCall.t Node) :
  FuncCall.t_all Node below func_call -> uniform (deparseFuncCall deparse func_call).
Proof. intros. below_tac. Qed.
#[export] Hint Resolve deparseFuncCall_uniform : uniform.
Lemma deparseSubLink_uniform (sub_link : SubLink.t Node) :
  SubLink.t_all Node below sub_link -> uniform (deparseSubLink deparse sub_link).
Proof. intros. below_tac. Qed.
#[export] Hint Resolve deparseSubLink_uniform : uniform.
Lemma similar_pattern_uniform (n : FuncCall.t Node) :
  FuncCall.t_all Node below n -> uniform (similar_pattern deparse n).
Proof. intros. below_tac. Qed.
#[export] Hint Resolve similar_pattern_uniform : uniform.
Lemma deparseAExpr_uniform (a_expr : A_Expr.t Node) (context : DeparseNodeContext) :
  A_Expr.t_all Node below a_expr -> uniform (deparseAExpr deparse a_expr context).
Proof. intros. below_tac. Qed.
#[export] Hint Resolve deparseAExpr_uniform : uniform.
Lemma deparseBoolExpr_uniform (bool_expr : BoolExpr.t Node) :
  BoolExpr.t_all Node below bool_expr -> uniform (deparseBoolExpr deparse bool_expr).
Proof. intros. below_tac. Qed.
#[export] Hint Resolve deparseBoolExpr_uniform : uniform.
Lemma deparseCollateClause_uniform (collate_clause : CollateClause.t Node) :
  CollateClause.t_all Node below collate_clause -> uniform (deparseCollateClause deparse collate_clause).
Proof. intros. below_tac. Qed.
#[export] Hint Resolve deparseCollateClause_uniform : uniform.
Lemma deparseNullTest_uniform (null_test : NullTest.t Node) :
  NullTest.t_all Node below null_test -> uniform (deparseNullTest deparse null_test).
Proof. intros. below_tac. Qed.
#[export] Hint Resolve deparseNullTest_uniform : uniform.
Lemma deparseBooleanTest_uniform (boolean_test : BooleanTest.t Node) :
  BooleanTest.t_all Node below boolean_test -> uniform (deparseBooleanTest deparse boolean_test).
Proof. intros. below_tac. Qed.
#[export] Hint Resolve deparseBooleanTest_uniform : uniform.
Lemma deparseCaseWhen_uniform (case_when : CaseWhen.t Node) :
  CaseWhen.t_all Node below case_when -> uniform (deparseCaseWhen deparse case_when).
Proof. intros. below_tac. Qed.
#[export] Hint Resolve deparseCaseWhen_uniform : uniform.
Lemma deparseCaseExpr_uniform (case_expr : CaseExpr.t Node) :
  CaseExpr.t_all Node below case_expr -> uniform (deparseCaseExpr deparse case_expr).
Proof. intros. below_tac. Qed.
#[export] Hint Resolve deparseCaseExpr_uniform : uniform.
Lemma deparseCoalesceExpr_uniform (e : CoalesceExpr.t Node) :
  CoalesceExpr.t_all Node below e -> uniform (deparseCoalesceExpr deparse e).
Proof. intros. below_tac. Qed.
#[export] Hint Resolve deparseCoalesceExpr_uniform : uniform.
Lemma deparseMinMaxExpr_uniform (e : MinMaxExpr.t Node) :
  MinMaxExpr.t_all Node below e -> uniform (deparseMinMaxExpr deparse e).
Proof. intros. below_tac. Qed.
#[export] Hint Resolve deparseMinMaxExpr_uniform : uniform.
Lemma deparseGroupingFunc_uniform (e : GroupingFunc.t Node) :
  GroupingFunc.t_all Node below e -> uniform (deparseGroupingFunc deparse e).
Proof. intros. below_tac. Qed.
#[export] Hint Resolve deparseGroupingFunc_uniform : uniform.
Lemma deparseAArrayExpr_uniform (e : A_ArrayExpr.t Node) :
  A_ArrayExpr.t_all Node below e -> uniform (deparseAArrayExpr deparse e).
Proof. intros. below_tac. Qed.
#[export] Hint Resolve deparseAArrayExpr_uniform : uniform.
Lemma deparseRowExpr_uniform (row_expr : RowExpr.t Node) :
  RowExpr.t_all Node below row_expr -> uniform (deparseRowExpr deparse row_expr).
Proof. intros. below_tac. Qed.
#[export] Hint Resolve deparseRowExpr_uniform : uniform.
Lemma deparseAIndirection_uniform (a_indirection : A_Indirection.t Node) :
  A_Indirection.t_all Node below a_indirection -> uniform (deparseAIndirection deparse a_indirection).
Proof. intros. below_tac. Qed.
#[export] Hint Resolve deparseAIndirection_uniform : uniform.
Lemma const_cast_uniform typename typmods a_const d :
  const_cast typename typmods a_const = Some d -> uniform d.
Proof.
  unfold const_cast. repeat case_match; intros [= <-]; uniform_tac.
Qed.

Lemma deparseTypeCast_uniform (type_cast : TypeCast.t Node) :
  TypeCast.t_all Node below type_cast -> uniform (deparseTypeCast deparse type_cast).
Proof.
  intros H. open_below. unfold deparseTypeCast. simpl_fields.
  destruct typeName as [t|]; [|exact uniform_undef]. destruct arg as [a|]; [|exact uniform_undef].
  repeat match goal with H : option_all _ _ (Some _) |- _ => inversion_clear H end.
  cbn [deref]. cbv zeta.
  assert (Ha : uniform (deparseExpr_ deparse a)) by by apply below_entry.
  assert (Ht : uniform (deparseTypeName deparse t)) by by apply deparseTypeName_uniform.
  assert (Hc : forall b, uniform (parens_if b (deparseExpr_ deparse a) ;;; str "::" ;;; deparseTypeName deparse t)).
  { intros b. apply uniform_seqd; [by apply uniform_parens_if|].
    apply uniform_seqd; [apply uniform_str|exact Ht]. }
  clear Ha.
  destruct a; try exact (Hc false).
  - apply uniform_seqd; [apply uniform_str|]. apply uniform_seqd; [by apply below_entry|].
    apply uniform_seqd; [apply uniform_str|]. apply uniform_seqd; [exact Ht|apply uniform_chr].
  - destruct (TypeName.names t) as [|n1 [|n2 [|]]]; try apply Hc.
    apply strVal_uniform. intros schema. destruct (String.eqb _ _); [|apply Hc].
    apply strVal_uniform. intros name. destruct (const_cast _ _ _) eqn:E; [|apply Hc].
    by eapply const_cast_uniform.
Qed.
#[export] Hint Resolve deparseTypeCast_uniform : uniform.
Lemma deparseXmlAttributeList_uniform (l : list Node) :
  list_all Node below l -> uniform (deparseXmlAttributeList deparse l).
Proof. intros. below_tac. Qed.
#[export] Hint Resolve deparseXmlAttributeList_uniform : uniform.
Lemma deparseXmlNamespaceList_uniform (l : list Node) :
  list_all Node below l -> uniform (deparseXmlNamespaceList deparse l).
Proof. intros. below_tac. Qed.
#[export] Hint Resolve deparseXmlNamespaceList_uniform : uniform.
Lemma deparseXmlExpr_uniform (xml_expr : XmlExpr.t Node) :
  XmlExpr.t_all Node below xml_expr -> uniform (deparseXmlExpr deparse xml_expr).
Proof. intros. below_tac. Qed.
#[export] Hint Resolve deparseXmlExpr_uniform : uniform.
Lemma deparseXmlSerialize_uniform (xml_serialize : XmlSerialize.t Node) :
  XmlSerialize.t_all Node below xml_serialize -> uniform (deparseXmlSerialize deparse xml_serialize).
Proof. intros. below_tac. Qed.
#[export] Hint Resolve deparseXmlSerialize_uniform : uniform.

(** ** The productions that distinguish all nodes *)

Lemma unpermitted_uniform what node : uniform (unpermitted what node).
Proof.
  unfold unpermitted. destruct node; cbv iota; try apply uniform_elog.
  case_match; [apply uniform_undef|apply uniform_elog].
Qed.

(** [f] tells the body that starts with a [match]. *)
Ltac below_cases f :=
  intros H;
  match type of H with children _ ?n => destruct n end; cbv beta iota delta [f];
  lazymatch goal with
  | |- uniform (unpermitted _ _) => apply unpermitted_uniform
  | |- uniform (elog _) => apply uniform_elog
  | |- uniform undef => apply uniform_undef
  | _ => cbn [children] in H; solve [eauto 2 with uniform nocore|below_tac]
  end.

Lemma deparseExpr_body_uniform (node : Node) :
  children below node -> uniform (deparseExpr_body deparse node).
Proof. below_cases deparseExpr_body. Qed.
Lemma deparseCExpr_body_uniform (node : Node) :
  children below node -> uniform (deparseCExpr_body deparse node).
Proof. below_cases deparseCExpr_body. Qed.
Lemma deparseFuncExprWindowless_body_uniform (node : Node) :
  children below node -> uniform (deparseFuncExprWindowless_body deparse node).
Proof. below_cases deparseFuncExprWindowless_body. Qed.
