(* ===== verification/AgreeStmt.v ===== *)
(** * The deparser does not depend on its buffer: statements

    [uniform] of every production of [DeparseStmt.v], and of [deparse] itself. *)
From S2P Require Import Prelude Buffer Keywords Quote Enums Nodes DeparseNames DeparseExpr DeparseStmt.
From S2P Require Import Shape Rules DeparseSafeStmt AgreeDeparse.

(** ** Statements *)

Lemma deparseSeqOptElem_uniform (def_elem : DefElem.t Node) :
  DefElem.t_all Node below def_elem -> uniform (deparseSeqOptElem deparse def_elem).
Proof. intros. below_tac. Qed.
#[export] Hint Resolve deparseSeqOptElem_uniform : uniform.
Lemma deparseSeqOptList_uniform (options : list Node) :
  list_all Node below options -> uniform (deparseSeqOptList deparse options).
Proof. intros. below_tac. Qed.
#[export] Hint Resolve deparseSeqOptList_uniform : uniform.
Lemma deparseDefArg_uniform (arg : Node) (is_operator_def_arg : bool) :
  below arg -> uniform (deparseDefArg deparse arg is_operator_def_arg).
Proof. intros. below_tac. Qed.
#[export] Hint Resolve deparseDefArg_uniform : uniform.
Lemma deparseCreateGenericOptions_uniform (options : list Node) :
  list_all Node below options -> uniform (deparseCreateGenericOptions options).
Proof. intros. below_tac. Qed.
#[export] Hint Resolve deparseCreateGenericOptions_uniform : uniform.
Lemma rel_option_uniform (n : Node) :
  below n -> uniform (rel_option deparse n).
Proof. intros. below_tac. Qed.
#[export] Hint Resolve rel_option_uniform : uniform.
Lemma deparseRelOptions_uniform (l : list Node) :
  list_all Node below l -> uniform (deparseRelOptions deparse l).
Proof. intros. below_tac. Qed.
#[export] Hint Resolve deparseRelOptions_uniform : uniform.
Lemma deparseTargetList_uniform (l : list Node) :
  list_all Node below l -> uniform (deparseTargetList deparse l).
Proof. intros. below_tac. Qed.
#[export] Hint Resolve deparseTargetList_uniform : uniform.
Lemma deparseInsertColumnList_uniform (l : list Node) :
  list_all Node below l -> uniform (deparseInsertColumnList deparse l).
Proof. intros. below_tac. Qed.
#[export] Hint Resolve deparseInsertColumnList_uniform : uniform.
Lemma multi_assign_targets_uniform ncolumns l :
  list_all Node below l -> forall i, uniform (multi_assign_targets deparse ncolumns i l).
Proof.
  intros Hl. induction Hl as [|n Hn l Hl IH]; intros i; [apply uniform_skip|].
  cbn [multi_assign_targets]. apply uniform_seqd; [below_tac|].
  destruct (_ =? _)%Z; [apply uniform_skip|]. apply uniform_seqd; [uniform_tac|apply IH].
Qed.
#[export] Hint Resolve multi_assign_targets_uniform : uniform.

Lemma cast_ResTarget n k : below n ->
  (forall x, ResTarget.t_all Node below x -> uniform (k x)) -> uniform (castNode_ResTarget n k).
Proof. intros Hn%her_children Hk. destruct n; try apply uniform_undef. apply Hk, Hn. Qed.

Lemma cast_MultiAssignRef n k : below n ->
  (forall x, MultiAssignRef.t_all Node below x -> uniform (k x)) -> uniform (castNode_MultiAssignRef n k).
Proof. intros Hn%her_children Hk. destruct n; try apply uniform_undef. apply Hk, Hn. Qed.

Lemma set_clauses_uniform l :
  list_all Node below l -> forall i k, uniform (set_clauses deparse i k l).
Proof.
  intros Hl. induction Hl as [|n Hn l Hl IH]; intros i k; [apply uniform_skip|].
  assert (Ha : forall z j, uniform (multi_assign_targets deparse z j (n :: l))).
  { intros z j. apply multi_assign_targets_uniform. by constructor. }
  cbn [set_clauses]. destruct (0 <? k)%Z; [apply IH|].
  apply uniform_seqd; [uniform_tac|]. apply cast_ResTarget; [done|]. intros x Hx.
  assert (Ht : uniform (deparseSetTarget deparse x)) by below_tac.
  destruct (ResTarget.val x) as [v|] eqn:Ev; [|apply uniform_undef]. cbn [deref].
  assert (Hv : below v). { destruct Hx. simpl_fields. subst. open_below. done. }
  destruct (IsA_MultiAssignRef v).
  - apply cast_MultiAssignRef; [done|]. intros r Hr.
    assert (Hs : uniform (deref (MultiAssignRef.source r) (deparseExpr_ deparse))) by below_tac.
    repeat first [apply Ha|exact Hs|apply IH|apply uniform_seqd|apply uniform_str].
  - repeat first [exact Ht|apply IH|by apply below_entry|apply uniform_seqd|apply uniform_str].
Qed.
#[export] Hint Resolve set_clauses_uniform : uniform.

Lemma deparseSetClauseList_uniform (target_list : list Node) :
  list_all Node below target_list -> uniform (deparseSetClauseList deparse target_list).
Proof. intros. below_tac. Qed.
#[export] Hint Resolve deparseSetClauseList_uniform : uniform.
Lemma deparseFromClause_uniform (l : list Node) :
  list_all Node below l -> uniform (deparseFromClause deparse l).
Proof. intros. below_tac. Qed.
#[export] Hint Resolve deparseFromClause_uniform : uniform.
Lemma deparseWhereClause_uniform (node : option Node) :
  option_all Node below node -> uniform (deparseWhereClause deparse node).
Proof. intros. below_tac. Qed.
#[export] Hint Resolve deparseWhereClause_uniform : uniform.
Lemma deparseGroupByList_uniform (l : list Node) :
  list_all Node below l -> uniform (deparseGroupByList deparse l).
Proof. intros. below_tac. Qed.
#[export] Hint Resolve deparseGroupByList_uniform : uniform.
Lemma deparseGroupingSet_uniform (grouping_set : GroupingSet.t Node) :
  GroupingSet.t_all Node below grouping_set -> uniform (deparseGroupingSet deparse grouping_set).
Proof. intros. below_tac. Qed.
#[export] Hint Resolve deparseGroupingSet_uniform : uniform.
Lemma group_by_item_uniform (n : Node) : children below n -> uniform (group_by_item deparse n).
Proof.
  intros Hn. pose proof (deparseExpr_body_uniform n Hn) as Hb. unfold group_by_item. cbv zeta.
  destruct n; try exact Hb. apply deparseGroupingSet_uniform, Hn.
Qed.
#[export] Hint Resolve group_by_item_uniform : uniform.
Lemma deparseIndexElem_uniform (index_elem : IndexElem.t Node) :
  IndexElem.t_all Node below index_elem -> uniform (deparseIndexElem deparse index_elem).
Proof. intros. below_tac. Qed.
#[export] Hint Resolve deparseIndexElem_uniform : uniform.
Lemma exclusion_el_uniform (n : Node) :
  below n -> uniform (exclusion_el deparse n).
Proof. intros. below_tac. Qed.
#[export] Hint Resolve exclusion_el_uniform : uniform.
Lemma constraint_kind_uniform (constraint : Constraint.t Node) :
  Constraint.t_all Node below constraint -> uniform (constraint_kind deparse constraint).
Proof. intros. below_tac. Qed.
#[export] Hint Resolve constraint_kind_uniform : uniform.
Lemma constraint_references_uniform (constraint : Constraint.t Node) :
  Constraint.t_all Node below constraint -> uniform (constraint_references constraint).
Proof. intros. below_tac. Qed.
#[export] Hint Resolve constraint_references_uniform : uniform.
Lemma deparseConstraint_uniform (constraint : Constraint.t Node) :
  Constraint.t_all Node below constraint -> uniform (deparseConstraint deparse constraint).
Proof. intros. below_tac. Qed.
#[export] Hint Resolve deparseConstraint_uniform : uniform.
Lemma deparseColumnDef_uniform (column_def : ColumnDef.t Node) :
  ColumnDef.t_all Node below column_def -> uniform (deparseColumnDef deparse column_def).
Proof. intros. below_tac. Qed.
#[export] Hint Resolve deparseColumnDef_uniform : uniform.
Lemma deparseRangeTableSample_uniform (range_table_sample : RangeTableSample.t Node) :
  RangeTableSample.t_all Node below range_table_sample -> uniform (deparseRangeTableSample deparse range_table_sample).
Proof. intros. below_tac. Qed.
#[export] Hint Resolve deparseRangeTableSample_uniform : uniform.
Lemma deparseRangeTableFuncCol_uniform (col : RangeTableFuncCol.t Node) :
  RangeTableFuncCol.t_all Node below col -> uniform (deparseRangeTableFuncCol deparse col).
Proof. intros. below_tac. Qed.
#[export] Hint Resolve deparseRangeTableFuncCol_uniform : uniform.
Lemma deparseRangeTableFunc_uniform (range_table_func : RangeTableFunc.t Node) :
  RangeTableFunc.t_all Node below range_table_func -> uniform (deparseRangeTableFunc deparse range_table_func).
Proof. intros. below_tac. Qed.
#[export] Hint Resolve deparseRangeTableFunc_uniform : uniform.
Lemma deparseColumnDefList_uniform (l : list Node) :
  list_all Node below l -> uniform (deparseColumnDefList deparse l).
Proof. intros. below_tac. Qed.
#[export] Hint Resolve deparseColumnDefList_uniform : uniform.
Lemma rows_from_el_uniform (n : Node) :
  below n -> uniform (rows_from_el deparse n).
Proof. intros. below_tac. Qed.
#[export] Hint Resolve rows_from_el_uniform : uniform.
Lemma deparseRangeFunction_uniform (range_func : RangeFunction.t Node) :
  RangeFunction.t_all Node below range_func -> uniform (deparseRangeFunction deparse range_func).
Proof. intros. below_tac. Qed.
#[export] Hint Resolve deparseRangeFunction_uniform : uniform.
Lemma deparseRangeSubselect_uniform (range_subselect : RangeSubselect.t Node) :
  RangeSubselect.t_all Node below range_subselect -> uniform (deparseRangeSubselect deparse range_subselect).
Proof. intros. below_tac. Qed.
#[export] Hint Resolve deparseRangeSubselect_uniform : uniform.
Lemma deparseJoinExpr_uniform (join_expr : JoinExpr.t Node) :
  JoinExpr.t_all Node below join_expr -> uniform (deparseJoinExpr deparse join_expr).
Proof. intros. below_tac. Qed.
#[export] Hint Resolve deparseJoinExpr_uniform : uniform.
Lemma deparseTableRef_body_uniform (node : Node) :
  children below node -> uniform (deparseTableRef_body deparse node).
Proof. below_cases deparseTableRef_body. Qed.
#[export] Hint Resolve deparseTableRef_body_uniform : uniform.
Lemma deparseCommonTableExpr_uniform (cte : CommonTableExpr.t Node) :
  CommonTableExpr.t_all Node below cte -> uniform (deparseCommonTableExpr deparse cte).
Proof. intros. below_tac. Qed.
#[export] Hint Resolve deparseCommonTableExpr_uniform : uniform.
Lemma deparseWithClause_uniform (with_clause : WithClause.t Node) :
  WithClause.t_all Node below with_clause -> uniform (deparseWithClause deparse with_clause).
Proof. intros. below_tac. Qed.
#[export] Hint Resolve deparseWithClause_uniform : uniform.
Lemma deparseIntoClause_uniform (into_clause : IntoClause.t Node) :
  IntoClause.t_all Node below into_clause -> uniform (deparseIntoClause deparse into_clause).
Proof. intros. below_tac. Qed.
#[export] Hint Resolve deparseIntoClause_uniform : uniform.
Lemma deparse_with_uniform (with_clause : option (WithClause.t Node)) :
  option_all (WithClause.t Node) (WithClause.t_all Node below) with_clause -> uniform (deparse_with deparse with_clause).
Proof. intros. below_tac. Qed.
#[export] Hint Resolve deparse_with_uniform : uniform.
Lemma values_row_uniform (n : Node) :
  below n -> uniform (values_row deparse n).
Proof. intros. below_tac. Qed.
#[export] Hint Resolve values_row_uniform : uniform.
Lemma distinct_clause_uniform (distinctClause : list Node) :
  list_all Node below distinctClause -> uniform (distinct_clause deparse distinctClause).
Proof.
  intros Hl. unfold distinct_clause. destruct distinctClause as [|n l] eqn:E; [apply uniform_skip|].
  assert (Hd : uniform (str "ON (" ;;; deparseExprList deparse (n :: l) ;;; str ") ")).
  { apply uniform_seqd; [apply uniform_str|]. apply uniform_seqd; [auto with uniform|apply uniform_str]. }
  clear Hl E. apply uniform_seqd; [apply uniform_str|]. destruct n; try exact Hd.
  case_match; [apply uniform_skip|exact Hd].
Qed.
#[export] Hint Resolve distinct_clause_uniform : uniform.
Lemma window_clause_el_uniform (n : Node) :
  below n -> uniform (window_clause_el deparse n).
Proof. intros. below_tac. Qed.
#[export] Hint Resolve window_clause_el_uniform : uniform.
Lemma select_body_uniform (stmt : SelectStmt.t Node) :
  SelectStmt.t_all Node below stmt -> uniform (select_body deparse stmt).
Proof. intros. below_tac. Qed.
#[export] Hint Resolve select_body_uniform : uniform.
Lemma set_operand_uniform (arg : option Node) :
  option_all Node below arg -> uniform (set_operand deparse arg).
Proof. intros. below_tac. Qed.
#[export] Hint Resolve set_operand_uniform : uniform.
Lemma set_operation_uniform (op_text : string) (stmt : SelectStmt.t Node) :
  SelectStmt.t_all Node below stmt -> uniform (set_operation deparse op_text stmt).
Proof. intros. below_tac. Qed.
#[export] Hint Resolve set_operation_uniform : uniform.
Lemma limit_clause_uniform (stmt : SelectStmt.t Node) (limitCount : Node) :
  SelectStmt.t_all Node below stmt -> below limitCount -> uniform (limit_clause deparse stmt limitCount).
Proof. intros. below_tac. Qed.
#[export] Hint Resolve limit_clause_uniform : uniform.
Lemma deparseSelectStmt_body_uniform (stmt : SelectStmt.t Node) :
  SelectStmt.t_all Node below stmt -> uniform (deparseSelectStmt_body deparse stmt).
Proof. intros. below_tac. Qed.
#[export] Hint Resolve deparseSelectStmt_body_uniform : uniform.
Lemma deparseInferClause_uniform (infer_clause : InferClause.t Node) :
  InferClause.t_all Node below infer_clause -> uniform (deparseInferClause deparse infer_clause).
Proof. intros. below_tac. Qed.
#[export] Hint Resolve deparseInferClause_uniform : uniform.
Lemma deparseOnConflictClause_uniform (on_conflict_clause : OnConflictClause.t Node) :
  OnConflictClause.t_all Node below on_conflict_clause -> uniform (deparseOnConflictClause deparse on_conflict_clause).
Proof. intros. below_tac. Qed.
#[export] Hint Resolve deparseOnConflictClause_uniform : uniform.
Lemma returning_uniform (returningList : list Node) :
  list_all Node below returningList -> uniform (returning deparse returningList).
Proof. intros. below_tac. Qed.
#[export] Hint Resolve returning_uniform : uniform.
Lemma deparseInsertStmt_uniform (insert_stmt : InsertStmt.t Node) :
  InsertStmt.t_all Node below insert_stmt -> uniform (deparseInsertStmt deparse insert_stmt).
Proof. intros. below_tac. Qed.
#[export] Hint Resolve deparseInsertStmt_uniform : uniform.
Lemma deparseUpdateStmt_uniform (update_stmt : UpdateStmt.t Node) :
  UpdateStmt.t_all Node below update_stmt -> uniform (deparseUpdateStmt deparse update_stmt).
Proof. intros. below_tac. Qed.
#[export] Hint Resolve deparseUpdateStmt_uniform : uniform.
Lemma deparseDeleteStmt_uniform (delete_stmt : DeleteStmt.t Node) :
  DeleteStmt.t_all Node below delete_stmt -> uniform (deparseDeleteStmt deparse delete_stmt).
Proof. intros. below_tac. Qed.
#[export] Hint Resolve deparseDeleteStmt_uniform : uniform.
Lemma deparsePreparableStmt_body_uniform (node : Node) :
  children below node -> uniform (deparsePreparableStmt_body deparse node).
Proof. below_cases deparsePreparableStmt_body. Qed.
#[export] Hint Resolve deparsePreparableStmt_body_uniform : uniform.


(** ** The deparser *)

(** On every tree, well formed or not. *)
Lemma deparse_uniform e n : uniform (deparse e n).
Proof.
  revert e. change (even n). apply her_here. revert n. apply (her_intro even).
  intros n Hn e. rewrite deparse_eq. destruct e.
  - by apply deparseExpr_body_uniform.
  - by apply deparseCExpr_body_uniform.
  - by apply deparseTableRef_body_uniform.
  - destruct n; try apply uniform_undef. by apply deparseSelectStmt_body_uniform.
  - by apply deparsePreparableStmt_body_uniform.
  - by apply group_by_item_uniform.
  - by apply deparseFuncExprWindowless_body_uniform.
  - destruct n; try apply uniform_undef. by apply deparseIndexElem_uniform.
  - destruct n; try apply uniform_undef. by apply deparseColumnDef_uniform.
Qed.
