(* ===== verification/AgreeUtil.v ===== *)
(** * The deparser does not depend on its buffer: all statements

    [uniform] of [deparseStmt], for every tree.  The productions of the utility
    statements sit above [deparse], which is uniform on all nodes, so nothing has to be
    known of the tree: the rules go through the productions, and only the loops on
    lists need an induction. *)
From S2P Require Import Prelude Buffer Keywords Quote Enums Nodes DeparseNames DeparseExpr DeparseStmt.
From S2P Require Import Shape Rules DeparseSafeStmt AgreeDeparse AgreeStmt.
From S2P Require Import DeparseParts DeparseTables DeparseObjects DeparseUtil.

(** ** Everything is below *)

Lemma below_all n : below n.
Proof. apply her_intro. intros m _ e. apply deparse_uniform. Qed.

Lemma list_below l : list_all Node below l.
Proof. induction l; constructor; [apply below_all|done]. Qed.

Lemma option_below o : option_all Node below o.
Proof. destruct o; constructor. apply below_all. Qed.

(** The fields of a struct are the children of its node. *)
Ltac struct_below c := lazymatch goal with |- _ ?x => exact (her_children _ _ (below_all (c x))) end.

Lemma TypeName_below x : TypeName.t_all Node below x. Proof. struct_below N_TypeName. Qed.
Lemma FuncCall_below x : FuncCall.t_all Node below x. Proof. struct_below N_FuncCall. Qed.
Lemma CollateClause_below x : CollateClause.t_all Node below x. Proof. struct_below N_CollateClause. Qed.
Lemma DefElem_below x : DefElem.t_all Node below x. Proof. struct_below N_DefElem. Qed.
Lemma IndexElem_below x : IndexElem.t_all Node below x. Proof. struct_below N_IndexElem. Qed.
Lemma Constraint_below x : Constraint.t_all Node below x. Proof. struct_below N_Constraint. Qed.
Lemma ColumnDef_below x : ColumnDef.t_all Node below x. Proof. struct_below N_ColumnDef. Qed.
Lemma IntoClause_below x : IntoClause.t_all Node below x. Proof. struct_below N_IntoClause. Qed.
Lemma InsertStmt_below x : InsertStmt.t_all Node below x. Proof. struct_below N_InsertStmt. Qed.
Lemma UpdateStmt_below x : UpdateStmt.t_all Node below x. Proof. struct_below N_UpdateStmt. Qed.
Lemma DeleteStmt_below x : DeleteStmt.t_all Node below x. Proof. struct_below N_DeleteStmt. Qed.
Lemma SelectStmt_below x : SelectStmt.t_all Node below x. Proof. struct_below N_SelectStmt. Qed.
#[export] Hint Resolve deparse_uniform list_below option_below TypeName_below FuncCall_below
  CollateClause_below DefElem_below IndexElem_below Constraint_below ColumnDef_below
  IntoClause_below InsertStmt_below UpdateStmt_below DeleteStmt_below SelectStmt_below :
  uniform.

(** [uniform_tac], with the hypotheses of the productions at hand. *)
Ltac total_tac :=
  cbv zeta beta;
  repeat (first [solve [eauto 2 with uniform nocore] | uniform_step; cbv zeta beta]).

(** ** Loops *)

Lemma aggr_args_loop_uniform order_by_pos args :
  forall i, uniform (aggr_args_loop order_by_pos i args).
Proof.
  induction args as [|n args IH]; intros i; [apply uniform_skip|]. cbn [aggr_args_loop].
  apply uniform_seqd; [total_tac|]. apply uniform_seqd; [total_tac|apply IH].
Qed.

Lemma function_params_uniform l : uniform (function_params l).
Proof.
  induction l as [|n l IH]; [apply uniform_skip|]. cbn [function_params].
  apply uniform_seqd; [clear IH; total_tac|exact IH].
Qed.

Lemma table_params_uniform l : uniform (table_params l).
Proof.
  induction l as [|n l IH]; [apply uniform_skip|]. cbn [table_params].
  apply uniform_seqd; [clear IH; total_tac|exact IH].
Qed.
#[export] Hint Resolve aggr_args_loop_uniform function_params_uniform table_params_uniform : uniform.

(** ** The statements *)

Lemma deparseStmt_uniform n : uniform (deparseStmt n).
Proof. total_tac. Qed.
