(* ===== verification/DollarQuote.v ===== *)
(** * Bodies of functions

    [deparseFuncAs] and [deparseDoStmt] write the body of a function between dollar
    quotes, if they think that it can be read there.  This file has the rule of the
    lexer for such a constant, and says exactly which bodies read back. *)
From S2P Require Import Prelude Buffer Quote Enums Nodes Lexical DeparseParts DeparseUtil.

(** ** The reference reader *)

(** The characters of a tag: [dolq_start] and [dolq_cont]. *)
Definition dolq_start (c : ascii) : bool :=
  in_range "A" "Z" c || in_range "a" "z" c || Ascii.eqb c "_" || (128 <=? N_of_ascii c)%N.
Definition dolq_cont (c : ascii) : bool := dolq_start c || in_range "0" "9" c.

(** The rest of [dolqdelim] after its tag has begun, and what follows. *)
Fixpoint dolq_tag (s : string) : option (string * string) :=
  match s with
  | EmptyString => None
  | String c rest =>
      if Ascii.eqb c "$" then Some (String c "", rest)
      else if dolq_cont c then '(d, r) ← dolq_tag rest; Some (String c d, r) else None
  end.

(** [dolqdelim] at the start of the text. *)
Definition dolqdelim (s : string) : option (string * string) :=
  match s with
  | String d (String c _ as rest) =>
      if Ascii.eqb d "$" && (Ascii.eqb c "$" || dolq_start c)
      then '(t, r) ← dolq_tag rest; Some (String d t, r) else None
  | _ => None
  end.

Fixpoint drop_chars (n : nat) (s : string) : string :=
  match n, s with S n, String _ s => drop_chars n s | _, _ => s end.

(** The text before the next [delim], and after it. *)
Fixpoint until (delim s : string) : option (string * string) :=
  if String.prefix delim s then Some ("", drop_chars (String.length delim) s)
  else match s with
       | EmptyString => None
       | String c rest => '(b, r) ← until delim rest; Some (String c b, r)
       end.

(** A constant in dollar quotes that is the whole text. *)
Definition read_dollar (s : string) : option string :=
  '(delim, rest) ← dolqdelim s;
  '(body, r) ← until delim rest;
  if String.eqb r "" then Some body else None.

(** [Sconst] *)
Definition read_sconst (s : string) : option string :=
  match read_dollar s with Some v => Some v | None => read_literal s end.

(** ** Lemmas *)

Definition ends_with_dollar (s : string) : bool :=
  match String.get (String.length s - 1) s with Some c => Ascii.eqb c "$" | None => false end.

Lemma strstr_cons c s t : strstr (String c s) t = String.prefix t (String c s) || strstr s t.
Proof.
  unfold strstr. cbn [String.index]. destruct (String.prefix _ _); [done|].
  by destruct (String.index 0 t s).
Qed.

Lemma prefix_app d s x : (String.length d <= String.length s)%nat ->
  String.prefix d (s +:+ x) = String.prefix d s.
Proof.
  revert s. induction d as [|a d IH]; intros [|b s] Hl; cbn in Hl; try lia; try done.
  { by destruct x. }
  rewrite string_app_cons. cbn. destruct (ascii_dec a b); [apply IH; lia|done].
Qed.

Lemma prefix_self d : String.prefix d d = true.
Proof. induction d as [|c d IH]; [done|]. cbn. by destruct (ascii_dec c c). Qed.

Lemma prefix_short d s : (String.length s < String.length d)%nat -> String.prefix d s = false.
Proof.
  revert s. induction d as [|a d IH]; intros [|b s] Hl; cbn in Hl; try lia; [done|].
  cbn. destruct (ascii_dec a b); [apply IH; lia|done].
Qed.

Lemma drop_chars_all s : drop_chars (String.length s) s = "".
Proof. by induction s. Qed.

Lemma strstr_short s d : (String.length s < String.length d)%nat -> strstr s d = false.
Proof.
  induction s as [|c s IH]; intros Hl; [by destruct d; cbn in Hl; [lia|]|].
  rewrite strstr_cons, prefix_short by done. cbn in Hl. apply IH. lia.
Qed.

(** A body is read up to its end, if no delimiter starts before. *)
Lemma until_body d x v :
  until (d +:+ String x "") (v +:+ (d +:+ String x "")) = Some (v, "") <->
  strstr (v +:+ d) (d +:+ String x "") = false.
Proof.
  set (delim := d +:+ String x "").
  assert (Hlen : String.length delim = S (String.length d))
    by (unfold delim; rewrite string_length_app; cbn; lia).
  induction v as [|c v IH].
  { rewrite !string_app_nil_l, strstr_short by lia.
    destruct delim as [|c t] eqn:E; [done|]. cbn [until]. rewrite <-E, prefix_self, drop_chars_all. done. }
  rewrite !string_app_cons, strstr_cons. cbn [until].
  assert (Hp : String.prefix delim (String c (v +:+ delim)) = String.prefix delim (String c (v +:+ d))).
  { unfold delim at 2. rewrite string_app_assoc, <-string_app_cons. apply prefix_app.
    cbn. rewrite string_length_app. lia. }
  rewrite Hp. destruct (String.prefix delim (String c (v +:+ d))); cbn [orb].
  { split; [intros [=]|done]. }
  rewrite <-IH. destruct (until delim (v +:+ delim)) as [[b r]|]; cbn; split; congruence.
Qed.

Lemma ends_with_dollar_cons c c' s : ends_with_dollar (String c (String c' s)) = ends_with_dollar (String c' s).
Proof. unfold ends_with_dollar. cbn [String.length Nat.sub String.get]. by rewrite Nat.sub_0_r. Qed.

Lemma strstr_dollars v : strstr (v +:+ "$") "$$" = strstr v "$$" || ends_with_dollar v.
Proof.
  induction v as [|c v IH]; [done|]. rewrite string_app_cons, !strstr_cons, IH, orb_assoc.
  destruct v as [|c' v].
  { rewrite string_app_nil_l. unfold ends_with_dollar.
    cbn -[ascii_dec Ascii.eqb]. rewrite !orb_false_r.
    destruct (ascii_dec "$" c) as [<-|Hc]; [done|].
    symmetry. apply Ascii.eqb_neq. congruence. }
  rewrite ends_with_dollar_cons. rewrite string_app_cons. cbn. by destruct v.
Qed.

Lemma read_dollar_quoted t v :
  let delim := String "$" (t +:+ "$") in
  dolqdelim (delim +:+ (v +:+ delim)) = Some (delim, v +:+ delim) ->
  read_dollar (delim +:+ v +:+ delim) = Some v <-> strstr (v +:+ String "$" t) delim = false.
Proof.
  intros delim Hd. unfold read_dollar. rewrite Hd. cbn [mbind option_bind].
  pose proof (until_body (String "$" t) "$" v) as Hu. rewrite string_app_cons in Hu. fold delim in Hu.
  rewrite <-Hu.
  destruct (until delim (v +:+ delim)) as [[b r]|]; cbn [mbind option_bind]; [|done].
  destruct (String.eqb_spec r ""); split; congruence.
Qed.

Lemma read_literal_dollar s : read_literal (String "$" s) = None.
Proof. by destruct s. Qed.

Lemma read_sconst_dollar s v : read_sconst (String "$" s) = Some v <-> read_dollar (String "$" s) = Some v.
Proof. unfold read_sconst. rewrite read_literal_dollar. by destruct (read_dollar _). Qed.

Lemma read_dollar_literal v : read_dollar (string_literal v) = None.
Proof. unfold string_literal, read_dollar. by destruct (has_backslash v), (literal_body v). Qed.



Lemma T_quoted d v : writes_text (str d ;;; str v ;;; str d) (d +:+ v +:+ d).
Proof. repeat (apply T_seq; [apply T_str|]). apply T_str. Qed.

(** ** Properties *)

(** C24. The definition of a function is written so that it reads back, as the lexer
    reads a constant between dollar quotes or in single quotes, in all but one case:
    a body that has no [$$] in it but ends in a dollar sign.  Its last character and
    the quotes make [$$$], of which the first two end the constant. *)
Theorem deparseFuncAs_roundtrip (v : string) :
  exists t, text_of (deparseFuncAs [N_Value (String_ v)]) = Ok t /\
    (read_sconst t = Some v <-> strstr v "$$" = true \/ ends_with_dollar v = false).
Proof.
  change (deparseFuncAs [N_Value (String_ v)]) with
    (if negb (strstr v "$$") then str "$$" ;;; str v ;;; str "$$" else deparseStringLiteral v).
  destruct (strstr v "$$") eqn:E; cbn [negb].
  - exists (string_literal v). split; [apply T_text, T_literal|].
    unfold read_sconst. rewrite read_dollar_literal, read_string_literal. tauto.
  - exists ("$$" +:+ v +:+ "$$"). split; [apply T_text, T_quoted|].
    change ("$$" +:+ v +:+ "$$") with (String "$" ("$" +:+ v +:+ "$$")). rewrite read_sconst_dollar.
    rewrite (read_dollar_quoted "" v eq_refl : read_dollar (String "$" ("$" +:+ v +:+ "$$")) = Some v <-> _).
    rewrite strstr_dollars, E. cbn [orb].
    split; [by right|]. by intros [|].
Qed.

