(* ===== verification/Json.v ===== *)
(** * JSON

    Values, their text without white space, and a reader for such texts by the rules
    of RFC 8259 (integers, strings of bytes).  [read_json_text]: the text of a value
    is read back as the value. *)
From S2P Require Import Prelude Buffer Keywords Quote DeparseNames.

Open Scope Z_scope.

Unset Elimination Schemes.
Inductive json : Type :=
| JNull
| JBool (b : bool)
| JNumber (z : Z)
| JString (s : string)
| JArray (l : list json)
| JObject (ms : list (string * json)).
Set Elimination Schemes.

Section induction.
Variable P : json -> Prop.
Hypothesis HNull : P JNull.
Hypothesis HBool : forall b, P (JBool b).
Hypothesis HNumber : forall z, P (JNumber z).
Hypothesis HString : forall s, P (JString s).
Hypothesis HArray : forall l, Forall P l -> P (JArray l).
Hypothesis HObject : forall ms, Forall (fun m => P m.2) ms -> P (JObject ms).

Fixpoint json_ind (j : json) : P j :=
  match j with
  | JNull => HNull
  | JBool b => HBool b
  | JNumber z => HNumber z
  | JString s => HString s
  | JArray l =>
      HArray l (list_ind (Forall P) (Forall_nil_2 P) (fun x l IH => Forall_cons_2 P x l (json_ind x) IH) l)
  | JObject ms =>
      HObject ms (list_ind (Forall (fun m => P m.2)) (Forall_nil_2 _)
        (fun m l IH => Forall_cons_2 _ m l (json_ind m.2) IH) ms)
  end.
End induction.

(** ** The text of a value *)

(** A character in a string. *)
Definition escape_char (c : ascii) : string :=
  match Z.of_nat (nat_of_ascii c) with
  | 8 => "\b"
  | 12 => "\f"
  | 10 => "\n"
  | 13 => "\r"
  | 9 => "\t"
  | 34 => String "\" (String DQUOTE "")
  | 92 => "\\"
  | p => if (p <? 32) || Ascii.eqb c "<" || Ascii.eqb c ">" then "\u" +:+ fmt_04x p else String c ""
  end.
Fixpoint escape (s : string) : string :=
  match s with EmptyString => "" | String c s' => escape_char c +:+ escape s' end.
Definition string_text (s : string) : string := String DQUOTE (escape s +:+ String DQUOTE "").

(** The texts of the items with commas between. *)
Fixpoint commas (l : list string) : string :=
  match l with [] => "" | [t] => t | t :: l' => t +:+ "," +:+ commas l' end.

Fixpoint json_text (j : json) : string :=
  match j with
  | JNull => "null"
  | JBool b => if b then "true" else "false"
  | JNumber z => fmt_d z
  | JString s => string_text s
  | JArray l => "[" +:+ commas (map json_text l) +:+ "]"
  | JObject ms => "{" +:+ commas (map (fun m => string_text m.1 +:+ ":" +:+ json_text m.2) ms) +:+ "}"
  end.
Definition member_text (m : string * json) : string := string_text m.1 +:+ ":" +:+ json_text m.2.

(** ** The reader *)

Definition hex_value (c : ascii) : option Z :=
  if in_range "0" "9" c then Some (digit_value c)
  else if in_range "a" "f" c then Some (Z.of_N (N_of_ascii c) - 87)
  else if in_range "A" "F" c then Some (Z.of_N (N_of_ascii c) - 55)
  else None.

(** What follows a backslash; of the code points only those of ASCII. *)
Definition read_escape (s : string) : option (ascii * string) :=
  match s with
  | String "b" r => Some ("008"%char, r)
  | String "f" r => Some ("012"%char, r)
  | String "n" r => Some ("010"%char, r)
  | String "r" r => Some ("013"%char, r)
  | String "t" r => Some ("009"%char, r)
  | String "/" r => Some ("/"%char, r)
  | String "\" r => Some ("\"%char, r)
  | String "034" r => Some ("034"%char, r)
  | String "u" (String "0" (String "0" (String c1 (String c2 r)))) =>
      match hex_value c1, hex_value c2 with
      | Some h1, Some h2 =>
          if h1 <? 8 then Some (ascii_of_nat (Z.to_nat (h1 * 16 + h2)), r) else None
      | _, _ => None
      end
  | _ => None
  end.

(** A string after its first quote. *)
Fixpoint read_string (fuel : nat) (s : string) : option (string * string) :=
  match fuel, s with
  | S fuel, String c r =>
      if Ascii.eqb c DQUOTE then Some ("", r)
      else if Ascii.eqb c "\" then
        match read_escape r with
        | Some (x, r) => prod_map (String x) id <$> read_string fuel r
        | None => None
        end
      else if char_le " " c then prod_map (String c) id <$> read_string fuel r
      else None
  | _, _ => None
  end.

(** The digits at the beginning, and the rest. *)
Fixpoint span_digits (s : string) : string * string :=
  match s with
  | String c r => if is_digit c then prod_map (String c) id (span_digits r) else ("", s)
  | EmptyString => ("", "")
  end.
(** A natural number without leading zeroes. *)
Definition read_nat (s : string) : option (Z * string) :=
  let '(ds, r) := span_digits s in
  match ds with
  | String "0" (String _ _) => None
  | _ => (fun z => (z, r)) <$> read_natural ds
  end.

(** [item] with commas between, up to [close]. *)
Fixpoint read_list {A} (item : string -> option (A * string)) (close : ascii) (fuel : nat) (s : string) :
    option (list A * string) :=
  match fuel with
  | O => None
  | S fuel =>
      match item s with
      | Some (x, String c r) =>
          if Ascii.eqb c close then Some ([x], r)
          else if Ascii.eqb c "," then prod_map (cons x) id <$> read_list item close fuel r
          else None
      | _ => None
      end
  end.

Definition read_items {A} (item : string -> option (A * string)) (close : ascii) (fuel : nat) (s : string) :
    option (list A * string) :=
  match s with
  | String c r => if Ascii.eqb c close then Some ([], r) else read_list item close fuel s
  | EmptyString => None
  end.

Definition read_member (value : string -> option (json * string)) (s : string) :
    option ((string * json) * string) :=
  match s with
  | String "034" r =>
      match read_string (String.length r) r with
      | Some (k, String ":" r) => prod_map (pair k) id <$> value r
      | _ => None
      end
  | _ => None
  end.

Fixpoint read_value (fuel : nat) (s : string) : option (json * string) :=
  match fuel with
  | O => None
  | S fuel =>
      match s with
      | String "n" (String "u" (String "l" (String "l" r))) => Some (JNull, r)
      | String "t" (String "r" (String "u" (String "e" r))) => Some (JBool true, r)
      | String "f" (String "a" (String "l" (String "s" (String "e" r)))) => Some (JBool false, r)
      | String "034" r => prod_map JString id <$> read_string (String.length r) r
      | String "[" r => prod_map JArray id <$> read_items (read_value fuel) "]" (String.length r) r
      | String "{" r => prod_map JObject id <$> read_items (read_member (read_value fuel)) "}" (String.length r) r
      | String "-" r => prod_map (fun z => JNumber (- z)) id <$> read_nat r
      | _ => prod_map JNumber id <$> read_nat s
      end
  end.

(** A text that is one value. *)
Definition read_json (s : string) : option json :=
  match read_value (S (String.length s)) s with
  | Some (j, EmptyString) => Some j
  | _ => None
  end.

Example read_json_sample :
  read_json ("[1,-20,{" +:+ string_text "a<" +:+ ":null}]") =
  Some (JArray [JNumber 1; JNumber (-20); JObject [("a<", JNull)]]).
Proof. reflexivity. Qed.

(** ** The text of a value is read back *)

Lemma read_string_char fuel c t :
  read_string (S fuel) (escape_char c +:+ t) = prod_map (String c) id <$> read_string fuel t.
Proof. destruct c as [[] [] [] [] [] [] [] []]; reflexivity. Qed.

Lemma read_string_text s rest : forall fuel, (String.length s < fuel)%nat ->
  read_string fuel (escape s +:+ String DQUOTE rest) = Some (s, rest).
Proof.
  induction s as [|c s IH]; intros [|fuel] Hf; try (cbn in Hf; lia); [done|].
  cbn [escape]. rewrite <-string_app_assoc, read_string_char, IH; [done|]. cbn in Hf. lia.
Qed.

Lemma escape_length s : (String.length s <= String.length (escape s))%nat.
Proof.
  induction s as [|c s IH]; [done|]. cbn [escape String.length]. rewrite string_length_app.
  enough (1 <= String.length (escape_char c))%nat by lia.
  destruct c as [[] [] [] [] [] [] [] []]; vm_compute; lia.
Qed.

(** The rest begins with no digit. *)
Definition no_digit (s : string) : bool :=
  match s with String c _ => negb (is_digit c) | EmptyString => true end.

Lemma span_digits_app d rest : string_forall is_digit d = true -> no_digit rest = true ->
  span_digits (d +:+ rest) = (d, rest).
Proof.
  intros Hd Hr. induction d as [|c d IH].
  - destruct rest as [|c r]; [done|]. cbn [no_digit] in Hr. apply negb_true_iff in Hr.
    change ("" +:+ ?s) with s. cbn [span_digits]. by rewrite Hr.
  - cbn [string_forall] in Hd. apply andb_true_iff in Hd as [Hc Hd].
    rewrite string_app_cons. cbn [span_digits]. by rewrite Hc, IH.
Qed.

Lemma read_nat_pretty (x : N) rest : no_digit rest = true ->
  read_nat (pretty x +:+ rest) = Some (Z.of_N x, rest).
Proof.
  intros Hr. destruct (pretty_N_spec x) as (d & E & Hn & Hd & _ & Hne).
  rewrite E. unfold read_nat. rewrite span_digits_app by done.
  assert (Hz : d = "0" \/ exists c d', d = String c d' /\ c <> "0"%char).
  { destruct (decide (x = 0%N)) as [->|Hx]; [by left|right].
    destruct (pretty_N_go_first x Hx "") as (c & d' & E' & Hc). exists c, d'.
    rewrite <-E. unfold pretty, pretty_N. rewrite decide_False, E', string_app_nil_r by done. done. }
  destruct Hz as [->|(c & d' & -> & Hc)]; [injection Hn as <-; done|].
  rewrite Hn. destruct d'; [by destruct c as [[] [] [] [] [] [] [] []]|].
  by destruct c as [[] [] [] [] [] [] [] []].
Qed.

(** A text that begins with a digit is no other value. *)
Lemma read_value_digits fuel (x : N) rest : no_digit rest = true ->
  read_value (S fuel) (pretty x +:+ rest) = Some (JNumber (Z.of_N x), rest).
Proof.
  intros Hr. pose proof (read_nat_pretty x rest Hr) as E.
  destruct (pretty_N_spec x) as (d & Ed & _ & Hd & _ & Hne). rewrite Ed in *.
  destruct d as [|c d]; [done|]. cbn [string_forall] in Hd. apply andb_true_iff in Hd as [Hc _].
  rewrite string_app_cons in *.
  transitivity (prod_map JNumber id <$> read_nat (String c (d +:+ rest))); [|by rewrite E].
  clear E. destruct c as [[] [] [] [] [] [] [] []]; try discriminate Hc; reflexivity.
Qed.

Lemma read_value_number fuel z rest : no_digit rest = true ->
  read_value (S fuel) (fmt_d z +:+ rest) = Some (JNumber z, rest).
Proof.
  intros Hr. destruct z as [|p|p].
  - by apply (read_value_digits fuel 0).
  - by apply (read_value_digits fuel (Npos p)).
  - pose proof (read_nat_pretty (Npos p) rest Hr) as E.
    change (fmt_d (Zneg p)) with (String "-" (pretty (Npos p))). rewrite string_app_cons.
    cbn [read_value]. by rewrite E.
Qed.

(** ** Lists *)

Lemma commas_cons t (l : list string) : commas (t :: l) = match l with [] => t | _ => t +:+ "," +:+ commas l end.
Proof. by destruct l. Qed.

Lemma commas_length (l : list string) t : t ∈ l -> (String.length t <= String.length (commas l))%nat.
Proof.
  induction l as [|u l IH]; intros H; [by apply not_elem_of_nil in H|]. rewrite commas_cons.
  apply elem_of_cons in H as [-> | H].
  - destruct l; [done|]. rewrite string_length_app. lia.
  - specialize (IH H). destruct l; [by apply not_elem_of_nil in H|]. rewrite !string_length_app. lia.
Qed.

Lemma commas_count (l : list string) : (forall t, t ∈ l -> t <> "") -> (List.length l <= String.length (commas l))%nat.
Proof.
  induction l as [|u l IH]; intros H; [done|]. rewrite commas_cons.
  assert (Hu : (1 <= String.length u)%nat).
  { destruct u; [by specialize (H _ (list_elem_of_here _ _))|cbn; lia]. }
  destruct l; [done|]. rewrite !string_length_app. cbn [List.length] in *.
  enough (S (List.length l) <= String.length (commas (s :: l)))%nat by lia.
  apply IH. intros t Ht. by apply H, list_elem_of_further.
Qed.

Section lists.
Context {A : Type} (item : string -> option (A * string)) (text : A -> string) (close : ascii).
Hypothesis Hclose : close <> ","%char.
Hypothesis Hdigit : is_digit close = false.

(** The text of [x] is read. *)
Definition reads (x : A) : Prop :=
  forall rest, no_digit rest = true -> item (text x +:+ rest) = Some (x, rest).
Definition starts (x : A) : Prop := exists c s, text x = String c s /\ c <> close.

Lemma read_list_text l rest : l <> [] -> Forall reads l -> forall fuel, (List.length l <= fuel)%nat ->
  read_list item close fuel (commas (map text l) +:+ String close rest) = Some (l, rest).
Proof.
  intros Hne Hl. induction Hl as [|x l Hx Hl IH]; [done|]. intros [|fuel] Hf; [cbn in Hf; lia|].
  cbn [read_list map]. rewrite commas_cons. destruct l as [|y l].
  - cbn [map]. rewrite Hx by (cbn; by rewrite Hdigit). by rewrite Ascii.eqb_refl.
  - cbn [map]. rewrite <-string_app_assoc, Hx by done.
    change (("," +:+ ?s) +:+ ?t) with (String "," (s +:+ t)). cbv beta iota.
    rewrite (proj2 (Ascii.eqb_neq "," close)) by congruence. change (Ascii.eqb "," ",") with true. cbv iota.
    change (text y :: map text l) with (map text (y :: l)). rewrite IH; [done..|cbn in *; lia].
Qed.

Lemma read_items_text l rest fuel : Forall reads l -> Forall starts l -> (List.length l <= fuel)%nat ->
  read_items item close fuel (commas (map text l) +:+ String close rest) = Some (l, rest).
Proof.
  intros Hr Hs Hf. destruct l as [|x l].
  { transitivity (read_items item close fuel (String close rest)); [done|].
    cbn [read_items]. by rewrite Ascii.eqb_refl. }
  pose proof (read_list_text (x :: l) rest ltac:(done) Hr fuel Hf) as E.
  inversion Hs as [|? ? (c & s & Ec & Hc) _ [E1 E2]]; subst.
  cbn [map] in *. rewrite commas_cons in *. rewrite Ec in *.
  assert (E3 : forall w, read_items item close fuel (String c w) = read_list item close fuel (String c w)).
  { intros w. cbn [read_items]. by rewrite (proj2 (Ascii.eqb_neq c close)). }
  destruct (map text l); rewrite ?string_app_cons, ?E3 in *; done.
Qed.
End lists.

Lemma json_text_starts j : exists c s, json_text j = String c s /\ c <> "]"%char.
Proof.
  destruct j; cbn [json_text]; try by eexists _, _.
  - destruct b; by eexists _, _.
  - destruct z as [|p|p]; [by eexists _, _| |by eexists _, _].
    change (fmt_d (Zpos p)) with (pretty (Npos p)).
    destruct (pretty_N_spec (Npos p)) as (d & -> & _ & Hd & _ & Hne). destruct d as [|c d]; [done|].
    exists c, d. split; [done|]. by intros ->.
Qed.

Lemma read_member_text value m rest : reads value json_text m.2 ->
  no_digit rest = true -> read_member value (member_text m +:+ rest) = Some (m, rest).
Proof.
  intros Hv Hr. destruct m as [k j]. unfold member_text, string_text. cbn [fst snd] in *.
  rewrite <-!string_app_assoc, !string_app_cons, <-string_app_assoc. cbn [read_member].
  change (String DQUOTE "" +:+ ?t) with (String DQUOTE t). rewrite read_string_text.
  - change ("" +:+ ?t) with t. by rewrite (Hv rest Hr).
  - rewrite string_length_app. cbn [String.length]. pose proof (escape_length k). lia.
Qed.

(** ** Values *)

Lemma read_value_string fuel s rest :
  read_value (S fuel) (string_text s +:+ rest) = Some (JString s, rest).
Proof.
  unfold string_text. rewrite string_app_cons, <-string_app_assoc. cbn [read_value].
  change (String DQUOTE "" +:+ rest) with (String DQUOTE rest). rewrite read_string_text; [done|].
  rewrite string_length_app. cbn [String.length]. pose proof (escape_length s). lia.
Qed.

Lemma read_value_array fuel l rest :
  Forall (reads (read_value fuel) json_text) l ->
  read_value (S fuel) (json_text (JArray l) +:+ rest) = Some (JArray l, rest).
Proof.
  intros Hl. cbn [json_text]. rewrite <-!string_app_assoc, string_app_cons. cbn [read_value].
  change ("" +:+ ?s) with s. change ("]" +:+ rest) with (String "]" rest).
  rewrite read_items_text; [done|done|done|done| |].
  - apply Forall_forall. intros j _. apply json_text_starts.
  - rewrite string_length_app.
    pose proof (commas_count (map json_text l)) as H. rewrite length_map in H.
    enough (List.length l <= String.length (commas (map json_text l)))%nat by (cbn; lia). apply H.
    intros t (j & -> & _)%list_elem_of_fmap. by destruct (json_text_starts j) as (c & s & -> & _).
Qed.

Lemma read_value_object fuel ms rest :
  Forall (fun m => reads (read_value fuel) json_text m.2) ms ->
  read_value (S fuel) (json_text (JObject ms) +:+ rest) = Some (JObject ms, rest).
Proof.
  intros Hl. cbn [json_text]. rewrite <-!string_app_assoc, string_app_cons. cbn [read_value].
  change ("" +:+ ?s) with s. change ("}" +:+ rest) with (String "}" rest).
  change (map _ ms) with (map member_text ms).
  rewrite read_items_text; [done|done|done| | |].
  - eapply Forall_impl; [exact Hl|]. intros m Hm r Hr. by apply read_member_text.
  - apply Forall_forall. intros m _. by eexists _, _.
  - rewrite string_length_app.
    pose proof (commas_count (map member_text ms)) as H. rewrite length_map in H.
    enough (List.length ms <= String.length (commas (map member_text ms)))%nat by (cbn; lia). apply H.
    by intros t (j & -> & _)%list_elem_of_fmap.
Qed.

Lemma read_value_text j : forall fuel, (String.length (json_text j) <= fuel)%nat ->
  reads (read_value fuel) json_text j.
Proof.
  induction j as [|b|z|s|l IH|ms IH] using json_ind; intros fuel Hf rest Hr;
    (destruct fuel as [|fuel];
      [match type of Hf with (String.length (json_text ?j) <= 0)%nat =>
         destruct (json_text_starts j) as (? & ? & E & _); rewrite E in Hf; cbn in Hf; lia end|]).
  - done.
  - by destruct b.
  - by apply read_value_number.
  - apply read_value_string.
  - apply read_value_array. apply Forall_forall. intros j Hj.
    eapply Forall_forall in IH; [|done]. apply IH.
    pose proof (commas_length (map json_text l) (json_text j) (list_elem_of_fmap_2 _ _ _ Hj)).
    cbn [json_text] in Hf. rewrite !string_length_app in Hf. cbn in Hf. lia.
  - apply read_value_object. apply Forall_forall. intros m Hm.
    eapply Forall_forall in IH; [|done]. apply IH.
    pose proof (commas_length (map member_text ms) (member_text m) (list_elem_of_fmap_2 _ _ _ Hm)) as H.
    unfold member_text in H at 1. rewrite !string_length_app in H.
    cbn [json_text] in Hf. change (map _ ms) with (map member_text ms) in Hf.
    rewrite !string_length_app in Hf. cbn in Hf. lia.
Qed.

Theorem read_json_text j : read_json (json_text j) = Some j.
Proof.
  unfold read_json. rewrite <-(string_app_nil_r (json_text j)) at 2.
  by rewrite read_value_text by (done || lia).
Qed.

(** ** No text holds a zero byte *)

Lemma escape_no_nul s : no_nul (escape s) = true.
Proof.
  induction s as [|c s IH]; [done|]. cbn [escape]. unfold no_nul in *. rewrite string_forall_app, IH, andb_true_r.
  by destruct c as [[] [] [] [] [] [] [] []].
Qed.

Lemma string_text_no_nul s : no_nul (string_text s) = true.
Proof.
  unfold string_text, no_nul. cbn [string_forall]. rewrite string_forall_app.
  pose proof (escape_no_nul s) as H. unfold no_nul in H. by rewrite H.
Qed.

Lemma digits_no_nul d : string_forall is_digit d = true -> no_nul d = true.
Proof. apply string_forall_impl. intros c Hc. apply negb_true_iff, Ascii.eqb_neq. by intros ->. Qed.

Lemma commas_no_nul (l : list string) : Forall (fun t => no_nul t = true) l -> no_nul (commas l) = true.
Proof.
  induction 1 as [|t l Ht Hl IH]; [done|]. rewrite commas_cons. destruct l; [done|].
  unfold no_nul in *. by rewrite !string_forall_app, Ht, IH.
Qed.

Lemma json_text_no_nul j : no_nul (json_text j) = true.
Proof.
  induction j as [|b|z|s|l IH|ms IH] using json_ind; cbn [json_text].
  - done.
  - by destruct b.
  - destruct z as [|p|p]; [done| |]; destruct (pretty_N_spec (Npos p)) as (d & E & _ & Hd & _ & _).
    + change (fmt_d (Zpos p)) with (pretty (Npos p)). rewrite E. by apply digits_no_nul.
    + change (fmt_d (Zneg p)) with (String "-" (pretty (Npos p))). rewrite E.
      by apply (digits_no_nul d) in Hd.
  - apply string_text_no_nul.
  - unfold no_nul. rewrite !string_forall_app.
    assert (H : no_nul (commas (map json_text l)) = true); [|unfold no_nul in H; by rewrite H].
    apply commas_no_nul, Forall_map, IH.
  - unfold no_nul. rewrite !string_forall_app. change (map _ ms) with (map member_text ms).
    assert (H : no_nul (commas (map member_text ms)) = true); [|unfold no_nul in H; by rewrite H].
    apply commas_no_nul, Forall_map. eapply Forall_impl; [exact IH|]. intros m Hm.
    pose proof (string_text_no_nul m.1) as Hs. unfold member_text, no_nul in *.
    by rewrite !string_forall_app, Hs, Hm.
Qed.
