(* ===== verification/JsonOut.v ===== *)
(** * Trees as JSON

    [src/pg_query_outfuncs_json.c] and [src/pg_query_json_helper.c] with the
    generated files they include, [src/pg_query_outfuncs_defs.c] and
    [src/pg_query_outfuncs_conds.c]: the functions write the members of an object,
    each with a comma behind it, and [removeTrailingDelimiter] takes the last one
    away.  Programs over a buffer ([dep]). *)
From S2P Require Import Prelude Buffer Keywords Quote Enums Nodes DeparseNames Parse EnumDefs.

Open Scope Z_scope.

Definition in_quotes (s : string) : string := String DQUOTE s +:+ String DQUOTE "".
(** The name of a member. *)
Definition label (name : string) : string := in_quotes name +:+ ":".

(** ** Strings *)

(** The [switch] over a character. *)
Definition token_char (c : ascii) : dep :=
  match Z.of_nat (nat_of_ascii c) with
  | 8 => str "\b"
  | 12 => str "\f"
  | 10 => str "\n"
  | 13 => str "\r"
  | 9 => str "\t"
  | 34 => str (String "\" (String DQUOTE ""))
  | 92 => str "\\"
  | p => if (p <? 32) || Ascii.eqb c "<" || Ascii.eqb c ">" then fmt ("\u" +:+ fmt_04x p) else chr c
  end.
Fixpoint token_loop (s : string) : dep :=
  match s with
  | EmptyString => skip
  | String c s' => token_char c ;;; token_loop s'
  end.
Definition _outToken (s : string) : dep := chr DQUOTE ;;; token_loop s ;;; chr DQUOTE.

(** ** Fields *)

Inductive entry : Type :=
| J_Node          (* _outNode *)
| J_SelectStmt.   (* _outSelectStmt, on a SelectStmt * *)

(** A null pointer in a cell. *)
Definition is_NULL (n : Node) : bool := match n with N_List [] => true | _ => false end.

Section json.
Variable self : entry -> Node -> dep.

(** ["%d"], ["%u"] and ["%ld"] of a value of the type. *)
Definition WRITE_INT_FIELD (name : string) (z : Z) : dep :=
  when (negb (z =? 0)) (fmt (label name +:+ fmt_d z +:+ ",")).
Definition WRITE_UINT_FIELD : string -> Z -> dep := WRITE_INT_FIELD.
Definition WRITE_LONG_FIELD : string -> Z -> dep := WRITE_INT_FIELD.
Definition WRITE_CHAR_FIELD (name : string) (c : ascii) : dep :=
  when (negb (Ascii.eqb c NUL)) (fmt (label name +:+ in_quotes (String c "") +:+ ",")).
Definition WRITE_ENUM_FIELD {E} (enumToString : E -> string) (name : string) (e : E) : dep :=
  fmt (label name +:+ in_quotes (enumToString e) +:+ ",").
Definition WRITE_BOOL_FIELD (name : string) (b : bool) : dep :=
  when b (fmt (label name +:+ "true" +:+ ",")).
Definition WRITE_STRING_FIELD (name : string) (s : option string) : dep :=
  when_some s (fun s => fmt (label name) ;;; _outToken s ;;; fmt ",").

(** A cell of a list. *)
Definition out_cell (n : Node) : dep :=
  if is_NULL n then str "{}" else self J_Node n.
Definition WRITE_LIST_FIELD (name : string) (l : list Node) : dep :=
  when (nonempty l) (fmt (label name) ;;; chr "[" ;;; foreach_sep out_cell (str ",") l ;;; fmt "],").
(** The integers of the list would be taken for pointers. *)
Definition WRITE_INT_LIST_FIELD (name : string) (l : list Z) : dep := when (nonempty l) undef.
Definition WRITE_NODE_PTR_FIELD (name : string) (p : option Node) : dep :=
  when_some p (fun n => fmt (label name) ;;; self J_Node n ;;; fmt ",").
Definition WRITE_SPECIFIC_NODE_FIELD {A} (out : A -> dep) (name : string) (x : A) : dep :=
  fmt (label name +:+ "{") ;;; out x ;;; rtd ;;; fmt "},".
Definition WRITE_SPECIFIC_NODE_PTR_FIELD {A} (out : A -> dep) (name : string) (p : option A) : dep :=
  when_some p (fun x => fmt (label name +:+ "{") ;;; out x ;;; rtd ;;; fmt "},").

(** ** Values and lists *)

Definition _outInteger (ival : Z) : dep := fmt (label "ival" +:+ fmt_d ival +:+ ",").
(** [_outFloat], [_outString], [_outBitString] *)
Definition out_str (s : string) : dep := fmt (label "str") ;;; _outToken s ;;; fmt ",".
Definition _outList (l : list Node) : dep :=
  fmt (label "items") ;;; chr "[" ;;; foreach_sep out_cell (str ",") l ;;; chr "]" ;;; fmt ",".

(** [OUT_NODE], with [WRITE_NODE_TYPE]. *)
Definition OUT_NODE (typename : string) (out : dep) : dep := str (label typename +:+ "{") ;;; out.

Definition value_conds (v : Value) : dep :=
  match v with
  | Integer ival => OUT_NODE "Integer" (_outInteger ival)
  | Float s => OUT_NODE "Float" (out_str s)
  | String_ s => OUT_NODE "String" (out_str s)
  | BitString s => OUT_NODE "BitString" (out_str s)
  | Null => OUT_NODE "Null" skip
  end.
(** The frame of [_outNode] around the [switch]. *)
Definition out_object (conds : dep) : dep := chr "{" ;;; conds ;;; rtd ;;; fmt "}}".
Definition WRITE_NODE_FIELD (name : string) (v : Value) : dep :=
  fmt (label name) ;;; out_object (value_conds v) ;;; fmt ",".

(** ** One function per struct *)


Definition _outAlias (node : Alias.t Node) : dep :=
  WRITE_STRING_FIELD "aliasname" node.(Alias.aliasname) ;;;
  WRITE_LIST_FIELD "colnames" node.(Alias.colnames).

Definition _outRangeVar (node : RangeVar.t Node) : dep :=
  WRITE_STRING_FIELD "catalogname" node.(RangeVar.catalogname) ;;;
  WRITE_STRING_FIELD "schemaname" node.(RangeVar.schemaname) ;;;
  WRITE_STRING_FIELD "relname" node.(RangeVar.relname) ;;;
  WRITE_BOOL_FIELD "inh" node.(RangeVar.inh) ;;;
  WRITE_CHAR_FIELD "relpersistence" node.(RangeVar.relpersistence) ;;;
  WRITE_SPECIFIC_NODE_PTR_FIELD _outAlias "alias" node.(RangeVar.alias) ;;;
  WRITE_INT_FIELD "location" node.(RangeVar.location).

Definition _outTypeName (node : TypeName.t Node) : dep :=
  WRITE_LIST_FIELD "names" node.(TypeName.names) ;;;
  WRITE_UINT_FIELD "typeOid" node.(TypeName.typeOid) ;;;
  WRITE_BOOL_FIELD "setof" node.(TypeName.setof) ;;;
  WRITE_BOOL_FIELD "pct_type" node.(TypeName.pct_type) ;;;
  WRITE_LIST_FIELD "typmods" node.(TypeName.typmods) ;;;
  WRITE_INT_FIELD "typemod" node.(TypeName.typemod) ;;;
  WRITE_LIST_FIELD "arrayBounds" node.(TypeName.arrayBounds) ;;;
  WRITE_INT_FIELD "location" node.(TypeName.location).

Definition _outColumnRef (node : ColumnRef.t Node) : dep :=
  WRITE_LIST_FIELD "fields" node.(ColumnRef.fields) ;;;
  WRITE_INT_FIELD "location" node.(ColumnRef.location).

Definition _outParamRef (node : ParamRef.t Node) : dep :=
  WRITE_INT_FIELD "number" node.(ParamRef.number) ;;;
  WRITE_INT_FIELD "location" node.(ParamRef.location).

Definition _outAExpr (node : A_Expr.t Node) : dep :=
  WRITE_ENUM_FIELD _enumToStringA_Expr_Kind "kind" node.(A_Expr.kind) ;;;
  WRITE_LIST_FIELD "name" node.(A_Expr.name) ;;;
  WRITE_NODE_PTR_FIELD "lexpr" node.(A_Expr.lexpr) ;;;
  WRITE_NODE_PTR_FIELD "rexpr" node.(A_Expr.rexpr) ;;;
  WRITE_INT_FIELD "location" node.(A_Expr.location).

Definition _outAConst (node : A_Const.t Node) : dep :=
  WRITE_NODE_FIELD "val" node.(A_Const.val) ;;;
  WRITE_INT_FIELD "location" node.(A_Const.location).

Definition _outTypeCast (node : TypeCast.t Node) : dep :=
  WRITE_NODE_PTR_FIELD "arg" node.(TypeCast.arg) ;;;
  WRITE_SPECIFIC_NODE_PTR_FIELD _outTypeName "typeName" node.(TypeCast.typeName) ;;;
  WRITE_INT_FIELD "location" node.(TypeCast.location).

Definition _outCollateClause (node : CollateClause.t Node) : dep :=
  WRITE_NODE_PTR_FIELD "arg" node.(CollateClause.arg) ;;;
  WRITE_LIST_FIELD "collname" node.(CollateClause.collname) ;;;
  WRITE_INT_FIELD "location" node.(CollateClause.location).

Definition _outRoleSpec (node : RoleSpec.t Node) : dep :=
  WRITE_ENUM_FIELD _enumToStringRoleSpecType "roletype" node.(RoleSpec.roletype) ;;;
  WRITE_STRING_FIELD "rolename" node.(RoleSpec.rolename) ;;;
  WRITE_INT_FIELD "location" node.(RoleSpec.location).

Definition _outWindowDef (node : WindowDef.t Node) : dep :=
  WRITE_STRING_FIELD "name" node.(WindowDef.name) ;;;
  WRITE_STRING_FIELD "refname" node.(WindowDef.refname) ;;;
  WRITE_LIST_FIELD "partitionClause" node.(WindowDef.partitionClause) ;;;
  WRITE_LIST_FIELD "orderClause" node.(WindowDef.orderClause) ;;;
  WRITE_INT_FIELD "frameOptions" node.(WindowDef.frameOptions) ;;;
  WRITE_NODE_PTR_FIELD "startOffset" node.(WindowDef.startOffset) ;;;
  WRITE_NODE_PTR_FIELD "endOffset" node.(WindowDef.endOffset) ;;;
  WRITE_INT_FIELD "location" node.(WindowDef.location).

Definition _outSortBy (node : SortBy.t Node) : dep :=
  WRITE_NODE_PTR_FIELD "node" node.(SortBy.node) ;;;
  WRITE_ENUM_FIELD _enumToStringSortByDir "sortby_dir" node.(SortBy.sortby_dir) ;;;
  WRITE_ENUM_FIELD _enumToStringSortByNulls "sortby_nulls" node.(SortBy.sortby_nulls) ;;;
  WRITE_LIST_FIELD "useOp" node.(SortBy.useOp) ;;;
  WRITE_INT_FIELD "location" node.(SortBy.location).

Definition _outFuncCall (node : FuncCall.t Node) : dep :=
  WRITE_LIST_FIELD "funcname" node.(FuncCall.funcname) ;;;
  WRITE_LIST_FIELD "args" node.(FuncCall.args) ;;;
  WRITE_LIST_FIELD "agg_order" node.(FuncCall.agg_order) ;;;
  WRITE_NODE_PTR_FIELD "agg_filter" node.(FuncCall.agg_filter) ;;;
  WRITE_BOOL_FIELD "agg_within_group" node.(FuncCall.agg_within_group) ;;;
  WRITE_BOOL_FIELD "agg_star" node.(FuncCall.agg_star) ;;;
  WRITE_BOOL_FIELD "agg_distinct" node.(FuncCall.agg_distinct) ;;;
  WRITE_BOOL_FIELD "func_variadic" node.(FuncCall.func_variadic) ;;;
  WRITE_SPECIFIC_NODE_PTR_FIELD _outWindowDef "over" node.(FuncCall.over) ;;;
  WRITE_INT_FIELD "location" node.(FuncCall.location).

Definition _outAStar (node : A_Star.t Node) : dep :=
  skip.

Definition _outAIndices (node : A_Indices.t Node) : dep :=
  WRITE_BOOL_FIELD "is_slice" node.(A_Indices.is_slice) ;;;
  WRITE_NODE_PTR_FIELD "lidx" node.(A_Indices.lidx) ;;;
  WRITE_NODE_PTR_FIELD "uidx" node.(A_Indices.uidx).

Definition _outAIndirection (node : A_Indirection.t Node) : dep :=
  WRITE_NODE_PTR_FIELD "arg" node.(A_Indirection.arg) ;;;
  WRITE_LIST_FIELD "indirection" node.(A_Indirection.indirection).

Definition _outAArrayExpr (node : A_ArrayExpr.t Node) : dep :=
  WRITE_LIST_FIELD "elements" node.(A_ArrayExpr.elements) ;;;
  WRITE_INT_FIELD "location" node.(A_ArrayExpr.location).

Definition _outResTarget (node : ResTarget.t Node) : dep :=
  WRITE_STRING_FIELD "name" node.(ResTarget.name) ;;;
  WRITE_LIST_FIELD "indirection" node.(ResTarget.indirection) ;;;
  WRITE_NODE_PTR_FIELD "val" node.(ResTarget.val) ;;;
  WRITE_INT_FIELD "location" node.(ResTarget.location).

Definition _outMultiAssignRef (node : MultiAssignRef.t Node) : dep :=
  WRITE_NODE_PTR_FIELD "source" node.(MultiAssignRef.source) ;;;
  WRITE_INT_FIELD "colno" node.(MultiAssignRef.colno) ;;;
  WRITE_INT_FIELD "ncolumns" node.(MultiAssignRef.ncolumns).

Definition _outNamedArgExpr (node : NamedArgExpr.t Node) : dep :=
  WRITE_NODE_PTR_FIELD "arg" node.(NamedArgExpr.arg) ;;;
  WRITE_STRING_FIELD "name" node.(NamedArgExpr.name) ;;;
  WRITE_INT_FIELD "argnumber" node.(NamedArgExpr.argnumber) ;;;
  WRITE_INT_FIELD "location" node.(NamedArgExpr.location).

Definition _outBoolExpr (node : BoolExpr.t Node) : dep :=
  WRITE_ENUM_FIELD _enumToStringBoolExprType "boolop" node.(BoolExpr.boolop) ;;;
  WRITE_LIST_FIELD "args" node.(BoolExpr.args) ;;;
  WRITE_INT_FIELD "location" node.(BoolExpr.location).

Definition _outSubLink (node : SubLink.t Node) : dep :=
  WRITE_ENUM_FIELD _enumToStringSubLinkType "subLinkType" node.(SubLink.subLinkType) ;;;
  WRITE_INT_FIELD "subLinkId" node.(SubLink.subLinkId) ;;;
  WRITE_NODE_PTR_FIELD "testexpr" node.(SubLink.testexpr) ;;;
  WRITE_LIST_FIELD "operName" node.(SubLink.operName) ;;;
  WRITE_NODE_PTR_FIELD "subselect" node.(SubLink.subselect) ;;;
  WRITE_INT_FIELD "location" node.(SubLink.location).

Definition _outCaseWhen (node : CaseWhen.t Node) : dep :=
  WRITE_NODE_PTR_FIELD "expr" node.(CaseWhen.expr) ;;;
  WRITE_NODE_PTR_FIELD "result" node.(CaseWhen.result) ;;;
  WRITE_INT_FIELD "location" node.(CaseWhen.location).

Definition _outCaseExpr (node : CaseExpr.t Node) : dep :=
  WRITE_UINT_FIELD "casetype" node.(CaseExpr.casetype) ;;;
  WRITE_UINT_FIELD "casecollid" node.(CaseExpr.casecollid) ;;;
  WRITE_NODE_PTR_FIELD "arg" node.(CaseExpr.arg) ;;;
  WRITE_LIST_FIELD "args" node.(CaseExpr.args) ;;;
  WRITE_NODE_PTR_FIELD "defresult" node.(CaseExpr.defresult) ;;;
  WRITE_INT_FIELD "location" node.(CaseExpr.location).

Definition _outRowExpr (node : RowExpr.t Node) : dep :=
  WRITE_LIST_FIELD "args" node.(RowExpr.args) ;;;
  WRITE_UINT_FIELD "row_typeid" node.(RowExpr.row_typeid) ;;;
  WRITE_ENUM_FIELD _enumToStringCoercionForm "row_format" node.(RowExpr.row_format) ;;;
  WRITE_LIST_FIELD "colnames" node.(RowExpr.colnames) ;;;
  WRITE_INT_FIELD "location" node.(RowExpr.location).

Definition _outCoalesceExpr (node : CoalesceExpr.t Node) : dep :=
  WRITE_UINT_FIELD "coalescetype" node.(CoalesceExpr.coalescetype) ;;;
  WRITE_UINT_FIELD "coalescecollid" node.(CoalesceExpr.coalescecollid) ;;;
  WRITE_LIST_FIELD "args" node.(CoalesceExpr.args) ;;;
  WRITE_INT_FIELD "location" node.(CoalesceExpr.location).

Definition _outMinMaxExpr (node : MinMaxExpr.t Node) : dep :=
  WRITE_UINT_FIELD "minmaxtype" node.(MinMaxExpr.minmaxtype) ;;;
  WRITE_UINT_FIELD "minmaxcollid" node.(MinMaxExpr.minmaxcollid) ;;;
  WRITE_UINT_FIELD "inputcollid" node.(MinMaxExpr.inputcollid) ;;;
  WRITE_ENUM_FIELD _enumToStringMinMaxOp "op" node.(MinMaxExpr.op) ;;;
  WRITE_LIST_FIELD "args" node.(MinMaxExpr.args) ;;;
  WRITE_INT_FIELD "location" node.(MinMaxExpr.location).

Definition _outSQLValueFunction (node : SQLValueFunction.t Node) : dep :=
  WRITE_ENUM_FIELD _enumToStringSQLValueFunctionOp "op" node.(SQLValueFunction.op) ;;;
  WRITE_UINT_FIELD "type" node.(SQLValueFunction.type_) ;;;
  WRITE_INT_FIELD "typmod" node.(SQLValueFunction.typmod) ;;;
  WRITE_INT_FIELD "location" node.(SQLValueFunction.location).

Definition _outXmlExpr (node : XmlExpr.t Node) : dep :=
  WRITE_ENUM_FIELD _enumToStringXmlExprOp "op" node.(XmlExpr.op) ;;;
  WRITE_STRING_FIELD "name" node.(XmlExpr.name) ;;;
  WRITE_LIST_FIELD "named_args" node.(XmlExpr.named_args) ;;;
  WRITE_LIST_FIELD "arg_names" node.(XmlExpr.arg_names) ;;;
  WRITE_LIST_FIELD "args" node.(XmlExpr.args) ;;;
  WRITE_ENUM_FIELD _enumToStringXmlOptionType "xmloption" node.(XmlExpr.xmloption) ;;;
  WRITE_UINT_FIELD "type" node.(XmlExpr.type_) ;;;
  WRITE_INT_FIELD "typmod" node.(XmlExpr.typmod) ;;;
  WRITE_INT_FIELD "location" node.(XmlExpr.location).

Definition _outXmlSerialize (node : XmlSerialize.t Node) : dep :=
  WRITE_ENUM_FIELD _enumToStringXmlOptionType "xmloption" node.(XmlSerialize.xmloption) ;;;
  WRITE_NODE_PTR_FIELD "expr" node.(XmlSerialize.expr) ;;;
  WRITE_SPECIFIC_NODE_PTR_FIELD _outTypeName "typeName" node.(XmlSerialize.typeName) ;;;
  WRITE_INT_FIELD "location" node.(XmlSerialize.location).

Definition _outNullTest (node : NullTest.t Node) : dep :=
  WRITE_NODE_PTR_FIELD "arg" node.(NullTest.arg) ;;;
  WRITE_ENUM_FIELD _enumToStringNullTestType "nulltesttype" node.(NullTest.nulltesttype) ;;;
  WRITE_BOOL_FIELD "argisrow" node.(NullTest.argisrow) ;;;
  WRITE_INT_FIELD "location" node.(NullTest.location).

Definition _outBooleanTest (node : BooleanTest.t Node) : dep :=
  WRITE_NODE_PTR_FIELD "arg" node.(BooleanTest.arg) ;;;
  WRITE_ENUM_FIELD _enumToStringBoolTestType "booltesttype" node.(BooleanTest.booltesttype) ;;;
  WRITE_INT_FIELD "location" node.(BooleanTest.location).

Definition _outSetToDefault (node : SetToDefault.t Node) : dep :=
  WRITE_UINT_FIELD "typeId" node.(SetToDefault.typeId) ;;;
  WRITE_INT_FIELD "typeMod" node.(SetToDefault.typeMod) ;;;
  WRITE_UINT_FIELD "collation" node.(SetToDefault.collation) ;;;
  WRITE_INT_FIELD "location" node.(SetToDefault.location).

Definition _outCurrentOfExpr (node : CurrentOfExpr.t Node) : dep :=
  WRITE_UINT_FIELD "cvarno" node.(CurrentOfExpr.cvarno) ;;;
  WRITE_STRING_FIELD "cursor_name" node.(CurrentOfExpr.cursor_name) ;;;
  WRITE_INT_FIELD "cursor_param" node.(CurrentOfExpr.cursor_param).

Definition _outGroupingFunc (node : GroupingFunc.t Node) : dep :=
  WRITE_LIST_FIELD "args" node.(GroupingFunc.args) ;;;
  WRITE_INT_LIST_FIELD "refs" node.(GroupingFunc.refs) ;;;
  WRITE_INT_LIST_FIELD "cols" node.(GroupingFunc.cols) ;;;
  WRITE_UINT_FIELD "agglevelsup" node.(GroupingFunc.agglevelsup) ;;;
  WRITE_INT_FIELD "location" node.(GroupingFunc.location).

Definition _outDefElem (node : DefElem.t Node) : dep :=
  WRITE_STRING_FIELD "defnamespace" node.(DefElem.defnamespace) ;;;
  WRITE_STRING_FIELD "defname" node.(DefElem.defname) ;;;
  WRITE_NODE_PTR_FIELD "arg" node.(DefElem.arg) ;;;
  WRITE_ENUM_FIELD _enumToStringDefElemAction "defaction" node.(DefElem.defaction) ;;;
  WRITE_INT_FIELD "location" node.(DefElem.location).

Definition _outIndexElem (node : IndexElem.t Node) : dep :=
  WRITE_STRING_FIELD "name" node.(IndexElem.name) ;;;
  WRITE_NODE_PTR_FIELD "expr" node.(IndexElem.expr) ;;;
  WRITE_STRING_FIELD "indexcolname" node.(IndexElem.indexcolname) ;;;
  WRITE_LIST_FIELD "collation" node.(IndexElem.collation) ;;;
  WRITE_LIST_FIELD "opclass" node.(IndexElem.opclass) ;;;
  WRITE_LIST_FIELD "opclassopts" node.(IndexElem.opclassopts) ;;;
  WRITE_ENUM_FIELD _enumToStringSortByDir "ordering" node.(IndexElem.ordering) ;;;
  WRITE_ENUM_FIELD _enumToStringSortByNulls "nulls_ordering" node.(IndexElem.nulls_ordering).

Definition _outConstraint (node : Constraint.t Node) : dep :=
  WRITE_ENUM_FIELD _enumToStringConstrType "contype" node.(Constraint.contype) ;;;
  WRITE_STRING_FIELD "conname" node.(Constraint.conname) ;;;
  WRITE_BOOL_FIELD "deferrable" node.(Constraint.deferrable) ;;;
  WRITE_BOOL_FIELD "initdeferred" node.(Constraint.initdeferred) ;;;
  WRITE_INT_FIELD "location" node.(Constraint.location) ;;;
  WRITE_BOOL_FIELD "is_no_inherit" node.(Constraint.is_no_inherit) ;;;
  WRITE_NODE_PTR_FIELD "raw_expr" node.(Constraint.raw_expr) ;;;
  WRITE_STRING_FIELD "cooked_expr" node.(Constraint.cooked_expr) ;;;
  WRITE_CHAR_FIELD "generated_when" node.(Constraint.generated_when) ;;;
  WRITE_LIST_FIELD "keys" node.(Constraint.keys) ;;;
  WRITE_LIST_FIELD "including" node.(Constraint.including) ;;;
  WRITE_LIST_FIELD "exclusions" node.(Constraint.exclusions) ;;;
  WRITE_LIST_FIELD "options" node.(Constraint.options) ;;;
  WRITE_STRING_FIELD "indexname" node.(Constraint.indexname) ;;;
  WRITE_STRING_FIELD "indexspace" node.(Constraint.indexspace) ;;;
  WRITE_BOOL_FIELD "reset_default_tblspc" node.(Constraint.reset_default_tblspc) ;;;
  WRITE_STRING_FIELD "access_method" node.(Constraint.access_method) ;;;
  WRITE_NODE_PTR_FIELD "where_clause" node.(Constraint.where_clause) ;;;
  WRITE_SPECIFIC_NODE_PTR_FIELD _outRangeVar "pktable" node.(Constraint.pktable) ;;;
  WRITE_LIST_FIELD "fk_attrs" node.(Constraint.fk_attrs) ;;;
  WRITE_LIST_FIELD "pk_attrs" node.(Constraint.pk_attrs) ;;;
  WRITE_CHAR_FIELD "fk_matchtype" node.(Constraint.fk_matchtype) ;;;
  WRITE_CHAR_FIELD "fk_upd_action" node.(Constraint.fk_upd_action) ;;;
  WRITE_CHAR_FIELD "fk_del_action" node.(Constraint.fk_del_action) ;;;
  WRITE_LIST_FIELD "old_conpfeqop" node.(Constraint.old_conpfeqop) ;;;
  WRITE_UINT_FIELD "old_pktable_oid" node.(Constraint.old_pktable_oid) ;;;
  WRITE_BOOL_FIELD "skip_validation" node.(Constraint.skip_validation) ;;;
  WRITE_BOOL_FIELD "initially_valid" node.(Constraint.initially_valid).

Definition _outColumnDef (node : ColumnDef.t Node) : dep :=
  WRITE_STRING_FIELD "colname" node.(ColumnDef.colname) ;;;
  WRITE_SPECIFIC_NODE_PTR_FIELD _outTypeName "typeName" node.(ColumnDef.typeName) ;;;
  WRITE_INT_FIELD "inhcount" node.(ColumnDef.inhcount) ;;;
  WRITE_BOOL_FIELD "is_local" node.(ColumnDef.is_local) ;;;
  WRITE_BOOL_FIELD "is_not_null" node.(ColumnDef.is_not_null) ;;;
  WRITE_BOOL_FIELD "is_from_type" node.(ColumnDef.is_from_type) ;;;
  WRITE_CHAR_FIELD "storage" node.(ColumnDef.storage) ;;;
  WRITE_NODE_PTR_FIELD "raw_default" node.(ColumnDef.raw_default) ;;;
  WRITE_NODE_PTR_FIELD "cooked_default" node.(ColumnDef.cooked_default) ;;;
  WRITE_CHAR_FIELD "identity" node.(ColumnDef.identity) ;;;
  WRITE_SPECIFIC_NODE_PTR_FIELD _outRangeVar "identitySequence" node.(ColumnDef.identitySequence) ;;;
  WRITE_CHAR_FIELD "generated" node.(ColumnDef.generated) ;;;
  WRITE_SPECIFIC_NODE_PTR_FIELD _outCollateClause "collClause" node.(ColumnDef.collClause) ;;;
  WRITE_UINT_FIELD "collOid" node.(ColumnDef.collOid) ;;;
  WRITE_LIST_FIELD "constraints" node.(ColumnDef.constraints) ;;;
  WRITE_LIST_FIELD "fdwoptions" node.(ColumnDef.fdwoptions) ;;;
  WRITE_INT_FIELD "location" node.(ColumnDef.location).

Definition _outJoinExpr (node : JoinExpr.t Node) : dep :=
  WRITE_ENUM_FIELD _enumToStringJoinType "jointype" node.(JoinExpr.jointype) ;;;
  WRITE_BOOL_FIELD "isNatural" node.(JoinExpr.isNatural) ;;;
  WRITE_NODE_PTR_FIELD "larg" node.(JoinExpr.larg) ;;;
  WRITE_NODE_PTR_FIELD "rarg" node.(JoinExpr.rarg) ;;;
  WRITE_LIST_FIELD "usingClause" node.(JoinExpr.usingClause) ;;;
  WRITE_NODE_PTR_FIELD "quals" node.(JoinExpr.quals) ;;;
  WRITE_SPECIFIC_NODE_PTR_FIELD _outAlias "alias" node.(JoinExpr.alias) ;;;
  WRITE_INT_FIELD "rtindex" node.(JoinExpr.rtindex).

Definition _outRangeSubselect (node : RangeSubselect.t Node) : dep :=
  WRITE_BOOL_FIELD "lateral" node.(RangeSubselect.lateral) ;;;
  WRITE_NODE_PTR_FIELD "subquery" node.(RangeSubselect.subquery) ;;;
  WRITE_SPECIFIC_NODE_PTR_FIELD _outAlias "alias" node.(RangeSubselect.alias).

Definition _outRangeFunction (node : RangeFunction.t Node) : dep :=
  WRITE_BOOL_FIELD "lateral" node.(RangeFunction.lateral) ;;;
  WRITE_BOOL_FIELD "ordinality" node.(RangeFunction.ordinality) ;;;
  WRITE_BOOL_FIELD "is_rowsfrom" node.(RangeFunction.is_rowsfrom) ;;;
  WRITE_LIST_FIELD "functions" node.(RangeFunction.functions) ;;;
  WRITE_SPECIFIC_NODE_PTR_FIELD _outAlias "alias" node.(RangeFunction.alias) ;;;
  WRITE_LIST_FIELD "coldeflist" node.(RangeFunction.coldeflist).

Definition _outRangeTableFuncCol (node : RangeTableFuncCol.t Node) : dep :=
  WRITE_STRING_FIELD "colname" node.(RangeTableFuncCol.colname) ;;;
  WRITE_SPECIFIC_NODE_PTR_FIELD _outTypeName "typeName" node.(RangeTableFuncCol.typeName) ;;;
  WRITE_BOOL_FIELD "for_ordinality" node.(RangeTableFuncCol.for_ordinality) ;;;
  WRITE_BOOL_FIELD "is_not_null" node.(RangeTableFuncCol.is_not_null) ;;;
  WRITE_NODE_PTR_FIELD "colexpr" node.(RangeTableFuncCol.colexpr) ;;;
  WRITE_NODE_PTR_FIELD "coldefexpr" node.(RangeTableFuncCol.coldefexpr) ;;;
  WRITE_INT_FIELD "location" node.(RangeTableFuncCol.location).

Definition _outRangeTableFunc (node : RangeTableFunc.t Node) : dep :=
  WRITE_BOOL_FIELD "lateral" node.(RangeTableFunc.lateral) ;;;
  WRITE_NODE_PTR_FIELD "docexpr" node.(RangeTableFunc.docexpr) ;;;
  WRITE_NODE_PTR_FIELD "rowexpr" node.(RangeTableFunc.rowexpr) ;;;
  WRITE_LIST_FIELD "namespaces" node.(RangeTableFunc.namespaces) ;;;
  WRITE_LIST_FIELD "columns" node.(RangeTableFunc.columns) ;;;
  WRITE_SPECIFIC_NODE_PTR_FIELD _outAlias "alias" node.(RangeTableFunc.alias) ;;;
  WRITE_INT_FIELD "location" node.(RangeTableFunc.location).

Definition _outRangeTableSample (node : RangeTableSample.t Node) : dep :=
  WRITE_NODE_PTR_FIELD "relation" node.(RangeTableSample.relation) ;;;
  WRITE_LIST_FIELD "method" node.(RangeTableSample.method) ;;;
  WRITE_LIST_FIELD "args" node.(RangeTableSample.args) ;;;
  WRITE_NODE_PTR_FIELD "repeatable" node.(RangeTableSample.repeatable) ;;;
  WRITE_INT_FIELD "location" node.(RangeTableSample.location).

Definition _outCommonTableExpr (node : CommonTableExpr.t Node) : dep :=
  WRITE_STRING_FIELD "ctename" node.(CommonTableExpr.ctename) ;;;
  WRITE_LIST_FIELD "aliascolnames" node.(CommonTableExpr.aliascolnames) ;;;
  WRITE_ENUM_FIELD _enumToStringCTEMaterialize "ctematerialized" node.(CommonTableExpr.ctematerialized) ;;;
  WRITE_NODE_PTR_FIELD "ctequery" node.(CommonTableExpr.ctequery) ;;;
  WRITE_INT_FIELD "location" node.(CommonTableExpr.location) ;;;
  WRITE_BOOL_FIELD "cterecursive" node.(CommonTableExpr.cterecursive) ;;;
  WRITE_INT_FIELD "cterefcount" node.(CommonTableExpr.cterefcount) ;;;
  WRITE_LIST_FIELD "ctecolnames" node.(CommonTableExpr.ctecolnames) ;;;
  WRITE_INT_LIST_FIELD "ctecoltypes" node.(CommonTableExpr.ctecoltypes) ;;;
  WRITE_INT_LIST_FIELD "ctecoltypmods" node.(CommonTableExpr.ctecoltypmods) ;;;
  WRITE_INT_LIST_FIELD "ctecolcollations" node.(CommonTableExpr.ctecolcollations).

Definition _outWithClause (node : WithClause.t Node) : dep :=
  WRITE_LIST_FIELD "ctes" node.(WithClause.ctes) ;;;
  WRITE_BOOL_FIELD "recursive" node.(WithClause.recursive) ;;;
  WRITE_INT_FIELD "location" node.(WithClause.location).

Definition _outInferClause (node : InferClause.t Node) : dep :=
  WRITE_LIST_FIELD "indexElems" node.(InferClause.indexElems) ;;;
  WRITE_NODE_PTR_FIELD "whereClause" node.(InferClause.whereClause) ;;;
  WRITE_STRING_FIELD "conname" node.(InferClause.conname) ;;;
  WRITE_INT_FIELD "location" node.(InferClause.location).

Definition _outOnConflictClause (node : OnConflictClause.t Node) : dep :=
  WRITE_ENUM_FIELD _enumToStringOnConflictAction "action" node.(OnConflictClause.action) ;;;
  WRITE_SPECIFIC_NODE_PTR_FIELD _outInferClause "infer" node.(OnConflictClause.infer) ;;;
  WRITE_LIST_FIELD "targetList" node.(OnConflictClause.targetList) ;;;
  WRITE_NODE_PTR_FIELD "whereClause" node.(OnConflictClause.whereClause) ;;;
  WRITE_INT_FIELD "location" node.(OnConflictClause.location).

Definition _outLockingClause (node : LockingClause.t Node) : dep :=
  WRITE_LIST_FIELD "lockedRels" node.(LockingClause.lockedRels) ;;;
  WRITE_ENUM_FIELD _enumToStringLockClauseStrength "strength" node.(LockingClause.strength) ;;;
  WRITE_ENUM_FIELD _enumToStringLockWaitPolicy "waitPolicy" node.(LockingClause.waitPolicy).

Definition _outGroupingSet (node : GroupingSet.t Node) : dep :=
  WRITE_ENUM_FIELD _enumToStringGroupingSetKind "kind" node.(GroupingSet.kind) ;;;
  WRITE_LIST_FIELD "content" node.(GroupingSet.content) ;;;
  WRITE_INT_FIELD "location" node.(GroupingSet.location).

Definition _outIntoClause (node : IntoClause.t Node) : dep :=
  WRITE_SPECIFIC_NODE_PTR_FIELD _outRangeVar "rel" node.(IntoClause.rel) ;;;
  WRITE_LIST_FIELD "colNames" node.(IntoClause.colNames) ;;;
  WRITE_STRING_FIELD "accessMethod" node.(IntoClause.accessMethod) ;;;
  WRITE_LIST_FIELD "options" node.(IntoClause.options) ;;;
  WRITE_ENUM_FIELD _enumToStringOnCommitAction "onCommit" node.(IntoClause.onCommit) ;;;
  WRITE_STRING_FIELD "tableSpaceName" node.(IntoClause.tableSpaceName) ;;;
  WRITE_NODE_PTR_FIELD "viewQuery" node.(IntoClause.viewQuery) ;;;
  WRITE_BOOL_FIELD "skipData" node.(IntoClause.skipData).

Definition _outSelectStmt (node : SelectStmt.t Node) : dep :=
  WRITE_LIST_FIELD "distinctClause" node.(SelectStmt.distinctClause) ;;;
  WRITE_SPECIFIC_NODE_PTR_FIELD _outIntoClause "intoClause" node.(SelectStmt.intoClause) ;;;
  WRITE_LIST_FIELD "targetList" node.(SelectStmt.targetList) ;;;
  WRITE_LIST_FIELD "fromClause" node.(SelectStmt.fromClause) ;;;
  WRITE_NODE_PTR_FIELD "whereClause" node.(SelectStmt.whereClause) ;;;
  WRITE_LIST_FIELD "groupClause" node.(SelectStmt.groupClause) ;;;
  WRITE_NODE_PTR_FIELD "havingClause" node.(SelectStmt.havingClause) ;;;
  WRITE_LIST_FIELD "windowClause" node.(SelectStmt.windowClause) ;;;
  WRITE_LIST_FIELD "valuesLists" node.(SelectStmt.valuesLists) ;;;
  WRITE_LIST_FIELD "sortClause" node.(SelectStmt.sortClause) ;;;
  WRITE_NODE_PTR_FIELD "limitOffset" node.(SelectStmt.limitOffset) ;;;
  WRITE_NODE_PTR_FIELD "limitCount" node.(SelectStmt.limitCount) ;;;
  WRITE_ENUM_FIELD _enumToStringLimitOption "limitOption" node.(SelectStmt.limitOption) ;;;
  WRITE_LIST_FIELD "lockingClause" node.(SelectStmt.lockingClause) ;;;
  WRITE_SPECIFIC_NODE_PTR_FIELD _outWithClause "withClause" node.(SelectStmt.withClause) ;;;
  WRITE_ENUM_FIELD _enumToStringSetOperation "op" node.(SelectStmt.op) ;;;
  WRITE_BOOL_FIELD "all" node.(SelectStmt.all) ;;;
  WRITE_SPECIFIC_NODE_PTR_FIELD (self J_SelectStmt) "larg" node.(SelectStmt.larg) ;;;
  WRITE_SPECIFIC_NODE_PTR_FIELD (self J_SelectStmt) "rarg" node.(SelectStmt.rarg).

Definition _outInsertStmt (node : InsertStmt.t Node) : dep :=
  WRITE_SPECIFIC_NODE_PTR_FIELD _outRangeVar "relation" node.(InsertStmt.relation) ;;;
  WRITE_LIST_FIELD "cols" node.(InsertStmt.cols) ;;;
  WRITE_NODE_PTR_FIELD "selectStmt" node.(InsertStmt.selectStmt) ;;;
  WRITE_SPECIFIC_NODE_PTR_FIELD _outOnConflictClause "onConflictClause" node.(InsertStmt.onConflictClause) ;;;
  WRITE_LIST_FIELD "returningList" node.(InsertStmt.returningList) ;;;
  WRITE_SPECIFIC_NODE_PTR_FIELD _outWithClause "withClause" node.(InsertStmt.withClause) ;;;
  WRITE_ENUM_FIELD _enumToStringOverridingKind "override" node.(InsertStmt.override).

Definition _outUpdateStmt (node : UpdateStmt.t Node) : dep :=
  WRITE_SPECIFIC_NODE_PTR_FIELD _outRangeVar "relation" node.(UpdateStmt.relation) ;;;
  WRITE_LIST_FIELD "targetList" node.(UpdateStmt.targetList) ;;;
  WRITE_NODE_PTR_FIELD "whereClause" node.(UpdateStmt.whereClause) ;;;
  WRITE_LIST_FIELD "fromClause" node.(UpdateStmt.fromClause) ;;;
  WRITE_LIST_FIELD "returningList" node.(UpdateStmt.returningList) ;;;
  WRITE_SPECIFIC_NODE_PTR_FIELD _outWithClause "withClause" node.(UpdateStmt.withClause).

Definition _outDeleteStmt (node : DeleteStmt.t Node) : dep :=
  WRITE_SPECIFIC_NODE_PTR_FIELD _outRangeVar "relation" node.(DeleteStmt.relation) ;;;
  WRITE_LIST_FIELD "usingClause" node.(DeleteStmt.usingClause) ;;;
  WRITE_NODE_PTR_FIELD "whereClause" node.(DeleteStmt.whereClause) ;;;
  WRITE_LIST_FIELD "returningList" node.(DeleteStmt.returningList) ;;;
  WRITE_SPECIFIC_NODE_PTR_FIELD _outWithClause "withClause" node.(DeleteStmt.withClause).

Definition _outRawStmt (node : RawStmt.t Node) : dep :=
  WRITE_NODE_PTR_FIELD "stmt" node.(RawStmt.stmt) ;;;
  WRITE_INT_FIELD "stmt_location" node.(RawStmt.stmt_location) ;;;
  WRITE_INT_FIELD "stmt_len" node.(RawStmt.stmt_len).

Definition _outAlterTableCmd (node : AlterTableCmd.t Node) : dep :=
  WRITE_ENUM_FIELD _enumToStringAlterTableType "subtype" node.(AlterTableCmd.subtype) ;;;
  WRITE_STRING_FIELD "name" node.(AlterTableCmd.name) ;;;
  WRITE_INT_FIELD "num" node.(AlterTableCmd.num) ;;;
  WRITE_SPECIFIC_NODE_PTR_FIELD _outRoleSpec "newowner" node.(AlterTableCmd.newowner) ;;;
  WRITE_NODE_PTR_FIELD "def" node.(AlterTableCmd.def) ;;;
  WRITE_ENUM_FIELD _enumToStringDropBehavior "behavior" node.(AlterTableCmd.behavior) ;;;
  WRITE_BOOL_FIELD "missing_ok" node.(AlterTableCmd.missing_ok).

Definition _outPartitionBoundSpec (node : PartitionBoundSpec.t Node) : dep :=
  WRITE_CHAR_FIELD "strategy" node.(PartitionBoundSpec.strategy) ;;;
  WRITE_BOOL_FIELD "is_default" node.(PartitionBoundSpec.is_default) ;;;
  WRITE_INT_FIELD "modulus" node.(PartitionBoundSpec.modulus) ;;;
  WRITE_INT_FIELD "remainder" node.(PartitionBoundSpec.remainder) ;;;
  WRITE_LIST_FIELD "listdatums" node.(PartitionBoundSpec.listdatums) ;;;
  WRITE_LIST_FIELD "lowerdatums" node.(PartitionBoundSpec.lowerdatums) ;;;
  WRITE_LIST_FIELD "upperdatums" node.(PartitionBoundSpec.upperdatums) ;;;
  WRITE_INT_FIELD "location" node.(PartitionBoundSpec.location).

Definition _outTableLikeClause (node : TableLikeClause.t Node) : dep :=
  WRITE_SPECIFIC_NODE_PTR_FIELD _outRangeVar "relation" node.(TableLikeClause.relation) ;;;
  WRITE_UINT_FIELD "options" node.(TableLikeClause.options) ;;;
  WRITE_UINT_FIELD "relationOid" node.(TableLikeClause.relationOid).

Definition _outPartitionElem (node : PartitionElem.t Node) : dep :=
  WRITE_STRING_FIELD "name" node.(PartitionElem.name) ;;;
  WRITE_NODE_PTR_FIELD "expr" node.(PartitionElem.expr) ;;;
  WRITE_LIST_FIELD "collation" node.(PartitionElem.collation) ;;;
  WRITE_LIST_FIELD "opclass" node.(PartitionElem.opclass) ;;;
  WRITE_INT_FIELD "location" node.(PartitionElem.location).

Definition _outPartitionSpec (node : PartitionSpec.t Node) : dep :=
  WRITE_STRING_FIELD "strategy" node.(PartitionSpec.strategy) ;;;
  WRITE_LIST_FIELD "partParams" node.(PartitionSpec.partParams) ;;;
  WRITE_INT_FIELD "location" node.(PartitionSpec.location).

Definition _outPartitionCmd (node : PartitionCmd.t Node) : dep :=
  WRITE_SPECIFIC_NODE_PTR_FIELD _outRangeVar "name" node.(PartitionCmd.name) ;;;
  WRITE_SPECIFIC_NODE_PTR_FIELD _outPartitionBoundSpec "bound" node.(PartitionCmd.bound).

Definition _outTriggerTransition (node : TriggerTransition.t Node) : dep :=
  WRITE_STRING_FIELD "name" node.(TriggerTransition.name) ;;;
  WRITE_BOOL_FIELD "isNew" node.(TriggerTransition.isNew) ;;;
  WRITE_BOOL_FIELD "isTable" node.(TriggerTransition.isTable).

Definition _outCreateSchemaStmt (node : CreateSchemaStmt.t Node) : dep :=
  WRITE_STRING_FIELD "schemaname" node.(CreateSchemaStmt.schemaname) ;;;
  WRITE_SPECIFIC_NODE_PTR_FIELD _outRoleSpec "authrole" node.(CreateSchemaStmt.authrole) ;;;
  WRITE_LIST_FIELD "schemaElts" node.(CreateSchemaStmt.schemaElts) ;;;
  WRITE_BOOL_FIELD "if_not_exists" node.(CreateSchemaStmt.if_not_exists).

Definition _outAlterTableStmt (node : AlterTableStmt.t Node) : dep :=
  WRITE_SPECIFIC_NODE_PTR_FIELD _outRangeVar "relation" node.(AlterTableStmt.relation) ;;;
  WRITE_LIST_FIELD "cmds" node.(AlterTableStmt.cmds) ;;;
  WRITE_ENUM_FIELD _enumToStringObjectType "relkind" node.(AlterTableStmt.relkind) ;;;
  WRITE_BOOL_FIELD "missing_ok" node.(AlterTableStmt.missing_ok).

Definition _outReplicaIdentityStmt (node : ReplicaIdentityStmt.t Node) : dep :=
  WRITE_CHAR_FIELD "identity_type" node.(ReplicaIdentityStmt.identity_type) ;;;
  WRITE_STRING_FIELD "name" node.(ReplicaIdentityStmt.name).

Definition _outAlterCollationStmt (node : AlterCollationStmt.t Node) : dep :=
  WRITE_LIST_FIELD "collname" node.(AlterCollationStmt.collname).

Definition _outAlterDomainStmt (node : AlterDomainStmt.t Node) : dep :=
  WRITE_CHAR_FIELD "subtype" node.(AlterDomainStmt.subtype) ;;;
  WRITE_LIST_FIELD "typeName" node.(AlterDomainStmt.typeName) ;;;
  WRITE_STRING_FIELD "name" node.(AlterDomainStmt.name) ;;;
  WRITE_NODE_PTR_FIELD "def" node.(AlterDomainStmt.def) ;;;
  WRITE_ENUM_FIELD _enumToStringDropBehavior "behavior" node.(AlterDomainStmt.behavior) ;;;
  WRITE_BOOL_FIELD "missing_ok" node.(AlterDomainStmt.missing_ok).

Definition _outGrantStmt (node : GrantStmt.t Node) : dep :=
  WRITE_BOOL_FIELD "is_grant" node.(GrantStmt.is_grant) ;;;
  WRITE_ENUM_FIELD _enumToStringGrantTargetType "targtype" node.(GrantStmt.targtype) ;;;
  WRITE_ENUM_FIELD _enumToStringObjectType "objtype" node.(GrantStmt.objtype) ;;;
  WRITE_LIST_FIELD "objects" node.(GrantStmt.objects) ;;;
  WRITE_LIST_FIELD "privileges" node.(GrantStmt.privileges) ;;;
  WRITE_LIST_FIELD "grantees" node.(GrantStmt.grantees) ;;;
  WRITE_BOOL_FIELD "grant_option" node.(GrantStmt.grant_option) ;;;
  WRITE_ENUM_FIELD _enumToStringDropBehavior "behavior" node.(GrantStmt.behavior).

Definition _outObjectWithArgs (node : ObjectWithArgs.t Node) : dep :=
  WRITE_LIST_FIELD "objname" node.(ObjectWithArgs.objname) ;;;
  WRITE_LIST_FIELD "objargs" node.(ObjectWithArgs.objargs) ;;;
  WRITE_BOOL_FIELD "args_unspecified" node.(ObjectWithArgs.args_unspecified).

Definition _outAccessPriv (node : AccessPriv.t Node) : dep :=
  WRITE_STRING_FIELD "priv_name" node.(AccessPriv.priv_name) ;;;
  WRITE_LIST_FIELD "cols" node.(AccessPriv.cols).

Definition _outGrantRoleStmt (node : GrantRoleStmt.t Node) : dep :=
  WRITE_LIST_FIELD "granted_roles" node.(GrantRoleStmt.granted_roles) ;;;
  WRITE_LIST_FIELD "grantee_roles" node.(GrantRoleStmt.grantee_roles) ;;;
  WRITE_BOOL_FIELD "is_grant" node.(GrantRoleStmt.is_grant) ;;;
  WRITE_BOOL_FIELD "admin_opt" node.(GrantRoleStmt.admin_opt) ;;;
  WRITE_SPECIFIC_NODE_PTR_FIELD _outRoleSpec "grantor" node.(GrantRoleStmt.grantor) ;;;
  WRITE_ENUM_FIELD _enumToStringDropBehavior "behavior" node.(GrantRoleStmt.behavior).

Definition _outAlterDefaultPrivilegesStmt (node : AlterDefaultPrivilegesStmt.t Node) : dep :=
  WRITE_LIST_FIELD "options" node.(AlterDefaultPrivilegesStmt.options) ;;;
  WRITE_SPECIFIC_NODE_PTR_FIELD _outGrantStmt "action" node.(AlterDefaultPrivilegesStmt.action).

Definition _outCopyStmt (node : CopyStmt.t Node) : dep :=
  WRITE_SPECIFIC_NODE_PTR_FIELD _outRangeVar "relation" node.(CopyStmt.relation) ;;;
  WRITE_NODE_PTR_FIELD "query" node.(CopyStmt.query) ;;;
  WRITE_LIST_FIELD "attlist" node.(CopyStmt.attlist) ;;;
  WRITE_BOOL_FIELD "is_from" node.(CopyStmt.is_from) ;;;
  WRITE_BOOL_FIELD "is_program" node.(CopyStmt.is_program) ;;;
  WRITE_STRING_FIELD "filename" node.(CopyStmt.filename) ;;;
  WRITE_LIST_FIELD "options" node.(CopyStmt.options) ;;;
  WRITE_NODE_PTR_FIELD "whereClause" node.(CopyStmt.whereClause).

Definition _outVariableSetStmt (node : VariableSetStmt.t Node) : dep :=
  WRITE_ENUM_FIELD _enumToStringVariableSetKind "kind" node.(VariableSetStmt.kind) ;;;
  WRITE_STRING_FIELD "name" node.(VariableSetStmt.name) ;;;
  WRITE_LIST_FIELD "args" node.(VariableSetStmt.args) ;;;
  WRITE_BOOL_FIELD "is_local" node.(VariableSetStmt.is_local).

Definition _outVariableShowStmt (node : VariableShowStmt.t Node) : dep :=
  WRITE_STRING_FIELD "name" node.(VariableShowStmt.name).

Definition _outCreateStmt (node : CreateStmt.t Node) : dep :=
  WRITE_SPECIFIC_NODE_PTR_FIELD _outRangeVar "relation" node.(CreateStmt.relation) ;;;
  WRITE_LIST_FIELD "tableElts" node.(CreateStmt.tableElts) ;;;
  WRITE_LIST_FIELD "inhRelations" node.(CreateStmt.inhRelations) ;;;
  WRITE_SPECIFIC_NODE_PTR_FIELD _outPartitionBoundSpec "partbound" node.(CreateStmt.partbound) ;;;
  WRITE_SPECIFIC_NODE_PTR_FIELD _outPartitionSpec "partspec" node.(CreateStmt.partspec) ;;;
  WRITE_SPECIFIC_NODE_PTR_FIELD _outTypeName "ofTypename" node.(CreateStmt.ofTypename) ;;;
  WRITE_LIST_FIELD "constraints" node.(CreateStmt.constraints) ;;;
  WRITE_LIST_FIELD "options" node.(CreateStmt.options) ;;;
  WRITE_ENUM_FIELD _enumToStringOnCommitAction "oncommit" node.(CreateStmt.oncommit) ;;;
  WRITE_STRING_FIELD "tablespacename" node.(CreateStmt.tablespacename) ;;;
  WRITE_STRING_FIELD "accessMethod" node.(CreateStmt.accessMethod) ;;;
  WRITE_BOOL_FIELD "if_not_exists" node.(CreateStmt.if_not_exists).

Definition _outCreateTableSpaceStmt (node : CreateTableSpaceStmt.t Node) : dep :=
  WRITE_STRING_FIELD "tablespacename" node.(CreateTableSpaceStmt.tablespacename) ;;;
  WRITE_SPECIFIC_NODE_PTR_FIELD _outRoleSpec "owner" node.(CreateTableSpaceStmt.owner) ;;;
  WRITE_STRING_FIELD "location" node.(CreateTableSpaceStmt.location) ;;;
  WRITE_LIST_FIELD "options" node.(CreateTableSpaceStmt.options).

Definition _outDropTableSpaceStmt (node : DropTableSpaceStmt.t Node) : dep :=
  WRITE_STRING_FIELD "tablespacename" node.(DropTableSpaceStmt.tablespacename) ;;;
  WRITE_BOOL_FIELD "missing_ok" node.(DropTableSpaceStmt.missing_ok).

Definition _outAlterTableSpaceOptionsStmt (node : AlterTableSpaceOptionsStmt.t Node) : dep :=
  WRITE_STRING_FIELD "tablespacename" node.(AlterTableSpaceOptionsStmt.tablespacename) ;;;
  WRITE_LIST_FIELD "options" node.(AlterTableSpaceOptionsStmt.options) ;;;
  WRITE_BOOL_FIELD "isReset" node.(AlterTableSpaceOptionsStmt.isReset).

Definition _outAlterTableMoveAllStmt (node : AlterTableMoveAllStmt.t Node) : dep :=
  WRITE_STRING_FIELD "orig_tablespacename" node.(AlterTableMoveAllStmt.orig_tablespacename) ;;;
  WRITE_ENUM_FIELD _enumToStringObjectType "objtype" node.(AlterTableMoveAllStmt.objtype) ;;;
  WRITE_LIST_FIELD "roles" node.(AlterTableMoveAllStmt.roles) ;;;
  WRITE_STRING_FIELD "new_tablespacename" node.(AlterTableMoveAllStmt.new_tablespacename) ;;;
  WRITE_BOOL_FIELD "nowait" node.(AlterTableMoveAllStmt.nowait).

Definition _outCreateExtensionStmt (node : CreateExtensionStmt.t Node) : dep :=
  WRITE_STRING_FIELD "extname" node.(CreateExtensionStmt.extname) ;;;
  WRITE_BOOL_FIELD "if_not_exists" node.(CreateExtensionStmt.if_not_exists) ;;;
  WRITE_LIST_FIELD "options" node.(CreateExtensionStmt.options).

Definition _outAlterExtensionStmt (node : AlterExtensionStmt.t Node) : dep :=
  WRITE_STRING_FIELD "extname" node.(AlterExtensionStmt.extname) ;;;
  WRITE_LIST_FIELD "options" node.(AlterExtensionStmt.options).

Definition _outAlterExtensionContentsStmt (node : AlterExtensionContentsStmt.t Node) : dep :=
  WRITE_STRING_FIELD "extname" node.(AlterExtensionContentsStmt.extname) ;;;
  WRITE_INT_FIELD "action" node.(AlterExtensionContentsStmt.action) ;;;
  WRITE_ENUM_FIELD _enumToStringObjectType "objtype" node.(AlterExtensionContentsStmt.objtype) ;;;
  WRITE_NODE_PTR_FIELD "object" node.(AlterExtensionContentsStmt.object).

Definition _outCreateFdwStmt (node : CreateFdwStmt.t Node) : dep :=
  WRITE_STRING_FIELD "fdwname" node.(CreateFdwStmt.fdwname) ;;;
  WRITE_LIST_FIELD "func_options" node.(CreateFdwStmt.func_options) ;;;
  WRITE_LIST_FIELD "options" node.(CreateFdwStmt.options).

Definition _outAlterFdwStmt (node : AlterFdwStmt.t Node) : dep :=
  WRITE_STRING_FIELD "fdwname" node.(AlterFdwStmt.fdwname) ;;;
  WRITE_LIST_FIELD "func_options" node.(AlterFdwStmt.func_options) ;;;
  WRITE_LIST_FIELD "options" node.(AlterFdwStmt.options).

Definition _outCreateForeignServerStmt (node : CreateForeignServerStmt.t Node) : dep :=
  WRITE_STRING_FIELD "servername" node.(CreateForeignServerStmt.servername) ;;;
  WRITE_STRING_FIELD "servertype" node.(CreateForeignServerStmt.servertype) ;;;
  WRITE_STRING_FIELD "version" node.(CreateForeignServerStmt.version) ;;;
  WRITE_STRING_FIELD "fdwname" node.(CreateForeignServerStmt.fdwname) ;;;
  WRITE_BOOL_FIELD "if_not_exists" node.(CreateForeignServerStmt.if_not_exists) ;;;
  WRITE_LIST_FIELD "options" node.(CreateForeignServerStmt.options).

Definition _outAlterForeignServerStmt (node : AlterForeignServerStmt.t Node) : dep :=
  WRITE_STRING_FIELD "servername" node.(AlterForeignServerStmt.servername) ;;;
  WRITE_STRING_FIELD "version" node.(AlterForeignServerStmt.version) ;;;
  WRITE_LIST_FIELD "options" node.(AlterForeignServerStmt.options) ;;;
  WRITE_BOOL_FIELD "has_version" node.(AlterForeignServerStmt.has_version).

Definition _outCreateForeignTableStmt (node : CreateForeignTableStmt.t Node) : dep :=
  WRITE_SPECIFIC_NODE_FIELD _outCreateStmt "base" node.(CreateForeignTableStmt.base) ;;;
  WRITE_STRING_FIELD "servername" node.(CreateForeignTableStmt.servername) ;;;
  WRITE_LIST_FIELD "options" node.(CreateForeignTableStmt.options).

Definition _outCreateUserMappingStmt (node : CreateUserMappingStmt.t Node) : dep :=
  WRITE_SPECIFIC_NODE_PTR_FIELD _outRoleSpec "user" node.(CreateUserMappingStmt.user) ;;;
  WRITE_STRING_FIELD "servername" node.(CreateUserMappingStmt.servername) ;;;
  WRITE_BOOL_FIELD "if_not_exists" node.(CreateUserMappingStmt.if_not_exists) ;;;
  WRITE_LIST_FIELD "options" node.(CreateUserMappingStmt.options).

Definition _outAlterUserMappingStmt (node : AlterUserMappingStmt.t Node) : dep :=
  WRITE_SPECIFIC_NODE_PTR_FIELD _outRoleSpec "user" node.(AlterUserMappingStmt.user) ;;;
  WRITE_STRING_FIELD "servername" node.(AlterUserMappingStmt.servername) ;;;
  WRITE_LIST_FIELD "options" node.(AlterUserMappingStmt.options).

Definition _outDropUserMappingStmt (node : DropUserMappingStmt.t Node) : dep :=
  WRITE_SPECIFIC_NODE_PTR_FIELD _outRoleSpec "user" node.(DropUserMappingStmt.user) ;;;
  WRITE_STRING_FIELD "servername" node.(DropUserMappingStmt.servername) ;;;
  WRITE_BOOL_FIELD "missing_ok" node.(DropUserMappingStmt.missing_ok).

Definition _outImportForeignSchemaStmt (node : ImportForeignSchemaStmt.t Node) : dep :=
  WRITE_STRING_FIELD "server_name" node.(ImportForeignSchemaStmt.server_name) ;;;
  WRITE_STRING_FIELD "remote_schema" node.(ImportForeignSchemaStmt.remote_schema) ;;;
  WRITE_STRING_FIELD "local_schema" node.(ImportForeignSchemaStmt.local_schema) ;;;
  WRITE_ENUM_FIELD _enumToStringImportForeignSchemaType "list_type" node.(ImportForeignSchemaStmt.list_type) ;;;
  WRITE_LIST_FIELD "table_list" node.(ImportForeignSchemaStmt.table_list) ;;;
  WRITE_LIST_FIELD "options" node.(ImportForeignSchemaStmt.options).

Definition _outCreatePolicyStmt (node : CreatePolicyStmt.t Node) : dep :=
  WRITE_STRING_FIELD "policy_name" node.(CreatePolicyStmt.policy_name) ;;;
  WRITE_SPECIFIC_NODE_PTR_FIELD _outRangeVar "table" node.(CreatePolicyStmt.table) ;;;
  WRITE_STRING_FIELD "cmd_name" node.(CreatePolicyStmt.cmd_name) ;;;
  WRITE_BOOL_FIELD "permissive" node.(CreatePolicyStmt.permissive) ;;;
  WRITE_LIST_FIELD "roles" node.(CreatePolicyStmt.roles) ;;;
  WRITE_NODE_PTR_FIELD "qual" node.(CreatePolicyStmt.qual) ;;;
  WRITE_NODE_PTR_FIELD "with_check" node.(CreatePolicyStmt.with_check).

Definition _outAlterPolicyStmt (node : AlterPolicyStmt.t Node) : dep :=
  WRITE_STRING_FIELD "policy_name" node.(AlterPolicyStmt.policy_name) ;;;
  WRITE_SPECIFIC_NODE_PTR_FIELD _outRangeVar "table" node.(AlterPolicyStmt.table) ;;;
  WRITE_LIST_FIELD "roles" node.(AlterPolicyStmt.roles) ;;;
  WRITE_NODE_PTR_FIELD "qual" node.(AlterPolicyStmt.qual) ;;;
  WRITE_NODE_PTR_FIELD "with_check" node.(AlterPolicyStmt.with_check).

Definition _outCreateAmStmt (node : CreateAmStmt.t Node) : dep :=
  WRITE_STRING_FIELD "amname" node.(CreateAmStmt.amname) ;;;
  WRITE_LIST_FIELD "handler_name" node.(CreateAmStmt.handler_name) ;;;
  WRITE_CHAR_FIELD "amtype" node.(CreateAmStmt.amtype).

Definition _outCreateTrigStmt (node : CreateTrigStmt.t Node) : dep :=
  WRITE_STRING_FIELD "trigname" node.(CreateTrigStmt.trigname) ;;;
  WRITE_SPECIFIC_NODE_PTR_FIELD _outRangeVar "relation" node.(CreateTrigStmt.relation) ;;;
  WRITE_LIST_FIELD "funcname" node.(CreateTrigStmt.funcname) ;;;
  WRITE_LIST_FIELD "args" node.(CreateTrigStmt.args) ;;;
  WRITE_BOOL_FIELD "row" node.(CreateTrigStmt.row) ;;;
  WRITE_INT_FIELD "timing" node.(CreateTrigStmt.timing) ;;;
  WRITE_INT_FIELD "events" node.(CreateTrigStmt.events) ;;;
  WRITE_LIST_FIELD "columns" node.(CreateTrigStmt.columns) ;;;
  WRITE_NODE_PTR_FIELD "whenClause" node.(CreateTrigStmt.whenClause) ;;;
  WRITE_BOOL_FIELD "isconstraint" node.(CreateTrigStmt.isconstraint) ;;;
  WRITE_LIST_FIELD "transitionRels" node.(CreateTrigStmt.transitionRels) ;;;
  WRITE_BOOL_FIELD "deferrable" node.(CreateTrigStmt.deferrable) ;;;
  WRITE_BOOL_FIELD "initdeferred" node.(CreateTrigStmt.initdeferred) ;;;
  WRITE_SPECIFIC_NODE_PTR_FIELD _outRangeVar "constrrel" node.(CreateTrigStmt.constrrel).

Definition _outCreateEventTrigStmt (node : CreateEventTrigStmt.t Node) : dep :=
  WRITE_STRING_FIELD "trigname" node.(CreateEventTrigStmt.trigname) ;;;
  WRITE_STRING_FIELD "eventname" node.(CreateEventTrigStmt.eventname) ;;;
  WRITE_LIST_FIELD "whenclause" node.(CreateEventTrigStmt.whenclause) ;;;
  WRITE_LIST_FIELD "funcname" node.(CreateEventTrigStmt.funcname).

Definition _outAlterEventTrigStmt (node : AlterEventTrigStmt.t Node) : dep :=
  WRITE_STRING_FIELD "trigname" node.(AlterEventTrigStmt.trigname) ;;;
  WRITE_CHAR_FIELD "tgenabled" node.(AlterEventTrigStmt.tgenabled).

Definition _outCreatePLangStmt (node : CreatePLangStmt.t Node) : dep :=
  WRITE_BOOL_FIELD "replace" node.(CreatePLangStmt.replace) ;;;
  WRITE_STRING_FIELD "plname" node.(CreatePLangStmt.plname) ;;;
  WRITE_LIST_FIELD "plhandler" node.(CreatePLangStmt.plhandler) ;;;
  WRITE_LIST_FIELD "plinline" node.(CreatePLangStmt.plinline) ;;;
  WRITE_LIST_FIELD "plvalidator" node.(CreatePLangStmt.plvalidator) ;;;
  WRITE_BOOL_FIELD "pltrusted" node.(CreatePLangStmt.pltrusted).

Definition _outCreateRoleStmt (node : CreateRoleStmt.t Node) : dep :=
  WRITE_ENUM_FIELD _enumToStringRoleStmtType "stmt_type" node.(CreateRoleStmt.stmt_type) ;;;
  WRITE_STRING_FIELD "role" node.(CreateRoleStmt.role) ;;;
  WRITE_LIST_FIELD "options" node.(CreateRoleStmt.options).

Definition _outAlterRoleStmt (node : AlterRoleStmt.t Node) : dep :=
  WRITE_SPECIFIC_NODE_PTR_FIELD _outRoleSpec "role" node.(AlterRoleStmt.role) ;;;
  WRITE_LIST_FIELD "options" node.(AlterRoleStmt.options) ;;;
  WRITE_INT_FIELD "action" node.(AlterRoleStmt.action).

Definition _outAlterRoleSetStmt (node : AlterRoleSetStmt.t Node) : dep :=
  WRITE_SPECIFIC_NODE_PTR_FIELD _outRoleSpec "role" node.(AlterRoleSetStmt.role) ;;;
  WRITE_STRING_FIELD "database" node.(AlterRoleSetStmt.database) ;;;
  WRITE_SPECIFIC_NODE_PTR_FIELD _outVariableSetStmt "setstmt" node.(AlterRoleSetStmt.setstmt).

Definition _outDropRoleStmt (node : DropRoleStmt.t Node) : dep :=
  WRITE_LIST_FIELD "roles" node.(DropRoleStmt.roles) ;;;
  WRITE_BOOL_FIELD "missing_ok" node.(DropRoleStmt.missing_ok).

Definition _outCreateSeqStmt (node : CreateSeqStmt.t Node) : dep :=
  WRITE_SPECIFIC_NODE_PTR_FIELD _outRangeVar "sequence" node.(CreateSeqStmt.sequence) ;;;
  WRITE_LIST_FIELD "options" node.(CreateSeqStmt.options) ;;;
  WRITE_UINT_FIELD "ownerId" node.(CreateSeqStmt.ownerId) ;;;
  WRITE_BOOL_FIELD "for_identity" node.(CreateSeqStmt.for_identity) ;;;
  WRITE_BOOL_FIELD "if_not_exists" node.(CreateSeqStmt.if_not_exists).

Definition _outAlterSeqStmt (node : AlterSeqStmt.t Node) : dep :=
  WRITE_SPECIFIC_NODE_PTR_FIELD _outRangeVar "sequence" node.(AlterSeqStmt.sequence) ;;;
  WRITE_LIST_FIELD "options" node.(AlterSeqStmt.options) ;;;
  WRITE_BOOL_FIELD "for_identity" node.(AlterSeqStmt.for_identity) ;;;
  WRITE_BOOL_FIELD "missing_ok" node.(AlterSeqStmt.missing_ok).

Definition _outDefineStmt (node : DefineStmt.t Node) : dep :=
  WRITE_ENUM_FIELD _enumToStringObjectType "kind" node.(DefineStmt.kind) ;;;
  WRITE_BOOL_FIELD "oldstyle" node.(DefineStmt.oldstyle) ;;;
  WRITE_LIST_FIELD "defnames" node.(DefineStmt.defnames) ;;;
  WRITE_LIST_FIELD "args" node.(DefineStmt.args) ;;;
  WRITE_LIST_FIELD "definition" node.(DefineStmt.definition) ;;;
  WRITE_BOOL_FIELD "if_not_exists" node.(DefineStmt.if_not_exists) ;;;
  WRITE_BOOL_FIELD "replace" node.(DefineStmt.replace).

Definition _outCreateDomainStmt (node : CreateDomainStmt.t Node) : dep :=
  WRITE_LIST_FIELD "domainname" node.(CreateDomainStmt.domainname) ;;;
  WRITE_SPECIFIC_NODE_PTR_FIELD _outTypeName "typeName" node.(CreateDomainStmt.typeName) ;;;
  WRITE_SPECIFIC_NODE_PTR_FIELD _outCollateClause "collClause" node.(CreateDomainStmt.collClause) ;;;
  WRITE_LIST_FIELD "constraints" node.(CreateDomainStmt.constraints).

Definition _outCreateOpClassStmt (node : CreateOpClassStmt.t Node) : dep :=
  WRITE_LIST_FIELD "opclassname" node.(CreateOpClassStmt.opclassname) ;;;
  WRITE_LIST_FIELD "opfamilyname" node.(CreateOpClassStmt.opfamilyname) ;;;
  WRITE_STRING_FIELD "amname" node.(CreateOpClassStmt.amname) ;;;
  WRITE_SPECIFIC_NODE_PTR_FIELD _outTypeName "datatype" node.(CreateOpClassStmt.datatype) ;;;
  WRITE_LIST_FIELD "items" node.(CreateOpClassStmt.items) ;;;
  WRITE_BOOL_FIELD "isDefault" node.(CreateOpClassStmt.isDefault).

Definition _outCreateOpClassItem (node : CreateOpClassItem.t Node) : dep :=
  WRITE_INT_FIELD "itemtype" node.(CreateOpClassItem.itemtype) ;;;
  WRITE_SPECIFIC_NODE_PTR_FIELD _outObjectWithArgs "name" node.(CreateOpClassItem.name) ;;;
  WRITE_INT_FIELD "number" node.(CreateOpClassItem.number) ;;;
  WRITE_LIST_FIELD "order_family" node.(CreateOpClassItem.order_family) ;;;
  WRITE_LIST_FIELD "class_args" node.(CreateOpClassItem.class_args) ;;;
  WRITE_SPECIFIC_NODE_PTR_FIELD _outTypeName "storedtype" node.(CreateOpClassItem.storedtype).

Definition _outCreateOpFamilyStmt (node : CreateOpFamilyStmt.t Node) : dep :=
  WRITE_LIST_FIELD "opfamilyname" node.(CreateOpFamilyStmt.opfamilyname) ;;;
  WRITE_STRING_FIELD "amname" node.(CreateOpFamilyStmt.amname).

Definition _outAlterOpFamilyStmt (node : AlterOpFamilyStmt.t Node) : dep :=
  WRITE_LIST_FIELD "opfamilyname" node.(AlterOpFamilyStmt.opfamilyname) ;;;
  WRITE_STRING_FIELD "amname" node.(AlterOpFamilyStmt.amname) ;;;
  WRITE_BOOL_FIELD "isDrop" node.(AlterOpFamilyStmt.isDrop) ;;;
  WRITE_LIST_FIELD "items" node.(AlterOpFamilyStmt.items).

Definition _outDropStmt (node : DropStmt.t Node) : dep :=
  WRITE_LIST_FIELD "objects" node.(DropStmt.objects) ;;;
  WRITE_ENUM_FIELD _enumToStringObjectType "removeType" node.(DropStmt.removeType) ;;;
  WRITE_ENUM_FIELD _enumToStringDropBehavior "behavior" node.(DropStmt.behavior) ;;;
  WRITE_BOOL_FIELD "missing_ok" node.(DropStmt.missing_ok) ;;;
  WRITE_BOOL_FIELD "concurrent" node.(DropStmt.concurrent).

Definition _outTruncateStmt (node : TruncateStmt.t Node) : dep :=
  WRITE_LIST_FIELD "relations" node.(TruncateStmt.relations) ;;;
  WRITE_BOOL_FIELD "restart_seqs" node.(TruncateStmt.restart_seqs) ;;;
  WRITE_ENUM_FIELD _enumToStringDropBehavior "behavior" node.(TruncateStmt.behavior).

Definition _outCommentStmt (node : CommentStmt.t Node) : dep :=
  WRITE_ENUM_FIELD _enumToStringObjectType "objtype" node.(CommentStmt.objtype) ;;;
  WRITE_NODE_PTR_FIELD "object" node.(CommentStmt.object) ;;;
  WRITE_STRING_FIELD "comment" node.(CommentStmt.comment).

Definition _outSecLabelStmt (node : SecLabelStmt.t Node) : dep :=
  WRITE_ENUM_FIELD _enumToStringObjectType "objtype" node.(SecLabelStmt.objtype) ;;;
  WRITE_NODE_PTR_FIELD "object" node.(SecLabelStmt.object) ;;;
  WRITE_STRING_FIELD "provider" node.(SecLabelStmt.provider) ;;;
  WRITE_STRING_FIELD "label" node.(SecLabelStmt.label).

Definition _outDeclareCursorStmt (node : DeclareCursorStmt.t Node) : dep :=
  WRITE_STRING_FIELD "portalname" node.(DeclareCursorStmt.portalname) ;;;
  WRITE_INT_FIELD "options" node.(DeclareCursorStmt.options) ;;;
  WRITE_NODE_PTR_FIELD "query" node.(DeclareCursorStmt.query).

Definition _outClosePortalStmt (node : ClosePortalStmt.t Node) : dep :=
  WRITE_STRING_FIELD "portalname" node.(ClosePortalStmt.portalname).

Definition _outFetchStmt (node : FetchStmt.t Node) : dep :=
  WRITE_ENUM_FIELD _enumToStringFetchDirection "direction" node.(FetchStmt.direction) ;;;
  WRITE_LONG_FIELD "howMany" node.(FetchStmt.howMany) ;;;
  WRITE_STRING_FIELD "portalname" node.(FetchStmt.portalname) ;;;
  WRITE_BOOL_FIELD "ismove" node.(FetchStmt.ismove).

Definition _outIndexStmt (node : IndexStmt.t Node) : dep :=
  WRITE_STRING_FIELD "idxname" node.(IndexStmt.idxname) ;;;
  WRITE_SPECIFIC_NODE_PTR_FIELD _outRangeVar "relation" node.(IndexStmt.relation) ;;;
  WRITE_STRING_FIELD "accessMethod" node.(IndexStmt.accessMethod) ;;;
  WRITE_STRING_FIELD "tableSpace" node.(IndexStmt.tableSpace) ;;;
  WRITE_LIST_FIELD "indexParams" node.(IndexStmt.indexParams) ;;;
  WRITE_LIST_FIELD "indexIncludingParams" node.(IndexStmt.indexIncludingParams) ;;;
  WRITE_LIST_FIELD "options" node.(IndexStmt.options) ;;;
  WRITE_NODE_PTR_FIELD "whereClause" node.(IndexStmt.whereClause) ;;;
  WRITE_LIST_FIELD "excludeOpNames" node.(IndexStmt.excludeOpNames) ;;;
  WRITE_STRING_FIELD "idxcomment" node.(IndexStmt.idxcomment) ;;;
  WRITE_UINT_FIELD "indexOid" node.(IndexStmt.indexOid) ;;;
  WRITE_UINT_FIELD "oldNode" node.(IndexStmt.oldNode) ;;;
  WRITE_UINT_FIELD "oldCreateSubid" node.(IndexStmt.oldCreateSubid) ;;;
  WRITE_UINT_FIELD "oldFirstRelfilenodeSubid" node.(IndexStmt.oldFirstRelfilenodeSubid) ;;;
  WRITE_BOOL_FIELD "unique" node.(IndexStmt.unique) ;;;
  WRITE_BOOL_FIELD "primary" node.(IndexStmt.primary) ;;;
  WRITE_BOOL_FIELD "isconstraint" node.(IndexStmt.isconstraint) ;;;
  WRITE_BOOL_FIELD "deferrable" node.(IndexStmt.deferrable) ;;;
  WRITE_BOOL_FIELD "initdeferred" node.(IndexStmt.initdeferred) ;;;
  WRITE_BOOL_FIELD "transformed" node.(IndexStmt.transformed) ;;;
  WRITE_BOOL_FIELD "concurrent" node.(IndexStmt.concurrent) ;;;
  WRITE_BOOL_FIELD "if_not_exists" node.(IndexStmt.if_not_exists) ;;;
  WRITE_BOOL_FIELD "reset_default_tblspc" node.(IndexStmt.reset_default_tblspc).

Definition _outCreateStatsStmt (node : CreateStatsStmt.t Node) : dep :=
  WRITE_LIST_FIELD "defnames" node.(CreateStatsStmt.defnames) ;;;
  WRITE_LIST_FIELD "stat_types" node.(CreateStatsStmt.stat_types) ;;;
  WRITE_LIST_FIELD "exprs" node.(CreateStatsStmt.exprs) ;;;
  WRITE_LIST_FIELD "relations" node.(CreateStatsStmt.relations) ;;;
  WRITE_STRING_FIELD "stxcomment" node.(CreateStatsStmt.stxcomment) ;;;
  WRITE_BOOL_FIELD "if_not_exists" node.(CreateStatsStmt.if_not_exists).

Definition _outAlterStatsStmt (node : AlterStatsStmt.t Node) : dep :=
  WRITE_LIST_FIELD "defnames" node.(AlterStatsStmt.defnames) ;;;
  WRITE_INT_FIELD "stxstattarget" node.(AlterStatsStmt.stxstattarget) ;;;
  WRITE_BOOL_FIELD "missing_ok" node.(AlterStatsStmt.missing_ok).

Definition _outCreateFunctionStmt (node : CreateFunctionStmt.t Node) : dep :=
  WRITE_BOOL_FIELD "is_procedure" node.(CreateFunctionStmt.is_procedure) ;;;
  WRITE_BOOL_FIELD "replace" node.(CreateFunctionStmt.replace) ;;;
  WRITE_LIST_FIELD "funcname" node.(CreateFunctionStmt.funcname) ;;;
  WRITE_LIST_FIELD "parameters" node.(CreateFunctionStmt.parameters) ;;;
  WRITE_SPECIFIC_NODE_PTR_FIELD _outTypeName "returnType" node.(CreateFunctionStmt.returnType) ;;;
  WRITE_LIST_FIELD "options" node.(CreateFunctionStmt.options).

Definition _outFunctionParameter (node : FunctionParameter.t Node) : dep :=
  WRITE_STRING_FIELD "name" node.(FunctionParameter.name) ;;;
  WRITE_SPECIFIC_NODE_PTR_FIELD _outTypeName "argType" node.(FunctionParameter.argType) ;;;
  WRITE_ENUM_FIELD _enumToStringFunctionParameterMode "mode" node.(FunctionParameter.mode) ;;;
  WRITE_NODE_PTR_FIELD "defexpr" node.(FunctionParameter.defexpr).

Definition _outAlterFunctionStmt (node : AlterFunctionStmt.t Node) : dep :=
  WRITE_ENUM_FIELD _enumToStringObjectType "objtype" node.(AlterFunctionStmt.objtype) ;;;
  WRITE_SPECIFIC_NODE_PTR_FIELD _outObjectWithArgs "func" node.(AlterFunctionStmt.func) ;;;
  WRITE_LIST_FIELD "actions" node.(AlterFunctionStmt.actions).

Definition _outDoStmt (node : DoStmt.t Node) : dep :=
  WRITE_LIST_FIELD "args" node.(DoStmt.args).

Definition _outFuncExpr (node : FuncExpr.t Node) : dep :=
  WRITE_UINT_FIELD "funcid" node.(FuncExpr.funcid) ;;;
  WRITE_UINT_FIELD "funcresulttype" node.(FuncExpr.funcresulttype) ;;;
  WRITE_BOOL_FIELD "funcretset" node.(FuncExpr.funcretset) ;;;
  WRITE_BOOL_FIELD "funcvariadic" node.(FuncExpr.funcvariadic) ;;;
  WRITE_ENUM_FIELD _enumToStringCoercionForm "funcformat" node.(FuncExpr.funcformat) ;;;
  WRITE_UINT_FIELD "funccollid" node.(FuncExpr.funccollid) ;;;
  WRITE_UINT_FIELD "inputcollid" node.(FuncExpr.inputcollid) ;;;
  WRITE_LIST_FIELD "args" node.(FuncExpr.args) ;;;
  WRITE_INT_FIELD "location" node.(FuncExpr.location).

Definition _outCallStmt (node : CallStmt.t Node) : dep :=
  WRITE_SPECIFIC_NODE_PTR_FIELD _outFuncCall "funccall" node.(CallStmt.funccall) ;;;
  WRITE_SPECIFIC_NODE_PTR_FIELD _outFuncExpr "funcexpr" node.(CallStmt.funcexpr).

Definition _outRenameStmt (node : RenameStmt.t Node) : dep :=
  WRITE_ENUM_FIELD _enumToStringObjectType "renameType" node.(RenameStmt.renameType) ;;;
  WRITE_ENUM_FIELD _enumToStringObjectType "relationType" node.(RenameStmt.relationType) ;;;
  WRITE_SPECIFIC_NODE_PTR_FIELD _outRangeVar "relation" node.(RenameStmt.relation) ;;;
  WRITE_NODE_PTR_FIELD "object" node.(RenameStmt.object) ;;;
  WRITE_STRING_FIELD "subname" node.(RenameStmt.subname) ;;;
  WRITE_STRING_FIELD "newname" node.(RenameStmt.newname) ;;;
  WRITE_ENUM_FIELD _enumToStringDropBehavior "behavior" node.(RenameStmt.behavior) ;;;
  WRITE_BOOL_FIELD "missing_ok" node.(RenameStmt.missing_ok).

Definition _outAlterObjectDependsStmt (node : AlterObjectDependsStmt.t Node) : dep :=
  WRITE_ENUM_FIELD _enumToStringObjectType "objectType" node.(AlterObjectDependsStmt.objectType) ;;;
  WRITE_SPECIFIC_NODE_PTR_FIELD _outRangeVar "relation" node.(AlterObjectDependsStmt.relation) ;;;
  WRITE_NODE_PTR_FIELD "object" node.(AlterObjectDependsStmt.object) ;;;
  WRITE_NODE_PTR_FIELD "extname" node.(AlterObjectDependsStmt.extname) ;;;
  WRITE_BOOL_FIELD "remove" node.(AlterObjectDependsStmt.remove).

Definition _outAlterObjectSchemaStmt (node : AlterObjectSchemaStmt.t Node) : dep :=
  WRITE_ENUM_FIELD _enumToStringObjectType "objectType" node.(AlterObjectSchemaStmt.objectType) ;;;
  WRITE_SPECIFIC_NODE_PTR_FIELD _outRangeVar "relation" node.(AlterObjectSchemaStmt.relation) ;;;
  WRITE_NODE_PTR_FIELD "object" node.(AlterObjectSchemaStmt.object) ;;;
  WRITE_STRING_FIELD "newschema" node.(AlterObjectSchemaStmt.newschema) ;;;
  WRITE_BOOL_FIELD "missing_ok" node.(AlterObjectSchemaStmt.missing_ok).

Definition _outAlterOwnerStmt (node : AlterOwnerStmt.t Node) : dep :=
  WRITE_ENUM_FIELD _enumToStringObjectType "objectType" node.(AlterOwnerStmt.objectType) ;;;
  WRITE_SPECIFIC_NODE_PTR_FIELD _outRangeVar "relation" node.(AlterOwnerStmt.relation) ;;;
  WRITE_NODE_PTR_FIELD "object" node.(AlterOwnerStmt.object) ;;;
  WRITE_SPECIFIC_NODE_PTR_FIELD _outRoleSpec "newowner" node.(AlterOwnerStmt.newowner).

Definition _outAlterOperatorStmt (node : AlterOperatorStmt.t Node) : dep :=
  WRITE_SPECIFIC_NODE_PTR_FIELD _outObjectWithArgs "opername" node.(AlterOperatorStmt.opername) ;;;
  WRITE_LIST_FIELD "options" node.(AlterOperatorStmt.options).

Definition _outAlterTypeStmt (node : AlterTypeStmt.t Node) : dep :=
  WRITE_LIST_FIELD "typeName" node.(AlterTypeStmt.typeName) ;;;
  WRITE_LIST_FIELD "options" node.(AlterTypeStmt.options).

Definition _outRuleStmt (node : RuleStmt.t Node) : dep :=
  WRITE_SPECIFIC_NODE_PTR_FIELD _outRangeVar "relation" node.(RuleStmt.relation) ;;;
  WRITE_STRING_FIELD "rulename" node.(RuleStmt.rulename) ;;;
  WRITE_NODE_PTR_FIELD "whereClause" node.(RuleStmt.whereClause) ;;;
  WRITE_ENUM_FIELD _enumToStringCmdType "event" node.(RuleStmt.event) ;;;
  WRITE_BOOL_FIELD "instead" node.(RuleStmt.instead) ;;;
  WRITE_LIST_FIELD "actions" node.(RuleStmt.actions) ;;;
  WRITE_BOOL_FIELD "replace" node.(RuleStmt.replace).

Definition _outNotifyStmt (node : NotifyStmt.t Node) : dep :=
  WRITE_STRING_FIELD "conditionname" node.(NotifyStmt.conditionname) ;;;
  WRITE_STRING_FIELD "payload" node.(NotifyStmt.payload).

Definition _outListenStmt (node : ListenStmt.t Node) : dep :=
  WRITE_STRING_FIELD "conditionname" node.(ListenStmt.conditionname).

Definition _outUnlistenStmt (node : UnlistenStmt.t Node) : dep :=
  WRITE_STRING_FIELD "conditionname" node.(UnlistenStmt.conditionname).

Definition _outTransactionStmt (node : TransactionStmt.t Node) : dep :=
  WRITE_ENUM_FIELD _enumToStringTransactionStmtKind "kind" node.(TransactionStmt.kind) ;;;
  WRITE_LIST_FIELD "options" node.(TransactionStmt.options) ;;;
  WRITE_STRING_FIELD "savepoint_name" node.(TransactionStmt.savepoint_name) ;;;
  WRITE_STRING_FIELD "gid" node.(TransactionStmt.gid) ;;;
  WRITE_BOOL_FIELD "chain" node.(TransactionStmt.chain).

Definition _outCompositeTypeStmt (node : CompositeTypeStmt.t Node) : dep :=
  WRITE_SPECIFIC_NODE_PTR_FIELD _outRangeVar "typevar" node.(CompositeTypeStmt.typevar) ;;;
  WRITE_LIST_FIELD "coldeflist" node.(CompositeTypeStmt.coldeflist).

Definition _outCreateEnumStmt (node : CreateEnumStmt.t Node) : dep :=
  WRITE_LIST_FIELD "typeName" node.(CreateEnumStmt.typeName) ;;;
  WRITE_LIST_FIELD "vals" node.(CreateEnumStmt.vals).

Definition _outCreateRangeStmt (node : CreateRangeStmt.t Node) : dep :=
  WRITE_LIST_FIELD "typeName" node.(CreateRangeStmt.typeName) ;;;
  WRITE_LIST_FIELD "params" node.(CreateRangeStmt.params).

Definition _outAlterEnumStmt (node : AlterEnumStmt.t Node) : dep :=
  WRITE_LIST_FIELD "typeName" node.(AlterEnumStmt.typeName) ;;;
  WRITE_STRING_FIELD "oldVal" node.(AlterEnumStmt.oldVal) ;;;
  WRITE_STRING_FIELD "newVal" node.(AlterEnumStmt.newVal) ;;;
  WRITE_STRING_FIELD "newValNeighbor" node.(AlterEnumStmt.newValNeighbor) ;;;
  WRITE_BOOL_FIELD "newValIsAfter" node.(AlterEnumStmt.newValIsAfter) ;;;
  WRITE_BOOL_FIELD "skipIfNewValExists" node.(AlterEnumStmt.skipIfNewValExists).

Definition _outViewStmt (node : ViewStmt.t Node) : dep :=
  WRITE_SPECIFIC_NODE_PTR_FIELD _outRangeVar "view" node.(ViewStmt.view) ;;;
  WRITE_LIST_FIELD "aliases" node.(ViewStmt.aliases) ;;;
  WRITE_NODE_PTR_FIELD "query" node.(ViewStmt.query) ;;;
  WRITE_BOOL_FIELD "replace" node.(ViewStmt.replace) ;;;
  WRITE_LIST_FIELD "options" node.(ViewStmt.options) ;;;
  WRITE_ENUM_FIELD _enumToStringViewCheckOption "withCheckOption" node.(ViewStmt.withCheckOption).

Definition _outLoadStmt (node : LoadStmt.t Node) : dep :=
  WRITE_STRING_FIELD "filename" node.(LoadStmt.filename).

Definition _outCreatedbStmt (node : CreatedbStmt.t Node) : dep :=
  WRITE_STRING_FIELD "dbname" node.(CreatedbStmt.dbname) ;;;
  WRITE_LIST_FIELD "options" node.(CreatedbStmt.options).

Definition _outAlterDatabaseStmt (node : AlterDatabaseStmt.t Node) : dep :=
  WRITE_STRING_FIELD "dbname" node.(AlterDatabaseStmt.dbname) ;;;
  WRITE_LIST_FIELD "options" node.(AlterDatabaseStmt.options).

Definition _outAlterDatabaseSetStmt (node : AlterDatabaseSetStmt.t Node) : dep :=
  WRITE_STRING_FIELD "dbname" node.(AlterDatabaseSetStmt.dbname) ;;;
  WRITE_SPECIFIC_NODE_PTR_FIELD _outVariableSetStmt "setstmt" node.(AlterDatabaseSetStmt.setstmt).

Definition _outDropdbStmt (node : DropdbStmt.t Node) : dep :=
  WRITE_STRING_FIELD "dbname" node.(DropdbStmt.dbname) ;;;
  WRITE_BOOL_FIELD "missing_ok" node.(DropdbStmt.missing_ok) ;;;
  WRITE_LIST_FIELD "options" node.(DropdbStmt.options).

Definition _outAlterSystemStmt (node : AlterSystemStmt.t Node) : dep :=
  WRITE_SPECIFIC_NODE_PTR_FIELD _outVariableSetStmt "setstmt" node.(AlterSystemStmt.setstmt).

Definition _outClusterStmt (node : ClusterStmt.t Node) : dep :=
  WRITE_SPECIFIC_NODE_PTR_FIELD _outRangeVar "relation" node.(ClusterStmt.relation) ;;;
  WRITE_STRING_FIELD "indexname" node.(ClusterStmt.indexname) ;;;
  WRITE_INT_FIELD "options" node.(ClusterStmt.options).

Definition _outVacuumStmt (node : VacuumStmt.t Node) : dep :=
  WRITE_LIST_FIELD "options" node.(VacuumStmt.options) ;;;
  WRITE_LIST_FIELD "rels" node.(VacuumStmt.rels) ;;;
  WRITE_BOOL_FIELD "is_vacuumcmd" node.(VacuumStmt.is_vacuumcmd).

Definition _outVacuumRelation (node : VacuumRelation.t Node) : dep :=
  WRITE_SPECIFIC_NODE_PTR_FIELD _outRangeVar "relation" node.(VacuumRelation.relation) ;;;
  WRITE_UINT_FIELD "oid" node.(VacuumRelation.oid) ;;;
  WRITE_LIST_FIELD "va_cols" node.(VacuumRelation.va_cols).

Definition _outExplainStmt (node : ExplainStmt.t Node) : dep :=
  WRITE_NODE_PTR_FIELD "query" node.(ExplainStmt.query) ;;;
  WRITE_LIST_FIELD "options" node.(ExplainStmt.options).

Definition _outCreateTableAsStmt (node : CreateTableAsStmt.t Node) : dep :=
  WRITE_NODE_PTR_FIELD "query" node.(CreateTableAsStmt.query) ;;;
  WRITE_SPECIFIC_NODE_PTR_FIELD _outIntoClause "into" node.(CreateTableAsStmt.into) ;;;
  WRITE_ENUM_FIELD _enumToStringObjectType "relkind" node.(CreateTableAsStmt.relkind) ;;;
  WRITE_BOOL_FIELD "is_select_into" node.(CreateTableAsStmt.is_select_into) ;;;
  WRITE_BOOL_FIELD "if_not_exists" node.(CreateTableAsStmt.if_not_exists).

Definition _outRefreshMatViewStmt (node : RefreshMatViewStmt.t Node) : dep :=
  WRITE_BOOL_FIELD "concurrent" node.(RefreshMatViewStmt.concurrent) ;;;
  WRITE_BOOL_FIELD "skipData" node.(RefreshMatViewStmt.skipData) ;;;
  WRITE_SPECIFIC_NODE_PTR_FIELD _outRangeVar "relation" node.(RefreshMatViewStmt.relation).

Definition _outCheckPointStmt (node : CheckPointStmt.t Node) : dep :=
  skip.

Definition _outDiscardStmt (node : DiscardStmt.t Node) : dep :=
  WRITE_ENUM_FIELD _enumToStringDiscardMode "target" node.(DiscardStmt.target).

Definition _outLockStmt (node : LockStmt.t Node) : dep :=
  WRITE_LIST_FIELD "relations" node.(LockStmt.relations) ;;;
  WRITE_INT_FIELD "mode" node.(LockStmt.mode) ;;;
  WRITE_BOOL_FIELD "nowait" node.(LockStmt.nowait).

Definition _outConstraintsSetStmt (node : ConstraintsSetStmt.t Node) : dep :=
  WRITE_LIST_FIELD "constraints" node.(ConstraintsSetStmt.constraints) ;;;
  WRITE_BOOL_FIELD "deferred" node.(ConstraintsSetStmt.deferred).

Definition _outReindexStmt (node : ReindexStmt.t Node) : dep :=
  WRITE_ENUM_FIELD _enumToStringReindexObjectType "kind" node.(ReindexStmt.kind) ;;;
  WRITE_SPECIFIC_NODE_PTR_FIELD _outRangeVar "relation" node.(ReindexStmt.relation) ;;;
  WRITE_STRING_FIELD "name" node.(ReindexStmt.name) ;;;
  WRITE_INT_FIELD "options" node.(ReindexStmt.options) ;;;
  WRITE_BOOL_FIELD "concurrent" node.(ReindexStmt.concurrent).

Definition _outCreateConversionStmt (node : CreateConversionStmt.t Node) : dep :=
  WRITE_LIST_FIELD "conversion_name" node.(CreateConversionStmt.conversion_name) ;;;
  WRITE_STRING_FIELD "for_encoding_name" node.(CreateConversionStmt.for_encoding_name) ;;;
  WRITE_STRING_FIELD "to_encoding_name" node.(CreateConversionStmt.to_encoding_name) ;;;
  WRITE_LIST_FIELD "func_name" node.(CreateConversionStmt.func_name) ;;;
  WRITE_BOOL_FIELD "def" node.(CreateConversionStmt.def).

Definition _outCreateCastStmt (node : CreateCastStmt.t Node) : dep :=
  WRITE_SPECIFIC_NODE_PTR_FIELD _outTypeName "sourcetype" node.(CreateCastStmt.sourcetype) ;;;
  WRITE_SPECIFIC_NODE_PTR_FIELD _outTypeName "targettype" node.(CreateCastStmt.targettype) ;;;
  WRITE_SPECIFIC_NODE_PTR_FIELD _outObjectWithArgs "func" node.(CreateCastStmt.func) ;;;
  WRITE_ENUM_FIELD _enumToStringCoercionContext "context" node.(CreateCastStmt.context) ;;;
  WRITE_BOOL_FIELD "inout" node.(CreateCastStmt.inout).

Definition _outCreateTransformStmt (node : CreateTransformStmt.t Node) : dep :=
  WRITE_BOOL_FIELD "replace" node.(CreateTransformStmt.replace) ;;;
  WRITE_SPECIFIC_NODE_PTR_FIELD _outTypeName "type_name" node.(CreateTransformStmt.type_name) ;;;
  WRITE_STRING_FIELD "lang" node.(CreateTransformStmt.lang) ;;;
  WRITE_SPECIFIC_NODE_PTR_FIELD _outObjectWithArgs "fromsql" node.(CreateTransformStmt.fromsql) ;;;
  WRITE_SPECIFIC_NODE_PTR_FIELD _outObjectWithArgs "tosql" node.(CreateTransformStmt.tosql).

Definition _outPrepareStmt (node : PrepareStmt.t Node) : dep :=
  WRITE_STRING_FIELD "name" node.(PrepareStmt.name) ;;;
  WRITE_LIST_FIELD "argtypes" node.(PrepareStmt.argtypes) ;;;
  WRITE_NODE_PTR_FIELD "query" node.(PrepareStmt.query).

Definition _outExecuteStmt (node : ExecuteStmt.t Node) : dep :=
  WRITE_STRING_FIELD "name" node.(ExecuteStmt.name) ;;;
  WRITE_LIST_FIELD "params" node.(ExecuteStmt.params).

Definition _outDeallocateStmt (node : DeallocateStmt.t Node) : dep :=
  WRITE_STRING_FIELD "name" node.(DeallocateStmt.name).

Definition _outDropOwnedStmt (node : DropOwnedStmt.t Node) : dep :=
  WRITE_LIST_FIELD "roles" node.(DropOwnedStmt.roles) ;;;
  WRITE_ENUM_FIELD _enumToStringDropBehavior "behavior" node.(DropOwnedStmt.behavior).

Definition _outReassignOwnedStmt (node : ReassignOwnedStmt.t Node) : dep :=
  WRITE_LIST_FIELD "roles" node.(ReassignOwnedStmt.roles) ;;;
  WRITE_SPECIFIC_NODE_PTR_FIELD _outRoleSpec "newrole" node.(ReassignOwnedStmt.newrole).

Definition _outAlterTSDictionaryStmt (node : AlterTSDictionaryStmt.t Node) : dep :=
  WRITE_LIST_FIELD "dictname" node.(AlterTSDictionaryStmt.dictname) ;;;
  WRITE_LIST_FIELD "options" node.(AlterTSDictionaryStmt.options).

Definition _outAlterTSConfigurationStmt (node : AlterTSConfigurationStmt.t Node) : dep :=
  WRITE_ENUM_FIELD _enumToStringAlterTSConfigType "kind" node.(AlterTSConfigurationStmt.kind) ;;;
  WRITE_LIST_FIELD "cfgname" node.(AlterTSConfigurationStmt.cfgname) ;;;
  WRITE_LIST_FIELD "tokentype" node.(AlterTSConfigurationStmt.tokentype) ;;;
  WRITE_LIST_FIELD "dicts" node.(AlterTSConfigurationStmt.dicts) ;;;
  WRITE_BOOL_FIELD "override" node.(AlterTSConfigurationStmt.override) ;;;
  WRITE_BOOL_FIELD "replace" node.(AlterTSConfigurationStmt.replace) ;;;
  WRITE_BOOL_FIELD "missing_ok" node.(AlterTSConfigurationStmt.missing_ok).

Definition _outCreatePublicationStmt (node : CreatePublicationStmt.t Node) : dep :=
  WRITE_STRING_FIELD "pubname" node.(CreatePublicationStmt.pubname) ;;;
  WRITE_LIST_FIELD "options" node.(CreatePublicationStmt.options) ;;;
  WRITE_LIST_FIELD "tables" node.(CreatePublicationStmt.tables) ;;;
  WRITE_BOOL_FIELD "for_all_tables" node.(CreatePublicationStmt.for_all_tables).

Definition _outAlterPublicationStmt (node : AlterPublicationStmt.t Node) : dep :=
  WRITE_STRING_FIELD "pubname" node.(AlterPublicationStmt.pubname) ;;;
  WRITE_LIST_FIELD "options" node.(AlterPublicationStmt.options) ;;;
  WRITE_LIST_FIELD "tables" node.(AlterPublicationStmt.tables) ;;;
  WRITE_BOOL_FIELD "for_all_tables" node.(AlterPublicationStmt.for_all_tables) ;;;
  WRITE_ENUM_FIELD _enumToStringDefElemAction "tableAction" node.(AlterPublicationStmt.tableAction).

Definition _outCreateSubscriptionStmt (node : CreateSubscriptionStmt.t Node) : dep :=
  WRITE_STRING_FIELD "subname" node.(CreateSubscriptionStmt.subname) ;;;
  WRITE_STRING_FIELD "conninfo" node.(CreateSubscriptionStmt.conninfo) ;;;
  WRITE_LIST_FIELD "publication" node.(CreateSubscriptionStmt.publication) ;;;
  WRITE_LIST_FIELD "options" node.(CreateSubscriptionStmt.options).

Definition _outAlterSubscriptionStmt (node : AlterSubscriptionStmt.t Node) : dep :=
  WRITE_ENUM_FIELD _enumToStringAlterSubscriptionType "kind" node.(AlterSubscriptionStmt.kind) ;;;
  WRITE_STRING_FIELD "subname" node.(AlterSubscriptionStmt.subname) ;;;
  WRITE_STRING_FIELD "conninfo" node.(AlterSubscriptionStmt.conninfo) ;;;
  WRITE_LIST_FIELD "publication" node.(AlterSubscriptionStmt.publication) ;;;
  WRITE_LIST_FIELD "options" node.(AlterSubscriptionStmt.options).

Definition _outDropSubscriptionStmt (node : DropSubscriptionStmt.t Node) : dep :=
  WRITE_STRING_FIELD "subname" node.(DropSubscriptionStmt.subname) ;;;
  WRITE_BOOL_FIELD "missing_ok" node.(DropSubscriptionStmt.missing_ok) ;;;
  WRITE_ENUM_FIELD _enumToStringDropBehavior "behavior" node.(DropSubscriptionStmt.behavior).

(** The [switch] of [_outNode]. *)
Definition out_conds (obj : Node) : dep :=
  match obj with
  | N_List l => OUT_NODE "List" (_outList l)
  | N_Value v => value_conds v
  | N_RangeVar node => OUT_NODE "RangeVar" (_outRangeVar node)
  | N_Alias node => OUT_NODE "Alias" (_outAlias node)
  | N_TypeName node => OUT_NODE "TypeName" (_outTypeName node)
  | N_ColumnRef node => OUT_NODE "ColumnRef" (_outColumnRef node)
  | N_ParamRef node => OUT_NODE "ParamRef" (_outParamRef node)
  | N_A_Expr node => OUT_NODE "A_Expr" (_outAExpr node)
  | N_A_Const node => OUT_NODE "A_Const" (_outAConst node)
  | N_TypeCast node => OUT_NODE "TypeCast" (_outTypeCast node)
  | N_CollateClause node => OUT_NODE "CollateClause" (_outCollateClause node)
  | N_RoleSpec node => OUT_NODE "RoleSpec" (_outRoleSpec node)
  | N_WindowDef node => OUT_NODE "WindowDef" (_outWindowDef node)
  | N_SortBy node => OUT_NODE "SortBy" (_outSortBy node)
  | N_FuncCall node => OUT_NODE "FuncCall" (_outFuncCall node)
  | N_A_Star node => OUT_NODE "A_Star" (_outAStar node)
  | N_A_Indices node => OUT_NODE "A_Indices" (_outAIndices node)
  | N_A_Indirection node => OUT_NODE "A_Indirection" (_outAIndirection node)
  | N_A_ArrayExpr node => OUT_NODE "A_ArrayExpr" (_outAArrayExpr node)
  | N_ResTarget node => OUT_NODE "ResTarget" (_outResTarget node)
  | N_MultiAssignRef node => OUT_NODE "MultiAssignRef" (_outMultiAssignRef node)
  | N_NamedArgExpr node => OUT_NODE "NamedArgExpr" (_outNamedArgExpr node)
  | N_BoolExpr node => OUT_NODE "BoolExpr" (_outBoolExpr node)
  | N_SubLink node => OUT_NODE "SubLink" (_outSubLink node)
  | N_CaseWhen node => OUT_NODE "CaseWhen" (_outCaseWhen node)
  | N_CaseExpr node => OUT_NODE "CaseExpr" (_outCaseExpr node)
  | N_RowExpr node => OUT_NODE "RowExpr" (_outRowExpr node)
  | N_CoalesceExpr node => OUT_NODE "CoalesceExpr" (_outCoalesceExpr node)
  | N_MinMaxExpr node => OUT_NODE "MinMaxExpr" (_outMinMaxExpr node)
  | N_SQLValueFunction node => OUT_NODE "SQLValueFunction" (_outSQLValueFunction node)
  | N_XmlExpr node => OUT_NODE "XmlExpr" (_outXmlExpr node)
  | N_XmlSerialize node => OUT_NODE "XmlSerialize" (_outXmlSerialize node)
  | N_NullTest node => OUT_NODE "NullTest" (_outNullTest node)
  | N_BooleanTest node => OUT_NODE "BooleanTest" (_outBooleanTest node)
  | N_SetToDefault node => OUT_NODE "SetToDefault" (_outSetToDefault node)
  | N_CurrentOfExpr node => OUT_NODE "CurrentOfExpr" (_outCurrentOfExpr node)
  | N_GroupingFunc node => OUT_NODE "GroupingFunc" (_outGroupingFunc node)
  | N_DefElem node => OUT_NODE "DefElem" (_outDefElem node)
  | N_IndexElem node => OUT_NODE "IndexElem" (_outIndexElem node)
  | N_Constraint node => OUT_NODE "Constraint" (_outConstraint node)
  | N_ColumnDef node => OUT_NODE "ColumnDef" (_outColumnDef node)
  | N_JoinExpr node => OUT_NODE "JoinExpr" (_outJoinExpr node)
  | N_RangeSubselect node => OUT_NODE "RangeSubselect" (_outRangeSubselect node)
  | N_RangeFunction node => OUT_NODE "RangeFunction" (_outRangeFunction node)
  | N_RangeTableFuncCol node => OUT_NODE "RangeTableFuncCol" (_outRangeTableFuncCol node)
  | N_RangeTableFunc node => OUT_NODE "RangeTableFunc" (_outRangeTableFunc node)
  | N_RangeTableSample node => OUT_NODE "RangeTableSample" (_outRangeTableSample node)
  | N_CommonTableExpr node => OUT_NODE "CommonTableExpr" (_outCommonTableExpr node)
  | N_WithClause node => OUT_NODE "WithClause" (_outWithClause node)
  | N_InferClause node => OUT_NODE "InferClause" (_outInferClause node)
  | N_OnConflictClause node => OUT_NODE "OnConflictClause" (_outOnConflictClause node)
  | N_LockingClause node => OUT_NODE "LockingClause" (_outLockingClause node)
  | N_GroupingSet node => OUT_NODE "GroupingSet" (_outGroupingSet node)
  | N_IntoClause node => OUT_NODE "IntoClause" (_outIntoClause node)
  | N_SelectStmt node => OUT_NODE "SelectStmt" (_outSelectStmt node)
  | N_InsertStmt node => OUT_NODE "InsertStmt" (_outInsertStmt node)
  | N_UpdateStmt node => OUT_NODE "UpdateStmt" (_outUpdateStmt node)
  | N_DeleteStmt node => OUT_NODE "DeleteStmt" (_outDeleteStmt node)
  | N_RawStmt node => OUT_NODE "RawStmt" (_outRawStmt node)
  | N_AlterTableCmd node => OUT_NODE "AlterTableCmd" (_outAlterTableCmd node)
  | N_PartitionBoundSpec node => OUT_NODE "PartitionBoundSpec" (_outPartitionBoundSpec node)
  | N_TableLikeClause node => OUT_NODE "TableLikeClause" (_outTableLikeClause node)
  | N_PartitionElem node => OUT_NODE "PartitionElem" (_outPartitionElem node)
  | N_PartitionSpec node => OUT_NODE "PartitionSpec" (_outPartitionSpec node)
  | N_PartitionCmd node => OUT_NODE "PartitionCmd" (_outPartitionCmd node)
  | N_TriggerTransition node => OUT_NODE "TriggerTransition" (_outTriggerTransition node)
  | N_CreateSchemaStmt node => OUT_NODE "CreateSchemaStmt" (_outCreateSchemaStmt node)
  | N_AlterTableStmt node => OUT_NODE "AlterTableStmt" (_outAlterTableStmt node)
  | N_ReplicaIdentityStmt node => OUT_NODE "ReplicaIdentityStmt" (_outReplicaIdentityStmt node)
  | N_AlterCollationStmt node => OUT_NODE "AlterCollationStmt" (_outAlterCollationStmt node)
  | N_AlterDomainStmt node => OUT_NODE "AlterDomainStmt" (_outAlterDomainStmt node)
  | N_GrantStmt node => OUT_NODE "GrantStmt" (_outGrantStmt node)
  | N_ObjectWithArgs node => OUT_NODE "ObjectWithArgs" (_outObjectWithArgs node)
  | N_AccessPriv node => OUT_NODE "AccessPriv" (_outAccessPriv node)
  | N_GrantRoleStmt node => OUT_NODE "GrantRoleStmt" (_outGrantRoleStmt node)
  | N_AlterDefaultPrivilegesStmt node => OUT_NODE "AlterDefaultPrivilegesStmt" (_outAlterDefaultPrivilegesStmt node)
  | N_CopyStmt node => OUT_NODE "CopyStmt" (_outCopyStmt node)
  | N_VariableSetStmt node => OUT_NODE "VariableSetStmt" (_outVariableSetStmt node)
  | N_VariableShowStmt node => OUT_NODE "VariableShowStmt" (_outVariableShowStmt node)
  | N_CreateStmt node => OUT_NODE "CreateStmt" (_outCreateStmt node)
  | N_CreateTableSpaceStmt node => OUT_NODE "CreateTableSpaceStmt" (_outCreateTableSpaceStmt node)
  | N_DropTableSpaceStmt node => OUT_NODE "DropTableSpaceStmt" (_outDropTableSpaceStmt node)
  | N_AlterTableSpaceOptionsStmt node => OUT_NODE "AlterTableSpaceOptionsStmt" (_outAlterTableSpaceOptionsStmt node)
  | N_AlterTableMoveAllStmt node => OUT_NODE "AlterTableMoveAllStmt" (_outAlterTableMoveAllStmt node)
  | N_CreateExtensionStmt node => OUT_NODE "CreateExtensionStmt" (_outCreateExtensionStmt node)
  | N_AlterExtensionStmt node => OUT_NODE "AlterExtensionStmt" (_outAlterExtensionStmt node)
  | N_AlterExtensionContentsStmt node => OUT_NODE "AlterExtensionContentsStmt" (_outAlterExtensionContentsStmt node)
  | N_CreateFdwStmt node => OUT_NODE "CreateFdwStmt" (_outCreateFdwStmt node)
  | N_AlterFdwStmt node => OUT_NODE "AlterFdwStmt" (_outAlterFdwStmt node)
  | N_CreateForeignServerStmt node => OUT_NODE "CreateForeignServerStmt" (_outCreateForeignServerStmt node)
  | N_AlterForeignServerStmt node => OUT_NODE "AlterForeignServerStmt" (_outAlterForeignServerStmt node)
  | N_CreateForeignTableStmt node => OUT_NODE "CreateForeignTableStmt" (_outCreateForeignTableStmt node)
  | N_CreateUserMappingStmt node => OUT_NODE "CreateUserMappingStmt" (_outCreateUserMappingStmt node)
  | N_AlterUserMappingStmt node => OUT_NODE "AlterUserMappingStmt" (_outAlterUserMappingStmt node)
  | N_DropUserMappingStmt node => OUT_NODE "DropUserMappingStmt" (_outDropUserMappingStmt node)
  | N_ImportForeignSchemaStmt node => OUT_NODE "ImportForeignSchemaStmt" (_outImportForeignSchemaStmt node)
  | N_CreatePolicyStmt node => OUT_NODE "CreatePolicyStmt" (_outCreatePolicyStmt node)
  | N_AlterPolicyStmt node => OUT_NODE "AlterPolicyStmt" (_outAlterPolicyStmt node)
  | N_CreateAmStmt node => OUT_NODE "CreateAmStmt" (_outCreateAmStmt node)
  | N_CreateTrigStmt node => OUT_NODE "CreateTrigStmt" (_outCreateTrigStmt node)
  | N_CreateEventTrigStmt node => OUT_NODE "CreateEventTrigStmt" (_outCreateEventTrigStmt node)
  | N_AlterEventTrigStmt node => OUT_NODE "AlterEventTrigStmt" (_outAlterEventTrigStmt node)
  | N_CreatePLangStmt node => OUT_NODE "CreatePLangStmt" (_outCreatePLangStmt node)
  | N_CreateRoleStmt node => OUT_NODE "CreateRoleStmt" (_outCreateRoleStmt node)
  | N_AlterRoleStmt node => OUT_NODE "AlterRoleStmt" (_outAlterRoleStmt node)
  | N_AlterRoleSetStmt node => OUT_NODE "AlterRoleSetStmt" (_outAlterRoleSetStmt node)
  | N_DropRoleStmt node => OUT_NODE "DropRoleStmt" (_outDropRoleStmt node)
  | N_CreateSeqStmt node => OUT_NODE "CreateSeqStmt" (_outCreateSeqStmt node)
  | N_AlterSeqStmt node => OUT_NODE "AlterSeqStmt" (_outAlterSeqStmt node)
  | N_DefineStmt node => OUT_NODE "DefineStmt" (_outDefineStmt node)
  | N_CreateDomainStmt node => OUT_NODE "CreateDomainStmt" (_outCreateDomainStmt node)
  | N_CreateOpClassStmt node => OUT_NODE "CreateOpClassStmt" (_outCreateOpClassStmt node)
  | N_CreateOpClassItem node => OUT_NODE "CreateOpClassItem" (_outCreateOpClassItem node)
  | N_CreateOpFamilyStmt node => OUT_NODE "CreateOpFamilyStmt" (_outCreateOpFamilyStmt node)
  | N_AlterOpFamilyStmt node => OUT_NODE "AlterOpFamilyStmt" (_outAlterOpFamilyStmt node)
  | N_DropStmt node => OUT_NODE "DropStmt" (_outDropStmt node)
  | N_TruncateStmt node => OUT_NODE "TruncateStmt" (_outTruncateStmt node)
  | N_CommentStmt node => OUT_NODE "CommentStmt" (_outCommentStmt node)
  | N_SecLabelStmt node => OUT_NODE "SecLabelStmt" (_outSecLabelStmt node)
  | N_DeclareCursorStmt node => OUT_NODE "DeclareCursorStmt" (_outDeclareCursorStmt node)
  | N_ClosePortalStmt node => OUT_NODE "ClosePortalStmt" (_outClosePortalStmt node)
  | N_FetchStmt node => OUT_NODE "FetchStmt" (_outFetchStmt node)
  | N_IndexStmt node => OUT_NODE "IndexStmt" (_outIndexStmt node)
  | N_CreateStatsStmt node => OUT_NODE "CreateStatsStmt" (_outCreateStatsStmt node)
  | N_AlterStatsStmt node => OUT_NODE "AlterStatsStmt" (_outAlterStatsStmt node)
  | N_CreateFunctionStmt node => OUT_NODE "CreateFunctionStmt" (_outCreateFunctionStmt node)
  | N_FunctionParameter node => OUT_NODE "FunctionParameter" (_outFunctionParameter node)
  | N_AlterFunctionStmt node => OUT_NODE "AlterFunctionStmt" (_outAlterFunctionStmt node)
  | N_DoStmt node => OUT_NODE "DoStmt" (_outDoStmt node)
  | N_CallStmt node => OUT_NODE "CallStmt" (_outCallStmt node)
  | N_RenameStmt node => OUT_NODE "RenameStmt" (_outRenameStmt node)
  | N_AlterObjectDependsStmt node => OUT_NODE "AlterObjectDependsStmt" (_outAlterObjectDependsStmt node)
  | N_AlterObjectSchemaStmt node => OUT_NODE "AlterObjectSchemaStmt" (_outAlterObjectSchemaStmt node)
  | N_AlterOwnerStmt node => OUT_NODE "AlterOwnerStmt" (_outAlterOwnerStmt node)
  | N_AlterOperatorStmt node => OUT_NODE "AlterOperatorStmt" (_outAlterOperatorStmt node)
  | N_AlterTypeStmt node => OUT_NODE "AlterTypeStmt" (_outAlterTypeStmt node)
  | N_RuleStmt node => OUT_NODE "RuleStmt" (_outRuleStmt node)
  | N_NotifyStmt node => OUT_NODE "NotifyStmt" (_outNotifyStmt node)
  | N_ListenStmt node => OUT_NODE "ListenStmt" (_outListenStmt node)
  | N_UnlistenStmt node => OUT_NODE "UnlistenStmt" (_outUnlistenStmt node)
  | N_TransactionStmt node => OUT_NODE "TransactionStmt" (_outTransactionStmt node)
  | N_CompositeTypeStmt node => OUT_NODE "CompositeTypeStmt" (_outCompositeTypeStmt node)
  | N_CreateEnumStmt node => OUT_NODE "CreateEnumStmt" (_outCreateEnumStmt node)
  | N_CreateRangeStmt node => OUT_NODE "CreateRangeStmt" (_outCreateRangeStmt node)
  | N_AlterEnumStmt node => OUT_NODE "AlterEnumStmt" (_outAlterEnumStmt node)
  | N_ViewStmt node => OUT_NODE "ViewStmt" (_outViewStmt node)
  | N_LoadStmt node => OUT_NODE "LoadStmt" (_outLoadStmt node)
  | N_CreatedbStmt node => OUT_NODE "CreatedbStmt" (_outCreatedbStmt node)
  | N_AlterDatabaseStmt node => OUT_NODE "AlterDatabaseStmt" (_outAlterDatabaseStmt node)
  | N_AlterDatabaseSetStmt node => OUT_NODE "AlterDatabaseSetStmt" (_outAlterDatabaseSetStmt node)
  | N_DropdbStmt node => OUT_NODE "DropdbStmt" (_outDropdbStmt node)
  | N_AlterSystemStmt node => OUT_NODE "AlterSystemStmt" (_outAlterSystemStmt node)
  | N_ClusterStmt node => OUT_NODE "ClusterStmt" (_outClusterStmt node)
  | N_VacuumStmt node => OUT_NODE "VacuumStmt" (_outVacuumStmt node)
  | N_VacuumRelation node => OUT_NODE "VacuumRelation" (_outVacuumRelation node)
  | N_ExplainStmt node => OUT_NODE "ExplainStmt" (_outExplainStmt node)
  | N_CreateTableAsStmt node => OUT_NODE "CreateTableAsStmt" (_outCreateTableAsStmt node)
  | N_RefreshMatViewStmt node => OUT_NODE "RefreshMatViewStmt" (_outRefreshMatViewStmt node)
  | N_CheckPointStmt node => OUT_NODE "CheckPointStmt" (_outCheckPointStmt node)
  | N_DiscardStmt node => OUT_NODE "DiscardStmt" (_outDiscardStmt node)
  | N_LockStmt node => OUT_NODE "LockStmt" (_outLockStmt node)
  | N_ConstraintsSetStmt node => OUT_NODE "ConstraintsSetStmt" (_outConstraintsSetStmt node)
  | N_ReindexStmt node => OUT_NODE "ReindexStmt" (_outReindexStmt node)
  | N_CreateConversionStmt node => OUT_NODE "CreateConversionStmt" (_outCreateConversionStmt node)
  | N_CreateCastStmt node => OUT_NODE "CreateCastStmt" (_outCreateCastStmt node)
  | N_CreateTransformStmt node => OUT_NODE "CreateTransformStmt" (_outCreateTransformStmt node)
  | N_PrepareStmt node => OUT_NODE "PrepareStmt" (_outPrepareStmt node)
  | N_ExecuteStmt node => OUT_NODE "ExecuteStmt" (_outExecuteStmt node)
  | N_DeallocateStmt node => OUT_NODE "DeallocateStmt" (_outDeallocateStmt node)
  | N_DropOwnedStmt node => OUT_NODE "DropOwnedStmt" (_outDropOwnedStmt node)
  | N_ReassignOwnedStmt node => OUT_NODE "ReassignOwnedStmt" (_outReassignOwnedStmt node)
  | N_AlterTSDictionaryStmt node => OUT_NODE "AlterTSDictionaryStmt" (_outAlterTSDictionaryStmt node)
  | N_AlterTSConfigurationStmt node => OUT_NODE "AlterTSConfigurationStmt" (_outAlterTSConfigurationStmt node)
  | N_CreatePublicationStmt node => OUT_NODE "CreatePublicationStmt" (_outCreatePublicationStmt node)
  | N_AlterPublicationStmt node => OUT_NODE "AlterPublicationStmt" (_outAlterPublicationStmt node)
  | N_CreateSubscriptionStmt node => OUT_NODE "CreateSubscriptionStmt" (_outCreateSubscriptionStmt node)
  | N_AlterSubscriptionStmt node => OUT_NODE "AlterSubscriptionStmt" (_outAlterSubscriptionStmt node)
  | N_DropSubscriptionStmt node => OUT_NODE "DropSubscriptionStmt" (_outDropSubscriptionStmt node)
  | N_FuncExpr node => OUT_NODE "FuncExpr" (_outFuncExpr node)
  | N_Other _ => undef
  end.

Definition _outNode_body (obj : Node) : dep :=
  if is_NULL obj then str "null" else out_object (out_conds obj).
End json.

(** ** Trees *)

Fixpoint out (e : entry) (n : Node) {struct n} : dep :=
  match e with
  | J_Node => _outNode_body out n
  | J_SelectStmt => castNode_SelectStmt n (_outSelectStmt out)
  end.

Definition _outNode : Node -> dep := out J_Node.

(** [_outRawStmt(&out, lfirst(lc))], without a test of the tag. *)
Definition out_stmt (n : Node) : dep := castNode_RawStmt n (_outRawStmt out).

Definition nodes_to_json (obj : list Node) : dep :=
  match obj with
  | [] => fmt ("{" +:+ label "version" +:+ fmt_d PG_VERSION_NUM +:+ "," +:+ label "stmts" +:+ "[]}")
  | _ =>
      str "{" ;;;
      fmt (label "version" +:+ fmt_d PG_VERSION_NUM +:+ ",") ;;;
      str (label "stmts") ;;;
      chr "[" ;;;
      foreach_sep (fun n => chr "{" ;;; out_stmt n ;;; rtd ;;; chr "}") (str ",") obj ;;;
      chr "]" ;;;
      str "}"
  end.
