(* ===== verification/JsonProof.v ===== *)
(** * The JSON output is JSON

    [is_value d] and [is_fields d]: against every buffer, [d] writes the text of a
    JSON value, or the members of an object with a comma behind each, in which no
    object names a member twice.  For every field macro, for every struct and, by
    induction, for every tree of [json_checks]. *)
From S2P Require Import Prelude Buffer Keywords Quote Enums Nodes DeparseNames Lexical Parse EnumDefs TreeCheck Json JsonOut AgreeDeparse.

(** No object names a member twice. *)
Fixpoint unique (j : json) : bool :=
  match j with
  | JArray l => forallb unique l
  | JObject ms => bool_decide (NoDup (map fst ms)) && forallb (fun m => unique m.2) ms
  | _ => true
  end.

(** The members of an object with a comma behind each. *)
Fixpoint members_text (ms : list (string * json)) : string :=
  match ms with [] => "" | m :: ms => member_text m +:+ "," +:+ members_text ms end.

Definition is_value (d : dep) : Prop :=
  exists j, unique j = true /\ writes_text d (json_text j).

Definition is_members (names : list string) (d : dep) : Prop :=
  exists ms, map fst ms `sublist_of` names /\ forallb (fun m => unique m.2) ms = true /\
    writes_text d (members_text ms).

Definition is_fields (d : dep) : Prop :=
  exists names, bool_decide (NoDup names) = true /\ is_members names d.

(** The trees whose output is JSON: a [char] field is zero or a character that needs
    no escape, and there are no lists of integers.  All trees of the parser are such. *)
Definition plain_char (c : ascii) : bool :=
  Ascii.eqb c NUL || String.eqb (escape_char c) (String c "").
Definition no_ints (l : list Z) : bool := match l with [] => true | _ => false end.
Definition json_checks : field_checks := mkChecks (fun _ => true) plain_char no_ints false.
Abbreviation json_tree := (check json_checks).

Definition good (n : Node) : Prop :=
  json_tree n = true ->
  is_value (_outNode n) /\ (IsA_SelectStmt n = true -> is_fields (out J_SelectStmt n)).

(** ** Texts *)

Lemma plain_label name : escape name = name -> label name = string_text name +:+ ":".
Proof. intros E. unfold label, in_quotes, string_text. rewrite E. by rewrite !string_app_cons. Qed.

Lemma token_char_text c : writes_text (token_char c) (escape_char c).
Proof. destruct c as [[] [] [] [] [] [] [] []]; (apply T_str || apply T_fmt || apply T_chr). Qed.

Lemma outToken_text s : writes_text (_outToken s) (string_text s).
Proof.
  apply (T_seq _ _ (String DQUOTE "")); [apply T_chr|]. apply T_seq; [|apply T_chr].
  induction s as [|c s IH]; [apply T_skip|]. apply T_seq; [apply token_char_text|exact IH].
Qed.

Lemma members_text_app ms1 ms2 : members_text (ms1 ++ ms2)%list = members_text ms1 +:+ members_text ms2.
Proof.
  induction ms1 as [|m ms IH]; [done|]. cbn [app members_text]. rewrite IH.
  by rewrite <-!string_app_assoc.
Qed.

(** Without the last comma. *)
Lemma drop_members m ms : drop_trailing "," (members_text (m :: ms)) = commas (map member_text (m :: ms)).
Proof.
  revert m. induction ms as [|m' ms IH]; intros m.
  - cbn [members_text map commas]. rewrite string_app_nil_r, drop_trailing_app by done.
    apply string_app_nil_r.
  - change (members_text (m :: m' :: ms)) with (member_text m +:+ "," +:+ members_text (m' :: ms)).
    rewrite drop_trailing_app, drop_trailing_app, IH by (by destruct m').
    cbn [map]. by rewrite (commas_cons (member_text m)).
Qed.

Lemma T_rtd d t : t <> "" -> writes_text d t -> writes_text (d ;;; rtd) (drop_trailing "," t).
Proof.
  intros Hne (n & Hn & H). exists n. split.
  { destruct (drop_trailing_cases "," t) as [-> |E]; [done|].
    rewrite E, strlen_app in Hn. unfold strlen in Hn. cbn in Hn. unfold strlen. lia. }
  intros B HS limit L b Hb. unfold seqd. specialize (H B HS limit L b Hb).
  destruct (d B HS b) as [b1| |]; cbn in *; [|done..]. destruct H as [Hv Hc].
  unfold rtd. destruct (remove_law "," b1 Hv) as (b2 & -> & ? & E). cbn.
  split; [done|]. by rewrite E, Hc, drop_trailing_app.
Qed.

(** [{], members, [removeTrailingDelimiter]. *)
Lemma T_object a d q p ms r :
  writes_text a (p +:+ "{") -> writes_text d (members_text ms) -> writes_text q ("}" +:+ r) ->
  writes_text (a ;;; d ;;; rtd ;;; q) (p +:+ json_text (JObject ms) +:+ r).
Proof.
  intros Ha Hd Hq. eapply (T_ext (((a ;;; d) ;;; rtd) ;;; q)).
  { intros B HS b. rewrite <-(seqd_assoc a d (rtd ;;; q) B HS b).
    apply (seqd_assoc (a ;;; d) rtd q). }
  assert (E : p +:+ json_text (JObject ms) +:+ r =
    drop_trailing "," ((p +:+ "{") +:+ members_text ms) +:+ "}" +:+ r).
  { cbn [json_text]. change (map _ ms) with (map member_text ms).
    destruct ms as [|m ms].
    - rewrite string_app_nil_r, drop_trailing_app by done.
      change (drop_trailing "," "{") with "{". cbn [map commas]. by rewrite <-!string_app_assoc.
    - rewrite drop_trailing_app, drop_members by (by destruct m). by rewrite <-!string_app_assoc. }
  rewrite E. apply T_seq; [|done]. apply T_rtd; [|by apply T_seq].
  intros H. apply string_app_empty_inv in H as [H _]. by apply string_app_empty_inv in H as [_ H].
Qed.

(** ** Fields *)

Definition name_ok (name : string) : bool := String.eqb (escape name) name.

Lemma no_members names : is_members names skip.
Proof. exists []. split; [apply sublist_nil_l|]. split; [done|apply T_skip]. Qed.

Lemma members_seq n1 n2 d1 d2 :
  is_members n1 d1 -> is_members n2 d2 -> is_members (n1 ++ n2)%list (d1 ;;; d2).
Proof.
  intros (ms1 & S1 & U1 & T1) (ms2 & S2 & U2 & T2). exists (ms1 ++ ms2)%list.
  rewrite map_app, forallb_app, U1, U2, members_text_app. split; [by apply sublist_app|].
  split; [done|by apply T_seq].
Qed.

(** One member. *)
Lemma one_member name d j : name_ok name = true -> unique j = true ->
  writes_text d (label name +:+ json_text j +:+ ",") -> is_members [name] d.
Proof.
  intros Hn%String.eqb_eq Hu Hd. exists [(name, j)]. split; [done|]. split; [by cbn; rewrite Hu|].
  cbn [members_text]. rewrite string_app_nil_r. unfold member_text. cbn [fst snd].
  rewrite (plain_label name Hn) in Hd. by rewrite <-!string_app_assoc in *.
Qed.

Lemma when_members c names d : (c = true -> is_members names d) -> is_members names (when c d).
Proof. intros H. destruct c; [by apply H|apply no_members]. Qed.

Lemma when_some_members {A} (p : option A) names k :
  (forall x, p = Some x -> is_members names (k x)) -> is_members names (when_some p k).
Proof. intros H. destruct p; [by apply H|apply no_members]. Qed.

Lemma members_int name z : name_ok name = true -> is_members [name] (WRITE_INT_FIELD name z).
Proof. intros Hn. apply when_members. intros _. apply (one_member _ _ (JNumber z)); [done..|apply T_fmt]. Qed.

Lemma members_bool name b : name_ok name = true -> is_members [name] (WRITE_BOOL_FIELD name b).
Proof. intros Hn. apply when_members. intros _. apply (one_member _ _ (JBool true)); [done..|apply T_fmt]. Qed.

Lemma plain_text s : escape s = s -> in_quotes s = json_text (JString s).
Proof. intros E. cbn [json_text]. unfold in_quotes, string_text. by rewrite E, string_app_cons. Qed.

Lemma members_char name c : name_ok name = true -> plain_char c = true ->
  is_members [name] (WRITE_CHAR_FIELD name c).
Proof.
  intros Hn Hc. apply when_members. intros Hz%negb_true_iff. apply (one_member _ _ (JString (String c ""))); [done..|].
  unfold plain_char in Hc. rewrite Hz in Hc. apply String.eqb_eq in Hc.
  rewrite <-plain_text by (cbn [escape]; by rewrite string_app_nil_r). apply T_fmt.
Qed.

Lemma members_enum {E} (f : E -> string) name e : name_ok name = true -> name_ok (f e) = true ->
  is_members [name] (WRITE_ENUM_FIELD f name e).
Proof.
  intros Hn Hf%String.eqb_eq. apply (one_member _ _ (JString (f e))); [done..|].
  rewrite <-plain_text by done. apply T_fmt.
Qed.

Lemma members_token name s : name_ok name = true ->
  is_members [name] (fmt (label name) ;;; _outToken s ;;; fmt ",").
Proof.
  intros Hn. apply (one_member _ _ (JString s)); [done..|].
  apply T_seq; [apply T_fmt|]. apply T_seq; [apply outToken_text|apply T_fmt].
Qed.

Lemma members_string name s : name_ok name = true -> is_members [name] (WRITE_STRING_FIELD name s).
Proof. intros Hn. apply when_some_members. intros x _. by apply members_token. Qed.

Lemma members_ints name l : no_ints l = true -> is_members [name] (WRITE_INT_LIST_FIELD name l).
Proof. destruct l; [|done]. intros _. apply no_members. Qed.

Lemma object_text a d q p r : is_fields d -> writes_text a (p +:+ "{") -> writes_text q ("}" +:+ r) ->
  exists j, unique j = true /\ writes_text (a ;;; d ;;; rtd ;;; q) (p +:+ json_text j +:+ r).
Proof.
  intros (names & Hd & ms & Hs & Hu & Ht) Ha Hq. exists (JObject ms). split; [|by apply T_object].
  cbn [unique]. rewrite Hu, andb_true_r. apply bool_decide_eq_true in Hd. apply bool_decide_eq_true.
  by eapply sublist_NoDup.
Qed.

Lemma members_struct {A} (out : A -> dep) name x : name_ok name = true -> is_fields (out x) ->
  is_members [name] (WRITE_SPECIFIC_NODE_FIELD out name x).
Proof.
  intros Hn Hx. destruct (object_text (fmt (label name +:+ "{")) (out x) (fmt "},") (label name) ",")
    as (j & Hu & Ht); [done|apply T_fmt..|by eapply one_member].
Qed.

Lemma members_struct_ptr {A} (P : A -> Type) (k : A -> bool) (out : A -> dep) name p :
  name_ok name = true -> option_all A P p -> check_struct k p = true ->
  (forall x, P x -> k x = true -> is_fields (out x)) ->
  is_members [name] (WRITE_SPECIFIC_NODE_PTR_FIELD out name p).
Proof.
  intros Hn [x Hx|] Hk Ho; [|apply no_members]. by apply (members_struct out name x Hn), Ho.
Qed.

Lemma members_plain_ptr {A} (P : A -> Type) (out : A -> dep) name p :
  name_ok name = true -> option_all A P p -> (forall x, P x -> is_fields (out x)) ->
  is_members [name] (WRITE_SPECIFIC_NODE_PTR_FIELD out name p).
Proof. intros Hn Hp Ho. apply (members_struct_ptr P (fun _ => true)); auto. by destruct p. Qed.

(** ** Values *)

(** An object with one member for the type of the node, an object. *)
Lemma object_value typename d : name_ok typename = true -> is_fields d ->
  is_value (out_object (OUT_NODE typename d)).
Proof.
  intros Hn Hd. unfold out_object, OUT_NODE.
  destruct (object_text (chr "{" ;;; str (label typename +:+ "{")) d (fmt "}}") ("{" +:+ label typename) "}")
    as (j & Hu & Ht); [done|rewrite <-string_app_assoc; by apply (T_seq _ _ "{"); [apply T_chr|apply T_str]
      |apply T_fmt|].
  exists (JObject [(typename, j)]). split; [by cbn; rewrite Hu|].
  cbn [json_text map commas fst snd].
  apply String.eqb_eq in Hn. rewrite (plain_label _ Hn) in Ht. rewrite <-!string_app_assoc in *.
  eapply T_deq; [|exact Ht]. by rewrite (plain_label _ Hn), <-!string_app_assoc, !seqd_assoc.
Qed.

Lemma one_fields names d : bool_decide (NoDup names) = true -> is_members names d -> is_fields d.
Proof. by exists names. Qed.

Lemma value_value v : is_value (out_object (value_conds v)).
Proof.
  destruct v; cbn [value_conds]; apply object_value; try done.
  - apply (one_fields ["ival"]); [done|]. apply (one_member _ _ (JNumber ival)); [done..|apply T_fmt].
  - apply (one_fields ["str"]); [done|by apply members_token].
  - apply (one_fields ["str"]); [done|by apply members_token].
  - apply (one_fields ["str"]); [done|by apply members_token].
  - apply (one_fields []); [done|apply no_members].
Qed.

(** A member that is a value. *)
Lemma members_of_value name d : name_ok name = true -> is_value d ->
  is_members [name] (fmt (label name) ;;; d ;;; fmt ",").
Proof.
  intros Hn (j & Hu & Ht). apply (one_member _ _ j); [done..|].
  apply T_seq; [apply T_fmt|]. apply T_seq; [done|apply T_fmt].
Qed.

Lemma members_value name v : name_ok name = true -> is_members [name] (WRITE_NODE_FIELD name v).
Proof. intros Hn. by apply members_of_value, value_value. Qed.

(** ** Lists *)

Lemma foreach_text {A} (f : A -> dep) l : Forall (fun x => is_value (f x)) l ->
  exists js, List.length js = List.length l /\ forallb unique js = true /\
    writes_text (foreach_sep f (str ",") l) (commas (map json_text js)).
Proof.
  induction 1 as [|x l (j & Hu & Ht) Hl (js & E & Us & Ts)]; [exists []; by split_and!; [| |apply T_skip]|].
  exists (j :: js). cbn [forallb List.length]. rewrite Hu, E. split; [done|]. split; [done|].
  cbn [map]. rewrite commas_cons. destruct l as [|y l]; destruct js as [|j' js]; try discriminate E; [done|].
  change (foreach_sep f (str ",") (x :: y :: l)) with (f x ;;; str "," ;;; foreach_sep f (str ",") (y :: l)).
  apply T_seq; [done|]. apply T_seq; [apply T_str|done].
Qed.

(** The items in brackets. *)
Lemma array_text {A} (f : A -> dep) l a q p r : Forall (fun x => is_value (f x)) l ->
  writes_text a (p +:+ "[") -> writes_text q ("]" +:+ r) ->
  exists js, List.length js = List.length l /\ unique (JArray js) = true /\
    writes_text (a ;;; foreach_sep f (str ",") l ;;; q) (p +:+ json_text (JArray js) +:+ r).
Proof.
  intros Hl Ha Hq. destruct (foreach_text f l Hl) as (js & E & U & T). exists js. split; [done|]. split; [done|].
  cbn [json_text]. rewrite <-!string_app_assoc.
  change (p +:+ "[" +:+ ?s) with (p +:+ ("[" +:+ s)). rewrite string_app_assoc.
  apply T_seq; [done|by apply T_seq].
Qed.

Lemma cell_value n : good n -> json_tree n = true -> is_value (out_cell out n).
Proof.
  intros Hn Hk. unfold out_cell. destruct (is_NULL n); [|by apply Hn].
  exists (JObject []). split; [done|apply T_str].
Qed.

Lemma cells_values l : list_all Node good l -> check_list json_tree l = true ->
  Forall (fun n => is_value (out_cell out n)) l.
Proof.
  induction 1 as [|n l Hn _ IH]; [done|]. intros [Hk Hl]%andb_true_iff.
  constructor; [by apply cell_value|by apply IH].
Qed.

Lemma members_list name l : name_ok name = true -> list_all Node good l -> check_list json_tree l = true ->
  is_members [name] (WRITE_LIST_FIELD out name l).
Proof.
  intros Hn Hl Hk. apply when_members. intros _.
  destruct (array_text (out_cell out) l (fmt (label name) ;;; chr "[") (fmt "],") (label name) ",")
    as (js & _ & U & T); [by apply cells_values|apply T_seq; [apply T_fmt|apply T_chr]|apply T_fmt|].
  apply (one_member _ _ _ Hn U). eapply T_deq; [|exact T]. by rewrite !seqd_assoc.
Qed.

Lemma members_ptr name p : name_ok name = true -> option_all Node good p ->
  check_ptr json_checks json_tree p = true -> is_members [name] (WRITE_NODE_PTR_FIELD out name p).
Proof.
  intros Hn [n Hg|] Hk; [|apply no_members].
  assert (Ht : json_tree n = true) by (destruct n; try exact Hk; by destruct l).
  by apply members_of_value, Hg.
Qed.

Lemma members_select name p : name_ok name = true -> option_all Node good p ->
  check_select json_tree p = true ->
  is_members [name] (WRITE_SPECIFIC_NODE_PTR_FIELD (out J_SelectStmt) name p).
Proof.
  intros Hn [n Hg|] Hk; [|apply no_members]. apply andb_true_iff in Hk as [Hs Hk].
  by apply members_struct, Hg.
Qed.

(** ** Structs *)

Create HintDb json_fields.

Ltac json_field :=
  lazymatch goal with |- is_members _ ?d =>
    lazymatch d with
    | WRITE_INT_FIELD _ _ => apply members_int; reflexivity
    | WRITE_UINT_FIELD _ _ => apply members_int; reflexivity
    | WRITE_LONG_FIELD _ _ => apply members_int; reflexivity
    | WRITE_BOOL_FIELD _ _ => apply members_bool; reflexivity
    | WRITE_STRING_FIELD _ _ => apply members_string; reflexivity
    | WRITE_CHAR_FIELD _ _ => apply members_char; [reflexivity|assumption]
    | WRITE_ENUM_FIELD _ _ ?e => apply members_enum; [reflexivity|destruct e; reflexivity]
    | WRITE_NODE_FIELD _ _ => apply members_value; reflexivity
    | WRITE_INT_LIST_FIELD _ _ => apply members_ints; assumption
    | WRITE_LIST_FIELD _ _ _ => apply members_list; [reflexivity|assumption..]
    | WRITE_NODE_PTR_FIELD _ _ _ => apply members_ptr; [reflexivity|assumption..]
    | WRITE_SPECIFIC_NODE_PTR_FIELD (out J_SelectStmt) _ _ => apply members_select; [reflexivity|assumption..]
    | WRITE_SPECIFIC_NODE_FIELD _ _ _ => apply members_struct; [reflexivity|solve [eauto with json_fields]]
    | WRITE_SPECIFIC_NODE_PTR_FIELD _ _ _ =>
        first [eapply members_struct_ptr; [reflexivity|eassumption|eassumption|];
               cbn beta; intros; solve [eauto with json_fields]
              |eapply members_plain_ptr; [reflexivity|eassumption|];
               cbn beta; intros; solve [eauto with json_fields]]
    | skip => apply (no_members [])
    end
  end.

(** Goes over the fields of a struct. *)
Ltac json_head t := match t with ?f _ => json_head f | _ => t end.
Ltac json_struct_tac :=
  intros Hx;
  try (let Hk := fresh "Hk" in
       match goal with |- ?k = true -> _ => intros Hk; let k' := json_head k in unfold k' in Hk end);
  match goal with |- is_fields ?out =>
    let o := json_head out in unfold o; destruct Hx; simpl_fields;
    cbn [json_checks check_string check_char check_ints andb] in *; split_andb
  end;
  eapply one_fields; [|repeat (eapply members_seq; [solve [json_field]|]); json_field]; vm_compute; reflexivity.


Lemma fields_Alias x : Alias.t_all Node good x -> check_Alias json_checks json_tree x = true -> is_fields (_outAlias out x).
Proof. json_struct_tac. Qed.
#[local] Hint Resolve fields_Alias : json_fields.

Lemma fields_RangeVar x : RangeVar.t_all Node good x -> check_RangeVar json_checks json_tree x = true -> is_fields (_outRangeVar out x).
Proof. json_struct_tac. Qed.
#[local] Hint Resolve fields_RangeVar : json_fields.

Lemma fields_TypeName x : TypeName.t_all Node good x -> check_TypeName json_tree x = true -> is_fields (_outTypeName out x).
Proof. json_struct_tac. Qed.
#[local] Hint Resolve fields_TypeName : json_fields.

Lemma fields_CollateClause x : CollateClause.t_all Node good x -> check_CollateClause json_checks json_tree x = true -> is_fields (_outCollateClause out x).
Proof. json_struct_tac. Qed.
#[local] Hint Resolve fields_CollateClause : json_fields.

Lemma fields_RoleSpec x : RoleSpec.t_all Node good x -> check_RoleSpec json_checks x = true -> is_fields (_outRoleSpec x).
Proof. json_struct_tac. Qed.
#[local] Hint Resolve fields_RoleSpec : json_fields.

Lemma fields_WindowDef x : WindowDef.t_all Node good x -> check_WindowDef json_checks json_tree x = true -> is_fields (_outWindowDef out x).
Proof. json_struct_tac. Qed.
#[local] Hint Resolve fields_WindowDef : json_fields.

Lemma fields_FuncCall x : FuncCall.t_all Node good x -> check_FuncCall json_checks json_tree x = true -> is_fields (_outFuncCall out x).
Proof. json_struct_tac. Qed.
#[local] Hint Resolve fields_FuncCall : json_fields.

Lemma fields_WithClause x : WithClause.t_all Node good x -> check_WithClause json_tree x = true -> is_fields (_outWithClause out x).
Proof. json_struct_tac. Qed.
#[local] Hint Resolve fields_WithClause : json_fields.

Lemma fields_InferClause x : InferClause.t_all Node good x -> check_InferClause json_checks json_tree x = true -> is_fields (_outInferClause out x).
Proof. json_struct_tac. Qed.
#[local] Hint Resolve fields_InferClause : json_fields.

Lemma fields_OnConflictClause x : OnConflictClause.t_all Node good x -> check_OnConflictClause json_checks json_tree x = true -> is_fields (_outOnConflictClause out x).
Proof. json_struct_tac. Qed.
#[local] Hint Resolve fields_OnConflictClause : json_fields.

Lemma fields_IntoClause x : IntoClause.t_all Node good x -> check_IntoClause json_checks json_tree x = true -> is_fields (_outIntoClause out x).
Proof. json_struct_tac. Qed.
#[local] Hint Resolve fields_IntoClause : json_fields.

Lemma fields_SelectStmt x : SelectStmt.t_all Node good x -> check_SelectStmt json_checks json_tree x = true -> is_fields (_outSelectStmt out x).
Proof. json_struct_tac. Qed.
#[local] Hint Resolve fields_SelectStmt : json_fields.

Lemma fields_RawStmt x : RawStmt.t_all Node good x -> check_RawStmt json_checks json_tree x = true -> is_fields (_outRawStmt out x).
Proof. json_struct_tac. Qed.
#[local] Hint Resolve fields_RawStmt : json_fields.

Lemma fields_PartitionBoundSpec x : PartitionBoundSpec.t_all Node good x -> check_PartitionBoundSpec json_checks json_tree x = true -> is_fields (_outPartitionBoundSpec out x).
Proof. json_struct_tac. Qed.
#[local] Hint Resolve fields_PartitionBoundSpec : json_fields.

Lemma fields_PartitionSpec x : PartitionSpec.t_all Node good x -> check_PartitionSpec json_checks json_tree x = true -> is_fields (_outPartitionSpec out x).
Proof. json_struct_tac. Qed.
#[local] Hint Resolve fields_PartitionSpec : json_fields.

Lemma fields_GrantStmt x : GrantStmt.t_all Node good x -> check_GrantStmt json_tree x = true -> is_fields (_outGrantStmt out x).
Proof. json_struct_tac. Qed.
#[local] Hint Resolve fields_GrantStmt : json_fields.

Lemma fields_ObjectWithArgs x : ObjectWithArgs.t_all Node good x -> check_ObjectWithArgs json_tree x = true -> is_fields (_outObjectWithArgs out x).
Proof. json_struct_tac. Qed.
#[local] Hint Resolve fields_ObjectWithArgs : json_fields.

Lemma fields_VariableSetStmt x : VariableSetStmt.t_all Node good x -> check_VariableSetStmt json_checks json_tree x = true -> is_fields (_outVariableSetStmt out x).
Proof. json_struct_tac. Qed.
#[local] Hint Resolve fields_VariableSetStmt : json_fields.

Lemma fields_CreateStmt x : CreateStmt.t_all Node good x -> check_CreateStmt json_checks json_tree x = true -> is_fields (_outCreateStmt out x).
Proof. json_struct_tac. Qed.
#[local] Hint Resolve fields_CreateStmt : json_fields.

Lemma fields_FuncExpr x : FuncExpr.t_all Node good x -> check_FuncExpr json_tree x = true -> is_fields (_outFuncExpr out x).
Proof. json_struct_tac. Qed.
#[local] Hint Resolve fields_FuncExpr : json_fields.


(** ** Every tree *)

Lemma list_fields l : list_all Node good l -> check_list json_tree l = true -> is_fields (_outList out l).
Proof.
  intros Hl Hk. apply (one_fields ["items"]); [done|].
  destruct (array_text (out_cell out) l (fmt (label "items") ;;; chr "[") (chr "]" ;;; fmt ",") (label "items") ",")
    as (js & _ & U & T); [by apply cells_values|apply T_seq; [apply T_fmt|apply T_chr]|apply T_seq; [apply T_chr|apply T_fmt]|].
  apply (one_member "items" _ _ eq_refl U). eapply T_deq; [|exact T]. by rewrite !seqd_assoc.
Qed.

Lemma tree_good n : good n.
Proof.
  revert n. apply (node_ind good). intros n Hn Hk.
  assert (Hv : is_value (_outNode n) /\ (IsA_SelectStmt n = true -> is_fields (out J_SelectStmt n)));
    [|exact Hv].
  destruct n; cbn [children] in Hn; cbn [check check_body] in Hk;
    (split; [cbn [_outNode out _outNode_body is_NULL out_conds]|intros E; try discriminate E]).
  all: try (apply object_value; [reflexivity|]).
  all: try solve [eauto with json_fields].
  all: try (revert Hk; revert Hn; solve [json_struct_tac]).
  all: try (revert Hn; solve [json_struct_tac]).
  - destruct l as [|n l]; [exists JNull; split; [done|apply T_str]|]. apply object_value; [done|by apply list_fields].
  - apply value_value.
  - done.
Qed.

(** * The functions do not depend on their buffer

    [uniform] of [out] on every tree, by the same induction. *)

Definition out_uniform (n : Node) : Prop := forall e, uniform (out e n).

Lemma outToken_uniform s : uniform (_outToken s).
Proof.
  apply uniform_seqd; [apply uniform_chr|]. apply uniform_seqd; [|apply uniform_chr].
  induction s as [|c s IH]; [apply uniform_skip|]. apply uniform_seqd; [|exact IH].
  unfold token_char. uniform_tac.
Qed.

Lemma cells_uniform l : list_all Node out_uniform l -> uniform (foreach_sep (out_cell out) (str ",") l).
Proof.
  intros Hl. apply uniform_foreach_sep; [|apply uniform_str].
  induction Hl as [|n Hn l _ IH]; constructor; [|exact IH].
  unfold out_cell. destruct (is_NULL n); [apply uniform_str|apply Hn].
Qed.

Lemma list_uniform name l : list_all Node out_uniform l -> uniform (WRITE_LIST_FIELD out name l).
Proof.
  intros Hl. unfold WRITE_LIST_FIELD, when. destruct (nonempty l); [|apply uniform_skip].
  repeat apply uniform_seqd; try apply uniform_fmt; [apply uniform_chr|by apply cells_uniform].
Qed.

Lemma ptr_uniform name p : option_all Node out_uniform p -> uniform (WRITE_NODE_PTR_FIELD out name p).
Proof.
  intros [n Hn|]; [|apply uniform_skip].
  apply uniform_seqd; [apply uniform_fmt|]. apply uniform_seqd; [apply Hn|apply uniform_fmt].
Qed.

Lemma struct_uniform {A} (f : A -> dep) name x : uniform (f x) -> uniform (WRITE_SPECIFIC_NODE_FIELD f name x).
Proof.
  intros Hf. repeat apply uniform_seqd; [apply uniform_fmt|exact Hf|apply uniform_rtd|apply uniform_fmt].
Qed.

Lemma struct_ptr_uniform {A} (P : A -> Type) (f : A -> dep) name p :
  option_all A P p -> (forall x, P x -> uniform (f x)) -> uniform (WRITE_SPECIFIC_NODE_PTR_FIELD f name p).
Proof.
  intros Hp Hf. destruct Hp as [x Hx|]; [exact (struct_uniform f name x (Hf x Hx))|apply uniform_skip].
Qed.

Lemma select_uniform name p :
  option_all Node out_uniform p -> uniform (WRITE_SPECIFIC_NODE_PTR_FIELD (out J_SelectStmt) name p).
Proof.
  intros Hp. destruct Hp as [n Hn|]; [exact (struct_uniform _ name n (Hn J_SelectStmt))|apply uniform_skip].
Qed.

Create HintDb json_uniform.

Ltac json_uniform_leaf :=
  repeat first [apply outToken_uniform | solve [eauto 1 with uniform nocore] | uniform_step].

Ltac json_uniform_field :=
  first
  [ apply list_uniform; assumption
  | apply ptr_uniform; assumption
  | apply select_uniform; assumption
  | eapply struct_ptr_uniform; [eassumption|cbn beta; intros; solve [eauto with json_uniform]]
  | apply struct_uniform; solve [eauto with json_uniform]
  | lazymatch goal with
    | |- uniform (WRITE_LIST_FIELD _ _ _) => fail
    | |- uniform (WRITE_NODE_PTR_FIELD _ _ _) => fail
    | |- uniform (WRITE_SPECIFIC_NODE_PTR_FIELD _ _ _) => fail
    | |- _ => json_uniform_leaf
    end ].

Ltac json_uniform_struct :=
  lazymatch goal with |- uniform ?d =>
    let o := json_head d in unfold o;
    repeat (apply uniform_seqd; [json_uniform_field|]); json_uniform_field
  end.

Ltac json_uniform_tac := intros Hx; destruct Hx; json_uniform_struct.

Lemma uniform_Alias x : Alias.t_all Node out_uniform x -> uniform (_outAlias out x).
Proof. json_uniform_tac. Qed.
#[local] Hint Resolve uniform_Alias : json_uniform.

Lemma uniform_RangeVar x : RangeVar.t_all Node out_uniform x -> uniform (_outRangeVar out x).
Proof. json_uniform_tac. Qed.
#[local] Hint Resolve uniform_RangeVar : json_uniform.

Lemma uniform_TypeName x : TypeName.t_all Node out_uniform x -> uniform (_outTypeName out x).
Proof. json_uniform_tac. Qed.
#[local] Hint Resolve uniform_TypeName : json_uniform.

Lemma uniform_CollateClause x : CollateClause.t_all Node out_uniform x -> uniform (_outCollateClause out x).
Proof. json_uniform_tac. Qed.
#[local] Hint Resolve uniform_CollateClause : json_uniform.

Lemma uniform_RoleSpec x : RoleSpec.t_all Node out_uniform x -> uniform (_outRoleSpec x).
Proof. json_uniform_tac. Qed.
#[local] Hint Resolve uniform_RoleSpec : json_uniform.

Lemma uniform_WindowDef x : WindowDef.t_all Node out_uniform x -> uniform (_outWindowDef out x).
Proof. json_uniform_tac. Qed.
#[local] Hint Resolve uniform_WindowDef : json_uniform.

Lemma uniform_FuncCall x : FuncCall.t_all Node out_uniform x -> uniform (_outFuncCall out x).
Proof. json_uniform_tac. Qed.
#[local] Hint Resolve uniform_FuncCall : json_uniform.

Lemma uniform_WithClause x : WithClause.t_all Node out_uniform x -> uniform (_outWithClause out x).
Proof. json_uniform_tac. Qed.
#[local] Hint Resolve uniform_WithClause : json_uniform.

Lemma uniform_InferClause x : InferClause.t_all Node out_uniform x -> uniform (_outInferClause out x).
Proof. json_uniform_tac. Qed.
#[local] Hint Resolve uniform_InferClause : json_uniform.

Lemma uniform_OnConflictClause x : OnConflictClause.t_all Node out_uniform x -> uniform (_outOnConflictClause out x).
Proof. json_uniform_tac. Qed.
#[local] Hint Resolve uniform_OnConflictClause : json_uniform.

Lemma uniform_IntoClause x : IntoClause.t_all Node out_uniform x -> uniform (_outIntoClause out x).
Proof. json_uniform_tac. Qed.
#[local] Hint Resolve uniform_IntoClause : json_uniform.

Lemma uniform_SelectStmt x : SelectStmt.t_all Node out_uniform x -> uniform (_outSelectStmt out x).
Proof. json_uniform_tac. Qed.
#[local] Hint Resolve uniform_SelectStmt : json_uniform.

Lemma uniform_RawStmt x : RawStmt.t_all Node out_uniform x -> uniform (_outRawStmt out x).
Proof. json_uniform_tac. Qed.
#[local] Hint Resolve uniform_RawStmt : json_uniform.

Lemma uniform_PartitionBoundSpec x : PartitionBoundSpec.t_all Node out_uniform x -> uniform (_outPartitionBoundSpec out x).
Proof. json_uniform_tac. Qed.
#[local] Hint Resolve uniform_PartitionBoundSpec : json_uniform.

Lemma uniform_PartitionSpec x : PartitionSpec.t_all Node out_uniform x -> uniform (_outPartitionSpec out x).
Proof. json_uniform_tac. Qed.
#[local] Hint Resolve uniform_PartitionSpec : json_uniform.

Lemma uniform_GrantStmt x : GrantStmt.t_all Node out_uniform x -> uniform (_outGrantStmt out x).
Proof. json_uniform_tac. Qed.
#[local] Hint Resolve uniform_GrantStmt : json_uniform.

Lemma uniform_ObjectWithArgs x : ObjectWithArgs.t_all Node out_uniform x -> uniform (_outObjectWithArgs out x).
Proof. json_uniform_tac. Qed.
#[local] Hint Resolve uniform_ObjectWithArgs : json_uniform.

Lemma uniform_VariableSetStmt x : VariableSetStmt.t_all Node out_uniform x -> uniform (_outVariableSetStmt out x).
Proof. json_uniform_tac. Qed.
#[local] Hint Resolve uniform_VariableSetStmt : json_uniform.

Lemma uniform_CreateStmt x : CreateStmt.t_all Node out_uniform x -> uniform (_outCreateStmt out x).
Proof. json_uniform_tac. Qed.
#[local] Hint Resolve uniform_CreateStmt : json_uniform.

Lemma uniform_FuncExpr x : FuncExpr.t_all Node out_uniform x -> uniform (_outFuncExpr out x).
Proof. json_uniform_tac. Qed.
#[local] Hint Resolve uniform_FuncExpr : json_uniform.

Lemma value_uniform v : uniform (value_conds v).
Proof. json_uniform_leaf. Qed.

Lemma object_uniform d : uniform d -> uniform (out_object d).
Proof.
  intros Hd. repeat apply uniform_seqd; [apply uniform_chr|exact Hd|apply uniform_rtd|apply uniform_fmt].
Qed.

Lemma out_is_uniform n : out_uniform n.
Proof.
  revert n. apply (node_ind out_uniform). intros n Hn.
  assert (Hs : uniform (out J_SelectStmt n)).
  { destruct n; try apply uniform_undef. cbn [out castNode_SelectStmt]. by apply uniform_SelectStmt. }
  intros []; [|exact Hs]. assert (E : out J_Node n = _outNode_body out n) by by destruct n.
  rewrite E. unfold _outNode_body.
  destruct (is_NULL n); [apply uniform_str|]. apply object_uniform. clear Hs.
  destruct n; cbn [children] in Hn; cbn [out_conds].
  all: try (apply uniform_seqd; [apply uniform_str|]).
  all: try solve [eauto with json_uniform].
  all: try (revert Hn; solve [json_uniform_tac]).
  - repeat apply uniform_seqd; [apply uniform_fmt|apply uniform_chr|by apply cells_uniform|apply uniform_chr|apply uniform_fmt].
  - apply uniform_undef.
Qed.
