(* ===== verification/JsonTheorems.v ===== *)
(** * Parsing to JSON: the entry point and its theorem

    [pg_query_nodes_to_json] of [src/pg_query_outfuncs_json.c] and [pg_query_parse] of
    [src/pg_query_parse.c], on the buffers of [stringinfo.c]. *)
From S2P Require Import Prelude Buffer StringInfo Keywords Enums Nodes DeparseNames Lexical.
From S2P Require Import Parse EnumDefs TreeCheck Json JsonOut AgreeDeparse JsonProof.

Open Scope Z_scope.

(** ** Operations *)

Section parse.
Variable junk : ascii.   (* what fresh memory holds *)

Definition pg_query_nodes_to_json (obj : list Node) : outcome string :=
  let* out := initStringInfo junk in
  let* out := nodes_to_json obj StringInfoData (stringinfo_buf junk) out in
  Ok (contents out).

Record PgQueryParseResult : Type := mkParseResult {
  parse_tree : string;
  error : option PgQueryError
}.

Definition pg_query_parse (raw_parser : string -> ErrorData + list Node) (input : string) :
    outcome PgQueryParseResult :=
  let parsetree_and_error := pg_query_raw_parse raw_parser input in
  let* tree_json := pg_query_nodes_to_json parsetree_and_error.(tree) in
  Ok (mkParseResult (strdup tree_json) parsetree_and_error.(parse_error)).
End parse.

(** ** Lemmas *)

(** The document of a list of statements. *)
Definition document (stmts : list json) : json :=
  JObject [("version", JNumber PG_VERSION_NUM); ("stmts", JArray stmts)].

Lemma stmt_value n : IsA_RawStmt n = true -> json_tree n = true ->
  is_value (chr "{" ;;; out_stmt n ;;; rtd ;;; chr "}").
Proof.
  intros Hr Hk. destruct n; try done.
  destruct (object_text (chr "{") (_outRawStmt out x) (chr "}") "" "") as (j & Hu & Ht); [|apply T_chr..|].
  - apply fields_RawStmt; [|exact Hk].
    destruct x. constructor; destruct stmt; constructor; apply tree_good.
  - exists j. split; [done|]. by rewrite string_app_nil_r in Ht.
Qed.

Lemma nodes_text l : forallb IsA_RawStmt l = true -> forallb json_tree l = true ->
  exists stmts, List.length stmts = List.length l /\ unique (document stmts) = true /\
    writes_text (nodes_to_json l) (json_text (document stmts)).
Proof.
  intros Hr Hk. destruct l as [|n l].
  - exists []. split; [done|]. split; [done|]. apply T_fmt.
  - assert (Hv : Forall (fun n => is_value (chr "{" ;;; out_stmt n ;;; rtd ;;; chr "}")) (n :: l)).
    { apply Forall_forall. intros m Hm. rewrite forallb_forall in Hr, Hk.
      apply stmt_value; [apply Hr|apply Hk]; by apply list_elem_of_In. }
    set (head := "{" +:+ label "version" +:+ fmt_d PG_VERSION_NUM +:+ "," +:+ label "stmts").
    destruct (array_text _ (n :: l)
      (str "{" ;;; fmt (label "version" +:+ fmt_d PG_VERSION_NUM +:+ ",") ;;; str (label "stmts") ;;; chr "[")
      (chr "]" ;;; str "}") head "}" Hv) as (js & E & U & T).
    + eapply (T_seq _ _ "{"); [apply T_str|]. rewrite <-(string_app_nil_r (label "stmts")).
      eapply (T_seq _ _ (label "version" +:+ fmt_d PG_VERSION_NUM +:+ ",")); [apply T_fmt|].
      apply (T_seq _ _ (label "stmts")); [apply T_str|apply T_chr].
    + apply (T_seq _ _ "]"); [apply T_chr|apply T_str].
    + exists js. split; [done|]. split; [by cbn in *; rewrite U|].
      eapply T_deq; [|exact T]. by rewrite !seqd_assoc.
Qed.

Lemma nodes_to_json_uniform l : uniform (nodes_to_json l).
Proof.
  destruct l as [|n l]; [apply uniform_fmt|]. unfold nodes_to_json.
  repeat apply uniform_seqd; try apply uniform_str; try apply uniform_fmt; try apply uniform_chr.
  apply uniform_foreach_sep; [|apply uniform_str]. apply Forall_true. intros m.
  repeat apply uniform_seqd; try apply uniform_chr; try apply uniform_rtd.
  destruct m; try apply uniform_undef. apply uniform_RawStmt.
  destruct x. constructor. destruct stmt; constructor; apply out_is_uniform.
Qed.

(** ** Properties *)

(** The statements of a query, none if it does not parse. *)
Definition statements (raw_parser : string -> ErrorData + list Node) (input : string) : list Node :=
  match raw_parser input with inr l => l | inl _ => [] end.

(** C19. What [pg_query_parse] returns is JSON, for every kind of statement and
    whatever bytes the names and constants of the query hold.  The text is read by
    the rules of RFC 8259 as an object with the version and an array of as many
    items as the query has statements, in which no object names a member twice.  A
    query that does not parse gives no items and the error.  The call always
    returns, for every content of fresh memory, except where the same functions,
    run on a string that must stay below [MaxAllocSize], find no room. *)
Theorem pg_query_parse_json raw_parser input
    (Hstmts : forallb IsA_RawStmt (statements raw_parser input) = true)
    (Hjson : forallb json_tree (statements raw_parser input) = true)
    (Hfull : runs_full (Some MaxAllocSize) (nodes_to_json (statements raw_parser input)) "" -> False) :
  exists stmts,
    unique (document stmts) = true /\
    List.length stmts = List.length (statements raw_parser input) /\
    forall junk, exists result, pg_query_parse junk raw_parser input = Ok result /\
      read_json result.(parse_tree) = Some (document stmts) /\
      option_map message result.(error) =
        match raw_parser input with inr _ => None | inl e => Some e.(ed_message) end.
Proof.
  set (l := statements raw_parser input) in *.
  destruct (nodes_text l Hstmts Hjson) as (stmts & E & U & Ht). apply T_text in Ht.
  exists stmts. split; [done|]. split; [done|].
  intros junk. unfold pg_query_parse, pg_query_raw_parse, pg_query_nodes_to_json.
  destruct (initStringInfo_valid junk) as (s0 & -> & Hv & H0). cbn [obind].
  assert (El : tree (match raw_parser input with
    | inl e => mkParsetree [] (Some (mkPgQueryError e.(ed_message) e.(ed_funcname) e.(ed_filename)
                                     e.(ed_lineno) e.(ed_cursorpos) None))
    | inr tree => mkParsetree tree None end) = l) by (unfold l, statements; by destruct (raw_parser input)).
  rewrite El.
  destruct (uniform_same (nodes_to_json l) (stringinfo_buf junk) _ (stringinfo_buf_laws junk) s0)
    as [Hf|Hs]; [apply nodes_to_json_uniform|exact Hv| |].
  - cbn [stringinfo_buf sb_contents] in Hf. rewrite H0 in Hf. by destruct Hfull.
  - cbn [stringinfo_buf sb_contents] in Hs. rewrite H0 in Hs. unfold text_of in Ht. rewrite Ht in Hs.
    destruct Hs as (s & -> & _ & Hs). cbn [obind parse_tree error]. eexists. split; [reflexivity|].
    cbn [parse_tree error]. split.
    + change (sb_contents s) with (contents s) in Hs. unfold strdup. rewrite Hs, c_string_id by apply json_text_no_nul. apply read_json_text.
    + by destruct (raw_parser input).
Qed.

(** [SELECT "a<"], and a parser that knows no other query. *)
Definition sample_tree : Node :=
  N_RawStmt (RawStmt.mk (Some (N_SelectStmt (SelectStmt.mk [] None
    [N_ResTarget (ResTarget.mk None [] (Some (N_ColumnRef (ColumnRef.mk [N_Value (String_ "a<")] 7))) 7)]
    [] None [] None [] [] [] None None LIMIT_OPTION_DEFAULT [] None SETOP_NONE false None None))) 0 0).
Definition sample_raw_parser (input : string) : ErrorData + list Node :=
  if (input =? "")%string then inl (mkErrorData "no query" "" "" 0 0) else inr [sample_tree].

Lemma pg_query_parse_json_witness :
  exists stmts,
    unique (document stmts) = true /\ List.length stmts = 1%nat /\
    forall junk, exists result, pg_query_parse junk sample_raw_parser "SELECT 1" = Ok result /\
      read_json result.(parse_tree) = Some (document stmts) /\
      option_map message result.(error) = None.
Proof.
  apply (pg_query_parse_json sample_raw_parser "SELECT 1").
  - vm_compute. reflexivity.
  - vm_compute. reflexivity.
  - unfold runs_full. vm_compute. discriminate.
Defined.

Example parse_sample :
  read_json <$> (match text_of (nodes_to_json [sample_tree]) with Ok t => Some t | _ => None end) =
  Some (Some (document [JObject [("stmt", JObject [("SelectStmt", JObject
    [("targetList", JArray [JObject [("ResTarget", JObject
       [("val", JObject [("ColumnRef", JObject
          [("fields", JArray [JObject [("String", JObject [("str", JString "a<")])]]);
           ("location", JNumber 7)])]);
        ("location", JNumber 7)])]]);
     ("limitOption", JString "LIMIT_OPTION_DEFAULT"); ("op", JString "SETOP_NONE")])])]])).
Proof. by vm_compute. Qed.
