(* ===== verification/Fingerprint.v ===== *)
(** * Fingerprinting: the context, the cached sort of lists

    [src/pg_query_fingerprint.c].  A fingerprint is the hash of the strings that
    [_fingerprintString] is called with while a parse tree is walked; the lists
    of some fields are walked in the order of the hashes of their items, which a
    cache keeps per list.  XXH3 is a library: [XXH3] is its interface, with the
    laws that a digest depends on the concatenation of the updates alone, and that
    the canonical form of a hash is its bytes in big-endian order.

    The functions that walk over the nodes ([FingerprintDefs]) only decide what
    is written; they return a [prog], a program in the five forms their C code is
    made of, which [exec] runs.  A [List *], which is the key of the cache, is the
    place of the list in the program, as the indices on the way to it. *)
From stdpp Require Import gmap.
From S2P Require Import Prelude Array Qsort.

Open Scope Z_scope.

Local Set Warnings "-register-all".

(** ** The hash library *)

Class XXH3 (S : Type) : Type := {
  XXH3_64bits_reset_withSeed : Z -> S;
  XXH3_64bits_update : S -> string -> S;
  XXH3_64bits_digest : S -> Z;
  XXH64_canonicalFromHash : Z -> list Z   (* the bytes of chash.digest *)
}.

Fixpoint joined (l : list string) : string :=
  match l with [] => "" | s :: l' => s +:+ joined l' end.

(** [hash seed s] is [XXH3_64bits_withSeed(s, strlen(s), seed)]. *)
Class XXH3Laws (S : Type) `{XXH3 S} (hash : Z -> string -> Z) : Prop := {
  digest_stream seed l :
    XXH3_64bits_digest (foldl XXH3_64bits_update (XXH3_64bits_reset_withSeed seed) l)
    = hash seed (joined l);
  hash_range seed s : 0 <= hash seed s < 2 ^ 64;
  canonical_big_endian h : 0 <= h < 2 ^ 64 ->
    XXH64_canonicalFromHash h = map (fun i => h / 256 ^ (7 - Z.of_nat i) mod 256) (seq 0 8)
}.

Definition PG_QUERY_FINGERPRINT_VERSION : Z := 3.

(** ** The context *)

Abbreviation addr := (list nat).

Record FingerprintListsortItem : Type := mkItem { hash : Z; list_pos : nat }.

Abbreviation listsort_cache_hash := (gmap addr (list FingerprintListsortItem)).

(** [calls] is no part of the C struct: it counts the calls of
    [_fingerprintString] in all contexts that share the cache. *)
Record FingerprintContext (S : Type) : Type := mkContext {
  xxh_state : S;
  listsort_cache : listsort_cache_hash;
  write_tokens : bool;
  tokens : list string;
  calls : nat
}.
Arguments mkContext {S}.
Arguments xxh_state {S}.
Arguments listsort_cache {S}.
Arguments write_tokens {S}.
Arguments tokens {S}.
Arguments calls {S}.

Section context.
Context {S : Type} `{XXH3 S}.
Implicit Types ctx : FingerprintContext S.

Definition set_state ctx (s : S) : FingerprintContext S :=
  mkContext s ctx.(listsort_cache) ctx.(write_tokens) ctx.(tokens) ctx.(calls).
Definition set_cache ctx (c : listsort_cache_hash) : FingerprintContext S :=
  mkContext ctx.(xxh_state) c ctx.(write_tokens) ctx.(tokens) ctx.(calls).
Definition set_tokens ctx (l : list string) : FingerprintContext S :=
  mkContext ctx.(xxh_state) ctx.(listsort_cache) ctx.(write_tokens) l ctx.(calls).
Definition set_calls ctx (n : nat) : FingerprintContext S :=
  mkContext ctx.(xxh_state) ctx.(listsort_cache) ctx.(write_tokens) ctx.(tokens) n.

(** [tokens] is not initialized without [write_tokens], and not used. *)
Definition _fingerprintInitContext (parent : option (FingerprintContext S)) (write_tokens : bool) :
    FingerprintContext S :=
  let s := XXH3_64bits_reset_withSeed PG_QUERY_FINGERPRINT_VERSION in
  match parent with
  | Some p => mkContext s p.(listsort_cache) write_tokens [] p.(calls)
  | None => mkContext s ∅ write_tokens [] 0
  end.

Definition _fingerprintString ctx (str : string) : FingerprintContext S :=
  let ctx := set_calls (set_state ctx (XXH3_64bits_update ctx.(xxh_state) str)) (ctx.(calls) + 1) in
  if ctx.(write_tokens) then set_tokens ctx (ctx.(tokens) ++ [str])%list else ctx.

(** A call with a [FingerprintContext *]. *)
Definition fp : Type := FingerprintContext S -> outcome (FingerprintContext S).

(** [dlist_delete(dlist_tail_node(&ctx->tokens))] *)
Definition delete_last_token : fp := fun ctx =>
  match ctx.(tokens) with
  | [] => Undef
  | _ => Ok (set_tokens ctx (removelast ctx.(tokens)))
  end.

(** The block for a field that is fingerprinted by a call: its name is taken back
    when the call has not changed the hash. *)
Definition fingerprint_field (name : string) (call : fp) : fp := fun ctx =>
  let prev := ctx.(xxh_state) in
  let ctx := _fingerprintString ctx name in
  let hash := XXH3_64bits_digest ctx.(xxh_state) in
  let* ctx := call ctx in
  if hash =? XXH3_64bits_digest ctx.(xxh_state) then
    let ctx := set_state ctx prev in
    if ctx.(write_tokens) then delete_last_token ctx else Ok ctx
  else Ok ctx.

(** ** The list sort *)

Definition compareFingerprintListsortItem (a b : FingerprintListsortItem) : Z :=
  if b.(hash) <? a.(hash) then 1 else if a.(hash) <? b.(hash) then -1 else 0.

(** The loop that hashes every item of the list in a context of its own; the
    items get the positions from [pos] on.  [cells] are the calls
    [_fingerprintNode(..., lfirst(lc), parent, field_name, depth + 1)]. *)
Fixpoint hash_items (cells : list fp) (pos : nat) ctx :
    outcome (list FingerprintListsortItem * FingerprintContext S) :=
  match cells with
  | [] => Ok ([], ctx)
  | cell :: cells' =>
      let* fctx := cell (_fingerprintInitContext (Some ctx) false) in
      let lctx := mkItem (XXH3_64bits_digest fctx.(xxh_state)) pos in
      let ctx := set_calls (set_cache ctx fctx.(listsort_cache)) fctx.(calls) in
      let* (items, ctx) := hash_items cells' (1 + pos) ctx in
      Ok (lctx :: items, ctx)
  end.

Definition listsort_items (node : addr) (cells : list fp) ctx :
    outcome (list FingerprintListsortItem * FingerprintContext S) :=
  match ctx.(listsort_cache) !! node with
  | Some items => Ok (items, ctx)
  | None =>
      let* (items, ctx) := hash_items cells 0 ctx in
      let n := List.length items in
      let* items := pg_qsort compareFingerprintListsortItem (1 + Nat.log2 n) (1 + n) items 0 n in
      match ctx.(listsort_cache) !! node with   (* Assert(!found) *)
      | Some _ => Undef
      | None => Ok (items, set_cache ctx (<[node := items]> ctx.(listsort_cache)))
      end
  end.

(** The loop over the sorted items; [prev] is the hash of the item before. *)
Fixpoint fingerprint_sorted (cells : list fp) (prev : option Z) (items : list FingerprintListsortItem) : fp :=
  fun ctx =>
  match items with
  | [] => Ok ctx
  | item :: items' =>
      let* ctx :=
        if bool_decide (prev = Some item.(hash)) then Ok ctx
        else match cells !! item.(list_pos) with Some cell => cell ctx | None => Undef end in
      fingerprint_sorted cells (Some item.(hash)) items' ctx
  end.

(** The two branches of [_fingerprintList]. *)
Definition _fingerprintList_sorted (node : addr) (cells : list fp) : fp := fun ctx =>
  let* (items, ctx) := listsort_items node cells ctx in
  fingerprint_sorted cells None items ctx.

Fixpoint run_all (cells : list fp) : fp := fun ctx =>
  match cells with
  | [] => Ok ctx
  | cell :: cells' => let* ctx := cell ctx in run_all cells' ctx
  end.
End context.

(** ** Programs *)

Inductive prog : Type :=
| Write (str : string)               (* _fingerprintString(ctx, str); *)
| Seq (ps : list prog)               (* statements one after the other *)
| Field (name : string) (p : prog)   (* the block of a field, [fingerprint_field] *)
| SortedList (ps : list prog)        (* the cells of a list that is sorted *)
| Outside.                           (* outside the contract, or a kind of node that is not modelled *)

Section cells.
Context {X : Type} (f : prog -> addr -> X).

(** The statements [ps] below [node], from index [i] on. *)
Fixpoint below (node : addr) (i : nat) (ps : list prog) : list X :=
  match ps with
  | [] => []
  | p :: ps' => f p (i :: node) :: below node (1 + i)%nat ps'
  end.
End cells.

Section exec.
Context {S : Type} `{XXH3 S}.

(** Runs the program that stands at [node]. *)
Fixpoint exec (p : prog) (node : addr) : fp (S := S) :=
  match p with
  | Write str => fun ctx => Ok (_fingerprintString ctx str)
  | Seq ps => run_all (below exec node 0 ps)
  | Field name p => fingerprint_field name (exec p (0%nat :: node))
  | SortedList ps => _fingerprintList_sorted node (below exec node 0 ps)
  | Outside => fun _ => Undef
  end.
End exec.

(** ** A hash function for examples *)

(** FNV-1a, as a hash with the laws of the interface. *)
Definition fnv (seed : Z) (s : string) : Z :=
  (fix go acc s := match s with
     | EmptyString => acc
     | String c s' => go (Z.lxor acc (Z.of_N (N_of_ascii c)) * 1099511628211 mod 2 ^ 64) s'
     end) ((14695981039346656037 + seed) mod 2 ^ 64) s.

Definition fnv_hash : XXH3 (Z * string) := {|
  XXH3_64bits_reset_withSeed seed := (seed, "");
  XXH3_64bits_update st s := (st.1, st.2 +:+ s);
  XXH3_64bits_digest st := fnv st.1 st.2;
  XXH64_canonicalFromHash h := map (fun i => h / 256 ^ (7 - Z.of_nat i) mod 256) (seq 0 8)
|}.

Lemma fnv_laws : @XXH3Laws _ fnv_hash fnv.
Proof.
  split; [|intros seed s|done].
  - intros seed l. cbn [XXH3_64bits_digest XXH3_64bits_reset_withSeed XXH3_64bits_update fnv_hash].
    assert (E : forall st, foldl (fun (st : Z * string) s => (st.1, st.2 +:+ s)) st l = (st.1, st.2 +:+ joined l)).
    { induction l as [|s l IH]; intros [sd t]; cbn; [by rewrite string_app_nil_r|]. by rewrite IH, string_app_assoc. }
    by rewrite E.
  - unfold fnv. assert (Hs : 0 <= (14695981039346656037 + seed) mod 2 ^ 64 < 2 ^ 64) by (apply Z.mod_pos_bound; lia).
    revert Hs. generalize ((14695981039346656037 + seed) mod 2 ^ 64).
    induction s as [|c s IH]; intros acc Hacc; [done|]. apply IH, Z.mod_pos_bound. lia.
Defined.
