(* ===== verification/NodesMap.v ===== *)
(** * Maps over parse trees

    [map_X f h] applies [f] to the nodes in the fields of a struct [X] and [h] to
    its positions, and [replace_constants g h] puts [g c] in the place of every
    constant [c] of a tree and moves the other positions by [h]: what query
    normalization does to the text, done to the tree. *)
From S2P Require Import Prelude Enums Nodes.

Definition map_Alias (f : Node -> Node) (h : Z -> Z) (x : Alias.t Node) :
    Alias.t Node :=
  Alias.mk x.(Alias.aliasname) (map f x.(Alias.colnames)).
Definition map_RangeVar (f : Node -> Node) (h : Z -> Z) (x : RangeVar.t Node) :
    RangeVar.t Node :=
  RangeVar.mk x.(RangeVar.catalogname) x.(RangeVar.schemaname) x.(RangeVar.relname) x.(RangeVar.inh)
    x.(RangeVar.relpersistence) (option_map (map_Alias f h) x.(RangeVar.alias))
    (h x.(RangeVar.location)).
Definition map_TypeName (f : Node -> Node) (h : Z -> Z) (x : TypeName.t Node) :
    TypeName.t Node :=
  TypeName.mk (map f x.(TypeName.names)) x.(TypeName.typeOid) x.(TypeName.setof)
    x.(TypeName.pct_type) (map f x.(TypeName.typmods)) x.(TypeName.typemod)
    (map f x.(TypeName.arrayBounds)) (h x.(TypeName.location)).
Definition map_ColumnRef (f : Node -> Node) (h : Z -> Z) (x : ColumnRef.t Node) :
    ColumnRef.t Node :=
  ColumnRef.mk (map f x.(ColumnRef.fields)) (h x.(ColumnRef.location)).
Definition map_ParamRef (f : Node -> Node) (h : Z -> Z) (x : ParamRef.t Node) :
    ParamRef.t Node :=
  ParamRef.mk x.(ParamRef.number) (h x.(ParamRef.location)).
Definition map_A_Expr (f : Node -> Node) (h : Z -> Z) (x : A_Expr.t Node) :
    A_Expr.t Node :=
  A_Expr.mk x.(A_Expr.kind) (map f x.(A_Expr.name)) (option_map f x.(A_Expr.lexpr))
    (option_map f x.(A_Expr.rexpr)) (h x.(A_Expr.location)).
Definition map_A_Const (f : Node -> Node) (h : Z -> Z) (x : A_Const.t Node) :
    A_Const.t Node :=
  A_Const.mk x.(A_Const.val) (h x.(A_Const.location)).
Definition map_TypeCast (f : Node -> Node) (h : Z -> Z) (x : TypeCast.t Node) :
    TypeCast.t Node :=
  TypeCast.mk (option_map f x.(TypeCast.arg)) (option_map (map_TypeName f h) x.(TypeCast.typeName))
    (h x.(TypeCast.location)).
Definition map_CollateClause (f : Node -> Node) (h : Z -> Z) (x : CollateClause.t Node) :
    CollateClause.t Node :=
  CollateClause.mk (option_map f x.(CollateClause.arg)) (map f x.(CollateClause.collname))
    (h x.(CollateClause.location)).
Definition map_RoleSpec (f : Node -> Node) (h : Z -> Z) (x : RoleSpec.t Node) :
    RoleSpec.t Node :=
  RoleSpec.mk x.(RoleSpec.roletype) x.(RoleSpec.rolename) (h x.(RoleSpec.location)).
Definition map_WindowDef (f : Node -> Node) (h : Z -> Z) (x : WindowDef.t Node) :
    WindowDef.t Node :=
  WindowDef.mk x.(WindowDef.name) x.(WindowDef.refname) (map f x.(WindowDef.partitionClause))
    (map f x.(WindowDef.orderClause)) x.(WindowDef.frameOptions)
    (option_map f x.(WindowDef.startOffset)) (option_map f x.(WindowDef.endOffset))
    (h x.(WindowDef.location)).
Definition map_SortBy (f : Node -> Node) (h : Z -> Z) (x : SortBy.t Node) :
    SortBy.t Node :=
  SortBy.mk (option_map f x.(SortBy.node)) x.(SortBy.sortby_dir) x.(SortBy.sortby_nulls)
    (map f x.(SortBy.useOp)) (h x.(SortBy.location)).
Definition map_FuncCall (f : Node -> Node) (h : Z -> Z) (x : FuncCall.t Node) :
    FuncCall.t Node :=
  FuncCall.mk (map f x.(FuncCall.funcname)) (map f x.(FuncCall.args)) (map f x.(FuncCall.agg_order))
    (option_map f x.(FuncCall.agg_filter)) x.(FuncCall.agg_within_group) x.(FuncCall.agg_star)
    x.(FuncCall.agg_distinct) x.(FuncCall.func_variadic)
    (option_map (map_WindowDef f h) x.(FuncCall.over)) (h x.(FuncCall.location)).
Definition map_A_Indices (f : Node -> Node) (h : Z -> Z) (x : A_Indices.t Node) :
    A_Indices.t Node :=
  A_Indices.mk x.(A_Indices.is_slice) (option_map f x.(A_Indices.lidx))
    (option_map f x.(A_Indices.uidx)).
Definition map_A_Indirection (f : Node -> Node) (h : Z -> Z) (x : A_Indirection.t Node) :
    A_Indirection.t Node :=
  A_Indirection.mk (option_map f x.(A_Indirection.arg)) (map f x.(A_Indirection.indirection)).
Definition map_A_ArrayExpr (f : Node -> Node) (h : Z -> Z) (x : A_ArrayExpr.t Node) :
    A_ArrayExpr.t Node :=
  A_ArrayExpr.mk (map f x.(A_ArrayExpr.elements)) (h x.(A_ArrayExpr.location)).
Definition map_ResTarget (f : Node -> Node) (h : Z -> Z) (x : ResTarget.t Node) :
    ResTarget.t Node :=
  ResTarget.mk x.(ResTarget.name) (map f x.(ResTarget.indirection)) (option_map f x.(ResTarget.val))
    (h x.(ResTarget.location)).
Definition map_MultiAssignRef (f : Node -> Node) (h : Z -> Z) (x : MultiAssignRef.t Node) :
    MultiAssignRef.t Node :=
  MultiAssignRef.mk (option_map f x.(MultiAssignRef.source)) x.(MultiAssignRef.colno)
    x.(MultiAssignRef.ncolumns).
Definition map_NamedArgExpr (f : Node -> Node) (h : Z -> Z) (x : NamedArgExpr.t Node) :
    NamedArgExpr.t Node :=
  NamedArgExpr.mk (option_map f x.(NamedArgExpr.arg)) x.(NamedArgExpr.name)
    x.(NamedArgExpr.argnumber) (h x.(NamedArgExpr.location)).
Definition map_BoolExpr (f : Node -> Node) (h : Z -> Z) (x : BoolExpr.t Node) :
    BoolExpr.t Node :=
  BoolExpr.mk x.(BoolExpr.boolop) (map f x.(BoolExpr.args)) (h x.(BoolExpr.location)).
Definition map_SubLink (f : Node -> Node) (h : Z -> Z) (x : SubLink.t Node) :
    SubLink.t Node :=
  SubLink.mk x.(SubLink.subLinkType) x.(SubLink.subLinkId) (option_map f x.(SubLink.testexpr))
    (map f x.(SubLink.operName)) (option_map f x.(SubLink.subselect)) (h x.(SubLink.location)).
Definition map_CaseWhen (f : Node -> Node) (h : Z -> Z) (x : CaseWhen.t Node) :
    CaseWhen.t Node :=
  CaseWhen.mk (option_map f x.(CaseWhen.expr)) (option_map f x.(CaseWhen.result))
    (h x.(CaseWhen.location)).
Definition map_CaseExpr (f : Node -> Node) (h : Z -> Z) (x : CaseExpr.t Node) :
    CaseExpr.t Node :=
  CaseExpr.mk x.(CaseExpr.casetype) x.(CaseExpr.casecollid) (option_map f x.(CaseExpr.arg))
    (map f x.(CaseExpr.args)) (option_map f x.(CaseExpr.defresult)) (h x.(CaseExpr.location)).
Definition map_RowExpr (f : Node -> Node) (h : Z -> Z) (x : RowExpr.t Node) :
    RowExpr.t Node :=
  RowExpr.mk (map f x.(RowExpr.args)) x.(RowExpr.row_typeid) x.(RowExpr.row_format)
    (map f x.(RowExpr.colnames)) (h x.(RowExpr.location)).
Definition map_CoalesceExpr (f : Node -> Node) (h : Z -> Z) (x : CoalesceExpr.t Node) :
    CoalesceExpr.t Node :=
  CoalesceExpr.mk x.(CoalesceExpr.coalescetype) x.(CoalesceExpr.coalescecollid)
    (map f x.(CoalesceExpr.args)) (h x.(CoalesceExpr.location)).
Definition map_MinMaxExpr (f : Node -> Node) (h : Z -> Z) (x : MinMaxExpr.t Node) :
    MinMaxExpr.t Node :=
  MinMaxExpr.mk x.(MinMaxExpr.minmaxtype) x.(MinMaxExpr.minmaxcollid) x.(MinMaxExpr.inputcollid)
    x.(MinMaxExpr.op) (map f x.(MinMaxExpr.args)) (h x.(MinMaxExpr.location)).
Definition map_SQLValueFunction (f : Node -> Node) (h : Z -> Z) (x : SQLValueFunction.t Node) :
    SQLValueFunction.t Node :=
  SQLValueFunction.mk x.(SQLValueFunction.op) x.(SQLValueFunction.type_) x.(SQLValueFunction.typmod)
    (h x.(SQLValueFunction.location)).
Definition map_XmlExpr (f : Node -> Node) (h : Z -> Z) (x : XmlExpr.t Node) :
    XmlExpr.t Node :=
  XmlExpr.mk x.(XmlExpr.op) x.(XmlExpr.name) (map f x.(XmlExpr.named_args))
    (map f x.(XmlExpr.arg_names)) (map f x.(XmlExpr.args)) x.(XmlExpr.xmloption) x.(XmlExpr.type_)
    x.(XmlExpr.typmod) (h x.(XmlExpr.location)).
Definition map_XmlSerialize (f : Node -> Node) (h : Z -> Z) (x : XmlSerialize.t Node) :
    XmlSerialize.t Node :=
  XmlSerialize.mk x.(XmlSerialize.xmloption) (option_map f x.(XmlSerialize.expr))
    (option_map (map_TypeName f h) x.(XmlSerialize.typeName)) (h x.(XmlSerialize.location)).
Definition map_NullTest (f : Node -> Node) (h : Z -> Z) (x : NullTest.t Node) :
    NullTest.t Node :=
  NullTest.mk (option_map f x.(NullTest.arg)) x.(NullTest.nulltesttype) x.(NullTest.argisrow)
    (h x.(NullTest.location)).
Definition map_BooleanTest (f : Node -> Node) (h : Z -> Z) (x : BooleanTest.t Node) :
    BooleanTest.t Node :=
  BooleanTest.mk (option_map f x.(BooleanTest.arg)) x.(BooleanTest.booltesttype)
    (h x.(BooleanTest.location)).
Definition map_SetToDefault (f : Node -> Node) (h : Z -> Z) (x : SetToDefault.t Node) :
    SetToDefault.t Node :=
  SetToDefault.mk x.(SetToDefault.typeId) x.(SetToDefault.typeMod) x.(SetToDefault.collation)
    (h x.(SetToDefault.location)).
Definition map_GroupingFunc (f : Node -> Node) (h : Z -> Z) (x : GroupingFunc.t Node) :
    GroupingFunc.t Node :=
  GroupingFunc.mk (map f x.(GroupingFunc.args)) x.(GroupingFunc.refs) x.(GroupingFunc.cols)
    x.(GroupingFunc.agglevelsup) (h x.(GroupingFunc.location)).
Definition map_DefElem (f : Node -> Node) (h : Z -> Z) (x : DefElem.t Node) :
    DefElem.t Node :=
  DefElem.mk x.(DefElem.defnamespace) x.(DefElem.defname) (option_map f x.(DefElem.arg))
    x.(DefElem.defaction) (h x.(DefElem.location)).
Definition map_IndexElem (f : Node -> Node) (h : Z -> Z) (x : IndexElem.t Node) :
    IndexElem.t Node :=
  IndexElem.mk x.(IndexElem.name) (option_map f x.(IndexElem.expr)) x.(IndexElem.indexcolname)
    (map f x.(IndexElem.collation)) (map f x.(IndexElem.opclass)) (map f x.(IndexElem.opclassopts))
    x.(IndexElem.ordering) x.(IndexElem.nulls_ordering).
Definition map_Constraint (f : Node -> Node) (h : Z -> Z) (x : Constraint.t Node) :
    Constraint.t Node :=
  Constraint.mk x.(Constraint.contype) x.(Constraint.conname) x.(Constraint.deferrable)
    x.(Constraint.initdeferred) (h x.(Constraint.location)) x.(Constraint.is_no_inherit)
    (option_map f x.(Constraint.raw_expr)) x.(Constraint.cooked_expr) x.(Constraint.generated_when)
    (map f x.(Constraint.keys)) (map f x.(Constraint.including)) (map f x.(Constraint.exclusions))
    (map f x.(Constraint.options)) x.(Constraint.indexname) x.(Constraint.indexspace)
    x.(Constraint.reset_default_tblspc) x.(Constraint.access_method)
    (option_map f x.(Constraint.where_clause))
    (option_map (map_RangeVar f h) x.(Constraint.pktable)) (map f x.(Constraint.fk_attrs))
    (map f x.(Constraint.pk_attrs)) x.(Constraint.fk_matchtype) x.(Constraint.fk_upd_action)
    x.(Constraint.fk_del_action) (map f x.(Constraint.old_conpfeqop)) x.(Constraint.old_pktable_oid)
    x.(Constraint.skip_validation) x.(Constraint.initially_valid).
Definition map_ColumnDef (f : Node -> Node) (h : Z -> Z) (x : ColumnDef.t Node) :
    ColumnDef.t Node :=
  ColumnDef.mk x.(ColumnDef.colname) (option_map (map_TypeName f h) x.(ColumnDef.typeName))
    x.(ColumnDef.inhcount) x.(ColumnDef.is_local) x.(ColumnDef.is_not_null)
    x.(ColumnDef.is_from_type) x.(ColumnDef.storage) (option_map f x.(ColumnDef.raw_default))
    (option_map f x.(ColumnDef.cooked_default)) x.(ColumnDef.identity)
    (option_map (map_RangeVar f h) x.(ColumnDef.identitySequence)) x.(ColumnDef.generated)
    (option_map (map_CollateClause f h) x.(ColumnDef.collClause)) x.(ColumnDef.collOid)
    (map f x.(ColumnDef.constraints)) (map f x.(ColumnDef.fdwoptions)) (h x.(ColumnDef.location)).
Definition map_JoinExpr (f : Node -> Node) (h : Z -> Z) (x : JoinExpr.t Node) :
    JoinExpr.t Node :=
  JoinExpr.mk x.(JoinExpr.jointype) x.(JoinExpr.isNatural) (option_map f x.(JoinExpr.larg))
    (option_map f x.(JoinExpr.rarg)) (map f x.(JoinExpr.usingClause))
    (option_map f x.(JoinExpr.quals)) (option_map (map_Alias f h) x.(JoinExpr.alias))
    x.(JoinExpr.rtindex).
Definition map_RangeSubselect (f : Node -> Node) (h : Z -> Z) (x : RangeSubselect.t Node) :
    RangeSubselect.t Node :=
  RangeSubselect.mk x.(RangeSubselect.lateral) (option_map f x.(RangeSubselect.subquery))
    (option_map (map_Alias f h) x.(RangeSubselect.alias)).
Definition map_RangeFunction (f : Node -> Node) (h : Z -> Z) (x : RangeFunction.t Node) :
    RangeFunction.t Node :=
  RangeFunction.mk x.(RangeFunction.lateral) x.(RangeFunction.ordinality)
    x.(RangeFunction.is_rowsfrom) (map f x.(RangeFunction.functions))
    (option_map (map_Alias f h) x.(RangeFunction.alias)) (map f x.(RangeFunction.coldeflist)).
Definition map_RangeTableFuncCol (f : Node -> Node) (h : Z -> Z) (x : RangeTableFuncCol.t Node) :
    RangeTableFuncCol.t Node :=
  RangeTableFuncCol.mk x.(RangeTableFuncCol.colname)
    (option_map (map_TypeName f h) x.(RangeTableFuncCol.typeName))
    x.(RangeTableFuncCol.for_ordinality) x.(RangeTableFuncCol.is_not_null)
    (option_map f x.(RangeTableFuncCol.colexpr)) (option_map f x.(RangeTableFuncCol.coldefexpr))
    (h x.(RangeTableFuncCol.location)).
Definition map_RangeTableFunc (f : Node -> Node) (h : Z -> Z) (x : RangeTableFunc.t Node) :
    RangeTableFunc.t Node :=
  RangeTableFunc.mk x.(RangeTableFunc.lateral) (option_map f x.(RangeTableFunc.docexpr))
    (option_map f x.(RangeTableFunc.rowexpr)) (map f x.(RangeTableFunc.namespaces))
    (map f x.(RangeTableFunc.columns)) (option_map (map_Alias f h) x.(RangeTableFunc.alias))
    (h x.(RangeTableFunc.location)).
Definition map_RangeTableSample (f : Node -> Node) (h : Z -> Z) (x : RangeTableSample.t Node) :
    RangeTableSample.t Node :=
  RangeTableSample.mk (option_map f x.(RangeTableSample.relation))
    (map f x.(RangeTableSample.method)) (map f x.(RangeTableSample.args))
    (option_map f x.(RangeTableSample.repeatable)) (h x.(RangeTableSample.location)).
Definition map_CommonTableExpr (f : Node -> Node) (h : Z -> Z) (x : CommonTableExpr.t Node) :
    CommonTableExpr.t Node :=
  CommonTableExpr.mk x.(CommonTableExpr.ctename) (map f x.(CommonTableExpr.aliascolnames))
    x.(CommonTableExpr.ctematerialized) (option_map f x.(CommonTableExpr.ctequery))
    (h x.(CommonTableExpr.location)) x.(CommonTableExpr.cterecursive)
    x.(CommonTableExpr.cterefcount) (map f x.(CommonTableExpr.ctecolnames))
    x.(CommonTableExpr.ctecoltypes) x.(CommonTableExpr.ctecoltypmods)
    x.(CommonTableExpr.ctecolcollations).
Definition map_WithClause (f : Node -> Node) (h : Z -> Z) (x : WithClause.t Node) :
    WithClause.t Node :=
  WithClause.mk (map f x.(WithClause.ctes)) x.(WithClause.recursive) (h x.(WithClause.location)).
Definition map_InferClause (f : Node -> Node) (h : Z -> Z) (x : InferClause.t Node) :
    InferClause.t Node :=
  InferClause.mk (map f x.(InferClause.indexElems)) (option_map f x.(InferClause.whereClause))
    x.(InferClause.conname) (h x.(InferClause.location)).
Definition map_OnConflictClause (f : Node -> Node) (h : Z -> Z) (x : OnConflictClause.t Node) :
    OnConflictClause.t Node :=
  OnConflictClause.mk x.(OnConflictClause.action)
    (option_map (map_InferClause f h) x.(OnConflictClause.infer))
    (map f x.(OnConflictClause.targetList)) (option_map f x.(OnConflictClause.whereClause))
    (h x.(OnConflictClause.location)).
Definition map_LockingClause (f : Node -> Node) (h : Z -> Z) (x : LockingClause.t Node) :
    LockingClause.t Node :=
  LockingClause.mk (map f x.(LockingClause.lockedRels)) x.(LockingClause.strength)
    x.(LockingClause.waitPolicy).
Definition map_GroupingSet (f : Node -> Node) (h : Z -> Z) (x : GroupingSet.t Node) :
    GroupingSet.t Node :=
  GroupingSet.mk x.(GroupingSet.kind) (map f x.(GroupingSet.content)) (h x.(GroupingSet.location)).
Definition map_IntoClause (f : Node -> Node) (h : Z -> Z) (x : IntoClause.t Node) :
    IntoClause.t Node :=
  IntoClause.mk (option_map (map_RangeVar f h) x.(IntoClause.rel)) (map f x.(IntoClause.colNames))
    x.(IntoClause.accessMethod) (map f x.(IntoClause.options)) x.(IntoClause.onCommit)
    x.(IntoClause.tableSpaceName) (option_map f x.(IntoClause.viewQuery)) x.(IntoClause.skipData).
Definition map_SelectStmt (f : Node -> Node) (h : Z -> Z) (x : SelectStmt.t Node) :
    SelectStmt.t Node :=
  SelectStmt.mk (map f x.(SelectStmt.distinctClause))
    (option_map (map_IntoClause f h) x.(SelectStmt.intoClause)) (map f x.(SelectStmt.targetList))
    (map f x.(SelectStmt.fromClause)) (option_map f x.(SelectStmt.whereClause))
    (map f x.(SelectStmt.groupClause)) (option_map f x.(SelectStmt.havingClause))
    (map f x.(SelectStmt.windowClause)) (map f x.(SelectStmt.valuesLists))
    (map f x.(SelectStmt.sortClause)) (option_map f x.(SelectStmt.limitOffset))
    (option_map f x.(SelectStmt.limitCount)) x.(SelectStmt.limitOption)
    (map f x.(SelectStmt.lockingClause)) (option_map (map_WithClause f h) x.(SelectStmt.withClause))
    x.(SelectStmt.op) x.(SelectStmt.all) (option_map f x.(SelectStmt.larg))
    (option_map f x.(SelectStmt.rarg)).
Definition map_InsertStmt (f : Node -> Node) (h : Z -> Z) (x : InsertStmt.t Node) :
    InsertStmt.t Node :=
  InsertStmt.mk (option_map (map_RangeVar f h) x.(InsertStmt.relation)) (map f x.(InsertStmt.cols))
    (option_map f x.(InsertStmt.selectStmt))
    (option_map (map_OnConflictClause f h) x.(InsertStmt.onConflictClause))
    (map f x.(InsertStmt.returningList)) (option_map (map_WithClause f h) x.(InsertStmt.withClause))
    x.(InsertStmt.override).
Definition map_UpdateStmt (f : Node -> Node) (h : Z -> Z) (x : UpdateStmt.t Node) :
    UpdateStmt.t Node :=
  UpdateStmt.mk (option_map (map_RangeVar f h) x.(UpdateStmt.relation))
    (map f x.(UpdateStmt.targetList)) (option_map f x.(UpdateStmt.whereClause))
    (map f x.(UpdateStmt.fromClause)) (map f x.(UpdateStmt.returningList))
    (option_map (map_WithClause f h) x.(UpdateStmt.withClause)).
Definition map_DeleteStmt (f : Node -> Node) (h : Z -> Z) (x : DeleteStmt.t Node) :
    DeleteStmt.t Node :=
  DeleteStmt.mk (option_map (map_RangeVar f h) x.(DeleteStmt.relation))
    (map f x.(DeleteStmt.usingClause)) (option_map f x.(DeleteStmt.whereClause))
    (map f x.(DeleteStmt.returningList)) (option_map (map_WithClause f h) x.(DeleteStmt.withClause)).
Definition map_RawStmt (f : Node -> Node) (h : Z -> Z) (x : RawStmt.t Node) :
    RawStmt.t Node :=
  RawStmt.mk (option_map f x.(RawStmt.stmt)) (h x.(RawStmt.stmt_location)) (h x.(RawStmt.stmt_len)).
Definition map_AlterTableCmd (f : Node -> Node) (h : Z -> Z) (x : AlterTableCmd.t Node) :
    AlterTableCmd.t Node :=
  AlterTableCmd.mk x.(AlterTableCmd.subtype) x.(AlterTableCmd.name) x.(AlterTableCmd.num)
    (option_map (map_RoleSpec f h) x.(AlterTableCmd.newowner)) (option_map f x.(AlterTableCmd.def))
    x.(AlterTableCmd.behavior) x.(AlterTableCmd.missing_ok).
Definition map_PartitionBoundSpec (f : Node -> Node) (h : Z -> Z) (x : PartitionBoundSpec.t Node) :
    PartitionBoundSpec.t Node :=
  PartitionBoundSpec.mk x.(PartitionBoundSpec.strategy) x.(PartitionBoundSpec.is_default)
    x.(PartitionBoundSpec.modulus) x.(PartitionBoundSpec.remainder)
    (map f x.(PartitionBoundSpec.listdatums)) (map f x.(PartitionBoundSpec.lowerdatums))
    (map f x.(PartitionBoundSpec.upperdatums)) (h x.(PartitionBoundSpec.location)).
Definition map_TableLikeClause (f : Node -> Node) (h : Z -> Z) (x : TableLikeClause.t Node) :
    TableLikeClause.t Node :=
  TableLikeClause.mk (option_map (map_RangeVar f h) x.(TableLikeClause.relation))
    x.(TableLikeClause.options) x.(TableLikeClause.relationOid).
Definition map_PartitionElem (f : Node -> Node) (h : Z -> Z) (x : PartitionElem.t Node) :
    PartitionElem.t Node :=
  PartitionElem.mk x.(PartitionElem.name) (option_map f x.(PartitionElem.expr))
    (map f x.(PartitionElem.collation)) (map f x.(PartitionElem.opclass))
    (h x.(PartitionElem.location)).
Definition map_PartitionSpec (f : Node -> Node) (h : Z -> Z) (x : PartitionSpec.t Node) :
    PartitionSpec.t Node :=
  PartitionSpec.mk x.(PartitionSpec.strategy) (map f x.(PartitionSpec.partParams))
    (h x.(PartitionSpec.location)).
Definition map_PartitionCmd (f : Node -> Node) (h : Z -> Z) (x : PartitionCmd.t Node) :
    PartitionCmd.t Node :=
  PartitionCmd.mk (option_map (map_RangeVar f h) x.(PartitionCmd.name))
    (option_map (map_PartitionBoundSpec f h) x.(PartitionCmd.bound)).
Definition map_CreateSchemaStmt (f : Node -> Node) (h : Z -> Z) (x : CreateSchemaStmt.t Node) :
    CreateSchemaStmt.t Node :=
  CreateSchemaStmt.mk x.(CreateSchemaStmt.schemaname)
    (option_map (map_RoleSpec f h) x.(CreateSchemaStmt.authrole))
    (map f x.(CreateSchemaStmt.schemaElts)) x.(CreateSchemaStmt.if_not_exists).
Definition map_AlterTableStmt (f : Node -> Node) (h : Z -> Z) (x : AlterTableStmt.t Node) :
    AlterTableStmt.t Node :=
  AlterTableStmt.mk (option_map (map_RangeVar f h) x.(AlterTableStmt.relation))
    (map f x.(AlterTableStmt.cmds)) x.(AlterTableStmt.relkind) x.(AlterTableStmt.missing_ok).
Definition map_AlterCollationStmt (f : Node -> Node) (h : Z -> Z) (x : AlterCollationStmt.t Node) :
    AlterCollationStmt.t Node :=
  AlterCollationStmt.mk (map f x.(AlterCollationStmt.collname)).
Definition map_AlterDomainStmt (f : Node -> Node) (h : Z -> Z) (x : AlterDomainStmt.t Node) :
    AlterDomainStmt.t Node :=
  AlterDomainStmt.mk x.(AlterDomainStmt.subtype) (map f x.(AlterDomainStmt.typeName))
    x.(AlterDomainStmt.name) (option_map f x.(AlterDomainStmt.def)) x.(AlterDomainStmt.behavior)
    x.(AlterDomainStmt.missing_ok).
Definition map_GrantStmt (f : Node -> Node) (h : Z -> Z) (x : GrantStmt.t Node) :
    GrantStmt.t Node :=
  GrantStmt.mk x.(GrantStmt.is_grant) x.(GrantStmt.targtype) x.(GrantStmt.objtype)
    (map f x.(GrantStmt.objects)) (map f x.(GrantStmt.privileges)) (map f x.(GrantStmt.grantees))
    x.(GrantStmt.grant_option) x.(GrantStmt.behavior).
Definition map_ObjectWithArgs (f : Node -> Node) (h : Z -> Z) (x : ObjectWithArgs.t Node) :
    ObjectWithArgs.t Node :=
  ObjectWithArgs.mk (map f x.(ObjectWithArgs.objname)) (map f x.(ObjectWithArgs.objargs))
    x.(ObjectWithArgs.args_unspecified).
Definition map_AccessPriv (f : Node -> Node) (h : Z -> Z) (x : AccessPriv.t Node) :
    AccessPriv.t Node :=
  AccessPriv.mk x.(AccessPriv.priv_name) (map f x.(AccessPriv.cols)).
Definition map_GrantRoleStmt (f : Node -> Node) (h : Z -> Z) (x : GrantRoleStmt.t Node) :
    GrantRoleStmt.t Node :=
  GrantRoleStmt.mk (map f x.(GrantRoleStmt.granted_roles)) (map f x.(GrantRoleStmt.grantee_roles))
    x.(GrantRoleStmt.is_grant) x.(GrantRoleStmt.admin_opt)
    (option_map (map_RoleSpec f h) x.(GrantRoleStmt.grantor)) x.(GrantRoleStmt.behavior).
Definition map_AlterDefaultPrivilegesStmt (f : Node -> Node) (h : Z -> Z) (x : AlterDefaultPrivilegesStmt.t Node) :
    AlterDefaultPrivilegesStmt.t Node :=
  AlterDefaultPrivilegesStmt.mk (map f x.(AlterDefaultPrivilegesStmt.options))
    (option_map (map_GrantStmt f h) x.(AlterDefaultPrivilegesStmt.action)).
Definition map_CopyStmt (f : Node -> Node) (h : Z -> Z) (x : CopyStmt.t Node) :
    CopyStmt.t Node :=
  CopyStmt.mk (option_map (map_RangeVar f h) x.(CopyStmt.relation))
    (option_map f x.(CopyStmt.query)) (map f x.(CopyStmt.attlist)) x.(CopyStmt.is_from)
    x.(CopyStmt.is_program) x.(CopyStmt.filename) (map f x.(CopyStmt.options))
    (option_map f x.(CopyStmt.whereClause)).
Definition map_VariableSetStmt (f : Node -> Node) (h : Z -> Z) (x : VariableSetStmt.t Node) :
    VariableSetStmt.t Node :=
  VariableSetStmt.mk x.(VariableSetStmt.kind) x.(VariableSetStmt.name)
    (map f x.(VariableSetStmt.args)) x.(VariableSetStmt.is_local).
Definition map_CreateStmt (f : Node -> Node) (h : Z -> Z) (x : CreateStmt.t Node) :
    CreateStmt.t Node :=
  CreateStmt.mk (option_map (map_RangeVar f h) x.(CreateStmt.relation))
    (map f x.(CreateStmt.tableElts)) (map f x.(CreateStmt.inhRelations))
    (option_map (map_PartitionBoundSpec f h) x.(CreateStmt.partbound))
    (option_map (map_PartitionSpec f h) x.(CreateStmt.partspec))
    (option_map (map_TypeName f h) x.(CreateStmt.ofTypename)) (map f x.(CreateStmt.constraints))
    (map f x.(CreateStmt.options)) x.(CreateStmt.oncommit) x.(CreateStmt.tablespacename)
    x.(CreateStmt.accessMethod) x.(CreateStmt.if_not_exists).
Definition map_CreateTableSpaceStmt (f : Node -> Node) (h : Z -> Z) (x : CreateTableSpaceStmt.t Node) :
    CreateTableSpaceStmt.t Node :=
  CreateTableSpaceStmt.mk x.(CreateTableSpaceStmt.tablespacename)
    (option_map (map_RoleSpec f h) x.(CreateTableSpaceStmt.owner)) x.(CreateTableSpaceStmt.location)
    (map f x.(CreateTableSpaceStmt.options)).
Definition map_AlterTableSpaceOptionsStmt (f : Node -> Node) (h : Z -> Z) (x : AlterTableSpaceOptionsStmt.t Node) :
    AlterTableSpaceOptionsStmt.t Node :=
  AlterTableSpaceOptionsStmt.mk x.(AlterTableSpaceOptionsStmt.tablespacename)
    (map f x.(AlterTableSpaceOptionsStmt.options)) x.(AlterTableSpaceOptionsStmt.isReset).
Definition map_AlterTableMoveAllStmt (f : Node -> Node) (h : Z -> Z) (x : AlterTableMoveAllStmt.t Node) :
    AlterTableMoveAllStmt.t Node :=
  AlterTableMoveAllStmt.mk x.(AlterTableMoveAllStmt.orig_tablespacename)
    x.(AlterTableMoveAllStmt.objtype) (map f x.(AlterTableMoveAllStmt.roles))
    x.(AlterTableMoveAllStmt.new_tablespacename) x.(AlterTableMoveAllStmt.nowait).
Definition map_CreateExtensionStmt (f : Node -> Node) (h : Z -> Z) (x : CreateExtensionStmt.t Node) :
    CreateExtensionStmt.t Node :=
  CreateExtensionStmt.mk x.(CreateExtensionStmt.extname) x.(CreateExtensionStmt.if_not_exists)
    (map f x.(CreateExtensionStmt.options)).
Definition map_AlterExtensionStmt (f : Node -> Node) (h : Z -> Z) (x : AlterExtensionStmt.t Node) :
    AlterExtensionStmt.t Node :=
  AlterExtensionStmt.mk x.(AlterExtensionStmt.extname) (map f x.(AlterExtensionStmt.options)).
Definition map_AlterExtensionContentsStmt (f : Node -> Node) (h : Z -> Z) (x : AlterExtensionContentsStmt.t Node) :
    AlterExtensionContentsStmt.t Node :=
  AlterExtensionContentsStmt.mk x.(AlterExtensionContentsStmt.extname)
    x.(AlterExtensionContentsStmt.action) x.(AlterExtensionContentsStmt.objtype)
    (option_map f x.(AlterExtensionContentsStmt.object)).
Definition map_CreateFdwStmt (f : Node -> Node) (h : Z -> Z) (x : CreateFdwStmt.t Node) :
    CreateFdwStmt.t Node :=
  CreateFdwStmt.mk x.(CreateFdwStmt.fdwname) (map f x.(CreateFdwStmt.func_options))
    (map f x.(CreateFdwStmt.options)).
Definition map_AlterFdwStmt (f : Node -> Node) (h : Z -> Z) (x : AlterFdwStmt.t Node) :
    AlterFdwStmt.t Node :=
  AlterFdwStmt.mk x.(AlterFdwStmt.fdwname) (map f x.(AlterFdwStmt.func_options))
    (map f x.(AlterFdwStmt.options)).
Definition map_CreateForeignServerStmt (f : Node -> Node) (h : Z -> Z) (x : CreateForeignServerStmt.t Node) :
    CreateForeignServerStmt.t Node :=
  CreateForeignServerStmt.mk x.(CreateForeignServerStmt.servername)
    x.(CreateForeignServerStmt.servertype) x.(CreateForeignServerStmt.version)
    x.(CreateForeignServerStmt.fdwname) x.(CreateForeignServerStmt.if_not_exists)
    (map f x.(CreateForeignServerStmt.options)).
Definition map_AlterForeignServerStmt (f : Node -> Node) (h : Z -> Z) (x : AlterForeignServerStmt.t Node) :
    AlterForeignServerStmt.t Node :=
  AlterForeignServerStmt.mk x.(AlterForeignServerStmt.servername) x.(AlterForeignServerStmt.version)
    (map f x.(AlterForeignServerStmt.options)) x.(AlterForeignServerStmt.has_version).
Definition map_CreateForeignTableStmt (f : Node -> Node) (h : Z -> Z) (x : CreateForeignTableStmt.t Node) :
    CreateForeignTableStmt.t Node :=
  CreateForeignTableStmt.mk (map_CreateStmt f h x.(CreateForeignTableStmt.base))
    x.(CreateForeignTableStmt.servername) (map f x.(CreateForeignTableStmt.options)).
Definition map_CreateUserMappingStmt (f : Node -> Node) (h : Z -> Z) (x : CreateUserMappingStmt.t Node) :
    CreateUserMappingStmt.t Node :=
  CreateUserMappingStmt.mk (option_map (map_RoleSpec f h) x.(CreateUserMappingStmt.user))
    x.(CreateUserMappingStmt.servername) x.(CreateUserMappingStmt.if_not_exists)
    (map f x.(CreateUserMappingStmt.options)).
Definition map_AlterUserMappingStmt (f : Node -> Node) (h : Z -> Z) (x : AlterUserMappingStmt.t Node) :
    AlterUserMappingStmt.t Node :=
  AlterUserMappingStmt.mk (option_map (map_RoleSpec f h) x.(AlterUserMappingStmt.user))
    x.(AlterUserMappingStmt.servername) (map f x.(AlterUserMappingStmt.options)).
Definition map_DropUserMappingStmt (f : Node -> Node) (h : Z -> Z) (x : DropUserMappingStmt.t Node) :
    DropUserMappingStmt.t Node :=
  DropUserMappingStmt.mk (option_map (map_RoleSpec f h) x.(DropUserMappingStmt.user))
    x.(DropUserMappingStmt.servername) x.(DropUserMappingStmt.missing_ok).
Definition map_ImportForeignSchemaStmt (f : Node -> Node) (h : Z -> Z) (x : ImportForeignSchemaStmt.t Node) :
    ImportForeignSchemaStmt.t Node :=
  ImportForeignSchemaStmt.mk x.(ImportForeignSchemaStmt.server_name)
    x.(ImportForeignSchemaStmt.remote_schema) x.(ImportForeignSchemaStmt.local_schema)
    x.(ImportForeignSchemaStmt.list_type) (map f x.(ImportForeignSchemaStmt.table_list))
    (map f x.(ImportForeignSchemaStmt.options)).
Definition map_CreatePolicyStmt (f : Node -> Node) (h : Z -> Z) (x : CreatePolicyStmt.t Node) :
    CreatePolicyStmt.t Node :=
  CreatePolicyStmt.mk x.(CreatePolicyStmt.policy_name)
    (option_map (map_RangeVar f h) x.(CreatePolicyStmt.table)) x.(CreatePolicyStmt.cmd_name)
    x.(CreatePolicyStmt.permissive) (map f x.(CreatePolicyStmt.roles))
    (option_map f x.(CreatePolicyStmt.qual)) (option_map f x.(CreatePolicyStmt.with_check)).
Definition map_AlterPolicyStmt (f : Node -> Node) (h : Z -> Z) (x : AlterPolicyStmt.t Node) :
    AlterPolicyStmt.t Node :=
  AlterPolicyStmt.mk x.(AlterPolicyStmt.policy_name)
    (option_map (map_RangeVar f h) x.(AlterPolicyStmt.table)) (map f x.(AlterPolicyStmt.roles))
    (option_map f x.(AlterPolicyStmt.qual)) (option_map f x.(AlterPolicyStmt.with_check)).
Definition map_CreateAmStmt (f : Node -> Node) (h : Z -> Z) (x : CreateAmStmt.t Node) :
    CreateAmStmt.t Node :=
  CreateAmStmt.mk x.(CreateAmStmt.amname) (map f x.(CreateAmStmt.handler_name))
    x.(CreateAmStmt.amtype).
Definition map_CreateTrigStmt (f : Node -> Node) (h : Z -> Z) (x : CreateTrigStmt.t Node) :
    CreateTrigStmt.t Node :=
  CreateTrigStmt.mk x.(CreateTrigStmt.trigname)
    (option_map (map_RangeVar f h) x.(CreateTrigStmt.relation)) (map f x.(CreateTrigStmt.funcname))
    (map f x.(CreateTrigStmt.args)) x.(CreateTrigStmt.row) x.(CreateTrigStmt.timing)
    x.(CreateTrigStmt.events) (map f x.(CreateTrigStmt.columns))
    (option_map f x.(CreateTrigStmt.whenClause)) x.(CreateTrigStmt.isconstraint)
    (map f x.(CreateTrigStmt.transitionRels)) x.(CreateTrigStmt.deferrable)
    x.(CreateTrigStmt.initdeferred) (option_map (map_RangeVar f h) x.(CreateTrigStmt.constrrel)).
Definition map_CreateEventTrigStmt (f : Node -> Node) (h : Z -> Z) (x : CreateEventTrigStmt.t Node) :
    CreateEventTrigStmt.t Node :=
  CreateEventTrigStmt.mk x.(CreateEventTrigStmt.trigname) x.(CreateEventTrigStmt.eventname)
    (map f x.(CreateEventTrigStmt.whenclause)) (map f x.(CreateEventTrigStmt.funcname)).
Definition map_CreatePLangStmt (f : Node -> Node) (h : Z -> Z) (x : CreatePLangStmt.t Node) :
    CreatePLangStmt.t Node :=
  CreatePLangStmt.mk x.(CreatePLangStmt.replace) x.(CreatePLangStmt.plname)
    (map f x.(CreatePLangStmt.plhandler)) (map f x.(CreatePLangStmt.plinline))
    (map f x.(CreatePLangStmt.plvalidator)) x.(CreatePLangStmt.pltrusted).
Definition map_CreateRoleStmt (f : Node -> Node) (h : Z -> Z) (x : CreateRoleStmt.t Node) :
    CreateRoleStmt.t Node :=
  CreateRoleStmt.mk x.(CreateRoleStmt.stmt_type) x.(CreateRoleStmt.role)
    (map f x.(CreateRoleStmt.options)).
Definition map_AlterRoleStmt (f : Node -> Node) (h : Z -> Z) (x : AlterRoleStmt.t Node) :
    AlterRoleStmt.t Node :=
  AlterRoleStmt.mk (option_map (map_RoleSpec f h) x.(AlterRoleStmt.role))
    (map f x.(AlterRoleStmt.options)) x.(AlterRoleStmt.action).
Definition map_AlterRoleSetStmt (f : Node -> Node) (h : Z -> Z) (x : AlterRoleSetStmt.t Node) :
    AlterRoleSetStmt.t Node :=
  AlterRoleSetStmt.mk (option_map (map_RoleSpec f h) x.(AlterRoleSetStmt.role))
    x.(AlterRoleSetStmt.database)
    (option_map (map_VariableSetStmt f h) x.(AlterRoleSetStmt.setstmt)).
Definition map_DropRoleStmt (f : Node -> Node) (h : Z -> Z) (x : DropRoleStmt.t Node) :
    DropRoleStmt.t Node :=
  DropRoleStmt.mk (map f x.(DropRoleStmt.roles)) x.(DropRoleStmt.missing_ok).
Definition map_CreateSeqStmt (f : Node -> Node) (h : Z -> Z) (x : CreateSeqStmt.t Node) :
    CreateSeqStmt.t Node :=
  CreateSeqStmt.mk (option_map (map_RangeVar f h) x.(CreateSeqStmt.sequence))
    (map f x.(CreateSeqStmt.options)) x.(CreateSeqStmt.ownerId) x.(CreateSeqStmt.for_identity)
    x.(CreateSeqStmt.if_not_exists).
Definition map_AlterSeqStmt (f : Node -> Node) (h : Z -> Z) (x : AlterSeqStmt.t Node) :
    AlterSeqStmt.t Node :=
  AlterSeqStmt.mk (option_map (map_RangeVar f h) x.(AlterSeqStmt.sequence))
    (map f x.(AlterSeqStmt.options)) x.(AlterSeqStmt.for_identity) x.(AlterSeqStmt.missing_ok).
Definition map_DefineStmt (f : Node -> Node) (h : Z -> Z) (x : DefineStmt.t Node) :
    DefineStmt.t Node :=
  DefineStmt.mk x.(DefineStmt.kind) x.(DefineStmt.oldstyle) (map f x.(DefineStmt.defnames))
    (map f x.(DefineStmt.args)) (map f x.(DefineStmt.definition)) x.(DefineStmt.if_not_exists)
    x.(DefineStmt.replace).
Definition map_CreateDomainStmt (f : Node -> Node) (h : Z -> Z) (x : CreateDomainStmt.t Node) :
    CreateDomainStmt.t Node :=
  CreateDomainStmt.mk (map f x.(CreateDomainStmt.domainname))
    (option_map (map_TypeName f h) x.(CreateDomainStmt.typeName))
    (option_map (map_CollateClause f h) x.(CreateDomainStmt.collClause))
    (map f x.(CreateDomainStmt.constraints)).
Definition map_CreateOpClassStmt (f : Node -> Node) (h : Z -> Z) (x : CreateOpClassStmt.t Node) :
    CreateOpClassStmt.t Node :=
  CreateOpClassStmt.mk (map f x.(CreateOpClassStmt.opclassname))
    (map f x.(CreateOpClassStmt.opfamilyname)) x.(CreateOpClassStmt.amname)
    (option_map (map_TypeName f h) x.(CreateOpClassStmt.datatype))
    (map f x.(CreateOpClassStmt.items)) x.(CreateOpClassStmt.isDefault).
Definition map_CreateOpClassItem (f : Node -> Node) (h : Z -> Z) (x : CreateOpClassItem.t Node) :
    CreateOpClassItem.t Node :=
  CreateOpClassItem.mk x.(CreateOpClassItem.itemtype)
    (option_map (map_ObjectWithArgs f h) x.(CreateOpClassItem.name)) x.(CreateOpClassItem.number)
    (map f x.(CreateOpClassItem.order_family)) (map f x.(CreateOpClassItem.class_args))
    (option_map (map_TypeName f h) x.(CreateOpClassItem.storedtype)).
Definition map_CreateOpFamilyStmt (f : Node -> Node) (h : Z -> Z) (x : CreateOpFamilyStmt.t Node) :
    CreateOpFamilyStmt.t Node :=
  CreateOpFamilyStmt.mk (map f x.(CreateOpFamilyStmt.opfamilyname)) x.(CreateOpFamilyStmt.amname).
Definition map_AlterOpFamilyStmt (f : Node -> Node) (h : Z -> Z) (x : AlterOpFamilyStmt.t Node) :
    AlterOpFamilyStmt.t Node :=
  AlterOpFamilyStmt.mk (map f x.(AlterOpFamilyStmt.opfamilyname)) x.(AlterOpFamilyStmt.amname)
    x.(AlterOpFamilyStmt.isDrop) (map f x.(AlterOpFamilyStmt.items)).
Definition map_DropStmt (f : Node -> Node) (h : Z -> Z) (x : DropStmt.t Node) :
    DropStmt.t Node :=
  DropStmt.mk (map f x.(DropStmt.objects)) x.(DropStmt.removeType) x.(DropStmt.behavior)
    x.(DropStmt.missing_ok) x.(DropStmt.concurrent).
Definition map_TruncateStmt (f : Node -> Node) (h : Z -> Z) (x : TruncateStmt.t Node) :
    TruncateStmt.t Node :=
  TruncateStmt.mk (map f x.(TruncateStmt.relations)) x.(TruncateStmt.restart_seqs)
    x.(TruncateStmt.behavior).
Definition map_CommentStmt (f : Node -> Node) (h : Z -> Z) (x : CommentStmt.t Node) :
    CommentStmt.t Node :=
  CommentStmt.mk x.(CommentStmt.objtype) (option_map f x.(CommentStmt.object))
    x.(CommentStmt.comment).
Definition map_SecLabelStmt (f : Node -> Node) (h : Z -> Z) (x : SecLabelStmt.t Node) :
    SecLabelStmt.t Node :=
  SecLabelStmt.mk x.(SecLabelStmt.objtype) (option_map f x.(SecLabelStmt.object))
    x.(SecLabelStmt.provider) x.(SecLabelStmt.label).
Definition map_DeclareCursorStmt (f : Node -> Node) (h : Z -> Z) (x : DeclareCursorStmt.t Node) :
    DeclareCursorStmt.t Node :=
  DeclareCursorStmt.mk x.(DeclareCursorStmt.portalname) x.(DeclareCursorStmt.options)
    (option_map f x.(DeclareCursorStmt.query)).
Definition map_IndexStmt (f : Node -> Node) (h : Z -> Z) (x : IndexStmt.t Node) :
    IndexStmt.t Node :=
  IndexStmt.mk x.(IndexStmt.idxname) (option_map (map_RangeVar f h) x.(IndexStmt.relation))
    x.(IndexStmt.accessMethod) x.(IndexStmt.tableSpace) (map f x.(IndexStmt.indexParams))
    (map f x.(IndexStmt.indexIncludingParams)) (map f x.(IndexStmt.options))
    (option_map f x.(IndexStmt.whereClause)) (map f x.(IndexStmt.excludeOpNames))
    x.(IndexStmt.idxcomment) x.(IndexStmt.indexOid) x.(IndexStmt.oldNode)
    x.(IndexStmt.oldCreateSubid) x.(IndexStmt.oldFirstRelfilenodeSubid) x.(IndexStmt.unique)
    x.(IndexStmt.primary) x.(IndexStmt.isconstraint) x.(IndexStmt.deferrable)
    x.(IndexStmt.initdeferred) x.(IndexStmt.transformed) x.(IndexStmt.concurrent)
    x.(IndexStmt.if_not_exists) x.(IndexStmt.reset_default_tblspc).
Definition map_CreateStatsStmt (f : Node -> Node) (h : Z -> Z) (x : CreateStatsStmt.t Node) :
    CreateStatsStmt.t Node :=
  CreateStatsStmt.mk (map f x.(CreateStatsStmt.defnames)) (map f x.(CreateStatsStmt.stat_types))
    (map f x.(CreateStatsStmt.exprs)) (map f x.(CreateStatsStmt.relations))
    x.(CreateStatsStmt.stxcomment) x.(CreateStatsStmt.if_not_exists).
Definition map_AlterStatsStmt (f : Node -> Node) (h : Z -> Z) (x : AlterStatsStmt.t Node) :
    AlterStatsStmt.t Node :=
  AlterStatsStmt.mk (map f x.(AlterStatsStmt.defnames)) x.(AlterStatsStmt.stxstattarget)
    x.(AlterStatsStmt.missing_ok).
Definition map_CreateFunctionStmt (f : Node -> Node) (h : Z -> Z) (x : CreateFunctionStmt.t Node) :
    CreateFunctionStmt.t Node :=
  CreateFunctionStmt.mk x.(CreateFunctionStmt.is_procedure) x.(CreateFunctionStmt.replace)
    (map f x.(CreateFunctionStmt.funcname)) (map f x.(CreateFunctionStmt.parameters))
    (option_map (map_TypeName f h) x.(CreateFunctionStmt.returnType))
    (map f x.(CreateFunctionStmt.options)).
Definition map_FunctionParameter (f : Node -> Node) (h : Z -> Z) (x : FunctionParameter.t Node) :
    FunctionParameter.t Node :=
  FunctionParameter.mk x.(FunctionParameter.name)
    (option_map (map_TypeName f h) x.(FunctionParameter.argType)) x.(FunctionParameter.mode)
    (option_map f x.(FunctionParameter.defexpr)).
Definition map_AlterFunctionStmt (f : Node -> Node) (h : Z -> Z) (x : AlterFunctionStmt.t Node) :
    AlterFunctionStmt.t Node :=
  AlterFunctionStmt.mk x.(AlterFunctionStmt.objtype)
    (option_map (map_ObjectWithArgs f h) x.(AlterFunctionStmt.func))
    (map f x.(AlterFunctionStmt.actions)).
Definition map_DoStmt (f : Node -> Node) (h : Z -> Z) (x : DoStmt.t Node) :
    DoStmt.t Node :=
  DoStmt.mk (map f x.(DoStmt.args)).
Definition map_FuncExpr (f : Node -> Node) (h : Z -> Z) (x : FuncExpr.t Node) :
    FuncExpr.t Node :=
  FuncExpr.mk x.(FuncExpr.funcid) x.(FuncExpr.funcresulttype) x.(FuncExpr.funcretset)
    x.(FuncExpr.funcvariadic) x.(FuncExpr.funcformat) x.(FuncExpr.funccollid)
    x.(FuncExpr.inputcollid) (map f x.(FuncExpr.args)) (h x.(FuncExpr.location)).
Definition map_CallStmt (f : Node -> Node) (h : Z -> Z) (x : CallStmt.t Node) :
    CallStmt.t Node :=
  CallStmt.mk (option_map (map_FuncCall f h) x.(CallStmt.funccall))
    (option_map (map_FuncExpr f h) x.(CallStmt.funcexpr)).
Definition map_RenameStmt (f : Node -> Node) (h : Z -> Z) (x : RenameStmt.t Node) :
    RenameStmt.t Node :=
  RenameStmt.mk x.(RenameStmt.renameType) x.(RenameStmt.relationType)
    (option_map (map_RangeVar f h) x.(RenameStmt.relation)) (option_map f x.(RenameStmt.object))
    x.(RenameStmt.subname) x.(RenameStmt.newname) x.(RenameStmt.behavior) x.(RenameStmt.missing_ok).
Definition map_AlterObjectDependsStmt (f : Node -> Node) (h : Z -> Z) (x : AlterObjectDependsStmt.t Node) :
    AlterObjectDependsStmt.t Node :=
  AlterObjectDependsStmt.mk x.(AlterObjectDependsStmt.objectType)
    (option_map (map_RangeVar f h) x.(AlterObjectDependsStmt.relation))
    (option_map f x.(AlterObjectDependsStmt.object))
    (option_map f x.(AlterObjectDependsStmt.extname)) x.(AlterObjectDependsStmt.remove).
Definition map_AlterObjectSchemaStmt (f : Node -> Node) (h : Z -> Z) (x : AlterObjectSchemaStmt.t Node) :
    AlterObjectSchemaStmt.t Node :=
  AlterObjectSchemaStmt.mk x.(AlterObjectSchemaStmt.objectType)
    (option_map (map_RangeVar f h) x.(AlterObjectSchemaStmt.relation))
    (option_map f x.(AlterObjectSchemaStmt.object)) x.(AlterObjectSchemaStmt.newschema)
    x.(AlterObjectSchemaStmt.missing_ok).
Definition map_AlterOwnerStmt (f : Node -> Node) (h : Z -> Z) (x : AlterOwnerStmt.t Node) :
    AlterOwnerStmt.t Node :=
  AlterOwnerStmt.mk x.(AlterOwnerStmt.objectType)
    (option_map (map_RangeVar f h) x.(AlterOwnerStmt.relation))
    (option_map f x.(AlterOwnerStmt.object))
    (option_map (map_RoleSpec f h) x.(AlterOwnerStmt.newowner)).
Definition map_AlterOperatorStmt (f : Node -> Node) (h : Z -> Z) (x : AlterOperatorStmt.t Node) :
    AlterOperatorStmt.t Node :=
  AlterOperatorStmt.mk (option_map (map_ObjectWithArgs f h) x.(AlterOperatorStmt.opername))
    (map f x.(AlterOperatorStmt.options)).
Definition map_AlterTypeStmt (f : Node -> Node) (h : Z -> Z) (x : AlterTypeStmt.t Node) :
    AlterTypeStmt.t Node :=
  AlterTypeStmt.mk (map f x.(AlterTypeStmt.typeName)) (map f x.(AlterTypeStmt.options)).
Definition map_RuleStmt (f : Node -> Node) (h : Z -> Z) (x : RuleStmt.t Node) :
    RuleStmt.t Node :=
  RuleStmt.mk (option_map (map_RangeVar f h) x.(RuleStmt.relation)) x.(RuleStmt.rulename)
    (option_map f x.(RuleStmt.whereClause)) x.(RuleStmt.event) x.(RuleStmt.instead)
    (map f x.(RuleStmt.actions)) x.(RuleStmt.replace).
Definition map_TransactionStmt (f : Node -> Node) (h : Z -> Z) (x : TransactionStmt.t Node) :
    TransactionStmt.t Node :=
  TransactionStmt.mk x.(TransactionStmt.kind) (map f x.(TransactionStmt.options))
    x.(TransactionStmt.savepoint_name) x.(TransactionStmt.gid) x.(TransactionStmt.chain).
Definition map_CompositeTypeStmt (f : Node -> Node) (h : Z -> Z) (x : CompositeTypeStmt.t Node) :
    CompositeTypeStmt.t Node :=
  CompositeTypeStmt.mk (option_map (map_RangeVar f h) x.(CompositeTypeStmt.typevar))
    (map f x.(CompositeTypeStmt.coldeflist)).
Definition map_CreateEnumStmt (f : Node -> Node) (h : Z -> Z) (x : CreateEnumStmt.t Node) :
    CreateEnumStmt.t Node :=
  CreateEnumStmt.mk (map f x.(CreateEnumStmt.typeName)) (map f x.(CreateEnumStmt.vals)).
Definition map_CreateRangeStmt (f : Node -> Node) (h : Z -> Z) (x : CreateRangeStmt.t Node) :
    CreateRangeStmt.t Node :=
  CreateRangeStmt.mk (map f x.(CreateRangeStmt.typeName)) (map f x.(CreateRangeStmt.params)).
Definition map_AlterEnumStmt (f : Node -> Node) (h : Z -> Z) (x : AlterEnumStmt.t Node) :
    AlterEnumStmt.t Node :=
  AlterEnumStmt.mk (map f x.(AlterEnumStmt.typeName)) x.(AlterEnumStmt.oldVal)
    x.(AlterEnumStmt.newVal) x.(AlterEnumStmt.newValNeighbor) x.(AlterEnumStmt.newValIsAfter)
    x.(AlterEnumStmt.skipIfNewValExists).
Definition map_ViewStmt (f : Node -> Node) (h : Z -> Z) (x : ViewStmt.t Node) :
    ViewStmt.t Node :=
  ViewStmt.mk (option_map (map_RangeVar f h) x.(ViewStmt.view)) (map f x.(ViewStmt.aliases))
    (option_map f x.(ViewStmt.query)) x.(ViewStmt.replace) (map f x.(ViewStmt.options))
    x.(ViewStmt.withCheckOption).
Definition map_CreatedbStmt (f : Node -> Node) (h : Z -> Z) (x : CreatedbStmt.t Node) :
    CreatedbStmt.t Node :=
  CreatedbStmt.mk x.(CreatedbStmt.dbname) (map f x.(CreatedbStmt.options)).
Definition map_AlterDatabaseStmt (f : Node -> Node) (h : Z -> Z) (x : AlterDatabaseStmt.t Node) :
    AlterDatabaseStmt.t Node :=
  AlterDatabaseStmt.mk x.(AlterDatabaseStmt.dbname) (map f x.(AlterDatabaseStmt.options)).
Definition map_AlterDatabaseSetStmt (f : Node -> Node) (h : Z -> Z) (x : AlterDatabaseSetStmt.t Node) :
    AlterDatabaseSetStmt.t Node :=
  AlterDatabaseSetStmt.mk x.(AlterDatabaseSetStmt.dbname)
    (option_map (map_VariableSetStmt f h) x.(AlterDatabaseSetStmt.setstmt)).
Definition map_DropdbStmt (f : Node -> Node) (h : Z -> Z) (x : DropdbStmt.t Node) :
    DropdbStmt.t Node :=
  DropdbStmt.mk x.(DropdbStmt.dbname) x.(DropdbStmt.missing_ok) (map f x.(DropdbStmt.options)).
Definition map_AlterSystemStmt (f : Node -> Node) (h : Z -> Z) (x : AlterSystemStmt.t Node) :
    AlterSystemStmt.t Node :=
  AlterSystemStmt.mk (option_map (map_VariableSetStmt f h) x.(AlterSystemStmt.setstmt)).
Definition map_ClusterStmt (f : Node -> Node) (h : Z -> Z) (x : ClusterStmt.t Node) :
    ClusterStmt.t Node :=
  ClusterStmt.mk (option_map (map_RangeVar f h) x.(ClusterStmt.relation)) x.(ClusterStmt.indexname)
    x.(ClusterStmt.options).
Definition map_VacuumStmt (f : Node -> Node) (h : Z -> Z) (x : VacuumStmt.t Node) :
    VacuumStmt.t Node :=
  VacuumStmt.mk (map f x.(VacuumStmt.options)) (map f x.(VacuumStmt.rels))
    x.(VacuumStmt.is_vacuumcmd).
Definition map_VacuumRelation (f : Node -> Node) (h : Z -> Z) (x : VacuumRelation.t Node) :
    VacuumRelation.t Node :=
  VacuumRelation.mk (option_map (map_RangeVar f h) x.(VacuumRelation.relation))
    x.(VacuumRelation.oid) (map f x.(VacuumRelation.va_cols)).
Definition map_ExplainStmt (f : Node -> Node) (h : Z -> Z) (x : ExplainStmt.t Node) :
    ExplainStmt.t Node :=
  ExplainStmt.mk (option_map f x.(ExplainStmt.query)) (map f x.(ExplainStmt.options)).
Definition map_CreateTableAsStmt (f : Node -> Node) (h : Z -> Z) (x : CreateTableAsStmt.t Node) :
    CreateTableAsStmt.t Node :=
  CreateTableAsStmt.mk (option_map f x.(CreateTableAsStmt.query))
    (option_map (map_IntoClause f h) x.(CreateTableAsStmt.into)) x.(CreateTableAsStmt.relkind)
    x.(CreateTableAsStmt.is_select_into) x.(CreateTableAsStmt.if_not_exists).
Definition map_RefreshMatViewStmt (f : Node -> Node) (h : Z -> Z) (x : RefreshMatViewStmt.t Node) :
    RefreshMatViewStmt.t Node :=
  RefreshMatViewStmt.mk x.(RefreshMatViewStmt.concurrent) x.(RefreshMatViewStmt.skipData)
    (option_map (map_RangeVar f h) x.(RefreshMatViewStmt.relation)).
Definition map_LockStmt (f : Node -> Node) (h : Z -> Z) (x : LockStmt.t Node) :
    LockStmt.t Node :=
  LockStmt.mk (map f x.(LockStmt.relations)) x.(LockStmt.mode) x.(LockStmt.nowait).
Definition map_ConstraintsSetStmt (f : Node -> Node) (h : Z -> Z) (x : ConstraintsSetStmt.t Node) :
    ConstraintsSetStmt.t Node :=
  ConstraintsSetStmt.mk (map f x.(ConstraintsSetStmt.constraints)) x.(ConstraintsSetStmt.deferred).
Definition map_ReindexStmt (f : Node -> Node) (h : Z -> Z) (x : ReindexStmt.t Node) :
    ReindexStmt.t Node :=
  ReindexStmt.mk x.(ReindexStmt.kind) (option_map (map_RangeVar f h) x.(ReindexStmt.relation))
    x.(ReindexStmt.name) x.(ReindexStmt.options) x.(ReindexStmt.concurrent).
Definition map_CreateConversionStmt (f : Node -> Node) (h : Z -> Z) (x : CreateConversionStmt.t Node) :
    CreateConversionStmt.t Node :=
  CreateConversionStmt.mk (map f x.(CreateConversionStmt.conversion_name))
    x.(CreateConversionStmt.for_encoding_name) x.(CreateConversionStmt.to_encoding_name)
    (map f x.(CreateConversionStmt.func_name)) x.(CreateConversionStmt.def).
Definition map_CreateCastStmt (f : Node -> Node) (h : Z -> Z) (x : CreateCastStmt.t Node) :
    CreateCastStmt.t Node :=
  CreateCastStmt.mk (option_map (map_TypeName f h) x.(CreateCastStmt.sourcetype))
    (option_map (map_TypeName f h) x.(CreateCastStmt.targettype))
    (option_map (map_ObjectWithArgs f h) x.(CreateCastStmt.func)) x.(CreateCastStmt.context)
    x.(CreateCastStmt.inout).
Definition map_CreateTransformStmt (f : Node -> Node) (h : Z -> Z) (x : CreateTransformStmt.t Node) :
    CreateTransformStmt.t Node :=
  CreateTransformStmt.mk x.(CreateTransformStmt.replace)
    (option_map (map_TypeName f h) x.(CreateTransformStmt.type_name)) x.(CreateTransformStmt.lang)
    (option_map (map_ObjectWithArgs f h) x.(CreateTransformStmt.fromsql))
    (option_map (map_ObjectWithArgs f h) x.(CreateTransformStmt.tosql)).
Definition map_PrepareStmt (f : Node -> Node) (h : Z -> Z) (x : PrepareStmt.t Node) :
    PrepareStmt.t Node :=
  PrepareStmt.mk x.(PrepareStmt.name) (map f x.(PrepareStmt.argtypes))
    (option_map f x.(PrepareStmt.query)).
Definition map_ExecuteStmt (f : Node -> Node) (h : Z -> Z) (x : ExecuteStmt.t Node) :
    ExecuteStmt.t Node :=
  ExecuteStmt.mk x.(ExecuteStmt.name) (map f x.(ExecuteStmt.params)).
Definition map_DropOwnedStmt (f : Node -> Node) (h : Z -> Z) (x : DropOwnedStmt.t Node) :
    DropOwnedStmt.t Node :=
  DropOwnedStmt.mk (map f x.(DropOwnedStmt.roles)) x.(DropOwnedStmt.behavior).
Definition map_ReassignOwnedStmt (f : Node -> Node) (h : Z -> Z) (x : ReassignOwnedStmt.t Node) :
    ReassignOwnedStmt.t Node :=
  ReassignOwnedStmt.mk (map f x.(ReassignOwnedStmt.roles))
    (option_map (map_RoleSpec f h) x.(ReassignOwnedStmt.newrole)).
Definition map_AlterTSDictionaryStmt (f : Node -> Node) (h : Z -> Z) (x : AlterTSDictionaryStmt.t Node) :
    AlterTSDictionaryStmt.t Node :=
  AlterTSDictionaryStmt.mk (map f x.(AlterTSDictionaryStmt.dictname))
    (map f x.(AlterTSDictionaryStmt.options)).
Definition map_AlterTSConfigurationStmt (f : Node -> Node) (h : Z -> Z) (x : AlterTSConfigurationStmt.t Node) :
    AlterTSConfigurationStmt.t Node :=
  AlterTSConfigurationStmt.mk x.(AlterTSConfigurationStmt.kind)
    (map f x.(AlterTSConfigurationStmt.cfgname)) (map f x.(AlterTSConfigurationStmt.tokentype))
    (map f x.(AlterTSConfigurationStmt.dicts)) x.(AlterTSConfigurationStmt.override)
    x.(AlterTSConfigurationStmt.replace) x.(AlterTSConfigurationStmt.missing_ok).
Definition map_CreatePublicationStmt (f : Node -> Node) (h : Z -> Z) (x : CreatePublicationStmt.t Node) :
    CreatePublicationStmt.t Node :=
  CreatePublicationStmt.mk x.(CreatePublicationStmt.pubname)
    (map f x.(CreatePublicationStmt.options)) (map f x.(CreatePublicationStmt.tables))
    x.(CreatePublicationStmt.for_all_tables).
Definition map_AlterPublicationStmt (f : Node -> Node) (h : Z -> Z) (x : AlterPublicationStmt.t Node) :
    AlterPublicationStmt.t Node :=
  AlterPublicationStmt.mk x.(AlterPublicationStmt.pubname) (map f x.(AlterPublicationStmt.options))
    (map f x.(AlterPublicationStmt.tables)) x.(AlterPublicationStmt.for_all_tables)
    x.(AlterPublicationStmt.tableAction).
Definition map_CreateSubscriptionStmt (f : Node -> Node) (h : Z -> Z) (x : CreateSubscriptionStmt.t Node) :
    CreateSubscriptionStmt.t Node :=
  CreateSubscriptionStmt.mk x.(CreateSubscriptionStmt.subname) x.(CreateSubscriptionStmt.conninfo)
    (map f x.(CreateSubscriptionStmt.publication)) (map f x.(CreateSubscriptionStmt.options)).
Definition map_AlterSubscriptionStmt (f : Node -> Node) (h : Z -> Z) (x : AlterSubscriptionStmt.t Node) :
    AlterSubscriptionStmt.t Node :=
  AlterSubscriptionStmt.mk x.(AlterSubscriptionStmt.kind) x.(AlterSubscriptionStmt.subname)
    x.(AlterSubscriptionStmt.conninfo) (map f x.(AlterSubscriptionStmt.publication))
    (map f x.(AlterSubscriptionStmt.options)).

Fixpoint replace_constants (g : A_Const.t Node -> Node) (h : Z -> Z) (n : Node) {struct n} : Node :=
  let f := replace_constants g h in
  match n with
  | N_List l => N_List (map f l)
  | N_Value v => N_Value v
  | N_A_Const x => g x
  | N_RangeVar x => N_RangeVar (map_RangeVar f h x)
  | N_Alias x => N_Alias (map_Alias f h x)
  | N_TypeName x => N_TypeName (map_TypeName f h x)
  | N_ColumnRef x => N_ColumnRef (map_ColumnRef f h x)
  | N_ParamRef x => N_ParamRef (map_ParamRef f h x)
  | N_A_Expr x => N_A_Expr (map_A_Expr f h x)
  | N_TypeCast x => N_TypeCast (map_TypeCast f h x)
  | N_CollateClause x => N_CollateClause (map_CollateClause f h x)
  | N_RoleSpec x => N_RoleSpec (map_RoleSpec f h x)
  | N_WindowDef x => N_WindowDef (map_WindowDef f h x)
  | N_SortBy x => N_SortBy (map_SortBy f h x)
  | N_FuncCall x => N_FuncCall (map_FuncCall f h x)
  | N_A_Star x => N_A_Star x
  | N_A_Indices x => N_A_Indices (map_A_Indices f h x)
  | N_A_Indirection x => N_A_Indirection (map_A_Indirection f h x)
  | N_A_ArrayExpr x => N_A_ArrayExpr (map_A_ArrayExpr f h x)
  | N_ResTarget x => N_ResTarget (map_ResTarget f h x)
  | N_MultiAssignRef x => N_MultiAssignRef (map_MultiAssignRef f h x)
  | N_NamedArgExpr x => N_NamedArgExpr (map_NamedArgExpr f h x)
  | N_BoolExpr x => N_BoolExpr (map_BoolExpr f h x)
  | N_SubLink x => N_SubLink (map_SubLink f h x)
  | N_CaseWhen x => N_CaseWhen (map_CaseWhen f h x)
  | N_CaseExpr x => N_CaseExpr (map_CaseExpr f h x)
  | N_RowExpr x => N_RowExpr (map_RowExpr f h x)
  | N_CoalesceExpr x => N_CoalesceExpr (map_CoalesceExpr f h x)
  | N_MinMaxExpr x => N_MinMaxExpr (map_MinMaxExpr f h x)
  | N_SQLValueFunction x => N_SQLValueFunction (map_SQLValueFunction f h x)
  | N_XmlExpr x => N_XmlExpr (map_XmlExpr f h x)
  | N_XmlSerialize x => N_XmlSerialize (map_XmlSerialize f h x)
  | N_NullTest x => N_NullTest (map_NullTest f h x)
  | N_BooleanTest x => N_BooleanTest (map_BooleanTest f h x)
  | N_SetToDefault x => N_SetToDefault (map_SetToDefault f h x)
  | N_CurrentOfExpr x => N_CurrentOfExpr x
  | N_GroupingFunc x => N_GroupingFunc (map_GroupingFunc f h x)
  | N_DefElem x => N_DefElem (map_DefElem f h x)
  | N_IndexElem x => N_IndexElem (map_IndexElem f h x)
  | N_Constraint x => N_Constraint (map_Constraint f h x)
  | N_ColumnDef x => N_ColumnDef (map_ColumnDef f h x)
  | N_JoinExpr x => N_JoinExpr (map_JoinExpr f h x)
  | N_RangeSubselect x => N_RangeSubselect (map_RangeSubselect f h x)
  | N_RangeFunction x => N_RangeFunction (map_RangeFunction f h x)
  | N_RangeTableFuncCol x => N_RangeTableFuncCol (map_RangeTableFuncCol f h x)
  | N_RangeTableFunc x => N_RangeTableFunc (map_RangeTableFunc f h x)
  | N_RangeTableSample x => N_RangeTableSample (map_RangeTableSample f h x)
  | N_CommonTableExpr x => N_CommonTableExpr (map_CommonTableExpr f h x)
  | N_WithClause x => N_WithClause (map_WithClause f h x)
  | N_InferClause x => N_InferClause (map_InferClause f h x)
  | N_OnConflictClause x => N_OnConflictClause (map_OnConflictClause f h x)
  | N_LockingClause x => N_LockingClause (map_LockingClause f h x)
  | N_GroupingSet x => N_GroupingSet (map_GroupingSet f h x)
  | N_IntoClause x => N_IntoClause (map_IntoClause f h x)
  | N_SelectStmt x => N_SelectStmt (map_SelectStmt f h x)
  | N_InsertStmt x => N_InsertStmt (map_InsertStmt f h x)
  | N_UpdateStmt x => N_UpdateStmt (map_UpdateStmt f h x)
  | N_DeleteStmt x => N_DeleteStmt (map_DeleteStmt f h x)
  | N_RawStmt x => N_RawStmt (map_RawStmt f h x)
  | N_AlterTableCmd x => N_AlterTableCmd (map_AlterTableCmd f h x)
  | N_PartitionBoundSpec x => N_PartitionBoundSpec (map_PartitionBoundSpec f h x)
  | N_TableLikeClause x => N_TableLikeClause (map_TableLikeClause f h x)
  | N_PartitionElem x => N_PartitionElem (map_PartitionElem f h x)
  | N_PartitionSpec x => N_PartitionSpec (map_PartitionSpec f h x)
  | N_PartitionCmd x => N_PartitionCmd (map_PartitionCmd f h x)
  | N_TriggerTransition x => N_TriggerTransition x
  | N_CreateSchemaStmt x => N_CreateSchemaStmt (map_CreateSchemaStmt f h x)
  | N_AlterTableStmt x => N_AlterTableStmt (map_AlterTableStmt f h x)
  | N_ReplicaIdentityStmt x => N_ReplicaIdentityStmt x
  | N_AlterCollationStmt x => N_AlterCollationStmt (map_AlterCollationStmt f h x)
  | N_AlterDomainStmt x => N_AlterDomainStmt (map_AlterDomainStmt f h x)
  | N_GrantStmt x => N_GrantStmt (map_GrantStmt f h x)
  | N_ObjectWithArgs x => N_ObjectWithArgs (map_ObjectWithArgs f h x)
  | N_AccessPriv x => N_AccessPriv (map_AccessPriv f h x)
  | N_GrantRoleStmt x => N_GrantRoleStmt (map_GrantRoleStmt f h x)
  | N_AlterDefaultPrivilegesStmt x => N_AlterDefaultPrivilegesStmt (map_AlterDefaultPrivilegesStmt f h x)
  | N_CopyStmt x => N_CopyStmt (map_CopyStmt f h x)
  | N_VariableSetStmt x => N_VariableSetStmt (map_VariableSetStmt f h x)
  | N_VariableShowStmt x => N_VariableShowStmt x
  | N_CreateStmt x => N_CreateStmt (map_CreateStmt f h x)
  | N_CreateTableSpaceStmt x => N_CreateTableSpaceStmt (map_CreateTableSpaceStmt f h x)
  | N_DropTableSpaceStmt x => N_DropTableSpaceStmt x
  | N_AlterTableSpaceOptionsStmt x => N_AlterTableSpaceOptionsStmt (map_AlterTableSpaceOptionsStmt f h x)
  | N_AlterTableMoveAllStmt x => N_AlterTableMoveAllStmt (map_AlterTableMoveAllStmt f h x)
  | N_CreateExtensionStmt x => N_CreateExtensionStmt (map_CreateExtensionStmt f h x)
  | N_AlterExtensionStmt x => N_AlterExtensionStmt (map_AlterExtensionStmt f h x)
  | N_AlterExtensionContentsStmt x => N_AlterExtensionContentsStmt (map_AlterExtensionContentsStmt f h x)
  | N_CreateFdwStmt x => N_CreateFdwStmt (map_CreateFdwStmt f h x)
  | N_AlterFdwStmt x => N_AlterFdwStmt (map_AlterFdwStmt f h x)
  | N_CreateForeignServerStmt x => N_CreateForeignServerStmt (map_CreateForeignServerStmt f h x)
  | N_AlterForeignServerStmt x => N_AlterForeignServerStmt (map_AlterForeignServerStmt f h x)
  | N_CreateForeignTableStmt x => N_CreateForeignTableStmt (map_CreateForeignTableStmt f h x)
  | N_CreateUserMappingStmt x => N_CreateUserMappingStmt (map_CreateUserMappingStmt f h x)
  | N_AlterUserMappingStmt x => N_AlterUserMappingStmt (map_AlterUserMappingStmt f h x)
  | N_DropUserMappingStmt x => N_DropUserMappingStmt (map_DropUserMappingStmt f h x)
  | N_ImportForeignSchemaStmt x => N_ImportForeignSchemaStmt (map_ImportForeignSchemaStmt f h x)
  | N_CreatePolicyStmt x => N_CreatePolicyStmt (map_CreatePolicyStmt f h x)
  | N_AlterPolicyStmt x => N_AlterPolicyStmt (map_AlterPolicyStmt f h x)
  | N_CreateAmStmt x => N_CreateAmStmt (map_CreateAmStmt f h x)
  | N_CreateTrigStmt x => N_CreateTrigStmt (map_CreateTrigStmt f h x)
  | N_CreateEventTrigStmt x => N_CreateEventTrigStmt (map_CreateEventTrigStmt f h x)
  | N_AlterEventTrigStmt x => N_AlterEventTrigStmt x
  | N_CreatePLangStmt x => N_CreatePLangStmt (map_CreatePLangStmt f h x)
  | N_CreateRoleStmt x => N_CreateRoleStmt (map_CreateRoleStmt f h x)
  | N_AlterRoleStmt x => N_AlterRoleStmt (map_AlterRoleStmt f h x)
  | N_AlterRoleSetStmt x => N_AlterRoleSetStmt (map_AlterRoleSetStmt f h x)
  | N_DropRoleStmt x => N_DropRoleStmt (map_DropRoleStmt f h x)
  | N_CreateSeqStmt x => N_CreateSeqStmt (map_CreateSeqStmt f h x)
  | N_AlterSeqStmt x => N_AlterSeqStmt (map_AlterSeqStmt f h x)
  | N_DefineStmt x => N_DefineStmt (map_DefineStmt f h x)
  | N_CreateDomainStmt x => N_CreateDomainStmt (map_CreateDomainStmt f h x)
  | N_CreateOpClassStmt x => N_CreateOpClassStmt (map_CreateOpClassStmt f h x)
  | N_CreateOpClassItem x => N_CreateOpClassItem (map_CreateOpClassItem f h x)
  | N_CreateOpFamilyStmt x => N_CreateOpFamilyStmt (map_CreateOpFamilyStmt f h x)
  | N_AlterOpFamilyStmt x => N_AlterOpFamilyStmt (map_AlterOpFamilyStmt f h x)
  | N_DropStmt x => N_DropStmt (map_DropStmt f h x)
  | N_TruncateStmt x => N_TruncateStmt (map_TruncateStmt f h x)
  | N_CommentStmt x => N_CommentStmt (map_CommentStmt f h x)
  | N_SecLabelStmt x => N_SecLabelStmt (map_SecLabelStmt f h x)
  | N_DeclareCursorStmt x => N_DeclareCursorStmt (map_DeclareCursorStmt f h x)
  | N_ClosePortalStmt x => N_ClosePortalStmt x
  | N_FetchStmt x => N_FetchStmt x
  | N_IndexStmt x => N_IndexStmt (map_IndexStmt f h x)
  | N_CreateStatsStmt x => N_CreateStatsStmt (map_CreateStatsStmt f h x)
  | N_AlterStatsStmt x => N_AlterStatsStmt (map_AlterStatsStmt f h x)
  | N_CreateFunctionStmt x => N_CreateFunctionStmt (map_CreateFunctionStmt f h x)
  | N_FunctionParameter x => N_FunctionParameter (map_FunctionParameter f h x)
  | N_AlterFunctionStmt x => N_AlterFunctionStmt (map_AlterFunctionStmt f h x)
  | N_DoStmt x => N_DoStmt (map_DoStmt f h x)
  | N_CallStmt x => N_CallStmt (map_CallStmt f h x)
  | N_RenameStmt x => N_RenameStmt (map_RenameStmt f h x)
  | N_AlterObjectDependsStmt x => N_AlterObjectDependsStmt (map_AlterObjectDependsStmt f h x)
  | N_AlterObjectSchemaStmt x => N_AlterObjectSchemaStmt (map_AlterObjectSchemaStmt f h x)
  | N_AlterOwnerStmt x => N_AlterOwnerStmt (map_AlterOwnerStmt f h x)
  | N_AlterOperatorStmt x => N_AlterOperatorStmt (map_AlterOperatorStmt f h x)
  | N_AlterTypeStmt x => N_AlterTypeStmt (map_AlterTypeStmt f h x)
  | N_RuleStmt x => N_RuleStmt (map_RuleStmt f h x)
  | N_NotifyStmt x => N_NotifyStmt x
  | N_ListenStmt x => N_ListenStmt x
  | N_UnlistenStmt x => N_UnlistenStmt x
  | N_TransactionStmt x => N_TransactionStmt (map_TransactionStmt f h x)
  | N_CompositeTypeStmt x => N_CompositeTypeStmt (map_CompositeTypeStmt f h x)
  | N_CreateEnumStmt x => N_CreateEnumStmt (map_CreateEnumStmt f h x)
  | N_CreateRangeStmt x => N_CreateRangeStmt (map_CreateRangeStmt f h x)
  | N_AlterEnumStmt x => N_AlterEnumStmt (map_AlterEnumStmt f h x)
  | N_ViewStmt x => N_ViewStmt (map_ViewStmt f h x)
  | N_LoadStmt x => N_LoadStmt x
  | N_CreatedbStmt x => N_CreatedbStmt (map_CreatedbStmt f h x)
  | N_AlterDatabaseStmt x => N_AlterDatabaseStmt (map_AlterDatabaseStmt f h x)
  | N_AlterDatabaseSetStmt x => N_AlterDatabaseSetStmt (map_AlterDatabaseSetStmt f h x)
  | N_DropdbStmt x => N_DropdbStmt (map_DropdbStmt f h x)
  | N_AlterSystemStmt x => N_AlterSystemStmt (map_AlterSystemStmt f h x)
  | N_ClusterStmt x => N_ClusterStmt (map_ClusterStmt f h x)
  | N_VacuumStmt x => N_VacuumStmt (map_VacuumStmt f h x)
  | N_VacuumRelation x => N_VacuumRelation (map_VacuumRelation f h x)
  | N_ExplainStmt x => N_ExplainStmt (map_ExplainStmt f h x)
  | N_CreateTableAsStmt x => N_CreateTableAsStmt (map_CreateTableAsStmt f h x)
  | N_RefreshMatViewStmt x => N_RefreshMatViewStmt (map_RefreshMatViewStmt f h x)
  | N_CheckPointStmt x => N_CheckPointStmt x
  | N_DiscardStmt x => N_DiscardStmt x
  | N_LockStmt x => N_LockStmt (map_LockStmt f h x)
  | N_ConstraintsSetStmt x => N_ConstraintsSetStmt (map_ConstraintsSetStmt f h x)
  | N_ReindexStmt x => N_ReindexStmt (map_ReindexStmt f h x)
  | N_CreateConversionStmt x => N_CreateConversionStmt (map_CreateConversionStmt f h x)
  | N_CreateCastStmt x => N_CreateCastStmt (map_CreateCastStmt f h x)
  | N_CreateTransformStmt x => N_CreateTransformStmt (map_CreateTransformStmt f h x)
  | N_PrepareStmt x => N_PrepareStmt (map_PrepareStmt f h x)
  | N_ExecuteStmt x => N_ExecuteStmt (map_ExecuteStmt f h x)
  | N_DeallocateStmt x => N_DeallocateStmt x
  | N_DropOwnedStmt x => N_DropOwnedStmt (map_DropOwnedStmt f h x)
  | N_ReassignOwnedStmt x => N_ReassignOwnedStmt (map_ReassignOwnedStmt f h x)
  | N_AlterTSDictionaryStmt x => N_AlterTSDictionaryStmt (map_AlterTSDictionaryStmt f h x)
  | N_AlterTSConfigurationStmt x => N_AlterTSConfigurationStmt (map_AlterTSConfigurationStmt f h x)
  | N_CreatePublicationStmt x => N_CreatePublicationStmt (map_CreatePublicationStmt f h x)
  | N_AlterPublicationStmt x => N_AlterPublicationStmt (map_AlterPublicationStmt f h x)
  | N_CreateSubscriptionStmt x => N_CreateSubscriptionStmt (map_CreateSubscriptionStmt f h x)
  | N_AlterSubscriptionStmt x => N_AlterSubscriptionStmt (map_AlterSubscriptionStmt f h x)
  | N_DropSubscriptionStmt x => N_DropSubscriptionStmt x
  | N_FuncExpr x => N_FuncExpr (map_FuncExpr f h x)
  | N_Other tag => N_Other tag
  end.

(** A constant or a parameter symbol. *)
Definition is_literal (n : Node) : bool :=
  match n with N_A_Const _ | N_ParamRef _ => true | _ => false end.

(** A tree without its positions, and with one constant for all. *)
Definition without_constants : Node -> Node :=
  replace_constants (fun _ => N_A_Const (A_Const.mk Null 0)) (fun _ => 0%Z).
