(* ===== verification/FingerprintDefs.v ===== *)
(** * Fingerprinting: the fields of the nodes

    [src/pg_query_fingerprint_defs.c] and [src/pg_query_fingerprint_conds.c],
    generated from the node definitions: a function per struct that goes over the
    fields in alphabetic order, without those that must not make a difference
    (positions, names of columns and the like); then [_fingerprintNode] and the
    entry points of [src/pg_query_fingerprint.c].  The structs are those of [Nodes];
    for a node that is in no raw parse tree the program is [Outside]. *)
From S2P Require Import Prelude Buffer Enums EnumDefs Nodes DeparseNames Parse Scanner Fingerprint.

Open Scope Z_scope.

(** ** The forms of a field *)

Inductive entry : Type :=
| F_Node          (* _fingerprintNode *)
| F_SelectStmt.   (* _fingerprintSelectStmt, on a SelectStmt * *)

Section fingerprint.
Variable self : entry -> option Node -> option string -> nat -> Node -> prog.

Definition fp_bool (name : string) (b : bool) : prog :=
  if b then Seq [Write name; Write "true"] else Seq [].
Definition fp_string (name : string) (s : option string) : prog :=
  match s with Some s => Seq [Write name; Write s] | None => Seq [] end.
(** [sprintf(buffer, "%d", ...)] of an [int] (["%ld"] of a [long]), and of an
    [Oid] or [Index], which is unsigned. *)
Definition fp_int (name : string) (z : Z) : prog :=
  if z =? 0 then Seq [] else Seq [Write name; Write (fmt_d z)].
Definition fp_uint (name : string) (z : Z) : prog :=
  if z =? 0 then Seq [] else Seq [Write name; Write (fmt_d (int32 z))].
Definition fp_char (name : string) (c : ascii) : prog :=
  if bool_decide (c = NUL) then Seq [] else Seq [Write name; Write (String c "")].
Definition fp_enum {E} (enumToString : E -> string) (name : string) (e : E) : prog :=
  Seq [Write name; Write (enumToString e)].

(** [_fingerprintList] *)
Definition sorted_field (field_name : option string) : bool :=
  match field_name with
  | Some f =>
      (f =? "fromClause")%string || (f =? "targetList")%string || (f =? "cols")%string ||
      (f =? "rexpr")%string || (f =? "valuesLists")%string || (f =? "args")%string
  | None => false
  end.

Definition _fingerprintList (l : list Node) (parent : option Node) (field_name : option string)
    (depth : nat) : prog :=
  let cells := map (self F_Node parent field_name (1 + depth)%nat) l in
  if sorted_field field_name then SortedList cells else Seq cells.

(** The calls for a field [node->name], by its type.  A list is given to
    [_fingerprintNode], which does nothing from a depth of 100 on; lists of
    integers have no case there. *)
Definition fp_node (node : Node) (name : string) (p : option Node) (depth : nat) : prog :=
  match p with
  | Some n => Field name (self F_Node (Some node) (Some name) (1 + depth)%nat n)
  | None => Seq []
  end.
Definition fp_list (node : Node) (name : string) (l : list Node) (depth : nat) : prog :=
  match l with
  | [] => Seq []
  | _ => Field name (if (100 <=? 1 + depth)%nat then Seq []
                     else _fingerprintList l (Some node) (Some name) (1 + depth)%nat)
  end.
Definition fp_int_list (name : string) (l : list Z) : prog :=
  match l with [] => Seq [] | _ => Field name (Seq []) end.
Definition fp_struct {A} (f : A -> option Node -> option string -> nat -> prog)
    (node : Node) (name : string) (p : option A) (depth : nat) : prog :=
  match p with
  | Some x => Field name (f x (Some node) (Some name) (1 + depth)%nat)
  | None => Seq []
  end.
Definition fp_SelectStmt (node : Node) (name : string) (p : option Node) (depth : nat) : prog :=
  match p with
  | Some n => Field name (self F_SelectStmt (Some node) (Some name) (1 + depth)%nat n)
  | None => Seq []
  end.

(** The name of a table without its runs of two digits and more. *)
Definition digit (c : ascii) : bool := in_range "0" "9" c.
Fixpoint skip_digits (before : bool) (s : string) : string :=
  match s with
  | EmptyString => EmptyString
  | String c s' =>
      let after := match s' with String c' _ => digit c' | EmptyString => false end in
      if digit c && (after || before) then skip_digits (digit c) s'
      else String c (skip_digits (digit c) s')
  end.

(** ** One function per struct *)

Definition _fingerprintAlias (x : Alias.t Node) (parent : option Node) (field_name : option string)
    (depth : nat) : prog :=
  Seq [].

Definition _fingerprintRangeVar (x : RangeVar.t Node) (parent : option Node)
    (field_name : option string) (depth : nat) : prog :=
  let node := N_RangeVar x in
  Seq
    [fp_struct _fingerprintAlias node "alias" x.(RangeVar.alias) depth;
     fp_string "catalogname" x.(RangeVar.catalogname);
     fp_bool "inh" x.(RangeVar.inh);
     match x.(RangeVar.relname) with
     | Some relname =>
         if bool_decide (x.(RangeVar.relpersistence) = "t"%char) then Seq []
         else Seq [Write "relname"; Write (skip_digits false relname)]
     | None => Seq []
     end;
     fp_char "relpersistence" x.(RangeVar.relpersistence);
     fp_string "schemaname" x.(RangeVar.schemaname)].

Definition _fingerprintTypeName (x : TypeName.t Node) (parent : option Node)
    (field_name : option string) (depth : nat) : prog :=
  let node := N_TypeName x in
  Seq
    [fp_list node "arrayBounds" x.(TypeName.arrayBounds) depth;
     fp_list node "names" x.(TypeName.names) depth;
     fp_bool "pct_type" x.(TypeName.pct_type);
     fp_bool "setof" x.(TypeName.setof);
     fp_uint "typeOid" x.(TypeName.typeOid);
     fp_int "typemod" x.(TypeName.typemod);
     fp_list node "typmods" x.(TypeName.typmods) depth].

Definition _fingerprintColumnRef (x : ColumnRef.t Node) (parent : option Node)
    (field_name : option string) (depth : nat) : prog :=
  let node := N_ColumnRef x in
  Seq
    [fp_list node "fields" x.(ColumnRef.fields) depth].

Definition _fingerprintParamRef (x : ParamRef.t Node) (parent : option Node)
    (field_name : option string) (depth : nat) : prog :=
  Seq [].

Definition _fingerprintA_Expr (x : A_Expr.t Node) (parent : option Node)
    (field_name : option string) (depth : nat) : prog :=
  let node := N_A_Expr x in
  Seq
    [Seq [Write "kind";
          Write match x.(A_Expr.kind) with
                | AEXPR_OP_ANY | AEXPR_IN => "AEXPR_OP"
                | kind => _enumToStringA_Expr_Kind kind
                end];
     fp_node node "lexpr" x.(A_Expr.lexpr) depth;
     fp_list node "name" x.(A_Expr.name) depth;
     fp_node node "rexpr" x.(A_Expr.rexpr) depth].

Definition _fingerprintA_Const (x : A_Const.t Node) (parent : option Node)
    (field_name : option string) (depth : nat) : prog :=
  Seq [].

Definition _fingerprintTypeCast (x : TypeCast.t Node) (parent : option Node)
    (field_name : option string) (depth : nat) : prog :=
  let node := N_TypeCast x in
  Seq
    [fp_node node "arg" x.(TypeCast.arg) depth;
     fp_struct _fingerprintTypeName node "typeName" x.(TypeCast.typeName) depth].

Definition _fingerprintCollateClause (x : CollateClause.t Node) (parent : option Node)
    (field_name : option string) (depth : nat) : prog :=
  let node := N_CollateClause x in
  Seq
    [fp_node node "arg" x.(CollateClause.arg) depth;
     fp_list node "collname" x.(CollateClause.collname) depth].

Definition _fingerprintRoleSpec (x : RoleSpec.t Node) (parent : option Node)
    (field_name : option string) (depth : nat) : prog :=
  Seq
    [fp_string "rolename" x.(RoleSpec.rolename);
     fp_enum _enumToStringRoleSpecType "roletype" x.(RoleSpec.roletype)].

Definition _fingerprintWindowDef (x : WindowDef.t Node) (parent : option Node)
    (field_name : option string) (depth : nat) : prog :=
  let node := N_WindowDef x in
  Seq
    [fp_node node "endOffset" x.(WindowDef.endOffset) depth;
     fp_int "frameOptions" x.(WindowDef.frameOptions);
     fp_string "name" x.(WindowDef.name);
     fp_list node "orderClause" x.(WindowDef.orderClause) depth;
     fp_list node "partitionClause" x.(WindowDef.partitionClause) depth;
     fp_string "refname" x.(WindowDef.refname);
     fp_node node "startOffset" x.(WindowDef.startOffset) depth].

Definition _fingerprintSortBy (x : SortBy.t Node) (parent : option Node)
    (field_name : option string) (depth : nat) : prog :=
  let node := N_SortBy x in
  Seq
    [fp_node node "node" x.(SortBy.node) depth;
     fp_enum _enumToStringSortByDir "sortby_dir" x.(SortBy.sortby_dir);
     fp_enum _enumToStringSortByNulls "sortby_nulls" x.(SortBy.sortby_nulls);
     fp_list node "useOp" x.(SortBy.useOp) depth].

Definition _fingerprintFuncCall (x : FuncCall.t Node) (parent : option Node)
    (field_name : option string) (depth : nat) : prog :=
  let node := N_FuncCall x in
  Seq
    [fp_bool "agg_distinct" x.(FuncCall.agg_distinct);
     fp_node node "agg_filter" x.(FuncCall.agg_filter) depth;
     fp_list node "agg_order" x.(FuncCall.agg_order) depth;
     fp_bool "agg_star" x.(FuncCall.agg_star);
     fp_bool "agg_within_group" x.(FuncCall.agg_within_group);
     fp_list node "args" x.(FuncCall.args) depth;
     fp_bool "func_variadic" x.(FuncCall.func_variadic);
     fp_list node "funcname" x.(FuncCall.funcname) depth;
     fp_struct _fingerprintWindowDef node "over" x.(FuncCall.over) depth].

Definition _fingerprintA_Star (x : A_Star.t Node) (parent : option Node)
    (field_name : option string) (depth : nat) : prog :=
  Seq [].

Definition _fingerprintA_Indices (x : A_Indices.t Node) (parent : option Node)
    (field_name : option string) (depth : nat) : prog :=
  let node := N_A_Indices x in
  Seq
    [fp_bool "is_slice" x.(A_Indices.is_slice);
     fp_node node "lidx" x.(A_Indices.lidx) depth;
     fp_node node "uidx" x.(A_Indices.uidx) depth].

Definition _fingerprintA_Indirection (x : A_Indirection.t Node) (parent : option Node)
    (field_name : option string) (depth : nat) : prog :=
  let node := N_A_Indirection x in
  Seq
    [fp_node node "arg" x.(A_Indirection.arg) depth;
     fp_list node "indirection" x.(A_Indirection.indirection) depth].

Definition _fingerprintA_ArrayExpr (x : A_ArrayExpr.t Node) (parent : option Node)
    (field_name : option string) (depth : nat) : prog :=
  let node := N_A_ArrayExpr x in
  Seq
    [fp_list node "elements" x.(A_ArrayExpr.elements) depth].

(** [parent] is a SELECT and [field_name] its target list. *)
Definition is_select_target (parent : option Node) (field_name : option string) : bool :=
  match parent, field_name with
  | Some (N_SelectStmt _), Some f => (f =? "targetList")%string
  | _, _ => false
  end.

Definition _fingerprintResTarget (x : ResTarget.t Node) (parent : option Node)
    (field_name : option string) (depth : nat) : prog :=
  let node := N_ResTarget x in
  Seq
    [fp_list node "indirection" x.(ResTarget.indirection) depth;
     if is_select_target parent field_name then Seq [] else fp_string "name" x.(ResTarget.name);
     fp_node node "val" x.(ResTarget.val) depth].

Definition _fingerprintMultiAssignRef (x : MultiAssignRef.t Node) (parent : option Node)
    (field_name : option string) (depth : nat) : prog :=
  let node := N_MultiAssignRef x in
  Seq
    [fp_int "colno" x.(MultiAssignRef.colno);
     fp_int "ncolumns" x.(MultiAssignRef.ncolumns);
     fp_node node "source" x.(MultiAssignRef.source) depth].

Definition _fingerprintNamedArgExpr (x : NamedArgExpr.t Node) (parent : option Node)
    (field_name : option string) (depth : nat) : prog :=
  let node := N_NamedArgExpr x in
  Seq
    [fp_node node "arg" x.(NamedArgExpr.arg) depth;
     fp_int "argnumber" x.(NamedArgExpr.argnumber);
     fp_string "name" x.(NamedArgExpr.name)].

Definition _fingerprintBoolExpr (x : BoolExpr.t Node) (parent : option Node)
    (field_name : option string) (depth : nat) : prog :=
  let node := N_BoolExpr x in
  Seq
    [fp_list node "args" x.(BoolExpr.args) depth;
     fp_enum _enumToStringBoolExprType "boolop" x.(BoolExpr.boolop)].

Definition _fingerprintSubLink (x : SubLink.t Node) (parent : option Node)
    (field_name : option string) (depth : nat) : prog :=
  let node := N_SubLink x in
  Seq
    [fp_list node "operName" x.(SubLink.operName) depth;
     fp_int "subLinkId" x.(SubLink.subLinkId);
     fp_enum _enumToStringSubLinkType "subLinkType" x.(SubLink.subLinkType);
     fp_node node "subselect" x.(SubLink.subselect) depth;
     fp_node node "testexpr" x.(SubLink.testexpr) depth].

Definition _fingerprintCaseWhen (x : CaseWhen.t Node) (parent : option Node)
    (field_name : option string) (depth : nat) : prog :=
  let node := N_CaseWhen x in
  Seq
    [fp_node node "expr" x.(CaseWhen.expr) depth;
     fp_node node "result" x.(CaseWhen.result) depth].

Definition _fingerprintCaseExpr (x : CaseExpr.t Node) (parent : option Node)
    (field_name : option string) (depth : nat) : prog :=
  let node := N_CaseExpr x in
  Seq
    [fp_node node "arg" x.(CaseExpr.arg) depth;
     fp_list node "args" x.(CaseExpr.args) depth;
     fp_uint "casecollid" x.(CaseExpr.casecollid);
     fp_uint "casetype" x.(CaseExpr.casetype);
     fp_node node "defresult" x.(CaseExpr.defresult) depth].

Definition _fingerprintRowExpr (x : RowExpr.t Node) (parent : option Node)
    (field_name : option string) (depth : nat) : prog :=
  let node := N_RowExpr x in
  Seq
    [fp_list node "args" x.(RowExpr.args) depth;
     fp_list node "colnames" x.(RowExpr.colnames) depth;
     fp_enum _enumToStringCoercionForm "row_format" x.(RowExpr.row_format);
     fp_uint "row_typeid" x.(RowExpr.row_typeid)].

Definition _fingerprintCoalesceExpr (x : CoalesceExpr.t Node) (parent : option Node)
    (field_name : option string) (depth : nat) : prog :=
  let node := N_CoalesceExpr x in
  Seq
    [fp_list node "args" x.(CoalesceExpr.args) depth;
     fp_uint "coalescecollid" x.(CoalesceExpr.coalescecollid);
     fp_uint "coalescetype" x.(CoalesceExpr.coalescetype)].

Definition _fingerprintMinMaxExpr (x : MinMaxExpr.t Node) (parent : option Node)
    (field_name : option string) (depth : nat) : prog :=
  let node := N_MinMaxExpr x in
  Seq
    [fp_list node "args" x.(MinMaxExpr.args) depth;
     fp_uint "inputcollid" x.(MinMaxExpr.inputcollid);
     fp_uint "minmaxcollid" x.(MinMaxExpr.minmaxcollid);
     fp_uint "minmaxtype" x.(MinMaxExpr.minmaxtype);
     fp_enum _enumToStringMinMaxOp "op" x.(MinMaxExpr.op)].

Definition _fingerprintSQLValueFunction (x : SQLValueFunction.t Node) (parent : option Node)
    (field_name : option string) (depth : nat) : prog :=
  Seq
    [fp_enum _enumToStringSQLValueFunctionOp "op" x.(SQLValueFunction.op);
     fp_uint "type" x.(SQLValueFunction.type_);
     fp_int "typmod" x.(SQLValueFunction.typmod)].

Definition _fingerprintXmlExpr (x : XmlExpr.t Node) (parent : option Node)
    (field_name : option string) (depth : nat) : prog :=
  let node := N_XmlExpr x in
  Seq
    [fp_list node "arg_names" x.(XmlExpr.arg_names) depth;
     fp_list node "args" x.(XmlExpr.args) depth;
     fp_string "name" x.(XmlExpr.name);
     fp_list node "named_args" x.(XmlExpr.named_args) depth;
     fp_enum _enumToStringXmlExprOp "op" x.(XmlExpr.op);
     fp_uint "type" x.(XmlExpr.type_);
     fp_int "typmod" x.(XmlExpr.typmod);
     fp_enum _enumToStringXmlOptionType "xmloption" x.(XmlExpr.xmloption)].

Definition _fingerprintXmlSerialize (x : XmlSerialize.t Node) (parent : option Node)
    (field_name : option string) (depth : nat) : prog :=
  let node := N_XmlSerialize x in
  Seq
    [fp_node node "expr" x.(XmlSerialize.expr) depth;
     fp_struct _fingerprintTypeName node "typeName" x.(XmlSerialize.typeName) depth;
     fp_enum _enumToStringXmlOptionType "xmloption" x.(XmlSerialize.xmloption)].

Definition _fingerprintNullTest (x : NullTest.t Node) (parent : option Node)
    (field_name : option string) (depth : nat) : prog :=
  let node := N_NullTest x in
  Seq
    [fp_node node "arg" x.(NullTest.arg) depth;
     fp_bool "argisrow" x.(NullTest.argisrow);
     fp_enum _enumToStringNullTestType "nulltesttype" x.(NullTest.nulltesttype)].

Definition _fingerprintBooleanTest (x : BooleanTest.t Node) (parent : option Node)
    (field_name : option string) (depth : nat) : prog :=
  let node := N_BooleanTest x in
  Seq
    [fp_node node "arg" x.(BooleanTest.arg) depth;
     fp_enum _enumToStringBoolTestType "booltesttype" x.(BooleanTest.booltesttype)].

Definition _fingerprintSetToDefault (x : SetToDefault.t Node) (parent : option Node)
    (field_name : option string) (depth : nat) : prog :=
  Seq [].

Definition _fingerprintCurrentOfExpr (x : CurrentOfExpr.t Node) (parent : option Node)
    (field_name : option string) (depth : nat) : prog :=
  Seq
    [fp_string "cursor_name" x.(CurrentOfExpr.cursor_name);
     fp_int "cursor_param" x.(CurrentOfExpr.cursor_param);
     fp_uint "cvarno" x.(CurrentOfExpr.cvarno)].

Definition _fingerprintGroupingFunc (x : GroupingFunc.t Node) (parent : option Node)
    (field_name : option string) (depth : nat) : prog :=
  let node := N_GroupingFunc x in
  Seq
    [fp_uint "agglevelsup" x.(GroupingFunc.agglevelsup);
     fp_list node "args" x.(GroupingFunc.args) depth;
     fp_int_list "cols" x.(GroupingFunc.cols);
     fp_int_list "refs" x.(GroupingFunc.refs)].

Definition _fingerprintDefElem (x : DefElem.t Node) (parent : option Node)
    (field_name : option string) (depth : nat) : prog :=
  let node := N_DefElem x in
  Seq
    [fp_node node "arg" x.(DefElem.arg) depth;
     fp_enum _enumToStringDefElemAction "defaction" x.(DefElem.defaction);
     fp_string "defname" x.(DefElem.defname);
     fp_string "defnamespace" x.(DefElem.defnamespace)].

Definition _fingerprintIndexElem (x : IndexElem.t Node) (parent : option Node)
    (field_name : option string) (depth : nat) : prog :=
  let node := N_IndexElem x in
  Seq
    [fp_list node "collation" x.(IndexElem.collation) depth;
     fp_node node "expr" x.(IndexElem.expr) depth;
     fp_string "indexcolname" x.(IndexElem.indexcolname);
     fp_string "name" x.(IndexElem.name);
     fp_enum _enumToStringSortByNulls "nulls_ordering" x.(IndexElem.nulls_ordering);
     fp_list node "opclass" x.(IndexElem.opclass) depth;
     fp_list node "opclassopts" x.(IndexElem.opclassopts) depth;
     fp_enum _enumToStringSortByDir "ordering" x.(IndexElem.ordering)].

Definition _fingerprintConstraint (x : Constraint.t Node) (parent : option Node)
    (field_name : option string) (depth : nat) : prog :=
  let node := N_Constraint x in
  Seq
    [fp_string "access_method" x.(Constraint.access_method);
     fp_string "conname" x.(Constraint.conname);
     fp_enum _enumToStringConstrType "contype" x.(Constraint.contype);
     fp_string "cooked_expr" x.(Constraint.cooked_expr);
     fp_bool "deferrable" x.(Constraint.deferrable);
     fp_list node "exclusions" x.(Constraint.exclusions) depth;
     fp_list node "fk_attrs" x.(Constraint.fk_attrs) depth;
     fp_char "fk_del_action" x.(Constraint.fk_del_action);
     fp_char "fk_matchtype" x.(Constraint.fk_matchtype);
     fp_char "fk_upd_action" x.(Constraint.fk_upd_action);
     fp_char "generated_when" x.(Constraint.generated_when);
     fp_list node "including" x.(Constraint.including) depth;
     fp_string "indexname" x.(Constraint.indexname);
     fp_string "indexspace" x.(Constraint.indexspace);
     fp_bool "initdeferred" x.(Constraint.initdeferred);
     fp_bool "initially_valid" x.(Constraint.initially_valid);
     fp_bool "is_no_inherit" x.(Constraint.is_no_inherit);
     fp_list node "keys" x.(Constraint.keys) depth;
     fp_list node "old_conpfeqop" x.(Constraint.old_conpfeqop) depth;
     fp_uint "old_pktable_oid" x.(Constraint.old_pktable_oid);
     fp_list node "options" x.(Constraint.options) depth;
     fp_list node "pk_attrs" x.(Constraint.pk_attrs) depth;
     fp_struct _fingerprintRangeVar node "pktable" x.(Constraint.pktable) depth;
     fp_node node "raw_expr" x.(Constraint.raw_expr) depth;
     fp_bool "reset_default_tblspc" x.(Constraint.reset_default_tblspc);
     fp_bool "skip_validation" x.(Constraint.skip_validation);
     fp_node node "where_clause" x.(Constraint.where_clause) depth].

Definition _fingerprintColumnDef (x : ColumnDef.t Node) (parent : option Node)
    (field_name : option string) (depth : nat) : prog :=
  let node := N_ColumnDef x in
  Seq
    [fp_struct _fingerprintCollateClause node "collClause" x.(ColumnDef.collClause) depth;
     fp_uint "collOid" x.(ColumnDef.collOid);
     fp_string "colname" x.(ColumnDef.colname);
     fp_list node "constraints" x.(ColumnDef.constraints) depth;
     fp_node node "cooked_default" x.(ColumnDef.cooked_default) depth;
     fp_list node "fdwoptions" x.(ColumnDef.fdwoptions) depth;
     fp_char "generated" x.(ColumnDef.generated);
     fp_char "identity" x.(ColumnDef.identity);
     fp_struct _fingerprintRangeVar node "identitySequence" x.(ColumnDef.identitySequence) depth;
     fp_int "inhcount" x.(ColumnDef.inhcount);
     fp_bool "is_from_type" x.(ColumnDef.is_from_type);
     fp_bool "is_local" x.(ColumnDef.is_local);
     fp_bool "is_not_null" x.(ColumnDef.is_not_null);
     fp_node node "raw_default" x.(ColumnDef.raw_default) depth;
     fp_char "storage" x.(ColumnDef.storage);
     fp_struct _fingerprintTypeName node "typeName" x.(ColumnDef.typeName) depth].

Definition _fingerprintJoinExpr (x : JoinExpr.t Node) (parent : option Node)
    (field_name : option string) (depth : nat) : prog :=
  let node := N_JoinExpr x in
  Seq
    [fp_struct _fingerprintAlias node "alias" x.(JoinExpr.alias) depth;
     fp_bool "isNatural" x.(JoinExpr.isNatural);
     fp_enum _enumToStringJoinType "jointype" x.(JoinExpr.jointype);
     fp_node node "larg" x.(JoinExpr.larg) depth;
     fp_node node "quals" x.(JoinExpr.quals) depth;
     fp_node node "rarg" x.(JoinExpr.rarg) depth;
     fp_int "rtindex" x.(JoinExpr.rtindex);
     fp_list node "usingClause" x.(JoinExpr.usingClause) depth].

Definition _fingerprintRangeSubselect (x : RangeSubselect.t Node) (parent : option Node)
    (field_name : option string) (depth : nat) : prog :=
  let node := N_RangeSubselect x in
  Seq
    [fp_struct _fingerprintAlias node "alias" x.(RangeSubselect.alias) depth;
     fp_bool "lateral" x.(RangeSubselect.lateral);
     fp_node node "subquery" x.(RangeSubselect.subquery) depth].

Definition _fingerprintRangeFunction (x : RangeFunction.t Node) (parent : option Node)
    (field_name : option string) (depth : nat) : prog :=
  let node := N_RangeFunction x in
  Seq
    [fp_struct _fingerprintAlias node "alias" x.(RangeFunction.alias) depth;
     fp_list node "coldeflist" x.(RangeFunction.coldeflist) depth;
     fp_list node "functions" x.(RangeFunction.functions) depth;
     fp_bool "is_rowsfrom" x.(RangeFunction.is_rowsfrom);
     fp_bool "lateral" x.(RangeFunction.lateral);
     fp_bool "ordinality" x.(RangeFunction.ordinality)].

Definition _fingerprintRangeTableFuncCol (x : RangeTableFuncCol.t Node) (parent : option Node)
    (field_name : option string) (depth : nat) : prog :=
  let node := N_RangeTableFuncCol x in
  Seq
    [fp_node node "coldefexpr" x.(RangeTableFuncCol.coldefexpr) depth;
     fp_node node "colexpr" x.(RangeTableFuncCol.colexpr) depth;
     fp_string "colname" x.(RangeTableFuncCol.colname);
     fp_bool "for_ordinality" x.(RangeTableFuncCol.for_ordinality);
     fp_bool "is_not_null" x.(RangeTableFuncCol.is_not_null);
     fp_struct _fingerprintTypeName node "typeName" x.(RangeTableFuncCol.typeName) depth].

Definition _fingerprintRangeTableFunc (x : RangeTableFunc.t Node) (parent : option Node)
    (field_name : option string) (depth : nat) : prog :=
  let node := N_RangeTableFunc x in
  Seq
    [fp_struct _fingerprintAlias node "alias" x.(RangeTableFunc.alias) depth;
     fp_list node "columns" x.(RangeTableFunc.columns) depth;
     fp_node node "docexpr" x.(RangeTableFunc.docexpr) depth;
     fp_bool "lateral" x.(RangeTableFunc.lateral);
     fp_list node "namespaces" x.(RangeTableFunc.namespaces) depth;
     fp_node node "rowexpr" x.(RangeTableFunc.rowexpr) depth].

Definition _fingerprintRangeTableSample (x : RangeTableSample.t Node) (parent : option Node)
    (field_name : option string) (depth : nat) : prog :=
  let node := N_RangeTableSample x in
  Seq
    [fp_list node "args" x.(RangeTableSample.args) depth;
     fp_list node "method" x.(RangeTableSample.method) depth;
     fp_node node "relation" x.(RangeTableSample.relation) depth;
     fp_node node "repeatable" x.(RangeTableSample.repeatable) depth].

Definition _fingerprintCommonTableExpr (x : CommonTableExpr.t Node) (parent : option Node)
    (field_name : option string) (depth : nat) : prog :=
  let node := N_CommonTableExpr x in
  Seq
    [fp_list node "aliascolnames" x.(CommonTableExpr.aliascolnames) depth;
     fp_int_list "ctecolcollations" x.(CommonTableExpr.ctecolcollations);
     fp_list node "ctecolnames" x.(CommonTableExpr.ctecolnames) depth;
     fp_int_list "ctecoltypes" x.(CommonTableExpr.ctecoltypes);
     fp_int_list "ctecoltypmods" x.(CommonTableExpr.ctecoltypmods);
     fp_enum _enumToStringCTEMaterialize "ctematerialized" x.(CommonTableExpr.ctematerialized);
     fp_string "ctename" x.(CommonTableExpr.ctename);
     fp_node node "ctequery" x.(CommonTableExpr.ctequery) depth;
     fp_bool "cterecursive" x.(CommonTableExpr.cterecursive);
     fp_int "cterefcount" x.(CommonTableExpr.cterefcount)].

Definition _fingerprintWithClause (x : WithClause.t Node) (parent : option Node)
    (field_name : option string) (depth : nat) : prog :=
  let node := N_WithClause x in
  Seq
    [fp_list node "ctes" x.(WithClause.ctes) depth;
     fp_bool "recursive" x.(WithClause.recursive)].

Definition _fingerprintInferClause (x : InferClause.t Node) (parent : option Node)
    (field_name : option string) (depth : nat) : prog :=
  let node := N_InferClause x in
  Seq
    [fp_string "conname" x.(InferClause.conname);
     fp_list node "indexElems" x.(InferClause.indexElems) depth;
     fp_node node "whereClause" x.(InferClause.whereClause) depth].

Definition _fingerprintOnConflictClause (x : OnConflictClause.t Node) (parent : option Node)
    (field_name : option string) (depth : nat) : prog :=
  let node := N_OnConflictClause x in
  Seq
    [fp_enum _enumToStringOnConflictAction "action" x.(OnConflictClause.action);
     fp_struct _fingerprintInferClause node "infer" x.(OnConflictClause.infer) depth;
     fp_list node "targetList" x.(OnConflictClause.targetList) depth;
     fp_node node "whereClause" x.(OnConflictClause.whereClause) depth].

Definition _fingerprintLockingClause (x : LockingClause.t Node) (parent : option Node)
    (field_name : option string) (depth : nat) : prog :=
  let node := N_LockingClause x in
  Seq
    [fp_list node "lockedRels" x.(LockingClause.lockedRels) depth;
     fp_enum _enumToStringLockClauseStrength "strength" x.(LockingClause.strength);
     fp_enum _enumToStringLockWaitPolicy "waitPolicy" x.(LockingClause.waitPolicy)].

Definition _fingerprintGroupingSet (x : GroupingSet.t Node) (parent : option Node)
    (field_name : option string) (depth : nat) : prog :=
  let node := N_GroupingSet x in
  Seq
    [fp_list node "content" x.(GroupingSet.content) depth;
     fp_enum _enumToStringGroupingSetKind "kind" x.(GroupingSet.kind)].

Definition _fingerprintIntoClause (x : IntoClause.t Node) (parent : option Node)
    (field_name : option string) (depth : nat) : prog :=
  let node := N_IntoClause x in
  Seq
    [fp_string "accessMethod" x.(IntoClause.accessMethod);
     fp_list node "colNames" x.(IntoClause.colNames) depth;
     fp_enum _enumToStringOnCommitAction "onCommit" x.(IntoClause.onCommit);
     fp_list node "options" x.(IntoClause.options) depth;
     fp_struct _fingerprintRangeVar node "rel" x.(IntoClause.rel) depth;
     fp_bool "skipData" x.(IntoClause.skipData);
     fp_string "tableSpaceName" x.(IntoClause.tableSpaceName);
     fp_node node "viewQuery" x.(IntoClause.viewQuery) depth].

Definition _fingerprintSelectStmt (x : SelectStmt.t Node) (parent : option Node)
    (field_name : option string) (depth : nat) : prog :=
  let node := N_SelectStmt x in
  Seq
    [fp_bool "all" x.(SelectStmt.all);
     fp_list node "distinctClause" x.(SelectStmt.distinctClause) depth;
     fp_list node "fromClause" x.(SelectStmt.fromClause) depth;
     fp_list node "groupClause" x.(SelectStmt.groupClause) depth;
     fp_node node "havingClause" x.(SelectStmt.havingClause) depth;
     fp_struct _fingerprintIntoClause node "intoClause" x.(SelectStmt.intoClause) depth;
     fp_SelectStmt node "larg" x.(SelectStmt.larg) depth;
     fp_node node "limitCount" x.(SelectStmt.limitCount) depth;
     fp_node node "limitOffset" x.(SelectStmt.limitOffset) depth;
     fp_enum _enumToStringLimitOption "limitOption" x.(SelectStmt.limitOption);
     fp_list node "lockingClause" x.(SelectStmt.lockingClause) depth;
     fp_enum _enumToStringSetOperation "op" x.(SelectStmt.op);
     fp_SelectStmt node "rarg" x.(SelectStmt.rarg) depth;
     fp_list node "sortClause" x.(SelectStmt.sortClause) depth;
     fp_list node "targetList" x.(SelectStmt.targetList) depth;
     fp_list node "valuesLists" x.(SelectStmt.valuesLists) depth;
     fp_node node "whereClause" x.(SelectStmt.whereClause) depth;
     fp_list node "windowClause" x.(SelectStmt.windowClause) depth;
     fp_struct _fingerprintWithClause node "withClause" x.(SelectStmt.withClause) depth].

Definition _fingerprintInsertStmt (x : InsertStmt.t Node) (parent : option Node)
    (field_name : option string) (depth : nat) : prog :=
  let node := N_InsertStmt x in
  Seq
    [fp_list node "cols" x.(InsertStmt.cols) depth;
     fp_struct _fingerprintOnConflictClause node "onConflictClause" x.(InsertStmt.onConflictClause) depth;
     fp_enum _enumToStringOverridingKind "override" x.(InsertStmt.override);
     fp_struct _fingerprintRangeVar node "relation" x.(InsertStmt.relation) depth;
     fp_list node "returningList" x.(InsertStmt.returningList) depth;
     fp_node node "selectStmt" x.(InsertStmt.selectStmt) depth;
     fp_struct _fingerprintWithClause node "withClause" x.(InsertStmt.withClause) depth].

Definition _fingerprintUpdateStmt (x : UpdateStmt.t Node) (parent : option Node)
    (field_name : option string) (depth : nat) : prog :=
  let node := N_UpdateStmt x in
  Seq
    [fp_list node "fromClause" x.(UpdateStmt.fromClause) depth;
     fp_struct _fingerprintRangeVar node "relation" x.(UpdateStmt.relation) depth;
     fp_list node "returningList" x.(UpdateStmt.returningList) depth;
     fp_list node "targetList" x.(UpdateStmt.targetList) depth;
     fp_node node "whereClause" x.(UpdateStmt.whereClause) depth;
     fp_struct _fingerprintWithClause node "withClause" x.(UpdateStmt.withClause) depth].

Definition _fingerprintDeleteStmt (x : DeleteStmt.t Node) (parent : option Node)
    (field_name : option string) (depth : nat) : prog :=
  let node := N_DeleteStmt x in
  Seq
    [fp_struct _fingerprintRangeVar node "relation" x.(DeleteStmt.relation) depth;
     fp_list node "returningList" x.(DeleteStmt.returningList) depth;
     fp_list node "usingClause" x.(DeleteStmt.usingClause) depth;
     fp_node node "whereClause" x.(DeleteStmt.whereClause) depth;
     fp_struct _fingerprintWithClause node "withClause" x.(DeleteStmt.withClause) depth].

Definition _fingerprintRawStmt (x : RawStmt.t Node) (parent : option Node)
    (field_name : option string) (depth : nat) : prog :=
  let node := N_RawStmt x in
  Seq
    [fp_node node "stmt" x.(RawStmt.stmt) depth].

Definition _fingerprintAlterTableCmd (x : AlterTableCmd.t Node) (parent : option Node)
    (field_name : option string) (depth : nat) : prog :=
  let node := N_AlterTableCmd x in
  Seq
    [fp_enum _enumToStringDropBehavior "behavior" x.(AlterTableCmd.behavior);
     fp_node node "def" x.(AlterTableCmd.def) depth;
     fp_bool "missing_ok" x.(AlterTableCmd.missing_ok);
     fp_string "name" x.(AlterTableCmd.name);
     fp_struct _fingerprintRoleSpec node "newowner" x.(AlterTableCmd.newowner) depth;
     fp_int "num" x.(AlterTableCmd.num);
     fp_enum _enumToStringAlterTableType "subtype" x.(AlterTableCmd.subtype)].

Definition _fingerprintPartitionBoundSpec (x : PartitionBoundSpec.t Node) (parent : option Node)
    (field_name : option string) (depth : nat) : prog :=
  let node := N_PartitionBoundSpec x in
  Seq
    [fp_bool "is_default" x.(PartitionBoundSpec.is_default);
     fp_list node "listdatums" x.(PartitionBoundSpec.listdatums) depth;
     fp_list node "lowerdatums" x.(PartitionBoundSpec.lowerdatums) depth;
     fp_int "modulus" x.(PartitionBoundSpec.modulus);
     fp_int "remainder" x.(PartitionBoundSpec.remainder);
     fp_char "strategy" x.(PartitionBoundSpec.strategy);
     fp_list node "upperdatums" x.(PartitionBoundSpec.upperdatums) depth].

Definition _fingerprintTableLikeClause (x : TableLikeClause.t Node) (parent : option Node)
    (field_name : option string) (depth : nat) : prog :=
  let node := N_TableLikeClause x in
  Seq
    [fp_int "options" x.(TableLikeClause.options);
     fp_struct _fingerprintRangeVar node "relation" x.(TableLikeClause.relation) depth].

Definition _fingerprintPartitionElem (x : PartitionElem.t Node) (parent : option Node)
    (field_name : option string) (depth : nat) : prog :=
  let node := N_PartitionElem x in
  Seq
    [fp_list node "collation" x.(PartitionElem.collation) depth;
     fp_node node "expr" x.(PartitionElem.expr) depth;
     fp_string "name" x.(PartitionElem.name);
     fp_list node "opclass" x.(PartitionElem.opclass) depth].

Definition _fingerprintPartitionSpec (x : PartitionSpec.t Node) (parent : option Node)
    (field_name : option string) (depth : nat) : prog :=
  let node := N_PartitionSpec x in
  Seq
    [fp_list node "partParams" x.(PartitionSpec.partParams) depth;
     fp_string "strategy" x.(PartitionSpec.strategy)].

Definition _fingerprintPartitionCmd (x : PartitionCmd.t Node) (parent : option Node)
    (field_name : option string) (depth : nat) : prog :=
  let node := N_PartitionCmd x in
  Seq
    [fp_struct _fingerprintPartitionBoundSpec node "bound" x.(PartitionCmd.bound) depth;
     fp_struct _fingerprintRangeVar node "name" x.(PartitionCmd.name) depth].

Definition _fingerprintTriggerTransition (x : TriggerTransition.t Node) (parent : option Node)
    (field_name : option string) (depth : nat) : prog :=
  Seq
    [fp_bool "isNew" x.(TriggerTransition.isNew);
     fp_bool "isTable" x.(TriggerTransition.isTable);
     fp_string "name" x.(TriggerTransition.name)].

Definition _fingerprintCreateSchemaStmt (x : CreateSchemaStmt.t Node) (parent : option Node)
    (field_name : option string) (depth : nat) : prog :=
  let node := N_CreateSchemaStmt x in
  Seq
    [fp_struct _fingerprintRoleSpec node "authrole" x.(CreateSchemaStmt.authrole) depth;
     fp_bool "if_not_exists" x.(CreateSchemaStmt.if_not_exists);
     fp_list node "schemaElts" x.(CreateSchemaStmt.schemaElts) depth;
     fp_string "schemaname" x.(CreateSchemaStmt.schemaname)].

Definition _fingerprintAlterTableStmt (x : AlterTableStmt.t Node) (parent : option Node)
    (field_name : option string) (depth : nat) : prog :=
  let node := N_AlterTableStmt x in
  Seq
    [fp_list node "cmds" x.(AlterTableStmt.cmds) depth;
     fp_bool "missing_ok" x.(AlterTableStmt.missing_ok);
     fp_struct _fingerprintRangeVar node "relation" x.(AlterTableStmt.relation) depth;
     fp_enum _enumToStringObjectType "relkind" x.(AlterTableStmt.relkind)].

Definition _fingerprintReplicaIdentityStmt (x : ReplicaIdentityStmt.t Node) (parent : option Node)
    (field_name : option string) (depth : nat) : prog :=
  Seq
    [fp_char "identity_type" x.(ReplicaIdentityStmt.identity_type);
     fp_string "name" x.(ReplicaIdentityStmt.name)].

Definition _fingerprintAlterCollationStmt (x : AlterCollationStmt.t Node) (parent : option Node)
    (field_name : option string) (depth : nat) : prog :=
  let node := N_AlterCollationStmt x in
  Seq
    [fp_list node "collname" x.(AlterCollationStmt.collname) depth].

Definition _fingerprintAlterDomainStmt (x : AlterDomainStmt.t Node) (parent : option Node)
    (field_name : option string) (depth : nat) : prog :=
  let node := N_AlterDomainStmt x in
  Seq
    [fp_enum _enumToStringDropBehavior "behavior" x.(AlterDomainStmt.behavior);
     fp_node node "def" x.(AlterDomainStmt.def) depth;
     fp_bool "missing_ok" x.(AlterDomainStmt.missing_ok);
     fp_string "name" x.(AlterDomainStmt.name);
     fp_char "subtype" x.(AlterDomainStmt.subtype);
     fp_list node "typeName" x.(AlterDomainStmt.typeName) depth].

Definition _fingerprintGrantStmt (x : GrantStmt.t Node) (parent : option Node)
    (field_name : option string) (depth : nat) : prog :=
  let node := N_GrantStmt x in
  Seq
    [fp_enum _enumToStringDropBehavior "behavior" x.(GrantStmt.behavior);
     fp_bool "grant_option" x.(GrantStmt.grant_option);
     fp_list node "grantees" x.(GrantStmt.grantees) depth;
     fp_bool "is_grant" x.(GrantStmt.is_grant);
     fp_list node "objects" x.(GrantStmt.objects) depth;
     fp_enum _enumToStringObjectType "objtype" x.(GrantStmt.objtype);
     fp_list node "privileges" x.(GrantStmt.privileges) depth;
     fp_enum _enumToStringGrantTargetType "targtype" x.(GrantStmt.targtype)].

Definition _fingerprintObjectWithArgs (x : ObjectWithArgs.t Node) (parent : option Node)
    (field_name : option string) (depth : nat) : prog :=
  let node := N_ObjectWithArgs x in
  Seq
    [fp_bool "args_unspecified" x.(ObjectWithArgs.args_unspecified);
     fp_list node "objargs" x.(ObjectWithArgs.objargs) depth;
     fp_list node "objname" x.(ObjectWithArgs.objname) depth].

Definition _fingerprintAccessPriv (x : AccessPriv.t Node) (parent : option Node)
    (field_name : option string) (depth : nat) : prog :=
  let node := N_AccessPriv x in
  Seq
    [fp_list node "cols" x.(AccessPriv.cols) depth;
     fp_string "priv_name" x.(AccessPriv.priv_name)].

Definition _fingerprintGrantRoleStmt (x : GrantRoleStmt.t Node) (parent : option Node)
    (field_name : option string) (depth : nat) : prog :=
  let node := N_GrantRoleStmt x in
  Seq
    [fp_bool "admin_opt" x.(GrantRoleStmt.admin_opt);
     fp_enum _enumToStringDropBehavior "behavior" x.(GrantRoleStmt.behavior);
     fp_list node "granted_roles" x.(GrantRoleStmt.granted_roles) depth;
     fp_list node "grantee_roles" x.(GrantRoleStmt.grantee_roles) depth;
     fp_struct _fingerprintRoleSpec node "grantor" x.(GrantRoleStmt.grantor) depth;
     fp_bool "is_grant" x.(GrantRoleStmt.is_grant)].

Definition _fingerprintAlterDefaultPrivilegesStmt (x : AlterDefaultPrivilegesStmt.t Node) (parent : option Node)
    (field_name : option string) (depth : nat) : prog :=
  let node := N_AlterDefaultPrivilegesStmt x in
  Seq
    [fp_struct _fingerprintGrantStmt node "action" x.(AlterDefaultPrivilegesStmt.action) depth;
     fp_list node "options" x.(AlterDefaultPrivilegesStmt.options) depth].

Definition _fingerprintCopyStmt (x : CopyStmt.t Node) (parent : option Node)
    (field_name : option string) (depth : nat) : prog :=
  let node := N_CopyStmt x in
  Seq
    [fp_list node "attlist" x.(CopyStmt.attlist) depth;
     fp_string "filename" x.(CopyStmt.filename);
     fp_bool "is_from" x.(CopyStmt.is_from);
     fp_bool "is_program" x.(CopyStmt.is_program);
     fp_list node "options" x.(CopyStmt.options) depth;
     fp_node node "query" x.(CopyStmt.query) depth;
     fp_struct _fingerprintRangeVar node "relation" x.(CopyStmt.relation) depth;
     fp_node node "whereClause" x.(CopyStmt.whereClause) depth].

Definition _fingerprintVariableSetStmt (x : VariableSetStmt.t Node) (parent : option Node)
    (field_name : option string) (depth : nat) : prog :=
  let node := N_VariableSetStmt x in
  Seq
    [fp_list node "args" x.(VariableSetStmt.args) depth;
     fp_bool "is_local" x.(VariableSetStmt.is_local);
     fp_enum _enumToStringVariableSetKind "kind" x.(VariableSetStmt.kind);
     fp_string "name" x.(VariableSetStmt.name)].

Definition _fingerprintVariableShowStmt (x : VariableShowStmt.t Node) (parent : option Node)
    (field_name : option string) (depth : nat) : prog :=
  Seq
    [fp_string "name" x.(VariableShowStmt.name)].

Definition _fingerprintCreateStmt (x : CreateStmt.t Node) (parent : option Node)
    (field_name : option string) (depth : nat) : prog :=
  let node := N_CreateStmt x in
  Seq
    [fp_string "accessMethod" x.(CreateStmt.accessMethod);
     fp_list node "constraints" x.(CreateStmt.constraints) depth;
     fp_bool "if_not_exists" x.(CreateStmt.if_not_exists);
     fp_list node "inhRelations" x.(CreateStmt.inhRelations) depth;
     fp_struct _fingerprintTypeName node "ofTypename" x.(CreateStmt.ofTypename) depth;
     fp_enum _enumToStringOnCommitAction "oncommit" x.(CreateStmt.oncommit);
     fp_list node "options" x.(CreateStmt.options) depth;
     fp_struct _fingerprintPartitionBoundSpec node "partbound" x.(CreateStmt.partbound) depth;
     fp_struct _fingerprintPartitionSpec node "partspec" x.(CreateStmt.partspec) depth;
     fp_struct _fingerprintRangeVar node "relation" x.(CreateStmt.relation) depth;
     fp_list node "tableElts" x.(CreateStmt.tableElts) depth;
     fp_string "tablespacename" x.(CreateStmt.tablespacename)].

Definition _fingerprintCreateTableSpaceStmt (x : CreateTableSpaceStmt.t Node) (parent : option Node)
    (field_name : option string) (depth : nat) : prog :=
  let node := N_CreateTableSpaceStmt x in
  Seq
    [fp_list node "options" x.(CreateTableSpaceStmt.options) depth;
     fp_struct _fingerprintRoleSpec node "owner" x.(CreateTableSpaceStmt.owner) depth;
     fp_string "tablespacename" x.(CreateTableSpaceStmt.tablespacename)].

Definition _fingerprintDropTableSpaceStmt (x : DropTableSpaceStmt.t Node) (parent : option Node)
    (field_name : option string) (depth : nat) : prog :=
  Seq
    [fp_bool "missing_ok" x.(DropTableSpaceStmt.missing_ok);
     fp_string "tablespacename" x.(DropTableSpaceStmt.tablespacename)].

Definition _fingerprintAlterTableSpaceOptionsStmt (x : AlterTableSpaceOptionsStmt.t Node) (parent : option Node)
    (field_name : option string) (depth : nat) : prog :=
  let node := N_AlterTableSpaceOptionsStmt x in
  Seq
    [fp_bool "isReset" x.(AlterTableSpaceOptionsStmt.isReset);
     fp_list node "options" x.(AlterTableSpaceOptionsStmt.options) depth;
     fp_string "tablespacename" x.(AlterTableSpaceOptionsStmt.tablespacename)].

Definition _fingerprintAlterTableMoveAllStmt (x : AlterTableMoveAllStmt.t Node) (parent : option Node)
    (field_name : option string) (depth : nat) : prog :=
  let node := N_AlterTableMoveAllStmt x in
  Seq
    [fp_string "new_tablespacename" x.(AlterTableMoveAllStmt.new_tablespacename);
     fp_bool "nowait" x.(AlterTableMoveAllStmt.nowait);
     fp_enum _enumToStringObjectType "objtype" x.(AlterTableMoveAllStmt.objtype);
     fp_string "orig_tablespacename" x.(AlterTableMoveAllStmt.orig_tablespacename);
     fp_list node "roles" x.(AlterTableMoveAllStmt.roles) depth].

Definition _fingerprintCreateExtensionStmt (x : CreateExtensionStmt.t Node) (parent : option Node)
    (field_name : option string) (depth : nat) : prog :=
  let node := N_CreateExtensionStmt x in
  Seq
    [fp_string "extname" x.(CreateExtensionStmt.extname);
     fp_bool "if_not_exists" x.(CreateExtensionStmt.if_not_exists);
     fp_list node "options" x.(CreateExtensionStmt.options) depth].

Definition _fingerprintAlterExtensionStmt (x : AlterExtensionStmt.t Node) (parent : option Node)
    (field_name : option string) (depth : nat) : prog :=
  let node := N_AlterExtensionStmt x in
  Seq
    [fp_string "extname" x.(AlterExtensionStmt.extname);
     fp_list node "options" x.(AlterExtensionStmt.options) depth].

Definition _fingerprintAlterExtensionContentsStmt (x : AlterExtensionContentsStmt.t Node) (parent : option Node)
    (field_name : option string) (depth : nat) : prog :=
  let node := N_AlterExtensionContentsStmt x in
  Seq
    [fp_int "action" x.(AlterExtensionContentsStmt.action);
     fp_string "extname" x.(AlterExtensionContentsStmt.extname);
     fp_node node "object" x.(AlterExtensionContentsStmt.object) depth;
     fp_enum _enumToStringObjectType "objtype" x.(AlterExtensionContentsStmt.objtype)].

Definition _fingerprintCreateFdwStmt (x : CreateFdwStmt.t Node) (parent : option Node)
    (field_name : option string) (depth : nat) : prog :=
  let node := N_CreateFdwStmt x in
  Seq
    [fp_string "fdwname" x.(CreateFdwStmt.fdwname);
     fp_list node "func_options" x.(CreateFdwStmt.func_options) depth;
     fp_list node "options" x.(CreateFdwStmt.options) depth].

Definition _fingerprintAlterFdwStmt (x : AlterFdwStmt.t Node) (parent : option Node)
    (field_name : option string) (depth : nat) : prog :=
  let node := N_AlterFdwStmt x in
  Seq
    [fp_string "fdwname" x.(AlterFdwStmt.fdwname);
     fp_list node "func_options" x.(AlterFdwStmt.func_options) depth;
     fp_list node "options" x.(AlterFdwStmt.options) depth].

Definition _fingerprintCreateForeignServerStmt (x : CreateForeignServerStmt.t Node) (parent : option Node)
    (field_name : option string) (depth : nat) : prog :=
  let node := N_CreateForeignServerStmt x in
  Seq
    [fp_string "fdwname" x.(CreateForeignServerStmt.fdwname);
     fp_bool "if_not_exists" x.(CreateForeignServerStmt.if_not_exists);
     fp_list node "options" x.(CreateForeignServerStmt.options) depth;
     fp_string "servername" x.(CreateForeignServerStmt.servername);
     fp_string "servertype" x.(CreateForeignServerStmt.servertype);
     fp_string "version" x.(CreateForeignServerStmt.version)].

Definition _fingerprintAlterForeignServerStmt (x : AlterForeignServerStmt.t Node) (parent : option Node)
    (field_name : option string) (depth : nat) : prog :=
  let node := N_AlterForeignServerStmt x in
  Seq
    [fp_bool "has_version" x.(AlterForeignServerStmt.has_version);
     fp_list node "options" x.(AlterForeignServerStmt.options) depth;
     fp_string "servername" x.(AlterForeignServerStmt.servername);
     fp_string "version" x.(AlterForeignServerStmt.version)].

Definition _fingerprintCreateForeignTableStmt (x : CreateForeignTableStmt.t Node) (parent : option Node)
    (field_name : option string) (depth : nat) : prog :=
  let node := N_CreateForeignTableStmt x in
  Seq
    [Write "base";
     _fingerprintCreateStmt x.(CreateForeignTableStmt.base) (Some node) (Some "base") depth;
     fp_list node "options" x.(CreateForeignTableStmt.options) depth;
     fp_string "servername" x.(CreateForeignTableStmt.servername)].

Definition _fingerprintCreateUserMappingStmt (x : CreateUserMappingStmt.t Node) (parent : option Node)
    (field_name : option string) (depth : nat) : prog :=
  let node := N_CreateUserMappingStmt x in
  Seq
    [fp_bool "if_not_exists" x.(CreateUserMappingStmt.if_not_exists);
     fp_list node "options" x.(CreateUserMappingStmt.options) depth;
     fp_string "servername" x.(CreateUserMappingStmt.servername);
     fp_struct _fingerprintRoleSpec node "user" x.(CreateUserMappingStmt.user) depth].

Definition _fingerprintAlterUserMappingStmt (x : AlterUserMappingStmt.t Node) (parent : option Node)
    (field_name : option string) (depth : nat) : prog :=
  let node := N_AlterUserMappingStmt x in
  Seq
    [fp_list node "options" x.(AlterUserMappingStmt.options) depth;
     fp_string "servername" x.(AlterUserMappingStmt.servername);
     fp_struct _fingerprintRoleSpec node "user" x.(AlterUserMappingStmt.user) depth].

Definition _fingerprintDropUserMappingStmt (x : DropUserMappingStmt.t Node) (parent : option Node)
    (field_name : option string) (depth : nat) : prog :=
  let node := N_DropUserMappingStmt x in
  Seq
    [fp_bool "missing_ok" x.(DropUserMappingStmt.missing_ok);
     fp_string "servername" x.(DropUserMappingStmt.servername);
     fp_struct _fingerprintRoleSpec node "user" x.(DropUserMappingStmt.user) depth].

Definition _fingerprintImportForeignSchemaStmt (x : ImportForeignSchemaStmt.t Node) (parent : option Node)
    (field_name : option string) (depth : nat) : prog :=
  let node := N_ImportForeignSchemaStmt x in
  Seq
    [fp_enum _enumToStringImportForeignSchemaType "list_type" x.(ImportForeignSchemaStmt.list_type);
     fp_string "local_schema" x.(ImportForeignSchemaStmt.local_schema);
     fp_list node "options" x.(ImportForeignSchemaStmt.options) depth;
     fp_string "remote_schema" x.(ImportForeignSchemaStmt.remote_schema);
     fp_string "server_name" x.(ImportForeignSchemaStmt.server_name);
     fp_list node "table_list" x.(ImportForeignSchemaStmt.table_list) depth].

Definition _fingerprintCreatePolicyStmt (x : CreatePolicyStmt.t Node) (parent : option Node)
    (field_name : option string) (depth : nat) : prog :=
  let node := N_CreatePolicyStmt x in
  Seq
    [fp_string "cmd_name" x.(CreatePolicyStmt.cmd_name);
     fp_bool "permissive" x.(CreatePolicyStmt.permissive);
     fp_string "policy_name" x.(CreatePolicyStmt.policy_name);
     fp_node node "qual" x.(CreatePolicyStmt.qual) depth;
     fp_list node "roles" x.(CreatePolicyStmt.roles) depth;
     fp_struct _fingerprintRangeVar node "table" x.(CreatePolicyStmt.table) depth;
     fp_node node "with_check" x.(CreatePolicyStmt.with_check) depth].

Definition _fingerprintAlterPolicyStmt (x : AlterPolicyStmt.t Node) (parent : option Node)
    (field_name : option string) (depth : nat) : prog :=
  let node := N_AlterPolicyStmt x in
  Seq
    [fp_string "policy_name" x.(AlterPolicyStmt.policy_name);
     fp_node node "qual" x.(AlterPolicyStmt.qual) depth;
     fp_list node "roles" x.(AlterPolicyStmt.roles) depth;
     fp_struct _fingerprintRangeVar node "table" x.(AlterPolicyStmt.table) depth;
     fp_node node "with_check" x.(AlterPolicyStmt.with_check) depth].

Definition _fingerprintCreateAmStmt (x : CreateAmStmt.t Node) (parent : option Node)
    (field_name : option string) (depth : nat) : prog :=
  let node := N_CreateAmStmt x in
  Seq
    [fp_string "amname" x.(CreateAmStmt.amname);
     fp_char "amtype" x.(CreateAmStmt.amtype);
     fp_list node "handler_name" x.(CreateAmStmt.handler_name) depth].

Definition _fingerprintCreateTrigStmt (x : CreateTrigStmt.t Node) (parent : option Node)
    (field_name : option string) (depth : nat) : prog :=
  let node := N_CreateTrigStmt x in
  Seq
    [fp_list node "args" x.(CreateTrigStmt.args) depth;
     fp_list node "columns" x.(CreateTrigStmt.columns) depth;
     fp_struct _fingerprintRangeVar node "constrrel" x.(CreateTrigStmt.constrrel) depth;
     fp_bool "deferrable" x.(CreateTrigStmt.deferrable);
     fp_int "events" x.(CreateTrigStmt.events);
     fp_list node "funcname" x.(CreateTrigStmt.funcname) depth;
     fp_bool "initdeferred" x.(CreateTrigStmt.initdeferred);
     fp_bool "isconstraint" x.(CreateTrigStmt.isconstraint);
     fp_struct _fingerprintRangeVar node "relation" x.(CreateTrigStmt.relation) depth;
     fp_bool "row" x.(CreateTrigStmt.row);
     fp_int "timing" x.(CreateTrigStmt.timing);
     fp_list node "transitionRels" x.(CreateTrigStmt.transitionRels) depth;
     fp_string "trigname" x.(CreateTrigStmt.trigname);
     fp_node node "whenClause" x.(CreateTrigStmt.whenClause) depth].

Definition _fingerprintCreateEventTrigStmt (x : CreateEventTrigStmt.t Node) (parent : option Node)
    (field_name : option string) (depth : nat) : prog :=
  let node := N_CreateEventTrigStmt x in
  Seq
    [fp_string "eventname" x.(CreateEventTrigStmt.eventname);
     fp_list node "funcname" x.(CreateEventTrigStmt.funcname) depth;
     fp_string "trigname" x.(CreateEventTrigStmt.trigname);
     fp_list node "whenclause" x.(CreateEventTrigStmt.whenclause) depth].

Definition _fingerprintAlterEventTrigStmt (x : AlterEventTrigStmt.t Node) (parent : option Node)
    (field_name : option string) (depth : nat) : prog :=
  Seq
    [fp_char "tgenabled" x.(AlterEventTrigStmt.tgenabled);
     fp_string "trigname" x.(AlterEventTrigStmt.trigname)].

Definition _fingerprintCreatePLangStmt (x : CreatePLangStmt.t Node) (parent : option Node)
    (field_name : option string) (depth : nat) : prog :=
  let node := N_CreatePLangStmt x in
  Seq
    [fp_list node "plhandler" x.(CreatePLangStmt.plhandler) depth;
     fp_list node "plinline" x.(CreatePLangStmt.plinline) depth;
     fp_string "plname" x.(CreatePLangStmt.plname);
     fp_bool "pltrusted" x.(CreatePLangStmt.pltrusted);
     fp_list node "plvalidator" x.(CreatePLangStmt.plvalidator) depth;
     fp_bool "replace" x.(CreatePLangStmt.replace)].

Definition _fingerprintCreateRoleStmt (x : CreateRoleStmt.t Node) (parent : option Node)
    (field_name : option string) (depth : nat) : prog :=
  let node := N_CreateRoleStmt x in
  Seq
    [fp_list node "options" x.(CreateRoleStmt.options) depth;
     fp_string "role" x.(CreateRoleStmt.role);
     fp_enum _enumToStringRoleStmtType "stmt_type" x.(CreateRoleStmt.stmt_type)].

Definition _fingerprintAlterRoleStmt (x : AlterRoleStmt.t Node) (parent : option Node)
    (field_name : option string) (depth : nat) : prog :=
  let node := N_AlterRoleStmt x in
  Seq
    [fp_int "action" x.(AlterRoleStmt.action);
     fp_list node "options" x.(AlterRoleStmt.options) depth;
     fp_struct _fingerprintRoleSpec node "role" x.(AlterRoleStmt.role) depth].

Definition _fingerprintAlterRoleSetStmt (x : AlterRoleSetStmt.t Node) (parent : option Node)
    (field_name : option string) (depth : nat) : prog :=
  let node := N_AlterRoleSetStmt x in
  Seq
    [fp_string "database" x.(AlterRoleSetStmt.database);
     fp_struct _fingerprintRoleSpec node "role" x.(AlterRoleSetStmt.role) depth;
     fp_struct _fingerprintVariableSetStmt node "setstmt" x.(AlterRoleSetStmt.setstmt) depth].

Definition _fingerprintDropRoleStmt (x : DropRoleStmt.t Node) (parent : option Node)
    (field_name : option string) (depth : nat) : prog :=
  let node := N_DropRoleStmt x in
  Seq
    [fp_bool "missing_ok" x.(DropRoleStmt.missing_ok);
     fp_list node "roles" x.(DropRoleStmt.roles) depth].

Definition _fingerprintCreateSeqStmt (x : CreateSeqStmt.t Node) (parent : option Node)
    (field_name : option string) (depth : nat) : prog :=
  let node := N_CreateSeqStmt x in
  Seq
    [fp_bool "for_identity" x.(CreateSeqStmt.for_identity);
     fp_bool "if_not_exists" x.(CreateSeqStmt.if_not_exists);
     fp_list node "options" x.(CreateSeqStmt.options) depth;
     fp_uint "ownerId" x.(CreateSeqStmt.ownerId);
     fp_struct _fingerprintRangeVar node "sequence" x.(CreateSeqStmt.sequence) depth].

Definition _fingerprintAlterSeqStmt (x : AlterSeqStmt.t Node) (parent : option Node)
    (field_name : option string) (depth : nat) : prog :=
  let node := N_AlterSeqStmt x in
  Seq
    [fp_bool "for_identity" x.(AlterSeqStmt.for_identity);
     fp_bool "missing_ok" x.(AlterSeqStmt.missing_ok);
     fp_list node "options" x.(AlterSeqStmt.options) depth;
     fp_struct _fingerprintRangeVar node "sequence" x.(AlterSeqStmt.sequence) depth].

Definition _fingerprintDefineStmt (x : DefineStmt.t Node) (parent : option Node)
    (field_name : option string) (depth : nat) : prog :=
  let node := N_DefineStmt x in
  Seq
    [fp_list node "args" x.(DefineStmt.args) depth;
     fp_list node "definition" x.(DefineStmt.definition) depth;
     fp_list node "defnames" x.(DefineStmt.defnames) depth;
     fp_bool "if_not_exists" x.(DefineStmt.if_not_exists);
     fp_enum _enumToStringObjectType "kind" x.(DefineStmt.kind);
     fp_bool "oldstyle" x.(DefineStmt.oldstyle);
     fp_bool "replace" x.(DefineStmt.replace)].

Definition _fingerprintCreateDomainStmt (x : CreateDomainStmt.t Node) (parent : option Node)
    (field_name : option string) (depth : nat) : prog :=
  let node := N_CreateDomainStmt x in
  Seq
    [fp_struct _fingerprintCollateClause node "collClause" x.(CreateDomainStmt.collClause) depth;
     fp_list node "constraints" x.(CreateDomainStmt.constraints) depth;
     fp_list node "domainname" x.(CreateDomainStmt.domainname) depth;
     fp_struct _fingerprintTypeName node "typeName" x.(CreateDomainStmt.typeName) depth].

Definition _fingerprintCreateOpClassStmt (x : CreateOpClassStmt.t Node) (parent : option Node)
    (field_name : option string) (depth : nat) : prog :=
  let node := N_CreateOpClassStmt x in
  Seq
    [fp_string "amname" x.(CreateOpClassStmt.amname);
     fp_struct _fingerprintTypeName node "datatype" x.(CreateOpClassStmt.datatype) depth;
     fp_bool "isDefault" x.(CreateOpClassStmt.isDefault);
     fp_list node "items" x.(CreateOpClassStmt.items) depth;
     fp_list node "opclassname" x.(CreateOpClassStmt.opclassname) depth;
     fp_list node "opfamilyname" x.(CreateOpClassStmt.opfamilyname) depth].

Definition _fingerprintCreateOpClassItem (x : CreateOpClassItem.t Node) (parent : option Node)
    (field_name : option string) (depth : nat) : prog :=
  let node := N_CreateOpClassItem x in
  Seq
    [fp_list node "class_args" x.(CreateOpClassItem.class_args) depth;
     fp_int "itemtype" x.(CreateOpClassItem.itemtype);
     fp_struct _fingerprintObjectWithArgs node "name" x.(CreateOpClassItem.name) depth;
     fp_int "number" x.(CreateOpClassItem.number);
     fp_list node "order_family" x.(CreateOpClassItem.order_family) depth;
     fp_struct _fingerprintTypeName node "storedtype" x.(CreateOpClassItem.storedtype) depth].

Definition _fingerprintCreateOpFamilyStmt (x : CreateOpFamilyStmt.t Node) (parent : option Node)
    (field_name : option string) (depth : nat) : prog :=
  let node := N_CreateOpFamilyStmt x in
  Seq
    [fp_string "amname" x.(CreateOpFamilyStmt.amname);
     fp_list node "opfamilyname" x.(CreateOpFamilyStmt.opfamilyname) depth].

Definition _fingerprintAlterOpFamilyStmt (x : AlterOpFamilyStmt.t Node) (parent : option Node)
    (field_name : option string) (depth : nat) : prog :=
  let node := N_AlterOpFamilyStmt x in
  Seq
    [fp_string "amname" x.(AlterOpFamilyStmt.amname);
     fp_bool "isDrop" x.(AlterOpFamilyStmt.isDrop);
     fp_list node "items" x.(AlterOpFamilyStmt.items) depth;
     fp_list node "opfamilyname" x.(AlterOpFamilyStmt.opfamilyname) depth].

Definition _fingerprintDropStmt (x : DropStmt.t Node) (parent : option Node)
    (field_name : option string) (depth : nat) : prog :=
  let node := N_DropStmt x in
  Seq
    [fp_enum _enumToStringDropBehavior "behavior" x.(DropStmt.behavior);
     fp_bool "concurrent" x.(DropStmt.concurrent);
     fp_bool "missing_ok" x.(DropStmt.missing_ok);
     fp_list node "objects" x.(DropStmt.objects) depth;
     fp_enum _enumToStringObjectType "removeType" x.(DropStmt.removeType)].

Definition _fingerprintTruncateStmt (x : TruncateStmt.t Node) (parent : option Node)
    (field_name : option string) (depth : nat) : prog :=
  let node := N_TruncateStmt x in
  Seq
    [fp_enum _enumToStringDropBehavior "behavior" x.(TruncateStmt.behavior);
     fp_list node "relations" x.(TruncateStmt.relations) depth;
     fp_bool "restart_seqs" x.(TruncateStmt.restart_seqs)].

Definition _fingerprintCommentStmt (x : CommentStmt.t Node) (parent : option Node)
    (field_name : option string) (depth : nat) : prog :=
  let node := N_CommentStmt x in
  Seq
    [fp_string "comment" x.(CommentStmt.comment);
     fp_node node "object" x.(CommentStmt.object) depth;
     fp_enum _enumToStringObjectType "objtype" x.(CommentStmt.objtype)].

Definition _fingerprintSecLabelStmt (x : SecLabelStmt.t Node) (parent : option Node)
    (field_name : option string) (depth : nat) : prog :=
  let node := N_SecLabelStmt x in
  Seq
    [fp_string "label" x.(SecLabelStmt.label);
     fp_node node "object" x.(SecLabelStmt.object) depth;
     fp_enum _enumToStringObjectType "objtype" x.(SecLabelStmt.objtype);
     fp_string "provider" x.(SecLabelStmt.provider)].

Definition _fingerprintDeclareCursorStmt (x : DeclareCursorStmt.t Node) (parent : option Node)
    (field_name : option string) (depth : nat) : prog :=
  let node := N_DeclareCursorStmt x in
  Seq
    [fp_int "options" x.(DeclareCursorStmt.options);
     fp_node node "query" x.(DeclareCursorStmt.query) depth].

Definition _fingerprintClosePortalStmt (x : ClosePortalStmt.t Node) (parent : option Node)
    (field_name : option string) (depth : nat) : prog :=
  Seq [].

Definition _fingerprintFetchStmt (x : FetchStmt.t Node) (parent : option Node)
    (field_name : option string) (depth : nat) : prog :=
  Seq
    [fp_enum _enumToStringFetchDirection "direction" x.(FetchStmt.direction);
     fp_int "howMany" x.(FetchStmt.howMany);
     fp_bool "ismove" x.(FetchStmt.ismove)].

Definition _fingerprintIndexStmt (x : IndexStmt.t Node) (parent : option Node)
    (field_name : option string) (depth : nat) : prog :=
  let node := N_IndexStmt x in
  Seq
    [fp_string "accessMethod" x.(IndexStmt.accessMethod);
     fp_bool "concurrent" x.(IndexStmt.concurrent);
     fp_bool "deferrable" x.(IndexStmt.deferrable);
     fp_list node "excludeOpNames" x.(IndexStmt.excludeOpNames) depth;
     fp_string "idxcomment" x.(IndexStmt.idxcomment);
     fp_string "idxname" x.(IndexStmt.idxname);
     fp_bool "if_not_exists" x.(IndexStmt.if_not_exists);
     fp_list node "indexIncludingParams" x.(IndexStmt.indexIncludingParams) depth;
     fp_uint "indexOid" x.(IndexStmt.indexOid);
     fp_list node "indexParams" x.(IndexStmt.indexParams) depth;
     fp_bool "initdeferred" x.(IndexStmt.initdeferred);
     fp_bool "isconstraint" x.(IndexStmt.isconstraint);
     fp_int "oldCreateSubid" x.(IndexStmt.oldCreateSubid);
     fp_int "oldFirstRelfilenodeSubid" x.(IndexStmt.oldFirstRelfilenodeSubid);
     fp_uint "oldNode" x.(IndexStmt.oldNode);
     fp_list node "options" x.(IndexStmt.options) depth;
     fp_bool "primary" x.(IndexStmt.primary);
     fp_struct _fingerprintRangeVar node "relation" x.(IndexStmt.relation) depth;
     fp_bool "reset_default_tblspc" x.(IndexStmt.reset_default_tblspc);
     fp_string "tableSpace" x.(IndexStmt.tableSpace);
     fp_bool "transformed" x.(IndexStmt.transformed);
     fp_bool "unique" x.(IndexStmt.unique);
     fp_node node "whereClause" x.(IndexStmt.whereClause) depth].

Definition _fingerprintCreateStatsStmt (x : CreateStatsStmt.t Node) (parent : option Node)
    (field_name : option string) (depth : nat) : prog :=
  let node := N_CreateStatsStmt x in
  Seq
    [fp_list node "defnames" x.(CreateStatsStmt.defnames) depth;
     fp_list node "exprs" x.(CreateStatsStmt.exprs) depth;
     fp_bool "if_not_exists" x.(CreateStatsStmt.if_not_exists);
     fp_list node "relations" x.(CreateStatsStmt.relations) depth;
     fp_list node "stat_types" x.(CreateStatsStmt.stat_types) depth;
     fp_string "stxcomment" x.(CreateStatsStmt.stxcomment)].

Definition _fingerprintAlterStatsStmt (x : AlterStatsStmt.t Node) (parent : option Node)
    (field_name : option string) (depth : nat) : prog :=
  let node := N_AlterStatsStmt x in
  Seq
    [fp_list node "defnames" x.(AlterStatsStmt.defnames) depth;
     fp_bool "missing_ok" x.(AlterStatsStmt.missing_ok);
     fp_int "stxstattarget" x.(AlterStatsStmt.stxstattarget)].

Definition _fingerprintCreateFunctionStmt (x : CreateFunctionStmt.t Node) (parent : option Node)
    (field_name : option string) (depth : nat) : prog :=
  let node := N_CreateFunctionStmt x in
  Seq
    [fp_list node "funcname" x.(CreateFunctionStmt.funcname) depth;
     fp_bool "is_procedure" x.(CreateFunctionStmt.is_procedure);
     fp_list node "options" x.(CreateFunctionStmt.options) depth;
     fp_list node "parameters" x.(CreateFunctionStmt.parameters) depth;
     fp_bool "replace" x.(CreateFunctionStmt.replace);
     fp_struct _fingerprintTypeName node "returnType" x.(CreateFunctionStmt.returnType) depth].

Definition _fingerprintFunctionParameter (x : FunctionParameter.t Node) (parent : option Node)
    (field_name : option string) (depth : nat) : prog :=
  let node := N_FunctionParameter x in
  Seq
    [fp_struct _fingerprintTypeName node "argType" x.(FunctionParameter.argType) depth;
     fp_node node "defexpr" x.(FunctionParameter.defexpr) depth;
     fp_enum _enumToStringFunctionParameterMode "mode" x.(FunctionParameter.mode);
     fp_string "name" x.(FunctionParameter.name)].

Definition _fingerprintAlterFunctionStmt (x : AlterFunctionStmt.t Node) (parent : option Node)
    (field_name : option string) (depth : nat) : prog :=
  let node := N_AlterFunctionStmt x in
  Seq
    [fp_list node "actions" x.(AlterFunctionStmt.actions) depth;
     fp_struct _fingerprintObjectWithArgs node "func" x.(AlterFunctionStmt.func) depth;
     fp_enum _enumToStringObjectType "objtype" x.(AlterFunctionStmt.objtype)].

Definition _fingerprintDoStmt (x : DoStmt.t Node) (parent : option Node)
    (field_name : option string) (depth : nat) : prog :=
  let node := N_DoStmt x in
  Seq
    [fp_list node "args" x.(DoStmt.args) depth].

Definition _fingerprintFuncExpr (x : FuncExpr.t Node) (parent : option Node)
    (field_name : option string) (depth : nat) : prog :=
  let node := N_FuncExpr x in
  Seq
    [fp_list node "args" x.(FuncExpr.args) depth;
     fp_uint "funccollid" x.(FuncExpr.funccollid);
     fp_enum _enumToStringCoercionForm "funcformat" x.(FuncExpr.funcformat);
     fp_uint "funcid" x.(FuncExpr.funcid);
     fp_uint "funcresulttype" x.(FuncExpr.funcresulttype);
     fp_bool "funcretset" x.(FuncExpr.funcretset);
     fp_bool "funcvariadic" x.(FuncExpr.funcvariadic);
     fp_uint "inputcollid" x.(FuncExpr.inputcollid)].

Definition _fingerprintCallStmt (x : CallStmt.t Node) (parent : option Node)
    (field_name : option string) (depth : nat) : prog :=
  let node := N_CallStmt x in
  Seq
    [fp_struct _fingerprintFuncCall node "funccall" x.(CallStmt.funccall) depth;
     fp_struct _fingerprintFuncExpr node "funcexpr" x.(CallStmt.funcexpr) depth].

Definition _fingerprintRenameStmt (x : RenameStmt.t Node) (parent : option Node)
    (field_name : option string) (depth : nat) : prog :=
  let node := N_RenameStmt x in
  Seq
    [fp_enum _enumToStringDropBehavior "behavior" x.(RenameStmt.behavior);
     fp_bool "missing_ok" x.(RenameStmt.missing_ok);
     fp_string "newname" x.(RenameStmt.newname);
     fp_node node "object" x.(RenameStmt.object) depth;
     fp_struct _fingerprintRangeVar node "relation" x.(RenameStmt.relation) depth;
     fp_enum _enumToStringObjectType "relationType" x.(RenameStmt.relationType);
     fp_enum _enumToStringObjectType "renameType" x.(RenameStmt.renameType);
     fp_string "subname" x.(RenameStmt.subname)].

Definition _fingerprintAlterObjectDependsStmt (x : AlterObjectDependsStmt.t Node) (parent : option Node)
    (field_name : option string) (depth : nat) : prog :=
  let node := N_AlterObjectDependsStmt x in
  Seq
    [fp_node node "extname" x.(AlterObjectDependsStmt.extname) depth;
     fp_node node "object" x.(AlterObjectDependsStmt.object) depth;
     fp_enum _enumToStringObjectType "objectType" x.(AlterObjectDependsStmt.objectType);
     fp_struct _fingerprintRangeVar node "relation" x.(AlterObjectDependsStmt.relation) depth;
     fp_bool "remove" x.(AlterObjectDependsStmt.remove)].

Definition _fingerprintAlterObjectSchemaStmt (x : AlterObjectSchemaStmt.t Node) (parent : option Node)
    (field_name : option string) (depth : nat) : prog :=
  let node := N_AlterObjectSchemaStmt x in
  Seq
    [fp_bool "missing_ok" x.(AlterObjectSchemaStmt.missing_ok);
     fp_string "newschema" x.(AlterObjectSchemaStmt.newschema);
     fp_node node "object" x.(AlterObjectSchemaStmt.object) depth;
     fp_enum _enumToStringObjectType "objectType" x.(AlterObjectSchemaStmt.objectType);
     fp_struct _fingerprintRangeVar node "relation" x.(AlterObjectSchemaStmt.relation) depth].

Definition _fingerprintAlterOwnerStmt (x : AlterOwnerStmt.t Node) (parent : option Node)
    (field_name : option string) (depth : nat) : prog :=
  let node := N_AlterOwnerStmt x in
  Seq
    [fp_struct _fingerprintRoleSpec node "newowner" x.(AlterOwnerStmt.newowner) depth;
     fp_node node "object" x.(AlterOwnerStmt.object) depth;
     fp_enum _enumToStringObjectType "objectType" x.(AlterOwnerStmt.objectType);
     fp_struct _fingerprintRangeVar node "relation" x.(AlterOwnerStmt.relation) depth].

Definition _fingerprintAlterOperatorStmt (x : AlterOperatorStmt.t Node) (parent : option Node)
    (field_name : option string) (depth : nat) : prog :=
  let node := N_AlterOperatorStmt x in
  Seq
    [fp_struct _fingerprintObjectWithArgs node "opername" x.(AlterOperatorStmt.opername) depth;
     fp_list node "options" x.(AlterOperatorStmt.options) depth].

Definition _fingerprintAlterTypeStmt (x : AlterTypeStmt.t Node) (parent : option Node)
    (field_name : option string) (depth : nat) : prog :=
  let node := N_AlterTypeStmt x in
  Seq
    [fp_list node "options" x.(AlterTypeStmt.options) depth;
     fp_list node "typeName" x.(AlterTypeStmt.typeName) depth].

Definition _fingerprintRuleStmt (x : RuleStmt.t Node) (parent : option Node)
    (field_name : option string) (depth : nat) : prog :=
  let node := N_RuleStmt x in
  Seq
    [fp_list node "actions" x.(RuleStmt.actions) depth;
     fp_enum _enumToStringCmdType "event" x.(RuleStmt.event);
     fp_bool "instead" x.(RuleStmt.instead);
     fp_struct _fingerprintRangeVar node "relation" x.(RuleStmt.relation) depth;
     fp_bool "replace" x.(RuleStmt.replace);
     fp_string "rulename" x.(RuleStmt.rulename);
     fp_node node "whereClause" x.(RuleStmt.whereClause) depth].

Definition _fingerprintNotifyStmt (x : NotifyStmt.t Node) (parent : option Node)
    (field_name : option string) (depth : nat) : prog :=
  Seq
    [fp_string "conditionname" x.(NotifyStmt.conditionname);
     fp_string "payload" x.(NotifyStmt.payload)].

Definition _fingerprintListenStmt (x : ListenStmt.t Node) (parent : option Node)
    (field_name : option string) (depth : nat) : prog :=
  Seq
    [fp_string "conditionname" x.(ListenStmt.conditionname)].

Definition _fingerprintUnlistenStmt (x : UnlistenStmt.t Node) (parent : option Node)
    (field_name : option string) (depth : nat) : prog :=
  Seq
    [fp_string "conditionname" x.(UnlistenStmt.conditionname)].

Definition _fingerprintTransactionStmt (x : TransactionStmt.t Node) (parent : option Node)
    (field_name : option string) (depth : nat) : prog :=
  Seq
    [fp_bool "chain" x.(TransactionStmt.chain);
     fp_enum _enumToStringTransactionStmtKind "kind" x.(TransactionStmt.kind)].

Definition _fingerprintCompositeTypeStmt (x : CompositeTypeStmt.t Node) (parent : option Node)
    (field_name : option string) (depth : nat) : prog :=
  let node := N_CompositeTypeStmt x in
  Seq
    [fp_list node "coldeflist" x.(CompositeTypeStmt.coldeflist) depth;
     fp_struct _fingerprintRangeVar node "typevar" x.(CompositeTypeStmt.typevar) depth].

Definition _fingerprintCreateEnumStmt (x : CreateEnumStmt.t Node) (parent : option Node)
    (field_name : option string) (depth : nat) : prog :=
  let node := N_CreateEnumStmt x in
  Seq
    [fp_list node "typeName" x.(CreateEnumStmt.typeName) depth;
     fp_list node "vals" x.(CreateEnumStmt.vals) depth].

Definition _fingerprintCreateRangeStmt (x : CreateRangeStmt.t Node) (parent : option Node)
    (field_name : option string) (depth : nat) : prog :=
  let node := N_CreateRangeStmt x in
  Seq
    [fp_list node "params" x.(CreateRangeStmt.params) depth;
     fp_list node "typeName" x.(CreateRangeStmt.typeName) depth].

Definition _fingerprintAlterEnumStmt (x : AlterEnumStmt.t Node) (parent : option Node)
    (field_name : option string) (depth : nat) : prog :=
  let node := N_AlterEnumStmt x in
  Seq
    [fp_string "newVal" x.(AlterEnumStmt.newVal);
     fp_bool "newValIsAfter" x.(AlterEnumStmt.newValIsAfter);
     fp_string "newValNeighbor" x.(AlterEnumStmt.newValNeighbor);
     fp_string "oldVal" x.(AlterEnumStmt.oldVal);
     fp_bool "skipIfNewValExists" x.(AlterEnumStmt.skipIfNewValExists);
     fp_list node "typeName" x.(AlterEnumStmt.typeName) depth].

Definition _fingerprintViewStmt (x : ViewStmt.t Node) (parent : option Node)
    (field_name : option string) (depth : nat) : prog :=
  let node := N_ViewStmt x in
  Seq
    [fp_list node "aliases" x.(ViewStmt.aliases) depth;
     fp_list node "options" x.(ViewStmt.options) depth;
     fp_node node "query" x.(ViewStmt.query) depth;
     fp_bool "replace" x.(ViewStmt.replace);
     fp_struct _fingerprintRangeVar node "view" x.(ViewStmt.view) depth;
     fp_enum _enumToStringViewCheckOption "withCheckOption" x.(ViewStmt.withCheckOption)].

Definition _fingerprintLoadStmt (x : LoadStmt.t Node) (parent : option Node)
    (field_name : option string) (depth : nat) : prog :=
  Seq
    [fp_string "filename" x.(LoadStmt.filename)].

Definition _fingerprintCreatedbStmt (x : CreatedbStmt.t Node) (parent : option Node)
    (field_name : option string) (depth : nat) : prog :=
  let node := N_CreatedbStmt x in
  Seq
    [fp_string "dbname" x.(CreatedbStmt.dbname);
     fp_list node "options" x.(CreatedbStmt.options) depth].

Definition _fingerprintAlterDatabaseStmt (x : AlterDatabaseStmt.t Node) (parent : option Node)
    (field_name : option string) (depth : nat) : prog :=
  let node := N_AlterDatabaseStmt x in
  Seq
    [fp_string "dbname" x.(AlterDatabaseStmt.dbname);
     fp_list node "options" x.(AlterDatabaseStmt.options) depth].

Definition _fingerprintAlterDatabaseSetStmt (x : AlterDatabaseSetStmt.t Node) (parent : option Node)
    (field_name : option string) (depth : nat) : prog :=
  let node := N_AlterDatabaseSetStmt x in
  Seq
    [fp_string "dbname" x.(AlterDatabaseSetStmt.dbname);
     fp_struct _fingerprintVariableSetStmt node "setstmt" x.(AlterDatabaseSetStmt.setstmt) depth].

Definition _fingerprintDropdbStmt (x : DropdbStmt.t Node) (parent : option Node)
    (field_name : option string) (depth : nat) : prog :=
  let node := N_DropdbStmt x in
  Seq
    [fp_string "dbname" x.(DropdbStmt.dbname);
     fp_bool "missing_ok" x.(DropdbStmt.missing_ok);
     fp_list node "options" x.(DropdbStmt.options) depth].

Definition _fingerprintAlterSystemStmt (x : AlterSystemStmt.t Node) (parent : option Node)
    (field_name : option string) (depth : nat) : prog :=
  let node := N_AlterSystemStmt x in
  Seq
    [fp_struct _fingerprintVariableSetStmt node "setstmt" x.(AlterSystemStmt.setstmt) depth].

Definition _fingerprintClusterStmt (x : ClusterStmt.t Node) (parent : option Node)
    (field_name : option string) (depth : nat) : prog :=
  let node := N_ClusterStmt x in
  Seq
    [fp_string "indexname" x.(ClusterStmt.indexname);
     fp_int "options" x.(ClusterStmt.options);
     fp_struct _fingerprintRangeVar node "relation" x.(ClusterStmt.relation) depth].

Definition _fingerprintVacuumStmt (x : VacuumStmt.t Node) (parent : option Node)
    (field_name : option string) (depth : nat) : prog :=
  let node := N_VacuumStmt x in
  Seq
    [fp_bool "is_vacuumcmd" x.(VacuumStmt.is_vacuumcmd);
     fp_list node "options" x.(VacuumStmt.options) depth;
     fp_list node "rels" x.(VacuumStmt.rels) depth].

Definition _fingerprintVacuumRelation (x : VacuumRelation.t Node) (parent : option Node)
    (field_name : option string) (depth : nat) : prog :=
  let node := N_VacuumRelation x in
  Seq
    [fp_uint "oid" x.(VacuumRelation.oid);
     fp_struct _fingerprintRangeVar node "relation" x.(VacuumRelation.relation) depth;
     fp_list node "va_cols" x.(VacuumRelation.va_cols) depth].

Definition _fingerprintExplainStmt (x : ExplainStmt.t Node) (parent : option Node)
    (field_name : option string) (depth : nat) : prog :=
  let node := N_ExplainStmt x in
  Seq
    [fp_list node "options" x.(ExplainStmt.options) depth;
     fp_node node "query" x.(ExplainStmt.query) depth].

Definition _fingerprintCreateTableAsStmt (x : CreateTableAsStmt.t Node) (parent : option Node)
    (field_name : option string) (depth : nat) : prog :=
  let node := N_CreateTableAsStmt x in
  Seq
    [fp_bool "if_not_exists" x.(CreateTableAsStmt.if_not_exists);
     fp_struct _fingerprintIntoClause node "into" x.(CreateTableAsStmt.into) depth;
     fp_bool "is_select_into" x.(CreateTableAsStmt.is_select_into);
     fp_node node "query" x.(CreateTableAsStmt.query) depth;
     fp_enum _enumToStringObjectType "relkind" x.(CreateTableAsStmt.relkind)].

Definition _fingerprintRefreshMatViewStmt (x : RefreshMatViewStmt.t Node) (parent : option Node)
    (field_name : option string) (depth : nat) : prog :=
  let node := N_RefreshMatViewStmt x in
  Seq
    [fp_bool "concurrent" x.(RefreshMatViewStmt.concurrent);
     fp_struct _fingerprintRangeVar node "relation" x.(RefreshMatViewStmt.relation) depth;
     fp_bool "skipData" x.(RefreshMatViewStmt.skipData)].

Definition _fingerprintCheckPointStmt (x : CheckPointStmt.t Node) (parent : option Node)
    (field_name : option string) (depth : nat) : prog :=
  Seq [].

Definition _fingerprintDiscardStmt (x : DiscardStmt.t Node) (parent : option Node)
    (field_name : option string) (depth : nat) : prog :=
  Seq
    [fp_enum _enumToStringDiscardMode "target" x.(DiscardStmt.target)].

Definition _fingerprintLockStmt (x : LockStmt.t Node) (parent : option Node)
    (field_name : option string) (depth : nat) : prog :=
  let node := N_LockStmt x in
  Seq
    [fp_int "mode" x.(LockStmt.mode);
     fp_bool "nowait" x.(LockStmt.nowait);
     fp_list node "relations" x.(LockStmt.relations) depth].

Definition _fingerprintConstraintsSetStmt (x : ConstraintsSetStmt.t Node) (parent : option Node)
    (field_name : option string) (depth : nat) : prog :=
  let node := N_ConstraintsSetStmt x in
  Seq
    [fp_list node "constraints" x.(ConstraintsSetStmt.constraints) depth;
     fp_bool "deferred" x.(ConstraintsSetStmt.deferred)].

Definition _fingerprintReindexStmt (x : ReindexStmt.t Node) (parent : option Node)
    (field_name : option string) (depth : nat) : prog :=
  let node := N_ReindexStmt x in
  Seq
    [fp_bool "concurrent" x.(ReindexStmt.concurrent);
     fp_enum _enumToStringReindexObjectType "kind" x.(ReindexStmt.kind);
     fp_string "name" x.(ReindexStmt.name);
     fp_int "options" x.(ReindexStmt.options);
     fp_struct _fingerprintRangeVar node "relation" x.(ReindexStmt.relation) depth].

Definition _fingerprintCreateConversionStmt (x : CreateConversionStmt.t Node) (parent : option Node)
    (field_name : option string) (depth : nat) : prog :=
  let node := N_CreateConversionStmt x in
  Seq
    [fp_list node "conversion_name" x.(CreateConversionStmt.conversion_name) depth;
     fp_bool "def" x.(CreateConversionStmt.def);
     fp_string "for_encoding_name" x.(CreateConversionStmt.for_encoding_name);
     fp_list node "func_name" x.(CreateConversionStmt.func_name) depth;
     fp_string "to_encoding_name" x.(CreateConversionStmt.to_encoding_name)].

Definition _fingerprintCreateCastStmt (x : CreateCastStmt.t Node) (parent : option Node)
    (field_name : option string) (depth : nat) : prog :=
  let node := N_CreateCastStmt x in
  Seq
    [fp_enum _enumToStringCoercionContext "context" x.(CreateCastStmt.context);
     fp_struct _fingerprintObjectWithArgs node "func" x.(CreateCastStmt.func) depth;
     fp_bool "inout" x.(CreateCastStmt.inout);
     fp_struct _fingerprintTypeName node "sourcetype" x.(CreateCastStmt.sourcetype) depth;
     fp_struct _fingerprintTypeName node "targettype" x.(CreateCastStmt.targettype) depth].

Definition _fingerprintCreateTransformStmt (x : CreateTransformStmt.t Node) (parent : option Node)
    (field_name : option string) (depth : nat) : prog :=
  let node := N_CreateTransformStmt x in
  Seq
    [fp_struct _fingerprintObjectWithArgs node "fromsql" x.(CreateTransformStmt.fromsql) depth;
     fp_string "lang" x.(CreateTransformStmt.lang);
     fp_bool "replace" x.(CreateTransformStmt.replace);
     fp_struct _fingerprintObjectWithArgs node "tosql" x.(CreateTransformStmt.tosql) depth;
     fp_struct _fingerprintTypeName node "type_name" x.(CreateTransformStmt.type_name) depth].

Definition _fingerprintPrepareStmt (x : PrepareStmt.t Node) (parent : option Node)
    (field_name : option string) (depth : nat) : prog :=
  let node := N_PrepareStmt x in
  Seq
    [fp_list node "argtypes" x.(PrepareStmt.argtypes) depth;
     fp_node node "query" x.(PrepareStmt.query) depth].

Definition _fingerprintExecuteStmt (x : ExecuteStmt.t Node) (parent : option Node)
    (field_name : option string) (depth : nat) : prog :=
  let node := N_ExecuteStmt x in
  Seq
    [fp_list node "params" x.(ExecuteStmt.params) depth].

Definition _fingerprintDeallocateStmt (x : DeallocateStmt.t Node) (parent : option Node)
    (field_name : option string) (depth : nat) : prog :=
  Seq [].

Definition _fingerprintDropOwnedStmt (x : DropOwnedStmt.t Node) (parent : option Node)
    (field_name : option string) (depth : nat) : prog :=
  let node := N_DropOwnedStmt x in
  Seq
    [fp_enum _enumToStringDropBehavior "behavior" x.(DropOwnedStmt.behavior);
     fp_list node "roles" x.(DropOwnedStmt.roles) depth].

Definition _fingerprintReassignOwnedStmt (x : ReassignOwnedStmt.t Node) (parent : option Node)
    (field_name : option string) (depth : nat) : prog :=
  let node := N_ReassignOwnedStmt x in
  Seq
    [fp_struct _fingerprintRoleSpec node "newrole" x.(ReassignOwnedStmt.newrole) depth;
     fp_list node "roles" x.(ReassignOwnedStmt.roles) depth].

Definition _fingerprintAlterTSDictionaryStmt (x : AlterTSDictionaryStmt.t Node) (parent : option Node)
    (field_name : option string) (depth : nat) : prog :=
  let node := N_AlterTSDictionaryStmt x in
  Seq
    [fp_list node "dictname" x.(AlterTSDictionaryStmt.dictname) depth;
     fp_list node "options" x.(AlterTSDictionaryStmt.options) depth].

Definition _fingerprintAlterTSConfigurationStmt (x : AlterTSConfigurationStmt.t Node) (parent : option Node)
    (field_name : option string) (depth : nat) : prog :=
  let node := N_AlterTSConfigurationStmt x in
  Seq
    [fp_list node "cfgname" x.(AlterTSConfigurationStmt.cfgname) depth;
     fp_list node "dicts" x.(AlterTSConfigurationStmt.dicts) depth;
     fp_enum _enumToStringAlterTSConfigType "kind" x.(AlterTSConfigurationStmt.kind);
     fp_bool "missing_ok" x.(AlterTSConfigurationStmt.missing_ok);
     fp_bool "override" x.(AlterTSConfigurationStmt.override);
     fp_bool "replace" x.(AlterTSConfigurationStmt.replace);
     fp_list node "tokentype" x.(AlterTSConfigurationStmt.tokentype) depth].

Definition _fingerprintCreatePublicationStmt (x : CreatePublicationStmt.t Node) (parent : option Node)
    (field_name : option string) (depth : nat) : prog :=
  let node := N_CreatePublicationStmt x in
  Seq
    [fp_bool "for_all_tables" x.(CreatePublicationStmt.for_all_tables);
     fp_list node "options" x.(CreatePublicationStmt.options) depth;
     fp_string "pubname" x.(CreatePublicationStmt.pubname);
     fp_list node "tables" x.(CreatePublicationStmt.tables) depth].

Definition _fingerprintAlterPublicationStmt (x : AlterPublicationStmt.t Node) (parent : option Node)
    (field_name : option string) (depth : nat) : prog :=
  let node := N_AlterPublicationStmt x in
  Seq
    [fp_bool "for_all_tables" x.(AlterPublicationStmt.for_all_tables);
     fp_list node "options" x.(AlterPublicationStmt.options) depth;
     fp_string "pubname" x.(AlterPublicationStmt.pubname);
     fp_enum _enumToStringDefElemAction "tableAction" x.(AlterPublicationStmt.tableAction);
     fp_list node "tables" x.(AlterPublicationStmt.tables) depth].

Definition _fingerprintCreateSubscriptionStmt (x : CreateSubscriptionStmt.t Node) (parent : option Node)
    (field_name : option string) (depth : nat) : prog :=
  let node := N_CreateSubscriptionStmt x in
  Seq
    [fp_string "conninfo" x.(CreateSubscriptionStmt.conninfo);
     fp_list node "options" x.(CreateSubscriptionStmt.options) depth;
     fp_list node "publication" x.(CreateSubscriptionStmt.publication) depth;
     fp_string "subname" x.(CreateSubscriptionStmt.subname)].

Definition _fingerprintAlterSubscriptionStmt (x : AlterSubscriptionStmt.t Node) (parent : option Node)
    (field_name : option string) (depth : nat) : prog :=
  let node := N_AlterSubscriptionStmt x in
  Seq
    [fp_string "conninfo" x.(AlterSubscriptionStmt.conninfo);
     fp_enum _enumToStringAlterSubscriptionType "kind" x.(AlterSubscriptionStmt.kind);
     fp_list node "options" x.(AlterSubscriptionStmt.options) depth;
     fp_list node "publication" x.(AlterSubscriptionStmt.publication) depth;
     fp_string "subname" x.(AlterSubscriptionStmt.subname)].

Definition _fingerprintDropSubscriptionStmt (x : DropSubscriptionStmt.t Node) (parent : option Node)
    (field_name : option string) (depth : nat) : prog :=
  Seq
    [fp_enum _enumToStringDropBehavior "behavior" x.(DropSubscriptionStmt.behavior);
     fp_bool "missing_ok" x.(DropSubscriptionStmt.missing_ok);
     fp_string "subname" x.(DropSubscriptionStmt.subname)].

Definition _fingerprintInteger (ival : Z) : prog :=
  if ival =? 0 then Seq [] else Seq [Write "Integer"; Write "ival"; Write (fmt_d ival)].
Definition _fingerprintFloat (str : string) : prog := Seq [Write "Float"; Write "str"; Write str].
Definition _fingerprintBitString (str : string) : prog := Seq [Write "BitString"; Write "str"; Write str].

(** The cases of the [switch] for the values; [T_Null] has none. *)
Definition _fingerprintValue (v : Value) : prog :=
  match v with
  | Integer ival => _fingerprintInteger ival
  | Float str => _fingerprintFloat str
  | String_ str => Seq [Write "String"; Write "str"; Write str]
  | BitString str => _fingerprintBitString str
  | Null => Seq []
  end.

(** The [switch] over the node tags. *)
Definition fingerprint_conds (obj : Node) (parent : option Node) (field_name : option string)
    (depth : nat) : prog :=
  match obj with
  | N_List [] => Seq []        (* a null pointer *)
  | N_List l => _fingerprintList l parent field_name depth
  | N_Value v => _fingerprintValue v
  | N_RangeVar x => Seq [Write "RangeVar"; _fingerprintRangeVar x parent field_name depth]
  | N_Alias x => Seq []
  | N_TypeName x => Seq [Write "TypeName"; _fingerprintTypeName x parent field_name depth]
  | N_ColumnRef x => Seq [Write "ColumnRef"; _fingerprintColumnRef x parent field_name depth]
  | N_ParamRef x => Seq []
  | N_A_Expr x => Seq [Write "A_Expr"; _fingerprintA_Expr x parent field_name depth]
  | N_A_Const x => Seq []
  | N_TypeCast x =>
      match x.(TypeCast.arg) with
      | Some (N_A_Const _ | N_ParamRef _) => Seq []
      | Some _ => Seq [Write "TypeCast"; _fingerprintTypeCast x parent field_name depth]
      | None => Outside
      end
  | N_CollateClause x =>
      Seq [Write "CollateClause"; _fingerprintCollateClause x parent field_name depth]
  | N_RoleSpec x => Seq [Write "RoleSpec"; _fingerprintRoleSpec x parent field_name depth]
  | N_WindowDef x => Seq [Write "WindowDef"; _fingerprintWindowDef x parent field_name depth]
  | N_SortBy x => Seq [Write "SortBy"; _fingerprintSortBy x parent field_name depth]
  | N_FuncCall x => Seq [Write "FuncCall"; _fingerprintFuncCall x parent field_name depth]
  | N_A_Star x => Seq [Write "A_Star"; _fingerprintA_Star x parent field_name depth]
  | N_A_Indices x => Seq [Write "A_Indices"; _fingerprintA_Indices x parent field_name depth]
  | N_A_Indirection x =>
      Seq [Write "A_Indirection"; _fingerprintA_Indirection x parent field_name depth]
  | N_A_ArrayExpr x => Seq [Write "A_ArrayExpr"; _fingerprintA_ArrayExpr x parent field_name depth]
  | N_ResTarget x => Seq [Write "ResTarget"; _fingerprintResTarget x parent field_name depth]
  | N_MultiAssignRef x =>
      Seq [Write "MultiAssignRef"; _fingerprintMultiAssignRef x parent field_name depth]
  | N_NamedArgExpr x =>
      Seq [Write "NamedArgExpr"; _fingerprintNamedArgExpr x parent field_name depth]
  | N_BoolExpr x => Seq [Write "BoolExpr"; _fingerprintBoolExpr x parent field_name depth]
  | N_SubLink x => Seq [Write "SubLink"; _fingerprintSubLink x parent field_name depth]
  | N_CaseWhen x => Seq [Write "CaseWhen"; _fingerprintCaseWhen x parent field_name depth]
  | N_CaseExpr x => Seq [Write "CaseExpr"; _fingerprintCaseExpr x parent field_name depth]
  | N_RowExpr x => Seq [Write "RowExpr"; _fingerprintRowExpr x parent field_name depth]
  | N_CoalesceExpr x =>
      Seq [Write "CoalesceExpr"; _fingerprintCoalesceExpr x parent field_name depth]
  | N_MinMaxExpr x => Seq [Write "MinMaxExpr"; _fingerprintMinMaxExpr x parent field_name depth]
  | N_SQLValueFunction x =>
      Seq [Write "SQLValueFunction"; _fingerprintSQLValueFunction x parent field_name depth]
  | N_XmlExpr x => Seq [Write "XmlExpr"; _fingerprintXmlExpr x parent field_name depth]
  | N_XmlSerialize x =>
      Seq [Write "XmlSerialize"; _fingerprintXmlSerialize x parent field_name depth]
  | N_NullTest x => Seq [Write "NullTest"; _fingerprintNullTest x parent field_name depth]
  | N_BooleanTest x => Seq [Write "BooleanTest"; _fingerprintBooleanTest x parent field_name depth]
  | N_SetToDefault x => Seq []
  | N_CurrentOfExpr x =>
      Seq [Write "CurrentOfExpr"; _fingerprintCurrentOfExpr x parent field_name depth]
  | N_GroupingFunc x =>
      Seq [Write "GroupingFunc"; _fingerprintGroupingFunc x parent field_name depth]
  | N_DefElem x => Seq [Write "DefElem"; _fingerprintDefElem x parent field_name depth]
  | N_IndexElem x => Seq [Write "IndexElem"; _fingerprintIndexElem x parent field_name depth]
  | N_Constraint x => Seq [Write "Constraint"; _fingerprintConstraint x parent field_name depth]
  | N_ColumnDef x => Seq [Write "ColumnDef"; _fingerprintColumnDef x parent field_name depth]
  | N_JoinExpr x => Seq [Write "JoinExpr"; _fingerprintJoinExpr x parent field_name depth]
  | N_RangeSubselect x =>
      Seq [Write "RangeSubselect"; _fingerprintRangeSubselect x parent field_name depth]
  | N_RangeFunction x =>
      Seq [Write "RangeFunction"; _fingerprintRangeFunction x parent field_name depth]
  | N_RangeTableFuncCol x =>
      Seq [Write "RangeTableFuncCol"; _fingerprintRangeTableFuncCol x parent field_name depth]
  | N_RangeTableFunc x =>
      Seq [Write "RangeTableFunc"; _fingerprintRangeTableFunc x parent field_name depth]
  | N_RangeTableSample x =>
      Seq [Write "RangeTableSample"; _fingerprintRangeTableSample x parent field_name depth]
  | N_CommonTableExpr x =>
      Seq [Write "CommonTableExpr"; _fingerprintCommonTableExpr x parent field_name depth]
  | N_WithClause x => Seq [Write "WithClause"; _fingerprintWithClause x parent field_name depth]
  | N_InferClause x => Seq [Write "InferClause"; _fingerprintInferClause x parent field_name depth]
  | N_OnConflictClause x =>
      Seq [Write "OnConflictClause"; _fingerprintOnConflictClause x parent field_name depth]
  | N_LockingClause x =>
      Seq [Write "LockingClause"; _fingerprintLockingClause x parent field_name depth]
  | N_GroupingSet x => Seq [Write "GroupingSet"; _fingerprintGroupingSet x parent field_name depth]
  | N_IntoClause x => Seq [Write "IntoClause"; _fingerprintIntoClause x parent field_name depth]
  | N_SelectStmt x => Seq [Write "SelectStmt"; _fingerprintSelectStmt x parent field_name depth]
  | N_InsertStmt x => Seq [Write "InsertStmt"; _fingerprintInsertStmt x parent field_name depth]
  | N_UpdateStmt x => Seq [Write "UpdateStmt"; _fingerprintUpdateStmt x parent field_name depth]
  | N_DeleteStmt x => Seq [Write "DeleteStmt"; _fingerprintDeleteStmt x parent field_name depth]
  | N_RawStmt x => Seq [Write "RawStmt"; _fingerprintRawStmt x parent field_name depth]
  | N_AlterTableCmd x =>
      Seq [Write "AlterTableCmd"; _fingerprintAlterTableCmd x parent field_name depth]
  | N_PartitionBoundSpec x =>
      Seq [Write "PartitionBoundSpec"; _fingerprintPartitionBoundSpec x parent field_name depth]
  | N_TableLikeClause x =>
      Seq [Write "TableLikeClause"; _fingerprintTableLikeClause x parent field_name depth]
  | N_PartitionElem x =>
      Seq [Write "PartitionElem"; _fingerprintPartitionElem x parent field_name depth]
  | N_PartitionSpec x =>
      Seq [Write "PartitionSpec"; _fingerprintPartitionSpec x parent field_name depth]
  | N_PartitionCmd x =>
      Seq [Write "PartitionCmd"; _fingerprintPartitionCmd x parent field_name depth]
  | N_TriggerTransition x =>
      Seq [Write "TriggerTransition"; _fingerprintTriggerTransition x parent field_name depth]
  | N_CreateSchemaStmt x =>
      Seq [Write "CreateSchemaStmt"; _fingerprintCreateSchemaStmt x parent field_name depth]
  | N_AlterTableStmt x =>
      Seq [Write "AlterTableStmt"; _fingerprintAlterTableStmt x parent field_name depth]
  | N_ReplicaIdentityStmt x =>
      Seq [Write "ReplicaIdentityStmt"; _fingerprintReplicaIdentityStmt x parent field_name depth]
  | N_AlterCollationStmt x =>
      Seq [Write "AlterCollationStmt"; _fingerprintAlterCollationStmt x parent field_name depth]
  | N_AlterDomainStmt x =>
      Seq [Write "AlterDomainStmt"; _fingerprintAlterDomainStmt x parent field_name depth]
  | N_GrantStmt x => Seq [Write "GrantStmt"; _fingerprintGrantStmt x parent field_name depth]
  | N_ObjectWithArgs x =>
      Seq [Write "ObjectWithArgs"; _fingerprintObjectWithArgs x parent field_name depth]
  | N_AccessPriv x => Seq [Write "AccessPriv"; _fingerprintAccessPriv x parent field_name depth]
  | N_GrantRoleStmt x =>
      Seq [Write "GrantRoleStmt"; _fingerprintGrantRoleStmt x parent field_name depth]
  | N_AlterDefaultPrivilegesStmt x =>
      Seq [Write "AlterDefaultPrivilegesStmt"; _fingerprintAlterDefaultPrivilegesStmt x parent field_name depth]
  | N_CopyStmt x => Seq [Write "CopyStmt"; _fingerprintCopyStmt x parent field_name depth]
  | N_VariableSetStmt x =>
      Seq [Write "VariableSetStmt"; _fingerprintVariableSetStmt x parent field_name depth]
  | N_VariableShowStmt x =>
      Seq [Write "VariableShowStmt"; _fingerprintVariableShowStmt x parent field_name depth]
  | N_CreateStmt x => Seq [Write "CreateStmt"; _fingerprintCreateStmt x parent field_name depth]
  | N_CreateTableSpaceStmt x =>
      Seq [Write "CreateTableSpaceStmt"; _fingerprintCreateTableSpaceStmt x parent field_name depth]
  | N_DropTableSpaceStmt x =>
      Seq [Write "DropTableSpaceStmt"; _fingerprintDropTableSpaceStmt x parent field_name depth]
  | N_AlterTableSpaceOptionsStmt x =>
      Seq [Write "AlterTableSpaceOptionsStmt"; _fingerprintAlterTableSpaceOptionsStmt x parent field_name depth]
  | N_AlterTableMoveAllStmt x =>
      Seq [Write "AlterTableMoveAllStmt"; _fingerprintAlterTableMoveAllStmt x parent field_name depth]
  | N_CreateExtensionStmt x =>
      Seq [Write "CreateExtensionStmt"; _fingerprintCreateExtensionStmt x parent field_name depth]
  | N_AlterExtensionStmt x =>
      Seq [Write "AlterExtensionStmt"; _fingerprintAlterExtensionStmt x parent field_name depth]
  | N_AlterExtensionContentsStmt x =>
      Seq [Write "AlterExtensionContentsStmt"; _fingerprintAlterExtensionContentsStmt x parent field_name depth]
  | N_CreateFdwStmt x =>
      Seq [Write "CreateFdwStmt"; _fingerprintCreateFdwStmt x parent field_name depth]
  | N_AlterFdwStmt x =>
      Seq [Write "AlterFdwStmt"; _fingerprintAlterFdwStmt x parent field_name depth]
  | N_CreateForeignServerStmt x =>
      Seq [Write "CreateForeignServerStmt"; _fingerprintCreateForeignServerStmt x parent field_name depth]
  | N_AlterForeignServerStmt x =>
      Seq [Write "AlterForeignServerStmt"; _fingerprintAlterForeignServerStmt x parent field_name depth]
  | N_CreateForeignTableStmt x =>
      Seq [Write "CreateForeignTableStmt"; _fingerprintCreateForeignTableStmt x parent field_name depth]
  | N_CreateUserMappingStmt x =>
      Seq [Write "CreateUserMappingStmt"; _fingerprintCreateUserMappingStmt x parent field_name depth]
  | N_AlterUserMappingStmt x =>
      Seq [Write "AlterUserMappingStmt"; _fingerprintAlterUserMappingStmt x parent field_name depth]
  | N_DropUserMappingStmt x =>
      Seq [Write "DropUserMappingStmt"; _fingerprintDropUserMappingStmt x parent field_name depth]
  | N_ImportForeignSchemaStmt x =>
      Seq [Write "ImportForeignSchemaStmt"; _fingerprintImportForeignSchemaStmt x parent field_name depth]
  | N_CreatePolicyStmt x =>
      Seq [Write "CreatePolicyStmt"; _fingerprintCreatePolicyStmt x parent field_name depth]
  | N_AlterPolicyStmt x =>
      Seq [Write "AlterPolicyStmt"; _fingerprintAlterPolicyStmt x parent field_name depth]
  | N_CreateAmStmt x =>
      Seq [Write "CreateAmStmt"; _fingerprintCreateAmStmt x parent field_name depth]
  | N_CreateTrigStmt x =>
      Seq [Write "CreateTrigStmt"; _fingerprintCreateTrigStmt x parent field_name depth]
  | N_CreateEventTrigStmt x =>
      Seq [Write "CreateEventTrigStmt"; _fingerprintCreateEventTrigStmt x parent field_name depth]
  | N_AlterEventTrigStmt x =>
      Seq [Write "AlterEventTrigStmt"; _fingerprintAlterEventTrigStmt x parent field_name depth]
  | N_CreatePLangStmt x =>
      Seq [Write "CreatePLangStmt"; _fingerprintCreatePLangStmt x parent field_name depth]
  | N_CreateRoleStmt x =>
      Seq [Write "CreateRoleStmt"; _fingerprintCreateRoleStmt x parent field_name depth]
  | N_AlterRoleStmt x =>
      Seq [Write "AlterRoleStmt"; _fingerprintAlterRoleStmt x parent field_name depth]
  | N_AlterRoleSetStmt x =>
      Seq [Write "AlterRoleSetStmt"; _fingerprintAlterRoleSetStmt x parent field_name depth]
  | N_DropRoleStmt x =>
      Seq [Write "DropRoleStmt"; _fingerprintDropRoleStmt x parent field_name depth]
  | N_CreateSeqStmt x =>
      Seq [Write "CreateSeqStmt"; _fingerprintCreateSeqStmt x parent field_name depth]
  | N_AlterSeqStmt x =>
      Seq [Write "AlterSeqStmt"; _fingerprintAlterSeqStmt x parent field_name depth]
  | N_DefineStmt x => Seq [Write "DefineStmt"; _fingerprintDefineStmt x parent field_name depth]
  | N_CreateDomainStmt x =>
      Seq [Write "CreateDomainStmt"; _fingerprintCreateDomainStmt x parent field_name depth]
  | N_CreateOpClassStmt x =>
      Seq [Write "CreateOpClassStmt"; _fingerprintCreateOpClassStmt x parent field_name depth]
  | N_CreateOpClassItem x =>
      Seq [Write "CreateOpClassItem"; _fingerprintCreateOpClassItem x parent field_name depth]
  | N_CreateOpFamilyStmt x =>
      Seq [Write "CreateOpFamilyStmt"; _fingerprintCreateOpFamilyStmt x parent field_name depth]
  | N_AlterOpFamilyStmt x =>
      Seq [Write "AlterOpFamilyStmt"; _fingerprintAlterOpFamilyStmt x parent field_name depth]
  | N_DropStmt x => Seq [Write "DropStmt"; _fingerprintDropStmt x parent field_name depth]
  | N_TruncateStmt x =>
      Seq [Write "TruncateStmt"; _fingerprintTruncateStmt x parent field_name depth]
  | N_CommentStmt x => Seq [Write "CommentStmt"; _fingerprintCommentStmt x parent field_name depth]
  | N_SecLabelStmt x =>
      Seq [Write "SecLabelStmt"; _fingerprintSecLabelStmt x parent field_name depth]
  | N_DeclareCursorStmt x =>
      Seq [Write "DeclareCursorStmt"; _fingerprintDeclareCursorStmt x parent field_name depth]
  | N_ClosePortalStmt x =>
      Seq [Write "ClosePortalStmt"; _fingerprintClosePortalStmt x parent field_name depth]
  | N_FetchStmt x => Seq [Write "FetchStmt"; _fingerprintFetchStmt x parent field_name depth]
  | N_IndexStmt x => Seq [Write "IndexStmt"; _fingerprintIndexStmt x parent field_name depth]
  | N_CreateStatsStmt x =>
      Seq [Write "CreateStatsStmt"; _fingerprintCreateStatsStmt x parent field_name depth]
  | N_AlterStatsStmt x =>
      Seq [Write "AlterStatsStmt"; _fingerprintAlterStatsStmt x parent field_name depth]
  | N_CreateFunctionStmt x =>
      Seq [Write "CreateFunctionStmt"; _fingerprintCreateFunctionStmt x parent field_name depth]
  | N_FunctionParameter x =>
      Seq [Write "FunctionParameter"; _fingerprintFunctionParameter x parent field_name depth]
  | N_AlterFunctionStmt x =>
      Seq [Write "AlterFunctionStmt"; _fingerprintAlterFunctionStmt x parent field_name depth]
  | N_DoStmt x => Seq [Write "DoStmt"; _fingerprintDoStmt x parent field_name depth]
  | N_CallStmt x => Seq [Write "CallStmt"; _fingerprintCallStmt x parent field_name depth]
  | N_RenameStmt x => Seq [Write "RenameStmt"; _fingerprintRenameStmt x parent field_name depth]
  | N_AlterObjectDependsStmt x =>
      Seq [Write "AlterObjectDependsStmt"; _fingerprintAlterObjectDependsStmt x parent field_name depth]
  | N_AlterObjectSchemaStmt x =>
      Seq [Write "AlterObjectSchemaStmt"; _fingerprintAlterObjectSchemaStmt x parent field_name depth]
  | N_AlterOwnerStmt x =>
      Seq [Write "AlterOwnerStmt"; _fingerprintAlterOwnerStmt x parent field_name depth]
  | N_AlterOperatorStmt x =>
      Seq [Write "AlterOperatorStmt"; _fingerprintAlterOperatorStmt x parent field_name depth]
  | N_AlterTypeStmt x =>
      Seq [Write "AlterTypeStmt"; _fingerprintAlterTypeStmt x parent field_name depth]
  | N_RuleStmt x => Seq [Write "RuleStmt"; _fingerprintRuleStmt x parent field_name depth]
  | N_NotifyStmt x => Seq [Write "NotifyStmt"; _fingerprintNotifyStmt x parent field_name depth]
  | N_ListenStmt x => Seq [Write "ListenStmt"; _fingerprintListenStmt x parent field_name depth]
  | N_UnlistenStmt x =>
      Seq [Write "UnlistenStmt"; _fingerprintUnlistenStmt x parent field_name depth]
  | N_TransactionStmt x =>
      Seq [Write "TransactionStmt"; _fingerprintTransactionStmt x parent field_name depth]
  | N_CompositeTypeStmt x =>
      Seq [Write "CompositeTypeStmt"; _fingerprintCompositeTypeStmt x parent field_name depth]
  | N_CreateEnumStmt x =>
      Seq [Write "CreateEnumStmt"; _fingerprintCreateEnumStmt x parent field_name depth]
  | N_CreateRangeStmt x =>
      Seq [Write "CreateRangeStmt"; _fingerprintCreateRangeStmt x parent field_name depth]
  | N_AlterEnumStmt x =>
      Seq [Write "AlterEnumStmt"; _fingerprintAlterEnumStmt x parent field_name depth]
  | N_ViewStmt x => Seq [Write "ViewStmt"; _fingerprintViewStmt x parent field_name depth]
  | N_LoadStmt x => Seq [Write "LoadStmt"; _fingerprintLoadStmt x parent field_name depth]
  | N_CreatedbStmt x =>
      Seq [Write "CreatedbStmt"; _fingerprintCreatedbStmt x parent field_name depth]
  | N_AlterDatabaseStmt x =>
      Seq [Write "AlterDatabaseStmt"; _fingerprintAlterDatabaseStmt x parent field_name depth]
  | N_AlterDatabaseSetStmt x =>
      Seq [Write "AlterDatabaseSetStmt"; _fingerprintAlterDatabaseSetStmt x parent field_name depth]
  | N_DropdbStmt x => Seq [Write "DropdbStmt"; _fingerprintDropdbStmt x parent field_name depth]
  | N_AlterSystemStmt x =>
      Seq [Write "AlterSystemStmt"; _fingerprintAlterSystemStmt x parent field_name depth]
  | N_ClusterStmt x => Seq [Write "ClusterStmt"; _fingerprintClusterStmt x parent field_name depth]
  | N_VacuumStmt x => Seq [Write "VacuumStmt"; _fingerprintVacuumStmt x parent field_name depth]
  | N_VacuumRelation x =>
      Seq [Write "VacuumRelation"; _fingerprintVacuumRelation x parent field_name depth]
  | N_ExplainStmt x => Seq [Write "ExplainStmt"; _fingerprintExplainStmt x parent field_name depth]
  | N_CreateTableAsStmt x =>
      Seq [Write "CreateTableAsStmt"; _fingerprintCreateTableAsStmt x parent field_name depth]
  | N_RefreshMatViewStmt x =>
      Seq [Write "RefreshMatViewStmt"; _fingerprintRefreshMatViewStmt x parent field_name depth]
  | N_CheckPointStmt x =>
      Seq [Write "CheckPointStmt"; _fingerprintCheckPointStmt x parent field_name depth]
  | N_DiscardStmt x => Seq [Write "DiscardStmt"; _fingerprintDiscardStmt x parent field_name depth]
  | N_LockStmt x => Seq [Write "LockStmt"; _fingerprintLockStmt x parent field_name depth]
  | N_ConstraintsSetStmt x =>
      Seq [Write "ConstraintsSetStmt"; _fingerprintConstraintsSetStmt x parent field_name depth]
  | N_ReindexStmt x => Seq [Write "ReindexStmt"; _fingerprintReindexStmt x parent field_name depth]
  | N_CreateConversionStmt x =>
      Seq [Write "CreateConversionStmt"; _fingerprintCreateConversionStmt x parent field_name depth]
  | N_CreateCastStmt x =>
      Seq [Write "CreateCastStmt"; _fingerprintCreateCastStmt x parent field_name depth]
  | N_CreateTransformStmt x =>
      Seq [Write "CreateTransformStmt"; _fingerprintCreateTransformStmt x parent field_name depth]
  | N_PrepareStmt x => Seq [Write "PrepareStmt"; _fingerprintPrepareStmt x parent field_name depth]
  | N_ExecuteStmt x => Seq [Write "ExecuteStmt"; _fingerprintExecuteStmt x parent field_name depth]
  | N_DeallocateStmt x =>
      Seq [Write "DeallocateStmt"; _fingerprintDeallocateStmt x parent field_name depth]
  | N_DropOwnedStmt x =>
      Seq [Write "DropOwnedStmt"; _fingerprintDropOwnedStmt x parent field_name depth]
  | N_ReassignOwnedStmt x =>
      Seq [Write "ReassignOwnedStmt"; _fingerprintReassignOwnedStmt x parent field_name depth]
  | N_AlterTSDictionaryStmt x =>
      Seq [Write "AlterTSDictionaryStmt"; _fingerprintAlterTSDictionaryStmt x parent field_name depth]
  | N_AlterTSConfigurationStmt x =>
      Seq [Write "AlterTSConfigurationStmt"; _fingerprintAlterTSConfigurationStmt x parent field_name depth]
  | N_CreatePublicationStmt x =>
      Seq [Write "CreatePublicationStmt"; _fingerprintCreatePublicationStmt x parent field_name depth]
  | N_AlterPublicationStmt x =>
      Seq [Write "AlterPublicationStmt"; _fingerprintAlterPublicationStmt x parent field_name depth]
  | N_CreateSubscriptionStmt x =>
      Seq [Write "CreateSubscriptionStmt"; _fingerprintCreateSubscriptionStmt x parent field_name depth]
  | N_AlterSubscriptionStmt x =>
      Seq [Write "AlterSubscriptionStmt"; _fingerprintAlterSubscriptionStmt x parent field_name depth]
  | N_DropSubscriptionStmt x =>
      Seq [Write "DropSubscriptionStmt"; _fingerprintDropSubscriptionStmt x parent field_name depth]
  | N_FuncExpr x => Seq [Write "FuncExpr"; _fingerprintFuncExpr x parent field_name depth]
  | N_Other tag => Outside
  end.

Definition _fingerprintNode_body (obj : Node) (parent : option Node) (field_name : option string)
    (depth : nat) : prog :=
  if (100 <=? depth)%nat then Seq [] else fingerprint_conds obj parent field_name depth.
End fingerprint.

(** ** The walk *)

Fixpoint fingerprint (e : entry) (parent : option Node) (field_name : option string) (depth : nat)
    (obj : Node) {struct obj} : prog :=
  match e with
  | F_Node => _fingerprintNode_body fingerprint obj parent field_name depth
  | F_SelectStmt =>
      match obj with
      | N_SelectStmt x => _fingerprintSelectStmt fingerprint x parent field_name depth
      | _ => Outside
      end
  end.

Definition _fingerprintNode : option Node -> option string -> nat -> Node -> prog := fingerprint F_Node.

(** The walk over a whole tree, from [ctx] on. *)
Definition fingerprint_tree {S} `{XXH3 S} (ctx : FingerprintContext S) (node : Node) :
    outcome (FingerprintContext S) :=
  exec (_fingerprintNode None None 0 node) [] ctx.

Definition pg_query_fingerprint_node {S} `{XXH3 S} (node : Node) : outcome Z :=
  let* ctx := fingerprint_tree (_fingerprintInitContext None false) node in
  Ok (XXH3_64bits_digest ctx.(xxh_state)).

(** ** The entry points that parse *)

(** [printed] is what goes to the standard output. *)
Record PgQueryFingerprintResult : Type := mkFingerprintResult {
  fingerprint_ : Z;
  fingerprint_str : option string;
  error : option PgQueryError;
  printed : string
}.

Definition DQUOTE_STR : string := String "034" "".
Definition print_tokens (tokens : list string) : string :=
  "[" +:+ joined (map (fun t => DQUOTE_STR +:+ t +:+ DQUOTE_STR +:+ ", ") tokens)
  +:+ "]" +:+ String "010" "".

Section parse.
Context {S : Type} `{XXH3 S} (raw_parser : string -> ErrorData + list Node).

Definition pg_query_fingerprint_with_opts (input : string) (printTokens : bool) :
    outcome PgQueryFingerprintResult :=
  let parsetree_and_error := pg_query_raw_parse raw_parser input in
  let error := parsetree_and_error.(parse_error) in
  match parsetree_and_error.(tree), error with
  | [], Some _ => Ok (mkFingerprintResult 0 None error "")
  | tree, _ =>
      let ctx := _fingerprintInitContext None printTokens in
      let* ctx := match tree with [] => Ok ctx | _ => fingerprint_tree ctx (N_List tree) end in
      let printed := if printTokens then print_tokens ctx.(tokens) else "" in
      let fingerprint := XXH3_64bits_digest (S := S) ctx.(xxh_state) in
      let chash := XXH64_canonicalFromHash fingerprint in
      Ok (mkFingerprintResult fingerprint (Some (joined (map fmt_02x chash))) error printed)
  end.

Definition pg_query_fingerprint (input : string) : outcome PgQueryFingerprintResult :=
  pg_query_fingerprint_with_opts input false.
End parse.
