(* ===== verification/WalkerTheorems.v ===== *)
(** * The recording of constants and the normalization of a query

    The properties of [const_record_walker] and of [pg_query_normalize] as a
    whole, with a query whose GROUP BY takes over a parameter of the target
    list. *)
From stdpp Require Import gmap.
From S2P Require Import Prelude StringInfo Quote Enums Nodes Scanner Fingerprint FingerprintDefs.
From S2P Require Import Normalize Walker WalkerProof.
From Stdlib Require Import Sorting.Sorted Sorting.Permutation.

Open Scope Z_scope.

(** ** Properties *)


(** [pg_query_fingerprint_node] as the walk uses it, with 0 for a tree outside its
    contract. *)
Definition node_fingerprint {S} `{XXH3 S} (node : option Node) : Z :=
  match pg_query_fingerprint_node (default (N_List []) node) with Ok fp => fp | _ => 0 end.




Section normalize.
Context `{Scanner Y}.
Context (qsort : (pgssLocationLen -> pgssLocationLen -> Z) -> list pgssLocationLen -> list pgssLocationLen).



End normalize.

(** ** A query *)

(** The parameter number of the first target is taken over by GROUP BY. *)
Definition walk_query : string := "SELECT a+1 FROM t WHERE b = $2 GROUP BY a+1".

Definition walk_tokens : list token :=
  [mkToken 615 0 0 6 6; mkToken 258 7 0 1 8; mkToken 43 8 0 1 9; mkToken 266 9 0 1 10;
   mkToken 400 11 0 4 15; mkToken 258 16 0 1 17; mkToken 700 18 0 5 23; mkToken 258 24 0 1 25;
   mkToken 61 26 0 1 27; mkToken 267 28 0 2 30; mkToken 410 31 0 5 36; mkToken 300 37 0 2 39;
   mkToken 258 40 0 1 41; mkToken 43 41 0 1 42; mkToken 266 42 0 1 43; mkToken 0 43 0 0 43].

Definition walk_scanner : Scanner (outcome (list token)) := list_scanner (fun _ => Ok walk_tokens).

Definition walk_column (s : string) (loc : Z) : Node :=
  N_ColumnRef (ColumnRef.mk [N_Value (String_ s)] loc).
Definition walk_op (o : string) (l r : Node) (loc : Z) : Node :=
  N_A_Expr (A_Expr.mk AEXPR_OP [N_Value (String_ o)] (Some l) (Some r) loc).
Definition walk_plus (loc : Z) : Node :=
  walk_op "+" (walk_column "a" loc) (N_A_Const (A_Const.mk (Integer 1) (loc + 2))) (loc + 1).

Definition walk_tree : list Node :=
  [N_RawStmt (RawStmt.mk (Some (N_SelectStmt (SelectStmt.mk [] None
     [N_ResTarget (ResTarget.mk None [] (Some (walk_plus 7)) 7)]
     [N_RangeVar (RangeVar.mk None None (Some "t") true "p"%char None 16)]
     (Some (walk_op "=" (walk_column "b" 24) (N_ParamRef (ParamRef.mk 2 28)) 26))
     [walk_plus 40] None [] [] [] None None LIMIT_OPTION_DEFAULT [] None SETOP_NONE false None None)))
     0 0)].

(** The fingerprint of the program, with the sample hash. *)
Definition walk_fingerprint : option Node -> Z := @node_fingerprint _ fnv_hash.

Example walk_events :
  events walk_query 43 walk_fingerprint (N_List walk_tree) = [ESelect; EConst 9; EParam 2; EConst 42].
Proof. vm_compute. reflexivity. Qed.

Example walk_normalized :
  @pg_query_normalize _ walk_scanner (fun _ => Ok walk_tree) insertion_sort walk_fingerprint walk_query =
  Ok "SELECT a+$3 FROM t WHERE b = $2 GROUP BY a+$3".
Proof. vm_compute. reflexivity. Qed.




