(* ===== verification/FingerprintExec.v ===== *)
(** * What a fingerprint is the hash of, and that running a program hashes it

    [text p] is what the program [p] writes, as a function without context, hash
    state or cache: the items of a sorted list once each, in the order of their
    hashes.  [exec_text] says that running the program writes its text, as long
    as no two different texts that are hashed on the way have the same hash;
    [digests] lists these texts. *)
From stdpp Require Import gmap sorting.
From S2P Require Import Prelude Array Qsort QsortProof Fingerprint.

Open Scope Z_scope.

(** ** Programs *)

Section prog_induction.
Variable P : prog -> Prop.
Hypothesis HWrite : forall str, P (Write str).
Hypothesis HSeq : forall ps, Forall P ps -> P (Seq ps).
Hypothesis HField : forall name p, P p -> P (Field name p).
Hypothesis HSorted : forall ps, Forall P ps -> P (SortedList ps).
Hypothesis HOutside : P Outside.

Fixpoint prog_induction (p : prog) : P p :=
  let all := fix all (ps : list prog) : Forall P ps :=
    match ps with [] => Forall_nil_2 _ | p :: ps' => Forall_cons_2 _ _ _ (prog_induction p) (all ps') end in
  match p with
  | Write str => HWrite str
  | Seq ps => HSeq ps (all ps)
  | Field name p => HField name p (prog_induction p)
  | SortedList ps => HSorted ps (all ps)
  | Outside => HOutside
  end.
End prog_induction.

(** The program at a place of another one. *)
Definition child (p : prog) (i : nat) : option prog :=
  match p with
  | Seq ps | SortedList ps => ps !! i
  | Field _ p => match i with O => Some p | _ => None end
  | _ => None
  end.

Fixpoint at_ (root : prog) (a : addr) : option prog :=
  match a with
  | [] => Some root
  | i :: a' => match at_ root a' with Some p => child p i | None => None end
  end.

Fixpoint defined (p : prog) : bool :=
  match p with
  | Write _ => true
  | Seq ps | SortedList ps => forallb defined ps
  | Field _ p => defined p
  | Outside => false
  end.

(** The loops over the parts of a program see each one at its place. *)
Lemma below_Forall2 {X} (R : X -> prog -> Prop) (f : prog -> addr -> X) (node : addr) ps : forall i,
  (forall j p, ps !! j = Some p -> R (f p ((i + j)%nat :: node)) p) ->
  Forall2 R (below f node i ps) ps.
Proof.
  induction ps as [|p ps IH]; intros i HR; cbn; constructor.
  - replace i with (i + 0)%nat by lia. by apply HR.
  - apply IH. intros j q Hj. pose proof (HR (S j) q Hj) as Hr. by replace (i + S j)%nat with (1 + i + j)%nat in Hr by lia.
Qed.

Lemma forallb_at (f : prog -> bool) ps i p : forallb f ps = true -> ps !! i = Some p -> f p = true.
Proof. intros H Hi. eapply forallb_forall in H; [done|]. apply list_elem_of_In. by eapply list_elem_of_lookup_2. Qed.

(** ** The text of a program *)

Section text.
Variable H : string -> Z.

Definition hash_le (s t : string) : Prop := H s <= H t.
#[export] Instance hash_le_dec s t : Decision (hash_le s t).
Proof. unfold hash_le. apply _. Defined.
#[export] Instance hash_le_total : Total hash_le.
Proof. intros s t. unfold hash_le. lia. Qed.
#[export] Instance hash_le_trans : Transitive hash_le.
Proof. intros s t u. unfold hash_le. lia. Qed.

Definition distinct_sorted (ts : list string) : list string := merge_sort hash_le (remove_dups ts).

Fixpoint text (p : prog) : string :=
  match p with
  | Write str => str
  | Seq ps => joined (map text ps)
  | Field name p => let t := text p in if (t =? "")%string then "" else name +:+ t
  | SortedList ps => joined (distinct_sorted (map text ps))
  | Outside => ""
  end.

(** The texts before [t] in a sorted list. *)
Definition before (t : string) (ts : list string) : list string :=
  filter (fun u => H u < H t) (distinct_sorted ts).

(** The texts whose hash [p] takes when the text [pre] has been written. *)
Fixpoint digests (p : prog) (pre : string) : list string :=
  match p with
  | Write _ => []
  | Seq ps =>
      (fix go ps pre :=
         match ps with [] => [] | p :: ps' => digests p pre ++ go ps' (pre +:+ text p) end)%list ps pre
  | Field name p => (pre +:+ name) :: (pre +:+ name +:+ text p) :: digests p (pre +:+ name)
  | SortedList ps =>
      let ts := map text ps in
      List.concat (map (fun p => text p :: digests p "" ++
        digests p (pre +:+ joined (before (text p) ts)))%list ps)
  | Outside => []
  end.

Lemma elem_of_distinct_sorted ts t : t ∈ distinct_sorted ts <-> t ∈ ts.
Proof. unfold distinct_sorted. rewrite merge_sort_Permutation. apply elem_of_remove_dups. Qed.

Lemma distinct_sorted_spec ts :
  StronglySorted hash_le (distinct_sorted ts) /\ NoDup (distinct_sorted ts).
Proof.
  split; [apply StronglySorted_merge_sort; apply _|].
  unfold distinct_sorted. rewrite merge_sort_Permutation. apply NoDup_remove_dups.
Qed.

Lemma StronglySorted_distinct (l : list string) :
  StronglySorted (fun s t => H s < H t) l -> StronglySorted hash_le l /\ NoDup l.
Proof.
  induction 1 as [|s l _ [IH1 IH2] Hs]; split; [constructor..| |]; constructor; try done.
  - eapply Forall_impl; [exact Hs|]. unfold hash_le. cbn. lia.
  - intros Hin. rewrite Forall_forall in Hs. specialize (Hs _ Hin). lia.
Qed.

(** A strictly sorted list of the same texts is the same list. *)
Lemma distinct_sorted_unique l ts :
  (forall s t, s ∈ ts -> t ∈ ts -> H s = H t -> s = t) ->
  StronglySorted (fun s t => H s < H t) l -> (forall t, t ∈ l <-> t ∈ ts) -> l = distinct_sorted ts.
Proof.
  intros Hinj [Hl Hd]%StronglySorted_distinct Hset. destruct (distinct_sorted_spec ts) as [Hs Hd'].
  apply (StronglySorted_unique_strong hash_le); [|done..|].
  - intros s t Hin1%Hset Hin2. rewrite elem_of_distinct_sorted in Hin2. unfold hash_le. intros.
    apply Hinj; [done..|]. lia.
  - apply NoDup_Permutation; [done..|]. intros t. by rewrite Hset, elem_of_distinct_sorted.
Qed.

Lemma filter_before l1 t l2 :
  StronglySorted (fun s t => H s < H t) (l1 ++ t :: l2)%list ->
  filter (fun u => H u < H t) (l1 ++ t :: l2)%list = l1.
Proof.
  induction l1 as [|s l1 IH]; [rewrite !app_nil_l|rewrite <-!app_comm_cons];
    intros [Hs Hf]%StronglySorted_inv.
  - rewrite filter_cons_False by lia. rewrite Forall_forall in Hf.
    induction l2 as [|u l2 IH2]; [done|]. rewrite filter_cons_False.
    + apply IH2; [|set_solver]. by apply StronglySorted_inv in Hs as [? _].
    + specialize (Hf u ltac:(left)). lia.
  - apply Forall_app in Hf as [_ [Hst _]%Forall_cons]. rewrite filter_cons_True by done. f_equal. by apply IH.
Qed.

(** ** The sorted items *)

(** The items of a list in order, with the positions from [pos] on. *)
Fixpoint fresh_items (pos : nat) (ps : list prog) : list FingerprintListsortItem :=
  match ps with
  | [] => []
  | p :: ps' => mkItem (H (text p)) pos :: fresh_items (1 + pos) ps'
  end.

Definition items_sorted : list FingerprintListsortItem -> Prop :=
  StronglySorted (fun a b => a.(hash) <= b.(hash)).

(** What the cache holds for a list. *)
Definition entry_ok (ps : list prog) (items : list FingerprintListsortItem) : Prop :=
  items ≡ₚ fresh_items 0 ps /\ items_sorted items.

Lemma fresh_items_length pos ps : List.length (fresh_items pos ps) = List.length ps.
Proof. revert pos. induction ps as [|p ps IH]; intros pos; cbn; [done|by rewrite IH]. Qed.

Lemma elem_of_fresh_items item ps : forall pos,
  item ∈ fresh_items pos ps <->
  exists i p, ps !! i = Some p /\ item = mkItem (H (text p)) (pos + i).
Proof.
  induction ps as [|p ps IH]; intros pos; cbn.
  { split; [by intros ?%elem_of_nil|by intros (i & p & Hi & _)]. }
  rewrite elem_of_cons, IH. split.
  - intros [-> | (i & q & Hi & ->)].
    + exists 0%nat, p. split; [done|]. f_equal. lia.
    + exists (1 + i)%nat, q. split; [done|]. f_equal. lia.
  - intros ([|i] & q & Hi & ->); [left|right].
    + injection Hi as ->. f_equal. lia.
    + exists i, q. split; [done|]. f_equal. lia.
Qed.

(** The programs the loop over the sorted items runs. *)
Fixpoint picks (ps : list prog) (prev : option Z) (items : list FingerprintListsortItem) : list prog :=
  match items with
  | [] => []
  | item :: items' =>
      if bool_decide (prev = Some item.(hash)) then picks ps (Some item.(hash)) items'
      else
        match ps !! item.(list_pos) with
        | Some p => p :: picks ps (Some item.(hash)) items'
        | None => picks ps (Some item.(hash)) items'
        end
  end.

Lemma picks_sorted ps items : items ⊆ fresh_items 0 ps -> items_sorted items -> forall prev,
  match prev with Some h => Forall (fun item => h <= item.(hash)) items | None => True end ->
  let l := map text (picks ps prev items) in
  StronglySorted (fun s t => H s < H t) l /\
  match prev with Some h => Forall (fun t => h < H t) l | None => True end /\
  (forall item, item ∈ items -> prev = Some item.(hash) \/ exists t, t ∈ l /\ H t = item.(hash)).
Proof.
  induction items as [|item items IH]; intros Hsub Hs prev Hprev; cbn.
  { split_and!; [constructor|by destruct prev|by intros ? ?%elem_of_nil]. }
  assert (Hit : item ∈ fresh_items 0 ps) by (apply Hsub; left).
  apply elem_of_fresh_items in Hit as (i & p & Hp & ->). cbn [hash list_pos Nat.add].
  apply StronglySorted_inv in Hs as [Hs Hf]. cbn in Hf.
  destruct (IH ltac:(set_solver) Hs (Some (H (text p))) Hf) as (I1 & I2 & I3).
  case_bool_decide as Hd.
  - subst prev. split_and!; [done..|]. intros item' [-> | Hin]%elem_of_cons; [by left|]. by apply I3.
  - rewrite Hp. cbn. split_and!.
    + by constructor.
    + destruct prev as [h|]; [|done]. apply Forall_cons in Hprev as [Hh _]. cbn in Hh.
      assert (h <> H (text p)) by congruence. constructor; [lia|].
      eapply Forall_impl; [exact I2|]. cbn. lia.
    + intros item' [-> | Hin]%elem_of_cons; right.
      * exists (text p). split; [left|done].
      * destruct (I3 _ Hin) as [[= E] | (t & Ht & Et)]; [exists (text p)|exists t]; split; try done;
          [left|by right].
Qed.

Lemma picks_incl ps items : forall prev p, p ∈ picks ps prev items -> p ∈ ps.
Proof.
  induction items as [|item items IH]; intros prev p; cbn; [by intros ?%elem_of_nil|].
  case_bool_decide; [by apply IH|]. destruct (ps !! list_pos item) as [q|] eqn:E; [|by apply IH].
  intros [-> | Hin]%elem_of_cons; [by eapply list_elem_of_lookup_2|by eapply IH].
Qed.

(** Without collisions the loop over the sorted items runs programs with the
    texts of the list, each once and in the order of the hashes. *)
Lemma picks_distinct ps items :
  (forall p q, p ∈ ps -> q ∈ ps -> H (text p) = H (text q) -> text p = text q) ->
  entry_ok ps items -> map text (picks ps None items) = distinct_sorted (map text ps).
Proof.
  intros Hinj [Hperm Hs].
  destruct (picks_sorted ps items ltac:(by intros ?; rewrite Hperm) Hs None I) as (HS & _ & Hall).
  apply distinct_sorted_unique; [|done|].
  - intros s t (p & -> & Hp)%list_elem_of_fmap (q & -> & Hq)%list_elem_of_fmap. by apply Hinj.
  - intros t. split; intros (p & -> & Hp)%list_elem_of_fmap.
    + apply list_elem_of_fmap_2. by eapply picks_incl.
    + apply list_elem_of_lookup in Hp as [i Hi].
      destruct (Hall (mkItem (H (text p)) i)) as [? | (t & Ht & Et)]; [|done|].
      * rewrite Hperm. apply elem_of_fresh_items. by exists i, p.
      * apply list_elem_of_fmap in Ht as (q & -> & Hq). cbn in Et.
        rewrite <-(Hinj q p); [by apply list_elem_of_fmap_2|by eapply picks_incl| |done].
        by eapply list_elem_of_lookup_2.
Qed.
End text.

(** * Running a program writes its text

    The induction that connects [exec] with [text]: the hash state has seen the
    text, the cache holds the sorted items of lists of the tree, and the tokens
    recorded are what has been hashed. *)

Open Scope Z_scope.

Lemma joined_app l1 l2 : joined (l1 ++ l2)%list = joined l1 +:+ joined l2.
Proof. induction l1 as [|s l1 IH]; cbn; [done|]. by rewrite IH, string_app_assoc. Qed.

#[export] Instance compare_items : Comparator compareFingerprintListsortItem.
Proof.
  unfold compareFingerprintListsortItem. split.
  - intros x y. repeat case_match; rewrite ?Z.ltb_lt, ?Z.ltb_ge in *; lia.
  - intros x y z. repeat case_match; rewrite ?Z.ltb_lt, ?Z.ltb_ge in *; lia.
Qed.

Lemma compare_le a b : compareFingerprintListsortItem a b <= 0 <-> a.(hash) <= b.(hash).
Proof.
  unfold compareFingerprintListsortItem. repeat case_match; rewrite ?Z.ltb_lt, ?Z.ltb_ge in *; lia.
Qed.

(** The call of [pg_qsort] returns the items in the order of their hashes. *)
Lemma sort_items (items : list FingerprintListsortItem) :
  exists items', let n := List.length items in
    pg_qsort compareFingerprintListsortItem (1 + Nat.log2 n) (1 + n) items 0 n = Ok items' /\
    items' ≡ₚ items /\ items_sorted items'.
Proof.
  destruct (pg_qsort_whole compareFingerprintListsortItem items) as (items' & E & HP & HS).
  exists items'. split; [exact E|]. split; [done|].
  clear -HS. induction HS as [|a l _ IH Ha]; constructor; [done|].
  eapply Forall_impl; [exact Ha|]. intros b. apply compare_le.
Qed.

(** ** The keys a program adds to the cache *)

Section keys.
Context {St : Type} `{XXH3 St}.
Implicit Types ctx : FingerprintContext St.

(** The keys of [c'] that are not in [c] are [a] or places below it; places
    strictly below it. *)
Definition adds (a : addr) (c c' : listsort_cache_hash) : Prop :=
  forall b, is_Some (c' !! b) -> is_Some (c !! b) \/ a `suffix_of` b.
Definition adds_below (a : addr) (c c' : listsort_cache_hash) : Prop :=
  forall b, is_Some (c' !! b) -> is_Some (c !! b) \/ exists i, (i :: a) `suffix_of` b.

Lemma adds_below_refl a c : adds_below a c c.
Proof. by left. Qed.

Lemma adds_below_trans a c1 c2 c3 : adds_below a c1 c2 -> adds_below a c2 c3 -> adds_below a c1 c3.
Proof. intros H1 H2 b [Hb | Hb]%H2; [by apply H1|by right]. Qed.

Lemma adds_child a i c c' : adds (i :: a) c c' -> adds_below a c c'.
Proof. intros Hc b [Hb | Hb]%Hc; [by left|right; by exists i]. Qed.

Lemma adds_below_adds a c c' : adds_below a c c' -> adds a c c'.
Proof. intros Hc b [Hb | (i & Hb)]%Hc; [by left|right]. etrans; [|exact Hb]. by apply suffix_cons_r. Qed.

Lemma adds_below_absent a c c' : adds_below a c c' -> c !! a = None -> c' !! a = None.
Proof.
  intros Hc Ha. apply eq_None_not_Some. intros [[x Hx] | (i & Hs)]%Hc; [congruence|].
  apply suffix_length in Hs. cbn in Hs. lia.
Qed.

Definition keys (c : fp (S := St)) (a : addr) : Prop :=
  forall ctx ctx', c ctx = Ok ctx' -> adds a ctx.(listsort_cache) ctx'.(listsort_cache).
Definition cells_keys (a : addr) (cells : list fp) : Prop := Forall (fun c => exists i, keys c (i :: a)) cells.

Lemma run_all_keys a cells : cells_keys a cells -> forall ctx ctx', run_all cells ctx = Ok ctx' ->
  adds_below a ctx.(listsort_cache) ctx'.(listsort_cache).
Proof.
  induction 1 as [|c cells (i & Hc) _ IH]; cbn [run_all]; intros ctx ctx' E; [injection E as <-; apply adds_below_refl|].
  destruct (c ctx) as [ctx1| |] eqn:E1; try done. eapply adds_below_trans; [|by apply IH].
  eapply adds_child, Hc, E1.
Qed.

Lemma hash_items_keys a cells : cells_keys a cells -> forall pos ctx items ctx',
  hash_items cells pos ctx = Ok (items, ctx') -> adds_below a ctx.(listsort_cache) ctx'.(listsort_cache).
Proof.
  induction 1 as [|c cells (i & Hc) _ IH]; cbn [hash_items]; intros pos ctx items ctx' E;
    [injection E as <- <-; apply adds_below_refl|].
  destruct (c _) as [fctx| |] eqn:E1; try done. apply Hc, adds_child in E1. cbn [obind] in E.
  destruct (hash_items _ _ _) as [[items1 ctx1]| |] eqn:E2; try done. injection E as <- <-.
  apply IH in E2. eapply adds_below_trans; [exact E1|exact E2].
Qed.

Lemma fingerprint_sorted_keys a cells : cells_keys a cells -> forall items prev ctx ctx',
  fingerprint_sorted cells prev items ctx = Ok ctx' -> adds_below a ctx.(listsort_cache) ctx'.(listsort_cache).
Proof.
  intros Hc. induction items as [|item items IH]; cbn [fingerprint_sorted]; intros prev ctx ctx' E;
    [injection E as <-; apply adds_below_refl|].
  case_bool_decide; cbn [obind] in E; [by eapply IH|].
  destruct (cells !! list_pos item) as [c|] eqn:Ec; [|done].
  destruct (c ctx) as [ctx1| |] eqn:E1; try done. cbn [obind] in E.
  unfold cells_keys in Hc. rewrite Forall_lookup in Hc. destruct (Hc _ _ Ec) as [i Hi].
  eapply adds_below_trans; [|by eapply IH]. eapply adds_child, Hi, E1.
Qed.

Lemma sorted_keys a cells : cells_keys a cells -> keys (_fingerprintList_sorted a cells) a.
Proof.
  intros Hc ctx ctx'. unfold _fingerprintList_sorted, listsort_items.
  destruct (listsort_cache ctx !! a) as [items|] eqn:Ea; cbn [obind].
  { intros E. by eapply adds_below_adds, fingerprint_sorted_keys. }
  destruct (hash_items cells 0 ctx) as [[items ctx1]| |] eqn:E1; try done. cbn [obind].
  destruct (pg_qsort _ _ _ _ _ _) as [items'| |]; try done. cbn [obind].
  destruct (listsort_cache ctx1 !! a); [done|]. cbn [obind]. intros E%(fingerprint_sorted_keys a _ Hc).
  apply (hash_items_keys a _ Hc) in E1. intros b Hb. apply E in Hb as [Hb | (i & Hb)].
  - cbn [set_cache listsort_cache] in Hb. destruct (decide (a = b)) as [<-|Hne]; [by right|]. rewrite lookup_insert_ne in Hb by done.
    by apply (adds_below_adds _ _ _ E1).
  - right. etrans; [|exact Hb]. by apply suffix_cons_r.
Qed.

Lemma below_keys a ps : (forall j p, ps !! j = Some p -> keys (exec p (j :: a)) (j :: a)) ->
  cells_keys a (below exec a 0 ps).
Proof.
  intros Hc. assert (Hb : Forall2 (fun c (_ : prog) => exists i, keys c (i :: a)) (below exec a 0 ps) ps).
  { apply below_Forall2. intros j p Hj. exists j. by apply Hc. }
  clear Hc. induction Hb; by constructor.
Qed.

(** Running the program at [a] adds keys at [a] and below. *)
Lemma exec_keys p : forall a, keys (exec p a) a.
Proof.
  induction p as [str|ps IH|name p IH|ps IH|] using prog_induction; intros a; cbn [exec].
  - intros ctx ctx' [= <-] b Hb. left. revert Hb. unfold _fingerprintString. by destruct (write_tokens _).
  - intros ctx ctx' E. eapply adds_below_adds, run_all_keys; [|exact E].
    apply below_keys. rewrite Forall_lookup in IH. intros j p Hj. by apply (IH j).
  - intros ctx ctx'. unfold fingerprint_field.
    destruct (exec p (0%nat :: a) (_fingerprintString ctx name)) as [ctx1| |] eqn:E; try done. cbn [obind].
    apply IH, adds_child, adds_below_adds in E.
    assert (E' : adds a ctx.(listsort_cache) ctx1.(listsort_cache)).
    { revert E. unfold _fingerprintString. by destruct (write_tokens _). }
    destruct (_ =? _); [|by intros [= <-]]. cbn. destruct (write_tokens ctx1); [|by intros [= <-]].
    unfold delete_last_token. cbn. destruct (tokens ctx1); [done|]. by intros [= <-].
  - apply sorted_keys, below_keys. rewrite Forall_lookup in IH. intros j p Hj. by apply (IH j).
  - done.
Qed.
End keys.

(** ** The tokens *)

Fixpoint writes_nothing (p : prog) : bool :=
  match p with
  | Write _ => false
  | Seq ps | SortedList ps => forallb writes_nothing ps
  | Field _ p => writes_nothing p
  | Outside => true
  end.

Section exec_text.
Context {St : Type} `{XXH3 St} {hash_of : Z -> string -> Z} {Laws : XXH3Laws St hash_of}.

Abbreviation hash3 := (hash_of PG_QUERY_FINGERPRINT_VERSION).
Abbreviation text := (text hash3).
Abbreviation digests := (digests hash3).
Abbreviation cell := (fp (S := St)).
Implicit Types ctx : FingerprintContext St.

(** A field takes its name back only where nothing has been written. *)
Fixpoint proper (p : prog) : Prop :=
  match p with
  | Write _ | Outside => True
  | Seq ps | SortedList ps => foldr (fun p P => proper p /\ P) True ps
  | Field name p => proper p /\ (text p = "" -> writes_nothing p = true)
  end.

Lemma proper_at ps i p : foldr (fun p P => proper p /\ P) True ps -> ps !! i = Some p -> proper p.
Proof.
  revert i. induction ps as [|q ps IH]; intros i; [done|]. intros [Hq Hps].
  destruct i as [|i]; cbn; [congruence|by apply IH].
Qed.

Lemma joined_empty l : Forall (.= "") l -> joined l = "".
Proof. by induction 1 as [|s l -> _ IH]. Qed.

Lemma silent_text p : writes_nothing p = true -> text p = "".
Proof.
  induction p as [str|ps IH|name p IH|ps IH|] using prog_induction; cbn; [done| | | |done].
  - intros Hw. apply joined_empty. induction IH as [|p ps Hp _ IHps]; cbn in *; [constructor|].
    apply andb_true_iff in Hw as [H1 H2]. constructor; auto.
  - by intros ->%IH.
  - intros Hw. apply joined_empty, List.Forall_forall. intros t Ht%list_elem_of_In.
    rewrite elem_of_distinct_sorted in Ht. apply list_elem_of_fmap in Ht as (p & -> & Hp).
    rewrite Forall_forall in IH. apply IH; [done|]. by apply list_elem_of_lookup in Hp as [i Hi%(forallb_at _ _ _ _ Hw)].
Qed.

(** ** Invariants *)

(** The hash state after the text [pre]. *)
Definition holds (s : St) (pre : string) : Prop :=
  exists l, s = foldl XXH3_64bits_update (XXH3_64bits_reset_withSeed PG_QUERY_FINGERPRINT_VERSION) l /\
    joined l = pre.

Lemma holds_digest s pre : holds s pre -> XXH3_64bits_digest s = hash3 pre.
Proof. intros (l & -> & <-). apply digest_stream. Qed.

Lemma holds_update s pre t : holds s pre -> holds (XXH3_64bits_update s t) (pre +:+ t).
Proof.
  intros (l & -> & <-). exists (l ++ [t])%list. split; [by rewrite foldl_snoc|].
  rewrite joined_app. cbn. by rewrite string_app_nil_r.
Qed.

Lemma holds_init : holds (XXH3_64bits_reset_withSeed PG_QUERY_FINGERPRINT_VERSION) "".
Proof. by exists []. Qed.

(** Every entry of the cache is that of a list of the tree. *)
Definition cache_ok (root : prog) (c : listsort_cache_hash) : Prop :=
  forall a items, c !! a = Some items -> exists ps, at_ root a = Some (SortedList ps) /\ entry_ok hash3 ps items.

Lemma cache_ok_insert root c a ps items :
  cache_ok root c -> at_ root a = Some (SortedList ps) -> entry_ok hash3 ps items -> cache_ok root (<[a := items]> c).
Proof. intros Hc Ha He b items' [[<- <-] | [_ Hb]]%lookup_insert_Some; [by exists ps|by apply Hc]. Qed.

(** The tokens a call adds. *)
Definition records ctx ctx' (t : string) (silent : Prop) : Prop :=
  ctx'.(write_tokens) = ctx.(write_tokens) /\
  (ctx.(write_tokens) = true ->
   exists new, ctx'.(tokens) = (ctx.(tokens) ++ new)%list /\ joined new = t /\ (silent -> new = [])).

Lemma records_app ctx1 ctx2 ctx3 t1 t2 (s1 s2 s : Prop) :
  records ctx1 ctx2 t1 s1 -> records ctx2 ctx3 t2 s2 -> (s -> s1 /\ s2) ->
  records ctx1 ctx3 (t1 +:+ t2) s.
Proof.
  intros [W1 R1] [W2 R2] Hs. split; [congruence|]. intros Hw.
  destruct (R1 Hw) as (n1 & T1 & <- & S1). destruct (R2 ltac:(congruence)) as (n2 & T2 & <- & S2).
  exists (n1 ++ n2)%list. rewrite T2, T1, joined_app, app_assoc. split_and!; [done..|].
  intros [->%S1 ->%S2]%Hs. done.
Qed.

Lemma records_none ctx ctx' (s : Prop) :
  ctx'.(write_tokens) = ctx.(write_tokens) -> ctx'.(tokens) = ctx.(tokens) -> records ctx ctx' "" s.
Proof. intros Hw Ht. split; [done|]. intros _. exists []. by rewrite app_nil_r. Qed.

Lemma records_mono ctx ctx' t (s s' : Prop) : records ctx ctx' t s -> (s' -> s) -> records ctx ctx' t s'.
Proof. intros [W R] Hs. split; [done|]. intros Hw. destruct (R Hw) as (new & ? & ? & Hn). exists new. auto. Qed.

(** ** What a call for a program does *)

Section root.
Variable root : prog.
(** The texts that are hashed; no two of them collide. *)
Variable D : string -> Prop.
Hypothesis D_inj : forall s t, D s -> D t -> hash3 s = hash3 t -> s = t.

Definition writes_text (c : cell) (pre t : string) (silent : Prop) : Prop :=
  forall ctx, holds ctx.(xxh_state) pre -> cache_ok root ctx.(listsort_cache) ->
  exists ctx', c ctx = Ok ctx' /\ holds ctx'.(xxh_state) (pre +:+ t) /\
    cache_ok root ctx'.(listsort_cache) /\ records ctx ctx' t silent.

Definition runs (c : cell) (p : prog) : Prop :=
  forall pre, proper p -> (forall t, t ∈ digests p pre -> D t) ->
  writes_text c pre (text p) (writes_nothing p = true).

Lemma write_text pre str : writes_text (fun ctx => Ok (_fingerprintString ctx str)) pre str False.
Proof.
  intros ctx Hst Hc. eexists. split; [done|]. unfold _fingerprintString. cbn.
  destruct (write_tokens ctx) eqn:Hw; cbn; (split; [by apply holds_update|]); split; try done.
  - split; [done|]. intros _. exists [str]. cbn. by rewrite string_app_nil_r.
  - by split; [|congruence].
Qed.

Lemma run_all_text cells ps : Forall2 runs cells ps -> forall pre, proper (Seq ps) ->
  (forall t, t ∈ digests (Seq ps) pre -> D t) ->
  writes_text (run_all cells) pre (text (Seq ps)) (writes_nothing (Seq ps) = true).
Proof.
  induction 1 as [|c p cells ps Hc _ IH]; intros pre HP HD ctx Hst Hok; cbn [run_all].
  { exists ctx. cbn. rewrite string_app_nil_r. split_and!; [done..|]. by apply records_none. }
  cbn in HD. destruct HP as [HP1 HP2].
  destruct (Hc pre HP1) with (ctx := ctx) as (ctx1 & -> & Hst1 & Hok1 & R1); [|done..|].
  { intros t Ht. apply HD. apply elem_of_app. by left. }
  cbn [obind]. destruct (IH (pre +:+ text p) HP2) with (ctx := ctx1) as (ctx2 & -> & Hst2 & Hok2 & R2); [|done..|].
  { intros t Ht. apply HD. apply elem_of_app. by right. }
  exists ctx2. split; [done|]. cbn in Hst2. rewrite <-string_app_assoc in Hst2.
  split_and!; [done..|]. eapply records_app; [exact R1|exact R2|].
  intros Hn. by apply andb_true_iff in Hn.
Qed.

(** The name is taken back. *)
Lemma field_empty ctx ctx' name pre :
  holds ctx.(xxh_state) pre -> cache_ok root ctx'.(listsort_cache) ->
  records (_fingerprintString ctx name) ctx' "" True ->
  exists ctx'', (let ctx' := set_state ctx' ctx.(xxh_state) in
      if ctx'.(write_tokens) then delete_last_token ctx' else Ok ctx') = Ok ctx'' /\
    holds ctx''.(xxh_state) (pre +:+ "") /\ cache_ok root ctx''.(listsort_cache) /\ records ctx ctx'' "" True.
Proof.
  intros Hst Hok [W R]. rewrite string_app_nil_r. unfold delete_last_token, _fingerprintString in *.
  cbn in W, R |- *. destruct (write_tokens ctx) eqn:Hw; cbn in W, R; rewrite W, Hw.
  - destruct (R Hw) as (new & Ht & _ & Hn). rewrite (Hn I), app_nil_r in Ht. rewrite Ht.
    destruct (tokens ctx ++ [name])%list eqn:E; [by destruct (tokens ctx)|]. rewrite <-E.
    eexists. split; [done|]. cbn. split_and!; [done..|]. rewrite removelast_last.
    by apply records_none; cbn; [congruence|].
  - eexists. split; [done|]. cbn. split_and!; [done..|]. split; cbn; congruence.
Qed.

Lemma field_text c p name : runs c p -> runs (fingerprint_field name c) (Field name p).
Proof.
  intros Hc pre [HP Hsil] HD ctx Hst Hok. unfold fingerprint_field. cbn in HD.
  destruct (write_text pre name ctx Hst Hok) as (ctx0 & [= <-] & Hst0 & Hok0 & R0).
  destruct (Hc (pre +:+ name) HP) with (ctx := _fingerprintString ctx name) as (ctx1 & -> & Hst1 & Hok1 & R1);
    [|done..|].
  { intros t Ht. apply HD. by do 2 right. }
  cbn [obind]. rewrite (holds_digest _ _ Hst0), (holds_digest _ _ Hst1). cbn [FingerprintExec.text].
  destruct (Z.eqb_spec (hash3 (pre +:+ name)) (hash3 ((pre +:+ name) +:+ text p))) as [E|E].
  - apply D_inj in E; [|apply HD; left|apply HD; rewrite <-string_app_assoc; right; left].
    assert (Ht : text p = "").
    { apply (string_app_inj_l (pre +:+ name)). by rewrite <-E, string_app_nil_r. }
    rewrite Ht in R1 |- *. cbn [String.eqb]. destruct (field_empty ctx ctx1 name pre) as (ctx2 & E2 & S2 & C2 & R2).
    + done.
    + done.
    + eapply records_mono; [exact R1|]. intros _. by apply Hsil.
    + exists ctx2. split_and!; [exact E2|done..|]. by eapply records_mono.
  - destruct (String.eqb_spec (text p) "") as [Ht|Ht].
    { by rewrite Ht, string_app_nil_r in E. }
    exists ctx1. split; [done|]. rewrite string_app_assoc. split_and!; [done..|].
    eapply records_app; [exact R0|exact R1|].
    intros Hn. exfalso. by apply Ht, silent_text.
Qed.

(** ** Sorted lists *)

Definition same ctx ctx' : Prop :=
  ctx'.(xxh_state) = ctx.(xxh_state) /\ ctx'.(write_tokens) = ctx.(write_tokens) /\ ctx'.(tokens) = ctx.(tokens).

Lemma hash_items_text cells ps : Forall2 runs cells ps ->
  (forall p, p ∈ ps -> proper p /\ forall t, t ∈ digests p "" -> D t) ->
  forall pos ctx, cache_ok root ctx.(listsort_cache) ->
  exists ctx', hash_items cells pos ctx = Ok (fresh_items hash3 pos ps, ctx') /\ same ctx ctx' /\
    cache_ok root ctx'.(listsort_cache).
Proof.
  induction 1 as [|c p cells ps Hc _ IH]; intros HD pos ctx Hok; cbn [hash_items fresh_items].
  { by exists ctx. }
  destruct (HD p ltac:(left)) as [HP Hp].
  destruct (Hc "" HP Hp (_fingerprintInitContext (Some ctx) false)) as (fctx & -> & Hst & Hok1 & _);
    [apply holds_init|done|]. cbn [obind].
  edestruct IH as (ctx' & -> & Hs & Hok2); [intros q Hq; apply HD; by right| |].
  2: { cbn [obind]. rewrite (holds_digest _ _ Hst). exists ctx'. split_and!; [done| |done]. exact Hs. }
  exact Hok1.
Qed.

Lemma listsort_items_text a cells ps ctx : Forall2 runs cells ps -> cells_keys a cells ->
  (forall p, p ∈ ps -> proper p /\ forall t, t ∈ digests p "" -> D t) ->
  at_ root a = Some (SortedList ps) -> cache_ok root ctx.(listsort_cache) ->
  exists items ctx', listsort_items a cells ctx = Ok (items, ctx') /\ entry_ok hash3 ps items /\
    same ctx ctx' /\ cache_ok root ctx'.(listsort_cache).
Proof.
  intros Hcells Hkeys HD Ha Hok. unfold listsort_items.
  destruct (listsort_cache ctx !! a) as [items|] eqn:E.
  { destruct (Hok a items E) as (ps' & Ha' & He). exists items, ctx. by simplify_eq. }
  destruct (hash_items_text cells ps Hcells HD 0 ctx Hok) as (ctx' & Eh & Hs & Hok'). rewrite Eh. cbn [obind].
  assert (Hnone : ctx'.(listsort_cache) !! a = None).
  { eapply adds_below_absent; [|exact E]. by eapply hash_items_keys. }
  destruct (sort_items (fresh_items hash3 0 ps)) as (items & Eq & HP & HS).
  cbn zeta in Eq. rewrite Eq. cbn [obind]. rewrite Hnone.
  assert (He : entry_ok hash3 ps items) by done.
  eexists items, _. split; [done|]. split; [done|]. split; [exact Hs|]. by eapply cache_ok_insert.
Qed.

Lemma fingerprint_sorted_text cells ps pre : Forall2 runs cells ps ->
  (forall p, p ∈ ps -> proper p /\
     forall t, t ∈ digests p (pre +:+ joined (before hash3 (text p) (map text ps))) -> D t) ->
  forall items prev written, items ⊆ fresh_items hash3 0 ps ->
  let l := map text (picks ps prev items) in
  (written ++ l)%list = distinct_sorted hash3 (map text ps) ->
  StronglySorted (fun s t => hash3 s < hash3 t) (written ++ l)%list ->
  writes_text (fingerprint_sorted cells prev items) (pre +:+ joined written) (joined l)
    (forallb writes_nothing ps = true).
Proof.
  intros Hcells HD. induction items as [|item items IH]; intros prev written Hsub l Hl Hs ctx Hst Hok.
  { exists ctx. cbn. rewrite string_app_nil_r. split_and!; [done..|]. by apply records_none. }
  subst l. cbn [fingerprint_sorted picks] in *.
  assert (Hit : item ∈ fresh_items hash3 0 ps) by (apply Hsub; left).
  apply elem_of_fresh_items in Hit as (i & p & Hp & ->). cbn [hash list_pos Nat.add] in *.
  assert (Hsub' : items ⊆ fresh_items hash3 0 ps) by (intros x Hx; apply Hsub; by right).
  case_bool_decide as Hd; cbn [obind]; [by apply IH|].
  rewrite Hp in Hl, Hs |- *. cbn [map] in Hl, Hs |- *.
  destruct (Forall2_lookup_r _ _ _ _ _ Hcells Hp) as (c & Ec & Hc).
  destruct (HD p) as [HP HDp]; [by eapply list_elem_of_lookup_2|].
  setoid_rewrite Ec.
  unfold before in HDp. rewrite <-Hl, filter_before in HDp by done.
  destruct (Hc _ HP HDp ctx Hst Hok) as (ctx1 & -> & Hst1 & Hok1 & R1). cbn [obind].
  rewrite cons_middle, app_assoc in Hl, Hs.
  edestruct (IH (Some (hash3 (text p))) (written ++ [text p])%list) with (ctx := ctx1) as (ctx2 & -> & Hst2 & Hok2 & R2);
    [done..| |done|].
  { rewrite joined_app, string_app_assoc. cbn. by rewrite string_app_nil_r. }
  exists ctx2. split; [done|]. cbn [joined].
  rewrite joined_app in Hst2. cbn [joined] in Hst2. rewrite string_app_nil_r, !string_app_assoc in Hst2.
  rewrite string_app_assoc. split_and!; [exact Hst2|done|].
  eapply records_app; [exact R1|exact R2|]. intros Hn. split; [|done]. by eapply forallb_at.
Qed.

Lemma sorted_text a cells ps : Forall2 runs cells ps -> cells_keys a cells -> at_ root a = Some (SortedList ps) ->
  runs (_fingerprintList_sorted a cells) (SortedList ps).
Proof.
  intros Hcells Hkeys Ha pre HP HD ctx Hst Hok. unfold _fingerprintList_sorted.
  assert (HPp : forall p, p ∈ ps -> proper p).
  { intros p [i Hi]%list_elem_of_lookup. by eapply proper_at. }
  assert (HDp : forall p t, p ∈ ps -> t ∈ (text p :: digests p "" ++
      digests p (pre +:+ joined (before hash3 (text p) (map text ps))))%list -> D t).
  { intros p t Hp Ht. apply HD. cbn. apply list_elem_of_In, in_concat.
    eexists. split; [apply in_map, list_elem_of_In, Hp|by apply list_elem_of_In]. }
  destruct (listsort_items_text a cells ps ctx Hcells Hkeys) as (items & ctx1 & -> & He & (S1 & W1 & T1) & Hok1); [|done..|].
  { intros p Hp. split; [by apply HPp|]. intros t Ht. apply (HDp p); [done|]. right. apply elem_of_app. by left. }
  cbn [obind]. rewrite <-S1 in Hst.
  assert (Hl : map text (picks ps None items) = distinct_sorted hash3 (map text ps)).
  { apply picks_distinct; [|done]. intros p q Hp Hq. by apply D_inj; [apply (HDp p)|apply (HDp q)]; [|left|..|left]. }
  destruct He as [Hperm Hsort].
  destruct (picks_sorted hash3 ps items ltac:(by intros ?; rewrite Hperm) Hsort None I) as (HS & _).
  destruct (fingerprint_sorted_text cells ps pre Hcells) with (items := items) (prev := @None Z) (written := @nil string)
    (ctx := ctx1) as (ctx2 & -> & Hst2 & Hok2 & R2); [|by intros ?; rewrite Hperm|done..|by rewrite string_app_nil_r|done|].
  { intros p Hp. split; [by apply HPp|]. intros t Ht. apply (HDp p); [done|]. right. apply elem_of_app. by right. }
  cbn [joined] in Hst2. rewrite string_app_nil_r, Hl in Hst2. rewrite Hl in R2.
  exists ctx2. split; [done|]. split; [exact Hst2|]. split; [done|].
  destruct R2 as [W2 R2]. split; [congruence|]. rewrite <-T1, <-W1. exact R2.
Qed.

(** Running the program at its place in the tree. *)
Lemma exec_runs p : forall a, at_ root a = Some p -> defined p = true -> runs (exec p a) p.
Proof.
  induction p as [str|ps IH|name p IH|ps IH|] using prog_induction; intros a Ha Hd; cbn [exec].
  - intros pre _ _. intros ctx Hst Hok. destruct (write_text pre str ctx Hst Hok) as (ctx' & ? & ? & ? & R).
    exists ctx'. split_and!; [done..|]. by eapply records_mono.
  - intros pre. apply run_all_text, below_Forall2. intros j p Hj. rewrite Forall_lookup in IH.
    apply (IH j p Hj); [by cbn; rewrite Ha|by eapply forallb_at].
  - apply field_text, IH; [by cbn; rewrite Ha|done].
  - apply sorted_text; [|apply below_keys; intros; apply exec_keys|done]. apply below_Forall2. intros j p Hj. rewrite Forall_lookup in IH.
    apply (IH j p Hj); [by cbn; rewrite Ha|by eapply forallb_at].
  - done.
Qed.
End root.
End exec_text.
