(* ===== verification/FingerprintCost.v ===== *)
(** * What the cache of sorted lists is good for

    Every list that is sorted is walked twice, once for the hashes of its items
    and once to write them.  As the second walk, and all later ones, find the
    lists below in the cache, the number of strings hashed is the size of the
    tree times the depth of the lists, and not exponential in this depth. *)
From stdpp Require Import gmap.
From S2P Require Import Prelude Array Qsort QsortProof Fingerprint FingerprintExec.

Open Scope nat_scope.

(** The strings in a program, and how deep sorted lists are nested in it. *)
Fixpoint size (p : prog) : nat :=
  match p with
  | Write _ => 1
  | Seq ps | SortedList ps => sum_list (map size ps)
  | Field _ p => 1 + size p
  | Outside => 0
  end.

Fixpoint nest (p : prog) : nat :=
  match p with
  | Write _ | Outside => 0
  | Seq ps => max_list (map nest ps)
  | Field _ p => nest p
  | SortedList ps => 1 + max_list (map nest ps)
  end.

(** ** Places *)

Lemma at_app root b a : at_ root (b ++ a)%list = match at_ root a with Some p => at_ p b | None => None end.
Proof.
  induction b as [|i b IH]; cbn; [by destruct (at_ root a)|]. rewrite IH. by destruct (at_ root a).
Qed.

Lemma below_lookup {X} (f : prog -> addr -> X) node ps : forall i j,
  below f node i ps !! j = (fun p => f p ((i + j) :: node)) <$> ps !! j.
Proof.
  induction ps as [|p ps IH]; intros i [|j]; cbn; [done..| |].
  - do 2 f_equal. by rewrite Nat.add_0_r.
  - rewrite IH. destruct (ps !! j); [|done]. cbn. do 3 f_equal. lia.
Qed.

(** All sorted lists of [p], which stands at [a], are in the cache. *)
Definition cached (c : listsort_cache_hash) (a : addr) (p : prog) : Prop :=
  forall b ps, at_ p b = Some (SortedList ps) -> is_Some (c !! (b ++ a)%list).

Lemma cached_child c a p i q : cached c a p -> child p i = Some q -> cached c (i :: a) q.
Proof.
  intros Hc Hi b ps Hb. rewrite (cons_middle i b a), app_assoc. apply (Hc _ ps).
  rewrite at_app. cbn. by rewrite Hi.
Qed.

Lemma cached_intro c a p :
  (forall i q, child p i = Some q -> cached c (i :: a) q) ->
  (forall ps, p = SortedList ps -> is_Some (c !! a)) -> cached c a p.
Proof.
  intros Hi Hp b ps Hb. destruct b as [|j b _] using rev_ind; [cbn in Hb; by injection Hb as ->; eapply Hp|].
  rewrite at_app in Hb. cbn in Hb. destruct (child p j) as [q|] eqn:E; [|done].
  rewrite <-app_assoc. cbn. by apply (Hi j q E b ps).
Qed.

Lemma cached_mono c c' a p : cached c a p -> c ⊆ c' -> cached c' a p.
Proof. intros Hc Hsub b ps Hb. destruct (Hc b ps Hb) as [x Hx]. exists x. by eapply lookup_weaken. Qed.

(** ** The cost of a call *)

Section cost.
Context {St : Type} `{XXH3 St}.
Variable root : prog.
Implicit Types ctx : FingerprintContext St.

Definition positions_ok (ps : list prog) (items : list FingerprintListsortItem) : Prop :=
  map list_pos items ≡ₚ seq 0 (List.length ps).

(** Every entry is that of a list of the tree, whose cells have been walked. *)
Definition cache_valid (c : listsort_cache_hash) : Prop :=
  forall a items, c !! a = Some items ->
  exists ps, at_ root a = Some (SortedList ps) /\ positions_ok ps items /\ cached c a (SortedList ps).

(** [ctx'] comes from [ctx] by at most [n] calls. *)
Definition after (n : nat) ctx ctx' : Prop :=
  ctx'.(calls) <= ctx.(calls) + n /\ ctx.(listsort_cache) ⊆ ctx'.(listsort_cache) /\
  cache_valid ctx'.(listsort_cache) /\ ctx'.(write_tokens) = ctx.(write_tokens) /\
  (ctx.(write_tokens) = true -> List.length ctx.(tokens) <= List.length ctx'.(tokens)).

Lemma after_trans n m ctx1 ctx2 ctx3 : after n ctx1 ctx2 -> after m ctx2 ctx3 -> after (n + m) ctx1 ctx3.
Proof.
  intros (C1 & S1 & V1 & W1 & T1) (C2 & S2 & V2 & W2 & T2). split; [lia|]. split; [by etrans|].
  split; [done|]. split; [congruence|]. intros Hw. specialize (T1 Hw). specialize (T2 ltac:(congruence)). lia.
Qed.

Lemma after_le n m ctx ctx' : after n ctx ctx' -> n <= m -> after m ctx ctx'.
Proof. intros (C & R) Hle. split; [lia|done]. Qed.

Lemma after_refl n ctx : cache_valid ctx.(listsort_cache) -> after n ctx ctx.
Proof. intros Hc. split; [lia|]. by split_and!. Qed.

(** A walk over [p] at [a]: it returns, with all lists of [p] in the cache; where
    they have been there before, every string is hashed at most once. *)
Definition costs (c : fp (S := St)) (p : prog) (a : addr) : Prop :=
  forall ctx, cache_valid ctx.(listsort_cache) ->
  exists ctx', c ctx = Ok ctx' /\ cached ctx'.(listsort_cache) a p /\
    after ((1 + nest p) * size p) ctx ctx' /\
    (cached ctx.(listsort_cache) a p -> after (size p) ctx ctx').

(** The cells of a list at [a], from index [i] on. *)
Definition cells_cost (a : addr) (i : nat) (ps : list prog) : Prop :=
  forall j p, ps !! j = Some p -> costs (exec p ((i + j) :: a)) p ((i + j) :: a).
Definition cells_cached (c : listsort_cache_hash) (a : addr) (i : nat) (ps : list prog) : Prop :=
  forall j p, ps !! j = Some p -> cached c ((i + j) :: a) p.

Abbreviation sizes ps := (sum_list (map size ps)).
Abbreviation nests ps := (max_list (map nest ps)).

Lemma cells_cost_cons a i p ps : cells_cost a i (p :: ps) -> costs (exec p (i :: a)) p (i :: a) /\ cells_cost a (1 + i) ps.
Proof.
  intros Hc. split; [specialize (Hc 0 p eq_refl); by rewrite Nat.add_0_r in Hc|].
  intros j q Hj. specialize (Hc (S j) q Hj). by rewrite Nat.add_succ_r in Hc.
Qed.

Lemma cells_cached_cons c a i p ps :
  cells_cached c a i (p :: ps) <-> cached c (i :: a) p /\ cells_cached c a (1 + i) ps.
Proof.
  split.
  - intros Hc. split; [specialize (Hc 0 p eq_refl); by rewrite Nat.add_0_r in Hc|].
    intros j q Hj. specialize (Hc (S j) q Hj). by rewrite Nat.add_succ_r in Hc.
  - intros [Hp Hc] [|j] q Hj; [injection Hj as <-; by rewrite Nat.add_0_r|].
    rewrite Nat.add_succ_r. by apply (Hc j).
Qed.

Lemma cells_cached_mono c c' a i ps : cells_cached c a i ps -> c ⊆ c' -> cells_cached c' a i ps.
Proof. intros Hc Hs j p Hj. eapply cached_mono; [by apply Hc|done]. Qed.

(** The bound for the cells of a list adds up. *)
Lemma cold_sum p ps :
  (1 + nest p) * size p + (1 + nests ps) * sizes ps <= (1 + nests (p :: ps)) * sizes (p :: ps).
Proof. cbn [map max_list_with sum_list sum_list_with foldr id]. unfold id. nia. Qed.

Lemma run_all_costs a ps : forall i, cells_cost a i ps ->
  forall ctx, cache_valid ctx.(listsort_cache) ->
  exists ctx', run_all (below exec a i ps) ctx = Ok ctx' /\ cells_cached ctx'.(listsort_cache) a i ps /\
    after ((1 + nests ps) * sizes ps) ctx ctx' /\
    (cells_cached ctx.(listsort_cache) a i ps -> after (sizes ps) ctx ctx').
Proof.
  induction ps as [|p ps IH]; intros i Hc ctx Hv; cbn [below run_all].
  { exists ctx. split_and!; [done|by intros j p ?|by apply after_refl|by intros; apply after_refl]. }
  apply cells_cost_cons in Hc as [Hp Hc]. destruct (Hp ctx Hv) as (ctx1 & -> & K1 & A1 & W1). cbn [obind].
  assert (Hv1 : cache_valid ctx1.(listsort_cache)) by apply A1.
  destruct (IH _ Hc ctx1 Hv1) as (ctx2 & -> & K2 & A2 & W2).
  exists ctx2. split; [done|]. split.
  { apply cells_cached_cons. split; [|done]. eapply cached_mono; [exact K1|]. apply A2. }
  split; [eapply after_le; [by eapply after_trans|apply cold_sum]|].
  intros [Q1 Q2]%cells_cached_cons. eapply (after_trans (size p)); [by apply W1|].
  apply W2. eapply cells_cached_mono; [exact Q2|]. apply A1.
Qed.

Lemma hash_items_costs a ps : forall i, cells_cost a i ps ->
  forall ctx, cache_valid ctx.(listsort_cache) ->
  exists items ctx', hash_items (below exec a i ps) i ctx = Ok (items, ctx') /\
    map list_pos items = seq i (List.length ps) /\
    cells_cached ctx'.(listsort_cache) a i ps /\ after ((1 + nests ps) * sizes ps) ctx ctx'.
Proof.
  induction ps as [|p ps IH]; intros i Hc ctx Hv; cbn [below hash_items].
  { exists [], ctx. split_and!; [done|done|by intros j p ?|by apply after_refl]. }
  apply cells_cost_cons in Hc as [Hp Hc].
  destruct (Hp (_fingerprintInitContext (Some ctx) false) Hv) as (fctx & -> & K1 & A1 & _). cbn [obind].
  set (ctx1 := set_calls (set_cache ctx fctx.(listsort_cache)) fctx.(calls)).
  assert (A1' : after ((1 + nest p) * size p) ctx ctx1).
  { destruct A1 as (C1 & S1 & V1 & _). by split_and!. }
  destruct (IH _ Hc ctx1) as (items & ctx2 & -> & Hpos & K2 & A2); [apply A1'|]. cbn [obind].
  eexists _, ctx2. split; [done|]. cbn [map list_pos seq List.length]. split; [by f_equal|]. split.
  - apply cells_cached_cons. split; [|done]. eapply cached_mono; [exact K1|]. apply A2.
  - eapply after_le; [by eapply after_trans|apply cold_sum].
Qed.

(** ** Sorted lists *)

Definition size_at (ps : list prog) (i : nat) : nat := match ps !! i with Some p => size p | None => 0 end.

Lemma size_at_all ps : sum_list (map (size_at ps) (seq 0 (List.length ps))) = sizes ps.
Proof.
  induction ps as [|p ps IH]; [done|]. cbn [List.length seq map sum_list sum_list_with foldr].
  rewrite <-seq_shift, map_map. f_equal. exact IH.
Qed.

Lemma fingerprint_sorted_costs a ps : cells_cost a 0 ps -> forall items prev ctx,
  Forall (fun item => item.(list_pos) < List.length ps) items ->
  cache_valid ctx.(listsort_cache) -> cells_cached ctx.(listsort_cache) a 0 ps ->
  exists ctx', fingerprint_sorted (below exec a 0 ps) prev items ctx = Ok ctx' /\
    after (sum_list (map (size_at ps) (map list_pos items))) ctx ctx'.
Proof.
  intros Hc. induction items as [|item items IH]; intros prev ctx Hpos Hv Hk; cbn [fingerprint_sorted].
  { exists ctx. split; [done|by apply after_refl]. }
  apply Forall_cons in Hpos as [Hlt Hpos]. cbn [map sum_list sum_list_with foldr].
  case_bool_decide; cbn [obind].
  { destruct (IH (Some (hash item)) ctx) as (ctx' & -> & A); [done..|]. exists ctx'. split; [done|].
    eapply after_le; [exact A|]. unfold id. lia. }
  apply lookup_lt_is_Some in Hlt as [p Hp].
  destruct (Hc _ p Hp ctx Hv) as (ctx1 & E1 & _ & A1 & W1).
  setoid_rewrite below_lookup. rewrite Hp. cbn [fmap option_fmap option_map]. rewrite E1. cbn [obind].
  specialize (W1 (Hk _ p Hp)).
  destruct (IH (Some (hash item)) ctx1) as (ctx2 & -> & A2); [done|apply A1| |].
  { eapply cells_cached_mono; [exact Hk|]. apply A1. }
  exists ctx2. split; [done|]. eapply after_trans; [|exact A2]. unfold size_at, id. by rewrite Hp.
Qed.

Lemma cells_cached_list c a ps :
  cached c a (SortedList ps) <-> is_Some (c !! a) /\ cells_cached c a 0 ps.
Proof.
  split.
  - intros Hc. split; [by apply (Hc [] ps)|]. intros j p Hj. by eapply cached_child.
  - intros [Ha Hc]. apply cached_intro; [exact Hc|done].
Qed.

Lemma cells_cached_seq c a ps : cached c a (Seq ps) <-> cells_cached c a 0 ps.
Proof.
  split.
  - intros Hc j p Hj. by eapply cached_child.
  - intros Hc. by apply cached_intro.
Qed.

(** The items of a list that is not in the cache are computed and entered. *)
Lemma listsort_items_costs a ps ctx : cells_cost a 0 ps -> at_ root a = Some (SortedList ps) ->
  cache_valid ctx.(listsort_cache) -> ctx.(listsort_cache) !! a = None ->
  exists items ctx', listsort_items a (below exec a 0 ps) ctx = Ok (items, ctx') /\ positions_ok ps items /\
    cached ctx'.(listsort_cache) a (SortedList ps) /\ after ((1 + nests ps) * sizes ps) ctx ctx'.
Proof.
  intros Hc Ha Hv E. unfold listsort_items. rewrite E.
  destruct (hash_items_costs a ps 0 Hc ctx Hv) as (items & ctx1 & Eh & Hpos & K & A). rewrite Eh. cbn [obind].
  assert (Hnone : ctx1.(listsort_cache) !! a = None).
  { eapply adds_below_absent; [|exact E]. eapply hash_items_keys; [|exact Eh]. apply below_keys. intros. apply exec_keys. }
  destruct (sort_items items) as (items' & Eq & HP & _). cbn zeta in Eq. rewrite Eq. cbn [obind]. rewrite Hnone.
  assert (Hok : positions_ok ps items') by (unfold positions_ok; by rewrite HP, Hpos).
  eexists _, _. split; [done|]. split; [done|].
  destruct A as (C1 & S1 & V1 & W1 & T1). cbn [set_cache listsort_cache].
  assert (Hsub : ctx1.(listsort_cache) ⊆ <[a := items']> ctx1.(listsort_cache)) by by apply insert_subseteq.
  assert (HK : cached (<[a := items']> ctx1.(listsort_cache)) a (SortedList ps)).
  { apply cells_cached_list. split; [by rewrite lookup_insert_eq|by eapply cells_cached_mono]. }
  do 2 (split; [done|]). split; [by etrans|]. split; [|done].
  intros b x. cbn [set_cache listsort_cache]. intros [[<- <-] | [_ Hb]]%lookup_insert_Some; [by exists ps|].
  destruct (V1 b x Hb) as (ps' & ? & ? & ?). exists ps'. split_and!; [done..|by eapply cached_mono].
Qed.

Lemma sorted_costs a ps : cells_cost a 0 ps -> at_ root a = Some (SortedList ps) ->
  costs (_fingerprintList_sorted a (below exec a 0 ps)) (SortedList ps) a.
Proof.
  intros Hc Ha ctx Hv. unfold _fingerprintList_sorted. cbn [size nest].
  assert (Hitems : exists items ctx1, listsort_items a (below exec a 0 ps) ctx = Ok (items, ctx1) /\
    positions_ok ps items /\ cached ctx1.(listsort_cache) a (SortedList ps) /\
    after ((1 + nests ps) * sizes ps) ctx ctx1 /\ (cached ctx.(listsort_cache) a (SortedList ps) -> ctx1 = ctx)).
  { destruct (listsort_cache ctx !! a) as [items|] eqn:E.
    - destruct (Hv a items E) as (ps' & Ha' & Hpos & K). exists items, ctx. simplify_eq.
      unfold listsort_items. rewrite E. split_and!; [done..|by apply after_refl|done].
    - destruct (listsort_items_costs a ps ctx Hc Ha Hv E) as (items & ctx1 & Eq & Hpos & K & A).
      exists items, ctx1. split_and!; [done..|]. intros [[x Hx] _]%cells_cached_list. congruence. }
  destruct Hitems as (items & ctx1 & -> & Hpos & K & A & W). cbn [obind].
  destruct (fingerprint_sorted_costs a ps Hc items None ctx1) as (ctx2 & -> & A2).
  { apply Forall_map with (P := fun i => i < List.length ps) (f := list_pos). rewrite Hpos. apply Forall_seq. lia. }
  { apply A. } { by apply cells_cached_list in K as [_ K]. }
  rewrite Hpos, size_at_all in A2. exists ctx2. split; [done|]. split.
  { eapply cached_mono; [exact K|]. apply A2. }
  split; [|by intros ->%W].
  eapply after_le; [by eapply after_trans|]. lia.
Qed.

(** ** The cost of a program *)

Lemma string_after ctx str : cache_valid ctx.(listsort_cache) -> after 1 ctx (_fingerprintString ctx str).
Proof.
  intros Hv. unfold _fingerprintString, after. cbn. destruct (write_tokens ctx) eqn:E; cbn.
  - rewrite length_app. split; [lia|]. split_and!; [done..|]. intros _. lia.
  - split; [lia|]. split_and!; [done..|congruence].
Qed.

Lemma string_tokens ctx str : write_tokens ctx = true ->
  List.length (tokens (_fingerprintString ctx str)) = 1 + List.length (tokens ctx).
Proof. intros E. unfold _fingerprintString. cbn. rewrite E. cbn. rewrite length_app. cbn. lia. Qed.

(** The end of the block of a field, whether the name is taken back or not. *)
Lemma field_end ctx ctx1 name n (b : bool) :
  cache_valid ctx.(listsort_cache) -> after n (_fingerprintString ctx name) ctx1 ->
  exists ctx', (if b then
      let ctx := set_state ctx1 (xxh_state ctx) in if write_tokens ctx then delete_last_token ctx else Ok ctx
    else Ok ctx1) = Ok ctx' /\ listsort_cache ctx' = listsort_cache ctx1 /\ after (1 + n) ctx ctx'.
Proof.
  intros Hv A. pose proof (after_trans _ _ _ _ _ (string_after ctx name Hv) A) as (C & S & V & W & T).
  destruct b; [|by exists ctx1]. cbn.
  destruct (write_tokens ctx1) eqn:E.
  - assert (Hw : write_tokens (_fingerprintString ctx name) = true) by (destruct A as (_ & _ & _ & <- & _); done).
    destruct A as (_ & _ & _ & _ & HT). specialize (HT Hw). rewrite string_tokens in HT by congruence.
    unfold delete_last_token. cbn. destruct (exists_last (l := tokens ctx1)) as (ts & t & Et).
    { intros Hn. rewrite Hn in HT. cbn in HT. lia. }
    rewrite Et in HT |- *. rewrite removelast_last. rewrite length_app in HT. cbn in HT.
    destruct (ts ++ [t])%list eqn:Ex; [by destruct ts|].
    eexists. split; [done|]. split; [done|]. split; [done|]. split_and!; cbn; [done..|congruence|lia].
  - eexists. split; [done|]. split; [done|]. split; [done|]. split_and!; cbn; [done..|congruence|congruence].
Qed.

Lemma field_costs c a p name : costs c p (0 :: a) -> costs (fingerprint_field name c) (Field name p) a.
Proof.
  intros Hc ctx Hv. unfold fingerprint_field. pose proof (string_after ctx name Hv) as A0.
  destruct (Hc (_fingerprintString ctx name)) as (ctx1 & -> & K1 & A1 & W1); [apply A0|]. cbn [obind].
  destruct (field_end ctx ctx1 name _ (XXH3_64bits_digest (xxh_state (_fingerprintString ctx name)) =?
    XXH3_64bits_digest (xxh_state ctx1))%Z Hv A1) as (ctx2 & E2 & Ec & A2).
  exists ctx2. split; [exact E2|]. split.
  { rewrite Ec. apply cached_intro; [|done]. intros [|i] q [= <-]. done. }
  cbn [nest size]. split; [eapply after_le; [exact A2|nia]|].
  intros Hk. destruct (field_end ctx ctx1 name (size p) (XXH3_64bits_digest (xxh_state (_fingerprintString ctx name)) =?
    XXH3_64bits_digest (xxh_state ctx1))%Z Hv) as (ctx3 & E3 & _ & A3).
  { apply W1. eapply cached_mono; [by eapply cached_child|]. apply A0. }
  rewrite E2 in E3. by injection E3 as <-.
Qed.

Lemma exec_costs p : forall a, at_ root a = Some p -> defined p = true -> costs (exec p a) p a.
Proof.
  induction p as [str|ps IH|name p IH|ps IH|] using prog_induction; intros a Ha Hd; cbn [exec].
  - intros ctx Hv. eexists. split; [done|]. split; [by apply cached_intro|].
    by split; [|intros _]; apply string_after.
  - assert (Hc : cells_cost a 0 ps).
    { intros j p Hj. rewrite Forall_lookup in IH. apply (IH j p Hj); [by cbn; rewrite Ha|by eapply forallb_at]. }
    intros ctx Hv. destruct (run_all_costs a ps 0 Hc ctx Hv) as (ctx' & E & K & A & W).
    exists ctx'. rewrite !cells_cached_seq. done.
  - apply field_costs, IH; [by cbn; rewrite Ha|done].
  - apply sorted_costs; [|done]. intros j p Hj. rewrite Forall_lookup in IH.
    apply (IH j p Hj); [by cbn; rewrite Ha|by eapply forallb_at].
  - done.
Qed.
End cost.
