(* ===== verification/FingerprintNodes.v ===== *)
(** * The programs of the nodes

    What the functions of [FingerprintDefs] have in common: everything that is
    written comes after the name of a field or of a kind of node, and lists of a
    depth of 100 and more are left out ([built]).  A walk does not depend on the
    constants of the tree, which parameter symbols may stand for. *)
From stdpp Require Import gmap.
From S2P Require Import Prelude Enums Nodes DeparseNames Scanner Fingerprint FingerprintDefs FingerprintExec.
From S2P Require Import FingerprintExec FingerprintCost NodesMap.

Open Scope nat_scope.

Local Set Warnings "-register-all".

(** ** The shape of the programs *)

Inductive built : nat -> prog -> Prop :=
| built_write d name ss : name <> "" -> built d (Seq (Write name :: map Write ss))
| built_seq d ps : Forall (built d) ps -> built d (Seq ps)
| built_labels d name ps : name <> "" -> Forall (built d) ps -> built d (Seq (Write name :: ps))
| built_field d name p : name <> "" -> built (1 + d) p -> built d (Field name p)
| built_list d ps : d < 100 -> Forall (built (1 + d)) ps -> built d (SortedList ps)
| built_items d ps : d < 100 -> Forall (built (1 + d)) ps -> built d (Seq ps)
| built_outside d : built d Outside.

Create HintDb built.
#[local] Hint Constructors built : built.

Lemma built_nil d : built d (Seq []).
Proof. by apply built_seq. Qed.
#[local] Hint Resolve built_nil : built.

Lemma built_label d name p : name <> "" -> built d p -> built d (Seq [Write name; p]).
Proof. intros Hn Hp. apply built_labels; [done|]. by constructor. Qed.
#[local] Hint Resolve built_label : built.

Lemma built_write1 d name s : name <> "" -> built d (Seq [Write name; Write s]).
Proof. apply (built_write d name [s]). Qed.
#[local] Hint Resolve built_write1 : built.

Lemma built_bool d name b : name <> "" -> built d (fp_bool name b).
Proof. destruct b; cbn; auto with built. Qed.
Lemma built_string d name s : name <> "" -> built d (fp_string name s).
Proof. destruct s; cbn; auto with built. Qed.
Lemma built_int d name z : name <> "" -> built d (fp_int name z).
Proof. unfold fp_int. destruct (z =? 0)%Z; auto with built. Qed.
Lemma built_uint d name z : name <> "" -> built d (fp_uint name z).
Proof. unfold fp_uint. destruct (z =? 0)%Z; auto with built. Qed.
Lemma built_char d name c : name <> "" -> built d (fp_char name c).
Proof. unfold fp_char. case_bool_decide; auto with built. Qed.
Lemma built_enum {E} d (f : E -> string) name e : name <> "" -> built d (fp_enum f name e).
Proof. unfold fp_enum. auto with built. Qed.
Lemma built_int_list d name l : name <> "" -> built d (fp_int_list name l).
Proof. destruct l; cbn; auto with built. Qed.

(** The walk over a node that is below a struct. *)
Definition walk_built (n : Node) : Prop :=
  forall e parent field_name d, built d (fingerprint e parent field_name d n).

Lemma built_node node name p d : name <> "" -> option_all Node walk_built p ->
  built d (fp_node fingerprint node name p d).
Proof. intros Hn [n Hp|]; cbn [fp_node]; auto with built. Qed.

Lemma built_SelectStmt_field node name p d : name <> "" -> option_all Node walk_built p ->
  built d (fp_SelectStmt fingerprint node name p d).
Proof. intros Hn [n Hp|]; cbn [fp_SelectStmt]; auto with built. Qed.

Lemma built_fingerprintList l parent field_name d : d < 100 -> list_all Node walk_built l ->
  built d (_fingerprintList fingerprint l parent field_name d).
Proof.
  intros Hd Hl. unfold _fingerprintList.
  assert (HF : Forall (built (1 + d)) (map (fingerprint F_Node parent field_name (1 + d)) l)).
  { induction Hl; constructor; auto. }
  destruct (sorted_field field_name); auto with built.
Qed.

Lemma built_fp_list node name l d : name <> "" -> list_all Node walk_built l ->
  built d (fp_list fingerprint node name l d).
Proof.
  intros Hn Hl. destruct l as [|n l']; cbn [fp_list]; [auto with built|].
  apply built_field; [done|]. destruct (Nat.leb_spec 100 (1 + d)); [auto with built|].
  by apply built_fingerprintList.
Qed.

Lemma built_fp_struct {A} (Q : A -> Type) f node name (p : option A) d : name <> "" ->
  (forall x, Q x -> forall parent field_name d, built d (f x parent field_name d)) ->
  option_all A Q p -> built d (fp_struct f node name p d).
Proof. intros Hn Hf [x Hx|]; cbn [fp_struct]; auto with built. Qed.

#[local] Hint Resolve built_bool built_string built_int built_uint built_char built_enum built_int_list
  built_node built_SelectStmt_field built_fp_list : built.

(** Goes over the fields of a struct. *)
Ltac built_fields :=
  cbv zeta; cbn [fst]; simpl_fields;
  apply built_seq; repeat (apply Forall_nil_2 || apply Forall_cons_2);
  solve [auto with built | eapply built_fp_struct; [done| |eassumption]; cbn beta; eauto with built].

Lemma built_Alias x parent field_name d : built d (_fingerprintAlias x parent field_name d).
Proof. apply built_nil. Qed.
#[local] Hint Resolve built_Alias : built.

Lemma built_RangeVar x parent field_name d : built d (_fingerprintRangeVar x parent field_name d).
Proof.
  destruct x. unfold _fingerprintRangeVar. simpl_fields. apply built_seq.
  repeat (apply Forall_nil_2 || apply Forall_cons_2); try solve [auto with built].
  - destruct alias; cbn [fp_struct]; auto with built.
  - destruct relname; [case_bool_decide|]; auto with built.
Qed.
#[local] Hint Resolve built_RangeVar : built.

(** Unfolds the function that is applied. *)
Ltac head t := match t with ?f _ => head f | _ => t end.
Ltac unfold_head t := let h := head t in unfold h.
Ltac unfold_struct := match goal with |- built _ ?p => unfold_head p | |- ?p = _ => unfold_head p end.

Ltac built_struct := intros [] parent field_name d; unfold_struct; built_fields.

Lemma built_TypeName x : TypeName.t_all Node walk_built x -> forall parent field_name d,
  built d (_fingerprintTypeName fingerprint x parent field_name d).
Proof. built_struct. Qed.
#[local] Hint Resolve built_TypeName : built.

Lemma built_CollateClause x : CollateClause.t_all Node walk_built x -> forall parent field_name d,
  built d (_fingerprintCollateClause fingerprint x parent field_name d).
Proof. built_struct. Qed.
#[local] Hint Resolve built_CollateClause : built.

Lemma built_WindowDef x : WindowDef.t_all Node walk_built x -> forall parent field_name d,
  built d (_fingerprintWindowDef fingerprint x parent field_name d).
Proof. built_struct. Qed.
#[local] Hint Resolve built_WindowDef : built.

Lemma built_InferClause x : InferClause.t_all Node walk_built x -> forall parent field_name d,
  built d (_fingerprintInferClause fingerprint x parent field_name d).
Proof. built_struct. Qed.
#[local] Hint Resolve built_InferClause : built.

Lemma built_WithClause x : WithClause.t_all Node walk_built x -> forall parent field_name d,
  built d (_fingerprintWithClause fingerprint x parent field_name d).
Proof. built_struct. Qed.
#[local] Hint Resolve built_WithClause : built.

Lemma built_OnConflictClause x : OnConflictClause.t_all Node walk_built x -> forall parent field_name d,
  built d (_fingerprintOnConflictClause fingerprint x parent field_name d).
Proof. built_struct. Qed.
#[local] Hint Resolve built_OnConflictClause : built.

Lemma built_IntoClause x : IntoClause.t_all Node walk_built x -> forall parent field_name d,
  built d (_fingerprintIntoClause fingerprint x parent field_name d).
Proof. built_struct. Qed.
#[local] Hint Resolve built_IntoClause : built.

Lemma built_SelectStmt x : SelectStmt.t_all Node walk_built x -> forall parent field_name d,
  built d (_fingerprintSelectStmt fingerprint x parent field_name d).
Proof. built_struct. Qed.
#[local] Hint Resolve built_SelectStmt : built.

Lemma built_RoleSpec x : RoleSpec.t_all Node walk_built x -> forall parent field_name d,
  built d (_fingerprintRoleSpec x parent field_name d).
Proof. built_struct. Qed.
#[local] Hint Resolve built_RoleSpec : built.

Lemma built_FuncCall x : FuncCall.t_all Node walk_built x -> forall parent field_name d,
  built d (_fingerprintFuncCall fingerprint x parent field_name d).
Proof. built_struct. Qed.
#[local] Hint Resolve built_FuncCall : built.

Lemma built_FuncExpr x : FuncExpr.t_all Node walk_built x -> forall parent field_name d,
  built d (_fingerprintFuncExpr fingerprint x parent field_name d).
Proof. built_struct. Qed.
#[local] Hint Resolve built_FuncExpr : built.

Lemma built_ObjectWithArgs x : ObjectWithArgs.t_all Node walk_built x -> forall parent field_name d,
  built d (_fingerprintObjectWithArgs fingerprint x parent field_name d).
Proof. built_struct. Qed.
#[local] Hint Resolve built_ObjectWithArgs : built.

Lemma built_PartitionSpec x : PartitionSpec.t_all Node walk_built x -> forall parent field_name d,
  built d (_fingerprintPartitionSpec fingerprint x parent field_name d).
Proof. built_struct. Qed.
#[local] Hint Resolve built_PartitionSpec : built.

Lemma built_PartitionBoundSpec x : PartitionBoundSpec.t_all Node walk_built x -> forall parent field_name d,
  built d (_fingerprintPartitionBoundSpec fingerprint x parent field_name d).
Proof. built_struct. Qed.
#[local] Hint Resolve built_PartitionBoundSpec : built.

Lemma built_VariableSetStmt x : VariableSetStmt.t_all Node walk_built x -> forall parent field_name d,
  built d (_fingerprintVariableSetStmt fingerprint x parent field_name d).
Proof. built_struct. Qed.
#[local] Hint Resolve built_VariableSetStmt : built.

Lemma built_GrantStmt x : GrantStmt.t_all Node walk_built x -> forall parent field_name d,
  built d (_fingerprintGrantStmt fingerprint x parent field_name d).
Proof. built_struct. Qed.
#[local] Hint Resolve built_GrantStmt : built.

Lemma built_CreateStmt x : CreateStmt.t_all Node walk_built x -> forall parent field_name d,
  built d (_fingerprintCreateStmt fingerprint x parent field_name d).
Proof. built_struct. Qed.
#[local] Hint Resolve built_CreateStmt : built.

Lemma built_ResTarget x : ResTarget.t_all Node walk_built x -> forall parent field_name d,
  built d (_fingerprintResTarget fingerprint x parent field_name d).
Proof.
  intros [] parent field_name d. unfold _fingerprintResTarget. cbv zeta. simpl_fields.
  apply built_seq. repeat (apply Forall_nil_2 || apply Forall_cons_2); auto with built.
  destruct (is_select_target parent field_name); auto with built.
Qed.
#[local] Hint Resolve built_ResTarget : built.

Lemma built_Value d v : built d (_fingerprintValue v).
Proof.
  destruct v; cbn [_fingerprintValue]; try apply built_nil; try by apply (built_write _ _ [_; _]).
  unfold _fingerprintInteger. destruct (ival =? 0)%Z; [apply built_nil|]. by apply (built_write _ _ [_; _]).
Qed.

Lemma fingerprint_built n : walk_built n.
Proof.
  revert n. apply (node_ind walk_built). intros n Hx. destruct n; cbn [children] in Hx;
    intros e parent field_name d.
  all: destruct e; cbn [fingerprint]; [|try apply built_outside; try by apply built_SelectStmt].
  all: unfold _fingerprintNode_body; destruct (Nat.leb_spec 100 d); [apply built_nil|]; cbn [fingerprint_conds].
  all: try apply built_nil; try apply built_outside.
  all: try (apply built_label; [done|]; first [solve [auto with built] | unfold_struct; destruct Hx; built_fields]).
  - destruct l; [apply built_nil|]. by apply built_fingerprintList.
  - apply built_Value.
  - destruct Hx as [arg Harg typeName Ht location]. cbn [TypeCast.arg]. destruct arg as [arg|]; [|apply built_outside].
    assert (Hb : built d (_fingerprintTypeCast fingerprint (TypeCast.mk (Some arg) typeName location) parent field_name d)).
    { unfold _fingerprintTypeCast. built_fields. }
    destruct arg; try (by apply built_label); apply built_nil.
  - apply built_label; [done|]. destruct Hx as [base Hb options Ho servername]. unfold_struct. cbv zeta. simpl_fields.
    apply built_labels; [done|].
    repeat (apply Forall_nil_2 || apply Forall_cons_2); auto with built.
Qed.

(** ** What the shape gives *)

Lemma max_list_cons (f : prog -> nat) p ps : max_list (map f (p :: ps)) = Nat.max (f p) (max_list (map f ps)).
Proof. done. Qed.

Lemma max_list_le (f : prog -> nat) ps n : Forall (fun p => f p <= n) ps -> max_list (map f ps) <= n.
Proof. induction 1; rewrite ?max_list_cons; [cbn|]; lia. Qed.

Lemma nest_writes ss : max_list (map nest (map Write ss)) = 0.
Proof. by induction ss. Qed.

(** Sorted lists are nested less than 100 deep. *)
Lemma built_nest p : forall d, built d p -> nest p <= 100 - d.
Proof.
  induction p as [str|ps IH|name p IH|ps IH|] using prog_induction; intros d Hb; inversion Hb; subst; cbn [nest]; try lia.
  - rewrite max_list_cons, nest_writes. cbn. lia.
  - apply max_list_le. rewrite Forall_forall in *. auto.
  - apply Forall_cons in IH as [_ IH]. rewrite max_list_cons. cbn [nest Nat.max].
    apply max_list_le. rewrite Forall_forall in *. auto.
  - apply max_list_le. rewrite Forall_forall in *. intros q Hq. specialize (IH q Hq (1 + d) ltac:(auto)). lia.
  - specialize (IH (1 + d) ltac:(done)). lia.
  - assert (max_list (map nest ps) <= 99 - d); [|lia].
    apply max_list_le. rewrite Forall_forall in *. intros q Hq. specialize (IH q Hq (1 + d) ltac:(auto)). lia.
Qed.

Section proper.
Context {St : Type} `{XXH3 St} {hash_of : Z -> string -> Z} {Laws : XXH3Laws St hash_of}.
Abbreviation text := (text (hash_of PG_QUERY_FINGERPRINT_VERSION)).
Abbreviation proper := (proper (hash_of := hash_of)).

Lemma joined_empty_inv l : joined l = "" -> Forall (.= "") l.
Proof. induction l as [|s l IH]; cbn; [constructor|]. intros [-> Hl]%string_app_empty_inv. constructor; auto. Qed.

Lemma distinct_sorted_empty h ts : joined (distinct_sorted h ts) = "" -> Forall (.= "") ts.
Proof.
  intros Hj%joined_empty_inv. rewrite Forall_forall in Hj |- *. intros t Ht.
  apply Hj. by apply elem_of_distinct_sorted.
Qed.

Lemma honest_list (ps : list prog) :
  Forall (fun p => proper p /\ (text p = "" -> writes_nothing p = true)) ps ->
  foldr (fun p P => proper p /\ P) True ps /\ (Forall (.= "") (map text ps) -> forallb writes_nothing ps = true).
Proof.
  induction 1 as [|p ps [H1 H2] _ [I1 I2]]; cbn; [done|]. split; [done|].
  intros [Hp Hps]%Forall_cons. by rewrite H2, I2.
Qed.

Lemma built_honest p : forall d, built d p -> proper p /\ (text p = "" -> writes_nothing p = true).
Proof.
  induction p as [str|ps IH|name p IH|ps IH|] using prog_induction; intros d Hb; inversion Hb; subst.
  - split; [|cbn; by intros [? _]%string_app_empty_inv]. clear. cbn. split; [done|]. induction ss; cbn; auto.
  - destruct (honest_list ps) as [HP HW]; [rewrite Forall_forall in *; eauto|].
    split; [done|]. intros Ht%joined_empty_inv. by apply HW.
  - apply Forall_cons in IH as [_ IH]. split; [|cbn; by intros [? _]%string_app_empty_inv].
    destruct (honest_list ps0) as [HP _]; [rewrite Forall_forall in *; eauto|]. by split.
  - destruct (honest_list ps) as [HP HW]; [rewrite Forall_forall in *; eauto|].
    split; [done|]. intros Ht%joined_empty_inv. by apply HW.
  - destruct (IH (1 + d) ltac:(done)) as [HP HW]. split; [done|]. cbn.
    destruct (String.eqb_spec (text p) "") as [E|E]; [by intros _; apply HW|]. by intros [? _]%string_app_empty_inv.
  - destruct (honest_list ps) as [HP HW]; [rewrite Forall_forall in *; eauto|].
    split; [done|]. intros Ht%distinct_sorted_empty. by apply HW.
  - done.
Qed.
End proper.

(** ** The parent of a node *)

(** A node only asks whether its parent is a SELECT. *)
Definition is_select (parent : option Node) : bool :=
  match parent with Some (N_SelectStmt _) => true | _ => false end.

Lemma is_select_target_eq parent field_name : is_select_target parent field_name =
  is_select parent && match field_name with Some f => String.eqb f "targetList" | None => false end.
Proof. by destruct parent as [[]|]. Qed.

Lemma is_select_target_parent parent parent' field_name : is_select parent = is_select parent' ->
  is_select_target parent field_name = is_select_target parent' field_name.
Proof. rewrite !is_select_target_eq. by intros ->. Qed.

Lemma fingerprint_parent n : forall e parent parent' field_name d, is_select parent = is_select parent' ->
  fingerprint e parent field_name d n = fingerprint e parent' field_name d n.
Proof.
  induction n as [n Hl] using node_ind; destruct n; cbn [children] in Hl;
    intros e parent parent' field_name d Hp; try by destruct e.
  - destruct e; [|done]. cbn [fingerprint]. unfold _fingerprintNode_body. destruct (100 <=? d); [done|].
    cbn [fingerprint_conds]. unfold _fingerprintList.
    assert (E : map (fingerprint F_Node parent field_name (1 + d)) l =
                map (fingerprint F_Node parent' field_name (1 + d)) l).
    { induction Hl as [|n Hn l' _ IH]; [done|]. cbn [map]. f_equal; [by apply Hn|done]. }
    by rewrite E.
  - destruct e; [|done]. cbn [fingerprint]. unfold _fingerprintNode_body. cbn [fingerprint_conds].
    unfold _fingerprintResTarget. by rewrite (is_select_target_parent parent parent').
Qed.

(** ** Constants *)

Section constants.
Variable g : A_Const.t Node -> Node.
Hypothesis g_literal : forall c, is_literal (g c) = true.
Variable h : Z -> Z.
Abbreviation r := (replace_constants g h).

Definition walk_same (n : Node) : Prop :=
  forall e parent field_name d, fingerprint e parent field_name d (r n) = fingerprint e parent field_name d n.

Lemma same_node node node' name p d : is_select (Some node') = is_select (Some node) -> option_all Node walk_same p ->
  fp_node fingerprint node' name (option_map r p) d = fp_node fingerprint node name p d.
Proof. intros Hn [n Hp|]; cbn; [|done]. f_equal. rewrite Hp. by apply fingerprint_parent. Qed.

Lemma same_SelectStmt node node' name p d : is_select (Some node') = is_select (Some node) ->
  option_all Node walk_same p ->
  fp_SelectStmt fingerprint node' name (option_map r p) d = fp_SelectStmt fingerprint node name p d.
Proof. intros Hn [n Hp|]; cbn; [|done]. f_equal. rewrite Hp. by apply fingerprint_parent. Qed.

Lemma same_list parent parent' l field_name d : is_select parent' = is_select parent -> list_all Node walk_same l ->
  _fingerprintList fingerprint (map r l) parent' field_name d = _fingerprintList fingerprint l parent field_name d.
Proof.
  intros Hn Hl. unfold _fingerprintList.
  assert (E : map (fingerprint F_Node parent' field_name (1 + d)) (map r l) =
              map (fingerprint F_Node parent field_name (1 + d)) l).
  { induction Hl as [|n Hp l _ IH]; [done|]. cbn [map]. f_equal; [|done]. rewrite Hp. by apply fingerprint_parent. }
  by rewrite E.
Qed.

Lemma same_fp_list node node' name l d : is_select (Some node') = is_select (Some node) -> list_all Node walk_same l ->
  fp_list fingerprint node' name (map r l) d = fp_list fingerprint node name l d.
Proof.
  intros Hn Hl. destruct l as [|n l]; [done|]. unfold fp_list. cbn [map]. f_equal.
  destruct (100 <=? 1 + d); [done|]. by apply (same_list (Some node) (Some node') (n :: l)).
Qed.

Lemma same_struct {A} (Q : A -> Type) f (rA : A -> A) node node' name (p : option A) d :
  (forall x, Q x -> forall parent parent' field_name d, f (rA x) parent' field_name d = f x parent field_name d) ->
  option_all A Q p ->
  fp_struct f node' name (option_map rA p) d = fp_struct f node name p d.
Proof. intros Hf [x Hx|]; cbn; [|done]. f_equal. by apply Hf. Qed.
Ltac same_fields :=
  cbv zeta; simpl_fields; apply f_equal;
  repeat (apply (f_equal2 cons);
    [first [reflexivity | apply same_node; done | apply same_SelectStmt; done | apply same_fp_list; done
           | eapply same_struct; [|eassumption]; cbn beta; intros; eauto with same
           | solve [auto with same]]|]);
  reflexivity.

Create HintDb same.

Lemma same_Alias x : Alias.t_all Node walk_same x -> forall parent parent' field_name d,
  _fingerprintAlias (map_Alias r h x) parent' field_name d = _fingerprintAlias x parent field_name d.
Proof. done. Qed.
#[local] Hint Resolve same_Alias : same.

Lemma same_RangeVar x : RangeVar.t_all Node walk_same x -> forall parent parent' field_name d,
  _fingerprintRangeVar (map_RangeVar r h x) parent' field_name d = _fingerprintRangeVar x parent field_name d.
Proof. intros [] parent parent' field_name d. unfold _fingerprintRangeVar, map_RangeVar. same_fields. Qed.
#[local] Hint Resolve same_RangeVar : same.

Ltac unfold_map :=
  match goal with |- context [?m (replace_constants g h) h ?y] => is_var y; unfold m end.
Ltac same_struct_fields :=
  intros Hx parent parent' field_name d; unfold_struct; try unfold_map; destruct Hx; same_fields.

Lemma same_TypeName x : TypeName.t_all Node walk_same x -> forall parent parent' field_name d,
  _fingerprintTypeName fingerprint (map_TypeName r h x) parent' field_name d =
  _fingerprintTypeName fingerprint x parent field_name d.
Proof. same_struct_fields. Qed.
#[local] Hint Resolve same_TypeName : same.

Lemma same_CollateClause x : CollateClause.t_all Node walk_same x -> forall parent parent' field_name d,
  _fingerprintCollateClause fingerprint (map_CollateClause r h x) parent' field_name d =
  _fingerprintCollateClause fingerprint x parent field_name d.
Proof. same_struct_fields. Qed.
#[local] Hint Resolve same_CollateClause : same.

Lemma same_WindowDef x : WindowDef.t_all Node walk_same x -> forall parent parent' field_name d,
  _fingerprintWindowDef fingerprint (map_WindowDef r h x) parent' field_name d =
  _fingerprintWindowDef fingerprint x parent field_name d.
Proof. same_struct_fields. Qed.
#[local] Hint Resolve same_WindowDef : same.

Lemma same_InferClause x : InferClause.t_all Node walk_same x -> forall parent parent' field_name d,
  _fingerprintInferClause fingerprint (map_InferClause r h x) parent' field_name d =
  _fingerprintInferClause fingerprint x parent field_name d.
Proof. same_struct_fields. Qed.
#[local] Hint Resolve same_InferClause : same.

Lemma same_WithClause x : WithClause.t_all Node walk_same x -> forall parent parent' field_name d,
  _fingerprintWithClause fingerprint (map_WithClause r h x) parent' field_name d =
  _fingerprintWithClause fingerprint x parent field_name d.
Proof. same_struct_fields. Qed.
#[local] Hint Resolve same_WithClause : same.

Lemma same_OnConflictClause x : OnConflictClause.t_all Node walk_same x -> forall parent parent' field_name d,
  _fingerprintOnConflictClause fingerprint (map_OnConflictClause r h x) parent' field_name d =
  _fingerprintOnConflictClause fingerprint x parent field_name d.
Proof. same_struct_fields. Qed.
#[local] Hint Resolve same_OnConflictClause : same.

Lemma same_IntoClause x : IntoClause.t_all Node walk_same x -> forall parent parent' field_name d,
  _fingerprintIntoClause fingerprint (map_IntoClause r h x) parent' field_name d =
  _fingerprintIntoClause fingerprint x parent field_name d.
Proof. same_struct_fields. Qed.
#[local] Hint Resolve same_IntoClause : same.

Lemma same_SelectStmt' x : SelectStmt.t_all Node walk_same x -> forall parent parent' field_name d,
  _fingerprintSelectStmt fingerprint (map_SelectStmt r h x) parent' field_name d =
  _fingerprintSelectStmt fingerprint x parent field_name d.
Proof. same_struct_fields. Qed.
#[local] Hint Resolve same_SelectStmt' : same.

Lemma same_RoleSpec x : RoleSpec.t_all Node walk_same x -> forall parent parent' field_name d,
  _fingerprintRoleSpec x parent' field_name d =
  _fingerprintRoleSpec x parent field_name d.
Proof. same_struct_fields. Qed.
#[local] Hint Resolve same_RoleSpec : same.

Lemma same_FuncCall x : FuncCall.t_all Node walk_same x -> forall parent parent' field_name d,
  _fingerprintFuncCall fingerprint (map_FuncCall r h x) parent' field_name d =
  _fingerprintFuncCall fingerprint x parent field_name d.
Proof. same_struct_fields. Qed.
#[local] Hint Resolve same_FuncCall : same.

Lemma same_FuncExpr x : FuncExpr.t_all Node walk_same x -> forall parent parent' field_name d,
  _fingerprintFuncExpr fingerprint (map_FuncExpr r h x) parent' field_name d =
  _fingerprintFuncExpr fingerprint x parent field_name d.
Proof. same_struct_fields. Qed.
#[local] Hint Resolve same_FuncExpr : same.

Lemma same_ObjectWithArgs x : ObjectWithArgs.t_all Node walk_same x -> forall parent parent' field_name d,
  _fingerprintObjectWithArgs fingerprint (map_ObjectWithArgs r h x) parent' field_name d =
  _fingerprintObjectWithArgs fingerprint x parent field_name d.
Proof. same_struct_fields. Qed.
#[local] Hint Resolve same_ObjectWithArgs : same.

Lemma same_PartitionSpec x : PartitionSpec.t_all Node walk_same x -> forall parent parent' field_name d,
  _fingerprintPartitionSpec fingerprint (map_PartitionSpec r h x) parent' field_name d =
  _fingerprintPartitionSpec fingerprint x parent field_name d.
Proof. same_struct_fields. Qed.
#[local] Hint Resolve same_PartitionSpec : same.

Lemma same_PartitionBoundSpec x : PartitionBoundSpec.t_all Node walk_same x -> forall parent parent' field_name d,
  _fingerprintPartitionBoundSpec fingerprint (map_PartitionBoundSpec r h x) parent' field_name d =
  _fingerprintPartitionBoundSpec fingerprint x parent field_name d.
Proof. same_struct_fields. Qed.
#[local] Hint Resolve same_PartitionBoundSpec : same.

Lemma same_VariableSetStmt x : VariableSetStmt.t_all Node walk_same x -> forall parent parent' field_name d,
  _fingerprintVariableSetStmt fingerprint (map_VariableSetStmt r h x) parent' field_name d =
  _fingerprintVariableSetStmt fingerprint x parent field_name d.
Proof. same_struct_fields. Qed.
#[local] Hint Resolve same_VariableSetStmt : same.

Lemma same_GrantStmt x : GrantStmt.t_all Node walk_same x -> forall parent parent' field_name d,
  _fingerprintGrantStmt fingerprint (map_GrantStmt r h x) parent' field_name d =
  _fingerprintGrantStmt fingerprint x parent field_name d.
Proof. same_struct_fields. Qed.
#[local] Hint Resolve same_GrantStmt : same.

Lemma same_CreateStmt x : CreateStmt.t_all Node walk_same x -> forall parent parent' field_name d,
  _fingerprintCreateStmt fingerprint (map_CreateStmt r h x) parent' field_name d =
  _fingerprintCreateStmt fingerprint x parent field_name d.
Proof. same_struct_fields. Qed.
#[local] Hint Resolve same_CreateStmt : same.

Lemma same_ResTarget x : ResTarget.t_all Node walk_same x -> forall parent field_name d,
  _fingerprintResTarget fingerprint (map_ResTarget r h x) parent field_name d =
  _fingerprintResTarget fingerprint x parent field_name d.
Proof. intros [] parent field_name d. unfold _fingerprintResTarget, map_ResTarget. same_fields. Qed.

Lemma same_TypeCast x : TypeCast.t_all Node walk_same x -> forall parent parent' field_name d,
  _fingerprintTypeCast fingerprint (map_TypeCast r h x) parent' field_name d =
  _fingerprintTypeCast fingerprint x parent field_name d.
Proof. intros [] parent parent' field_name d. unfold _fingerprintTypeCast, map_TypeCast. same_fields. Qed.

Lemma literal_same (n : Node) {A} (a b : A) :
  match r n with N_A_Const _ | N_ParamRef _ => a | _ => b end =
  match n with N_A_Const _ | N_ParamRef _ => a | _ => b end.
Proof. destruct n; try reflexivity. cbn. pose proof (g_literal x) as Hg. by destruct (g x). Qed.

Lemma literal_walk n x e parent field_name d : is_literal n = true ->
  fingerprint e parent field_name d n = fingerprint e parent field_name d (N_A_Const x).
Proof. by destruct n, e. Qed.

(** The walk over a tree with other constants, or parameter symbols, is the same. *)
Lemma fingerprint_constants n : walk_same n.
Proof.
  revert n. apply (node_ind walk_same). intros n Hx. destruct n; cbn [children] in Hx;
    intros e parent field_name d.
  all: cbn [replace_constants]; try by apply literal_walk.
  all: destruct e; cbn [fingerprint]; [|try reflexivity; try by apply same_SelectStmt'].
  all: unfold _fingerprintNode_body; destruct (100 <=? d); [reflexivity|]; cbn [fingerprint_conds].
  all: try reflexivity.
  all: try (apply f_equal, (f_equal2 cons); [reflexivity|]; apply (f_equal2 cons); [|reflexivity];
    first [solve [auto with same] | unfold_struct; try unfold_map; destruct Hx; same_fields]).
  - destruct l as [|n l]; [done|]. by apply (same_list parent parent (n :: l)).
  - pose proof (same_TypeCast x Hx parent parent field_name d) as E. rewrite E. destruct Hx as [arg _ typeName _ location].
    cbn [TypeCast.arg map_TypeCast option_map]. destruct arg as [arg|]; [|done]. apply (literal_same arg).
Qed.
End constants.
