(* ===== verification/FingerprintTheorems.v ===== *)
(** * What a fingerprint promises

    The theorems about [pg_query_fingerprint]: it is the hash of the text of the
    tree, in hexadecimal; it does not depend on the constants of the query nor on
    the order of the items of the sorted lists, or on how often one is repeated;
    and the cache keeps the number of hashed strings linear in the size of the
    tree.  A hash function with 64 bits has collisions: where one would matter
    the theorems suppose that the texts hashed for the tree at hand have none. *)
From stdpp Require Import gmap sorting.
From S2P Require Import Prelude Buffer Enums Nodes DeparseNames Parse Scanner Fingerprint FingerprintDefs FingerprintExec.
From S2P Require Import FingerprintExec FingerprintCost NodesMap FingerprintNodes.

Open Scope Z_scope.

(** ** Hexadecimal digits *)

Definition hex_digit_value (c : ascii) : Z :=
  let n := Z.of_N (N_of_ascii c) in if 97 <=? n then n - 87 else n - 48.

Fixpoint read_hex (acc : Z) (s : string) : Z :=
  match s with
  | EmptyString => acc
  | String c s' => read_hex (acc * 16 + hex_digit_value c) s'
  end.

Lemma read_hex_app s1 s2 : forall acc, read_hex acc (s1 +:+ s2) = read_hex (read_hex acc s1) s2.
Proof. induction s1 as [|c s1 IH]; intros acc; [done|]. rewrite string_app_cons. apply IH. Qed.

Lemma byte_cases (P : Z -> bool) :
  forallb (fun n => P (Z.of_nat n)) (seq 0 256) = true -> forall b, 0 <= b < 256 -> P b = true.
Proof.
  intros HP b Hb. rewrite forallb_forall in HP. rewrite <-(Z2Nat.id b) by lia. apply HP, in_seq. lia.
Qed.

Lemma fmt_02x_read b acc : 0 <= b < 256 ->
  String.length (fmt_02x b) = 2%nat /\ read_hex acc (fmt_02x b) = acc * 256 + b.
Proof.
  intros Hb.
  assert (E : (match fmt_02x b with
               | String c1 (String c2 "") => hex_digit_value c1 * 16 + hex_digit_value c2 =? b
               | _ => false end) = true).
  { revert b Hb. apply byte_cases. vm_compute. reflexivity. }
  destruct (fmt_02x b) as [|c1 [|c2 [|]]]; try done. apply Z.eqb_eq in E. cbn. lia.
Qed.

Lemma hex_text h : 0 <= h < 2 ^ 64 ->
  let s := joined (map fmt_02x (map (fun i => h / 256 ^ (7 - Z.of_nat i) mod 256) (seq 0 8))) in
  String.length s = 16%nat /\ read_hex 0 s = h.
Proof.
  intros Hh s. subst s. cbn [seq map].
  repeat match goal with |- context [fmt_02x (?a mod 256)] =>
    let b := fresh "b" in let E := fresh "E" in
    remember (a mod 256) as b eqn:E; assert (0 <= b < 256) by (rewrite E; apply Z.mod_pos_bound; lia) end.
  cbn [joined]. rewrite !string_length_app, !read_hex_app.
  repeat match goal with Hb : 0 <= ?b < 256 |- _ => rewrite (proj1 (fmt_02x_read b 0 Hb)) end.
  split; [done|].
  repeat match goal with |- context [read_hex ?acc (fmt_02x ?b)] =>
    rewrite (proj2 (fmt_02x_read b acc ltac:(assumption))) end.
  cbn [read_hex]. subst. cbn. Z.div_mod_to_equations. lia.
Qed.

(** ** The walk over a tree *)

(** The program of a tree. *)
Definition program (n : Node) : prog := _fingerprintNode None None 0 n.

(** [t] is hashed in the walk over one of the trees [ns]. *)
Definition hashed_for (h : string -> Z) (ns : list Node) (t : string) : Prop :=
  exists n, n ∈ ns /\ t ∈ digests h (program n) "".

Definition collision_free (h : string -> Z) (ns : list Node) : Prop :=
  forall s t, hashed_for h ns s -> hashed_for h ns t -> h s = h t -> s = t.

Definition collision_free_check (h : string -> Z) (ns : list Node) : bool :=
  let texts := remove_dups (List.concat (map (fun n => digests h (program n) "") ns)) in
  bool_decide (NoDup (map h texts)).

Lemma collision_free_checked h ns : collision_free_check h ns = true -> collision_free h ns.
Proof.
  unfold collision_free_check, collision_free. set (texts := List.concat _).
  assert (Hin : forall t, hashed_for h ns t -> exists i, remove_dups texts !! i = Some t).
  { intros t (n & Hn & Ht). apply list_elem_of_lookup, elem_of_remove_dups, list_elem_of_In, in_concat.
    eexists. split; [apply in_map, list_elem_of_In, Hn|by apply list_elem_of_In]. }
  intros Hd%bool_decide_eq_true s t [i Hi]%Hin [j Hj]%Hin E.
  assert (i = j); [|congruence].
  eapply NoDup_lookup; [exact Hd| |]; rewrite list_lookup_fmap; [by rewrite Hi|by rewrite Hj; cbn; rewrite E].
Qed.

Lemma collision_free_incl h ns ns' : collision_free h ns -> ns' ⊆ ns -> collision_free h ns'.
Proof.
  intros Hc Hs s t (n & Hn & ?) (m & Hm & ?). apply Hc; [exists n|exists m]; auto.
Qed.

Section theorems.
Context {St : Type} `{XXH3 St} {hash_of : Z -> string -> Z} {Laws : XXH3Laws St hash_of}.
Abbreviation hash3 := (hash_of PG_QUERY_FINGERPRINT_VERSION).
Abbreviation text := (text hash3).

Lemma tree_runs n w : defined (program n) = true -> collision_free hash3 [n] ->
  exists ctx, fingerprint_tree (_fingerprintInitContext None w) n = Ok ctx /\
    XXH3_64bits_digest (S := St) ctx.(xxh_state) = hash3 (text (program n)) /\
    (w = true -> joined ctx.(tokens) = text (program n)).
Proof.
  intros Hd Hc. set (p := program n). fold p in Hd.
  assert (Hp : proper (hash_of := hash_of) p) by (eapply built_honest, fingerprint_built).
  destruct (exec_runs p (fun t => t ∈ digests hash3 p "")) with (p := p) (a := @nil nat) (pre := "")
    (ctx := @_fingerprintInitContext St _ None w) as (ctx & E & Hst & _ & W & R); [|done..| | |].
  - intros s t Hs Ht. apply Hc; exists n; by split; [left|].
  - apply holds_init.
  - intros a items. cbn. by rewrite lookup_empty.
  - exists ctx. split; [exact E|]. split; [by apply holds_digest|].
    intros ->. destruct (R eq_refl) as (new & -> & <- & _). done.
Qed.

(** ** The entry points *)

(** C11. [pg_query_fingerprint_with_opts] on a query that parses: it returns; the
    fingerprint is the hash of the text of the tree, with the sorted lists as sets;
    [fingerprint_str] is this number in sixteen hexadecimal digits; the tokens
    printed on request are the text in pieces.  The walk stays within its contract,
    although the state is saved and restored around every field and the items of a
    list come out of a cache that nested contexts share. *)
Theorem pg_query_fingerprint_correct raw_parser input tree printTokens
    (Hparse : raw_parser input = inr tree) (Htree : tree <> [])
    (Hdefined : defined (program (N_List tree)) = true)
    (Hfree : collision_free hash3 [N_List tree]) :
  let h := hash3 (text (program (N_List tree))) in
  exists hex tokens,
    pg_query_fingerprint_with_opts raw_parser input printTokens =
      Ok (mkFingerprintResult h (Some hex) None (if printTokens then print_tokens tokens else "")) /\
    String.length hex = 16%nat /\ read_hex 0 hex = h /\
    (printTokens = true -> joined tokens = text (program (N_List tree))).
Proof.
  intros h. destruct (tree_runs (N_List tree) printTokens Hdefined Hfree) as (ctx & E & Ed & Et).
  unfold pg_query_fingerprint_with_opts, pg_query_raw_parse. rewrite Hparse. cbn [Parse.tree parse_error].
  destruct tree as [|n l]; [done|]. rewrite E. cbn [obind]. rewrite Ed. fold h.
  pose proof (hash_range PG_QUERY_FINGERPRINT_VERSION (text (program (N_List (n :: l))))) as Hr. fold h in Hr.
  rewrite canonical_big_endian by done. destruct (hex_text h Hr) as [Hlen Hread].
  eexists _, ctx.(tokens). split; [reflexivity|]. split; [exact Hlen|]. split; [exact Hread|exact Et].
Qed.

(** C13. A query whose tree differs from that of another one in its constants, some
    or all of which may be parameter symbols, and in its positions only has the
    same fingerprint, whatever the hash function is. *)
Theorem fingerprint_ignores_constants raw_parser (g : A_Const.t Node -> Node) (h : Z -> Z) input input' tree
    printTokens (Hg : forall c, is_literal (g c) = true)
    (Hparse : raw_parser input = inr tree) (Hparse' : raw_parser input' = inr (map (replace_constants g h) tree)) :
  pg_query_fingerprint_with_opts (S := St) raw_parser input' printTokens =
  pg_query_fingerprint_with_opts raw_parser input printTokens.
Proof.
  unfold pg_query_fingerprint_with_opts, pg_query_raw_parse. rewrite Hparse, Hparse'. cbn [Parse.tree parse_error].
  destruct tree as [|n l]; [done|]. cbn [map].
  pose proof (fingerprint_constants g Hg h (N_List (n :: l)) F_Node None None 0%nat) as E. cbn [replace_constants map] in E.
  unfold fingerprint_tree, _fingerprintNode. by rewrite E.
Qed.

(** C14. The cost of a fingerprint: for every tree and every hash function, with or
    without collisions, the walk ends, and [_fingerprintString] is called at most
    101 times for each string of the tree, the walks that hash the items of a list
    included: the nesting of sorted lists, at most 100 deep, multiplies the cost
    and does not double it at every level. *)
Theorem fingerprint_cost (n : Node) w (Hdefined : defined (program n) = true) :
  exists ctx, fingerprint_tree (S := St) (_fingerprintInitContext None w) n = Ok ctx /\
    (ctx.(calls) <= 101 * size (program n))%nat.
Proof.
  destruct (exec_costs (program n) (program n) []) with (ctx := @_fingerprintInitContext St _ None w)
    as (ctx & E & _ & A & _); [done..| |].
  { intros a items. cbn. by rewrite lookup_empty. }
  exists ctx. split; [exact E|]. destruct A as (C & _). cbn [_fingerprintInitContext calls] in C.
  pose proof (built_nest _ _ (fingerprint_built n F_Node None None 0%nat)) as Hn. change (nest (program n) <= 100 - 0)%nat in Hn.
  etrans; [exact C|]. rewrite Nat.add_0_l. apply Nat.mul_le_mono_r. lia.
Qed.

(** ** Lists as sets *)

Definition same_elements {A} (l1 l2 : list A) : Prop := forall x, x ∈ l1 <-> x ∈ l2.

Lemma same_elements_map {A B} (f : A -> B) l1 l2 : same_elements l1 l2 -> same_elements (map f l1) (map f l2).
Proof.
  intros Hs y. split; intros (x & -> & Hx)%list_elem_of_fmap; apply list_elem_of_fmap_2; by apply Hs.
Qed.

Lemma distinct_sorted_ext ts1 ts2 :
  (forall s t, s ∈ ts1 -> t ∈ ts1 -> hash3 s = hash3 t -> s = t) -> same_elements ts1 ts2 ->
  distinct_sorted hash3 ts1 = distinct_sorted hash3 ts2.
Proof.
  intros Hinj Hs. destruct (distinct_sorted_spec hash3 ts1) as [S1 D1], (distinct_sorted_spec hash3 ts2) as [S2 D2].
  apply (StronglySorted_unique_strong (hash_le hash3)); [|done..|].
  - intros s t Hin1 Hin2. rewrite elem_of_distinct_sorted in Hin1, Hin2. unfold hash_le. intros.
    apply Hinj; [done|by apply Hs|lia].
  - apply NoDup_Permutation; [done..|]. intros t. rewrite !elem_of_distinct_sorted. apply Hs.
Qed.

(** Trees that differ in their constants and positions only are written alike. *)
Lemma fingerprint_without n e parent field_name d :
  fingerprint e parent field_name d (without_constants n) = fingerprint e parent field_name d n.
Proof. by apply fingerprint_constants. Qed.

(** What is written for a field with a sorted list. *)
Definition list_texts (parent : option Node) (name : string) (l : list Node) : list string :=
  map (fun n => text (fingerprint F_Node parent (Some name) 2 n)) l.

Lemma list_texts_without parent name l : list_texts parent name (map without_constants l) = list_texts parent name l.
Proof. unfold list_texts. rewrite map_map. apply map_ext. intros n. by rewrite fingerprint_without. Qed.

(** The same items, constants and positions aside. *)
Definition same_items (l1 l2 : list Node) : Prop :=
  same_elements (map without_constants l1) (map without_constants l2).

Lemma fp_list_set node node' name l1 l2 : sorted_field (Some name) = true ->
  is_select (Some node') = is_select (Some node) -> same_items l1 l2 ->
  (forall s t, s ∈ list_texts (Some node) name l1 -> t ∈ list_texts (Some node) name l1 ->
     hash3 s = hash3 t -> s = t) ->
  text (fp_list fingerprint node name l1 0) = text (fp_list fingerprint node' name l2 0).
Proof.
  intros Hname Hp Hs Hinj.
  assert (E : distinct_sorted hash3 (list_texts (Some node) name l1) =
              distinct_sorted hash3 (list_texts (Some node') name l2)).
  { rewrite distinct_sorted_ext with (ts2 := list_texts (Some node) name l2); [|done|].
    - unfold list_texts. f_equal. apply map_ext. intros n.
      by rewrite (fingerprint_parent n F_Node (Some node) (Some node')).
    - rewrite <-(list_texts_without _ _ l1), <-(list_texts_without _ _ l2). by apply same_elements_map. }
  assert (Ht : forall nd l, l <> [] -> text (fp_list fingerprint nd name l 0) =
    (let t := joined (distinct_sorted hash3 (list_texts (Some nd) name l)) in if (t =? "")%string then "" else name +:+ t)).
  { intros nd l Hl. destruct l as [|n l]; [done|]. unfold fp_list, _fingerprintList. rewrite Hname.
    cbn [Nat.leb Nat.add FingerprintExec.text]. by rewrite !map_map. }
  destruct l1 as [|n1 l1], l2 as [|n2 l2]; [done| | |].
  - exfalso. eapply elem_of_nil, Hs. left.
  - exfalso. eapply elem_of_nil, Hs. left.
  - rewrite !Ht by done. by rewrite E.
Qed.

Lemma digests_part ps p : p ∈ ps -> forall pre, exists pre', digests hash3 p pre' ⊆ digests hash3 (Seq ps) pre.
Proof.
  induction 1 as [p ps|p q ps _ IH]; intros pre.
  - exists pre. intros t Ht. apply elem_of_app. by left.
  - destruct (IH (pre +:+ text q)) as [pre' Hp]. exists pre'. intros t Ht. apply elem_of_app. right. by apply Hp.
Qed.

(** The texts of the items of a sorted list are hashed. *)
Lemma list_texts_hashed node name l t pre : sorted_field (Some name) = true ->
  t ∈ list_texts (Some node) name l -> t ∈ digests hash3 (fp_list fingerprint node name l 0) pre.
Proof.
  intros Hname Ht. destruct l as [|n l]; [by apply elem_of_nil in Ht|].
  unfold fp_list, _fingerprintList. rewrite Hname. cbn [Nat.leb Nat.add digests].
  do 2 right. apply list_elem_of_In, in_concat.
  apply list_elem_of_fmap in Ht as (m & -> & Hm).
  eexists. split; [apply in_map, in_map, list_elem_of_In, Hm|]. by left.
Qed.

(** The SELECT [x] with other lists. *)
Definition with_lists (x : SelectStmt.t Node) (from targets values : list Node) : SelectStmt.t Node :=
  SelectStmt.mk x.(SelectStmt.distinctClause) x.(SelectStmt.intoClause) targets from
    x.(SelectStmt.whereClause) x.(SelectStmt.groupClause) x.(SelectStmt.havingClause)
    x.(SelectStmt.windowClause) values x.(SelectStmt.sortClause) x.(SelectStmt.limitOffset)
    x.(SelectStmt.limitCount) x.(SelectStmt.limitOption) x.(SelectStmt.lockingClause)
    x.(SelectStmt.withClause) x.(SelectStmt.op) x.(SelectStmt.all) x.(SelectStmt.larg) x.(SelectStmt.rarg).

Lemma fp_node_parent node node' name p d : is_select (Some node) = is_select (Some node') ->
  fp_node fingerprint node name p d = fp_node fingerprint node' name p d.
Proof. intros Hp. destruct p; [|done]. cbn. f_equal. by apply fingerprint_parent. Qed.

Lemma fp_SelectStmt_parent node node' name p d : is_select (Some node) = is_select (Some node') ->
  fp_SelectStmt fingerprint node name p d = fp_SelectStmt fingerprint node' name p d.
Proof. intros Hp. destruct p; [|done]. cbn. f_equal. by apply fingerprint_parent. Qed.

Lemma fp_list_parent node node' name l d : is_select (Some node) = is_select (Some node') ->
  fp_list fingerprint node name l d = fp_list fingerprint node' name l d.
Proof.
  intros Hp. destruct l as [|n l]; [done|]. unfold fp_list, _fingerprintList.
  rewrite (map_ext (fingerprint F_Node (Some node) (Some name) (1 + (1 + d)))
    (fingerprint F_Node (Some node') (Some name) (1 + (1 + d)))); [done|].
  intros m. by apply fingerprint_parent.
Qed.

Section lists.
Variables (x1 x2 : SelectStmt.t Node) (f1 f2 t1 t2 v1 v2 : list Node).
Abbreviation n1 := (N_SelectStmt (with_lists x1 f1 t1 v1)).
Abbreviation n2 := (N_SelectStmt (with_lists x2 f2 t2 v2)).

(** The two statements without the three lists. *)
Abbreviation m1 := (N_SelectStmt (with_lists x1 [] [] [])).
Abbreviation m2 := (N_SelectStmt (with_lists x2 [] [] [])).

Definition select_fields (n : Node) : list prog :=
  match program n with Seq [_; Seq ps] => ps | _ => [] end.

Lemma select_list i name l l' : collision_free hash3 [n1] ->
  select_fields n1 !! i = Some (fp_list fingerprint n1 name l 0) -> sorted_field (Some name) = true ->
  same_items l l' ->
  text (fp_list fingerprint n1 name l 0) = text (fp_list fingerprint n2 name l' 0).
Proof.
  intros Hfree Hi Hname Hs. apply fp_list_set; [done..|].
  assert (Hin : forall s, s ∈ list_texts (Some n1) name l -> hashed_for hash3 [n1] s).
  { intros s Hs1. exists n1. split; [left|]. apply list_elem_of_lookup_2 in Hi.
    destruct (digests_part _ _ Hi "SelectStmt") as [pre' Hsub].
    change (s ∈ (digests hash3 (Seq (select_fields n1)) "SelectStmt" ++ [])%list).
    rewrite app_nil_r. apply Hsub. by apply list_texts_hashed. }
  intros s t Hs1 Ht1. by apply Hfree; apply Hin.
Qed.

Lemma select_rest : without_constants m1 = without_constants m2 -> select_fields m1 = select_fields m2.
Proof.
  intros E. unfold select_fields, program. change _fingerprintNode with (fingerprint F_Node).
  by rewrite <-(fingerprint_without m1), <-(fingerprint_without m2), E.
Qed.

Lemma select_text : same_items f1 f2 -> same_items t1 t2 -> same_items v1 v2 ->
  without_constants m1 = without_constants m2 ->
  collision_free hash3 [n1] -> text (program n1) = text (program n2).
Proof.
  intros Hf Ht Hv Hrest%select_rest Hfree.
  assert (E : map text (select_fields n1) = map text (select_fields n2)).
  { pose proof (select_list 2 "fromClause" f1 f2 Hfree eq_refl eq_refl Hf) as Ef.
    pose proof (select_list 14 "targetList" t1 t2 Hfree eq_refl eq_refl Ht) as Et.
    pose proof (select_list 15 "valuesLists" v1 v2 Hfree eq_refl eq_refl Hv) as Ev.
    cbn -[FingerprintExec.text fp_list fp_node fp_SelectStmt fp_struct fp_bool fp_enum] in Hrest |- *.
    injection Hrest. intros.
    repeat (apply (f_equal2 cons); [first [done | f_equal; first
      [ assumption | unfold fp_enum; congruence
      | rewrite (fp_list_parent n1 m1), (fp_list_parent n2 m2) by done; assumption
      | rewrite (fp_node_parent n1 m1), (fp_node_parent n2 m2) by done; assumption
      | rewrite (fp_SelectStmt_parent n1 m1), (fp_SelectStmt_parent n2 m2) by done; assumption ]]|]).
    done. }
  change (text (program n1)) with ("SelectStmt" +:+ joined (map text (select_fields n1)) +:+ "").
  by rewrite E.
Qed.

(** C12. The fingerprint of a SELECT depends on the relations of its FROM clause, on
    its targets and on its rows of VALUES as sets: neither their order nor how
    often one is repeated matters, in any of the fields, if the two statements
    are otherwise the same, up to constants and positions, as long as no two
    texts hashed for the two queries have the same hash. *)
Theorem fingerprint_lists_as_sets
    (Hf : same_items f1 f2) (Ht : same_items t1 t2) (Hv : same_items v1 v2)
    (Hrest : without_constants m1 = without_constants m2)
    (Hdef1 : defined (program n1) = true) (Hdef2 : defined (program n2) = true)
    (Hfree : collision_free hash3 [n1; n2]) :
  pg_query_fingerprint_node (S := St) n1 = pg_query_fingerprint_node n2.
Proof.
  assert (H1 : collision_free hash3 [n1]).
  { eapply collision_free_incl; [exact Hfree|]. intros n [-> | ?%elem_of_nil]%elem_of_cons; [left|done]. }
  assert (H2 : collision_free hash3 [n2]).
  { eapply collision_free_incl; [exact Hfree|]. intros n Hn. by right. }
  destruct (tree_runs n1 false Hdef1 H1) as (ctx1 & E1 & D1 & _).
  destruct (tree_runs n2 false Hdef2 H2) as (ctx2 & E2 & D2 & _).
  unfold pg_query_fingerprint_node. rewrite E1, E2. cbn [obind]. rewrite D1, D2. by rewrite select_text.
Qed.
End lists.
End theorems.

(** ** A hash function and sample trees *)

#[local] Existing Instance fnv_hash.
#[local] Existing Instance fnv_laws.

Definition str_ (s : string) : Node := N_Value (String_ s).
Definition column_ (s : string) : Node := N_ColumnRef (ColumnRef.mk [str_ s] 0).
Definition number_ (z : Z) : Node := N_A_Const (A_Const.mk (Integer z) 0).
Definition res_ (n : Node) : Node := N_ResTarget (ResTarget.mk (Some "r") [] (Some n) 0).
Definition relation_ (s : string) : Node :=
  N_RangeVar (RangeVar.mk None None (Some s) true "p"%char None 0).
Definition in_ (e : Node) (l : list Node) : Node :=
  N_A_Expr (A_Expr.mk AEXPR_IN [str_ "="] (Some e) (Some (N_List l)) 0).
Definition sample_ (targets from : list Node) (where_ : option Node) : SelectStmt.t Node :=
  SelectStmt.mk [] None targets from where_ [] None [] [] [] None None LIMIT_OPTION_DEFAULT [] None
    SETOP_NONE false None None.
Definition raw_ (x : SelectStmt.t Node) : list Node := [N_RawStmt (RawStmt.mk (Some (N_SelectStmt x)) 0 0)].

(** The text of [SELECT 1]; its hash with XXH3 and the seed 3 is 50fde20626009aba,
    what [test/fingerprint.c] expects for this query. *)
Example text_select_1 :
  text (fnv 3) (program (N_List (raw_ (sample_ [res_ (number_ 1)] [] None)))) =
  "RawStmtstmtSelectStmtlimitOptionLIMIT_OPTION_DEFAULTopSETOP_NONEtargetListResTarget".
Proof. vm_compute. reflexivity. Qed.

(** [SELECT * FROM x WHERE y IN (1, 2)], with the hash 4ff39426bd074231. *)
Example text_select_in :
  text (fnv 3) (program (N_List (raw_ (sample_ [res_ (N_ColumnRef (ColumnRef.mk [N_A_Star A_Star.mk] 0))]
    [relation_ "x"] (Some (in_ (column_ "y") [number_ 1; number_ 2])))))) =
  "RawStmtstmtSelectStmtfromClauseRangeVarinhtruerelnamexrelpersistencep" +:+
  "limitOptionLIMIT_OPTION_DEFAULTopSETOP_NONEtargetListResTargetvalColumnReffieldsA_Star" +:+
  "whereClauseA_ExprkindAEXPR_OPlexprColumnReffieldsStringstrynameStringstr=".
Proof. vm_compute. reflexivity. Qed.

(** [SELECT b, a FROM t1, t23 WHERE a IN (1, b)] *)
Definition sample_query : SelectStmt.t Node :=
  sample_ [res_ (column_ "b"); res_ (column_ "a")] [relation_ "t1"; relation_ "t23"]
    (Some (in_ (column_ "a") [number_ 1; column_ "b"])).

Theorem pg_query_fingerprint_correct_witness :
  exists hex tokens, String.length hex = 16%nat /\
    pg_query_fingerprint_with_opts (fun _ => inr (raw_ sample_query)) "" true =
      Ok (mkFingerprintResult (fnv 3 (joined tokens)) (Some hex) None (print_tokens tokens)).
Proof.
  destruct (pg_query_fingerprint_correct (fun _ => inr (raw_ sample_query)) "" (raw_ sample_query) true)
    as (hex & tokens & E & H1 & _ & H3).
  - reflexivity.
  - discriminate.
  - vm_compute. reflexivity.
  - apply collision_free_checked. vm_compute. reflexivity.
  - exists hex, tokens. split; [exact H1|]. rewrite (H3 eq_refl). exact E.
Defined.

(** [SELECT b, a FROM t1, t23 WHERE a IN ($1, b)], with other positions *)
Theorem fingerprint_ignores_constants_witness :
  let normalize := replace_constants (fun _ => N_ParamRef (ParamRef.mk 1 36)) (fun loc => loc + 1) in
  pg_query_fingerprint_with_opts (S := Z * string)
    (fun s => inr (if (s =? "")%string then raw_ sample_query else map normalize (raw_ sample_query))) "$" false =
  pg_query_fingerprint_with_opts
    (fun s => inr (if (s =? "")%string then raw_ sample_query else map normalize (raw_ sample_query))) "" false.
Proof.
  apply (fingerprint_ignores_constants _ (fun _ => N_ParamRef (ParamRef.mk 1 36)) (fun loc => loc + 1) "" "$"
    (raw_ sample_query)); [intros c; reflexivity|reflexivity|reflexivity].
Defined.

Theorem fingerprint_cost_witness :
  exists ctx, fingerprint_tree (S := Z * string) (_fingerprintInitContext None true) (N_List (raw_ sample_query)) = Ok ctx /\
    (ctx.(calls) <= 101 * 57)%nat.
Proof.
  apply (fingerprint_cost (N_List (raw_ sample_query)) true). vm_compute. reflexivity.
Defined.

(** [SELECT b, a FROM t1, t23 WHERE b] and [SELECT a, b, a FROM t23, t1 WHERE b],
    each with its positions *)
Definition at_column (s : string) (loc : Z) : Node := N_ColumnRef (ColumnRef.mk [str_ s] loc).
Definition at_target (s : string) (loc : Z) : Node :=
  N_ResTarget (ResTarget.mk None [] (Some (at_column s loc)) loc).
Definition at_relation (s : string) (loc : Z) : Node :=
  N_RangeVar (RangeVar.mk None None (Some s) true "p"%char None loc).

Theorem fingerprint_lists_as_sets_witness :
  pg_query_fingerprint_node (S := Z * string)
    (N_SelectStmt (with_lists (sample_ [] [] (Some (at_column "b" 31)))
      [at_relation "t1" 17; at_relation "t23" 21] [at_target "b" 7; at_target "a" 10] [])) =
  pg_query_fingerprint_node
    (N_SelectStmt (with_lists (sample_ [] [] (Some (at_column "b" 34)))
      [at_relation "t23" 20; at_relation "t1" 25] [at_target "a" 7; at_target "b" 10; at_target "a" 13] [])).
Proof.
  apply fingerprint_lists_as_sets.
  - intros n. cbn [map]. rewrite !elem_of_cons. cbn. tauto.
  - intros n. cbn [map]. rewrite !elem_of_cons. cbn. tauto.
  - intros n. reflexivity.
  - vm_compute. reflexivity.
  - vm_compute. reflexivity.
  - vm_compute. reflexivity.
  - apply collision_free_checked. vm_compute. reflexivity.
Defined.
