(* ===== verification/Hashfn.v ===== *)
(** * The hash function of the server

    [hash_bytes] of [src/postgres/src_common_hashfn.c] for a little-endian machine:
    Bob Jenkins' hash, with a path that reads words where the key is aligned and one
    that reads bytes.  The key is the list of its bytes; a read beyond it is
    [Undef]. *)
From S2P Require Import Prelude Array.

Open Scope Z_scope.

(** ** Arithmetic of [uint32] *)

Definition add32 (x y : Z) : Z := wrap32 (x + y).
Definition sub32 (x y : Z) : Z := wrap32 (x - y).
Definition rot (x k : Z) : Z := Z.lor (wrap32 (Z.shiftl x k)) (Z.shiftr x (32 - k)).

Definition state : Type := Z * Z * Z.

Definition mix (s : state) : state :=
  let '(a, b, c) := s in
  let a := sub32 a c in let a := Z.lxor a (rot c 4) in let c := add32 c b in
  let b := sub32 b a in let b := Z.lxor b (rot a 6) in let a := add32 a c in
  let c := sub32 c b in let c := Z.lxor c (rot b 8) in let b := add32 b a in
  let a := sub32 a c in let a := Z.lxor a (rot c 16) in let c := add32 c b in
  let b := sub32 b a in let b := Z.lxor b (rot a 19) in let a := add32 a c in
  let c := sub32 c b in let c := Z.lxor c (rot b 4) in let b := add32 b a in
  (a, b, c).

Definition final (s : state) : state :=
  let '(a, b, c) := s in
  let c := Z.lxor c b in let c := sub32 c (rot b 14) in
  let a := Z.lxor a c in let a := sub32 a (rot c 11) in
  let b := Z.lxor b a in let b := sub32 b (rot a 25) in
  let c := Z.lxor c b in let c := sub32 c (rot b 16) in
  let a := Z.lxor a c in let a := sub32 a (rot c 4) in
  let b := Z.lxor b a in let b := sub32 b (rot a 14) in
  let c := Z.lxor c b in let c := sub32 c (rot b 24) in
  (a, b, c).

(** ** Reading the key *)

(** [k[i]], and the word [ka[j]] at the byte [4 * j], as memory has it. *)
Definition byte (k : list Z) (i : nat) : outcome Z := read k i.
Definition word (k : list Z) (j : nat) : outcome Z :=
  let* b0 := byte k (4 * j) in
  let* b1 := byte k (4 * j + 1) in
  let* b2 := byte k (4 * j + 2) in
  let* b3 := byte k (4 * j + 3) in
  Ok (b0 + 256 * b1 + 65536 * b2 + 16777216 * b3).

(** [acc += (uint32) k[i] << shift], if [cond] (a label of the [switch] that has
    been passed). *)
Definition plus_byte (cond : bool) (acc : Z) (k : list Z) (i : nat) (shift : Z) : outcome Z :=
  if cond then let* b := byte k i in Ok (add32 acc (wrap32 (Z.shiftl b shift))) else Ok acc.
Definition plus_word (cond : bool) (acc : Z) (k : list Z) (j : nat) : outcome Z :=
  if cond then let* w := word k j in Ok (add32 acc w) else Ok acc.

(** [k[i] + ((uint32) k[i + 1] << 8) + ...] *)
Definition bytes4 (k : list Z) (i : nat) : outcome Z :=
  let* b0 := byte k i in
  let* b1 := byte k (i + 1) in
  let* b2 := byte k (i + 2) in
  let* b3 := byte k (i + 3) in
  Ok (add32 (add32 (add32 b0 (wrap32 (Z.shiftl b1 8))) (wrap32 (Z.shiftl b2 16))) (wrap32 (Z.shiftl b3 24))).

(** The [switch] over the last [len] bytes, for aligned data. *)
Definition last_aligned (k : list Z) (len : nat) (s : state) : outcome state :=
  let '(a, b, c) := s in
  let* c := plus_byte (11 <=? len)%nat c k 10 24 in
  let* c := plus_byte (10 <=? len)%nat c k 9 16 in
  let* c := plus_byte (9 <=? len)%nat c k 8 8 in
  if (8 <=? len)%nat then
    let* b := plus_word true b k 1 in
    let* a := plus_word true a k 0 in
    Ok (a, b, c)
  else
    let* b := plus_byte (7 <=? len)%nat b k 6 16 in
    let* b := plus_byte (6 <=? len)%nat b k 5 8 in
    let* b := plus_byte (5 <=? len)%nat b k 4 0 in
    if (4 <=? len)%nat then
      let* a := plus_word true a k 0 in
      Ok (a, b, c)
    else
      let* a := plus_byte (3 <=? len)%nat a k 2 16 in
      let* a := plus_byte (2 <=? len)%nat a k 1 8 in
      let* a := plus_byte (1 <=? len)%nat a k 0 0 in
      Ok (a, b, c).

(** The same for data that is not aligned. *)
Definition last_unaligned (k : list Z) (len : nat) (s : state) : outcome state :=
  let '(a, b, c) := s in
  let* c := plus_byte (11 <=? len)%nat c k 10 24 in
  let* c := plus_byte (10 <=? len)%nat c k 9 16 in
  let* c := plus_byte (9 <=? len)%nat c k 8 8 in
  let* b := plus_byte (8 <=? len)%nat b k 7 24 in
  let* b := plus_byte (7 <=? len)%nat b k 6 16 in
  let* b := plus_byte (6 <=? len)%nat b k 5 8 in
  let* b := plus_byte (5 <=? len)%nat b k 4 0 in
  let* a := plus_byte (4 <=? len)%nat a k 3 24 in
  let* a := plus_byte (3 <=? len)%nat a k 2 16 in
  let* a := plus_byte (2 <=? len)%nat a k 1 8 in
  let* a := plus_byte (1 <=? len)%nat a k 0 0 in
  Ok (a, b, c).

(** The loop over blocks of twelve bytes and the rest; [fuel] bounds the blocks. *)
Fixpoint hash_blocks (aligned : bool) (fuel : nat) (k : list Z) (len : nat) (s : state) : outcome state :=
  match fuel with
  | O => Undef
  | S fuel =>
      if (12 <=? len)%nat then
        let '(a, b, c) := s in
        let* wa := if aligned then word k 0 else bytes4 k 0 in
        let* wb := if aligned then word k 1 else bytes4 k 4 in
        let* wc := if aligned then word k 2 else bytes4 k 8 in
        hash_blocks aligned fuel (drop 12 k) (len - 12) (mix (add32 a wa, add32 b wb, add32 c wc))
      else if aligned then last_aligned k len s else last_unaligned k len s
  end.

Definition hash_bytes (aligned : bool) (k : list Z) (keylen : nat) : outcome Z :=
  let x := wrap32 (0x9e3779b9 + Z.of_nat keylen + 3923095) in
  let* s := hash_blocks aligned (S keylen) k keylen (x, x, x) in
  let '(_, _, c) := final s in
  Ok c.

(** The bytes of a pointer in memory: [SH_HASH_KEY] of
    [src/pg_query_fingerprint.c] hashes these. *)
Definition pointer_bytes (key : Z) : list Z := map (fun i => key / 256 ^ Z.of_nat i mod 256) (seq 0 8).

(** ** Proofs *)

Lemma wrap32_add_l x y : wrap32 (wrap32 x + y) = wrap32 (x + y).
Proof. apply Zplus_mod_idemp_l. Qed.

Lemma wrap32_add_r x y : wrap32 (x + wrap32 y) = wrap32 (x + y).
Proof. apply Zplus_mod_idemp_r. Qed.

(** Both sides are the same sum modulo [2 ^ 32]. *)
Ltac sum32 :=
  unfold add32; rewrite ?Z.shiftl_mul_pow2 by lia; repeat rewrite wrap32_add_r;
  repeat (repeat rewrite <-Z.add_assoc; rewrite wrap32_add_l);
  f_equal; lia.

Lemma state_eq (a b c a' b' c' : Z) : a = a' -> b = b' -> c = c' -> Ok (a, b, c) = Ok (a', b', c').
Proof. by intros -> -> ->. Qed.

Lemma last_agree k s : (List.length k <= 11)%nat ->
  exists s', last_aligned k (List.length k) s = Ok s' /\ last_unaligned k (List.length k) s = Ok s'.
Proof.
  destruct s as [[a b] c]. intros H.
  do 12 (destruct k as [|? k];
    [clear H; eexists; split; [reflexivity|];
     cbn -[wrap32 Z.shiftl Z.add Z.mul]; apply state_eq; first [reflexivity|sum32]|]).
  cbn in H. lia.
Qed.

Lemma word_agree k j : (4 * j + 4 <= List.length k)%nat ->
  exists w w', word k j = Ok w /\ bytes4 k (4 * j) = Ok w' /\ forall a, add32 a w = add32 a w'.
Proof.
  intros H. unfold word, bytes4, byte.
  destruct (read_lt k (4 * j)%nat) as (b0 & _ & ->); [lia|].
  destruct (read_lt k (4 * j + 1)%nat) as (b1 & _ & ->); [lia|].
  destruct (read_lt k (4 * j + 2)%nat) as (b2 & _ & ->); [lia|].
  destruct (read_lt k (4 * j + 3)%nat) as (b3 & _ & ->); [lia|]. cbn [obind].
  exists (b0 + 256 * b1 + 65536 * b2 + 16777216 * b3), (wrap32 (b0 + 256 * b1 + 65536 * b2 + 16777216 * b3)).
  split; [done|]. split; [f_equal; sum32|]. intros a. unfold add32. by rewrite wrap32_add_r.
Qed.

Lemma blocks_agree fuel k s : (List.length k < fuel)%nat ->
  exists s', hash_blocks true fuel k (List.length k) s = Ok s' /\
             hash_blocks false fuel k (List.length k) s = Ok s'.
Proof.
  revert k s. induction fuel as [|fuel IH]; intros k s Hf; [lia|]. cbn [hash_blocks].
  destruct (Nat.leb_spec 12 (List.length k)) as [Hk|Hk]; [|apply last_agree; lia].
  destruct s as [[a b] c].
  destruct (word_agree k 0) as (w0 & v0 & -> & E0 & Ha); [lia|].
  destruct (word_agree k 1) as (w1 & v1 & -> & E1 & Hb); [lia|].
  destruct (word_agree k 2) as (w2 & v2 & -> & E2 & Hc); [lia|].
  change (4 * 0)%nat with 0%nat in E0. change (4 * 1)%nat with 4%nat in E1. change (4 * 2)%nat with 8%nat in E2.
  rewrite E0, E1, E2. cbn [obind]. rewrite Ha, Hb, Hc, <-length_drop. apply IH. rewrite length_drop. lia.
Qed.

Lemma final_range s : let '(_, _, c) := final s in 0 <= c < 2 ^ 32.
Proof. destruct s as [[a b] c]. apply Z.mod_pos_bound. lia. Qed.

(** [hash_bytes] is total. *)
Lemma hash_bytes_ok aligned (k : list Z) :
  exists h, 0 <= h < 2 ^ 32 /\ hash_bytes aligned k (List.length k) = Ok h.
Proof.
  unfold hash_bytes. set (x := wrap32 _).
  destruct (blocks_agree (S (List.length k)) k (x, x, x)) as (s & Et & Ef); [lia|].
  exists (final s).2. pose proof (final_range s) as H. destruct aligned; rewrite ?Et, ?Ef; cbn [obind];
    destruct (final s) as [[a b] c]; done.
Qed.

(** ** Properties *)

(** C37. The hash of a key does not depend on where the key lies in memory: the path
    that reads aligned words and the path that reads single bytes return the same
    number of 32 bits for every key, and neither reads beyond the key. *)
Theorem hash_bytes_alignment (k : list Z) :
  exists h, 0 <= h < 2 ^ 32 /\
    hash_bytes true k (List.length k) = Ok h /\ hash_bytes false k (List.length k) = Ok h.
Proof.
  unfold hash_bytes. set (x := wrap32 _).
  destruct (blocks_agree (S (List.length k)) k (x, x, x)) as (s & -> & ->); [lia|]. cbn [obind].
  pose proof (final_range s) as H. destruct (final s) as [[a b] c]. by exists c.
Qed.
