(* ===== verification/SimpleHash.v ===== *)
(** * The hash table of the server

    The template [src/postgres/include/lib/simplehash.h]: open addressing with linear
    probing, where an entry that is farther from its bucket displaces one that is
    nearer (Robin Hood hashing).  [src/pg_query_fingerprint.c] makes the cache of
    list items of it.  Blocks are lists with checked access; an [Assert] that fails
    is [Undef], and so is a loop that does not end. *)
From S2P Require Import Prelude Array.

Open Scope Z_scope.

(** The numbers [0.9], [0.98] and [0.1] as a [double] holds them. *)
Definition FILLFACTOR_num : Z := 8106479329266893.        (* 0.9 * 2 ^ 53, rounded *)
Definition MAX_FILLFACTOR_num : Z := 8827055269646172.    (* 0.98 * 2 ^ 53, rounded *)
Definition GROW_MIN_FILLFACTOR_num : Z := 3602879701896397. (* 0.1 * 2 ^ 55, rounded *)

Definition SH_MAX_SIZE : Z := 2 ^ 32.
Definition SH_GROW_MAX_DIB : Z := 25.
Definition SH_GROW_MAX_MOVE : Z := 150.

(** [uint64]: a power of two that is at least [num]. *)
Definition pg_nextpower2_64 (num : Z) : outcome Z :=
  if (0 <? num) && (num <=? 2 ^ 63) then
    if Z.land num (num - 1) =? 0 then Ok num else Ok (2 ^ (Z.log2 num + 1))
  else Undef.

Section table.
Context {K V : Type} `{EqDecision K}.
Variable SH_HASH_KEY : K -> outcome Z.
Variable sizeof_element : Z.
Variable zero_key : K.      (* what zeroed memory holds *)
Variable zero_value : V.

Record element : Type := mkElement {
  key : K;
  value : V;      (* the other fields *)
  in_use : bool   (* the status *)
}.

Record hash_table : Type := mkTable {
  size : Z;
  members : Z;
  sizemask : Z;
  grow_threshold : Z;
  data : list element
}.

Definition set_members (tb : hash_table) (n : Z) : hash_table :=
  mkTable tb.(size) n tb.(sizemask) tb.(grow_threshold) tb.(data).
Definition set_data (tb : hash_table) (d : list element) : hash_table :=
  mkTable tb.(size) tb.(members) tb.(sizemask) tb.(grow_threshold) d.
Definition set_threshold (tb : hash_table) (t : Z) : hash_table :=
  mkTable tb.(size) tb.(members) tb.(sizemask) t tb.(data).

(** [data[i]] *)
Definition bucket (d : list element) (i : Z) : outcome element := read d (Z.to_nat i).
Definition set_bucket (d : list element) (i : Z) (e : element) : list element := <[Z.to_nat i := e]> d.

(** ** Sizes *)

(** The product of a [double] that is a power of two and the fill factor is exact. *)
Definition SH_COMPUTE_PARAMETERS (tb : hash_table) (newsize : Z) : outcome hash_table :=
  let* size := pg_nextpower2_64 (Z.max newsize 2) in
  if size <=? SH_MAX_SIZE then
    if sizeof_element * size >=? (2 ^ 64 - 1) / 2 then Elog "hash table too large"
    else
      Ok (mkTable size tb.(members)
            (if size =? SH_MAX_SIZE then 0 else wrap32 (size - 1))
            (if size =? SH_MAX_SIZE then wrap32 (size * MAX_FILLFACTOR_num / 2 ^ 53)
             else wrap32 (size * FILLFACTOR_num / 2 ^ 53))
            tb.(data))
  else Undef.

Definition SH_INITIAL_BUCKET (tb : hash_table) (hash : Z) : Z := Z.land hash tb.(sizemask).

Definition SH_NEXT (tb : hash_table) (curelem startelem : Z) : outcome Z :=
  let curelem := Z.land (wrap32 (curelem + 1)) tb.(sizemask) in
  if curelem =? startelem then Undef else Ok curelem.

Definition SH_PREV (tb : hash_table) (curelem startelem : Z) : outcome Z :=
  let curelem := Z.land (wrap32 (curelem - 1)) tb.(sizemask) in
  if curelem =? startelem then Undef else Ok curelem.

Definition SH_DISTANCE_FROM_OPTIMAL (tb : hash_table) (optimal bucket : Z) : Z :=
  if optimal <=? bucket then bucket - optimal else wrap32 (tb.(size) + bucket - optimal).

Definition SH_ENTRY_HASH (entry : element) : outcome Z := SH_HASH_KEY entry.(key).

(** [MCXT_ALLOC_ZERO] *)
Definition SH_ALLOCATE (n : Z) : list element := replicate (Z.to_nat n) (mkElement zero_key zero_value false).

(** The quotient [nelements / 0.9] of [double]s, without its fraction, is
    [nelements * 10 / 9]: where that is an integer the rounding finds it. *)
Definition SH_CREATE (nelements : Z) : outcome hash_table :=
  let newsize := wrap32 (Z.min SH_MAX_SIZE (nelements * 10 / 9)) in
  let* tb := SH_COMPUTE_PARAMETERS (mkTable 0 0 0 0 []) newsize in
  Ok (set_data tb (SH_ALLOCATE tb.(size))).

Definition SH_RESET (tb : hash_table) : hash_table :=
  set_members (set_data tb (SH_ALLOCATE tb.(size))) 0.

(** ** Growth *)

(** The first bucket that is empty or holds an entry at its optimal position. *)
Fixpoint find_start (n : nat) (tb : hash_table) (olddata : list element) (i : Z) : outcome Z :=
  match n with
  | O => Ok 0
  | S n =>
      let* oldentry := bucket olddata i in
      if negb oldentry.(in_use) then Ok i
      else
        let* hash := SH_ENTRY_HASH oldentry in
        if SH_INITIAL_BUCKET tb hash =? i then Ok i else find_start n tb olddata (i + 1)
  end.

(** The first empty bucket from [curelem] on. *)
Fixpoint find_free (fuel : nat) (tb : hash_table) (newdata : list element) (curelem startelem : Z) : outcome Z :=
  match fuel with
  | O => Undef
  | S fuel =>
      let* newentry := bucket newdata curelem in
      if negb newentry.(in_use) then Ok curelem
      else
        let* curelem := SH_NEXT tb curelem startelem in
        find_free fuel tb newdata curelem startelem
  end.

(** An entry, if it is one, copied to the new block. *)
Definition copy_entry (tb : hash_table) (newdata : list element) (oldentry : element) : outcome (list element) :=
  if oldentry.(in_use) then
    let* hash := SH_ENTRY_HASH oldentry in
    let startelem := SH_INITIAL_BUCKET tb hash in
    let* curelem := find_free (Z.to_nat tb.(size)) tb newdata startelem startelem in
    Ok (set_bucket newdata curelem oldentry)
  else Ok newdata.

Fixpoint copy_loop (n : nat) (tb : hash_table) (oldsize : Z) (olddata newdata : list element) (copyelem : Z) :
    outcome (list element) :=
  match n with
  | O => Ok newdata
  | S n =>
      let* oldentry := bucket olddata copyelem in
      let* newdata := copy_entry tb newdata oldentry in
      let copyelem := copyelem + 1 in
      copy_loop n tb oldsize olddata newdata (if copyelem >=? oldsize then 0 else copyelem)
  end.

Definition SH_GROW (tb : hash_table) (newsize : Z) : outcome hash_table :=
  let oldsize := tb.(size) in
  let olddata := tb.(data) in
  let* p := pg_nextpower2_64 oldsize in
  if (oldsize =? p) && negb (oldsize =? SH_MAX_SIZE) && (oldsize <? newsize) then
    let* tb := SH_COMPUTE_PARAMETERS tb newsize in
    let newdata := SH_ALLOCATE tb.(size) in
    let* startelem := find_start (Z.to_nat oldsize) tb olddata 0 in
    let* newdata := copy_loop (Z.to_nat oldsize) tb oldsize olddata newdata startelem in
    Ok (set_data tb newdata)
  else Undef.

(** ** Insertion *)

(** [members / size >= 0.1]; the quotient by a power of two is exact. *)
Definition above_min_fill (tb : hash_table) : bool :=
  GROW_MIN_FILLFACTOR_num * tb.(size) <=? tb.(members) * 2 ^ 55.

(** The next empty bucket, or [None] for [goto restart]. *)
Fixpoint find_empty (fuel : nat) (tb : hash_table) (emptyelem startelem emptydist : Z) : outcome (option Z) :=
  match fuel with
  | O => Undef
  | S fuel =>
      let* emptyelem := SH_NEXT tb emptyelem startelem in
      let* emptyentry := bucket tb.(data) emptyelem in
      if negb emptyentry.(in_use) then Ok (Some emptyelem)
      else
        let emptydist := emptydist + 1 in
        if (emptydist >? SH_GROW_MAX_MOVE) && above_min_fill tb then Ok None
        else find_empty fuel tb emptyelem startelem emptydist
  end.

(** Shift forward, from the last occupied element to [curelem]. *)
Fixpoint shift_forward (fuel : nat) (tb : hash_table) (d : list element) (moveelem lastentry curelem startelem : Z) :
    outcome (list element) :=
  if moveelem =? curelem then Ok d
  else
    match fuel with
    | O => Undef
    | S fuel =>
        let* moveelem := SH_PREV tb moveelem startelem in
        let* moveentry := bucket d moveelem in
        shift_forward fuel tb (set_bucket d lastentry moveentry) moveelem moveelem curelem startelem
    end.

Inductive search_result : Type :=
| Found (i : Z)
| Inserted (tb : hash_table) (i : Z)
| Restart.

(** [tb->members++], the key and the status of the entry. *)
Definition occupy (tb : hash_table) (d : list element) (i : Z) (k : K) : outcome search_result :=
  let* entry := bucket d i in
  Ok (Inserted (set_data (set_members tb (wrap32 (tb.(members) + 1)))
                 (set_bucket d i (mkElement k entry.(value) true))) i).

Fixpoint search_loop (fuel : nat) (tb : hash_table) (k : K) (startelem curelem insertdist : Z) : outcome search_result :=
  match fuel with
  | O => Undef
  | S fuel =>
      let* entry := bucket tb.(data) curelem in
      if negb entry.(in_use) then occupy tb tb.(data) curelem k
      else if decide (entry.(key) = k) then Ok (Found curelem)
      else
        let* curhash := SH_ENTRY_HASH entry in
        let curoptimal := SH_INITIAL_BUCKET tb curhash in
        let curdist := SH_DISTANCE_FROM_OPTIMAL tb curoptimal curelem in
        if insertdist >? curdist then
          let* empty := find_empty (Z.to_nat tb.(size)) tb curelem startelem 0 in
          match empty with
          | None => Ok Restart
          | Some emptyelem =>
              let* d := shift_forward (Z.to_nat tb.(size)) tb tb.(data) emptyelem emptyelem curelem startelem in
              occupy tb d curelem k
          end
        else
          let* curelem := SH_NEXT tb curelem startelem in
          let insertdist := insertdist + 1 in
          if (insertdist >? SH_GROW_MAX_DIB) && above_min_fill tb then Ok Restart
          else search_loop fuel tb k startelem curelem insertdist
  end.

(** [restart]: [fuel] bounds how often the table grows. *)
Fixpoint SH_INSERT_HASH_INTERNAL (fuel : nat) (tb : hash_table) (k : K) (hash : Z) : outcome (hash_table * Z * bool) :=
  match fuel with
  | O => Undef
  | S fuel =>
      let* tb :=
        if tb.(members) >=? tb.(grow_threshold) then
          if tb.(size) =? SH_MAX_SIZE then Elog "hash table size exceeded"
          else SH_GROW tb (wrap32 (tb.(size) * 2))
        else Ok tb in
      let startelem := SH_INITIAL_BUCKET tb hash in
      let* r := search_loop (Z.to_nat tb.(size)) tb k startelem startelem 0 in
      match r with
      | Found i => Ok (tb, i, true)
      | Inserted tb i => Ok (tb, i, false)
      | Restart => SH_INSERT_HASH_INTERNAL fuel (set_threshold tb 0) k hash
      end
  end.

(** A table doubles at most 32 times. *)
Definition restart_fuel : nat := 33.

Definition SH_INSERT (tb : hash_table) (k : K) : outcome (hash_table * Z * bool) :=
  let* hash := SH_HASH_KEY k in
  SH_INSERT_HASH_INTERNAL restart_fuel tb k hash.

Definition SH_INSERT_HASH (tb : hash_table) (k : K) (hash : Z) : outcome (hash_table * Z * bool) :=
  SH_INSERT_HASH_INTERNAL restart_fuel tb k hash.

(** ** Lookup *)

Fixpoint lookup_loop (fuel : nat) (tb : hash_table) (k : K) (startelem curelem : Z) : outcome (option Z) :=
  match fuel with
  | O => Undef
  | S fuel =>
      let* entry := bucket tb.(data) curelem in
      if negb entry.(in_use) then Ok None
      else if decide (entry.(key) = k) then Ok (Some curelem)
      else
        let* curelem := SH_NEXT tb curelem startelem in
        lookup_loop fuel tb k startelem curelem
  end.

Definition SH_LOOKUP_HASH_INTERNAL (tb : hash_table) (k : K) (hash : Z) : outcome (option Z) :=
  let startelem := SH_INITIAL_BUCKET tb hash in
  lookup_loop (Z.to_nat tb.(size)) tb k startelem startelem.

Definition SH_LOOKUP (tb : hash_table) (k : K) : outcome (option Z) :=
  let* hash := SH_HASH_KEY k in
  SH_LOOKUP_HASH_INTERNAL tb k hash.

Definition SH_LOOKUP_HASH (tb : hash_table) (k : K) (hash : Z) : outcome (option Z) :=
  SH_LOOKUP_HASH_INTERNAL tb k hash.

(** ** Deletion *)

(** Shift the following elements back by one, up to an empty one or one at its
    optimal position. *)
Fixpoint shift_back (fuel : nat) (tb : hash_table) (d : list element) (lastentry curelem startelem : Z) :
    outcome (list element) :=
  match fuel with
  | O => Undef
  | S fuel =>
      let* last := bucket d lastentry in
      let emptied := set_bucket d lastentry (mkElement last.(key) last.(value) false) in
      let* curelem := SH_NEXT tb curelem startelem in
      let* curentry := bucket d curelem in
      if negb curentry.(in_use) then Ok emptied
      else
        let* curhash := SH_ENTRY_HASH curentry in
        if SH_INITIAL_BUCKET tb curhash =? curelem then Ok emptied
        else shift_back fuel tb (set_bucket d lastentry curentry) curelem curelem startelem
  end.

Fixpoint delete_loop (fuel : nat) (tb : hash_table) (k : K) (startelem curelem : Z) : outcome (hash_table * bool) :=
  match fuel with
  | O => Undef
  | S fuel =>
      let* entry := bucket tb.(data) curelem in
      if negb entry.(in_use) then Ok (tb, false)
      else if decide (entry.(key) = k) then
        let* d := shift_back (Z.to_nat tb.(size)) tb tb.(data) curelem curelem startelem in
        Ok (set_data (set_members tb (wrap32 (tb.(members) - 1))) d, true)
      else
        let* curelem := SH_NEXT tb curelem startelem in
        delete_loop fuel tb k startelem curelem
  end.

Definition SH_DELETE (tb : hash_table) (k : K) : outcome (hash_table * bool) :=
  let* hash := SH_HASH_KEY k in
  let startelem := SH_INITIAL_BUCKET tb hash in
  delete_loop (Z.to_nat tb.(size)) tb k startelem startelem.

(** ** Iteration *)

Record iterator : Type := mkIterator {
  cur : Z;
  end_ : Z;
  done_ : bool
}.

Fixpoint first_empty (n : nat) (tb : hash_table) (i : Z) : outcome Z :=
  match n with
  | O => Undef     (* Assert(startelem < SH_MAX_SIZE) *)
  | S n =>
      let* entry := bucket tb.(data) i in
      if negb entry.(in_use) then Ok i else first_empty n tb (i + 1)
  end.

Definition SH_START_ITERATE (tb : hash_table) : outcome iterator :=
  let* startelem := first_empty (Z.to_nat tb.(size)) tb 0 in
  Ok (mkIterator startelem startelem false).

Definition SH_START_ITERATE_AT (tb : hash_table) (at_ : Z) : iterator :=
  let cur := Z.land at_ tb.(sizemask) in mkIterator cur cur false.

(** The next entry, if any, and the iterator after it. *)
Fixpoint SH_ITERATE (fuel : nat) (tb : hash_table) (iter : iterator) : outcome (option element * iterator) :=
  if iter.(done_) then Ok (None, iter)
  else
    match fuel with
    | O => Undef
    | S fuel =>
        let* elem := bucket tb.(data) iter.(cur) in
        let cur := Z.land (wrap32 (iter.(cur) - 1)) tb.(sizemask) in
        let iter := mkIterator cur iter.(end_)
                      (Z.land cur tb.(sizemask) =? Z.land iter.(end_) tb.(sizemask)) in
        if elem.(in_use) then Ok (Some elem, iter) else SH_ITERATE fuel tb iter
    end.
End table.
