(* ===== verification/SimpleHashView.v ===== *)
(** * Robin Hood tables as functions

    A table of [n] buckets seen as a function from all integers, with period [n], so
    that runs that wrap around are intervals.  [valid at m]: the buckets hold the map
    [m], each key once, and an entry that is not in its own bucket has a neighbour
    before it that is at most one nearer to its own.  Filling an empty bucket, moving a
    run forward for a new entry and moving one back over a removed entry keep this. *)
From S2P Require Import Prelude.
From stdpp Require Import gmap.

Open Scope Z_scope.

(** The tests over integers that are known. *)
Ltac ztest_goal :=
  repeat match goal with
  | |- context [?a <? ?b] =>
      first [rewrite (proj2 (Z.ltb_lt a b)) by lia|rewrite (proj2 (Z.ltb_ge a b)) by lia]
  | |- context [?a <=? ?b] =>
      first [rewrite (proj2 (Z.leb_le a b)) by lia|rewrite (proj2 (Z.leb_gt a b)) by lia]
  | |- context [?a =? ?b] =>
      first [rewrite (proj2 (Z.eqb_eq a b)) by lia|rewrite (proj2 (Z.eqb_neq a b)) by lia]
  end; cbn [andb].
Ltac ztest_in H :=
  repeat match type of H with
  | context [?a <? ?b] =>
      first [rewrite (proj2 (Z.ltb_lt a b)) in H by lia|rewrite (proj2 (Z.ltb_ge a b)) in H by lia]
  | context [?a <=? ?b] =>
      first [rewrite (proj2 (Z.leb_le a b)) in H by lia|rewrite (proj2 (Z.leb_gt a b)) in H by lia]
  | context [?a =? ?b] =>
      first [rewrite (proj2 (Z.eqb_eq a b)) in H by lia|rewrite (proj2 (Z.eqb_neq a b)) in H by lia]
  end; cbn [andb] in H.

Section view.
Context {K V : Type} `{Countable K}.
Variable home : K -> Z.
Variable n : Z.
Hypothesis Hn : 1 < n.

Abbreviation view := (Z -> option (K * V)).

(** How far [p] is behind [h]. *)
Definition dist (h p : Z) : Z := (p - h) mod n.

Definition periodic (at_ : view) : Prop := forall p q, p mod n = q mod n -> at_ p = at_ q.

(** An entry with the home [h] may be at [p]. *)
Definition fits (at_ : view) (h p : Z) : Prop :=
  dist h p = 0 \/ exists k v, at_ (p - 1) = Some (k, v) /\ dist h p <= dist (home k) (p - 1) + 1.

Definition robin (at_ : view) : Prop := forall p k v, at_ p = Some (k, v) -> fits at_ (home k) p.
Definition single (at_ : view) : Prop :=
  forall p q k v w, at_ p = Some (k, v) -> at_ q = Some (k, w) -> p mod n = q mod n.
Definition holds (at_ : view) (m : gmap K V) : Prop := forall k v, m !! k = Some v <-> exists p, at_ p = Some (k, v).

Record valid (at_ : view) (m : gmap K V) : Prop := {
  v_periodic : periodic at_;
  v_robin : robin at_;
  v_single : single at_;
  v_holds : holds at_ m
}.

(** ** Distances *)

Lemma dist_range h p : 0 <= dist h p < n.
Proof. apply Z.mod_pos_bound. lia. Qed.

Lemma dist_mod h p q : p mod n = q mod n -> dist h p = dist h q.
Proof. intros E. unfold dist. by rewrite Zminus_mod, E, <-Zminus_mod. Qed.

Lemma dist_off h j : 0 <= j < n -> dist h (h + j) = j.
Proof. intros Hj. unfold dist. replace (h + j - h) with j by lia. by apply Z.mod_small. Qed.

Lemma off_dist h p : (h + dist h p) mod n = p mod n.
Proof. unfold dist. rewrite Zplus_mod_idemp_r. f_equal. lia. Qed.

Lemma mod_shift p q c : p mod n = q mod n -> (p + c) mod n = (q + c) mod n.
Proof. intros E. by rewrite Zplus_mod, E, <-Zplus_mod. Qed.

Lemma dist_succ h p : dist h p + 1 < n -> dist h (p + 1) = dist h p + 1.
Proof.
  intros Hd. pose proof (dist_range h p). rewrite <-(dist_off h (dist h p + 1)) by lia. apply dist_mod.
  rewrite Z.add_assoc. apply mod_shift. symmetry. apply off_dist.
Qed.

Lemma dist_pred h p : dist h p <> 0 -> dist h (p - 1) = dist h p - 1.
Proof.
  intros Hd. pose proof (dist_range h p). rewrite <-(dist_off h (dist h p - 1)) by lia. apply dist_mod.
  replace (h + (dist h p - 1)) with (h + dist h p + -1) by lia. change (p - 1) with (p + -1).
  apply mod_shift. symmetry. apply off_dist.
Qed.

(** Every position is [h + j] for an offset [j]. *)
Lemma offset h p : exists j, 0 <= j < n /\ p mod n = (h + j) mod n /\ dist h p = j.
Proof. exists (dist h p). split; [apply dist_range|]. split; [by rewrite off_dist|done]. Qed.

Lemma off_inj h i j : 0 <= i < n -> 0 <= j < n -> (h + i) mod n = (h + j) mod n -> i = j.
Proof. intros Hi Hj E. rewrite <-(dist_off h i), <-(dist_off h j) by lia. by apply dist_mod. Qed.

Lemma wrap_pred h : (h - 1) mod n = (h + (n - 1)) mod n.
Proof. replace (h + (n - 1)) with (h - 1 + 1 * n) by lia. by rewrite Z.mod_add by lia. Qed.

(** ** Runs *)

Lemma fits_mod at_ h p q : periodic at_ -> p mod n = q mod n -> fits at_ h p -> fits at_ h q.
Proof.
  intros P E [Hd|(k & v & Hk & Hd)]; [left; by rewrite <-(dist_mod h p q)|right].
  assert (E1 : (p - 1) mod n = (q - 1) mod n) by by apply (mod_shift p q (-1)).
  exists k, v. rewrite <-(P _ _ E1), <-(dist_mod h p q), <-(dist_mod (home k) _ _ E1); done.
Qed.

(** It is enough to look at the positions from some [h] on. *)
Lemma robin_range at_ h : periodic at_ ->
  (forall j k v, 0 <= j < n -> at_ (h + j) = Some (k, v) -> fits at_ (home k) (h + j)) -> robin at_.
Proof.
  intros P R p k v Hk. destruct (offset h p) as (j & Hj & E & _).
  apply (fits_mod at_ _ (h + j)); [done|done|]. apply (R _ _ v); [done|]. by rewrite <-(P _ _ E).
Qed.

(** From an entry back to its home the buckets are taken, by entries that are as far
    from theirs. *)
Lemma chain at_ p k v : robin at_ -> at_ p = Some (k, v) ->
  forall i, 0 <= i -> i <= dist (home k) p ->
  exists k' v', at_ (p - i) = Some (k', v') /\ dist (home k) p - i <= dist (home k') (p - i).
Proof.
  intros R Hk. apply (natlike_ind (fun i => i <= dist (home k) p -> _)).
  - intros _. exists k, v. rewrite !Z.sub_0_r. split; [done|lia].
  - intros i Hi IH Hs. destruct IH as (k' & v' & Hk' & Hd); [lia|].
    destruct (R _ _ _ Hk') as [H0|(k2 & v2 & H2 & Hd2)]; [lia|].
    exists k2, v2. replace (p - Z.succ i) with (p - i - 1) by lia. split; [done|lia].
Qed.

Lemma chain_home at_ p k v j : periodic at_ -> robin at_ -> at_ p = Some (k, v) -> 0 <= j <= dist (home k) p ->
  exists k' v', at_ (home k + j) = Some (k', v') /\ j <= dist (home k') (home k + j).
Proof.
  intros P R Hk Hj. destruct (chain at_ p k v R Hk (dist (home k) p - j)) as (k' & v' & Hk' & Hd); [lia..|].
  assert (E : (p - (dist (home k) p - j)) mod n = (home k + j) mod n).
  { replace (home k + j) with (home k + dist (home k) p + (j - dist (home k) p)) by lia.
    replace (p - (dist (home k) p - j)) with (p + (j - dist (home k) p)) by lia.
    apply mod_shift. by rewrite off_dist. }
  exists k', v'. rewrite <-(P _ _ E), <-(dist_mod _ _ _ E). split; [done|lia].
Qed.

(** A search that finds other keys up to an empty bucket, or up to an entry nearer to
    its home, shows that the key is not there. *)
Lemma absent at_ k t : periodic at_ -> robin at_ -> 0 <= t < n ->
  (forall j, 0 <= j < t -> exists k' v', at_ (home k + j) = Some (k', v') /\ k' <> k) ->
  (forall k' v', at_ (home k + t) = Some (k', v') -> k' <> k /\ dist (home k') (home k + t) < t) ->
  forall p v, at_ p <> Some (k, v).
Proof.
  intros P R Ht Hb He p v Hk. set (T := dist (home k) p).
  assert (HT : at_ (home k + T) = Some (k, v)) by (rewrite <-Hk; apply P; apply off_dist).
  pose proof (dist_range (home k) p).
  destruct (Z_lt_ge_dec T t) as [Hl|Hg].
  - destruct (Hb T) as (k' & v' & Hk' & Hne); [unfold T in *; lia|]. rewrite HT in Hk'. by injection Hk' as <- _.
  - destruct (chain_home at_ p k v t P R Hk) as (k' & v' & Hk' & Hd); [unfold T in *; lia|].
    destruct (He _ _ Hk') as [_ Hlt]. lia.
Qed.

(** ** A new entry in an empty bucket *)

Definition upd (at_ : view) (p : Z) (x : option (K * V)) : view :=
  fun q => if (q mod n =? p mod n) then x else at_ q.

Lemma upd_eq at_ p x q : q mod n = p mod n -> upd at_ p x q = x.
Proof. intros E. unfold upd. by rewrite (proj2 (Z.eqb_eq _ _) E). Qed.

Lemma upd_ne at_ p x q : q mod n <> p mod n -> upd at_ p x q = at_ q.
Proof. intros E. unfold upd. by rewrite (proj2 (Z.eqb_neq _ _) E). Qed.

Lemma upd_periodic at_ p x : periodic at_ -> periodic (upd at_ p x).
Proof. intros P q q' E. unfold upd. rewrite E, (P _ _ E). done. Qed.

Lemma pred_ne p : (p - 1) mod n <> p mod n.
Proof.
  intros E. assert (X : dist p (p - 1) = dist p p) by by apply dist_mod.
  rewrite (dist_mod p _ _ (wrap_pred p)), dist_off in X by lia.
  replace p with (p + 0) in X at 2 by lia. rewrite dist_off in X; lia.
Qed.

(** The keys and the map, apart from the order of the entries. *)
Definition contents (at_ : view) (m : gmap K V) : Prop := periodic at_ /\ single at_ /\ holds at_ m.

Lemma fill_contents at_ m p k v : contents at_ m -> at_ p = None -> (forall q w, at_ q <> Some (k, w)) ->
  contents (upd at_ p (Some (k, v))) (<[k := v]> m).
Proof.
  intros (P & S & Hm) He Ha.
  assert (Hother : forall q k' w, at_ q = Some (k', w) -> upd at_ p (Some (k, v)) q = Some (k', w)).
  { intros q k' w Hq. rewrite upd_ne; [done|]. intros E. rewrite (P _ _ E), He in Hq. done. }
  assert (Hinv : forall q k' w, upd at_ p (Some (k, v)) q = Some (k', w) ->
    (q mod n = p mod n /\ k' = k /\ w = v) \/ (at_ q = Some (k', w) /\ k' <> k)).
  { intros q k' w Hq. destruct (Z.eq_dec (q mod n) (p mod n)) as [E|E].
    - rewrite upd_eq in Hq by done. injection Hq as <- <-. by left.
    - rewrite upd_ne in Hq by done. right. split; [done|]. intros ->. by eapply Ha. }
  split; [by apply upd_periodic|]. split.
  - intros q q' k' w w' [(E & -> & ->)|[Hq Hk]]%Hinv [(E' & ? & ?)|[Hq' Hk']]%Hinv; try congruence.
    by eapply S.
  - intros k' w. destruct (decide (k' = k)) as [->|Hk].
    + rewrite lookup_insert_eq. split.
      * intros [= ->]. exists p. by rewrite upd_eq.
      * intros (q & [(_ & _ & ->)|[_ ?]]%Hinv); done.
    + rewrite lookup_insert_ne by done. split.
      * intros (q & Hq)%Hm. exists q. by apply Hother.
      * intros (q & [(_ & ? & _)|[Hq _]]%Hinv); [done|]. apply Hm. by exists q.
Qed.

Lemma remove_contents at_ m p k v : contents at_ m -> at_ p = Some (k, v) ->
  contents (upd at_ p None) (delete k m).
Proof.
  intros (P & S & Hm) Hp.
  assert (Hinv : forall q k' w, upd at_ p None q = Some (k', w) <-> at_ q = Some (k', w) /\ k' <> k).
  { intros q k' w. destruct (Z.eq_dec (q mod n) (p mod n)) as [E|E].
    - rewrite upd_eq by done. rewrite (P _ _ E), Hp. split; [done|]. by intros [[= -> ->] ?].
    - rewrite upd_ne by done. split; [|by intros [? _]]. intros Hq. split; [done|]. intros ->.
      by apply E, (S _ _ k w v). }
  split; [by apply upd_periodic|]. split.
  - intros q q' k' w w' [Hq _]%Hinv [Hq' _]%Hinv. by eapply S.
  - intros k' w. rewrite lookup_delete_Some. split.
    + intros [Hk (q & Hq)%Hm]. exists q. by apply Hinv.
    + intros (q & [Hq Hk]%Hinv). split; [done|]. apply Hm. by exists q.
Qed.

(** The entries moved, from the offset [i] behind [h] to the offset [f i]. *)
Lemma moved_contents at_ at' m h (f : Z -> Z) : contents at_ m -> periodic at' ->
  (forall j k v, 0 <= j < n -> at' (h + j) = Some (k, v) ->
     exists i, 0 <= i < n /\ at_ (h + i) = Some (k, v) /\ j = f i) ->
  (forall i k v, 0 <= i < n -> at_ (h + i) = Some (k, v) -> 0 <= f i < n /\ at' (h + f i) = Some (k, v)) ->
  contents at' m.
Proof.
  intros (P & S & Hm) P' Hback Hforth.
  assert (Hinv : forall q k v, at' q = Some (k, v) ->
    exists i, 0 <= i < n /\ at_ (h + i) = Some (k, v) /\ q mod n = (h + f i) mod n).
  { intros q k v Hq. destruct (offset h q) as (j & Hj & E & _). rewrite (P' _ _ E) in Hq.
    destruct (Hback _ _ _ Hj Hq) as (i & Hi & Ha & ->). by exists i. }
  split; [done|]. split.
  - intros q q' k v w (i & Hi & Ha & E)%Hinv (i' & Hi' & Ha' & E')%Hinv.
    rewrite E, E'. do 3 f_equal. apply (off_inj h); [done..|]. by eapply S.
  - intros k v. split.
    + intros (q & Hq)%Hm. destruct (offset h q) as (i & Hi & E & _). rewrite (P _ _ E) in Hq.
      destruct (Hforth _ _ _ Hi Hq) as [_ Hf]. by eexists.
    + intros (q & (i & _ & Ha & _)%Hinv). apply Hm. by eexists.
Qed.

Lemma fill_valid at_ m p k v : valid at_ m -> at_ p = None -> (forall q w, at_ q <> Some (k, w)) ->
  fits at_ (home k) p -> valid (upd at_ p (Some (k, v))) (<[k := v]> m).
Proof.
  intros [P R S Hm] He Ha Hf.
  destruct (fill_contents at_ m p k v) as (P' & S' & Hm'); [done..|]. split; [done| |done|done].
  assert (Hfits : forall h q, fits at_ h q -> fits (upd at_ p (Some (k, v))) h q).
  { intros h q [H0|(k' & v' & H' & Hd)]; [by left|right]. exists k', v'. split; [|done].
    rewrite upd_ne; [done|]. intros E. rewrite (P _ _ E), He in H'. done. }
  intros q k' w Hq. apply Hfits. destruct (Z.eq_dec (q mod n) (p mod n)) as [E|E].
  - rewrite upd_eq in Hq by done. injection Hq as <- <-. by apply (fits_mod at_ _ p).
  - rewrite upd_ne in Hq by done. by apply (R q k' w).
Qed.

(** An entry is never [n - 1] behind its home, as long as a bucket is empty. *)
Lemma dist_bound at_ p k v e : periodic at_ -> robin at_ -> at_ e = None -> at_ p = Some (k, v) ->
  dist (home k) p + 1 < n.
Proof.
  intros P R He Hk. pose proof (dist_range (home k) p).
  destruct (Z.eq_dec (dist (home k) p) (n - 1)) as [E|]; [|lia]. exfalso.
  destruct (chain at_ p k v R Hk (dist e p)) as (k' & v' & Hk' & _); [pose proof (dist_range e p); lia..|].
  enough (X : (p - dist e p) mod n = e mod n) by by rewrite (P _ _ X), He in Hk'.
  transitivity ((e + dist e p + - dist e p) mod n); [|f_equal; lia].
  apply (mod_shift _ _ (- dist e p)). symmetry. apply off_dist.
Qed.

(** Two views that agree hold the same. *)
Lemma valid_ext at_ at' (m : gmap K V) : (forall q, at_ q = at' q) -> valid at_ m -> valid at' m.
Proof.
  intros E [P R S Hm]. split.
  - intros p q Hpq. rewrite <-!E. by apply P.
  - intros p k v. rewrite <-E. intros Hk. destruct (R p k v Hk) as [H0|(k' & v' & Hk' & Hd)]; [by left|right].
    exists k', v'. by rewrite <-E.
  - intros p q k v w. rewrite <-!E. by apply S.
  - intros k v. rewrite (Hm k v). by split; intros (p & Hp); exists p; rewrite ?E in *; rewrite <-?E in *.
Qed.

(** Another value for a key that is there. *)
Lemma revalue_valid at_ m p k w v : valid at_ m -> at_ p = Some (k, w) ->
  valid (upd at_ p (Some (k, v))) (<[k := v]> m).
Proof.
  intros [P R S Hm] Hp.
  assert (Hinv : forall q k' v', upd at_ p (Some (k, v)) q = Some (k', v') ->
    exists w', at_ q = Some (k', w') /\ (k' = k /\ v' = v \/ k' <> k /\ v' = w')).
  { intros q k' v' Hq. destruct (Z.eq_dec (q mod n) (p mod n)) as [E|E].
    - rewrite upd_eq in Hq by done. injection Hq as <- <-. exists w. rewrite (P _ _ E). split; [done|by left].
    - rewrite upd_ne in Hq by done. exists v'. split; [done|]. right. split; [|done]. intros ->.
      by apply E, (S _ _ k v' w). }
  assert (Hfwd : forall q k' w', at_ q = Some (k', w') -> exists v', upd at_ p (Some (k, v)) q = Some (k', v') /\
    (k' <> k -> v' = w')).
  { intros q k' w' Hq. destruct (Z.eq_dec (q mod n) (p mod n)) as [E|E].
    - rewrite (P _ _ E), Hp in Hq. injection Hq as <- <-. exists v. by rewrite upd_eq.
    - exists w'. by rewrite upd_ne. }
  split.
  - by apply upd_periodic.
  - intros q k' v' (w' & Hq & _)%Hinv. destruct (R _ _ _ Hq) as [H0|(k2 & w2 & H2 & Hd)]; [by left|right].
    destruct (Hfwd _ _ _ H2) as (v2 & Hv2 & _). by exists k2, v2.
  - intros q q' k' v1 v2 (w1 & H1 & _)%Hinv (w2 & H2 & _)%Hinv. by eapply S.
  - intros k' v'. destruct (decide (k' = k)) as [->|Hk].
    + rewrite lookup_insert_eq. split.
      * intros [= <-]. exists p. by apply upd_eq.
      * intros (q & (w' & _ & [[_ ->]|[? _]])%Hinv); done.
    + rewrite lookup_insert_ne by done. split.
      * intros (q & Hq)%Hm. destruct (Hfwd _ _ _ Hq) as (v2 & Hv2 & E). exists q. by rewrite <-(E Hk).
      * intros (q & (w' & Hq & [[? _]|[_ ->]])%Hinv); [done|]. apply Hm. by exists q.
Qed.

(** ** A run moved forward *)

(** The buckets from the offset [t] to [u] behind [h] get the entry [x] and those that
    were one before them. *)
Definition forward (at_ : view) (h t u : Z) (x : option (K * V)) : view := fun q =>
  let j := dist h q in
  if j <? t then at_ q else if j =? t then x else if j <=? u then at_ (q - 1) else at_ q.

Lemma forward_off at_ h t u x j : 0 <= j < n ->
  forward at_ h t u x (h + j) =
  if j <? t then at_ (h + j) else if j =? t then x else if j <=? u then at_ (h + j - 1) else at_ (h + j).
Proof. intros Hj. unfold forward. by rewrite dist_off. Qed.

Lemma forward_periodic at_ h t u x : periodic at_ -> periodic (forward at_ h t u x).
Proof.
  intros P q q' E. unfold forward. rewrite (dist_mod h _ _ E), (P _ _ E), (P (q - 1) (q' - 1)); [done|].
  by apply (mod_shift q q' (-1)).
Qed.

(** Where an offset lies. *)
Lemma cases3 t u j : t <= u -> j < t \/ j = t \/ t < j <= u \/ u < j.
Proof. lia. Qed.

Lemma forward_contents at_ m h t u k v : contents at_ m -> 0 <= t < u -> u < n -> at_ (h + u) = None ->
  (forall q w, at_ q <> Some (k, w)) -> contents (forward at_ h t u (Some (k, v))) (<[k := v]> m).
Proof.
  intros C Ht Hu He Ha. pose proof C as (P & S & Hm).
  set (gap := forward at_ h t u None).
  assert (Cg : contents gap m).
  { apply (moved_contents at_ gap m h (fun i => if (t <=? i) && (i <? u) then i + 1 else i)); [done| | |].
    - by apply forward_periodic.
    - intros j k' w Hj Hk. unfold gap in Hk. rewrite forward_off in Hk by done.
      destruct (cases3 t u j) as [Hc|[-> |[Hc|Hc]]]; [lia| | | |]; ztest_in Hk; try discriminate Hk.
      + exists j. by ztest_goal.
      + exists (j - 1). ztest_goal. replace (h + (j - 1)) with (h + j - 1) by lia. split; [lia|by split; [|lia]].
      + exists j. by ztest_goal.
    - intros i k' w Hi Hk. assert (i <> u) by (intros ->; congruence). unfold gap.
      destruct (decide (t <= i < u)) as [Hc|Hc].
      + ztest_goal. split; [lia|]. rewrite forward_off by lia. ztest_goal.
        by replace (h + (i + 1) - 1) with (h + i) by lia.
      + assert (Hf : (t <=? i) && (i <? u) = false) by lia. rewrite Hf, forward_off by lia.
        assert (i < t \/ u < i) as [Hd|Hd] by lia; by ztest_goal. }
  pose proof Cg as (Pg & _ & _).
  assert (E : forall q, forward at_ h t u (Some (k, v)) q = upd gap (h + t) (Some (k, v)) q).
  { intros q. destruct (offset h q) as (j & Hj & E & Ed). unfold upd, gap, forward. rewrite E, Ed.
    destruct (Z.eq_dec j t) as [->|Hne]; [by ztest_goal|].
    destruct (Z.eqb_spec ((h + j) mod n) ((h + t) mod n)) as [X|X]; [apply off_inj in X; lia|].
    by rewrite (proj2 (Z.eqb_neq j t)). }
  assert (Cu : contents (upd gap (h + t) (Some (k, v))) (<[k := v]> m)).
  { apply fill_contents; [done| |].
    - unfold gap. rewrite forward_off by lia. by ztest_goal.
    - intros q w Hq. destruct Cg as (_ & _ & Hg).
      assert (Hk : m !! k = Some w) by (apply Hg; by exists q).
      apply Hm in Hk as (q' & Hq'). by eapply Ha. }
  destruct Cu as (Pu & Su & Hu'). split; [by apply forward_periodic|]. split.
  - intros q q' k' w w' Hq Hq'. rewrite E in Hq, Hq'. by eapply Su.
  - intros k' w. destruct (Hu' k' w) as [H1 H2]. split.
    + intros (q & Hq)%H1. exists q. by rewrite E.
    + intros (q & Hq). apply H2. exists q. by rewrite <-E.
Qed.
(** The bucket before the offset [j]. *)
Lemma before at_ h j : periodic at_ -> 0 <= j < n ->
  exists i, 0 <= i < n /\ at_ (h + j - 1) = at_ (h + i) /\ (h + j - 1) mod n = (h + i) mod n /\
    (j = 0 /\ i = n - 1 \/ 0 < j /\ i = j - 1).
Proof.
  intros P Hj. destruct (Z.eq_dec j 0) as [->|].
  - exists (n - 1). pose proof (wrap_pred h) as E. replace (h + 0 - 1) with (h - 1) by lia.
    split; [lia|]. split; [by apply P|]. split; [done|]. left. lia.
  - exists (j - 1). replace (h + j - 1) with (h + (j - 1)) by lia. split_and!; [lia..|done|done|lia].
Qed.

(** [fits] where the bucket before is the same. *)
Lemma fits_same at_ at' h p : at' (p - 1) = at_ (p - 1) -> fits at_ h p -> fits at' h p.
Proof. intros E [H0|(k & v & Hk & Hd)]; [by left|right]. exists k, v. by rewrite E. Qed.

Section forward.
Variables (at_ : view) (h t u : Z) (k : K) (v : V).
Hypothesis P : periodic at_.
Hypothesis R : robin at_.
Hypothesis Hh : h = home k.
Hypothesis Ht : 0 < t < u.
Hypothesis Hu : u < n.
Hypothesis He : at_ (h + u) = None.
Hypothesis Hocc : forall j, t <= j < u -> at_ (h + j) <> None.
Hypothesis Hnear : forall k' w, at_ (h + t) = Some (k', w) -> dist (home k') (h + t) < t.
Hypothesis Hprev : exists k' w, at_ (h + (t - 1)) = Some (k', w) /\ t - 1 <= dist (home k') (h + (t - 1)).

Abbreviation moved := (forward at_ h t u (Some (k, v))).

Lemma forward_new : fits moved (home k) (h + t).
Proof.
  destruct Hprev as (k1 & w1 & Hp & Hd1). right. exists k1, w1.
  replace (h + t - 1) with (h + (t - 1)) by lia. rewrite forward_off by lia. ztest_goal.
  split; [done|]. rewrite <-Hh, dist_off; lia.
Qed.

Lemma forward_moved j k' w : t < j <= u -> at_ (h + j - 1) = Some (k', w) -> fits moved (home k') (h + j).
Proof.
  intros Hj Hk. pose proof (dist_bound at_ _ _ _ _ P R He Hk) as Hb.
  assert (Hs : dist (home k') (h + j) = dist (home k') (h + j - 1) + 1).
  { rewrite <-dist_succ by done. f_equal. lia. }
  right. replace (h + j - 1) with (h + (j - 1)) by lia. rewrite forward_off, Hs by lia.
  destruct (Z.eq_dec j (t + 1)) as [->|Hne].
  - exists k, v. replace (t + 1 - 1) with t by lia. ztest_goal. split; [done|].
    replace (h + (t + 1) - 1) with (h + t) in * by lia. rewrite <-Hh, dist_off by lia.
    specialize (Hnear _ _ Hk). lia.
  - ztest_goal. replace (h + (j - 1) - 1) with (h + j - 2) by lia.
    destruct (at_ (h + j - 2)) as [[k2 w2]|] eqn:E2.
    2:{ exfalso. apply (Hocc (j - 2)); [lia|]. rewrite <-E2. f_equal. lia. }
    exists k2, w2. split; [done|]. replace (h + (j - 1)) with (h + j - 1) by lia.
    assert (E3 : dist (home k2) (h + j - 2) + 1 = dist (home k2) (h + j - 1)).
    { rewrite <-dist_succ by by apply (dist_bound at_ _ _ w2 _ P R He). f_equal. lia. }
    destruct (R _ _ _ Hk) as [H0|(k3 & w3 & H3 & Hd3)].
    + pose proof (dist_range (home k2) (h + j - 1)). lia.
    + replace (h + j - 1 - 1) with (h + j - 2) in * by lia. rewrite E2 in H3. injection H3 as -> ->. lia.
Qed.

Lemma forward_other j k' w : 0 <= j < n -> j < t \/ u < j -> at_ (h + j) = Some (k', w) ->
  fits moved (home k') (h + j).
Proof.
  intros Hj Hc Hk. pose proof (forward_periodic at_ h t u (Some (k, v)) P) as P'.
  destruct (before moved h j P' Hj) as (i & Hi & Ei & Mi & Hcase).
  assert (Ea : at_ (h + j - 1) = at_ (h + i)) by by apply P.
  destruct (Z.eq_dec i u) as [->|Hne].
  - left. destruct (R _ _ _ Hk) as [?|(k2 & w2 & H2 & _)]; [done|]. congruence.
  - apply (fits_same at_); [|by apply (R _ _ w)]. rewrite Ei, Ea, forward_off by done.
    assert (i < t \/ u < i) as [?|?] by lia; by ztest_goal.
Qed.

Lemma forward_robin : robin moved.
Proof.
  apply (robin_range moved h); [by apply forward_periodic|]. intros j k' w Hj Hk.
  rewrite forward_off in Hk by done.
  destruct (cases3 t u j) as [Hc|[-> |[Hc|Hc]]]; [lia| | | |]; ztest_in Hk.
  - apply (forward_other j k' w); [done|by left|done].
  - injection Hk as <- <-. apply forward_new.
  - by apply (forward_moved j k' w).
  - apply (forward_other j k' w); [done|by right|done].
Qed.
End forward.

Lemma forward_valid at_ m h t u k v : valid at_ m -> h = home k -> 0 < t < u -> u < n ->
  at_ (h + u) = None -> (forall j, t <= j < u -> at_ (h + j) <> None) ->
  (forall k' w, at_ (h + t) = Some (k', w) -> dist (home k') (h + t) < t) ->
  (exists k' w, at_ (h + (t - 1)) = Some (k', w) /\ t - 1 <= dist (home k') (h + (t - 1))) ->
  (forall q w, at_ q <> Some (k, w)) -> valid (forward at_ h t u (Some (k, v))) (<[k := v]> m).
Proof.
  intros [P R S Hm] Hh Ht Hu He Hocc Hnear Hprev Ha.
  destruct (forward_contents at_ m h t u k v) as (P' & S' & Hm'); [done|lia|done..|].
  split; [done| |done|done]. by apply forward_robin.
Qed.

(** ** A run moved back *)

(** The entry at the offset [t] is removed, those up to the offset [u] go back by one. *)
Definition backward (at_ : view) (h t u : Z) : view := fun q =>
  let j := dist h q in
  if j <? t then at_ q else if j <? u then at_ (q + 1) else if j =? u then None else at_ q.

Lemma backward_off at_ h t u j : 0 <= j < n ->
  backward at_ h t u (h + j) =
  if j <? t then at_ (h + j) else if j <? u then at_ (h + j + 1) else if j =? u then None else at_ (h + j).
Proof. intros Hj. unfold backward. by rewrite dist_off. Qed.

Lemma backward_periodic at_ h t u : periodic at_ -> periodic (backward at_ h t u).
Proof.
  intros P q q' E. unfold backward. rewrite (dist_mod h _ _ E), (P _ _ E), (P (q + 1) (q' + 1)); [done|].
  by apply (mod_shift q q' 1).
Qed.

Lemma backward_contents at_ m h t u k v : contents at_ m -> 0 <= t <= u -> u < n ->
  at_ (h + t) = Some (k, v) -> contents (backward at_ h t u) (delete k m).
Proof.
  intros C Ht Hu Hk. pose proof (remove_contents at_ m (h + t) k v C Hk) as Cr.
  assert (Hg : forall i, 0 <= i < n -> i <> t -> upd at_ (h + t) None (h + i) = at_ (h + i)).
  { intros i Hi Hne. apply upd_ne. intros E. apply Hne. by apply (off_inj h); [..|lia|]. }
  assert (Hgt : upd at_ (h + t) None (h + t) = None) by by apply upd_eq.
  apply (moved_contents (upd at_ (h + t) None) _ _ h (fun i => if (t <? i) && (i <=? u) then i - 1 else i)); [done| | |].
  - apply backward_periodic. by destruct C.
  - intros j k' w Hj Hq. rewrite backward_off in Hq by done.
    destruct (decide (t <= j < u)) as [Hc|Hc].
    + exists (j + 1). ztest_in Hq. rewrite Hg by lia. ztest_goal.
      replace (h + (j + 1)) with (h + j + 1) by lia. split; [lia|]. split; [done|lia].
    + exists j. assert (j <> u) by (intros ->; destruct (decide (u < t)); [lia|]; by ztest_in Hq).
      assert (j < t \/ u < j) as [?|?] by lia; ztest_in Hq; rewrite Hg by lia; by ztest_goal.
  - intros i k' w Hi Hq. assert (i <> t) by (intros ->; congruence). rewrite Hg in Hq by done.
    destruct (decide (t < i <= u)) as [Hc|Hc].
    + ztest_goal. split; [lia|]. rewrite backward_off by lia. ztest_goal. by replace (h + (i - 1) + 1) with (h + i) by lia.
    + assert (Hf : (t <? i) && (i <=? u) = false) by lia. rewrite Hf, backward_off by lia.
      assert (i < t \/ u < i) as [Hd|Hd] by lia; by ztest_goal.
Qed.

Section backward.
Variables (at_ : view) (h t u : Z) (k : K) (v : V).
Hypothesis P : periodic at_.
Hypothesis R : robin at_.
Hypothesis Ht : 0 <= t <= u.
Hypothesis Hu : u + 1 < n.
Hypothesis Hk : at_ (h + t) = Some (k, v).
Hypothesis Hrun : forall j, t < j <= u -> exists k' w, at_ (h + j) = Some (k', w) /\ dist (home k') (h + j) <> 0.
Hypothesis Hend : forall k' w, at_ (h + (u + 1)) = Some (k', w) -> dist (home k') (h + (u + 1)) = 0.

Abbreviation moved := (backward at_ h t u).

(** Before the run nothing changes. *)
Lemma backward_before j : 0 <= j < n -> j <= t \/ u + 1 < j -> moved (h + j - 1) = at_ (h + j - 1).
Proof.
  intros Hj Hc. pose proof (backward_periodic at_ h t u P) as P'.
  destruct (before moved h j P' Hj) as (i & Hi & Ei & Mi & Hcase).
  rewrite Ei, (P _ _ Mi), backward_off by done.
  assert (i < t \/ u < i) as [?|?] by lia; by ztest_goal.
Qed.

Lemma backward_moved j k' w : t <= j < u -> at_ (h + j + 1) = Some (k', w) -> fits moved (home k') (h + j).
Proof.
  intros Hj Hq. destruct (Hrun (j + 1)) as (k1 & w1 & H1 & Hd); [lia|].
  replace (h + (j + 1)) with (h + j + 1) in * by lia. rewrite Hq in H1. injection H1 as <- <-.
  destruct (R _ _ _ Hq) as [H0|(k2 & w2 & H2 & Hd2)]; [done|].
  replace (h + j + 1 - 1) with (h + j) in * by lia.
  assert (E : dist (home k') (h + j) = dist (home k') (h + j + 1) - 1).
  { rewrite <-dist_pred by done. f_equal. lia. }
  destruct (Z.eq_dec j t) as [->|Hne].
  - destruct (R _ _ _ H2) as [H0|(k3 & w3 & H3 & Hd3)].
    + left. pose proof (dist_range (home k') (h + t)). lia.
    + right. exists k3, w3. rewrite backward_before by lia. split; [done|lia].
  - right. exists k2, w2. destruct (Hrun j) as (k3 & w3 & H3 & Hd3); [lia|].
    rewrite H2 in H3. injection H3 as <- <-. rewrite (dist_pred _ _ Hd3).
    replace (h + j - 1) with (h + (j - 1)) by lia. rewrite backward_off by lia. ztest_goal.
    replace (h + (j - 1) + 1) with (h + j) by lia. split; [done|lia].
Qed.

Lemma backward_robin : robin moved.
Proof.
  apply (robin_range moved h); [by apply backward_periodic|]. intros j k' w Hj Hq.
  rewrite backward_off in Hq by done.
  destruct (decide (t <= j < u)) as [Hc|Hc]; [ztest_in Hq; by apply (backward_moved j k' w)|].
  destruct (Z.eq_dec j (u + 1)) as [->|Hne].
  - ztest_in Hq. left. by apply (Hend _ w).
  - assert (j <> u) by (intros ->; by ztest_in Hq).
    assert (Hq' : at_ (h + j) = Some (k', w)) by (assert (j < t \/ u < j) as [?|?] by lia; by ztest_in Hq).
    apply (fits_same at_); [|by apply (R _ _ w)]. apply backward_before; [done|lia].
Qed.
End backward.

Lemma backward_valid at_ m h t u k v : valid at_ m -> 0 <= t <= u -> u + 1 < n -> at_ (h + t) = Some (k, v) ->
  (forall j, t < j <= u -> exists k' w, at_ (h + j) = Some (k', w) /\ dist (home k') (h + j) <> 0) ->
  (forall k' w, at_ (h + (u + 1)) = Some (k', w) -> dist (home k') (h + (u + 1)) = 0) ->
  valid (backward at_ h t u) (delete k m).
Proof.
  intros [P R S Hm] Ht Hu Hk Hrun Hend.
  destruct (backward_contents at_ m h t u k v) as (P' & S' & Hm'); [done|lia|lia|done|].
  split; [done| |done|done]. by eapply backward_robin.
Qed.
End view.
