(* ===== verification/SimpleHashProof.v ===== *)
(** * The hash table as a Robin Hood table

    First [SH_GROW], which copies the table into one of twice the size: it takes the
    entries of the old table in order, from one that is not wrapped around, and puts each
    into the first empty bucket from its home, without a look at the distances.  The
    result is in order all the same: entry by entry, the first [j] buckets fill only the
    first [j] of the two halves.  Then positions, lookup and deletion. *)
From stdpp Require Import gmap.
From S2P Require Import Prelude SimpleHashView Array SimpleHash.

Open Scope Z_scope.

Section grow.
Context {K V : Type} `{Countable K}.
Variable hash : K -> Z.
Variable n : Z.
Hypothesis Hn : 1 < n.

Abbreviation home := (fun k => hash k mod n).
Abbreviation home2 := (fun k => hash k mod (2 * n)).
Abbreviation view := (Z -> option (K * V)).

Lemma home2_home k : (hash k mod (2 * n)) mod n = hash k mod n.
Proof. apply Z.mod_mod_divide. by exists 2. Qed.

Variables (old : view) (m : gmap K V) (s : Z).
Hypothesis Hold : valid home n old m.
Hypothesis Hstart : forall k v, old s = Some (k, v) -> dist n (hash k mod n) s = 0.

(** The offset of the home of a key behind the start. *)
Definition home_off (k : K) : Z := dist n s (hash k mod n).

Lemma old_dist x : 0 <= x -> x < n -> forall k v, old (s + x) = Some (k, v) -> dist n (hash k mod n) (s + x) <= x.
Proof.
  intros Hx. pattern x. revert x Hx. apply natlike_ind.
  - intros _ k v Hk. rewrite Z.add_0_r in *. rewrite (Hstart k v Hk). lia.
  - intros x Hx IH Hs k v Hk. destruct (v_robin _ _ _ _ Hold _ _ _ Hk) as [->|(k' & v' & Hk' & Hd)]; [lia|].
    replace (s + Z.succ x - 1) with (s + x) in * by lia. specialize (IH ltac:(lia) _ _ Hk'). lia.
Qed.

Lemma old_home x k v : 0 <= x < n -> old (s + x) = Some (k, v) ->
  home_off k = x - dist n (hash k mod n) (s + x).
Proof.
  intros Hx Hk. pose proof (old_dist x ltac:(lia) ltac:(lia) k v Hk) as Hd.
  pose proof (dist_range n Hn (hash k mod n) (s + x)). unfold home_off.
  rewrite <-(dist_off n s (x - dist n (hash k mod n) (s + x))) by lia. apply dist_mod.
  pose proof (mod_shift n _ _ (- dist n (hash k mod n) (s + x)) (off_dist n (hash k mod n) (s + x))) as E.
  etransitivity; [|etransitivity; [exact E|]]; f_equal; lia.
Qed.

(** The homes are in the order of the entries. *)
Lemma old_mono y : 0 <= y -> y < n -> forall x k v k' v', 0 <= x <= y ->
  old (s + x) = Some (k, v) -> old (s + y) = Some (k', v') -> home_off k <= home_off k'.
Proof.
  intros Hy. pattern y. revert y Hy. apply natlike_ind.
  - intros _ x k v k' v' Hx Hk Hk'. assert (x = 0) as -> by lia. rewrite Hk in Hk'. injection Hk' as <- _. lia.
  - intros y Hy IH Hs x k v k' v' Hx Hk Hk'.
    destruct (Z.eq_dec x (Z.succ y)) as [->|Hne]; [rewrite Hk in Hk'; injection Hk' as <- _; lia|].
    rewrite (old_home x k v), (old_home (Z.succ y) k' v') by (done || lia).
    pose proof (dist_range n Hn (hash k mod n) (s + x)).
    destruct (v_robin _ _ _ _ Hold _ _ _ Hk') as [->|(k2 & v2 & H2 & Hd)]; [lia|].
    replace (s + Z.succ y - 1) with (s + y) in * by lia.
    specialize (IH ltac:(lia) x k v k2 v2 ltac:(lia) Hk H2).
    rewrite (old_home x k v), (old_home y k2 v2) in IH by (done || lia). lia.
Qed.

(** The new table after the buckets at the offsets below [j]. *)
Record copied (j : Z) (new : view) (m' : gmap K V) : Prop := {
  c_valid : valid home2 (2 * n) new m';
  c_map : forall k v, m' !! k = Some v <-> exists x, 0 <= x < j /\ old (s + x) = Some (k, v);
  c_place : forall q k v, new q = Some (k, v) ->
    home_off k <= dist n s q < j /\ dist (2 * n) (hash k mod (2 * n)) q = dist n s q - home_off k
}.

Lemma copied_empty new : (forall q, new q = None) -> copied 0 new ∅.
Proof.
  intros Hq. split; [split| |].
  - intros p q _. by rewrite !Hq.
  - intros p k v. by rewrite Hq.
  - intros p q k v w. by rewrite Hq.
  - intros k v. rewrite lookup_empty. split; [done|]. intros (p & Hp). by rewrite Hq in Hp.
  - intros k v. rewrite lookup_empty. split; [done|]. intros (x & ? & _). lia.
  - intros q k v. by rewrite Hq.
Qed.

Lemma copied_skip j new m' : 0 <= j -> copied j new m' -> old (s + j) = None -> copied (j + 1) new m'.
Proof.
  intros Hj [C1 C2 C3] He. split; [done| |].
  - intros k v. rewrite C2. split; intros (x & Hx & Hk).
    + exists x. split; [lia|done].
    + exists x. assert (x <> j) by (intros ->; congruence). split; [lia|done].
  - intros q k v Hq. destruct (C3 _ _ _ Hq). split; [lia|done].
Qed.

Lemma copied_ext j new new' m' : (forall q, new q = new' q) -> copied j new m' -> copied j new' m'.
Proof.
  intros E [C1 C2 C3]. split; [by apply (valid_ext home2 (2 * n) new)|done|].
  intros q k v. rewrite <-E. apply C3.
Qed.

Section step.
Variables (j : Z) (new : view) (m' : gmap K V) (k : K) (v : V).
Hypothesis Hj : 0 <= j < n.
Hypothesis C : copied j new m'.
Hypothesis Hk : old (s + j) = Some (k, v).

Lemma new_key_absent q w : new q <> Some (k, w).
Proof.
  intros Hq. assert (Hm : m' !! k = Some w) by (apply (v_holds _ _ _ _ (c_valid _ _ _ C)); by exists q).
  apply (c_map _ _ _ C) in Hm as (x & Hx & Hk').
  pose proof (v_single _ _ _ _ Hold _ _ _ _ _ Hk Hk') as E. apply off_inj in E; lia.
Qed.

Lemma home_off_le : 0 <= home_off k <= j.
Proof.
  pose proof (old_home j k v Hj Hk). pose proof (old_dist j ltac:(lia) ltac:(lia) k v Hk).
  pose proof (dist_range n Hn (hash k mod n) (s + j)). lia.
Qed.

(** The offset of the buckets from the home on. *)
Lemma probe_off i : 0 <= i -> home_off k + i < n -> dist n s (hash k mod (2 * n) + i) = home_off k + i.
Proof.
  intros Hi Hb. pose proof home_off_le. rewrite <-(dist_off n s (home_off k + i)) by lia. apply dist_mod.
  rewrite Z.add_assoc. apply mod_shift. unfold home_off. rewrite off_dist, Z.mod_mod by lia. apply home2_home.
Qed.

(** There is an empty bucket near. *)
Lemma probe_free : new (hash k mod (2 * n) + (j - home_off k)) = None.
Proof.
  pose proof home_off_le. destruct (new _) as [[k' w]|] eqn:E; [|done]. exfalso.
  destruct (c_place _ _ _ C _ _ _ E) as [Hp _]. rewrite probe_off in Hp; lia.
Qed.

Section probe.
Variable i : Z.
Hypothesis Hi : 0 <= i.
Hypothesis Hocc : forall i', 0 <= i' < i -> new (hash k mod (2 * n) + i') <> None.
Hypothesis He : new (hash k mod (2 * n) + i) = None.

Lemma probe_le : i <= j - home_off k.
Proof.
  destruct (Z_le_gt_dec i (j - home_off k)); [done|]. exfalso.
  pose proof home_off_le. apply (Hocc (j - home_off k)); [lia|apply probe_free].
Qed.

Lemma probe_dist : dist (2 * n) (hash k mod (2 * n)) (hash k mod (2 * n) + i) = i.
Proof. pose proof home_off_le. pose proof probe_le. apply dist_off. lia. Qed.

Lemma step_valid : valid home2 (2 * n) (upd (2 * n) new (hash k mod (2 * n) + i) (Some (k, v))) (<[k := v]> m').
Proof.
  pose proof home_off_le as Hh. pose proof probe_le as Hij. pose proof (c_valid _ _ _ C) as Hv.
  apply fill_valid; [done|done|apply new_key_absent|].
  destruct (Z.eq_dec i 0) as [E0|Hne]; [left; by rewrite probe_dist|right]. rewrite probe_dist.
  destruct (new (hash k mod (2 * n) + (i - 1))) as [[k' w]|] eqn:E; [|by apply Hocc in E; lia].
  exists k', w. replace (hash k mod (2 * n) + i - 1) with (hash k mod (2 * n) + (i - 1)) by lia.
  split; [done|]. destruct (c_place _ _ _ C _ _ _ E) as [Hp ->]. rewrite probe_off in * by lia.
  assert (Hm : m' !! k' = Some w) by (apply (v_holds _ _ _ _ Hv); by eexists).
  apply (c_map _ _ _ C) in Hm as (x & Hx & Hk').
  pose proof (old_mono j ltac:(lia) ltac:(lia) x k' w k v ltac:(lia) Hk' Hk). lia.
Qed.

Lemma step_map k' w : <[k := v]> m' !! k' = Some w <-> exists x, 0 <= x < j + 1 /\ old (s + x) = Some (k', w).
Proof.
  destruct (decide (k' = k)) as [->|Hne].
  - rewrite lookup_insert_eq. split.
    + intros [= <-]. exists j. split; [lia|done].
    + intros (x & Hx & Hk'). pose proof (v_single _ _ _ _ Hold _ _ _ _ _ Hk Hk') as E.
      apply off_inj in E; [|lia..]. subst x. congruence.
  - rewrite lookup_insert_ne by done. rewrite (c_map _ _ _ C). split; intros (x & Hx & Hk').
    + exists x. split; [lia|done].
    + exists x. assert (x <> j) by (intros ->; congruence). split; [lia|done].
Qed.

Lemma step_place q k' w : upd (2 * n) new (hash k mod (2 * n) + i) (Some (k, v)) q = Some (k', w) ->
  home_off k' <= dist n s q < j + 1 /\ dist (2 * n) (hash k' mod (2 * n)) q = dist n s q - home_off k'.
Proof.
  intros Hq. pose proof home_off_le as Hh. pose proof probe_le as Hij.
  destruct (Z.eq_dec (q mod (2 * n)) ((hash k mod (2 * n) + i) mod (2 * n))) as [E|E].
  - rewrite upd_eq in Hq by done. injection Hq as <- <-.
    rewrite (dist_mod (2 * n) _ _ _ E), probe_dist.
    assert (E' : q mod n = (hash k mod (2 * n) + i) mod n).
    { rewrite <-(Z.mod_mod_divide q (2 * n) n), E, Z.mod_mod_divide; [done|by exists 2..]. }
    rewrite (dist_mod n _ _ _ E'), probe_off by lia. lia.
  - rewrite upd_ne in Hq by done. destruct (c_place _ _ _ C _ _ _ Hq). split; [lia|done].
Qed.

Lemma copied_step : copied (j + 1) (upd (2 * n) new (hash k mod (2 * n) + i) (Some (k, v))) (<[k := v]> m').
Proof. split; [apply step_valid|apply step_map|apply step_place]. Qed.
End probe.
End step.

(** At the end the new table holds the same map. *)
Lemma copied_all new m' : copied n new m' -> m' = m.
Proof.
  intros C. apply map_eq. intros k. apply option_eq. intros v.
  rewrite (c_map _ _ _ C), (v_holds _ _ _ _ Hold k v). split.
  - intros (x & _ & Hx). by eexists.
  - intros (p & Hp). destruct (offset n Hn s p) as (x & Hx & E & _). exists x. split; [done|].
    by rewrite <-(v_periodic _ _ _ _ Hold _ _ E).
Qed.
End grow.

(** * The hash table as a Robin Hood table: positions, lookup, deletion

    [view_of n d]: the buckets of a block as a function on the integers.  [ok tb m]: the
    table [tb] is well formed, is not full and holds the map [m]. *)

Open Scope Z_scope.

Section proofs.
Context {K V : Type} `{Countable K}.
Variable SH_HASH_KEY : K -> outcome Z.
Variable hash_of : K -> Z.
Hypothesis Hhash : forall k, SH_HASH_KEY k = Ok (hash_of k) /\ 0 <= hash_of k < 2 ^ 32.

Abbreviation element := (@element K V).
Abbreviation hash_table := (@hash_table K V).

(** What a bucket shows. *)
Definition entry_of (e : element) : option (K * V) :=
  if e.(in_use) then Some (e.(key), e.(value)) else None.

Definition view_of (n : Z) (d : list element) : Z -> option (K * V) := fun p =>
  match d !! Z.to_nat (p mod n) with Some e => entry_of e | None => None end.

Definition home (n : Z) (k : K) : Z := hash_of k mod n.

(** The sizes of a table. *)
Record sized (n : Z) (tb : hash_table) : Prop := {
  s_size : tb.(size) = n;
  s_power : exists a, 1 <= a <= 31 /\ n = 2 ^ a;
  s_mask : tb.(sizemask) = n - 1
}.

Record ok (tb : hash_table) (m : gmap K V) : Prop := {
  ok_sized : sized tb.(size) tb;
  ok_len : Z.of_nat (List.length tb.(data)) = tb.(size);
  ok_members : tb.(members) = Z.of_nat (base.size m);
  ok_room : tb.(members) < tb.(size);
  ok_valid : valid (home tb.(size)) tb.(size) (view_of tb.(size) tb.(data)) m
}.

Section positions.
Variables (n : Z) (tb : hash_table).
Hypothesis Hs : sized n tb.

Lemma power_bound : 1 < n /\ 2 * n <= 2 ^ 32.
Proof.
  destruct (s_power _ _ Hs) as (a & Ha & ->). split.
  - change 1 with (2 ^ 0). apply Z.pow_lt_mono_r; lia.
  - rewrite <-Z.pow_succ_r by lia. apply Z.pow_le_mono_r; lia.
Qed.

Lemma mask_mod z : Z.land z tb.(sizemask) = z mod n.
Proof.
  rewrite (s_mask _ _ Hs). destruct (s_power _ _ Hs) as (a & Ha & ->).
  rewrite <-Z.land_ones by lia. by rewrite Z.ones_equiv, Z.sub_1_r.
Qed.

Lemma wrap_mod z : wrap32 z mod n = z mod n.
Proof.
  unfold wrap32. apply Z.mod_mod_divide. destruct (s_power _ _ Hs) as (a & Ha & ->).
  exists (2 ^ (32 - a)). rewrite <-Z.pow_add_r by lia. f_equal. lia.
Qed.

Lemma initial_home k : SH_INITIAL_BUCKET tb (hash_of k) = home n k.
Proof. apply mask_mod. Qed.

Lemma home_range k : 0 <= home n k < n.
Proof. apply Z.mod_pos_bound. pose proof power_bound. lia. Qed.

(** The next and the previous bucket, where they are not the start. *)
Lemma next_ok h t : 0 <= h < n -> 0 <= t -> t + 1 < n ->
  SH_NEXT tb ((h + t) mod n) h = Ok ((h + (t + 1)) mod n).
Proof.
  intros Hh Ht Hn. unfold SH_NEXT. rewrite mask_mod, wrap_mod.
  assert (E : ((h + t) mod n + 1) mod n = (h + (t + 1)) mod n).
  { rewrite Zplus_mod_idemp_l. f_equal. lia. }
  rewrite E, (proj2 (Z.eqb_neq _ _)); [done|]. intros X.
  pose proof power_bound. enough (t + 1 = 0) by lia. apply (off_inj n h); [lia..|].
  rewrite X, Z.add_0_r. symmetry. by apply Z.mod_small.
Qed.

Lemma prev_ok h t : 0 <= h < n -> 1 < t < n ->
  SH_PREV tb ((h + t) mod n) h = Ok ((h + (t - 1)) mod n).
Proof.
  intros Hh Ht. unfold SH_PREV. rewrite mask_mod, wrap_mod.
  assert (E : ((h + t) mod n - 1) mod n = (h + (t - 1)) mod n).
  { rewrite Zminus_mod_idemp_l. f_equal. lia. }
  rewrite E, (proj2 (Z.eqb_neq _ _)); [done|]. intros X.
  pose proof power_bound. enough (t - 1 = 0) by lia. apply (off_inj n h); [lia..|].
  rewrite X, Z.add_0_r. symmetry. by apply Z.mod_small.
Qed.

Lemma distance_ok h p : 0 <= h < n -> SH_DISTANCE_FROM_OPTIMAL tb h (p mod n) = dist n h p.
Proof.
  intros Hh. pose proof power_bound. pose proof (Z.mod_pos_bound p n ltac:(lia)).
  unfold SH_DISTANCE_FROM_OPTIMAL, dist. rewrite <-Zminus_mod_idemp_l, (s_size _ _ Hs).
  destruct (Z.leb_spec h (p mod n)).
  - symmetry. apply Z.mod_small. lia.
  - unfold wrap32. rewrite Z.mod_small by lia. replace (p mod n - h) with (n + p mod n - h + -1 * n) by lia.
    rewrite Z.mod_add by lia. symmetry. apply Z.mod_small. lia.
Qed.
End positions.

(** ** Buckets *)

Section buckets.
Variables (n : Z) (d : list element).
Hypothesis Hn : 1 < n.
Hypothesis Hd : Z.of_nat (List.length d) = n.

Lemma bucket_ok p : exists e, bucket d (p mod n) = Ok e /\ view_of n d p = entry_of e.
Proof.
  pose proof (Z.mod_pos_bound p n ltac:(lia)) as Hp.
  destruct (read_lt d (Z.to_nat (p mod n))) as (e & E & Er); [lia|].
  exists e. split; [done|]. unfold view_of. by rewrite E.
Qed.

Lemma bucket_small i : 0 <= i < n -> exists e, bucket d i = Ok e /\ view_of n d i = entry_of e.
Proof. intros Hi. destruct (bucket_ok i) as (e & E & Ev). exists e. rewrite Z.mod_small in E; done. Qed.

Lemma view_set p e q : view_of n (set_bucket d (p mod n) e) q = upd n (view_of n d) p (entry_of e) q.
Proof.
  pose proof (Z.mod_pos_bound p n ltac:(lia)) as Hp. pose proof (Z.mod_pos_bound q n ltac:(lia)) as Hq.
  unfold view_of, upd, set_bucket. destruct (Z.eqb_spec (q mod n) (p mod n)) as [->|E].
  - rewrite list_lookup_insert_eq by lia. done.
  - rewrite list_lookup_insert_ne by lia. done.
Qed.

Lemma length_set i e : List.length (set_bucket d i e) = List.length d.
Proof. apply length_insert. Qed.

Lemma view_periodic : periodic n (view_of n d).
Proof. intros p q E. unfold view_of. by rewrite E. Qed.
End buckets.

Lemma view_alloc zk zv n p : 0 < n -> view_of n (SH_ALLOCATE zk zv n) p = None.
Proof.
  intros Hn. unfold view_of, SH_ALLOCATE. pose proof (Z.mod_pos_bound p n Hn).
  by rewrite lookup_replicate_2 by lia.
Qed.

Lemma length_alloc zk zv n : 0 < n -> Z.of_nat (List.length (SH_ALLOCATE (K := K) (V := V) zk zv n)) = n.
Proof. intros Hn. unfold SH_ALLOCATE. rewrite length_replicate. lia. Qed.

(** ** An empty bucket *)

Section room.
Variables (n : Z) (at_ : Z -> option (K * V)) (m : gmap K V).
Hypothesis Hn : 1 < n.
Hypothesis Hv : valid (home n) n at_ m.
Hypothesis Hroom : Z.of_nat (base.size m) < n.

Lemma some_empty : exists p, 0 <= p < n /\ at_ p = None.
Proof.
  destruct (decide (Forall (fun i => is_Some (at_ (Z.of_nat i))) (seq 0 (Z.to_nat n)))) as [Hall|Hne].
  2:{ apply not_Forall_Exists in Hne; [|apply _]. apply Exists_exists in Hne as (i & Hi & He).
      apply elem_of_seq in Hi. exists (Z.of_nat i). split; [lia|]. by apply eq_None_not_Some. }
  exfalso. rewrite Forall_forall in Hall.
  assert (Hkeys : exists ks : list K, List.length ks = Z.to_nat n /\ NoDup ks /\ forall k, k ∈ ks -> k ∈ dom m).
  { destruct (at_ 0) as [[k0 v0]|] eqn:E0.
    2:{ destruct (Hall 0%nat) as [x Hx]; [apply elem_of_seq; lia|]. change (Z.of_nat 0) with 0 in Hx. congruence. }
    exists ((fun i => from_option fst k0 (at_ (Z.of_nat i))) <$> seq 0 (Z.to_nat n)).
    split; [by rewrite length_fmap, length_seq|]. split.
    - apply NoDup_fmap_2_strong; [|apply NoDup_seq]. intros i j Hi Hj E.
      destruct (Hall i Hi) as [[k v] Hki], (Hall j Hj) as [[k' v'] Hkj]. rewrite Hki, Hkj in E. cbn in E. subst k'.
      pose proof (v_single _ _ _ _ Hv _ _ _ _ _ Hki Hkj) as Em. apply elem_of_seq in Hi, Hj.
      rewrite !Z.mod_small in Em; lia.
    - intros k (i & -> & Hi)%list_elem_of_fmap. destruct (Hall i Hi) as [[k v] Hk]. rewrite Hk. cbn.
      apply elem_of_dom. exists v. apply (v_holds _ _ _ _ Hv). by eexists. }
  destruct Hkeys as (ks & Hlen & Hnd & Hsub).
  assert (Hle : (base.size (list_to_set ks : gset K) <= base.size (dom m))%nat).
  { apply subseteq_size. intros k Hk. apply Hsub. by apply elem_of_list_to_set in Hk. }
  rewrite size_list_to_set in Hle by done. rewrite size_dom in Hle. lia.
Qed.

(** The first empty bucket from [h] on. *)
Lemma first_empty_below h j : 0 <= j ->
  (forall i, 0 <= i < j -> at_ (h + i) <> None) \/
  exists u, 0 <= u < j /\ at_ (h + u) = None /\ forall i, 0 <= i < u -> at_ (h + i) <> None.
Proof.
  intros Hj. pattern j. revert j Hj. apply natlike_ind; [left; lia|].
  intros j Hj [IH|(u & Hu & He & Hocc)]; [|right; exists u; split; [lia|done]].
  destruct (at_ (h + j)) as [x|] eqn:E.
  - left. intros i Hi. destruct (Z.eq_dec i j) as [->|]; [congruence|apply IH; lia].
  - right. exists j. split; [lia|done].
Qed.

Lemma first_empty_off h : exists u, 0 <= u < n /\ at_ (h + u) = None /\ forall j, 0 <= j < u -> at_ (h + j) <> None.
Proof.
  destruct some_empty as (p & _ & He). destruct (offset n Hn h p) as (j & Hj & E & _).
  destruct (first_empty_below h n ltac:(lia)) as [Hall|Hu]; [|done].
  exfalso. apply (Hall j Hj). by rewrite <-(v_periodic _ _ _ _ Hv _ _ E).
Qed.
End room.

(** ** Lookup *)

Section search.
Variables (tb : hash_table) (m : gmap K V) (k : K).
Hypothesis Hok : ok tb m.

Abbreviation n := (tb.(size)).
Abbreviation h := (home tb.(size) k).
Abbreviation at_ := (view_of tb.(size) tb.(data)).

Lemma size_gt : 1 < n.
Proof. apply (power_bound _ _ (ok_sized _ _ Hok)). Qed.

Lemma home_in : 0 <= h < n.
Proof. apply (home_range _ _ (ok_sized _ _ Hok)). Qed.

Lemma free_off : exists u, 0 <= u < n /\ at_ (h + u) = None /\ forall j, 0 <= j < u -> at_ (h + j) <> None.
Proof.
  apply (first_empty_off n at_ m size_gt (ok_valid _ _ Hok)).
  rewrite <-(ok_members _ _ Hok). apply (ok_room _ _ Hok).
Qed.

(** The buckets at the offsets below [t] hold other keys. *)
Definition others (t : Z) : Prop := forall j, 0 <= j < t -> exists k' v', at_ (h + j) = Some (k', v') /\ k' <> k.

Lemma others_S t k' v' : others t -> at_ (h + t) = Some (k', v') -> k' <> k -> others (t + 1).
Proof.
  intros Ho Hk Hne j Hj. destruct (Z.eq_dec j t) as [->|]; [by exists k', v'|apply Ho; lia].
Qed.

Lemma others_absent t : 0 <= t < n -> others t -> at_ (h + t) = None -> m !! k = None.
Proof.
  intros Ht Ho He. apply eq_None_not_Some. intros [v (p & Hp)%(v_holds _ _ _ _ (ok_valid _ _ Hok))].
  destruct (ok_valid _ _ Hok) as [P R S Hm].
  refine (absent (home n) n size_gt at_ k t P R Ht Ho _ p v Hp). intros k' v' Hk'. congruence.
Qed.

Lemma holds_at p v : at_ p = Some (k, v) -> m !! k = Some v.
Proof. intros Hp. apply (v_holds _ _ _ _ (ok_valid _ _ Hok)). by exists p. Qed.

(** The bucket at an offset. *)
Lemma bucket_at p : exists e, bucket tb.(data) (p mod n) = Ok e /\ at_ p = entry_of e.
Proof. apply bucket_ok; [apply size_gt|apply (ok_len _ _ Hok)]. Qed.

(** What a search for [k] returns. *)
Definition found (r : option Z) : Prop :=
  match m !! k with
  | Some v => exists i, r = Some i /\ 0 <= i < n /\ at_ i = Some (k, v)
  | None => r = None
  end.

Lemma at_mod p : at_ (p mod n) = at_ p.
Proof. unfold view_of. by rewrite Z.mod_mod by (pose proof size_gt; lia). Qed.

Lemma lookup_loop_ok u fuel : u < n -> at_ (h + u) = None -> (forall j, 0 <= j < u -> at_ (h + j) <> None) ->
  forall t, 0 <= t <= u -> others t -> u - t < Z.of_nat fuel ->
  exists r, lookup_loop fuel tb k h ((h + t) mod n) = Ok r /\ found r.
Proof.
  intros Hu He Hocc. induction fuel as [|fuel IH]; intros t Ht Ho Hf; [lia|]. cbn [lookup_loop].
  destruct (bucket_at (h + t)) as (e & -> & Ev). cbn [obind]. unfold entry_of in Ev.
  destruct (in_use e); cbn [negb].
  - destruct (decide (key e = k)) as [Ek|Ek].
    + eexists. split; [done|]. unfold found. rewrite Ek in Ev. rewrite (holds_at _ _ Ev).
      eexists. split; [done|]. split; [apply Z.mod_pos_bound; lia|]. by rewrite at_mod.
    + destruct (Z.eq_dec t u) as [->|Htu]; [congruence|].
      rewrite (next_ok _ _ (ok_sized _ _ Hok)) by (apply home_in || lia). cbn [obind].
      apply IH; [lia| |lia]. by apply (others_S t _ _ Ho Ev).
  - exists None. split; [done|]. unfold found. by rewrite (others_absent t) by (done || lia).
Qed.

Lemma start_mod : h = (h + 0) mod n.
Proof. rewrite Z.add_0_r. symmetry. apply Z.mod_small, home_in. Qed.

Lemma SH_LOOKUP_ok : exists r, SH_LOOKUP SH_HASH_KEY tb k = Ok r /\ found r.
Proof.
  unfold SH_LOOKUP, SH_LOOKUP_HASH_INTERNAL. destruct (Hhash k) as [-> _]. cbn [obind].
  rewrite (initial_home _ _ (ok_sized _ _ Hok)). destruct free_off as (u & Hu & He & Hocc).
  destruct (lookup_loop_ok u (Z.to_nat n) ltac:(lia) He Hocc 0) as (r & E & Hr); [lia|intros j; lia|lia|].
  rewrite <-start_mod in E. by exists r.
Qed.

(** ** Deletion *)

(** The block after the entries up to the offset [i] went back over the offset [t]. *)
Definition pulled (t i : Z) : Z -> option (K * V) := fun q =>
  if (t <=? dist n h q) && (dist n h q <? i) then at_ (q + 1) else at_ q.

Lemma pulled_step t i d e : 0 <= t <= i -> i + 1 < n -> Z.of_nat (List.length d) = n ->
  (forall q, view_of n d q = pulled t i q) -> at_ (h + (i + 1)) = entry_of e ->
  forall q, view_of n (set_bucket d ((h + i) mod n) e) q = pulled t (i + 1) q.
Proof.
  intros Hi Hn Hd Hv He q. rewrite view_set by (apply size_gt || done).
  destruct (offset n size_gt h q) as (j & Hj & E & Ed). unfold upd, pulled. rewrite Ed.
  destruct (Z.eqb_spec (q mod n) ((h + i) mod n)) as [X|X].
  - rewrite E in X. apply off_inj in X; [|lia..]. rewrite X in *. ztest_goal.
    rewrite <-He. replace (h + (i + 1)) with (h + i + 1) by lia.
    apply (v_periodic _ _ _ _ (ok_valid _ _ Hok)). symmetry. by apply mod_shift.
  - assert (j <> i) by (intros ->; congruence). rewrite Hv. unfold pulled. rewrite Ed.
    destruct (decide (t <= j < i)); [by ztest_goal|].
    assert (E1 : (t <=? j) && (j <? i) = false) by lia. assert (E2 : (t <=? j) && (j <? i + 1) = false) by lia.
    by rewrite E1, E2.
Qed.

(** The entry at the offset [i] emptied. *)
Lemma pulled_end t i d e : 0 <= t <= i -> i < n -> Z.of_nat (List.length d) = n ->
  (forall q, view_of n d q = pulled t i q) -> entry_of e = None ->
  forall q, view_of n (set_bucket d ((h + i) mod n) e) q = backward n at_ h t i q.
Proof.
  intros Hi Hn Hd Hv He q. rewrite view_set by (apply size_gt || done).
  destruct (offset n size_gt h q) as (j & Hj & E & Ed). unfold upd, backward. rewrite Ed.
  destruct (Z.eqb_spec (q mod n) ((h + i) mod n)) as [X|X].
  - rewrite E in X. apply off_inj in X; [|lia..]. rewrite X in *. by ztest_goal.
  - assert (j <> i) by (intros ->; congruence). rewrite Hv. unfold pulled. rewrite Ed.
    assert (j < t \/ t <= j < i \/ i < j) as [?|[?|?]] by lia; by ztest_goal.
Qed.

Lemma shift_back_ok u t v fuel : u < n -> at_ (h + u) = None -> (forall j, 0 <= j < u -> at_ (h + j) <> None) ->
  0 <= t < u -> at_ (h + t) = Some (k, v) ->
  forall i d, t <= i < u -> Z.of_nat (List.length d) = n -> (forall q, view_of n d q = pulled t i q) ->
  (forall j, t < j <= i -> exists k' w, at_ (h + j) = Some (k', w) /\ dist n (home n k') (h + j) <> 0) ->
  u - i <= Z.of_nat fuel ->
  exists d', shift_back SH_HASH_KEY fuel tb d ((h + i) mod n) ((h + i) mod n) h = Ok d' /\
    Z.of_nat (List.length d') = n /\ valid (home n) n (view_of n d') (delete k m).
Proof.
  intros Hu He Hocc Ht Hk. induction fuel as [|fuel IH]; intros i d Hi Hd Hv Hrun Hf; [lia|]. cbn [shift_back].
  destruct (bucket_ok n d size_gt Hd (h + i)) as (last & -> & _). cbn [obind].
  rewrite (next_ok _ _ (ok_sized _ _ Hok)) by (apply home_in || lia). cbn [obind].
  destruct (bucket_ok n d size_gt Hd (h + (i + 1))) as (e & -> & Ev). cbn [obind].
  assert (Ee : at_ (h + (i + 1)) = entry_of e).
  { rewrite <-Ev, Hv. unfold pulled. rewrite dist_off by lia. by ztest_goal. }
  set (emptied := set_bucket d _ (mkElement _ _ false)).
  assert (Hend : (forall k' w, at_ (h + (i + 1)) = Some (k', w) -> dist n (home n k') (h + (i + 1)) = 0) ->
    exists d', Ok emptied = Ok d' /\ Z.of_nat (List.length d') = n /\
      valid (home n) n (view_of n d') (delete k m)).
  { intros Hz. exists emptied. split; [done|]. split; [unfold emptied; by rewrite length_set|].
    apply (valid_ext _ _ (backward n at_ h t i)); [intros q; symmetry; apply pulled_end; (done || lia)|].
    apply (backward_valid (home n) n size_gt at_ m h t i k v); [apply (ok_valid _ _ Hok)|lia|lia|done..]. }
  unfold entry_of in Ee. destruct (in_use e) eqn:Eu; cbn [negb]; [|apply Hend; congruence].
  unfold SH_ENTRY_HASH. destruct (Hhash (key e)) as [-> _]. cbn [obind].
  rewrite (initial_home _ _ (ok_sized _ _ Hok)).
  assert (Hdist : home n (key e) = (h + (i + 1)) mod n <-> dist n (home n (key e)) (h + (i + 1)) = 0).
  { rewrite <-(off_dist n (home n (key e)) (h + (i + 1))) at 1. split.
    - intros X. apply (off_inj n (home n (key e))); [apply dist_range, size_gt|pose proof size_gt; lia|].
      rewrite <-X, Z.add_0_r. symmetry. apply Z.mod_small, (home_range _ _ (ok_sized _ _ Hok)).
    - intros ->. rewrite Z.add_0_r. symmetry. apply Z.mod_small, (home_range _ _ (ok_sized _ _ Hok)). }
  destruct (Z.eqb_spec (home n (key e)) ((h + (i + 1)) mod n)) as [X|X].
  - apply Hend. intros k' w Hk'. rewrite Ee in Hk'. injection Hk' as <- _. by apply Hdist.
  - assert (i + 1 <> u) by (intros <-; congruence).
    apply IH; [lia|by rewrite length_set| | |lia].
    + apply pulled_step; [lia|lia|done|done|]. unfold entry_of. by rewrite Eu.
    + intros j Hj. destruct (Z.eq_dec j (i + 1)) as [->|]; [|apply Hrun; lia].
      eexists _, _. split; [exact Ee|]. by rewrite <-Hdist.
Qed.

(** A table with another block and another number of members. *)
Lemma with_data (m' : gmap K V) d c : Z.of_nat (List.length d) = n -> valid (home n) n (view_of n d) m' ->
  c = Z.of_nat (base.size m') -> c < n -> ok (set_data (set_members tb c) d) m'.
Proof.
  intros Hd Hv Hc Hn. destruct Hok as [[? ? ?] _ _ _ _].
  split; [by split|done|done|done|done].
Qed.

Lemma delete_loop_ok u fuel : u < n -> at_ (h + u) = None -> (forall j, 0 <= j < u -> at_ (h + j) <> None) ->
  forall t, 0 <= t <= u -> others t -> u - t < Z.of_nat fuel ->
  exists tb', delete_loop SH_HASH_KEY fuel tb k h ((h + t) mod n) = Ok (tb', bool_decide (is_Some (m !! k))) /\
    ok tb' (delete k m) /\ tb'.(size) = n /\ tb'.(grow_threshold) = tb.(grow_threshold).
Proof.
  intros Hu He Hocc. induction fuel as [|fuel IH]; intros t Ht Ho Hf; [lia|]. cbn [delete_loop].
  destruct (bucket_at (h + t)) as (e & -> & Ev). cbn [obind]. unfold entry_of in Ev.
  destruct (in_use e); cbn [negb].
  - destruct (decide (key e = k)) as [Ek|Ek].
    + rewrite Ek in Ev. pose proof (holds_at _ _ Ev) as Hm.
      assert (t <> u) by (intros ->; congruence).
      destruct (shift_back_ok u t (value e) (Z.to_nat n) Hu He Hocc ltac:(lia) Ev t tb.(data)) as (d & -> & Hd & Hv);
        [lia|apply (ok_len _ _ Hok)| |intros; lia|lia|].
      { intros q. unfold pulled. by assert ((t <=? dist n h q) && (dist n h q <? t) = false) as -> by lia. }
      cbn [obind]. rewrite Hm. pose proof (map_size_delete_Some k m (mk_is_Some _ _ Hm)) as Hsz.
      pose proof (ok_room _ _ Hok). pose proof (ok_members _ _ Hok).
      assert (base.size m <> 0%nat) by (intros X%map_size_empty_iff; subst m; by rewrite lookup_empty in Hm).
      pose proof (power_bound _ _ (ok_sized _ _ Hok)).
      eexists. split; [done|]. split; [|done]. apply with_data; [done|done| |]; unfold wrap32; rewrite Z.mod_small; lia.
    + destruct (Z.eq_dec t u) as [->|Htu]; [congruence|].
      rewrite (next_ok _ _ (ok_sized _ _ Hok)) by (apply home_in || lia). cbn [obind].
      apply IH; [lia| |lia]. by apply (others_S t _ _ Ho Ev).
  - pose proof (others_absent t ltac:(lia) Ho Ev) as Hm. exists tb. rewrite Hm, delete_id by done. done.
Qed.

Lemma SH_DELETE_ok : exists tb', SH_DELETE SH_HASH_KEY tb k = Ok (tb', bool_decide (is_Some (m !! k))) /\
  ok tb' (delete k m) /\ tb'.(size) = n /\ tb'.(grow_threshold) = tb.(grow_threshold).
Proof.
  unfold SH_DELETE. destruct (Hhash k) as [-> _]. cbn [obind].
  rewrite (initial_home _ _ (ok_sized _ _ Hok)). destruct free_off as (u & Hu & He & Hocc).
  destruct (delete_loop_ok u (Z.to_nat n) ltac:(lia) He Hocc 0) as (tb' & E & Hr); [lia|intros j; lia|lia|].
  rewrite <-start_mod in E. by exists tb'.
Qed.
End search.
End proofs.
