(* ===== verification/SimpleHashInsert.v ===== *)
(** * The hash table as a Robin Hood table: growth and insertion *)
From stdpp Require Import gmap.
From S2P Require Import Prelude Array SimpleHash SimpleHashView SimpleHashProof.

Open Scope Z_scope.

Section proofs.
Context {K V : Type} `{Countable K}.
Variable SH_HASH_KEY : K -> outcome Z.
Variable hash_of : K -> Z.
Hypothesis Hhash : forall k, SH_HASH_KEY k = Ok (hash_of k) /\ 0 <= hash_of k < 2 ^ 32.
Variable sizeof_element : Z.
Hypothesis Hsizeof : 0 < sizeof_element <= 2 ^ 16.
Variables (zero_key : K) (zero_value : V).

Abbreviation element := (@element K V).
Abbreviation hash_table := (@hash_table K V).
Abbreviation home := (home hash_of).
Abbreviation ok := (ok hash_of).

(** ** Sizes *)

Definition threshold (n : Z) : Z := n * FILLFACTOR_num / 2 ^ 53.

Lemma threshold_lt n : 1 < n -> 0 < threshold n < n.
Proof.
  intros Hn. unfold threshold, FILLFACTOR_num. split.
  - apply Z.div_str_pos. lia.
  - apply Z.div_lt_upper_bound; lia.
Qed.

Lemma threshold_double n : 1 < n -> n <= threshold (2 * n).
Proof. intros Hn. unfold threshold, FILLFACTOR_num. apply Z.div_le_lower_bound; lia. Qed.

Lemma nextpower2_power a : 0 <= a <= 63 -> pg_nextpower2_64 (2 ^ a) = Ok (2 ^ a).
Proof.
  intros Ha. unfold pg_nextpower2_64.
  assert (0 < 2 ^ a) by (apply Z.pow_pos_nonneg; lia). assert (2 ^ a <= 2 ^ 63) by (apply Z.pow_le_mono_r; lia).
  rewrite (proj2 (Z.ltb_lt _ _)), (proj2 (Z.leb_le _ _)) by lia. cbn [andb].
  rewrite Z.sub_1_r, <-Z.ones_equiv, Z.land_ones, Z.mod_same by lia. done.
Qed.

(** The parameters of a table of [2 ^ a] buckets. *)
Lemma compute_parameters_ok (tb : hash_table) newsize a : 1 <= a <= 31 -> pg_nextpower2_64 (Z.max newsize 2) = Ok (2 ^ a) ->
  SH_COMPUTE_PARAMETERS sizeof_element tb newsize =
  Ok (mkTable (2 ^ a) tb.(members) (2 ^ a - 1) (threshold (2 ^ a)) tb.(data)).
Proof.
  intros Ha E. unfold SH_COMPUTE_PARAMETERS. rewrite E. cbn [obind].
  assert (Hp : 2 <= 2 ^ a <= 2 ^ 31).
  { split; [change 2 with (2 ^ 1) at 1|]; apply Z.pow_le_mono_r; lia. }
  pose proof (threshold_lt (2 ^ a)). unfold SH_MAX_SIZE.
  rewrite (proj2 (Z.leb_le _ _)) by lia.
  assert (E1 : (sizeof_element * 2 ^ a >=? (2 ^ 64 - 1) / 2) = false).
  { change ((2 ^ 64 - 1) / 2) with 9223372036854775807. rewrite Z.geb_leb. apply Z.leb_gt.
    change (2 ^ 16) with 65536 in Hsizeof. change (2 ^ 31) with 2147483648 in Hp. nia. }
  rewrite E1, (proj2 (Z.eqb_neq _ _)) by lia. unfold wrap32. rewrite !Z.mod_small; [done| |lia].
  unfold threshold in *. lia.
Qed.

(** ** Growth *)

Section grow.
Variables (tb : hash_table) (m : gmap K V).
Hypothesis Hok : ok tb m.
Hypothesis Hsmall : tb.(size) <= 2 ^ 30.

Abbreviation n := (tb.(size)).
Abbreviation old := (view_of tb.(size) tb.(data)).

(** The new table, without its block. *)
Definition doubled : hash_table := mkTable (2 * n) tb.(members) (2 * n - 1) (threshold (2 * n)) tb.(data).

Lemma double_power : exists a, 1 <= a <= 30 /\ n = 2 ^ a /\ 2 * n = 2 ^ (a + 1).
Proof.
  destruct (s_power _ _ (ok_sized _ _ _ Hok)) as (a & Ha & E). exists a.
  rewrite Z.add_1_r, Z.pow_succ_r, E by lia. split; [|done].
  destruct (Z.eq_dec a 31) as [->|]; [rewrite E in Hsmall; by change (2 ^ 31) with 2147483648 in Hsmall|lia].
Qed.

Lemma doubled_sized : sized (2 * n) doubled.
Proof.
  destruct double_power as (a & Ha & E & E2). split; [done| |done]. exists (a + 1). split; [lia|done].
Qed.

Lemma old_empty : exists u, 0 <= u < n /\ old u = None.
Proof.
  apply (some_empty hash_of n old m (size_gt _ _ _ Hok) (ok_valid _ _ _ Hok)).
  rewrite <-(ok_members _ _ _ Hok). apply (ok_room _ _ _ Hok).
Qed.

Lemma find_start_ok u fuel : 0 <= u < n -> old u = None -> forall i, 0 <= i <= u -> u - i < Z.of_nat fuel ->
  exists s, find_start SH_HASH_KEY fuel doubled tb.(data) i = Ok s /\ 0 <= s < n /\
    forall k v, old s = Some (k, v) -> dist n (hash_of k mod n) s = 0.
Proof.
  intros Hu He. induction fuel as [|fuel IH]; intros i Hi Hf; [lia|]. cbn [find_start].
  destruct (bucket_small n tb.(data) (size_gt _ _ _ Hok) (ok_len _ _ _ Hok) i) as (e & -> & Ev); [lia|].
  cbn [obind]. unfold entry_of in Ev. destruct (in_use e) eqn:Eu; cbn [negb].
  - unfold SH_ENTRY_HASH. destruct (Hhash (key e)) as [-> _]. cbn [obind].
    rewrite (initial_home _ _ _ doubled_sized). destruct (Z.eqb_spec (home (2 * n) (key e)) i) as [X|X].
    + exists i. split; [done|]. split; [lia|]. intros k v Hk. rewrite Ev in Hk. injection Hk as <- _.
      assert (E : hash_of (key e) mod n = i).
      { rewrite <-(home2_home hash_of n). unfold home in X. rewrite X. apply Z.mod_small. lia. }
      rewrite E. unfold dist. by rewrite Z.sub_diag.
    + destruct (Z.eq_dec i u) as [->|]; [congruence|]. apply IH; lia.
  - exists i. split; [done|]. split; [lia|]. intros k v Hk. congruence.
Qed.

Lemma find_free_ok d k fuel : Z.of_nat (List.length d) = 2 * n ->
  forall u, 0 <= u < 2 * n -> view_of (2 * n) d (home (2 * n) k + u) = None -> forall i, 0 <= i <= u ->
  (forall j, 0 <= j < i -> view_of (2 * n) d (home (2 * n) k + j) <> None) -> u - i < Z.of_nat fuel ->
  exists f, find_free fuel doubled d ((home (2 * n) k + i) mod (2 * n)) (home (2 * n) k) =
      Ok ((home (2 * n) k + f) mod (2 * n)) /\ 0 <= f /\
    view_of (2 * n) d (home (2 * n) k + f) = None /\
    forall j, 0 <= j < f -> view_of (2 * n) d (home (2 * n) k + j) <> None.
Proof.
  intros Hd u Hu He. pose proof (size_gt _ _ _ Hok) as Hn.
  induction fuel as [|fuel IH]; intros i Hi Hocc Hf; [lia|]. cbn [find_free].
  destruct (bucket_ok (2 * n) d ltac:(lia) Hd (home (2 * n) k + i)) as (e & -> & Ev). cbn [obind].
  unfold entry_of in Ev. destruct (in_use e); cbn [negb].
  - destruct (Z.eq_dec i u) as [->|]; [congruence|].
    rewrite (next_ok _ _ doubled_sized) by (apply (home_range _ _ _ doubled_sized) || lia). cbn [obind].
    apply IH; [lia| |lia]. intros j Hj. destruct (Z.eq_dec j i) as [->|]; [congruence|apply Hocc; lia].
  - exists i. split; [done|]. split; [lia|]. split; [done|]. intros j Hj. apply Hocc. lia.
Qed.

Section copy.
Variable s : Z.
Hypothesis Hs : 0 <= s < n.
Hypothesis Hstart : forall k v, old s = Some (k, v) -> dist n (hash_of k mod n) s = 0.

(** One element of the old block. *)
Lemma copy_element j d m' e : 0 <= j < n -> Z.of_nat (List.length d) = 2 * n ->
  copied hash_of n old s j (view_of (2 * n) d) m' -> old (s + j) = entry_of e ->
  exists d' m'', copy_entry SH_HASH_KEY doubled d e = Ok d' /\ Z.of_nat (List.length d') = 2 * n /\
    copied hash_of n old s (j + 1) (view_of (2 * n) d') m''.
Proof.
  intros Hj Hd C He. pose proof (size_gt _ _ _ Hok) as Hn. unfold copy_entry. unfold entry_of in He. destruct (in_use e) eqn:Eu.
  - unfold SH_ENTRY_HASH. destruct (Hhash (key e)) as [-> _]. cbn [obind]. cbv zeta.
    rewrite (initial_home _ _ _ doubled_sized).
    pose proof (probe_free hash_of n Hn old m s (ok_valid _ _ _ Hok) Hstart j _ m' _ _ Hj C He) as Hfree.
    pose proof (home_off_le hash_of n Hn old m s (ok_valid _ _ _ Hok) Hstart j _ _ Hj He) as Hle.
    destruct (find_free_ok d (key e) (Z.to_nat (size doubled)) Hd (j - home_off hash_of n s (key e)) ltac:(lia) Hfree 0)
      as (f & Ef & Hf & Hf0 & Hocc); [lia|intros i; lia|cbn; lia|].
    rewrite Z.add_0_r, (Z.mod_small (home (2 * n) (key e))) in Ef by apply (home_range _ _ _ doubled_sized).
    rewrite Ef. cbn [obind]. eexists _, _. split; [done|]. split; [by rewrite length_set|].
    eapply copied_ext; [intros q; symmetry; apply view_set; [lia|done]|].
    unfold entry_of. rewrite Eu. apply (copied_step hash_of n Hn old m s (ok_valid _ _ _ Hok) Hstart j _ m' _ _ Hj C He f Hf Hocc Hf0).
  - eexists _, _. split; [done|]. split; [done|]. apply copied_skip; [lia|done|done].
Qed.

Lemma copy_loop_ok todo : forall j d m', Z.of_nat todo = n - j -> 0 <= j -> Z.of_nat (List.length d) = 2 * n ->
  copied hash_of n old s j (view_of (2 * n) d) m' ->
  exists d' m'', copy_loop SH_HASH_KEY todo doubled n tb.(data) d ((s + j) mod n) = Ok d' /\
    Z.of_nat (List.length d') = 2 * n /\ copied hash_of n old s n (view_of (2 * n) d') m''.
Proof.
  pose proof (size_gt _ _ _ Hok) as Hn. induction todo as [|todo IH]; intros j d m' Ht Hj Hd C.
  - assert (j = n) as -> by lia. by exists d, m'.
  - cbn [copy_loop]. destruct (bucket_at _ _ _ Hok (s + j)) as (e & -> & Ee). cbn [obind].
    destruct (copy_element j d m' e) as (d' & m'' & -> & Hd' & C'); [lia|done..|]. cbn [obind].
    destruct (IH (j + 1) d' m'' ltac:(lia) ltac:(lia) Hd' C') as (d2 & m2 & E & R).
    exists d2, m2. split; [|done]. rewrite <-E. f_equal.
    pose proof (Z.mod_pos_bound (s + j) n ltac:(lia)).
    rewrite Z.add_assoc, <-(Zplus_mod_idemp_l (s + j)).
    destruct (Z.geb_spec ((s + j) mod n + 1) n) as [G|G].
    + assert ((s + j) mod n + 1 = n) as -> by lia. by rewrite Z.mod_same by lia.
    + symmetry. apply Z.mod_small. lia.
Qed.
End copy.

Lemma SH_GROW_ok : exists tb', SH_GROW SH_HASH_KEY sizeof_element zero_key zero_value tb (wrap32 (n * 2)) = Ok tb' /\
  ok tb' m /\ tb'.(size) = 2 * n /\ tb'.(grow_threshold) = threshold (2 * n) /\ tb'.(members) = tb.(members).
Proof.
  pose proof (size_gt _ _ _ Hok) as Hn. destruct double_power as (a & Ha & En & E2).
  assert (Ep : pg_nextpower2_64 n = Ok n) by (rewrite En; apply nextpower2_power; lia).
  unfold SH_GROW. cbv zeta. rewrite Ep. cbn [obind].
  assert (Ew : wrap32 (n * 2) = 2 * n) by (unfold wrap32; rewrite Z.mod_small; lia).
  rewrite Ew, Z.eqb_refl, (proj2 (Z.eqb_neq n _)), (proj2 (Z.ltb_lt _ _)) by (unfold SH_MAX_SIZE; lia). cbn [andb negb].
  rewrite (compute_parameters_ok tb (2 * n) (a + 1)), <-E2 by
    (lia || (rewrite Z.max_l by lia; rewrite E2; apply nextpower2_power; lia)).
  cbn [obind]. fold doubled. destruct old_empty as (u & Hu & He).
  destruct (find_start_ok u (Z.to_nat n) Hu He 0) as (s & -> & Hs & Hstart); [lia..|]. cbn [obind].
  destruct (copy_loop_ok s Hstart (Z.to_nat n) 0 (SH_ALLOCATE zero_key zero_value (2 * n)) ∅)
    as (d & m' & E & Hd & C); [lia|lia|apply length_alloc; lia| |].
  { apply copied_empty. intros q. apply view_alloc. lia. }
  rewrite Z.add_0_r, Z.mod_small in E by done. cbn [SimpleHash.size doubled] in *. rewrite E. cbn [obind].
  pose proof (copied_all hash_of n Hn old m s (ok_valid _ _ _ Hok) _ _ C) as ->.
  eexists. split; [done|]. split; [|done].
  pose proof (ok_room _ _ _ Hok). split; cbn [SimpleHash.size SimpleHash.data members doubled set_data];
    [|done|apply (ok_members _ _ _ Hok)|lia|apply (c_valid _ _ _ _ _ _ _ C)].
  destruct doubled_sized. by split.
Qed.
End grow.

(** ** Insertion *)

Section insert.
Variables (tb : hash_table) (m : gmap K V) (k : K).
Hypothesis Hok : ok tb m.
Hypothesis Hnext : tb.(members) + 1 < tb.(size).

Abbreviation n := (tb.(size)).
Abbreviation h := (home tb.(size) k).
Abbreviation at_ := (view_of tb.(size) tb.(data)).

Definition inserted (r : search_result) : Prop :=
  match r with
  | Found i => exists v, m !! k = Some v /\ 0 <= i < n /\ at_ i = Some (k, v)
  | Inserted tb' i =>
      m !! k = None /\ exists v, ok tb' (<[k := v]> m) /\ tb'.(size) = n /\
        tb'.(grow_threshold) = tb.(grow_threshold) /\ tb'.(members) = tb.(members) + 1 /\
        0 <= i < n /\ view_of n tb'.(data) i = Some (k, v)
  | Restart => above_min_fill tb = true
  end.

(** The buckets at the offsets below [t] hold other keys, as far from home as [k] would be. *)
Definition passed (t : Z) : Prop := forall j, 0 <= j < t ->
  exists k' v', at_ (h + j) = Some (k', v') /\ k' <> k /\ j <= dist n (home n k') (h + j).

Lemma passed_absent t : 0 <= t < n -> passed t ->
  (forall k' v', at_ (h + t) = Some (k', v') -> k' <> k /\ dist n (home n k') (h + t) < t) ->
  forall p v, at_ p <> Some (k, v).
Proof.
  intros Ht Hp He. destruct (ok_valid _ _ _ Hok) as [P R S Hm].
  apply (absent (home n) n (size_gt _ _ _ Hok) at_ k t P R Ht); [|exact He].
  intros j Hj. destruct (Hp j Hj) as (k' & v' & Hk & Hne & _). by exists k', v'.
Qed.

Lemma absent_lookup : (forall p v, at_ p <> Some (k, v)) -> m !! k = None.
Proof.
  intros Ha. apply eq_None_not_Some. intros [v (p & Hp)%(v_holds _ _ _ _ (ok_valid _ _ _ Hok))]. by eapply Ha.
Qed.

Lemma occupy_ok d t : Z.of_nat (List.length d) = n -> m !! k = None ->
  (forall v, valid (home n) n (upd n (view_of n d) (h + t) (Some (k, v))) (<[k := v]> m)) ->
  exists r, occupy tb d ((h + t) mod n) k = Ok r /\ inserted r.
Proof.
  intros Hd Hm Hv. pose proof (size_gt _ _ _ Hok) as Hn. pose proof (power_bound _ _ (ok_sized _ _ _ Hok)).
  unfold occupy. destruct (bucket_ok n d Hn Hd (h + t)) as (e & -> & _). cbn [obind].
  eexists. split; [done|]. split; [done|]. exists (value e).
  pose proof (ok_members _ _ _ Hok) as Hc. pose proof (map_size_insert_None k (value e) m Hm) as Hsz.
  assert (Ec : wrap32 (members tb + 1) = members tb + 1) by (unfold wrap32; rewrite Z.mod_small; lia).
  rewrite Ec. split; [|split_and!; cbn; try done].
  - apply (with_data hash_of tb m Hok); [by rewrite length_set| |lia|done].
    eapply valid_ext; [intros q; symmetry; apply view_set; [lia|done]|apply Hv].
  - apply Z.mod_pos_bound. lia.
  - apply Z.mod_pos_bound. lia.
  - rewrite view_set by (done || lia). apply upd_eq. by rewrite Z.mod_mod by lia.
Qed.

Section run.
Variable u : Z.
Hypothesis Hu : 0 <= u < n.
Hypothesis He : at_ (h + u) = None.
Hypothesis Hocc : forall j, 0 <= j < u -> at_ (h + j) <> None.

Lemma find_empty_ok fuel : forall i c, 0 <= i < u -> u - i <= Z.of_nat fuel ->
  exists r, find_empty fuel tb ((h + i) mod n) h c = Ok r /\
    (r = Some ((h + u) mod n) \/ r = None /\ above_min_fill tb = true).
Proof.
  induction fuel as [|fuel IH]; intros i c Hi Hf; [lia|]. cbn [find_empty].
  rewrite (next_ok _ _ (ok_sized _ _ _ Hok)) by (apply (home_in _ _ _ _ Hok) || lia). cbn [obind].
  destruct (bucket_at _ _ _ Hok (h + (i + 1))) as (e & -> & Ev). cbn [obind].
  destruct (Z.eq_dec (i + 1) u) as [<-|Hne].
  - rewrite He in Ev. unfold entry_of in Ev. destruct (in_use e); [done|]. cbn [negb]. eexists. split; [done|]. by left.
  - destruct (in_use e) eqn:Eu; cbn [negb].
    + destruct ((c + 1 >? SH_GROW_MAX_MOVE) && above_min_fill tb) eqn:Eg.
      * apply andb_true_iff in Eg as [_ Eg]. eexists. split; [done|]. by right.
      * apply IH; lia.
    + exfalso. apply (Hocc (i + 1)); [lia|]. rewrite Ev. unfold entry_of. by rewrite Eu.
Qed.

Lemma shift_forward_ok t fuel : 0 < t -> forall i d, t <= i <= u -> Z.of_nat (List.length d) = n ->
  (forall q, view_of n d q = forward n at_ h i u (at_ (h + i)) q) -> i - t <= Z.of_nat fuel ->
  exists d', shift_forward fuel tb d ((h + i) mod n) ((h + i) mod n) ((h + t) mod n) h = Ok d' /\
    Z.of_nat (List.length d') = n /\ forall q, view_of n d' q = forward n at_ h t u (at_ (h + t)) q.
Proof.
  intros Ht. pose proof (size_gt _ _ _ Hok) as Hn.
  induction fuel as [|fuel IH]; intros i d Hi Hd Hv Hf; cbn [shift_forward].
  - assert (i = t) as -> by lia. rewrite Z.eqb_refl. by exists d.
  - destruct (Z.eqb_spec ((h + i) mod n) ((h + t) mod n)) as [X|X].
    + apply off_inj in X; [|lia..]. subst i. by exists d.
    + assert (i <> t) by congruence.
      rewrite (prev_ok _ _ (ok_sized _ _ _ Hok)) by (apply (home_in _ _ _ _ Hok) || lia). cbn [obind].
      destruct (bucket_ok n d Hn Hd (h + (i - 1))) as (e & -> & Ev). cbn [obind].
      apply IH; [lia|by rewrite length_set| |lia]. intros q. rewrite view_set by done.
      rewrite <-Ev, Hv, forward_off by lia. ztest_goal.
      destruct (offset n Hn h q) as (j & Hj & E & Ed). unfold upd. rewrite Hv. unfold forward. rewrite Ed.
      destruct (Z.eqb_spec (q mod n) ((h + i) mod n)) as [Y|Y].
      * rewrite E in Y. apply off_inj in Y; [|lia..]. rewrite Y in *. ztest_goal.
        apply (view_periodic n). replace (h + (i - 1)) with (h + i + -1) by lia. symmetry. by apply mod_shift.
      * assert (j <> i) by (intros ->; congruence).
        assert (j < i - 1 \/ j = i - 1 \/ i < j <= u \/ u < j) as [?|[?|[?|?]]] by lia; ztest_goal; try done.
        apply (view_periodic n). rewrite E. do 2 f_equal. lia.
Qed.

(** [k] fits behind the buckets it has passed. *)
Lemma passed_fits t : 0 <= t < n -> passed t -> fits (home n) n at_ h (h + t).
Proof.
  intros Ht Hp. destruct (Z.eq_dec t 0) as [->|Hne]; [left; by rewrite dist_off by lia|right].
  destruct (Hp (t - 1)) as (k' & v' & Hk & _ & Hd); [lia|]. exists k', v'.
  replace (h + t - 1) with (h + (t - 1)) by lia. split; [done|]. rewrite dist_off; lia.
Qed.

(** The entry at the offset [t] is nearer to its home: it and its followers make room. *)
Lemma displace_ok t e : 0 <= t < u -> passed t -> at_ (h + t) = Some (key e, value e) -> key e <> k ->
  dist n (home n (key e)) (h + t) < t ->
  exists r,
    (let* empty := find_empty (Z.to_nat n) tb ((h + t) mod n) h 0 in
     match empty with
     | None => Ok Restart
     | Some emptyelem =>
         let* d := shift_forward (Z.to_nat n) tb tb.(data) emptyelem emptyelem ((h + t) mod n) h in
         occupy tb d ((h + t) mod n) k
     end) = Ok r /\ inserted r.
Proof.
  intros Ht Hp Ev Ek Hd. pose proof (size_gt _ _ _ Hok) as Hn. pose proof (dist_range n Hn (home n (key e)) (h + t)).
  destruct (find_empty_ok (Z.to_nat n) t 0) as (r & -> & [-> |[-> Hm]]); [lia..| |by exists Restart]. cbn [obind].
  destruct (shift_forward_ok t (Z.to_nat n) ltac:(lia) u tb.(data)) as (d & -> & Hd' & Hv);
    [lia|apply (ok_len _ _ _ Hok)| |lia|].
  { intros q. destruct (offset n Hn h q) as (j & Hj & E & Ed). unfold forward. rewrite Ed.
    assert (j < u \/ j = u \/ u < j) as [?|[?|?]] by lia; ztest_goal; try done.
    apply (view_periodic n). rewrite E. do 2 f_equal. lia. }
  cbn [obind].
  assert (Ha : forall p v, at_ p <> Some (k, v)).
  { apply (passed_absent t); [lia|done|]. intros k' v' Hk'. rewrite Ev in Hk'. by injection Hk' as <- _. }
  apply occupy_ok; [done|by apply absent_lookup|]. intros v.
  apply (valid_ext _ _ (forward n at_ h t u (Some (k, v)))).
  - intros q. destruct (offset n Hn h q) as (j & Hj & E & Ed). unfold upd. rewrite Hv. unfold forward. rewrite Ed.
    destruct (Z.eqb_spec (q mod n) ((h + t) mod n)) as [X|X].
    + rewrite E in X. apply off_inj in X; [|lia..]. rewrite X. by ztest_goal.
    + assert (j <> t) by (intros ->; congruence). by rewrite (proj2 (Z.eqb_neq j t)).
  - apply forward_valid; [done|apply (ok_valid _ _ _ Hok)|done|lia|lia|done| | | |done].
    + intros j Hj. apply Hocc. lia.
    + intros k' w Hk'. rewrite Ev in Hk'. by injection Hk' as <- _.
    + destruct (Hp (t - 1)) as (k' & v' & Hk & _ & Hd2); [lia|]. by exists k', v'.
Qed.

Lemma search_loop_ok fuel : forall t, 0 <= t <= u -> passed t -> u - t < Z.of_nat fuel ->
  exists r, search_loop SH_HASH_KEY fuel tb k h ((h + t) mod n) t = Ok r /\ inserted r.
Proof.
  pose proof (size_gt _ _ _ Hok) as Hn. pose proof (ok_valid _ _ _ Hok) as Hv. pose proof (ok_len _ _ _ Hok) as Hd.
  induction fuel as [|fuel IH]; intros t Ht Hp Hf; [lia|]. cbn [search_loop].
  destruct (bucket_at _ _ _ Hok (h + t)) as (e & -> & Ev). cbn [obind]. unfold entry_of in Ev.
  destruct (in_use e); cbn [negb].
  2:{ pose proof (passed_absent t ltac:(lia) Hp) as Ha. rewrite Ev in Ha. specialize (Ha ltac:(done)).
      apply (occupy_ok _ t); [done|by apply absent_lookup|]. intros v. apply fill_valid; [done|done|done|].
      apply (passed_fits t); [lia|done]. }
  destruct (decide (key e = k)) as [Ek|Ek].
  { eexists. split; [done|]. rewrite Ek in Ev. exists (value e). split; [by apply (holds_at _ _ _ _ Hok _ _ Ev)|].
    split; [apply Z.mod_pos_bound; lia|]. by rewrite (at_mod _ _ _ Hok). }
  unfold SH_ENTRY_HASH. destruct (Hhash (key e)) as [-> _]. cbn [obind].
  rewrite (initial_home _ _ _ (ok_sized _ _ _ Hok)).
  rewrite (distance_ok _ _ (ok_sized _ _ _ Hok)) by apply (home_range _ _ _ (ok_sized _ _ _ Hok)).
  assert (t <> u) by (intros ->; congruence).
  destruct (Z.gtb_spec t (dist n (home n (key e)) (h + t))) as [Hg|Hg].
  - apply (displace_ok t e); (done || lia).
  - rewrite (next_ok _ _ (ok_sized _ _ _ Hok)) by (apply (home_in _ _ _ _ Hok) || lia). cbn [obind].
    destruct ((t + 1 >? SH_GROW_MAX_DIB) && above_min_fill tb) eqn:Eg.
    + apply andb_true_iff in Eg as [_ Eg]. eexists. by split.
    + apply IH; [lia| |lia]. intros j Hj. destruct (Z.eq_dec j t) as [->|]; [|apply Hp; lia].
      eexists _, _. split; [exact Ev|]. split; [done|lia].
Qed.
End run.
End insert.

(** ** Insertion with growth *)

(** A table between two operations. *)
Definition wf (tb : hash_table) (m : gmap K V) : Prop :=
  ok tb m /\ tb.(grow_threshold) = threshold tb.(size) /\ tb.(members) <= tb.(grow_threshold).

(** A table before the [fuel] last attempts: as between operations, or one that has to
    grow because a search in it was too long. *)
Definition ready (fuel : nat) (tb : hash_table) (m : gmap K V) : Prop :=
  exists a, tb.(size) = 2 ^ a /\ 1 <= a <= 31 /\
    (wf tb m /\ 33 <= Z.of_nat fuel + a \/
     ok tb m /\ tb.(grow_threshold) = 0 /\ above_min_fill tb = true /\ 32 <= Z.of_nat fuel + a).

(** How many entries are certain to find a place. *)
Definition capacity : Z := 100000000.

Lemma above_min_fill_size (tb : hash_table) : 0 <= tb.(members) -> above_min_fill tb = true -> tb.(size) <= 10 * tb.(members).
Proof. unfold above_min_fill, GROW_MIN_FILLFACTOR_num. intros Hm E%Z.leb_le. lia. Qed.

(** The check for growth. *)
Lemma grown_ok fuel (tb : hash_table) m : ready (S fuel) tb m -> tb.(members) <= capacity ->
  exists tb', (if tb.(members) >=? tb.(grow_threshold) then
          if tb.(size) =? SH_MAX_SIZE then Elog "hash table size exceeded"
          else SH_GROW SH_HASH_KEY sizeof_element zero_key zero_value tb (wrap32 (tb.(size) * 2))
        else Ok tb) = Ok tb' /\
    wf tb' m /\ tb'.(members) = tb.(members) /\ tb'.(members) < tb'.(grow_threshold) /\
    exists a, tb'.(size) = 2 ^ a /\ 1 <= a <= 31 /\ 32 <= Z.of_nat fuel + a.
Proof.
  intros (a & Ea & Ha & Hc) Hcap. unfold capacity in Hcap.
  assert (Hok : ok tb m) by (destruct Hc as [[[Hok _] _]|[Hok _]]; exact Hok).
  pose proof (size_gt _ _ _ Hok) as Hn. pose proof (threshold_lt _ Hn) as Ht. pose proof (ok_room _ _ _ Hok) as Hr.
  destruct (Z.geb_spec tb.(members) tb.(grow_threshold)) as [Hg|Hg].
  - assert (Hsmall : tb.(size) <= 2 ^ 30).
    { assert (Hb : tb.(size) <= 1000000000).
      { destruct Hc as [[(_ & Et & _) _]|(_ & _ & Hm & _)]; [|apply above_min_fill_size in Hm; pose proof (ok_members _ _ _ Hok); lia].
        unfold threshold, FILLFACTOR_num in *. rewrite Et in Hg.
        pose proof (Z.mul_div_le (size tb * 8106479329266893) (2 ^ 53)).
        pose proof (Z.mul_succ_div_gt (size tb * 8106479329266893) (2 ^ 53)). lia. }
      rewrite Ea in *. lia. }
    destruct (Z.eqb_spec tb.(size) SH_MAX_SIZE) as [E|_]; [unfold SH_MAX_SIZE in E; lia|].
    destruct (SH_GROW_ok tb m Hok Hsmall) as (tb' & -> & Hok' & Es & Et & Em).
    pose proof (threshold_double _ Hn). exists tb'. split; [done|]. unfold wf. rewrite Es, Et, Em.
    split; [split; [done|]; split; [done|lia]|]. split; [done|]. split; [lia|].
    exists (a + 1). rewrite Z.add_1_r, Z.pow_succ_r, Ea by lia. split; [done|].
    assert (a <> 31) by (intros ->; rewrite Ea in Hsmall; lia). lia.
  - destruct Hc as [[Hwf Hf]|(_ & E0 & _)]; [|pose proof (ok_members _ _ _ Hok); lia].
    exists tb. split; [done|]. split; [done|]. split; [done|]. split; [lia|]. exists a. split; [done|lia].
Qed.

(** What an insertion of [k] into [m] returns. *)
Definition insert_result (m : gmap K V) (k : K) (r : hash_table * Z * bool) : Prop :=
  let '(tb, i, b) := r in
  b = bool_decide (is_Some (m !! k)) /\ 0 <= i < tb.(size) /\
  exists v, wf tb (<[k := v]> m) /\ view_of tb.(size) tb.(data) i = Some (k, v) /\
    (forall w, m !! k = Some w -> v = w).

Lemma insert_internal_ok k fuel : forall tb m, ready fuel tb m -> tb.(members) <= capacity ->
  exists r, SH_INSERT_HASH_INTERNAL SH_HASH_KEY sizeof_element zero_key zero_value fuel tb k (hash_of k) = Ok r /\
    insert_result m k r.
Proof.
  induction fuel as [|fuel IH]; intros tb m Hr Hcap.
  { destruct Hr as (a & _ & Ha & Hc). lia. }
  cbn [SH_INSERT_HASH_INTERNAL]. destruct (grown_ok fuel tb m Hr Hcap) as (tb' & -> & Hwf & Em & Hlt & a & Ea & Ha & Hf).
  cbn [obind]. destruct Hwf as (Hok & Et & Hle). pose proof (size_gt _ _ _ Hok) as Hn. pose proof (threshold_lt _ Hn).
  rewrite (initial_home _ _ _ (ok_sized _ _ _ Hok)).
  destruct (free_off _ _ _ k Hok) as (u & Hu & He & Hocc).
  destruct (search_loop_ok tb' m k Hok ltac:(lia) u Hu He Hocc (Z.to_nat tb'.(size)) 0) as (r & E & Hres); [lia|intros j; lia|lia|].
  rewrite <-(start_mod _ _ _ k Hok) in E. rewrite E. cbn [obind]. destruct r as [i|tb2 i|].
  - destruct Hres as (v & Hm & Hi & Hv). eexists. split; [done|]. split; [by rewrite Hm|]. split; [done|].
    exists v. rewrite insert_id by done. split; [done|]. split; [done|]. intros w Hw. congruence.
  - destruct Hres as (Hm & v & Hok2 & Es & Et2 & Em2 & Hi & Hv). eexists. split; [done|].
    split; [by rewrite Hm|]. rewrite Es. split; [done|]. exists v. rewrite Hm.
    split; [|done]. split; [done|]. rewrite Es, Et2, Em2. split; [done|lia].
  - apply IH; [|cbn; lia]. exists a. split; [done|]. split; [done|]. right.
    split; [|done]. destruct Hok as [[? ? ?] ? ? ? ?]. by split.
Qed.

Lemma SH_INSERT_ok tb m k : wf tb m -> tb.(members) <= capacity ->
  exists r, SH_INSERT SH_HASH_KEY sizeof_element zero_key zero_value tb k = Ok r /\ insert_result m k r.
Proof.
  intros Hwf Hcap. unfold SH_INSERT. destruct (Hhash k) as [-> _]. cbn [obind].
  apply insert_internal_ok; [|done]. destruct (s_power _ _ (ok_sized _ _ _ (proj1 Hwf))) as (a & Ha & E).
  exists a. split; [done|]. split; [done|]. left. split; [done|]. unfold restart_fuel. lia.
Qed.

(** The caller sets the other fields of the entry. *)
Lemma store_ok tb m k w v i : wf tb m -> 0 <= i < tb.(size) -> view_of tb.(size) tb.(data) i = Some (k, w) ->
  wf (set_data tb (set_bucket tb.(data) i (mkElement k v true))) (<[k := v]> m).
Proof.
  intros (Hok & Et & Hle) Hi Hv. split; [|done]. destruct Hok as [[? ? ?] Hd Hc Hr Hval].
  assert (Hm : m !! k = Some w) by (apply (v_holds _ _ _ _ Hval); by exists i).
  split; [by split|cbn; by rewrite length_set| |done|].
  - cbn. by rewrite Hc, map_size_insert_Some by by eexists.
  - pose proof (power_bound tb.(size) tb ltac:(by split)). cbn.
    apply (valid_ext _ _ (upd tb.(size) (view_of tb.(size) tb.(data)) i (Some (k, v)))).
    + intros q. rewrite <-(view_set tb.(size) _ ltac:(lia) Hd i (mkElement k v true)). by rewrite Z.mod_small.
    + by apply (revalue_valid _ _ _ _ i k w v).
Qed.
End proofs.
