(* ===== verification/SimpleHashTheorems.v ===== *)
(** * The hash table is a finite map

    Creation, reset and iteration, and the theorem for every sequence of operations.
    [SH_HASH_KEY] and the size of an element are those of the cache of
    [src/pg_query_fingerprint.c] ([listsort_cache]). *)
From stdpp Require Import gmap.
From S2P Require Import Prelude Array Hashfn SimpleHash SimpleHashView SimpleHashProof SimpleHashInsert.

Open Scope Z_scope.

(** ** The cache *)

Section cache.
Context {V : Type}.
Variable zero_value : V.

(** [hash_bytes((const unsigned char * ) &key, sizeof(uintptr_t))] *)
Definition SH_HASH_KEY (key : Z) : outcome Z := hash_bytes true (pointer_bytes key) 8.
(** [sizeof(FingerprintListsortItemCacheEntry)]: three words and a byte, aligned. *)
Definition sizeof_entry : Z := 32.

Definition listsort_cache_create (nelements : Z) : outcome (@hash_table Z V) :=
  SH_CREATE sizeof_entry 0 zero_value nelements.
Definition listsort_cache_insert (tb : hash_table) (node : Z) : outcome (@hash_table Z V * Z * bool) :=
  SH_INSERT SH_HASH_KEY sizeof_entry 0 zero_value tb node.
Definition listsort_cache_lookup (tb : @hash_table Z V) (node : Z) : outcome (option Z) :=
  SH_LOOKUP SH_HASH_KEY tb node.
Definition listsort_cache_delete (tb : @hash_table Z V) (node : Z) : outcome (@hash_table Z V * bool) :=
  SH_DELETE SH_HASH_KEY tb node.
Definition listsort_cache_reset (tb : @hash_table Z V) : @hash_table Z V := SH_RESET 0 zero_value tb.

(** [while ((entry = listsort_cache_iterate(tb, &iter)) != NULL)] *)
Fixpoint iterate_all (n : nat) (tb : @hash_table Z V) (iter : iterator) : outcome (list element) :=
  match n with
  | O => Undef
  | S n =>
      let* p := SH_ITERATE (Z.to_nat tb.(size)) tb iter in
      match p.1 with
      | None => Ok []
      | Some e => let* l := iterate_all n tb p.2 in Ok (e :: l)
      end
  end.

(** ** Sequences of operations *)

Inductive op : Type :=
| OInsert (node : Z) (v : V)    (* insert, then set the other fields of the entry *)
| OLookup (node : Z)
| ODelete (node : Z)
| OReset
| OIterate.

Inductive answer : Type :=
| AInsert (found : bool)
| ALookup (r : option V)
| ADelete (present : bool)
| AReset
| AIterate (l : list (Z * V)).

Definition run_op (tb : @hash_table Z V) (o : op) : outcome (hash_table * answer) :=
  match o with
  | OInsert node v =>
      let* r := listsort_cache_insert tb node in
      let '(tb, i, found) := r in
      let* e := bucket tb.(data) i in
      Ok (set_data tb (set_bucket tb.(data) i (mkElement e.(key) v e.(in_use))), AInsert found)
  | OLookup node =>
      let* r := listsort_cache_lookup tb node in
      match r with
      | None => Ok (tb, ALookup None)
      | Some i => let* e := bucket tb.(data) i in Ok (tb, ALookup (Some e.(value)))
      end
  | ODelete node => let* r := listsort_cache_delete tb node in Ok (r.1, ADelete r.2)
  | OReset => Ok (listsort_cache_reset tb, AReset)
  | OIterate =>
      let* iter := SH_START_ITERATE tb in
      let* l := iterate_all (S (Z.to_nat tb.(size))) tb iter in
      Ok (tb, AIterate (map (fun e => (e.(key), e.(value))) l))
  end.

Fixpoint run_ops (tb : @hash_table Z V) (os : list op) : outcome (hash_table * list answer) :=
  match os with
  | [] => Ok (tb, [])
  | o :: os =>
      let* r := run_op tb o in
      let* r' := run_ops r.1 os in
      Ok (r'.1, r.2 :: r'.2)
  end.

(** What an operation does to a finite map and answers. *)
Definition map_op (m : gmap Z V) (o : op) (m' : gmap Z V) (a : answer) : Prop :=
  match o, a with
  | OInsert node v, AInsert found => m' = <[node := v]> m /\ found = bool_decide (is_Some (m !! node))
  | OLookup node, ALookup r => m' = m /\ r = m !! node
  | ODelete node, ADelete present => m' = delete node m /\ present = bool_decide (is_Some (m !! node))
  | OReset, AReset => m' = ∅
  | OIterate, AIterate l => m' = m /\ l ≡ₚ map_to_list m
  | _, _ => False
  end.

Fixpoint map_ops (m : gmap Z V) (os : list op) (m' : gmap Z V) (l : list answer) : Prop :=
  match os, l with
  | [], [] => m' = m
  | o :: os, a :: l => exists m1, map_op m o m1 a /\ map_ops m1 os m' l
  | _, _ => False
  end.

(** ** Hashes *)

Definition hash_of (key : Z) : Z := match SH_HASH_KEY key with Ok h => h | _ => 0 end.

Lemma hash_of_ok key : SH_HASH_KEY key = Ok (hash_of key) /\ 0 <= hash_of key < 2 ^ 32.
Proof.
  unfold hash_of, SH_HASH_KEY. destruct (hash_bytes_ok true (pointer_bytes key)) as (h & Hh & E).
  change (List.length (pointer_bytes key)) with 8%nat in E. by rewrite E.
Qed.

Abbreviation wf := (SimpleHashInsert.wf hash_of).
Abbreviation hash_table := (@hash_table Z V).

(** ** Creation and reset *)

Lemma nextpower2_ok x : 2 <= x <= 2 ^ 31 -> exists a, 1 <= a <= 31 /\ pg_nextpower2_64 x = Ok (2 ^ a).
Proof.
  intros Hx. unfold pg_nextpower2_64. rewrite (proj2 (Z.ltb_lt _ _)), (proj2 (Z.leb_le _ _)) by lia. cbn [andb].
  pose proof (Z.log2_le_mono _ _ (proj1 Hx)) as Hlo. change (Z.log2 2) with 1 in Hlo.
  pose proof (Z.log2_le_mono _ _ (proj2 Hx)) as Hhi. change (Z.log2 (2 ^ 31)) with 31 in Hhi.
  destruct (Z.eqb_spec (Z.land x (x - 1)) 0) as [E|E]; rewrite land_pred_power in E by lia.
  - exists (Z.log2 x). split; [lia|by rewrite <-E].
  - exists (Z.log2 x + 1). split; [|done]. split; [lia|].
    destruct (Z.eq_dec (Z.log2 x) 31) as [E31|]; [|lia]. exfalso. apply E. rewrite E31.
    pose proof (Z.log2_spec x ltac:(lia)) as Hs. rewrite E31 in Hs. lia.
Qed.

Lemma empty_ok (tb : hash_table) : sized tb.(size) tb -> tb.(members) = 0 -> tb.(grow_threshold) = threshold tb.(size) ->
  tb.(data) = SH_ALLOCATE 0 zero_value tb.(size) -> wf tb ∅.
Proof.
  intros Hs Hm Ht Hd. pose proof (power_bound _ _ Hs). pose proof (threshold_lt tb.(size)).
  split; [|split; [done|lia]].
  assert (He : forall q, view_of tb.(size) tb.(data) q = None) by (intros q; rewrite Hd; apply view_alloc; lia).
  split; [done|rewrite Hd; apply length_alloc; lia|done|lia|].
  split.
  - intros p q _. by rewrite !He.
  - intros p k v. by rewrite He.
  - intros p q k v w. by rewrite He.
  - intros k v. rewrite lookup_empty. split; [done|]. intros (p & Hp). by rewrite He in Hp.
Qed.

Lemma create_ok nelements : 0 <= nelements <= 2 ^ 30 ->
  exists tb, listsort_cache_create nelements = Ok tb /\ wf tb ∅.
Proof.
  intros Hn. unfold listsort_cache_create, SH_CREATE. cbv zeta.
  assert (Hb : 0 <= nelements * 10 / 9 <= 2 ^ 31).
  { split; [apply Z.div_pos; lia|apply Z.div_le_upper_bound; lia]. }
  destruct (nextpower2_ok (Z.max (nelements * 10 / 9) 2)) as (a & Ha & E); [lia|].
  assert (Hm : Z.min SH_MAX_SIZE (nelements * 10 / 9) = nelements * 10 / 9) by (unfold SH_MAX_SIZE; lia).
  unfold wrap32. rewrite Hm, Z.mod_small by lia.
  rewrite (compute_parameters_ok sizeof_entry ltac:(unfold sizeof_entry; lia) _ _ a Ha E). cbn [obind].
  eexists. split; [done|]. apply empty_ok; cbn; try done. split; [done| |done]. by exists a.
Qed.

Lemma reset_ok tb m : wf tb m -> wf (listsort_cache_reset tb) ∅.
Proof.
  intros (Hok & Et & _). destruct Hok as [[? ? ?] _ _ _ _]. by apply empty_ok.
Qed.

(** ** Iteration *)

Section iterate.
Variables (tb : hash_table) (m : gmap Z V).
Hypothesis Hok : ok hash_of tb m.

Abbreviation n := (tb.(size)).
Abbreviation at_ := (view_of tb.(size) tb.(data)).

Lemma first_empty_ok u fuel : 0 <= u < n -> at_ u = None -> forall i, 0 <= i <= u -> u - i < Z.of_nat fuel ->
  exists s, first_empty fuel tb i = Ok s /\ 0 <= s < n.
Proof.
  intros Hu He. induction fuel as [|fuel IH]; intros i Hi Hf; [lia|]. cbn [first_empty].
  destruct (bucket_small n tb.(data) (size_gt _ _ _ Hok) (ok_len _ _ _ Hok) i) as (e & -> & Ev); [lia|].
  cbn [obind]. unfold entry_of in Ev. destruct (in_use e); cbn [negb].
  - destruct (Z.eq_dec i u) as [->|]; [congruence|]. apply IH; lia.
  - exists i. split; [done|lia].
Qed.

(** The iterator after [i] buckets. *)
Definition state (s i : Z) : iterator := mkIterator ((s - i) mod n) s (i =? n).

Lemma iterate_ok s fuel : 0 <= s < n -> forall i, 0 <= i <= n -> n - i <= Z.of_nat fuel ->
  exists r, SH_ITERATE fuel tb (state s i) = Ok r /\
    match r.1 with
    | None => forall x, i <= x < n -> at_ (s - x) = None
    | Some e => exists y, i <= y < n /\ r.2 = state s (y + 1) /\ at_ (s - y) = Some (e.(key), e.(value)) /\
        forall x, i <= x < y -> at_ (s - x) = None
    end.
Proof.
  intros Hs. pose proof (size_gt _ _ _ Hok) as Hn. induction fuel as [|fuel IH]; intros i Hi Hf.
  { assert (i = n) as -> by lia. cbn [SH_ITERATE]. change (done_ (state s n)) with (n =? n). rewrite Z.eqb_refl.
    eexists. split; [done|]. cbn. intros x Hx. lia. }
  cbn [SH_ITERATE]. change (done_ (state s i)) with (i =? n). change (cur (state s i)) with ((s - i) mod n).
  change (end_ (state s i)) with s. destruct (Z.eqb_spec i n) as [->|Hne]; [eexists; split; [done|]; cbn; intros x Hx; lia|].
  destruct (bucket_at _ _ _ Hok (s - i)) as (e & -> & Ev). cbn [obind].
  assert (Es : mkIterator (Z.land (wrap32 ((s - i) mod n - 1)) tb.(sizemask)) s
      (Z.land (Z.land (wrap32 ((s - i) mod n - 1)) tb.(sizemask)) tb.(sizemask) =? Z.land s tb.(sizemask)) = state s (i + 1)).
  { rewrite !(mask_mod _ _ (ok_sized _ _ _ Hok)), (wrap_mod _ _ (ok_sized _ _ _ Hok)), Z.mod_mod by lia.
    assert (Em : ((s - i) mod n - 1) mod n = (s - (i + 1)) mod n) by (rewrite Zminus_mod_idemp_l; f_equal; lia).
    rewrite Em. unfold state. f_equal. apply eq_true_iff_eq. rewrite !Z.eqb_eq. split; intros E.
    - destruct (Z.eq_dec (i + 1) n) as [|Hx]; [done|]. exfalso.
      pose proof (off_inj n (s - (i + 1)) 0 (i + 1)) as Hi'. rewrite Z.add_0_r in Hi'.
      replace (s - (i + 1) + (i + 1)) with s in Hi' by lia. specialize (Hi' ltac:(lia) ltac:(lia) E). lia.
    - rewrite E. replace (s - n) with (s + -1 * n) by lia. by rewrite Z.mod_add by lia. }
  rewrite Es. unfold entry_of in Ev. destruct (in_use e) eqn:Eu.
  - eexists. split; [done|]. cbn. exists i. split; [lia|]. split; [done|]. split; [done|]. intros x Hx. lia.
  - destruct (IH (i + 1) ltac:(lia) ltac:(lia)) as (r & E & Hr). exists r. split; [done|].
    destruct (r.1) as [e'|].
    + destruct Hr as (y & Hy & E2 & Ha & Hx). exists y. split; [lia|]. split; [done|]. split; [done|].
      intros x Hx'. destruct (Z.eq_dec x i) as [->|]; [done|apply Hx; lia].
    + intros x Hx. destruct (Z.eq_dec x i) as [->|]; [done|apply Hr; lia].
Qed.

(** The pair an entry stands for. *)
Abbreviation pair_of := (fun e : element => (e.(key), e.(value))).

Lemma iterate_all_ok s fuel : 0 <= s < n -> forall i, 0 <= i <= n -> n - i < Z.of_nat fuel ->
  exists l, iterate_all fuel tb (state s i) = Ok l /\ NoDup (map pair_of l) /\
    forall k v, (k, v) ∈ map pair_of l <-> exists x, i <= x < n /\ at_ (s - x) = Some (k, v).
Proof.
  intros Hs. induction fuel as [|fuel IH]; intros i Hi Hf; [lia|]. cbn [iterate_all].
  destruct (iterate_ok s (Z.to_nat n) Hs i Hi) as (r & -> & Hr); [lia|]. cbn [obind]. destruct (r.1) as [e|].
  - destruct Hr as (y & Hy & -> & Ha & Hx). destruct (IH (y + 1)) as (l & -> & Hnd & Hl); [lia..|]. cbn [obind].
    exists (e :: l). split; [done|]. cbn [map]. split.
    + apply NoDup_cons. split; [|done]. intros (x & Hx' & Hk)%Hl.
      pose proof (v_single _ _ _ _ (ok_valid _ _ _ Hok) _ _ _ _ _ Ha Hk) as E.
      replace (s - y) with (s - x + (x - y)) in E by lia. replace (s - x) with (s - x + 0) in E at 2 by lia.
      apply off_inj in E; lia.
    + intros k v. rewrite elem_of_cons, Hl. split.
      * intros [[= -> ->]|(x & Hx' & Hk)]; [by exists y|]. exists x. split; [lia|done].
      * intros (x & Hx' & Hk). assert (x < y \/ x = y \/ y < x) as [?|[->|?]] by lia.
        -- rewrite Hx in Hk by lia. done.
        -- left. rewrite Ha in Hk. by injection Hk as -> ->.
        -- right. exists x. split; [lia|done].
  - exists []. split; [done|]. split; [apply NoDup_nil_2|]. intros k v. split; [by intros ?%not_elem_of_nil|].
    intros (x & Hx & Hk). by rewrite Hr in Hk.
Qed.

Lemma iterate_map : exists iter l, SH_START_ITERATE tb = Ok iter /\
  iterate_all (S (Z.to_nat n)) tb iter = Ok l /\ map pair_of l ≡ₚ map_to_list m.
Proof.
  pose proof (size_gt _ _ _ Hok) as Hn. destruct (some_empty hash_of n at_ m Hn (ok_valid _ _ _ Hok)) as (u & Hu & He).
  { rewrite <-(ok_members _ _ _ Hok). apply (ok_room _ _ _ Hok). }
  destruct (first_empty_ok u (Z.to_nat n) Hu He 0) as (s & E & Hs); [lia..|].
  unfold SH_START_ITERATE. rewrite E. cbn [obind].
  destruct (iterate_all_ok s (S (Z.to_nat n)) Hs 0) as (l & El & Hnd & Hl); [lia..|].
  assert (E0 : state s 0 = mkIterator s s false).
  { unfold state. rewrite Z.sub_0_r, (Z.mod_small s n) by done. rewrite (proj2 (Z.eqb_neq 0 n)); [done|lia]. }
  rewrite E0 in El. eexists _, l. split; [done|]. split; [done|].
  apply NoDup_Permutation; [done|apply NoDup_map_to_list|]. intros [k v].
  rewrite Hl, elem_of_map_to_list, (v_holds _ _ _ _ (ok_valid _ _ _ Hok) k v). split.
  - intros (x & _ & Hx). by eexists.
  - intros (p & Hp). exists (dist n p s). split; [apply dist_range, Hn|].
    rewrite <-Hp. apply (view_periodic n). replace (s - dist n p s) with (s + - dist n p s) by lia.
    rewrite (mod_shift n s (p + dist n p s)) by (symmetry; apply off_dist). f_equal. lia.
Qed.
End iterate.

(** ** Every operation *)

Lemma found_bucket (tb : hash_table) m i k v : ok hash_of tb m -> 0 <= i < tb.(size) ->
  view_of tb.(size) tb.(data) i = Some (k, v) -> bucket tb.(data) i = Ok (mkElement k v true).
Proof.
  intros Hok Hi Hv. destruct (bucket_small _ tb.(data) (size_gt _ _ _ Hok) (ok_len _ _ _ Hok) i Hi) as (e & -> & Ev).
  rewrite Hv in Ev. unfold entry_of in Ev. destruct e as [k' v' []]; [|done]. cbn in Ev. by injection Ev as -> ->.
Qed.

Lemma table_op_ok tb m o : wf tb m -> tb.(members) <= capacity ->
  exists tb' a m', run_op tb o = Ok (tb', a) /\ map_op m o m' a /\ wf tb' m' /\ tb'.(members) <= tb.(members) + 1.
Proof.
  intros Hwf Hcap. pose proof Hwf as (Hok & Et & Hle). pose proof (ok_members _ _ _ Hok) as Hm.
  destruct o as [k v|k|k| |]; cbn [run_op].
  - destruct (SH_INSERT_ok SH_HASH_KEY hash_of hash_of_ok sizeof_entry ltac:(unfold sizeof_entry; lia) 0 zero_value tb m k Hwf Hcap)
      as ([[tb' i] b] & E & Hb & Hi & w & Hwf' & Hv & _).
    unfold listsort_cache_insert. rewrite E. cbn [obind].
    rewrite (found_bucket tb' _ i k w (proj1 Hwf') Hi Hv). cbn [obind].
    pose proof (store_ok _ _ _ _ w v i Hwf' Hi Hv) as Hs. rewrite insert_insert_eq in Hs.
    eexists _, _, _. split; [done|]. split; [done|]. split; [done|].
    pose proof (ok_members _ _ _ (proj1 Hs)) as Hc. rewrite map_size_insert in Hc. cbn [members set_data] in *.
    destruct (m !! k); cbn [id] in Hc; lia.
  - destruct (SH_LOOKUP_ok SH_HASH_KEY hash_of hash_of_ok tb m k Hok) as (r & E & Hr).
    unfold listsort_cache_lookup. rewrite E. cbn [obind]. unfold found in Hr. destruct (m !! k) as [v|] eqn:Ek.
    + destruct Hr as (i & -> & Hi & Hv). rewrite (found_bucket tb m i k v Hok Hi Hv). cbn [obind].
      eexists _, _, m. split; [done|]. split; [done|]. split; [done|lia].
    + subst r. eexists _, _, m. split; [done|]. split; [done|]. split; [done|lia].
  - destruct (SH_DELETE_ok SH_HASH_KEY hash_of hash_of_ok tb m k Hok) as (tb' & E & Hok' & Es & Et').
    unfold listsort_cache_delete. rewrite E. cbn [obind fst snd].
    assert (Hsz : members tb' <= members tb).
    { rewrite (ok_members _ _ _ Hok'), Hm, map_size_delete. destruct (m !! k); cbn [id]; lia. }
    eexists _, _, _. split; [done|]. split; [done|]. split; [|lia].
    split; [done|]. rewrite Et', Es. split; [done|lia].
  - eexists _, _, ∅. split; [done|]. split; [done|]. split; [by eapply reset_ok|cbn; lia].
  - destruct (iterate_map tb m Hok) as (iter & l & E1 & E2 & Hl). rewrite E1. cbn [obind]. rewrite E2. cbn [obind].
    eexists _, _, m. split; [done|]. split; [done|]. split; [done|lia].
Qed.

Lemma run_ops_ok os : forall tb m, wf tb m -> tb.(members) + Z.of_nat (List.length os) <= capacity ->
  exists tb' answers m', run_ops tb os = Ok (tb', answers) /\ map_ops m os m' answers /\ wf tb' m'.
Proof.
  induction os as [|o os IH]; intros tb m Hwf Hcap; [by exists tb, [], m|].
  cbn [List.length] in Hcap. destruct (table_op_ok tb m o Hwf) as (tb1 & a & m1 & E1 & Hm1 & Hwf1 & Hc); [lia|].
  destruct (IH tb1 m1 Hwf1) as (tb' & l & m' & E2 & Hm' & Hwf'); [lia|].
  exists tb', (a :: l), m'. cbn [run_ops]. rewrite E1. cbn [obind fst snd]. rewrite E2.
  split; [done|]. split; [by exists m1|done].
Qed.
End cache.

(** ** Properties *)

(** C20. The hash table is a finite map.  A table made for any expected number of
    entries and driven by any sequence of insertions, lookups, deletions, resets and
    iterations answers as the map does: whether a key was there, the value stored last
    for it, and in an iteration every entry once.  Every loop ends, no access leaves
    the block, no [Assert] fails and the table grows whenever it has to, in all up to a
    hundred million operations. *)
Theorem simplehash_refines_map {V} (zero_value : V) nelements (os : list (@op V)) :
  0 <= nelements <= 2 ^ 30 -> Z.of_nat (List.length os) <= 100000000 ->
  exists tb0 tb answers m,
    listsort_cache_create zero_value nelements = Ok tb0 /\ run_ops zero_value tb0 os = Ok (tb, answers) /\
    map_ops ∅ os m answers /\ wf hash_of tb m.
Proof.
  intros Hn Hos. destruct (create_ok zero_value nelements Hn) as (tb0 & E0 & Hwf0).
  destruct (run_ops_ok zero_value os tb0 ∅ Hwf0) as (tb & answers & m & E & Hm & Hwf).
  { rewrite (ok_members _ _ _ (proj1 Hwf0)), map_size_empty. unfold capacity. lia. }
  by exists tb0, tb, answers, m.
Qed.

Definition sample_ops : list op :=
  [OInsert 4096 1; OInsert 8192 2; OInsert 4096 3; OInsert 12288 4; OLookup 4096; ODelete 8192; OLookup 8192; OIterate].

Lemma simplehash_refines_map_witness :
  exists tb0 tb answers m,
    listsort_cache_create 0 2 = Ok tb0 /\ run_ops 0 tb0 sample_ops = Ok (tb, answers) /\
    map_ops ∅ sample_ops m answers /\ wf hash_of tb m.
Proof. apply (simplehash_refines_map 0 2 sample_ops); [split; vm_compute; discriminate|vm_compute; discriminate]. Defined.

Example sample_answers :
  (let* tb := listsort_cache_create 0 2 in let* r := run_ops 0 tb sample_ops in Ok r.2) =
  Ok [AInsert false; AInsert false; AInsert true; AInsert false; ALookup (Some 3); ADelete true; ALookup None;
      AIterate [(12288, 4); (4096, 3)]].
Proof. by vm_compute. Qed.

(** ** The largest tables *)

(** [SH_GROW] takes the new size as an [uint32]: doubled from [2 ^ 31] it is zero, and
    the [Assert(oldsize < newsize)] fails.  So the size that the code compares with
    [SH_MAX_SIZE] is never reached by growth. *)
Lemma growth_wraps {V} (zero_value : V) (tb : hash_table) : tb.(size) = 2 ^ 31 ->
  SH_GROW SH_HASH_KEY sizeof_entry 0 zero_value tb (wrap32 (tb.(size) * 2)) = Undef.
Proof. intros E. unfold SH_GROW. by rewrite E. Qed.

(** A table that is created for so many entries has the mask zero, so that all keys
    belong to one bucket, and no second bucket follows it. *)
Lemma largest_mask (tb : @hash_table Z Z) :
  exists tb', SH_COMPUTE_PARAMETERS sizeof_entry tb (2 ^ 31 + 1) = Ok tb' /\ tb'.(sizemask) = 0 /\
    SH_NEXT tb' 0 0 = Undef.
Proof. eexists. split; [by vm_compute|]. by split. Qed.
